(* ===== verification/_CoqProject ===== *)
-Q . S2P
Prelude.v
Machine.v
Ir.v
Float.v
FloatOrder.v
FloatExact.v
Reader.v
Varint.v
Utf8.v
Buffer.v
Wire.v
Nbt.v
PacketTypes.v
Switch.v
Recursion.v
PlayPackets.v
PlayPacketsOut.v
LoginPackets.v
ItemTypes.v
Items.v
EntityData.v
CommandNodes.v
Displays.v
PlayPacketsSwitch.v
ItemLaws.v
PlayPacketsSwitchOut.v
PacketTable.v
PacketStates.v
Protocol.v
Typed.v
ItemTyped.v
PacketTyped.v
Text.v
TextJson.v
Entity.v
Players.v
ChunkBatch.v
Codec.v
Cipher.v
Errors.v
Socks5.v
Connection.v
Link.v
ResourcePack.v
ServerHash.v
Inventory.v
Gui.v
Scoreboard.v
ScoreboardWire.v
Hud.v
HudWire.v
Presentation.v
PresentationWire.v
Queue.v
Event.v
Dispatcher.v
Routing.v
Worker.v
Registry.v
Palette.v
Dimension.v
Join.v
Chunk.v
ChunkStore.v
World.v
SharedWorld.v
Physics.v
CollisionTables.v
Control.v
Backoff.v
Supervisor.v
InventoryCall.v
Player.v
CollisionLaws.v
Steering.v
PlayWire.v
Play.v
PlayProtocol.v
PlayInvariant.v
PlayErrors.v
