(* ===== verification/Prelude.v ===== *)
(** * MineRider: a verification of the client's core

    MineRider ([src/]) is a headless Minecraft client in Rust that runs many
    bots in one process.  This library models the parts of it that decide what
    goes on the wire and what the bots believe, and proves what they promise.

    ** The program and this library

    Bytes to packets, crate [crates/minerider-protocol]:
    - [Float]: the f32 and f64 operations the client uses, on bit patterns;
      [FloatOrder]: the order they induce and the sign of a difference;
      [FloatExact]: when a sum is exact, and what rounding to an integer does;
    - [Machine]: fixed-width integers, bytes, big- and little-endian forms (the
      primitives of Rust the crate relies on);
    - [Reader]: [error.rs] and the fixed-width half of [buffer.rs] (the
      [PacketReader] cursor and the [PacketWriter] buffer);
    - [Varint]: [varint.rs], [varlong.rs]; [Utf8]: Rust's UTF-8 validation;
    - [Buffer]: strings, identifiers, arrays and block positions of [buffer.rs];
    - [Wire]: the [Encode]/[Decode] implementations of [traits.rs] and the
      registry holders of [holder.rs];
    - [PacketTypes], [PlayPackets], [PlayPacketsOut], [LoginPackets]: the
      generated packets ([generated/v1_21_4]) whose fields are in a fixed
      order, one record and one codec per struct;
    - [Switch]: fields selected by an earlier field, counted arrays and flags,
      the shapes the rest of the generated code is made of; [Recursion]:
      decoders that call themselves; on them [ItemTypes] and [Items] (item
      slots and their components), [EntityData] (particles and entity
      metadata), [CommandNodes], [Displays] (recipe displays) and
      [PlayPacketsSwitch], [PlayPacketsSwitchOut] (the play packets with such
      fields); [ItemLaws]: the recursion and the checks of the item codec;
    - [PacketTable]: the id tables of [play.rs]; [PacketStates]: the packet
      enums of all five states, with the packets whose last field is the rest
      of the packet; [Typed], [ItemTyped], [PacketTyped]: the types of what
      the decoders return;
    - [Nbt]: [nbt.rs]; [Codec]: [codec.rs], [compression.rs], [packet.rs];
    - [Cipher]: [crypto/aes.rs].

    From the protocol to the packets, crate [crates/minerider-codegen]:
    - [Ir]: [model.rs] and [ir.rs], protocol descriptions, the extraction of
      their packet tables and the validation of their types;
    - [Protocol]: the vendored description, and that the tables it is built
      into are those of [PacketStates].

    The connection, [src/network] and [src/auth]:
    - [Errors]: [src/core/error.rs] and the error types of [socks5.rs];
    - [Socks5]: [src/network/socks5.rs], the proxy negotiation;
    - [Connection]: [src/network/connection.rs], which composes frame codec,
      cipher, timeouts and write poisoning;
    - [ServerHash]: [src/auth/server_hash.rs];
    - [Link]: what the stages below need of a connection, as a class, and the
      log of a conversation; [Connection] is an instance;
    - [Join]: [handshake.rs], [login.rs], the loop of [configuration.rs] and
      [connect_stages] of [src/core/client.rs]; [ResourcePack]:
      [resource_pack.rs].

    What a session believes, [src/minecraft]:
    - [Inventory]: [inventory.rs] (windows, click transactions, drags);
      [Gui]: [gui.rs], windows and items as a script sees them;
    - [Scoreboard]: the state of [scoreboard.rs]; [ScoreboardWire]: its packets
      ([generated/v1_21_4/play.rs]) and their conversion;
    - [Text]: [text.rs], text components from NBT and their rendering;
      [TextJson]: the same from JSON;
    - [Hud], [HudWire]: [hud.rs]; [Presentation], [PresentationWire]:
      [presentation.rs];
    - [Entity]: [entity.rs]; [Players]: [players.rs] and the decoder of the
      player_info packet; [ChunkBatch]: [chunk_batch.rs];
    - [Physics]: [physics.rs], boxes and the clipping of movement;
      [CollisionTables]: [collision_data.rs], the boxes of every block state;
      [CollisionLaws]: what the queries over them find;
    - [Dimension]: the dimension registry of [configuration.rs];
    - [Palette]: paletted containers and chunk sections of [world.rs];
    - [Chunk]: chunk snapshots, their equality and fingerprint
      ([shared_world.rs]); [ChunkStore]: the shared weak table of them;
    - [World]: the storage and lookups of [world.rs]; [SharedWorld]: many
      clients over one store, against the specification of a client alone.

    A play session, [src/minecraft]:
    - [Control]: the commands of [control.rs], their validation, the keys a
      controller holds; [Steering]: its [drive], walk goals and random looks;
    - [Player]: [player.rs], the player's state, its movement reports and one
      tick of its physics;
    - [PlayWire]: the codecs of the play packets with discriminated fields
      that the session uses;
    - [Play]: [play.rs], which composes all of the above: every packet
      handler, every command, the tick, and the loop that interleaves them
      ([Play.run_play] over a list of inputs: a packet is read, a command
      arrives, the clock ticks);
    - [PlayProtocol]: the protocol as a monitor of the link, and that [Play]
      refines it; [PlayInvariant]: what every session keeps true;
      [PlayErrors]: packets that cannot end a session, and sample sessions.

    One bot's life, [src/core]:
    - [Backoff]: the retry policy and the back-off delay of [supervisor.rs];
    - [Supervisor]: its run loop and [send_command] as interleaved actions;
      [InventoryCall]: an inventory click and the wait for its outcome.

    The scripting runtime, [src/lua]:
    - [Queue]: [queue.rs] (bounded FIFO, three-lane priority queue);
    - [Event]: [event.rs] (work items, names and lanes);
    - [Dispatcher]: [dispatcher.rs] ([WorkerQueue]) and the loop of
      [run_worker] in [worker.rs], as interleaved atomic actions;
    - [Routing]: [DispatcherHandle] of [dispatcher.rs];
    - [Worker]: what a worker does with its batches ([worker.rs],
      [api/timers.rs]), over a Lua machine that is a parameter;
    - [Registry]: [registry.rs] (servers, bots, groups).

    ** How the code is modelled

    A method that takes [&mut self] and returns a [Result] is a function from
    the state to a result and the state left behind ([M] below); an infallible
    one returns its value and the new state.  Both keep what was written before
    an error.  Integers are [Z] with their wrap-around written out where it can
    happen; lengths that a peer chooses stay in [Z], so that no definition
    builds a list of a hostile length.  Maps whose order does not show are
    [gmap]s; where the code keeps an order ([VecDeque], insertion order of
    keys) it is a list.  Texts only a human reads (log lines, formatted
    reasons) are not kept.  Code outside the repository is a parameter: zlib
    ([Codec.Zlib] with [ZlibLaws]), the AES block function, SHA-1, the JSON
    reader, the random numbers of the controller and [powi].  The item slot
    type, the text type of the scoreboard and the payload of script messages
    are type parameters; a play session takes its libraries as a record
    ([Play.Library]) and what one input draws from outside (clocks, downloads,
    entropy) as another ([Play.Moment]).  The network is a script of events ([Connection.socket],
    [Socks5.stream]): what arrives in which pieces, where a timeout or an error
    strikes, how much of a failed write went out.

    Few recursions are not structural.  [Nbt.read_payload] takes fuel 66: the
    depth check refuses nesting beyond 64, and [Nbt.nbt_decode_fuel_irrelevant]
    shows more fuel changes nothing.  [Registry.allocate_loop] takes one pass
    more than there are bots, which [Registry.allocate_loop_spec] shows to be
    enough.  [Text.parse] takes one unit per level of nesting, which
    [Text.parse_fuel] shows to be enough.  The recursive decoders take one unit
    per unread byte ([Recursion.knot]), which [Recursion.knot_fuel] shows to be
    enough: every level reads a byte.  [Ir.loop_container] takes one step
    more than there are names, and [Ir.loop_fuel_exact] shows that it then runs
    out exactly when the recursion of the code never ends.  The VarInt loops run over their fixed number of bytes.

    ** What the theorems show

    - Wire formats: VarInts, strings, identifiers, positions, collections,
      holders, NBT and frames read back what was written, consume exactly its
      bytes and never leave the buffer; the NBT decoder accepts exactly the
      encodings of values within its limits; the frame-length scan agrees with
      the VarInt reader, waits on every incomplete frame, and bounds what a
      peer can make the client hold; every packet of every state survives its
      generated encoder and decoder, and whatever packet of any state is
      decoded is within its types; reading an item opens at most one call for
      every five bytes, and that bound is reached
      ([ItemLaws.item_nesting_unbounded]).
    - Generation: an accepted description is well formed everywhere but in the
      elements of terminated loops ([Ir.loop_fields_unchecked]), its tables
      are exactly those it describes, and those of the vendored protocol are
      the tables proved to survive the wire.
    - Channel: CFB8 survives any cutting of the stream; two connected ends
      deliver every packet once and in order whatever TCP does, with or without
      compression and encryption; a timed-out write poisons the connection and
      nothing else does.
    - Proxy: the negotiation succeeds exactly on the accepting replies, and
      credentials and the CONNECT request leave only when the protocol allows.
    - Session state: inventory and scoreboard stay within their bounds and
      consistent under every sequence of calls; clicks are all-or-nothing,
      drags are well-formed, expiry and closing end exactly the transactions
      they should, a view shows what the server sent, members belong to one team, removal cascades, a rejected
      update changes nothing.
    - Text and presentation: a component tree stays within its byte budget, and
      within its node budget but for component arrays
      ([Text.component_array_unbounded]); the JSON and NBT parsers agree; the
      HUD stays consistent and its events tell the truth; the chat history is
      the last 512 messages, numbered.
    - World: a block update changes exactly its block, a block entity update
      exactly its entity; interning shares equal payloads, stays within its
      bounds and evicts in order of insertion; no client can tell that it
      shares chunks with others; the collision tables are sound and a query
      over them exact for boxes within their block, though not for the taller
      boxes of fences ([CollisionLaws.fence_missed]).
    - Play: the session refines the protocol monitor, so every request of the
      server is answered once, first and with the right bytes, and reports
      come only from a living player in a loaded world; a player list packet
      sets exactly the fields it names; all component invariants hold
      together in every reachable session and the components agree; a cosmetic
      packet never ends it; the server's view of the player never lags by more
      than the movement threshold or twenty ticks; clipped movement stops at
      the nearest obstacle, for all floating-point values.
    - Lifecycle: every command is answered once and runs only in the session it
      names, an inventory click reports what became of that click, retries
      follow the policy, a stop request ends the run loop.
    - Runtime: a drain is the specified sequence, no item is lost without being
      counted, and under every interleaving of producers, worker and shutdown
      no action completion is lost or duplicated, except that a push overtaken
      by the shutdown can be accepted after the worker left
      ([Dispatcher.accepted_after_worker_left]); one bot's events
      reach one worker in order; a worker runs the handlers of an event in
      order, ends every callback once, and gives a disabled script nothing but
      the results of its actions ([Worker.disabled_script_still_runs]),
      though a callback that acts with a callback of its own panics
      ([Worker.chained_callback_panics]); the registry stays consistent and hands out
      free ids.

    ** What is not modelled

    RSA and authentication over HTTP (calls into libraries and a web service),
    the Lua bindings and the sandbox (glue to an interpreter), tracing and
    benchmarks, the command-line programs, and the emission of source by the
    code generator, which is modelled as emitted; log lines, debug dumps and the names of packets, which
    only a human reads.

    This file holds the monad, its lemmas and the automation all components
    share. *)

From stdpp Require Export base tactics numbers list strings pretty gmap sets fin_maps.
From Stdlib Require Export ZArith Lia Strings.Byte.

#[export] Set Default Goal Selector "!".

(** ** Results

    Rust's [Result<A, E>]. *)

Inductive result (E A : Type) : Type :=
  | Ok (a : A)
  | Err (e : E).
Arguments Ok {E A} a.
Arguments Err {E A} e.

Definition is_ok {E A} (r : result E A) : bool :=
  match r with Ok _ => true | Err _ => false end.

(** Propagation with [?] inside a function that returns a [Result] and keeps
    no mutable state. *)
Definition rbind {E A B} (r : result E A) (k : A → result E B) : result E B :=
  match r with Ok a => k a | Err e => Err e end.

(** Rust's [map_err] / [From] conversion applied by [?]. *)
Definition map_err {E F A} (f : E → F) (r : result E A) : result F A :=
  match r with Ok a => Ok a | Err e => Err (f e) end.

(** ** Stateful fallible code

    A method taking [&mut self] and returning a [Result] is a function from
    the state to a result and the state left behind.  The state survives an
    error: what the method wrote before it failed stays written. *)

Definition M (S E A : Type) : Type := S → result E A * S.

Definition ret {S E A} (a : A) : M S E A := λ s, (Ok a, s).
Definition raise {S E A} (e : E) : M S E A := λ s, (Err e, s).
Definition bind {S E A B} (m : M S E A) (k : A → M S E B) : M S E B :=
  λ s, match m s with
       | (Ok a, s') => k a s'
       | (Err e, s') => (Err e, s')
       end.
(** A read of the state, and an infallible update of it. *)
Definition gets {S E A} (f : S → A) : M S E A := λ s, (Ok (f s), s).
Definition modify {S E} (f : S → S) : M S E unit := λ s, (Ok tt, f s).
(** A pure [Result] used inside a stateful function. *)
Definition lift {S E A} (r : result E A) : M S E A := λ s, (r, s).
(** [r.map_err(f)?] on a stateful call. *)
Definition m_map_err {S E F A} (f : E → F) (m : M S E A) : M S F A :=
  λ s, let '(r, s') := m s in (map_err f r, s').

Declare Scope eff_scope.
Delimit Scope eff_scope with eff.

Notation "'let*' x ':=' m 'in' k" := (bind m (λ x, k))
  (at level 10, x pattern, m at level 200, k at level 200,
   format "'let*'  x  ':='  m  'in' '//' k") : eff_scope.
Notation "m ';;;' k" := (bind m (λ _, k))
  (at level 190, right associativity) : eff_scope.
Notation "'let?' x ':=' r 'in' k" := (rbind r (λ x, k))
  (at level 10, x pattern, r at level 200, k at level 200,
   format "'let?'  x  ':='  r  'in' '//' k") : eff_scope.
Open Scope eff_scope.

(** [for _ in 0..n { out.push(m()?) }]. *)
Fixpoint repeat_m {S E A} (n : nat) (m : M S E A) : M S E (list A) :=
  match n with
  | O => ret []
  | S n => let* a := m in let* l := repeat_m n m in ret (a :: l)
  end.

(** [for x in xs { m(x)? }]. *)
Definition iter_m {S E A} (m : A → M S E unit) : list A → M S E unit :=
  fix go xs :=
    match xs with
    | [] => ret tt
    | x :: xs => m x ;;; go xs
    end.

(** ** Lemmas on the monad *)

Lemma rbind_Ok_inv {E A B} (r : result E A) (k : A → result E B) b :
  rbind r k = Ok b → ∃ a, r = Ok a ∧ k a = Ok b.
Proof. destruct r; simpl; [eauto|done]. Qed.

Section monad.
Context {S E : Type}.
Implicit Types s : S.

Lemma bind_Ok {A B} (m : M S E A) (k : A → M S E B) s a s' :
  m s = (Ok a, s') → bind m k s = k a s'.
Proof. unfold bind. by intros ->. Qed.

Lemma bind_Err {A B} (m : M S E A) (k : A → M S E B) s e s' :
  m s = (Err e, s') → bind m k s = (Err e, s').
Proof. unfold bind. by intros ->. Qed.

Lemma bind_Ok_inv {A B} (m : M S E A) (k : A → M S E B) s b s' :
  bind m k s = (Ok b, s') → ∃ a s1, m s = (Ok a, s1) ∧ k a s1 = (Ok b, s').
Proof. unfold bind. destruct (m s) as [[a|e] s1]; naive_solver. Qed.

Lemma bind_assoc {A B C} (m : M S E A) (k : A → M S E B) (h : B → M S E C) s :
  bind (bind m k) h s = bind m (λ a, bind (k a) h) s.
Proof. unfold bind. by destruct (m s) as [[a|e] s1]. Qed.

(** Results of related runs are related: the tool for invariants of readers
    and writers on every path, errors included. *)
Definition preserves {A} (R : S → S → Prop) (m : M S E A) : Prop :=
  ∀ s, R s (m s).2.

Lemma preserves_ret {A} (R : S → S → Prop) `{!Reflexive R} (a : A) :
  preserves R (ret a).
Proof. intros s. by simpl. Qed.

Lemma preserves_raise {A} (R : S → S → Prop) `{!Reflexive R} (e : E) :
  preserves R (raise e : M S E A).
Proof. intros s. by simpl. Qed.

Lemma preserves_gets {A} (R : S → S → Prop) `{!Reflexive R} (f : S → A) :
  preserves R (gets f : M S E A).
Proof. intros s. by simpl. Qed.

Lemma preserves_lift {A} (R : S → S → Prop) `{!Reflexive R} (r : result E A) :
  preserves R (lift r).
Proof. intros s. by simpl. Qed.

Lemma preserves_bind {A B} (R : S → S → Prop) `{!Transitive R}
    (m : M S E A) (k : A → M S E B) :
  preserves R m → (∀ a, preserves R (k a)) → preserves R (bind m k).
Proof.
  intros Hm Hk s. unfold bind. specialize (Hm s).
  destruct (m s) as [[a|e] s1]; simpl in *; [|done].
  by etrans; [|apply Hk].
Qed.

Lemma preserves_repeat_m {A} (R : S → S → Prop) `{!PreOrder R} n (m : M S E A) :
  preserves R m → preserves R (repeat_m n m).
Proof.
  intros Hm. induction n as [|n IH]; simpl; [apply preserves_ret; apply _|].
  apply preserves_bind; [apply _|done|]. intros a.
  apply preserves_bind; [apply _|done|]. intros l. apply preserves_ret. apply _.
Qed.

(** What every successful run of [m] returns. *)
Definition yields {A} (m : M S E A) (Q : A → Prop) : Prop := ∀ s a s', m s = (Ok a, s') → Q a.

Lemma yields_ret {A} (a : A) (Q : A → Prop) : Q a → yields (ret a) Q.
Proof. intros HQ s a' s' [= <- <-]. done. Qed.

Lemma yields_raise {A} (e : E) (Q : A → Prop) : yields (raise e) Q.
Proof. by intros s a s'. Qed.

Lemma yields_bind {A B} (m : M S E A) (k : A → M S E B) P Q :
  yields m P → (∀ a, P a → yields (k a) Q) → yields (bind m k) Q.
Proof. intros Hm Hk s b s' (a & s1 & Ha & Hb)%bind_Ok_inv. eapply Hk; [|exact Hb]. by eapply Hm. Qed.

Lemma yields_repeat_m {A} n (m : M S E A) Q : yields m Q → yields (repeat_m n m) (λ l, length l = n ∧ Forall Q l).
Proof.
  intros Hm. induction n as [|n IH]; simpl; [by apply yields_ret|].
  eapply yields_bind; [exact Hm|]. intros a Ha. eapply yields_bind; [exact IH|]. intros l [Hl HF].
  apply yields_ret. simpl. auto.
Qed.

Lemma repeat_m_length {A} n (m : M S E A) s l s' :
  repeat_m n m s = (Ok l, s') → length l = n.
Proof.
  revert s l s'. induction n as [|n IH]; intros s l s'; simpl.
  - unfold ret. naive_solver.
  - intros (a & s1 & _ & H)%bind_Ok_inv.
    apply bind_Ok_inv in H as (l' & s2 & Hl & H).
    unfold ret in H. simplify_eq. simpl. by erewrite IH.
Qed.
End monad.

(** ** Automation

    [mauto] decomposes a [preserves] goal along the structure of the
    program; the databases hold one lemma per operation. *)

Create HintDb preserves discriminated.
Create HintDb wire discriminated.
#[export] Hint Resolve preserves_ret preserves_raise preserves_gets
  preserves_lift preserves_repeat_m : preserves.
#[export] Hint Extern 4 (Reflexive _) => apply _ : preserves.
#[export] Hint Extern 4 (PreOrder _) => apply _ : preserves.

Ltac mauto :=
  repeat match goal with
  | |- preserves _ (bind _ _) => apply preserves_bind; [apply _| |intros ?]
  | |- preserves _ (match ?x with _ => _ end) => destruct x
  | |- preserves _ (let _ := _ in _) => cbv zeta
  | |- preserves _ _ => solve [eauto with preserves]
  end.

(** Case analysis on every boolean test and match that blocks a goal or a
    hypothesis, with contradictory branches closed. *)
Ltac case_all :=
  repeat (case_match || case_decide || simplify_eq/=); simplify_eq/=.

(** ** Lists *)

Section lists.
Context {A : Type}.
Implicit Types l k : list A.

Lemma take_app_exact l k n : length l = n → take n (l ++ k) = l.
Proof. intros <-. by rewrite take_app_length. Qed.

Lemma drop_app_exact l k n : length l = n → drop n (l ++ k) = k.
Proof. intros <-. by rewrite drop_app_length. Qed.

Lemma drop_app_plus l k n m : length l = n → drop (n + m) (l ++ k) = drop m k.
Proof. intros <-. by rewrite drop_app_add. Qed.
End lists.

(** The last [n] elements: what a bounded history that evicts its oldest
    entry keeps. *)
Definition last_n {A} (n : nat) (l : list A) : list A := drop (length l - n) l.

Section last_n.
Context {A : Type}.
Implicit Types l : list A.

Lemma last_n_length n l : length (last_n n l) = length l `min` n.
Proof. unfold last_n. rewrite length_drop. lia. Qed.

Lemma last_n_snoc_full n l x : 0 < n ≤ length l → last_n n (l ++ [x]) = tail (last_n n l) ++ [x].
Proof.
  intros Hn. unfold last_n. rewrite length_app, drop_app_le by (simpl; lia).
  replace (length l + length [x] - n) with (S (length l - n)) by (simpl; lia).
  f_equal.
  by rewrite <- Nat.add_1_r, <- drop_drop; destruct (drop (length l - n) l).
Qed.

Lemma last_n_snoc_room n l x : length l < n → last_n n (l ++ [x]) = last_n n l ++ [x].
Proof.
  intros Hn. unfold last_n. rewrite length_app. simpl.
  by replace (length l + 1 - n) with 0 by lia; replace (length l - n) with 0 by lia.
Qed.
End last_n.

(** [Vec::push] on a list kept in order. *)
Definition push {A} (l : list A) (a : A) : list A := l ++ [a].

(** One bit of a set of flags. *)
Lemma flag_bit (flags n : Z) : (0 ≤ n)%Z → negb (Z.land flags (2 ^ n) =? 0)%Z = Z.testbit flags n.
Proof.
  intros Hn. destruct (Z.testbit flags n) eqn:Hb.
  - apply negb_true_iff, Z.eqb_neq. intros H. apply (f_equal (λ z, Z.testbit z n)) in H.
    rewrite Z.land_spec, Hb, Z.pow2_bits_true, Z.bits_0 in H by lia. done.
  - apply negb_false_iff, Z.eqb_eq, Z.bits_inj'. intros m Hm. rewrite Z.land_spec, Z.bits_0, Z.pow2_bits_eqb by lia.
    destruct (Z.eqb_spec n m) as [<-|]; [by rewrite Hb|apply andb_false_r].
Qed.

(** Elements with the same image are equal when the images are distinct. *)
Lemma NoDup_map_inj {A B} (f : A → B) l x y :
  NoDup (map f l) → x ∈ l → y ∈ l → f x = f y → x = y.
Proof.
  induction l as [|a l IH]; simpl; [by intros _ ?%not_elem_of_nil|]. intros [Ha Hl]%NoDup_cons.
  intros [->|Hx]%elem_of_cons [->|Hy]%elem_of_cons Heq; [done| | |by apply IH].
  - destruct Ha. rewrite Heq. by apply list_elem_of_fmap_2.
  - destruct Ha. rewrite <- Heq. by apply list_elem_of_fmap_2.
Qed.

Lemma bool_decide_if_ext {A} P Q `{Decision P, Decision Q} (a b : A) :
  (P ↔ Q) → (if bool_decide P then a else b) = (if bool_decide Q then a else b).
Proof. intros HPQ. by rewrite (bool_decide_ext P Q HPQ). Qed.
