(* ===== verification/Machine.v ===== *)
(** * Machine integers and bytes

    Rust's fixed-width integers as [Z] with the wrap-around of [as] casts
    written out, bytes, and the big-endian byte order of
    [to_be_bytes]/[from_be_bytes]. *)

From S2P Require Import Prelude.

Local Open Scope Z_scope.

(** ** Widths *)

(** Reduction to [w] unsigned bits: a cast to [u8], [u16], [u32], ... *)
Definition wrap (w z : Z) : Z := z `mod` 2 ^ w.

(** Reduction to [w] bits in two's complement: a cast to [i8], [i16], ... *)
Definition swrap (w z : Z) : Z := (z + 2 ^ (w - 1)) `mod` 2 ^ w - 2 ^ (w - 1).

Definition in_u (w z : Z) : Prop := 0 ≤ z < 2 ^ w.
Definition in_i (w z : Z) : Prop := - 2 ^ (w - 1) ≤ z < 2 ^ (w - 1).

#[export] Instance in_u_dec w z : Decision (in_u w z).
Proof. unfold in_u. apply _. Defined.
#[export] Instance in_i_dec w z : Decision (in_i w z).
Proof. unfold in_i. apply _. Defined.

Definition i32_max : Z := 2147483647.
Definition i32_min : Z := -2147483648.
Definition u32_max : Z := 4294967295.
Definition u16_max : Z := 65535.

(** Saturating subtraction on an unsigned type. *)
Definition saturating_sub (a b : Z) : Z := Z.max 0 (a - b).

(** Rust's [saturating_add] on a [w]-bit unsigned integer. *)
Definition saturating_add (w a b : Z) : Z := Z.min (2 ^ w - 1) (a + b).

Lemma pow2_split w : 0 < w → 2 ^ w = 2 * 2 ^ (w - 1).
Proof. intros Hw. rewrite <- Z.pow_succ_r by lia. f_equal. lia. Qed.

Lemma pow2_pos w : 0 ≤ w → 0 < 2 ^ w.
Proof. intros. by apply Z.pow_pos_nonneg. Qed.

Lemma wrap_range w z : 0 ≤ w → in_u w (wrap w z).
Proof. intros. apply Z.mod_pos_bound. by apply pow2_pos. Qed.

Lemma wrap_small w z : in_u w z → wrap w z = z.
Proof. intros. by apply Z.mod_small. Qed.

Lemma swrap_range w z : 0 < w → in_i w (swrap w z).
Proof.
  intros Hw. unfold in_i, swrap. pose proof (pow2_split w Hw).
  pose proof (Z.mod_pos_bound (z + 2 ^ (w - 1)) (2 ^ w) (pow2_pos w ltac:(lia))). lia.
Qed.

Lemma swrap_small w z : 0 < w → in_i w z → swrap w z = z.
Proof.
  unfold in_i, swrap. intros Hw Hz. pose proof (pow2_split w Hw).
  rewrite Z.mod_small by lia. lia.
Qed.

(** A value survives the cast to the unsigned type of its width and back. *)
Lemma swrap_wrap w z : 0 < w → in_i w z → swrap w (wrap w z) = z.
Proof.
  intros Hw Hz. unfold swrap, wrap. rewrite Z.add_mod_idemp_l by (pose proof (pow2_pos w); lia).
  by apply swrap_small.
Qed.

Lemma wrap_swrap w z : 0 < w → in_u w z → wrap w (swrap w z) = z.
Proof.
  intros Hw Hz. unfold wrap, swrap. pose proof (pow2_pos w ltac:(lia)).
  rewrite Zminus_mod_idemp_l.
  replace (z + 2 ^ (w - 1) - 2 ^ (w - 1)) with z by lia. by apply wrap_small.
Qed.

(** ** Bytes *)

Definition u8 (b : byte) : Z := Z.of_N (Byte.to_N b).

(** [z as u8] *)
Definition byte_of_Z (z : Z) : byte :=
  match Byte.of_N (Z.to_N (z `mod` 256)) with Some b => b | None => x00 end.

Lemma u8_range b : 0 ≤ u8 b < 256.
Proof. unfold u8. pose proof (Byte.to_N_bounded b). lia. Qed.

Lemma byte_of_u8 b : byte_of_Z (u8 b) = b.
Proof.
  unfold byte_of_Z. rewrite Z.mod_small by apply u8_range.
  unfold u8. by rewrite N2Z.id, Byte.of_to_N.
Qed.

Lemma u8_of_Z z : u8 (byte_of_Z z) = z `mod` 256.
Proof.
  unfold byte_of_Z. pose proof (Z.mod_pos_bound z 256 ltac:(lia)).
  destruct (Byte.of_N _) as [b|] eqn:Hb.
  - apply Byte.to_of_N in Hb. unfold u8. rewrite Hb, Z2N.id; lia.
  - apply Byte.of_N_None_iff in Hb. lia.
Qed.

Lemma u8_of_Z_small z : in_u 8 z → u8 (byte_of_Z z) = z.
Proof. intros Hz. rewrite u8_of_Z. by apply Z.mod_small. Qed.

#[export] Instance u8_inj : Inj (=) (=) u8.
Proof. intros a b H. by rewrite <- (byte_of_u8 a), <- (byte_of_u8 b), H. Qed.

#[export] Instance byte_eq_dec : EqDecision byte.
Proof.
  intros a b. refine (cast_if (decide (u8 a = u8 b))); [by apply (inj u8)|congruence].
Defined.

(** ** Big-endian byte order *)

Fixpoint le_bytes (n : nat) (z : Z) : list byte :=
  match n with
  | O => []
  | S n => byte_of_Z z :: le_bytes n (z / 256)
  end.

Fixpoint le_value (bs : list byte) : Z :=
  match bs with
  | [] => 0
  | b :: bs => u8 b + 256 * le_value bs
  end.

(** [to_be_bytes] of an [n]-byte integer and the unsigned [from_be_bytes]. *)
Definition be_bytes (n : nat) (z : Z) : list byte := reverse (le_bytes n z).
Definition be_value (bs : list byte) : Z := le_value (reverse bs).

Lemma le_bytes_length n z : length (le_bytes n z) = n.
Proof. revert z. induction n; intros z; simpl; congruence. Qed.

Lemma be_bytes_length n z : length (be_bytes n z) = n.
Proof. unfold be_bytes. by rewrite length_reverse, le_bytes_length. Qed.

Lemma le_value_bytes n z : le_value (le_bytes n z) = z `mod` 2 ^ (8 * Z.of_nat n).
Proof.
  revert z. induction n as [|n IH]; intros z; simpl le_bytes; simpl le_value.
  - by rewrite Z.mod_1_r.
  - rewrite IH, u8_of_Z. replace (8 * Z.of_nat (S n)) with (8 + 8 * Z.of_nat n) by lia.
    rewrite Z.pow_add_r by lia. change (2 ^ 8) with 256.
    by rewrite Z.rem_mul_r by (pose proof (pow2_pos (8 * Z.of_nat n)); lia).
Qed.

Lemma be_value_bytes n z : be_value (be_bytes n z) = z `mod` 2 ^ (8 * Z.of_nat n).
Proof. unfold be_value, be_bytes. by rewrite reverse_involutive, le_value_bytes. Qed.

Lemma le_value_range bs : 0 ≤ le_value bs < 2 ^ (8 * Z.of_nat (length bs)).
Proof.
  induction bs as [|b bs IH]; simpl le_value; [simpl; lia|].
  pose proof (u8_range b). simpl length. replace (8 * Z.of_nat (S (length bs))) with (8 + 8 * Z.of_nat (length bs)) by lia.
  rewrite Z.pow_add_r by lia. change (2 ^ 8) with 256. lia.
Qed.

Lemma be_value_range bs : 0 ≤ be_value bs < 2 ^ (8 * Z.of_nat (length bs)).
Proof. unfold be_value. rewrite <- (length_reverse bs). apply le_value_range. Qed.

Lemma le_bytes_value bs : le_bytes (length bs) (le_value bs) = bs.
Proof.
  induction bs as [|b bs IH]; simpl; [done|]. f_equal.
  - rewrite <- (byte_of_u8 b) at 2. apply (inj u8). rewrite !u8_of_Z, Z.mul_comm, Z.mod_add by lia.
    done.
  - pose proof (u8_range b).
    assert ((u8 b + 256 * le_value bs) / 256 = le_value bs) as ->; [|done].
    symmetry. apply (Z.div_unique _ _ _ (u8 b)); lia.
Qed.

Lemma be_bytes_value bs : be_bytes (length bs) (be_value bs) = bs.
Proof.
  unfold be_bytes, be_value. rewrite <- (length_reverse bs), le_bytes_value.
  apply reverse_involutive.
Qed.

Lemma be_bytes_wrap n z : be_bytes n (wrap (8 * Z.of_nat n) z) = be_bytes n z.
Proof.
  rewrite <- (be_bytes_value (be_bytes n z)), be_value_bytes, be_bytes_length. done.
Qed.

(** ** Bits *)

(** Joining a low part with a shifted high part: [lo | (hi << k)]. *)
Lemma lor_shiftl_add lo hi k :
  0 ≤ k → 0 ≤ lo < 2 ^ k → Z.lor lo (Z.shiftl hi k) = lo + hi * 2 ^ k.
Proof.
  intros Hk Hlo. rewrite <- Z.shiftl_mul_pow2 by lia.
  rewrite <- Z.lxor_lor; [symmetry; apply Z.add_nocarry_lxor|].
  all: apply Z.bits_inj'; intros i Hi; rewrite Z.land_spec, Z.bits_0.
  all: destruct (decide (i < k));
    [rewrite Z.shiftl_spec_low by lia; apply andb_false_r|].
  all: rewrite <- (Z.mod_small lo (2 ^ k)), Z.mod_pow2_bits_high by lia; done.
Qed.

Lemma land_127 z : Z.land z 127 = z `mod` 128.
Proof. apply (Z.land_ones z 7). lia. Qed.

(** The continuation bit of a byte. *)
Lemma land_128_u8 z : 0 ≤ z < 256 → (Z.land z 128 =? 0) = (z <? 128).
Proof.
  intros Hz. rewrite <- (u8_of_Z_small z Hz). by destruct (byte_of_Z z).
Qed.

Create Rewrite HintDb machine.
#[export] Hint Rewrite @length_app be_bytes_length le_bytes_length : machine.
