(* ===== verification/Ir.v ===== *)
(** * The code generator's intermediate representation

    [crates/minerider-codegen/src/model.rs] (protodef types) and [ir.rs]: how
    the packet tables are extracted from a protocol description and how its
    type graph is validated before code is generated from it.  A [BTreeMap] is
    the list of its entries in key order.  A failure is the context its
    message names and the problem; [Panicked] and [Endless] are a panic and a
    recursion that never ends, which the code has instead of some errors.

    The theorems: the packet table of an accepted description is exactly that
    of its mappings; in an accepted description every expression that
    generated code reads is well formed where it stands. *)

From Stdlib Require Import Ascii.
From S2P Require Import Prelude Machine.

Local Open Scope Z_scope.

(** ** Protodef types *)

Inductive ArrayCount : Type :=
  | Fixed (count : Z)
  | CountField (name : string).

Record BitfieldMember : Type := mkMember { bm_name : string; bm_size : Z; bm_signed : bool }.

Inductive TypeRef : Type :=
  | Named (name : string)
  | Inline (c : Complex)
with Complex : Type :=
  | Container (fields : list ContainerField)
  | ArrayOf (element : TypeRef) (count_type : option string) (count : option ArrayCount)
  | OptionOf (inner : TypeRef)
  | SwitchOn (compare_to : string) (fields : list (string * TypeRef)) (otherwise : option TypeRef)
  | MapperOf (ty : string) (mappings : list (string * string))
  | BufferOf (count_type : option string) (count : option Z)
  | Pstring (count_type : option string)
  | Bitfield (members : list BitfieldMember)
  | Bitflags (ty : string) (flags : list string)
  | TopBitSetTerminatedArray (element : TypeRef)
  | EntityMetadataLoop (end_val : Z) (element : TypeRef)
  | RegistryEntryHolder (base_name otherwise_name : string) (otherwise : TypeRef)
  | RegistryEntryHolderSet (base_name : string) (base : TypeRef) (otherwise_name : string) (otherwise : TypeRef)
with ContainerField : Type :=
  | mkField (name : option string) (anon : bool) (ty : TypeRef).

Definition field_name (f : ContainerField) : option string := let '(mkField name _ _) := f in name.
Definition field_anon (f : ContainerField) : bool := let '(mkField _ anon _) := f in anon.
Definition field_ty (f : ContainerField) : TypeRef := let '(mkField _ _ ty) := f in ty.

Inductive TypeDef : Type :=
  | Native
  | Alias (target : string)
  | Compound (c : Complex).

(** A [BTreeMap<String, A>]. *)
Definition btree (A : Type) : Type := list (string * A).
Definition bt_get {A} (m : btree A) (k : string) : option A :=
  snd <$> List.find (λ e, String.eqb (fst e) k) m.

Record DirectionSection : Type := mkSection { section_types : btree TypeDef }.
Record StateSection : Type := mkStateSection { to_client : DirectionSection; to_server : DirectionSection }.
Record ProtocolFile : Type := mkFile {
  file_types : btree TypeDef;
  handshaking : StateSection;
  status : StateSection;
  login : StateSection;
  configuration : StateSection;
  play : StateSection;
}.

(** ** The representation *)

Inductive State : Type := Handshaking | Status | Login | Configuration | Play.
Definition ALL : list State := [Handshaking; Status; Login; Configuration; Play].
Definition as_str (s : State) : string :=
  match s with
  | Handshaking => "handshaking"
  | Status => "status"
  | Login => "login"
  | Configuration => "configuration"
  | Play => "play"
  end.
#[export] Instance State_eq_dec : EqDecision State.
Proof. solve_decision. Defined.

Record PacketIr : Type := mkPacket { pk_id : Z; pk_name : string; pk_payload : string }.
Record DirectionIr : Type := mkDirection { local_types : btree TypeDef; packets : list PacketIr }.
Record StateIr : Type := mkStateIr { ir_state : State; clientbound : DirectionIr; serverbound : DirectionIr }.
Record Ir : Type := mkIr { shared_types : btree TypeDef; states : list StateIr }.

(** [DirectionIr::packet], [Ir::state_section] ([None] is its [expect]). *)
Definition packet (d : DirectionIr) (name : string) : option PacketIr :=
  List.find (λ p, String.eqb (pk_name p) name) (packets d).
Definition state_section (ir : Ir) (state : State) : option StateIr :=
  List.find (λ s, bool_decide (ir_state s = state)) (states ir).

(** ** Failures *)

Inductive Why : Type :=
  | MissingPacket
  | PacketNotContainer
  | PacketFieldCount
  | IdNotMapper
  | ParamsNotSwitch
  | UnparseableId (key : string)
  | IdOutOfRange (key : string)
  | NoParamsBranch (name : string)
  | BranchNotNamed (name : string)
  | PayloadUnresolved (name payload : string)
  | NoIdMapping (branch : string)
  | DuplicateId (id : Z) (first second : string)
  | AliasCycle (name : string)
  | Unresolved (name : string)
  | AliasUnresolved (target : string)
  | CountNotNumericField (field : string)
  | UnparseableMapperKey (key : string)
  | NoCountType
  | BitfieldWidth (total : Z)
  | BitfieldMemberEmpty (name : string)
  | BitflagsType (ty : string)
  | BitflagsTooMany (count : nat) (ty : string)
  | LoopNotContainer (kind : string)
  | LoopEmptyContainer (kind : string)
  | LoopFirstField (kind : string)
  | NotNumericNative (name : string)
  | BranchKey (key : string)
  | AboveRoot (path : string)
  | NotDecoded (path : string)
  | NotBitfieldMember (path member : string)
  | NotBitflagsFlag (path member : string)
  | NotMapperVariant (path member : string)
  | NoMember (path field member : string).

Inductive Failure : Type :=
  | Invalid (ctx : string) (why : Why)
  | Panicked
  | Endless.

Abbreviation Res A := (result Failure A).

(** [for x in xs { f(x)? }], with and without a value carried along. *)
Definition each {A} (f : A → Res unit) : list A → Res unit :=
  fix go xs := match xs with [] => Ok tt | x :: xs => let? _ := f x in go xs end.
Definition fold_res {A S} (f : A → S → Res S) : list A → S → Res S :=
  fix go xs s := match xs with [] => Ok s | x :: xs => let? s := f x s in go xs s end.

Definition guard_ok (b : bool) (ctx : string) (why : Why) : Res unit :=
  if b then Ok tt else Err (Invalid ctx why).

(** ** Numbers in keys *)

Definition digit_value (radix : Z) (c : Ascii.ascii) : option Z :=
  let n := Z.of_nat (Ascii.nat_of_ascii c) in
  let d := if (48 <=? n) && (n <=? 57) then n - 48
           else if (97 <=? n) && (n <=? 122) then n - 87
           else if (65 <=? n) && (n <=? 90) then n - 55
           else radix in
  if d <? radix then Some d else None.

(** [i64::from_str_radix] (and [str::parse], in base ten) after the sign: at
    least one digit, and every intermediate value fits. *)
Fixpoint digits_value (radix sign acc : Z) (s : string) : option Z :=
  match s with
  | EmptyString => Some acc
  | String c s =>
      match digit_value radix c with
      | None => None
      | Some d =>
          let acc := acc * radix + sign * d in
          if bool_decide (in_i 64 acc) then digits_value radix sign acc s else None
      end
  end.
Definition from_str_radix (radix : Z) (s : string) : option Z :=
  let number sign s := match s with EmptyString => None | _ => digits_value radix sign 0 s end in
  match s with
  | String c rest =>
      if Ascii.eqb c "-"%char then number (-1) rest
      else if Ascii.eqb c "+"%char then number 1 rest
      else number 1 s
  | EmptyString => None
  end.

Definition strip_prefix (prefix s : string) : option string :=
  if String.prefix prefix s then Some (String.substring (String.length prefix) (String.length s - String.length prefix) s) else None.

(** Negating the least [i64] wraps in a release build. *)
Definition parse_mapper_key (key : string) : option Z :=
  let '(neg, digits) := match strip_prefix "-" key with Some rest => (true, rest) | None => (false, key) end in
  let hex := match strip_prefix "0x" digits with Some h => Some h | None => strip_prefix "0X" digits end in
  let value := match hex with Some h => from_str_radix 16 h | None => from_str_radix 10 digits end in
  (λ v, if (neg : bool) then swrap 64 (- v) else v) <$> value.

(** ** Classification *)

Inductive Class : Type :=
  | Numeric
  | Boolean
  | MapperClass (variants : list string)
  | BitfieldClass (members : list (string * Z))
  | BitflagsClass (flags : list string)
  | Other.

(** Fields decoded so far, first decoded first. *)
Definition Scope : Type := list (string * Class).

Definition NATIVES : list string :=
  ["varint"; "varlong"; "pstring"; "buffer"; "u8"; "u16"; "u32"; "u64"; "i8"; "i16"; "i32"; "i64"; "bool"; "f32"; "f64";
   "UUID"; "option"; "entityMetadataLoop"; "topBitSetTerminatedArray"; "bitfield"; "bitflags"; "container"; "switch";
   "void"; "array"; "restBuffer"; "anonymousNbt"; "anonOptionalNbt"; "registryEntryHolder"; "registryEntryHolderSet"]%string.
Definition is_native (name : string) : bool := existsb (String.eqb name) NATIVES.

Definition is_numeric (name : string) : bool :=
  existsb (String.eqb name) ["i8"; "u8"; "i16"; "u16"; "i32"; "u32"; "i64"; "u64"; "varint"; "varlong"]%string.

Definition branch_is_numeric_or_void (ty : TypeRef) : bool :=
  match ty with
  | Named n => String.eqb n "void" || is_numeric n
  | Inline (OptionOf (Named n)) => is_numeric n
  | Inline _ => false
  end.

Definition scope_lookup (scope : Scope) (name : string) : option Class :=
  snd <$> List.find (λ e, String.eqb (fst e) name) (rev scope).

(** The complex cases of [Ir::classify]. *)
Definition classify_complex (c : Complex) : Class :=
  match c with
  | MapperOf _ mappings => MapperClass (map snd mappings)
  | Bitfield members => BitfieldClass (map (λ m, (bm_name m, bm_size m)) members)
  | Bitflags _ flags => BitflagsClass flags
  | SwitchOn _ fields otherwise =>
      if forallb branch_is_numeric_or_void (map snd fields ++ option_list otherwise) then Numeric else Other
  | OptionOf inner => if branch_is_numeric_or_void inner then Numeric else Other
  | _ => Other
  end.

Section validate.
Context (ir : Ir) (dir : option DirectionIr).

(** [Ir::lookup]. *)
Definition lookup (name : string) : option TypeDef :=
  match dir ≫= λ d, bt_get (local_types d) name with
  | Some def => Some def
  | None => bt_get (shared_types ir) name
  end.

(** [budget] is how often an alias may still be followed: [depth] counts up to
    32 in the code. *)
Fixpoint classify_named (budget : nat) (name ctx : string) : Res Class :=
  match budget with
  | O => Err (Invalid ctx (AliasCycle name))
  | S budget =>
      if is_native name then
        Ok (if String.eqb name "bool" then Boolean else if is_numeric name then Numeric else Other)
      else
        match lookup name with
        | Some (Alias target) => classify_named budget target ctx
        | Some (Compound c) => Ok (classify_complex c)
        | Some Native => Err Panicked
        | None => Err (Invalid ctx (Unresolved name))
        end
  end.

Definition classify (ty : TypeRef) (ctx : string) : Res Class :=
  match ty with
  | Named name => classify_named 33 name ctx
  | Inline c => Ok (classify_complex c)
  end.

(** ** Discriminants *)

Fixpoint split_slash (s : string) : list string :=
  match s with
  | EmptyString => [""%string]
  | String c s =>
      if Ascii.eqb c "/"%char then ""%string :: split_slash s
      else match split_slash s with x :: xs => String c x :: xs | [] => [String c ""] end
  end.

(** The leading [".."] segments and what follows them. *)
Fixpoint walk_up (up : nat) (segments : list string) : nat * list string :=
  match segments with
  | x :: xs => if String.eqb x ".." then walk_up (S up) xs else (up, segments)
  | [] => (up, [])
  end.

Definition member_class (path field ctx : string) (class : Class) (member : string) : Res Class :=
  match class with
  | BitfieldClass members =>
      match List.find (λ m, String.eqb (fst m) member) members with
      | Some (_, size) => Ok (if size =? 1 then Boolean else Numeric)
      | None => Err (Invalid ctx (NotBitfieldMember path member))
      end
  | BitflagsClass flags => if existsb (String.eqb member) flags then Ok Boolean else Err (Invalid ctx (NotBitflagsFlag path member))
  | MapperClass variants => if existsb (String.eqb member) variants then Ok Boolean else Err (Invalid ctx (NotMapperVariant path member))
  | _ => Err (Invalid ctx (NoMember path field member))
  end.

(** [ancestors] has the nearest scope last. *)
Definition resolve_compare_to (path : string) (scope : Scope) (ancestors : list Scope) (ctx : string) : Res Class :=
  let '(up, segments) := walk_up 0 (split_slash path) in
  if (length ancestors <? up)%nat then Err (Invalid ctx (AboveRoot path))
  else
    match (scope :: rev ancestors) !! up with
    | None => Err Panicked
    | Some target =>
        let field := hd ""%string segments in
        match scope_lookup target field with
        | None => Err (Invalid ctx (NotDecoded path))
        | Some class =>
            match segments with
            | [] => Err Panicked
            | _ :: members => fold_res (λ member class, member_class path field ctx class member) members class
            end
        end
    end.

Definition validate_branch_key (class : Class) (key ctx : string) : Res unit :=
  guard_ok (match class with
            | Boolean => existsb (String.eqb key) ["0"; "1"; "true"; "false"]%string
            | Numeric => bool_decide (is_Some (from_str_radix 10 key))
            | MapperClass variants => existsb (String.eqb key) variants
            | _ => false
            end) ctx (BranchKey key).

Definition require_numeric_native (name ctx : string) : Res unit := guard_ok (is_numeric name) ctx (NotNumericNative name).

Definition require_count_type (count_type : option string) (ctx : string) : Res unit :=
  match count_type with Some ct => require_numeric_native ct ctx | None => Ok tt end.

(** ** Terminated loops *)

(** The container an element type stands for, through aliases; the code
    follows them without a bound. *)
Fixpoint loop_container (fuel : nat) (ty : TypeRef) (ctx kind : string) : Res (list ContainerField) :=
  match fuel with
  | O => Err Endless
  | S fuel =>
      match ty with
      | Inline (Container fields) => Ok fields
      | Inline _ => Err (Invalid ctx (LoopNotContainer kind))
      | Named n =>
          match lookup n with
          | Some (Compound (Container fields)) => Ok fields
          | Some (Alias target) => loop_container fuel (Named target) ctx kind
          | _ => Err (Invalid ctx (LoopNotContainer kind))
          end
      end
  end.

(** One step more than there are names. *)
Definition loop_fuel : nat := S (S (length (match dir with Some d => local_types d | None => [] end) + length (shared_types ir))).

Definition require_container_with_first_int_field (ty : TypeRef) (ctx kind : string) : Res unit :=
  let? fields := loop_container loop_fuel ty ctx kind in
  match fields with
  | [] => Err (Invalid ctx (LoopEmptyContainer kind))
  | first :: _ =>
      match field_ty first with
      | Named n => guard_ok (String.eqb n "i8" || String.eqb n "u8") ctx (LoopFirstField kind)
      | Inline _ => Err (Invalid ctx (LoopFirstField kind))
      end
  end.

(** ** Types *)

Definition field_ctx (ctx : string) (name : option string) : string :=
  (ctx +:+ "." +:+ match name with Some n => n | None => "<anon>" end)%string.

(** [scope] is only ever extended by the fields of its own container, so only
    [validate_field] gives it back. *)
Fixpoint validate_complex (c : Complex) (ctx : string) (scope : Scope) (ancestors : list Scope) {struct c} : Res unit :=
  match c with
  | Container fields =>
      let? _ := fold_res (λ f scope', validate_field f ctx scope' (ancestors ++ [scope])) fields [] in Ok tt
  | ArrayOf element count_type count =>
      let? _ := require_count_type count_type ctx in
      let? _ := match count with
                | Some (CountField field) =>
                    match scope_lookup scope field with
                    | Some Numeric => Ok tt
                    | _ => Err (Invalid ctx (CountNotNumericField field))
                    end
                | _ => Ok tt
                end in
      validate_typeref element ctx scope ancestors
  | OptionOf inner => validate_typeref inner ctx scope ancestors
  | SwitchOn compare_to fields otherwise =>
      let? class := resolve_compare_to compare_to scope ancestors ctx in
      let? _ := each (λ '(key, branch), let? _ := validate_branch_key class key ctx in validate_typeref branch ctx scope ancestors) fields in
      match otherwise with Some ty => validate_typeref ty ctx scope ancestors | None => Ok tt end
  | MapperOf ty mappings =>
      let? _ := require_numeric_native ty ctx in
      each (λ '(key, _), guard_ok (bool_decide (is_Some (parse_mapper_key key))) ctx (UnparseableMapperKey key)) mappings
  | BufferOf count_type _ => require_count_type count_type ctx
  | Pstring (Some ct) => require_numeric_native ct ctx
  | Pstring None => Err (Invalid ctx NoCountType)
  | Bitfield members =>
      (* the sum is a [u32], which wraps in a release build *)
      let total := wrap 32 (foldr Z.add 0 (map bm_size members)) in
      let? _ := guard_ok ((1 <=? total) && (total <=? 64)) ctx (BitfieldWidth total) in
      each (λ m, guard_ok (negb (bm_size m =? 0)) ctx (BitfieldMemberEmpty (bm_name m))) members
  | Bitflags ty flags =>
      let? _ := guard_ok (String.eqb ty "u8" || String.eqb ty "u32") ctx (BitflagsType ty) in
      guard_ok (length flags <=? (if String.eqb ty "u8" then 8 else 32))%nat ctx (BitflagsTooMany (length flags) ty)
  | TopBitSetTerminatedArray element => require_container_with_first_int_field element ctx "topBitSetTerminatedArray"
  | EntityMetadataLoop _ element => require_container_with_first_int_field element ctx "entityMetadataLoop"
  | RegistryEntryHolder _ _ otherwise => validate_typeref otherwise ctx [] ancestors
  | RegistryEntryHolderSet _ base _ otherwise =>
      let? _ := validate_typeref base ctx [] ancestors in
      validate_typeref otherwise ctx [] ancestors
  end
with validate_typeref (ty : TypeRef) (ctx : string) (scope : Scope) (ancestors : list Scope) {struct ty} : Res unit :=
  match ty with
  | Named name => guard_ok (is_native name || bool_decide (is_Some (lookup name))) ctx (Unresolved name)
  | Inline c => validate_complex c ctx scope ancestors
  end
with validate_field (f : ContainerField) (ctx : string) (scope : Scope) (ancestors : list Scope) {struct f} : Res Scope :=
  match f with
  | mkField name anon ty =>
      let ctx := field_ctx ctx name in
      if anon then
        match ty with
        | Inline (Container fields) => fold_res (λ f scope', validate_field f ctx scope' ancestors) fields scope
        | _ => let? _ := validate_typeref ty ctx scope ancestors in Ok scope
        end
      else
        match name with
        | None => Err Panicked
        | Some name =>
            let? _ := validate_typeref ty ctx scope ancestors in
            let? class := classify ty ctx in
            Ok (scope ++ [(name, class)])
        end
  end.

Definition validate_def (name : string) (def : TypeDef) : Res unit :=
  match def with
  | Native => Ok tt
  | Alias target => guard_ok (is_native target || bool_decide (is_Some (lookup target))) name (AliasUnresolved target)
  | Compound c => validate_complex c name [] []
  end.
End validate.

(** [Ir::validate]. *)
Definition validate (ir : Ir) : Res unit :=
  let? _ := each (λ '(name, def), validate_def ir None name def) (shared_types ir) in
  each (λ s, each (λ d, each (λ '(name, def), validate_def ir (Some d) name def) (local_types d)) [clientbound s; serverbound s])
    (states ir).

(** ** Packet tables *)

(** [sort_by_key], which is stable. *)
Fixpoint insert_by {A} (key : A → Z) (x : A) (l : list A) : list A :=
  match l with
  | [] => [x]
  | y :: l' => if key x <=? key y then x :: l else y :: insert_by key x l'
  end.
Definition sort_by_key {A} (key : A → Z) (l : list A) : list A := foldr (insert_by key) [] l.

(** The first two neighbours with the same id. *)
Fixpoint duplicate (l : list PacketIr) : option (PacketIr * PacketIr) :=
  match l with
  | p :: (q :: _) as l' => if pk_id p =? pk_id q then Some (p, q) else duplicate l'
  | _ => None
  end.

Section direction.
Context (file : ProtocolFile) (section : DirectionSection) (ctx : string).

(** The body of the loop over the mappings. *)
Definition packet_of (fields : btree TypeRef) (id_key name : string) : Res PacketIr :=
  match parse_mapper_key id_key with
  | None => Err (Invalid ctx (UnparseableId id_key))
  | Some id =>
      if bool_decide (in_i 32 id) then
        match bt_get fields name with
        | None => Err (Invalid ctx (NoParamsBranch name))
        | Some (Inline _) => Err (Invalid ctx (BranchNotNamed name))
        | Some (Named payload) =>
            if String.eqb payload "void" || bool_decide (is_Some (bt_get (section_types section) payload))
               || bool_decide (is_Some (bt_get (file_types file) payload))
            then Ok (mkPacket id name payload)
            else Err (Invalid ctx (PayloadUnresolved name payload))
        end
      else Err (Invalid ctx (IdOutOfRange id_key))
  end.

Definition direction_of (mappings : btree string) (fields : btree TypeRef) : Res DirectionIr :=
  let? packets := fold_res (λ mapping packets, let? p := packet_of fields mapping.1 mapping.2 in Ok (packets ++ [p])) mappings [] in
  let? _ := each (λ '(branch, _), guard_ok (existsb (λ e, String.eqb (snd e) branch) mappings) ctx (NoIdMapping branch)) fields in
  let packets := sort_by_key pk_id packets in
  match duplicate packets with
  | Some (p, q) => Err (Invalid ctx (DuplicateId (pk_id p) (pk_name p) (pk_name q)))
  | None => Ok (mkDirection (List.filter (λ e, negb (String.eqb (fst e) "packet")) (section_types section)) packets)
  end.

Definition build_direction : Res DirectionIr :=
  match bt_get (section_types section) "packet" with
  | None => Err (Invalid ctx MissingPacket)
  | Some (Compound (Container fields)) =>
      match map field_ty fields with
      | [ids; params] =>
          match ids with
          | Inline (MapperOf _ mappings) =>
              match params with
              | Inline (SwitchOn _ branches _) => direction_of mappings branches
              | _ => Err (Invalid ctx ParamsNotSwitch)
              end
          | _ => Err (Invalid ctx IdNotMapper)
          end
      | _ => Err (Invalid ctx PacketFieldCount)
      end
  | Some _ => Err (Invalid ctx PacketNotContainer)
  end.
End direction.

(** ** Building *)

Definition section_of (file : ProtocolFile) (state : State) : StateSection :=
  match state with
  | Handshaking => handshaking file
  | Status => status file
  | Login => login file
  | Configuration => configuration file
  | Play => play file
  end.

Definition build_state (file : ProtocolFile) (state : State) : Res StateIr :=
  let? c := build_direction file (to_client (section_of file state)) (as_str state +:+ ".toClient") in
  let? s := build_direction file (to_server (section_of file state)) (as_str state +:+ ".toServer") in
  Ok (mkStateIr state c s).

(** [Ir::build]. *)
Definition build (file : ProtocolFile) : Res Ir :=
  let shared := List.filter (λ e, match snd e with Native => false | _ => true end) (file_types file) in
  let? states := fold_res (λ state states, let? s := build_state file state in Ok (states ++ [s])) ALL [] in
  let ir := mkIr shared states in
  let? _ := validate ir in
  Ok ir.

(** ** Lemmas on the loops *)

Lemma guard_ok_inv b ctx why u : guard_ok b ctx why = Ok u → b = true.
Proof. unfold guard_ok. by destruct b. Qed.

Lemma each_Ok_inv {A} (f : A → Res unit) xs u : each f xs = Ok u → ∀ x, x ∈ xs → f x = Ok tt.
Proof.
  induction xs as [|x xs IH]; simpl; [intros _ y Hy; by apply elem_of_nil in Hy|].
  intros ([] & Hx & Hxs)%rbind_Ok_inv y [->|Hy]%elem_of_cons; [done|by apply IH].
Qed.

Lemma fold_res_app {A S} (f : A → S → Res S) xs ys s :
  fold_res f (xs ++ ys) s = rbind (fold_res f xs s) (fold_res f ys).
Proof. revert s. induction xs as [|x xs IH]; intros s; simpl; [done|]. destruct (f x s); simpl; [apply IH|done]. Qed.

(** A loop that pushes one result for every element. *)
Lemma fold_push_Ok {A B} (f : A → Res B) xs out out' :
  fold_res (λ x acc, let? y := f x in Ok (acc ++ [y])) xs out = Ok out' ↔ ∃ ys, Forall2 (λ x y, f x = Ok y) xs ys ∧ out' = out ++ ys.
Proof.
  revert out. induction xs as [|x xs IH]; intros out; simpl.
  - split; [intros [= ->]; exists []; by rewrite app_nil_r|]. intros (ys & Hys & ->). apply Forall2_nil_inv_l in Hys as ->. by rewrite app_nil_r.
  - split.
    + intros (s & (y & Hy & [= <-])%rbind_Ok_inv & H)%rbind_Ok_inv. apply IH in H as (ys & Hys & ->).
      exists (y :: ys). split; [by constructor|]. by rewrite <- (assoc_L app).
    + intros (ys & Hys & ->). apply Forall2_cons_inv_l in Hys as (y & ys' & Hy & Hys & ->). rewrite Hy. simpl.
      apply IH. exists ys'. split; [done|]. by rewrite <- (assoc_L app).
Qed.

(** ** Packet tables *)

Lemma insert_by_perm {A} (key : A → Z) x l : insert_by key x l ≡ₚ x :: l.
Proof. induction l as [|y l IH]; simpl; [done|]. case_match; [done|]. rewrite IH. by rewrite Permutation_swap. Qed.
Lemma sort_by_key_perm {A} (key : A → Z) l : sort_by_key key l ≡ₚ l.
Proof. induction l as [|x l IH]; simpl; [done|]. by rewrite insert_by_perm, IH. Qed.

Inductive ascending : list Z → Prop :=
  | asc_nil : ascending []
  | asc_one x : ascending [x]
  | asc_cons x y l : x ≤ y → ascending (y :: l) → ascending (x :: y :: l).

Lemma insert_by_ascending {A} (key : A → Z) x l : ascending (map key l) → ascending (map key (insert_by key x l)).
Proof.
  induction l as [|y l IH]; intros Hl; simpl; [constructor|].
  destruct (Z.leb_spec (key x) (key y)) as [H|H]; [by constructor|].
  assert (ascending (map key l)) as Hl' by (inversion Hl; [constructor|done]). specialize (IH Hl').
  destruct l as [|z l]; simpl in *; [constructor; [lia|constructor]|].
  destruct (Z.leb_spec (key x) (key z)); constructor; [lia|done|by inversion Hl|done].
Qed.
Lemma sort_by_key_ascending {A} (key : A → Z) l : ascending (map key (sort_by_key key l)).
Proof. induction l as [|x l IH]; simpl; [constructor|by apply insert_by_ascending]. Qed.

(** Strictly ascending ids. *)
Definition strict (ids : list Z) : Prop := ∀ i j x y, (i < j)%nat → ids !! i = Some x → ids !! j = Some y → x < y.

Lemma ascending_strict l : ascending (map pk_id l) → duplicate l = None → strict (map pk_id l).
Proof.
  induction l as [|p l IH]; intros Ha Hd; [intros i j x y _ H; by destruct i|].
  destruct l as [|q l].
  { intros i [|j] x y Hij Hi Hj; [lia|]. by destruct j. }
  simpl in Hd. destruct (Z.eqb_spec (pk_id p) (pk_id q)) as [|Hne]; [done|].
  inversion Ha as [| |? ? ? Hle Ha']; subst. specialize (IH Ha' Hd).
  assert (∀ j y, map pk_id (q :: l) !! j = Some y → pk_id p < y) as Hp.
  { intros [|j] y Hy; [simpl in Hy; simplify_eq; lia|]. assert (pk_id q < y); [|lia]. apply (IH 0%nat (S j)); [lia|done|done]. }
  intros [|i] [|j] x y Hij Hi Hj; [lia| |lia|].
  - simpl in Hi. simplify_eq. by apply (Hp j).
  - apply (IH i j); [lia|done|done].
Qed.

Lemma each_pair_Ok_inv {A B} (f : A → B → Res unit) xs u a b : each (λ '(x, y), f x y) xs = Ok u → (a, b) ∈ xs → f a b = Ok tt.
Proof. intros H Hin. exact (each_Ok_inv _ _ _ H (a, b) Hin). Qed.

(** What a description says about a direction: the mappings of ids to names,
    and the branches that give each name its payload. *)
Inductive describes (section : DirectionSection) : btree string → btree TypeRef → Prop :=
  | describes_intro n1 a1 ty mappings n2 a2 path branches otherwise :
      bt_get (section_types section) "packet"
        = Some (Compound (Container [mkField n1 a1 (Inline (MapperOf ty mappings)); mkField n2 a2 (Inline (SwitchOn path branches otherwise))])) →
      describes section mappings branches.

Lemma build_direction_inv file section ctx d :
  build_direction file section ctx = Ok d →
  ∃ mappings branches, describes section mappings branches ∧ direction_of file section ctx mappings branches = Ok d.
Proof.
  unfold build_direction. destruct (bt_get _ _) as [[| |[fields| | | | | | | | | | | |]]|] eqn:Hp; try done.
  destruct fields as [|[n1 a1 ids] [|[n2 a2 params] [|]]]; try done. simpl.
  destruct ids as [|[| | | |ty mappings| | | | | | | |]]; try done. destruct params as [|[| | |path branches o| | | | | | | | |]]; try done.
  intros H. exists mappings, branches. split; [by econstructor|done].
Qed.

(** The table of a direction is that of its mappings. *)
Definition table_exact (file : ProtocolFile) (section : DirectionSection) (d : DirectionIr) : Prop :=
  ∃ mappings branches, describes section mappings branches
  ∧ strict (map pk_id (packets d)) ∧ length (packets d) = length mappings
  ∧ (∀ p, p ∈ packets d ↔
      ∃ key, (key, pk_name p) ∈ mappings ∧ parse_mapper_key key = Some (pk_id p) ∧ in_i 32 (pk_id p)
      ∧ bt_get branches (pk_name p) = Some (Named (pk_payload p))
      ∧ (pk_payload p = "void"%string ∨ is_Some (bt_get (section_types section) (pk_payload p)) ∨ is_Some (bt_get (file_types file) (pk_payload p))))
  ∧ (∀ name ty, (name, ty) ∈ branches → ∃ p, p ∈ packets d ∧ pk_name p = name)
  ∧ ∀ name def, (name, def) ∈ local_types d ↔ (name, def) ∈ section_types section ∧ name ≠ "packet"%string.

Lemma packet_of_Ok file section ctx branches key name p :
  packet_of file section ctx branches key name = Ok p ↔
  pk_name p = name ∧ parse_mapper_key key = Some (pk_id p) ∧ in_i 32 (pk_id p)
  ∧ bt_get branches name = Some (Named (pk_payload p))
  ∧ (pk_payload p = "void"%string ∨ is_Some (bt_get (section_types section) (pk_payload p)) ∨ is_Some (bt_get (file_types file) (pk_payload p))).
Proof.
  unfold packet_of. destruct p as [id n payload]. cbn [pk_id pk_name pk_payload]. split.
  - destruct (parse_mapper_key key) as [i|]; [|done]. case_bool_decide; [|done].
    destruct (bt_get branches name) as [[pl|]|]; [|done..]. destruct (_ || _ || _) eqn:Hr; [|done]. intros [= <- <- <-].
    split_and!; [done..|]. rewrite !orb_true_iff, String.eqb_eq, !bool_decide_eq_true in Hr. tauto.
  - intros (-> & -> & Hi & -> & Hr). rewrite bool_decide_eq_true_2 by done.
    destruct (_ || _ || _) eqn:Hb; [done|]. rewrite !orb_false_iff, String.eqb_neq, !bool_decide_eq_false in Hb. tauto.
Qed.

Lemma forall2_length_in {A B} (R : A → B → Prop) xs ys :
  Forall2 R xs ys → length xs = length ys ∧ (∀ x, x ∈ xs → ∃ y, y ∈ ys ∧ R x y) ∧ ∀ y, y ∈ ys → ∃ x, x ∈ xs ∧ R x y.
Proof.
  induction 1 as [|x y xs ys Hxy _ (Hl & H1 & H2)]; [split_and!; [done|set_solver..]|]. simpl. split_and!; [lia|..].
  - intros z [->|Hz]%elem_of_cons; [exists y|destruct (H1 z Hz) as (y' & ? & ?); exists y']; set_solver.
  - intros z [->|Hz]%elem_of_cons; [exists x|destruct (H2 z Hz) as (x' & ? & ?); exists x']; set_solver.
Qed.

Lemma direction_exact file section ctx d : build_direction file section ctx = Ok d → table_exact file section d.
Proof.
  intros (mappings & branches & Hdesc & Hd)%build_direction_inv. exists mappings, branches. split; [done|].
  unfold direction_of in Hd. apply rbind_Ok_inv in Hd as (ps & Hps & Hd).
  apply (fold_push_Ok (λ mapping, packet_of file section ctx branches mapping.1 mapping.2)) in Hps as (ps' & Hps & ->).
  apply rbind_Ok_inv in Hd as (u & Hbr & Hd). destruct (duplicate _) as [[]|] eqn:Hdup; [done|]. injection Hd as <-. cbn [packets local_types].
  rewrite app_nil_l in *. pose proof (sort_by_key_perm pk_id ps') as Hperm.
  destruct (forall2_length_in _ _ _ Hps) as (Hlen & Hto & Hfrom).
  assert (∀ p, p ∈ sort_by_key pk_id ps' ↔ p ∈ ps') as Hin by (intros p; by rewrite Hperm).
  split; [by apply ascending_strict; [apply sort_by_key_ascending|]|]. split; [by rewrite Hperm|]. split_and!.
  - intros p. rewrite Hin. split.
    + intros Hp. destruct (Hfrom p Hp) as ([key name] & Hm & Hof). apply packet_of_Ok in Hof as (Hn & Hrest).
      simpl in *. subst name. by exists key.
    + intros (key & Hm & Hrest). destruct (Hto _ Hm) as (p' & Hp' & Heq). simpl in Heq.
      assert (packet_of file section ctx branches key (pk_name p) = Ok p) as Hp by (apply packet_of_Ok; split; [done|exact Hrest]).
      rewrite Hp in Heq. by injection Heq as <-.
  - intros name ty Hb. apply (each_pair_Ok_inv _ _ _ _ _ Hbr) in Hb. apply guard_ok_inv in Hb.
    apply existsb_exists in Hb as ([key n] & Hm & Heq%String.eqb_eq). simpl in Heq. subst n.
    apply list_elem_of_In in Hm. destruct (Hto _ Hm) as (p & Hp & Hof). apply packet_of_Ok in Hof as [Hn _]. exists p. by rewrite Hin.
  - intros name def. rewrite !list_elem_of_In, List.filter_In. simpl. by rewrite negb_true_iff, String.eqb_neq.
Qed.

Lemma build_inv file ir :
  build file = Ok ir →
  validate ir = Ok tt ∧ Forall2 (λ state s, build_state file state = Ok s) ALL (states ir)
  ∧ ∀ name def, (name, def) ∈ shared_types ir ↔ (name, def) ∈ file_types file ∧ def ≠ Native.
Proof.
  intros (ss & Hss & H)%rbind_Ok_inv. apply rbind_Ok_inv in H as ([] & Hv & [= <-]). split; [done|]. cbn [states shared_types].
  apply (fold_push_Ok (build_state file)) in Hss as (ss' & Hss & ->). split; [done|]. intros name def.
  rewrite !list_elem_of_In, List.filter_In. cbn [snd]. by destruct def; intuition.
Qed.

Lemma build_states_Ok file ss s :
  Forall2 (λ state s, build_state file state = Ok s) ALL ss → s ∈ ss →
  build_direction file (to_client (section_of file (ir_state s))) (as_str (ir_state s) +:+ ".toClient") = Ok (clientbound s)
  ∧ build_direction file (to_server (section_of file (ir_state s))) (as_str (ir_state s) +:+ ".toServer") = Ok (serverbound s).
Proof.
  intros H Hs. destruct (forall2_length_in _ _ _ H) as (_ & _ & Hfrom). destruct (Hfrom s Hs) as (state & _ & Hb).
  unfold build_state in Hb. apply rbind_Ok_inv in Hb as (c & Hc & Hb). by apply rbind_Ok_inv in Hb as (sv & Hsv & [= <-]).
Qed.

(** C25. The packet tables of an accepted description are exactly those it
    describes: every state is there, in order; in each direction the packets
    are those its mappings name, one for each mapping, with the id the key
    spells, within [i32], and the payload type of the branch of that name;
    ids are strictly ascending, every branch belongs to a packet, and the
    local types are those of the section. *)
Theorem packet_tables_exact (file : ProtocolFile) (ir : Ir) :
  build file = Ok ir →
  map ir_state (states ir) = ALL
  ∧ ∀ s, s ∈ states ir → table_exact file (to_client (section_of file (ir_state s))) (clientbound s)
                       ∧ table_exact file (to_server (section_of file (ir_state s))) (serverbound s).
Proof.
  intros (_ & Hss & _)%build_inv. split.
  - induction Hss as [|state s l l' Hs _ IH]; [done|]. simpl. f_equal; [|done]. unfold build_state in Hs.
    apply rbind_Ok_inv in Hs as (c & _ & Hs). by apply rbind_Ok_inv in Hs as (sv & _ & [= <-]).
  - intros s Hs. destruct (build_states_Ok _ _ _ Hss Hs) as [Hc Hsv]. split; by eapply direction_exact.
Qed.

(** ** Where an expression stands *)

Section positions.
Context (ir : Ir) (dir : option DirectionIr).

(** The fields a container field adds to the scope. *)
Fixpoint declared (f : ContainerField) : Scope :=
  match f with
  | mkField name anon ty =>
      if anon then match ty with Inline (Container fields) => flat_map declared fields | _ => [] end
      else match name, classify ir dir ty "" with Some name, Ok class => [(name, class)] | _, _ => [] end
  end.

(** The expressions directly inside a field, and the scope they see. *)
Inductive inside_field : Scope → ContainerField → Complex → Scope → Prop :=
  | inside_named scope name c : inside_field scope (mkField (Some name) false (Inline c)) c scope
  | inside_anon scope name c : (∀ fields, c ≠ Container fields) → inside_field scope (mkField name true (Inline c)) c scope
  | inside_merged scope name pre f post c scope' :
      inside_field (scope ++ flat_map declared pre) f c scope' →
      inside_field scope (mkField name true (Inline (Container (pre ++ f :: post)))) c scope'.

(** The expressions directly inside an expression, with the scope and the
    enclosing scopes they see. The element of a terminated loop is not among
    them, because the code never validates it: [well_formed] asks of the loop
    only what the code asks of its element. *)
Inductive inside : Complex * Scope * list Scope → Complex * Scope * list Scope → Prop :=
  | inside_container pre f post scope anc c scope' :
      inside_field (flat_map declared pre) f c scope' → inside (Container (pre ++ f :: post), scope, anc) (c, scope', anc ++ [scope])
  | inside_array c count_type count scope anc : inside (ArrayOf (Inline c) count_type count, scope, anc) (c, scope, anc)
  | inside_option c scope anc : inside (OptionOf (Inline c), scope, anc) (c, scope, anc)
  | inside_branch key c path fields otherwise scope anc :
      (key, Inline c) ∈ fields → inside (SwitchOn path fields otherwise, scope, anc) (c, scope, anc)
  | inside_default c path fields scope anc : inside (SwitchOn path fields (Some (Inline c)), scope, anc) (c, scope, anc)
  | inside_holder b n c scope anc : inside (RegistryEntryHolder b n (Inline c), scope, anc) (c, [], anc)
  | inside_set_base b c n otherwise scope anc : inside (RegistryEntryHolderSet b (Inline c) n otherwise, scope, anc) (c, [], anc)
  | inside_set_otherwise b base n c scope anc : inside (RegistryEntryHolderSet b base n (Inline c), scope, anc) (c, [], anc).

Definition resolves (name : string) : Prop := is_native name = true ∨ is_Some (lookup ir dir name).
Definition ref_resolves (ty : TypeRef) : Prop := match ty with Named name => resolves name | Inline _ => True end.

(** A field whose name and class are known, or an anonymous one. *)
Fixpoint field_ok (f : ContainerField) : Prop :=
  match f with
  | mkField _ true (Inline (Container fields)) => foldr (λ f P, field_ok f ∧ P) True fields
  | mkField _ true ty => ref_resolves ty
  | mkField name false ty => is_Some name ∧ ref_resolves ty ∧ ∃ class, classify ir dir ty "" = Ok class
  end.

Definition key_fits (class : Class) (key : string) : Prop := validate_branch_key class key "" = Ok tt.

Definition byte_loop (element : TypeRef) : Prop :=
  ∃ fuel first rest n a ty, loop_container ir dir fuel element "" "" = Ok (first :: rest) ∧ first = mkField n a (Named ty)
  ∧ (ty = "i8"%string ∨ ty = "u8"%string).

(** What an expression needs where it stands. *)
Definition well_formed (c : Complex) (scope : Scope) (anc : list Scope) : Prop :=
  match c with
  | Container fields => Forall field_ok fields
  | ArrayOf element count_type count =>
      (∀ ct, count_type = Some ct → is_numeric ct = true) ∧ (∀ field, count = Some (CountField field) → scope_lookup scope field = Some Numeric)
      ∧ ref_resolves element
  | OptionOf inner => ref_resolves inner
  | SwitchOn path fields otherwise =>
      (∃ class, resolve_compare_to path scope anc "" = Ok class ∧ ∀ key ty, (key, ty) ∈ fields → key_fits class key)
      ∧ (∀ key ty, (key, ty) ∈ fields → ref_resolves ty) ∧ ∀ ty, otherwise = Some ty → ref_resolves ty
  | MapperOf ty mappings => is_numeric ty = true ∧ ∀ key name, (key, name) ∈ mappings → is_Some (parse_mapper_key key)
  | BufferOf count_type _ => ∀ ct, count_type = Some ct → is_numeric ct = true
  | Pstring count_type => ∃ ct, count_type = Some ct ∧ is_numeric ct = true
  | Bitfield members => 1 ≤ wrap 32 (foldr Z.add 0 (map bm_size members)) ≤ 64 ∧ ∀ m, m ∈ members → bm_size m ≠ 0
  | Bitflags ty flags => ty = "u8"%string ∧ (length flags ≤ 8)%nat ∨ ty = "u32"%string ∧ (length flags ≤ 32)%nat
  | TopBitSetTerminatedArray element | EntityMetadataLoop _ element => byte_loop element
  | RegistryEntryHolder _ _ otherwise => ref_resolves otherwise
  | RegistryEntryHolderSet _ base _ otherwise => ref_resolves base ∧ ref_resolves otherwise
  end.

(** ** The context of a message never decides *)

(** The same outcome but for the context. *)
Definition same {A} (r r' : Res A) : Prop :=
  match r, r' with
  | Ok a, Ok a' => a = a'
  | Err (Invalid _ why), Err (Invalid _ why') => why = why'
  | Err Panicked, Err Panicked | Err Endless, Err Endless => True
  | _, _ => False
  end.
Lemma same_Ok {A} (r r' : Res A) a : same r r' → r = Ok a → r' = Ok a.
Proof. by intros H ->; destruct r' as [|[]]; simpl in H; subst. Qed.
Lemma same_refl {A} (r : Res A) : same r r.
Proof. by destruct r as [|[]]. Qed.
Lemma same_fold {A S} (f g : A → S → Res S) xs s : (∀ x s, same (f x s) (g x s)) → same (fold_res f xs s) (fold_res g xs s).
Proof.
  intros H. revert s. induction xs as [|x xs IH]; intros s; simpl; [done|]. specialize (H x s).
  destruct (f x s) as [a|[]], (g x s) as [a'|[]]; simpl in *; try done. subst. apply IH.
Qed.

Lemma same_classify_named n name ctx ctx' : same (classify_named ir dir n name ctx) (classify_named ir dir n name ctx').
Proof.
  revert name. induction n as [|n IH]; intros name; simpl; [done|]. destruct (is_native name); [apply same_refl|].
  destruct (lookup ir dir name) as [[]|]; simpl; [done|apply IH|done|done].
Qed.
Lemma same_classify ty ctx ctx' : same (classify ir dir ty ctx) (classify ir dir ty ctx').
Proof. destruct ty; [exact (same_classify_named 33 _ _ _)|done]. Qed.
Lemma same_compare path scope anc ctx ctx' : same (resolve_compare_to path scope anc ctx) (resolve_compare_to path scope anc ctx').
Proof.
  unfold resolve_compare_to. destruct (walk_up _ _) as [up segments]. case_match; [done|]. destruct (_ !! up); [|done].
  destruct (scope_lookup _ _); [|done]. destruct segments; [done|]. apply same_fold. intros m cl. unfold member_class.
  destruct cl; repeat case_match; done.
Qed.
Lemma same_loop fuel ty ctx ctx' k k' fields : loop_container ir dir fuel ty ctx k = Ok fields → loop_container ir dir fuel ty ctx' k' = Ok fields.
Proof.
  revert ty. induction fuel as [|fuel IH]; intros ty; simpl; [done|]. destruct ty as [n|[]]; try done.
  destruct (lookup ir dir n) as [[|t|[]]|]; try done. apply IH.
Qed.

(** ** Validation finds what stands wrong *)

Lemma field_nested_ind (P : ContainerField → Prop) :
  (∀ name anon ty, (∀ fields, ty = Inline (Container fields) → Forall P fields) → P (mkField name anon ty)) → ∀ f, P f.
Proof.
  intros H. fix IH 1. intros [name anon ty]. apply H. intros fields Heq.
  destruct ty as [|[fields'| | | | | | | | | | | |]]; try discriminate Heq. injection Heq as <-.
  induction fields' as [|f fields' IHf]; constructor; [apply IH|exact IHf].
Qed.

Definition checked (c : Complex) (scope : Scope) (anc : list Scope) : Prop := ∃ ctx, validate_complex ir dir c ctx scope anc = Ok tt.
Definition field_checked (f : ContainerField) : Prop :=
  ∀ ctx scope anc scope', validate_field ir dir f ctx scope anc = Ok scope' →
  field_ok f ∧ scope' = scope ++ declared f ∧ ∀ c s, inside_field scope f c s → checked c s anc.

Lemma fields_checked fields ctx scope anc scope' :
  Forall field_checked fields → fold_res (λ f s, validate_field ir dir f ctx s anc) fields scope = Ok scope' →
  Forall field_ok fields ∧ scope' = scope ++ flat_map declared fields
  ∧ ∀ pre f post c s, fields = pre ++ f :: post → inside_field (scope ++ flat_map declared pre) f c s → checked c s anc.
Proof.
  intros Hf. revert scope. induction Hf as [|f fields Hf _ IH]; intros scope; simpl.
  - intros [= <-]. split; [done|]. split; [by rewrite app_nil_r|]. intros [] ? ? ? ?; done.
  - intros H. apply rbind_Ok_inv in H as (s1 & H1 & H2). destruct (Hf _ _ _ _ H1) as (Hok & -> & Hin). apply IH in H2 as (Hoks & -> & Hins).
    split; [by constructor|].
    split; [by rewrite <- (assoc_L app)|]. intros [|g pre] f' post c s [= <- ->] Hi; simpl in Hi.
    + rewrite app_nil_r in Hi. by apply Hin.
    + rewrite (assoc_L app) in Hi. by eapply Hins.
Qed.

Lemma typeref_checked ty ctx scope anc :
  validate_typeref ir dir ty ctx scope anc = Ok tt → ref_resolves ty ∧ ∀ c, ty = Inline c → checked c scope anc.
Proof.
  destruct ty as [name|c]; simpl.
  - intros H%guard_ok_inv. split; [|done]. unfold resolves. by rewrite orb_true_iff, bool_decide_eq_true in H.
  - intros H. split; [done|]. intros c' [= <-]. by exists ctx.
Qed.

Lemma all_fields_checked f : field_checked f.
Proof.
  induction f as [name anon ty IH] using field_nested_ind. intros ctx scope anc scope' Hv. destruct anon.
  - destruct ty as [n|c].
    + cbn [validate_field] in Hv. apply rbind_Ok_inv in Hv as ([] & Hr & [= <-]). destruct (typeref_checked (Named n) _ scope anc Hr) as [Hr' _].
      split; [exact Hr'|]. split; [simpl; by rewrite app_nil_r|]. intros c s H. inversion H.
    + destruct c as [fields| | | | | | | | | | | |] eqn:Hc; [|
        cbn [validate_field] in Hv; apply rbind_Ok_inv in Hv as ([] & Hr & [= <-]); destruct (typeref_checked (Inline c) _ scope anc ltac:(rewrite Hc; exact Hr)) as [Hr' Hin];
        split; [exact I|]; split; [simpl; by rewrite app_nil_r|]; intros c' s H; inversion H; subst; by apply Hin ..].
      apply (fields_checked _ _ _ _ _ (IH _ eq_refl)) in Hv as (Hok & -> & Hin). split; [|split; [done|]].
      * simpl. clear -Hok. induction Hok; simpl; done.
      * intros c' s H. inversion H as [|? ? ? Hno|]; subst; [by destruct (Hno fields)|]. by eapply Hin.
  - destruct name as [name|]; [|done]. cbn [validate_field] in Hv. apply rbind_Ok_inv in Hv as ([] & Hr & Hv).
    destruct (typeref_checked ty _ scope anc Hr) as [Hr' Hin].
    apply rbind_Ok_inv in Hv as (class & Hclass & [= <-]).
    pose proof (same_Ok _ _ _ (same_classify _ _ "" ) Hclass) as Hc. split; [|split].
    + simpl. split; [done|]. split; [done|]. by exists class.
    + simpl. by rewrite Hc.
    + intros c s H. inversion H; subst. by apply Hin.
Qed.

Lemma branch_key_same class key ctx u : validate_branch_key class key ctx = Ok u → key_fits class key.
Proof. unfold key_fits, validate_branch_key. by intros ->%guard_ok_inv. Qed.

Lemma loop_checked element ctx kind u : require_container_with_first_int_field ir dir element ctx kind = Ok u → byte_loop element.
Proof.
  unfold require_container_with_first_int_field. intros (fields & Hf & H)%rbind_Ok_inv.
  destruct fields as [|[n a [ty|]] rest]; [done| |done]. apply guard_ok_inv in H. rewrite orb_true_iff, !String.eqb_eq in H.
  eapply same_loop in Hf. by exists (loop_fuel ir dir), (mkField n a (Named ty)), rest, n, a, ty.
Qed.

Lemma count_type_checked ct ctx u c : require_count_type ct ctx = Ok u → ct = Some c → is_numeric c = true.
Proof. intros H ->. by apply guard_ok_inv in H. Qed.

(** What is accepted is well formed, and so is everything directly inside. *)
Lemma checked_well_formed c scope anc : checked c scope anc → well_formed c scope anc.
Proof.
  intros [ctx Hv].
  destruct c as [fields|element ct count|inner|path fields o|ty ms|ct n|[ct|]|ms|ty flags|element|e element|b n o|b base n o]; simpl in Hv |- *.
  - apply rbind_Ok_inv in Hv as (s & Hv & _). apply fields_checked in Hv as (H & _); [done|]. apply Forall_true, all_fields_checked.
  - apply rbind_Ok_inv in Hv as (u & Hct & Hv). apply rbind_Ok_inv in Hv as (u' & Hc & Hv). split; [|split].
    + intros c Hc'. exact (count_type_checked _ _ _ _ Hct Hc').
    + intros field ->. by destruct (scope_lookup scope field) as [[]|].
    + by apply typeref_checked in Hv as [Hv _].
  - by apply typeref_checked in Hv as [Hv _].
  - apply rbind_Ok_inv in Hv as (class & Hc & Hv). apply rbind_Ok_inv in Hv as (u & Hf & Ho).
    assert (∀ key ty, (key, ty) ∈ fields → key_fits class key ∧ ref_resolves ty) as Hin.
    { intros key ty Hin. apply (each_pair_Ok_inv _ _ _ _ _ Hf) in Hin. apply rbind_Ok_inv in Hin as (u' & Hk%branch_key_same & Ht).
      by apply typeref_checked in Ht as [Ht _]. }
    split; [exists class; split; [exact (same_Ok _ _ _ (same_compare _ _ _ _ _) Hc)|naive_solver]|].
    split; [naive_solver|]. intros ty ->. by apply typeref_checked in Ho as [Ho _].
  - apply rbind_Ok_inv in Hv as (u & Ht%guard_ok_inv & Hv). split; [done|]. intros key name Hin.
    apply (each_pair_Ok_inv _ _ _ _ _ Hv), guard_ok_inv in Hin. by apply bool_decide_eq_true in Hin.
  - intros c Hc. exact (count_type_checked _ _ _ _ Hv Hc).
  - exists ct. split; [done|]. by apply guard_ok_inv in Hv.
  - done.
  - apply rbind_Ok_inv in Hv as (u & Ht%guard_ok_inv & Hv). rewrite andb_true_iff, !Z.leb_le in Ht. split; [done|].
    intros m Hm. apply (each_Ok_inv _ _ _ Hv), guard_ok_inv, negb_true_iff, Z.eqb_neq in Hm. done.
  - apply rbind_Ok_inv in Hv as (u & Ht%guard_ok_inv & Hv%guard_ok_inv). apply Nat.leb_le in Hv.
    rewrite orb_true_iff, !String.eqb_eq in Ht. destruct Ht as [->| ->]; simpl in Hv; auto.
  - by apply loop_checked in Hv.
  - by apply loop_checked in Hv.
  - by apply typeref_checked in Hv as [Hv _].
  - apply rbind_Ok_inv in Hv as ([] & Hb & Ho). by apply typeref_checked in Hb as [Hb _], Ho as [Ho _].
Qed.

Lemma checked_inside p q : inside p q → checked p.1.1 p.1.2 p.2 → checked q.1.1 q.1.2 q.2.
Proof.
  intros Hin [ctx Hv]. destruct Hin; simpl in Hv |- *.
  - apply rbind_Ok_inv in Hv as (s & Hv & _). apply fields_checked in Hv as (_ & _ & Hin); [|apply Forall_true, all_fields_checked].
    eapply Hin; [done|]. done.
  - apply rbind_Ok_inv in Hv as (u & _ & Hv). apply rbind_Ok_inv in Hv as (u' & _ & Hv). by exists ctx.
  - by exists ctx.
  - apply rbind_Ok_inv in Hv as (class & _ & Hv). apply rbind_Ok_inv in Hv as (u & Hf & _).
    eapply each_pair_Ok_inv in Hf; [|done]. apply rbind_Ok_inv in Hf as (u' & _ & Ht). by exists ctx.
  - apply rbind_Ok_inv in Hv as (class & _ & Hv). apply rbind_Ok_inv in Hv as (u & _ & Ho). by exists ctx.
  - by exists ctx.
  - apply rbind_Ok_inv in Hv as ([] & Hb & _). by exists ctx.
  - apply rbind_Ok_inv in Hv as ([] & _ & Ho). by exists ctx.
Qed.

Lemma checked_reaches p q : rtc inside p q → checked p.1.1 p.1.2 p.2 → checked q.1.1 q.1.2 q.2.
Proof. induction 1 as [|p q r Hpq _ IH]; [done|]. intros Hp. by eapply IH, checked_inside. Qed.
End positions.

(** The named types a state's direction sees: its own, and those all share. *)
Inductive defines (ir : Ir) : option DirectionIr → TypeDef → Prop :=
  | defines_shared name def : (name, def) ∈ shared_types ir → defines ir None def
  | defines_local s d name def : s ∈ states ir → d ∈ [clientbound s; serverbound s] → (name, def) ∈ local_types d → defines ir (Some d) def.

(** C24. In an accepted description every expression outside the elements of
    terminated loops is well formed where it stands. An expression stands
    inside a named type, with the fields decoded before it and the enclosing
    containers in view; wherever it does, the names it uses resolve, a
    discriminant is a field decoded before it, or a member of one, and the
    keys of the branches are values of its class, a count is an earlier
    number, numeric keys parse, bit widths fit; and the target of an alias
    resolves. Of the element of a terminated loop nothing is promised but that
    it is a container whose first field is a byte: the code does not validate
    its other fields ([loop_fields_unchecked]). *)
Theorem accepted_types_well_formed (file : ProtocolFile) (ir : Ir) (dir : option DirectionIr) (def : TypeDef) :
  build file = Ok ir → defines ir dir def →
  match def with
  | Native => True
  | Alias target => resolves ir dir target
  | Compound root => ∀ c scope anc, rtc (inside ir dir) (root, [], []) (c, scope, anc) → well_formed ir dir c scope anc
  end.
Proof.
  intros (Hv & _)%build_inv Hdef. apply rbind_Ok_inv in Hv as (u & Hs & Hl).
  assert (∃ name, validate_def ir dir name def = Ok tt) as [name Hname].
  { destruct Hdef as [name def Hin|s d name def Hst Hd Hin]; exists name; [exact (each_pair_Ok_inv _ _ _ _ _ Hs Hin)|].
    pose proof (each_Ok_inv _ _ _ Hl s Hst) as Hd'. pose proof (each_Ok_inv _ _ _ Hd' d Hd) as Hn. exact (each_pair_Ok_inv _ _ _ _ _ Hn Hin). }
  destruct def as [|target|root]; [done| |].
  - simpl in Hname. apply guard_ok_inv in Hname. unfold resolves. by rewrite orb_true_iff, bool_decide_eq_true in Hname.
  - intros c scope anc Hr. apply checked_well_formed.
    assert (checked ir dir root [] []) as H0 by (by exists name). exact (checked_reaches _ _ _ _ Hr H0).
Qed.

(** ** Loops through aliases *)

Section aliases.
Context (ir : Ir) (dir : option DirectionIr).

Definition alias_of (name : string) : option string := match lookup ir dir name with Some (Alias t) => Some t | _ => None end.
Fixpoint chain (k : nat) (name : string) : option string :=
  match k with O => Some name | S k => alias_of name ≫= chain k end.

Lemma chain_add a b n : chain (a + b) n = chain a n ≫= chain b.
Proof. revert n. induction a as [|a IH]; intros n; simpl; [done|]. destruct (alias_of n); simpl; [apply IH|done]. Qed.
Lemma chain_prefix a b n : (a ≤ b)%nat → is_Some (chain b n) → is_Some (chain a n).
Proof. intros Hab. replace b with (a + (b - a))%nat by lia. rewrite chain_add. destruct (chain a n); [done|by intros []]. Qed.

(** A chain that meets a name again never ends. *)
Lemma chain_cycle i j n x : (i < j)%nat → chain i n = Some x → chain j n = Some x → ∀ m, is_Some (chain m n).
Proof.
  intros Hij Hi Hj m. induction m as [m IH] using lt_wf_ind. destruct (decide (m ≤ j)%nat); [by apply (chain_prefix m j)|].
  assert (chain m n = chain (i + (m - j)) n) as ->; [|apply IH; lia].
  replace m with (j + (m - j))%nat at 1 by lia. by rewrite !chain_add, Hi, Hj.
Qed.

Lemma bt_get_key {A} (m : btree A) k a : bt_get m k = Some a → k ∈ map fst m.
Proof.
  unfold bt_get. destruct (List.find _ m) as [[k' a']|] eqn:Hf; [|done]. intros _. apply List.find_some in Hf as [Hin Heq%String.eqb_eq].
  simpl in Heq. subst k'. apply list_elem_of_In. by apply (in_map fst) in Hin.
Qed.
Definition visible : list string := map fst (match dir with Some d => local_types d | None => [] end) ++ map fst (shared_types ir).
Lemma alias_visible n t : alias_of n = Some t → n ∈ visible.
Proof.
  unfold alias_of, lookup, visible. rewrite elem_of_app. destruct dir as [d|]; simpl.
  - destruct (bt_get (local_types d) n) as [def|] eqn:Hl; [left; by eapply bt_get_key|].
    destruct (bt_get (shared_types ir) n) eqn:Hs; [right; by eapply bt_get_key|done].
  - destruct (bt_get (shared_types ir) n) eqn:Hs; [right; by eapply bt_get_key|done].
Qed.

(** More steps than names: the chain has met a name again. *)
Lemma chain_endless n : is_Some (chain (loop_fuel ir dir) n) → ∀ m, is_Some (chain m n).
Proof.
  intros HF m. destruct (decide (is_Some (chain m n))) as [|Hno]; [done|exfalso].
  set (F := loop_fuel ir dir) in *. set (l := map (λ i, default "" (chain i n)) (seq 0 F)).
  assert (∀ i, (i < F)%nat → ∃ x, chain i n = Some x ∧ is_Some (alias_of x) ∧ l !! i = Some x) as Hl.
  { intros i Hi. destruct (chain_prefix i F n ltac:(lia) HF) as [x Hx]. exists x. split; [done|]. split.
    - pose proof (chain_prefix (i + 1) F n ltac:(lia) HF) as H. rewrite chain_add, Hx in H. simpl in H. by destruct (alias_of x).
    - unfold l. rewrite list_lookup_fmap, lookup_seq_lt by done. simpl. by rewrite Hx. }
  assert (length l = F) as Hlen by (unfold l; by rewrite length_map, length_seq).
  assert (NoDup l) as Hnd.
  { apply NoDup_alt. intros i j x Hi Hj. pose proof (lookup_lt_Some _ _ _ Hi). pose proof (lookup_lt_Some _ _ _ Hj).
    destruct (Hl i ltac:(lia)) as (y & Hci & _ & Hi'), (Hl j ltac:(lia)) as (z & Hcj & _ & Hj'). simplify_eq.
    destruct (lt_eq_lt_dec i j) as [[Hlt|]|Hlt]; [|done|]; destruct Hno; by eapply (chain_cycle _ _ n x Hlt). }
  assert (∀ x, x ∈ l → x ∈ visible) as Hsub.
  { intros x (i & Hi)%list_elem_of_lookup. pose proof (lookup_lt_Some _ _ _ Hi).
    destruct (Hl i ltac:(lia)) as (y & _ & [t Ht] & Hi'). simplify_eq. by eapply alias_visible. }
  pose proof (submseteq_length _ _ (NoDup_submseteq _ _ Hnd Hsub)) as H. rewrite Hlen in H. unfold F, loop_fuel, visible in H.
  rewrite length_app, !length_map in H. lia.
Qed.

Lemma loop_endless fuel n ctx kind : loop_container ir dir fuel (Named n) ctx kind = Err Endless ↔ is_Some (chain fuel n).
Proof.
  revert n. induction fuel as [|fuel IH]; intros n; simpl; [by split; [exists n|]|]. unfold alias_of.
  destruct (lookup ir dir n) as [[|t|[]]|]; simpl; [by split; [|intros []]|apply IH|by split; [|intros []]..].
Qed.
Lemma loop_more fuel more ty ctx kind :
  loop_container ir dir fuel ty ctx kind ≠ Err Endless → (fuel ≤ more)%nat →
  loop_container ir dir more ty ctx kind = loop_container ir dir fuel ty ctx kind.
Proof.
  revert more ty. induction fuel as [|fuel IH]; intros [|more] ty Hne Hle; [done|done|lia|]. simpl in *.
  destruct ty as [n|[]]; try done. destruct (lookup ir dir n) as [[|t|[]]|]; try done. apply IH; [done|lia].
Qed.

(** The fuel decides exactly whether the recursion of the code ends. *)
Lemma loop_fuel_exact fuel ty ctx kind :
  (loop_fuel ir dir ≤ fuel)%nat → loop_container ir dir fuel ty ctx kind = loop_container ir dir (loop_fuel ir dir) ty ctx kind.
Proof.
  intros Hf. destruct ty as [n|c].
  - destruct (decide (is_Some (chain (loop_fuel ir dir) n))) as [Hc|Hc].
    + transitivity (Err Endless : Res (list ContainerField)); [|symmetry]; apply loop_endless; [by apply chain_endless|done].
    + apply loop_more; [by rewrite loop_endless|done].
  - apply loop_more; [|done]. unfold loop_fuel. simpl. by destruct c.
Qed.
End aliases.

(** ** Samples *)

(** A description with the given shared types, and one packet, of the given
    payload, that the client may send when logging in. *)
Definition dispatch (mappings : list (string * string)) (branches : list (string * TypeRef)) : TypeDef :=
  Compound (Container [mkField (Some "name") false (Inline (MapperOf "varint" mappings));
                       mkField (Some "params") false (Inline (SwitchOn "name" branches None))]).
Definition no_packets : DirectionSection := mkSection [("packet"%string, dispatch [] [])].
Definition quiet_state : StateSection := mkStateSection no_packets no_packets.
Definition sample (shared : btree TypeDef) (payload : string) (local : btree TypeDef) : ProtocolFile :=
  mkFile (("varint"%string, Native) :: shared) quiet_state quiet_state
    (mkStateSection no_packets
       (mkSection (("packet"%string, dispatch [("0x02"%string, "hello"%string)] [("hello"%string, Named payload)]) :: local)))
    quiet_state quiet_state.

(** A container whose switch compares to the field before it. *)
Definition tagged : Complex :=
  Container [mkField (Some "kind") false (Named "varint");
             mkField (Some "value") false (Inline (SwitchOn "kind" [("0"%string, Named "bool")] (Some (Inline (OptionOf (Named "varint"))))))].
Definition sample_file : ProtocolFile := sample [] "packet_hello" [("packet_hello"%string, Compound tagged)].

Definition built (file : ProtocolFile) : Ir := match build file with Ok ir => ir | Err _ => mkIr [] [] end.

Lemma sample_built : build sample_file = Ok (built sample_file).
Proof. by vm_compute. Qed.

Lemma packet_tables_exact_witness :
  build sample_file = Ok (built sample_file) ∧ map ir_state (states (built sample_file)) = ALL
  ∧ ∃ s, states (built sample_file) !! 2%nat = Some s ∧ packets (serverbound s) = [mkPacket 2 "hello" "packet_hello"]
    ∧ strict (map pk_id (packets (serverbound s))).
Proof.
  assert (build sample_file = Ok (built sample_file)) as H by (vm_compute; reflexivity).
  destruct (packet_tables_exact _ _ H) as [Hall Hs]. split; [exact H|]. split; [exact Hall|].
  destruct (states (built sample_file) !! 2%nat) as [s|] eqn:Heq; [|discriminate Heq]. exists s. split; [reflexivity|].
  destruct (Hs s (list_elem_of_lookup_2 _ _ _ Heq)) as [_ (mappings & branches & _ & Hstrict & _)].
  split; [vm_compute in Heq; injection Heq as <-; reflexivity|exact Hstrict].
Defined.

Lemma accepted_types_well_formed_witness :
  ∃ d, defines (built sample_file) (Some d) (Compound tagged)
  ∧ well_formed (built sample_file) (Some d) (SwitchOn "kind" [("0"%string, Named "bool")] (Some (Inline (OptionOf (Named "varint")))))
      [("kind"%string, Numeric)] [[]].
Proof.
  assert (build sample_file = Ok (built sample_file)) as H by (vm_compute; reflexivity).
  destruct (states (built sample_file) !! 2%nat) as [s|] eqn:Hs; [|discriminate Hs].
  assert (defines (built sample_file) (Some (serverbound s)) (Compound tagged)) as Hd.
  { apply (defines_local _ s _ "packet_hello"); [by eapply list_elem_of_lookup_2|right; left|].
    vm_compute in Hs. injection Hs as <-. left. }
  exists (serverbound s). split; [exact Hd|].
  apply (accepted_types_well_formed _ _ _ _ H Hd). apply rtc_once.
  vm_compute in Hs. injection Hs as <-.
  exact (inside_container _ _ [mkField (Some "kind"%string) false (Named "varint")] _ [] [] [] _ _ (inside_named _ _ _ _ _)).
Defined.

(** The element of a terminated loop is only looked at for its first field: a
    description is accepted whose loop uses a type that does not exist. *)
Definition dangling_loop : Complex :=
  TopBitSetTerminatedArray (Inline (Container [mkField (Some "slot") false (Named "i8"); mkField (Some "item") false (Named "Missing")])).
Lemma loop_fields_unchecked :
  let file := sample [("Loop"%string, Compound dangling_loop)] "Loop" [] in
  build file = Ok (built file) ∧ defines (built file) None (Compound dangling_loop)
  ∧ Forall (λ dir, lookup (built file) dir "Missing" = None)
      (None :: flat_map (λ s, [Some (clientbound s); Some (serverbound s)]) (states (built file))).
Proof.
  split; [by vm_compute|]. split; [by apply (defines_shared _ "Loop"); vm_compute; left|]. repeat constructor.
Qed.

(** Aliases that lead to each other, as the element of a loop: looking for its
    container never ends. *)
Lemma loop_alias_cycle :
  build (sample [("A"%string, Alias "B"); ("B"%string, Alias "A"); ("Loop"%string, Compound (TopBitSetTerminatedArray (Named "A")))] "Loop" []) = Err Endless.
Proof. by vm_compute. Qed.

(** A marker among the local types is not filtered out: classifying a field of
    that type reaches the code's [unreachable!]. *)
Lemma local_marker_panics :
  build (sample [] "packet_hello" [("marker"%string, Native); ("packet_hello"%string, Compound (Container [mkField (Some "f") false (Named "marker")]))]) = Err Panicked.
Proof. by vm_compute. Qed.

(** A payload may be the dispatching container itself or a native, neither of
    which is a type of the representation. *)
Lemma payload_without_type :
  Forall (λ payload, ∃ ir s, build (sample [] payload []) = Ok ir ∧ states ir !! 2%nat = Some s
    ∧ map pk_payload (packets (serverbound s)) = [payload]
    ∧ bt_get (local_types (serverbound s)) payload = None ∧ bt_get (shared_types ir) payload = None) ["packet"; "varint"]%string.
Proof. repeat constructor; eexists _, _; by vm_compute. Qed.
