(* ===== verification/Float.v ===== *)
(** * Floating point

    An [f32] or [f64] of the program is carried as its bits, which is how it
    crosses the wire and how a copy moves it.  Arithmetic decodes the bits
    into a [spec_float], rounds as the machine does and encodes the result;
    the payload of a NaN that arithmetic makes is not specified by the
    language and is the canonical one here. *)

From Stdlib Require Import SpecFloat.
From S2P Require Import Prelude Machine.

Local Open Scope Z_scope.

(** ** Bits *)

Section format.
(** The widths of the stored mantissa and of the exponent. *)
Context (mb eb : Z).

Definition float_prec : Z := mb + 1.
Definition float_emax : Z := 2 ^ (eb - 1).
Definition float_emin : Z := 3 - float_emax - float_prec.
Definition float_sign (s : bool) : Z := if s then 2 ^ (mb + eb) else 0.

Definition float_of_bits (b : Z) : spec_float :=
  let s := Z.testbit b (mb + eb) in
  let e := (b / 2 ^ mb) `mod` 2 ^ eb in
  let m := b `mod` 2 ^ mb in
  if e =? 0 then match m with Zpos p => S754_finite s p float_emin | _ => S754_zero s end
  else if e =? 2 ^ eb - 1 then if m =? 0 then S754_infinity s else S754_nan
  else match m + 2 ^ mb with Zpos p => S754_finite s p (e - 1 + float_emin) | _ => S754_nan end.

Definition bits_of_float (f : spec_float) : Z :=
  match f with
  | S754_zero s => float_sign s
  | S754_infinity s => float_sign s + (2 ^ eb - 1) * 2 ^ mb
  | S754_nan => (2 ^ eb - 1) * 2 ^ mb + 2 ^ (mb - 1)
  | S754_finite s p e =>
      float_sign s
      + (if Zpos p <? 2 ^ mb then Zpos p else (e - float_emin + 1) * 2 ^ mb + (Zpos p - 2 ^ mb))
  end.
End format.

Definition f32_val : Z → spec_float := float_of_bits 23 8.
Definition f32_bits : spec_float → Z := bits_of_float 23 8.
Definition f64_val : Z → spec_float := float_of_bits 52 11.
Definition f64_bits : spec_float → Z := bits_of_float 52 11.

Definition float_is_nan (a : spec_float) : bool := match a with S754_nan => true | _ => false end.

(** [f64::min] and [f64::max]: a NaN loses. *)
Definition float_min (a b : spec_float) : spec_float :=
  if float_is_nan a then b else if SFltb b a then b else a.
Definition float_max (a b : spec_float) : spec_float :=
  if float_is_nan a then b else if SFltb a b then b else a.

(** [floor], and the saturating conversion [as i32]. *)
Definition float_floor (prec emax : Z) (a : spec_float) : spec_float :=
  match a with
  | S754_finite s m e =>
      if 0 <=? e then a else binary_normalize prec emax (cond_Zopp s (Zpos m) / 2 ^ (- e)) 0 false
  | _ => a
  end.

Definition float_to_i32 (a : spec_float) : Z :=
  match a with
  | S754_zero _ | S754_nan => 0
  | S754_infinity s => if s then i32_min else i32_max
  | S754_finite s m e =>
      let t := if 0 <=? e then Zpos m * 2 ^ e else Zpos m / 2 ^ (- e) in
      Z.max i32_min (Z.min i32_max (cond_Zopp s t))
  end.

(** [%]: the exact remainder with the sign of the dividend. *)
Definition float_rem (prec emax : Z) (a b : spec_float) : spec_float :=
  match a, b with
  | S754_nan, _ | _, S754_nan | S754_infinity _, _ | _, S754_zero _ => S754_nan
  | S754_zero _, _ | _, S754_infinity _ => a
  | S754_finite s m e, S754_finite _ n f =>
      let k := Z.min e f in
      binary_normalize prec emax (cond_Zopp s ((Zpos m * 2 ^ (e - k)) `mod` (Zpos n * 2 ^ (f - k)))) k s
  end.

(** A conversion between widths. *)
Definition float_convert (prec emax : Z) (a : spec_float) : spec_float :=
  match a with
  | S754_finite s m e => binary_normalize prec emax (cond_Zopp s (Zpos m)) e false
  | _ => a
  end.

(** ** [f64] *)

Definition f64_lift2 (f : spec_float → spec_float → spec_float) (a b : Z) : Z := f64_bits (f (f64_val a) (f64_val b)).
Definition d_add : Z → Z → Z := f64_lift2 (SFadd 53 1024).
Definition d_sub : Z → Z → Z := f64_lift2 (SFsub 53 1024).
Definition d_mul : Z → Z → Z := f64_lift2 (SFmul 53 1024).
Definition d_div : Z → Z → Z := f64_lift2 (SFdiv 53 1024).
Definition d_sqrt (a : Z) : Z := f64_bits (SFsqrt 53 1024 (f64_val a)).
Definition d_min (a b : Z) : Z := if float_is_nan (f64_val a) then b else if SFltb (f64_val b) (f64_val a) then b else a.
Definition d_max (a b : Z) : Z := if float_is_nan (f64_val a) then b else if SFltb (f64_val a) (f64_val b) then b else a.
Definition d_abs (a : Z) : Z := a `mod` 2 ^ 63.
Definition d_neg (a : Z) : Z := if a <? 2 ^ 63 then a + 2 ^ 63 else a - 2 ^ 63.
Definition d_lt (a b : Z) : bool := SFltb (f64_val a) (f64_val b).
Definition d_le (a b : Z) : bool := SFleb (f64_val a) (f64_val b).
Definition d_eq (a b : Z) : bool := SFeqb (f64_val a) (f64_val b).
(** [z as f64] *)
Definition d_of_Z (z : Z) : Z := f64_bits (binary_normalize 53 1024 z 0 false).
(** A decimal literal [n / 10 ^ k]: the nearest [f64]. *)
Definition d_lit (n k : Z) : Z := d_div (d_of_Z n) (d_of_Z (10 ^ k)).
(** [a.floor() as i32] and [a.ceil() as i32]. *)
Definition d_floor_i32 (a : Z) : Z := float_to_i32 (float_floor 53 1024 (f64_val a)).
Definition d_ceil_i32 (a : Z) : Z := float_to_i32 (SFopp (float_floor 53 1024 (SFopp (f64_val a)))).

(** ** [f32] *)

Definition f32_lift2 (f : spec_float → spec_float → spec_float) (a b : Z) : Z := f32_bits (f (f32_val a) (f32_val b)).
Definition s_add : Z → Z → Z := f32_lift2 (SFadd 24 128).
Definition s_sub : Z → Z → Z := f32_lift2 (SFsub 24 128).
Definition s_mul : Z → Z → Z := f32_lift2 (SFmul 24 128).
Definition s_div : Z → Z → Z := f32_lift2 (SFdiv 24 128).
Definition s_eq (a b : Z) : bool := SFeqb (f32_val a) (f32_val b).
Definition s_of_Z (z : Z) : Z := f32_bits (binary_normalize 24 128 z 0 false).
Definition s_lit (n k : Z) : Z := s_div (s_of_Z n) (s_of_Z (10 ^ k)).
Definition s_to_i32 (a : Z) : Z := float_to_i32 (f32_val a).

Definition s_rem (a b : Z) : Z := f32_bits (float_rem 24 128 (f32_val a) (f32_val b)).
Definition s_lt (a b : Z) : bool := SFltb (f32_val a) (f32_val b).
Definition s_max (a b : Z) : Z := if float_is_nan (f32_val a) then b else if s_lt a b then b else a.
Definition s_neg (a : Z) : Z := if a <? 2 ^ 31 then a + 2 ^ 31 else a - 2 ^ 31.
(** [f32::rem_euclid] with a positive divisor, and [f32::clamp]. *)
Definition s_rem_euclid (a b : Z) : Z := let r := s_rem a b in if s_lt r 0 then s_add r b else r.
Definition s_clamp (lo hi a : Z) : Z := if s_lt a lo then lo else if s_lt hi a then hi else a.

(** [f64::from] and [as f32]. *)
Definition d_of_s (a : Z) : Z := f64_bits (float_convert 53 1024 (f32_val a)).
Definition s_of_d (a : Z) : Z := f32_bits (float_convert 24 128 (f64_val a)).

(** ** Comparing floats by their bits *)

(** The 31 magnitude bits of an [f32]. *)
Definition f32_magnitude (b : Z) : Z := b `mod` 2 ^ 31.
Definition f32_is_nan (b : Z) : bool := 0x7f800000 <? f32_magnitude b.
Definition f32_is_finite (b : Z) : bool := f32_magnitude b <? 0x7f800000.

(** Where a float that is not a NaN lies in the order; both zeros at 0. *)
Definition f32_rank (b : Z) : Z := if b <? 2 ^ 31 then b else - f32_magnitude b.

Definition f32_lt (a b : Z) : bool := negb (f32_is_nan a) && negb (f32_is_nan b) && (f32_rank a <? f32_rank b).
Definition f32_le (a b : Z) : bool := negb (f32_is_nan a) && negb (f32_is_nan b) && (f32_rank a <=? f32_rank b).

Definition f32_zero : Z := 0.
Definition f32_one : Z := 0x3f800000.
Definition f32_minus_one : Z := 0xbf800000.

(** ** Decoding and encoding *)

Section format_laws.
Context (mb eb : Z) (Hmb : 0 < mb) (Heb : 1 < eb).

Lemma float_bits_split b :
  in_u (mb + eb + 1) b →
  b = float_sign mb eb (Z.testbit b (mb + eb)) + (b / 2 ^ mb) `mod` 2 ^ eb * 2 ^ mb + b `mod` 2 ^ mb.
Proof.
  intros Hb. unfold in_u in Hb. pose proof (pow2_pos mb ltac:(lia)). pose proof (pow2_pos eb ltac:(lia)).
  assert (2 ^ (mb + eb) = 2 ^ mb * 2 ^ eb) as Hpow by (apply Z.pow_add_r; lia).
  rewrite Z.pow_add_r in Hb by lia. change (2 ^ 1) with 2 in Hb.
  assert (float_sign mb eb (Z.testbit b (mb + eb)) = b / 2 ^ mb / 2 ^ eb * 2 ^ (mb + eb)) as ->.
  { unfold float_sign. rewrite Z.div_div, <- Hpow by lia.
    assert (b / 2 ^ (mb + eb) = 0 ∨ b / 2 ^ (mb + eb) = 1) as Hq.
    { assert (0 ≤ b / 2 ^ (mb + eb) < 2); [|lia]. split; [apply Z.div_pos; lia|]. apply Z.div_lt_upper_bound; lia. }
    destruct (Z.testbit b (mb + eb)) eqn:Ht.
    - apply Z.testbit_true in Ht; [|lia]. destruct Hq as [Hq|Hq]; rewrite Hq in Ht |- *; [done|lia].
    - apply Z.testbit_false in Ht; [|lia]. destruct Hq as [Hq|Hq]; rewrite Hq in Ht |- *; [lia|done]. }
  rewrite (Z.div_mod b (2 ^ mb)) at 1 by lia.
  rewrite (Z.div_mod (b / 2 ^ mb) (2 ^ eb)) at 1 by lia. rewrite Hpow. lia.
Qed.

(** Bits that are not a NaN survive decoding and encoding. *)
Lemma bits_of_float_of_bits b :
  in_u (mb + eb + 1) b → float_is_nan (float_of_bits mb eb b) = false →
  bits_of_float mb eb (float_of_bits mb eb b) = b.
Proof.
  intros Hb. pose proof (float_bits_split b Hb) as Hsplit. unfold float_of_bits.
  pose proof (Z.mod_pos_bound b (2 ^ mb) (pow2_pos mb ltac:(lia))) as Hm.
  pose proof (Z.mod_pos_bound (b / 2 ^ mb) (2 ^ eb) (pow2_pos eb ltac:(lia))) as He.
  revert Hsplit Hm He. generalize (Z.testbit b (mb + eb)) ((b / 2 ^ mb) `mod` 2 ^ eb) (b `mod` 2 ^ mb). intros s e m Hsplit Hm He.
  destruct (Z.eqb_spec e 0) as [->|He0].
  - destruct m as [|p|p]; [intros _; unfold bits_of_float; lia| |lia]. intros _. unfold bits_of_float. destruct (Z.ltb_spec (Zpos p) (2 ^ mb)); lia.
  - destruct (Z.eqb_spec e (2 ^ eb - 1)) as [->|Hinf].
    + destruct (Z.eqb_spec m 0) as [->|]; [|done]. intros _. unfold bits_of_float. lia.
    + destruct (m + 2 ^ mb) as [|p|p] eqn:Hp; [lia| |lia]. intros _. unfold bits_of_float.
      destruct (Z.ltb_spec (Zpos p) (2 ^ mb)); [lia|]. rewrite <- Hp. lia.
Qed.
End format_laws.

Lemma f64_bits_val b : in_u 64 b → float_is_nan (f64_val b) = false → f64_bits (f64_val b) = b.
Proof. apply (bits_of_float_of_bits 52 11); lia. Qed.

Lemma f32_bits_val b : in_u 32 b → float_is_nan (f32_val b) = false → f32_bits (f32_val b) = b.
Proof. apply (bits_of_float_of_bits 23 8); lia. Qed.

(** ** Comparisons *)

Lemma SFcompare_antisym a b : SFcompare b a = option_map CompOpp (SFcompare a b).
Proof.
  destruct a as [s|s| |s m e], b as [t|t| |t n f]; try done; try (by destruct s); try (by destruct t); try (by destruct s, t).
  simpl. destruct s, t; try done; rewrite (Z.compare_antisym e f); destruct (e ?= f); simpl; try done;
    by rewrite (Pos.compare_cont_antisym m n Eq).
Qed.

Lemma SFcompare_refl a : float_is_nan a = false → SFcompare a a = Some Eq.
Proof.
  destruct a as [s|s| |s m e]; try done; simpl; try (by destruct s). intros _. rewrite Z.compare_refl.
  destruct s; by rewrite Pos.compare_cont_refl.
Qed.

Lemma SFcompare_not_nan a b : float_is_nan a = false → float_is_nan b = false → is_Some (SFcompare a b).
Proof.
  destruct a as [s|s| |s m e], b as [t|t| |t n f]; try done; intros _ _; try (by eexists); try (by destruct s; eexists); try (by destruct t; eexists).
Qed.

Lemma float_min_le a b : float_is_nan b = false → SFleb (float_min a b) b = true.
Proof.
  intros Hb. unfold float_min, SFleb, SFltb. destruct (float_is_nan a) eqn:Ha; [by rewrite SFcompare_refl|].
  destruct (SFcompare_not_nan a b Ha Hb) as [c Hc]. rewrite (SFcompare_antisym a b), Hc. simpl.
  destruct c; simpl; rewrite ?Hc; [done|done|by rewrite SFcompare_refl].
Qed.

Lemma float_max_not_nan a b : float_is_nan b = false → float_is_nan (float_max a b) = false.
Proof. intros Hb. unfold float_max. destruct (float_is_nan a) eqn:Ha; [done|]. by destruct (SFltb a b). Qed.
