(* ===== verification/FloatOrder.v ===== *)
(** * Order and sign of floating point

    What [Float] computes, as far as comparisons see it: [<=] is transitive,
    the operations of IEEE 754 give results within the format, so that
    encoding them keeps their sign, and the sign of a difference is the order
    of its operands. *)

From Stdlib Require Import SpecFloat.
From S2P Require Import Prelude Machine Float.

Local Open Scope Z_scope.

(** ** The order *)

Lemma SFleb_not_nan a b : SFleb a b = true → float_is_nan a = false ∧ float_is_nan b = false.
Proof. unfold SFleb. destruct a, b; done. Qed.

Lemma SFltb_leb a b : SFltb a b = true → SFleb a b = true.
Proof. unfold SFltb, SFleb. by destruct (SFcompare a b) as [[]|]. Qed.

Lemma SFleb_refl a : float_is_nan a = false → SFleb a a = true.
Proof. intros Ha. unfold SFleb. by rewrite SFcompare_refl. Qed.

Lemma SFltb_false a b : SFltb a b = false → float_is_nan a = false → float_is_nan b = false → SFleb b a = true.
Proof.
  unfold SFltb, SFleb. intros H Ha Hb. destruct (SFcompare_not_nan a b Ha Hb) as [c Hc].
  rewrite (SFcompare_antisym a b), Hc in *. by destruct c.
Qed.

(** The comparison of two finite numbers of one sign. *)
Lemma finite_leb s m e n f :
  SFleb (S754_finite s m e) (S754_finite s n f) = true ↔
  if s then f < e ∨ f = e ∧ (n ≤ m)%positive else e < f ∨ e = f ∧ (m ≤ n)%positive.
Proof.
  unfold SFleb. simpl. change (Pos.compare_cont Eq m n) with (m ?= n)%positive.
  destruct s, (Z.compare_spec e f), (Pos.compare_spec m n); simpl; split; intros ?; subst; try done; try lia; auto.
Qed.

Lemma SFleb_trans a b c : SFleb a b = true → SFleb b c = true → SFleb a c = true.
Proof.
  intros H1 H2. pose proof (SFleb_not_nan _ _ H1). pose proof (SFleb_not_nan _ _ H2).
  destruct a as [sa|sa| |sa m e], b as [sb|sb| |sb n f], c as [sc|sc| |sc o g]; try done; try (destruct sa; done); try (destruct sb; done);
    try (destruct sc; done); try (destruct sa, sb; done); try (destruct sb, sc; done); try (destruct sa, sc; done); try (destruct sa, sb, sc; done).
  destruct (decide (sa = sb)) as [->|Hab]; [|destruct sa, sb, sc; done].
  destruct (decide (sb = sc)) as [->|Hbc]; [|destruct sb, sc; done].
  rewrite finite_leb in *. destruct sc; lia.
Qed.

(** ** Results within the format *)

(** [2 ^ prec] bounds the mantissa, the exponent is one of the format. *)
Definition in_format (prec emax : Z) (a : spec_float) : Prop :=
  match a with
  | S754_finite _ m e => Zpos m < 2 ^ prec ∧ emin prec emax ≤ e ≤ emax - prec
  | _ => True
  end.

Definition same_sign (s : bool) (a : spec_float) : Prop :=
  match a with S754_finite t _ _ | S754_zero t | S754_infinity t => t = s | S754_nan => True end.

Lemma digits2_pos_bound m : Zpos m < 2 ^ Zpos (digits2_pos m).
Proof.
  induction m as [m IH|m IH|]; simpl; [| |done]; rewrite Pos2Z.inj_succ, Z.pow_succ_r by lia; lia.
Qed.

Lemma iter_pos_succ {A} (f : A → A) n x : SpecFloat.iter_pos f (Pos.succ n) x = f (SpecFloat.iter_pos f n x).
Proof.
  assert (∀ n y, SpecFloat.iter_pos f n (f y) = f (SpecFloat.iter_pos f n y)) as Hc.
  { intros k. induction k as [k IH|k IH|]; intros y; simpl; [by rewrite !IH|by rewrite !IH|done]. }
  revert x. induction n as [n IH|n IH|]; intros x; simpl; [|by rewrite !Hc|done]. by rewrite !IH, !Hc.
Qed.

Lemma shr_1_m r : 0 ≤ shr_m r → shr_m (shr_1 r) = shr_m r / 2.
Proof.
  destruct r as [[|[p|p|]|p] b t]; simpl; intros H; try done.
  - apply (Z.div_unique _ _ _ 1); lia.
  - apply (Z.div_unique _ _ _ 0); lia.
Qed.

Lemma iter_shr_m n r : 0 ≤ shr_m r → shr_m (SpecFloat.iter_pos shr_1 n r) = shr_m r / 2 ^ Zpos n.
Proof.
  intros Hr. induction n as [|n IH] using Pos.peano_ind; [by apply shr_1_m|].
  rewrite iter_pos_succ, shr_1_m, IH; [|rewrite IH; apply Z.div_pos; lia].
  rewrite Pos2Z.inj_succ, Z.pow_succ_r, (Z.mul_comm 2), Z.div_div by lia. done.
Qed.

Section rounding.
Context (prec emax : Z) (Hprec : 0 < prec).

(** Shifting to the exponent the format gives the digits: at most [prec] of
    them remain. *)
Lemma shr_fexp_in_format m e l :
  0 ≤ m → let '(r, e') := shr_fexp prec emax m e l in 0 ≤ shr_m r < 2 ^ prec ∧ emin prec emax ≤ e'.
Proof.
  intros Hm. unfold shr_fexp, shr, fexp. set (d := Zdigits2 m).
  assert (0 ≤ d ∧ m < 2 ^ d) as [Hd Hmd].
  { unfold d. destruct m as [|p|p]; [done|split; [done|apply digits2_pos_bound]|lia]. }
  assert (shr_m (shr_record_of_loc m l) = m) as Hl by (by destruct l as [|[]]).
  destruct (Z.max (d + e - prec) (emin prec emax) - e) as [|p|p] eqn:Hs.
  - rewrite Hl. split; [|lia]. split; [done|]. eapply Z.lt_le_trans; [exact Hmd|]. apply Z.pow_le_mono_r; lia.
  - rewrite iter_shr_m, Hl by lia. split; [|lia]. split; [apply Z.div_pos; lia|].
    apply Z.div_lt_upper_bound; [lia|]. rewrite <- Z.pow_add_r by lia. eapply Z.lt_le_trans; [exact Hmd|]. apply Z.pow_le_mono_r; lia.
  - rewrite Hl. split; [|lia]. split; [done|]. eapply Z.lt_le_trans; [exact Hmd|]. apply Z.pow_le_mono_r; lia.
Qed.

Lemma binary_round_aux_spec s m e l :
  0 ≤ m → let r := binary_round_aux prec emax s m e l in in_format prec emax r ∧ same_sign s r ∧ float_is_nan r = false.
Proof.
  intros Hm. unfold binary_round_aux. pose proof (shr_fexp_in_format m e l Hm) as H1.
  destruct (shr_fexp prec emax m e l) as [r1 e1]. destruct H1 as [[H1 _] _].
  assert (0 ≤ round_nearest_even (shr_m r1) (loc_of_shr_record r1)) as H2.
  { unfold round_nearest_even. destruct (loc_of_shr_record r1) as [|[]]; try lia. destruct (Z.even _); lia. }
  pose proof (shr_fexp_in_format _ e1 loc_Exact H2) as H3. destruct (shr_fexp prec emax _ e1 loc_Exact) as [r2 e2].
  destruct H3 as [H3 He]. destruct (shr_m r2) as [|p|p]; [done| |lia]. destruct (Z.leb_spec e2 (emax - prec)); [|done]. simpl. split_and!; done || lia.
Qed.

Lemma binary_normalize_spec m e zero :
  let r := binary_normalize prec emax m e zero in
  in_format prec emax r ∧ float_is_nan r = false ∧ (0 < m → same_sign false r) ∧ (m < 0 → same_sign true r) ∧ (m = 0 → r = S754_zero zero).
Proof.
  unfold binary_normalize, binary_round. destruct m as [|p|p]; [by split_and!|..];
    destruct (shl_align p e _) as [mz ez]; pose proof (binary_round_aux_spec false (Zpos mz) ez loc_Exact ltac:(lia)) as (H1 & H2 & H3);
    pose proof (binary_round_aux_spec true (Zpos mz) ez loc_Exact ltac:(lia)) as (H1' & H2' & H3'); split_and!; try done; lia.
Qed.
End rounding.

(** ** [f64] *)

Lemma f64_val_in_format b : in_format 53 1024 (f64_val b).
Proof.
  unfold f64_val, float_of_bits, in_format. pose proof (Z.mod_pos_bound b (2 ^ 52) ltac:(lia)) as Hm.
  pose proof (Z.mod_pos_bound (b / 2 ^ 52) (2 ^ 11) ltac:(lia)) as He.
  revert Hm He. generalize (b `mod` 2 ^ 52) ((b / 2 ^ 52) `mod` 2 ^ 11) (Z.testbit b (52 + 11)). intros m e s Hm He.
  unfold emin, float_emin, float_emax, float_prec. change (2 ^ (11 - 1)) with 1024.
  destruct (Z.eqb_spec e 0); [destruct m; simpl; lia|]. destruct (Z.eqb_spec e (2 ^ 11 - 1)); [by destruct (m =? 0)|].
  destruct (m + 2 ^ 52) eqn:Hp; simpl; lia.
Qed.

(** The mantissa of a value above the smallest exponent is full. *)
Lemma f64_val_normal b s m e : f64_val b = S754_finite s m e → e = emin 53 1024 ∨ 2 ^ 52 ≤ Zpos m.
Proof.
  unfold f64_val, float_of_bits. pose proof (Z.mod_pos_bound b (2 ^ 52) ltac:(lia)) as Hm. revert Hm.
  generalize (b `mod` 2 ^ 52) ((b / 2 ^ 52) `mod` 2 ^ 11) (Z.testbit b (52 + 11)). intros m' e' s' Hm.
  destruct (e' =? 0); [destruct m'; intros [= <- <- <-]; by left|]. destruct (e' =? 2 ^ 11 - 1); [by destruct (m' =? 0)|].
  destruct (m' + 2 ^ 52) eqn:Hp; intros [= <- <- <-]. right. lia.
Qed.

(** Encoding keeps the sign and what is zero, infinite or not a number. *)
Lemma f64_val_bits_zero a :
  in_format 53 1024 a → SFcompare (f64_val (f64_bits a)) (S754_zero false) = SFcompare a (S754_zero false).
Proof.
  destruct a as [[]|[]| |s m e]; try done. intros [Hm He]. unfold emin in He.
  set (v := if Zpos m <? 2 ^ 52 then Zpos m else (e - float_emin 52 11 + 1) * 2 ^ 52 + (Zpos m - 2 ^ 52)).
  assert (f64_bits (S754_finite s m e) = float_sign 52 11 s + v) as -> by done.
  assert (0 < v < 2047 * 2 ^ 52) as Hv.
  { unfold v, float_emin, float_emax, float_prec. change (2 ^ (11 - 1)) with 1024. destruct (Z.ltb_spec (Zpos m) (2 ^ 52)); lia. }
  assert (∃ m' e', f64_val (float_sign 52 11 s + v) = S754_finite s m' e') as (m' & e' & ->); [|done].
  assert (Z.testbit (float_sign 52 11 s + v) (52 + 11) = s) as Hs.
  { change (52 + 11) with 63. destruct s; unfold float_sign.
    - apply Z.testbit_true; [lia|]. replace ((2 ^ (52 + 11) + v) / 2 ^ 63) with 1; [done|]. apply (Z.div_unique _ _ _ v); lia.
    - apply Z.testbit_false; [lia|]. rewrite Z.add_0_l, Z.div_small; [done|lia]. }
  assert ((float_sign 52 11 s + v) `mod` 2 ^ 52 = v `mod` 2 ^ 52) as Hmod.
  { destruct s; unfold float_sign; [|done]. change (2 ^ (52 + 11)) with (2 ^ 11 * 2 ^ 52). by rewrite Z.add_comm, Z.mod_add. }
  assert (((float_sign 52 11 s + v) / 2 ^ 52) `mod` 2 ^ 11 = v / 2 ^ 52) as Hdiv.
  { assert (0 ≤ v / 2 ^ 52 < 2 ^ 11) by (split; [apply Z.div_pos; lia|apply Z.div_lt_upper_bound; lia]).
    destruct s; unfold float_sign; [|by rewrite Z.add_0_l, Z.mod_small].
    change (2 ^ (52 + 11)) with (2 ^ 11 * 2 ^ 52). rewrite Z.add_comm, Z.div_add by lia.
    rewrite <- (Z.mul_1_l (2 ^ 11)) at 1. by rewrite Z.mod_add, Z.mod_small. }
  unfold f64_val, float_of_bits. rewrite Hs, Hmod, Hdiv. pose proof (Z.div_mod v (2 ^ 52) ltac:(lia)) as Hdm.
  pose proof (Z.mod_pos_bound v (2 ^ 52) ltac:(lia)).
  assert (v / 2 ^ 52 < 2047) by (apply Z.div_lt_upper_bound; lia).
  destruct (Z.eqb_spec (v / 2 ^ 52) 0) as [Hz|Hz]; [destruct (v `mod` 2 ^ 52); [lia|by eauto|lia]|].
  destruct (Z.eqb_spec (v / 2 ^ 52) (2 ^ 11 - 1)); [lia|]. destruct (v `mod` 2 ^ 52 + 2 ^ 52) eqn:Hp; [lia|by eauto|lia].
Qed.

(** ** The sign of a difference *)

Lemma shl_align_value m e e' : e' ≤ e → Zpos (shl_align m e e').1 = Zpos m * 2 ^ (e - e').
Proof.
  intros He. unfold shl_align. destruct (e' - e) as [|p|p] eqn:Hd; [|lia|]; simpl.
  - replace (e - e') with 0 by lia. lia.
  - replace (e - e') with (Zpos p) by lia. clear. induction p as [|p IH] using Pos.peano_ind; [simpl; lia|].
    rewrite Pos.iter_succ, Pos2Z.inj_xO, IH, Pos2Z.inj_succ, Z.pow_succ_r by lia. lia.
Qed.

(** Full mantissas make the order of the exponents the order of the values. *)
Lemma canonical_le m e n f :
  Zpos m < 2 ^ 53 → emin 53 1024 ≤ e → (f = emin 53 1024 ∨ 2 ^ 52 ≤ Zpos n) → e < f ∨ e = f ∧ (m ≤ n)%positive →
  Zpos m * 2 ^ (e - Z.min e f) ≤ Zpos n * 2 ^ (f - Z.min e f).
Proof.
  intros Hm He Hn [Hlt|[-> Hle]].
  - destruct Hn as [->|Hn]; [lia|]. replace (Z.min e f) with e by lia. rewrite Z.sub_diag, Z.pow_0_r, Z.mul_1_r.
    assert (2 ≤ 2 ^ (f - e)) by (change 2 with (2 ^ 1) at 1; apply Z.pow_le_mono_r; lia). nia.
  - rewrite Z.min_id, Z.sub_diag, Z.pow_0_r. lia.
Qed.

Lemma finite_difference a b sa m e sb n f :
  f64_val a = S754_finite sa m e → f64_val b = S754_finite sb n f → SFleb (f64_val b) (f64_val a) = true →
  0 ≤ cond_Zopp sa (Zpos (shl_align m e (Z.min e f)).1) - cond_Zopp sb (Zpos (shl_align n f (Z.min e f)).1).
Proof.
  intros Ha Hb Hle. pose proof (f64_val_in_format a) as Fa. pose proof (f64_val_in_format b) as Fb.
  pose proof (f64_val_normal _ _ _ _ Ha) as Na. pose proof (f64_val_normal _ _ _ _ Hb) as Nb. rewrite Ha, Hb in *.
  destruct Fa as [Fa1 Fa2], Fb as [Fb1 Fb2]. rewrite !shl_align_value by lia.
  pose proof (Z.pow_pos_nonneg 2 (e - Z.min e f) ltac:(lia) ltac:(lia)).
  pose proof (Z.pow_pos_nonneg 2 (f - Z.min e f) ltac:(lia) ltac:(lia)).
  destruct sa, sb; simpl; [| done|nia|]; rewrite finite_leb in Hle.
  - pose proof (canonical_le m e n f Fa1 (proj1 Fa2) Nb Hle). lia.
  - pose proof (canonical_le n f m e Fb1 (proj1 Fb2) Na Hle) as Hc. rewrite (Z.min_comm f e) in Hc. lia.
Qed.

Lemma SFsub_in_format a b : in_format 53 1024 (SFsub 53 1024 (f64_val a) (f64_val b)).
Proof.
  pose proof (f64_val_in_format a) as Fa. pose proof (f64_val_in_format b) as Fb.
  destruct (f64_val a) as [s|s| |s m e], (f64_val b) as [t|t| |t n f]; try done; try (by destruct s, t).
  apply binary_normalize_spec. lia.
Qed.

Lemma d_sub_zero a b :
  SFcompare (f64_val (d_sub a b)) (S754_zero false) = SFcompare (SFsub 53 1024 (f64_val a) (f64_val b)) (S754_zero false).
Proof. apply f64_val_bits_zero, SFsub_in_format. Qed.

Lemma normalize_compare m e :
  SFcompare (binary_normalize 53 1024 m e false) (S754_zero false)
  ∈ [Some Eq; Some (if m <? 0 then Lt else Gt)] ∧ (m = 0 → SFcompare (binary_normalize 53 1024 m e false) (S754_zero false) = Some Eq).
Proof.
  pose proof (binary_normalize_spec 53 1024 ltac:(lia) m e false) as (_ & Hn & Hp & Hm & Hz).
  split; [|by intros ->]. destruct (Z.ltb_spec m 0) as [Hlt|Hge].
  - specialize (Hm Hlt). destruct (binary_normalize _ _ _ _ _) as [s|s| |s p q]; try done; simpl in *; subst; simpl; set_solver.
  - destruct (decide (m = 0)) as [->|Hne]; [simpl; set_solver|]. specialize (Hp ltac:(lia)).
    destruct (binary_normalize _ _ _ _ _) as [s|s| |s p q]; try done; simpl in *; subst; simpl; set_solver.
Qed.

Lemma d_sub_nonneg a b :
  d_le b a = true → float_is_nan (f64_val (d_sub a b)) = false → d_le 0 (d_sub a b) = true.
Proof.
  intros Hle Hn. change (d_le 0 (d_sub a b)) with (SFleb (S754_zero false) (f64_val (d_sub a b))).
  unfold SFleb. rewrite (SFcompare_antisym (f64_val (d_sub a b))).
  pose proof (SFcompare_not_nan _ (S754_zero false) Hn eq_refl) as [c Hc]. rewrite d_sub_zero in *. unfold d_le in Hle.
  destruct (f64_val a) as [s|s| |s m e] eqn:Ha, (f64_val b) as [t|t| |t n f] eqn:Hb; try done; try (by destruct s); try (by destruct t);
    try (by destruct s, t).
  pose proof (finite_difference a b _ _ _ _ _ _ Ha Hb ltac:(by rewrite Ha, Hb)) as Hd. simpl.
  destruct (normalize_compare (cond_Zopp s (Zpos (shl_align m e (Z.min e f)).1) - cond_Zopp t (Zpos (shl_align n f (Z.min e f)).1)) (Z.min e f))
    as [Hin _]. destruct (Z.ltb_spec (cond_Zopp s (Zpos (shl_align m e (Z.min e f)).1) - cond_Zopp t (Zpos (shl_align n f (Z.min e f)).1)) 0); [lia|].
  rewrite !elem_of_cons in Hin. destruct Hin as [->|[->|[]%elem_of_nil]]; done.
Qed.

Lemma d_sub_nonpos a b :
  d_le a b = true → float_is_nan (f64_val (d_sub a b)) = false → d_le (d_sub a b) 0 = true.
Proof.
  intros Hle Hn. change (d_le (d_sub a b) 0) with (SFleb (f64_val (d_sub a b)) (S754_zero false)).
  unfold SFleb. pose proof (SFcompare_not_nan _ (S754_zero false) Hn eq_refl) as [c Hc]. rewrite d_sub_zero in *. unfold d_le in Hle.
  destruct (f64_val a) as [s|s| |s m e] eqn:Ha, (f64_val b) as [t|t| |t n f] eqn:Hb; try done; try (by destruct s); try (by destruct t);
    try (by destruct s, t).
  pose proof (finite_difference b a _ _ _ _ _ _ Hb Ha ltac:(by rewrite Ha, Hb)) as Hd. rewrite (Z.min_comm f e) in Hd. simpl in *.
  set (k := cond_Zopp s (Zpos (shl_align m e (Z.min e f)).1) - cond_Zopp t (Zpos (shl_align n f (Z.min e f)).1)) in *.
  destruct (normalize_compare k (Z.min e f)) as [Hin Hz]. destruct (decide (k = 0)) as [Hk|Hk]; [by rewrite Hz|].
  destruct (Z.ltb_spec k 0); [|unfold k in *; lia].
  rewrite !elem_of_cons in Hin. destruct Hin as [->|[->|[]%elem_of_nil]]; done.
Qed.
