(* ===== verification/FloatExact.v ===== *)
(** * Exact floating point

    Every finite [f64] is a whole multiple of [2 ^ -1074]; [units] is that
    multiple.  Comparisons compare it, [floor] and [ceil] divide it, and a sum
    whose exact value needs at most 53 significant bits is that value.  This
    is what block coordinates rely on: a whole number plus a multiple of 1/32
    is exact wherever blocks can be. *)

From Stdlib Require Import SpecFloat.
From S2P Require Import Prelude Machine Float FloatOrder.

Local Open Scope Z_scope.

(** ** The canonical form *)

(** In the format, and with a full mantissa unless the exponent is the least. *)
Definition canonical (a : spec_float) : Prop :=
  match a with
  | S754_finite _ m e => Zpos m < 2 ^ 53 ∧ -1074 ≤ e ≤ 971 ∧ (e = -1074 ∨ 2 ^ 52 ≤ Zpos m)
  | _ => True
  end.

Definition is_finite (a : spec_float) : bool :=
  match a with S754_zero _ | S754_finite _ _ _ => true | _ => false end.

(** The value in units of [2 ^ -1074]. *)
Definition units (a : spec_float) : Z :=
  match a with S754_finite s m e => cond_Zopp s (Zpos m * 2 ^ (e + 1074)) | _ => 0 end.

Definition one_unit : Z := 2 ^ 1074.
#[global] Opaque one_unit.
Lemma one_unit_eq : one_unit = 2 ^ 1074. Proof. with_strategy transparent [one_unit] reflexivity. Qed.
Lemma one_unit_pos : 0 < one_unit. Proof. rewrite one_unit_eq. lia. Qed.

Lemma f64_val_canonical b : canonical (f64_val b).
Proof.
  pose proof (f64_val_in_format b) as Hf. pose proof (f64_val_normal b) as Hn.
  destruct (f64_val b) as [| | |s m e]; try done. destruct Hf as [Hm He]. specialize (Hn s m e eq_refl).
  unfold emin in *. simpl. lia.
Qed.

(** Encoding a canonical float loses nothing. *)
Lemma f64_val_bits a : canonical a → float_is_nan a = false → f64_val (f64_bits a) = a.
Proof.
  destruct a as [[]|[]| |s m e]; try done. intros (Hm & He & Hn) _.
  set (v := if Zpos m <? 2 ^ 52 then Zpos m else (e + 1075) * 2 ^ 52 + (Zpos m - 2 ^ 52)).
  assert (f64_bits (S754_finite s m e) = float_sign 52 11 s + v) as ->.
  { unfold f64_bits, bits_of_float, v. destruct (Zpos m <? 2 ^ 52); [done|].
    unfold float_emin, float_emax, float_prec. change (2 ^ (11 - 1)) with 1024. f_equal. f_equal. f_equal. lia. }
  assert (0 < v < 2047 * 2 ^ 52) as Hv by (unfold v; destruct (Z.ltb_spec (Zpos m) (2 ^ 52)); lia).
  assert (v / 2 ^ 52 = (if Zpos m <? 2 ^ 52 then 0 else e + 1075) ∧ v `mod` 2 ^ 52 = (if Zpos m <? 2 ^ 52 then Zpos m else Zpos m - 2 ^ 52))
    as [Hq Hr].
  { unfold v. destruct (Z.ltb_spec (Zpos m) (2 ^ 52)).
    - split; [apply Z.div_small; lia|apply Z.mod_small; lia].
    - rewrite Z.add_comm. rewrite Z.div_add, Z.mod_add by lia. rewrite Z.div_small, Z.mod_small by lia. lia. }
  assert (Z.testbit (float_sign 52 11 s + v) (52 + 11) = s) as Hs.
  { change (52 + 11) with 63. destruct s; unfold float_sign.
    - apply Z.testbit_true; [lia|]. replace ((2 ^ (52 + 11) + v) / 2 ^ 63) with 1; [done|]. apply (Z.div_unique _ _ _ v); lia.
    - apply Z.testbit_false; [lia|]. rewrite Z.add_0_l, Z.div_small; [done|lia]. }
  assert ((float_sign 52 11 s + v) `mod` 2 ^ 52 = v `mod` 2 ^ 52) as Hmod.
  { destruct s; unfold float_sign; [|done]. change (2 ^ (52 + 11)) with (2 ^ 11 * 2 ^ 52). by rewrite Z.add_comm, Z.mod_add. }
  assert (((float_sign 52 11 s + v) / 2 ^ 52) `mod` 2 ^ 11 = v / 2 ^ 52) as Hdiv.
  { assert (0 ≤ v / 2 ^ 52 < 2 ^ 11) by (split; [apply Z.div_pos; lia|apply Z.div_lt_upper_bound; lia]).
    destruct s; unfold float_sign; [|by rewrite Z.add_0_l, Z.mod_small].
    change (2 ^ (52 + 11)) with (2 ^ 11 * 2 ^ 52). rewrite Z.add_comm, Z.div_add by lia.
    rewrite <- (Z.mul_1_l (2 ^ 11)) at 1. by rewrite Z.mod_add, Z.mod_small. }
  unfold f64_val, float_of_bits. rewrite Hs, Hmod, Hdiv, Hq, Hr. unfold float_emin, float_emax, float_prec.
  change (2 ^ (11 - 1)) with 1024. change (2 ^ 11 - 1) with 2047.
  destruct (Z.ltb_spec (Zpos m) (2 ^ 52)).
  - simpl. f_equal. lia.
  - destruct (Z.eqb_spec (e + 1075) 0); [lia|]. destruct (Z.eqb_spec (e + 1075) 2047); [lia|].
    replace (Zpos m - 2 ^ 52 + 2 ^ 52) with (Zpos m) by lia. f_equal. lia.
Qed.

(** ** Comparisons *)

Lemma units_scale m e n f :
  -1074 ≤ e → -1074 ≤ f → Zpos m * 2 ^ (e - Z.min e f) ≤ Zpos n * 2 ^ (f - Z.min e f) →
  Zpos m * 2 ^ (e + 1074) ≤ Zpos n * 2 ^ (f + 1074).
Proof.
  intros He Hf H. replace (e + 1074) with (e - Z.min e f + (Z.min e f + 1074)) by lia.
  replace (f + 1074) with (f - Z.min e f + (Z.min e f + 1074)) by lia.
  rewrite (Z.pow_add_r 2 (e - _)), (Z.pow_add_r 2 (f - _)), !Z.mul_assoc by lia.
  apply Z.mul_le_mono_nonneg_r; [apply Z.pow_nonneg; lia|done].
Qed.

Lemma units_finite_le m e n f :
  canonical (S754_finite false m e) → canonical (S754_finite false n f) →
  e < f ∨ e = f ∧ (m ≤ n)%positive → Zpos m * 2 ^ (e + 1074) ≤ Zpos n * 2 ^ (f + 1074).
Proof.
  intros (Hm & He & _) (_ & Hf & Hn) H. apply units_scale; [lia..|].
  apply (canonical_le m e n f); [done|unfold emin; lia|unfold emin; lia|done].
Qed.

Lemma units_finite_pos m e : -1074 ≤ e → 0 < Zpos m * 2 ^ (e + 1074).
Proof. intros He. apply Z.mul_pos_pos; [lia|apply Z.pow_pos_nonneg; lia]. Qed.

Lemma units_finite_lt m e n f :
  canonical (S754_finite false m e) → canonical (S754_finite false n f) →
  e < f ∨ e = f ∧ (m < n)%positive → Zpos m * 2 ^ (e + 1074) < Zpos n * 2 ^ (f + 1074).
Proof.
  intros Hm Hn [H|[-> H]].
  - destruct Hm as (Hm & He & _), Hn as (_ & Hf & Hn). destruct Hn as [->|Hn]; [lia|].
    replace (f + 1074) with (f - e + (e + 1074)) by lia. rewrite (Z.pow_add_r 2 (f - e)), Z.mul_assoc by lia.
    apply Z.mul_lt_mono_pos_r; [apply Z.pow_pos_nonneg; lia|].
    assert (2 ≤ 2 ^ (f - e)) by (change 2 with (2 ^ 1) at 1; apply Z.pow_le_mono_r; lia). nia.
  - apply Z.mul_lt_mono_pos_r; [apply Z.pow_pos_nonneg; destruct Hn; lia|lia].
Qed.

Lemma SFcompare_units a b :
  canonical a → canonical b → is_finite a = true → is_finite b = true → SFcompare a b = Some (units a ?= units b).
Proof.
  destruct a as [sa|sa| |sa m e], b as [sb|sb| |sb n f]; try done; intros Ha Hb _ _; cbn [units SFcompare].
  - pose proof (units_finite_pos n f ltac:(destruct Hb; lia)). f_equal. symmetry. destruct sb; cbn [cond_Zopp]; [apply Z.compare_gt_iff|apply Z.compare_lt_iff]; lia.
  - pose proof (units_finite_pos m e ltac:(destruct Ha; lia)). f_equal. symmetry. destruct sa; cbn [cond_Zopp]; [apply Z.compare_lt_iff|apply Z.compare_gt_iff]; lia.
  - pose proof (units_finite_pos n f ltac:(destruct Hb; lia)). pose proof (units_finite_pos m e ltac:(destruct Ha; lia)).
    change (Pos.compare_cont Eq m n) with (m ?= n)%positive.
    assert (∀ c, (match e ?= f with Eq => (m ?= n)%positive | c => c end) = c →
      (Zpos m * 2 ^ (e + 1074) ?= Zpos n * 2 ^ (f + 1074)) = c) as Hc.
    { intros c <-. destruct (Z.compare_spec e f) as [->|Hlt|Hgt].
      - destruct (Pos.compare_spec m n) as [->|Hl|Hg]; [apply Z.compare_refl|apply Z.compare_lt_iff, units_finite_lt; auto|].
        apply Z.compare_gt_iff, units_finite_lt; auto.
      - apply Z.compare_lt_iff, units_finite_lt; auto.
      - apply Z.compare_gt_iff, units_finite_lt; auto. }
    specialize (Hc _ eq_refl). f_equal. destruct sa, sb; cbn [cond_Zopp].
    + rewrite Z.compare_opp, (Z.compare_antisym (Zpos m * _)), Hc. by destruct (e ?= f).
    + symmetry. apply Z.compare_lt_iff. lia.
    + symmetry. apply Z.compare_gt_iff. lia.
    + rewrite Hc. by destruct (e ?= f).
Qed.

Lemma d_lt_units a b :
  is_finite (f64_val a) = true → is_finite (f64_val b) = true → d_lt a b = (units (f64_val a) <? units (f64_val b)).
Proof.
  intros Ha Hb. unfold d_lt, SFltb, Z.ltb. rewrite SFcompare_units; [by destruct (_ ?= _)|apply f64_val_canonical..|done|done].
Qed.

Lemma d_le_units a b :
  is_finite (f64_val a) = true → is_finite (f64_val b) = true → d_le a b = (units (f64_val a) <=? units (f64_val b)).
Proof.
  intros Ha Hb. unfold d_le, SFleb, Z.leb. rewrite SFcompare_units; [by destruct (_ ?= _)|apply f64_val_canonical..|done|done].
Qed.

(** ** Exact results *)

Lemma digits2_pos_lower m : 2 ^ (Zpos (digits2_pos m) - 1) ≤ Zpos m.
Proof.
  induction m as [m IH|m IH|]; cbn [digits2_pos]; [| |done];
    rewrite Pos2Z.inj_succ; replace (Z.succ (Zpos (digits2_pos m)) - 1) with (Z.succ (Zpos (digits2_pos m) - 1)) by lia;
    rewrite Z.pow_succ_r by lia; lia.
Qed.

Lemma digits2_unique m d : 0 < d → 2 ^ (d - 1) ≤ Zpos m < 2 ^ d → Zpos (digits2_pos m) = d.
Proof.
  intros Hd [Hl Hu]. pose proof (digits2_pos_lower m). pose proof (digits2_pos_bound m).
  assert (Zpos (digits2_pos m) - 1 < d) by (apply (Z.pow_lt_mono_r_iff 2); lia).
  assert (d - 1 < Zpos (digits2_pos m)) by (apply (Z.pow_lt_mono_r_iff 2); lia). lia.
Qed.

Lemma digits2_shift m q k : 0 ≤ k → Zpos q = Zpos m * 2 ^ k → Zpos (digits2_pos q) = Zpos (digits2_pos m) + k.
Proof.
  intros Hk Hq. pose proof (digits2_pos_lower m). pose proof (digits2_pos_bound m).
  apply digits2_unique; [lia|]. rewrite Hq.
  replace (Zpos (digits2_pos m) + k - 1) with (Zpos (digits2_pos m) - 1 + k) by lia. rewrite !Z.pow_add_r by lia.
  pose proof (Z.pow_pos_nonneg 2 k ltac:(lia) Hk). nia.
Qed.

(** Shifting zeros out loses nothing. *)
Lemma iter_shr_exact n m : SpecFloat.iter_pos shr_1 n (Build_shr_record (Zpos m * 2 ^ Zpos n) false false) = Build_shr_record (Zpos m) false false.
Proof.
  revert m. induction n as [|n IH] using Pos.peano_ind; intros m; [simpl; by rewrite Pos.mul_comm|].
  rewrite iter_pos_succ. replace (Zpos m * 2 ^ Zpos (Pos.succ n)) with (Zpos (xO m) * 2 ^ Zpos n); [by rewrite IH|].
  rewrite Pos2Z.inj_succ, Z.pow_succ_r by lia. lia.
Qed.

(** [fexp] of the double format. *)
Lemma fexp_eq d : fexp 53 1024 d = Z.max (d - 53) (-1074).
Proof. done. Qed.

(** Rounding a canonical mantissa keeps it. *)
Lemma round_canonical s m e :
  Z.max (Zpos (digits2_pos m) + e - 53) (-1074) = e → e ≤ 971 →
  binary_round_aux 53 1024 s (Zpos m) e loc_Exact = S754_finite s m e ∧ canonical (S754_finite s m e).
Proof.
  intros He Hmax. split.
  - unfold binary_round_aux, shr_fexp. cbn [Zdigits2]. rewrite fexp_eq, He, Z.sub_diag.
    cbn [shr shr_record_of_loc shr_m loc_of_shr_record round_nearest_even Zdigits2]. rewrite fexp_eq, He, Z.sub_diag.
    cbn [shr shr_m]. by rewrite (proj2 (Z.leb_le _ _)) by lia.
  - pose proof (digits2_pos_lower m) as Hl. pose proof (digits2_pos_bound m) as Hu. cbn [canonical].
    assert (2 ^ Zpos (digits2_pos m) ≤ 2 ^ 53) by (apply Z.pow_le_mono_r; lia).
    split_and!; [lia|lia..|]. destruct (Z.eq_dec e (-1074)) as [|Hne]; [by left|right].
    replace (Zpos (digits2_pos m)) with 53 in Hl by lia. done.
Qed.

(** Rounding [m * 2 ^ e] when at most 53 bits of [m] matter. *)
Lemma binary_round_exact s m e m0 k :
  Zpos m = Zpos m0 * 2 ^ k → 0 ≤ k → Zpos m0 < 2 ^ 53 → -1074 ≤ e → e + k ≤ 971 →
  let r := binary_round 53 1024 s m e in
  canonical r ∧ is_finite r = true ∧ units r = cond_Zopp s (Zpos m * 2 ^ (e + 1074)).
Proof.
  intros Hm Hk Hm0 He Hmax. cbv zeta. unfold binary_round. rewrite fexp_eq.
  pose proof (digits2_shift m0 m k Hk Hm) as Hd.
  assert (Zpos (digits2_pos m0) ≤ 53) as Hd0.
  { pose proof (digits2_pos_lower m0). destruct (Z.le_gt_cases (Zpos (digits2_pos m0)) 53); [done|].
    assert (2 ^ 53 ≤ 2 ^ (Zpos (digits2_pos m0) - 1)) by (apply Z.pow_le_mono_r; lia). lia. }
  set (t := Z.max (Zpos (digits2_pos m) + e - 53) (-1074)).
  destruct (Z.le_gt_cases t e) as [Hle|Hgt].
  - pose proof (shl_align_value m e t Hle) as Hv. unfold shl_align in *.
    destruct (t - e) as [|p|p] eqn:Ht; [|lia|].
    + assert (t = e) as Hte by lia. destruct (round_canonical s m e Hte ltac:(lia)) as [-> Hc]. done.
    + cbn [fst] in Hv. set (q := Pos.iter xO m p) in *.
      assert (Zpos (digits2_pos q) = Zpos (digits2_pos m) + (e - t)) as Hdq by (apply digits2_shift; lia).
      destruct (round_canonical s q t) as [-> Hc]; [lia|lia|]. split_and!; [done|done|].
      cbn [units]. rewrite Hv. replace (e + 1074) with (e - t + (t + 1074)) by lia.
      by rewrite (Z.pow_add_r 2 (e - t)), Z.mul_assoc by lia.
  - assert (shl_align m e t = (m, e)) as ->.
    { unfold shl_align. destruct (t - e) eqn:Ht; [done|done|lia]. }
    assert (∃ n m1, t - e = Zpos n ∧ Zpos m = Zpos m1 * 2 ^ Zpos n) as (n & m1 & Hn & Hm1).
    { destruct (t - e) as [|n|n] eqn:Ht; [lia| |lia]. exists n. assert (Zpos n ≤ k) by lia.
      assert (0 < Zpos m0 * 2 ^ (k - Zpos n)) by (apply Z.mul_pos_pos; [lia|apply Z.pow_pos_nonneg; lia]).
      destruct (Zpos m0 * 2 ^ (k - Zpos n)) as [|m1|m1] eqn:H1; [lia| |lia]. exists m1. split; [done|].
      rewrite <- H1, Hm, <- Z.mul_assoc, <- Z.pow_add_r by lia. do 2 f_equal. lia. }
    assert (Zpos (digits2_pos m) = Zpos (digits2_pos m1) + Zpos n) as Hd1 by (by apply digits2_shift).
    assert (binary_round_aux 53 1024 s (Zpos m) e loc_Exact = binary_round_aux 53 1024 s (Zpos m1) t loc_Exact) as ->.
    { unfold binary_round_aux. assert (shr_fexp 53 1024 (Zpos m1) t loc_Exact = (Build_shr_record (Zpos m1) false false, t)) as ->.
      { unfold shr_fexp. cbn [Zdigits2]. rewrite fexp_eq. replace (_ - t) with 0 by lia. done. }
      assert (shr_fexp 53 1024 (Zpos m) e loc_Exact = (Build_shr_record (Zpos m1) false false, t)) as ->; [|done].
      unfold shr_fexp. cbn [Zdigits2]. rewrite fexp_eq. fold t. rewrite Hn. cbn [shr shr_record_of_loc].
      rewrite Hm1, iter_shr_exact. f_equal. lia. }
    destruct (round_canonical s m1 t) as [-> Hc]; [lia|lia|]. split_and!; [done|done|].
    cbn [units]. rewrite Hm1. replace (t + 1074) with (Zpos n + (e + 1074)) by lia.
    by rewrite (Z.pow_add_r 2 (Zpos n)), Z.mul_assoc by lia.
Qed.

Lemma binary_normalize_exact m e z m0 k :
  m = m0 * 2 ^ k → 0 ≤ k → Z.abs m0 < 2 ^ 53 → -1074 ≤ e → e + k ≤ 971 →
  let r := binary_normalize 53 1024 m e z in
  canonical r ∧ is_finite r = true ∧ units r = m * 2 ^ (e + 1074).
Proof.
  intros Hm Hk Hm0 He Hmax. pose proof (Z.pow_pos_nonneg 2 k ltac:(lia) Hk). destruct m as [|p|p]; [done|..]; cbn [binary_normalize].
  - destruct m0 as [|q|q]; [lia| |lia]. exact (binary_round_exact false p e q k Hm Hk ltac:(lia) He Hmax).
  - destruct m0 as [|q|q]; [lia|lia|]. destruct (binary_round_exact true p e q k ltac:(lia) Hk ltac:(lia) He Hmax) as (H1 & H2 & H3).
    split_and!; [done|done|]. rewrite H3. cbn [cond_Zopp]. lia.
Qed.

(** ** Sums *)

(** The value is a multiple of [2 ^ -j'] below [2 ^ 52] of them. *)
Definition at_scale (j : Z) (a k : Z) : Prop :=
  is_finite (f64_val a) = true ∧ Z.abs k < 2 ^ 52 ∧ units (f64_val a) = k * 2 ^ j.

Lemma scale_exponent j s m e k :
  0 ≤ j → canonical (S754_finite s m e) → Z.abs k < 2 ^ 52 → units (S754_finite s m e) = k * 2 ^ j → e + 1074 ≤ j.
Proof.
  intros Hj (Hm & He & Hn) Hk Hu. destruct Hn as [->|Hn]; [lia|]. cbn [units] in Hu.
  assert (Zpos m * 2 ^ (e + 1074) = Z.abs k * 2 ^ j) as Habs.
  { rewrite <- (Z.abs_eq (2 ^ j)), <- Z.abs_mul, <- Hu by (apply Z.pow_nonneg; lia).
    pose proof (units_finite_pos m e ltac:(lia)). destruct s; cbn [cond_Zopp]; lia. }
  destruct (Z.le_gt_cases (e + 1074) j); [done|exfalso].
  assert (2 ^ j ≤ 2 ^ (e + 1074)) by (apply Z.pow_le_mono_r; lia).
  assert (0 < 2 ^ j) by (apply Z.pow_pos_nonneg; lia). nia.
Qed.

Lemma d_add_exact j a b k l :
  0 ≤ j ≤ 1074 → at_scale j a k → at_scale j b l →
  is_finite (f64_val (d_add a b)) = true ∧ units (f64_val (d_add a b)) = (k + l) * 2 ^ j.
Proof.
  intros Hj (Ha & Hk & Hua) (Hb & Hl & Hub). unfold d_add, f64_lift2.
  pose proof (f64_val_canonical a) as Ca. pose proof (f64_val_canonical b) as Cb.
  assert (0 < 2 ^ j) as Hp by (apply Z.pow_pos_nonneg; lia).
  assert (∃ r, SFadd 53 1024 (f64_val a) (f64_val b) = r ∧ canonical r ∧ is_finite r = true ∧ units r = (k + l) * 2 ^ j)
    as (r & -> & Hc & Hf & Hu); [|by rewrite f64_val_bits by (done || by destruct r)].
  eexists. split; [reflexivity|]. rewrite Z.mul_add_distr_r, <- Hua, <- Hub.
  destruct (f64_val a) as [s|s| |s m e] eqn:Ea, (f64_val b) as [t|t| |t n f] eqn:Eb; try done.
  - by destruct s, t.
  - split_and!; [exact Ca|done|]. cbn [SFadd units]. lia.
  - pose proof (scale_exponent j _ _ _ _ ltac:(lia) Ca Hk Hua) as Hje. pose proof (scale_exponent j _ _ _ _ ltac:(lia) Cb Hl Hub) as Hjf.
    cbn [SFadd units] in *. destruct Ca as (_ & He & _), Cb as (_ & Hf & _). rewrite !shl_align_value by lia. set (z := Z.min e f).
    assert (∀ s m e, z ≤ e → cond_Zopp s (Zpos m * 2 ^ (e + 1074)) = cond_Zopp s (Zpos m * 2 ^ (e - z)) * 2 ^ (z + 1074)) as Hs.
    { intros s' m' e' Hz. replace (e' + 1074) with (e' - z + (z + 1074)) by lia. rewrite (Z.pow_add_r 2 (e' - z)) by lia.
      destruct s'; cbn [cond_Zopp]; lia. }
    rewrite !Hs in * by lia. rewrite <- Z.mul_add_distr_r in *.
    apply (binary_normalize_exact _ z false (k + l) (j - (z + 1074))); [|lia..].
    assert (0 < 2 ^ (z + 1074)) as Hz by (apply Z.pow_pos_nonneg; lia). apply (Z.mul_reg_r _ _ (2 ^ (z + 1074))); [lia|].
    rewrite Z.mul_add_distr_r, Hua, Hub, <- Z.mul_assoc, <- Z.pow_add_r by lia.
    replace (j - (z + 1074) + (z + 1074)) with j by lia. lia.
Qed.

Lemma d_of_Z_exact z : Z.abs z < 2 ^ 52 → is_finite (f64_val (d_of_Z z)) = true ∧ units (f64_val (d_of_Z z)) = z * one_unit.
Proof.
  intros Hz. unfold d_of_Z. destruct (binary_normalize_exact z 0 false z 0) as (Hc & Hf & Hu); [lia..|].
  rewrite f64_val_bits by (done || by destruct (binary_normalize _ _ _ _ _)). by rewrite Hu, one_unit_eq.
Qed.

(** ** Rounding to whole numbers *)

Definition clamp_i32 (z : Z) : Z := Z.max i32_min (Z.min i32_max z).

Lemma float_to_i32_exact r q : is_finite r = true → canonical r → units r = q * one_unit → float_to_i32 r = clamp_i32 q.
Proof.
  rewrite one_unit_eq. destruct r as [s|s| |s m e]; try done; intros _ Hc; cbn [units float_to_i32].
  { intros Hq. symmetry in Hq. apply Z.mul_eq_0 in Hq as [->|Hq]; [done|]. by apply Z.pow_nonzero in Hq. }
  intros Hq. unfold clamp_i32. f_equal. f_equal. destruct Hc as (_ & He & _). destruct (Z.leb_spec 0 e).
  - rewrite Z.pow_add_r, Z.mul_assoc in Hq by lia. destruct s; cbn [cond_Zopp] in *; lia.
  - assert (Zpos m = Z.abs q * 2 ^ (- e)) as Hm.
    { apply (Z.mul_reg_r _ _ (2 ^ (e + 1074))); [pose proof (Z.pow_pos_nonneg 2 (e + 1074)); lia|].
      rewrite <- Z.mul_assoc, <- Z.pow_add_r by lia. replace (- e + (e + 1074)) with 1074 by lia.
      pose proof (units_finite_pos m e ltac:(lia)). destruct s; cbn [cond_Zopp] in *; lia. }
    rewrite Hm, Z.div_mul by (apply Z.pow_nonzero; lia).
    pose proof (units_finite_pos m e ltac:(lia)). destruct s; cbn [cond_Zopp] in *; lia.
Qed.

Lemma float_floor_exact a :
  is_finite a = true → canonical a → let r := float_floor 53 1024 a in
  is_finite r = true ∧ canonical r ∧ units r = units a / one_unit * one_unit.
Proof.
  rewrite one_unit_eq. destruct a as [s|s| |s m e]; try done; intros _ Hc; cbv zeta; cbn [float_floor].
  destruct (Z.leb_spec 0 e).
  - split_and!; [done|done|]. cbn [units]. destruct Hc as (_ & He & _). rewrite Z.pow_add_r by lia.
    replace (cond_Zopp s (Zpos m * (2 ^ e * 2 ^ 1074))) with (cond_Zopp s (Zpos m * 2 ^ e) * 2 ^ 1074) by (destruct s; cbn [cond_Zopp]; lia).
    by rewrite Z.div_mul.
  - destruct Hc as (Hm & He & _). set (q := cond_Zopp s (Zpos m) / 2 ^ (- e)).
    assert (2 ≤ 2 ^ (- e)) as H2 by (change 2 with (2 ^ 1) at 1; apply Z.pow_le_mono_r; lia).
    assert (Z.abs q < 2 ^ 53) as Hq.
    { unfold q. pose proof (Z.div_mod (cond_Zopp s (Zpos m)) (2 ^ (- e)) ltac:(lia)).
      pose proof (Z.mod_pos_bound (cond_Zopp s (Zpos m)) (2 ^ (- e)) ltac:(lia)). destruct s; cbn [cond_Zopp] in *; nia. }
    destruct (binary_normalize_exact q 0 false q 0) as (H1 & H3 & H4); [lia..|]. split_and!; [done|done|].
    rewrite H4. cbn [units]. f_equal. unfold q.
    replace (2 ^ 1074) with (2 ^ (- e) * 2 ^ (e + 1074)) by (rewrite <- Z.pow_add_r by lia; f_equal; lia).
    replace (cond_Zopp s (Zpos m * 2 ^ (e + 1074))) with (cond_Zopp s (Zpos m) * 2 ^ (e + 1074)) by (destruct s; cbn [cond_Zopp]; lia).
    rewrite Z.div_mul_cancel_r; [done|lia|]. apply Z.pow_nonzero; lia.
Qed.

Lemma d_floor_units a : is_finite (f64_val a) = true → d_floor_i32 a = clamp_i32 (units (f64_val a) / one_unit).
Proof.
  intros Ha. destruct (float_floor_exact (f64_val a) Ha (f64_val_canonical a)) as (H1 & H2 & H3).
  by apply float_to_i32_exact.
Qed.

Lemma units_opp a : units (SFopp a) = - units a.
Proof. destruct a as [| | |[] m e]; try done. cbn. lia. Qed.
Lemma canonical_opp a : canonical a → canonical (SFopp a).
Proof. by destruct a. Qed.
Lemma finite_opp a : is_finite (SFopp a) = is_finite a.
Proof. by destruct a. Qed.

Lemma d_ceil_units a : is_finite (f64_val a) = true → d_ceil_i32 a = clamp_i32 (- (- units (f64_val a) / one_unit)).
Proof.
  intros Ha. destruct (float_floor_exact (SFopp (f64_val a))) as (H1 & H2 & H3);
    [by rewrite finite_opp|apply canonical_opp, f64_val_canonical|].
  apply float_to_i32_exact; [by rewrite finite_opp|by apply canonical_opp|]. rewrite units_opp, H3, units_opp. lia.
Qed.

(** ** Which block a coordinate falls in *)

(** Below the end of a block: [floor] is that block or an earlier one. *)
Lemma d_floor_below a b x :
  d_lt a b = true → is_finite (f64_val b) = true → units (f64_val b) ≤ (x + 1) * one_unit → i32_min ≤ x →
  d_floor_i32 a ≤ x.
Proof.
  intros Hlt Hb Hu Hx. pose proof one_unit_pos. destruct (is_finite (f64_val a)) eqn:Ha.
  - rewrite d_floor_units by done. rewrite d_lt_units in Hlt by done. apply Z.ltb_lt in Hlt.
    assert (units (f64_val a) / one_unit < x + 1) by (apply Z.div_lt_upper_bound; lia). unfold clamp_i32. lia.
  - unfold d_lt, SFltb in Hlt. unfold d_floor_i32. destruct (f64_val a) as [|[]| |]; [done|simpl; lia| |done|done].
    destruct (f64_val b) as [|[]| |]; done.
Qed.

(** Past the start of a block: [ceil] is beyond that block. *)
Lemma d_ceil_above a b x :
  d_lt b a = true → is_finite (f64_val b) = true → x * one_unit ≤ units (f64_val b) → x < i32_max →
  x < d_ceil_i32 a.
Proof.
  intros Hlt Hb Hu Hx. pose proof one_unit_pos. destruct (is_finite (f64_val a)) eqn:Ha.
  - rewrite d_ceil_units by done. rewrite d_lt_units in Hlt by done. apply Z.ltb_lt in Hlt.
    assert (- units (f64_val a) / one_unit < - x) by (apply Z.div_lt_upper_bound; lia). unfold clamp_i32, i32_min, i32_max in *. lia.
  - unfold d_lt, SFltb in Hlt. unfold d_ceil_i32. destruct (f64_val a) as [|[]| |]; [done| |simpl; lia| |done];
      destruct (f64_val b) as [|[]| |]; done.
Qed.
