(* ===== verification/Reader.v ===== *)
(** * Packet reader and writer: the cursor and the fixed-width fields

    [crates/minerider-protocol/src/error.rs] and the parts of [buffer.rs]
    every other codec is built from: the bounds-checked cursor
    [PacketReader], the growable [PacketWriter], and the fixed-width
    integers.  A float is carried as its bit pattern ([f32] as an integer of
    32 bits, [f64] of 64), which is what [to_be_bytes]/[from_be_bytes]
    transport. *)

From S2P Require Import Prelude Machine.

Local Open Scope Z_scope.

(** ** Errors

    The variants of [ProtocolError] with the data the code matches on; the
    text built by [format!] for a human reader is not kept. *)

Inductive ProtocolError : Type :=
  | VarIntTooLong
  | VarLongTooLong
  | BufferUnderflow (needed remaining : Z)
  | NegativeLength (len : Z)
  | InvalidString
  | InvalidUtf8
  | InvalidIdentifier
  | FrameTooLarge (length max : Z)
  | Compression
  | Crypto
  | UnknownPacketId (context : string) (id : Z)
  | UnknownEnumValue (type_name : string) (value : Z)
  | UnknownSwitchBranch (type_name discriminant : string)
  | TrailingBytes (context : string) (remaining : Z)
  | InvalidNbt
  | InvalidData.

#[export] Instance ProtocolError_eq_dec : EqDecision ProtocolError.
Proof. solve_decision. Defined.

(** ** PacketReader *)

Record PacketReader : Type := mkReader {
  rd_data : list byte;
  rd_pos : nat;
}.

Abbreviation Read A := (M PacketReader ProtocolError A).

Definition new_reader (data : list byte) : PacketReader :=
  {| rd_data := data; rd_pos := 0 |}.

Definition remaining (r : PacketReader) : nat := (length (rd_data r) - rd_pos r)%nat.

Definition is_empty (r : PacketReader) : bool := bool_decide (remaining r = 0%nat).

(** The unread bytes, [&self.data[self.pos..]]. *)
Definition rest (r : PacketReader) : list byte := drop (rd_pos r) (rd_data r).

Definition advance (r : PacketReader) (n : nat) : PacketReader :=
  {| rd_data := rd_data r; rd_pos := (rd_pos r + n)%nat |}.

Definition skip_all (r : PacketReader) : PacketReader :=
  {| rd_data := rd_data r; rd_pos := length (rd_data r) |}.

(** Lengths are [usize]; they are kept in [Z] so that a hostile length is
    compared before it is turned into a list index. *)
Definition require (n : Z) : Read unit := λ r,
  if Z.of_nat (remaining r) <? n
  then (Err (BufferUnderflow n (Z.of_nat (remaining r))), r)
  else (Ok tt, r).

(** [take::<N>] and [read_bytes]: the bounds check, then the slice. *)
Definition read_bytes (n : Z) : Read (list byte) :=
  require n ;;;
  let* out := gets (λ r, take (Z.to_nat n) (rest r)) in
  modify (λ r, advance r (Z.to_nat n)) ;;;
  ret out.

Definition get_u8 : Read Z := let* bs := read_bytes 1 in ret (be_value bs).
Definition get_i8 : Read Z := let* bs := read_bytes 1 in ret (swrap 8 (be_value bs)).
Definition get_bool : Read bool := let* v := get_u8 in ret (negb (v =? 0)).
Definition get_i16 : Read Z := let* bs := read_bytes 2 in ret (swrap 16 (be_value bs)).
Definition get_u16 : Read Z := let* bs := read_bytes 2 in ret (be_value bs).
Definition get_i32 : Read Z := let* bs := read_bytes 4 in ret (swrap 32 (be_value bs)).
Definition get_u32 : Read Z := let* bs := read_bytes 4 in ret (be_value bs).
Definition get_i64 : Read Z := let* bs := read_bytes 8 in ret (swrap 64 (be_value bs)).
Definition get_u64 : Read Z := let* bs := read_bytes 8 in ret (be_value bs).
Definition get_f32 : Read Z := let* bs := read_bytes 4 in ret (be_value bs).
Definition get_f64 : Read Z := let* bs := read_bytes 8 in ret (be_value bs).
Definition read_uuid : Read Z := let* bs := read_bytes 16 in ret (be_value bs).

(** ** PacketWriter *)

Record PacketWriter : Type := mkWriter { buf : list byte }.

Abbreviation Write := (M PacketWriter ProtocolError unit).

Definition new_writer : PacketWriter := {| buf := [] |}.

Definition put_bytes (data : list byte) (w : PacketWriter) : PacketWriter :=
  {| buf := buf w ++ data |}.

Definition put_u8 (v : Z) : PacketWriter → PacketWriter := put_bytes (be_bytes 1 v).
Definition put_i8 (v : Z) : PacketWriter → PacketWriter := put_bytes (be_bytes 1 v).
Definition put_bool (v : bool) : PacketWriter → PacketWriter := put_u8 (Z.b2z v).
Definition put_i16 (v : Z) : PacketWriter → PacketWriter := put_bytes (be_bytes 2 v).
Definition put_u16 (v : Z) : PacketWriter → PacketWriter := put_bytes (be_bytes 2 v).
Definition put_i32 (v : Z) : PacketWriter → PacketWriter := put_bytes (be_bytes 4 v).
Definition put_u32 (v : Z) : PacketWriter → PacketWriter := put_bytes (be_bytes 4 v).
Definition put_i64 (v : Z) : PacketWriter → PacketWriter := put_bytes (be_bytes 8 v).
Definition put_u64 (v : Z) : PacketWriter → PacketWriter := put_bytes (be_bytes 8 v).
Definition put_f32 (v : Z) : PacketWriter → PacketWriter := put_bytes (be_bytes 4 v).
Definition put_f64 (v : Z) : PacketWriter → PacketWriter := put_bytes (be_bytes 8 v).
Definition put_uuid (v : Z) : PacketWriter → PacketWriter := put_bytes (be_bytes 16 v).

(** ** Cursor discipline

    [r ⊑ r']: [r'] reads the same bytes, its cursor has not moved back, and
    it has not left the buffer. *)

Definition cursor_le (r r' : PacketReader) : Prop :=
  rd_data r' = rd_data r ∧ (rd_pos r ≤ rd_pos r')%nat
  ∧ ((rd_pos r ≤ length (rd_data r))%nat → (rd_pos r' ≤ length (rd_data r'))%nat).

#[export] Instance cursor_le_preorder : PreOrder cursor_le.
Proof.
  split; unfold cursor_le.
  - intros r. naive_solver lia.
  - intros [d p] [d' p'] [d'' p'']; simpl. intros (-> & ? & ?) (-> & ? & ?). naive_solver lia.
Qed.

(** A reader operation keeps the cursor inside the buffer on every path,
    failing ones included. *)
Abbreviation in_bounds := (preserves cursor_le).

Lemma length_rest r : length (rest r) = remaining r.
Proof. unfold rest, remaining. by rewrite length_drop. Qed.

Lemma rest_new_reader data : rest (new_reader data) = data.
Proof. done. Qed.

Lemma rest_advance r n : rest (advance r n) = drop n (rest r).
Proof. unfold rest, advance; simpl. by rewrite drop_drop. Qed.

Lemma advance_advance r n m : advance (advance r n) m = advance r (n + m).
Proof. unfold advance; simpl. f_equal. lia. Qed.

Lemma advance_0 r : advance r 0 = r.
Proof. destruct r. unfold advance; simpl. f_equal. lia. Qed.

Lemma require_in_bounds n : in_bounds (require n).
Proof. intros r. unfold require. by destruct (_ <? _). Qed.

Lemma read_bytes_eq n r :
  read_bytes n r =
    if Z.of_nat (remaining r) <? n
    then (Err (BufferUnderflow n (Z.of_nat (remaining r))), r)
    else (Ok (take (Z.to_nat n) (rest r)), advance r (Z.to_nat n)).
Proof. unfold read_bytes, bind, require. by destruct (_ <? _). Qed.

Lemma read_bytes_in_bounds n : in_bounds (read_bytes n).
Proof.
  intros r. rewrite read_bytes_eq. destruct (Z.ltb_spec (Z.of_nat (remaining r)) n); [by simpl|].
  unfold cursor_le, remaining in *; simpl. split; [done|]. lia.
Qed.
#[export] Hint Resolve require_in_bounds read_bytes_in_bounds : preserves.

Lemma get_u8_in_bounds : in_bounds get_u8. Proof. unfold get_u8. mauto. Qed.
Lemma get_i8_in_bounds : in_bounds get_i8. Proof. unfold get_i8. mauto. Qed.
#[export] Hint Resolve get_u8_in_bounds get_i8_in_bounds : preserves.
Lemma get_bool_in_bounds : in_bounds get_bool. Proof. unfold get_bool. mauto. Qed.
Lemma get_i16_in_bounds : in_bounds get_i16. Proof. unfold get_i16. mauto. Qed.
Lemma get_u16_in_bounds : in_bounds get_u16. Proof. unfold get_u16. mauto. Qed.
Lemma get_i32_in_bounds : in_bounds get_i32. Proof. unfold get_i32. mauto. Qed.
Lemma get_i64_in_bounds : in_bounds get_i64. Proof. unfold get_i64. mauto. Qed.
Lemma get_u64_in_bounds : in_bounds get_u64. Proof. unfold get_u64. mauto. Qed.
Lemma get_f32_in_bounds : in_bounds get_f32. Proof. unfold get_f32. mauto. Qed.
Lemma get_f64_in_bounds : in_bounds get_f64. Proof. unfold get_f64. mauto. Qed.
#[export] Hint Resolve get_bool_in_bounds get_i16_in_bounds get_u16_in_bounds
  get_i32_in_bounds get_i64_in_bounds get_u64_in_bounds get_f32_in_bounds
  get_f64_in_bounds : preserves.

(** ** What a reader consumes, what a writer produces *)

(** [reads m bs a]: wherever the unread bytes start with [bs], [m] returns
    [a] and moves the cursor over exactly [bs]. *)
Definition reads {A} (m : Read A) (bs : list byte) (a : A) : Prop :=
  ∀ r suf, rest r = bs ++ suf → m r = (Ok a, advance r (length bs)).

(** [writes m bs]: [m] appends exactly [bs] and succeeds. *)
Definition writes (m : Write) (bs : list byte) : Prop :=
  ∀ w, m w = (Ok tt, put_bytes bs w).

Lemma reads_ret {A} (a : A) : reads (ret a) [] a.
Proof. intros r suf _. unfold ret; simpl. by rewrite advance_0. Qed.

Lemma reads_bind {A B} (m : Read A) (k : A → Read B) bs1 bs2 a b :
  reads m bs1 a → reads (k a) bs2 b → reads (bind m k) (bs1 ++ bs2) b.
Proof.
  intros Hm Hk r suf Hr. rewrite <- app_assoc in Hr.
  rewrite (bind_Ok _ _ _ _ _ (Hm r _ Hr)), (Hk _ suf).
  - by rewrite advance_advance, length_app.
  - by rewrite rest_advance, Hr, drop_app_exact.
Qed.

(** A continuation that consumes nothing. *)
Lemma reads_bind_nil {A B} (m : Read A) (k : A → Read B) bs a b :
  reads m bs a → reads (k a) [] b → reads (bind m k) bs b.
Proof. intros Hm Hk. rewrite <- (app_nil_r bs). by eapply reads_bind. Qed.

Lemma reads_bind_ret {A B} (m : Read A) (f : A → B) bs a :
  reads m bs a → reads (let* x := m in ret (f x)) bs (f a).
Proof. intros Hm. eapply reads_bind_nil; [done|]. apply reads_ret. Qed.

Lemma reads_rest {A} (m : Read A) bs a r suf :
  reads m bs a → rest r = bs ++ suf → rest (m r).2 = suf.
Proof. intros Hm Hr. rewrite (Hm r suf Hr); simpl. by rewrite rest_advance, Hr, drop_app_exact. Qed.

Lemma reads_read_bytes n bs : n = Z.of_nat (length bs) → reads (read_bytes n) bs bs.
Proof.
  intros -> r suf Hr. rewrite read_bytes_eq, (proj2 (Z.ltb_ge _ _)).
  - by rewrite Hr, Nat2Z.id, take_app_exact.
  - rewrite <- length_rest, Hr, length_app. lia.
Qed.

(** The shape shared by all fixed-width fields. *)
Lemma reads_fixed {A} (n : nat) (f : list byte → A) z :
  reads (let* bs := read_bytes (Z.of_nat n) in ret (f bs)) (be_bytes n z) (f (be_bytes n z)).
Proof. apply reads_bind_ret, reads_read_bytes. by rewrite be_bytes_length. Qed.

Lemma reads_unsigned (n : nat) z :
  in_u (8 * Z.of_nat n) z →
  reads (let* bs := read_bytes (Z.of_nat n) in ret (be_value bs)) (be_bytes n z) z.
Proof.
  intros Hz. pose proof (reads_fixed n be_value z) as H.
  rewrite be_value_bytes in H. by rewrite (Z.mod_small _ _ Hz) in H.
Qed.

Lemma reads_signed (n : nat) z :
  (0 < n)%nat → in_i (8 * Z.of_nat n) z →
  reads (let* bs := read_bytes (Z.of_nat n) in ret (swrap (8 * Z.of_nat n) (be_value bs)))
    (be_bytes n z) z.
Proof.
  intros Hn Hz. pose proof (reads_fixed n (λ bs, swrap (8 * Z.of_nat n) (be_value bs)) z) as H.
  cbv beta in H. rewrite be_value_bytes in H. fold (wrap (8 * Z.of_nat n) z) in H.
  by rewrite swrap_wrap in H by (done || lia).
Qed.

Lemma reads_get_u8 z : in_u 8 z → reads get_u8 (be_bytes 1 z) z.
Proof. apply (reads_unsigned 1). Qed.
Lemma reads_get_i8 z : in_i 8 z → reads get_i8 (be_bytes 1 z) z.
Proof. apply (reads_signed 1). lia. Qed.
Lemma reads_get_u16 z : in_u 16 z → reads get_u16 (be_bytes 2 z) z.
Proof. apply (reads_unsigned 2). Qed.
Lemma reads_get_i16 z : in_i 16 z → reads get_i16 (be_bytes 2 z) z.
Proof. apply (reads_signed 2). lia. Qed.
Lemma reads_get_u32 z : in_u 32 z → reads get_u32 (be_bytes 4 z) z.
Proof. apply (reads_unsigned 4). Qed.
Lemma reads_get_i32 z : in_i 32 z → reads get_i32 (be_bytes 4 z) z.
Proof. apply (reads_signed 4). lia. Qed.
Lemma reads_get_u64 z : in_u 64 z → reads get_u64 (be_bytes 8 z) z.
Proof. apply (reads_unsigned 8). Qed.
Lemma reads_get_i64 z : in_i 64 z → reads get_i64 (be_bytes 8 z) z.
Proof. apply (reads_signed 8). lia. Qed.
Lemma reads_get_f32 z : in_u 32 z → reads get_f32 (be_bytes 4 z) z.
Proof. apply (reads_unsigned 4). Qed.
Lemma reads_get_f64 z : in_u 64 z → reads get_f64 (be_bytes 8 z) z.
Proof. apply (reads_unsigned 8). Qed.
Lemma reads_read_uuid z : in_u 128 z → reads read_uuid (be_bytes 16 z) z.
Proof. apply (reads_unsigned 16). Qed.
Lemma reads_get_bool b : reads get_bool (be_bytes 1 (Z.b2z b)) b.
Proof.
  assert (b = negb (Z.b2z b =? 0)) as Hb by by destruct b.
  rewrite Hb at 2. apply (reads_bind_ret _ (λ v, negb (v =? 0))), reads_get_u8.
  by destruct b.
Qed.
#[export] Hint Resolve reads_ret reads_read_bytes reads_get_u8 reads_get_i8
  reads_get_u16 reads_get_i16 reads_get_u32 reads_get_i32 reads_get_u64
  reads_get_i64 reads_get_f32 reads_get_f64 reads_read_uuid reads_get_bool : wire.

Lemma writes_ret : writes (ret tt) [].
Proof. intros [b]. unfold ret, put_bytes; simpl. by rewrite app_nil_r. Qed.

Lemma writes_modify f bs : (∀ w, f w = put_bytes bs w) → writes (modify f) bs.
Proof. intros Hf w. unfold modify. by rewrite Hf. Qed.

Lemma writes_bind m k bs1 bs2 :
  writes m bs1 → writes k bs2 → writes (m ;;; k) (bs1 ++ bs2).
Proof.
  intros Hm Hk w. rewrite (bind_Ok _ _ _ _ _ (Hm w)), Hk.
  unfold put_bytes; simpl. by rewrite app_assoc.
Qed.

Lemma put_bytes_app a b w : put_bytes b (put_bytes a w) = put_bytes (a ++ b) w.
Proof. unfold put_bytes; simpl. by rewrite app_assoc. Qed.

(** ** What a successful read has consumed

    [consumes m Q]: whenever [m] succeeds, the bytes it moved over and the
    value it returns are related by [Q].  [reads] says that good input is
    accepted; [consumes] says that only good input is. *)
Definition consumes {A} (m : Read A) (Q : A → list byte → Prop) : Prop :=
  ∀ r a r', m r = (Ok a, r') →
    ∃ bs suf, rest r = bs ++ suf ∧ r' = advance r (length bs) ∧ Q a bs.

Section consumes.
Context {A : Type}.
Implicit Types (m : Read A) (Q : A → list byte → Prop).

Lemma consumes_ret a Q : Q a [] → consumes (ret a) Q.
Proof.
  intros HQ r a' r' H. unfold ret in H. simplify_eq.
  exists [], (rest r'). by rewrite advance_0.
Qed.

Lemma consumes_raise e Q : consumes (raise e) Q.
Proof. intros r a' r' H. done. Qed.

Lemma consumes_impl m Q Q' : consumes m Q → (∀ a bs, Q a bs → Q' a bs) → consumes m Q'.
Proof. intros Hm HQ r a r' H. destruct (Hm r a r' H) as (bs & suf & ? & ? & ?). eauto 6. Qed.

Lemma consumes_bind {B} (m : Read B) (k : B → Read A) P Q :
  consumes m P → (∀ b bs, P b bs → consumes (k b) (λ a bs', Q a (bs ++ bs'))) →
  consumes (bind m k) Q.
Proof.
  intros Hm Hk r a r' (b & r1 & Hb & Ha)%bind_Ok_inv.
  destruct (Hm _ _ _ Hb) as (bs & suf & Hr & -> & HP).
  destruct (Hk b bs HP _ _ _ Ha) as (bs' & suf' & Hr' & -> & HQ).
  rewrite rest_advance, Hr, drop_app_exact in Hr' by done. subst suf.
  exists (bs ++ bs'), suf'. by rewrite Hr, <- app_assoc, advance_advance, length_app.
Qed.

Lemma consumes_gets {B} (f : PacketReader → B) (k : B → Read A) Q :
  (∀ b, consumes (k b) Q) → consumes (let* b := gets f in k b) Q.
Proof. intros Hk r a r'. unfold bind, gets. apply Hk. Qed.
End consumes.

Lemma consumes_read_bytes n :
  consumes (read_bytes n) (λ a bs, a = bs ∧ length bs = Z.to_nat n).
Proof.
  intros r a r'. rewrite read_bytes_eq. destruct (Z.ltb_spec (Z.of_nat (remaining r)) n) as [|Hn]; [done|].
  intros; simplify_eq. exists (take (Z.to_nat n) (rest r)), (drop (Z.to_nat n) (rest r)).
  assert (length (take (Z.to_nat n) (rest r)) = Z.to_nat n) as Hl.
  { rewrite length_take, length_rest. lia. }
  by rewrite take_drop, Hl.
Qed.

Lemma consumes_unsigned (n : nat) :
  consumes (let* bs := read_bytes (Z.of_nat n) in ret (be_value bs))
    (λ z bs, in_u (8 * Z.of_nat n) z ∧ bs = be_bytes n z).
Proof.
  eapply consumes_bind; [apply consumes_read_bytes|]. intros b bs [-> Hl]. apply consumes_ret.
  rewrite Nat2Z.id in Hl. rewrite app_nil_r, <- Hl, be_bytes_value. split; [|done]. apply be_value_range.
Qed.

Lemma consumes_signed (n : nat) :
  (0 < n)%nat →
  consumes (let* bs := read_bytes (Z.of_nat n) in ret (swrap (8 * Z.of_nat n) (be_value bs)))
    (λ z bs, in_i (8 * Z.of_nat n) z ∧ bs = be_bytes n z).
Proof.
  intros Hn. eapply consumes_bind; [apply consumes_read_bytes|]. intros b bs [-> Hl]. apply consumes_ret.
  rewrite Nat2Z.id in Hl. rewrite app_nil_r. split; [apply swrap_range; lia|].
  subst n. rewrite <- be_bytes_wrap, wrap_swrap, be_bytes_value; [done|lia|].
  apply be_value_range.
Qed.

Lemma consumes_get_u8 : consumes get_u8 (λ z bs, in_u 8 z ∧ bs = be_bytes 1 z).
Proof. apply (consumes_unsigned 1). Qed.
Lemma consumes_get_i8 : consumes get_i8 (λ z bs, in_i 8 z ∧ bs = be_bytes 1 z).
Proof. apply (consumes_signed 1). lia. Qed.
Lemma consumes_get_u16 : consumes get_u16 (λ z bs, in_u 16 z ∧ bs = be_bytes 2 z).
Proof. apply (consumes_unsigned 2). Qed.
Lemma consumes_get_i16 : consumes get_i16 (λ z bs, in_i 16 z ∧ bs = be_bytes 2 z).
Proof. apply (consumes_signed 2). lia. Qed.
Lemma consumes_get_i32 : consumes get_i32 (λ z bs, in_i 32 z ∧ bs = be_bytes 4 z).
Proof. apply (consumes_signed 4). lia. Qed.
Lemma consumes_get_i64 : consumes get_i64 (λ z bs, in_i 64 z ∧ bs = be_bytes 8 z).
Proof. apply (consumes_signed 8). lia. Qed.
Lemma consumes_get_f32 : consumes get_f32 (λ z bs, in_u 32 z ∧ bs = be_bytes 4 z).
Proof. apply (consumes_unsigned 4). Qed.
Lemma consumes_get_f64 : consumes get_f64 (λ z bs, in_u 64 z ∧ bs = be_bytes 8 z).
Proof. apply (consumes_unsigned 8). Qed.

Lemma consumes_repeat_m {A} (enc : A → list byte) (dom : A → Prop) (m : Read A) n :
  consumes m (λ a bs, dom a ∧ bs = enc a) →
  consumes (repeat_m n m) (λ l bs, length l = n ∧ Forall dom l ∧ bs = concat (map enc l)).
Proof.
  intros Hm. induction n as [|n IH]; simpl; [by apply consumes_ret|].
  eapply consumes_bind; [exact Hm|]. intros a bs [Ha ->].
  eapply consumes_bind; [exact IH|]. intros l bs (Hl & Hdom & ->).
  apply consumes_ret. rewrite app_nil_r. simpl. auto.
Qed.
