(* ===== verification/Varint.v ===== *)
(** * VarInt and VarLong

    [crates/minerider-protocol/src/varint.rs] and [varlong.rs]: seven bits
    per byte, the high bit marking continuation, two's complement.  Both
    files hold the same three loops at 32 and at 64 bits; the loops are
    written once here over the width. *)

From S2P Require Import Prelude Machine Reader.

Local Open Scope Z_scope.

Definition MAX_VARINT_BYTES : nat := 5.
Definition MAX_VARLONG_BYTES : nat := 10.

(** ** The three loops *)

(** The body of [write_varint]/[write_varlong].  A pass shifts seven bits
    out, so a value of [w] bits needs at most [⌈w/7⌉] passes: the fuel is
    the file's [MAX_VAR*_BYTES] ([leb_loop_fuel]). *)
Fixpoint leb_loop (fuel : nat) (value : Z) : list byte :=
  match fuel with
  | O => []
  | S fuel =>
      let byte := Z.land value 127 in
      let value' := Z.shiftr value 7 in
      let byte := if negb (value' =? 0) then Z.lor byte 128 else byte in
      byte_of_Z byte :: (if value' =? 0 then [] else leb_loop fuel value')
  end.

(** [for i in 0..MAX]: [n] passes are left and [i] are done. *)
Fixpoint read_leb (w : Z) (too_long : ProtocolError) (n i : nat) (result : Z) : Read Z :=
  match n with
  | O => raise too_long
  | S n =>
      let* byte := get_u8 in
      let result := Z.lor result (wrap w (Z.shiftl (Z.land byte 127) (Z.of_nat i * 7))) in
      if Z.land byte 128 =? 0 then ret (swrap w result)
      else read_leb w too_long n (S i) result
  end.

(** [while value & !0x7F != 0]; [mask] is [!0x7F] at the width. *)
Fixpoint leb_size_loop (fuel : nat) (mask value : Z) (size : nat) : nat :=
  match fuel with
  | O => size
  | S fuel =>
      if negb (Z.land value mask =? 0)
      then leb_size_loop fuel mask (Z.shiftr value 7) (S size)
      else size
  end.

(** ** The operations *)

Definition varint_bytes (v : Z) : list byte := leb_loop MAX_VARINT_BYTES (wrap 32 v).
Definition write_varint (v : Z) : PacketWriter → PacketWriter := put_bytes (varint_bytes v).
Definition read_varint : Read Z := read_leb 32 VarIntTooLong MAX_VARINT_BYTES 0 0.
Definition varint_size (v : Z) : nat :=
  leb_size_loop MAX_VARINT_BYTES (2 ^ 32 - 128) (wrap 32 v) 1.

Definition varlong_bytes (v : Z) : list byte := leb_loop MAX_VARLONG_BYTES (wrap 64 v).
Definition write_varlong (v : Z) : PacketWriter → PacketWriter := put_bytes (varlong_bytes v).
Definition read_varlong : Read Z := read_leb 64 VarLongTooLong MAX_VARLONG_BYTES 0 0.
Definition varlong_size (v : Z) : nat :=
  leb_size_loop MAX_VARLONG_BYTES (2 ^ 64 - 128) (wrap 64 v) 1.

#[global] Arguments varint_bytes : simpl never.
#[global] Arguments varint_size : simpl never.
#[global] Arguments read_varint : simpl never.
#[global] Arguments varlong_bytes : simpl never.
#[global] Arguments varlong_size : simpl never.
#[global] Arguments read_varlong : simpl never.

(** ** Reference value of a byte string

    [Σ (bᵢ mod 128) · 2^(7i)], the number a LEB128 string denotes. *)

Fixpoint leb_value (bs : list byte) : Z :=
  match bs with
  | [] => 0
  | b :: bs => u8 b `mod` 128 + 128 * leb_value bs
  end.

(** Every byte asks for another one. *)
Definition all_continue (bs : list byte) : Prop := Forall (λ b, 128 ≤ u8 b) bs.

(** ** Lemmas *)

Lemma shiftr_7 z : Z.shiftr z 7 = z / 128.
Proof. by rewrite Z.shiftr_div_pow2. Qed.

Lemma be_bytes_1 z : be_bytes 1 z = [byte_of_Z z].
Proof. done. Qed.

(** One pass of the encoder in arithmetic form. *)
Lemma leb_loop_S fuel value :
  0 ≤ value →
  leb_loop (S fuel) value =
    if decide (value < 128) then [byte_of_Z value]
    else byte_of_Z (value `mod` 128 + 128) :: leb_loop fuel (value / 128).
Proof.
  intros Hv. simpl. rewrite shiftr_7, land_127. case_decide as H.
  - rewrite Z.div_small, Z.mod_small by lia. done.
  - assert (1 ≤ value / 128) by (apply Z.div_le_lower_bound; lia).
    rewrite (proj2 (Z.eqb_neq (value / 128) 0)) by lia. simpl. do 2 f_equal.
    apply (lor_shiftl_add _ 1 7); [lia|]. apply Z.mod_pos_bound. lia.
Qed.

(** More fuel than seven bits per pass changes nothing. *)
Lemma leb_loop_fuel n m value :
  (0 < n ≤ m)%nat → 0 ≤ value < 2 ^ (7 * Z.of_nat n) → leb_loop m value = leb_loop n value.
Proof.
  revert m value. induction n as [|n IH]; intros [|m] value Hm Hv; [lia..|].
  rewrite !leb_loop_S by lia. case_decide as H; [done|]. f_equal.
  replace (7 * Z.of_nat (S n)) with (7 + 7 * Z.of_nat n) in Hv by lia.
  rewrite Z.pow_add_r in Hv by lia. change (2 ^ 7) with 128 in Hv.
  apply IH; [|by split; [apply Z.div_pos|apply Z.div_lt_upper_bound]; lia].
  destruct n; [simpl in Hv|]; lia.
Qed.

Lemma reads_byte z : in_u 8 z → reads get_u8 [byte_of_Z z] z.
Proof. rewrite <- be_bytes_1. apply reads_get_u8. Qed.

(** The accumulator of the decoder is an addition: no bit overlaps. *)
Lemma leb_accumulate w result m k :
  0 ≤ w → 0 ≤ k → 0 ≤ result < 2 ^ k →
  Z.lor result (wrap w (Z.shiftl m k)) = result + wrap w (m * 2 ^ k).
Proof.
  intros Hw Hk Hres. rewrite Z.shiftl_mul_pow2 by lia. unfold wrap.
  destruct (Z.le_gt_cases w k) as [Hwk|Hwk].
  - replace k with (k - w + w) by lia. rewrite Z.pow_add_r, Z.mul_assoc, Z.mod_mul by lia.
    by rewrite Z.lor_0_r, Z.add_0_r.
  - replace w with (w - k + k) by lia. rewrite Z.pow_add_r, Z.mul_mod_distr_r by lia.
    rewrite <- Z.shiftl_mul_pow2 by lia. rewrite lor_shiftl_add by lia.
    by rewrite Z.shiftl_mul_pow2 by lia.
Qed.

(** One pass of the decoder over a byte [b]. *)
Lemma read_leb_step w tl n i result b r suf :
  0 ≤ w → 0 ≤ result < 2 ^ (Z.of_nat i * 7) → rest r = b :: suf →
  read_leb w tl (S n) i result r =
    let result' := result + wrap w (u8 b `mod` 128 * 2 ^ (Z.of_nat i * 7)) in
    if decide (u8 b < 128) then (Ok (swrap w result'), advance r 1)
    else read_leb w tl n (S i) result' (advance r 1).
Proof.
  intros Hw Hres Hr. simpl.
  rewrite (bind_Ok _ _ r (u8 b) (advance r 1)).
  2:{ rewrite <- (byte_of_u8 b) in Hr. apply (reads_byte (u8 b) (u8_range b) r suf Hr). }
  rewrite land_127, land_128_u8 by apply u8_range. rewrite leb_accumulate by lia.
  destruct (Z.ltb_spec (u8 b) 128); [by rewrite decide_True|by rewrite decide_False by lia].
Qed.

Lemma swrap_mod w a b : a `mod` 2 ^ w = b `mod` 2 ^ w → swrap w a = swrap w b.
Proof. intros H. unfold swrap. by rewrite <- Zplus_mod_idemp_l, H, Zplus_mod_idemp_l. Qed.

(** The accumulator after one more byte: its range and its residue. *)
Lemma leb_acc_step w result b k V :
  0 ≤ w → 0 ≤ k → 0 ≤ result < 2 ^ k →
  let result' := result + wrap w (u8 b `mod` 128 * 2 ^ k) in
  0 ≤ result' < 2 ^ (k + 7)
  ∧ (result' + V * 2 ^ (k + 7)) `mod` 2 ^ w
    = (result + (u8 b `mod` 128 + 128 * V) * 2 ^ k) `mod` 2 ^ w.
Proof.
  intros Hw Hk Hres. cbv zeta.
  pose proof (Z.mod_pos_bound (u8 b) 128 ltac:(lia)) as Hm.
  set (m := u8 b `mod` 128) in *. rewrite Z.pow_add_r by lia. change (2 ^ 7) with 128.
  pose proof (pow2_pos w Hw). pose proof (pow2_pos k Hk).
  unfold wrap. split.
  - pose proof (Z.mod_pos_bound (m * 2 ^ k) (2 ^ w) ltac:(lia)).
    pose proof (Z.mod_le (m * 2 ^ k) (2 ^ w) ltac:(lia) ltac:(lia)). nia.
  - rewrite <- Z.add_assoc, (Z.add_comm (_ `mod` _)), Z.add_assoc, Zplus_mod_idemp_r. f_equal. ring.
Qed.

(** The decoder runs through continuation bytes. *)
Lemma read_leb_run w tl n i result bs r suf :
  0 ≤ w → 0 ≤ result < 2 ^ (Z.of_nat i * 7) →
  (length bs ≤ n)%nat → all_continue bs → rest r = bs ++ suf →
  ∃ acc, 0 ≤ acc < 2 ^ (Z.of_nat (i + length bs) * 7)
    ∧ (∀ V, (acc + V * 2 ^ (Z.of_nat (i + length bs) * 7)) `mod` 2 ^ w
        = (result + (leb_value bs + V * 2 ^ (Z.of_nat (length bs) * 7)) * 2 ^ (Z.of_nat i * 7)) `mod` 2 ^ w)
    ∧ read_leb w tl n i result r
      = read_leb w tl (n - length bs) (i + length bs) acc (advance r (length bs)).
Proof.
  intros Hw. revert n i result r. induction bs as [|b bs IH]; intros n i result r Hres Hn Hc Hr.
  - exists result. rewrite Nat.add_0_r, Nat.sub_0_r, advance_0. split; [done|split; [intros V|done]].
    simpl. by rewrite Z.add_0_l, Z.mul_1_r.
  - apply Forall_cons in Hc as [Hb Hc]. destruct n as [|n]; [simpl in Hn; lia|].
    rewrite (read_leb_step _ _ _ _ _ b _ (bs ++ suf)), decide_False by (done || lia).
    destruct (leb_acc_step w result b (Z.of_nat i * 7) 0) as [Hr' _]; [lia..|].
    replace (Z.of_nat i * 7 + 7) with (Z.of_nat (S i) * 7) in Hr' by lia.
    destruct (IH n (S i) _ (advance r 1) Hr') as (acc & Hacc & Hmod & Heq);
      [simpl in Hn; lia|done|by rewrite rest_advance, Hr|].
    exists acc. replace (i + length (b :: bs))%nat with (S i + length bs)%nat by (simpl; lia).
    split; [done|split; [intros V; rewrite Hmod|]].
    + replace (Z.of_nat (S i) * 7) with (Z.of_nat i * 7 + 7) by lia.
      rewrite (proj2 (leb_acc_step w result b (Z.of_nat i * 7) _ Hw ltac:(lia) Hres)).
      do 2 f_equal. simpl length. simpl leb_value.
      replace (Z.of_nat (S (length bs)) * 7) with (Z.of_nat (length bs) * 7 + 7) by lia.
      rewrite (Z.pow_add_r 2 (Z.of_nat (length bs) * 7)) by lia. change (2 ^ 7) with 128. ring.
    + rewrite Heq, advance_advance. by replace (S n - length (b :: bs))%nat with (n - length bs)%nat by (simpl; lia).
Qed.

Lemma leb_value_app bs cs :
  leb_value (bs ++ cs) = leb_value bs + leb_value cs * 2 ^ (Z.of_nat (length bs) * 7).
Proof.
  induction bs as [|b bs IH]; simpl leb_value; simpl app; [simpl; lia|].
  simpl. rewrite IH. replace (Z.of_nat (S (length bs)) * 7) with (Z.of_nat (length bs) * 7 + 7) by lia.
  rewrite Z.pow_add_r by lia. change (2 ^ 7) with 128. ring.
Qed.

(** ** What the decoder does on every input *)

Section decoder.
Context (w : Z) (tl : ProtocolError) (n : nat).
Hypothesis Hw : 0 < w.

Lemma read_leb_value bs b r suf :
  (length bs < n)%nat → all_continue bs → u8 b < 128 → rest r = bs ++ b :: suf →
  read_leb w tl n 0 0 r = (Ok (swrap w (leb_value (bs ++ [b]))), advance r (S (length bs))).
Proof.
  intros Hn Hc Hb Hr.
  destruct (read_leb_run w tl n 0 0 bs r (b :: suf)) as (acc & Hacc & Hmod & ->); [lia..|done|done|].
  destruct (n - length bs)%nat as [|m] eqn:Hm; [lia|].
  rewrite (read_leb_step _ _ _ _ _ b _ suf) by (lia || by rewrite rest_advance, Hr, drop_app_exact).
  rewrite decide_True by lia. cbv zeta. rewrite advance_advance, Nat.add_1_r.
  do 2 f_equal. apply swrap_mod. specialize (Hmod (u8 b `mod` 128)).
  rewrite Z.add_0_l, Z.mul_1_r in Hmod. rewrite leb_value_app. simpl leb_value.
  rewrite Z.mul_0_r, Z.add_0_r, <- Hmod. simpl. unfold wrap. by rewrite Zplus_mod_idemp_r.
Qed.

Lemma read_leb_too_long bs r suf :
  length bs = n → all_continue bs → rest r = bs ++ suf →
  read_leb w tl n 0 0 r = (Err tl, advance r n).
Proof.
  intros Hn Hc Hr.
  destruct (read_leb_run w tl n 0 0 bs r suf) as (acc & _ & _ & ->); [lia..|done|done|].
  rewrite Hn, Nat.sub_diag. done.
Qed.

Lemma read_leb_truncated bs r :
  (length bs < n)%nat → all_continue bs → rest r = bs →
  read_leb w tl n 0 0 r = (Err (BufferUnderflow 1 0), advance r (length bs)).
Proof.
  intros Hn Hc Hr.
  destruct (read_leb_run w tl n 0 0 bs r []) as (acc & _ & _ & ->); [lia..|done|by rewrite app_nil_r|].
  destruct (n - length bs)%nat as [|m] eqn:Hm; [lia|]. simpl. apply bind_Err.
  unfold get_u8. apply bind_Err. rewrite read_bytes_eq.
  assert (remaining (advance r (length bs)) = 0%nat) as ->; [|done].
  rewrite <- length_rest, rest_advance, Hr, drop_all. done.
Qed.
End decoder.

(** Every byte string starts with a terminated varint, five (ten)
    continuation bytes, or is a short run of continuation bytes. *)
Lemma leb_classify n l :
  (∃ bs b suf, l = bs ++ b :: suf ∧ (length bs < n)%nat ∧ all_continue bs ∧ u8 b < 128)
  ∨ (∃ bs suf, l = bs ++ suf ∧ length bs = n ∧ all_continue bs)
  ∨ ((length l < n)%nat ∧ all_continue l).
Proof.
  revert l. induction n as [|n IH]; intros l.
  { right; left. exists [], l. repeat split. constructor. }
  destruct l as [|b l]; [right; right; split; [simpl; lia|constructor]|].
  destruct (decide (u8 b < 128)).
  { left. exists [], b, l. repeat split; [simpl; lia|constructor|done]. }
  destruct (IH l) as [(bs & b' & suf & -> & ? & ? & ?)|[(bs & suf & -> & ? & ?)|[? ?]]].
  - left. exists (b :: bs), b', suf. repeat split; [simpl; lia|constructor; [lia|done]|done].
  - right; left. exists (b :: bs), suf. repeat split; [simpl; lia|constructor; [lia|done]].
  - right; right. split; [simpl; lia|constructor; [lia|done]].
Qed.

(** ** What the encoder emits *)

Lemma u8_continue value : u8 (byte_of_Z (value `mod` 128 + 128)) = value `mod` 128 + 128.
Proof.
  pose proof (Z.mod_pos_bound value 128 ltac:(lia)). apply u8_of_Z_small. unfold in_u. lia.
Qed.

Lemma leb_loop_spec n value :
  (0 < n)%nat → 0 ≤ value < 2 ^ (7 * Z.of_nat n) →
  ∃ bs b, leb_loop n value = bs ++ [b] ∧ (length bs < n)%nat ∧ all_continue bs ∧ u8 b < 128
    ∧ leb_value (bs ++ [b]) = value.
Proof.
  revert value. induction n as [|n IH]; intros value Hn Hv; [lia|].
  rewrite leb_loop_S by lia. case_decide as H.
  - exists [], (byte_of_Z value). simpl. rewrite u8_of_Z_small by (unfold in_u; lia).
    repeat split; [lia|constructor|lia|]. rewrite Z.mod_small by lia. lia.
  - replace (7 * Z.of_nat (S n)) with (7 + 7 * Z.of_nat n) in Hv by lia.
    rewrite Z.pow_add_r in Hv by lia. change (2 ^ 7) with 128 in Hv.
    destruct (IH (value / 128)) as (bs & b & Heq & ? & ? & ? & Hval).
    { destruct n; [simpl in Hv|]; lia. }
    { split; [apply Z.div_pos|apply Z.div_lt_upper_bound]; lia. }
    exists (byte_of_Z (value `mod` 128 + 128) :: bs), b.
    rewrite Heq. simpl. rewrite Hval, u8_continue.
    pose proof (Z.mod_pos_bound value 128 ltac:(lia)).
    repeat split; [lia|constructor; [rewrite u8_continue; lia|done]|done|].
    rewrite Z.add_mod, Z.mod_same, Z.add_0_r, !Z.mod_mod by lia.
    pose proof (Z.div_mod value 128 ltac:(lia)). lia.
Qed.

Lemma leb_mask_high w value :
  7 ≤ w → in_u w value → (Z.land value (2 ^ w - 128) =? 0) = (value <? 128).
Proof.
  intros Hw [Hv Hv'].
  assert (Z.land value (2 ^ w - 128) = (value / 128) * 128) as ->.
  { replace (2 ^ w - 128) with (Z.shiftl (Z.ones (w - 7)) 7).
    2:{ rewrite Z.shiftl_mul_pow2, Z.ones_equiv by lia. change 128 with (2 ^ 7).
        rewrite Z.mul_pred_l, <- Z.pow_add_r by lia. do 3 f_equal. lia. }
    change 128 with (2 ^ 7). rewrite <- Z.shiftr_div_pow2, <- Z.shiftl_mul_pow2 by lia.
    apply Z.bits_inj'. intros i Hi. rewrite Z.land_spec, !Z.shiftl_spec by lia.
    destruct (decide (i < 7)); [rewrite !(Z.testbit_neg_r _ (i - 7)) by lia; apply andb_false_r|].
    rewrite Z.shiftr_spec, Z.sub_add by lia.
    destruct (decide (i < w)).
    - rewrite Z.ones_spec_low by lia. apply andb_true_r.
    - rewrite <- (Z.mod_small value (2 ^ w)), Z.mod_pow2_bits_high by lia. done. }
  destruct (Z.ltb_spec value 128); [by rewrite Z.div_small by lia|].
  apply Z.eqb_neq. assert (1 ≤ value / 128) by (apply Z.div_le_lower_bound; lia). lia.
Qed.

Lemma leb_size_loop_length w n value size :
  7 ≤ w → (0 < n)%nat → 0 ≤ value < 2 ^ (7 * Z.of_nat n) → in_u w value →
  S (leb_size_loop n (2 ^ w - 128) value size) = (length (leb_loop n value) + size)%nat.
Proof.
  intros Hw. revert value size. induction n as [|n IH]; intros value size Hn Hv Hu; [lia|].
  rewrite leb_loop_S by lia. simpl leb_size_loop. rewrite leb_mask_high, shiftr_7 by done.
  destruct (Z.ltb_spec value 128); [by rewrite decide_True|rewrite decide_False by lia].
  replace (7 * Z.of_nat (S n)) with (7 + 7 * Z.of_nat n) in Hv by lia.
  rewrite Z.pow_add_r in Hv by lia. change (2 ^ 7) with 128 in Hv. unfold in_u in *. simpl.
  rewrite IH; [lia|destruct n; [simpl in Hv|]; lia| |].
  all: split; [apply Z.div_pos; lia|apply Z.div_lt_upper_bound; lia].
Qed.

(** ** VarInt and VarLong *)

Lemma varint_fuel v : 0 ≤ wrap 32 v < 2 ^ (7 * Z.of_nat MAX_VARINT_BYTES).
Proof. destruct (wrap_range 32 v ltac:(lia)). split; [done|]. by etrans. Qed.

Lemma varlong_fuel v : 0 ≤ wrap 64 v < 2 ^ (7 * Z.of_nat MAX_VARLONG_BYTES).
Proof. destruct (wrap_range 64 v ltac:(lia)). split; [done|]. by etrans. Qed.

Lemma reads_varint v : in_i 32 v → reads read_varint (varint_bytes v) v.
Proof.
  intros Hv r suf Hr. unfold varint_bytes in *.
  destruct (leb_loop_spec MAX_VARINT_BYTES _ ltac:(unfold MAX_VARINT_BYTES; lia) (varint_fuel v))
    as (bs & b & Heq & Hlen & Hc & Hb & Hval).
  rewrite Heq in *. rewrite <- app_assoc in Hr. unfold read_varint.
  erewrite read_leb_value by (done || lia). rewrite Hval, swrap_wrap by (done || lia).
  rewrite length_app, Nat.add_1_r. done.
Qed.

Lemma reads_varlong v : in_i 64 v → reads read_varlong (varlong_bytes v) v.
Proof.
  intros Hv r suf Hr. unfold varlong_bytes in *.
  destruct (leb_loop_spec MAX_VARLONG_BYTES _ ltac:(unfold MAX_VARLONG_BYTES; lia) (varlong_fuel v))
    as (bs & b & Heq & Hlen & Hc & Hb & Hval).
  rewrite Heq in *. rewrite <- app_assoc in Hr. unfold read_varlong.
  erewrite read_leb_value by (done || lia). rewrite Hval, swrap_wrap by (done || lia).
  rewrite length_app, Nat.add_1_r. done.
Qed.
#[export] Hint Resolve reads_varint reads_varlong : wire.

(** Continuation bytes and a terminator. *)
Lemma varint_bytes_shape v :
  ∃ bs b, varint_bytes v = bs ++ [b] ∧ (length bs < 5)%nat ∧ all_continue bs.
Proof.
  destruct (leb_loop_spec MAX_VARINT_BYTES _ ltac:(unfold MAX_VARINT_BYTES; lia) (varint_fuel v))
    as (bs & b & Heq & Hlen & Hc & _). by exists bs, b.
Qed.

Lemma varint_bytes_length v : (1 ≤ length (varint_bytes v) ≤ 5)%nat.
Proof.
  unfold varint_bytes.
  destruct (leb_loop_spec MAX_VARINT_BYTES _ ltac:(unfold MAX_VARINT_BYTES; lia) (varint_fuel v))
    as (bs & b & -> & Hlen & _). rewrite length_app. unfold MAX_VARINT_BYTES in *. simpl. lia.
Qed.

Lemma read_leb_in_bounds w tl n i result : in_bounds (read_leb w tl n i result).
Proof. revert i result. induction n as [|n IH]; intros i result; simpl; mauto. Qed.

Lemma read_varint_in_bounds : in_bounds read_varint.
Proof. apply read_leb_in_bounds. Qed.
Lemma read_varlong_in_bounds : in_bounds read_varlong.
Proof. apply read_leb_in_bounds. Qed.
#[export] Hint Resolve read_varint_in_bounds read_varlong_in_bounds : preserves.

(** A successful [read_varint] returns an [i32]. *)
Lemma read_leb_range w tl n i result r v r' :
  0 < w → read_leb w tl n i result r = (Ok v, r') → in_i w v.
Proof.
  intros Hw. revert i result r. induction n as [|n IH]; intros i result r; simpl; [done|].
  intros (b & r1 & _ & H)%bind_Ok_inv. case_match; [|by eapply IH].
  unfold ret in H. simplify_eq. by apply swrap_range.
Qed.

Lemma read_varint_range r v r' : read_varint r = (Ok v, r') → in_i 32 v.
Proof. by apply read_leb_range. Qed.
Lemma read_varlong_range r v r' : read_varlong r = (Ok v, r') → in_i 64 v.
Proof. by apply read_leb_range. Qed.

Lemma read_varint_eq : read_varint = read_leb 32 VarIntTooLong MAX_VARINT_BYTES 0 0.
Proof. done. Qed.

(** Coarse summary of a read: success moves over one to five bytes. *)
Lemma read_varint_cases r :
  (∃ n, (1 ≤ n ≤ 5)%nat ∧ (n ≤ length (rest r))%nat ∧ ∃ v, read_varint r = (Ok v, advance r n))
  ∨ ∃ e n, read_varint r = (Err e, advance r n).
Proof.
  destruct (leb_classify 5 (rest r)) as [(bs & b & suf & Hr & ? & ? & ?)|[(bs & suf & Hr & ? & ?)|[? ?]]].
  - left. exists (S (length bs)). split_and!; [lia..|rewrite Hr, length_app; simpl; lia|].
    eexists. by eapply read_leb_value.
  - right. exists VarIntTooLong, 5%nat. by eapply read_leb_too_long.
  - right. exists (BufferUnderflow 1 0), (length (rest r)). by apply read_leb_truncated.
Qed.

(** ** Properties *)

(** The vectors of the protocol documentation. *)
Example varint_vectors :
  map (λ v, map u8 (varint_bytes v)) [0; 127; 128; 25565; 2147483647; -1; -2147483648]
  = [[0]; [127]; [128; 1]; [221; 199; 1]; [255; 255; 255; 255; 7];
     [255; 255; 255; 255; 15]; [128; 128; 128; 128; 8]].
Proof. vm_compute. reflexivity. Qed.

(** Every [i32] written by [write_varint] is read back by [read_varint]
    whatever follows it in the buffer; the cursor ends right after the
    encoding, which has [varint_size] bytes, one to five of them. *)
Theorem varint_roundtrip (v : Z) (w : PacketWriter) (suf : list byte) :
  in_i 32 v →
  let bs := buf (write_varint v w) in
  read_varint (mkReader (bs ++ suf) (length (buf w)))
    = (Ok v, mkReader (bs ++ suf) (length (buf w) + varint_size v))
  ∧ length bs = (length (buf w) + varint_size v)%nat ∧ (1 ≤ varint_size v ≤ 5)%nat.
Proof.
  intros Hv. cbv zeta.
  assert (varint_size v = length (varint_bytes v)) as Hsize.
  { pose proof (leb_size_loop_length 32 MAX_VARINT_BYTES (wrap 32 v) 1 ltac:(lia)
      ltac:(unfold MAX_VARINT_BYTES; lia) (varint_fuel v) (wrap_range 32 v ltac:(lia))) as H.
    unfold varint_size, varint_bytes. lia. }
  rewrite Hsize. change (buf (write_varint v w)) with (buf w ++ varint_bytes v).
  split; [|split; [by rewrite length_app|apply varint_bytes_length]].
  rewrite (reads_varint v Hv _ suf); [done|].
  unfold rest; cbn [rd_pos rd_data]. by rewrite <- app_assoc, drop_app_exact.
Qed.

Lemma varint_roundtrip_witness :
  in_i 32 (-1) ∧ read_varint (mkReader (map byte_of_Z [255; 255; 255; 255; 15; 7]) 0)
    = (Ok (-1), mkReader (map byte_of_Z [255; 255; 255; 255; 15; 7]) 5).
Proof.
  split; [unfold in_i; lia|].
  apply (proj1 (varint_roundtrip (-1) new_writer [byte_of_Z 7] ltac:(unfold in_i; lia))).
Defined.

(** Every [i64] written by [write_varlong] is read back by
    [read_varlong] whatever follows, and the encoding has [varlong_size]
    bytes. *)
Theorem varlong_roundtrip (v : Z) (w : PacketWriter) (suf : list byte) :
  in_i 64 v →
  let bs := buf (write_varlong v w) in
  read_varlong (mkReader (bs ++ suf) (length (buf w)))
    = (Ok v, mkReader (bs ++ suf) (length (buf w) + varlong_size v))
  ∧ length bs = (length (buf w) + varlong_size v)%nat.
Proof.
  intros Hv. cbv zeta.
  assert (varlong_size v = length (varlong_bytes v)) as Hsize.
  { pose proof (leb_size_loop_length 64 MAX_VARLONG_BYTES (wrap 64 v) 1 ltac:(lia)
      ltac:(unfold MAX_VARLONG_BYTES; lia) (varlong_fuel v) (wrap_range 64 v ltac:(lia))) as H.
    unfold varlong_size, varlong_bytes. lia. }
  rewrite Hsize. change (buf (write_varlong v w)) with (buf w ++ varlong_bytes v).
  split; [|by rewrite length_app].
  rewrite (reads_varlong v Hv _ suf); [done|].
  unfold rest; cbn [rd_pos rd_data]. by rewrite <- app_assoc, drop_app_exact.
Qed.

Lemma varlong_roundtrip_witness :
  in_i 64 (-9223372036854775808)
  ∧ length (buf (write_varlong (-9223372036854775808) new_writer)) = 10%nat.
Proof.
  split; [unfold in_i; lia|].
  apply (proj2 (varlong_roundtrip (-9223372036854775808) new_writer []
    ltac:(unfold in_i; lia))).
Defined.

(** What [read_varint] does on every input: a run of fewer than five
    continuation bytes followed by a terminator gives the denoted number in
    two's complement; five continuation bytes are [VarIntTooLong]; a buffer
    that ends inside the run is a [BufferUnderflow] (not [VarIntTooLong]).
    In each case the cursor sits after the bytes looked at. *)
Theorem read_varint_outcome (r : PacketReader) :
  (∃ bs b suf, rest r = bs ++ b :: suf ∧ (length bs < 5)%nat ∧ all_continue bs ∧ u8 b < 128
     ∧ read_varint r = (Ok (swrap 32 (leb_value (bs ++ [b]))), advance r (S (length bs))))
  ∨ (∃ bs suf, rest r = bs ++ suf ∧ length bs = 5%nat ∧ all_continue bs
     ∧ read_varint r = (Err VarIntTooLong, advance r 5))
  ∨ ((length (rest r) < 5)%nat ∧ all_continue (rest r)
     ∧ read_varint r = (Err (BufferUnderflow 1 0), advance r (length (rest r)))).
Proof.
  destruct (leb_classify 5 (rest r)) as [(bs & b & suf & Hr & ? & ? & ?)|[(bs & suf & Hr & ? & ?)|[? ?]]].
  - left. exists bs, b, suf. split_and!; [done..|]. by eapply read_leb_value.
  - right; left. exists bs, suf. split_and!; [done..|]. by eapply read_leb_too_long.
  - right; right. split_and!; [done..|]. by apply read_leb_truncated.
Qed.

#[global] Opaque varint_bytes varlong_bytes read_varint read_varlong varint_size varlong_size.
