(* ===== verification/Utf8.v ===== *)
(** * UTF-8 strings

    What the codec uses of Rust's [str]: validation ([std::str::from_utf8]),
    the byte view and [chars().count()].  A [String] is Rocq's [string], a
    sequence of bytes; the [str] invariant is [utf8_ok]. *)

From S2P Require Import Prelude Machine.

Local Open Scope Z_scope.

Definition bytes_of (s : string) : list byte := String.list_byte_of_string s.
Definition of_bytes (bs : list byte) : string := String.string_of_list_byte bs.

Definition within (lo hi z : Z) : bool := (lo <=? z) && (z <=? hi).

(** A continuation byte, [10xxxxxx]. *)
Definition is_cont (b : byte) : bool := within 128 191 (u8 b).

(** Lead and second byte of the three- and four-byte forms: overlong forms,
    surrogates and values above U+10FFFF are excluded. *)
Definition utf8_lead3 (x y : Z) : bool :=
  ((x =? 224) && within 160 191 y)
  || ((within 225 236 x || within 238 239 x) && within 128 191 y)
  || ((x =? 237) && within 128 159 y).

Definition utf8_lead4 (x y : Z) : bool :=
  ((x =? 240) && within 144 191 y)
  || (within 241 243 x && within 128 191 y)
  || ((x =? 244) && within 128 143 y).

Fixpoint utf8_valid (bs : list byte) : bool :=
  match bs with
  | [] => true
  | a :: bs1 =>
      if u8 a <? 128 then utf8_valid bs1
      else match bs1 with
      | [] => false
      | b :: bs2 =>
          if within 194 223 (u8 a) then is_cont b && utf8_valid bs2
          else match bs2 with
          | [] => false
          | c :: bs3 =>
              if utf8_lead3 (u8 a) (u8 b) then is_cont c && utf8_valid bs3
              else match bs3 with
              | [] => false
              | d :: bs4 =>
                  utf8_lead4 (u8 a) (u8 b) && is_cont c && is_cont d && utf8_valid bs4
              end
          end
      end
  end.

Definition utf8_ok (s : string) : Prop := utf8_valid (bytes_of s) = true.

#[export] Instance utf8_ok_dec s : Decision (utf8_ok s).
Proof. unfold utf8_ok. apply _. Defined.

(** [s.chars().count()]: one character per byte that is not a
    continuation byte. *)
Definition chars_count (bs : list byte) : nat := length (List.filter (λ b, negb (is_cont b)) bs).

Lemma bytes_of_of_bytes bs : bytes_of (of_bytes bs) = bs.
Proof. apply String.list_byte_of_string_of_list_byte. Qed.
Lemma of_bytes_bytes_of s : of_bytes (bytes_of s) = s.
Proof. apply String.string_of_list_byte_of_string. Qed.

Lemma bytes_of_app s t : bytes_of (s ++ t)%string = bytes_of s ++ bytes_of t.
Proof.
  unfold bytes_of, String.list_byte_of_string. induction s as [|a s IH]; [done|].
  simpl. f_equal. apply IH.
Qed.

Lemma bytes_of_length s : length (bytes_of s) = String.length s.
Proof.
  unfold bytes_of, String.list_byte_of_string. rewrite length_map.
  induction s as [|a s IH]; simpl; congruence.
Qed.

#[export] Instance bytes_of_inj : Inj (=) (=) bytes_of.
Proof. intros s t H. by rewrite <- (of_bytes_bytes_of s), <- (of_bytes_bytes_of t), H. Qed.

(** A lead byte is never a continuation byte. *)
Lemma is_cont_low b : u8 b < 128 → is_cont b = false.
Proof. intros. unfold is_cont, within. rewrite (proj2 (Z.leb_gt 128 (u8 b))) by lia. done. Qed.

Lemma is_cont_high b : 192 ≤ u8 b → is_cont b = false.
Proof.
  intros. unfold is_cont, within. rewrite (proj2 (Z.leb_gt (u8 b) 191)) by lia. apply andb_false_r.
Qed.

Lemma within_iff lo hi z : within lo hi z = true ↔ lo ≤ z ≤ hi.
Proof. unfold within. rewrite andb_true_iff, !Z.leb_le. done. Qed.

Lemma utf8_lead3_high x y : utf8_lead3 x y = true → 192 ≤ x.
Proof.
  unfold utf8_lead3. rewrite !orb_true_iff, !andb_true_iff, orb_true_iff, !Z.eqb_eq, !within_iff. lia.
Qed.

Lemma utf8_lead4_high x y : utf8_lead4 x y = true → 192 ≤ x.
Proof.
  unfold utf8_lead4. rewrite !orb_true_iff, !andb_true_iff, !Z.eqb_eq, !within_iff. lia.
Qed.

Lemma chars_count_lead b bs : is_cont b = false → chars_count (b :: bs) = S (chars_count bs).
Proof. unfold chars_count; simpl. by intros ->. Qed.

Lemma chars_count_app bs cs : (chars_count (bs ++ cs) = chars_count bs + chars_count cs)%nat.
Proof. unfold chars_count. by rewrite List.filter_app, length_app. Qed.

(** A character takes at most four bytes. *)
Lemma utf8_length bs : utf8_valid bs = true → (length bs ≤ 4 * chars_count bs)%nat.
Proof.
  assert (Hstep : ∀ (pre bs : list byte), (chars_count bs ≤ chars_count (pre ++ bs))%nat).
  { intros pre l. rewrite chars_count_app. lia. }
  induction bs as [bs IH] using (well_founded_induction (well_founded_ltof _ length)).
  unfold ltof in IH. intros Hv.
  destruct bs as [|a bs1]; [done|]. simpl in Hv. destruct (Z.ltb_spec (u8 a) 128) as [Ha|Ha].
  { rewrite chars_count_lead by by apply is_cont_low.
    specialize (IH bs1 ltac:(simpl; lia) Hv). simpl. lia. }
  destruct bs1 as [|b bs2]; [done|]. destruct (within 194 223 (u8 a)) eqn:H2.
  { apply within_iff in H2. apply andb_true_iff in Hv as [_ Hv].
    rewrite chars_count_lead by (apply is_cont_high; lia).
    specialize (IH bs2 ltac:(simpl; lia) Hv). pose proof (Hstep [b] bs2). simpl in *. lia. }
  destruct bs2 as [|c bs3]; [done|]. destruct (utf8_lead3 (u8 a) (u8 b)) eqn:H3.
  { apply utf8_lead3_high in H3. apply andb_true_iff in Hv as [_ Hv].
    rewrite chars_count_lead by (apply is_cont_high; lia).
    specialize (IH bs3 ltac:(simpl; lia) Hv). pose proof (Hstep [b; c] bs3). simpl in *. lia. }
  destruct bs3 as [|d bs4]; [done|]. rewrite !andb_true_iff in Hv. destruct Hv as [[[H4 _] _] Hv].
  apply utf8_lead4_high in H4. rewrite chars_count_lead by (apply is_cont_high; lia).
  specialize (IH bs4 ltac:(simpl; lia) Hv). pose proof (Hstep [b; c; d] bs4). simpl in *. lia.
Qed.

Lemma chars_count_le bs : (chars_count bs ≤ length bs)%nat.
Proof.
  unfold chars_count. induction bs as [|b bs IH]; simpl; [done|]. destruct (negb (is_cont b)); simpl; lia.
Qed.

Definition ascii_bytes (bs : list byte) : Prop := Forall (λ b, u8 b < 128) bs.

Lemma utf8_valid_ascii bs : ascii_bytes bs → utf8_valid bs = true.
Proof.
  induction 1 as [|b bs Hb _ IH]; [done|]. simpl. by rewrite (proj2 (Z.ltb_lt _ _) Hb).
Qed.
