(* ===== verification/Buffer.v ===== *)
(** * Packet buffers: strings, identifiers, collections, block positions

    The variable-length part of [crates/minerider-protocol/src/buffer.rs]. *)

From S2P Require Import Prelude Machine Reader Varint Utf8.

Local Open Scope Z_scope.

Definition MAX_STRING_CHARS : Z := 32767.

(** ** Strings *)

Definition put_string (s : string) : Write :=
  let bytes := bytes_of s in
  if MAX_STRING_CHARS <? Z.of_nat (chars_count bytes) then raise InvalidString
  else
    modify (write_varint (swrap 32 (Z.of_nat (length bytes)))) ;;;
    modify (put_bytes bytes).

Definition read_string : Read string :=
  let* len := read_varint in
  if negb (within 0 (MAX_STRING_CHARS * 4) len) then raise InvalidString
  else
    let* bytes := read_bytes len in
    if negb (utf8_valid bytes) then raise InvalidUtf8
    else if MAX_STRING_CHARS <? Z.of_nat (chars_count bytes) then raise InvalidString
    else ret (of_bytes bytes).

(** ** Identifiers *)

(** [is_ascii_lowercase], [is_ascii_digit] and the extra characters. *)
Definition is_ident_byte (b : byte) : bool :=
  within 97 122 (u8 b) || within 48 57 (u8 b)
  || (u8 b =? 46) || (u8 b =? 95) || (u8 b =? 45).

Definition is_valid_namespace (s : list byte) : bool :=
  negb (bool_decide (s = [])) && forallb is_ident_byte s.

Definition is_valid_path (s : list byte) : bool :=
  negb (bool_decide (s = [])) && forallb (λ b, is_ident_byte b || (u8 b =? 47)) s.

Definition colon : byte := x3a.
Definition minecraft : list byte := bytes_of "minecraft".

(** [split_once(':')]. *)
Fixpoint split_once (s : list byte) : option (list byte * list byte) :=
  match s with
  | [] => None
  | b :: s =>
      if bool_decide (b = colon) then Some ([], s)
      else match split_once s with
           | Some (ns, path) => Some (b :: ns, path)
           | None => None
           end
  end.

Definition put_identifier (namespace path : string) : Write :=
  if negb (is_valid_namespace (bytes_of namespace)) then raise InvalidIdentifier
  else if negb (is_valid_path (bytes_of path)) then raise InvalidIdentifier
  else put_string (namespace ++ ":" ++ path)%string.

Definition read_identifier : Read string :=
  let* raw := read_string in
  let '(namespace, path) :=
    match split_once (bytes_of raw) with
    | Some (ns, path) => (ns, path)
    | None => (minecraft, bytes_of raw)
    end in
  if negb (is_valid_namespace namespace) then raise InvalidIdentifier
  else if negb (is_valid_path path) then raise InvalidIdentifier
  else ret (of_bytes (namespace ++ colon :: path)).

(** ** Byte arrays, arrays and options *)

Definition put_byte_array (data : list byte) (w : PacketWriter) : PacketWriter :=
  put_bytes data (write_varint (swrap 32 (Z.of_nat (length data))) w).

Definition read_byte_array : Read (list byte) :=
  let* len := read_varint in
  if len <? 0 then raise (NegativeLength len)
  else read_bytes len.

Definition put_array {T} (items : list T) (write : T → PacketWriter → PacketWriter)
    (w : PacketWriter) : PacketWriter :=
  fold_left (λ w item, write item w) items
    (write_varint (swrap 32 (Z.of_nat (length items))) w).

Definition read_array {T} (read : Read T) : Read (list T) :=
  let* len := read_varint in
  if len <? 0 then raise (NegativeLength len)
  else
    let* rem := gets remaining in
    if Z.of_nat rem <? len then raise (BufferUnderflow len (Z.of_nat rem))
    else repeat_m (Z.to_nat len) read.

Definition put_option {T} (value : option T) (write : T → PacketWriter → PacketWriter)
    (w : PacketWriter) : PacketWriter :=
  let w := put_bool (bool_decide (is_Some value)) w in
  match value with Some v => write v w | None => w end.

Definition read_option {T} (read : Read T) : Read (option T) :=
  let* present := get_bool in
  if present then (let* v := read in ret (Some v)) else ret None.

(** ** Block positions *)

Definition pack_position (x y z : Z) : Z :=
  Z.lor (Z.lor (swrap 64 (Z.shiftl (Z.land x 0x3FFFFFF) 38))
               (swrap 64 (Z.shiftl (Z.land z 0x3FFFFFF) 12)))
        (Z.land y 0xFFF).

Definition unpack_position (packed : Z) : Z * Z * Z :=
  let x := swrap 32 (Z.shiftr packed 38) in
  let y := swrap 32 (Z.shiftr (swrap 64 (Z.shiftl packed 52)) 52) in
  let z := swrap 32 (Z.shiftr (swrap 64 (Z.shiftl packed 26)) 38) in
  (x, y, z).

Definition put_position (x y z : Z) (w : PacketWriter) : PacketWriter :=
  put_i64 (pack_position x y z) w.

Definition read_position : Read (Z * Z * Z) :=
  let* packed := get_i64 in ret (unpack_position packed).

(** ** Lemmas *)

Lemma read_string_in_bounds : in_bounds read_string.
Proof. unfold read_string. mauto. Qed.
Lemma read_byte_array_in_bounds : in_bounds read_byte_array.
Proof. unfold read_byte_array. mauto. Qed.
Lemma read_position_in_bounds : in_bounds read_position.
Proof. unfold read_position. mauto. Qed.
#[export] Hint Resolve read_string_in_bounds read_byte_array_in_bounds
  read_position_in_bounds : preserves.
Lemma read_identifier_in_bounds : in_bounds read_identifier.
Proof. unfold read_identifier. mauto. Qed.
Lemma read_array_in_bounds {T} (read : Read T) : in_bounds read → in_bounds (read_array read).
Proof. intros Hr. unfold read_array. mauto. Qed.
Lemma read_option_in_bounds {T} (read : Read T) : in_bounds read → in_bounds (read_option read).
Proof. intros Hr. unfold read_option. mauto. Qed.
#[export] Hint Resolve read_identifier_in_bounds read_array_in_bounds
  read_option_in_bounds : preserves.

(** A length that fits in [i32] is written as itself. *)
Lemma len_i32 (n : nat) : Z.of_nat n ≤ i32_max → swrap 32 (Z.of_nat n) = Z.of_nat n ∧ in_i 32 (Z.of_nat n).
Proof.
  intros Hn. assert (in_i 32 (Z.of_nat n)) by (unfold in_i, i32_max in *; lia).
  split; [|done]. by apply swrap_small.
Qed.

(** Strings the protocol can carry. *)
Definition wire_string (s : string) : Prop :=
  utf8_ok s ∧ Z.of_nat (chars_count (bytes_of s)) ≤ MAX_STRING_CHARS.

#[export] Instance wire_string_dec s : Decision (wire_string s).
Proof. unfold wire_string. apply _. Defined.

Definition string_bytes (s : string) : list byte :=
  varint_bytes (Z.of_nat (length (bytes_of s))) ++ bytes_of s.

Lemma wire_string_len s :
  wire_string s → 0 ≤ Z.of_nat (length (bytes_of s)) ≤ MAX_STRING_CHARS * 4.
Proof. intros [Hu Hc]. apply utf8_length in Hu. lia. Qed.

Lemma writes_string s : wire_string s → writes (put_string s) (string_bytes s).
Proof.
  intros Hs. pose proof (wire_string_len s Hs) as Hlen. destruct Hs as [Hu Hc].
  unfold put_string. rewrite (proj2 (Z.ltb_ge _ _)) by lia.
  destruct (len_i32 (length (bytes_of s))) as [-> _].
  { unfold i32_max, MAX_STRING_CHARS in *. lia. }
  apply writes_bind; by apply writes_modify.
Qed.

Lemma reads_string s : wire_string s → reads read_string (string_bytes s) s.
Proof.
  intros Hs. pose proof (wire_string_len s Hs) as Hlen. destruct Hs as [Hu Hc].
  unfold read_string, string_bytes. eapply reads_bind.
  { apply reads_varint. unfold in_i, MAX_STRING_CHARS in *. lia. }
  rewrite (proj2 (within_iff _ _ _)) by lia. cbn [negb].
  rewrite <- (app_nil_r (bytes_of s)).
  eapply reads_bind; [rewrite app_nil_r; by apply reads_read_bytes|].
  unfold utf8_ok in Hu. rewrite Hu. cbn [negb]. rewrite (proj2 (Z.ltb_ge _ _)) by lia.
  rewrite of_bytes_bytes_of. apply reads_ret.
Qed.
#[export] Hint Resolve writes_string reads_string : wire.

(** What [read_string] returns is a protocol string. *)
Lemma read_string_wire r s r' : read_string r = (Ok s, r') → wire_string s.
Proof.
  unfold read_string. intros (len & r1 & _ & H)%bind_Ok_inv. case_match; [done|].
  apply bind_Ok_inv in H as (bs & r2 & _ & H).
  destruct (utf8_valid bs) eqn:Hu; simpl in H; [|done].
  destruct (Z.ltb_spec MAX_STRING_CHARS (Z.of_nat (chars_count bs))); [done|].
  unfold ret in H. simplify_eq.
  unfold wire_string, utf8_ok. rewrite bytes_of_of_bytes. split; [done|lia].
Qed.

(** *** Identifiers *)

Lemma split_once_spec s ns path :
  split_once s = Some (ns, path) → s = ns ++ colon :: path ∧ colon ∉ ns.
Proof.
  revert ns path. induction s as [|b s IH]; intros ns path; simpl; [done|].
  case_bool_decide as Hb; [intros; simplify_eq; split; [done|by apply not_elem_of_nil]|].
  destruct (split_once s) as [[ns' path']|]; [|done]. intros; simplify_eq.
  destruct (IH ns' path eq_refl) as [-> ?]. split; [done|]. by apply not_elem_of_cons.
Qed.

Lemma split_once_app ns path :
  colon ∉ ns → split_once (ns ++ colon :: path) = Some (ns, path).
Proof.
  induction ns as [|b ns IH]; intros Hns; simpl.
  - done.
  - apply not_elem_of_cons in Hns as [Hb Hns]. rewrite bool_decide_eq_false_2 by congruence.
    by rewrite IH.
Qed.

Lemma split_once_None s : split_once s = None → colon ∉ s.
Proof.
  induction s as [|b s IH]; simpl; [intros _; apply not_elem_of_nil|].
  case_bool_decide; [done|]. destruct (split_once s) as [[? ?]|]; [done|].
  intros _. apply not_elem_of_cons. split; [congruence|by apply IH].
Qed.

Lemma is_ident_byte_ascii b : is_ident_byte b = true → u8 b < 128 ∧ b ≠ colon.
Proof.
  unfold is_ident_byte. rewrite !orb_true_iff, !within_iff, !Z.eqb_eq.
  intros Hb. split; [lia|]. intros ->. change (u8 colon) with 58 in Hb. lia.
Qed.

Lemma is_valid_namespace_spec s :
  is_valid_namespace s = true → ascii_bytes s ∧ (colon ∉ s) ∧ s ≠ [].
Proof.
  unfold is_valid_namespace. rewrite andb_true_iff, negb_true_iff, bool_decide_eq_false, forallb_forall.
  intros [Hne Hall]. split_and!; [|intros Hin|done].
  - apply Forall_forall. intros b Hb. by apply is_ident_byte_ascii, Hall, list_elem_of_In.
  - apply list_elem_of_In, Hall, is_ident_byte_ascii in Hin as [_ ?]. done.
Qed.

Lemma is_valid_path_ascii s : is_valid_path s = true → ascii_bytes s.
Proof.
  unfold is_valid_path. rewrite andb_true_iff, forallb_forall. intros [_ Hall].
  apply Forall_forall. intros b Hb%list_elem_of_In%Hall.
  rewrite orb_true_iff, Z.eqb_eq in Hb. destruct Hb as [Hb|Hb]; [by apply is_ident_byte_ascii|lia].
Qed.

Definition identifier (ns path : string) : string := (ns ++ ":" ++ path)%string.

Lemma bytes_of_identifier ns path :
  bytes_of (identifier ns path) = bytes_of ns ++ colon :: bytes_of path.
Proof. unfold identifier. by rewrite !bytes_of_app. Qed.

Lemma identifier_wire ns path :
  is_valid_namespace (bytes_of ns) = true → is_valid_path (bytes_of path) = true →
  Z.of_nat (String.length (identifier ns path)) ≤ MAX_STRING_CHARS →
  wire_string (identifier ns path).
Proof.
  intros Hns Hpath Hlen. split.
  - unfold utf8_ok. apply utf8_valid_ascii. rewrite bytes_of_identifier.
    apply Forall_app; split; [by apply is_valid_namespace_spec|].
    constructor; [done|by apply is_valid_path_ascii].
  - pose proof (chars_count_le (bytes_of (identifier ns path))) as H.
    rewrite bytes_of_length in H. lia.
Qed.

Lemma reads_identifier ns path :
  is_valid_namespace (bytes_of ns) = true → is_valid_path (bytes_of path) = true →
  wire_string (identifier ns path) →
  reads read_identifier (string_bytes (identifier ns path)) (identifier ns path).
Proof.
  intros Hns Hpath Hwire. unfold read_identifier.
  rewrite <- (app_nil_r (string_bytes _)). eapply reads_bind; [by apply reads_string|].
  cbv beta. rewrite bytes_of_identifier, split_once_app by by apply is_valid_namespace_spec.
  rewrite Hns, Hpath. cbn [negb]. rewrite <- bytes_of_identifier, of_bytes_bytes_of. apply reads_ret.
Qed.

(** *** Collections *)

Section collections.
Context {T : Type} (enc : T → list byte) (read : Read T).

Lemma reads_repeat_m xs :
  Forall (λ x, reads read (enc x) x) xs →
  reads (repeat_m (length xs) read) (concat (map enc xs)) xs.
Proof.
  induction 1 as [|x xs Hx _ IH]; simpl; [apply reads_ret|].
  eapply reads_bind; [done|]. rewrite <- (app_nil_r (concat _)).
  eapply reads_bind; [done|]. apply reads_ret.
Qed.

Lemma concat_map_length xs :
  Forall (λ x, (1 ≤ length (enc x))%nat) xs → (length xs ≤ length (concat (map enc xs)))%nat.
Proof. induction 1; simpl; [done|]. rewrite length_app. lia. Qed.

(** Elements that cost at least a byte make a readable array. *)
Lemma reads_array xs :
  Z.of_nat (length xs) ≤ i32_max →
  Forall (λ x, reads read (enc x) x) xs → Forall (λ x, (1 ≤ length (enc x))%nat) xs →
  reads (read_array read) (varint_bytes (Z.of_nat (length xs)) ++ concat (map enc xs)) xs.
Proof.
  intros Hlen Hread Hcost r suf Hr. destruct (len_i32 _ Hlen) as [_ Hin].
  unfold read_array. rewrite <- app_assoc in Hr.
  rewrite (bind_Ok _ _ _ _ _ (reads_varint _ Hin r _ Hr)).
  rewrite (proj2 (Z.ltb_ge _ _)) by lia. unfold bind at 1, gets.
  assert (Hr' : rest (advance r (length (varint_bytes (Z.of_nat (length xs)))))
    = concat (map enc xs) ++ suf) by by rewrite rest_advance, Hr, drop_app_exact.
  rewrite (proj2 (Z.ltb_ge _ _)).
  2:{ pose proof (concat_map_length xs Hcost).
      rewrite <- length_rest, Hr', length_app. lia. }
  rewrite Nat2Z.id, (reads_repeat_m xs Hread _ suf Hr').
  by rewrite advance_advance, length_app.
Qed.

Lemma put_array_eq write xs w :
  (∀ x w, write x w = put_bytes (enc x) w) → Z.of_nat (length xs) ≤ i32_max →
  put_array xs write w = put_bytes (varint_bytes (Z.of_nat (length xs)) ++ concat (map enc xs)) w.
Proof.
  intros Hwrite Hlen. unfold put_array. destruct (len_i32 _ Hlen) as [-> _].
  rewrite <- put_bytes_app. unfold write_varint. generalize (put_bytes (varint_bytes (Z.of_nat (length xs))) w).
  clear Hlen. induction xs as [|x xs IH]; intros w'; simpl.
  - unfold put_bytes. destruct w'; simpl. by rewrite app_nil_r.
  - by rewrite Hwrite, IH, put_bytes_app.
Qed.

Lemma reads_option (o : option T) :
  (∀ x, o = Some x → reads read (enc x) x) →
  reads (read_option read)
    (be_bytes 1 (Z.b2z (bool_decide (is_Some o))) ++ from_option enc [] o) o.
Proof.
  intros Ho. unfold read_option. eapply reads_bind; [apply reads_get_bool|].
  destruct o as [x|]; simpl.
  - rewrite <- (app_nil_r (enc x)). eapply reads_bind; [by apply Ho|apply reads_ret].
  - apply reads_ret.
Qed.
End collections.

Lemma reads_byte_array data :
  Z.of_nat (length data) ≤ i32_max →
  reads read_byte_array (varint_bytes (Z.of_nat (length data)) ++ data) data.
Proof.
  intros Hlen. destruct (len_i32 _ Hlen) as [_ Hin]. unfold read_byte_array.
  eapply reads_bind; [by apply reads_varint|]. rewrite (proj2 (Z.ltb_ge _ _)) by lia.
  by apply reads_read_bytes.
Qed.

(** *** Positions *)

(** Shifting left and back at 64 bits keeps the low bits, sign-extended. *)
Lemma shl_shr_64 p k : 0 ≤ k < 64 → Z.shiftr (swrap 64 (Z.shiftl p k)) k = swrap (64 - k) p.
Proof.
  intros Hk. unfold swrap. rewrite Z.shiftl_mul_pow2, Z.shiftr_div_pow2 by lia.
  replace (64 - 1) with (63 - k + k) by lia.
  replace (2 ^ 64) with (2 ^ (64 - k) * 2 ^ k) by (rewrite <- Z.pow_add_r by lia; f_equal; lia).
  rewrite Z.pow_add_r by lia. pose proof (pow2_pos k ltac:(lia)). pose proof (pow2_pos (64 - k) ltac:(lia)).
  rewrite <- Z.mul_add_distr_r, Z.mul_mod_distr_r, <- Z.mul_sub_distr_r, Z.div_mul by lia.
  replace (64 - k - 1) with (63 - k) by lia. done.
Qed.

(** Low bits below a field do not reach it. *)
Lemma swrap_shift_low w k hi lo :
  0 < w → 0 ≤ k → 0 ≤ lo < 2 ^ k → swrap (w + k) (hi * 2 ^ k + lo) = swrap w hi * 2 ^ k + lo.
Proof.
  intros Hw Hk Hlo. unfold swrap. replace (w + k - 1) with (w - 1 + k) by lia.
  rewrite !Z.pow_add_r by lia.
  replace (hi * 2 ^ k + lo + 2 ^ (w - 1) * 2 ^ k) with ((hi + 2 ^ (w - 1)) * 2 ^ k + lo) by ring.
  pose proof (pow2_pos k Hk). pose proof (pow2_pos w ltac:(lia)).
  set (a := hi + 2 ^ (w - 1)).
  assert ((a * 2 ^ k + lo) `mod` (2 ^ w * 2 ^ k) = a `mod` 2 ^ w * 2 ^ k + lo) as ->; [|ring].
  symmetry. apply (Z.mod_unique_pos _ _ (a / 2 ^ w)).
  - pose proof (Z.mod_pos_bound a (2 ^ w) ltac:(lia)). nia.
  - pose proof (Z.div_mod a (2 ^ w) ltac:(lia)) as Ha. rewrite Ha at 1. ring.
Qed.

Lemma pack_position_eq x y z :
  pack_position x y z = swrap 26 x * 2 ^ 38 + (wrap 26 z * 2 ^ 12 + wrap 12 y).
Proof.
  unfold pack_position. change 0x3FFFFFF with (Z.ones 26). change 0xFFF with (Z.ones 12).
  rewrite (Z.land_ones x 26), (Z.land_ones z 26), (Z.land_ones y 12) by lia.
  fold (wrap 26 z) (wrap 12 y).
  pose proof (wrap_range 26 z ltac:(lia)) as [? ?]. pose proof (wrap_range 12 y ltac:(lia)) as [? ?].
  rewrite (swrap_small 64 (Z.shiftl (wrap 26 z) 12)).
  2:{ lia. } 2:{ rewrite Z.shiftl_mul_pow2 by lia. unfold in_i. lia. }
  assert (swrap 64 (Z.shiftl (x `mod` 2 ^ 26) 38) = Z.shiftl (swrap 26 x) 38) as ->.
  { rewrite !Z.shiftl_mul_pow2 by lia.
    pose proof (swrap_shift_low 26 38 (x `mod` 2 ^ 26) 0 ltac:(lia) ltac:(lia) ltac:(lia)) as H'.
    rewrite !Z.add_0_r in H'. change (26 + 38) with 64 in H'. rewrite H'. f_equal.
    apply swrap_mod. by rewrite Z.mod_mod by lia. }
  rewrite <- Z.lor_assoc, (Z.lor_comm (Z.shiftl (wrap 26 z) 12)), lor_shiftl_add by lia.
  rewrite Z.lor_comm, lor_shiftl_add by lia. lia.
Qed.

Lemma pack_position_range x y z : in_i 64 (pack_position x y z).
Proof.
  rewrite pack_position_eq. pose proof (swrap_range 26 x ltac:(lia)) as [? ?].
  pose proof (wrap_range 26 z ltac:(lia)) as [? ?]. pose proof (wrap_range 12 y ltac:(lia)) as [? ?].
  unfold in_i in *. simpl in *. lia.
Qed.

Lemma swrap_i32 w z : 0 < w ≤ 32 → swrap 32 (swrap w z) = swrap w z.
Proof.
  intros Hw. apply swrap_small; [lia|]. destruct (swrap_range w z ltac:(lia)).
  assert (2 ^ (w - 1) ≤ 2 ^ (32 - 1)) by (apply Z.pow_le_mono_r; lia). unfold in_i. lia.
Qed.

Lemma swrap_of_wrap w z : 0 < w → swrap w (wrap w z) = swrap w z.
Proof. intros. apply swrap_mod. unfold wrap. apply Z.mod_mod. pose proof (pow2_pos w). lia. Qed.

Lemma unpack_pack_position x y z :
  unpack_position (pack_position x y z) = (swrap 26 x, swrap 12 y, swrap 26 z).
Proof.
  unfold unpack_position. rewrite (shl_shr_64 _ 52) by lia.
  set (p := pack_position x y z).
  assert (Z.shiftr (swrap 64 (Z.shiftl p 26)) 38 = Z.shiftr (swrap 38 p) 12) as ->.
  { change 38 with (64 - 26) at 2. rewrite <- (shl_shr_64 p 26), Z.shiftr_shiftr by lia. done. }
  subst p. rewrite pack_position_eq.
  pose proof (wrap_range 26 z ltac:(lia)) as [? ?]. pose proof (wrap_range 12 y ltac:(lia)) as [? ?].
  change (64 - 52) with 12.
  assert (Z.shiftr (swrap 26 x * 2 ^ 38 + (wrap 26 z * 2 ^ 12 + wrap 12 y)) 38 = swrap 26 x) as ->.
  { rewrite Z.shiftr_div_pow2, Z.div_add_l by lia. rewrite Z.div_small; lia. }
  assert (swrap 12 (swrap 26 x * 2 ^ 38 + (wrap 26 z * 2 ^ 12 + wrap 12 y)) = swrap 12 y) as ->.
  { rewrite <- (swrap_of_wrap 12 y) by lia. apply swrap_mod.
    replace (swrap 26 x * 2 ^ 38 + (wrap 26 z * 2 ^ 12 + wrap 12 y))
      with (wrap 12 y + (swrap 26 x * 2 ^ 26 + wrap 26 z) * 2 ^ 12) by (simpl; ring).
    by rewrite Z.mod_add by lia. }
  assert (Z.shiftr (swrap 38 (swrap 26 x * 2 ^ 38 + (wrap 26 z * 2 ^ 12 + wrap 12 y))) 12
    = swrap 26 z) as ->.
  { rewrite (swrap_mod 38 _ (wrap 26 z * 2 ^ 12 + wrap 12 y)).
    2:{ by rewrite Z.add_comm, Z.mod_add by lia. }
    rewrite (swrap_shift_low 26 12) by lia.
    rewrite Z.shiftr_div_pow2, Z.div_add_l, Z.div_small, Z.add_0_r by lia.
    by apply swrap_of_wrap. }
  by rewrite !swrap_i32 by lia.
Qed.

Lemma reads_position x y z :
  reads read_position (be_bytes 8 (pack_position x y z)) (swrap 26 x, swrap 12 y, swrap 26 z).
Proof.
  unfold read_position. rewrite <- unpack_pack_position.
  apply (reads_bind_ret _ unpack_position), reads_get_i64, pack_position_range.
Qed.
#[export] Hint Resolve reads_position reads_byte_array : wire.

(** ** Properties *)

(** The position vector of the protocol documentation. *)
Example position_vector :
  pack_position 1835762 831 (-20882616) = 0x0700BCAC15B4833F
  ∧ unpack_position 0x0700BCAC15B4833F = (1835762, 831, -20882616).
Proof. vm_compute. auto. Qed.

(** A string of at most 32767 characters is written as its byte length
    and its bytes, and [read_string] reads exactly that back, whatever
    follows; a longer string is refused with [InvalidString] and nothing is
    written. *)
Theorem string_roundtrip (s : string) (w : PacketWriter) (suf : list byte) :
  utf8_ok s →
  if bool_decide (Z.of_nat (chars_count (bytes_of s)) ≤ MAX_STRING_CHARS) then
    ∃ bs, put_string s w = (Ok tt, put_bytes bs w)
      ∧ read_string (new_reader (bs ++ suf)) = (Ok s, mkReader (bs ++ suf) (length bs))
  else put_string s w = (Err InvalidString, w).
Proof.
  intros Hu. case_bool_decide as Hc.
  - exists (string_bytes s). split; [by apply writes_string|].
    by rewrite (reads_string s (conj Hu Hc) (new_reader (string_bytes s ++ suf)) suf).
  - unfold put_string. by rewrite (proj2 (Z.ltb_lt _ _)) by lia.
Qed.

Lemma string_roundtrip_witness :
  ∃ bs, put_string "hi" new_writer = (Ok tt, put_bytes bs new_writer)
    ∧ read_string (new_reader (bs ++ [])) = (Ok "hi"%string, mkReader (bs ++ []) (length bs)).
Proof. exact (string_roundtrip "hi" new_writer [] eq_refl). Defined.

(** A namespace and a path in the vanilla character sets are written as
    [namespace:path], and [read_identifier] returns that same string. *)
Theorem identifier_roundtrip (ns path : string) (w : PacketWriter) (suf : list byte) :
  is_valid_namespace (bytes_of ns) = true → is_valid_path (bytes_of path) = true →
  Z.of_nat (String.length (identifier ns path)) ≤ MAX_STRING_CHARS →
  ∃ bs, put_identifier ns path w = (Ok tt, put_bytes bs w)
    ∧ read_identifier (new_reader (bs ++ suf))
      = (Ok (identifier ns path), mkReader (bs ++ suf) (length bs)).
Proof.
  intros Hns Hpath Hlen. pose proof (identifier_wire _ _ Hns Hpath Hlen) as Hwire.
  exists (string_bytes (identifier ns path)). split.
  - unfold put_identifier. rewrite Hns, Hpath. cbn [negb]. by apply writes_string.
  - by rewrite (reads_identifier ns path Hns Hpath Hwire (new_reader (_ ++ suf)) suf).
Qed.

Lemma identifier_roundtrip_witness :
  ∃ bs, put_identifier "minecraft" "block/stone" new_writer = (Ok tt, put_bytes bs new_writer)
    ∧ read_identifier (new_reader (bs ++ []))
      = (Ok "minecraft:block/stone"%string, mkReader (bs ++ []) (length bs)).
Proof.
  apply (identifier_roundtrip "minecraft" "block/stone" new_writer []);
    [reflexivity|reflexivity|vm_compute; discriminate].
Defined.

(** Whatever the bytes, an identifier that [read_identifier] accepts is
    in normal form: a valid namespace, a colon, a valid path, with a missing
    namespace filled in as [minecraft]; splitting it at its first colon
    gives back exactly those two parts. *)
Theorem read_identifier_normal (r r' : PacketReader) (s : string) :
  read_identifier r = (Ok s, r') →
  ∃ ns path, bytes_of s = ns ++ colon :: path
    ∧ is_valid_namespace ns = true ∧ is_valid_path path = true
    ∧ split_once (bytes_of s) = Some (ns, path)
    ∧ (∃ raw r1, read_string r = (Ok raw, r1)
        ∧ (bytes_of raw = bytes_of s ∨ ((colon ∉ bytes_of raw) ∧ ns = minecraft ∧ path = bytes_of raw))).
Proof.
  unfold read_identifier. intros (raw & r1 & Hraw & H)%bind_Ok_inv.
  assert (∃ ns path, is_valid_namespace ns = true ∧ is_valid_path path = true
    ∧ s = of_bytes (ns ++ colon :: path)
    ∧ (bytes_of raw = ns ++ colon :: path
       ∨ ((colon ∉ bytes_of raw) ∧ ns = minecraft ∧ path = bytes_of raw)))
    as (ns & path & Hns & Hpath & -> & Hraw').
  { destruct (split_once (bytes_of raw)) as [[ns path]|] eqn:Hsplit; revert H;
      case_match eqn:Hns; [done| |done|]; (case_match eqn:Hpath; [done|]);
      apply negb_false_iff in Hns, Hpath; unfold ret; intros; simplify_eq.
    - exists ns, path. split_and!; [done..|left]. by apply split_once_spec.
    - exists minecraft, (bytes_of raw). split_and!; [done..|right]. by split; [apply split_once_None|]. }
  exists ns, path. rewrite bytes_of_of_bytes. split_and!; [done..| |by eauto].
  apply split_once_app. by apply is_valid_namespace_spec.
Qed.

Lemma read_identifier_normal_witness :
  ∃ ns path, bytes_of "minecraft:stone" = ns ++ colon :: path ∧ is_valid_namespace ns = true
    ∧ is_valid_path path = true ∧ split_once (bytes_of "minecraft:stone") = Some (ns, path)
    ∧ (∃ raw r1, read_string (new_reader (buf (put_string "stone" new_writer).2)) = (Ok raw, r1)
        ∧ (bytes_of raw = bytes_of "minecraft:stone"
           ∨ ((colon ∉ bytes_of raw) ∧ ns = minecraft ∧ path = bytes_of raw))).
Proof.
  apply (read_identifier_normal (new_reader (buf (put_string "stone" new_writer).2))
    (mkReader (buf (put_string "stone" new_writer).2) 6)).
  vm_compute. reflexivity.
Defined.

(** Packing a block position and unpacking it keeps the low 26, 12 and
    26 bits of the coordinates with their sign, for all [i32] coordinates;
    so every position inside the world's bounds comes back unchanged. *)
Theorem position_roundtrip (x y z : Z) (w : PacketWriter) (suf : list byte) :
  let bs := be_bytes 8 (pack_position x y z) in
  put_position x y z w = put_bytes bs w
  ∧ read_position (new_reader (bs ++ suf))
    = (Ok (swrap 26 x, swrap 12 y, swrap 26 z), mkReader (bs ++ suf) 8)
  ∧ (in_i 26 x → in_i 12 y → in_i 26 z → (swrap 26 x, swrap 12 y, swrap 26 z) = (x, y, z)).
Proof.
  cbv zeta. split_and!.
  - done.
  - pose proof (reads_position x y z (new_reader (be_bytes 8 (pack_position x y z) ++ suf)) suf eq_refl) as H.
    by rewrite be_bytes_length in H.
  - intros. by rewrite !swrap_small by (done || lia).
Qed.

(** Arrays written by [put_array] are read back by [read_array] as long
    as the count fits an [i32] and every element takes at least one byte on
    the wire (the reader refuses a count above the remaining bytes). *)
Theorem array_roundtrip {T} (enc : T → list byte) (write : T → PacketWriter → PacketWriter)
    (read : Read T) (xs : list T) (w : PacketWriter) (suf : list byte) :
  (∀ x w, write x w = put_bytes (enc x) w) →
  Forall (λ x, reads read (enc x) x ∧ (1 ≤ length (enc x))%nat) xs →
  Z.of_nat (length xs) ≤ i32_max →
  ∃ bs, put_array xs write w = put_bytes bs w
    ∧ read_array read (new_reader (bs ++ suf)) = (Ok xs, mkReader (bs ++ suf) (length bs)).
Proof.
  intros Hwrite [Hread Hcost]%Forall_and Hlen.
  exists (varint_bytes (Z.of_nat (length xs)) ++ concat (map enc xs)).
  split; [by apply put_array_eq|].
  by rewrite (reads_array enc read xs Hlen Hread Hcost (new_reader (_ ++ suf)) suf).
Qed.

Lemma array_roundtrip_witness :
  ∃ bs, put_array [1; -2; 3] put_i32 new_writer = put_bytes bs new_writer
    ∧ read_array get_i32 (new_reader (bs ++ [])) = (Ok [1; -2; 3], mkReader (bs ++ []) (length bs)).
Proof.
  apply (array_roundtrip (be_bytes 4) put_i32 get_i32 [1; -2; 3] new_writer []).
  - reflexivity.
  - repeat (constructor; [split; [apply reads_get_i32; unfold in_i; lia|vm_compute; lia]|]). constructor.
  - vm_compute. discriminate.
Defined.

(** No reader operation leaves the buffer: on success and on every
    error, the cursor has not moved back and stays inside the data. *)
Theorem reader_cursor_in_bounds (r : PacketReader) (n : Z) :
  cursor_le r (read_bytes n r).2 ∧ cursor_le r (read_varint r).2 ∧ cursor_le r (read_varlong r).2
  ∧ cursor_le r (read_string r).2 ∧ cursor_le r (read_identifier r).2
  ∧ cursor_le r (read_byte_array r).2 ∧ cursor_le r (read_position r).2
  ∧ cursor_le r (read_array get_i32 r).2 ∧ cursor_le r (read_array read_string r).2
  ∧ cursor_le r (read_option read_string r).2.
Proof.
  pose proof (read_option_in_bounds read_string).
  pose proof (read_array_in_bounds get_i32). pose proof (read_array_in_bounds read_string).
  split_and!; match goal with |- cursor_le r (?m r).2 => enough (in_bounds m) by done end;
    eauto with preserves.
Qed.
