(* ===== verification/Wire.v ===== *)
(** * The Encode/Decode traits and the registry holders

    [crates/minerider-protocol/src/traits.rs] and [holder.rs].  A type with
    [Encode] and [Decode] implementations is a [Codec]; [LawfulCodec] is the
    contract that every packet built from such types relies on, and the
    instances discharge it implementation by implementation. *)

From S2P Require Import Prelude Machine Reader Varint Utf8 Buffer.

Local Open Scope Z_scope.

(** ** The traits *)

Record Codec (T : Type) : Type := mkCodec {
  encode : T → Write;
  decode : Read T;
}.
Arguments encode {T} c v : rename.
Arguments decode {T} c : rename.

(** [impl_fixed!]. *)
Definition fixed_codec (get : Read Z) (put : Z → PacketWriter → PacketWriter) : Codec Z :=
  {| encode v := modify (put v); decode := get |}.

Definition wire_i8 : Codec Z := fixed_codec get_i8 put_i8.
Definition wire_u8 : Codec Z := fixed_codec get_u8 put_u8.
Definition wire_i16 : Codec Z := fixed_codec get_i16 put_i16.
Definition wire_u16 : Codec Z := fixed_codec get_u16 put_u16.
Definition wire_u32 : Codec Z := fixed_codec get_u32 put_u32.
Definition wire_u64 : Codec Z := fixed_codec get_u64 put_u64.
Definition wire_f32 : Codec Z := fixed_codec get_f32 put_f32.
Definition wire_f64 : Codec Z := fixed_codec get_f64 put_f64.
Definition wire_u128 : Codec Z := fixed_codec read_uuid put_uuid.
Definition wire_bool : Codec bool := {| encode v := modify (put_bool v); decode := get_bool |}.
Definition wire_unit : Codec unit := {| encode _ := ret tt; decode := ret tt |}.
Definition wire_String : Codec string := {| encode := put_string; decode := read_string |}.

Definition wire_Vec {T} (c : Codec T) : Codec (list T) := {|
  encode v := modify (write_varint (swrap 32 (Z.of_nat (length v)))) ;;; iter_m (encode c) v;
  decode := read_array (decode c);
|}.

Definition wire_Option {T} (c : Codec T) : Codec (option T) := {|
  encode o :=
    modify (put_bool (bool_decide (is_Some o))) ;;;
    match o with Some v => encode c v | None => ret tt end;
  decode := read_option (decode c);
|}.

(** [ensure_consumed]: no trailing bytes after a top-level packet. *)
Definition ensure_consumed (context : string) : Read unit := λ r,
  if is_empty r then (Ok tt, r)
  else (Err (TrailingBytes context (Z.of_nat (remaining r))), r).

(** ** Holders *)

Inductive Holder (T : Type) : Type :=
  | Reference (id : Z)
  | Inline (value : T).
Arguments Reference {T} id.
Arguments Inline {T} value.

(** [*id + 1] is [i32] arithmetic: it wraps at [i32::MAX] (a build with
    overflow checks panics there instead). *)
Definition wire_Holder {T} (c : Codec T) : Codec (Holder T) := {|
  encode h :=
    match h with
    | Reference id =>
        if id <? 0 then raise InvalidData else modify (write_varint (swrap 32 (id + 1)))
    | Inline value => modify (write_varint 0) ;;; encode c value
    end;
  decode :=
    let* n := read_varint in
    if n <? 0 then raise (NegativeLength n)
    else if n =? 0 then (let* v := decode c in ret (Inline v))
    else ret (Reference (n - 1));
|}.

Inductive HolderSet : Type :=
  | Tag (name : string)
  | Ids (ids : list Z).

Definition wire_HolderSet : Codec HolderSet := {|
  encode h :=
    match h with
    | Tag name => modify (write_varint 0) ;;; put_string name
    | Ids ids =>
        modify (write_varint (swrap 32 (swrap 32 (Z.of_nat (length ids)) + 1))) ;;;
        iter_m (λ id, modify (write_varint id)) ids
    end;
  decode :=
    let* n := read_varint in
    if n <? 0 then raise (NegativeLength n)
    else if n =? 0 then (let* name := read_string in ret (Tag name))
    else
      let count := n - 1 in
      let* rem := gets remaining in
      if Z.of_nat rem <? count then raise (BufferUnderflow count (Z.of_nat rem))
      else (let* ids := repeat_m (Z.to_nat count) read_varint in ret (Ids ids));
|}.

(** ** The contract *)

(** [LawfulCodec c dom enc]: on [dom] the encoder appends [enc v] and the
    decoder reads it back exactly. *)
Class LawfulCodec {T} (c : Codec T) (dom : T → Prop) (enc : T → list byte) : Prop := {
  codec_writes v : dom v → writes (encode c v) (enc v);
  codec_reads v : dom v → reads (decode c) (enc v) v;
}.

#[export] Hint Mode LawfulCodec + + - - : typeclass_instances.

(** Every value costs at least a byte: what makes it usable in an array. *)
Class CodecCost {T} (dom : T → Prop) (enc : T → list byte) : Prop :=
  codec_cost v : dom v → (1 ≤ length (enc v))%nat.

(** A decoder that never leaves the buffer, on any input. *)
Class SafeDecode {T} (c : Codec T) : Prop := safe_decode : in_bounds (decode c).
#[export] Hint Extern 0 (in_bounds (decode _)) => apply safe_decode : preserves.

Lemma fixed_lawful get put (n : nat) dom :
  (∀ v w, put v w = put_bytes (be_bytes n v) w) →
  (∀ v, dom v → reads get (be_bytes n v) v) →
  LawfulCodec (fixed_codec get put) dom (be_bytes n).
Proof. intros Hput Hget. split; [intros v _; by apply writes_modify|done]. Qed.

#[export] Instance lawful_i8 : LawfulCodec wire_i8 (in_i 8) (be_bytes 1).
Proof. apply fixed_lawful; [done|apply reads_get_i8]. Qed.
#[export] Instance lawful_u8 : LawfulCodec wire_u8 (in_u 8) (be_bytes 1).
Proof. apply fixed_lawful; [done|apply reads_get_u8]. Qed.
#[export] Instance lawful_i16 : LawfulCodec wire_i16 (in_i 16) (be_bytes 2).
Proof. apply fixed_lawful; [done|apply reads_get_i16]. Qed.
#[export] Instance lawful_u16 : LawfulCodec wire_u16 (in_u 16) (be_bytes 2).
Proof. apply fixed_lawful; [done|apply reads_get_u16]. Qed.
#[export] Instance lawful_u32 : LawfulCodec wire_u32 (in_u 32) (be_bytes 4).
Proof. apply fixed_lawful; [done|apply reads_get_u32]. Qed.
#[export] Instance lawful_u64 : LawfulCodec wire_u64 (in_u 64) (be_bytes 8).
Proof. apply fixed_lawful; [done|apply reads_get_u64]. Qed.
#[export] Instance lawful_f32 : LawfulCodec wire_f32 (in_u 32) (be_bytes 4).
Proof. apply fixed_lawful; [done|apply reads_get_f32]. Qed.
#[export] Instance lawful_f64 : LawfulCodec wire_f64 (in_u 64) (be_bytes 8).
Proof. apply fixed_lawful; [done|apply reads_get_f64]. Qed.
#[export] Instance lawful_u128 : LawfulCodec wire_u128 (in_u 128) (be_bytes 16).
Proof. apply fixed_lawful; [done|apply reads_read_uuid]. Qed.
#[export] Instance lawful_bool : LawfulCodec wire_bool (λ _, True) (λ b, be_bytes 1 (Z.b2z b)).
Proof. split; [intros v _; by apply writes_modify|intros v _; apply reads_get_bool]. Qed.
#[export] Instance lawful_unit : LawfulCodec wire_unit (λ _, True) (λ _, []).
Proof. split; [intros v _; apply writes_ret|intros [] _; apply reads_ret]. Qed.
#[export] Instance lawful_String : LawfulCodec wire_String wire_string string_bytes.
Proof. split; [apply writes_string|apply reads_string]. Qed.

#[export] Instance cost_be_bytes dom n : CodecCost dom (be_bytes (S n)).
Proof. intros v _. rewrite be_bytes_length. lia. Qed.
#[export] Instance cost_bool dom : CodecCost dom (λ b, be_bytes 1 (Z.b2z b)).
Proof. intros v _. rewrite be_bytes_length. lia. Qed.
Lemma varint_prefix_cost v bs : (1 ≤ length (varint_bytes v ++ bs))%nat.
Proof. rewrite length_app. pose proof (varint_bytes_length v). lia. Qed.
#[export] Instance cost_String dom : CodecCost dom string_bytes.
Proof. intros v _. unfold string_bytes. apply varint_prefix_cost. Qed.

#[export] Instance safe_i8 : SafeDecode wire_i8. Proof. apply get_i8_in_bounds. Qed.
#[export] Instance safe_u8 : SafeDecode wire_u8. Proof. apply get_u8_in_bounds. Qed.
#[export] Instance safe_u16 : SafeDecode wire_u16. Proof. apply get_u16_in_bounds. Qed.
#[export] Instance safe_bool : SafeDecode wire_bool. Proof. apply get_bool_in_bounds. Qed.
#[export] Instance safe_String : SafeDecode wire_String. Proof. apply read_string_in_bounds. Qed.
#[export] Instance safe_HolderSet : SafeDecode wire_HolderSet.
Proof. unfold SafeDecode. simpl. mauto. Qed.

(** ** Lawful combinators *)

Lemma writes_iter_m {T} (m : T → Write) (enc : T → list byte) xs :
  Forall (λ x, writes (m x) (enc x)) xs → writes (iter_m m xs) (concat (map enc xs)).
Proof.
  induction 1 as [|x xs Hx _ IH]; simpl; [apply writes_ret|]. by apply writes_bind.
Qed.

Section combinators.
Context {T : Type} (c : Codec T) (dom : T → Prop) (enc : T → list byte).
Context `{!LawfulCodec c dom enc}.

Definition vec_dom (xs : list T) : Prop := Z.of_nat (length xs) ≤ i32_max ∧ Forall dom xs.
Definition vec_bytes (xs : list T) : list byte :=
  varint_bytes (Z.of_nat (length xs)) ++ concat (map enc xs).
Definition option_dom (o : option T) : Prop := ∀ v, o = Some v → dom v.
Definition option_bytes (o : option T) : list byte :=
  be_bytes 1 (Z.b2z (bool_decide (is_Some o))) ++ from_option enc [] o.
Definition holder_dom (h : Holder T) : Prop :=
  match h with Reference id => 0 ≤ id < i32_max | Inline v => dom v end.
Definition holder_bytes (h : Holder T) : list byte :=
  match h with
  | Reference id => varint_bytes (id + 1)
  | Inline v => varint_bytes 0 ++ enc v
  end.

#[export] Instance lawful_Vec `{!CodecCost dom enc} :
  LawfulCodec (wire_Vec c) vec_dom vec_bytes.
Proof.
  split; intros xs [Hlen Hxs].
  - cbn [encode wire_Vec]. destruct (len_i32 _ Hlen) as [-> _]. apply writes_bind; [by apply writes_modify|].
    apply writes_iter_m. eapply Forall_impl; [exact Hxs|]. exact (codec_writes (c := c)).
  - unfold vec_bytes. cbn [decode wire_Vec]. apply reads_array; [exact Hlen|..]; (eapply Forall_impl; [exact Hxs|]).
    + exact (codec_reads (c := c)).
    + exact (codec_cost (dom := dom)).
Qed.

#[export] Instance lawful_Option : LawfulCodec (wire_Option c) option_dom option_bytes.
Proof.
  split; intros o Ho.
  - cbn [encode wire_Option]. apply writes_bind; [by apply writes_modify|].
    destruct o as [v|]; [|apply writes_ret]. exact (codec_writes (c := c) v (Ho v eq_refl)).
  - apply reads_option. intros v Hv. exact (codec_reads (c := c) v (Ho v Hv)).
Qed.

#[export] Instance lawful_Holder : LawfulCodec (wire_Holder c) holder_dom holder_bytes.
Proof.
  split; intros [id|v] Hd; cbn [encode decode wire_Holder holder_bytes holder_dom] in *.
  - rewrite (proj2 (Z.ltb_ge _ _)) by lia.
    rewrite swrap_small by (unfold in_i, i32_max in *; lia). by apply writes_modify.
  - apply writes_bind; [by apply writes_modify|exact (codec_writes (c := c) v Hd)].
  - rewrite <- (app_nil_r (varint_bytes _)). eapply reads_bind.
    { apply reads_varint. unfold in_i, i32_max in *. lia. }
    rewrite (proj2 (Z.ltb_ge _ _)), (proj2 (Z.eqb_neq _ _)) by lia.
    replace (id + 1 - 1) with id by lia. apply reads_ret.
  - eapply reads_bind; [apply reads_varint; unfold in_i; lia|]. simpl.
    rewrite <- (app_nil_r (enc v)). eapply reads_bind; [exact (codec_reads (c := c) v Hd)|apply reads_ret].
Qed.

#[export] Instance cost_Vec : CodecCost vec_dom vec_bytes.
Proof. intros xs _. unfold vec_bytes. apply varint_prefix_cost. Qed.
#[export] Instance cost_Option : CodecCost option_dom option_bytes.
Proof. intros o _. unfold option_bytes. rewrite length_app, be_bytes_length. lia. Qed.
#[export] Instance cost_Holder : CodecCost holder_dom holder_bytes.
Proof.
  intros [id|v] _; simpl; [|apply varint_prefix_cost].
  pose proof (varint_bytes_length (id + 1)). lia.
Qed.

#[export] Instance safe_Vec `{!SafeDecode c} : SafeDecode (wire_Vec c).
Proof. unfold SafeDecode. simpl. mauto. Qed.
#[export] Instance safe_Option `{!SafeDecode c} : SafeDecode (wire_Option c).
Proof. unfold SafeDecode. simpl. mauto. Qed.
#[export] Instance safe_Holder `{!SafeDecode c} : SafeDecode (wire_Holder c).
Proof. unfold SafeDecode. simpl. mauto. Qed.
End combinators.

Definition holder_set_dom (h : HolderSet) : Prop :=
  match h with
  | Tag name => wire_string name
  | Ids ids => Z.of_nat (length ids) < i32_max ∧ Forall (in_i 32) ids
  end.

Definition holder_set_bytes (h : HolderSet) : list byte :=
  match h with
  | Tag name => varint_bytes 0 ++ string_bytes name
  | Ids ids => varint_bytes (Z.of_nat (length ids) + 1) ++ concat (map varint_bytes ids)
  end.

Lemma reads_holder_ids ids :
  Z.of_nat (length ids) < i32_max → Forall (in_i 32) ids →
  reads (decode wire_HolderSet) (holder_set_bytes (Ids ids)) (Ids ids).
Proof.
  intros Hlen Hids r suf Hr. cbn [holder_set_bytes decode wire_HolderSet] in *.
  rewrite <- app_assoc in Hr. assert (in_i 32 (Z.of_nat (length ids) + 1)) as Hin
    by (unfold in_i, i32_max in *; lia).
  rewrite (bind_Ok _ _ _ _ _ (reads_varint _ Hin r _ Hr)).
  rewrite (proj2 (Z.ltb_ge _ _)), (proj2 (Z.eqb_neq _ _)), Z.add_simpl_r by lia.
  set (r1 := advance r _).
  assert (Hr1 : rest r1 = concat (map varint_bytes ids) ++ suf)
    by (unfold r1; by rewrite rest_advance, Hr, drop_app_exact).
  unfold bind at 1, gets. rewrite (proj2 (Z.ltb_ge _ _)).
  2:{ rewrite <- length_rest, Hr1, length_app.
      assert (length ids ≤ length (concat (map varint_bytes ids)))%nat; [|lia].
      apply concat_map_length, Forall_forall. intros v _. pose proof (varint_bytes_length v). lia. }
  rewrite Nat2Z.id.
  assert (reads (repeat_m (length ids) read_varint) (concat (map varint_bytes ids)) ids) as Hread.
  { apply reads_repeat_m. eapply Forall_impl; [exact Hids|]. apply reads_varint. }
  rewrite (bind_Ok _ _ _ _ _ (Hread r1 suf Hr1)).
  unfold ret, r1. by rewrite advance_advance, length_app.
Qed.

#[export] Instance lawful_HolderSet : LawfulCodec wire_HolderSet holder_set_dom holder_set_bytes.
Proof.
  split; intros [name|ids] Hd.
  - apply writes_bind; [by apply writes_modify|by apply writes_string].
  - destruct Hd as [Hlen Hids]. cbn [encode wire_HolderSet].
    destruct (len_i32 (length ids)) as [-> _]; [lia|].
    rewrite swrap_small by (unfold in_i, i32_max in *; lia).
    apply writes_bind; [by apply writes_modify|].
    apply writes_iter_m, Forall_forall. intros v _. by apply writes_modify.
  - cbn [decode wire_HolderSet holder_set_bytes].
    eapply reads_bind; [apply reads_varint; unfold in_i; lia|]. simpl.
    rewrite <- (app_nil_r (string_bytes name)).
    eapply reads_bind; [by apply reads_string|apply reads_ret].
  - by apply reads_holder_ids; destruct Hd.
Qed.

(** ** Properties *)

(** The contract of the traits, for every lawful codec: a value in its
    domain encodes, decodes back to itself consuming exactly the bytes that
    were written, and [ensure_consumed] then accepts the packet if and only
    if nothing follows. *)
Theorem codec_roundtrip {T} (c : Codec T) (dom : T → Prop) (enc : T → list byte)
    `{!LawfulCodec c dom enc} (v : T) (suf : list byte) (context : string) :
  dom v →
  encode c v new_writer = (Ok tt, mkWriter (enc v))
  ∧ decode c (new_reader (enc v ++ suf)) = (Ok v, mkReader (enc v ++ suf) (length (enc v)))
  ∧ (ensure_consumed context (mkReader (enc v ++ suf) (length (enc v)))).1
    = (if decide (suf = []) then Ok tt else Err (TrailingBytes context (Z.of_nat (length suf)))).
Proof.
  intros Hv. split_and!.
  - rewrite codec_writes by done. done.
  - by rewrite (codec_reads v Hv (new_reader (enc v ++ suf)) suf).
  - unfold ensure_consumed, is_empty, remaining; simpl. rewrite length_app.
    replace (length (enc v) + length suf - length (enc v))%nat with (length suf) by lia.
    destruct suf as [|b suf]; [by rewrite bool_decide_eq_true_2|].
    rewrite bool_decide_eq_false_2 by done. by rewrite decide_False.
Qed.

Lemma codec_roundtrip_witness :
  encode (wire_Vec (wire_Option (wire_Holder wire_u16))) [Some (Reference 41); None; Some (Inline 7)] new_writer
    = (Ok tt, mkWriter (vec_bytes (option_bytes (holder_bytes (be_bytes 2)))
        [Some (Reference 41); None; Some (Inline 7)])).
Proof.
  refine (proj1 (codec_roundtrip (wire_Vec (wire_Option (wire_Holder wire_u16)))
    (vec_dom (option_dom (holder_dom (in_u 16)))) (vec_bytes (option_bytes (holder_bytes (be_bytes 2))))
    [Some (Reference 41); None; Some (Inline 7)] [] "example" _)).
  split; [vm_compute; discriminate|].
  repeat constructor; intros v Hv; simplify_eq; simpl; unfold in_u, i32_max; lia.
Defined.

(** A registry set decodes back to itself, and both kinds of registry
    reference keep the reserved wire value 0 for the inline/tag form. *)
Theorem holder_roundtrip (h : HolderSet) (r : Holder string) (suf : list byte) :
  holder_set_dom h → holder_dom wire_string r →
  decode wire_HolderSet (new_reader (holder_set_bytes h ++ suf))
    = (Ok h, mkReader (holder_set_bytes h ++ suf) (length (holder_set_bytes h)))
  ∧ decode (wire_Holder wire_String) (new_reader (holder_bytes string_bytes r ++ suf))
    = (Ok r, mkReader (holder_bytes string_bytes r ++ suf) (length (holder_bytes string_bytes r)))
  ∧ ((∃ name, h = Tag name) ↔ fst (read_varint (new_reader (holder_set_bytes h ++ suf))) = Ok 0).
Proof.
  intros Hh Hr. split_and!.
  - by rewrite (codec_reads (c := wire_HolderSet) h Hh (new_reader (_ ++ suf)) suf).
  - by rewrite (codec_reads (c := wire_Holder wire_String) r Hr (new_reader (_ ++ suf)) suf).
  - destruct h as [name|ids]; cbn [holder_set_bytes].
    + rewrite (reads_varint 0 ltac:(unfold in_i; lia) _ (string_bytes name ++ suf)); [naive_solver|].
      unfold rest; simpl. by rewrite app_assoc.
    + destruct Hh as [Hlen _].
      rewrite (reads_varint (Z.of_nat (length ids) + 1) ltac:(unfold in_i, i32_max in *; lia) _
        (concat (map varint_bytes ids) ++ suf)).
      * simpl. split; [by intros [? ?]|intros Heq; injection Heq; lia].
      * unfold rest; simpl. by rewrite app_assoc.
Qed.

Lemma holder_roundtrip_witness :
  decode wire_HolderSet (new_reader (holder_set_bytes (Ids [1; 300; -5]) ++ []))
  = (Ok (Ids [1; 300; -5]), mkReader (holder_set_bytes (Ids [1; 300; -5]) ++ [])
      (length (holder_set_bytes (Ids [1; 300; -5])))).
Proof.
  refine (proj1 (holder_roundtrip (Ids [1; 300; -5]) (Reference 3) [] _ _)).
  - split; [vm_compute; reflexivity|]. repeat (constructor; [unfold in_i; lia|]). constructor.
  - simpl. unfold i32_max. lia.
Defined.

(** The unit type costs no byte, so a [Vec] of units does not decode:
    the reader's guard against impossible counts refuses it although the
    encoder accepts it. *)
Theorem vec_unit_not_decodable (n : nat) :
  (0 < n)%nat → Z.of_nat n ≤ i32_max →
  (encode (wire_Vec wire_unit) (replicate n tt) new_writer).1 = Ok tt
  ∧ (decode (wire_Vec wire_unit)
      (new_reader (buf (encode (wire_Vec wire_unit) (replicate n tt) new_writer).2))).1
    = Err (BufferUnderflow (Z.of_nat n) 0).
Proof.
  intros Hn Hmax. destruct (len_i32 n Hmax) as [Hwrap Hin].
  assert (Hw : writes (encode (wire_Vec wire_unit) (replicate n tt)) (varint_bytes (Z.of_nat n))).
  { cbn [encode wire_Vec]. rewrite length_replicate, Hwrap, <- (app_nil_r (varint_bytes _)).
    apply writes_bind; [by apply writes_modify|].
    assert ([] = concat (map (λ _, [] : list byte) (replicate n tt))) as Hc by by clear; induction n.
    rewrite Hc. apply writes_iter_m, Forall_forall. intros x _. apply writes_ret. }
  rewrite Hw. split; [done|]. cbn [buf put_bytes snd new_writer app decode wire_Vec]. unfold read_array.
  rewrite (bind_Ok _ _ _ _ _ (reads_varint _ Hin (new_reader (varint_bytes (Z.of_nat n))) [] ltac:(by rewrite app_nil_r))).
  rewrite (proj2 (Z.ltb_ge _ _)) by lia. unfold bind, gets.
  assert (remaining (advance (new_reader (varint_bytes (Z.of_nat n))) (length (varint_bytes (Z.of_nat n)))) = 0%nat) as ->.
  { unfold remaining; simpl. lia. }
  rewrite (proj2 (Z.ltb_lt _ _)) by lia. done.
Qed.

Lemma vec_unit_not_decodable_witness :
  (decode (wire_Vec wire_unit)
    (new_reader (buf (encode (wire_Vec wire_unit) (replicate 3 tt) new_writer).2))).1
  = Err (BufferUnderflow (Z.of_nat 3) 0).
Proof.
  refine (proj2 (vec_unit_not_decodable 3 _ _)); [lia|vm_compute; discriminate].
Defined.
