(* ===== verification/Nbt.v ===== *)
(** * Network NBT

    [crates/minerider-protocol/src/nbt.rs]: the recursive tag format of
    items, text components and chunk data, decoded under a depth cap, a node
    cap and a length check before every allocation. *)

From S2P Require Import Prelude Machine Reader Varint Utf8 Buffer Wire.

Local Open Scope Z_scope.

Definition MAX_NBT_DEPTH : Z := 64.
Definition MAX_NBT_NODES : Z := 1000000.

(** ** Values *)

#[local] Unset Elimination Schemes.
(** [enum Nbt]; a list carries its [NbtList] fields. *)
Inductive Nbt : Type :=
  | NbtByte (v : Z)
  | NbtShort (v : Z)
  | NbtInt (v : Z)
  | NbtLong (v : Z)
  | NbtFloat (bits : Z)
  | NbtDouble (bits : Z)
  | NbtByteArray (v : list byte)
  | NbtString (v : string)
  | NbtList (tag : Z) (items : list Nbt)
  | NbtCompound (entries : list (string * Nbt))
  | NbtIntArray (v : list Z)
  | NbtLongArray (v : list Z).
#[local] Set Elimination Schemes.

Definition TAG_END : Z := 0.
Definition TAG_BYTE : Z := 1.
Definition TAG_LONG_ARRAY : Z := 12.

Definition tag_id (v : Nbt) : Z :=
  match v with
  | NbtByte _ => 1
  | NbtShort _ => 2
  | NbtInt _ => 3
  | NbtLong _ => 4
  | NbtFloat _ => 5
  | NbtDouble _ => 6
  | NbtByteArray _ => 7
  | NbtString _ => 8
  | NbtList _ _ => 9
  | NbtCompound _ => 10
  | NbtIntArray _ => 11
  | NbtLongArray _ => 12
  end.

(** [NbtList::new]. *)
Definition NbtList_new (items : list Nbt) : result ProtocolError Nbt :=
  let tag := match items with i :: _ => tag_id i | [] => TAG_END end in
  if existsb (λ i, negb (tag_id i =? tag)) items then Err InvalidNbt
  else Ok (NbtList tag items).

(** [Nbt::get]: the first entry with the name. *)
Definition nbt_get (v : Nbt) (name : string) : option Nbt :=
  match v with
  | NbtCompound entries => snd <$> List.find (λ e, bool_decide (e.1 = name)) entries
  | _ => None
  end.

(** ** Decoding *)

Definition read_length (elem_size : Z) : Read Z :=
  let* len := get_i32 in
  if len <? 0 then raise InvalidNbt
  else
    let bytes := Z.min (len * elem_size) (2 ^ 64 - 1) in
    let* rem := gets remaining in
    if Z.of_nat rem <? bytes then raise (BufferUnderflow bytes (Z.of_nat rem))
    else ret len.

Definition read_nbt_string : Read string :=
  let* len := get_u16 in
  let* bytes := read_bytes len in
  if utf8_valid bytes then ret (of_bytes bytes) else raise InvalidUtf8.

(** [for _ in 0..count { items.push(read_payload(..)?) }], threading the
    node counter. *)
Fixpoint read_items (rec : Z → Read (Nbt * Z)) (n : nat) (nodes : Z) : Read (list Nbt * Z) :=
  match n with
  | O => ret ([], nodes)
  | S n =>
      let* (v, nodes) := rec nodes in
      let* (l, nodes) := read_items rec n nodes in
      ret (v :: l, nodes)
  end.

(** The entry loop of a compound.  A pass reads at least the tag byte, so
    one pass more than there are unread bytes is enough
    ([read_entries_fuel]). *)
Fixpoint read_entries (rec : Z → Z → Read (Nbt * Z)) (fuel : nat) (nodes : Z) :
    Read (list (string * Nbt) * Z) :=
  match fuel with
  | O => raise InvalidNbt
  | S fuel =>
      let* entry_tag := get_u8 in
      if entry_tag =? TAG_END then ret ([], nodes)
      else if negb (within TAG_BYTE TAG_LONG_ARRAY entry_tag) then raise InvalidNbt
      else
        let* name := read_nbt_string in
        let* (v, nodes) := rec entry_tag nodes in
        let* (l, nodes) := read_entries rec fuel nodes in
        ret ((name, v) :: l, nodes)
  end.

(** [Nbt::read_payload]; [nodes] is the counter behind [&mut usize] and is
    returned with the value.  The recursion stops at the depth cap, so fuel
    [66 - depth] is enough ([read_payload_fuel]). *)
Fixpoint read_payload (fuel : nat) (tag depth nodes : Z) : Read (Nbt * Z) :=
  match fuel with
  | O => raise InvalidNbt
  | S fuel =>
      let nodes := nodes + 1 in
      if MAX_NBT_NODES <? nodes then raise InvalidNbt
      else if MAX_NBT_DEPTH <? depth then raise InvalidNbt
      else match tag with
      | 1 => let* v := get_i8 in ret (NbtByte v, nodes)
      | 2 => let* v := get_i16 in ret (NbtShort v, nodes)
      | 3 => let* v := get_i32 in ret (NbtInt v, nodes)
      | 4 => let* v := get_i64 in ret (NbtLong v, nodes)
      | 5 => let* v := get_f32 in ret (NbtFloat v, nodes)
      | 6 => let* v := get_f64 in ret (NbtDouble v, nodes)
      | 7 =>
          let* len := read_length 1 in
          let* v := read_bytes len in
          ret (NbtByteArray v, nodes)
      | 8 => let* v := read_nbt_string in ret (NbtString v, nodes)
      | 9 =>
          let* elem_tag := get_u8 in
          let* count := get_i32 in
          if count <? 0 then raise InvalidNbt
          else if count =? 0 then ret (NbtList elem_tag [], nodes)
          else if negb (within TAG_BYTE TAG_LONG_ARRAY elem_tag) then raise InvalidNbt
          else
            let* rem := gets remaining in
            if Z.of_nat rem <? count then raise (BufferUnderflow count (Z.of_nat rem))
            else
              let* (items, nodes) :=
                read_items (read_payload fuel elem_tag (depth + 1)) (Z.to_nat count) nodes in
              ret (NbtList elem_tag items, nodes)
      | 10 =>
          let* rem := gets remaining in
          let* (entries, nodes) :=
            read_entries (λ tag, read_payload fuel tag (depth + 1)) (S rem) nodes in
          ret (NbtCompound entries, nodes)
      | 11 =>
          let* len := read_length 4 in
          let* v := repeat_m (Z.to_nat len) get_i32 in
          ret (NbtIntArray v, nodes)
      | 12 =>
          let* len := read_length 8 in
          let* v := repeat_m (Z.to_nat len) get_i64 in
          ret (NbtLongArray v, nodes)
      | _ => raise InvalidNbt
      end
  end.

Definition nbt_fuel : nat := 66.

Definition nbt_decode : Read Nbt :=
  let* tag := get_u8 in
  if tag =? TAG_END then raise InvalidNbt
  else (let* (v, _) := read_payload nbt_fuel tag 0 0 in ret v).

(** ** Encoding *)

Definition write_nbt_string (s : string) : Write :=
  if u16_max <? Z.of_nat (length (bytes_of s)) then raise InvalidNbt
  else
    modify (put_u16 (Z.of_nat (length (bytes_of s)))) ;;;
    modify (put_bytes (bytes_of s)).

Fixpoint write_payload (v : Nbt) : Write :=
  match v with
  | NbtByte v => modify (put_i8 v)
  | NbtShort v => modify (put_i16 v)
  | NbtInt v => modify (put_i32 v)
  | NbtLong v => modify (put_i64 v)
  | NbtFloat v => modify (put_f32 v)
  | NbtDouble v => modify (put_f64 v)
  | NbtByteArray v =>
      modify (put_i32 (swrap 32 (Z.of_nat (length v)))) ;;; modify (put_bytes v)
  | NbtString v => write_nbt_string v
  | NbtList tag items =>
      if existsb (λ i, negb (tag_id i =? tag)) items then raise InvalidNbt
      else
        modify (put_u8 tag) ;;;
        modify (put_i32 (swrap 32 (Z.of_nat (length items)))) ;;;
        iter_m write_payload items
  | NbtCompound entries =>
      iter_m (λ '(name, value),
        modify (put_u8 (tag_id value)) ;;;
        write_nbt_string name ;;;
        write_payload value) entries ;;;
      modify (put_u8 TAG_END)
  | NbtIntArray v =>
      modify (put_i32 (swrap 32 (Z.of_nat (length v)))) ;;; iter_m (λ x, modify (put_i32 x)) v
  | NbtLongArray v =>
      modify (put_i32 (swrap 32 (Z.of_nat (length v)))) ;;; iter_m (λ x, modify (put_i64 x)) v
  end.

Definition nbt_encode (v : Nbt) : Write := modify (put_u8 (tag_id v)) ;;; write_payload v.

(** [impl Encode/Decode for Nbt]. *)
Definition wire_Nbt : Codec Nbt := {| encode := nbt_encode; decode := nbt_decode |}.

Definition read_optional : Read (option Nbt) := λ r,
  match rest r with
  | b :: _ =>
      if u8 b =? TAG_END then (let* _ := get_u8 in ret None) r
      else (let* v := nbt_decode in ret (Some v)) r
  | [] => (let* v := nbt_decode in ret (Some v)) r
  end.

Definition write_optional (value : option Nbt) : Write :=
  match value with
  | None => modify (put_u8 TAG_END)
  | Some nbt => nbt_encode nbt
  end.

(** ** Measures and well-formedness *)

(** The Rust type invariant of an [Nbt] together with what the format can
    carry: integers in range, strings that fit their [u16] length,
    homogeneous lists, counts that fit an [i32]. *)
Definition nbt_name_ok (s : string) : bool :=
  utf8_valid (bytes_of s) && (Z.of_nat (length (bytes_of s)) <=? u16_max).

Fixpoint nbt_ok (v : Nbt) : bool :=
  match v with
  | NbtByte v => bool_decide (in_i 8 v)
  | NbtShort v => bool_decide (in_i 16 v)
  | NbtInt v => bool_decide (in_i 32 v)
  | NbtLong v => bool_decide (in_i 64 v)
  | NbtFloat v => bool_decide (in_u 32 v)
  | NbtDouble v => bool_decide (in_u 64 v)
  | NbtByteArray v => Z.of_nat (length v) <=? i32_max
  | NbtString v => nbt_name_ok v
  | NbtList tag items =>
      (Z.of_nat (length items) <=? i32_max) && bool_decide (in_u 8 tag)
      && forallb (λ i, (tag_id i =? tag) && nbt_ok i) items
  | NbtCompound entries => forallb (λ '(name, v), nbt_name_ok name && nbt_ok v) entries
  | NbtIntArray v =>
      (Z.of_nat (length v) <=? i32_max) && forallb (λ x, bool_decide (in_i 32 x)) v
  | NbtLongArray v =>
      (Z.of_nat (length v) <=? i32_max) && forallb (λ x, bool_decide (in_i 64 x)) v
  end.

(** Nesting depth, 0 for a value without children, and number of nodes. *)
Fixpoint nbt_depth (v : Nbt) : nat :=
  match v with
  | NbtList _ items => list_max (map (λ i, S (nbt_depth i)) items)
  | NbtCompound entries => list_max (map (λ '(_, v), S (nbt_depth v)) entries)
  | _ => 0
  end.

Fixpoint nbt_nodes (v : Nbt) : nat :=
  match v with
  | NbtList _ items => S (list_sum (map nbt_nodes items))
  | NbtCompound entries => S (list_sum (map (λ '(_, v), nbt_nodes v) entries))
  | _ => 1
  end.

(** Induction through the lists of children. *)
Section nbt_ind.
Context (P : Nbt → Prop).
Hypothesis Hleaf : ∀ v, (∀ t l, v ≠ NbtList t l) → (∀ l, v ≠ NbtCompound l) → P v.
Hypothesis Hlist : ∀ t items, Forall P items → P (NbtList t items).
Hypothesis Hcompound : ∀ entries, Forall (λ e, P e.2) entries → P (NbtCompound entries).

Fixpoint nbt_strong_ind (v : Nbt) : P v.
Proof.
  destruct v as [| | | | | | | |t items|entries| |]; try (apply Hleaf; congruence).
  - apply Hlist. induction items as [|i items IH]; constructor; [apply nbt_strong_ind|exact IH].
  - apply Hcompound. induction entries as [|e entries IH]; constructor; [apply nbt_strong_ind|exact IH].
Defined.
End nbt_ind.

(** ** Fuel *)

Section loops.
Context (rec : Z → Z → Read (Nbt * Z)).
Hypothesis Hrec : ∀ tag nodes, in_bounds (rec tag nodes).

Lemma read_nbt_string_in_bounds : in_bounds read_nbt_string.
Proof. unfold read_nbt_string. mauto. Qed.
#[local] Hint Resolve read_nbt_string_in_bounds : preserves.

Lemma read_items_in_bounds tag n nodes : in_bounds (read_items (rec tag) n nodes).
Proof. revert nodes. induction n as [|n IH]; intros nodes; simpl; mauto. Qed.

Lemma read_entries_in_bounds fuel nodes : in_bounds (read_entries rec fuel nodes).
Proof. revert nodes. induction fuel as [|n IH]; intros nodes; simpl; mauto. Qed.

Lemma cursor_le_remaining r r' : cursor_le r r' → (remaining r' ≤ remaining r)%nat.
Proof. intros (Hd & Hp & _). unfold remaining. rewrite Hd. lia. Qed.

(** The entry loop is independent of its fuel once there is one pass more
    than there are unread bytes. *)
Lemma read_entries_fuel k1 k2 nodes r :
  (remaining r < k1)%nat → (remaining r < k2)%nat →
  read_entries rec k1 nodes r = read_entries rec k2 nodes r.
Proof.
  revert k2 nodes r. induction k1 as [|k1 IH]; intros [|k2] nodes r H1 H2; [lia..|].
  cbn [read_entries]. unfold bind. destruct (get_u8 r) as [[tag|e] r1] eqn:Htag; [|done].
  assert (remaining r1 < remaining r)%nat as Hr1.
  { revert Htag. unfold get_u8, bind. rewrite read_bytes_eq.
    destruct (Z.ltb_spec (Z.of_nat (remaining r)) 1) as [|Hrem]; [done|].
    unfold ret. intros; simplify_eq. unfold remaining, advance in *; simpl in *. lia. }
  case_match; [done|]. case_match; [done|].
  pose proof (cursor_le_remaining _ _ (read_nbt_string_in_bounds r1)).
  destruct (read_nbt_string r1) as [[name|e] r2]; [|done]. simpl in *.
  pose proof (cursor_le_remaining _ _ (Hrec tag nodes r2)).
  destruct (rec tag nodes r2) as [[[v nodes']|e] r3]; [|done]. simpl in *.
  by rewrite (IH k2) by lia.
Qed.
End loops.

Lemma read_items_ext rec1 rec2 n nodes r :
  (∀ nodes r, rec1 nodes r = rec2 nodes r) → read_items rec1 n nodes r = read_items rec2 n nodes r.
Proof.
  intros Heq. revert nodes r. induction n as [|n IH]; intros nodes r; simpl; [done|].
  unfold bind. rewrite Heq. destruct (rec2 nodes r) as [[[v nodes']|e] r1]; [|done]. by rewrite IH.
Qed.

Lemma read_entries_ext rec1 rec2 n nodes r :
  (∀ tag nodes r, rec1 tag nodes r = rec2 tag nodes r) →
  read_entries rec1 n nodes r = read_entries rec2 n nodes r.
Proof.
  intros Heq. revert nodes r. induction n as [|n IH]; intros nodes r; simpl; [done|].
  unfold bind. destruct (get_u8 r) as [[tag|e] r1]; [|done].
  case_match; [done|]. case_match; [done|].
  destruct (read_nbt_string r1) as [[name|e] r2]; [|done].
  rewrite Heq. destruct (rec2 _ _ _) as [[[v nodes']|e] r3]; [|done]. by rewrite IH.
Qed.

Lemma bind_ext_r {A B} (m : Read A) (k1 k2 : A → Read B) r :
  (∀ a r, k1 a r = k2 a r) → bind m k1 r = bind m k2 r.
Proof. intros H. unfold bind. by destruct (m r) as [[a|e] r1]. Qed.

(** Past the depth cap nothing is read, so the fuel [66 - depth] is never
    exhausted. *)
Lemma read_payload_fuel f1 f2 tag depth nodes r :
  (1 ≤ f1)%nat → (1 ≤ f2)%nat → 66 ≤ Z.of_nat f1 + depth → 66 ≤ Z.of_nat f2 + depth →
  read_payload f1 tag depth nodes r = read_payload f2 tag depth nodes r.
Proof.
  revert f2 tag depth nodes r. induction f1 as [|f1 IH]; intros [|f2] tag depth nodes r H1 H2 Hf1 Hf2; [lia..|].
  cbn [read_payload]. case_match; [done|].
  destruct (Z.ltb_spec MAX_NBT_DEPTH depth) as [|Hd]; [done|]. unfold MAX_NBT_DEPTH in Hd.
  assert (Hrec : ∀ tag nodes r, read_payload f1 tag (depth + 1) nodes r
    = read_payload f2 tag (depth + 1) nodes r) by (intros; apply IH; lia).
  destruct tag as [|p|p]; [done| |done]. do 4 (try (destruct p as [p|p|]; try done)).
  - apply bind_ext_r. intros elem_tag r1. apply bind_ext_r. intros count r2.
    do 3 (case_match; [done|]). apply bind_ext_r. intros rem r3. case_match; [done|].
    unfold bind. by erewrite (read_items_ext _ (read_payload f2 elem_tag (depth + 1))) by apply Hrec.
  - apply bind_ext_r. intros rem r1. unfold bind.
    by erewrite (read_entries_ext _ (λ tag, read_payload f2 tag (depth + 1))) by (intros; apply Hrec).
Qed.

Lemma read_length_in_bounds n : in_bounds (read_length n).
Proof. unfold read_length. mauto. Qed.
#[export] Hint Resolve read_length_in_bounds read_nbt_string_in_bounds : preserves.

Lemma read_payload_in_bounds fuel tag depth nodes : in_bounds (read_payload fuel tag depth nodes).
Proof.
  revert tag depth nodes. induction fuel as [|fuel IH]; intros tag depth nodes; cbn [read_payload]; mauto.
  - apply read_items_in_bounds. intros; apply IH.
  - apply read_entries_in_bounds. intros; apply IH.
Qed.
#[export] Hint Resolve read_payload_in_bounds : preserves.

Lemma nbt_decode_in_bounds : in_bounds nbt_decode.
Proof. unfold nbt_decode. mauto. Qed.
#[export] Instance safe_Nbt : SafeDecode wire_Nbt. Proof. apply nbt_decode_in_bounds. Qed.

(** ** The bytes of a value *)

Definition nbt_string_bytes (s : string) : list byte :=
  be_bytes 2 (Z.of_nat (length (bytes_of s))) ++ bytes_of s.

Definition count_bytes {A} (l : list A) : list byte := be_bytes 4 (Z.of_nat (length l)).

Fixpoint payload (v : Nbt) : list byte :=
  match v with
  | NbtByte v => be_bytes 1 v
  | NbtShort v => be_bytes 2 v
  | NbtInt v => be_bytes 4 v
  | NbtLong v => be_bytes 8 v
  | NbtFloat v => be_bytes 4 v
  | NbtDouble v => be_bytes 8 v
  | NbtByteArray v => count_bytes v ++ v
  | NbtString v => nbt_string_bytes v
  | NbtList tag items => be_bytes 1 tag ++ count_bytes items ++ concat (map payload items)
  | NbtCompound entries =>
      concat (map (λ '(n, v), be_bytes 1 (tag_id v) ++ nbt_string_bytes n ++ payload v) entries)
      ++ be_bytes 1 TAG_END
  | NbtIntArray v => count_bytes v ++ concat (map (be_bytes 4) v)
  | NbtLongArray v => count_bytes v ++ concat (map (be_bytes 8) v)
  end.

Definition entry_bytes (e : string * Nbt) : list byte :=
  be_bytes 1 (tag_id e.2) ++ nbt_string_bytes e.1 ++ payload e.2.

Definition nbt_bytes (v : Nbt) : list byte := be_bytes 1 (tag_id v) ++ payload v.

(** What the caps admit. *)
Definition nbt_fits (v : Nbt) : Prop :=
  nbt_ok v = true ∧ Z.of_nat (nbt_depth v) ≤ MAX_NBT_DEPTH ∧ Z.of_nat (nbt_nodes v) ≤ MAX_NBT_NODES.

Definition entry_ok (e : string * Nbt) : Prop := nbt_name_ok e.1 = true ∧ nbt_ok e.2 = true.

(** Views of the measures that do not mention anonymous functions. *)
Lemma nbt_ok_list t l :
  nbt_ok (NbtList t l) = true ↔
  Z.of_nat (length l) ≤ i32_max ∧ in_u 8 t ∧ Forall (λ i, tag_id i = t ∧ nbt_ok i = true) l.
Proof.
  simpl. rewrite !andb_true_iff, Z.leb_le, bool_decide_eq_true, forallb_forall, List.Forall_forall.
  setoid_rewrite andb_true_iff. setoid_rewrite Z.eqb_eq. tauto.
Qed.

Lemma nbt_ok_compound l : nbt_ok (NbtCompound l) = true ↔ Forall entry_ok l.
Proof.
  simpl. rewrite forallb_forall, List.Forall_forall. unfold entry_ok.
  split; intros H [n v] Hin; specialize (H _ Hin); simpl in *; by apply andb_true_iff.
Qed.

Lemma nbt_ok_ints w (l : list Z) :
  ((Z.of_nat (length l) <=? i32_max) && forallb (λ x, bool_decide (in_i w x)) l) = true
  ↔ Z.of_nat (length l) ≤ i32_max ∧ Forall (in_i w) l.
Proof.
  rewrite andb_true_iff, Z.leb_le, forallb_forall, List.Forall_forall.
  by setoid_rewrite bool_decide_eq_true.
Qed.

Lemma payload_compound l : payload (NbtCompound l) = concat (map entry_bytes l) ++ be_bytes 1 TAG_END.
Proof. simpl. do 2 f_equal. apply map_ext. by intros []. Qed.

Lemma nbt_depth_compound l : nbt_depth (NbtCompound l) = list_max (map (λ e, S (nbt_depth e.2)) l).
Proof. simpl. f_equal. apply map_ext. by intros []. Qed.

Lemma nbt_nodes_compound l : nbt_nodes (NbtCompound l) = S (list_sum (map (λ e, nbt_nodes e.2) l)).
Proof. simpl. do 2 f_equal. apply map_ext. by intros []. Qed.

Lemma tag_id_range v : 1 ≤ tag_id v ≤ 12.
Proof. destruct v; simpl; lia. Qed.

Lemma tag_id_within v : within TAG_BYTE TAG_LONG_ARRAY (tag_id v) = true.
Proof. by destruct v. Qed.

Lemma payload_cost v : (1 ≤ length (payload v))%nat.
Proof.
  destruct v; cbn [payload]; unfold nbt_string_bytes, count_bytes;
    rewrite ?length_app, ?be_bytes_length; lia.
Qed.

Lemma entry_cost e : (1 ≤ length (entry_bytes e))%nat.
Proof. unfold entry_bytes. rewrite length_app, be_bytes_length. lia. Qed.

Lemma list_max_le_map {A} (f : A → nat) l n :
  (list_max (map f l) ≤ n)%nat ↔ Forall (λ x, f x ≤ n)%nat l.
Proof. rewrite list_max_le, List.Forall_map. done. Qed.

(** ** The encoder *)

Lemma writes_nbt_string s : nbt_name_ok s = true → writes (write_nbt_string s) (nbt_string_bytes s).
Proof.
  unfold nbt_name_ok. intros [_ Hl%Z.leb_le]%andb_true_iff. unfold write_nbt_string.
  rewrite (proj2 (Z.ltb_ge _ _)) by done. by apply writes_bind; apply writes_modify.
Qed.

Lemma writes_count {A} (l : list A) :
  Z.of_nat (length l) ≤ i32_max →
  writes (modify (put_i32 (swrap 32 (Z.of_nat (length l))))) (count_bytes l).
Proof. intros Hl. destruct (len_i32 _ Hl) as [-> _]. by apply writes_modify. Qed.

Lemma writes_ints (put : Z → PacketWriter → PacketWriter) n (l : list Z) :
  (∀ z w, put z w = put_bytes (be_bytes n z) w) →
  writes (iter_m (λ x, modify (put x)) l) (concat (map (be_bytes n) l)).
Proof. intros Hput. apply writes_iter_m, Forall_forall. intros z _. by apply writes_modify. Qed.

Lemma homogeneous_existsb t l :
  Forall (λ i, tag_id i = t ∧ nbt_ok i = true) l → existsb (λ i, negb (tag_id i =? t)) l = false.
Proof.
  induction 1 as [|i l [Ht _] _ IH]; simpl; [done|]. by rewrite Ht, Z.eqb_refl, IH.
Qed.

Lemma writes_payload v : nbt_ok v = true → writes (write_payload v) (payload v).
Proof.
  induction v as [v Hl Hc|t items IH|entries IH] using nbt_strong_ind.
  - destruct v; [..|by destruct (Hl _ _ eq_refl)|by destruct (Hc _ eq_refl)| |]; cbn [nbt_ok write_payload payload];
      [intros _; by apply writes_modify ..| | | |].
    + intros Hv%Z.leb_le. apply writes_bind; [by apply writes_count|by apply writes_modify].
    + apply writes_nbt_string.
    + intros [Hv _]%nbt_ok_ints. apply writes_bind; [by apply writes_count|by apply writes_ints].
    + intros [Hv _]%nbt_ok_ints. apply writes_bind; [by apply writes_count|by apply writes_ints].
  - intros (Hlen & Ht & Hok)%nbt_ok_list. cbn [write_payload payload].
    rewrite (homogeneous_existsb t items Hok).
    apply writes_bind; [by apply writes_modify|]. apply writes_bind; [by apply writes_count|].
    apply writes_iter_m. eapply Forall_impl; [apply Forall_and; exact (conj IH Hok)|].
    intros i [Hi [_ Hi']]. by apply Hi.
  - intros Hok%nbt_ok_compound. rewrite payload_compound. cbn [write_payload].
    apply writes_bind; [|by apply writes_modify]. apply writes_iter_m.
    eapply Forall_impl; [apply Forall_and; exact (conj IH Hok)|].
    intros [n v] [Hv [Hn Hok']]; simpl in *.
    apply writes_bind; [by apply writes_modify|]. apply writes_bind; [by apply writes_nbt_string|auto].
Qed.

(** ** The decoder accepts what the encoder writes *)

Lemma reads_nbt_string s : nbt_name_ok s = true → reads read_nbt_string (nbt_string_bytes s) s.
Proof.
  unfold nbt_name_ok. intros [Hu Hl%Z.leb_le]%andb_true_iff. unfold read_nbt_string, nbt_string_bytes.
  eapply reads_bind; [apply reads_get_u16; unfold in_u, u16_max in *; lia|].
  eapply reads_bind_nil; [by apply reads_read_bytes|].
  cbv beta. rewrite Hu, of_bytes_bytes_of. apply reads_ret.
Qed.

(** A length prefix followed by enough bytes. *)
Lemma reads_length {A B} (l : list A) k bs (body : Z → Read B) b :
  Z.of_nat (length l) ≤ i32_max → 0 ≤ k → Z.of_nat (length l) * k ≤ Z.of_nat (length bs) →
  reads (body (Z.of_nat (length l))) bs b →
  reads (let* len := read_length k in body len) (count_bytes l ++ bs) b.
Proof.
  intros Hl Hk Hbs Hbody r suf Hr. unfold read_length. rewrite bind_assoc.
  destruct (len_i32 _ Hl) as [_ Hin]. rewrite <- app_assoc in Hr.
  rewrite (bind_Ok _ _ _ _ _ (reads_get_i32 _ Hin r _ Hr)), (proj2 (Z.ltb_ge _ _)) by lia.
  change (be_bytes 4 (Z.of_nat (length l))) with (count_bytes l).
  assert (rest (advance r (length (count_bytes l))) = bs ++ suf) as Hr'
    by by rewrite rest_advance, Hr, drop_app_exact.
  unfold bind at 1 2, gets. rewrite (proj2 (Z.ltb_ge _ _)).
  - unfold ret. rewrite (Hbody _ suf Hr'), advance_advance, length_app. done.
  - rewrite <- length_rest, Hr', length_app. lia.
Qed.

Lemma concat_be_length n (l : list Z) : (length (concat (map (be_bytes n) l)) = length l * n)%nat.
Proof. induction l as [|z l IH]; simpl; [done|]. rewrite length_app, be_bytes_length, IH. lia. Qed.

Lemma reads_ints (get : Read Z) n w (l : list Z) :
  (∀ z, in_i w z → reads get (be_bytes n z) z) → Forall (in_i w) l →
  reads (repeat_m (length l) get) (concat (map (be_bytes n) l)) l.
Proof. intros Hget Hl. apply reads_repeat_m. by eapply Forall_impl. Qed.

Lemma list_sum_cons n l : list_sum (n :: l) = (n + list_sum l)%nat.
Proof. done. Qed.

Section accept.
Context (rec : Z → Z → Read (Nbt * Z)).

(** [rec] reads the payload of [v] whenever the node budget allows it. *)
Definition accepts (tag : Z) (v : Nbt) : Prop :=
  ∀ nodes, nodes + Z.of_nat (nbt_nodes v) ≤ MAX_NBT_NODES →
    reads (rec tag nodes) (payload v) (v, nodes + Z.of_nat (nbt_nodes v)).

Lemma reads_items tag items nodes :
  Forall (accepts tag) items →
  nodes + Z.of_nat (list_sum (map nbt_nodes items)) ≤ MAX_NBT_NODES →
  reads (read_items (rec tag) (length items) nodes) (concat (map payload items))
    (items, nodes + Z.of_nat (list_sum (map nbt_nodes items))).
Proof.
  intros H. revert nodes. induction H as [|v items Hv _ IH]; intros nodes Hn; cbn [read_items length map concat list_sum] in *.
  - simpl. rewrite Z.add_0_r. apply reads_ret.
  - simpl in *. eapply reads_bind; [apply Hv; lia|]. simpl.
    eapply reads_bind_nil; [apply IH; lia|]. simpl.
    replace (nodes + Z.of_nat (nbt_nodes v) + _) with (nodes + Z.of_nat (nbt_nodes v + list_sum (map nbt_nodes items))) by lia.
    apply reads_ret.
Qed.

Lemma reads_entries entries nodes fuel :
  (length entries < fuel)%nat →
  Forall (λ e, nbt_name_ok e.1 = true ∧ accepts (tag_id e.2) e.2) entries →
  nodes + Z.of_nat (list_sum (map (λ e, nbt_nodes e.2) entries)) ≤ MAX_NBT_NODES →
  reads (read_entries rec fuel nodes) (concat (map entry_bytes entries) ++ be_bytes 1 TAG_END)
    (entries, nodes + Z.of_nat (list_sum (map (λ e, nbt_nodes e.2) entries))).
Proof.
  intros Hfuel H. revert nodes fuel Hfuel.
  induction H as [|[n v] entries [Hname Hv] _ IH]; intros nodes [|fuel] Hfuel Hn; simpl in Hfuel; [lia| |lia|];
    cbn [read_entries map concat list_sum fst snd] in *.
  - simpl. rewrite Z.add_0_r. eapply reads_bind_nil; [apply reads_get_u8; by unfold in_u|]. apply reads_ret.
  - rewrite list_sum_cons in *. unfold entry_bytes at 1. cbn [fst snd]. rewrite <- !app_assoc. pose proof (tag_id_range v).
    eapply reads_bind; [apply reads_get_u8; unfold in_u; lia|]. cbv beta.
    rewrite (proj2 (Z.eqb_neq _ _)) by (unfold TAG_END; lia). rewrite tag_id_within. simpl negb. cbv iota.
    eapply reads_bind; [by apply reads_nbt_string|]. cbv beta.
    eapply reads_bind; [apply Hv; lia|]. cbv beta iota.
    eapply reads_bind_nil; [apply IH; lia|]. cbv beta iota.
    replace (nodes + Z.of_nat (nbt_nodes v) + _) with (nodes + Z.of_nat (nbt_nodes v + list_sum (map (λ e, nbt_nodes e.2) entries))) by lia.
    apply reads_ret.
Qed.
End accept.

(** What is left to show of a value that has children. *)
Definition readable (v : Nbt) : Prop :=
  ∀ fuel depth nodes, nbt_ok v = true → (nbt_depth v < fuel)%nat →
    depth + Z.of_nat (nbt_depth v) ≤ MAX_NBT_DEPTH →
    nodes + Z.of_nat (nbt_nodes v) ≤ MAX_NBT_NODES →
    reads (read_payload fuel (tag_id v) depth nodes) (payload v) (v, nodes + Z.of_nat (nbt_nodes v)).

Lemma readable_accepts v fuel depth :
  readable v → nbt_ok v = true → (nbt_depth v < fuel)%nat → depth + Z.of_nat (nbt_depth v) ≤ MAX_NBT_DEPTH →
  accepts (λ tag, read_payload fuel tag depth) (tag_id v) v.
Proof. intros H Hok Hf Hd nodes Hn. by apply H. Qed.

Lemma nbt_nodes_pos v : (1 ≤ nbt_nodes v)%nat.
Proof. destruct v; simpl; lia. Qed.

(** The two caps do not fire. *)
Lemma caps_pass {A} depth nodes (m : A) e :
  depth ≤ MAX_NBT_DEPTH → nodes + 1 ≤ MAX_NBT_NODES →
  (if MAX_NBT_NODES <? nodes + 1 then e else if MAX_NBT_DEPTH <? depth then e else m) = m.
Proof. intros Hd Hn. by rewrite !(proj2 (Z.ltb_ge _ _)). Qed.

Lemma readable_leaf v : (∀ t l, v ≠ NbtList t l) → (∀ l, v ≠ NbtCompound l) → readable v.
Proof.
  intros Hl Hc [|fuel] depth nodes Hok Hf Hd Hn; [lia|]. pose proof (nbt_nodes_pos v).
  cbn [read_payload]. rewrite caps_pass by lia.
  destruct v; [..|by destruct (Hl _ _ eq_refl)|by destruct (Hc _ eq_refl)| |];
    cbn [tag_id nbt_nodes payload nbt_ok] in *;
    try (apply bool_decide_eq_true in Hok; eapply reads_bind_nil; [eauto with wire|apply reads_ret]).
  - apply Z.leb_le in Hok. apply reads_length; [done|lia..|].
    eapply reads_bind_nil; [by apply reads_read_bytes|apply reads_ret].
  - eapply reads_bind_nil; [by apply reads_nbt_string|apply reads_ret].
  - apply nbt_ok_ints in Hok as [Hlen Hin]. apply reads_length; [done|lia| |].
    + rewrite (concat_be_length 4). lia.
    + rewrite Nat2Z.id. eapply reads_bind_nil; [by apply (reads_ints _ _ 32 _ reads_get_i32)|apply reads_ret].
  - apply nbt_ok_ints in Hok as [Hlen Hin]. apply reads_length; [done|lia| |].
    + rewrite (concat_be_length 8). lia.
    + rewrite Nat2Z.id. eapply reads_bind_nil; [by apply (reads_ints _ _ 64 _ reads_get_i64)|apply reads_ret].
Qed.

Lemma readable_list t items : Forall readable items → readable (NbtList t items).
Proof.
  intros IH [|fuel] depth nodes Hok Hf Hd Hn; [lia|]. cbn [read_payload]. pose proof (nbt_nodes_pos (NbtList t items)).
  rewrite caps_pass by lia. apply nbt_ok_list in Hok as (Hlen & Ht & Hok).
  destruct (len_i32 _ Hlen) as [_ Hin]. cbn [tag_id payload nbt_nodes nbt_depth] in *.
  eapply reads_bind; [by apply reads_get_u8|]. cbv beta.
  destruct (decide (items = [])) as [->|Hne].
  { eapply reads_bind; [by apply reads_get_i32|]. simpl. apply reads_ret. }
  eapply reads_bind; [by apply reads_get_i32|]. cbv beta.
  assert (0 < Z.of_nat (length items)) as Hpos by (destruct items; [done|simpl; lia]).
  rewrite (proj2 (Z.ltb_ge _ _)), (proj2 (Z.eqb_neq _ _)) by lia.
  assert (within TAG_BYTE TAG_LONG_ARRAY t = true) as ->.
  { destruct items as [|i items]; [done|]. apply Forall_cons in Hok as [[<- _] _]. apply tag_id_within. }
  cbn [negb]. cbv iota. intros r suf Hr. unfold bind at 1, gets.
  pose proof (concat_map_length payload items) as Hc.
  rewrite (proj2 (Z.ltb_ge _ _)).
  2:{ rewrite <- length_rest, Hr, length_app. apply inj_le, (Nat.le_trans _ _ _ (Hc ltac:(apply Forall_forall; intros; apply payload_cost))). lia. }
  revert r suf Hr. eapply reads_bind_nil.
  - rewrite Nat2Z.id. apply (reads_items (λ tag, read_payload fuel tag (depth + 1))); [|lia].
    assert (Forall (λ i, S (nbt_depth i) ≤ list_max (map (λ i, S (nbt_depth i)) items))%nat items) as Hdep
      by by apply list_max_le_map.
    eapply Forall_impl; [apply Forall_and; split; [exact IH|apply Forall_and; exact (conj Hok Hdep)]|].
    intros i (Hr & [<- Hi] & Hdi). apply readable_accepts; [done..|lia|lia].
  - cbv beta iota. replace (nodes + 1 + _) with (nodes + Z.of_nat (S (list_sum (map nbt_nodes items)))) by lia.
    apply reads_ret.
Qed.

Lemma readable_compound entries : Forall (λ e, readable e.2) entries → readable (NbtCompound entries).
Proof.
  intros IH [|fuel] depth nodes Hok Hf Hd Hn; [lia|]. cbn [read_payload].
  pose proof (nbt_nodes_pos (NbtCompound entries)).
  rewrite caps_pass by lia. apply nbt_ok_compound in Hok. cbn [tag_id].
  rewrite payload_compound. rewrite nbt_depth_compound in *. rewrite nbt_nodes_compound in *.
  intros r suf Hr. unfold bind at 1, gets.
  assert (length entries < S (remaining r))%nat as Hfuel.
  { rewrite <- length_rest, Hr, !length_app.
    pose proof (concat_map_length entry_bytes entries ltac:(apply Forall_forall; intros; apply entry_cost)). lia. }
  revert Hfuel. generalize (S (remaining r)) as k. intros k Hfuel. revert r suf Hr. eapply reads_bind_nil.
  - apply (reads_entries (λ tag, read_payload fuel tag (depth + 1))); [exact Hfuel| |lia].
    assert (Forall (λ e, S (nbt_depth e.2) ≤ list_max (map (λ e, S (nbt_depth e.2)) entries))%nat entries) as Hdep
      by by apply list_max_le_map.
    eapply Forall_impl; [apply Forall_and; split; [exact IH|apply Forall_and; exact (conj Hok Hdep)]|].
    intros e (Hr & [Hname Hi] & Hdi). split; [done|]. apply readable_accepts; [done..|lia|lia].
  - cbv beta iota. replace (nodes + 1 + _) with (nodes + Z.of_nat (S (list_sum (map (λ e, nbt_nodes e.2) entries)))) by lia.
    apply reads_ret.
Qed.

Lemma readable_all v : readable v.
Proof.
  induction v using nbt_strong_ind; [by apply readable_leaf|by apply readable_list|by apply readable_compound].
Qed.

Lemma reads_nbt v : nbt_fits v → reads nbt_decode (nbt_bytes v) v.
Proof.
  intros (Hok & Hd & Hn). unfold nbt_decode, nbt_bytes. pose proof (tag_id_range v).
  eapply reads_bind; [apply reads_get_u8; unfold in_u; lia|]. cbv beta.
  rewrite (proj2 (Z.eqb_neq _ _)) by (unfold TAG_END; lia). eapply reads_bind_nil.
  - apply readable_all; [done| |lia..]. unfold nbt_fuel, MAX_NBT_DEPTH in *. lia.
  - apply reads_ret.
Qed.

Lemma writes_nbt v : nbt_ok v = true → writes (nbt_encode v) (nbt_bytes v).
Proof. intros Hok. apply writes_bind; [by apply writes_modify|by apply writes_payload]. Qed.

#[export] Instance lawful_Nbt : LawfulCodec wire_Nbt nbt_fits nbt_bytes.
Proof. split; [intros v (Hok & _); by apply writes_nbt|apply reads_nbt]. Qed.

(** ** The decoder accepts nothing else *)

Lemma consumes_nbt_string :
  consumes read_nbt_string (λ s bs, nbt_name_ok s = true ∧ bs = nbt_string_bytes s).
Proof.
  unfold read_nbt_string. eapply consumes_bind; [apply consumes_get_u16|]. intros len bs [Hlen ->].
  eapply consumes_bind; [apply consumes_read_bytes|]. intros s bs [-> Hs]. unfold in_u in Hlen.
  destruct (utf8_valid bs) eqn:Hu; [|apply consumes_raise]. apply consumes_ret.
  unfold nbt_name_ok, nbt_string_bytes. rewrite bytes_of_of_bytes, Hu, Hs, app_nil_r, Z2Nat.id by lia.
  split; [|done]. apply Z.leb_le. unfold u16_max. lia.
Qed.

Lemma consumes_length k :
  consumes (read_length k) (λ n bs, 0 ≤ n ≤ i32_max ∧ bs = be_bytes 4 n).
Proof.
  unfold read_length. eapply consumes_bind; [apply consumes_get_i32|]. intros n bs [Hn ->].
  destruct (Z.ltb_spec n 0); [apply consumes_raise|]. apply consumes_gets. intros rem.
  case_match; [apply consumes_raise|]. apply consumes_ret. rewrite app_nil_r.
  split; [|done]. unfold in_i, i32_max in *. lia.
Qed.

Lemma count_bytes_of {A} (l : list A) n :
  0 ≤ n → length l = Z.to_nat n → be_bytes 4 n = count_bytes l.
Proof. intros Hn Hl. unfold count_bytes. by rewrite Hl, Z2Nat.id. Qed.

(** A payload decoded at [depth] with [nodes] nodes already counted. *)
Definition decoded (depth nodes : Z) (v : Nbt) (nodes' : Z) : Prop :=
  nbt_ok v = true ∧ depth + Z.of_nat (nbt_depth v) ≤ MAX_NBT_DEPTH
  ∧ nodes' = nodes + Z.of_nat (nbt_nodes v) ∧ nodes' ≤ MAX_NBT_NODES.

Section only.
Context (depth : Z) (rec : Z → Z → Read (Nbt * Z)).
Hypothesis Hrec : ∀ tag nodes, consumes (rec tag nodes)
  (λ p bs, tag_id p.1 = tag ∧ decoded depth nodes p.1 p.2 ∧ bs = payload p.1).

Definition fits_depth (v : Nbt) : Prop := depth + Z.of_nat (nbt_depth v) ≤ MAX_NBT_DEPTH.

Lemma consumes_items tag n nodes :
  nodes ≤ MAX_NBT_NODES →
  consumes (read_items (rec tag) n nodes) (λ p bs, length p.1 = n
    ∧ Forall (λ i, tag_id i = tag ∧ nbt_ok i = true) p.1 ∧ Forall fits_depth p.1
    ∧ p.2 = nodes + Z.of_nat (list_sum (map nbt_nodes p.1)) ∧ p.2 ≤ MAX_NBT_NODES
    ∧ bs = concat (map payload p.1)).
Proof.
  revert nodes. induction n as [|n IH]; intros nodes Hn; cbn [read_items].
  - apply consumes_ret. simpl. rewrite Z.add_0_r. repeat split; auto.
  - eapply consumes_bind; [apply Hrec|]. intros [v nodes1] bs (Ht & (Hok & Hd & Hn1 & Hmax) & ->); simpl in *.
    eapply consumes_bind; [by apply IH|]. intros [l nodes2] bs (Hl & Hf & Hfd & Hn2 & Hmax2 & ->); simpl in *.
    apply consumes_ret; simpl. rewrite app_nil_r. repeat split; auto; lia.
Qed.

Lemma consumes_entries fuel nodes :
  nodes ≤ MAX_NBT_NODES →
  consumes (read_entries rec fuel nodes) (λ p bs, Forall entry_ok p.1
    ∧ Forall (λ e, fits_depth e.2) p.1
    ∧ p.2 = nodes + Z.of_nat (list_sum (map (λ e, nbt_nodes e.2) p.1)) ∧ p.2 ≤ MAX_NBT_NODES
    ∧ bs = concat (map entry_bytes p.1) ++ be_bytes 1 TAG_END).
Proof.
  revert nodes. induction fuel as [|fuel IH]; intros nodes Hn; cbn [read_entries]; [apply consumes_raise|].
  eapply consumes_bind; [apply consumes_get_u8|]. intros tag bs [Htag ->].
  destruct (Z.eqb_spec tag TAG_END) as [->|_].
  { apply consumes_ret. cbn [fst snd map]. rewrite Z.add_0_r. repeat split; auto. }
  case_match; [apply consumes_raise|].
  eapply consumes_bind; [apply consumes_nbt_string|]. intros name bs [Hname ->].
  eapply consumes_bind; [apply Hrec|]. intros [v nodes1] bs (Ht & (Hok & Hd & Hn1 & Hmax) & ->); cbn [fst snd] in *.
  eapply consumes_bind; [by apply IH|]. intros [l nodes2] bs (Hf & Hfd & Hn2 & Hmax2 & ->); cbn [fst snd] in *.
  apply consumes_ret. cbn [fst snd map concat]. rewrite list_sum_cons.
  split; [by constructor|]. split; [by constructor|]. split; [cbn [snd]; lia|]. split; [done|].
  rewrite app_nil_r, <- Ht. unfold entry_bytes at 2. cbn [fst snd]. by rewrite <- !app_assoc.
Qed.
End only.

Lemma list_max_fits {A} (f : A → Nbt) depth l :
  0 ≤ depth ≤ MAX_NBT_DEPTH → Forall (λ x, fits_depth (depth + 1) (f x)) l →
  depth + Z.of_nat (list_max (map (λ x, S (nbt_depth (f x))) l)) ≤ MAX_NBT_DEPTH.
Proof.
  intros Hd Hf. assert (list_max (map (λ x, S (nbt_depth (f x))) l) ≤ Z.to_nat (MAX_NBT_DEPTH - depth))%nat; [|lia].
  apply list_max_le_map. eapply Forall_impl; [exact Hf|]. unfold fits_depth. intros x Hx. lia.
Qed.

(** A leaf read by a fixed-width getter. *)
Lemma consumes_fixed_leaf (get : Read Z) (P : Z → Prop) n (mk : Z → Nbt) tag depth nodes :
  consumes get (λ z bs, P z ∧ bs = be_bytes n z) →
  (∀ z, P z → nbt_ok (mk z) = true) → (∀ z, tag_id (mk z) = tag ∧ payload (mk z) = be_bytes n z
    ∧ nbt_depth (mk z) = O ∧ nbt_nodes (mk z) = 1%nat) →
  depth ≤ MAX_NBT_DEPTH → nodes + 1 ≤ MAX_NBT_NODES →
  consumes (let* v := get in ret (mk v, nodes + 1))
    (λ p bs, tag_id p.1 = tag ∧ decoded depth nodes p.1 p.2 ∧ bs = payload p.1).
Proof.
  intros Hget Hok Hmk Hd Hn. eapply consumes_bind; [exact Hget|]. intros z bs [Hz ->]. apply consumes_ret.
  destruct (Hmk z) as (Ht & Hp & Hdep & Hno). cbn [fst snd]. unfold decoded.
  rewrite app_nil_r, Ht, Hp, Hdep, Hno. split; [done|]. split; [|done]. split; [by apply Hok|]. lia.
Qed.

(** The three array tags. *)
Lemma consumes_array_leaf {A} k (body : Z → Read (list A)) (enc : list A → list byte)
    (P : list A → Prop) (mk : list A → Nbt) tag depth nodes :
  (∀ n, consumes (body n) (λ l bs, length l = Z.to_nat n ∧ P l ∧ bs = enc l)) →
  (∀ l, Z.of_nat (length l) ≤ i32_max → P l → nbt_ok (mk l) = true) →
  (∀ l, tag_id (mk l) = tag ∧ payload (mk l) = count_bytes l ++ enc l
    ∧ nbt_depth (mk l) = O ∧ nbt_nodes (mk l) = 1%nat) →
  depth ≤ MAX_NBT_DEPTH → nodes + 1 ≤ MAX_NBT_NODES →
  consumes (let* len := read_length k in let* v := body len in ret (mk v, nodes + 1))
    (λ p bs, tag_id p.1 = tag ∧ decoded depth nodes p.1 p.2 ∧ bs = payload p.1).
Proof.
  intros Hbody Hok Hmk Hd Hn. eapply consumes_bind; [apply consumes_length|]. intros n bs [Hlen ->].
  eapply consumes_bind; [apply Hbody|]. intros l bs (Hl & HP & ->). apply consumes_ret.
  destruct (Hmk l) as (Ht & Hp & Hdep & Hno). cbn [fst snd]. unfold decoded.
  rewrite app_nil_r, Ht, Hp, Hdep, Hno, (count_bytes_of l n) by (done || lia).
  split; [done|]. split; [|done]. split; [apply Hok; [lia|done]|]. lia.
Qed.

(** The two tags with children, read by [rec] one level deeper. *)
Section children.
Context (depth nodes : Z) (rec : Z → Z → Read (Nbt * Z)).
Hypothesis Hrec : ∀ tag nodes, consumes (rec tag nodes)
  (λ p bs, tag_id p.1 = tag ∧ decoded (depth + 1) nodes p.1 p.2 ∧ bs = payload p.1).
Hypothesis Hdepth : 0 ≤ depth ≤ MAX_NBT_DEPTH.
Hypothesis Hnodes : nodes + 1 ≤ MAX_NBT_NODES.

Lemma consumes_list :
  consumes
    (let* elem_tag := get_u8 in
     let* count := get_i32 in
     if count <? 0 then raise InvalidNbt
     else if count =? 0 then ret (NbtList elem_tag [], nodes + 1)
     else if negb (within TAG_BYTE TAG_LONG_ARRAY elem_tag) then raise InvalidNbt
     else
       let* rem := gets remaining in
       if Z.of_nat rem <? count then raise (BufferUnderflow count (Z.of_nat rem))
       else
         let* (items, nodes) := read_items (rec elem_tag) (Z.to_nat count) (nodes + 1) in
         ret (NbtList elem_tag items, nodes))
    (λ p bs, tag_id p.1 = 9 ∧ decoded depth nodes p.1 p.2 ∧ bs = payload p.1).
Proof.
  eapply consumes_bind; [apply consumes_get_u8|]. intros t bs [Ht ->].
  eapply consumes_bind; [apply consumes_get_i32|]. intros n bs [Hin ->].
  destruct (Z.ltb_spec n 0); [apply consumes_raise|]. destruct (Z.eqb_spec n 0) as [->|Hn0].
  { apply consumes_ret. split; [done|]. split; [|done]. unfold decoded; cbn [fst snd]. rewrite nbt_ok_list.
    split; [split; [done|by split]|]. cbn. lia. }
  case_match; [apply consumes_raise|]. apply consumes_gets. intros rem. case_match; [apply consumes_raise|].
  eapply consumes_bind; [by apply (consumes_items (depth + 1))|].
  intros [l nodes'] bs (Hl & Hf & Hfd & Hno & Hmax & ->). cbn [fst snd] in *. apply consumes_ret.
  cbn [fst snd tag_id payload]. rewrite app_nil_r, (count_bytes_of l n) by (done || lia).
  split; [done|]. split; [|done]. unfold decoded. rewrite nbt_ok_list. cbn [nbt_depth nbt_nodes].
  split; [split; [unfold in_i, i32_max in *; lia|done]|]. split; [by apply (list_max_fits (λ i, i))|]. lia.
Qed.

Lemma consumes_compound :
  consumes
    (let* rem := gets remaining in
     let* (entries, nodes) := read_entries rec (S rem) (nodes + 1) in
     ret (NbtCompound entries, nodes))
    (λ p bs, tag_id p.1 = 10 ∧ decoded depth nodes p.1 p.2 ∧ bs = payload p.1).
Proof.
  apply consumes_gets. intros rem. eapply consumes_bind; [by apply (consumes_entries (depth + 1))|].
  intros [l nodes'] bs (Hf & Hfd & Hno & Hmax & ->). cbn [fst snd] in *. apply consumes_ret.
  cbn [fst snd]. rewrite app_nil_r, payload_compound. split; [done|]. split; [|done].
  unfold decoded. rewrite nbt_ok_compound, nbt_depth_compound, nbt_nodes_compound.
  split; [done|]. split; [by apply (list_max_fits snd)|]. lia.
Qed.
End children.

Lemma consumes_payload fuel tag depth nodes :
  0 ≤ depth →
  consumes (read_payload fuel tag depth nodes)
    (λ p bs, tag_id p.1 = tag ∧ decoded depth nodes p.1 p.2 ∧ bs = payload p.1).
Proof.
  revert tag depth nodes. induction fuel as [|fuel IH]; intros tag depth nodes H0; cbn [read_payload]; [apply consumes_raise|].
  destruct (Z.ltb_spec MAX_NBT_NODES (nodes + 1)) as [|Hn]; [apply consumes_raise|].
  destruct (Z.ltb_spec MAX_NBT_DEPTH depth) as [|Hd]; [apply consumes_raise|].
  destruct tag as [|p|p]; [apply consumes_raise| |apply consumes_raise].
  do 4 (try (destruct p as [p|p|]; try apply consumes_raise)).
  - (* 11 *) apply (consumes_array_leaf _ (λ n, repeat_m (Z.to_nat n) get_i32) (λ l, concat (map (be_bytes 4) l)) (Forall (in_i 32))); [|intros; by apply nbt_ok_ints|done|done|done].
    intros n. apply consumes_repeat_m, consumes_get_i32.
  - (* 7 *) apply (consumes_array_leaf _ read_bytes (λ l, l) (λ _, True)); [|intros; by apply Z.leb_le|done|done|done].
    intros n. eapply consumes_impl; [apply consumes_read_bytes|]. by intros l bs [-> ?].
  - (* 9 *) apply consumes_list; [intros; apply IH; lia|lia|done].
  - (* 5 *) apply (consumes_fixed_leaf get_f32 (in_u 32) 4 NbtFloat); [apply consumes_get_f32|intros; by apply bool_decide_eq_true|done..].
  - (* 3 *) apply (consumes_fixed_leaf get_i32 (in_i 32) 4 NbtInt); [apply consumes_get_i32|intros; by apply bool_decide_eq_true|done..].
  - (* 10 *) apply consumes_compound; [intros; apply IH; lia|lia|done].
  - (* 6 *) apply (consumes_fixed_leaf get_f64 (in_u 64) 8 NbtDouble); [apply consumes_get_f64|intros; by apply bool_decide_eq_true|done..].
  - (* 12 *) apply (consumes_array_leaf _ (λ n, repeat_m (Z.to_nat n) get_i64) (λ l, concat (map (be_bytes 8) l)) (Forall (in_i 64))); [|intros; by apply nbt_ok_ints|done|done|done].
    intros n. apply consumes_repeat_m, consumes_get_i64.
  - (* 8 *) eapply consumes_bind; [apply consumes_nbt_string|]. intros s bs [Hs ->]. apply consumes_ret.
    rewrite app_nil_r. split; [done|]. split; [|done]. repeat split; [done|cbn; lia..].
  - (* 4 *) apply (consumes_fixed_leaf get_i64 (in_i 64) 8 NbtLong); [apply consumes_get_i64|intros; by apply bool_decide_eq_true|done..].
  - (* 2 *) apply (consumes_fixed_leaf get_i16 (in_i 16) 2 NbtShort); [apply consumes_get_i16|intros; by apply bool_decide_eq_true|done..].
  - (* 1 *) apply (consumes_fixed_leaf get_i8 (in_i 8) 1 NbtByte); [apply consumes_get_i8|intros; by apply bool_decide_eq_true|done..].
Qed.

Lemma consumes_nbt : consumes nbt_decode (λ v bs, nbt_fits v ∧ bs = nbt_bytes v).
Proof.
  unfold nbt_decode. eapply consumes_bind; [apply consumes_get_u8|]. intros tag bs [Ht ->].
  case_match; [apply consumes_raise|]. eapply consumes_bind; [by apply consumes_payload|].
  intros [v nodes] bs (<- & (Hok & Hd & -> & Hn) & ->); cbn [fst snd] in *.
  apply consumes_ret. rewrite app_nil_r. split; [|done]. by repeat split.
Qed.

(** ** Properties *)

(** C15. [Nbt::decode] is the exact inverse of [Nbt::encode]: it succeeds with
    [v] and the cursor at [r'] precisely when [v] is a well-formed value
    within the depth and node caps, the unread bytes start with the encoding
    of [v], and the cursor moved over exactly that encoding.  Every other
    input is an error, so no reply of a server makes the decoder build a
    value deeper than 64 or larger than a million nodes. *)
Theorem nbt_decode_exact (r r' : PacketReader) (v : Nbt) :
  nbt_decode r = (Ok v, r') ↔
  nbt_fits v ∧ ∃ suf, rest r = nbt_bytes v ++ suf ∧ r' = advance r (length (nbt_bytes v)).
Proof.
  split.
  - intros (bs & suf & Hr & -> & Hfits & ->)%consumes_nbt. eauto.
  - intros (Hfits & suf & Hr & ->). by apply (reads_nbt v Hfits r suf).
Qed.

(** Encoding an optional compound and decoding it gives it back, with the
    bytes that follow left unread, for every value [encode] accepts within
    the caps; the lone [TAG_End] stands for the absent value. *)
Theorem nbt_optional_roundtrip (o : option Nbt) (suf : list byte) :
  (∀ v, o = Some v → nbt_fits v) →
  (write_optional o new_writer).1 = Ok tt
  ∧ let bs := buf (write_optional o new_writer).2 in
    read_optional (new_reader (bs ++ suf)) = (Ok o, mkReader (bs ++ suf) (length bs)).
Proof.
  intros Ho. destruct o as [v|]; cbn [write_optional].
  - specialize (Ho v eq_refl). rewrite (writes_nbt v (proj1 Ho)). split; [done|]. cbn [buf put_bytes snd new_writer app].
    unfold read_optional. pose proof (reads_nbt v Ho (new_reader (nbt_bytes v ++ suf)) suf eq_refl) as Hread.
    assert (nbt_bytes v ++ suf = byte_of_Z (tag_id v) :: payload v ++ suf) as Hb
      by (unfold nbt_bytes; by rewrite be_bytes_1).
    replace (rest (new_reader (nbt_bytes v ++ suf))) with (byte_of_Z (tag_id v) :: payload v ++ suf) by by rewrite <- Hb.
    pose proof (tag_id_range v). rewrite u8_of_Z_small by (unfold in_u; lia).
    rewrite (proj2 (Z.eqb_neq _ _)) by (unfold TAG_END; lia).
    unfold bind. by rewrite Hread.
  - split; [done|].
    change (buf (modify (put_u8 TAG_END) new_writer).2) with (be_bytes 1 TAG_END).
    unfold read_optional.
    replace (rest (new_reader (be_bytes 1 TAG_END ++ suf))) with (byte_of_Z TAG_END :: suf) by done.
    cbv zeta. rewrite u8_of_Z_small, Z.eqb_refl by by unfold in_u.
    by rewrite (bind_Ok _ _ _ _ _ (reads_get_u8 TAG_END ltac:(by unfold in_u) (new_reader (be_bytes 1 TAG_END ++ suf)) suf eq_refl)).
Qed.

(** A compound holding a list and a string, used by the witness. *)
Definition sample_nbt : Nbt :=
  NbtCompound [("id", NbtString "minecraft:stone"); ("levels", NbtList 3 [NbtInt (-1); NbtInt 7])].

Lemma nbt_optional_roundtrip_witness :
  (write_optional (Some sample_nbt) new_writer).1 = Ok tt
  ∧ read_optional (new_reader (nbt_bytes sample_nbt ++ [x00]))
    = (Ok (Some sample_nbt), mkReader (nbt_bytes sample_nbt ++ [x00]) (length (nbt_bytes sample_nbt))).
Proof.
  refine (nbt_optional_roundtrip (Some sample_nbt) [x00] _).
  intros v Hv. injection Hv as <-. repeat split; vm_compute; (reflexivity || discriminate).
Defined.

(** The fuel of the model is never what stops it: any larger fuel gives
    the same outcome on every input, so [nbt_decode] is the recursion of the
    code, cut only by the code's own depth cap. *)
Theorem nbt_decode_fuel_irrelevant (extra : nat) (tag : Z) (r : PacketReader) :
  read_payload (nbt_fuel + extra) tag 0 0 r = read_payload nbt_fuel tag 0 0 r.
Proof. apply read_payload_fuel; unfold nbt_fuel; lia. Qed.
