(* ===== verification/PacketTypes.v ===== *)
(** * Generated types

    The shared types of [crates/minerider-protocol/src/generated/v1_21_4]
    that the packets of [PlayPackets], [PlayPacketsOut] and [LoginPackets]
    are made of, with their [Encode]/[Decode] implementations as codecs, and
    the proof that each implementation is lawful.  The generated code is
    uniform, and so is its translation: a record per struct, one line per
    field in the encoder and in the decoder, in the order of the source. *)

From S2P Require Import Prelude Machine Reader Varint Utf8 Buffer Wire Nbt.

Local Open Scope Z_scope.

(** Fields written with [put_varint], [put_i32], [put_i64] inside an array or
    an option. *)
Definition wire_varint : Codec Z := fixed_codec read_varint write_varint.
Definition wire_i32 : Codec Z := fixed_codec get_i32 put_i32.
Definition wire_i64 : Codec Z := fixed_codec get_i64 put_i64.

(** A [bool] can be anything and is one byte. *)
Definition any_value {T} (_ : T) : Prop := True.
Definition bool_bytes (b : bool) : list byte := be_bytes 1 (Z.b2z b).
Definition no_bytes (_ : unit) : list byte := [].

#[export] Instance lawful_varint : LawfulCodec wire_varint (in_i 32) varint_bytes.
Proof. split; [intros v _; by apply writes_modify|apply reads_varint]. Qed.
#[export] Instance lawful_i32 : LawfulCodec wire_i32 (in_i 32) (be_bytes 4).
Proof. apply fixed_lawful; [done|apply reads_get_i32]. Qed.
#[export] Instance lawful_i64 : LawfulCodec wire_i64 (in_i 64) (be_bytes 8).
Proof. apply fixed_lawful; [done|apply reads_get_i64]. Qed.
#[export] Instance lawful_any_bool : LawfulCodec wire_bool any_value bool_bytes | 0 := lawful_bool.
#[export] Instance lawful_any_unit : LawfulCodec wire_unit any_value no_bytes | 0 := lawful_unit.

#[export] Instance cost_varint dom : CodecCost dom varint_bytes.
Proof. intros v _. pose proof (varint_bytes_length v). lia. Qed.
#[export] Instance cost_bool_bytes dom : CodecCost dom bool_bytes.
Proof. intros v _. unfold bool_bytes. rewrite be_bytes_length. lia. Qed.
#[export] Instance cost_Nbt dom : CodecCost dom nbt_bytes.
Proof. intros v _. unfold nbt_bytes. rewrite length_app, be_bytes_length. lia. Qed.

(** ** Proofs of generated codecs

    A struct is written and read field by field; an enum is its number. *)

Lemma app_cost (l k : list byte) : (1 ≤ length l)%nat → (1 ≤ length (l ++ k))%nat.
Proof. rewrite length_app. lia. Qed.

Ltac open_dom H := red in H; repeat match type of H with _ ∧ _ => let H1 := fresh H in destruct H as [H1 H] end.

Ltac solve_field_dom := first [assumption | exact I].

Ltac write_field :=
  lazymatch goal with
  | |- writes (encode ?c ?v) _ =>
      let H := fresh in pose proof (codec_writes (c := c) v) as H; apply H; solve_field_dom
  | |- writes (modify _) _ => apply writes_modify; reflexivity
  end.

Ltac read_field :=
  lazymatch goal with
  | |- reads (decode ?c) _ _ =>
      let H := fresh in pose proof (codec_reads (c := c)) as H; apply H; solve_field_dom
  | |- reads read_varint _ _ => apply reads_varint; assumption
  | |- reads get_i32 _ _ => apply reads_get_i32; assumption
  | |- reads get_i64 _ _ => apply reads_get_i64; assumption
  | |- reads get_u8 _ _ => apply reads_get_u8; assumption
  end.

Ltac solve_packet :=
  split; let p := fresh "p" in let Hp := fresh "Hp" in intros p Hp; open_dom Hp;
  lazymatch goal with
  | |- writes (encode ?c p) (?b p) =>
      unfold b, c; cbn [encode concat];
      repeat (apply writes_bind; [write_field|]); apply writes_ret
  | |- reads (decode ?c) (?b p) p =>
      unfold b, c; cbn [decode concat];
      repeat (eapply reads_bind; [read_field|]; cbv beta); destruct p; apply reads_ret
  end.

Ltac solve_enum :=
  split; let v := fresh "v" in intros v _;
  lazymatch goal with
  | |- writes (encode ?c v) (?b v) => unfold b, c; cbn [encode]; apply writes_modify; reflexivity
  | |- reads (decode ?c) (?b v) v =>
      unfold b, c; cbn [decode]; destruct v;
      (eapply reads_bind_nil;
       [first [apply reads_varint | apply reads_get_i8 | apply reads_get_u8]; by vm_compute | apply reads_ret])
  end.

Ltac solve_cost :=
  let p := fresh "p" in let Hp := fresh "Hp" in intros p Hp; open_dom Hp;
  lazymatch goal with
  | |- (1 ≤ length (?b p))%nat => unfold b; cbn [concat]
  end;
  try apply app_cost;
  lazymatch goal with
  | |- (1 ≤ length (varint_bytes ?v))%nat => apply (cost_varint any_value v I)
  | |- (1 ≤ length (string_bytes ?v))%nat => apply (cost_String any_value v I)
  | |- (1 ≤ length (be_bytes _ _))%nat => rewrite be_bytes_length; lia
  | |- (1 ≤ length (nbt_bytes ?v))%nat => apply (cost_Nbt any_value v I)
  | |- (1 ≤ length (bool_bytes ?v))%nat => apply (cost_bool_bytes any_value v I)
  | |- (1 ≤ length (vec_bytes _ _))%nat => unfold vec_bytes; apply varint_prefix_cost
  | |- (1 ≤ length (option_bytes _ _))%nat => unfold option_bytes; rewrite length_app, be_bytes_length; lia
  | |- (1 ≤ length (?b ?v))%nat => apply (codec_cost (enc := b)); assumption
  end.

(** ** Block positions *)

Record Position : Type := mkPosition { pos_x : Z; pos_z : Z; pos_y : Z }.

Definition wire_Position : Codec Position := {|
  encode p :=
    let raw := Z.lor (Z.lor (wrap 64 (Z.shiftl (Z.land (pos_x p) 0x3ffffff) 38))
                            (wrap 64 (Z.shiftl (Z.land (pos_z p) 0x3ffffff) 12)))
                     (Z.land (pos_y p) 0xfff) in
    modify (put_u64 raw);
  decode :=
    let* raw := get_u64 in
    ret (mkPosition
      (swrap 32 (Z.shiftr (swrap 64 (Z.shiftl (Z.land (Z.shiftr raw 38) 0x3ffffff) 38)) 38))
      (swrap 32 (Z.shiftr (swrap 64 (Z.shiftl (Z.land (Z.shiftr raw 12) 0x3ffffff) 38)) 38))
      (swrap 16 (Z.shiftr (swrap 64 (Z.shiftl (Z.land raw 0xfff) 52)) 52)));
|}.

Definition dom_Position (p : Position) : Prop := in_i 26 (pos_x p) ∧ in_i 26 (pos_z p) ∧ in_i 12 (pos_y p).
Definition bytes_Position (p : Position) : list byte :=
  be_bytes 8 (wrap 26 (pos_x p) * 2 ^ 38 + wrap 26 (pos_z p) * 2 ^ 12 + wrap 12 (pos_y p)).

Lemma raw_position_eq x y z :
  Z.lor (Z.lor (wrap 64 (Z.shiftl (Z.land x 0x3ffffff) 38)) (wrap 64 (Z.shiftl (Z.land z 0x3ffffff) 12)))
    (Z.land y 0xfff)
  = wrap 26 x * 2 ^ 38 + wrap 26 z * 2 ^ 12 + wrap 12 y.
Proof.
  change 0x3ffffff with (Z.ones 26). change 0xfff with (Z.ones 12).
  rewrite (Z.land_ones x 26), (Z.land_ones z 26), (Z.land_ones y 12) by lia.
  fold (wrap 26 x) (wrap 26 z) (wrap 12 y).
  pose proof (wrap_range 26 x ltac:(lia)) as [? ?]. pose proof (wrap_range 26 z ltac:(lia)) as [? ?].
  pose proof (wrap_range 12 y ltac:(lia)) as [? ?].
  rewrite !(wrap_small 64) by (rewrite Z.shiftl_mul_pow2 by lia; unfold in_u; lia).
  rewrite <- Z.lor_assoc, (Z.lor_comm (Z.shiftl (wrap 26 z) 12)), lor_shiftl_add by lia.
  rewrite Z.lor_comm, lor_shiftl_add by lia. lia.
Qed.

#[export] Instance lawful_Position : LawfulCodec wire_Position dom_Position bytes_Position.
Proof.
  split; intros [x z y] (Hx & Hz & Hy); cbn [pos_x pos_y pos_z] in *.
  - cbn [encode wire_Position pos_x pos_y pos_z]. rewrite raw_position_eq. by apply writes_modify.
  - unfold bytes_Position. cbn [decode wire_Position pos_x pos_y pos_z].
    pose proof (wrap_range 26 x ltac:(lia)) as [? ?]. pose proof (wrap_range 26 z ltac:(lia)) as [? ?].
    pose proof (wrap_range 12 y ltac:(lia)) as [? ?].
    set (raw := wrap 26 x * 2 ^ 38 + wrap 26 z * 2 ^ 12 + wrap 12 y).
    eapply reads_bind_nil; [apply reads_get_u64; unfold raw, in_u; lia|].
    change 0x3ffffff with (Z.ones 26). change 0xfff with (Z.ones 12). rewrite !Z.land_ones by lia.
    rewrite !Z.shiftr_div_pow2 by lia.
    assert (raw / 2 ^ 38 = wrap 26 x) as Hrx.
    { unfold raw. rewrite <- Z.add_assoc, Z.div_add_l by lia. rewrite Z.div_small; lia. }
    assert (raw / 2 ^ 12 = wrap 26 x * 2 ^ 26 + wrap 26 z) as Hrz.
    { unfold raw. replace (wrap 26 x * 2 ^ 38 + wrap 26 z * 2 ^ 12) with ((wrap 26 x * 2 ^ 26 + wrap 26 z) * 2 ^ 12) by ring.
      rewrite Z.div_add_l by lia. rewrite Z.div_small; lia. }
    assert (raw `mod` 2 ^ 12 = wrap 12 y) as Hry.
    { unfold raw. replace (wrap 26 x * 2 ^ 38 + wrap 26 z * 2 ^ 12 + wrap 12 y)
        with (wrap 12 y + (wrap 26 x * 2 ^ 26 + wrap 26 z) * 2 ^ 12) by ring.
      rewrite Z.mod_add by lia. by apply Z.mod_small. }
    rewrite Hrx, Hrz, Hry, (Z.mod_small (wrap 26 x)) by lia.
    rewrite (Z.add_comm (wrap 26 x * 2 ^ 26)), Z.mod_add, (Z.mod_small (wrap 26 z)) by lia.
    rewrite <- !Z.shiftr_div_pow2, !shl_shr_64 by lia. change (64 - 38) with 26. change (64 - 52) with 12.
    rewrite !swrap_of_wrap, !swrap_i32 by lia.
    rewrite (swrap_small 26 x), (swrap_small 26 z), (swrap_small 12 y) by (done || lia).
    rewrite (swrap_small 16 y); [apply reads_ret|lia|]. unfold in_i in *. lia.
Qed.
#[export] Instance cost_Position : CodecCost dom_Position bytes_Position.
Proof. intros v _. unfold bytes_Position. rewrite be_bytes_length. lia. Qed.

(** ** Types *)

Record ItemSoundEvent : Type := mkItemSoundEvent {
  ItemSoundEvent_sound_name : string;
  ItemSoundEvent_fixed_range : option Z;
}.
Definition wire_ItemSoundEvent : Codec ItemSoundEvent := {|
  encode p :=
    encode wire_String (ItemSoundEvent_sound_name p) ;;;
    encode (wire_Option wire_f32) (ItemSoundEvent_fixed_range p) ;;;
    ret tt;
  decode :=
    let* sound_name := decode wire_String in
    let* fixed_range := decode (wire_Option wire_f32) in
    ret (mkItemSoundEvent sound_name fixed_range);
|}.
Definition dom_ItemSoundEvent (p : ItemSoundEvent) : Prop :=
  wire_string (ItemSoundEvent_sound_name p)
  ∧ option_dom (in_u 32) (ItemSoundEvent_fixed_range p).
Definition bytes_ItemSoundEvent (p : ItemSoundEvent) : list byte :=
  concat [string_bytes (ItemSoundEvent_sound_name p);
    option_bytes (be_bytes 4) (ItemSoundEvent_fixed_range p)].
#[export] Instance lawful_ItemSoundEvent : LawfulCodec wire_ItemSoundEvent dom_ItemSoundEvent bytes_ItemSoundEvent.
Proof. solve_packet. Qed.
#[export] Instance cost_ItemSoundEvent : CodecCost dom_ItemSoundEvent bytes_ItemSoundEvent.
Proof. solve_cost. Qed.

Record Vec3f64 : Type := mkVec3f64 {
  Vec3f64_x : Z;
  Vec3f64_y : Z;
  Vec3f64_z : Z;
}.
Definition wire_Vec3f64 : Codec Vec3f64 := {|
  encode p :=
    encode wire_f64 (Vec3f64_x p) ;;;
    encode wire_f64 (Vec3f64_y p) ;;;
    encode wire_f64 (Vec3f64_z p) ;;;
    ret tt;
  decode :=
    let* x := decode wire_f64 in
    let* y := decode wire_f64 in
    let* z := decode wire_f64 in
    ret (mkVec3f64 x y z);
|}.
Definition dom_Vec3f64 (p : Vec3f64) : Prop :=
  in_u 64 (Vec3f64_x p)
  ∧ in_u 64 (Vec3f64_y p)
  ∧ in_u 64 (Vec3f64_z p).
Definition bytes_Vec3f64 (p : Vec3f64) : list byte :=
  concat [be_bytes 8 (Vec3f64_x p);
    be_bytes 8 (Vec3f64_y p);
    be_bytes 8 (Vec3f64_z p)].
#[export] Instance lawful_Vec3f64 : LawfulCodec wire_Vec3f64 dom_Vec3f64 bytes_Vec3f64.
Proof. solve_packet. Qed.
#[export] Instance cost_Vec3f64 : CodecCost dom_Vec3f64 bytes_Vec3f64.
Proof. solve_cost. Qed.

Record ChatSessionValuePublicKey : Type := mkChatSessionValuePublicKey {
  ChatSessionValuePublicKey_expire_time : Z;
  ChatSessionValuePublicKey_key_bytes : list Z;
  ChatSessionValuePublicKey_key_signature : list Z;
}.
Definition wire_ChatSessionValuePublicKey : Codec ChatSessionValuePublicKey := {|
  encode p :=
    modify (put_i64 (ChatSessionValuePublicKey_expire_time p)) ;;;
    encode (wire_Vec wire_u8) (ChatSessionValuePublicKey_key_bytes p) ;;;
    encode (wire_Vec wire_u8) (ChatSessionValuePublicKey_key_signature p) ;;;
    ret tt;
  decode :=
    let* expire_time := get_i64 in
    let* key_bytes := decode (wire_Vec wire_u8) in
    let* key_signature := decode (wire_Vec wire_u8) in
    ret (mkChatSessionValuePublicKey expire_time key_bytes key_signature);
|}.
Definition dom_ChatSessionValuePublicKey (p : ChatSessionValuePublicKey) : Prop :=
  in_i 64 (ChatSessionValuePublicKey_expire_time p)
  ∧ vec_dom (in_u 8) (ChatSessionValuePublicKey_key_bytes p)
  ∧ vec_dom (in_u 8) (ChatSessionValuePublicKey_key_signature p).
Definition bytes_ChatSessionValuePublicKey (p : ChatSessionValuePublicKey) : list byte :=
  concat [be_bytes 8 (ChatSessionValuePublicKey_expire_time p);
    vec_bytes (be_bytes 1) (ChatSessionValuePublicKey_key_bytes p);
    vec_bytes (be_bytes 1) (ChatSessionValuePublicKey_key_signature p)].
#[export] Instance lawful_ChatSessionValuePublicKey : LawfulCodec wire_ChatSessionValuePublicKey dom_ChatSessionValuePublicKey bytes_ChatSessionValuePublicKey.
Proof. solve_packet. Qed.
#[export] Instance cost_ChatSessionValuePublicKey : CodecCost dom_ChatSessionValuePublicKey bytes_ChatSessionValuePublicKey.
Proof. solve_cost. Qed.

Record ChatSessionValue : Type := mkChatSessionValue {
  ChatSessionValue_uuid : Z;
  ChatSessionValue_public_key : ChatSessionValuePublicKey;
}.
Definition wire_ChatSessionValue : Codec ChatSessionValue := {|
  encode p :=
    encode wire_u128 (ChatSessionValue_uuid p) ;;;
    encode wire_ChatSessionValuePublicKey (ChatSessionValue_public_key p) ;;;
    ret tt;
  decode :=
    let* uuid := decode wire_u128 in
    let* public_key := decode wire_ChatSessionValuePublicKey in
    ret (mkChatSessionValue uuid public_key);
|}.
Definition dom_ChatSessionValue (p : ChatSessionValue) : Prop :=
  in_u 128 (ChatSessionValue_uuid p)
  ∧ dom_ChatSessionValuePublicKey (ChatSessionValue_public_key p).
Definition bytes_ChatSessionValue (p : ChatSessionValue) : list byte :=
  concat [be_bytes 16 (ChatSessionValue_uuid p);
    bytes_ChatSessionValuePublicKey (ChatSessionValue_public_key p)].
#[export] Instance lawful_ChatSessionValue : LawfulCodec wire_ChatSessionValue dom_ChatSessionValue bytes_ChatSessionValue.
Proof. solve_packet. Qed.
#[export] Instance cost_ChatSessionValue : CodecCost dom_ChatSessionValue bytes_ChatSessionValue.
Proof. solve_cost. Qed.

Record Vec3f : Type := mkVec3f {
  Vec3f_x : Z;
  Vec3f_y : Z;
  Vec3f_z : Z;
}.
Definition wire_Vec3f : Codec Vec3f := {|
  encode p :=
    encode wire_f32 (Vec3f_x p) ;;;
    encode wire_f32 (Vec3f_y p) ;;;
    encode wire_f32 (Vec3f_z p) ;;;
    ret tt;
  decode :=
    let* x := decode wire_f32 in
    let* y := decode wire_f32 in
    let* z := decode wire_f32 in
    ret (mkVec3f x y z);
|}.
Definition dom_Vec3f (p : Vec3f) : Prop :=
  in_u 32 (Vec3f_x p)
  ∧ in_u 32 (Vec3f_y p)
  ∧ in_u 32 (Vec3f_z p).
Definition bytes_Vec3f (p : Vec3f) : list byte :=
  concat [be_bytes 4 (Vec3f_x p);
    be_bytes 4 (Vec3f_y p);
    be_bytes 4 (Vec3f_z p)].
#[export] Instance lawful_Vec3f : LawfulCodec wire_Vec3f dom_Vec3f bytes_Vec3f.
Proof. solve_packet. Qed.
#[export] Instance cost_Vec3f : CodecCost dom_Vec3f bytes_Vec3f.
Proof. solve_cost. Qed.

Record GameProfilePropertiesItem : Type := mkGameProfilePropertiesItem {
  GameProfilePropertiesItem_name : string;
  GameProfilePropertiesItem_value : string;
  GameProfilePropertiesItem_signature : option string;
}.
Definition wire_GameProfilePropertiesItem : Codec GameProfilePropertiesItem := {|
  encode p :=
    encode wire_String (GameProfilePropertiesItem_name p) ;;;
    encode wire_String (GameProfilePropertiesItem_value p) ;;;
    encode (wire_Option wire_String) (GameProfilePropertiesItem_signature p) ;;;
    ret tt;
  decode :=
    let* name := decode wire_String in
    let* value := decode wire_String in
    let* signature := decode (wire_Option wire_String) in
    ret (mkGameProfilePropertiesItem name value signature);
|}.
Definition dom_GameProfilePropertiesItem (p : GameProfilePropertiesItem) : Prop :=
  wire_string (GameProfilePropertiesItem_name p)
  ∧ wire_string (GameProfilePropertiesItem_value p)
  ∧ option_dom wire_string (GameProfilePropertiesItem_signature p).
Definition bytes_GameProfilePropertiesItem (p : GameProfilePropertiesItem) : list byte :=
  concat [string_bytes (GameProfilePropertiesItem_name p);
    string_bytes (GameProfilePropertiesItem_value p);
    option_bytes string_bytes (GameProfilePropertiesItem_signature p)].
#[export] Instance lawful_GameProfilePropertiesItem : LawfulCodec wire_GameProfilePropertiesItem dom_GameProfilePropertiesItem bytes_GameProfilePropertiesItem.
Proof. solve_packet. Qed.
#[export] Instance cost_GameProfilePropertiesItem : CodecCost dom_GameProfilePropertiesItem bytes_GameProfilePropertiesItem.
Proof. solve_cost. Qed.

Record GameProfile : Type := mkGameProfile {
  GameProfile_name : string;
  GameProfile_properties : list GameProfilePropertiesItem;
}.
Definition wire_GameProfile : Codec GameProfile := {|
  encode p :=
    encode wire_String (GameProfile_name p) ;;;
    encode (wire_Vec wire_GameProfilePropertiesItem) (GameProfile_properties p) ;;;
    ret tt;
  decode :=
    let* name := decode wire_String in
    let* properties := decode (wire_Vec wire_GameProfilePropertiesItem) in
    ret (mkGameProfile name properties);
|}.
Definition dom_GameProfile (p : GameProfile) : Prop :=
  wire_string (GameProfile_name p)
  ∧ vec_dom dom_GameProfilePropertiesItem (GameProfile_properties p).
Definition bytes_GameProfile (p : GameProfile) : list byte :=
  concat [string_bytes (GameProfile_name p);
    vec_bytes bytes_GameProfilePropertiesItem (GameProfile_properties p)].
#[export] Instance lawful_GameProfile : LawfulCodec wire_GameProfile dom_GameProfile bytes_GameProfile.
Proof. solve_packet. Qed.
#[export] Instance cost_GameProfile : CodecCost dom_GameProfile bytes_GameProfile.
Proof. solve_cost. Qed.

Record PackedChunkPos : Type := mkPackedChunkPos {
  PackedChunkPos_z : Z;
  PackedChunkPos_x : Z;
}.
Definition wire_PackedChunkPos : Codec PackedChunkPos := {|
  encode p :=
    modify (put_i32 (PackedChunkPos_z p)) ;;;
    modify (put_i32 (PackedChunkPos_x p)) ;;;
    ret tt;
  decode :=
    let* z := get_i32 in
    let* x := get_i32 in
    ret (mkPackedChunkPos z x);
|}.
Definition dom_PackedChunkPos (p : PackedChunkPos) : Prop :=
  in_i 32 (PackedChunkPos_z p)
  ∧ in_i 32 (PackedChunkPos_x p).
Definition bytes_PackedChunkPos (p : PackedChunkPos) : list byte :=
  concat [be_bytes 4 (PackedChunkPos_z p);
    be_bytes 4 (PackedChunkPos_x p)].
#[export] Instance lawful_PackedChunkPos : LawfulCodec wire_PackedChunkPos dom_PackedChunkPos bytes_PackedChunkPos.
Proof. solve_packet. Qed.
#[export] Instance cost_PackedChunkPos : CodecCost dom_PackedChunkPos bytes_PackedChunkPos.
Proof. solve_cost. Qed.

Record PacketCommonAddResourcePack : Type := mkPacketCommonAddResourcePack {
  PacketCommonAddResourcePack_uuid : Z;
  PacketCommonAddResourcePack_url : string;
  PacketCommonAddResourcePack_hash : string;
  PacketCommonAddResourcePack_forced : bool;
  PacketCommonAddResourcePack_prompt_message : option Nbt;
}.
Definition wire_PacketCommonAddResourcePack : Codec PacketCommonAddResourcePack := {|
  encode p :=
    encode wire_u128 (PacketCommonAddResourcePack_uuid p) ;;;
    encode wire_String (PacketCommonAddResourcePack_url p) ;;;
    encode wire_String (PacketCommonAddResourcePack_hash p) ;;;
    encode wire_bool (PacketCommonAddResourcePack_forced p) ;;;
    encode (wire_Option wire_Nbt) (PacketCommonAddResourcePack_prompt_message p) ;;;
    ret tt;
  decode :=
    let* uuid := decode wire_u128 in
    let* url := decode wire_String in
    let* hash := decode wire_String in
    let* forced := decode wire_bool in
    let* prompt_message := decode (wire_Option wire_Nbt) in
    ret (mkPacketCommonAddResourcePack uuid url hash forced prompt_message);
|}.
Definition dom_PacketCommonAddResourcePack (p : PacketCommonAddResourcePack) : Prop :=
  in_u 128 (PacketCommonAddResourcePack_uuid p)
  ∧ wire_string (PacketCommonAddResourcePack_url p)
  ∧ wire_string (PacketCommonAddResourcePack_hash p)
  ∧ option_dom nbt_fits (PacketCommonAddResourcePack_prompt_message p).
Definition bytes_PacketCommonAddResourcePack (p : PacketCommonAddResourcePack) : list byte :=
  concat [be_bytes 16 (PacketCommonAddResourcePack_uuid p);
    string_bytes (PacketCommonAddResourcePack_url p);
    string_bytes (PacketCommonAddResourcePack_hash p);
    bool_bytes (PacketCommonAddResourcePack_forced p);
    option_bytes nbt_bytes (PacketCommonAddResourcePack_prompt_message p)].
#[export] Instance lawful_PacketCommonAddResourcePack : LawfulCodec wire_PacketCommonAddResourcePack dom_PacketCommonAddResourcePack bytes_PacketCommonAddResourcePack.
Proof. solve_packet. Qed.
#[export] Instance cost_PacketCommonAddResourcePack : CodecCost dom_PacketCommonAddResourcePack bytes_PacketCommonAddResourcePack.
Proof. solve_cost. Qed.

Record PacketCommonCookieRequest : Type := mkPacketCommonCookieRequest {
  PacketCommonCookieRequest_cookie : string;
}.
Definition wire_PacketCommonCookieRequest : Codec PacketCommonCookieRequest := {|
  encode p :=
    encode wire_String (PacketCommonCookieRequest_cookie p) ;;;
    ret tt;
  decode :=
    let* cookie := decode wire_String in
    ret (mkPacketCommonCookieRequest cookie);
|}.
Definition dom_PacketCommonCookieRequest (p : PacketCommonCookieRequest) : Prop :=
  wire_string (PacketCommonCookieRequest_cookie p).
Definition bytes_PacketCommonCookieRequest (p : PacketCommonCookieRequest) : list byte :=
  concat [string_bytes (PacketCommonCookieRequest_cookie p)].
#[export] Instance lawful_PacketCommonCookieRequest : LawfulCodec wire_PacketCommonCookieRequest dom_PacketCommonCookieRequest bytes_PacketCommonCookieRequest.
Proof. solve_packet. Qed.
#[export] Instance cost_PacketCommonCookieRequest : CodecCost dom_PacketCommonCookieRequest bytes_PacketCommonCookieRequest.
Proof. solve_cost. Qed.

Record PacketCommonCookieResponse : Type := mkPacketCommonCookieResponse {
  PacketCommonCookieResponse_key : string;
  PacketCommonCookieResponse_value : option (list Z);
}.
Definition wire_PacketCommonCookieResponse : Codec PacketCommonCookieResponse := {|
  encode p :=
    encode wire_String (PacketCommonCookieResponse_key p) ;;;
    encode (wire_Option (wire_Vec wire_u8)) (PacketCommonCookieResponse_value p) ;;;
    ret tt;
  decode :=
    let* key := decode wire_String in
    let* value := decode (wire_Option (wire_Vec wire_u8)) in
    ret (mkPacketCommonCookieResponse key value);
|}.
Definition dom_PacketCommonCookieResponse (p : PacketCommonCookieResponse) : Prop :=
  wire_string (PacketCommonCookieResponse_key p)
  ∧ option_dom (vec_dom (in_u 8)) (PacketCommonCookieResponse_value p).
Definition bytes_PacketCommonCookieResponse (p : PacketCommonCookieResponse) : list byte :=
  concat [string_bytes (PacketCommonCookieResponse_key p);
    option_bytes (vec_bytes (be_bytes 1)) (PacketCommonCookieResponse_value p)].
#[export] Instance lawful_PacketCommonCookieResponse : LawfulCodec wire_PacketCommonCookieResponse dom_PacketCommonCookieResponse bytes_PacketCommonCookieResponse.
Proof. solve_packet. Qed.
#[export] Instance cost_PacketCommonCookieResponse : CodecCost dom_PacketCommonCookieResponse bytes_PacketCommonCookieResponse.
Proof. solve_cost. Qed.

Record PacketCommonCustomReportDetailsDetailsItem : Type := mkPacketCommonCustomReportDetailsDetailsItem {
  PacketCommonCustomReportDetailsDetailsItem_key : string;
  PacketCommonCustomReportDetailsDetailsItem_value : string;
}.
Definition wire_PacketCommonCustomReportDetailsDetailsItem : Codec PacketCommonCustomReportDetailsDetailsItem := {|
  encode p :=
    encode wire_String (PacketCommonCustomReportDetailsDetailsItem_key p) ;;;
    encode wire_String (PacketCommonCustomReportDetailsDetailsItem_value p) ;;;
    ret tt;
  decode :=
    let* key := decode wire_String in
    let* value := decode wire_String in
    ret (mkPacketCommonCustomReportDetailsDetailsItem key value);
|}.
Definition dom_PacketCommonCustomReportDetailsDetailsItem (p : PacketCommonCustomReportDetailsDetailsItem) : Prop :=
  wire_string (PacketCommonCustomReportDetailsDetailsItem_key p)
  ∧ wire_string (PacketCommonCustomReportDetailsDetailsItem_value p).
Definition bytes_PacketCommonCustomReportDetailsDetailsItem (p : PacketCommonCustomReportDetailsDetailsItem) : list byte :=
  concat [string_bytes (PacketCommonCustomReportDetailsDetailsItem_key p);
    string_bytes (PacketCommonCustomReportDetailsDetailsItem_value p)].
#[export] Instance lawful_PacketCommonCustomReportDetailsDetailsItem : LawfulCodec wire_PacketCommonCustomReportDetailsDetailsItem dom_PacketCommonCustomReportDetailsDetailsItem bytes_PacketCommonCustomReportDetailsDetailsItem.
Proof. solve_packet. Qed.
#[export] Instance cost_PacketCommonCustomReportDetailsDetailsItem : CodecCost dom_PacketCommonCustomReportDetailsDetailsItem bytes_PacketCommonCustomReportDetailsDetailsItem.
Proof. solve_cost. Qed.

Record PacketCommonCustomReportDetails : Type := mkPacketCommonCustomReportDetails {
  PacketCommonCustomReportDetails_details : list PacketCommonCustomReportDetailsDetailsItem;
}.
Definition wire_PacketCommonCustomReportDetails : Codec PacketCommonCustomReportDetails := {|
  encode p :=
    encode (wire_Vec wire_PacketCommonCustomReportDetailsDetailsItem) (PacketCommonCustomReportDetails_details p) ;;;
    ret tt;
  decode :=
    let* details := decode (wire_Vec wire_PacketCommonCustomReportDetailsDetailsItem) in
    ret (mkPacketCommonCustomReportDetails details);
|}.
Definition dom_PacketCommonCustomReportDetails (p : PacketCommonCustomReportDetails) : Prop :=
  vec_dom dom_PacketCommonCustomReportDetailsDetailsItem (PacketCommonCustomReportDetails_details p).
Definition bytes_PacketCommonCustomReportDetails (p : PacketCommonCustomReportDetails) : list byte :=
  concat [vec_bytes bytes_PacketCommonCustomReportDetailsDetailsItem (PacketCommonCustomReportDetails_details p)].
#[export] Instance lawful_PacketCommonCustomReportDetails : LawfulCodec wire_PacketCommonCustomReportDetails dom_PacketCommonCustomReportDetails bytes_PacketCommonCustomReportDetails.
Proof. solve_packet. Qed.
#[export] Instance cost_PacketCommonCustomReportDetails : CodecCost dom_PacketCommonCustomReportDetails bytes_PacketCommonCustomReportDetails.
Proof. solve_cost. Qed.

Record PacketCommonRemoveResourcePack : Type := mkPacketCommonRemoveResourcePack {
  PacketCommonRemoveResourcePack_uuid : option Z;
}.
Definition wire_PacketCommonRemoveResourcePack : Codec PacketCommonRemoveResourcePack := {|
  encode p :=
    encode (wire_Option wire_u128) (PacketCommonRemoveResourcePack_uuid p) ;;;
    ret tt;
  decode :=
    let* uuid := decode (wire_Option wire_u128) in
    ret (mkPacketCommonRemoveResourcePack uuid);
|}.
Definition dom_PacketCommonRemoveResourcePack (p : PacketCommonRemoveResourcePack) : Prop :=
  option_dom (in_u 128) (PacketCommonRemoveResourcePack_uuid p).
Definition bytes_PacketCommonRemoveResourcePack (p : PacketCommonRemoveResourcePack) : list byte :=
  concat [option_bytes (be_bytes 16) (PacketCommonRemoveResourcePack_uuid p)].
#[export] Instance lawful_PacketCommonRemoveResourcePack : LawfulCodec wire_PacketCommonRemoveResourcePack dom_PacketCommonRemoveResourcePack bytes_PacketCommonRemoveResourcePack.
Proof. solve_packet. Qed.
#[export] Instance cost_PacketCommonRemoveResourcePack : CodecCost dom_PacketCommonRemoveResourcePack bytes_PacketCommonRemoveResourcePack.
Proof. solve_cost. Qed.

Record PacketCommonSelectKnownPacksPacksItem : Type := mkPacketCommonSelectKnownPacksPacksItem {
  PacketCommonSelectKnownPacksPacksItem_namespace : string;
  PacketCommonSelectKnownPacksPacksItem_id : string;
  PacketCommonSelectKnownPacksPacksItem_version : string;
}.
Definition wire_PacketCommonSelectKnownPacksPacksItem : Codec PacketCommonSelectKnownPacksPacksItem := {|
  encode p :=
    encode wire_String (PacketCommonSelectKnownPacksPacksItem_namespace p) ;;;
    encode wire_String (PacketCommonSelectKnownPacksPacksItem_id p) ;;;
    encode wire_String (PacketCommonSelectKnownPacksPacksItem_version p) ;;;
    ret tt;
  decode :=
    let* namespace := decode wire_String in
    let* id := decode wire_String in
    let* version := decode wire_String in
    ret (mkPacketCommonSelectKnownPacksPacksItem namespace id version);
|}.
Definition dom_PacketCommonSelectKnownPacksPacksItem (p : PacketCommonSelectKnownPacksPacksItem) : Prop :=
  wire_string (PacketCommonSelectKnownPacksPacksItem_namespace p)
  ∧ wire_string (PacketCommonSelectKnownPacksPacksItem_id p)
  ∧ wire_string (PacketCommonSelectKnownPacksPacksItem_version p).
Definition bytes_PacketCommonSelectKnownPacksPacksItem (p : PacketCommonSelectKnownPacksPacksItem) : list byte :=
  concat [string_bytes (PacketCommonSelectKnownPacksPacksItem_namespace p);
    string_bytes (PacketCommonSelectKnownPacksPacksItem_id p);
    string_bytes (PacketCommonSelectKnownPacksPacksItem_version p)].
#[export] Instance lawful_PacketCommonSelectKnownPacksPacksItem : LawfulCodec wire_PacketCommonSelectKnownPacksPacksItem dom_PacketCommonSelectKnownPacksPacksItem bytes_PacketCommonSelectKnownPacksPacksItem.
Proof. solve_packet. Qed.
#[export] Instance cost_PacketCommonSelectKnownPacksPacksItem : CodecCost dom_PacketCommonSelectKnownPacksPacksItem bytes_PacketCommonSelectKnownPacksPacksItem.
Proof. solve_cost. Qed.

Record PacketCommonSelectKnownPacks : Type := mkPacketCommonSelectKnownPacks {
  PacketCommonSelectKnownPacks_packs : list PacketCommonSelectKnownPacksPacksItem;
}.
Definition wire_PacketCommonSelectKnownPacks : Codec PacketCommonSelectKnownPacks := {|
  encode p :=
    encode (wire_Vec wire_PacketCommonSelectKnownPacksPacksItem) (PacketCommonSelectKnownPacks_packs p) ;;;
    ret tt;
  decode :=
    let* packs := decode (wire_Vec wire_PacketCommonSelectKnownPacksPacksItem) in
    ret (mkPacketCommonSelectKnownPacks packs);
|}.
Definition dom_PacketCommonSelectKnownPacks (p : PacketCommonSelectKnownPacks) : Prop :=
  vec_dom dom_PacketCommonSelectKnownPacksPacksItem (PacketCommonSelectKnownPacks_packs p).
Definition bytes_PacketCommonSelectKnownPacks (p : PacketCommonSelectKnownPacks) : list byte :=
  concat [vec_bytes bytes_PacketCommonSelectKnownPacksPacksItem (PacketCommonSelectKnownPacks_packs p)].
#[export] Instance lawful_PacketCommonSelectKnownPacks : LawfulCodec wire_PacketCommonSelectKnownPacks dom_PacketCommonSelectKnownPacks bytes_PacketCommonSelectKnownPacks.
Proof. solve_packet. Qed.
#[export] Instance cost_PacketCommonSelectKnownPacks : CodecCost dom_PacketCommonSelectKnownPacks bytes_PacketCommonSelectKnownPacks.
Proof. solve_cost. Qed.

Inductive PacketCommonSettingsParticleStatus : Type :=
  | PacketCommonSettingsParticleStatus_All
  | PacketCommonSettingsParticleStatus_Decreased
  | PacketCommonSettingsParticleStatus_Minimal.
Definition value_PacketCommonSettingsParticleStatus (v : PacketCommonSettingsParticleStatus) : Z :=
  match v with
  | PacketCommonSettingsParticleStatus_All => 0
  | PacketCommonSettingsParticleStatus_Decreased => 1
  | PacketCommonSettingsParticleStatus_Minimal => 2
  end.
Definition wire_PacketCommonSettingsParticleStatus : Codec PacketCommonSettingsParticleStatus := {|
  encode v := modify (write_varint (value_PacketCommonSettingsParticleStatus v));
  decode :=
    let* value := read_varint in
    match value with
    | 0 => ret PacketCommonSettingsParticleStatus_All
    | 1 => ret PacketCommonSettingsParticleStatus_Decreased
    | 2 => ret PacketCommonSettingsParticleStatus_Minimal
    | _ => raise (UnknownEnumValue "PacketCommonSettingsParticleStatus" value)
    end;
|}.
Definition dom_PacketCommonSettingsParticleStatus (_ : PacketCommonSettingsParticleStatus) : Prop := True.
Definition bytes_PacketCommonSettingsParticleStatus (v : PacketCommonSettingsParticleStatus) : list byte := varint_bytes (value_PacketCommonSettingsParticleStatus v).
#[export] Instance lawful_PacketCommonSettingsParticleStatus : LawfulCodec wire_PacketCommonSettingsParticleStatus dom_PacketCommonSettingsParticleStatus bytes_PacketCommonSettingsParticleStatus.
Proof. solve_enum. Qed.
#[export] Instance cost_PacketCommonSettingsParticleStatus : CodecCost dom_PacketCommonSettingsParticleStatus bytes_PacketCommonSettingsParticleStatus.
Proof. solve_cost. Qed.

Record PacketCommonSettings : Type := mkPacketCommonSettings {
  PacketCommonSettings_locale : string;
  PacketCommonSettings_view_distance : Z;
  PacketCommonSettings_chat_flags : Z;
  PacketCommonSettings_chat_colors : bool;
  PacketCommonSettings_skin_parts : Z;
  PacketCommonSettings_main_hand : Z;
  PacketCommonSettings_enable_text_filtering : bool;
  PacketCommonSettings_enable_server_listing : bool;
  PacketCommonSettings_particle_status : PacketCommonSettingsParticleStatus;
}.
Definition wire_PacketCommonSettings : Codec PacketCommonSettings := {|
  encode p :=
    encode wire_String (PacketCommonSettings_locale p) ;;;
    encode wire_i8 (PacketCommonSettings_view_distance p) ;;;
    modify (write_varint (PacketCommonSettings_chat_flags p)) ;;;
    encode wire_bool (PacketCommonSettings_chat_colors p) ;;;
    encode wire_u8 (PacketCommonSettings_skin_parts p) ;;;
    modify (write_varint (PacketCommonSettings_main_hand p)) ;;;
    encode wire_bool (PacketCommonSettings_enable_text_filtering p) ;;;
    encode wire_bool (PacketCommonSettings_enable_server_listing p) ;;;
    encode wire_PacketCommonSettingsParticleStatus (PacketCommonSettings_particle_status p) ;;;
    ret tt;
  decode :=
    let* locale := decode wire_String in
    let* view_distance := decode wire_i8 in
    let* chat_flags := read_varint in
    let* chat_colors := decode wire_bool in
    let* skin_parts := decode wire_u8 in
    let* main_hand := read_varint in
    let* enable_text_filtering := decode wire_bool in
    let* enable_server_listing := decode wire_bool in
    let* particle_status := decode wire_PacketCommonSettingsParticleStatus in
    ret (mkPacketCommonSettings locale view_distance chat_flags chat_colors skin_parts main_hand enable_text_filtering enable_server_listing particle_status);
|}.
Definition dom_PacketCommonSettings (p : PacketCommonSettings) : Prop :=
  wire_string (PacketCommonSettings_locale p)
  ∧ in_i 8 (PacketCommonSettings_view_distance p)
  ∧ in_i 32 (PacketCommonSettings_chat_flags p)
  ∧ in_u 8 (PacketCommonSettings_skin_parts p)
  ∧ in_i 32 (PacketCommonSettings_main_hand p)
  ∧ dom_PacketCommonSettingsParticleStatus (PacketCommonSettings_particle_status p).
Definition bytes_PacketCommonSettings (p : PacketCommonSettings) : list byte :=
  concat [string_bytes (PacketCommonSettings_locale p);
    be_bytes 1 (PacketCommonSettings_view_distance p);
    varint_bytes (PacketCommonSettings_chat_flags p);
    bool_bytes (PacketCommonSettings_chat_colors p);
    be_bytes 1 (PacketCommonSettings_skin_parts p);
    varint_bytes (PacketCommonSettings_main_hand p);
    bool_bytes (PacketCommonSettings_enable_text_filtering p);
    bool_bytes (PacketCommonSettings_enable_server_listing p);
    bytes_PacketCommonSettingsParticleStatus (PacketCommonSettings_particle_status p)].
#[export] Instance lawful_PacketCommonSettings : LawfulCodec wire_PacketCommonSettings dom_PacketCommonSettings bytes_PacketCommonSettings.
Proof. solve_packet. Qed.
#[export] Instance cost_PacketCommonSettings : CodecCost dom_PacketCommonSettings bytes_PacketCommonSettings.
Proof. solve_cost. Qed.

Record PacketCommonStoreCookie : Type := mkPacketCommonStoreCookie {
  PacketCommonStoreCookie_key : string;
  PacketCommonStoreCookie_value : list Z;
}.
Definition wire_PacketCommonStoreCookie : Codec PacketCommonStoreCookie := {|
  encode p :=
    encode wire_String (PacketCommonStoreCookie_key p) ;;;
    encode (wire_Vec wire_u8) (PacketCommonStoreCookie_value p) ;;;
    ret tt;
  decode :=
    let* key := decode wire_String in
    let* value := decode (wire_Vec wire_u8) in
    ret (mkPacketCommonStoreCookie key value);
|}.
Definition dom_PacketCommonStoreCookie (p : PacketCommonStoreCookie) : Prop :=
  wire_string (PacketCommonStoreCookie_key p)
  ∧ vec_dom (in_u 8) (PacketCommonStoreCookie_value p).
Definition bytes_PacketCommonStoreCookie (p : PacketCommonStoreCookie) : list byte :=
  concat [string_bytes (PacketCommonStoreCookie_key p);
    vec_bytes (be_bytes 1) (PacketCommonStoreCookie_value p)].
#[export] Instance lawful_PacketCommonStoreCookie : LawfulCodec wire_PacketCommonStoreCookie dom_PacketCommonStoreCookie bytes_PacketCommonStoreCookie.
Proof. solve_packet. Qed.
#[export] Instance cost_PacketCommonStoreCookie : CodecCost dom_PacketCommonStoreCookie bytes_PacketCommonStoreCookie.
Proof. solve_cost. Qed.

Record PacketCommonTransfer : Type := mkPacketCommonTransfer {
  PacketCommonTransfer_host : string;
  PacketCommonTransfer_port : Z;
}.
Definition wire_PacketCommonTransfer : Codec PacketCommonTransfer := {|
  encode p :=
    encode wire_String (PacketCommonTransfer_host p) ;;;
    modify (write_varint (PacketCommonTransfer_port p)) ;;;
    ret tt;
  decode :=
    let* host := decode wire_String in
    let* port := read_varint in
    ret (mkPacketCommonTransfer host port);
|}.
Definition dom_PacketCommonTransfer (p : PacketCommonTransfer) : Prop :=
  wire_string (PacketCommonTransfer_host p)
  ∧ in_i 32 (PacketCommonTransfer_port p).
Definition bytes_PacketCommonTransfer (p : PacketCommonTransfer) : list byte :=
  concat [string_bytes (PacketCommonTransfer_host p);
    varint_bytes (PacketCommonTransfer_port p)].
#[export] Instance lawful_PacketCommonTransfer : LawfulCodec wire_PacketCommonTransfer dom_PacketCommonTransfer bytes_PacketCommonTransfer.
Proof. solve_packet. Qed.
#[export] Instance cost_PacketCommonTransfer : CodecCost dom_PacketCommonTransfer bytes_PacketCommonTransfer.
Proof. solve_cost. Qed.

Inductive SoundSource : Type :=
  | SoundSource_Master
  | SoundSource_Music
  | SoundSource_Record
  | SoundSource_Weather
  | SoundSource_Block
  | SoundSource_Hostile
  | SoundSource_Neutral
  | SoundSource_Player
  | SoundSource_Ambient
  | SoundSource_Voice.
Definition value_SoundSource (v : SoundSource) : Z :=
  match v with
  | SoundSource_Master => 0
  | SoundSource_Music => 1
  | SoundSource_Record => 2
  | SoundSource_Weather => 3
  | SoundSource_Block => 4
  | SoundSource_Hostile => 5
  | SoundSource_Neutral => 6
  | SoundSource_Player => 7
  | SoundSource_Ambient => 8
  | SoundSource_Voice => 9
  end.
Definition wire_SoundSource : Codec SoundSource := {|
  encode v := modify (write_varint (value_SoundSource v));
  decode :=
    let* value := read_varint in
    match value with
    | 0 => ret SoundSource_Master
    | 1 => ret SoundSource_Music
    | 2 => ret SoundSource_Record
    | 3 => ret SoundSource_Weather
    | 4 => ret SoundSource_Block
    | 5 => ret SoundSource_Hostile
    | 6 => ret SoundSource_Neutral
    | 7 => ret SoundSource_Player
    | 8 => ret SoundSource_Ambient
    | 9 => ret SoundSource_Voice
    | _ => raise (UnknownEnumValue "SoundSource" value)
    end;
|}.
Definition dom_SoundSource (_ : SoundSource) : Prop := True.
Definition bytes_SoundSource (v : SoundSource) : list byte := varint_bytes (value_SoundSource v).
#[export] Instance lawful_SoundSource : LawfulCodec wire_SoundSource dom_SoundSource bytes_SoundSource.
Proof. solve_enum. Qed.
#[export] Instance cost_SoundSource : CodecCost dom_SoundSource bytes_SoundSource.
Proof. solve_cost. Qed.

Record TagsItem : Type := mkTagsItem {
  TagsItem_tag_name : string;
  TagsItem_entries : list Z;
}.
Definition wire_TagsItem : Codec TagsItem := {|
  encode p :=
    encode wire_String (TagsItem_tag_name p) ;;;
    encode (wire_Vec wire_varint) (TagsItem_entries p) ;;;
    ret tt;
  decode :=
    let* tag_name := decode wire_String in
    let* entries := decode (wire_Vec wire_varint) in
    ret (mkTagsItem tag_name entries);
|}.
Definition dom_TagsItem (p : TagsItem) : Prop :=
  wire_string (TagsItem_tag_name p)
  ∧ vec_dom (in_i 32) (TagsItem_entries p).
Definition bytes_TagsItem (p : TagsItem) : list byte :=
  concat [string_bytes (TagsItem_tag_name p);
    vec_bytes varint_bytes (TagsItem_entries p)].
#[export] Instance lawful_TagsItem : LawfulCodec wire_TagsItem dom_TagsItem bytes_TagsItem.
Proof. solve_packet. Qed.
#[export] Instance cost_TagsItem : CodecCost dom_TagsItem bytes_TagsItem.
Proof. solve_cost. Qed.

Record Vec2f : Type := mkVec2f {
  Vec2f_x : Z;
  Vec2f_y : Z;
}.
Definition wire_Vec2f : Codec Vec2f := {|
  encode p :=
    encode wire_f32 (Vec2f_x p) ;;;
    encode wire_f32 (Vec2f_y p) ;;;
    ret tt;
  decode :=
    let* x := decode wire_f32 in
    let* y := decode wire_f32 in
    ret (mkVec2f x y);
|}.
Definition dom_Vec2f (p : Vec2f) : Prop :=
  in_u 32 (Vec2f_x p)
  ∧ in_u 32 (Vec2f_y p).
Definition bytes_Vec2f (p : Vec2f) : list byte :=
  concat [be_bytes 4 (Vec2f_x p);
    be_bytes 4 (Vec2f_y p)].
#[export] Instance lawful_Vec2f : LawfulCodec wire_Vec2f dom_Vec2f bytes_Vec2f.
Proof. solve_packet. Qed.
#[export] Instance cost_Vec2f : CodecCost dom_Vec2f bytes_Vec2f.
Proof. solve_cost. Qed.

Record Vec3i16 : Type := mkVec3i16 {
  Vec3i16_x : Z;
  Vec3i16_y : Z;
  Vec3i16_z : Z;
}.
Definition wire_Vec3i16 : Codec Vec3i16 := {|
  encode p :=
    encode wire_i16 (Vec3i16_x p) ;;;
    encode wire_i16 (Vec3i16_y p) ;;;
    encode wire_i16 (Vec3i16_z p) ;;;
    ret tt;
  decode :=
    let* x := decode wire_i16 in
    let* y := decode wire_i16 in
    let* z := decode wire_i16 in
    ret (mkVec3i16 x y z);
|}.
Definition dom_Vec3i16 (p : Vec3i16) : Prop :=
  in_i 16 (Vec3i16_x p)
  ∧ in_i 16 (Vec3i16_y p)
  ∧ in_i 16 (Vec3i16_z p).
Definition bytes_Vec3i16 (p : Vec3i16) : list byte :=
  concat [be_bytes 2 (Vec3i16_x p);
    be_bytes 2 (Vec3i16_y p);
    be_bytes 2 (Vec3i16_z p)].
#[export] Instance lawful_Vec3i16 : LawfulCodec wire_Vec3i16 dom_Vec3i16 bytes_Vec3i16.
Proof. solve_packet. Qed.
#[export] Instance cost_Vec3i16 : CodecCost dom_Vec3i16 bytes_Vec3i16.
Proof. solve_cost. Qed.
