(* ===== verification/Switch.v ===== *)
(** * Discriminated fields

    The shapes of the generated code beyond a fixed sequence of fields: a
    field whose type depends on an earlier one (the generated enums with a
    [decode_from] and the [match (self.discriminant, &self.value)] of their
    struct), arrays counted by an earlier field, blobs of a fixed length,
    optional NBT, and bit fields. *)

From S2P Require Import Prelude Machine Reader Varint Utf8 Buffer Wire Nbt PacketTypes.

Local Open Scope Z_scope.

(** ** Switches *)

(** A generated enum selected by a discriminant of type [D]: which
    discriminants an arm of the struct's [match] accepts with each
    constructor, [Encode for] the enum, and its [decode_from]. *)
Record Switch (D T : Type) : Type := mkSwitch {
  sw_case : D → T → bool;
  sw_encode : T → Write;
  sw_decode : D → Read T;
}.
Arguments mkSwitch {D T} sw_case sw_encode sw_decode.
Arguments sw_case {D T} s d v : rename.
Arguments sw_encode {D T} s v : rename.
Arguments sw_decode {D T} s d : rename.

(** Write if the field matches what announced it, [InvalidData] otherwise. *)
Definition only (ok : bool) (m : Write) : Write := if ok then m else raise InvalidData.

(** [match (self.discriminant, &self.value)]: the arms that pair a
    discriminant with its constructor write the payload as the enum's own
    [encode] does; every other pair is [InvalidData]. *)
Definition encode_at {D T} (s : Switch D T) (d : D) (v : T) : Write :=
  only (sw_case s d v) (sw_encode s v).

(** [Encode for Vec<T>]. *)
Definition encode_Vec {T} (enc : T → Write) (v : list T) : Write :=
  modify (write_varint (swrap 32 (Z.of_nat (length v)))) ;;; iter_m enc v.

Class LawfulSwitch {D T} (s : Switch D T) (dom : D → T → Prop) (enc : T → list byte) : Prop := {
  switch_writes d v : dom d v → writes (encode_at s d v) (enc v);
  switch_reads d v : dom d v → reads (sw_decode s d) (enc v) v;
}.
#[export] Hint Mode LawfulSwitch + + + - - : typeclass_instances.

Class SafeSwitch {D T} (s : Switch D T) : Prop := safe_switch d : in_bounds (sw_decode s d).
#[export] Hint Extern 0 (in_bounds (sw_decode _ _)) => apply safe_switch : preserves.

(** Selecting on a discriminant of an enum type. *)
Definition on {D} `{EqDecision D} (d k : D) : bool := bool_decide (d = k).

Lemma on_eq {D} `{EqDecision D} (d k : D) : on d k = true → d = k.
Proof. apply bool_decide_eq_true. Qed.

(** ** Counted arrays

    [if self.items.len() as i64 != self.count as i64]: the count is a field
    of its own, checked on both sides. *)
Definition counted {T} (c : Codec T) : Switch Z (list T) := {|
  sw_case n items := Z.of_nat (length items) =? n;
  sw_encode items := iter_m (encode c) items;
  sw_decode n :=
    if n <? 0 then raise InvalidData
    else
      let* rem := gets remaining in
      if Z.of_nat rem <? n then raise (BufferUnderflow n (Z.of_nat rem))
      else repeat_m (Z.to_nat n) (decode c);
|}.

(** ** Blobs, optional NBT and the remaining primitives *)

(** [if v.len() != n]: a blob of exactly [n] bytes. *)
Definition wire_blob (n : nat) : Codec (list byte) := {|
  encode v := if negb (length v =? n)%nat then raise InvalidData else modify (put_bytes v);
  decode := read_bytes (Z.of_nat n);
|}.

Definition wire_OptNbt : Codec (option Nbt) := {| encode := write_optional; decode := read_optional |}.
Definition optnbt_bytes (o : option Nbt) : list byte :=
  match o with Some v => nbt_bytes v | None => be_bytes 1 TAG_END end.

Definition wire_varlong : Codec Z := fixed_codec read_varlong write_varlong.

Definition blob_dom (n : nat) (v : list byte) : Prop := length v = n.

#[export] Instance lawful_blob n : LawfulCodec (wire_blob n) (blob_dom n) id.
Proof.
  split; intros v Hv; red in Hv; cbn [encode decode wire_blob].
  - rewrite (proj2 (Nat.eqb_eq _ _) Hv). by apply writes_modify.
  - apply reads_read_bytes. by rewrite Hv.
Qed.

#[export] Instance lawful_OptNbt : LawfulCodec wire_OptNbt (option_dom nbt_fits) optnbt_bytes.
Proof.
  split; intros [v|] Ho; cbn [encode decode wire_OptNbt write_optional optnbt_bytes].
  - apply (codec_writes (c := wire_Nbt)). by apply Ho.
  - by apply writes_modify.
  - intros r suf Hr. unfold read_optional.
    assert (rest r = byte_of_Z (tag_id v) :: payload v ++ suf) as Hr'
      by (rewrite Hr; unfold nbt_bytes; by rewrite be_bytes_1).
    rewrite Hr'. pose proof (tag_id_range v). rewrite u8_of_Z_small by (unfold in_u; lia).
    rewrite (proj2 (Z.eqb_neq _ _)) by (unfold TAG_END; lia).
    assert (reads nbt_decode (nbt_bytes v) v) as Hv by (apply (codec_reads (c := wire_Nbt)); by apply Ho).
    exact (reads_bind_ret nbt_decode Some (nbt_bytes v) v Hv r suf Hr).
  - intros r suf Hr. unfold read_optional.
    assert (rest r = byte_of_Z TAG_END :: suf) as Hr' by (rewrite Hr; by rewrite be_bytes_1).
    rewrite Hr', u8_of_Z_small, Z.eqb_refl by by unfold in_u.
    exact (reads_bind_ret get_u8 (λ _, None) _ TAG_END (reads_get_u8 TAG_END ltac:(by unfold in_u)) r suf Hr).
Qed.

#[export] Instance lawful_varlong : LawfulCodec wire_varlong (in_i 64) varlong_bytes.
Proof. split; [intros v _; by apply writes_modify|apply reads_varlong]. Qed.

#[export] Instance cost_OptNbt dom : CodecCost dom optnbt_bytes.
Proof.
  intros [v|] _; cbn [optnbt_bytes]; [apply (cost_Nbt any_value v I)|by rewrite be_bytes_length].
Qed.

Section counted.
Context {T} (c : Codec T) (dom : T → Prop) (enc : T → list byte).
Context `{!LawfulCodec c dom enc, !CodecCost dom enc}.

Definition counted_dom (n : Z) (items : list T) : Prop :=
  Z.of_nat (length items) = n ∧ Forall dom items.
Definition counted_bytes (items : list T) : list byte := concat (map enc items).

#[export] Instance lawful_counted : LawfulSwitch (counted c) counted_dom counted_bytes.
Proof.
  split; intros n items [Hn Hd].
  - unfold encode_at, only. cbn [sw_case sw_encode counted]. rewrite (proj2 (Z.eqb_eq _ _) Hn).
    apply writes_iter_m. eapply Forall_impl; [exact Hd|]. exact (codec_writes (c := c)).
  - intros r suf Hr. cbn [sw_decode counted]. rewrite (proj2 (Z.ltb_ge _ _)) by lia.
    unfold bind at 1, gets. rewrite (proj2 (Z.ltb_ge _ _)).
    2:{ pose proof (concat_map_length enc items (Forall_impl _ _ _ Hd (codec_cost (dom := dom)))).
        rewrite <- length_rest, Hr, length_app. unfold counted_bytes. lia. }
    rewrite <- Hn, Nat2Z.id. refine (reads_repeat_m enc (decode c) items _ r suf Hr).
    eapply Forall_impl; [exact Hd|]. exact (codec_reads (c := c)).
Qed.

#[export] Instance safe_counted `{!SafeDecode c} : SafeSwitch (counted c).
Proof. intros n. cbn [sw_decode counted]. mauto. Qed.
End counted.

(** ** Bounds of the primitives *)

#[export] Instance safe_i16 : SafeDecode wire_i16. Proof. unfold SafeDecode. cbn. unfold get_i16. mauto. Qed.
#[export] Instance safe_u32 : SafeDecode wire_u32. Proof. unfold SafeDecode. cbn. unfold get_u32. mauto. Qed.
#[export] Instance safe_u64 : SafeDecode wire_u64. Proof. unfold SafeDecode. cbn. unfold get_u64. mauto. Qed.
#[export] Instance safe_f32 : SafeDecode wire_f32. Proof. unfold SafeDecode. cbn. unfold get_f32. mauto. Qed.
#[export] Instance safe_f64 : SafeDecode wire_f64. Proof. unfold SafeDecode. cbn. unfold get_f64. mauto. Qed.
#[export] Instance safe_u128 : SafeDecode wire_u128. Proof. unfold SafeDecode. cbn. unfold read_uuid. mauto. Qed.
#[export] Instance safe_unit : SafeDecode wire_unit. Proof. unfold SafeDecode. cbn. mauto. Qed.
#[export] Instance safe_varint : SafeDecode wire_varint. Proof. unfold SafeDecode. cbn. mauto. Qed.
#[export] Instance safe_varlong : SafeDecode wire_varlong. Proof. unfold SafeDecode. cbn. mauto. Qed.
#[export] Instance safe_i32 : SafeDecode wire_i32. Proof. unfold SafeDecode. cbn. unfold get_i32. mauto. Qed.
#[export] Instance safe_i64 : SafeDecode wire_i64. Proof. unfold SafeDecode. cbn. unfold get_i64. mauto. Qed.
#[export] Instance safe_blob n : SafeDecode (wire_blob n). Proof. unfold SafeDecode. cbn. mauto. Qed.
#[export] Instance safe_OptNbt : SafeDecode wire_OptNbt.
Proof.
  intros r. cbn [decode wire_OptNbt]. unfold read_optional.
  assert (in_bounds (let* v := nbt_decode in ret (Some v))) as Hn.
  { apply preserves_bind; [apply _|apply nbt_decode_in_bounds|]. intros v. mauto. }
  assert (in_bounds (let* _ := get_u8 in ret (@None Nbt))) as H8 by mauto.
  destruct (rest r) as [|b l]; [apply Hn|]. case_match; [apply H8|apply Hn].
Qed.

(** ** Bit fields *)

(** A statement about every [k]-bit number is checked number by number. *)
Lemma in_u_all k (P : Z → Prop) : Forall P (seqZ 0 (2 ^ k)) → ∀ z, in_u k z → P z.
Proof. rewrite Forall_forall. intros HP z Hz. apply HP, elem_of_seqZ. unfold in_u in Hz. lia. Qed.

Lemma flag_all (P : bool → Prop) : Forall P [false; true] → ∀ b, P b.
Proof. rewrite Forall_forall. intros HP []; apply HP; set_solver. Qed.

Ltac solve_bits :=
  repeat match goal with
  | H : in_u ?k ?f |- _ => revert f H; apply (in_u_all k)
  | b : bool |- _ => revert b; apply flag_all
  end;
  apply (bool_decide_unpack _); by vm_compute.

(** ** Proofs of generated codecs *)

Create HintDb writes discriminated.

Ltac unfold_head_in t H := lazymatch t with ?f _ => unfold_head_in f H | _ => unfold t in H end.
Ltac unfold_head t := lazymatch t with ?f _ => unfold_head f | _ => unfold t end.

Ltac write_step :=
  lazymatch goal with
  | |- writes (encode ?c ?v) _ =>
      let H := fresh in pose proof (codec_writes (c := c) v) as H; apply H; solve_field_dom
  | |- writes (encode_at ?s ?d ?v) _ =>
      let H := fresh in pose proof (switch_writes (s := s) d v) as H; apply H; solve_field_dom
  | |- writes (modify _) _ => apply writes_modify; reflexivity
  | |- writes (encode_Vec (encode ?c) ?v) _ =>
      let H := fresh in pose proof (codec_writes (c := wire_Vec c) v) as H; apply H; solve_field_dom
  | |- writes (ret tt) _ => apply writes_ret
  | |- writes _ _ => solve [eauto 2 with writes]
  end.

Ltac read_step :=
  lazymatch goal with
  | |- reads (decode ?c) _ _ =>
      let H := fresh in pose proof (codec_reads (c := c)) as H; apply H; solve_field_dom
  | |- reads (sw_decode ?s ?d) _ _ =>
      let H := fresh in pose proof (switch_reads (s := s) d) as H; apply H; solve_field_dom
  | |- reads read_varint _ _ => apply reads_varint; assumption
  | |- reads get_i32 _ _ => apply reads_get_i32; assumption
  | |- reads get_i64 _ _ => apply reads_get_i64; assumption
  | |- reads get_u8 _ _ => apply reads_get_u8; assumption
  end.

(** A struct, field by field. *)
Ltac solve_struct :=
  split; let p := fresh "p" in let Hp := fresh "Hp" in intros p Hp; open_dom Hp;
  lazymatch goal with
  | |- writes (encode ?c p) (?b p) =>
      unfold b; try unfold c; cbn [encode concat]; repeat (apply writes_bind; [write_step|]); apply writes_ret
  | |- reads (decode ?c) (?b p) p =>
      unfold b; try unfold c; cbn [decode concat];
      repeat (eapply reads_bind; [read_step|]; cbv beta); destruct p; apply reads_ret
  end.

(** The same for a codec given by its fields, [c] being its name. *)
Ltac solve_struct_by c :=
  split; let p := fresh "p" in let Hp := fresh "Hp" in intros p Hp; open_dom Hp;
  lazymatch goal with
  | |- writes _ (?b p) =>
      unfold b; cbn [encode concat]; repeat (apply writes_bind; [write_step|]); apply writes_ret
  | |- reads _ (?b p) p =>
      unfold b; cbn [decode concat]; unfold c; cbn [decode];
      repeat (eapply reads_bind; [read_step|]; cbv beta); destruct p; apply reads_ret
  end.

(** The discriminants an arm accepts. *)
Ltac resolve_on H :=
  lazymatch type of H with
  | on ?d ?k = true => apply on_eq in H; subst d
  | (_ || _) = true => apply orb_true_iff in H; destruct H as [H|H]; resolve_on H
  | (_ && _) = true => let H1 := fresh in apply andb_true_iff in H; destruct H as [H1 H]; resolve_on H1; resolve_on H
  | negb _ = true => apply negb_true_iff in H
  | true = true => idtac
  end.

Ltac eval_on :=
  repeat lazymatch goal with
  | H : on ?a ?b = false |- context [on ?a ?b] => rewrite H
  | |- context [on ?a ?b] => let r := eval vm_compute in (on a b) in change (on a b) with r
  end; cbv iota.

Ltac solve_switch :=
  lazymatch goal with
  | |- LawfulSwitch ?s ?dom ?enc =>
      let s' := eval unfold s in s in
      lazymatch s' with
      | mkSwitch ?cs ?e ?dc =>
          let d := fresh "d" in let v := fresh "v" in let Hc := fresh "Hc" in let Hd := fresh "Hd" in
          split; intros d v [Hc Hd];
          [ unfold encode_at, only, s; cbn [sw_case sw_encode]; rewrite Hc; clear Hc;
            destruct v; cbv beta iota in Hd; unfold_head e; unfold enc; write_step
          | unfold s; cbn [sw_decode]; destruct v; cbv beta iota in Hd; unfold_head_in cs Hc; cbv beta iota in Hc;
            first [resolve_on Hc | destruct d; try discriminate Hc]; unfold_head dc; unfold enc; cbv beta iota; eval_on;
            first [apply reads_ret | eapply reads_bind_nil; [read_step|apply reads_ret]] ]
      end
  end.

Lemma holder_head {T} (enc : T → list byte) h : (1 ≤ length (holder_bytes enc h))%nat.
Proof. destruct h; simpl; [pose proof (varint_bytes_length (id + 1)); lia|apply varint_prefix_cost]. Qed.

Lemma holder_set_head h : (1 ≤ length (holder_set_bytes h))%nat.
Proof.
  destruct h; simpl; apply varint_prefix_cost.
Qed.

#[export] Instance cost_HolderSet dom : CodecCost dom holder_set_bytes.
Proof. intros h _. apply holder_set_head. Qed.

(** The first field costs a byte. *)
Ltac solve_head :=
  lazymatch goal with
  | |- CodecCost _ ?b =>
      let p := fresh "p" in let Hp := fresh "Hp" in intros p Hp; open_dom Hp; unfold b; cbn [concat]; apply app_cost
  end;
  lazymatch goal with
  | |- (1 ≤ length (varint_bytes ?v))%nat => apply (cost_varint any_value v I)
  | |- (1 ≤ length (string_bytes ?v))%nat => apply (cost_String any_value v I)
  | |- (1 ≤ length (be_bytes _ _))%nat => rewrite be_bytes_length; lia
  | |- (1 ≤ length (nbt_bytes ?v))%nat => apply (cost_Nbt any_value v I)
  | |- (1 ≤ length (optnbt_bytes ?v))%nat => apply (cost_OptNbt any_value v I)
  | |- (1 ≤ length (bool_bytes ?v))%nat => apply (cost_bool_bytes any_value v I)
  | |- (1 ≤ length (vec_bytes _ _))%nat => apply varint_prefix_cost
  | |- (1 ≤ length (option_bytes _ _))%nat => unfold option_bytes; rewrite length_app, be_bytes_length; lia
  | |- (1 ≤ length (holder_bytes _ _))%nat => apply holder_head
  | |- (1 ≤ length (holder_set_bytes _))%nat => apply holder_set_head
  | |- (1 ≤ length (?b ?v))%nat => let H := fresh in pose proof (codec_cost (enc := b)) as H; apply H; first [assumption | exact I]
  end.

(** An enum or struct written without a look at its discriminant: the value
    is still read back when it is the one the discriminant selects. *)
Lemma switch_writes_as {D T} (s : Switch D T) dom enc `{!LawfulSwitch s dom enc} d v :
  dom d v → sw_case s d v = true → writes (sw_encode s v) (enc v).
Proof. intros Hd Hc. pose proof (switch_writes (s := s) d v Hd) as Hw. unfold encode_at, only in Hw. by rewrite Hc in Hw. Qed.

Ltac write_unchecked :=
  lazymatch goal with
  | |- writes (sw_encode ?s ?v) _ =>
      match goal with
      | H : ?dom ?d v |- _ => apply (switch_writes_as s dom _ d v H); first [exact (proj1 H) | reflexivity]
      end
  end.

(** A value decoded under one discriminant, as the element of an array. *)
Definition codec_at {D T} (s : Switch D T) (d : D) : Codec T := {| encode := sw_encode s; decode := sw_decode s d |}.

#[export] Instance lawful_codec_at {D T} (s : Switch D T) dom enc `{!LawfulSwitch s dom enc} d :
  LawfulCodec (codec_at s d) (λ v, dom d v ∧ sw_case s d v = true) enc.
Proof.
  split; intros v [Hd Hc]; [by apply (switch_writes_as s dom enc d v)|exact (switch_reads (s := s) d v Hd)].
Qed.

(** A struct that is decoded with a context and encoded without it. *)
Ltac solve_ctx :=
  lazymatch goal with
  | |- LawfulSwitch ?s ?dom ?enc =>
      let s' := eval unfold s in s in
      lazymatch s' with
      | mkSwitch ?cs ?e ?dc =>
          let d := fresh "d" in let p := fresh "p" in let Hp := fresh "Hp" in
          split; intros d p Hp; open_dom Hp;
          [ unfold encode_at, only, s; cbn [sw_case sw_encode]; unfold e, enc; cbn [concat];
            repeat (apply writes_bind; [first [write_unchecked|write_step]|]); apply writes_ret
          | unfold s; cbn [sw_decode]; unfold dc, enc; cbn [concat];
            repeat (eapply reads_bind; [read_step|]; cbv beta); destruct p; apply reads_ret ]
      end
  end.

Ltac solve_safe :=
  lazymatch goal with
  | |- SafeDecode ?c => unfold SafeDecode, c; cbn [decode]; mauto
  | |- SafeSwitch ?s =>
      let s' := eval unfold s in s in
      lazymatch s' with
      | mkSwitch ?cs ?e ?dc => intros ?; unfold s; cbn [sw_decode]; unfold dc; mauto
      end
  end.

(** Equality of enums through their numbers. *)
Lemma value_inj {X} (value : X → Z) (of_value : Z → option X) :
  (∀ x, of_value (value x) = Some x) → Inj (=) (=) value.
Proof. intros Hv x y Hxy. apply (inj Some). by rewrite <- !Hv, Hxy. Qed.

Definition value_eq_dec {X} (value : X → Z) (Hi : Inj (=) (=) value) : EqDecision X :=
  λ x y, match decide (value x = value y) with
         | left H => left (Hi x y H)
         | right H => right (λ e, H (f_equal value e))
         end.
