(* ===== verification/Recursion.v ===== *)
(** * Recursive types on the wire

    Three generated types contain themselves: an item holds items, a potion
    effect a hidden effect, a recipe display other displays.  Their decoders
    call themselves once per level and have no depth limit; what stops them
    is that every level reads at least a byte.  [knot] closes such a decoder
    with one unit of fuel per unread byte, and the lemmas show that the fuel
    is never what stops it: the closed decoder satisfies the recursive
    equation of the source on every input. *)

From S2P Require Import Prelude Machine Reader Varint Utf8 Buffer Wire Nbt PacketTypes Switch.

Local Open Scope Z_scope.

(** ** Decoders that agree on short inputs *)

(** The two readers do the same wherever fewer than [k] bytes are left. *)
Definition agree {A} (k : nat) (m m' : Read A) : Prop :=
  ∀ r, (remaining r < k)%nat → m r = m' r.

Lemma agree_refl {A} k (m : Read A) : agree k m m.
Proof. by intros r _. Qed.

Lemma agree_weaken {A} k k' (m m' : Read A) : (k ≤ k')%nat → agree k' m m' → agree k m m'.
Proof. intros Hk Hm r Hr. apply Hm. lia. Qed.

Lemma in_bounds_remaining {A} (m : Read A) r : in_bounds m → (remaining (m r).2 ≤ remaining r)%nat.
Proof. intros Hm. destruct (Hm r) as (Hd & Hp & _). unfold remaining. rewrite Hd. lia. Qed.

Lemma agree_bind {A B} k (m m' : Read A) (f f' : A → Read B) :
  in_bounds m → agree k m m' → (∀ a, agree k (f a) (f' a)) → agree k (bind m f) (bind m' f').
Proof.
  intros Hb Hm Hf r Hr. unfold bind. rewrite <- (Hm r Hr).
  pose proof (in_bounds_remaining m r Hb) as Hle. destruct (m r) as [[a|e] r1]; [|done].
  apply Hf. cbn [snd] in Hle. lia.
Qed.

(** A read that takes at least a byte when it succeeds. *)
Definition progress {A} (m : Read A) : Prop :=
  ∀ r a r', m r = (Ok a, r') → (remaining r' < remaining r)%nat.

Lemma agree_bind_progress {A B} k (m : Read A) (f f' : A → Read B) :
  progress m → (∀ a, agree k (f a) (f' a)) → agree (S k) (bind m f) (bind m f').
Proof.
  intros Hp Hf r Hr. unfold bind. destruct (m r) as [[a|e] r1] eqn:Hm; [|done].
  apply Hf. apply Hp in Hm. lia.
Qed.

Lemma agree_repeat_m {A} k n (m m' : Read A) : in_bounds m → agree k m m' → agree k (repeat_m n m) (repeat_m n m').
Proof.
  intros Hb Hm. induction n as [|n IH]; simpl; [apply agree_refl|].
  apply agree_bind; [done..|]. intros a.
  apply agree_bind; [by apply preserves_repeat_m; [apply _|]|done|]. intros l. apply agree_refl.
Qed.

Lemma agree_Vec {A} k (c c' : Codec A) :
  in_bounds (decode c) → agree k (decode c) (decode c') → agree k (decode (wire_Vec c)) (decode (wire_Vec c')).
Proof.
  intros Hb Hc. cbn [decode wire_Vec]. unfold read_array.
  apply agree_bind; [mauto|apply agree_refl|]. intros len. case_match; [apply agree_refl|].
  apply agree_bind; [mauto|apply agree_refl|]. intros rem. case_match; [apply agree_refl|].
  by apply agree_repeat_m.
Qed.

Lemma agree_Option {A} k (c c' : Codec A) :
  in_bounds (decode c) → agree k (decode c) (decode c') → agree k (decode (wire_Option c)) (decode (wire_Option c')).
Proof.
  intros Hb Hc. cbn [decode wire_Option]. unfold read_option.
  apply agree_bind; [mauto|apply agree_refl|]. intros []; [|apply agree_refl].
  apply agree_bind; [done..|]. intros v. apply agree_refl.
Qed.

Lemma agree_counted {A} k n (c c' : Codec A) :
  in_bounds (decode c) → agree k (decode c) (decode c') →
  agree k (sw_decode (counted c) n) (sw_decode (counted c') n).
Proof.
  intros Hb Hc. cbn [sw_decode counted]. case_match; [apply agree_refl|].
  apply agree_bind; [mauto|apply agree_refl|]. intros rem. case_match; [apply agree_refl|].
  by apply agree_repeat_m.
Qed.

Lemma progress_bind {A B} (m : Read A) (f : A → Read B) :
  progress m → (∀ a, in_bounds (f a)) → progress (bind m f).
Proof.
  intros Hm Hf r b r' (a & r1 & H1%Hm & H2)%bind_Ok_inv.
  pose proof (in_bounds_remaining (f a) r1 (Hf a)) as Hle. rewrite H2 in Hle. cbn [snd] in Hle. lia.
Qed.

Lemma progress_u8 : progress get_u8.
Proof.
  intros r v r' (bs & r1 & Hb & [= _ <-])%bind_Ok_inv. rewrite read_bytes_eq in Hb. revert Hb.
  destruct (Z.ltb_spec (Z.of_nat (remaining r)) 1); [done|]. intros [= _ <-]. unfold remaining in *; simpl. lia.
Qed.

#[local] Transparent read_varint.
Lemma progress_varint : progress read_varint.
Proof.
  unfold read_varint. cbn [read_leb MAX_VARINT_BYTES]. apply progress_bind; [apply progress_u8|].
  intros byte. case_match; [mauto|]. apply (read_leb_in_bounds 32 VarIntTooLong 4).
Qed.
#[local] Opaque read_varint.

Create HintDb agree discriminated.

Ltac solve_agree :=
  repeat first
    [ lazymatch goal with |- agree _ ?m ?m => apply agree_refl end
    | apply agree_Vec; [apply safe_decode|solve [eauto with agree]]
    | apply agree_counted; [apply safe_decode|solve [eauto with agree]]
    | solve [eauto with agree]
    | apply agree_bind; [mauto| |intros ?]
    | lazymatch goal with |- agree _ (match ?x with _ => _ end) _ => destruct x end ].

(** ** The knot *)

(** One level of a recursive codec as a function of the codec of the levels
    below: it stays in the buffer if they do, and it hands them fewer bytes
    than it was given. *)
Class Guarded {T} (F : Codec T → Codec T) : Prop := {
  guarded_bounds c : in_bounds (decode c) → in_bounds (decode (F c));
  guarded_agree c c' k :
    in_bounds (decode c) → agree k (decode c) (decode c') → agree (S k) (decode (F c)) (decode (F c'));
}.

Definition stuck {T} : Codec T := {| encode _ := raise InvalidData; decode := raise InvalidData |}.

Fixpoint unrolled {T} (F : Codec T → Codec T) (n : nat) : Codec T :=
  match n with O => stuck | S n => F (unrolled F n) end.

(** The recursive codec: the encoder follows the value, the decoder has a
    level for every unread byte. *)
Definition knot {T} (F : Codec T → Codec T) (enc : T → Write) : Codec T :=
  {| encode := enc; decode r := decode (unrolled F (S (remaining r))) r |}.

Section knot.
Context {T : Type} (F : Codec T → Codec T) (enc : T → Write) `{!Guarded F}.

Lemma unrolled_bounds n : in_bounds (decode (unrolled F n)).
Proof. induction n as [|n IH]; simpl; [mauto|by apply guarded_bounds]. Qed.

Lemma unrolled_agree n m : agree (n `min` m) (decode (unrolled F n)) (decode (unrolled F m)).
Proof.
  revert m. induction n as [|n IH]; intros m; [intros r Hr; lia|].
  destruct m as [|m]; [intros r Hr; lia|]. simpl. apply guarded_agree; [apply unrolled_bounds|apply IH].
Qed.

(** Any fuel above the number of unread bytes gives the same outcome. *)
Lemma knot_fuel n r : (remaining r < n)%nat → decode (unrolled F n) r = decode (knot F enc) r.
Proof. intros Hn. cbn [decode knot]. apply unrolled_agree. lia. Qed.

Lemma knot_bounds : in_bounds (decode (knot F enc)).
Proof. intros r. cbn [decode knot]. apply unrolled_bounds. Qed.

(** The recursive equation of the source. *)
Lemma knot_decode r : decode (knot F enc) r = decode (F (knot F enc)) r.
Proof.
  cbn [decode knot unrolled]. apply (guarded_agree (unrolled F (remaining r)) (knot F enc) (remaining r)).
  - apply unrolled_bounds.
  - intros r' Hr'. by apply knot_fuel.
  - lia.
Qed.

(** The round trip, level by level. *)
Context (dom_F : (T → Prop) → T → Prop) (bytes_F : (T → list byte) → T → list byte).
Context (Henc : ∀ v, enc v = encode (F (knot F enc)) v).
Context (lawful_F : ∀ c dom bytes, LawfulCodec c dom bytes → CodecCost dom bytes →
  LawfulCodec (F c) (dom_F dom) (bytes_F bytes)).
Context (cost_F : ∀ dom bytes, CodecCost (dom_F dom) (bytes_F bytes)).

(** The values of at most [n] levels whose every level is in the domain. *)
Fixpoint dom_upto (n : nat) : T → Prop :=
  match n with O => λ _, False | S n => dom_F (dom_upto n) end.
Definition knot_dom (v : T) : Prop := ∃ n, dom_upto n v.
Definition knot_bytes (v : T) : list byte := buf (enc v new_writer).2.

Lemma knot_bytes_eq v bs : writes (enc v) bs → knot_bytes v = bs.
Proof. intros Hw. unfold knot_bytes. by rewrite (Hw new_writer). Qed.

Lemma knot_lawful_upto n :
  LawfulCodec (knot F enc) (dom_upto n) knot_bytes ∧ CodecCost (dom_upto n) knot_bytes.
Proof using All.
  induction n as [|n [IHl IHc]]; [split; [split|]; by intros v []|].
  pose proof (lawful_F _ _ _ IHl IHc) as [Hw Hr]. pose proof (cost_F (dom_upto n) knot_bytes) as Hc.
  assert (∀ v, dom_F (dom_upto n) v → knot_bytes v = bytes_F knot_bytes v) as Heq.
  { intros v Hv. apply knot_bytes_eq. rewrite Henc. by apply Hw. }
  split; [split|]; intros v Hv; cbn [dom_upto] in Hv; rewrite (Heq v Hv).
  - cbn [encode knot]. rewrite Henc. by apply Hw.
  - intros r suf Hs. rewrite knot_decode. by apply (Hr v Hv r suf).
  - by apply Hc.
Qed.

Lemma knot_lawful : LawfulCodec (knot F enc) knot_dom knot_bytes.
Proof using All.
  split; intros v [n Hn]; destruct (knot_lawful_upto n) as [[Hw Hr] _]; auto.
Qed.

Lemma knot_cost : CodecCost knot_dom knot_bytes.
Proof using All. intros v [n Hn]. by apply (proj2 (knot_lawful_upto n)). Qed.

(** What the decoder returns has the type its levels promise. *)
Lemma knot_yields :
  (∀ c dom, yields (decode c) dom → yields (decode (F c)) (dom_F dom)) → yields (decode (knot F enc)) knot_dom.
Proof using Type.
  intros Hstep r v r' Hr. exists (S (remaining r)). cbn [decode knot] in Hr. revert v r' Hr.
  generalize (S (remaining r)). intros n. revert r.
  induction n as [|n IH]; intros r v r' Hr; [done|]. cbn [unrolled dom_upto] in *.
  apply (Hstep (unrolled F n) (dom_upto n) IH r v r' Hr).
Qed.
End knot.
