(* ===== verification/PlayPackets.v ===== *)
(** * Play packets from the server

    The structs of [generated/v1_21_4/play.rs] a server sends whose fields are
    read in a fixed order, and their codecs. *)

From S2P Require Import Prelude Machine Reader Varint Utf8 Buffer Wire Nbt PacketTypes.

Local Open Scope Z_scope.

Record PacketSpawnEntity : Type := mkPacketSpawnEntity {
  PacketSpawnEntity_entity_id : Z;
  PacketSpawnEntity_object_uuid : Z;
  PacketSpawnEntity_type : Z;
  PacketSpawnEntity_x : Z;
  PacketSpawnEntity_y : Z;
  PacketSpawnEntity_z : Z;
  PacketSpawnEntity_pitch : Z;
  PacketSpawnEntity_yaw : Z;
  PacketSpawnEntity_head_pitch : Z;
  PacketSpawnEntity_object_data : Z;
  PacketSpawnEntity_velocity : Vec3i16;
}.
Definition wire_PacketSpawnEntity : Codec PacketSpawnEntity := {|
  encode p :=
    modify (write_varint (PacketSpawnEntity_entity_id p)) ;;;
    encode wire_u128 (PacketSpawnEntity_object_uuid p) ;;;
    modify (write_varint (PacketSpawnEntity_type p)) ;;;
    encode wire_f64 (PacketSpawnEntity_x p) ;;;
    encode wire_f64 (PacketSpawnEntity_y p) ;;;
    encode wire_f64 (PacketSpawnEntity_z p) ;;;
    encode wire_i8 (PacketSpawnEntity_pitch p) ;;;
    encode wire_i8 (PacketSpawnEntity_yaw p) ;;;
    encode wire_i8 (PacketSpawnEntity_head_pitch p) ;;;
    modify (write_varint (PacketSpawnEntity_object_data p)) ;;;
    encode wire_Vec3i16 (PacketSpawnEntity_velocity p) ;;;
    ret tt;
  decode :=
    let* entity_id := read_varint in
    let* object_uuid := decode wire_u128 in
    let* type_ := read_varint in
    let* x := decode wire_f64 in
    let* y := decode wire_f64 in
    let* z := decode wire_f64 in
    let* pitch := decode wire_i8 in
    let* yaw := decode wire_i8 in
    let* head_pitch := decode wire_i8 in
    let* object_data := read_varint in
    let* velocity := decode wire_Vec3i16 in
    ret (mkPacketSpawnEntity entity_id object_uuid type_ x y z pitch yaw head_pitch object_data velocity);
|}.
Definition dom_PacketSpawnEntity (p : PacketSpawnEntity) : Prop :=
  in_i 32 (PacketSpawnEntity_entity_id p)
  ∧ in_u 128 (PacketSpawnEntity_object_uuid p)
  ∧ in_i 32 (PacketSpawnEntity_type p)
  ∧ in_u 64 (PacketSpawnEntity_x p)
  ∧ in_u 64 (PacketSpawnEntity_y p)
  ∧ in_u 64 (PacketSpawnEntity_z p)
  ∧ in_i 8 (PacketSpawnEntity_pitch p)
  ∧ in_i 8 (PacketSpawnEntity_yaw p)
  ∧ in_i 8 (PacketSpawnEntity_head_pitch p)
  ∧ in_i 32 (PacketSpawnEntity_object_data p)
  ∧ dom_Vec3i16 (PacketSpawnEntity_velocity p).
Definition bytes_PacketSpawnEntity (p : PacketSpawnEntity) : list byte :=
  concat [varint_bytes (PacketSpawnEntity_entity_id p);
    be_bytes 16 (PacketSpawnEntity_object_uuid p);
    varint_bytes (PacketSpawnEntity_type p);
    be_bytes 8 (PacketSpawnEntity_x p);
    be_bytes 8 (PacketSpawnEntity_y p);
    be_bytes 8 (PacketSpawnEntity_z p);
    be_bytes 1 (PacketSpawnEntity_pitch p);
    be_bytes 1 (PacketSpawnEntity_yaw p);
    be_bytes 1 (PacketSpawnEntity_head_pitch p);
    varint_bytes (PacketSpawnEntity_object_data p);
    bytes_Vec3i16 (PacketSpawnEntity_velocity p)].
#[export] Instance lawful_PacketSpawnEntity : LawfulCodec wire_PacketSpawnEntity dom_PacketSpawnEntity bytes_PacketSpawnEntity.
Proof. solve_packet. Qed.

Record PacketSpawnEntityExperienceOrb : Type := mkPacketSpawnEntityExperienceOrb {
  PacketSpawnEntityExperienceOrb_entity_id : Z;
  PacketSpawnEntityExperienceOrb_x : Z;
  PacketSpawnEntityExperienceOrb_y : Z;
  PacketSpawnEntityExperienceOrb_z : Z;
  PacketSpawnEntityExperienceOrb_count : Z;
}.
Definition wire_PacketSpawnEntityExperienceOrb : Codec PacketSpawnEntityExperienceOrb := {|
  encode p :=
    modify (write_varint (PacketSpawnEntityExperienceOrb_entity_id p)) ;;;
    encode wire_f64 (PacketSpawnEntityExperienceOrb_x p) ;;;
    encode wire_f64 (PacketSpawnEntityExperienceOrb_y p) ;;;
    encode wire_f64 (PacketSpawnEntityExperienceOrb_z p) ;;;
    encode wire_i16 (PacketSpawnEntityExperienceOrb_count p) ;;;
    ret tt;
  decode :=
    let* entity_id := read_varint in
    let* x := decode wire_f64 in
    let* y := decode wire_f64 in
    let* z := decode wire_f64 in
    let* count := decode wire_i16 in
    ret (mkPacketSpawnEntityExperienceOrb entity_id x y z count);
|}.
Definition dom_PacketSpawnEntityExperienceOrb (p : PacketSpawnEntityExperienceOrb) : Prop :=
  in_i 32 (PacketSpawnEntityExperienceOrb_entity_id p)
  ∧ in_u 64 (PacketSpawnEntityExperienceOrb_x p)
  ∧ in_u 64 (PacketSpawnEntityExperienceOrb_y p)
  ∧ in_u 64 (PacketSpawnEntityExperienceOrb_z p)
  ∧ in_i 16 (PacketSpawnEntityExperienceOrb_count p).
Definition bytes_PacketSpawnEntityExperienceOrb (p : PacketSpawnEntityExperienceOrb) : list byte :=
  concat [varint_bytes (PacketSpawnEntityExperienceOrb_entity_id p);
    be_bytes 8 (PacketSpawnEntityExperienceOrb_x p);
    be_bytes 8 (PacketSpawnEntityExperienceOrb_y p);
    be_bytes 8 (PacketSpawnEntityExperienceOrb_z p);
    be_bytes 2 (PacketSpawnEntityExperienceOrb_count p)].
#[export] Instance lawful_PacketSpawnEntityExperienceOrb : LawfulCodec wire_PacketSpawnEntityExperienceOrb dom_PacketSpawnEntityExperienceOrb bytes_PacketSpawnEntityExperienceOrb.
Proof. solve_packet. Qed.

Record PacketAnimation : Type := mkPacketAnimation {
  PacketAnimation_entity_id : Z;
  PacketAnimation_animation : Z;
}.
Definition wire_PacketAnimation : Codec PacketAnimation := {|
  encode p :=
    modify (write_varint (PacketAnimation_entity_id p)) ;;;
    encode wire_u8 (PacketAnimation_animation p) ;;;
    ret tt;
  decode :=
    let* entity_id := read_varint in
    let* animation := decode wire_u8 in
    ret (mkPacketAnimation entity_id animation);
|}.
Definition dom_PacketAnimation (p : PacketAnimation) : Prop :=
  in_i 32 (PacketAnimation_entity_id p)
  ∧ in_u 8 (PacketAnimation_animation p).
Definition bytes_PacketAnimation (p : PacketAnimation) : list byte :=
  concat [varint_bytes (PacketAnimation_entity_id p);
    be_bytes 1 (PacketAnimation_animation p)].
#[export] Instance lawful_PacketAnimation : LawfulCodec wire_PacketAnimation dom_PacketAnimation bytes_PacketAnimation.
Proof. solve_packet. Qed.

Record PacketStatisticsEntriesItem : Type := mkPacketStatisticsEntriesItem {
  PacketStatisticsEntriesItem_category_id : Z;
  PacketStatisticsEntriesItem_statistic_id : Z;
  PacketStatisticsEntriesItem_value : Z;
}.
Definition wire_PacketStatisticsEntriesItem : Codec PacketStatisticsEntriesItem := {|
  encode p :=
    modify (write_varint (PacketStatisticsEntriesItem_category_id p)) ;;;
    modify (write_varint (PacketStatisticsEntriesItem_statistic_id p)) ;;;
    modify (write_varint (PacketStatisticsEntriesItem_value p)) ;;;
    ret tt;
  decode :=
    let* category_id := read_varint in
    let* statistic_id := read_varint in
    let* value := read_varint in
    ret (mkPacketStatisticsEntriesItem category_id statistic_id value);
|}.
Definition dom_PacketStatisticsEntriesItem (p : PacketStatisticsEntriesItem) : Prop :=
  in_i 32 (PacketStatisticsEntriesItem_category_id p)
  ∧ in_i 32 (PacketStatisticsEntriesItem_statistic_id p)
  ∧ in_i 32 (PacketStatisticsEntriesItem_value p).
Definition bytes_PacketStatisticsEntriesItem (p : PacketStatisticsEntriesItem) : list byte :=
  concat [varint_bytes (PacketStatisticsEntriesItem_category_id p);
    varint_bytes (PacketStatisticsEntriesItem_statistic_id p);
    varint_bytes (PacketStatisticsEntriesItem_value p)].
#[export] Instance lawful_PacketStatisticsEntriesItem : LawfulCodec wire_PacketStatisticsEntriesItem dom_PacketStatisticsEntriesItem bytes_PacketStatisticsEntriesItem.
Proof. solve_packet. Qed.
#[export] Instance cost_PacketStatisticsEntriesItem : CodecCost dom_PacketStatisticsEntriesItem bytes_PacketStatisticsEntriesItem.
Proof. solve_cost. Qed.

Record PacketStatistics : Type := mkPacketStatistics {
  PacketStatistics_entries : list PacketStatisticsEntriesItem;
}.
Definition wire_PacketStatistics : Codec PacketStatistics := {|
  encode p :=
    encode (wire_Vec wire_PacketStatisticsEntriesItem) (PacketStatistics_entries p) ;;;
    ret tt;
  decode :=
    let* entries := decode (wire_Vec wire_PacketStatisticsEntriesItem) in
    ret (mkPacketStatistics entries);
|}.
Definition dom_PacketStatistics (p : PacketStatistics) : Prop :=
  vec_dom dom_PacketStatisticsEntriesItem (PacketStatistics_entries p).
Definition bytes_PacketStatistics (p : PacketStatistics) : list byte :=
  concat [vec_bytes bytes_PacketStatisticsEntriesItem (PacketStatistics_entries p)].
#[export] Instance lawful_PacketStatistics : LawfulCodec wire_PacketStatistics dom_PacketStatistics bytes_PacketStatistics.
Proof. solve_packet. Qed.

Record PacketAcknowledgePlayerDigging : Type := mkPacketAcknowledgePlayerDigging {
  PacketAcknowledgePlayerDigging_sequence_id : Z;
}.
Definition wire_PacketAcknowledgePlayerDigging : Codec PacketAcknowledgePlayerDigging := {|
  encode p :=
    modify (write_varint (PacketAcknowledgePlayerDigging_sequence_id p)) ;;;
    ret tt;
  decode :=
    let* sequence_id := read_varint in
    ret (mkPacketAcknowledgePlayerDigging sequence_id);
|}.
Definition dom_PacketAcknowledgePlayerDigging (p : PacketAcknowledgePlayerDigging) : Prop :=
  in_i 32 (PacketAcknowledgePlayerDigging_sequence_id p).
Definition bytes_PacketAcknowledgePlayerDigging (p : PacketAcknowledgePlayerDigging) : list byte :=
  concat [varint_bytes (PacketAcknowledgePlayerDigging_sequence_id p)].
#[export] Instance lawful_PacketAcknowledgePlayerDigging : LawfulCodec wire_PacketAcknowledgePlayerDigging dom_PacketAcknowledgePlayerDigging bytes_PacketAcknowledgePlayerDigging.
Proof. solve_packet. Qed.

Record PacketBlockBreakAnimation : Type := mkPacketBlockBreakAnimation {
  PacketBlockBreakAnimation_entity_id : Z;
  PacketBlockBreakAnimation_location : Position;
  PacketBlockBreakAnimation_destroy_stage : Z;
}.
Definition wire_PacketBlockBreakAnimation : Codec PacketBlockBreakAnimation := {|
  encode p :=
    modify (write_varint (PacketBlockBreakAnimation_entity_id p)) ;;;
    encode wire_Position (PacketBlockBreakAnimation_location p) ;;;
    encode wire_i8 (PacketBlockBreakAnimation_destroy_stage p) ;;;
    ret tt;
  decode :=
    let* entity_id := read_varint in
    let* location := decode wire_Position in
    let* destroy_stage := decode wire_i8 in
    ret (mkPacketBlockBreakAnimation entity_id location destroy_stage);
|}.
Definition dom_PacketBlockBreakAnimation (p : PacketBlockBreakAnimation) : Prop :=
  in_i 32 (PacketBlockBreakAnimation_entity_id p)
  ∧ dom_Position (PacketBlockBreakAnimation_location p)
  ∧ in_i 8 (PacketBlockBreakAnimation_destroy_stage p).
Definition bytes_PacketBlockBreakAnimation (p : PacketBlockBreakAnimation) : list byte :=
  concat [varint_bytes (PacketBlockBreakAnimation_entity_id p);
    bytes_Position (PacketBlockBreakAnimation_location p);
    be_bytes 1 (PacketBlockBreakAnimation_destroy_stage p)].
#[export] Instance lawful_PacketBlockBreakAnimation : LawfulCodec wire_PacketBlockBreakAnimation dom_PacketBlockBreakAnimation bytes_PacketBlockBreakAnimation.
Proof. solve_packet. Qed.

Record PacketBlockAction : Type := mkPacketBlockAction {
  PacketBlockAction_location : Position;
  PacketBlockAction_byte1 : Z;
  PacketBlockAction_byte2 : Z;
  PacketBlockAction_block_id : Z;
}.
Definition wire_PacketBlockAction : Codec PacketBlockAction := {|
  encode p :=
    encode wire_Position (PacketBlockAction_location p) ;;;
    encode wire_u8 (PacketBlockAction_byte1 p) ;;;
    encode wire_u8 (PacketBlockAction_byte2 p) ;;;
    modify (write_varint (PacketBlockAction_block_id p)) ;;;
    ret tt;
  decode :=
    let* location := decode wire_Position in
    let* byte1 := decode wire_u8 in
    let* byte2 := decode wire_u8 in
    let* block_id := read_varint in
    ret (mkPacketBlockAction location byte1 byte2 block_id);
|}.
Definition dom_PacketBlockAction (p : PacketBlockAction) : Prop :=
  dom_Position (PacketBlockAction_location p)
  ∧ in_u 8 (PacketBlockAction_byte1 p)
  ∧ in_u 8 (PacketBlockAction_byte2 p)
  ∧ in_i 32 (PacketBlockAction_block_id p).
Definition bytes_PacketBlockAction (p : PacketBlockAction) : list byte :=
  concat [bytes_Position (PacketBlockAction_location p);
    be_bytes 1 (PacketBlockAction_byte1 p);
    be_bytes 1 (PacketBlockAction_byte2 p);
    varint_bytes (PacketBlockAction_block_id p)].
#[export] Instance lawful_PacketBlockAction : LawfulCodec wire_PacketBlockAction dom_PacketBlockAction bytes_PacketBlockAction.
Proof. solve_packet. Qed.

Record PacketBlockChange : Type := mkPacketBlockChange {
  PacketBlockChange_location : Position;
  PacketBlockChange_type : Z;
}.
Definition wire_PacketBlockChange : Codec PacketBlockChange := {|
  encode p :=
    encode wire_Position (PacketBlockChange_location p) ;;;
    modify (write_varint (PacketBlockChange_type p)) ;;;
    ret tt;
  decode :=
    let* location := decode wire_Position in
    let* type_ := read_varint in
    ret (mkPacketBlockChange location type_);
|}.
Definition dom_PacketBlockChange (p : PacketBlockChange) : Prop :=
  dom_Position (PacketBlockChange_location p)
  ∧ in_i 32 (PacketBlockChange_type p).
Definition bytes_PacketBlockChange (p : PacketBlockChange) : list byte :=
  concat [bytes_Position (PacketBlockChange_location p);
    varint_bytes (PacketBlockChange_type p)].
#[export] Instance lawful_PacketBlockChange : LawfulCodec wire_PacketBlockChange dom_PacketBlockChange bytes_PacketBlockChange.
Proof. solve_packet. Qed.

Record PacketDifficulty : Type := mkPacketDifficulty {
  PacketDifficulty_difficulty : Z;
  PacketDifficulty_difficulty_locked : bool;
}.
Definition wire_PacketDifficulty : Codec PacketDifficulty := {|
  encode p :=
    encode wire_u8 (PacketDifficulty_difficulty p) ;;;
    encode wire_bool (PacketDifficulty_difficulty_locked p) ;;;
    ret tt;
  decode :=
    let* difficulty := decode wire_u8 in
    let* difficulty_locked := decode wire_bool in
    ret (mkPacketDifficulty difficulty difficulty_locked);
|}.
Definition dom_PacketDifficulty (p : PacketDifficulty) : Prop :=
  in_u 8 (PacketDifficulty_difficulty p).
Definition bytes_PacketDifficulty (p : PacketDifficulty) : list byte :=
  concat [be_bytes 1 (PacketDifficulty_difficulty p);
    bool_bytes (PacketDifficulty_difficulty_locked p)].
#[export] Instance lawful_PacketDifficulty : LawfulCodec wire_PacketDifficulty dom_PacketDifficulty bytes_PacketDifficulty.
Proof. solve_packet. Qed.

Record PacketChunkBatchFinished : Type := mkPacketChunkBatchFinished {
  PacketChunkBatchFinished_batch_size : Z;
}.
Definition wire_PacketChunkBatchFinished : Codec PacketChunkBatchFinished := {|
  encode p :=
    modify (write_varint (PacketChunkBatchFinished_batch_size p)) ;;;
    ret tt;
  decode :=
    let* batch_size := read_varint in
    ret (mkPacketChunkBatchFinished batch_size);
|}.
Definition dom_PacketChunkBatchFinished (p : PacketChunkBatchFinished) : Prop :=
  in_i 32 (PacketChunkBatchFinished_batch_size p).
Definition bytes_PacketChunkBatchFinished (p : PacketChunkBatchFinished) : list byte :=
  concat [varint_bytes (PacketChunkBatchFinished_batch_size p)].
#[export] Instance lawful_PacketChunkBatchFinished : LawfulCodec wire_PacketChunkBatchFinished dom_PacketChunkBatchFinished bytes_PacketChunkBatchFinished.
Proof. solve_packet. Qed.

Record PacketChunkBiomesBiomesItem : Type := mkPacketChunkBiomesBiomesItem {
  PacketChunkBiomesBiomesItem_position : PackedChunkPos;
  PacketChunkBiomesBiomesItem_data : list Z;
}.
Definition wire_PacketChunkBiomesBiomesItem : Codec PacketChunkBiomesBiomesItem := {|
  encode p :=
    encode wire_PackedChunkPos (PacketChunkBiomesBiomesItem_position p) ;;;
    encode (wire_Vec wire_u8) (PacketChunkBiomesBiomesItem_data p) ;;;
    ret tt;
  decode :=
    let* position := decode wire_PackedChunkPos in
    let* data := decode (wire_Vec wire_u8) in
    ret (mkPacketChunkBiomesBiomesItem position data);
|}.
Definition dom_PacketChunkBiomesBiomesItem (p : PacketChunkBiomesBiomesItem) : Prop :=
  dom_PackedChunkPos (PacketChunkBiomesBiomesItem_position p)
  ∧ vec_dom (in_u 8) (PacketChunkBiomesBiomesItem_data p).
Definition bytes_PacketChunkBiomesBiomesItem (p : PacketChunkBiomesBiomesItem) : list byte :=
  concat [bytes_PackedChunkPos (PacketChunkBiomesBiomesItem_position p);
    vec_bytes (be_bytes 1) (PacketChunkBiomesBiomesItem_data p)].
#[export] Instance lawful_PacketChunkBiomesBiomesItem : LawfulCodec wire_PacketChunkBiomesBiomesItem dom_PacketChunkBiomesBiomesItem bytes_PacketChunkBiomesBiomesItem.
Proof. solve_packet. Qed.
#[export] Instance cost_PacketChunkBiomesBiomesItem : CodecCost dom_PacketChunkBiomesBiomesItem bytes_PacketChunkBiomesBiomesItem.
Proof. solve_cost. Qed.

Record PacketChunkBiomes : Type := mkPacketChunkBiomes {
  PacketChunkBiomes_biomes : list PacketChunkBiomesBiomesItem;
}.
Definition wire_PacketChunkBiomes : Codec PacketChunkBiomes := {|
  encode p :=
    encode (wire_Vec wire_PacketChunkBiomesBiomesItem) (PacketChunkBiomes_biomes p) ;;;
    ret tt;
  decode :=
    let* biomes := decode (wire_Vec wire_PacketChunkBiomesBiomesItem) in
    ret (mkPacketChunkBiomes biomes);
|}.
Definition dom_PacketChunkBiomes (p : PacketChunkBiomes) : Prop :=
  vec_dom dom_PacketChunkBiomesBiomesItem (PacketChunkBiomes_biomes p).
Definition bytes_PacketChunkBiomes (p : PacketChunkBiomes) : list byte :=
  concat [vec_bytes bytes_PacketChunkBiomesBiomesItem (PacketChunkBiomes_biomes p)].
#[export] Instance lawful_PacketChunkBiomes : LawfulCodec wire_PacketChunkBiomes dom_PacketChunkBiomes bytes_PacketChunkBiomes.
Proof. solve_packet. Qed.

Record PacketClearTitles : Type := mkPacketClearTitles {
  PacketClearTitles_reset : bool;
}.
Definition wire_PacketClearTitles : Codec PacketClearTitles := {|
  encode p :=
    encode wire_bool (PacketClearTitles_reset p) ;;;
    ret tt;
  decode :=
    let* reset := decode wire_bool in
    ret (mkPacketClearTitles reset);
|}.
Definition dom_PacketClearTitles (p : PacketClearTitles) : Prop :=
  True.
Definition bytes_PacketClearTitles (p : PacketClearTitles) : list byte :=
  concat [bool_bytes (PacketClearTitles_reset p)].
#[export] Instance lawful_PacketClearTitles : LawfulCodec wire_PacketClearTitles dom_PacketClearTitles bytes_PacketClearTitles.
Proof. solve_packet. Qed.

Record PacketTabCompleteMatchesItem : Type := mkPacketTabCompleteMatchesItem {
  PacketTabCompleteMatchesItem_match : string;
  PacketTabCompleteMatchesItem_tooltip : option Nbt;
}.
Definition wire_PacketTabCompleteMatchesItem : Codec PacketTabCompleteMatchesItem := {|
  encode p :=
    encode wire_String (PacketTabCompleteMatchesItem_match p) ;;;
    encode (wire_Option wire_Nbt) (PacketTabCompleteMatchesItem_tooltip p) ;;;
    ret tt;
  decode :=
    let* match_ := decode wire_String in
    let* tooltip := decode (wire_Option wire_Nbt) in
    ret (mkPacketTabCompleteMatchesItem match_ tooltip);
|}.
Definition dom_PacketTabCompleteMatchesItem (p : PacketTabCompleteMatchesItem) : Prop :=
  wire_string (PacketTabCompleteMatchesItem_match p)
  ∧ option_dom nbt_fits (PacketTabCompleteMatchesItem_tooltip p).
Definition bytes_PacketTabCompleteMatchesItem (p : PacketTabCompleteMatchesItem) : list byte :=
  concat [string_bytes (PacketTabCompleteMatchesItem_match p);
    option_bytes nbt_bytes (PacketTabCompleteMatchesItem_tooltip p)].
#[export] Instance lawful_PacketTabCompleteMatchesItem : LawfulCodec wire_PacketTabCompleteMatchesItem dom_PacketTabCompleteMatchesItem bytes_PacketTabCompleteMatchesItem.
Proof. solve_packet. Qed.
#[export] Instance cost_PacketTabCompleteMatchesItem : CodecCost dom_PacketTabCompleteMatchesItem bytes_PacketTabCompleteMatchesItem.
Proof. solve_cost. Qed.

Record PacketTabComplete : Type := mkPacketTabComplete {
  PacketTabComplete_transaction_id : Z;
  PacketTabComplete_start : Z;
  PacketTabComplete_length : Z;
  PacketTabComplete_matches : list PacketTabCompleteMatchesItem;
}.
Definition wire_PacketTabComplete : Codec PacketTabComplete := {|
  encode p :=
    modify (write_varint (PacketTabComplete_transaction_id p)) ;;;
    modify (write_varint (PacketTabComplete_start p)) ;;;
    modify (write_varint (PacketTabComplete_length p)) ;;;
    encode (wire_Vec wire_PacketTabCompleteMatchesItem) (PacketTabComplete_matches p) ;;;
    ret tt;
  decode :=
    let* transaction_id := read_varint in
    let* start := read_varint in
    let* length := read_varint in
    let* matches := decode (wire_Vec wire_PacketTabCompleteMatchesItem) in
    ret (mkPacketTabComplete transaction_id start length matches);
|}.
Definition dom_PacketTabComplete (p : PacketTabComplete) : Prop :=
  in_i 32 (PacketTabComplete_transaction_id p)
  ∧ in_i 32 (PacketTabComplete_start p)
  ∧ in_i 32 (PacketTabComplete_length p)
  ∧ vec_dom dom_PacketTabCompleteMatchesItem (PacketTabComplete_matches p).
Definition bytes_PacketTabComplete (p : PacketTabComplete) : list byte :=
  concat [varint_bytes (PacketTabComplete_transaction_id p);
    varint_bytes (PacketTabComplete_start p);
    varint_bytes (PacketTabComplete_length p);
    vec_bytes bytes_PacketTabCompleteMatchesItem (PacketTabComplete_matches p)].
#[export] Instance lawful_PacketTabComplete : LawfulCodec wire_PacketTabComplete dom_PacketTabComplete bytes_PacketTabComplete.
Proof. solve_packet. Qed.

Record PacketCloseWindow : Type := mkPacketCloseWindow {
  PacketCloseWindow_window_id : Z;
}.
Definition wire_PacketCloseWindow : Codec PacketCloseWindow := {|
  encode p :=
    modify (write_varint (PacketCloseWindow_window_id p)) ;;;
    ret tt;
  decode :=
    let* window_id := read_varint in
    ret (mkPacketCloseWindow window_id);
|}.
Definition dom_PacketCloseWindow (p : PacketCloseWindow) : Prop :=
  in_i 32 (PacketCloseWindow_window_id p).
Definition bytes_PacketCloseWindow (p : PacketCloseWindow) : list byte :=
  concat [varint_bytes (PacketCloseWindow_window_id p)].
#[export] Instance lawful_PacketCloseWindow : LawfulCodec wire_PacketCloseWindow dom_PacketCloseWindow bytes_PacketCloseWindow.
Proof. solve_packet. Qed.

Record PacketCraftProgressBar : Type := mkPacketCraftProgressBar {
  PacketCraftProgressBar_window_id : Z;
  PacketCraftProgressBar_property : Z;
  PacketCraftProgressBar_value : Z;
}.
Definition wire_PacketCraftProgressBar : Codec PacketCraftProgressBar := {|
  encode p :=
    modify (write_varint (PacketCraftProgressBar_window_id p)) ;;;
    encode wire_i16 (PacketCraftProgressBar_property p) ;;;
    encode wire_i16 (PacketCraftProgressBar_value p) ;;;
    ret tt;
  decode :=
    let* window_id := read_varint in
    let* property := decode wire_i16 in
    let* value := decode wire_i16 in
    ret (mkPacketCraftProgressBar window_id property value);
|}.
Definition dom_PacketCraftProgressBar (p : PacketCraftProgressBar) : Prop :=
  in_i 32 (PacketCraftProgressBar_window_id p)
  ∧ in_i 16 (PacketCraftProgressBar_property p)
  ∧ in_i 16 (PacketCraftProgressBar_value p).
Definition bytes_PacketCraftProgressBar (p : PacketCraftProgressBar) : list byte :=
  concat [varint_bytes (PacketCraftProgressBar_window_id p);
    be_bytes 2 (PacketCraftProgressBar_property p);
    be_bytes 2 (PacketCraftProgressBar_value p)].
#[export] Instance lawful_PacketCraftProgressBar : LawfulCodec wire_PacketCraftProgressBar dom_PacketCraftProgressBar bytes_PacketCraftProgressBar.
Proof. solve_packet. Qed.

Record PacketSetCooldown : Type := mkPacketSetCooldown {
  PacketSetCooldown_cooldown_group : string;
  PacketSetCooldown_cooldown_ticks : Z;
}.
Definition wire_PacketSetCooldown : Codec PacketSetCooldown := {|
  encode p :=
    encode wire_String (PacketSetCooldown_cooldown_group p) ;;;
    modify (write_varint (PacketSetCooldown_cooldown_ticks p)) ;;;
    ret tt;
  decode :=
    let* cooldown_group := decode wire_String in
    let* cooldown_ticks := read_varint in
    ret (mkPacketSetCooldown cooldown_group cooldown_ticks);
|}.
Definition dom_PacketSetCooldown (p : PacketSetCooldown) : Prop :=
  wire_string (PacketSetCooldown_cooldown_group p)
  ∧ in_i 32 (PacketSetCooldown_cooldown_ticks p).
Definition bytes_PacketSetCooldown (p : PacketSetCooldown) : list byte :=
  concat [string_bytes (PacketSetCooldown_cooldown_group p);
    varint_bytes (PacketSetCooldown_cooldown_ticks p)].
#[export] Instance lawful_PacketSetCooldown : LawfulCodec wire_PacketSetCooldown dom_PacketSetCooldown bytes_PacketSetCooldown.
Proof. solve_packet. Qed.

Record PacketChatSuggestions : Type := mkPacketChatSuggestions {
  PacketChatSuggestions_action : Z;
  PacketChatSuggestions_entries : list string;
}.
Definition wire_PacketChatSuggestions : Codec PacketChatSuggestions := {|
  encode p :=
    modify (write_varint (PacketChatSuggestions_action p)) ;;;
    encode (wire_Vec wire_String) (PacketChatSuggestions_entries p) ;;;
    ret tt;
  decode :=
    let* action := read_varint in
    let* entries := decode (wire_Vec wire_String) in
    ret (mkPacketChatSuggestions action entries);
|}.
Definition dom_PacketChatSuggestions (p : PacketChatSuggestions) : Prop :=
  in_i 32 (PacketChatSuggestions_action p)
  ∧ vec_dom wire_string (PacketChatSuggestions_entries p).
Definition bytes_PacketChatSuggestions (p : PacketChatSuggestions) : list byte :=
  concat [varint_bytes (PacketChatSuggestions_action p);
    vec_bytes string_bytes (PacketChatSuggestions_entries p)].
#[export] Instance lawful_PacketChatSuggestions : LawfulCodec wire_PacketChatSuggestions dom_PacketChatSuggestions bytes_PacketChatSuggestions.
Proof. solve_packet. Qed.

Record PacketDamageEvent : Type := mkPacketDamageEvent {
  PacketDamageEvent_entity_id : Z;
  PacketDamageEvent_source_type_id : Z;
  PacketDamageEvent_source_cause_id : Z;
  PacketDamageEvent_source_direct_id : Z;
  PacketDamageEvent_source_position : option Vec3f64;
}.
Definition wire_PacketDamageEvent : Codec PacketDamageEvent := {|
  encode p :=
    modify (write_varint (PacketDamageEvent_entity_id p)) ;;;
    modify (write_varint (PacketDamageEvent_source_type_id p)) ;;;
    modify (write_varint (PacketDamageEvent_source_cause_id p)) ;;;
    modify (write_varint (PacketDamageEvent_source_direct_id p)) ;;;
    encode (wire_Option wire_Vec3f64) (PacketDamageEvent_source_position p) ;;;
    ret tt;
  decode :=
    let* entity_id := read_varint in
    let* source_type_id := read_varint in
    let* source_cause_id := read_varint in
    let* source_direct_id := read_varint in
    let* source_position := decode (wire_Option wire_Vec3f64) in
    ret (mkPacketDamageEvent entity_id source_type_id source_cause_id source_direct_id source_position);
|}.
Definition dom_PacketDamageEvent (p : PacketDamageEvent) : Prop :=
  in_i 32 (PacketDamageEvent_entity_id p)
  ∧ in_i 32 (PacketDamageEvent_source_type_id p)
  ∧ in_i 32 (PacketDamageEvent_source_cause_id p)
  ∧ in_i 32 (PacketDamageEvent_source_direct_id p)
  ∧ option_dom dom_Vec3f64 (PacketDamageEvent_source_position p).
Definition bytes_PacketDamageEvent (p : PacketDamageEvent) : list byte :=
  concat [varint_bytes (PacketDamageEvent_entity_id p);
    varint_bytes (PacketDamageEvent_source_type_id p);
    varint_bytes (PacketDamageEvent_source_cause_id p);
    varint_bytes (PacketDamageEvent_source_direct_id p);
    option_bytes bytes_Vec3f64 (PacketDamageEvent_source_position p)].
#[export] Instance lawful_PacketDamageEvent : LawfulCodec wire_PacketDamageEvent dom_PacketDamageEvent bytes_PacketDamageEvent.
Proof. solve_packet. Qed.

Record PacketDebugSample : Type := mkPacketDebugSample {
  PacketDebugSample_sample : list Z;
  PacketDebugSample_type : Z;
}.
Definition wire_PacketDebugSample : Codec PacketDebugSample := {|
  encode p :=
    encode (wire_Vec wire_i64) (PacketDebugSample_sample p) ;;;
    modify (write_varint (PacketDebugSample_type p)) ;;;
    ret tt;
  decode :=
    let* sample := decode (wire_Vec wire_i64) in
    let* type_ := read_varint in
    ret (mkPacketDebugSample sample type_);
|}.
Definition dom_PacketDebugSample (p : PacketDebugSample) : Prop :=
  vec_dom (in_i 64) (PacketDebugSample_sample p)
  ∧ in_i 32 (PacketDebugSample_type p).
Definition bytes_PacketDebugSample (p : PacketDebugSample) : list byte :=
  concat [vec_bytes (be_bytes 8) (PacketDebugSample_sample p);
    varint_bytes (PacketDebugSample_type p)].
#[export] Instance lawful_PacketDebugSample : LawfulCodec wire_PacketDebugSample dom_PacketDebugSample bytes_PacketDebugSample.
Proof. solve_packet. Qed.

Record PacketKickDisconnect : Type := mkPacketKickDisconnect {
  PacketKickDisconnect_reason : Nbt;
}.
Definition wire_PacketKickDisconnect : Codec PacketKickDisconnect := {|
  encode p :=
    encode wire_Nbt (PacketKickDisconnect_reason p) ;;;
    ret tt;
  decode :=
    let* reason := decode wire_Nbt in
    ret (mkPacketKickDisconnect reason);
|}.
Definition dom_PacketKickDisconnect (p : PacketKickDisconnect) : Prop :=
  nbt_fits (PacketKickDisconnect_reason p).
Definition bytes_PacketKickDisconnect (p : PacketKickDisconnect) : list byte :=
  concat [nbt_bytes (PacketKickDisconnect_reason p)].
#[export] Instance lawful_PacketKickDisconnect : LawfulCodec wire_PacketKickDisconnect dom_PacketKickDisconnect bytes_PacketKickDisconnect.
Proof. solve_packet. Qed.

Inductive ChatTypeParameterType : Type :=
  | ChatTypeParameterType_Content
  | ChatTypeParameterType_Sender
  | ChatTypeParameterType_Target.
Definition value_ChatTypeParameterType (v : ChatTypeParameterType) : Z :=
  match v with
  | ChatTypeParameterType_Content => 0
  | ChatTypeParameterType_Sender => 1
  | ChatTypeParameterType_Target => 2
  end.
Definition wire_ChatTypeParameterType : Codec ChatTypeParameterType := {|
  encode v := modify (write_varint (value_ChatTypeParameterType v));
  decode :=
    let* value := read_varint in
    match value with
    | 0 => ret ChatTypeParameterType_Content
    | 1 => ret ChatTypeParameterType_Sender
    | 2 => ret ChatTypeParameterType_Target
    | _ => raise (UnknownEnumValue "ChatTypeParameterType" value)
    end;
|}.
Definition dom_ChatTypeParameterType (_ : ChatTypeParameterType) : Prop := True.
Definition bytes_ChatTypeParameterType (v : ChatTypeParameterType) : list byte := varint_bytes (value_ChatTypeParameterType v).
#[export] Instance lawful_ChatTypeParameterType : LawfulCodec wire_ChatTypeParameterType dom_ChatTypeParameterType bytes_ChatTypeParameterType.
Proof. solve_enum. Qed.
#[export] Instance cost_ChatTypeParameterType : CodecCost dom_ChatTypeParameterType bytes_ChatTypeParameterType.
Proof. solve_cost. Qed.

Record ChatType : Type := mkChatType {
  ChatType_translation_key : string;
  ChatType_parameters : list ChatTypeParameterType;
  ChatType_style : Nbt;
}.
Definition wire_ChatType : Codec ChatType := {|
  encode p :=
    encode wire_String (ChatType_translation_key p) ;;;
    encode (wire_Vec wire_ChatTypeParameterType) (ChatType_parameters p) ;;;
    encode wire_Nbt (ChatType_style p) ;;;
    ret tt;
  decode :=
    let* translation_key := decode wire_String in
    let* parameters := decode (wire_Vec wire_ChatTypeParameterType) in
    let* style := decode wire_Nbt in
    ret (mkChatType translation_key parameters style);
|}.
Definition dom_ChatType (p : ChatType) : Prop :=
  wire_string (ChatType_translation_key p)
  ∧ vec_dom dom_ChatTypeParameterType (ChatType_parameters p)
  ∧ nbt_fits (ChatType_style p).
Definition bytes_ChatType (p : ChatType) : list byte :=
  concat [string_bytes (ChatType_translation_key p);
    vec_bytes bytes_ChatTypeParameterType (ChatType_parameters p);
    nbt_bytes (ChatType_style p)].
#[export] Instance lawful_ChatType : LawfulCodec wire_ChatType dom_ChatType bytes_ChatType.
Proof. solve_packet. Qed.

Record ChatTypes : Type := mkChatTypes {
  ChatTypes_chat : ChatType;
  ChatTypes_narration : ChatType;
}.
Definition wire_ChatTypes : Codec ChatTypes := {|
  encode p :=
    encode wire_ChatType (ChatTypes_chat p) ;;;
    encode wire_ChatType (ChatTypes_narration p) ;;;
    ret tt;
  decode :=
    let* chat := decode wire_ChatType in
    let* narration := decode wire_ChatType in
    ret (mkChatTypes chat narration);
|}.
Definition dom_ChatTypes (p : ChatTypes) : Prop :=
  dom_ChatType (ChatTypes_chat p)
  ∧ dom_ChatType (ChatTypes_narration p).
Definition bytes_ChatTypes (p : ChatTypes) : list byte :=
  concat [bytes_ChatType (ChatTypes_chat p);
    bytes_ChatType (ChatTypes_narration p)].
#[export] Instance lawful_ChatTypes : LawfulCodec wire_ChatTypes dom_ChatTypes bytes_ChatTypes.
Proof. solve_packet. Qed.

Record PacketProfilelessChat : Type := mkPacketProfilelessChat {
  PacketProfilelessChat_message : Nbt;
  PacketProfilelessChat_type : Holder ChatTypes;
  PacketProfilelessChat_name : Nbt;
  PacketProfilelessChat_target : option Nbt;
}.
Definition wire_PacketProfilelessChat : Codec PacketProfilelessChat := {|
  encode p :=
    encode wire_Nbt (PacketProfilelessChat_message p) ;;;
    encode (wire_Holder wire_ChatTypes) (PacketProfilelessChat_type p) ;;;
    encode wire_Nbt (PacketProfilelessChat_name p) ;;;
    encode (wire_Option wire_Nbt) (PacketProfilelessChat_target p) ;;;
    ret tt;
  decode :=
    let* message := decode wire_Nbt in
    let* type_ := decode (wire_Holder wire_ChatTypes) in
    let* name := decode wire_Nbt in
    let* target := decode (wire_Option wire_Nbt) in
    ret (mkPacketProfilelessChat message type_ name target);
|}.
Definition dom_PacketProfilelessChat (p : PacketProfilelessChat) : Prop :=
  nbt_fits (PacketProfilelessChat_message p)
  ∧ holder_dom dom_ChatTypes (PacketProfilelessChat_type p)
  ∧ nbt_fits (PacketProfilelessChat_name p)
  ∧ option_dom nbt_fits (PacketProfilelessChat_target p).
Definition bytes_PacketProfilelessChat (p : PacketProfilelessChat) : list byte :=
  concat [nbt_bytes (PacketProfilelessChat_message p);
    holder_bytes bytes_ChatTypes (PacketProfilelessChat_type p);
    nbt_bytes (PacketProfilelessChat_name p);
    option_bytes nbt_bytes (PacketProfilelessChat_target p)].
#[export] Instance lawful_PacketProfilelessChat : LawfulCodec wire_PacketProfilelessChat dom_PacketProfilelessChat bytes_PacketProfilelessChat.
Proof. solve_packet. Qed.

Record PacketEntityStatus : Type := mkPacketEntityStatus {
  PacketEntityStatus_entity_id : Z;
  PacketEntityStatus_entity_status : Z;
}.
Definition wire_PacketEntityStatus : Codec PacketEntityStatus := {|
  encode p :=
    modify (put_i32 (PacketEntityStatus_entity_id p)) ;;;
    encode wire_i8 (PacketEntityStatus_entity_status p) ;;;
    ret tt;
  decode :=
    let* entity_id := get_i32 in
    let* entity_status := decode wire_i8 in
    ret (mkPacketEntityStatus entity_id entity_status);
|}.
Definition dom_PacketEntityStatus (p : PacketEntityStatus) : Prop :=
  in_i 32 (PacketEntityStatus_entity_id p)
  ∧ in_i 8 (PacketEntityStatus_entity_status p).
Definition bytes_PacketEntityStatus (p : PacketEntityStatus) : list byte :=
  concat [be_bytes 4 (PacketEntityStatus_entity_id p);
    be_bytes 1 (PacketEntityStatus_entity_status p)].
#[export] Instance lawful_PacketEntityStatus : LawfulCodec wire_PacketEntityStatus dom_PacketEntityStatus bytes_PacketEntityStatus.
Proof. solve_packet. Qed.

Record PacketSyncEntityPosition : Type := mkPacketSyncEntityPosition {
  PacketSyncEntityPosition_entity_id : Z;
  PacketSyncEntityPosition_x : Z;
  PacketSyncEntityPosition_y : Z;
  PacketSyncEntityPosition_z : Z;
  PacketSyncEntityPosition_dx : Z;
  PacketSyncEntityPosition_dy : Z;
  PacketSyncEntityPosition_dz : Z;
  PacketSyncEntityPosition_yaw : Z;
  PacketSyncEntityPosition_pitch : Z;
  PacketSyncEntityPosition_on_ground : bool;
}.
Definition wire_PacketSyncEntityPosition : Codec PacketSyncEntityPosition := {|
  encode p :=
    modify (write_varint (PacketSyncEntityPosition_entity_id p)) ;;;
    encode wire_f64 (PacketSyncEntityPosition_x p) ;;;
    encode wire_f64 (PacketSyncEntityPosition_y p) ;;;
    encode wire_f64 (PacketSyncEntityPosition_z p) ;;;
    encode wire_f64 (PacketSyncEntityPosition_dx p) ;;;
    encode wire_f64 (PacketSyncEntityPosition_dy p) ;;;
    encode wire_f64 (PacketSyncEntityPosition_dz p) ;;;
    encode wire_f32 (PacketSyncEntityPosition_yaw p) ;;;
    encode wire_f32 (PacketSyncEntityPosition_pitch p) ;;;
    encode wire_bool (PacketSyncEntityPosition_on_ground p) ;;;
    ret tt;
  decode :=
    let* entity_id := read_varint in
    let* x := decode wire_f64 in
    let* y := decode wire_f64 in
    let* z := decode wire_f64 in
    let* dx := decode wire_f64 in
    let* dy := decode wire_f64 in
    let* dz := decode wire_f64 in
    let* yaw := decode wire_f32 in
    let* pitch := decode wire_f32 in
    let* on_ground := decode wire_bool in
    ret (mkPacketSyncEntityPosition entity_id x y z dx dy dz yaw pitch on_ground);
|}.
Definition dom_PacketSyncEntityPosition (p : PacketSyncEntityPosition) : Prop :=
  in_i 32 (PacketSyncEntityPosition_entity_id p)
  ∧ in_u 64 (PacketSyncEntityPosition_x p)
  ∧ in_u 64 (PacketSyncEntityPosition_y p)
  ∧ in_u 64 (PacketSyncEntityPosition_z p)
  ∧ in_u 64 (PacketSyncEntityPosition_dx p)
  ∧ in_u 64 (PacketSyncEntityPosition_dy p)
  ∧ in_u 64 (PacketSyncEntityPosition_dz p)
  ∧ in_u 32 (PacketSyncEntityPosition_yaw p)
  ∧ in_u 32 (PacketSyncEntityPosition_pitch p).
Definition bytes_PacketSyncEntityPosition (p : PacketSyncEntityPosition) : list byte :=
  concat [varint_bytes (PacketSyncEntityPosition_entity_id p);
    be_bytes 8 (PacketSyncEntityPosition_x p);
    be_bytes 8 (PacketSyncEntityPosition_y p);
    be_bytes 8 (PacketSyncEntityPosition_z p);
    be_bytes 8 (PacketSyncEntityPosition_dx p);
    be_bytes 8 (PacketSyncEntityPosition_dy p);
    be_bytes 8 (PacketSyncEntityPosition_dz p);
    be_bytes 4 (PacketSyncEntityPosition_yaw p);
    be_bytes 4 (PacketSyncEntityPosition_pitch p);
    bool_bytes (PacketSyncEntityPosition_on_ground p)].
#[export] Instance lawful_PacketSyncEntityPosition : LawfulCodec wire_PacketSyncEntityPosition dom_PacketSyncEntityPosition bytes_PacketSyncEntityPosition.
Proof. solve_packet. Qed.

Record PacketUnloadChunk : Type := mkPacketUnloadChunk {
  PacketUnloadChunk_chunk_z : Z;
  PacketUnloadChunk_chunk_x : Z;
}.
Definition wire_PacketUnloadChunk : Codec PacketUnloadChunk := {|
  encode p :=
    modify (put_i32 (PacketUnloadChunk_chunk_z p)) ;;;
    modify (put_i32 (PacketUnloadChunk_chunk_x p)) ;;;
    ret tt;
  decode :=
    let* chunk_z := get_i32 in
    let* chunk_x := get_i32 in
    ret (mkPacketUnloadChunk chunk_z chunk_x);
|}.
Definition dom_PacketUnloadChunk (p : PacketUnloadChunk) : Prop :=
  in_i 32 (PacketUnloadChunk_chunk_z p)
  ∧ in_i 32 (PacketUnloadChunk_chunk_x p).
Definition bytes_PacketUnloadChunk (p : PacketUnloadChunk) : list byte :=
  concat [be_bytes 4 (PacketUnloadChunk_chunk_z p);
    be_bytes 4 (PacketUnloadChunk_chunk_x p)].
#[export] Instance lawful_PacketUnloadChunk : LawfulCodec wire_PacketUnloadChunk dom_PacketUnloadChunk bytes_PacketUnloadChunk.
Proof. solve_packet. Qed.

Record PacketGameStateChange : Type := mkPacketGameStateChange {
  PacketGameStateChange_reason : Z;
  PacketGameStateChange_game_mode : Z;
}.
Definition wire_PacketGameStateChange : Codec PacketGameStateChange := {|
  encode p :=
    encode wire_u8 (PacketGameStateChange_reason p) ;;;
    encode wire_f32 (PacketGameStateChange_game_mode p) ;;;
    ret tt;
  decode :=
    let* reason := decode wire_u8 in
    let* game_mode := decode wire_f32 in
    ret (mkPacketGameStateChange reason game_mode);
|}.
Definition dom_PacketGameStateChange (p : PacketGameStateChange) : Prop :=
  in_u 8 (PacketGameStateChange_reason p)
  ∧ in_u 32 (PacketGameStateChange_game_mode p).
Definition bytes_PacketGameStateChange (p : PacketGameStateChange) : list byte :=
  concat [be_bytes 1 (PacketGameStateChange_reason p);
    be_bytes 4 (PacketGameStateChange_game_mode p)].
#[export] Instance lawful_PacketGameStateChange : LawfulCodec wire_PacketGameStateChange dom_PacketGameStateChange bytes_PacketGameStateChange.
Proof. solve_packet. Qed.

Record PacketOpenHorseWindow : Type := mkPacketOpenHorseWindow {
  PacketOpenHorseWindow_window_id : Z;
  PacketOpenHorseWindow_nb_slots : Z;
  PacketOpenHorseWindow_entity_id : Z;
}.
Definition wire_PacketOpenHorseWindow : Codec PacketOpenHorseWindow := {|
  encode p :=
    modify (write_varint (PacketOpenHorseWindow_window_id p)) ;;;
    modify (write_varint (PacketOpenHorseWindow_nb_slots p)) ;;;
    modify (put_i32 (PacketOpenHorseWindow_entity_id p)) ;;;
    ret tt;
  decode :=
    let* window_id := read_varint in
    let* nb_slots := read_varint in
    let* entity_id := get_i32 in
    ret (mkPacketOpenHorseWindow window_id nb_slots entity_id);
|}.
Definition dom_PacketOpenHorseWindow (p : PacketOpenHorseWindow) : Prop :=
  in_i 32 (PacketOpenHorseWindow_window_id p)
  ∧ in_i 32 (PacketOpenHorseWindow_nb_slots p)
  ∧ in_i 32 (PacketOpenHorseWindow_entity_id p).
Definition bytes_PacketOpenHorseWindow (p : PacketOpenHorseWindow) : list byte :=
  concat [varint_bytes (PacketOpenHorseWindow_window_id p);
    varint_bytes (PacketOpenHorseWindow_nb_slots p);
    be_bytes 4 (PacketOpenHorseWindow_entity_id p)].
#[export] Instance lawful_PacketOpenHorseWindow : LawfulCodec wire_PacketOpenHorseWindow dom_PacketOpenHorseWindow bytes_PacketOpenHorseWindow.
Proof. solve_packet. Qed.

Record PacketHurtAnimation : Type := mkPacketHurtAnimation {
  PacketHurtAnimation_entity_id : Z;
  PacketHurtAnimation_yaw : Z;
}.
Definition wire_PacketHurtAnimation : Codec PacketHurtAnimation := {|
  encode p :=
    modify (write_varint (PacketHurtAnimation_entity_id p)) ;;;
    encode wire_f32 (PacketHurtAnimation_yaw p) ;;;
    ret tt;
  decode :=
    let* entity_id := read_varint in
    let* yaw := decode wire_f32 in
    ret (mkPacketHurtAnimation entity_id yaw);
|}.
Definition dom_PacketHurtAnimation (p : PacketHurtAnimation) : Prop :=
  in_i 32 (PacketHurtAnimation_entity_id p)
  ∧ in_u 32 (PacketHurtAnimation_yaw p).
Definition bytes_PacketHurtAnimation (p : PacketHurtAnimation) : list byte :=
  concat [varint_bytes (PacketHurtAnimation_entity_id p);
    be_bytes 4 (PacketHurtAnimation_yaw p)].
#[export] Instance lawful_PacketHurtAnimation : LawfulCodec wire_PacketHurtAnimation dom_PacketHurtAnimation bytes_PacketHurtAnimation.
Proof. solve_packet. Qed.

Record PacketInitializeWorldBorder : Type := mkPacketInitializeWorldBorder {
  PacketInitializeWorldBorder_x : Z;
  PacketInitializeWorldBorder_z : Z;
  PacketInitializeWorldBorder_old_diameter : Z;
  PacketInitializeWorldBorder_new_diameter : Z;
  PacketInitializeWorldBorder_speed : Z;
  PacketInitializeWorldBorder_portal_teleport_boundary : Z;
  PacketInitializeWorldBorder_warning_blocks : Z;
  PacketInitializeWorldBorder_warning_time : Z;
}.
Definition wire_PacketInitializeWorldBorder : Codec PacketInitializeWorldBorder := {|
  encode p :=
    encode wire_f64 (PacketInitializeWorldBorder_x p) ;;;
    encode wire_f64 (PacketInitializeWorldBorder_z p) ;;;
    encode wire_f64 (PacketInitializeWorldBorder_old_diameter p) ;;;
    encode wire_f64 (PacketInitializeWorldBorder_new_diameter p) ;;;
    modify (write_varint (PacketInitializeWorldBorder_speed p)) ;;;
    modify (write_varint (PacketInitializeWorldBorder_portal_teleport_boundary p)) ;;;
    modify (write_varint (PacketInitializeWorldBorder_warning_blocks p)) ;;;
    modify (write_varint (PacketInitializeWorldBorder_warning_time p)) ;;;
    ret tt;
  decode :=
    let* x := decode wire_f64 in
    let* z := decode wire_f64 in
    let* old_diameter := decode wire_f64 in
    let* new_diameter := decode wire_f64 in
    let* speed := read_varint in
    let* portal_teleport_boundary := read_varint in
    let* warning_blocks := read_varint in
    let* warning_time := read_varint in
    ret (mkPacketInitializeWorldBorder x z old_diameter new_diameter speed portal_teleport_boundary warning_blocks warning_time);
|}.
Definition dom_PacketInitializeWorldBorder (p : PacketInitializeWorldBorder) : Prop :=
  in_u 64 (PacketInitializeWorldBorder_x p)
  ∧ in_u 64 (PacketInitializeWorldBorder_z p)
  ∧ in_u 64 (PacketInitializeWorldBorder_old_diameter p)
  ∧ in_u 64 (PacketInitializeWorldBorder_new_diameter p)
  ∧ in_i 32 (PacketInitializeWorldBorder_speed p)
  ∧ in_i 32 (PacketInitializeWorldBorder_portal_teleport_boundary p)
  ∧ in_i 32 (PacketInitializeWorldBorder_warning_blocks p)
  ∧ in_i 32 (PacketInitializeWorldBorder_warning_time p).
Definition bytes_PacketInitializeWorldBorder (p : PacketInitializeWorldBorder) : list byte :=
  concat [be_bytes 8 (PacketInitializeWorldBorder_x p);
    be_bytes 8 (PacketInitializeWorldBorder_z p);
    be_bytes 8 (PacketInitializeWorldBorder_old_diameter p);
    be_bytes 8 (PacketInitializeWorldBorder_new_diameter p);
    varint_bytes (PacketInitializeWorldBorder_speed p);
    varint_bytes (PacketInitializeWorldBorder_portal_teleport_boundary p);
    varint_bytes (PacketInitializeWorldBorder_warning_blocks p);
    varint_bytes (PacketInitializeWorldBorder_warning_time p)].
#[export] Instance lawful_PacketInitializeWorldBorder : LawfulCodec wire_PacketInitializeWorldBorder dom_PacketInitializeWorldBorder bytes_PacketInitializeWorldBorder.
Proof. solve_packet. Qed.

Record PacketKeepAlive : Type := mkPacketKeepAlive {
  PacketKeepAlive_keep_alive_id : Z;
}.
Definition wire_PacketKeepAlive : Codec PacketKeepAlive := {|
  encode p :=
    modify (put_i64 (PacketKeepAlive_keep_alive_id p)) ;;;
    ret tt;
  decode :=
    let* keep_alive_id := get_i64 in
    ret (mkPacketKeepAlive keep_alive_id);
|}.
Definition dom_PacketKeepAlive (p : PacketKeepAlive) : Prop :=
  in_i 64 (PacketKeepAlive_keep_alive_id p).
Definition bytes_PacketKeepAlive (p : PacketKeepAlive) : list byte :=
  concat [be_bytes 8 (PacketKeepAlive_keep_alive_id p)].
#[export] Instance lawful_PacketKeepAlive : LawfulCodec wire_PacketKeepAlive dom_PacketKeepAlive bytes_PacketKeepAlive.
Proof. solve_packet. Qed.

Record PacketWorldEvent : Type := mkPacketWorldEvent {
  PacketWorldEvent_effect_id : Z;
  PacketWorldEvent_location : Position;
  PacketWorldEvent_data : Z;
  PacketWorldEvent_global : bool;
}.
Definition wire_PacketWorldEvent : Codec PacketWorldEvent := {|
  encode p :=
    modify (put_i32 (PacketWorldEvent_effect_id p)) ;;;
    encode wire_Position (PacketWorldEvent_location p) ;;;
    modify (put_i32 (PacketWorldEvent_data p)) ;;;
    encode wire_bool (PacketWorldEvent_global p) ;;;
    ret tt;
  decode :=
    let* effect_id := get_i32 in
    let* location := decode wire_Position in
    let* data := get_i32 in
    let* global := decode wire_bool in
    ret (mkPacketWorldEvent effect_id location data global);
|}.
Definition dom_PacketWorldEvent (p : PacketWorldEvent) : Prop :=
  in_i 32 (PacketWorldEvent_effect_id p)
  ∧ dom_Position (PacketWorldEvent_location p)
  ∧ in_i 32 (PacketWorldEvent_data p).
Definition bytes_PacketWorldEvent (p : PacketWorldEvent) : list byte :=
  concat [be_bytes 4 (PacketWorldEvent_effect_id p);
    bytes_Position (PacketWorldEvent_location p);
    be_bytes 4 (PacketWorldEvent_data p);
    bool_bytes (PacketWorldEvent_global p)].
#[export] Instance lawful_PacketWorldEvent : LawfulCodec wire_PacketWorldEvent dom_PacketWorldEvent bytes_PacketWorldEvent.
Proof. solve_packet. Qed.

Record PacketUpdateLight : Type := mkPacketUpdateLight {
  PacketUpdateLight_chunk_x : Z;
  PacketUpdateLight_chunk_z : Z;
  PacketUpdateLight_sky_light_mask : list Z;
  PacketUpdateLight_block_light_mask : list Z;
  PacketUpdateLight_empty_sky_light_mask : list Z;
  PacketUpdateLight_empty_block_light_mask : list Z;
  PacketUpdateLight_sky_light : list (list Z);
  PacketUpdateLight_block_light : list (list Z);
}.
Definition wire_PacketUpdateLight : Codec PacketUpdateLight := {|
  encode p :=
    modify (write_varint (PacketUpdateLight_chunk_x p)) ;;;
    modify (write_varint (PacketUpdateLight_chunk_z p)) ;;;
    encode (wire_Vec wire_i64) (PacketUpdateLight_sky_light_mask p) ;;;
    encode (wire_Vec wire_i64) (PacketUpdateLight_block_light_mask p) ;;;
    encode (wire_Vec wire_i64) (PacketUpdateLight_empty_sky_light_mask p) ;;;
    encode (wire_Vec wire_i64) (PacketUpdateLight_empty_block_light_mask p) ;;;
    encode (wire_Vec (wire_Vec wire_u8)) (PacketUpdateLight_sky_light p) ;;;
    encode (wire_Vec (wire_Vec wire_u8)) (PacketUpdateLight_block_light p) ;;;
    ret tt;
  decode :=
    let* chunk_x := read_varint in
    let* chunk_z := read_varint in
    let* sky_light_mask := decode (wire_Vec wire_i64) in
    let* block_light_mask := decode (wire_Vec wire_i64) in
    let* empty_sky_light_mask := decode (wire_Vec wire_i64) in
    let* empty_block_light_mask := decode (wire_Vec wire_i64) in
    let* sky_light := decode (wire_Vec (wire_Vec wire_u8)) in
    let* block_light := decode (wire_Vec (wire_Vec wire_u8)) in
    ret (mkPacketUpdateLight chunk_x chunk_z sky_light_mask block_light_mask empty_sky_light_mask empty_block_light_mask sky_light block_light);
|}.
Definition dom_PacketUpdateLight (p : PacketUpdateLight) : Prop :=
  in_i 32 (PacketUpdateLight_chunk_x p)
  ∧ in_i 32 (PacketUpdateLight_chunk_z p)
  ∧ vec_dom (in_i 64) (PacketUpdateLight_sky_light_mask p)
  ∧ vec_dom (in_i 64) (PacketUpdateLight_block_light_mask p)
  ∧ vec_dom (in_i 64) (PacketUpdateLight_empty_sky_light_mask p)
  ∧ vec_dom (in_i 64) (PacketUpdateLight_empty_block_light_mask p)
  ∧ vec_dom (vec_dom (in_u 8)) (PacketUpdateLight_sky_light p)
  ∧ vec_dom (vec_dom (in_u 8)) (PacketUpdateLight_block_light p).
Definition bytes_PacketUpdateLight (p : PacketUpdateLight) : list byte :=
  concat [varint_bytes (PacketUpdateLight_chunk_x p);
    varint_bytes (PacketUpdateLight_chunk_z p);
    vec_bytes (be_bytes 8) (PacketUpdateLight_sky_light_mask p);
    vec_bytes (be_bytes 8) (PacketUpdateLight_block_light_mask p);
    vec_bytes (be_bytes 8) (PacketUpdateLight_empty_sky_light_mask p);
    vec_bytes (be_bytes 8) (PacketUpdateLight_empty_block_light_mask p);
    vec_bytes (vec_bytes (be_bytes 1)) (PacketUpdateLight_sky_light p);
    vec_bytes (vec_bytes (be_bytes 1)) (PacketUpdateLight_block_light p)].
#[export] Instance lawful_PacketUpdateLight : LawfulCodec wire_PacketUpdateLight dom_PacketUpdateLight bytes_PacketUpdateLight.
Proof. solve_packet. Qed.

Inductive SpawnInfoGamemode : Type :=
  | SpawnInfoGamemode_Survival
  | SpawnInfoGamemode_Creative
  | SpawnInfoGamemode_Adventure
  | SpawnInfoGamemode_Spectator.
Definition value_SpawnInfoGamemode (v : SpawnInfoGamemode) : Z :=
  match v with
  | SpawnInfoGamemode_Survival => 0
  | SpawnInfoGamemode_Creative => 1
  | SpawnInfoGamemode_Adventure => 2
  | SpawnInfoGamemode_Spectator => 3
  end.
Definition wire_SpawnInfoGamemode : Codec SpawnInfoGamemode := {|
  encode v := modify (put_i8 (value_SpawnInfoGamemode v));
  decode :=
    let* value := get_i8 in
    match value with
    | 0 => ret SpawnInfoGamemode_Survival
    | 1 => ret SpawnInfoGamemode_Creative
    | 2 => ret SpawnInfoGamemode_Adventure
    | 3 => ret SpawnInfoGamemode_Spectator
    | _ => raise (UnknownEnumValue "SpawnInfoGamemode" value)
    end;
|}.
Definition dom_SpawnInfoGamemode (_ : SpawnInfoGamemode) : Prop := True.
Definition bytes_SpawnInfoGamemode (v : SpawnInfoGamemode) : list byte := be_bytes 1 (value_SpawnInfoGamemode v).
#[export] Instance lawful_SpawnInfoGamemode : LawfulCodec wire_SpawnInfoGamemode dom_SpawnInfoGamemode bytes_SpawnInfoGamemode.
Proof. solve_enum. Qed.

Record SpawnInfoDeathValue : Type := mkSpawnInfoDeathValue {
  SpawnInfoDeathValue_dimension_name : string;
  SpawnInfoDeathValue_location : Position;
}.
Definition wire_SpawnInfoDeathValue : Codec SpawnInfoDeathValue := {|
  encode p :=
    encode wire_String (SpawnInfoDeathValue_dimension_name p) ;;;
    encode wire_Position (SpawnInfoDeathValue_location p) ;;;
    ret tt;
  decode :=
    let* dimension_name := decode wire_String in
    let* location := decode wire_Position in
    ret (mkSpawnInfoDeathValue dimension_name location);
|}.
Definition dom_SpawnInfoDeathValue (p : SpawnInfoDeathValue) : Prop :=
  wire_string (SpawnInfoDeathValue_dimension_name p)
  ∧ dom_Position (SpawnInfoDeathValue_location p).
Definition bytes_SpawnInfoDeathValue (p : SpawnInfoDeathValue) : list byte :=
  concat [string_bytes (SpawnInfoDeathValue_dimension_name p);
    bytes_Position (SpawnInfoDeathValue_location p)].
#[export] Instance lawful_SpawnInfoDeathValue : LawfulCodec wire_SpawnInfoDeathValue dom_SpawnInfoDeathValue bytes_SpawnInfoDeathValue.
Proof. solve_packet. Qed.

Record SpawnInfo : Type := mkSpawnInfo {
  SpawnInfo_dimension : Z;
  SpawnInfo_name : string;
  SpawnInfo_hashed_seed : Z;
  SpawnInfo_gamemode : SpawnInfoGamemode;
  SpawnInfo_previous_gamemode : Z;
  SpawnInfo_is_debug : bool;
  SpawnInfo_is_flat : bool;
  SpawnInfo_death : option SpawnInfoDeathValue;
  SpawnInfo_portal_cooldown : Z;
  SpawnInfo_sea_level : Z;
}.
Definition wire_SpawnInfo : Codec SpawnInfo := {|
  encode p :=
    modify (write_varint (SpawnInfo_dimension p)) ;;;
    encode wire_String (SpawnInfo_name p) ;;;
    modify (put_i64 (SpawnInfo_hashed_seed p)) ;;;
    encode wire_SpawnInfoGamemode (SpawnInfo_gamemode p) ;;;
    encode wire_u8 (SpawnInfo_previous_gamemode p) ;;;
    encode wire_bool (SpawnInfo_is_debug p) ;;;
    encode wire_bool (SpawnInfo_is_flat p) ;;;
    encode (wire_Option wire_SpawnInfoDeathValue) (SpawnInfo_death p) ;;;
    modify (write_varint (SpawnInfo_portal_cooldown p)) ;;;
    modify (write_varint (SpawnInfo_sea_level p)) ;;;
    ret tt;
  decode :=
    let* dimension := read_varint in
    let* name := decode wire_String in
    let* hashed_seed := get_i64 in
    let* gamemode := decode wire_SpawnInfoGamemode in
    let* previous_gamemode := decode wire_u8 in
    let* is_debug := decode wire_bool in
    let* is_flat := decode wire_bool in
    let* death := decode (wire_Option wire_SpawnInfoDeathValue) in
    let* portal_cooldown := read_varint in
    let* sea_level := read_varint in
    ret (mkSpawnInfo dimension name hashed_seed gamemode previous_gamemode is_debug is_flat death portal_cooldown sea_level);
|}.
Definition dom_SpawnInfo (p : SpawnInfo) : Prop :=
  in_i 32 (SpawnInfo_dimension p)
  ∧ wire_string (SpawnInfo_name p)
  ∧ in_i 64 (SpawnInfo_hashed_seed p)
  ∧ dom_SpawnInfoGamemode (SpawnInfo_gamemode p)
  ∧ in_u 8 (SpawnInfo_previous_gamemode p)
  ∧ option_dom dom_SpawnInfoDeathValue (SpawnInfo_death p)
  ∧ in_i 32 (SpawnInfo_portal_cooldown p)
  ∧ in_i 32 (SpawnInfo_sea_level p).
Definition bytes_SpawnInfo (p : SpawnInfo) : list byte :=
  concat [varint_bytes (SpawnInfo_dimension p);
    string_bytes (SpawnInfo_name p);
    be_bytes 8 (SpawnInfo_hashed_seed p);
    bytes_SpawnInfoGamemode (SpawnInfo_gamemode p);
    be_bytes 1 (SpawnInfo_previous_gamemode p);
    bool_bytes (SpawnInfo_is_debug p);
    bool_bytes (SpawnInfo_is_flat p);
    option_bytes bytes_SpawnInfoDeathValue (SpawnInfo_death p);
    varint_bytes (SpawnInfo_portal_cooldown p);
    varint_bytes (SpawnInfo_sea_level p)].
#[export] Instance lawful_SpawnInfo : LawfulCodec wire_SpawnInfo dom_SpawnInfo bytes_SpawnInfo.
Proof. solve_packet. Qed.

Record PacketLogin : Type := mkPacketLogin {
  PacketLogin_entity_id : Z;
  PacketLogin_is_hardcore : bool;
  PacketLogin_world_names : list string;
  PacketLogin_max_players : Z;
  PacketLogin_view_distance : Z;
  PacketLogin_simulation_distance : Z;
  PacketLogin_reduced_debug_info : bool;
  PacketLogin_enable_respawn_screen : bool;
  PacketLogin_do_limited_crafting : bool;
  PacketLogin_world_state : SpawnInfo;
  PacketLogin_enforces_secure_chat : bool;
}.
Definition wire_PacketLogin : Codec PacketLogin := {|
  encode p :=
    modify (put_i32 (PacketLogin_entity_id p)) ;;;
    encode wire_bool (PacketLogin_is_hardcore p) ;;;
    encode (wire_Vec wire_String) (PacketLogin_world_names p) ;;;
    modify (write_varint (PacketLogin_max_players p)) ;;;
    modify (write_varint (PacketLogin_view_distance p)) ;;;
    modify (write_varint (PacketLogin_simulation_distance p)) ;;;
    encode wire_bool (PacketLogin_reduced_debug_info p) ;;;
    encode wire_bool (PacketLogin_enable_respawn_screen p) ;;;
    encode wire_bool (PacketLogin_do_limited_crafting p) ;;;
    encode wire_SpawnInfo (PacketLogin_world_state p) ;;;
    encode wire_bool (PacketLogin_enforces_secure_chat p) ;;;
    ret tt;
  decode :=
    let* entity_id := get_i32 in
    let* is_hardcore := decode wire_bool in
    let* world_names := decode (wire_Vec wire_String) in
    let* max_players := read_varint in
    let* view_distance := read_varint in
    let* simulation_distance := read_varint in
    let* reduced_debug_info := decode wire_bool in
    let* enable_respawn_screen := decode wire_bool in
    let* do_limited_crafting := decode wire_bool in
    let* world_state := decode wire_SpawnInfo in
    let* enforces_secure_chat := decode wire_bool in
    ret (mkPacketLogin entity_id is_hardcore world_names max_players view_distance simulation_distance reduced_debug_info enable_respawn_screen do_limited_crafting world_state enforces_secure_chat);
|}.
Definition dom_PacketLogin (p : PacketLogin) : Prop :=
  in_i 32 (PacketLogin_entity_id p)
  ∧ vec_dom wire_string (PacketLogin_world_names p)
  ∧ in_i 32 (PacketLogin_max_players p)
  ∧ in_i 32 (PacketLogin_view_distance p)
  ∧ in_i 32 (PacketLogin_simulation_distance p)
  ∧ dom_SpawnInfo (PacketLogin_world_state p).
Definition bytes_PacketLogin (p : PacketLogin) : list byte :=
  concat [be_bytes 4 (PacketLogin_entity_id p);
    bool_bytes (PacketLogin_is_hardcore p);
    vec_bytes string_bytes (PacketLogin_world_names p);
    varint_bytes (PacketLogin_max_players p);
    varint_bytes (PacketLogin_view_distance p);
    varint_bytes (PacketLogin_simulation_distance p);
    bool_bytes (PacketLogin_reduced_debug_info p);
    bool_bytes (PacketLogin_enable_respawn_screen p);
    bool_bytes (PacketLogin_do_limited_crafting p);
    bytes_SpawnInfo (PacketLogin_world_state p);
    bool_bytes (PacketLogin_enforces_secure_chat p)].
#[export] Instance lawful_PacketLogin : LawfulCodec wire_PacketLogin dom_PacketLogin bytes_PacketLogin.
Proof. solve_packet. Qed.

Record PacketMapIconsValueItem : Type := mkPacketMapIconsValueItem {
  PacketMapIconsValueItem_type : Z;
  PacketMapIconsValueItem_x : Z;
  PacketMapIconsValueItem_z : Z;
  PacketMapIconsValueItem_direction : Z;
  PacketMapIconsValueItem_display_name : option Nbt;
}.
Definition wire_PacketMapIconsValueItem : Codec PacketMapIconsValueItem := {|
  encode p :=
    modify (write_varint (PacketMapIconsValueItem_type p)) ;;;
    encode wire_i8 (PacketMapIconsValueItem_x p) ;;;
    encode wire_i8 (PacketMapIconsValueItem_z p) ;;;
    encode wire_u8 (PacketMapIconsValueItem_direction p) ;;;
    encode (wire_Option wire_Nbt) (PacketMapIconsValueItem_display_name p) ;;;
    ret tt;
  decode :=
    let* type_ := read_varint in
    let* x := decode wire_i8 in
    let* z := decode wire_i8 in
    let* direction := decode wire_u8 in
    let* display_name := decode (wire_Option wire_Nbt) in
    ret (mkPacketMapIconsValueItem type_ x z direction display_name);
|}.
Definition dom_PacketMapIconsValueItem (p : PacketMapIconsValueItem) : Prop :=
  in_i 32 (PacketMapIconsValueItem_type p)
  ∧ in_i 8 (PacketMapIconsValueItem_x p)
  ∧ in_i 8 (PacketMapIconsValueItem_z p)
  ∧ in_u 8 (PacketMapIconsValueItem_direction p)
  ∧ option_dom nbt_fits (PacketMapIconsValueItem_display_name p).
Definition bytes_PacketMapIconsValueItem (p : PacketMapIconsValueItem) : list byte :=
  concat [varint_bytes (PacketMapIconsValueItem_type p);
    be_bytes 1 (PacketMapIconsValueItem_x p);
    be_bytes 1 (PacketMapIconsValueItem_z p);
    be_bytes 1 (PacketMapIconsValueItem_direction p);
    option_bytes nbt_bytes (PacketMapIconsValueItem_display_name p)].
#[export] Instance lawful_PacketMapIconsValueItem : LawfulCodec wire_PacketMapIconsValueItem dom_PacketMapIconsValueItem bytes_PacketMapIconsValueItem.
Proof. solve_packet. Qed.

Record PacketRelEntityMove : Type := mkPacketRelEntityMove {
  PacketRelEntityMove_entity_id : Z;
  PacketRelEntityMove_d_x : Z;
  PacketRelEntityMove_d_y : Z;
  PacketRelEntityMove_d_z : Z;
  PacketRelEntityMove_on_ground : bool;
}.
Definition wire_PacketRelEntityMove : Codec PacketRelEntityMove := {|
  encode p :=
    modify (write_varint (PacketRelEntityMove_entity_id p)) ;;;
    encode wire_i16 (PacketRelEntityMove_d_x p) ;;;
    encode wire_i16 (PacketRelEntityMove_d_y p) ;;;
    encode wire_i16 (PacketRelEntityMove_d_z p) ;;;
    encode wire_bool (PacketRelEntityMove_on_ground p) ;;;
    ret tt;
  decode :=
    let* entity_id := read_varint in
    let* d_x := decode wire_i16 in
    let* d_y := decode wire_i16 in
    let* d_z := decode wire_i16 in
    let* on_ground := decode wire_bool in
    ret (mkPacketRelEntityMove entity_id d_x d_y d_z on_ground);
|}.
Definition dom_PacketRelEntityMove (p : PacketRelEntityMove) : Prop :=
  in_i 32 (PacketRelEntityMove_entity_id p)
  ∧ in_i 16 (PacketRelEntityMove_d_x p)
  ∧ in_i 16 (PacketRelEntityMove_d_y p)
  ∧ in_i 16 (PacketRelEntityMove_d_z p).
Definition bytes_PacketRelEntityMove (p : PacketRelEntityMove) : list byte :=
  concat [varint_bytes (PacketRelEntityMove_entity_id p);
    be_bytes 2 (PacketRelEntityMove_d_x p);
    be_bytes 2 (PacketRelEntityMove_d_y p);
    be_bytes 2 (PacketRelEntityMove_d_z p);
    bool_bytes (PacketRelEntityMove_on_ground p)].
#[export] Instance lawful_PacketRelEntityMove : LawfulCodec wire_PacketRelEntityMove dom_PacketRelEntityMove bytes_PacketRelEntityMove.
Proof. solve_packet. Qed.

Record PacketEntityMoveLook : Type := mkPacketEntityMoveLook {
  PacketEntityMoveLook_entity_id : Z;
  PacketEntityMoveLook_d_x : Z;
  PacketEntityMoveLook_d_y : Z;
  PacketEntityMoveLook_d_z : Z;
  PacketEntityMoveLook_yaw : Z;
  PacketEntityMoveLook_pitch : Z;
  PacketEntityMoveLook_on_ground : bool;
}.
Definition wire_PacketEntityMoveLook : Codec PacketEntityMoveLook := {|
  encode p :=
    modify (write_varint (PacketEntityMoveLook_entity_id p)) ;;;
    encode wire_i16 (PacketEntityMoveLook_d_x p) ;;;
    encode wire_i16 (PacketEntityMoveLook_d_y p) ;;;
    encode wire_i16 (PacketEntityMoveLook_d_z p) ;;;
    encode wire_i8 (PacketEntityMoveLook_yaw p) ;;;
    encode wire_i8 (PacketEntityMoveLook_pitch p) ;;;
    encode wire_bool (PacketEntityMoveLook_on_ground p) ;;;
    ret tt;
  decode :=
    let* entity_id := read_varint in
    let* d_x := decode wire_i16 in
    let* d_y := decode wire_i16 in
    let* d_z := decode wire_i16 in
    let* yaw := decode wire_i8 in
    let* pitch := decode wire_i8 in
    let* on_ground := decode wire_bool in
    ret (mkPacketEntityMoveLook entity_id d_x d_y d_z yaw pitch on_ground);
|}.
Definition dom_PacketEntityMoveLook (p : PacketEntityMoveLook) : Prop :=
  in_i 32 (PacketEntityMoveLook_entity_id p)
  ∧ in_i 16 (PacketEntityMoveLook_d_x p)
  ∧ in_i 16 (PacketEntityMoveLook_d_y p)
  ∧ in_i 16 (PacketEntityMoveLook_d_z p)
  ∧ in_i 8 (PacketEntityMoveLook_yaw p)
  ∧ in_i 8 (PacketEntityMoveLook_pitch p).
Definition bytes_PacketEntityMoveLook (p : PacketEntityMoveLook) : list byte :=
  concat [varint_bytes (PacketEntityMoveLook_entity_id p);
    be_bytes 2 (PacketEntityMoveLook_d_x p);
    be_bytes 2 (PacketEntityMoveLook_d_y p);
    be_bytes 2 (PacketEntityMoveLook_d_z p);
    be_bytes 1 (PacketEntityMoveLook_yaw p);
    be_bytes 1 (PacketEntityMoveLook_pitch p);
    bool_bytes (PacketEntityMoveLook_on_ground p)].
#[export] Instance lawful_PacketEntityMoveLook : LawfulCodec wire_PacketEntityMoveLook dom_PacketEntityMoveLook bytes_PacketEntityMoveLook.
Proof. solve_packet. Qed.

Record PacketMoveMinecartStepsItem : Type := mkPacketMoveMinecartStepsItem {
  PacketMoveMinecartStepsItem_position : Vec3f;
  PacketMoveMinecartStepsItem_movement : Vec3f;
  PacketMoveMinecartStepsItem_yaw : Z;
  PacketMoveMinecartStepsItem_pitch : Z;
  PacketMoveMinecartStepsItem_weight : Z;
}.
Definition wire_PacketMoveMinecartStepsItem : Codec PacketMoveMinecartStepsItem := {|
  encode p :=
    encode wire_Vec3f (PacketMoveMinecartStepsItem_position p) ;;;
    encode wire_Vec3f (PacketMoveMinecartStepsItem_movement p) ;;;
    encode wire_f32 (PacketMoveMinecartStepsItem_yaw p) ;;;
    encode wire_f32 (PacketMoveMinecartStepsItem_pitch p) ;;;
    encode wire_f32 (PacketMoveMinecartStepsItem_weight p) ;;;
    ret tt;
  decode :=
    let* position := decode wire_Vec3f in
    let* movement := decode wire_Vec3f in
    let* yaw := decode wire_f32 in
    let* pitch := decode wire_f32 in
    let* weight := decode wire_f32 in
    ret (mkPacketMoveMinecartStepsItem position movement yaw pitch weight);
|}.
Definition dom_PacketMoveMinecartStepsItem (p : PacketMoveMinecartStepsItem) : Prop :=
  dom_Vec3f (PacketMoveMinecartStepsItem_position p)
  ∧ dom_Vec3f (PacketMoveMinecartStepsItem_movement p)
  ∧ in_u 32 (PacketMoveMinecartStepsItem_yaw p)
  ∧ in_u 32 (PacketMoveMinecartStepsItem_pitch p)
  ∧ in_u 32 (PacketMoveMinecartStepsItem_weight p).
Definition bytes_PacketMoveMinecartStepsItem (p : PacketMoveMinecartStepsItem) : list byte :=
  concat [bytes_Vec3f (PacketMoveMinecartStepsItem_position p);
    bytes_Vec3f (PacketMoveMinecartStepsItem_movement p);
    be_bytes 4 (PacketMoveMinecartStepsItem_yaw p);
    be_bytes 4 (PacketMoveMinecartStepsItem_pitch p);
    be_bytes 4 (PacketMoveMinecartStepsItem_weight p)].
#[export] Instance lawful_PacketMoveMinecartStepsItem : LawfulCodec wire_PacketMoveMinecartStepsItem dom_PacketMoveMinecartStepsItem bytes_PacketMoveMinecartStepsItem.
Proof. solve_packet. Qed.
#[export] Instance cost_PacketMoveMinecartStepsItem : CodecCost dom_PacketMoveMinecartStepsItem bytes_PacketMoveMinecartStepsItem.
Proof. solve_cost. Qed.

Record PacketMoveMinecart : Type := mkPacketMoveMinecart {
  PacketMoveMinecart_entity_id : Z;
  PacketMoveMinecart_steps : list PacketMoveMinecartStepsItem;
}.
Definition wire_PacketMoveMinecart : Codec PacketMoveMinecart := {|
  encode p :=
    modify (write_varint (PacketMoveMinecart_entity_id p)) ;;;
    encode (wire_Vec wire_PacketMoveMinecartStepsItem) (PacketMoveMinecart_steps p) ;;;
    ret tt;
  decode :=
    let* entity_id := read_varint in
    let* steps := decode (wire_Vec wire_PacketMoveMinecartStepsItem) in
    ret (mkPacketMoveMinecart entity_id steps);
|}.
Definition dom_PacketMoveMinecart (p : PacketMoveMinecart) : Prop :=
  in_i 32 (PacketMoveMinecart_entity_id p)
  ∧ vec_dom dom_PacketMoveMinecartStepsItem (PacketMoveMinecart_steps p).
Definition bytes_PacketMoveMinecart (p : PacketMoveMinecart) : list byte :=
  concat [varint_bytes (PacketMoveMinecart_entity_id p);
    vec_bytes bytes_PacketMoveMinecartStepsItem (PacketMoveMinecart_steps p)].
#[export] Instance lawful_PacketMoveMinecart : LawfulCodec wire_PacketMoveMinecart dom_PacketMoveMinecart bytes_PacketMoveMinecart.
Proof. solve_packet. Qed.

Record PacketEntityLook : Type := mkPacketEntityLook {
  PacketEntityLook_entity_id : Z;
  PacketEntityLook_yaw : Z;
  PacketEntityLook_pitch : Z;
  PacketEntityLook_on_ground : bool;
}.
Definition wire_PacketEntityLook : Codec PacketEntityLook := {|
  encode p :=
    modify (write_varint (PacketEntityLook_entity_id p)) ;;;
    encode wire_i8 (PacketEntityLook_yaw p) ;;;
    encode wire_i8 (PacketEntityLook_pitch p) ;;;
    encode wire_bool (PacketEntityLook_on_ground p) ;;;
    ret tt;
  decode :=
    let* entity_id := read_varint in
    let* yaw := decode wire_i8 in
    let* pitch := decode wire_i8 in
    let* on_ground := decode wire_bool in
    ret (mkPacketEntityLook entity_id yaw pitch on_ground);
|}.
Definition dom_PacketEntityLook (p : PacketEntityLook) : Prop :=
  in_i 32 (PacketEntityLook_entity_id p)
  ∧ in_i 8 (PacketEntityLook_yaw p)
  ∧ in_i 8 (PacketEntityLook_pitch p).
Definition bytes_PacketEntityLook (p : PacketEntityLook) : list byte :=
  concat [varint_bytes (PacketEntityLook_entity_id p);
    be_bytes 1 (PacketEntityLook_yaw p);
    be_bytes 1 (PacketEntityLook_pitch p);
    bool_bytes (PacketEntityLook_on_ground p)].
#[export] Instance lawful_PacketEntityLook : LawfulCodec wire_PacketEntityLook dom_PacketEntityLook bytes_PacketEntityLook.
Proof. solve_packet. Qed.

Record PacketVehicleMove : Type := mkPacketVehicleMove {
  PacketVehicleMove_x : Z;
  PacketVehicleMove_y : Z;
  PacketVehicleMove_z : Z;
  PacketVehicleMove_yaw : Z;
  PacketVehicleMove_pitch : Z;
}.
Definition wire_PacketVehicleMove : Codec PacketVehicleMove := {|
  encode p :=
    encode wire_f64 (PacketVehicleMove_x p) ;;;
    encode wire_f64 (PacketVehicleMove_y p) ;;;
    encode wire_f64 (PacketVehicleMove_z p) ;;;
    encode wire_f32 (PacketVehicleMove_yaw p) ;;;
    encode wire_f32 (PacketVehicleMove_pitch p) ;;;
    ret tt;
  decode :=
    let* x := decode wire_f64 in
    let* y := decode wire_f64 in
    let* z := decode wire_f64 in
    let* yaw := decode wire_f32 in
    let* pitch := decode wire_f32 in
    ret (mkPacketVehicleMove x y z yaw pitch);
|}.
Definition dom_PacketVehicleMove (p : PacketVehicleMove) : Prop :=
  in_u 64 (PacketVehicleMove_x p)
  ∧ in_u 64 (PacketVehicleMove_y p)
  ∧ in_u 64 (PacketVehicleMove_z p)
  ∧ in_u 32 (PacketVehicleMove_yaw p)
  ∧ in_u 32 (PacketVehicleMove_pitch p).
Definition bytes_PacketVehicleMove (p : PacketVehicleMove) : list byte :=
  concat [be_bytes 8 (PacketVehicleMove_x p);
    be_bytes 8 (PacketVehicleMove_y p);
    be_bytes 8 (PacketVehicleMove_z p);
    be_bytes 4 (PacketVehicleMove_yaw p);
    be_bytes 4 (PacketVehicleMove_pitch p)].
#[export] Instance lawful_PacketVehicleMove : LawfulCodec wire_PacketVehicleMove dom_PacketVehicleMove bytes_PacketVehicleMove.
Proof. solve_packet. Qed.

Record PacketOpenBook : Type := mkPacketOpenBook {
  PacketOpenBook_hand : Z;
}.
Definition wire_PacketOpenBook : Codec PacketOpenBook := {|
  encode p :=
    modify (write_varint (PacketOpenBook_hand p)) ;;;
    ret tt;
  decode :=
    let* hand := read_varint in
    ret (mkPacketOpenBook hand);
|}.
Definition dom_PacketOpenBook (p : PacketOpenBook) : Prop :=
  in_i 32 (PacketOpenBook_hand p).
Definition bytes_PacketOpenBook (p : PacketOpenBook) : list byte :=
  concat [varint_bytes (PacketOpenBook_hand p)].
#[export] Instance lawful_PacketOpenBook : LawfulCodec wire_PacketOpenBook dom_PacketOpenBook bytes_PacketOpenBook.
Proof. solve_packet. Qed.

Record PacketOpenWindow : Type := mkPacketOpenWindow {
  PacketOpenWindow_window_id : Z;
  PacketOpenWindow_inventory_type : Z;
  PacketOpenWindow_window_title : Nbt;
}.
Definition wire_PacketOpenWindow : Codec PacketOpenWindow := {|
  encode p :=
    modify (write_varint (PacketOpenWindow_window_id p)) ;;;
    modify (write_varint (PacketOpenWindow_inventory_type p)) ;;;
    encode wire_Nbt (PacketOpenWindow_window_title p) ;;;
    ret tt;
  decode :=
    let* window_id := read_varint in
    let* inventory_type := read_varint in
    let* window_title := decode wire_Nbt in
    ret (mkPacketOpenWindow window_id inventory_type window_title);
|}.
Definition dom_PacketOpenWindow (p : PacketOpenWindow) : Prop :=
  in_i 32 (PacketOpenWindow_window_id p)
  ∧ in_i 32 (PacketOpenWindow_inventory_type p)
  ∧ nbt_fits (PacketOpenWindow_window_title p).
Definition bytes_PacketOpenWindow (p : PacketOpenWindow) : list byte :=
  concat [varint_bytes (PacketOpenWindow_window_id p);
    varint_bytes (PacketOpenWindow_inventory_type p);
    nbt_bytes (PacketOpenWindow_window_title p)].
#[export] Instance lawful_PacketOpenWindow : LawfulCodec wire_PacketOpenWindow dom_PacketOpenWindow bytes_PacketOpenWindow.
Proof. solve_packet. Qed.

Record PacketOpenSignEntity : Type := mkPacketOpenSignEntity {
  PacketOpenSignEntity_location : Position;
  PacketOpenSignEntity_is_front_text : bool;
}.
Definition wire_PacketOpenSignEntity : Codec PacketOpenSignEntity := {|
  encode p :=
    encode wire_Position (PacketOpenSignEntity_location p) ;;;
    encode wire_bool (PacketOpenSignEntity_is_front_text p) ;;;
    ret tt;
  decode :=
    let* location := decode wire_Position in
    let* is_front_text := decode wire_bool in
    ret (mkPacketOpenSignEntity location is_front_text);
|}.
Definition dom_PacketOpenSignEntity (p : PacketOpenSignEntity) : Prop :=
  dom_Position (PacketOpenSignEntity_location p).
Definition bytes_PacketOpenSignEntity (p : PacketOpenSignEntity) : list byte :=
  concat [bytes_Position (PacketOpenSignEntity_location p);
    bool_bytes (PacketOpenSignEntity_is_front_text p)].
#[export] Instance lawful_PacketOpenSignEntity : LawfulCodec wire_PacketOpenSignEntity dom_PacketOpenSignEntity bytes_PacketOpenSignEntity.
Proof. solve_packet. Qed.

Record PacketPing : Type := mkPacketPing {
  PacketPing_id : Z;
}.
Definition wire_PacketPing : Codec PacketPing := {|
  encode p :=
    modify (put_i32 (PacketPing_id p)) ;;;
    ret tt;
  decode :=
    let* id := get_i32 in
    ret (mkPacketPing id);
|}.
Definition dom_PacketPing (p : PacketPing) : Prop :=
  in_i 32 (PacketPing_id p).
Definition bytes_PacketPing (p : PacketPing) : list byte :=
  concat [be_bytes 4 (PacketPing_id p)].
#[export] Instance lawful_PacketPing : LawfulCodec wire_PacketPing dom_PacketPing bytes_PacketPing.
Proof. solve_packet. Qed.

Record PacketPingResponse : Type := mkPacketPingResponse {
  PacketPingResponse_id : Z;
}.
Definition wire_PacketPingResponse : Codec PacketPingResponse := {|
  encode p :=
    modify (put_i64 (PacketPingResponse_id p)) ;;;
    ret tt;
  decode :=
    let* id := get_i64 in
    ret (mkPacketPingResponse id);
|}.
Definition dom_PacketPingResponse (p : PacketPingResponse) : Prop :=
  in_i 64 (PacketPingResponse_id p).
Definition bytes_PacketPingResponse (p : PacketPingResponse) : list byte :=
  concat [be_bytes 8 (PacketPingResponse_id p)].
#[export] Instance lawful_PacketPingResponse : LawfulCodec wire_PacketPingResponse dom_PacketPingResponse bytes_PacketPingResponse.
Proof. solve_packet. Qed.

Inductive RecipeDisplayType : Type :=
  | RecipeDisplayType_CraftingShapeless
  | RecipeDisplayType_CraftingShaped
  | RecipeDisplayType_Furnace
  | RecipeDisplayType_Stonecutter
  | RecipeDisplayType_Smithing.
Definition value_RecipeDisplayType (v : RecipeDisplayType) : Z :=
  match v with
  | RecipeDisplayType_CraftingShapeless => 0
  | RecipeDisplayType_CraftingShaped => 1
  | RecipeDisplayType_Furnace => 2
  | RecipeDisplayType_Stonecutter => 3
  | RecipeDisplayType_Smithing => 4
  end.
Definition wire_RecipeDisplayType : Codec RecipeDisplayType := {|
  encode v := modify (write_varint (value_RecipeDisplayType v));
  decode :=
    let* value := read_varint in
    match value with
    | 0 => ret RecipeDisplayType_CraftingShapeless
    | 1 => ret RecipeDisplayType_CraftingShaped
    | 2 => ret RecipeDisplayType_Furnace
    | 3 => ret RecipeDisplayType_Stonecutter
    | 4 => ret RecipeDisplayType_Smithing
    | _ => raise (UnknownEnumValue "RecipeDisplayType" value)
    end;
|}.
Definition dom_RecipeDisplayType (_ : RecipeDisplayType) : Prop := True.
Definition bytes_RecipeDisplayType (v : RecipeDisplayType) : list byte := varint_bytes (value_RecipeDisplayType v).
#[export] Instance lawful_RecipeDisplayType : LawfulCodec wire_RecipeDisplayType dom_RecipeDisplayType bytes_RecipeDisplayType.
Proof. solve_enum. Qed.

Inductive SlotDisplayType : Type :=
  | SlotDisplayType_Empty
  | SlotDisplayType_AnyFuel
  | SlotDisplayType_Item
  | SlotDisplayType_ItemStack
  | SlotDisplayType_Tag
  | SlotDisplayType_SmithingTrim
  | SlotDisplayType_WithRemainder
  | SlotDisplayType_Composite.
Definition value_SlotDisplayType (v : SlotDisplayType) : Z :=
  match v with
  | SlotDisplayType_Empty => 0
  | SlotDisplayType_AnyFuel => 1
  | SlotDisplayType_Item => 2
  | SlotDisplayType_ItemStack => 3
  | SlotDisplayType_Tag => 4
  | SlotDisplayType_SmithingTrim => 5
  | SlotDisplayType_WithRemainder => 6
  | SlotDisplayType_Composite => 7
  end.
Definition wire_SlotDisplayType : Codec SlotDisplayType := {|
  encode v := modify (write_varint (value_SlotDisplayType v));
  decode :=
    let* value := read_varint in
    match value with
    | 0 => ret SlotDisplayType_Empty
    | 1 => ret SlotDisplayType_AnyFuel
    | 2 => ret SlotDisplayType_Item
    | 3 => ret SlotDisplayType_ItemStack
    | 4 => ret SlotDisplayType_Tag
    | 5 => ret SlotDisplayType_SmithingTrim
    | 6 => ret SlotDisplayType_WithRemainder
    | 7 => ret SlotDisplayType_Composite
    | _ => raise (UnknownEnumValue "SlotDisplayType" value)
    end;
|}.
Definition dom_SlotDisplayType (_ : SlotDisplayType) : Prop := True.
Definition bytes_SlotDisplayType (v : SlotDisplayType) : list byte := varint_bytes (value_SlotDisplayType v).
#[export] Instance lawful_SlotDisplayType : LawfulCodec wire_SlotDisplayType dom_SlotDisplayType bytes_SlotDisplayType.
Proof. solve_enum. Qed.
#[export] Instance cost_SlotDisplayType : CodecCost dom_SlotDisplayType bytes_SlotDisplayType.
Proof. solve_cost. Qed.

Record PacketAbilities : Type := mkPacketAbilities {
  PacketAbilities_flags : Z;
  PacketAbilities_flying_speed : Z;
  PacketAbilities_walking_speed : Z;
}.
Definition wire_PacketAbilities : Codec PacketAbilities := {|
  encode p :=
    encode wire_i8 (PacketAbilities_flags p) ;;;
    encode wire_f32 (PacketAbilities_flying_speed p) ;;;
    encode wire_f32 (PacketAbilities_walking_speed p) ;;;
    ret tt;
  decode :=
    let* flags := decode wire_i8 in
    let* flying_speed := decode wire_f32 in
    let* walking_speed := decode wire_f32 in
    ret (mkPacketAbilities flags flying_speed walking_speed);
|}.
Definition dom_PacketAbilities (p : PacketAbilities) : Prop :=
  in_i 8 (PacketAbilities_flags p)
  ∧ in_u 32 (PacketAbilities_flying_speed p)
  ∧ in_u 32 (PacketAbilities_walking_speed p).
Definition bytes_PacketAbilities (p : PacketAbilities) : list byte :=
  concat [be_bytes 1 (PacketAbilities_flags p);
    be_bytes 4 (PacketAbilities_flying_speed p);
    be_bytes 4 (PacketAbilities_walking_speed p)].
#[export] Instance lawful_PacketAbilities : LawfulCodec wire_PacketAbilities dom_PacketAbilities bytes_PacketAbilities.
Proof. solve_packet. Qed.

Record PacketEndCombatEvent : Type := mkPacketEndCombatEvent {
  PacketEndCombatEvent_duration : Z;
}.
Definition wire_PacketEndCombatEvent : Codec PacketEndCombatEvent := {|
  encode p :=
    modify (write_varint (PacketEndCombatEvent_duration p)) ;;;
    ret tt;
  decode :=
    let* duration := read_varint in
    ret (mkPacketEndCombatEvent duration);
|}.
Definition dom_PacketEndCombatEvent (p : PacketEndCombatEvent) : Prop :=
  in_i 32 (PacketEndCombatEvent_duration p).
Definition bytes_PacketEndCombatEvent (p : PacketEndCombatEvent) : list byte :=
  concat [varint_bytes (PacketEndCombatEvent_duration p)].
#[export] Instance lawful_PacketEndCombatEvent : LawfulCodec wire_PacketEndCombatEvent dom_PacketEndCombatEvent bytes_PacketEndCombatEvent.
Proof. solve_packet. Qed.

Record PacketDeathCombatEvent : Type := mkPacketDeathCombatEvent {
  PacketDeathCombatEvent_player_id : Z;
  PacketDeathCombatEvent_message : Nbt;
}.
Definition wire_PacketDeathCombatEvent : Codec PacketDeathCombatEvent := {|
  encode p :=
    modify (write_varint (PacketDeathCombatEvent_player_id p)) ;;;
    encode wire_Nbt (PacketDeathCombatEvent_message p) ;;;
    ret tt;
  decode :=
    let* player_id := read_varint in
    let* message := decode wire_Nbt in
    ret (mkPacketDeathCombatEvent player_id message);
|}.
Definition dom_PacketDeathCombatEvent (p : PacketDeathCombatEvent) : Prop :=
  in_i 32 (PacketDeathCombatEvent_player_id p)
  ∧ nbt_fits (PacketDeathCombatEvent_message p).
Definition bytes_PacketDeathCombatEvent (p : PacketDeathCombatEvent) : list byte :=
  concat [varint_bytes (PacketDeathCombatEvent_player_id p);
    nbt_bytes (PacketDeathCombatEvent_message p)].
#[export] Instance lawful_PacketDeathCombatEvent : LawfulCodec wire_PacketDeathCombatEvent dom_PacketDeathCombatEvent bytes_PacketDeathCombatEvent.
Proof. solve_packet. Qed.

Record PacketPlayerRemove : Type := mkPacketPlayerRemove {
  PacketPlayerRemove_players : list Z;
}.
Definition wire_PacketPlayerRemove : Codec PacketPlayerRemove := {|
  encode p :=
    encode (wire_Vec wire_u128) (PacketPlayerRemove_players p) ;;;
    ret tt;
  decode :=
    let* players := decode (wire_Vec wire_u128) in
    ret (mkPacketPlayerRemove players);
|}.
Definition dom_PacketPlayerRemove (p : PacketPlayerRemove) : Prop :=
  vec_dom (in_u 128) (PacketPlayerRemove_players p).
Definition bytes_PacketPlayerRemove (p : PacketPlayerRemove) : list byte :=
  concat [vec_bytes (be_bytes 16) (PacketPlayerRemove_players p)].
#[export] Instance lawful_PacketPlayerRemove : LawfulCodec wire_PacketPlayerRemove dom_PacketPlayerRemove bytes_PacketPlayerRemove.
Proof. solve_packet. Qed.

Definition PacketPlayerInfoAction : Type := Z.
Definition PacketPlayerInfoAction_ADD_PLAYER : Z := 0x1.
Definition PacketPlayerInfoAction_INITIALIZE_CHAT : Z := 0x2.
Definition PacketPlayerInfoAction_UPDATE_GAME_MODE : Z := 0x4.
Definition PacketPlayerInfoAction_UPDATE_LISTED : Z := 0x8.
Definition PacketPlayerInfoAction_UPDATE_LATENCY : Z := 0x10.
Definition PacketPlayerInfoAction_UPDATE_DISPLAY_NAME : Z := 0x20.
Definition PacketPlayerInfoAction_UPDATE_HAT : Z := 0x40.
Definition PacketPlayerInfoAction_UPDATE_LIST_ORDER : Z := 0x80.
Definition PacketPlayerInfoAction_contains (flags : PacketPlayerInfoAction) (flag : Z) : bool := negb (Z.land flags flag =? 0).
Definition wire_PacketPlayerInfoAction : Codec PacketPlayerInfoAction := wire_u8.
Definition dom_PacketPlayerInfoAction : PacketPlayerInfoAction → Prop := in_u 8.
Definition bytes_PacketPlayerInfoAction : PacketPlayerInfoAction → list byte := be_bytes 1.
#[export] Instance lawful_PacketPlayerInfoAction : LawfulCodec wire_PacketPlayerInfoAction dom_PacketPlayerInfoAction bytes_PacketPlayerInfoAction := lawful_u8.

Definition PositionUpdateRelatives : Type := Z.
Definition PositionUpdateRelatives_X : Z := 0x1.
Definition PositionUpdateRelatives_Y : Z := 0x2.
Definition PositionUpdateRelatives_Z : Z := 0x4.
Definition PositionUpdateRelatives_YAW : Z := 0x8.
Definition PositionUpdateRelatives_PITCH : Z := 0x10.
Definition PositionUpdateRelatives_DX : Z := 0x20.
Definition PositionUpdateRelatives_DY : Z := 0x40.
Definition PositionUpdateRelatives_DZ : Z := 0x80.
Definition PositionUpdateRelatives_YAW_DELTA : Z := 0x100.
Definition PositionUpdateRelatives_contains (flags : PositionUpdateRelatives) (flag : Z) : bool := negb (Z.land flags flag =? 0).
Definition wire_PositionUpdateRelatives : Codec PositionUpdateRelatives := wire_u32.
Definition dom_PositionUpdateRelatives : PositionUpdateRelatives → Prop := in_u 32.
Definition bytes_PositionUpdateRelatives : PositionUpdateRelatives → list byte := be_bytes 4.
#[export] Instance lawful_PositionUpdateRelatives : LawfulCodec wire_PositionUpdateRelatives dom_PositionUpdateRelatives bytes_PositionUpdateRelatives := lawful_u32.

Record PacketPosition : Type := mkPacketPosition {
  PacketPosition_teleport_id : Z;
  PacketPosition_x : Z;
  PacketPosition_y : Z;
  PacketPosition_z : Z;
  PacketPosition_dx : Z;
  PacketPosition_dy : Z;
  PacketPosition_dz : Z;
  PacketPosition_yaw : Z;
  PacketPosition_pitch : Z;
  PacketPosition_flags : PositionUpdateRelatives;
}.
Definition wire_PacketPosition : Codec PacketPosition := {|
  encode p :=
    modify (write_varint (PacketPosition_teleport_id p)) ;;;
    encode wire_f64 (PacketPosition_x p) ;;;
    encode wire_f64 (PacketPosition_y p) ;;;
    encode wire_f64 (PacketPosition_z p) ;;;
    encode wire_f64 (PacketPosition_dx p) ;;;
    encode wire_f64 (PacketPosition_dy p) ;;;
    encode wire_f64 (PacketPosition_dz p) ;;;
    encode wire_f32 (PacketPosition_yaw p) ;;;
    encode wire_f32 (PacketPosition_pitch p) ;;;
    encode wire_PositionUpdateRelatives (PacketPosition_flags p) ;;;
    ret tt;
  decode :=
    let* teleport_id := read_varint in
    let* x := decode wire_f64 in
    let* y := decode wire_f64 in
    let* z := decode wire_f64 in
    let* dx := decode wire_f64 in
    let* dy := decode wire_f64 in
    let* dz := decode wire_f64 in
    let* yaw := decode wire_f32 in
    let* pitch := decode wire_f32 in
    let* flags := decode wire_PositionUpdateRelatives in
    ret (mkPacketPosition teleport_id x y z dx dy dz yaw pitch flags);
|}.
Definition dom_PacketPosition (p : PacketPosition) : Prop :=
  in_i 32 (PacketPosition_teleport_id p)
  ∧ in_u 64 (PacketPosition_x p)
  ∧ in_u 64 (PacketPosition_y p)
  ∧ in_u 64 (PacketPosition_z p)
  ∧ in_u 64 (PacketPosition_dx p)
  ∧ in_u 64 (PacketPosition_dy p)
  ∧ in_u 64 (PacketPosition_dz p)
  ∧ in_u 32 (PacketPosition_yaw p)
  ∧ in_u 32 (PacketPosition_pitch p)
  ∧ dom_PositionUpdateRelatives (PacketPosition_flags p).
Definition bytes_PacketPosition (p : PacketPosition) : list byte :=
  concat [varint_bytes (PacketPosition_teleport_id p);
    be_bytes 8 (PacketPosition_x p);
    be_bytes 8 (PacketPosition_y p);
    be_bytes 8 (PacketPosition_z p);
    be_bytes 8 (PacketPosition_dx p);
    be_bytes 8 (PacketPosition_dy p);
    be_bytes 8 (PacketPosition_dz p);
    be_bytes 4 (PacketPosition_yaw p);
    be_bytes 4 (PacketPosition_pitch p);
    bytes_PositionUpdateRelatives (PacketPosition_flags p)].
#[export] Instance lawful_PacketPosition : LawfulCodec wire_PacketPosition dom_PacketPosition bytes_PacketPosition.
Proof. solve_packet. Qed.

Record PacketPlayerRotation : Type := mkPacketPlayerRotation {
  PacketPlayerRotation_yaw : Z;
  PacketPlayerRotation_pitch : Z;
}.
Definition wire_PacketPlayerRotation : Codec PacketPlayerRotation := {|
  encode p :=
    encode wire_f32 (PacketPlayerRotation_yaw p) ;;;
    encode wire_f32 (PacketPlayerRotation_pitch p) ;;;
    ret tt;
  decode :=
    let* yaw := decode wire_f32 in
    let* pitch := decode wire_f32 in
    ret (mkPacketPlayerRotation yaw pitch);
|}.
Definition dom_PacketPlayerRotation (p : PacketPlayerRotation) : Prop :=
  in_u 32 (PacketPlayerRotation_yaw p)
  ∧ in_u 32 (PacketPlayerRotation_pitch p).
Definition bytes_PacketPlayerRotation (p : PacketPlayerRotation) : list byte :=
  concat [be_bytes 4 (PacketPlayerRotation_yaw p);
    be_bytes 4 (PacketPlayerRotation_pitch p)].
#[export] Instance lawful_PacketPlayerRotation : LawfulCodec wire_PacketPlayerRotation dom_PacketPlayerRotation bytes_PacketPlayerRotation.
Proof. solve_packet. Qed.

Inductive PacketRecipeBookAddEntriesItemRecipeCategory : Type :=
  | PacketRecipeBookAddEntriesItemRecipeCategory_CraftingBuildingBlocks
  | PacketRecipeBookAddEntriesItemRecipeCategory_CraftingRedstone
  | PacketRecipeBookAddEntriesItemRecipeCategory_Stonecutter
  | PacketRecipeBookAddEntriesItemRecipeCategory_Smithing
  | PacketRecipeBookAddEntriesItemRecipeCategory_Campfire
  | PacketRecipeBookAddEntriesItemRecipeCategory_CraftingEquipment
  | PacketRecipeBookAddEntriesItemRecipeCategory_CraftingMisc
  | PacketRecipeBookAddEntriesItemRecipeCategory_FurnaceFood
  | PacketRecipeBookAddEntriesItemRecipeCategory_FurnaceBlocks
  | PacketRecipeBookAddEntriesItemRecipeCategory_FurnaceMisc
  | PacketRecipeBookAddEntriesItemRecipeCategory_BlastFurnaceBlocks
  | PacketRecipeBookAddEntriesItemRecipeCategory_BlastFurnaceMisc
  | PacketRecipeBookAddEntriesItemRecipeCategory_SmokerFood.
Definition value_PacketRecipeBookAddEntriesItemRecipeCategory (v : PacketRecipeBookAddEntriesItemRecipeCategory) : Z :=
  match v with
  | PacketRecipeBookAddEntriesItemRecipeCategory_CraftingBuildingBlocks => 0
  | PacketRecipeBookAddEntriesItemRecipeCategory_CraftingRedstone => 1
  | PacketRecipeBookAddEntriesItemRecipeCategory_Stonecutter => 10
  | PacketRecipeBookAddEntriesItemRecipeCategory_Smithing => 11
  | PacketRecipeBookAddEntriesItemRecipeCategory_Campfire => 12
  | PacketRecipeBookAddEntriesItemRecipeCategory_CraftingEquipment => 2
  | PacketRecipeBookAddEntriesItemRecipeCategory_CraftingMisc => 3
  | PacketRecipeBookAddEntriesItemRecipeCategory_FurnaceFood => 4
  | PacketRecipeBookAddEntriesItemRecipeCategory_FurnaceBlocks => 5
  | PacketRecipeBookAddEntriesItemRecipeCategory_FurnaceMisc => 6
  | PacketRecipeBookAddEntriesItemRecipeCategory_BlastFurnaceBlocks => 7
  | PacketRecipeBookAddEntriesItemRecipeCategory_BlastFurnaceMisc => 8
  | PacketRecipeBookAddEntriesItemRecipeCategory_SmokerFood => 9
  end.
Definition wire_PacketRecipeBookAddEntriesItemRecipeCategory : Codec PacketRecipeBookAddEntriesItemRecipeCategory := {|
  encode v := modify (write_varint (value_PacketRecipeBookAddEntriesItemRecipeCategory v));
  decode :=
    let* value := read_varint in
    match value with
    | 0 => ret PacketRecipeBookAddEntriesItemRecipeCategory_CraftingBuildingBlocks
    | 1 => ret PacketRecipeBookAddEntriesItemRecipeCategory_CraftingRedstone
    | 10 => ret PacketRecipeBookAddEntriesItemRecipeCategory_Stonecutter
    | 11 => ret PacketRecipeBookAddEntriesItemRecipeCategory_Smithing
    | 12 => ret PacketRecipeBookAddEntriesItemRecipeCategory_Campfire
    | 2 => ret PacketRecipeBookAddEntriesItemRecipeCategory_CraftingEquipment
    | 3 => ret PacketRecipeBookAddEntriesItemRecipeCategory_CraftingMisc
    | 4 => ret PacketRecipeBookAddEntriesItemRecipeCategory_FurnaceFood
    | 5 => ret PacketRecipeBookAddEntriesItemRecipeCategory_FurnaceBlocks
    | 6 => ret PacketRecipeBookAddEntriesItemRecipeCategory_FurnaceMisc
    | 7 => ret PacketRecipeBookAddEntriesItemRecipeCategory_BlastFurnaceBlocks
    | 8 => ret PacketRecipeBookAddEntriesItemRecipeCategory_BlastFurnaceMisc
    | 9 => ret PacketRecipeBookAddEntriesItemRecipeCategory_SmokerFood
    | _ => raise (UnknownEnumValue "PacketRecipeBookAddEntriesItemRecipeCategory" value)
    end;
|}.
Definition dom_PacketRecipeBookAddEntriesItemRecipeCategory (_ : PacketRecipeBookAddEntriesItemRecipeCategory) : Prop := True.
Definition bytes_PacketRecipeBookAddEntriesItemRecipeCategory (v : PacketRecipeBookAddEntriesItemRecipeCategory) : list byte := varint_bytes (value_PacketRecipeBookAddEntriesItemRecipeCategory v).
#[export] Instance lawful_PacketRecipeBookAddEntriesItemRecipeCategory : LawfulCodec wire_PacketRecipeBookAddEntriesItemRecipeCategory dom_PacketRecipeBookAddEntriesItemRecipeCategory bytes_PacketRecipeBookAddEntriesItemRecipeCategory.
Proof. solve_enum. Qed.

Definition PacketRecipeBookAddEntriesItemFlags : Type := Z.
Definition PacketRecipeBookAddEntriesItemFlags_NOTIFICATION : Z := 0x1.
Definition PacketRecipeBookAddEntriesItemFlags_HIGHLIGHT : Z := 0x2.
Definition PacketRecipeBookAddEntriesItemFlags_contains (flags : PacketRecipeBookAddEntriesItemFlags) (flag : Z) : bool := negb (Z.land flags flag =? 0).
Definition wire_PacketRecipeBookAddEntriesItemFlags : Codec PacketRecipeBookAddEntriesItemFlags := wire_u8.
Definition dom_PacketRecipeBookAddEntriesItemFlags : PacketRecipeBookAddEntriesItemFlags → Prop := in_u 8.
Definition bytes_PacketRecipeBookAddEntriesItemFlags : PacketRecipeBookAddEntriesItemFlags → list byte := be_bytes 1.
#[export] Instance lawful_PacketRecipeBookAddEntriesItemFlags : LawfulCodec wire_PacketRecipeBookAddEntriesItemFlags dom_PacketRecipeBookAddEntriesItemFlags bytes_PacketRecipeBookAddEntriesItemFlags := lawful_u8.

Record PacketRecipeBookRemove : Type := mkPacketRecipeBookRemove {
  PacketRecipeBookRemove_recipe_ids : list Z;
}.
Definition wire_PacketRecipeBookRemove : Codec PacketRecipeBookRemove := {|
  encode p :=
    encode (wire_Vec wire_varint) (PacketRecipeBookRemove_recipe_ids p) ;;;
    ret tt;
  decode :=
    let* recipe_ids := decode (wire_Vec wire_varint) in
    ret (mkPacketRecipeBookRemove recipe_ids);
|}.
Definition dom_PacketRecipeBookRemove (p : PacketRecipeBookRemove) : Prop :=
  vec_dom (in_i 32) (PacketRecipeBookRemove_recipe_ids p).
Definition bytes_PacketRecipeBookRemove (p : PacketRecipeBookRemove) : list byte :=
  concat [vec_bytes varint_bytes (PacketRecipeBookRemove_recipe_ids p)].
#[export] Instance lawful_PacketRecipeBookRemove : LawfulCodec wire_PacketRecipeBookRemove dom_PacketRecipeBookRemove bytes_PacketRecipeBookRemove.
Proof. solve_packet. Qed.

Record PacketRecipeBookSettings : Type := mkPacketRecipeBookSettings {
  PacketRecipeBookSettings_crafting_gui_open : bool;
  PacketRecipeBookSettings_crafting_filtering_craftable : bool;
  PacketRecipeBookSettings_smelting_gui_open : bool;
  PacketRecipeBookSettings_smelting_filtering_craftable : bool;
  PacketRecipeBookSettings_blast_gui_open : bool;
  PacketRecipeBookSettings_blast_filtering_craftable : bool;
  PacketRecipeBookSettings_smoker_gui_open : bool;
  PacketRecipeBookSettings_smoker_filtering_craftable : bool;
}.
Definition wire_PacketRecipeBookSettings : Codec PacketRecipeBookSettings := {|
  encode p :=
    encode wire_bool (PacketRecipeBookSettings_crafting_gui_open p) ;;;
    encode wire_bool (PacketRecipeBookSettings_crafting_filtering_craftable p) ;;;
    encode wire_bool (PacketRecipeBookSettings_smelting_gui_open p) ;;;
    encode wire_bool (PacketRecipeBookSettings_smelting_filtering_craftable p) ;;;
    encode wire_bool (PacketRecipeBookSettings_blast_gui_open p) ;;;
    encode wire_bool (PacketRecipeBookSettings_blast_filtering_craftable p) ;;;
    encode wire_bool (PacketRecipeBookSettings_smoker_gui_open p) ;;;
    encode wire_bool (PacketRecipeBookSettings_smoker_filtering_craftable p) ;;;
    ret tt;
  decode :=
    let* crafting_gui_open := decode wire_bool in
    let* crafting_filtering_craftable := decode wire_bool in
    let* smelting_gui_open := decode wire_bool in
    let* smelting_filtering_craftable := decode wire_bool in
    let* blast_gui_open := decode wire_bool in
    let* blast_filtering_craftable := decode wire_bool in
    let* smoker_gui_open := decode wire_bool in
    let* smoker_filtering_craftable := decode wire_bool in
    ret (mkPacketRecipeBookSettings crafting_gui_open crafting_filtering_craftable smelting_gui_open smelting_filtering_craftable blast_gui_open blast_filtering_craftable smoker_gui_open smoker_filtering_craftable);
|}.
Definition dom_PacketRecipeBookSettings (p : PacketRecipeBookSettings) : Prop :=
  True.
Definition bytes_PacketRecipeBookSettings (p : PacketRecipeBookSettings) : list byte :=
  concat [bool_bytes (PacketRecipeBookSettings_crafting_gui_open p);
    bool_bytes (PacketRecipeBookSettings_crafting_filtering_craftable p);
    bool_bytes (PacketRecipeBookSettings_smelting_gui_open p);
    bool_bytes (PacketRecipeBookSettings_smelting_filtering_craftable p);
    bool_bytes (PacketRecipeBookSettings_blast_gui_open p);
    bool_bytes (PacketRecipeBookSettings_blast_filtering_craftable p);
    bool_bytes (PacketRecipeBookSettings_smoker_gui_open p);
    bool_bytes (PacketRecipeBookSettings_smoker_filtering_craftable p)].
#[export] Instance lawful_PacketRecipeBookSettings : LawfulCodec wire_PacketRecipeBookSettings dom_PacketRecipeBookSettings bytes_PacketRecipeBookSettings.
Proof. solve_packet. Qed.

Record PacketEntityDestroy : Type := mkPacketEntityDestroy {
  PacketEntityDestroy_entity_ids : list Z;
}.
Definition wire_PacketEntityDestroy : Codec PacketEntityDestroy := {|
  encode p :=
    encode (wire_Vec wire_varint) (PacketEntityDestroy_entity_ids p) ;;;
    ret tt;
  decode :=
    let* entity_ids := decode (wire_Vec wire_varint) in
    ret (mkPacketEntityDestroy entity_ids);
|}.
Definition dom_PacketEntityDestroy (p : PacketEntityDestroy) : Prop :=
  vec_dom (in_i 32) (PacketEntityDestroy_entity_ids p).
Definition bytes_PacketEntityDestroy (p : PacketEntityDestroy) : list byte :=
  concat [vec_bytes varint_bytes (PacketEntityDestroy_entity_ids p)].
#[export] Instance lawful_PacketEntityDestroy : LawfulCodec wire_PacketEntityDestroy dom_PacketEntityDestroy bytes_PacketEntityDestroy.
Proof. solve_packet. Qed.

Record PacketRemoveEntityEffect : Type := mkPacketRemoveEntityEffect {
  PacketRemoveEntityEffect_entity_id : Z;
  PacketRemoveEntityEffect_effect_id : Z;
}.
Definition wire_PacketRemoveEntityEffect : Codec PacketRemoveEntityEffect := {|
  encode p :=
    modify (write_varint (PacketRemoveEntityEffect_entity_id p)) ;;;
    modify (write_varint (PacketRemoveEntityEffect_effect_id p)) ;;;
    ret tt;
  decode :=
    let* entity_id := read_varint in
    let* effect_id := read_varint in
    ret (mkPacketRemoveEntityEffect entity_id effect_id);
|}.
Definition dom_PacketRemoveEntityEffect (p : PacketRemoveEntityEffect) : Prop :=
  in_i 32 (PacketRemoveEntityEffect_entity_id p)
  ∧ in_i 32 (PacketRemoveEntityEffect_effect_id p).
Definition bytes_PacketRemoveEntityEffect (p : PacketRemoveEntityEffect) : list byte :=
  concat [varint_bytes (PacketRemoveEntityEffect_entity_id p);
    varint_bytes (PacketRemoveEntityEffect_effect_id p)].
#[export] Instance lawful_PacketRemoveEntityEffect : LawfulCodec wire_PacketRemoveEntityEffect dom_PacketRemoveEntityEffect bytes_PacketRemoveEntityEffect.
Proof. solve_packet. Qed.

Record PacketResetScore : Type := mkPacketResetScore {
  PacketResetScore_entity_name : string;
  PacketResetScore_objective_name : option string;
}.
Definition wire_PacketResetScore : Codec PacketResetScore := {|
  encode p :=
    encode wire_String (PacketResetScore_entity_name p) ;;;
    encode (wire_Option wire_String) (PacketResetScore_objective_name p) ;;;
    ret tt;
  decode :=
    let* entity_name := decode wire_String in
    let* objective_name := decode (wire_Option wire_String) in
    ret (mkPacketResetScore entity_name objective_name);
|}.
Definition dom_PacketResetScore (p : PacketResetScore) : Prop :=
  wire_string (PacketResetScore_entity_name p)
  ∧ option_dom wire_string (PacketResetScore_objective_name p).
Definition bytes_PacketResetScore (p : PacketResetScore) : list byte :=
  concat [string_bytes (PacketResetScore_entity_name p);
    option_bytes string_bytes (PacketResetScore_objective_name p)].
#[export] Instance lawful_PacketResetScore : LawfulCodec wire_PacketResetScore dom_PacketResetScore bytes_PacketResetScore.
Proof. solve_packet. Qed.

Record PacketRespawn : Type := mkPacketRespawn {
  PacketRespawn_world_state : SpawnInfo;
  PacketRespawn_copy_metadata : Z;
}.
Definition wire_PacketRespawn : Codec PacketRespawn := {|
  encode p :=
    encode wire_SpawnInfo (PacketRespawn_world_state p) ;;;
    encode wire_u8 (PacketRespawn_copy_metadata p) ;;;
    ret tt;
  decode :=
    let* world_state := decode wire_SpawnInfo in
    let* copy_metadata := decode wire_u8 in
    ret (mkPacketRespawn world_state copy_metadata);
|}.
Definition dom_PacketRespawn (p : PacketRespawn) : Prop :=
  dom_SpawnInfo (PacketRespawn_world_state p)
  ∧ in_u 8 (PacketRespawn_copy_metadata p).
Definition bytes_PacketRespawn (p : PacketRespawn) : list byte :=
  concat [bytes_SpawnInfo (PacketRespawn_world_state p);
    be_bytes 1 (PacketRespawn_copy_metadata p)].
#[export] Instance lawful_PacketRespawn : LawfulCodec wire_PacketRespawn dom_PacketRespawn bytes_PacketRespawn.
Proof. solve_packet. Qed.

Record PacketEntityHeadRotation : Type := mkPacketEntityHeadRotation {
  PacketEntityHeadRotation_entity_id : Z;
  PacketEntityHeadRotation_head_yaw : Z;
}.
Definition wire_PacketEntityHeadRotation : Codec PacketEntityHeadRotation := {|
  encode p :=
    modify (write_varint (PacketEntityHeadRotation_entity_id p)) ;;;
    encode wire_i8 (PacketEntityHeadRotation_head_yaw p) ;;;
    ret tt;
  decode :=
    let* entity_id := read_varint in
    let* head_yaw := decode wire_i8 in
    ret (mkPacketEntityHeadRotation entity_id head_yaw);
|}.
Definition dom_PacketEntityHeadRotation (p : PacketEntityHeadRotation) : Prop :=
  in_i 32 (PacketEntityHeadRotation_entity_id p)
  ∧ in_i 8 (PacketEntityHeadRotation_head_yaw p).
Definition bytes_PacketEntityHeadRotation (p : PacketEntityHeadRotation) : list byte :=
  concat [varint_bytes (PacketEntityHeadRotation_entity_id p);
    be_bytes 1 (PacketEntityHeadRotation_head_yaw p)].
#[export] Instance lawful_PacketEntityHeadRotation : LawfulCodec wire_PacketEntityHeadRotation dom_PacketEntityHeadRotation bytes_PacketEntityHeadRotation.
Proof. solve_packet. Qed.

Record PacketSelectAdvancementTab : Type := mkPacketSelectAdvancementTab {
  PacketSelectAdvancementTab_id : option string;
}.
Definition wire_PacketSelectAdvancementTab : Codec PacketSelectAdvancementTab := {|
  encode p :=
    encode (wire_Option wire_String) (PacketSelectAdvancementTab_id p) ;;;
    ret tt;
  decode :=
    let* id := decode (wire_Option wire_String) in
    ret (mkPacketSelectAdvancementTab id);
|}.
Definition dom_PacketSelectAdvancementTab (p : PacketSelectAdvancementTab) : Prop :=
  option_dom wire_string (PacketSelectAdvancementTab_id p).
Definition bytes_PacketSelectAdvancementTab (p : PacketSelectAdvancementTab) : list byte :=
  concat [option_bytes string_bytes (PacketSelectAdvancementTab_id p)].
#[export] Instance lawful_PacketSelectAdvancementTab : LawfulCodec wire_PacketSelectAdvancementTab dom_PacketSelectAdvancementTab bytes_PacketSelectAdvancementTab.
Proof. solve_packet. Qed.

Record PacketServerData : Type := mkPacketServerData {
  PacketServerData_motd : Nbt;
  PacketServerData_icon_bytes : option (list Z);
}.
Definition wire_PacketServerData : Codec PacketServerData := {|
  encode p :=
    encode wire_Nbt (PacketServerData_motd p) ;;;
    encode (wire_Option (wire_Vec wire_u8)) (PacketServerData_icon_bytes p) ;;;
    ret tt;
  decode :=
    let* motd := decode wire_Nbt in
    let* icon_bytes := decode (wire_Option (wire_Vec wire_u8)) in
    ret (mkPacketServerData motd icon_bytes);
|}.
Definition dom_PacketServerData (p : PacketServerData) : Prop :=
  nbt_fits (PacketServerData_motd p)
  ∧ option_dom (vec_dom (in_u 8)) (PacketServerData_icon_bytes p).
Definition bytes_PacketServerData (p : PacketServerData) : list byte :=
  concat [nbt_bytes (PacketServerData_motd p);
    option_bytes (vec_bytes (be_bytes 1)) (PacketServerData_icon_bytes p)].
#[export] Instance lawful_PacketServerData : LawfulCodec wire_PacketServerData dom_PacketServerData bytes_PacketServerData.
Proof. solve_packet. Qed.

Record PacketActionBar : Type := mkPacketActionBar {
  PacketActionBar_text : Nbt;
}.
Definition wire_PacketActionBar : Codec PacketActionBar := {|
  encode p :=
    encode wire_Nbt (PacketActionBar_text p) ;;;
    ret tt;
  decode :=
    let* text := decode wire_Nbt in
    ret (mkPacketActionBar text);
|}.
Definition dom_PacketActionBar (p : PacketActionBar) : Prop :=
  nbt_fits (PacketActionBar_text p).
Definition bytes_PacketActionBar (p : PacketActionBar) : list byte :=
  concat [nbt_bytes (PacketActionBar_text p)].
#[export] Instance lawful_PacketActionBar : LawfulCodec wire_PacketActionBar dom_PacketActionBar bytes_PacketActionBar.
Proof. solve_packet. Qed.

Record PacketWorldBorderCenter : Type := mkPacketWorldBorderCenter {
  PacketWorldBorderCenter_x : Z;
  PacketWorldBorderCenter_z : Z;
}.
Definition wire_PacketWorldBorderCenter : Codec PacketWorldBorderCenter := {|
  encode p :=
    encode wire_f64 (PacketWorldBorderCenter_x p) ;;;
    encode wire_f64 (PacketWorldBorderCenter_z p) ;;;
    ret tt;
  decode :=
    let* x := decode wire_f64 in
    let* z := decode wire_f64 in
    ret (mkPacketWorldBorderCenter x z);
|}.
Definition dom_PacketWorldBorderCenter (p : PacketWorldBorderCenter) : Prop :=
  in_u 64 (PacketWorldBorderCenter_x p)
  ∧ in_u 64 (PacketWorldBorderCenter_z p).
Definition bytes_PacketWorldBorderCenter (p : PacketWorldBorderCenter) : list byte :=
  concat [be_bytes 8 (PacketWorldBorderCenter_x p);
    be_bytes 8 (PacketWorldBorderCenter_z p)].
#[export] Instance lawful_PacketWorldBorderCenter : LawfulCodec wire_PacketWorldBorderCenter dom_PacketWorldBorderCenter bytes_PacketWorldBorderCenter.
Proof. solve_packet. Qed.

Record PacketWorldBorderLerpSize : Type := mkPacketWorldBorderLerpSize {
  PacketWorldBorderLerpSize_old_diameter : Z;
  PacketWorldBorderLerpSize_new_diameter : Z;
  PacketWorldBorderLerpSize_speed : Z;
}.
Definition wire_PacketWorldBorderLerpSize : Codec PacketWorldBorderLerpSize := {|
  encode p :=
    encode wire_f64 (PacketWorldBorderLerpSize_old_diameter p) ;;;
    encode wire_f64 (PacketWorldBorderLerpSize_new_diameter p) ;;;
    modify (write_varint (PacketWorldBorderLerpSize_speed p)) ;;;
    ret tt;
  decode :=
    let* old_diameter := decode wire_f64 in
    let* new_diameter := decode wire_f64 in
    let* speed := read_varint in
    ret (mkPacketWorldBorderLerpSize old_diameter new_diameter speed);
|}.
Definition dom_PacketWorldBorderLerpSize (p : PacketWorldBorderLerpSize) : Prop :=
  in_u 64 (PacketWorldBorderLerpSize_old_diameter p)
  ∧ in_u 64 (PacketWorldBorderLerpSize_new_diameter p)
  ∧ in_i 32 (PacketWorldBorderLerpSize_speed p).
Definition bytes_PacketWorldBorderLerpSize (p : PacketWorldBorderLerpSize) : list byte :=
  concat [be_bytes 8 (PacketWorldBorderLerpSize_old_diameter p);
    be_bytes 8 (PacketWorldBorderLerpSize_new_diameter p);
    varint_bytes (PacketWorldBorderLerpSize_speed p)].
#[export] Instance lawful_PacketWorldBorderLerpSize : LawfulCodec wire_PacketWorldBorderLerpSize dom_PacketWorldBorderLerpSize bytes_PacketWorldBorderLerpSize.
Proof. solve_packet. Qed.

Record PacketWorldBorderSize : Type := mkPacketWorldBorderSize {
  PacketWorldBorderSize_diameter : Z;
}.
Definition wire_PacketWorldBorderSize : Codec PacketWorldBorderSize := {|
  encode p :=
    encode wire_f64 (PacketWorldBorderSize_diameter p) ;;;
    ret tt;
  decode :=
    let* diameter := decode wire_f64 in
    ret (mkPacketWorldBorderSize diameter);
|}.
Definition dom_PacketWorldBorderSize (p : PacketWorldBorderSize) : Prop :=
  in_u 64 (PacketWorldBorderSize_diameter p).
Definition bytes_PacketWorldBorderSize (p : PacketWorldBorderSize) : list byte :=
  concat [be_bytes 8 (PacketWorldBorderSize_diameter p)].
#[export] Instance lawful_PacketWorldBorderSize : LawfulCodec wire_PacketWorldBorderSize dom_PacketWorldBorderSize bytes_PacketWorldBorderSize.
Proof. solve_packet. Qed.

Record PacketWorldBorderWarningDelay : Type := mkPacketWorldBorderWarningDelay {
  PacketWorldBorderWarningDelay_warning_time : Z;
}.
Definition wire_PacketWorldBorderWarningDelay : Codec PacketWorldBorderWarningDelay := {|
  encode p :=
    modify (write_varint (PacketWorldBorderWarningDelay_warning_time p)) ;;;
    ret tt;
  decode :=
    let* warning_time := read_varint in
    ret (mkPacketWorldBorderWarningDelay warning_time);
|}.
Definition dom_PacketWorldBorderWarningDelay (p : PacketWorldBorderWarningDelay) : Prop :=
  in_i 32 (PacketWorldBorderWarningDelay_warning_time p).
Definition bytes_PacketWorldBorderWarningDelay (p : PacketWorldBorderWarningDelay) : list byte :=
  concat [varint_bytes (PacketWorldBorderWarningDelay_warning_time p)].
#[export] Instance lawful_PacketWorldBorderWarningDelay : LawfulCodec wire_PacketWorldBorderWarningDelay dom_PacketWorldBorderWarningDelay bytes_PacketWorldBorderWarningDelay.
Proof. solve_packet. Qed.

Record PacketWorldBorderWarningReach : Type := mkPacketWorldBorderWarningReach {
  PacketWorldBorderWarningReach_warning_blocks : Z;
}.
Definition wire_PacketWorldBorderWarningReach : Codec PacketWorldBorderWarningReach := {|
  encode p :=
    modify (write_varint (PacketWorldBorderWarningReach_warning_blocks p)) ;;;
    ret tt;
  decode :=
    let* warning_blocks := read_varint in
    ret (mkPacketWorldBorderWarningReach warning_blocks);
|}.
Definition dom_PacketWorldBorderWarningReach (p : PacketWorldBorderWarningReach) : Prop :=
  in_i 32 (PacketWorldBorderWarningReach_warning_blocks p).
Definition bytes_PacketWorldBorderWarningReach (p : PacketWorldBorderWarningReach) : list byte :=
  concat [varint_bytes (PacketWorldBorderWarningReach_warning_blocks p)].
#[export] Instance lawful_PacketWorldBorderWarningReach : LawfulCodec wire_PacketWorldBorderWarningReach dom_PacketWorldBorderWarningReach bytes_PacketWorldBorderWarningReach.
Proof. solve_packet. Qed.

Record PacketCamera : Type := mkPacketCamera {
  PacketCamera_camera_id : Z;
}.
Definition wire_PacketCamera : Codec PacketCamera := {|
  encode p :=
    modify (write_varint (PacketCamera_camera_id p)) ;;;
    ret tt;
  decode :=
    let* camera_id := read_varint in
    ret (mkPacketCamera camera_id);
|}.
Definition dom_PacketCamera (p : PacketCamera) : Prop :=
  in_i 32 (PacketCamera_camera_id p).
Definition bytes_PacketCamera (p : PacketCamera) : list byte :=
  concat [varint_bytes (PacketCamera_camera_id p)].
#[export] Instance lawful_PacketCamera : LawfulCodec wire_PacketCamera dom_PacketCamera bytes_PacketCamera.
Proof. solve_packet. Qed.

Record PacketUpdateViewPosition : Type := mkPacketUpdateViewPosition {
  PacketUpdateViewPosition_chunk_x : Z;
  PacketUpdateViewPosition_chunk_z : Z;
}.
Definition wire_PacketUpdateViewPosition : Codec PacketUpdateViewPosition := {|
  encode p :=
    modify (write_varint (PacketUpdateViewPosition_chunk_x p)) ;;;
    modify (write_varint (PacketUpdateViewPosition_chunk_z p)) ;;;
    ret tt;
  decode :=
    let* chunk_x := read_varint in
    let* chunk_z := read_varint in
    ret (mkPacketUpdateViewPosition chunk_x chunk_z);
|}.
Definition dom_PacketUpdateViewPosition (p : PacketUpdateViewPosition) : Prop :=
  in_i 32 (PacketUpdateViewPosition_chunk_x p)
  ∧ in_i 32 (PacketUpdateViewPosition_chunk_z p).
Definition bytes_PacketUpdateViewPosition (p : PacketUpdateViewPosition) : list byte :=
  concat [varint_bytes (PacketUpdateViewPosition_chunk_x p);
    varint_bytes (PacketUpdateViewPosition_chunk_z p)].
#[export] Instance lawful_PacketUpdateViewPosition : LawfulCodec wire_PacketUpdateViewPosition dom_PacketUpdateViewPosition bytes_PacketUpdateViewPosition.
Proof. solve_packet. Qed.

Record PacketUpdateViewDistance : Type := mkPacketUpdateViewDistance {
  PacketUpdateViewDistance_view_distance : Z;
}.
Definition wire_PacketUpdateViewDistance : Codec PacketUpdateViewDistance := {|
  encode p :=
    modify (write_varint (PacketUpdateViewDistance_view_distance p)) ;;;
    ret tt;
  decode :=
    let* view_distance := read_varint in
    ret (mkPacketUpdateViewDistance view_distance);
|}.
Definition dom_PacketUpdateViewDistance (p : PacketUpdateViewDistance) : Prop :=
  in_i 32 (PacketUpdateViewDistance_view_distance p).
Definition bytes_PacketUpdateViewDistance (p : PacketUpdateViewDistance) : list byte :=
  concat [varint_bytes (PacketUpdateViewDistance_view_distance p)].
#[export] Instance lawful_PacketUpdateViewDistance : LawfulCodec wire_PacketUpdateViewDistance dom_PacketUpdateViewDistance bytes_PacketUpdateViewDistance.
Proof. solve_packet. Qed.

Record PacketSpawnPosition : Type := mkPacketSpawnPosition {
  PacketSpawnPosition_location : Position;
  PacketSpawnPosition_angle : Z;
}.
Definition wire_PacketSpawnPosition : Codec PacketSpawnPosition := {|
  encode p :=
    encode wire_Position (PacketSpawnPosition_location p) ;;;
    encode wire_f32 (PacketSpawnPosition_angle p) ;;;
    ret tt;
  decode :=
    let* location := decode wire_Position in
    let* angle := decode wire_f32 in
    ret (mkPacketSpawnPosition location angle);
|}.
Definition dom_PacketSpawnPosition (p : PacketSpawnPosition) : Prop :=
  dom_Position (PacketSpawnPosition_location p)
  ∧ in_u 32 (PacketSpawnPosition_angle p).
Definition bytes_PacketSpawnPosition (p : PacketSpawnPosition) : list byte :=
  concat [bytes_Position (PacketSpawnPosition_location p);
    be_bytes 4 (PacketSpawnPosition_angle p)].
#[export] Instance lawful_PacketSpawnPosition : LawfulCodec wire_PacketSpawnPosition dom_PacketSpawnPosition bytes_PacketSpawnPosition.
Proof. solve_packet. Qed.

Record PacketScoreboardDisplayObjective : Type := mkPacketScoreboardDisplayObjective {
  PacketScoreboardDisplayObjective_position : Z;
  PacketScoreboardDisplayObjective_name : string;
}.
Definition wire_PacketScoreboardDisplayObjective : Codec PacketScoreboardDisplayObjective := {|
  encode p :=
    modify (write_varint (PacketScoreboardDisplayObjective_position p)) ;;;
    encode wire_String (PacketScoreboardDisplayObjective_name p) ;;;
    ret tt;
  decode :=
    let* position := read_varint in
    let* name := decode wire_String in
    ret (mkPacketScoreboardDisplayObjective position name);
|}.
Definition dom_PacketScoreboardDisplayObjective (p : PacketScoreboardDisplayObjective) : Prop :=
  in_i 32 (PacketScoreboardDisplayObjective_position p)
  ∧ wire_string (PacketScoreboardDisplayObjective_name p).
Definition bytes_PacketScoreboardDisplayObjective (p : PacketScoreboardDisplayObjective) : list byte :=
  concat [varint_bytes (PacketScoreboardDisplayObjective_position p);
    string_bytes (PacketScoreboardDisplayObjective_name p)].
#[export] Instance lawful_PacketScoreboardDisplayObjective : LawfulCodec wire_PacketScoreboardDisplayObjective dom_PacketScoreboardDisplayObjective bytes_PacketScoreboardDisplayObjective.
Proof. solve_packet. Qed.

Record PacketAttachEntity : Type := mkPacketAttachEntity {
  PacketAttachEntity_entity_id : Z;
  PacketAttachEntity_vehicle_id : Z;
}.
Definition wire_PacketAttachEntity : Codec PacketAttachEntity := {|
  encode p :=
    modify (put_i32 (PacketAttachEntity_entity_id p)) ;;;
    modify (put_i32 (PacketAttachEntity_vehicle_id p)) ;;;
    ret tt;
  decode :=
    let* entity_id := get_i32 in
    let* vehicle_id := get_i32 in
    ret (mkPacketAttachEntity entity_id vehicle_id);
|}.
Definition dom_PacketAttachEntity (p : PacketAttachEntity) : Prop :=
  in_i 32 (PacketAttachEntity_entity_id p)
  ∧ in_i 32 (PacketAttachEntity_vehicle_id p).
Definition bytes_PacketAttachEntity (p : PacketAttachEntity) : list byte :=
  concat [be_bytes 4 (PacketAttachEntity_entity_id p);
    be_bytes 4 (PacketAttachEntity_vehicle_id p)].
#[export] Instance lawful_PacketAttachEntity : LawfulCodec wire_PacketAttachEntity dom_PacketAttachEntity bytes_PacketAttachEntity.
Proof. solve_packet. Qed.

Record PacketEntityVelocity : Type := mkPacketEntityVelocity {
  PacketEntityVelocity_entity_id : Z;
  PacketEntityVelocity_velocity : Vec3i16;
}.
Definition wire_PacketEntityVelocity : Codec PacketEntityVelocity := {|
  encode p :=
    modify (write_varint (PacketEntityVelocity_entity_id p)) ;;;
    encode wire_Vec3i16 (PacketEntityVelocity_velocity p) ;;;
    ret tt;
  decode :=
    let* entity_id := read_varint in
    let* velocity := decode wire_Vec3i16 in
    ret (mkPacketEntityVelocity entity_id velocity);
|}.
Definition dom_PacketEntityVelocity (p : PacketEntityVelocity) : Prop :=
  in_i 32 (PacketEntityVelocity_entity_id p)
  ∧ dom_Vec3i16 (PacketEntityVelocity_velocity p).
Definition bytes_PacketEntityVelocity (p : PacketEntityVelocity) : list byte :=
  concat [varint_bytes (PacketEntityVelocity_entity_id p);
    bytes_Vec3i16 (PacketEntityVelocity_velocity p)].
#[export] Instance lawful_PacketEntityVelocity : LawfulCodec wire_PacketEntityVelocity dom_PacketEntityVelocity bytes_PacketEntityVelocity.
Proof. solve_packet. Qed.

Record PacketExperience : Type := mkPacketExperience {
  PacketExperience_experience_bar : Z;
  PacketExperience_level : Z;
  PacketExperience_total_experience : Z;
}.
Definition wire_PacketExperience : Codec PacketExperience := {|
  encode p :=
    encode wire_f32 (PacketExperience_experience_bar p) ;;;
    modify (write_varint (PacketExperience_level p)) ;;;
    modify (write_varint (PacketExperience_total_experience p)) ;;;
    ret tt;
  decode :=
    let* experience_bar := decode wire_f32 in
    let* level := read_varint in
    let* total_experience := read_varint in
    ret (mkPacketExperience experience_bar level total_experience);
|}.
Definition dom_PacketExperience (p : PacketExperience) : Prop :=
  in_u 32 (PacketExperience_experience_bar p)
  ∧ in_i 32 (PacketExperience_level p)
  ∧ in_i 32 (PacketExperience_total_experience p).
Definition bytes_PacketExperience (p : PacketExperience) : list byte :=
  concat [be_bytes 4 (PacketExperience_experience_bar p);
    varint_bytes (PacketExperience_level p);
    varint_bytes (PacketExperience_total_experience p)].
#[export] Instance lawful_PacketExperience : LawfulCodec wire_PacketExperience dom_PacketExperience bytes_PacketExperience.
Proof. solve_packet. Qed.

Record PacketUpdateHealth : Type := mkPacketUpdateHealth {
  PacketUpdateHealth_health : Z;
  PacketUpdateHealth_food : Z;
  PacketUpdateHealth_food_saturation : Z;
}.
Definition wire_PacketUpdateHealth : Codec PacketUpdateHealth := {|
  encode p :=
    encode wire_f32 (PacketUpdateHealth_health p) ;;;
    modify (write_varint (PacketUpdateHealth_food p)) ;;;
    encode wire_f32 (PacketUpdateHealth_food_saturation p) ;;;
    ret tt;
  decode :=
    let* health := decode wire_f32 in
    let* food := read_varint in
    let* food_saturation := decode wire_f32 in
    ret (mkPacketUpdateHealth health food food_saturation);
|}.
Definition dom_PacketUpdateHealth (p : PacketUpdateHealth) : Prop :=
  in_u 32 (PacketUpdateHealth_health p)
  ∧ in_i 32 (PacketUpdateHealth_food p)
  ∧ in_u 32 (PacketUpdateHealth_food_saturation p).
Definition bytes_PacketUpdateHealth (p : PacketUpdateHealth) : list byte :=
  concat [be_bytes 4 (PacketUpdateHealth_health p);
    varint_bytes (PacketUpdateHealth_food p);
    be_bytes 4 (PacketUpdateHealth_food_saturation p)].
#[export] Instance lawful_PacketUpdateHealth : LawfulCodec wire_PacketUpdateHealth dom_PacketUpdateHealth bytes_PacketUpdateHealth.
Proof. solve_packet. Qed.

Record PacketHeldItemSlot : Type := mkPacketHeldItemSlot {
  PacketHeldItemSlot_slot : Z;
}.
Definition wire_PacketHeldItemSlot : Codec PacketHeldItemSlot := {|
  encode p :=
    modify (write_varint (PacketHeldItemSlot_slot p)) ;;;
    ret tt;
  decode :=
    let* slot := read_varint in
    ret (mkPacketHeldItemSlot slot);
|}.
Definition dom_PacketHeldItemSlot (p : PacketHeldItemSlot) : Prop :=
  in_i 32 (PacketHeldItemSlot_slot p).
Definition bytes_PacketHeldItemSlot (p : PacketHeldItemSlot) : list byte :=
  concat [varint_bytes (PacketHeldItemSlot_slot p)].
#[export] Instance lawful_PacketHeldItemSlot : LawfulCodec wire_PacketHeldItemSlot dom_PacketHeldItemSlot bytes_PacketHeldItemSlot.
Proof. solve_packet. Qed.

Record PacketSetPassengers : Type := mkPacketSetPassengers {
  PacketSetPassengers_entity_id : Z;
  PacketSetPassengers_passengers : list Z;
}.
Definition wire_PacketSetPassengers : Codec PacketSetPassengers := {|
  encode p :=
    modify (write_varint (PacketSetPassengers_entity_id p)) ;;;
    encode (wire_Vec wire_varint) (PacketSetPassengers_passengers p) ;;;
    ret tt;
  decode :=
    let* entity_id := read_varint in
    let* passengers := decode (wire_Vec wire_varint) in
    ret (mkPacketSetPassengers entity_id passengers);
|}.
Definition dom_PacketSetPassengers (p : PacketSetPassengers) : Prop :=
  in_i 32 (PacketSetPassengers_entity_id p)
  ∧ vec_dom (in_i 32) (PacketSetPassengers_passengers p).
Definition bytes_PacketSetPassengers (p : PacketSetPassengers) : list byte :=
  concat [varint_bytes (PacketSetPassengers_entity_id p);
    vec_bytes varint_bytes (PacketSetPassengers_passengers p)].
#[export] Instance lawful_PacketSetPassengers : LawfulCodec wire_PacketSetPassengers dom_PacketSetPassengers bytes_PacketSetPassengers.
Proof. solve_packet. Qed.

Record PacketSimulationDistance : Type := mkPacketSimulationDistance {
  PacketSimulationDistance_distance : Z;
}.
Definition wire_PacketSimulationDistance : Codec PacketSimulationDistance := {|
  encode p :=
    modify (write_varint (PacketSimulationDistance_distance p)) ;;;
    ret tt;
  decode :=
    let* distance := read_varint in
    ret (mkPacketSimulationDistance distance);
|}.
Definition dom_PacketSimulationDistance (p : PacketSimulationDistance) : Prop :=
  in_i 32 (PacketSimulationDistance_distance p).
Definition bytes_PacketSimulationDistance (p : PacketSimulationDistance) : list byte :=
  concat [varint_bytes (PacketSimulationDistance_distance p)].
#[export] Instance lawful_PacketSimulationDistance : LawfulCodec wire_PacketSimulationDistance dom_PacketSimulationDistance bytes_PacketSimulationDistance.
Proof. solve_packet. Qed.

Record PacketSetTitleSubtitle : Type := mkPacketSetTitleSubtitle {
  PacketSetTitleSubtitle_text : Nbt;
}.
Definition wire_PacketSetTitleSubtitle : Codec PacketSetTitleSubtitle := {|
  encode p :=
    encode wire_Nbt (PacketSetTitleSubtitle_text p) ;;;
    ret tt;
  decode :=
    let* text := decode wire_Nbt in
    ret (mkPacketSetTitleSubtitle text);
|}.
Definition dom_PacketSetTitleSubtitle (p : PacketSetTitleSubtitle) : Prop :=
  nbt_fits (PacketSetTitleSubtitle_text p).
Definition bytes_PacketSetTitleSubtitle (p : PacketSetTitleSubtitle) : list byte :=
  concat [nbt_bytes (PacketSetTitleSubtitle_text p)].
#[export] Instance lawful_PacketSetTitleSubtitle : LawfulCodec wire_PacketSetTitleSubtitle dom_PacketSetTitleSubtitle bytes_PacketSetTitleSubtitle.
Proof. solve_packet. Qed.

Record PacketUpdateTime : Type := mkPacketUpdateTime {
  PacketUpdateTime_age : Z;
  PacketUpdateTime_time : Z;
  PacketUpdateTime_tick_day_time : bool;
}.
Definition wire_PacketUpdateTime : Codec PacketUpdateTime := {|
  encode p :=
    modify (put_i64 (PacketUpdateTime_age p)) ;;;
    modify (put_i64 (PacketUpdateTime_time p)) ;;;
    encode wire_bool (PacketUpdateTime_tick_day_time p) ;;;
    ret tt;
  decode :=
    let* age := get_i64 in
    let* time := get_i64 in
    let* tick_day_time := decode wire_bool in
    ret (mkPacketUpdateTime age time tick_day_time);
|}.
Definition dom_PacketUpdateTime (p : PacketUpdateTime) : Prop :=
  in_i 64 (PacketUpdateTime_age p)
  ∧ in_i 64 (PacketUpdateTime_time p).
Definition bytes_PacketUpdateTime (p : PacketUpdateTime) : list byte :=
  concat [be_bytes 8 (PacketUpdateTime_age p);
    be_bytes 8 (PacketUpdateTime_time p);
    bool_bytes (PacketUpdateTime_tick_day_time p)].
#[export] Instance lawful_PacketUpdateTime : LawfulCodec wire_PacketUpdateTime dom_PacketUpdateTime bytes_PacketUpdateTime.
Proof. solve_packet. Qed.

Record PacketSetTitleText : Type := mkPacketSetTitleText {
  PacketSetTitleText_text : Nbt;
}.
Definition wire_PacketSetTitleText : Codec PacketSetTitleText := {|
  encode p :=
    encode wire_Nbt (PacketSetTitleText_text p) ;;;
    ret tt;
  decode :=
    let* text := decode wire_Nbt in
    ret (mkPacketSetTitleText text);
|}.
Definition dom_PacketSetTitleText (p : PacketSetTitleText) : Prop :=
  nbt_fits (PacketSetTitleText_text p).
Definition bytes_PacketSetTitleText (p : PacketSetTitleText) : list byte :=
  concat [nbt_bytes (PacketSetTitleText_text p)].
#[export] Instance lawful_PacketSetTitleText : LawfulCodec wire_PacketSetTitleText dom_PacketSetTitleText bytes_PacketSetTitleText.
Proof. solve_packet. Qed.

Record PacketSetTitleTime : Type := mkPacketSetTitleTime {
  PacketSetTitleTime_fade_in : Z;
  PacketSetTitleTime_stay : Z;
  PacketSetTitleTime_fade_out : Z;
}.
Definition wire_PacketSetTitleTime : Codec PacketSetTitleTime := {|
  encode p :=
    modify (put_i32 (PacketSetTitleTime_fade_in p)) ;;;
    modify (put_i32 (PacketSetTitleTime_stay p)) ;;;
    modify (put_i32 (PacketSetTitleTime_fade_out p)) ;;;
    ret tt;
  decode :=
    let* fade_in := get_i32 in
    let* stay := get_i32 in
    let* fade_out := get_i32 in
    ret (mkPacketSetTitleTime fade_in stay fade_out);
|}.
Definition dom_PacketSetTitleTime (p : PacketSetTitleTime) : Prop :=
  in_i 32 (PacketSetTitleTime_fade_in p)
  ∧ in_i 32 (PacketSetTitleTime_stay p)
  ∧ in_i 32 (PacketSetTitleTime_fade_out p).
Definition bytes_PacketSetTitleTime (p : PacketSetTitleTime) : list byte :=
  concat [be_bytes 4 (PacketSetTitleTime_fade_in p);
    be_bytes 4 (PacketSetTitleTime_stay p);
    be_bytes 4 (PacketSetTitleTime_fade_out p)].
#[export] Instance lawful_PacketSetTitleTime : LawfulCodec wire_PacketSetTitleTime dom_PacketSetTitleTime bytes_PacketSetTitleTime.
Proof. solve_packet. Qed.

Record PacketEntitySoundEffect : Type := mkPacketEntitySoundEffect {
  PacketEntitySoundEffect_sound : Holder ItemSoundEvent;
  PacketEntitySoundEffect_sound_category : SoundSource;
  PacketEntitySoundEffect_entity_id : Z;
  PacketEntitySoundEffect_volume : Z;
  PacketEntitySoundEffect_pitch : Z;
  PacketEntitySoundEffect_seed : Z;
}.
Definition wire_PacketEntitySoundEffect : Codec PacketEntitySoundEffect := {|
  encode p :=
    encode (wire_Holder wire_ItemSoundEvent) (PacketEntitySoundEffect_sound p) ;;;
    encode wire_SoundSource (PacketEntitySoundEffect_sound_category p) ;;;
    modify (write_varint (PacketEntitySoundEffect_entity_id p)) ;;;
    encode wire_f32 (PacketEntitySoundEffect_volume p) ;;;
    encode wire_f32 (PacketEntitySoundEffect_pitch p) ;;;
    modify (put_i64 (PacketEntitySoundEffect_seed p)) ;;;
    ret tt;
  decode :=
    let* sound := decode (wire_Holder wire_ItemSoundEvent) in
    let* sound_category := decode wire_SoundSource in
    let* entity_id := read_varint in
    let* volume := decode wire_f32 in
    let* pitch := decode wire_f32 in
    let* seed := get_i64 in
    ret (mkPacketEntitySoundEffect sound sound_category entity_id volume pitch seed);
|}.
Definition dom_PacketEntitySoundEffect (p : PacketEntitySoundEffect) : Prop :=
  holder_dom dom_ItemSoundEvent (PacketEntitySoundEffect_sound p)
  ∧ dom_SoundSource (PacketEntitySoundEffect_sound_category p)
  ∧ in_i 32 (PacketEntitySoundEffect_entity_id p)
  ∧ in_u 32 (PacketEntitySoundEffect_volume p)
  ∧ in_u 32 (PacketEntitySoundEffect_pitch p)
  ∧ in_i 64 (PacketEntitySoundEffect_seed p).
Definition bytes_PacketEntitySoundEffect (p : PacketEntitySoundEffect) : list byte :=
  concat [holder_bytes bytes_ItemSoundEvent (PacketEntitySoundEffect_sound p);
    bytes_SoundSource (PacketEntitySoundEffect_sound_category p);
    varint_bytes (PacketEntitySoundEffect_entity_id p);
    be_bytes 4 (PacketEntitySoundEffect_volume p);
    be_bytes 4 (PacketEntitySoundEffect_pitch p);
    be_bytes 8 (PacketEntitySoundEffect_seed p)].
#[export] Instance lawful_PacketEntitySoundEffect : LawfulCodec wire_PacketEntitySoundEffect dom_PacketEntitySoundEffect bytes_PacketEntitySoundEffect.
Proof. solve_packet. Qed.

Record PacketSoundEffect : Type := mkPacketSoundEffect {
  PacketSoundEffect_sound : Holder ItemSoundEvent;
  PacketSoundEffect_sound_category : SoundSource;
  PacketSoundEffect_x : Z;
  PacketSoundEffect_y : Z;
  PacketSoundEffect_z : Z;
  PacketSoundEffect_volume : Z;
  PacketSoundEffect_pitch : Z;
  PacketSoundEffect_seed : Z;
}.
Definition wire_PacketSoundEffect : Codec PacketSoundEffect := {|
  encode p :=
    encode (wire_Holder wire_ItemSoundEvent) (PacketSoundEffect_sound p) ;;;
    encode wire_SoundSource (PacketSoundEffect_sound_category p) ;;;
    modify (put_i32 (PacketSoundEffect_x p)) ;;;
    modify (put_i32 (PacketSoundEffect_y p)) ;;;
    modify (put_i32 (PacketSoundEffect_z p)) ;;;
    encode wire_f32 (PacketSoundEffect_volume p) ;;;
    encode wire_f32 (PacketSoundEffect_pitch p) ;;;
    modify (put_i64 (PacketSoundEffect_seed p)) ;;;
    ret tt;
  decode :=
    let* sound := decode (wire_Holder wire_ItemSoundEvent) in
    let* sound_category := decode wire_SoundSource in
    let* x := get_i32 in
    let* y := get_i32 in
    let* z := get_i32 in
    let* volume := decode wire_f32 in
    let* pitch := decode wire_f32 in
    let* seed := get_i64 in
    ret (mkPacketSoundEffect sound sound_category x y z volume pitch seed);
|}.
Definition dom_PacketSoundEffect (p : PacketSoundEffect) : Prop :=
  holder_dom dom_ItemSoundEvent (PacketSoundEffect_sound p)
  ∧ dom_SoundSource (PacketSoundEffect_sound_category p)
  ∧ in_i 32 (PacketSoundEffect_x p)
  ∧ in_i 32 (PacketSoundEffect_y p)
  ∧ in_i 32 (PacketSoundEffect_z p)
  ∧ in_u 32 (PacketSoundEffect_volume p)
  ∧ in_u 32 (PacketSoundEffect_pitch p)
  ∧ in_i 64 (PacketSoundEffect_seed p).
Definition bytes_PacketSoundEffect (p : PacketSoundEffect) : list byte :=
  concat [holder_bytes bytes_ItemSoundEvent (PacketSoundEffect_sound p);
    bytes_SoundSource (PacketSoundEffect_sound_category p);
    be_bytes 4 (PacketSoundEffect_x p);
    be_bytes 4 (PacketSoundEffect_y p);
    be_bytes 4 (PacketSoundEffect_z p);
    be_bytes 4 (PacketSoundEffect_volume p);
    be_bytes 4 (PacketSoundEffect_pitch p);
    be_bytes 8 (PacketSoundEffect_seed p)].
#[export] Instance lawful_PacketSoundEffect : LawfulCodec wire_PacketSoundEffect dom_PacketSoundEffect bytes_PacketSoundEffect.
Proof. solve_packet. Qed.

Record PacketSystemChat : Type := mkPacketSystemChat {
  PacketSystemChat_content : Nbt;
  PacketSystemChat_is_action_bar : bool;
}.
Definition wire_PacketSystemChat : Codec PacketSystemChat := {|
  encode p :=
    encode wire_Nbt (PacketSystemChat_content p) ;;;
    encode wire_bool (PacketSystemChat_is_action_bar p) ;;;
    ret tt;
  decode :=
    let* content := decode wire_Nbt in
    let* is_action_bar := decode wire_bool in
    ret (mkPacketSystemChat content is_action_bar);
|}.
Definition dom_PacketSystemChat (p : PacketSystemChat) : Prop :=
  nbt_fits (PacketSystemChat_content p).
Definition bytes_PacketSystemChat (p : PacketSystemChat) : list byte :=
  concat [nbt_bytes (PacketSystemChat_content p);
    bool_bytes (PacketSystemChat_is_action_bar p)].
#[export] Instance lawful_PacketSystemChat : LawfulCodec wire_PacketSystemChat dom_PacketSystemChat bytes_PacketSystemChat.
Proof. solve_packet. Qed.

Record PacketPlayerlistHeader : Type := mkPacketPlayerlistHeader {
  PacketPlayerlistHeader_header : Nbt;
  PacketPlayerlistHeader_footer : Nbt;
}.
Definition wire_PacketPlayerlistHeader : Codec PacketPlayerlistHeader := {|
  encode p :=
    encode wire_Nbt (PacketPlayerlistHeader_header p) ;;;
    encode wire_Nbt (PacketPlayerlistHeader_footer p) ;;;
    ret tt;
  decode :=
    let* header := decode wire_Nbt in
    let* footer := decode wire_Nbt in
    ret (mkPacketPlayerlistHeader header footer);
|}.
Definition dom_PacketPlayerlistHeader (p : PacketPlayerlistHeader) : Prop :=
  nbt_fits (PacketPlayerlistHeader_header p)
  ∧ nbt_fits (PacketPlayerlistHeader_footer p).
Definition bytes_PacketPlayerlistHeader (p : PacketPlayerlistHeader) : list byte :=
  concat [nbt_bytes (PacketPlayerlistHeader_header p);
    nbt_bytes (PacketPlayerlistHeader_footer p)].
#[export] Instance lawful_PacketPlayerlistHeader : LawfulCodec wire_PacketPlayerlistHeader dom_PacketPlayerlistHeader bytes_PacketPlayerlistHeader.
Proof. solve_packet. Qed.

Record PacketCollect : Type := mkPacketCollect {
  PacketCollect_collected_entity_id : Z;
  PacketCollect_collector_entity_id : Z;
  PacketCollect_pickup_item_count : Z;
}.
Definition wire_PacketCollect : Codec PacketCollect := {|
  encode p :=
    modify (write_varint (PacketCollect_collected_entity_id p)) ;;;
    modify (write_varint (PacketCollect_collector_entity_id p)) ;;;
    modify (write_varint (PacketCollect_pickup_item_count p)) ;;;
    ret tt;
  decode :=
    let* collected_entity_id := read_varint in
    let* collector_entity_id := read_varint in
    let* pickup_item_count := read_varint in
    ret (mkPacketCollect collected_entity_id collector_entity_id pickup_item_count);
|}.
Definition dom_PacketCollect (p : PacketCollect) : Prop :=
  in_i 32 (PacketCollect_collected_entity_id p)
  ∧ in_i 32 (PacketCollect_collector_entity_id p)
  ∧ in_i 32 (PacketCollect_pickup_item_count p).
Definition bytes_PacketCollect (p : PacketCollect) : list byte :=
  concat [varint_bytes (PacketCollect_collected_entity_id p);
    varint_bytes (PacketCollect_collector_entity_id p);
    varint_bytes (PacketCollect_pickup_item_count p)].
#[export] Instance lawful_PacketCollect : LawfulCodec wire_PacketCollect dom_PacketCollect bytes_PacketCollect.
Proof. solve_packet. Qed.

Record PacketEntityTeleport : Type := mkPacketEntityTeleport {
  PacketEntityTeleport_entity_id : Z;
  PacketEntityTeleport_x : Z;
  PacketEntityTeleport_y : Z;
  PacketEntityTeleport_z : Z;
  PacketEntityTeleport_yaw : Z;
  PacketEntityTeleport_pitch : Z;
  PacketEntityTeleport_on_ground : bool;
}.
Definition wire_PacketEntityTeleport : Codec PacketEntityTeleport := {|
  encode p :=
    modify (write_varint (PacketEntityTeleport_entity_id p)) ;;;
    encode wire_f64 (PacketEntityTeleport_x p) ;;;
    encode wire_f64 (PacketEntityTeleport_y p) ;;;
    encode wire_f64 (PacketEntityTeleport_z p) ;;;
    encode wire_i8 (PacketEntityTeleport_yaw p) ;;;
    encode wire_i8 (PacketEntityTeleport_pitch p) ;;;
    encode wire_bool (PacketEntityTeleport_on_ground p) ;;;
    ret tt;
  decode :=
    let* entity_id := read_varint in
    let* x := decode wire_f64 in
    let* y := decode wire_f64 in
    let* z := decode wire_f64 in
    let* yaw := decode wire_i8 in
    let* pitch := decode wire_i8 in
    let* on_ground := decode wire_bool in
    ret (mkPacketEntityTeleport entity_id x y z yaw pitch on_ground);
|}.
Definition dom_PacketEntityTeleport (p : PacketEntityTeleport) : Prop :=
  in_i 32 (PacketEntityTeleport_entity_id p)
  ∧ in_u 64 (PacketEntityTeleport_x p)
  ∧ in_u 64 (PacketEntityTeleport_y p)
  ∧ in_u 64 (PacketEntityTeleport_z p)
  ∧ in_i 8 (PacketEntityTeleport_yaw p)
  ∧ in_i 8 (PacketEntityTeleport_pitch p).
Definition bytes_PacketEntityTeleport (p : PacketEntityTeleport) : list byte :=
  concat [varint_bytes (PacketEntityTeleport_entity_id p);
    be_bytes 8 (PacketEntityTeleport_x p);
    be_bytes 8 (PacketEntityTeleport_y p);
    be_bytes 8 (PacketEntityTeleport_z p);
    be_bytes 1 (PacketEntityTeleport_yaw p);
    be_bytes 1 (PacketEntityTeleport_pitch p);
    bool_bytes (PacketEntityTeleport_on_ground p)].
#[export] Instance lawful_PacketEntityTeleport : LawfulCodec wire_PacketEntityTeleport dom_PacketEntityTeleport bytes_PacketEntityTeleport.
Proof. solve_packet. Qed.

Record PacketSetTickingState : Type := mkPacketSetTickingState {
  PacketSetTickingState_tick_rate : Z;
  PacketSetTickingState_is_frozen : bool;
}.
Definition wire_PacketSetTickingState : Codec PacketSetTickingState := {|
  encode p :=
    encode wire_f32 (PacketSetTickingState_tick_rate p) ;;;
    encode wire_bool (PacketSetTickingState_is_frozen p) ;;;
    ret tt;
  decode :=
    let* tick_rate := decode wire_f32 in
    let* is_frozen := decode wire_bool in
    ret (mkPacketSetTickingState tick_rate is_frozen);
|}.
Definition dom_PacketSetTickingState (p : PacketSetTickingState) : Prop :=
  in_u 32 (PacketSetTickingState_tick_rate p).
Definition bytes_PacketSetTickingState (p : PacketSetTickingState) : list byte :=
  concat [be_bytes 4 (PacketSetTickingState_tick_rate p);
    bool_bytes (PacketSetTickingState_is_frozen p)].
#[export] Instance lawful_PacketSetTickingState : LawfulCodec wire_PacketSetTickingState dom_PacketSetTickingState bytes_PacketSetTickingState.
Proof. solve_packet. Qed.

Record PacketStepTick : Type := mkPacketStepTick {
  PacketStepTick_tick_steps : Z;
}.
Definition wire_PacketStepTick : Codec PacketStepTick := {|
  encode p :=
    modify (write_varint (PacketStepTick_tick_steps p)) ;;;
    ret tt;
  decode :=
    let* tick_steps := read_varint in
    ret (mkPacketStepTick tick_steps);
|}.
Definition dom_PacketStepTick (p : PacketStepTick) : Prop :=
  in_i 32 (PacketStepTick_tick_steps p).
Definition bytes_PacketStepTick (p : PacketStepTick) : list byte :=
  concat [varint_bytes (PacketStepTick_tick_steps p)].
#[export] Instance lawful_PacketStepTick : LawfulCodec wire_PacketStepTick dom_PacketStepTick bytes_PacketStepTick.
Proof. solve_packet. Qed.

Inductive PacketEntityUpdateAttributesPropertiesItemKey : Type :=
  | PacketEntityUpdateAttributesPropertiesItemKey_GenericArmor
  | PacketEntityUpdateAttributesPropertiesItemKey_GenericArmorToughness
  | PacketEntityUpdateAttributesPropertiesItemKey_GenericFollowRange
  | PacketEntityUpdateAttributesPropertiesItemKey_GenericGravity
  | PacketEntityUpdateAttributesPropertiesItemKey_GenericJumpStrength
  | PacketEntityUpdateAttributesPropertiesItemKey_GenericKnockbackResistance
  | PacketEntityUpdateAttributesPropertiesItemKey_GenericLuck
  | PacketEntityUpdateAttributesPropertiesItemKey_GenericMaxAbsorption
  | PacketEntityUpdateAttributesPropertiesItemKey_GenericMaxHealth
  | PacketEntityUpdateAttributesPropertiesItemKey_GenericMovementSpeed
  | PacketEntityUpdateAttributesPropertiesItemKey_GenericSafeFallDistance
  | PacketEntityUpdateAttributesPropertiesItemKey_GenericScale
  | PacketEntityUpdateAttributesPropertiesItemKey_GenericAttackDamage
  | PacketEntityUpdateAttributesPropertiesItemKey_ZombieSpawnReinforcements
  | PacketEntityUpdateAttributesPropertiesItemKey_GenericStepHeight
  | PacketEntityUpdateAttributesPropertiesItemKey_GenericAttackKnockback
  | PacketEntityUpdateAttributesPropertiesItemKey_GenericAttackSpeed
  | PacketEntityUpdateAttributesPropertiesItemKey_PlayerBlockBreakSpeed
  | PacketEntityUpdateAttributesPropertiesItemKey_PlayerBlockInteractionRange
  | PacketEntityUpdateAttributesPropertiesItemKey_PlayerEntityInteractionRange
  | PacketEntityUpdateAttributesPropertiesItemKey_GenericFallDamageMultiplier
  | PacketEntityUpdateAttributesPropertiesItemKey_GenericFlyingSpeed.
Definition value_PacketEntityUpdateAttributesPropertiesItemKey (v : PacketEntityUpdateAttributesPropertiesItemKey) : Z :=
  match v with
  | PacketEntityUpdateAttributesPropertiesItemKey_GenericArmor => 0
  | PacketEntityUpdateAttributesPropertiesItemKey_GenericArmorToughness => 1
  | PacketEntityUpdateAttributesPropertiesItemKey_GenericFollowRange => 10
  | PacketEntityUpdateAttributesPropertiesItemKey_GenericGravity => 11
  | PacketEntityUpdateAttributesPropertiesItemKey_GenericJumpStrength => 12
  | PacketEntityUpdateAttributesPropertiesItemKey_GenericKnockbackResistance => 13
  | PacketEntityUpdateAttributesPropertiesItemKey_GenericLuck => 14
  | PacketEntityUpdateAttributesPropertiesItemKey_GenericMaxAbsorption => 15
  | PacketEntityUpdateAttributesPropertiesItemKey_GenericMaxHealth => 16
  | PacketEntityUpdateAttributesPropertiesItemKey_GenericMovementSpeed => 17
  | PacketEntityUpdateAttributesPropertiesItemKey_GenericSafeFallDistance => 18
  | PacketEntityUpdateAttributesPropertiesItemKey_GenericScale => 19
  | PacketEntityUpdateAttributesPropertiesItemKey_GenericAttackDamage => 2
  | PacketEntityUpdateAttributesPropertiesItemKey_ZombieSpawnReinforcements => 20
  | PacketEntityUpdateAttributesPropertiesItemKey_GenericStepHeight => 21
  | PacketEntityUpdateAttributesPropertiesItemKey_GenericAttackKnockback => 3
  | PacketEntityUpdateAttributesPropertiesItemKey_GenericAttackSpeed => 4
  | PacketEntityUpdateAttributesPropertiesItemKey_PlayerBlockBreakSpeed => 5
  | PacketEntityUpdateAttributesPropertiesItemKey_PlayerBlockInteractionRange => 6
  | PacketEntityUpdateAttributesPropertiesItemKey_PlayerEntityInteractionRange => 7
  | PacketEntityUpdateAttributesPropertiesItemKey_GenericFallDamageMultiplier => 8
  | PacketEntityUpdateAttributesPropertiesItemKey_GenericFlyingSpeed => 9
  end.
Definition wire_PacketEntityUpdateAttributesPropertiesItemKey : Codec PacketEntityUpdateAttributesPropertiesItemKey := {|
  encode v := modify (write_varint (value_PacketEntityUpdateAttributesPropertiesItemKey v));
  decode :=
    let* value := read_varint in
    match value with
    | 0 => ret PacketEntityUpdateAttributesPropertiesItemKey_GenericArmor
    | 1 => ret PacketEntityUpdateAttributesPropertiesItemKey_GenericArmorToughness
    | 10 => ret PacketEntityUpdateAttributesPropertiesItemKey_GenericFollowRange
    | 11 => ret PacketEntityUpdateAttributesPropertiesItemKey_GenericGravity
    | 12 => ret PacketEntityUpdateAttributesPropertiesItemKey_GenericJumpStrength
    | 13 => ret PacketEntityUpdateAttributesPropertiesItemKey_GenericKnockbackResistance
    | 14 => ret PacketEntityUpdateAttributesPropertiesItemKey_GenericLuck
    | 15 => ret PacketEntityUpdateAttributesPropertiesItemKey_GenericMaxAbsorption
    | 16 => ret PacketEntityUpdateAttributesPropertiesItemKey_GenericMaxHealth
    | 17 => ret PacketEntityUpdateAttributesPropertiesItemKey_GenericMovementSpeed
    | 18 => ret PacketEntityUpdateAttributesPropertiesItemKey_GenericSafeFallDistance
    | 19 => ret PacketEntityUpdateAttributesPropertiesItemKey_GenericScale
    | 2 => ret PacketEntityUpdateAttributesPropertiesItemKey_GenericAttackDamage
    | 20 => ret PacketEntityUpdateAttributesPropertiesItemKey_ZombieSpawnReinforcements
    | 21 => ret PacketEntityUpdateAttributesPropertiesItemKey_GenericStepHeight
    | 3 => ret PacketEntityUpdateAttributesPropertiesItemKey_GenericAttackKnockback
    | 4 => ret PacketEntityUpdateAttributesPropertiesItemKey_GenericAttackSpeed
    | 5 => ret PacketEntityUpdateAttributesPropertiesItemKey_PlayerBlockBreakSpeed
    | 6 => ret PacketEntityUpdateAttributesPropertiesItemKey_PlayerBlockInteractionRange
    | 7 => ret PacketEntityUpdateAttributesPropertiesItemKey_PlayerEntityInteractionRange
    | 8 => ret PacketEntityUpdateAttributesPropertiesItemKey_GenericFallDamageMultiplier
    | 9 => ret PacketEntityUpdateAttributesPropertiesItemKey_GenericFlyingSpeed
    | _ => raise (UnknownEnumValue "PacketEntityUpdateAttributesPropertiesItemKey" value)
    end;
|}.
Definition dom_PacketEntityUpdateAttributesPropertiesItemKey (_ : PacketEntityUpdateAttributesPropertiesItemKey) : Prop := True.
Definition bytes_PacketEntityUpdateAttributesPropertiesItemKey (v : PacketEntityUpdateAttributesPropertiesItemKey) : list byte := varint_bytes (value_PacketEntityUpdateAttributesPropertiesItemKey v).
#[export] Instance lawful_PacketEntityUpdateAttributesPropertiesItemKey : LawfulCodec wire_PacketEntityUpdateAttributesPropertiesItemKey dom_PacketEntityUpdateAttributesPropertiesItemKey bytes_PacketEntityUpdateAttributesPropertiesItemKey.
Proof. solve_enum. Qed.
#[export] Instance cost_PacketEntityUpdateAttributesPropertiesItemKey : CodecCost dom_PacketEntityUpdateAttributesPropertiesItemKey bytes_PacketEntityUpdateAttributesPropertiesItemKey.
Proof. solve_cost. Qed.

Record PacketEntityUpdateAttributesPropertiesItemModifiersItem : Type := mkPacketEntityUpdateAttributesPropertiesItemModifiersItem {
  PacketEntityUpdateAttributesPropertiesItemModifiersItem_uuid : string;
  PacketEntityUpdateAttributesPropertiesItemModifiersItem_amount : Z;
  PacketEntityUpdateAttributesPropertiesItemModifiersItem_operation : Z;
}.
Definition wire_PacketEntityUpdateAttributesPropertiesItemModifiersItem : Codec PacketEntityUpdateAttributesPropertiesItemModifiersItem := {|
  encode p :=
    encode wire_String (PacketEntityUpdateAttributesPropertiesItemModifiersItem_uuid p) ;;;
    encode wire_f64 (PacketEntityUpdateAttributesPropertiesItemModifiersItem_amount p) ;;;
    encode wire_i8 (PacketEntityUpdateAttributesPropertiesItemModifiersItem_operation p) ;;;
    ret tt;
  decode :=
    let* uuid := decode wire_String in
    let* amount := decode wire_f64 in
    let* operation := decode wire_i8 in
    ret (mkPacketEntityUpdateAttributesPropertiesItemModifiersItem uuid amount operation);
|}.
Definition dom_PacketEntityUpdateAttributesPropertiesItemModifiersItem (p : PacketEntityUpdateAttributesPropertiesItemModifiersItem) : Prop :=
  wire_string (PacketEntityUpdateAttributesPropertiesItemModifiersItem_uuid p)
  ∧ in_u 64 (PacketEntityUpdateAttributesPropertiesItemModifiersItem_amount p)
  ∧ in_i 8 (PacketEntityUpdateAttributesPropertiesItemModifiersItem_operation p).
Definition bytes_PacketEntityUpdateAttributesPropertiesItemModifiersItem (p : PacketEntityUpdateAttributesPropertiesItemModifiersItem) : list byte :=
  concat [string_bytes (PacketEntityUpdateAttributesPropertiesItemModifiersItem_uuid p);
    be_bytes 8 (PacketEntityUpdateAttributesPropertiesItemModifiersItem_amount p);
    be_bytes 1 (PacketEntityUpdateAttributesPropertiesItemModifiersItem_operation p)].
#[export] Instance lawful_PacketEntityUpdateAttributesPropertiesItemModifiersItem : LawfulCodec wire_PacketEntityUpdateAttributesPropertiesItemModifiersItem dom_PacketEntityUpdateAttributesPropertiesItemModifiersItem bytes_PacketEntityUpdateAttributesPropertiesItemModifiersItem.
Proof. solve_packet. Qed.
#[export] Instance cost_PacketEntityUpdateAttributesPropertiesItemModifiersItem : CodecCost dom_PacketEntityUpdateAttributesPropertiesItemModifiersItem bytes_PacketEntityUpdateAttributesPropertiesItemModifiersItem.
Proof. solve_cost. Qed.

Record PacketEntityUpdateAttributesPropertiesItem : Type := mkPacketEntityUpdateAttributesPropertiesItem {
  PacketEntityUpdateAttributesPropertiesItem_key : PacketEntityUpdateAttributesPropertiesItemKey;
  PacketEntityUpdateAttributesPropertiesItem_value : Z;
  PacketEntityUpdateAttributesPropertiesItem_modifiers : list PacketEntityUpdateAttributesPropertiesItemModifiersItem;
}.
Definition wire_PacketEntityUpdateAttributesPropertiesItem : Codec PacketEntityUpdateAttributesPropertiesItem := {|
  encode p :=
    encode wire_PacketEntityUpdateAttributesPropertiesItemKey (PacketEntityUpdateAttributesPropertiesItem_key p) ;;;
    encode wire_f64 (PacketEntityUpdateAttributesPropertiesItem_value p) ;;;
    encode (wire_Vec wire_PacketEntityUpdateAttributesPropertiesItemModifiersItem) (PacketEntityUpdateAttributesPropertiesItem_modifiers p) ;;;
    ret tt;
  decode :=
    let* key := decode wire_PacketEntityUpdateAttributesPropertiesItemKey in
    let* value := decode wire_f64 in
    let* modifiers := decode (wire_Vec wire_PacketEntityUpdateAttributesPropertiesItemModifiersItem) in
    ret (mkPacketEntityUpdateAttributesPropertiesItem key value modifiers);
|}.
Definition dom_PacketEntityUpdateAttributesPropertiesItem (p : PacketEntityUpdateAttributesPropertiesItem) : Prop :=
  dom_PacketEntityUpdateAttributesPropertiesItemKey (PacketEntityUpdateAttributesPropertiesItem_key p)
  ∧ in_u 64 (PacketEntityUpdateAttributesPropertiesItem_value p)
  ∧ vec_dom dom_PacketEntityUpdateAttributesPropertiesItemModifiersItem (PacketEntityUpdateAttributesPropertiesItem_modifiers p).
Definition bytes_PacketEntityUpdateAttributesPropertiesItem (p : PacketEntityUpdateAttributesPropertiesItem) : list byte :=
  concat [bytes_PacketEntityUpdateAttributesPropertiesItemKey (PacketEntityUpdateAttributesPropertiesItem_key p);
    be_bytes 8 (PacketEntityUpdateAttributesPropertiesItem_value p);
    vec_bytes bytes_PacketEntityUpdateAttributesPropertiesItemModifiersItem (PacketEntityUpdateAttributesPropertiesItem_modifiers p)].
#[export] Instance lawful_PacketEntityUpdateAttributesPropertiesItem : LawfulCodec wire_PacketEntityUpdateAttributesPropertiesItem dom_PacketEntityUpdateAttributesPropertiesItem bytes_PacketEntityUpdateAttributesPropertiesItem.
Proof. solve_packet. Qed.
#[export] Instance cost_PacketEntityUpdateAttributesPropertiesItem : CodecCost dom_PacketEntityUpdateAttributesPropertiesItem bytes_PacketEntityUpdateAttributesPropertiesItem.
Proof. solve_cost. Qed.

Record PacketEntityUpdateAttributes : Type := mkPacketEntityUpdateAttributes {
  PacketEntityUpdateAttributes_entity_id : Z;
  PacketEntityUpdateAttributes_properties : list PacketEntityUpdateAttributesPropertiesItem;
}.
Definition wire_PacketEntityUpdateAttributes : Codec PacketEntityUpdateAttributes := {|
  encode p :=
    modify (write_varint (PacketEntityUpdateAttributes_entity_id p)) ;;;
    encode (wire_Vec wire_PacketEntityUpdateAttributesPropertiesItem) (PacketEntityUpdateAttributes_properties p) ;;;
    ret tt;
  decode :=
    let* entity_id := read_varint in
    let* properties := decode (wire_Vec wire_PacketEntityUpdateAttributesPropertiesItem) in
    ret (mkPacketEntityUpdateAttributes entity_id properties);
|}.
Definition dom_PacketEntityUpdateAttributes (p : PacketEntityUpdateAttributes) : Prop :=
  in_i 32 (PacketEntityUpdateAttributes_entity_id p)
  ∧ vec_dom dom_PacketEntityUpdateAttributesPropertiesItem (PacketEntityUpdateAttributes_properties p).
Definition bytes_PacketEntityUpdateAttributes (p : PacketEntityUpdateAttributes) : list byte :=
  concat [varint_bytes (PacketEntityUpdateAttributes_entity_id p);
    vec_bytes bytes_PacketEntityUpdateAttributesPropertiesItem (PacketEntityUpdateAttributes_properties p)].
#[export] Instance lawful_PacketEntityUpdateAttributes : LawfulCodec wire_PacketEntityUpdateAttributes dom_PacketEntityUpdateAttributes bytes_PacketEntityUpdateAttributes.
Proof. solve_packet. Qed.

Record PacketEntityEffect : Type := mkPacketEntityEffect {
  PacketEntityEffect_entity_id : Z;
  PacketEntityEffect_effect_id : Z;
  PacketEntityEffect_amplifier : Z;
  PacketEntityEffect_duration : Z;
  PacketEntityEffect_flags : Z;
}.
Definition wire_PacketEntityEffect : Codec PacketEntityEffect := {|
  encode p :=
    modify (write_varint (PacketEntityEffect_entity_id p)) ;;;
    modify (write_varint (PacketEntityEffect_effect_id p)) ;;;
    modify (write_varint (PacketEntityEffect_amplifier p)) ;;;
    modify (write_varint (PacketEntityEffect_duration p)) ;;;
    encode wire_u8 (PacketEntityEffect_flags p) ;;;
    ret tt;
  decode :=
    let* entity_id := read_varint in
    let* effect_id := read_varint in
    let* amplifier := read_varint in
    let* duration := read_varint in
    let* flags := decode wire_u8 in
    ret (mkPacketEntityEffect entity_id effect_id amplifier duration flags);
|}.
Definition dom_PacketEntityEffect (p : PacketEntityEffect) : Prop :=
  in_i 32 (PacketEntityEffect_entity_id p)
  ∧ in_i 32 (PacketEntityEffect_effect_id p)
  ∧ in_i 32 (PacketEntityEffect_amplifier p)
  ∧ in_i 32 (PacketEntityEffect_duration p)
  ∧ in_u 8 (PacketEntityEffect_flags p).
Definition bytes_PacketEntityEffect (p : PacketEntityEffect) : list byte :=
  concat [varint_bytes (PacketEntityEffect_entity_id p);
    varint_bytes (PacketEntityEffect_effect_id p);
    varint_bytes (PacketEntityEffect_amplifier p);
    varint_bytes (PacketEntityEffect_duration p);
    be_bytes 1 (PacketEntityEffect_flags p)].
#[export] Instance lawful_PacketEntityEffect : LawfulCodec wire_PacketEntityEffect dom_PacketEntityEffect bytes_PacketEntityEffect.
Proof. solve_packet. Qed.

Record PacketDeclareRecipesRecipesItem : Type := mkPacketDeclareRecipesRecipesItem {
  PacketDeclareRecipesRecipesItem_name : string;
  PacketDeclareRecipesRecipesItem_items : list Z;
}.
Definition wire_PacketDeclareRecipesRecipesItem : Codec PacketDeclareRecipesRecipesItem := {|
  encode p :=
    encode wire_String (PacketDeclareRecipesRecipesItem_name p) ;;;
    encode (wire_Vec wire_varint) (PacketDeclareRecipesRecipesItem_items p) ;;;
    ret tt;
  decode :=
    let* name := decode wire_String in
    let* items := decode (wire_Vec wire_varint) in
    ret (mkPacketDeclareRecipesRecipesItem name items);
|}.
Definition dom_PacketDeclareRecipesRecipesItem (p : PacketDeclareRecipesRecipesItem) : Prop :=
  wire_string (PacketDeclareRecipesRecipesItem_name p)
  ∧ vec_dom (in_i 32) (PacketDeclareRecipesRecipesItem_items p).
Definition bytes_PacketDeclareRecipesRecipesItem (p : PacketDeclareRecipesRecipesItem) : list byte :=
  concat [string_bytes (PacketDeclareRecipesRecipesItem_name p);
    vec_bytes varint_bytes (PacketDeclareRecipesRecipesItem_items p)].
#[export] Instance lawful_PacketDeclareRecipesRecipesItem : LawfulCodec wire_PacketDeclareRecipesRecipesItem dom_PacketDeclareRecipesRecipesItem bytes_PacketDeclareRecipesRecipesItem.
Proof. solve_packet. Qed.
#[export] Instance cost_PacketDeclareRecipesRecipesItem : CodecCost dom_PacketDeclareRecipesRecipesItem bytes_PacketDeclareRecipesRecipesItem.
Proof. solve_cost. Qed.

Record PacketTagsTagsItem : Type := mkPacketTagsTagsItem {
  PacketTagsTagsItem_tag_type : string;
  PacketTagsTagsItem_tags : list TagsItem;
}.
Definition wire_PacketTagsTagsItem : Codec PacketTagsTagsItem := {|
  encode p :=
    encode wire_String (PacketTagsTagsItem_tag_type p) ;;;
    encode (wire_Vec wire_TagsItem) (PacketTagsTagsItem_tags p) ;;;
    ret tt;
  decode :=
    let* tag_type := decode wire_String in
    let* tags := decode (wire_Vec wire_TagsItem) in
    ret (mkPacketTagsTagsItem tag_type tags);
|}.
Definition dom_PacketTagsTagsItem (p : PacketTagsTagsItem) : Prop :=
  wire_string (PacketTagsTagsItem_tag_type p)
  ∧ vec_dom dom_TagsItem (PacketTagsTagsItem_tags p).
Definition bytes_PacketTagsTagsItem (p : PacketTagsTagsItem) : list byte :=
  concat [string_bytes (PacketTagsTagsItem_tag_type p);
    vec_bytes bytes_TagsItem (PacketTagsTagsItem_tags p)].
#[export] Instance lawful_PacketTagsTagsItem : LawfulCodec wire_PacketTagsTagsItem dom_PacketTagsTagsItem bytes_PacketTagsTagsItem.
Proof. solve_packet. Qed.
#[export] Instance cost_PacketTagsTagsItem : CodecCost dom_PacketTagsTagsItem bytes_PacketTagsTagsItem.
Proof. solve_cost. Qed.

Record PacketTags : Type := mkPacketTags {
  PacketTags_tags : list PacketTagsTagsItem;
}.
Definition wire_PacketTags : Codec PacketTags := {|
  encode p :=
    encode (wire_Vec wire_PacketTagsTagsItem) (PacketTags_tags p) ;;;
    ret tt;
  decode :=
    let* tags := decode (wire_Vec wire_PacketTagsTagsItem) in
    ret (mkPacketTags tags);
|}.
Definition dom_PacketTags (p : PacketTags) : Prop :=
  vec_dom dom_PacketTagsTagsItem (PacketTags_tags p).
Definition bytes_PacketTags (p : PacketTags) : list byte :=
  concat [vec_bytes bytes_PacketTagsTagsItem (PacketTags_tags p)].
#[export] Instance lawful_PacketTags : LawfulCodec wire_PacketTags dom_PacketTags bytes_PacketTags.
Proof. solve_packet. Qed.

Record PacketSetProjectilePower : Type := mkPacketSetProjectilePower {
  PacketSetProjectilePower_id : Z;
  PacketSetProjectilePower_acceleration_power : Z;
}.
Definition wire_PacketSetProjectilePower : Codec PacketSetProjectilePower := {|
  encode p :=
    modify (write_varint (PacketSetProjectilePower_id p)) ;;;
    encode wire_f64 (PacketSetProjectilePower_acceleration_power p) ;;;
    ret tt;
  decode :=
    let* id := read_varint in
    let* acceleration_power := decode wire_f64 in
    ret (mkPacketSetProjectilePower id acceleration_power);
|}.
Definition dom_PacketSetProjectilePower (p : PacketSetProjectilePower) : Prop :=
  in_i 32 (PacketSetProjectilePower_id p)
  ∧ in_u 64 (PacketSetProjectilePower_acceleration_power p).
Definition bytes_PacketSetProjectilePower (p : PacketSetProjectilePower) : list byte :=
  concat [varint_bytes (PacketSetProjectilePower_id p);
    be_bytes 8 (PacketSetProjectilePower_acceleration_power p)].
#[export] Instance lawful_PacketSetProjectilePower : LawfulCodec wire_PacketSetProjectilePower dom_PacketSetProjectilePower bytes_PacketSetProjectilePower.
Proof. solve_packet. Qed.
