(* ===== verification/PlayPacketsOut.v ===== *)
(** * Play packets from the client

    The structs of [generated/v1_21_4/play.rs] the client sends whose fields
    are written in a fixed order, and their codecs. *)

From S2P Require Import Prelude Machine Reader Varint Utf8 Buffer Wire Nbt PacketTypes PlayPackets.

Local Open Scope Z_scope.

Record PacketTeleportConfirm : Type := mkPacketTeleportConfirm {
  PacketTeleportConfirm_teleport_id : Z;
}.
Definition wire_PacketTeleportConfirm : Codec PacketTeleportConfirm := {|
  encode p :=
    modify (write_varint (PacketTeleportConfirm_teleport_id p)) ;;;
    ret tt;
  decode :=
    let* teleport_id := read_varint in
    ret (mkPacketTeleportConfirm teleport_id);
|}.
Definition dom_PacketTeleportConfirm (p : PacketTeleportConfirm) : Prop :=
  in_i 32 (PacketTeleportConfirm_teleport_id p).
Definition bytes_PacketTeleportConfirm (p : PacketTeleportConfirm) : list byte :=
  concat [varint_bytes (PacketTeleportConfirm_teleport_id p)].
#[export] Instance lawful_PacketTeleportConfirm : LawfulCodec wire_PacketTeleportConfirm dom_PacketTeleportConfirm bytes_PacketTeleportConfirm.
Proof. solve_packet. Qed.

Record PacketQueryBlockNbt : Type := mkPacketQueryBlockNbt {
  PacketQueryBlockNbt_transaction_id : Z;
  PacketQueryBlockNbt_location : Position;
}.
Definition wire_PacketQueryBlockNbt : Codec PacketQueryBlockNbt := {|
  encode p :=
    modify (write_varint (PacketQueryBlockNbt_transaction_id p)) ;;;
    encode wire_Position (PacketQueryBlockNbt_location p) ;;;
    ret tt;
  decode :=
    let* transaction_id := read_varint in
    let* location := decode wire_Position in
    ret (mkPacketQueryBlockNbt transaction_id location);
|}.
Definition dom_PacketQueryBlockNbt (p : PacketQueryBlockNbt) : Prop :=
  in_i 32 (PacketQueryBlockNbt_transaction_id p)
  ∧ dom_Position (PacketQueryBlockNbt_location p).
Definition bytes_PacketQueryBlockNbt (p : PacketQueryBlockNbt) : list byte :=
  concat [varint_bytes (PacketQueryBlockNbt_transaction_id p);
    bytes_Position (PacketQueryBlockNbt_location p)].
#[export] Instance lawful_PacketQueryBlockNbt : LawfulCodec wire_PacketQueryBlockNbt dom_PacketQueryBlockNbt bytes_PacketQueryBlockNbt.
Proof. solve_packet. Qed.

Record PacketSelectBundleItem : Type := mkPacketSelectBundleItem {
  PacketSelectBundleItem_slot_id : Z;
  PacketSelectBundleItem_selected_item_index : Z;
}.
Definition wire_PacketSelectBundleItem : Codec PacketSelectBundleItem := {|
  encode p :=
    modify (write_varint (PacketSelectBundleItem_slot_id p)) ;;;
    modify (write_varint (PacketSelectBundleItem_selected_item_index p)) ;;;
    ret tt;
  decode :=
    let* slot_id := read_varint in
    let* selected_item_index := read_varint in
    ret (mkPacketSelectBundleItem slot_id selected_item_index);
|}.
Definition dom_PacketSelectBundleItem (p : PacketSelectBundleItem) : Prop :=
  in_i 32 (PacketSelectBundleItem_slot_id p)
  ∧ in_i 32 (PacketSelectBundleItem_selected_item_index p).
Definition bytes_PacketSelectBundleItem (p : PacketSelectBundleItem) : list byte :=
  concat [varint_bytes (PacketSelectBundleItem_slot_id p);
    varint_bytes (PacketSelectBundleItem_selected_item_index p)].
#[export] Instance lawful_PacketSelectBundleItem : LawfulCodec wire_PacketSelectBundleItem dom_PacketSelectBundleItem bytes_PacketSelectBundleItem.
Proof. solve_packet. Qed.

Record PacketSetDifficulty : Type := mkPacketSetDifficulty {
  PacketSetDifficulty_new_difficulty : Z;
}.
Definition wire_PacketSetDifficulty : Codec PacketSetDifficulty := {|
  encode p :=
    encode wire_u8 (PacketSetDifficulty_new_difficulty p) ;;;
    ret tt;
  decode :=
    let* new_difficulty := decode wire_u8 in
    ret (mkPacketSetDifficulty new_difficulty);
|}.
Definition dom_PacketSetDifficulty (p : PacketSetDifficulty) : Prop :=
  in_u 8 (PacketSetDifficulty_new_difficulty p).
Definition bytes_PacketSetDifficulty (p : PacketSetDifficulty) : list byte :=
  concat [be_bytes 1 (PacketSetDifficulty_new_difficulty p)].
#[export] Instance lawful_PacketSetDifficulty : LawfulCodec wire_PacketSetDifficulty dom_PacketSetDifficulty bytes_PacketSetDifficulty.
Proof. solve_packet. Qed.

Record PacketMessageAcknowledgement : Type := mkPacketMessageAcknowledgement {
  PacketMessageAcknowledgement_count : Z;
}.
Definition wire_PacketMessageAcknowledgement : Codec PacketMessageAcknowledgement := {|
  encode p :=
    modify (write_varint (PacketMessageAcknowledgement_count p)) ;;;
    ret tt;
  decode :=
    let* count := read_varint in
    ret (mkPacketMessageAcknowledgement count);
|}.
Definition dom_PacketMessageAcknowledgement (p : PacketMessageAcknowledgement) : Prop :=
  in_i 32 (PacketMessageAcknowledgement_count p).
Definition bytes_PacketMessageAcknowledgement (p : PacketMessageAcknowledgement) : list byte :=
  concat [varint_bytes (PacketMessageAcknowledgement_count p)].
#[export] Instance lawful_PacketMessageAcknowledgement : LawfulCodec wire_PacketMessageAcknowledgement dom_PacketMessageAcknowledgement bytes_PacketMessageAcknowledgement.
Proof. solve_packet. Qed.

Record PacketChatCommand : Type := mkPacketChatCommand {
  PacketChatCommand_command : string;
}.
Definition wire_PacketChatCommand : Codec PacketChatCommand := {|
  encode p :=
    encode wire_String (PacketChatCommand_command p) ;;;
    ret tt;
  decode :=
    let* command := decode wire_String in
    ret (mkPacketChatCommand command);
|}.
Definition dom_PacketChatCommand (p : PacketChatCommand) : Prop :=
  wire_string (PacketChatCommand_command p).
Definition bytes_PacketChatCommand (p : PacketChatCommand) : list byte :=
  concat [string_bytes (PacketChatCommand_command p)].
#[export] Instance lawful_PacketChatCommand : LawfulCodec wire_PacketChatCommand dom_PacketChatCommand bytes_PacketChatCommand.
Proof. solve_packet. Qed.

Record PacketChatSessionUpdate : Type := mkPacketChatSessionUpdate {
  PacketChatSessionUpdate_session_uuid : Z;
  PacketChatSessionUpdate_expire_time : Z;
  PacketChatSessionUpdate_public_key : list Z;
  PacketChatSessionUpdate_signature : list Z;
}.
Definition wire_PacketChatSessionUpdate : Codec PacketChatSessionUpdate := {|
  encode p :=
    encode wire_u128 (PacketChatSessionUpdate_session_uuid p) ;;;
    modify (put_i64 (PacketChatSessionUpdate_expire_time p)) ;;;
    encode (wire_Vec wire_u8) (PacketChatSessionUpdate_public_key p) ;;;
    encode (wire_Vec wire_u8) (PacketChatSessionUpdate_signature p) ;;;
    ret tt;
  decode :=
    let* session_uuid := decode wire_u128 in
    let* expire_time := get_i64 in
    let* public_key := decode (wire_Vec wire_u8) in
    let* signature := decode (wire_Vec wire_u8) in
    ret (mkPacketChatSessionUpdate session_uuid expire_time public_key signature);
|}.
Definition dom_PacketChatSessionUpdate (p : PacketChatSessionUpdate) : Prop :=
  in_u 128 (PacketChatSessionUpdate_session_uuid p)
  ∧ in_i 64 (PacketChatSessionUpdate_expire_time p)
  ∧ vec_dom (in_u 8) (PacketChatSessionUpdate_public_key p)
  ∧ vec_dom (in_u 8) (PacketChatSessionUpdate_signature p).
Definition bytes_PacketChatSessionUpdate (p : PacketChatSessionUpdate) : list byte :=
  concat [be_bytes 16 (PacketChatSessionUpdate_session_uuid p);
    be_bytes 8 (PacketChatSessionUpdate_expire_time p);
    vec_bytes (be_bytes 1) (PacketChatSessionUpdate_public_key p);
    vec_bytes (be_bytes 1) (PacketChatSessionUpdate_signature p)].
#[export] Instance lawful_PacketChatSessionUpdate : LawfulCodec wire_PacketChatSessionUpdate dom_PacketChatSessionUpdate bytes_PacketChatSessionUpdate.
Proof. solve_packet. Qed.

Record PacketChunkBatchReceived : Type := mkPacketChunkBatchReceived {
  PacketChunkBatchReceived_chunks_per_tick : Z;
}.
Definition wire_PacketChunkBatchReceived : Codec PacketChunkBatchReceived := {|
  encode p :=
    encode wire_f32 (PacketChunkBatchReceived_chunks_per_tick p) ;;;
    ret tt;
  decode :=
    let* chunks_per_tick := decode wire_f32 in
    ret (mkPacketChunkBatchReceived chunks_per_tick);
|}.
Definition dom_PacketChunkBatchReceived (p : PacketChunkBatchReceived) : Prop :=
  in_u 32 (PacketChunkBatchReceived_chunks_per_tick p).
Definition bytes_PacketChunkBatchReceived (p : PacketChunkBatchReceived) : list byte :=
  concat [be_bytes 4 (PacketChunkBatchReceived_chunks_per_tick p)].
#[export] Instance lawful_PacketChunkBatchReceived : LawfulCodec wire_PacketChunkBatchReceived dom_PacketChunkBatchReceived bytes_PacketChunkBatchReceived.
Proof. solve_packet. Qed.

Record PacketClientCommand : Type := mkPacketClientCommand {
  PacketClientCommand_action_id : Z;
}.
Definition wire_PacketClientCommand : Codec PacketClientCommand := {|
  encode p :=
    modify (write_varint (PacketClientCommand_action_id p)) ;;;
    ret tt;
  decode :=
    let* action_id := read_varint in
    ret (mkPacketClientCommand action_id);
|}.
Definition dom_PacketClientCommand (p : PacketClientCommand) : Prop :=
  in_i 32 (PacketClientCommand_action_id p).
Definition bytes_PacketClientCommand (p : PacketClientCommand) : list byte :=
  concat [varint_bytes (PacketClientCommand_action_id p)].
#[export] Instance lawful_PacketClientCommand : LawfulCodec wire_PacketClientCommand dom_PacketClientCommand bytes_PacketClientCommand.
Proof. solve_packet. Qed.

Record PacketTabCompleteServerbound : Type := mkPacketTabCompleteServerbound {
  PacketTabCompleteServerbound_transaction_id : Z;
  PacketTabCompleteServerbound_text : string;
}.
Definition wire_PacketTabCompleteServerbound : Codec PacketTabCompleteServerbound := {|
  encode p :=
    modify (write_varint (PacketTabCompleteServerbound_transaction_id p)) ;;;
    encode wire_String (PacketTabCompleteServerbound_text p) ;;;
    ret tt;
  decode :=
    let* transaction_id := read_varint in
    let* text := decode wire_String in
    ret (mkPacketTabCompleteServerbound transaction_id text);
|}.
Definition dom_PacketTabCompleteServerbound (p : PacketTabCompleteServerbound) : Prop :=
  in_i 32 (PacketTabCompleteServerbound_transaction_id p)
  ∧ wire_string (PacketTabCompleteServerbound_text p).
Definition bytes_PacketTabCompleteServerbound (p : PacketTabCompleteServerbound) : list byte :=
  concat [varint_bytes (PacketTabCompleteServerbound_transaction_id p);
    string_bytes (PacketTabCompleteServerbound_text p)].
#[export] Instance lawful_PacketTabCompleteServerbound : LawfulCodec wire_PacketTabCompleteServerbound dom_PacketTabCompleteServerbound bytes_PacketTabCompleteServerbound.
Proof. solve_packet. Qed.

Record PacketEnchantItem : Type := mkPacketEnchantItem {
  PacketEnchantItem_window_id : Z;
  PacketEnchantItem_enchantment : Z;
}.
Definition wire_PacketEnchantItem : Codec PacketEnchantItem := {|
  encode p :=
    modify (write_varint (PacketEnchantItem_window_id p)) ;;;
    modify (write_varint (PacketEnchantItem_enchantment p)) ;;;
    ret tt;
  decode :=
    let* window_id := read_varint in
    let* enchantment := read_varint in
    ret (mkPacketEnchantItem window_id enchantment);
|}.
Definition dom_PacketEnchantItem (p : PacketEnchantItem) : Prop :=
  in_i 32 (PacketEnchantItem_window_id p)
  ∧ in_i 32 (PacketEnchantItem_enchantment p).
Definition bytes_PacketEnchantItem (p : PacketEnchantItem) : list byte :=
  concat [varint_bytes (PacketEnchantItem_window_id p);
    varint_bytes (PacketEnchantItem_enchantment p)].
#[export] Instance lawful_PacketEnchantItem : LawfulCodec wire_PacketEnchantItem dom_PacketEnchantItem bytes_PacketEnchantItem.
Proof. solve_packet. Qed.

Record PacketSetSlotState : Type := mkPacketSetSlotState {
  PacketSetSlotState_slot_id : Z;
  PacketSetSlotState_window_id : Z;
  PacketSetSlotState_state : bool;
}.
Definition wire_PacketSetSlotState : Codec PacketSetSlotState := {|
  encode p :=
    modify (write_varint (PacketSetSlotState_slot_id p)) ;;;
    modify (write_varint (PacketSetSlotState_window_id p)) ;;;
    encode wire_bool (PacketSetSlotState_state p) ;;;
    ret tt;
  decode :=
    let* slot_id := read_varint in
    let* window_id := read_varint in
    let* state := decode wire_bool in
    ret (mkPacketSetSlotState slot_id window_id state);
|}.
Definition dom_PacketSetSlotState (p : PacketSetSlotState) : Prop :=
  in_i 32 (PacketSetSlotState_slot_id p)
  ∧ in_i 32 (PacketSetSlotState_window_id p).
Definition bytes_PacketSetSlotState (p : PacketSetSlotState) : list byte :=
  concat [varint_bytes (PacketSetSlotState_slot_id p);
    varint_bytes (PacketSetSlotState_window_id p);
    bool_bytes (PacketSetSlotState_state p)].
#[export] Instance lawful_PacketSetSlotState : LawfulCodec wire_PacketSetSlotState dom_PacketSetSlotState bytes_PacketSetSlotState.
Proof. solve_packet. Qed.

Record PacketDebugSampleSubscription : Type := mkPacketDebugSampleSubscription {
  PacketDebugSampleSubscription_type : Z;
}.
Definition wire_PacketDebugSampleSubscription : Codec PacketDebugSampleSubscription := {|
  encode p :=
    modify (write_varint (PacketDebugSampleSubscription_type p)) ;;;
    ret tt;
  decode :=
    let* type_ := read_varint in
    ret (mkPacketDebugSampleSubscription type_);
|}.
Definition dom_PacketDebugSampleSubscription (p : PacketDebugSampleSubscription) : Prop :=
  in_i 32 (PacketDebugSampleSubscription_type p).
Definition bytes_PacketDebugSampleSubscription (p : PacketDebugSampleSubscription) : list byte :=
  concat [varint_bytes (PacketDebugSampleSubscription_type p)].
#[export] Instance lawful_PacketDebugSampleSubscription : LawfulCodec wire_PacketDebugSampleSubscription dom_PacketDebugSampleSubscription bytes_PacketDebugSampleSubscription.
Proof. solve_packet. Qed.

Record PacketEditBook : Type := mkPacketEditBook {
  PacketEditBook_hand : Z;
  PacketEditBook_pages : list string;
  PacketEditBook_title : option string;
}.
Definition wire_PacketEditBook : Codec PacketEditBook := {|
  encode p :=
    modify (write_varint (PacketEditBook_hand p)) ;;;
    encode (wire_Vec wire_String) (PacketEditBook_pages p) ;;;
    encode (wire_Option wire_String) (PacketEditBook_title p) ;;;
    ret tt;
  decode :=
    let* hand := read_varint in
    let* pages := decode (wire_Vec wire_String) in
    let* title := decode (wire_Option wire_String) in
    ret (mkPacketEditBook hand pages title);
|}.
Definition dom_PacketEditBook (p : PacketEditBook) : Prop :=
  in_i 32 (PacketEditBook_hand p)
  ∧ vec_dom wire_string (PacketEditBook_pages p)
  ∧ option_dom wire_string (PacketEditBook_title p).
Definition bytes_PacketEditBook (p : PacketEditBook) : list byte :=
  concat [varint_bytes (PacketEditBook_hand p);
    vec_bytes string_bytes (PacketEditBook_pages p);
    option_bytes string_bytes (PacketEditBook_title p)].
#[export] Instance lawful_PacketEditBook : LawfulCodec wire_PacketEditBook dom_PacketEditBook bytes_PacketEditBook.
Proof. solve_packet. Qed.

Record PacketQueryEntityNbt : Type := mkPacketQueryEntityNbt {
  PacketQueryEntityNbt_transaction_id : Z;
  PacketQueryEntityNbt_entity_id : Z;
}.
Definition wire_PacketQueryEntityNbt : Codec PacketQueryEntityNbt := {|
  encode p :=
    modify (write_varint (PacketQueryEntityNbt_transaction_id p)) ;;;
    modify (write_varint (PacketQueryEntityNbt_entity_id p)) ;;;
    ret tt;
  decode :=
    let* transaction_id := read_varint in
    let* entity_id := read_varint in
    ret (mkPacketQueryEntityNbt transaction_id entity_id);
|}.
Definition dom_PacketQueryEntityNbt (p : PacketQueryEntityNbt) : Prop :=
  in_i 32 (PacketQueryEntityNbt_transaction_id p)
  ∧ in_i 32 (PacketQueryEntityNbt_entity_id p).
Definition bytes_PacketQueryEntityNbt (p : PacketQueryEntityNbt) : list byte :=
  concat [varint_bytes (PacketQueryEntityNbt_transaction_id p);
    varint_bytes (PacketQueryEntityNbt_entity_id p)].
#[export] Instance lawful_PacketQueryEntityNbt : LawfulCodec wire_PacketQueryEntityNbt dom_PacketQueryEntityNbt bytes_PacketQueryEntityNbt.
Proof. solve_packet. Qed.

Record PacketGenerateStructure : Type := mkPacketGenerateStructure {
  PacketGenerateStructure_location : Position;
  PacketGenerateStructure_levels : Z;
  PacketGenerateStructure_keep_jigsaws : bool;
}.
Definition wire_PacketGenerateStructure : Codec PacketGenerateStructure := {|
  encode p :=
    encode wire_Position (PacketGenerateStructure_location p) ;;;
    modify (write_varint (PacketGenerateStructure_levels p)) ;;;
    encode wire_bool (PacketGenerateStructure_keep_jigsaws p) ;;;
    ret tt;
  decode :=
    let* location := decode wire_Position in
    let* levels := read_varint in
    let* keep_jigsaws := decode wire_bool in
    ret (mkPacketGenerateStructure location levels keep_jigsaws);
|}.
Definition dom_PacketGenerateStructure (p : PacketGenerateStructure) : Prop :=
  dom_Position (PacketGenerateStructure_location p)
  ∧ in_i 32 (PacketGenerateStructure_levels p).
Definition bytes_PacketGenerateStructure (p : PacketGenerateStructure) : list byte :=
  concat [bytes_Position (PacketGenerateStructure_location p);
    varint_bytes (PacketGenerateStructure_levels p);
    bool_bytes (PacketGenerateStructure_keep_jigsaws p)].
#[export] Instance lawful_PacketGenerateStructure : LawfulCodec wire_PacketGenerateStructure dom_PacketGenerateStructure bytes_PacketGenerateStructure.
Proof. solve_packet. Qed.

Record PacketLockDifficulty : Type := mkPacketLockDifficulty {
  PacketLockDifficulty_locked : bool;
}.
Definition wire_PacketLockDifficulty : Codec PacketLockDifficulty := {|
  encode p :=
    encode wire_bool (PacketLockDifficulty_locked p) ;;;
    ret tt;
  decode :=
    let* locked := decode wire_bool in
    ret (mkPacketLockDifficulty locked);
|}.
Definition dom_PacketLockDifficulty (p : PacketLockDifficulty) : Prop :=
  True.
Definition bytes_PacketLockDifficulty (p : PacketLockDifficulty) : list byte :=
  concat [bool_bytes (PacketLockDifficulty_locked p)].
#[export] Instance lawful_PacketLockDifficulty : LawfulCodec wire_PacketLockDifficulty dom_PacketLockDifficulty bytes_PacketLockDifficulty.
Proof. solve_packet. Qed.

Definition MovementFlags : Type := Z.
Definition MovementFlags_ON_GROUND : Z := 0x1.
Definition MovementFlags_HAS_HORIZONTAL_COLLISION : Z := 0x2.
Definition MovementFlags_contains (flags : MovementFlags) (flag : Z) : bool := negb (Z.land flags flag =? 0).
Definition wire_MovementFlags : Codec MovementFlags := wire_u8.
Definition dom_MovementFlags : MovementFlags → Prop := in_u 8.
Definition bytes_MovementFlags : MovementFlags → list byte := be_bytes 1.
#[export] Instance lawful_MovementFlags : LawfulCodec wire_MovementFlags dom_MovementFlags bytes_MovementFlags := lawful_u8.

Record PacketPositionServerbound : Type := mkPacketPositionServerbound {
  PacketPositionServerbound_x : Z;
  PacketPositionServerbound_y : Z;
  PacketPositionServerbound_z : Z;
  PacketPositionServerbound_flags : MovementFlags;
}.
Definition wire_PacketPositionServerbound : Codec PacketPositionServerbound := {|
  encode p :=
    encode wire_f64 (PacketPositionServerbound_x p) ;;;
    encode wire_f64 (PacketPositionServerbound_y p) ;;;
    encode wire_f64 (PacketPositionServerbound_z p) ;;;
    encode wire_MovementFlags (PacketPositionServerbound_flags p) ;;;
    ret tt;
  decode :=
    let* x := decode wire_f64 in
    let* y := decode wire_f64 in
    let* z := decode wire_f64 in
    let* flags := decode wire_MovementFlags in
    ret (mkPacketPositionServerbound x y z flags);
|}.
Definition dom_PacketPositionServerbound (p : PacketPositionServerbound) : Prop :=
  in_u 64 (PacketPositionServerbound_x p)
  ∧ in_u 64 (PacketPositionServerbound_y p)
  ∧ in_u 64 (PacketPositionServerbound_z p)
  ∧ dom_MovementFlags (PacketPositionServerbound_flags p).
Definition bytes_PacketPositionServerbound (p : PacketPositionServerbound) : list byte :=
  concat [be_bytes 8 (PacketPositionServerbound_x p);
    be_bytes 8 (PacketPositionServerbound_y p);
    be_bytes 8 (PacketPositionServerbound_z p);
    bytes_MovementFlags (PacketPositionServerbound_flags p)].
#[export] Instance lawful_PacketPositionServerbound : LawfulCodec wire_PacketPositionServerbound dom_PacketPositionServerbound bytes_PacketPositionServerbound.
Proof. solve_packet. Qed.

Record PacketPositionLook : Type := mkPacketPositionLook {
  PacketPositionLook_x : Z;
  PacketPositionLook_y : Z;
  PacketPositionLook_z : Z;
  PacketPositionLook_yaw : Z;
  PacketPositionLook_pitch : Z;
  PacketPositionLook_flags : MovementFlags;
}.
Definition wire_PacketPositionLook : Codec PacketPositionLook := {|
  encode p :=
    encode wire_f64 (PacketPositionLook_x p) ;;;
    encode wire_f64 (PacketPositionLook_y p) ;;;
    encode wire_f64 (PacketPositionLook_z p) ;;;
    encode wire_f32 (PacketPositionLook_yaw p) ;;;
    encode wire_f32 (PacketPositionLook_pitch p) ;;;
    encode wire_MovementFlags (PacketPositionLook_flags p) ;;;
    ret tt;
  decode :=
    let* x := decode wire_f64 in
    let* y := decode wire_f64 in
    let* z := decode wire_f64 in
    let* yaw := decode wire_f32 in
    let* pitch := decode wire_f32 in
    let* flags := decode wire_MovementFlags in
    ret (mkPacketPositionLook x y z yaw pitch flags);
|}.
Definition dom_PacketPositionLook (p : PacketPositionLook) : Prop :=
  in_u 64 (PacketPositionLook_x p)
  ∧ in_u 64 (PacketPositionLook_y p)
  ∧ in_u 64 (PacketPositionLook_z p)
  ∧ in_u 32 (PacketPositionLook_yaw p)
  ∧ in_u 32 (PacketPositionLook_pitch p)
  ∧ dom_MovementFlags (PacketPositionLook_flags p).
Definition bytes_PacketPositionLook (p : PacketPositionLook) : list byte :=
  concat [be_bytes 8 (PacketPositionLook_x p);
    be_bytes 8 (PacketPositionLook_y p);
    be_bytes 8 (PacketPositionLook_z p);
    be_bytes 4 (PacketPositionLook_yaw p);
    be_bytes 4 (PacketPositionLook_pitch p);
    bytes_MovementFlags (PacketPositionLook_flags p)].
#[export] Instance lawful_PacketPositionLook : LawfulCodec wire_PacketPositionLook dom_PacketPositionLook bytes_PacketPositionLook.
Proof. solve_packet. Qed.

Record PacketLook : Type := mkPacketLook {
  PacketLook_yaw : Z;
  PacketLook_pitch : Z;
  PacketLook_flags : MovementFlags;
}.
Definition wire_PacketLook : Codec PacketLook := {|
  encode p :=
    encode wire_f32 (PacketLook_yaw p) ;;;
    encode wire_f32 (PacketLook_pitch p) ;;;
    encode wire_MovementFlags (PacketLook_flags p) ;;;
    ret tt;
  decode :=
    let* yaw := decode wire_f32 in
    let* pitch := decode wire_f32 in
    let* flags := decode wire_MovementFlags in
    ret (mkPacketLook yaw pitch flags);
|}.
Definition dom_PacketLook (p : PacketLook) : Prop :=
  in_u 32 (PacketLook_yaw p)
  ∧ in_u 32 (PacketLook_pitch p)
  ∧ dom_MovementFlags (PacketLook_flags p).
Definition bytes_PacketLook (p : PacketLook) : list byte :=
  concat [be_bytes 4 (PacketLook_yaw p);
    be_bytes 4 (PacketLook_pitch p);
    bytes_MovementFlags (PacketLook_flags p)].
#[export] Instance lawful_PacketLook : LawfulCodec wire_PacketLook dom_PacketLook bytes_PacketLook.
Proof. solve_packet. Qed.

Record PacketFlying : Type := mkPacketFlying {
  PacketFlying_flags : MovementFlags;
}.
Definition wire_PacketFlying : Codec PacketFlying := {|
  encode p :=
    encode wire_MovementFlags (PacketFlying_flags p) ;;;
    ret tt;
  decode :=
    let* flags := decode wire_MovementFlags in
    ret (mkPacketFlying flags);
|}.
Definition dom_PacketFlying (p : PacketFlying) : Prop :=
  dom_MovementFlags (PacketFlying_flags p).
Definition bytes_PacketFlying (p : PacketFlying) : list byte :=
  concat [bytes_MovementFlags (PacketFlying_flags p)].
#[export] Instance lawful_PacketFlying : LawfulCodec wire_PacketFlying dom_PacketFlying bytes_PacketFlying.
Proof. solve_packet. Qed.

Record PacketVehicleMoveServerbound : Type := mkPacketVehicleMoveServerbound {
  PacketVehicleMoveServerbound_x : Z;
  PacketVehicleMoveServerbound_y : Z;
  PacketVehicleMoveServerbound_z : Z;
  PacketVehicleMoveServerbound_yaw : Z;
  PacketVehicleMoveServerbound_pitch : Z;
  PacketVehicleMoveServerbound_on_ground : bool;
}.
Definition wire_PacketVehicleMoveServerbound : Codec PacketVehicleMoveServerbound := {|
  encode p :=
    encode wire_f64 (PacketVehicleMoveServerbound_x p) ;;;
    encode wire_f64 (PacketVehicleMoveServerbound_y p) ;;;
    encode wire_f64 (PacketVehicleMoveServerbound_z p) ;;;
    encode wire_f32 (PacketVehicleMoveServerbound_yaw p) ;;;
    encode wire_f32 (PacketVehicleMoveServerbound_pitch p) ;;;
    encode wire_bool (PacketVehicleMoveServerbound_on_ground p) ;;;
    ret tt;
  decode :=
    let* x := decode wire_f64 in
    let* y := decode wire_f64 in
    let* z := decode wire_f64 in
    let* yaw := decode wire_f32 in
    let* pitch := decode wire_f32 in
    let* on_ground := decode wire_bool in
    ret (mkPacketVehicleMoveServerbound x y z yaw pitch on_ground);
|}.
Definition dom_PacketVehicleMoveServerbound (p : PacketVehicleMoveServerbound) : Prop :=
  in_u 64 (PacketVehicleMoveServerbound_x p)
  ∧ in_u 64 (PacketVehicleMoveServerbound_y p)
  ∧ in_u 64 (PacketVehicleMoveServerbound_z p)
  ∧ in_u 32 (PacketVehicleMoveServerbound_yaw p)
  ∧ in_u 32 (PacketVehicleMoveServerbound_pitch p).
Definition bytes_PacketVehicleMoveServerbound (p : PacketVehicleMoveServerbound) : list byte :=
  concat [be_bytes 8 (PacketVehicleMoveServerbound_x p);
    be_bytes 8 (PacketVehicleMoveServerbound_y p);
    be_bytes 8 (PacketVehicleMoveServerbound_z p);
    be_bytes 4 (PacketVehicleMoveServerbound_yaw p);
    be_bytes 4 (PacketVehicleMoveServerbound_pitch p);
    bool_bytes (PacketVehicleMoveServerbound_on_ground p)].
#[export] Instance lawful_PacketVehicleMoveServerbound : LawfulCodec wire_PacketVehicleMoveServerbound dom_PacketVehicleMoveServerbound bytes_PacketVehicleMoveServerbound.
Proof. solve_packet. Qed.

Record PacketSteerBoat : Type := mkPacketSteerBoat {
  PacketSteerBoat_left_paddle : bool;
  PacketSteerBoat_right_paddle : bool;
}.
Definition wire_PacketSteerBoat : Codec PacketSteerBoat := {|
  encode p :=
    encode wire_bool (PacketSteerBoat_left_paddle p) ;;;
    encode wire_bool (PacketSteerBoat_right_paddle p) ;;;
    ret tt;
  decode :=
    let* left_paddle := decode wire_bool in
    let* right_paddle := decode wire_bool in
    ret (mkPacketSteerBoat left_paddle right_paddle);
|}.
Definition dom_PacketSteerBoat (p : PacketSteerBoat) : Prop :=
  True.
Definition bytes_PacketSteerBoat (p : PacketSteerBoat) : list byte :=
  concat [bool_bytes (PacketSteerBoat_left_paddle p);
    bool_bytes (PacketSteerBoat_right_paddle p)].
#[export] Instance lawful_PacketSteerBoat : LawfulCodec wire_PacketSteerBoat dom_PacketSteerBoat bytes_PacketSteerBoat.
Proof. solve_packet. Qed.

Record PacketPickItemFromBlock : Type := mkPacketPickItemFromBlock {
  PacketPickItemFromBlock_position : Position;
  PacketPickItemFromBlock_include_data : bool;
}.
Definition wire_PacketPickItemFromBlock : Codec PacketPickItemFromBlock := {|
  encode p :=
    encode wire_Position (PacketPickItemFromBlock_position p) ;;;
    encode wire_bool (PacketPickItemFromBlock_include_data p) ;;;
    ret tt;
  decode :=
    let* position := decode wire_Position in
    let* include_data := decode wire_bool in
    ret (mkPacketPickItemFromBlock position include_data);
|}.
Definition dom_PacketPickItemFromBlock (p : PacketPickItemFromBlock) : Prop :=
  dom_Position (PacketPickItemFromBlock_position p).
Definition bytes_PacketPickItemFromBlock (p : PacketPickItemFromBlock) : list byte :=
  concat [bytes_Position (PacketPickItemFromBlock_position p);
    bool_bytes (PacketPickItemFromBlock_include_data p)].
#[export] Instance lawful_PacketPickItemFromBlock : LawfulCodec wire_PacketPickItemFromBlock dom_PacketPickItemFromBlock bytes_PacketPickItemFromBlock.
Proof. solve_packet. Qed.

Record PacketPickItemFromEntity : Type := mkPacketPickItemFromEntity {
  PacketPickItemFromEntity_entity_id : Z;
  PacketPickItemFromEntity_include_data : bool;
}.
Definition wire_PacketPickItemFromEntity : Codec PacketPickItemFromEntity := {|
  encode p :=
    modify (write_varint (PacketPickItemFromEntity_entity_id p)) ;;;
    encode wire_bool (PacketPickItemFromEntity_include_data p) ;;;
    ret tt;
  decode :=
    let* entity_id := read_varint in
    let* include_data := decode wire_bool in
    ret (mkPacketPickItemFromEntity entity_id include_data);
|}.
Definition dom_PacketPickItemFromEntity (p : PacketPickItemFromEntity) : Prop :=
  in_i 32 (PacketPickItemFromEntity_entity_id p).
Definition bytes_PacketPickItemFromEntity (p : PacketPickItemFromEntity) : list byte :=
  concat [varint_bytes (PacketPickItemFromEntity_entity_id p);
    bool_bytes (PacketPickItemFromEntity_include_data p)].
#[export] Instance lawful_PacketPickItemFromEntity : LawfulCodec wire_PacketPickItemFromEntity dom_PacketPickItemFromEntity bytes_PacketPickItemFromEntity.
Proof. solve_packet. Qed.

Record PacketPingRequest : Type := mkPacketPingRequest {
  PacketPingRequest_id : Z;
}.
Definition wire_PacketPingRequest : Codec PacketPingRequest := {|
  encode p :=
    modify (put_i64 (PacketPingRequest_id p)) ;;;
    ret tt;
  decode :=
    let* id := get_i64 in
    ret (mkPacketPingRequest id);
|}.
Definition dom_PacketPingRequest (p : PacketPingRequest) : Prop :=
  in_i 64 (PacketPingRequest_id p).
Definition bytes_PacketPingRequest (p : PacketPingRequest) : list byte :=
  concat [be_bytes 8 (PacketPingRequest_id p)].
#[export] Instance lawful_PacketPingRequest : LawfulCodec wire_PacketPingRequest dom_PacketPingRequest bytes_PacketPingRequest.
Proof. solve_packet. Qed.

Record PacketCraftRecipeRequest : Type := mkPacketCraftRecipeRequest {
  PacketCraftRecipeRequest_window_id : Z;
  PacketCraftRecipeRequest_recipe_id : Z;
  PacketCraftRecipeRequest_make_all : bool;
}.
Definition wire_PacketCraftRecipeRequest : Codec PacketCraftRecipeRequest := {|
  encode p :=
    modify (write_varint (PacketCraftRecipeRequest_window_id p)) ;;;
    modify (write_varint (PacketCraftRecipeRequest_recipe_id p)) ;;;
    encode wire_bool (PacketCraftRecipeRequest_make_all p) ;;;
    ret tt;
  decode :=
    let* window_id := read_varint in
    let* recipe_id := read_varint in
    let* make_all := decode wire_bool in
    ret (mkPacketCraftRecipeRequest window_id recipe_id make_all);
|}.
Definition dom_PacketCraftRecipeRequest (p : PacketCraftRecipeRequest) : Prop :=
  in_i 32 (PacketCraftRecipeRequest_window_id p)
  ∧ in_i 32 (PacketCraftRecipeRequest_recipe_id p).
Definition bytes_PacketCraftRecipeRequest (p : PacketCraftRecipeRequest) : list byte :=
  concat [varint_bytes (PacketCraftRecipeRequest_window_id p);
    varint_bytes (PacketCraftRecipeRequest_recipe_id p);
    bool_bytes (PacketCraftRecipeRequest_make_all p)].
#[export] Instance lawful_PacketCraftRecipeRequest : LawfulCodec wire_PacketCraftRecipeRequest dom_PacketCraftRecipeRequest bytes_PacketCraftRecipeRequest.
Proof. solve_packet. Qed.

Record PacketAbilitiesServerbound : Type := mkPacketAbilitiesServerbound {
  PacketAbilitiesServerbound_flags : Z;
}.
Definition wire_PacketAbilitiesServerbound : Codec PacketAbilitiesServerbound := {|
  encode p :=
    encode wire_i8 (PacketAbilitiesServerbound_flags p) ;;;
    ret tt;
  decode :=
    let* flags := decode wire_i8 in
    ret (mkPacketAbilitiesServerbound flags);
|}.
Definition dom_PacketAbilitiesServerbound (p : PacketAbilitiesServerbound) : Prop :=
  in_i 8 (PacketAbilitiesServerbound_flags p).
Definition bytes_PacketAbilitiesServerbound (p : PacketAbilitiesServerbound) : list byte :=
  concat [be_bytes 1 (PacketAbilitiesServerbound_flags p)].
#[export] Instance lawful_PacketAbilitiesServerbound : LawfulCodec wire_PacketAbilitiesServerbound dom_PacketAbilitiesServerbound bytes_PacketAbilitiesServerbound.
Proof. solve_packet. Qed.

Record PacketBlockDig : Type := mkPacketBlockDig {
  PacketBlockDig_status : Z;
  PacketBlockDig_location : Position;
  PacketBlockDig_face : Z;
  PacketBlockDig_sequence : Z;
}.
Definition wire_PacketBlockDig : Codec PacketBlockDig := {|
  encode p :=
    modify (write_varint (PacketBlockDig_status p)) ;;;
    encode wire_Position (PacketBlockDig_location p) ;;;
    encode wire_i8 (PacketBlockDig_face p) ;;;
    modify (write_varint (PacketBlockDig_sequence p)) ;;;
    ret tt;
  decode :=
    let* status := read_varint in
    let* location := decode wire_Position in
    let* face := decode wire_i8 in
    let* sequence := read_varint in
    ret (mkPacketBlockDig status location face sequence);
|}.
Definition dom_PacketBlockDig (p : PacketBlockDig) : Prop :=
  in_i 32 (PacketBlockDig_status p)
  ∧ dom_Position (PacketBlockDig_location p)
  ∧ in_i 8 (PacketBlockDig_face p)
  ∧ in_i 32 (PacketBlockDig_sequence p).
Definition bytes_PacketBlockDig (p : PacketBlockDig) : list byte :=
  concat [varint_bytes (PacketBlockDig_status p);
    bytes_Position (PacketBlockDig_location p);
    be_bytes 1 (PacketBlockDig_face p);
    varint_bytes (PacketBlockDig_sequence p)].
#[export] Instance lawful_PacketBlockDig : LawfulCodec wire_PacketBlockDig dom_PacketBlockDig bytes_PacketBlockDig.
Proof. solve_packet. Qed.

Record PacketEntityAction : Type := mkPacketEntityAction {
  PacketEntityAction_entity_id : Z;
  PacketEntityAction_action_id : Z;
  PacketEntityAction_jump_boost : Z;
}.
Definition wire_PacketEntityAction : Codec PacketEntityAction := {|
  encode p :=
    modify (write_varint (PacketEntityAction_entity_id p)) ;;;
    modify (write_varint (PacketEntityAction_action_id p)) ;;;
    modify (write_varint (PacketEntityAction_jump_boost p)) ;;;
    ret tt;
  decode :=
    let* entity_id := read_varint in
    let* action_id := read_varint in
    let* jump_boost := read_varint in
    ret (mkPacketEntityAction entity_id action_id jump_boost);
|}.
Definition dom_PacketEntityAction (p : PacketEntityAction) : Prop :=
  in_i 32 (PacketEntityAction_entity_id p)
  ∧ in_i 32 (PacketEntityAction_action_id p)
  ∧ in_i 32 (PacketEntityAction_jump_boost p).
Definition bytes_PacketEntityAction (p : PacketEntityAction) : list byte :=
  concat [varint_bytes (PacketEntityAction_entity_id p);
    varint_bytes (PacketEntityAction_action_id p);
    varint_bytes (PacketEntityAction_jump_boost p)].
#[export] Instance lawful_PacketEntityAction : LawfulCodec wire_PacketEntityAction dom_PacketEntityAction bytes_PacketEntityAction.
Proof. solve_packet. Qed.

Definition PacketPlayerInputInputs : Type := Z.
Definition PacketPlayerInputInputs_FORWARD : Z := 0x1.
Definition PacketPlayerInputInputs_BACKWARD : Z := 0x2.
Definition PacketPlayerInputInputs_LEFT : Z := 0x4.
Definition PacketPlayerInputInputs_RIGHT : Z := 0x8.
Definition PacketPlayerInputInputs_JUMP : Z := 0x10.
Definition PacketPlayerInputInputs_SHIFT : Z := 0x20.
Definition PacketPlayerInputInputs_SPRINT : Z := 0x40.
Definition PacketPlayerInputInputs_contains (flags : PacketPlayerInputInputs) (flag : Z) : bool := negb (Z.land flags flag =? 0).
Definition wire_PacketPlayerInputInputs : Codec PacketPlayerInputInputs := wire_u8.
Definition dom_PacketPlayerInputInputs : PacketPlayerInputInputs → Prop := in_u 8.
Definition bytes_PacketPlayerInputInputs : PacketPlayerInputInputs → list byte := be_bytes 1.
#[export] Instance lawful_PacketPlayerInputInputs : LawfulCodec wire_PacketPlayerInputInputs dom_PacketPlayerInputInputs bytes_PacketPlayerInputInputs := lawful_u8.

Record PacketPlayerInput : Type := mkPacketPlayerInput {
  PacketPlayerInput_inputs : PacketPlayerInputInputs;
}.
Definition wire_PacketPlayerInput : Codec PacketPlayerInput := {|
  encode p :=
    encode wire_PacketPlayerInputInputs (PacketPlayerInput_inputs p) ;;;
    ret tt;
  decode :=
    let* inputs := decode wire_PacketPlayerInputInputs in
    ret (mkPacketPlayerInput inputs);
|}.
Definition dom_PacketPlayerInput (p : PacketPlayerInput) : Prop :=
  dom_PacketPlayerInputInputs (PacketPlayerInput_inputs p).
Definition bytes_PacketPlayerInput (p : PacketPlayerInput) : list byte :=
  concat [bytes_PacketPlayerInputInputs (PacketPlayerInput_inputs p)].
#[export] Instance lawful_PacketPlayerInput : LawfulCodec wire_PacketPlayerInput dom_PacketPlayerInput bytes_PacketPlayerInput.
Proof. solve_packet. Qed.

Record PacketPong : Type := mkPacketPong {
  PacketPong_id : Z;
}.
Definition wire_PacketPong : Codec PacketPong := {|
  encode p :=
    modify (put_i32 (PacketPong_id p)) ;;;
    ret tt;
  decode :=
    let* id := get_i32 in
    ret (mkPacketPong id);
|}.
Definition dom_PacketPong (p : PacketPong) : Prop :=
  in_i 32 (PacketPong_id p).
Definition bytes_PacketPong (p : PacketPong) : list byte :=
  concat [be_bytes 4 (PacketPong_id p)].
#[export] Instance lawful_PacketPong : LawfulCodec wire_PacketPong dom_PacketPong bytes_PacketPong.
Proof. solve_packet. Qed.

Record PacketRecipeBook : Type := mkPacketRecipeBook {
  PacketRecipeBook_book_id : Z;
  PacketRecipeBook_book_open : bool;
  PacketRecipeBook_filter_active : bool;
}.
Definition wire_PacketRecipeBook : Codec PacketRecipeBook := {|
  encode p :=
    modify (write_varint (PacketRecipeBook_book_id p)) ;;;
    encode wire_bool (PacketRecipeBook_book_open p) ;;;
    encode wire_bool (PacketRecipeBook_filter_active p) ;;;
    ret tt;
  decode :=
    let* book_id := read_varint in
    let* book_open := decode wire_bool in
    let* filter_active := decode wire_bool in
    ret (mkPacketRecipeBook book_id book_open filter_active);
|}.
Definition dom_PacketRecipeBook (p : PacketRecipeBook) : Prop :=
  in_i 32 (PacketRecipeBook_book_id p).
Definition bytes_PacketRecipeBook (p : PacketRecipeBook) : list byte :=
  concat [varint_bytes (PacketRecipeBook_book_id p);
    bool_bytes (PacketRecipeBook_book_open p);
    bool_bytes (PacketRecipeBook_filter_active p)].
#[export] Instance lawful_PacketRecipeBook : LawfulCodec wire_PacketRecipeBook dom_PacketRecipeBook bytes_PacketRecipeBook.
Proof. solve_packet. Qed.

Record PacketDisplayedRecipe : Type := mkPacketDisplayedRecipe {
  PacketDisplayedRecipe_recipe_id : Z;
}.
Definition wire_PacketDisplayedRecipe : Codec PacketDisplayedRecipe := {|
  encode p :=
    modify (write_varint (PacketDisplayedRecipe_recipe_id p)) ;;;
    ret tt;
  decode :=
    let* recipe_id := read_varint in
    ret (mkPacketDisplayedRecipe recipe_id);
|}.
Definition dom_PacketDisplayedRecipe (p : PacketDisplayedRecipe) : Prop :=
  in_i 32 (PacketDisplayedRecipe_recipe_id p).
Definition bytes_PacketDisplayedRecipe (p : PacketDisplayedRecipe) : list byte :=
  concat [varint_bytes (PacketDisplayedRecipe_recipe_id p)].
#[export] Instance lawful_PacketDisplayedRecipe : LawfulCodec wire_PacketDisplayedRecipe dom_PacketDisplayedRecipe bytes_PacketDisplayedRecipe.
Proof. solve_packet. Qed.

Record PacketNameItem : Type := mkPacketNameItem {
  PacketNameItem_name : string;
}.
Definition wire_PacketNameItem : Codec PacketNameItem := {|
  encode p :=
    encode wire_String (PacketNameItem_name p) ;;;
    ret tt;
  decode :=
    let* name := decode wire_String in
    ret (mkPacketNameItem name);
|}.
Definition dom_PacketNameItem (p : PacketNameItem) : Prop :=
  wire_string (PacketNameItem_name p).
Definition bytes_PacketNameItem (p : PacketNameItem) : list byte :=
  concat [string_bytes (PacketNameItem_name p)].
#[export] Instance lawful_PacketNameItem : LawfulCodec wire_PacketNameItem dom_PacketNameItem bytes_PacketNameItem.
Proof. solve_packet. Qed.

Record PacketResourcePackReceive : Type := mkPacketResourcePackReceive {
  PacketResourcePackReceive_uuid : Z;
  PacketResourcePackReceive_result : Z;
}.
Definition wire_PacketResourcePackReceive : Codec PacketResourcePackReceive := {|
  encode p :=
    encode wire_u128 (PacketResourcePackReceive_uuid p) ;;;
    modify (write_varint (PacketResourcePackReceive_result p)) ;;;
    ret tt;
  decode :=
    let* uuid := decode wire_u128 in
    let* result := read_varint in
    ret (mkPacketResourcePackReceive uuid result);
|}.
Definition dom_PacketResourcePackReceive (p : PacketResourcePackReceive) : Prop :=
  in_u 128 (PacketResourcePackReceive_uuid p)
  ∧ in_i 32 (PacketResourcePackReceive_result p).
Definition bytes_PacketResourcePackReceive (p : PacketResourcePackReceive) : list byte :=
  concat [be_bytes 16 (PacketResourcePackReceive_uuid p);
    varint_bytes (PacketResourcePackReceive_result p)].
#[export] Instance lawful_PacketResourcePackReceive : LawfulCodec wire_PacketResourcePackReceive dom_PacketResourcePackReceive bytes_PacketResourcePackReceive.
Proof. solve_packet. Qed.

Record PacketSelectTrade : Type := mkPacketSelectTrade {
  PacketSelectTrade_slot : Z;
}.
Definition wire_PacketSelectTrade : Codec PacketSelectTrade := {|
  encode p :=
    modify (write_varint (PacketSelectTrade_slot p)) ;;;
    ret tt;
  decode :=
    let* slot := read_varint in
    ret (mkPacketSelectTrade slot);
|}.
Definition dom_PacketSelectTrade (p : PacketSelectTrade) : Prop :=
  in_i 32 (PacketSelectTrade_slot p).
Definition bytes_PacketSelectTrade (p : PacketSelectTrade) : list byte :=
  concat [varint_bytes (PacketSelectTrade_slot p)].
#[export] Instance lawful_PacketSelectTrade : LawfulCodec wire_PacketSelectTrade dom_PacketSelectTrade bytes_PacketSelectTrade.
Proof. solve_packet. Qed.

Record PacketSetBeaconEffect : Type := mkPacketSetBeaconEffect {
  PacketSetBeaconEffect_primary_effect : option Z;
  PacketSetBeaconEffect_secondary_effect : option Z;
}.
Definition wire_PacketSetBeaconEffect : Codec PacketSetBeaconEffect := {|
  encode p :=
    encode (wire_Option wire_varint) (PacketSetBeaconEffect_primary_effect p) ;;;
    encode (wire_Option wire_varint) (PacketSetBeaconEffect_secondary_effect p) ;;;
    ret tt;
  decode :=
    let* primary_effect := decode (wire_Option wire_varint) in
    let* secondary_effect := decode (wire_Option wire_varint) in
    ret (mkPacketSetBeaconEffect primary_effect secondary_effect);
|}.
Definition dom_PacketSetBeaconEffect (p : PacketSetBeaconEffect) : Prop :=
  option_dom (in_i 32) (PacketSetBeaconEffect_primary_effect p)
  ∧ option_dom (in_i 32) (PacketSetBeaconEffect_secondary_effect p).
Definition bytes_PacketSetBeaconEffect (p : PacketSetBeaconEffect) : list byte :=
  concat [option_bytes varint_bytes (PacketSetBeaconEffect_primary_effect p);
    option_bytes varint_bytes (PacketSetBeaconEffect_secondary_effect p)].
#[export] Instance lawful_PacketSetBeaconEffect : LawfulCodec wire_PacketSetBeaconEffect dom_PacketSetBeaconEffect bytes_PacketSetBeaconEffect.
Proof. solve_packet. Qed.

Record PacketHeldItemSlotServerbound : Type := mkPacketHeldItemSlotServerbound {
  PacketHeldItemSlotServerbound_slot_id : Z;
}.
Definition wire_PacketHeldItemSlotServerbound : Codec PacketHeldItemSlotServerbound := {|
  encode p :=
    encode wire_i16 (PacketHeldItemSlotServerbound_slot_id p) ;;;
    ret tt;
  decode :=
    let* slot_id := decode wire_i16 in
    ret (mkPacketHeldItemSlotServerbound slot_id);
|}.
Definition dom_PacketHeldItemSlotServerbound (p : PacketHeldItemSlotServerbound) : Prop :=
  in_i 16 (PacketHeldItemSlotServerbound_slot_id p).
Definition bytes_PacketHeldItemSlotServerbound (p : PacketHeldItemSlotServerbound) : list byte :=
  concat [be_bytes 2 (PacketHeldItemSlotServerbound_slot_id p)].
#[export] Instance lawful_PacketHeldItemSlotServerbound : LawfulCodec wire_PacketHeldItemSlotServerbound dom_PacketHeldItemSlotServerbound bytes_PacketHeldItemSlotServerbound.
Proof. solve_packet. Qed.

Record PacketUpdateCommandBlock : Type := mkPacketUpdateCommandBlock {
  PacketUpdateCommandBlock_location : Position;
  PacketUpdateCommandBlock_command : string;
  PacketUpdateCommandBlock_mode : Z;
  PacketUpdateCommandBlock_flags : Z;
}.
Definition wire_PacketUpdateCommandBlock : Codec PacketUpdateCommandBlock := {|
  encode p :=
    encode wire_Position (PacketUpdateCommandBlock_location p) ;;;
    encode wire_String (PacketUpdateCommandBlock_command p) ;;;
    modify (write_varint (PacketUpdateCommandBlock_mode p)) ;;;
    encode wire_u8 (PacketUpdateCommandBlock_flags p) ;;;
    ret tt;
  decode :=
    let* location := decode wire_Position in
    let* command := decode wire_String in
    let* mode := read_varint in
    let* flags := decode wire_u8 in
    ret (mkPacketUpdateCommandBlock location command mode flags);
|}.
Definition dom_PacketUpdateCommandBlock (p : PacketUpdateCommandBlock) : Prop :=
  dom_Position (PacketUpdateCommandBlock_location p)
  ∧ wire_string (PacketUpdateCommandBlock_command p)
  ∧ in_i 32 (PacketUpdateCommandBlock_mode p)
  ∧ in_u 8 (PacketUpdateCommandBlock_flags p).
Definition bytes_PacketUpdateCommandBlock (p : PacketUpdateCommandBlock) : list byte :=
  concat [bytes_Position (PacketUpdateCommandBlock_location p);
    string_bytes (PacketUpdateCommandBlock_command p);
    varint_bytes (PacketUpdateCommandBlock_mode p);
    be_bytes 1 (PacketUpdateCommandBlock_flags p)].
#[export] Instance lawful_PacketUpdateCommandBlock : LawfulCodec wire_PacketUpdateCommandBlock dom_PacketUpdateCommandBlock bytes_PacketUpdateCommandBlock.
Proof. solve_packet. Qed.

Record PacketUpdateCommandBlockMinecart : Type := mkPacketUpdateCommandBlockMinecart {
  PacketUpdateCommandBlockMinecart_entity_id : Z;
  PacketUpdateCommandBlockMinecart_command : string;
  PacketUpdateCommandBlockMinecart_track_output : bool;
}.
Definition wire_PacketUpdateCommandBlockMinecart : Codec PacketUpdateCommandBlockMinecart := {|
  encode p :=
    modify (write_varint (PacketUpdateCommandBlockMinecart_entity_id p)) ;;;
    encode wire_String (PacketUpdateCommandBlockMinecart_command p) ;;;
    encode wire_bool (PacketUpdateCommandBlockMinecart_track_output p) ;;;
    ret tt;
  decode :=
    let* entity_id := read_varint in
    let* command := decode wire_String in
    let* track_output := decode wire_bool in
    ret (mkPacketUpdateCommandBlockMinecart entity_id command track_output);
|}.
Definition dom_PacketUpdateCommandBlockMinecart (p : PacketUpdateCommandBlockMinecart) : Prop :=
  in_i 32 (PacketUpdateCommandBlockMinecart_entity_id p)
  ∧ wire_string (PacketUpdateCommandBlockMinecart_command p).
Definition bytes_PacketUpdateCommandBlockMinecart (p : PacketUpdateCommandBlockMinecart) : list byte :=
  concat [varint_bytes (PacketUpdateCommandBlockMinecart_entity_id p);
    string_bytes (PacketUpdateCommandBlockMinecart_command p);
    bool_bytes (PacketUpdateCommandBlockMinecart_track_output p)].
#[export] Instance lawful_PacketUpdateCommandBlockMinecart : LawfulCodec wire_PacketUpdateCommandBlockMinecart dom_PacketUpdateCommandBlockMinecart bytes_PacketUpdateCommandBlockMinecart.
Proof. solve_packet. Qed.

Record PacketUpdateJigsawBlock : Type := mkPacketUpdateJigsawBlock {
  PacketUpdateJigsawBlock_location : Position;
  PacketUpdateJigsawBlock_name : string;
  PacketUpdateJigsawBlock_target : string;
  PacketUpdateJigsawBlock_pool : string;
  PacketUpdateJigsawBlock_final_state : string;
  PacketUpdateJigsawBlock_joint_type : string;
  PacketUpdateJigsawBlock_selection_priority : Z;
  PacketUpdateJigsawBlock_placement_priority : Z;
}.
Definition wire_PacketUpdateJigsawBlock : Codec PacketUpdateJigsawBlock := {|
  encode p :=
    encode wire_Position (PacketUpdateJigsawBlock_location p) ;;;
    encode wire_String (PacketUpdateJigsawBlock_name p) ;;;
    encode wire_String (PacketUpdateJigsawBlock_target p) ;;;
    encode wire_String (PacketUpdateJigsawBlock_pool p) ;;;
    encode wire_String (PacketUpdateJigsawBlock_final_state p) ;;;
    encode wire_String (PacketUpdateJigsawBlock_joint_type p) ;;;
    modify (write_varint (PacketUpdateJigsawBlock_selection_priority p)) ;;;
    modify (write_varint (PacketUpdateJigsawBlock_placement_priority p)) ;;;
    ret tt;
  decode :=
    let* location := decode wire_Position in
    let* name := decode wire_String in
    let* target := decode wire_String in
    let* pool := decode wire_String in
    let* final_state := decode wire_String in
    let* joint_type := decode wire_String in
    let* selection_priority := read_varint in
    let* placement_priority := read_varint in
    ret (mkPacketUpdateJigsawBlock location name target pool final_state joint_type selection_priority placement_priority);
|}.
Definition dom_PacketUpdateJigsawBlock (p : PacketUpdateJigsawBlock) : Prop :=
  dom_Position (PacketUpdateJigsawBlock_location p)
  ∧ wire_string (PacketUpdateJigsawBlock_name p)
  ∧ wire_string (PacketUpdateJigsawBlock_target p)
  ∧ wire_string (PacketUpdateJigsawBlock_pool p)
  ∧ wire_string (PacketUpdateJigsawBlock_final_state p)
  ∧ wire_string (PacketUpdateJigsawBlock_joint_type p)
  ∧ in_i 32 (PacketUpdateJigsawBlock_selection_priority p)
  ∧ in_i 32 (PacketUpdateJigsawBlock_placement_priority p).
Definition bytes_PacketUpdateJigsawBlock (p : PacketUpdateJigsawBlock) : list byte :=
  concat [bytes_Position (PacketUpdateJigsawBlock_location p);
    string_bytes (PacketUpdateJigsawBlock_name p);
    string_bytes (PacketUpdateJigsawBlock_target p);
    string_bytes (PacketUpdateJigsawBlock_pool p);
    string_bytes (PacketUpdateJigsawBlock_final_state p);
    string_bytes (PacketUpdateJigsawBlock_joint_type p);
    varint_bytes (PacketUpdateJigsawBlock_selection_priority p);
    varint_bytes (PacketUpdateJigsawBlock_placement_priority p)].
#[export] Instance lawful_PacketUpdateJigsawBlock : LawfulCodec wire_PacketUpdateJigsawBlock dom_PacketUpdateJigsawBlock bytes_PacketUpdateJigsawBlock.
Proof. solve_packet. Qed.

Record PacketUpdateStructureBlock : Type := mkPacketUpdateStructureBlock {
  PacketUpdateStructureBlock_location : Position;
  PacketUpdateStructureBlock_action : Z;
  PacketUpdateStructureBlock_mode : Z;
  PacketUpdateStructureBlock_name : string;
  PacketUpdateStructureBlock_offset_x : Z;
  PacketUpdateStructureBlock_offset_y : Z;
  PacketUpdateStructureBlock_offset_z : Z;
  PacketUpdateStructureBlock_size_x : Z;
  PacketUpdateStructureBlock_size_y : Z;
  PacketUpdateStructureBlock_size_z : Z;
  PacketUpdateStructureBlock_mirror : Z;
  PacketUpdateStructureBlock_rotation : Z;
  PacketUpdateStructureBlock_metadata : string;
  PacketUpdateStructureBlock_integrity : Z;
  PacketUpdateStructureBlock_seed : Z;
  PacketUpdateStructureBlock_flags : Z;
}.
Definition wire_PacketUpdateStructureBlock : Codec PacketUpdateStructureBlock := {|
  encode p :=
    encode wire_Position (PacketUpdateStructureBlock_location p) ;;;
    modify (write_varint (PacketUpdateStructureBlock_action p)) ;;;
    modify (write_varint (PacketUpdateStructureBlock_mode p)) ;;;
    encode wire_String (PacketUpdateStructureBlock_name p) ;;;
    encode wire_i8 (PacketUpdateStructureBlock_offset_x p) ;;;
    encode wire_i8 (PacketUpdateStructureBlock_offset_y p) ;;;
    encode wire_i8 (PacketUpdateStructureBlock_offset_z p) ;;;
    encode wire_i8 (PacketUpdateStructureBlock_size_x p) ;;;
    encode wire_i8 (PacketUpdateStructureBlock_size_y p) ;;;
    encode wire_i8 (PacketUpdateStructureBlock_size_z p) ;;;
    modify (write_varint (PacketUpdateStructureBlock_mirror p)) ;;;
    modify (write_varint (PacketUpdateStructureBlock_rotation p)) ;;;
    encode wire_String (PacketUpdateStructureBlock_metadata p) ;;;
    encode wire_f32 (PacketUpdateStructureBlock_integrity p) ;;;
    modify (write_varint (PacketUpdateStructureBlock_seed p)) ;;;
    encode wire_u8 (PacketUpdateStructureBlock_flags p) ;;;
    ret tt;
  decode :=
    let* location := decode wire_Position in
    let* action := read_varint in
    let* mode := read_varint in
    let* name := decode wire_String in
    let* offset_x := decode wire_i8 in
    let* offset_y := decode wire_i8 in
    let* offset_z := decode wire_i8 in
    let* size_x := decode wire_i8 in
    let* size_y := decode wire_i8 in
    let* size_z := decode wire_i8 in
    let* mirror := read_varint in
    let* rotation := read_varint in
    let* metadata := decode wire_String in
    let* integrity := decode wire_f32 in
    let* seed := read_varint in
    let* flags := decode wire_u8 in
    ret (mkPacketUpdateStructureBlock location action mode name offset_x offset_y offset_z size_x size_y size_z mirror rotation metadata integrity seed flags);
|}.
Definition dom_PacketUpdateStructureBlock (p : PacketUpdateStructureBlock) : Prop :=
  dom_Position (PacketUpdateStructureBlock_location p)
  ∧ in_i 32 (PacketUpdateStructureBlock_action p)
  ∧ in_i 32 (PacketUpdateStructureBlock_mode p)
  ∧ wire_string (PacketUpdateStructureBlock_name p)
  ∧ in_i 8 (PacketUpdateStructureBlock_offset_x p)
  ∧ in_i 8 (PacketUpdateStructureBlock_offset_y p)
  ∧ in_i 8 (PacketUpdateStructureBlock_offset_z p)
  ∧ in_i 8 (PacketUpdateStructureBlock_size_x p)
  ∧ in_i 8 (PacketUpdateStructureBlock_size_y p)
  ∧ in_i 8 (PacketUpdateStructureBlock_size_z p)
  ∧ in_i 32 (PacketUpdateStructureBlock_mirror p)
  ∧ in_i 32 (PacketUpdateStructureBlock_rotation p)
  ∧ wire_string (PacketUpdateStructureBlock_metadata p)
  ∧ in_u 32 (PacketUpdateStructureBlock_integrity p)
  ∧ in_i 32 (PacketUpdateStructureBlock_seed p)
  ∧ in_u 8 (PacketUpdateStructureBlock_flags p).
Definition bytes_PacketUpdateStructureBlock (p : PacketUpdateStructureBlock) : list byte :=
  concat [bytes_Position (PacketUpdateStructureBlock_location p);
    varint_bytes (PacketUpdateStructureBlock_action p);
    varint_bytes (PacketUpdateStructureBlock_mode p);
    string_bytes (PacketUpdateStructureBlock_name p);
    be_bytes 1 (PacketUpdateStructureBlock_offset_x p);
    be_bytes 1 (PacketUpdateStructureBlock_offset_y p);
    be_bytes 1 (PacketUpdateStructureBlock_offset_z p);
    be_bytes 1 (PacketUpdateStructureBlock_size_x p);
    be_bytes 1 (PacketUpdateStructureBlock_size_y p);
    be_bytes 1 (PacketUpdateStructureBlock_size_z p);
    varint_bytes (PacketUpdateStructureBlock_mirror p);
    varint_bytes (PacketUpdateStructureBlock_rotation p);
    string_bytes (PacketUpdateStructureBlock_metadata p);
    be_bytes 4 (PacketUpdateStructureBlock_integrity p);
    varint_bytes (PacketUpdateStructureBlock_seed p);
    be_bytes 1 (PacketUpdateStructureBlock_flags p)].
#[export] Instance lawful_PacketUpdateStructureBlock : LawfulCodec wire_PacketUpdateStructureBlock dom_PacketUpdateStructureBlock bytes_PacketUpdateStructureBlock.
Proof. solve_packet. Qed.

Record PacketUpdateSign : Type := mkPacketUpdateSign {
  PacketUpdateSign_location : Position;
  PacketUpdateSign_is_front_text : bool;
  PacketUpdateSign_text1 : string;
  PacketUpdateSign_text2 : string;
  PacketUpdateSign_text3 : string;
  PacketUpdateSign_text4 : string;
}.
Definition wire_PacketUpdateSign : Codec PacketUpdateSign := {|
  encode p :=
    encode wire_Position (PacketUpdateSign_location p) ;;;
    encode wire_bool (PacketUpdateSign_is_front_text p) ;;;
    encode wire_String (PacketUpdateSign_text1 p) ;;;
    encode wire_String (PacketUpdateSign_text2 p) ;;;
    encode wire_String (PacketUpdateSign_text3 p) ;;;
    encode wire_String (PacketUpdateSign_text4 p) ;;;
    ret tt;
  decode :=
    let* location := decode wire_Position in
    let* is_front_text := decode wire_bool in
    let* text1 := decode wire_String in
    let* text2 := decode wire_String in
    let* text3 := decode wire_String in
    let* text4 := decode wire_String in
    ret (mkPacketUpdateSign location is_front_text text1 text2 text3 text4);
|}.
Definition dom_PacketUpdateSign (p : PacketUpdateSign) : Prop :=
  dom_Position (PacketUpdateSign_location p)
  ∧ wire_string (PacketUpdateSign_text1 p)
  ∧ wire_string (PacketUpdateSign_text2 p)
  ∧ wire_string (PacketUpdateSign_text3 p)
  ∧ wire_string (PacketUpdateSign_text4 p).
Definition bytes_PacketUpdateSign (p : PacketUpdateSign) : list byte :=
  concat [bytes_Position (PacketUpdateSign_location p);
    bool_bytes (PacketUpdateSign_is_front_text p);
    string_bytes (PacketUpdateSign_text1 p);
    string_bytes (PacketUpdateSign_text2 p);
    string_bytes (PacketUpdateSign_text3 p);
    string_bytes (PacketUpdateSign_text4 p)].
#[export] Instance lawful_PacketUpdateSign : LawfulCodec wire_PacketUpdateSign dom_PacketUpdateSign bytes_PacketUpdateSign.
Proof. solve_packet. Qed.

Record PacketArmAnimation : Type := mkPacketArmAnimation {
  PacketArmAnimation_hand : Z;
}.
Definition wire_PacketArmAnimation : Codec PacketArmAnimation := {|
  encode p :=
    modify (write_varint (PacketArmAnimation_hand p)) ;;;
    ret tt;
  decode :=
    let* hand := read_varint in
    ret (mkPacketArmAnimation hand);
|}.
Definition dom_PacketArmAnimation (p : PacketArmAnimation) : Prop :=
  in_i 32 (PacketArmAnimation_hand p).
Definition bytes_PacketArmAnimation (p : PacketArmAnimation) : list byte :=
  concat [varint_bytes (PacketArmAnimation_hand p)].
#[export] Instance lawful_PacketArmAnimation : LawfulCodec wire_PacketArmAnimation dom_PacketArmAnimation bytes_PacketArmAnimation.
Proof. solve_packet. Qed.

Record PacketSpectate : Type := mkPacketSpectate {
  PacketSpectate_target : Z;
}.
Definition wire_PacketSpectate : Codec PacketSpectate := {|
  encode p :=
    encode wire_u128 (PacketSpectate_target p) ;;;
    ret tt;
  decode :=
    let* target := decode wire_u128 in
    ret (mkPacketSpectate target);
|}.
Definition dom_PacketSpectate (p : PacketSpectate) : Prop :=
  in_u 128 (PacketSpectate_target p).
Definition bytes_PacketSpectate (p : PacketSpectate) : list byte :=
  concat [be_bytes 16 (PacketSpectate_target p)].
#[export] Instance lawful_PacketSpectate : LawfulCodec wire_PacketSpectate dom_PacketSpectate bytes_PacketSpectate.
Proof. solve_packet. Qed.

Record PacketBlockPlace : Type := mkPacketBlockPlace {
  PacketBlockPlace_hand : Z;
  PacketBlockPlace_location : Position;
  PacketBlockPlace_direction : Z;
  PacketBlockPlace_cursor_x : Z;
  PacketBlockPlace_cursor_y : Z;
  PacketBlockPlace_cursor_z : Z;
  PacketBlockPlace_inside_block : bool;
  PacketBlockPlace_world_border_hit : bool;
  PacketBlockPlace_sequence : Z;
}.
Definition wire_PacketBlockPlace : Codec PacketBlockPlace := {|
  encode p :=
    modify (write_varint (PacketBlockPlace_hand p)) ;;;
    encode wire_Position (PacketBlockPlace_location p) ;;;
    modify (write_varint (PacketBlockPlace_direction p)) ;;;
    encode wire_f32 (PacketBlockPlace_cursor_x p) ;;;
    encode wire_f32 (PacketBlockPlace_cursor_y p) ;;;
    encode wire_f32 (PacketBlockPlace_cursor_z p) ;;;
    encode wire_bool (PacketBlockPlace_inside_block p) ;;;
    encode wire_bool (PacketBlockPlace_world_border_hit p) ;;;
    modify (write_varint (PacketBlockPlace_sequence p)) ;;;
    ret tt;
  decode :=
    let* hand := read_varint in
    let* location := decode wire_Position in
    let* direction := read_varint in
    let* cursor_x := decode wire_f32 in
    let* cursor_y := decode wire_f32 in
    let* cursor_z := decode wire_f32 in
    let* inside_block := decode wire_bool in
    let* world_border_hit := decode wire_bool in
    let* sequence := read_varint in
    ret (mkPacketBlockPlace hand location direction cursor_x cursor_y cursor_z inside_block world_border_hit sequence);
|}.
Definition dom_PacketBlockPlace (p : PacketBlockPlace) : Prop :=
  in_i 32 (PacketBlockPlace_hand p)
  ∧ dom_Position (PacketBlockPlace_location p)
  ∧ in_i 32 (PacketBlockPlace_direction p)
  ∧ in_u 32 (PacketBlockPlace_cursor_x p)
  ∧ in_u 32 (PacketBlockPlace_cursor_y p)
  ∧ in_u 32 (PacketBlockPlace_cursor_z p)
  ∧ in_i 32 (PacketBlockPlace_sequence p).
Definition bytes_PacketBlockPlace (p : PacketBlockPlace) : list byte :=
  concat [varint_bytes (PacketBlockPlace_hand p);
    bytes_Position (PacketBlockPlace_location p);
    varint_bytes (PacketBlockPlace_direction p);
    be_bytes 4 (PacketBlockPlace_cursor_x p);
    be_bytes 4 (PacketBlockPlace_cursor_y p);
    be_bytes 4 (PacketBlockPlace_cursor_z p);
    bool_bytes (PacketBlockPlace_inside_block p);
    bool_bytes (PacketBlockPlace_world_border_hit p);
    varint_bytes (PacketBlockPlace_sequence p)].
#[export] Instance lawful_PacketBlockPlace : LawfulCodec wire_PacketBlockPlace dom_PacketBlockPlace bytes_PacketBlockPlace.
Proof. solve_packet. Qed.

Record PacketUseItem : Type := mkPacketUseItem {
  PacketUseItem_hand : Z;
  PacketUseItem_sequence : Z;
  PacketUseItem_rotation : Vec2f;
}.
Definition wire_PacketUseItem : Codec PacketUseItem := {|
  encode p :=
    modify (write_varint (PacketUseItem_hand p)) ;;;
    modify (write_varint (PacketUseItem_sequence p)) ;;;
    encode wire_Vec2f (PacketUseItem_rotation p) ;;;
    ret tt;
  decode :=
    let* hand := read_varint in
    let* sequence := read_varint in
    let* rotation := decode wire_Vec2f in
    ret (mkPacketUseItem hand sequence rotation);
|}.
Definition dom_PacketUseItem (p : PacketUseItem) : Prop :=
  in_i 32 (PacketUseItem_hand p)
  ∧ in_i 32 (PacketUseItem_sequence p)
  ∧ dom_Vec2f (PacketUseItem_rotation p).
Definition bytes_PacketUseItem (p : PacketUseItem) : list byte :=
  concat [varint_bytes (PacketUseItem_hand p);
    varint_bytes (PacketUseItem_sequence p);
    bytes_Vec2f (PacketUseItem_rotation p)].
#[export] Instance lawful_PacketUseItem : LawfulCodec wire_PacketUseItem dom_PacketUseItem bytes_PacketUseItem.
Proof. solve_packet. Qed.
