(* ===== verification/LoginPackets.v ===== *)
(** * Handshake, status, login and configuration packets

    The structs of the generated modules [handshaking.rs], [status.rs],
    [login.rs] and [configuration.rs] whose fields are in a fixed order.  The
    names carry their module. *)

From S2P Require Import Prelude Machine Reader Varint Utf8 Buffer Wire Nbt PacketTypes.

Local Open Scope Z_scope.

Record HandshakePacketSetProtocol : Type := mkHandshakePacketSetProtocol {
  HandshakePacketSetProtocol_protocol_version : Z;
  HandshakePacketSetProtocol_server_host : string;
  HandshakePacketSetProtocol_server_port : Z;
  HandshakePacketSetProtocol_next_state : Z;
}.
Definition wire_HandshakePacketSetProtocol : Codec HandshakePacketSetProtocol := {|
  encode p :=
    modify (write_varint (HandshakePacketSetProtocol_protocol_version p)) ;;;
    encode wire_String (HandshakePacketSetProtocol_server_host p) ;;;
    encode wire_u16 (HandshakePacketSetProtocol_server_port p) ;;;
    modify (write_varint (HandshakePacketSetProtocol_next_state p)) ;;;
    ret tt;
  decode :=
    let* protocol_version := read_varint in
    let* server_host := decode wire_String in
    let* server_port := decode wire_u16 in
    let* next_state := read_varint in
    ret (mkHandshakePacketSetProtocol protocol_version server_host server_port next_state);
|}.
Definition dom_HandshakePacketSetProtocol (p : HandshakePacketSetProtocol) : Prop :=
  in_i 32 (HandshakePacketSetProtocol_protocol_version p)
  ∧ wire_string (HandshakePacketSetProtocol_server_host p)
  ∧ in_u 16 (HandshakePacketSetProtocol_server_port p)
  ∧ in_i 32 (HandshakePacketSetProtocol_next_state p).
Definition bytes_HandshakePacketSetProtocol (p : HandshakePacketSetProtocol) : list byte :=
  concat [varint_bytes (HandshakePacketSetProtocol_protocol_version p);
    string_bytes (HandshakePacketSetProtocol_server_host p);
    be_bytes 2 (HandshakePacketSetProtocol_server_port p);
    varint_bytes (HandshakePacketSetProtocol_next_state p)].
#[export] Instance lawful_HandshakePacketSetProtocol : LawfulCodec wire_HandshakePacketSetProtocol dom_HandshakePacketSetProtocol bytes_HandshakePacketSetProtocol.
Proof. solve_packet. Qed.

Record HandshakePacketLegacyServerListPing : Type := mkHandshakePacketLegacyServerListPing {
  HandshakePacketLegacyServerListPing_payload : Z;
}.
Definition wire_HandshakePacketLegacyServerListPing : Codec HandshakePacketLegacyServerListPing := {|
  encode p :=
    encode wire_u8 (HandshakePacketLegacyServerListPing_payload p) ;;;
    ret tt;
  decode :=
    let* payload := decode wire_u8 in
    ret (mkHandshakePacketLegacyServerListPing payload);
|}.
Definition dom_HandshakePacketLegacyServerListPing (p : HandshakePacketLegacyServerListPing) : Prop :=
  in_u 8 (HandshakePacketLegacyServerListPing_payload p).
Definition bytes_HandshakePacketLegacyServerListPing (p : HandshakePacketLegacyServerListPing) : list byte :=
  concat [be_bytes 1 (HandshakePacketLegacyServerListPing_payload p)].
#[export] Instance lawful_HandshakePacketLegacyServerListPing : LawfulCodec wire_HandshakePacketLegacyServerListPing dom_HandshakePacketLegacyServerListPing bytes_HandshakePacketLegacyServerListPing.
Proof. solve_packet. Qed.

Record StatusPacketServerInfo : Type := mkStatusPacketServerInfo {
  StatusPacketServerInfo_response : string;
}.
Definition wire_StatusPacketServerInfo : Codec StatusPacketServerInfo := {|
  encode p :=
    encode wire_String (StatusPacketServerInfo_response p) ;;;
    ret tt;
  decode :=
    let* response := decode wire_String in
    ret (mkStatusPacketServerInfo response);
|}.
Definition dom_StatusPacketServerInfo (p : StatusPacketServerInfo) : Prop :=
  wire_string (StatusPacketServerInfo_response p).
Definition bytes_StatusPacketServerInfo (p : StatusPacketServerInfo) : list byte :=
  concat [string_bytes (StatusPacketServerInfo_response p)].
#[export] Instance lawful_StatusPacketServerInfo : LawfulCodec wire_StatusPacketServerInfo dom_StatusPacketServerInfo bytes_StatusPacketServerInfo.
Proof. solve_packet. Qed.

Record StatusPacketPing : Type := mkStatusPacketPing {
  StatusPacketPing_time : Z;
}.
Definition wire_StatusPacketPing : Codec StatusPacketPing := {|
  encode p :=
    modify (put_i64 (StatusPacketPing_time p)) ;;;
    ret tt;
  decode :=
    let* time := get_i64 in
    ret (mkStatusPacketPing time);
|}.
Definition dom_StatusPacketPing (p : StatusPacketPing) : Prop :=
  in_i 64 (StatusPacketPing_time p).
Definition bytes_StatusPacketPing (p : StatusPacketPing) : list byte :=
  concat [be_bytes 8 (StatusPacketPing_time p)].
#[export] Instance lawful_StatusPacketPing : LawfulCodec wire_StatusPacketPing dom_StatusPacketPing bytes_StatusPacketPing.
Proof. solve_packet. Qed.

Record LoginPacketDisconnect : Type := mkLoginPacketDisconnect {
  LoginPacketDisconnect_reason : string;
}.
Definition wire_LoginPacketDisconnect : Codec LoginPacketDisconnect := {|
  encode p :=
    encode wire_String (LoginPacketDisconnect_reason p) ;;;
    ret tt;
  decode :=
    let* reason := decode wire_String in
    ret (mkLoginPacketDisconnect reason);
|}.
Definition dom_LoginPacketDisconnect (p : LoginPacketDisconnect) : Prop :=
  wire_string (LoginPacketDisconnect_reason p).
Definition bytes_LoginPacketDisconnect (p : LoginPacketDisconnect) : list byte :=
  concat [string_bytes (LoginPacketDisconnect_reason p)].
#[export] Instance lawful_LoginPacketDisconnect : LawfulCodec wire_LoginPacketDisconnect dom_LoginPacketDisconnect bytes_LoginPacketDisconnect.
Proof. solve_packet. Qed.

Record LoginPacketEncryptionBegin : Type := mkLoginPacketEncryptionBegin {
  LoginPacketEncryptionBegin_server_id : string;
  LoginPacketEncryptionBegin_public_key : list Z;
  LoginPacketEncryptionBegin_verify_token : list Z;
  LoginPacketEncryptionBegin_should_authenticate : bool;
}.
Definition wire_LoginPacketEncryptionBegin : Codec LoginPacketEncryptionBegin := {|
  encode p :=
    encode wire_String (LoginPacketEncryptionBegin_server_id p) ;;;
    encode (wire_Vec wire_u8) (LoginPacketEncryptionBegin_public_key p) ;;;
    encode (wire_Vec wire_u8) (LoginPacketEncryptionBegin_verify_token p) ;;;
    encode wire_bool (LoginPacketEncryptionBegin_should_authenticate p) ;;;
    ret tt;
  decode :=
    let* server_id := decode wire_String in
    let* public_key := decode (wire_Vec wire_u8) in
    let* verify_token := decode (wire_Vec wire_u8) in
    let* should_authenticate := decode wire_bool in
    ret (mkLoginPacketEncryptionBegin server_id public_key verify_token should_authenticate);
|}.
Definition dom_LoginPacketEncryptionBegin (p : LoginPacketEncryptionBegin) : Prop :=
  wire_string (LoginPacketEncryptionBegin_server_id p)
  ∧ vec_dom (in_u 8) (LoginPacketEncryptionBegin_public_key p)
  ∧ vec_dom (in_u 8) (LoginPacketEncryptionBegin_verify_token p).
Definition bytes_LoginPacketEncryptionBegin (p : LoginPacketEncryptionBegin) : list byte :=
  concat [string_bytes (LoginPacketEncryptionBegin_server_id p);
    vec_bytes (be_bytes 1) (LoginPacketEncryptionBegin_public_key p);
    vec_bytes (be_bytes 1) (LoginPacketEncryptionBegin_verify_token p);
    bool_bytes (LoginPacketEncryptionBegin_should_authenticate p)].
#[export] Instance lawful_LoginPacketEncryptionBegin : LawfulCodec wire_LoginPacketEncryptionBegin dom_LoginPacketEncryptionBegin bytes_LoginPacketEncryptionBegin.
Proof. solve_packet. Qed.

Record LoginPacketSuccessPropertiesItem : Type := mkLoginPacketSuccessPropertiesItem {
  LoginPacketSuccessPropertiesItem_name : string;
  LoginPacketSuccessPropertiesItem_value : string;
  LoginPacketSuccessPropertiesItem_signature : option string;
}.
Definition wire_LoginPacketSuccessPropertiesItem : Codec LoginPacketSuccessPropertiesItem := {|
  encode p :=
    encode wire_String (LoginPacketSuccessPropertiesItem_name p) ;;;
    encode wire_String (LoginPacketSuccessPropertiesItem_value p) ;;;
    encode (wire_Option wire_String) (LoginPacketSuccessPropertiesItem_signature p) ;;;
    ret tt;
  decode :=
    let* name := decode wire_String in
    let* value := decode wire_String in
    let* signature := decode (wire_Option wire_String) in
    ret (mkLoginPacketSuccessPropertiesItem name value signature);
|}.
Definition dom_LoginPacketSuccessPropertiesItem (p : LoginPacketSuccessPropertiesItem) : Prop :=
  wire_string (LoginPacketSuccessPropertiesItem_name p)
  ∧ wire_string (LoginPacketSuccessPropertiesItem_value p)
  ∧ option_dom wire_string (LoginPacketSuccessPropertiesItem_signature p).
Definition bytes_LoginPacketSuccessPropertiesItem (p : LoginPacketSuccessPropertiesItem) : list byte :=
  concat [string_bytes (LoginPacketSuccessPropertiesItem_name p);
    string_bytes (LoginPacketSuccessPropertiesItem_value p);
    option_bytes string_bytes (LoginPacketSuccessPropertiesItem_signature p)].
#[export] Instance lawful_LoginPacketSuccessPropertiesItem : LawfulCodec wire_LoginPacketSuccessPropertiesItem dom_LoginPacketSuccessPropertiesItem bytes_LoginPacketSuccessPropertiesItem.
Proof. solve_packet. Qed.
#[export] Instance cost_LoginPacketSuccessPropertiesItem : CodecCost dom_LoginPacketSuccessPropertiesItem bytes_LoginPacketSuccessPropertiesItem.
Proof. solve_cost. Qed.

Record LoginPacketSuccess : Type := mkLoginPacketSuccess {
  LoginPacketSuccess_uuid : Z;
  LoginPacketSuccess_username : string;
  LoginPacketSuccess_properties : list LoginPacketSuccessPropertiesItem;
}.
Definition wire_LoginPacketSuccess : Codec LoginPacketSuccess := {|
  encode p :=
    encode wire_u128 (LoginPacketSuccess_uuid p) ;;;
    encode wire_String (LoginPacketSuccess_username p) ;;;
    encode (wire_Vec wire_LoginPacketSuccessPropertiesItem) (LoginPacketSuccess_properties p) ;;;
    ret tt;
  decode :=
    let* uuid := decode wire_u128 in
    let* username := decode wire_String in
    let* properties := decode (wire_Vec wire_LoginPacketSuccessPropertiesItem) in
    ret (mkLoginPacketSuccess uuid username properties);
|}.
Definition dom_LoginPacketSuccess (p : LoginPacketSuccess) : Prop :=
  in_u 128 (LoginPacketSuccess_uuid p)
  ∧ wire_string (LoginPacketSuccess_username p)
  ∧ vec_dom dom_LoginPacketSuccessPropertiesItem (LoginPacketSuccess_properties p).
Definition bytes_LoginPacketSuccess (p : LoginPacketSuccess) : list byte :=
  concat [be_bytes 16 (LoginPacketSuccess_uuid p);
    string_bytes (LoginPacketSuccess_username p);
    vec_bytes bytes_LoginPacketSuccessPropertiesItem (LoginPacketSuccess_properties p)].
#[export] Instance lawful_LoginPacketSuccess : LawfulCodec wire_LoginPacketSuccess dom_LoginPacketSuccess bytes_LoginPacketSuccess.
Proof. solve_packet. Qed.

Record LoginPacketCompress : Type := mkLoginPacketCompress {
  LoginPacketCompress_threshold : Z;
}.
Definition wire_LoginPacketCompress : Codec LoginPacketCompress := {|
  encode p :=
    modify (write_varint (LoginPacketCompress_threshold p)) ;;;
    ret tt;
  decode :=
    let* threshold := read_varint in
    ret (mkLoginPacketCompress threshold);
|}.
Definition dom_LoginPacketCompress (p : LoginPacketCompress) : Prop :=
  in_i 32 (LoginPacketCompress_threshold p).
Definition bytes_LoginPacketCompress (p : LoginPacketCompress) : list byte :=
  concat [varint_bytes (LoginPacketCompress_threshold p)].
#[export] Instance lawful_LoginPacketCompress : LawfulCodec wire_LoginPacketCompress dom_LoginPacketCompress bytes_LoginPacketCompress.
Proof. solve_packet. Qed.

Record LoginPacketLoginStart : Type := mkLoginPacketLoginStart {
  LoginPacketLoginStart_username : string;
  LoginPacketLoginStart_player_uuid : Z;
}.
Definition wire_LoginPacketLoginStart : Codec LoginPacketLoginStart := {|
  encode p :=
    encode wire_String (LoginPacketLoginStart_username p) ;;;
    encode wire_u128 (LoginPacketLoginStart_player_uuid p) ;;;
    ret tt;
  decode :=
    let* username := decode wire_String in
    let* player_uuid := decode wire_u128 in
    ret (mkLoginPacketLoginStart username player_uuid);
|}.
Definition dom_LoginPacketLoginStart (p : LoginPacketLoginStart) : Prop :=
  wire_string (LoginPacketLoginStart_username p)
  ∧ in_u 128 (LoginPacketLoginStart_player_uuid p).
Definition bytes_LoginPacketLoginStart (p : LoginPacketLoginStart) : list byte :=
  concat [string_bytes (LoginPacketLoginStart_username p);
    be_bytes 16 (LoginPacketLoginStart_player_uuid p)].
#[export] Instance lawful_LoginPacketLoginStart : LawfulCodec wire_LoginPacketLoginStart dom_LoginPacketLoginStart bytes_LoginPacketLoginStart.
Proof. solve_packet. Qed.

Record LoginPacketEncryptionBeginServerbound : Type := mkLoginPacketEncryptionBeginServerbound {
  LoginPacketEncryptionBeginServerbound_shared_secret : list Z;
  LoginPacketEncryptionBeginServerbound_verify_token : list Z;
}.
Definition wire_LoginPacketEncryptionBeginServerbound : Codec LoginPacketEncryptionBeginServerbound := {|
  encode p :=
    encode (wire_Vec wire_u8) (LoginPacketEncryptionBeginServerbound_shared_secret p) ;;;
    encode (wire_Vec wire_u8) (LoginPacketEncryptionBeginServerbound_verify_token p) ;;;
    ret tt;
  decode :=
    let* shared_secret := decode (wire_Vec wire_u8) in
    let* verify_token := decode (wire_Vec wire_u8) in
    ret (mkLoginPacketEncryptionBeginServerbound shared_secret verify_token);
|}.
Definition dom_LoginPacketEncryptionBeginServerbound (p : LoginPacketEncryptionBeginServerbound) : Prop :=
  vec_dom (in_u 8) (LoginPacketEncryptionBeginServerbound_shared_secret p)
  ∧ vec_dom (in_u 8) (LoginPacketEncryptionBeginServerbound_verify_token p).
Definition bytes_LoginPacketEncryptionBeginServerbound (p : LoginPacketEncryptionBeginServerbound) : list byte :=
  concat [vec_bytes (be_bytes 1) (LoginPacketEncryptionBeginServerbound_shared_secret p);
    vec_bytes (be_bytes 1) (LoginPacketEncryptionBeginServerbound_verify_token p)].
#[export] Instance lawful_LoginPacketEncryptionBeginServerbound : LawfulCodec wire_LoginPacketEncryptionBeginServerbound dom_LoginPacketEncryptionBeginServerbound bytes_LoginPacketEncryptionBeginServerbound.
Proof. solve_packet. Qed.

Record ConfigPacketDisconnect : Type := mkConfigPacketDisconnect {
  ConfigPacketDisconnect_reason : Nbt;
}.
Definition wire_ConfigPacketDisconnect : Codec ConfigPacketDisconnect := {|
  encode p :=
    encode wire_Nbt (ConfigPacketDisconnect_reason p) ;;;
    ret tt;
  decode :=
    let* reason := decode wire_Nbt in
    ret (mkConfigPacketDisconnect reason);
|}.
Definition dom_ConfigPacketDisconnect (p : ConfigPacketDisconnect) : Prop :=
  nbt_fits (ConfigPacketDisconnect_reason p).
Definition bytes_ConfigPacketDisconnect (p : ConfigPacketDisconnect) : list byte :=
  concat [nbt_bytes (ConfigPacketDisconnect_reason p)].
#[export] Instance lawful_ConfigPacketDisconnect : LawfulCodec wire_ConfigPacketDisconnect dom_ConfigPacketDisconnect bytes_ConfigPacketDisconnect.
Proof. solve_packet. Qed.

Record ConfigPacketKeepAlive : Type := mkConfigPacketKeepAlive {
  ConfigPacketKeepAlive_keep_alive_id : Z;
}.
Definition wire_ConfigPacketKeepAlive : Codec ConfigPacketKeepAlive := {|
  encode p :=
    modify (put_i64 (ConfigPacketKeepAlive_keep_alive_id p)) ;;;
    ret tt;
  decode :=
    let* keep_alive_id := get_i64 in
    ret (mkConfigPacketKeepAlive keep_alive_id);
|}.
Definition dom_ConfigPacketKeepAlive (p : ConfigPacketKeepAlive) : Prop :=
  in_i 64 (ConfigPacketKeepAlive_keep_alive_id p).
Definition bytes_ConfigPacketKeepAlive (p : ConfigPacketKeepAlive) : list byte :=
  concat [be_bytes 8 (ConfigPacketKeepAlive_keep_alive_id p)].
#[export] Instance lawful_ConfigPacketKeepAlive : LawfulCodec wire_ConfigPacketKeepAlive dom_ConfigPacketKeepAlive bytes_ConfigPacketKeepAlive.
Proof. solve_packet. Qed.

Record ConfigPacketPing : Type := mkConfigPacketPing {
  ConfigPacketPing_id : Z;
}.
Definition wire_ConfigPacketPing : Codec ConfigPacketPing := {|
  encode p :=
    modify (put_i32 (ConfigPacketPing_id p)) ;;;
    ret tt;
  decode :=
    let* id := get_i32 in
    ret (mkConfigPacketPing id);
|}.
Definition dom_ConfigPacketPing (p : ConfigPacketPing) : Prop :=
  in_i 32 (ConfigPacketPing_id p).
Definition bytes_ConfigPacketPing (p : ConfigPacketPing) : list byte :=
  concat [be_bytes 4 (ConfigPacketPing_id p)].
#[export] Instance lawful_ConfigPacketPing : LawfulCodec wire_ConfigPacketPing dom_ConfigPacketPing bytes_ConfigPacketPing.
Proof. solve_packet. Qed.

Record ConfigPacketRegistryDataEntriesItem : Type := mkConfigPacketRegistryDataEntriesItem {
  ConfigPacketRegistryDataEntriesItem_key : string;
  ConfigPacketRegistryDataEntriesItem_value : option Nbt;
}.
Definition wire_ConfigPacketRegistryDataEntriesItem : Codec ConfigPacketRegistryDataEntriesItem := {|
  encode p :=
    encode wire_String (ConfigPacketRegistryDataEntriesItem_key p) ;;;
    encode (wire_Option wire_Nbt) (ConfigPacketRegistryDataEntriesItem_value p) ;;;
    ret tt;
  decode :=
    let* key := decode wire_String in
    let* value := decode (wire_Option wire_Nbt) in
    ret (mkConfigPacketRegistryDataEntriesItem key value);
|}.
Definition dom_ConfigPacketRegistryDataEntriesItem (p : ConfigPacketRegistryDataEntriesItem) : Prop :=
  wire_string (ConfigPacketRegistryDataEntriesItem_key p)
  ∧ option_dom nbt_fits (ConfigPacketRegistryDataEntriesItem_value p).
Definition bytes_ConfigPacketRegistryDataEntriesItem (p : ConfigPacketRegistryDataEntriesItem) : list byte :=
  concat [string_bytes (ConfigPacketRegistryDataEntriesItem_key p);
    option_bytes nbt_bytes (ConfigPacketRegistryDataEntriesItem_value p)].
#[export] Instance lawful_ConfigPacketRegistryDataEntriesItem : LawfulCodec wire_ConfigPacketRegistryDataEntriesItem dom_ConfigPacketRegistryDataEntriesItem bytes_ConfigPacketRegistryDataEntriesItem.
Proof. solve_packet. Qed.
#[export] Instance cost_ConfigPacketRegistryDataEntriesItem : CodecCost dom_ConfigPacketRegistryDataEntriesItem bytes_ConfigPacketRegistryDataEntriesItem.
Proof. solve_cost. Qed.

Record ConfigPacketRegistryData : Type := mkConfigPacketRegistryData {
  ConfigPacketRegistryData_id : string;
  ConfigPacketRegistryData_entries : list ConfigPacketRegistryDataEntriesItem;
}.
Definition wire_ConfigPacketRegistryData : Codec ConfigPacketRegistryData := {|
  encode p :=
    encode wire_String (ConfigPacketRegistryData_id p) ;;;
    encode (wire_Vec wire_ConfigPacketRegistryDataEntriesItem) (ConfigPacketRegistryData_entries p) ;;;
    ret tt;
  decode :=
    let* id := decode wire_String in
    let* entries := decode (wire_Vec wire_ConfigPacketRegistryDataEntriesItem) in
    ret (mkConfigPacketRegistryData id entries);
|}.
Definition dom_ConfigPacketRegistryData (p : ConfigPacketRegistryData) : Prop :=
  wire_string (ConfigPacketRegistryData_id p)
  ∧ vec_dom dom_ConfigPacketRegistryDataEntriesItem (ConfigPacketRegistryData_entries p).
Definition bytes_ConfigPacketRegistryData (p : ConfigPacketRegistryData) : list byte :=
  concat [string_bytes (ConfigPacketRegistryData_id p);
    vec_bytes bytes_ConfigPacketRegistryDataEntriesItem (ConfigPacketRegistryData_entries p)].
#[export] Instance lawful_ConfigPacketRegistryData : LawfulCodec wire_ConfigPacketRegistryData dom_ConfigPacketRegistryData bytes_ConfigPacketRegistryData.
Proof. solve_packet. Qed.

Record ConfigPacketFeatureFlags : Type := mkConfigPacketFeatureFlags {
  ConfigPacketFeatureFlags_features : list string;
}.
Definition wire_ConfigPacketFeatureFlags : Codec ConfigPacketFeatureFlags := {|
  encode p :=
    encode (wire_Vec wire_String) (ConfigPacketFeatureFlags_features p) ;;;
    ret tt;
  decode :=
    let* features := decode (wire_Vec wire_String) in
    ret (mkConfigPacketFeatureFlags features);
|}.
Definition dom_ConfigPacketFeatureFlags (p : ConfigPacketFeatureFlags) : Prop :=
  vec_dom wire_string (ConfigPacketFeatureFlags_features p).
Definition bytes_ConfigPacketFeatureFlags (p : ConfigPacketFeatureFlags) : list byte :=
  concat [vec_bytes string_bytes (ConfigPacketFeatureFlags_features p)].
#[export] Instance lawful_ConfigPacketFeatureFlags : LawfulCodec wire_ConfigPacketFeatureFlags dom_ConfigPacketFeatureFlags bytes_ConfigPacketFeatureFlags.
Proof. solve_packet. Qed.

Record ConfigPacketTagsTagsItem : Type := mkConfigPacketTagsTagsItem {
  ConfigPacketTagsTagsItem_tag_type : string;
  ConfigPacketTagsTagsItem_tags : list TagsItem;
}.
Definition wire_ConfigPacketTagsTagsItem : Codec ConfigPacketTagsTagsItem := {|
  encode p :=
    encode wire_String (ConfigPacketTagsTagsItem_tag_type p) ;;;
    encode (wire_Vec wire_TagsItem) (ConfigPacketTagsTagsItem_tags p) ;;;
    ret tt;
  decode :=
    let* tag_type := decode wire_String in
    let* tags := decode (wire_Vec wire_TagsItem) in
    ret (mkConfigPacketTagsTagsItem tag_type tags);
|}.
Definition dom_ConfigPacketTagsTagsItem (p : ConfigPacketTagsTagsItem) : Prop :=
  wire_string (ConfigPacketTagsTagsItem_tag_type p)
  ∧ vec_dom dom_TagsItem (ConfigPacketTagsTagsItem_tags p).
Definition bytes_ConfigPacketTagsTagsItem (p : ConfigPacketTagsTagsItem) : list byte :=
  concat [string_bytes (ConfigPacketTagsTagsItem_tag_type p);
    vec_bytes bytes_TagsItem (ConfigPacketTagsTagsItem_tags p)].
#[export] Instance lawful_ConfigPacketTagsTagsItem : LawfulCodec wire_ConfigPacketTagsTagsItem dom_ConfigPacketTagsTagsItem bytes_ConfigPacketTagsTagsItem.
Proof. solve_packet. Qed.
#[export] Instance cost_ConfigPacketTagsTagsItem : CodecCost dom_ConfigPacketTagsTagsItem bytes_ConfigPacketTagsTagsItem.
Proof. solve_cost. Qed.

Record ConfigPacketTags : Type := mkConfigPacketTags {
  ConfigPacketTags_tags : list ConfigPacketTagsTagsItem;
}.
Definition wire_ConfigPacketTags : Codec ConfigPacketTags := {|
  encode p :=
    encode (wire_Vec wire_ConfigPacketTagsTagsItem) (ConfigPacketTags_tags p) ;;;
    ret tt;
  decode :=
    let* tags := decode (wire_Vec wire_ConfigPacketTagsTagsItem) in
    ret (mkConfigPacketTags tags);
|}.
Definition dom_ConfigPacketTags (p : ConfigPacketTags) : Prop :=
  vec_dom dom_ConfigPacketTagsTagsItem (ConfigPacketTags_tags p).
Definition bytes_ConfigPacketTags (p : ConfigPacketTags) : list byte :=
  concat [vec_bytes bytes_ConfigPacketTagsTagsItem (ConfigPacketTags_tags p)].
#[export] Instance lawful_ConfigPacketTags : LawfulCodec wire_ConfigPacketTags dom_ConfigPacketTags bytes_ConfigPacketTags.
Proof. solve_packet. Qed.

Record ConfigPacketPong : Type := mkConfigPacketPong {
  ConfigPacketPong_id : Z;
}.
Definition wire_ConfigPacketPong : Codec ConfigPacketPong := {|
  encode p :=
    modify (put_i32 (ConfigPacketPong_id p)) ;;;
    ret tt;
  decode :=
    let* id := get_i32 in
    ret (mkConfigPacketPong id);
|}.
Definition dom_ConfigPacketPong (p : ConfigPacketPong) : Prop :=
  in_i 32 (ConfigPacketPong_id p).
Definition bytes_ConfigPacketPong (p : ConfigPacketPong) : list byte :=
  concat [be_bytes 4 (ConfigPacketPong_id p)].
#[export] Instance lawful_ConfigPacketPong : LawfulCodec wire_ConfigPacketPong dom_ConfigPacketPong bytes_ConfigPacketPong.
Proof. solve_packet. Qed.

Record ConfigPacketResourcePackReceive : Type := mkConfigPacketResourcePackReceive {
  ConfigPacketResourcePackReceive_uuid : Z;
  ConfigPacketResourcePackReceive_result : Z;
}.
Definition wire_ConfigPacketResourcePackReceive : Codec ConfigPacketResourcePackReceive := {|
  encode p :=
    encode wire_u128 (ConfigPacketResourcePackReceive_uuid p) ;;;
    modify (write_varint (ConfigPacketResourcePackReceive_result p)) ;;;
    ret tt;
  decode :=
    let* uuid := decode wire_u128 in
    let* result := read_varint in
    ret (mkConfigPacketResourcePackReceive uuid result);
|}.
Definition dom_ConfigPacketResourcePackReceive (p : ConfigPacketResourcePackReceive) : Prop :=
  in_u 128 (ConfigPacketResourcePackReceive_uuid p)
  ∧ in_i 32 (ConfigPacketResourcePackReceive_result p).
Definition bytes_ConfigPacketResourcePackReceive (p : ConfigPacketResourcePackReceive) : list byte :=
  concat [be_bytes 16 (ConfigPacketResourcePackReceive_uuid p);
    varint_bytes (ConfigPacketResourcePackReceive_result p)].
#[export] Instance lawful_ConfigPacketResourcePackReceive : LawfulCodec wire_ConfigPacketResourcePackReceive dom_ConfigPacketResourcePackReceive bytes_ConfigPacketResourcePackReceive.
Proof. solve_packet. Qed.
