(* ===== verification/ItemTypes.v ===== *)
(** * Item component types

    The types of [crates/minerider-protocol/src/generated/v1_21_4/types.rs]
    that item components are made of and that do not themselves contain
    items, with their codecs. *)

From S2P Require Import Prelude Machine Reader Varint Utf8 Buffer Wire Nbt PacketTypes Switch Recursion.

Local Open Scope Z_scope.

(** ** Bounds of the shared types *)

#[export] Instance safe_Position : SafeDecode wire_Position.
Proof. solve_safe. Qed.
#[export] Instance safe_ItemSoundEvent : SafeDecode wire_ItemSoundEvent.
Proof. solve_safe. Qed.

(** ** Potion effects

    An effect hides another one, to any depth. *)

#[local] Unset Elimination Schemes.
Inductive ItemEffectDetail : Type := mkItemEffectDetail {
  ItemEffectDetail_amplifier : Z;
  ItemEffectDetail_duration : Z;
  ItemEffectDetail_ambient : bool;
  ItemEffectDetail_show_particles : bool;
  ItemEffectDetail_show_icon : bool;
  ItemEffectDetail_hidden_effect : option ItemEffectDetail;
}.
#[local] Set Elimination Schemes.

(** One level, over the codec of the levels below. *)
Section level_ItemEffectDetail.
Context (wire_ItemEffectDetail : Codec ItemEffectDetail) (dom_ItemEffectDetail : ItemEffectDetail → Prop) (bytes_ItemEffectDetail : ItemEffectDetail → list byte).
Context `{!LawfulCodec wire_ItemEffectDetail dom_ItemEffectDetail bytes_ItemEffectDetail, !CodecCost dom_ItemEffectDetail bytes_ItemEffectDetail}.

Definition level_ItemEffectDetail : Codec ItemEffectDetail := {|
  encode p :=
    modify (write_varint (ItemEffectDetail_amplifier p)) ;;;
    modify (write_varint (ItemEffectDetail_duration p)) ;;;
    encode wire_bool (ItemEffectDetail_ambient p) ;;;
    encode wire_bool (ItemEffectDetail_show_particles p) ;;;
    encode wire_bool (ItemEffectDetail_show_icon p) ;;;
    encode (wire_Option wire_ItemEffectDetail) (ItemEffectDetail_hidden_effect p) ;;;
    ret tt;
  decode :=
    let* amplifier := read_varint in
    let* duration := read_varint in
    let* ambient := decode wire_bool in
    let* show_particles := decode wire_bool in
    let* show_icon := decode wire_bool in
    let* hidden_effect := decode (wire_Option wire_ItemEffectDetail) in
    ret (mkItemEffectDetail amplifier duration ambient show_particles show_icon hidden_effect);
|}.
Definition dom_level_ItemEffectDetail (p : ItemEffectDetail) : Prop :=
  in_i 32 (ItemEffectDetail_amplifier p)
  ∧ in_i 32 (ItemEffectDetail_duration p)
  ∧ option_dom dom_ItemEffectDetail (ItemEffectDetail_hidden_effect p).
Definition bytes_level_ItemEffectDetail (p : ItemEffectDetail) : list byte :=
  concat [varint_bytes (ItemEffectDetail_amplifier p);
    varint_bytes (ItemEffectDetail_duration p);
    bool_bytes (ItemEffectDetail_ambient p);
    bool_bytes (ItemEffectDetail_show_particles p);
    bool_bytes (ItemEffectDetail_show_icon p);
    option_bytes bytes_ItemEffectDetail (ItemEffectDetail_hidden_effect p)].
#[export] Instance lawful_level_ItemEffectDetail : LawfulCodec level_ItemEffectDetail dom_level_ItemEffectDetail bytes_level_ItemEffectDetail.
Proof. solve_struct. Qed.
#[export] Instance cost_level_ItemEffectDetail : CodecCost dom_level_ItemEffectDetail bytes_level_ItemEffectDetail.
Proof using Type. solve_head. Qed.
End level_ItemEffectDetail.

Fixpoint encode_ItemEffectDetail (p : ItemEffectDetail) : Write :=
  encode (level_ItemEffectDetail {| encode := encode_ItemEffectDetail; decode := decode stuck |}) p.

Definition wire_ItemEffectDetail : Codec ItemEffectDetail := knot level_ItemEffectDetail encode_ItemEffectDetail.
Definition dom_ItemEffectDetail : ItemEffectDetail → Prop := knot_dom dom_level_ItemEffectDetail.
Definition bytes_ItemEffectDetail : ItemEffectDetail → list byte := knot_bytes encode_ItemEffectDetail.

#[export] Instance guarded_ItemEffectDetail : Guarded level_ItemEffectDetail.
Proof.
  split.
  - intros c Hc. change (SafeDecode c) in Hc. unfold level_ItemEffectDetail. cbn [decode]. mauto.
  - intros c c' k Hb Hc. pose proof (Hb : SafeDecode c). unfold level_ItemEffectDetail. cbn [decode].
    apply agree_bind_progress; [apply progress_varint|intros amplifier].
    repeat (apply agree_bind; [mauto|apply agree_refl|intros ?]).
    apply agree_bind; [mauto|by apply agree_Option|intros h; apply agree_refl].
Qed.

Lemma encode_ItemEffectDetail_eq p : encode_ItemEffectDetail p = encode (level_ItemEffectDetail wire_ItemEffectDetail) p.
Proof. by destruct p. Qed.

#[export] Instance lawful_ItemEffectDetail : LawfulCodec wire_ItemEffectDetail dom_ItemEffectDetail bytes_ItemEffectDetail.
Proof. apply (knot_lawful _ _ _ bytes_level_ItemEffectDetail encode_ItemEffectDetail_eq); [intros; apply lawful_level_ItemEffectDetail; done|apply cost_level_ItemEffectDetail]. Qed.
#[export] Instance cost_ItemEffectDetail : CodecCost dom_ItemEffectDetail bytes_ItemEffectDetail.
Proof. apply (knot_cost _ _ _ bytes_level_ItemEffectDetail encode_ItemEffectDetail_eq); [intros; apply lawful_level_ItemEffectDetail; done|apply cost_level_ItemEffectDetail]. Qed.
#[export] Instance safe_ItemEffectDetail : SafeDecode wire_ItemEffectDetail.
Proof. apply knot_bounds, _. Qed.

(** ** Component data *)

Record InstrumentData : Type := mkInstrumentData {
  InstrumentData_sound_event : Holder ItemSoundEvent;
  InstrumentData_use_duration : Z;
  InstrumentData_range : Z;
  InstrumentData_description : Nbt;
}.
Definition wire_InstrumentData : Codec InstrumentData := {|
  encode p :=
    encode (wire_Holder wire_ItemSoundEvent) (InstrumentData_sound_event p) ;;;
    encode wire_f32 (InstrumentData_use_duration p) ;;;
    encode wire_f32 (InstrumentData_range p) ;;;
    encode wire_Nbt (InstrumentData_description p) ;;;
    ret tt;
  decode :=
    let* sound_event := decode (wire_Holder wire_ItemSoundEvent) in
    let* use_duration := decode wire_f32 in
    let* range := decode wire_f32 in
    let* description := decode wire_Nbt in
    ret (mkInstrumentData sound_event use_duration range description);
|}.
Definition dom_InstrumentData (p : InstrumentData) : Prop :=
  holder_dom dom_ItemSoundEvent (InstrumentData_sound_event p)
  ∧ in_u 32 (InstrumentData_use_duration p)
  ∧ in_u 32 (InstrumentData_range p)
  ∧ nbt_fits (InstrumentData_description p).
Definition bytes_InstrumentData (p : InstrumentData) : list byte :=
  concat [holder_bytes bytes_ItemSoundEvent (InstrumentData_sound_event p);
    be_bytes 4 (InstrumentData_use_duration p);
    be_bytes 4 (InstrumentData_range p);
    nbt_bytes (InstrumentData_description p)].
#[export] Instance lawful_InstrumentData : LawfulCodec wire_InstrumentData dom_InstrumentData bytes_InstrumentData.
Proof. solve_struct. Qed.
#[export] Instance cost_InstrumentData : CodecCost dom_InstrumentData bytes_InstrumentData.
Proof. solve_head. Qed.
#[export] Instance safe_InstrumentData : SafeDecode wire_InstrumentData.
Proof. solve_safe. Qed.

Inductive ItemFireworkExplosionShape : Type :=
  | ItemFireworkExplosionShape_SmallBall
  | ItemFireworkExplosionShape_LargeBall
  | ItemFireworkExplosionShape_Star
  | ItemFireworkExplosionShape_Creeper
  | ItemFireworkExplosionShape_Burst.
Definition value_ItemFireworkExplosionShape (v : ItemFireworkExplosionShape) : Z :=
  match v with
  | ItemFireworkExplosionShape_SmallBall => 0
  | ItemFireworkExplosionShape_LargeBall => 1
  | ItemFireworkExplosionShape_Star => 2
  | ItemFireworkExplosionShape_Creeper => 3
  | ItemFireworkExplosionShape_Burst => 4
  end.
Definition of_ItemFireworkExplosionShape (value : Z) : option ItemFireworkExplosionShape :=
  match value with
  | 0 => Some ItemFireworkExplosionShape_SmallBall
  | 1 => Some ItemFireworkExplosionShape_LargeBall
  | 2 => Some ItemFireworkExplosionShape_Star
  | 3 => Some ItemFireworkExplosionShape_Creeper
  | 4 => Some ItemFireworkExplosionShape_Burst
  | _ => None
  end.
#[export] Instance ItemFireworkExplosionShape_eq_dec : EqDecision ItemFireworkExplosionShape.
Proof. apply (value_eq_dec value_ItemFireworkExplosionShape), (value_inj _ of_ItemFireworkExplosionShape). by intros []. Defined.
Definition wire_ItemFireworkExplosionShape : Codec ItemFireworkExplosionShape := {|
  encode v := modify (write_varint (value_ItemFireworkExplosionShape v));
  decode :=
    let* value := read_varint in
    match of_ItemFireworkExplosionShape value with
    | Some v => ret v
    | None => raise (UnknownEnumValue "ItemFireworkExplosionShape" value)
    end;
|}.
Definition dom_ItemFireworkExplosionShape (_ : ItemFireworkExplosionShape) : Prop := True.
Definition bytes_ItemFireworkExplosionShape (v : ItemFireworkExplosionShape) : list byte := varint_bytes (value_ItemFireworkExplosionShape v).
#[export] Instance lawful_ItemFireworkExplosionShape : LawfulCodec wire_ItemFireworkExplosionShape dom_ItemFireworkExplosionShape bytes_ItemFireworkExplosionShape.
Proof. solve_enum. Qed.
#[export] Instance cost_ItemFireworkExplosionShape : CodecCost dom_ItemFireworkExplosionShape bytes_ItemFireworkExplosionShape.
Proof. solve_cost. Qed.
#[export] Instance safe_ItemFireworkExplosionShape : SafeDecode wire_ItemFireworkExplosionShape.
Proof. solve_safe. Qed.

Record ItemFireworkExplosion : Type := mkItemFireworkExplosion {
  ItemFireworkExplosion_shape : ItemFireworkExplosionShape;
  ItemFireworkExplosion_colors : list Z;
  ItemFireworkExplosion_fade_colors : list Z;
  ItemFireworkExplosion_has_trail : bool;
  ItemFireworkExplosion_has_twinkle : bool;
}.
Definition wire_ItemFireworkExplosion : Codec ItemFireworkExplosion := {|
  encode p :=
    encode wire_ItemFireworkExplosionShape (ItemFireworkExplosion_shape p) ;;;
    encode (wire_Vec wire_i32) (ItemFireworkExplosion_colors p) ;;;
    encode (wire_Vec wire_i32) (ItemFireworkExplosion_fade_colors p) ;;;
    encode wire_bool (ItemFireworkExplosion_has_trail p) ;;;
    encode wire_bool (ItemFireworkExplosion_has_twinkle p) ;;;
    ret tt;
  decode :=
    let* shape := decode wire_ItemFireworkExplosionShape in
    let* colors := decode (wire_Vec wire_i32) in
    let* fade_colors := decode (wire_Vec wire_i32) in
    let* has_trail := decode wire_bool in
    let* has_twinkle := decode wire_bool in
    ret (mkItemFireworkExplosion shape colors fade_colors has_trail has_twinkle);
|}.
Definition dom_ItemFireworkExplosion (p : ItemFireworkExplosion) : Prop :=
  dom_ItemFireworkExplosionShape (ItemFireworkExplosion_shape p)
  ∧ vec_dom (in_i 32) (ItemFireworkExplosion_colors p)
  ∧ vec_dom (in_i 32) (ItemFireworkExplosion_fade_colors p).
Definition bytes_ItemFireworkExplosion (p : ItemFireworkExplosion) : list byte :=
  concat [bytes_ItemFireworkExplosionShape (ItemFireworkExplosion_shape p);
    vec_bytes (be_bytes 4) (ItemFireworkExplosion_colors p);
    vec_bytes (be_bytes 4) (ItemFireworkExplosion_fade_colors p);
    bool_bytes (ItemFireworkExplosion_has_trail p);
    bool_bytes (ItemFireworkExplosion_has_twinkle p)].
#[export] Instance lawful_ItemFireworkExplosion : LawfulCodec wire_ItemFireworkExplosion dom_ItemFireworkExplosion bytes_ItemFireworkExplosion.
Proof. solve_struct. Qed.
#[export] Instance cost_ItemFireworkExplosion : CodecCost dom_ItemFireworkExplosion bytes_ItemFireworkExplosion.
Proof. solve_head. Qed.
#[export] Instance safe_ItemFireworkExplosion : SafeDecode wire_ItemFireworkExplosion.
Proof. solve_safe. Qed.

Inductive SlotComponentType : Type :=
  | SlotComponentType_CustomData
  | SlotComponentType_MaxStackSize
  | SlotComponentType_Enchantments
  | SlotComponentType_CanPlaceOn
  | SlotComponentType_CanBreak
  | SlotComponentType_AttributeModifiers
  | SlotComponentType_CustomModelData
  | SlotComponentType_HideAdditionalTooltip
  | SlotComponentType_HideTooltip
  | SlotComponentType_RepairCost
  | SlotComponentType_CreativeSlotLock
  | SlotComponentType_EnchantmentGlintOverride
  | SlotComponentType_MaxDamage
  | SlotComponentType_IntangibleProjectile
  | SlotComponentType_Food
  | SlotComponentType_Consumable
  | SlotComponentType_UseRemainder
  | SlotComponentType_UseCooldown
  | SlotComponentType_DamageResistant
  | SlotComponentType_Tool
  | SlotComponentType_Enchantable
  | SlotComponentType_Equippable
  | SlotComponentType_Repairable
  | SlotComponentType_Damage
  | SlotComponentType_Glider
  | SlotComponentType_TooltipStyle
  | SlotComponentType_DeathProtection
  | SlotComponentType_StoredEnchantments
  | SlotComponentType_DyedColor
  | SlotComponentType_MapColor
  | SlotComponentType_MapId
  | SlotComponentType_MapDecorations
  | SlotComponentType_MapPostProcessing
  | SlotComponentType_ChargedProjectiles
  | SlotComponentType_Unbreakable
  | SlotComponentType_BundleContents
  | SlotComponentType_PotionContents
  | SlotComponentType_SuspiciousStewEffects
  | SlotComponentType_WritableBookContent
  | SlotComponentType_WrittenBookContent
  | SlotComponentType_Trim
  | SlotComponentType_DebugStickState
  | SlotComponentType_EntityData
  | SlotComponentType_BucketEntityData
  | SlotComponentType_BlockEntityData
  | SlotComponentType_CustomName
  | SlotComponentType_Instrument
  | SlotComponentType_OminousBottleAmplifier
  | SlotComponentType_JukeboxPlayable
  | SlotComponentType_Recipes
  | SlotComponentType_LodestoneTracker
  | SlotComponentType_FireworkExplosion
  | SlotComponentType_Fireworks
  | SlotComponentType_Profile
  | SlotComponentType_NoteBlockSound
  | SlotComponentType_BannerPatterns
  | SlotComponentType_ItemName
  | SlotComponentType_BaseColor
  | SlotComponentType_PotDecorations
  | SlotComponentType_Container
  | SlotComponentType_BlockState
  | SlotComponentType_Bees
  | SlotComponentType_Lock
  | SlotComponentType_ContainerLoot
  | SlotComponentType_ItemModel
  | SlotComponentType_Lore
  | SlotComponentType_Rarity.
Definition value_SlotComponentType (v : SlotComponentType) : Z :=
  match v with
  | SlotComponentType_CustomData => 0
  | SlotComponentType_MaxStackSize => 1
  | SlotComponentType_Enchantments => 10
  | SlotComponentType_CanPlaceOn => 11
  | SlotComponentType_CanBreak => 12
  | SlotComponentType_AttributeModifiers => 13
  | SlotComponentType_CustomModelData => 14
  | SlotComponentType_HideAdditionalTooltip => 15
  | SlotComponentType_HideTooltip => 16
  | SlotComponentType_RepairCost => 17
  | SlotComponentType_CreativeSlotLock => 18
  | SlotComponentType_EnchantmentGlintOverride => 19
  | SlotComponentType_MaxDamage => 2
  | SlotComponentType_IntangibleProjectile => 20
  | SlotComponentType_Food => 21
  | SlotComponentType_Consumable => 22
  | SlotComponentType_UseRemainder => 23
  | SlotComponentType_UseCooldown => 24
  | SlotComponentType_DamageResistant => 25
  | SlotComponentType_Tool => 26
  | SlotComponentType_Enchantable => 27
  | SlotComponentType_Equippable => 28
  | SlotComponentType_Repairable => 29
  | SlotComponentType_Damage => 3
  | SlotComponentType_Glider => 30
  | SlotComponentType_TooltipStyle => 31
  | SlotComponentType_DeathProtection => 32
  | SlotComponentType_StoredEnchantments => 33
  | SlotComponentType_DyedColor => 34
  | SlotComponentType_MapColor => 35
  | SlotComponentType_MapId => 36
  | SlotComponentType_MapDecorations => 37
  | SlotComponentType_MapPostProcessing => 38
  | SlotComponentType_ChargedProjectiles => 39
  | SlotComponentType_Unbreakable => 4
  | SlotComponentType_BundleContents => 40
  | SlotComponentType_PotionContents => 41
  | SlotComponentType_SuspiciousStewEffects => 42
  | SlotComponentType_WritableBookContent => 43
  | SlotComponentType_WrittenBookContent => 44
  | SlotComponentType_Trim => 45
  | SlotComponentType_DebugStickState => 46
  | SlotComponentType_EntityData => 47
  | SlotComponentType_BucketEntityData => 48
  | SlotComponentType_BlockEntityData => 49
  | SlotComponentType_CustomName => 5
  | SlotComponentType_Instrument => 50
  | SlotComponentType_OminousBottleAmplifier => 51
  | SlotComponentType_JukeboxPlayable => 52
  | SlotComponentType_Recipes => 53
  | SlotComponentType_LodestoneTracker => 54
  | SlotComponentType_FireworkExplosion => 55
  | SlotComponentType_Fireworks => 56
  | SlotComponentType_Profile => 57
  | SlotComponentType_NoteBlockSound => 58
  | SlotComponentType_BannerPatterns => 59
  | SlotComponentType_ItemName => 6
  | SlotComponentType_BaseColor => 60
  | SlotComponentType_PotDecorations => 61
  | SlotComponentType_Container => 62
  | SlotComponentType_BlockState => 63
  | SlotComponentType_Bees => 64
  | SlotComponentType_Lock => 65
  | SlotComponentType_ContainerLoot => 66
  | SlotComponentType_ItemModel => 7
  | SlotComponentType_Lore => 8
  | SlotComponentType_Rarity => 9
  end.
Definition of_SlotComponentType (value : Z) : option SlotComponentType :=
  match value with
  | 0 => Some SlotComponentType_CustomData
  | 1 => Some SlotComponentType_MaxStackSize
  | 10 => Some SlotComponentType_Enchantments
  | 11 => Some SlotComponentType_CanPlaceOn
  | 12 => Some SlotComponentType_CanBreak
  | 13 => Some SlotComponentType_AttributeModifiers
  | 14 => Some SlotComponentType_CustomModelData
  | 15 => Some SlotComponentType_HideAdditionalTooltip
  | 16 => Some SlotComponentType_HideTooltip
  | 17 => Some SlotComponentType_RepairCost
  | 18 => Some SlotComponentType_CreativeSlotLock
  | 19 => Some SlotComponentType_EnchantmentGlintOverride
  | 2 => Some SlotComponentType_MaxDamage
  | 20 => Some SlotComponentType_IntangibleProjectile
  | 21 => Some SlotComponentType_Food
  | 22 => Some SlotComponentType_Consumable
  | 23 => Some SlotComponentType_UseRemainder
  | 24 => Some SlotComponentType_UseCooldown
  | 25 => Some SlotComponentType_DamageResistant
  | 26 => Some SlotComponentType_Tool
  | 27 => Some SlotComponentType_Enchantable
  | 28 => Some SlotComponentType_Equippable
  | 29 => Some SlotComponentType_Repairable
  | 3 => Some SlotComponentType_Damage
  | 30 => Some SlotComponentType_Glider
  | 31 => Some SlotComponentType_TooltipStyle
  | 32 => Some SlotComponentType_DeathProtection
  | 33 => Some SlotComponentType_StoredEnchantments
  | 34 => Some SlotComponentType_DyedColor
  | 35 => Some SlotComponentType_MapColor
  | 36 => Some SlotComponentType_MapId
  | 37 => Some SlotComponentType_MapDecorations
  | 38 => Some SlotComponentType_MapPostProcessing
  | 39 => Some SlotComponentType_ChargedProjectiles
  | 4 => Some SlotComponentType_Unbreakable
  | 40 => Some SlotComponentType_BundleContents
  | 41 => Some SlotComponentType_PotionContents
  | 42 => Some SlotComponentType_SuspiciousStewEffects
  | 43 => Some SlotComponentType_WritableBookContent
  | 44 => Some SlotComponentType_WrittenBookContent
  | 45 => Some SlotComponentType_Trim
  | 46 => Some SlotComponentType_DebugStickState
  | 47 => Some SlotComponentType_EntityData
  | 48 => Some SlotComponentType_BucketEntityData
  | 49 => Some SlotComponentType_BlockEntityData
  | 5 => Some SlotComponentType_CustomName
  | 50 => Some SlotComponentType_Instrument
  | 51 => Some SlotComponentType_OminousBottleAmplifier
  | 52 => Some SlotComponentType_JukeboxPlayable
  | 53 => Some SlotComponentType_Recipes
  | 54 => Some SlotComponentType_LodestoneTracker
  | 55 => Some SlotComponentType_FireworkExplosion
  | 56 => Some SlotComponentType_Fireworks
  | 57 => Some SlotComponentType_Profile
  | 58 => Some SlotComponentType_NoteBlockSound
  | 59 => Some SlotComponentType_BannerPatterns
  | 6 => Some SlotComponentType_ItemName
  | 60 => Some SlotComponentType_BaseColor
  | 61 => Some SlotComponentType_PotDecorations
  | 62 => Some SlotComponentType_Container
  | 63 => Some SlotComponentType_BlockState
  | 64 => Some SlotComponentType_Bees
  | 65 => Some SlotComponentType_Lock
  | 66 => Some SlotComponentType_ContainerLoot
  | 7 => Some SlotComponentType_ItemModel
  | 8 => Some SlotComponentType_Lore
  | 9 => Some SlotComponentType_Rarity
  | _ => None
  end.
#[export] Instance SlotComponentType_eq_dec : EqDecision SlotComponentType.
Proof. apply (value_eq_dec value_SlotComponentType), (value_inj _ of_SlotComponentType). by intros []. Defined.
Definition wire_SlotComponentType : Codec SlotComponentType := {|
  encode v := modify (write_varint (value_SlotComponentType v));
  decode :=
    let* value := read_varint in
    match of_SlotComponentType value with
    | Some v => ret v
    | None => raise (UnknownEnumValue "SlotComponentType" value)
    end;
|}.
Definition dom_SlotComponentType (_ : SlotComponentType) : Prop := True.
Definition bytes_SlotComponentType (v : SlotComponentType) : list byte := varint_bytes (value_SlotComponentType v).
#[export] Instance lawful_SlotComponentType : LawfulCodec wire_SlotComponentType dom_SlotComponentType bytes_SlotComponentType.
Proof. solve_enum. Qed.
#[export] Instance cost_SlotComponentType : CodecCost dom_SlotComponentType bytes_SlotComponentType.
Proof. solve_cost. Qed.
#[export] Instance safe_SlotComponentType : SafeDecode wire_SlotComponentType.
Proof. solve_safe. Qed.

Inductive SlotComponentDataAttributeModifiersAttributesItemOperation : Type :=
  | SlotComponentDataAttributeModifiersAttributesItemOperation_Add
  | SlotComponentDataAttributeModifiersAttributesItemOperation_MultiplyBase
  | SlotComponentDataAttributeModifiersAttributesItemOperation_MultiplyTotal.
Definition value_SlotComponentDataAttributeModifiersAttributesItemOperation (v : SlotComponentDataAttributeModifiersAttributesItemOperation) : Z :=
  match v with
  | SlotComponentDataAttributeModifiersAttributesItemOperation_Add => 0
  | SlotComponentDataAttributeModifiersAttributesItemOperation_MultiplyBase => 1
  | SlotComponentDataAttributeModifiersAttributesItemOperation_MultiplyTotal => 2
  end.
Definition of_SlotComponentDataAttributeModifiersAttributesItemOperation (value : Z) : option SlotComponentDataAttributeModifiersAttributesItemOperation :=
  match value with
  | 0 => Some SlotComponentDataAttributeModifiersAttributesItemOperation_Add
  | 1 => Some SlotComponentDataAttributeModifiersAttributesItemOperation_MultiplyBase
  | 2 => Some SlotComponentDataAttributeModifiersAttributesItemOperation_MultiplyTotal
  | _ => None
  end.
#[export] Instance SlotComponentDataAttributeModifiersAttributesItemOperation_eq_dec : EqDecision SlotComponentDataAttributeModifiersAttributesItemOperation.
Proof. apply (value_eq_dec value_SlotComponentDataAttributeModifiersAttributesItemOperation), (value_inj _ of_SlotComponentDataAttributeModifiersAttributesItemOperation). by intros []. Defined.
Definition wire_SlotComponentDataAttributeModifiersAttributesItemOperation : Codec SlotComponentDataAttributeModifiersAttributesItemOperation := {|
  encode v := modify (write_varint (value_SlotComponentDataAttributeModifiersAttributesItemOperation v));
  decode :=
    let* value := read_varint in
    match of_SlotComponentDataAttributeModifiersAttributesItemOperation value with
    | Some v => ret v
    | None => raise (UnknownEnumValue "SlotComponentDataAttributeModifiersAttributesItemOperation" value)
    end;
|}.
Definition dom_SlotComponentDataAttributeModifiersAttributesItemOperation (_ : SlotComponentDataAttributeModifiersAttributesItemOperation) : Prop := True.
Definition bytes_SlotComponentDataAttributeModifiersAttributesItemOperation (v : SlotComponentDataAttributeModifiersAttributesItemOperation) : list byte := varint_bytes (value_SlotComponentDataAttributeModifiersAttributesItemOperation v).
#[export] Instance lawful_SlotComponentDataAttributeModifiersAttributesItemOperation : LawfulCodec wire_SlotComponentDataAttributeModifiersAttributesItemOperation dom_SlotComponentDataAttributeModifiersAttributesItemOperation bytes_SlotComponentDataAttributeModifiersAttributesItemOperation.
Proof. solve_enum. Qed.
#[export] Instance cost_SlotComponentDataAttributeModifiersAttributesItemOperation : CodecCost dom_SlotComponentDataAttributeModifiersAttributesItemOperation bytes_SlotComponentDataAttributeModifiersAttributesItemOperation.
Proof. solve_cost. Qed.
#[export] Instance safe_SlotComponentDataAttributeModifiersAttributesItemOperation : SafeDecode wire_SlotComponentDataAttributeModifiersAttributesItemOperation.
Proof. solve_safe. Qed.

Inductive SlotComponentDataAttributeModifiersAttributesItemSlot : Type :=
  | SlotComponentDataAttributeModifiersAttributesItemSlot_Any
  | SlotComponentDataAttributeModifiersAttributesItemSlot_MainHand
  | SlotComponentDataAttributeModifiersAttributesItemSlot_OffHand
  | SlotComponentDataAttributeModifiersAttributesItemSlot_Hand
  | SlotComponentDataAttributeModifiersAttributesItemSlot_Feet
  | SlotComponentDataAttributeModifiersAttributesItemSlot_Legs
  | SlotComponentDataAttributeModifiersAttributesItemSlot_Chest
  | SlotComponentDataAttributeModifiersAttributesItemSlot_Head
  | SlotComponentDataAttributeModifiersAttributesItemSlot_Armor
  | SlotComponentDataAttributeModifiersAttributesItemSlot_Body.
Definition value_SlotComponentDataAttributeModifiersAttributesItemSlot (v : SlotComponentDataAttributeModifiersAttributesItemSlot) : Z :=
  match v with
  | SlotComponentDataAttributeModifiersAttributesItemSlot_Any => 0
  | SlotComponentDataAttributeModifiersAttributesItemSlot_MainHand => 1
  | SlotComponentDataAttributeModifiersAttributesItemSlot_OffHand => 2
  | SlotComponentDataAttributeModifiersAttributesItemSlot_Hand => 3
  | SlotComponentDataAttributeModifiersAttributesItemSlot_Feet => 4
  | SlotComponentDataAttributeModifiersAttributesItemSlot_Legs => 5
  | SlotComponentDataAttributeModifiersAttributesItemSlot_Chest => 6
  | SlotComponentDataAttributeModifiersAttributesItemSlot_Head => 7
  | SlotComponentDataAttributeModifiersAttributesItemSlot_Armor => 8
  | SlotComponentDataAttributeModifiersAttributesItemSlot_Body => 9
  end.
Definition of_SlotComponentDataAttributeModifiersAttributesItemSlot (value : Z) : option SlotComponentDataAttributeModifiersAttributesItemSlot :=
  match value with
  | 0 => Some SlotComponentDataAttributeModifiersAttributesItemSlot_Any
  | 1 => Some SlotComponentDataAttributeModifiersAttributesItemSlot_MainHand
  | 2 => Some SlotComponentDataAttributeModifiersAttributesItemSlot_OffHand
  | 3 => Some SlotComponentDataAttributeModifiersAttributesItemSlot_Hand
  | 4 => Some SlotComponentDataAttributeModifiersAttributesItemSlot_Feet
  | 5 => Some SlotComponentDataAttributeModifiersAttributesItemSlot_Legs
  | 6 => Some SlotComponentDataAttributeModifiersAttributesItemSlot_Chest
  | 7 => Some SlotComponentDataAttributeModifiersAttributesItemSlot_Head
  | 8 => Some SlotComponentDataAttributeModifiersAttributesItemSlot_Armor
  | 9 => Some SlotComponentDataAttributeModifiersAttributesItemSlot_Body
  | _ => None
  end.
#[export] Instance SlotComponentDataAttributeModifiersAttributesItemSlot_eq_dec : EqDecision SlotComponentDataAttributeModifiersAttributesItemSlot.
Proof. apply (value_eq_dec value_SlotComponentDataAttributeModifiersAttributesItemSlot), (value_inj _ of_SlotComponentDataAttributeModifiersAttributesItemSlot). by intros []. Defined.
Definition wire_SlotComponentDataAttributeModifiersAttributesItemSlot : Codec SlotComponentDataAttributeModifiersAttributesItemSlot := {|
  encode v := modify (write_varint (value_SlotComponentDataAttributeModifiersAttributesItemSlot v));
  decode :=
    let* value := read_varint in
    match of_SlotComponentDataAttributeModifiersAttributesItemSlot value with
    | Some v => ret v
    | None => raise (UnknownEnumValue "SlotComponentDataAttributeModifiersAttributesItemSlot" value)
    end;
|}.
Definition dom_SlotComponentDataAttributeModifiersAttributesItemSlot (_ : SlotComponentDataAttributeModifiersAttributesItemSlot) : Prop := True.
Definition bytes_SlotComponentDataAttributeModifiersAttributesItemSlot (v : SlotComponentDataAttributeModifiersAttributesItemSlot) : list byte := varint_bytes (value_SlotComponentDataAttributeModifiersAttributesItemSlot v).
#[export] Instance lawful_SlotComponentDataAttributeModifiersAttributesItemSlot : LawfulCodec wire_SlotComponentDataAttributeModifiersAttributesItemSlot dom_SlotComponentDataAttributeModifiersAttributesItemSlot bytes_SlotComponentDataAttributeModifiersAttributesItemSlot.
Proof. solve_enum. Qed.
#[export] Instance cost_SlotComponentDataAttributeModifiersAttributesItemSlot : CodecCost dom_SlotComponentDataAttributeModifiersAttributesItemSlot bytes_SlotComponentDataAttributeModifiersAttributesItemSlot.
Proof. solve_cost. Qed.
#[export] Instance safe_SlotComponentDataAttributeModifiersAttributesItemSlot : SafeDecode wire_SlotComponentDataAttributeModifiersAttributesItemSlot.
Proof. solve_safe. Qed.

Record SlotComponentDataAttributeModifiersAttributesItem : Type := mkSlotComponentDataAttributeModifiersAttributesItem {
  SlotComponentDataAttributeModifiersAttributesItem_type_id : Z;
  SlotComponentDataAttributeModifiersAttributesItem_name : string;
  SlotComponentDataAttributeModifiersAttributesItem_value : Z;
  SlotComponentDataAttributeModifiersAttributesItem_operation : SlotComponentDataAttributeModifiersAttributesItemOperation;
  SlotComponentDataAttributeModifiersAttributesItem_slot : SlotComponentDataAttributeModifiersAttributesItemSlot;
}.
Definition wire_SlotComponentDataAttributeModifiersAttributesItem : Codec SlotComponentDataAttributeModifiersAttributesItem := {|
  encode p :=
    modify (write_varint (SlotComponentDataAttributeModifiersAttributesItem_type_id p)) ;;;
    encode wire_String (SlotComponentDataAttributeModifiersAttributesItem_name p) ;;;
    encode wire_f64 (SlotComponentDataAttributeModifiersAttributesItem_value p) ;;;
    encode wire_SlotComponentDataAttributeModifiersAttributesItemOperation (SlotComponentDataAttributeModifiersAttributesItem_operation p) ;;;
    encode wire_SlotComponentDataAttributeModifiersAttributesItemSlot (SlotComponentDataAttributeModifiersAttributesItem_slot p) ;;;
    ret tt;
  decode :=
    let* type_id := read_varint in
    let* name := decode wire_String in
    let* value := decode wire_f64 in
    let* operation := decode wire_SlotComponentDataAttributeModifiersAttributesItemOperation in
    let* slot := decode wire_SlotComponentDataAttributeModifiersAttributesItemSlot in
    ret (mkSlotComponentDataAttributeModifiersAttributesItem type_id name value operation slot);
|}.
Definition dom_SlotComponentDataAttributeModifiersAttributesItem (p : SlotComponentDataAttributeModifiersAttributesItem) : Prop :=
  in_i 32 (SlotComponentDataAttributeModifiersAttributesItem_type_id p)
  ∧ wire_string (SlotComponentDataAttributeModifiersAttributesItem_name p)
  ∧ in_u 64 (SlotComponentDataAttributeModifiersAttributesItem_value p)
  ∧ dom_SlotComponentDataAttributeModifiersAttributesItemOperation (SlotComponentDataAttributeModifiersAttributesItem_operation p)
  ∧ dom_SlotComponentDataAttributeModifiersAttributesItemSlot (SlotComponentDataAttributeModifiersAttributesItem_slot p).
Definition bytes_SlotComponentDataAttributeModifiersAttributesItem (p : SlotComponentDataAttributeModifiersAttributesItem) : list byte :=
  concat [varint_bytes (SlotComponentDataAttributeModifiersAttributesItem_type_id p);
    string_bytes (SlotComponentDataAttributeModifiersAttributesItem_name p);
    be_bytes 8 (SlotComponentDataAttributeModifiersAttributesItem_value p);
    bytes_SlotComponentDataAttributeModifiersAttributesItemOperation (SlotComponentDataAttributeModifiersAttributesItem_operation p);
    bytes_SlotComponentDataAttributeModifiersAttributesItemSlot (SlotComponentDataAttributeModifiersAttributesItem_slot p)].
#[export] Instance lawful_SlotComponentDataAttributeModifiersAttributesItem : LawfulCodec wire_SlotComponentDataAttributeModifiersAttributesItem dom_SlotComponentDataAttributeModifiersAttributesItem bytes_SlotComponentDataAttributeModifiersAttributesItem.
Proof. solve_struct. Qed.
#[export] Instance cost_SlotComponentDataAttributeModifiersAttributesItem : CodecCost dom_SlotComponentDataAttributeModifiersAttributesItem bytes_SlotComponentDataAttributeModifiersAttributesItem.
Proof. solve_head. Qed.
#[export] Instance safe_SlotComponentDataAttributeModifiersAttributesItem : SafeDecode wire_SlotComponentDataAttributeModifiersAttributesItem.
Proof. solve_safe. Qed.

Record SlotComponentDataAttributeModifiers : Type := mkSlotComponentDataAttributeModifiers {
  SlotComponentDataAttributeModifiers_attributes : list SlotComponentDataAttributeModifiersAttributesItem;
  SlotComponentDataAttributeModifiers_show_tooltip : bool;
}.
Definition wire_SlotComponentDataAttributeModifiers : Codec SlotComponentDataAttributeModifiers := {|
  encode p :=
    encode (wire_Vec wire_SlotComponentDataAttributeModifiersAttributesItem) (SlotComponentDataAttributeModifiers_attributes p) ;;;
    encode wire_bool (SlotComponentDataAttributeModifiers_show_tooltip p) ;;;
    ret tt;
  decode :=
    let* attributes := decode (wire_Vec wire_SlotComponentDataAttributeModifiersAttributesItem) in
    let* show_tooltip := decode wire_bool in
    ret (mkSlotComponentDataAttributeModifiers attributes show_tooltip);
|}.
Definition dom_SlotComponentDataAttributeModifiers (p : SlotComponentDataAttributeModifiers) : Prop :=
  vec_dom dom_SlotComponentDataAttributeModifiersAttributesItem (SlotComponentDataAttributeModifiers_attributes p).
Definition bytes_SlotComponentDataAttributeModifiers (p : SlotComponentDataAttributeModifiers) : list byte :=
  concat [vec_bytes bytes_SlotComponentDataAttributeModifiersAttributesItem (SlotComponentDataAttributeModifiers_attributes p);
    bool_bytes (SlotComponentDataAttributeModifiers_show_tooltip p)].
#[export] Instance lawful_SlotComponentDataAttributeModifiers : LawfulCodec wire_SlotComponentDataAttributeModifiers dom_SlotComponentDataAttributeModifiers bytes_SlotComponentDataAttributeModifiers.
Proof. solve_struct. Qed.
#[export] Instance cost_SlotComponentDataAttributeModifiers : CodecCost dom_SlotComponentDataAttributeModifiers bytes_SlotComponentDataAttributeModifiers.
Proof. solve_head. Qed.
#[export] Instance safe_SlotComponentDataAttributeModifiers : SafeDecode wire_SlotComponentDataAttributeModifiers.
Proof. solve_safe. Qed.

Record BannerPattern : Type := mkBannerPattern {
  BannerPattern_asset_id : string;
  BannerPattern_translation_key : string;
}.
Definition wire_BannerPattern : Codec BannerPattern := {|
  encode p :=
    encode wire_String (BannerPattern_asset_id p) ;;;
    encode wire_String (BannerPattern_translation_key p) ;;;
    ret tt;
  decode :=
    let* asset_id := decode wire_String in
    let* translation_key := decode wire_String in
    ret (mkBannerPattern asset_id translation_key);
|}.
Definition dom_BannerPattern (p : BannerPattern) : Prop :=
  wire_string (BannerPattern_asset_id p)
  ∧ wire_string (BannerPattern_translation_key p).
Definition bytes_BannerPattern (p : BannerPattern) : list byte :=
  concat [string_bytes (BannerPattern_asset_id p);
    string_bytes (BannerPattern_translation_key p)].
#[export] Instance lawful_BannerPattern : LawfulCodec wire_BannerPattern dom_BannerPattern bytes_BannerPattern.
Proof. solve_struct. Qed.
#[export] Instance cost_BannerPattern : CodecCost dom_BannerPattern bytes_BannerPattern.
Proof. solve_head. Qed.
#[export] Instance safe_BannerPattern : SafeDecode wire_BannerPattern.
Proof. solve_safe. Qed.

Record BannerPatternLayer : Type := mkBannerPatternLayer {
  BannerPatternLayer_pattern : Holder BannerPattern;
  BannerPatternLayer_color_id : Z;
}.
Definition wire_BannerPatternLayer : Codec BannerPatternLayer := {|
  encode p :=
    encode (wire_Holder wire_BannerPattern) (BannerPatternLayer_pattern p) ;;;
    modify (write_varint (BannerPatternLayer_color_id p)) ;;;
    ret tt;
  decode :=
    let* pattern := decode (wire_Holder wire_BannerPattern) in
    let* color_id := read_varint in
    ret (mkBannerPatternLayer pattern color_id);
|}.
Definition dom_BannerPatternLayer (p : BannerPatternLayer) : Prop :=
  holder_dom dom_BannerPattern (BannerPatternLayer_pattern p)
  ∧ in_i 32 (BannerPatternLayer_color_id p).
Definition bytes_BannerPatternLayer (p : BannerPatternLayer) : list byte :=
  concat [holder_bytes bytes_BannerPattern (BannerPatternLayer_pattern p);
    varint_bytes (BannerPatternLayer_color_id p)].
#[export] Instance lawful_BannerPatternLayer : LawfulCodec wire_BannerPatternLayer dom_BannerPatternLayer bytes_BannerPatternLayer.
Proof. solve_struct. Qed.
#[export] Instance cost_BannerPatternLayer : CodecCost dom_BannerPatternLayer bytes_BannerPatternLayer.
Proof. solve_head. Qed.
#[export] Instance safe_BannerPatternLayer : SafeDecode wire_BannerPatternLayer.
Proof. solve_safe. Qed.

Record SlotComponentDataBannerPatterns : Type := mkSlotComponentDataBannerPatterns {
  SlotComponentDataBannerPatterns_layers : list BannerPatternLayer;
}.
Definition wire_SlotComponentDataBannerPatterns : Codec SlotComponentDataBannerPatterns := {|
  encode p :=
    encode (wire_Vec wire_BannerPatternLayer) (SlotComponentDataBannerPatterns_layers p) ;;;
    ret tt;
  decode :=
    let* layers := decode (wire_Vec wire_BannerPatternLayer) in
    ret (mkSlotComponentDataBannerPatterns layers);
|}.
Definition dom_SlotComponentDataBannerPatterns (p : SlotComponentDataBannerPatterns) : Prop :=
  vec_dom dom_BannerPatternLayer (SlotComponentDataBannerPatterns_layers p).
Definition bytes_SlotComponentDataBannerPatterns (p : SlotComponentDataBannerPatterns) : list byte :=
  concat [vec_bytes bytes_BannerPatternLayer (SlotComponentDataBannerPatterns_layers p)].
#[export] Instance lawful_SlotComponentDataBannerPatterns : LawfulCodec wire_SlotComponentDataBannerPatterns dom_SlotComponentDataBannerPatterns bytes_SlotComponentDataBannerPatterns.
Proof. solve_struct. Qed.
#[export] Instance cost_SlotComponentDataBannerPatterns : CodecCost dom_SlotComponentDataBannerPatterns bytes_SlotComponentDataBannerPatterns.
Proof. solve_head. Qed.
#[export] Instance safe_SlotComponentDataBannerPatterns : SafeDecode wire_SlotComponentDataBannerPatterns.
Proof. solve_safe. Qed.

Record SlotComponentDataBeesBeesItem : Type := mkSlotComponentDataBeesBeesItem {
  SlotComponentDataBeesBeesItem_nbt_data : Nbt;
  SlotComponentDataBeesBeesItem_ticks_in_hive : Z;
  SlotComponentDataBeesBeesItem_min_ticks_in_hive : Z;
}.
Definition wire_SlotComponentDataBeesBeesItem : Codec SlotComponentDataBeesBeesItem := {|
  encode p :=
    encode wire_Nbt (SlotComponentDataBeesBeesItem_nbt_data p) ;;;
    modify (write_varint (SlotComponentDataBeesBeesItem_ticks_in_hive p)) ;;;
    modify (write_varint (SlotComponentDataBeesBeesItem_min_ticks_in_hive p)) ;;;
    ret tt;
  decode :=
    let* nbt_data := decode wire_Nbt in
    let* ticks_in_hive := read_varint in
    let* min_ticks_in_hive := read_varint in
    ret (mkSlotComponentDataBeesBeesItem nbt_data ticks_in_hive min_ticks_in_hive);
|}.
Definition dom_SlotComponentDataBeesBeesItem (p : SlotComponentDataBeesBeesItem) : Prop :=
  nbt_fits (SlotComponentDataBeesBeesItem_nbt_data p)
  ∧ in_i 32 (SlotComponentDataBeesBeesItem_ticks_in_hive p)
  ∧ in_i 32 (SlotComponentDataBeesBeesItem_min_ticks_in_hive p).
Definition bytes_SlotComponentDataBeesBeesItem (p : SlotComponentDataBeesBeesItem) : list byte :=
  concat [nbt_bytes (SlotComponentDataBeesBeesItem_nbt_data p);
    varint_bytes (SlotComponentDataBeesBeesItem_ticks_in_hive p);
    varint_bytes (SlotComponentDataBeesBeesItem_min_ticks_in_hive p)].
#[export] Instance lawful_SlotComponentDataBeesBeesItem : LawfulCodec wire_SlotComponentDataBeesBeesItem dom_SlotComponentDataBeesBeesItem bytes_SlotComponentDataBeesBeesItem.
Proof. solve_struct. Qed.
#[export] Instance cost_SlotComponentDataBeesBeesItem : CodecCost dom_SlotComponentDataBeesBeesItem bytes_SlotComponentDataBeesBeesItem.
Proof. solve_head. Qed.
#[export] Instance safe_SlotComponentDataBeesBeesItem : SafeDecode wire_SlotComponentDataBeesBeesItem.
Proof. solve_safe. Qed.

Record SlotComponentDataBees : Type := mkSlotComponentDataBees {
  SlotComponentDataBees_bees : list SlotComponentDataBeesBeesItem;
}.
Definition wire_SlotComponentDataBees : Codec SlotComponentDataBees := {|
  encode p :=
    encode (wire_Vec wire_SlotComponentDataBeesBeesItem) (SlotComponentDataBees_bees p) ;;;
    ret tt;
  decode :=
    let* bees := decode (wire_Vec wire_SlotComponentDataBeesBeesItem) in
    ret (mkSlotComponentDataBees bees);
|}.
Definition dom_SlotComponentDataBees (p : SlotComponentDataBees) : Prop :=
  vec_dom dom_SlotComponentDataBeesBeesItem (SlotComponentDataBees_bees p).
Definition bytes_SlotComponentDataBees (p : SlotComponentDataBees) : list byte :=
  concat [vec_bytes bytes_SlotComponentDataBeesBeesItem (SlotComponentDataBees_bees p)].
#[export] Instance lawful_SlotComponentDataBees : LawfulCodec wire_SlotComponentDataBees dom_SlotComponentDataBees bytes_SlotComponentDataBees.
Proof. solve_struct. Qed.
#[export] Instance cost_SlotComponentDataBees : CodecCost dom_SlotComponentDataBees bytes_SlotComponentDataBees.
Proof. solve_head. Qed.
#[export] Instance safe_SlotComponentDataBees : SafeDecode wire_SlotComponentDataBees.
Proof. solve_safe. Qed.

Record SlotComponentDataBlockStatePropertiesItem : Type := mkSlotComponentDataBlockStatePropertiesItem {
  SlotComponentDataBlockStatePropertiesItem_name : string;
  SlotComponentDataBlockStatePropertiesItem_value : string;
}.
Definition wire_SlotComponentDataBlockStatePropertiesItem : Codec SlotComponentDataBlockStatePropertiesItem := {|
  encode p :=
    encode wire_String (SlotComponentDataBlockStatePropertiesItem_name p) ;;;
    encode wire_String (SlotComponentDataBlockStatePropertiesItem_value p) ;;;
    ret tt;
  decode :=
    let* name := decode wire_String in
    let* value := decode wire_String in
    ret (mkSlotComponentDataBlockStatePropertiesItem name value);
|}.
Definition dom_SlotComponentDataBlockStatePropertiesItem (p : SlotComponentDataBlockStatePropertiesItem) : Prop :=
  wire_string (SlotComponentDataBlockStatePropertiesItem_name p)
  ∧ wire_string (SlotComponentDataBlockStatePropertiesItem_value p).
Definition bytes_SlotComponentDataBlockStatePropertiesItem (p : SlotComponentDataBlockStatePropertiesItem) : list byte :=
  concat [string_bytes (SlotComponentDataBlockStatePropertiesItem_name p);
    string_bytes (SlotComponentDataBlockStatePropertiesItem_value p)].
#[export] Instance lawful_SlotComponentDataBlockStatePropertiesItem : LawfulCodec wire_SlotComponentDataBlockStatePropertiesItem dom_SlotComponentDataBlockStatePropertiesItem bytes_SlotComponentDataBlockStatePropertiesItem.
Proof. solve_struct. Qed.
#[export] Instance cost_SlotComponentDataBlockStatePropertiesItem : CodecCost dom_SlotComponentDataBlockStatePropertiesItem bytes_SlotComponentDataBlockStatePropertiesItem.
Proof. solve_head. Qed.
#[export] Instance safe_SlotComponentDataBlockStatePropertiesItem : SafeDecode wire_SlotComponentDataBlockStatePropertiesItem.
Proof. solve_safe. Qed.

Record SlotComponentDataBlockState : Type := mkSlotComponentDataBlockState {
  SlotComponentDataBlockState_properties : list SlotComponentDataBlockStatePropertiesItem;
}.
Definition wire_SlotComponentDataBlockState : Codec SlotComponentDataBlockState := {|
  encode p :=
    encode (wire_Vec wire_SlotComponentDataBlockStatePropertiesItem) (SlotComponentDataBlockState_properties p) ;;;
    ret tt;
  decode :=
    let* properties := decode (wire_Vec wire_SlotComponentDataBlockStatePropertiesItem) in
    ret (mkSlotComponentDataBlockState properties);
|}.
Definition dom_SlotComponentDataBlockState (p : SlotComponentDataBlockState) : Prop :=
  vec_dom dom_SlotComponentDataBlockStatePropertiesItem (SlotComponentDataBlockState_properties p).
Definition bytes_SlotComponentDataBlockState (p : SlotComponentDataBlockState) : list byte :=
  concat [vec_bytes bytes_SlotComponentDataBlockStatePropertiesItem (SlotComponentDataBlockState_properties p)].
#[export] Instance lawful_SlotComponentDataBlockState : LawfulCodec wire_SlotComponentDataBlockState dom_SlotComponentDataBlockState bytes_SlotComponentDataBlockState.
Proof. solve_struct. Qed.
#[export] Instance cost_SlotComponentDataBlockState : CodecCost dom_SlotComponentDataBlockState bytes_SlotComponentDataBlockState.
Proof. solve_head. Qed.
#[export] Instance safe_SlotComponentDataBlockState : SafeDecode wire_SlotComponentDataBlockState.
Proof. solve_safe. Qed.

Record ItemBlockPropertyValueFalse : Type := mkItemBlockPropertyValueFalse {
  ItemBlockPropertyValueFalse_min_value : string;
  ItemBlockPropertyValueFalse_max_value : string;
}.
Definition wire_ItemBlockPropertyValueFalse : Codec ItemBlockPropertyValueFalse := {|
  encode p :=
    encode wire_String (ItemBlockPropertyValueFalse_min_value p) ;;;
    encode wire_String (ItemBlockPropertyValueFalse_max_value p) ;;;
    ret tt;
  decode :=
    let* min_value := decode wire_String in
    let* max_value := decode wire_String in
    ret (mkItemBlockPropertyValueFalse min_value max_value);
|}.
Definition dom_ItemBlockPropertyValueFalse (p : ItemBlockPropertyValueFalse) : Prop :=
  wire_string (ItemBlockPropertyValueFalse_min_value p)
  ∧ wire_string (ItemBlockPropertyValueFalse_max_value p).
Definition bytes_ItemBlockPropertyValueFalse (p : ItemBlockPropertyValueFalse) : list byte :=
  concat [string_bytes (ItemBlockPropertyValueFalse_min_value p);
    string_bytes (ItemBlockPropertyValueFalse_max_value p)].
#[export] Instance lawful_ItemBlockPropertyValueFalse : LawfulCodec wire_ItemBlockPropertyValueFalse dom_ItemBlockPropertyValueFalse bytes_ItemBlockPropertyValueFalse.
Proof. solve_struct. Qed.
#[export] Instance cost_ItemBlockPropertyValueFalse : CodecCost dom_ItemBlockPropertyValueFalse bytes_ItemBlockPropertyValueFalse.
Proof. solve_head. Qed.
#[export] Instance safe_ItemBlockPropertyValueFalse : SafeDecode wire_ItemBlockPropertyValueFalse.
Proof. solve_safe. Qed.

Record ItemBlockPropertyValueTrue : Type := mkItemBlockPropertyValueTrue {
  ItemBlockPropertyValueTrue_exact_value : string;
}.
Definition wire_ItemBlockPropertyValueTrue : Codec ItemBlockPropertyValueTrue := {|
  encode p :=
    encode wire_String (ItemBlockPropertyValueTrue_exact_value p) ;;;
    ret tt;
  decode :=
    let* exact_value := decode wire_String in
    ret (mkItemBlockPropertyValueTrue exact_value);
|}.
Definition dom_ItemBlockPropertyValueTrue (p : ItemBlockPropertyValueTrue) : Prop :=
  wire_string (ItemBlockPropertyValueTrue_exact_value p).
Definition bytes_ItemBlockPropertyValueTrue (p : ItemBlockPropertyValueTrue) : list byte :=
  concat [string_bytes (ItemBlockPropertyValueTrue_exact_value p)].
#[export] Instance lawful_ItemBlockPropertyValueTrue : LawfulCodec wire_ItemBlockPropertyValueTrue dom_ItemBlockPropertyValueTrue bytes_ItemBlockPropertyValueTrue.
Proof. solve_struct. Qed.
#[export] Instance cost_ItemBlockPropertyValueTrue : CodecCost dom_ItemBlockPropertyValueTrue bytes_ItemBlockPropertyValueTrue.
Proof. solve_head. Qed.
#[export] Instance safe_ItemBlockPropertyValueTrue : SafeDecode wire_ItemBlockPropertyValueTrue.
Proof. solve_safe. Qed.

Inductive ItemBlockPropertyValue : Type :=
  | ItemBlockPropertyValue_False (v : ItemBlockPropertyValueFalse)
  | ItemBlockPropertyValue_True (v : ItemBlockPropertyValueTrue).
Definition encode_ItemBlockPropertyValue (v : ItemBlockPropertyValue) : Write :=
  match v with
  | ItemBlockPropertyValue_False v => encode wire_ItemBlockPropertyValueFalse v
  | ItemBlockPropertyValue_True v => encode wire_ItemBlockPropertyValueTrue v
  end.
Definition decode_from_ItemBlockPropertyValue (d : bool) : Read ItemBlockPropertyValue :=
  if d then (let* v := decode wire_ItemBlockPropertyValueTrue in ret (ItemBlockPropertyValue_True v))
  else (let* v := decode wire_ItemBlockPropertyValueFalse in ret (ItemBlockPropertyValue_False v)).
Definition case_ItemBlockPropertyValue (d : bool) (v : ItemBlockPropertyValue) : bool :=
  match v with
  | ItemBlockPropertyValue_False _ => on d false
  | ItemBlockPropertyValue_True _ => on d true
  end.
Definition switch_ItemBlockPropertyValue : Switch bool ItemBlockPropertyValue := mkSwitch case_ItemBlockPropertyValue encode_ItemBlockPropertyValue decode_from_ItemBlockPropertyValue.
Definition dom_ItemBlockPropertyValue (d : bool) (v : ItemBlockPropertyValue) : Prop :=
  case_ItemBlockPropertyValue d v = true ∧
  match v with
  | ItemBlockPropertyValue_False v => dom_ItemBlockPropertyValueFalse v
  | ItemBlockPropertyValue_True v => dom_ItemBlockPropertyValueTrue v
  end.
Definition bytes_ItemBlockPropertyValue (v : ItemBlockPropertyValue) : list byte :=
  match v with
  | ItemBlockPropertyValue_False v => bytes_ItemBlockPropertyValueFalse v
  | ItemBlockPropertyValue_True v => bytes_ItemBlockPropertyValueTrue v
  end.
#[export] Instance lawful_ItemBlockPropertyValue : LawfulSwitch switch_ItemBlockPropertyValue dom_ItemBlockPropertyValue bytes_ItemBlockPropertyValue.
Proof. solve_switch. Qed.
#[export] Instance safe_ItemBlockPropertyValue : SafeSwitch switch_ItemBlockPropertyValue.
Proof. solve_safe. Qed.

Record ItemBlockProperty : Type := mkItemBlockProperty {
  ItemBlockProperty_name : string;
  ItemBlockProperty_is_exact_match : bool;
  ItemBlockProperty_value : ItemBlockPropertyValue;
}.
Definition wire_ItemBlockProperty : Codec ItemBlockProperty := {|
  encode p :=
    encode wire_String (ItemBlockProperty_name p) ;;;
    encode wire_bool (ItemBlockProperty_is_exact_match p) ;;;
    encode_at switch_ItemBlockPropertyValue (ItemBlockProperty_is_exact_match p) (ItemBlockProperty_value p) ;;;
    ret tt;
  decode :=
    let* name := decode wire_String in
    let* is_exact_match := decode wire_bool in
    let* value := sw_decode switch_ItemBlockPropertyValue is_exact_match in
    ret (mkItemBlockProperty name is_exact_match value);
|}.
Definition dom_ItemBlockProperty (p : ItemBlockProperty) : Prop :=
  wire_string (ItemBlockProperty_name p)
  ∧ dom_ItemBlockPropertyValue (ItemBlockProperty_is_exact_match p) (ItemBlockProperty_value p).
Definition bytes_ItemBlockProperty (p : ItemBlockProperty) : list byte :=
  concat [string_bytes (ItemBlockProperty_name p);
    bool_bytes (ItemBlockProperty_is_exact_match p);
    bytes_ItemBlockPropertyValue (ItemBlockProperty_value p)].
#[export] Instance lawful_ItemBlockProperty : LawfulCodec wire_ItemBlockProperty dom_ItemBlockProperty bytes_ItemBlockProperty.
Proof. solve_struct. Qed.
#[export] Instance cost_ItemBlockProperty : CodecCost dom_ItemBlockProperty bytes_ItemBlockProperty.
Proof. solve_head. Qed.
#[export] Instance safe_ItemBlockProperty : SafeDecode wire_ItemBlockProperty.
Proof. solve_safe. Qed.

Record ItemBlockPredicate : Type := mkItemBlockPredicate {
  ItemBlockPredicate_block_set : option HolderSet;
  ItemBlockPredicate_properties : option (list ItemBlockProperty);
  ItemBlockPredicate_nbt : option Nbt;
}.
Definition wire_ItemBlockPredicate : Codec ItemBlockPredicate := {|
  encode p :=
    encode (wire_Option wire_HolderSet) (ItemBlockPredicate_block_set p) ;;;
    encode (wire_Option (wire_Vec wire_ItemBlockProperty)) (ItemBlockPredicate_properties p) ;;;
    encode wire_OptNbt (ItemBlockPredicate_nbt p) ;;;
    ret tt;
  decode :=
    let* block_set := decode (wire_Option wire_HolderSet) in
    let* properties := decode (wire_Option (wire_Vec wire_ItemBlockProperty)) in
    let* nbt := decode wire_OptNbt in
    ret (mkItemBlockPredicate block_set properties nbt);
|}.
Definition dom_ItemBlockPredicate (p : ItemBlockPredicate) : Prop :=
  option_dom holder_set_dom (ItemBlockPredicate_block_set p)
  ∧ option_dom (vec_dom dom_ItemBlockProperty) (ItemBlockPredicate_properties p)
  ∧ option_dom nbt_fits (ItemBlockPredicate_nbt p).
Definition bytes_ItemBlockPredicate (p : ItemBlockPredicate) : list byte :=
  concat [option_bytes holder_set_bytes (ItemBlockPredicate_block_set p);
    option_bytes (vec_bytes bytes_ItemBlockProperty) (ItemBlockPredicate_properties p);
    optnbt_bytes (ItemBlockPredicate_nbt p)].
#[export] Instance lawful_ItemBlockPredicate : LawfulCodec wire_ItemBlockPredicate dom_ItemBlockPredicate bytes_ItemBlockPredicate.
Proof. solve_struct. Qed.
#[export] Instance cost_ItemBlockPredicate : CodecCost dom_ItemBlockPredicate bytes_ItemBlockPredicate.
Proof. solve_head. Qed.
#[export] Instance safe_ItemBlockPredicate : SafeDecode wire_ItemBlockPredicate.
Proof. solve_safe. Qed.

Record SlotComponentDataCanBreak : Type := mkSlotComponentDataCanBreak {
  SlotComponentDataCanBreak_predicates : list ItemBlockPredicate;
  SlotComponentDataCanBreak_show_tooltip : bool;
}.
Definition wire_SlotComponentDataCanBreak : Codec SlotComponentDataCanBreak := {|
  encode p :=
    encode (wire_Vec wire_ItemBlockPredicate) (SlotComponentDataCanBreak_predicates p) ;;;
    encode wire_bool (SlotComponentDataCanBreak_show_tooltip p) ;;;
    ret tt;
  decode :=
    let* predicates := decode (wire_Vec wire_ItemBlockPredicate) in
    let* show_tooltip := decode wire_bool in
    ret (mkSlotComponentDataCanBreak predicates show_tooltip);
|}.
Definition dom_SlotComponentDataCanBreak (p : SlotComponentDataCanBreak) : Prop :=
  vec_dom dom_ItemBlockPredicate (SlotComponentDataCanBreak_predicates p).
Definition bytes_SlotComponentDataCanBreak (p : SlotComponentDataCanBreak) : list byte :=
  concat [vec_bytes bytes_ItemBlockPredicate (SlotComponentDataCanBreak_predicates p);
    bool_bytes (SlotComponentDataCanBreak_show_tooltip p)].
#[export] Instance lawful_SlotComponentDataCanBreak : LawfulCodec wire_SlotComponentDataCanBreak dom_SlotComponentDataCanBreak bytes_SlotComponentDataCanBreak.
Proof. solve_struct. Qed.
#[export] Instance cost_SlotComponentDataCanBreak : CodecCost dom_SlotComponentDataCanBreak bytes_SlotComponentDataCanBreak.
Proof. solve_head. Qed.
#[export] Instance safe_SlotComponentDataCanBreak : SafeDecode wire_SlotComponentDataCanBreak.
Proof. solve_safe. Qed.

Record SlotComponentDataCanPlaceOn : Type := mkSlotComponentDataCanPlaceOn {
  SlotComponentDataCanPlaceOn_predicates : list ItemBlockPredicate;
  SlotComponentDataCanPlaceOn_show_tooltip : bool;
}.
Definition wire_SlotComponentDataCanPlaceOn : Codec SlotComponentDataCanPlaceOn := {|
  encode p :=
    encode (wire_Vec wire_ItemBlockPredicate) (SlotComponentDataCanPlaceOn_predicates p) ;;;
    encode wire_bool (SlotComponentDataCanPlaceOn_show_tooltip p) ;;;
    ret tt;
  decode :=
    let* predicates := decode (wire_Vec wire_ItemBlockPredicate) in
    let* show_tooltip := decode wire_bool in
    ret (mkSlotComponentDataCanPlaceOn predicates show_tooltip);
|}.
Definition dom_SlotComponentDataCanPlaceOn (p : SlotComponentDataCanPlaceOn) : Prop :=
  vec_dom dom_ItemBlockPredicate (SlotComponentDataCanPlaceOn_predicates p).
Definition bytes_SlotComponentDataCanPlaceOn (p : SlotComponentDataCanPlaceOn) : list byte :=
  concat [vec_bytes bytes_ItemBlockPredicate (SlotComponentDataCanPlaceOn_predicates p);
    bool_bytes (SlotComponentDataCanPlaceOn_show_tooltip p)].
#[export] Instance lawful_SlotComponentDataCanPlaceOn : LawfulCodec wire_SlotComponentDataCanPlaceOn dom_SlotComponentDataCanPlaceOn bytes_SlotComponentDataCanPlaceOn.
Proof. solve_struct. Qed.
#[export] Instance cost_SlotComponentDataCanPlaceOn : CodecCost dom_SlotComponentDataCanPlaceOn bytes_SlotComponentDataCanPlaceOn.
Proof. solve_head. Qed.
#[export] Instance safe_SlotComponentDataCanPlaceOn : SafeDecode wire_SlotComponentDataCanPlaceOn.
Proof. solve_safe. Qed.

Inductive ItemConsumeEffectType : Type :=
  | ItemConsumeEffectType_ApplyEffects
  | ItemConsumeEffectType_RemoveEffects
  | ItemConsumeEffectType_ClearAllEffects
  | ItemConsumeEffectType_TeleportRandomly
  | ItemConsumeEffectType_PlaySound.
Definition value_ItemConsumeEffectType (v : ItemConsumeEffectType) : Z :=
  match v with
  | ItemConsumeEffectType_ApplyEffects => 0
  | ItemConsumeEffectType_RemoveEffects => 1
  | ItemConsumeEffectType_ClearAllEffects => 2
  | ItemConsumeEffectType_TeleportRandomly => 3
  | ItemConsumeEffectType_PlaySound => 4
  end.
Definition of_ItemConsumeEffectType (value : Z) : option ItemConsumeEffectType :=
  match value with
  | 0 => Some ItemConsumeEffectType_ApplyEffects
  | 1 => Some ItemConsumeEffectType_RemoveEffects
  | 2 => Some ItemConsumeEffectType_ClearAllEffects
  | 3 => Some ItemConsumeEffectType_TeleportRandomly
  | 4 => Some ItemConsumeEffectType_PlaySound
  | _ => None
  end.
#[export] Instance ItemConsumeEffectType_eq_dec : EqDecision ItemConsumeEffectType.
Proof. apply (value_eq_dec value_ItemConsumeEffectType), (value_inj _ of_ItemConsumeEffectType). by intros []. Defined.
Definition wire_ItemConsumeEffectType : Codec ItemConsumeEffectType := {|
  encode v := modify (write_varint (value_ItemConsumeEffectType v));
  decode :=
    let* value := read_varint in
    match of_ItemConsumeEffectType value with
    | Some v => ret v
    | None => raise (UnknownEnumValue "ItemConsumeEffectType" value)
    end;
|}.
Definition dom_ItemConsumeEffectType (_ : ItemConsumeEffectType) : Prop := True.
Definition bytes_ItemConsumeEffectType (v : ItemConsumeEffectType) : list byte := varint_bytes (value_ItemConsumeEffectType v).
#[export] Instance lawful_ItemConsumeEffectType : LawfulCodec wire_ItemConsumeEffectType dom_ItemConsumeEffectType bytes_ItemConsumeEffectType.
Proof. solve_enum. Qed.
#[export] Instance cost_ItemConsumeEffectType : CodecCost dom_ItemConsumeEffectType bytes_ItemConsumeEffectType.
Proof. solve_cost. Qed.
#[export] Instance safe_ItemConsumeEffectType : SafeDecode wire_ItemConsumeEffectType.
Proof. solve_safe. Qed.

Record ItemPotionEffect : Type := mkItemPotionEffect {
  ItemPotionEffect_id : Z;
  ItemPotionEffect_details : ItemEffectDetail;
}.
Definition wire_ItemPotionEffect : Codec ItemPotionEffect := {|
  encode p :=
    modify (write_varint (ItemPotionEffect_id p)) ;;;
    encode wire_ItemEffectDetail (ItemPotionEffect_details p) ;;;
    ret tt;
  decode :=
    let* id_ := read_varint in
    let* details := decode wire_ItemEffectDetail in
    ret (mkItemPotionEffect id_ details);
|}.
Definition dom_ItemPotionEffect (p : ItemPotionEffect) : Prop :=
  in_i 32 (ItemPotionEffect_id p)
  ∧ dom_ItemEffectDetail (ItemPotionEffect_details p).
Definition bytes_ItemPotionEffect (p : ItemPotionEffect) : list byte :=
  concat [varint_bytes (ItemPotionEffect_id p);
    bytes_ItemEffectDetail (ItemPotionEffect_details p)].
#[export] Instance lawful_ItemPotionEffect : LawfulCodec wire_ItemPotionEffect dom_ItemPotionEffect bytes_ItemPotionEffect.
Proof. solve_struct. Qed.
#[export] Instance cost_ItemPotionEffect : CodecCost dom_ItemPotionEffect bytes_ItemPotionEffect.
Proof. solve_head. Qed.
#[export] Instance safe_ItemPotionEffect : SafeDecode wire_ItemPotionEffect.
Proof. solve_safe. Qed.

Record ItemConsumeEffectValueApplyEffects : Type := mkItemConsumeEffectValueApplyEffects {
  ItemConsumeEffectValueApplyEffects_effects : list ItemPotionEffect;
  ItemConsumeEffectValueApplyEffects_probability : Z;
}.
Definition wire_ItemConsumeEffectValueApplyEffects : Codec ItemConsumeEffectValueApplyEffects := {|
  encode p :=
    encode (wire_Vec wire_ItemPotionEffect) (ItemConsumeEffectValueApplyEffects_effects p) ;;;
    encode wire_f32 (ItemConsumeEffectValueApplyEffects_probability p) ;;;
    ret tt;
  decode :=
    let* effects := decode (wire_Vec wire_ItemPotionEffect) in
    let* probability := decode wire_f32 in
    ret (mkItemConsumeEffectValueApplyEffects effects probability);
|}.
Definition dom_ItemConsumeEffectValueApplyEffects (p : ItemConsumeEffectValueApplyEffects) : Prop :=
  vec_dom dom_ItemPotionEffect (ItemConsumeEffectValueApplyEffects_effects p)
  ∧ in_u 32 (ItemConsumeEffectValueApplyEffects_probability p).
Definition bytes_ItemConsumeEffectValueApplyEffects (p : ItemConsumeEffectValueApplyEffects) : list byte :=
  concat [vec_bytes bytes_ItemPotionEffect (ItemConsumeEffectValueApplyEffects_effects p);
    be_bytes 4 (ItemConsumeEffectValueApplyEffects_probability p)].
#[export] Instance lawful_ItemConsumeEffectValueApplyEffects : LawfulCodec wire_ItemConsumeEffectValueApplyEffects dom_ItemConsumeEffectValueApplyEffects bytes_ItemConsumeEffectValueApplyEffects.
Proof. solve_struct. Qed.
#[export] Instance cost_ItemConsumeEffectValueApplyEffects : CodecCost dom_ItemConsumeEffectValueApplyEffects bytes_ItemConsumeEffectValueApplyEffects.
Proof. solve_head. Qed.
#[export] Instance safe_ItemConsumeEffectValueApplyEffects : SafeDecode wire_ItemConsumeEffectValueApplyEffects.
Proof. solve_safe. Qed.

Record ItemConsumeEffectValuePlaySound : Type := mkItemConsumeEffectValuePlaySound {
  ItemConsumeEffectValuePlaySound_sound : Holder ItemSoundEvent;
}.
Definition wire_ItemConsumeEffectValuePlaySound : Codec ItemConsumeEffectValuePlaySound := {|
  encode p :=
    encode (wire_Holder wire_ItemSoundEvent) (ItemConsumeEffectValuePlaySound_sound p) ;;;
    ret tt;
  decode :=
    let* sound := decode (wire_Holder wire_ItemSoundEvent) in
    ret (mkItemConsumeEffectValuePlaySound sound);
|}.
Definition dom_ItemConsumeEffectValuePlaySound (p : ItemConsumeEffectValuePlaySound) : Prop :=
  holder_dom dom_ItemSoundEvent (ItemConsumeEffectValuePlaySound_sound p).
Definition bytes_ItemConsumeEffectValuePlaySound (p : ItemConsumeEffectValuePlaySound) : list byte :=
  concat [holder_bytes bytes_ItemSoundEvent (ItemConsumeEffectValuePlaySound_sound p)].
#[export] Instance lawful_ItemConsumeEffectValuePlaySound : LawfulCodec wire_ItemConsumeEffectValuePlaySound dom_ItemConsumeEffectValuePlaySound bytes_ItemConsumeEffectValuePlaySound.
Proof. solve_struct. Qed.
#[export] Instance cost_ItemConsumeEffectValuePlaySound : CodecCost dom_ItemConsumeEffectValuePlaySound bytes_ItemConsumeEffectValuePlaySound.
Proof. solve_head. Qed.
#[export] Instance safe_ItemConsumeEffectValuePlaySound : SafeDecode wire_ItemConsumeEffectValuePlaySound.
Proof. solve_safe. Qed.

Record ItemConsumeEffectValueRemoveEffects : Type := mkItemConsumeEffectValueRemoveEffects {
  ItemConsumeEffectValueRemoveEffects_effects : HolderSet;
}.
Definition wire_ItemConsumeEffectValueRemoveEffects : Codec ItemConsumeEffectValueRemoveEffects := {|
  encode p :=
    encode wire_HolderSet (ItemConsumeEffectValueRemoveEffects_effects p) ;;;
    ret tt;
  decode :=
    let* effects := decode wire_HolderSet in
    ret (mkItemConsumeEffectValueRemoveEffects effects);
|}.
Definition dom_ItemConsumeEffectValueRemoveEffects (p : ItemConsumeEffectValueRemoveEffects) : Prop :=
  holder_set_dom (ItemConsumeEffectValueRemoveEffects_effects p).
Definition bytes_ItemConsumeEffectValueRemoveEffects (p : ItemConsumeEffectValueRemoveEffects) : list byte :=
  concat [holder_set_bytes (ItemConsumeEffectValueRemoveEffects_effects p)].
#[export] Instance lawful_ItemConsumeEffectValueRemoveEffects : LawfulCodec wire_ItemConsumeEffectValueRemoveEffects dom_ItemConsumeEffectValueRemoveEffects bytes_ItemConsumeEffectValueRemoveEffects.
Proof. solve_struct. Qed.
#[export] Instance cost_ItemConsumeEffectValueRemoveEffects : CodecCost dom_ItemConsumeEffectValueRemoveEffects bytes_ItemConsumeEffectValueRemoveEffects.
Proof. solve_head. Qed.
#[export] Instance safe_ItemConsumeEffectValueRemoveEffects : SafeDecode wire_ItemConsumeEffectValueRemoveEffects.
Proof. solve_safe. Qed.

Record ItemConsumeEffectValueTeleportRandomly : Type := mkItemConsumeEffectValueTeleportRandomly {
  ItemConsumeEffectValueTeleportRandomly_diameter : Z;
}.
Definition wire_ItemConsumeEffectValueTeleportRandomly : Codec ItemConsumeEffectValueTeleportRandomly := {|
  encode p :=
    encode wire_f32 (ItemConsumeEffectValueTeleportRandomly_diameter p) ;;;
    ret tt;
  decode :=
    let* diameter := decode wire_f32 in
    ret (mkItemConsumeEffectValueTeleportRandomly diameter);
|}.
Definition dom_ItemConsumeEffectValueTeleportRandomly (p : ItemConsumeEffectValueTeleportRandomly) : Prop :=
  in_u 32 (ItemConsumeEffectValueTeleportRandomly_diameter p).
Definition bytes_ItemConsumeEffectValueTeleportRandomly (p : ItemConsumeEffectValueTeleportRandomly) : list byte :=
  concat [be_bytes 4 (ItemConsumeEffectValueTeleportRandomly_diameter p)].
#[export] Instance lawful_ItemConsumeEffectValueTeleportRandomly : LawfulCodec wire_ItemConsumeEffectValueTeleportRandomly dom_ItemConsumeEffectValueTeleportRandomly bytes_ItemConsumeEffectValueTeleportRandomly.
Proof. solve_struct. Qed.
#[export] Instance cost_ItemConsumeEffectValueTeleportRandomly : CodecCost dom_ItemConsumeEffectValueTeleportRandomly bytes_ItemConsumeEffectValueTeleportRandomly.
Proof. solve_head. Qed.
#[export] Instance safe_ItemConsumeEffectValueTeleportRandomly : SafeDecode wire_ItemConsumeEffectValueTeleportRandomly.
Proof. solve_safe. Qed.

Inductive ItemConsumeEffectValue : Type :=
  | ItemConsumeEffectValue_ApplyEffects (v : ItemConsumeEffectValueApplyEffects)
  | ItemConsumeEffectValue_ClearAllEffects
  | ItemConsumeEffectValue_PlaySound (v : ItemConsumeEffectValuePlaySound)
  | ItemConsumeEffectValue_RemoveEffects (v : ItemConsumeEffectValueRemoveEffects)
  | ItemConsumeEffectValue_TeleportRandomly (v : ItemConsumeEffectValueTeleportRandomly).
Definition encode_ItemConsumeEffectValue (v : ItemConsumeEffectValue) : Write :=
  match v with
  | ItemConsumeEffectValue_ApplyEffects v => encode wire_ItemConsumeEffectValueApplyEffects v
  | ItemConsumeEffectValue_ClearAllEffects => ret tt
  | ItemConsumeEffectValue_PlaySound v => encode wire_ItemConsumeEffectValuePlaySound v
  | ItemConsumeEffectValue_RemoveEffects v => encode wire_ItemConsumeEffectValueRemoveEffects v
  | ItemConsumeEffectValue_TeleportRandomly v => encode wire_ItemConsumeEffectValueTeleportRandomly v
  end.
Definition decode_from_ItemConsumeEffectValue (d : ItemConsumeEffectType) : Read ItemConsumeEffectValue :=
  match d with
  | ItemConsumeEffectType_ApplyEffects => (let* v := decode wire_ItemConsumeEffectValueApplyEffects in ret (ItemConsumeEffectValue_ApplyEffects v))
  | ItemConsumeEffectType_ClearAllEffects => ret ItemConsumeEffectValue_ClearAllEffects
  | ItemConsumeEffectType_PlaySound => (let* v := decode wire_ItemConsumeEffectValuePlaySound in ret (ItemConsumeEffectValue_PlaySound v))
  | ItemConsumeEffectType_RemoveEffects => (let* v := decode wire_ItemConsumeEffectValueRemoveEffects in ret (ItemConsumeEffectValue_RemoveEffects v))
  | ItemConsumeEffectType_TeleportRandomly => (let* v := decode wire_ItemConsumeEffectValueTeleportRandomly in ret (ItemConsumeEffectValue_TeleportRandomly v))
  end.
Definition case_ItemConsumeEffectValue (d : ItemConsumeEffectType) (v : ItemConsumeEffectValue) : bool :=
  match v with
  | ItemConsumeEffectValue_ApplyEffects _ => on d ItemConsumeEffectType_ApplyEffects
  | ItemConsumeEffectValue_ClearAllEffects => on d ItemConsumeEffectType_ClearAllEffects
  | ItemConsumeEffectValue_PlaySound _ => on d ItemConsumeEffectType_PlaySound
  | ItemConsumeEffectValue_RemoveEffects _ => on d ItemConsumeEffectType_RemoveEffects
  | ItemConsumeEffectValue_TeleportRandomly _ => on d ItemConsumeEffectType_TeleportRandomly
  end.
Definition switch_ItemConsumeEffectValue : Switch ItemConsumeEffectType ItemConsumeEffectValue := mkSwitch case_ItemConsumeEffectValue encode_ItemConsumeEffectValue decode_from_ItemConsumeEffectValue.
Definition dom_ItemConsumeEffectValue (d : ItemConsumeEffectType) (v : ItemConsumeEffectValue) : Prop :=
  case_ItemConsumeEffectValue d v = true ∧
  match v with
  | ItemConsumeEffectValue_ApplyEffects v => dom_ItemConsumeEffectValueApplyEffects v
  | ItemConsumeEffectValue_PlaySound v => dom_ItemConsumeEffectValuePlaySound v
  | ItemConsumeEffectValue_RemoveEffects v => dom_ItemConsumeEffectValueRemoveEffects v
  | ItemConsumeEffectValue_TeleportRandomly v => dom_ItemConsumeEffectValueTeleportRandomly v
  | _ => True
  end.
Definition bytes_ItemConsumeEffectValue (v : ItemConsumeEffectValue) : list byte :=
  match v with
  | ItemConsumeEffectValue_ApplyEffects v => bytes_ItemConsumeEffectValueApplyEffects v
  | ItemConsumeEffectValue_PlaySound v => bytes_ItemConsumeEffectValuePlaySound v
  | ItemConsumeEffectValue_RemoveEffects v => bytes_ItemConsumeEffectValueRemoveEffects v
  | ItemConsumeEffectValue_TeleportRandomly v => bytes_ItemConsumeEffectValueTeleportRandomly v
  | _ => []
  end.
#[export] Instance lawful_ItemConsumeEffectValue : LawfulSwitch switch_ItemConsumeEffectValue dom_ItemConsumeEffectValue bytes_ItemConsumeEffectValue.
Proof. solve_switch. Qed.
#[export] Instance safe_ItemConsumeEffectValue : SafeSwitch switch_ItemConsumeEffectValue.
Proof. solve_safe. Qed.

Record ItemConsumeEffect : Type := mkItemConsumeEffect {
  ItemConsumeEffect_type : ItemConsumeEffectType;
  ItemConsumeEffect_value : ItemConsumeEffectValue;
}.
Definition wire_ItemConsumeEffect : Codec ItemConsumeEffect := {|
  encode p :=
    encode wire_ItemConsumeEffectType (ItemConsumeEffect_type p) ;;;
    encode_at switch_ItemConsumeEffectValue (ItemConsumeEffect_type p) (ItemConsumeEffect_value p) ;;;
    ret tt;
  decode :=
    let* type_ := decode wire_ItemConsumeEffectType in
    let* value := sw_decode switch_ItemConsumeEffectValue type_ in
    ret (mkItemConsumeEffect type_ value);
|}.
Definition dom_ItemConsumeEffect (p : ItemConsumeEffect) : Prop :=
  dom_ItemConsumeEffectType (ItemConsumeEffect_type p)
  ∧ dom_ItemConsumeEffectValue (ItemConsumeEffect_type p) (ItemConsumeEffect_value p).
Definition bytes_ItemConsumeEffect (p : ItemConsumeEffect) : list byte :=
  concat [bytes_ItemConsumeEffectType (ItemConsumeEffect_type p);
    bytes_ItemConsumeEffectValue (ItemConsumeEffect_value p)].
#[export] Instance lawful_ItemConsumeEffect : LawfulCodec wire_ItemConsumeEffect dom_ItemConsumeEffect bytes_ItemConsumeEffect.
Proof. solve_struct. Qed.
#[export] Instance cost_ItemConsumeEffect : CodecCost dom_ItemConsumeEffect bytes_ItemConsumeEffect.
Proof. solve_head. Qed.
#[export] Instance safe_ItemConsumeEffect : SafeDecode wire_ItemConsumeEffect.
Proof. solve_safe. Qed.

Inductive SlotComponentDataConsumableAnimation : Type :=
  | SlotComponentDataConsumableAnimation_None
  | SlotComponentDataConsumableAnimation_Eat
  | SlotComponentDataConsumableAnimation_Drink
  | SlotComponentDataConsumableAnimation_Block
  | SlotComponentDataConsumableAnimation_Bow
  | SlotComponentDataConsumableAnimation_Spear
  | SlotComponentDataConsumableAnimation_Crossbow
  | SlotComponentDataConsumableAnimation_Spyglass
  | SlotComponentDataConsumableAnimation_TootHorn
  | SlotComponentDataConsumableAnimation_Brush.
Definition value_SlotComponentDataConsumableAnimation (v : SlotComponentDataConsumableAnimation) : Z :=
  match v with
  | SlotComponentDataConsumableAnimation_None => 0
  | SlotComponentDataConsumableAnimation_Eat => 1
  | SlotComponentDataConsumableAnimation_Drink => 2
  | SlotComponentDataConsumableAnimation_Block => 3
  | SlotComponentDataConsumableAnimation_Bow => 4
  | SlotComponentDataConsumableAnimation_Spear => 5
  | SlotComponentDataConsumableAnimation_Crossbow => 6
  | SlotComponentDataConsumableAnimation_Spyglass => 7
  | SlotComponentDataConsumableAnimation_TootHorn => 8
  | SlotComponentDataConsumableAnimation_Brush => 9
  end.
Definition of_SlotComponentDataConsumableAnimation (value : Z) : option SlotComponentDataConsumableAnimation :=
  match value with
  | 0 => Some SlotComponentDataConsumableAnimation_None
  | 1 => Some SlotComponentDataConsumableAnimation_Eat
  | 2 => Some SlotComponentDataConsumableAnimation_Drink
  | 3 => Some SlotComponentDataConsumableAnimation_Block
  | 4 => Some SlotComponentDataConsumableAnimation_Bow
  | 5 => Some SlotComponentDataConsumableAnimation_Spear
  | 6 => Some SlotComponentDataConsumableAnimation_Crossbow
  | 7 => Some SlotComponentDataConsumableAnimation_Spyglass
  | 8 => Some SlotComponentDataConsumableAnimation_TootHorn
  | 9 => Some SlotComponentDataConsumableAnimation_Brush
  | _ => None
  end.
#[export] Instance SlotComponentDataConsumableAnimation_eq_dec : EqDecision SlotComponentDataConsumableAnimation.
Proof. apply (value_eq_dec value_SlotComponentDataConsumableAnimation), (value_inj _ of_SlotComponentDataConsumableAnimation). by intros []. Defined.
Definition wire_SlotComponentDataConsumableAnimation : Codec SlotComponentDataConsumableAnimation := {|
  encode v := modify (write_varint (value_SlotComponentDataConsumableAnimation v));
  decode :=
    let* value := read_varint in
    match of_SlotComponentDataConsumableAnimation value with
    | Some v => ret v
    | None => raise (UnknownEnumValue "SlotComponentDataConsumableAnimation" value)
    end;
|}.
Definition dom_SlotComponentDataConsumableAnimation (_ : SlotComponentDataConsumableAnimation) : Prop := True.
Definition bytes_SlotComponentDataConsumableAnimation (v : SlotComponentDataConsumableAnimation) : list byte := varint_bytes (value_SlotComponentDataConsumableAnimation v).
#[export] Instance lawful_SlotComponentDataConsumableAnimation : LawfulCodec wire_SlotComponentDataConsumableAnimation dom_SlotComponentDataConsumableAnimation bytes_SlotComponentDataConsumableAnimation.
Proof. solve_enum. Qed.
#[export] Instance cost_SlotComponentDataConsumableAnimation : CodecCost dom_SlotComponentDataConsumableAnimation bytes_SlotComponentDataConsumableAnimation.
Proof. solve_cost. Qed.
#[export] Instance safe_SlotComponentDataConsumableAnimation : SafeDecode wire_SlotComponentDataConsumableAnimation.
Proof. solve_safe. Qed.

Record SlotComponentDataConsumable : Type := mkSlotComponentDataConsumable {
  SlotComponentDataConsumable_consume_seconds : Z;
  SlotComponentDataConsumable_animation : SlotComponentDataConsumableAnimation;
  SlotComponentDataConsumable_sound : Holder ItemSoundEvent;
  SlotComponentDataConsumable_makes_particles : bool;
  SlotComponentDataConsumable_effects : list ItemConsumeEffect;
}.
Definition wire_SlotComponentDataConsumable : Codec SlotComponentDataConsumable := {|
  encode p :=
    encode wire_f32 (SlotComponentDataConsumable_consume_seconds p) ;;;
    encode wire_SlotComponentDataConsumableAnimation (SlotComponentDataConsumable_animation p) ;;;
    encode (wire_Holder wire_ItemSoundEvent) (SlotComponentDataConsumable_sound p) ;;;
    encode wire_bool (SlotComponentDataConsumable_makes_particles p) ;;;
    encode (wire_Vec wire_ItemConsumeEffect) (SlotComponentDataConsumable_effects p) ;;;
    ret tt;
  decode :=
    let* consume_seconds := decode wire_f32 in
    let* animation := decode wire_SlotComponentDataConsumableAnimation in
    let* sound := decode (wire_Holder wire_ItemSoundEvent) in
    let* makes_particles := decode wire_bool in
    let* effects := decode (wire_Vec wire_ItemConsumeEffect) in
    ret (mkSlotComponentDataConsumable consume_seconds animation sound makes_particles effects);
|}.
Definition dom_SlotComponentDataConsumable (p : SlotComponentDataConsumable) : Prop :=
  in_u 32 (SlotComponentDataConsumable_consume_seconds p)
  ∧ dom_SlotComponentDataConsumableAnimation (SlotComponentDataConsumable_animation p)
  ∧ holder_dom dom_ItemSoundEvent (SlotComponentDataConsumable_sound p)
  ∧ vec_dom dom_ItemConsumeEffect (SlotComponentDataConsumable_effects p).
Definition bytes_SlotComponentDataConsumable (p : SlotComponentDataConsumable) : list byte :=
  concat [be_bytes 4 (SlotComponentDataConsumable_consume_seconds p);
    bytes_SlotComponentDataConsumableAnimation (SlotComponentDataConsumable_animation p);
    holder_bytes bytes_ItemSoundEvent (SlotComponentDataConsumable_sound p);
    bool_bytes (SlotComponentDataConsumable_makes_particles p);
    vec_bytes bytes_ItemConsumeEffect (SlotComponentDataConsumable_effects p)].
#[export] Instance lawful_SlotComponentDataConsumable : LawfulCodec wire_SlotComponentDataConsumable dom_SlotComponentDataConsumable bytes_SlotComponentDataConsumable.
Proof. solve_struct. Qed.
#[export] Instance cost_SlotComponentDataConsumable : CodecCost dom_SlotComponentDataConsumable bytes_SlotComponentDataConsumable.
Proof. solve_head. Qed.
#[export] Instance safe_SlotComponentDataConsumable : SafeDecode wire_SlotComponentDataConsumable.
Proof. solve_safe. Qed.

Record SlotComponentDataCustomModelData : Type := mkSlotComponentDataCustomModelData {
  SlotComponentDataCustomModelData_floats : list Z;
  SlotComponentDataCustomModelData_flags : list bool;
  SlotComponentDataCustomModelData_strings : list string;
  SlotComponentDataCustomModelData_colors : list Z;
}.
Definition wire_SlotComponentDataCustomModelData : Codec SlotComponentDataCustomModelData := {|
  encode p :=
    encode (wire_Vec wire_f32) (SlotComponentDataCustomModelData_floats p) ;;;
    encode (wire_Vec wire_bool) (SlotComponentDataCustomModelData_flags p) ;;;
    encode (wire_Vec wire_String) (SlotComponentDataCustomModelData_strings p) ;;;
    encode (wire_Vec wire_i32) (SlotComponentDataCustomModelData_colors p) ;;;
    ret tt;
  decode :=
    let* floats := decode (wire_Vec wire_f32) in
    let* flags := decode (wire_Vec wire_bool) in
    let* strings := decode (wire_Vec wire_String) in
    let* colors := decode (wire_Vec wire_i32) in
    ret (mkSlotComponentDataCustomModelData floats flags strings colors);
|}.
Definition dom_SlotComponentDataCustomModelData (p : SlotComponentDataCustomModelData) : Prop :=
  vec_dom (in_u 32) (SlotComponentDataCustomModelData_floats p)
  ∧ vec_dom any_value (SlotComponentDataCustomModelData_flags p)
  ∧ vec_dom wire_string (SlotComponentDataCustomModelData_strings p)
  ∧ vec_dom (in_i 32) (SlotComponentDataCustomModelData_colors p).
Definition bytes_SlotComponentDataCustomModelData (p : SlotComponentDataCustomModelData) : list byte :=
  concat [vec_bytes (be_bytes 4) (SlotComponentDataCustomModelData_floats p);
    vec_bytes bool_bytes (SlotComponentDataCustomModelData_flags p);
    vec_bytes string_bytes (SlotComponentDataCustomModelData_strings p);
    vec_bytes (be_bytes 4) (SlotComponentDataCustomModelData_colors p)].
#[export] Instance lawful_SlotComponentDataCustomModelData : LawfulCodec wire_SlotComponentDataCustomModelData dom_SlotComponentDataCustomModelData bytes_SlotComponentDataCustomModelData.
Proof. solve_struct. Qed.
#[export] Instance cost_SlotComponentDataCustomModelData : CodecCost dom_SlotComponentDataCustomModelData bytes_SlotComponentDataCustomModelData.
Proof. solve_head. Qed.
#[export] Instance safe_SlotComponentDataCustomModelData : SafeDecode wire_SlotComponentDataCustomModelData.
Proof. solve_safe. Qed.

Record SlotComponentDataDeathProtection : Type := mkSlotComponentDataDeathProtection {
  SlotComponentDataDeathProtection_effects : list ItemConsumeEffect;
}.
Definition wire_SlotComponentDataDeathProtection : Codec SlotComponentDataDeathProtection := {|
  encode p :=
    encode (wire_Vec wire_ItemConsumeEffect) (SlotComponentDataDeathProtection_effects p) ;;;
    ret tt;
  decode :=
    let* effects := decode (wire_Vec wire_ItemConsumeEffect) in
    ret (mkSlotComponentDataDeathProtection effects);
|}.
Definition dom_SlotComponentDataDeathProtection (p : SlotComponentDataDeathProtection) : Prop :=
  vec_dom dom_ItemConsumeEffect (SlotComponentDataDeathProtection_effects p).
Definition bytes_SlotComponentDataDeathProtection (p : SlotComponentDataDeathProtection) : list byte :=
  concat [vec_bytes bytes_ItemConsumeEffect (SlotComponentDataDeathProtection_effects p)].
#[export] Instance lawful_SlotComponentDataDeathProtection : LawfulCodec wire_SlotComponentDataDeathProtection dom_SlotComponentDataDeathProtection bytes_SlotComponentDataDeathProtection.
Proof. solve_struct. Qed.
#[export] Instance cost_SlotComponentDataDeathProtection : CodecCost dom_SlotComponentDataDeathProtection bytes_SlotComponentDataDeathProtection.
Proof. solve_head. Qed.
#[export] Instance safe_SlotComponentDataDeathProtection : SafeDecode wire_SlotComponentDataDeathProtection.
Proof. solve_safe. Qed.

Record SlotComponentDataDyedColor : Type := mkSlotComponentDataDyedColor {
  SlotComponentDataDyedColor_color : Z;
  SlotComponentDataDyedColor_show_tooltip : bool;
}.
Definition wire_SlotComponentDataDyedColor : Codec SlotComponentDataDyedColor := {|
  encode p :=
    modify (put_i32 (SlotComponentDataDyedColor_color p)) ;;;
    encode wire_bool (SlotComponentDataDyedColor_show_tooltip p) ;;;
    ret tt;
  decode :=
    let* color := get_i32 in
    let* show_tooltip := decode wire_bool in
    ret (mkSlotComponentDataDyedColor color show_tooltip);
|}.
Definition dom_SlotComponentDataDyedColor (p : SlotComponentDataDyedColor) : Prop :=
  in_i 32 (SlotComponentDataDyedColor_color p).
Definition bytes_SlotComponentDataDyedColor (p : SlotComponentDataDyedColor) : list byte :=
  concat [be_bytes 4 (SlotComponentDataDyedColor_color p);
    bool_bytes (SlotComponentDataDyedColor_show_tooltip p)].
#[export] Instance lawful_SlotComponentDataDyedColor : LawfulCodec wire_SlotComponentDataDyedColor dom_SlotComponentDataDyedColor bytes_SlotComponentDataDyedColor.
Proof. solve_struct. Qed.
#[export] Instance cost_SlotComponentDataDyedColor : CodecCost dom_SlotComponentDataDyedColor bytes_SlotComponentDataDyedColor.
Proof. solve_head. Qed.
#[export] Instance safe_SlotComponentDataDyedColor : SafeDecode wire_SlotComponentDataDyedColor.
Proof. solve_safe. Qed.

Record SlotComponentDataEnchantmentsEnchantmentsItem : Type := mkSlotComponentDataEnchantmentsEnchantmentsItem {
  SlotComponentDataEnchantmentsEnchantmentsItem_id : Z;
  SlotComponentDataEnchantmentsEnchantmentsItem_level : Z;
}.
Definition wire_SlotComponentDataEnchantmentsEnchantmentsItem : Codec SlotComponentDataEnchantmentsEnchantmentsItem := {|
  encode p :=
    modify (write_varint (SlotComponentDataEnchantmentsEnchantmentsItem_id p)) ;;;
    modify (write_varint (SlotComponentDataEnchantmentsEnchantmentsItem_level p)) ;;;
    ret tt;
  decode :=
    let* id_ := read_varint in
    let* level := read_varint in
    ret (mkSlotComponentDataEnchantmentsEnchantmentsItem id_ level);
|}.
Definition dom_SlotComponentDataEnchantmentsEnchantmentsItem (p : SlotComponentDataEnchantmentsEnchantmentsItem) : Prop :=
  in_i 32 (SlotComponentDataEnchantmentsEnchantmentsItem_id p)
  ∧ in_i 32 (SlotComponentDataEnchantmentsEnchantmentsItem_level p).
Definition bytes_SlotComponentDataEnchantmentsEnchantmentsItem (p : SlotComponentDataEnchantmentsEnchantmentsItem) : list byte :=
  concat [varint_bytes (SlotComponentDataEnchantmentsEnchantmentsItem_id p);
    varint_bytes (SlotComponentDataEnchantmentsEnchantmentsItem_level p)].
#[export] Instance lawful_SlotComponentDataEnchantmentsEnchantmentsItem : LawfulCodec wire_SlotComponentDataEnchantmentsEnchantmentsItem dom_SlotComponentDataEnchantmentsEnchantmentsItem bytes_SlotComponentDataEnchantmentsEnchantmentsItem.
Proof. solve_struct. Qed.
#[export] Instance cost_SlotComponentDataEnchantmentsEnchantmentsItem : CodecCost dom_SlotComponentDataEnchantmentsEnchantmentsItem bytes_SlotComponentDataEnchantmentsEnchantmentsItem.
Proof. solve_head. Qed.
#[export] Instance safe_SlotComponentDataEnchantmentsEnchantmentsItem : SafeDecode wire_SlotComponentDataEnchantmentsEnchantmentsItem.
Proof. solve_safe. Qed.

Record SlotComponentDataEnchantments : Type := mkSlotComponentDataEnchantments {
  SlotComponentDataEnchantments_enchantments : list SlotComponentDataEnchantmentsEnchantmentsItem;
  SlotComponentDataEnchantments_show_tooltip : bool;
}.
Definition wire_SlotComponentDataEnchantments : Codec SlotComponentDataEnchantments := {|
  encode p :=
    encode (wire_Vec wire_SlotComponentDataEnchantmentsEnchantmentsItem) (SlotComponentDataEnchantments_enchantments p) ;;;
    encode wire_bool (SlotComponentDataEnchantments_show_tooltip p) ;;;
    ret tt;
  decode :=
    let* enchantments := decode (wire_Vec wire_SlotComponentDataEnchantmentsEnchantmentsItem) in
    let* show_tooltip := decode wire_bool in
    ret (mkSlotComponentDataEnchantments enchantments show_tooltip);
|}.
Definition dom_SlotComponentDataEnchantments (p : SlotComponentDataEnchantments) : Prop :=
  vec_dom dom_SlotComponentDataEnchantmentsEnchantmentsItem (SlotComponentDataEnchantments_enchantments p).
Definition bytes_SlotComponentDataEnchantments (p : SlotComponentDataEnchantments) : list byte :=
  concat [vec_bytes bytes_SlotComponentDataEnchantmentsEnchantmentsItem (SlotComponentDataEnchantments_enchantments p);
    bool_bytes (SlotComponentDataEnchantments_show_tooltip p)].
#[export] Instance lawful_SlotComponentDataEnchantments : LawfulCodec wire_SlotComponentDataEnchantments dom_SlotComponentDataEnchantments bytes_SlotComponentDataEnchantments.
Proof. solve_struct. Qed.
#[export] Instance cost_SlotComponentDataEnchantments : CodecCost dom_SlotComponentDataEnchantments bytes_SlotComponentDataEnchantments.
Proof. solve_head. Qed.
#[export] Instance safe_SlotComponentDataEnchantments : SafeDecode wire_SlotComponentDataEnchantments.
Proof. solve_safe. Qed.

Inductive SlotComponentDataEquippableSlot : Type :=
  | SlotComponentDataEquippableSlot_MainHand
  | SlotComponentDataEquippableSlot_OffHand
  | SlotComponentDataEquippableSlot_Feet
  | SlotComponentDataEquippableSlot_Legs
  | SlotComponentDataEquippableSlot_Chest
  | SlotComponentDataEquippableSlot_Head
  | SlotComponentDataEquippableSlot_Body.
Definition value_SlotComponentDataEquippableSlot (v : SlotComponentDataEquippableSlot) : Z :=
  match v with
  | SlotComponentDataEquippableSlot_MainHand => 0
  | SlotComponentDataEquippableSlot_OffHand => 1
  | SlotComponentDataEquippableSlot_Feet => 2
  | SlotComponentDataEquippableSlot_Legs => 3
  | SlotComponentDataEquippableSlot_Chest => 4
  | SlotComponentDataEquippableSlot_Head => 5
  | SlotComponentDataEquippableSlot_Body => 6
  end.
Definition of_SlotComponentDataEquippableSlot (value : Z) : option SlotComponentDataEquippableSlot :=
  match value with
  | 0 => Some SlotComponentDataEquippableSlot_MainHand
  | 1 => Some SlotComponentDataEquippableSlot_OffHand
  | 2 => Some SlotComponentDataEquippableSlot_Feet
  | 3 => Some SlotComponentDataEquippableSlot_Legs
  | 4 => Some SlotComponentDataEquippableSlot_Chest
  | 5 => Some SlotComponentDataEquippableSlot_Head
  | 6 => Some SlotComponentDataEquippableSlot_Body
  | _ => None
  end.
#[export] Instance SlotComponentDataEquippableSlot_eq_dec : EqDecision SlotComponentDataEquippableSlot.
Proof. apply (value_eq_dec value_SlotComponentDataEquippableSlot), (value_inj _ of_SlotComponentDataEquippableSlot). by intros []. Defined.
Definition wire_SlotComponentDataEquippableSlot : Codec SlotComponentDataEquippableSlot := {|
  encode v := modify (write_varint (value_SlotComponentDataEquippableSlot v));
  decode :=
    let* value := read_varint in
    match of_SlotComponentDataEquippableSlot value with
    | Some v => ret v
    | None => raise (UnknownEnumValue "SlotComponentDataEquippableSlot" value)
    end;
|}.
Definition dom_SlotComponentDataEquippableSlot (_ : SlotComponentDataEquippableSlot) : Prop := True.
Definition bytes_SlotComponentDataEquippableSlot (v : SlotComponentDataEquippableSlot) : list byte := varint_bytes (value_SlotComponentDataEquippableSlot v).
#[export] Instance lawful_SlotComponentDataEquippableSlot : LawfulCodec wire_SlotComponentDataEquippableSlot dom_SlotComponentDataEquippableSlot bytes_SlotComponentDataEquippableSlot.
Proof. solve_enum. Qed.
#[export] Instance cost_SlotComponentDataEquippableSlot : CodecCost dom_SlotComponentDataEquippableSlot bytes_SlotComponentDataEquippableSlot.
Proof. solve_cost. Qed.
#[export] Instance safe_SlotComponentDataEquippableSlot : SafeDecode wire_SlotComponentDataEquippableSlot.
Proof. solve_safe. Qed.

Record SlotComponentDataEquippable : Type := mkSlotComponentDataEquippable {
  SlotComponentDataEquippable_slot : SlotComponentDataEquippableSlot;
  SlotComponentDataEquippable_sound : Holder ItemSoundEvent;
  SlotComponentDataEquippable_model : option string;
  SlotComponentDataEquippable_camera_overlay : option string;
  SlotComponentDataEquippable_allowed_entities : option HolderSet;
  SlotComponentDataEquippable_dispensable : bool;
  SlotComponentDataEquippable_swappable : bool;
  SlotComponentDataEquippable_damageable : bool;
}.
Definition wire_SlotComponentDataEquippable : Codec SlotComponentDataEquippable := {|
  encode p :=
    encode wire_SlotComponentDataEquippableSlot (SlotComponentDataEquippable_slot p) ;;;
    encode (wire_Holder wire_ItemSoundEvent) (SlotComponentDataEquippable_sound p) ;;;
    encode (wire_Option wire_String) (SlotComponentDataEquippable_model p) ;;;
    encode (wire_Option wire_String) (SlotComponentDataEquippable_camera_overlay p) ;;;
    encode (wire_Option wire_HolderSet) (SlotComponentDataEquippable_allowed_entities p) ;;;
    encode wire_bool (SlotComponentDataEquippable_dispensable p) ;;;
    encode wire_bool (SlotComponentDataEquippable_swappable p) ;;;
    encode wire_bool (SlotComponentDataEquippable_damageable p) ;;;
    ret tt;
  decode :=
    let* slot := decode wire_SlotComponentDataEquippableSlot in
    let* sound := decode (wire_Holder wire_ItemSoundEvent) in
    let* model := decode (wire_Option wire_String) in
    let* camera_overlay := decode (wire_Option wire_String) in
    let* allowed_entities := decode (wire_Option wire_HolderSet) in
    let* dispensable := decode wire_bool in
    let* swappable := decode wire_bool in
    let* damageable := decode wire_bool in
    ret (mkSlotComponentDataEquippable slot sound model camera_overlay allowed_entities dispensable swappable damageable);
|}.
Definition dom_SlotComponentDataEquippable (p : SlotComponentDataEquippable) : Prop :=
  dom_SlotComponentDataEquippableSlot (SlotComponentDataEquippable_slot p)
  ∧ holder_dom dom_ItemSoundEvent (SlotComponentDataEquippable_sound p)
  ∧ option_dom wire_string (SlotComponentDataEquippable_model p)
  ∧ option_dom wire_string (SlotComponentDataEquippable_camera_overlay p)
  ∧ option_dom holder_set_dom (SlotComponentDataEquippable_allowed_entities p).
Definition bytes_SlotComponentDataEquippable (p : SlotComponentDataEquippable) : list byte :=
  concat [bytes_SlotComponentDataEquippableSlot (SlotComponentDataEquippable_slot p);
    holder_bytes bytes_ItemSoundEvent (SlotComponentDataEquippable_sound p);
    option_bytes string_bytes (SlotComponentDataEquippable_model p);
    option_bytes string_bytes (SlotComponentDataEquippable_camera_overlay p);
    option_bytes holder_set_bytes (SlotComponentDataEquippable_allowed_entities p);
    bool_bytes (SlotComponentDataEquippable_dispensable p);
    bool_bytes (SlotComponentDataEquippable_swappable p);
    bool_bytes (SlotComponentDataEquippable_damageable p)].
#[export] Instance lawful_SlotComponentDataEquippable : LawfulCodec wire_SlotComponentDataEquippable dom_SlotComponentDataEquippable bytes_SlotComponentDataEquippable.
Proof. solve_struct. Qed.
#[export] Instance cost_SlotComponentDataEquippable : CodecCost dom_SlotComponentDataEquippable bytes_SlotComponentDataEquippable.
Proof. solve_head. Qed.
#[export] Instance safe_SlotComponentDataEquippable : SafeDecode wire_SlotComponentDataEquippable.
Proof. solve_safe. Qed.

Record SlotComponentDataFireworks : Type := mkSlotComponentDataFireworks {
  SlotComponentDataFireworks_flight_duration : Z;
  SlotComponentDataFireworks_explosions : list ItemFireworkExplosion;
}.
Definition wire_SlotComponentDataFireworks : Codec SlotComponentDataFireworks := {|
  encode p :=
    modify (write_varint (SlotComponentDataFireworks_flight_duration p)) ;;;
    encode (wire_Vec wire_ItemFireworkExplosion) (SlotComponentDataFireworks_explosions p) ;;;
    ret tt;
  decode :=
    let* flight_duration := read_varint in
    let* explosions := decode (wire_Vec wire_ItemFireworkExplosion) in
    ret (mkSlotComponentDataFireworks flight_duration explosions);
|}.
Definition dom_SlotComponentDataFireworks (p : SlotComponentDataFireworks) : Prop :=
  in_i 32 (SlotComponentDataFireworks_flight_duration p)
  ∧ vec_dom dom_ItemFireworkExplosion (SlotComponentDataFireworks_explosions p).
Definition bytes_SlotComponentDataFireworks (p : SlotComponentDataFireworks) : list byte :=
  concat [varint_bytes (SlotComponentDataFireworks_flight_duration p);
    vec_bytes bytes_ItemFireworkExplosion (SlotComponentDataFireworks_explosions p)].
#[export] Instance lawful_SlotComponentDataFireworks : LawfulCodec wire_SlotComponentDataFireworks dom_SlotComponentDataFireworks bytes_SlotComponentDataFireworks.
Proof. solve_struct. Qed.
#[export] Instance cost_SlotComponentDataFireworks : CodecCost dom_SlotComponentDataFireworks bytes_SlotComponentDataFireworks.
Proof. solve_head. Qed.
#[export] Instance safe_SlotComponentDataFireworks : SafeDecode wire_SlotComponentDataFireworks.
Proof. solve_safe. Qed.

Record SlotComponentDataFood : Type := mkSlotComponentDataFood {
  SlotComponentDataFood_nutrition : Z;
  SlotComponentDataFood_saturation_modifier : Z;
  SlotComponentDataFood_can_always_eat : bool;
}.
Definition wire_SlotComponentDataFood : Codec SlotComponentDataFood := {|
  encode p :=
    modify (write_varint (SlotComponentDataFood_nutrition p)) ;;;
    encode wire_f32 (SlotComponentDataFood_saturation_modifier p) ;;;
    encode wire_bool (SlotComponentDataFood_can_always_eat p) ;;;
    ret tt;
  decode :=
    let* nutrition := read_varint in
    let* saturation_modifier := decode wire_f32 in
    let* can_always_eat := decode wire_bool in
    ret (mkSlotComponentDataFood nutrition saturation_modifier can_always_eat);
|}.
Definition dom_SlotComponentDataFood (p : SlotComponentDataFood) : Prop :=
  in_i 32 (SlotComponentDataFood_nutrition p)
  ∧ in_u 32 (SlotComponentDataFood_saturation_modifier p).
Definition bytes_SlotComponentDataFood (p : SlotComponentDataFood) : list byte :=
  concat [varint_bytes (SlotComponentDataFood_nutrition p);
    be_bytes 4 (SlotComponentDataFood_saturation_modifier p);
    bool_bytes (SlotComponentDataFood_can_always_eat p)].
#[export] Instance lawful_SlotComponentDataFood : LawfulCodec wire_SlotComponentDataFood dom_SlotComponentDataFood bytes_SlotComponentDataFood.
Proof. solve_struct. Qed.
#[export] Instance cost_SlotComponentDataFood : CodecCost dom_SlotComponentDataFood bytes_SlotComponentDataFood.
Proof. solve_head. Qed.
#[export] Instance safe_SlotComponentDataFood : SafeDecode wire_SlotComponentDataFood.
Proof. solve_safe. Qed.

Record JukeboxSongData : Type := mkJukeboxSongData {
  JukeboxSongData_sound_event : Holder ItemSoundEvent;
  JukeboxSongData_description : Nbt;
  JukeboxSongData_length_in_seconds : Z;
  JukeboxSongData_comparator_output : Z;
}.
Definition wire_JukeboxSongData : Codec JukeboxSongData := {|
  encode p :=
    encode (wire_Holder wire_ItemSoundEvent) (JukeboxSongData_sound_event p) ;;;
    encode wire_Nbt (JukeboxSongData_description p) ;;;
    encode wire_f32 (JukeboxSongData_length_in_seconds p) ;;;
    modify (write_varint (JukeboxSongData_comparator_output p)) ;;;
    ret tt;
  decode :=
    let* sound_event := decode (wire_Holder wire_ItemSoundEvent) in
    let* description := decode wire_Nbt in
    let* length_in_seconds := decode wire_f32 in
    let* comparator_output := read_varint in
    ret (mkJukeboxSongData sound_event description length_in_seconds comparator_output);
|}.
Definition dom_JukeboxSongData (p : JukeboxSongData) : Prop :=
  holder_dom dom_ItemSoundEvent (JukeboxSongData_sound_event p)
  ∧ nbt_fits (JukeboxSongData_description p)
  ∧ in_u 32 (JukeboxSongData_length_in_seconds p)
  ∧ in_i 32 (JukeboxSongData_comparator_output p).
Definition bytes_JukeboxSongData (p : JukeboxSongData) : list byte :=
  concat [holder_bytes bytes_ItemSoundEvent (JukeboxSongData_sound_event p);
    nbt_bytes (JukeboxSongData_description p);
    be_bytes 4 (JukeboxSongData_length_in_seconds p);
    varint_bytes (JukeboxSongData_comparator_output p)].
#[export] Instance lawful_JukeboxSongData : LawfulCodec wire_JukeboxSongData dom_JukeboxSongData bytes_JukeboxSongData.
Proof. solve_struct. Qed.
#[export] Instance cost_JukeboxSongData : CodecCost dom_JukeboxSongData bytes_JukeboxSongData.
Proof. solve_head. Qed.
#[export] Instance safe_JukeboxSongData : SafeDecode wire_JukeboxSongData.
Proof. solve_safe. Qed.

Inductive SlotComponentDataJukeboxPlayableSong : Type :=
  | SlotComponentDataJukeboxPlayableSong_False (v : string)
  | SlotComponentDataJukeboxPlayableSong_True (v : Holder JukeboxSongData).
Definition encode_SlotComponentDataJukeboxPlayableSong (v : SlotComponentDataJukeboxPlayableSong) : Write :=
  match v with
  | SlotComponentDataJukeboxPlayableSong_False v => encode wire_String v
  | SlotComponentDataJukeboxPlayableSong_True v => encode (wire_Holder wire_JukeboxSongData) v
  end.
Definition decode_from_SlotComponentDataJukeboxPlayableSong (d : bool) : Read SlotComponentDataJukeboxPlayableSong :=
  if d then (let* v := decode (wire_Holder wire_JukeboxSongData) in ret (SlotComponentDataJukeboxPlayableSong_True v))
  else (let* v := decode wire_String in ret (SlotComponentDataJukeboxPlayableSong_False v)).
Definition case_SlotComponentDataJukeboxPlayableSong (d : bool) (v : SlotComponentDataJukeboxPlayableSong) : bool :=
  match v with
  | SlotComponentDataJukeboxPlayableSong_False _ => on d false
  | SlotComponentDataJukeboxPlayableSong_True _ => on d true
  end.
Definition switch_SlotComponentDataJukeboxPlayableSong : Switch bool SlotComponentDataJukeboxPlayableSong := mkSwitch case_SlotComponentDataJukeboxPlayableSong encode_SlotComponentDataJukeboxPlayableSong decode_from_SlotComponentDataJukeboxPlayableSong.
Definition dom_SlotComponentDataJukeboxPlayableSong (d : bool) (v : SlotComponentDataJukeboxPlayableSong) : Prop :=
  case_SlotComponentDataJukeboxPlayableSong d v = true ∧
  match v with
  | SlotComponentDataJukeboxPlayableSong_False v => wire_string v
  | SlotComponentDataJukeboxPlayableSong_True v => holder_dom dom_JukeboxSongData v
  end.
Definition bytes_SlotComponentDataJukeboxPlayableSong (v : SlotComponentDataJukeboxPlayableSong) : list byte :=
  match v with
  | SlotComponentDataJukeboxPlayableSong_False v => string_bytes v
  | SlotComponentDataJukeboxPlayableSong_True v => holder_bytes bytes_JukeboxSongData v
  end.
#[export] Instance lawful_SlotComponentDataJukeboxPlayableSong : LawfulSwitch switch_SlotComponentDataJukeboxPlayableSong dom_SlotComponentDataJukeboxPlayableSong bytes_SlotComponentDataJukeboxPlayableSong.
Proof. solve_switch. Qed.
#[export] Instance safe_SlotComponentDataJukeboxPlayableSong : SafeSwitch switch_SlotComponentDataJukeboxPlayableSong.
Proof. solve_safe. Qed.

Record SlotComponentDataJukeboxPlayable : Type := mkSlotComponentDataJukeboxPlayable {
  SlotComponentDataJukeboxPlayable_has_holder : bool;
  SlotComponentDataJukeboxPlayable_song : SlotComponentDataJukeboxPlayableSong;
  SlotComponentDataJukeboxPlayable_show_in_tooltip : bool;
}.
Definition wire_SlotComponentDataJukeboxPlayable : Codec SlotComponentDataJukeboxPlayable := {|
  encode p :=
    encode wire_bool (SlotComponentDataJukeboxPlayable_has_holder p) ;;;
    encode_at switch_SlotComponentDataJukeboxPlayableSong (SlotComponentDataJukeboxPlayable_has_holder p) (SlotComponentDataJukeboxPlayable_song p) ;;;
    encode wire_bool (SlotComponentDataJukeboxPlayable_show_in_tooltip p) ;;;
    ret tt;
  decode :=
    let* has_holder := decode wire_bool in
    let* song := sw_decode switch_SlotComponentDataJukeboxPlayableSong has_holder in
    let* show_in_tooltip := decode wire_bool in
    ret (mkSlotComponentDataJukeboxPlayable has_holder song show_in_tooltip);
|}.
Definition dom_SlotComponentDataJukeboxPlayable (p : SlotComponentDataJukeboxPlayable) : Prop :=
  dom_SlotComponentDataJukeboxPlayableSong (SlotComponentDataJukeboxPlayable_has_holder p) (SlotComponentDataJukeboxPlayable_song p).
Definition bytes_SlotComponentDataJukeboxPlayable (p : SlotComponentDataJukeboxPlayable) : list byte :=
  concat [bool_bytes (SlotComponentDataJukeboxPlayable_has_holder p);
    bytes_SlotComponentDataJukeboxPlayableSong (SlotComponentDataJukeboxPlayable_song p);
    bool_bytes (SlotComponentDataJukeboxPlayable_show_in_tooltip p)].
#[export] Instance lawful_SlotComponentDataJukeboxPlayable : LawfulCodec wire_SlotComponentDataJukeboxPlayable dom_SlotComponentDataJukeboxPlayable bytes_SlotComponentDataJukeboxPlayable.
Proof. solve_struct. Qed.
#[export] Instance cost_SlotComponentDataJukeboxPlayable : CodecCost dom_SlotComponentDataJukeboxPlayable bytes_SlotComponentDataJukeboxPlayable.
Proof. solve_head. Qed.
#[export] Instance safe_SlotComponentDataJukeboxPlayable : SafeDecode wire_SlotComponentDataJukeboxPlayable.
Proof. solve_safe. Qed.

Record SlotComponentDataLodestoneTrackerGlobalPositionValue : Type := mkSlotComponentDataLodestoneTrackerGlobalPositionValue {
  SlotComponentDataLodestoneTrackerGlobalPositionValue_dimension : string;
  SlotComponentDataLodestoneTrackerGlobalPositionValue_position : Position;
}.
Definition wire_SlotComponentDataLodestoneTrackerGlobalPositionValue : Codec SlotComponentDataLodestoneTrackerGlobalPositionValue := {|
  encode p :=
    encode wire_String (SlotComponentDataLodestoneTrackerGlobalPositionValue_dimension p) ;;;
    encode wire_Position (SlotComponentDataLodestoneTrackerGlobalPositionValue_position p) ;;;
    ret tt;
  decode :=
    let* dimension := decode wire_String in
    let* position := decode wire_Position in
    ret (mkSlotComponentDataLodestoneTrackerGlobalPositionValue dimension position);
|}.
Definition dom_SlotComponentDataLodestoneTrackerGlobalPositionValue (p : SlotComponentDataLodestoneTrackerGlobalPositionValue) : Prop :=
  wire_string (SlotComponentDataLodestoneTrackerGlobalPositionValue_dimension p)
  ∧ dom_Position (SlotComponentDataLodestoneTrackerGlobalPositionValue_position p).
Definition bytes_SlotComponentDataLodestoneTrackerGlobalPositionValue (p : SlotComponentDataLodestoneTrackerGlobalPositionValue) : list byte :=
  concat [string_bytes (SlotComponentDataLodestoneTrackerGlobalPositionValue_dimension p);
    bytes_Position (SlotComponentDataLodestoneTrackerGlobalPositionValue_position p)].
#[export] Instance lawful_SlotComponentDataLodestoneTrackerGlobalPositionValue : LawfulCodec wire_SlotComponentDataLodestoneTrackerGlobalPositionValue dom_SlotComponentDataLodestoneTrackerGlobalPositionValue bytes_SlotComponentDataLodestoneTrackerGlobalPositionValue.
Proof. solve_struct. Qed.
#[export] Instance cost_SlotComponentDataLodestoneTrackerGlobalPositionValue : CodecCost dom_SlotComponentDataLodestoneTrackerGlobalPositionValue bytes_SlotComponentDataLodestoneTrackerGlobalPositionValue.
Proof. solve_head. Qed.
#[export] Instance safe_SlotComponentDataLodestoneTrackerGlobalPositionValue : SafeDecode wire_SlotComponentDataLodestoneTrackerGlobalPositionValue.
Proof. solve_safe. Qed.

Record SlotComponentDataLodestoneTracker : Type := mkSlotComponentDataLodestoneTracker {
  SlotComponentDataLodestoneTracker_global_position : option SlotComponentDataLodestoneTrackerGlobalPositionValue;
  SlotComponentDataLodestoneTracker_tracked : bool;
}.
Definition wire_SlotComponentDataLodestoneTracker : Codec SlotComponentDataLodestoneTracker := {|
  encode p :=
    encode (wire_Option wire_SlotComponentDataLodestoneTrackerGlobalPositionValue) (SlotComponentDataLodestoneTracker_global_position p) ;;;
    encode wire_bool (SlotComponentDataLodestoneTracker_tracked p) ;;;
    ret tt;
  decode :=
    let* global_position := decode (wire_Option wire_SlotComponentDataLodestoneTrackerGlobalPositionValue) in
    let* tracked := decode wire_bool in
    ret (mkSlotComponentDataLodestoneTracker global_position tracked);
|}.
Definition dom_SlotComponentDataLodestoneTracker (p : SlotComponentDataLodestoneTracker) : Prop :=
  option_dom dom_SlotComponentDataLodestoneTrackerGlobalPositionValue (SlotComponentDataLodestoneTracker_global_position p).
Definition bytes_SlotComponentDataLodestoneTracker (p : SlotComponentDataLodestoneTracker) : list byte :=
  concat [option_bytes bytes_SlotComponentDataLodestoneTrackerGlobalPositionValue (SlotComponentDataLodestoneTracker_global_position p);
    bool_bytes (SlotComponentDataLodestoneTracker_tracked p)].
#[export] Instance lawful_SlotComponentDataLodestoneTracker : LawfulCodec wire_SlotComponentDataLodestoneTracker dom_SlotComponentDataLodestoneTracker bytes_SlotComponentDataLodestoneTracker.
Proof. solve_struct. Qed.
#[export] Instance cost_SlotComponentDataLodestoneTracker : CodecCost dom_SlotComponentDataLodestoneTracker bytes_SlotComponentDataLodestoneTracker.
Proof. solve_head. Qed.
#[export] Instance safe_SlotComponentDataLodestoneTracker : SafeDecode wire_SlotComponentDataLodestoneTracker.
Proof. solve_safe. Qed.

Record SlotComponentDataPotDecorations : Type := mkSlotComponentDataPotDecorations {
  SlotComponentDataPotDecorations_decorations : list Z;
}.
Definition wire_SlotComponentDataPotDecorations : Codec SlotComponentDataPotDecorations := {|
  encode p :=
    encode (wire_Vec wire_varint) (SlotComponentDataPotDecorations_decorations p) ;;;
    ret tt;
  decode :=
    let* decorations := decode (wire_Vec wire_varint) in
    ret (mkSlotComponentDataPotDecorations decorations);
|}.
Definition dom_SlotComponentDataPotDecorations (p : SlotComponentDataPotDecorations) : Prop :=
  vec_dom (in_i 32) (SlotComponentDataPotDecorations_decorations p).
Definition bytes_SlotComponentDataPotDecorations (p : SlotComponentDataPotDecorations) : list byte :=
  concat [vec_bytes varint_bytes (SlotComponentDataPotDecorations_decorations p)].
#[export] Instance lawful_SlotComponentDataPotDecorations : LawfulCodec wire_SlotComponentDataPotDecorations dom_SlotComponentDataPotDecorations bytes_SlotComponentDataPotDecorations.
Proof. solve_struct. Qed.
#[export] Instance cost_SlotComponentDataPotDecorations : CodecCost dom_SlotComponentDataPotDecorations bytes_SlotComponentDataPotDecorations.
Proof. solve_head. Qed.
#[export] Instance safe_SlotComponentDataPotDecorations : SafeDecode wire_SlotComponentDataPotDecorations.
Proof. solve_safe. Qed.

Record SlotComponentDataPotionContents : Type := mkSlotComponentDataPotionContents {
  SlotComponentDataPotionContents_potion_id : option Z;
  SlotComponentDataPotionContents_custom_color : option Z;
  SlotComponentDataPotionContents_custom_effects : list ItemPotionEffect;
  SlotComponentDataPotionContents_custom_name : option string;
}.
Definition wire_SlotComponentDataPotionContents : Codec SlotComponentDataPotionContents := {|
  encode p :=
    encode (wire_Option wire_varint) (SlotComponentDataPotionContents_potion_id p) ;;;
    encode (wire_Option wire_i32) (SlotComponentDataPotionContents_custom_color p) ;;;
    encode (wire_Vec wire_ItemPotionEffect) (SlotComponentDataPotionContents_custom_effects p) ;;;
    encode (wire_Option wire_String) (SlotComponentDataPotionContents_custom_name p) ;;;
    ret tt;
  decode :=
    let* potion_id := decode (wire_Option wire_varint) in
    let* custom_color := decode (wire_Option wire_i32) in
    let* custom_effects := decode (wire_Vec wire_ItemPotionEffect) in
    let* custom_name := decode (wire_Option wire_String) in
    ret (mkSlotComponentDataPotionContents potion_id custom_color custom_effects custom_name);
|}.
Definition dom_SlotComponentDataPotionContents (p : SlotComponentDataPotionContents) : Prop :=
  option_dom (in_i 32) (SlotComponentDataPotionContents_potion_id p)
  ∧ option_dom (in_i 32) (SlotComponentDataPotionContents_custom_color p)
  ∧ vec_dom dom_ItemPotionEffect (SlotComponentDataPotionContents_custom_effects p)
  ∧ option_dom wire_string (SlotComponentDataPotionContents_custom_name p).
Definition bytes_SlotComponentDataPotionContents (p : SlotComponentDataPotionContents) : list byte :=
  concat [option_bytes varint_bytes (SlotComponentDataPotionContents_potion_id p);
    option_bytes (be_bytes 4) (SlotComponentDataPotionContents_custom_color p);
    vec_bytes bytes_ItemPotionEffect (SlotComponentDataPotionContents_custom_effects p);
    option_bytes string_bytes (SlotComponentDataPotionContents_custom_name p)].
#[export] Instance lawful_SlotComponentDataPotionContents : LawfulCodec wire_SlotComponentDataPotionContents dom_SlotComponentDataPotionContents bytes_SlotComponentDataPotionContents.
Proof. solve_struct. Qed.
#[export] Instance cost_SlotComponentDataPotionContents : CodecCost dom_SlotComponentDataPotionContents bytes_SlotComponentDataPotionContents.
Proof. solve_head. Qed.
#[export] Instance safe_SlotComponentDataPotionContents : SafeDecode wire_SlotComponentDataPotionContents.
Proof. solve_safe. Qed.

Record SlotComponentDataProfilePropertiesItem : Type := mkSlotComponentDataProfilePropertiesItem {
  SlotComponentDataProfilePropertiesItem_name : string;
  SlotComponentDataProfilePropertiesItem_value : string;
  SlotComponentDataProfilePropertiesItem_signature : option string;
}.
Definition wire_SlotComponentDataProfilePropertiesItem : Codec SlotComponentDataProfilePropertiesItem := {|
  encode p :=
    encode wire_String (SlotComponentDataProfilePropertiesItem_name p) ;;;
    encode wire_String (SlotComponentDataProfilePropertiesItem_value p) ;;;
    encode (wire_Option wire_String) (SlotComponentDataProfilePropertiesItem_signature p) ;;;
    ret tt;
  decode :=
    let* name := decode wire_String in
    let* value := decode wire_String in
    let* signature := decode (wire_Option wire_String) in
    ret (mkSlotComponentDataProfilePropertiesItem name value signature);
|}.
Definition dom_SlotComponentDataProfilePropertiesItem (p : SlotComponentDataProfilePropertiesItem) : Prop :=
  wire_string (SlotComponentDataProfilePropertiesItem_name p)
  ∧ wire_string (SlotComponentDataProfilePropertiesItem_value p)
  ∧ option_dom wire_string (SlotComponentDataProfilePropertiesItem_signature p).
Definition bytes_SlotComponentDataProfilePropertiesItem (p : SlotComponentDataProfilePropertiesItem) : list byte :=
  concat [string_bytes (SlotComponentDataProfilePropertiesItem_name p);
    string_bytes (SlotComponentDataProfilePropertiesItem_value p);
    option_bytes string_bytes (SlotComponentDataProfilePropertiesItem_signature p)].
#[export] Instance lawful_SlotComponentDataProfilePropertiesItem : LawfulCodec wire_SlotComponentDataProfilePropertiesItem dom_SlotComponentDataProfilePropertiesItem bytes_SlotComponentDataProfilePropertiesItem.
Proof. solve_struct. Qed.
#[export] Instance cost_SlotComponentDataProfilePropertiesItem : CodecCost dom_SlotComponentDataProfilePropertiesItem bytes_SlotComponentDataProfilePropertiesItem.
Proof. solve_head. Qed.
#[export] Instance safe_SlotComponentDataProfilePropertiesItem : SafeDecode wire_SlotComponentDataProfilePropertiesItem.
Proof. solve_safe. Qed.

Record SlotComponentDataProfile : Type := mkSlotComponentDataProfile {
  SlotComponentDataProfile_name : option string;
  SlotComponentDataProfile_uuid : option Z;
  SlotComponentDataProfile_properties : list SlotComponentDataProfilePropertiesItem;
}.
Definition wire_SlotComponentDataProfile : Codec SlotComponentDataProfile := {|
  encode p :=
    encode (wire_Option wire_String) (SlotComponentDataProfile_name p) ;;;
    encode (wire_Option wire_u128) (SlotComponentDataProfile_uuid p) ;;;
    encode (wire_Vec wire_SlotComponentDataProfilePropertiesItem) (SlotComponentDataProfile_properties p) ;;;
    ret tt;
  decode :=
    let* name := decode (wire_Option wire_String) in
    let* uuid := decode (wire_Option wire_u128) in
    let* properties := decode (wire_Vec wire_SlotComponentDataProfilePropertiesItem) in
    ret (mkSlotComponentDataProfile name uuid properties);
|}.
Definition dom_SlotComponentDataProfile (p : SlotComponentDataProfile) : Prop :=
  option_dom wire_string (SlotComponentDataProfile_name p)
  ∧ option_dom (in_u 128) (SlotComponentDataProfile_uuid p)
  ∧ vec_dom dom_SlotComponentDataProfilePropertiesItem (SlotComponentDataProfile_properties p).
Definition bytes_SlotComponentDataProfile (p : SlotComponentDataProfile) : list byte :=
  concat [option_bytes string_bytes (SlotComponentDataProfile_name p);
    option_bytes (be_bytes 16) (SlotComponentDataProfile_uuid p);
    vec_bytes bytes_SlotComponentDataProfilePropertiesItem (SlotComponentDataProfile_properties p)].
#[export] Instance lawful_SlotComponentDataProfile : LawfulCodec wire_SlotComponentDataProfile dom_SlotComponentDataProfile bytes_SlotComponentDataProfile.
Proof. solve_struct. Qed.
#[export] Instance cost_SlotComponentDataProfile : CodecCost dom_SlotComponentDataProfile bytes_SlotComponentDataProfile.
Proof. solve_head. Qed.
#[export] Instance safe_SlotComponentDataProfile : SafeDecode wire_SlotComponentDataProfile.
Proof. solve_safe. Qed.

Inductive SlotComponentDataRarity : Type :=
  | SlotComponentDataRarity_Common
  | SlotComponentDataRarity_Uncommon
  | SlotComponentDataRarity_Rare
  | SlotComponentDataRarity_Epic.
Definition value_SlotComponentDataRarity (v : SlotComponentDataRarity) : Z :=
  match v with
  | SlotComponentDataRarity_Common => 0
  | SlotComponentDataRarity_Uncommon => 1
  | SlotComponentDataRarity_Rare => 2
  | SlotComponentDataRarity_Epic => 3
  end.
Definition of_SlotComponentDataRarity (value : Z) : option SlotComponentDataRarity :=
  match value with
  | 0 => Some SlotComponentDataRarity_Common
  | 1 => Some SlotComponentDataRarity_Uncommon
  | 2 => Some SlotComponentDataRarity_Rare
  | 3 => Some SlotComponentDataRarity_Epic
  | _ => None
  end.
#[export] Instance SlotComponentDataRarity_eq_dec : EqDecision SlotComponentDataRarity.
Proof. apply (value_eq_dec value_SlotComponentDataRarity), (value_inj _ of_SlotComponentDataRarity). by intros []. Defined.
Definition wire_SlotComponentDataRarity : Codec SlotComponentDataRarity := {|
  encode v := modify (write_varint (value_SlotComponentDataRarity v));
  decode :=
    let* value := read_varint in
    match of_SlotComponentDataRarity value with
    | Some v => ret v
    | None => raise (UnknownEnumValue "SlotComponentDataRarity" value)
    end;
|}.
Definition dom_SlotComponentDataRarity (_ : SlotComponentDataRarity) : Prop := True.
Definition bytes_SlotComponentDataRarity (v : SlotComponentDataRarity) : list byte := varint_bytes (value_SlotComponentDataRarity v).
#[export] Instance lawful_SlotComponentDataRarity : LawfulCodec wire_SlotComponentDataRarity dom_SlotComponentDataRarity bytes_SlotComponentDataRarity.
Proof. solve_enum. Qed.
#[export] Instance cost_SlotComponentDataRarity : CodecCost dom_SlotComponentDataRarity bytes_SlotComponentDataRarity.
Proof. solve_cost. Qed.
#[export] Instance safe_SlotComponentDataRarity : SafeDecode wire_SlotComponentDataRarity.
Proof. solve_safe. Qed.

Record SlotComponentDataRepairable : Type := mkSlotComponentDataRepairable {
  SlotComponentDataRepairable_items : HolderSet;
}.
Definition wire_SlotComponentDataRepairable : Codec SlotComponentDataRepairable := {|
  encode p :=
    encode wire_HolderSet (SlotComponentDataRepairable_items p) ;;;
    ret tt;
  decode :=
    let* items := decode wire_HolderSet in
    ret (mkSlotComponentDataRepairable items);
|}.
Definition dom_SlotComponentDataRepairable (p : SlotComponentDataRepairable) : Prop :=
  holder_set_dom (SlotComponentDataRepairable_items p).
Definition bytes_SlotComponentDataRepairable (p : SlotComponentDataRepairable) : list byte :=
  concat [holder_set_bytes (SlotComponentDataRepairable_items p)].
#[export] Instance lawful_SlotComponentDataRepairable : LawfulCodec wire_SlotComponentDataRepairable dom_SlotComponentDataRepairable bytes_SlotComponentDataRepairable.
Proof. solve_struct. Qed.
#[export] Instance cost_SlotComponentDataRepairable : CodecCost dom_SlotComponentDataRepairable bytes_SlotComponentDataRepairable.
Proof. solve_head. Qed.
#[export] Instance safe_SlotComponentDataRepairable : SafeDecode wire_SlotComponentDataRepairable.
Proof. solve_safe. Qed.

Record SlotComponentDataStoredEnchantmentsEnchantmentsItem : Type := mkSlotComponentDataStoredEnchantmentsEnchantmentsItem {
  SlotComponentDataStoredEnchantmentsEnchantmentsItem_id : Z;
  SlotComponentDataStoredEnchantmentsEnchantmentsItem_level : Z;
}.
Definition wire_SlotComponentDataStoredEnchantmentsEnchantmentsItem : Codec SlotComponentDataStoredEnchantmentsEnchantmentsItem := {|
  encode p :=
    modify (write_varint (SlotComponentDataStoredEnchantmentsEnchantmentsItem_id p)) ;;;
    modify (write_varint (SlotComponentDataStoredEnchantmentsEnchantmentsItem_level p)) ;;;
    ret tt;
  decode :=
    let* id_ := read_varint in
    let* level := read_varint in
    ret (mkSlotComponentDataStoredEnchantmentsEnchantmentsItem id_ level);
|}.
Definition dom_SlotComponentDataStoredEnchantmentsEnchantmentsItem (p : SlotComponentDataStoredEnchantmentsEnchantmentsItem) : Prop :=
  in_i 32 (SlotComponentDataStoredEnchantmentsEnchantmentsItem_id p)
  ∧ in_i 32 (SlotComponentDataStoredEnchantmentsEnchantmentsItem_level p).
Definition bytes_SlotComponentDataStoredEnchantmentsEnchantmentsItem (p : SlotComponentDataStoredEnchantmentsEnchantmentsItem) : list byte :=
  concat [varint_bytes (SlotComponentDataStoredEnchantmentsEnchantmentsItem_id p);
    varint_bytes (SlotComponentDataStoredEnchantmentsEnchantmentsItem_level p)].
#[export] Instance lawful_SlotComponentDataStoredEnchantmentsEnchantmentsItem : LawfulCodec wire_SlotComponentDataStoredEnchantmentsEnchantmentsItem dom_SlotComponentDataStoredEnchantmentsEnchantmentsItem bytes_SlotComponentDataStoredEnchantmentsEnchantmentsItem.
Proof. solve_struct. Qed.
#[export] Instance cost_SlotComponentDataStoredEnchantmentsEnchantmentsItem : CodecCost dom_SlotComponentDataStoredEnchantmentsEnchantmentsItem bytes_SlotComponentDataStoredEnchantmentsEnchantmentsItem.
Proof. solve_head. Qed.
#[export] Instance safe_SlotComponentDataStoredEnchantmentsEnchantmentsItem : SafeDecode wire_SlotComponentDataStoredEnchantmentsEnchantmentsItem.
Proof. solve_safe. Qed.

Record SlotComponentDataStoredEnchantments : Type := mkSlotComponentDataStoredEnchantments {
  SlotComponentDataStoredEnchantments_enchantments : list SlotComponentDataStoredEnchantmentsEnchantmentsItem;
  SlotComponentDataStoredEnchantments_show_in_tooltip : bool;
}.
Definition wire_SlotComponentDataStoredEnchantments : Codec SlotComponentDataStoredEnchantments := {|
  encode p :=
    encode (wire_Vec wire_SlotComponentDataStoredEnchantmentsEnchantmentsItem) (SlotComponentDataStoredEnchantments_enchantments p) ;;;
    encode wire_bool (SlotComponentDataStoredEnchantments_show_in_tooltip p) ;;;
    ret tt;
  decode :=
    let* enchantments := decode (wire_Vec wire_SlotComponentDataStoredEnchantmentsEnchantmentsItem) in
    let* show_in_tooltip := decode wire_bool in
    ret (mkSlotComponentDataStoredEnchantments enchantments show_in_tooltip);
|}.
Definition dom_SlotComponentDataStoredEnchantments (p : SlotComponentDataStoredEnchantments) : Prop :=
  vec_dom dom_SlotComponentDataStoredEnchantmentsEnchantmentsItem (SlotComponentDataStoredEnchantments_enchantments p).
Definition bytes_SlotComponentDataStoredEnchantments (p : SlotComponentDataStoredEnchantments) : list byte :=
  concat [vec_bytes bytes_SlotComponentDataStoredEnchantmentsEnchantmentsItem (SlotComponentDataStoredEnchantments_enchantments p);
    bool_bytes (SlotComponentDataStoredEnchantments_show_in_tooltip p)].
#[export] Instance lawful_SlotComponentDataStoredEnchantments : LawfulCodec wire_SlotComponentDataStoredEnchantments dom_SlotComponentDataStoredEnchantments bytes_SlotComponentDataStoredEnchantments.
Proof. solve_struct. Qed.
#[export] Instance cost_SlotComponentDataStoredEnchantments : CodecCost dom_SlotComponentDataStoredEnchantments bytes_SlotComponentDataStoredEnchantments.
Proof. solve_head. Qed.
#[export] Instance safe_SlotComponentDataStoredEnchantments : SafeDecode wire_SlotComponentDataStoredEnchantments.
Proof. solve_safe. Qed.

Record SlotComponentDataSuspiciousStewEffectsEffectsItem : Type := mkSlotComponentDataSuspiciousStewEffectsEffectsItem {
  SlotComponentDataSuspiciousStewEffectsEffectsItem_effect : Z;
  SlotComponentDataSuspiciousStewEffectsEffectsItem_duration : Z;
}.
Definition wire_SlotComponentDataSuspiciousStewEffectsEffectsItem : Codec SlotComponentDataSuspiciousStewEffectsEffectsItem := {|
  encode p :=
    modify (write_varint (SlotComponentDataSuspiciousStewEffectsEffectsItem_effect p)) ;;;
    modify (write_varint (SlotComponentDataSuspiciousStewEffectsEffectsItem_duration p)) ;;;
    ret tt;
  decode :=
    let* effect := read_varint in
    let* duration := read_varint in
    ret (mkSlotComponentDataSuspiciousStewEffectsEffectsItem effect duration);
|}.
Definition dom_SlotComponentDataSuspiciousStewEffectsEffectsItem (p : SlotComponentDataSuspiciousStewEffectsEffectsItem) : Prop :=
  in_i 32 (SlotComponentDataSuspiciousStewEffectsEffectsItem_effect p)
  ∧ in_i 32 (SlotComponentDataSuspiciousStewEffectsEffectsItem_duration p).
Definition bytes_SlotComponentDataSuspiciousStewEffectsEffectsItem (p : SlotComponentDataSuspiciousStewEffectsEffectsItem) : list byte :=
  concat [varint_bytes (SlotComponentDataSuspiciousStewEffectsEffectsItem_effect p);
    varint_bytes (SlotComponentDataSuspiciousStewEffectsEffectsItem_duration p)].
#[export] Instance lawful_SlotComponentDataSuspiciousStewEffectsEffectsItem : LawfulCodec wire_SlotComponentDataSuspiciousStewEffectsEffectsItem dom_SlotComponentDataSuspiciousStewEffectsEffectsItem bytes_SlotComponentDataSuspiciousStewEffectsEffectsItem.
Proof. solve_struct. Qed.
#[export] Instance cost_SlotComponentDataSuspiciousStewEffectsEffectsItem : CodecCost dom_SlotComponentDataSuspiciousStewEffectsEffectsItem bytes_SlotComponentDataSuspiciousStewEffectsEffectsItem.
Proof. solve_head. Qed.
#[export] Instance safe_SlotComponentDataSuspiciousStewEffectsEffectsItem : SafeDecode wire_SlotComponentDataSuspiciousStewEffectsEffectsItem.
Proof. solve_safe. Qed.

Record SlotComponentDataSuspiciousStewEffects : Type := mkSlotComponentDataSuspiciousStewEffects {
  SlotComponentDataSuspiciousStewEffects_effects : list SlotComponentDataSuspiciousStewEffectsEffectsItem;
}.
Definition wire_SlotComponentDataSuspiciousStewEffects : Codec SlotComponentDataSuspiciousStewEffects := {|
  encode p :=
    encode (wire_Vec wire_SlotComponentDataSuspiciousStewEffectsEffectsItem) (SlotComponentDataSuspiciousStewEffects_effects p) ;;;
    ret tt;
  decode :=
    let* effects := decode (wire_Vec wire_SlotComponentDataSuspiciousStewEffectsEffectsItem) in
    ret (mkSlotComponentDataSuspiciousStewEffects effects);
|}.
Definition dom_SlotComponentDataSuspiciousStewEffects (p : SlotComponentDataSuspiciousStewEffects) : Prop :=
  vec_dom dom_SlotComponentDataSuspiciousStewEffectsEffectsItem (SlotComponentDataSuspiciousStewEffects_effects p).
Definition bytes_SlotComponentDataSuspiciousStewEffects (p : SlotComponentDataSuspiciousStewEffects) : list byte :=
  concat [vec_bytes bytes_SlotComponentDataSuspiciousStewEffectsEffectsItem (SlotComponentDataSuspiciousStewEffects_effects p)].
#[export] Instance lawful_SlotComponentDataSuspiciousStewEffects : LawfulCodec wire_SlotComponentDataSuspiciousStewEffects dom_SlotComponentDataSuspiciousStewEffects bytes_SlotComponentDataSuspiciousStewEffects.
Proof. solve_struct. Qed.
#[export] Instance cost_SlotComponentDataSuspiciousStewEffects : CodecCost dom_SlotComponentDataSuspiciousStewEffects bytes_SlotComponentDataSuspiciousStewEffects.
Proof. solve_head. Qed.
#[export] Instance safe_SlotComponentDataSuspiciousStewEffects : SafeDecode wire_SlotComponentDataSuspiciousStewEffects.
Proof. solve_safe. Qed.

Record SlotComponentDataToolRulesItem : Type := mkSlotComponentDataToolRulesItem {
  SlotComponentDataToolRulesItem_blocks : HolderSet;
  SlotComponentDataToolRulesItem_speed : option Z;
  SlotComponentDataToolRulesItem_correct_drop_for_blocks : option bool;
}.
Definition wire_SlotComponentDataToolRulesItem : Codec SlotComponentDataToolRulesItem := {|
  encode p :=
    encode wire_HolderSet (SlotComponentDataToolRulesItem_blocks p) ;;;
    encode (wire_Option wire_f32) (SlotComponentDataToolRulesItem_speed p) ;;;
    encode (wire_Option wire_bool) (SlotComponentDataToolRulesItem_correct_drop_for_blocks p) ;;;
    ret tt;
  decode :=
    let* blocks := decode wire_HolderSet in
    let* speed := decode (wire_Option wire_f32) in
    let* correct_drop_for_blocks := decode (wire_Option wire_bool) in
    ret (mkSlotComponentDataToolRulesItem blocks speed correct_drop_for_blocks);
|}.
Definition dom_SlotComponentDataToolRulesItem (p : SlotComponentDataToolRulesItem) : Prop :=
  holder_set_dom (SlotComponentDataToolRulesItem_blocks p)
  ∧ option_dom (in_u 32) (SlotComponentDataToolRulesItem_speed p)
  ∧ option_dom any_value (SlotComponentDataToolRulesItem_correct_drop_for_blocks p).
Definition bytes_SlotComponentDataToolRulesItem (p : SlotComponentDataToolRulesItem) : list byte :=
  concat [holder_set_bytes (SlotComponentDataToolRulesItem_blocks p);
    option_bytes (be_bytes 4) (SlotComponentDataToolRulesItem_speed p);
    option_bytes bool_bytes (SlotComponentDataToolRulesItem_correct_drop_for_blocks p)].
#[export] Instance lawful_SlotComponentDataToolRulesItem : LawfulCodec wire_SlotComponentDataToolRulesItem dom_SlotComponentDataToolRulesItem bytes_SlotComponentDataToolRulesItem.
Proof. solve_struct. Qed.
#[export] Instance cost_SlotComponentDataToolRulesItem : CodecCost dom_SlotComponentDataToolRulesItem bytes_SlotComponentDataToolRulesItem.
Proof. solve_head. Qed.
#[export] Instance safe_SlotComponentDataToolRulesItem : SafeDecode wire_SlotComponentDataToolRulesItem.
Proof. solve_safe. Qed.

Record SlotComponentDataTool : Type := mkSlotComponentDataTool {
  SlotComponentDataTool_rules : list SlotComponentDataToolRulesItem;
  SlotComponentDataTool_default_mining_speed : Z;
  SlotComponentDataTool_damage_per_block : Z;
}.
Definition wire_SlotComponentDataTool : Codec SlotComponentDataTool := {|
  encode p :=
    encode (wire_Vec wire_SlotComponentDataToolRulesItem) (SlotComponentDataTool_rules p) ;;;
    encode wire_f32 (SlotComponentDataTool_default_mining_speed p) ;;;
    modify (write_varint (SlotComponentDataTool_damage_per_block p)) ;;;
    ret tt;
  decode :=
    let* rules := decode (wire_Vec wire_SlotComponentDataToolRulesItem) in
    let* default_mining_speed := decode wire_f32 in
    let* damage_per_block := read_varint in
    ret (mkSlotComponentDataTool rules default_mining_speed damage_per_block);
|}.
Definition dom_SlotComponentDataTool (p : SlotComponentDataTool) : Prop :=
  vec_dom dom_SlotComponentDataToolRulesItem (SlotComponentDataTool_rules p)
  ∧ in_u 32 (SlotComponentDataTool_default_mining_speed p)
  ∧ in_i 32 (SlotComponentDataTool_damage_per_block p).
Definition bytes_SlotComponentDataTool (p : SlotComponentDataTool) : list byte :=
  concat [vec_bytes bytes_SlotComponentDataToolRulesItem (SlotComponentDataTool_rules p);
    be_bytes 4 (SlotComponentDataTool_default_mining_speed p);
    varint_bytes (SlotComponentDataTool_damage_per_block p)].
#[export] Instance lawful_SlotComponentDataTool : LawfulCodec wire_SlotComponentDataTool dom_SlotComponentDataTool bytes_SlotComponentDataTool.
Proof. solve_struct. Qed.
#[export] Instance cost_SlotComponentDataTool : CodecCost dom_SlotComponentDataTool bytes_SlotComponentDataTool.
Proof. solve_head. Qed.
#[export] Instance safe_SlotComponentDataTool : SafeDecode wire_SlotComponentDataTool.
Proof. solve_safe. Qed.

Record ArmorTrimMaterialOverrideArmorAssetsItem : Type := mkArmorTrimMaterialOverrideArmorAssetsItem {
  ArmorTrimMaterialOverrideArmorAssetsItem_key : string;
  ArmorTrimMaterialOverrideArmorAssetsItem_value : string;
}.
Definition wire_ArmorTrimMaterialOverrideArmorAssetsItem : Codec ArmorTrimMaterialOverrideArmorAssetsItem := {|
  encode p :=
    encode wire_String (ArmorTrimMaterialOverrideArmorAssetsItem_key p) ;;;
    encode wire_String (ArmorTrimMaterialOverrideArmorAssetsItem_value p) ;;;
    ret tt;
  decode :=
    let* key := decode wire_String in
    let* value := decode wire_String in
    ret (mkArmorTrimMaterialOverrideArmorAssetsItem key value);
|}.
Definition dom_ArmorTrimMaterialOverrideArmorAssetsItem (p : ArmorTrimMaterialOverrideArmorAssetsItem) : Prop :=
  wire_string (ArmorTrimMaterialOverrideArmorAssetsItem_key p)
  ∧ wire_string (ArmorTrimMaterialOverrideArmorAssetsItem_value p).
Definition bytes_ArmorTrimMaterialOverrideArmorAssetsItem (p : ArmorTrimMaterialOverrideArmorAssetsItem) : list byte :=
  concat [string_bytes (ArmorTrimMaterialOverrideArmorAssetsItem_key p);
    string_bytes (ArmorTrimMaterialOverrideArmorAssetsItem_value p)].
#[export] Instance lawful_ArmorTrimMaterialOverrideArmorAssetsItem : LawfulCodec wire_ArmorTrimMaterialOverrideArmorAssetsItem dom_ArmorTrimMaterialOverrideArmorAssetsItem bytes_ArmorTrimMaterialOverrideArmorAssetsItem.
Proof. solve_struct. Qed.
#[export] Instance cost_ArmorTrimMaterialOverrideArmorAssetsItem : CodecCost dom_ArmorTrimMaterialOverrideArmorAssetsItem bytes_ArmorTrimMaterialOverrideArmorAssetsItem.
Proof. solve_head. Qed.
#[export] Instance safe_ArmorTrimMaterialOverrideArmorAssetsItem : SafeDecode wire_ArmorTrimMaterialOverrideArmorAssetsItem.
Proof. solve_safe. Qed.

Record ArmorTrimMaterial : Type := mkArmorTrimMaterial {
  ArmorTrimMaterial_asset_name : string;
  ArmorTrimMaterial_ingredient_id : Z;
  ArmorTrimMaterial_override_armor_assets : list ArmorTrimMaterialOverrideArmorAssetsItem;
  ArmorTrimMaterial_description : Nbt;
}.
Definition wire_ArmorTrimMaterial : Codec ArmorTrimMaterial := {|
  encode p :=
    encode wire_String (ArmorTrimMaterial_asset_name p) ;;;
    modify (write_varint (ArmorTrimMaterial_ingredient_id p)) ;;;
    encode (wire_Vec wire_ArmorTrimMaterialOverrideArmorAssetsItem) (ArmorTrimMaterial_override_armor_assets p) ;;;
    encode wire_Nbt (ArmorTrimMaterial_description p) ;;;
    ret tt;
  decode :=
    let* asset_name := decode wire_String in
    let* ingredient_id := read_varint in
    let* override_armor_assets := decode (wire_Vec wire_ArmorTrimMaterialOverrideArmorAssetsItem) in
    let* description := decode wire_Nbt in
    ret (mkArmorTrimMaterial asset_name ingredient_id override_armor_assets description);
|}.
Definition dom_ArmorTrimMaterial (p : ArmorTrimMaterial) : Prop :=
  wire_string (ArmorTrimMaterial_asset_name p)
  ∧ in_i 32 (ArmorTrimMaterial_ingredient_id p)
  ∧ vec_dom dom_ArmorTrimMaterialOverrideArmorAssetsItem (ArmorTrimMaterial_override_armor_assets p)
  ∧ nbt_fits (ArmorTrimMaterial_description p).
Definition bytes_ArmorTrimMaterial (p : ArmorTrimMaterial) : list byte :=
  concat [string_bytes (ArmorTrimMaterial_asset_name p);
    varint_bytes (ArmorTrimMaterial_ingredient_id p);
    vec_bytes bytes_ArmorTrimMaterialOverrideArmorAssetsItem (ArmorTrimMaterial_override_armor_assets p);
    nbt_bytes (ArmorTrimMaterial_description p)].
#[export] Instance lawful_ArmorTrimMaterial : LawfulCodec wire_ArmorTrimMaterial dom_ArmorTrimMaterial bytes_ArmorTrimMaterial.
Proof. solve_struct. Qed.
#[export] Instance cost_ArmorTrimMaterial : CodecCost dom_ArmorTrimMaterial bytes_ArmorTrimMaterial.
Proof. solve_head. Qed.
#[export] Instance safe_ArmorTrimMaterial : SafeDecode wire_ArmorTrimMaterial.
Proof. solve_safe. Qed.

Record ArmorTrimPattern : Type := mkArmorTrimPattern {
  ArmorTrimPattern_asset_id : string;
  ArmorTrimPattern_template_item_id : Z;
  ArmorTrimPattern_description : Nbt;
  ArmorTrimPattern_decal : bool;
}.
Definition wire_ArmorTrimPattern : Codec ArmorTrimPattern := {|
  encode p :=
    encode wire_String (ArmorTrimPattern_asset_id p) ;;;
    modify (write_varint (ArmorTrimPattern_template_item_id p)) ;;;
    encode wire_Nbt (ArmorTrimPattern_description p) ;;;
    encode wire_bool (ArmorTrimPattern_decal p) ;;;
    ret tt;
  decode :=
    let* asset_id := decode wire_String in
    let* template_item_id := read_varint in
    let* description := decode wire_Nbt in
    let* decal := decode wire_bool in
    ret (mkArmorTrimPattern asset_id template_item_id description decal);
|}.
Definition dom_ArmorTrimPattern (p : ArmorTrimPattern) : Prop :=
  wire_string (ArmorTrimPattern_asset_id p)
  ∧ in_i 32 (ArmorTrimPattern_template_item_id p)
  ∧ nbt_fits (ArmorTrimPattern_description p).
Definition bytes_ArmorTrimPattern (p : ArmorTrimPattern) : list byte :=
  concat [string_bytes (ArmorTrimPattern_asset_id p);
    varint_bytes (ArmorTrimPattern_template_item_id p);
    nbt_bytes (ArmorTrimPattern_description p);
    bool_bytes (ArmorTrimPattern_decal p)].
#[export] Instance lawful_ArmorTrimPattern : LawfulCodec wire_ArmorTrimPattern dom_ArmorTrimPattern bytes_ArmorTrimPattern.
Proof. solve_struct. Qed.
#[export] Instance cost_ArmorTrimPattern : CodecCost dom_ArmorTrimPattern bytes_ArmorTrimPattern.
Proof. solve_head. Qed.
#[export] Instance safe_ArmorTrimPattern : SafeDecode wire_ArmorTrimPattern.
Proof. solve_safe. Qed.

Record SlotComponentDataTrim : Type := mkSlotComponentDataTrim {
  SlotComponentDataTrim_material : Holder ArmorTrimMaterial;
  SlotComponentDataTrim_pattern : Holder ArmorTrimPattern;
  SlotComponentDataTrim_show_in_tooltip : bool;
}.
Definition wire_SlotComponentDataTrim : Codec SlotComponentDataTrim := {|
  encode p :=
    encode (wire_Holder wire_ArmorTrimMaterial) (SlotComponentDataTrim_material p) ;;;
    encode (wire_Holder wire_ArmorTrimPattern) (SlotComponentDataTrim_pattern p) ;;;
    encode wire_bool (SlotComponentDataTrim_show_in_tooltip p) ;;;
    ret tt;
  decode :=
    let* material := decode (wire_Holder wire_ArmorTrimMaterial) in
    let* pattern := decode (wire_Holder wire_ArmorTrimPattern) in
    let* show_in_tooltip := decode wire_bool in
    ret (mkSlotComponentDataTrim material pattern show_in_tooltip);
|}.
Definition dom_SlotComponentDataTrim (p : SlotComponentDataTrim) : Prop :=
  holder_dom dom_ArmorTrimMaterial (SlotComponentDataTrim_material p)
  ∧ holder_dom dom_ArmorTrimPattern (SlotComponentDataTrim_pattern p).
Definition bytes_SlotComponentDataTrim (p : SlotComponentDataTrim) : list byte :=
  concat [holder_bytes bytes_ArmorTrimMaterial (SlotComponentDataTrim_material p);
    holder_bytes bytes_ArmorTrimPattern (SlotComponentDataTrim_pattern p);
    bool_bytes (SlotComponentDataTrim_show_in_tooltip p)].
#[export] Instance lawful_SlotComponentDataTrim : LawfulCodec wire_SlotComponentDataTrim dom_SlotComponentDataTrim bytes_SlotComponentDataTrim.
Proof. solve_struct. Qed.
#[export] Instance cost_SlotComponentDataTrim : CodecCost dom_SlotComponentDataTrim bytes_SlotComponentDataTrim.
Proof. solve_head. Qed.
#[export] Instance safe_SlotComponentDataTrim : SafeDecode wire_SlotComponentDataTrim.
Proof. solve_safe. Qed.

Record SlotComponentDataUseCooldown : Type := mkSlotComponentDataUseCooldown {
  SlotComponentDataUseCooldown_seconds : Z;
  SlotComponentDataUseCooldown_cooldown_group : option string;
}.
Definition wire_SlotComponentDataUseCooldown : Codec SlotComponentDataUseCooldown := {|
  encode p :=
    encode wire_f32 (SlotComponentDataUseCooldown_seconds p) ;;;
    encode (wire_Option wire_String) (SlotComponentDataUseCooldown_cooldown_group p) ;;;
    ret tt;
  decode :=
    let* seconds := decode wire_f32 in
    let* cooldown_group := decode (wire_Option wire_String) in
    ret (mkSlotComponentDataUseCooldown seconds cooldown_group);
|}.
Definition dom_SlotComponentDataUseCooldown (p : SlotComponentDataUseCooldown) : Prop :=
  in_u 32 (SlotComponentDataUseCooldown_seconds p)
  ∧ option_dom wire_string (SlotComponentDataUseCooldown_cooldown_group p).
Definition bytes_SlotComponentDataUseCooldown (p : SlotComponentDataUseCooldown) : list byte :=
  concat [be_bytes 4 (SlotComponentDataUseCooldown_seconds p);
    option_bytes string_bytes (SlotComponentDataUseCooldown_cooldown_group p)].
#[export] Instance lawful_SlotComponentDataUseCooldown : LawfulCodec wire_SlotComponentDataUseCooldown dom_SlotComponentDataUseCooldown bytes_SlotComponentDataUseCooldown.
Proof. solve_struct. Qed.
#[export] Instance cost_SlotComponentDataUseCooldown : CodecCost dom_SlotComponentDataUseCooldown bytes_SlotComponentDataUseCooldown.
Proof. solve_head. Qed.
#[export] Instance safe_SlotComponentDataUseCooldown : SafeDecode wire_SlotComponentDataUseCooldown.
Proof. solve_safe. Qed.

Record ItemBookPage : Type := mkItemBookPage {
  ItemBookPage_content : string;
  ItemBookPage_filtered_content : option string;
}.
Definition wire_ItemBookPage : Codec ItemBookPage := {|
  encode p :=
    encode wire_String (ItemBookPage_content p) ;;;
    encode (wire_Option wire_String) (ItemBookPage_filtered_content p) ;;;
    ret tt;
  decode :=
    let* content := decode wire_String in
    let* filtered_content := decode (wire_Option wire_String) in
    ret (mkItemBookPage content filtered_content);
|}.
Definition dom_ItemBookPage (p : ItemBookPage) : Prop :=
  wire_string (ItemBookPage_content p)
  ∧ option_dom wire_string (ItemBookPage_filtered_content p).
Definition bytes_ItemBookPage (p : ItemBookPage) : list byte :=
  concat [string_bytes (ItemBookPage_content p);
    option_bytes string_bytes (ItemBookPage_filtered_content p)].
#[export] Instance lawful_ItemBookPage : LawfulCodec wire_ItemBookPage dom_ItemBookPage bytes_ItemBookPage.
Proof. solve_struct. Qed.
#[export] Instance cost_ItemBookPage : CodecCost dom_ItemBookPage bytes_ItemBookPage.
Proof. solve_head. Qed.
#[export] Instance safe_ItemBookPage : SafeDecode wire_ItemBookPage.
Proof. solve_safe. Qed.

Record SlotComponentDataWritableBookContent : Type := mkSlotComponentDataWritableBookContent {
  SlotComponentDataWritableBookContent_pages : list ItemBookPage;
}.
Definition wire_SlotComponentDataWritableBookContent : Codec SlotComponentDataWritableBookContent := {|
  encode p :=
    encode (wire_Vec wire_ItemBookPage) (SlotComponentDataWritableBookContent_pages p) ;;;
    ret tt;
  decode :=
    let* pages := decode (wire_Vec wire_ItemBookPage) in
    ret (mkSlotComponentDataWritableBookContent pages);
|}.
Definition dom_SlotComponentDataWritableBookContent (p : SlotComponentDataWritableBookContent) : Prop :=
  vec_dom dom_ItemBookPage (SlotComponentDataWritableBookContent_pages p).
Definition bytes_SlotComponentDataWritableBookContent (p : SlotComponentDataWritableBookContent) : list byte :=
  concat [vec_bytes bytes_ItemBookPage (SlotComponentDataWritableBookContent_pages p)].
#[export] Instance lawful_SlotComponentDataWritableBookContent : LawfulCodec wire_SlotComponentDataWritableBookContent dom_SlotComponentDataWritableBookContent bytes_SlotComponentDataWritableBookContent.
Proof. solve_struct. Qed.
#[export] Instance cost_SlotComponentDataWritableBookContent : CodecCost dom_SlotComponentDataWritableBookContent bytes_SlotComponentDataWritableBookContent.
Proof. solve_head. Qed.
#[export] Instance safe_SlotComponentDataWritableBookContent : SafeDecode wire_SlotComponentDataWritableBookContent.
Proof. solve_safe. Qed.

Record ItemWrittenBookPage : Type := mkItemWrittenBookPage {
  ItemWrittenBookPage_content : Nbt;
  ItemWrittenBookPage_filtered_content : option Nbt;
}.
Definition wire_ItemWrittenBookPage : Codec ItemWrittenBookPage := {|
  encode p :=
    encode wire_Nbt (ItemWrittenBookPage_content p) ;;;
    encode wire_OptNbt (ItemWrittenBookPage_filtered_content p) ;;;
    ret tt;
  decode :=
    let* content := decode wire_Nbt in
    let* filtered_content := decode wire_OptNbt in
    ret (mkItemWrittenBookPage content filtered_content);
|}.
Definition dom_ItemWrittenBookPage (p : ItemWrittenBookPage) : Prop :=
  nbt_fits (ItemWrittenBookPage_content p)
  ∧ option_dom nbt_fits (ItemWrittenBookPage_filtered_content p).
Definition bytes_ItemWrittenBookPage (p : ItemWrittenBookPage) : list byte :=
  concat [nbt_bytes (ItemWrittenBookPage_content p);
    optnbt_bytes (ItemWrittenBookPage_filtered_content p)].
#[export] Instance lawful_ItemWrittenBookPage : LawfulCodec wire_ItemWrittenBookPage dom_ItemWrittenBookPage bytes_ItemWrittenBookPage.
Proof. solve_struct. Qed.
#[export] Instance cost_ItemWrittenBookPage : CodecCost dom_ItemWrittenBookPage bytes_ItemWrittenBookPage.
Proof. solve_head. Qed.
#[export] Instance safe_ItemWrittenBookPage : SafeDecode wire_ItemWrittenBookPage.
Proof. solve_safe. Qed.

Record SlotComponentDataWrittenBookContent : Type := mkSlotComponentDataWrittenBookContent {
  SlotComponentDataWrittenBookContent_raw_title : string;
  SlotComponentDataWrittenBookContent_filtered_title : option string;
  SlotComponentDataWrittenBookContent_author : string;
  SlotComponentDataWrittenBookContent_generation : Z;
  SlotComponentDataWrittenBookContent_pages : list ItemWrittenBookPage;
  SlotComponentDataWrittenBookContent_resolved : bool;
}.
Definition wire_SlotComponentDataWrittenBookContent : Codec SlotComponentDataWrittenBookContent := {|
  encode p :=
    encode wire_String (SlotComponentDataWrittenBookContent_raw_title p) ;;;
    encode (wire_Option wire_String) (SlotComponentDataWrittenBookContent_filtered_title p) ;;;
    encode wire_String (SlotComponentDataWrittenBookContent_author p) ;;;
    modify (write_varint (SlotComponentDataWrittenBookContent_generation p)) ;;;
    encode (wire_Vec wire_ItemWrittenBookPage) (SlotComponentDataWrittenBookContent_pages p) ;;;
    encode wire_bool (SlotComponentDataWrittenBookContent_resolved p) ;;;
    ret tt;
  decode :=
    let* raw_title := decode wire_String in
    let* filtered_title := decode (wire_Option wire_String) in
    let* author := decode wire_String in
    let* generation := read_varint in
    let* pages := decode (wire_Vec wire_ItemWrittenBookPage) in
    let* resolved := decode wire_bool in
    ret (mkSlotComponentDataWrittenBookContent raw_title filtered_title author generation pages resolved);
|}.
Definition dom_SlotComponentDataWrittenBookContent (p : SlotComponentDataWrittenBookContent) : Prop :=
  wire_string (SlotComponentDataWrittenBookContent_raw_title p)
  ∧ option_dom wire_string (SlotComponentDataWrittenBookContent_filtered_title p)
  ∧ wire_string (SlotComponentDataWrittenBookContent_author p)
  ∧ in_i 32 (SlotComponentDataWrittenBookContent_generation p)
  ∧ vec_dom dom_ItemWrittenBookPage (SlotComponentDataWrittenBookContent_pages p).
Definition bytes_SlotComponentDataWrittenBookContent (p : SlotComponentDataWrittenBookContent) : list byte :=
  concat [string_bytes (SlotComponentDataWrittenBookContent_raw_title p);
    option_bytes string_bytes (SlotComponentDataWrittenBookContent_filtered_title p);
    string_bytes (SlotComponentDataWrittenBookContent_author p);
    varint_bytes (SlotComponentDataWrittenBookContent_generation p);
    vec_bytes bytes_ItemWrittenBookPage (SlotComponentDataWrittenBookContent_pages p);
    bool_bytes (SlotComponentDataWrittenBookContent_resolved p)].
#[export] Instance lawful_SlotComponentDataWrittenBookContent : LawfulCodec wire_SlotComponentDataWrittenBookContent dom_SlotComponentDataWrittenBookContent bytes_SlotComponentDataWrittenBookContent.
Proof. solve_struct. Qed.
#[export] Instance cost_SlotComponentDataWrittenBookContent : CodecCost dom_SlotComponentDataWrittenBookContent bytes_SlotComponentDataWrittenBookContent.
Proof. solve_head. Qed.
#[export] Instance safe_SlotComponentDataWrittenBookContent : SafeDecode wire_SlotComponentDataWrittenBookContent.
Proof. solve_safe. Qed.

Record SlotValueDefaultRemoveComponentsItem : Type := mkSlotValueDefaultRemoveComponentsItem {
  SlotValueDefaultRemoveComponentsItem_type : SlotComponentType;
}.
Definition wire_SlotValueDefaultRemoveComponentsItem : Codec SlotValueDefaultRemoveComponentsItem := {|
  encode p :=
    encode wire_SlotComponentType (SlotValueDefaultRemoveComponentsItem_type p) ;;;
    ret tt;
  decode :=
    let* type_ := decode wire_SlotComponentType in
    ret (mkSlotValueDefaultRemoveComponentsItem type_);
|}.
Definition dom_SlotValueDefaultRemoveComponentsItem (p : SlotValueDefaultRemoveComponentsItem) : Prop :=
  dom_SlotComponentType (SlotValueDefaultRemoveComponentsItem_type p).
Definition bytes_SlotValueDefaultRemoveComponentsItem (p : SlotValueDefaultRemoveComponentsItem) : list byte :=
  concat [bytes_SlotComponentType (SlotValueDefaultRemoveComponentsItem_type p)].
#[export] Instance lawful_SlotValueDefaultRemoveComponentsItem : LawfulCodec wire_SlotValueDefaultRemoveComponentsItem dom_SlotValueDefaultRemoveComponentsItem bytes_SlotValueDefaultRemoveComponentsItem.
Proof. solve_struct. Qed.
#[export] Instance cost_SlotValueDefaultRemoveComponentsItem : CodecCost dom_SlotValueDefaultRemoveComponentsItem bytes_SlotValueDefaultRemoveComponentsItem.
Proof. solve_head. Qed.
#[export] Instance safe_SlotValueDefaultRemoveComponentsItem : SafeDecode wire_SlotValueDefaultRemoveComponentsItem.
Proof. solve_safe. Qed.
