(* ===== verification/Items.v ===== *)
(** * Items

    [Slot] of [crates/minerider-protocol/src/generated/v1_21_4/types.rs]: an
    item stack with its components.  Bundles, crossbow projectiles, containers
    and use remainders hold items again, so the component types are given over
    the type of items and the item type closes the recursion. *)

From S2P Require Import Prelude Machine Reader Varint Utf8 Buffer Wire Nbt PacketTypes Switch Recursion ItemTypes.

Local Open Scope Z_scope.

(** ** Components that hold items: types and encoders *)

Section encoders.
Context {Slot : Type} (encode_Slot : Slot → Write).

Record SlotComponentDataBundleContents : Type := mkSlotComponentDataBundleContents {
  SlotComponentDataBundleContents_contents : list Slot;
}.
Definition encode_SlotComponentDataBundleContents (p : SlotComponentDataBundleContents) : Write :=
  encode_Vec encode_Slot (SlotComponentDataBundleContents_contents p) ;;;
  ret tt.

Record SlotComponentDataChargedProjectiles : Type := mkSlotComponentDataChargedProjectiles {
  SlotComponentDataChargedProjectiles_projectiles : list Slot;
}.
Definition encode_SlotComponentDataChargedProjectiles (p : SlotComponentDataChargedProjectiles) : Write :=
  encode_Vec encode_Slot (SlotComponentDataChargedProjectiles_projectiles p) ;;;
  ret tt.

Record SlotComponentDataContainer : Type := mkSlotComponentDataContainer {
  SlotComponentDataContainer_contents : list Slot;
}.
Definition encode_SlotComponentDataContainer (p : SlotComponentDataContainer) : Write :=
  encode_Vec encode_Slot (SlotComponentDataContainer_contents p) ;;;
  ret tt.

Inductive SlotComponentData : Type :=
  | SlotComponentData_AttributeModifiers (v : SlotComponentDataAttributeModifiers)
  | SlotComponentData_BannerPatterns (v : SlotComponentDataBannerPatterns)
  | SlotComponentData_BaseColor (v : Z)
  | SlotComponentData_Bees (v : SlotComponentDataBees)
  | SlotComponentData_BlockEntityData (v : Nbt)
  | SlotComponentData_BlockState (v : SlotComponentDataBlockState)
  | SlotComponentData_BucketEntityData (v : Nbt)
  | SlotComponentData_BundleContents (v : SlotComponentDataBundleContents)
  | SlotComponentData_CanBreak (v : SlotComponentDataCanBreak)
  | SlotComponentData_CanPlaceOn (v : SlotComponentDataCanPlaceOn)
  | SlotComponentData_ChargedProjectiles (v : SlotComponentDataChargedProjectiles)
  | SlotComponentData_Consumable (v : SlotComponentDataConsumable)
  | SlotComponentData_Container (v : SlotComponentDataContainer)
  | SlotComponentData_ContainerLoot (v : Nbt)
  | SlotComponentData_CreativeSlotLock
  | SlotComponentData_CustomData (v : Nbt)
  | SlotComponentData_CustomModelData (v : SlotComponentDataCustomModelData)
  | SlotComponentData_CustomName (v : Nbt)
  | SlotComponentData_Damage (v : Z)
  | SlotComponentData_DamageResistant (v : string)
  | SlotComponentData_DeathProtection (v : SlotComponentDataDeathProtection)
  | SlotComponentData_DebugStickState (v : Nbt)
  | SlotComponentData_DyedColor (v : SlotComponentDataDyedColor)
  | SlotComponentData_Enchantable (v : Z)
  | SlotComponentData_EnchantmentGlintOverride (v : bool)
  | SlotComponentData_Enchantments (v : SlotComponentDataEnchantments)
  | SlotComponentData_EntityData (v : Nbt)
  | SlotComponentData_Equippable (v : SlotComponentDataEquippable)
  | SlotComponentData_FireworkExplosion (v : ItemFireworkExplosion)
  | SlotComponentData_Fireworks (v : SlotComponentDataFireworks)
  | SlotComponentData_Food (v : SlotComponentDataFood)
  | SlotComponentData_Glider
  | SlotComponentData_HideAdditionalTooltip
  | SlotComponentData_HideTooltip
  | SlotComponentData_Instrument (v : Holder InstrumentData)
  | SlotComponentData_IntangibleProjectile (v : Nbt)
  | SlotComponentData_ItemModel (v : string)
  | SlotComponentData_ItemName (v : Nbt)
  | SlotComponentData_JukeboxPlayable (v : SlotComponentDataJukeboxPlayable)
  | SlotComponentData_Lock (v : Nbt)
  | SlotComponentData_LodestoneTracker (v : SlotComponentDataLodestoneTracker)
  | SlotComponentData_Lore (v : list (option Nbt))
  | SlotComponentData_MapColor (v : Z)
  | SlotComponentData_MapDecorations (v : Nbt)
  | SlotComponentData_MapId (v : Z)
  | SlotComponentData_MapPostProcessing (v : Z)
  | SlotComponentData_MaxDamage (v : Z)
  | SlotComponentData_MaxStackSize (v : Z)
  | SlotComponentData_NoteBlockSound (v : string)
  | SlotComponentData_OminousBottleAmplifier (v : Z)
  | SlotComponentData_PotDecorations (v : SlotComponentDataPotDecorations)
  | SlotComponentData_PotionContents (v : SlotComponentDataPotionContents)
  | SlotComponentData_Profile (v : SlotComponentDataProfile)
  | SlotComponentData_Rarity (v : SlotComponentDataRarity)
  | SlotComponentData_Recipes (v : Nbt)
  | SlotComponentData_RepairCost (v : Z)
  | SlotComponentData_Repairable (v : SlotComponentDataRepairable)
  | SlotComponentData_StoredEnchantments (v : SlotComponentDataStoredEnchantments)
  | SlotComponentData_SuspiciousStewEffects (v : SlotComponentDataSuspiciousStewEffects)
  | SlotComponentData_Tool (v : SlotComponentDataTool)
  | SlotComponentData_TooltipStyle (v : string)
  | SlotComponentData_Trim (v : SlotComponentDataTrim)
  | SlotComponentData_Unbreakable (v : bool)
  | SlotComponentData_UseCooldown (v : SlotComponentDataUseCooldown)
  | SlotComponentData_UseRemainder (v : Slot)
  | SlotComponentData_WritableBookContent (v : SlotComponentDataWritableBookContent)
  | SlotComponentData_WrittenBookContent (v : SlotComponentDataWrittenBookContent).
Definition encode_SlotComponentData (v : SlotComponentData) : Write :=
  match v with
  | SlotComponentData_AttributeModifiers v => encode wire_SlotComponentDataAttributeModifiers v
  | SlotComponentData_BannerPatterns v => encode wire_SlotComponentDataBannerPatterns v
  | SlotComponentData_BaseColor v => encode wire_varint v
  | SlotComponentData_Bees v => encode wire_SlotComponentDataBees v
  | SlotComponentData_BlockEntityData v => encode wire_Nbt v
  | SlotComponentData_BlockState v => encode wire_SlotComponentDataBlockState v
  | SlotComponentData_BucketEntityData v => encode wire_Nbt v
  | SlotComponentData_BundleContents v => encode_SlotComponentDataBundleContents v
  | SlotComponentData_CanBreak v => encode wire_SlotComponentDataCanBreak v
  | SlotComponentData_CanPlaceOn v => encode wire_SlotComponentDataCanPlaceOn v
  | SlotComponentData_ChargedProjectiles v => encode_SlotComponentDataChargedProjectiles v
  | SlotComponentData_Consumable v => encode wire_SlotComponentDataConsumable v
  | SlotComponentData_Container v => encode_SlotComponentDataContainer v
  | SlotComponentData_ContainerLoot v => encode wire_Nbt v
  | SlotComponentData_CreativeSlotLock => ret tt
  | SlotComponentData_CustomData v => encode wire_Nbt v
  | SlotComponentData_CustomModelData v => encode wire_SlotComponentDataCustomModelData v
  | SlotComponentData_CustomName v => encode wire_Nbt v
  | SlotComponentData_Damage v => encode wire_varint v
  | SlotComponentData_DamageResistant v => encode wire_String v
  | SlotComponentData_DeathProtection v => encode wire_SlotComponentDataDeathProtection v
  | SlotComponentData_DebugStickState v => encode wire_Nbt v
  | SlotComponentData_DyedColor v => encode wire_SlotComponentDataDyedColor v
  | SlotComponentData_Enchantable v => encode wire_varint v
  | SlotComponentData_EnchantmentGlintOverride v => encode wire_bool v
  | SlotComponentData_Enchantments v => encode wire_SlotComponentDataEnchantments v
  | SlotComponentData_EntityData v => encode wire_Nbt v
  | SlotComponentData_Equippable v => encode wire_SlotComponentDataEquippable v
  | SlotComponentData_FireworkExplosion v => encode wire_ItemFireworkExplosion v
  | SlotComponentData_Fireworks v => encode wire_SlotComponentDataFireworks v
  | SlotComponentData_Food v => encode wire_SlotComponentDataFood v
  | SlotComponentData_Glider => ret tt
  | SlotComponentData_HideAdditionalTooltip => ret tt
  | SlotComponentData_HideTooltip => ret tt
  | SlotComponentData_Instrument v => encode (wire_Holder wire_InstrumentData) v
  | SlotComponentData_IntangibleProjectile v => encode wire_Nbt v
  | SlotComponentData_ItemModel v => encode wire_String v
  | SlotComponentData_ItemName v => encode wire_Nbt v
  | SlotComponentData_JukeboxPlayable v => encode wire_SlotComponentDataJukeboxPlayable v
  | SlotComponentData_Lock v => encode wire_Nbt v
  | SlotComponentData_LodestoneTracker v => encode wire_SlotComponentDataLodestoneTracker v
  | SlotComponentData_Lore v => encode (wire_Vec wire_OptNbt) v
  | SlotComponentData_MapColor v => encode wire_i32 v
  | SlotComponentData_MapDecorations v => encode wire_Nbt v
  | SlotComponentData_MapId v => encode wire_varint v
  | SlotComponentData_MapPostProcessing v => encode wire_varint v
  | SlotComponentData_MaxDamage v => encode wire_varint v
  | SlotComponentData_MaxStackSize v => encode wire_varint v
  | SlotComponentData_NoteBlockSound v => encode wire_String v
  | SlotComponentData_OminousBottleAmplifier v => encode wire_varint v
  | SlotComponentData_PotDecorations v => encode wire_SlotComponentDataPotDecorations v
  | SlotComponentData_PotionContents v => encode wire_SlotComponentDataPotionContents v
  | SlotComponentData_Profile v => encode wire_SlotComponentDataProfile v
  | SlotComponentData_Rarity v => encode wire_SlotComponentDataRarity v
  | SlotComponentData_Recipes v => encode wire_Nbt v
  | SlotComponentData_RepairCost v => encode wire_varint v
  | SlotComponentData_Repairable v => encode wire_SlotComponentDataRepairable v
  | SlotComponentData_StoredEnchantments v => encode wire_SlotComponentDataStoredEnchantments v
  | SlotComponentData_SuspiciousStewEffects v => encode wire_SlotComponentDataSuspiciousStewEffects v
  | SlotComponentData_Tool v => encode wire_SlotComponentDataTool v
  | SlotComponentData_TooltipStyle v => encode wire_String v
  | SlotComponentData_Trim v => encode wire_SlotComponentDataTrim v
  | SlotComponentData_Unbreakable v => encode wire_bool v
  | SlotComponentData_UseCooldown v => encode wire_SlotComponentDataUseCooldown v
  | SlotComponentData_UseRemainder v => encode_Slot v
  | SlotComponentData_WritableBookContent v => encode wire_SlotComponentDataWritableBookContent v
  | SlotComponentData_WrittenBookContent v => encode wire_SlotComponentDataWrittenBookContent v
  end.
Definition case_SlotComponentData (d : SlotComponentType) (v : SlotComponentData) : bool :=
  match v with
  | SlotComponentData_AttributeModifiers _ => on d SlotComponentType_AttributeModifiers
  | SlotComponentData_BannerPatterns _ => on d SlotComponentType_BannerPatterns
  | SlotComponentData_BaseColor _ => on d SlotComponentType_BaseColor
  | SlotComponentData_Bees _ => on d SlotComponentType_Bees
  | SlotComponentData_BlockEntityData _ => on d SlotComponentType_BlockEntityData
  | SlotComponentData_BlockState _ => on d SlotComponentType_BlockState
  | SlotComponentData_BucketEntityData _ => on d SlotComponentType_BucketEntityData
  | SlotComponentData_BundleContents _ => on d SlotComponentType_BundleContents
  | SlotComponentData_CanBreak _ => on d SlotComponentType_CanBreak
  | SlotComponentData_CanPlaceOn _ => on d SlotComponentType_CanPlaceOn
  | SlotComponentData_ChargedProjectiles _ => on d SlotComponentType_ChargedProjectiles
  | SlotComponentData_Consumable _ => on d SlotComponentType_Consumable
  | SlotComponentData_Container _ => on d SlotComponentType_Container
  | SlotComponentData_ContainerLoot _ => on d SlotComponentType_ContainerLoot
  | SlotComponentData_CreativeSlotLock => on d SlotComponentType_CreativeSlotLock
  | SlotComponentData_CustomData _ => on d SlotComponentType_CustomData
  | SlotComponentData_CustomModelData _ => on d SlotComponentType_CustomModelData
  | SlotComponentData_CustomName _ => on d SlotComponentType_CustomName
  | SlotComponentData_Damage _ => on d SlotComponentType_Damage
  | SlotComponentData_DamageResistant _ => on d SlotComponentType_DamageResistant
  | SlotComponentData_DeathProtection _ => on d SlotComponentType_DeathProtection
  | SlotComponentData_DebugStickState _ => on d SlotComponentType_DebugStickState
  | SlotComponentData_DyedColor _ => on d SlotComponentType_DyedColor
  | SlotComponentData_Enchantable _ => on d SlotComponentType_Enchantable
  | SlotComponentData_EnchantmentGlintOverride _ => on d SlotComponentType_EnchantmentGlintOverride
  | SlotComponentData_Enchantments _ => on d SlotComponentType_Enchantments
  | SlotComponentData_EntityData _ => on d SlotComponentType_EntityData
  | SlotComponentData_Equippable _ => on d SlotComponentType_Equippable
  | SlotComponentData_FireworkExplosion _ => on d SlotComponentType_FireworkExplosion
  | SlotComponentData_Fireworks _ => on d SlotComponentType_Fireworks
  | SlotComponentData_Food _ => on d SlotComponentType_Food
  | SlotComponentData_Glider => on d SlotComponentType_Glider
  | SlotComponentData_HideAdditionalTooltip => on d SlotComponentType_HideAdditionalTooltip
  | SlotComponentData_HideTooltip => on d SlotComponentType_HideTooltip
  | SlotComponentData_Instrument _ => on d SlotComponentType_Instrument
  | SlotComponentData_IntangibleProjectile _ => on d SlotComponentType_IntangibleProjectile
  | SlotComponentData_ItemModel _ => on d SlotComponentType_ItemModel
  | SlotComponentData_ItemName _ => on d SlotComponentType_ItemName
  | SlotComponentData_JukeboxPlayable _ => on d SlotComponentType_JukeboxPlayable
  | SlotComponentData_Lock _ => on d SlotComponentType_Lock
  | SlotComponentData_LodestoneTracker _ => on d SlotComponentType_LodestoneTracker
  | SlotComponentData_Lore _ => on d SlotComponentType_Lore
  | SlotComponentData_MapColor _ => on d SlotComponentType_MapColor
  | SlotComponentData_MapDecorations _ => on d SlotComponentType_MapDecorations
  | SlotComponentData_MapId _ => on d SlotComponentType_MapId
  | SlotComponentData_MapPostProcessing _ => on d SlotComponentType_MapPostProcessing
  | SlotComponentData_MaxDamage _ => on d SlotComponentType_MaxDamage
  | SlotComponentData_MaxStackSize _ => on d SlotComponentType_MaxStackSize
  | SlotComponentData_NoteBlockSound _ => on d SlotComponentType_NoteBlockSound
  | SlotComponentData_OminousBottleAmplifier _ => on d SlotComponentType_OminousBottleAmplifier
  | SlotComponentData_PotDecorations _ => on d SlotComponentType_PotDecorations
  | SlotComponentData_PotionContents _ => on d SlotComponentType_PotionContents
  | SlotComponentData_Profile _ => on d SlotComponentType_Profile
  | SlotComponentData_Rarity _ => on d SlotComponentType_Rarity
  | SlotComponentData_Recipes _ => on d SlotComponentType_Recipes
  | SlotComponentData_RepairCost _ => on d SlotComponentType_RepairCost
  | SlotComponentData_Repairable _ => on d SlotComponentType_Repairable
  | SlotComponentData_StoredEnchantments _ => on d SlotComponentType_StoredEnchantments
  | SlotComponentData_SuspiciousStewEffects _ => on d SlotComponentType_SuspiciousStewEffects
  | SlotComponentData_Tool _ => on d SlotComponentType_Tool
  | SlotComponentData_TooltipStyle _ => on d SlotComponentType_TooltipStyle
  | SlotComponentData_Trim _ => on d SlotComponentType_Trim
  | SlotComponentData_Unbreakable _ => on d SlotComponentType_Unbreakable
  | SlotComponentData_UseCooldown _ => on d SlotComponentType_UseCooldown
  | SlotComponentData_UseRemainder _ => on d SlotComponentType_UseRemainder
  | SlotComponentData_WritableBookContent _ => on d SlotComponentType_WritableBookContent
  | SlotComponentData_WrittenBookContent _ => on d SlotComponentType_WrittenBookContent
  end.

Record SlotComponent : Type := mkSlotComponent {
  SlotComponent_type : SlotComponentType;
  SlotComponent_data : SlotComponentData;
}.
Definition encode_SlotComponent (p : SlotComponent) : Write :=
  encode wire_SlotComponentType (SlotComponent_type p) ;;;
  only (case_SlotComponentData (SlotComponent_type p) (SlotComponent_data p)) (encode_SlotComponentData (SlotComponent_data p)) ;;;
  ret tt.

Record SlotValueDefault : Type := mkSlotValueDefault {
  SlotValueDefault_item_id : Z;
  SlotValueDefault_added_component_count : Z;
  SlotValueDefault_removed_component_count : Z;
  SlotValueDefault_components : list SlotComponent;
  SlotValueDefault_remove_components : list SlotValueDefaultRemoveComponentsItem;
}.
Definition encode_SlotValueDefault (p : SlotValueDefault) : Write :=
  modify (write_varint (SlotValueDefault_item_id p)) ;;;
  modify (write_varint (SlotValueDefault_added_component_count p)) ;;;
  modify (write_varint (SlotValueDefault_removed_component_count p)) ;;;
  only (Z.of_nat (length (SlotValueDefault_components p)) =? (SlotValueDefault_added_component_count p)) (iter_m encode_SlotComponent (SlotValueDefault_components p)) ;;;
  only (Z.of_nat (length (SlotValueDefault_remove_components p)) =? (SlotValueDefault_removed_component_count p)) (iter_m (encode wire_SlotValueDefaultRemoveComponentsItem) (SlotValueDefault_remove_components p)) ;;;
  ret tt.

Inductive SlotValue : Type :=
  | SlotValue_V0
  | SlotValue_Default (v : SlotValueDefault).
Definition encode_SlotValue (v : SlotValue) : Write :=
  match v with
  | SlotValue_V0 => ret tt
  | SlotValue_Default v => encode_SlotValueDefault v
  end.
Definition case_SlotValue (d : Z) (v : SlotValue) : bool :=
  match v with
  | SlotValue_V0 => on d 0
  | SlotValue_Default _ => negb (on d 0)
  end.

End encoders.
Arguments SlotComponentDataBundleContents Slot : clear implicits.
Arguments SlotComponentDataChargedProjectiles Slot : clear implicits.
Arguments SlotComponentDataContainer Slot : clear implicits.
Arguments SlotComponentData Slot : clear implicits.
Arguments SlotComponent Slot : clear implicits.
Arguments SlotValueDefault Slot : clear implicits.
Arguments SlotValue Slot : clear implicits.

(** ** Decoders and codecs *)

Section components.
Context {Slot : Type} (wire_Slot : Codec Slot) (dom_Slot : Slot → Prop) (bytes_Slot : Slot → list byte).
Context `{!LawfulCodec wire_Slot dom_Slot bytes_Slot, !CodecCost dom_Slot bytes_Slot}.

Definition wire_SlotComponentDataBundleContents : Codec (SlotComponentDataBundleContents Slot) := {|
  encode := encode_SlotComponentDataBundleContents (encode wire_Slot);
  decode :=
    let* contents := decode (wire_Vec wire_Slot) in
    ret (mkSlotComponentDataBundleContents contents);
|}.
Definition dom_SlotComponentDataBundleContents (p : SlotComponentDataBundleContents Slot) : Prop :=
  vec_dom dom_Slot (SlotComponentDataBundleContents_contents p).
Definition bytes_SlotComponentDataBundleContents (p : SlotComponentDataBundleContents Slot) : list byte :=
  concat [vec_bytes bytes_Slot (SlotComponentDataBundleContents_contents p)].
#[export] Instance lawful_SlotComponentDataBundleContents : LawfulCodec wire_SlotComponentDataBundleContents dom_SlotComponentDataBundleContents bytes_SlotComponentDataBundleContents.
Proof.
  change wire_SlotComponentDataBundleContents with {|
    encode := λ p,
      encode (wire_Vec wire_Slot) (SlotComponentDataBundleContents_contents p) ;;;
      ret tt;
    decode := decode wire_SlotComponentDataBundleContents |}. solve_struct_by wire_SlotComponentDataBundleContents.
Qed.
Lemma writes_SlotComponentDataBundleContents p : dom_SlotComponentDataBundleContents p → writes (encode_SlotComponentDataBundleContents (encode wire_Slot) p) (bytes_SlotComponentDataBundleContents p).
Proof. exact (codec_writes (c := wire_SlotComponentDataBundleContents) p). Qed.
#[local] Hint Resolve writes_SlotComponentDataBundleContents : writes.
#[export] Instance cost_SlotComponentDataBundleContents : CodecCost dom_SlotComponentDataBundleContents bytes_SlotComponentDataBundleContents.
Proof. solve_head. Qed.

Definition wire_SlotComponentDataChargedProjectiles : Codec (SlotComponentDataChargedProjectiles Slot) := {|
  encode := encode_SlotComponentDataChargedProjectiles (encode wire_Slot);
  decode :=
    let* projectiles := decode (wire_Vec wire_Slot) in
    ret (mkSlotComponentDataChargedProjectiles projectiles);
|}.
Definition dom_SlotComponentDataChargedProjectiles (p : SlotComponentDataChargedProjectiles Slot) : Prop :=
  vec_dom dom_Slot (SlotComponentDataChargedProjectiles_projectiles p).
Definition bytes_SlotComponentDataChargedProjectiles (p : SlotComponentDataChargedProjectiles Slot) : list byte :=
  concat [vec_bytes bytes_Slot (SlotComponentDataChargedProjectiles_projectiles p)].
#[export] Instance lawful_SlotComponentDataChargedProjectiles : LawfulCodec wire_SlotComponentDataChargedProjectiles dom_SlotComponentDataChargedProjectiles bytes_SlotComponentDataChargedProjectiles.
Proof.
  change wire_SlotComponentDataChargedProjectiles with {|
    encode := λ p,
      encode (wire_Vec wire_Slot) (SlotComponentDataChargedProjectiles_projectiles p) ;;;
      ret tt;
    decode := decode wire_SlotComponentDataChargedProjectiles |}. solve_struct_by wire_SlotComponentDataChargedProjectiles.
Qed.
Lemma writes_SlotComponentDataChargedProjectiles p : dom_SlotComponentDataChargedProjectiles p → writes (encode_SlotComponentDataChargedProjectiles (encode wire_Slot) p) (bytes_SlotComponentDataChargedProjectiles p).
Proof. exact (codec_writes (c := wire_SlotComponentDataChargedProjectiles) p). Qed.
#[local] Hint Resolve writes_SlotComponentDataChargedProjectiles : writes.
#[export] Instance cost_SlotComponentDataChargedProjectiles : CodecCost dom_SlotComponentDataChargedProjectiles bytes_SlotComponentDataChargedProjectiles.
Proof. solve_head. Qed.

Definition wire_SlotComponentDataContainer : Codec (SlotComponentDataContainer Slot) := {|
  encode := encode_SlotComponentDataContainer (encode wire_Slot);
  decode :=
    let* contents := decode (wire_Vec wire_Slot) in
    ret (mkSlotComponentDataContainer contents);
|}.
Definition dom_SlotComponentDataContainer (p : SlotComponentDataContainer Slot) : Prop :=
  vec_dom dom_Slot (SlotComponentDataContainer_contents p).
Definition bytes_SlotComponentDataContainer (p : SlotComponentDataContainer Slot) : list byte :=
  concat [vec_bytes bytes_Slot (SlotComponentDataContainer_contents p)].
#[export] Instance lawful_SlotComponentDataContainer : LawfulCodec wire_SlotComponentDataContainer dom_SlotComponentDataContainer bytes_SlotComponentDataContainer.
Proof.
  change wire_SlotComponentDataContainer with {|
    encode := λ p,
      encode (wire_Vec wire_Slot) (SlotComponentDataContainer_contents p) ;;;
      ret tt;
    decode := decode wire_SlotComponentDataContainer |}. solve_struct_by wire_SlotComponentDataContainer.
Qed.
Lemma writes_SlotComponentDataContainer p : dom_SlotComponentDataContainer p → writes (encode_SlotComponentDataContainer (encode wire_Slot) p) (bytes_SlotComponentDataContainer p).
Proof. exact (codec_writes (c := wire_SlotComponentDataContainer) p). Qed.
#[local] Hint Resolve writes_SlotComponentDataContainer : writes.
#[export] Instance cost_SlotComponentDataContainer : CodecCost dom_SlotComponentDataContainer bytes_SlotComponentDataContainer.
Proof. solve_head. Qed.

Definition decode_from_SlotComponentData (d : SlotComponentType) : Read (SlotComponentData Slot) :=
  match d with
  | SlotComponentType_AttributeModifiers => (let* v := decode wire_SlotComponentDataAttributeModifiers in ret (SlotComponentData_AttributeModifiers v))
  | SlotComponentType_BannerPatterns => (let* v := decode wire_SlotComponentDataBannerPatterns in ret (SlotComponentData_BannerPatterns v))
  | SlotComponentType_BaseColor => (let* v := decode wire_varint in ret (SlotComponentData_BaseColor v))
  | SlotComponentType_Bees => (let* v := decode wire_SlotComponentDataBees in ret (SlotComponentData_Bees v))
  | SlotComponentType_BlockEntityData => (let* v := decode wire_Nbt in ret (SlotComponentData_BlockEntityData v))
  | SlotComponentType_BlockState => (let* v := decode wire_SlotComponentDataBlockState in ret (SlotComponentData_BlockState v))
  | SlotComponentType_BucketEntityData => (let* v := decode wire_Nbt in ret (SlotComponentData_BucketEntityData v))
  | SlotComponentType_BundleContents => (let* v := decode wire_SlotComponentDataBundleContents in ret (SlotComponentData_BundleContents v))
  | SlotComponentType_CanBreak => (let* v := decode wire_SlotComponentDataCanBreak in ret (SlotComponentData_CanBreak v))
  | SlotComponentType_CanPlaceOn => (let* v := decode wire_SlotComponentDataCanPlaceOn in ret (SlotComponentData_CanPlaceOn v))
  | SlotComponentType_ChargedProjectiles => (let* v := decode wire_SlotComponentDataChargedProjectiles in ret (SlotComponentData_ChargedProjectiles v))
  | SlotComponentType_Consumable => (let* v := decode wire_SlotComponentDataConsumable in ret (SlotComponentData_Consumable v))
  | SlotComponentType_Container => (let* v := decode wire_SlotComponentDataContainer in ret (SlotComponentData_Container v))
  | SlotComponentType_ContainerLoot => (let* v := decode wire_Nbt in ret (SlotComponentData_ContainerLoot v))
  | SlotComponentType_CreativeSlotLock => ret SlotComponentData_CreativeSlotLock
  | SlotComponentType_CustomData => (let* v := decode wire_Nbt in ret (SlotComponentData_CustomData v))
  | SlotComponentType_CustomModelData => (let* v := decode wire_SlotComponentDataCustomModelData in ret (SlotComponentData_CustomModelData v))
  | SlotComponentType_CustomName => (let* v := decode wire_Nbt in ret (SlotComponentData_CustomName v))
  | SlotComponentType_Damage => (let* v := decode wire_varint in ret (SlotComponentData_Damage v))
  | SlotComponentType_DamageResistant => (let* v := decode wire_String in ret (SlotComponentData_DamageResistant v))
  | SlotComponentType_DeathProtection => (let* v := decode wire_SlotComponentDataDeathProtection in ret (SlotComponentData_DeathProtection v))
  | SlotComponentType_DebugStickState => (let* v := decode wire_Nbt in ret (SlotComponentData_DebugStickState v))
  | SlotComponentType_DyedColor => (let* v := decode wire_SlotComponentDataDyedColor in ret (SlotComponentData_DyedColor v))
  | SlotComponentType_Enchantable => (let* v := decode wire_varint in ret (SlotComponentData_Enchantable v))
  | SlotComponentType_EnchantmentGlintOverride => (let* v := decode wire_bool in ret (SlotComponentData_EnchantmentGlintOverride v))
  | SlotComponentType_Enchantments => (let* v := decode wire_SlotComponentDataEnchantments in ret (SlotComponentData_Enchantments v))
  | SlotComponentType_EntityData => (let* v := decode wire_Nbt in ret (SlotComponentData_EntityData v))
  | SlotComponentType_Equippable => (let* v := decode wire_SlotComponentDataEquippable in ret (SlotComponentData_Equippable v))
  | SlotComponentType_FireworkExplosion => (let* v := decode wire_ItemFireworkExplosion in ret (SlotComponentData_FireworkExplosion v))
  | SlotComponentType_Fireworks => (let* v := decode wire_SlotComponentDataFireworks in ret (SlotComponentData_Fireworks v))
  | SlotComponentType_Food => (let* v := decode wire_SlotComponentDataFood in ret (SlotComponentData_Food v))
  | SlotComponentType_Glider => ret SlotComponentData_Glider
  | SlotComponentType_HideAdditionalTooltip => ret SlotComponentData_HideAdditionalTooltip
  | SlotComponentType_HideTooltip => ret SlotComponentData_HideTooltip
  | SlotComponentType_Instrument => (let* v := decode (wire_Holder wire_InstrumentData) in ret (SlotComponentData_Instrument v))
  | SlotComponentType_IntangibleProjectile => (let* v := decode wire_Nbt in ret (SlotComponentData_IntangibleProjectile v))
  | SlotComponentType_ItemModel => (let* v := decode wire_String in ret (SlotComponentData_ItemModel v))
  | SlotComponentType_ItemName => (let* v := decode wire_Nbt in ret (SlotComponentData_ItemName v))
  | SlotComponentType_JukeboxPlayable => (let* v := decode wire_SlotComponentDataJukeboxPlayable in ret (SlotComponentData_JukeboxPlayable v))
  | SlotComponentType_Lock => (let* v := decode wire_Nbt in ret (SlotComponentData_Lock v))
  | SlotComponentType_LodestoneTracker => (let* v := decode wire_SlotComponentDataLodestoneTracker in ret (SlotComponentData_LodestoneTracker v))
  | SlotComponentType_Lore => (let* v := decode (wire_Vec wire_OptNbt) in ret (SlotComponentData_Lore v))
  | SlotComponentType_MapColor => (let* v := decode wire_i32 in ret (SlotComponentData_MapColor v))
  | SlotComponentType_MapDecorations => (let* v := decode wire_Nbt in ret (SlotComponentData_MapDecorations v))
  | SlotComponentType_MapId => (let* v := decode wire_varint in ret (SlotComponentData_MapId v))
  | SlotComponentType_MapPostProcessing => (let* v := decode wire_varint in ret (SlotComponentData_MapPostProcessing v))
  | SlotComponentType_MaxDamage => (let* v := decode wire_varint in ret (SlotComponentData_MaxDamage v))
  | SlotComponentType_MaxStackSize => (let* v := decode wire_varint in ret (SlotComponentData_MaxStackSize v))
  | SlotComponentType_NoteBlockSound => (let* v := decode wire_String in ret (SlotComponentData_NoteBlockSound v))
  | SlotComponentType_OminousBottleAmplifier => (let* v := decode wire_varint in ret (SlotComponentData_OminousBottleAmplifier v))
  | SlotComponentType_PotDecorations => (let* v := decode wire_SlotComponentDataPotDecorations in ret (SlotComponentData_PotDecorations v))
  | SlotComponentType_PotionContents => (let* v := decode wire_SlotComponentDataPotionContents in ret (SlotComponentData_PotionContents v))
  | SlotComponentType_Profile => (let* v := decode wire_SlotComponentDataProfile in ret (SlotComponentData_Profile v))
  | SlotComponentType_Rarity => (let* v := decode wire_SlotComponentDataRarity in ret (SlotComponentData_Rarity v))
  | SlotComponentType_Recipes => (let* v := decode wire_Nbt in ret (SlotComponentData_Recipes v))
  | SlotComponentType_RepairCost => (let* v := decode wire_varint in ret (SlotComponentData_RepairCost v))
  | SlotComponentType_Repairable => (let* v := decode wire_SlotComponentDataRepairable in ret (SlotComponentData_Repairable v))
  | SlotComponentType_StoredEnchantments => (let* v := decode wire_SlotComponentDataStoredEnchantments in ret (SlotComponentData_StoredEnchantments v))
  | SlotComponentType_SuspiciousStewEffects => (let* v := decode wire_SlotComponentDataSuspiciousStewEffects in ret (SlotComponentData_SuspiciousStewEffects v))
  | SlotComponentType_Tool => (let* v := decode wire_SlotComponentDataTool in ret (SlotComponentData_Tool v))
  | SlotComponentType_TooltipStyle => (let* v := decode wire_String in ret (SlotComponentData_TooltipStyle v))
  | SlotComponentType_Trim => (let* v := decode wire_SlotComponentDataTrim in ret (SlotComponentData_Trim v))
  | SlotComponentType_Unbreakable => (let* v := decode wire_bool in ret (SlotComponentData_Unbreakable v))
  | SlotComponentType_UseCooldown => (let* v := decode wire_SlotComponentDataUseCooldown in ret (SlotComponentData_UseCooldown v))
  | SlotComponentType_UseRemainder => (let* v := decode wire_Slot in ret (SlotComponentData_UseRemainder v))
  | SlotComponentType_WritableBookContent => (let* v := decode wire_SlotComponentDataWritableBookContent in ret (SlotComponentData_WritableBookContent v))
  | SlotComponentType_WrittenBookContent => (let* v := decode wire_SlotComponentDataWrittenBookContent in ret (SlotComponentData_WrittenBookContent v))
  end.
Definition switch_SlotComponentData : Switch SlotComponentType (SlotComponentData Slot) := mkSwitch case_SlotComponentData (encode_SlotComponentData (encode wire_Slot)) decode_from_SlotComponentData.
Definition dom_SlotComponentData (d : SlotComponentType) (v : SlotComponentData Slot) : Prop :=
  case_SlotComponentData d v = true ∧
  match v with
  | SlotComponentData_AttributeModifiers v => dom_SlotComponentDataAttributeModifiers v
  | SlotComponentData_BannerPatterns v => dom_SlotComponentDataBannerPatterns v
  | SlotComponentData_BaseColor v => in_i 32 v
  | SlotComponentData_Bees v => dom_SlotComponentDataBees v
  | SlotComponentData_BlockEntityData v => nbt_fits v
  | SlotComponentData_BlockState v => dom_SlotComponentDataBlockState v
  | SlotComponentData_BucketEntityData v => nbt_fits v
  | SlotComponentData_BundleContents v => dom_SlotComponentDataBundleContents v
  | SlotComponentData_CanBreak v => dom_SlotComponentDataCanBreak v
  | SlotComponentData_CanPlaceOn v => dom_SlotComponentDataCanPlaceOn v
  | SlotComponentData_ChargedProjectiles v => dom_SlotComponentDataChargedProjectiles v
  | SlotComponentData_Consumable v => dom_SlotComponentDataConsumable v
  | SlotComponentData_Container v => dom_SlotComponentDataContainer v
  | SlotComponentData_ContainerLoot v => nbt_fits v
  | SlotComponentData_CustomData v => nbt_fits v
  | SlotComponentData_CustomModelData v => dom_SlotComponentDataCustomModelData v
  | SlotComponentData_CustomName v => nbt_fits v
  | SlotComponentData_Damage v => in_i 32 v
  | SlotComponentData_DamageResistant v => wire_string v
  | SlotComponentData_DeathProtection v => dom_SlotComponentDataDeathProtection v
  | SlotComponentData_DebugStickState v => nbt_fits v
  | SlotComponentData_DyedColor v => dom_SlotComponentDataDyedColor v
  | SlotComponentData_Enchantable v => in_i 32 v
  | SlotComponentData_Enchantments v => dom_SlotComponentDataEnchantments v
  | SlotComponentData_EntityData v => nbt_fits v
  | SlotComponentData_Equippable v => dom_SlotComponentDataEquippable v
  | SlotComponentData_FireworkExplosion v => dom_ItemFireworkExplosion v
  | SlotComponentData_Fireworks v => dom_SlotComponentDataFireworks v
  | SlotComponentData_Food v => dom_SlotComponentDataFood v
  | SlotComponentData_Instrument v => holder_dom dom_InstrumentData v
  | SlotComponentData_IntangibleProjectile v => nbt_fits v
  | SlotComponentData_ItemModel v => wire_string v
  | SlotComponentData_ItemName v => nbt_fits v
  | SlotComponentData_JukeboxPlayable v => dom_SlotComponentDataJukeboxPlayable v
  | SlotComponentData_Lock v => nbt_fits v
  | SlotComponentData_LodestoneTracker v => dom_SlotComponentDataLodestoneTracker v
  | SlotComponentData_Lore v => vec_dom (option_dom nbt_fits) v
  | SlotComponentData_MapColor v => in_i 32 v
  | SlotComponentData_MapDecorations v => nbt_fits v
  | SlotComponentData_MapId v => in_i 32 v
  | SlotComponentData_MapPostProcessing v => in_i 32 v
  | SlotComponentData_MaxDamage v => in_i 32 v
  | SlotComponentData_MaxStackSize v => in_i 32 v
  | SlotComponentData_NoteBlockSound v => wire_string v
  | SlotComponentData_OminousBottleAmplifier v => in_i 32 v
  | SlotComponentData_PotDecorations v => dom_SlotComponentDataPotDecorations v
  | SlotComponentData_PotionContents v => dom_SlotComponentDataPotionContents v
  | SlotComponentData_Profile v => dom_SlotComponentDataProfile v
  | SlotComponentData_Rarity v => dom_SlotComponentDataRarity v
  | SlotComponentData_Recipes v => nbt_fits v
  | SlotComponentData_RepairCost v => in_i 32 v
  | SlotComponentData_Repairable v => dom_SlotComponentDataRepairable v
  | SlotComponentData_StoredEnchantments v => dom_SlotComponentDataStoredEnchantments v
  | SlotComponentData_SuspiciousStewEffects v => dom_SlotComponentDataSuspiciousStewEffects v
  | SlotComponentData_Tool v => dom_SlotComponentDataTool v
  | SlotComponentData_TooltipStyle v => wire_string v
  | SlotComponentData_Trim v => dom_SlotComponentDataTrim v
  | SlotComponentData_UseCooldown v => dom_SlotComponentDataUseCooldown v
  | SlotComponentData_UseRemainder v => dom_Slot v
  | SlotComponentData_WritableBookContent v => dom_SlotComponentDataWritableBookContent v
  | SlotComponentData_WrittenBookContent v => dom_SlotComponentDataWrittenBookContent v
  | _ => True
  end.
Definition bytes_SlotComponentData (v : SlotComponentData Slot) : list byte :=
  match v with
  | SlotComponentData_AttributeModifiers v => bytes_SlotComponentDataAttributeModifiers v
  | SlotComponentData_BannerPatterns v => bytes_SlotComponentDataBannerPatterns v
  | SlotComponentData_BaseColor v => varint_bytes v
  | SlotComponentData_Bees v => bytes_SlotComponentDataBees v
  | SlotComponentData_BlockEntityData v => nbt_bytes v
  | SlotComponentData_BlockState v => bytes_SlotComponentDataBlockState v
  | SlotComponentData_BucketEntityData v => nbt_bytes v
  | SlotComponentData_BundleContents v => bytes_SlotComponentDataBundleContents v
  | SlotComponentData_CanBreak v => bytes_SlotComponentDataCanBreak v
  | SlotComponentData_CanPlaceOn v => bytes_SlotComponentDataCanPlaceOn v
  | SlotComponentData_ChargedProjectiles v => bytes_SlotComponentDataChargedProjectiles v
  | SlotComponentData_Consumable v => bytes_SlotComponentDataConsumable v
  | SlotComponentData_Container v => bytes_SlotComponentDataContainer v
  | SlotComponentData_ContainerLoot v => nbt_bytes v
  | SlotComponentData_CustomData v => nbt_bytes v
  | SlotComponentData_CustomModelData v => bytes_SlotComponentDataCustomModelData v
  | SlotComponentData_CustomName v => nbt_bytes v
  | SlotComponentData_Damage v => varint_bytes v
  | SlotComponentData_DamageResistant v => string_bytes v
  | SlotComponentData_DeathProtection v => bytes_SlotComponentDataDeathProtection v
  | SlotComponentData_DebugStickState v => nbt_bytes v
  | SlotComponentData_DyedColor v => bytes_SlotComponentDataDyedColor v
  | SlotComponentData_Enchantable v => varint_bytes v
  | SlotComponentData_EnchantmentGlintOverride v => bool_bytes v
  | SlotComponentData_Enchantments v => bytes_SlotComponentDataEnchantments v
  | SlotComponentData_EntityData v => nbt_bytes v
  | SlotComponentData_Equippable v => bytes_SlotComponentDataEquippable v
  | SlotComponentData_FireworkExplosion v => bytes_ItemFireworkExplosion v
  | SlotComponentData_Fireworks v => bytes_SlotComponentDataFireworks v
  | SlotComponentData_Food v => bytes_SlotComponentDataFood v
  | SlotComponentData_Instrument v => holder_bytes bytes_InstrumentData v
  | SlotComponentData_IntangibleProjectile v => nbt_bytes v
  | SlotComponentData_ItemModel v => string_bytes v
  | SlotComponentData_ItemName v => nbt_bytes v
  | SlotComponentData_JukeboxPlayable v => bytes_SlotComponentDataJukeboxPlayable v
  | SlotComponentData_Lock v => nbt_bytes v
  | SlotComponentData_LodestoneTracker v => bytes_SlotComponentDataLodestoneTracker v
  | SlotComponentData_Lore v => vec_bytes optnbt_bytes v
  | SlotComponentData_MapColor v => be_bytes 4 v
  | SlotComponentData_MapDecorations v => nbt_bytes v
  | SlotComponentData_MapId v => varint_bytes v
  | SlotComponentData_MapPostProcessing v => varint_bytes v
  | SlotComponentData_MaxDamage v => varint_bytes v
  | SlotComponentData_MaxStackSize v => varint_bytes v
  | SlotComponentData_NoteBlockSound v => string_bytes v
  | SlotComponentData_OminousBottleAmplifier v => varint_bytes v
  | SlotComponentData_PotDecorations v => bytes_SlotComponentDataPotDecorations v
  | SlotComponentData_PotionContents v => bytes_SlotComponentDataPotionContents v
  | SlotComponentData_Profile v => bytes_SlotComponentDataProfile v
  | SlotComponentData_Rarity v => bytes_SlotComponentDataRarity v
  | SlotComponentData_Recipes v => nbt_bytes v
  | SlotComponentData_RepairCost v => varint_bytes v
  | SlotComponentData_Repairable v => bytes_SlotComponentDataRepairable v
  | SlotComponentData_StoredEnchantments v => bytes_SlotComponentDataStoredEnchantments v
  | SlotComponentData_SuspiciousStewEffects v => bytes_SlotComponentDataSuspiciousStewEffects v
  | SlotComponentData_Tool v => bytes_SlotComponentDataTool v
  | SlotComponentData_TooltipStyle v => string_bytes v
  | SlotComponentData_Trim v => bytes_SlotComponentDataTrim v
  | SlotComponentData_Unbreakable v => bool_bytes v
  | SlotComponentData_UseCooldown v => bytes_SlotComponentDataUseCooldown v
  | SlotComponentData_UseRemainder v => bytes_Slot v
  | SlotComponentData_WritableBookContent v => bytes_SlotComponentDataWritableBookContent v
  | SlotComponentData_WrittenBookContent v => bytes_SlotComponentDataWrittenBookContent v
  | _ => []
  end.
#[export] Instance lawful_SlotComponentData : LawfulSwitch switch_SlotComponentData dom_SlotComponentData bytes_SlotComponentData.
Proof. solve_switch. Qed.

Definition wire_SlotComponent : Codec (SlotComponent Slot) := {|
  encode := encode_SlotComponent (encode wire_Slot);
  decode :=
    let* type_ := decode wire_SlotComponentType in
    let* data := sw_decode switch_SlotComponentData type_ in
    ret (mkSlotComponent type_ data);
|}.
Definition dom_SlotComponent (p : SlotComponent Slot) : Prop :=
  dom_SlotComponentType (SlotComponent_type p)
  ∧ dom_SlotComponentData (SlotComponent_type p) (SlotComponent_data p).
Definition bytes_SlotComponent (p : SlotComponent Slot) : list byte :=
  concat [bytes_SlotComponentType (SlotComponent_type p);
    bytes_SlotComponentData (SlotComponent_data p)].
#[export] Instance lawful_SlotComponent : LawfulCodec wire_SlotComponent dom_SlotComponent bytes_SlotComponent.
Proof.
  change wire_SlotComponent with {|
    encode := λ p,
      encode wire_SlotComponentType (SlotComponent_type p) ;;;
      encode_at switch_SlotComponentData (SlotComponent_type p) (SlotComponent_data p) ;;;
      ret tt;
    decode := decode wire_SlotComponent |}. solve_struct_by wire_SlotComponent.
Qed.
Lemma writes_SlotComponent p : dom_SlotComponent p → writes (encode_SlotComponent (encode wire_Slot) p) (bytes_SlotComponent p).
Proof. exact (codec_writes (c := wire_SlotComponent) p). Qed.
#[local] Hint Resolve writes_SlotComponent : writes.
#[export] Instance cost_SlotComponent : CodecCost dom_SlotComponent bytes_SlotComponent.
Proof. solve_head. Qed.

Definition wire_SlotValueDefault : Codec (SlotValueDefault Slot) := {|
  encode := encode_SlotValueDefault (encode wire_Slot);
  decode :=
    let* item_id := read_varint in
    let* added_component_count := read_varint in
    let* removed_component_count := read_varint in
    let* components := sw_decode (counted wire_SlotComponent) added_component_count in
    let* remove_components := sw_decode (counted wire_SlotValueDefaultRemoveComponentsItem) removed_component_count in
    ret (mkSlotValueDefault item_id added_component_count removed_component_count components remove_components);
|}.
Definition dom_SlotValueDefault (p : SlotValueDefault Slot) : Prop :=
  in_i 32 (SlotValueDefault_item_id p)
  ∧ in_i 32 (SlotValueDefault_added_component_count p)
  ∧ in_i 32 (SlotValueDefault_removed_component_count p)
  ∧ counted_dom dom_SlotComponent (SlotValueDefault_added_component_count p) (SlotValueDefault_components p)
  ∧ counted_dom dom_SlotValueDefaultRemoveComponentsItem (SlotValueDefault_removed_component_count p) (SlotValueDefault_remove_components p).
Definition bytes_SlotValueDefault (p : SlotValueDefault Slot) : list byte :=
  concat [varint_bytes (SlotValueDefault_item_id p);
    varint_bytes (SlotValueDefault_added_component_count p);
    varint_bytes (SlotValueDefault_removed_component_count p);
    counted_bytes bytes_SlotComponent (SlotValueDefault_components p);
    counted_bytes bytes_SlotValueDefaultRemoveComponentsItem (SlotValueDefault_remove_components p)].
#[export] Instance lawful_SlotValueDefault : LawfulCodec wire_SlotValueDefault dom_SlotValueDefault bytes_SlotValueDefault.
Proof.
  change wire_SlotValueDefault with {|
    encode := λ p,
      modify (write_varint (SlotValueDefault_item_id p)) ;;;
      modify (write_varint (SlotValueDefault_added_component_count p)) ;;;
      modify (write_varint (SlotValueDefault_removed_component_count p)) ;;;
      encode_at (counted wire_SlotComponent) (SlotValueDefault_added_component_count p) (SlotValueDefault_components p) ;;;
      encode_at (counted wire_SlotValueDefaultRemoveComponentsItem) (SlotValueDefault_removed_component_count p) (SlotValueDefault_remove_components p) ;;;
      ret tt;
    decode := decode wire_SlotValueDefault |}. solve_struct_by wire_SlotValueDefault.
Qed.
Lemma writes_SlotValueDefault p : dom_SlotValueDefault p → writes (encode_SlotValueDefault (encode wire_Slot) p) (bytes_SlotValueDefault p).
Proof. exact (codec_writes (c := wire_SlotValueDefault) p). Qed.
#[local] Hint Resolve writes_SlotValueDefault : writes.
#[export] Instance cost_SlotValueDefault : CodecCost dom_SlotValueDefault bytes_SlotValueDefault.
Proof. solve_head. Qed.

Definition decode_from_SlotValue (d : Z) : Read (SlotValue Slot) :=
  if on d 0 then ret SlotValue_V0
  else (let* v := decode wire_SlotValueDefault in ret (SlotValue_Default v)).
Definition switch_SlotValue : Switch Z (SlotValue Slot) := mkSwitch case_SlotValue (encode_SlotValue (encode wire_Slot)) decode_from_SlotValue.
Definition dom_SlotValue (d : Z) (v : SlotValue Slot) : Prop :=
  case_SlotValue d v = true ∧
  match v with
  | SlotValue_Default v => dom_SlotValueDefault v
  | _ => True
  end.
Definition bytes_SlotValue (v : SlotValue Slot) : list byte :=
  match v with
  | SlotValue_Default v => bytes_SlotValueDefault v
  | _ => []
  end.
#[export] Instance lawful_SlotValue : LawfulSwitch switch_SlotValue dom_SlotValue bytes_SlotValue.
Proof. solve_switch. Qed.

End components.

(** ** Levels

    Reading never leaves the buffer if reading an item does not, and depends
    on how items are read only where fewer bytes are left. *)

Section bounds.
Context {Slot : Type} (c : Codec Slot) `{!SafeDecode c}.

#[export] Instance safe_SlotComponentDataBundleContents : SafeDecode (wire_SlotComponentDataBundleContents c).
Proof. unfold SafeDecode, wire_SlotComponentDataBundleContents. cbn [decode]. mauto. Qed.
#[export] Instance safe_SlotComponentDataChargedProjectiles : SafeDecode (wire_SlotComponentDataChargedProjectiles c).
Proof. unfold SafeDecode, wire_SlotComponentDataChargedProjectiles. cbn [decode]. mauto. Qed.
#[export] Instance safe_SlotComponentDataContainer : SafeDecode (wire_SlotComponentDataContainer c).
Proof. unfold SafeDecode, wire_SlotComponentDataContainer. cbn [decode]. mauto. Qed.
#[export] Instance safe_SlotComponentData : SafeSwitch (switch_SlotComponentData c).
Proof. intros d. unfold switch_SlotComponentData, decode_from_SlotComponentData. cbn [sw_decode]. mauto. Qed.
#[export] Instance safe_SlotComponent : SafeDecode (wire_SlotComponent c).
Proof. unfold SafeDecode, wire_SlotComponent. cbn [decode]. mauto. Qed.
#[export] Instance safe_SlotValueDefault : SafeDecode (wire_SlotValueDefault c).
Proof. unfold SafeDecode, wire_SlotValueDefault. cbn [decode]. mauto. Qed.
#[export] Instance safe_SlotValue : SafeSwitch (switch_SlotValue c).
Proof. intros d. unfold switch_SlotValue, decode_from_SlotValue. cbn [sw_decode]. mauto. Qed.
End bounds.

Section agree.
Context {Slot : Type} (c c' : Codec Slot) `{!SafeDecode c} (k : nat).
Context (Hc : agree k (decode c) (decode c')).
#[local] Hint Resolve Hc : agree.

Lemma agree_SlotComponentDataBundleContents : agree k (decode (wire_SlotComponentDataBundleContents c)) (decode (wire_SlotComponentDataBundleContents c')).
Proof using All. unfold wire_SlotComponentDataBundleContents. cbn [decode]. solve_agree. Qed.
#[local] Hint Resolve agree_SlotComponentDataBundleContents : agree.

Lemma agree_SlotComponentDataChargedProjectiles : agree k (decode (wire_SlotComponentDataChargedProjectiles c)) (decode (wire_SlotComponentDataChargedProjectiles c')).
Proof using All. unfold wire_SlotComponentDataChargedProjectiles. cbn [decode]. solve_agree. Qed.
#[local] Hint Resolve agree_SlotComponentDataChargedProjectiles : agree.

Lemma agree_SlotComponentDataContainer : agree k (decode (wire_SlotComponentDataContainer c)) (decode (wire_SlotComponentDataContainer c')).
Proof using All. unfold wire_SlotComponentDataContainer. cbn [decode]. solve_agree. Qed.
#[local] Hint Resolve agree_SlotComponentDataContainer : agree.

Lemma agree_SlotComponentData d : agree k (sw_decode (switch_SlotComponentData c) d) (sw_decode (switch_SlotComponentData c') d).
Proof using All. unfold switch_SlotComponentData, decode_from_SlotComponentData. cbn [sw_decode]. solve_agree. Qed.
#[local] Hint Resolve agree_SlotComponentData : agree.

Lemma agree_SlotComponent : agree k (decode (wire_SlotComponent c)) (decode (wire_SlotComponent c')).
Proof using All. unfold wire_SlotComponent. cbn [decode]. solve_agree. Qed.
#[local] Hint Resolve agree_SlotComponent : agree.

Lemma agree_SlotValueDefault : agree k (decode (wire_SlotValueDefault c)) (decode (wire_SlotValueDefault c')).
Proof using All. unfold wire_SlotValueDefault. cbn [decode]. solve_agree. Qed.
#[local] Hint Resolve agree_SlotValueDefault : agree.

Lemma agree_SlotValue d : agree k (sw_decode (switch_SlotValue c) d) (sw_decode (switch_SlotValue c') d).
Proof using All. unfold switch_SlotValue, decode_from_SlotValue. cbn [sw_decode]. solve_agree. Qed.
#[local] Hint Resolve agree_SlotValue : agree.

End agree.

(** ** The item *)

#[local] Unset Elimination Schemes.
Inductive Slot : Type := mkSlot {
  Slot_item_count : Z;
  Slot_value : SlotValue Slot;
}.
#[local] Set Elimination Schemes.

(** One level, over the codec of the levels below. *)
Section level_Slot.
Context (wire_Slot : Codec Slot) (dom_Slot : Slot → Prop) (bytes_Slot : Slot → list byte).
Context `{!LawfulCodec wire_Slot dom_Slot bytes_Slot, !CodecCost dom_Slot bytes_Slot}.

Definition level_Slot : Codec Slot := {|
  encode p :=
    modify (write_varint (Slot_item_count p)) ;;;
    encode_at (switch_SlotValue wire_Slot) (Slot_item_count p) (Slot_value p) ;;;
    ret tt;
  decode :=
    let* item_count := read_varint in
    let* value := sw_decode (switch_SlotValue wire_Slot) item_count in
    ret (mkSlot item_count value);
|}.
Definition dom_level_Slot (p : Slot) : Prop :=
  in_i 32 (Slot_item_count p)
  ∧ dom_SlotValue dom_Slot (Slot_item_count p) (Slot_value p).
Definition bytes_level_Slot (p : Slot) : list byte :=
  concat [varint_bytes (Slot_item_count p);
    bytes_SlotValue bytes_Slot (Slot_value p)].
#[export] Instance lawful_level_Slot : LawfulCodec level_Slot dom_level_Slot bytes_level_Slot.
Proof. solve_struct. Qed.
#[export] Instance cost_level_Slot : CodecCost dom_level_Slot bytes_level_Slot.
Proof using Type. solve_head. Qed.
End level_Slot.

Fixpoint encode_Slot (p : Slot) : Write :=
  modify (write_varint (Slot_item_count p)) ;;;
  only (case_SlotValue (Slot_item_count p) (Slot_value p)) (encode_SlotValue encode_Slot (Slot_value p)) ;;;
  ret tt.

Definition wire_Slot : Codec Slot := knot level_Slot encode_Slot.
Definition dom_Slot : Slot → Prop := knot_dom dom_level_Slot.
Definition bytes_Slot : Slot → list byte := knot_bytes encode_Slot.

#[export] Instance guarded_Slot : Guarded level_Slot.
Proof.
  split.
  - intros c Hc. change (SafeDecode c) in Hc. unfold level_Slot. cbn [decode]. mauto.
  - intros c c' k Hb Hc. pose proof (Hb : SafeDecode c). unfold level_Slot. cbn [decode].
    apply agree_bind_progress; [apply progress_varint|intros item_count].
    apply agree_bind; [mauto|by apply agree_SlotValue|intros v; apply agree_refl].
Qed.

Lemma encode_Slot_eq p : encode_Slot p = encode (level_Slot wire_Slot) p.
Proof. by destruct p. Qed.

#[export] Instance lawful_Slot : LawfulCodec wire_Slot dom_Slot bytes_Slot.
Proof. apply (knot_lawful _ _ _ bytes_level_Slot encode_Slot_eq); [intros; apply lawful_level_Slot; done|apply cost_level_Slot]. Qed.
#[export] Instance cost_Slot : CodecCost dom_Slot bytes_Slot.
Proof. apply (knot_cost _ _ _ bytes_level_Slot encode_Slot_eq); [intros; apply lawful_level_Slot; done|apply cost_level_Slot]. Qed.
#[export] Instance safe_Slot : SafeDecode wire_Slot.
Proof. apply knot_bounds, _. Qed.
