(* ===== verification/EntityData.v ===== *)
(** * Particles and entity metadata

    The particle and entity-metadata types of
    [crates/minerider-protocol/src/generated/v1_21_4/types.rs]. *)

From S2P Require Import Prelude Machine Reader Varint Utf8 Buffer Wire Nbt PacketTypes Switch Recursion ItemTypes Items.

Local Open Scope Z_scope.

(** ** Bounds of the shared types *)

#[export] Instance safe_Vec3f64 : SafeDecode wire_Vec3f64.
Proof. solve_safe. Qed.
#[export] Instance safe_Vec3f : SafeDecode wire_Vec3f.
Proof. solve_safe. Qed.

(** ** Particles, entries *)

Inductive ParticleType : Type :=
  | ParticleType_AngryVillager
  | ParticleType_Block
  | ParticleType_LandingLava
  | ParticleType_Scrape
  | ParticleType_Shriek
  | ParticleType_EggCrack
  | ParticleType_DustPlume
  | ParticleType_TrialSpawnerDetectedPlayer
  | ParticleType_TrialSpawnerDetectedPlayerOminous
  | ParticleType_VaultConnection
  | ParticleType_DustPillar
  | ParticleType_OminousSpawning
  | ParticleType_RaidOmen
  | ParticleType_DrippingWater
  | ParticleType_TrialOmen
  | ParticleType_BlockCrumble
  | ParticleType_FallingWater
  | ParticleType_Dust
  | ParticleType_DustColorTransition
  | ParticleType_Effect
  | ParticleType_ElderGuardian
  | ParticleType_EnchantedHit
  | ParticleType_Enchant
  | ParticleType_EndRod
  | ParticleType_BlockMarker
  | ParticleType_EntityEffect
  | ParticleType_ExplosionEmitter
  | ParticleType_Explosion
  | ParticleType_Gust
  | ParticleType_SmallGust
  | ParticleType_GustEmitterLarge
  | ParticleType_GustEmitterSmall
  | ParticleType_SonicBoom
  | ParticleType_FallingDust
  | ParticleType_Firework
  | ParticleType_Bubble
  | ParticleType_Fishing
  | ParticleType_Flame
  | ParticleType_Infested
  | ParticleType_CherryLeaves
  | ParticleType_PaleOakLeaves
  | ParticleType_SculkSoul
  | ParticleType_SculkCharge
  | ParticleType_SculkChargePop
  | ParticleType_SoulFireFlame
  | ParticleType_Soul
  | ParticleType_Cloud
  | ParticleType_Flash
  | ParticleType_HappyVillager
  | ParticleType_Composter
  | ParticleType_Heart
  | ParticleType_InstantEffect
  | ParticleType_Item
  | ParticleType_Vibration
  | ParticleType_Trail
  | ParticleType_ItemSlime
  | ParticleType_ItemCobweb
  | ParticleType_Crit
  | ParticleType_ItemSnowball
  | ParticleType_LargeSmoke
  | ParticleType_Lava
  | ParticleType_Mycelium
  | ParticleType_Note
  | ParticleType_Poof
  | ParticleType_Portal
  | ParticleType_Rain
  | ParticleType_Smoke
  | ParticleType_WhiteSmoke
  | ParticleType_DamageIndicator
  | ParticleType_Sneeze
  | ParticleType_Spit
  | ParticleType_SquidInk
  | ParticleType_SweepAttack
  | ParticleType_TotemOfUndying
  | ParticleType_Underwater
  | ParticleType_Splash
  | ParticleType_Witch
  | ParticleType_BubblePop
  | ParticleType_CurrentDown
  | ParticleType_DragonBreath
  | ParticleType_BubbleColumnUp
  | ParticleType_Nautilus
  | ParticleType_Dolphin
  | ParticleType_CampfireCosySmoke
  | ParticleType_CampfireSignalSmoke
  | ParticleType_DrippingHoney
  | ParticleType_FallingHoney
  | ParticleType_LandingHoney
  | ParticleType_FallingNectar
  | ParticleType_FallingSporeBlossom
  | ParticleType_DrippingLava
  | ParticleType_Ash
  | ParticleType_CrimsonSpore
  | ParticleType_WarpedSpore
  | ParticleType_SporeBlossomAir
  | ParticleType_DrippingObsidianTear
  | ParticleType_FallingObsidianTear
  | ParticleType_LandingObsidianTear
  | ParticleType_ReversePortal
  | ParticleType_WhiteAsh
  | ParticleType_SmallFlame
  | ParticleType_FallingLava
  | ParticleType_Snowflake
  | ParticleType_DrippingDripstoneLava
  | ParticleType_FallingDripstoneLava
  | ParticleType_DrippingDripstoneWater
  | ParticleType_FallingDripstoneWater
  | ParticleType_GlowSquidInk
  | ParticleType_Glow
  | ParticleType_WaxOn
  | ParticleType_WaxOff
  | ParticleType_ElectricSpark.
Definition value_ParticleType (v : ParticleType) : Z :=
  match v with
  | ParticleType_AngryVillager => 0
  | ParticleType_Block => 1
  | ParticleType_LandingLava => 10
  | ParticleType_Scrape => 100
  | ParticleType_Shriek => 101
  | ParticleType_EggCrack => 102
  | ParticleType_DustPlume => 103
  | ParticleType_TrialSpawnerDetectedPlayer => 104
  | ParticleType_TrialSpawnerDetectedPlayerOminous => 105
  | ParticleType_VaultConnection => 106
  | ParticleType_DustPillar => 107
  | ParticleType_OminousSpawning => 108
  | ParticleType_RaidOmen => 109
  | ParticleType_DrippingWater => 11
  | ParticleType_TrialOmen => 110
  | ParticleType_BlockCrumble => 111
  | ParticleType_FallingWater => 12
  | ParticleType_Dust => 13
  | ParticleType_DustColorTransition => 14
  | ParticleType_Effect => 15
  | ParticleType_ElderGuardian => 16
  | ParticleType_EnchantedHit => 17
  | ParticleType_Enchant => 18
  | ParticleType_EndRod => 19
  | ParticleType_BlockMarker => 2
  | ParticleType_EntityEffect => 20
  | ParticleType_ExplosionEmitter => 21
  | ParticleType_Explosion => 22
  | ParticleType_Gust => 23
  | ParticleType_SmallGust => 24
  | ParticleType_GustEmitterLarge => 25
  | ParticleType_GustEmitterSmall => 26
  | ParticleType_SonicBoom => 27
  | ParticleType_FallingDust => 28
  | ParticleType_Firework => 29
  | ParticleType_Bubble => 3
  | ParticleType_Fishing => 30
  | ParticleType_Flame => 31
  | ParticleType_Infested => 32
  | ParticleType_CherryLeaves => 33
  | ParticleType_PaleOakLeaves => 34
  | ParticleType_SculkSoul => 35
  | ParticleType_SculkCharge => 36
  | ParticleType_SculkChargePop => 37
  | ParticleType_SoulFireFlame => 38
  | ParticleType_Soul => 39
  | ParticleType_Cloud => 4
  | ParticleType_Flash => 40
  | ParticleType_HappyVillager => 41
  | ParticleType_Composter => 42
  | ParticleType_Heart => 43
  | ParticleType_InstantEffect => 44
  | ParticleType_Item => 45
  | ParticleType_Vibration => 46
  | ParticleType_Trail => 47
  | ParticleType_ItemSlime => 48
  | ParticleType_ItemCobweb => 49
  | ParticleType_Crit => 5
  | ParticleType_ItemSnowball => 50
  | ParticleType_LargeSmoke => 51
  | ParticleType_Lava => 52
  | ParticleType_Mycelium => 53
  | ParticleType_Note => 54
  | ParticleType_Poof => 55
  | ParticleType_Portal => 56
  | ParticleType_Rain => 57
  | ParticleType_Smoke => 58
  | ParticleType_WhiteSmoke => 59
  | ParticleType_DamageIndicator => 6
  | ParticleType_Sneeze => 60
  | ParticleType_Spit => 61
  | ParticleType_SquidInk => 62
  | ParticleType_SweepAttack => 63
  | ParticleType_TotemOfUndying => 64
  | ParticleType_Underwater => 65
  | ParticleType_Splash => 66
  | ParticleType_Witch => 67
  | ParticleType_BubblePop => 68
  | ParticleType_CurrentDown => 69
  | ParticleType_DragonBreath => 7
  | ParticleType_BubbleColumnUp => 70
  | ParticleType_Nautilus => 71
  | ParticleType_Dolphin => 72
  | ParticleType_CampfireCosySmoke => 73
  | ParticleType_CampfireSignalSmoke => 74
  | ParticleType_DrippingHoney => 75
  | ParticleType_FallingHoney => 76
  | ParticleType_LandingHoney => 77
  | ParticleType_FallingNectar => 78
  | ParticleType_FallingSporeBlossom => 79
  | ParticleType_DrippingLava => 8
  | ParticleType_Ash => 80
  | ParticleType_CrimsonSpore => 81
  | ParticleType_WarpedSpore => 82
  | ParticleType_SporeBlossomAir => 83
  | ParticleType_DrippingObsidianTear => 84
  | ParticleType_FallingObsidianTear => 85
  | ParticleType_LandingObsidianTear => 86
  | ParticleType_ReversePortal => 87
  | ParticleType_WhiteAsh => 88
  | ParticleType_SmallFlame => 89
  | ParticleType_FallingLava => 9
  | ParticleType_Snowflake => 90
  | ParticleType_DrippingDripstoneLava => 91
  | ParticleType_FallingDripstoneLava => 92
  | ParticleType_DrippingDripstoneWater => 93
  | ParticleType_FallingDripstoneWater => 94
  | ParticleType_GlowSquidInk => 95
  | ParticleType_Glow => 96
  | ParticleType_WaxOn => 97
  | ParticleType_WaxOff => 98
  | ParticleType_ElectricSpark => 99
  end.
Definition of_ParticleType (value : Z) : option ParticleType :=
  match value with
  | 0 => Some ParticleType_AngryVillager
  | 1 => Some ParticleType_Block
  | 10 => Some ParticleType_LandingLava
  | 100 => Some ParticleType_Scrape
  | 101 => Some ParticleType_Shriek
  | 102 => Some ParticleType_EggCrack
  | 103 => Some ParticleType_DustPlume
  | 104 => Some ParticleType_TrialSpawnerDetectedPlayer
  | 105 => Some ParticleType_TrialSpawnerDetectedPlayerOminous
  | 106 => Some ParticleType_VaultConnection
  | 107 => Some ParticleType_DustPillar
  | 108 => Some ParticleType_OminousSpawning
  | 109 => Some ParticleType_RaidOmen
  | 11 => Some ParticleType_DrippingWater
  | 110 => Some ParticleType_TrialOmen
  | 111 => Some ParticleType_BlockCrumble
  | 12 => Some ParticleType_FallingWater
  | 13 => Some ParticleType_Dust
  | 14 => Some ParticleType_DustColorTransition
  | 15 => Some ParticleType_Effect
  | 16 => Some ParticleType_ElderGuardian
  | 17 => Some ParticleType_EnchantedHit
  | 18 => Some ParticleType_Enchant
  | 19 => Some ParticleType_EndRod
  | 2 => Some ParticleType_BlockMarker
  | 20 => Some ParticleType_EntityEffect
  | 21 => Some ParticleType_ExplosionEmitter
  | 22 => Some ParticleType_Explosion
  | 23 => Some ParticleType_Gust
  | 24 => Some ParticleType_SmallGust
  | 25 => Some ParticleType_GustEmitterLarge
  | 26 => Some ParticleType_GustEmitterSmall
  | 27 => Some ParticleType_SonicBoom
  | 28 => Some ParticleType_FallingDust
  | 29 => Some ParticleType_Firework
  | 3 => Some ParticleType_Bubble
  | 30 => Some ParticleType_Fishing
  | 31 => Some ParticleType_Flame
  | 32 => Some ParticleType_Infested
  | 33 => Some ParticleType_CherryLeaves
  | 34 => Some ParticleType_PaleOakLeaves
  | 35 => Some ParticleType_SculkSoul
  | 36 => Some ParticleType_SculkCharge
  | 37 => Some ParticleType_SculkChargePop
  | 38 => Some ParticleType_SoulFireFlame
  | 39 => Some ParticleType_Soul
  | 4 => Some ParticleType_Cloud
  | 40 => Some ParticleType_Flash
  | 41 => Some ParticleType_HappyVillager
  | 42 => Some ParticleType_Composter
  | 43 => Some ParticleType_Heart
  | 44 => Some ParticleType_InstantEffect
  | 45 => Some ParticleType_Item
  | 46 => Some ParticleType_Vibration
  | 47 => Some ParticleType_Trail
  | 48 => Some ParticleType_ItemSlime
  | 49 => Some ParticleType_ItemCobweb
  | 5 => Some ParticleType_Crit
  | 50 => Some ParticleType_ItemSnowball
  | 51 => Some ParticleType_LargeSmoke
  | 52 => Some ParticleType_Lava
  | 53 => Some ParticleType_Mycelium
  | 54 => Some ParticleType_Note
  | 55 => Some ParticleType_Poof
  | 56 => Some ParticleType_Portal
  | 57 => Some ParticleType_Rain
  | 58 => Some ParticleType_Smoke
  | 59 => Some ParticleType_WhiteSmoke
  | 6 => Some ParticleType_DamageIndicator
  | 60 => Some ParticleType_Sneeze
  | 61 => Some ParticleType_Spit
  | 62 => Some ParticleType_SquidInk
  | 63 => Some ParticleType_SweepAttack
  | 64 => Some ParticleType_TotemOfUndying
  | 65 => Some ParticleType_Underwater
  | 66 => Some ParticleType_Splash
  | 67 => Some ParticleType_Witch
  | 68 => Some ParticleType_BubblePop
  | 69 => Some ParticleType_CurrentDown
  | 7 => Some ParticleType_DragonBreath
  | 70 => Some ParticleType_BubbleColumnUp
  | 71 => Some ParticleType_Nautilus
  | 72 => Some ParticleType_Dolphin
  | 73 => Some ParticleType_CampfireCosySmoke
  | 74 => Some ParticleType_CampfireSignalSmoke
  | 75 => Some ParticleType_DrippingHoney
  | 76 => Some ParticleType_FallingHoney
  | 77 => Some ParticleType_LandingHoney
  | 78 => Some ParticleType_FallingNectar
  | 79 => Some ParticleType_FallingSporeBlossom
  | 8 => Some ParticleType_DrippingLava
  | 80 => Some ParticleType_Ash
  | 81 => Some ParticleType_CrimsonSpore
  | 82 => Some ParticleType_WarpedSpore
  | 83 => Some ParticleType_SporeBlossomAir
  | 84 => Some ParticleType_DrippingObsidianTear
  | 85 => Some ParticleType_FallingObsidianTear
  | 86 => Some ParticleType_LandingObsidianTear
  | 87 => Some ParticleType_ReversePortal
  | 88 => Some ParticleType_WhiteAsh
  | 89 => Some ParticleType_SmallFlame
  | 9 => Some ParticleType_FallingLava
  | 90 => Some ParticleType_Snowflake
  | 91 => Some ParticleType_DrippingDripstoneLava
  | 92 => Some ParticleType_FallingDripstoneLava
  | 93 => Some ParticleType_DrippingDripstoneWater
  | 94 => Some ParticleType_FallingDripstoneWater
  | 95 => Some ParticleType_GlowSquidInk
  | 96 => Some ParticleType_Glow
  | 97 => Some ParticleType_WaxOn
  | 98 => Some ParticleType_WaxOff
  | 99 => Some ParticleType_ElectricSpark
  | _ => None
  end.
#[export] Instance ParticleType_eq_dec : EqDecision ParticleType.
Proof. apply (value_eq_dec value_ParticleType), (value_inj _ of_ParticleType). by intros []. Defined.
Definition wire_ParticleType : Codec ParticleType := {|
  encode v := modify (write_varint (value_ParticleType v));
  decode :=
    let* value := read_varint in
    match of_ParticleType value with
    | Some v => ret v
    | None => raise (UnknownEnumValue "ParticleType" value)
    end;
|}.
Definition dom_ParticleType (_ : ParticleType) : Prop := True.
Definition bytes_ParticleType (v : ParticleType) : list byte := varint_bytes (value_ParticleType v).
#[export] Instance lawful_ParticleType : LawfulCodec wire_ParticleType dom_ParticleType bytes_ParticleType.
Proof. solve_enum. Qed.
#[export] Instance cost_ParticleType : CodecCost dom_ParticleType bytes_ParticleType.
Proof. solve_cost. Qed.
#[export] Instance safe_ParticleType : SafeDecode wire_ParticleType.
Proof. solve_safe. Qed.

Record ParticleDataDust : Type := mkParticleDataDust {
  ParticleDataDust_red : Z;
  ParticleDataDust_green : Z;
  ParticleDataDust_blue : Z;
  ParticleDataDust_scale : Z;
}.
Definition wire_ParticleDataDust : Codec ParticleDataDust := {|
  encode p :=
    encode wire_f32 (ParticleDataDust_red p) ;;;
    encode wire_f32 (ParticleDataDust_green p) ;;;
    encode wire_f32 (ParticleDataDust_blue p) ;;;
    encode wire_f32 (ParticleDataDust_scale p) ;;;
    ret tt;
  decode :=
    let* red := decode wire_f32 in
    let* green := decode wire_f32 in
    let* blue := decode wire_f32 in
    let* scale := decode wire_f32 in
    ret (mkParticleDataDust red green blue scale);
|}.
Definition dom_ParticleDataDust (p : ParticleDataDust) : Prop :=
  in_u 32 (ParticleDataDust_red p)
  ∧ in_u 32 (ParticleDataDust_green p)
  ∧ in_u 32 (ParticleDataDust_blue p)
  ∧ in_u 32 (ParticleDataDust_scale p).
Definition bytes_ParticleDataDust (p : ParticleDataDust) : list byte :=
  concat [be_bytes 4 (ParticleDataDust_red p);
    be_bytes 4 (ParticleDataDust_green p);
    be_bytes 4 (ParticleDataDust_blue p);
    be_bytes 4 (ParticleDataDust_scale p)].
#[export] Instance lawful_ParticleDataDust : LawfulCodec wire_ParticleDataDust dom_ParticleDataDust bytes_ParticleDataDust.
Proof. solve_struct. Qed.
#[export] Instance cost_ParticleDataDust : CodecCost dom_ParticleDataDust bytes_ParticleDataDust.
Proof. solve_head. Qed.
#[export] Instance safe_ParticleDataDust : SafeDecode wire_ParticleDataDust.
Proof. solve_safe. Qed.

Record ParticleDataDustColorTransition : Type := mkParticleDataDustColorTransition {
  ParticleDataDustColorTransition_from_red : Z;
  ParticleDataDustColorTransition_from_green : Z;
  ParticleDataDustColorTransition_from_blue : Z;
  ParticleDataDustColorTransition_scale : Z;
  ParticleDataDustColorTransition_to_red : Z;
  ParticleDataDustColorTransition_to_green : Z;
  ParticleDataDustColorTransition_to_blue : Z;
}.
Definition wire_ParticleDataDustColorTransition : Codec ParticleDataDustColorTransition := {|
  encode p :=
    encode wire_f32 (ParticleDataDustColorTransition_from_red p) ;;;
    encode wire_f32 (ParticleDataDustColorTransition_from_green p) ;;;
    encode wire_f32 (ParticleDataDustColorTransition_from_blue p) ;;;
    encode wire_f32 (ParticleDataDustColorTransition_scale p) ;;;
    encode wire_f32 (ParticleDataDustColorTransition_to_red p) ;;;
    encode wire_f32 (ParticleDataDustColorTransition_to_green p) ;;;
    encode wire_f32 (ParticleDataDustColorTransition_to_blue p) ;;;
    ret tt;
  decode :=
    let* from_red := decode wire_f32 in
    let* from_green := decode wire_f32 in
    let* from_blue := decode wire_f32 in
    let* scale := decode wire_f32 in
    let* to_red := decode wire_f32 in
    let* to_green := decode wire_f32 in
    let* to_blue := decode wire_f32 in
    ret (mkParticleDataDustColorTransition from_red from_green from_blue scale to_red to_green to_blue);
|}.
Definition dom_ParticleDataDustColorTransition (p : ParticleDataDustColorTransition) : Prop :=
  in_u 32 (ParticleDataDustColorTransition_from_red p)
  ∧ in_u 32 (ParticleDataDustColorTransition_from_green p)
  ∧ in_u 32 (ParticleDataDustColorTransition_from_blue p)
  ∧ in_u 32 (ParticleDataDustColorTransition_scale p)
  ∧ in_u 32 (ParticleDataDustColorTransition_to_red p)
  ∧ in_u 32 (ParticleDataDustColorTransition_to_green p)
  ∧ in_u 32 (ParticleDataDustColorTransition_to_blue p).
Definition bytes_ParticleDataDustColorTransition (p : ParticleDataDustColorTransition) : list byte :=
  concat [be_bytes 4 (ParticleDataDustColorTransition_from_red p);
    be_bytes 4 (ParticleDataDustColorTransition_from_green p);
    be_bytes 4 (ParticleDataDustColorTransition_from_blue p);
    be_bytes 4 (ParticleDataDustColorTransition_scale p);
    be_bytes 4 (ParticleDataDustColorTransition_to_red p);
    be_bytes 4 (ParticleDataDustColorTransition_to_green p);
    be_bytes 4 (ParticleDataDustColorTransition_to_blue p)].
#[export] Instance lawful_ParticleDataDustColorTransition : LawfulCodec wire_ParticleDataDustColorTransition dom_ParticleDataDustColorTransition bytes_ParticleDataDustColorTransition.
Proof. solve_struct. Qed.
#[export] Instance cost_ParticleDataDustColorTransition : CodecCost dom_ParticleDataDustColorTransition bytes_ParticleDataDustColorTransition.
Proof. solve_head. Qed.
#[export] Instance safe_ParticleDataDustColorTransition : SafeDecode wire_ParticleDataDustColorTransition.
Proof. solve_safe. Qed.

Record ParticleDataTrail : Type := mkParticleDataTrail {
  ParticleDataTrail_target : Vec3f64;
  ParticleDataTrail_color : Z;
}.
Definition wire_ParticleDataTrail : Codec ParticleDataTrail := {|
  encode p :=
    encode wire_Vec3f64 (ParticleDataTrail_target p) ;;;
    encode wire_u8 (ParticleDataTrail_color p) ;;;
    ret tt;
  decode :=
    let* target := decode wire_Vec3f64 in
    let* color := decode wire_u8 in
    ret (mkParticleDataTrail target color);
|}.
Definition dom_ParticleDataTrail (p : ParticleDataTrail) : Prop :=
  dom_Vec3f64 (ParticleDataTrail_target p)
  ∧ in_u 8 (ParticleDataTrail_color p).
Definition bytes_ParticleDataTrail (p : ParticleDataTrail) : list byte :=
  concat [bytes_Vec3f64 (ParticleDataTrail_target p);
    be_bytes 1 (ParticleDataTrail_color p)].
#[export] Instance lawful_ParticleDataTrail : LawfulCodec wire_ParticleDataTrail dom_ParticleDataTrail bytes_ParticleDataTrail.
Proof. solve_struct. Qed.
#[export] Instance cost_ParticleDataTrail : CodecCost dom_ParticleDataTrail bytes_ParticleDataTrail.
Proof. solve_head. Qed.
#[export] Instance safe_ParticleDataTrail : SafeDecode wire_ParticleDataTrail.
Proof. solve_safe. Qed.

Inductive ParticleDataVibrationPositionType : Type :=
  | ParticleDataVibrationPositionType_Block
  | ParticleDataVibrationPositionType_Entity.
Definition value_ParticleDataVibrationPositionType (v : ParticleDataVibrationPositionType) : Z :=
  match v with
  | ParticleDataVibrationPositionType_Block => 0
  | ParticleDataVibrationPositionType_Entity => 1
  end.
Definition of_ParticleDataVibrationPositionType (value : Z) : option ParticleDataVibrationPositionType :=
  match value with
  | 0 => Some ParticleDataVibrationPositionType_Block
  | 1 => Some ParticleDataVibrationPositionType_Entity
  | _ => None
  end.
#[export] Instance ParticleDataVibrationPositionType_eq_dec : EqDecision ParticleDataVibrationPositionType.
Proof. apply (value_eq_dec value_ParticleDataVibrationPositionType), (value_inj _ of_ParticleDataVibrationPositionType). by intros []. Defined.
Definition wire_ParticleDataVibrationPositionType : Codec ParticleDataVibrationPositionType := {|
  encode v := modify (write_varint (value_ParticleDataVibrationPositionType v));
  decode :=
    let* value := read_varint in
    match of_ParticleDataVibrationPositionType value with
    | Some v => ret v
    | None => raise (UnknownEnumValue "ParticleDataVibrationPositionType" value)
    end;
|}.
Definition dom_ParticleDataVibrationPositionType (_ : ParticleDataVibrationPositionType) : Prop := True.
Definition bytes_ParticleDataVibrationPositionType (v : ParticleDataVibrationPositionType) : list byte := varint_bytes (value_ParticleDataVibrationPositionType v).
#[export] Instance lawful_ParticleDataVibrationPositionType : LawfulCodec wire_ParticleDataVibrationPositionType dom_ParticleDataVibrationPositionType bytes_ParticleDataVibrationPositionType.
Proof. solve_enum. Qed.
#[export] Instance cost_ParticleDataVibrationPositionType : CodecCost dom_ParticleDataVibrationPositionType bytes_ParticleDataVibrationPositionType.
Proof. solve_cost. Qed.
#[export] Instance safe_ParticleDataVibrationPositionType : SafeDecode wire_ParticleDataVibrationPositionType.
Proof. solve_safe. Qed.

Record ParticleDataVibrationPositionEntity : Type := mkParticleDataVibrationPositionEntity {
  ParticleDataVibrationPositionEntity_entity_id : Z;
  ParticleDataVibrationPositionEntity_entity_eye_height : Z;
}.
Definition wire_ParticleDataVibrationPositionEntity : Codec ParticleDataVibrationPositionEntity := {|
  encode p :=
    modify (write_varint (ParticleDataVibrationPositionEntity_entity_id p)) ;;;
    encode wire_f32 (ParticleDataVibrationPositionEntity_entity_eye_height p) ;;;
    ret tt;
  decode :=
    let* entity_id := read_varint in
    let* entity_eye_height := decode wire_f32 in
    ret (mkParticleDataVibrationPositionEntity entity_id entity_eye_height);
|}.
Definition dom_ParticleDataVibrationPositionEntity (p : ParticleDataVibrationPositionEntity) : Prop :=
  in_i 32 (ParticleDataVibrationPositionEntity_entity_id p)
  ∧ in_u 32 (ParticleDataVibrationPositionEntity_entity_eye_height p).
Definition bytes_ParticleDataVibrationPositionEntity (p : ParticleDataVibrationPositionEntity) : list byte :=
  concat [varint_bytes (ParticleDataVibrationPositionEntity_entity_id p);
    be_bytes 4 (ParticleDataVibrationPositionEntity_entity_eye_height p)].
#[export] Instance lawful_ParticleDataVibrationPositionEntity : LawfulCodec wire_ParticleDataVibrationPositionEntity dom_ParticleDataVibrationPositionEntity bytes_ParticleDataVibrationPositionEntity.
Proof. solve_struct. Qed.
#[export] Instance cost_ParticleDataVibrationPositionEntity : CodecCost dom_ParticleDataVibrationPositionEntity bytes_ParticleDataVibrationPositionEntity.
Proof. solve_head. Qed.
#[export] Instance safe_ParticleDataVibrationPositionEntity : SafeDecode wire_ParticleDataVibrationPositionEntity.
Proof. solve_safe. Qed.

Inductive ParticleDataVibrationPosition : Type :=
  | ParticleDataVibrationPosition_Block (v : Position)
  | ParticleDataVibrationPosition_Entity (v : ParticleDataVibrationPositionEntity).
Definition encode_ParticleDataVibrationPosition (v : ParticleDataVibrationPosition) : Write :=
  match v with
  | ParticleDataVibrationPosition_Block v => encode wire_Position v
  | ParticleDataVibrationPosition_Entity v => encode wire_ParticleDataVibrationPositionEntity v
  end.
Definition decode_from_ParticleDataVibrationPosition (d : ParticleDataVibrationPositionType) : Read ParticleDataVibrationPosition :=
  match d with
  | ParticleDataVibrationPositionType_Block => (let* v := decode wire_Position in ret (ParticleDataVibrationPosition_Block v))
  | ParticleDataVibrationPositionType_Entity => (let* v := decode wire_ParticleDataVibrationPositionEntity in ret (ParticleDataVibrationPosition_Entity v))
  end.
Definition case_ParticleDataVibrationPosition (d : ParticleDataVibrationPositionType) (v : ParticleDataVibrationPosition) : bool :=
  match v with
  | ParticleDataVibrationPosition_Block _ => on d ParticleDataVibrationPositionType_Block
  | ParticleDataVibrationPosition_Entity _ => on d ParticleDataVibrationPositionType_Entity
  end.
Definition switch_ParticleDataVibrationPosition : Switch ParticleDataVibrationPositionType ParticleDataVibrationPosition := mkSwitch case_ParticleDataVibrationPosition encode_ParticleDataVibrationPosition decode_from_ParticleDataVibrationPosition.
Definition dom_ParticleDataVibrationPosition (d : ParticleDataVibrationPositionType) (v : ParticleDataVibrationPosition) : Prop :=
  case_ParticleDataVibrationPosition d v = true ∧
  match v with
  | ParticleDataVibrationPosition_Block v => dom_Position v
  | ParticleDataVibrationPosition_Entity v => dom_ParticleDataVibrationPositionEntity v
  end.
Definition bytes_ParticleDataVibrationPosition (v : ParticleDataVibrationPosition) : list byte :=
  match v with
  | ParticleDataVibrationPosition_Block v => bytes_Position v
  | ParticleDataVibrationPosition_Entity v => bytes_ParticleDataVibrationPositionEntity v
  end.
#[export] Instance lawful_ParticleDataVibrationPosition : LawfulSwitch switch_ParticleDataVibrationPosition dom_ParticleDataVibrationPosition bytes_ParticleDataVibrationPosition.
Proof. solve_switch. Qed.
#[export] Instance safe_ParticleDataVibrationPosition : SafeSwitch switch_ParticleDataVibrationPosition.
Proof. solve_safe. Qed.

Record ParticleDataVibration : Type := mkParticleDataVibration {
  ParticleDataVibration_position_type : ParticleDataVibrationPositionType;
  ParticleDataVibration_position : ParticleDataVibrationPosition;
  ParticleDataVibration_ticks : Z;
}.
Definition wire_ParticleDataVibration : Codec ParticleDataVibration := {|
  encode p :=
    encode wire_ParticleDataVibrationPositionType (ParticleDataVibration_position_type p) ;;;
    encode_at switch_ParticleDataVibrationPosition (ParticleDataVibration_position_type p) (ParticleDataVibration_position p) ;;;
    modify (write_varint (ParticleDataVibration_ticks p)) ;;;
    ret tt;
  decode :=
    let* position_type := decode wire_ParticleDataVibrationPositionType in
    let* position := sw_decode switch_ParticleDataVibrationPosition position_type in
    let* ticks := read_varint in
    ret (mkParticleDataVibration position_type position ticks);
|}.
Definition dom_ParticleDataVibration (p : ParticleDataVibration) : Prop :=
  dom_ParticleDataVibrationPositionType (ParticleDataVibration_position_type p)
  ∧ dom_ParticleDataVibrationPosition (ParticleDataVibration_position_type p) (ParticleDataVibration_position p)
  ∧ in_i 32 (ParticleDataVibration_ticks p).
Definition bytes_ParticleDataVibration (p : ParticleDataVibration) : list byte :=
  concat [bytes_ParticleDataVibrationPositionType (ParticleDataVibration_position_type p);
    bytes_ParticleDataVibrationPosition (ParticleDataVibration_position p);
    varint_bytes (ParticleDataVibration_ticks p)].
#[export] Instance lawful_ParticleDataVibration : LawfulCodec wire_ParticleDataVibration dom_ParticleDataVibration bytes_ParticleDataVibration.
Proof. solve_struct. Qed.
#[export] Instance cost_ParticleDataVibration : CodecCost dom_ParticleDataVibration bytes_ParticleDataVibration.
Proof. solve_head. Qed.
#[export] Instance safe_ParticleDataVibration : SafeDecode wire_ParticleDataVibration.
Proof. solve_safe. Qed.

Inductive ParticleData : Type :=
  | ParticleData_Block (v : Z)
  | ParticleData_BlockCrumble (v : Z)
  | ParticleData_BlockMarker (v : Z)
  | ParticleData_Dust (v : ParticleDataDust)
  | ParticleData_DustColorTransition (v : ParticleDataDustColorTransition)
  | ParticleData_DustPillar (v : Z)
  | ParticleData_EntityEffect (v : Z)
  | ParticleData_FallingDust (v : Z)
  | ParticleData_Item (v : Slot)
  | ParticleData_SculkCharge (v : Z)
  | ParticleData_Shriek (v : Z)
  | ParticleData_Trail (v : ParticleDataTrail)
  | ParticleData_Vibration (v : ParticleDataVibration)
  | ParticleData_None.
Definition encode_ParticleData (v : ParticleData) : Write :=
  match v with
  | ParticleData_Block v => encode wire_varint v
  | ParticleData_BlockCrumble v => encode wire_varint v
  | ParticleData_BlockMarker v => encode wire_varint v
  | ParticleData_Dust v => encode wire_ParticleDataDust v
  | ParticleData_DustColorTransition v => encode wire_ParticleDataDustColorTransition v
  | ParticleData_DustPillar v => encode wire_varint v
  | ParticleData_EntityEffect v => encode wire_i32 v
  | ParticleData_FallingDust v => encode wire_varint v
  | ParticleData_Item v => encode wire_Slot v
  | ParticleData_SculkCharge v => encode wire_f32 v
  | ParticleData_Shriek v => encode wire_varint v
  | ParticleData_Trail v => encode wire_ParticleDataTrail v
  | ParticleData_Vibration v => encode wire_ParticleDataVibration v
  | ParticleData_None => ret tt
  end.
Definition decode_from_ParticleData (d : ParticleType) : Read ParticleData :=
  match d with
  | ParticleType_Block => (let* v := decode wire_varint in ret (ParticleData_Block v))
  | ParticleType_BlockCrumble => (let* v := decode wire_varint in ret (ParticleData_BlockCrumble v))
  | ParticleType_BlockMarker => (let* v := decode wire_varint in ret (ParticleData_BlockMarker v))
  | ParticleType_Dust => (let* v := decode wire_ParticleDataDust in ret (ParticleData_Dust v))
  | ParticleType_DustColorTransition => (let* v := decode wire_ParticleDataDustColorTransition in ret (ParticleData_DustColorTransition v))
  | ParticleType_DustPillar => (let* v := decode wire_varint in ret (ParticleData_DustPillar v))
  | ParticleType_EntityEffect => (let* v := decode wire_i32 in ret (ParticleData_EntityEffect v))
  | ParticleType_FallingDust => (let* v := decode wire_varint in ret (ParticleData_FallingDust v))
  | ParticleType_Item => (let* v := decode wire_Slot in ret (ParticleData_Item v))
  | ParticleType_SculkCharge => (let* v := decode wire_f32 in ret (ParticleData_SculkCharge v))
  | ParticleType_Shriek => (let* v := decode wire_varint in ret (ParticleData_Shriek v))
  | ParticleType_Trail => (let* v := decode wire_ParticleDataTrail in ret (ParticleData_Trail v))
  | ParticleType_Vibration => (let* v := decode wire_ParticleDataVibration in ret (ParticleData_Vibration v))
  | _ => ret ParticleData_None
  end.
Definition case_ParticleData (d : ParticleType) (v : ParticleData) : bool :=
  match v with
  | ParticleData_Block _ => on d ParticleType_Block
  | ParticleData_BlockCrumble _ => on d ParticleType_BlockCrumble
  | ParticleData_BlockMarker _ => on d ParticleType_BlockMarker
  | ParticleData_Dust _ => on d ParticleType_Dust
  | ParticleData_DustColorTransition _ => on d ParticleType_DustColorTransition
  | ParticleData_DustPillar _ => on d ParticleType_DustPillar
  | ParticleData_EntityEffect _ => on d ParticleType_EntityEffect
  | ParticleData_FallingDust _ => on d ParticleType_FallingDust
  | ParticleData_Item _ => on d ParticleType_Item
  | ParticleData_SculkCharge _ => on d ParticleType_SculkCharge
  | ParticleData_Shriek _ => on d ParticleType_Shriek
  | ParticleData_Trail _ => on d ParticleType_Trail
  | ParticleData_Vibration _ => on d ParticleType_Vibration
  | ParticleData_None => match d with ParticleType_Block | ParticleType_BlockCrumble | ParticleType_BlockMarker | ParticleType_Dust | ParticleType_DustColorTransition | ParticleType_DustPillar | ParticleType_EntityEffect | ParticleType_FallingDust | ParticleType_Item | ParticleType_SculkCharge | ParticleType_Shriek | ParticleType_Trail | ParticleType_Vibration => false | _ => true end
  end.
Definition switch_ParticleData : Switch ParticleType ParticleData := mkSwitch case_ParticleData encode_ParticleData decode_from_ParticleData.
Definition dom_ParticleData (d : ParticleType) (v : ParticleData) : Prop :=
  case_ParticleData d v = true ∧
  match v with
  | ParticleData_Block v => in_i 32 v
  | ParticleData_BlockCrumble v => in_i 32 v
  | ParticleData_BlockMarker v => in_i 32 v
  | ParticleData_Dust v => dom_ParticleDataDust v
  | ParticleData_DustColorTransition v => dom_ParticleDataDustColorTransition v
  | ParticleData_DustPillar v => in_i 32 v
  | ParticleData_EntityEffect v => in_i 32 v
  | ParticleData_FallingDust v => in_i 32 v
  | ParticleData_Item v => dom_Slot v
  | ParticleData_SculkCharge v => in_u 32 v
  | ParticleData_Shriek v => in_i 32 v
  | ParticleData_Trail v => dom_ParticleDataTrail v
  | ParticleData_Vibration v => dom_ParticleDataVibration v
  | _ => True
  end.
Definition bytes_ParticleData (v : ParticleData) : list byte :=
  match v with
  | ParticleData_Block v => varint_bytes v
  | ParticleData_BlockCrumble v => varint_bytes v
  | ParticleData_BlockMarker v => varint_bytes v
  | ParticleData_Dust v => bytes_ParticleDataDust v
  | ParticleData_DustColorTransition v => bytes_ParticleDataDustColorTransition v
  | ParticleData_DustPillar v => varint_bytes v
  | ParticleData_EntityEffect v => be_bytes 4 v
  | ParticleData_FallingDust v => varint_bytes v
  | ParticleData_Item v => bytes_Slot v
  | ParticleData_SculkCharge v => be_bytes 4 v
  | ParticleData_Shriek v => varint_bytes v
  | ParticleData_Trail v => bytes_ParticleDataTrail v
  | ParticleData_Vibration v => bytes_ParticleDataVibration v
  | _ => []
  end.
#[export] Instance lawful_ParticleData : LawfulSwitch switch_ParticleData dom_ParticleData bytes_ParticleData.
Proof. solve_switch. Qed.
#[export] Instance safe_ParticleData : SafeSwitch switch_ParticleData.
Proof. solve_safe. Qed.

Record Particle : Type := mkParticle {
  Particle_type : ParticleType;
  Particle_data : ParticleData;
}.
Definition wire_Particle : Codec Particle := {|
  encode p :=
    encode wire_ParticleType (Particle_type p) ;;;
    encode_at switch_ParticleData (Particle_type p) (Particle_data p) ;;;
    ret tt;
  decode :=
    let* type_ := decode wire_ParticleType in
    let* data := sw_decode switch_ParticleData type_ in
    ret (mkParticle type_ data);
|}.
Definition dom_Particle (p : Particle) : Prop :=
  dom_ParticleType (Particle_type p)
  ∧ dom_ParticleData (Particle_type p) (Particle_data p).
Definition bytes_Particle (p : Particle) : list byte :=
  concat [bytes_ParticleType (Particle_type p);
    bytes_ParticleData (Particle_data p)].
#[export] Instance lawful_Particle : LawfulCodec wire_Particle dom_Particle bytes_Particle.
Proof. solve_struct. Qed.
#[export] Instance cost_Particle : CodecCost dom_Particle bytes_Particle.
Proof. solve_head. Qed.
#[export] Instance safe_Particle : SafeDecode wire_Particle.
Proof. solve_safe. Qed.

Record EntityMetadataPaintingVariant : Type := mkEntityMetadataPaintingVariant {
  EntityMetadataPaintingVariant_width : Z;
  EntityMetadataPaintingVariant_height : Z;
  EntityMetadataPaintingVariant_asset_id : string;
  EntityMetadataPaintingVariant_title : option Nbt;
  EntityMetadataPaintingVariant_author : option Nbt;
}.
Definition wire_EntityMetadataPaintingVariant : Codec EntityMetadataPaintingVariant := {|
  encode p :=
    modify (put_i32 (EntityMetadataPaintingVariant_width p)) ;;;
    modify (put_i32 (EntityMetadataPaintingVariant_height p)) ;;;
    encode wire_String (EntityMetadataPaintingVariant_asset_id p) ;;;
    encode (wire_Option wire_Nbt) (EntityMetadataPaintingVariant_title p) ;;;
    encode (wire_Option wire_Nbt) (EntityMetadataPaintingVariant_author p) ;;;
    ret tt;
  decode :=
    let* width := get_i32 in
    let* height := get_i32 in
    let* asset_id := decode wire_String in
    let* title := decode (wire_Option wire_Nbt) in
    let* author := decode (wire_Option wire_Nbt) in
    ret (mkEntityMetadataPaintingVariant width height asset_id title author);
|}.
Definition dom_EntityMetadataPaintingVariant (p : EntityMetadataPaintingVariant) : Prop :=
  in_i 32 (EntityMetadataPaintingVariant_width p)
  ∧ in_i 32 (EntityMetadataPaintingVariant_height p)
  ∧ wire_string (EntityMetadataPaintingVariant_asset_id p)
  ∧ option_dom nbt_fits (EntityMetadataPaintingVariant_title p)
  ∧ option_dom nbt_fits (EntityMetadataPaintingVariant_author p).
Definition bytes_EntityMetadataPaintingVariant (p : EntityMetadataPaintingVariant) : list byte :=
  concat [be_bytes 4 (EntityMetadataPaintingVariant_width p);
    be_bytes 4 (EntityMetadataPaintingVariant_height p);
    string_bytes (EntityMetadataPaintingVariant_asset_id p);
    option_bytes nbt_bytes (EntityMetadataPaintingVariant_title p);
    option_bytes nbt_bytes (EntityMetadataPaintingVariant_author p)].
#[export] Instance lawful_EntityMetadataPaintingVariant : LawfulCodec wire_EntityMetadataPaintingVariant dom_EntityMetadataPaintingVariant bytes_EntityMetadataPaintingVariant.
Proof. solve_struct. Qed.
#[export] Instance cost_EntityMetadataPaintingVariant : CodecCost dom_EntityMetadataPaintingVariant bytes_EntityMetadataPaintingVariant.
Proof. solve_head. Qed.
#[export] Instance safe_EntityMetadataPaintingVariant : SafeDecode wire_EntityMetadataPaintingVariant.
Proof. solve_safe. Qed.

Record EntityMetadataWolfVariant : Type := mkEntityMetadataWolfVariant {
  EntityMetadataWolfVariant_wild_texture : string;
  EntityMetadataWolfVariant_tame_texture : string;
  EntityMetadataWolfVariant_angry_texture : string;
  EntityMetadataWolfVariant_biome : HolderSet;
}.
Definition wire_EntityMetadataWolfVariant : Codec EntityMetadataWolfVariant := {|
  encode p :=
    encode wire_String (EntityMetadataWolfVariant_wild_texture p) ;;;
    encode wire_String (EntityMetadataWolfVariant_tame_texture p) ;;;
    encode wire_String (EntityMetadataWolfVariant_angry_texture p) ;;;
    encode wire_HolderSet (EntityMetadataWolfVariant_biome p) ;;;
    ret tt;
  decode :=
    let* wild_texture := decode wire_String in
    let* tame_texture := decode wire_String in
    let* angry_texture := decode wire_String in
    let* biome := decode wire_HolderSet in
    ret (mkEntityMetadataWolfVariant wild_texture tame_texture angry_texture biome);
|}.
Definition dom_EntityMetadataWolfVariant (p : EntityMetadataWolfVariant) : Prop :=
  wire_string (EntityMetadataWolfVariant_wild_texture p)
  ∧ wire_string (EntityMetadataWolfVariant_tame_texture p)
  ∧ wire_string (EntityMetadataWolfVariant_angry_texture p)
  ∧ holder_set_dom (EntityMetadataWolfVariant_biome p).
Definition bytes_EntityMetadataWolfVariant (p : EntityMetadataWolfVariant) : list byte :=
  concat [string_bytes (EntityMetadataWolfVariant_wild_texture p);
    string_bytes (EntityMetadataWolfVariant_tame_texture p);
    string_bytes (EntityMetadataWolfVariant_angry_texture p);
    holder_set_bytes (EntityMetadataWolfVariant_biome p)].
#[export] Instance lawful_EntityMetadataWolfVariant : LawfulCodec wire_EntityMetadataWolfVariant dom_EntityMetadataWolfVariant bytes_EntityMetadataWolfVariant.
Proof. solve_struct. Qed.
#[export] Instance cost_EntityMetadataWolfVariant : CodecCost dom_EntityMetadataWolfVariant bytes_EntityMetadataWolfVariant.
Proof. solve_head. Qed.
#[export] Instance safe_EntityMetadataWolfVariant : SafeDecode wire_EntityMetadataWolfVariant.
Proof. solve_safe. Qed.

Inductive EntityMetadataEntryType : Type :=
  | EntityMetadataEntryType_Byte
  | EntityMetadataEntryType_Int
  | EntityMetadataEntryType_BlockPos
  | EntityMetadataEntryType_OptionalBlockPos
  | EntityMetadataEntryType_Direction
  | EntityMetadataEntryType_OptionalUuid
  | EntityMetadataEntryType_BlockState
  | EntityMetadataEntryType_OptionalBlockState
  | EntityMetadataEntryType_CompoundTag
  | EntityMetadataEntryType_Particle
  | EntityMetadataEntryType_Particles
  | EntityMetadataEntryType_VillagerData
  | EntityMetadataEntryType_Long
  | EntityMetadataEntryType_OptionalUnsignedInt
  | EntityMetadataEntryType_Pose
  | EntityMetadataEntryType_CatVariant
  | EntityMetadataEntryType_WolfVariant
  | EntityMetadataEntryType_FrogVariant
  | EntityMetadataEntryType_OptionalGlobalPos
  | EntityMetadataEntryType_PaintingVariant
  | EntityMetadataEntryType_SnifferState
  | EntityMetadataEntryType_ArmadilloState
  | EntityMetadataEntryType_Vector3
  | EntityMetadataEntryType_Float
  | EntityMetadataEntryType_Quaternion
  | EntityMetadataEntryType_String
  | EntityMetadataEntryType_Component
  | EntityMetadataEntryType_OptionalComponent
  | EntityMetadataEntryType_ItemStack
  | EntityMetadataEntryType_Boolean
  | EntityMetadataEntryType_Rotations.
Definition value_EntityMetadataEntryType (v : EntityMetadataEntryType) : Z :=
  match v with
  | EntityMetadataEntryType_Byte => 0
  | EntityMetadataEntryType_Int => 1
  | EntityMetadataEntryType_BlockPos => 10
  | EntityMetadataEntryType_OptionalBlockPos => 11
  | EntityMetadataEntryType_Direction => 12
  | EntityMetadataEntryType_OptionalUuid => 13
  | EntityMetadataEntryType_BlockState => 14
  | EntityMetadataEntryType_OptionalBlockState => 15
  | EntityMetadataEntryType_CompoundTag => 16
  | EntityMetadataEntryType_Particle => 17
  | EntityMetadataEntryType_Particles => 18
  | EntityMetadataEntryType_VillagerData => 19
  | EntityMetadataEntryType_Long => 2
  | EntityMetadataEntryType_OptionalUnsignedInt => 20
  | EntityMetadataEntryType_Pose => 21
  | EntityMetadataEntryType_CatVariant => 22
  | EntityMetadataEntryType_WolfVariant => 23
  | EntityMetadataEntryType_FrogVariant => 24
  | EntityMetadataEntryType_OptionalGlobalPos => 25
  | EntityMetadataEntryType_PaintingVariant => 26
  | EntityMetadataEntryType_SnifferState => 27
  | EntityMetadataEntryType_ArmadilloState => 28
  | EntityMetadataEntryType_Vector3 => 29
  | EntityMetadataEntryType_Float => 3
  | EntityMetadataEntryType_Quaternion => 30
  | EntityMetadataEntryType_String => 4
  | EntityMetadataEntryType_Component => 5
  | EntityMetadataEntryType_OptionalComponent => 6
  | EntityMetadataEntryType_ItemStack => 7
  | EntityMetadataEntryType_Boolean => 8
  | EntityMetadataEntryType_Rotations => 9
  end.
Definition of_EntityMetadataEntryType (value : Z) : option EntityMetadataEntryType :=
  match value with
  | 0 => Some EntityMetadataEntryType_Byte
  | 1 => Some EntityMetadataEntryType_Int
  | 10 => Some EntityMetadataEntryType_BlockPos
  | 11 => Some EntityMetadataEntryType_OptionalBlockPos
  | 12 => Some EntityMetadataEntryType_Direction
  | 13 => Some EntityMetadataEntryType_OptionalUuid
  | 14 => Some EntityMetadataEntryType_BlockState
  | 15 => Some EntityMetadataEntryType_OptionalBlockState
  | 16 => Some EntityMetadataEntryType_CompoundTag
  | 17 => Some EntityMetadataEntryType_Particle
  | 18 => Some EntityMetadataEntryType_Particles
  | 19 => Some EntityMetadataEntryType_VillagerData
  | 2 => Some EntityMetadataEntryType_Long
  | 20 => Some EntityMetadataEntryType_OptionalUnsignedInt
  | 21 => Some EntityMetadataEntryType_Pose
  | 22 => Some EntityMetadataEntryType_CatVariant
  | 23 => Some EntityMetadataEntryType_WolfVariant
  | 24 => Some EntityMetadataEntryType_FrogVariant
  | 25 => Some EntityMetadataEntryType_OptionalGlobalPos
  | 26 => Some EntityMetadataEntryType_PaintingVariant
  | 27 => Some EntityMetadataEntryType_SnifferState
  | 28 => Some EntityMetadataEntryType_ArmadilloState
  | 29 => Some EntityMetadataEntryType_Vector3
  | 3 => Some EntityMetadataEntryType_Float
  | 30 => Some EntityMetadataEntryType_Quaternion
  | 4 => Some EntityMetadataEntryType_String
  | 5 => Some EntityMetadataEntryType_Component
  | 6 => Some EntityMetadataEntryType_OptionalComponent
  | 7 => Some EntityMetadataEntryType_ItemStack
  | 8 => Some EntityMetadataEntryType_Boolean
  | 9 => Some EntityMetadataEntryType_Rotations
  | _ => None
  end.
#[export] Instance EntityMetadataEntryType_eq_dec : EqDecision EntityMetadataEntryType.
Proof. apply (value_eq_dec value_EntityMetadataEntryType), (value_inj _ of_EntityMetadataEntryType). by intros []. Defined.
Definition wire_EntityMetadataEntryType : Codec EntityMetadataEntryType := {|
  encode v := modify (write_varint (value_EntityMetadataEntryType v));
  decode :=
    let* value := read_varint in
    match of_EntityMetadataEntryType value with
    | Some v => ret v
    | None => raise (UnknownEnumValue "EntityMetadataEntryType" value)
    end;
|}.
Definition dom_EntityMetadataEntryType (_ : EntityMetadataEntryType) : Prop := True.
Definition bytes_EntityMetadataEntryType (v : EntityMetadataEntryType) : list byte := varint_bytes (value_EntityMetadataEntryType v).
#[export] Instance lawful_EntityMetadataEntryType : LawfulCodec wire_EntityMetadataEntryType dom_EntityMetadataEntryType bytes_EntityMetadataEntryType.
Proof. solve_enum. Qed.
#[export] Instance cost_EntityMetadataEntryType : CodecCost dom_EntityMetadataEntryType bytes_EntityMetadataEntryType.
Proof. solve_cost. Qed.
#[export] Instance safe_EntityMetadataEntryType : SafeDecode wire_EntityMetadataEntryType.
Proof. solve_safe. Qed.

Record Vec4f : Type := mkVec4f {
  Vec4f_x : Z;
  Vec4f_y : Z;
  Vec4f_z : Z;
  Vec4f_w : Z;
}.
Definition wire_Vec4f : Codec Vec4f := {|
  encode p :=
    encode wire_f32 (Vec4f_x p) ;;;
    encode wire_f32 (Vec4f_y p) ;;;
    encode wire_f32 (Vec4f_z p) ;;;
    encode wire_f32 (Vec4f_w p) ;;;
    ret tt;
  decode :=
    let* x := decode wire_f32 in
    let* y := decode wire_f32 in
    let* z := decode wire_f32 in
    let* w := decode wire_f32 in
    ret (mkVec4f x y z w);
|}.
Definition dom_Vec4f (p : Vec4f) : Prop :=
  in_u 32 (Vec4f_x p)
  ∧ in_u 32 (Vec4f_y p)
  ∧ in_u 32 (Vec4f_z p)
  ∧ in_u 32 (Vec4f_w p).
Definition bytes_Vec4f (p : Vec4f) : list byte :=
  concat [be_bytes 4 (Vec4f_x p);
    be_bytes 4 (Vec4f_y p);
    be_bytes 4 (Vec4f_z p);
    be_bytes 4 (Vec4f_w p)].
#[export] Instance lawful_Vec4f : LawfulCodec wire_Vec4f dom_Vec4f bytes_Vec4f.
Proof. solve_struct. Qed.
#[export] Instance cost_Vec4f : CodecCost dom_Vec4f bytes_Vec4f.
Proof. solve_head. Qed.
#[export] Instance safe_Vec4f : SafeDecode wire_Vec4f.
Proof. solve_safe. Qed.

Record EntityMetadataEntryValueRotations : Type := mkEntityMetadataEntryValueRotations {
  EntityMetadataEntryValueRotations_pitch : Z;
  EntityMetadataEntryValueRotations_yaw : Z;
  EntityMetadataEntryValueRotations_roll : Z;
}.
Definition wire_EntityMetadataEntryValueRotations : Codec EntityMetadataEntryValueRotations := {|
  encode p :=
    encode wire_f32 (EntityMetadataEntryValueRotations_pitch p) ;;;
    encode wire_f32 (EntityMetadataEntryValueRotations_yaw p) ;;;
    encode wire_f32 (EntityMetadataEntryValueRotations_roll p) ;;;
    ret tt;
  decode :=
    let* pitch := decode wire_f32 in
    let* yaw := decode wire_f32 in
    let* roll := decode wire_f32 in
    ret (mkEntityMetadataEntryValueRotations pitch yaw roll);
|}.
Definition dom_EntityMetadataEntryValueRotations (p : EntityMetadataEntryValueRotations) : Prop :=
  in_u 32 (EntityMetadataEntryValueRotations_pitch p)
  ∧ in_u 32 (EntityMetadataEntryValueRotations_yaw p)
  ∧ in_u 32 (EntityMetadataEntryValueRotations_roll p).
Definition bytes_EntityMetadataEntryValueRotations (p : EntityMetadataEntryValueRotations) : list byte :=
  concat [be_bytes 4 (EntityMetadataEntryValueRotations_pitch p);
    be_bytes 4 (EntityMetadataEntryValueRotations_yaw p);
    be_bytes 4 (EntityMetadataEntryValueRotations_roll p)].
#[export] Instance lawful_EntityMetadataEntryValueRotations : LawfulCodec wire_EntityMetadataEntryValueRotations dom_EntityMetadataEntryValueRotations bytes_EntityMetadataEntryValueRotations.
Proof. solve_struct. Qed.
#[export] Instance cost_EntityMetadataEntryValueRotations : CodecCost dom_EntityMetadataEntryValueRotations bytes_EntityMetadataEntryValueRotations.
Proof. solve_head. Qed.
#[export] Instance safe_EntityMetadataEntryValueRotations : SafeDecode wire_EntityMetadataEntryValueRotations.
Proof. solve_safe. Qed.

Record EntityMetadataEntryValueVillagerData : Type := mkEntityMetadataEntryValueVillagerData {
  EntityMetadataEntryValueVillagerData_villager_type : Z;
  EntityMetadataEntryValueVillagerData_villager_profession : Z;
  EntityMetadataEntryValueVillagerData_level : Z;
}.
Definition wire_EntityMetadataEntryValueVillagerData : Codec EntityMetadataEntryValueVillagerData := {|
  encode p :=
    modify (write_varint (EntityMetadataEntryValueVillagerData_villager_type p)) ;;;
    modify (write_varint (EntityMetadataEntryValueVillagerData_villager_profession p)) ;;;
    modify (write_varint (EntityMetadataEntryValueVillagerData_level p)) ;;;
    ret tt;
  decode :=
    let* villager_type := read_varint in
    let* villager_profession := read_varint in
    let* level := read_varint in
    ret (mkEntityMetadataEntryValueVillagerData villager_type villager_profession level);
|}.
Definition dom_EntityMetadataEntryValueVillagerData (p : EntityMetadataEntryValueVillagerData) : Prop :=
  in_i 32 (EntityMetadataEntryValueVillagerData_villager_type p)
  ∧ in_i 32 (EntityMetadataEntryValueVillagerData_villager_profession p)
  ∧ in_i 32 (EntityMetadataEntryValueVillagerData_level p).
Definition bytes_EntityMetadataEntryValueVillagerData (p : EntityMetadataEntryValueVillagerData) : list byte :=
  concat [varint_bytes (EntityMetadataEntryValueVillagerData_villager_type p);
    varint_bytes (EntityMetadataEntryValueVillagerData_villager_profession p);
    varint_bytes (EntityMetadataEntryValueVillagerData_level p)].
#[export] Instance lawful_EntityMetadataEntryValueVillagerData : LawfulCodec wire_EntityMetadataEntryValueVillagerData dom_EntityMetadataEntryValueVillagerData bytes_EntityMetadataEntryValueVillagerData.
Proof. solve_struct. Qed.
#[export] Instance cost_EntityMetadataEntryValueVillagerData : CodecCost dom_EntityMetadataEntryValueVillagerData bytes_EntityMetadataEntryValueVillagerData.
Proof. solve_head. Qed.
#[export] Instance safe_EntityMetadataEntryValueVillagerData : SafeDecode wire_EntityMetadataEntryValueVillagerData.
Proof. solve_safe. Qed.

Inductive EntityMetadataEntryValue : Type :=
  | EntityMetadataEntryValue_ArmadilloState (v : Z)
  | EntityMetadataEntryValue_BlockPos (v : Position)
  | EntityMetadataEntryValue_BlockState (v : Z)
  | EntityMetadataEntryValue_Boolean (v : bool)
  | EntityMetadataEntryValue_Byte (v : Z)
  | EntityMetadataEntryValue_CatVariant (v : Z)
  | EntityMetadataEntryValue_Component (v : Nbt)
  | EntityMetadataEntryValue_CompoundTag (v : Nbt)
  | EntityMetadataEntryValue_Direction (v : Z)
  | EntityMetadataEntryValue_Float (v : Z)
  | EntityMetadataEntryValue_FrogVariant (v : Z)
  | EntityMetadataEntryValue_Int (v : Z)
  | EntityMetadataEntryValue_ItemStack (v : Slot)
  | EntityMetadataEntryValue_Long (v : Z)
  | EntityMetadataEntryValue_OptionalBlockPos (v : option Position)
  | EntityMetadataEntryValue_OptionalBlockState (v : Z)
  | EntityMetadataEntryValue_OptionalComponent (v : option Nbt)
  | EntityMetadataEntryValue_OptionalGlobalPos (v : option string)
  | EntityMetadataEntryValue_OptionalUnsignedInt (v : Z)
  | EntityMetadataEntryValue_OptionalUuid (v : option Z)
  | EntityMetadataEntryValue_PaintingVariant (v : Holder EntityMetadataPaintingVariant)
  | EntityMetadataEntryValue_Particle (v : Particle)
  | EntityMetadataEntryValue_Particles (v : list Particle)
  | EntityMetadataEntryValue_Pose (v : Z)
  | EntityMetadataEntryValue_Quaternion (v : Vec4f)
  | EntityMetadataEntryValue_Rotations (v : EntityMetadataEntryValueRotations)
  | EntityMetadataEntryValue_SnifferState (v : Z)
  | EntityMetadataEntryValue_String (v : string)
  | EntityMetadataEntryValue_Vector3 (v : Vec3f)
  | EntityMetadataEntryValue_VillagerData (v : EntityMetadataEntryValueVillagerData)
  | EntityMetadataEntryValue_WolfVariant (v : Holder EntityMetadataWolfVariant).
Definition encode_EntityMetadataEntryValue (v : EntityMetadataEntryValue) : Write :=
  match v with
  | EntityMetadataEntryValue_ArmadilloState v => encode wire_varint v
  | EntityMetadataEntryValue_BlockPos v => encode wire_Position v
  | EntityMetadataEntryValue_BlockState v => encode wire_varint v
  | EntityMetadataEntryValue_Boolean v => encode wire_bool v
  | EntityMetadataEntryValue_Byte v => encode wire_i8 v
  | EntityMetadataEntryValue_CatVariant v => encode wire_varint v
  | EntityMetadataEntryValue_Component v => encode wire_Nbt v
  | EntityMetadataEntryValue_CompoundTag v => encode wire_Nbt v
  | EntityMetadataEntryValue_Direction v => encode wire_varint v
  | EntityMetadataEntryValue_Float v => encode wire_f32 v
  | EntityMetadataEntryValue_FrogVariant v => encode wire_varint v
  | EntityMetadataEntryValue_Int v => encode wire_varint v
  | EntityMetadataEntryValue_ItemStack v => encode wire_Slot v
  | EntityMetadataEntryValue_Long v => encode wire_varlong v
  | EntityMetadataEntryValue_OptionalBlockPos v => encode (wire_Option wire_Position) v
  | EntityMetadataEntryValue_OptionalBlockState v => encode wire_varint v
  | EntityMetadataEntryValue_OptionalComponent v => encode (wire_Option wire_Nbt) v
  | EntityMetadataEntryValue_OptionalGlobalPos v => encode (wire_Option wire_String) v
  | EntityMetadataEntryValue_OptionalUnsignedInt v => encode wire_varint v
  | EntityMetadataEntryValue_OptionalUuid v => encode (wire_Option wire_u128) v
  | EntityMetadataEntryValue_PaintingVariant v => encode (wire_Holder wire_EntityMetadataPaintingVariant) v
  | EntityMetadataEntryValue_Particle v => encode wire_Particle v
  | EntityMetadataEntryValue_Particles v => encode (wire_Vec wire_Particle) v
  | EntityMetadataEntryValue_Pose v => encode wire_varint v
  | EntityMetadataEntryValue_Quaternion v => encode wire_Vec4f v
  | EntityMetadataEntryValue_Rotations v => encode wire_EntityMetadataEntryValueRotations v
  | EntityMetadataEntryValue_SnifferState v => encode wire_varint v
  | EntityMetadataEntryValue_String v => encode wire_String v
  | EntityMetadataEntryValue_Vector3 v => encode wire_Vec3f v
  | EntityMetadataEntryValue_VillagerData v => encode wire_EntityMetadataEntryValueVillagerData v
  | EntityMetadataEntryValue_WolfVariant v => encode (wire_Holder wire_EntityMetadataWolfVariant) v
  end.
Definition decode_from_EntityMetadataEntryValue (d : EntityMetadataEntryType) : Read EntityMetadataEntryValue :=
  match d with
  | EntityMetadataEntryType_ArmadilloState => (let* v := decode wire_varint in ret (EntityMetadataEntryValue_ArmadilloState v))
  | EntityMetadataEntryType_BlockPos => (let* v := decode wire_Position in ret (EntityMetadataEntryValue_BlockPos v))
  | EntityMetadataEntryType_BlockState => (let* v := decode wire_varint in ret (EntityMetadataEntryValue_BlockState v))
  | EntityMetadataEntryType_Boolean => (let* v := decode wire_bool in ret (EntityMetadataEntryValue_Boolean v))
  | EntityMetadataEntryType_Byte => (let* v := decode wire_i8 in ret (EntityMetadataEntryValue_Byte v))
  | EntityMetadataEntryType_CatVariant => (let* v := decode wire_varint in ret (EntityMetadataEntryValue_CatVariant v))
  | EntityMetadataEntryType_Component => (let* v := decode wire_Nbt in ret (EntityMetadataEntryValue_Component v))
  | EntityMetadataEntryType_CompoundTag => (let* v := decode wire_Nbt in ret (EntityMetadataEntryValue_CompoundTag v))
  | EntityMetadataEntryType_Direction => (let* v := decode wire_varint in ret (EntityMetadataEntryValue_Direction v))
  | EntityMetadataEntryType_Float => (let* v := decode wire_f32 in ret (EntityMetadataEntryValue_Float v))
  | EntityMetadataEntryType_FrogVariant => (let* v := decode wire_varint in ret (EntityMetadataEntryValue_FrogVariant v))
  | EntityMetadataEntryType_Int => (let* v := decode wire_varint in ret (EntityMetadataEntryValue_Int v))
  | EntityMetadataEntryType_ItemStack => (let* v := decode wire_Slot in ret (EntityMetadataEntryValue_ItemStack v))
  | EntityMetadataEntryType_Long => (let* v := decode wire_varlong in ret (EntityMetadataEntryValue_Long v))
  | EntityMetadataEntryType_OptionalBlockPos => (let* v := decode (wire_Option wire_Position) in ret (EntityMetadataEntryValue_OptionalBlockPos v))
  | EntityMetadataEntryType_OptionalBlockState => (let* v := decode wire_varint in ret (EntityMetadataEntryValue_OptionalBlockState v))
  | EntityMetadataEntryType_OptionalComponent => (let* v := decode (wire_Option wire_Nbt) in ret (EntityMetadataEntryValue_OptionalComponent v))
  | EntityMetadataEntryType_OptionalGlobalPos => (let* v := decode (wire_Option wire_String) in ret (EntityMetadataEntryValue_OptionalGlobalPos v))
  | EntityMetadataEntryType_OptionalUnsignedInt => (let* v := decode wire_varint in ret (EntityMetadataEntryValue_OptionalUnsignedInt v))
  | EntityMetadataEntryType_OptionalUuid => (let* v := decode (wire_Option wire_u128) in ret (EntityMetadataEntryValue_OptionalUuid v))
  | EntityMetadataEntryType_PaintingVariant => (let* v := decode (wire_Holder wire_EntityMetadataPaintingVariant) in ret (EntityMetadataEntryValue_PaintingVariant v))
  | EntityMetadataEntryType_Particle => (let* v := decode wire_Particle in ret (EntityMetadataEntryValue_Particle v))
  | EntityMetadataEntryType_Particles => (let* v := decode (wire_Vec wire_Particle) in ret (EntityMetadataEntryValue_Particles v))
  | EntityMetadataEntryType_Pose => (let* v := decode wire_varint in ret (EntityMetadataEntryValue_Pose v))
  | EntityMetadataEntryType_Quaternion => (let* v := decode wire_Vec4f in ret (EntityMetadataEntryValue_Quaternion v))
  | EntityMetadataEntryType_Rotations => (let* v := decode wire_EntityMetadataEntryValueRotations in ret (EntityMetadataEntryValue_Rotations v))
  | EntityMetadataEntryType_SnifferState => (let* v := decode wire_varint in ret (EntityMetadataEntryValue_SnifferState v))
  | EntityMetadataEntryType_String => (let* v := decode wire_String in ret (EntityMetadataEntryValue_String v))
  | EntityMetadataEntryType_Vector3 => (let* v := decode wire_Vec3f in ret (EntityMetadataEntryValue_Vector3 v))
  | EntityMetadataEntryType_VillagerData => (let* v := decode wire_EntityMetadataEntryValueVillagerData in ret (EntityMetadataEntryValue_VillagerData v))
  | EntityMetadataEntryType_WolfVariant => (let* v := decode (wire_Holder wire_EntityMetadataWolfVariant) in ret (EntityMetadataEntryValue_WolfVariant v))
  end.
Definition case_EntityMetadataEntryValue (d : EntityMetadataEntryType) (v : EntityMetadataEntryValue) : bool :=
  match v with
  | EntityMetadataEntryValue_ArmadilloState _ => on d EntityMetadataEntryType_ArmadilloState
  | EntityMetadataEntryValue_BlockPos _ => on d EntityMetadataEntryType_BlockPos
  | EntityMetadataEntryValue_BlockState _ => on d EntityMetadataEntryType_BlockState
  | EntityMetadataEntryValue_Boolean _ => on d EntityMetadataEntryType_Boolean
  | EntityMetadataEntryValue_Byte _ => on d EntityMetadataEntryType_Byte
  | EntityMetadataEntryValue_CatVariant _ => on d EntityMetadataEntryType_CatVariant
  | EntityMetadataEntryValue_Component _ => on d EntityMetadataEntryType_Component
  | EntityMetadataEntryValue_CompoundTag _ => on d EntityMetadataEntryType_CompoundTag
  | EntityMetadataEntryValue_Direction _ => on d EntityMetadataEntryType_Direction
  | EntityMetadataEntryValue_Float _ => on d EntityMetadataEntryType_Float
  | EntityMetadataEntryValue_FrogVariant _ => on d EntityMetadataEntryType_FrogVariant
  | EntityMetadataEntryValue_Int _ => on d EntityMetadataEntryType_Int
  | EntityMetadataEntryValue_ItemStack _ => on d EntityMetadataEntryType_ItemStack
  | EntityMetadataEntryValue_Long _ => on d EntityMetadataEntryType_Long
  | EntityMetadataEntryValue_OptionalBlockPos _ => on d EntityMetadataEntryType_OptionalBlockPos
  | EntityMetadataEntryValue_OptionalBlockState _ => on d EntityMetadataEntryType_OptionalBlockState
  | EntityMetadataEntryValue_OptionalComponent _ => on d EntityMetadataEntryType_OptionalComponent
  | EntityMetadataEntryValue_OptionalGlobalPos _ => on d EntityMetadataEntryType_OptionalGlobalPos
  | EntityMetadataEntryValue_OptionalUnsignedInt _ => on d EntityMetadataEntryType_OptionalUnsignedInt
  | EntityMetadataEntryValue_OptionalUuid _ => on d EntityMetadataEntryType_OptionalUuid
  | EntityMetadataEntryValue_PaintingVariant _ => on d EntityMetadataEntryType_PaintingVariant
  | EntityMetadataEntryValue_Particle _ => on d EntityMetadataEntryType_Particle
  | EntityMetadataEntryValue_Particles _ => on d EntityMetadataEntryType_Particles
  | EntityMetadataEntryValue_Pose _ => on d EntityMetadataEntryType_Pose
  | EntityMetadataEntryValue_Quaternion _ => on d EntityMetadataEntryType_Quaternion
  | EntityMetadataEntryValue_Rotations _ => on d EntityMetadataEntryType_Rotations
  | EntityMetadataEntryValue_SnifferState _ => on d EntityMetadataEntryType_SnifferState
  | EntityMetadataEntryValue_String _ => on d EntityMetadataEntryType_String
  | EntityMetadataEntryValue_Vector3 _ => on d EntityMetadataEntryType_Vector3
  | EntityMetadataEntryValue_VillagerData _ => on d EntityMetadataEntryType_VillagerData
  | EntityMetadataEntryValue_WolfVariant _ => on d EntityMetadataEntryType_WolfVariant
  end.
Definition switch_EntityMetadataEntryValue : Switch EntityMetadataEntryType EntityMetadataEntryValue := mkSwitch case_EntityMetadataEntryValue encode_EntityMetadataEntryValue decode_from_EntityMetadataEntryValue.
Definition dom_EntityMetadataEntryValue (d : EntityMetadataEntryType) (v : EntityMetadataEntryValue) : Prop :=
  case_EntityMetadataEntryValue d v = true ∧
  match v with
  | EntityMetadataEntryValue_ArmadilloState v => in_i 32 v
  | EntityMetadataEntryValue_BlockPos v => dom_Position v
  | EntityMetadataEntryValue_BlockState v => in_i 32 v
  | EntityMetadataEntryValue_Byte v => in_i 8 v
  | EntityMetadataEntryValue_CatVariant v => in_i 32 v
  | EntityMetadataEntryValue_Component v => nbt_fits v
  | EntityMetadataEntryValue_CompoundTag v => nbt_fits v
  | EntityMetadataEntryValue_Direction v => in_i 32 v
  | EntityMetadataEntryValue_Float v => in_u 32 v
  | EntityMetadataEntryValue_FrogVariant v => in_i 32 v
  | EntityMetadataEntryValue_Int v => in_i 32 v
  | EntityMetadataEntryValue_ItemStack v => dom_Slot v
  | EntityMetadataEntryValue_Long v => in_i 64 v
  | EntityMetadataEntryValue_OptionalBlockPos v => option_dom dom_Position v
  | EntityMetadataEntryValue_OptionalBlockState v => in_i 32 v
  | EntityMetadataEntryValue_OptionalComponent v => option_dom nbt_fits v
  | EntityMetadataEntryValue_OptionalGlobalPos v => option_dom wire_string v
  | EntityMetadataEntryValue_OptionalUnsignedInt v => in_i 32 v
  | EntityMetadataEntryValue_OptionalUuid v => option_dom (in_u 128) v
  | EntityMetadataEntryValue_PaintingVariant v => holder_dom dom_EntityMetadataPaintingVariant v
  | EntityMetadataEntryValue_Particle v => dom_Particle v
  | EntityMetadataEntryValue_Particles v => vec_dom dom_Particle v
  | EntityMetadataEntryValue_Pose v => in_i 32 v
  | EntityMetadataEntryValue_Quaternion v => dom_Vec4f v
  | EntityMetadataEntryValue_Rotations v => dom_EntityMetadataEntryValueRotations v
  | EntityMetadataEntryValue_SnifferState v => in_i 32 v
  | EntityMetadataEntryValue_String v => wire_string v
  | EntityMetadataEntryValue_Vector3 v => dom_Vec3f v
  | EntityMetadataEntryValue_VillagerData v => dom_EntityMetadataEntryValueVillagerData v
  | EntityMetadataEntryValue_WolfVariant v => holder_dom dom_EntityMetadataWolfVariant v
  | _ => True
  end.
Definition bytes_EntityMetadataEntryValue (v : EntityMetadataEntryValue) : list byte :=
  match v with
  | EntityMetadataEntryValue_ArmadilloState v => varint_bytes v
  | EntityMetadataEntryValue_BlockPos v => bytes_Position v
  | EntityMetadataEntryValue_BlockState v => varint_bytes v
  | EntityMetadataEntryValue_Boolean v => bool_bytes v
  | EntityMetadataEntryValue_Byte v => be_bytes 1 v
  | EntityMetadataEntryValue_CatVariant v => varint_bytes v
  | EntityMetadataEntryValue_Component v => nbt_bytes v
  | EntityMetadataEntryValue_CompoundTag v => nbt_bytes v
  | EntityMetadataEntryValue_Direction v => varint_bytes v
  | EntityMetadataEntryValue_Float v => be_bytes 4 v
  | EntityMetadataEntryValue_FrogVariant v => varint_bytes v
  | EntityMetadataEntryValue_Int v => varint_bytes v
  | EntityMetadataEntryValue_ItemStack v => bytes_Slot v
  | EntityMetadataEntryValue_Long v => varlong_bytes v
  | EntityMetadataEntryValue_OptionalBlockPos v => option_bytes bytes_Position v
  | EntityMetadataEntryValue_OptionalBlockState v => varint_bytes v
  | EntityMetadataEntryValue_OptionalComponent v => option_bytes nbt_bytes v
  | EntityMetadataEntryValue_OptionalGlobalPos v => option_bytes string_bytes v
  | EntityMetadataEntryValue_OptionalUnsignedInt v => varint_bytes v
  | EntityMetadataEntryValue_OptionalUuid v => option_bytes (be_bytes 16) v
  | EntityMetadataEntryValue_PaintingVariant v => holder_bytes bytes_EntityMetadataPaintingVariant v
  | EntityMetadataEntryValue_Particle v => bytes_Particle v
  | EntityMetadataEntryValue_Particles v => vec_bytes bytes_Particle v
  | EntityMetadataEntryValue_Pose v => varint_bytes v
  | EntityMetadataEntryValue_Quaternion v => bytes_Vec4f v
  | EntityMetadataEntryValue_Rotations v => bytes_EntityMetadataEntryValueRotations v
  | EntityMetadataEntryValue_SnifferState v => varint_bytes v
  | EntityMetadataEntryValue_String v => string_bytes v
  | EntityMetadataEntryValue_Vector3 v => bytes_Vec3f v
  | EntityMetadataEntryValue_VillagerData v => bytes_EntityMetadataEntryValueVillagerData v
  | EntityMetadataEntryValue_WolfVariant v => holder_bytes bytes_EntityMetadataWolfVariant v
  end.
#[export] Instance lawful_EntityMetadataEntryValue : LawfulSwitch switch_EntityMetadataEntryValue dom_EntityMetadataEntryValue bytes_EntityMetadataEntryValue.
Proof. solve_switch. Qed.
#[export] Instance safe_EntityMetadataEntryValue : SafeSwitch switch_EntityMetadataEntryValue.
Proof. solve_safe. Qed.

Record EntityMetadataEntry : Type := mkEntityMetadataEntry {
  EntityMetadataEntry_key : Z;
  EntityMetadataEntry_type : EntityMetadataEntryType;
  EntityMetadataEntry_value : EntityMetadataEntryValue;
}.
Definition wire_EntityMetadataEntry : Codec EntityMetadataEntry := {|
  encode p :=
    encode wire_u8 (EntityMetadataEntry_key p) ;;;
    encode wire_EntityMetadataEntryType (EntityMetadataEntry_type p) ;;;
    encode_at switch_EntityMetadataEntryValue (EntityMetadataEntry_type p) (EntityMetadataEntry_value p) ;;;
    ret tt;
  decode :=
    let* key := decode wire_u8 in
    let* type_ := decode wire_EntityMetadataEntryType in
    let* value := sw_decode switch_EntityMetadataEntryValue type_ in
    ret (mkEntityMetadataEntry key type_ value);
|}.
Definition dom_EntityMetadataEntry (p : EntityMetadataEntry) : Prop :=
  in_u 8 (EntityMetadataEntry_key p)
  ∧ dom_EntityMetadataEntryType (EntityMetadataEntry_type p)
  ∧ dom_EntityMetadataEntryValue (EntityMetadataEntry_type p) (EntityMetadataEntry_value p).
Definition bytes_EntityMetadataEntry (p : EntityMetadataEntry) : list byte :=
  concat [be_bytes 1 (EntityMetadataEntry_key p);
    bytes_EntityMetadataEntryType (EntityMetadataEntry_type p);
    bytes_EntityMetadataEntryValue (EntityMetadataEntry_value p)].
#[export] Instance lawful_EntityMetadataEntry : LawfulCodec wire_EntityMetadataEntry dom_EntityMetadataEntry bytes_EntityMetadataEntry.
Proof. solve_struct. Qed.
#[export] Instance cost_EntityMetadataEntry : CodecCost dom_EntityMetadataEntry bytes_EntityMetadataEntry.
Proof. solve_head. Qed.
#[export] Instance safe_EntityMetadataEntry : SafeDecode wire_EntityMetadataEntry.
Proof. solve_safe. Qed.

(** ** The metadata list

    Entries follow each other until a byte [255] where the next key would
    be.  [level_EntityMetadata] is one pass of the loop. *)

Definition EntityMetadata : Type := list EntityMetadataEntry.

Section level_EntityMetadata.
Context (wire_rest : Codec EntityMetadata).

Definition level_EntityMetadata : Codec EntityMetadata := {|
  encode items :=
    match items with
    | [] => modify (put_u8 255)
    | item :: items => encode wire_EntityMetadataEntry item ;;; encode wire_rest items
    end;
  decode :=
    let* next := gets (λ r, match rest r with b :: _ => u8 b =? 255 | [] => false end) in
    if next then (let* _ := get_u8 in ret [])
    else
      let* item := decode wire_EntityMetadataEntry in
      let* items := decode wire_rest in
      ret (item :: items);
|}.
End level_EntityMetadata.

(** [for item in &self.0 { item.encode(out)?; } out.put_u8(255)]. *)
Fixpoint encode_EntityMetadata (items : EntityMetadata) : Write :=
  match items with
  | [] => modify (put_u8 255)
  | item :: items => encode wire_EntityMetadataEntry item ;;; encode_EntityMetadata items
  end.

Definition wire_EntityMetadata : Codec EntityMetadata := knot level_EntityMetadata encode_EntityMetadata.

(** A key of [255] would end the list. *)
Definition dom_entry (e : EntityMetadataEntry) : Prop :=
  dom_EntityMetadataEntry e ∧ EntityMetadataEntry_key e ≠ 255.
Definition dom_EntityMetadata (items : EntityMetadata) : Prop := Forall dom_entry items.
Definition bytes_EntityMetadata (items : EntityMetadata) : list byte :=
  concat (map bytes_EntityMetadataEntry items) ++ be_bytes 1 255.

Lemma progress_entry : progress (decode wire_EntityMetadataEntry).
Proof.
  unfold wire_EntityMetadataEntry. cbn [decode wire_u8 fixed_codec]. apply progress_bind; [apply progress_u8|].
  intros key. mauto.
Qed.

#[export] Instance guarded_EntityMetadata : Guarded level_EntityMetadata.
Proof.
  split.
  - intros c Hc. change (SafeDecode c) in Hc. unfold level_EntityMetadata. cbn [decode]. mauto.
  - intros c c' k Hb Hc. unfold level_EntityMetadata. cbn [decode].
    apply agree_bind; [mauto|apply agree_refl|]. intros []; [apply agree_refl|].
    apply agree_bind_progress; [apply progress_entry|]. intros item.
    apply agree_bind; [done..|]. intros items. apply agree_refl.
Qed.

Lemma entry_bytes_head e :
  dom_entry e → ∃ l, bytes_EntityMetadataEntry e = byte_of_Z (EntityMetadataEntry_key e) :: l
    ∧ u8 (byte_of_Z (EntityMetadataEntry_key e)) ≠ 255.
Proof.
  intros [Hd Hk]. eexists. split; [unfold bytes_EntityMetadataEntry; cbn [concat]; by rewrite be_bytes_1|].
  rewrite u8_of_Z_small; [done|]. by destruct Hd.
Qed.

#[export] Instance lawful_EntityMetadata : LawfulCodec wire_EntityMetadata dom_EntityMetadata bytes_EntityMetadata.
Proof.
  unfold bytes_EntityMetadata. split; intros items Hd; induction Hd as [|e items He Hd IH]; cbn [map concat app].
  - by apply writes_modify.
  - rewrite <- app_assoc. apply writes_bind; [|exact IH]. exact (codec_writes (c := wire_EntityMetadataEntry) e (proj1 He)).
  - intros r suf Hr. unfold wire_EntityMetadata. rewrite knot_decode by apply _. cbn [decode level_EntityMetadata].
    assert (rest r = byte_of_Z 255 :: suf) as Hr' by (rewrite Hr; by rewrite be_bytes_1).
    unfold bind at 1, gets. rewrite Hr', u8_of_Z_small, Z.eqb_refl by by unfold in_u.
    exact (reads_bind_ret get_u8 (λ _, []) _ 255 (reads_get_u8 255 ltac:(by unfold in_u)) r suf Hr).
  - rewrite <- app_assoc. intros r suf Hr. unfold wire_EntityMetadata. rewrite knot_decode by apply _.
    cbn [decode level_EntityMetadata]. fold wire_EntityMetadata.
    destruct (entry_bytes_head e He) as (l & Hl & Hne).
    assert (match rest r with b :: _ => u8 b =? 255 | [] => false end = false) as Hn
      by (rewrite Hr, Hl; by apply Z.eqb_neq).
    unfold bind at 1, gets. rewrite Hn.
    refine (reads_bind _ _ _ _ e _ (codec_reads (c := wire_EntityMetadataEntry) e (proj1 He)) _ r suf Hr).
    exact (reads_bind_ret _ (cons e) _ items IH).
Qed.
#[export] Instance cost_EntityMetadata : CodecCost dom_EntityMetadata bytes_EntityMetadata.
Proof. intros items _. unfold bytes_EntityMetadata. rewrite length_app, be_bytes_length. lia. Qed.
#[export] Instance safe_EntityMetadata : SafeDecode wire_EntityMetadata.
Proof. apply knot_bounds, _. Qed.
