(* ===== verification/CommandNodes.v ===== *)
(** * The command graph

    The command-node types of
    [crates/minerider-protocol/src/generated/v1_21_4/types.rs]: bit flags, the
    parser of an argument node and its properties. *)

From S2P Require Import Prelude Machine Reader Varint Utf8 Buffer Wire Nbt PacketTypes Switch Recursion.

Local Open Scope Z_scope.

Record CommandNodeFlags : Type := mkCommandNodeFlags {
  CommandNodeFlags_unused : Z;
  CommandNodeFlags_has_custom_suggestions : bool;
  CommandNodeFlags_has_redirect_node : bool;
  CommandNodeFlags_has_command : bool;
  CommandNodeFlags_command_node_type : Z;
}.
Definition raw_CommandNodeFlags (p : CommandNodeFlags) : Z :=
  Z.lor (Z.lor (Z.lor (Z.lor (Z.shiftl (Z.land (CommandNodeFlags_unused p) 0x7) 5) (Z.shiftl (Z.b2z (CommandNodeFlags_has_custom_suggestions p)) 4)) (Z.shiftl (Z.b2z (CommandNodeFlags_has_redirect_node p)) 3)) (Z.shiftl (Z.b2z (CommandNodeFlags_has_command p)) 2)) (Z.land (CommandNodeFlags_command_node_type p) 0x3).
Definition of_raw_CommandNodeFlags (raw : Z) : CommandNodeFlags :=
  mkCommandNodeFlags (Z.land (Z.shiftr raw 5) 0x7) (negb (Z.land (Z.shiftr raw 4) 1 =? 0)) (negb (Z.land (Z.shiftr raw 3) 1 =? 0)) (negb (Z.land (Z.shiftr raw 2) 1 =? 0)) (Z.land raw 0x3).
Definition wire_CommandNodeFlags : Codec CommandNodeFlags := {|
  encode p := modify (put_u8 (raw_CommandNodeFlags p));
  decode := let* raw := get_u8 in ret (of_raw_CommandNodeFlags raw);
|}.
Definition dom_CommandNodeFlags (p : CommandNodeFlags) : Prop :=
  in_u 3 (CommandNodeFlags_unused p)
  ∧ in_u 2 (CommandNodeFlags_command_node_type p).
Definition bytes_CommandNodeFlags (p : CommandNodeFlags) : list byte := be_bytes 1 (raw_CommandNodeFlags p).
#[export] Instance CommandNodeFlags_eq_dec : EqDecision CommandNodeFlags.
Proof. solve_decision. Defined.
Lemma raw_CommandNodeFlags_inv p : dom_CommandNodeFlags p → in_u 8 (raw_CommandNodeFlags p) ∧ of_raw_CommandNodeFlags (raw_CommandNodeFlags p) = p.
Proof.
  destruct p; intros Hp; open_dom Hp; cbn [CommandNodeFlags_unused CommandNodeFlags_has_custom_suggestions CommandNodeFlags_has_redirect_node CommandNodeFlags_has_command CommandNodeFlags_command_node_type] in *. solve_bits.
Qed.
#[export] Instance lawful_CommandNodeFlags : LawfulCodec wire_CommandNodeFlags dom_CommandNodeFlags bytes_CommandNodeFlags.
Proof.
  split; intros p Hp.
  - by apply writes_modify.
  - destruct (raw_CommandNodeFlags_inv p Hp) as [Hr Heq]. rewrite <- Heq at 2. apply (reads_bind_ret get_u8), reads_get_u8, Hr.
Qed.
#[export] Instance cost_CommandNodeFlags : CodecCost dom_CommandNodeFlags bytes_CommandNodeFlags.
Proof. intros p _. unfold bytes_CommandNodeFlags. rewrite be_bytes_length. lia. Qed.

Inductive CommandNodeRedirectNode : Type :=
  | CommandNodeRedirectNode_True (v : Z)
  | CommandNodeRedirectNode_Default.
Definition encode_CommandNodeRedirectNode (v : CommandNodeRedirectNode) : Write :=
  match v with
  | CommandNodeRedirectNode_True v => encode wire_varint v
  | CommandNodeRedirectNode_Default => ret tt
  end.
Definition decode_from_CommandNodeRedirectNode (d : bool) : Read CommandNodeRedirectNode :=
  if d then (let* v := decode wire_varint in ret (CommandNodeRedirectNode_True v))
  else ret CommandNodeRedirectNode_Default.
Definition case_CommandNodeRedirectNode (d : bool) (v : CommandNodeRedirectNode) : bool :=
  match v with
  | CommandNodeRedirectNode_True _ => on d true
  | CommandNodeRedirectNode_Default => on d false
  end.
Definition switch_CommandNodeRedirectNode : Switch bool CommandNodeRedirectNode := mkSwitch case_CommandNodeRedirectNode encode_CommandNodeRedirectNode decode_from_CommandNodeRedirectNode.
Definition dom_CommandNodeRedirectNode (d : bool) (v : CommandNodeRedirectNode) : Prop :=
  case_CommandNodeRedirectNode d v = true ∧
  match v with
  | CommandNodeRedirectNode_True v => in_i 32 v
  | _ => True
  end.
Definition bytes_CommandNodeRedirectNode (v : CommandNodeRedirectNode) : list byte :=
  match v with
  | CommandNodeRedirectNode_True v => varint_bytes v
  | _ => []
  end.
#[export] Instance lawful_CommandNodeRedirectNode : LawfulSwitch switch_CommandNodeRedirectNode dom_CommandNodeRedirectNode bytes_CommandNodeRedirectNode.
Proof. solve_switch. Qed.

Record CommandNodeExtraNodeDataV1 : Type := mkCommandNodeExtraNodeDataV1 {
  CommandNodeExtraNodeDataV1_name : string;
}.
Definition wire_CommandNodeExtraNodeDataV1 : Codec CommandNodeExtraNodeDataV1 := {|
  encode p :=
    encode wire_String (CommandNodeExtraNodeDataV1_name p) ;;;
    ret tt;
  decode :=
    let* name := decode wire_String in
    ret (mkCommandNodeExtraNodeDataV1 name);
|}.
Definition dom_CommandNodeExtraNodeDataV1 (p : CommandNodeExtraNodeDataV1) : Prop :=
  wire_string (CommandNodeExtraNodeDataV1_name p).
Definition bytes_CommandNodeExtraNodeDataV1 (p : CommandNodeExtraNodeDataV1) : list byte :=
  concat [string_bytes (CommandNodeExtraNodeDataV1_name p)].
#[export] Instance lawful_CommandNodeExtraNodeDataV1 : LawfulCodec wire_CommandNodeExtraNodeDataV1 dom_CommandNodeExtraNodeDataV1 bytes_CommandNodeExtraNodeDataV1.
Proof. solve_struct. Qed.
#[export] Instance cost_CommandNodeExtraNodeDataV1 : CodecCost dom_CommandNodeExtraNodeDataV1 bytes_CommandNodeExtraNodeDataV1.
Proof. solve_head. Qed.

Inductive CommandNodeExtraNodeDataV2Parser : Type :=
  | CommandNodeExtraNodeDataV2Parser_BrigadierBool
  | CommandNodeExtraNodeDataV2Parser_BrigadierFloat
  | CommandNodeExtraNodeDataV2Parser_MinecraftVec3
  | CommandNodeExtraNodeDataV2Parser_MinecraftVec2
  | CommandNodeExtraNodeDataV2Parser_MinecraftBlockState
  | CommandNodeExtraNodeDataV2Parser_MinecraftBlockPredicate
  | CommandNodeExtraNodeDataV2Parser_MinecraftItemStack
  | CommandNodeExtraNodeDataV2Parser_MinecraftItemPredicate
  | CommandNodeExtraNodeDataV2Parser_MinecraftColor
  | CommandNodeExtraNodeDataV2Parser_MinecraftComponent
  | CommandNodeExtraNodeDataV2Parser_MinecraftStyle
  | CommandNodeExtraNodeDataV2Parser_MinecraftMessage
  | CommandNodeExtraNodeDataV2Parser_BrigadierDouble
  | CommandNodeExtraNodeDataV2Parser_MinecraftNbt
  | CommandNodeExtraNodeDataV2Parser_MinecraftNbtTag
  | CommandNodeExtraNodeDataV2Parser_MinecraftNbtPath
  | CommandNodeExtraNodeDataV2Parser_MinecraftObjective
  | CommandNodeExtraNodeDataV2Parser_MinecraftObjectiveCriteria
  | CommandNodeExtraNodeDataV2Parser_MinecraftOperation
  | CommandNodeExtraNodeDataV2Parser_MinecraftParticle
  | CommandNodeExtraNodeDataV2Parser_MinecraftAngle
  | CommandNodeExtraNodeDataV2Parser_MinecraftRotation
  | CommandNodeExtraNodeDataV2Parser_MinecraftScoreboardSlot
  | CommandNodeExtraNodeDataV2Parser_BrigadierInteger
  | CommandNodeExtraNodeDataV2Parser_MinecraftScoreHolder
  | CommandNodeExtraNodeDataV2Parser_MinecraftSwizzle
  | CommandNodeExtraNodeDataV2Parser_MinecraftTeam
  | CommandNodeExtraNodeDataV2Parser_MinecraftItemSlot
  | CommandNodeExtraNodeDataV2Parser_MinecraftItemSlots
  | CommandNodeExtraNodeDataV2Parser_MinecraftResourceLocation
  | CommandNodeExtraNodeDataV2Parser_MinecraftFunction
  | CommandNodeExtraNodeDataV2Parser_MinecraftEntityAnchor
  | CommandNodeExtraNodeDataV2Parser_MinecraftIntRange
  | CommandNodeExtraNodeDataV2Parser_MinecraftFloatRange
  | CommandNodeExtraNodeDataV2Parser_BrigadierLong
  | CommandNodeExtraNodeDataV2Parser_MinecraftDimension
  | CommandNodeExtraNodeDataV2Parser_MinecraftGamemode
  | CommandNodeExtraNodeDataV2Parser_MinecraftTime
  | CommandNodeExtraNodeDataV2Parser_MinecraftResourceOrTag
  | CommandNodeExtraNodeDataV2Parser_MinecraftResourceOrTagKey
  | CommandNodeExtraNodeDataV2Parser_MinecraftResource
  | CommandNodeExtraNodeDataV2Parser_MinecraftResourceKey
  | CommandNodeExtraNodeDataV2Parser_MinecraftTemplateMirror
  | CommandNodeExtraNodeDataV2Parser_MinecraftTemplateRotation
  | CommandNodeExtraNodeDataV2Parser_MinecraftHeightmap
  | CommandNodeExtraNodeDataV2Parser_BrigadierString
  | CommandNodeExtraNodeDataV2Parser_MinecraftLootTable
  | CommandNodeExtraNodeDataV2Parser_MinecraftLootPredicate
  | CommandNodeExtraNodeDataV2Parser_MinecraftLootModifier
  | CommandNodeExtraNodeDataV2Parser_MinecraftUuid
  | CommandNodeExtraNodeDataV2Parser_MinecraftEntity
  | CommandNodeExtraNodeDataV2Parser_MinecraftGameProfile
  | CommandNodeExtraNodeDataV2Parser_MinecraftBlockPos
  | CommandNodeExtraNodeDataV2Parser_MinecraftColumnPos.
Definition value_CommandNodeExtraNodeDataV2Parser (v : CommandNodeExtraNodeDataV2Parser) : Z :=
  match v with
  | CommandNodeExtraNodeDataV2Parser_BrigadierBool => 0
  | CommandNodeExtraNodeDataV2Parser_BrigadierFloat => 1
  | CommandNodeExtraNodeDataV2Parser_MinecraftVec3 => 10
  | CommandNodeExtraNodeDataV2Parser_MinecraftVec2 => 11
  | CommandNodeExtraNodeDataV2Parser_MinecraftBlockState => 12
  | CommandNodeExtraNodeDataV2Parser_MinecraftBlockPredicate => 13
  | CommandNodeExtraNodeDataV2Parser_MinecraftItemStack => 14
  | CommandNodeExtraNodeDataV2Parser_MinecraftItemPredicate => 15
  | CommandNodeExtraNodeDataV2Parser_MinecraftColor => 16
  | CommandNodeExtraNodeDataV2Parser_MinecraftComponent => 17
  | CommandNodeExtraNodeDataV2Parser_MinecraftStyle => 18
  | CommandNodeExtraNodeDataV2Parser_MinecraftMessage => 19
  | CommandNodeExtraNodeDataV2Parser_BrigadierDouble => 2
  | CommandNodeExtraNodeDataV2Parser_MinecraftNbt => 20
  | CommandNodeExtraNodeDataV2Parser_MinecraftNbtTag => 21
  | CommandNodeExtraNodeDataV2Parser_MinecraftNbtPath => 22
  | CommandNodeExtraNodeDataV2Parser_MinecraftObjective => 23
  | CommandNodeExtraNodeDataV2Parser_MinecraftObjectiveCriteria => 24
  | CommandNodeExtraNodeDataV2Parser_MinecraftOperation => 25
  | CommandNodeExtraNodeDataV2Parser_MinecraftParticle => 26
  | CommandNodeExtraNodeDataV2Parser_MinecraftAngle => 27
  | CommandNodeExtraNodeDataV2Parser_MinecraftRotation => 28
  | CommandNodeExtraNodeDataV2Parser_MinecraftScoreboardSlot => 29
  | CommandNodeExtraNodeDataV2Parser_BrigadierInteger => 3
  | CommandNodeExtraNodeDataV2Parser_MinecraftScoreHolder => 30
  | CommandNodeExtraNodeDataV2Parser_MinecraftSwizzle => 31
  | CommandNodeExtraNodeDataV2Parser_MinecraftTeam => 32
  | CommandNodeExtraNodeDataV2Parser_MinecraftItemSlot => 33
  | CommandNodeExtraNodeDataV2Parser_MinecraftItemSlots => 34
  | CommandNodeExtraNodeDataV2Parser_MinecraftResourceLocation => 35
  | CommandNodeExtraNodeDataV2Parser_MinecraftFunction => 36
  | CommandNodeExtraNodeDataV2Parser_MinecraftEntityAnchor => 37
  | CommandNodeExtraNodeDataV2Parser_MinecraftIntRange => 38
  | CommandNodeExtraNodeDataV2Parser_MinecraftFloatRange => 39
  | CommandNodeExtraNodeDataV2Parser_BrigadierLong => 4
  | CommandNodeExtraNodeDataV2Parser_MinecraftDimension => 40
  | CommandNodeExtraNodeDataV2Parser_MinecraftGamemode => 41
  | CommandNodeExtraNodeDataV2Parser_MinecraftTime => 42
  | CommandNodeExtraNodeDataV2Parser_MinecraftResourceOrTag => 43
  | CommandNodeExtraNodeDataV2Parser_MinecraftResourceOrTagKey => 44
  | CommandNodeExtraNodeDataV2Parser_MinecraftResource => 45
  | CommandNodeExtraNodeDataV2Parser_MinecraftResourceKey => 46
  | CommandNodeExtraNodeDataV2Parser_MinecraftTemplateMirror => 47
  | CommandNodeExtraNodeDataV2Parser_MinecraftTemplateRotation => 48
  | CommandNodeExtraNodeDataV2Parser_MinecraftHeightmap => 49
  | CommandNodeExtraNodeDataV2Parser_BrigadierString => 5
  | CommandNodeExtraNodeDataV2Parser_MinecraftLootTable => 50
  | CommandNodeExtraNodeDataV2Parser_MinecraftLootPredicate => 51
  | CommandNodeExtraNodeDataV2Parser_MinecraftLootModifier => 52
  | CommandNodeExtraNodeDataV2Parser_MinecraftUuid => 53
  | CommandNodeExtraNodeDataV2Parser_MinecraftEntity => 6
  | CommandNodeExtraNodeDataV2Parser_MinecraftGameProfile => 7
  | CommandNodeExtraNodeDataV2Parser_MinecraftBlockPos => 8
  | CommandNodeExtraNodeDataV2Parser_MinecraftColumnPos => 9
  end.
Definition of_CommandNodeExtraNodeDataV2Parser (value : Z) : option CommandNodeExtraNodeDataV2Parser :=
  match value with
  | 0 => Some CommandNodeExtraNodeDataV2Parser_BrigadierBool
  | 1 => Some CommandNodeExtraNodeDataV2Parser_BrigadierFloat
  | 10 => Some CommandNodeExtraNodeDataV2Parser_MinecraftVec3
  | 11 => Some CommandNodeExtraNodeDataV2Parser_MinecraftVec2
  | 12 => Some CommandNodeExtraNodeDataV2Parser_MinecraftBlockState
  | 13 => Some CommandNodeExtraNodeDataV2Parser_MinecraftBlockPredicate
  | 14 => Some CommandNodeExtraNodeDataV2Parser_MinecraftItemStack
  | 15 => Some CommandNodeExtraNodeDataV2Parser_MinecraftItemPredicate
  | 16 => Some CommandNodeExtraNodeDataV2Parser_MinecraftColor
  | 17 => Some CommandNodeExtraNodeDataV2Parser_MinecraftComponent
  | 18 => Some CommandNodeExtraNodeDataV2Parser_MinecraftStyle
  | 19 => Some CommandNodeExtraNodeDataV2Parser_MinecraftMessage
  | 2 => Some CommandNodeExtraNodeDataV2Parser_BrigadierDouble
  | 20 => Some CommandNodeExtraNodeDataV2Parser_MinecraftNbt
  | 21 => Some CommandNodeExtraNodeDataV2Parser_MinecraftNbtTag
  | 22 => Some CommandNodeExtraNodeDataV2Parser_MinecraftNbtPath
  | 23 => Some CommandNodeExtraNodeDataV2Parser_MinecraftObjective
  | 24 => Some CommandNodeExtraNodeDataV2Parser_MinecraftObjectiveCriteria
  | 25 => Some CommandNodeExtraNodeDataV2Parser_MinecraftOperation
  | 26 => Some CommandNodeExtraNodeDataV2Parser_MinecraftParticle
  | 27 => Some CommandNodeExtraNodeDataV2Parser_MinecraftAngle
  | 28 => Some CommandNodeExtraNodeDataV2Parser_MinecraftRotation
  | 29 => Some CommandNodeExtraNodeDataV2Parser_MinecraftScoreboardSlot
  | 3 => Some CommandNodeExtraNodeDataV2Parser_BrigadierInteger
  | 30 => Some CommandNodeExtraNodeDataV2Parser_MinecraftScoreHolder
  | 31 => Some CommandNodeExtraNodeDataV2Parser_MinecraftSwizzle
  | 32 => Some CommandNodeExtraNodeDataV2Parser_MinecraftTeam
  | 33 => Some CommandNodeExtraNodeDataV2Parser_MinecraftItemSlot
  | 34 => Some CommandNodeExtraNodeDataV2Parser_MinecraftItemSlots
  | 35 => Some CommandNodeExtraNodeDataV2Parser_MinecraftResourceLocation
  | 36 => Some CommandNodeExtraNodeDataV2Parser_MinecraftFunction
  | 37 => Some CommandNodeExtraNodeDataV2Parser_MinecraftEntityAnchor
  | 38 => Some CommandNodeExtraNodeDataV2Parser_MinecraftIntRange
  | 39 => Some CommandNodeExtraNodeDataV2Parser_MinecraftFloatRange
  | 4 => Some CommandNodeExtraNodeDataV2Parser_BrigadierLong
  | 40 => Some CommandNodeExtraNodeDataV2Parser_MinecraftDimension
  | 41 => Some CommandNodeExtraNodeDataV2Parser_MinecraftGamemode
  | 42 => Some CommandNodeExtraNodeDataV2Parser_MinecraftTime
  | 43 => Some CommandNodeExtraNodeDataV2Parser_MinecraftResourceOrTag
  | 44 => Some CommandNodeExtraNodeDataV2Parser_MinecraftResourceOrTagKey
  | 45 => Some CommandNodeExtraNodeDataV2Parser_MinecraftResource
  | 46 => Some CommandNodeExtraNodeDataV2Parser_MinecraftResourceKey
  | 47 => Some CommandNodeExtraNodeDataV2Parser_MinecraftTemplateMirror
  | 48 => Some CommandNodeExtraNodeDataV2Parser_MinecraftTemplateRotation
  | 49 => Some CommandNodeExtraNodeDataV2Parser_MinecraftHeightmap
  | 5 => Some CommandNodeExtraNodeDataV2Parser_BrigadierString
  | 50 => Some CommandNodeExtraNodeDataV2Parser_MinecraftLootTable
  | 51 => Some CommandNodeExtraNodeDataV2Parser_MinecraftLootPredicate
  | 52 => Some CommandNodeExtraNodeDataV2Parser_MinecraftLootModifier
  | 53 => Some CommandNodeExtraNodeDataV2Parser_MinecraftUuid
  | 6 => Some CommandNodeExtraNodeDataV2Parser_MinecraftEntity
  | 7 => Some CommandNodeExtraNodeDataV2Parser_MinecraftGameProfile
  | 8 => Some CommandNodeExtraNodeDataV2Parser_MinecraftBlockPos
  | 9 => Some CommandNodeExtraNodeDataV2Parser_MinecraftColumnPos
  | _ => None
  end.
#[export] Instance CommandNodeExtraNodeDataV2Parser_eq_dec : EqDecision CommandNodeExtraNodeDataV2Parser.
Proof. apply (value_eq_dec value_CommandNodeExtraNodeDataV2Parser), (value_inj _ of_CommandNodeExtraNodeDataV2Parser). by intros []. Defined.
Definition wire_CommandNodeExtraNodeDataV2Parser : Codec CommandNodeExtraNodeDataV2Parser := {|
  encode v := modify (write_varint (value_CommandNodeExtraNodeDataV2Parser v));
  decode :=
    let* value := read_varint in
    match of_CommandNodeExtraNodeDataV2Parser value with
    | Some v => ret v
    | None => raise (UnknownEnumValue "CommandNodeExtraNodeDataV2Parser" value)
    end;
|}.
Definition dom_CommandNodeExtraNodeDataV2Parser (_ : CommandNodeExtraNodeDataV2Parser) : Prop := True.
Definition bytes_CommandNodeExtraNodeDataV2Parser (v : CommandNodeExtraNodeDataV2Parser) : list byte := varint_bytes (value_CommandNodeExtraNodeDataV2Parser v).
#[export] Instance lawful_CommandNodeExtraNodeDataV2Parser : LawfulCodec wire_CommandNodeExtraNodeDataV2Parser dom_CommandNodeExtraNodeDataV2Parser bytes_CommandNodeExtraNodeDataV2Parser.
Proof. solve_enum. Qed.
#[export] Instance cost_CommandNodeExtraNodeDataV2Parser : CodecCost dom_CommandNodeExtraNodeDataV2Parser bytes_CommandNodeExtraNodeDataV2Parser.
Proof. solve_cost. Qed.

Record CommandNodeExtraNodeDataV2PropertiesBrigadierDoubleFlags : Type := mkCommandNodeExtraNodeDataV2PropertiesBrigadierDoubleFlags {
  CommandNodeExtraNodeDataV2PropertiesBrigadierDoubleFlags_unused : Z;
  CommandNodeExtraNodeDataV2PropertiesBrigadierDoubleFlags_max_present : bool;
  CommandNodeExtraNodeDataV2PropertiesBrigadierDoubleFlags_min_present : bool;
}.
Definition raw_CommandNodeExtraNodeDataV2PropertiesBrigadierDoubleFlags (p : CommandNodeExtraNodeDataV2PropertiesBrigadierDoubleFlags) : Z :=
  Z.lor (Z.lor (Z.shiftl (Z.land (CommandNodeExtraNodeDataV2PropertiesBrigadierDoubleFlags_unused p) 0x3f) 2) (Z.shiftl (Z.b2z (CommandNodeExtraNodeDataV2PropertiesBrigadierDoubleFlags_max_present p)) 1)) (Z.b2z (CommandNodeExtraNodeDataV2PropertiesBrigadierDoubleFlags_min_present p)).
Definition of_raw_CommandNodeExtraNodeDataV2PropertiesBrigadierDoubleFlags (raw : Z) : CommandNodeExtraNodeDataV2PropertiesBrigadierDoubleFlags :=
  mkCommandNodeExtraNodeDataV2PropertiesBrigadierDoubleFlags (Z.land (Z.shiftr raw 2) 0x3f) (negb (Z.land (Z.shiftr raw 1) 1 =? 0)) (negb (Z.land raw 1 =? 0)).
Definition wire_CommandNodeExtraNodeDataV2PropertiesBrigadierDoubleFlags : Codec CommandNodeExtraNodeDataV2PropertiesBrigadierDoubleFlags := {|
  encode p := modify (put_u8 (raw_CommandNodeExtraNodeDataV2PropertiesBrigadierDoubleFlags p));
  decode := let* raw := get_u8 in ret (of_raw_CommandNodeExtraNodeDataV2PropertiesBrigadierDoubleFlags raw);
|}.
Definition dom_CommandNodeExtraNodeDataV2PropertiesBrigadierDoubleFlags (p : CommandNodeExtraNodeDataV2PropertiesBrigadierDoubleFlags) : Prop :=
  in_u 6 (CommandNodeExtraNodeDataV2PropertiesBrigadierDoubleFlags_unused p).
Definition bytes_CommandNodeExtraNodeDataV2PropertiesBrigadierDoubleFlags (p : CommandNodeExtraNodeDataV2PropertiesBrigadierDoubleFlags) : list byte := be_bytes 1 (raw_CommandNodeExtraNodeDataV2PropertiesBrigadierDoubleFlags p).
#[export] Instance CommandNodeExtraNodeDataV2PropertiesBrigadierDoubleFlags_eq_dec : EqDecision CommandNodeExtraNodeDataV2PropertiesBrigadierDoubleFlags.
Proof. solve_decision. Defined.
Lemma raw_CommandNodeExtraNodeDataV2PropertiesBrigadierDoubleFlags_inv p : dom_CommandNodeExtraNodeDataV2PropertiesBrigadierDoubleFlags p → in_u 8 (raw_CommandNodeExtraNodeDataV2PropertiesBrigadierDoubleFlags p) ∧ of_raw_CommandNodeExtraNodeDataV2PropertiesBrigadierDoubleFlags (raw_CommandNodeExtraNodeDataV2PropertiesBrigadierDoubleFlags p) = p.
Proof.
  destruct p; intros Hp; open_dom Hp; cbn [CommandNodeExtraNodeDataV2PropertiesBrigadierDoubleFlags_unused CommandNodeExtraNodeDataV2PropertiesBrigadierDoubleFlags_max_present CommandNodeExtraNodeDataV2PropertiesBrigadierDoubleFlags_min_present] in *. solve_bits.
Qed.
#[export] Instance lawful_CommandNodeExtraNodeDataV2PropertiesBrigadierDoubleFlags : LawfulCodec wire_CommandNodeExtraNodeDataV2PropertiesBrigadierDoubleFlags dom_CommandNodeExtraNodeDataV2PropertiesBrigadierDoubleFlags bytes_CommandNodeExtraNodeDataV2PropertiesBrigadierDoubleFlags.
Proof.
  split; intros p Hp.
  - by apply writes_modify.
  - destruct (raw_CommandNodeExtraNodeDataV2PropertiesBrigadierDoubleFlags_inv p Hp) as [Hr Heq]. rewrite <- Heq at 2. apply (reads_bind_ret get_u8), reads_get_u8, Hr.
Qed.
#[export] Instance cost_CommandNodeExtraNodeDataV2PropertiesBrigadierDoubleFlags : CodecCost dom_CommandNodeExtraNodeDataV2PropertiesBrigadierDoubleFlags bytes_CommandNodeExtraNodeDataV2PropertiesBrigadierDoubleFlags.
Proof. intros p _. unfold bytes_CommandNodeExtraNodeDataV2PropertiesBrigadierDoubleFlags. rewrite be_bytes_length. lia. Qed.

Inductive CommandNodeExtraNodeDataV2PropertiesBrigadierDoubleMin : Type :=
  | CommandNodeExtraNodeDataV2PropertiesBrigadierDoubleMin_True (v : Z)
  | CommandNodeExtraNodeDataV2PropertiesBrigadierDoubleMin_Default.
Definition encode_CommandNodeExtraNodeDataV2PropertiesBrigadierDoubleMin (v : CommandNodeExtraNodeDataV2PropertiesBrigadierDoubleMin) : Write :=
  match v with
  | CommandNodeExtraNodeDataV2PropertiesBrigadierDoubleMin_True v => encode wire_f64 v
  | CommandNodeExtraNodeDataV2PropertiesBrigadierDoubleMin_Default => ret tt
  end.
Definition decode_from_CommandNodeExtraNodeDataV2PropertiesBrigadierDoubleMin (d : bool) : Read CommandNodeExtraNodeDataV2PropertiesBrigadierDoubleMin :=
  if d then (let* v := decode wire_f64 in ret (CommandNodeExtraNodeDataV2PropertiesBrigadierDoubleMin_True v))
  else ret CommandNodeExtraNodeDataV2PropertiesBrigadierDoubleMin_Default.
Definition case_CommandNodeExtraNodeDataV2PropertiesBrigadierDoubleMin (d : bool) (v : CommandNodeExtraNodeDataV2PropertiesBrigadierDoubleMin) : bool :=
  match v with
  | CommandNodeExtraNodeDataV2PropertiesBrigadierDoubleMin_True _ => on d true
  | CommandNodeExtraNodeDataV2PropertiesBrigadierDoubleMin_Default => on d false
  end.
Definition switch_CommandNodeExtraNodeDataV2PropertiesBrigadierDoubleMin : Switch bool CommandNodeExtraNodeDataV2PropertiesBrigadierDoubleMin := mkSwitch case_CommandNodeExtraNodeDataV2PropertiesBrigadierDoubleMin encode_CommandNodeExtraNodeDataV2PropertiesBrigadierDoubleMin decode_from_CommandNodeExtraNodeDataV2PropertiesBrigadierDoubleMin.
Definition dom_CommandNodeExtraNodeDataV2PropertiesBrigadierDoubleMin (d : bool) (v : CommandNodeExtraNodeDataV2PropertiesBrigadierDoubleMin) : Prop :=
  case_CommandNodeExtraNodeDataV2PropertiesBrigadierDoubleMin d v = true ∧
  match v with
  | CommandNodeExtraNodeDataV2PropertiesBrigadierDoubleMin_True v => in_u 64 v
  | _ => True
  end.
Definition bytes_CommandNodeExtraNodeDataV2PropertiesBrigadierDoubleMin (v : CommandNodeExtraNodeDataV2PropertiesBrigadierDoubleMin) : list byte :=
  match v with
  | CommandNodeExtraNodeDataV2PropertiesBrigadierDoubleMin_True v => be_bytes 8 v
  | _ => []
  end.
#[export] Instance lawful_CommandNodeExtraNodeDataV2PropertiesBrigadierDoubleMin : LawfulSwitch switch_CommandNodeExtraNodeDataV2PropertiesBrigadierDoubleMin dom_CommandNodeExtraNodeDataV2PropertiesBrigadierDoubleMin bytes_CommandNodeExtraNodeDataV2PropertiesBrigadierDoubleMin.
Proof. solve_switch. Qed.

Inductive CommandNodeExtraNodeDataV2PropertiesBrigadierDoubleMax : Type :=
  | CommandNodeExtraNodeDataV2PropertiesBrigadierDoubleMax_True (v : Z)
  | CommandNodeExtraNodeDataV2PropertiesBrigadierDoubleMax_Default.
Definition encode_CommandNodeExtraNodeDataV2PropertiesBrigadierDoubleMax (v : CommandNodeExtraNodeDataV2PropertiesBrigadierDoubleMax) : Write :=
  match v with
  | CommandNodeExtraNodeDataV2PropertiesBrigadierDoubleMax_True v => encode wire_f64 v
  | CommandNodeExtraNodeDataV2PropertiesBrigadierDoubleMax_Default => ret tt
  end.
Definition decode_from_CommandNodeExtraNodeDataV2PropertiesBrigadierDoubleMax (d : bool) : Read CommandNodeExtraNodeDataV2PropertiesBrigadierDoubleMax :=
  if d then (let* v := decode wire_f64 in ret (CommandNodeExtraNodeDataV2PropertiesBrigadierDoubleMax_True v))
  else ret CommandNodeExtraNodeDataV2PropertiesBrigadierDoubleMax_Default.
Definition case_CommandNodeExtraNodeDataV2PropertiesBrigadierDoubleMax (d : bool) (v : CommandNodeExtraNodeDataV2PropertiesBrigadierDoubleMax) : bool :=
  match v with
  | CommandNodeExtraNodeDataV2PropertiesBrigadierDoubleMax_True _ => on d true
  | CommandNodeExtraNodeDataV2PropertiesBrigadierDoubleMax_Default => on d false
  end.
Definition switch_CommandNodeExtraNodeDataV2PropertiesBrigadierDoubleMax : Switch bool CommandNodeExtraNodeDataV2PropertiesBrigadierDoubleMax := mkSwitch case_CommandNodeExtraNodeDataV2PropertiesBrigadierDoubleMax encode_CommandNodeExtraNodeDataV2PropertiesBrigadierDoubleMax decode_from_CommandNodeExtraNodeDataV2PropertiesBrigadierDoubleMax.
Definition dom_CommandNodeExtraNodeDataV2PropertiesBrigadierDoubleMax (d : bool) (v : CommandNodeExtraNodeDataV2PropertiesBrigadierDoubleMax) : Prop :=
  case_CommandNodeExtraNodeDataV2PropertiesBrigadierDoubleMax d v = true ∧
  match v with
  | CommandNodeExtraNodeDataV2PropertiesBrigadierDoubleMax_True v => in_u 64 v
  | _ => True
  end.
Definition bytes_CommandNodeExtraNodeDataV2PropertiesBrigadierDoubleMax (v : CommandNodeExtraNodeDataV2PropertiesBrigadierDoubleMax) : list byte :=
  match v with
  | CommandNodeExtraNodeDataV2PropertiesBrigadierDoubleMax_True v => be_bytes 8 v
  | _ => []
  end.
#[export] Instance lawful_CommandNodeExtraNodeDataV2PropertiesBrigadierDoubleMax : LawfulSwitch switch_CommandNodeExtraNodeDataV2PropertiesBrigadierDoubleMax dom_CommandNodeExtraNodeDataV2PropertiesBrigadierDoubleMax bytes_CommandNodeExtraNodeDataV2PropertiesBrigadierDoubleMax.
Proof. solve_switch. Qed.

Record CommandNodeExtraNodeDataV2PropertiesBrigadierDouble : Type := mkCommandNodeExtraNodeDataV2PropertiesBrigadierDouble {
  CommandNodeExtraNodeDataV2PropertiesBrigadierDouble_flags : CommandNodeExtraNodeDataV2PropertiesBrigadierDoubleFlags;
  CommandNodeExtraNodeDataV2PropertiesBrigadierDouble_min : CommandNodeExtraNodeDataV2PropertiesBrigadierDoubleMin;
  CommandNodeExtraNodeDataV2PropertiesBrigadierDouble_max : CommandNodeExtraNodeDataV2PropertiesBrigadierDoubleMax;
}.
Definition wire_CommandNodeExtraNodeDataV2PropertiesBrigadierDouble : Codec CommandNodeExtraNodeDataV2PropertiesBrigadierDouble := {|
  encode p :=
    encode wire_CommandNodeExtraNodeDataV2PropertiesBrigadierDoubleFlags (CommandNodeExtraNodeDataV2PropertiesBrigadierDouble_flags p) ;;;
    encode_at switch_CommandNodeExtraNodeDataV2PropertiesBrigadierDoubleMin (CommandNodeExtraNodeDataV2PropertiesBrigadierDoubleFlags_min_present (CommandNodeExtraNodeDataV2PropertiesBrigadierDouble_flags p)) (CommandNodeExtraNodeDataV2PropertiesBrigadierDouble_min p) ;;;
    encode_at switch_CommandNodeExtraNodeDataV2PropertiesBrigadierDoubleMax (CommandNodeExtraNodeDataV2PropertiesBrigadierDoubleFlags_max_present (CommandNodeExtraNodeDataV2PropertiesBrigadierDouble_flags p)) (CommandNodeExtraNodeDataV2PropertiesBrigadierDouble_max p) ;;;
    ret tt;
  decode :=
    let* flags := decode wire_CommandNodeExtraNodeDataV2PropertiesBrigadierDoubleFlags in
    let* min := sw_decode switch_CommandNodeExtraNodeDataV2PropertiesBrigadierDoubleMin (CommandNodeExtraNodeDataV2PropertiesBrigadierDoubleFlags_min_present flags) in
    let* max := sw_decode switch_CommandNodeExtraNodeDataV2PropertiesBrigadierDoubleMax (CommandNodeExtraNodeDataV2PropertiesBrigadierDoubleFlags_max_present flags) in
    ret (mkCommandNodeExtraNodeDataV2PropertiesBrigadierDouble flags min max);
|}.
Definition dom_CommandNodeExtraNodeDataV2PropertiesBrigadierDouble (p : CommandNodeExtraNodeDataV2PropertiesBrigadierDouble) : Prop :=
  dom_CommandNodeExtraNodeDataV2PropertiesBrigadierDoubleFlags (CommandNodeExtraNodeDataV2PropertiesBrigadierDouble_flags p)
  ∧ dom_CommandNodeExtraNodeDataV2PropertiesBrigadierDoubleMin (CommandNodeExtraNodeDataV2PropertiesBrigadierDoubleFlags_min_present (CommandNodeExtraNodeDataV2PropertiesBrigadierDouble_flags p)) (CommandNodeExtraNodeDataV2PropertiesBrigadierDouble_min p)
  ∧ dom_CommandNodeExtraNodeDataV2PropertiesBrigadierDoubleMax (CommandNodeExtraNodeDataV2PropertiesBrigadierDoubleFlags_max_present (CommandNodeExtraNodeDataV2PropertiesBrigadierDouble_flags p)) (CommandNodeExtraNodeDataV2PropertiesBrigadierDouble_max p).
Definition bytes_CommandNodeExtraNodeDataV2PropertiesBrigadierDouble (p : CommandNodeExtraNodeDataV2PropertiesBrigadierDouble) : list byte :=
  concat [bytes_CommandNodeExtraNodeDataV2PropertiesBrigadierDoubleFlags (CommandNodeExtraNodeDataV2PropertiesBrigadierDouble_flags p);
    bytes_CommandNodeExtraNodeDataV2PropertiesBrigadierDoubleMin (CommandNodeExtraNodeDataV2PropertiesBrigadierDouble_min p);
    bytes_CommandNodeExtraNodeDataV2PropertiesBrigadierDoubleMax (CommandNodeExtraNodeDataV2PropertiesBrigadierDouble_max p)].
#[export] Instance lawful_CommandNodeExtraNodeDataV2PropertiesBrigadierDouble : LawfulCodec wire_CommandNodeExtraNodeDataV2PropertiesBrigadierDouble dom_CommandNodeExtraNodeDataV2PropertiesBrigadierDouble bytes_CommandNodeExtraNodeDataV2PropertiesBrigadierDouble.
Proof. solve_struct. Qed.
#[export] Instance cost_CommandNodeExtraNodeDataV2PropertiesBrigadierDouble : CodecCost dom_CommandNodeExtraNodeDataV2PropertiesBrigadierDouble bytes_CommandNodeExtraNodeDataV2PropertiesBrigadierDouble.
Proof. solve_head. Qed.

Record CommandNodeExtraNodeDataV2PropertiesBrigadierFloatFlags : Type := mkCommandNodeExtraNodeDataV2PropertiesBrigadierFloatFlags {
  CommandNodeExtraNodeDataV2PropertiesBrigadierFloatFlags_unused : Z;
  CommandNodeExtraNodeDataV2PropertiesBrigadierFloatFlags_max_present : bool;
  CommandNodeExtraNodeDataV2PropertiesBrigadierFloatFlags_min_present : bool;
}.
Definition raw_CommandNodeExtraNodeDataV2PropertiesBrigadierFloatFlags (p : CommandNodeExtraNodeDataV2PropertiesBrigadierFloatFlags) : Z :=
  Z.lor (Z.lor (Z.shiftl (Z.land (CommandNodeExtraNodeDataV2PropertiesBrigadierFloatFlags_unused p) 0x3f) 2) (Z.shiftl (Z.b2z (CommandNodeExtraNodeDataV2PropertiesBrigadierFloatFlags_max_present p)) 1)) (Z.b2z (CommandNodeExtraNodeDataV2PropertiesBrigadierFloatFlags_min_present p)).
Definition of_raw_CommandNodeExtraNodeDataV2PropertiesBrigadierFloatFlags (raw : Z) : CommandNodeExtraNodeDataV2PropertiesBrigadierFloatFlags :=
  mkCommandNodeExtraNodeDataV2PropertiesBrigadierFloatFlags (Z.land (Z.shiftr raw 2) 0x3f) (negb (Z.land (Z.shiftr raw 1) 1 =? 0)) (negb (Z.land raw 1 =? 0)).
Definition wire_CommandNodeExtraNodeDataV2PropertiesBrigadierFloatFlags : Codec CommandNodeExtraNodeDataV2PropertiesBrigadierFloatFlags := {|
  encode p := modify (put_u8 (raw_CommandNodeExtraNodeDataV2PropertiesBrigadierFloatFlags p));
  decode := let* raw := get_u8 in ret (of_raw_CommandNodeExtraNodeDataV2PropertiesBrigadierFloatFlags raw);
|}.
Definition dom_CommandNodeExtraNodeDataV2PropertiesBrigadierFloatFlags (p : CommandNodeExtraNodeDataV2PropertiesBrigadierFloatFlags) : Prop :=
  in_u 6 (CommandNodeExtraNodeDataV2PropertiesBrigadierFloatFlags_unused p).
Definition bytes_CommandNodeExtraNodeDataV2PropertiesBrigadierFloatFlags (p : CommandNodeExtraNodeDataV2PropertiesBrigadierFloatFlags) : list byte := be_bytes 1 (raw_CommandNodeExtraNodeDataV2PropertiesBrigadierFloatFlags p).
#[export] Instance CommandNodeExtraNodeDataV2PropertiesBrigadierFloatFlags_eq_dec : EqDecision CommandNodeExtraNodeDataV2PropertiesBrigadierFloatFlags.
Proof. solve_decision. Defined.
Lemma raw_CommandNodeExtraNodeDataV2PropertiesBrigadierFloatFlags_inv p : dom_CommandNodeExtraNodeDataV2PropertiesBrigadierFloatFlags p → in_u 8 (raw_CommandNodeExtraNodeDataV2PropertiesBrigadierFloatFlags p) ∧ of_raw_CommandNodeExtraNodeDataV2PropertiesBrigadierFloatFlags (raw_CommandNodeExtraNodeDataV2PropertiesBrigadierFloatFlags p) = p.
Proof.
  destruct p; intros Hp; open_dom Hp; cbn [CommandNodeExtraNodeDataV2PropertiesBrigadierFloatFlags_unused CommandNodeExtraNodeDataV2PropertiesBrigadierFloatFlags_max_present CommandNodeExtraNodeDataV2PropertiesBrigadierFloatFlags_min_present] in *. solve_bits.
Qed.
#[export] Instance lawful_CommandNodeExtraNodeDataV2PropertiesBrigadierFloatFlags : LawfulCodec wire_CommandNodeExtraNodeDataV2PropertiesBrigadierFloatFlags dom_CommandNodeExtraNodeDataV2PropertiesBrigadierFloatFlags bytes_CommandNodeExtraNodeDataV2PropertiesBrigadierFloatFlags.
Proof.
  split; intros p Hp.
  - by apply writes_modify.
  - destruct (raw_CommandNodeExtraNodeDataV2PropertiesBrigadierFloatFlags_inv p Hp) as [Hr Heq]. rewrite <- Heq at 2. apply (reads_bind_ret get_u8), reads_get_u8, Hr.
Qed.
#[export] Instance cost_CommandNodeExtraNodeDataV2PropertiesBrigadierFloatFlags : CodecCost dom_CommandNodeExtraNodeDataV2PropertiesBrigadierFloatFlags bytes_CommandNodeExtraNodeDataV2PropertiesBrigadierFloatFlags.
Proof. intros p _. unfold bytes_CommandNodeExtraNodeDataV2PropertiesBrigadierFloatFlags. rewrite be_bytes_length. lia. Qed.

Inductive CommandNodeExtraNodeDataV2PropertiesBrigadierFloatMin : Type :=
  | CommandNodeExtraNodeDataV2PropertiesBrigadierFloatMin_True (v : Z)
  | CommandNodeExtraNodeDataV2PropertiesBrigadierFloatMin_Default.
Definition encode_CommandNodeExtraNodeDataV2PropertiesBrigadierFloatMin (v : CommandNodeExtraNodeDataV2PropertiesBrigadierFloatMin) : Write :=
  match v with
  | CommandNodeExtraNodeDataV2PropertiesBrigadierFloatMin_True v => encode wire_f32 v
  | CommandNodeExtraNodeDataV2PropertiesBrigadierFloatMin_Default => ret tt
  end.
Definition decode_from_CommandNodeExtraNodeDataV2PropertiesBrigadierFloatMin (d : bool) : Read CommandNodeExtraNodeDataV2PropertiesBrigadierFloatMin :=
  if d then (let* v := decode wire_f32 in ret (CommandNodeExtraNodeDataV2PropertiesBrigadierFloatMin_True v))
  else ret CommandNodeExtraNodeDataV2PropertiesBrigadierFloatMin_Default.
Definition case_CommandNodeExtraNodeDataV2PropertiesBrigadierFloatMin (d : bool) (v : CommandNodeExtraNodeDataV2PropertiesBrigadierFloatMin) : bool :=
  match v with
  | CommandNodeExtraNodeDataV2PropertiesBrigadierFloatMin_True _ => on d true
  | CommandNodeExtraNodeDataV2PropertiesBrigadierFloatMin_Default => on d false
  end.
Definition switch_CommandNodeExtraNodeDataV2PropertiesBrigadierFloatMin : Switch bool CommandNodeExtraNodeDataV2PropertiesBrigadierFloatMin := mkSwitch case_CommandNodeExtraNodeDataV2PropertiesBrigadierFloatMin encode_CommandNodeExtraNodeDataV2PropertiesBrigadierFloatMin decode_from_CommandNodeExtraNodeDataV2PropertiesBrigadierFloatMin.
Definition dom_CommandNodeExtraNodeDataV2PropertiesBrigadierFloatMin (d : bool) (v : CommandNodeExtraNodeDataV2PropertiesBrigadierFloatMin) : Prop :=
  case_CommandNodeExtraNodeDataV2PropertiesBrigadierFloatMin d v = true ∧
  match v with
  | CommandNodeExtraNodeDataV2PropertiesBrigadierFloatMin_True v => in_u 32 v
  | _ => True
  end.
Definition bytes_CommandNodeExtraNodeDataV2PropertiesBrigadierFloatMin (v : CommandNodeExtraNodeDataV2PropertiesBrigadierFloatMin) : list byte :=
  match v with
  | CommandNodeExtraNodeDataV2PropertiesBrigadierFloatMin_True v => be_bytes 4 v
  | _ => []
  end.
#[export] Instance lawful_CommandNodeExtraNodeDataV2PropertiesBrigadierFloatMin : LawfulSwitch switch_CommandNodeExtraNodeDataV2PropertiesBrigadierFloatMin dom_CommandNodeExtraNodeDataV2PropertiesBrigadierFloatMin bytes_CommandNodeExtraNodeDataV2PropertiesBrigadierFloatMin.
Proof. solve_switch. Qed.

Inductive CommandNodeExtraNodeDataV2PropertiesBrigadierFloatMax : Type :=
  | CommandNodeExtraNodeDataV2PropertiesBrigadierFloatMax_True (v : Z)
  | CommandNodeExtraNodeDataV2PropertiesBrigadierFloatMax_Default.
Definition encode_CommandNodeExtraNodeDataV2PropertiesBrigadierFloatMax (v : CommandNodeExtraNodeDataV2PropertiesBrigadierFloatMax) : Write :=
  match v with
  | CommandNodeExtraNodeDataV2PropertiesBrigadierFloatMax_True v => encode wire_f32 v
  | CommandNodeExtraNodeDataV2PropertiesBrigadierFloatMax_Default => ret tt
  end.
Definition decode_from_CommandNodeExtraNodeDataV2PropertiesBrigadierFloatMax (d : bool) : Read CommandNodeExtraNodeDataV2PropertiesBrigadierFloatMax :=
  if d then (let* v := decode wire_f32 in ret (CommandNodeExtraNodeDataV2PropertiesBrigadierFloatMax_True v))
  else ret CommandNodeExtraNodeDataV2PropertiesBrigadierFloatMax_Default.
Definition case_CommandNodeExtraNodeDataV2PropertiesBrigadierFloatMax (d : bool) (v : CommandNodeExtraNodeDataV2PropertiesBrigadierFloatMax) : bool :=
  match v with
  | CommandNodeExtraNodeDataV2PropertiesBrigadierFloatMax_True _ => on d true
  | CommandNodeExtraNodeDataV2PropertiesBrigadierFloatMax_Default => on d false
  end.
Definition switch_CommandNodeExtraNodeDataV2PropertiesBrigadierFloatMax : Switch bool CommandNodeExtraNodeDataV2PropertiesBrigadierFloatMax := mkSwitch case_CommandNodeExtraNodeDataV2PropertiesBrigadierFloatMax encode_CommandNodeExtraNodeDataV2PropertiesBrigadierFloatMax decode_from_CommandNodeExtraNodeDataV2PropertiesBrigadierFloatMax.
Definition dom_CommandNodeExtraNodeDataV2PropertiesBrigadierFloatMax (d : bool) (v : CommandNodeExtraNodeDataV2PropertiesBrigadierFloatMax) : Prop :=
  case_CommandNodeExtraNodeDataV2PropertiesBrigadierFloatMax d v = true ∧
  match v with
  | CommandNodeExtraNodeDataV2PropertiesBrigadierFloatMax_True v => in_u 32 v
  | _ => True
  end.
Definition bytes_CommandNodeExtraNodeDataV2PropertiesBrigadierFloatMax (v : CommandNodeExtraNodeDataV2PropertiesBrigadierFloatMax) : list byte :=
  match v with
  | CommandNodeExtraNodeDataV2PropertiesBrigadierFloatMax_True v => be_bytes 4 v
  | _ => []
  end.
#[export] Instance lawful_CommandNodeExtraNodeDataV2PropertiesBrigadierFloatMax : LawfulSwitch switch_CommandNodeExtraNodeDataV2PropertiesBrigadierFloatMax dom_CommandNodeExtraNodeDataV2PropertiesBrigadierFloatMax bytes_CommandNodeExtraNodeDataV2PropertiesBrigadierFloatMax.
Proof. solve_switch. Qed.

Record CommandNodeExtraNodeDataV2PropertiesBrigadierFloat : Type := mkCommandNodeExtraNodeDataV2PropertiesBrigadierFloat {
  CommandNodeExtraNodeDataV2PropertiesBrigadierFloat_flags : CommandNodeExtraNodeDataV2PropertiesBrigadierFloatFlags;
  CommandNodeExtraNodeDataV2PropertiesBrigadierFloat_min : CommandNodeExtraNodeDataV2PropertiesBrigadierFloatMin;
  CommandNodeExtraNodeDataV2PropertiesBrigadierFloat_max : CommandNodeExtraNodeDataV2PropertiesBrigadierFloatMax;
}.
Definition wire_CommandNodeExtraNodeDataV2PropertiesBrigadierFloat : Codec CommandNodeExtraNodeDataV2PropertiesBrigadierFloat := {|
  encode p :=
    encode wire_CommandNodeExtraNodeDataV2PropertiesBrigadierFloatFlags (CommandNodeExtraNodeDataV2PropertiesBrigadierFloat_flags p) ;;;
    encode_at switch_CommandNodeExtraNodeDataV2PropertiesBrigadierFloatMin (CommandNodeExtraNodeDataV2PropertiesBrigadierFloatFlags_min_present (CommandNodeExtraNodeDataV2PropertiesBrigadierFloat_flags p)) (CommandNodeExtraNodeDataV2PropertiesBrigadierFloat_min p) ;;;
    encode_at switch_CommandNodeExtraNodeDataV2PropertiesBrigadierFloatMax (CommandNodeExtraNodeDataV2PropertiesBrigadierFloatFlags_max_present (CommandNodeExtraNodeDataV2PropertiesBrigadierFloat_flags p)) (CommandNodeExtraNodeDataV2PropertiesBrigadierFloat_max p) ;;;
    ret tt;
  decode :=
    let* flags := decode wire_CommandNodeExtraNodeDataV2PropertiesBrigadierFloatFlags in
    let* min := sw_decode switch_CommandNodeExtraNodeDataV2PropertiesBrigadierFloatMin (CommandNodeExtraNodeDataV2PropertiesBrigadierFloatFlags_min_present flags) in
    let* max := sw_decode switch_CommandNodeExtraNodeDataV2PropertiesBrigadierFloatMax (CommandNodeExtraNodeDataV2PropertiesBrigadierFloatFlags_max_present flags) in
    ret (mkCommandNodeExtraNodeDataV2PropertiesBrigadierFloat flags min max);
|}.
Definition dom_CommandNodeExtraNodeDataV2PropertiesBrigadierFloat (p : CommandNodeExtraNodeDataV2PropertiesBrigadierFloat) : Prop :=
  dom_CommandNodeExtraNodeDataV2PropertiesBrigadierFloatFlags (CommandNodeExtraNodeDataV2PropertiesBrigadierFloat_flags p)
  ∧ dom_CommandNodeExtraNodeDataV2PropertiesBrigadierFloatMin (CommandNodeExtraNodeDataV2PropertiesBrigadierFloatFlags_min_present (CommandNodeExtraNodeDataV2PropertiesBrigadierFloat_flags p)) (CommandNodeExtraNodeDataV2PropertiesBrigadierFloat_min p)
  ∧ dom_CommandNodeExtraNodeDataV2PropertiesBrigadierFloatMax (CommandNodeExtraNodeDataV2PropertiesBrigadierFloatFlags_max_present (CommandNodeExtraNodeDataV2PropertiesBrigadierFloat_flags p)) (CommandNodeExtraNodeDataV2PropertiesBrigadierFloat_max p).
Definition bytes_CommandNodeExtraNodeDataV2PropertiesBrigadierFloat (p : CommandNodeExtraNodeDataV2PropertiesBrigadierFloat) : list byte :=
  concat [bytes_CommandNodeExtraNodeDataV2PropertiesBrigadierFloatFlags (CommandNodeExtraNodeDataV2PropertiesBrigadierFloat_flags p);
    bytes_CommandNodeExtraNodeDataV2PropertiesBrigadierFloatMin (CommandNodeExtraNodeDataV2PropertiesBrigadierFloat_min p);
    bytes_CommandNodeExtraNodeDataV2PropertiesBrigadierFloatMax (CommandNodeExtraNodeDataV2PropertiesBrigadierFloat_max p)].
#[export] Instance lawful_CommandNodeExtraNodeDataV2PropertiesBrigadierFloat : LawfulCodec wire_CommandNodeExtraNodeDataV2PropertiesBrigadierFloat dom_CommandNodeExtraNodeDataV2PropertiesBrigadierFloat bytes_CommandNodeExtraNodeDataV2PropertiesBrigadierFloat.
Proof. solve_struct. Qed.
#[export] Instance cost_CommandNodeExtraNodeDataV2PropertiesBrigadierFloat : CodecCost dom_CommandNodeExtraNodeDataV2PropertiesBrigadierFloat bytes_CommandNodeExtraNodeDataV2PropertiesBrigadierFloat.
Proof. solve_head. Qed.

Record CommandNodeExtraNodeDataV2PropertiesBrigadierIntegerFlags : Type := mkCommandNodeExtraNodeDataV2PropertiesBrigadierIntegerFlags {
  CommandNodeExtraNodeDataV2PropertiesBrigadierIntegerFlags_unused : Z;
  CommandNodeExtraNodeDataV2PropertiesBrigadierIntegerFlags_max_present : bool;
  CommandNodeExtraNodeDataV2PropertiesBrigadierIntegerFlags_min_present : bool;
}.
Definition raw_CommandNodeExtraNodeDataV2PropertiesBrigadierIntegerFlags (p : CommandNodeExtraNodeDataV2PropertiesBrigadierIntegerFlags) : Z :=
  Z.lor (Z.lor (Z.shiftl (Z.land (CommandNodeExtraNodeDataV2PropertiesBrigadierIntegerFlags_unused p) 0x3f) 2) (Z.shiftl (Z.b2z (CommandNodeExtraNodeDataV2PropertiesBrigadierIntegerFlags_max_present p)) 1)) (Z.b2z (CommandNodeExtraNodeDataV2PropertiesBrigadierIntegerFlags_min_present p)).
Definition of_raw_CommandNodeExtraNodeDataV2PropertiesBrigadierIntegerFlags (raw : Z) : CommandNodeExtraNodeDataV2PropertiesBrigadierIntegerFlags :=
  mkCommandNodeExtraNodeDataV2PropertiesBrigadierIntegerFlags (Z.land (Z.shiftr raw 2) 0x3f) (negb (Z.land (Z.shiftr raw 1) 1 =? 0)) (negb (Z.land raw 1 =? 0)).
Definition wire_CommandNodeExtraNodeDataV2PropertiesBrigadierIntegerFlags : Codec CommandNodeExtraNodeDataV2PropertiesBrigadierIntegerFlags := {|
  encode p := modify (put_u8 (raw_CommandNodeExtraNodeDataV2PropertiesBrigadierIntegerFlags p));
  decode := let* raw := get_u8 in ret (of_raw_CommandNodeExtraNodeDataV2PropertiesBrigadierIntegerFlags raw);
|}.
Definition dom_CommandNodeExtraNodeDataV2PropertiesBrigadierIntegerFlags (p : CommandNodeExtraNodeDataV2PropertiesBrigadierIntegerFlags) : Prop :=
  in_u 6 (CommandNodeExtraNodeDataV2PropertiesBrigadierIntegerFlags_unused p).
Definition bytes_CommandNodeExtraNodeDataV2PropertiesBrigadierIntegerFlags (p : CommandNodeExtraNodeDataV2PropertiesBrigadierIntegerFlags) : list byte := be_bytes 1 (raw_CommandNodeExtraNodeDataV2PropertiesBrigadierIntegerFlags p).
#[export] Instance CommandNodeExtraNodeDataV2PropertiesBrigadierIntegerFlags_eq_dec : EqDecision CommandNodeExtraNodeDataV2PropertiesBrigadierIntegerFlags.
Proof. solve_decision. Defined.
Lemma raw_CommandNodeExtraNodeDataV2PropertiesBrigadierIntegerFlags_inv p : dom_CommandNodeExtraNodeDataV2PropertiesBrigadierIntegerFlags p → in_u 8 (raw_CommandNodeExtraNodeDataV2PropertiesBrigadierIntegerFlags p) ∧ of_raw_CommandNodeExtraNodeDataV2PropertiesBrigadierIntegerFlags (raw_CommandNodeExtraNodeDataV2PropertiesBrigadierIntegerFlags p) = p.
Proof.
  destruct p; intros Hp; open_dom Hp; cbn [CommandNodeExtraNodeDataV2PropertiesBrigadierIntegerFlags_unused CommandNodeExtraNodeDataV2PropertiesBrigadierIntegerFlags_max_present CommandNodeExtraNodeDataV2PropertiesBrigadierIntegerFlags_min_present] in *. solve_bits.
Qed.
#[export] Instance lawful_CommandNodeExtraNodeDataV2PropertiesBrigadierIntegerFlags : LawfulCodec wire_CommandNodeExtraNodeDataV2PropertiesBrigadierIntegerFlags dom_CommandNodeExtraNodeDataV2PropertiesBrigadierIntegerFlags bytes_CommandNodeExtraNodeDataV2PropertiesBrigadierIntegerFlags.
Proof.
  split; intros p Hp.
  - by apply writes_modify.
  - destruct (raw_CommandNodeExtraNodeDataV2PropertiesBrigadierIntegerFlags_inv p Hp) as [Hr Heq]. rewrite <- Heq at 2. apply (reads_bind_ret get_u8), reads_get_u8, Hr.
Qed.
#[export] Instance cost_CommandNodeExtraNodeDataV2PropertiesBrigadierIntegerFlags : CodecCost dom_CommandNodeExtraNodeDataV2PropertiesBrigadierIntegerFlags bytes_CommandNodeExtraNodeDataV2PropertiesBrigadierIntegerFlags.
Proof. intros p _. unfold bytes_CommandNodeExtraNodeDataV2PropertiesBrigadierIntegerFlags. rewrite be_bytes_length. lia. Qed.

Inductive CommandNodeExtraNodeDataV2PropertiesBrigadierIntegerMin : Type :=
  | CommandNodeExtraNodeDataV2PropertiesBrigadierIntegerMin_True (v : Z)
  | CommandNodeExtraNodeDataV2PropertiesBrigadierIntegerMin_Default.
Definition encode_CommandNodeExtraNodeDataV2PropertiesBrigadierIntegerMin (v : CommandNodeExtraNodeDataV2PropertiesBrigadierIntegerMin) : Write :=
  match v with
  | CommandNodeExtraNodeDataV2PropertiesBrigadierIntegerMin_True v => encode wire_i32 v
  | CommandNodeExtraNodeDataV2PropertiesBrigadierIntegerMin_Default => ret tt
  end.
Definition decode_from_CommandNodeExtraNodeDataV2PropertiesBrigadierIntegerMin (d : bool) : Read CommandNodeExtraNodeDataV2PropertiesBrigadierIntegerMin :=
  if d then (let* v := decode wire_i32 in ret (CommandNodeExtraNodeDataV2PropertiesBrigadierIntegerMin_True v))
  else ret CommandNodeExtraNodeDataV2PropertiesBrigadierIntegerMin_Default.
Definition case_CommandNodeExtraNodeDataV2PropertiesBrigadierIntegerMin (d : bool) (v : CommandNodeExtraNodeDataV2PropertiesBrigadierIntegerMin) : bool :=
  match v with
  | CommandNodeExtraNodeDataV2PropertiesBrigadierIntegerMin_True _ => on d true
  | CommandNodeExtraNodeDataV2PropertiesBrigadierIntegerMin_Default => on d false
  end.
Definition switch_CommandNodeExtraNodeDataV2PropertiesBrigadierIntegerMin : Switch bool CommandNodeExtraNodeDataV2PropertiesBrigadierIntegerMin := mkSwitch case_CommandNodeExtraNodeDataV2PropertiesBrigadierIntegerMin encode_CommandNodeExtraNodeDataV2PropertiesBrigadierIntegerMin decode_from_CommandNodeExtraNodeDataV2PropertiesBrigadierIntegerMin.
Definition dom_CommandNodeExtraNodeDataV2PropertiesBrigadierIntegerMin (d : bool) (v : CommandNodeExtraNodeDataV2PropertiesBrigadierIntegerMin) : Prop :=
  case_CommandNodeExtraNodeDataV2PropertiesBrigadierIntegerMin d v = true ∧
  match v with
  | CommandNodeExtraNodeDataV2PropertiesBrigadierIntegerMin_True v => in_i 32 v
  | _ => True
  end.
Definition bytes_CommandNodeExtraNodeDataV2PropertiesBrigadierIntegerMin (v : CommandNodeExtraNodeDataV2PropertiesBrigadierIntegerMin) : list byte :=
  match v with
  | CommandNodeExtraNodeDataV2PropertiesBrigadierIntegerMin_True v => be_bytes 4 v
  | _ => []
  end.
#[export] Instance lawful_CommandNodeExtraNodeDataV2PropertiesBrigadierIntegerMin : LawfulSwitch switch_CommandNodeExtraNodeDataV2PropertiesBrigadierIntegerMin dom_CommandNodeExtraNodeDataV2PropertiesBrigadierIntegerMin bytes_CommandNodeExtraNodeDataV2PropertiesBrigadierIntegerMin.
Proof. solve_switch. Qed.

Inductive CommandNodeExtraNodeDataV2PropertiesBrigadierIntegerMax : Type :=
  | CommandNodeExtraNodeDataV2PropertiesBrigadierIntegerMax_True (v : Z)
  | CommandNodeExtraNodeDataV2PropertiesBrigadierIntegerMax_Default.
Definition encode_CommandNodeExtraNodeDataV2PropertiesBrigadierIntegerMax (v : CommandNodeExtraNodeDataV2PropertiesBrigadierIntegerMax) : Write :=
  match v with
  | CommandNodeExtraNodeDataV2PropertiesBrigadierIntegerMax_True v => encode wire_i32 v
  | CommandNodeExtraNodeDataV2PropertiesBrigadierIntegerMax_Default => ret tt
  end.
Definition decode_from_CommandNodeExtraNodeDataV2PropertiesBrigadierIntegerMax (d : bool) : Read CommandNodeExtraNodeDataV2PropertiesBrigadierIntegerMax :=
  if d then (let* v := decode wire_i32 in ret (CommandNodeExtraNodeDataV2PropertiesBrigadierIntegerMax_True v))
  else ret CommandNodeExtraNodeDataV2PropertiesBrigadierIntegerMax_Default.
Definition case_CommandNodeExtraNodeDataV2PropertiesBrigadierIntegerMax (d : bool) (v : CommandNodeExtraNodeDataV2PropertiesBrigadierIntegerMax) : bool :=
  match v with
  | CommandNodeExtraNodeDataV2PropertiesBrigadierIntegerMax_True _ => on d true
  | CommandNodeExtraNodeDataV2PropertiesBrigadierIntegerMax_Default => on d false
  end.
Definition switch_CommandNodeExtraNodeDataV2PropertiesBrigadierIntegerMax : Switch bool CommandNodeExtraNodeDataV2PropertiesBrigadierIntegerMax := mkSwitch case_CommandNodeExtraNodeDataV2PropertiesBrigadierIntegerMax encode_CommandNodeExtraNodeDataV2PropertiesBrigadierIntegerMax decode_from_CommandNodeExtraNodeDataV2PropertiesBrigadierIntegerMax.
Definition dom_CommandNodeExtraNodeDataV2PropertiesBrigadierIntegerMax (d : bool) (v : CommandNodeExtraNodeDataV2PropertiesBrigadierIntegerMax) : Prop :=
  case_CommandNodeExtraNodeDataV2PropertiesBrigadierIntegerMax d v = true ∧
  match v with
  | CommandNodeExtraNodeDataV2PropertiesBrigadierIntegerMax_True v => in_i 32 v
  | _ => True
  end.
Definition bytes_CommandNodeExtraNodeDataV2PropertiesBrigadierIntegerMax (v : CommandNodeExtraNodeDataV2PropertiesBrigadierIntegerMax) : list byte :=
  match v with
  | CommandNodeExtraNodeDataV2PropertiesBrigadierIntegerMax_True v => be_bytes 4 v
  | _ => []
  end.
#[export] Instance lawful_CommandNodeExtraNodeDataV2PropertiesBrigadierIntegerMax : LawfulSwitch switch_CommandNodeExtraNodeDataV2PropertiesBrigadierIntegerMax dom_CommandNodeExtraNodeDataV2PropertiesBrigadierIntegerMax bytes_CommandNodeExtraNodeDataV2PropertiesBrigadierIntegerMax.
Proof. solve_switch. Qed.

Record CommandNodeExtraNodeDataV2PropertiesBrigadierInteger : Type := mkCommandNodeExtraNodeDataV2PropertiesBrigadierInteger {
  CommandNodeExtraNodeDataV2PropertiesBrigadierInteger_flags : CommandNodeExtraNodeDataV2PropertiesBrigadierIntegerFlags;
  CommandNodeExtraNodeDataV2PropertiesBrigadierInteger_min : CommandNodeExtraNodeDataV2PropertiesBrigadierIntegerMin;
  CommandNodeExtraNodeDataV2PropertiesBrigadierInteger_max : CommandNodeExtraNodeDataV2PropertiesBrigadierIntegerMax;
}.
Definition wire_CommandNodeExtraNodeDataV2PropertiesBrigadierInteger : Codec CommandNodeExtraNodeDataV2PropertiesBrigadierInteger := {|
  encode p :=
    encode wire_CommandNodeExtraNodeDataV2PropertiesBrigadierIntegerFlags (CommandNodeExtraNodeDataV2PropertiesBrigadierInteger_flags p) ;;;
    encode_at switch_CommandNodeExtraNodeDataV2PropertiesBrigadierIntegerMin (CommandNodeExtraNodeDataV2PropertiesBrigadierIntegerFlags_min_present (CommandNodeExtraNodeDataV2PropertiesBrigadierInteger_flags p)) (CommandNodeExtraNodeDataV2PropertiesBrigadierInteger_min p) ;;;
    encode_at switch_CommandNodeExtraNodeDataV2PropertiesBrigadierIntegerMax (CommandNodeExtraNodeDataV2PropertiesBrigadierIntegerFlags_max_present (CommandNodeExtraNodeDataV2PropertiesBrigadierInteger_flags p)) (CommandNodeExtraNodeDataV2PropertiesBrigadierInteger_max p) ;;;
    ret tt;
  decode :=
    let* flags := decode wire_CommandNodeExtraNodeDataV2PropertiesBrigadierIntegerFlags in
    let* min := sw_decode switch_CommandNodeExtraNodeDataV2PropertiesBrigadierIntegerMin (CommandNodeExtraNodeDataV2PropertiesBrigadierIntegerFlags_min_present flags) in
    let* max := sw_decode switch_CommandNodeExtraNodeDataV2PropertiesBrigadierIntegerMax (CommandNodeExtraNodeDataV2PropertiesBrigadierIntegerFlags_max_present flags) in
    ret (mkCommandNodeExtraNodeDataV2PropertiesBrigadierInteger flags min max);
|}.
Definition dom_CommandNodeExtraNodeDataV2PropertiesBrigadierInteger (p : CommandNodeExtraNodeDataV2PropertiesBrigadierInteger) : Prop :=
  dom_CommandNodeExtraNodeDataV2PropertiesBrigadierIntegerFlags (CommandNodeExtraNodeDataV2PropertiesBrigadierInteger_flags p)
  ∧ dom_CommandNodeExtraNodeDataV2PropertiesBrigadierIntegerMin (CommandNodeExtraNodeDataV2PropertiesBrigadierIntegerFlags_min_present (CommandNodeExtraNodeDataV2PropertiesBrigadierInteger_flags p)) (CommandNodeExtraNodeDataV2PropertiesBrigadierInteger_min p)
  ∧ dom_CommandNodeExtraNodeDataV2PropertiesBrigadierIntegerMax (CommandNodeExtraNodeDataV2PropertiesBrigadierIntegerFlags_max_present (CommandNodeExtraNodeDataV2PropertiesBrigadierInteger_flags p)) (CommandNodeExtraNodeDataV2PropertiesBrigadierInteger_max p).
Definition bytes_CommandNodeExtraNodeDataV2PropertiesBrigadierInteger (p : CommandNodeExtraNodeDataV2PropertiesBrigadierInteger) : list byte :=
  concat [bytes_CommandNodeExtraNodeDataV2PropertiesBrigadierIntegerFlags (CommandNodeExtraNodeDataV2PropertiesBrigadierInteger_flags p);
    bytes_CommandNodeExtraNodeDataV2PropertiesBrigadierIntegerMin (CommandNodeExtraNodeDataV2PropertiesBrigadierInteger_min p);
    bytes_CommandNodeExtraNodeDataV2PropertiesBrigadierIntegerMax (CommandNodeExtraNodeDataV2PropertiesBrigadierInteger_max p)].
#[export] Instance lawful_CommandNodeExtraNodeDataV2PropertiesBrigadierInteger : LawfulCodec wire_CommandNodeExtraNodeDataV2PropertiesBrigadierInteger dom_CommandNodeExtraNodeDataV2PropertiesBrigadierInteger bytes_CommandNodeExtraNodeDataV2PropertiesBrigadierInteger.
Proof. solve_struct. Qed.
#[export] Instance cost_CommandNodeExtraNodeDataV2PropertiesBrigadierInteger : CodecCost dom_CommandNodeExtraNodeDataV2PropertiesBrigadierInteger bytes_CommandNodeExtraNodeDataV2PropertiesBrigadierInteger.
Proof. solve_head. Qed.

Record CommandNodeExtraNodeDataV2PropertiesBrigadierLongFlags : Type := mkCommandNodeExtraNodeDataV2PropertiesBrigadierLongFlags {
  CommandNodeExtraNodeDataV2PropertiesBrigadierLongFlags_unused : Z;
  CommandNodeExtraNodeDataV2PropertiesBrigadierLongFlags_max_present : bool;
  CommandNodeExtraNodeDataV2PropertiesBrigadierLongFlags_min_present : bool;
}.
Definition raw_CommandNodeExtraNodeDataV2PropertiesBrigadierLongFlags (p : CommandNodeExtraNodeDataV2PropertiesBrigadierLongFlags) : Z :=
  Z.lor (Z.lor (Z.shiftl (Z.land (CommandNodeExtraNodeDataV2PropertiesBrigadierLongFlags_unused p) 0x3f) 2) (Z.shiftl (Z.b2z (CommandNodeExtraNodeDataV2PropertiesBrigadierLongFlags_max_present p)) 1)) (Z.b2z (CommandNodeExtraNodeDataV2PropertiesBrigadierLongFlags_min_present p)).
Definition of_raw_CommandNodeExtraNodeDataV2PropertiesBrigadierLongFlags (raw : Z) : CommandNodeExtraNodeDataV2PropertiesBrigadierLongFlags :=
  mkCommandNodeExtraNodeDataV2PropertiesBrigadierLongFlags (Z.land (Z.shiftr raw 2) 0x3f) (negb (Z.land (Z.shiftr raw 1) 1 =? 0)) (negb (Z.land raw 1 =? 0)).
Definition wire_CommandNodeExtraNodeDataV2PropertiesBrigadierLongFlags : Codec CommandNodeExtraNodeDataV2PropertiesBrigadierLongFlags := {|
  encode p := modify (put_u8 (raw_CommandNodeExtraNodeDataV2PropertiesBrigadierLongFlags p));
  decode := let* raw := get_u8 in ret (of_raw_CommandNodeExtraNodeDataV2PropertiesBrigadierLongFlags raw);
|}.
Definition dom_CommandNodeExtraNodeDataV2PropertiesBrigadierLongFlags (p : CommandNodeExtraNodeDataV2PropertiesBrigadierLongFlags) : Prop :=
  in_u 6 (CommandNodeExtraNodeDataV2PropertiesBrigadierLongFlags_unused p).
Definition bytes_CommandNodeExtraNodeDataV2PropertiesBrigadierLongFlags (p : CommandNodeExtraNodeDataV2PropertiesBrigadierLongFlags) : list byte := be_bytes 1 (raw_CommandNodeExtraNodeDataV2PropertiesBrigadierLongFlags p).
#[export] Instance CommandNodeExtraNodeDataV2PropertiesBrigadierLongFlags_eq_dec : EqDecision CommandNodeExtraNodeDataV2PropertiesBrigadierLongFlags.
Proof. solve_decision. Defined.
Lemma raw_CommandNodeExtraNodeDataV2PropertiesBrigadierLongFlags_inv p : dom_CommandNodeExtraNodeDataV2PropertiesBrigadierLongFlags p → in_u 8 (raw_CommandNodeExtraNodeDataV2PropertiesBrigadierLongFlags p) ∧ of_raw_CommandNodeExtraNodeDataV2PropertiesBrigadierLongFlags (raw_CommandNodeExtraNodeDataV2PropertiesBrigadierLongFlags p) = p.
Proof.
  destruct p; intros Hp; open_dom Hp; cbn [CommandNodeExtraNodeDataV2PropertiesBrigadierLongFlags_unused CommandNodeExtraNodeDataV2PropertiesBrigadierLongFlags_max_present CommandNodeExtraNodeDataV2PropertiesBrigadierLongFlags_min_present] in *. solve_bits.
Qed.
#[export] Instance lawful_CommandNodeExtraNodeDataV2PropertiesBrigadierLongFlags : LawfulCodec wire_CommandNodeExtraNodeDataV2PropertiesBrigadierLongFlags dom_CommandNodeExtraNodeDataV2PropertiesBrigadierLongFlags bytes_CommandNodeExtraNodeDataV2PropertiesBrigadierLongFlags.
Proof.
  split; intros p Hp.
  - by apply writes_modify.
  - destruct (raw_CommandNodeExtraNodeDataV2PropertiesBrigadierLongFlags_inv p Hp) as [Hr Heq]. rewrite <- Heq at 2. apply (reads_bind_ret get_u8), reads_get_u8, Hr.
Qed.
#[export] Instance cost_CommandNodeExtraNodeDataV2PropertiesBrigadierLongFlags : CodecCost dom_CommandNodeExtraNodeDataV2PropertiesBrigadierLongFlags bytes_CommandNodeExtraNodeDataV2PropertiesBrigadierLongFlags.
Proof. intros p _. unfold bytes_CommandNodeExtraNodeDataV2PropertiesBrigadierLongFlags. rewrite be_bytes_length. lia. Qed.

Inductive CommandNodeExtraNodeDataV2PropertiesBrigadierLongMin : Type :=
  | CommandNodeExtraNodeDataV2PropertiesBrigadierLongMin_True (v : Z)
  | CommandNodeExtraNodeDataV2PropertiesBrigadierLongMin_Default.
Definition encode_CommandNodeExtraNodeDataV2PropertiesBrigadierLongMin (v : CommandNodeExtraNodeDataV2PropertiesBrigadierLongMin) : Write :=
  match v with
  | CommandNodeExtraNodeDataV2PropertiesBrigadierLongMin_True v => encode wire_i64 v
  | CommandNodeExtraNodeDataV2PropertiesBrigadierLongMin_Default => ret tt
  end.
Definition decode_from_CommandNodeExtraNodeDataV2PropertiesBrigadierLongMin (d : bool) : Read CommandNodeExtraNodeDataV2PropertiesBrigadierLongMin :=
  if d then (let* v := decode wire_i64 in ret (CommandNodeExtraNodeDataV2PropertiesBrigadierLongMin_True v))
  else ret CommandNodeExtraNodeDataV2PropertiesBrigadierLongMin_Default.
Definition case_CommandNodeExtraNodeDataV2PropertiesBrigadierLongMin (d : bool) (v : CommandNodeExtraNodeDataV2PropertiesBrigadierLongMin) : bool :=
  match v with
  | CommandNodeExtraNodeDataV2PropertiesBrigadierLongMin_True _ => on d true
  | CommandNodeExtraNodeDataV2PropertiesBrigadierLongMin_Default => on d false
  end.
Definition switch_CommandNodeExtraNodeDataV2PropertiesBrigadierLongMin : Switch bool CommandNodeExtraNodeDataV2PropertiesBrigadierLongMin := mkSwitch case_CommandNodeExtraNodeDataV2PropertiesBrigadierLongMin encode_CommandNodeExtraNodeDataV2PropertiesBrigadierLongMin decode_from_CommandNodeExtraNodeDataV2PropertiesBrigadierLongMin.
Definition dom_CommandNodeExtraNodeDataV2PropertiesBrigadierLongMin (d : bool) (v : CommandNodeExtraNodeDataV2PropertiesBrigadierLongMin) : Prop :=
  case_CommandNodeExtraNodeDataV2PropertiesBrigadierLongMin d v = true ∧
  match v with
  | CommandNodeExtraNodeDataV2PropertiesBrigadierLongMin_True v => in_i 64 v
  | _ => True
  end.
Definition bytes_CommandNodeExtraNodeDataV2PropertiesBrigadierLongMin (v : CommandNodeExtraNodeDataV2PropertiesBrigadierLongMin) : list byte :=
  match v with
  | CommandNodeExtraNodeDataV2PropertiesBrigadierLongMin_True v => be_bytes 8 v
  | _ => []
  end.
#[export] Instance lawful_CommandNodeExtraNodeDataV2PropertiesBrigadierLongMin : LawfulSwitch switch_CommandNodeExtraNodeDataV2PropertiesBrigadierLongMin dom_CommandNodeExtraNodeDataV2PropertiesBrigadierLongMin bytes_CommandNodeExtraNodeDataV2PropertiesBrigadierLongMin.
Proof. solve_switch. Qed.

Inductive CommandNodeExtraNodeDataV2PropertiesBrigadierLongMax : Type :=
  | CommandNodeExtraNodeDataV2PropertiesBrigadierLongMax_True (v : Z)
  | CommandNodeExtraNodeDataV2PropertiesBrigadierLongMax_Default.
Definition encode_CommandNodeExtraNodeDataV2PropertiesBrigadierLongMax (v : CommandNodeExtraNodeDataV2PropertiesBrigadierLongMax) : Write :=
  match v with
  | CommandNodeExtraNodeDataV2PropertiesBrigadierLongMax_True v => encode wire_i64 v
  | CommandNodeExtraNodeDataV2PropertiesBrigadierLongMax_Default => ret tt
  end.
Definition decode_from_CommandNodeExtraNodeDataV2PropertiesBrigadierLongMax (d : bool) : Read CommandNodeExtraNodeDataV2PropertiesBrigadierLongMax :=
  if d then (let* v := decode wire_i64 in ret (CommandNodeExtraNodeDataV2PropertiesBrigadierLongMax_True v))
  else ret CommandNodeExtraNodeDataV2PropertiesBrigadierLongMax_Default.
Definition case_CommandNodeExtraNodeDataV2PropertiesBrigadierLongMax (d : bool) (v : CommandNodeExtraNodeDataV2PropertiesBrigadierLongMax) : bool :=
  match v with
  | CommandNodeExtraNodeDataV2PropertiesBrigadierLongMax_True _ => on d true
  | CommandNodeExtraNodeDataV2PropertiesBrigadierLongMax_Default => on d false
  end.
Definition switch_CommandNodeExtraNodeDataV2PropertiesBrigadierLongMax : Switch bool CommandNodeExtraNodeDataV2PropertiesBrigadierLongMax := mkSwitch case_CommandNodeExtraNodeDataV2PropertiesBrigadierLongMax encode_CommandNodeExtraNodeDataV2PropertiesBrigadierLongMax decode_from_CommandNodeExtraNodeDataV2PropertiesBrigadierLongMax.
Definition dom_CommandNodeExtraNodeDataV2PropertiesBrigadierLongMax (d : bool) (v : CommandNodeExtraNodeDataV2PropertiesBrigadierLongMax) : Prop :=
  case_CommandNodeExtraNodeDataV2PropertiesBrigadierLongMax d v = true ∧
  match v with
  | CommandNodeExtraNodeDataV2PropertiesBrigadierLongMax_True v => in_i 64 v
  | _ => True
  end.
Definition bytes_CommandNodeExtraNodeDataV2PropertiesBrigadierLongMax (v : CommandNodeExtraNodeDataV2PropertiesBrigadierLongMax) : list byte :=
  match v with
  | CommandNodeExtraNodeDataV2PropertiesBrigadierLongMax_True v => be_bytes 8 v
  | _ => []
  end.
#[export] Instance lawful_CommandNodeExtraNodeDataV2PropertiesBrigadierLongMax : LawfulSwitch switch_CommandNodeExtraNodeDataV2PropertiesBrigadierLongMax dom_CommandNodeExtraNodeDataV2PropertiesBrigadierLongMax bytes_CommandNodeExtraNodeDataV2PropertiesBrigadierLongMax.
Proof. solve_switch. Qed.

Record CommandNodeExtraNodeDataV2PropertiesBrigadierLong : Type := mkCommandNodeExtraNodeDataV2PropertiesBrigadierLong {
  CommandNodeExtraNodeDataV2PropertiesBrigadierLong_flags : CommandNodeExtraNodeDataV2PropertiesBrigadierLongFlags;
  CommandNodeExtraNodeDataV2PropertiesBrigadierLong_min : CommandNodeExtraNodeDataV2PropertiesBrigadierLongMin;
  CommandNodeExtraNodeDataV2PropertiesBrigadierLong_max : CommandNodeExtraNodeDataV2PropertiesBrigadierLongMax;
}.
Definition wire_CommandNodeExtraNodeDataV2PropertiesBrigadierLong : Codec CommandNodeExtraNodeDataV2PropertiesBrigadierLong := {|
  encode p :=
    encode wire_CommandNodeExtraNodeDataV2PropertiesBrigadierLongFlags (CommandNodeExtraNodeDataV2PropertiesBrigadierLong_flags p) ;;;
    encode_at switch_CommandNodeExtraNodeDataV2PropertiesBrigadierLongMin (CommandNodeExtraNodeDataV2PropertiesBrigadierLongFlags_min_present (CommandNodeExtraNodeDataV2PropertiesBrigadierLong_flags p)) (CommandNodeExtraNodeDataV2PropertiesBrigadierLong_min p) ;;;
    encode_at switch_CommandNodeExtraNodeDataV2PropertiesBrigadierLongMax (CommandNodeExtraNodeDataV2PropertiesBrigadierLongFlags_max_present (CommandNodeExtraNodeDataV2PropertiesBrigadierLong_flags p)) (CommandNodeExtraNodeDataV2PropertiesBrigadierLong_max p) ;;;
    ret tt;
  decode :=
    let* flags := decode wire_CommandNodeExtraNodeDataV2PropertiesBrigadierLongFlags in
    let* min := sw_decode switch_CommandNodeExtraNodeDataV2PropertiesBrigadierLongMin (CommandNodeExtraNodeDataV2PropertiesBrigadierLongFlags_min_present flags) in
    let* max := sw_decode switch_CommandNodeExtraNodeDataV2PropertiesBrigadierLongMax (CommandNodeExtraNodeDataV2PropertiesBrigadierLongFlags_max_present flags) in
    ret (mkCommandNodeExtraNodeDataV2PropertiesBrigadierLong flags min max);
|}.
Definition dom_CommandNodeExtraNodeDataV2PropertiesBrigadierLong (p : CommandNodeExtraNodeDataV2PropertiesBrigadierLong) : Prop :=
  dom_CommandNodeExtraNodeDataV2PropertiesBrigadierLongFlags (CommandNodeExtraNodeDataV2PropertiesBrigadierLong_flags p)
  ∧ dom_CommandNodeExtraNodeDataV2PropertiesBrigadierLongMin (CommandNodeExtraNodeDataV2PropertiesBrigadierLongFlags_min_present (CommandNodeExtraNodeDataV2PropertiesBrigadierLong_flags p)) (CommandNodeExtraNodeDataV2PropertiesBrigadierLong_min p)
  ∧ dom_CommandNodeExtraNodeDataV2PropertiesBrigadierLongMax (CommandNodeExtraNodeDataV2PropertiesBrigadierLongFlags_max_present (CommandNodeExtraNodeDataV2PropertiesBrigadierLong_flags p)) (CommandNodeExtraNodeDataV2PropertiesBrigadierLong_max p).
Definition bytes_CommandNodeExtraNodeDataV2PropertiesBrigadierLong (p : CommandNodeExtraNodeDataV2PropertiesBrigadierLong) : list byte :=
  concat [bytes_CommandNodeExtraNodeDataV2PropertiesBrigadierLongFlags (CommandNodeExtraNodeDataV2PropertiesBrigadierLong_flags p);
    bytes_CommandNodeExtraNodeDataV2PropertiesBrigadierLongMin (CommandNodeExtraNodeDataV2PropertiesBrigadierLong_min p);
    bytes_CommandNodeExtraNodeDataV2PropertiesBrigadierLongMax (CommandNodeExtraNodeDataV2PropertiesBrigadierLong_max p)].
#[export] Instance lawful_CommandNodeExtraNodeDataV2PropertiesBrigadierLong : LawfulCodec wire_CommandNodeExtraNodeDataV2PropertiesBrigadierLong dom_CommandNodeExtraNodeDataV2PropertiesBrigadierLong bytes_CommandNodeExtraNodeDataV2PropertiesBrigadierLong.
Proof. solve_struct. Qed.
#[export] Instance cost_CommandNodeExtraNodeDataV2PropertiesBrigadierLong : CodecCost dom_CommandNodeExtraNodeDataV2PropertiesBrigadierLong bytes_CommandNodeExtraNodeDataV2PropertiesBrigadierLong.
Proof. solve_head. Qed.

Inductive CommandNodeExtraNodeDataV2PropertiesBrigadierString : Type :=
  | CommandNodeExtraNodeDataV2PropertiesBrigadierString_SingleWord
  | CommandNodeExtraNodeDataV2PropertiesBrigadierString_QuotablePhrase
  | CommandNodeExtraNodeDataV2PropertiesBrigadierString_GreedyPhrase.
Definition value_CommandNodeExtraNodeDataV2PropertiesBrigadierString (v : CommandNodeExtraNodeDataV2PropertiesBrigadierString) : Z :=
  match v with
  | CommandNodeExtraNodeDataV2PropertiesBrigadierString_SingleWord => 0
  | CommandNodeExtraNodeDataV2PropertiesBrigadierString_QuotablePhrase => 1
  | CommandNodeExtraNodeDataV2PropertiesBrigadierString_GreedyPhrase => 2
  end.
Definition of_CommandNodeExtraNodeDataV2PropertiesBrigadierString (value : Z) : option CommandNodeExtraNodeDataV2PropertiesBrigadierString :=
  match value with
  | 0 => Some CommandNodeExtraNodeDataV2PropertiesBrigadierString_SingleWord
  | 1 => Some CommandNodeExtraNodeDataV2PropertiesBrigadierString_QuotablePhrase
  | 2 => Some CommandNodeExtraNodeDataV2PropertiesBrigadierString_GreedyPhrase
  | _ => None
  end.
#[export] Instance CommandNodeExtraNodeDataV2PropertiesBrigadierString_eq_dec : EqDecision CommandNodeExtraNodeDataV2PropertiesBrigadierString.
Proof. apply (value_eq_dec value_CommandNodeExtraNodeDataV2PropertiesBrigadierString), (value_inj _ of_CommandNodeExtraNodeDataV2PropertiesBrigadierString). by intros []. Defined.
Definition wire_CommandNodeExtraNodeDataV2PropertiesBrigadierString : Codec CommandNodeExtraNodeDataV2PropertiesBrigadierString := {|
  encode v := modify (write_varint (value_CommandNodeExtraNodeDataV2PropertiesBrigadierString v));
  decode :=
    let* value := read_varint in
    match of_CommandNodeExtraNodeDataV2PropertiesBrigadierString value with
    | Some v => ret v
    | None => raise (UnknownEnumValue "CommandNodeExtraNodeDataV2PropertiesBrigadierString" value)
    end;
|}.
Definition dom_CommandNodeExtraNodeDataV2PropertiesBrigadierString (_ : CommandNodeExtraNodeDataV2PropertiesBrigadierString) : Prop := True.
Definition bytes_CommandNodeExtraNodeDataV2PropertiesBrigadierString (v : CommandNodeExtraNodeDataV2PropertiesBrigadierString) : list byte := varint_bytes (value_CommandNodeExtraNodeDataV2PropertiesBrigadierString v).
#[export] Instance lawful_CommandNodeExtraNodeDataV2PropertiesBrigadierString : LawfulCodec wire_CommandNodeExtraNodeDataV2PropertiesBrigadierString dom_CommandNodeExtraNodeDataV2PropertiesBrigadierString bytes_CommandNodeExtraNodeDataV2PropertiesBrigadierString.
Proof. solve_enum. Qed.
#[export] Instance cost_CommandNodeExtraNodeDataV2PropertiesBrigadierString : CodecCost dom_CommandNodeExtraNodeDataV2PropertiesBrigadierString bytes_CommandNodeExtraNodeDataV2PropertiesBrigadierString.
Proof. solve_cost. Qed.

Record CommandNodeExtraNodeDataV2PropertiesMinecraftEntity : Type := mkCommandNodeExtraNodeDataV2PropertiesMinecraftEntity {
  CommandNodeExtraNodeDataV2PropertiesMinecraftEntity_unused : Z;
  CommandNodeExtraNodeDataV2PropertiesMinecraftEntity_only_allow_players : bool;
  CommandNodeExtraNodeDataV2PropertiesMinecraftEntity_only_allow_entities : bool;
}.
Definition raw_CommandNodeExtraNodeDataV2PropertiesMinecraftEntity (p : CommandNodeExtraNodeDataV2PropertiesMinecraftEntity) : Z :=
  Z.lor (Z.lor (Z.shiftl (Z.land (CommandNodeExtraNodeDataV2PropertiesMinecraftEntity_unused p) 0x3f) 2) (Z.shiftl (Z.b2z (CommandNodeExtraNodeDataV2PropertiesMinecraftEntity_only_allow_players p)) 1)) (Z.b2z (CommandNodeExtraNodeDataV2PropertiesMinecraftEntity_only_allow_entities p)).
Definition of_raw_CommandNodeExtraNodeDataV2PropertiesMinecraftEntity (raw : Z) : CommandNodeExtraNodeDataV2PropertiesMinecraftEntity :=
  mkCommandNodeExtraNodeDataV2PropertiesMinecraftEntity (Z.land (Z.shiftr raw 2) 0x3f) (negb (Z.land (Z.shiftr raw 1) 1 =? 0)) (negb (Z.land raw 1 =? 0)).
Definition wire_CommandNodeExtraNodeDataV2PropertiesMinecraftEntity : Codec CommandNodeExtraNodeDataV2PropertiesMinecraftEntity := {|
  encode p := modify (put_u8 (raw_CommandNodeExtraNodeDataV2PropertiesMinecraftEntity p));
  decode := let* raw := get_u8 in ret (of_raw_CommandNodeExtraNodeDataV2PropertiesMinecraftEntity raw);
|}.
Definition dom_CommandNodeExtraNodeDataV2PropertiesMinecraftEntity (p : CommandNodeExtraNodeDataV2PropertiesMinecraftEntity) : Prop :=
  in_u 6 (CommandNodeExtraNodeDataV2PropertiesMinecraftEntity_unused p).
Definition bytes_CommandNodeExtraNodeDataV2PropertiesMinecraftEntity (p : CommandNodeExtraNodeDataV2PropertiesMinecraftEntity) : list byte := be_bytes 1 (raw_CommandNodeExtraNodeDataV2PropertiesMinecraftEntity p).
#[export] Instance CommandNodeExtraNodeDataV2PropertiesMinecraftEntity_eq_dec : EqDecision CommandNodeExtraNodeDataV2PropertiesMinecraftEntity.
Proof. solve_decision. Defined.
Lemma raw_CommandNodeExtraNodeDataV2PropertiesMinecraftEntity_inv p : dom_CommandNodeExtraNodeDataV2PropertiesMinecraftEntity p → in_u 8 (raw_CommandNodeExtraNodeDataV2PropertiesMinecraftEntity p) ∧ of_raw_CommandNodeExtraNodeDataV2PropertiesMinecraftEntity (raw_CommandNodeExtraNodeDataV2PropertiesMinecraftEntity p) = p.
Proof.
  destruct p; intros Hp; open_dom Hp; cbn [CommandNodeExtraNodeDataV2PropertiesMinecraftEntity_unused CommandNodeExtraNodeDataV2PropertiesMinecraftEntity_only_allow_players CommandNodeExtraNodeDataV2PropertiesMinecraftEntity_only_allow_entities] in *. solve_bits.
Qed.
#[export] Instance lawful_CommandNodeExtraNodeDataV2PropertiesMinecraftEntity : LawfulCodec wire_CommandNodeExtraNodeDataV2PropertiesMinecraftEntity dom_CommandNodeExtraNodeDataV2PropertiesMinecraftEntity bytes_CommandNodeExtraNodeDataV2PropertiesMinecraftEntity.
Proof.
  split; intros p Hp.
  - by apply writes_modify.
  - destruct (raw_CommandNodeExtraNodeDataV2PropertiesMinecraftEntity_inv p Hp) as [Hr Heq]. rewrite <- Heq at 2. apply (reads_bind_ret get_u8), reads_get_u8, Hr.
Qed.
#[export] Instance cost_CommandNodeExtraNodeDataV2PropertiesMinecraftEntity : CodecCost dom_CommandNodeExtraNodeDataV2PropertiesMinecraftEntity bytes_CommandNodeExtraNodeDataV2PropertiesMinecraftEntity.
Proof. intros p _. unfold bytes_CommandNodeExtraNodeDataV2PropertiesMinecraftEntity. rewrite be_bytes_length. lia. Qed.

Record CommandNodeExtraNodeDataV2PropertiesMinecraftResource : Type := mkCommandNodeExtraNodeDataV2PropertiesMinecraftResource {
  CommandNodeExtraNodeDataV2PropertiesMinecraftResource_registry : string;
}.
Definition wire_CommandNodeExtraNodeDataV2PropertiesMinecraftResource : Codec CommandNodeExtraNodeDataV2PropertiesMinecraftResource := {|
  encode p :=
    encode wire_String (CommandNodeExtraNodeDataV2PropertiesMinecraftResource_registry p) ;;;
    ret tt;
  decode :=
    let* registry := decode wire_String in
    ret (mkCommandNodeExtraNodeDataV2PropertiesMinecraftResource registry);
|}.
Definition dom_CommandNodeExtraNodeDataV2PropertiesMinecraftResource (p : CommandNodeExtraNodeDataV2PropertiesMinecraftResource) : Prop :=
  wire_string (CommandNodeExtraNodeDataV2PropertiesMinecraftResource_registry p).
Definition bytes_CommandNodeExtraNodeDataV2PropertiesMinecraftResource (p : CommandNodeExtraNodeDataV2PropertiesMinecraftResource) : list byte :=
  concat [string_bytes (CommandNodeExtraNodeDataV2PropertiesMinecraftResource_registry p)].
#[export] Instance lawful_CommandNodeExtraNodeDataV2PropertiesMinecraftResource : LawfulCodec wire_CommandNodeExtraNodeDataV2PropertiesMinecraftResource dom_CommandNodeExtraNodeDataV2PropertiesMinecraftResource bytes_CommandNodeExtraNodeDataV2PropertiesMinecraftResource.
Proof. solve_struct. Qed.
#[export] Instance cost_CommandNodeExtraNodeDataV2PropertiesMinecraftResource : CodecCost dom_CommandNodeExtraNodeDataV2PropertiesMinecraftResource bytes_CommandNodeExtraNodeDataV2PropertiesMinecraftResource.
Proof. solve_head. Qed.

Record CommandNodeExtraNodeDataV2PropertiesMinecraftResourceKey : Type := mkCommandNodeExtraNodeDataV2PropertiesMinecraftResourceKey {
  CommandNodeExtraNodeDataV2PropertiesMinecraftResourceKey_registry : string;
}.
Definition wire_CommandNodeExtraNodeDataV2PropertiesMinecraftResourceKey : Codec CommandNodeExtraNodeDataV2PropertiesMinecraftResourceKey := {|
  encode p :=
    encode wire_String (CommandNodeExtraNodeDataV2PropertiesMinecraftResourceKey_registry p) ;;;
    ret tt;
  decode :=
    let* registry := decode wire_String in
    ret (mkCommandNodeExtraNodeDataV2PropertiesMinecraftResourceKey registry);
|}.
Definition dom_CommandNodeExtraNodeDataV2PropertiesMinecraftResourceKey (p : CommandNodeExtraNodeDataV2PropertiesMinecraftResourceKey) : Prop :=
  wire_string (CommandNodeExtraNodeDataV2PropertiesMinecraftResourceKey_registry p).
Definition bytes_CommandNodeExtraNodeDataV2PropertiesMinecraftResourceKey (p : CommandNodeExtraNodeDataV2PropertiesMinecraftResourceKey) : list byte :=
  concat [string_bytes (CommandNodeExtraNodeDataV2PropertiesMinecraftResourceKey_registry p)].
#[export] Instance lawful_CommandNodeExtraNodeDataV2PropertiesMinecraftResourceKey : LawfulCodec wire_CommandNodeExtraNodeDataV2PropertiesMinecraftResourceKey dom_CommandNodeExtraNodeDataV2PropertiesMinecraftResourceKey bytes_CommandNodeExtraNodeDataV2PropertiesMinecraftResourceKey.
Proof. solve_struct. Qed.
#[export] Instance cost_CommandNodeExtraNodeDataV2PropertiesMinecraftResourceKey : CodecCost dom_CommandNodeExtraNodeDataV2PropertiesMinecraftResourceKey bytes_CommandNodeExtraNodeDataV2PropertiesMinecraftResourceKey.
Proof. solve_head. Qed.

Record CommandNodeExtraNodeDataV2PropertiesMinecraftResourceOrTag : Type := mkCommandNodeExtraNodeDataV2PropertiesMinecraftResourceOrTag {
  CommandNodeExtraNodeDataV2PropertiesMinecraftResourceOrTag_registry : string;
}.
Definition wire_CommandNodeExtraNodeDataV2PropertiesMinecraftResourceOrTag : Codec CommandNodeExtraNodeDataV2PropertiesMinecraftResourceOrTag := {|
  encode p :=
    encode wire_String (CommandNodeExtraNodeDataV2PropertiesMinecraftResourceOrTag_registry p) ;;;
    ret tt;
  decode :=
    let* registry := decode wire_String in
    ret (mkCommandNodeExtraNodeDataV2PropertiesMinecraftResourceOrTag registry);
|}.
Definition dom_CommandNodeExtraNodeDataV2PropertiesMinecraftResourceOrTag (p : CommandNodeExtraNodeDataV2PropertiesMinecraftResourceOrTag) : Prop :=
  wire_string (CommandNodeExtraNodeDataV2PropertiesMinecraftResourceOrTag_registry p).
Definition bytes_CommandNodeExtraNodeDataV2PropertiesMinecraftResourceOrTag (p : CommandNodeExtraNodeDataV2PropertiesMinecraftResourceOrTag) : list byte :=
  concat [string_bytes (CommandNodeExtraNodeDataV2PropertiesMinecraftResourceOrTag_registry p)].
#[export] Instance lawful_CommandNodeExtraNodeDataV2PropertiesMinecraftResourceOrTag : LawfulCodec wire_CommandNodeExtraNodeDataV2PropertiesMinecraftResourceOrTag dom_CommandNodeExtraNodeDataV2PropertiesMinecraftResourceOrTag bytes_CommandNodeExtraNodeDataV2PropertiesMinecraftResourceOrTag.
Proof. solve_struct. Qed.
#[export] Instance cost_CommandNodeExtraNodeDataV2PropertiesMinecraftResourceOrTag : CodecCost dom_CommandNodeExtraNodeDataV2PropertiesMinecraftResourceOrTag bytes_CommandNodeExtraNodeDataV2PropertiesMinecraftResourceOrTag.
Proof. solve_head. Qed.

Record CommandNodeExtraNodeDataV2PropertiesMinecraftResourceOrTagKey : Type := mkCommandNodeExtraNodeDataV2PropertiesMinecraftResourceOrTagKey {
  CommandNodeExtraNodeDataV2PropertiesMinecraftResourceOrTagKey_registry : string;
}.
Definition wire_CommandNodeExtraNodeDataV2PropertiesMinecraftResourceOrTagKey : Codec CommandNodeExtraNodeDataV2PropertiesMinecraftResourceOrTagKey := {|
  encode p :=
    encode wire_String (CommandNodeExtraNodeDataV2PropertiesMinecraftResourceOrTagKey_registry p) ;;;
    ret tt;
  decode :=
    let* registry := decode wire_String in
    ret (mkCommandNodeExtraNodeDataV2PropertiesMinecraftResourceOrTagKey registry);
|}.
Definition dom_CommandNodeExtraNodeDataV2PropertiesMinecraftResourceOrTagKey (p : CommandNodeExtraNodeDataV2PropertiesMinecraftResourceOrTagKey) : Prop :=
  wire_string (CommandNodeExtraNodeDataV2PropertiesMinecraftResourceOrTagKey_registry p).
Definition bytes_CommandNodeExtraNodeDataV2PropertiesMinecraftResourceOrTagKey (p : CommandNodeExtraNodeDataV2PropertiesMinecraftResourceOrTagKey) : list byte :=
  concat [string_bytes (CommandNodeExtraNodeDataV2PropertiesMinecraftResourceOrTagKey_registry p)].
#[export] Instance lawful_CommandNodeExtraNodeDataV2PropertiesMinecraftResourceOrTagKey : LawfulCodec wire_CommandNodeExtraNodeDataV2PropertiesMinecraftResourceOrTagKey dom_CommandNodeExtraNodeDataV2PropertiesMinecraftResourceOrTagKey bytes_CommandNodeExtraNodeDataV2PropertiesMinecraftResourceOrTagKey.
Proof. solve_struct. Qed.
#[export] Instance cost_CommandNodeExtraNodeDataV2PropertiesMinecraftResourceOrTagKey : CodecCost dom_CommandNodeExtraNodeDataV2PropertiesMinecraftResourceOrTagKey bytes_CommandNodeExtraNodeDataV2PropertiesMinecraftResourceOrTagKey.
Proof. solve_head. Qed.

Record CommandNodeExtraNodeDataV2PropertiesMinecraftScoreHolder : Type := mkCommandNodeExtraNodeDataV2PropertiesMinecraftScoreHolder {
  CommandNodeExtraNodeDataV2PropertiesMinecraftScoreHolder_unused : Z;
  CommandNodeExtraNodeDataV2PropertiesMinecraftScoreHolder_allow_multiple : bool;
}.
Definition raw_CommandNodeExtraNodeDataV2PropertiesMinecraftScoreHolder (p : CommandNodeExtraNodeDataV2PropertiesMinecraftScoreHolder) : Z :=
  Z.lor (Z.shiftl (Z.land (CommandNodeExtraNodeDataV2PropertiesMinecraftScoreHolder_unused p) 0x7f) 1) (Z.b2z (CommandNodeExtraNodeDataV2PropertiesMinecraftScoreHolder_allow_multiple p)).
Definition of_raw_CommandNodeExtraNodeDataV2PropertiesMinecraftScoreHolder (raw : Z) : CommandNodeExtraNodeDataV2PropertiesMinecraftScoreHolder :=
  mkCommandNodeExtraNodeDataV2PropertiesMinecraftScoreHolder (Z.land (Z.shiftr raw 1) 0x7f) (negb (Z.land raw 1 =? 0)).
Definition wire_CommandNodeExtraNodeDataV2PropertiesMinecraftScoreHolder : Codec CommandNodeExtraNodeDataV2PropertiesMinecraftScoreHolder := {|
  encode p := modify (put_u8 (raw_CommandNodeExtraNodeDataV2PropertiesMinecraftScoreHolder p));
  decode := let* raw := get_u8 in ret (of_raw_CommandNodeExtraNodeDataV2PropertiesMinecraftScoreHolder raw);
|}.
Definition dom_CommandNodeExtraNodeDataV2PropertiesMinecraftScoreHolder (p : CommandNodeExtraNodeDataV2PropertiesMinecraftScoreHolder) : Prop :=
  in_u 7 (CommandNodeExtraNodeDataV2PropertiesMinecraftScoreHolder_unused p).
Definition bytes_CommandNodeExtraNodeDataV2PropertiesMinecraftScoreHolder (p : CommandNodeExtraNodeDataV2PropertiesMinecraftScoreHolder) : list byte := be_bytes 1 (raw_CommandNodeExtraNodeDataV2PropertiesMinecraftScoreHolder p).
#[export] Instance CommandNodeExtraNodeDataV2PropertiesMinecraftScoreHolder_eq_dec : EqDecision CommandNodeExtraNodeDataV2PropertiesMinecraftScoreHolder.
Proof. solve_decision. Defined.
Lemma raw_CommandNodeExtraNodeDataV2PropertiesMinecraftScoreHolder_inv p : dom_CommandNodeExtraNodeDataV2PropertiesMinecraftScoreHolder p → in_u 8 (raw_CommandNodeExtraNodeDataV2PropertiesMinecraftScoreHolder p) ∧ of_raw_CommandNodeExtraNodeDataV2PropertiesMinecraftScoreHolder (raw_CommandNodeExtraNodeDataV2PropertiesMinecraftScoreHolder p) = p.
Proof.
  destruct p; intros Hp; open_dom Hp; cbn [CommandNodeExtraNodeDataV2PropertiesMinecraftScoreHolder_unused CommandNodeExtraNodeDataV2PropertiesMinecraftScoreHolder_allow_multiple] in *. solve_bits.
Qed.
#[export] Instance lawful_CommandNodeExtraNodeDataV2PropertiesMinecraftScoreHolder : LawfulCodec wire_CommandNodeExtraNodeDataV2PropertiesMinecraftScoreHolder dom_CommandNodeExtraNodeDataV2PropertiesMinecraftScoreHolder bytes_CommandNodeExtraNodeDataV2PropertiesMinecraftScoreHolder.
Proof.
  split; intros p Hp.
  - by apply writes_modify.
  - destruct (raw_CommandNodeExtraNodeDataV2PropertiesMinecraftScoreHolder_inv p Hp) as [Hr Heq]. rewrite <- Heq at 2. apply (reads_bind_ret get_u8), reads_get_u8, Hr.
Qed.
#[export] Instance cost_CommandNodeExtraNodeDataV2PropertiesMinecraftScoreHolder : CodecCost dom_CommandNodeExtraNodeDataV2PropertiesMinecraftScoreHolder bytes_CommandNodeExtraNodeDataV2PropertiesMinecraftScoreHolder.
Proof. intros p _. unfold bytes_CommandNodeExtraNodeDataV2PropertiesMinecraftScoreHolder. rewrite be_bytes_length. lia. Qed.

Record CommandNodeExtraNodeDataV2PropertiesMinecraftTime : Type := mkCommandNodeExtraNodeDataV2PropertiesMinecraftTime {
  CommandNodeExtraNodeDataV2PropertiesMinecraftTime_min : Z;
}.
Definition wire_CommandNodeExtraNodeDataV2PropertiesMinecraftTime : Codec CommandNodeExtraNodeDataV2PropertiesMinecraftTime := {|
  encode p :=
    modify (put_i32 (CommandNodeExtraNodeDataV2PropertiesMinecraftTime_min p)) ;;;
    ret tt;
  decode :=
    let* min := get_i32 in
    ret (mkCommandNodeExtraNodeDataV2PropertiesMinecraftTime min);
|}.
Definition dom_CommandNodeExtraNodeDataV2PropertiesMinecraftTime (p : CommandNodeExtraNodeDataV2PropertiesMinecraftTime) : Prop :=
  in_i 32 (CommandNodeExtraNodeDataV2PropertiesMinecraftTime_min p).
Definition bytes_CommandNodeExtraNodeDataV2PropertiesMinecraftTime (p : CommandNodeExtraNodeDataV2PropertiesMinecraftTime) : list byte :=
  concat [be_bytes 4 (CommandNodeExtraNodeDataV2PropertiesMinecraftTime_min p)].
#[export] Instance lawful_CommandNodeExtraNodeDataV2PropertiesMinecraftTime : LawfulCodec wire_CommandNodeExtraNodeDataV2PropertiesMinecraftTime dom_CommandNodeExtraNodeDataV2PropertiesMinecraftTime bytes_CommandNodeExtraNodeDataV2PropertiesMinecraftTime.
Proof. solve_struct. Qed.
#[export] Instance cost_CommandNodeExtraNodeDataV2PropertiesMinecraftTime : CodecCost dom_CommandNodeExtraNodeDataV2PropertiesMinecraftTime bytes_CommandNodeExtraNodeDataV2PropertiesMinecraftTime.
Proof. solve_head. Qed.

Inductive CommandNodeExtraNodeDataV2Properties : Type :=
  | CommandNodeExtraNodeDataV2Properties_BrigadierBool
  | CommandNodeExtraNodeDataV2Properties_BrigadierDouble (v : CommandNodeExtraNodeDataV2PropertiesBrigadierDouble)
  | CommandNodeExtraNodeDataV2Properties_BrigadierFloat (v : CommandNodeExtraNodeDataV2PropertiesBrigadierFloat)
  | CommandNodeExtraNodeDataV2Properties_BrigadierInteger (v : CommandNodeExtraNodeDataV2PropertiesBrigadierInteger)
  | CommandNodeExtraNodeDataV2Properties_BrigadierLong (v : CommandNodeExtraNodeDataV2PropertiesBrigadierLong)
  | CommandNodeExtraNodeDataV2Properties_BrigadierString (v : CommandNodeExtraNodeDataV2PropertiesBrigadierString)
  | CommandNodeExtraNodeDataV2Properties_MinecraftAngle
  | CommandNodeExtraNodeDataV2Properties_MinecraftBlockPos
  | CommandNodeExtraNodeDataV2Properties_MinecraftBlockPredicate
  | CommandNodeExtraNodeDataV2Properties_MinecraftBlockState
  | CommandNodeExtraNodeDataV2Properties_MinecraftColor
  | CommandNodeExtraNodeDataV2Properties_MinecraftColumnPos
  | CommandNodeExtraNodeDataV2Properties_MinecraftComponent
  | CommandNodeExtraNodeDataV2Properties_MinecraftDimension
  | CommandNodeExtraNodeDataV2Properties_MinecraftEntity (v : CommandNodeExtraNodeDataV2PropertiesMinecraftEntity)
  | CommandNodeExtraNodeDataV2Properties_MinecraftEntityAnchor
  | CommandNodeExtraNodeDataV2Properties_MinecraftFloatRange
  | CommandNodeExtraNodeDataV2Properties_MinecraftFunction
  | CommandNodeExtraNodeDataV2Properties_MinecraftGameProfile
  | CommandNodeExtraNodeDataV2Properties_MinecraftGamemode
  | CommandNodeExtraNodeDataV2Properties_MinecraftHeightmap
  | CommandNodeExtraNodeDataV2Properties_MinecraftIntRange
  | CommandNodeExtraNodeDataV2Properties_MinecraftItemPredicate
  | CommandNodeExtraNodeDataV2Properties_MinecraftItemSlot
  | CommandNodeExtraNodeDataV2Properties_MinecraftItemStack
  | CommandNodeExtraNodeDataV2Properties_MinecraftMessage
  | CommandNodeExtraNodeDataV2Properties_MinecraftNbt
  | CommandNodeExtraNodeDataV2Properties_MinecraftNbtPath
  | CommandNodeExtraNodeDataV2Properties_MinecraftObjective
  | CommandNodeExtraNodeDataV2Properties_MinecraftObjectiveCriteria
  | CommandNodeExtraNodeDataV2Properties_MinecraftOperation
  | CommandNodeExtraNodeDataV2Properties_MinecraftParticle
  | CommandNodeExtraNodeDataV2Properties_MinecraftResource (v : CommandNodeExtraNodeDataV2PropertiesMinecraftResource)
  | CommandNodeExtraNodeDataV2Properties_MinecraftResourceKey (v : CommandNodeExtraNodeDataV2PropertiesMinecraftResourceKey)
  | CommandNodeExtraNodeDataV2Properties_MinecraftResourceLocation
  | CommandNodeExtraNodeDataV2Properties_MinecraftResourceOrTag (v : CommandNodeExtraNodeDataV2PropertiesMinecraftResourceOrTag)
  | CommandNodeExtraNodeDataV2Properties_MinecraftResourceOrTagKey (v : CommandNodeExtraNodeDataV2PropertiesMinecraftResourceOrTagKey)
  | CommandNodeExtraNodeDataV2Properties_MinecraftRotation
  | CommandNodeExtraNodeDataV2Properties_MinecraftScoreHolder (v : CommandNodeExtraNodeDataV2PropertiesMinecraftScoreHolder)
  | CommandNodeExtraNodeDataV2Properties_MinecraftScoreboardSlot
  | CommandNodeExtraNodeDataV2Properties_MinecraftSwizzle
  | CommandNodeExtraNodeDataV2Properties_MinecraftTeam
  | CommandNodeExtraNodeDataV2Properties_MinecraftTemplateMirror
  | CommandNodeExtraNodeDataV2Properties_MinecraftTemplateRotation
  | CommandNodeExtraNodeDataV2Properties_MinecraftTime (v : CommandNodeExtraNodeDataV2PropertiesMinecraftTime)
  | CommandNodeExtraNodeDataV2Properties_MinecraftUuid
  | CommandNodeExtraNodeDataV2Properties_MinecraftVec2
  | CommandNodeExtraNodeDataV2Properties_MinecraftVec3
  | CommandNodeExtraNodeDataV2Properties_None.
Definition encode_CommandNodeExtraNodeDataV2Properties (v : CommandNodeExtraNodeDataV2Properties) : Write :=
  match v with
  | CommandNodeExtraNodeDataV2Properties_BrigadierBool => ret tt
  | CommandNodeExtraNodeDataV2Properties_BrigadierDouble v => encode wire_CommandNodeExtraNodeDataV2PropertiesBrigadierDouble v
  | CommandNodeExtraNodeDataV2Properties_BrigadierFloat v => encode wire_CommandNodeExtraNodeDataV2PropertiesBrigadierFloat v
  | CommandNodeExtraNodeDataV2Properties_BrigadierInteger v => encode wire_CommandNodeExtraNodeDataV2PropertiesBrigadierInteger v
  | CommandNodeExtraNodeDataV2Properties_BrigadierLong v => encode wire_CommandNodeExtraNodeDataV2PropertiesBrigadierLong v
  | CommandNodeExtraNodeDataV2Properties_BrigadierString v => encode wire_CommandNodeExtraNodeDataV2PropertiesBrigadierString v
  | CommandNodeExtraNodeDataV2Properties_MinecraftAngle => ret tt
  | CommandNodeExtraNodeDataV2Properties_MinecraftBlockPos => ret tt
  | CommandNodeExtraNodeDataV2Properties_MinecraftBlockPredicate => ret tt
  | CommandNodeExtraNodeDataV2Properties_MinecraftBlockState => ret tt
  | CommandNodeExtraNodeDataV2Properties_MinecraftColor => ret tt
  | CommandNodeExtraNodeDataV2Properties_MinecraftColumnPos => ret tt
  | CommandNodeExtraNodeDataV2Properties_MinecraftComponent => ret tt
  | CommandNodeExtraNodeDataV2Properties_MinecraftDimension => ret tt
  | CommandNodeExtraNodeDataV2Properties_MinecraftEntity v => encode wire_CommandNodeExtraNodeDataV2PropertiesMinecraftEntity v
  | CommandNodeExtraNodeDataV2Properties_MinecraftEntityAnchor => ret tt
  | CommandNodeExtraNodeDataV2Properties_MinecraftFloatRange => ret tt
  | CommandNodeExtraNodeDataV2Properties_MinecraftFunction => ret tt
  | CommandNodeExtraNodeDataV2Properties_MinecraftGameProfile => ret tt
  | CommandNodeExtraNodeDataV2Properties_MinecraftGamemode => ret tt
  | CommandNodeExtraNodeDataV2Properties_MinecraftHeightmap => ret tt
  | CommandNodeExtraNodeDataV2Properties_MinecraftIntRange => ret tt
  | CommandNodeExtraNodeDataV2Properties_MinecraftItemPredicate => ret tt
  | CommandNodeExtraNodeDataV2Properties_MinecraftItemSlot => ret tt
  | CommandNodeExtraNodeDataV2Properties_MinecraftItemStack => ret tt
  | CommandNodeExtraNodeDataV2Properties_MinecraftMessage => ret tt
  | CommandNodeExtraNodeDataV2Properties_MinecraftNbt => ret tt
  | CommandNodeExtraNodeDataV2Properties_MinecraftNbtPath => ret tt
  | CommandNodeExtraNodeDataV2Properties_MinecraftObjective => ret tt
  | CommandNodeExtraNodeDataV2Properties_MinecraftObjectiveCriteria => ret tt
  | CommandNodeExtraNodeDataV2Properties_MinecraftOperation => ret tt
  | CommandNodeExtraNodeDataV2Properties_MinecraftParticle => ret tt
  | CommandNodeExtraNodeDataV2Properties_MinecraftResource v => encode wire_CommandNodeExtraNodeDataV2PropertiesMinecraftResource v
  | CommandNodeExtraNodeDataV2Properties_MinecraftResourceKey v => encode wire_CommandNodeExtraNodeDataV2PropertiesMinecraftResourceKey v
  | CommandNodeExtraNodeDataV2Properties_MinecraftResourceLocation => ret tt
  | CommandNodeExtraNodeDataV2Properties_MinecraftResourceOrTag v => encode wire_CommandNodeExtraNodeDataV2PropertiesMinecraftResourceOrTag v
  | CommandNodeExtraNodeDataV2Properties_MinecraftResourceOrTagKey v => encode wire_CommandNodeExtraNodeDataV2PropertiesMinecraftResourceOrTagKey v
  | CommandNodeExtraNodeDataV2Properties_MinecraftRotation => ret tt
  | CommandNodeExtraNodeDataV2Properties_MinecraftScoreHolder v => encode wire_CommandNodeExtraNodeDataV2PropertiesMinecraftScoreHolder v
  | CommandNodeExtraNodeDataV2Properties_MinecraftScoreboardSlot => ret tt
  | CommandNodeExtraNodeDataV2Properties_MinecraftSwizzle => ret tt
  | CommandNodeExtraNodeDataV2Properties_MinecraftTeam => ret tt
  | CommandNodeExtraNodeDataV2Properties_MinecraftTemplateMirror => ret tt
  | CommandNodeExtraNodeDataV2Properties_MinecraftTemplateRotation => ret tt
  | CommandNodeExtraNodeDataV2Properties_MinecraftTime v => encode wire_CommandNodeExtraNodeDataV2PropertiesMinecraftTime v
  | CommandNodeExtraNodeDataV2Properties_MinecraftUuid => ret tt
  | CommandNodeExtraNodeDataV2Properties_MinecraftVec2 => ret tt
  | CommandNodeExtraNodeDataV2Properties_MinecraftVec3 => ret tt
  | CommandNodeExtraNodeDataV2Properties_None => ret tt
  end.
Definition decode_from_CommandNodeExtraNodeDataV2Properties (d : CommandNodeExtraNodeDataV2Parser) : Read CommandNodeExtraNodeDataV2Properties :=
  match d with
  | CommandNodeExtraNodeDataV2Parser_BrigadierBool => ret CommandNodeExtraNodeDataV2Properties_BrigadierBool
  | CommandNodeExtraNodeDataV2Parser_BrigadierDouble => (let* v := decode wire_CommandNodeExtraNodeDataV2PropertiesBrigadierDouble in ret (CommandNodeExtraNodeDataV2Properties_BrigadierDouble v))
  | CommandNodeExtraNodeDataV2Parser_BrigadierFloat => (let* v := decode wire_CommandNodeExtraNodeDataV2PropertiesBrigadierFloat in ret (CommandNodeExtraNodeDataV2Properties_BrigadierFloat v))
  | CommandNodeExtraNodeDataV2Parser_BrigadierInteger => (let* v := decode wire_CommandNodeExtraNodeDataV2PropertiesBrigadierInteger in ret (CommandNodeExtraNodeDataV2Properties_BrigadierInteger v))
  | CommandNodeExtraNodeDataV2Parser_BrigadierLong => (let* v := decode wire_CommandNodeExtraNodeDataV2PropertiesBrigadierLong in ret (CommandNodeExtraNodeDataV2Properties_BrigadierLong v))
  | CommandNodeExtraNodeDataV2Parser_BrigadierString => (let* v := decode wire_CommandNodeExtraNodeDataV2PropertiesBrigadierString in ret (CommandNodeExtraNodeDataV2Properties_BrigadierString v))
  | CommandNodeExtraNodeDataV2Parser_MinecraftAngle => ret CommandNodeExtraNodeDataV2Properties_MinecraftAngle
  | CommandNodeExtraNodeDataV2Parser_MinecraftBlockPos => ret CommandNodeExtraNodeDataV2Properties_MinecraftBlockPos
  | CommandNodeExtraNodeDataV2Parser_MinecraftBlockPredicate => ret CommandNodeExtraNodeDataV2Properties_MinecraftBlockPredicate
  | CommandNodeExtraNodeDataV2Parser_MinecraftBlockState => ret CommandNodeExtraNodeDataV2Properties_MinecraftBlockState
  | CommandNodeExtraNodeDataV2Parser_MinecraftColor => ret CommandNodeExtraNodeDataV2Properties_MinecraftColor
  | CommandNodeExtraNodeDataV2Parser_MinecraftColumnPos => ret CommandNodeExtraNodeDataV2Properties_MinecraftColumnPos
  | CommandNodeExtraNodeDataV2Parser_MinecraftComponent => ret CommandNodeExtraNodeDataV2Properties_MinecraftComponent
  | CommandNodeExtraNodeDataV2Parser_MinecraftDimension => ret CommandNodeExtraNodeDataV2Properties_MinecraftDimension
  | CommandNodeExtraNodeDataV2Parser_MinecraftEntity => (let* v := decode wire_CommandNodeExtraNodeDataV2PropertiesMinecraftEntity in ret (CommandNodeExtraNodeDataV2Properties_MinecraftEntity v))
  | CommandNodeExtraNodeDataV2Parser_MinecraftEntityAnchor => ret CommandNodeExtraNodeDataV2Properties_MinecraftEntityAnchor
  | CommandNodeExtraNodeDataV2Parser_MinecraftFloatRange => ret CommandNodeExtraNodeDataV2Properties_MinecraftFloatRange
  | CommandNodeExtraNodeDataV2Parser_MinecraftFunction => ret CommandNodeExtraNodeDataV2Properties_MinecraftFunction
  | CommandNodeExtraNodeDataV2Parser_MinecraftGameProfile => ret CommandNodeExtraNodeDataV2Properties_MinecraftGameProfile
  | CommandNodeExtraNodeDataV2Parser_MinecraftGamemode => ret CommandNodeExtraNodeDataV2Properties_MinecraftGamemode
  | CommandNodeExtraNodeDataV2Parser_MinecraftHeightmap => ret CommandNodeExtraNodeDataV2Properties_MinecraftHeightmap
  | CommandNodeExtraNodeDataV2Parser_MinecraftIntRange => ret CommandNodeExtraNodeDataV2Properties_MinecraftIntRange
  | CommandNodeExtraNodeDataV2Parser_MinecraftItemPredicate => ret CommandNodeExtraNodeDataV2Properties_MinecraftItemPredicate
  | CommandNodeExtraNodeDataV2Parser_MinecraftItemSlot => ret CommandNodeExtraNodeDataV2Properties_MinecraftItemSlot
  | CommandNodeExtraNodeDataV2Parser_MinecraftItemStack => ret CommandNodeExtraNodeDataV2Properties_MinecraftItemStack
  | CommandNodeExtraNodeDataV2Parser_MinecraftMessage => ret CommandNodeExtraNodeDataV2Properties_MinecraftMessage
  | CommandNodeExtraNodeDataV2Parser_MinecraftNbt => ret CommandNodeExtraNodeDataV2Properties_MinecraftNbt
  | CommandNodeExtraNodeDataV2Parser_MinecraftNbtPath => ret CommandNodeExtraNodeDataV2Properties_MinecraftNbtPath
  | CommandNodeExtraNodeDataV2Parser_MinecraftObjective => ret CommandNodeExtraNodeDataV2Properties_MinecraftObjective
  | CommandNodeExtraNodeDataV2Parser_MinecraftObjectiveCriteria => ret CommandNodeExtraNodeDataV2Properties_MinecraftObjectiveCriteria
  | CommandNodeExtraNodeDataV2Parser_MinecraftOperation => ret CommandNodeExtraNodeDataV2Properties_MinecraftOperation
  | CommandNodeExtraNodeDataV2Parser_MinecraftParticle => ret CommandNodeExtraNodeDataV2Properties_MinecraftParticle
  | CommandNodeExtraNodeDataV2Parser_MinecraftResource => (let* v := decode wire_CommandNodeExtraNodeDataV2PropertiesMinecraftResource in ret (CommandNodeExtraNodeDataV2Properties_MinecraftResource v))
  | CommandNodeExtraNodeDataV2Parser_MinecraftResourceKey => (let* v := decode wire_CommandNodeExtraNodeDataV2PropertiesMinecraftResourceKey in ret (CommandNodeExtraNodeDataV2Properties_MinecraftResourceKey v))
  | CommandNodeExtraNodeDataV2Parser_MinecraftResourceLocation => ret CommandNodeExtraNodeDataV2Properties_MinecraftResourceLocation
  | CommandNodeExtraNodeDataV2Parser_MinecraftResourceOrTag => (let* v := decode wire_CommandNodeExtraNodeDataV2PropertiesMinecraftResourceOrTag in ret (CommandNodeExtraNodeDataV2Properties_MinecraftResourceOrTag v))
  | CommandNodeExtraNodeDataV2Parser_MinecraftResourceOrTagKey => (let* v := decode wire_CommandNodeExtraNodeDataV2PropertiesMinecraftResourceOrTagKey in ret (CommandNodeExtraNodeDataV2Properties_MinecraftResourceOrTagKey v))
  | CommandNodeExtraNodeDataV2Parser_MinecraftRotation => ret CommandNodeExtraNodeDataV2Properties_MinecraftRotation
  | CommandNodeExtraNodeDataV2Parser_MinecraftScoreHolder => (let* v := decode wire_CommandNodeExtraNodeDataV2PropertiesMinecraftScoreHolder in ret (CommandNodeExtraNodeDataV2Properties_MinecraftScoreHolder v))
  | CommandNodeExtraNodeDataV2Parser_MinecraftScoreboardSlot => ret CommandNodeExtraNodeDataV2Properties_MinecraftScoreboardSlot
  | CommandNodeExtraNodeDataV2Parser_MinecraftSwizzle => ret CommandNodeExtraNodeDataV2Properties_MinecraftSwizzle
  | CommandNodeExtraNodeDataV2Parser_MinecraftTeam => ret CommandNodeExtraNodeDataV2Properties_MinecraftTeam
  | CommandNodeExtraNodeDataV2Parser_MinecraftTemplateMirror => ret CommandNodeExtraNodeDataV2Properties_MinecraftTemplateMirror
  | CommandNodeExtraNodeDataV2Parser_MinecraftTemplateRotation => ret CommandNodeExtraNodeDataV2Properties_MinecraftTemplateRotation
  | CommandNodeExtraNodeDataV2Parser_MinecraftTime => (let* v := decode wire_CommandNodeExtraNodeDataV2PropertiesMinecraftTime in ret (CommandNodeExtraNodeDataV2Properties_MinecraftTime v))
  | CommandNodeExtraNodeDataV2Parser_MinecraftUuid => ret CommandNodeExtraNodeDataV2Properties_MinecraftUuid
  | CommandNodeExtraNodeDataV2Parser_MinecraftVec2 => ret CommandNodeExtraNodeDataV2Properties_MinecraftVec2
  | CommandNodeExtraNodeDataV2Parser_MinecraftVec3 => ret CommandNodeExtraNodeDataV2Properties_MinecraftVec3
  | _ => ret CommandNodeExtraNodeDataV2Properties_None
  end.
Definition case_CommandNodeExtraNodeDataV2Properties (d : CommandNodeExtraNodeDataV2Parser) (v : CommandNodeExtraNodeDataV2Properties) : bool :=
  match v with
  | CommandNodeExtraNodeDataV2Properties_BrigadierBool => on d CommandNodeExtraNodeDataV2Parser_BrigadierBool
  | CommandNodeExtraNodeDataV2Properties_BrigadierDouble _ => on d CommandNodeExtraNodeDataV2Parser_BrigadierDouble
  | CommandNodeExtraNodeDataV2Properties_BrigadierFloat _ => on d CommandNodeExtraNodeDataV2Parser_BrigadierFloat
  | CommandNodeExtraNodeDataV2Properties_BrigadierInteger _ => on d CommandNodeExtraNodeDataV2Parser_BrigadierInteger
  | CommandNodeExtraNodeDataV2Properties_BrigadierLong _ => on d CommandNodeExtraNodeDataV2Parser_BrigadierLong
  | CommandNodeExtraNodeDataV2Properties_BrigadierString _ => on d CommandNodeExtraNodeDataV2Parser_BrigadierString
  | CommandNodeExtraNodeDataV2Properties_MinecraftAngle => on d CommandNodeExtraNodeDataV2Parser_MinecraftAngle
  | CommandNodeExtraNodeDataV2Properties_MinecraftBlockPos => on d CommandNodeExtraNodeDataV2Parser_MinecraftBlockPos
  | CommandNodeExtraNodeDataV2Properties_MinecraftBlockPredicate => on d CommandNodeExtraNodeDataV2Parser_MinecraftBlockPredicate
  | CommandNodeExtraNodeDataV2Properties_MinecraftBlockState => on d CommandNodeExtraNodeDataV2Parser_MinecraftBlockState
  | CommandNodeExtraNodeDataV2Properties_MinecraftColor => on d CommandNodeExtraNodeDataV2Parser_MinecraftColor
  | CommandNodeExtraNodeDataV2Properties_MinecraftColumnPos => on d CommandNodeExtraNodeDataV2Parser_MinecraftColumnPos
  | CommandNodeExtraNodeDataV2Properties_MinecraftComponent => on d CommandNodeExtraNodeDataV2Parser_MinecraftComponent
  | CommandNodeExtraNodeDataV2Properties_MinecraftDimension => on d CommandNodeExtraNodeDataV2Parser_MinecraftDimension
  | CommandNodeExtraNodeDataV2Properties_MinecraftEntity _ => on d CommandNodeExtraNodeDataV2Parser_MinecraftEntity
  | CommandNodeExtraNodeDataV2Properties_MinecraftEntityAnchor => on d CommandNodeExtraNodeDataV2Parser_MinecraftEntityAnchor
  | CommandNodeExtraNodeDataV2Properties_MinecraftFloatRange => on d CommandNodeExtraNodeDataV2Parser_MinecraftFloatRange
  | CommandNodeExtraNodeDataV2Properties_MinecraftFunction => on d CommandNodeExtraNodeDataV2Parser_MinecraftFunction
  | CommandNodeExtraNodeDataV2Properties_MinecraftGameProfile => on d CommandNodeExtraNodeDataV2Parser_MinecraftGameProfile
  | CommandNodeExtraNodeDataV2Properties_MinecraftGamemode => on d CommandNodeExtraNodeDataV2Parser_MinecraftGamemode
  | CommandNodeExtraNodeDataV2Properties_MinecraftHeightmap => on d CommandNodeExtraNodeDataV2Parser_MinecraftHeightmap
  | CommandNodeExtraNodeDataV2Properties_MinecraftIntRange => on d CommandNodeExtraNodeDataV2Parser_MinecraftIntRange
  | CommandNodeExtraNodeDataV2Properties_MinecraftItemPredicate => on d CommandNodeExtraNodeDataV2Parser_MinecraftItemPredicate
  | CommandNodeExtraNodeDataV2Properties_MinecraftItemSlot => on d CommandNodeExtraNodeDataV2Parser_MinecraftItemSlot
  | CommandNodeExtraNodeDataV2Properties_MinecraftItemStack => on d CommandNodeExtraNodeDataV2Parser_MinecraftItemStack
  | CommandNodeExtraNodeDataV2Properties_MinecraftMessage => on d CommandNodeExtraNodeDataV2Parser_MinecraftMessage
  | CommandNodeExtraNodeDataV2Properties_MinecraftNbt => on d CommandNodeExtraNodeDataV2Parser_MinecraftNbt
  | CommandNodeExtraNodeDataV2Properties_MinecraftNbtPath => on d CommandNodeExtraNodeDataV2Parser_MinecraftNbtPath
  | CommandNodeExtraNodeDataV2Properties_MinecraftObjective => on d CommandNodeExtraNodeDataV2Parser_MinecraftObjective
  | CommandNodeExtraNodeDataV2Properties_MinecraftObjectiveCriteria => on d CommandNodeExtraNodeDataV2Parser_MinecraftObjectiveCriteria
  | CommandNodeExtraNodeDataV2Properties_MinecraftOperation => on d CommandNodeExtraNodeDataV2Parser_MinecraftOperation
  | CommandNodeExtraNodeDataV2Properties_MinecraftParticle => on d CommandNodeExtraNodeDataV2Parser_MinecraftParticle
  | CommandNodeExtraNodeDataV2Properties_MinecraftResource _ => on d CommandNodeExtraNodeDataV2Parser_MinecraftResource
  | CommandNodeExtraNodeDataV2Properties_MinecraftResourceKey _ => on d CommandNodeExtraNodeDataV2Parser_MinecraftResourceKey
  | CommandNodeExtraNodeDataV2Properties_MinecraftResourceLocation => on d CommandNodeExtraNodeDataV2Parser_MinecraftResourceLocation
  | CommandNodeExtraNodeDataV2Properties_MinecraftResourceOrTag _ => on d CommandNodeExtraNodeDataV2Parser_MinecraftResourceOrTag
  | CommandNodeExtraNodeDataV2Properties_MinecraftResourceOrTagKey _ => on d CommandNodeExtraNodeDataV2Parser_MinecraftResourceOrTagKey
  | CommandNodeExtraNodeDataV2Properties_MinecraftRotation => on d CommandNodeExtraNodeDataV2Parser_MinecraftRotation
  | CommandNodeExtraNodeDataV2Properties_MinecraftScoreHolder _ => on d CommandNodeExtraNodeDataV2Parser_MinecraftScoreHolder
  | CommandNodeExtraNodeDataV2Properties_MinecraftScoreboardSlot => on d CommandNodeExtraNodeDataV2Parser_MinecraftScoreboardSlot
  | CommandNodeExtraNodeDataV2Properties_MinecraftSwizzle => on d CommandNodeExtraNodeDataV2Parser_MinecraftSwizzle
  | CommandNodeExtraNodeDataV2Properties_MinecraftTeam => on d CommandNodeExtraNodeDataV2Parser_MinecraftTeam
  | CommandNodeExtraNodeDataV2Properties_MinecraftTemplateMirror => on d CommandNodeExtraNodeDataV2Parser_MinecraftTemplateMirror
  | CommandNodeExtraNodeDataV2Properties_MinecraftTemplateRotation => on d CommandNodeExtraNodeDataV2Parser_MinecraftTemplateRotation
  | CommandNodeExtraNodeDataV2Properties_MinecraftTime _ => on d CommandNodeExtraNodeDataV2Parser_MinecraftTime
  | CommandNodeExtraNodeDataV2Properties_MinecraftUuid => on d CommandNodeExtraNodeDataV2Parser_MinecraftUuid
  | CommandNodeExtraNodeDataV2Properties_MinecraftVec2 => on d CommandNodeExtraNodeDataV2Parser_MinecraftVec2
  | CommandNodeExtraNodeDataV2Properties_MinecraftVec3 => on d CommandNodeExtraNodeDataV2Parser_MinecraftVec3
  | CommandNodeExtraNodeDataV2Properties_None => match d with CommandNodeExtraNodeDataV2Parser_BrigadierBool | CommandNodeExtraNodeDataV2Parser_BrigadierDouble | CommandNodeExtraNodeDataV2Parser_BrigadierFloat | CommandNodeExtraNodeDataV2Parser_BrigadierInteger | CommandNodeExtraNodeDataV2Parser_BrigadierLong | CommandNodeExtraNodeDataV2Parser_BrigadierString | CommandNodeExtraNodeDataV2Parser_MinecraftAngle | CommandNodeExtraNodeDataV2Parser_MinecraftBlockPos | CommandNodeExtraNodeDataV2Parser_MinecraftBlockPredicate | CommandNodeExtraNodeDataV2Parser_MinecraftBlockState | CommandNodeExtraNodeDataV2Parser_MinecraftColor | CommandNodeExtraNodeDataV2Parser_MinecraftColumnPos | CommandNodeExtraNodeDataV2Parser_MinecraftComponent | CommandNodeExtraNodeDataV2Parser_MinecraftDimension | CommandNodeExtraNodeDataV2Parser_MinecraftEntity | CommandNodeExtraNodeDataV2Parser_MinecraftEntityAnchor | CommandNodeExtraNodeDataV2Parser_MinecraftFloatRange | CommandNodeExtraNodeDataV2Parser_MinecraftFunction | CommandNodeExtraNodeDataV2Parser_MinecraftGameProfile | CommandNodeExtraNodeDataV2Parser_MinecraftGamemode | CommandNodeExtraNodeDataV2Parser_MinecraftHeightmap | CommandNodeExtraNodeDataV2Parser_MinecraftIntRange | CommandNodeExtraNodeDataV2Parser_MinecraftItemPredicate | CommandNodeExtraNodeDataV2Parser_MinecraftItemSlot | CommandNodeExtraNodeDataV2Parser_MinecraftItemStack | CommandNodeExtraNodeDataV2Parser_MinecraftMessage | CommandNodeExtraNodeDataV2Parser_MinecraftNbt | CommandNodeExtraNodeDataV2Parser_MinecraftNbtPath | CommandNodeExtraNodeDataV2Parser_MinecraftObjective | CommandNodeExtraNodeDataV2Parser_MinecraftObjectiveCriteria | CommandNodeExtraNodeDataV2Parser_MinecraftOperation | CommandNodeExtraNodeDataV2Parser_MinecraftParticle | CommandNodeExtraNodeDataV2Parser_MinecraftResource | CommandNodeExtraNodeDataV2Parser_MinecraftResourceKey | CommandNodeExtraNodeDataV2Parser_MinecraftResourceLocation | CommandNodeExtraNodeDataV2Parser_MinecraftResourceOrTag | CommandNodeExtraNodeDataV2Parser_MinecraftResourceOrTagKey | CommandNodeExtraNodeDataV2Parser_MinecraftRotation | CommandNodeExtraNodeDataV2Parser_MinecraftScoreHolder | CommandNodeExtraNodeDataV2Parser_MinecraftScoreboardSlot | CommandNodeExtraNodeDataV2Parser_MinecraftSwizzle | CommandNodeExtraNodeDataV2Parser_MinecraftTeam | CommandNodeExtraNodeDataV2Parser_MinecraftTemplateMirror | CommandNodeExtraNodeDataV2Parser_MinecraftTemplateRotation | CommandNodeExtraNodeDataV2Parser_MinecraftTime | CommandNodeExtraNodeDataV2Parser_MinecraftUuid | CommandNodeExtraNodeDataV2Parser_MinecraftVec2 | CommandNodeExtraNodeDataV2Parser_MinecraftVec3 => false | _ => true end
  end.
Definition switch_CommandNodeExtraNodeDataV2Properties : Switch CommandNodeExtraNodeDataV2Parser CommandNodeExtraNodeDataV2Properties := mkSwitch case_CommandNodeExtraNodeDataV2Properties encode_CommandNodeExtraNodeDataV2Properties decode_from_CommandNodeExtraNodeDataV2Properties.
Definition dom_CommandNodeExtraNodeDataV2Properties (d : CommandNodeExtraNodeDataV2Parser) (v : CommandNodeExtraNodeDataV2Properties) : Prop :=
  case_CommandNodeExtraNodeDataV2Properties d v = true ∧
  match v with
  | CommandNodeExtraNodeDataV2Properties_BrigadierDouble v => dom_CommandNodeExtraNodeDataV2PropertiesBrigadierDouble v
  | CommandNodeExtraNodeDataV2Properties_BrigadierFloat v => dom_CommandNodeExtraNodeDataV2PropertiesBrigadierFloat v
  | CommandNodeExtraNodeDataV2Properties_BrigadierInteger v => dom_CommandNodeExtraNodeDataV2PropertiesBrigadierInteger v
  | CommandNodeExtraNodeDataV2Properties_BrigadierLong v => dom_CommandNodeExtraNodeDataV2PropertiesBrigadierLong v
  | CommandNodeExtraNodeDataV2Properties_BrigadierString v => dom_CommandNodeExtraNodeDataV2PropertiesBrigadierString v
  | CommandNodeExtraNodeDataV2Properties_MinecraftEntity v => dom_CommandNodeExtraNodeDataV2PropertiesMinecraftEntity v
  | CommandNodeExtraNodeDataV2Properties_MinecraftResource v => dom_CommandNodeExtraNodeDataV2PropertiesMinecraftResource v
  | CommandNodeExtraNodeDataV2Properties_MinecraftResourceKey v => dom_CommandNodeExtraNodeDataV2PropertiesMinecraftResourceKey v
  | CommandNodeExtraNodeDataV2Properties_MinecraftResourceOrTag v => dom_CommandNodeExtraNodeDataV2PropertiesMinecraftResourceOrTag v
  | CommandNodeExtraNodeDataV2Properties_MinecraftResourceOrTagKey v => dom_CommandNodeExtraNodeDataV2PropertiesMinecraftResourceOrTagKey v
  | CommandNodeExtraNodeDataV2Properties_MinecraftScoreHolder v => dom_CommandNodeExtraNodeDataV2PropertiesMinecraftScoreHolder v
  | CommandNodeExtraNodeDataV2Properties_MinecraftTime v => dom_CommandNodeExtraNodeDataV2PropertiesMinecraftTime v
  | _ => True
  end.
Definition bytes_CommandNodeExtraNodeDataV2Properties (v : CommandNodeExtraNodeDataV2Properties) : list byte :=
  match v with
  | CommandNodeExtraNodeDataV2Properties_BrigadierDouble v => bytes_CommandNodeExtraNodeDataV2PropertiesBrigadierDouble v
  | CommandNodeExtraNodeDataV2Properties_BrigadierFloat v => bytes_CommandNodeExtraNodeDataV2PropertiesBrigadierFloat v
  | CommandNodeExtraNodeDataV2Properties_BrigadierInteger v => bytes_CommandNodeExtraNodeDataV2PropertiesBrigadierInteger v
  | CommandNodeExtraNodeDataV2Properties_BrigadierLong v => bytes_CommandNodeExtraNodeDataV2PropertiesBrigadierLong v
  | CommandNodeExtraNodeDataV2Properties_BrigadierString v => bytes_CommandNodeExtraNodeDataV2PropertiesBrigadierString v
  | CommandNodeExtraNodeDataV2Properties_MinecraftEntity v => bytes_CommandNodeExtraNodeDataV2PropertiesMinecraftEntity v
  | CommandNodeExtraNodeDataV2Properties_MinecraftResource v => bytes_CommandNodeExtraNodeDataV2PropertiesMinecraftResource v
  | CommandNodeExtraNodeDataV2Properties_MinecraftResourceKey v => bytes_CommandNodeExtraNodeDataV2PropertiesMinecraftResourceKey v
  | CommandNodeExtraNodeDataV2Properties_MinecraftResourceOrTag v => bytes_CommandNodeExtraNodeDataV2PropertiesMinecraftResourceOrTag v
  | CommandNodeExtraNodeDataV2Properties_MinecraftResourceOrTagKey v => bytes_CommandNodeExtraNodeDataV2PropertiesMinecraftResourceOrTagKey v
  | CommandNodeExtraNodeDataV2Properties_MinecraftScoreHolder v => bytes_CommandNodeExtraNodeDataV2PropertiesMinecraftScoreHolder v
  | CommandNodeExtraNodeDataV2Properties_MinecraftTime v => bytes_CommandNodeExtraNodeDataV2PropertiesMinecraftTime v
  | _ => []
  end.
#[export] Instance lawful_CommandNodeExtraNodeDataV2Properties : LawfulSwitch switch_CommandNodeExtraNodeDataV2Properties dom_CommandNodeExtraNodeDataV2Properties bytes_CommandNodeExtraNodeDataV2Properties.
Proof. solve_switch. Qed.

Inductive CommandNodeExtraNodeDataV2SuggestionType : Type :=
  | CommandNodeExtraNodeDataV2SuggestionType_True (v : string)
  | CommandNodeExtraNodeDataV2SuggestionType_Default.
Definition encode_CommandNodeExtraNodeDataV2SuggestionType (v : CommandNodeExtraNodeDataV2SuggestionType) : Write :=
  match v with
  | CommandNodeExtraNodeDataV2SuggestionType_True v => encode wire_String v
  | CommandNodeExtraNodeDataV2SuggestionType_Default => ret tt
  end.
Definition decode_from_CommandNodeExtraNodeDataV2SuggestionType (d : bool) : Read CommandNodeExtraNodeDataV2SuggestionType :=
  if d then (let* v := decode wire_String in ret (CommandNodeExtraNodeDataV2SuggestionType_True v))
  else ret CommandNodeExtraNodeDataV2SuggestionType_Default.
Definition case_CommandNodeExtraNodeDataV2SuggestionType (d : bool) (v : CommandNodeExtraNodeDataV2SuggestionType) : bool :=
  match v with
  | CommandNodeExtraNodeDataV2SuggestionType_True _ => on d true
  | CommandNodeExtraNodeDataV2SuggestionType_Default => on d false
  end.
Definition switch_CommandNodeExtraNodeDataV2SuggestionType : Switch bool CommandNodeExtraNodeDataV2SuggestionType := mkSwitch case_CommandNodeExtraNodeDataV2SuggestionType encode_CommandNodeExtraNodeDataV2SuggestionType decode_from_CommandNodeExtraNodeDataV2SuggestionType.
Definition dom_CommandNodeExtraNodeDataV2SuggestionType (d : bool) (v : CommandNodeExtraNodeDataV2SuggestionType) : Prop :=
  case_CommandNodeExtraNodeDataV2SuggestionType d v = true ∧
  match v with
  | CommandNodeExtraNodeDataV2SuggestionType_True v => wire_string v
  | _ => True
  end.
Definition bytes_CommandNodeExtraNodeDataV2SuggestionType (v : CommandNodeExtraNodeDataV2SuggestionType) : list byte :=
  match v with
  | CommandNodeExtraNodeDataV2SuggestionType_True v => string_bytes v
  | _ => []
  end.
#[export] Instance lawful_CommandNodeExtraNodeDataV2SuggestionType : LawfulSwitch switch_CommandNodeExtraNodeDataV2SuggestionType dom_CommandNodeExtraNodeDataV2SuggestionType bytes_CommandNodeExtraNodeDataV2SuggestionType.
Proof. solve_switch. Qed.

Record CommandNodeExtraNodeDataV2 : Type := mkCommandNodeExtraNodeDataV2 {
  CommandNodeExtraNodeDataV2_name : string;
  CommandNodeExtraNodeDataV2_parser : CommandNodeExtraNodeDataV2Parser;
  CommandNodeExtraNodeDataV2_properties : CommandNodeExtraNodeDataV2Properties;
  CommandNodeExtraNodeDataV2_suggestion_type : CommandNodeExtraNodeDataV2SuggestionType;
}.
(** [Encode]: the suggestion type is written as it is, without a look at the
    flag that announces it. *)
Definition encode_CommandNodeExtraNodeDataV2 (p : CommandNodeExtraNodeDataV2) : Write :=
  encode wire_String (CommandNodeExtraNodeDataV2_name p) ;;;
  encode wire_CommandNodeExtraNodeDataV2Parser (CommandNodeExtraNodeDataV2_parser p) ;;;
  encode_at switch_CommandNodeExtraNodeDataV2Properties (CommandNodeExtraNodeDataV2_parser p) (CommandNodeExtraNodeDataV2_properties p) ;;;
  sw_encode switch_CommandNodeExtraNodeDataV2SuggestionType (CommandNodeExtraNodeDataV2_suggestion_type p) ;;;
  ret tt.
(** [decode_ctx]. *)
Definition decode_CommandNodeExtraNodeDataV2 (has_custom_suggestions : bool) : Read CommandNodeExtraNodeDataV2 :=
  let* name := decode wire_String in
  let* parser := decode wire_CommandNodeExtraNodeDataV2Parser in
  let* properties := sw_decode switch_CommandNodeExtraNodeDataV2Properties parser in
  let* suggestion_type := sw_decode switch_CommandNodeExtraNodeDataV2SuggestionType has_custom_suggestions in
  ret (mkCommandNodeExtraNodeDataV2 name parser properties suggestion_type).
Definition switch_CommandNodeExtraNodeDataV2 : Switch bool CommandNodeExtraNodeDataV2 :=
  mkSwitch (λ _ _, true) encode_CommandNodeExtraNodeDataV2 decode_CommandNodeExtraNodeDataV2.
Definition dom_CommandNodeExtraNodeDataV2 (d : bool) (p : CommandNodeExtraNodeDataV2) : Prop :=
  wire_string (CommandNodeExtraNodeDataV2_name p)
  ∧ dom_CommandNodeExtraNodeDataV2Parser (CommandNodeExtraNodeDataV2_parser p)
  ∧ dom_CommandNodeExtraNodeDataV2Properties (CommandNodeExtraNodeDataV2_parser p) (CommandNodeExtraNodeDataV2_properties p)
  ∧ dom_CommandNodeExtraNodeDataV2SuggestionType d (CommandNodeExtraNodeDataV2_suggestion_type p).
Definition bytes_CommandNodeExtraNodeDataV2 (p : CommandNodeExtraNodeDataV2) : list byte :=
  concat [string_bytes (CommandNodeExtraNodeDataV2_name p);
    bytes_CommandNodeExtraNodeDataV2Parser (CommandNodeExtraNodeDataV2_parser p);
    bytes_CommandNodeExtraNodeDataV2Properties (CommandNodeExtraNodeDataV2_properties p);
    bytes_CommandNodeExtraNodeDataV2SuggestionType (CommandNodeExtraNodeDataV2_suggestion_type p)].
#[export] Instance lawful_CommandNodeExtraNodeDataV2 :
  LawfulSwitch switch_CommandNodeExtraNodeDataV2 dom_CommandNodeExtraNodeDataV2 bytes_CommandNodeExtraNodeDataV2.
Proof. solve_ctx. Qed.

Inductive CommandNodeExtraNodeData : Type :=
  | CommandNodeExtraNodeData_V0
  | CommandNodeExtraNodeData_V1 (v : CommandNodeExtraNodeDataV1)
  | CommandNodeExtraNodeData_V2 (v : CommandNodeExtraNodeDataV2)
  | CommandNodeExtraNodeData_None.
Definition encode_CommandNodeExtraNodeData (v : CommandNodeExtraNodeData) : Write :=
  match v with
  | CommandNodeExtraNodeData_V1 v => encode wire_CommandNodeExtraNodeDataV1 v
  | CommandNodeExtraNodeData_V2 v => sw_encode switch_CommandNodeExtraNodeDataV2 v
  | _ => ret tt
  end.
(** The discriminants are the node type and [has_custom_suggestions]. *)
Definition decode_from_CommandNodeExtraNodeData (d : Z * bool) : Read CommandNodeExtraNodeData :=
  if on d.1 0 then ret CommandNodeExtraNodeData_V0
  else if on d.1 1 then (let* v := decode wire_CommandNodeExtraNodeDataV1 in ret (CommandNodeExtraNodeData_V1 v))
  else if on d.1 2 then (let* v := sw_decode switch_CommandNodeExtraNodeDataV2 d.2 in ret (CommandNodeExtraNodeData_V2 v))
  else ret CommandNodeExtraNodeData_None.
Definition case_CommandNodeExtraNodeData (d : Z * bool) (v : CommandNodeExtraNodeData) : bool :=
  match v with
  | CommandNodeExtraNodeData_V0 => on d.1 0
  | CommandNodeExtraNodeData_V1 _ => on d.1 1
  | CommandNodeExtraNodeData_V2 _ => on d.1 2
  | CommandNodeExtraNodeData_None => negb (on d.1 0) && negb (on d.1 1) && negb (on d.1 2)
  end.
Definition switch_CommandNodeExtraNodeData : Switch (Z * bool) CommandNodeExtraNodeData :=
  mkSwitch case_CommandNodeExtraNodeData encode_CommandNodeExtraNodeData decode_from_CommandNodeExtraNodeData.
Definition dom_CommandNodeExtraNodeData (d : Z * bool) (v : CommandNodeExtraNodeData) : Prop :=
  case_CommandNodeExtraNodeData d v = true ∧
  match v with
  | CommandNodeExtraNodeData_V1 v => dom_CommandNodeExtraNodeDataV1 v
  | CommandNodeExtraNodeData_V2 v => dom_CommandNodeExtraNodeDataV2 d.2 v
  | _ => True
  end.
Definition bytes_CommandNodeExtraNodeData (v : CommandNodeExtraNodeData) : list byte :=
  match v with
  | CommandNodeExtraNodeData_V1 v => bytes_CommandNodeExtraNodeDataV1 v
  | CommandNodeExtraNodeData_V2 v => bytes_CommandNodeExtraNodeDataV2 v
  | _ => []
  end.
#[export] Instance lawful_CommandNodeExtraNodeData :
  LawfulSwitch switch_CommandNodeExtraNodeData dom_CommandNodeExtraNodeData bytes_CommandNodeExtraNodeData.
Proof.
  split; intros [d b] v [Hc Hd].
  - unfold encode_at, only, switch_CommandNodeExtraNodeData. cbn [sw_case sw_encode]. rewrite Hc.
    destruct v; cbn [encode_CommandNodeExtraNodeData bytes_CommandNodeExtraNodeData]; [apply writes_ret|write_step| |apply writes_ret].
    exact (switch_writes (s := switch_CommandNodeExtraNodeDataV2) b v Hd).
  - cbn [sw_decode switch_CommandNodeExtraNodeData]. unfold decode_from_CommandNodeExtraNodeData. cbn [fst snd].
    destruct v; cbn [case_CommandNodeExtraNodeData fst] in Hc; resolve_on Hc; eval_on;
      first [apply reads_ret | eapply reads_bind_nil; [read_step|apply reads_ret]].
Qed.

Record CommandNode : Type := mkCommandNode {
  CommandNode_flags : CommandNodeFlags;
  CommandNode_children : list Z;
  CommandNode_redirect_node : CommandNodeRedirectNode;
  CommandNode_extra_node_data : CommandNodeExtraNodeData;
}.
Definition wire_CommandNode : Codec CommandNode := {|
  encode p :=
    encode wire_CommandNodeFlags (CommandNode_flags p) ;;;
    encode (wire_Vec wire_varint) (CommandNode_children p) ;;;
    encode_at switch_CommandNodeRedirectNode (CommandNodeFlags_has_redirect_node (CommandNode_flags p)) (CommandNode_redirect_node p) ;;;
    encode_at switch_CommandNodeExtraNodeData
      (CommandNodeFlags_command_node_type (CommandNode_flags p), CommandNodeFlags_has_custom_suggestions (CommandNode_flags p))
      (CommandNode_extra_node_data p) ;;;
    ret tt;
  decode :=
    let* flags := decode wire_CommandNodeFlags in
    let* children := decode (wire_Vec wire_varint) in
    let* redirect_node := sw_decode switch_CommandNodeRedirectNode (CommandNodeFlags_has_redirect_node flags) in
    let* extra_node_data := sw_decode switch_CommandNodeExtraNodeData
      (CommandNodeFlags_command_node_type flags, CommandNodeFlags_has_custom_suggestions flags) in
    ret (mkCommandNode flags children redirect_node extra_node_data);
|}.
Definition dom_CommandNode (p : CommandNode) : Prop :=
  dom_CommandNodeFlags (CommandNode_flags p)
  ∧ vec_dom (in_i 32) (CommandNode_children p)
  ∧ dom_CommandNodeRedirectNode (CommandNodeFlags_has_redirect_node (CommandNode_flags p)) (CommandNode_redirect_node p)
  ∧ dom_CommandNodeExtraNodeData
      (CommandNodeFlags_command_node_type (CommandNode_flags p), CommandNodeFlags_has_custom_suggestions (CommandNode_flags p))
      (CommandNode_extra_node_data p).
Definition bytes_CommandNode (p : CommandNode) : list byte :=
  concat [bytes_CommandNodeFlags (CommandNode_flags p);
    vec_bytes varint_bytes (CommandNode_children p);
    bytes_CommandNodeRedirectNode (CommandNode_redirect_node p);
    bytes_CommandNodeExtraNodeData (CommandNode_extra_node_data p)].
#[export] Instance lawful_CommandNode : LawfulCodec wire_CommandNode dom_CommandNode bytes_CommandNode.
Proof. solve_struct. Qed.
#[export] Instance cost_CommandNode : CodecCost dom_CommandNode bytes_CommandNode.
Proof. solve_head. Qed.
