(* ===== verification/Displays.v ===== *)
(** * Recipe displays

    [SlotDisplay] and [RecipeDisplay] of
    [crates/minerider-protocol/src/generated/v1_21_4/play.rs]: what the recipe
    book shows.  A slot display can be made of slot displays. *)

From S2P Require Import Prelude Machine Reader Varint Utf8 Buffer Wire Nbt PacketTypes Switch Recursion ItemTypes Items PlayPackets.

Local Open Scope Z_scope.

(** ** Bounds of the shared types *)

#[export] Instance SlotDisplayType_eq_dec : EqDecision SlotDisplayType.
Proof. solve_decision. Defined.
#[export] Instance RecipeDisplayType_eq_dec : EqDecision RecipeDisplayType.
Proof. solve_decision. Defined.
#[export] Instance cost_RecipeDisplayType : CodecCost dom_RecipeDisplayType bytes_RecipeDisplayType.
Proof. solve_cost. Qed.

#[export] Instance safe_SlotDisplayType : SafeDecode wire_SlotDisplayType.
Proof. solve_safe. Qed.
#[export] Instance safe_RecipeDisplayType : SafeDecode wire_RecipeDisplayType.
Proof. solve_safe. Qed.

(** ** Displays made of displays: types and encoders *)

Section encoders.
Context {SlotDisplay : Type} (encode_SlotDisplay : SlotDisplay → Write).

Record SlotDisplayDataSmithingTrim : Type := mkSlotDisplayDataSmithingTrim {
  SlotDisplayDataSmithingTrim_base : SlotDisplay;
  SlotDisplayDataSmithingTrim_material : SlotDisplay;
  SlotDisplayDataSmithingTrim_pattern : SlotDisplay;
}.
Definition encode_SlotDisplayDataSmithingTrim (p : SlotDisplayDataSmithingTrim) : Write :=
  encode_SlotDisplay (SlotDisplayDataSmithingTrim_base p) ;;;
  encode_SlotDisplay (SlotDisplayDataSmithingTrim_material p) ;;;
  encode_SlotDisplay (SlotDisplayDataSmithingTrim_pattern p) ;;;
  ret tt.

Record SlotDisplayDataWithRemainder : Type := mkSlotDisplayDataWithRemainder {
  SlotDisplayDataWithRemainder_input_ : SlotDisplay;
  SlotDisplayDataWithRemainder_remainder : SlotDisplay;
}.
Definition encode_SlotDisplayDataWithRemainder (p : SlotDisplayDataWithRemainder) : Write :=
  encode_SlotDisplay (SlotDisplayDataWithRemainder_input_ p) ;;;
  encode_SlotDisplay (SlotDisplayDataWithRemainder_remainder p) ;;;
  ret tt.

Inductive SlotDisplayData : Type :=
  | SlotDisplayData_AnyFuel
  | SlotDisplayData_Composite (v : list SlotDisplay)
  | SlotDisplayData_Empty
  | SlotDisplayData_Item (v : Z)
  | SlotDisplayData_ItemStack (v : Slot)
  | SlotDisplayData_SmithingTrim (v : SlotDisplayDataSmithingTrim)
  | SlotDisplayData_Tag (v : string)
  | SlotDisplayData_WithRemainder (v : SlotDisplayDataWithRemainder).
Definition encode_SlotDisplayData (v : SlotDisplayData) : Write :=
  match v with
  | SlotDisplayData_AnyFuel => ret tt
  | SlotDisplayData_Composite v => encode_Vec encode_SlotDisplay v
  | SlotDisplayData_Empty => ret tt
  | SlotDisplayData_Item v => encode wire_varint v
  | SlotDisplayData_ItemStack v => encode wire_Slot v
  | SlotDisplayData_SmithingTrim v => encode_SlotDisplayDataSmithingTrim v
  | SlotDisplayData_Tag v => encode wire_String v
  | SlotDisplayData_WithRemainder v => encode_SlotDisplayDataWithRemainder v
  end.
Definition case_SlotDisplayData (d : SlotDisplayType) (v : SlotDisplayData) : bool :=
  match v with
  | SlotDisplayData_AnyFuel => on d SlotDisplayType_AnyFuel
  | SlotDisplayData_Composite _ => on d SlotDisplayType_Composite
  | SlotDisplayData_Empty => on d SlotDisplayType_Empty
  | SlotDisplayData_Item _ => on d SlotDisplayType_Item
  | SlotDisplayData_ItemStack _ => on d SlotDisplayType_ItemStack
  | SlotDisplayData_SmithingTrim _ => on d SlotDisplayType_SmithingTrim
  | SlotDisplayData_Tag _ => on d SlotDisplayType_Tag
  | SlotDisplayData_WithRemainder _ => on d SlotDisplayType_WithRemainder
  end.

End encoders.
Arguments SlotDisplayDataSmithingTrim SlotDisplay : clear implicits.
Arguments SlotDisplayDataWithRemainder SlotDisplay : clear implicits.
Arguments SlotDisplayData SlotDisplay : clear implicits.

(** ** Decoders and codecs *)

Section displays.
Context {SlotDisplay : Type} (wire_SlotDisplay : Codec SlotDisplay) (dom_SlotDisplay : SlotDisplay → Prop) (bytes_SlotDisplay : SlotDisplay → list byte).
Context `{!LawfulCodec wire_SlotDisplay dom_SlotDisplay bytes_SlotDisplay, !CodecCost dom_SlotDisplay bytes_SlotDisplay}.

Definition wire_SlotDisplayDataSmithingTrim : Codec (SlotDisplayDataSmithingTrim SlotDisplay) := {|
  encode := encode_SlotDisplayDataSmithingTrim (encode wire_SlotDisplay);
  decode :=
    let* base := decode wire_SlotDisplay in
    let* material := decode wire_SlotDisplay in
    let* pattern := decode wire_SlotDisplay in
    ret (mkSlotDisplayDataSmithingTrim base material pattern);
|}.
Definition dom_SlotDisplayDataSmithingTrim (p : SlotDisplayDataSmithingTrim SlotDisplay) : Prop :=
  dom_SlotDisplay (SlotDisplayDataSmithingTrim_base p)
  ∧ dom_SlotDisplay (SlotDisplayDataSmithingTrim_material p)
  ∧ dom_SlotDisplay (SlotDisplayDataSmithingTrim_pattern p).
Definition bytes_SlotDisplayDataSmithingTrim (p : SlotDisplayDataSmithingTrim SlotDisplay) : list byte :=
  concat [bytes_SlotDisplay (SlotDisplayDataSmithingTrim_base p);
    bytes_SlotDisplay (SlotDisplayDataSmithingTrim_material p);
    bytes_SlotDisplay (SlotDisplayDataSmithingTrim_pattern p)].
#[export] Instance lawful_SlotDisplayDataSmithingTrim : LawfulCodec wire_SlotDisplayDataSmithingTrim dom_SlotDisplayDataSmithingTrim bytes_SlotDisplayDataSmithingTrim.
Proof.
  change wire_SlotDisplayDataSmithingTrim with {|
    encode := λ p,
      encode wire_SlotDisplay (SlotDisplayDataSmithingTrim_base p) ;;;
      encode wire_SlotDisplay (SlotDisplayDataSmithingTrim_material p) ;;;
      encode wire_SlotDisplay (SlotDisplayDataSmithingTrim_pattern p) ;;;
      ret tt;
    decode := decode wire_SlotDisplayDataSmithingTrim |}. solve_struct_by wire_SlotDisplayDataSmithingTrim.
Qed.
Lemma writes_SlotDisplayDataSmithingTrim p : dom_SlotDisplayDataSmithingTrim p → writes (encode_SlotDisplayDataSmithingTrim (encode wire_SlotDisplay) p) (bytes_SlotDisplayDataSmithingTrim p).
Proof. exact (codec_writes (c := wire_SlotDisplayDataSmithingTrim) p). Qed.
#[local] Hint Resolve writes_SlotDisplayDataSmithingTrim : writes.
#[export] Instance cost_SlotDisplayDataSmithingTrim : CodecCost dom_SlotDisplayDataSmithingTrim bytes_SlotDisplayDataSmithingTrim.
Proof. solve_head. Qed.

Definition wire_SlotDisplayDataWithRemainder : Codec (SlotDisplayDataWithRemainder SlotDisplay) := {|
  encode := encode_SlotDisplayDataWithRemainder (encode wire_SlotDisplay);
  decode :=
    let* input_ := decode wire_SlotDisplay in
    let* remainder := decode wire_SlotDisplay in
    ret (mkSlotDisplayDataWithRemainder input_ remainder);
|}.
Definition dom_SlotDisplayDataWithRemainder (p : SlotDisplayDataWithRemainder SlotDisplay) : Prop :=
  dom_SlotDisplay (SlotDisplayDataWithRemainder_input_ p)
  ∧ dom_SlotDisplay (SlotDisplayDataWithRemainder_remainder p).
Definition bytes_SlotDisplayDataWithRemainder (p : SlotDisplayDataWithRemainder SlotDisplay) : list byte :=
  concat [bytes_SlotDisplay (SlotDisplayDataWithRemainder_input_ p);
    bytes_SlotDisplay (SlotDisplayDataWithRemainder_remainder p)].
#[export] Instance lawful_SlotDisplayDataWithRemainder : LawfulCodec wire_SlotDisplayDataWithRemainder dom_SlotDisplayDataWithRemainder bytes_SlotDisplayDataWithRemainder.
Proof.
  change wire_SlotDisplayDataWithRemainder with {|
    encode := λ p,
      encode wire_SlotDisplay (SlotDisplayDataWithRemainder_input_ p) ;;;
      encode wire_SlotDisplay (SlotDisplayDataWithRemainder_remainder p) ;;;
      ret tt;
    decode := decode wire_SlotDisplayDataWithRemainder |}. solve_struct_by wire_SlotDisplayDataWithRemainder.
Qed.
Lemma writes_SlotDisplayDataWithRemainder p : dom_SlotDisplayDataWithRemainder p → writes (encode_SlotDisplayDataWithRemainder (encode wire_SlotDisplay) p) (bytes_SlotDisplayDataWithRemainder p).
Proof. exact (codec_writes (c := wire_SlotDisplayDataWithRemainder) p). Qed.
#[local] Hint Resolve writes_SlotDisplayDataWithRemainder : writes.
#[export] Instance cost_SlotDisplayDataWithRemainder : CodecCost dom_SlotDisplayDataWithRemainder bytes_SlotDisplayDataWithRemainder.
Proof. solve_head. Qed.

Definition decode_from_SlotDisplayData (d : SlotDisplayType) : Read (SlotDisplayData SlotDisplay) :=
  match d with
  | SlotDisplayType_AnyFuel => ret SlotDisplayData_AnyFuel
  | SlotDisplayType_Composite => (let* v := decode (wire_Vec wire_SlotDisplay) in ret (SlotDisplayData_Composite v))
  | SlotDisplayType_Empty => ret SlotDisplayData_Empty
  | SlotDisplayType_Item => (let* v := decode wire_varint in ret (SlotDisplayData_Item v))
  | SlotDisplayType_ItemStack => (let* v := decode wire_Slot in ret (SlotDisplayData_ItemStack v))
  | SlotDisplayType_SmithingTrim => (let* v := decode wire_SlotDisplayDataSmithingTrim in ret (SlotDisplayData_SmithingTrim v))
  | SlotDisplayType_Tag => (let* v := decode wire_String in ret (SlotDisplayData_Tag v))
  | SlotDisplayType_WithRemainder => (let* v := decode wire_SlotDisplayDataWithRemainder in ret (SlotDisplayData_WithRemainder v))
  end.
Definition switch_SlotDisplayData : Switch SlotDisplayType (SlotDisplayData SlotDisplay) := mkSwitch case_SlotDisplayData (encode_SlotDisplayData (encode wire_SlotDisplay)) decode_from_SlotDisplayData.
Definition dom_SlotDisplayData (d : SlotDisplayType) (v : SlotDisplayData SlotDisplay) : Prop :=
  case_SlotDisplayData d v = true ∧
  match v with
  | SlotDisplayData_Composite v => vec_dom dom_SlotDisplay v
  | SlotDisplayData_Item v => in_i 32 v
  | SlotDisplayData_ItemStack v => dom_Slot v
  | SlotDisplayData_SmithingTrim v => dom_SlotDisplayDataSmithingTrim v
  | SlotDisplayData_Tag v => wire_string v
  | SlotDisplayData_WithRemainder v => dom_SlotDisplayDataWithRemainder v
  | _ => True
  end.
Definition bytes_SlotDisplayData (v : SlotDisplayData SlotDisplay) : list byte :=
  match v with
  | SlotDisplayData_Composite v => vec_bytes bytes_SlotDisplay v
  | SlotDisplayData_Item v => varint_bytes v
  | SlotDisplayData_ItemStack v => bytes_Slot v
  | SlotDisplayData_SmithingTrim v => bytes_SlotDisplayDataSmithingTrim v
  | SlotDisplayData_Tag v => string_bytes v
  | SlotDisplayData_WithRemainder v => bytes_SlotDisplayDataWithRemainder v
  | _ => []
  end.
#[export] Instance lawful_SlotDisplayData : LawfulSwitch switch_SlotDisplayData dom_SlotDisplayData bytes_SlotDisplayData.
Proof. solve_switch. Qed.

End displays.

(** ** Levels

    Reading never leaves the buffer if reading an item does not, and depends
    on how items are read only where fewer bytes are left. *)

Section bounds.
Context {SlotDisplay : Type} (c : Codec SlotDisplay) `{!SafeDecode c}.

#[export] Instance safe_SlotDisplayDataSmithingTrim : SafeDecode (wire_SlotDisplayDataSmithingTrim c).
Proof. unfold SafeDecode, wire_SlotDisplayDataSmithingTrim. cbn [decode]. mauto. Qed.
#[export] Instance safe_SlotDisplayDataWithRemainder : SafeDecode (wire_SlotDisplayDataWithRemainder c).
Proof. unfold SafeDecode, wire_SlotDisplayDataWithRemainder. cbn [decode]. mauto. Qed.
#[export] Instance safe_SlotDisplayData : SafeSwitch (switch_SlotDisplayData c).
Proof. intros d. unfold switch_SlotDisplayData, decode_from_SlotDisplayData. cbn [sw_decode]. mauto. Qed.
End bounds.

Section agree.
Context {SlotDisplay : Type} (c c' : Codec SlotDisplay) `{!SafeDecode c} (k : nat).
Context (Hc : agree k (decode c) (decode c')).
#[local] Hint Resolve Hc : agree.

Lemma agree_SlotDisplayDataSmithingTrim : agree k (decode (wire_SlotDisplayDataSmithingTrim c)) (decode (wire_SlotDisplayDataSmithingTrim c')).
Proof using All. unfold wire_SlotDisplayDataSmithingTrim. cbn [decode]. solve_agree. Qed.
#[local] Hint Resolve agree_SlotDisplayDataSmithingTrim : agree.

Lemma agree_SlotDisplayDataWithRemainder : agree k (decode (wire_SlotDisplayDataWithRemainder c)) (decode (wire_SlotDisplayDataWithRemainder c')).
Proof using All. unfold wire_SlotDisplayDataWithRemainder. cbn [decode]. solve_agree. Qed.
#[local] Hint Resolve agree_SlotDisplayDataWithRemainder : agree.

Lemma agree_SlotDisplayData d : agree k (sw_decode (switch_SlotDisplayData c) d) (sw_decode (switch_SlotDisplayData c') d).
Proof using All. unfold switch_SlotDisplayData, decode_from_SlotDisplayData. cbn [sw_decode]. solve_agree. Qed.
#[local] Hint Resolve agree_SlotDisplayData : agree.

End agree.

Lemma progress_display_type : progress (decode wire_SlotDisplayType).
Proof.
  unfold wire_SlotDisplayType. cbn [decode]. apply progress_bind; [apply progress_varint|]. intros value. mauto.
Qed.

(** ** Slot displays *)

#[local] Unset Elimination Schemes.
Inductive SlotDisplay : Type := mkSlotDisplay {
  SlotDisplay_type : SlotDisplayType;
  SlotDisplay_data : SlotDisplayData SlotDisplay;
}.
#[local] Set Elimination Schemes.

(** One level, over the codec of the levels below. *)
Section level_SlotDisplay.
Context (wire_SlotDisplay : Codec SlotDisplay) (dom_SlotDisplay : SlotDisplay → Prop) (bytes_SlotDisplay : SlotDisplay → list byte).
Context `{!LawfulCodec wire_SlotDisplay dom_SlotDisplay bytes_SlotDisplay, !CodecCost dom_SlotDisplay bytes_SlotDisplay}.

Definition level_SlotDisplay : Codec SlotDisplay := {|
  encode p :=
    encode wire_SlotDisplayType (SlotDisplay_type p) ;;;
    encode_at (switch_SlotDisplayData wire_SlotDisplay) (SlotDisplay_type p) (SlotDisplay_data p) ;;;
    ret tt;
  decode :=
    let* type_ := decode wire_SlotDisplayType in
    let* data := sw_decode (switch_SlotDisplayData wire_SlotDisplay) type_ in
    ret (mkSlotDisplay type_ data);
|}.
Definition dom_level_SlotDisplay (p : SlotDisplay) : Prop :=
  dom_SlotDisplayType (SlotDisplay_type p)
  ∧ dom_SlotDisplayData dom_SlotDisplay (SlotDisplay_type p) (SlotDisplay_data p).
Definition bytes_level_SlotDisplay (p : SlotDisplay) : list byte :=
  concat [bytes_SlotDisplayType (SlotDisplay_type p);
    bytes_SlotDisplayData bytes_SlotDisplay (SlotDisplay_data p)].
#[export] Instance lawful_level_SlotDisplay : LawfulCodec level_SlotDisplay dom_level_SlotDisplay bytes_level_SlotDisplay.
Proof. solve_struct. Qed.
#[export] Instance cost_level_SlotDisplay : CodecCost dom_level_SlotDisplay bytes_level_SlotDisplay.
Proof using Type. solve_head. Qed.
End level_SlotDisplay.

Fixpoint encode_SlotDisplay (p : SlotDisplay) : Write :=
  encode wire_SlotDisplayType (SlotDisplay_type p) ;;;
  only (case_SlotDisplayData (SlotDisplay_type p) (SlotDisplay_data p)) (encode_SlotDisplayData encode_SlotDisplay (SlotDisplay_data p)) ;;;
  ret tt.

Definition wire_SlotDisplay : Codec SlotDisplay := knot level_SlotDisplay encode_SlotDisplay.
Definition dom_SlotDisplay : SlotDisplay → Prop := knot_dom dom_level_SlotDisplay.
Definition bytes_SlotDisplay : SlotDisplay → list byte := knot_bytes encode_SlotDisplay.

#[export] Instance guarded_SlotDisplay : Guarded level_SlotDisplay.
Proof.
  split.
  - intros c Hc. change (SafeDecode c) in Hc. unfold level_SlotDisplay. cbn [decode]. mauto.
  - intros c c' k Hb Hc. pose proof (Hb : SafeDecode c). unfold level_SlotDisplay. cbn [decode].
    apply agree_bind_progress; [apply progress_display_type|intros kind].
    apply agree_bind; [mauto|by apply agree_SlotDisplayData|intros v; apply agree_refl].
Qed.

Lemma encode_SlotDisplay_eq p : encode_SlotDisplay p = encode (level_SlotDisplay wire_SlotDisplay) p.
Proof. by destruct p. Qed.

#[export] Instance lawful_SlotDisplay : LawfulCodec wire_SlotDisplay dom_SlotDisplay bytes_SlotDisplay.
Proof. apply (knot_lawful _ _ _ bytes_level_SlotDisplay encode_SlotDisplay_eq); [intros; apply lawful_level_SlotDisplay; done|apply cost_level_SlotDisplay]. Qed.
#[export] Instance cost_SlotDisplay : CodecCost dom_SlotDisplay bytes_SlotDisplay.
Proof. apply (knot_cost _ _ _ bytes_level_SlotDisplay encode_SlotDisplay_eq); [intros; apply lawful_level_SlotDisplay; done|apply cost_level_SlotDisplay]. Qed.
#[export] Instance safe_SlotDisplay : SafeDecode wire_SlotDisplay.
Proof. apply knot_bounds, _. Qed.

(** ** Recipe displays *)

Record RecipeDisplayDataCraftingShaped : Type := mkRecipeDisplayDataCraftingShaped {
  RecipeDisplayDataCraftingShaped_width : Z;
  RecipeDisplayDataCraftingShaped_height : Z;
  RecipeDisplayDataCraftingShaped_ingredients : list SlotDisplay;
  RecipeDisplayDataCraftingShaped_result : SlotDisplay;
  RecipeDisplayDataCraftingShaped_crafting_station : SlotDisplay;
}.
Definition wire_RecipeDisplayDataCraftingShaped : Codec RecipeDisplayDataCraftingShaped := {|
  encode p :=
    modify (write_varint (RecipeDisplayDataCraftingShaped_width p)) ;;;
    modify (write_varint (RecipeDisplayDataCraftingShaped_height p)) ;;;
    encode (wire_Vec wire_SlotDisplay) (RecipeDisplayDataCraftingShaped_ingredients p) ;;;
    encode wire_SlotDisplay (RecipeDisplayDataCraftingShaped_result p) ;;;
    encode wire_SlotDisplay (RecipeDisplayDataCraftingShaped_crafting_station p) ;;;
    ret tt;
  decode :=
    let* width := read_varint in
    let* height := read_varint in
    let* ingredients := decode (wire_Vec wire_SlotDisplay) in
    let* result := decode wire_SlotDisplay in
    let* crafting_station := decode wire_SlotDisplay in
    ret (mkRecipeDisplayDataCraftingShaped width height ingredients result crafting_station);
|}.
Definition dom_RecipeDisplayDataCraftingShaped (p : RecipeDisplayDataCraftingShaped) : Prop :=
  in_i 32 (RecipeDisplayDataCraftingShaped_width p)
  ∧ in_i 32 (RecipeDisplayDataCraftingShaped_height p)
  ∧ vec_dom dom_SlotDisplay (RecipeDisplayDataCraftingShaped_ingredients p)
  ∧ dom_SlotDisplay (RecipeDisplayDataCraftingShaped_result p)
  ∧ dom_SlotDisplay (RecipeDisplayDataCraftingShaped_crafting_station p).
Definition bytes_RecipeDisplayDataCraftingShaped (p : RecipeDisplayDataCraftingShaped) : list byte :=
  concat [varint_bytes (RecipeDisplayDataCraftingShaped_width p);
    varint_bytes (RecipeDisplayDataCraftingShaped_height p);
    vec_bytes bytes_SlotDisplay (RecipeDisplayDataCraftingShaped_ingredients p);
    bytes_SlotDisplay (RecipeDisplayDataCraftingShaped_result p);
    bytes_SlotDisplay (RecipeDisplayDataCraftingShaped_crafting_station p)].
#[export] Instance lawful_RecipeDisplayDataCraftingShaped : LawfulCodec wire_RecipeDisplayDataCraftingShaped dom_RecipeDisplayDataCraftingShaped bytes_RecipeDisplayDataCraftingShaped.
Proof. solve_struct. Qed.
#[export] Instance cost_RecipeDisplayDataCraftingShaped : CodecCost dom_RecipeDisplayDataCraftingShaped bytes_RecipeDisplayDataCraftingShaped.
Proof. solve_head. Qed.

Record RecipeDisplayDataCraftingShapeless : Type := mkRecipeDisplayDataCraftingShapeless {
  RecipeDisplayDataCraftingShapeless_ingredients : list SlotDisplay;
  RecipeDisplayDataCraftingShapeless_result : SlotDisplay;
  RecipeDisplayDataCraftingShapeless_crafting_station : SlotDisplay;
}.
Definition wire_RecipeDisplayDataCraftingShapeless : Codec RecipeDisplayDataCraftingShapeless := {|
  encode p :=
    encode (wire_Vec wire_SlotDisplay) (RecipeDisplayDataCraftingShapeless_ingredients p) ;;;
    encode wire_SlotDisplay (RecipeDisplayDataCraftingShapeless_result p) ;;;
    encode wire_SlotDisplay (RecipeDisplayDataCraftingShapeless_crafting_station p) ;;;
    ret tt;
  decode :=
    let* ingredients := decode (wire_Vec wire_SlotDisplay) in
    let* result := decode wire_SlotDisplay in
    let* crafting_station := decode wire_SlotDisplay in
    ret (mkRecipeDisplayDataCraftingShapeless ingredients result crafting_station);
|}.
Definition dom_RecipeDisplayDataCraftingShapeless (p : RecipeDisplayDataCraftingShapeless) : Prop :=
  vec_dom dom_SlotDisplay (RecipeDisplayDataCraftingShapeless_ingredients p)
  ∧ dom_SlotDisplay (RecipeDisplayDataCraftingShapeless_result p)
  ∧ dom_SlotDisplay (RecipeDisplayDataCraftingShapeless_crafting_station p).
Definition bytes_RecipeDisplayDataCraftingShapeless (p : RecipeDisplayDataCraftingShapeless) : list byte :=
  concat [vec_bytes bytes_SlotDisplay (RecipeDisplayDataCraftingShapeless_ingredients p);
    bytes_SlotDisplay (RecipeDisplayDataCraftingShapeless_result p);
    bytes_SlotDisplay (RecipeDisplayDataCraftingShapeless_crafting_station p)].
#[export] Instance lawful_RecipeDisplayDataCraftingShapeless : LawfulCodec wire_RecipeDisplayDataCraftingShapeless dom_RecipeDisplayDataCraftingShapeless bytes_RecipeDisplayDataCraftingShapeless.
Proof. solve_struct. Qed.
#[export] Instance cost_RecipeDisplayDataCraftingShapeless : CodecCost dom_RecipeDisplayDataCraftingShapeless bytes_RecipeDisplayDataCraftingShapeless.
Proof. solve_head. Qed.

Record RecipeDisplayDataFurnace : Type := mkRecipeDisplayDataFurnace {
  RecipeDisplayDataFurnace_ingredient : SlotDisplay;
  RecipeDisplayDataFurnace_fuel : SlotDisplay;
  RecipeDisplayDataFurnace_result : SlotDisplay;
  RecipeDisplayDataFurnace_crafting_station : SlotDisplay;
  RecipeDisplayDataFurnace_duration : Z;
  RecipeDisplayDataFurnace_experience : Z;
}.
Definition wire_RecipeDisplayDataFurnace : Codec RecipeDisplayDataFurnace := {|
  encode p :=
    encode wire_SlotDisplay (RecipeDisplayDataFurnace_ingredient p) ;;;
    encode wire_SlotDisplay (RecipeDisplayDataFurnace_fuel p) ;;;
    encode wire_SlotDisplay (RecipeDisplayDataFurnace_result p) ;;;
    encode wire_SlotDisplay (RecipeDisplayDataFurnace_crafting_station p) ;;;
    modify (write_varint (RecipeDisplayDataFurnace_duration p)) ;;;
    encode wire_f32 (RecipeDisplayDataFurnace_experience p) ;;;
    ret tt;
  decode :=
    let* ingredient := decode wire_SlotDisplay in
    let* fuel := decode wire_SlotDisplay in
    let* result := decode wire_SlotDisplay in
    let* crafting_station := decode wire_SlotDisplay in
    let* duration := read_varint in
    let* experience := decode wire_f32 in
    ret (mkRecipeDisplayDataFurnace ingredient fuel result crafting_station duration experience);
|}.
Definition dom_RecipeDisplayDataFurnace (p : RecipeDisplayDataFurnace) : Prop :=
  dom_SlotDisplay (RecipeDisplayDataFurnace_ingredient p)
  ∧ dom_SlotDisplay (RecipeDisplayDataFurnace_fuel p)
  ∧ dom_SlotDisplay (RecipeDisplayDataFurnace_result p)
  ∧ dom_SlotDisplay (RecipeDisplayDataFurnace_crafting_station p)
  ∧ in_i 32 (RecipeDisplayDataFurnace_duration p)
  ∧ in_u 32 (RecipeDisplayDataFurnace_experience p).
Definition bytes_RecipeDisplayDataFurnace (p : RecipeDisplayDataFurnace) : list byte :=
  concat [bytes_SlotDisplay (RecipeDisplayDataFurnace_ingredient p);
    bytes_SlotDisplay (RecipeDisplayDataFurnace_fuel p);
    bytes_SlotDisplay (RecipeDisplayDataFurnace_result p);
    bytes_SlotDisplay (RecipeDisplayDataFurnace_crafting_station p);
    varint_bytes (RecipeDisplayDataFurnace_duration p);
    be_bytes 4 (RecipeDisplayDataFurnace_experience p)].
#[export] Instance lawful_RecipeDisplayDataFurnace : LawfulCodec wire_RecipeDisplayDataFurnace dom_RecipeDisplayDataFurnace bytes_RecipeDisplayDataFurnace.
Proof. solve_struct. Qed.
#[export] Instance cost_RecipeDisplayDataFurnace : CodecCost dom_RecipeDisplayDataFurnace bytes_RecipeDisplayDataFurnace.
Proof. solve_head. Qed.

Record RecipeDisplayDataSmithing : Type := mkRecipeDisplayDataSmithing {
  RecipeDisplayDataSmithing_template : SlotDisplay;
  RecipeDisplayDataSmithing_base : SlotDisplay;
  RecipeDisplayDataSmithing_addition : SlotDisplay;
  RecipeDisplayDataSmithing_result : SlotDisplay;
  RecipeDisplayDataSmithing_crafting_station : SlotDisplay;
}.
Definition wire_RecipeDisplayDataSmithing : Codec RecipeDisplayDataSmithing := {|
  encode p :=
    encode wire_SlotDisplay (RecipeDisplayDataSmithing_template p) ;;;
    encode wire_SlotDisplay (RecipeDisplayDataSmithing_base p) ;;;
    encode wire_SlotDisplay (RecipeDisplayDataSmithing_addition p) ;;;
    encode wire_SlotDisplay (RecipeDisplayDataSmithing_result p) ;;;
    encode wire_SlotDisplay (RecipeDisplayDataSmithing_crafting_station p) ;;;
    ret tt;
  decode :=
    let* template := decode wire_SlotDisplay in
    let* base := decode wire_SlotDisplay in
    let* addition := decode wire_SlotDisplay in
    let* result := decode wire_SlotDisplay in
    let* crafting_station := decode wire_SlotDisplay in
    ret (mkRecipeDisplayDataSmithing template base addition result crafting_station);
|}.
Definition dom_RecipeDisplayDataSmithing (p : RecipeDisplayDataSmithing) : Prop :=
  dom_SlotDisplay (RecipeDisplayDataSmithing_template p)
  ∧ dom_SlotDisplay (RecipeDisplayDataSmithing_base p)
  ∧ dom_SlotDisplay (RecipeDisplayDataSmithing_addition p)
  ∧ dom_SlotDisplay (RecipeDisplayDataSmithing_result p)
  ∧ dom_SlotDisplay (RecipeDisplayDataSmithing_crafting_station p).
Definition bytes_RecipeDisplayDataSmithing (p : RecipeDisplayDataSmithing) : list byte :=
  concat [bytes_SlotDisplay (RecipeDisplayDataSmithing_template p);
    bytes_SlotDisplay (RecipeDisplayDataSmithing_base p);
    bytes_SlotDisplay (RecipeDisplayDataSmithing_addition p);
    bytes_SlotDisplay (RecipeDisplayDataSmithing_result p);
    bytes_SlotDisplay (RecipeDisplayDataSmithing_crafting_station p)].
#[export] Instance lawful_RecipeDisplayDataSmithing : LawfulCodec wire_RecipeDisplayDataSmithing dom_RecipeDisplayDataSmithing bytes_RecipeDisplayDataSmithing.
Proof. solve_struct. Qed.
#[export] Instance cost_RecipeDisplayDataSmithing : CodecCost dom_RecipeDisplayDataSmithing bytes_RecipeDisplayDataSmithing.
Proof. solve_head. Qed.

Record RecipeDisplayDataStonecutter : Type := mkRecipeDisplayDataStonecutter {
  RecipeDisplayDataStonecutter_ingredient : SlotDisplay;
  RecipeDisplayDataStonecutter_result : SlotDisplay;
  RecipeDisplayDataStonecutter_crafting_station : SlotDisplay;
}.
Definition wire_RecipeDisplayDataStonecutter : Codec RecipeDisplayDataStonecutter := {|
  encode p :=
    encode wire_SlotDisplay (RecipeDisplayDataStonecutter_ingredient p) ;;;
    encode wire_SlotDisplay (RecipeDisplayDataStonecutter_result p) ;;;
    encode wire_SlotDisplay (RecipeDisplayDataStonecutter_crafting_station p) ;;;
    ret tt;
  decode :=
    let* ingredient := decode wire_SlotDisplay in
    let* result := decode wire_SlotDisplay in
    let* crafting_station := decode wire_SlotDisplay in
    ret (mkRecipeDisplayDataStonecutter ingredient result crafting_station);
|}.
Definition dom_RecipeDisplayDataStonecutter (p : RecipeDisplayDataStonecutter) : Prop :=
  dom_SlotDisplay (RecipeDisplayDataStonecutter_ingredient p)
  ∧ dom_SlotDisplay (RecipeDisplayDataStonecutter_result p)
  ∧ dom_SlotDisplay (RecipeDisplayDataStonecutter_crafting_station p).
Definition bytes_RecipeDisplayDataStonecutter (p : RecipeDisplayDataStonecutter) : list byte :=
  concat [bytes_SlotDisplay (RecipeDisplayDataStonecutter_ingredient p);
    bytes_SlotDisplay (RecipeDisplayDataStonecutter_result p);
    bytes_SlotDisplay (RecipeDisplayDataStonecutter_crafting_station p)].
#[export] Instance lawful_RecipeDisplayDataStonecutter : LawfulCodec wire_RecipeDisplayDataStonecutter dom_RecipeDisplayDataStonecutter bytes_RecipeDisplayDataStonecutter.
Proof. solve_struct. Qed.
#[export] Instance cost_RecipeDisplayDataStonecutter : CodecCost dom_RecipeDisplayDataStonecutter bytes_RecipeDisplayDataStonecutter.
Proof. solve_head. Qed.

Inductive RecipeDisplayData : Type :=
  | RecipeDisplayData_CraftingShaped (v : RecipeDisplayDataCraftingShaped)
  | RecipeDisplayData_CraftingShapeless (v : RecipeDisplayDataCraftingShapeless)
  | RecipeDisplayData_Furnace (v : RecipeDisplayDataFurnace)
  | RecipeDisplayData_Smithing (v : RecipeDisplayDataSmithing)
  | RecipeDisplayData_Stonecutter (v : RecipeDisplayDataStonecutter).
Definition encode_RecipeDisplayData (v : RecipeDisplayData) : Write :=
  match v with
  | RecipeDisplayData_CraftingShaped v => encode wire_RecipeDisplayDataCraftingShaped v
  | RecipeDisplayData_CraftingShapeless v => encode wire_RecipeDisplayDataCraftingShapeless v
  | RecipeDisplayData_Furnace v => encode wire_RecipeDisplayDataFurnace v
  | RecipeDisplayData_Smithing v => encode wire_RecipeDisplayDataSmithing v
  | RecipeDisplayData_Stonecutter v => encode wire_RecipeDisplayDataStonecutter v
  end.
Definition decode_from_RecipeDisplayData (d : RecipeDisplayType) : Read RecipeDisplayData :=
  match d with
  | RecipeDisplayType_CraftingShaped => (let* v := decode wire_RecipeDisplayDataCraftingShaped in ret (RecipeDisplayData_CraftingShaped v))
  | RecipeDisplayType_CraftingShapeless => (let* v := decode wire_RecipeDisplayDataCraftingShapeless in ret (RecipeDisplayData_CraftingShapeless v))
  | RecipeDisplayType_Furnace => (let* v := decode wire_RecipeDisplayDataFurnace in ret (RecipeDisplayData_Furnace v))
  | RecipeDisplayType_Smithing => (let* v := decode wire_RecipeDisplayDataSmithing in ret (RecipeDisplayData_Smithing v))
  | RecipeDisplayType_Stonecutter => (let* v := decode wire_RecipeDisplayDataStonecutter in ret (RecipeDisplayData_Stonecutter v))
  end.
Definition case_RecipeDisplayData (d : RecipeDisplayType) (v : RecipeDisplayData) : bool :=
  match v with
  | RecipeDisplayData_CraftingShaped _ => on d RecipeDisplayType_CraftingShaped
  | RecipeDisplayData_CraftingShapeless _ => on d RecipeDisplayType_CraftingShapeless
  | RecipeDisplayData_Furnace _ => on d RecipeDisplayType_Furnace
  | RecipeDisplayData_Smithing _ => on d RecipeDisplayType_Smithing
  | RecipeDisplayData_Stonecutter _ => on d RecipeDisplayType_Stonecutter
  end.
Definition switch_RecipeDisplayData : Switch RecipeDisplayType RecipeDisplayData := mkSwitch case_RecipeDisplayData encode_RecipeDisplayData decode_from_RecipeDisplayData.
Definition dom_RecipeDisplayData (d : RecipeDisplayType) (v : RecipeDisplayData) : Prop :=
  case_RecipeDisplayData d v = true ∧
  match v with
  | RecipeDisplayData_CraftingShaped v => dom_RecipeDisplayDataCraftingShaped v
  | RecipeDisplayData_CraftingShapeless v => dom_RecipeDisplayDataCraftingShapeless v
  | RecipeDisplayData_Furnace v => dom_RecipeDisplayDataFurnace v
  | RecipeDisplayData_Smithing v => dom_RecipeDisplayDataSmithing v
  | RecipeDisplayData_Stonecutter v => dom_RecipeDisplayDataStonecutter v
  end.
Definition bytes_RecipeDisplayData (v : RecipeDisplayData) : list byte :=
  match v with
  | RecipeDisplayData_CraftingShaped v => bytes_RecipeDisplayDataCraftingShaped v
  | RecipeDisplayData_CraftingShapeless v => bytes_RecipeDisplayDataCraftingShapeless v
  | RecipeDisplayData_Furnace v => bytes_RecipeDisplayDataFurnace v
  | RecipeDisplayData_Smithing v => bytes_RecipeDisplayDataSmithing v
  | RecipeDisplayData_Stonecutter v => bytes_RecipeDisplayDataStonecutter v
  end.
#[export] Instance lawful_RecipeDisplayData : LawfulSwitch switch_RecipeDisplayData dom_RecipeDisplayData bytes_RecipeDisplayData.
Proof. solve_switch. Qed.

Record RecipeDisplay : Type := mkRecipeDisplay {
  RecipeDisplay_type : RecipeDisplayType;
  RecipeDisplay_data : RecipeDisplayData;
}.
Definition wire_RecipeDisplay : Codec RecipeDisplay := {|
  encode p :=
    encode wire_RecipeDisplayType (RecipeDisplay_type p) ;;;
    encode_at switch_RecipeDisplayData (RecipeDisplay_type p) (RecipeDisplay_data p) ;;;
    ret tt;
  decode :=
    let* type_ := decode wire_RecipeDisplayType in
    let* data := sw_decode switch_RecipeDisplayData type_ in
    ret (mkRecipeDisplay type_ data);
|}.
Definition dom_RecipeDisplay (p : RecipeDisplay) : Prop :=
  dom_RecipeDisplayType (RecipeDisplay_type p)
  ∧ dom_RecipeDisplayData (RecipeDisplay_type p) (RecipeDisplay_data p).
Definition bytes_RecipeDisplay (p : RecipeDisplay) : list byte :=
  concat [bytes_RecipeDisplayType (RecipeDisplay_type p);
    bytes_RecipeDisplayData (RecipeDisplay_data p)].
#[export] Instance lawful_RecipeDisplay : LawfulCodec wire_RecipeDisplay dom_RecipeDisplay bytes_RecipeDisplay.
Proof. solve_struct. Qed.
#[export] Instance cost_RecipeDisplay : CodecCost dom_RecipeDisplay bytes_RecipeDisplay.
Proof. solve_head. Qed.
