(* ===== verification/PlayPacketsSwitch.v ===== *)
(** * Play packets from the server, continued

    The remaining structs of [generated/v1_21_4/play.rs] a server sends: items,
    entity metadata, commands, recipes, and fields selected by an earlier one. *)

From S2P Require Import Prelude Machine Reader Varint Utf8 Buffer Wire Nbt PacketTypes Switch Recursion ItemTypes Items EntityData CommandNodes Displays PlayPackets.

Local Open Scope Z_scope.

(** ** Shared types *)

#[export] Instance cost_PacketMapIconsValueItem : CodecCost dom_PacketMapIconsValueItem bytes_PacketMapIconsValueItem.
Proof. solve_head. Qed.

Record PacketTileEntityData : Type := mkPacketTileEntityData {
  PacketTileEntityData_location : Position;
  PacketTileEntityData_action : Z;
  PacketTileEntityData_nbt_data : option Nbt;
}.
Definition wire_PacketTileEntityData : Codec PacketTileEntityData := {|
  encode p :=
    encode wire_Position (PacketTileEntityData_location p) ;;;
    modify (write_varint (PacketTileEntityData_action p)) ;;;
    encode wire_OptNbt (PacketTileEntityData_nbt_data p) ;;;
    ret tt;
  decode :=
    let* location := decode wire_Position in
    let* action := read_varint in
    let* nbt_data := decode wire_OptNbt in
    ret (mkPacketTileEntityData location action nbt_data);
|}.
Definition dom_PacketTileEntityData (p : PacketTileEntityData) : Prop :=
  dom_Position (PacketTileEntityData_location p)
  ∧ in_i 32 (PacketTileEntityData_action p)
  ∧ option_dom nbt_fits (PacketTileEntityData_nbt_data p).
Definition bytes_PacketTileEntityData (p : PacketTileEntityData) : list byte :=
  concat [bytes_Position (PacketTileEntityData_location p);
    varint_bytes (PacketTileEntityData_action p);
    optnbt_bytes (PacketTileEntityData_nbt_data p)].
#[export] Instance lawful_PacketTileEntityData : LawfulCodec wire_PacketTileEntityData dom_PacketTileEntityData bytes_PacketTileEntityData.
Proof. solve_struct. Qed.
#[export] Instance cost_PacketTileEntityData : CodecCost dom_PacketTileEntityData bytes_PacketTileEntityData.
Proof. solve_head. Qed.

Inductive PacketBossBarTitle : Type :=
  | PacketBossBarTitle_V0 (v : Nbt)
  | PacketBossBarTitle_V3 (v : Nbt)
  | PacketBossBarTitle_Default.
Definition encode_PacketBossBarTitle (v : PacketBossBarTitle) : Write :=
  match v with
  | PacketBossBarTitle_V0 v => encode wire_Nbt v
  | PacketBossBarTitle_V3 v => encode wire_Nbt v
  | PacketBossBarTitle_Default => ret tt
  end.
Definition decode_from_PacketBossBarTitle (d : Z) : Read PacketBossBarTitle :=
  if on d 0 then (let* v := decode wire_Nbt in ret (PacketBossBarTitle_V0 v))
  else if on d 3 then (let* v := decode wire_Nbt in ret (PacketBossBarTitle_V3 v))
  else ret PacketBossBarTitle_Default.
Definition case_PacketBossBarTitle (d : Z) (v : PacketBossBarTitle) : bool :=
  match v with
  | PacketBossBarTitle_V0 _ => on d 0
  | PacketBossBarTitle_V3 _ => on d 3
  | PacketBossBarTitle_Default => negb (on d 0) && negb (on d 3)
  end.
Definition switch_PacketBossBarTitle : Switch Z PacketBossBarTitle := mkSwitch case_PacketBossBarTitle encode_PacketBossBarTitle decode_from_PacketBossBarTitle.
Definition dom_PacketBossBarTitle (d : Z) (v : PacketBossBarTitle) : Prop :=
  case_PacketBossBarTitle d v = true ∧
  match v with
  | PacketBossBarTitle_V0 v => nbt_fits v
  | PacketBossBarTitle_V3 v => nbt_fits v
  | _ => True
  end.
Definition bytes_PacketBossBarTitle (v : PacketBossBarTitle) : list byte :=
  match v with
  | PacketBossBarTitle_V0 v => nbt_bytes v
  | PacketBossBarTitle_V3 v => nbt_bytes v
  | _ => []
  end.
#[export] Instance lawful_PacketBossBarTitle : LawfulSwitch switch_PacketBossBarTitle dom_PacketBossBarTitle bytes_PacketBossBarTitle.
Proof. solve_switch. Qed.

Inductive PacketBossBarHealth : Type :=
  | PacketBossBarHealth_V0 (v : Z)
  | PacketBossBarHealth_V2 (v : Z)
  | PacketBossBarHealth_Default.
Definition encode_PacketBossBarHealth (v : PacketBossBarHealth) : Write :=
  match v with
  | PacketBossBarHealth_V0 v => encode wire_f32 v
  | PacketBossBarHealth_V2 v => encode wire_f32 v
  | PacketBossBarHealth_Default => ret tt
  end.
Definition decode_from_PacketBossBarHealth (d : Z) : Read PacketBossBarHealth :=
  if on d 0 then (let* v := decode wire_f32 in ret (PacketBossBarHealth_V0 v))
  else if on d 2 then (let* v := decode wire_f32 in ret (PacketBossBarHealth_V2 v))
  else ret PacketBossBarHealth_Default.
Definition case_PacketBossBarHealth (d : Z) (v : PacketBossBarHealth) : bool :=
  match v with
  | PacketBossBarHealth_V0 _ => on d 0
  | PacketBossBarHealth_V2 _ => on d 2
  | PacketBossBarHealth_Default => negb (on d 0) && negb (on d 2)
  end.
Definition switch_PacketBossBarHealth : Switch Z PacketBossBarHealth := mkSwitch case_PacketBossBarHealth encode_PacketBossBarHealth decode_from_PacketBossBarHealth.
Definition dom_PacketBossBarHealth (d : Z) (v : PacketBossBarHealth) : Prop :=
  case_PacketBossBarHealth d v = true ∧
  match v with
  | PacketBossBarHealth_V0 v => in_u 32 v
  | PacketBossBarHealth_V2 v => in_u 32 v
  | _ => True
  end.
Definition bytes_PacketBossBarHealth (v : PacketBossBarHealth) : list byte :=
  match v with
  | PacketBossBarHealth_V0 v => be_bytes 4 v
  | PacketBossBarHealth_V2 v => be_bytes 4 v
  | _ => []
  end.
#[export] Instance lawful_PacketBossBarHealth : LawfulSwitch switch_PacketBossBarHealth dom_PacketBossBarHealth bytes_PacketBossBarHealth.
Proof. solve_switch. Qed.

Inductive PacketBossBarColor : Type :=
  | PacketBossBarColor_V0 (v : Z)
  | PacketBossBarColor_V4 (v : Z)
  | PacketBossBarColor_Default.
Definition encode_PacketBossBarColor (v : PacketBossBarColor) : Write :=
  match v with
  | PacketBossBarColor_V0 v => encode wire_varint v
  | PacketBossBarColor_V4 v => encode wire_varint v
  | PacketBossBarColor_Default => ret tt
  end.
Definition decode_from_PacketBossBarColor (d : Z) : Read PacketBossBarColor :=
  if on d 0 then (let* v := decode wire_varint in ret (PacketBossBarColor_V0 v))
  else if on d 4 then (let* v := decode wire_varint in ret (PacketBossBarColor_V4 v))
  else ret PacketBossBarColor_Default.
Definition case_PacketBossBarColor (d : Z) (v : PacketBossBarColor) : bool :=
  match v with
  | PacketBossBarColor_V0 _ => on d 0
  | PacketBossBarColor_V4 _ => on d 4
  | PacketBossBarColor_Default => negb (on d 0) && negb (on d 4)
  end.
Definition switch_PacketBossBarColor : Switch Z PacketBossBarColor := mkSwitch case_PacketBossBarColor encode_PacketBossBarColor decode_from_PacketBossBarColor.
Definition dom_PacketBossBarColor (d : Z) (v : PacketBossBarColor) : Prop :=
  case_PacketBossBarColor d v = true ∧
  match v with
  | PacketBossBarColor_V0 v => in_i 32 v
  | PacketBossBarColor_V4 v => in_i 32 v
  | _ => True
  end.
Definition bytes_PacketBossBarColor (v : PacketBossBarColor) : list byte :=
  match v with
  | PacketBossBarColor_V0 v => varint_bytes v
  | PacketBossBarColor_V4 v => varint_bytes v
  | _ => []
  end.
#[export] Instance lawful_PacketBossBarColor : LawfulSwitch switch_PacketBossBarColor dom_PacketBossBarColor bytes_PacketBossBarColor.
Proof. solve_switch. Qed.

Inductive PacketBossBarDividers : Type :=
  | PacketBossBarDividers_V0 (v : Z)
  | PacketBossBarDividers_V4 (v : Z)
  | PacketBossBarDividers_Default.
Definition encode_PacketBossBarDividers (v : PacketBossBarDividers) : Write :=
  match v with
  | PacketBossBarDividers_V0 v => encode wire_varint v
  | PacketBossBarDividers_V4 v => encode wire_varint v
  | PacketBossBarDividers_Default => ret tt
  end.
Definition decode_from_PacketBossBarDividers (d : Z) : Read PacketBossBarDividers :=
  if on d 0 then (let* v := decode wire_varint in ret (PacketBossBarDividers_V0 v))
  else if on d 4 then (let* v := decode wire_varint in ret (PacketBossBarDividers_V4 v))
  else ret PacketBossBarDividers_Default.
Definition case_PacketBossBarDividers (d : Z) (v : PacketBossBarDividers) : bool :=
  match v with
  | PacketBossBarDividers_V0 _ => on d 0
  | PacketBossBarDividers_V4 _ => on d 4
  | PacketBossBarDividers_Default => negb (on d 0) && negb (on d 4)
  end.
Definition switch_PacketBossBarDividers : Switch Z PacketBossBarDividers := mkSwitch case_PacketBossBarDividers encode_PacketBossBarDividers decode_from_PacketBossBarDividers.
Definition dom_PacketBossBarDividers (d : Z) (v : PacketBossBarDividers) : Prop :=
  case_PacketBossBarDividers d v = true ∧
  match v with
  | PacketBossBarDividers_V0 v => in_i 32 v
  | PacketBossBarDividers_V4 v => in_i 32 v
  | _ => True
  end.
Definition bytes_PacketBossBarDividers (v : PacketBossBarDividers) : list byte :=
  match v with
  | PacketBossBarDividers_V0 v => varint_bytes v
  | PacketBossBarDividers_V4 v => varint_bytes v
  | _ => []
  end.
#[export] Instance lawful_PacketBossBarDividers : LawfulSwitch switch_PacketBossBarDividers dom_PacketBossBarDividers bytes_PacketBossBarDividers.
Proof. solve_switch. Qed.

Inductive PacketBossBarFlags : Type :=
  | PacketBossBarFlags_V0 (v : Z)
  | PacketBossBarFlags_V5 (v : Z)
  | PacketBossBarFlags_Default.
Definition encode_PacketBossBarFlags (v : PacketBossBarFlags) : Write :=
  match v with
  | PacketBossBarFlags_V0 v => encode wire_u8 v
  | PacketBossBarFlags_V5 v => encode wire_u8 v
  | PacketBossBarFlags_Default => ret tt
  end.
Definition decode_from_PacketBossBarFlags (d : Z) : Read PacketBossBarFlags :=
  if on d 0 then (let* v := decode wire_u8 in ret (PacketBossBarFlags_V0 v))
  else if on d 5 then (let* v := decode wire_u8 in ret (PacketBossBarFlags_V5 v))
  else ret PacketBossBarFlags_Default.
Definition case_PacketBossBarFlags (d : Z) (v : PacketBossBarFlags) : bool :=
  match v with
  | PacketBossBarFlags_V0 _ => on d 0
  | PacketBossBarFlags_V5 _ => on d 5
  | PacketBossBarFlags_Default => negb (on d 0) && negb (on d 5)
  end.
Definition switch_PacketBossBarFlags : Switch Z PacketBossBarFlags := mkSwitch case_PacketBossBarFlags encode_PacketBossBarFlags decode_from_PacketBossBarFlags.
Definition dom_PacketBossBarFlags (d : Z) (v : PacketBossBarFlags) : Prop :=
  case_PacketBossBarFlags d v = true ∧
  match v with
  | PacketBossBarFlags_V0 v => in_u 8 v
  | PacketBossBarFlags_V5 v => in_u 8 v
  | _ => True
  end.
Definition bytes_PacketBossBarFlags (v : PacketBossBarFlags) : list byte :=
  match v with
  | PacketBossBarFlags_V0 v => be_bytes 1 v
  | PacketBossBarFlags_V5 v => be_bytes 1 v
  | _ => []
  end.
#[export] Instance lawful_PacketBossBarFlags : LawfulSwitch switch_PacketBossBarFlags dom_PacketBossBarFlags bytes_PacketBossBarFlags.
Proof. solve_switch. Qed.

Record PacketBossBar : Type := mkPacketBossBar {
  PacketBossBar_entity_uuid : Z;
  PacketBossBar_action : Z;
  PacketBossBar_title : PacketBossBarTitle;
  PacketBossBar_health : PacketBossBarHealth;
  PacketBossBar_color : PacketBossBarColor;
  PacketBossBar_dividers : PacketBossBarDividers;
  PacketBossBar_flags : PacketBossBarFlags;
}.
Definition wire_PacketBossBar : Codec PacketBossBar := {|
  encode p :=
    encode wire_u128 (PacketBossBar_entity_uuid p) ;;;
    modify (write_varint (PacketBossBar_action p)) ;;;
    encode_at switch_PacketBossBarTitle (PacketBossBar_action p) (PacketBossBar_title p) ;;;
    encode_at switch_PacketBossBarHealth (PacketBossBar_action p) (PacketBossBar_health p) ;;;
    encode_at switch_PacketBossBarColor (PacketBossBar_action p) (PacketBossBar_color p) ;;;
    encode_at switch_PacketBossBarDividers (PacketBossBar_action p) (PacketBossBar_dividers p) ;;;
    encode_at switch_PacketBossBarFlags (PacketBossBar_action p) (PacketBossBar_flags p) ;;;
    ret tt;
  decode :=
    let* entity_uuid := decode wire_u128 in
    let* action := read_varint in
    let* title := sw_decode switch_PacketBossBarTitle action in
    let* health := sw_decode switch_PacketBossBarHealth action in
    let* color := sw_decode switch_PacketBossBarColor action in
    let* dividers := sw_decode switch_PacketBossBarDividers action in
    let* flags := sw_decode switch_PacketBossBarFlags action in
    ret (mkPacketBossBar entity_uuid action title health color dividers flags);
|}.
Definition dom_PacketBossBar (p : PacketBossBar) : Prop :=
  in_u 128 (PacketBossBar_entity_uuid p)
  ∧ in_i 32 (PacketBossBar_action p)
  ∧ dom_PacketBossBarTitle (PacketBossBar_action p) (PacketBossBar_title p)
  ∧ dom_PacketBossBarHealth (PacketBossBar_action p) (PacketBossBar_health p)
  ∧ dom_PacketBossBarColor (PacketBossBar_action p) (PacketBossBar_color p)
  ∧ dom_PacketBossBarDividers (PacketBossBar_action p) (PacketBossBar_dividers p)
  ∧ dom_PacketBossBarFlags (PacketBossBar_action p) (PacketBossBar_flags p).
Definition bytes_PacketBossBar (p : PacketBossBar) : list byte :=
  concat [be_bytes 16 (PacketBossBar_entity_uuid p);
    varint_bytes (PacketBossBar_action p);
    bytes_PacketBossBarTitle (PacketBossBar_title p);
    bytes_PacketBossBarHealth (PacketBossBar_health p);
    bytes_PacketBossBarColor (PacketBossBar_color p);
    bytes_PacketBossBarDividers (PacketBossBar_dividers p);
    bytes_PacketBossBarFlags (PacketBossBar_flags p)].
#[export] Instance lawful_PacketBossBar : LawfulCodec wire_PacketBossBar dom_PacketBossBar bytes_PacketBossBar.
Proof. solve_struct. Qed.
#[export] Instance cost_PacketBossBar : CodecCost dom_PacketBossBar bytes_PacketBossBar.
Proof. solve_head. Qed.

Record PacketDeclareCommands : Type := mkPacketDeclareCommands {
  PacketDeclareCommands_nodes : list CommandNode;
  PacketDeclareCommands_root_index : Z;
}.
Definition wire_PacketDeclareCommands : Codec PacketDeclareCommands := {|
  encode p :=
    encode (wire_Vec wire_CommandNode) (PacketDeclareCommands_nodes p) ;;;
    modify (write_varint (PacketDeclareCommands_root_index p)) ;;;
    ret tt;
  decode :=
    let* nodes := decode (wire_Vec wire_CommandNode) in
    let* root_index := read_varint in
    ret (mkPacketDeclareCommands nodes root_index);
|}.
Definition dom_PacketDeclareCommands (p : PacketDeclareCommands) : Prop :=
  vec_dom dom_CommandNode (PacketDeclareCommands_nodes p)
  ∧ in_i 32 (PacketDeclareCommands_root_index p).
Definition bytes_PacketDeclareCommands (p : PacketDeclareCommands) : list byte :=
  concat [vec_bytes bytes_CommandNode (PacketDeclareCommands_nodes p);
    varint_bytes (PacketDeclareCommands_root_index p)].
#[export] Instance lawful_PacketDeclareCommands : LawfulCodec wire_PacketDeclareCommands dom_PacketDeclareCommands bytes_PacketDeclareCommands.
Proof. solve_struct. Qed.
#[export] Instance cost_PacketDeclareCommands : CodecCost dom_PacketDeclareCommands bytes_PacketDeclareCommands.
Proof. solve_head. Qed.

Record PacketWindowItems : Type := mkPacketWindowItems {
  PacketWindowItems_window_id : Z;
  PacketWindowItems_state_id : Z;
  PacketWindowItems_items : list Slot;
  PacketWindowItems_carried_item : Slot;
}.
Definition wire_PacketWindowItems : Codec PacketWindowItems := {|
  encode p :=
    modify (write_varint (PacketWindowItems_window_id p)) ;;;
    modify (write_varint (PacketWindowItems_state_id p)) ;;;
    encode (wire_Vec wire_Slot) (PacketWindowItems_items p) ;;;
    encode wire_Slot (PacketWindowItems_carried_item p) ;;;
    ret tt;
  decode :=
    let* window_id := read_varint in
    let* state_id := read_varint in
    let* items := decode (wire_Vec wire_Slot) in
    let* carried_item := decode wire_Slot in
    ret (mkPacketWindowItems window_id state_id items carried_item);
|}.
Definition dom_PacketWindowItems (p : PacketWindowItems) : Prop :=
  in_i 32 (PacketWindowItems_window_id p)
  ∧ in_i 32 (PacketWindowItems_state_id p)
  ∧ vec_dom dom_Slot (PacketWindowItems_items p)
  ∧ dom_Slot (PacketWindowItems_carried_item p).
Definition bytes_PacketWindowItems (p : PacketWindowItems) : list byte :=
  concat [varint_bytes (PacketWindowItems_window_id p);
    varint_bytes (PacketWindowItems_state_id p);
    vec_bytes bytes_Slot (PacketWindowItems_items p);
    bytes_Slot (PacketWindowItems_carried_item p)].
#[export] Instance lawful_PacketWindowItems : LawfulCodec wire_PacketWindowItems dom_PacketWindowItems bytes_PacketWindowItems.
Proof. solve_struct. Qed.
#[export] Instance cost_PacketWindowItems : CodecCost dom_PacketWindowItems bytes_PacketWindowItems.
Proof. solve_head. Qed.

Record PacketSetSlot : Type := mkPacketSetSlot {
  PacketSetSlot_window_id : Z;
  PacketSetSlot_state_id : Z;
  PacketSetSlot_slot : Z;
  PacketSetSlot_item : Slot;
}.
Definition wire_PacketSetSlot : Codec PacketSetSlot := {|
  encode p :=
    modify (write_varint (PacketSetSlot_window_id p)) ;;;
    modify (write_varint (PacketSetSlot_state_id p)) ;;;
    encode wire_i16 (PacketSetSlot_slot p) ;;;
    encode wire_Slot (PacketSetSlot_item p) ;;;
    ret tt;
  decode :=
    let* window_id := read_varint in
    let* state_id := read_varint in
    let* slot := decode wire_i16 in
    let* item := decode wire_Slot in
    ret (mkPacketSetSlot window_id state_id slot item);
|}.
Definition dom_PacketSetSlot (p : PacketSetSlot) : Prop :=
  in_i 32 (PacketSetSlot_window_id p)
  ∧ in_i 32 (PacketSetSlot_state_id p)
  ∧ in_i 16 (PacketSetSlot_slot p)
  ∧ dom_Slot (PacketSetSlot_item p).
Definition bytes_PacketSetSlot (p : PacketSetSlot) : list byte :=
  concat [varint_bytes (PacketSetSlot_window_id p);
    varint_bytes (PacketSetSlot_state_id p);
    be_bytes 2 (PacketSetSlot_slot p);
    bytes_Slot (PacketSetSlot_item p)].
#[export] Instance lawful_PacketSetSlot : LawfulCodec wire_PacketSetSlot dom_PacketSetSlot bytes_PacketSetSlot.
Proof. solve_struct. Qed.
#[export] Instance cost_PacketSetSlot : CodecCost dom_PacketSetSlot bytes_PacketSetSlot.
Proof. solve_head. Qed.

Inductive PacketHideMessageSignature : Type :=
  | PacketHideMessageSignature_V0 (v : list byte)
  | PacketHideMessageSignature_Default.
Definition encode_PacketHideMessageSignature (v : PacketHideMessageSignature) : Write :=
  match v with
  | PacketHideMessageSignature_V0 v => encode (wire_blob 256) v
  | PacketHideMessageSignature_Default => ret tt
  end.
Definition decode_from_PacketHideMessageSignature (d : Z) : Read PacketHideMessageSignature :=
  if on d 0 then (let* v := decode (wire_blob 256) in ret (PacketHideMessageSignature_V0 v))
  else ret PacketHideMessageSignature_Default.
Definition case_PacketHideMessageSignature (d : Z) (v : PacketHideMessageSignature) : bool :=
  match v with
  | PacketHideMessageSignature_V0 _ => on d 0
  | PacketHideMessageSignature_Default => negb (on d 0)
  end.
Definition switch_PacketHideMessageSignature : Switch Z PacketHideMessageSignature := mkSwitch case_PacketHideMessageSignature encode_PacketHideMessageSignature decode_from_PacketHideMessageSignature.
Definition dom_PacketHideMessageSignature (d : Z) (v : PacketHideMessageSignature) : Prop :=
  case_PacketHideMessageSignature d v = true ∧
  match v with
  | PacketHideMessageSignature_V0 v => blob_dom 256 v
  | _ => True
  end.
Definition bytes_PacketHideMessageSignature (v : PacketHideMessageSignature) : list byte :=
  match v with
  | PacketHideMessageSignature_V0 v => id v
  | _ => []
  end.
#[export] Instance lawful_PacketHideMessageSignature : LawfulSwitch switch_PacketHideMessageSignature dom_PacketHideMessageSignature bytes_PacketHideMessageSignature.
Proof. solve_switch. Qed.

Record PacketHideMessage : Type := mkPacketHideMessage {
  PacketHideMessage_id : Z;
  PacketHideMessage_signature : PacketHideMessageSignature;
}.
Definition wire_PacketHideMessage : Codec PacketHideMessage := {|
  encode p :=
    modify (write_varint (PacketHideMessage_id p)) ;;;
    encode_at switch_PacketHideMessageSignature (PacketHideMessage_id p) (PacketHideMessage_signature p) ;;;
    ret tt;
  decode :=
    let* id_ := read_varint in
    let* signature := sw_decode switch_PacketHideMessageSignature id_ in
    ret (mkPacketHideMessage id_ signature);
|}.
Definition dom_PacketHideMessage (p : PacketHideMessage) : Prop :=
  in_i 32 (PacketHideMessage_id p)
  ∧ dom_PacketHideMessageSignature (PacketHideMessage_id p) (PacketHideMessage_signature p).
Definition bytes_PacketHideMessage (p : PacketHideMessage) : list byte :=
  concat [varint_bytes (PacketHideMessage_id p);
    bytes_PacketHideMessageSignature (PacketHideMessage_signature p)].
#[export] Instance lawful_PacketHideMessage : LawfulCodec wire_PacketHideMessage dom_PacketHideMessage bytes_PacketHideMessage.
Proof. solve_struct. Qed.
#[export] Instance cost_PacketHideMessage : CodecCost dom_PacketHideMessage bytes_PacketHideMessage.
Proof. solve_head. Qed.

Record PacketExplosion : Type := mkPacketExplosion {
  PacketExplosion_x : Z;
  PacketExplosion_y : Z;
  PacketExplosion_z : Z;
  PacketExplosion_player_knockback : option Vec3f64;
  PacketExplosion_explosion_particle : Particle;
  PacketExplosion_sound : Holder ItemSoundEvent;
}.
Definition wire_PacketExplosion : Codec PacketExplosion := {|
  encode p :=
    encode wire_f64 (PacketExplosion_x p) ;;;
    encode wire_f64 (PacketExplosion_y p) ;;;
    encode wire_f64 (PacketExplosion_z p) ;;;
    encode (wire_Option wire_Vec3f64) (PacketExplosion_player_knockback p) ;;;
    encode wire_Particle (PacketExplosion_explosion_particle p) ;;;
    encode (wire_Holder wire_ItemSoundEvent) (PacketExplosion_sound p) ;;;
    ret tt;
  decode :=
    let* x := decode wire_f64 in
    let* y := decode wire_f64 in
    let* z := decode wire_f64 in
    let* player_knockback := decode (wire_Option wire_Vec3f64) in
    let* explosion_particle := decode wire_Particle in
    let* sound := decode (wire_Holder wire_ItemSoundEvent) in
    ret (mkPacketExplosion x y z player_knockback explosion_particle sound);
|}.
Definition dom_PacketExplosion (p : PacketExplosion) : Prop :=
  in_u 64 (PacketExplosion_x p)
  ∧ in_u 64 (PacketExplosion_y p)
  ∧ in_u 64 (PacketExplosion_z p)
  ∧ option_dom dom_Vec3f64 (PacketExplosion_player_knockback p)
  ∧ dom_Particle (PacketExplosion_explosion_particle p)
  ∧ holder_dom dom_ItemSoundEvent (PacketExplosion_sound p).
Definition bytes_PacketExplosion (p : PacketExplosion) : list byte :=
  concat [be_bytes 8 (PacketExplosion_x p);
    be_bytes 8 (PacketExplosion_y p);
    be_bytes 8 (PacketExplosion_z p);
    option_bytes bytes_Vec3f64 (PacketExplosion_player_knockback p);
    bytes_Particle (PacketExplosion_explosion_particle p);
    holder_bytes bytes_ItemSoundEvent (PacketExplosion_sound p)].
#[export] Instance lawful_PacketExplosion : LawfulCodec wire_PacketExplosion dom_PacketExplosion bytes_PacketExplosion.
Proof. solve_struct. Qed.
#[export] Instance cost_PacketExplosion : CodecCost dom_PacketExplosion bytes_PacketExplosion.
Proof. solve_head. Qed.

Record ChunkBlockEntityValue : Type := mkChunkBlockEntityValue {
  ChunkBlockEntityValue_x : Z;
  ChunkBlockEntityValue_z : Z;
}.
Definition raw_ChunkBlockEntityValue (p : ChunkBlockEntityValue) : Z :=
  Z.lor (Z.shiftl (Z.land (ChunkBlockEntityValue_x p) 0xf) 4) (Z.land (ChunkBlockEntityValue_z p) 0xf).
Definition of_raw_ChunkBlockEntityValue (raw : Z) : ChunkBlockEntityValue :=
  mkChunkBlockEntityValue (Z.land (Z.shiftr raw 4) 0xf) (Z.land raw 0xf).
Definition wire_ChunkBlockEntityValue : Codec ChunkBlockEntityValue := {|
  encode p := modify (put_u8 (raw_ChunkBlockEntityValue p));
  decode := let* raw := get_u8 in ret (of_raw_ChunkBlockEntityValue raw);
|}.
Definition dom_ChunkBlockEntityValue (p : ChunkBlockEntityValue) : Prop :=
  in_u 4 (ChunkBlockEntityValue_x p)
  ∧ in_u 4 (ChunkBlockEntityValue_z p).
Definition bytes_ChunkBlockEntityValue (p : ChunkBlockEntityValue) : list byte := be_bytes 1 (raw_ChunkBlockEntityValue p).
#[export] Instance ChunkBlockEntityValue_eq_dec : EqDecision ChunkBlockEntityValue.
Proof. solve_decision. Defined.
Lemma raw_ChunkBlockEntityValue_inv p : dom_ChunkBlockEntityValue p → in_u 8 (raw_ChunkBlockEntityValue p) ∧ of_raw_ChunkBlockEntityValue (raw_ChunkBlockEntityValue p) = p.
Proof.
  destruct p; intros Hp; open_dom Hp; cbn [ChunkBlockEntityValue_x ChunkBlockEntityValue_z] in *. solve_bits.
Qed.
#[export] Instance lawful_ChunkBlockEntityValue : LawfulCodec wire_ChunkBlockEntityValue dom_ChunkBlockEntityValue bytes_ChunkBlockEntityValue.
Proof.
  split; intros p Hp.
  - by apply writes_modify.
  - destruct (raw_ChunkBlockEntityValue_inv p Hp) as [Hr Heq]. rewrite <- Heq at 2. apply (reads_bind_ret get_u8), reads_get_u8, Hr.
Qed.
#[export] Instance cost_ChunkBlockEntityValue : CodecCost dom_ChunkBlockEntityValue bytes_ChunkBlockEntityValue.
Proof. intros p _. unfold bytes_ChunkBlockEntityValue. rewrite be_bytes_length. lia. Qed.

Record ChunkBlockEntity : Type := mkChunkBlockEntity {
  ChunkBlockEntity_value : ChunkBlockEntityValue;
  ChunkBlockEntity_y : Z;
  ChunkBlockEntity_type : Z;
  ChunkBlockEntity_nbt_data : option Nbt;
}.
Definition wire_ChunkBlockEntity : Codec ChunkBlockEntity := {|
  encode p :=
    encode wire_ChunkBlockEntityValue (ChunkBlockEntity_value p) ;;;
    encode wire_i16 (ChunkBlockEntity_y p) ;;;
    modify (write_varint (ChunkBlockEntity_type p)) ;;;
    encode wire_OptNbt (ChunkBlockEntity_nbt_data p) ;;;
    ret tt;
  decode :=
    let* value := decode wire_ChunkBlockEntityValue in
    let* y := decode wire_i16 in
    let* type_ := read_varint in
    let* nbt_data := decode wire_OptNbt in
    ret (mkChunkBlockEntity value y type_ nbt_data);
|}.
Definition dom_ChunkBlockEntity (p : ChunkBlockEntity) : Prop :=
  dom_ChunkBlockEntityValue (ChunkBlockEntity_value p)
  ∧ in_i 16 (ChunkBlockEntity_y p)
  ∧ in_i 32 (ChunkBlockEntity_type p)
  ∧ option_dom nbt_fits (ChunkBlockEntity_nbt_data p).
Definition bytes_ChunkBlockEntity (p : ChunkBlockEntity) : list byte :=
  concat [bytes_ChunkBlockEntityValue (ChunkBlockEntity_value p);
    be_bytes 2 (ChunkBlockEntity_y p);
    varint_bytes (ChunkBlockEntity_type p);
    optnbt_bytes (ChunkBlockEntity_nbt_data p)].
#[export] Instance lawful_ChunkBlockEntity : LawfulCodec wire_ChunkBlockEntity dom_ChunkBlockEntity bytes_ChunkBlockEntity.
Proof. solve_struct. Qed.
#[export] Instance cost_ChunkBlockEntity : CodecCost dom_ChunkBlockEntity bytes_ChunkBlockEntity.
Proof. solve_head. Qed.

Record PacketMapChunk : Type := mkPacketMapChunk {
  PacketMapChunk_x : Z;
  PacketMapChunk_z : Z;
  PacketMapChunk_heightmaps : Nbt;
  PacketMapChunk_chunk_data : list Z;
  PacketMapChunk_block_entities : list ChunkBlockEntity;
  PacketMapChunk_sky_light_mask : list Z;
  PacketMapChunk_block_light_mask : list Z;
  PacketMapChunk_empty_sky_light_mask : list Z;
  PacketMapChunk_empty_block_light_mask : list Z;
  PacketMapChunk_sky_light : list (list Z);
  PacketMapChunk_block_light : list (list Z);
}.
Definition wire_PacketMapChunk : Codec PacketMapChunk := {|
  encode p :=
    modify (put_i32 (PacketMapChunk_x p)) ;;;
    modify (put_i32 (PacketMapChunk_z p)) ;;;
    encode wire_Nbt (PacketMapChunk_heightmaps p) ;;;
    encode (wire_Vec wire_u8) (PacketMapChunk_chunk_data p) ;;;
    encode (wire_Vec wire_ChunkBlockEntity) (PacketMapChunk_block_entities p) ;;;
    encode (wire_Vec wire_i64) (PacketMapChunk_sky_light_mask p) ;;;
    encode (wire_Vec wire_i64) (PacketMapChunk_block_light_mask p) ;;;
    encode (wire_Vec wire_i64) (PacketMapChunk_empty_sky_light_mask p) ;;;
    encode (wire_Vec wire_i64) (PacketMapChunk_empty_block_light_mask p) ;;;
    encode (wire_Vec (wire_Vec wire_u8)) (PacketMapChunk_sky_light p) ;;;
    encode (wire_Vec (wire_Vec wire_u8)) (PacketMapChunk_block_light p) ;;;
    ret tt;
  decode :=
    let* x := get_i32 in
    let* z := get_i32 in
    let* heightmaps := decode wire_Nbt in
    let* chunk_data := decode (wire_Vec wire_u8) in
    let* block_entities := decode (wire_Vec wire_ChunkBlockEntity) in
    let* sky_light_mask := decode (wire_Vec wire_i64) in
    let* block_light_mask := decode (wire_Vec wire_i64) in
    let* empty_sky_light_mask := decode (wire_Vec wire_i64) in
    let* empty_block_light_mask := decode (wire_Vec wire_i64) in
    let* sky_light := decode (wire_Vec (wire_Vec wire_u8)) in
    let* block_light := decode (wire_Vec (wire_Vec wire_u8)) in
    ret (mkPacketMapChunk x z heightmaps chunk_data block_entities sky_light_mask block_light_mask empty_sky_light_mask empty_block_light_mask sky_light block_light);
|}.
Definition dom_PacketMapChunk (p : PacketMapChunk) : Prop :=
  in_i 32 (PacketMapChunk_x p)
  ∧ in_i 32 (PacketMapChunk_z p)
  ∧ nbt_fits (PacketMapChunk_heightmaps p)
  ∧ vec_dom (in_u 8) (PacketMapChunk_chunk_data p)
  ∧ vec_dom dom_ChunkBlockEntity (PacketMapChunk_block_entities p)
  ∧ vec_dom (in_i 64) (PacketMapChunk_sky_light_mask p)
  ∧ vec_dom (in_i 64) (PacketMapChunk_block_light_mask p)
  ∧ vec_dom (in_i 64) (PacketMapChunk_empty_sky_light_mask p)
  ∧ vec_dom (in_i 64) (PacketMapChunk_empty_block_light_mask p)
  ∧ vec_dom (vec_dom (in_u 8)) (PacketMapChunk_sky_light p)
  ∧ vec_dom (vec_dom (in_u 8)) (PacketMapChunk_block_light p).
Definition bytes_PacketMapChunk (p : PacketMapChunk) : list byte :=
  concat [be_bytes 4 (PacketMapChunk_x p);
    be_bytes 4 (PacketMapChunk_z p);
    nbt_bytes (PacketMapChunk_heightmaps p);
    vec_bytes (be_bytes 1) (PacketMapChunk_chunk_data p);
    vec_bytes bytes_ChunkBlockEntity (PacketMapChunk_block_entities p);
    vec_bytes (be_bytes 8) (PacketMapChunk_sky_light_mask p);
    vec_bytes (be_bytes 8) (PacketMapChunk_block_light_mask p);
    vec_bytes (be_bytes 8) (PacketMapChunk_empty_sky_light_mask p);
    vec_bytes (be_bytes 8) (PacketMapChunk_empty_block_light_mask p);
    vec_bytes (vec_bytes (be_bytes 1)) (PacketMapChunk_sky_light p);
    vec_bytes (vec_bytes (be_bytes 1)) (PacketMapChunk_block_light p)].
#[export] Instance lawful_PacketMapChunk : LawfulCodec wire_PacketMapChunk dom_PacketMapChunk bytes_PacketMapChunk.
Proof. solve_struct. Qed.
#[export] Instance cost_PacketMapChunk : CodecCost dom_PacketMapChunk bytes_PacketMapChunk.
Proof. solve_head. Qed.

Record PacketWorldParticles : Type := mkPacketWorldParticles {
  PacketWorldParticles_long_distance : bool;
  PacketWorldParticles_always_show : bool;
  PacketWorldParticles_x : Z;
  PacketWorldParticles_y : Z;
  PacketWorldParticles_z : Z;
  PacketWorldParticles_offset_x : Z;
  PacketWorldParticles_offset_y : Z;
  PacketWorldParticles_offset_z : Z;
  PacketWorldParticles_velocity_offset : Z;
  PacketWorldParticles_amount : Z;
  PacketWorldParticles_particle : Particle;
}.
Definition wire_PacketWorldParticles : Codec PacketWorldParticles := {|
  encode p :=
    encode wire_bool (PacketWorldParticles_long_distance p) ;;;
    encode wire_bool (PacketWorldParticles_always_show p) ;;;
    encode wire_f64 (PacketWorldParticles_x p) ;;;
    encode wire_f64 (PacketWorldParticles_y p) ;;;
    encode wire_f64 (PacketWorldParticles_z p) ;;;
    encode wire_f32 (PacketWorldParticles_offset_x p) ;;;
    encode wire_f32 (PacketWorldParticles_offset_y p) ;;;
    encode wire_f32 (PacketWorldParticles_offset_z p) ;;;
    encode wire_f32 (PacketWorldParticles_velocity_offset p) ;;;
    modify (put_i32 (PacketWorldParticles_amount p)) ;;;
    encode wire_Particle (PacketWorldParticles_particle p) ;;;
    ret tt;
  decode :=
    let* long_distance := decode wire_bool in
    let* always_show := decode wire_bool in
    let* x := decode wire_f64 in
    let* y := decode wire_f64 in
    let* z := decode wire_f64 in
    let* offset_x := decode wire_f32 in
    let* offset_y := decode wire_f32 in
    let* offset_z := decode wire_f32 in
    let* velocity_offset := decode wire_f32 in
    let* amount := get_i32 in
    let* particle := decode wire_Particle in
    ret (mkPacketWorldParticles long_distance always_show x y z offset_x offset_y offset_z velocity_offset amount particle);
|}.
Definition dom_PacketWorldParticles (p : PacketWorldParticles) : Prop :=
  in_u 64 (PacketWorldParticles_x p)
  ∧ in_u 64 (PacketWorldParticles_y p)
  ∧ in_u 64 (PacketWorldParticles_z p)
  ∧ in_u 32 (PacketWorldParticles_offset_x p)
  ∧ in_u 32 (PacketWorldParticles_offset_y p)
  ∧ in_u 32 (PacketWorldParticles_offset_z p)
  ∧ in_u 32 (PacketWorldParticles_velocity_offset p)
  ∧ in_i 32 (PacketWorldParticles_amount p)
  ∧ dom_Particle (PacketWorldParticles_particle p).
Definition bytes_PacketWorldParticles (p : PacketWorldParticles) : list byte :=
  concat [bool_bytes (PacketWorldParticles_long_distance p);
    bool_bytes (PacketWorldParticles_always_show p);
    be_bytes 8 (PacketWorldParticles_x p);
    be_bytes 8 (PacketWorldParticles_y p);
    be_bytes 8 (PacketWorldParticles_z p);
    be_bytes 4 (PacketWorldParticles_offset_x p);
    be_bytes 4 (PacketWorldParticles_offset_y p);
    be_bytes 4 (PacketWorldParticles_offset_z p);
    be_bytes 4 (PacketWorldParticles_velocity_offset p);
    be_bytes 4 (PacketWorldParticles_amount p);
    bytes_Particle (PacketWorldParticles_particle p)].
#[export] Instance lawful_PacketWorldParticles : LawfulCodec wire_PacketWorldParticles dom_PacketWorldParticles bytes_PacketWorldParticles.
Proof. solve_struct. Qed.
#[export] Instance cost_PacketWorldParticles : CodecCost dom_PacketWorldParticles bytes_PacketWorldParticles.
Proof. solve_head. Qed.

Inductive PacketMapRows : Type :=
  | PacketMapRows_V0
  | PacketMapRows_Default (v : Z).
Definition encode_PacketMapRows (v : PacketMapRows) : Write :=
  match v with
  | PacketMapRows_V0 => ret tt
  | PacketMapRows_Default v => encode wire_u8 v
  end.
Definition decode_from_PacketMapRows (d : Z) : Read PacketMapRows :=
  if on d 0 then ret PacketMapRows_V0
  else (let* v := decode wire_u8 in ret (PacketMapRows_Default v)).
Definition case_PacketMapRows (d : Z) (v : PacketMapRows) : bool :=
  match v with
  | PacketMapRows_V0 => on d 0
  | PacketMapRows_Default _ => negb (on d 0)
  end.
Definition switch_PacketMapRows : Switch Z PacketMapRows := mkSwitch case_PacketMapRows encode_PacketMapRows decode_from_PacketMapRows.
Definition dom_PacketMapRows (d : Z) (v : PacketMapRows) : Prop :=
  case_PacketMapRows d v = true ∧
  match v with
  | PacketMapRows_Default v => in_u 8 v
  | _ => True
  end.
Definition bytes_PacketMapRows (v : PacketMapRows) : list byte :=
  match v with
  | PacketMapRows_Default v => be_bytes 1 v
  | _ => []
  end.
#[export] Instance lawful_PacketMapRows : LawfulSwitch switch_PacketMapRows dom_PacketMapRows bytes_PacketMapRows.
Proof. solve_switch. Qed.

Inductive PacketMapX : Type :=
  | PacketMapX_V0
  | PacketMapX_Default (v : Z).
Definition encode_PacketMapX (v : PacketMapX) : Write :=
  match v with
  | PacketMapX_V0 => ret tt
  | PacketMapX_Default v => encode wire_u8 v
  end.
Definition decode_from_PacketMapX (d : Z) : Read PacketMapX :=
  if on d 0 then ret PacketMapX_V0
  else (let* v := decode wire_u8 in ret (PacketMapX_Default v)).
Definition case_PacketMapX (d : Z) (v : PacketMapX) : bool :=
  match v with
  | PacketMapX_V0 => on d 0
  | PacketMapX_Default _ => negb (on d 0)
  end.
Definition switch_PacketMapX : Switch Z PacketMapX := mkSwitch case_PacketMapX encode_PacketMapX decode_from_PacketMapX.
Definition dom_PacketMapX (d : Z) (v : PacketMapX) : Prop :=
  case_PacketMapX d v = true ∧
  match v with
  | PacketMapX_Default v => in_u 8 v
  | _ => True
  end.
Definition bytes_PacketMapX (v : PacketMapX) : list byte :=
  match v with
  | PacketMapX_Default v => be_bytes 1 v
  | _ => []
  end.
#[export] Instance lawful_PacketMapX : LawfulSwitch switch_PacketMapX dom_PacketMapX bytes_PacketMapX.
Proof. solve_switch. Qed.

Inductive PacketMapY : Type :=
  | PacketMapY_V0
  | PacketMapY_Default (v : Z).
Definition encode_PacketMapY (v : PacketMapY) : Write :=
  match v with
  | PacketMapY_V0 => ret tt
  | PacketMapY_Default v => encode wire_u8 v
  end.
Definition decode_from_PacketMapY (d : Z) : Read PacketMapY :=
  if on d 0 then ret PacketMapY_V0
  else (let* v := decode wire_u8 in ret (PacketMapY_Default v)).
Definition case_PacketMapY (d : Z) (v : PacketMapY) : bool :=
  match v with
  | PacketMapY_V0 => on d 0
  | PacketMapY_Default _ => negb (on d 0)
  end.
Definition switch_PacketMapY : Switch Z PacketMapY := mkSwitch case_PacketMapY encode_PacketMapY decode_from_PacketMapY.
Definition dom_PacketMapY (d : Z) (v : PacketMapY) : Prop :=
  case_PacketMapY d v = true ∧
  match v with
  | PacketMapY_Default v => in_u 8 v
  | _ => True
  end.
Definition bytes_PacketMapY (v : PacketMapY) : list byte :=
  match v with
  | PacketMapY_Default v => be_bytes 1 v
  | _ => []
  end.
#[export] Instance lawful_PacketMapY : LawfulSwitch switch_PacketMapY dom_PacketMapY bytes_PacketMapY.
Proof. solve_switch. Qed.

Inductive PacketMapData : Type :=
  | PacketMapData_V0
  | PacketMapData_Default (v : list Z).
Definition encode_PacketMapData (v : PacketMapData) : Write :=
  match v with
  | PacketMapData_V0 => ret tt
  | PacketMapData_Default v => encode (wire_Vec wire_u8) v
  end.
Definition decode_from_PacketMapData (d : Z) : Read PacketMapData :=
  if on d 0 then ret PacketMapData_V0
  else (let* v := decode (wire_Vec wire_u8) in ret (PacketMapData_Default v)).
Definition case_PacketMapData (d : Z) (v : PacketMapData) : bool :=
  match v with
  | PacketMapData_V0 => on d 0
  | PacketMapData_Default _ => negb (on d 0)
  end.
Definition switch_PacketMapData : Switch Z PacketMapData := mkSwitch case_PacketMapData encode_PacketMapData decode_from_PacketMapData.
Definition dom_PacketMapData (d : Z) (v : PacketMapData) : Prop :=
  case_PacketMapData d v = true ∧
  match v with
  | PacketMapData_Default v => vec_dom (in_u 8) v
  | _ => True
  end.
Definition bytes_PacketMapData (v : PacketMapData) : list byte :=
  match v with
  | PacketMapData_Default v => vec_bytes (be_bytes 1) v
  | _ => []
  end.
#[export] Instance lawful_PacketMapData : LawfulSwitch switch_PacketMapData dom_PacketMapData bytes_PacketMapData.
Proof. solve_switch. Qed.

Record PacketMap : Type := mkPacketMap {
  PacketMap_item_damage : Z;
  PacketMap_scale : Z;
  PacketMap_locked : bool;
  PacketMap_icons : option (list PacketMapIconsValueItem);
  PacketMap_columns : Z;
  PacketMap_rows : PacketMapRows;
  PacketMap_x : PacketMapX;
  PacketMap_y : PacketMapY;
  PacketMap_data : PacketMapData;
}.
Definition wire_PacketMap : Codec PacketMap := {|
  encode p :=
    modify (write_varint (PacketMap_item_damage p)) ;;;
    encode wire_i8 (PacketMap_scale p) ;;;
    encode wire_bool (PacketMap_locked p) ;;;
    encode (wire_Option (wire_Vec wire_PacketMapIconsValueItem)) (PacketMap_icons p) ;;;
    encode wire_u8 (PacketMap_columns p) ;;;
    encode_at switch_PacketMapRows (PacketMap_columns p) (PacketMap_rows p) ;;;
    encode_at switch_PacketMapX (PacketMap_columns p) (PacketMap_x p) ;;;
    encode_at switch_PacketMapY (PacketMap_columns p) (PacketMap_y p) ;;;
    encode_at switch_PacketMapData (PacketMap_columns p) (PacketMap_data p) ;;;
    ret tt;
  decode :=
    let* item_damage := read_varint in
    let* scale := decode wire_i8 in
    let* locked := decode wire_bool in
    let* icons := decode (wire_Option (wire_Vec wire_PacketMapIconsValueItem)) in
    let* columns := decode wire_u8 in
    let* rows := sw_decode switch_PacketMapRows columns in
    let* x := sw_decode switch_PacketMapX columns in
    let* y := sw_decode switch_PacketMapY columns in
    let* data := sw_decode switch_PacketMapData columns in
    ret (mkPacketMap item_damage scale locked icons columns rows x y data);
|}.
Definition dom_PacketMap (p : PacketMap) : Prop :=
  in_i 32 (PacketMap_item_damage p)
  ∧ in_i 8 (PacketMap_scale p)
  ∧ option_dom (vec_dom dom_PacketMapIconsValueItem) (PacketMap_icons p)
  ∧ in_u 8 (PacketMap_columns p)
  ∧ dom_PacketMapRows (PacketMap_columns p) (PacketMap_rows p)
  ∧ dom_PacketMapX (PacketMap_columns p) (PacketMap_x p)
  ∧ dom_PacketMapY (PacketMap_columns p) (PacketMap_y p)
  ∧ dom_PacketMapData (PacketMap_columns p) (PacketMap_data p).
Definition bytes_PacketMap (p : PacketMap) : list byte :=
  concat [varint_bytes (PacketMap_item_damage p);
    be_bytes 1 (PacketMap_scale p);
    bool_bytes (PacketMap_locked p);
    option_bytes (vec_bytes bytes_PacketMapIconsValueItem) (PacketMap_icons p);
    be_bytes 1 (PacketMap_columns p);
    bytes_PacketMapRows (PacketMap_rows p);
    bytes_PacketMapX (PacketMap_x p);
    bytes_PacketMapY (PacketMap_y p);
    bytes_PacketMapData (PacketMap_data p)].
#[export] Instance lawful_PacketMap : LawfulCodec wire_PacketMap dom_PacketMap bytes_PacketMap.
Proof. solve_struct. Qed.
#[export] Instance cost_PacketMap : CodecCost dom_PacketMap bytes_PacketMap.
Proof. solve_head. Qed.

Record PacketTradeListTradesItemInputItem1 : Type := mkPacketTradeListTradesItemInputItem1 {
  PacketTradeListTradesItemInputItem1_item_id : Z;
  PacketTradeListTradesItemInputItem1_item_count : Z;
  PacketTradeListTradesItemInputItem1_added_component_count : Z;
  PacketTradeListTradesItemInputItem1_components : list (SlotComponent Slot);
}.
Definition wire_PacketTradeListTradesItemInputItem1 : Codec PacketTradeListTradesItemInputItem1 := {|
  encode p :=
    modify (write_varint (PacketTradeListTradesItemInputItem1_item_id p)) ;;;
    modify (write_varint (PacketTradeListTradesItemInputItem1_item_count p)) ;;;
    modify (write_varint (PacketTradeListTradesItemInputItem1_added_component_count p)) ;;;
    encode_at (counted (wire_SlotComponent wire_Slot)) (PacketTradeListTradesItemInputItem1_added_component_count p) (PacketTradeListTradesItemInputItem1_components p) ;;;
    ret tt;
  decode :=
    let* item_id := read_varint in
    let* item_count := read_varint in
    let* added_component_count := read_varint in
    let* components := sw_decode (counted (wire_SlotComponent wire_Slot)) added_component_count in
    ret (mkPacketTradeListTradesItemInputItem1 item_id item_count added_component_count components);
|}.
Definition dom_PacketTradeListTradesItemInputItem1 (p : PacketTradeListTradesItemInputItem1) : Prop :=
  in_i 32 (PacketTradeListTradesItemInputItem1_item_id p)
  ∧ in_i 32 (PacketTradeListTradesItemInputItem1_item_count p)
  ∧ in_i 32 (PacketTradeListTradesItemInputItem1_added_component_count p)
  ∧ counted_dom (dom_SlotComponent dom_Slot) (PacketTradeListTradesItemInputItem1_added_component_count p) (PacketTradeListTradesItemInputItem1_components p).
Definition bytes_PacketTradeListTradesItemInputItem1 (p : PacketTradeListTradesItemInputItem1) : list byte :=
  concat [varint_bytes (PacketTradeListTradesItemInputItem1_item_id p);
    varint_bytes (PacketTradeListTradesItemInputItem1_item_count p);
    varint_bytes (PacketTradeListTradesItemInputItem1_added_component_count p);
    counted_bytes (bytes_SlotComponent bytes_Slot) (PacketTradeListTradesItemInputItem1_components p)].
#[export] Instance lawful_PacketTradeListTradesItemInputItem1 : LawfulCodec wire_PacketTradeListTradesItemInputItem1 dom_PacketTradeListTradesItemInputItem1 bytes_PacketTradeListTradesItemInputItem1.
Proof. solve_struct. Qed.
#[export] Instance cost_PacketTradeListTradesItemInputItem1 : CodecCost dom_PacketTradeListTradesItemInputItem1 bytes_PacketTradeListTradesItemInputItem1.
Proof. solve_head. Qed.

Record PacketTradeListTradesItemInputItem2Value : Type := mkPacketTradeListTradesItemInputItem2Value {
  PacketTradeListTradesItemInputItem2Value_item_id : Z;
  PacketTradeListTradesItemInputItem2Value_item_count : Z;
  PacketTradeListTradesItemInputItem2Value_added_component_count : Z;
  PacketTradeListTradesItemInputItem2Value_components : list (SlotComponent Slot);
}.
Definition wire_PacketTradeListTradesItemInputItem2Value : Codec PacketTradeListTradesItemInputItem2Value := {|
  encode p :=
    modify (write_varint (PacketTradeListTradesItemInputItem2Value_item_id p)) ;;;
    modify (write_varint (PacketTradeListTradesItemInputItem2Value_item_count p)) ;;;
    modify (write_varint (PacketTradeListTradesItemInputItem2Value_added_component_count p)) ;;;
    encode_at (counted (wire_SlotComponent wire_Slot)) (PacketTradeListTradesItemInputItem2Value_added_component_count p) (PacketTradeListTradesItemInputItem2Value_components p) ;;;
    ret tt;
  decode :=
    let* item_id := read_varint in
    let* item_count := read_varint in
    let* added_component_count := read_varint in
    let* components := sw_decode (counted (wire_SlotComponent wire_Slot)) added_component_count in
    ret (mkPacketTradeListTradesItemInputItem2Value item_id item_count added_component_count components);
|}.
Definition dom_PacketTradeListTradesItemInputItem2Value (p : PacketTradeListTradesItemInputItem2Value) : Prop :=
  in_i 32 (PacketTradeListTradesItemInputItem2Value_item_id p)
  ∧ in_i 32 (PacketTradeListTradesItemInputItem2Value_item_count p)
  ∧ in_i 32 (PacketTradeListTradesItemInputItem2Value_added_component_count p)
  ∧ counted_dom (dom_SlotComponent dom_Slot) (PacketTradeListTradesItemInputItem2Value_added_component_count p) (PacketTradeListTradesItemInputItem2Value_components p).
Definition bytes_PacketTradeListTradesItemInputItem2Value (p : PacketTradeListTradesItemInputItem2Value) : list byte :=
  concat [varint_bytes (PacketTradeListTradesItemInputItem2Value_item_id p);
    varint_bytes (PacketTradeListTradesItemInputItem2Value_item_count p);
    varint_bytes (PacketTradeListTradesItemInputItem2Value_added_component_count p);
    counted_bytes (bytes_SlotComponent bytes_Slot) (PacketTradeListTradesItemInputItem2Value_components p)].
#[export] Instance lawful_PacketTradeListTradesItemInputItem2Value : LawfulCodec wire_PacketTradeListTradesItemInputItem2Value dom_PacketTradeListTradesItemInputItem2Value bytes_PacketTradeListTradesItemInputItem2Value.
Proof. solve_struct. Qed.
#[export] Instance cost_PacketTradeListTradesItemInputItem2Value : CodecCost dom_PacketTradeListTradesItemInputItem2Value bytes_PacketTradeListTradesItemInputItem2Value.
Proof. solve_head. Qed.

Record PacketTradeListTradesItem : Type := mkPacketTradeListTradesItem {
  PacketTradeListTradesItem_input_item1 : PacketTradeListTradesItemInputItem1;
  PacketTradeListTradesItem_output_item : Slot;
  PacketTradeListTradesItem_input_item2 : option PacketTradeListTradesItemInputItem2Value;
  PacketTradeListTradesItem_trade_disabled : bool;
  PacketTradeListTradesItem_nb_trade_uses : Z;
  PacketTradeListTradesItem_maximum_nb_trade_uses : Z;
  PacketTradeListTradesItem_xp : Z;
  PacketTradeListTradesItem_special_price : Z;
  PacketTradeListTradesItem_price_multiplier : Z;
  PacketTradeListTradesItem_demand : Z;
}.
Definition wire_PacketTradeListTradesItem : Codec PacketTradeListTradesItem := {|
  encode p :=
    encode wire_PacketTradeListTradesItemInputItem1 (PacketTradeListTradesItem_input_item1 p) ;;;
    encode wire_Slot (PacketTradeListTradesItem_output_item p) ;;;
    encode (wire_Option wire_PacketTradeListTradesItemInputItem2Value) (PacketTradeListTradesItem_input_item2 p) ;;;
    encode wire_bool (PacketTradeListTradesItem_trade_disabled p) ;;;
    modify (put_i32 (PacketTradeListTradesItem_nb_trade_uses p)) ;;;
    modify (put_i32 (PacketTradeListTradesItem_maximum_nb_trade_uses p)) ;;;
    modify (put_i32 (PacketTradeListTradesItem_xp p)) ;;;
    modify (put_i32 (PacketTradeListTradesItem_special_price p)) ;;;
    encode wire_f32 (PacketTradeListTradesItem_price_multiplier p) ;;;
    modify (put_i32 (PacketTradeListTradesItem_demand p)) ;;;
    ret tt;
  decode :=
    let* input_item1 := decode wire_PacketTradeListTradesItemInputItem1 in
    let* output_item := decode wire_Slot in
    let* input_item2 := decode (wire_Option wire_PacketTradeListTradesItemInputItem2Value) in
    let* trade_disabled := decode wire_bool in
    let* nb_trade_uses := get_i32 in
    let* maximum_nb_trade_uses := get_i32 in
    let* xp := get_i32 in
    let* special_price := get_i32 in
    let* price_multiplier := decode wire_f32 in
    let* demand := get_i32 in
    ret (mkPacketTradeListTradesItem input_item1 output_item input_item2 trade_disabled nb_trade_uses maximum_nb_trade_uses xp special_price price_multiplier demand);
|}.
Definition dom_PacketTradeListTradesItem (p : PacketTradeListTradesItem) : Prop :=
  dom_PacketTradeListTradesItemInputItem1 (PacketTradeListTradesItem_input_item1 p)
  ∧ dom_Slot (PacketTradeListTradesItem_output_item p)
  ∧ option_dom dom_PacketTradeListTradesItemInputItem2Value (PacketTradeListTradesItem_input_item2 p)
  ∧ in_i 32 (PacketTradeListTradesItem_nb_trade_uses p)
  ∧ in_i 32 (PacketTradeListTradesItem_maximum_nb_trade_uses p)
  ∧ in_i 32 (PacketTradeListTradesItem_xp p)
  ∧ in_i 32 (PacketTradeListTradesItem_special_price p)
  ∧ in_u 32 (PacketTradeListTradesItem_price_multiplier p)
  ∧ in_i 32 (PacketTradeListTradesItem_demand p).
Definition bytes_PacketTradeListTradesItem (p : PacketTradeListTradesItem) : list byte :=
  concat [bytes_PacketTradeListTradesItemInputItem1 (PacketTradeListTradesItem_input_item1 p);
    bytes_Slot (PacketTradeListTradesItem_output_item p);
    option_bytes bytes_PacketTradeListTradesItemInputItem2Value (PacketTradeListTradesItem_input_item2 p);
    bool_bytes (PacketTradeListTradesItem_trade_disabled p);
    be_bytes 4 (PacketTradeListTradesItem_nb_trade_uses p);
    be_bytes 4 (PacketTradeListTradesItem_maximum_nb_trade_uses p);
    be_bytes 4 (PacketTradeListTradesItem_xp p);
    be_bytes 4 (PacketTradeListTradesItem_special_price p);
    be_bytes 4 (PacketTradeListTradesItem_price_multiplier p);
    be_bytes 4 (PacketTradeListTradesItem_demand p)].
#[export] Instance lawful_PacketTradeListTradesItem : LawfulCodec wire_PacketTradeListTradesItem dom_PacketTradeListTradesItem bytes_PacketTradeListTradesItem.
Proof. solve_struct. Qed.
#[export] Instance cost_PacketTradeListTradesItem : CodecCost dom_PacketTradeListTradesItem bytes_PacketTradeListTradesItem.
Proof. solve_head. Qed.

Record PacketTradeList : Type := mkPacketTradeList {
  PacketTradeList_window_id : Z;
  PacketTradeList_trades : list PacketTradeListTradesItem;
  PacketTradeList_villager_level : Z;
  PacketTradeList_experience : Z;
  PacketTradeList_is_regular_villager : bool;
  PacketTradeList_can_restock : bool;
}.
Definition wire_PacketTradeList : Codec PacketTradeList := {|
  encode p :=
    modify (write_varint (PacketTradeList_window_id p)) ;;;
    encode (wire_Vec wire_PacketTradeListTradesItem) (PacketTradeList_trades p) ;;;
    modify (write_varint (PacketTradeList_villager_level p)) ;;;
    modify (write_varint (PacketTradeList_experience p)) ;;;
    encode wire_bool (PacketTradeList_is_regular_villager p) ;;;
    encode wire_bool (PacketTradeList_can_restock p) ;;;
    ret tt;
  decode :=
    let* window_id := read_varint in
    let* trades := decode (wire_Vec wire_PacketTradeListTradesItem) in
    let* villager_level := read_varint in
    let* experience := read_varint in
    let* is_regular_villager := decode wire_bool in
    let* can_restock := decode wire_bool in
    ret (mkPacketTradeList window_id trades villager_level experience is_regular_villager can_restock);
|}.
Definition dom_PacketTradeList (p : PacketTradeList) : Prop :=
  in_i 32 (PacketTradeList_window_id p)
  ∧ vec_dom dom_PacketTradeListTradesItem (PacketTradeList_trades p)
  ∧ in_i 32 (PacketTradeList_villager_level p)
  ∧ in_i 32 (PacketTradeList_experience p).
Definition bytes_PacketTradeList (p : PacketTradeList) : list byte :=
  concat [varint_bytes (PacketTradeList_window_id p);
    vec_bytes bytes_PacketTradeListTradesItem (PacketTradeList_trades p);
    varint_bytes (PacketTradeList_villager_level p);
    varint_bytes (PacketTradeList_experience p);
    bool_bytes (PacketTradeList_is_regular_villager p);
    bool_bytes (PacketTradeList_can_restock p)].
#[export] Instance lawful_PacketTradeList : LawfulCodec wire_PacketTradeList dom_PacketTradeList bytes_PacketTradeList.
Proof. solve_struct. Qed.
#[export] Instance cost_PacketTradeList : CodecCost dom_PacketTradeList bytes_PacketTradeList.
Proof. solve_head. Qed.

Record PacketCraftRecipeResponse : Type := mkPacketCraftRecipeResponse {
  PacketCraftRecipeResponse_window_id : Z;
  PacketCraftRecipeResponse_recipe_display : RecipeDisplay;
}.
Definition wire_PacketCraftRecipeResponse : Codec PacketCraftRecipeResponse := {|
  encode p :=
    modify (write_varint (PacketCraftRecipeResponse_window_id p)) ;;;
    encode wire_RecipeDisplay (PacketCraftRecipeResponse_recipe_display p) ;;;
    ret tt;
  decode :=
    let* window_id := read_varint in
    let* recipe_display := decode wire_RecipeDisplay in
    ret (mkPacketCraftRecipeResponse window_id recipe_display);
|}.
Definition dom_PacketCraftRecipeResponse (p : PacketCraftRecipeResponse) : Prop :=
  in_i 32 (PacketCraftRecipeResponse_window_id p)
  ∧ dom_RecipeDisplay (PacketCraftRecipeResponse_recipe_display p).
Definition bytes_PacketCraftRecipeResponse (p : PacketCraftRecipeResponse) : list byte :=
  concat [varint_bytes (PacketCraftRecipeResponse_window_id p);
    bytes_RecipeDisplay (PacketCraftRecipeResponse_recipe_display p)].
#[export] Instance lawful_PacketCraftRecipeResponse : LawfulCodec wire_PacketCraftRecipeResponse dom_PacketCraftRecipeResponse bytes_PacketCraftRecipeResponse.
Proof. solve_struct. Qed.
#[export] Instance cost_PacketCraftRecipeResponse : CodecCost dom_PacketCraftRecipeResponse bytes_PacketCraftRecipeResponse.
Proof. solve_head. Qed.

Inductive PacketPlayerChatFilterTypeMask : Type :=
  | PacketPlayerChatFilterTypeMask_V2 (v : list Z)
  | PacketPlayerChatFilterTypeMask_Default.
Definition encode_PacketPlayerChatFilterTypeMask (v : PacketPlayerChatFilterTypeMask) : Write :=
  match v with
  | PacketPlayerChatFilterTypeMask_V2 v => encode (wire_Vec wire_i64) v
  | PacketPlayerChatFilterTypeMask_Default => ret tt
  end.
Definition decode_from_PacketPlayerChatFilterTypeMask (d : Z) : Read PacketPlayerChatFilterTypeMask :=
  if on d 2 then (let* v := decode (wire_Vec wire_i64) in ret (PacketPlayerChatFilterTypeMask_V2 v))
  else ret PacketPlayerChatFilterTypeMask_Default.
Definition case_PacketPlayerChatFilterTypeMask (d : Z) (v : PacketPlayerChatFilterTypeMask) : bool :=
  match v with
  | PacketPlayerChatFilterTypeMask_V2 _ => on d 2
  | PacketPlayerChatFilterTypeMask_Default => negb (on d 2)
  end.
Definition switch_PacketPlayerChatFilterTypeMask : Switch Z PacketPlayerChatFilterTypeMask := mkSwitch case_PacketPlayerChatFilterTypeMask encode_PacketPlayerChatFilterTypeMask decode_from_PacketPlayerChatFilterTypeMask.
Definition dom_PacketPlayerChatFilterTypeMask (d : Z) (v : PacketPlayerChatFilterTypeMask) : Prop :=
  case_PacketPlayerChatFilterTypeMask d v = true ∧
  match v with
  | PacketPlayerChatFilterTypeMask_V2 v => vec_dom (in_i 64) v
  | _ => True
  end.
Definition bytes_PacketPlayerChatFilterTypeMask (v : PacketPlayerChatFilterTypeMask) : list byte :=
  match v with
  | PacketPlayerChatFilterTypeMask_V2 v => vec_bytes (be_bytes 8) v
  | _ => []
  end.
#[export] Instance lawful_PacketPlayerChatFilterTypeMask : LawfulSwitch switch_PacketPlayerChatFilterTypeMask dom_PacketPlayerChatFilterTypeMask bytes_PacketPlayerChatFilterTypeMask.
Proof. solve_switch. Qed.

Inductive PreviousMessagesItemSignature : Type :=
  | PreviousMessagesItemSignature_V0 (v : list byte)
  | PreviousMessagesItemSignature_Default.
Definition encode_PreviousMessagesItemSignature (v : PreviousMessagesItemSignature) : Write :=
  match v with
  | PreviousMessagesItemSignature_V0 v => encode (wire_blob 256) v
  | PreviousMessagesItemSignature_Default => ret tt
  end.
Definition decode_from_PreviousMessagesItemSignature (d : Z) : Read PreviousMessagesItemSignature :=
  if on d 0 then (let* v := decode (wire_blob 256) in ret (PreviousMessagesItemSignature_V0 v))
  else ret PreviousMessagesItemSignature_Default.
Definition case_PreviousMessagesItemSignature (d : Z) (v : PreviousMessagesItemSignature) : bool :=
  match v with
  | PreviousMessagesItemSignature_V0 _ => on d 0
  | PreviousMessagesItemSignature_Default => negb (on d 0)
  end.
Definition switch_PreviousMessagesItemSignature : Switch Z PreviousMessagesItemSignature := mkSwitch case_PreviousMessagesItemSignature encode_PreviousMessagesItemSignature decode_from_PreviousMessagesItemSignature.
Definition dom_PreviousMessagesItemSignature (d : Z) (v : PreviousMessagesItemSignature) : Prop :=
  case_PreviousMessagesItemSignature d v = true ∧
  match v with
  | PreviousMessagesItemSignature_V0 v => blob_dom 256 v
  | _ => True
  end.
Definition bytes_PreviousMessagesItemSignature (v : PreviousMessagesItemSignature) : list byte :=
  match v with
  | PreviousMessagesItemSignature_V0 v => id v
  | _ => []
  end.
#[export] Instance lawful_PreviousMessagesItemSignature : LawfulSwitch switch_PreviousMessagesItemSignature dom_PreviousMessagesItemSignature bytes_PreviousMessagesItemSignature.
Proof. solve_switch. Qed.

Record PreviousMessagesItem : Type := mkPreviousMessagesItem {
  PreviousMessagesItem_id : Z;
  PreviousMessagesItem_signature : PreviousMessagesItemSignature;
}.
Definition wire_PreviousMessagesItem : Codec PreviousMessagesItem := {|
  encode p :=
    modify (write_varint (PreviousMessagesItem_id p)) ;;;
    encode_at switch_PreviousMessagesItemSignature (PreviousMessagesItem_id p) (PreviousMessagesItem_signature p) ;;;
    ret tt;
  decode :=
    let* id_ := read_varint in
    let* signature := sw_decode switch_PreviousMessagesItemSignature id_ in
    ret (mkPreviousMessagesItem id_ signature);
|}.
Definition dom_PreviousMessagesItem (p : PreviousMessagesItem) : Prop :=
  in_i 32 (PreviousMessagesItem_id p)
  ∧ dom_PreviousMessagesItemSignature (PreviousMessagesItem_id p) (PreviousMessagesItem_signature p).
Definition bytes_PreviousMessagesItem (p : PreviousMessagesItem) : list byte :=
  concat [varint_bytes (PreviousMessagesItem_id p);
    bytes_PreviousMessagesItemSignature (PreviousMessagesItem_signature p)].
#[export] Instance lawful_PreviousMessagesItem : LawfulCodec wire_PreviousMessagesItem dom_PreviousMessagesItem bytes_PreviousMessagesItem.
Proof. solve_struct. Qed.
#[export] Instance cost_PreviousMessagesItem : CodecCost dom_PreviousMessagesItem bytes_PreviousMessagesItem.
Proof. solve_head. Qed.

Record PacketPlayerChat : Type := mkPacketPlayerChat {
  PacketPlayerChat_sender_uuid : Z;
  PacketPlayerChat_index : Z;
  PacketPlayerChat_signature : option (list byte);
  PacketPlayerChat_plain_message : string;
  PacketPlayerChat_timestamp : Z;
  PacketPlayerChat_salt : Z;
  PacketPlayerChat_previous_messages : list PreviousMessagesItem;
  PacketPlayerChat_unsigned_chat_content : option Nbt;
  PacketPlayerChat_filter_type : Z;
  PacketPlayerChat_filter_type_mask : PacketPlayerChatFilterTypeMask;
  PacketPlayerChat_type : Holder ChatTypes;
  PacketPlayerChat_network_name : Nbt;
  PacketPlayerChat_network_target_name : option Nbt;
}.
Definition wire_PacketPlayerChat : Codec PacketPlayerChat := {|
  encode p :=
    encode wire_u128 (PacketPlayerChat_sender_uuid p) ;;;
    modify (write_varint (PacketPlayerChat_index p)) ;;;
    encode (wire_Option (wire_blob 256)) (PacketPlayerChat_signature p) ;;;
    encode wire_String (PacketPlayerChat_plain_message p) ;;;
    modify (put_i64 (PacketPlayerChat_timestamp p)) ;;;
    modify (put_i64 (PacketPlayerChat_salt p)) ;;;
    encode (wire_Vec wire_PreviousMessagesItem) (PacketPlayerChat_previous_messages p) ;;;
    encode (wire_Option wire_Nbt) (PacketPlayerChat_unsigned_chat_content p) ;;;
    modify (write_varint (PacketPlayerChat_filter_type p)) ;;;
    encode_at switch_PacketPlayerChatFilterTypeMask (PacketPlayerChat_filter_type p) (PacketPlayerChat_filter_type_mask p) ;;;
    encode (wire_Holder wire_ChatTypes) (PacketPlayerChat_type p) ;;;
    encode wire_Nbt (PacketPlayerChat_network_name p) ;;;
    encode (wire_Option wire_Nbt) (PacketPlayerChat_network_target_name p) ;;;
    ret tt;
  decode :=
    let* sender_uuid := decode wire_u128 in
    let* index := read_varint in
    let* signature := decode (wire_Option (wire_blob 256)) in
    let* plain_message := decode wire_String in
    let* timestamp := get_i64 in
    let* salt := get_i64 in
    let* previous_messages := decode (wire_Vec wire_PreviousMessagesItem) in
    let* unsigned_chat_content := decode (wire_Option wire_Nbt) in
    let* filter_type := read_varint in
    let* filter_type_mask := sw_decode switch_PacketPlayerChatFilterTypeMask filter_type in
    let* type_ := decode (wire_Holder wire_ChatTypes) in
    let* network_name := decode wire_Nbt in
    let* network_target_name := decode (wire_Option wire_Nbt) in
    ret (mkPacketPlayerChat sender_uuid index signature plain_message timestamp salt previous_messages unsigned_chat_content filter_type filter_type_mask type_ network_name network_target_name);
|}.
Definition dom_PacketPlayerChat (p : PacketPlayerChat) : Prop :=
  in_u 128 (PacketPlayerChat_sender_uuid p)
  ∧ in_i 32 (PacketPlayerChat_index p)
  ∧ option_dom (blob_dom 256) (PacketPlayerChat_signature p)
  ∧ wire_string (PacketPlayerChat_plain_message p)
  ∧ in_i 64 (PacketPlayerChat_timestamp p)
  ∧ in_i 64 (PacketPlayerChat_salt p)
  ∧ vec_dom dom_PreviousMessagesItem (PacketPlayerChat_previous_messages p)
  ∧ option_dom nbt_fits (PacketPlayerChat_unsigned_chat_content p)
  ∧ in_i 32 (PacketPlayerChat_filter_type p)
  ∧ dom_PacketPlayerChatFilterTypeMask (PacketPlayerChat_filter_type p) (PacketPlayerChat_filter_type_mask p)
  ∧ holder_dom dom_ChatTypes (PacketPlayerChat_type p)
  ∧ nbt_fits (PacketPlayerChat_network_name p)
  ∧ option_dom nbt_fits (PacketPlayerChat_network_target_name p).
Definition bytes_PacketPlayerChat (p : PacketPlayerChat) : list byte :=
  concat [be_bytes 16 (PacketPlayerChat_sender_uuid p);
    varint_bytes (PacketPlayerChat_index p);
    option_bytes id (PacketPlayerChat_signature p);
    string_bytes (PacketPlayerChat_plain_message p);
    be_bytes 8 (PacketPlayerChat_timestamp p);
    be_bytes 8 (PacketPlayerChat_salt p);
    vec_bytes bytes_PreviousMessagesItem (PacketPlayerChat_previous_messages p);
    option_bytes nbt_bytes (PacketPlayerChat_unsigned_chat_content p);
    varint_bytes (PacketPlayerChat_filter_type p);
    bytes_PacketPlayerChatFilterTypeMask (PacketPlayerChat_filter_type_mask p);
    holder_bytes bytes_ChatTypes (PacketPlayerChat_type p);
    nbt_bytes (PacketPlayerChat_network_name p);
    option_bytes nbt_bytes (PacketPlayerChat_network_target_name p)].
#[export] Instance lawful_PacketPlayerChat : LawfulCodec wire_PacketPlayerChat dom_PacketPlayerChat bytes_PacketPlayerChat.
Proof. solve_struct. Qed.
#[export] Instance cost_PacketPlayerChat : CodecCost dom_PacketPlayerChat bytes_PacketPlayerChat.
Proof. solve_head. Qed.

Inductive PacketPlayerInfoDataItemPlayer : Type :=
  | PacketPlayerInfoDataItemPlayer_True (v : GameProfile)
  | PacketPlayerInfoDataItemPlayer_Default.
Definition encode_PacketPlayerInfoDataItemPlayer (v : PacketPlayerInfoDataItemPlayer) : Write :=
  match v with
  | PacketPlayerInfoDataItemPlayer_True v => encode wire_GameProfile v
  | PacketPlayerInfoDataItemPlayer_Default => ret tt
  end.
Definition decode_from_PacketPlayerInfoDataItemPlayer (d : bool) : Read PacketPlayerInfoDataItemPlayer :=
  if d then (let* v := decode wire_GameProfile in ret (PacketPlayerInfoDataItemPlayer_True v))
  else ret PacketPlayerInfoDataItemPlayer_Default.
Definition case_PacketPlayerInfoDataItemPlayer (d : bool) (v : PacketPlayerInfoDataItemPlayer) : bool :=
  match v with
  | PacketPlayerInfoDataItemPlayer_True _ => on d true
  | PacketPlayerInfoDataItemPlayer_Default => on d false
  end.
Definition switch_PacketPlayerInfoDataItemPlayer : Switch bool PacketPlayerInfoDataItemPlayer := mkSwitch case_PacketPlayerInfoDataItemPlayer encode_PacketPlayerInfoDataItemPlayer decode_from_PacketPlayerInfoDataItemPlayer.
Definition dom_PacketPlayerInfoDataItemPlayer (d : bool) (v : PacketPlayerInfoDataItemPlayer) : Prop :=
  case_PacketPlayerInfoDataItemPlayer d v = true ∧
  match v with
  | PacketPlayerInfoDataItemPlayer_True v => dom_GameProfile v
  | _ => True
  end.
Definition bytes_PacketPlayerInfoDataItemPlayer (v : PacketPlayerInfoDataItemPlayer) : list byte :=
  match v with
  | PacketPlayerInfoDataItemPlayer_True v => bytes_GameProfile v
  | _ => []
  end.
#[export] Instance lawful_PacketPlayerInfoDataItemPlayer : LawfulSwitch switch_PacketPlayerInfoDataItemPlayer dom_PacketPlayerInfoDataItemPlayer bytes_PacketPlayerInfoDataItemPlayer.
Proof. solve_switch. Qed.

Inductive PacketPlayerInfoDataItemChatSession : Type :=
  | PacketPlayerInfoDataItemChatSession_True (v : option ChatSessionValue)
  | PacketPlayerInfoDataItemChatSession_Default.
Definition encode_PacketPlayerInfoDataItemChatSession (v : PacketPlayerInfoDataItemChatSession) : Write :=
  match v with
  | PacketPlayerInfoDataItemChatSession_True v => encode (wire_Option wire_ChatSessionValue) v
  | PacketPlayerInfoDataItemChatSession_Default => ret tt
  end.
Definition decode_from_PacketPlayerInfoDataItemChatSession (d : bool) : Read PacketPlayerInfoDataItemChatSession :=
  if d then (let* v := decode (wire_Option wire_ChatSessionValue) in ret (PacketPlayerInfoDataItemChatSession_True v))
  else ret PacketPlayerInfoDataItemChatSession_Default.
Definition case_PacketPlayerInfoDataItemChatSession (d : bool) (v : PacketPlayerInfoDataItemChatSession) : bool :=
  match v with
  | PacketPlayerInfoDataItemChatSession_True _ => on d true
  | PacketPlayerInfoDataItemChatSession_Default => on d false
  end.
Definition switch_PacketPlayerInfoDataItemChatSession : Switch bool PacketPlayerInfoDataItemChatSession := mkSwitch case_PacketPlayerInfoDataItemChatSession encode_PacketPlayerInfoDataItemChatSession decode_from_PacketPlayerInfoDataItemChatSession.
Definition dom_PacketPlayerInfoDataItemChatSession (d : bool) (v : PacketPlayerInfoDataItemChatSession) : Prop :=
  case_PacketPlayerInfoDataItemChatSession d v = true ∧
  match v with
  | PacketPlayerInfoDataItemChatSession_True v => option_dom dom_ChatSessionValue v
  | _ => True
  end.
Definition bytes_PacketPlayerInfoDataItemChatSession (v : PacketPlayerInfoDataItemChatSession) : list byte :=
  match v with
  | PacketPlayerInfoDataItemChatSession_True v => option_bytes bytes_ChatSessionValue v
  | _ => []
  end.
#[export] Instance lawful_PacketPlayerInfoDataItemChatSession : LawfulSwitch switch_PacketPlayerInfoDataItemChatSession dom_PacketPlayerInfoDataItemChatSession bytes_PacketPlayerInfoDataItemChatSession.
Proof. solve_switch. Qed.

Inductive PacketPlayerInfoDataItemGamemode : Type :=
  | PacketPlayerInfoDataItemGamemode_True (v : Z)
  | PacketPlayerInfoDataItemGamemode_Default.
Definition encode_PacketPlayerInfoDataItemGamemode (v : PacketPlayerInfoDataItemGamemode) : Write :=
  match v with
  | PacketPlayerInfoDataItemGamemode_True v => encode wire_varint v
  | PacketPlayerInfoDataItemGamemode_Default => ret tt
  end.
Definition decode_from_PacketPlayerInfoDataItemGamemode (d : bool) : Read PacketPlayerInfoDataItemGamemode :=
  if d then (let* v := decode wire_varint in ret (PacketPlayerInfoDataItemGamemode_True v))
  else ret PacketPlayerInfoDataItemGamemode_Default.
Definition case_PacketPlayerInfoDataItemGamemode (d : bool) (v : PacketPlayerInfoDataItemGamemode) : bool :=
  match v with
  | PacketPlayerInfoDataItemGamemode_True _ => on d true
  | PacketPlayerInfoDataItemGamemode_Default => on d false
  end.
Definition switch_PacketPlayerInfoDataItemGamemode : Switch bool PacketPlayerInfoDataItemGamemode := mkSwitch case_PacketPlayerInfoDataItemGamemode encode_PacketPlayerInfoDataItemGamemode decode_from_PacketPlayerInfoDataItemGamemode.
Definition dom_PacketPlayerInfoDataItemGamemode (d : bool) (v : PacketPlayerInfoDataItemGamemode) : Prop :=
  case_PacketPlayerInfoDataItemGamemode d v = true ∧
  match v with
  | PacketPlayerInfoDataItemGamemode_True v => in_i 32 v
  | _ => True
  end.
Definition bytes_PacketPlayerInfoDataItemGamemode (v : PacketPlayerInfoDataItemGamemode) : list byte :=
  match v with
  | PacketPlayerInfoDataItemGamemode_True v => varint_bytes v
  | _ => []
  end.
#[export] Instance lawful_PacketPlayerInfoDataItemGamemode : LawfulSwitch switch_PacketPlayerInfoDataItemGamemode dom_PacketPlayerInfoDataItemGamemode bytes_PacketPlayerInfoDataItemGamemode.
Proof. solve_switch. Qed.

Inductive PacketPlayerInfoDataItemListed : Type :=
  | PacketPlayerInfoDataItemListed_True (v : Z)
  | PacketPlayerInfoDataItemListed_Default.
Definition encode_PacketPlayerInfoDataItemListed (v : PacketPlayerInfoDataItemListed) : Write :=
  match v with
  | PacketPlayerInfoDataItemListed_True v => encode wire_varint v
  | PacketPlayerInfoDataItemListed_Default => ret tt
  end.
Definition decode_from_PacketPlayerInfoDataItemListed (d : bool) : Read PacketPlayerInfoDataItemListed :=
  if d then (let* v := decode wire_varint in ret (PacketPlayerInfoDataItemListed_True v))
  else ret PacketPlayerInfoDataItemListed_Default.
Definition case_PacketPlayerInfoDataItemListed (d : bool) (v : PacketPlayerInfoDataItemListed) : bool :=
  match v with
  | PacketPlayerInfoDataItemListed_True _ => on d true
  | PacketPlayerInfoDataItemListed_Default => on d false
  end.
Definition switch_PacketPlayerInfoDataItemListed : Switch bool PacketPlayerInfoDataItemListed := mkSwitch case_PacketPlayerInfoDataItemListed encode_PacketPlayerInfoDataItemListed decode_from_PacketPlayerInfoDataItemListed.
Definition dom_PacketPlayerInfoDataItemListed (d : bool) (v : PacketPlayerInfoDataItemListed) : Prop :=
  case_PacketPlayerInfoDataItemListed d v = true ∧
  match v with
  | PacketPlayerInfoDataItemListed_True v => in_i 32 v
  | _ => True
  end.
Definition bytes_PacketPlayerInfoDataItemListed (v : PacketPlayerInfoDataItemListed) : list byte :=
  match v with
  | PacketPlayerInfoDataItemListed_True v => varint_bytes v
  | _ => []
  end.
#[export] Instance lawful_PacketPlayerInfoDataItemListed : LawfulSwitch switch_PacketPlayerInfoDataItemListed dom_PacketPlayerInfoDataItemListed bytes_PacketPlayerInfoDataItemListed.
Proof. solve_switch. Qed.

Inductive PacketPlayerInfoDataItemLatency : Type :=
  | PacketPlayerInfoDataItemLatency_True (v : Z)
  | PacketPlayerInfoDataItemLatency_Default.
Definition encode_PacketPlayerInfoDataItemLatency (v : PacketPlayerInfoDataItemLatency) : Write :=
  match v with
  | PacketPlayerInfoDataItemLatency_True v => encode wire_varint v
  | PacketPlayerInfoDataItemLatency_Default => ret tt
  end.
Definition decode_from_PacketPlayerInfoDataItemLatency (d : bool) : Read PacketPlayerInfoDataItemLatency :=
  if d then (let* v := decode wire_varint in ret (PacketPlayerInfoDataItemLatency_True v))
  else ret PacketPlayerInfoDataItemLatency_Default.
Definition case_PacketPlayerInfoDataItemLatency (d : bool) (v : PacketPlayerInfoDataItemLatency) : bool :=
  match v with
  | PacketPlayerInfoDataItemLatency_True _ => on d true
  | PacketPlayerInfoDataItemLatency_Default => on d false
  end.
Definition switch_PacketPlayerInfoDataItemLatency : Switch bool PacketPlayerInfoDataItemLatency := mkSwitch case_PacketPlayerInfoDataItemLatency encode_PacketPlayerInfoDataItemLatency decode_from_PacketPlayerInfoDataItemLatency.
Definition dom_PacketPlayerInfoDataItemLatency (d : bool) (v : PacketPlayerInfoDataItemLatency) : Prop :=
  case_PacketPlayerInfoDataItemLatency d v = true ∧
  match v with
  | PacketPlayerInfoDataItemLatency_True v => in_i 32 v
  | _ => True
  end.
Definition bytes_PacketPlayerInfoDataItemLatency (v : PacketPlayerInfoDataItemLatency) : list byte :=
  match v with
  | PacketPlayerInfoDataItemLatency_True v => varint_bytes v
  | _ => []
  end.
#[export] Instance lawful_PacketPlayerInfoDataItemLatency : LawfulSwitch switch_PacketPlayerInfoDataItemLatency dom_PacketPlayerInfoDataItemLatency bytes_PacketPlayerInfoDataItemLatency.
Proof. solve_switch. Qed.

Inductive PacketPlayerInfoDataItemDisplayName : Type :=
  | PacketPlayerInfoDataItemDisplayName_True (v : option Nbt)
  | PacketPlayerInfoDataItemDisplayName_Default.
Definition encode_PacketPlayerInfoDataItemDisplayName (v : PacketPlayerInfoDataItemDisplayName) : Write :=
  match v with
  | PacketPlayerInfoDataItemDisplayName_True v => encode (wire_Option wire_Nbt) v
  | PacketPlayerInfoDataItemDisplayName_Default => ret tt
  end.
Definition decode_from_PacketPlayerInfoDataItemDisplayName (d : bool) : Read PacketPlayerInfoDataItemDisplayName :=
  if d then (let* v := decode (wire_Option wire_Nbt) in ret (PacketPlayerInfoDataItemDisplayName_True v))
  else ret PacketPlayerInfoDataItemDisplayName_Default.
Definition case_PacketPlayerInfoDataItemDisplayName (d : bool) (v : PacketPlayerInfoDataItemDisplayName) : bool :=
  match v with
  | PacketPlayerInfoDataItemDisplayName_True _ => on d true
  | PacketPlayerInfoDataItemDisplayName_Default => on d false
  end.
Definition switch_PacketPlayerInfoDataItemDisplayName : Switch bool PacketPlayerInfoDataItemDisplayName := mkSwitch case_PacketPlayerInfoDataItemDisplayName encode_PacketPlayerInfoDataItemDisplayName decode_from_PacketPlayerInfoDataItemDisplayName.
Definition dom_PacketPlayerInfoDataItemDisplayName (d : bool) (v : PacketPlayerInfoDataItemDisplayName) : Prop :=
  case_PacketPlayerInfoDataItemDisplayName d v = true ∧
  match v with
  | PacketPlayerInfoDataItemDisplayName_True v => option_dom nbt_fits v
  | _ => True
  end.
Definition bytes_PacketPlayerInfoDataItemDisplayName (v : PacketPlayerInfoDataItemDisplayName) : list byte :=
  match v with
  | PacketPlayerInfoDataItemDisplayName_True v => option_bytes nbt_bytes v
  | _ => []
  end.
#[export] Instance lawful_PacketPlayerInfoDataItemDisplayName : LawfulSwitch switch_PacketPlayerInfoDataItemDisplayName dom_PacketPlayerInfoDataItemDisplayName bytes_PacketPlayerInfoDataItemDisplayName.
Proof. solve_switch. Qed.

Inductive PacketPlayerInfoDataItemListPriority : Type :=
  | PacketPlayerInfoDataItemListPriority_True (v : Z)
  | PacketPlayerInfoDataItemListPriority_Default.
Definition encode_PacketPlayerInfoDataItemListPriority (v : PacketPlayerInfoDataItemListPriority) : Write :=
  match v with
  | PacketPlayerInfoDataItemListPriority_True v => encode wire_varint v
  | PacketPlayerInfoDataItemListPriority_Default => ret tt
  end.
Definition decode_from_PacketPlayerInfoDataItemListPriority (d : bool) : Read PacketPlayerInfoDataItemListPriority :=
  if d then (let* v := decode wire_varint in ret (PacketPlayerInfoDataItemListPriority_True v))
  else ret PacketPlayerInfoDataItemListPriority_Default.
Definition case_PacketPlayerInfoDataItemListPriority (d : bool) (v : PacketPlayerInfoDataItemListPriority) : bool :=
  match v with
  | PacketPlayerInfoDataItemListPriority_True _ => on d true
  | PacketPlayerInfoDataItemListPriority_Default => on d false
  end.
Definition switch_PacketPlayerInfoDataItemListPriority : Switch bool PacketPlayerInfoDataItemListPriority := mkSwitch case_PacketPlayerInfoDataItemListPriority encode_PacketPlayerInfoDataItemListPriority decode_from_PacketPlayerInfoDataItemListPriority.
Definition dom_PacketPlayerInfoDataItemListPriority (d : bool) (v : PacketPlayerInfoDataItemListPriority) : Prop :=
  case_PacketPlayerInfoDataItemListPriority d v = true ∧
  match v with
  | PacketPlayerInfoDataItemListPriority_True v => in_i 32 v
  | _ => True
  end.
Definition bytes_PacketPlayerInfoDataItemListPriority (v : PacketPlayerInfoDataItemListPriority) : list byte :=
  match v with
  | PacketPlayerInfoDataItemListPriority_True v => varint_bytes v
  | _ => []
  end.
#[export] Instance lawful_PacketPlayerInfoDataItemListPriority : LawfulSwitch switch_PacketPlayerInfoDataItemListPriority dom_PacketPlayerInfoDataItemListPriority bytes_PacketPlayerInfoDataItemListPriority.
Proof. solve_switch. Qed.

Inductive PacketPlayerInfoDataItemShowHat : Type :=
  | PacketPlayerInfoDataItemShowHat_True (v : bool)
  | PacketPlayerInfoDataItemShowHat_Default.
Definition encode_PacketPlayerInfoDataItemShowHat (v : PacketPlayerInfoDataItemShowHat) : Write :=
  match v with
  | PacketPlayerInfoDataItemShowHat_True v => encode wire_bool v
  | PacketPlayerInfoDataItemShowHat_Default => ret tt
  end.
Definition decode_from_PacketPlayerInfoDataItemShowHat (d : bool) : Read PacketPlayerInfoDataItemShowHat :=
  if d then (let* v := decode wire_bool in ret (PacketPlayerInfoDataItemShowHat_True v))
  else ret PacketPlayerInfoDataItemShowHat_Default.
Definition case_PacketPlayerInfoDataItemShowHat (d : bool) (v : PacketPlayerInfoDataItemShowHat) : bool :=
  match v with
  | PacketPlayerInfoDataItemShowHat_True _ => on d true
  | PacketPlayerInfoDataItemShowHat_Default => on d false
  end.
Definition switch_PacketPlayerInfoDataItemShowHat : Switch bool PacketPlayerInfoDataItemShowHat := mkSwitch case_PacketPlayerInfoDataItemShowHat encode_PacketPlayerInfoDataItemShowHat decode_from_PacketPlayerInfoDataItemShowHat.
Definition dom_PacketPlayerInfoDataItemShowHat (d : bool) (v : PacketPlayerInfoDataItemShowHat) : Prop :=
  case_PacketPlayerInfoDataItemShowHat d v = true ∧
  True.
Definition bytes_PacketPlayerInfoDataItemShowHat (v : PacketPlayerInfoDataItemShowHat) : list byte :=
  match v with
  | PacketPlayerInfoDataItemShowHat_True v => bool_bytes v
  | _ => []
  end.
#[export] Instance lawful_PacketPlayerInfoDataItemShowHat : LawfulSwitch switch_PacketPlayerInfoDataItemShowHat dom_PacketPlayerInfoDataItemShowHat bytes_PacketPlayerInfoDataItemShowHat.
Proof. solve_switch. Qed.

Record PacketPlayerInfoDataItem : Type := mkPacketPlayerInfoDataItem {
  PacketPlayerInfoDataItem_uuid : Z;
  PacketPlayerInfoDataItem_player : PacketPlayerInfoDataItemPlayer;
  PacketPlayerInfoDataItem_chat_session : PacketPlayerInfoDataItemChatSession;
  PacketPlayerInfoDataItem_gamemode : PacketPlayerInfoDataItemGamemode;
  PacketPlayerInfoDataItem_listed : PacketPlayerInfoDataItemListed;
  PacketPlayerInfoDataItem_latency : PacketPlayerInfoDataItemLatency;
  PacketPlayerInfoDataItem_display_name : PacketPlayerInfoDataItemDisplayName;
  PacketPlayerInfoDataItem_list_priority : PacketPlayerInfoDataItemListPriority;
  PacketPlayerInfoDataItem_show_hat : PacketPlayerInfoDataItemShowHat;
}.
(** [Encode]: every field is written as it is, whatever the action says. *)
Definition encode_PacketPlayerInfoDataItem (p : PacketPlayerInfoDataItem) : Write :=
  encode wire_u128 (PacketPlayerInfoDataItem_uuid p) ;;;
  sw_encode switch_PacketPlayerInfoDataItemPlayer (PacketPlayerInfoDataItem_player p) ;;;
  sw_encode switch_PacketPlayerInfoDataItemChatSession (PacketPlayerInfoDataItem_chat_session p) ;;;
  sw_encode switch_PacketPlayerInfoDataItemGamemode (PacketPlayerInfoDataItem_gamemode p) ;;;
  sw_encode switch_PacketPlayerInfoDataItemListed (PacketPlayerInfoDataItem_listed p) ;;;
  sw_encode switch_PacketPlayerInfoDataItemLatency (PacketPlayerInfoDataItem_latency p) ;;;
  sw_encode switch_PacketPlayerInfoDataItemDisplayName (PacketPlayerInfoDataItem_display_name p) ;;;
  sw_encode switch_PacketPlayerInfoDataItemListPriority (PacketPlayerInfoDataItem_list_priority p) ;;;
  sw_encode switch_PacketPlayerInfoDataItemShowHat (PacketPlayerInfoDataItem_show_hat p) ;;;
  ret tt.
(** [decode_ctx], its flags taken from the packet's action. *)
Definition decode_PacketPlayerInfoDataItem (action : PacketPlayerInfoAction) : Read PacketPlayerInfoDataItem :=
  let* uuid := decode wire_u128 in
  let* player := sw_decode switch_PacketPlayerInfoDataItemPlayer (PacketPlayerInfoAction_contains action PacketPlayerInfoAction_ADD_PLAYER) in
  let* chat_session := sw_decode switch_PacketPlayerInfoDataItemChatSession (PacketPlayerInfoAction_contains action PacketPlayerInfoAction_INITIALIZE_CHAT) in
  let* gamemode := sw_decode switch_PacketPlayerInfoDataItemGamemode (PacketPlayerInfoAction_contains action PacketPlayerInfoAction_UPDATE_GAME_MODE) in
  let* listed := sw_decode switch_PacketPlayerInfoDataItemListed (PacketPlayerInfoAction_contains action PacketPlayerInfoAction_UPDATE_LISTED) in
  let* latency := sw_decode switch_PacketPlayerInfoDataItemLatency (PacketPlayerInfoAction_contains action PacketPlayerInfoAction_UPDATE_LATENCY) in
  let* display_name := sw_decode switch_PacketPlayerInfoDataItemDisplayName (PacketPlayerInfoAction_contains action PacketPlayerInfoAction_UPDATE_DISPLAY_NAME) in
  let* list_priority := sw_decode switch_PacketPlayerInfoDataItemListPriority (PacketPlayerInfoAction_contains action PacketPlayerInfoAction_UPDATE_LIST_ORDER) in
  let* show_hat := sw_decode switch_PacketPlayerInfoDataItemShowHat (PacketPlayerInfoAction_contains action PacketPlayerInfoAction_UPDATE_HAT) in
  ret (mkPacketPlayerInfoDataItem uuid player chat_session gamemode listed latency display_name list_priority show_hat).
Definition switch_PacketPlayerInfoDataItem : Switch PacketPlayerInfoAction PacketPlayerInfoDataItem := mkSwitch (λ _ _, true) encode_PacketPlayerInfoDataItem decode_PacketPlayerInfoDataItem.
Definition dom_PacketPlayerInfoDataItem (action : PacketPlayerInfoAction) (p : PacketPlayerInfoDataItem) : Prop :=
  in_u 128 (PacketPlayerInfoDataItem_uuid p)
  ∧ dom_PacketPlayerInfoDataItemPlayer (PacketPlayerInfoAction_contains action PacketPlayerInfoAction_ADD_PLAYER) (PacketPlayerInfoDataItem_player p)
  ∧ dom_PacketPlayerInfoDataItemChatSession (PacketPlayerInfoAction_contains action PacketPlayerInfoAction_INITIALIZE_CHAT) (PacketPlayerInfoDataItem_chat_session p)
  ∧ dom_PacketPlayerInfoDataItemGamemode (PacketPlayerInfoAction_contains action PacketPlayerInfoAction_UPDATE_GAME_MODE) (PacketPlayerInfoDataItem_gamemode p)
  ∧ dom_PacketPlayerInfoDataItemListed (PacketPlayerInfoAction_contains action PacketPlayerInfoAction_UPDATE_LISTED) (PacketPlayerInfoDataItem_listed p)
  ∧ dom_PacketPlayerInfoDataItemLatency (PacketPlayerInfoAction_contains action PacketPlayerInfoAction_UPDATE_LATENCY) (PacketPlayerInfoDataItem_latency p)
  ∧ dom_PacketPlayerInfoDataItemDisplayName (PacketPlayerInfoAction_contains action PacketPlayerInfoAction_UPDATE_DISPLAY_NAME) (PacketPlayerInfoDataItem_display_name p)
  ∧ dom_PacketPlayerInfoDataItemListPriority (PacketPlayerInfoAction_contains action PacketPlayerInfoAction_UPDATE_LIST_ORDER) (PacketPlayerInfoDataItem_list_priority p)
  ∧ dom_PacketPlayerInfoDataItemShowHat (PacketPlayerInfoAction_contains action PacketPlayerInfoAction_UPDATE_HAT) (PacketPlayerInfoDataItem_show_hat p).
Definition bytes_PacketPlayerInfoDataItem (p : PacketPlayerInfoDataItem) : list byte :=
  concat [be_bytes 16 (PacketPlayerInfoDataItem_uuid p);
    bytes_PacketPlayerInfoDataItemPlayer (PacketPlayerInfoDataItem_player p);
    bytes_PacketPlayerInfoDataItemChatSession (PacketPlayerInfoDataItem_chat_session p);
    bytes_PacketPlayerInfoDataItemGamemode (PacketPlayerInfoDataItem_gamemode p);
    bytes_PacketPlayerInfoDataItemListed (PacketPlayerInfoDataItem_listed p);
    bytes_PacketPlayerInfoDataItemLatency (PacketPlayerInfoDataItem_latency p);
    bytes_PacketPlayerInfoDataItemDisplayName (PacketPlayerInfoDataItem_display_name p);
    bytes_PacketPlayerInfoDataItemListPriority (PacketPlayerInfoDataItem_list_priority p);
    bytes_PacketPlayerInfoDataItemShowHat (PacketPlayerInfoDataItem_show_hat p)].
#[export] Instance lawful_PacketPlayerInfoDataItem : LawfulSwitch switch_PacketPlayerInfoDataItem dom_PacketPlayerInfoDataItem bytes_PacketPlayerInfoDataItem.
Proof. solve_ctx. Qed.
#[export] Instance cost_PacketPlayerInfoDataItem dom : CodecCost dom bytes_PacketPlayerInfoDataItem.
Proof. intros p _. unfold bytes_PacketPlayerInfoDataItem. cbn [concat]. apply app_cost. rewrite be_bytes_length. lia. Qed.

Record PacketPlayerInfo : Type := mkPacketPlayerInfo {
  PacketPlayerInfo_action : PacketPlayerInfoAction;
  PacketPlayerInfo_data : list PacketPlayerInfoDataItem;
}.
Definition wire_PacketPlayerInfo : Codec PacketPlayerInfo := {|
  encode p :=
    encode wire_PacketPlayerInfoAction (PacketPlayerInfo_action p) ;;;
    encode (wire_Vec (codec_at switch_PacketPlayerInfoDataItem (PacketPlayerInfo_action p))) (PacketPlayerInfo_data p) ;;;
    ret tt;
  decode :=
    let* action := decode wire_PacketPlayerInfoAction in
    let* data := decode (wire_Vec (codec_at switch_PacketPlayerInfoDataItem action)) in
    ret (mkPacketPlayerInfo action data);
|}.
Definition dom_PacketPlayerInfo (p : PacketPlayerInfo) : Prop :=
  dom_PacketPlayerInfoAction (PacketPlayerInfo_action p)
  ∧ vec_dom (λ v, dom_PacketPlayerInfoDataItem (PacketPlayerInfo_action p) v
      ∧ sw_case switch_PacketPlayerInfoDataItem (PacketPlayerInfo_action p) v = true) (PacketPlayerInfo_data p).
Definition bytes_PacketPlayerInfo (p : PacketPlayerInfo) : list byte :=
  concat [bytes_PacketPlayerInfoAction (PacketPlayerInfo_action p);
    vec_bytes bytes_PacketPlayerInfoDataItem (PacketPlayerInfo_data p)].
#[export] Instance lawful_PacketPlayerInfo : LawfulCodec wire_PacketPlayerInfo dom_PacketPlayerInfo bytes_PacketPlayerInfo.
Proof. solve_struct. Qed.

Inductive PacketFacePlayerEntityId : Type :=
  | PacketFacePlayerEntityId_True (v : Z)
  | PacketFacePlayerEntityId_Default.
Definition encode_PacketFacePlayerEntityId (v : PacketFacePlayerEntityId) : Write :=
  match v with
  | PacketFacePlayerEntityId_True v => encode wire_varint v
  | PacketFacePlayerEntityId_Default => ret tt
  end.
Definition decode_from_PacketFacePlayerEntityId (d : bool) : Read PacketFacePlayerEntityId :=
  if d then (let* v := decode wire_varint in ret (PacketFacePlayerEntityId_True v))
  else ret PacketFacePlayerEntityId_Default.
Definition case_PacketFacePlayerEntityId (d : bool) (v : PacketFacePlayerEntityId) : bool :=
  match v with
  | PacketFacePlayerEntityId_True _ => on d true
  | PacketFacePlayerEntityId_Default => on d false
  end.
Definition switch_PacketFacePlayerEntityId : Switch bool PacketFacePlayerEntityId := mkSwitch case_PacketFacePlayerEntityId encode_PacketFacePlayerEntityId decode_from_PacketFacePlayerEntityId.
Definition dom_PacketFacePlayerEntityId (d : bool) (v : PacketFacePlayerEntityId) : Prop :=
  case_PacketFacePlayerEntityId d v = true ∧
  match v with
  | PacketFacePlayerEntityId_True v => in_i 32 v
  | _ => True
  end.
Definition bytes_PacketFacePlayerEntityId (v : PacketFacePlayerEntityId) : list byte :=
  match v with
  | PacketFacePlayerEntityId_True v => varint_bytes v
  | _ => []
  end.
#[export] Instance lawful_PacketFacePlayerEntityId : LawfulSwitch switch_PacketFacePlayerEntityId dom_PacketFacePlayerEntityId bytes_PacketFacePlayerEntityId.
Proof. solve_switch. Qed.

Inductive PacketFacePlayerEntityFeetEyes : Type :=
  | PacketFacePlayerEntityFeetEyes_True (v : Z)
  | PacketFacePlayerEntityFeetEyes_Default.
Definition encode_PacketFacePlayerEntityFeetEyes (v : PacketFacePlayerEntityFeetEyes) : Write :=
  match v with
  | PacketFacePlayerEntityFeetEyes_True v => encode wire_varint v
  | PacketFacePlayerEntityFeetEyes_Default => ret tt
  end.
Definition decode_from_PacketFacePlayerEntityFeetEyes (d : bool) : Read PacketFacePlayerEntityFeetEyes :=
  if d then (let* v := decode wire_varint in ret (PacketFacePlayerEntityFeetEyes_True v))
  else ret PacketFacePlayerEntityFeetEyes_Default.
Definition case_PacketFacePlayerEntityFeetEyes (d : bool) (v : PacketFacePlayerEntityFeetEyes) : bool :=
  match v with
  | PacketFacePlayerEntityFeetEyes_True _ => on d true
  | PacketFacePlayerEntityFeetEyes_Default => on d false
  end.
Definition switch_PacketFacePlayerEntityFeetEyes : Switch bool PacketFacePlayerEntityFeetEyes := mkSwitch case_PacketFacePlayerEntityFeetEyes encode_PacketFacePlayerEntityFeetEyes decode_from_PacketFacePlayerEntityFeetEyes.
Definition dom_PacketFacePlayerEntityFeetEyes (d : bool) (v : PacketFacePlayerEntityFeetEyes) : Prop :=
  case_PacketFacePlayerEntityFeetEyes d v = true ∧
  match v with
  | PacketFacePlayerEntityFeetEyes_True v => in_i 32 v
  | _ => True
  end.
Definition bytes_PacketFacePlayerEntityFeetEyes (v : PacketFacePlayerEntityFeetEyes) : list byte :=
  match v with
  | PacketFacePlayerEntityFeetEyes_True v => varint_bytes v
  | _ => []
  end.
#[export] Instance lawful_PacketFacePlayerEntityFeetEyes : LawfulSwitch switch_PacketFacePlayerEntityFeetEyes dom_PacketFacePlayerEntityFeetEyes bytes_PacketFacePlayerEntityFeetEyes.
Proof. solve_switch. Qed.

Record PacketFacePlayer : Type := mkPacketFacePlayer {
  PacketFacePlayer_feet_eyes : Z;
  PacketFacePlayer_x : Z;
  PacketFacePlayer_y : Z;
  PacketFacePlayer_z : Z;
  PacketFacePlayer_is_entity : bool;
  PacketFacePlayer_entity_id : PacketFacePlayerEntityId;
  PacketFacePlayer_entity_feet_eyes : PacketFacePlayerEntityFeetEyes;
}.
Definition wire_PacketFacePlayer : Codec PacketFacePlayer := {|
  encode p :=
    modify (write_varint (PacketFacePlayer_feet_eyes p)) ;;;
    encode wire_f64 (PacketFacePlayer_x p) ;;;
    encode wire_f64 (PacketFacePlayer_y p) ;;;
    encode wire_f64 (PacketFacePlayer_z p) ;;;
    encode wire_bool (PacketFacePlayer_is_entity p) ;;;
    encode_at switch_PacketFacePlayerEntityId (PacketFacePlayer_is_entity p) (PacketFacePlayer_entity_id p) ;;;
    encode_at switch_PacketFacePlayerEntityFeetEyes (PacketFacePlayer_is_entity p) (PacketFacePlayer_entity_feet_eyes p) ;;;
    ret tt;
  decode :=
    let* feet_eyes := read_varint in
    let* x := decode wire_f64 in
    let* y := decode wire_f64 in
    let* z := decode wire_f64 in
    let* is_entity := decode wire_bool in
    let* entity_id := sw_decode switch_PacketFacePlayerEntityId is_entity in
    let* entity_feet_eyes := sw_decode switch_PacketFacePlayerEntityFeetEyes is_entity in
    ret (mkPacketFacePlayer feet_eyes x y z is_entity entity_id entity_feet_eyes);
|}.
Definition dom_PacketFacePlayer (p : PacketFacePlayer) : Prop :=
  in_i 32 (PacketFacePlayer_feet_eyes p)
  ∧ in_u 64 (PacketFacePlayer_x p)
  ∧ in_u 64 (PacketFacePlayer_y p)
  ∧ in_u 64 (PacketFacePlayer_z p)
  ∧ dom_PacketFacePlayerEntityId (PacketFacePlayer_is_entity p) (PacketFacePlayer_entity_id p)
  ∧ dom_PacketFacePlayerEntityFeetEyes (PacketFacePlayer_is_entity p) (PacketFacePlayer_entity_feet_eyes p).
Definition bytes_PacketFacePlayer (p : PacketFacePlayer) : list byte :=
  concat [varint_bytes (PacketFacePlayer_feet_eyes p);
    be_bytes 8 (PacketFacePlayer_x p);
    be_bytes 8 (PacketFacePlayer_y p);
    be_bytes 8 (PacketFacePlayer_z p);
    bool_bytes (PacketFacePlayer_is_entity p);
    bytes_PacketFacePlayerEntityId (PacketFacePlayer_entity_id p);
    bytes_PacketFacePlayerEntityFeetEyes (PacketFacePlayer_entity_feet_eyes p)].
#[export] Instance lawful_PacketFacePlayer : LawfulCodec wire_PacketFacePlayer dom_PacketFacePlayer bytes_PacketFacePlayer.
Proof. solve_struct. Qed.
#[export] Instance cost_PacketFacePlayer : CodecCost dom_PacketFacePlayer bytes_PacketFacePlayer.
Proof. solve_head. Qed.

Record PacketRecipeBookAddEntriesItemRecipe : Type := mkPacketRecipeBookAddEntriesItemRecipe {
  PacketRecipeBookAddEntriesItemRecipe_display_id : Z;
  PacketRecipeBookAddEntriesItemRecipe_display : RecipeDisplay;
  PacketRecipeBookAddEntriesItemRecipe_group : Z;
  PacketRecipeBookAddEntriesItemRecipe_category : PacketRecipeBookAddEntriesItemRecipeCategory;
  PacketRecipeBookAddEntriesItemRecipe_crafting_requirements : option (list HolderSet);
}.
Definition wire_PacketRecipeBookAddEntriesItemRecipe : Codec PacketRecipeBookAddEntriesItemRecipe := {|
  encode p :=
    modify (write_varint (PacketRecipeBookAddEntriesItemRecipe_display_id p)) ;;;
    encode wire_RecipeDisplay (PacketRecipeBookAddEntriesItemRecipe_display p) ;;;
    modify (write_varint (PacketRecipeBookAddEntriesItemRecipe_group p)) ;;;
    encode wire_PacketRecipeBookAddEntriesItemRecipeCategory (PacketRecipeBookAddEntriesItemRecipe_category p) ;;;
    encode (wire_Option (wire_Vec wire_HolderSet)) (PacketRecipeBookAddEntriesItemRecipe_crafting_requirements p) ;;;
    ret tt;
  decode :=
    let* display_id := read_varint in
    let* display := decode wire_RecipeDisplay in
    let* group := read_varint in
    let* category := decode wire_PacketRecipeBookAddEntriesItemRecipeCategory in
    let* crafting_requirements := decode (wire_Option (wire_Vec wire_HolderSet)) in
    ret (mkPacketRecipeBookAddEntriesItemRecipe display_id display group category crafting_requirements);
|}.
Definition dom_PacketRecipeBookAddEntriesItemRecipe (p : PacketRecipeBookAddEntriesItemRecipe) : Prop :=
  in_i 32 (PacketRecipeBookAddEntriesItemRecipe_display_id p)
  ∧ dom_RecipeDisplay (PacketRecipeBookAddEntriesItemRecipe_display p)
  ∧ in_i 32 (PacketRecipeBookAddEntriesItemRecipe_group p)
  ∧ dom_PacketRecipeBookAddEntriesItemRecipeCategory (PacketRecipeBookAddEntriesItemRecipe_category p)
  ∧ option_dom (vec_dom holder_set_dom) (PacketRecipeBookAddEntriesItemRecipe_crafting_requirements p).
Definition bytes_PacketRecipeBookAddEntriesItemRecipe (p : PacketRecipeBookAddEntriesItemRecipe) : list byte :=
  concat [varint_bytes (PacketRecipeBookAddEntriesItemRecipe_display_id p);
    bytes_RecipeDisplay (PacketRecipeBookAddEntriesItemRecipe_display p);
    varint_bytes (PacketRecipeBookAddEntriesItemRecipe_group p);
    bytes_PacketRecipeBookAddEntriesItemRecipeCategory (PacketRecipeBookAddEntriesItemRecipe_category p);
    option_bytes (vec_bytes holder_set_bytes) (PacketRecipeBookAddEntriesItemRecipe_crafting_requirements p)].
#[export] Instance lawful_PacketRecipeBookAddEntriesItemRecipe : LawfulCodec wire_PacketRecipeBookAddEntriesItemRecipe dom_PacketRecipeBookAddEntriesItemRecipe bytes_PacketRecipeBookAddEntriesItemRecipe.
Proof. solve_struct. Qed.
#[export] Instance cost_PacketRecipeBookAddEntriesItemRecipe : CodecCost dom_PacketRecipeBookAddEntriesItemRecipe bytes_PacketRecipeBookAddEntriesItemRecipe.
Proof. solve_head. Qed.

Record PacketRecipeBookAddEntriesItem : Type := mkPacketRecipeBookAddEntriesItem {
  PacketRecipeBookAddEntriesItem_recipe : PacketRecipeBookAddEntriesItemRecipe;
  PacketRecipeBookAddEntriesItem_flags : PacketRecipeBookAddEntriesItemFlags;
}.
Definition wire_PacketRecipeBookAddEntriesItem : Codec PacketRecipeBookAddEntriesItem := {|
  encode p :=
    encode wire_PacketRecipeBookAddEntriesItemRecipe (PacketRecipeBookAddEntriesItem_recipe p) ;;;
    encode wire_PacketRecipeBookAddEntriesItemFlags (PacketRecipeBookAddEntriesItem_flags p) ;;;
    ret tt;
  decode :=
    let* recipe := decode wire_PacketRecipeBookAddEntriesItemRecipe in
    let* flags := decode wire_PacketRecipeBookAddEntriesItemFlags in
    ret (mkPacketRecipeBookAddEntriesItem recipe flags);
|}.
Definition dom_PacketRecipeBookAddEntriesItem (p : PacketRecipeBookAddEntriesItem) : Prop :=
  dom_PacketRecipeBookAddEntriesItemRecipe (PacketRecipeBookAddEntriesItem_recipe p)
  ∧ dom_PacketRecipeBookAddEntriesItemFlags (PacketRecipeBookAddEntriesItem_flags p).
Definition bytes_PacketRecipeBookAddEntriesItem (p : PacketRecipeBookAddEntriesItem) : list byte :=
  concat [bytes_PacketRecipeBookAddEntriesItemRecipe (PacketRecipeBookAddEntriesItem_recipe p);
    bytes_PacketRecipeBookAddEntriesItemFlags (PacketRecipeBookAddEntriesItem_flags p)].
#[export] Instance lawful_PacketRecipeBookAddEntriesItem : LawfulCodec wire_PacketRecipeBookAddEntriesItem dom_PacketRecipeBookAddEntriesItem bytes_PacketRecipeBookAddEntriesItem.
Proof. solve_struct. Qed.
#[export] Instance cost_PacketRecipeBookAddEntriesItem : CodecCost dom_PacketRecipeBookAddEntriesItem bytes_PacketRecipeBookAddEntriesItem.
Proof. solve_head. Qed.

Record PacketRecipeBookAdd : Type := mkPacketRecipeBookAdd {
  PacketRecipeBookAdd_entries : list PacketRecipeBookAddEntriesItem;
  PacketRecipeBookAdd_replace : bool;
}.
Definition wire_PacketRecipeBookAdd : Codec PacketRecipeBookAdd := {|
  encode p :=
    encode (wire_Vec wire_PacketRecipeBookAddEntriesItem) (PacketRecipeBookAdd_entries p) ;;;
    encode wire_bool (PacketRecipeBookAdd_replace p) ;;;
    ret tt;
  decode :=
    let* entries := decode (wire_Vec wire_PacketRecipeBookAddEntriesItem) in
    let* replace := decode wire_bool in
    ret (mkPacketRecipeBookAdd entries replace);
|}.
Definition dom_PacketRecipeBookAdd (p : PacketRecipeBookAdd) : Prop :=
  vec_dom dom_PacketRecipeBookAddEntriesItem (PacketRecipeBookAdd_entries p).
Definition bytes_PacketRecipeBookAdd (p : PacketRecipeBookAdd) : list byte :=
  concat [vec_bytes bytes_PacketRecipeBookAddEntriesItem (PacketRecipeBookAdd_entries p);
    bool_bytes (PacketRecipeBookAdd_replace p)].
#[export] Instance lawful_PacketRecipeBookAdd : LawfulCodec wire_PacketRecipeBookAdd dom_PacketRecipeBookAdd bytes_PacketRecipeBookAdd.
Proof. solve_struct. Qed.
#[export] Instance cost_PacketRecipeBookAdd : CodecCost dom_PacketRecipeBookAdd bytes_PacketRecipeBookAdd.
Proof. solve_head. Qed.

Record PacketMultiBlockChangeChunkCoordinates : Type := mkPacketMultiBlockChangeChunkCoordinates {
  PacketMultiBlockChangeChunkCoordinates_x : Z;
  PacketMultiBlockChangeChunkCoordinates_z : Z;
  PacketMultiBlockChangeChunkCoordinates_y : Z;
}.
Definition raw_PacketMultiBlockChangeChunkCoordinates (p : PacketMultiBlockChangeChunkCoordinates) : Z :=
  Z.lor (Z.lor (wrap 64 (Z.shiftl (Z.land (PacketMultiBlockChangeChunkCoordinates_x p) 0x3fffff) 42))
               (wrap 64 (Z.shiftl (Z.land (PacketMultiBlockChangeChunkCoordinates_z p) 0x3fffff) 20)))
        (Z.land (PacketMultiBlockChangeChunkCoordinates_y p) 0xfffff).
Definition wire_PacketMultiBlockChangeChunkCoordinates : Codec PacketMultiBlockChangeChunkCoordinates := {|
  encode p := modify (put_u64 (raw_PacketMultiBlockChangeChunkCoordinates p));
  decode :=
    let* raw := get_u64 in
    ret (mkPacketMultiBlockChangeChunkCoordinates
      (swrap 32 (Z.shiftr (swrap 64 (Z.shiftl (Z.land (Z.shiftr raw 42) 0x3fffff) 42)) 42))
      (swrap 32 (Z.shiftr (swrap 64 (Z.shiftl (Z.land (Z.shiftr raw 20) 0x3fffff) 42)) 42))
      (swrap 32 (Z.shiftr (swrap 64 (Z.shiftl (Z.land raw 0xfffff) 44)) 44)));
|}.
Definition dom_PacketMultiBlockChangeChunkCoordinates (p : PacketMultiBlockChangeChunkCoordinates) : Prop :=
  in_i 22 (PacketMultiBlockChangeChunkCoordinates_x p) ∧ in_i 22 (PacketMultiBlockChangeChunkCoordinates_z p) ∧ in_i 20 (PacketMultiBlockChangeChunkCoordinates_y p).
Definition bytes_PacketMultiBlockChangeChunkCoordinates (p : PacketMultiBlockChangeChunkCoordinates) : list byte := be_bytes 8 (raw_PacketMultiBlockChangeChunkCoordinates p).

Lemma raw_PacketMultiBlockChangeChunkCoordinates_eq p :
  raw_PacketMultiBlockChangeChunkCoordinates p = wrap 22 (PacketMultiBlockChangeChunkCoordinates_x p) * 2 ^ 42 + wrap 22 (PacketMultiBlockChangeChunkCoordinates_z p) * 2 ^ 20 + wrap 20 (PacketMultiBlockChangeChunkCoordinates_y p).
Proof.
  unfold raw_PacketMultiBlockChangeChunkCoordinates. change 0x3fffff with (Z.ones 22). change 0xfffff with (Z.ones 20).
  rewrite (Z.land_ones (PacketMultiBlockChangeChunkCoordinates_x p)), (Z.land_ones (PacketMultiBlockChangeChunkCoordinates_z p)), (Z.land_ones (PacketMultiBlockChangeChunkCoordinates_y p)) by lia.
  fold (wrap 22 (PacketMultiBlockChangeChunkCoordinates_x p)) (wrap 22 (PacketMultiBlockChangeChunkCoordinates_z p)) (wrap 20 (PacketMultiBlockChangeChunkCoordinates_y p)).
  pose proof (wrap_range 22 (PacketMultiBlockChangeChunkCoordinates_x p) ltac:(lia)) as [? ?]. pose proof (wrap_range 22 (PacketMultiBlockChangeChunkCoordinates_z p) ltac:(lia)) as [? ?].
  pose proof (wrap_range 20 (PacketMultiBlockChangeChunkCoordinates_y p) ltac:(lia)) as [? ?].
  rewrite !(wrap_small 64) by (rewrite Z.shiftl_mul_pow2 by lia; unfold in_u; lia).
  rewrite <- Z.lor_assoc, (Z.lor_comm (Z.shiftl (wrap 22 _) 20)), lor_shiftl_add by lia.
  rewrite Z.lor_comm, lor_shiftl_add by lia. lia.
Qed.

#[export] Instance lawful_PacketMultiBlockChangeChunkCoordinates : LawfulCodec wire_PacketMultiBlockChangeChunkCoordinates dom_PacketMultiBlockChangeChunkCoordinates bytes_PacketMultiBlockChangeChunkCoordinates.
Proof.
  split; intros p Hp.
  - by apply writes_modify.
  - unfold bytes_PacketMultiBlockChangeChunkCoordinates. rewrite raw_PacketMultiBlockChangeChunkCoordinates_eq. destruct p as [x z y], Hp as (Hx & Hz & Hy).
    cbn [PacketMultiBlockChangeChunkCoordinates_x PacketMultiBlockChangeChunkCoordinates_z PacketMultiBlockChangeChunkCoordinates_y decode wire_PacketMultiBlockChangeChunkCoordinates] in *.
    pose proof (wrap_range 22 x ltac:(lia)) as [? ?]. pose proof (wrap_range 22 z ltac:(lia)) as [? ?].
    pose proof (wrap_range 20 y ltac:(lia)) as [? ?].
    set (raw := wrap 22 x * 2 ^ 42 + wrap 22 z * 2 ^ 20 + wrap 20 y).
    eapply reads_bind_nil; [apply reads_get_u64; unfold raw, in_u; lia|].
    change 0x3fffff with (Z.ones 22). change 0xfffff with (Z.ones 20). rewrite !Z.land_ones by lia.
    rewrite !Z.shiftr_div_pow2 by lia.
    assert (raw / 2 ^ 42 = wrap 22 x) as ->.
    { symmetry. apply (Z.div_unique _ _ _ (wrap 22 z * 2 ^ 20 + wrap 20 y)); unfold raw; lia. }
    assert (raw / 2 ^ 20 = wrap 22 x * 2 ^ 22 + wrap 22 z) as ->.
    { symmetry. apply (Z.div_unique _ _ _ (wrap 20 y)); unfold raw; lia. }
    assert (raw `mod` 2 ^ 20 = wrap 20 y) as ->.
    { symmetry. apply (Z.mod_unique _ _ (wrap 22 x * 2 ^ 22 + wrap 22 z)); unfold raw; lia. }
    rewrite (Z.mod_small (wrap 22 x)) by lia.
    rewrite (Z.add_comm (wrap 22 x * 2 ^ 22)), Z.mod_add, (Z.mod_small (wrap 22 z)) by lia.
    rewrite <- !Z.shiftr_div_pow2, !shl_shr_64 by lia. change (64 - 42) with 22. change (64 - 44) with 20.
    rewrite !swrap_of_wrap, !swrap_i32 by lia.
    rewrite (swrap_small 22 x), (swrap_small 22 z), (swrap_small 20 y) by (done || lia). apply reads_ret.
Qed.
#[export] Instance cost_PacketMultiBlockChangeChunkCoordinates : CodecCost dom_PacketMultiBlockChangeChunkCoordinates bytes_PacketMultiBlockChangeChunkCoordinates.
Proof. intros p _. unfold bytes_PacketMultiBlockChangeChunkCoordinates. rewrite be_bytes_length. lia. Qed.

Record PacketMultiBlockChange : Type := mkPacketMultiBlockChange {
  PacketMultiBlockChange_chunk_coordinates : PacketMultiBlockChangeChunkCoordinates;
  PacketMultiBlockChange_records : list Z;
}.
Definition wire_PacketMultiBlockChange : Codec PacketMultiBlockChange := {|
  encode p :=
    encode wire_PacketMultiBlockChangeChunkCoordinates (PacketMultiBlockChange_chunk_coordinates p) ;;;
    encode (wire_Vec wire_varint) (PacketMultiBlockChange_records p) ;;;
    ret tt;
  decode :=
    let* chunk_coordinates := decode wire_PacketMultiBlockChangeChunkCoordinates in
    let* records := decode (wire_Vec wire_varint) in
    ret (mkPacketMultiBlockChange chunk_coordinates records);
|}.
Definition dom_PacketMultiBlockChange (p : PacketMultiBlockChange) : Prop :=
  dom_PacketMultiBlockChangeChunkCoordinates (PacketMultiBlockChange_chunk_coordinates p)
  ∧ vec_dom (in_i 32) (PacketMultiBlockChange_records p).
Definition bytes_PacketMultiBlockChange (p : PacketMultiBlockChange) : list byte :=
  concat [bytes_PacketMultiBlockChangeChunkCoordinates (PacketMultiBlockChange_chunk_coordinates p);
    vec_bytes varint_bytes (PacketMultiBlockChange_records p)].
#[export] Instance lawful_PacketMultiBlockChange : LawfulCodec wire_PacketMultiBlockChange dom_PacketMultiBlockChange bytes_PacketMultiBlockChange.
Proof. solve_struct. Qed.
#[export] Instance cost_PacketMultiBlockChange : CodecCost dom_PacketMultiBlockChange bytes_PacketMultiBlockChange.
Proof. solve_head. Qed.

Record PacketSetCursorItem : Type := mkPacketSetCursorItem {
  PacketSetCursorItem_contents : Slot;
}.
Definition wire_PacketSetCursorItem : Codec PacketSetCursorItem := {|
  encode p :=
    encode wire_Slot (PacketSetCursorItem_contents p) ;;;
    ret tt;
  decode :=
    let* contents := decode wire_Slot in
    ret (mkPacketSetCursorItem contents);
|}.
Definition dom_PacketSetCursorItem (p : PacketSetCursorItem) : Prop :=
  dom_Slot (PacketSetCursorItem_contents p).
Definition bytes_PacketSetCursorItem (p : PacketSetCursorItem) : list byte :=
  concat [bytes_Slot (PacketSetCursorItem_contents p)].
#[export] Instance lawful_PacketSetCursorItem : LawfulCodec wire_PacketSetCursorItem dom_PacketSetCursorItem bytes_PacketSetCursorItem.
Proof. solve_struct. Qed.
#[export] Instance cost_PacketSetCursorItem : CodecCost dom_PacketSetCursorItem bytes_PacketSetCursorItem.
Proof. solve_head. Qed.

Record PacketEntityMetadata : Type := mkPacketEntityMetadata {
  PacketEntityMetadata_entity_id : Z;
  PacketEntityMetadata_metadata : EntityMetadata;
}.
Definition wire_PacketEntityMetadata : Codec PacketEntityMetadata := {|
  encode p :=
    modify (write_varint (PacketEntityMetadata_entity_id p)) ;;;
    encode wire_EntityMetadata (PacketEntityMetadata_metadata p) ;;;
    ret tt;
  decode :=
    let* entity_id := read_varint in
    let* metadata := decode wire_EntityMetadata in
    ret (mkPacketEntityMetadata entity_id metadata);
|}.
Definition dom_PacketEntityMetadata (p : PacketEntityMetadata) : Prop :=
  in_i 32 (PacketEntityMetadata_entity_id p)
  ∧ dom_EntityMetadata (PacketEntityMetadata_metadata p).
Definition bytes_PacketEntityMetadata (p : PacketEntityMetadata) : list byte :=
  concat [varint_bytes (PacketEntityMetadata_entity_id p);
    bytes_EntityMetadata (PacketEntityMetadata_metadata p)].
#[export] Instance lawful_PacketEntityMetadata : LawfulCodec wire_PacketEntityMetadata dom_PacketEntityMetadata bytes_PacketEntityMetadata.
Proof. solve_struct. Qed.
#[export] Instance cost_PacketEntityMetadata : CodecCost dom_PacketEntityMetadata bytes_PacketEntityMetadata.
Proof. solve_head. Qed.

Record PacketEntityEquipmentEquipmentsItem : Type := mkPacketEntityEquipmentEquipmentsItem {
  PacketEntityEquipmentEquipmentsItem_slot : Z;
  PacketEntityEquipmentEquipmentsItem_item : Slot;
}.
Definition decode_topbit : Read (PacketEntityEquipmentEquipmentsItem * bool) :=
  let* first_raw := get_u8 in
  let more := negb (Z.land first_raw 0x80 =? 0) in
  let slot := swrap 8 (Z.land first_raw 0x7f) in
  let* item := decode wire_Slot in
  ret (mkPacketEntityEquipmentEquipmentsItem slot item, more).
Definition encode_topbit (p : PacketEntityEquipmentEquipmentsItem) (more : bool) : Write :=
  let slot := PacketEntityEquipmentEquipmentsItem_slot p in
  if negb ((0 <=? slot) && (slot <=? 0x7f)) then raise InvalidData
  else
    modify (put_u8 (Z.lor (Z.land (wrap 8 slot) 0x7f) (if more then 0x80 else 0))) ;;;
    encode wire_Slot (PacketEntityEquipmentEquipmentsItem_item p).
Definition dom_equipment (p : PacketEntityEquipmentEquipmentsItem) : Prop :=
  in_u 7 (PacketEntityEquipmentEquipmentsItem_slot p) ∧ dom_Slot (PacketEntityEquipmentEquipmentsItem_item p).
Definition bytes_topbit (p : PacketEntityEquipmentEquipmentsItem) (more : bool) : list byte :=
  be_bytes 1 (PacketEntityEquipmentEquipmentsItem_slot p + (if more then 128 else 0))
  ++ bytes_Slot (PacketEntityEquipmentEquipmentsItem_item p).

Lemma topbit_byte (slot : Z) (more : bool) :
  in_u 7 slot →
  let b := slot + (if more then 128 else 0) in
  Z.lor (Z.land (wrap 8 slot) 0x7f) (if more then 0x80 else 0) = b
  ∧ in_u 8 b ∧ negb (Z.land b 0x80 =? 0) = more ∧ swrap 8 (Z.land b 0x7f) = slot.
Proof. cbv zeta. intros Hs. destruct more; revert slot Hs; apply (in_u_all 7), (bool_decide_unpack _); by vm_compute. Qed.

Lemma writes_topbit p (more : bool) : dom_equipment p → writes (encode_topbit p more) (bytes_topbit p more).
Proof.
  destruct p as [slot item]; intros [Hs Hi]. unfold encode_topbit, bytes_topbit.
  cbn [PacketEntityEquipmentEquipmentsItem_slot PacketEntityEquipmentEquipmentsItem_item] in *.
  destruct (topbit_byte slot more Hs) as (-> & _). unfold in_u in Hs.
  rewrite (proj2 (Z.leb_le _ _)), (proj2 (Z.leb_le _ _)) by lia. cbn [negb andb].
  apply writes_bind; [by apply writes_modify|]. exact (codec_writes (c := wire_Slot) item Hi).
Qed.

Lemma reads_topbit p (more : bool) : dom_equipment p → reads decode_topbit (bytes_topbit p more) (p, more).
Proof.
  destruct p as [slot item]; intros [Hs Hi]. unfold decode_topbit, bytes_topbit.
  cbn [PacketEntityEquipmentEquipmentsItem_slot PacketEntityEquipmentEquipmentsItem_item] in *.
  destruct (topbit_byte slot more Hs) as (_ & Hb & Hm & Hl).
  eapply reads_bind; [apply reads_get_u8, Hb|]. cbv zeta. rewrite Hm, Hl.
  apply (reads_bind_ret (decode wire_Slot) (λ item, (mkPacketEntityEquipmentEquipmentsItem slot item, more))).
  exact (codec_reads (c := wire_Slot) item Hi).
Qed.

(** ** The equipment list

    Every entry but the last has the top bit of its first byte set. *)

Definition PacketEntityEquipmentEquipments : Type := list PacketEntityEquipmentEquipmentsItem.

Section level_PacketEntityEquipmentEquipments.
Context (wire_rest : Codec PacketEntityEquipmentEquipments).

Definition level_PacketEntityEquipmentEquipments : Codec PacketEntityEquipmentEquipments := {|
  encode items :=
    match items with
    | [] => ret tt
    | item :: items =>
        encode_topbit item (match items with [] => false | _ => true end) ;;;
        encode wire_rest items
    end;
  decode :=
    let* (item, more) := decode_topbit in
    if more then (let* items := decode wire_rest in ret (item :: items)) else ret [item];
|}.
End level_PacketEntityEquipmentEquipments.

(** [item.encode_topbit(out, index + 1 < len)?] for every item. *)
Fixpoint encode_PacketEntityEquipmentEquipments (items : PacketEntityEquipmentEquipments) : Write :=
  match items with
  | [] => ret tt
  | item :: items =>
      encode_topbit item (match items with [] => false | _ => true end) ;;;
      encode_PacketEntityEquipmentEquipments items
  end.

Definition wire_PacketEntityEquipmentEquipments : Codec PacketEntityEquipmentEquipments :=
  knot level_PacketEntityEquipmentEquipments encode_PacketEntityEquipmentEquipments.

(** The format has no empty list. *)
Definition dom_PacketEntityEquipmentEquipments (items : PacketEntityEquipmentEquipments) : Prop :=
  items ≠ [] ∧ Forall dom_equipment items.
Fixpoint bytes_PacketEntityEquipmentEquipments (items : PacketEntityEquipmentEquipments) : list byte :=
  match items with
  | [] => []
  | item :: items =>
      bytes_topbit item (match items with [] => false | _ => true end) ++ bytes_PacketEntityEquipmentEquipments items
  end.

Lemma decode_topbit_progress : progress decode_topbit.
Proof. unfold decode_topbit. apply progress_bind; [apply progress_u8|]. intros first_raw. mauto. Qed.

Lemma decode_topbit_in_bounds : in_bounds decode_topbit.
Proof. unfold decode_topbit. mauto. Qed.
#[local] Hint Resolve decode_topbit_in_bounds : preserves.

#[export] Instance guarded_PacketEntityEquipmentEquipments : Guarded level_PacketEntityEquipmentEquipments.
Proof.
  split.
  - intros c Hc. change (SafeDecode c) in Hc. unfold level_PacketEntityEquipmentEquipments. cbn [decode]. mauto.
  - intros c c' k Hb Hc. unfold level_PacketEntityEquipmentEquipments. cbn [decode].
    apply agree_bind_progress; [apply decode_topbit_progress|]. intros [item []]; [|apply agree_refl].
    apply agree_bind; [done..|]. intros items. apply agree_refl.
Qed.

#[export] Instance lawful_PacketEntityEquipmentEquipments :
  LawfulCodec wire_PacketEntityEquipmentEquipments dom_PacketEntityEquipmentEquipments bytes_PacketEntityEquipmentEquipments.
Proof.
  split; intros items [Hne Hd]; [clear Hne|]; induction Hd as [|e items He Hd IH].
  - apply writes_ret.
  - apply writes_bind; [by apply writes_topbit|exact IH].
  - done.
  - clear Hne. intros r suf Hr. unfold wire_PacketEntityEquipmentEquipments. rewrite knot_decode by apply _.
    cbn [decode level_PacketEntityEquipmentEquipments bytes_PacketEntityEquipmentEquipments] in *.
    fold wire_PacketEntityEquipmentEquipments.
    refine (reads_bind _ _ _ _ _ _ (reads_topbit e _ He) _ r suf Hr). destruct items as [|e' items]; [apply reads_ret|].
    apply (reads_bind_ret _ (cons e)), IH. done.
Qed.
#[export] Instance cost_PacketEntityEquipmentEquipments :
  CodecCost dom_PacketEntityEquipmentEquipments bytes_PacketEntityEquipmentEquipments.
Proof.
  intros [|e items] [Hne _]; [done|]. cbn [bytes_PacketEntityEquipmentEquipments]. unfold bytes_topbit.
  rewrite !length_app, be_bytes_length. lia.
Qed.

Record PacketEntityEquipment : Type := mkPacketEntityEquipment {
  PacketEntityEquipment_entity_id : Z;
  PacketEntityEquipment_equipments : PacketEntityEquipmentEquipments;
}.
Definition wire_PacketEntityEquipment : Codec PacketEntityEquipment := {|
  encode p :=
    modify (write_varint (PacketEntityEquipment_entity_id p)) ;;;
    encode wire_PacketEntityEquipmentEquipments (PacketEntityEquipment_equipments p) ;;;
    ret tt;
  decode :=
    let* entity_id := read_varint in
    let* equipments := decode wire_PacketEntityEquipmentEquipments in
    ret (mkPacketEntityEquipment entity_id equipments);
|}.
Definition dom_PacketEntityEquipment (p : PacketEntityEquipment) : Prop :=
  in_i 32 (PacketEntityEquipment_entity_id p)
  ∧ dom_PacketEntityEquipmentEquipments (PacketEntityEquipment_equipments p).
Definition bytes_PacketEntityEquipment (p : PacketEntityEquipment) : list byte :=
  concat [varint_bytes (PacketEntityEquipment_entity_id p);
    bytes_PacketEntityEquipmentEquipments (PacketEntityEquipment_equipments p)].
#[export] Instance lawful_PacketEntityEquipment : LawfulCodec wire_PacketEntityEquipment dom_PacketEntityEquipment bytes_PacketEntityEquipment.
Proof. solve_struct. Qed.
#[export] Instance cost_PacketEntityEquipment : CodecCost dom_PacketEntityEquipment bytes_PacketEntityEquipment.
Proof. solve_head. Qed.

Inductive PacketScoreboardObjectiveDisplayText : Type :=
  | PacketScoreboardObjectiveDisplayText_V0 (v : Nbt)
  | PacketScoreboardObjectiveDisplayText_V2 (v : Nbt)
  | PacketScoreboardObjectiveDisplayText_Default.
Definition encode_PacketScoreboardObjectiveDisplayText (v : PacketScoreboardObjectiveDisplayText) : Write :=
  match v with
  | PacketScoreboardObjectiveDisplayText_V0 v => encode wire_Nbt v
  | PacketScoreboardObjectiveDisplayText_V2 v => encode wire_Nbt v
  | PacketScoreboardObjectiveDisplayText_Default => ret tt
  end.
Definition decode_from_PacketScoreboardObjectiveDisplayText (d : Z) : Read PacketScoreboardObjectiveDisplayText :=
  if on d 0 then (let* v := decode wire_Nbt in ret (PacketScoreboardObjectiveDisplayText_V0 v))
  else if on d 2 then (let* v := decode wire_Nbt in ret (PacketScoreboardObjectiveDisplayText_V2 v))
  else ret PacketScoreboardObjectiveDisplayText_Default.
Definition case_PacketScoreboardObjectiveDisplayText (d : Z) (v : PacketScoreboardObjectiveDisplayText) : bool :=
  match v with
  | PacketScoreboardObjectiveDisplayText_V0 _ => on d 0
  | PacketScoreboardObjectiveDisplayText_V2 _ => on d 2
  | PacketScoreboardObjectiveDisplayText_Default => negb (on d 0) && negb (on d 2)
  end.
Definition switch_PacketScoreboardObjectiveDisplayText : Switch Z PacketScoreboardObjectiveDisplayText := mkSwitch case_PacketScoreboardObjectiveDisplayText encode_PacketScoreboardObjectiveDisplayText decode_from_PacketScoreboardObjectiveDisplayText.
Definition dom_PacketScoreboardObjectiveDisplayText (d : Z) (v : PacketScoreboardObjectiveDisplayText) : Prop :=
  case_PacketScoreboardObjectiveDisplayText d v = true ∧
  match v with
  | PacketScoreboardObjectiveDisplayText_V0 v => nbt_fits v
  | PacketScoreboardObjectiveDisplayText_V2 v => nbt_fits v
  | _ => True
  end.
Definition bytes_PacketScoreboardObjectiveDisplayText (v : PacketScoreboardObjectiveDisplayText) : list byte :=
  match v with
  | PacketScoreboardObjectiveDisplayText_V0 v => nbt_bytes v
  | PacketScoreboardObjectiveDisplayText_V2 v => nbt_bytes v
  | _ => []
  end.
#[export] Instance lawful_PacketScoreboardObjectiveDisplayText : LawfulSwitch switch_PacketScoreboardObjectiveDisplayText dom_PacketScoreboardObjectiveDisplayText bytes_PacketScoreboardObjectiveDisplayText.
Proof. solve_switch. Qed.

Inductive PacketScoreboardObjectiveType : Type :=
  | PacketScoreboardObjectiveType_V0 (v : Z)
  | PacketScoreboardObjectiveType_V2 (v : Z)
  | PacketScoreboardObjectiveType_Default.
Definition encode_PacketScoreboardObjectiveType (v : PacketScoreboardObjectiveType) : Write :=
  match v with
  | PacketScoreboardObjectiveType_V0 v => encode wire_varint v
  | PacketScoreboardObjectiveType_V2 v => encode wire_varint v
  | PacketScoreboardObjectiveType_Default => ret tt
  end.
Definition decode_from_PacketScoreboardObjectiveType (d : Z) : Read PacketScoreboardObjectiveType :=
  if on d 0 then (let* v := decode wire_varint in ret (PacketScoreboardObjectiveType_V0 v))
  else if on d 2 then (let* v := decode wire_varint in ret (PacketScoreboardObjectiveType_V2 v))
  else ret PacketScoreboardObjectiveType_Default.
Definition case_PacketScoreboardObjectiveType (d : Z) (v : PacketScoreboardObjectiveType) : bool :=
  match v with
  | PacketScoreboardObjectiveType_V0 _ => on d 0
  | PacketScoreboardObjectiveType_V2 _ => on d 2
  | PacketScoreboardObjectiveType_Default => negb (on d 0) && negb (on d 2)
  end.
Definition switch_PacketScoreboardObjectiveType : Switch Z PacketScoreboardObjectiveType := mkSwitch case_PacketScoreboardObjectiveType encode_PacketScoreboardObjectiveType decode_from_PacketScoreboardObjectiveType.
Definition dom_PacketScoreboardObjectiveType (d : Z) (v : PacketScoreboardObjectiveType) : Prop :=
  case_PacketScoreboardObjectiveType d v = true ∧
  match v with
  | PacketScoreboardObjectiveType_V0 v => in_i 32 v
  | PacketScoreboardObjectiveType_V2 v => in_i 32 v
  | _ => True
  end.
Definition bytes_PacketScoreboardObjectiveType (v : PacketScoreboardObjectiveType) : list byte :=
  match v with
  | PacketScoreboardObjectiveType_V0 v => varint_bytes v
  | PacketScoreboardObjectiveType_V2 v => varint_bytes v
  | _ => []
  end.
#[export] Instance lawful_PacketScoreboardObjectiveType : LawfulSwitch switch_PacketScoreboardObjectiveType dom_PacketScoreboardObjectiveType bytes_PacketScoreboardObjectiveType.
Proof. solve_switch. Qed.

Inductive PacketScoreboardObjectiveNumberFormat : Type :=
  | PacketScoreboardObjectiveNumberFormat_V0 (v : option Z)
  | PacketScoreboardObjectiveNumberFormat_V2 (v : option Z)
  | PacketScoreboardObjectiveNumberFormat_Default.
Definition encode_PacketScoreboardObjectiveNumberFormat (v : PacketScoreboardObjectiveNumberFormat) : Write :=
  match v with
  | PacketScoreboardObjectiveNumberFormat_V0 v => encode (wire_Option wire_varint) v
  | PacketScoreboardObjectiveNumberFormat_V2 v => encode (wire_Option wire_varint) v
  | PacketScoreboardObjectiveNumberFormat_Default => ret tt
  end.
Definition decode_from_PacketScoreboardObjectiveNumberFormat (d : Z) : Read PacketScoreboardObjectiveNumberFormat :=
  if on d 0 then (let* v := decode (wire_Option wire_varint) in ret (PacketScoreboardObjectiveNumberFormat_V0 v))
  else if on d 2 then (let* v := decode (wire_Option wire_varint) in ret (PacketScoreboardObjectiveNumberFormat_V2 v))
  else ret PacketScoreboardObjectiveNumberFormat_Default.
Definition case_PacketScoreboardObjectiveNumberFormat (d : Z) (v : PacketScoreboardObjectiveNumberFormat) : bool :=
  match v with
  | PacketScoreboardObjectiveNumberFormat_V0 _ => on d 0
  | PacketScoreboardObjectiveNumberFormat_V2 _ => on d 2
  | PacketScoreboardObjectiveNumberFormat_Default => negb (on d 0) && negb (on d 2)
  end.
Definition switch_PacketScoreboardObjectiveNumberFormat : Switch Z PacketScoreboardObjectiveNumberFormat := mkSwitch case_PacketScoreboardObjectiveNumberFormat encode_PacketScoreboardObjectiveNumberFormat decode_from_PacketScoreboardObjectiveNumberFormat.
Definition dom_PacketScoreboardObjectiveNumberFormat (d : Z) (v : PacketScoreboardObjectiveNumberFormat) : Prop :=
  case_PacketScoreboardObjectiveNumberFormat d v = true ∧
  match v with
  | PacketScoreboardObjectiveNumberFormat_V0 v => option_dom (in_i 32) v
  | PacketScoreboardObjectiveNumberFormat_V2 v => option_dom (in_i 32) v
  | _ => True
  end.
Definition bytes_PacketScoreboardObjectiveNumberFormat (v : PacketScoreboardObjectiveNumberFormat) : list byte :=
  match v with
  | PacketScoreboardObjectiveNumberFormat_V0 v => option_bytes varint_bytes v
  | PacketScoreboardObjectiveNumberFormat_V2 v => option_bytes varint_bytes v
  | _ => []
  end.
#[export] Instance lawful_PacketScoreboardObjectiveNumberFormat : LawfulSwitch switch_PacketScoreboardObjectiveNumberFormat dom_PacketScoreboardObjectiveNumberFormat bytes_PacketScoreboardObjectiveNumberFormat.
Proof. solve_switch. Qed.

Inductive PacketScoreboardObjectiveStylingV0 : Type :=
  | PacketScoreboardObjectiveStylingV0_V1 (v : Nbt)
  | PacketScoreboardObjectiveStylingV0_V2 (v : Nbt)
  | PacketScoreboardObjectiveStylingV0_Default.
Definition encode_PacketScoreboardObjectiveStylingV0 (v : PacketScoreboardObjectiveStylingV0) : Write :=
  match v with
  | PacketScoreboardObjectiveStylingV0_V1 v => encode wire_Nbt v
  | PacketScoreboardObjectiveStylingV0_V2 v => encode wire_Nbt v
  | PacketScoreboardObjectiveStylingV0_Default => ret tt
  end.
Definition decode_from_PacketScoreboardObjectiveStylingV0 (d : option Z) : Read PacketScoreboardObjectiveStylingV0 :=
  if on d (Some 1) then (let* v := decode wire_Nbt in ret (PacketScoreboardObjectiveStylingV0_V1 v))
  else if on d (Some 2) then (let* v := decode wire_Nbt in ret (PacketScoreboardObjectiveStylingV0_V2 v))
  else ret PacketScoreboardObjectiveStylingV0_Default.
Definition case_PacketScoreboardObjectiveStylingV0 (d : option Z) (v : PacketScoreboardObjectiveStylingV0) : bool :=
  match v with
  | PacketScoreboardObjectiveStylingV0_V1 _ => on d (Some 1)
  | PacketScoreboardObjectiveStylingV0_V2 _ => on d (Some 2)
  | PacketScoreboardObjectiveStylingV0_Default => negb (on d (Some 1)) && negb (on d (Some 2))
  end.
Definition switch_PacketScoreboardObjectiveStylingV0 : Switch (option Z) PacketScoreboardObjectiveStylingV0 := mkSwitch case_PacketScoreboardObjectiveStylingV0 encode_PacketScoreboardObjectiveStylingV0 decode_from_PacketScoreboardObjectiveStylingV0.
Definition dom_PacketScoreboardObjectiveStylingV0 (d : option Z) (v : PacketScoreboardObjectiveStylingV0) : Prop :=
  case_PacketScoreboardObjectiveStylingV0 d v = true ∧
  match v with
  | PacketScoreboardObjectiveStylingV0_V1 v => nbt_fits v
  | PacketScoreboardObjectiveStylingV0_V2 v => nbt_fits v
  | _ => True
  end.
Definition bytes_PacketScoreboardObjectiveStylingV0 (v : PacketScoreboardObjectiveStylingV0) : list byte :=
  match v with
  | PacketScoreboardObjectiveStylingV0_V1 v => nbt_bytes v
  | PacketScoreboardObjectiveStylingV0_V2 v => nbt_bytes v
  | _ => []
  end.
#[export] Instance lawful_PacketScoreboardObjectiveStylingV0 : LawfulSwitch switch_PacketScoreboardObjectiveStylingV0 dom_PacketScoreboardObjectiveStylingV0 bytes_PacketScoreboardObjectiveStylingV0.
Proof. solve_switch. Qed.

Inductive PacketScoreboardObjectiveStylingV2 : Type :=
  | PacketScoreboardObjectiveStylingV2_V1 (v : Nbt)
  | PacketScoreboardObjectiveStylingV2_V2 (v : Nbt)
  | PacketScoreboardObjectiveStylingV2_Default.
Definition encode_PacketScoreboardObjectiveStylingV2 (v : PacketScoreboardObjectiveStylingV2) : Write :=
  match v with
  | PacketScoreboardObjectiveStylingV2_V1 v => encode wire_Nbt v
  | PacketScoreboardObjectiveStylingV2_V2 v => encode wire_Nbt v
  | PacketScoreboardObjectiveStylingV2_Default => ret tt
  end.
Definition decode_from_PacketScoreboardObjectiveStylingV2 (d : option Z) : Read PacketScoreboardObjectiveStylingV2 :=
  if on d (Some 1) then (let* v := decode wire_Nbt in ret (PacketScoreboardObjectiveStylingV2_V1 v))
  else if on d (Some 2) then (let* v := decode wire_Nbt in ret (PacketScoreboardObjectiveStylingV2_V2 v))
  else ret PacketScoreboardObjectiveStylingV2_Default.
Definition case_PacketScoreboardObjectiveStylingV2 (d : option Z) (v : PacketScoreboardObjectiveStylingV2) : bool :=
  match v with
  | PacketScoreboardObjectiveStylingV2_V1 _ => on d (Some 1)
  | PacketScoreboardObjectiveStylingV2_V2 _ => on d (Some 2)
  | PacketScoreboardObjectiveStylingV2_Default => negb (on d (Some 1)) && negb (on d (Some 2))
  end.
Definition switch_PacketScoreboardObjectiveStylingV2 : Switch (option Z) PacketScoreboardObjectiveStylingV2 := mkSwitch case_PacketScoreboardObjectiveStylingV2 encode_PacketScoreboardObjectiveStylingV2 decode_from_PacketScoreboardObjectiveStylingV2.
Definition dom_PacketScoreboardObjectiveStylingV2 (d : option Z) (v : PacketScoreboardObjectiveStylingV2) : Prop :=
  case_PacketScoreboardObjectiveStylingV2 d v = true ∧
  match v with
  | PacketScoreboardObjectiveStylingV2_V1 v => nbt_fits v
  | PacketScoreboardObjectiveStylingV2_V2 v => nbt_fits v
  | _ => True
  end.
Definition bytes_PacketScoreboardObjectiveStylingV2 (v : PacketScoreboardObjectiveStylingV2) : list byte :=
  match v with
  | PacketScoreboardObjectiveStylingV2_V1 v => nbt_bytes v
  | PacketScoreboardObjectiveStylingV2_V2 v => nbt_bytes v
  | _ => []
  end.
#[export] Instance lawful_PacketScoreboardObjectiveStylingV2 : LawfulSwitch switch_PacketScoreboardObjectiveStylingV2 dom_PacketScoreboardObjectiveStylingV2 bytes_PacketScoreboardObjectiveStylingV2.
Proof. solve_switch. Qed.

Inductive PacketScoreboardObjectiveStyling : Type :=
  | PacketScoreboardObjectiveStyling_V0 (v : PacketScoreboardObjectiveStylingV0)
  | PacketScoreboardObjectiveStyling_V2 (v : PacketScoreboardObjectiveStylingV2)
  | PacketScoreboardObjectiveStyling_Default.
(** [Encode]: the inner enum is written without a look at the number format. *)
Definition encode_PacketScoreboardObjectiveStyling (v : PacketScoreboardObjectiveStyling) : Write :=
  match v with
  | PacketScoreboardObjectiveStyling_V0 v => sw_encode switch_PacketScoreboardObjectiveStylingV0 v
  | PacketScoreboardObjectiveStyling_V2 v => sw_encode switch_PacketScoreboardObjectiveStylingV2 v
  | PacketScoreboardObjectiveStyling_Default => ret tt
  end.
(** The discriminants are the action and the number format. *)
Definition decode_from_PacketScoreboardObjectiveStyling (d : Z * option Z) : Read PacketScoreboardObjectiveStyling :=
  if on d.1 0 then
    (let* v := sw_decode switch_PacketScoreboardObjectiveStylingV0 d.2 in ret (PacketScoreboardObjectiveStyling_V0 v))
  else if on d.1 2 then
    (let* v := sw_decode switch_PacketScoreboardObjectiveStylingV2 d.2 in ret (PacketScoreboardObjectiveStyling_V2 v))
  else ret PacketScoreboardObjectiveStyling_Default.
Definition case_PacketScoreboardObjectiveStyling (d : Z * option Z) (v : PacketScoreboardObjectiveStyling) : bool :=
  match v with
  | PacketScoreboardObjectiveStyling_V0 _ => on d.1 0
  | PacketScoreboardObjectiveStyling_V2 _ => on d.1 2
  | PacketScoreboardObjectiveStyling_Default => negb (on d.1 0) && negb (on d.1 2)
  end.
Definition switch_PacketScoreboardObjectiveStyling : Switch (Z * option Z) PacketScoreboardObjectiveStyling :=
  mkSwitch case_PacketScoreboardObjectiveStyling encode_PacketScoreboardObjectiveStyling decode_from_PacketScoreboardObjectiveStyling.
Definition dom_PacketScoreboardObjectiveStyling (d : Z * option Z) (v : PacketScoreboardObjectiveStyling) : Prop :=
  case_PacketScoreboardObjectiveStyling d v = true ∧
  match v with
  | PacketScoreboardObjectiveStyling_V0 v => dom_PacketScoreboardObjectiveStylingV0 d.2 v
  | PacketScoreboardObjectiveStyling_V2 v => dom_PacketScoreboardObjectiveStylingV2 d.2 v
  | PacketScoreboardObjectiveStyling_Default => True
  end.
Definition bytes_PacketScoreboardObjectiveStyling (v : PacketScoreboardObjectiveStyling) : list byte :=
  match v with
  | PacketScoreboardObjectiveStyling_V0 v => bytes_PacketScoreboardObjectiveStylingV0 v
  | PacketScoreboardObjectiveStyling_V2 v => bytes_PacketScoreboardObjectiveStylingV2 v
  | PacketScoreboardObjectiveStyling_Default => []
  end.
#[export] Instance lawful_PacketScoreboardObjectiveStyling :
  LawfulSwitch switch_PacketScoreboardObjectiveStyling dom_PacketScoreboardObjectiveStyling bytes_PacketScoreboardObjectiveStyling.
Proof.
  split; intros [d k] v [Hc Hd].
  - unfold encode_at, only, switch_PacketScoreboardObjectiveStyling. cbn [sw_case sw_encode]. rewrite Hc.
    destruct v; cbn [encode_PacketScoreboardObjectiveStyling bytes_PacketScoreboardObjectiveStyling snd] in *;
      first [apply writes_ret | write_unchecked].
  - cbn [sw_decode switch_PacketScoreboardObjectiveStyling]. unfold decode_from_PacketScoreboardObjectiveStyling. cbn [fst snd].
    destruct v; cbn [case_PacketScoreboardObjectiveStyling fst] in Hc; resolve_on Hc; eval_on;
      first [apply reads_ret | eapply reads_bind_nil; [read_step|apply reads_ret]].
Qed.

(** [match &number_format { V0(v) | V2(v) => v, Default => None }]. *)
Definition objective_format (v : PacketScoreboardObjectiveNumberFormat) : option Z :=
  match v with
  | PacketScoreboardObjectiveNumberFormat_V0 v | PacketScoreboardObjectiveNumberFormat_V2 v => v
  | PacketScoreboardObjectiveNumberFormat_Default => None
  end.
Record PacketScoreboardObjective : Type := mkPacketScoreboardObjective {
  PacketScoreboardObjective_name : string;
  PacketScoreboardObjective_action : Z;
  PacketScoreboardObjective_display_text : PacketScoreboardObjectiveDisplayText;
  PacketScoreboardObjective_type : PacketScoreboardObjectiveType;
  PacketScoreboardObjective_number_format : PacketScoreboardObjectiveNumberFormat;
  PacketScoreboardObjective_styling : PacketScoreboardObjectiveStyling;
}.
Definition wire_PacketScoreboardObjective : Codec PacketScoreboardObjective := {|
  encode p :=
    encode wire_String (PacketScoreboardObjective_name p) ;;;
    encode wire_i8 (PacketScoreboardObjective_action p) ;;;
    encode_at switch_PacketScoreboardObjectiveDisplayText (PacketScoreboardObjective_action p) (PacketScoreboardObjective_display_text p) ;;;
    encode_at switch_PacketScoreboardObjectiveType (PacketScoreboardObjective_action p) (PacketScoreboardObjective_type p) ;;;
    encode_at switch_PacketScoreboardObjectiveNumberFormat (PacketScoreboardObjective_action p) (PacketScoreboardObjective_number_format p) ;;;
    encode_at switch_PacketScoreboardObjectiveStyling (PacketScoreboardObjective_action p, objective_format (PacketScoreboardObjective_number_format p)) (PacketScoreboardObjective_styling p) ;;;
    ret tt;
  decode :=
    let* name := decode wire_String in
    let* action := decode wire_i8 in
    let* display_text := sw_decode switch_PacketScoreboardObjectiveDisplayText action in
    let* type_ := sw_decode switch_PacketScoreboardObjectiveType action in
    let* number_format := sw_decode switch_PacketScoreboardObjectiveNumberFormat action in
    let* styling := sw_decode switch_PacketScoreboardObjectiveStyling (action, objective_format number_format) in
    ret (mkPacketScoreboardObjective name action display_text type_ number_format styling);
|}.
Definition dom_PacketScoreboardObjective (p : PacketScoreboardObjective) : Prop :=
  wire_string (PacketScoreboardObjective_name p)
  ∧ in_i 8 (PacketScoreboardObjective_action p)
  ∧ dom_PacketScoreboardObjectiveDisplayText (PacketScoreboardObjective_action p) (PacketScoreboardObjective_display_text p)
  ∧ dom_PacketScoreboardObjectiveType (PacketScoreboardObjective_action p) (PacketScoreboardObjective_type p)
  ∧ dom_PacketScoreboardObjectiveNumberFormat (PacketScoreboardObjective_action p) (PacketScoreboardObjective_number_format p)
  ∧ dom_PacketScoreboardObjectiveStyling (PacketScoreboardObjective_action p, objective_format (PacketScoreboardObjective_number_format p)) (PacketScoreboardObjective_styling p).
Definition bytes_PacketScoreboardObjective (p : PacketScoreboardObjective) : list byte :=
  concat [string_bytes (PacketScoreboardObjective_name p);
    be_bytes 1 (PacketScoreboardObjective_action p);
    bytes_PacketScoreboardObjectiveDisplayText (PacketScoreboardObjective_display_text p);
    bytes_PacketScoreboardObjectiveType (PacketScoreboardObjective_type p);
    bytes_PacketScoreboardObjectiveNumberFormat (PacketScoreboardObjective_number_format p);
    bytes_PacketScoreboardObjectiveStyling (PacketScoreboardObjective_styling p)].
#[export] Instance lawful_PacketScoreboardObjective : LawfulCodec wire_PacketScoreboardObjective dom_PacketScoreboardObjective bytes_PacketScoreboardObjective.
Proof. solve_struct. Qed.

Record PacketSetPlayerInventory : Type := mkPacketSetPlayerInventory {
  PacketSetPlayerInventory_slot_id : Z;
  PacketSetPlayerInventory_contents : Slot;
}.
Definition wire_PacketSetPlayerInventory : Codec PacketSetPlayerInventory := {|
  encode p :=
    modify (write_varint (PacketSetPlayerInventory_slot_id p)) ;;;
    encode wire_Slot (PacketSetPlayerInventory_contents p) ;;;
    ret tt;
  decode :=
    let* slot_id := read_varint in
    let* contents := decode wire_Slot in
    ret (mkPacketSetPlayerInventory slot_id contents);
|}.
Definition dom_PacketSetPlayerInventory (p : PacketSetPlayerInventory) : Prop :=
  in_i 32 (PacketSetPlayerInventory_slot_id p)
  ∧ dom_Slot (PacketSetPlayerInventory_contents p).
Definition bytes_PacketSetPlayerInventory (p : PacketSetPlayerInventory) : list byte :=
  concat [varint_bytes (PacketSetPlayerInventory_slot_id p);
    bytes_Slot (PacketSetPlayerInventory_contents p)].
#[export] Instance lawful_PacketSetPlayerInventory : LawfulCodec wire_PacketSetPlayerInventory dom_PacketSetPlayerInventory bytes_PacketSetPlayerInventory.
Proof. solve_struct. Qed.
#[export] Instance cost_PacketSetPlayerInventory : CodecCost dom_PacketSetPlayerInventory bytes_PacketSetPlayerInventory.
Proof. solve_head. Qed.

Inductive PacketTeamsName : Type :=
  | PacketTeamsName_V0 (v : Nbt)
  | PacketTeamsName_V2 (v : Nbt)
  | PacketTeamsName_Default.
Definition encode_PacketTeamsName (v : PacketTeamsName) : Write :=
  match v with
  | PacketTeamsName_V0 v => encode wire_Nbt v
  | PacketTeamsName_V2 v => encode wire_Nbt v
  | PacketTeamsName_Default => ret tt
  end.
Definition decode_from_PacketTeamsName (d : Z) : Read PacketTeamsName :=
  if on d 0 then (let* v := decode wire_Nbt in ret (PacketTeamsName_V0 v))
  else if on d 2 then (let* v := decode wire_Nbt in ret (PacketTeamsName_V2 v))
  else ret PacketTeamsName_Default.
Definition case_PacketTeamsName (d : Z) (v : PacketTeamsName) : bool :=
  match v with
  | PacketTeamsName_V0 _ => on d 0
  | PacketTeamsName_V2 _ => on d 2
  | PacketTeamsName_Default => negb (on d 0) && negb (on d 2)
  end.
Definition switch_PacketTeamsName : Switch Z PacketTeamsName := mkSwitch case_PacketTeamsName encode_PacketTeamsName decode_from_PacketTeamsName.
Definition dom_PacketTeamsName (d : Z) (v : PacketTeamsName) : Prop :=
  case_PacketTeamsName d v = true ∧
  match v with
  | PacketTeamsName_V0 v => nbt_fits v
  | PacketTeamsName_V2 v => nbt_fits v
  | _ => True
  end.
Definition bytes_PacketTeamsName (v : PacketTeamsName) : list byte :=
  match v with
  | PacketTeamsName_V0 v => nbt_bytes v
  | PacketTeamsName_V2 v => nbt_bytes v
  | _ => []
  end.
#[export] Instance lawful_PacketTeamsName : LawfulSwitch switch_PacketTeamsName dom_PacketTeamsName bytes_PacketTeamsName.
Proof. solve_switch. Qed.

Inductive PacketTeamsFriendlyFire : Type :=
  | PacketTeamsFriendlyFire_V0 (v : Z)
  | PacketTeamsFriendlyFire_V2 (v : Z)
  | PacketTeamsFriendlyFire_Default.
Definition encode_PacketTeamsFriendlyFire (v : PacketTeamsFriendlyFire) : Write :=
  match v with
  | PacketTeamsFriendlyFire_V0 v => encode wire_i8 v
  | PacketTeamsFriendlyFire_V2 v => encode wire_i8 v
  | PacketTeamsFriendlyFire_Default => ret tt
  end.
Definition decode_from_PacketTeamsFriendlyFire (d : Z) : Read PacketTeamsFriendlyFire :=
  if on d 0 then (let* v := decode wire_i8 in ret (PacketTeamsFriendlyFire_V0 v))
  else if on d 2 then (let* v := decode wire_i8 in ret (PacketTeamsFriendlyFire_V2 v))
  else ret PacketTeamsFriendlyFire_Default.
Definition case_PacketTeamsFriendlyFire (d : Z) (v : PacketTeamsFriendlyFire) : bool :=
  match v with
  | PacketTeamsFriendlyFire_V0 _ => on d 0
  | PacketTeamsFriendlyFire_V2 _ => on d 2
  | PacketTeamsFriendlyFire_Default => negb (on d 0) && negb (on d 2)
  end.
Definition switch_PacketTeamsFriendlyFire : Switch Z PacketTeamsFriendlyFire := mkSwitch case_PacketTeamsFriendlyFire encode_PacketTeamsFriendlyFire decode_from_PacketTeamsFriendlyFire.
Definition dom_PacketTeamsFriendlyFire (d : Z) (v : PacketTeamsFriendlyFire) : Prop :=
  case_PacketTeamsFriendlyFire d v = true ∧
  match v with
  | PacketTeamsFriendlyFire_V0 v => in_i 8 v
  | PacketTeamsFriendlyFire_V2 v => in_i 8 v
  | _ => True
  end.
Definition bytes_PacketTeamsFriendlyFire (v : PacketTeamsFriendlyFire) : list byte :=
  match v with
  | PacketTeamsFriendlyFire_V0 v => be_bytes 1 v
  | PacketTeamsFriendlyFire_V2 v => be_bytes 1 v
  | _ => []
  end.
#[export] Instance lawful_PacketTeamsFriendlyFire : LawfulSwitch switch_PacketTeamsFriendlyFire dom_PacketTeamsFriendlyFire bytes_PacketTeamsFriendlyFire.
Proof. solve_switch. Qed.

Inductive PacketTeamsNameTagVisibility : Type :=
  | PacketTeamsNameTagVisibility_V0 (v : string)
  | PacketTeamsNameTagVisibility_V2 (v : string)
  | PacketTeamsNameTagVisibility_Default.
Definition encode_PacketTeamsNameTagVisibility (v : PacketTeamsNameTagVisibility) : Write :=
  match v with
  | PacketTeamsNameTagVisibility_V0 v => encode wire_String v
  | PacketTeamsNameTagVisibility_V2 v => encode wire_String v
  | PacketTeamsNameTagVisibility_Default => ret tt
  end.
Definition decode_from_PacketTeamsNameTagVisibility (d : Z) : Read PacketTeamsNameTagVisibility :=
  if on d 0 then (let* v := decode wire_String in ret (PacketTeamsNameTagVisibility_V0 v))
  else if on d 2 then (let* v := decode wire_String in ret (PacketTeamsNameTagVisibility_V2 v))
  else ret PacketTeamsNameTagVisibility_Default.
Definition case_PacketTeamsNameTagVisibility (d : Z) (v : PacketTeamsNameTagVisibility) : bool :=
  match v with
  | PacketTeamsNameTagVisibility_V0 _ => on d 0
  | PacketTeamsNameTagVisibility_V2 _ => on d 2
  | PacketTeamsNameTagVisibility_Default => negb (on d 0) && negb (on d 2)
  end.
Definition switch_PacketTeamsNameTagVisibility : Switch Z PacketTeamsNameTagVisibility := mkSwitch case_PacketTeamsNameTagVisibility encode_PacketTeamsNameTagVisibility decode_from_PacketTeamsNameTagVisibility.
Definition dom_PacketTeamsNameTagVisibility (d : Z) (v : PacketTeamsNameTagVisibility) : Prop :=
  case_PacketTeamsNameTagVisibility d v = true ∧
  match v with
  | PacketTeamsNameTagVisibility_V0 v => wire_string v
  | PacketTeamsNameTagVisibility_V2 v => wire_string v
  | _ => True
  end.
Definition bytes_PacketTeamsNameTagVisibility (v : PacketTeamsNameTagVisibility) : list byte :=
  match v with
  | PacketTeamsNameTagVisibility_V0 v => string_bytes v
  | PacketTeamsNameTagVisibility_V2 v => string_bytes v
  | _ => []
  end.
#[export] Instance lawful_PacketTeamsNameTagVisibility : LawfulSwitch switch_PacketTeamsNameTagVisibility dom_PacketTeamsNameTagVisibility bytes_PacketTeamsNameTagVisibility.
Proof. solve_switch. Qed.

Inductive PacketTeamsCollisionRule : Type :=
  | PacketTeamsCollisionRule_V0 (v : string)
  | PacketTeamsCollisionRule_V2 (v : string)
  | PacketTeamsCollisionRule_Default.
Definition encode_PacketTeamsCollisionRule (v : PacketTeamsCollisionRule) : Write :=
  match v with
  | PacketTeamsCollisionRule_V0 v => encode wire_String v
  | PacketTeamsCollisionRule_V2 v => encode wire_String v
  | PacketTeamsCollisionRule_Default => ret tt
  end.
Definition decode_from_PacketTeamsCollisionRule (d : Z) : Read PacketTeamsCollisionRule :=
  if on d 0 then (let* v := decode wire_String in ret (PacketTeamsCollisionRule_V0 v))
  else if on d 2 then (let* v := decode wire_String in ret (PacketTeamsCollisionRule_V2 v))
  else ret PacketTeamsCollisionRule_Default.
Definition case_PacketTeamsCollisionRule (d : Z) (v : PacketTeamsCollisionRule) : bool :=
  match v with
  | PacketTeamsCollisionRule_V0 _ => on d 0
  | PacketTeamsCollisionRule_V2 _ => on d 2
  | PacketTeamsCollisionRule_Default => negb (on d 0) && negb (on d 2)
  end.
Definition switch_PacketTeamsCollisionRule : Switch Z PacketTeamsCollisionRule := mkSwitch case_PacketTeamsCollisionRule encode_PacketTeamsCollisionRule decode_from_PacketTeamsCollisionRule.
Definition dom_PacketTeamsCollisionRule (d : Z) (v : PacketTeamsCollisionRule) : Prop :=
  case_PacketTeamsCollisionRule d v = true ∧
  match v with
  | PacketTeamsCollisionRule_V0 v => wire_string v
  | PacketTeamsCollisionRule_V2 v => wire_string v
  | _ => True
  end.
Definition bytes_PacketTeamsCollisionRule (v : PacketTeamsCollisionRule) : list byte :=
  match v with
  | PacketTeamsCollisionRule_V0 v => string_bytes v
  | PacketTeamsCollisionRule_V2 v => string_bytes v
  | _ => []
  end.
#[export] Instance lawful_PacketTeamsCollisionRule : LawfulSwitch switch_PacketTeamsCollisionRule dom_PacketTeamsCollisionRule bytes_PacketTeamsCollisionRule.
Proof. solve_switch. Qed.

Inductive PacketTeamsFormatting : Type :=
  | PacketTeamsFormatting_V0 (v : Z)
  | PacketTeamsFormatting_V2 (v : Z)
  | PacketTeamsFormatting_Default.
Definition encode_PacketTeamsFormatting (v : PacketTeamsFormatting) : Write :=
  match v with
  | PacketTeamsFormatting_V0 v => encode wire_varint v
  | PacketTeamsFormatting_V2 v => encode wire_varint v
  | PacketTeamsFormatting_Default => ret tt
  end.
Definition decode_from_PacketTeamsFormatting (d : Z) : Read PacketTeamsFormatting :=
  if on d 0 then (let* v := decode wire_varint in ret (PacketTeamsFormatting_V0 v))
  else if on d 2 then (let* v := decode wire_varint in ret (PacketTeamsFormatting_V2 v))
  else ret PacketTeamsFormatting_Default.
Definition case_PacketTeamsFormatting (d : Z) (v : PacketTeamsFormatting) : bool :=
  match v with
  | PacketTeamsFormatting_V0 _ => on d 0
  | PacketTeamsFormatting_V2 _ => on d 2
  | PacketTeamsFormatting_Default => negb (on d 0) && negb (on d 2)
  end.
Definition switch_PacketTeamsFormatting : Switch Z PacketTeamsFormatting := mkSwitch case_PacketTeamsFormatting encode_PacketTeamsFormatting decode_from_PacketTeamsFormatting.
Definition dom_PacketTeamsFormatting (d : Z) (v : PacketTeamsFormatting) : Prop :=
  case_PacketTeamsFormatting d v = true ∧
  match v with
  | PacketTeamsFormatting_V0 v => in_i 32 v
  | PacketTeamsFormatting_V2 v => in_i 32 v
  | _ => True
  end.
Definition bytes_PacketTeamsFormatting (v : PacketTeamsFormatting) : list byte :=
  match v with
  | PacketTeamsFormatting_V0 v => varint_bytes v
  | PacketTeamsFormatting_V2 v => varint_bytes v
  | _ => []
  end.
#[export] Instance lawful_PacketTeamsFormatting : LawfulSwitch switch_PacketTeamsFormatting dom_PacketTeamsFormatting bytes_PacketTeamsFormatting.
Proof. solve_switch. Qed.

Inductive PacketTeamsPrefix : Type :=
  | PacketTeamsPrefix_V0 (v : Nbt)
  | PacketTeamsPrefix_V2 (v : Nbt)
  | PacketTeamsPrefix_Default.
Definition encode_PacketTeamsPrefix (v : PacketTeamsPrefix) : Write :=
  match v with
  | PacketTeamsPrefix_V0 v => encode wire_Nbt v
  | PacketTeamsPrefix_V2 v => encode wire_Nbt v
  | PacketTeamsPrefix_Default => ret tt
  end.
Definition decode_from_PacketTeamsPrefix (d : Z) : Read PacketTeamsPrefix :=
  if on d 0 then (let* v := decode wire_Nbt in ret (PacketTeamsPrefix_V0 v))
  else if on d 2 then (let* v := decode wire_Nbt in ret (PacketTeamsPrefix_V2 v))
  else ret PacketTeamsPrefix_Default.
Definition case_PacketTeamsPrefix (d : Z) (v : PacketTeamsPrefix) : bool :=
  match v with
  | PacketTeamsPrefix_V0 _ => on d 0
  | PacketTeamsPrefix_V2 _ => on d 2
  | PacketTeamsPrefix_Default => negb (on d 0) && negb (on d 2)
  end.
Definition switch_PacketTeamsPrefix : Switch Z PacketTeamsPrefix := mkSwitch case_PacketTeamsPrefix encode_PacketTeamsPrefix decode_from_PacketTeamsPrefix.
Definition dom_PacketTeamsPrefix (d : Z) (v : PacketTeamsPrefix) : Prop :=
  case_PacketTeamsPrefix d v = true ∧
  match v with
  | PacketTeamsPrefix_V0 v => nbt_fits v
  | PacketTeamsPrefix_V2 v => nbt_fits v
  | _ => True
  end.
Definition bytes_PacketTeamsPrefix (v : PacketTeamsPrefix) : list byte :=
  match v with
  | PacketTeamsPrefix_V0 v => nbt_bytes v
  | PacketTeamsPrefix_V2 v => nbt_bytes v
  | _ => []
  end.
#[export] Instance lawful_PacketTeamsPrefix : LawfulSwitch switch_PacketTeamsPrefix dom_PacketTeamsPrefix bytes_PacketTeamsPrefix.
Proof. solve_switch. Qed.

Inductive PacketTeamsSuffix : Type :=
  | PacketTeamsSuffix_V0 (v : Nbt)
  | PacketTeamsSuffix_V2 (v : Nbt)
  | PacketTeamsSuffix_Default.
Definition encode_PacketTeamsSuffix (v : PacketTeamsSuffix) : Write :=
  match v with
  | PacketTeamsSuffix_V0 v => encode wire_Nbt v
  | PacketTeamsSuffix_V2 v => encode wire_Nbt v
  | PacketTeamsSuffix_Default => ret tt
  end.
Definition decode_from_PacketTeamsSuffix (d : Z) : Read PacketTeamsSuffix :=
  if on d 0 then (let* v := decode wire_Nbt in ret (PacketTeamsSuffix_V0 v))
  else if on d 2 then (let* v := decode wire_Nbt in ret (PacketTeamsSuffix_V2 v))
  else ret PacketTeamsSuffix_Default.
Definition case_PacketTeamsSuffix (d : Z) (v : PacketTeamsSuffix) : bool :=
  match v with
  | PacketTeamsSuffix_V0 _ => on d 0
  | PacketTeamsSuffix_V2 _ => on d 2
  | PacketTeamsSuffix_Default => negb (on d 0) && negb (on d 2)
  end.
Definition switch_PacketTeamsSuffix : Switch Z PacketTeamsSuffix := mkSwitch case_PacketTeamsSuffix encode_PacketTeamsSuffix decode_from_PacketTeamsSuffix.
Definition dom_PacketTeamsSuffix (d : Z) (v : PacketTeamsSuffix) : Prop :=
  case_PacketTeamsSuffix d v = true ∧
  match v with
  | PacketTeamsSuffix_V0 v => nbt_fits v
  | PacketTeamsSuffix_V2 v => nbt_fits v
  | _ => True
  end.
Definition bytes_PacketTeamsSuffix (v : PacketTeamsSuffix) : list byte :=
  match v with
  | PacketTeamsSuffix_V0 v => nbt_bytes v
  | PacketTeamsSuffix_V2 v => nbt_bytes v
  | _ => []
  end.
#[export] Instance lawful_PacketTeamsSuffix : LawfulSwitch switch_PacketTeamsSuffix dom_PacketTeamsSuffix bytes_PacketTeamsSuffix.
Proof. solve_switch. Qed.

Inductive PacketTeamsPlayers : Type :=
  | PacketTeamsPlayers_V0 (v : list string)
  | PacketTeamsPlayers_V3 (v : list string)
  | PacketTeamsPlayers_V4 (v : list string)
  | PacketTeamsPlayers_Default.
Definition encode_PacketTeamsPlayers (v : PacketTeamsPlayers) : Write :=
  match v with
  | PacketTeamsPlayers_V0 v => encode (wire_Vec wire_String) v
  | PacketTeamsPlayers_V3 v => encode (wire_Vec wire_String) v
  | PacketTeamsPlayers_V4 v => encode (wire_Vec wire_String) v
  | PacketTeamsPlayers_Default => ret tt
  end.
Definition decode_from_PacketTeamsPlayers (d : Z) : Read PacketTeamsPlayers :=
  if on d 0 then (let* v := decode (wire_Vec wire_String) in ret (PacketTeamsPlayers_V0 v))
  else if on d 3 then (let* v := decode (wire_Vec wire_String) in ret (PacketTeamsPlayers_V3 v))
  else if on d 4 then (let* v := decode (wire_Vec wire_String) in ret (PacketTeamsPlayers_V4 v))
  else ret PacketTeamsPlayers_Default.
Definition case_PacketTeamsPlayers (d : Z) (v : PacketTeamsPlayers) : bool :=
  match v with
  | PacketTeamsPlayers_V0 _ => on d 0
  | PacketTeamsPlayers_V3 _ => on d 3
  | PacketTeamsPlayers_V4 _ => on d 4
  | PacketTeamsPlayers_Default => negb (on d 0) && negb (on d 3) && negb (on d 4)
  end.
Definition switch_PacketTeamsPlayers : Switch Z PacketTeamsPlayers := mkSwitch case_PacketTeamsPlayers encode_PacketTeamsPlayers decode_from_PacketTeamsPlayers.
Definition dom_PacketTeamsPlayers (d : Z) (v : PacketTeamsPlayers) : Prop :=
  case_PacketTeamsPlayers d v = true ∧
  match v with
  | PacketTeamsPlayers_V0 v => vec_dom wire_string v
  | PacketTeamsPlayers_V3 v => vec_dom wire_string v
  | PacketTeamsPlayers_V4 v => vec_dom wire_string v
  | _ => True
  end.
Definition bytes_PacketTeamsPlayers (v : PacketTeamsPlayers) : list byte :=
  match v with
  | PacketTeamsPlayers_V0 v => vec_bytes string_bytes v
  | PacketTeamsPlayers_V3 v => vec_bytes string_bytes v
  | PacketTeamsPlayers_V4 v => vec_bytes string_bytes v
  | _ => []
  end.
#[export] Instance lawful_PacketTeamsPlayers : LawfulSwitch switch_PacketTeamsPlayers dom_PacketTeamsPlayers bytes_PacketTeamsPlayers.
Proof. solve_switch. Qed.

Record PacketTeams : Type := mkPacketTeams {
  PacketTeams_team : string;
  PacketTeams_mode : Z;
  PacketTeams_name : PacketTeamsName;
  PacketTeams_friendly_fire : PacketTeamsFriendlyFire;
  PacketTeams_name_tag_visibility : PacketTeamsNameTagVisibility;
  PacketTeams_collision_rule : PacketTeamsCollisionRule;
  PacketTeams_formatting : PacketTeamsFormatting;
  PacketTeams_prefix : PacketTeamsPrefix;
  PacketTeams_suffix : PacketTeamsSuffix;
  PacketTeams_players : PacketTeamsPlayers;
}.
Definition wire_PacketTeams : Codec PacketTeams := {|
  encode p :=
    encode wire_String (PacketTeams_team p) ;;;
    encode wire_i8 (PacketTeams_mode p) ;;;
    encode_at switch_PacketTeamsName (PacketTeams_mode p) (PacketTeams_name p) ;;;
    encode_at switch_PacketTeamsFriendlyFire (PacketTeams_mode p) (PacketTeams_friendly_fire p) ;;;
    encode_at switch_PacketTeamsNameTagVisibility (PacketTeams_mode p) (PacketTeams_name_tag_visibility p) ;;;
    encode_at switch_PacketTeamsCollisionRule (PacketTeams_mode p) (PacketTeams_collision_rule p) ;;;
    encode_at switch_PacketTeamsFormatting (PacketTeams_mode p) (PacketTeams_formatting p) ;;;
    encode_at switch_PacketTeamsPrefix (PacketTeams_mode p) (PacketTeams_prefix p) ;;;
    encode_at switch_PacketTeamsSuffix (PacketTeams_mode p) (PacketTeams_suffix p) ;;;
    encode_at switch_PacketTeamsPlayers (PacketTeams_mode p) (PacketTeams_players p) ;;;
    ret tt;
  decode :=
    let* team := decode wire_String in
    let* mode := decode wire_i8 in
    let* name := sw_decode switch_PacketTeamsName mode in
    let* friendly_fire := sw_decode switch_PacketTeamsFriendlyFire mode in
    let* name_tag_visibility := sw_decode switch_PacketTeamsNameTagVisibility mode in
    let* collision_rule := sw_decode switch_PacketTeamsCollisionRule mode in
    let* formatting := sw_decode switch_PacketTeamsFormatting mode in
    let* prefix := sw_decode switch_PacketTeamsPrefix mode in
    let* suffix := sw_decode switch_PacketTeamsSuffix mode in
    let* players := sw_decode switch_PacketTeamsPlayers mode in
    ret (mkPacketTeams team mode name friendly_fire name_tag_visibility collision_rule formatting prefix suffix players);
|}.
Definition dom_PacketTeams (p : PacketTeams) : Prop :=
  wire_string (PacketTeams_team p)
  ∧ in_i 8 (PacketTeams_mode p)
  ∧ dom_PacketTeamsName (PacketTeams_mode p) (PacketTeams_name p)
  ∧ dom_PacketTeamsFriendlyFire (PacketTeams_mode p) (PacketTeams_friendly_fire p)
  ∧ dom_PacketTeamsNameTagVisibility (PacketTeams_mode p) (PacketTeams_name_tag_visibility p)
  ∧ dom_PacketTeamsCollisionRule (PacketTeams_mode p) (PacketTeams_collision_rule p)
  ∧ dom_PacketTeamsFormatting (PacketTeams_mode p) (PacketTeams_formatting p)
  ∧ dom_PacketTeamsPrefix (PacketTeams_mode p) (PacketTeams_prefix p)
  ∧ dom_PacketTeamsSuffix (PacketTeams_mode p) (PacketTeams_suffix p)
  ∧ dom_PacketTeamsPlayers (PacketTeams_mode p) (PacketTeams_players p).
Definition bytes_PacketTeams (p : PacketTeams) : list byte :=
  concat [string_bytes (PacketTeams_team p);
    be_bytes 1 (PacketTeams_mode p);
    bytes_PacketTeamsName (PacketTeams_name p);
    bytes_PacketTeamsFriendlyFire (PacketTeams_friendly_fire p);
    bytes_PacketTeamsNameTagVisibility (PacketTeams_name_tag_visibility p);
    bytes_PacketTeamsCollisionRule (PacketTeams_collision_rule p);
    bytes_PacketTeamsFormatting (PacketTeams_formatting p);
    bytes_PacketTeamsPrefix (PacketTeams_prefix p);
    bytes_PacketTeamsSuffix (PacketTeams_suffix p);
    bytes_PacketTeamsPlayers (PacketTeams_players p)].
#[export] Instance lawful_PacketTeams : LawfulCodec wire_PacketTeams dom_PacketTeams bytes_PacketTeams.
Proof. solve_struct. Qed.
#[export] Instance cost_PacketTeams : CodecCost dom_PacketTeams bytes_PacketTeams.
Proof. solve_head. Qed.

Inductive PacketScoreboardScoreStyling : Type :=
  | PacketScoreboardScoreStyling_V1 (v : Nbt)
  | PacketScoreboardScoreStyling_V2 (v : Nbt)
  | PacketScoreboardScoreStyling_Default.
Definition encode_PacketScoreboardScoreStyling (v : PacketScoreboardScoreStyling) : Write :=
  match v with
  | PacketScoreboardScoreStyling_V1 v => encode wire_Nbt v
  | PacketScoreboardScoreStyling_V2 v => encode wire_Nbt v
  | PacketScoreboardScoreStyling_Default => ret tt
  end.
Definition decode_from_PacketScoreboardScoreStyling (d : option Z) : Read PacketScoreboardScoreStyling :=
  if on d (Some 1) then (let* v := decode wire_Nbt in ret (PacketScoreboardScoreStyling_V1 v))
  else if on d (Some 2) then (let* v := decode wire_Nbt in ret (PacketScoreboardScoreStyling_V2 v))
  else ret PacketScoreboardScoreStyling_Default.
Definition case_PacketScoreboardScoreStyling (d : option Z) (v : PacketScoreboardScoreStyling) : bool :=
  match v with
  | PacketScoreboardScoreStyling_V1 _ => on d (Some 1)
  | PacketScoreboardScoreStyling_V2 _ => on d (Some 2)
  | PacketScoreboardScoreStyling_Default => negb (on d (Some 1)) && negb (on d (Some 2))
  end.
Definition switch_PacketScoreboardScoreStyling : Switch (option Z) PacketScoreboardScoreStyling := mkSwitch case_PacketScoreboardScoreStyling encode_PacketScoreboardScoreStyling decode_from_PacketScoreboardScoreStyling.
Definition dom_PacketScoreboardScoreStyling (d : option Z) (v : PacketScoreboardScoreStyling) : Prop :=
  case_PacketScoreboardScoreStyling d v = true ∧
  match v with
  | PacketScoreboardScoreStyling_V1 v => nbt_fits v
  | PacketScoreboardScoreStyling_V2 v => nbt_fits v
  | _ => True
  end.
Definition bytes_PacketScoreboardScoreStyling (v : PacketScoreboardScoreStyling) : list byte :=
  match v with
  | PacketScoreboardScoreStyling_V1 v => nbt_bytes v
  | PacketScoreboardScoreStyling_V2 v => nbt_bytes v
  | _ => []
  end.
#[export] Instance lawful_PacketScoreboardScoreStyling : LawfulSwitch switch_PacketScoreboardScoreStyling dom_PacketScoreboardScoreStyling bytes_PacketScoreboardScoreStyling.
Proof. solve_switch. Qed.

Record PacketScoreboardScore : Type := mkPacketScoreboardScore {
  PacketScoreboardScore_item_name : string;
  PacketScoreboardScore_score_name : string;
  PacketScoreboardScore_value : Z;
  PacketScoreboardScore_display_name : option Nbt;
  PacketScoreboardScore_number_format : option Z;
  PacketScoreboardScore_styling : PacketScoreboardScoreStyling;
}.
Definition wire_PacketScoreboardScore : Codec PacketScoreboardScore := {|
  encode p :=
    encode wire_String (PacketScoreboardScore_item_name p) ;;;
    encode wire_String (PacketScoreboardScore_score_name p) ;;;
    modify (write_varint (PacketScoreboardScore_value p)) ;;;
    encode (wire_Option wire_Nbt) (PacketScoreboardScore_display_name p) ;;;
    encode (wire_Option wire_varint) (PacketScoreboardScore_number_format p) ;;;
    encode_at switch_PacketScoreboardScoreStyling (PacketScoreboardScore_number_format p) (PacketScoreboardScore_styling p) ;;;
    ret tt;
  decode :=
    let* item_name := decode wire_String in
    let* score_name := decode wire_String in
    let* value := read_varint in
    let* display_name := decode (wire_Option wire_Nbt) in
    let* number_format := decode (wire_Option wire_varint) in
    let* styling := sw_decode switch_PacketScoreboardScoreStyling number_format in
    ret (mkPacketScoreboardScore item_name score_name value display_name number_format styling);
|}.
Definition dom_PacketScoreboardScore (p : PacketScoreboardScore) : Prop :=
  wire_string (PacketScoreboardScore_item_name p)
  ∧ wire_string (PacketScoreboardScore_score_name p)
  ∧ in_i 32 (PacketScoreboardScore_value p)
  ∧ option_dom nbt_fits (PacketScoreboardScore_display_name p)
  ∧ option_dom (in_i 32) (PacketScoreboardScore_number_format p)
  ∧ dom_PacketScoreboardScoreStyling (PacketScoreboardScore_number_format p) (PacketScoreboardScore_styling p).
Definition bytes_PacketScoreboardScore (p : PacketScoreboardScore) : list byte :=
  concat [string_bytes (PacketScoreboardScore_item_name p);
    string_bytes (PacketScoreboardScore_score_name p);
    varint_bytes (PacketScoreboardScore_value p);
    option_bytes nbt_bytes (PacketScoreboardScore_display_name p);
    option_bytes varint_bytes (PacketScoreboardScore_number_format p);
    bytes_PacketScoreboardScoreStyling (PacketScoreboardScore_styling p)].
#[export] Instance lawful_PacketScoreboardScore : LawfulCodec wire_PacketScoreboardScore dom_PacketScoreboardScore bytes_PacketScoreboardScore.
Proof. solve_struct. Qed.
#[export] Instance cost_PacketScoreboardScore : CodecCost dom_PacketScoreboardScore bytes_PacketScoreboardScore.
Proof. solve_head. Qed.

Inductive PacketStopSoundSource : Type :=
  | PacketStopSoundSource_V1 (v : Z)
  | PacketStopSoundSource_V3 (v : Z)
  | PacketStopSoundSource_Default.
Definition encode_PacketStopSoundSource (v : PacketStopSoundSource) : Write :=
  match v with
  | PacketStopSoundSource_V1 v => encode wire_varint v
  | PacketStopSoundSource_V3 v => encode wire_varint v
  | PacketStopSoundSource_Default => ret tt
  end.
Definition decode_from_PacketStopSoundSource (d : Z) : Read PacketStopSoundSource :=
  if on d 1 then (let* v := decode wire_varint in ret (PacketStopSoundSource_V1 v))
  else if on d 3 then (let* v := decode wire_varint in ret (PacketStopSoundSource_V3 v))
  else ret PacketStopSoundSource_Default.
Definition case_PacketStopSoundSource (d : Z) (v : PacketStopSoundSource) : bool :=
  match v with
  | PacketStopSoundSource_V1 _ => on d 1
  | PacketStopSoundSource_V3 _ => on d 3
  | PacketStopSoundSource_Default => negb (on d 1) && negb (on d 3)
  end.
Definition switch_PacketStopSoundSource : Switch Z PacketStopSoundSource := mkSwitch case_PacketStopSoundSource encode_PacketStopSoundSource decode_from_PacketStopSoundSource.
Definition dom_PacketStopSoundSource (d : Z) (v : PacketStopSoundSource) : Prop :=
  case_PacketStopSoundSource d v = true ∧
  match v with
  | PacketStopSoundSource_V1 v => in_i 32 v
  | PacketStopSoundSource_V3 v => in_i 32 v
  | _ => True
  end.
Definition bytes_PacketStopSoundSource (v : PacketStopSoundSource) : list byte :=
  match v with
  | PacketStopSoundSource_V1 v => varint_bytes v
  | PacketStopSoundSource_V3 v => varint_bytes v
  | _ => []
  end.
#[export] Instance lawful_PacketStopSoundSource : LawfulSwitch switch_PacketStopSoundSource dom_PacketStopSoundSource bytes_PacketStopSoundSource.
Proof. solve_switch. Qed.

Inductive PacketStopSoundSound : Type :=
  | PacketStopSoundSound_V2 (v : string)
  | PacketStopSoundSound_V3 (v : string)
  | PacketStopSoundSound_Default.
Definition encode_PacketStopSoundSound (v : PacketStopSoundSound) : Write :=
  match v with
  | PacketStopSoundSound_V2 v => encode wire_String v
  | PacketStopSoundSound_V3 v => encode wire_String v
  | PacketStopSoundSound_Default => ret tt
  end.
Definition decode_from_PacketStopSoundSound (d : Z) : Read PacketStopSoundSound :=
  if on d 2 then (let* v := decode wire_String in ret (PacketStopSoundSound_V2 v))
  else if on d 3 then (let* v := decode wire_String in ret (PacketStopSoundSound_V3 v))
  else ret PacketStopSoundSound_Default.
Definition case_PacketStopSoundSound (d : Z) (v : PacketStopSoundSound) : bool :=
  match v with
  | PacketStopSoundSound_V2 _ => on d 2
  | PacketStopSoundSound_V3 _ => on d 3
  | PacketStopSoundSound_Default => negb (on d 2) && negb (on d 3)
  end.
Definition switch_PacketStopSoundSound : Switch Z PacketStopSoundSound := mkSwitch case_PacketStopSoundSound encode_PacketStopSoundSound decode_from_PacketStopSoundSound.
Definition dom_PacketStopSoundSound (d : Z) (v : PacketStopSoundSound) : Prop :=
  case_PacketStopSoundSound d v = true ∧
  match v with
  | PacketStopSoundSound_V2 v => wire_string v
  | PacketStopSoundSound_V3 v => wire_string v
  | _ => True
  end.
Definition bytes_PacketStopSoundSound (v : PacketStopSoundSound) : list byte :=
  match v with
  | PacketStopSoundSound_V2 v => string_bytes v
  | PacketStopSoundSound_V3 v => string_bytes v
  | _ => []
  end.
#[export] Instance lawful_PacketStopSoundSound : LawfulSwitch switch_PacketStopSoundSound dom_PacketStopSoundSound bytes_PacketStopSoundSound.
Proof. solve_switch. Qed.

Record PacketStopSound : Type := mkPacketStopSound {
  PacketStopSound_flags : Z;
  PacketStopSound_source : PacketStopSoundSource;
  PacketStopSound_sound : PacketStopSoundSound;
}.
Definition wire_PacketStopSound : Codec PacketStopSound := {|
  encode p :=
    encode wire_i8 (PacketStopSound_flags p) ;;;
    encode_at switch_PacketStopSoundSource (PacketStopSound_flags p) (PacketStopSound_source p) ;;;
    encode_at switch_PacketStopSoundSound (PacketStopSound_flags p) (PacketStopSound_sound p) ;;;
    ret tt;
  decode :=
    let* flags := decode wire_i8 in
    let* source := sw_decode switch_PacketStopSoundSource flags in
    let* sound := sw_decode switch_PacketStopSoundSound flags in
    ret (mkPacketStopSound flags source sound);
|}.
Definition dom_PacketStopSound (p : PacketStopSound) : Prop :=
  in_i 8 (PacketStopSound_flags p)
  ∧ dom_PacketStopSoundSource (PacketStopSound_flags p) (PacketStopSound_source p)
  ∧ dom_PacketStopSoundSound (PacketStopSound_flags p) (PacketStopSound_sound p).
Definition bytes_PacketStopSound (p : PacketStopSound) : list byte :=
  concat [be_bytes 1 (PacketStopSound_flags p);
    bytes_PacketStopSoundSource (PacketStopSound_source p);
    bytes_PacketStopSoundSound (PacketStopSound_sound p)].
#[export] Instance lawful_PacketStopSound : LawfulCodec wire_PacketStopSound dom_PacketStopSound bytes_PacketStopSound.
Proof. solve_struct. Qed.
#[export] Instance cost_PacketStopSound : CodecCost dom_PacketStopSound bytes_PacketStopSound.
Proof. solve_head. Qed.

Record PacketNbtQueryResponse : Type := mkPacketNbtQueryResponse {
  PacketNbtQueryResponse_transaction_id : Z;
  PacketNbtQueryResponse_nbt : option Nbt;
}.
Definition wire_PacketNbtQueryResponse : Codec PacketNbtQueryResponse := {|
  encode p :=
    modify (write_varint (PacketNbtQueryResponse_transaction_id p)) ;;;
    encode wire_OptNbt (PacketNbtQueryResponse_nbt p) ;;;
    ret tt;
  decode :=
    let* transaction_id := read_varint in
    let* nbt := decode wire_OptNbt in
    ret (mkPacketNbtQueryResponse transaction_id nbt);
|}.
Definition dom_PacketNbtQueryResponse (p : PacketNbtQueryResponse) : Prop :=
  in_i 32 (PacketNbtQueryResponse_transaction_id p)
  ∧ option_dom nbt_fits (PacketNbtQueryResponse_nbt p).
Definition bytes_PacketNbtQueryResponse (p : PacketNbtQueryResponse) : list byte :=
  concat [varint_bytes (PacketNbtQueryResponse_transaction_id p);
    optnbt_bytes (PacketNbtQueryResponse_nbt p)].
#[export] Instance lawful_PacketNbtQueryResponse : LawfulCodec wire_PacketNbtQueryResponse dom_PacketNbtQueryResponse bytes_PacketNbtQueryResponse.
Proof. solve_struct. Qed.
#[export] Instance cost_PacketNbtQueryResponse : CodecCost dom_PacketNbtQueryResponse bytes_PacketNbtQueryResponse.
Proof. solve_head. Qed.

Record PacketAdvancementsAdvancementMappingItemValueDisplayDataValueFlags : Type := mkPacketAdvancementsAdvancementMappingItemValueDisplayDataValueFlags {
  PacketAdvancementsAdvancementMappingItemValueDisplayDataValueFlags_unused : Z;
  PacketAdvancementsAdvancementMappingItemValueDisplayDataValueFlags_hidden : bool;
  PacketAdvancementsAdvancementMappingItemValueDisplayDataValueFlags_show_toast : bool;
  PacketAdvancementsAdvancementMappingItemValueDisplayDataValueFlags_has_background_texture : bool;
}.
Definition raw_PacketAdvancementsAdvancementMappingItemValueDisplayDataValueFlags (p : PacketAdvancementsAdvancementMappingItemValueDisplayDataValueFlags) : Z :=
  Z.lor (Z.lor (Z.lor (Z.shiftl (Z.land (PacketAdvancementsAdvancementMappingItemValueDisplayDataValueFlags_unused p) 0x1fffffff) 3) (Z.shiftl (Z.b2z (PacketAdvancementsAdvancementMappingItemValueDisplayDataValueFlags_hidden p)) 2)) (Z.shiftl (Z.b2z (PacketAdvancementsAdvancementMappingItemValueDisplayDataValueFlags_show_toast p)) 1)) (Z.b2z (PacketAdvancementsAdvancementMappingItemValueDisplayDataValueFlags_has_background_texture p)).
Definition of_raw_PacketAdvancementsAdvancementMappingItemValueDisplayDataValueFlags (raw : Z) : PacketAdvancementsAdvancementMappingItemValueDisplayDataValueFlags :=
  mkPacketAdvancementsAdvancementMappingItemValueDisplayDataValueFlags (Z.land (Z.shiftr raw 3) 0x1fffffff) (negb (Z.land (Z.shiftr raw 2) 1 =? 0)) (negb (Z.land (Z.shiftr raw 1) 1 =? 0)) (negb (Z.land raw 1 =? 0)).
Definition wire_PacketAdvancementsAdvancementMappingItemValueDisplayDataValueFlags : Codec PacketAdvancementsAdvancementMappingItemValueDisplayDataValueFlags := {|
  encode p := modify (put_u32 (raw_PacketAdvancementsAdvancementMappingItemValueDisplayDataValueFlags p));
  decode := let* raw := get_u32 in ret (of_raw_PacketAdvancementsAdvancementMappingItemValueDisplayDataValueFlags raw);
|}.
Definition dom_PacketAdvancementsAdvancementMappingItemValueDisplayDataValueFlags (p : PacketAdvancementsAdvancementMappingItemValueDisplayDataValueFlags) : Prop :=
  in_u 29 (PacketAdvancementsAdvancementMappingItemValueDisplayDataValueFlags_unused p).
Definition bytes_PacketAdvancementsAdvancementMappingItemValueDisplayDataValueFlags (p : PacketAdvancementsAdvancementMappingItemValueDisplayDataValueFlags) : list byte := be_bytes 4 (raw_PacketAdvancementsAdvancementMappingItemValueDisplayDataValueFlags p).
Lemma raw_PacketAdvancementsAdvancementMappingItemValueDisplayDataValueFlags_eq p :
  dom_PacketAdvancementsAdvancementMappingItemValueDisplayDataValueFlags p →
  raw_PacketAdvancementsAdvancementMappingItemValueDisplayDataValueFlags p = PacketAdvancementsAdvancementMappingItemValueDisplayDataValueFlags_unused p * 8 + Z.b2z (PacketAdvancementsAdvancementMappingItemValueDisplayDataValueFlags_hidden p) * 4 + Z.b2z (PacketAdvancementsAdvancementMappingItemValueDisplayDataValueFlags_show_toast p) * 2 + Z.b2z (PacketAdvancementsAdvancementMappingItemValueDisplayDataValueFlags_has_background_texture p).
Proof.
  destruct p as [u h s t]. intros Hu. red in Hu. unfold raw_PacketAdvancementsAdvancementMappingItemValueDisplayDataValueFlags.
  cbn [PacketAdvancementsAdvancementMappingItemValueDisplayDataValueFlags_unused PacketAdvancementsAdvancementMappingItemValueDisplayDataValueFlags_hidden PacketAdvancementsAdvancementMappingItemValueDisplayDataValueFlags_show_toast PacketAdvancementsAdvancementMappingItemValueDisplayDataValueFlags_has_background_texture] in *.
  change 0x1fffffff with (Z.ones 29). rewrite Z.land_ones, Z.mod_small by (unfold in_u in Hu; lia).
  rewrite <- !Z.lor_assoc, Z.lor_comm, lor_shiftl_add; [|lia|by destruct h, s, t].
  assert (Z.lor (Z.shiftl (Z.b2z h) 2) (Z.lor (Z.shiftl (Z.b2z s) 1) (Z.b2z t)) = Z.b2z h * 4 + Z.b2z s * 2 + Z.b2z t) as ->
    by (by destruct h, s, t).
  lia.
Qed.

#[export] Instance lawful_PacketAdvancementsAdvancementMappingItemValueDisplayDataValueFlags : LawfulCodec wire_PacketAdvancementsAdvancementMappingItemValueDisplayDataValueFlags dom_PacketAdvancementsAdvancementMappingItemValueDisplayDataValueFlags bytes_PacketAdvancementsAdvancementMappingItemValueDisplayDataValueFlags.
Proof.
  split; intros p Hp.
  - by apply writes_modify.
  - unfold bytes_PacketAdvancementsAdvancementMappingItemValueDisplayDataValueFlags. rewrite raw_PacketAdvancementsAdvancementMappingItemValueDisplayDataValueFlags_eq by done. destruct p as [u h s t]. red in Hp.
    cbn [PacketAdvancementsAdvancementMappingItemValueDisplayDataValueFlags_unused PacketAdvancementsAdvancementMappingItemValueDisplayDataValueFlags_hidden PacketAdvancementsAdvancementMappingItemValueDisplayDataValueFlags_show_toast PacketAdvancementsAdvancementMappingItemValueDisplayDataValueFlags_has_background_texture] in *.
    set (raw := u * 8 + Z.b2z h * 4 + Z.b2z s * 2 + Z.b2z t). unfold in_u in Hp.
    assert (in_u 32 raw) as Hr by (unfold in_u, raw; destruct h, s, t; cbn; lia).
    assert (of_raw_PacketAdvancementsAdvancementMappingItemValueDisplayDataValueFlags raw = mkPacketAdvancementsAdvancementMappingItemValueDisplayDataValueFlags u h s t) as <-; [|apply (reads_bind_ret get_u32), reads_get_u32, Hr].
    unfold of_raw_PacketAdvancementsAdvancementMappingItemValueDisplayDataValueFlags. change 0x1fffffff with (Z.ones 29).
    assert (∀ x, Z.land x 1 = x `mod` 2 ^ 1) as Hl by (intros x; apply (Z.land_ones x 1); lia).
    rewrite !Hl, Z.land_ones, !Z.shiftr_div_pow2 by lia.
    assert (raw / 2 ^ 3 = u) as -> by (symmetry; apply (Z.div_unique _ _ _ (Z.b2z h * 4 + Z.b2z s * 2 + Z.b2z t)); unfold raw; destruct h, s, t; cbn; lia).
    assert (raw / 2 ^ 2 = u * 2 + Z.b2z h) as -> by (symmetry; apply (Z.div_unique _ _ _ (Z.b2z s * 2 + Z.b2z t)); unfold raw; destruct h, s, t; cbn; lia).
    assert (raw / 2 ^ 1 = (u * 2 + Z.b2z h) * 2 + Z.b2z s) as -> by (symmetry; apply (Z.div_unique _ _ _ (Z.b2z t)); unfold raw; destruct h, s, t; cbn; lia).
    assert (raw `mod` 2 ^ 1 = Z.b2z t) as -> by (symmetry; apply (Z.mod_unique _ _ ((u * 2 + Z.b2z h) * 2 + Z.b2z s)); unfold raw; destruct h, s, t; cbn; lia).
    rewrite (Z.add_comm (u * 2)), (Z.add_comm ((Z.b2z h + u * 2) * 2)), !Z.mod_add by lia.
    rewrite (Z.mod_small u) by lia. by destruct h, s, t.
Qed.
#[export] Instance cost_PacketAdvancementsAdvancementMappingItemValueDisplayDataValueFlags : CodecCost dom_PacketAdvancementsAdvancementMappingItemValueDisplayDataValueFlags bytes_PacketAdvancementsAdvancementMappingItemValueDisplayDataValueFlags.
Proof. intros p _. unfold bytes_PacketAdvancementsAdvancementMappingItemValueDisplayDataValueFlags. rewrite be_bytes_length. lia. Qed.

Inductive PacketAdvancementsAdvancementMappingItemValueDisplayDataValueBackgroundTexture : Type :=
  | PacketAdvancementsAdvancementMappingItemValueDisplayDataValueBackgroundTexture_True (v : string)
  | PacketAdvancementsAdvancementMappingItemValueDisplayDataValueBackgroundTexture_Default.
Definition encode_PacketAdvancementsAdvancementMappingItemValueDisplayDataValueBackgroundTexture (v : PacketAdvancementsAdvancementMappingItemValueDisplayDataValueBackgroundTexture) : Write :=
  match v with
  | PacketAdvancementsAdvancementMappingItemValueDisplayDataValueBackgroundTexture_True v => encode wire_String v
  | PacketAdvancementsAdvancementMappingItemValueDisplayDataValueBackgroundTexture_Default => ret tt
  end.
Definition decode_from_PacketAdvancementsAdvancementMappingItemValueDisplayDataValueBackgroundTexture (d : bool) : Read PacketAdvancementsAdvancementMappingItemValueDisplayDataValueBackgroundTexture :=
  if d then (let* v := decode wire_String in ret (PacketAdvancementsAdvancementMappingItemValueDisplayDataValueBackgroundTexture_True v))
  else ret PacketAdvancementsAdvancementMappingItemValueDisplayDataValueBackgroundTexture_Default.
Definition case_PacketAdvancementsAdvancementMappingItemValueDisplayDataValueBackgroundTexture (d : bool) (v : PacketAdvancementsAdvancementMappingItemValueDisplayDataValueBackgroundTexture) : bool :=
  match v with
  | PacketAdvancementsAdvancementMappingItemValueDisplayDataValueBackgroundTexture_True _ => on d true
  | PacketAdvancementsAdvancementMappingItemValueDisplayDataValueBackgroundTexture_Default => on d false
  end.
Definition switch_PacketAdvancementsAdvancementMappingItemValueDisplayDataValueBackgroundTexture : Switch bool PacketAdvancementsAdvancementMappingItemValueDisplayDataValueBackgroundTexture := mkSwitch case_PacketAdvancementsAdvancementMappingItemValueDisplayDataValueBackgroundTexture encode_PacketAdvancementsAdvancementMappingItemValueDisplayDataValueBackgroundTexture decode_from_PacketAdvancementsAdvancementMappingItemValueDisplayDataValueBackgroundTexture.
Definition dom_PacketAdvancementsAdvancementMappingItemValueDisplayDataValueBackgroundTexture (d : bool) (v : PacketAdvancementsAdvancementMappingItemValueDisplayDataValueBackgroundTexture) : Prop :=
  case_PacketAdvancementsAdvancementMappingItemValueDisplayDataValueBackgroundTexture d v = true ∧
  match v with
  | PacketAdvancementsAdvancementMappingItemValueDisplayDataValueBackgroundTexture_True v => wire_string v
  | _ => True
  end.
Definition bytes_PacketAdvancementsAdvancementMappingItemValueDisplayDataValueBackgroundTexture (v : PacketAdvancementsAdvancementMappingItemValueDisplayDataValueBackgroundTexture) : list byte :=
  match v with
  | PacketAdvancementsAdvancementMappingItemValueDisplayDataValueBackgroundTexture_True v => string_bytes v
  | _ => []
  end.
#[export] Instance lawful_PacketAdvancementsAdvancementMappingItemValueDisplayDataValueBackgroundTexture : LawfulSwitch switch_PacketAdvancementsAdvancementMappingItemValueDisplayDataValueBackgroundTexture dom_PacketAdvancementsAdvancementMappingItemValueDisplayDataValueBackgroundTexture bytes_PacketAdvancementsAdvancementMappingItemValueDisplayDataValueBackgroundTexture.
Proof. solve_switch. Qed.

Record PacketAdvancementsAdvancementMappingItemValueDisplayDataValue : Type := mkPacketAdvancementsAdvancementMappingItemValueDisplayDataValue {
  PacketAdvancementsAdvancementMappingItemValueDisplayDataValue_title : Nbt;
  PacketAdvancementsAdvancementMappingItemValueDisplayDataValue_description : Nbt;
  PacketAdvancementsAdvancementMappingItemValueDisplayDataValue_icon : Slot;
  PacketAdvancementsAdvancementMappingItemValueDisplayDataValue_frame_type : Z;
  PacketAdvancementsAdvancementMappingItemValueDisplayDataValue_flags : PacketAdvancementsAdvancementMappingItemValueDisplayDataValueFlags;
  PacketAdvancementsAdvancementMappingItemValueDisplayDataValue_background_texture : PacketAdvancementsAdvancementMappingItemValueDisplayDataValueBackgroundTexture;
  PacketAdvancementsAdvancementMappingItemValueDisplayDataValue_x_cord : Z;
  PacketAdvancementsAdvancementMappingItemValueDisplayDataValue_y_cord : Z;
}.
Definition wire_PacketAdvancementsAdvancementMappingItemValueDisplayDataValue : Codec PacketAdvancementsAdvancementMappingItemValueDisplayDataValue := {|
  encode p :=
    encode wire_Nbt (PacketAdvancementsAdvancementMappingItemValueDisplayDataValue_title p) ;;;
    encode wire_Nbt (PacketAdvancementsAdvancementMappingItemValueDisplayDataValue_description p) ;;;
    encode wire_Slot (PacketAdvancementsAdvancementMappingItemValueDisplayDataValue_icon p) ;;;
    modify (write_varint (PacketAdvancementsAdvancementMappingItemValueDisplayDataValue_frame_type p)) ;;;
    encode wire_PacketAdvancementsAdvancementMappingItemValueDisplayDataValueFlags (PacketAdvancementsAdvancementMappingItemValueDisplayDataValue_flags p) ;;;
    encode_at switch_PacketAdvancementsAdvancementMappingItemValueDisplayDataValueBackgroundTexture (PacketAdvancementsAdvancementMappingItemValueDisplayDataValueFlags_has_background_texture (PacketAdvancementsAdvancementMappingItemValueDisplayDataValue_flags p)) (PacketAdvancementsAdvancementMappingItemValueDisplayDataValue_background_texture p) ;;;
    encode wire_f32 (PacketAdvancementsAdvancementMappingItemValueDisplayDataValue_x_cord p) ;;;
    encode wire_f32 (PacketAdvancementsAdvancementMappingItemValueDisplayDataValue_y_cord p) ;;;
    ret tt;
  decode :=
    let* title := decode wire_Nbt in
    let* description := decode wire_Nbt in
    let* icon := decode wire_Slot in
    let* frame_type := read_varint in
    let* flags := decode wire_PacketAdvancementsAdvancementMappingItemValueDisplayDataValueFlags in
    let* background_texture := sw_decode switch_PacketAdvancementsAdvancementMappingItemValueDisplayDataValueBackgroundTexture (PacketAdvancementsAdvancementMappingItemValueDisplayDataValueFlags_has_background_texture flags) in
    let* x_cord := decode wire_f32 in
    let* y_cord := decode wire_f32 in
    ret (mkPacketAdvancementsAdvancementMappingItemValueDisplayDataValue title description icon frame_type flags background_texture x_cord y_cord);
|}.
Definition dom_PacketAdvancementsAdvancementMappingItemValueDisplayDataValue (p : PacketAdvancementsAdvancementMappingItemValueDisplayDataValue) : Prop :=
  nbt_fits (PacketAdvancementsAdvancementMappingItemValueDisplayDataValue_title p)
  ∧ nbt_fits (PacketAdvancementsAdvancementMappingItemValueDisplayDataValue_description p)
  ∧ dom_Slot (PacketAdvancementsAdvancementMappingItemValueDisplayDataValue_icon p)
  ∧ in_i 32 (PacketAdvancementsAdvancementMappingItemValueDisplayDataValue_frame_type p)
  ∧ dom_PacketAdvancementsAdvancementMappingItemValueDisplayDataValueFlags (PacketAdvancementsAdvancementMappingItemValueDisplayDataValue_flags p)
  ∧ dom_PacketAdvancementsAdvancementMappingItemValueDisplayDataValueBackgroundTexture (PacketAdvancementsAdvancementMappingItemValueDisplayDataValueFlags_has_background_texture (PacketAdvancementsAdvancementMappingItemValueDisplayDataValue_flags p)) (PacketAdvancementsAdvancementMappingItemValueDisplayDataValue_background_texture p)
  ∧ in_u 32 (PacketAdvancementsAdvancementMappingItemValueDisplayDataValue_x_cord p)
  ∧ in_u 32 (PacketAdvancementsAdvancementMappingItemValueDisplayDataValue_y_cord p).
Definition bytes_PacketAdvancementsAdvancementMappingItemValueDisplayDataValue (p : PacketAdvancementsAdvancementMappingItemValueDisplayDataValue) : list byte :=
  concat [nbt_bytes (PacketAdvancementsAdvancementMappingItemValueDisplayDataValue_title p);
    nbt_bytes (PacketAdvancementsAdvancementMappingItemValueDisplayDataValue_description p);
    bytes_Slot (PacketAdvancementsAdvancementMappingItemValueDisplayDataValue_icon p);
    varint_bytes (PacketAdvancementsAdvancementMappingItemValueDisplayDataValue_frame_type p);
    bytes_PacketAdvancementsAdvancementMappingItemValueDisplayDataValueFlags (PacketAdvancementsAdvancementMappingItemValueDisplayDataValue_flags p);
    bytes_PacketAdvancementsAdvancementMappingItemValueDisplayDataValueBackgroundTexture (PacketAdvancementsAdvancementMappingItemValueDisplayDataValue_background_texture p);
    be_bytes 4 (PacketAdvancementsAdvancementMappingItemValueDisplayDataValue_x_cord p);
    be_bytes 4 (PacketAdvancementsAdvancementMappingItemValueDisplayDataValue_y_cord p)].
#[export] Instance lawful_PacketAdvancementsAdvancementMappingItemValueDisplayDataValue : LawfulCodec wire_PacketAdvancementsAdvancementMappingItemValueDisplayDataValue dom_PacketAdvancementsAdvancementMappingItemValueDisplayDataValue bytes_PacketAdvancementsAdvancementMappingItemValueDisplayDataValue.
Proof. solve_struct. Qed.
#[export] Instance cost_PacketAdvancementsAdvancementMappingItemValueDisplayDataValue : CodecCost dom_PacketAdvancementsAdvancementMappingItemValueDisplayDataValue bytes_PacketAdvancementsAdvancementMappingItemValueDisplayDataValue.
Proof. solve_head. Qed.

Record PacketAdvancementsAdvancementMappingItemValue : Type := mkPacketAdvancementsAdvancementMappingItemValue {
  PacketAdvancementsAdvancementMappingItemValue_parent_id : option string;
  PacketAdvancementsAdvancementMappingItemValue_display_data : option PacketAdvancementsAdvancementMappingItemValueDisplayDataValue;
  PacketAdvancementsAdvancementMappingItemValue_requirements : list (list string);
  PacketAdvancementsAdvancementMappingItemValue_sends_telemtry_data : bool;
}.
Definition wire_PacketAdvancementsAdvancementMappingItemValue : Codec PacketAdvancementsAdvancementMappingItemValue := {|
  encode p :=
    encode (wire_Option wire_String) (PacketAdvancementsAdvancementMappingItemValue_parent_id p) ;;;
    encode (wire_Option wire_PacketAdvancementsAdvancementMappingItemValueDisplayDataValue) (PacketAdvancementsAdvancementMappingItemValue_display_data p) ;;;
    encode (wire_Vec (wire_Vec wire_String)) (PacketAdvancementsAdvancementMappingItemValue_requirements p) ;;;
    encode wire_bool (PacketAdvancementsAdvancementMappingItemValue_sends_telemtry_data p) ;;;
    ret tt;
  decode :=
    let* parent_id := decode (wire_Option wire_String) in
    let* display_data := decode (wire_Option wire_PacketAdvancementsAdvancementMappingItemValueDisplayDataValue) in
    let* requirements := decode (wire_Vec (wire_Vec wire_String)) in
    let* sends_telemtry_data := decode wire_bool in
    ret (mkPacketAdvancementsAdvancementMappingItemValue parent_id display_data requirements sends_telemtry_data);
|}.
Definition dom_PacketAdvancementsAdvancementMappingItemValue (p : PacketAdvancementsAdvancementMappingItemValue) : Prop :=
  option_dom wire_string (PacketAdvancementsAdvancementMappingItemValue_parent_id p)
  ∧ option_dom dom_PacketAdvancementsAdvancementMappingItemValueDisplayDataValue (PacketAdvancementsAdvancementMappingItemValue_display_data p)
  ∧ vec_dom (vec_dom wire_string) (PacketAdvancementsAdvancementMappingItemValue_requirements p).
Definition bytes_PacketAdvancementsAdvancementMappingItemValue (p : PacketAdvancementsAdvancementMappingItemValue) : list byte :=
  concat [option_bytes string_bytes (PacketAdvancementsAdvancementMappingItemValue_parent_id p);
    option_bytes bytes_PacketAdvancementsAdvancementMappingItemValueDisplayDataValue (PacketAdvancementsAdvancementMappingItemValue_display_data p);
    vec_bytes (vec_bytes string_bytes) (PacketAdvancementsAdvancementMappingItemValue_requirements p);
    bool_bytes (PacketAdvancementsAdvancementMappingItemValue_sends_telemtry_data p)].
#[export] Instance lawful_PacketAdvancementsAdvancementMappingItemValue : LawfulCodec wire_PacketAdvancementsAdvancementMappingItemValue dom_PacketAdvancementsAdvancementMappingItemValue bytes_PacketAdvancementsAdvancementMappingItemValue.
Proof. solve_struct. Qed.
#[export] Instance cost_PacketAdvancementsAdvancementMappingItemValue : CodecCost dom_PacketAdvancementsAdvancementMappingItemValue bytes_PacketAdvancementsAdvancementMappingItemValue.
Proof. solve_head. Qed.

Record PacketAdvancementsAdvancementMappingItem : Type := mkPacketAdvancementsAdvancementMappingItem {
  PacketAdvancementsAdvancementMappingItem_key : string;
  PacketAdvancementsAdvancementMappingItem_value : PacketAdvancementsAdvancementMappingItemValue;
}.
Definition wire_PacketAdvancementsAdvancementMappingItem : Codec PacketAdvancementsAdvancementMappingItem := {|
  encode p :=
    encode wire_String (PacketAdvancementsAdvancementMappingItem_key p) ;;;
    encode wire_PacketAdvancementsAdvancementMappingItemValue (PacketAdvancementsAdvancementMappingItem_value p) ;;;
    ret tt;
  decode :=
    let* key := decode wire_String in
    let* value := decode wire_PacketAdvancementsAdvancementMappingItemValue in
    ret (mkPacketAdvancementsAdvancementMappingItem key value);
|}.
Definition dom_PacketAdvancementsAdvancementMappingItem (p : PacketAdvancementsAdvancementMappingItem) : Prop :=
  wire_string (PacketAdvancementsAdvancementMappingItem_key p)
  ∧ dom_PacketAdvancementsAdvancementMappingItemValue (PacketAdvancementsAdvancementMappingItem_value p).
Definition bytes_PacketAdvancementsAdvancementMappingItem (p : PacketAdvancementsAdvancementMappingItem) : list byte :=
  concat [string_bytes (PacketAdvancementsAdvancementMappingItem_key p);
    bytes_PacketAdvancementsAdvancementMappingItemValue (PacketAdvancementsAdvancementMappingItem_value p)].
#[export] Instance lawful_PacketAdvancementsAdvancementMappingItem : LawfulCodec wire_PacketAdvancementsAdvancementMappingItem dom_PacketAdvancementsAdvancementMappingItem bytes_PacketAdvancementsAdvancementMappingItem.
Proof. solve_struct. Qed.
#[export] Instance cost_PacketAdvancementsAdvancementMappingItem : CodecCost dom_PacketAdvancementsAdvancementMappingItem bytes_PacketAdvancementsAdvancementMappingItem.
Proof. solve_head. Qed.

Record PacketAdvancementsProgressMappingItemValueItem : Type := mkPacketAdvancementsProgressMappingItemValueItem {
  PacketAdvancementsProgressMappingItemValueItem_criterion_identifier : string;
  PacketAdvancementsProgressMappingItemValueItem_criterion_progress : option Z;
}.
Definition wire_PacketAdvancementsProgressMappingItemValueItem : Codec PacketAdvancementsProgressMappingItemValueItem := {|
  encode p :=
    encode wire_String (PacketAdvancementsProgressMappingItemValueItem_criterion_identifier p) ;;;
    encode (wire_Option wire_i64) (PacketAdvancementsProgressMappingItemValueItem_criterion_progress p) ;;;
    ret tt;
  decode :=
    let* criterion_identifier := decode wire_String in
    let* criterion_progress := decode (wire_Option wire_i64) in
    ret (mkPacketAdvancementsProgressMappingItemValueItem criterion_identifier criterion_progress);
|}.
Definition dom_PacketAdvancementsProgressMappingItemValueItem (p : PacketAdvancementsProgressMappingItemValueItem) : Prop :=
  wire_string (PacketAdvancementsProgressMappingItemValueItem_criterion_identifier p)
  ∧ option_dom (in_i 64) (PacketAdvancementsProgressMappingItemValueItem_criterion_progress p).
Definition bytes_PacketAdvancementsProgressMappingItemValueItem (p : PacketAdvancementsProgressMappingItemValueItem) : list byte :=
  concat [string_bytes (PacketAdvancementsProgressMappingItemValueItem_criterion_identifier p);
    option_bytes (be_bytes 8) (PacketAdvancementsProgressMappingItemValueItem_criterion_progress p)].
#[export] Instance lawful_PacketAdvancementsProgressMappingItemValueItem : LawfulCodec wire_PacketAdvancementsProgressMappingItemValueItem dom_PacketAdvancementsProgressMappingItemValueItem bytes_PacketAdvancementsProgressMappingItemValueItem.
Proof. solve_struct. Qed.
#[export] Instance cost_PacketAdvancementsProgressMappingItemValueItem : CodecCost dom_PacketAdvancementsProgressMappingItemValueItem bytes_PacketAdvancementsProgressMappingItemValueItem.
Proof. solve_head. Qed.

Record PacketAdvancementsProgressMappingItem : Type := mkPacketAdvancementsProgressMappingItem {
  PacketAdvancementsProgressMappingItem_key : string;
  PacketAdvancementsProgressMappingItem_value : list PacketAdvancementsProgressMappingItemValueItem;
}.
Definition wire_PacketAdvancementsProgressMappingItem : Codec PacketAdvancementsProgressMappingItem := {|
  encode p :=
    encode wire_String (PacketAdvancementsProgressMappingItem_key p) ;;;
    encode (wire_Vec wire_PacketAdvancementsProgressMappingItemValueItem) (PacketAdvancementsProgressMappingItem_value p) ;;;
    ret tt;
  decode :=
    let* key := decode wire_String in
    let* value := decode (wire_Vec wire_PacketAdvancementsProgressMappingItemValueItem) in
    ret (mkPacketAdvancementsProgressMappingItem key value);
|}.
Definition dom_PacketAdvancementsProgressMappingItem (p : PacketAdvancementsProgressMappingItem) : Prop :=
  wire_string (PacketAdvancementsProgressMappingItem_key p)
  ∧ vec_dom dom_PacketAdvancementsProgressMappingItemValueItem (PacketAdvancementsProgressMappingItem_value p).
Definition bytes_PacketAdvancementsProgressMappingItem (p : PacketAdvancementsProgressMappingItem) : list byte :=
  concat [string_bytes (PacketAdvancementsProgressMappingItem_key p);
    vec_bytes bytes_PacketAdvancementsProgressMappingItemValueItem (PacketAdvancementsProgressMappingItem_value p)].
#[export] Instance lawful_PacketAdvancementsProgressMappingItem : LawfulCodec wire_PacketAdvancementsProgressMappingItem dom_PacketAdvancementsProgressMappingItem bytes_PacketAdvancementsProgressMappingItem.
Proof. solve_struct. Qed.
#[export] Instance cost_PacketAdvancementsProgressMappingItem : CodecCost dom_PacketAdvancementsProgressMappingItem bytes_PacketAdvancementsProgressMappingItem.
Proof. solve_head. Qed.

Record PacketAdvancements : Type := mkPacketAdvancements {
  PacketAdvancements_reset : bool;
  PacketAdvancements_advancement_mapping : list PacketAdvancementsAdvancementMappingItem;
  PacketAdvancements_identifiers : list string;
  PacketAdvancements_progress_mapping : list PacketAdvancementsProgressMappingItem;
}.
Definition wire_PacketAdvancements : Codec PacketAdvancements := {|
  encode p :=
    encode wire_bool (PacketAdvancements_reset p) ;;;
    encode (wire_Vec wire_PacketAdvancementsAdvancementMappingItem) (PacketAdvancements_advancement_mapping p) ;;;
    encode (wire_Vec wire_String) (PacketAdvancements_identifiers p) ;;;
    encode (wire_Vec wire_PacketAdvancementsProgressMappingItem) (PacketAdvancements_progress_mapping p) ;;;
    ret tt;
  decode :=
    let* reset := decode wire_bool in
    let* advancement_mapping := decode (wire_Vec wire_PacketAdvancementsAdvancementMappingItem) in
    let* identifiers := decode (wire_Vec wire_String) in
    let* progress_mapping := decode (wire_Vec wire_PacketAdvancementsProgressMappingItem) in
    ret (mkPacketAdvancements reset advancement_mapping identifiers progress_mapping);
|}.
Definition dom_PacketAdvancements (p : PacketAdvancements) : Prop :=
  vec_dom dom_PacketAdvancementsAdvancementMappingItem (PacketAdvancements_advancement_mapping p)
  ∧ vec_dom wire_string (PacketAdvancements_identifiers p)
  ∧ vec_dom dom_PacketAdvancementsProgressMappingItem (PacketAdvancements_progress_mapping p).
Definition bytes_PacketAdvancements (p : PacketAdvancements) : list byte :=
  concat [bool_bytes (PacketAdvancements_reset p);
    vec_bytes bytes_PacketAdvancementsAdvancementMappingItem (PacketAdvancements_advancement_mapping p);
    vec_bytes string_bytes (PacketAdvancements_identifiers p);
    vec_bytes bytes_PacketAdvancementsProgressMappingItem (PacketAdvancements_progress_mapping p)].
#[export] Instance lawful_PacketAdvancements : LawfulCodec wire_PacketAdvancements dom_PacketAdvancements bytes_PacketAdvancements.
Proof. solve_struct. Qed.
#[export] Instance cost_PacketAdvancements : CodecCost dom_PacketAdvancements bytes_PacketAdvancements.
Proof. solve_head. Qed.

Record PacketDeclareRecipesStoneCutterRecipesItem : Type := mkPacketDeclareRecipesStoneCutterRecipesItem {
  PacketDeclareRecipesStoneCutterRecipesItem_input_ : HolderSet;
  PacketDeclareRecipesStoneCutterRecipesItem_slot_display : SlotDisplay;
}.
Definition wire_PacketDeclareRecipesStoneCutterRecipesItem : Codec PacketDeclareRecipesStoneCutterRecipesItem := {|
  encode p :=
    encode wire_HolderSet (PacketDeclareRecipesStoneCutterRecipesItem_input_ p) ;;;
    encode wire_SlotDisplay (PacketDeclareRecipesStoneCutterRecipesItem_slot_display p) ;;;
    ret tt;
  decode :=
    let* input_ := decode wire_HolderSet in
    let* slot_display := decode wire_SlotDisplay in
    ret (mkPacketDeclareRecipesStoneCutterRecipesItem input_ slot_display);
|}.
Definition dom_PacketDeclareRecipesStoneCutterRecipesItem (p : PacketDeclareRecipesStoneCutterRecipesItem) : Prop :=
  holder_set_dom (PacketDeclareRecipesStoneCutterRecipesItem_input_ p)
  ∧ dom_SlotDisplay (PacketDeclareRecipesStoneCutterRecipesItem_slot_display p).
Definition bytes_PacketDeclareRecipesStoneCutterRecipesItem (p : PacketDeclareRecipesStoneCutterRecipesItem) : list byte :=
  concat [holder_set_bytes (PacketDeclareRecipesStoneCutterRecipesItem_input_ p);
    bytes_SlotDisplay (PacketDeclareRecipesStoneCutterRecipesItem_slot_display p)].
#[export] Instance lawful_PacketDeclareRecipesStoneCutterRecipesItem : LawfulCodec wire_PacketDeclareRecipesStoneCutterRecipesItem dom_PacketDeclareRecipesStoneCutterRecipesItem bytes_PacketDeclareRecipesStoneCutterRecipesItem.
Proof. solve_struct. Qed.
#[export] Instance cost_PacketDeclareRecipesStoneCutterRecipesItem : CodecCost dom_PacketDeclareRecipesStoneCutterRecipesItem bytes_PacketDeclareRecipesStoneCutterRecipesItem.
Proof. solve_head. Qed.

Record PacketDeclareRecipes : Type := mkPacketDeclareRecipes {
  PacketDeclareRecipes_recipes : list PacketDeclareRecipesRecipesItem;
  PacketDeclareRecipes_stone_cutter_recipes : list PacketDeclareRecipesStoneCutterRecipesItem;
}.
Definition wire_PacketDeclareRecipes : Codec PacketDeclareRecipes := {|
  encode p :=
    encode (wire_Vec wire_PacketDeclareRecipesRecipesItem) (PacketDeclareRecipes_recipes p) ;;;
    encode (wire_Vec wire_PacketDeclareRecipesStoneCutterRecipesItem) (PacketDeclareRecipes_stone_cutter_recipes p) ;;;
    ret tt;
  decode :=
    let* recipes := decode (wire_Vec wire_PacketDeclareRecipesRecipesItem) in
    let* stone_cutter_recipes := decode (wire_Vec wire_PacketDeclareRecipesStoneCutterRecipesItem) in
    ret (mkPacketDeclareRecipes recipes stone_cutter_recipes);
|}.
Definition dom_PacketDeclareRecipes (p : PacketDeclareRecipes) : Prop :=
  vec_dom dom_PacketDeclareRecipesRecipesItem (PacketDeclareRecipes_recipes p)
  ∧ vec_dom dom_PacketDeclareRecipesStoneCutterRecipesItem (PacketDeclareRecipes_stone_cutter_recipes p).
Definition bytes_PacketDeclareRecipes (p : PacketDeclareRecipes) : list byte :=
  concat [vec_bytes bytes_PacketDeclareRecipesRecipesItem (PacketDeclareRecipes_recipes p);
    vec_bytes bytes_PacketDeclareRecipesStoneCutterRecipesItem (PacketDeclareRecipes_stone_cutter_recipes p)].
#[export] Instance lawful_PacketDeclareRecipes : LawfulCodec wire_PacketDeclareRecipes dom_PacketDeclareRecipes bytes_PacketDeclareRecipes.
Proof. solve_struct. Qed.
#[export] Instance cost_PacketDeclareRecipes : CodecCost dom_PacketDeclareRecipes bytes_PacketDeclareRecipes.
Proof. solve_head. Qed.

Inductive ServerLinkType : Type :=
  | ServerLinkType_BugReport
  | ServerLinkType_CommunityGuidelines
  | ServerLinkType_Support
  | ServerLinkType_Status
  | ServerLinkType_Feedback
  | ServerLinkType_Community
  | ServerLinkType_Website
  | ServerLinkType_Forums
  | ServerLinkType_News
  | ServerLinkType_Announcements.
Definition value_ServerLinkType (v : ServerLinkType) : Z :=
  match v with
  | ServerLinkType_BugReport => 0
  | ServerLinkType_CommunityGuidelines => 1
  | ServerLinkType_Support => 2
  | ServerLinkType_Status => 3
  | ServerLinkType_Feedback => 4
  | ServerLinkType_Community => 5
  | ServerLinkType_Website => 6
  | ServerLinkType_Forums => 7
  | ServerLinkType_News => 8
  | ServerLinkType_Announcements => 9
  end.
Definition of_ServerLinkType (value : Z) : option ServerLinkType :=
  match value with
  | 0 => Some ServerLinkType_BugReport
  | 1 => Some ServerLinkType_CommunityGuidelines
  | 2 => Some ServerLinkType_Support
  | 3 => Some ServerLinkType_Status
  | 4 => Some ServerLinkType_Feedback
  | 5 => Some ServerLinkType_Community
  | 6 => Some ServerLinkType_Website
  | 7 => Some ServerLinkType_Forums
  | 8 => Some ServerLinkType_News
  | 9 => Some ServerLinkType_Announcements
  | _ => None
  end.
#[export] Instance ServerLinkType_eq_dec : EqDecision ServerLinkType.
Proof. apply (value_eq_dec value_ServerLinkType), (value_inj _ of_ServerLinkType). by intros []. Defined.
Definition wire_ServerLinkType : Codec ServerLinkType := {|
  encode v := modify (write_varint (value_ServerLinkType v));
  decode :=
    let* value := read_varint in
    match of_ServerLinkType value with
    | Some v => ret v
    | None => raise (UnknownEnumValue "ServerLinkType" value)
    end;
|}.
Definition dom_ServerLinkType (_ : ServerLinkType) : Prop := True.
Definition bytes_ServerLinkType (v : ServerLinkType) : list byte := varint_bytes (value_ServerLinkType v).
#[export] Instance lawful_ServerLinkType : LawfulCodec wire_ServerLinkType dom_ServerLinkType bytes_ServerLinkType.
Proof. solve_enum. Qed.
#[export] Instance cost_ServerLinkType : CodecCost dom_ServerLinkType bytes_ServerLinkType.
Proof. solve_cost. Qed.

Inductive PacketCommonServerLinksLinksItemKnownType : Type :=
  | PacketCommonServerLinksLinksItemKnownType_True (v : ServerLinkType)
  | PacketCommonServerLinksLinksItemKnownType_False.
Definition encode_PacketCommonServerLinksLinksItemKnownType (v : PacketCommonServerLinksLinksItemKnownType) : Write :=
  match v with
  | PacketCommonServerLinksLinksItemKnownType_True v => encode wire_ServerLinkType v
  | PacketCommonServerLinksLinksItemKnownType_False => ret tt
  end.
Definition decode_from_PacketCommonServerLinksLinksItemKnownType (d : bool) : Read PacketCommonServerLinksLinksItemKnownType :=
  if d then (let* v := decode wire_ServerLinkType in ret (PacketCommonServerLinksLinksItemKnownType_True v))
  else ret PacketCommonServerLinksLinksItemKnownType_False.
Definition case_PacketCommonServerLinksLinksItemKnownType (d : bool) (v : PacketCommonServerLinksLinksItemKnownType) : bool :=
  match v with
  | PacketCommonServerLinksLinksItemKnownType_True _ => on d true
  | PacketCommonServerLinksLinksItemKnownType_False => on d false
  end.
Definition switch_PacketCommonServerLinksLinksItemKnownType : Switch bool PacketCommonServerLinksLinksItemKnownType := mkSwitch case_PacketCommonServerLinksLinksItemKnownType encode_PacketCommonServerLinksLinksItemKnownType decode_from_PacketCommonServerLinksLinksItemKnownType.
Definition dom_PacketCommonServerLinksLinksItemKnownType (d : bool) (v : PacketCommonServerLinksLinksItemKnownType) : Prop :=
  case_PacketCommonServerLinksLinksItemKnownType d v = true ∧
  match v with
  | PacketCommonServerLinksLinksItemKnownType_True v => dom_ServerLinkType v
  | _ => True
  end.
Definition bytes_PacketCommonServerLinksLinksItemKnownType (v : PacketCommonServerLinksLinksItemKnownType) : list byte :=
  match v with
  | PacketCommonServerLinksLinksItemKnownType_True v => bytes_ServerLinkType v
  | _ => []
  end.
#[export] Instance lawful_PacketCommonServerLinksLinksItemKnownType : LawfulSwitch switch_PacketCommonServerLinksLinksItemKnownType dom_PacketCommonServerLinksLinksItemKnownType bytes_PacketCommonServerLinksLinksItemKnownType.
Proof. solve_switch. Qed.

Inductive PacketCommonServerLinksLinksItemUnknownType : Type :=
  | PacketCommonServerLinksLinksItemUnknownType_False (v : Nbt)
  | PacketCommonServerLinksLinksItemUnknownType_True.
Definition encode_PacketCommonServerLinksLinksItemUnknownType (v : PacketCommonServerLinksLinksItemUnknownType) : Write :=
  match v with
  | PacketCommonServerLinksLinksItemUnknownType_False v => encode wire_Nbt v
  | PacketCommonServerLinksLinksItemUnknownType_True => ret tt
  end.
Definition decode_from_PacketCommonServerLinksLinksItemUnknownType (d : bool) : Read PacketCommonServerLinksLinksItemUnknownType :=
  if d then ret PacketCommonServerLinksLinksItemUnknownType_True
  else (let* v := decode wire_Nbt in ret (PacketCommonServerLinksLinksItemUnknownType_False v)).
Definition case_PacketCommonServerLinksLinksItemUnknownType (d : bool) (v : PacketCommonServerLinksLinksItemUnknownType) : bool :=
  match v with
  | PacketCommonServerLinksLinksItemUnknownType_False _ => on d false
  | PacketCommonServerLinksLinksItemUnknownType_True => on d true
  end.
Definition switch_PacketCommonServerLinksLinksItemUnknownType : Switch bool PacketCommonServerLinksLinksItemUnknownType := mkSwitch case_PacketCommonServerLinksLinksItemUnknownType encode_PacketCommonServerLinksLinksItemUnknownType decode_from_PacketCommonServerLinksLinksItemUnknownType.
Definition dom_PacketCommonServerLinksLinksItemUnknownType (d : bool) (v : PacketCommonServerLinksLinksItemUnknownType) : Prop :=
  case_PacketCommonServerLinksLinksItemUnknownType d v = true ∧
  match v with
  | PacketCommonServerLinksLinksItemUnknownType_False v => nbt_fits v
  | _ => True
  end.
Definition bytes_PacketCommonServerLinksLinksItemUnknownType (v : PacketCommonServerLinksLinksItemUnknownType) : list byte :=
  match v with
  | PacketCommonServerLinksLinksItemUnknownType_False v => nbt_bytes v
  | _ => []
  end.
#[export] Instance lawful_PacketCommonServerLinksLinksItemUnknownType : LawfulSwitch switch_PacketCommonServerLinksLinksItemUnknownType dom_PacketCommonServerLinksLinksItemUnknownType bytes_PacketCommonServerLinksLinksItemUnknownType.
Proof. solve_switch. Qed.

Record PacketCommonServerLinksLinksItem : Type := mkPacketCommonServerLinksLinksItem {
  PacketCommonServerLinksLinksItem_has_known_type : bool;
  PacketCommonServerLinksLinksItem_known_type : PacketCommonServerLinksLinksItemKnownType;
  PacketCommonServerLinksLinksItem_unknown_type : PacketCommonServerLinksLinksItemUnknownType;
  PacketCommonServerLinksLinksItem_link : string;
}.
Definition wire_PacketCommonServerLinksLinksItem : Codec PacketCommonServerLinksLinksItem := {|
  encode p :=
    encode wire_bool (PacketCommonServerLinksLinksItem_has_known_type p) ;;;
    encode_at switch_PacketCommonServerLinksLinksItemKnownType (PacketCommonServerLinksLinksItem_has_known_type p) (PacketCommonServerLinksLinksItem_known_type p) ;;;
    encode_at switch_PacketCommonServerLinksLinksItemUnknownType (PacketCommonServerLinksLinksItem_has_known_type p) (PacketCommonServerLinksLinksItem_unknown_type p) ;;;
    encode wire_String (PacketCommonServerLinksLinksItem_link p) ;;;
    ret tt;
  decode :=
    let* has_known_type := decode wire_bool in
    let* known_type := sw_decode switch_PacketCommonServerLinksLinksItemKnownType has_known_type in
    let* unknown_type := sw_decode switch_PacketCommonServerLinksLinksItemUnknownType has_known_type in
    let* link := decode wire_String in
    ret (mkPacketCommonServerLinksLinksItem has_known_type known_type unknown_type link);
|}.
Definition dom_PacketCommonServerLinksLinksItem (p : PacketCommonServerLinksLinksItem) : Prop :=
  dom_PacketCommonServerLinksLinksItemKnownType (PacketCommonServerLinksLinksItem_has_known_type p) (PacketCommonServerLinksLinksItem_known_type p)
  ∧ dom_PacketCommonServerLinksLinksItemUnknownType (PacketCommonServerLinksLinksItem_has_known_type p) (PacketCommonServerLinksLinksItem_unknown_type p)
  ∧ wire_string (PacketCommonServerLinksLinksItem_link p).
Definition bytes_PacketCommonServerLinksLinksItem (p : PacketCommonServerLinksLinksItem) : list byte :=
  concat [bool_bytes (PacketCommonServerLinksLinksItem_has_known_type p);
    bytes_PacketCommonServerLinksLinksItemKnownType (PacketCommonServerLinksLinksItem_known_type p);
    bytes_PacketCommonServerLinksLinksItemUnknownType (PacketCommonServerLinksLinksItem_unknown_type p);
    string_bytes (PacketCommonServerLinksLinksItem_link p)].
#[export] Instance lawful_PacketCommonServerLinksLinksItem : LawfulCodec wire_PacketCommonServerLinksLinksItem dom_PacketCommonServerLinksLinksItem bytes_PacketCommonServerLinksLinksItem.
Proof. solve_struct. Qed.
#[export] Instance cost_PacketCommonServerLinksLinksItem : CodecCost dom_PacketCommonServerLinksLinksItem bytes_PacketCommonServerLinksLinksItem.
Proof. solve_head. Qed.

Record PacketCommonServerLinks : Type := mkPacketCommonServerLinks {
  PacketCommonServerLinks_links : list PacketCommonServerLinksLinksItem;
}.
Definition wire_PacketCommonServerLinks : Codec PacketCommonServerLinks := {|
  encode p :=
    encode (wire_Vec wire_PacketCommonServerLinksLinksItem) (PacketCommonServerLinks_links p) ;;;
    ret tt;
  decode :=
    let* links := decode (wire_Vec wire_PacketCommonServerLinksLinksItem) in
    ret (mkPacketCommonServerLinks links);
|}.
Definition dom_PacketCommonServerLinks (p : PacketCommonServerLinks) : Prop :=
  vec_dom dom_PacketCommonServerLinksLinksItem (PacketCommonServerLinks_links p).
Definition bytes_PacketCommonServerLinks (p : PacketCommonServerLinks) : list byte :=
  concat [vec_bytes bytes_PacketCommonServerLinksLinksItem (PacketCommonServerLinks_links p)].
#[export] Instance lawful_PacketCommonServerLinks : LawfulCodec wire_PacketCommonServerLinks dom_PacketCommonServerLinks bytes_PacketCommonServerLinks.
Proof. solve_struct. Qed.
#[export] Instance cost_PacketCommonServerLinks : CodecCost dom_PacketCommonServerLinks bytes_PacketCommonServerLinks.
Proof. solve_head. Qed.
