(* ===== verification/ItemLaws.v ===== *)
(** * What the item codec promises

    On top of [Items]: how deep the decoder recurses, at most and on hostile
    input, and what the encoder refuses.  Contrast the player
    list, whose encoder writes a field without a look at the flag that
    announces it. *)

From S2P Require Import Prelude Machine Reader Varint Utf8 Buffer Wire Nbt PacketTypes Switch Recursion ItemTypes Items PlayPackets PlayPacketsSwitch.

Local Open Scope Z_scope.

(** ** Recursion *)

(** [Decode for Slot] with at most [n] items open at a time: the [n + 1]-th
    call of [Slot::decode] inside another fails with [InvalidData]. *)
Definition decode_levels (n : nat) : Read Slot := decode (unrolled level_Slot n).

#[local] Transparent read_varint.
Lemma progress_enum : progress (decode wire_SlotComponentType).
Proof. cbn [decode wire_SlotComponentType]. apply progress_bind; [apply progress_varint|]. intros value. case_match; mauto. Qed.
#[local] Opaque read_varint.

(** Before an item inside a component come the type of the component, the
    number of removed components, that of the added ones, the id of the outer
    item and its count: five bytes at least. *)
Lemma level_takes_five (c c' : Codec Slot) k :
  in_bounds (decode c) → agree k (decode c) (decode c') → agree (5 + k) (decode (level_Slot c)) (decode (level_Slot c')).
Proof.
  intros Hb Hc. pose proof (Hb : SafeDecode c).
  assert (agree (1 + k) (decode (wire_SlotComponent c)) (decode (wire_SlotComponent c'))) as Hcomp.
  { cbn [decode wire_SlotComponent]. apply agree_bind_progress; [apply progress_enum|]. intros t.
    apply agree_bind; [mauto|by apply agree_SlotComponentData|intros d; apply agree_refl]. }
  assert (agree (4 + k) (decode (wire_SlotValueDefault c)) (decode (wire_SlotValueDefault c'))) as Hval.
  { cbn [decode wire_SlotValueDefault]. do 3 (apply agree_bind_progress; [apply progress_varint|intros ?]).
    apply agree_bind; [mauto|by apply agree_counted; [apply safe_decode|]|intros l; apply agree_refl]. }
  cbn [decode level_Slot]. apply agree_bind_progress; [apply progress_varint|]. intros count.
  apply agree_bind; [mauto| |intros v; apply agree_refl]. cbn [sw_decode switch_SlotValue]. unfold decode_from_SlotValue.
  destruct (on count 0); [apply agree_refl|]. apply agree_bind; [mauto|exact Hval|intros v; apply agree_refl].
Qed.

Lemma levels_agree n m : agree (5 * (n `min` m)) (decode_levels n) (decode_levels m).
Proof.
  unfold decode_levels. revert m. induction n as [|n IH]; intros m; [intros r Hr; lia|].
  destruct m as [|m]; [intros r Hr; lia|]. replace (5 * (S n `min` S m))%nat with (5 + 5 * (n `min` m))%nat by lia.
  apply level_takes_five; [apply unrolled_bounds, _|apply IH].
Qed.

(** ** Nesting *)

(** An item whose only component is the item it leaves behind. *)
Definition remainder_item (inner : Slot) : Slot :=
  mkSlot 1 (SlotValue_Default (mkSlotValueDefault 0 1 0
    [mkSlotComponent SlotComponentType_UseRemainder (SlotComponentData_UseRemainder inner)] [])).
Definition remainder_head : list byte :=
  map byte_of_Z [1; 0; 1; 0; value_SlotComponentType SlotComponentType_UseRemainder].

Fixpoint nested_item (d : nat) : Slot :=
  match d with O => mkSlot 0 SlotValue_V0 | S d => remainder_item (nested_item d) end.
Fixpoint nested_bytes (d : nat) : list byte :=
  match d with O => [x00] | S d => remainder_head ++ nested_bytes d end.

(** The longest chain of items each left behind by the last. *)
Fixpoint item_depth (s : Slot) : nat :=
  match Slot_value s with
  | SlotValue_V0 => 1
  | SlotValue_Default v =>
      S (list_max (map (λ c, match SlotComponent_data c with SlotComponentData_UseRemainder s => item_depth s | _ => 0 end)
        (SlotValueDefault_components v)))%nat
  end.

Lemma nested_bytes_length d : length (nested_bytes d) = (5 * d + 1)%nat.
Proof. induction d as [|d IH]; simpl; [done|]. rewrite IH. lia. Qed.

Lemma nested_dom_upto d : dom_upto dom_level_Slot (S d) (nested_item d).
Proof.
  induction d as [|d IH]; cbn [dom_upto nested_item remainder_item]; [by vm_compute|].
  split; [done|]. split; [done|]. do 3 (split; [done|]). split; [|by vm_compute].
  split; [done|]. constructor; [|done]. split; [by vm_compute|]. split; [done|exact IH].
Qed.

Lemma nested_dom d : dom_Slot (nested_item d).
Proof. exists (S d). apply nested_dom_upto. Qed.

Lemma bytes_Slot_eq s : dom_Slot s → bytes_Slot s = bytes_level_Slot bytes_Slot s.
Proof.
  intros [[|n] Hn]; [done|].
  destruct (knot_lawful_upto level_Slot encode_Slot dom_level_Slot bytes_level_Slot encode_Slot_eq
    ltac:(intros; apply lawful_level_Slot; done) ltac:(apply cost_level_Slot) n) as [Hl Hc].
  apply knot_bytes_eq. rewrite encode_Slot_eq.
  exact (codec_writes (LawfulCodec := lawful_level_Slot _ _ _) s Hn).
Qed.

Lemma nested_bytes_eq d : bytes_Slot (nested_item d) = nested_bytes d.
Proof.
  induction d as [|d IH]; rewrite bytes_Slot_eq by apply nested_dom; [by vm_compute|].
  cbn [nested_bytes]. rewrite <- IH. unfold bytes_level_Slot. cbn. by rewrite !app_nil_r.
Qed.

(** Nothing bounds how deeply items nest: for every depth there is an
    item of five bytes a level that the decoder accepts, one call of
    [Slot::decode] inside the other, each level's remainder being the next. *)
Lemma item_nesting_unbounded (d : nat) :
  length (nested_bytes d) = (5 * d + 1)%nat
  ∧ item_depth (nested_item d) = S d
  ∧ decode wire_Slot (new_reader (nested_bytes d)) = (Ok (nested_item d), advance (new_reader (nested_bytes d)) (5 * d + 1)).
Proof.
  split; [apply nested_bytes_length|]. split; [induction d as [|d IH]; [done|cbn; lia]|].
  pose proof (codec_reads (c := wire_Slot) (nested_item d) (nested_dom d) (new_reader (nested_bytes d)) []) as Hr.
  rewrite nested_bytes_eq, nested_bytes_length, rest_new_reader, app_nil_r in Hr. by apply Hr.
Qed.

(** A failure in the middle of a read. *)
Lemma fails_after {A B} (m : Read A) (k : A → Read B) bs a r suf e :
  reads m bs a → rest r = bs ++ suf → (∀ r1, rest r1 = suf → (k a r1).1 = Err e) → (bind m k r).1 = Err e.
Proof.
  intros Hm Hr Hk. rewrite (bind_Ok _ _ _ _ _ (Hm r suf Hr)). apply Hk. by rewrite rest_advance, Hr, drop_app_exact.
Qed.
Lemma fails_here {A B} (m : Read A) (k : A → Read B) r e : (m r).1 = Err e → (bind m k r).1 = Err e.
Proof. unfold bind. destruct (m r) as [[a|e'] r1]; [done|]. by intros [= ->]. Qed.

(** The head of a level, and what follows it is read by the level below. *)
Lemma remainder_fails (c : Codec Slot) r suf e :
  rest r = remainder_head ++ suf → suf ≠ [] → (∀ r1, rest r1 = suf → (decode c r1).1 = Err e) → (decode (level_Slot c) r).1 = Err e.
Proof.
  intros Hr Hsuf Hc.
  pose proof (reads_varint 0 ltac:(done)) as H0v. pose proof (reads_varint 1 ltac:(done)) as H1v.
  change remainder_head with (varint_bytes 1 ++ varint_bytes 0 ++ varint_bytes 1 ++ varint_bytes 0
    ++ bytes_SlotComponentType SlotComponentType_UseRemainder) in Hr. rewrite <- !(assoc_L app) in Hr.
  cbn [decode level_Slot]. eapply fails_after; [exact H1v|exact Hr|]. intros r1 H1. apply fails_here.
  cbn [sw_decode switch_SlotValue]. unfold decode_from_SlotValue. cbn [on]. apply fails_here. cbn [decode wire_SlotValueDefault].
  eapply fails_after; [exact H0v|exact H1|]. intros r2 H2. eapply fails_after; [exact H1v|exact H2|]. intros r3 H3.
  eapply fails_after; [exact H0v|exact H3|]. intros r4 H4. apply fails_here. cbn [sw_decode counted].
  change (1 <? 0) with false. cbv iota. unfold bind at 1, gets. rewrite (proj2 (Z.ltb_ge _ _)).
  2:{ rewrite <- length_rest, H4, length_app. destruct suf; [done|]. simpl. lia. }
  cbn [repeat_m Z.to_nat]. apply fails_here. cbn [decode wire_SlotComponent].
  eapply fails_after; [exact (codec_reads (c := wire_SlotComponentType) SlotComponentType_UseRemainder I)|exact H4|].
  intros r5 H5. apply fails_here. cbn [sw_decode switch_SlotComponentData decode_from_SlotComponentData]. by apply fails_here, Hc.
Qed.

(** With [n] items open at most, the item nested [n + 1] deep is refused. *)
Lemma nested_refused n r : rest r = nested_bytes n → (decode_levels n r).1 = Err InvalidData.
Proof.
  revert r. induction n as [|n IH]; intros r Hr; [done|].
  change (decode_levels (S n) r) with (decode (level_Slot (unrolled level_Slot n)) r). cbn [nested_bytes] in Hr.
  apply (remainder_fails (unrolled level_Slot n) r _ InvalidData Hr); [by destruct n|exact IH].
Qed.

(** C20. How deep reading an item recurses is known exactly: a call of
    [Slot::decode] inside [n] others needs [5 n] bytes before it (count, id,
    both component counts and a component type for every level), so on fewer
    than [5 n] unread bytes the decoder behaves the same, result and reader,
    as one that never opens more than [n] items. The bound is sharp: the
    [5 n + 1] bytes of [nested_bytes n] are an item [n + 1] deep, which the
    decoder reads and [n] levels refuse. Reading therefore ends on every
    input, but nothing other than the input bounds the stack it takes. *)
Theorem item_recursion_depth (n : nat) :
  (∀ r, (remaining r < 5 * n)%nat → decode_levels n r = decode wire_Slot r)
  ∧ length (nested_bytes n) = (5 * n + 1)%nat ∧ item_depth (nested_item n) = S n
  ∧ (decode wire_Slot (new_reader (nested_bytes n))).1 = Ok (nested_item n)
  ∧ (decode_levels n (new_reader (nested_bytes n))).1 = Err InvalidData.
Proof.
  split_and!.
  - intros r Hr. cbn [decode wire_Slot knot]. apply levels_agree. lia.
  - apply nested_bytes_length.
  - apply item_nesting_unbounded.
  - by rewrite (proj2 (proj2 (item_nesting_unbounded n))).
  - apply nested_refused, rest_new_reader.
Qed.

(** ** What the encoder refuses *)

(** The counts are the lengths of the arrays they announce, every
    component's data belongs to its type, and an item has contents exactly
    when its count is not zero. *)
Definition item_checked (s : Slot) : bool :=
  match Slot_value s with
  | SlotValue_V0 => Slot_item_count s =? 0
  | SlotValue_Default v =>
      negb (Slot_item_count s =? 0)
      && (Z.of_nat (length (SlotValueDefault_components v)) =? SlotValueDefault_added_component_count v)
      && (Z.of_nat (length (SlotValueDefault_remove_components v)) =? SlotValueDefault_removed_component_count v)
      && forallb (λ c, case_SlotComponentData (SlotComponent_type c) (SlotComponent_data c)) (SlotValueDefault_components v)
  end.

Lemma only_Ok_inv ok m w w' : only ok m w = (Ok tt, w') → ok = true ∧ m w = (Ok tt, w').
Proof. by destruct ok. Qed.

Lemma iter_m_Ok_inv {A} (enc : A → Write) (P : A → Prop) l w w' :
  (∀ a w w', enc a w = (Ok tt, w') → P a) → iter_m enc l w = (Ok tt, w') → Forall P l.
Proof.
  intros Henc. revert w. induction l as [|a l IH]; intros w; [done|].
  intros ([] & w1 & Ha & Hl)%bind_Ok_inv. constructor; [by eapply Henc|by eapply IH].
Qed.

(** C21. An item whose parts do not announce each other never reaches the
    wire: encoding succeeds only if it has contents exactly when its count is
    not zero, both component counts are the lengths of their arrays, and the
    data of every component is that of its type. *)
Theorem item_encode_checked (s : Slot) (w w' : PacketWriter) :
  encode wire_Slot s w = (Ok tt, w') → item_checked s = true.
Proof.
  cbn [encode wire_Slot knot]. rewrite encode_Slot_eq. cbn [encode level_Slot]. unfold encode_at.
  intros (? & w1 & _ & ([] & w2 & [Hc Hv]%only_Ok_inv & _)%bind_Ok_inv)%bind_Ok_inv.
  unfold item_checked. destruct (Slot_value s) as [|v]; cbn [sw_case switch_SlotValue case_SlotValue] in Hc.
  { apply on_eq in Hc. by rewrite Hc. }
  cbn [sw_encode switch_SlotValue encode_SlotValue] in Hv. unfold encode_SlotValueDefault in Hv.
  apply bind_Ok_inv in Hv as (? & ? & _ & (? & ? & _ & (? & ? & _ & ([] & w3 & [Ha Hl]%only_Ok_inv & ([] & w4 & [Hr _]%only_Ok_inv & _)%bind_Ok_inv)%bind_Ok_inv)%bind_Ok_inv)%bind_Ok_inv).
  rewrite Ha, Hr, !andb_true_r. apply andb_true_intro. split.
  - apply negb_true_iff in Hc. apply negb_true_iff, Z.eqb_neq. by apply bool_decide_eq_false in Hc.
  - apply forallb_forall. intros c Hin. revert c Hin. apply List.Forall_forall. eapply iter_m_Ok_inv; [|exact Hl].
    by intros c wc wc' (? & ? & _ & ([] & ? & [Hk _]%only_Ok_inv & _)%bind_Ok_inv)%bind_Ok_inv.
Qed.

Lemma item_encode_checked_witness :
  (encode wire_Slot (nested_item 1) new_writer).1 = Ok tt ∧ item_checked (nested_item 1) = true.
Proof.
  assert (encode wire_Slot (nested_item 1) new_writer = (Ok tt, (encode wire_Slot (nested_item 1) new_writer).2)) as Hw
    by by vm_compute.
  split; [by rewrite Hw|]. exact (item_encode_checked (nested_item 1) new_writer _ Hw).
Defined.

(** ** What it does not refuse *)

Definition no_actions : PacketPlayerInfoAction := 0.
Definition latency_item : PacketPlayerInfoDataItem :=
  mkPacketPlayerInfoDataItem 0 PacketPlayerInfoDataItemPlayer_Default PacketPlayerInfoDataItemChatSession_Default
    PacketPlayerInfoDataItemGamemode_Default PacketPlayerInfoDataItemListed_Default
    (PacketPlayerInfoDataItemLatency_True 7) PacketPlayerInfoDataItemDisplayName_Default
    PacketPlayerInfoDataItemListPriority_Default PacketPlayerInfoDataItemShowHat_Default.

(** The player list trusts its caller: a latency that no action announces is
    written all the same, and read back it is a byte too many. *)
Lemma player_info_unannounced :
  ∃ w r, encode wire_PacketPlayerInfo (mkPacketPlayerInfo no_actions [latency_item]) new_writer = (Ok tt, w)
  ∧ decode wire_PacketPlayerInfo (new_reader (buf w))
    = (Ok (mkPacketPlayerInfo no_actions
        [mkPacketPlayerInfoDataItem 0 PacketPlayerInfoDataItemPlayer_Default PacketPlayerInfoDataItemChatSession_Default
          PacketPlayerInfoDataItemGamemode_Default PacketPlayerInfoDataItemListed_Default
          PacketPlayerInfoDataItemLatency_Default PacketPlayerInfoDataItemDisplayName_Default
          PacketPlayerInfoDataItemListPriority_Default PacketPlayerInfoDataItemShowHat_Default]), r)
  ∧ remaining r = 1%nat.
Proof. eexists _, _. split; [by vm_compute|]. split; [by vm_compute|]. by vm_compute. Qed.
