(* ===== verification/PlayPacketsSwitchOut.v ===== *)
(** * Play packets from the client, continued

    The remaining structs of [generated/v1_21_4/play.rs] the client sends. *)

From S2P Require Import Prelude Machine Reader Varint Utf8 Buffer Wire Nbt PacketTypes Switch Recursion ItemTypes Items EntityData CommandNodes Displays PlayPackets PlayPacketsOut PlayPacketsSwitch.

Local Open Scope Z_scope.

Record PacketChatCommandSignedArgumentSignaturesItem : Type := mkPacketChatCommandSignedArgumentSignaturesItem {
  PacketChatCommandSignedArgumentSignaturesItem_argument_name : string;
  PacketChatCommandSignedArgumentSignaturesItem_signature : list byte;
}.
Definition wire_PacketChatCommandSignedArgumentSignaturesItem : Codec PacketChatCommandSignedArgumentSignaturesItem := {|
  encode p :=
    encode wire_String (PacketChatCommandSignedArgumentSignaturesItem_argument_name p) ;;;
    encode (wire_blob 256) (PacketChatCommandSignedArgumentSignaturesItem_signature p) ;;;
    ret tt;
  decode :=
    let* argument_name := decode wire_String in
    let* signature := decode (wire_blob 256) in
    ret (mkPacketChatCommandSignedArgumentSignaturesItem argument_name signature);
|}.
Definition dom_PacketChatCommandSignedArgumentSignaturesItem (p : PacketChatCommandSignedArgumentSignaturesItem) : Prop :=
  wire_string (PacketChatCommandSignedArgumentSignaturesItem_argument_name p)
  ∧ blob_dom 256 (PacketChatCommandSignedArgumentSignaturesItem_signature p).
Definition bytes_PacketChatCommandSignedArgumentSignaturesItem (p : PacketChatCommandSignedArgumentSignaturesItem) : list byte :=
  concat [string_bytes (PacketChatCommandSignedArgumentSignaturesItem_argument_name p);
    id (PacketChatCommandSignedArgumentSignaturesItem_signature p)].
#[export] Instance lawful_PacketChatCommandSignedArgumentSignaturesItem : LawfulCodec wire_PacketChatCommandSignedArgumentSignaturesItem dom_PacketChatCommandSignedArgumentSignaturesItem bytes_PacketChatCommandSignedArgumentSignaturesItem.
Proof. solve_struct. Qed.
#[export] Instance cost_PacketChatCommandSignedArgumentSignaturesItem : CodecCost dom_PacketChatCommandSignedArgumentSignaturesItem bytes_PacketChatCommandSignedArgumentSignaturesItem.
Proof. solve_head. Qed.

Record PacketChatCommandSigned : Type := mkPacketChatCommandSigned {
  PacketChatCommandSigned_command : string;
  PacketChatCommandSigned_timestamp : Z;
  PacketChatCommandSigned_salt : Z;
  PacketChatCommandSigned_argument_signatures : list PacketChatCommandSignedArgumentSignaturesItem;
  PacketChatCommandSigned_message_count : Z;
  PacketChatCommandSigned_acknowledged : list byte;
}.
Definition wire_PacketChatCommandSigned : Codec PacketChatCommandSigned := {|
  encode p :=
    encode wire_String (PacketChatCommandSigned_command p) ;;;
    modify (put_i64 (PacketChatCommandSigned_timestamp p)) ;;;
    modify (put_i64 (PacketChatCommandSigned_salt p)) ;;;
    encode (wire_Vec wire_PacketChatCommandSignedArgumentSignaturesItem) (PacketChatCommandSigned_argument_signatures p) ;;;
    modify (write_varint (PacketChatCommandSigned_message_count p)) ;;;
    encode (wire_blob 3) (PacketChatCommandSigned_acknowledged p) ;;;
    ret tt;
  decode :=
    let* command := decode wire_String in
    let* timestamp := get_i64 in
    let* salt := get_i64 in
    let* argument_signatures := decode (wire_Vec wire_PacketChatCommandSignedArgumentSignaturesItem) in
    let* message_count := read_varint in
    let* acknowledged := decode (wire_blob 3) in
    ret (mkPacketChatCommandSigned command timestamp salt argument_signatures message_count acknowledged);
|}.
Definition dom_PacketChatCommandSigned (p : PacketChatCommandSigned) : Prop :=
  wire_string (PacketChatCommandSigned_command p)
  ∧ in_i 64 (PacketChatCommandSigned_timestamp p)
  ∧ in_i 64 (PacketChatCommandSigned_salt p)
  ∧ vec_dom dom_PacketChatCommandSignedArgumentSignaturesItem (PacketChatCommandSigned_argument_signatures p)
  ∧ in_i 32 (PacketChatCommandSigned_message_count p)
  ∧ blob_dom 3 (PacketChatCommandSigned_acknowledged p).
Definition bytes_PacketChatCommandSigned (p : PacketChatCommandSigned) : list byte :=
  concat [string_bytes (PacketChatCommandSigned_command p);
    be_bytes 8 (PacketChatCommandSigned_timestamp p);
    be_bytes 8 (PacketChatCommandSigned_salt p);
    vec_bytes bytes_PacketChatCommandSignedArgumentSignaturesItem (PacketChatCommandSigned_argument_signatures p);
    varint_bytes (PacketChatCommandSigned_message_count p);
    id (PacketChatCommandSigned_acknowledged p)].
#[export] Instance lawful_PacketChatCommandSigned : LawfulCodec wire_PacketChatCommandSigned dom_PacketChatCommandSigned bytes_PacketChatCommandSigned.
Proof. solve_struct. Qed.
#[export] Instance cost_PacketChatCommandSigned : CodecCost dom_PacketChatCommandSigned bytes_PacketChatCommandSigned.
Proof. solve_head. Qed.

Record PacketChatMessage : Type := mkPacketChatMessage {
  PacketChatMessage_message : string;
  PacketChatMessage_timestamp : Z;
  PacketChatMessage_salt : Z;
  PacketChatMessage_signature : option (list byte);
  PacketChatMessage_offset : Z;
  PacketChatMessage_acknowledged : list byte;
}.
Definition wire_PacketChatMessage : Codec PacketChatMessage := {|
  encode p :=
    encode wire_String (PacketChatMessage_message p) ;;;
    modify (put_i64 (PacketChatMessage_timestamp p)) ;;;
    modify (put_i64 (PacketChatMessage_salt p)) ;;;
    encode (wire_Option (wire_blob 256)) (PacketChatMessage_signature p) ;;;
    modify (write_varint (PacketChatMessage_offset p)) ;;;
    encode (wire_blob 3) (PacketChatMessage_acknowledged p) ;;;
    ret tt;
  decode :=
    let* message := decode wire_String in
    let* timestamp := get_i64 in
    let* salt := get_i64 in
    let* signature := decode (wire_Option (wire_blob 256)) in
    let* offset := read_varint in
    let* acknowledged := decode (wire_blob 3) in
    ret (mkPacketChatMessage message timestamp salt signature offset acknowledged);
|}.
Definition dom_PacketChatMessage (p : PacketChatMessage) : Prop :=
  wire_string (PacketChatMessage_message p)
  ∧ in_i 64 (PacketChatMessage_timestamp p)
  ∧ in_i 64 (PacketChatMessage_salt p)
  ∧ option_dom (blob_dom 256) (PacketChatMessage_signature p)
  ∧ in_i 32 (PacketChatMessage_offset p)
  ∧ blob_dom 3 (PacketChatMessage_acknowledged p).
Definition bytes_PacketChatMessage (p : PacketChatMessage) : list byte :=
  concat [string_bytes (PacketChatMessage_message p);
    be_bytes 8 (PacketChatMessage_timestamp p);
    be_bytes 8 (PacketChatMessage_salt p);
    option_bytes id (PacketChatMessage_signature p);
    varint_bytes (PacketChatMessage_offset p);
    id (PacketChatMessage_acknowledged p)].
#[export] Instance lawful_PacketChatMessage : LawfulCodec wire_PacketChatMessage dom_PacketChatMessage bytes_PacketChatMessage.
Proof. solve_struct. Qed.
#[export] Instance cost_PacketChatMessage : CodecCost dom_PacketChatMessage bytes_PacketChatMessage.
Proof. solve_head. Qed.

Record PacketWindowClickChangedSlotsItem : Type := mkPacketWindowClickChangedSlotsItem {
  PacketWindowClickChangedSlotsItem_location : Z;
  PacketWindowClickChangedSlotsItem_item : Slot;
}.
Definition wire_PacketWindowClickChangedSlotsItem : Codec PacketWindowClickChangedSlotsItem := {|
  encode p :=
    encode wire_i16 (PacketWindowClickChangedSlotsItem_location p) ;;;
    encode wire_Slot (PacketWindowClickChangedSlotsItem_item p) ;;;
    ret tt;
  decode :=
    let* location := decode wire_i16 in
    let* item := decode wire_Slot in
    ret (mkPacketWindowClickChangedSlotsItem location item);
|}.
Definition dom_PacketWindowClickChangedSlotsItem (p : PacketWindowClickChangedSlotsItem) : Prop :=
  in_i 16 (PacketWindowClickChangedSlotsItem_location p)
  ∧ dom_Slot (PacketWindowClickChangedSlotsItem_item p).
Definition bytes_PacketWindowClickChangedSlotsItem (p : PacketWindowClickChangedSlotsItem) : list byte :=
  concat [be_bytes 2 (PacketWindowClickChangedSlotsItem_location p);
    bytes_Slot (PacketWindowClickChangedSlotsItem_item p)].
#[export] Instance lawful_PacketWindowClickChangedSlotsItem : LawfulCodec wire_PacketWindowClickChangedSlotsItem dom_PacketWindowClickChangedSlotsItem bytes_PacketWindowClickChangedSlotsItem.
Proof. solve_struct. Qed.
#[export] Instance cost_PacketWindowClickChangedSlotsItem : CodecCost dom_PacketWindowClickChangedSlotsItem bytes_PacketWindowClickChangedSlotsItem.
Proof. solve_head. Qed.

Record PacketWindowClick : Type := mkPacketWindowClick {
  PacketWindowClick_window_id : Z;
  PacketWindowClick_state_id : Z;
  PacketWindowClick_slot : Z;
  PacketWindowClick_mouse_button : Z;
  PacketWindowClick_mode : Z;
  PacketWindowClick_changed_slots : list PacketWindowClickChangedSlotsItem;
  PacketWindowClick_cursor_item : Slot;
}.
Definition wire_PacketWindowClick : Codec PacketWindowClick := {|
  encode p :=
    modify (write_varint (PacketWindowClick_window_id p)) ;;;
    modify (write_varint (PacketWindowClick_state_id p)) ;;;
    encode wire_i16 (PacketWindowClick_slot p) ;;;
    encode wire_i8 (PacketWindowClick_mouse_button p) ;;;
    modify (write_varint (PacketWindowClick_mode p)) ;;;
    encode (wire_Vec wire_PacketWindowClickChangedSlotsItem) (PacketWindowClick_changed_slots p) ;;;
    encode wire_Slot (PacketWindowClick_cursor_item p) ;;;
    ret tt;
  decode :=
    let* window_id := read_varint in
    let* state_id := read_varint in
    let* slot := decode wire_i16 in
    let* mouse_button := decode wire_i8 in
    let* mode := read_varint in
    let* changed_slots := decode (wire_Vec wire_PacketWindowClickChangedSlotsItem) in
    let* cursor_item := decode wire_Slot in
    ret (mkPacketWindowClick window_id state_id slot mouse_button mode changed_slots cursor_item);
|}.
Definition dom_PacketWindowClick (p : PacketWindowClick) : Prop :=
  in_i 32 (PacketWindowClick_window_id p)
  ∧ in_i 32 (PacketWindowClick_state_id p)
  ∧ in_i 16 (PacketWindowClick_slot p)
  ∧ in_i 8 (PacketWindowClick_mouse_button p)
  ∧ in_i 32 (PacketWindowClick_mode p)
  ∧ vec_dom dom_PacketWindowClickChangedSlotsItem (PacketWindowClick_changed_slots p)
  ∧ dom_Slot (PacketWindowClick_cursor_item p).
Definition bytes_PacketWindowClick (p : PacketWindowClick) : list byte :=
  concat [varint_bytes (PacketWindowClick_window_id p);
    varint_bytes (PacketWindowClick_state_id p);
    be_bytes 2 (PacketWindowClick_slot p);
    be_bytes 1 (PacketWindowClick_mouse_button p);
    varint_bytes (PacketWindowClick_mode p);
    vec_bytes bytes_PacketWindowClickChangedSlotsItem (PacketWindowClick_changed_slots p);
    bytes_Slot (PacketWindowClick_cursor_item p)].
#[export] Instance lawful_PacketWindowClick : LawfulCodec wire_PacketWindowClick dom_PacketWindowClick bytes_PacketWindowClick.
Proof. solve_struct. Qed.
#[export] Instance cost_PacketWindowClick : CodecCost dom_PacketWindowClick bytes_PacketWindowClick.
Proof. solve_head. Qed.

Inductive PacketUseEntityX : Type :=
  | PacketUseEntityX_V2 (v : Z)
  | PacketUseEntityX_Default.
Definition encode_PacketUseEntityX (v : PacketUseEntityX) : Write :=
  match v with
  | PacketUseEntityX_V2 v => encode wire_f32 v
  | PacketUseEntityX_Default => ret tt
  end.
Definition decode_from_PacketUseEntityX (d : Z) : Read PacketUseEntityX :=
  if on d 2 then (let* v := decode wire_f32 in ret (PacketUseEntityX_V2 v))
  else ret PacketUseEntityX_Default.
Definition case_PacketUseEntityX (d : Z) (v : PacketUseEntityX) : bool :=
  match v with
  | PacketUseEntityX_V2 _ => on d 2
  | PacketUseEntityX_Default => negb (on d 2)
  end.
Definition switch_PacketUseEntityX : Switch Z PacketUseEntityX := mkSwitch case_PacketUseEntityX encode_PacketUseEntityX decode_from_PacketUseEntityX.
Definition dom_PacketUseEntityX (d : Z) (v : PacketUseEntityX) : Prop :=
  case_PacketUseEntityX d v = true ∧
  match v with
  | PacketUseEntityX_V2 v => in_u 32 v
  | _ => True
  end.
Definition bytes_PacketUseEntityX (v : PacketUseEntityX) : list byte :=
  match v with
  | PacketUseEntityX_V2 v => be_bytes 4 v
  | _ => []
  end.
#[export] Instance lawful_PacketUseEntityX : LawfulSwitch switch_PacketUseEntityX dom_PacketUseEntityX bytes_PacketUseEntityX.
Proof. solve_switch. Qed.

Inductive PacketUseEntityY : Type :=
  | PacketUseEntityY_V2 (v : Z)
  | PacketUseEntityY_Default.
Definition encode_PacketUseEntityY (v : PacketUseEntityY) : Write :=
  match v with
  | PacketUseEntityY_V2 v => encode wire_f32 v
  | PacketUseEntityY_Default => ret tt
  end.
Definition decode_from_PacketUseEntityY (d : Z) : Read PacketUseEntityY :=
  if on d 2 then (let* v := decode wire_f32 in ret (PacketUseEntityY_V2 v))
  else ret PacketUseEntityY_Default.
Definition case_PacketUseEntityY (d : Z) (v : PacketUseEntityY) : bool :=
  match v with
  | PacketUseEntityY_V2 _ => on d 2
  | PacketUseEntityY_Default => negb (on d 2)
  end.
Definition switch_PacketUseEntityY : Switch Z PacketUseEntityY := mkSwitch case_PacketUseEntityY encode_PacketUseEntityY decode_from_PacketUseEntityY.
Definition dom_PacketUseEntityY (d : Z) (v : PacketUseEntityY) : Prop :=
  case_PacketUseEntityY d v = true ∧
  match v with
  | PacketUseEntityY_V2 v => in_u 32 v
  | _ => True
  end.
Definition bytes_PacketUseEntityY (v : PacketUseEntityY) : list byte :=
  match v with
  | PacketUseEntityY_V2 v => be_bytes 4 v
  | _ => []
  end.
#[export] Instance lawful_PacketUseEntityY : LawfulSwitch switch_PacketUseEntityY dom_PacketUseEntityY bytes_PacketUseEntityY.
Proof. solve_switch. Qed.

Inductive PacketUseEntityZ : Type :=
  | PacketUseEntityZ_V2 (v : Z)
  | PacketUseEntityZ_Default.
Definition encode_PacketUseEntityZ (v : PacketUseEntityZ) : Write :=
  match v with
  | PacketUseEntityZ_V2 v => encode wire_f32 v
  | PacketUseEntityZ_Default => ret tt
  end.
Definition decode_from_PacketUseEntityZ (d : Z) : Read PacketUseEntityZ :=
  if on d 2 then (let* v := decode wire_f32 in ret (PacketUseEntityZ_V2 v))
  else ret PacketUseEntityZ_Default.
Definition case_PacketUseEntityZ (d : Z) (v : PacketUseEntityZ) : bool :=
  match v with
  | PacketUseEntityZ_V2 _ => on d 2
  | PacketUseEntityZ_Default => negb (on d 2)
  end.
Definition switch_PacketUseEntityZ : Switch Z PacketUseEntityZ := mkSwitch case_PacketUseEntityZ encode_PacketUseEntityZ decode_from_PacketUseEntityZ.
Definition dom_PacketUseEntityZ (d : Z) (v : PacketUseEntityZ) : Prop :=
  case_PacketUseEntityZ d v = true ∧
  match v with
  | PacketUseEntityZ_V2 v => in_u 32 v
  | _ => True
  end.
Definition bytes_PacketUseEntityZ (v : PacketUseEntityZ) : list byte :=
  match v with
  | PacketUseEntityZ_V2 v => be_bytes 4 v
  | _ => []
  end.
#[export] Instance lawful_PacketUseEntityZ : LawfulSwitch switch_PacketUseEntityZ dom_PacketUseEntityZ bytes_PacketUseEntityZ.
Proof. solve_switch. Qed.

Inductive PacketUseEntityHand : Type :=
  | PacketUseEntityHand_V0 (v : Z)
  | PacketUseEntityHand_V2 (v : Z)
  | PacketUseEntityHand_Default.
Definition encode_PacketUseEntityHand (v : PacketUseEntityHand) : Write :=
  match v with
  | PacketUseEntityHand_V0 v => encode wire_varint v
  | PacketUseEntityHand_V2 v => encode wire_varint v
  | PacketUseEntityHand_Default => ret tt
  end.
Definition decode_from_PacketUseEntityHand (d : Z) : Read PacketUseEntityHand :=
  if on d 0 then (let* v := decode wire_varint in ret (PacketUseEntityHand_V0 v))
  else if on d 2 then (let* v := decode wire_varint in ret (PacketUseEntityHand_V2 v))
  else ret PacketUseEntityHand_Default.
Definition case_PacketUseEntityHand (d : Z) (v : PacketUseEntityHand) : bool :=
  match v with
  | PacketUseEntityHand_V0 _ => on d 0
  | PacketUseEntityHand_V2 _ => on d 2
  | PacketUseEntityHand_Default => negb (on d 0) && negb (on d 2)
  end.
Definition switch_PacketUseEntityHand : Switch Z PacketUseEntityHand := mkSwitch case_PacketUseEntityHand encode_PacketUseEntityHand decode_from_PacketUseEntityHand.
Definition dom_PacketUseEntityHand (d : Z) (v : PacketUseEntityHand) : Prop :=
  case_PacketUseEntityHand d v = true ∧
  match v with
  | PacketUseEntityHand_V0 v => in_i 32 v
  | PacketUseEntityHand_V2 v => in_i 32 v
  | _ => True
  end.
Definition bytes_PacketUseEntityHand (v : PacketUseEntityHand) : list byte :=
  match v with
  | PacketUseEntityHand_V0 v => varint_bytes v
  | PacketUseEntityHand_V2 v => varint_bytes v
  | _ => []
  end.
#[export] Instance lawful_PacketUseEntityHand : LawfulSwitch switch_PacketUseEntityHand dom_PacketUseEntityHand bytes_PacketUseEntityHand.
Proof. solve_switch. Qed.

Record PacketUseEntity : Type := mkPacketUseEntity {
  PacketUseEntity_target : Z;
  PacketUseEntity_mouse : Z;
  PacketUseEntity_x : PacketUseEntityX;
  PacketUseEntity_y : PacketUseEntityY;
  PacketUseEntity_z : PacketUseEntityZ;
  PacketUseEntity_hand : PacketUseEntityHand;
  PacketUseEntity_sneaking : bool;
}.
Definition wire_PacketUseEntity : Codec PacketUseEntity := {|
  encode p :=
    modify (write_varint (PacketUseEntity_target p)) ;;;
    modify (write_varint (PacketUseEntity_mouse p)) ;;;
    encode_at switch_PacketUseEntityX (PacketUseEntity_mouse p) (PacketUseEntity_x p) ;;;
    encode_at switch_PacketUseEntityY (PacketUseEntity_mouse p) (PacketUseEntity_y p) ;;;
    encode_at switch_PacketUseEntityZ (PacketUseEntity_mouse p) (PacketUseEntity_z p) ;;;
    encode_at switch_PacketUseEntityHand (PacketUseEntity_mouse p) (PacketUseEntity_hand p) ;;;
    encode wire_bool (PacketUseEntity_sneaking p) ;;;
    ret tt;
  decode :=
    let* target := read_varint in
    let* mouse := read_varint in
    let* x := sw_decode switch_PacketUseEntityX mouse in
    let* y := sw_decode switch_PacketUseEntityY mouse in
    let* z := sw_decode switch_PacketUseEntityZ mouse in
    let* hand := sw_decode switch_PacketUseEntityHand mouse in
    let* sneaking := decode wire_bool in
    ret (mkPacketUseEntity target mouse x y z hand sneaking);
|}.
Definition dom_PacketUseEntity (p : PacketUseEntity) : Prop :=
  in_i 32 (PacketUseEntity_target p)
  ∧ in_i 32 (PacketUseEntity_mouse p)
  ∧ dom_PacketUseEntityX (PacketUseEntity_mouse p) (PacketUseEntity_x p)
  ∧ dom_PacketUseEntityY (PacketUseEntity_mouse p) (PacketUseEntity_y p)
  ∧ dom_PacketUseEntityZ (PacketUseEntity_mouse p) (PacketUseEntity_z p)
  ∧ dom_PacketUseEntityHand (PacketUseEntity_mouse p) (PacketUseEntity_hand p).
Definition bytes_PacketUseEntity (p : PacketUseEntity) : list byte :=
  concat [varint_bytes (PacketUseEntity_target p);
    varint_bytes (PacketUseEntity_mouse p);
    bytes_PacketUseEntityX (PacketUseEntity_x p);
    bytes_PacketUseEntityY (PacketUseEntity_y p);
    bytes_PacketUseEntityZ (PacketUseEntity_z p);
    bytes_PacketUseEntityHand (PacketUseEntity_hand p);
    bool_bytes (PacketUseEntity_sneaking p)].
#[export] Instance lawful_PacketUseEntity : LawfulCodec wire_PacketUseEntity dom_PacketUseEntity bytes_PacketUseEntity.
Proof. solve_struct. Qed.
#[export] Instance cost_PacketUseEntity : CodecCost dom_PacketUseEntity bytes_PacketUseEntity.
Proof. solve_head. Qed.

Inductive PacketAdvancementTabTabId : Type :=
  | PacketAdvancementTabTabId_V0 (v : string)
  | PacketAdvancementTabTabId_V1
  | PacketAdvancementTabTabId_None.
Definition encode_PacketAdvancementTabTabId (v : PacketAdvancementTabTabId) : Write :=
  match v with
  | PacketAdvancementTabTabId_V0 v => encode wire_String v
  | PacketAdvancementTabTabId_V1 => ret tt
  | PacketAdvancementTabTabId_None => ret tt
  end.
Definition decode_from_PacketAdvancementTabTabId (d : Z) : Read PacketAdvancementTabTabId :=
  if on d 0 then (let* v := decode wire_String in ret (PacketAdvancementTabTabId_V0 v))
  else if on d 1 then ret PacketAdvancementTabTabId_V1
  else ret PacketAdvancementTabTabId_None.
Definition case_PacketAdvancementTabTabId (d : Z) (v : PacketAdvancementTabTabId) : bool :=
  match v with
  | PacketAdvancementTabTabId_V0 _ => on d 0
  | PacketAdvancementTabTabId_V1 => on d 1
  | PacketAdvancementTabTabId_None => negb (on d 0) && negb (on d 1)
  end.
Definition switch_PacketAdvancementTabTabId : Switch Z PacketAdvancementTabTabId := mkSwitch case_PacketAdvancementTabTabId encode_PacketAdvancementTabTabId decode_from_PacketAdvancementTabTabId.
Definition dom_PacketAdvancementTabTabId (d : Z) (v : PacketAdvancementTabTabId) : Prop :=
  case_PacketAdvancementTabTabId d v = true ∧
  match v with
  | PacketAdvancementTabTabId_V0 v => wire_string v
  | _ => True
  end.
Definition bytes_PacketAdvancementTabTabId (v : PacketAdvancementTabTabId) : list byte :=
  match v with
  | PacketAdvancementTabTabId_V0 v => string_bytes v
  | _ => []
  end.
#[export] Instance lawful_PacketAdvancementTabTabId : LawfulSwitch switch_PacketAdvancementTabTabId dom_PacketAdvancementTabTabId bytes_PacketAdvancementTabTabId.
Proof. solve_switch. Qed.

Record PacketAdvancementTab : Type := mkPacketAdvancementTab {
  PacketAdvancementTab_action : Z;
  PacketAdvancementTab_tab_id : PacketAdvancementTabTabId;
}.
Definition wire_PacketAdvancementTab : Codec PacketAdvancementTab := {|
  encode p :=
    modify (write_varint (PacketAdvancementTab_action p)) ;;;
    encode_at switch_PacketAdvancementTabTabId (PacketAdvancementTab_action p) (PacketAdvancementTab_tab_id p) ;;;
    ret tt;
  decode :=
    let* action := read_varint in
    let* tab_id := sw_decode switch_PacketAdvancementTabTabId action in
    ret (mkPacketAdvancementTab action tab_id);
|}.
Definition dom_PacketAdvancementTab (p : PacketAdvancementTab) : Prop :=
  in_i 32 (PacketAdvancementTab_action p)
  ∧ dom_PacketAdvancementTabTabId (PacketAdvancementTab_action p) (PacketAdvancementTab_tab_id p).
Definition bytes_PacketAdvancementTab (p : PacketAdvancementTab) : list byte :=
  concat [varint_bytes (PacketAdvancementTab_action p);
    bytes_PacketAdvancementTabTabId (PacketAdvancementTab_tab_id p)].
#[export] Instance lawful_PacketAdvancementTab : LawfulCodec wire_PacketAdvancementTab dom_PacketAdvancementTab bytes_PacketAdvancementTab.
Proof. solve_struct. Qed.
#[export] Instance cost_PacketAdvancementTab : CodecCost dom_PacketAdvancementTab bytes_PacketAdvancementTab.
Proof. solve_head. Qed.

Record PacketSetCreativeSlot : Type := mkPacketSetCreativeSlot {
  PacketSetCreativeSlot_slot : Z;
  PacketSetCreativeSlot_item : Slot;
}.
Definition wire_PacketSetCreativeSlot : Codec PacketSetCreativeSlot := {|
  encode p :=
    encode wire_i16 (PacketSetCreativeSlot_slot p) ;;;
    encode wire_Slot (PacketSetCreativeSlot_item p) ;;;
    ret tt;
  decode :=
    let* slot := decode wire_i16 in
    let* item := decode wire_Slot in
    ret (mkPacketSetCreativeSlot slot item);
|}.
Definition dom_PacketSetCreativeSlot (p : PacketSetCreativeSlot) : Prop :=
  in_i 16 (PacketSetCreativeSlot_slot p)
  ∧ dom_Slot (PacketSetCreativeSlot_item p).
Definition bytes_PacketSetCreativeSlot (p : PacketSetCreativeSlot) : list byte :=
  concat [be_bytes 2 (PacketSetCreativeSlot_slot p);
    bytes_Slot (PacketSetCreativeSlot_item p)].
#[export] Instance lawful_PacketSetCreativeSlot : LawfulCodec wire_PacketSetCreativeSlot dom_PacketSetCreativeSlot bytes_PacketSetCreativeSlot.
Proof. solve_struct. Qed.
#[export] Instance cost_PacketSetCreativeSlot : CodecCost dom_PacketSetCreativeSlot bytes_PacketSetCreativeSlot.
Proof. solve_head. Qed.
