(* ===== verification/PacketTable.v ===== *)
(** * The packet tables

    [ClientboundPlayPacket] and [ServerboundPlayPacket] of
    [generated/v1_21_4/play.rs]: for every packet but the two custom payloads
    (whose data is whatever is left of the packet), its id, the name trailing
    bytes are reported under and its codec. *)

From S2P Require Import Prelude Machine Reader Varint Utf8 Buffer Wire Nbt PacketTypes Switch ItemTypes Items EntityData CommandNodes Displays PlayPackets PlayPacketsOut PlayPacketsSwitch PlayPacketsSwitchOut.

Local Open Scope Z_scope.

(** One arm of [id], [decode] and [encode]: a packet with its payload type
    and the payloads the format can carry. *)
Record PacketEntry : Type := mkEntry {
  entry_id : Z;
  entry_context : string;
  entry_payload : Type;
  entry_codec : Codec entry_payload;
  entry_dom : entry_payload → Prop;
}.
Arguments mkEntry entry_id entry_context {entry_payload} entry_codec entry_dom.

(** [Encode for ...Packet]: the id, then the payload. *)
Definition packet_encode (e : PacketEntry) (payload : entry_payload e) : Write :=
  modify (write_varint (entry_id e)) ;;;
  encode (entry_codec e) payload.

(** The arm of [decode] for this id. *)
Definition packet_decode (e : PacketEntry) : Read (entry_payload e) :=
  let* payload := decode (entry_codec e) in
  ensure_consumed (entry_context e) ;;;
  ret payload.

Definition clientbound : list PacketEntry :=
  [mkEntry 0 "clientbound play bundle_delimiter" wire_unit any_value;
   mkEntry 1 "clientbound play spawn_entity" wire_PacketSpawnEntity dom_PacketSpawnEntity;
   mkEntry 2 "clientbound play spawn_entity_experience_orb" wire_PacketSpawnEntityExperienceOrb dom_PacketSpawnEntityExperienceOrb;
   mkEntry 3 "clientbound play animation" wire_PacketAnimation dom_PacketAnimation;
   mkEntry 4 "clientbound play statistics" wire_PacketStatistics dom_PacketStatistics;
   mkEntry 5 "clientbound play acknowledge_player_digging" wire_PacketAcknowledgePlayerDigging dom_PacketAcknowledgePlayerDigging;
   mkEntry 6 "clientbound play block_break_animation" wire_PacketBlockBreakAnimation dom_PacketBlockBreakAnimation;
   mkEntry 7 "clientbound play tile_entity_data" wire_PacketTileEntityData dom_PacketTileEntityData;
   mkEntry 8 "clientbound play block_action" wire_PacketBlockAction dom_PacketBlockAction;
   mkEntry 9 "clientbound play block_change" wire_PacketBlockChange dom_PacketBlockChange;
   mkEntry 10 "clientbound play boss_bar" wire_PacketBossBar dom_PacketBossBar;
   mkEntry 11 "clientbound play difficulty" wire_PacketDifficulty dom_PacketDifficulty;
   mkEntry 12 "clientbound play chunk_batch_finished" wire_PacketChunkBatchFinished dom_PacketChunkBatchFinished;
   mkEntry 13 "clientbound play chunk_batch_start" wire_unit any_value;
   mkEntry 14 "clientbound play chunk_biomes" wire_PacketChunkBiomes dom_PacketChunkBiomes;
   mkEntry 15 "clientbound play clear_titles" wire_PacketClearTitles dom_PacketClearTitles;
   mkEntry 16 "clientbound play tab_complete" wire_PacketTabComplete dom_PacketTabComplete;
   mkEntry 17 "clientbound play declare_commands" wire_PacketDeclareCommands dom_PacketDeclareCommands;
   mkEntry 18 "clientbound play close_window" wire_PacketCloseWindow dom_PacketCloseWindow;
   mkEntry 19 "clientbound play window_items" wire_PacketWindowItems dom_PacketWindowItems;
   mkEntry 20 "clientbound play craft_progress_bar" wire_PacketCraftProgressBar dom_PacketCraftProgressBar;
   mkEntry 21 "clientbound play set_slot" wire_PacketSetSlot dom_PacketSetSlot;
   mkEntry 22 "clientbound play cookie_request" wire_PacketCommonCookieRequest dom_PacketCommonCookieRequest;
   mkEntry 23 "clientbound play set_cooldown" wire_PacketSetCooldown dom_PacketSetCooldown;
   mkEntry 24 "clientbound play chat_suggestions" wire_PacketChatSuggestions dom_PacketChatSuggestions;
   mkEntry 26 "clientbound play damage_event" wire_PacketDamageEvent dom_PacketDamageEvent;
   mkEntry 27 "clientbound play debug_sample" wire_PacketDebugSample dom_PacketDebugSample;
   mkEntry 28 "clientbound play hide_message" wire_PacketHideMessage dom_PacketHideMessage;
   mkEntry 29 "clientbound play kick_disconnect" wire_PacketKickDisconnect dom_PacketKickDisconnect;
   mkEntry 30 "clientbound play profileless_chat" wire_PacketProfilelessChat dom_PacketProfilelessChat;
   mkEntry 31 "clientbound play entity_status" wire_PacketEntityStatus dom_PacketEntityStatus;
   mkEntry 32 "clientbound play sync_entity_position" wire_PacketSyncEntityPosition dom_PacketSyncEntityPosition;
   mkEntry 33 "clientbound play explosion" wire_PacketExplosion dom_PacketExplosion;
   mkEntry 34 "clientbound play unload_chunk" wire_PacketUnloadChunk dom_PacketUnloadChunk;
   mkEntry 35 "clientbound play game_state_change" wire_PacketGameStateChange dom_PacketGameStateChange;
   mkEntry 36 "clientbound play open_horse_window" wire_PacketOpenHorseWindow dom_PacketOpenHorseWindow;
   mkEntry 37 "clientbound play hurt_animation" wire_PacketHurtAnimation dom_PacketHurtAnimation;
   mkEntry 38 "clientbound play initialize_world_border" wire_PacketInitializeWorldBorder dom_PacketInitializeWorldBorder;
   mkEntry 39 "clientbound play keep_alive" wire_PacketKeepAlive dom_PacketKeepAlive;
   mkEntry 40 "clientbound play map_chunk" wire_PacketMapChunk dom_PacketMapChunk;
   mkEntry 41 "clientbound play world_event" wire_PacketWorldEvent dom_PacketWorldEvent;
   mkEntry 42 "clientbound play world_particles" wire_PacketWorldParticles dom_PacketWorldParticles;
   mkEntry 43 "clientbound play update_light" wire_PacketUpdateLight dom_PacketUpdateLight;
   mkEntry 44 "clientbound play login" wire_PacketLogin dom_PacketLogin;
   mkEntry 45 "clientbound play map" wire_PacketMap dom_PacketMap;
   mkEntry 46 "clientbound play trade_list" wire_PacketTradeList dom_PacketTradeList;
   mkEntry 47 "clientbound play rel_entity_move" wire_PacketRelEntityMove dom_PacketRelEntityMove;
   mkEntry 48 "clientbound play entity_move_look" wire_PacketEntityMoveLook dom_PacketEntityMoveLook;
   mkEntry 49 "clientbound play move_minecart" wire_PacketMoveMinecart dom_PacketMoveMinecart;
   mkEntry 50 "clientbound play entity_look" wire_PacketEntityLook dom_PacketEntityLook;
   mkEntry 51 "clientbound play vehicle_move" wire_PacketVehicleMove dom_PacketVehicleMove;
   mkEntry 52 "clientbound play open_book" wire_PacketOpenBook dom_PacketOpenBook;
   mkEntry 53 "clientbound play open_window" wire_PacketOpenWindow dom_PacketOpenWindow;
   mkEntry 54 "clientbound play open_sign_entity" wire_PacketOpenSignEntity dom_PacketOpenSignEntity;
   mkEntry 55 "clientbound play ping" wire_PacketPing dom_PacketPing;
   mkEntry 56 "clientbound play ping_response" wire_PacketPingResponse dom_PacketPingResponse;
   mkEntry 57 "clientbound play craft_recipe_response" wire_PacketCraftRecipeResponse dom_PacketCraftRecipeResponse;
   mkEntry 58 "clientbound play abilities" wire_PacketAbilities dom_PacketAbilities;
   mkEntry 59 "clientbound play player_chat" wire_PacketPlayerChat dom_PacketPlayerChat;
   mkEntry 60 "clientbound play end_combat_event" wire_PacketEndCombatEvent dom_PacketEndCombatEvent;
   mkEntry 61 "clientbound play enter_combat_event" wire_unit any_value;
   mkEntry 62 "clientbound play death_combat_event" wire_PacketDeathCombatEvent dom_PacketDeathCombatEvent;
   mkEntry 63 "clientbound play player_remove" wire_PacketPlayerRemove dom_PacketPlayerRemove;
   mkEntry 64 "clientbound play player_info" wire_PacketPlayerInfo dom_PacketPlayerInfo;
   mkEntry 65 "clientbound play face_player" wire_PacketFacePlayer dom_PacketFacePlayer;
   mkEntry 66 "clientbound play position" wire_PacketPosition dom_PacketPosition;
   mkEntry 67 "clientbound play player_rotation" wire_PacketPlayerRotation dom_PacketPlayerRotation;
   mkEntry 68 "clientbound play recipe_book_add" wire_PacketRecipeBookAdd dom_PacketRecipeBookAdd;
   mkEntry 69 "clientbound play recipe_book_remove" wire_PacketRecipeBookRemove dom_PacketRecipeBookRemove;
   mkEntry 70 "clientbound play recipe_book_settings" wire_PacketRecipeBookSettings dom_PacketRecipeBookSettings;
   mkEntry 71 "clientbound play entity_destroy" wire_PacketEntityDestroy dom_PacketEntityDestroy;
   mkEntry 72 "clientbound play remove_entity_effect" wire_PacketRemoveEntityEffect dom_PacketRemoveEntityEffect;
   mkEntry 73 "clientbound play reset_score" wire_PacketResetScore dom_PacketResetScore;
   mkEntry 74 "clientbound play remove_resource_pack" wire_PacketCommonRemoveResourcePack dom_PacketCommonRemoveResourcePack;
   mkEntry 75 "clientbound play add_resource_pack" wire_PacketCommonAddResourcePack dom_PacketCommonAddResourcePack;
   mkEntry 76 "clientbound play respawn" wire_PacketRespawn dom_PacketRespawn;
   mkEntry 77 "clientbound play entity_head_rotation" wire_PacketEntityHeadRotation dom_PacketEntityHeadRotation;
   mkEntry 78 "clientbound play multi_block_change" wire_PacketMultiBlockChange dom_PacketMultiBlockChange;
   mkEntry 79 "clientbound play select_advancement_tab" wire_PacketSelectAdvancementTab dom_PacketSelectAdvancementTab;
   mkEntry 80 "clientbound play server_data" wire_PacketServerData dom_PacketServerData;
   mkEntry 81 "clientbound play action_bar" wire_PacketActionBar dom_PacketActionBar;
   mkEntry 82 "clientbound play world_border_center" wire_PacketWorldBorderCenter dom_PacketWorldBorderCenter;
   mkEntry 83 "clientbound play world_border_lerp_size" wire_PacketWorldBorderLerpSize dom_PacketWorldBorderLerpSize;
   mkEntry 84 "clientbound play world_border_size" wire_PacketWorldBorderSize dom_PacketWorldBorderSize;
   mkEntry 85 "clientbound play world_border_warning_delay" wire_PacketWorldBorderWarningDelay dom_PacketWorldBorderWarningDelay;
   mkEntry 86 "clientbound play world_border_warning_reach" wire_PacketWorldBorderWarningReach dom_PacketWorldBorderWarningReach;
   mkEntry 87 "clientbound play camera" wire_PacketCamera dom_PacketCamera;
   mkEntry 88 "clientbound play update_view_position" wire_PacketUpdateViewPosition dom_PacketUpdateViewPosition;
   mkEntry 89 "clientbound play update_view_distance" wire_PacketUpdateViewDistance dom_PacketUpdateViewDistance;
   mkEntry 90 "clientbound play set_cursor_item" wire_PacketSetCursorItem dom_PacketSetCursorItem;
   mkEntry 91 "clientbound play spawn_position" wire_PacketSpawnPosition dom_PacketSpawnPosition;
   mkEntry 92 "clientbound play scoreboard_display_objective" wire_PacketScoreboardDisplayObjective dom_PacketScoreboardDisplayObjective;
   mkEntry 93 "clientbound play entity_metadata" wire_PacketEntityMetadata dom_PacketEntityMetadata;
   mkEntry 94 "clientbound play attach_entity" wire_PacketAttachEntity dom_PacketAttachEntity;
   mkEntry 95 "clientbound play entity_velocity" wire_PacketEntityVelocity dom_PacketEntityVelocity;
   mkEntry 96 "clientbound play entity_equipment" wire_PacketEntityEquipment dom_PacketEntityEquipment;
   mkEntry 97 "clientbound play experience" wire_PacketExperience dom_PacketExperience;
   mkEntry 98 "clientbound play update_health" wire_PacketUpdateHealth dom_PacketUpdateHealth;
   mkEntry 99 "clientbound play held_item_slot" wire_PacketHeldItemSlot dom_PacketHeldItemSlot;
   mkEntry 100 "clientbound play scoreboard_objective" wire_PacketScoreboardObjective dom_PacketScoreboardObjective;
   mkEntry 101 "clientbound play set_passengers" wire_PacketSetPassengers dom_PacketSetPassengers;
   mkEntry 102 "clientbound play set_player_inventory" wire_PacketSetPlayerInventory dom_PacketSetPlayerInventory;
   mkEntry 103 "clientbound play teams" wire_PacketTeams dom_PacketTeams;
   mkEntry 104 "clientbound play scoreboard_score" wire_PacketScoreboardScore dom_PacketScoreboardScore;
   mkEntry 105 "clientbound play simulation_distance" wire_PacketSimulationDistance dom_PacketSimulationDistance;
   mkEntry 106 "clientbound play set_title_subtitle" wire_PacketSetTitleSubtitle dom_PacketSetTitleSubtitle;
   mkEntry 107 "clientbound play update_time" wire_PacketUpdateTime dom_PacketUpdateTime;
   mkEntry 108 "clientbound play set_title_text" wire_PacketSetTitleText dom_PacketSetTitleText;
   mkEntry 109 "clientbound play set_title_time" wire_PacketSetTitleTime dom_PacketSetTitleTime;
   mkEntry 110 "clientbound play entity_sound_effect" wire_PacketEntitySoundEffect dom_PacketEntitySoundEffect;
   mkEntry 111 "clientbound play sound_effect" wire_PacketSoundEffect dom_PacketSoundEffect;
   mkEntry 112 "clientbound play start_configuration" wire_unit any_value;
   mkEntry 113 "clientbound play stop_sound" wire_PacketStopSound dom_PacketStopSound;
   mkEntry 114 "clientbound play store_cookie" wire_PacketCommonStoreCookie dom_PacketCommonStoreCookie;
   mkEntry 115 "clientbound play system_chat" wire_PacketSystemChat dom_PacketSystemChat;
   mkEntry 116 "clientbound play playerlist_header" wire_PacketPlayerlistHeader dom_PacketPlayerlistHeader;
   mkEntry 117 "clientbound play nbt_query_response" wire_PacketNbtQueryResponse dom_PacketNbtQueryResponse;
   mkEntry 118 "clientbound play collect" wire_PacketCollect dom_PacketCollect;
   mkEntry 119 "clientbound play entity_teleport" wire_PacketEntityTeleport dom_PacketEntityTeleport;
   mkEntry 120 "clientbound play set_ticking_state" wire_PacketSetTickingState dom_PacketSetTickingState;
   mkEntry 121 "clientbound play step_tick" wire_PacketStepTick dom_PacketStepTick;
   mkEntry 122 "clientbound play transfer" wire_PacketCommonTransfer dom_PacketCommonTransfer;
   mkEntry 123 "clientbound play advancements" wire_PacketAdvancements dom_PacketAdvancements;
   mkEntry 124 "clientbound play entity_update_attributes" wire_PacketEntityUpdateAttributes dom_PacketEntityUpdateAttributes;
   mkEntry 125 "clientbound play entity_effect" wire_PacketEntityEffect dom_PacketEntityEffect;
   mkEntry 126 "clientbound play declare_recipes" wire_PacketDeclareRecipes dom_PacketDeclareRecipes;
   mkEntry 127 "clientbound play tags" wire_PacketTags dom_PacketTags;
   mkEntry 128 "clientbound play set_projectile_power" wire_PacketSetProjectilePower dom_PacketSetProjectilePower;
   mkEntry 129 "clientbound play custom_report_details" wire_PacketCommonCustomReportDetails dom_PacketCommonCustomReportDetails;
   mkEntry 130 "clientbound play server_links" wire_PacketCommonServerLinks dom_PacketCommonServerLinks].

Definition serverbound : list PacketEntry :=
  [mkEntry 0 "serverbound play teleport_confirm" wire_PacketTeleportConfirm dom_PacketTeleportConfirm;
   mkEntry 1 "serverbound play query_block_nbt" wire_PacketQueryBlockNbt dom_PacketQueryBlockNbt;
   mkEntry 2 "serverbound play select_bundle_item" wire_PacketSelectBundleItem dom_PacketSelectBundleItem;
   mkEntry 3 "serverbound play set_difficulty" wire_PacketSetDifficulty dom_PacketSetDifficulty;
   mkEntry 4 "serverbound play message_acknowledgement" wire_PacketMessageAcknowledgement dom_PacketMessageAcknowledgement;
   mkEntry 5 "serverbound play chat_command" wire_PacketChatCommand dom_PacketChatCommand;
   mkEntry 6 "serverbound play chat_command_signed" wire_PacketChatCommandSigned dom_PacketChatCommandSigned;
   mkEntry 7 "serverbound play chat_message" wire_PacketChatMessage dom_PacketChatMessage;
   mkEntry 8 "serverbound play chat_session_update" wire_PacketChatSessionUpdate dom_PacketChatSessionUpdate;
   mkEntry 9 "serverbound play chunk_batch_received" wire_PacketChunkBatchReceived dom_PacketChunkBatchReceived;
   mkEntry 10 "serverbound play client_command" wire_PacketClientCommand dom_PacketClientCommand;
   mkEntry 11 "serverbound play tick_end" wire_unit any_value;
   mkEntry 12 "serverbound play settings" wire_PacketCommonSettings dom_PacketCommonSettings;
   mkEntry 13 "serverbound play tab_complete" wire_PacketTabCompleteServerbound dom_PacketTabCompleteServerbound;
   mkEntry 14 "serverbound play configuration_acknowledged" wire_unit any_value;
   mkEntry 15 "serverbound play enchant_item" wire_PacketEnchantItem dom_PacketEnchantItem;
   mkEntry 16 "serverbound play window_click" wire_PacketWindowClick dom_PacketWindowClick;
   mkEntry 17 "serverbound play close_window" wire_PacketCloseWindow dom_PacketCloseWindow;
   mkEntry 18 "serverbound play set_slot_state" wire_PacketSetSlotState dom_PacketSetSlotState;
   mkEntry 19 "serverbound play cookie_response" wire_PacketCommonCookieResponse dom_PacketCommonCookieResponse;
   mkEntry 21 "serverbound play debug_sample_subscription" wire_PacketDebugSampleSubscription dom_PacketDebugSampleSubscription;
   mkEntry 22 "serverbound play edit_book" wire_PacketEditBook dom_PacketEditBook;
   mkEntry 23 "serverbound play query_entity_nbt" wire_PacketQueryEntityNbt dom_PacketQueryEntityNbt;
   mkEntry 24 "serverbound play use_entity" wire_PacketUseEntity dom_PacketUseEntity;
   mkEntry 25 "serverbound play generate_structure" wire_PacketGenerateStructure dom_PacketGenerateStructure;
   mkEntry 26 "serverbound play keep_alive" wire_PacketKeepAlive dom_PacketKeepAlive;
   mkEntry 27 "serverbound play lock_difficulty" wire_PacketLockDifficulty dom_PacketLockDifficulty;
   mkEntry 28 "serverbound play position" wire_PacketPositionServerbound dom_PacketPositionServerbound;
   mkEntry 29 "serverbound play position_look" wire_PacketPositionLook dom_PacketPositionLook;
   mkEntry 30 "serverbound play look" wire_PacketLook dom_PacketLook;
   mkEntry 31 "serverbound play flying" wire_PacketFlying dom_PacketFlying;
   mkEntry 32 "serverbound play vehicle_move" wire_PacketVehicleMoveServerbound dom_PacketVehicleMoveServerbound;
   mkEntry 33 "serverbound play steer_boat" wire_PacketSteerBoat dom_PacketSteerBoat;
   mkEntry 34 "serverbound play pick_item_from_block" wire_PacketPickItemFromBlock dom_PacketPickItemFromBlock;
   mkEntry 35 "serverbound play pick_item_from_entity" wire_PacketPickItemFromEntity dom_PacketPickItemFromEntity;
   mkEntry 36 "serverbound play ping_request" wire_PacketPingRequest dom_PacketPingRequest;
   mkEntry 37 "serverbound play craft_recipe_request" wire_PacketCraftRecipeRequest dom_PacketCraftRecipeRequest;
   mkEntry 38 "serverbound play abilities" wire_PacketAbilitiesServerbound dom_PacketAbilitiesServerbound;
   mkEntry 39 "serverbound play block_dig" wire_PacketBlockDig dom_PacketBlockDig;
   mkEntry 40 "serverbound play entity_action" wire_PacketEntityAction dom_PacketEntityAction;
   mkEntry 41 "serverbound play player_input" wire_PacketPlayerInput dom_PacketPlayerInput;
   mkEntry 42 "serverbound play player_loaded" wire_unit any_value;
   mkEntry 43 "serverbound play pong" wire_PacketPong dom_PacketPong;
   mkEntry 44 "serverbound play recipe_book" wire_PacketRecipeBook dom_PacketRecipeBook;
   mkEntry 45 "serverbound play displayed_recipe" wire_PacketDisplayedRecipe dom_PacketDisplayedRecipe;
   mkEntry 46 "serverbound play name_item" wire_PacketNameItem dom_PacketNameItem;
   mkEntry 47 "serverbound play resource_pack_receive" wire_PacketResourcePackReceive dom_PacketResourcePackReceive;
   mkEntry 48 "serverbound play advancement_tab" wire_PacketAdvancementTab dom_PacketAdvancementTab;
   mkEntry 49 "serverbound play select_trade" wire_PacketSelectTrade dom_PacketSelectTrade;
   mkEntry 50 "serverbound play set_beacon_effect" wire_PacketSetBeaconEffect dom_PacketSetBeaconEffect;
   mkEntry 51 "serverbound play held_item_slot" wire_PacketHeldItemSlotServerbound dom_PacketHeldItemSlotServerbound;
   mkEntry 52 "serverbound play update_command_block" wire_PacketUpdateCommandBlock dom_PacketUpdateCommandBlock;
   mkEntry 53 "serverbound play update_command_block_minecart" wire_PacketUpdateCommandBlockMinecart dom_PacketUpdateCommandBlockMinecart;
   mkEntry 54 "serverbound play set_creative_slot" wire_PacketSetCreativeSlot dom_PacketSetCreativeSlot;
   mkEntry 55 "serverbound play update_jigsaw_block" wire_PacketUpdateJigsawBlock dom_PacketUpdateJigsawBlock;
   mkEntry 56 "serverbound play update_structure_block" wire_PacketUpdateStructureBlock dom_PacketUpdateStructureBlock;
   mkEntry 57 "serverbound play update_sign" wire_PacketUpdateSign dom_PacketUpdateSign;
   mkEntry 58 "serverbound play arm_animation" wire_PacketArmAnimation dom_PacketArmAnimation;
   mkEntry 59 "serverbound play spectate" wire_PacketSpectate dom_PacketSpectate;
   mkEntry 60 "serverbound play block_place" wire_PacketBlockPlace dom_PacketBlockPlace;
   mkEntry 61 "serverbound play use_item" wire_PacketUseItem dom_PacketUseItem].

(** The arm an id selects. *)
Definition entry_for (table : list PacketEntry) (id : Z) : option PacketEntry :=
  List.find (λ e, entry_id e =? id) table.

(** A packet with a payload the format can carry, written and read back: the
    id selects its arm, the arm returns the payload and nothing is left; with
    bytes after it, the arm reports them. *)
Definition entry_roundtrips (table : list PacketEntry) (e : PacketEntry) : Prop :=
  ∀ payload, entry_dom e payload →
  ∃ bs, packet_encode e payload new_writer = (Ok tt, mkWriter bs)
  ∧ ∀ suf, ∃ r, read_varint (new_reader (bs ++ suf)) = (Ok (entry_id e), r)
    ∧ entry_for table (entry_id e) = Some e
    ∧ (packet_decode e r).1
      = if bool_decide (suf = []) then Ok payload
        else Err (TrailingBytes (entry_context e) (Z.of_nat (length suf))).

Lemma entry_roundtrips_intro table id ctx {T} (c : Codec T) dom enc `{!LawfulCodec c dom enc} :
  in_i 32 id → entry_for table id = Some (mkEntry id ctx c dom) → entry_roundtrips table (mkEntry id ctx c dom).
Proof.
  intros Hid Hfor payload Hp. exists (varint_bytes id ++ enc payload). cbn in Hp. split.
  { unfold packet_encode. cbn [entry_id entry_codec]. rewrite (bind_Ok _ _ _ tt (write_varint id new_writer)) by done.
    rewrite (codec_writes (c := c) payload Hp). done. }
  intros suf. set (r0 := new_reader ((varint_bytes id ++ enc payload) ++ suf)).
  assert (rest r0 = varint_bytes id ++ (enc payload ++ suf)) as Hr0.
  { unfold r0, new_reader, rest. simpl. by rewrite <- app_assoc. }
  exists (advance r0 (length (varint_bytes id))).
  split_and!; [exact (reads_varint id Hid r0 _ Hr0)|done|].
  set (r1 := advance r0 (length (varint_bytes id))).
  assert (rest r1 = enc payload ++ suf) as Hr1 by (unfold r1; by rewrite rest_advance, Hr0, drop_app_exact).
  unfold packet_decode. cbn [entry_codec entry_context].
  rewrite (bind_Ok _ _ _ _ _ (codec_reads (c := c) payload Hp r1 suf Hr1)).
  set (r2 := advance r1 (length (enc payload))).
  assert (rest r2 = suf) as Hr2 by (unfold r2; by rewrite rest_advance, Hr1, drop_app_exact).
  assert (remaining r2 = length suf) as Hrem by (by rewrite <- length_rest, Hr2).
  unfold ensure_consumed, is_empty, bind. rewrite Hrem. destruct suf as [|x suf]; done.
Qed.

Ltac solve_table :=
  repeat (apply List.Forall_cons; [eapply entry_roundtrips_intro; [apply _|by vm_compute|reflexivity]|]); apply List.Forall_nil.

Lemma clientbound_roundtrips : List.Forall (entry_roundtrips clientbound) clientbound.
Proof. set (t := clientbound) at 1. unfold clientbound. solve_table. Qed.

Lemma serverbound_roundtrips : List.Forall (entry_roundtrips serverbound) serverbound.
Proof. set (t := serverbound) at 1. unfold serverbound. solve_table. Qed.

(** Every packet of the play state but the custom payload survives the wire:
    in both directions the ids are distinct, and a packet written by the generated encoder is read back
    by the generated decoder as itself, with the whole payload consumed and
    trailing bytes reported. *)
Theorem packets_roundtrip :
  (NoDup (map entry_id clientbound) ∧ List.Forall (entry_roundtrips clientbound) clientbound)
  ∧ (NoDup (map entry_id serverbound) ∧ List.Forall (entry_roundtrips serverbound) serverbound).
Proof.
  split; (split; [apply (bool_decide_unpack _); by vm_compute|]); [apply clientbound_roundtrips|apply serverbound_roundtrips].
Qed.
