(* ===== verification/PacketStates.v ===== *)
(** * Packets of every state

    The packet enums of the five protocol states, [ClientboundLoginPacket] and
    its like in [generated/v1_21_4]: the tables of [PacketTable] for play,
    completed by the packets whose last field is whatever is left of the
    packet, and the tables of handshake, status, login and configuration.
    [decode_packet] is the [decode] of such an enum. *)

From S2P Require Import Prelude Machine Reader Varint Utf8 Buffer Wire Nbt PacketTypes Switch ItemTypes Items EntityData CommandNodes Displays PlayPackets PlayPacketsOut PlayPacketsSwitch PlayPacketsSwitchOut LoginPackets PacketTable.

Local Open Scope Z_scope.

(** ** The rest of a packet *)

(** [input.rest().to_vec()], then [input.skip_all()]. *)
Definition wire_remaining : Codec (list byte) := {|
  encode data := modify (put_bytes data);
  decode r := (Ok (rest r), skip_all r);
|}.

(** A codec whose decoder may depend on where the packet ends: what was
    written is read back when nothing follows it. *)
Class LastCodec {T} (c : Codec T) (dom : T → Prop) (enc : T → list byte) : Prop := {
  last_writes v : dom v → writes (encode c v) (enc v);
  last_reads v : dom v → ∀ r, (rd_pos r ≤ length (rd_data r))%nat → rest r = enc v → ∃ r', decode c r = (Ok v, r') ∧ remaining r' = 0%nat;
}.
#[export] Hint Mode LastCodec + + - - : typeclass_instances.

#[export] Instance last_lawful {T} (c : Codec T) dom enc : LawfulCodec c dom enc → LastCodec c dom enc | 10.
Proof.
  intros [Hw Hr]. split; [done|]. intros v Hv r _ Hrest. rewrite <- (app_nil_r (enc v)) in Hrest.
  exists (advance r (length (enc v))). split; [by apply (Hr v Hv r [])|].
  rewrite <- length_rest, rest_advance, Hrest, app_nil_r, drop_all. done.
Qed.

#[export] Instance last_remaining : LastCodec wire_remaining any_value id.
Proof.
  split; intros v _; [by apply writes_modify|]. intros r _ Hr. exists (skip_all r). simpl. rewrite Hr. split; [done|].
  unfold remaining. simpl. lia.
Qed.

(** Reading a field before the last one. *)
Lemma last_after {A B} (m : Read A) (k : A → Read B) bs bs' a b r :
  reads m bs a → (rd_pos r ≤ length (rd_data r))%nat → rest r = bs ++ bs' →
  (∀ r1, (rd_pos r1 ≤ length (rd_data r1))%nat → rest r1 = bs' → ∃ r', k a r1 = (Ok b, r') ∧ remaining r' = 0%nat) →
  ∃ r', bind m k r = (Ok b, r') ∧ remaining r' = 0%nat.
Proof.
  intros Hm Hp Hr Hk. destruct (Hk (advance r (length bs))) as (r' & H1 & H2).
  - simpl. assert (length (rest r) = length bs + length bs')%nat as Hl by (by rewrite Hr, length_app).
    unfold rest in Hl. rewrite length_drop in Hl. lia.
  - by rewrite rest_advance, Hr, drop_app_exact.
  - exists r'. split; [|done]. by rewrite (bind_Ok _ _ _ _ _ (Hm r bs' Hr)).
Qed.

Lemma last_then {T U} (c : Codec T) dom enc (f : T → U) v r :
  LastCodec c dom enc → dom v → (rd_pos r ≤ length (rd_data r))%nat → rest r = enc v →
  ∃ r', (let* x := decode c in ret (f x)) r = (Ok (f v), r') ∧ remaining r' = 0%nat.
Proof. intros Hc Hv Hp Hr. destruct (last_reads (c := c) v Hv r Hp Hr) as (r' & H1 & H2). exists r'. by rewrite (bind_Ok _ _ _ _ _ H1). Qed.

Record PacketCustomPayload : Type := mkPacketCustomPayload {
  PacketCustomPayload_channel : string;
  PacketCustomPayload_data : list byte;
}.
Definition wire_PacketCustomPayload : Codec PacketCustomPayload := {|
  encode p :=
    encode wire_String (PacketCustomPayload_channel p) ;;;
    modify (put_bytes (PacketCustomPayload_data p));
  decode :=
    let* channel := decode wire_String in
    let* data := decode wire_remaining in
    ret (mkPacketCustomPayload channel data);
|}.
Definition dom_PacketCustomPayload (p : PacketCustomPayload) : Prop := wire_string (PacketCustomPayload_channel p).
Definition bytes_PacketCustomPayload (p : PacketCustomPayload) : list byte :=
  string_bytes (PacketCustomPayload_channel p) ++ PacketCustomPayload_data p.
#[export] Instance last_PacketCustomPayload : LastCodec wire_PacketCustomPayload dom_PacketCustomPayload bytes_PacketCustomPayload.
Proof.
  split; intros [channel data] Hv.
  - apply writes_bind; [by apply writes_string|by apply writes_modify].
  - intros r Hp Hr. eapply last_after; [by apply reads_string|done|exact Hr|]. intros r1 Hp1 Hr1.
    by eapply (last_then wire_remaining any_value id (mkPacketCustomPayload channel)); [apply _| |exact Hp1|exact Hr1].
Qed.

(** The same struct in [configuration.rs]. *)
Record ConfigPacketCustomPayload : Type := mkConfigPacketCustomPayload {
  ConfigPacketCustomPayload_channel : string;
  ConfigPacketCustomPayload_data : list byte;
}.
Definition wire_ConfigPacketCustomPayload : Codec ConfigPacketCustomPayload := {|
  encode p :=
    encode wire_String (ConfigPacketCustomPayload_channel p) ;;;
    modify (put_bytes (ConfigPacketCustomPayload_data p));
  decode :=
    let* channel := decode wire_String in
    let* data := decode wire_remaining in
    ret (mkConfigPacketCustomPayload channel data);
|}.
Definition dom_ConfigPacketCustomPayload (p : ConfigPacketCustomPayload) : Prop := wire_string (ConfigPacketCustomPayload_channel p).
Definition bytes_ConfigPacketCustomPayload (p : ConfigPacketCustomPayload) : list byte :=
  string_bytes (ConfigPacketCustomPayload_channel p) ++ ConfigPacketCustomPayload_data p.
#[export] Instance last_ConfigPacketCustomPayload : LastCodec wire_ConfigPacketCustomPayload dom_ConfigPacketCustomPayload bytes_ConfigPacketCustomPayload.
Proof.
  split; intros [channel data] Hv.
  - apply writes_bind; [by apply writes_string|by apply writes_modify].
  - intros r Hp Hr. eapply last_after; [by apply reads_string|done|exact Hr|]. intros r1 Hp1 Hr1.
    by eapply (last_then wire_remaining any_value id (mkConfigPacketCustomPayload channel)); [apply _| |exact Hp1|exact Hr1].
Qed.

Record LoginPacketLoginPluginRequest : Type := mkLoginPacketLoginPluginRequest {
  LoginPacketLoginPluginRequest_message_id : Z;
  LoginPacketLoginPluginRequest_channel : string;
  LoginPacketLoginPluginRequest_data : list byte;
}.
Definition wire_LoginPacketLoginPluginRequest : Codec LoginPacketLoginPluginRequest := {|
  encode p :=
    modify (write_varint (LoginPacketLoginPluginRequest_message_id p)) ;;;
    encode wire_String (LoginPacketLoginPluginRequest_channel p) ;;;
    modify (put_bytes (LoginPacketLoginPluginRequest_data p));
  decode :=
    let* message_id := read_varint in
    let* channel := decode wire_String in
    let* data := decode wire_remaining in
    ret (mkLoginPacketLoginPluginRequest message_id channel data);
|}.
Definition dom_LoginPacketLoginPluginRequest (p : LoginPacketLoginPluginRequest) : Prop :=
  in_i 32 (LoginPacketLoginPluginRequest_message_id p) ∧ wire_string (LoginPacketLoginPluginRequest_channel p).
Definition bytes_LoginPacketLoginPluginRequest (p : LoginPacketLoginPluginRequest) : list byte :=
  varint_bytes (LoginPacketLoginPluginRequest_message_id p)
  ++ string_bytes (LoginPacketLoginPluginRequest_channel p) ++ LoginPacketLoginPluginRequest_data p.
#[export] Instance last_LoginPacketLoginPluginRequest :
  LastCodec wire_LoginPacketLoginPluginRequest dom_LoginPacketLoginPluginRequest bytes_LoginPacketLoginPluginRequest.
Proof.
  split; intros [message_id channel data] [Hi Hc].
  - apply writes_bind; [by apply writes_modify|]. apply writes_bind; [by apply writes_string|by apply writes_modify].
  - intros r Hp Hr. eapply last_after; [by apply reads_varint|done|exact Hr|]. intros r1 Hp1 Hr1.
    eapply last_after; [by apply reads_string|done|exact Hr1|]. intros r2 Hp2 Hr2.
    by eapply (last_then wire_remaining any_value id (mkLoginPacketLoginPluginRequest message_id channel)); [apply _| |exact Hp2|exact Hr2].
Qed.

Record LoginPacketLoginPluginResponse : Type := mkLoginPacketLoginPluginResponse {
  LoginPacketLoginPluginResponse_message_id : Z;
  LoginPacketLoginPluginResponse_data : option (list byte);
}.
Definition wire_LoginPacketLoginPluginResponse : Codec LoginPacketLoginPluginResponse := {|
  encode p :=
    modify (write_varint (LoginPacketLoginPluginResponse_message_id p)) ;;;
    modify (put_bool (bool_decide (is_Some (LoginPacketLoginPluginResponse_data p)))) ;;;
    match LoginPacketLoginPluginResponse_data p with Some v => modify (put_bytes v) | None => ret tt end;
  decode :=
    let* message_id := read_varint in
    let* present := get_bool in
    let* data := if present then (let* bytes := decode wire_remaining in ret (Some bytes)) else ret None in
    ret (mkLoginPacketLoginPluginResponse message_id data);
|}.
Definition dom_LoginPacketLoginPluginResponse (p : LoginPacketLoginPluginResponse) : Prop :=
  in_i 32 (LoginPacketLoginPluginResponse_message_id p).
Definition bytes_LoginPacketLoginPluginResponse (p : LoginPacketLoginPluginResponse) : list byte :=
  varint_bytes (LoginPacketLoginPluginResponse_message_id p)
  ++ be_bytes 1 (Z.b2z (bool_decide (is_Some (LoginPacketLoginPluginResponse_data p))))
  ++ default [] (LoginPacketLoginPluginResponse_data p).
#[export] Instance last_LoginPacketLoginPluginResponse :
  LastCodec wire_LoginPacketLoginPluginResponse dom_LoginPacketLoginPluginResponse bytes_LoginPacketLoginPluginResponse.
Proof.
  split; intros [message_id data] Hi.
  - apply writes_bind; [by apply writes_modify|]. apply writes_bind; [by apply writes_modify|].
    destruct data; [by apply writes_modify|apply writes_ret].
  - intros r Hp Hr. eapply last_after; [by apply reads_varint|done|exact Hr|]. intros r1 Hp1 Hr1.
    eapply last_after; [by apply reads_get_bool|done|exact Hr1|]. intros r2 Hp2 Hr2. cbn [LoginPacketLoginPluginResponse_data] in *.
    destruct data as [data|]; cbn in Hr2 |- *.
    + eexists. split; [by rewrite Hr2|]. unfold remaining. simpl. lia.
    + eexists. split; [done|]. by rewrite <- length_rest, Hr2.
Qed.

(** ** The tables *)

Definition handshaking_clientbound : list PacketEntry :=
  [].

Definition handshaking_serverbound : list PacketEntry :=
  [mkEntry 0 "serverbound handshaking set_protocol" wire_HandshakePacketSetProtocol dom_HandshakePacketSetProtocol;
   mkEntry 254 "serverbound handshaking legacy_server_list_ping" wire_HandshakePacketLegacyServerListPing dom_HandshakePacketLegacyServerListPing].

Definition status_clientbound : list PacketEntry :=
  [mkEntry 0 "clientbound status server_info" wire_StatusPacketServerInfo dom_StatusPacketServerInfo;
   mkEntry 1 "clientbound status ping" wire_StatusPacketPing dom_StatusPacketPing].

Definition status_serverbound : list PacketEntry :=
  [mkEntry 0 "serverbound status ping_start" wire_unit any_value;
   mkEntry 1 "serverbound status ping" wire_StatusPacketPing dom_StatusPacketPing].

Definition login_clientbound : list PacketEntry :=
  [mkEntry 0 "clientbound login disconnect" wire_LoginPacketDisconnect dom_LoginPacketDisconnect;
   mkEntry 1 "clientbound login encryption_begin" wire_LoginPacketEncryptionBegin dom_LoginPacketEncryptionBegin;
   mkEntry 2 "clientbound login success" wire_LoginPacketSuccess dom_LoginPacketSuccess;
   mkEntry 3 "clientbound login compress" wire_LoginPacketCompress dom_LoginPacketCompress;
   mkEntry 4 "clientbound login login_plugin_request" wire_LoginPacketLoginPluginRequest dom_LoginPacketLoginPluginRequest;
   mkEntry 5 "clientbound login cookie_request" wire_PacketCommonCookieRequest dom_PacketCommonCookieRequest].

Definition login_serverbound : list PacketEntry :=
  [mkEntry 0 "serverbound login login_start" wire_LoginPacketLoginStart dom_LoginPacketLoginStart;
   mkEntry 1 "serverbound login encryption_begin" wire_LoginPacketEncryptionBeginServerbound dom_LoginPacketEncryptionBeginServerbound;
   mkEntry 2 "serverbound login login_plugin_response" wire_LoginPacketLoginPluginResponse dom_LoginPacketLoginPluginResponse;
   mkEntry 3 "serverbound login login_acknowledged" wire_unit any_value;
   mkEntry 4 "serverbound login cookie_response" wire_PacketCommonCookieResponse dom_PacketCommonCookieResponse].

Definition configuration_clientbound : list PacketEntry :=
  [mkEntry 0 "clientbound configuration cookie_request" wire_PacketCommonCookieRequest dom_PacketCommonCookieRequest;
   mkEntry 1 "clientbound configuration custom_payload" wire_ConfigPacketCustomPayload dom_ConfigPacketCustomPayload;
   mkEntry 2 "clientbound configuration disconnect" wire_ConfigPacketDisconnect dom_ConfigPacketDisconnect;
   mkEntry 3 "clientbound configuration finish_configuration" wire_unit any_value;
   mkEntry 4 "clientbound configuration keep_alive" wire_ConfigPacketKeepAlive dom_ConfigPacketKeepAlive;
   mkEntry 5 "clientbound configuration ping" wire_ConfigPacketPing dom_ConfigPacketPing;
   mkEntry 6 "clientbound configuration reset_chat" wire_unit any_value;
   mkEntry 7 "clientbound configuration registry_data" wire_ConfigPacketRegistryData dom_ConfigPacketRegistryData;
   mkEntry 8 "clientbound configuration remove_resource_pack" wire_PacketCommonRemoveResourcePack dom_PacketCommonRemoveResourcePack;
   mkEntry 9 "clientbound configuration add_resource_pack" wire_PacketCommonAddResourcePack dom_PacketCommonAddResourcePack;
   mkEntry 10 "clientbound configuration store_cookie" wire_PacketCommonStoreCookie dom_PacketCommonStoreCookie;
   mkEntry 11 "clientbound configuration transfer" wire_PacketCommonTransfer dom_PacketCommonTransfer;
   mkEntry 12 "clientbound configuration feature_flags" wire_ConfigPacketFeatureFlags dom_ConfigPacketFeatureFlags;
   mkEntry 13 "clientbound configuration tags" wire_ConfigPacketTags dom_ConfigPacketTags;
   mkEntry 14 "clientbound configuration select_known_packs" wire_PacketCommonSelectKnownPacks dom_PacketCommonSelectKnownPacks;
   mkEntry 15 "clientbound configuration custom_report_details" wire_PacketCommonCustomReportDetails dom_PacketCommonCustomReportDetails;
   mkEntry 16 "clientbound configuration server_links" wire_PacketCommonServerLinks dom_PacketCommonServerLinks].

Definition configuration_serverbound : list PacketEntry :=
  [mkEntry 0 "serverbound configuration settings" wire_PacketCommonSettings dom_PacketCommonSettings;
   mkEntry 1 "serverbound configuration cookie_response" wire_PacketCommonCookieResponse dom_PacketCommonCookieResponse;
   mkEntry 2 "serverbound configuration custom_payload" wire_ConfigPacketCustomPayload dom_ConfigPacketCustomPayload;
   mkEntry 3 "serverbound configuration finish_configuration" wire_unit any_value;
   mkEntry 4 "serverbound configuration keep_alive" wire_ConfigPacketKeepAlive dom_ConfigPacketKeepAlive;
   mkEntry 5 "serverbound configuration pong" wire_ConfigPacketPong dom_ConfigPacketPong;
   mkEntry 6 "serverbound configuration resource_pack_receive" wire_ConfigPacketResourcePackReceive dom_ConfigPacketResourcePackReceive;
   mkEntry 7 "serverbound configuration select_known_packs" wire_PacketCommonSelectKnownPacks dom_PacketCommonSelectKnownPacks;
   mkEntry 8 "serverbound configuration custom_report_details" wire_PacketCommonCustomReportDetails dom_PacketCommonCustomReportDetails;
   mkEntry 9 "serverbound configuration server_links" wire_PacketCommonServerLinks dom_PacketCommonServerLinks].

Definition play_clientbound : list PacketEntry :=
  mkEntry 25 "clientbound play custom_payload" wire_PacketCustomPayload dom_PacketCustomPayload :: clientbound.
Definition play_serverbound : list PacketEntry :=
  mkEntry 20 "serverbound play custom_payload" wire_PacketCustomPayload dom_PacketCustomPayload :: serverbound.

(** ** The enums *)

(** A packet of a state and direction: its arm and its payload. *)
Definition AnyPacket : Type := {e : PacketEntry & entry_payload e}.

(** [Encode for ...Packet] and [...Packet::decode]. *)
Definition encode_packet (p : AnyPacket) : Write := packet_encode (projT1 p) (projT2 p).
Definition decode_packet (context : string) (table : list PacketEntry) (id : Z) : Read AnyPacket :=
  match entry_for table id with
  | Some e => let* payload := packet_decode e in ret (existT e payload)
  | None => raise (UnknownPacketId context id)
  end.

(** Written, read back and used up. *)
Definition survives (context : string) (table : list PacketEntry) (e : PacketEntry) : Prop :=
  ∀ payload, entry_dom e payload →
  ∃ bs r r', encode_packet (existT e payload) new_writer = (Ok tt, mkWriter bs)
  ∧ read_varint (new_reader bs) = (Ok (entry_id e), r)
  ∧ decode_packet context table (entry_id e) r = (Ok (existT e payload), r') ∧ remaining r' = 0%nat.

Lemma survives_intro context table id ctx {T} (c : Codec T) dom enc `{!LastCodec c dom enc} :
  in_i 32 id → entry_for table id = Some (mkEntry id ctx c dom) → survives context table (mkEntry id ctx c dom).
Proof.
  intros Hid Hfor payload Hp. cbn in payload, Hp. set (bs := varint_bytes id ++ enc payload).
  assert (rest (new_reader bs) = varint_bytes id ++ enc payload) as Hr by done.
  destruct (last_reads (c := c) payload Hp (advance (new_reader bs) (length (varint_bytes id)))) as (r' & Hd & Hrem).
  { simpl. unfold bs. rewrite length_app. lia. }
  { by rewrite rest_advance, Hr, drop_app_exact. }
  exists bs, (advance (new_reader bs) (length (varint_bytes id))), r'. split_and!.
  - unfold encode_packet, packet_encode. cbn [projT1 projT2 entry_id entry_codec].
    rewrite (bind_Ok _ _ _ tt (write_varint id new_writer)) by done. rewrite (last_writes (c := c) payload Hp). done.
  - exact (reads_varint id Hid _ _ Hr).
  - unfold decode_packet. cbn [entry_id]. rewrite Hfor. unfold packet_decode. cbn [entry_codec entry_context].
    rewrite (bind_Ok _ _ _ payload r'); [done|]. rewrite (bind_Ok _ _ _ _ _ Hd). unfold ensure_consumed, is_empty, bind. by rewrite Hrem.
  - done.
Qed.

Ltac solve_survives :=
  repeat (apply List.Forall_cons; [eapply survives_intro; [apply _|by vm_compute|reflexivity]|]); apply List.Forall_nil.

(** Every enum of the generated code with the context its errors name. *)
Definition all_tables : list (string * list PacketEntry) :=
  [("clientbound handshaking", handshaking_clientbound); ("serverbound handshaking", handshaking_serverbound);
   ("clientbound status", status_clientbound); ("serverbound status", status_serverbound);
   ("clientbound login", login_clientbound); ("serverbound login", login_serverbound);
   ("clientbound configuration", configuration_clientbound); ("serverbound configuration", configuration_serverbound);
   ("clientbound play", play_clientbound); ("serverbound play", play_serverbound)].

Lemma play_clientbound_survives : List.Forall (survives "clientbound play" play_clientbound) play_clientbound.
Proof. set (t := play_clientbound) at 1. unfold play_clientbound, clientbound. solve_survives. Qed.
Lemma play_serverbound_survives : List.Forall (survives "serverbound play" play_serverbound) play_serverbound.
Proof. set (t := play_serverbound) at 1. unfold play_serverbound, serverbound. solve_survives. Qed.
Lemma configuration_survives :
  List.Forall (survives "clientbound configuration" configuration_clientbound) configuration_clientbound
  ∧ List.Forall (survives "serverbound configuration" configuration_serverbound) configuration_serverbound.
Proof.
  split; [set (t := configuration_clientbound) at 1; unfold configuration_clientbound|set (t := configuration_serverbound) at 1; unfold configuration_serverbound];
    solve_survives.
Qed.
Lemma login_survives :
  List.Forall (survives "clientbound login" login_clientbound) login_clientbound
  ∧ List.Forall (survives "serverbound login" login_serverbound) login_serverbound.
Proof.
  split; [set (t := login_clientbound) at 1; unfold login_clientbound|set (t := login_serverbound) at 1; unfold login_serverbound];
    solve_survives.
Qed.
Lemma first_states_survive :
  List.Forall (survives "serverbound handshaking" handshaking_serverbound) handshaking_serverbound
  ∧ List.Forall (survives "clientbound status" status_clientbound) status_clientbound
  ∧ List.Forall (survives "serverbound status" status_serverbound) status_serverbound.
Proof.
  split; [set (t := handshaking_serverbound) at 1; unfold handshaking_serverbound; solve_survives|].
  split; [set (t := status_clientbound) at 1; unfold status_clientbound|set (t := status_serverbound) at 1; unfold status_serverbound];
    solve_survives.
Qed.

Lemma tables_survive context table : In (context, table) all_tables → List.Forall (survives context table) table.
Proof.
  intros Hin. destruct configuration_survives as [Hc Hs], login_survives as [Hlc Hls], first_states_survive as (Hh & Hsc & Hss).
  pose proof play_clientbound_survives. pose proof play_serverbound_survives.
  revert Hin. unfold all_tables. simpl. intros Hin. repeat destruct Hin as [[= <- <-]|Hin]; done.
Qed.

(** C17. Every packet of every state survives the wire: in each of the ten
    enums the ids are distinct; a packet whose fields the format can carry,
    written by its encoder, is read back by the enum's decoder from its id as
    the same packet, with nothing left; and every other id is refused. *)
Theorem every_packet_survives (context : string) (table : list PacketEntry) :
  In (context, table) all_tables →
  NoDup (map entry_id table) ∧ List.Forall (survives context table) table
  ∧ ∀ id r, id ∉ map entry_id table → decode_packet context table id r = (Err (UnknownPacketId context id), r).
Proof.
  intros Hin. split; [|split].
  - revert Hin. unfold all_tables. simpl. intros Hin.
    repeat destruct Hin as [[= <- <-]|Hin]; [..|done]; apply (bool_decide_unpack _); by vm_compute.
  - by apply tables_survive.
  - intros id r Hid. unfold decode_packet. destruct (entry_for table id) as [e|] eqn:He; [|done].
    apply List.find_some in He as [He Heq%Z.eqb_eq]. destruct Hid. subst id. apply list_elem_of_In. by apply in_map.
Qed.

Lemma every_packet_survives_witness :
  In ("clientbound status", status_clientbound) all_tables ∧ NoDup (map entry_id status_clientbound).
Proof.
  assert (In ("clientbound status", status_clientbound) all_tables) as H by (right; right; left; reflexivity).
  split; [exact H|]. exact (proj1 (every_packet_survives _ _ H)).
Defined.
