(* ===== verification/Protocol.v ===== *)
(** * The vendored protocol

    [crates/minerider-codegen/vendor/minecraft-data/pc/1.21.4/protocol.json],
    as [model.rs] reads it: the description the packets of this repository are
    generated from.  The packet tables it is built into are those of
    [PacketStates]. *)

From S2P Require Import Prelude Machine PacketTable PacketStates Ir.

Local Open Scope Z_scope.
Local Open Scope string_scope.
Local Open Scope list_scope.

Definition protocol_types_0 : btree TypeDef :=
  [("ArmorTrimMaterial", Compound (Container [mkField (Some "assetName") false (Named "string"); mkField (Some "ingredientId") false (Named "varint");
     mkField (Some "overrideArmorAssets") false (Inline (ArrayOf (Inline (Container [mkField (Some "key") false (Named "string"); mkField (Some
     "value") false (Named "string")])) (Some "varint") None)); mkField (Some "description") false (Named "anonymousNbt")]));
   ("ArmorTrimPattern", Compound (Container [mkField (Some "assetId") false (Named "string"); mkField (Some "templateItemId") false (Named "varint");
     mkField (Some "description") false (Named "anonymousNbt"); mkField (Some "decal") false (Named "bool")]));
   ("BannerPattern", Compound (Container [mkField (Some "assetId") false (Named "string"); mkField (Some "translationKey") false (Named "string")]));
   ("BannerPatternLayer", Compound (Container [mkField (Some "pattern") false (Inline (RegistryEntryHolder "patternId" "data" (Named "BannerPattern")));
     mkField (Some "colorId") false (Named "varint")]));
   ("ByteArray", Compound (BufferOf (Some "varint") None));
   ("ContainerID", Alias "varint");
   ("EntityMetadataPaintingVariant", Compound (Container [mkField (Some "width") false (Named "i32"); mkField (Some "height") false (Named "i32"); mkField
     (Some "assetId") false (Named "string"); mkField (Some "title") false (Inline (OptionOf (Named "anonymousNbt"))); mkField (Some "author") false
     (Inline (OptionOf (Named "anonymousNbt")))]));
   ("EntityMetadataWolfVariant", Compound (Container [mkField (Some "wildTexture") false (Named "string"); mkField (Some "tameTexture") false (Named
     "string"); mkField (Some "angryTexture") false (Named "string"); mkField (Some "biome") false (Named "IDSet")]));
   ("IDSet", Compound (RegistryEntryHolderSet "name" (Named "string") "ids" (Named "varint")));
   ("InstrumentData", Compound (Container [mkField (Some "soundEvent") false (Named "ItemSoundHolder"); mkField (Some "useDuration") false (Named "f32");
     mkField (Some "range") false (Named "f32"); mkField (Some "description") false (Named "anonymousNbt")]));
   ("ItemBlockPredicate", Compound (Container [mkField (Some "blockSet") false (Inline (OptionOf (Inline (RegistryEntryHolderSet "name" (Named "string")
     "blockIds" (Named "varint"))))); mkField (Some "properties") false (Inline (OptionOf (Inline (ArrayOf (Named "ItemBlockProperty") (Some "varint")
     None)))); mkField (Some "nbt") false (Named "anonOptionalNbt")]));
   ("ItemBlockProperty", Compound (Container [mkField (Some "name") false (Named "string"); mkField (Some "isExactMatch") false (Named "bool"); mkField
     (Some "value") false (Inline (SwitchOn "isExactMatch" [("false", Inline (Container [mkField (Some "minValue") false (Named "string"); mkField
     (Some "maxValue") false (Named "string")])); ("true", Inline (Container [mkField (Some "exactValue") false (Named "string")]))] None))]));
   ("ItemBookPage", Compound (Container [mkField (Some "content") false (Named "string"); mkField (Some "filteredContent") false (Inline (OptionOf (Named
     "string")))]));
   ("ItemConsumeEffect", Compound (Container [mkField (Some "type") false (Inline (MapperOf "varint" [("0", "apply_effects"); ("1", "remove_effects");
     ("2", "clear_all_effects"); ("3", "teleport_randomly"); ("4", "play_sound")])); mkField None true (Inline (SwitchOn "type" [("apply_effects",
     Inline (Container [mkField (Some "effects") false (Inline (ArrayOf (Named "ItemPotionEffect") (Some "varint") None)); mkField (Some "probability")
     false (Named "f32")])); ("clear_all_effects", Named "void"); ("play_sound", Inline (Container [mkField (Some "sound") false (Named
     "ItemSoundHolder")])); ("remove_effects", Inline (Container [mkField (Some "effects") false (Named "IDSet")])); ("teleport_randomly", Inline
     (Container [mkField (Some "diameter") false (Named "f32")]))] None))]));
   ("ItemEffectDetail", Compound (Container [mkField (Some "amplifier") false (Named "varint"); mkField (Some "duration") false (Named "varint"); mkField
     (Some "ambient") false (Named "bool"); mkField (Some "showParticles") false (Named "bool"); mkField (Some "showIcon") false (Named "bool");
     mkField (Some "hiddenEffect") false (Inline (OptionOf (Named "ItemEffectDetail")))]));
   ("ItemFireworkExplosion", Compound (Container [mkField (Some "shape") false (Inline (MapperOf "varint" [("0", "small_ball"); ("1", "large_ball"); ("2",
     "star"); ("3", "creeper"); ("4", "burst")])); mkField (Some "colors") false (Inline (ArrayOf (Named "i32") (Some "varint") None)); mkField (Some
     "fadeColors") false (Inline (ArrayOf (Named "i32") (Some "varint") None)); mkField (Some "hasTrail") false (Named "bool"); mkField (Some
     "hasTwinkle") false (Named "bool")]));
   ("ItemPotionEffect", Compound (Container [mkField (Some "id") false (Named "varint"); mkField (Some "details") false (Named "ItemEffectDetail")]));
   ("ItemSoundEvent", Compound (Container [mkField (Some "soundName") false (Named "string"); mkField (Some "fixedRange") false (Inline (OptionOf (Named
     "f32")))]));
   ("ItemSoundHolder", Compound (RegistryEntryHolder "soundId" "data" (Named "ItemSoundEvent")));
   ("ItemWrittenBookPage", Compound (Container [mkField (Some "content") false (Named "anonymousNbt"); mkField (Some "filteredContent") false (Named
     "anonOptionalNbt")]));
   ("JukeboxSongData", Compound (Container [mkField (Some "soundEvent") false (Named "ItemSoundHolder"); mkField (Some "description") false (Named
     "anonymousNbt"); mkField (Some "lengthInSeconds") false (Named "f32"); mkField (Some "comparatorOutput") false (Named "varint")]))].
Definition protocol_types_1 : btree TypeDef :=
  [("Particle", Compound (Container [mkField (Some "type") false (Inline (MapperOf "varint" [("0", "angry_villager"); ("1", "block"); ("10",
     "landing_lava"); ("100", "scrape"); ("101", "shriek"); ("102", "egg_crack"); ("103", "dust_plume"); ("104", "trial_spawner_detected_player");
     ("105", "trial_spawner_detected_player_ominous"); ("106", "vault_connection"); ("107", "dust_pillar"); ("108", "ominous_spawning"); ("109",
     "raid_omen"); ("11", "dripping_water"); ("110", "trial_omen"); ("111", "block_crumble"); ("12", "falling_water"); ("13", "dust"); ("14",
     "dust_color_transition"); ("15", "effect"); ("16", "elder_guardian"); ("17", "enchanted_hit"); ("18", "enchant"); ("19", "end_rod"); ("2",
     "block_marker"); ("20", "entity_effect"); ("21", "explosion_emitter"); ("22", "explosion"); ("23", "gust"); ("24", "small_gust"); ("25",
     "gust_emitter_large"); ("26", "gust_emitter_small"); ("27", "sonic_boom"); ("28", "falling_dust"); ("29", "firework"); ("3", "bubble"); ("30",
     "fishing"); ("31", "flame"); ("32", "infested"); ("33", "cherry_leaves"); ("34", "pale_oak_leaves"); ("35", "sculk_soul"); ("36", "sculk_charge");
     ("37", "sculk_charge_pop"); ("38", "soul_fire_flame"); ("39", "soul"); ("4", "cloud"); ("40", "flash"); ("41", "happy_villager"); ("42",
     "composter"); ("43", "heart"); ("44", "instant_effect"); ("45", "item"); ("46", "vibration"); ("47", "trail"); ("48", "item_slime"); ("49",
     "item_cobweb"); ("5", "crit"); ("50", "item_snowball"); ("51", "large_smoke"); ("52", "lava"); ("53", "mycelium"); ("54", "note"); ("55", "poof");
     ("56", "portal"); ("57", "rain"); ("58", "smoke"); ("59", "white_smoke"); ("6", "damage_indicator"); ("60", "sneeze"); ("61", "spit"); ("62",
     "squid_ink"); ("63", "sweep_attack"); ("64", "totem_of_undying"); ("65", "underwater"); ("66", "splash"); ("67", "witch"); ("68", "bubble_pop");
     ("69", "current_down"); ("7", "dragon_breath"); ("70", "bubble_column_up"); ("71", "nautilus"); ("72", "dolphin"); ("73", "campfire_cosy_smoke");
     ("74", "campfire_signal_smoke"); ("75", "dripping_honey"); ("76", "falling_honey"); ("77", "landing_honey"); ("78", "falling_nectar"); ("79",
     "falling_spore_blossom"); ("8", "dripping_lava"); ("80", "ash"); ("81", "crimson_spore"); ("82", "warped_spore"); ("83", "spore_blossom_air");
     ("84", "dripping_obsidian_tear"); ("85", "falling_obsidian_tear"); ("86", "landing_obsidian_tear"); ("87", "reverse_portal"); ("88", "white_ash");
     ("89", "small_flame"); ("9", "falling_lava"); ("90", "snowflake"); ("91", "dripping_dripstone_lava"); ("92", "falling_dripstone_lava"); ("93",
     "dripping_dripstone_water"); ("94", "falling_dripstone_water"); ("95", "glow_squid_ink"); ("96", "glow"); ("97", "wax_on"); ("98", "wax_off");
     ("99", "electric_spark")])); mkField (Some "data") false (Inline (SwitchOn "type" [("block", Named "varint"); ("block_crumble", Named "varint");
     ("block_marker", Named "varint"); ("dust", Inline (Container [mkField (Some "red") false (Named "f32"); mkField (Some "green") false (Named
     "f32"); mkField (Some "blue") false (Named "f32"); mkField (Some "scale") false (Named "f32")])); ("dust_color_transition", Inline (Container
     [mkField (Some "fromRed") false (Named "f32"); mkField (Some "fromGreen") false (Named "f32"); mkField (Some "fromBlue") false (Named "f32");
     mkField (Some "scale") false (Named "f32"); mkField (Some "toRed") false (Named "f32"); mkField (Some "toGreen") false (Named "f32"); mkField
     (Some "toBlue") false (Named "f32")])); ("dust_pillar", Named "varint"); ("entity_effect", Named "i32"); ("falling_dust", Named "varint");
     ("item", Named "Slot"); ("sculk_charge", Named "f32"); ("shriek", Named "varint"); ("trail", Inline (Container [mkField (Some "target") false
     (Named "vec3f64"); mkField (Some "color") false (Named "u8")])); ("vibration", Inline (Container [mkField (Some "positionType") false (Inline
     (MapperOf "varint" [("0", "block"); ("1", "entity")])); mkField (Some "position") false (Inline (SwitchOn "positionType" [("block", Named
     "position"); ("entity", Inline (Container [mkField (Some "entityId") false (Named "varint"); mkField (Some "entityEyeHeight") false (Named
     "f32")]))] None)); mkField (Some "ticks") false (Named "varint")]))] None))]));
   ("ServerLinkType", Compound (MapperOf "varint" [("0", "bug_report"); ("1", "community_guidelines"); ("2", "support"); ("3", "status"); ("4",
     "feedback"); ("5", "community"); ("6", "website"); ("7", "forums"); ("8", "news"); ("9", "announcements")]));
   ("Slot", Compound (Container [mkField (Some "itemCount") false (Named "varint"); mkField None true (Inline (SwitchOn "itemCount" [("0", Named "void")]
     (Some (Inline (Container [mkField (Some "itemId") false (Named "varint"); mkField (Some "addedComponentCount") false (Named "varint"); mkField
     (Some "removedComponentCount") false (Named "varint"); mkField (Some "components") false (Inline (ArrayOf (Named "SlotComponent") None (Some
     (CountField "addedComponentCount")))); mkField (Some "removeComponents") false (Inline (ArrayOf (Inline (Container [mkField (Some "type") false
     (Named "SlotComponentType")])) None (Some (CountField "removedComponentCount"))))])))))]))].
Definition protocol_types_2 : btree TypeDef :=
  [("SlotComponent", Compound (Container [mkField (Some "type") false (Named "SlotComponentType"); mkField (Some "data") false (Inline (SwitchOn "type"
     [("attribute_modifiers", Inline (Container [mkField (Some "attributes") false (Inline (ArrayOf (Inline (Container [mkField (Some "typeId") false
     (Named "varint"); mkField (Some "name") false (Named "string"); mkField (Some "value") false (Named "f64"); mkField (Some "operation") false
     (Inline (MapperOf "varint" [("0", "add"); ("1", "multiply_base"); ("2", "multiply_total")])); mkField (Some "slot") false (Inline (MapperOf
     "varint" [("0", "any"); ("1", "main_hand"); ("2", "off_hand"); ("3", "hand"); ("4", "feet"); ("5", "legs"); ("6", "chest"); ("7", "head"); ("8",
     "armor"); ("9", "body")]))])) (Some "varint") None)); mkField (Some "showTooltip") false (Named "bool")])); ("banner_patterns", Inline (Container
     [mkField (Some "layers") false (Inline (ArrayOf (Named "BannerPatternLayer") (Some "varint") None))])); ("base_color", Named "varint"); ("bees",
     Inline (Container [mkField (Some "bees") false (Inline (ArrayOf (Inline (Container [mkField (Some "nbtData") false (Named "anonymousNbt"); mkField
     (Some "ticksInHive") false (Named "varint"); mkField (Some "minTicksInHive") false (Named "varint")])) (Some "varint") None))]));
     ("block_entity_data", Named "anonymousNbt"); ("block_state", Inline (Container [mkField (Some "properties") false (Inline (ArrayOf (Inline
     (Container [mkField (Some "name") false (Named "string"); mkField (Some "value") false (Named "string")])) (Some "varint") None))]));
     ("bucket_entity_data", Named "anonymousNbt"); ("bundle_contents", Inline (Container [mkField (Some "contents") false (Inline (ArrayOf (Named
     "Slot") (Some "varint") None))])); ("can_break", Inline (Container [mkField (Some "predicates") false (Inline (ArrayOf (Named
     "ItemBlockPredicate") (Some "varint") None)); mkField (Some "showTooltip") false (Named "bool")])); ("can_place_on", Inline (Container [mkField
     (Some "predicates") false (Inline (ArrayOf (Named "ItemBlockPredicate") (Some "varint") None)); mkField (Some "showTooltip") false (Named
     "bool")])); ("charged_projectiles", Inline (Container [mkField (Some "projectiles") false (Inline (ArrayOf (Named "Slot") (Some "varint")
     None))])); ("consumable", Inline (Container [mkField (Some "consume_seconds") false (Named "f32"); mkField (Some "animation") false (Inline
     (MapperOf "varint" [("0", "none"); ("1", "eat"); ("2", "drink"); ("3", "block"); ("4", "bow"); ("5", "spear"); ("6", "crossbow"); ("7",
     "spyglass"); ("8", "toot_horn"); ("9", "brush")])); mkField (Some "sound") false (Named "ItemSoundHolder"); mkField (Some "makes_particles") false
     (Named "bool"); mkField (Some "effects") false (Inline (ArrayOf (Named "ItemConsumeEffect") (Some "varint") None))])); ("container", Inline
     (Container [mkField (Some "contents") false (Inline (ArrayOf (Named "Slot") (Some "varint") None))])); ("container_loot", Named "anonymousNbt");
     ("creative_slot_lock", Named "void"); ("custom_data", Named "anonymousNbt"); ("custom_model_data", Inline (Container [mkField (Some "floats")
     false (Inline (ArrayOf (Named "f32") (Some "varint") None)); mkField (Some "flags") false (Inline (ArrayOf (Named "bool") (Some "varint") None));
     mkField (Some "strings") false (Inline (ArrayOf (Named "string") (Some "varint") None)); mkField (Some "colors") false (Inline (ArrayOf (Named
     "i32") (Some "varint") None))])); ("custom_name", Named "anonymousNbt"); ("damage", Named "varint"); ("damage_resistant", Named "string");
     ("death_protection", Inline (Container [mkField (Some "effects") false (Inline (ArrayOf (Named "ItemConsumeEffect") (Some "varint") None))]));
     ("debug_stick_state", Named "anonymousNbt"); ("dyed_color", Inline (Container [mkField (Some "color") false (Named "i32"); mkField (Some
     "showTooltip") false (Named "bool")])); ("enchantable", Named "varint"); ("enchantment_glint_override", Named "bool"); ("enchantments", Inline
     (Container [mkField (Some "enchantments") false (Inline (ArrayOf (Inline (Container [mkField (Some "id") false (Named "varint"); mkField (Some
     "level") false (Named "varint")])) (Some "varint") None)); mkField (Some "showTooltip") false (Named "bool")])); ("entity_data", Named
     "anonymousNbt"); ("equippable", Inline (Container [mkField (Some "slot") false (Inline (MapperOf "varint" [("0", "main_hand"); ("1", "off_hand");
     ("2", "feet"); ("3", "legs"); ("4", "chest"); ("5", "head"); ("6", "body")])); mkField (Some "sound") false (Named "ItemSoundHolder"); mkField
     (Some "model") false (Inline (OptionOf (Named "string"))); mkField (Some "cameraOverlay") false (Inline (OptionOf (Named "string"))); mkField
     (Some "allowedEntities") false (Inline (OptionOf (Named "IDSet"))); mkField (Some "dispensable") false (Named "bool"); mkField (Some "swappable")
     false (Named "bool"); mkField (Some "damageable") false (Named "bool")])); ("firework_explosion", Named "ItemFireworkExplosion"); ("fireworks",
     Inline (Container [mkField (Some "flightDuration") false (Named "varint"); mkField (Some "explosions") false (Inline (ArrayOf (Named
     "ItemFireworkExplosion") (Some "varint") None))])); ("food", Inline (Container [mkField (Some "nutrition") false (Named "varint"); mkField (Some
     "saturationModifier") false (Named "f32"); mkField (Some "canAlwaysEat") false (Named "bool")])); ("glider", Named "void");
     ("hide_additional_tooltip", Named "void"); ("hide_tooltip", Named "void"); ("instrument", Inline (RegistryEntryHolder "instrumentId" "data" (Named
     "InstrumentData"))); ("intangible_projectile", Named "anonymousNbt"); ("item_model", Named "string"); ("item_name", Named "anonymousNbt");
     ("jukebox_playable", Inline (Container [mkField (Some "hasHolder") false (Named "bool"); mkField (Some "song") false (Inline (SwitchOn "hasHolder"
     [("false", Named "string"); ("true", Inline (RegistryEntryHolder "songId" "data" (Named "JukeboxSongData")))] None)); mkField (Some
     "showInTooltip") false (Named "bool")])); ("lock", Named "anonymousNbt"); ("lodestone_tracker", Inline (Container [mkField (Some "globalPosition")
     false (Inline (OptionOf (Inline (Container [mkField (Some "dimension") false (Named "string"); mkField (Some "position") false (Named
     "position")])))); mkField (Some "tracked") false (Named "bool")])); ("lore", Inline (ArrayOf (Named "anonOptionalNbt") (Some "varint") None));
     ("map_color", Named "i32"); ("map_decorations", Named "anonymousNbt"); ("map_id", Named "varint"); ("map_post_processing", Named "varint");
     ("max_damage", Named "varint"); ("max_stack_size", Named "varint"); ("note_block_sound", Named "string"); ("ominous_bottle_amplifier", Named
     "varint"); ("pot_decorations", Inline (Container [mkField (Some "decorations") false (Inline (ArrayOf (Named "varint") (Some "varint") None))]));
     ("potion_contents", Inline (Container [mkField (Some "potionId") false (Inline (OptionOf (Named "varint"))); mkField (Some "customColor") false
     (Inline (OptionOf (Named "i32"))); mkField (Some "customEffects") false (Inline (ArrayOf (Named "ItemPotionEffect") (Some "varint") None));
     mkField (Some "customName") false (Inline (OptionOf (Named "string")))])); ("profile", Inline (Container [mkField (Some "name") false (Inline
     (OptionOf (Named "string"))); mkField (Some "uuid") false (Inline (OptionOf (Named "UUID"))); mkField (Some "properties") false (Inline (ArrayOf
     (Inline (Container [mkField (Some "name") false (Named "string"); mkField (Some "value") false (Named "string"); mkField (Some "signature") false
     (Inline (OptionOf (Named "string")))])) (Some "varint") None))])); ("rarity", Inline (MapperOf "varint" [("0", "common"); ("1", "uncommon"); ("2",
     "rare"); ("3", "epic")])); ("recipes", Named "anonymousNbt"); ("repair_cost", Named "varint"); ("repairable", Inline (Container [mkField (Some
     "items") false (Named "IDSet")])); ("stored_enchantments", Inline (Container [mkField (Some "enchantments") false (Inline (ArrayOf (Inline
     (Container [mkField (Some "id") false (Named "varint"); mkField (Some "level") false (Named "varint")])) (Some "varint") None)); mkField (Some
     "showInTooltip") false (Named "bool")])); ("suspicious_stew_effects", Inline (Container [mkField (Some "effects") false (Inline (ArrayOf (Inline
     (Container [mkField (Some "effect") false (Named "varint"); mkField (Some "duration") false (Named "varint")])) (Some "varint") None))]));
     ("tool", Inline (Container [mkField (Some "rules") false (Inline (ArrayOf (Inline (Container [mkField (Some "blocks") false (Named "IDSet");
     mkField (Some "speed") false (Inline (OptionOf (Named "f32"))); mkField (Some "correctDropForBlocks") false (Inline (OptionOf (Named "bool")))]))
     (Some "varint") None)); mkField (Some "defaultMiningSpeed") false (Named "f32"); mkField (Some "damagePerBlock") false (Named "varint")]));
     ("tooltip_style", Named "string"); ("trim", Inline (Container [mkField (Some "material") false (Inline (RegistryEntryHolder "materialId" "data"
     (Named "ArmorTrimMaterial"))); mkField (Some "pattern") false (Inline (RegistryEntryHolder "patternId" "data" (Named "ArmorTrimPattern")));
     mkField (Some "showInTooltip") false (Named "bool")])); ("unbreakable", Named "bool"); ("use_cooldown", Inline (Container [mkField (Some
     "seconds") false (Named "f32"); mkField (Some "cooldownGroup") false (Inline (OptionOf (Named "string")))])); ("use_remainder", Named "Slot");
     ("writable_book_content", Inline (Container [mkField (Some "pages") false (Inline (ArrayOf (Named "ItemBookPage") (Some "varint") None))]));
     ("written_book_content", Inline (Container [mkField (Some "rawTitle") false (Named "string"); mkField (Some "filteredTitle") false (Inline
     (OptionOf (Named "string"))); mkField (Some "author") false (Named "string"); mkField (Some "generation") false (Named "varint"); mkField (Some
     "pages") false (Inline (ArrayOf (Named "ItemWrittenBookPage") (Some "varint") None)); mkField (Some "resolved") false (Named "bool")]))] None))]))].
Definition protocol_types_3 : btree TypeDef :=
  [("SlotComponentType", Compound (MapperOf "varint" [("0", "custom_data"); ("1", "max_stack_size"); ("10", "enchantments"); ("11", "can_place_on");
     ("12", "can_break"); ("13", "attribute_modifiers"); ("14", "custom_model_data"); ("15", "hide_additional_tooltip"); ("16", "hide_tooltip"); ("17",
     "repair_cost"); ("18", "creative_slot_lock"); ("19", "enchantment_glint_override"); ("2", "max_damage"); ("20", "intangible_projectile"); ("21",
     "food"); ("22", "consumable"); ("23", "use_remainder"); ("24", "use_cooldown"); ("25", "damage_resistant"); ("26", "tool"); ("27", "enchantable");
     ("28", "equippable"); ("29", "repairable"); ("3", "damage"); ("30", "glider"); ("31", "tooltip_style"); ("32", "death_protection"); ("33",
     "stored_enchantments"); ("34", "dyed_color"); ("35", "map_color"); ("36", "map_id"); ("37", "map_decorations"); ("38", "map_post_processing");
     ("39", "charged_projectiles"); ("4", "unbreakable"); ("40", "bundle_contents"); ("41", "potion_contents"); ("42", "suspicious_stew_effects");
     ("43", "writable_book_content"); ("44", "written_book_content"); ("45", "trim"); ("46", "debug_stick_state"); ("47", "entity_data"); ("48",
     "bucket_entity_data"); ("49", "block_entity_data"); ("5", "custom_name"); ("50", "instrument"); ("51", "ominous_bottle_amplifier"); ("52",
     "jukebox_playable"); ("53", "recipes"); ("54", "lodestone_tracker"); ("55", "firework_explosion"); ("56", "fireworks"); ("57", "profile"); ("58",
     "note_block_sound"); ("59", "banner_patterns"); ("6", "item_name"); ("60", "base_color"); ("61", "pot_decorations"); ("62", "container"); ("63",
     "block_state"); ("64", "bees"); ("65", "lock"); ("66", "container_loot"); ("7", "item_model"); ("8", "lore"); ("9", "rarity")]));
   ("UUID", Native);
   ("anonOptionalNbt", Native);
   ("anonymousNbt", Native);
   ("array", Native);
   ("bitfield", Native);
   ("bitflags", Native);
   ("bool", Native);
   ("buffer", Native);
   ("chat_session", Compound (OptionOf (Inline (Container [mkField (Some "uuid") false (Named "UUID"); mkField (Some "publicKey") false (Inline (Container
     [mkField (Some "expireTime") false (Named "i64"); mkField (Some "keyBytes") false (Inline (BufferOf (Some "varint") None)); mkField (Some
     "keySignature") false (Inline (BufferOf (Some "varint") None))]))]))));
   ("chunkBlockEntity", Compound (Container [mkField None true (Inline (Bitfield [mkMember "x" 4 false; mkMember "z" 4 false])); mkField (Some "y") false
     (Named "i16"); mkField (Some "type") false (Named "varint"); mkField (Some "nbtData") false (Named "anonOptionalNbt")]))].
Definition protocol_types_4 : btree TypeDef :=
  [("command_node", Compound (Container [mkField (Some "flags") false (Inline (Bitfield [mkMember "unused" 3 false; mkMember "has_custom_suggestions" 1
     false; mkMember "has_redirect_node" 1 false; mkMember "has_command" 1 false; mkMember "command_node_type" 2 false])); mkField (Some "children")
     false (Inline (ArrayOf (Named "varint") (Some "varint") None)); mkField (Some "redirectNode") false (Inline (SwitchOn "flags/has_redirect_node"
     [("1", Named "varint")] (Some (Named "void")))); mkField (Some "extraNodeData") false (Inline (SwitchOn "flags/command_node_type" [("0", Named
     "void"); ("1", Inline (Container [mkField (Some "name") false (Named "string")])); ("2", Inline (Container [mkField (Some "name") false (Named
     "string"); mkField (Some "parser") false (Inline (MapperOf "varint" [("0", "brigadier:bool"); ("1", "brigadier:float"); ("10", "minecraft:vec3");
     ("11", "minecraft:vec2"); ("12", "minecraft:block_state"); ("13", "minecraft:block_predicate"); ("14", "minecraft:item_stack"); ("15",
     "minecraft:item_predicate"); ("16", "minecraft:color"); ("17", "minecraft:component"); ("18", "minecraft:style"); ("19", "minecraft:message");
     ("2", "brigadier:double"); ("20", "minecraft:nbt"); ("21", "minecraft:nbt_tag"); ("22", "minecraft:nbt_path"); ("23", "minecraft:objective");
     ("24", "minecraft:objective_criteria"); ("25", "minecraft:operation"); ("26", "minecraft:particle"); ("27", "minecraft:angle"); ("28",
     "minecraft:rotation"); ("29", "minecraft:scoreboard_slot"); ("3", "brigadier:integer"); ("30", "minecraft:score_holder"); ("31",
     "minecraft:swizzle"); ("32", "minecraft:team"); ("33", "minecraft:item_slot"); ("34", "minecraft:item_slots"); ("35",
     "minecraft:resource_location"); ("36", "minecraft:function"); ("37", "minecraft:entity_anchor"); ("38", "minecraft:int_range"); ("39",
     "minecraft:float_range"); ("4", "brigadier:long"); ("40", "minecraft:dimension"); ("41", "minecraft:gamemode"); ("42", "minecraft:time"); ("43",
     "minecraft:resource_or_tag"); ("44", "minecraft:resource_or_tag_key"); ("45", "minecraft:resource"); ("46", "minecraft:resource_key"); ("47",
     "minecraft:template_mirror"); ("48", "minecraft:template_rotation"); ("49", "minecraft:heightmap"); ("5", "brigadier:string"); ("50",
     "minecraft:loot_table"); ("51", "minecraft:loot_predicate"); ("52", "minecraft:loot_modifier"); ("53", "minecraft:uuid"); ("6",
     "minecraft:entity"); ("7", "minecraft:game_profile"); ("8", "minecraft:block_pos"); ("9", "minecraft:column_pos")])); mkField (Some "properties")
     false (Inline (SwitchOn "parser" [("brigadier:bool", Named "void"); ("brigadier:double", Inline (Container [mkField (Some "flags") false (Inline
     (Bitfield [mkMember "unused" 6 false; mkMember "max_present" 1 false; mkMember "min_present" 1 false])); mkField (Some "min") false (Inline
     (SwitchOn "flags/min_present" [("1", Named "f64")] (Some (Named "void")))); mkField (Some "max") false (Inline (SwitchOn "flags/max_present"
     [("1", Named "f64")] (Some (Named "void"))))])); ("brigadier:float", Inline (Container [mkField (Some "flags") false (Inline (Bitfield [mkMember
     "unused" 6 false; mkMember "max_present" 1 false; mkMember "min_present" 1 false])); mkField (Some "min") false (Inline (SwitchOn
     "flags/min_present" [("1", Named "f32")] (Some (Named "void")))); mkField (Some "max") false (Inline (SwitchOn "flags/max_present" [("1", Named
     "f32")] (Some (Named "void"))))])); ("brigadier:integer", Inline (Container [mkField (Some "flags") false (Inline (Bitfield [mkMember "unused" 6
     false; mkMember "max_present" 1 false; mkMember "min_present" 1 false])); mkField (Some "min") false (Inline (SwitchOn "flags/min_present" [("1",
     Named "i32")] (Some (Named "void")))); mkField (Some "max") false (Inline (SwitchOn "flags/max_present" [("1", Named "i32")] (Some (Named
     "void"))))])); ("brigadier:long", Inline (Container [mkField (Some "flags") false (Inline (Bitfield [mkMember "unused" 6 false; mkMember
     "max_present" 1 false; mkMember "min_present" 1 false])); mkField (Some "min") false (Inline (SwitchOn "flags/min_present" [("1", Named "i64")]
     (Some (Named "void")))); mkField (Some "max") false (Inline (SwitchOn "flags/max_present" [("1", Named "i64")] (Some (Named "void"))))]));
     ("brigadier:string", Inline (MapperOf "varint" [("0", "SINGLE_WORD"); ("1", "QUOTABLE_PHRASE"); ("2", "GREEDY_PHRASE")])); ("minecraft:angle",
     Named "void"); ("minecraft:block_pos", Named "void"); ("minecraft:block_predicate", Named "void"); ("minecraft:block_state", Named "void");
     ("minecraft:color", Named "void"); ("minecraft:column_pos", Named "void"); ("minecraft:component", Named "void"); ("minecraft:dimension", Named
     "void"); ("minecraft:entity", Inline (Bitfield [mkMember "unused" 6 false; mkMember "onlyAllowPlayers" 1 false; mkMember "onlyAllowEntities" 1
     false])); ("minecraft:entity_anchor", Named "void"); ("minecraft:float_range", Named "void"); ("minecraft:function", Named "void");
     ("minecraft:game_profile", Named "void"); ("minecraft:gamemode", Named "void"); ("minecraft:heightmap", Named "void"); ("minecraft:int_range",
     Named "void"); ("minecraft:item_predicate", Named "void"); ("minecraft:item_slot", Named "void"); ("minecraft:item_stack", Named "void");
     ("minecraft:message", Named "void"); ("minecraft:nbt", Named "void"); ("minecraft:nbt_path", Named "void"); ("minecraft:objective", Named "void");
     ("minecraft:objective_criteria", Named "void"); ("minecraft:operation", Named "void"); ("minecraft:particle", Named "void");
     ("minecraft:resource", Inline (Container [mkField (Some "registry") false (Named "string")])); ("minecraft:resource_key", Inline (Container
     [mkField (Some "registry") false (Named "string")])); ("minecraft:resource_location", Named "void"); ("minecraft:resource_or_tag", Inline
     (Container [mkField (Some "registry") false (Named "string")])); ("minecraft:resource_or_tag_key", Inline (Container [mkField (Some "registry")
     false (Named "string")])); ("minecraft:rotation", Named "void"); ("minecraft:score_holder", Inline (Bitfield [mkMember "unused" 7 false; mkMember
     "allowMultiple" 1 false])); ("minecraft:scoreboard_slot", Named "void"); ("minecraft:swizzle", Named "void"); ("minecraft:team", Named "void");
     ("minecraft:template_mirror", Named "void"); ("minecraft:template_rotation", Named "void"); ("minecraft:time", Inline (Container [mkField (Some
     "min") false (Named "i32")])); ("minecraft:uuid", Named "void"); ("minecraft:vec2", Named "void"); ("minecraft:vec3", Named "void")] None));
     mkField (Some "suggestionType") false (Inline (SwitchOn "../flags/has_custom_suggestions" [("1", Named "string")] (Some (Named "void"))))]))]
     None))]));
   ("container", Native);
   ("entityMetadata", Compound (EntityMetadataLoop 255 (Named "entityMetadataEntry")))].
Definition protocol_types_5 : btree TypeDef :=
  [("entityMetadataEntry", Compound (Container [mkField (Some "key") false (Named "u8"); mkField (Some "type") false (Inline (MapperOf "varint" [("0",
     "byte"); ("1", "int"); ("10", "block_pos"); ("11", "optional_block_pos"); ("12", "direction"); ("13", "optional_uuid"); ("14", "block_state");
     ("15", "optional_block_state"); ("16", "compound_tag"); ("17", "particle"); ("18", "particles"); ("19", "villager_data"); ("2", "long"); ("20",
     "optional_unsigned_int"); ("21", "pose"); ("22", "cat_variant"); ("23", "wolf_variant"); ("24", "frog_variant"); ("25", "optional_global_pos");
     ("26", "painting_variant"); ("27", "sniffer_state"); ("28", "armadillo_state"); ("29", "vector3"); ("3", "float"); ("30", "quaternion"); ("4",
     "string"); ("5", "component"); ("6", "optional_component"); ("7", "item_stack"); ("8", "boolean"); ("9", "rotations")])); mkField (Some "value")
     false (Inline (SwitchOn "type" [("armadillo_state", Named "varint"); ("block_pos", Named "position"); ("block_state", Named "varint"); ("boolean",
     Named "bool"); ("byte", Named "i8"); ("cat_variant", Named "varint"); ("component", Named "anonymousNbt"); ("compound_tag", Named "anonymousNbt");
     ("direction", Named "varint"); ("float", Named "f32"); ("frog_variant", Named "varint"); ("int", Named "varint"); ("item_stack", Named "Slot");
     ("long", Named "varlong"); ("optional_block_pos", Inline (OptionOf (Named "position"))); ("optional_block_state", Named "optvarint");
     ("optional_component", Inline (OptionOf (Named "anonymousNbt"))); ("optional_global_pos", Inline (OptionOf (Named "string")));
     ("optional_unsigned_int", Named "optvarint"); ("optional_uuid", Inline (OptionOf (Named "UUID"))); ("painting_variant", Inline
     (RegistryEntryHolder "variantId" "variantData" (Named "EntityMetadataPaintingVariant"))); ("particle", Named "Particle"); ("particles", Inline
     (ArrayOf (Named "Particle") (Some "varint") None)); ("pose", Named "varint"); ("quaternion", Named "vec4f"); ("rotations", Inline (Container
     [mkField (Some "pitch") false (Named "f32"); mkField (Some "yaw") false (Named "f32"); mkField (Some "roll") false (Named "f32")]));
     ("sniffer_state", Named "varint"); ("string", Named "string"); ("vector3", Named "vec3f"); ("villager_data", Inline (Container [mkField (Some
     "villagerType") false (Named "varint"); mkField (Some "villagerProfession") false (Named "varint"); mkField (Some "level") false (Named
     "varint")])); ("wolf_variant", Inline (RegistryEntryHolder "variantId" "variantData" (Named "EntityMetadataWolfVariant")))] None))]));
   ("entityMetadataLoop", Native);
   ("f32", Native);
   ("f64", Native);
   ("game_profile", Compound (Container [mkField (Some "name") false (Named "string"); mkField (Some "properties") false (Inline (ArrayOf (Inline
     (Container [mkField (Some "name") false (Named "string"); mkField (Some "value") false (Named "string"); mkField (Some "signature") false (Inline
     (OptionOf (Named "string")))])) (Some "varint") None))]));
   ("i16", Native);
   ("i32", Native);
   ("i64", Native);
   ("i8", Native);
   ("ingredient", Compound (ArrayOf (Named "Slot") (Some "varint") None));
   ("option", Native);
   ("optvarint", Alias "varint");
   ("packedChunkPos", Compound (Container [mkField (Some "z") false (Named "i32"); mkField (Some "x") false (Named "i32")]));
   ("packet_common_add_resource_pack", Compound (Container [mkField (Some "uuid") false (Named "UUID"); mkField (Some "url") false (Named "string");
     mkField (Some "hash") false (Named "string"); mkField (Some "forced") false (Named "bool"); mkField (Some "promptMessage") false (Inline (OptionOf
     (Named "anonymousNbt")))]));
   ("packet_common_cookie_request", Compound (Container [mkField (Some "cookie") false (Named "string")]));
   ("packet_common_cookie_response", Compound (Container [mkField (Some "key") false (Named "string"); mkField (Some "value") false (Inline (OptionOf
     (Named "ByteArray")))]));
   ("packet_common_custom_report_details", Compound (Container [mkField (Some "details") false (Inline (ArrayOf (Inline (Container [mkField (Some "key")
     false (Named "string"); mkField (Some "value") false (Named "string")])) (Some "varint") None))]));
   ("packet_common_remove_resource_pack", Compound (Container [mkField (Some "uuid") false (Inline (OptionOf (Named "UUID")))]));
   ("packet_common_select_known_packs", Compound (Container [mkField (Some "packs") false (Inline (ArrayOf (Inline (Container [mkField (Some "namespace")
     false (Named "string"); mkField (Some "id") false (Named "string"); mkField (Some "version") false (Named "string")])) (Some "varint") None))]));
   ("packet_common_server_links", Compound (Container [mkField (Some "links") false (Inline (ArrayOf (Inline (Container [mkField (Some "hasKnownType")
     false (Named "bool"); mkField (Some "knownType") false (Inline (SwitchOn "hasKnownType" [("true", Named "ServerLinkType")] None)); mkField (Some
     "unknownType") false (Inline (SwitchOn "hasKnownType" [("false", Named "anonymousNbt")] None)); mkField (Some "link") false (Named "string")]))
     (Some "varint") None))]));
   ("packet_common_settings", Compound (Container [mkField (Some "locale") false (Named "string"); mkField (Some "viewDistance") false (Named "i8");
     mkField (Some "chatFlags") false (Named "varint"); mkField (Some "chatColors") false (Named "bool"); mkField (Some "skinParts") false (Named
     "u8"); mkField (Some "mainHand") false (Named "varint"); mkField (Some "enableTextFiltering") false (Named "bool"); mkField (Some
     "enableServerListing") false (Named "bool"); mkField (Some "particleStatus") false (Inline (MapperOf "varint" [("0", "all"); ("1", "decreased");
     ("2", "minimal")]))]));
   ("packet_common_store_cookie", Compound (Container [mkField (Some "key") false (Named "string"); mkField (Some "value") false (Named "ByteArray")]));
   ("packet_common_transfer", Compound (Container [mkField (Some "host") false (Named "string"); mkField (Some "port") false (Named "varint")]));
   ("position", Compound (Bitfield [mkMember "x" 26 true; mkMember "z" 26 true; mkMember "y" 12 true]));
   ("previousMessages", Compound (ArrayOf (Inline (Container [mkField (Some "id") false (Named "varint"); mkField (Some "signature") false (Inline
     (SwitchOn "id" [("0", Inline (BufferOf None (Some 256)))] (Some (Named "void"))))])) (Some "varint") None));
   ("pstring", Native);
   ("registryEntryHolder", Native);
   ("registryEntryHolderSet", Native);
   ("restBuffer", Native);
   ("soundSource", Compound (MapperOf "varint" [("0", "master"); ("1", "music"); ("2", "record"); ("3", "weather"); ("4", "block"); ("5", "hostile");
     ("6", "neutral"); ("7", "player"); ("8", "ambient"); ("9", "voice")]));
   ("string", Compound (Pstring (Some "varint")));
   ("switch", Native);
   ("tags", Compound (ArrayOf (Inline (Container [mkField (Some "tagName") false (Named "string"); mkField (Some "entries") false (Inline (ArrayOf (Named
     "varint") (Some "varint") None))])) (Some "varint") None));
   ("topBitSetTerminatedArray", Native);
   ("u16", Native);
   ("u32", Native);
   ("u64", Native);
   ("u8", Native);
   ("varint", Native);
   ("varlong", Native);
   ("vec2f", Compound (Container [mkField (Some "x") false (Named "f32"); mkField (Some "y") false (Named "f32")]));
   ("vec3f", Compound (Container [mkField (Some "x") false (Named "f32"); mkField (Some "y") false (Named "f32"); mkField (Some "z") false (Named
     "f32")]));
   ("vec3f64", Compound (Container [mkField (Some "x") false (Named "f64"); mkField (Some "y") false (Named "f64"); mkField (Some "z") false (Named
     "f64")]));
   ("vec3i16", Compound (Container [mkField (Some "x") false (Named "i16"); mkField (Some "y") false (Named "i16"); mkField (Some "z") false (Named
     "i16")]));
   ("vec4f", Compound (Container [mkField (Some "x") false (Named "f32"); mkField (Some "y") false (Named "f32"); mkField (Some "z") false (Named "f32");
     mkField (Some "w") false (Named "f32")]));
   ("void", Native)].
Definition protocol_types : btree TypeDef :=
  protocol_types_0 ++ protocol_types_1 ++ protocol_types_2 ++ protocol_types_3 ++ protocol_types_4 ++ protocol_types_5.

Definition protocol_handshaking_client_0 : btree TypeDef :=
  [("packet", Compound (Container [mkField (Some "name") false (Inline (MapperOf "varint" [])); mkField (Some "params") false (Inline (SwitchOn "name" []
     None))]))].
Definition protocol_handshaking_client : btree TypeDef :=
  protocol_handshaking_client_0.

Definition protocol_handshaking_server_0 : btree TypeDef :=
  [("packet", Compound (Container [mkField (Some "name") false (Inline (MapperOf "varint" [("0x00", "set_protocol"); ("0xfe",
     "legacy_server_list_ping")])); mkField (Some "params") false (Inline (SwitchOn "name" [("legacy_server_list_ping", Named
     "packet_legacy_server_list_ping"); ("set_protocol", Named "packet_set_protocol")] None))]));
   ("packet_legacy_server_list_ping", Compound (Container [mkField (Some "payload") false (Named "u8")]));
   ("packet_set_protocol", Compound (Container [mkField (Some "protocolVersion") false (Named "varint"); mkField (Some "serverHost") false (Named
     "string"); mkField (Some "serverPort") false (Named "u16"); mkField (Some "nextState") false (Named "varint")]))].
Definition protocol_handshaking_server : btree TypeDef :=
  protocol_handshaking_server_0.

Definition protocol_status_client_0 : btree TypeDef :=
  [("packet", Compound (Container [mkField (Some "name") false (Inline (MapperOf "varint" [("0x00", "server_info"); ("0x01", "ping")])); mkField (Some
     "params") false (Inline (SwitchOn "name" [("ping", Named "packet_ping"); ("server_info", Named "packet_server_info")] None))]));
   ("packet_ping", Compound (Container [mkField (Some "time") false (Named "i64")]));
   ("packet_server_info", Compound (Container [mkField (Some "response") false (Named "string")]))].
Definition protocol_status_client : btree TypeDef :=
  protocol_status_client_0.

Definition protocol_status_server_0 : btree TypeDef :=
  [("packet", Compound (Container [mkField (Some "name") false (Inline (MapperOf "varint" [("0x00", "ping_start"); ("0x01", "ping")])); mkField (Some
     "params") false (Inline (SwitchOn "name" [("ping", Named "packet_ping"); ("ping_start", Named "packet_ping_start")] None))]));
   ("packet_ping", Compound (Container [mkField (Some "time") false (Named "i64")]));
   ("packet_ping_start", Compound (Container []))].
Definition protocol_status_server : btree TypeDef :=
  protocol_status_server_0.

Definition protocol_login_client_0 : btree TypeDef :=
  [("packet", Compound (Container [mkField (Some "name") false (Inline (MapperOf "varint" [("0x00", "disconnect"); ("0x01", "encryption_begin"); ("0x02",
     "success"); ("0x03", "compress"); ("0x04", "login_plugin_request"); ("0x05", "cookie_request")])); mkField (Some "params") false (Inline (SwitchOn
     "name" [("compress", Named "packet_compress"); ("cookie_request", Named "packet_common_cookie_request"); ("disconnect", Named
     "packet_disconnect"); ("encryption_begin", Named "packet_encryption_begin"); ("login_plugin_request", Named "packet_login_plugin_request");
     ("success", Named "packet_success")] None))]));
   ("packet_compress", Compound (Container [mkField (Some "threshold") false (Named "varint")]));
   ("packet_disconnect", Compound (Container [mkField (Some "reason") false (Named "string")]));
   ("packet_encryption_begin", Compound (Container [mkField (Some "serverId") false (Named "string"); mkField (Some "publicKey") false (Inline (BufferOf
     (Some "varint") None)); mkField (Some "verifyToken") false (Inline (BufferOf (Some "varint") None)); mkField (Some "shouldAuthenticate") false
     (Named "bool")]));
   ("packet_login_plugin_request", Compound (Container [mkField (Some "messageId") false (Named "varint"); mkField (Some "channel") false (Named
     "string"); mkField (Some "data") false (Named "restBuffer")]));
   ("packet_success", Compound (Container [mkField (Some "uuid") false (Named "UUID"); mkField (Some "username") false (Named "string"); mkField (Some
     "properties") false (Inline (ArrayOf (Inline (Container [mkField (Some "name") false (Named "string"); mkField (Some "value") false (Named
     "string"); mkField (Some "signature") false (Inline (OptionOf (Named "string")))])) (Some "varint") None))]))].
Definition protocol_login_client : btree TypeDef :=
  protocol_login_client_0.

Definition protocol_login_server_0 : btree TypeDef :=
  [("packet", Compound (Container [mkField (Some "name") false (Inline (MapperOf "varint" [("0x00", "login_start"); ("0x01", "encryption_begin"); ("0x02",
     "login_plugin_response"); ("0x03", "login_acknowledged"); ("0x04", "cookie_response")])); mkField (Some "params") false (Inline (SwitchOn "name"
     [("cookie_response", Named "packet_common_cookie_response"); ("encryption_begin", Named "packet_encryption_begin"); ("login_acknowledged", Named
     "packet_login_acknowledged"); ("login_plugin_response", Named "packet_login_plugin_response"); ("login_start", Named "packet_login_start")]
     None))]));
   ("packet_encryption_begin", Compound (Container [mkField (Some "sharedSecret") false (Inline (BufferOf (Some "varint") None)); mkField (Some
     "verifyToken") false (Inline (BufferOf (Some "varint") None))]));
   ("packet_login_acknowledged", Compound (Container []));
   ("packet_login_plugin_response", Compound (Container [mkField (Some "messageId") false (Named "varint"); mkField (Some "data") false (Inline (OptionOf
     (Named "restBuffer")))]));
   ("packet_login_start", Compound (Container [mkField (Some "username") false (Named "string"); mkField (Some "playerUUID") false (Named "UUID")]))].
Definition protocol_login_server : btree TypeDef :=
  protocol_login_server_0.

Definition protocol_configuration_client_0 : btree TypeDef :=
  [("packet", Compound (Container [mkField (Some "name") false (Inline (MapperOf "varint" [("0x00", "cookie_request"); ("0x01", "custom_payload");
     ("0x02", "disconnect"); ("0x03", "finish_configuration"); ("0x04", "keep_alive"); ("0x05", "ping"); ("0x06", "reset_chat"); ("0x07",
     "registry_data"); ("0x08", "remove_resource_pack"); ("0x09", "add_resource_pack"); ("0x0a", "store_cookie"); ("0x0b", "transfer"); ("0x0c",
     "feature_flags"); ("0x0d", "tags"); ("0x0e", "select_known_packs"); ("0x0f", "custom_report_details"); ("0x10", "server_links")])); mkField (Some
     "params") false (Inline (SwitchOn "name" [("add_resource_pack", Named "packet_common_add_resource_pack"); ("cookie_request", Named
     "packet_common_cookie_request"); ("custom_payload", Named "packet_custom_payload"); ("custom_report_details", Named
     "packet_common_custom_report_details"); ("disconnect", Named "packet_disconnect"); ("feature_flags", Named "packet_feature_flags");
     ("finish_configuration", Named "packet_finish_configuration"); ("keep_alive", Named "packet_keep_alive"); ("ping", Named "packet_ping");
     ("registry_data", Named "packet_registry_data"); ("remove_resource_pack", Named "packet_common_remove_resource_pack"); ("reset_chat", Named
     "packet_reset_chat"); ("select_known_packs", Named "packet_common_select_known_packs"); ("server_links", Named "packet_common_server_links");
     ("store_cookie", Named "packet_common_store_cookie"); ("tags", Named "packet_tags"); ("transfer", Named "packet_common_transfer")] None))]));
   ("packet_custom_payload", Compound (Container [mkField (Some "channel") false (Named "string"); mkField (Some "data") false (Named "restBuffer")]));
   ("packet_disconnect", Compound (Container [mkField (Some "reason") false (Named "anonymousNbt")]));
   ("packet_feature_flags", Compound (Container [mkField (Some "features") false (Inline (ArrayOf (Named "string") (Some "varint") None))]));
   ("packet_finish_configuration", Compound (Container []));
   ("packet_keep_alive", Compound (Container [mkField (Some "keepAliveId") false (Named "i64")]));
   ("packet_ping", Compound (Container [mkField (Some "id") false (Named "i32")]));
   ("packet_registry_data", Compound (Container [mkField (Some "id") false (Named "string"); mkField (Some "entries") false (Inline (ArrayOf (Inline
     (Container [mkField (Some "key") false (Named "string"); mkField (Some "value") false (Inline (OptionOf (Named "anonymousNbt")))])) (Some
     "varint") None))]));
   ("packet_reset_chat", Compound (Container []));
   ("packet_tags", Compound (Container [mkField (Some "tags") false (Inline (ArrayOf (Inline (Container [mkField (Some "tagType") false (Named "string");
     mkField (Some "tags") false (Named "tags")])) (Some "varint") None))]))].
Definition protocol_configuration_client : btree TypeDef :=
  protocol_configuration_client_0.

Definition protocol_configuration_server_0 : btree TypeDef :=
  [("packet", Compound (Container [mkField (Some "name") false (Inline (MapperOf "varint" [("0x00", "settings"); ("0x01", "cookie_response"); ("0x02",
     "custom_payload"); ("0x03", "finish_configuration"); ("0x04", "keep_alive"); ("0x05", "pong"); ("0x06", "resource_pack_receive"); ("0x07",
     "select_known_packs"); ("0x08", "custom_report_details"); ("0x09", "server_links")])); mkField (Some "params") false (Inline (SwitchOn "name"
     [("cookie_response", Named "packet_common_cookie_response"); ("custom_payload", Named "packet_custom_payload"); ("custom_report_details", Named
     "packet_common_custom_report_details"); ("finish_configuration", Named "packet_finish_configuration"); ("keep_alive", Named "packet_keep_alive");
     ("pong", Named "packet_pong"); ("resource_pack_receive", Named "packet_resource_pack_receive"); ("select_known_packs", Named
     "packet_common_select_known_packs"); ("server_links", Named "packet_common_server_links"); ("settings", Named "packet_common_settings")] None))]));
   ("packet_custom_payload", Compound (Container [mkField (Some "channel") false (Named "string"); mkField (Some "data") false (Named "restBuffer")]));
   ("packet_finish_configuration", Compound (Container []));
   ("packet_keep_alive", Compound (Container [mkField (Some "keepAliveId") false (Named "i64")]));
   ("packet_pong", Compound (Container [mkField (Some "id") false (Named "i32")]));
   ("packet_resource_pack_receive", Compound (Container [mkField (Some "uuid") false (Named "UUID"); mkField (Some "result") false (Named "varint")]))].
Definition protocol_configuration_server : btree TypeDef :=
  protocol_configuration_server_0.

Definition protocol_play_client_0 : btree TypeDef :=
  [("ChatType", Compound (Container [mkField (Some "translationKey") false (Named "string"); mkField (Some "parameters") false (Inline (ArrayOf (Named
     "ChatTypeParameterType") (Some "varint") None)); mkField (Some "style") false (Named "anonymousNbt")]));
   ("ChatTypeParameterType", Compound (MapperOf "varint" [("0", "content"); ("1", "sender"); ("2", "target")]));
   ("ChatTypes", Compound (Container [mkField (Some "chat") false (Named "ChatType"); mkField (Some "narration") false (Named "ChatType")]));
   ("ChatTypesHolder", Compound (RegistryEntryHolder "chatType" "data" (Named "ChatTypes")));
   ("PositionUpdateRelatives", Compound (Bitflags "u32" ["x"; "y"; "z"; "yaw"; "pitch"; "dx"; "dy"; "dz"; "yawDelta"]));
   ("RecipeDisplay", Compound (Container [mkField (Some "type") false (Inline (MapperOf "varint" [("0", "crafting_shapeless"); ("1", "crafting_shaped");
     ("2", "furnace"); ("3", "stonecutter"); ("4", "smithing")])); mkField (Some "data") false (Inline (SwitchOn "type" [("crafting_shaped", Inline
     (Container [mkField (Some "width") false (Named "varint"); mkField (Some "height") false (Named "varint"); mkField (Some "ingredients") false
     (Inline (ArrayOf (Named "SlotDisplay") (Some "varint") None)); mkField (Some "result") false (Named "SlotDisplay"); mkField (Some
     "craftingStation") false (Named "SlotDisplay")])); ("crafting_shapeless", Inline (Container [mkField (Some "ingredients") false (Inline (ArrayOf
     (Named "SlotDisplay") (Some "varint") None)); mkField (Some "result") false (Named "SlotDisplay"); mkField (Some "craftingStation") false (Named
     "SlotDisplay")])); ("furnace", Inline (Container [mkField (Some "ingredient") false (Named "SlotDisplay"); mkField (Some "fuel") false (Named
     "SlotDisplay"); mkField (Some "result") false (Named "SlotDisplay"); mkField (Some "craftingStation") false (Named "SlotDisplay"); mkField (Some
     "duration") false (Named "varint"); mkField (Some "experience") false (Named "f32")])); ("smithing", Inline (Container [mkField (Some "template")
     false (Named "SlotDisplay"); mkField (Some "base") false (Named "SlotDisplay"); mkField (Some "addition") false (Named "SlotDisplay"); mkField
     (Some "result") false (Named "SlotDisplay"); mkField (Some "craftingStation") false (Named "SlotDisplay")])); ("stonecutter", Inline (Container
     [mkField (Some "ingredient") false (Named "SlotDisplay"); mkField (Some "result") false (Named "SlotDisplay"); mkField (Some "craftingStation")
     false (Named "SlotDisplay")]))] None))]));
   ("SlotDisplay", Compound (Container [mkField (Some "type") false (Inline (MapperOf "varint" [("0", "empty"); ("1", "any_fuel"); ("2", "item"); ("3",
     "item_stack"); ("4", "tag"); ("5", "smithing_trim"); ("6", "with_remainder"); ("7", "composite")])); mkField (Some "data") false (Inline (SwitchOn
     "type" [("any_fuel", Named "void"); ("composite", Inline (ArrayOf (Named "SlotDisplay") (Some "varint") None)); ("empty", Named "void"); ("item",
     Named "varint"); ("item_stack", Named "Slot"); ("smithing_trim", Inline (Container [mkField (Some "base") false (Named "SlotDisplay"); mkField
     (Some "material") false (Named "SlotDisplay"); mkField (Some "pattern") false (Named "SlotDisplay")])); ("tag", Named "string");
     ("with_remainder", Inline (Container [mkField (Some "input") false (Named "SlotDisplay"); mkField (Some "remainder") false (Named
     "SlotDisplay")]))] None))]));
   ("SpawnInfo", Compound (Container [mkField (Some "dimension") false (Named "varint"); mkField (Some "name") false (Named "string"); mkField (Some
     "hashedSeed") false (Named "i64"); mkField (Some "gamemode") false (Inline (MapperOf "i8" [("0", "survival"); ("1", "creative"); ("2",
     "adventure"); ("3", "spectator")])); mkField (Some "previousGamemode") false (Named "u8"); mkField (Some "isDebug") false (Named "bool"); mkField
     (Some "isFlat") false (Named "bool"); mkField (Some "death") false (Inline (OptionOf (Inline (Container [mkField (Some "dimensionName") false
     (Named "string"); mkField (Some "location") false (Named "position")])))); mkField (Some "portalCooldown") false (Named "varint"); mkField (Some
     "seaLevel") false (Named "varint")]))].
Definition protocol_play_client_1 : btree TypeDef :=
  [("packet", Compound (Container [mkField (Some "name") false (Inline (MapperOf "varint" [("0x00", "bundle_delimiter"); ("0x01", "spawn_entity");
     ("0x02", "spawn_entity_experience_orb"); ("0x03", "animation"); ("0x04", "statistics"); ("0x05", "acknowledge_player_digging"); ("0x06",
     "block_break_animation"); ("0x07", "tile_entity_data"); ("0x08", "block_action"); ("0x09", "block_change"); ("0x0a", "boss_bar"); ("0x0b",
     "difficulty"); ("0x0c", "chunk_batch_finished"); ("0x0d", "chunk_batch_start"); ("0x0e", "chunk_biomes"); ("0x0f", "clear_titles"); ("0x10",
     "tab_complete"); ("0x11", "declare_commands"); ("0x12", "close_window"); ("0x13", "window_items"); ("0x14", "craft_progress_bar"); ("0x15",
     "set_slot"); ("0x16", "cookie_request"); ("0x17", "set_cooldown"); ("0x18", "chat_suggestions"); ("0x19", "custom_payload"); ("0x1a",
     "damage_event"); ("0x1b", "debug_sample"); ("0x1c", "hide_message"); ("0x1d", "kick_disconnect"); ("0x1e", "profileless_chat"); ("0x1f",
     "entity_status"); ("0x20", "sync_entity_position"); ("0x21", "explosion"); ("0x22", "unload_chunk"); ("0x23", "game_state_change"); ("0x24",
     "open_horse_window"); ("0x25", "hurt_animation"); ("0x26", "initialize_world_border"); ("0x27", "keep_alive"); ("0x28", "map_chunk"); ("0x29",
     "world_event"); ("0x2a", "world_particles"); ("0x2b", "update_light"); ("0x2c", "login"); ("0x2d", "map"); ("0x2e", "trade_list"); ("0x2f",
     "rel_entity_move"); ("0x30", "entity_move_look"); ("0x31", "move_minecart"); ("0x32", "entity_look"); ("0x33", "vehicle_move"); ("0x34",
     "open_book"); ("0x35", "open_window"); ("0x36", "open_sign_entity"); ("0x37", "ping"); ("0x38", "ping_response"); ("0x39",
     "craft_recipe_response"); ("0x3a", "abilities"); ("0x3b", "player_chat"); ("0x3c", "end_combat_event"); ("0x3d", "enter_combat_event"); ("0x3e",
     "death_combat_event"); ("0x3f", "player_remove"); ("0x40", "player_info"); ("0x41", "face_player"); ("0x42", "position"); ("0x43",
     "player_rotation"); ("0x44", "recipe_book_add"); ("0x45", "recipe_book_remove"); ("0x46", "recipe_book_settings"); ("0x47", "entity_destroy");
     ("0x48", "remove_entity_effect"); ("0x49", "reset_score"); ("0x4a", "remove_resource_pack"); ("0x4b", "add_resource_pack"); ("0x4c", "respawn");
     ("0x4d", "entity_head_rotation"); ("0x4e", "multi_block_change"); ("0x4f", "select_advancement_tab"); ("0x50", "server_data"); ("0x51",
     "action_bar"); ("0x52", "world_border_center"); ("0x53", "world_border_lerp_size"); ("0x54", "world_border_size"); ("0x55",
     "world_border_warning_delay"); ("0x56", "world_border_warning_reach"); ("0x57", "camera"); ("0x58", "update_view_position"); ("0x59",
     "update_view_distance"); ("0x5a", "set_cursor_item"); ("0x5b", "spawn_position"); ("0x5c", "scoreboard_display_objective"); ("0x5d",
     "entity_metadata"); ("0x5e", "attach_entity"); ("0x5f", "entity_velocity"); ("0x60", "entity_equipment"); ("0x61", "experience"); ("0x62",
     "update_health"); ("0x63", "held_item_slot"); ("0x64", "scoreboard_objective"); ("0x65", "set_passengers"); ("0x66", "set_player_inventory");
     ("0x67", "teams"); ("0x68", "scoreboard_score"); ("0x69", "simulation_distance"); ("0x6a", "set_title_subtitle"); ("0x6b", "update_time");
     ("0x6c", "set_title_text"); ("0x6d", "set_title_time"); ("0x6e", "entity_sound_effect"); ("0x6f", "sound_effect"); ("0x70",
     "start_configuration"); ("0x71", "stop_sound"); ("0x72", "store_cookie"); ("0x73", "system_chat"); ("0x74", "playerlist_header"); ("0x75",
     "nbt_query_response"); ("0x76", "collect"); ("0x77", "entity_teleport"); ("0x78", "set_ticking_state"); ("0x79", "step_tick"); ("0x7a",
     "transfer"); ("0x7b", "advancements"); ("0x7c", "entity_update_attributes"); ("0x7d", "entity_effect"); ("0x7e", "declare_recipes"); ("0x7f",
     "tags"); ("0x80", "set_projectile_power"); ("0x81", "custom_report_details"); ("0x82", "server_links")])); mkField (Some "params") false (Inline
     (SwitchOn "name" [("abilities", Named "packet_abilities"); ("acknowledge_player_digging", Named "packet_acknowledge_player_digging");
     ("action_bar", Named "packet_action_bar"); ("add_resource_pack", Named "packet_common_add_resource_pack"); ("advancements", Named
     "packet_advancements"); ("animation", Named "packet_animation"); ("attach_entity", Named "packet_attach_entity"); ("block_action", Named
     "packet_block_action"); ("block_break_animation", Named "packet_block_break_animation"); ("block_change", Named "packet_block_change");
     ("boss_bar", Named "packet_boss_bar"); ("bundle_delimiter", Named "void"); ("camera", Named "packet_camera"); ("chat_suggestions", Named
     "packet_chat_suggestions"); ("chunk_batch_finished", Named "packet_chunk_batch_finished"); ("chunk_batch_start", Named
     "packet_chunk_batch_start"); ("chunk_biomes", Named "packet_chunk_biomes"); ("clear_titles", Named "packet_clear_titles"); ("close_window", Named
     "packet_close_window"); ("collect", Named "packet_collect"); ("cookie_request", Named "packet_common_cookie_request"); ("craft_progress_bar",
     Named "packet_craft_progress_bar"); ("craft_recipe_response", Named "packet_craft_recipe_response"); ("custom_payload", Named
     "packet_custom_payload"); ("custom_report_details", Named "packet_common_custom_report_details"); ("damage_event", Named "packet_damage_event");
     ("death_combat_event", Named "packet_death_combat_event"); ("debug_sample", Named "packet_debug_sample"); ("declare_commands", Named
     "packet_declare_commands"); ("declare_recipes", Named "packet_declare_recipes"); ("difficulty", Named "packet_difficulty"); ("end_combat_event",
     Named "packet_end_combat_event"); ("enter_combat_event", Named "packet_enter_combat_event"); ("entity_destroy", Named "packet_entity_destroy");
     ("entity_effect", Named "packet_entity_effect"); ("entity_equipment", Named "packet_entity_equipment"); ("entity_head_rotation", Named
     "packet_entity_head_rotation"); ("entity_look", Named "packet_entity_look"); ("entity_metadata", Named "packet_entity_metadata");
     ("entity_move_look", Named "packet_entity_move_look"); ("entity_sound_effect", Named "packet_entity_sound_effect"); ("entity_status", Named
     "packet_entity_status"); ("entity_teleport", Named "packet_entity_teleport"); ("entity_update_attributes", Named
     "packet_entity_update_attributes"); ("entity_velocity", Named "packet_entity_velocity"); ("experience", Named "packet_experience"); ("explosion",
     Named "packet_explosion"); ("face_player", Named "packet_face_player"); ("game_state_change", Named "packet_game_state_change");
     ("held_item_slot", Named "packet_held_item_slot"); ("hide_message", Named "packet_hide_message"); ("hurt_animation", Named
     "packet_hurt_animation"); ("initialize_world_border", Named "packet_initialize_world_border"); ("keep_alive", Named "packet_keep_alive");
     ("kick_disconnect", Named "packet_kick_disconnect"); ("login", Named "packet_login"); ("map", Named "packet_map"); ("map_chunk", Named
     "packet_map_chunk"); ("move_minecart", Named "packet_move_minecart"); ("multi_block_change", Named "packet_multi_block_change");
     ("nbt_query_response", Named "packet_nbt_query_response"); ("open_book", Named "packet_open_book"); ("open_horse_window", Named
     "packet_open_horse_window"); ("open_sign_entity", Named "packet_open_sign_entity"); ("open_window", Named "packet_open_window"); ("ping", Named
     "packet_ping"); ("ping_response", Named "packet_ping_response"); ("player_chat", Named "packet_player_chat"); ("player_info", Named
     "packet_player_info"); ("player_remove", Named "packet_player_remove"); ("player_rotation", Named "packet_player_rotation"); ("playerlist_header",
     Named "packet_playerlist_header"); ("position", Named "packet_position"); ("profileless_chat", Named "packet_profileless_chat");
     ("recipe_book_add", Named "packet_recipe_book_add"); ("recipe_book_remove", Named "packet_recipe_book_remove"); ("recipe_book_settings", Named
     "packet_recipe_book_settings"); ("rel_entity_move", Named "packet_rel_entity_move"); ("remove_entity_effect", Named
     "packet_remove_entity_effect"); ("remove_resource_pack", Named "packet_common_remove_resource_pack"); ("reset_score", Named "packet_reset_score");
     ("respawn", Named "packet_respawn"); ("scoreboard_display_objective", Named "packet_scoreboard_display_objective"); ("scoreboard_objective", Named
     "packet_scoreboard_objective"); ("scoreboard_score", Named "packet_scoreboard_score"); ("select_advancement_tab", Named
     "packet_select_advancement_tab"); ("server_data", Named "packet_server_data"); ("server_links", Named "packet_common_server_links");
     ("set_cooldown", Named "packet_set_cooldown"); ("set_cursor_item", Named "packet_set_cursor_item"); ("set_passengers", Named
     "packet_set_passengers"); ("set_player_inventory", Named "packet_set_player_inventory"); ("set_projectile_power", Named
     "packet_set_projectile_power"); ("set_slot", Named "packet_set_slot"); ("set_ticking_state", Named "packet_set_ticking_state");
     ("set_title_subtitle", Named "packet_set_title_subtitle"); ("set_title_text", Named "packet_set_title_text"); ("set_title_time", Named
     "packet_set_title_time"); ("simulation_distance", Named "packet_simulation_distance"); ("sound_effect", Named "packet_sound_effect");
     ("spawn_entity", Named "packet_spawn_entity"); ("spawn_entity_experience_orb", Named "packet_spawn_entity_experience_orb"); ("spawn_position",
     Named "packet_spawn_position"); ("start_configuration", Named "packet_start_configuration"); ("statistics", Named "packet_statistics");
     ("step_tick", Named "packet_step_tick"); ("stop_sound", Named "packet_stop_sound"); ("store_cookie", Named "packet_common_store_cookie");
     ("sync_entity_position", Named "packet_sync_entity_position"); ("system_chat", Named "packet_system_chat"); ("tab_complete", Named
     "packet_tab_complete"); ("tags", Named "packet_tags"); ("teams", Named "packet_teams"); ("tile_entity_data", Named "packet_tile_entity_data");
     ("trade_list", Named "packet_trade_list"); ("transfer", Named "packet_common_transfer"); ("unload_chunk", Named "packet_unload_chunk");
     ("update_health", Named "packet_update_health"); ("update_light", Named "packet_update_light"); ("update_time", Named "packet_update_time");
     ("update_view_distance", Named "packet_update_view_distance"); ("update_view_position", Named "packet_update_view_position"); ("vehicle_move",
     Named "packet_vehicle_move"); ("window_items", Named "packet_window_items"); ("world_border_center", Named "packet_world_border_center");
     ("world_border_lerp_size", Named "packet_world_border_lerp_size"); ("world_border_size", Named "packet_world_border_size");
     ("world_border_warning_delay", Named "packet_world_border_warning_delay"); ("world_border_warning_reach", Named
     "packet_world_border_warning_reach"); ("world_event", Named "packet_world_event"); ("world_particles", Named "packet_world_particles")] None))]))].
Definition protocol_play_client_2 : btree TypeDef :=
  [("packet_abilities", Compound (Container [mkField (Some "flags") false (Named "i8"); mkField (Some "flyingSpeed") false (Named "f32"); mkField (Some
     "walkingSpeed") false (Named "f32")]));
   ("packet_acknowledge_player_digging", Compound (Container [mkField (Some "sequenceId") false (Named "varint")]));
   ("packet_action_bar", Compound (Container [mkField (Some "text") false (Named "anonymousNbt")]));
   ("packet_advancements", Compound (Container [mkField (Some "reset") false (Named "bool"); mkField (Some "advancementMapping") false (Inline (ArrayOf
     (Inline (Container [mkField (Some "key") false (Named "string"); mkField (Some "value") false (Inline (Container [mkField (Some "parentId") false
     (Inline (OptionOf (Named "string"))); mkField (Some "displayData") false (Inline (OptionOf (Inline (Container [mkField (Some "title") false (Named
     "anonymousNbt"); mkField (Some "description") false (Named "anonymousNbt"); mkField (Some "icon") false (Named "Slot"); mkField (Some "frameType")
     false (Named "varint"); mkField (Some "flags") false (Inline (Bitfield [mkMember "unused" 29 false; mkMember "hidden" 1 false; mkMember
     "show_toast" 1 false; mkMember "has_background_texture" 1 false])); mkField (Some "backgroundTexture") false (Inline (SwitchOn
     "flags/has_background_texture" [("1", Named "string")] (Some (Named "void")))); mkField (Some "xCord") false (Named "f32"); mkField (Some "yCord")
     false (Named "f32")])))); mkField (Some "requirements") false (Inline (ArrayOf (Inline (ArrayOf (Named "string") (Some "varint") None)) (Some
     "varint") None)); mkField (Some "sendsTelemtryData") false (Named "bool")]))])) (Some "varint") None)); mkField (Some "identifiers") false (Inline
     (ArrayOf (Named "string") (Some "varint") None)); mkField (Some "progressMapping") false (Inline (ArrayOf (Inline (Container [mkField (Some "key")
     false (Named "string"); mkField (Some "value") false (Inline (ArrayOf (Inline (Container [mkField (Some "criterionIdentifier") false (Named
     "string"); mkField (Some "criterionProgress") false (Inline (OptionOf (Named "i64")))])) (Some "varint") None))])) (Some "varint") None))]));
   ("packet_animation", Compound (Container [mkField (Some "entityId") false (Named "varint"); mkField (Some "animation") false (Named "u8")]));
   ("packet_attach_entity", Compound (Container [mkField (Some "entityId") false (Named "i32"); mkField (Some "vehicleId") false (Named "i32")]));
   ("packet_block_action", Compound (Container [mkField (Some "location") false (Named "position"); mkField (Some "byte1") false (Named "u8"); mkField
     (Some "byte2") false (Named "u8"); mkField (Some "blockId") false (Named "varint")]));
   ("packet_block_break_animation", Compound (Container [mkField (Some "entityId") false (Named "varint"); mkField (Some "location") false (Named
     "position"); mkField (Some "destroyStage") false (Named "i8")]));
   ("packet_block_change", Compound (Container [mkField (Some "location") false (Named "position"); mkField (Some "type") false (Named "varint")]));
   ("packet_boss_bar", Compound (Container [mkField (Some "entityUUID") false (Named "UUID"); mkField (Some "action") false (Named "varint"); mkField
     (Some "title") false (Inline (SwitchOn "action" [("0", Named "anonymousNbt"); ("3", Named "anonymousNbt")] (Some (Named "void")))); mkField (Some
     "health") false (Inline (SwitchOn "action" [("0", Named "f32"); ("2", Named "f32")] (Some (Named "void")))); mkField (Some "color") false (Inline
     (SwitchOn "action" [("0", Named "varint"); ("4", Named "varint")] (Some (Named "void")))); mkField (Some "dividers") false (Inline (SwitchOn
     "action" [("0", Named "varint"); ("4", Named "varint")] (Some (Named "void")))); mkField (Some "flags") false (Inline (SwitchOn "action" [("0",
     Named "u8"); ("5", Named "u8")] (Some (Named "void"))))]));
   ("packet_camera", Compound (Container [mkField (Some "cameraId") false (Named "varint")]));
   ("packet_chat_suggestions", Compound (Container [mkField (Some "action") false (Named "varint"); mkField (Some "entries") false (Inline (ArrayOf (Named
     "string") (Some "varint") None))]));
   ("packet_chunk_batch_finished", Compound (Container [mkField (Some "batchSize") false (Named "varint")]));
   ("packet_chunk_batch_start", Compound (Container []));
   ("packet_chunk_biomes", Compound (Container [mkField (Some "biomes") false (Inline (ArrayOf (Inline (Container [mkField (Some "position") false (Named
     "packedChunkPos"); mkField (Some "data") false (Named "ByteArray")])) (Some "varint") None))]));
   ("packet_clear_titles", Compound (Container [mkField (Some "reset") false (Named "bool")]));
   ("packet_close_window", Compound (Container [mkField (Some "windowId") false (Named "ContainerID")]));
   ("packet_collect", Compound (Container [mkField (Some "collectedEntityId") false (Named "varint"); mkField (Some "collectorEntityId") false (Named
     "varint"); mkField (Some "pickupItemCount") false (Named "varint")]));
   ("packet_craft_progress_bar", Compound (Container [mkField (Some "windowId") false (Named "ContainerID"); mkField (Some "property") false (Named
     "i16"); mkField (Some "value") false (Named "i16")]));
   ("packet_craft_recipe_response", Compound (Container [mkField (Some "windowId") false (Named "ContainerID"); mkField (Some "recipeDisplay") false
     (Named "RecipeDisplay")]));
   ("packet_custom_payload", Compound (Container [mkField (Some "channel") false (Named "string"); mkField (Some "data") false (Named "restBuffer")]));
   ("packet_damage_event", Compound (Container [mkField (Some "entityId") false (Named "varint"); mkField (Some "sourceTypeId") false (Named "varint");
     mkField (Some "sourceCauseId") false (Named "varint"); mkField (Some "sourceDirectId") false (Named "varint"); mkField (Some "sourcePosition")
     false (Inline (OptionOf (Named "vec3f64")))]));
   ("packet_death_combat_event", Compound (Container [mkField (Some "playerId") false (Named "varint"); mkField (Some "message") false (Named
     "anonymousNbt")]));
   ("packet_debug_sample", Compound (Container [mkField (Some "sample") false (Inline (ArrayOf (Named "i64") (Some "varint") None)); mkField (Some "type")
     false (Named "varint")]));
   ("packet_declare_commands", Compound (Container [mkField (Some "nodes") false (Inline (ArrayOf (Named "command_node") (Some "varint") None)); mkField
     (Some "rootIndex") false (Named "varint")]));
   ("packet_declare_recipes", Compound (Container [mkField (Some "recipes") false (Inline (ArrayOf (Inline (Container [mkField (Some "name") false (Named
     "string"); mkField (Some "items") false (Inline (ArrayOf (Named "varint") (Some "varint") None))])) (Some "varint") None)); mkField (Some
     "stoneCutterRecipes") false (Inline (ArrayOf (Inline (Container [mkField (Some "input") false (Named "IDSet"); mkField (Some "slotDisplay") false
     (Named "SlotDisplay")])) (Some "varint") None))]));
   ("packet_difficulty", Compound (Container [mkField (Some "difficulty") false (Named "u8"); mkField (Some "difficultyLocked") false (Named "bool")]));
   ("packet_end_combat_event", Compound (Container [mkField (Some "duration") false (Named "varint")]));
   ("packet_enter_combat_event", Compound (Container []));
   ("packet_entity_destroy", Compound (Container [mkField (Some "entityIds") false (Inline (ArrayOf (Named "varint") (Some "varint") None))]));
   ("packet_entity_effect", Compound (Container [mkField (Some "entityId") false (Named "varint"); mkField (Some "effectId") false (Named "varint");
     mkField (Some "amplifier") false (Named "varint"); mkField (Some "duration") false (Named "varint"); mkField (Some "flags") false (Named "u8")]));
   ("packet_entity_equipment", Compound (Container [mkField (Some "entityId") false (Named "varint"); mkField (Some "equipments") false (Inline
     (TopBitSetTerminatedArray (Inline (Container [mkField (Some "slot") false (Named "i8"); mkField (Some "item") false (Named "Slot")]))))]));
   ("packet_entity_head_rotation", Compound (Container [mkField (Some "entityId") false (Named "varint"); mkField (Some "headYaw") false (Named "i8")]));
   ("packet_entity_look", Compound (Container [mkField (Some "entityId") false (Named "varint"); mkField (Some "yaw") false (Named "i8"); mkField (Some
     "pitch") false (Named "i8"); mkField (Some "onGround") false (Named "bool")]));
   ("packet_entity_metadata", Compound (Container [mkField (Some "entityId") false (Named "varint"); mkField (Some "metadata") false (Named
     "entityMetadata")]));
   ("packet_entity_move_look", Compound (Container [mkField (Some "entityId") false (Named "varint"); mkField (Some "dX") false (Named "i16"); mkField
     (Some "dY") false (Named "i16"); mkField (Some "dZ") false (Named "i16"); mkField (Some "yaw") false (Named "i8"); mkField (Some "pitch") false
     (Named "i8"); mkField (Some "onGround") false (Named "bool")]));
   ("packet_entity_sound_effect", Compound (Container [mkField (Some "sound") false (Named "ItemSoundHolder"); mkField (Some "soundCategory") false (Named
     "soundSource"); mkField (Some "entityId") false (Named "varint"); mkField (Some "volume") false (Named "f32"); mkField (Some "pitch") false (Named
     "f32"); mkField (Some "seed") false (Named "i64")]))].
Definition protocol_play_client_3 : btree TypeDef :=
  [("packet_entity_status", Compound (Container [mkField (Some "entityId") false (Named "i32"); mkField (Some "entityStatus") false (Named "i8")]));
   ("packet_entity_teleport", Compound (Container [mkField (Some "entityId") false (Named "varint"); mkField (Some "x") false (Named "f64"); mkField (Some
     "y") false (Named "f64"); mkField (Some "z") false (Named "f64"); mkField (Some "yaw") false (Named "i8"); mkField (Some "pitch") false (Named
     "i8"); mkField (Some "onGround") false (Named "bool")]));
   ("packet_entity_update_attributes", Compound (Container [mkField (Some "entityId") false (Named "varint"); mkField (Some "properties") false (Inline
     (ArrayOf (Inline (Container [mkField (Some "key") false (Inline (MapperOf "varint" [("0", "generic.armor"); ("1", "generic.armor_toughness");
     ("10", "generic.follow_range"); ("11", "generic.gravity"); ("12", "generic.jump_strength"); ("13", "generic.knockback_resistance"); ("14",
     "generic.luck"); ("15", "generic.max_absorption"); ("16", "generic.max_health"); ("17", "generic.movement_speed"); ("18",
     "generic.safe_fall_distance"); ("19", "generic.scale"); ("2", "generic.attack_damage"); ("20", "zombie.spawn_reinforcements"); ("21",
     "generic.step_height"); ("3", "generic.attack_knockback"); ("4", "generic.attack_speed"); ("5", "player.block_break_speed"); ("6",
     "player.block_interaction_range"); ("7", "player.entity_interaction_range"); ("8", "generic.fall_damage_multiplier"); ("9",
     "generic.flying_speed")])); mkField (Some "value") false (Named "f64"); mkField (Some "modifiers") false (Inline (ArrayOf (Inline (Container
     [mkField (Some "uuid") false (Named "string"); mkField (Some "amount") false (Named "f64"); mkField (Some "operation") false (Named "i8")])) (Some
     "varint") None))])) (Some "varint") None))]));
   ("packet_entity_velocity", Compound (Container [mkField (Some "entityId") false (Named "varint"); mkField (Some "velocity") false (Named "vec3i16")]));
   ("packet_experience", Compound (Container [mkField (Some "experienceBar") false (Named "f32"); mkField (Some "level") false (Named "varint"); mkField
     (Some "totalExperience") false (Named "varint")]));
   ("packet_explosion", Compound (Container [mkField (Some "x") false (Named "f64"); mkField (Some "y") false (Named "f64"); mkField (Some "z") false
     (Named "f64"); mkField (Some "playerKnockback") false (Inline (OptionOf (Named "vec3f64"))); mkField (Some "explosionParticle") false (Named
     "Particle"); mkField (Some "sound") false (Named "ItemSoundHolder")]));
   ("packet_face_player", Compound (Container [mkField (Some "feet_eyes") false (Named "varint"); mkField (Some "x") false (Named "f64"); mkField (Some
     "y") false (Named "f64"); mkField (Some "z") false (Named "f64"); mkField (Some "isEntity") false (Named "bool"); mkField (Some "entityId") false
     (Inline (SwitchOn "isEntity" [("true", Named "varint")] (Some (Named "void")))); mkField (Some "entity_feet_eyes") false (Inline (SwitchOn
     "isEntity" [("true", Named "varint")] (Some (Named "void"))))]));
   ("packet_game_state_change", Compound (Container [mkField (Some "reason") false (Named "u8"); mkField (Some "gameMode") false (Named "f32")]));
   ("packet_held_item_slot", Compound (Container [mkField (Some "slot") false (Named "varint")]));
   ("packet_hide_message", Compound (Container [mkField (Some "id") false (Named "varint"); mkField (Some "signature") false (Inline (SwitchOn "id" [("0",
     Inline (BufferOf None (Some 256)))] (Some (Named "void"))))]));
   ("packet_hurt_animation", Compound (Container [mkField (Some "entityId") false (Named "varint"); mkField (Some "yaw") false (Named "f32")]));
   ("packet_initialize_world_border", Compound (Container [mkField (Some "x") false (Named "f64"); mkField (Some "z") false (Named "f64"); mkField (Some
     "oldDiameter") false (Named "f64"); mkField (Some "newDiameter") false (Named "f64"); mkField (Some "speed") false (Named "varint"); mkField (Some
     "portalTeleportBoundary") false (Named "varint"); mkField (Some "warningBlocks") false (Named "varint"); mkField (Some "warningTime") false (Named
     "varint")]));
   ("packet_keep_alive", Compound (Container [mkField (Some "keepAliveId") false (Named "i64")]));
   ("packet_kick_disconnect", Compound (Container [mkField (Some "reason") false (Named "anonymousNbt")]));
   ("packet_login", Compound (Container [mkField (Some "entityId") false (Named "i32"); mkField (Some "isHardcore") false (Named "bool"); mkField (Some
     "worldNames") false (Inline (ArrayOf (Named "string") (Some "varint") None)); mkField (Some "maxPlayers") false (Named "varint"); mkField (Some
     "viewDistance") false (Named "varint"); mkField (Some "simulationDistance") false (Named "varint"); mkField (Some "reducedDebugInfo") false (Named
     "bool"); mkField (Some "enableRespawnScreen") false (Named "bool"); mkField (Some "doLimitedCrafting") false (Named "bool"); mkField (Some
     "worldState") false (Named "SpawnInfo"); mkField (Some "enforcesSecureChat") false (Named "bool")]));
   ("packet_map", Compound (Container [mkField (Some "itemDamage") false (Named "varint"); mkField (Some "scale") false (Named "i8"); mkField (Some
     "locked") false (Named "bool"); mkField (Some "icons") false (Inline (OptionOf (Inline (ArrayOf (Inline (Container [mkField (Some "type") false
     (Named "varint"); mkField (Some "x") false (Named "i8"); mkField (Some "z") false (Named "i8"); mkField (Some "direction") false (Named "u8");
     mkField (Some "displayName") false (Inline (OptionOf (Named "anonymousNbt")))])) (Some "varint") None)))); mkField (Some "columns") false (Named
     "u8"); mkField (Some "rows") false (Inline (SwitchOn "columns" [("0", Named "void")] (Some (Named "u8")))); mkField (Some "x") false (Inline
     (SwitchOn "columns" [("0", Named "void")] (Some (Named "u8")))); mkField (Some "y") false (Inline (SwitchOn "columns" [("0", Named "void")] (Some
     (Named "u8")))); mkField (Some "data") false (Inline (SwitchOn "columns" [("0", Named "void")] (Some (Inline (BufferOf (Some "varint")
     None)))))]));
   ("packet_map_chunk", Compound (Container [mkField (Some "x") false (Named "i32"); mkField (Some "z") false (Named "i32"); mkField (Some "heightmaps")
     false (Named "anonymousNbt"); mkField (Some "chunkData") false (Inline (BufferOf (Some "varint") None)); mkField (Some "blockEntities") false
     (Inline (ArrayOf (Named "chunkBlockEntity") (Some "varint") None)); mkField (Some "skyLightMask") false (Inline (ArrayOf (Named "i64") (Some
     "varint") None)); mkField (Some "blockLightMask") false (Inline (ArrayOf (Named "i64") (Some "varint") None)); mkField (Some "emptySkyLightMask")
     false (Inline (ArrayOf (Named "i64") (Some "varint") None)); mkField (Some "emptyBlockLightMask") false (Inline (ArrayOf (Named "i64") (Some
     "varint") None)); mkField (Some "skyLight") false (Inline (ArrayOf (Inline (ArrayOf (Named "u8") (Some "varint") None)) (Some "varint") None));
     mkField (Some "blockLight") false (Inline (ArrayOf (Inline (ArrayOf (Named "u8") (Some "varint") None)) (Some "varint") None))]));
   ("packet_move_minecart", Compound (Container [mkField (Some "entityId") false (Named "varint"); mkField (Some "steps") false (Inline (ArrayOf (Inline
     (Container [mkField (Some "position") false (Named "vec3f"); mkField (Some "movement") false (Named "vec3f"); mkField (Some "yaw") false (Named
     "f32"); mkField (Some "pitch") false (Named "f32"); mkField (Some "weight") false (Named "f32")])) (Some "varint") None))]));
   ("packet_multi_block_change", Compound (Container [mkField (Some "chunkCoordinates") false (Inline (Bitfield [mkMember "x" 22 true; mkMember "z" 22
     true; mkMember "y" 20 true])); mkField (Some "records") false (Inline (ArrayOf (Named "varint") (Some "varint") None))]));
   ("packet_nbt_query_response", Compound (Container [mkField (Some "transactionId") false (Named "varint"); mkField (Some "nbt") false (Named
     "anonOptionalNbt")]));
   ("packet_open_book", Compound (Container [mkField (Some "hand") false (Named "varint")]));
   ("packet_open_horse_window", Compound (Container [mkField (Some "windowId") false (Named "ContainerID"); mkField (Some "nbSlots") false (Named
     "varint"); mkField (Some "entityId") false (Named "i32")]));
   ("packet_open_sign_entity", Compound (Container [mkField (Some "location") false (Named "position"); mkField (Some "isFrontText") false (Named
     "bool")]));
   ("packet_open_window", Compound (Container [mkField (Some "windowId") false (Named "varint"); mkField (Some "inventoryType") false (Named "varint");
     mkField (Some "windowTitle") false (Named "anonymousNbt")]));
   ("packet_ping", Compound (Container [mkField (Some "id") false (Named "i32")]));
   ("packet_ping_response", Compound (Container [mkField (Some "id") false (Named "i64")]))].
Definition protocol_play_client_4 : btree TypeDef :=
  [("packet_player_chat", Compound (Container [mkField (Some "senderUuid") false (Named "UUID"); mkField (Some "index") false (Named "varint"); mkField
     (Some "signature") false (Inline (OptionOf (Inline (BufferOf None (Some 256))))); mkField (Some "plainMessage") false (Named "string"); mkField
     (Some "timestamp") false (Named "i64"); mkField (Some "salt") false (Named "i64"); mkField (Some "previousMessages") false (Named
     "previousMessages"); mkField (Some "unsignedChatContent") false (Inline (OptionOf (Named "anonymousNbt"))); mkField (Some "filterType") false
     (Named "varint"); mkField (Some "filterTypeMask") false (Inline (SwitchOn "filterType" [("2", Inline (ArrayOf (Named "i64") (Some "varint")
     None))] (Some (Named "void")))); mkField (Some "type") false (Named "ChatTypesHolder"); mkField (Some "networkName") false (Named "anonymousNbt");
     mkField (Some "networkTargetName") false (Inline (OptionOf (Named "anonymousNbt")))]));
   ("packet_player_info", Compound (Container [mkField (Some "action") false (Inline (Bitflags "u8" ["add_player"; "initialize_chat"; "update_game_mode";
     "update_listed"; "update_latency"; "update_display_name"; "update_hat"; "update_list_order"])); mkField (Some "data") false (Inline (ArrayOf
     (Inline (Container [mkField (Some "uuid") false (Named "UUID"); mkField (Some "player") false (Inline (SwitchOn "../action/add_player" [("true",
     Named "game_profile")] (Some (Named "void")))); mkField (Some "chatSession") false (Inline (SwitchOn "../action/initialize_chat" [("true", Named
     "chat_session")] (Some (Named "void")))); mkField (Some "gamemode") false (Inline (SwitchOn "../action/update_game_mode" [("true", Named
     "varint")] (Some (Named "void")))); mkField (Some "listed") false (Inline (SwitchOn "../action/update_listed" [("true", Named "varint")] (Some
     (Named "void")))); mkField (Some "latency") false (Inline (SwitchOn "../action/update_latency" [("true", Named "varint")] (Some (Named "void"))));
     mkField (Some "displayName") false (Inline (SwitchOn "../action/update_display_name" [("true", Inline (OptionOf (Named "anonymousNbt")))] (Some
     (Named "void")))); mkField (Some "listPriority") false (Inline (SwitchOn "../action/update_list_order" [("true", Named "varint")] (Some (Named
     "void")))); mkField (Some "showHat") false (Inline (SwitchOn "../action/update_hat" [("true", Named "bool")] (Some (Named "void"))))])) (Some
     "varint") None))]));
   ("packet_player_remove", Compound (Container [mkField (Some "players") false (Inline (ArrayOf (Named "UUID") (Some "varint") None))]));
   ("packet_player_rotation", Compound (Container [mkField (Some "yaw") false (Named "f32"); mkField (Some "pitch") false (Named "f32")]));
   ("packet_playerlist_header", Compound (Container [mkField (Some "header") false (Named "anonymousNbt"); mkField (Some "footer") false (Named
     "anonymousNbt")]));
   ("packet_position", Compound (Container [mkField (Some "teleportId") false (Named "varint"); mkField (Some "x") false (Named "f64"); mkField (Some "y")
     false (Named "f64"); mkField (Some "z") false (Named "f64"); mkField (Some "dx") false (Named "f64"); mkField (Some "dy") false (Named "f64");
     mkField (Some "dz") false (Named "f64"); mkField (Some "yaw") false (Named "f32"); mkField (Some "pitch") false (Named "f32"); mkField (Some
     "flags") false (Named "PositionUpdateRelatives")]));
   ("packet_profileless_chat", Compound (Container [mkField (Some "message") false (Named "anonymousNbt"); mkField (Some "type") false (Named
     "ChatTypesHolder"); mkField (Some "name") false (Named "anonymousNbt"); mkField (Some "target") false (Inline (OptionOf (Named
     "anonymousNbt")))]));
   ("packet_recipe_book_add", Compound (Container [mkField (Some "entries") false (Inline (ArrayOf (Inline (Container [mkField (Some "recipe") false
     (Inline (Container [mkField (Some "displayId") false (Named "varint"); mkField (Some "display") false (Named "RecipeDisplay"); mkField (Some
     "group") false (Named "optvarint"); mkField (Some "category") false (Inline (MapperOf "varint" [("0", "crafting_building_blocks"); ("1",
     "crafting_redstone"); ("10", "stonecutter"); ("11", "smithing"); ("12", "campfire"); ("2", "crafting_equipment"); ("3", "crafting_misc"); ("4",
     "furnace_food"); ("5", "furnace_blocks"); ("6", "furnace_misc"); ("7", "blast_furnace_blocks"); ("8", "blast_furnace_misc"); ("9",
     "smoker_food")])); mkField (Some "craftingRequirements") false (Inline (OptionOf (Inline (ArrayOf (Named "IDSet") (Some "varint") None))))]));
     mkField (Some "flags") false (Inline (Bitflags "u8" ["notification"; "highlight"]))])) (Some "varint") None)); mkField (Some "replace") false
     (Named "bool")]));
   ("packet_recipe_book_remove", Compound (Container [mkField (Some "recipeIds") false (Inline (ArrayOf (Named "varint") (Some "varint") None))]));
   ("packet_recipe_book_settings", Compound (Container [mkField (Some "craftingGuiOpen") false (Named "bool"); mkField (Some "craftingFilteringCraftable")
     false (Named "bool"); mkField (Some "smeltingGuiOpen") false (Named "bool"); mkField (Some "smeltingFilteringCraftable") false (Named "bool");
     mkField (Some "blastGuiOpen") false (Named "bool"); mkField (Some "blastFilteringCraftable") false (Named "bool"); mkField (Some "smokerGuiOpen")
     false (Named "bool"); mkField (Some "smokerFilteringCraftable") false (Named "bool")]));
   ("packet_rel_entity_move", Compound (Container [mkField (Some "entityId") false (Named "varint"); mkField (Some "dX") false (Named "i16"); mkField
     (Some "dY") false (Named "i16"); mkField (Some "dZ") false (Named "i16"); mkField (Some "onGround") false (Named "bool")]));
   ("packet_remove_entity_effect", Compound (Container [mkField (Some "entityId") false (Named "varint"); mkField (Some "effectId") false (Named
     "varint")]));
   ("packet_reset_score", Compound (Container [mkField (Some "entity_name") false (Named "string"); mkField (Some "objective_name") false (Inline
     (OptionOf (Named "string")))]));
   ("packet_respawn", Compound (Container [mkField (Some "worldState") false (Named "SpawnInfo"); mkField (Some "copyMetadata") false (Named "u8")]));
   ("packet_scoreboard_display_objective", Compound (Container [mkField (Some "position") false (Named "varint"); mkField (Some "name") false (Named
     "string")]));
   ("packet_scoreboard_objective", Compound (Container [mkField (Some "name") false (Named "string"); mkField (Some "action") false (Named "i8"); mkField
     (Some "displayText") false (Inline (SwitchOn "action" [("0", Named "anonymousNbt"); ("2", Named "anonymousNbt")] (Some (Named "void")))); mkField
     (Some "type") false (Inline (SwitchOn "action" [("0", Named "varint"); ("2", Named "varint")] (Some (Named "void")))); mkField (Some
     "number_format") false (Inline (SwitchOn "action" [("0", Inline (OptionOf (Named "varint"))); ("2", Inline (OptionOf (Named "varint")))] (Some
     (Named "void")))); mkField (Some "styling") false (Inline (SwitchOn "action" [("0", Inline (SwitchOn "number_format" [("1", Named "anonymousNbt");
     ("2", Named "anonymousNbt")] (Some (Named "void")))); ("2", Inline (SwitchOn "number_format" [("1", Named "anonymousNbt"); ("2", Named
     "anonymousNbt")] (Some (Named "void"))))] (Some (Named "void"))))]));
   ("packet_scoreboard_score", Compound (Container [mkField (Some "itemName") false (Named "string"); mkField (Some "scoreName") false (Named "string");
     mkField (Some "value") false (Named "varint"); mkField (Some "display_name") false (Inline (OptionOf (Named "anonymousNbt"))); mkField (Some
     "number_format") false (Inline (OptionOf (Named "varint"))); mkField (Some "styling") false (Inline (SwitchOn "number_format" [("1", Named
     "anonymousNbt"); ("2", Named "anonymousNbt")] (Some (Named "void"))))]));
   ("packet_select_advancement_tab", Compound (Container [mkField (Some "id") false (Inline (OptionOf (Named "string")))]));
   ("packet_server_data", Compound (Container [mkField (Some "motd") false (Named "anonymousNbt"); mkField (Some "iconBytes") false (Inline (OptionOf
     (Named "ByteArray")))]));
   ("packet_set_cooldown", Compound (Container [mkField (Some "cooldownGroup") false (Named "string"); mkField (Some "cooldownTicks") false (Named
     "varint")]));
   ("packet_set_cursor_item", Compound (Container [mkField (Some "contents") false (Named "Slot")]));
   ("packet_set_passengers", Compound (Container [mkField (Some "entityId") false (Named "varint"); mkField (Some "passengers") false (Inline (ArrayOf
     (Named "varint") (Some "varint") None))]));
   ("packet_set_player_inventory", Compound (Container [mkField (Some "slotId") false (Named "varint"); mkField (Some "contents") false (Named "Slot")]));
   ("packet_set_projectile_power", Compound (Container [mkField (Some "id") false (Named "varint"); mkField (Some "accelerationPower") false (Named
     "f64")]));
   ("packet_set_slot", Compound (Container [mkField (Some "windowId") false (Named "ContainerID"); mkField (Some "stateId") false (Named "varint");
     mkField (Some "slot") false (Named "i16"); mkField (Some "item") false (Named "Slot")]))].
Definition protocol_play_client_5 : btree TypeDef :=
  [("packet_set_ticking_state", Compound (Container [mkField (Some "tick_rate") false (Named "f32"); mkField (Some "is_frozen") false (Named "bool")]));
   ("packet_set_title_subtitle", Compound (Container [mkField (Some "text") false (Named "anonymousNbt")]));
   ("packet_set_title_text", Compound (Container [mkField (Some "text") false (Named "anonymousNbt")]));
   ("packet_set_title_time", Compound (Container [mkField (Some "fadeIn") false (Named "i32"); mkField (Some "stay") false (Named "i32"); mkField (Some
     "fadeOut") false (Named "i32")]));
   ("packet_simulation_distance", Compound (Container [mkField (Some "distance") false (Named "varint")]));
   ("packet_sound_effect", Compound (Container [mkField (Some "sound") false (Named "ItemSoundHolder"); mkField (Some "soundCategory") false (Named
     "soundSource"); mkField (Some "x") false (Named "i32"); mkField (Some "y") false (Named "i32"); mkField (Some "z") false (Named "i32"); mkField
     (Some "volume") false (Named "f32"); mkField (Some "pitch") false (Named "f32"); mkField (Some "seed") false (Named "i64")]));
   ("packet_spawn_entity", Compound (Container [mkField (Some "entityId") false (Named "varint"); mkField (Some "objectUUID") false (Named "UUID");
     mkField (Some "type") false (Named "varint"); mkField (Some "x") false (Named "f64"); mkField (Some "y") false (Named "f64"); mkField (Some "z")
     false (Named "f64"); mkField (Some "pitch") false (Named "i8"); mkField (Some "yaw") false (Named "i8"); mkField (Some "headPitch") false (Named
     "i8"); mkField (Some "objectData") false (Named "varint"); mkField (Some "velocity") false (Named "vec3i16")]));
   ("packet_spawn_entity_experience_orb", Compound (Container [mkField (Some "entityId") false (Named "varint"); mkField (Some "x") false (Named "f64");
     mkField (Some "y") false (Named "f64"); mkField (Some "z") false (Named "f64"); mkField (Some "count") false (Named "i16")]));
   ("packet_spawn_position", Compound (Container [mkField (Some "location") false (Named "position"); mkField (Some "angle") false (Named "f32")]));
   ("packet_start_configuration", Compound (Container []));
   ("packet_statistics", Compound (Container [mkField (Some "entries") false (Inline (ArrayOf (Inline (Container [mkField (Some "categoryId") false (Named
     "varint"); mkField (Some "statisticId") false (Named "varint"); mkField (Some "value") false (Named "varint")])) (Some "varint") None))]));
   ("packet_step_tick", Compound (Container [mkField (Some "tick_steps") false (Named "varint")]));
   ("packet_stop_sound", Compound (Container [mkField (Some "flags") false (Named "i8"); mkField (Some "source") false (Inline (SwitchOn "flags" [("1",
     Named "varint"); ("3", Named "varint")] (Some (Named "void")))); mkField (Some "sound") false (Inline (SwitchOn "flags" [("2", Named "string");
     ("3", Named "string")] (Some (Named "void"))))]));
   ("packet_sync_entity_position", Compound (Container [mkField (Some "entityId") false (Named "varint"); mkField (Some "x") false (Named "f64"); mkField
     (Some "y") false (Named "f64"); mkField (Some "z") false (Named "f64"); mkField (Some "dx") false (Named "f64"); mkField (Some "dy") false (Named
     "f64"); mkField (Some "dz") false (Named "f64"); mkField (Some "yaw") false (Named "f32"); mkField (Some "pitch") false (Named "f32"); mkField
     (Some "onGround") false (Named "bool")]));
   ("packet_system_chat", Compound (Container [mkField (Some "content") false (Named "anonymousNbt"); mkField (Some "isActionBar") false (Named "bool")]));
   ("packet_tab_complete", Compound (Container [mkField (Some "transactionId") false (Named "varint"); mkField (Some "start") false (Named "varint");
     mkField (Some "length") false (Named "varint"); mkField (Some "matches") false (Inline (ArrayOf (Inline (Container [mkField (Some "match") false
     (Named "string"); mkField (Some "tooltip") false (Inline (OptionOf (Named "anonymousNbt")))])) (Some "varint") None))]));
   ("packet_tags", Compound (Container [mkField (Some "tags") false (Inline (ArrayOf (Inline (Container [mkField (Some "tagType") false (Named "string");
     mkField (Some "tags") false (Named "tags")])) (Some "varint") None))]));
   ("packet_teams", Compound (Container [mkField (Some "team") false (Named "string"); mkField (Some "mode") false (Named "i8"); mkField (Some "name")
     false (Inline (SwitchOn "mode" [("0", Named "anonymousNbt"); ("2", Named "anonymousNbt")] (Some (Named "void")))); mkField (Some "friendlyFire")
     false (Inline (SwitchOn "mode" [("0", Named "i8"); ("2", Named "i8")] (Some (Named "void")))); mkField (Some "nameTagVisibility") false (Inline
     (SwitchOn "mode" [("0", Named "string"); ("2", Named "string")] (Some (Named "void")))); mkField (Some "collisionRule") false (Inline (SwitchOn
     "mode" [("0", Named "string"); ("2", Named "string")] (Some (Named "void")))); mkField (Some "formatting") false (Inline (SwitchOn "mode" [("0",
     Named "varint"); ("2", Named "varint")] (Some (Named "void")))); mkField (Some "prefix") false (Inline (SwitchOn "mode" [("0", Named
     "anonymousNbt"); ("2", Named "anonymousNbt")] (Some (Named "void")))); mkField (Some "suffix") false (Inline (SwitchOn "mode" [("0", Named
     "anonymousNbt"); ("2", Named "anonymousNbt")] (Some (Named "void")))); mkField (Some "players") false (Inline (SwitchOn "mode" [("0", Inline
     (ArrayOf (Named "string") (Some "varint") None)); ("3", Inline (ArrayOf (Named "string") (Some "varint") None)); ("4", Inline (ArrayOf (Named
     "string") (Some "varint") None))] (Some (Named "void"))))]));
   ("packet_tile_entity_data", Compound (Container [mkField (Some "location") false (Named "position"); mkField (Some "action") false (Named "varint");
     mkField (Some "nbtData") false (Named "anonOptionalNbt")]));
   ("packet_trade_list", Compound (Container [mkField (Some "windowId") false (Named "ContainerID"); mkField (Some "trades") false (Inline (ArrayOf
     (Inline (Container [mkField (Some "inputItem1") false (Inline (Container [mkField (Some "itemId") false (Named "varint"); mkField (Some
     "itemCount") false (Named "varint"); mkField (Some "addedComponentCount") false (Named "varint"); mkField (Some "components") false (Inline
     (ArrayOf (Named "SlotComponent") None (Some (CountField "addedComponentCount"))))])); mkField (Some "outputItem") false (Named "Slot"); mkField
     (Some "inputItem2") false (Inline (OptionOf (Inline (Container [mkField (Some "itemId") false (Named "varint"); mkField (Some "itemCount") false
     (Named "varint"); mkField (Some "addedComponentCount") false (Named "varint"); mkField (Some "components") false (Inline (ArrayOf (Named
     "SlotComponent") None (Some (CountField "addedComponentCount"))))])))); mkField (Some "tradeDisabled") false (Named "bool"); mkField (Some
     "nbTradeUses") false (Named "i32"); mkField (Some "maximumNbTradeUses") false (Named "i32"); mkField (Some "xp") false (Named "i32"); mkField
     (Some "specialPrice") false (Named "i32"); mkField (Some "priceMultiplier") false (Named "f32"); mkField (Some "demand") false (Named "i32")]))
     (Some "varint") None)); mkField (Some "villagerLevel") false (Named "varint"); mkField (Some "experience") false (Named "varint"); mkField (Some
     "isRegularVillager") false (Named "bool"); mkField (Some "canRestock") false (Named "bool")]));
   ("packet_unload_chunk", Compound (Container [mkField (Some "chunkZ") false (Named "i32"); mkField (Some "chunkX") false (Named "i32")]));
   ("packet_update_health", Compound (Container [mkField (Some "health") false (Named "f32"); mkField (Some "food") false (Named "varint"); mkField (Some
     "foodSaturation") false (Named "f32")]));
   ("packet_update_light", Compound (Container [mkField (Some "chunkX") false (Named "varint"); mkField (Some "chunkZ") false (Named "varint"); mkField
     (Some "skyLightMask") false (Inline (ArrayOf (Named "i64") (Some "varint") None)); mkField (Some "blockLightMask") false (Inline (ArrayOf (Named
     "i64") (Some "varint") None)); mkField (Some "emptySkyLightMask") false (Inline (ArrayOf (Named "i64") (Some "varint") None)); mkField (Some
     "emptyBlockLightMask") false (Inline (ArrayOf (Named "i64") (Some "varint") None)); mkField (Some "skyLight") false (Inline (ArrayOf (Inline
     (ArrayOf (Named "u8") (Some "varint") None)) (Some "varint") None)); mkField (Some "blockLight") false (Inline (ArrayOf (Inline (ArrayOf (Named
     "u8") (Some "varint") None)) (Some "varint") None))]));
   ("packet_update_time", Compound (Container [mkField (Some "age") false (Named "i64"); mkField (Some "time") false (Named "i64"); mkField (Some
     "tickDayTime") false (Named "bool")]));
   ("packet_update_view_distance", Compound (Container [mkField (Some "viewDistance") false (Named "varint")]));
   ("packet_update_view_position", Compound (Container [mkField (Some "chunkX") false (Named "varint"); mkField (Some "chunkZ") false (Named "varint")]));
   ("packet_vehicle_move", Compound (Container [mkField (Some "x") false (Named "f64"); mkField (Some "y") false (Named "f64"); mkField (Some "z") false
     (Named "f64"); mkField (Some "yaw") false (Named "f32"); mkField (Some "pitch") false (Named "f32")]))].
Definition protocol_play_client_6 : btree TypeDef :=
  [("packet_window_items", Compound (Container [mkField (Some "windowId") false (Named "ContainerID"); mkField (Some "stateId") false (Named "varint");
     mkField (Some "items") false (Inline (ArrayOf (Named "Slot") (Some "varint") None)); mkField (Some "carriedItem") false (Named "Slot")]));
   ("packet_world_border_center", Compound (Container [mkField (Some "x") false (Named "f64"); mkField (Some "z") false (Named "f64")]));
   ("packet_world_border_lerp_size", Compound (Container [mkField (Some "oldDiameter") false (Named "f64"); mkField (Some "newDiameter") false (Named
     "f64"); mkField (Some "speed") false (Named "varint")]));
   ("packet_world_border_size", Compound (Container [mkField (Some "diameter") false (Named "f64")]));
   ("packet_world_border_warning_delay", Compound (Container [mkField (Some "warningTime") false (Named "varint")]));
   ("packet_world_border_warning_reach", Compound (Container [mkField (Some "warningBlocks") false (Named "varint")]));
   ("packet_world_event", Compound (Container [mkField (Some "effectId") false (Named "i32"); mkField (Some "location") false (Named "position"); mkField
     (Some "data") false (Named "i32"); mkField (Some "global") false (Named "bool")]));
   ("packet_world_particles", Compound (Container [mkField (Some "longDistance") false (Named "bool"); mkField (Some "alwaysShow") false (Named "bool");
     mkField (Some "x") false (Named "f64"); mkField (Some "y") false (Named "f64"); mkField (Some "z") false (Named "f64"); mkField (Some "offsetX")
     false (Named "f32"); mkField (Some "offsetY") false (Named "f32"); mkField (Some "offsetZ") false (Named "f32"); mkField (Some "velocityOffset")
     false (Named "f32"); mkField (Some "amount") false (Named "i32"); mkField (Some "particle") false (Named "Particle")]))].
Definition protocol_play_client : btree TypeDef :=
  protocol_play_client_0 ++ protocol_play_client_1 ++ protocol_play_client_2 ++ protocol_play_client_3 ++ protocol_play_client_4 ++ protocol_play_client_5 ++ protocol_play_client_6.

Definition protocol_play_server_0 : btree TypeDef :=
  [("MovementFlags", Compound (Bitflags "u8" ["onGround"; "hasHorizontalCollision"]));
   ("packet", Compound (Container [mkField (Some "name") false (Inline (MapperOf "varint" [("0x00", "teleport_confirm"); ("0x01", "query_block_nbt");
     ("0x02", "select_bundle_item"); ("0x03", "set_difficulty"); ("0x04", "message_acknowledgement"); ("0x05", "chat_command"); ("0x06",
     "chat_command_signed"); ("0x07", "chat_message"); ("0x08", "chat_session_update"); ("0x09", "chunk_batch_received"); ("0x0a", "client_command");
     ("0x0b", "tick_end"); ("0x0c", "settings"); ("0x0d", "tab_complete"); ("0x0e", "configuration_acknowledged"); ("0x0f", "enchant_item"); ("0x10",
     "window_click"); ("0x11", "close_window"); ("0x12", "set_slot_state"); ("0x13", "cookie_response"); ("0x14", "custom_payload"); ("0x15",
     "debug_sample_subscription"); ("0x16", "edit_book"); ("0x17", "query_entity_nbt"); ("0x18", "use_entity"); ("0x19", "generate_structure");
     ("0x1a", "keep_alive"); ("0x1b", "lock_difficulty"); ("0x1c", "position"); ("0x1d", "position_look"); ("0x1e", "look"); ("0x1f", "flying");
     ("0x20", "vehicle_move"); ("0x21", "steer_boat"); ("0x22", "pick_item_from_block"); ("0x23", "pick_item_from_entity"); ("0x24", "ping_request");
     ("0x25", "craft_recipe_request"); ("0x26", "abilities"); ("0x27", "block_dig"); ("0x28", "entity_action"); ("0x29", "player_input"); ("0x2a",
     "player_loaded"); ("0x2b", "pong"); ("0x2c", "recipe_book"); ("0x2d", "displayed_recipe"); ("0x2e", "name_item"); ("0x2f",
     "resource_pack_receive"); ("0x30", "advancement_tab"); ("0x31", "select_trade"); ("0x32", "set_beacon_effect"); ("0x33", "held_item_slot");
     ("0x34", "update_command_block"); ("0x35", "update_command_block_minecart"); ("0x36", "set_creative_slot"); ("0x37", "update_jigsaw_block");
     ("0x38", "update_structure_block"); ("0x39", "update_sign"); ("0x3a", "arm_animation"); ("0x3b", "spectate"); ("0x3c", "block_place"); ("0x3d",
     "use_item")])); mkField (Some "params") false (Inline (SwitchOn "name" [("abilities", Named "packet_abilities"); ("advancement_tab", Named
     "packet_advancement_tab"); ("arm_animation", Named "packet_arm_animation"); ("block_dig", Named "packet_block_dig"); ("block_place", Named
     "packet_block_place"); ("chat_command", Named "packet_chat_command"); ("chat_command_signed", Named "packet_chat_command_signed");
     ("chat_message", Named "packet_chat_message"); ("chat_session_update", Named "packet_chat_session_update"); ("chunk_batch_received", Named
     "packet_chunk_batch_received"); ("client_command", Named "packet_client_command"); ("close_window", Named "packet_close_window");
     ("configuration_acknowledged", Named "packet_configuration_acknowledged"); ("cookie_response", Named "packet_common_cookie_response");
     ("craft_recipe_request", Named "packet_craft_recipe_request"); ("custom_payload", Named "packet_custom_payload"); ("debug_sample_subscription",
     Named "packet_debug_sample_subscription"); ("displayed_recipe", Named "packet_displayed_recipe"); ("edit_book", Named "packet_edit_book");
     ("enchant_item", Named "packet_enchant_item"); ("entity_action", Named "packet_entity_action"); ("flying", Named "packet_flying");
     ("generate_structure", Named "packet_generate_structure"); ("held_item_slot", Named "packet_held_item_slot"); ("keep_alive", Named
     "packet_keep_alive"); ("lock_difficulty", Named "packet_lock_difficulty"); ("look", Named "packet_look"); ("message_acknowledgement", Named
     "packet_message_acknowledgement"); ("name_item", Named "packet_name_item"); ("pick_item_from_block", Named "packet_pick_item_from_block");
     ("pick_item_from_entity", Named "packet_pick_item_from_entity"); ("ping_request", Named "packet_ping_request"); ("player_input", Named
     "packet_player_input"); ("player_loaded", Named "packet_player_loaded"); ("pong", Named "packet_pong"); ("position", Named "packet_position");
     ("position_look", Named "packet_position_look"); ("query_block_nbt", Named "packet_query_block_nbt"); ("query_entity_nbt", Named
     "packet_query_entity_nbt"); ("recipe_book", Named "packet_recipe_book"); ("resource_pack_receive", Named "packet_resource_pack_receive");
     ("select_bundle_item", Named "packet_select_bundle_item"); ("select_trade", Named "packet_select_trade"); ("set_beacon_effect", Named
     "packet_set_beacon_effect"); ("set_creative_slot", Named "packet_set_creative_slot"); ("set_difficulty", Named "packet_set_difficulty");
     ("set_slot_state", Named "packet_set_slot_state"); ("settings", Named "packet_common_settings"); ("spectate", Named "packet_spectate");
     ("steer_boat", Named "packet_steer_boat"); ("tab_complete", Named "packet_tab_complete"); ("teleport_confirm", Named "packet_teleport_confirm");
     ("tick_end", Named "packet_tick_end"); ("update_command_block", Named "packet_update_command_block"); ("update_command_block_minecart", Named
     "packet_update_command_block_minecart"); ("update_jigsaw_block", Named "packet_update_jigsaw_block"); ("update_sign", Named "packet_update_sign");
     ("update_structure_block", Named "packet_update_structure_block"); ("use_entity", Named "packet_use_entity"); ("use_item", Named
     "packet_use_item"); ("vehicle_move", Named "packet_vehicle_move"); ("window_click", Named "packet_window_click")] None))]));
   ("packet_abilities", Compound (Container [mkField (Some "flags") false (Named "i8")]));
   ("packet_advancement_tab", Compound (Container [mkField (Some "action") false (Named "varint"); mkField (Some "tabId") false (Inline (SwitchOn "action"
     [("0", Named "string"); ("1", Named "void")] None))]));
   ("packet_arm_animation", Compound (Container [mkField (Some "hand") false (Named "varint")]));
   ("packet_block_dig", Compound (Container [mkField (Some "status") false (Named "varint"); mkField (Some "location") false (Named "position"); mkField
     (Some "face") false (Named "i8"); mkField (Some "sequence") false (Named "varint")]));
   ("packet_block_place", Compound (Container [mkField (Some "hand") false (Named "varint"); mkField (Some "location") false (Named "position"); mkField
     (Some "direction") false (Named "varint"); mkField (Some "cursorX") false (Named "f32"); mkField (Some "cursorY") false (Named "f32"); mkField
     (Some "cursorZ") false (Named "f32"); mkField (Some "insideBlock") false (Named "bool"); mkField (Some "worldBorderHit") false (Named "bool");
     mkField (Some "sequence") false (Named "varint")]));
   ("packet_chat_command", Compound (Container [mkField (Some "command") false (Named "string")]));
   ("packet_chat_command_signed", Compound (Container [mkField (Some "command") false (Named "string"); mkField (Some "timestamp") false (Named "i64");
     mkField (Some "salt") false (Named "i64"); mkField (Some "argumentSignatures") false (Inline (ArrayOf (Inline (Container [mkField (Some
     "argumentName") false (Named "string"); mkField (Some "signature") false (Inline (BufferOf None (Some 256)))])) (Some "varint") None)); mkField
     (Some "messageCount") false (Named "varint"); mkField (Some "acknowledged") false (Inline (BufferOf None (Some 3)))]));
   ("packet_chat_message", Compound (Container [mkField (Some "message") false (Named "string"); mkField (Some "timestamp") false (Named "i64"); mkField
     (Some "salt") false (Named "i64"); mkField (Some "signature") false (Inline (OptionOf (Inline (BufferOf None (Some 256))))); mkField (Some
     "offset") false (Named "varint"); mkField (Some "acknowledged") false (Inline (BufferOf None (Some 3)))]));
   ("packet_chat_session_update", Compound (Container [mkField (Some "sessionUUID") false (Named "UUID"); mkField (Some "expireTime") false (Named "i64");
     mkField (Some "publicKey") false (Named "ByteArray"); mkField (Some "signature") false (Named "ByteArray")]));
   ("packet_chunk_batch_received", Compound (Container [mkField (Some "chunksPerTick") false (Named "f32")]));
   ("packet_client_command", Compound (Container [mkField (Some "actionId") false (Named "varint")]));
   ("packet_close_window", Compound (Container [mkField (Some "windowId") false (Named "ContainerID")]));
   ("packet_configuration_acknowledged", Compound (Container []));
   ("packet_craft_recipe_request", Compound (Container [mkField (Some "windowId") false (Named "ContainerID"); mkField (Some "recipeId") false (Named
     "varint"); mkField (Some "makeAll") false (Named "bool")]));
   ("packet_custom_payload", Compound (Container [mkField (Some "channel") false (Named "string"); mkField (Some "data") false (Named "restBuffer")]));
   ("packet_debug_sample_subscription", Compound (Container [mkField (Some "type") false (Named "varint")]));
   ("packet_displayed_recipe", Compound (Container [mkField (Some "recipeId") false (Named "varint")]));
   ("packet_edit_book", Compound (Container [mkField (Some "hand") false (Named "varint"); mkField (Some "pages") false (Inline (ArrayOf (Named "string")
     (Some "varint") None)); mkField (Some "title") false (Inline (OptionOf (Named "string")))]));
   ("packet_enchant_item", Compound (Container [mkField (Some "windowId") false (Named "ContainerID"); mkField (Some "enchantment") false (Named
     "varint")]))].
Definition protocol_play_server_1 : btree TypeDef :=
  [("packet_entity_action", Compound (Container [mkField (Some "entityId") false (Named "varint"); mkField (Some "actionId") false (Named "varint");
     mkField (Some "jumpBoost") false (Named "varint")]));
   ("packet_flying", Compound (Container [mkField (Some "flags") false (Named "MovementFlags")]));
   ("packet_generate_structure", Compound (Container [mkField (Some "location") false (Named "position"); mkField (Some "levels") false (Named "varint");
     mkField (Some "keepJigsaws") false (Named "bool")]));
   ("packet_held_item_slot", Compound (Container [mkField (Some "slotId") false (Named "i16")]));
   ("packet_keep_alive", Compound (Container [mkField (Some "keepAliveId") false (Named "i64")]));
   ("packet_lock_difficulty", Compound (Container [mkField (Some "locked") false (Named "bool")]));
   ("packet_look", Compound (Container [mkField (Some "yaw") false (Named "f32"); mkField (Some "pitch") false (Named "f32"); mkField (Some "flags") false
     (Named "MovementFlags")]));
   ("packet_message_acknowledgement", Compound (Container [mkField (Some "count") false (Named "varint")]));
   ("packet_name_item", Compound (Container [mkField (Some "name") false (Named "string")]));
   ("packet_pick_item_from_block", Compound (Container [mkField (Some "position") false (Named "position"); mkField (Some "includeData") false (Named
     "bool")]));
   ("packet_pick_item_from_entity", Compound (Container [mkField (Some "entityId") false (Named "varint"); mkField (Some "includeData") false (Named
     "bool")]));
   ("packet_ping_request", Compound (Container [mkField (Some "id") false (Named "i64")]));
   ("packet_player_input", Compound (Container [mkField (Some "inputs") false (Inline (Bitflags "u8" ["forward"; "backward"; "left"; "right"; "jump";
     "shift"; "sprint"]))]));
   ("packet_player_loaded", Compound (Container []));
   ("packet_pong", Compound (Container [mkField (Some "id") false (Named "i32")]));
   ("packet_position", Compound (Container [mkField (Some "x") false (Named "f64"); mkField (Some "y") false (Named "f64"); mkField (Some "z") false
     (Named "f64"); mkField (Some "flags") false (Named "MovementFlags")]));
   ("packet_position_look", Compound (Container [mkField (Some "x") false (Named "f64"); mkField (Some "y") false (Named "f64"); mkField (Some "z") false
     (Named "f64"); mkField (Some "yaw") false (Named "f32"); mkField (Some "pitch") false (Named "f32"); mkField (Some "flags") false (Named
     "MovementFlags")]));
   ("packet_query_block_nbt", Compound (Container [mkField (Some "transactionId") false (Named "varint"); mkField (Some "location") false (Named
     "position")]));
   ("packet_query_entity_nbt", Compound (Container [mkField (Some "transactionId") false (Named "varint"); mkField (Some "entityId") false (Named
     "varint")]));
   ("packet_recipe_book", Compound (Container [mkField (Some "bookId") false (Named "varint"); mkField (Some "bookOpen") false (Named "bool"); mkField
     (Some "filterActive") false (Named "bool")]));
   ("packet_resource_pack_receive", Compound (Container [mkField (Some "uuid") false (Named "UUID"); mkField (Some "result") false (Named "varint")]));
   ("packet_select_bundle_item", Compound (Container [mkField (Some "slotId") false (Named "varint"); mkField (Some "selectedItemIndex") false (Named
     "varint")]));
   ("packet_select_trade", Compound (Container [mkField (Some "slot") false (Named "varint")]));
   ("packet_set_beacon_effect", Compound (Container [mkField (Some "primary_effect") false (Inline (OptionOf (Named "varint"))); mkField (Some
     "secondary_effect") false (Inline (OptionOf (Named "varint")))]));
   ("packet_set_creative_slot", Compound (Container [mkField (Some "slot") false (Named "i16"); mkField (Some "item") false (Named "Slot")]));
   ("packet_set_difficulty", Compound (Container [mkField (Some "newDifficulty") false (Named "u8")]));
   ("packet_set_slot_state", Compound (Container [mkField (Some "slot_id") false (Named "varint"); mkField (Some "window_id") false (Named "ContainerID");
     mkField (Some "state") false (Named "bool")]));
   ("packet_spectate", Compound (Container [mkField (Some "target") false (Named "UUID")]));
   ("packet_steer_boat", Compound (Container [mkField (Some "leftPaddle") false (Named "bool"); mkField (Some "rightPaddle") false (Named "bool")]));
   ("packet_tab_complete", Compound (Container [mkField (Some "transactionId") false (Named "varint"); mkField (Some "text") false (Named "string")]));
   ("packet_teleport_confirm", Compound (Container [mkField (Some "teleportId") false (Named "varint")]));
   ("packet_tick_end", Compound (Container []));
   ("packet_update_command_block", Compound (Container [mkField (Some "location") false (Named "position"); mkField (Some "command") false (Named
     "string"); mkField (Some "mode") false (Named "varint"); mkField (Some "flags") false (Named "u8")]));
   ("packet_update_command_block_minecart", Compound (Container [mkField (Some "entityId") false (Named "varint"); mkField (Some "command") false (Named
     "string"); mkField (Some "track_output") false (Named "bool")]));
   ("packet_update_jigsaw_block", Compound (Container [mkField (Some "location") false (Named "position"); mkField (Some "name") false (Named "string");
     mkField (Some "target") false (Named "string"); mkField (Some "pool") false (Named "string"); mkField (Some "finalState") false (Named "string");
     mkField (Some "jointType") false (Named "string"); mkField (Some "selection_priority") false (Named "varint"); mkField (Some "placement_priority")
     false (Named "varint")]));
   ("packet_update_sign", Compound (Container [mkField (Some "location") false (Named "position"); mkField (Some "isFrontText") false (Named "bool");
     mkField (Some "text1") false (Named "string"); mkField (Some "text2") false (Named "string"); mkField (Some "text3") false (Named "string");
     mkField (Some "text4") false (Named "string")]));
   ("packet_update_structure_block", Compound (Container [mkField (Some "location") false (Named "position"); mkField (Some "action") false (Named
     "varint"); mkField (Some "mode") false (Named "varint"); mkField (Some "name") false (Named "string"); mkField (Some "offset_x") false (Named
     "i8"); mkField (Some "offset_y") false (Named "i8"); mkField (Some "offset_z") false (Named "i8"); mkField (Some "size_x") false (Named "i8");
     mkField (Some "size_y") false (Named "i8"); mkField (Some "size_z") false (Named "i8"); mkField (Some "mirror") false (Named "varint"); mkField
     (Some "rotation") false (Named "varint"); mkField (Some "metadata") false (Named "string"); mkField (Some "integrity") false (Named "f32");
     mkField (Some "seed") false (Named "varint"); mkField (Some "flags") false (Named "u8")]));
   ("packet_use_entity", Compound (Container [mkField (Some "target") false (Named "varint"); mkField (Some "mouse") false (Named "varint"); mkField (Some
     "x") false (Inline (SwitchOn "mouse" [("2", Named "f32")] (Some (Named "void")))); mkField (Some "y") false (Inline (SwitchOn "mouse" [("2", Named
     "f32")] (Some (Named "void")))); mkField (Some "z") false (Inline (SwitchOn "mouse" [("2", Named "f32")] (Some (Named "void")))); mkField (Some
     "hand") false (Inline (SwitchOn "mouse" [("0", Named "varint"); ("2", Named "varint")] (Some (Named "void")))); mkField (Some "sneaking") false
     (Named "bool")]));
   ("packet_use_item", Compound (Container [mkField (Some "hand") false (Named "varint"); mkField (Some "sequence") false (Named "varint"); mkField (Some
     "rotation") false (Named "vec2f")]));
   ("packet_vehicle_move", Compound (Container [mkField (Some "x") false (Named "f64"); mkField (Some "y") false (Named "f64"); mkField (Some "z") false
     (Named "f64"); mkField (Some "yaw") false (Named "f32"); mkField (Some "pitch") false (Named "f32"); mkField (Some "onGround") false (Named
     "bool")]));
   ("packet_window_click", Compound (Container [mkField (Some "windowId") false (Named "ContainerID"); mkField (Some "stateId") false (Named "varint");
     mkField (Some "slot") false (Named "i16"); mkField (Some "mouseButton") false (Named "i8"); mkField (Some "mode") false (Named "varint"); mkField
     (Some "changedSlots") false (Inline (ArrayOf (Inline (Container [mkField (Some "location") false (Named "i16"); mkField (Some "item") false (Named
     "Slot")])) (Some "varint") None)); mkField (Some "cursorItem") false (Named "Slot")]))].
Definition protocol_play_server : btree TypeDef :=
  protocol_play_server_0 ++ protocol_play_server_1.

Definition vendored : ProtocolFile :=
  mkFile protocol_types
    (mkStateSection (mkSection protocol_handshaking_client) (mkSection protocol_handshaking_server))
    (mkStateSection (mkSection protocol_status_client) (mkSection protocol_status_server))
    (mkStateSection (mkSection protocol_login_client) (mkSection protocol_login_server))
    (mkStateSection (mkSection protocol_configuration_client) (mkSection protocol_configuration_server))
    (mkStateSection (mkSection protocol_play_client) (mkSection protocol_play_server)).

(** ** Its packet tables *)

(** Ids and names of the packets, by the context [decode] gives its errors. *)
Definition tables_of (ir : Ir) : list (string * list (Z * string)) :=
  flat_map (λ s,
    let table side d := (side +:+ as_str (ir_state s), map (λ p, (pk_id p, side +:+ as_str (ir_state s) +:+ " " +:+ pk_name p)) (packets d)) in
    [table "clientbound " (clientbound s); table "serverbound " (serverbound s)]) (states ir).

(** C19. The packets are those of the protocol: the vendored description is
    accepted, and in every state and direction the ids and names it is built
    into are exactly those of the table whose codecs [PacketStates] models,
    237 packets in all. *)
Theorem vendored_tables :
  ∃ ir, build vendored = Ok ir
  ∧ tables_of ir = map (λ '(context, table), (context, sort_by_key fst (map (λ e, (entry_id e, entry_context e)) table))) all_tables
  ∧ foldr Nat.add 0%nat (map (λ t, length t.2) (tables_of ir)) = 237%nat.
Proof.
  exists (built vendored). split; [by vm_compute|]. split; by vm_compute.
Qed.
