(* ===== verification/Typed.v ===== *)
(** * Types of decoded values

    The generated decoders return values of their declared types: whatever
    bytes arrive, every field that was read is within the range of its wire
    type, strings are valid and within their limit, arrays have a length that
    fits. *)

From S2P Require Import Prelude Machine Reader Varint Utf8 Buffer Wire Nbt PacketTypes PlayPackets PlayPacketsOut LoginPackets.

Local Open Scope Z_scope.

(** ** The contract *)

Class TypedDecode {T} (c : Codec T) (dom : T → Prop) : Prop := typed_decode : yields (decode c) dom.
#[export] Hint Mode TypedDecode + + - : typeclass_instances.

Lemma consumes_yields {A} (m : Read A) (P : A → Prop) (Q : A → list byte → Prop) :
  consumes m Q → (∀ a bs, Q a bs → P a) → yields m P.
Proof. intros Hm HP r a r' Hr. destruct (Hm r a r' Hr) as (bs & suf & _ & _ & HQ). by eapply HP. Qed.

Lemma yields_impl {S E A} (m : M S E A) (P Q : A → Prop) : yields m P → (∀ a, P a → Q a) → yields m Q.
Proof. intros Hm HPQ s a s' Hs. eapply HPQ, Hm, Hs. Qed.

Lemma yields_any {S E A} (m : M S E A) : yields m any_value.
Proof. by intros s a s' _. Qed.

(** ** Primitives *)

Lemma yields_varint : yields read_varint (in_i 32).
Proof. intros r v r'. apply read_varint_range. Qed.
Lemma yields_unsigned (n : nat) :
  yields (let* bs := read_bytes (Z.of_nat n) in ret (be_value bs)) (in_u (8 * Z.of_nat n)).
Proof. eapply consumes_yields; [apply consumes_unsigned|]. by intros a bs []. Qed.
Lemma yields_signed (n : nat) :
  (0 < n)%nat → yields (let* bs := read_bytes (Z.of_nat n) in ret (swrap (8 * Z.of_nat n) (be_value bs))) (in_i (8 * Z.of_nat n)).
Proof. intros Hn. eapply consumes_yields; [by apply consumes_signed|]. by intros a bs []. Qed.

#[export] Instance typed_varint : TypedDecode wire_varint (in_i 32). Proof. apply yields_varint. Qed.
#[export] Instance typed_i8 : TypedDecode wire_i8 (in_i 8). Proof. apply (yields_signed 1). lia. Qed.
#[export] Instance typed_u8 : TypedDecode wire_u8 (in_u 8). Proof. apply (yields_unsigned 1). Qed.
#[export] Instance typed_i16 : TypedDecode wire_i16 (in_i 16). Proof. apply (yields_signed 2). lia. Qed.
#[export] Instance typed_u16 : TypedDecode wire_u16 (in_u 16). Proof. apply (yields_unsigned 2). Qed.
#[export] Instance typed_i32 : TypedDecode wire_i32 (in_i 32). Proof. apply (yields_signed 4). lia. Qed.
#[export] Instance typed_u32 : TypedDecode wire_u32 (in_u 32). Proof. apply (yields_unsigned 4). Qed.
#[export] Instance typed_i64 : TypedDecode wire_i64 (in_i 64). Proof. apply (yields_signed 8). lia. Qed.
#[export] Instance typed_u64 : TypedDecode wire_u64 (in_u 64). Proof. apply (yields_unsigned 8). Qed.
#[export] Instance typed_f32 : TypedDecode wire_f32 (in_u 32). Proof. apply (yields_unsigned 4). Qed.
#[export] Instance typed_f64 : TypedDecode wire_f64 (in_u 64). Proof. apply (yields_unsigned 8). Qed.
#[export] Instance typed_u128 : TypedDecode wire_u128 (in_u 128). Proof. apply (yields_unsigned 16). Qed.
#[export] Instance typed_bool : TypedDecode wire_bool any_value. Proof. apply yields_any. Qed.
#[export] Instance typed_unit : TypedDecode wire_unit any_value. Proof. apply yields_any. Qed.
#[export] Instance typed_Nbt : TypedDecode wire_Nbt nbt_fits.
Proof. eapply consumes_yields; [apply consumes_nbt|]. by intros a bs []. Qed.

#[export] Instance typed_String : TypedDecode wire_String wire_string.
Proof.
  unfold TypedDecode. simpl. unfold read_string. eapply yields_bind; [apply yields_varint|]. intros len _.
  destruct (negb _); [apply yields_raise|]. eapply yields_bind; [apply yields_any|]. intros bs _.
  destruct (utf8_valid bs) eqn:Hu; [|apply yields_raise]. simpl. destruct (Z.ltb_spec MAX_STRING_CHARS (Z.of_nat (chars_count bs)));
    [apply yields_raise|]. apply yields_ret. unfold wire_string, utf8_ok. by rewrite bytes_of_of_bytes.
Qed.

(** ** Combinators *)

Section combinators.
Context {T : Type} (c : Codec T) (dom : T → Prop) `{!TypedDecode c dom}.

#[export] Instance typed_Vec : TypedDecode (wire_Vec c) (vec_dom dom).
Proof.
  unfold TypedDecode. simpl. unfold read_array. eapply yields_bind; [apply yields_varint|]. intros len Hlen.
  destruct (Z.ltb_spec len 0); [apply yields_raise|]. eapply yields_bind; [apply yields_any|]. intros rem _.
  destruct (_ <? len); [apply yields_raise|]. eapply yields_impl; [apply yields_repeat_m, typed_decode|].
  intros l [Hl HF]. split; [|done]. rewrite Hl. unfold in_i, i32_max in *. lia.
Qed.

#[export] Instance typed_Option : TypedDecode (wire_Option c) (option_dom dom).
Proof.
  unfold TypedDecode. simpl. unfold read_option. eapply yields_bind; [apply yields_any|]. intros [] _.
  - eapply yields_bind; [apply typed_decode|]. intros v Hv. apply yields_ret. by intros v' [= <-].
  - apply yields_ret. by intros v'.
Qed.

#[export] Instance typed_Holder : TypedDecode (wire_Holder c) (holder_dom dom).
Proof.
  unfold TypedDecode. simpl. eapply yields_bind; [apply yields_varint|]. intros n Hn.
  destruct (Z.ltb_spec n 0); [apply yields_raise|]. destruct (Z.eqb_spec n 0).
  - eapply yields_bind; [apply typed_decode|]. intros v Hv. by apply yields_ret.
  - apply yields_ret. simpl. unfold in_i, i32_max in *. lia.
Qed.
End combinators.

#[export] Instance typed_HolderSet : TypedDecode wire_HolderSet holder_set_dom.
Proof.
  unfold TypedDecode. simpl. eapply yields_bind; [apply yields_varint|]. intros n Hn.
  destruct (Z.ltb_spec n 0); [apply yields_raise|]. destruct (Z.eqb_spec n 0).
  - eapply yields_bind; [apply typed_String|]. intros v Hv. by apply yields_ret.
  - eapply yields_bind; [apply yields_any|]. intros rem _. destruct (_ <? _); [apply yields_raise|].
    eapply yields_bind; [apply yields_repeat_m, yields_varint|]. intros l [Hl HF]. apply yields_ret. split; [|done].
    rewrite Hl. unfold in_i, i32_max in *. lia.
Qed.

(** ** Generated codecs *)

Ltac typed_field :=
  lazymatch goal with
  | |- yields (decode ?c) _ => let H := fresh in pose proof (typed_decode (c := c)) as H; exact H
  | |- yields read_varint _ => apply yields_varint
  | |- yields get_i32 _ => apply typed_i32
  | |- yields get_i64 _ => apply typed_i64
  | |- yields get_u8 _ => apply typed_u8
  | |- yields get_i8 _ => apply typed_i8
  | |- yields _ _ => apply yields_any
  end.

Ltac solve_typed :=
  lazymatch goal with
  | |- TypedDecode ?c ?dom =>
      unfold TypedDecode, c; cbn [decode];
      first
        [ by intros ? ? ? ?
        | repeat (eapply yields_bind; [typed_field|intros ? ?]; cbv beta in *); apply yields_ret; unfold dom; cbn; split_and?; (assumption || exact I) ]
  end.

#[export] Instance typed_Position : TypedDecode wire_Position dom_Position.
Proof.
  unfold TypedDecode. cbn [decode wire_Position]. eapply yields_bind; [apply yields_any|]. intros raw _. apply yields_ret.
  assert (∀ k z, 0 < k < 64 → in_i k (Z.shiftr (swrap 64 (Z.shiftl (Z.land z (Z.ones k)) (64 - k))) (64 - k))) as Hr.
  { intros k z Hk. pose proof (swrap_range 64 (Z.shiftl (Z.land z (Z.ones k)) (64 - k)) ltac:(lia)) as Hs.
    revert Hs. generalize (swrap 64 (Z.shiftl (Z.land z (Z.ones k)) (64 - k))). intros v Hv. unfold in_i in *.
    rewrite Z.shiftr_div_pow2 by lia. assert (2 ^ (64 - 1) = 2 ^ (k - 1) * 2 ^ (64 - k)) as Hp by (rewrite <- Z.pow_add_r by lia; f_equal; lia).
    pose proof (Z.pow_pos_nonneg 2 (64 - k) ltac:(lia) ltac:(lia)).
    split; [apply Z.div_le_lower_bound; lia|apply Z.div_lt_upper_bound; lia]. }
  pose proof (Hr 26 (Z.shiftr raw 38) ltac:(lia)) as H1. pose proof (Hr 26 (Z.shiftr raw 12) ltac:(lia)) as H2. pose proof (Hr 12 raw ltac:(lia)) as H3.
  change (Z.ones 26) with 0x3ffffff in *. change (Z.ones 12) with 0xfff in *. change (64 - 26) with 38 in *. change (64 - 12) with 52 in *.
  unfold dom_Position. cbn [pos_x pos_y pos_z].
  rewrite !(swrap_small 32), !(swrap_small 16); [done|..]; try lia; unfold in_i in *; lia.
Qed.
#[export] Instance typed_ItemSoundEvent : TypedDecode wire_ItemSoundEvent dom_ItemSoundEvent.
Proof. solve_typed. Qed.
#[export] Instance typed_Vec3f64 : TypedDecode wire_Vec3f64 dom_Vec3f64.
Proof. solve_typed. Qed.
#[export] Instance typed_ChatSessionValuePublicKey : TypedDecode wire_ChatSessionValuePublicKey dom_ChatSessionValuePublicKey.
Proof. solve_typed. Qed.
#[export] Instance typed_ChatSessionValue : TypedDecode wire_ChatSessionValue dom_ChatSessionValue.
Proof. solve_typed. Qed.
#[export] Instance typed_Vec3f : TypedDecode wire_Vec3f dom_Vec3f.
Proof. solve_typed. Qed.
#[export] Instance typed_GameProfilePropertiesItem : TypedDecode wire_GameProfilePropertiesItem dom_GameProfilePropertiesItem.
Proof. solve_typed. Qed.
#[export] Instance typed_GameProfile : TypedDecode wire_GameProfile dom_GameProfile.
Proof. solve_typed. Qed.
#[export] Instance typed_PackedChunkPos : TypedDecode wire_PackedChunkPos dom_PackedChunkPos.
Proof. solve_typed. Qed.
#[export] Instance typed_PacketCommonAddResourcePack : TypedDecode wire_PacketCommonAddResourcePack dom_PacketCommonAddResourcePack.
Proof. solve_typed. Qed.
#[export] Instance typed_PacketCommonCookieRequest : TypedDecode wire_PacketCommonCookieRequest dom_PacketCommonCookieRequest.
Proof. solve_typed. Qed.
#[export] Instance typed_PacketCommonCookieResponse : TypedDecode wire_PacketCommonCookieResponse dom_PacketCommonCookieResponse.
Proof. solve_typed. Qed.
#[export] Instance typed_PacketCommonCustomReportDetailsDetailsItem : TypedDecode wire_PacketCommonCustomReportDetailsDetailsItem dom_PacketCommonCustomReportDetailsDetailsItem.
Proof. solve_typed. Qed.
#[export] Instance typed_PacketCommonCustomReportDetails : TypedDecode wire_PacketCommonCustomReportDetails dom_PacketCommonCustomReportDetails.
Proof. solve_typed. Qed.
#[export] Instance typed_PacketCommonRemoveResourcePack : TypedDecode wire_PacketCommonRemoveResourcePack dom_PacketCommonRemoveResourcePack.
Proof. solve_typed. Qed.
#[export] Instance typed_PacketCommonSelectKnownPacksPacksItem : TypedDecode wire_PacketCommonSelectKnownPacksPacksItem dom_PacketCommonSelectKnownPacksPacksItem.
Proof. solve_typed. Qed.
#[export] Instance typed_PacketCommonSelectKnownPacks : TypedDecode wire_PacketCommonSelectKnownPacks dom_PacketCommonSelectKnownPacks.
Proof. solve_typed. Qed.
#[export] Instance typed_PacketCommonSettingsParticleStatus : TypedDecode wire_PacketCommonSettingsParticleStatus dom_PacketCommonSettingsParticleStatus.
Proof. solve_typed. Qed.
#[export] Instance typed_PacketCommonSettings : TypedDecode wire_PacketCommonSettings dom_PacketCommonSettings.
Proof. solve_typed. Qed.
#[export] Instance typed_PacketCommonStoreCookie : TypedDecode wire_PacketCommonStoreCookie dom_PacketCommonStoreCookie.
Proof. solve_typed. Qed.
#[export] Instance typed_PacketCommonTransfer : TypedDecode wire_PacketCommonTransfer dom_PacketCommonTransfer.
Proof. solve_typed. Qed.
#[export] Instance typed_SoundSource : TypedDecode wire_SoundSource dom_SoundSource.
Proof. solve_typed. Qed.
#[export] Instance typed_TagsItem : TypedDecode wire_TagsItem dom_TagsItem.
Proof. solve_typed. Qed.
#[export] Instance typed_Vec2f : TypedDecode wire_Vec2f dom_Vec2f.
Proof. solve_typed. Qed.
#[export] Instance typed_Vec3i16 : TypedDecode wire_Vec3i16 dom_Vec3i16.
Proof. solve_typed. Qed.
#[export] Instance typed_PacketSpawnEntity : TypedDecode wire_PacketSpawnEntity dom_PacketSpawnEntity.
Proof. solve_typed. Qed.
#[export] Instance typed_PacketSpawnEntityExperienceOrb : TypedDecode wire_PacketSpawnEntityExperienceOrb dom_PacketSpawnEntityExperienceOrb.
Proof. solve_typed. Qed.
#[export] Instance typed_PacketAnimation : TypedDecode wire_PacketAnimation dom_PacketAnimation.
Proof. solve_typed. Qed.
#[export] Instance typed_PacketStatisticsEntriesItem : TypedDecode wire_PacketStatisticsEntriesItem dom_PacketStatisticsEntriesItem.
Proof. solve_typed. Qed.
#[export] Instance typed_PacketStatistics : TypedDecode wire_PacketStatistics dom_PacketStatistics.
Proof. solve_typed. Qed.
#[export] Instance typed_PacketAcknowledgePlayerDigging : TypedDecode wire_PacketAcknowledgePlayerDigging dom_PacketAcknowledgePlayerDigging.
Proof. solve_typed. Qed.
#[export] Instance typed_PacketBlockBreakAnimation : TypedDecode wire_PacketBlockBreakAnimation dom_PacketBlockBreakAnimation.
Proof. solve_typed. Qed.
#[export] Instance typed_PacketBlockAction : TypedDecode wire_PacketBlockAction dom_PacketBlockAction.
Proof. solve_typed. Qed.
#[export] Instance typed_PacketBlockChange : TypedDecode wire_PacketBlockChange dom_PacketBlockChange.
Proof. solve_typed. Qed.
#[export] Instance typed_PacketDifficulty : TypedDecode wire_PacketDifficulty dom_PacketDifficulty.
Proof. solve_typed. Qed.
#[export] Instance typed_PacketChunkBatchFinished : TypedDecode wire_PacketChunkBatchFinished dom_PacketChunkBatchFinished.
Proof. solve_typed. Qed.
#[export] Instance typed_PacketChunkBiomesBiomesItem : TypedDecode wire_PacketChunkBiomesBiomesItem dom_PacketChunkBiomesBiomesItem.
Proof. solve_typed. Qed.
#[export] Instance typed_PacketChunkBiomes : TypedDecode wire_PacketChunkBiomes dom_PacketChunkBiomes.
Proof. solve_typed. Qed.
#[export] Instance typed_PacketClearTitles : TypedDecode wire_PacketClearTitles dom_PacketClearTitles.
Proof. solve_typed. Qed.
#[export] Instance typed_PacketTabCompleteMatchesItem : TypedDecode wire_PacketTabCompleteMatchesItem dom_PacketTabCompleteMatchesItem.
Proof. solve_typed. Qed.
#[export] Instance typed_PacketTabComplete : TypedDecode wire_PacketTabComplete dom_PacketTabComplete.
Proof. solve_typed. Qed.
#[export] Instance typed_PacketCloseWindow : TypedDecode wire_PacketCloseWindow dom_PacketCloseWindow.
Proof. solve_typed. Qed.
#[export] Instance typed_PacketCraftProgressBar : TypedDecode wire_PacketCraftProgressBar dom_PacketCraftProgressBar.
Proof. solve_typed. Qed.
#[export] Instance typed_PacketSetCooldown : TypedDecode wire_PacketSetCooldown dom_PacketSetCooldown.
Proof. solve_typed. Qed.
#[export] Instance typed_PacketChatSuggestions : TypedDecode wire_PacketChatSuggestions dom_PacketChatSuggestions.
Proof. solve_typed. Qed.
#[export] Instance typed_PacketDamageEvent : TypedDecode wire_PacketDamageEvent dom_PacketDamageEvent.
Proof. solve_typed. Qed.
#[export] Instance typed_PacketDebugSample : TypedDecode wire_PacketDebugSample dom_PacketDebugSample.
Proof. solve_typed. Qed.
#[export] Instance typed_PacketKickDisconnect : TypedDecode wire_PacketKickDisconnect dom_PacketKickDisconnect.
Proof. solve_typed. Qed.
#[export] Instance typed_ChatTypeParameterType : TypedDecode wire_ChatTypeParameterType dom_ChatTypeParameterType.
Proof. solve_typed. Qed.
#[export] Instance typed_ChatType : TypedDecode wire_ChatType dom_ChatType.
Proof. solve_typed. Qed.
#[export] Instance typed_ChatTypes : TypedDecode wire_ChatTypes dom_ChatTypes.
Proof. solve_typed. Qed.
#[export] Instance typed_PacketProfilelessChat : TypedDecode wire_PacketProfilelessChat dom_PacketProfilelessChat.
Proof. solve_typed. Qed.
#[export] Instance typed_PacketEntityStatus : TypedDecode wire_PacketEntityStatus dom_PacketEntityStatus.
Proof. solve_typed. Qed.
#[export] Instance typed_PacketSyncEntityPosition : TypedDecode wire_PacketSyncEntityPosition dom_PacketSyncEntityPosition.
Proof. solve_typed. Qed.
#[export] Instance typed_PacketUnloadChunk : TypedDecode wire_PacketUnloadChunk dom_PacketUnloadChunk.
Proof. solve_typed. Qed.
#[export] Instance typed_PacketGameStateChange : TypedDecode wire_PacketGameStateChange dom_PacketGameStateChange.
Proof. solve_typed. Qed.
#[export] Instance typed_PacketOpenHorseWindow : TypedDecode wire_PacketOpenHorseWindow dom_PacketOpenHorseWindow.
Proof. solve_typed. Qed.
#[export] Instance typed_PacketHurtAnimation : TypedDecode wire_PacketHurtAnimation dom_PacketHurtAnimation.
Proof. solve_typed. Qed.
#[export] Instance typed_PacketInitializeWorldBorder : TypedDecode wire_PacketInitializeWorldBorder dom_PacketInitializeWorldBorder.
Proof. solve_typed. Qed.
#[export] Instance typed_PacketKeepAlive : TypedDecode wire_PacketKeepAlive dom_PacketKeepAlive.
Proof. solve_typed. Qed.
#[export] Instance typed_PacketWorldEvent : TypedDecode wire_PacketWorldEvent dom_PacketWorldEvent.
Proof. solve_typed. Qed.
#[export] Instance typed_PacketUpdateLight : TypedDecode wire_PacketUpdateLight dom_PacketUpdateLight.
Proof. solve_typed. Qed.
#[export] Instance typed_SpawnInfoGamemode : TypedDecode wire_SpawnInfoGamemode dom_SpawnInfoGamemode.
Proof. solve_typed. Qed.
#[export] Instance typed_SpawnInfoDeathValue : TypedDecode wire_SpawnInfoDeathValue dom_SpawnInfoDeathValue.
Proof. solve_typed. Qed.
#[export] Instance typed_SpawnInfo : TypedDecode wire_SpawnInfo dom_SpawnInfo.
Proof. solve_typed. Qed.
#[export] Instance typed_PacketLogin : TypedDecode wire_PacketLogin dom_PacketLogin.
Proof. solve_typed. Qed.
#[export] Instance typed_PacketMapIconsValueItem : TypedDecode wire_PacketMapIconsValueItem dom_PacketMapIconsValueItem.
Proof. solve_typed. Qed.
#[export] Instance typed_PacketRelEntityMove : TypedDecode wire_PacketRelEntityMove dom_PacketRelEntityMove.
Proof. solve_typed. Qed.
#[export] Instance typed_PacketEntityMoveLook : TypedDecode wire_PacketEntityMoveLook dom_PacketEntityMoveLook.
Proof. solve_typed. Qed.
#[export] Instance typed_PacketMoveMinecartStepsItem : TypedDecode wire_PacketMoveMinecartStepsItem dom_PacketMoveMinecartStepsItem.
Proof. solve_typed. Qed.
#[export] Instance typed_PacketMoveMinecart : TypedDecode wire_PacketMoveMinecart dom_PacketMoveMinecart.
Proof. solve_typed. Qed.
#[export] Instance typed_PacketEntityLook : TypedDecode wire_PacketEntityLook dom_PacketEntityLook.
Proof. solve_typed. Qed.
#[export] Instance typed_PacketVehicleMove : TypedDecode wire_PacketVehicleMove dom_PacketVehicleMove.
Proof. solve_typed. Qed.
#[export] Instance typed_PacketOpenBook : TypedDecode wire_PacketOpenBook dom_PacketOpenBook.
Proof. solve_typed. Qed.
#[export] Instance typed_PacketOpenWindow : TypedDecode wire_PacketOpenWindow dom_PacketOpenWindow.
Proof. solve_typed. Qed.
#[export] Instance typed_PacketOpenSignEntity : TypedDecode wire_PacketOpenSignEntity dom_PacketOpenSignEntity.
Proof. solve_typed. Qed.
#[export] Instance typed_PacketPing : TypedDecode wire_PacketPing dom_PacketPing.
Proof. solve_typed. Qed.
#[export] Instance typed_PacketPingResponse : TypedDecode wire_PacketPingResponse dom_PacketPingResponse.
Proof. solve_typed. Qed.
#[export] Instance typed_RecipeDisplayType : TypedDecode wire_RecipeDisplayType dom_RecipeDisplayType.
Proof. solve_typed. Qed.
#[export] Instance typed_SlotDisplayType : TypedDecode wire_SlotDisplayType dom_SlotDisplayType.
Proof. solve_typed. Qed.
#[export] Instance typed_PacketAbilities : TypedDecode wire_PacketAbilities dom_PacketAbilities.
Proof. solve_typed. Qed.
#[export] Instance typed_PacketEndCombatEvent : TypedDecode wire_PacketEndCombatEvent dom_PacketEndCombatEvent.
Proof. solve_typed. Qed.
#[export] Instance typed_PacketDeathCombatEvent : TypedDecode wire_PacketDeathCombatEvent dom_PacketDeathCombatEvent.
Proof. solve_typed. Qed.
#[export] Instance typed_PacketPlayerRemove : TypedDecode wire_PacketPlayerRemove dom_PacketPlayerRemove.
Proof. solve_typed. Qed.
#[export] Instance typed_PacketPosition : TypedDecode wire_PacketPosition dom_PacketPosition.
Proof. solve_typed. Qed.
#[export] Instance typed_PacketPlayerRotation : TypedDecode wire_PacketPlayerRotation dom_PacketPlayerRotation.
Proof. solve_typed. Qed.
#[export] Instance typed_PacketRecipeBookAddEntriesItemRecipeCategory : TypedDecode wire_PacketRecipeBookAddEntriesItemRecipeCategory dom_PacketRecipeBookAddEntriesItemRecipeCategory.
Proof. solve_typed. Qed.
#[export] Instance typed_PacketRecipeBookRemove : TypedDecode wire_PacketRecipeBookRemove dom_PacketRecipeBookRemove.
Proof. solve_typed. Qed.
#[export] Instance typed_PacketRecipeBookSettings : TypedDecode wire_PacketRecipeBookSettings dom_PacketRecipeBookSettings.
Proof. solve_typed. Qed.
#[export] Instance typed_PacketEntityDestroy : TypedDecode wire_PacketEntityDestroy dom_PacketEntityDestroy.
Proof. solve_typed. Qed.
#[export] Instance typed_PacketRemoveEntityEffect : TypedDecode wire_PacketRemoveEntityEffect dom_PacketRemoveEntityEffect.
Proof. solve_typed. Qed.
#[export] Instance typed_PacketResetScore : TypedDecode wire_PacketResetScore dom_PacketResetScore.
Proof. solve_typed. Qed.
#[export] Instance typed_PacketRespawn : TypedDecode wire_PacketRespawn dom_PacketRespawn.
Proof. solve_typed. Qed.
#[export] Instance typed_PacketEntityHeadRotation : TypedDecode wire_PacketEntityHeadRotation dom_PacketEntityHeadRotation.
Proof. solve_typed. Qed.
#[export] Instance typed_PacketSelectAdvancementTab : TypedDecode wire_PacketSelectAdvancementTab dom_PacketSelectAdvancementTab.
Proof. solve_typed. Qed.
#[export] Instance typed_PacketServerData : TypedDecode wire_PacketServerData dom_PacketServerData.
Proof. solve_typed. Qed.
#[export] Instance typed_PacketActionBar : TypedDecode wire_PacketActionBar dom_PacketActionBar.
Proof. solve_typed. Qed.
#[export] Instance typed_PacketWorldBorderCenter : TypedDecode wire_PacketWorldBorderCenter dom_PacketWorldBorderCenter.
Proof. solve_typed. Qed.
#[export] Instance typed_PacketWorldBorderLerpSize : TypedDecode wire_PacketWorldBorderLerpSize dom_PacketWorldBorderLerpSize.
Proof. solve_typed. Qed.
#[export] Instance typed_PacketWorldBorderSize : TypedDecode wire_PacketWorldBorderSize dom_PacketWorldBorderSize.
Proof. solve_typed. Qed.
#[export] Instance typed_PacketWorldBorderWarningDelay : TypedDecode wire_PacketWorldBorderWarningDelay dom_PacketWorldBorderWarningDelay.
Proof. solve_typed. Qed.
#[export] Instance typed_PacketWorldBorderWarningReach : TypedDecode wire_PacketWorldBorderWarningReach dom_PacketWorldBorderWarningReach.
Proof. solve_typed. Qed.
#[export] Instance typed_PacketCamera : TypedDecode wire_PacketCamera dom_PacketCamera.
Proof. solve_typed. Qed.
#[export] Instance typed_PacketUpdateViewPosition : TypedDecode wire_PacketUpdateViewPosition dom_PacketUpdateViewPosition.
Proof. solve_typed. Qed.
#[export] Instance typed_PacketUpdateViewDistance : TypedDecode wire_PacketUpdateViewDistance dom_PacketUpdateViewDistance.
Proof. solve_typed. Qed.
#[export] Instance typed_PacketSpawnPosition : TypedDecode wire_PacketSpawnPosition dom_PacketSpawnPosition.
Proof. solve_typed. Qed.
#[export] Instance typed_PacketScoreboardDisplayObjective : TypedDecode wire_PacketScoreboardDisplayObjective dom_PacketScoreboardDisplayObjective.
Proof. solve_typed. Qed.
#[export] Instance typed_PacketAttachEntity : TypedDecode wire_PacketAttachEntity dom_PacketAttachEntity.
Proof. solve_typed. Qed.
#[export] Instance typed_PacketEntityVelocity : TypedDecode wire_PacketEntityVelocity dom_PacketEntityVelocity.
Proof. solve_typed. Qed.
#[export] Instance typed_PacketExperience : TypedDecode wire_PacketExperience dom_PacketExperience.
Proof. solve_typed. Qed.
#[export] Instance typed_PacketUpdateHealth : TypedDecode wire_PacketUpdateHealth dom_PacketUpdateHealth.
Proof. solve_typed. Qed.
#[export] Instance typed_PacketHeldItemSlot : TypedDecode wire_PacketHeldItemSlot dom_PacketHeldItemSlot.
Proof. solve_typed. Qed.
#[export] Instance typed_PacketSetPassengers : TypedDecode wire_PacketSetPassengers dom_PacketSetPassengers.
Proof. solve_typed. Qed.
#[export] Instance typed_PacketSimulationDistance : TypedDecode wire_PacketSimulationDistance dom_PacketSimulationDistance.
Proof. solve_typed. Qed.
#[export] Instance typed_PacketSetTitleSubtitle : TypedDecode wire_PacketSetTitleSubtitle dom_PacketSetTitleSubtitle.
Proof. solve_typed. Qed.
#[export] Instance typed_PacketUpdateTime : TypedDecode wire_PacketUpdateTime dom_PacketUpdateTime.
Proof. solve_typed. Qed.
#[export] Instance typed_PacketSetTitleText : TypedDecode wire_PacketSetTitleText dom_PacketSetTitleText.
Proof. solve_typed. Qed.
#[export] Instance typed_PacketSetTitleTime : TypedDecode wire_PacketSetTitleTime dom_PacketSetTitleTime.
Proof. solve_typed. Qed.
#[export] Instance typed_PacketEntitySoundEffect : TypedDecode wire_PacketEntitySoundEffect dom_PacketEntitySoundEffect.
Proof. solve_typed. Qed.
#[export] Instance typed_PacketSoundEffect : TypedDecode wire_PacketSoundEffect dom_PacketSoundEffect.
Proof. solve_typed. Qed.
#[export] Instance typed_PacketSystemChat : TypedDecode wire_PacketSystemChat dom_PacketSystemChat.
Proof. solve_typed. Qed.
#[export] Instance typed_PacketPlayerlistHeader : TypedDecode wire_PacketPlayerlistHeader dom_PacketPlayerlistHeader.
Proof. solve_typed. Qed.
#[export] Instance typed_PacketCollect : TypedDecode wire_PacketCollect dom_PacketCollect.
Proof. solve_typed. Qed.
#[export] Instance typed_PacketEntityTeleport : TypedDecode wire_PacketEntityTeleport dom_PacketEntityTeleport.
Proof. solve_typed. Qed.
#[export] Instance typed_PacketSetTickingState : TypedDecode wire_PacketSetTickingState dom_PacketSetTickingState.
Proof. solve_typed. Qed.
#[export] Instance typed_PacketStepTick : TypedDecode wire_PacketStepTick dom_PacketStepTick.
Proof. solve_typed. Qed.
#[export] Instance typed_PacketEntityUpdateAttributesPropertiesItemKey : TypedDecode wire_PacketEntityUpdateAttributesPropertiesItemKey dom_PacketEntityUpdateAttributesPropertiesItemKey.
Proof. solve_typed. Qed.
#[export] Instance typed_PacketEntityUpdateAttributesPropertiesItemModifiersItem : TypedDecode wire_PacketEntityUpdateAttributesPropertiesItemModifiersItem dom_PacketEntityUpdateAttributesPropertiesItemModifiersItem.
Proof. solve_typed. Qed.
#[export] Instance typed_PacketEntityUpdateAttributesPropertiesItem : TypedDecode wire_PacketEntityUpdateAttributesPropertiesItem dom_PacketEntityUpdateAttributesPropertiesItem.
Proof. solve_typed. Qed.
#[export] Instance typed_PacketEntityUpdateAttributes : TypedDecode wire_PacketEntityUpdateAttributes dom_PacketEntityUpdateAttributes.
Proof. solve_typed. Qed.
#[export] Instance typed_PacketEntityEffect : TypedDecode wire_PacketEntityEffect dom_PacketEntityEffect.
Proof. solve_typed. Qed.
#[export] Instance typed_PacketDeclareRecipesRecipesItem : TypedDecode wire_PacketDeclareRecipesRecipesItem dom_PacketDeclareRecipesRecipesItem.
Proof. solve_typed. Qed.
#[export] Instance typed_PacketTagsTagsItem : TypedDecode wire_PacketTagsTagsItem dom_PacketTagsTagsItem.
Proof. solve_typed. Qed.
#[export] Instance typed_PacketTags : TypedDecode wire_PacketTags dom_PacketTags.
Proof. solve_typed. Qed.
#[export] Instance typed_PacketSetProjectilePower : TypedDecode wire_PacketSetProjectilePower dom_PacketSetProjectilePower.
Proof. solve_typed. Qed.
#[export] Instance typed_PacketTeleportConfirm : TypedDecode wire_PacketTeleportConfirm dom_PacketTeleportConfirm.
Proof. solve_typed. Qed.
#[export] Instance typed_PacketQueryBlockNbt : TypedDecode wire_PacketQueryBlockNbt dom_PacketQueryBlockNbt.
Proof. solve_typed. Qed.
#[export] Instance typed_PacketSelectBundleItem : TypedDecode wire_PacketSelectBundleItem dom_PacketSelectBundleItem.
Proof. solve_typed. Qed.
#[export] Instance typed_PacketSetDifficulty : TypedDecode wire_PacketSetDifficulty dom_PacketSetDifficulty.
Proof. solve_typed. Qed.
#[export] Instance typed_PacketMessageAcknowledgement : TypedDecode wire_PacketMessageAcknowledgement dom_PacketMessageAcknowledgement.
Proof. solve_typed. Qed.
#[export] Instance typed_PacketChatCommand : TypedDecode wire_PacketChatCommand dom_PacketChatCommand.
Proof. solve_typed. Qed.
#[export] Instance typed_PacketChatSessionUpdate : TypedDecode wire_PacketChatSessionUpdate dom_PacketChatSessionUpdate.
Proof. solve_typed. Qed.
#[export] Instance typed_PacketChunkBatchReceived : TypedDecode wire_PacketChunkBatchReceived dom_PacketChunkBatchReceived.
Proof. solve_typed. Qed.
#[export] Instance typed_PacketClientCommand : TypedDecode wire_PacketClientCommand dom_PacketClientCommand.
Proof. solve_typed. Qed.
#[export] Instance typed_PacketTabCompleteServerbound : TypedDecode wire_PacketTabCompleteServerbound dom_PacketTabCompleteServerbound.
Proof. solve_typed. Qed.
#[export] Instance typed_PacketEnchantItem : TypedDecode wire_PacketEnchantItem dom_PacketEnchantItem.
Proof. solve_typed. Qed.
#[export] Instance typed_PacketSetSlotState : TypedDecode wire_PacketSetSlotState dom_PacketSetSlotState.
Proof. solve_typed. Qed.
#[export] Instance typed_PacketDebugSampleSubscription : TypedDecode wire_PacketDebugSampleSubscription dom_PacketDebugSampleSubscription.
Proof. solve_typed. Qed.
#[export] Instance typed_PacketEditBook : TypedDecode wire_PacketEditBook dom_PacketEditBook.
Proof. solve_typed. Qed.
#[export] Instance typed_PacketQueryEntityNbt : TypedDecode wire_PacketQueryEntityNbt dom_PacketQueryEntityNbt.
Proof. solve_typed. Qed.
#[export] Instance typed_PacketGenerateStructure : TypedDecode wire_PacketGenerateStructure dom_PacketGenerateStructure.
Proof. solve_typed. Qed.
#[export] Instance typed_PacketLockDifficulty : TypedDecode wire_PacketLockDifficulty dom_PacketLockDifficulty.
Proof. solve_typed. Qed.
#[export] Instance typed_PacketPositionServerbound : TypedDecode wire_PacketPositionServerbound dom_PacketPositionServerbound.
Proof. solve_typed. Qed.
#[export] Instance typed_PacketPositionLook : TypedDecode wire_PacketPositionLook dom_PacketPositionLook.
Proof. solve_typed. Qed.
#[export] Instance typed_PacketLook : TypedDecode wire_PacketLook dom_PacketLook.
Proof. solve_typed. Qed.
#[export] Instance typed_PacketFlying : TypedDecode wire_PacketFlying dom_PacketFlying.
Proof. solve_typed. Qed.
#[export] Instance typed_PacketVehicleMoveServerbound : TypedDecode wire_PacketVehicleMoveServerbound dom_PacketVehicleMoveServerbound.
Proof. solve_typed. Qed.
#[export] Instance typed_PacketSteerBoat : TypedDecode wire_PacketSteerBoat dom_PacketSteerBoat.
Proof. solve_typed. Qed.
#[export] Instance typed_PacketPickItemFromBlock : TypedDecode wire_PacketPickItemFromBlock dom_PacketPickItemFromBlock.
Proof. solve_typed. Qed.
#[export] Instance typed_PacketPickItemFromEntity : TypedDecode wire_PacketPickItemFromEntity dom_PacketPickItemFromEntity.
Proof. solve_typed. Qed.
#[export] Instance typed_PacketPingRequest : TypedDecode wire_PacketPingRequest dom_PacketPingRequest.
Proof. solve_typed. Qed.
#[export] Instance typed_PacketCraftRecipeRequest : TypedDecode wire_PacketCraftRecipeRequest dom_PacketCraftRecipeRequest.
Proof. solve_typed. Qed.
#[export] Instance typed_PacketAbilitiesServerbound : TypedDecode wire_PacketAbilitiesServerbound dom_PacketAbilitiesServerbound.
Proof. solve_typed. Qed.
#[export] Instance typed_PacketBlockDig : TypedDecode wire_PacketBlockDig dom_PacketBlockDig.
Proof. solve_typed. Qed.
#[export] Instance typed_PacketEntityAction : TypedDecode wire_PacketEntityAction dom_PacketEntityAction.
Proof. solve_typed. Qed.
#[export] Instance typed_PacketPlayerInput : TypedDecode wire_PacketPlayerInput dom_PacketPlayerInput.
Proof. solve_typed. Qed.
#[export] Instance typed_PacketPong : TypedDecode wire_PacketPong dom_PacketPong.
Proof. solve_typed. Qed.
#[export] Instance typed_PacketRecipeBook : TypedDecode wire_PacketRecipeBook dom_PacketRecipeBook.
Proof. solve_typed. Qed.
#[export] Instance typed_PacketDisplayedRecipe : TypedDecode wire_PacketDisplayedRecipe dom_PacketDisplayedRecipe.
Proof. solve_typed. Qed.
#[export] Instance typed_PacketNameItem : TypedDecode wire_PacketNameItem dom_PacketNameItem.
Proof. solve_typed. Qed.
#[export] Instance typed_PacketResourcePackReceive : TypedDecode wire_PacketResourcePackReceive dom_PacketResourcePackReceive.
Proof. solve_typed. Qed.
#[export] Instance typed_PacketSelectTrade : TypedDecode wire_PacketSelectTrade dom_PacketSelectTrade.
Proof. solve_typed. Qed.
#[export] Instance typed_PacketSetBeaconEffect : TypedDecode wire_PacketSetBeaconEffect dom_PacketSetBeaconEffect.
Proof. solve_typed. Qed.
#[export] Instance typed_PacketHeldItemSlotServerbound : TypedDecode wire_PacketHeldItemSlotServerbound dom_PacketHeldItemSlotServerbound.
Proof. solve_typed. Qed.
#[export] Instance typed_PacketUpdateCommandBlock : TypedDecode wire_PacketUpdateCommandBlock dom_PacketUpdateCommandBlock.
Proof. solve_typed. Qed.
#[export] Instance typed_PacketUpdateCommandBlockMinecart : TypedDecode wire_PacketUpdateCommandBlockMinecart dom_PacketUpdateCommandBlockMinecart.
Proof. solve_typed. Qed.
#[export] Instance typed_PacketUpdateJigsawBlock : TypedDecode wire_PacketUpdateJigsawBlock dom_PacketUpdateJigsawBlock.
Proof. solve_typed. Qed.
#[export] Instance typed_PacketUpdateStructureBlock : TypedDecode wire_PacketUpdateStructureBlock dom_PacketUpdateStructureBlock.
Proof. solve_typed. Qed.
#[export] Instance typed_PacketUpdateSign : TypedDecode wire_PacketUpdateSign dom_PacketUpdateSign.
Proof. solve_typed. Qed.
#[export] Instance typed_PacketArmAnimation : TypedDecode wire_PacketArmAnimation dom_PacketArmAnimation.
Proof. solve_typed. Qed.
#[export] Instance typed_PacketSpectate : TypedDecode wire_PacketSpectate dom_PacketSpectate.
Proof. solve_typed. Qed.
#[export] Instance typed_PacketBlockPlace : TypedDecode wire_PacketBlockPlace dom_PacketBlockPlace.
Proof. solve_typed. Qed.
#[export] Instance typed_PacketUseItem : TypedDecode wire_PacketUseItem dom_PacketUseItem.
Proof. solve_typed. Qed.
#[export] Instance typed_HandshakePacketSetProtocol : TypedDecode wire_HandshakePacketSetProtocol dom_HandshakePacketSetProtocol.
Proof. solve_typed. Qed.
#[export] Instance typed_HandshakePacketLegacyServerListPing : TypedDecode wire_HandshakePacketLegacyServerListPing dom_HandshakePacketLegacyServerListPing.
Proof. solve_typed. Qed.
#[export] Instance typed_StatusPacketServerInfo : TypedDecode wire_StatusPacketServerInfo dom_StatusPacketServerInfo.
Proof. solve_typed. Qed.
#[export] Instance typed_StatusPacketPing : TypedDecode wire_StatusPacketPing dom_StatusPacketPing.
Proof. solve_typed. Qed.
#[export] Instance typed_LoginPacketDisconnect : TypedDecode wire_LoginPacketDisconnect dom_LoginPacketDisconnect.
Proof. solve_typed. Qed.
#[export] Instance typed_LoginPacketEncryptionBegin : TypedDecode wire_LoginPacketEncryptionBegin dom_LoginPacketEncryptionBegin.
Proof. solve_typed. Qed.
#[export] Instance typed_LoginPacketSuccessPropertiesItem : TypedDecode wire_LoginPacketSuccessPropertiesItem dom_LoginPacketSuccessPropertiesItem.
Proof. solve_typed. Qed.
#[export] Instance typed_LoginPacketSuccess : TypedDecode wire_LoginPacketSuccess dom_LoginPacketSuccess.
Proof. solve_typed. Qed.
#[export] Instance typed_LoginPacketCompress : TypedDecode wire_LoginPacketCompress dom_LoginPacketCompress.
Proof. solve_typed. Qed.
#[export] Instance typed_LoginPacketLoginStart : TypedDecode wire_LoginPacketLoginStart dom_LoginPacketLoginStart.
Proof. solve_typed. Qed.
#[export] Instance typed_LoginPacketEncryptionBeginServerbound : TypedDecode wire_LoginPacketEncryptionBeginServerbound dom_LoginPacketEncryptionBeginServerbound.
Proof. solve_typed. Qed.
#[export] Instance typed_ConfigPacketDisconnect : TypedDecode wire_ConfigPacketDisconnect dom_ConfigPacketDisconnect.
Proof. solve_typed. Qed.
#[export] Instance typed_ConfigPacketKeepAlive : TypedDecode wire_ConfigPacketKeepAlive dom_ConfigPacketKeepAlive.
Proof. solve_typed. Qed.
#[export] Instance typed_ConfigPacketPing : TypedDecode wire_ConfigPacketPing dom_ConfigPacketPing.
Proof. solve_typed. Qed.
#[export] Instance typed_ConfigPacketRegistryDataEntriesItem : TypedDecode wire_ConfigPacketRegistryDataEntriesItem dom_ConfigPacketRegistryDataEntriesItem.
Proof. solve_typed. Qed.
#[export] Instance typed_ConfigPacketRegistryData : TypedDecode wire_ConfigPacketRegistryData dom_ConfigPacketRegistryData.
Proof. solve_typed. Qed.
#[export] Instance typed_ConfigPacketFeatureFlags : TypedDecode wire_ConfigPacketFeatureFlags dom_ConfigPacketFeatureFlags.
Proof. solve_typed. Qed.
#[export] Instance typed_ConfigPacketTagsTagsItem : TypedDecode wire_ConfigPacketTagsTagsItem dom_ConfigPacketTagsTagsItem.
Proof. solve_typed. Qed.
#[export] Instance typed_ConfigPacketTags : TypedDecode wire_ConfigPacketTags dom_ConfigPacketTags.
Proof. solve_typed. Qed.
#[export] Instance typed_ConfigPacketPong : TypedDecode wire_ConfigPacketPong dom_ConfigPacketPong.
Proof. solve_typed. Qed.
#[export] Instance typed_ConfigPacketResourcePackReceive : TypedDecode wire_ConfigPacketResourcePackReceive dom_ConfigPacketResourcePackReceive.
Proof. solve_typed. Qed.
