(* ===== verification/ItemTyped.v ===== *)
(** * Types of decoded packets, continued

    [TypedDecode] for items, displays, entity metadata, the command graph and
    the packets with discriminated fields: the payload that was read belongs
    to the discriminant that was read. *)

From S2P Require Import Prelude Machine Reader Varint Utf8 Buffer Wire Nbt PacketTypes Switch Recursion ItemTypes Items EntityData CommandNodes Displays PlayPackets PlayPacketsOut PlayPacketsSwitch PlayPacketsSwitchOut LoginPackets Typed.

Local Open Scope Z_scope.

(** ** Switches, blobs, bit fields *)

Class TypedSwitch {D T} (s : Switch D T) (dom : D → T → Prop) : Prop := typed_switch d : yields (sw_decode s d) (dom d).
#[export] Hint Mode TypedSwitch + + + - : typeclass_instances.

#[export] Instance typed_varlong : TypedDecode wire_varlong (in_i 64).
Proof. intros r v r'. apply read_varlong_range. Qed.

#[export] Instance typed_blob n : TypedDecode (wire_blob n) (blob_dom n).
Proof.
  intros r bs r' Hr. cbn [decode wire_blob] in Hr. rewrite read_bytes_eq in Hr. revert Hr.
  destruct (Z.ltb_spec (Z.of_nat (remaining r)) (Z.of_nat n)); [done|]. intros [= <- _].
  unfold blob_dom. rewrite length_take, length_rest, Nat2Z.id. lia.
Qed.

#[export] Instance typed_OptNbt : TypedDecode wire_OptNbt (option_dom nbt_fits).
Proof.
  intros r o r' Hr. cbn [decode wire_OptNbt] in Hr. unfold read_optional in Hr.
  assert (yields (let* v := nbt_decode in ret (Some v)) (option_dom nbt_fits)) as Hn.
  { eapply yields_bind; [apply (typed_decode (c := wire_Nbt))|]. intros v Hv. apply yields_ret. by intros v' [= <-]. }
  destruct (rest r) as [|b l]; [by apply (Hn r o r')|]. destruct (u8 b =? TAG_END); [|by apply (Hn r o r')].
  apply bind_Ok_inv in Hr as (x & r1 & _ & [= <- _]). by intros v.
Qed.

#[export] Instance typed_counted {T} (c : Codec T) dom `{!TypedDecode c dom} : TypedSwitch (counted c) (counted_dom dom).
Proof.
  intros n. cbn [sw_decode counted]. destruct (Z.ltb_spec n 0); [apply yields_raise|].
  eapply yields_bind; [apply yields_any|]. intros rem _. case_match; [apply yields_raise|].
  eapply yields_impl; [apply yields_repeat_m, typed_decode|]. intros l [Hl HF]. split; [|done]. rewrite Hl. lia.
Qed.

Lemma land_mask k z : 0 ≤ k → in_u k (Z.land z (Z.ones k)).
Proof. intros Hk. rewrite Z.land_ones by done. pose proof (pow2_pos k Hk). unfold in_u. by apply Z.mod_pos_bound. Qed.

Ltac typed_step :=
  lazymatch goal with
  | |- yields (sw_decode ?s ?d) _ => let H := fresh in pose proof (typed_switch (s := s) d) as H; exact H
  | |- _ => typed_field
  end.

(** What was read is in the domain: fields that were checked, masks. *)
Ltac typed_done :=
  first [ assumption | exact I
        | lazymatch goal with |- in_u ?k (Z.land _ ?m) => change m with (Z.ones k); apply land_mask; lia end ].

Ltac typed_codec :=
  repeat (eapply yields_bind; [typed_step|intros ? ?]; cbv beta in *); apply yields_ret.

Ltac solve_typed_struct :=
  lazymatch goal with
  | |- TypedDecode ?c ?dom =>
      unfold TypedDecode; unfold_head c; cbn [decode];
      first [ by intros ? ? ? ? | typed_codec; unfold_head dom; cbn; split_and?; typed_done ]
  end.

Ltac on_facts := repeat match goal with H : on _ _ = _ |- _ => rewrite H end.

Ltac solve_typed_switch :=
  lazymatch goal with
  | |- TypedSwitch ?s ?dom =>
      let s' := eval unfold s in s in
      lazymatch s' with
      | mkSwitch ?cs ?e ?dc =>
          intros d; unfold s; cbn [sw_decode]; unfold_head dc;
          repeat match goal with |- yields (match ?x with _ => _ end) _ => destruct x eqn:? end;
          typed_codec; (split; [unfold cs; on_facts; reflexivity|first [assumption|exact I]])
      end
  end.

Ltac solve_typed_ctx :=
  lazymatch goal with
  | |- TypedSwitch ?s ?dom =>
      let s' := eval unfold s in s in
      lazymatch s' with
      | mkSwitch ?cs ?e ?dc =>
          intros d; unfold s; cbn [sw_decode]; unfold_head dc; typed_codec; unfold_head dom; cbn; split_and?; typed_done
      end
  end.

(** ** Item components *)

#[export] Instance typed_ItemEffectDetail : TypedDecode wire_ItemEffectDetail dom_ItemEffectDetail.
Proof.
  apply knot_yields. intros c dom Hc. change (TypedDecode c dom) in Hc.
  unfold level_ItemEffectDetail. cbn [decode]. typed_codec. unfold dom_level_ItemEffectDetail. cbn. split_and?; typed_done.
Qed.
#[export] Instance typed_InstrumentData : TypedDecode wire_InstrumentData dom_InstrumentData.
Proof. solve_typed_struct. Qed.
#[export] Instance typed_ItemFireworkExplosionShape : TypedDecode wire_ItemFireworkExplosionShape dom_ItemFireworkExplosionShape.
Proof. solve_typed_struct. Qed.
#[export] Instance typed_ItemFireworkExplosion : TypedDecode wire_ItemFireworkExplosion dom_ItemFireworkExplosion.
Proof. solve_typed_struct. Qed.
#[export] Instance typed_SlotComponentType : TypedDecode wire_SlotComponentType dom_SlotComponentType.
Proof. solve_typed_struct. Qed.
#[export] Instance typed_SlotComponentDataAttributeModifiersAttributesItemOperation : TypedDecode wire_SlotComponentDataAttributeModifiersAttributesItemOperation dom_SlotComponentDataAttributeModifiersAttributesItemOperation.
Proof. solve_typed_struct. Qed.
#[export] Instance typed_SlotComponentDataAttributeModifiersAttributesItemSlot : TypedDecode wire_SlotComponentDataAttributeModifiersAttributesItemSlot dom_SlotComponentDataAttributeModifiersAttributesItemSlot.
Proof. solve_typed_struct. Qed.
#[export] Instance typed_SlotComponentDataAttributeModifiersAttributesItem : TypedDecode wire_SlotComponentDataAttributeModifiersAttributesItem dom_SlotComponentDataAttributeModifiersAttributesItem.
Proof. solve_typed_struct. Qed.
#[export] Instance typed_SlotComponentDataAttributeModifiers : TypedDecode wire_SlotComponentDataAttributeModifiers dom_SlotComponentDataAttributeModifiers.
Proof. solve_typed_struct. Qed.
#[export] Instance typed_BannerPattern : TypedDecode wire_BannerPattern dom_BannerPattern.
Proof. solve_typed_struct. Qed.
#[export] Instance typed_BannerPatternLayer : TypedDecode wire_BannerPatternLayer dom_BannerPatternLayer.
Proof. solve_typed_struct. Qed.
#[export] Instance typed_SlotComponentDataBannerPatterns : TypedDecode wire_SlotComponentDataBannerPatterns dom_SlotComponentDataBannerPatterns.
Proof. solve_typed_struct. Qed.
#[export] Instance typed_SlotComponentDataBeesBeesItem : TypedDecode wire_SlotComponentDataBeesBeesItem dom_SlotComponentDataBeesBeesItem.
Proof. solve_typed_struct. Qed.
#[export] Instance typed_SlotComponentDataBees : TypedDecode wire_SlotComponentDataBees dom_SlotComponentDataBees.
Proof. solve_typed_struct. Qed.
#[export] Instance typed_SlotComponentDataBlockStatePropertiesItem : TypedDecode wire_SlotComponentDataBlockStatePropertiesItem dom_SlotComponentDataBlockStatePropertiesItem.
Proof. solve_typed_struct. Qed.
#[export] Instance typed_SlotComponentDataBlockState : TypedDecode wire_SlotComponentDataBlockState dom_SlotComponentDataBlockState.
Proof. solve_typed_struct. Qed.
#[export] Instance typed_ItemBlockPropertyValueFalse : TypedDecode wire_ItemBlockPropertyValueFalse dom_ItemBlockPropertyValueFalse.
Proof. solve_typed_struct. Qed.
#[export] Instance typed_ItemBlockPropertyValueTrue : TypedDecode wire_ItemBlockPropertyValueTrue dom_ItemBlockPropertyValueTrue.
Proof. solve_typed_struct. Qed.
#[export] Instance typed_ItemBlockPropertyValue : TypedSwitch switch_ItemBlockPropertyValue dom_ItemBlockPropertyValue.
Proof. solve_typed_switch. Qed.
#[export] Instance typed_ItemBlockProperty : TypedDecode wire_ItemBlockProperty dom_ItemBlockProperty.
Proof. solve_typed_struct. Qed.
#[export] Instance typed_ItemBlockPredicate : TypedDecode wire_ItemBlockPredicate dom_ItemBlockPredicate.
Proof. solve_typed_struct. Qed.
#[export] Instance typed_SlotComponentDataCanBreak : TypedDecode wire_SlotComponentDataCanBreak dom_SlotComponentDataCanBreak.
Proof. solve_typed_struct. Qed.
#[export] Instance typed_SlotComponentDataCanPlaceOn : TypedDecode wire_SlotComponentDataCanPlaceOn dom_SlotComponentDataCanPlaceOn.
Proof. solve_typed_struct. Qed.
#[export] Instance typed_ItemConsumeEffectType : TypedDecode wire_ItemConsumeEffectType dom_ItemConsumeEffectType.
Proof. solve_typed_struct. Qed.
#[export] Instance typed_ItemPotionEffect : TypedDecode wire_ItemPotionEffect dom_ItemPotionEffect.
Proof. solve_typed_struct. Qed.
#[export] Instance typed_ItemConsumeEffectValueApplyEffects : TypedDecode wire_ItemConsumeEffectValueApplyEffects dom_ItemConsumeEffectValueApplyEffects.
Proof. solve_typed_struct. Qed.
#[export] Instance typed_ItemConsumeEffectValuePlaySound : TypedDecode wire_ItemConsumeEffectValuePlaySound dom_ItemConsumeEffectValuePlaySound.
Proof. solve_typed_struct. Qed.
#[export] Instance typed_ItemConsumeEffectValueRemoveEffects : TypedDecode wire_ItemConsumeEffectValueRemoveEffects dom_ItemConsumeEffectValueRemoveEffects.
Proof. solve_typed_struct. Qed.
#[export] Instance typed_ItemConsumeEffectValueTeleportRandomly : TypedDecode wire_ItemConsumeEffectValueTeleportRandomly dom_ItemConsumeEffectValueTeleportRandomly.
Proof. solve_typed_struct. Qed.
#[export] Instance typed_ItemConsumeEffectValue : TypedSwitch switch_ItemConsumeEffectValue dom_ItemConsumeEffectValue.
Proof. solve_typed_switch. Qed.
#[export] Instance typed_ItemConsumeEffect : TypedDecode wire_ItemConsumeEffect dom_ItemConsumeEffect.
Proof. solve_typed_struct. Qed.
#[export] Instance typed_SlotComponentDataConsumableAnimation : TypedDecode wire_SlotComponentDataConsumableAnimation dom_SlotComponentDataConsumableAnimation.
Proof. solve_typed_struct. Qed.
#[export] Instance typed_SlotComponentDataConsumable : TypedDecode wire_SlotComponentDataConsumable dom_SlotComponentDataConsumable.
Proof. solve_typed_struct. Qed.
#[export] Instance typed_SlotComponentDataCustomModelData : TypedDecode wire_SlotComponentDataCustomModelData dom_SlotComponentDataCustomModelData.
Proof. solve_typed_struct. Qed.
#[export] Instance typed_SlotComponentDataDeathProtection : TypedDecode wire_SlotComponentDataDeathProtection dom_SlotComponentDataDeathProtection.
Proof. solve_typed_struct. Qed.
#[export] Instance typed_SlotComponentDataDyedColor : TypedDecode wire_SlotComponentDataDyedColor dom_SlotComponentDataDyedColor.
Proof. solve_typed_struct. Qed.
#[export] Instance typed_SlotComponentDataEnchantmentsEnchantmentsItem : TypedDecode wire_SlotComponentDataEnchantmentsEnchantmentsItem dom_SlotComponentDataEnchantmentsEnchantmentsItem.
Proof. solve_typed_struct. Qed.
#[export] Instance typed_SlotComponentDataEnchantments : TypedDecode wire_SlotComponentDataEnchantments dom_SlotComponentDataEnchantments.
Proof. solve_typed_struct. Qed.
#[export] Instance typed_SlotComponentDataEquippableSlot : TypedDecode wire_SlotComponentDataEquippableSlot dom_SlotComponentDataEquippableSlot.
Proof. solve_typed_struct. Qed.
#[export] Instance typed_SlotComponentDataEquippable : TypedDecode wire_SlotComponentDataEquippable dom_SlotComponentDataEquippable.
Proof. solve_typed_struct. Qed.
#[export] Instance typed_SlotComponentDataFireworks : TypedDecode wire_SlotComponentDataFireworks dom_SlotComponentDataFireworks.
Proof. solve_typed_struct. Qed.
#[export] Instance typed_SlotComponentDataFood : TypedDecode wire_SlotComponentDataFood dom_SlotComponentDataFood.
Proof. solve_typed_struct. Qed.
#[export] Instance typed_JukeboxSongData : TypedDecode wire_JukeboxSongData dom_JukeboxSongData.
Proof. solve_typed_struct. Qed.
#[export] Instance typed_SlotComponentDataJukeboxPlayableSong : TypedSwitch switch_SlotComponentDataJukeboxPlayableSong dom_SlotComponentDataJukeboxPlayableSong.
Proof. solve_typed_switch. Qed.
#[export] Instance typed_SlotComponentDataJukeboxPlayable : TypedDecode wire_SlotComponentDataJukeboxPlayable dom_SlotComponentDataJukeboxPlayable.
Proof. solve_typed_struct. Qed.
#[export] Instance typed_SlotComponentDataLodestoneTrackerGlobalPositionValue : TypedDecode wire_SlotComponentDataLodestoneTrackerGlobalPositionValue dom_SlotComponentDataLodestoneTrackerGlobalPositionValue.
Proof. solve_typed_struct. Qed.
#[export] Instance typed_SlotComponentDataLodestoneTracker : TypedDecode wire_SlotComponentDataLodestoneTracker dom_SlotComponentDataLodestoneTracker.
Proof. solve_typed_struct. Qed.
#[export] Instance typed_SlotComponentDataPotDecorations : TypedDecode wire_SlotComponentDataPotDecorations dom_SlotComponentDataPotDecorations.
Proof. solve_typed_struct. Qed.
#[export] Instance typed_SlotComponentDataPotionContents : TypedDecode wire_SlotComponentDataPotionContents dom_SlotComponentDataPotionContents.
Proof. solve_typed_struct. Qed.
#[export] Instance typed_SlotComponentDataProfilePropertiesItem : TypedDecode wire_SlotComponentDataProfilePropertiesItem dom_SlotComponentDataProfilePropertiesItem.
Proof. solve_typed_struct. Qed.
#[export] Instance typed_SlotComponentDataProfile : TypedDecode wire_SlotComponentDataProfile dom_SlotComponentDataProfile.
Proof. solve_typed_struct. Qed.
#[export] Instance typed_SlotComponentDataRarity : TypedDecode wire_SlotComponentDataRarity dom_SlotComponentDataRarity.
Proof. solve_typed_struct. Qed.
#[export] Instance typed_SlotComponentDataRepairable : TypedDecode wire_SlotComponentDataRepairable dom_SlotComponentDataRepairable.
Proof. solve_typed_struct. Qed.
#[export] Instance typed_SlotComponentDataStoredEnchantmentsEnchantmentsItem : TypedDecode wire_SlotComponentDataStoredEnchantmentsEnchantmentsItem dom_SlotComponentDataStoredEnchantmentsEnchantmentsItem.
Proof. solve_typed_struct. Qed.
#[export] Instance typed_SlotComponentDataStoredEnchantments : TypedDecode wire_SlotComponentDataStoredEnchantments dom_SlotComponentDataStoredEnchantments.
Proof. solve_typed_struct. Qed.
#[export] Instance typed_SlotComponentDataSuspiciousStewEffectsEffectsItem : TypedDecode wire_SlotComponentDataSuspiciousStewEffectsEffectsItem dom_SlotComponentDataSuspiciousStewEffectsEffectsItem.
Proof. solve_typed_struct. Qed.
#[export] Instance typed_SlotComponentDataSuspiciousStewEffects : TypedDecode wire_SlotComponentDataSuspiciousStewEffects dom_SlotComponentDataSuspiciousStewEffects.
Proof. solve_typed_struct. Qed.
#[export] Instance typed_SlotComponentDataToolRulesItem : TypedDecode wire_SlotComponentDataToolRulesItem dom_SlotComponentDataToolRulesItem.
Proof. solve_typed_struct. Qed.
#[export] Instance typed_SlotComponentDataTool : TypedDecode wire_SlotComponentDataTool dom_SlotComponentDataTool.
Proof. solve_typed_struct. Qed.
#[export] Instance typed_ArmorTrimMaterialOverrideArmorAssetsItem : TypedDecode wire_ArmorTrimMaterialOverrideArmorAssetsItem dom_ArmorTrimMaterialOverrideArmorAssetsItem.
Proof. solve_typed_struct. Qed.
#[export] Instance typed_ArmorTrimMaterial : TypedDecode wire_ArmorTrimMaterial dom_ArmorTrimMaterial.
Proof. solve_typed_struct. Qed.
#[export] Instance typed_ArmorTrimPattern : TypedDecode wire_ArmorTrimPattern dom_ArmorTrimPattern.
Proof. solve_typed_struct. Qed.
#[export] Instance typed_SlotComponentDataTrim : TypedDecode wire_SlotComponentDataTrim dom_SlotComponentDataTrim.
Proof. solve_typed_struct. Qed.
#[export] Instance typed_SlotComponentDataUseCooldown : TypedDecode wire_SlotComponentDataUseCooldown dom_SlotComponentDataUseCooldown.
Proof. solve_typed_struct. Qed.
#[export] Instance typed_ItemBookPage : TypedDecode wire_ItemBookPage dom_ItemBookPage.
Proof. solve_typed_struct. Qed.
#[export] Instance typed_SlotComponentDataWritableBookContent : TypedDecode wire_SlotComponentDataWritableBookContent dom_SlotComponentDataWritableBookContent.
Proof. solve_typed_struct. Qed.
#[export] Instance typed_ItemWrittenBookPage : TypedDecode wire_ItemWrittenBookPage dom_ItemWrittenBookPage.
Proof. solve_typed_struct. Qed.
#[export] Instance typed_SlotComponentDataWrittenBookContent : TypedDecode wire_SlotComponentDataWrittenBookContent dom_SlotComponentDataWrittenBookContent.
Proof. solve_typed_struct. Qed.
#[export] Instance typed_SlotValueDefaultRemoveComponentsItem : TypedDecode wire_SlotValueDefaultRemoveComponentsItem dom_SlotValueDefaultRemoveComponentsItem.
Proof. solve_typed_struct. Qed.

(** ** Items *)

Section Slot_typed.
Context {Slot : Type} (wire_Slot : Codec Slot) (dom_Slot : Slot → Prop) `{!TypedDecode wire_Slot dom_Slot}.

#[export] Instance typed_SlotComponentDataBundleContents : TypedDecode (wire_SlotComponentDataBundleContents wire_Slot) (dom_SlotComponentDataBundleContents dom_Slot).
Proof. solve_typed_struct. Qed.
#[export] Instance typed_SlotComponentDataChargedProjectiles : TypedDecode (wire_SlotComponentDataChargedProjectiles wire_Slot) (dom_SlotComponentDataChargedProjectiles dom_Slot).
Proof. solve_typed_struct. Qed.
#[export] Instance typed_SlotComponentDataContainer : TypedDecode (wire_SlotComponentDataContainer wire_Slot) (dom_SlotComponentDataContainer dom_Slot).
Proof. solve_typed_struct. Qed.
#[export] Instance typed_SlotComponentData : TypedSwitch (switch_SlotComponentData wire_Slot) (dom_SlotComponentData dom_Slot).
Proof.
  intros d. unfold switch_SlotComponentData. cbn [sw_decode]. unfold decode_from_SlotComponentData.
  repeat match goal with |- yields (match ?x with _ => _ end) _ => destruct x eqn:? end;
    typed_codec; (split; [unfold case_SlotComponentData; on_facts; reflexivity|first [assumption|exact I]]).
Qed.
#[export] Instance typed_SlotComponent : TypedDecode (wire_SlotComponent wire_Slot) (dom_SlotComponent dom_Slot).
Proof. solve_typed_struct. Qed.
#[export] Instance typed_SlotValueDefault : TypedDecode (wire_SlotValueDefault wire_Slot) (dom_SlotValueDefault dom_Slot).
Proof. solve_typed_struct. Qed.
#[export] Instance typed_SlotValue : TypedSwitch (switch_SlotValue wire_Slot) (dom_SlotValue dom_Slot).
Proof.
  intros d. unfold switch_SlotValue. cbn [sw_decode]. unfold decode_from_SlotValue.
  repeat match goal with |- yields (match ?x with _ => _ end) _ => destruct x eqn:? end;
    typed_codec; (split; [unfold case_SlotValue; on_facts; reflexivity|first [assumption|exact I]]).
Qed.
End Slot_typed.

#[export] Instance typed_Slot : TypedDecode wire_Slot dom_Slot.
Proof.
  apply knot_yields. intros c dom Hc. change (TypedDecode c dom) in Hc.
  unfold level_Slot. cbn [decode]. typed_codec. unfold dom_level_Slot. cbn. split_and?; typed_done.
Qed.


(** ** Particles and metadata *)

#[export] Instance typed_ParticleType : TypedDecode wire_ParticleType dom_ParticleType.
Proof. solve_typed_struct. Qed.
#[export] Instance typed_ParticleDataDust : TypedDecode wire_ParticleDataDust dom_ParticleDataDust.
Proof. solve_typed_struct. Qed.
#[export] Instance typed_ParticleDataDustColorTransition : TypedDecode wire_ParticleDataDustColorTransition dom_ParticleDataDustColorTransition.
Proof. solve_typed_struct. Qed.
#[export] Instance typed_ParticleDataTrail : TypedDecode wire_ParticleDataTrail dom_ParticleDataTrail.
Proof. solve_typed_struct. Qed.
#[export] Instance typed_ParticleDataVibrationPositionType : TypedDecode wire_ParticleDataVibrationPositionType dom_ParticleDataVibrationPositionType.
Proof. solve_typed_struct. Qed.
#[export] Instance typed_ParticleDataVibrationPositionEntity : TypedDecode wire_ParticleDataVibrationPositionEntity dom_ParticleDataVibrationPositionEntity.
Proof. solve_typed_struct. Qed.
#[export] Instance typed_ParticleDataVibrationPosition : TypedSwitch switch_ParticleDataVibrationPosition dom_ParticleDataVibrationPosition.
Proof. solve_typed_switch. Qed.
#[export] Instance typed_ParticleDataVibration : TypedDecode wire_ParticleDataVibration dom_ParticleDataVibration.
Proof. solve_typed_struct. Qed.
#[export] Instance typed_ParticleData : TypedSwitch switch_ParticleData dom_ParticleData.
Proof. solve_typed_switch. Qed.
#[export] Instance typed_Particle : TypedDecode wire_Particle dom_Particle.
Proof. solve_typed_struct. Qed.
#[export] Instance typed_EntityMetadataPaintingVariant : TypedDecode wire_EntityMetadataPaintingVariant dom_EntityMetadataPaintingVariant.
Proof. solve_typed_struct. Qed.
#[export] Instance typed_EntityMetadataWolfVariant : TypedDecode wire_EntityMetadataWolfVariant dom_EntityMetadataWolfVariant.
Proof. solve_typed_struct. Qed.
#[export] Instance typed_EntityMetadataEntryType : TypedDecode wire_EntityMetadataEntryType dom_EntityMetadataEntryType.
Proof. solve_typed_struct. Qed.
#[export] Instance typed_Vec4f : TypedDecode wire_Vec4f dom_Vec4f.
Proof. solve_typed_struct. Qed.
#[export] Instance typed_EntityMetadataEntryValueRotations : TypedDecode wire_EntityMetadataEntryValueRotations dom_EntityMetadataEntryValueRotations.
Proof. solve_typed_struct. Qed.
#[export] Instance typed_EntityMetadataEntryValueVillagerData : TypedDecode wire_EntityMetadataEntryValueVillagerData dom_EntityMetadataEntryValueVillagerData.
Proof. solve_typed_struct. Qed.
#[export] Instance typed_EntityMetadataEntryValue : TypedSwitch switch_EntityMetadataEntryValue dom_EntityMetadataEntryValue.
Proof. solve_typed_switch. Qed.
#[export] Instance typed_EntityMetadataEntry : TypedDecode wire_EntityMetadataEntry dom_EntityMetadataEntry.
Proof. solve_typed_struct. Qed.
Lemma get_u8_head r v r' : get_u8 r = (Ok v, r') → ∃ b l, rest r = b :: l ∧ v = u8 b.
Proof.
  intros (bs & r1 & Hb & [= <- _])%bind_Ok_inv. rewrite read_bytes_eq in Hb. revert Hb.
  destruct (Z.ltb_spec (Z.of_nat (remaining r)) 1); [done|]. intros [= <- _].
  pose proof (length_rest r) as Hl. destruct (rest r) as [|b l]; cbn in Hl; [lia|].
  exists b, l. split; [done|]. rewrite <- (Z.add_0_r (u8 b)). exact (eq_refl : be_value [b] = u8 b + 256 * 0).
Qed.

Lemma entry_key_head r e r' :
  decode wire_EntityMetadataEntry r = (Ok e, r') → ∃ b l, rest r = b :: l ∧ EntityMetadataEntry_key e = u8 b.
Proof.
  unfold wire_EntityMetadataEntry. cbn [decode wire_u8 fixed_codec].
  intros (key & r1 & (b & l & Hr & ->)%get_u8_head & Hk)%bind_Ok_inv. exists b, l. split; [done|].
  apply bind_Ok_inv in Hk as (t & r2 & _ & Hk). by apply bind_Ok_inv in Hk as (v & r3 & _ & [= <- _]).
Qed.

#[export] Instance typed_EntityMetadata : TypedDecode wire_EntityMetadata dom_EntityMetadata.
Proof.
  intros r. unfold wire_EntityMetadata. cbn [decode knot]. generalize (S (remaining r)). intros n. revert r.
  induction n as [|n IH]; intros r items r' Hr; [done|]. cbn [unrolled decode level_EntityMetadata] in Hr.
  unfold bind at 1, gets in Hr. destruct (match rest r with b :: _ => u8 b =? 255 | [] => false end) eqn:Hn.
  - apply bind_Ok_inv in Hr as (u & r1 & _ & [= <- _]). by apply Forall_nil.
  - apply bind_Ok_inv in Hr as (e & r1 & He & Hr). apply bind_Ok_inv in Hr as (l & r2 & Hl & [= <- _]).
    apply Forall_cons. split; [|by apply (IH r1 l r2)].
    split; [by apply (typed_decode (c := wire_EntityMetadataEntry) r e r1)|].
    destruct (entry_key_head _ _ _ He) as (b & k & Hb & ->). rewrite Hb in Hn. by apply Z.eqb_neq in Hn.
Qed.

(** ** The command graph *)

#[export] Instance typed_CommandNodeFlags : TypedDecode wire_CommandNodeFlags dom_CommandNodeFlags.
Proof. solve_typed_struct. Qed.
#[export] Instance typed_CommandNodeRedirectNode : TypedSwitch switch_CommandNodeRedirectNode dom_CommandNodeRedirectNode.
Proof. solve_typed_switch. Qed.
#[export] Instance typed_CommandNodeExtraNodeDataV1 : TypedDecode wire_CommandNodeExtraNodeDataV1 dom_CommandNodeExtraNodeDataV1.
Proof. solve_typed_struct. Qed.
#[export] Instance typed_CommandNodeExtraNodeDataV2Parser : TypedDecode wire_CommandNodeExtraNodeDataV2Parser dom_CommandNodeExtraNodeDataV2Parser.
Proof. solve_typed_struct. Qed.
#[export] Instance typed_CommandNodeExtraNodeDataV2PropertiesBrigadierDoubleFlags : TypedDecode wire_CommandNodeExtraNodeDataV2PropertiesBrigadierDoubleFlags dom_CommandNodeExtraNodeDataV2PropertiesBrigadierDoubleFlags.
Proof. solve_typed_struct. Qed.
#[export] Instance typed_CommandNodeExtraNodeDataV2PropertiesBrigadierDoubleMin : TypedSwitch switch_CommandNodeExtraNodeDataV2PropertiesBrigadierDoubleMin dom_CommandNodeExtraNodeDataV2PropertiesBrigadierDoubleMin.
Proof. solve_typed_switch. Qed.
#[export] Instance typed_CommandNodeExtraNodeDataV2PropertiesBrigadierDoubleMax : TypedSwitch switch_CommandNodeExtraNodeDataV2PropertiesBrigadierDoubleMax dom_CommandNodeExtraNodeDataV2PropertiesBrigadierDoubleMax.
Proof. solve_typed_switch. Qed.
#[export] Instance typed_CommandNodeExtraNodeDataV2PropertiesBrigadierDouble : TypedDecode wire_CommandNodeExtraNodeDataV2PropertiesBrigadierDouble dom_CommandNodeExtraNodeDataV2PropertiesBrigadierDouble.
Proof. solve_typed_struct. Qed.
#[export] Instance typed_CommandNodeExtraNodeDataV2PropertiesBrigadierFloatFlags : TypedDecode wire_CommandNodeExtraNodeDataV2PropertiesBrigadierFloatFlags dom_CommandNodeExtraNodeDataV2PropertiesBrigadierFloatFlags.
Proof. solve_typed_struct. Qed.
#[export] Instance typed_CommandNodeExtraNodeDataV2PropertiesBrigadierFloatMin : TypedSwitch switch_CommandNodeExtraNodeDataV2PropertiesBrigadierFloatMin dom_CommandNodeExtraNodeDataV2PropertiesBrigadierFloatMin.
Proof. solve_typed_switch. Qed.
#[export] Instance typed_CommandNodeExtraNodeDataV2PropertiesBrigadierFloatMax : TypedSwitch switch_CommandNodeExtraNodeDataV2PropertiesBrigadierFloatMax dom_CommandNodeExtraNodeDataV2PropertiesBrigadierFloatMax.
Proof. solve_typed_switch. Qed.
#[export] Instance typed_CommandNodeExtraNodeDataV2PropertiesBrigadierFloat : TypedDecode wire_CommandNodeExtraNodeDataV2PropertiesBrigadierFloat dom_CommandNodeExtraNodeDataV2PropertiesBrigadierFloat.
Proof. solve_typed_struct. Qed.
#[export] Instance typed_CommandNodeExtraNodeDataV2PropertiesBrigadierIntegerFlags : TypedDecode wire_CommandNodeExtraNodeDataV2PropertiesBrigadierIntegerFlags dom_CommandNodeExtraNodeDataV2PropertiesBrigadierIntegerFlags.
Proof. solve_typed_struct. Qed.
#[export] Instance typed_CommandNodeExtraNodeDataV2PropertiesBrigadierIntegerMin : TypedSwitch switch_CommandNodeExtraNodeDataV2PropertiesBrigadierIntegerMin dom_CommandNodeExtraNodeDataV2PropertiesBrigadierIntegerMin.
Proof. solve_typed_switch. Qed.
#[export] Instance typed_CommandNodeExtraNodeDataV2PropertiesBrigadierIntegerMax : TypedSwitch switch_CommandNodeExtraNodeDataV2PropertiesBrigadierIntegerMax dom_CommandNodeExtraNodeDataV2PropertiesBrigadierIntegerMax.
Proof. solve_typed_switch. Qed.
#[export] Instance typed_CommandNodeExtraNodeDataV2PropertiesBrigadierInteger : TypedDecode wire_CommandNodeExtraNodeDataV2PropertiesBrigadierInteger dom_CommandNodeExtraNodeDataV2PropertiesBrigadierInteger.
Proof. solve_typed_struct. Qed.
#[export] Instance typed_CommandNodeExtraNodeDataV2PropertiesBrigadierLongFlags : TypedDecode wire_CommandNodeExtraNodeDataV2PropertiesBrigadierLongFlags dom_CommandNodeExtraNodeDataV2PropertiesBrigadierLongFlags.
Proof. solve_typed_struct. Qed.
#[export] Instance typed_CommandNodeExtraNodeDataV2PropertiesBrigadierLongMin : TypedSwitch switch_CommandNodeExtraNodeDataV2PropertiesBrigadierLongMin dom_CommandNodeExtraNodeDataV2PropertiesBrigadierLongMin.
Proof. solve_typed_switch. Qed.
#[export] Instance typed_CommandNodeExtraNodeDataV2PropertiesBrigadierLongMax : TypedSwitch switch_CommandNodeExtraNodeDataV2PropertiesBrigadierLongMax dom_CommandNodeExtraNodeDataV2PropertiesBrigadierLongMax.
Proof. solve_typed_switch. Qed.
#[export] Instance typed_CommandNodeExtraNodeDataV2PropertiesBrigadierLong : TypedDecode wire_CommandNodeExtraNodeDataV2PropertiesBrigadierLong dom_CommandNodeExtraNodeDataV2PropertiesBrigadierLong.
Proof. solve_typed_struct. Qed.
#[export] Instance typed_CommandNodeExtraNodeDataV2PropertiesBrigadierString : TypedDecode wire_CommandNodeExtraNodeDataV2PropertiesBrigadierString dom_CommandNodeExtraNodeDataV2PropertiesBrigadierString.
Proof. solve_typed_struct. Qed.
#[export] Instance typed_CommandNodeExtraNodeDataV2PropertiesMinecraftEntity : TypedDecode wire_CommandNodeExtraNodeDataV2PropertiesMinecraftEntity dom_CommandNodeExtraNodeDataV2PropertiesMinecraftEntity.
Proof. solve_typed_struct. Qed.
#[export] Instance typed_CommandNodeExtraNodeDataV2PropertiesMinecraftResource : TypedDecode wire_CommandNodeExtraNodeDataV2PropertiesMinecraftResource dom_CommandNodeExtraNodeDataV2PropertiesMinecraftResource.
Proof. solve_typed_struct. Qed.
#[export] Instance typed_CommandNodeExtraNodeDataV2PropertiesMinecraftResourceKey : TypedDecode wire_CommandNodeExtraNodeDataV2PropertiesMinecraftResourceKey dom_CommandNodeExtraNodeDataV2PropertiesMinecraftResourceKey.
Proof. solve_typed_struct. Qed.
#[export] Instance typed_CommandNodeExtraNodeDataV2PropertiesMinecraftResourceOrTag : TypedDecode wire_CommandNodeExtraNodeDataV2PropertiesMinecraftResourceOrTag dom_CommandNodeExtraNodeDataV2PropertiesMinecraftResourceOrTag.
Proof. solve_typed_struct. Qed.
#[export] Instance typed_CommandNodeExtraNodeDataV2PropertiesMinecraftResourceOrTagKey : TypedDecode wire_CommandNodeExtraNodeDataV2PropertiesMinecraftResourceOrTagKey dom_CommandNodeExtraNodeDataV2PropertiesMinecraftResourceOrTagKey.
Proof. solve_typed_struct. Qed.
#[export] Instance typed_CommandNodeExtraNodeDataV2PropertiesMinecraftScoreHolder : TypedDecode wire_CommandNodeExtraNodeDataV2PropertiesMinecraftScoreHolder dom_CommandNodeExtraNodeDataV2PropertiesMinecraftScoreHolder.
Proof. solve_typed_struct. Qed.
#[export] Instance typed_CommandNodeExtraNodeDataV2PropertiesMinecraftTime : TypedDecode wire_CommandNodeExtraNodeDataV2PropertiesMinecraftTime dom_CommandNodeExtraNodeDataV2PropertiesMinecraftTime.
Proof. solve_typed_struct. Qed.
#[export] Instance typed_CommandNodeExtraNodeDataV2Properties : TypedSwitch switch_CommandNodeExtraNodeDataV2Properties dom_CommandNodeExtraNodeDataV2Properties.
Proof. solve_typed_switch. Qed.
#[export] Instance typed_CommandNodeExtraNodeDataV2SuggestionType : TypedSwitch switch_CommandNodeExtraNodeDataV2SuggestionType dom_CommandNodeExtraNodeDataV2SuggestionType.
Proof. solve_typed_switch. Qed.
#[export] Instance typed_CommandNodeExtraNodeDataV2 : TypedSwitch switch_CommandNodeExtraNodeDataV2 dom_CommandNodeExtraNodeDataV2.
Proof. solve_typed_ctx. Qed.
#[export] Instance typed_CommandNodeExtraNodeData : TypedSwitch switch_CommandNodeExtraNodeData dom_CommandNodeExtraNodeData.
Proof. solve_typed_switch. Qed.
#[export] Instance typed_CommandNode : TypedDecode wire_CommandNode dom_CommandNode.
Proof. solve_typed_struct. Qed.

(** ** Recipe displays *)

Section SlotDisplay_typed.
Context {SlotDisplay : Type} (wire_SlotDisplay : Codec SlotDisplay) (dom_SlotDisplay : SlotDisplay → Prop) `{!TypedDecode wire_SlotDisplay dom_SlotDisplay}.

#[export] Instance typed_SlotDisplayDataSmithingTrim : TypedDecode (wire_SlotDisplayDataSmithingTrim wire_SlotDisplay) (dom_SlotDisplayDataSmithingTrim dom_SlotDisplay).
Proof. solve_typed_struct. Qed.
#[export] Instance typed_SlotDisplayDataWithRemainder : TypedDecode (wire_SlotDisplayDataWithRemainder wire_SlotDisplay) (dom_SlotDisplayDataWithRemainder dom_SlotDisplay).
Proof. solve_typed_struct. Qed.
#[export] Instance typed_SlotDisplayData : TypedSwitch (switch_SlotDisplayData wire_SlotDisplay) (dom_SlotDisplayData dom_SlotDisplay).
Proof.
  intros d. unfold switch_SlotDisplayData. cbn [sw_decode]. unfold decode_from_SlotDisplayData.
  repeat match goal with |- yields (match ?x with _ => _ end) _ => destruct x eqn:? end;
    typed_codec; (split; [unfold case_SlotDisplayData; on_facts; reflexivity|first [assumption|exact I]]).
Qed.
End SlotDisplay_typed.

#[export] Instance typed_SlotDisplay : TypedDecode wire_SlotDisplay dom_SlotDisplay.
Proof.
  apply knot_yields. intros c dom Hc. change (TypedDecode c dom) in Hc.
  unfold level_SlotDisplay. cbn [decode]. typed_codec. unfold dom_level_SlotDisplay. cbn. split_and?; typed_done.
Qed.

#[export] Instance typed_RecipeDisplayDataCraftingShaped : TypedDecode wire_RecipeDisplayDataCraftingShaped dom_RecipeDisplayDataCraftingShaped.
Proof. solve_typed_struct. Qed.
#[export] Instance typed_RecipeDisplayDataCraftingShapeless : TypedDecode wire_RecipeDisplayDataCraftingShapeless dom_RecipeDisplayDataCraftingShapeless.
Proof. solve_typed_struct. Qed.
#[export] Instance typed_RecipeDisplayDataFurnace : TypedDecode wire_RecipeDisplayDataFurnace dom_RecipeDisplayDataFurnace.
Proof. solve_typed_struct. Qed.
#[export] Instance typed_RecipeDisplayDataSmithing : TypedDecode wire_RecipeDisplayDataSmithing dom_RecipeDisplayDataSmithing.
Proof. solve_typed_struct. Qed.
#[export] Instance typed_RecipeDisplayDataStonecutter : TypedDecode wire_RecipeDisplayDataStonecutter dom_RecipeDisplayDataStonecutter.
Proof. solve_typed_struct. Qed.
#[export] Instance typed_RecipeDisplayData : TypedSwitch switch_RecipeDisplayData dom_RecipeDisplayData.
Proof. solve_typed_switch. Qed.
#[export] Instance typed_RecipeDisplay : TypedDecode wire_RecipeDisplay dom_RecipeDisplay.
Proof. solve_typed_struct. Qed.

(** ** Packets from the server *)

#[export] Instance typed_PacketTileEntityData : TypedDecode wire_PacketTileEntityData dom_PacketTileEntityData.
Proof. solve_typed_struct. Qed.
#[export] Instance typed_PacketBossBarTitle : TypedSwitch switch_PacketBossBarTitle dom_PacketBossBarTitle.
Proof. solve_typed_switch. Qed.
#[export] Instance typed_PacketBossBarHealth : TypedSwitch switch_PacketBossBarHealth dom_PacketBossBarHealth.
Proof. solve_typed_switch. Qed.
#[export] Instance typed_PacketBossBarColor : TypedSwitch switch_PacketBossBarColor dom_PacketBossBarColor.
Proof. solve_typed_switch. Qed.
#[export] Instance typed_PacketBossBarDividers : TypedSwitch switch_PacketBossBarDividers dom_PacketBossBarDividers.
Proof. solve_typed_switch. Qed.
#[export] Instance typed_PacketBossBarFlags : TypedSwitch switch_PacketBossBarFlags dom_PacketBossBarFlags.
Proof. solve_typed_switch. Qed.
#[export] Instance typed_PacketBossBar : TypedDecode wire_PacketBossBar dom_PacketBossBar.
Proof. solve_typed_struct. Qed.
#[export] Instance typed_PacketDeclareCommands : TypedDecode wire_PacketDeclareCommands dom_PacketDeclareCommands.
Proof. solve_typed_struct. Qed.
#[export] Instance typed_PacketWindowItems : TypedDecode wire_PacketWindowItems dom_PacketWindowItems.
Proof. solve_typed_struct. Qed.
#[export] Instance typed_PacketSetSlot : TypedDecode wire_PacketSetSlot dom_PacketSetSlot.
Proof. solve_typed_struct. Qed.
#[export] Instance typed_PacketHideMessageSignature : TypedSwitch switch_PacketHideMessageSignature dom_PacketHideMessageSignature.
Proof. solve_typed_switch. Qed.
#[export] Instance typed_PacketHideMessage : TypedDecode wire_PacketHideMessage dom_PacketHideMessage.
Proof. solve_typed_struct. Qed.
#[export] Instance typed_PacketExplosion : TypedDecode wire_PacketExplosion dom_PacketExplosion.
Proof. solve_typed_struct. Qed.
#[export] Instance typed_ChunkBlockEntityValue : TypedDecode wire_ChunkBlockEntityValue dom_ChunkBlockEntityValue.
Proof. solve_typed_struct. Qed.
#[export] Instance typed_ChunkBlockEntity : TypedDecode wire_ChunkBlockEntity dom_ChunkBlockEntity.
Proof. solve_typed_struct. Qed.
#[export] Instance typed_PacketMapChunk : TypedDecode wire_PacketMapChunk dom_PacketMapChunk.
Proof. solve_typed_struct. Qed.
#[export] Instance typed_PacketWorldParticles : TypedDecode wire_PacketWorldParticles dom_PacketWorldParticles.
Proof. solve_typed_struct. Qed.
#[export] Instance typed_PacketMapRows : TypedSwitch switch_PacketMapRows dom_PacketMapRows.
Proof. solve_typed_switch. Qed.
#[export] Instance typed_PacketMapX : TypedSwitch switch_PacketMapX dom_PacketMapX.
Proof. solve_typed_switch. Qed.
#[export] Instance typed_PacketMapY : TypedSwitch switch_PacketMapY dom_PacketMapY.
Proof. solve_typed_switch. Qed.
#[export] Instance typed_PacketMapData : TypedSwitch switch_PacketMapData dom_PacketMapData.
Proof. solve_typed_switch. Qed.
#[export] Instance typed_PacketMap : TypedDecode wire_PacketMap dom_PacketMap.
Proof. solve_typed_struct. Qed.
#[export] Instance typed_PacketTradeListTradesItemInputItem1 : TypedDecode wire_PacketTradeListTradesItemInputItem1 dom_PacketTradeListTradesItemInputItem1.
Proof. solve_typed_struct. Qed.
#[export] Instance typed_PacketTradeListTradesItemInputItem2Value : TypedDecode wire_PacketTradeListTradesItemInputItem2Value dom_PacketTradeListTradesItemInputItem2Value.
Proof. solve_typed_struct. Qed.
#[export] Instance typed_PacketTradeListTradesItem : TypedDecode wire_PacketTradeListTradesItem dom_PacketTradeListTradesItem.
Proof. solve_typed_struct. Qed.
#[export] Instance typed_PacketTradeList : TypedDecode wire_PacketTradeList dom_PacketTradeList.
Proof. solve_typed_struct. Qed.
#[export] Instance typed_PacketCraftRecipeResponse : TypedDecode wire_PacketCraftRecipeResponse dom_PacketCraftRecipeResponse.
Proof. solve_typed_struct. Qed.
#[export] Instance typed_PacketPlayerChatFilterTypeMask : TypedSwitch switch_PacketPlayerChatFilterTypeMask dom_PacketPlayerChatFilterTypeMask.
Proof. solve_typed_switch. Qed.
#[export] Instance typed_PreviousMessagesItemSignature : TypedSwitch switch_PreviousMessagesItemSignature dom_PreviousMessagesItemSignature.
Proof. solve_typed_switch. Qed.
#[export] Instance typed_PreviousMessagesItem : TypedDecode wire_PreviousMessagesItem dom_PreviousMessagesItem.
Proof. solve_typed_struct. Qed.
#[export] Instance typed_PacketPlayerChat : TypedDecode wire_PacketPlayerChat dom_PacketPlayerChat.
Proof. solve_typed_struct. Qed.
#[export] Instance typed_PacketPlayerInfoDataItemPlayer : TypedSwitch switch_PacketPlayerInfoDataItemPlayer dom_PacketPlayerInfoDataItemPlayer.
Proof. solve_typed_switch. Qed.
#[export] Instance typed_PacketPlayerInfoDataItemChatSession : TypedSwitch switch_PacketPlayerInfoDataItemChatSession dom_PacketPlayerInfoDataItemChatSession.
Proof. solve_typed_switch. Qed.
#[export] Instance typed_PacketPlayerInfoDataItemGamemode : TypedSwitch switch_PacketPlayerInfoDataItemGamemode dom_PacketPlayerInfoDataItemGamemode.
Proof. solve_typed_switch. Qed.
#[export] Instance typed_PacketPlayerInfoDataItemListed : TypedSwitch switch_PacketPlayerInfoDataItemListed dom_PacketPlayerInfoDataItemListed.
Proof. solve_typed_switch. Qed.
#[export] Instance typed_PacketPlayerInfoDataItemLatency : TypedSwitch switch_PacketPlayerInfoDataItemLatency dom_PacketPlayerInfoDataItemLatency.
Proof. solve_typed_switch. Qed.
#[export] Instance typed_PacketPlayerInfoDataItemDisplayName : TypedSwitch switch_PacketPlayerInfoDataItemDisplayName dom_PacketPlayerInfoDataItemDisplayName.
Proof. solve_typed_switch. Qed.
#[export] Instance typed_PacketPlayerInfoDataItemListPriority : TypedSwitch switch_PacketPlayerInfoDataItemListPriority dom_PacketPlayerInfoDataItemListPriority.
Proof. solve_typed_switch. Qed.
#[export] Instance typed_PacketPlayerInfoDataItemShowHat : TypedSwitch switch_PacketPlayerInfoDataItemShowHat dom_PacketPlayerInfoDataItemShowHat.
Proof. solve_typed_switch. Qed.
#[export] Instance typed_PacketPlayerInfoDataItem : TypedSwitch switch_PacketPlayerInfoDataItem dom_PacketPlayerInfoDataItem.
Proof. solve_typed_ctx. Qed.
#[export] Instance typed_PacketPlayerInfo : TypedDecode wire_PacketPlayerInfo dom_PacketPlayerInfo.
Proof.
  unfold TypedDecode, wire_PacketPlayerInfo. cbn [decode]. eapply yields_bind; [apply (typed_decode (c := wire_PacketPlayerInfoAction))|].
  intros action Ha.
  assert (TypedDecode (codec_at switch_PacketPlayerInfoDataItem action)
    (λ v, dom_PacketPlayerInfoDataItem action v ∧ sw_case switch_PacketPlayerInfoDataItem action v = true)) as Hi.
  { eapply yields_impl; [apply (typed_switch (s := switch_PacketPlayerInfoDataItem) action)|]. by intros v Hv. }
  eapply yields_bind; [apply (typed_Vec _ _)|].
  intros data Hd. by apply yields_ret.
Qed.
#[export] Instance typed_PacketFacePlayerEntityId : TypedSwitch switch_PacketFacePlayerEntityId dom_PacketFacePlayerEntityId.
Proof. solve_typed_switch. Qed.
#[export] Instance typed_PacketFacePlayerEntityFeetEyes : TypedSwitch switch_PacketFacePlayerEntityFeetEyes dom_PacketFacePlayerEntityFeetEyes.
Proof. solve_typed_switch. Qed.
#[export] Instance typed_PacketFacePlayer : TypedDecode wire_PacketFacePlayer dom_PacketFacePlayer.
Proof. solve_typed_struct. Qed.
#[export] Instance typed_PacketRecipeBookAddEntriesItemRecipe : TypedDecode wire_PacketRecipeBookAddEntriesItemRecipe dom_PacketRecipeBookAddEntriesItemRecipe.
Proof. solve_typed_struct. Qed.
#[export] Instance typed_PacketRecipeBookAddEntriesItem : TypedDecode wire_PacketRecipeBookAddEntriesItem dom_PacketRecipeBookAddEntriesItem.
Proof. solve_typed_struct. Qed.
#[export] Instance typed_PacketRecipeBookAdd : TypedDecode wire_PacketRecipeBookAdd dom_PacketRecipeBookAdd.
Proof. solve_typed_struct. Qed.
Lemma sign_field k z :
  0 < k ≤ 32 → in_i k (swrap 32 (Z.shiftr (swrap 64 (Z.shiftl (Z.land z (Z.ones k)) (64 - k))) (64 - k))).
Proof.
  intros Hk. rewrite shl_shr_64 by lia. replace (64 - (64 - k)) with k by lia.
  rewrite swrap_i32 by lia. by apply swrap_range, Hk.
Qed.

#[export] Instance typed_PacketMultiBlockChangeChunkCoordinates :
  TypedDecode wire_PacketMultiBlockChangeChunkCoordinates dom_PacketMultiBlockChangeChunkCoordinates.
Proof.
  unfold TypedDecode, wire_PacketMultiBlockChangeChunkCoordinates. cbn [decode].
  eapply yields_bind; [apply yields_any|]. intros raw _. apply yields_ret.
  pose proof (sign_field 22 (Z.shiftr raw 42) ltac:(lia)). pose proof (sign_field 22 (Z.shiftr raw 20) ltac:(lia)).
  pose proof (sign_field 20 raw ltac:(lia)). by split_and?.
Qed.
#[export] Instance typed_PacketMultiBlockChange : TypedDecode wire_PacketMultiBlockChange dom_PacketMultiBlockChange.
Proof. solve_typed_struct. Qed.
#[export] Instance typed_PacketSetCursorItem : TypedDecode wire_PacketSetCursorItem dom_PacketSetCursorItem.
Proof. solve_typed_struct. Qed.
#[export] Instance typed_PacketEntityMetadata : TypedDecode wire_PacketEntityMetadata dom_PacketEntityMetadata.
Proof. solve_typed_struct. Qed.
Lemma typed_topbit : yields decode_topbit (λ p, dom_equipment p.1).
Proof.
  unfold decode_topbit. eapply yields_bind; [apply typed_u8|]. intros b Hb.
  eapply yields_bind; [apply (typed_decode (c := wire_Slot))|]. intros item Hi. apply yields_ret. split; [|done].
  cbn. assert (∀ z, in_u 8 z → in_u 7 (swrap 8 (Z.land z 127))) as Hall; [|by apply Hall].
  apply in_u_all, (bool_decide_unpack _). by vm_compute.
Qed.

#[export] Instance typed_PacketEntityEquipmentEquipments :
  TypedDecode wire_PacketEntityEquipmentEquipments dom_PacketEntityEquipmentEquipments.
Proof.
  intros r. unfold wire_PacketEntityEquipmentEquipments. cbn [decode knot]. generalize (S (remaining r)). intros n. revert r.
  induction n as [|n IH]; intros r items r' Hr; [done|].
  cbn [unrolled decode level_PacketEntityEquipmentEquipments] in Hr.
  apply bind_Ok_inv in Hr as ([item more] & r1 & Hi%typed_topbit & Hr). destruct more.
  - apply bind_Ok_inv in Hr as (l & r2 & Hl & [= <- _]). apply IH in Hl as [_ Hl]. split; [done|]. by apply Forall_cons.
  - injection Hr as <- _. split; [done|]. by apply Forall_singleton.
Qed.
#[export] Instance typed_PacketEntityEquipment : TypedDecode wire_PacketEntityEquipment dom_PacketEntityEquipment.
Proof. solve_typed_struct. Qed.
#[export] Instance typed_PacketScoreboardObjectiveDisplayText : TypedSwitch switch_PacketScoreboardObjectiveDisplayText dom_PacketScoreboardObjectiveDisplayText.
Proof. solve_typed_switch. Qed.
#[export] Instance typed_PacketScoreboardObjectiveType : TypedSwitch switch_PacketScoreboardObjectiveType dom_PacketScoreboardObjectiveType.
Proof. solve_typed_switch. Qed.
#[export] Instance typed_PacketScoreboardObjectiveNumberFormat : TypedSwitch switch_PacketScoreboardObjectiveNumberFormat dom_PacketScoreboardObjectiveNumberFormat.
Proof. solve_typed_switch. Qed.
#[export] Instance typed_PacketScoreboardObjectiveStylingV0 : TypedSwitch switch_PacketScoreboardObjectiveStylingV0 dom_PacketScoreboardObjectiveStylingV0.
Proof. solve_typed_switch. Qed.
#[export] Instance typed_PacketScoreboardObjectiveStylingV2 : TypedSwitch switch_PacketScoreboardObjectiveStylingV2 dom_PacketScoreboardObjectiveStylingV2.
Proof. solve_typed_switch. Qed.
#[export] Instance typed_PacketScoreboardObjectiveStyling : TypedSwitch switch_PacketScoreboardObjectiveStyling dom_PacketScoreboardObjectiveStyling.
Proof. solve_typed_switch. Qed.
#[export] Instance typed_PacketScoreboardObjective : TypedDecode wire_PacketScoreboardObjective dom_PacketScoreboardObjective.
Proof. solve_typed_struct. Qed.
#[export] Instance typed_PacketSetPlayerInventory : TypedDecode wire_PacketSetPlayerInventory dom_PacketSetPlayerInventory.
Proof. solve_typed_struct. Qed.
#[export] Instance typed_PacketTeamsName : TypedSwitch switch_PacketTeamsName dom_PacketTeamsName.
Proof. solve_typed_switch. Qed.
#[export] Instance typed_PacketTeamsFriendlyFire : TypedSwitch switch_PacketTeamsFriendlyFire dom_PacketTeamsFriendlyFire.
Proof. solve_typed_switch. Qed.
#[export] Instance typed_PacketTeamsNameTagVisibility : TypedSwitch switch_PacketTeamsNameTagVisibility dom_PacketTeamsNameTagVisibility.
Proof. solve_typed_switch. Qed.
#[export] Instance typed_PacketTeamsCollisionRule : TypedSwitch switch_PacketTeamsCollisionRule dom_PacketTeamsCollisionRule.
Proof. solve_typed_switch. Qed.
#[export] Instance typed_PacketTeamsFormatting : TypedSwitch switch_PacketTeamsFormatting dom_PacketTeamsFormatting.
Proof. solve_typed_switch. Qed.
#[export] Instance typed_PacketTeamsPrefix : TypedSwitch switch_PacketTeamsPrefix dom_PacketTeamsPrefix.
Proof. solve_typed_switch. Qed.
#[export] Instance typed_PacketTeamsSuffix : TypedSwitch switch_PacketTeamsSuffix dom_PacketTeamsSuffix.
Proof. solve_typed_switch. Qed.
#[export] Instance typed_PacketTeamsPlayers : TypedSwitch switch_PacketTeamsPlayers dom_PacketTeamsPlayers.
Proof. solve_typed_switch. Qed.
#[export] Instance typed_PacketTeams : TypedDecode wire_PacketTeams dom_PacketTeams.
Proof. solve_typed_struct. Qed.
#[export] Instance typed_PacketScoreboardScoreStyling : TypedSwitch switch_PacketScoreboardScoreStyling dom_PacketScoreboardScoreStyling.
Proof. solve_typed_switch. Qed.
#[export] Instance typed_PacketScoreboardScore : TypedDecode wire_PacketScoreboardScore dom_PacketScoreboardScore.
Proof. solve_typed_struct. Qed.
#[export] Instance typed_PacketStopSoundSource : TypedSwitch switch_PacketStopSoundSource dom_PacketStopSoundSource.
Proof. solve_typed_switch. Qed.
#[export] Instance typed_PacketStopSoundSound : TypedSwitch switch_PacketStopSoundSound dom_PacketStopSoundSound.
Proof. solve_typed_switch. Qed.
#[export] Instance typed_PacketStopSound : TypedDecode wire_PacketStopSound dom_PacketStopSound.
Proof. solve_typed_struct. Qed.
#[export] Instance typed_PacketNbtQueryResponse : TypedDecode wire_PacketNbtQueryResponse dom_PacketNbtQueryResponse.
Proof. solve_typed_struct. Qed.
#[export] Instance typed_PacketAdvancementsAdvancementMappingItemValueDisplayDataValueFlags : TypedDecode wire_PacketAdvancementsAdvancementMappingItemValueDisplayDataValueFlags dom_PacketAdvancementsAdvancementMappingItemValueDisplayDataValueFlags.
Proof. solve_typed_struct. Qed.
#[export] Instance typed_PacketAdvancementsAdvancementMappingItemValueDisplayDataValueBackgroundTexture : TypedSwitch switch_PacketAdvancementsAdvancementMappingItemValueDisplayDataValueBackgroundTexture dom_PacketAdvancementsAdvancementMappingItemValueDisplayDataValueBackgroundTexture.
Proof. solve_typed_switch. Qed.
#[export] Instance typed_PacketAdvancementsAdvancementMappingItemValueDisplayDataValue : TypedDecode wire_PacketAdvancementsAdvancementMappingItemValueDisplayDataValue dom_PacketAdvancementsAdvancementMappingItemValueDisplayDataValue.
Proof. solve_typed_struct. Qed.
#[export] Instance typed_PacketAdvancementsAdvancementMappingItemValue : TypedDecode wire_PacketAdvancementsAdvancementMappingItemValue dom_PacketAdvancementsAdvancementMappingItemValue.
Proof. solve_typed_struct. Qed.
#[export] Instance typed_PacketAdvancementsAdvancementMappingItem : TypedDecode wire_PacketAdvancementsAdvancementMappingItem dom_PacketAdvancementsAdvancementMappingItem.
Proof. solve_typed_struct. Qed.
#[export] Instance typed_PacketAdvancementsProgressMappingItemValueItem : TypedDecode wire_PacketAdvancementsProgressMappingItemValueItem dom_PacketAdvancementsProgressMappingItemValueItem.
Proof. solve_typed_struct. Qed.
#[export] Instance typed_PacketAdvancementsProgressMappingItem : TypedDecode wire_PacketAdvancementsProgressMappingItem dom_PacketAdvancementsProgressMappingItem.
Proof. solve_typed_struct. Qed.
#[export] Instance typed_PacketAdvancements : TypedDecode wire_PacketAdvancements dom_PacketAdvancements.
Proof. solve_typed_struct. Qed.
#[export] Instance typed_PacketDeclareRecipesStoneCutterRecipesItem : TypedDecode wire_PacketDeclareRecipesStoneCutterRecipesItem dom_PacketDeclareRecipesStoneCutterRecipesItem.
Proof. solve_typed_struct. Qed.
#[export] Instance typed_PacketDeclareRecipes : TypedDecode wire_PacketDeclareRecipes dom_PacketDeclareRecipes.
Proof. solve_typed_struct. Qed.
#[export] Instance typed_ServerLinkType : TypedDecode wire_ServerLinkType dom_ServerLinkType.
Proof. solve_typed_struct. Qed.
#[export] Instance typed_PacketCommonServerLinksLinksItemKnownType : TypedSwitch switch_PacketCommonServerLinksLinksItemKnownType dom_PacketCommonServerLinksLinksItemKnownType.
Proof. solve_typed_switch. Qed.
#[export] Instance typed_PacketCommonServerLinksLinksItemUnknownType : TypedSwitch switch_PacketCommonServerLinksLinksItemUnknownType dom_PacketCommonServerLinksLinksItemUnknownType.
Proof. solve_typed_switch. Qed.
#[export] Instance typed_PacketCommonServerLinksLinksItem : TypedDecode wire_PacketCommonServerLinksLinksItem dom_PacketCommonServerLinksLinksItem.
Proof. solve_typed_struct. Qed.
#[export] Instance typed_PacketCommonServerLinks : TypedDecode wire_PacketCommonServerLinks dom_PacketCommonServerLinks.
Proof. solve_typed_struct. Qed.

(** ** Packets from the client *)

#[export] Instance typed_PacketChatCommandSignedArgumentSignaturesItem : TypedDecode wire_PacketChatCommandSignedArgumentSignaturesItem dom_PacketChatCommandSignedArgumentSignaturesItem.
Proof. solve_typed_struct. Qed.
#[export] Instance typed_PacketChatCommandSigned : TypedDecode wire_PacketChatCommandSigned dom_PacketChatCommandSigned.
Proof. solve_typed_struct. Qed.
#[export] Instance typed_PacketChatMessage : TypedDecode wire_PacketChatMessage dom_PacketChatMessage.
Proof. solve_typed_struct. Qed.
#[export] Instance typed_PacketWindowClickChangedSlotsItem : TypedDecode wire_PacketWindowClickChangedSlotsItem dom_PacketWindowClickChangedSlotsItem.
Proof. solve_typed_struct. Qed.
#[export] Instance typed_PacketWindowClick : TypedDecode wire_PacketWindowClick dom_PacketWindowClick.
Proof. solve_typed_struct. Qed.
#[export] Instance typed_PacketUseEntityX : TypedSwitch switch_PacketUseEntityX dom_PacketUseEntityX.
Proof. solve_typed_switch. Qed.
#[export] Instance typed_PacketUseEntityY : TypedSwitch switch_PacketUseEntityY dom_PacketUseEntityY.
Proof. solve_typed_switch. Qed.
#[export] Instance typed_PacketUseEntityZ : TypedSwitch switch_PacketUseEntityZ dom_PacketUseEntityZ.
Proof. solve_typed_switch. Qed.
#[export] Instance typed_PacketUseEntityHand : TypedSwitch switch_PacketUseEntityHand dom_PacketUseEntityHand.
Proof. solve_typed_switch. Qed.
#[export] Instance typed_PacketUseEntity : TypedDecode wire_PacketUseEntity dom_PacketUseEntity.
Proof. solve_typed_struct. Qed.
#[export] Instance typed_PacketAdvancementTabTabId : TypedSwitch switch_PacketAdvancementTabTabId dom_PacketAdvancementTabTabId.
Proof. solve_typed_switch. Qed.
#[export] Instance typed_PacketAdvancementTab : TypedDecode wire_PacketAdvancementTab dom_PacketAdvancementTab.
Proof. solve_typed_struct. Qed.
#[export] Instance typed_PacketSetCreativeSlot : TypedDecode wire_PacketSetCreativeSlot dom_PacketSetCreativeSlot.
Proof. solve_typed_struct. Qed.
