(* ===== verification/PacketTyped.v ===== *)
(** * Types of decoded packets

    Every packet of every state that was read is within its types, and so can
    be written again. *)

From S2P Require Import Prelude Machine Reader Varint Utf8 Buffer Wire Nbt PacketTypes Switch ItemTypes Items EntityData CommandNodes Displays PlayPackets PlayPacketsOut PlayPacketsSwitch PlayPacketsSwitchOut LoginPackets PacketTable PacketStates Typed ItemTyped.

Local Open Scope Z_scope.

(** ** Packets that end in what is left *)

#[export] Instance typed_remaining : TypedDecode wire_remaining any_value. Proof. apply yields_any. Qed.
#[export] Instance typed_PacketCustomPayload : TypedDecode wire_PacketCustomPayload dom_PacketCustomPayload.
Proof. solve_typed. Qed.
#[export] Instance typed_ConfigPacketCustomPayload : TypedDecode wire_ConfigPacketCustomPayload dom_ConfigPacketCustomPayload.
Proof. solve_typed. Qed.
#[export] Instance typed_LoginPacketLoginPluginRequest : TypedDecode wire_LoginPacketLoginPluginRequest dom_LoginPacketLoginPluginRequest.
Proof. solve_typed. Qed.
#[export] Instance typed_LoginPacketLoginPluginResponse : TypedDecode wire_LoginPacketLoginPluginResponse dom_LoginPacketLoginPluginResponse.
Proof. solve_typed. Qed.

(** ** The packet tables *)

Definition entry_typed (e : PacketEntry) : Prop := TypedDecode (entry_codec e) (entry_dom e).

Ltac solve_typed_table := repeat (apply List.Forall_cons; [unfold entry_typed; cbn [entry_codec entry_dom]; apply _|]); apply List.Forall_nil.

Lemma play_clientbound_typed : List.Forall entry_typed play_clientbound.
Proof. unfold play_clientbound, clientbound. solve_typed_table. Qed.
Lemma play_serverbound_typed : List.Forall entry_typed play_serverbound.
Proof. unfold play_serverbound, serverbound. solve_typed_table. Qed.

Lemma tables_typed context table : In (context, table) all_tables → List.Forall entry_typed table.
Proof.
  pose proof play_clientbound_typed. pose proof play_serverbound_typed. unfold all_tables. simpl. intros Hin.
  repeat destruct Hin as [[= <- <-]|Hin]; try done;
    unfold handshaking_clientbound, handshaking_serverbound, status_clientbound, status_serverbound, login_clientbound, login_serverbound,
      configuration_clientbound, configuration_serverbound; solve_typed_table.
Qed.

(** What a packet enum returns: the arm of the id, used up, with a payload in
    its domain. *)
Lemma decode_packet_inv context table id r p r' :
  List.Forall entry_typed table → decode_packet context table id r = (Ok p, r') →
  In (projT1 p) table ∧ entry_id (projT1 p) = id ∧ entry_dom (projT1 p) (projT2 p) ∧ remaining r' = 0%nat.
Proof.
  intros Ht. unfold decode_packet. destruct (entry_for table id) as [e|] eqn:He; [|done].
  apply List.find_some in He as [Hin Hid%Z.eqb_eq]. intros (payload & r1 & Hp & [= <- <-])%bind_Ok_inv. cbn [projT1 projT2].
  unfold packet_decode in Hp. apply bind_Ok_inv in Hp as (v & r2 & Hv & Hp). apply bind_Ok_inv in Hp as (u & r3 & Hu & [= -> ->]).
  split; [done|]. split; [done|]. split.
  - rewrite List.Forall_forall in Ht. by eapply (Ht e Hin).
  - unfold ensure_consumed, is_empty in Hu. case_bool_decide; [|done]. by injection Hu as _ <-.
Qed.

(** C18. Whatever bytes arrive, in any state and direction, a packet that is
    read is an arm of its enum, for the id it was read under, uses up its
    bytes, and has every field within its declared type: integers within
    their width, strings valid UTF-8 within the character limit, arrays and
    NBT within their limits, references non-negative.  So it can be written,
    and what is written is read back, id and all, as the same packet with
    nothing left. *)
Theorem packets_typed (context : string) (table : list PacketEntry) (id : Z) (r r' : PacketReader) (p : AnyPacket) :
  In (context, table) all_tables → decode_packet context table id r = (Ok p, r') →
  In (projT1 p) table ∧ entry_id (projT1 p) = id ∧ remaining r' = 0%nat
  ∧ entry_dom (projT1 p) (projT2 p)
  ∧ ∃ bs r1 r2, encode_packet p new_writer = (Ok tt, mkWriter bs) ∧ read_varint (new_reader bs) = (Ok id, r1)
    ∧ decode_packet context table id r1 = (Ok p, r2) ∧ remaining r2 = 0%nat.
Proof.
  intros Hin Hd. pose proof (tables_survive _ _ Hin) as Hs. rewrite List.Forall_forall in Hs.
  destruct (decode_packet_inv _ _ _ _ _ _ (tables_typed _ _ Hin) Hd) as (He & <- & Hdom & Hr). split_and!; [done..|].
  destruct p as [e payload]. exact (Hs e He payload Hdom).
Qed.

Lemma packets_typed_witness :
  let bytes := map byte_of_Z [0; 3; 0x61; 0x3a; 0x62; 1; 2] in
  let read := decode_packet "clientbound configuration" configuration_clientbound 1 (new_reader (tail bytes)) in
  ∃ p, read.1 = Ok p ∧ entry_dom (projT1 p) (projT2 p).
Proof.
  cbv zeta. set (read := decode_packet _ _ _ _).
  assert (In ("clientbound configuration", configuration_clientbound) all_tables) as H by (do 6 right; left; reflexivity).
  assert (match read.1 with Ok _ => true | Err _ => false end = true) as Hok by (vm_compute; reflexivity).
  destruct read as [[p|e] r'] eqn:Hr; [|discriminate Hok]. exists p. split; [reflexivity|].
  apply (packets_typed _ _ _ _ _ _ H Hr).
Defined.
