(* ===== verification/Text.v ===== *)
(** * Text components

    [src/minecraft/text.rs]: the component tree behind chat, titles, boss
    bars and kick reasons, its parser from network NBT under a budget of
    nodes and literal bytes, and plain-text rendering.  [J] is the JSON value
    type a hover event may keep ([serde_json::Value]); [TextJson] holds the
    JSON parser. *)

From Stdlib Require Import Ascii.
From S2P Require Import Prelude Machine Nbt.

Local Open Scope Z_scope.

Definition MAX_DEPTH : Z := 64.
Definition MAX_NODES : Z := 4096.
Definition MAX_TEXT_BYTES : Z := 262144.

(** ** Data *)

Inductive Color : Type := Named (name : string) | Hex (hex : string).

Record ClickEvent : Type := mkClickEvent { click_action : string; click_value : string }.

Inductive RawEvent (J : Type) : Type := RawNbt (v : Nbt) | RawJson (v : J).
Arguments RawNbt {J} v.
Arguments RawJson {J} v.

#[local] Unset Elimination Schemes.
Inductive TextComponent (J : Type) : Type :=
  | mkText (content : Content J) (style : Style J) (extra : list (TextComponent J))
with Content (J : Type) : Type :=
  | Literal (text : string)
  | Translate (key : string) (args : list (TextComponent J))
  | UnknownContent (raw : Nbt)
with Style (J : Type) : Type :=
  | mkStyle (color : option Color) (bold italic underlined strikethrough obfuscated : option bool)
      (insertion font : option string) (click_event : option ClickEvent) (hover_event : option (HoverEvent J))
with HoverEvent (J : Type) : Type :=
  | mkHover (action : string) (text : option (TextComponent J)) (raw : RawEvent J).
#[local] Set Elimination Schemes.
Arguments mkText {J} content style extra.
Arguments Literal {J} text.
Arguments Translate {J} key args.
Arguments UnknownContent {J} raw.
Arguments mkStyle {J} color bold italic underlined strikethrough obfuscated insertion font click_event hover_event.
Arguments mkHover {J} action text raw.

Section text.
Context {J : Type}.
Implicit Types c : TextComponent J.

Definition style_default : Style J := mkStyle None None None None None None None None None None.
Definition content_default : Content J := Literal "".
Definition literal (text : string) : TextComponent J := mkText (Literal text) style_default [].
Definition text_default : TextComponent J := mkText content_default style_default [].

Definition content_of c : Content J := let 'mkText t _ _ := c in t.
Definition style_of c : Style J := let 'mkText _ s _ := c in s.
Definition extra_of c : list (TextComponent J) := let 'mkText _ _ e := c in e.

(** Assignments to one field. *)
Definition set_style (s : Style J) c : TextComponent J := mkText (content_of c) s (extra_of c).
Definition set_extra (e : list (TextComponent J)) c : TextComponent J := mkText (content_of c) (style_of c) e.

(** ** Budget *)

Record Budget : Type := mkBudget { nodes : Z; text_bytes : Z }.

Definition budget_default : Budget := mkBudget 0 0.

Definition is_exhausted (b : Budget) : bool := MAX_NODES <=? nodes b.

Definition take_node (b : Budget) : bool * Budget :=
  if is_exhausted b then (false, b) else (true, mkBudget (nodes b + 1) (text_bytes b)).

Definition take_text (len : Z) (b : Budget) : bool * Budget :=
  if MAX_TEXT_BYTES <? saturating_add 64 (text_bytes b) len then (false, b)
  else (true, mkBudget (nodes b) (text_bytes b + len)).

Definition literal_bounded (text : string) (b : Budget) : TextComponent J * Budget :=
  let '(ok, b) := take_text (Z.of_nat (String.length text)) b in
  (if ok then literal text else literal "", b).

Definition parse_color (raw : string) : Color :=
  match raw with
  | String "#"%char hex => Hex hex
  | _ => Named raw
  end.

(** ** Parsing network NBT *)

Definition list_field (value : Nbt) (name : string) : option (list Nbt) :=
  match nbt_get value name with Some (NbtList _ items) => Some items | _ => None end.

Definition string_field (value : Nbt) (key : string) : option string :=
  match nbt_get value key with Some (NbtString s) => Some s | _ => None end.

Definition bool_field (value : Nbt) (key : string) : option bool :=
  match nbt_get value key with Some (NbtByte b) => Some (negb (b =? 0)) | _ => None end.

Definition event_field (value : Nbt) (camel snake : string) : option Nbt :=
  match nbt_get value camel with Some v => Some v | None => nbt_get value snake end.

Definition parse_click_event (value : Nbt) : option ClickEvent :=
  event ← event_field value "clickEvent" "click_event";
  action ← string_field event "action";
  Some (mkClickEvent action (default "" (string_field event "value"))).

(** The functions below call the parser back: [rec value depth budget]. *)
Section rec.
Context (rec : Nbt → Z → Budget → TextComponent J * Budget).

(** The loop over the rest of a component array. *)
Fixpoint parse_siblings (items : list Nbt) (depth : Z) (b : Budget) : list (TextComponent J) * Budget :=
  match items with
  | [] => ([], b)
  | item :: items =>
      let '(c, b) := rec item depth b in
      let '(out, b) := parse_siblings items depth b in
      (c :: out, b)
  end.

Fixpoint parse_list (items : list Nbt) (depth : Z) (b : Budget) : list (TextComponent J) * Budget :=
  match items with
  | [] => ([], b)
  | item :: items =>
      if is_exhausted b then ([], b)
      else
        let '(c, b) := rec item (depth + 1) b in
        let '(out, b) := parse_list items depth b in
        (c :: out, b)
  end.

Definition parse_hover_event (value : Nbt) (b : Budget) : option (HoverEvent J) * Budget :=
  match event_field value "hoverEvent" "hover_event" with
  | None => (None, b)
  | Some event =>
      match string_field event "action" with
      | None => (None, b)
      | Some action =>
          let contents := event_field event "contents" "value" in
          let '(text, b) :=
            if bool_decide (action = "show_text") then
              match contents with
              | Some c => let '(t, b) := rec c 0 b in (Some t, b)
              | None => (None, b)
              end
            else (None, b) in
          (Some (mkHover action text (RawNbt event)), b)
      end
  end.

Definition parse_style (value : Nbt) (b : Budget) : Style J * Budget :=
  let '(hover, b) := parse_hover_event value b in
  (mkStyle (parse_color <$> string_field value "color") (bool_field value "bold") (bool_field value "italic")
     (bool_field value "underlined") (bool_field value "strikethrough") (bool_field value "obfuscated")
     (string_field value "insertion") (string_field value "font") (parse_click_event value) hover, b).

(** The component before its style and siblings are set. *)
Definition parse_content (value : Nbt) (depth : Z) (b : Budget) : TextComponent J * Budget :=
  match nbt_get value "text" with
  | Some (NbtString text) => literal_bounded text b
  | _ =>
      match nbt_get value "translate" with
      | Some (NbtString key) =>
          let '(args, b) :=
            match list_field value "with" with
            | Some items => parse_list items depth b
            | None => ([], b)
            end in
          (mkText (Translate key args) style_default [], b)
      | _ => (mkText (UnknownContent value) style_default [], b)
      end
  end.

Definition parse_compound (value : Nbt) (depth : Z) (b : Budget) : TextComponent J * Budget :=
  let '(component, b) := parse_content value depth b in
  let '(style, b) := parse_style value b in
  let component := set_style style component in
  match list_field value "extra" with
  | Some items => let '(extra, b) := parse_list items depth b in (set_extra extra component, b)
  | None => (component, b)
  end.
End rec.

Fixpoint parse (fuel : nat) (value : Nbt) (depth : Z) (b : Budget) : TextComponent J * Budget :=
  match fuel with
  | O => (literal "", b)
  | S fuel =>
      if MAX_DEPTH <? depth then (literal "", b)
      else
        let '(taken, b) := take_node b in
        if negb taken then (literal "", b)
        else
          match value with
          | NbtString text => literal_bounded text b
          | NbtList _ items =>
              match items with
              | [] => (literal "", b)
              | first :: items =>
                  let '(component, b) := parse fuel first (depth + 1) b in
                  let '(more, b) := parse_siblings (parse fuel) items (depth + 1) b in
                  (set_extra (extra_of component ++ more) component, b)
              end
          | NbtCompound _ => parse_compound (parse fuel) value depth b
          | _ => (literal "", b)
          end
  end.

(** Every call below a value is on a value nested in it. *)
Definition from_nbt (v : Nbt) : TextComponent J := (parse (S (nbt_depth v)) v 0 budget_default).1.

(** ** Rendering *)

Definition translation_template (key : string) : option string :=
  if bool_decide (key = "chat.type.text") then Some "<%s> %s"
  else if bool_decide (key = "chat.type.announcement") then Some "[%s] %s"
  else if bool_decide (key = "chat.type.emote") then Some "* %s %s"
  else if bool_decide (key = "chat.type.team.text") then Some "%s <%s> %s"
  else if bool_decide (key = "multiplayer.player.joined") then Some "%s joined the game"
  else if bool_decide (key = "multiplayer.player.joined.renamed") then
    Some "%s (formerly known as %s) joined the game"
  else if bool_decide (key = "multiplayer.player.left") then Some "%s left the game"
  else if bool_decide (key = "commands.message.display.incoming") then Some "%s whispers to you: %s"
  else if bool_decide (key = "commands.message.display.outgoing") then Some "You whisper to %s: %s"
  else None.

Definition is_digit (c : Ascii.ascii) : bool :=
  let n := Ascii.N_of_ascii c in (48 <=? n)%N && (n <=? 57)%N.
Definition digit_value (c : Ascii.ascii) : Z := Z.of_N (Ascii.N_of_ascii c) - 48.

(** The digits at the front of [s], added to [index], and what follows. *)
Fixpoint read_index (s : string) (index : Z) : Z * string :=
  match s with
  | String d s' => if is_digit d then read_index s' (index * 10 + digit_value d) else (index, s)
  | EmptyString => (index, s)
  end.

(** [$s] or [$] after an index. *)
Definition skip_dollar_s (s : string) : string :=
  match s with
  | String "$"%char (String "s"%char s) => s
  | String "$"%char s => s
  | _ => s
  end.

Definition arg_at (args : list string) (i : Z) : string :=
  if i <? 0 then "" else default "" (args !! Z.to_nat i).

(** One pass of the loop per unit of fuel; each consumes a character. *)
Fixpoint substitute_loop (fuel : nat) (s : string) (args : list string) (next_seq : Z) (out : string) : string :=
  match fuel, s with
  | O, _ | _, EmptyString => out
  | S fuel, String "%"%char s =>
      match s with
      | String "%"%char s => substitute_loop fuel s args next_seq (out ++ "%")
      | String "s"%char s => substitute_loop fuel s args (next_seq + 1) (out ++ arg_at args next_seq)
      | String d _ =>
          if is_digit d then
            let '(index, s) := read_index s 0 in
            substitute_loop fuel (skip_dollar_s s) args next_seq (out ++ arg_at args (index - 1))
          else substitute_loop fuel s args next_seq (out ++ "%")
      | EmptyString => substitute_loop fuel s args next_seq (out ++ "%")
      end
  | S fuel, String c s => substitute_loop fuel s args next_seq (out ++ String c "")
  end.

Definition substitute_placeholders (template : string) (args : list string) (out : string) : string :=
  substitute_loop (String.length template) template args 0 out.

(** [rendered_args.join] with a comma and a space. *)
Fixpoint join_args (l : list string) : string :=
  match l with
  | [] => ""
  | [s] => s
  | s :: l => s ++ ", " ++ join_args l
  end.

Definition render_translation (key : string) (rendered_args : list string) (out : string) : string :=
  match translation_template key with
  | Some template => substitute_placeholders template rendered_args out
  | None =>
      match rendered_args with
      | [] => out ++ key
      | _ => out ++ key ++ "{" ++ join_args rendered_args ++ "}"
      end
  end.

Fixpoint render_plain (c : TextComponent J) (out : string) : string :=
  match c with
  | mkText content _ extra =>
      let out :=
        match content with
        | Literal text => out ++ text
        | Translate key args => render_translation key (map (λ a, render_plain a "") args) out
        | UnknownContent _ => out
        end in
      fold_left (λ out child, render_plain child out) extra out
  end%string.

Definition plain_text (c : TextComponent J) : string := render_plain c "".

(** ** Nesting *)

Lemma nbt_get_nested v name w : nbt_get v name = Some w → (nbt_depth w < nbt_depth v)%nat.
Proof.
  destruct v as [| | | | | | | | |entries| |]; try done. simpl. intros ([k w'] & Hf & Hw)%fmap_Some. simpl in Hw. subst w'.
  apply find_some in Hf as [Hin _]. simpl.
  induction entries as [|[k' w'] entries IH]; [done|]. destruct Hin as [[= -> ->]|Hin]; simpl; [lia|].
  specialize (IH Hin). lia.
Qed.

Lemma items_nested t items i : i ∈ items → (nbt_depth i < nbt_depth (NbtList t items))%nat.
Proof. simpl. induction 1; simpl; lia. Qed.

Lemma list_field_nested v name items i :
  list_field v name = Some items → i ∈ items → (S (nbt_depth i) < nbt_depth v)%nat.
Proof.
  unfold list_field. destruct (nbt_get v name) as [[| | | | | | | |t l| | |]|] eqn:Hg; try done.
  intros [= ->] Hi. apply nbt_get_nested in Hg. pose proof (items_nested t items i Hi). lia.
Qed.

Lemma event_field_nested v camel snake w : event_field v camel snake = Some w → (nbt_depth w < nbt_depth v)%nat.
Proof.
  unfold event_field. destruct (nbt_get v camel) eqn:Hg; [intros [= <-]|intros Hg']; by eapply nbt_get_nested.
Qed.

(** ** Fuel *)

Section congruence.
Context (r1 r2 : Nbt → Z → Budget → TextComponent J * Budget).

Lemma parse_siblings_ext items depth b :
  (∀ i d b, i ∈ items → r1 i d b = r2 i d b) → parse_siblings r1 items depth b = parse_siblings r2 items depth b.
Proof.
  revert b. induction items as [|i items IH]; intros b Hr; simpl; [done|]. rewrite Hr by set_solver.
  destruct (r2 i depth b) as [c b']. rewrite IH; [done|]. intros. apply Hr. set_solver.
Qed.

Lemma parse_list_ext items depth b :
  (∀ i d b, i ∈ items → r1 i d b = r2 i d b) → parse_list r1 items depth b = parse_list r2 items depth b.
Proof.
  revert b. induction items as [|i items IH]; intros b Hr; simpl; [done|]. destruct (is_exhausted b); [done|].
  rewrite Hr by set_solver. destruct (r2 i (depth + 1) b) as [c b']. rewrite IH; [done|]. intros. apply Hr. set_solver.
Qed.

Lemma parse_compound_ext v depth b :
  (∀ w d b, (nbt_depth w < nbt_depth v)%nat → r1 w d b = r2 w d b) →
  parse_compound r1 v depth b = parse_compound r2 v depth b.
Proof.
  intros Hr.
  assert (∀ name items d b, list_field v name = Some items → parse_list r1 items d b = parse_list r2 items d b) as Hl.
  { intros name items d b' Hf. apply parse_list_ext. intros i d' b'' Hi. apply Hr.
    pose proof (list_field_nested v name items i Hf Hi). lia. }
  assert (∀ b, parse_style r1 v b = parse_style r2 v b) as Hs.
  { intros b'. unfold parse_style, parse_hover_event. destruct (event_field v _ _) as [event|] eqn:He; [|done].
    destruct (string_field event _); [|done]. case_bool_decide; [|done].
    destruct (event_field event _ _) eqn:Hc; [|done]. rewrite Hr; [done|].
    apply event_field_nested in He, Hc. lia. }
  unfold parse_compound.
  assert (parse_content r1 v depth b = parse_content r2 v depth b) as ->.
  { unfold parse_content. destruct (list_field v "with") eqn:Hf; [by erewrite Hl|done]. }
  destruct (parse_content r2 v depth b) as [c b1]. rewrite Hs. destruct (parse_style r2 v b1) as [st b2].
  destruct (list_field v "extra") eqn:Hf; [|done]. by erewrite Hl.
Qed.
End congruence.

Lemma parse_fuel f1 f2 v depth b :
  (nbt_depth v < f1)%nat → (nbt_depth v < f2)%nat → parse f1 v depth b = parse f2 v depth b.
Proof.
  revert f2 v depth b. induction f1 as [|f1 IH]; intros [|f2] v depth b H1 H2; try lia. simpl.
  destruct (MAX_DEPTH <? depth); [done|]. destruct (take_node b) as [[] b1]; simpl; [|done].
  destruct v as [| | | | | | | |t items|entries| |]; try done.
  - destruct items as [|i items]; [done|].
    assert (∀ j, j ∈ i :: items → nbt_depth j < f1 ∧ nbt_depth j < f2)%nat as Hj.
    { intros j Hin. pose proof (items_nested t _ j Hin). lia. }
    rewrite (IH f2) by (apply Hj; set_solver). destruct (parse f2 i (depth + 1) b1) as [c b2].
    erewrite parse_siblings_ext; [done|]. intros j d b' Hin. apply IH; apply Hj; set_solver.
  - apply parse_compound_ext. intros w d b' Hw. apply IH; lia.
Qed.

(** ** What a tree holds

    [weigh w] adds [w] over the contents of every component of a tree: the
    component itself, its siblings, translation arguments and hover text. *)

Definition sum_of (l : list Z) : Z := foldr Z.add 0 l.

Section weigh.
Context (w : Content J → Z).

Fixpoint weigh (c : TextComponent J) : Z :=
  match c with
  | mkText content style extra => w content + weigh_content content + weigh_style style + sum_of (map weigh extra)
  end
with weigh_content (t : Content J) : Z :=
  match t with Translate _ args => sum_of (map weigh args) | _ => 0 end
with weigh_style (s : Style J) : Z :=
  match s with
  | mkStyle _ _ _ _ _ _ _ _ _ hover => match hover with Some h => weigh_hover h | None => 0 end
  end
with weigh_hover (h : HoverEvent J) : Z :=
  match h with mkHover _ text _ => match text with Some t => weigh t | None => 0 end end.

Definition weigh_all (cs : list (TextComponent J)) : Z := sum_of (map weigh cs).

Definition weigh_event (o : option (HoverEvent J)) : Z :=
  match o with Some h => weigh_hover h | None => 0 end.

Lemma weigh_all_cons c cs : weigh_all (c :: cs) = weigh c + weigh_all cs.
Proof. done. Qed.

Lemma weigh_all_app cs1 cs2 : weigh_all (cs1 ++ cs2) = weigh_all cs1 + weigh_all cs2.
Proof. induction cs1 as [|c cs1 IH]; [done|]. simpl app. rewrite !weigh_all_cons, IH. lia. Qed.

Lemma weigh_literal text : weigh (literal text) = w (Literal text).
Proof. unfold literal, style_default. simpl. lia. Qed.

Lemma weigh_append c more : weigh (set_extra (extra_of c ++ more) c) = weigh c + weigh_all more.
Proof. destruct c as [t s e]. pose proof (weigh_all_app e more). unfold weigh_all in *. simpl. lia. Qed.
End weigh.

Definition literal_weight (t : Content J) : Z :=
  match t with Literal s => Z.of_nat (String.length s) | _ => 0 end.

Definition literal_bytes : TextComponent J → Z := weigh literal_weight.

Definition components : TextComponent J → Z := weigh (λ _, 1).

(** ** Accounting

    A charge [C x b b'] relates a weight produced to the budget before and
    after; charges add up along the loops of the parser. *)

Section charge.
Context (w : Content J → Z) (C : Z → Budget → Budget → Prop).
Hypothesis C_none : ∀ b, C 0 b b.
Hypothesis C_add : ∀ x y b1 b2 b3, C x b1 b2 → C y b2 b3 → C (x + y) b1 b3.
Context (rec : Nbt → Z → Budget → TextComponent J * Budget).

Lemma parse_siblings_charge items depth b cs b' :
  (∀ i b c b', i ∈ items → rec i depth b = (c, b') → C (weigh w c) b b') →
  parse_siblings rec items depth b = (cs, b') → C (weigh_all w cs) b b'.
Proof.
  revert b cs. induction items as [|i items IH]; intros b cs Hr; simpl; [intros [= <- <-]; apply C_none|].
  destruct (rec i depth b) as [c b1] eqn:Hc. destruct (parse_siblings rec items depth b1) as [out b2] eqn:Ho.
  intros [= <- <-]. rewrite weigh_all_cons. eapply C_add; [apply (Hr i); [set_solver|done]|].
  eapply IH; [|done]. intros j b0 c0 b0' Hj. apply Hr. set_solver.
Qed.

Lemma parse_list_charge items depth b cs b' :
  (∀ i b c b', i ∈ items → is_exhausted b = false → rec i (depth + 1) b = (c, b') → C (weigh w c) b b') →
  parse_list rec items depth b = (cs, b') → C (weigh_all w cs) b b'.
Proof.
  revert b cs. induction items as [|i items IH]; intros b cs Hr; simpl; [intros [= <- <-]; apply C_none|].
  destruct (is_exhausted b) eqn:Hex; [intros [= <- <-]; apply C_none|].
  destruct (rec i (depth + 1) b) as [c b1] eqn:Hc. destruct (parse_list rec items depth b1) as [out b2] eqn:Ho.
  intros [= <- <-]. rewrite weigh_all_cons. eapply C_add; [apply (Hr i); [set_solver|done..]|].
  eapply IH; [|done]. intros j b0 c0 b0' Hj. apply Hr. set_solver.
Qed.

Lemma parse_hover_charge v b o b' :
  (∀ event x b t b', event_field v "hoverEvent" "hover_event" = Some event →
    event_field event "contents" "value" = Some x → rec x 0 b = (t, b') → C (weigh w t) b b') →
  parse_hover_event rec v b = (o, b') → C (weigh_event w o) b b'.
Proof.
  intros Hr. unfold parse_hover_event.
  destruct (event_field v _ _) as [event|] eqn:He; [|intros [= <- <-]; apply C_none].
  destruct (string_field event _) as [action|]; [|intros [= <- <-]; apply C_none].
  case_bool_decide; [|intros [= <- <-]; apply C_none].
  destruct (event_field event _ _) as [c|] eqn:Hc; [|intros [= <- <-]; apply C_none].
  destruct (rec c 0 b) as [t b1] eqn:Ht. intros [= <- <-]. simpl. by eapply Hr.
Qed.

(** A compound: its own content, then hover text, then siblings. *)
Lemma parse_compound_split v depth b c b' :
  parse_compound rec v depth b = (c, b') →
  ∃ c1 b1 o b2 (extra : list (TextComponent J)),
    parse_content rec v depth b = (c1, b1) ∧ parse_hover_event rec v b1 = (o, b2)
    ∧ (match list_field v "extra" with Some items => parse_list rec items depth b2 | None => ([], b2) end) = (extra, b')
    ∧ (extra_of c1 = [] → style_of c1 = style_default →
       weigh w c = weigh w c1 + weigh_event w o + weigh_all w extra).
Proof.
  unfold parse_compound, parse_style. destruct (parse_content rec v depth b) as [[t1 s1 e1] b1].
  destruct (parse_hover_event rec v b1) as [o b2] eqn:Ho. intros H. exists (mkText t1 s1 e1), b1, o, b2.
  destruct (list_field v "extra") as [items|].
  - destruct (parse_list rec items depth b2) as [extra b3]. simplify_eq. exists extra.
    split_and!; [done..|]. simpl. intros -> ->. unfold weigh_all. destruct o; simpl; lia.
  - simplify_eq. exists []. split_and!; [done..|]. simpl. intros -> ->. unfold weigh_all. destruct o; simpl; lia.
Qed.

Lemma parse_content_plain v depth b c b' :
  parse_content rec v depth b = (c, b') → extra_of c = [] ∧ style_of c = style_default.
Proof. unfold parse_content, literal_bounded. intros. case_all; done. Qed.
End charge.

Definition budget_ok (b : Budget) : Prop :=
  0 ≤ nodes b ≤ MAX_NODES ∧ 0 ≤ text_bytes b ≤ MAX_TEXT_BYTES.

Lemma take_node_spec b taken b' :
  budget_ok b → take_node b = (taken, b') →
  budget_ok b' ∧ text_bytes b' = text_bytes b
  ∧ taken = negb (is_exhausted b) ∧ nodes b' = nodes b + Z.b2z taken.
Proof.
  unfold take_node, is_exhausted, budget_ok. intros Hb. destruct (Z.leb_spec MAX_NODES (nodes b)); intros [= <- <-]; simpl.
  all: split_and!; lia || done.
Qed.

Lemma literal_bounded_spec text b c b' :
  budget_ok b → literal_bounded text b = (c, b') →
  budget_ok b' ∧ nodes b' = nodes b ∧ ∃ s, c = literal s ∧ text_bytes b' = text_bytes b + Z.of_nat (String.length s).
Proof.
  unfold literal_bounded, take_text, saturating_add, budget_ok. intros Hb.
  destruct (Z.ltb_spec MAX_TEXT_BYTES (Z.min (2 ^ 64 - 1) (text_bytes b + Z.of_nat (String.length text)))) as [|Hfit];
    intros [= <- <-]; simpl.
  - split_and!; try lia. exists EmptyString. simpl. split; [done|lia].
  - unfold MAX_TEXT_BYTES in *. split_and!; try lia. by exists text.
Qed.

Definition charges_bytes (x : Z) (b b' : Budget) : Prop :=
  budget_ok b → budget_ok b' ∧ text_bytes b' = text_bytes b + x.

Lemma charges_bytes_none b : charges_bytes 0 b b.
Proof. intros ?. split; [done|lia]. Qed.

Lemma charges_bytes_add x y b1 b2 b3 : charges_bytes x b1 b2 → charges_bytes y b2 b3 → charges_bytes (x + y) b1 b3.
Proof. intros H1 H2 Hb. destruct (H1 Hb) as [Hb2 ?]. destruct (H2 Hb2). split; [done|lia]. Qed.

#[local] Hint Resolve charges_bytes_none charges_bytes_add : core.

Lemma parse_content_bytes rec v depth b c b' :
  (∀ x d b c b', (nbt_depth x < nbt_depth v)%nat → rec x d b = (c, b') → charges_bytes (literal_bytes c) b b') →
  parse_content rec v depth b = (c, b') → charges_bytes (literal_bytes c) b b'.
Proof.
  intros Hr Hc. unfold parse_content in Hc.
  assert (∀ text, literal_bounded text b = (c, b') → charges_bytes (literal_bytes c) b b') as Hlit.
  { intros text Hl Hb. apply literal_bounded_spec in Hl as (? & ? & s & -> & ?); [|done]. split; [done|].
    unfold literal_bytes. by rewrite weigh_literal. }
  assert (∀ raw, (mkText (UnknownContent raw) style_default [], b) = (c, b') → charges_bytes (literal_bytes c) b b') as Hun.
  { intros raw [= <- <-]. apply charges_bytes_none. }
  assert (∀ key, (let '(args, b) := match list_field v "with" with Some items => parse_list rec items depth b | None => ([], b) end in
    (mkText (Translate key args) style_default [], b)) = (c, b') → charges_bytes (literal_bytes c) b b') as Htr.
  { intros key. destruct (list_field v "with") as [items|] eqn:Hf; [|intros [= <- <-]; apply charges_bytes_none].
    destruct (parse_list rec items depth b) as [args b1] eqn:Ha. intros [= <- <-].
    apply (parse_list_charge literal_weight _ charges_bytes_none charges_bytes_add) in Ha.
    - unfold literal_bytes. simpl. by rewrite !Z.add_0_r.
    - intros i b2 c2 b2' Hi _. apply Hr. pose proof (list_field_nested _ _ _ _ Hf Hi). lia. }
  repeat case_match; eauto.
Qed.

Lemma parse_bytes fuel v depth b c b' : parse fuel v depth b = (c, b') → charges_bytes (literal_bytes c) b b'.
Proof.
  revert v depth b c b'. induction fuel as [|fuel IH]; intros v depth b c b'; simpl; [intros [= <- <-]; apply charges_bytes_none|].
  destruct (MAX_DEPTH <? depth); [intros [= <- <-]; apply charges_bytes_none|].
  destruct (take_node b) as [taken b1] eqn:Ht. intros Hp Hb. apply take_node_spec in Ht as (Hb1 & <- & _); [|done].
  enough (charges_bytes (literal_bytes c) b1 b') by eauto. clear b Hb Hb1.
  destruct taken; simpl in Hp; [|simplify_eq; apply charges_bytes_none].
  destruct v as [| | | | | | |text|t items|entries| |]; try (simplify_eq; apply charges_bytes_none).
  - intros Hb. apply literal_bounded_spec in Hp as (? & ? & s & -> & ?); [|done]. split; [done|].
    unfold literal_bytes. by rewrite weigh_literal.
  - destruct items as [|i items]; [simplify_eq; apply charges_bytes_none|].
    destruct (parse fuel i (depth + 1) b1) as [c1 b2] eqn:Hc1.
    destruct (parse_siblings (parse fuel) items (depth + 1) b2) as [more b3] eqn:Hm. simplify_eq.
    unfold literal_bytes. rewrite weigh_append. eapply charges_bytes_add; [by eapply IH|].
    eapply (parse_siblings_charge literal_weight _ charges_bytes_none charges_bytes_add) in Hm; [done|]. eauto.
  - apply (parse_compound_split literal_weight) in Hp
      as (c1 & b2 & o & b3 & extra & Hc & Ho & Hl & Hw).
    destruct (parse_content_plain _ _ _ _ _ _ Hc) as [He Hs]. unfold literal_bytes. rewrite Hw by done.
    eapply charges_bytes_add; [eapply charges_bytes_add|].
    + eapply parse_content_bytes in Hc; eauto.
    + eapply (parse_hover_charge literal_weight _ charges_bytes_none) in Ho; [done|]. eauto.
    + destruct (list_field _ _) as [items|]; [|simplify_eq; apply charges_bytes_none].
      eapply (parse_list_charge literal_weight _ charges_bytes_none charges_bytes_add) in Hl; [done|]. eauto.
Qed.

(** ** Component arrays

    A list in the place of a component is an array of components; its loop
    does not look at the node budget. *)

Definition is_list (v : Nbt) : bool := match v with NbtList _ _ => true | _ => false end.

(** No list holds a list, and no hover event shows one. *)
Fixpoint no_arrays (v : Nbt) : bool :=
  match v with
  | NbtList _ items => forallb (λ i, negb (is_list i) && no_arrays i) items
  | NbtCompound entries =>
      forallb (λ '(k, v), negb (is_list v && bool_decide (k ∈ ["contents"; "value"])) && no_arrays v) entries
  | _ => true
  end.

Lemma nbt_get_no_arrays v name x :
  no_arrays v = true → nbt_get v name = Some x →
  no_arrays x = true ∧ (name ∈ ["contents"; "value"] → is_list x = false).
Proof.
  destruct v as [| | | | | | | | |entries| |]; try done. simpl. rewrite forallb_forall.
  intros Hall ([k x'] & Hf & Hx)%fmap_Some. simpl in Hx. subst x'. apply find_some in Hf as [Hin Hk].
  apply bool_decide_eq_true in Hk. simpl in Hk. subst k. apply Hall in Hin.
  apply andb_true_iff in Hin as [Hl ?]. split; [done|]. intros Hn. rewrite (bool_decide_eq_true_2 _ Hn), andb_true_r in Hl.
  by apply negb_true_iff in Hl.
Qed.

Lemma event_field_no_arrays v camel snake x :
  no_arrays v = true → event_field v camel snake = Some x →
  no_arrays x = true ∧ (camel ∈ ["contents"; "value"] → snake ∈ ["contents"; "value"] → is_list x = false).
Proof.
  intros Hv. unfold event_field. destruct (nbt_get v camel) eqn:Hg; [intros [= <-]|intros Hg'].
  - destruct (nbt_get_no_arrays _ _ _ Hv Hg). eauto.
  - destruct (nbt_get_no_arrays _ _ _ Hv Hg'). eauto.
Qed.

Lemma list_field_no_arrays v name items i :
  no_arrays v = true → list_field v name = Some items → i ∈ items → no_arrays i = true ∧ is_list i = false.
Proof.
  unfold list_field. destruct (nbt_get v name) as [[| | | | | | | |t l| | |]|] eqn:Hg; try done.
  intros Hv [= ->] Hi%list_elem_of_In. eapply nbt_get_no_arrays in Hg as [Hl _]; [|done]. simpl in Hl.
  rewrite forallb_forall in Hl. apply Hl, andb_true_iff in Hi as [?%negb_true_iff ?]. done.
Qed.

(** [slack] components are not paid for. *)
Definition charges_nodes (slack : Z) (x : Z) (b b' : Budget) : Prop :=
  budget_ok b → budget_ok b' ∧ nodes b ≤ nodes b' ∧ x ≤ 2 * (nodes b' - nodes b) + slack.

Lemma charges_nodes_none slack b : 0 ≤ slack → charges_nodes slack 0 b b.
Proof. intros ??. split; [done|lia]. Qed.

Lemma charges_nodes_add s1 s2 x y b1 b2 b3 :
  charges_nodes s1 x b1 b2 → charges_nodes s2 y b2 b3 → charges_nodes (s1 + s2) (x + y) b1 b3.
Proof. intros H1 H2 Hb. destruct (H1 Hb) as (Hb2 & ? & ?). destruct (H2 Hb2) as (? & ? & ?). split; [done|lia]. Qed.

Lemma parse_list_nodes rec items depth b cs b' :
  (∀ i b c b', i ∈ items → is_exhausted b = false → rec i (depth + 1) b = (c, b') → charges_nodes 0 (components c) b b') →
  parse_list rec items depth b = (cs, b') → charges_nodes 0 (weigh_all (λ _, 1) cs) b b'.
Proof.
  apply parse_list_charge; [intros; by apply charges_nodes_none|].
  intros x y b1 b2 b3. apply (charges_nodes_add 0 0).
Qed.

Lemma parse_content_nodes rec v depth b c b' :
  (∀ name items i b c b', list_field v name = Some items → i ∈ items → is_exhausted b = false →
    rec i (depth + 1) b = (c, b') → charges_nodes 0 (components c) b b') →
  parse_content rec v depth b = (c, b') → charges_nodes 1 (components c) b b'.
Proof.
  intros Hr Hc. unfold parse_content in Hc.
  assert (∀ text, literal_bounded text b = (c, b') → charges_nodes 1 (components c) b b') as Hlit.
  { intros text Hl Hb. apply literal_bounded_spec in Hl as (? & ? & s & -> & ?); [|done]. split; [done|].
    unfold components. rewrite weigh_literal. lia. }
  assert (∀ raw, (mkText (UnknownContent raw) style_default [], b) = (c, b') → charges_nodes 1 (components c) b b') as Hun.
  { intros raw [= <- <-] Hb. split; [done|]. unfold components. simpl. lia. }
  assert (∀ key, (let '(args, b) := match list_field v "with" with Some items => parse_list rec items depth b | None => ([], b) end in
    (mkText (Translate key args) style_default [], b)) = (c, b') → charges_nodes 1 (components c) b b') as Htr.
  { intros key. destruct (list_field v "with") as [items|] eqn:Hf; [|intros [= <- <-] Hb; split; [done|unfold components; simpl; lia]].
    destruct (parse_list rec items depth b) as [args b1] eqn:Ha. intros [= <- <-] Hb.
    apply parse_list_nodes in Ha; [|eauto]. destruct (Ha Hb) as (? & ? & ?). split; [done|].
    unfold components, weigh_all in *. simpl in *. lia. }
  repeat case_match; eauto.
Qed.

Lemma parse_nodes fuel v depth b c b' :
  (nbt_depth v < fuel)%nat → 0 ≤ depth → depth + Z.of_nat (nbt_depth v) ≤ MAX_DEPTH → is_list v = false → no_arrays v = true →
  budget_ok b → parse fuel v depth b = (c, b') →
  budget_ok b' ∧ (if is_exhausted b then b' = b ∧ components c = 1
                  else nodes b < nodes b' ∧ components c ≤ 2 * (nodes b' - nodes b)).
Proof.
  revert v depth b c b'. induction fuel as [|fuel IH]; intros v depth b c b' Hf Hd0 Hd Hl Ha Hb; [lia|]. simpl.
  rewrite (proj2 (Z.ltb_ge _ _)) by lia. unfold take_node. destruct (is_exhausted b) eqn:Hex; simpl.
  { intros [= <- <-]. done. }
  set (b1 := mkBudget (nodes b + 1) (text_bytes b)).
  assert (budget_ok b1) as Hb1.
  { unfold budget_ok, is_exhausted, b1 in *. apply Z.leb_gt in Hex. simpl. lia. }
  assert (∀ s b2, budget_ok b2 → nodes b2 = nodes b1 → (literal s, b2) = (c, b') →
    budget_ok b' ∧ nodes b < nodes b' ∧ components c ≤ 2 * (nodes b' - nodes b)) as Hlit.
  { intros s b2 Hb2 Hn [= <- <-]. split; [done|]. unfold components. rewrite weigh_literal, Hn. simpl. lia. }
  destruct v as [| | | | | | |text|t items|entries| |]; try done; try (by apply Hlit).
  { intros Hp. pose proof Hp as (? & Hn & s & -> & _)%literal_bounded_spec; [|done]. by eapply Hlit. }
  set (v := NbtCompound entries) in *.
  assert (∀ name items i b c b', list_field v name = Some items → i ∈ items → is_exhausted b = false →
    parse fuel i (depth + 1) b = (c, b') → charges_nodes 0 (components c) b b') as Hitem.
  { intros name items i b2 c2 b2' Hli Hi Hne Hp Hb2. pose proof (list_field_nested _ _ _ _ Hli Hi).
    destruct (list_field_no_arrays _ _ _ _ Ha Hli Hi). apply IH in Hp; [|lia..|done|done|done].
    rewrite Hne in Hp. destruct Hp. split; [done|lia]. }
  intros (c1 & b2 & o & b3 & extra & Hc & Ho & He & Hw)%(parse_compound_split (λ _, 1)).
  destruct (parse_content_plain _ _ _ _ _ _ Hc) as [Hp1 Hp2].
  apply parse_content_nodes in Hc; [|done]. destruct (Hc Hb1) as (Hb2 & ? & ?).
  apply (parse_hover_charge (λ _, 1) (charges_nodes 1)) in Ho; [|intros; by apply charges_nodes_none|].
  2: { intros event x b4 c4 b4' Hev Hx Hp Hb4. destruct (event_field_no_arrays _ _ _ _ Ha Hev) as [Hna _].
       destruct (event_field_no_arrays _ _ _ _ Hna Hx) as [Hnx Hlx].
       apply event_field_nested in Hev, Hx. apply IH in Hp; [|lia..|apply Hlx; set_solver|done|done].
       destruct (is_exhausted b4); destruct Hp as (? & ? & ?); subst; (split; [done|]); unfold components in *; lia. }
  destruct (Ho Hb2) as (Hb3 & ? & ?).
  assert (charges_nodes 0 (weigh_all (λ _, 1) extra) b3 b') as Hx.
  { destruct (list_field v "extra") eqn:Hli; [|simplify_eq; by apply charges_nodes_none].
    eapply parse_list_nodes in He; [done|]. eauto. }
  destruct (Hx Hb3) as (? & ? & ?). unfold components in *. rewrite Hw by done. change (nodes b1) with (nodes b + 1) in *.
  split; [done|lia].
Qed.

(** C23. However hostile a component is, whatever its depth and wherever
    component arrays stand in it, its tree keeps at most [MAX_TEXT_BYTES]
    bytes of literal text, hover text included. When it is also no deeper
    than what the NBT decoder returns (64) and has no component arrays, it has
    at most two components per node of the budget (a hover text is created
    even when the budget is spent); with component arrays no such bound holds
    ([component_array_unbounded]). *)
Theorem text_budget_respected v :
  literal_bytes (from_nbt v) ≤ MAX_TEXT_BYTES
  ∧ ((nbt_depth v ≤ 64)%nat → is_list v = false → no_arrays v = true → components (from_nbt v) ≤ 2 * MAX_NODES).
Proof.
  unfold from_nbt. destruct (parse _ v 0 budget_default) as [c b] eqn:Hp. simpl.
  assert (budget_ok budget_default) as Hb by (by vm_compute). split.
  - destruct (parse_bytes _ _ _ _ _ _ Hp Hb) as [Hb' Hbytes]. simpl in Hbytes. unfold budget_ok in Hb'. lia.
  - intros Hd Hl Ha. apply parse_nodes in Hp as (Hb' & _ & Hn); [|unfold MAX_DEPTH; lia..|done|done|done].
    simpl in Hn. unfold budget_ok in Hb'. lia.
Qed.

Lemma parse_string_component fuel depth b : components (parse (S fuel) (NbtString "") depth b).1 = 1.
Proof.
  unfold components. simpl. destruct (MAX_DEPTH <? depth); [done|]. destruct (take_node b) as [[] b1]; [|done]. simpl.
  unfold literal_bounded. by destruct (take_text _ b1) as [[] ?].
Qed.

Lemma parse_siblings_strings fuel depth n b :
  weigh_all (λ _, 1) (parse_siblings (parse (S fuel)) (replicate n (NbtString "")) depth b).1 = Z.of_nat n.
Proof.
  revert b. induction n as [|n IH]; intros b; [done|]. cbn [replicate parse_siblings].
  pose proof (parse_string_component fuel depth b) as Hc. destruct (parse (S fuel) (NbtString "") depth b) as [c b1].
  specialize (IH b1). destruct (parse_siblings _ _ _ b1) as [out b2]. simpl fst in *. rewrite weigh_all_cons.
  unfold components in Hc. lia.
Qed.

Lemma parse_array fuel t i items depth b :
  depth ≤ MAX_DEPTH → is_exhausted b = false →
  parse (S fuel) (NbtList t (i :: items)) depth b
  = let '(component, b) := parse fuel i (depth + 1) (mkBudget (nodes b + 1) (text_bytes b)) in
    let '(more, b) := parse_siblings (parse fuel) items (depth + 1) b in
    (set_extra (extra_of component ++ more) component, b).
Proof. intros Hd He. simpl. rewrite (proj2 (Z.ltb_ge _ _)) by lia. unfold take_node. by rewrite He. Qed.

(** A component array escapes the node budget: an array of [n + 1] empty
    strings becomes [n + 1] components, however large [n] is. *)
Theorem component_array_unbounded n :
  components (from_nbt (NbtList 8 (replicate (S n) (NbtString "")))) = Z.of_nat (S n).
Proof.
  unfold from_nbt. assert (nbt_depth (NbtList 8 (replicate (S n) (NbtString ""))) = 1%nat) as ->.
  { induction n as [|n IH]; [done|]. simpl in *. lia. }
  cbn [replicate]. rewrite parse_array; [|done|done]. cbn [nodes text_bytes budget_default]. change (0 + 1) with 1.
  pose proof (parse_string_component 0 1 (mkBudget 1 0)) as Hc.
  destruct (parse 1 (NbtString "") 1 (mkBudget 1 0)) as [c b1].
  pose proof (parse_siblings_strings 0 1 n b1) as Hs.
  destruct (parse_siblings _ _ _ b1) as [more b2]. cbn [fst] in *. unfold components in *. rewrite weigh_append. lia.
Qed.

(** ** Rendering *)

Lemma string_app_nil_r (s : string) : (s ++ "" = s)%string.
Proof. induction s as [|c s IH]; [done|]. exact (f_equal (String c) IH). Qed.

Lemma string_app_assoc (s1 s2 s3 : string) : (s1 ++ (s2 ++ s3) = (s1 ++ s2) ++ s3)%string.
Proof. induction s1 as [|c s1 IH]; [done|]. exact (f_equal (String c) IH). Qed.

Lemma substitute_loop_app fuel s args n out :
  substitute_loop fuel s args n out = (out ++ substitute_loop fuel s args n "")%string.
Proof.
  revert s n out. induction fuel as [|fuel IH]; intros s n out; [by rewrite string_app_nil_r|].
  destruct s as [|c s]; [by rewrite string_app_nil_r|].
  assert (∀ s n x, substitute_loop fuel s args n (out ++ x)
    = (out ++ substitute_loop fuel s args n ("" ++ x))%string) as Hstep.
  { intros s' n' x. rewrite IH, (IH s' n' ("" ++ x)%string). rewrite string_app_assoc. done. }
  cbn [substitute_loop]. repeat case_match; apply Hstep.
Qed.

Lemma render_translation_app key args out :
  render_translation key args out = (out ++ render_translation key args "")%string.
Proof.
  unfold render_translation, substitute_placeholders. destruct (translation_template key); [apply substitute_loop_app|].
  by destruct args.
Qed.

(** Induction through the siblings. *)
Fixpoint siblings_ind (P : TextComponent J → Prop)
    (Hstep : ∀ content style extra, Forall P extra → P (mkText content style extra)) (c : TextComponent J) : P c.
Proof.
  destruct c as [content style extra]. apply Hstep.
  induction extra as [|child extra IH]; constructor; [apply siblings_ind, Hstep|exact IH].
Defined.

Definition own_text (t : Content J) : string :=
  match t with
  | Literal text => text
  | Translate key args => render_translation key (map plain_text args) ""
  | UnknownContent _ => ""
  end.

Fixpoint concat_text (l : list string) : string :=
  match l with [] => "" | s :: l => s ++ concat_text l end%string.

Lemma render_own content style extra out :
  render_plain (mkText content style extra) out
  = fold_left (λ out child, render_plain child out) extra (out ++ own_text content)%string.
Proof.
  cbn [render_plain]. destruct content; simpl; [done| |by rewrite string_app_nil_r]. by rewrite render_translation_app.
Qed.

(** Rendering appends to its output, whatever is in it. *)
Lemma render_plain_app c : ∀ out, render_plain c out = (out ++ plain_text c)%string.
Proof.
  induction c as [content style extra IH] using siblings_ind. intros out. unfold plain_text. rewrite !render_own.
  generalize (own_text content) as own. intros own.
  revert own. induction IH as [|child extra Hchild _ IH]; intros own; simpl; [done|].
  rewrite Hchild, (Hchild (_ ++ own)%string), <- !string_app_assoc. by rewrite IH.
Qed.

(** The plain text of a component is its own text followed by that of its
    siblings in order. *)
Theorem plain_text_eq content style extra :
  plain_text (mkText content style extra) = (own_text content ++ concat_text (map plain_text extra))%string.
Proof.
  unfold plain_text at 1. rewrite render_own. generalize (own_text content) as own.
  induction extra as [|child extra IH]; intros own; simpl; [by rewrite !string_app_nil_r|].
  by rewrite render_plain_app, <- string_app_assoc, IH, string_app_assoc.
Qed.
End text.

(** A chat line as the server announces it. *)
Example chat_renders sender text :
  plain_text (J:=unit) (mkText (Translate "chat.type.text" [literal sender; literal text]) style_default [])
  = ("<" ++ sender ++ "> " ++ text)%string.
Proof.
  rewrite plain_text_eq. cbn [map concat_text own_text]. rewrite string_app_nil_r.
  assert (∀ s, plain_text (J:=unit) (literal s) = s) as Hl by (intros s; unfold literal; rewrite plain_text_eq; apply string_app_nil_r).
  rewrite !Hl. unfold render_translation, substitute_placeholders. change (translation_template "chat.type.text") with (Some "<%s> %s"%string).
  cbn -[String.append]. change (arg_at [sender; text] (0 + 1)) with text.
  change (default _ _) with sender. change "> "%string with (">" ++ " ")%string. by rewrite !string_app_assoc.
Qed.

Lemma text_budget_respected_witness :
  let v := NbtCompound [("text", NbtString "hi");
    ("hoverEvent", NbtCompound [("action", NbtString "show_text"); ("contents", NbtString "tip")]);
    ("extra", NbtList 8 [NbtString "!"])] in
  literal_bytes (J:=unit) (from_nbt v) = 6 ∧ components (J:=unit) (from_nbt v) = 3
  ∧ components (J:=unit) (from_nbt v) ≤ 2 * MAX_NODES.
Proof.
  split_and!; [vm_compute; reflexivity|vm_compute; reflexivity|].
  apply (proj2 (text_budget_respected _)); [vm_compute; lia|reflexivity|reflexivity].
Defined.

(** A component inside [n] hover events, and inside [n] sibling lists. *)
Fixpoint hover_chain (n : nat) (v : Nbt) : Nbt :=
  match n with
  | O => v
  | S n => NbtCompound [("hoverEvent", NbtCompound [("action", NbtString "show_text"); ("contents", hover_chain n v)])]
  end.
Fixpoint extra_chain (n : nat) (v : Nbt) : Nbt :=
  match n with
  | O => v
  | S n => NbtCompound [("text", NbtString ""); ("extra", NbtList 10 [extra_chain n v])]
  end.

(** The depth limit cuts nested siblings but not nested hover events, whose
    text is parsed from depth 0. *)
Example hover_resets_depth :
  literal_bytes (J:=unit) (from_nbt (extra_chain 100 (NbtString "x"))) = 0
  ∧ literal_bytes (J:=unit) (from_nbt (hover_chain 100 (NbtString "x"))) = 1.
Proof. split; vm_compute; reflexivity. Qed.
