(* ===== verification/TextJson.v ===== *)
(** * Text components from JSON

    The [json] half of [src/minecraft/text.rs], used for the login-state
    disconnect reason, and its agreement with the NBT half.  [Value] has the
    documented constructors of [serde_json::Value]; its number type and the
    JSON reader itself belong to that crate and are parameters. *)

From S2P Require Import Prelude Machine Nbt Text.

Local Open Scope Z_scope.

#[local] Unset Elimination Schemes.
Inductive Value (Number : Type) : Type :=
  | VNull
  | VBool (b : bool)
  | VNumber (n : Number)
  | VString (s : string)
  | VArray (items : list (Value Number))
  | VObject (entries : list (string * Value Number)).
#[local] Set Elimination Schemes.
Arguments VNull {Number}.
Arguments VBool {Number} b.
Arguments VNumber {Number} n.
Arguments VString {Number} s.
Arguments VArray {Number} items.
Arguments VObject {Number} entries.

Section json.
(** [Number::as_i64], [Number::as_f64] (as bits). *)
Context {Number : Type} (as_i64 as_f64 : Number → option Z).
Notation JText := (TextComponent (Value Number)).
Implicit Types v : Value Number.

(** [Value::get] with a string key. *)
Definition value_get v (name : string) : option (Value Number) :=
  match v with
  | VObject entries => snd <$> List.find (λ e, bool_decide (e.1 = name)) entries
  | _ => None
  end.

Fixpoint json_to_nbt_lossy v : Nbt :=
  match v with
  | VNull => NbtCompound []
  | VBool b => NbtByte (Z.b2z b)
  | VNumber n =>
      match as_i64 n with
      | Some i => NbtLong i
      | None => match as_f64 n with Some bits => NbtDouble bits | None => NbtLong 0 end
      end
  | VString s => NbtString s
  | VArray items =>
      let items := map json_to_nbt_lossy items in
      NbtList (match items with i :: _ => tag_id i | [] => 8 end) items
  | VObject entries => NbtCompound (map (λ '(k, v), (k, json_to_nbt_lossy v)) entries)
  end.

Definition json_list_field v (name : string) : option (list (Value Number)) :=
  match value_get v name with Some (VArray items) => Some items | _ => None end.

Definition json_string_field v (key : string) : option string :=
  match value_get v key with Some (VString s) => Some s | _ => None end.

Definition json_bool_field v (key : string) : option bool :=
  match value_get v key with Some (VBool b) => Some b | _ => None end.

Definition json_event_field v (camel snake : string) : option (Value Number) :=
  match value_get v camel with Some x => Some x | None => value_get v snake end.

Definition json_parse_click_event v : option ClickEvent :=
  event ← json_event_field v "clickEvent" "click_event";
  action ← json_string_field event "action";
  Some (mkClickEvent action (default "" (json_string_field event "value"))).

Section rec.
Context (rec : Value Number → Z → Budget → JText * Budget).

Fixpoint json_parse_siblings (items : list (Value Number)) (depth : Z) (b : Budget) : list JText * Budget :=
  match items with
  | [] => ([], b)
  | item :: items =>
      let '(c, b) := rec item depth b in
      let '(out, b) := json_parse_siblings items depth b in
      (c :: out, b)
  end.

Fixpoint json_parse_list (items : list (Value Number)) (depth : Z) (b : Budget) : list JText * Budget :=
  match items with
  | [] => ([], b)
  | item :: items =>
      if is_exhausted b then ([], b)
      else
        let '(c, b) := rec item (depth + 1) b in
        let '(out, b) := json_parse_list items depth b in
        (c :: out, b)
  end.

Definition json_parse_hover_event v (b : Budget) : option (HoverEvent (Value Number)) * Budget :=
  match json_event_field v "hoverEvent" "hover_event" with
  | None => (None, b)
  | Some event =>
      match json_string_field event "action" with
      | None => (None, b)
      | Some action =>
          let contents := json_event_field event "contents" "value" in
          let '(text, b) :=
            if bool_decide (action = "show_text") then
              match contents with
              | Some c => let '(t, b) := rec c 0 b in (Some t, b)
              | None => (None, b)
              end
            else (None, b) in
          (Some (mkHover action text (RawJson event)), b)
      end
  end.

Definition json_parse_style v (b : Budget) : Style (Value Number) * Budget :=
  let '(hover, b) := json_parse_hover_event v b in
  (mkStyle (parse_color <$> json_string_field v "color") (json_bool_field v "bold") (json_bool_field v "italic")
     (json_bool_field v "underlined") (json_bool_field v "strikethrough") (json_bool_field v "obfuscated")
     (json_string_field v "insertion") (json_string_field v "font") (json_parse_click_event v) hover, b).

(** The component before its style and siblings are set. *)
Definition json_parse_content v (depth : Z) (b : Budget) : JText * Budget :=
  match value_get v "text" with
  | Some (VString text) => literal_bounded text b
  | _ =>
      match value_get v "translate" with
      | Some (VString key) =>
          let '(args, b) :=
            match json_list_field v "with" with
            | Some items => json_parse_list items depth b
            | None => ([], b)
            end in
          (mkText (Translate key args) style_default [], b)
      | _ => (mkText (UnknownContent (json_to_nbt_lossy v)) style_default [], b)
      end
  end.

Definition json_parse_object v (depth : Z) (b : Budget) : JText * Budget :=
  let '(component, b) := json_parse_content v depth b in
  let '(style, b) := json_parse_style v b in
  let component := set_style style component in
  match json_list_field v "extra" with
  | Some items => let '(extra, b) := json_parse_list items depth b in (set_extra extra component, b)
  | None => (component, b)
  end.
End rec.

Fixpoint json_parse (fuel : nat) v (depth : Z) (b : Budget) : JText * Budget :=
  match fuel with
  | O => (literal "", b)
  | S fuel =>
      if MAX_DEPTH <? depth then (literal "", b)
      else
        let '(taken, b) := take_node b in
        if negb taken then (literal "", b)
        else
          match v with
          | VString text => literal_bounded text b
          | VArray items =>
              match items with
              | [] => (literal "", b)
              | first :: items =>
                  let '(component, b) := json_parse fuel first (depth + 1) b in
                  let '(more, b) := json_parse_siblings (json_parse fuel) items (depth + 1) b in
                  (set_extra (extra_of component ++ more) component, b)
              end
          | VObject _ => json_parse_object (json_parse fuel) v depth b
          | _ => (literal "", b)
          end
  end.

(** Nesting depth, as [nbt_depth]. *)
Fixpoint value_depth v : nat :=
  match v with
  | VArray items => list_max (map (λ i, S (value_depth i)) items)
  | VObject entries => list_max (map (λ '(_, v), S (value_depth v)) entries)
  | _ => 0
  end.

Definition from_json_value v : JText := (json_parse (S (value_depth v)) v 0 budget_default).1.

(** [from_str] is [serde_json::from_str::<Value>], [None] its error. *)
Definition from_json_str (from_str : string → option (Value Number)) (json : string) : JText :=
  match from_str json with
  | Some value => from_json_value value
  | None => literal json
  end.

(** ** Agreement with the NBT parser

    [as_nbt] replaces the raw JSON kept in hover events by its NBT form. *)

Fixpoint as_nbt (c : JText) : JText :=
  match c with
  | mkText content style extra => mkText (as_nbt_content content) (as_nbt_style style) (map as_nbt extra)
  end
with as_nbt_content (t : Content (Value Number)) : Content (Value Number) :=
  match t with
  | Literal text => Literal text
  | Translate key args => Translate key (map as_nbt args)
  | UnknownContent raw => UnknownContent raw
  end
with as_nbt_style (s : Style (Value Number)) : Style (Value Number) :=
  match s with
  | mkStyle c bo it un st ob ins f cl hover =>
      mkStyle c bo it un st ob ins f cl (match hover with Some h => Some (as_nbt_hover h) | None => None end)
  end
with as_nbt_hover (h : HoverEvent (Value Number)) : HoverEvent (Value Number) :=
  match h with
  | mkHover action text raw =>
      mkHover action (match text with Some t => Some (as_nbt t) | None => None end)
        (RawNbt (match raw with RawNbt v => v | RawJson v => json_to_nbt_lossy v end))
  end.

Fixpoint no_null v : bool :=
  match v with
  | VNull => false
  | VArray items => forallb no_null items
  | VObject entries => forallb (λ '(_, v), no_null v) entries
  | _ => true
  end.

Notation nbt := json_to_nbt_lossy.

Lemma lossy_get v name : nbt_get (nbt v) name = nbt <$> value_get v name.
Proof.
  destruct v as [|b|n|s|items|entries]; simpl; try done.
  - by destruct (as_i64 n), (as_f64 n).
  - induction entries as [|[k v] entries IH]; simpl; [done|]. by case_bool_decide.
Qed.

Lemma lossy_event_field v camel snake :
  event_field (nbt v) camel snake = nbt <$> json_event_field v camel snake.
Proof. unfold event_field, json_event_field. rewrite !lossy_get. by destruct (value_get v camel). Qed.

(** A number is neither a string, a list, a boolean nor a component. *)
Ltac number_case n := destruct (as_i64 n), (as_f64 n).

Lemma lossy_list_field v name : list_field (nbt v) name = map nbt <$> json_list_field v name.
Proof.
  unfold list_field, json_list_field. rewrite lossy_get.
  destruct (value_get v name) as [[|b|n|s|items|entries]|]; simpl; try done. by number_case n.
Qed.

Lemma lossy_string_field v name : string_field (nbt v) name = json_string_field v name.
Proof.
  unfold string_field, json_string_field. rewrite lossy_get.
  destruct (value_get v name) as [[|b|n|s|items|entries]|]; simpl; try done. by number_case n.
Qed.

Lemma lossy_bool_field v name : bool_field (nbt v) name = json_bool_field v name.
Proof.
  unfold bool_field, json_bool_field. rewrite lossy_get.
  destruct (value_get v name) as [[|[]|n|s|items|entries]|]; simpl; try done. by number_case n.
Qed.

Lemma lossy_click_event v : parse_click_event (nbt v) = json_parse_click_event v.
Proof.
  unfold parse_click_event, json_parse_click_event. rewrite lossy_event_field.
  destruct (json_event_field v _ _) as [event|]; simpl; [|done]. by rewrite !lossy_string_field.
Qed.

Lemma value_get_no_null v name x : no_null v = true → value_get v name = Some x → no_null x = true.
Proof.
  destruct v as [|b|n|s|items|entries]; try done. simpl. rewrite forallb_forall.
  intros Hall ([k x'] & Hf & Hx)%fmap_Some. simpl in Hx. subst x'. apply find_some in Hf as [Hin _]. by apply Hall in Hin.
Qed.

Lemma json_event_field_no_null v camel snake x :
  no_null v = true → json_event_field v camel snake = Some x → no_null x = true.
Proof.
  intros Hv. unfold json_event_field. destruct (value_get v camel) eqn:Hg; [intros [= <-]|]; by eapply value_get_no_null.
Qed.

Lemma json_list_field_no_null v name items :
  no_null v = true → json_list_field v name = Some items → Forall (λ i, no_null i = true) items.
Proof.
  intros Hv. unfold json_list_field. destruct (value_get v name) as [[|b|n|s|l|entries]|] eqn:Hg; try done.
  intros [= ->]. eapply value_get_no_null in Hg; [|done]. simpl in Hg.
  rewrite forallb_forall in Hg. apply Forall_forall. intros i Hi%list_elem_of_In. by apply Hg.
Qed.

Lemma lossy_depth v : nbt_depth (nbt v) = value_depth v.
Proof.
  revert v. fix IH 1. intros [|b|n|s|items|entries]; simpl; try done.
  - by number_case n.
  - rewrite map_map. f_equal. induction items as [|i items IHi]; simpl; [done|]. by rewrite IH, IHi.
  - rewrite map_map. f_equal. induction entries as [|[k i] entries IHi]; simpl; [done|]. by rewrite IH, IHi.
Qed.

(** The two parsers agree on a value: same budget left, same tree. *)
Definition agree {A B} (f : A → B) (p : A * Budget) (q : B * Budget) : Prop := q = (f p.1, p.2).

Section agree.
Context (jrec : Value Number → Z → Budget → JText * Budget) (nrec : Nbt → Z → Budget → JText * Budget).
Hypothesis Hrec : ∀ v d b, no_null v = true → agree as_nbt (jrec v d b) (nrec (nbt v) d b).

Lemma siblings_agree items depth b :
  Forall (λ i, no_null i = true) items →
  agree (map as_nbt) (json_parse_siblings jrec items depth b) (parse_siblings nrec (map nbt items) depth b).
Proof.
  intros Hi. revert b. induction Hi as [|i items Hi _ IH]; intros b; simpl; [done|]. rewrite (Hrec i) by done.
  destruct (jrec i depth b) as [c b1]. simpl. rewrite (IH b1). by destruct (json_parse_siblings jrec items depth b1).
Qed.

Lemma list_agree items depth b :
  Forall (λ i, no_null i = true) items →
  agree (map as_nbt) (json_parse_list jrec items depth b) (parse_list nrec (map nbt items) depth b).
Proof.
  intros Hi. revert b. induction Hi as [|i items Hi _ IH]; intros b; simpl; [done|]. destruct (is_exhausted b); [done|].
  rewrite (Hrec i) by done. destruct (jrec i (depth + 1) b) as [c b1]. simpl. rewrite (IH b1).
  by destruct (json_parse_list jrec items depth b1).
Qed.

Lemma list_field_agree v name depth b :
  no_null v = true →
  agree (map as_nbt)
    (match json_list_field v name with Some items => json_parse_list jrec items depth b | None => ([], b) end)
    (match list_field (nbt v) name with Some items => parse_list nrec items depth b | None => ([], b) end).
Proof.
  intros Hv. rewrite lossy_list_field. destruct (json_list_field v name) as [items|] eqn:Hf; [|done].
  eapply list_agree, json_list_field_no_null; done.
Qed.

Lemma hover_agree v b :
  no_null v = true →
  agree (fmap as_nbt_hover) (json_parse_hover_event jrec v b) (parse_hover_event nrec (nbt v) b).
Proof.
  intros Hv. unfold json_parse_hover_event, parse_hover_event. rewrite lossy_event_field.
  destruct (json_event_field v _ _) as [event|] eqn:He; simpl; [|done]. rewrite lossy_string_field.
  destruct (json_string_field event "action") as [action|]; [|done]. case_bool_decide; [|done].
  rewrite lossy_event_field. destruct (json_event_field event _ _) as [c|] eqn:Hc; simpl; [|done].
  rewrite (Hrec c). { by destruct (jrec c 0 b). }
  eapply json_event_field_no_null; [|done]. by eapply json_event_field_no_null.
Qed.

Lemma style_agree v b :
  no_null v = true → agree as_nbt_style (json_parse_style jrec v b) (parse_style nrec (nbt v) b).
Proof.
  intros Hv. unfold json_parse_style, parse_style. rewrite hover_agree by done.
  rewrite !lossy_string_field, !lossy_bool_field, lossy_click_event.
  by destruct (json_parse_hover_event jrec v b) as [[h|] b1].
Qed.

Lemma literal_bounded_agree text b : agree as_nbt (literal_bounded text b) (literal_bounded text b).
Proof. unfold literal_bounded. by destruct (take_text _ b) as [[] b1]. Qed.

Lemma content_agree v depth b :
  no_null v = true → agree as_nbt (json_parse_content jrec v depth b) (parse_content nrec (nbt v) depth b).
Proof.
  intros Hv. unfold json_parse_content, parse_content. rewrite !lossy_get.
  pose proof (list_field_agree v "with" depth b Hv) as Hl. unfold agree in Hl. rewrite Hl. clear Hl.
  destruct (match json_list_field v "with" with Some _ => _ | None => _ end) as [args b1].
  destruct (value_get v "text") as [[|?|n|s|?|?]|]; simpl; try apply literal_bounded_agree;
    try number_case n; destruct (value_get v "translate") as [[|?|n'|s'|?|?]|]; simpl; try done; by number_case n'.
Qed.

Lemma object_agree v depth b :
  no_null v = true → agree as_nbt (json_parse_object jrec v depth b) (parse_compound nrec (nbt v) depth b).
Proof.
  intros Hv. unfold json_parse_object, parse_compound. rewrite content_agree by done.
  destruct (json_parse_content jrec v depth b) as [c b1]. simpl. rewrite style_agree by done.
  destruct (json_parse_style jrec v b1) as [st b2]. simpl.
  pose proof (list_field_agree v "extra" depth b2 Hv) as Hl. unfold agree in Hl. rewrite lossy_list_field in *.
  destruct c as [t s e]. destruct (json_list_field v "extra") as [items|]; simpl in *; [|done]. rewrite Hl.
  by destruct (json_parse_list jrec items depth b2).
Qed.
End agree.

Lemma parse_agree fuel v depth b :
  no_null v = true → agree as_nbt (json_parse fuel v depth b) (parse fuel (nbt v) depth b).
Proof.
  revert v depth b. induction fuel as [|fuel IH]; intros v depth b Hv; [done|]. simpl.
  destruct (MAX_DEPTH <? depth); [done|]. destruct (take_node b) as [[] b1]; simpl; [|done].
  destruct v as [|bo|n|s|items|entries]; simpl; try done.
  - by number_case n.
  - apply literal_bounded_agree.
  - destruct items as [|i items]; simpl; [done|]. cbn [no_null forallb] in Hv. apply andb_true_iff in Hv as [Hi Hitems].
    rewrite IH by done. destruct (json_parse fuel i (depth + 1) b1) as [c b2]. simpl.
    rewrite (siblings_agree (json_parse fuel)); [|done|].
    + destruct (json_parse_siblings _ items (depth + 1) b2) as [more b3]. destruct c as [t s e]. unfold agree. simpl.
      by rewrite map_app.
    + rewrite forallb_forall in Hitems. apply Forall_forall. intros j Hj%list_elem_of_In. by apply Hitems.
  - by apply (object_agree (json_parse fuel) (parse fuel) IH (VObject entries)).
Qed.

(** C22. The JSON parser and the NBT parser are one parser: on a JSON value
    without [null], parsing it gives the tree that parsing its NBT form
    gives, up to the encoding kept in raw hover events.  (A [null] becomes an
    empty text in one and an unknown component in the other.) *)
Theorem json_matches_nbt v :
  no_null v = true → as_nbt (from_json_value v) = from_nbt (nbt v).
Proof.
  intros Hv. unfold from_json_value, from_nbt. rewrite lossy_depth.
  by rewrite (parse_agree _ v 0 budget_default Hv).
Qed.
End json.

(** A kick reason with every kind of value, numbers as integers. *)
Definition reason : Value Z :=
  VObject [("text", VString "kicked"); ("bold", VBool true); ("count", VNumber 3);
    ("hover_event", VObject [("action", VString "show_text"); ("value", VArray [VString "a"; VString "b"])]);
    ("extra", VArray [VString "!"; VObject [("translate", VString "chat.type.text"); ("with", VArray [VString "x"])]])].

Lemma json_matches_nbt_witness :
  literal_bytes (from_json_value Some (λ _, None) reason) = 10
  ∧ as_nbt Some (λ _, None) (from_json_value Some (λ _, None) reason)
    = from_nbt (json_to_nbt_lossy Some (λ _, None) reason).
Proof. split; [vm_compute; reflexivity|]. apply json_matches_nbt. vm_compute. reflexivity. Defined.

Example null_differs :
  as_nbt Some (λ _, None) (from_json_value Some (λ _, None) (VNull : Value Z)) = literal ""
  ∧ content_of (from_nbt (J:=Value Z) (json_to_nbt_lossy Some (λ _, None) (VNull : Value Z)))
    = UnknownContent (NbtCompound []).
Proof. split; vm_compute; reflexivity. Qed.
