(* ===== verification/Entity.v ===== *)
(** * Tracked entities

    [src/minecraft/entity.rs]: the table of entities other than the own
    player, kept from the packets that spawn, move, turn and remove them.
    Positions and angles are floats, carried as their bits. *)

From S2P Require Import Prelude Machine Float Reader Varint Utf8 Buffer Wire Nbt PacketTypes PlayPackets.

Local Open Scope Z_scope.

Definition DELTA_UNIT : Z := d_of_Z 4096.
Definition VELOCITY_UNIT : Z := d_of_Z 8000.

(** [a as f32 * (360.0 / 256.0)] of an [i8]; the quotient is exact. *)
Definition angle_to_degrees (a : Z) : Z := s_mul (s_of_Z a) (s_div (s_of_Z 360) (s_of_Z 256)).

Record Entity : Type := mkEntity {
  e_id : Z;
  e_uuid : Z;
  e_kind : Z;
  e_x : Z;
  e_y : Z;
  e_z : Z;
  e_yaw : Z;
  e_pitch : Z;
  e_head_yaw : Z;
  e_vx : Z;
  e_vy : Z;
  e_vz : Z;
  e_on_ground : bool;
}.

(** [EntityStore]: its one field. *)
Abbreviation EntityStore := (gmap Z Entity).
Definition entity_store_new : EntityStore := ∅.

Definition set_position (x y z : Z) (e : Entity) : Entity :=
  mkEntity (e_id e) (e_uuid e) (e_kind e) x y z (e_yaw e) (e_pitch e) (e_head_yaw e) (e_vx e) (e_vy e) (e_vz e) (e_on_ground e).
Definition set_rotation (yaw pitch : Z) (e : Entity) : Entity :=
  mkEntity (e_id e) (e_uuid e) (e_kind e) (e_x e) (e_y e) (e_z e) yaw pitch (e_head_yaw e) (e_vx e) (e_vy e) (e_vz e) (e_on_ground e).
Definition set_head_yaw (head_yaw : Z) (e : Entity) : Entity :=
  mkEntity (e_id e) (e_uuid e) (e_kind e) (e_x e) (e_y e) (e_z e) (e_yaw e) (e_pitch e) head_yaw (e_vx e) (e_vy e) (e_vz e) (e_on_ground e).
Definition set_velocity (vx vy vz : Z) (e : Entity) : Entity :=
  mkEntity (e_id e) (e_uuid e) (e_kind e) (e_x e) (e_y e) (e_z e) (e_yaw e) (e_pitch e) (e_head_yaw e) vx vy vz (e_on_ground e).
Definition set_on_ground (g : bool) (e : Entity) : Entity :=
  mkEntity (e_id e) (e_uuid e) (e_kind e) (e_x e) (e_y e) (e_z e) (e_yaw e) (e_pitch e) (e_head_yaw e) (e_vx e) (e_vy e) (e_vz e) g.

(** [v as f64 / VELOCITY_UNIT] and [d as f64 / DELTA_UNIT] of an [i16]. *)
Definition velocity_blocks (v : Z) : Z := d_div (d_of_Z v) VELOCITY_UNIT.
Definition delta_blocks (d : Z) : Z := d_div (d_of_Z d) DELTA_UNIT.

Definition spawn (p : PacketSpawnEntity) (s : EntityStore) : EntityStore :=
  let v := PacketSpawnEntity_velocity p in
  <[PacketSpawnEntity_entity_id p := {|
      e_id := PacketSpawnEntity_entity_id p;
      e_uuid := PacketSpawnEntity_object_uuid p;
      e_kind := PacketSpawnEntity_type p;
      e_x := PacketSpawnEntity_x p;
      e_y := PacketSpawnEntity_y p;
      e_z := PacketSpawnEntity_z p;
      e_pitch := angle_to_degrees (PacketSpawnEntity_pitch p);
      e_yaw := angle_to_degrees (PacketSpawnEntity_yaw p);
      e_head_yaw := angle_to_degrees (PacketSpawnEntity_head_pitch p);
      e_vx := velocity_blocks (Vec3i16_x v);
      e_vy := velocity_blocks (Vec3i16_y v);
      e_vz := velocity_blocks (Vec3i16_z v);
      e_on_ground := false;
    |}]> s.

Definition destroy (ids : list Z) (s : EntityStore) : EntityStore := foldl (λ s id, delete id s) s ids.

(** [if let Some(e) = self.entities.get_mut(&id) { ... }]. *)
Definition update_entity (id : Z) (f : Entity → Entity) (s : EntityStore) : EntityStore := alter f id s.

Definition moved_by (dx dy dz : Z) (e : Entity) : Entity :=
  set_position (d_add (e_x e) (delta_blocks dx)) (d_add (e_y e) (delta_blocks dy)) (d_add (e_z e) (delta_blocks dz)) e.

Definition rel_move (p : PacketRelEntityMove) : EntityStore → EntityStore :=
  update_entity (PacketRelEntityMove_entity_id p) (λ e,
    set_on_ground (PacketRelEntityMove_on_ground p)
      (moved_by (PacketRelEntityMove_d_x p) (PacketRelEntityMove_d_y p) (PacketRelEntityMove_d_z p) e)).

Definition move_look (p : PacketEntityMoveLook) : EntityStore → EntityStore :=
  update_entity (PacketEntityMoveLook_entity_id p) (λ e,
    set_on_ground (PacketEntityMoveLook_on_ground p)
      (set_rotation (angle_to_degrees (PacketEntityMoveLook_yaw p)) (angle_to_degrees (PacketEntityMoveLook_pitch p))
        (moved_by (PacketEntityMoveLook_d_x p) (PacketEntityMoveLook_d_y p) (PacketEntityMoveLook_d_z p) e))).

Definition look (p : PacketEntityLook) : EntityStore → EntityStore :=
  update_entity (PacketEntityLook_entity_id p) (λ e,
    set_on_ground (PacketEntityLook_on_ground p)
      (set_rotation (angle_to_degrees (PacketEntityLook_yaw p)) (angle_to_degrees (PacketEntityLook_pitch p)) e)).

Definition teleport (p : PacketEntityTeleport) : EntityStore → EntityStore :=
  update_entity (PacketEntityTeleport_entity_id p) (λ e,
    set_on_ground (PacketEntityTeleport_on_ground p)
      (set_rotation (angle_to_degrees (PacketEntityTeleport_yaw p)) (angle_to_degrees (PacketEntityTeleport_pitch p))
        (set_position (PacketEntityTeleport_x p) (PacketEntityTeleport_y p) (PacketEntityTeleport_z p) e))).

Definition sync_position (p : PacketSyncEntityPosition) : EntityStore → EntityStore :=
  update_entity (PacketSyncEntityPosition_entity_id p) (λ e,
    set_on_ground (PacketSyncEntityPosition_on_ground p)
      (set_rotation (PacketSyncEntityPosition_yaw p) (PacketSyncEntityPosition_pitch p)
        (set_velocity (PacketSyncEntityPosition_dx p) (PacketSyncEntityPosition_dy p) (PacketSyncEntityPosition_dz p)
          (set_position (PacketSyncEntityPosition_x p) (PacketSyncEntityPosition_y p) (PacketSyncEntityPosition_z p) e)))).

Definition velocity (p : PacketEntityVelocity) : EntityStore → EntityStore :=
  let v := PacketEntityVelocity_velocity p in
  update_entity (PacketEntityVelocity_entity_id p)
    (set_velocity (velocity_blocks (Vec3i16_x v)) (velocity_blocks (Vec3i16_y v)) (velocity_blocks (Vec3i16_z v))).

Definition head_rotation (p : PacketEntityHeadRotation) : EntityStore → EntityStore :=
  update_entity (PacketEntityHeadRotation_entity_id p) (set_head_yaw (angle_to_degrees (PacketEntityHeadRotation_head_yaw p))).

(** ** Histories *)

(** The packets [play.rs] hands to the store. *)
Inductive EntityOp : Type :=
  | OpSpawn (p : PacketSpawnEntity)
  | OpDestroy (p : PacketEntityDestroy)
  | OpRelMove (p : PacketRelEntityMove)
  | OpMoveLook (p : PacketEntityMoveLook)
  | OpLook (p : PacketEntityLook)
  | OpTeleport (p : PacketEntityTeleport)
  | OpSyncPosition (p : PacketSyncEntityPosition)
  | OpVelocity (p : PacketEntityVelocity)
  | OpHeadRotation (p : PacketEntityHeadRotation).

Definition entity_op (op : EntityOp) : EntityStore → EntityStore :=
  match op with
  | OpSpawn p => spawn p
  | OpDestroy p => destroy (PacketEntityDestroy_entity_ids p)
  | OpRelMove p => rel_move p
  | OpMoveLook p => move_look p
  | OpLook p => look p
  | OpTeleport p => teleport p
  | OpSyncPosition p => sync_position p
  | OpVelocity p => velocity p
  | OpHeadRotation p => head_rotation p
  end.

Definition entities_run (ops : list EntityOp) : EntityStore := foldl (λ s op, entity_op op s) entity_store_new ops.

(** The reference: the spawn packet that made the entity [id] what it is, if
    it was not removed since. *)
Definition last_spawn (id : Z) (ops : list EntityOp) : option PacketSpawnEntity :=
  foldl (λ last op,
    match op with
    | OpSpawn p => if PacketSpawnEntity_entity_id p =? id then Some p else last
    | OpDestroy p => if bool_decide (id ∈ PacketEntityDestroy_entity_ids p) then None else last
    | _ => last
    end) None ops.

(** What no later packet changes. *)
Definition identity (e : Entity) : Z * Z * Z := (e_id e, e_uuid e, e_kind e).
Definition spawned_identity (p : PacketSpawnEntity) : Z * Z * Z :=
  (PacketSpawnEntity_entity_id p, PacketSpawnEntity_object_uuid p, PacketSpawnEntity_type p).

Lemma destroy_lookup ids s id : destroy ids s !! id = if bool_decide (id ∈ ids) then None else s !! id.
Proof.
  revert s. induction ids as [|i ids IH]; intros s; [by rewrite bool_decide_eq_false_2 by set_solver|].
  simpl. rewrite IH. destruct (decide (id ∈ ids)) as [Hin|Hnin].
  - rewrite !bool_decide_eq_true_2 by set_solver. done.
  - rewrite (bool_decide_eq_false_2 (id ∈ ids)) by done. destruct (decide (i = id)) as [->|Hne].
    + by rewrite lookup_delete_eq, bool_decide_eq_true_2 by set_solver.
    + by rewrite lookup_delete_ne, bool_decide_eq_false_2 by set_solver.
Qed.

Lemma update_entity_identity id f s id' :
  (∀ e, identity (f e) = identity e) → identity <$> update_entity id f s !! id' = identity <$> s !! id'.
Proof.
  intros Hf. unfold update_entity. destruct (decide (id = id')) as [->|Hne]; [|by rewrite lookup_alter_ne].
  rewrite lookup_alter_eq. destruct (s !! id') as [e|]; simpl; [by rewrite Hf|done].
Qed.

(** Entities come and go only by spawn and destroy packets: whatever the
    server sends, an id is tracked exactly when it was spawned and not
    destroyed since, and it keeps the id, uuid and type of its last spawn.
    Movement for an id that is not tracked changes nothing. *)
Theorem entities_tracked ops id :
  identity <$> entities_run ops !! id = spawned_identity <$> last_spawn id ops
  ∧ ∀ op, entities_run ops !! id = None → (∀ p, op ≠ OpSpawn p) → entities_run (ops ++ [op]) !! id = None.
Proof.
  assert (∀ ops, identity <$> entities_run ops !! id = spawned_identity <$> last_spawn id ops) as Hgen.
  { clear ops. intros ops. unfold entities_run, last_spawn. induction ops as [|op ops IH] using rev_ind; [done|].
    rewrite !foldl_app. simpl. set (s := foldl _ entity_store_new ops) in *. set (l := foldl _ None ops) in *.
    destruct op; simpl; rewrite <- ?IH; try by apply update_entity_identity.
    - unfold spawn. destruct (Z.eqb_spec (PacketSpawnEntity_entity_id p) id) as [Heq|Hne].
      + rewrite Heq, lookup_insert_eq. simpl. unfold spawned_identity, identity. simpl. congruence.
      + rewrite lookup_insert_ne by done. exact IH.
    - rewrite destroy_lookup. case_bool_decide; [done|exact IH]. }
  split; [apply Hgen|]. intros op Hnone Hspawn.
  assert (last_spawn id ops = None) as Hl by (specialize (Hgen ops); rewrite Hnone in Hgen; by destruct (last_spawn id ops)).
  specialize (Hgen (ops ++ [op])). unfold last_spawn in Hgen, Hl. rewrite foldl_app in Hgen. simpl in Hgen.
  rewrite Hl in Hgen. destruct (entities_run (ops ++ [op]) !! id); [|done]. destruct op; simpl in Hgen; try done.
  - by destruct (Hspawn p).
  - by case_bool_decide.
Qed.

(** The fixed-point units are exact on the values of the unit tests: 4096
    deltas are one block, a byte angle of 64 a quarter turn and 8000 velocity
    units one block per tick. *)
Example entity_units :
  (delta_blocks 4096, delta_blocks (-8192), delta_blocks 2048) = (d_of_Z 1, d_of_Z (-2), d_lit 5 1)
  ∧ angle_to_degrees 64 = s_of_Z 90 ∧ angle_to_degrees (-128) = s_of_Z (-180)
  ∧ (velocity_blocks 8000, velocity_blocks (-4000)) = (d_of_Z 1, d_lit (-5) 1).
Proof. by vm_compute. Qed.
