(* ===== verification/Players.v ===== *)
(** * The tab list

    [src/minecraft/players.rs]: the players the server reports, from the
    [player_info] and [player_remove] packets.  The generated decoder of
    [player_info], whose fields depend on the action flags, is here; a field
    enum [True(v) | Default] is an option. *)

From S2P Require Import Prelude Machine Reader Varint Utf8 Buffer Wire Nbt PacketTypes PlayPackets Text.

Local Open Scope Z_scope.

(** ** The packet *)

Record PacketPlayerInfoDataItem : Type := mkInfoItem {
  item_uuid : Z;
  item_player : option GameProfile;
  item_chat_session : option (option ChatSessionValue);
  item_gamemode : option Z;
  item_listed : option Z;
  item_latency : option Z;
  item_display_name : option (option Nbt);
  item_list_priority : option Z;
  item_show_hat : option bool;
}.

Record PacketPlayerInfo : Type := mkPlayerInfo {
  info_action : PacketPlayerInfoAction;
  info_data : list PacketPlayerInfoDataItem;
}.

(** [decode_from] of the field enums. *)
Definition decode_when {A} (discriminant : bool) (decode : Read A) : Read (option A) :=
  if discriminant then let* v := decode in ret (Some v) else ret None.

Definition decode_ctx (action : PacketPlayerInfoAction) : Read PacketPlayerInfoDataItem :=
  let has := PacketPlayerInfoAction_contains action in
  let* uuid := decode wire_u128 in
  let* player := decode_when (has PacketPlayerInfoAction_ADD_PLAYER) (decode wire_GameProfile) in
  let* chat_session := decode_when (has PacketPlayerInfoAction_INITIALIZE_CHAT) (decode (wire_Option wire_ChatSessionValue)) in
  let* gamemode := decode_when (has PacketPlayerInfoAction_UPDATE_GAME_MODE) read_varint in
  let* listed := decode_when (has PacketPlayerInfoAction_UPDATE_LISTED) read_varint in
  let* latency := decode_when (has PacketPlayerInfoAction_UPDATE_LATENCY) read_varint in
  let* display_name := decode_when (has PacketPlayerInfoAction_UPDATE_DISPLAY_NAME) (decode (wire_Option wire_Nbt)) in
  let* list_priority := decode_when (has PacketPlayerInfoAction_UPDATE_LIST_ORDER) read_varint in
  let* show_hat := decode_when (has PacketPlayerInfoAction_UPDATE_HAT) (decode wire_bool) in
  ret (mkInfoItem uuid player chat_session gamemode listed latency display_name list_priority show_hat).

Definition decode_player_info : Read PacketPlayerInfo :=
  let* action := decode wire_PacketPlayerInfoAction in
  let* data := read_array (decode_ctx action) in
  ret (mkPlayerInfo action data).

(** ** State *)

Definition MAX_PLAYERS : nat := 4096.

Record PlayerChatSession : Type := mkChatSession {
  session_id : Z;
  expires_at_millis : Z;
  public_key_bytes : Z;
  signature_bytes : Z;
}.

Section players.
Context {J : Type}.

Record PlayerEntry : Type := mkPlayer {
  p_uuid : Z;
  p_name : string;
  p_gamemode : Z;
  p_latency : Z;
  p_listed : bool;
  p_display_name : option (TextComponent J);
  p_list_priority : Z;
  p_show_hat : bool;
  p_chat_session : option PlayerChatSession;
}.

Definition player_entry_default : PlayerEntry := mkPlayer 0 "" 0 0 false None 0 false None.

(** The entry a player is first inserted with. *)
Definition new_entry (uuid : Z) : PlayerEntry :=
  mkPlayer uuid (p_name player_entry_default) (-1) (-1) (p_listed player_entry_default)
    (p_display_name player_entry_default) (p_list_priority player_entry_default) (p_show_hat player_entry_default)
    (p_chat_session player_entry_default).

(** [PlayerList]: its one field. *)
Abbreviation PlayerList := (gmap Z PlayerEntry).

Record PlayerInfoChanges : Type := mkInfoChanges {
  joined : list (Z * string);
  updated : list Z;
  rejected : Z;
}.

Definition chat_session_of (session : ChatSessionValue) : PlayerChatSession :=
  let key := ChatSessionValue_public_key session in
  mkChatSession (ChatSessionValue_uuid session) (ChatSessionValuePublicKey_expire_time key)
    (Z.of_nat (length (ChatSessionValuePublicKey_key_bytes key)))
    (Z.of_nat (length (ChatSessionValuePublicKey_key_signature key))).

(** [if action.contains(flag) { if let True(v) = field { new } }]: the field
    before or after. *)
Definition flagged {A B} (action : PacketPlayerInfoAction) (flag : Z) (field : option A) (new : A → B) (old : B) : B :=
  if PacketPlayerInfoAction_contains action flag
  then match field with Some v => new v | None => old end
  else old.

Definition apply_item (action : PacketPlayerInfoAction) (e : PlayerEntry) (item : PacketPlayerInfoDataItem) : PlayerEntry := {|
  p_uuid := p_uuid e;
  p_name := flagged action PacketPlayerInfoAction_ADD_PLAYER (item_player item) GameProfile_name (p_name e);
  p_chat_session :=
    flagged action PacketPlayerInfoAction_INITIALIZE_CHAT (item_chat_session item) (option_map chat_session_of) (p_chat_session e);
  p_gamemode := flagged action PacketPlayerInfoAction_UPDATE_GAME_MODE (item_gamemode item) (λ mode, mode) (p_gamemode e);
  p_latency := flagged action PacketPlayerInfoAction_UPDATE_LATENCY (item_latency item) (λ ms, ms) (p_latency e);
  p_listed := flagged action PacketPlayerInfoAction_UPDATE_LISTED (item_listed item) (λ listed, negb (listed =? 0)) (p_listed e);
  p_display_name :=
    flagged action PacketPlayerInfoAction_UPDATE_DISPLAY_NAME (item_display_name item) (option_map from_nbt) (p_display_name e);
  p_list_priority := flagged action PacketPlayerInfoAction_UPDATE_LIST_ORDER (item_list_priority item) (λ p, p) (p_list_priority e);
  p_show_hat := flagged action PacketPlayerInfoAction_UPDATE_HAT (item_show_hat item) (λ h, h) (p_show_hat e);
|}.

(** The loop of [apply_info]. *)
Fixpoint apply_items (action : PacketPlayerInfoAction) (items : list PacketPlayerInfoDataItem) (s : PlayerList) :
    PlayerInfoChanges * PlayerList :=
  match items with
  | [] => (mkInfoChanges [] [] 0, s)
  | item :: items =>
      let uuid := item_uuid item in
      let is_new := bool_decide (s !! uuid = None) in
      if is_new && bool_decide (MAX_PLAYERS ≤ size s)%nat then
        let '(c, s) := apply_items action items s in
        (mkInfoChanges (joined c) (updated c) (rejected c + 1), s)
      else
        let entry := apply_item action (default (new_entry uuid) (s !! uuid)) item in
        let '(c, s) := apply_items action items (<[uuid := entry]> s) in
        let join := if is_new && negb (bool_decide (p_name entry = ""%string)) then [(p_uuid entry, p_name entry)] else [] in
        (mkInfoChanges (join ++ joined c) (uuid :: updated c) (rejected c), s)
  end.

Definition apply_info (p : PacketPlayerInfo) (s : PlayerList) : PlayerInfoChanges * PlayerList :=
  apply_items (info_action p) (info_data p) s.

(** The loop of [apply_remove]. *)
Fixpoint remove_all (uuids : list Z) (s : PlayerList) : list Z * PlayerList :=
  match uuids with
  | [] => ([], s)
  | uuid :: uuids =>
      let '(removed, s') := remove_all uuids (delete uuid s) in
      (if bool_decide (is_Some (s !! uuid)) then (uuid :: removed, s') else (removed, s'))
  end.

Definition apply_remove (p : PacketPlayerRemove) (s : PlayerList) : list Z * PlayerList :=
  remove_all (PacketPlayerRemove_players p) s.

(** ** What a packet does *)

Implicit Types (s : PlayerList) (items : list PacketPlayerInfoDataItem).

Definition items_of (u : Z) items : list PacketPlayerInfoDataItem := List.filter (λ i, item_uuid i =? u) items.

(** The step the loop takes on one item, without its report. *)
Definition accepts (item : PacketPlayerInfoDataItem) s : Prop :=
  is_Some (s !! item_uuid item) ∨ (size s < MAX_PLAYERS)%nat.

Lemma accepts_test item s :
  bool_decide (s !! item_uuid item = None) && bool_decide (MAX_PLAYERS ≤ size s)%nat = true ↔ ¬ accepts item s.
Proof.
  unfold accepts. rewrite andb_true_iff, !bool_decide_eq_true. destruct (s !! item_uuid item); split.
  - by intros [? _].
  - intros H. destruct H. left. eauto.
  - intros [_ Hm] [[? ?]|?]; [done|lia].
  - intros H. split; [done|]. destruct (decide (size s < MAX_PLAYERS)%nat); [destruct H; by right|lia].
Qed.

Lemma accepts_false item s :
  bool_decide (s !! item_uuid item = None) && bool_decide (MAX_PLAYERS ≤ size s)%nat = false → accepts item s.
Proof.
  intros Ht. destruct (decide (accepts item s)) as [|Hna]; [done|].
  pose proof (proj2 (accepts_test item s) Hna). congruence.
Qed.

Lemma size_insert_accept item e s :
  accepts item s → (size s ≤ MAX_PLAYERS)%nat → (size (<[item_uuid item := e]> s) ≤ MAX_PLAYERS)%nat.
Proof.
  intros [[e' He']|Hlt] Hs; [rewrite map_size_insert_Some by done; done|].
  destruct (s !! item_uuid item) eqn:Hl; [rewrite map_size_insert_Some by done; done|].
  rewrite map_size_insert_None by done. lia.
Qed.

Lemma size_insert_le (u : Z) (e : PlayerEntry) s : (size s ≤ size (<[u := e]> s))%nat.
Proof.
  destruct (s !! u) eqn:Hl; [by rewrite map_size_insert_Some by done|]. rewrite map_size_insert_None by done. lia.
Qed.

(** A player who is not there when the list is full is refused throughout. *)
Lemma full_rejects action items s u :
  s !! u = None → (MAX_PLAYERS ≤ size s)%nat → u ∉ updated (apply_items action items s).1.
Proof.
  revert s. induction items as [|i items IH]; intros s Hu Hs; simpl; [set_solver|].
  destruct (bool_decide (s !! item_uuid i = None) && bool_decide (MAX_PLAYERS ≤ size s)%nat) eqn:Ht.
  - specialize (IH s Hu Hs). destruct (apply_items action items s) as [c s1]. done.
  - assert (item_uuid i ≠ u) as Hne.
    { intros <-. rewrite Hu in Ht. rewrite !bool_decide_eq_true_2 in Ht by done. done. }
    pose proof (size_insert_le (item_uuid i) (apply_item action (default (new_entry (item_uuid i)) (s !! item_uuid i)) i) s) as Hsz.
    specialize (IH (<[item_uuid i := apply_item action (default (new_entry (item_uuid i)) (s !! item_uuid i)) i]> s)).
    rewrite lookup_insert_ne in IH by done. specialize (IH Hu ltac:(lia)).
    destruct (apply_items action items _) as [c s1]. simpl in *. set_solver.
Qed.

(** What the loop leaves of the player [u] and whether it says so. *)
Definition player_after action items s u (c : PlayerInfoChanges) s' : Prop :=
  (u ∈ updated c → items_of u items ≠ []
     ∧ s' !! u = Some (foldl (apply_item action) (default (new_entry u) (s !! u)) (items_of u items)))
  ∧ (u ∉ updated c → s' !! u = s !! u)
  ∧ (items_of u items ≠ [] → u ∉ updated c → s !! u = None ∧ (MAX_PLAYERS ≤ size s')%nat).

Lemma items_of_cons_eq i items : items_of (item_uuid i) (i :: items) = i :: items_of (item_uuid i) items.
Proof. unfold items_of. simpl. by rewrite Z.eqb_refl. Qed.
Lemma items_of_cons_ne i items u : item_uuid i ≠ u → items_of u (i :: items) = items_of u items.
Proof. intros Hne. unfold items_of. simpl. by rewrite (proj2 (Z.eqb_neq _ _) Hne). Qed.

Lemma apply_items_size action items s :
  (size s ≤ size (apply_items action items s).2)%nat
  ∧ ((size s ≤ MAX_PLAYERS)%nat → (size (apply_items action items s).2 ≤ MAX_PLAYERS)%nat).
Proof.
  revert s. induction items as [|i items IH]; intros s; simpl; [done|].
  destruct (bool_decide (s !! item_uuid i = None) && bool_decide (MAX_PLAYERS ≤ size s)%nat) eqn:Ht.
  - specialize (IH s). by destruct (apply_items action items s) as [c s1].
  - set (e := apply_item action _ i). specialize (IH (<[item_uuid i := e]> s)) as [IH1 IH2].
    destruct (apply_items action items _) as [c s1]. simpl in *.
    pose proof (size_insert_le (item_uuid i) e s). split; [lia|]. intros Hs. apply IH2, size_insert_accept; [|done].
    by apply accepts_false.
Qed.

Lemma apply_items_player action items s u :
  player_after action items s u (apply_items action items s).1 (apply_items action items s).2.
Proof.
  revert s. induction items as [|i items IH]; intros s; simpl.
  { split_and!; [by intros ?%not_elem_of_nil|done|done]. }
  destruct (bool_decide (s !! item_uuid i = None) && bool_decide (MAX_PLAYERS ≤ size s)%nat) eqn:Ht.
  - destruct (proj1 (andb_true_iff _ _) Ht) as [Hn%bool_decide_eq_true Hm%bool_decide_eq_true].
    pose proof (full_rejects action items s (item_uuid i) Hn Hm) as Hrej.
    pose proof (proj1 (apply_items_size action items s)) as Hsize.
    specialize (IH s). destruct (apply_items action items s) as [c s1]. simpl in *. destruct IH as (IH1 & IH2 & IH3).
    destruct (decide (item_uuid i = u)) as [<-|Hne].
    + split_and!; simpl; [done|done|]. intros _ _. split; [done|lia].
    + unfold player_after. cbn [updated]. rewrite items_of_cons_ne by done. done.
  - set (e := apply_item action _ i). specialize (IH (<[item_uuid i := e]> s)).
    pose proof (apply_items_size action items (<[item_uuid i := e]> s)) as [Hsize _].
    destruct (apply_items action items (<[item_uuid i := e]> s)) as [c s1]. simpl in *. destruct IH as (IH1 & IH2 & IH3).
    destruct (decide (item_uuid i = u)) as [<-|Hne].
    + unfold player_after. cbn [updated]. rewrite items_of_cons_eq. rewrite lookup_insert_eq in IH1, IH2, IH3. simpl in *.
      split_and!; [intros _; split; [done|]|set_solver|set_solver].
      destruct (decide (item_uuid i ∈ updated c)) as [Hin|Hnin]; [apply IH1, Hin|].
      rewrite (IH2 Hnin). destruct (items_of (item_uuid i) items) eqn:Hit; [done|].
      destruct (IH3 ltac:(done) Hnin) as [? _]. done.
    + unfold player_after. cbn [updated]. rewrite items_of_cons_ne by done. rewrite lookup_insert_ne in IH1, IH2, IH3 by done.
      split_and!; [intros [->|Hin]%elem_of_cons; [done|by apply IH1]| |].
      * intros Hnin. apply IH2. set_solver.
      * intros Hit Hnin. apply IH3; [done|set_solver].
Qed.

Lemma apply_items_counts action items s :
  Z.of_nat (length (updated (apply_items action items s).1)) + rejected (apply_items action items s).1
  = Z.of_nat (length items).
Proof.
  revert s. induction items as [|i items IH]; intros s; [done|]. cbn [apply_items].
  destruct (_ && _).
  - specialize (IH s). destruct (apply_items action items s) as [c s1]. simpl in *. lia.
  - set (s0 := <[_ := _]> s). specialize (IH s0). destruct (apply_items action items s0) as [c s1]. simpl in *. lia.
Qed.

(** ** What the flags name

    Bit [n] of the action stands for one field; [get] is that field of an
    item. Of several items the last that carries it counts. *)

Definition announced (action : PacketPlayerInfoAction) (n : Z) {A} (get : PacketPlayerInfoDataItem → option A) items (old : A) : A :=
  if Z.testbit action n then default old (last (omap get items)) else old.

(** The entry [e] as the items leave it. *)
Definition entry_after (action : PacketPlayerInfoAction) items (e e' : PlayerEntry) : Prop :=
  p_uuid e' = p_uuid e
  ∧ p_name e' = announced action 0 (λ i, GameProfile_name <$> item_player i) items (p_name e)
  ∧ p_chat_session e' = announced action 1 (λ i, option_map chat_session_of <$> item_chat_session i) items (p_chat_session e)
  ∧ p_gamemode e' = announced action 2 item_gamemode items (p_gamemode e)
  ∧ p_listed e' = announced action 3 (λ i, (λ listed, negb (listed =? 0)) <$> item_listed i) items (p_listed e)
  ∧ p_latency e' = announced action 4 item_latency items (p_latency e)
  ∧ p_display_name e' = announced action 5 (λ i, option_map from_nbt <$> item_display_name i) items (p_display_name e)
  ∧ p_show_hat e' = announced action 6 item_show_hat items (p_show_hat e)
  ∧ p_list_priority e' = announced action 7 item_list_priority items (p_list_priority e).

Lemma flagged_announced {A B} action flag n (field : PacketPlayerInfoDataItem → option A) (new : A → B) i old :
  0 ≤ n → flag = 2 ^ n → flagged action flag (field i) new old = announced action n (λ i, new <$> field i) [i] old.
Proof.
  intros Hn ->. unfold flagged, announced, PacketPlayerInfoAction_contains. rewrite flag_bit by done. simpl. by destruct (Z.testbit action n), (field i).
Qed.

Lemma announced_cons {A} action n (get : PacketPlayerInfoDataItem → option A) i items old :
  announced action n get (i :: items) old = announced action n get items (announced action n get [i] old).
Proof.
  unfold announced. destruct (Z.testbit action n); [|done]. change (omap get (i :: items)) with (omap get ([i] ++ items)).
  rewrite omap_app, last_app. simpl. destruct (get i) as [x|]; simpl; by destruct (last (omap get items)).
Qed.

Lemma apply_item_after action e i : entry_after action [i] e (apply_item action e i).
Proof.
  assert (∀ A (o : option A), (λ x, x) <$> o = o) as Hid by by intros A [].
  unfold entry_after, apply_item. cbn [p_uuid p_name p_chat_session p_gamemode p_listed p_latency p_display_name p_show_hat p_list_priority].
  rewrite (flagged_announced _ PacketPlayerInfoAction_ADD_PLAYER 0), (flagged_announced _ PacketPlayerInfoAction_INITIALIZE_CHAT 1),
    (flagged_announced _ PacketPlayerInfoAction_UPDATE_GAME_MODE 2), (flagged_announced _ PacketPlayerInfoAction_UPDATE_LISTED 3),
    (flagged_announced _ PacketPlayerInfoAction_UPDATE_LATENCY 4), (flagged_announced _ PacketPlayerInfoAction_UPDATE_DISPLAY_NAME 5),
    (flagged_announced _ PacketPlayerInfoAction_UPDATE_HAT 6), (flagged_announced _ PacketPlayerInfoAction_UPDATE_LIST_ORDER 7) by done.
  split_and!; try done; unfold announced; simpl; by rewrite Hid.
Qed.

Lemma entry_after_fold action items e : entry_after action items e (foldl (apply_item action) e items).
Proof.
  revert e. induction items as [|i items IH]; intros e.
  { simpl. unfold entry_after, announced. simpl. split_and!; try done; by case_match. }
  simpl. destruct (IH (apply_item action e i)) as (H0 & H1 & H2 & H3 & H4 & H5 & H6 & H7 & H8).
  destruct (apply_item_after action e i) as (G0 & G1 & G2 & G3 & G4 & G5 & G6 & G7 & G8).
  unfold entry_after. rewrite H0, H1, H2, H3, H4, H5, H6, H7, H8, G0, G1, G2, G3, G4, G5, G6, G7, G8. split_and!; [done|..]; symmetry; apply announced_cons.
Qed.

(** The name the packet's first item for [u] carries, none if it is not
    flagged or the item has none. *)
Definition first_name (action : PacketPlayerInfoAction) items (u : Z) : string :=
  match items_of u items with i :: _ => announced action 0 (λ i, GameProfile_name <$> item_player i) [i] "" | [] => "" end.

Lemma first_name_eq action i items :
  first_name action (i :: items) (item_uuid i) = p_name (apply_item action (new_entry (item_uuid i)) i).
Proof. unfold first_name. rewrite items_of_cons_eq. by destruct (apply_item_after action (new_entry (item_uuid i)) i) as (_ & -> & _). Qed.
Lemma first_name_ne action i items u : item_uuid i ≠ u → first_name action (i :: items) u = first_name action items u.
Proof. intros Hne. unfold first_name. by rewrite items_of_cons_ne. Qed.

Lemma apply_items_joined action items s u n :
  (u, n) ∈ joined (apply_items action items s).1
  ↔ s !! u = None ∧ u ∈ updated (apply_items action items s).1 ∧ n = first_name action items u ∧ n ≠ ""%string.
Proof.
  revert s. induction items as [|i items IH]; intros s; [simpl; set_solver|]. cbn [apply_items].
  destruct (bool_decide (s !! item_uuid i = None) && bool_decide (MAX_PLAYERS ≤ size s)%nat) eqn:Ht.
  - destruct (proj1 (andb_true_iff _ _) Ht) as [Hn%bool_decide_eq_true Hm%bool_decide_eq_true].
    pose proof (full_rejects action items s (item_uuid i) Hn Hm) as Hrej.
    specialize (IH s). destruct (apply_items action items s) as [c s1]. simpl in *. rewrite IH.
    destruct (decide (item_uuid i = u)) as [<-|Hne]; [naive_solver|]. by rewrite first_name_ne.
  - set (e := apply_item action _ i). specialize (IH (<[item_uuid i := e]> s)).
    destruct (apply_items action items (<[item_uuid i := e]> s)) as [c s1]. cbn [fst joined updated] in *.
    rewrite elem_of_app, IH. clear IH Ht.
    destruct (decide (item_uuid i = u)) as [<-|Hne].
    + rewrite first_name_eq, lookup_insert_eq.
      assert (s !! item_uuid i = None → e = apply_item action (new_entry (item_uuid i)) i) as He by (intros Hl; unfold e; by rewrite Hl).
      destruct (s !! item_uuid i) as [e0|] eqn:Hnew; [rewrite bool_decide_eq_false_2 by done|rewrite bool_decide_eq_true_2 by done]; cbn [andb].
      { split; [intros [?%not_elem_of_nil|[? _]]; done|intros [? _]; done]. }
      specialize (He eq_refl). assert (p_uuid e = item_uuid i) as Hu by (by rewrite He). rewrite He in Hu |- *. case_bool_decide as Hname; cbn [negb].
      * split; [intros [?%not_elem_of_nil|[? _]]; done|intros (_ & _ & -> & ?); done].
      * rewrite list_elem_of_singleton, Hu. split; [|intros (_ & _ & -> & ?); by left].
        intros [[= ->]|[? _]]; [|done]. split_and!; [done|by left|done|done].
    + rewrite first_name_ne, lookup_insert_ne by done.
      assert (s !! item_uuid i = None → p_uuid e = item_uuid i) as Hu by (intros Hl; unfold e; by rewrite Hl).
      assert (u ∈ item_uuid i :: updated c ↔ u ∈ updated c) as -> by (rewrite elem_of_cons; naive_solver).
      destruct (s !! item_uuid i) as [e0|] eqn:Hnew; [rewrite bool_decide_eq_false_2 by done|rewrite bool_decide_eq_true_2 by done]; cbn [andb].
      { rewrite elem_of_nil. naive_solver. }
      specialize (Hu eq_refl). case_bool_decide; cbn [negb]; [rewrite elem_of_nil; naive_solver|]. rewrite list_elem_of_singleton, Hu. naive_solver.
Qed.

Lemma apply_items_joined_once action items s : NoDup (joined (apply_items action items s).1).*1.
Proof.
  revert s. induction items as [|i items IH]; intros s; [constructor|]. cbn [apply_items].
  destruct (_ && _); [specialize (IH s); by destruct (apply_items action items s)|].
  set (e := apply_item action _ i). specialize (IH (<[item_uuid i := e]> s)).
  pose proof (apply_items_joined action items (<[item_uuid i := e]> s) (item_uuid i)) as Hj.
  assert (s !! item_uuid i = None → p_uuid e = item_uuid i) as Hu by (intros Hl; unfold e; by rewrite Hl).
  clearbody e. destruct (apply_items action items (<[item_uuid i := e]> s)) as [c s1]. cbn [fst joined] in *.
  destruct (bool_decide_reflect (s !! item_uuid i = None)) as [Hn|]; [|done]. destruct (negb _); [|done].
  simpl. rewrite (Hu Hn). constructor; [|done]. intros ([u n] & Heq & Hin)%list_elem_of_fmap. simpl in Heq. subst u.
  apply Hj in Hin as [Hnone _]. by rewrite lookup_insert_eq in Hnone.
Qed.
End players.

(** C37. A [player_info] packet, on any list: every item is either applied and
    reported or counted as refused. Of a reported player exactly the fields
    that a bit of the action names are set, each to the value the last of the
    packet's items for it carries, starting from what was known of it or from
    a fresh entry (game mode and latency -1); all other fields and all other
    players keep what they had. A player the packet names is refused only when
    it was unknown and the list is full. A join is reported once, and exactly
    for a player that was not there, was let in, and whose first item in the
    packet carries a name under the add-player bit: one that is first listed
    without a name never joins ([late_name_never_joins]). *)
Theorem player_info_outcome {J} (p : PacketPlayerInfo) (s : gmap Z (@PlayerEntry J)) :
  let '(c, s') := apply_info p s in
  Z.of_nat (length (updated c)) + rejected c = Z.of_nat (length (info_data p))
  ∧ NoDup (joined c).*1
  ∧ ∀ u,
    (u ∈ updated c → items_of u (info_data p) ≠ []
      ∧ ∃ e', s' !! u = Some e' ∧ entry_after (info_action p) (items_of u (info_data p)) (default (new_entry u) (s !! u)) e')
    ∧ (u ∉ updated c → s' !! u = s !! u)
    ∧ (items_of u (info_data p) ≠ [] → u ∉ updated c → s !! u = None ∧ (MAX_PLAYERS ≤ size s')%nat)
    ∧ ∀ n, (u, n) ∈ joined c ↔ s !! u = None ∧ u ∈ updated c ∧ n = first_name (info_action p) (info_data p) u ∧ n ≠ ""%string.
Proof.
  unfold apply_info.
  pose proof (apply_items_counts (info_action p) (info_data p) s) as Hc.
  pose proof (apply_items_player (info_action p) (info_data p) s) as Hp.
  pose proof (apply_items_joined (info_action p) (info_data p) s) as Hj.
  pose proof (apply_items_joined_once (info_action p) (info_data p) s) as Ho.
  destruct (apply_items (info_action p) (info_data p) s) as [c s']. simpl in *. split; [done|]. split; [done|]. intros u.
  destruct (Hp u) as (H1 & H2 & H3). split_and!; [|done|done|apply Hj].
  intros [Hne Heq]%H1. split; [done|]. eexists. split; [exact Heq|apply entry_after_fold].
Qed.

(** A player first listed without a name, and named by the next packet, is
    known by that name and has never joined. *)
Example late_name_never_joins :
  let latency := mkPlayerInfo 0x10 [mkInfoItem 7 None None None None (Some 5) None None None] in
  let add := mkPlayerInfo 0x1 [mkInfoItem 7 (Some (mkGameProfile "bob" [])) None None None None None None None] in
  let '(c1, s1) := apply_info (J := unit) latency ∅ in
  let '(c2, s2) := apply_info add s1 in
  joined c1 = [] ∧ joined c2 = [] ∧ (p_name <$> s2 !! 7) = Some "bob"%string.
Proof. by vm_compute. Qed.

(** ** Histories *)

Inductive PlayerOp : Type := OpInfo (p : PacketPlayerInfo) | OpRemove (p : PacketPlayerRemove).

Definition player_op {J} (op : PlayerOp) (s : gmap Z (@PlayerEntry J)) : gmap Z (@PlayerEntry J) :=
  match op with OpInfo p => (apply_info p s).2 | OpRemove p => (apply_remove p s).2 end.

Definition players_run {J} (ops : list PlayerOp) : gmap Z (@PlayerEntry J) := foldl (λ s op, player_op op s) ∅ ops.

Lemma remove_all_lookup {J} uuids (s : gmap Z (@PlayerEntry J)) u :
  (remove_all uuids s).2 !! u = (if bool_decide (u ∈ uuids) then None else s !! u)
  ∧ (u ∈ (remove_all uuids s).1 ↔ u ∈ uuids ∧ is_Some (s !! u)) ∧ NoDup (remove_all uuids s).1
  ∧ (size (remove_all uuids s).2 ≤ size s)%nat.
Proof.
  revert s. induction uuids as [|v uuids IH]; intros s; cbn [remove_all].
  { rewrite bool_decide_eq_false_2 by set_solver. split_and!; [done|set_solver|constructor|done]. }
  destruct (IH (delete v s)) as (IHl & IHr & IHn & IHs).
  assert (v ∉ (remove_all uuids (delete v s)).1) as Hv.
  { clear IHl IHr IHn IHs. intros Hin. revert Hin. generalize (lookup_delete_eq s v). generalize (delete v s). clear s IH.
    induction uuids as [|w uuids IH]; intros s Hs; cbn [remove_all]; [set_solver|].
    assert (delete w s !! v = None) as Hd by (destruct (decide (w = v)) as [->|]; [apply lookup_delete_eq|by rewrite lookup_delete_ne]).
    specialize (IH _ Hd). destruct (remove_all uuids (delete w s)) as [r s1]. case_bool_decide as Hw; [|done].
    intros [->|Hin]%elem_of_cons; [|done]. rewrite Hs in Hw. by destruct Hw. }
  assert (size (delete v s) ≤ size s)%nat as Hds.
  { destruct (s !! v) eqn:Hl; [rewrite map_size_delete_Some by eauto; lia|by rewrite delete_id by done]. }
  destruct (remove_all uuids (delete v s)) as [r s1]. cbn [fst snd] in *.
  assert ((if bool_decide (is_Some (s !! v)) then (v :: r, s1) else (r, s1)).2 = s1) as -> by (by destruct (bool_decide (is_Some (s !! v)))). rewrite IHl.
  split_and!; [| | |lia].
  - destruct (decide (v = u)) as [->|Hne].
    + rewrite lookup_delete_eq, (bool_decide_eq_true_2 (u ∈ u :: uuids)) by set_solver. by case_bool_decide.
    + rewrite lookup_delete_ne by done. apply bool_decide_if_ext. set_solver.
  - destruct (decide (v = u)) as [->|Hne].
    + destruct (decide (is_Some (s !! u))) as [Hs|Hs]; [rewrite (bool_decide_eq_true_2 _ Hs)|rewrite (bool_decide_eq_false_2 _ Hs)];
        cbn [fst]; rewrite ?elem_of_cons; [split; [intros _; split; [by left|done]|intros _; by left]|].
      split; [done|intros [_ ?]; done].
    + rewrite lookup_delete_ne in IHr by done. rewrite (elem_of_cons uuids).
      assert (u ∈ (if bool_decide (is_Some (s !! v)) then (v :: r, s1) else (r, s1)).1 ↔ u ∈ r) as ->.
      { destruct (bool_decide (is_Some (s !! v))); cbn [fst]; [|done]. rewrite elem_of_cons. split; [intros [?|?]; [congruence|done]|by right]. }
      rewrite IHr. split; intros [H1 H2]; (split; [|done]); [by right|]. destruct H1; [congruence|done].
  - destruct (bool_decide (is_Some (s !! v))); cbn [fst]; [by constructor|done].
Qed.

(** Within the bound, and each entry under its own uuid. *)
Definition players_ok {J} (s : gmap Z (@PlayerEntry J)) : Prop :=
  (size s ≤ MAX_PLAYERS)%nat ∧ ∀ u e, s !! u = Some e → p_uuid e = u.

Lemma apply_info_ok {J} p (s : gmap Z (@PlayerEntry J)) : players_ok s → players_ok (apply_info p s).2.
Proof.
  intros [Hs Hu]. split; [by apply apply_items_size|]. intros u e.
  destruct (apply_items_player (info_action p) (info_data p) s u) as (Hin & Hnin & _). unfold apply_info.
  destruct (decide (u ∈ updated (apply_items (info_action p) (info_data p) s).1)) as [H|H]; [|rewrite (Hnin H); apply Hu].
  destruct (Hin H) as [_ ->]. intros [= <-]. generalize (items_of u (info_data p)). intros l.
  assert (p_uuid (default (new_entry u) (s !! u)) = u) as Hd by (destruct (s !! u) eqn:Hl; simpl; [by apply Hu|done]).
  revert Hd. generalize (default (new_entry u) (s !! u)). induction l as [|i l IHl]; intros e Hd; [done|]. simpl. by apply IHl.
Qed.

Lemma apply_remove_ok {J} p (s : gmap Z (@PlayerEntry J)) : players_ok s → players_ok (apply_remove p s).2.
Proof.
  intros [Hs Hu]. unfold apply_remove. split.
  - pose proof (remove_all_lookup (PacketPlayerRemove_players p) s 0) as (_ & _ & _ & Hr). lia.
  - intros u e. destruct (remove_all_lookup (PacketPlayerRemove_players p) s u) as [-> _]. case_bool_decide; [done|apply Hu].
Qed.

Lemma players_run_ok {J} (ops : list PlayerOp) : players_ok (players_run (J := J) ops).
Proof.
  unfold players_run. induction ops as [|op ops IH] using rev_ind; [split; [apply Nat.le_0_l|done]|]. rewrite foldl_app. simpl.
  destruct op; [by apply apply_info_ok|by apply apply_remove_ok].
Qed.

(** Whatever the server sends, at most 4096 players are tracked, each
    under its own uuid; a removal drops exactly the uuids it names and
    reports each of those that were there once. *)
Theorem players_bounded {J} (ops : list PlayerOp) :
  (size (players_run (J := J) ops) ≤ MAX_PLAYERS)%nat
  ∧ (∀ u e, players_run (J := J) ops !! u = Some e → p_uuid e = u)
  ∧ ∀ p, let '(removed, s') := apply_remove p (players_run (J := J) ops) in
         NoDup removed
         ∧ ∀ u, (u ∈ removed ↔ u ∈ PacketPlayerRemove_players p ∧ is_Some (players_run (J := J) ops !! u))
                ∧ s' !! u = if bool_decide (u ∈ PacketPlayerRemove_players p) then None else players_run ops !! u.
Proof.
  split_and!; [apply players_run_ok|apply players_run_ok|].
  - intros p. unfold apply_remove. pose proof (remove_all_lookup (J := J) (PacketPlayerRemove_players p) (players_run ops)) as H.
    destruct (remove_all (PacketPlayerRemove_players p) (players_run ops)) as [removed s']. simpl in H.
    split; [apply (H 0)|]. intros u. by destruct (H u) as (H1 & H2 & _).
Qed.
