(* ===== verification/ChunkBatch.v ===== *)
(** * Chunk batch pacing

    [src/minecraft/chunk_batch.rs]: the running estimate of the time a chunk
    takes, from which the client asks the server for a number of chunks per
    tick. *)

From S2P Require Import Prelude Machine Float.

Local Open Scope Z_scope.

Definition NANOS_PER_TICK_BUDGET : Z := d_of_Z 7000000.
Definition INITIAL_NANOS_PER_CHUNK : Z := d_of_Z 2000000.
Definition CLAMP_COEFFICIENT : Z := d_of_Z 3.
Definition MAX_OLD_SAMPLES_WEIGHT : Z := 49.

Record ChunkBatchSizeCalculator : Type := mkCalculator {
  aggregated_nanos_per_chunk : Z;
  old_samples_weight : Z;
}.

Definition calculator_default : ChunkBatchSizeCalculator := mkCalculator INITIAL_NANOS_PER_CHUNK 1.

(** [f64::clamp], which panics on bounds that are not in order. *)
Definition d_clamp (lo hi a : Z) : option Z :=
  if d_le lo hi then Some (if d_lt a lo then lo else if d_lt hi a then hi else a) else None.

(** [elapsed] is a number of nanoseconds; [None] is a panic. *)
Definition record_batch (elapsed batch_size : Z) (c : ChunkBatchSizeCalculator) : option ChunkBatchSizeCalculator :=
  if batch_size =? 0 then Some c
  else
    let agg := aggregated_nanos_per_chunk c in
    let nanos_per_chunk := d_div (d_of_Z elapsed) (d_of_Z batch_size) in
    clamped ← d_clamp (d_div agg CLAMP_COEFFICIENT) (d_mul agg CLAMP_COEFFICIENT) nanos_per_chunk;
    let weight := d_of_Z (old_samples_weight c) in
    Some (mkCalculator
      (d_div (d_add (d_mul agg weight) clamped) (d_add weight (d_of_Z 1)))
      (Z.min (old_samples_weight c + 1) MAX_OLD_SAMPLES_WEIGHT)).

Definition desired_chunks_per_tick (c : ChunkBatchSizeCalculator) : Z :=
  s_of_d (d_div NANOS_PER_TICK_BUDGET (aggregated_nanos_per_chunk c)).

(** A session of batches, each a time and a size. *)
Definition record_all (batches : list (Z * Z)) : option ChunkBatchSizeCalculator :=
  foldl (λ c b, c ← c; record_batch b.1 b.2 c) (Some calculator_default) batches.

(** The rate before any batch is 3.5 chunks per tick. *)
Example initial_rate : desired_chunks_per_tick calculator_default = s_div (s_of_Z 7) (s_of_Z 2).
Proof. by vm_compute. Qed.

(** A finished batch whose start was not seen is timed at zero, and that
    lowers the estimate by a third instead of leaving it: the rate goes from
    3.5 to 5.25, and with every further one it rises, past 20 after fifty. *)
Theorem missing_start_speeds_up :
  (desired_chunks_per_tick <$> record_all [(0, 1)]) = Some (s_div (s_of_Z 21) (s_of_Z 4))
  ∧ (f32_lt (s_of_Z 20) ∘ desired_chunks_per_tick <$> record_all (replicate 50 (0, 1))) = Some true.
Proof. split; by vm_compute. Qed.
