(* ===== verification/Codec.v ===== *)
(** * Frames: length prefix and compression

    [crates/minerider-protocol/src/{packet,compression,codec}.rs].  The zlib
    implementation is the [flate2] crate; it is a record of two operations
    with the laws [flate2] documents, and everything here is stated for any
    such record. *)

From S2P Require Import Prelude Machine Reader Varint.

Local Open Scope Z_scope.

(** ** Packets *)

Record RawPacket : Type := mkPacket {
  pkt_id : Z;
  pkt_payload : list byte;
}.

Definition raw_empty (id : Z) : RawPacket := mkPacket id [].

(** [RawPacket::build]: the closure fills a fresh writer. *)
Definition build (id : Z) (f : PacketWriter → PacketWriter) : RawPacket :=
  mkPacket id (buf (f new_writer)).

(** ** zlib *)

(** [deflate data] is [ZlibEncoder::write_all] and [finish] into a [Vec];
    [inflate data cap] is [ZlibDecoder::new(data).take(cap).read_to_end].
    [None] is an I/O error. *)
Record Zlib : Type := mkZlib {
  deflate : list byte → option (list byte);
  inflate : list byte → nat → option (list byte);
}.

(** What the [flate2] and [std::io::Read::take] documentation promise:
    inflating a deflated buffer gives it back up to the cap, and no more
    than [cap] bytes are ever produced. *)
Class ZlibLaws (z : Zlib) : Prop := {
  inflate_deflate data c cap : deflate z data = Some c → inflate z c cap = Some (take cap data);
  inflate_cap c cap out : inflate z c cap = Some out → (length out ≤ cap)%nat;
}.

(** The stored (uncompressed) format satisfies the laws. *)
Definition stored_zlib : Zlib := mkZlib Some (λ c cap, Some (take cap c)).
#[export] Instance stored_zlib_laws : ZlibLaws stored_zlib.
Proof.
  split; simpl; intros; simplify_eq; [done|]. rewrite length_take. lia.
Qed.

Definition MAX_DECOMPRESSED : Z := 64 * 1024 * 1024.

Definition compress (z : Zlib) (data : list byte) : result ProtocolError (list byte) :=
  match deflate z data with
  | Some out => Ok out
  | None => Err Compression
  end.

Definition decompress (z : Zlib) (data : list byte) (expected_len : Z) :
    result ProtocolError (list byte) :=
  let cap := Z.min (expected_len + 1) MAX_DECOMPRESSED in
  match inflate z data (Z.to_nat cap) with
  | None => Err Compression
  | Some out => if Z.of_nat (length out) =? expected_len then Ok out else Err Compression
  end.

(** ** The frame codec *)

Definition MAX_FRAME_SIZE : Z := 2 * 1024 * 1024.

Record FrameCodec : Type := mkFrameCodec { compression_threshold : option Z }.

Definition new_codec : FrameCodec := mkFrameCodec None.

Definition set_compression_threshold (threshold : Z) (c : FrameCodec) : FrameCodec :=
  mkFrameCodec (if threshold <? 0 then None else Some threshold).

(** [body = VarInt(id) + payload]. *)
Definition packet_body (p : RawPacket) : list byte := varint_bytes (pkt_id p) ++ pkt_payload p.

(** [x.len() as i32] written as a VarInt. *)
Definition len_varint (bs : list byte) : list byte := varint_bytes (swrap 32 (Z.of_nat (length bs))).

(** The three arms of [encode]'s match on the threshold. *)
Definition framed_body (z : Zlib) (c : FrameCodec) (packet : RawPacket) :
    result ProtocolError (list byte) :=
  let body := packet_body packet in
  match compression_threshold c with
  | Some threshold =>
      if wrap 64 threshold <=? Z.of_nat (length body) then
        let? compressed := compress z body in
        Ok (len_varint body ++ compressed)
      else Ok (varint_bytes 0 ++ body)
  | None => Ok body
  end.

Definition encode_frame (z : Zlib) (c : FrameCodec) (packet : RawPacket) :
    result ProtocolError (list byte) :=
  let? body := framed_body z c packet in
  Ok (len_varint body ++ body).

(** The loop of [peek_frame_length]: [n] passes are left, [i] are done. *)
Fixpoint peek_loop (n i : nat) (acc : Z) (buf : list byte) :
    result ProtocolError (option (Z * nat)) :=
  match n with
  | O => Err VarIntTooLong
  | S n =>
      match buf !! i with
      | None => Ok None
      | Some byte =>
          let acc := Z.lor acc (wrap 32 (Z.shiftl (Z.land (u8 byte) 127) (Z.of_nat i * 7))) in
          if Z.land (u8 byte) 128 =? 0 then
            if MAX_FRAME_SIZE <? acc then Err (FrameTooLarge acc MAX_FRAME_SIZE)
            else Ok (Some (acc, S i))
          else peek_loop n (S i) acc buf
      end
  end.

Definition peek_frame_length (buf : list byte) : result ProtocolError (option (Z * nat)) :=
  peek_loop MAX_VARINT_BYTES 0 0 buf.

(** The [PacketReader] calls on a slice, as a function of the slice: the
    VarInt in front and the rest. *)
Definition split_varint (bs : list byte) : result ProtocolError (Z * list byte) :=
  let '(res, r) := read_varint (new_reader bs) in
  let? v := res in Ok (v, rest r).

(** The body of a complete frame, decompressed if need be. *)
Definition frame_body (z : Zlib) (c : FrameCodec) (frame_bytes : list byte) :
    result ProtocolError (list byte) :=
  match compression_threshold c with
  | Some _ =>
      let? (data_length, rest) := split_varint frame_bytes in
      if data_length <? 0 then Err (NegativeLength data_length)
      else if MAX_FRAME_SIZE <? data_length then Err (FrameTooLarge data_length MAX_FRAME_SIZE)
      else if data_length =? 0 then Ok rest
      else decompress z rest data_length
  | None => Ok frame_bytes
  end.

(** [FrameCodec::try_decode] on the mutable buffer: once the whole frame is
    there it is taken out of the buffer, whatever its contents decode to. *)
Definition try_decode (z : Zlib) (c : FrameCodec) :
    M (list byte) ProtocolError (option RawPacket) := λ buf,
  match peek_frame_length buf with
  | Err e => (Err e, buf)
  | Ok None => (Ok None, buf)
  | Ok (Some (frame_len, varint_len)) =>
      if Z.of_nat (length buf - varint_len) <? frame_len then (Ok None, buf)
      else
        let buf := drop varint_len buf in
        let frame_bytes := take (Z.to_nat frame_len) buf in
        let buf := drop (Z.to_nat frame_len) buf in
        (let? body := frame_body z c frame_bytes in
         let? (id, payload) := split_varint body in
         Ok (Some (mkPacket id payload)),
         buf)
  end.

(** ** Peeking is reading *)

Lemma lor_in_u w a b : 0 ≤ w → in_u w a → in_u w b → in_u w (Z.lor a b).
Proof.
  intros Hw Ha Hb. rewrite <- (wrap_small w a Ha), <- (wrap_small w b Hb).
  unfold wrap. rewrite <- !Z.land_ones, <- Z.land_lor_distr_l, Z.land_ones by done.
  by apply Z.mod_pos_bound, pow2_pos.
Qed.

Lemma get_u8_lookup data pos :
  get_u8 (mkReader data pos) =
    match data !! pos with
    | Some b => (Ok (u8 b), mkReader data (S pos))
    | None => (Err (BufferUnderflow 1 0), mkReader data pos)
    end.
Proof.
  unfold get_u8, bind. rewrite read_bytes_eq. unfold remaining, rest, advance; cbn [rd_data rd_pos].
  destruct (data !! pos) as [b|] eqn:Hb.
  - pose proof (lookup_lt_Some _ _ _ Hb). rewrite (proj2 (Z.ltb_ge _ _)) by lia.
    rewrite (drop_S _ _ _ Hb). simpl. unfold ret, be_value. simpl.
    by rewrite Z.add_0_r, Nat.add_1_r.
  - apply lookup_ge_None in Hb. rewrite (proj2 (Z.ltb_lt _ _)) by lia.
    by replace (length data - pos)%nat with 0%nat by lia.
Qed.

(** The length check applied to a frame length read as a VarInt. *)
Definition check_frame_len (len : Z) (n : nat) : result ProtocolError (option (Z * nat)) :=
  if MAX_FRAME_SIZE <? len then Err (FrameTooLarge len MAX_FRAME_SIZE) else Ok (Some (len, n)).

Lemma peek_loop_read n i acc data :
  in_u 32 acc →
  peek_loop n i acc data =
    match read_leb 32 VarIntTooLong n i acc (mkReader data i) with
    | (Ok v, r) => check_frame_len (wrap 32 v) (rd_pos r)
    | (Err (BufferUnderflow _ _), _) => Ok None
    | (Err e, _) => Err e
    end.
Proof.
  revert i acc. induction n as [|n IH]; intros i acc Hacc; cbn [peek_loop read_leb]; [done|].
  unfold bind. rewrite get_u8_lookup. destruct (data !! i) as [b|]; [|done].
  assert (in_u 32 (Z.lor acc (wrap 32 (Z.shiftl (Z.land (u8 b) 127) (Z.of_nat i * 7)))))
    by (apply lor_in_u; [lia|done|apply wrap_range; lia]).
  destruct (Z.land (u8 b) 128 =? 0); [|by apply IH].
  unfold ret, check_frame_len. rewrite wrap_swrap by (done || lia). done.
Qed.

Lemma peek_frame_length_eq data :
  peek_frame_length data =
    match read_varint (new_reader data) with
    | (Ok v, r) => check_frame_len (wrap 32 v) (rd_pos r)
    | (Err (BufferUnderflow _ _), _) => Ok None
    | (Err e, _) => Err e
    end.
Proof. rewrite read_varint_eq. apply peek_loop_read. unfold in_u. lia. Qed.

Lemma wrap_len n : 0 ≤ n ≤ MAX_FRAME_SIZE → wrap 32 n = n ∧ swrap 32 n = n ∧ in_i 32 n.
Proof.
  unfold MAX_FRAME_SIZE. intros Hn.
  split; [apply wrap_small|split; [apply swrap_small; [lia|]|]]; unfold in_u, in_i; lia.
Qed.

Lemma read_varint_app v suf :
  in_i 32 v →
  read_varint (new_reader (varint_bytes v ++ suf))
  = (Ok v, mkReader (varint_bytes v ++ suf) (length (varint_bytes v))).
Proof. intros Hv. exact (reads_varint v Hv (new_reader (varint_bytes v ++ suf)) suf eq_refl). Qed.

Lemma split_varint_app v suf : in_i 32 v → split_varint (varint_bytes v ++ suf) = Ok (v, suf).
Proof.
  intros Hv. unfold split_varint. rewrite read_varint_app by done. cbn [rbind].
  unfold rest; cbn [rd_pos rd_data]. by rewrite drop_app_exact.
Qed.

(** A length prefix that is all there. *)
Lemma peek_len (n : nat) suf :
  Z.of_nat n ≤ MAX_FRAME_SIZE →
  peek_frame_length (varint_bytes (swrap 32 (Z.of_nat n)) ++ suf)
  = Ok (Some (Z.of_nat n, length (varint_bytes (swrap 32 (Z.of_nat n))))).
Proof.
  intros Hn. destruct (wrap_len (Z.of_nat n) ltac:(lia)) as (Hw & -> & Hi).
  rewrite peek_frame_length_eq, read_varint_app by done. cbn [rd_pos]. unfold check_frame_len.
  by rewrite Hw, (proj2 (Z.ltb_ge _ _)).
Qed.

(** A length prefix cut short. *)
Lemma peek_cut v pre bs : varint_bytes v = pre ++ bs → bs ≠ [] → peek_frame_length pre = Ok None.
Proof.
  intros Heq Hbs. destruct (varint_bytes_shape v) as (cs & b & Hv & Hl & Hc).
  rewrite Hv in Heq. destruct (exists_last Hbs) as (bs' & b' & ->).
  rewrite app_assoc in Heq. apply app_inj_tail in Heq as [-> _].
  rewrite length_app in Hl. apply Forall_app in Hc as [Hc _].
  rewrite peek_frame_length_eq, read_varint_eq.
  rewrite (read_leb_truncated 32 _ _ ltac:(lia) pre); [done|unfold MAX_VARINT_BYTES; lia|done|done].
Qed.

(** ** One frame *)

(** A packet that fits the protocol's caps: what [encode] does not check but
    [try_decode] enforces. *)
Record fits_frame (z : Zlib) (c : FrameCodec) (p : RawPacket) (framed : list byte) : Prop := {
  fits_id : in_i 32 (pkt_id p);
  fits_body : Z.of_nat (length (packet_body p)) ≤ MAX_FRAME_SIZE;
  fits_framed : framed_body z c p = Ok framed;
  fits_len : Z.of_nat (length framed) ≤ MAX_FRAME_SIZE;
}.

Lemma packet_body_pos p : (1 ≤ length (packet_body p))%nat.
Proof. unfold packet_body. rewrite length_app. pose proof (varint_bytes_length (pkt_id p)). lia. Qed.

Section frames.
Context (z : Zlib) `{!ZlibLaws z} (c : FrameCodec).

Lemma decompress_compress data out :
  Z.of_nat (length data) ≤ MAX_FRAME_SIZE → compress z data = Ok out →
  decompress z out (Z.of_nat (length data)) = Ok data.
Proof.
  unfold compress, decompress, MAX_FRAME_SIZE, MAX_DECOMPRESSED. intros Hlen Hc.
  destruct (deflate z data) as [o|] eqn:Hd; simplify_eq.
  rewrite (inflate_deflate _ _ _ Hd), take_ge by lia. by rewrite Z.eqb_refl.
Qed.

Lemma frame_body_framed p framed : fits_frame z c p framed → frame_body z c framed = Ok (packet_body p).
Proof.
  intros [Hid Hbody Hf Hlen]. unfold framed_body in Hf. unfold frame_body.
  pose proof (packet_body_pos p). destruct (wrap_len (Z.of_nat (length (packet_body p))) ltac:(lia)) as (_ & Hs & Hi).
  destruct (compression_threshold c) as [t|]; [|by simplify_eq]. case_match.
  - destruct (compress z (packet_body p)) as [out|] eqn:Hc; simplify_eq/=.
    unfold len_varint. rewrite Hs, split_varint_app by done. cbn [rbind].
    rewrite (proj2 (Z.ltb_ge _ _)), (proj2 (Z.ltb_ge _ _)), (proj2 (Z.eqb_neq _ _)) by lia.
    by apply decompress_compress.
  - simplify_eq. rewrite split_varint_app by (unfold in_i; lia). done.
Qed.

Lemma try_decode_frame p framed suf :
  fits_frame z c p framed →
  try_decode z c (len_varint framed ++ framed ++ suf) = (Ok (Some p), suf).
Proof.
  intros Hfits. unfold try_decode, len_varint. rewrite peek_len by apply (fits_len _ _ _ _ Hfits).
  rewrite (proj2 (Z.ltb_ge _ _)) by (rewrite !length_app; lia).
  rewrite drop_app_exact, Nat2Z.id, take_app_exact, drop_app_exact by done.
  rewrite (frame_body_framed p) by done. cbn [rbind]. unfold packet_body.
  rewrite split_varint_app by apply (fits_id _ _ _ _ Hfits). by destruct p.
Qed.

Lemma try_decode_cut framed pre bs :
  Z.of_nat (length framed) ≤ MAX_FRAME_SIZE → len_varint framed ++ framed = pre ++ bs → bs ≠ [] →
  try_decode z c pre = (Ok None, pre).
Proof.
  intros Hlen Heq Hbs. unfold try_decode, len_varint in *.
  destruct (app_eq_inv _ _ _ _ Heq) as [(k & Hk & ->)|(k & -> & Hk)].
  - destruct (decide (k = [])) as [->|Hne].
    + rewrite app_nil_r in Hk. rewrite <- Hk, <- (app_nil_r (varint_bytes _)), peek_len by done.
      rewrite app_nil_r in *. rewrite (proj2 (Z.ltb_lt _ _)); [done|].
      destruct framed; [done|]. simpl. lia.
    + by rewrite (peek_cut _ _ _ Hk Hne).
  - rewrite peek_len by done. rewrite (proj2 (Z.ltb_lt _ _)); [done|].
    rewrite Hk, !length_app. destruct bs; [done|]. simpl. lia.
Qed.

Lemma frame_body_bounded frame body :
  Z.of_nat (length frame) ≤ MAX_FRAME_SIZE → frame_body z c frame = Ok body →
  Z.of_nat (length body) ≤ MAX_FRAME_SIZE.
Proof.
  intros Hlen. unfold frame_body. destruct (compression_threshold c) as [t|]; [|by intros; simplify_eq].
  unfold split_varint. pose proof (read_varint_in_bounds (new_reader frame)) as Hb.
  destruct (read_varint (new_reader frame)) as [[v|e] r]; [|done]. cbn [rbind snd] in *.
  destruct (Z.ltb_spec v 0); [done|]. destruct (Z.ltb_spec MAX_FRAME_SIZE v); [done|].
  case_match; intros Hres.
  - simplify_eq. destruct Hb as (Hd & _ & _). unfold rest. rewrite length_drop, Hd. cbn [rd_data new_reader]. lia.
  - unfold decompress in Hres. repeat (case_match; simplify_eq). lia.
Qed.

Lemma split_varint_suffix bs v l : split_varint bs = Ok (v, l) → (length l < length bs)%nat.
Proof.
  unfold split_varint. destruct (read_varint_cases (new_reader bs)) as [(n & H0 & Hn & w & ->)|(e & n & ->)]; [|done].
  cbn [rbind]. intros; simplify_eq. unfold rest, advance; cbn [rd_pos rd_data new_reader] in *.
  rewrite length_drop. rewrite rest_new_reader in Hn. lia.
Qed.
End frames.

Lemma peek_frame_bounds data len n :
  peek_frame_length data = Ok (Some (len, n)) →
  0 ≤ len ≤ MAX_FRAME_SIZE ∧ (1 ≤ n ≤ 5)%nat ∧ (n ≤ length data)%nat.
Proof.
  rewrite peek_frame_length_eq.
  destruct (read_varint_cases (new_reader data)) as [(k & H0 & Hk & w & ->)|(e & k & ->)].
  - unfold check_frame_len. case_match eqn:Hm; [done|]. intros; simplify_eq. apply Z.ltb_ge in Hm.
    rewrite rest_new_reader in Hk. cbn [rd_pos new_reader advance] in *.
    destruct (wrap_range 32 w ltac:(lia)). split_and!; lia.
  - by destruct e.
Qed.

(** ** Properties *)

(** [peek_frame_length] looks at exactly the VarInt that [read_varint]
    would read: same value (as an unsigned length), same number of bytes,
    same "too long" error; the only differences are the ones its doc comment
    states, an unfinished VarInt being "not yet" instead of an error and a
    length over 2 MiB being refused. *)
Theorem peek_is_read_varint (data : list byte) :
  peek_frame_length data =
    match read_varint (new_reader data) with
    | (Ok v, r) =>
        if MAX_FRAME_SIZE <? wrap 32 v then Err (FrameTooLarge (wrap 32 v) MAX_FRAME_SIZE)
        else Ok (Some (wrap 32 v, rd_pos r))
    | (Err (BufferUnderflow _ _), _) => Ok None
    | (Err e, _) => Err e
    end.
Proof. apply peek_frame_length_eq. Qed.

(** C16. A frame produced by [encode], with or without compression, is decoded
    by [try_decode] to the packet it was made from, and exactly the frame is
    removed from the buffer, for any packet within the 2 MiB caps and any
    zlib that inflates what it deflated. *)
Theorem frame_roundtrip (z : Zlib) (c : FrameCodec) (p : RawPacket) (framed frame suf : list byte) :
  ZlibLaws z → fits_frame z c p framed → encode_frame z c p = Ok frame →
  try_decode z c (frame ++ suf) = (Ok (Some p), suf).
Proof.
  intros Hz Hfits. unfold encode_frame. rewrite (fits_framed _ _ _ _ Hfits). cbn [rbind].
  intros [= <-]. rewrite <- app_assoc. by apply try_decode_frame.
Qed.

(** As long as the last byte of a frame has not arrived, [try_decode]
    reports "not yet" and leaves the buffer as it is, whatever prefix of the
    frame is there. *)
Theorem frame_incomplete_untouched (z : Zlib) (c : FrameCodec) (p : RawPacket)
    (framed frame pre missing : list byte) :
  fits_frame z c p framed → encode_frame z c p = Ok frame → frame = pre ++ missing → missing ≠ [] →
  try_decode z c pre = (Ok None, pre).
Proof.
  intros Hfits. unfold encode_frame. rewrite (fits_framed _ _ _ _ Hfits). cbn [rbind].
  intros [= <-] Heq Hne. eapply try_decode_cut; [apply (fits_len _ _ _ _ Hfits)|done|done].
Qed.

(** Bounds of [try_decode] on an arbitrary buffer, whatever the peer sent
    and whatever zlib does with it: "not yet" leaves the buffer untouched; a
    packet takes a non-empty prefix of at most 2 MiB + 5 bytes out of the
    buffer, leaves the rest as it was, and its payload is under 2 MiB, so a
    small frame cannot inflate into an unbounded packet. *)
Theorem try_decode_bounded (z : Zlib) (c : FrameCodec) (data : list byte) :
  match try_decode z c data with
  | (Ok None, data') => data' = data
  | (Ok (Some p), data') =>
      ∃ frame, data = frame ++ data' ∧ 1 ≤ Z.of_nat (length frame) ≤ MAX_FRAME_SIZE + 5
        ∧ Z.of_nat (length (pkt_payload p)) < MAX_FRAME_SIZE
  | (Err _, data') => data' `suffix_of` data
  end.
Proof.
  unfold try_decode. destruct (peek_frame_length data) as [[[len n]|]|e] eqn:Hp; [|done|done].
  apply peek_frame_bounds in Hp as (Hlen & Hn & Hnl).
  destruct (Z.ltb_spec (Z.of_nat (length data - n)) len) as [|Hfull]; [done|].
  set (frame := take (Z.to_nat len) (drop n data)).
  assert (Z.of_nat (length frame) ≤ MAX_FRAME_SIZE) as Hfl by (unfold frame; rewrite length_take; lia).
  assert (data = take n data ++ frame ++ drop (Z.to_nat len) (drop n data)) as Heq
    by (unfold frame; by rewrite !take_drop).
  destruct (frame_body z c frame) as [body|e] eqn:Hbody; cbn [rbind].
  - apply frame_body_bounded in Hbody; [|done].
    destruct (split_varint body) as [[id payload]|e] eqn:Hs; cbn [rbind].
    + apply split_varint_suffix in Hs. exists (take n data ++ frame).
      rewrite <- app_assoc, length_app, length_take. cbn [pkt_payload]. split; [done|]. lia.
    + exists (take n data ++ frame). by rewrite <- app_assoc.
  - exists (take n data ++ frame). by rewrite <- app_assoc.
Qed.

(** A packet over the threshold, as the witnesses use it. *)
Definition sample_packet : RawPacket := mkPacket 27 [x01; x02; x03].
Definition sample_codec : FrameCodec := set_compression_threshold 2 new_codec.

Lemma sample_fits :
  fits_frame stored_zlib sample_codec sample_packet [x04; x1b; x01; x02; x03].
Proof. split; [unfold in_i; simpl; lia|vm_compute; congruence|vm_compute; reflexivity|vm_compute; congruence]. Qed.

Lemma frame_roundtrip_witness :
  try_decode stored_zlib sample_codec ([x05; x04; x1b; x01; x02; x03] ++ [xff])
  = (Ok (Some sample_packet), [xff]).
Proof.
  apply (frame_roundtrip stored_zlib sample_codec sample_packet [x04; x1b; x01; x02; x03]);
    [apply _|exact sample_fits|vm_compute; reflexivity].
Defined.

Lemma frame_incomplete_untouched_witness :
  try_decode stored_zlib sample_codec [x05; x04; x1b] = (Ok None, [x05; x04; x1b]).
Proof.
  apply (frame_incomplete_untouched stored_zlib sample_codec sample_packet [x04; x1b; x01; x02; x03]
    [x05; x04; x1b; x01; x02; x03] _ [x01; x02; x03]);
    [exact sample_fits|vm_compute; reflexivity|reflexivity|discriminate].
Defined.
