(* ===== verification/Cipher.v ===== *)
(** * AES-128-CFB8

    [crates/minerider-protocol/src/crypto/aes.rs].  The block cipher is the
    [aes] crate: [aes key block] stands for [Aes128Enc::new(key)] followed
    by [encrypt_block], and is an arbitrary function here, since the mode
    inverts itself whatever the block function is. *)

From S2P Require Import Prelude Machine.

Local Open Scope Z_scope.

Record StreamCipher : Type := mkCipher {
  aes_key : list byte;
  enc_iv : list byte;
  dec_iv : list byte;
}.

(** [StreamCipher::new]: key = IV = shared secret, in both directions. *)
Definition new_cipher (shared_secret : list byte) : StreamCipher :=
  mkCipher shared_secret shared_secret shared_secret.

Definition byte_xor (a b : byte) : byte := byte_of_Z (Z.lxor (u8 a) (u8 b)).

(** [iv.copy_within(1.., 0); iv[15] = b]: the register keeps its length, the
    oldest byte leaves and [b] becomes the last one. *)
Definition shift_iv (iv : list byte) (b : byte) : list byte := drop 1 iv ++ [b].

Section cfb8.
Context (aes : list byte → list byte → list byte).

(** [t[0]] after [encrypt_block(&mut t)] on a copy of the register. *)
Definition keystream (key iv : list byte) : byte := hd x00 (aes key iv).

(** [for byte in data.iter_mut()]: the register and the data left behind. *)
Fixpoint encrypt_loop (key iv data : list byte) : list byte * list byte :=
  match data with
  | [] => (iv, [])
  | p :: data =>
      let c := byte_xor p (keystream key iv) in
      let '(iv', out) := encrypt_loop key (shift_iv iv c) data in
      (iv', c :: out)
  end.

Fixpoint decrypt_loop (key iv data : list byte) : list byte * list byte :=
  match data with
  | [] => (iv, [])
  | c :: data =>
      let p := byte_xor c (keystream key iv) in
      let '(iv', out) := decrypt_loop key (shift_iv iv c) data in
      (iv', p :: out)
  end.

Definition encrypt (s : StreamCipher) (data : list byte) : StreamCipher * list byte :=
  let '(iv, out) := encrypt_loop (aes_key s) (enc_iv s) data in
  (mkCipher (aes_key s) iv (dec_iv s), out).

Definition decrypt (s : StreamCipher) (data : list byte) : StreamCipher * list byte :=
  let '(iv, out) := decrypt_loop (aes_key s) (dec_iv s) data in
  (mkCipher (aes_key s) (enc_iv s) iv, out).

(** ** Lemmas *)

Lemma lxor_u8_range a b : in_u 8 (Z.lxor (u8 a) (u8 b)).
Proof.
  assert (0 ≤ Z.lxor (u8 a) (u8 b)) by (apply Z.lxor_nonneg; pose proof (u8_range a); pose proof (u8_range b); lia).
  split; [done|]. destruct (decide (Z.lxor (u8 a) (u8 b) = 0)) as [->|]; [lia|].
  apply Z.log2_lt_pow2; [lia|]. pose proof (u8_range a) as Ha. pose proof (u8_range b) as Hb.
  pose proof (Z.log2_lxor (u8 a) (u8 b) ltac:(lia) ltac:(lia)).
  pose proof (Z.log2_le_mono (u8 a) 255 ltac:(lia)). pose proof (Z.log2_le_mono (u8 b) 255 ltac:(lia)).
  change (Z.log2 255) with 7 in *. lia.
Qed.

Lemma byte_xor_involutive a k : byte_xor (byte_xor a k) k = a.
Proof.
  unfold byte_xor. rewrite u8_of_Z_small by apply lxor_u8_range.
  by rewrite Z.lxor_assoc, Z.lxor_nilpotent, Z.lxor_0_r, byte_of_u8.
Qed.

(** The receiver's register follows the sender's: both shift in the
    ciphertext. *)
Lemma decrypt_encrypt_loop key iv data :
  decrypt_loop key iv (encrypt_loop key iv data).2 = ((encrypt_loop key iv data).1, data).
Proof.
  revert iv. induction data as [|p data IH]; intros iv; simpl; [done|].
  specialize (IH (shift_iv iv (byte_xor p (keystream key iv)))).
  destruct (encrypt_loop key _ data) as [iv' out]; simpl in *.
  rewrite IH. by rewrite byte_xor_involutive.
Qed.

Lemma decrypt_loop_app key iv d1 d2 :
  decrypt_loop key iv (d1 ++ d2) =
    let '(iv1, o1) := decrypt_loop key iv d1 in
    let '(iv2, o2) := decrypt_loop key iv1 d2 in (iv2, o1 ++ o2).
Proof.
  revert iv. induction d1 as [|c d1 IH]; intros iv; simpl; [by destruct (decrypt_loop _ _ _)|].
  rewrite IH. destruct (decrypt_loop key _ d1) as [iv1 o1]. by destruct (decrypt_loop _ iv1 d2).
Qed.

Lemma encrypt_loop_app key iv d1 d2 :
  encrypt_loop key iv (d1 ++ d2) =
    let '(iv1, o1) := encrypt_loop key iv d1 in
    let '(iv2, o2) := encrypt_loop key iv1 d2 in (iv2, o1 ++ o2).
Proof.
  revert iv. induction d1 as [|c d1 IH]; intros iv; simpl; [by destruct (encrypt_loop _ _ _)|].
  rewrite IH. destruct (encrypt_loop key _ d1) as [iv1 o1]. by destruct (encrypt_loop _ iv1 d2).
Qed.

Lemma encrypt_loop_length key iv data :
  length (encrypt_loop key iv data).2 = length data
  ∧ ((0 < length iv)%nat → length (encrypt_loop key iv data).1 = length iv).
Proof.
  revert iv. induction data as [|p data IH]; intros iv; simpl; [done|].
  destruct (IH (shift_iv iv (byte_xor p (keystream key iv)))) as [H1 H2].
  destruct (encrypt_loop key _ data) as [iv' out]; simpl in *. split; [by f_equal|].
  intros Hiv. assert (length (shift_iv iv (byte_xor p (keystream key iv))) = length iv) as Hs.
  { unfold shift_iv. rewrite length_app, length_drop. simpl. lia. }
  rewrite H2, Hs by lia. done.
Qed.

(** Encrypting or decrypting a sequence of buffers, one call each. *)
Fixpoint encrypt_all (s : StreamCipher) (ds : list (list byte)) : StreamCipher * list byte :=
  match ds with
  | [] => (s, [])
  | d :: ds => let '(s1, o1) := encrypt s d in let '(s2, o2) := encrypt_all s1 ds in (s2, o1 ++ o2)
  end.

Fixpoint decrypt_all (s : StreamCipher) (ds : list (list byte)) : StreamCipher * list byte :=
  match ds with
  | [] => (s, [])
  | d :: ds => let '(s1, o1) := decrypt s d in let '(s2, o2) := decrypt_all s1 ds in (s2, o1 ++ o2)
  end.

Lemma encrypt_app s d1 d2 :
  encrypt s (d1 ++ d2) =
    let '(s1, o1) := encrypt s d1 in let '(s2, o2) := encrypt s1 d2 in (s2, o1 ++ o2).
Proof.
  unfold encrypt. rewrite encrypt_loop_app.
  destruct (encrypt_loop (aes_key s) (enc_iv s) d1) as [iv1 o1]; simpl. by destruct (encrypt_loop _ iv1 d2).
Qed.

Lemma decrypt_app s d1 d2 :
  decrypt s (d1 ++ d2) =
    let '(s1, o1) := decrypt s d1 in let '(s2, o2) := decrypt s1 d2 in (s2, o1 ++ o2).
Proof.
  unfold decrypt. rewrite decrypt_loop_app.
  destruct (decrypt_loop (aes_key s) (dec_iv s) d1) as [iv1 o1]; simpl. by destruct (decrypt_loop _ iv1 d2).
Qed.

Lemma encrypt_all_concat s ds : encrypt_all s ds = encrypt s (concat ds).
Proof.
  revert s. induction ds as [|d ds IH]; intros s; simpl; [by destruct s|].
  rewrite encrypt_app. destruct (encrypt s d) as [s1 o1]. by rewrite IH.
Qed.

Lemma decrypt_all_concat s ds : decrypt_all s ds = decrypt s (concat ds).
Proof.
  revert s. induction ds as [|d ds IH]; intros s; simpl; [by destruct s|].
  rewrite decrypt_app. destruct (decrypt s d) as [s1 o1]. by rewrite IH.
Qed.

(** [rx] is ready to decrypt what [tx] encrypts. *)
Definition in_sync (tx rx : StreamCipher) : Prop :=
  aes_key rx = aes_key tx ∧ dec_iv rx = enc_iv tx.

Lemma decrypt_encrypt tx rx data :
  in_sync tx rx →
  (decrypt rx (encrypt tx data).2).2 = data
  ∧ in_sync (encrypt tx data).1 (decrypt rx (encrypt tx data).2).1.
Proof.
  intros [Hk Hiv]. unfold encrypt, decrypt, in_sync. rewrite Hk, Hiv.
  pose proof (decrypt_encrypt_loop (aes_key tx) (enc_iv tx) data) as H.
  destruct (encrypt_loop (aes_key tx) (enc_iv tx) data) as [iv out]; simpl in *. by rewrite H.
Qed.
End cfb8.

(** ** Properties *)

(** Two ends that share a secret understand each other whatever the block
    cipher: the buffers one end encrypts, one call each, are recovered by the
    other from the concatenated ciphertext cut at arbitrary places, and the
    two registers are in step again afterwards. *)
Theorem cipher_stream_roundtrip (aes : list byte → list byte → list byte) (secret : list byte)
    (sent received : list (list byte)) :
  concat received = (encrypt_all aes (new_cipher secret) sent).2 →
  (decrypt_all aes (new_cipher secret) received).2 = concat sent
  ∧ in_sync (encrypt_all aes (new_cipher secret) sent).1 (decrypt_all aes (new_cipher secret) received).1.
Proof.
  intros Hrx. rewrite decrypt_all_concat, Hrx, encrypt_all_concat. by apply decrypt_encrypt.
Qed.

(** A block function for the witness: the block itself, reversed. *)
Lemma cipher_stream_roundtrip_witness :
  let secret := map byte_of_Z [7; 1; 2; 3; 4; 5; 6; 7; 8; 9; 10; 11; 12; 13; 14; 99] in
  (decrypt_all (λ _ b, reverse b) (new_cipher secret)
    [[x6b]; (drop 1 (encrypt_all (λ _ b, reverse b) (new_cipher secret) [[x08; x01]; [xff; x00; x20]]).2)]).2
  = [x08; x01; xff; x00; x20].
Proof.
  refine (proj1 (cipher_stream_roundtrip (λ _ b, reverse b) _ [[x08; x01]; [xff; x00; x20]] _ _)).
  vm_compute. reflexivity.
Defined.
