(* ===== verification/Errors.v ===== *)
(** * Errors and their retry classes

    [src/core/error.rs] and the error types of [src/network/socks5.rs].
    Texts that only a human reads (I/O sources, formatted reasons) are not
    kept; everything the code matches on is. *)

From S2P Require Import Prelude Machine Reader.

Local Open Scope Z_scope.

Inductive RetryClass : Type :=
  | Transient
  | ServerRejected
  | AuthFailure
  | ProtocolIncompatible.

Inductive Socks5Reply : Type :=
  | Succeeded
  | GeneralFailure
  | NotAllowedByRuleset
  | NetworkUnreachable
  | HostUnreachable
  | ConnectionRefused
  | TtlExpired
  | CommandNotSupported
  | AddressTypeNotSupported
  | Unknown (code : Z).

#[export] Instance RetryClass_eq_dec : EqDecision RetryClass.
Proof. solve_decision. Defined.
#[export] Instance Socks5Reply_eq_dec : EqDecision Socks5Reply.
Proof. solve_decision. Defined.

Definition from_code (code : Z) : Socks5Reply :=
  match code with
  | 0 => Succeeded
  | 1 => GeneralFailure
  | 2 => NotAllowedByRuleset
  | 3 => NetworkUnreachable
  | 4 => HostUnreachable
  | 5 => ConnectionRefused
  | 6 => TtlExpired
  | 7 => CommandNotSupported
  | 8 => AddressTypeNotSupported
  | other => Unknown other
  end.

Definition reply_retry_class (r : Socks5Reply) : RetryClass :=
  match r with
  | Succeeded => Transient
  | NotAllowedByRuleset => ServerRejected
  | GeneralFailure | NetworkUnreachable | HostUnreachable | ConnectionRefused | TtlExpired => Transient
  | CommandNotSupported | AddressTypeNotSupported | Unknown _ => ProtocolIncompatible
  end.

Inductive ProxySocks5Error : Type :=
  | ProxyConnect (endpoint : string)
  | ProxyIo (endpoint phase : string)
  | ProxyTimeout (endpoint phase : string)
  | NoAcceptableAuthMethod (endpoint : string)
  | AuthenticationRejected (endpoint : string)
  | ConnectRefused (endpoint target : string) (reply : Socks5Reply)
  | ProxyProtocol (endpoint phase : string)
  | UsernameTooLong
  | PasswordTooLong
  | TargetTooLong (target : string).

Definition proxy_retry_class (e : ProxySocks5Error) : RetryClass :=
  match e with
  | ProxyConnect _ | ProxyIo _ _ | ProxyTimeout _ _ => Transient
  | NoAcceptableAuthMethod _ | AuthenticationRejected _ => AuthFailure
  | UsernameTooLong | PasswordTooLong => AuthFailure
  | TargetTooLong _ | ProxyProtocol _ _ => ProtocolIncompatible
  | ConnectRefused _ _ reply => reply_retry_class reply
  end.

Inductive MineRiderError : Type :=
  | Io
  | Wire (e : ProtocolError)
  | Protocol
  | ConnectionClosed
  | Disconnected (reason : string)
  | CryptoError
  | Timeout
  | Auth
  | AuthTransport
  | Proxy (inner : ProxySocks5Error).

Definition retry_class (e : MineRiderError) : RetryClass :=
  match e with
  | Io | Timeout | ConnectionClosed | AuthTransport => Transient
  | Disconnected _ => ServerRejected
  | Auth => AuthFailure
  | Wire _ | Protocol | CryptoError => ProtocolIncompatible
  | Proxy inner => proxy_retry_class inner
  end.
