(* ===== verification/Socks5.v ===== *)
(** * SOCKS5 CONNECT

    [src/network/socks5.rs]: the negotiation with the proxy, on a stream that
    is a script of what the peer sends and of how each write ends.  The
    address parser is [std::net]'s, transcribed here because the encoding of
    the target depends on it. *)

From S2P Require Import Prelude Machine Reader Utf8 Errors.

Local Open Scope Z_scope.

Definition VERSION : Z := 5.
Definition METHOD_NO_AUTH : Z := 0.
Definition METHOD_USER_PASS : Z := 2.
Definition METHOD_NO_ACCEPTABLE : Z := 255.
Definition USER_PASS_VERSION : Z := 1.
Definition USER_PASS_SUCCESS : Z := 0.
Definition CMD_CONNECT : Z := 1.
Definition ATYP_IPV4 : Z := 1.
Definition ATYP_DOMAIN : Z := 3.
Definition ATYP_IPV6 : Z := 4.
Definition MAX_FIELD_LEN : Z := 255.

Record Socks5Credentials : Type := mkCredentials {
  username : string;
  password : string;
}.

Record Socks5ProxyConfig : Type := mkProxyConfig {
  proxy_host : string;
  proxy_port : Z;
  credentials : option Socks5Credentials;
}.

Definition new_proxy_config (host : string) (port : Z) : Socks5ProxyConfig :=
  mkProxyConfig host port None.

Definition with_credentials (c : Socks5Credentials) (p : Socks5ProxyConfig) : Socks5ProxyConfig :=
  mkProxyConfig (proxy_host p) (proxy_port p) (Some c).

(** ** [std::net]'s address parser

    A parser takes the input left and returns a value with what it did not
    consume; [None] consumes nothing ([read_atomically]). *)

Module Ip.
Definition parser (A : Type) : Type := list byte → option (A * list byte).

Definition digit (radix : Z) (b : byte) : option Z :=
  let z := u8 b in
  let d :=
    if within 48 57 z then z - 48
    else if within 97 102 z then z - 87
    else if within 65 70 z then z - 55
    else radix in
  if d <? radix then Some d else None.

(** The digits in front, their count and their value. *)
Fixpoint digits (radix : Z) (count : nat) (value : Z) (bs : list byte) : nat * Z * list byte :=
  match bs with
  | b :: bs' =>
      match digit radix b with
      | Some d => digits radix (S count) (value * radix + d) bs'
      | None => (count, value, bs)
      end
  | [] => (count, value, [])
  end.

(** [read_number]: between one and [max_digits] digits, a value of at most
    [max], and no superfluous leading zero unless [zero_prefix]. *)
Definition read_number (radix : Z) (max_digits : nat) (max : Z) (zero_prefix : bool) : parser Z :=
  λ bs,
    let '(count, value, rest) := digits radix 0 0 bs in
    if bool_decide (count = 0%nat) || bool_decide (max_digits < count)%nat || (max <? value)
       || (negb zero_prefix && bool_decide (1 < count)%nat && bool_decide (head bs = Some x30))
    then None
    else Some (value, rest).

Definition read_given_char (c : byte) : parser unit := λ bs,
  match bs with
  | b :: rest => if decide (b = c) then Some (tt, rest) else None
  | [] => None
  end.

(** [read_separator]: the separator first, unless this is element 0. *)
Definition read_separator {A} (sep : byte) (index : nat) (p : parser A) : parser A := λ bs,
  match index with
  | O => p bs
  | S _ => '(_, bs) ← read_given_char sep bs; p bs
  end.

Definition octet (i : nat) : parser Z := read_separator x2e i (read_number 10 3 255 false).

Definition read_ipv4_addr : parser (list Z) := λ bs,
  '(a, bs) ← octet 0 bs; '(b, bs) ← octet 1 bs; '(c, bs) ← octet 2 bs; '(d, bs) ← octet 3 bs;
  Some ([a; b; c; d], bs).

(** [read_groups]: [n] of [limit] groups are left; the flag says that the
    last two came from an embedded IPv4 address. *)
Fixpoint read_groups (limit n : nat) (bs : list byte) : list Z * bool * list byte :=
  match n with
  | O => ([], false, bs)
  | S n' =>
      let i := (limit - n)%nat in
      let v4 := if decide (i < limit - 1)%nat then read_separator x3a i read_ipv4_addr bs else None in
      match v4 with
      | Some ([a; b; c; d], bs) => ([a * 256 + b; c * 256 + d], true, bs)
      | _ =>
          match read_separator x3a i (read_number 16 4 65535 true) bs with
          | Some (g, bs) => let '(gs, f, bs) := read_groups limit n' bs in (g :: gs, f, bs)
          | None => ([], false, bs)
          end
      end
  end.

Definition read_ipv6_addr : parser (list Z) := λ bs,
  let '(head, head_ipv4, bs) := read_groups 8 8 bs in
  if decide (length head = 8)%nat then Some (head, bs)
  else if head_ipv4 then None
  else
    '(_, bs) ← read_given_char x3a bs;
    '(_, bs) ← read_given_char x3a bs;
    let limit := (7 - length head)%nat in
    let '(tail, _, bs) := read_groups limit limit bs in
    Some (head ++ replicate (8 - length head - length tail) 0 ++ tail, bs).

Inductive IpAddr : Type := V4 (octets : list Z) | V6 (groups : list Z).

(** [str::parse::<IpAddr>]: all of the input must be consumed. *)
Definition parse (bs : list byte) : option IpAddr :=
  match read_ipv4_addr bs with
  | Some (o, []) => Some (V4 o)
  | Some _ => None
  | None => match read_ipv6_addr bs with Some (g, []) => Some (V6 g) | _ => None end
  end.
End Ip.

(** ** Encoding the target *)

Definition encode_ipv4 (octets : list Z) : list byte := map byte_of_Z (ATYP_IPV4 :: octets).

(** [Ipv6Addr::octets]: each group in network order. *)
Definition encode_ipv6 (groups : list Z) : list byte :=
  byte_of_Z ATYP_IPV6 :: concat (map (be_bytes 2) groups).

Definition encode_target (host : string) : result ProxySocks5Error (list byte) :=
  match Ip.parse (bytes_of host) with
  | Some (Ip.V4 o) => Ok (encode_ipv4 o)
  | Some (Ip.V6 g) => Ok (encode_ipv6 g)
  | None =>
      if MAX_FIELD_LEN <? Z.of_nat (length (bytes_of host)) then Err (TargetTooLong host)
      else Ok (byte_of_Z ATYP_DOMAIN :: byte_of_Z (Z.of_nat (length (bytes_of host))) :: bytes_of host)
  end.

(** ** The stream *)

(** How reading ends once the scripted bytes are used up: the peer closed
    ([UnexpectedEof]), the deadline passed, or another I/O error. *)
Inductive stream_end : Type := EndEof | EndDeadline | EndIo.
(** How a write ends; one that fails has sent its first [n] bytes. *)
Inductive write_end : Type := WriteOk | WriteDeadline (n : nat) | WriteIo (n : nat).

Record stream : Type := mkStream {
  incoming : list byte;
  incoming_end : stream_end;
  outgoing : list byte;
  write_script : list write_end;
}.

Abbreviation Proxied A := (M stream ProxySocks5Error A).

Definition write_all (data : list byte) (endpoint phase : string) : Proxied unit := λ s,
  let sent d := mkStream (incoming s) (incoming_end s) (outgoing s ++ d) (tail (write_script s)) in
  match head (write_script s) with
  | Some (WriteDeadline n) => (Err (ProxyTimeout endpoint phase), sent (take n data))
  | Some (WriteIo n) => (Err (ProxyIo endpoint phase), sent (take n data))
  | Some WriteOk | None => (Ok tt, sent data)
  end.

Definition read_exact (n : nat) (endpoint phase : string) : Proxied (list byte) := λ s,
  if decide (n ≤ length (incoming s))%nat then
    (Ok (take n (incoming s)),
     mkStream (drop n (incoming s)) (incoming_end s) (outgoing s) (write_script s))
  else
    (Err (match incoming_end s with
          | EndEof => ProxyProtocol endpoint phase
          | EndDeadline => ProxyTimeout endpoint phase
          | EndIo => ProxyIo endpoint phase
          end),
     mkStream [] (incoming_end s) (outgoing s) (write_script s)).

(** [buf[i]] of a buffer that [read_exact] filled. *)
Definition at_ (bs : list byte) (i : nat) : Z := u8 (nth i bs x00).

(** ** The negotiation *)

Definition auth_request (creds : Socks5Credentials) : list byte :=
  let user := bytes_of (username creds) in
  let pass := bytes_of (password creds) in
  byte_of_Z USER_PASS_VERSION :: byte_of_Z (Z.of_nat (length user)) :: user
  ++ byte_of_Z (Z.of_nat (length pass)) :: pass.

Definition authenticate (endpoint : string) (creds : Socks5Credentials) : Proxied unit :=
  write_all (auth_request creds) endpoint "authentication" ;;;
  let* reply := read_exact 2 endpoint "authentication" in
  if negb (at_ reply 0 =? USER_PASS_VERSION) then raise (ProxyProtocol endpoint "authentication reply")
  else if negb (at_ reply 1 =? USER_PASS_SUCCESS) then raise (AuthenticationRejected endpoint)
  else ret tt.

(** The length checks made before anything is written. *)
Definition check_credentials (creds : option Socks5Credentials) : result ProxySocks5Error unit :=
  match creds with
  | None => Ok tt
  | Some c =>
      if MAX_FIELD_LEN <? Z.of_nat (length (bytes_of (username c))) then Err UsernameTooLong
      else if MAX_FIELD_LEN <? Z.of_nat (length (bytes_of (password c))) then Err PasswordTooLong
      else Ok tt
  end.

Definition offered (creds : option Socks5Credentials) : Z :=
  match creds with Some _ => METHOD_USER_PASS | None => METHOD_NO_AUTH end.

Definition greeting (creds : option Socks5Credentials) : list byte :=
  map byte_of_Z [VERSION; 1; offered creds].

Definition connect_request (target : list byte) (port : Z) : list byte :=
  map byte_of_Z [VERSION; CMD_CONNECT; 0] ++ target ++ be_bytes 2 port.

(** The length of BND.ADDR, which a domain reply states in one more byte. *)
Definition bound_addr_len (endpoint : string) (atyp : Z) : Proxied nat :=
  if atyp =? ATYP_IPV4 then ret 4%nat
  else if atyp =? ATYP_IPV6 then ret 16%nat
  else if atyp =? ATYP_DOMAIN then
    let* len := read_exact 1 endpoint "CONNECT reply" in ret (Z.to_nat (at_ len 0))
  else raise (ProxyProtocol endpoint "CONNECT reply").

(** [format!("{target_host}:{target_port}")] is kept as the pair's text. *)
Definition target_text (host : string) (port : Z) : string := (host ++ ":" ++ pretty port)%string.

(** The method negotiation of [negotiate]. *)
Definition select_method (endpoint : string) (creds : option Socks5Credentials) : Proxied unit :=
  write_all (greeting creds) endpoint "method negotiation" ;;;
  let* method_reply := read_exact 2 endpoint "method negotiation" in
  if negb (at_ method_reply 0 =? VERSION) then raise (ProxyProtocol endpoint "method negotiation reply")
  else if at_ method_reply 1 =? offered creds then ret tt
  else if at_ method_reply 1 =? METHOD_NO_ACCEPTABLE then raise (NoAcceptableAuthMethod endpoint)
  else raise (ProxyProtocol endpoint "method negotiation reply").

(** The CONNECT request and its reply. *)
Definition request_connect (endpoint : string) (target : list byte) (target_host : string)
    (target_port : Z) : Proxied unit :=
  write_all (connect_request target target_port) endpoint "CONNECT request" ;;;
  let* header := read_exact 4 endpoint "CONNECT reply" in
  if negb (at_ header 0 =? VERSION) then raise (ProxyProtocol endpoint "CONNECT reply")
  else
  let* len := bound_addr_len endpoint (at_ header 3) in
  read_exact (len + 2) endpoint "CONNECT reply" ;;;
  let reply := from_code (at_ header 1) in
  if decide (reply = Succeeded) then ret tt
  else raise (ConnectRefused endpoint (target_text target_host target_port) reply).

Definition negotiate (endpoint : string) (creds : option Socks5Credentials)
    (target_host : string) (target_port : Z) : Proxied unit :=
  lift (check_credentials creds) ;;;
  let* target := lift (encode_target target_host) in
  select_method endpoint creds ;;;
  match creds with Some c => authenticate endpoint c | None => ret tt end ;;;
  request_connect endpoint target target_host target_port.

(** [connect]: the TCP connection to the proxy is the environment's answer. *)
Inductive tcp_connect : Type := TcpStream (s : stream) | TcpRefused | TcpDeadline | TcpNodelayFailed.

Definition endpoint_of (p : Socks5ProxyConfig) : string :=
  (proxy_host p ++ ":" ++ pretty (proxy_port p))%string.

Definition proxy_connect (proxy : Socks5ProxyConfig) (tcp : tcp_connect) (target_host : string)
    (target_port : Z) : result ProxySocks5Error stream :=
  let endpoint := endpoint_of proxy in
  match tcp with
  | TcpDeadline => Err (ProxyTimeout endpoint "proxy TCP connect")
  | TcpRefused => Err (ProxyConnect endpoint)
  | TcpNodelayFailed => Err (ProxyIo endpoint "proxy TCP connect")
  | TcpStream s =>
      let '(res, s') := negotiate endpoint (credentials proxy) target_host target_port s in
      let? _ := res in Ok s'
  end.

(** ** Configuration from the environment *)

Inductive EnvConfigError : Type := Missing (var : string) | InvalidPort (var : string) | PartialCredentials.

(** [str::parse::<u16>]: an optional plus sign, then decimal digits. *)
Definition parse_u16 (s : string) : option Z :=
  let bs := bytes_of s in
  let bs := match bs with x2b :: (_ :: _) as rest => rest | _ => bs end in
  match Ip.digits 10 0 0 bs with
  | (S _, value, []) => if value <=? u16_max then Some value else None
  | _ => None
  end.

Definition from_env (env : string → option string) (prefix : string) :
    result EnvConfigError (option Socks5ProxyConfig) :=
  match env (prefix ++ "_HOST")%string with
  | None => Ok None
  | Some host =>
      let port_var := (prefix ++ "_PORT")%string in
      match env port_var with
      | None => Err (Missing port_var)
      | Some text =>
          match parse_u16 text with
          | None => Err (InvalidPort port_var)
          | Some port =>
              let config := new_proxy_config host port in
              match env (prefix ++ "_USERNAME")%string, env (prefix ++ "_PASSWORD")%string with
              | Some username, Some password =>
                  Ok (Some (with_credentials (mkCredentials username password) config))
              | None, None => Ok (Some config)
              | _, _ => Err PartialCredentials
              end
          end
      end
  end.

(** ** Stream lemmas *)

Definition same_output (s s' : stream) : Prop := outgoing s' = outgoing s.
#[export] Instance same_output_preorder : PreOrder same_output.
Proof. split; unfold same_output; [by intros ?|]. intros ??? H1 H2. by rewrite H2. Qed.

Definition receive (s : stream) (rest : list byte) : stream :=
  mkStream rest (incoming_end s) (outgoing s) (write_script s).
Definition send (s : stream) (data : list byte) : stream :=
  mkStream (incoming s) (incoming_end s) (outgoing s ++ data) (tail (write_script s)).

Lemma read_exact_app n ep ph bs rest s :
  incoming s = bs ++ rest → length bs = n → read_exact n ep ph s = (Ok bs, receive s rest).
Proof.
  intros Hs Hl. unfold read_exact. rewrite Hs, decide_True by (rewrite length_app; lia).
  by rewrite take_app_exact, drop_app_exact.
Qed.

Lemma read_exact_inv n ep ph s bs s' :
  read_exact n ep ph s = (Ok bs, s') → length bs = n ∧ incoming s = bs ++ incoming s' ∧ s' = receive s (incoming s').
Proof.
  unfold read_exact. case_decide; [|done]. intros; simplify_eq; simpl.
  rewrite length_take, take_drop. split; [lia|done].
Qed.

Lemma read_exact_output n ep ph : preserves same_output (read_exact n ep ph).
Proof. intros s. unfold read_exact. by case_decide. Qed.
#[export] Hint Resolve read_exact_output : preserves.

Lemma bound_addr_len_output ep atyp : preserves same_output (bound_addr_len ep atyp).
Proof. unfold bound_addr_len. mauto. Qed.
#[export] Hint Resolve bound_addr_len_output : preserves.

Lemma write_all_cases data ep ph s :
  write_all data ep ph s = (Ok tt, send s data)
  ∨ ∃ e n, write_all data ep ph s = (Err e, send s (take n data)).
Proof.
  unfold write_all. destruct (head (write_script s)) as [[]|]; [by left|right..|by left]; by eexists _, _.
Qed.

Lemma write_all_ok data ep ph s : write_script s = [] → write_all data ep ph s = (Ok tt, send s data).
Proof. intros Hw. unfold write_all, send. by rewrite Hw. Qed.

Lemma write_all_inv data ep ph s s' : write_all data ep ph s = (Ok tt, s') → s' = send s data.
Proof. destruct (write_all_cases data ep ph s) as [->|(e & n & ->)]; naive_solver. Qed.

Lemma at_inv b z : u8 b = z → b = byte_of_Z z.
Proof. intros <-. by rewrite byte_of_u8. Qed.

Lemma two_bytes bs x y :
  length bs = 2%nat → at_ bs 0 = x → at_ bs 1 = y → bs = map byte_of_Z [x; y].
Proof. destruct bs as [|a [|b [|]]]; intros Hl <- <-; simplify_eq/=. unfold at_; simpl. by rewrite !byte_of_u8. Qed.

(** ** The peer's side of a successful exchange *)

(** BND.ADDR and BND.PORT as the header's address type announces them. *)
Definition bound_field (atyp : Z) (bnd : list byte) : Prop :=
  (atyp = ATYP_IPV4 ∧ length bnd = 6%nat)
  ∨ (atyp = ATYP_IPV6 ∧ length bnd = 18%nat)
  ∨ (atyp = ATYP_DOMAIN ∧ ∃ len tail, bnd = len :: tail ∧ length tail = (Z.to_nat (u8 len) + 2)%nat).

Definition auth_accepted (creds : option Socks5Credentials) : list byte :=
  match creds with
  | Some _ => map byte_of_Z [USER_PASS_VERSION; USER_PASS_SUCCESS]
  | None => []
  end.

Definition accepting_replies (creds : option Socks5Credentials) (replies : list byte) : Prop :=
  ∃ rsv atyp bnd,
    replies = map byte_of_Z [VERSION; offered creds] ++ auth_accepted creds
              ++ byte_of_Z VERSION :: byte_of_Z 0 :: rsv :: atyp :: bnd
    ∧ bound_field (u8 atyp) bnd.

(** Everything the client sends in a complete exchange. *)
Definition messages (creds : option Socks5Credentials) (target : list byte) (port : Z) : list (list byte) :=
  greeting creds
  :: (match creds with Some c => [auth_request c] | None => [] end)
  ++ [connect_request target port].

Lemma bound_addr_inv ep atyp s len s1 bs s2 :
  bound_addr_len ep atyp s = (Ok len, s1) → read_exact (len + 2) ep "CONNECT reply" s1 = (Ok bs, s2) →
  ∃ bnd, bound_field atyp bnd ∧ incoming s = bnd ++ incoming s2 ∧ s2 = receive s (incoming s2).
Proof.
  unfold bound_addr_len, bound_field. intros Hlen (Hl & Hin & Hs2)%read_exact_inv.
  destruct (Z.eqb_spec atyp ATYP_IPV4); [unfold ret in Hlen; simplify_eq; exists bs; auto|].
  destruct (Z.eqb_spec atyp ATYP_IPV6); [unfold ret in Hlen; simplify_eq; exists bs; auto|].
  destruct (Z.eqb_spec atyp ATYP_DOMAIN); [|done].
  apply bind_Ok_inv in Hlen as (l & s0 & (Hl0 & Hin0 & Hs0)%read_exact_inv & H). unfold ret in H. simplify_eq.
  destruct l as [|c [|]]; simplify_eq/=. exists (c :: bs). rewrite Hin0, Hin. split; [|split; [done|]].
  - right; right. eauto.
  - rewrite Hs2, Hs0. done.
Qed.

Lemma bound_addr_run ep atyp s bnd rest :
  bound_field atyp bnd → incoming s = bnd ++ rest →
  ∃ len s1 bs, bound_addr_len ep atyp s = (Ok len, s1)
    ∧ read_exact (len + 2) ep "CONNECT reply" s1 = (Ok bs, receive s rest).
Proof.
  unfold bound_field, bound_addr_len. intros [[-> Hl]|[[-> Hl]|(-> & c & tail & -> & Hl)]] Hin.
  - exists 4%nat, s, bnd. split; [done|]. by apply read_exact_app.
  - exists 16%nat, s, bnd. split; [done|]. by apply read_exact_app.
  - exists (Z.to_nat (u8 c)), (receive s (tail ++ rest)), tail. cbn [Z.eqb ATYP_DOMAIN ATYP_IPV4 ATYP_IPV6].
    split; [|exact (read_exact_app _ _ _ tail rest (receive s (tail ++ rest)) eq_refl Hl)]. simpl. by rewrite (bind_Ok _ _ _ _ _ (read_exact_app 1 _ _ [c] _ s Hin eq_refl)).
Qed.

Lemma from_code_succeeded z : from_code z = Succeeded ↔ z = 0.
Proof.
  split; [|by intros ->]. unfold from_code. destruct z as [|p|p]; [done| |done].
  do 4 (try (destruct p as [p|p|]; try done)).
Qed.

Lemma bind_write {A} data ep ph (k : unit → Proxied A) s a s' :
  bind (write_all data ep ph) k s = (Ok a, s') → k tt (send s data) = (Ok a, s').
Proof. intros ([] & s1 & ->%write_all_inv & H)%bind_Ok_inv. done. Qed.

Lemma authenticate_inv ep c s s' :
  authenticate ep c s = (Ok tt, s') →
  incoming s = auth_accepted (Some c) ++ incoming s'
  ∧ s' = receive (send s (auth_request c)) (incoming s').
Proof.
  unfold authenticate. intros H%bind_write.
  apply bind_Ok_inv in H as (reply & s1 & (Hl & Hin & Hs1)%read_exact_inv & H).
  destruct (Z.eqb_spec (at_ reply 0) USER_PASS_VERSION) as [H0|]; [|done].
  destruct (Z.eqb_spec (at_ reply 1) USER_PASS_SUCCESS) as [H1|]; [|done].
  cbn [negb] in H. unfold ret in H. simplify_eq.
  rewrite (two_bytes reply _ _ Hl H0 H1) in Hin. by split.
Qed.

Lemma select_method_inv ep creds s s' :
  select_method ep creds s = (Ok tt, s') →
  incoming s = map byte_of_Z [VERSION; offered creds] ++ incoming s'
  ∧ s' = receive (send s (greeting creds)) (incoming s').
Proof.
  unfold select_method. intros H%bind_write.
  apply bind_Ok_inv in H as (reply & s1 & (Hl & Hin & Hs1)%read_exact_inv & H).
  destruct (Z.eqb_spec (at_ reply 0) VERSION) as [H0|]; [|done]. cbn [negb] in H.
  destruct (Z.eqb_spec (at_ reply 1) (offered creds)) as [H1|]; [|by case_match].
  unfold ret in H. simplify_eq. rewrite (two_bytes reply _ _ Hl H0 H1) in Hin. by split.
Qed.

Lemma request_connect_inv ep target host port s s' :
  request_connect ep target host port s = (Ok tt, s') →
  ∃ rsv atyp bnd, bound_field (u8 atyp) bnd
    ∧ incoming s = byte_of_Z VERSION :: byte_of_Z 0 :: rsv :: atyp :: bnd ++ incoming s'
    ∧ s' = receive (send s (connect_request target port)) (incoming s').
Proof.
  unfold request_connect. intros H%bind_write.
  apply bind_Ok_inv in H as (h & s0 & (Hl & Hin & Hs0)%read_exact_inv & H).
  destruct (Z.eqb_spec (at_ h 0) VERSION) as [H0|]; [|done]. cbn [negb] in H.
  apply bind_Ok_inv in H as (len & s1 & Hlen & H). apply bind_Ok_inv in H as (bound & s2 & Hb & H).
  destruct (bound_addr_inv _ _ _ _ _ _ _ Hlen Hb) as (bnd & Hf & Hin1 & Hs2).
  cbv zeta in H. case_decide as Hcode; [|done]. apply from_code_succeeded in Hcode.
  unfold ret in H. simplify_eq. destruct h as [|v [|code [|rsv [|atyp [|]]]]]; simplify_eq/=.
  exists rsv, atyp, bnd. rewrite Hin, Hin1, (at_inv v _ H0), (at_inv code _ Hcode).
  split; [done|]. split; [done|]. rewrite Hs2, Hs0. done.
Qed.

Lemma select_method_run ep creds s rest :
  write_script s = [] → incoming s = map byte_of_Z [VERSION; offered creds] ++ rest →
  select_method ep creds s = (Ok tt, receive (send s (greeting creds)) rest).
Proof.
  intros Hw Hin. unfold select_method. rewrite (bind_Ok _ _ _ tt (send s (greeting creds))).
  2:{ by apply write_all_ok. }
  rewrite (bind_Ok _ _ _ _ _ (read_exact_app 2 _ _ (map byte_of_Z [VERSION; offered creds]) rest (send s (greeting creds)) Hin eq_refl)).
  unfold at_. cbn [map nth]. rewrite !u8_of_Z_small by (unfold in_u; by destruct creds).
  by rewrite !Z.eqb_refl.
Qed.

Lemma authenticate_run ep c s rest :
  write_script s = [] → incoming s = auth_accepted (Some c) ++ rest →
  authenticate ep c s = (Ok tt, receive (send s (auth_request c)) rest).
Proof.
  intros Hw Hin. unfold authenticate. rewrite (bind_Ok _ _ _ tt (send s (auth_request c))).
  2:{ by apply write_all_ok. }
  by rewrite (bind_Ok _ _ _ _ _ (read_exact_app 2 _ _ (auth_accepted (Some c)) rest (send s (auth_request c)) Hin eq_refl)).
Qed.

Lemma request_connect_run ep target host port s rsv atyp bnd rest :
  write_script s = [] → bound_field (u8 atyp) bnd →
  incoming s = byte_of_Z VERSION :: byte_of_Z 0 :: rsv :: atyp :: bnd ++ rest →
  request_connect ep target host port s = (Ok tt, receive (send s (connect_request target port)) rest).
Proof.
  intros Hw Hb Hin. unfold request_connect.
  set (s1 := send s (connect_request target port)). rewrite (bind_Ok _ _ _ tt s1).
  2:{ by apply write_all_ok. }
  rewrite (bind_Ok _ _ _ _ _ (read_exact_app 4 _ _ [byte_of_Z VERSION; byte_of_Z 0; rsv; atyp] (bnd ++ rest) s1 Hin eq_refl)).
  destruct (bound_addr_run ep (u8 atyp) (receive s1 (bnd ++ rest)) bnd rest Hb eq_refl) as (len & s2 & bs & Hlen & Hrd).
  change (at_ [byte_of_Z VERSION; byte_of_Z 0; rsv; atyp] 0) with VERSION.
  change (at_ [byte_of_Z VERSION; byte_of_Z 0; rsv; atyp] 1) with 0.
  change (at_ [byte_of_Z VERSION; byte_of_Z 0; rsv; atyp] 3) with (u8 atyp).
  cbn [negb Z.eqb VERSION Pos.eqb]. by rewrite (bind_Ok _ _ _ _ _ Hlen), (bind_Ok _ _ _ _ _ Hrd).
Qed.

(** Both sides are the same stream, up to the grouping of what was written. *)
Ltac stream_eq Hw :=
  unfold messages; cbn [incoming incoming_end outgoing write_script concat app]; rewrite Hw;
  rewrite ?app_nil_r, <- ?app_assoc; reflexivity.

Lemma negotiate_inv ep creds host port s s' :
  write_script s = [] → negotiate ep creds host port s = (Ok tt, s') →
  check_credentials creds = Ok tt
  ∧ ∃ target replies rest, encode_target host = Ok target ∧ accepting_replies creds replies
      ∧ incoming s = replies ++ rest
      ∧ s' = mkStream rest (incoming_end s) (outgoing s ++ concat (messages creds target port)) [].
Proof.
  intros Hw. unfold negotiate. intros ([] & s0 & Hc & H)%bind_Ok_inv.
  apply bind_Ok_inv in H as (target & s1 & Ht & H). unfold lift in Hc, Ht. simplify_eq. split; [done|].
  apply bind_Ok_inv in H as ([] & s2 & (Hin2 & Hs2)%select_method_inv & H).
  apply bind_Ok_inv in H as ([] & s3 & Ha & (rsv & atyp & bnd & Hb & Hin4 & Hs4)%request_connect_inv).
  exists target. destruct creds as [c|].
  - apply authenticate_inv in Ha as [Hin3 Hs3].
    exists (map byte_of_Z [VERSION; offered (Some c)] ++ auth_accepted (Some c) ++ byte_of_Z VERSION :: byte_of_Z 0 :: rsv :: atyp :: bnd), (incoming s').
    split; [done|]. split; [by exists rsv, atyp, bnd|]. rewrite Hin2, Hin3, Hin4. split; [by rewrite <- !app_assoc|].
    rewrite Hs4, Hs3, Hs2. unfold receive, send. stream_eq Hw.
  - unfold ret in Ha. simplify_eq.
    exists (map byte_of_Z [VERSION; offered None] ++ auth_accepted None ++ byte_of_Z VERSION :: byte_of_Z 0 :: rsv :: atyp :: bnd), (incoming s').
    split; [done|]. split; [by exists rsv, atyp, bnd|]. rewrite Hin2, Hin4. split; [done|].
    rewrite Hs4, Hs2. unfold receive, send. stream_eq Hw.
Qed.

(** Past the checks made before anything is written. *)
Lemma negotiate_phases ep creds host port s target :
  check_credentials creds = Ok tt → encode_target host = Ok target →
  negotiate ep creds host port s =
  (select_method ep creds ;;;
   match creds with Some c => authenticate ep c | None => ret tt end ;;;
   request_connect ep target host port) s.
Proof. intros Hc Ht. unfold negotiate, bind, lift. by rewrite Hc, Ht. Qed.

Lemma negotiate_run ep creds host port s target replies rest :
  write_script s = [] → check_credentials creds = Ok tt → encode_target host = Ok target →
  accepting_replies creds replies → incoming s = replies ++ rest →
  negotiate ep creds host port s
  = (Ok tt, mkStream rest (incoming_end s) (outgoing s ++ concat (messages creds target port)) []).
Proof.
  intros Hw Hc Ht (rsv & atyp & bnd & -> & Hb) Hin. rewrite <- !app_assoc in Hin.
  rewrite (negotiate_phases _ _ _ _ _ target) by done.
  rewrite (bind_Ok _ _ _ _ _ (select_method_run ep creds s _ Hw Hin)). set (s1 := receive _ _).
  assert (write_script s1 = []) as Hw1 by (simpl; by rewrite Hw). destruct creds as [c|].
  - rewrite (bind_Ok _ _ _ _ _ (authenticate_run ep c s1 _ Hw1 eq_refl)). set (s2 := receive _ _).
    assert (write_script s2 = []) as Hw2 by (simpl; by rewrite Hw).
    rewrite (request_connect_run ep target host port s2 rsv atyp bnd rest Hw2 Hb eq_refl).
    unfold s2, s1, receive, send. stream_eq Hw.
  - unfold bind at 1, ret.
    rewrite (request_connect_run ep target host port s1 rsv atyp bnd rest Hw1 Hb eq_refl).
    unfold s1, receive, send. stream_eq Hw.
Qed.

(** What each phase has written when it returns, successfully or not. *)
Lemma phase_output {A} data ep ph (k : Proxied A) s :
  preserves same_output k →
  ∃ d, d `prefix_of` data ∧ outgoing ((write_all data ep ph ;;; k) s).2 = outgoing s ++ d.
Proof.
  intros Hk. unfold bind. destruct (write_all_cases data ep ph s) as [->|(e & n & ->)].
  - exists data. split; [done|]. by rewrite (Hk (send s data)).
  - exists (take n data). split; [apply prefix_take|done].
Qed.

Lemma select_method_output ep creds s :
  ∃ d, d `prefix_of` greeting creds ∧ outgoing (select_method ep creds s).2 = outgoing s ++ d.
Proof. apply phase_output. mauto. Qed.

Lemma authenticate_output ep c s :
  ∃ d, d `prefix_of` auth_request c ∧ outgoing (authenticate ep c s).2 = outgoing s ++ d.
Proof. apply phase_output. mauto. Qed.

Lemma request_connect_output ep target host port s :
  ∃ d, d `prefix_of` connect_request target port
       ∧ outgoing (request_connect ep target host port s).2 = outgoing s ++ d.
Proof. apply phase_output. mauto. Qed.

(** [out] may have left: it is a prefix of the exchange, and each message
    after the first was begun only once the reply before it allowed it. *)
Definition disclosed (creds : option Socks5Credentials) (target : list byte) (port : Z)
    (replies out : list byte) : Prop :=
  out `prefix_of` concat (messages creds target port)
  ∧ ((length (greeting creds) < length out)%nat → map byte_of_Z [VERSION; offered creds] `prefix_of` replies)
  ∧ ∀ c, creds = Some c → (length (greeting creds ++ auth_request c) < length out)%nat →
      (map byte_of_Z [VERSION; offered creds] ++ auth_accepted creds) `prefix_of` replies.

Lemma disclosed_first creds target port replies d : d `prefix_of` greeting creds → disclosed creds target port replies d.
Proof.
  intros Hd. pose proof (prefix_length _ _ Hd). split_and!.
  - unfold messages. cbn [concat]. by apply prefix_app_r.
  - lia.
  - intros c _. rewrite length_app. lia.
Qed.

Lemma disclosed_second c target port replies d :
  map byte_of_Z [VERSION; offered (Some c)] `prefix_of` replies → d `prefix_of` auth_request c →
  disclosed (Some c) target port replies (greeting (Some c) ++ d).
Proof.
  intros Hrep Hd. pose proof (prefix_length _ _ Hd). split_and!.
  - unfold messages. cbn [concat app]. apply prefix_app, prefix_app_r. done.
  - done.
  - intros c' [= <-]. rewrite !length_app. lia.
Qed.

Lemma disclosed_last creds target port replies d :
  (map byte_of_Z [VERSION; offered creds] ++ auth_accepted creds) `prefix_of` replies →
  d `prefix_of` connect_request target port →
  disclosed creds target port replies
    (greeting creds ++ (match creds with Some c => auth_request c | None => [] end) ++ d).
Proof.
  intros Hrep Hd. split_and!; [|intros _|by intros].
  - unfold messages. rewrite <- (app_nil_r (connect_request target port)) in Hd.
    destruct creds; cbn [concat app]; by repeat apply prefix_app.
  - etrans; [|apply Hrep]. by apply prefix_app_r.
Qed.

Lemma negotiate_output ep creds host port s :
  ∃ out, outgoing (negotiate ep creds host port s).2 = outgoing s ++ out
    ∧ (out = [] ∨ ∃ target, check_credentials creds = Ok tt ∧ encode_target host = Ok target
                            ∧ disclosed creds target port (incoming s) out).
Proof.
  destruct (check_credentials creds) as [[]|e] eqn:Hc.
  2:{ exists []. rewrite app_nil_r. unfold negotiate. rewrite (bind_Err _ _ s e s) by (unfold lift; by rewrite Hc). auto. }
  destruct (encode_target host) as [target|e] eqn:Ht.
  2:{ exists []. rewrite app_nil_r. unfold negotiate, bind, lift. rewrite Hc, Ht. auto. }
  rewrite (negotiate_phases _ _ _ _ _ target) by done.
  destruct (select_method_output ep creds s) as (d1 & Hd1 & Hout1).
  destruct (select_method ep creds s) as [[[]|e] s1] eqn:H1; cbn [snd] in *.
  2:{ rewrite (bind_Err _ _ _ _ _ H1). exists d1. split; [done|]. right. eauto using disclosed_first. }
  rewrite (bind_Ok _ _ _ _ _ H1). apply select_method_inv in H1 as [Hin1 Hs1].
  assert (map byte_of_Z [VERSION; offered creds] `prefix_of` incoming s) as Hpre by (rewrite Hin1; by eexists).
  destruct creds as [c|].
  - destruct (authenticate_output ep c s1) as (d2 & Hd2 & Hout2).
    destruct (authenticate ep c s1) as [[[]|e] s2] eqn:H2; cbn [snd] in *.
    + rewrite (bind_Ok _ _ _ _ _ H2). apply authenticate_inv in H2 as [Hin2 Hs2].
      destruct (request_connect_output ep target host port s2) as (d3 & Hd3 & Hout3). eexists. split.
      { rewrite Hout3, Hs2, Hs1. cbn [receive send outgoing]. by rewrite <- !app_assoc. }
      right. exists target. split_and!; [done..|]. apply (disclosed_last (Some c)); [|done].
      rewrite Hin1, Hin2. by eexists; rewrite <- app_assoc.
    + rewrite (bind_Err _ _ _ _ _ H2). cbn [snd]. eexists. split.
      { rewrite Hout2, Hs1. cbn [receive send outgoing]. by rewrite <- !app_assoc. }
      right. eauto using disclosed_second.
  - rewrite (bind_Ok _ _ _ tt s1) by done.
    destruct (request_connect_output ep target host port s1) as (d3 & Hd3 & Hout3). eexists. split.
    { rewrite Hout3, Hs1. cbn [receive send outgoing]. by rewrite <- !app_assoc. }
    right. exists target. split_and!; [done..|]. by apply (disclosed_last None).
Qed.

(** ** Properties *)

(** C28. When the writes go through, [negotiate] succeeds exactly when the
    lengths fit and the proxy answers every step as the client asked: it
    selected the one method offered (so a proxy cannot skip an
    authentication the caller configured), accepted the credentials if there
    are any, and reported success with a well-formed bound address.  It then
    has sent greeting, credentials and request, once and in this order, and
    consumed exactly the replies, so the next byte is the server's. *)
Theorem negotiate_success_iff (ep : string) (creds : option Socks5Credentials) (host : string)
    (port : Z) (s s' : stream) :
  write_script s = [] →
  negotiate ep creds host port s = (Ok tt, s') ↔
  check_credentials creds = Ok tt
  ∧ ∃ target replies rest, encode_target host = Ok target ∧ accepting_replies creds replies
      ∧ incoming s = replies ++ rest
      ∧ s' = mkStream rest (incoming_end s) (outgoing s ++ concat (messages creds target port)) [].
Proof.
  intros Hw. split; [by apply negotiate_inv|].
  intros (Hc & target & replies & rest & Ht & Hrep & Hin & ->). by eapply negotiate_run.
Qed.

(** Secrets and requests leave only when they may.  Whatever the proxy
    sends and however the I/O fails, also in the middle of a write, what has
    been written when [negotiate] returns is a prefix of the exchange; nothing
    is written when a length limit is exceeded; no byte after the greeting
    (the username and password, if configured) is written before the proxy
    selected the offered method; and with credentials no byte of the CONNECT
    request before the proxy accepted them. *)
Theorem negotiate_disclosure (ep : string) (creds : option Socks5Credentials) (host : string)
    (port : Z) (s : stream) :
  ∃ out, outgoing (negotiate ep creds host port s).2 = outgoing s ++ out
    ∧ (out = [] ∨ ∃ target, check_credentials creds = Ok tt ∧ encode_target host = Ok target
                            ∧ disclosed creds target port (incoming s) out).
Proof. apply negotiate_output. Qed.

(** The exchange of the witness: a proxy that wants the password. *)
Definition sample_creds : Socks5Credentials := mkCredentials "bot" "hunter2".
Definition sample_stream : stream :=
  mkStream (map byte_of_Z [5; 2; 1; 0; 5; 0; 0; 1; 127; 0; 0; 1; 4; 56; 42]) EndEof [] [].

Lemma negotiate_success_iff_witness :
  negotiate "proxy:1080" (Some sample_creds) "play.example.net" 25565 sample_stream
  = (Ok tt, mkStream [byte_of_Z 42] EndEof
      (map byte_of_Z [5; 1; 2] ++ map byte_of_Z [1; 3] ++ bytes_of "bot" ++ [byte_of_Z 7] ++ bytes_of "hunter2"
       ++ map byte_of_Z [5; 1; 0; 3; 16] ++ bytes_of "play.example.net" ++ map byte_of_Z [99; 221]) []).
Proof.
  refine (proj2 (negotiate_success_iff _ _ _ _ sample_stream _ eq_refl) _). split; [vm_compute; reflexivity|].
  exists (byte_of_Z 3 :: byte_of_Z 16 :: bytes_of "play.example.net"),
    (map byte_of_Z [5; 2; 1; 0; 5; 0; 0; 1; 127; 0; 0; 1; 4; 56]), [byte_of_Z 42].
  split; [vm_compute; reflexivity|]. split; [|split; vm_compute; reflexivity].
  exists x00, x01, (map byte_of_Z [127; 0; 0; 1; 4; 56]). split; [vm_compute; reflexivity|].
  left. split; vm_compute; reflexivity.
Defined.

(** The parser on the standard library's own cases. *)
Example ip_vectors :
  map (λ s, Ip.parse (bytes_of s))
    ["10.0.255.1"; "10.0.256.1"; "01.2.3.4"; "::1"; "2001:db8::ff00:42:8329"; "::ffff:10.0.0.1"; "play.example.net"; "1:2:3:4:5:6:7::"; "1::2::3"]%string
  = [Some (Ip.V4 [10; 0; 255; 1]); None; None; Some (Ip.V6 [0; 0; 0; 0; 0; 0; 0; 1]);
     Some (Ip.V6 [8193; 3512; 0; 0; 0; 65280; 66; 33577]);
     Some (Ip.V6 [0; 0; 0; 0; 0; 65535; 2560; 1]); None; Some (Ip.V6 [1; 2; 3; 4; 5; 6; 7; 0]); None].
Proof. vm_compute. reflexivity. Qed.
