(* ===== verification/Connection.v ===== *)
(** * The connection

    [src/network/connection.rs] over [codec.rs] and [crypto/aes.rs].  The
    socket is a script: what each read returns and how each write ends.  The
    clock is part of the script (an operation that exceeds its timeout is an
    event), since [tokio::time::timeout] turns it into exactly that. *)

From S2P Require Import Prelude Machine Reader Varint Codec Cipher Errors Socks5.

Local Open Scope Z_scope.

(** [src/core/state.rs]. *)
Inductive ConnectionState : Type := Handshaking | Status | Login | Configuration | Play.

Inductive Direction : Type := Serverbound | Clientbound.

(** The arguments of a [TraceRecorder::record] call. *)
Record TraceCall : Type := mkTrace {
  tr_dir : Direction;
  tr_state : ConnectionState;
  tr_id : Z;
  tr_payload : list byte;
  tr_encrypted : bool;
  tr_compressed : bool;
}.

(** One [read] of at most [READ_CHUNK] bytes; an empty chunk, like the end of
    the script, is the peer closing the connection. *)
Inductive read_event : Type := Bytes (chunk : list byte) | ReadTimedOut | ReadFailed.

(** One [write_frame_with_timeout]: done, or given up after [n] bytes. *)
Inductive write_event : Type := Written | WriteTimedOut (n : nat) | WriteFailed (n : nat).

(** Durations in milliseconds. *)
Definition DEFAULT_READ_TIMEOUT : Z := 30000.
Definition DEFAULT_CONNECT_TIMEOUT : Z := 10000.
Definition DEFAULT_WRITE_TIMEOUT : Z := 30000.

Record ConnectionTimeouts : Type := mkTimeouts { t_connect : Z; t_read : Z; t_write : Z }.

Definition default_timeouts : ConnectionTimeouts :=
  mkTimeouts DEFAULT_CONNECT_TIMEOUT DEFAULT_READ_TIMEOUT DEFAULT_WRITE_TIMEOUT.

(** Both halves of the socket. *)
Record socket : Type := mkSocket {
  to_read : list read_event;
  written : list byte;
  to_write : list write_event;
}.

Record Connection : Type := mkConn {
  sock : socket;
  read_buf : list byte;
  codec : FrameCodec;
  cipher : option StreamCipher;
  read_timeout : Z;
  write_timeout : Z;
  write_failed : bool;
  conn_state : ConnectionState;
  trace : option (list TraceCall);
}.

(** ** Construction *)

Definition fresh_connection (s : socket) (read write : Z) : Connection :=
  mkConn s [] new_codec None read write false Handshaking None.

(** [TcpTransport::connect] and [TcpStream::connect] are the environment. *)
Inductive tcp_result : Type := TcpUp (s : socket) | TcpTimedOut | TcpFailed.

Definition connect_with_timeouts (tcp : tcp_result) (timeouts : ConnectionTimeouts) :
    result MineRiderError Connection :=
  match tcp with
  | TcpTimedOut => Err Timeout
  | TcpFailed => Err Io
  | TcpUp s => Ok (fresh_connection s (t_read timeouts) (t_write timeouts))
  end.

Definition from_tcp_stream (s : socket) : Connection :=
  fresh_connection s DEFAULT_READ_TIMEOUT DEFAULT_WRITE_TIMEOUT.

(** [connect_via_proxy]: [tunnel] is the socket left by a successful
    [socks5::connect]. *)
Definition connect_via_proxy (tunnel : result ProxySocks5Error socket) (timeouts : ConnectionTimeouts) :
    result MineRiderError Connection :=
  let? s := map_err Proxy tunnel in Ok (from_tcp_stream s).

(** ** Field updates *)

Definition set_sock s c := mkConn s (read_buf c) (codec c) (cipher c) (read_timeout c) (write_timeout c) (write_failed c) (conn_state c) (trace c).
Definition set_read_buf b c := mkConn (sock c) b (codec c) (cipher c) (read_timeout c) (write_timeout c) (write_failed c) (conn_state c) (trace c).
Definition set_codec f c := mkConn (sock c) (read_buf c) f (cipher c) (read_timeout c) (write_timeout c) (write_failed c) (conn_state c) (trace c).
Definition set_cipher k c := mkConn (sock c) (read_buf c) (codec c) k (read_timeout c) (write_timeout c) (write_failed c) (conn_state c) (trace c).
Definition set_write_failed f c := mkConn (sock c) (read_buf c) (codec c) (cipher c) (read_timeout c) (write_timeout c) f (conn_state c) (trace c).
Definition push_trace t c :=
  mkConn (sock c) (read_buf c) (codec c) (cipher c) (read_timeout c) (write_timeout c) (write_failed c) (conn_state c)
    (option_map (λ l, push l t) (trace c)).

Definition set_compression (threshold : Z) (c : Connection) : Connection :=
  set_codec (set_compression_threshold threshold (codec c)) c.

Definition enable_encryption (shared_secret : list byte) (c : Connection) : Connection :=
  set_cipher (Some (new_cipher shared_secret)) c.

Definition set_state (s : ConnectionState) (c : Connection) : Connection :=
  mkConn (sock c) (read_buf c) (codec c) (cipher c) (read_timeout c) (write_timeout c) (write_failed c) s (trace c).

Definition set_read_timeout (t : Z) (c : Connection) : Connection :=
  mkConn (sock c) (read_buf c) (codec c) (cipher c) t (write_timeout c) (write_failed c) (conn_state c) (trace c).

Definition set_write_timeout (t : Z) (c : Connection) : Connection :=
  mkConn (sock c) (read_buf c) (codec c) (cipher c) (read_timeout c) t (write_failed c) (conn_state c) (trace c).

(** ** Sending and receiving *)

Abbreviation Conn A := (M Connection MineRiderError A).

Definition trace_call (dir : Direction) (c : Connection) (id : Z) (payload : list byte) : TraceCall :=
  mkTrace dir (conn_state c) id payload (bool_decide (is_Some (cipher c)))
    (bool_decide (is_Some (compression_threshold (codec c)))).

Definition check_not_failed : Conn unit := λ c,
  (if write_failed c then Err Timeout else Ok tt, c).

Definition error_poisons_connection (e : MineRiderError) : bool :=
  match e with Timeout => true | _ => false end.

Definition write_frame_with_timeout (frame : list byte) : Conn unit := λ c,
  let s := sock c in
  let out n := set_sock (mkSocket (to_read s) (written s ++ take n frame) (tail (to_write s))) c in
  match head (to_write s) with
  | Some (WriteTimedOut n) => (Err Timeout, out n)
  | Some (WriteFailed n) => (Err Io, out n)
  | Some Written | None => (Ok tt, out (length frame))
  end.

Section io.
Context (z : Zlib) (aes : list byte → list byte → list byte).

(** [if let Some(cipher) = &mut self.cipher { cipher.encrypt(..) }]. *)
Definition encrypt_out (frame : list byte) : Conn (list byte) := λ c,
  match cipher c with
  | Some k => let '(k', out) := encrypt aes k frame in (Ok out, set_cipher (Some k') c)
  | None => (Ok frame, c)
  end.

Definition decrypt_in (chunk : list byte) (c : Connection) : list byte * Connection :=
  match cipher c with
  | Some k => let '(k', out) := decrypt aes k chunk in (out, set_cipher (Some k') c)
  | None => (chunk, c)
  end.

Definition send_packet (id : Z) (payload : list byte) : Conn unit :=
  check_not_failed ;;;
  let packet := mkPacket id payload in
  let* frame := (λ c, (map_err Wire (encode_frame z (codec c) packet), c)) in
  let* frame := encrypt_out frame in
  (λ c, match write_frame_with_timeout frame c with
        | (Err e, c) => (Err e, if error_poisons_connection e then set_write_failed true c else c)
        | (Ok _, c) => (Ok tt, push_trace (trace_call Serverbound c id payload) c)
        end).

(** The loop of [read_packet], over the reads that are left. *)
Fixpoint read_loop (events : list read_event) (c : Connection) : result MineRiderError RawPacket * Connection :=
  let after ev c := set_sock (mkSocket ev (written (sock c)) (to_write (sock c))) c in
  match try_decode z (codec c) (read_buf c) with
  | (Err e, b) => (Err (Wire e), after events (set_read_buf b c))
  | (Ok (Some packet), b) =>
      let c := after events (set_read_buf b c) in
      (Ok packet, push_trace (trace_call Clientbound c (pkt_id packet) (pkt_payload packet)) c)
  | (Ok None, b) =>
      let c := set_read_buf b c in
      match events with
      | [] => (Err ConnectionClosed, after [] c)
      | ReadTimedOut :: events => (Err Timeout, after events c)
      | ReadFailed :: events => (Err Io, after events c)
      | Bytes [] :: events => (Err ConnectionClosed, after events c)
      | Bytes chunk :: events =>
          let '(plain, c) := decrypt_in chunk c in
          read_loop events (set_read_buf (read_buf c ++ plain) c)
      end
  end.

Definition read_packet : Conn RawPacket :=
  check_not_failed ;;; (λ c, read_loop (to_read (sock c)) c).
End io.

(** ** Lemmas *)

Section delivery.
Context (z : Zlib) (aes : list byte → list byte → list byte).
Context `{!ZlibLaws z}.

(** What is left of the ciphertext stream [d] for a receiver in state [k]. *)
Definition plain (k : option StreamCipher) (d : list byte) : list byte :=
  match k with Some k => (decrypt aes k d).2 | None => d end.
Definition after_read (k : option StreamCipher) (d : list byte) : option StreamCipher :=
  match k with Some k => Some (decrypt aes k d).1 | None => None end.
Definition crypted (k : option StreamCipher) (d : list byte) : list byte :=
  match k with Some k => (encrypt aes k d).2 | None => d end.
Definition after_write (k : option StreamCipher) (d : list byte) : option StreamCipher :=
  match k with Some k => Some (encrypt aes k d).1 | None => None end.

Lemma plain_app k d1 d2 : plain k (d1 ++ d2) = plain k d1 ++ plain (after_read k d1) d2.
Proof.
  destruct k as [k|]; simpl; [|done]. rewrite decrypt_app. destruct (decrypt aes k d1) as [k1 o1]; simpl.
  by destruct (decrypt aes k1 d2).
Qed.

Lemma crypted_app k d1 d2 :
  crypted k (d1 ++ d2) = crypted k d1 ++ crypted (after_write k d1) d2
  ∧ after_write k (d1 ++ d2) = after_write (after_write k d1) d2.
Proof.
  destruct k as [k|]; simpl; [|done]. rewrite encrypt_app. destruct (encrypt aes k d1) as [k1 o1]; simpl.
  by destruct (encrypt aes k1 d2).
Qed.

(** The bytes of the scripted chunks. *)
Definition chunks (cs : list (list byte)) : list read_event := map Bytes cs.

(** A receiver that still has [cs] to read. *)
Definition receiving (c : Connection) (cs : list (list byte)) : Prop :=
  write_failed c = false ∧ to_read (sock c) = chunks cs.

(** The receiver's buffer and the chunks still on the way hold a frame in
    front: the loop returns its packet and keeps the rest. *)
Lemma read_loop_delivers p framed rest cs c :
  fits_frame z (codec c) p framed → Forall (λ d, d ≠ []) cs →
  read_buf c ++ plain (cipher c) (concat cs) = len_varint framed ++ framed ++ rest →
  ∃ c' cs', read_loop z aes (chunks cs) c = (Ok p, c') ∧ to_read (sock c') = chunks cs'
    ∧ Forall (λ d, d ≠ []) cs' ∧ read_buf c' ++ plain (cipher c') (concat cs') = rest
    ∧ codec c' = codec c ∧ write_failed c' = write_failed c.
Proof.
  revert c. induction cs as [|d cs IH]; intros c Hfits Hne Heq.
  - simpl in Heq. assert (plain (cipher c) [] = []) as Hp by by destruct (cipher c).
    rewrite Hp, app_nil_r in Heq. simpl. rewrite Heq, (try_decode_frame z (codec c) p) by done.
    eexists _, []. split; [reflexivity|]. simpl. destruct (cipher c); simpl; by rewrite app_nil_r.
  - apply Forall_cons in Hne as [Hd Hne]. rewrite app_assoc in Heq.
    destruct (app_eq_inv _ _ _ _ Heq) as [(k & Hk & Hrest)|(k & Hk & Hrest)].
    + simpl. rewrite Hk, <- app_assoc, (try_decode_frame z (codec c) p) by done.
      eexists _, (d :: cs). split; [reflexivity|]. simpl. split_and!; [done|by constructor|done|done|done].
    + (* the frame is not all there *)
      destruct (decide (k = [])) as [->|Hkne].
      * rewrite app_nil_r in Hk. simpl. rewrite <- Hk, <- (app_nil_r (_ ++ framed)), <- app_assoc, (try_decode_frame z (codec c) p) by done.
        eexists _, (d :: cs). split; [reflexivity|]. simpl. split_and!; [done|by constructor|done|done|done].
      * cbn [chunks map read_loop]. rewrite (try_decode_cut z (codec c) framed (read_buf c) k)
          by (done || apply (fits_len _ _ _ _ Hfits)).
        destruct d as [|b d]; [done|]. unfold decrypt_in.
        assert (∀ c', codec c' = codec c → cipher c' = after_read (cipher c) (b :: d) →
          read_buf c' = read_buf c ++ plain (cipher c) (b :: d) → write_failed c' = write_failed c →
          ∃ c'' cs', read_loop z aes (chunks cs) c' = (Ok p, c'') ∧ to_read (sock c'') = chunks cs'
            ∧ Forall (λ d, d ≠ []) cs' ∧ read_buf c'' ++ plain (cipher c'') (concat cs') = rest
            ∧ codec c'' = codec c ∧ write_failed c'' = write_failed c) as Hgo.
        { intros c' Hcodec Hci Hb Hwf. destruct (IH c') as (c'' & cs' & ? & ? & ? & ? & ? & ?); [by rewrite Hcodec|done| |].
          - rewrite Hci, Hb, <- app_assoc, <- plain_app. cbn [concat] in Heq. by rewrite Heq, <- app_assoc.
          - exists c'', cs'. by rewrite <- Hcodec, <- Hwf. }
        cbn [set_read_buf cipher]. destruct (cipher c) as [ci|] eqn:Hci; simpl in *.
        -- destruct (decrypt aes ci (b :: d)) as [k' out]; simpl in *. by apply Hgo.
        -- by apply Hgo.
Qed.

Definition frame_of (framed : list byte) : list byte := len_varint framed ++ framed.

Definition send_all (ps : list RawPacket) : Conn unit :=
  iter_m (λ p, send_packet z aes (pkt_id p) (pkt_payload p)) ps.

(** A connection that can send: not poisoned, and its writes succeed. *)
Definition sending (c : Connection) : Prop := write_failed c = false ∧ to_write (sock c) = [].

Lemma send_packet_ok p framed c :
  sending c → framed_body z (codec c) p = Ok framed →
  ∃ c', send_packet z aes (pkt_id p) (pkt_payload p) c = (Ok tt, c')
    ∧ written (sock c') = written (sock c) ++ crypted (cipher c) (frame_of framed)
    ∧ cipher c' = after_write (cipher c) (frame_of framed) ∧ codec c' = codec c ∧ sending c'.
Proof.
  intros [Hwf Hw] Hf. unfold send_packet, bind, check_not_failed. rewrite Hwf.
  assert (mkPacket (pkt_id p) (pkt_payload p) = p) as -> by by destruct p.
  unfold encode_frame. rewrite Hf. cbn [rbind map_err]. fold (frame_of framed). unfold encrypt_out, sending.
  destruct (cipher c) as [k|] eqn:Hk; cbn [crypted after_write].
  - destruct (encrypt aes k (frame_of framed)) as [k' out]. unfold write_frame_with_timeout.
    cbn [sock set_cipher]. rewrite Hw. cbn. rewrite firstn_all. eexists. split; [reflexivity|done].
  - unfold write_frame_with_timeout. rewrite Hw. cbn. rewrite firstn_all. eexists. split; [reflexivity|]. by rewrite ?Hk.
Qed.

Lemma send_all_ok ps fs c :
  sending c → Forall2 (fits_frame z (codec c)) ps fs →
  ∃ c', send_all ps c = (Ok tt, c')
    ∧ written (sock c') = written (sock c) ++ crypted (cipher c) (concat (map frame_of fs)) ∧ sending c'.
Proof.
  intros Hc H. remember (codec c) as co eqn:Hco. revert c Hc Hco.
  induction H as [|p f ps fs Hp _ IH]; intros c Hc ->; cbn [send_all iter_m map concat].
  - exists c. split; [done|]. split; [|done]. destruct (cipher c); cbn; by rewrite app_nil_r.
  - destruct (send_packet_ok p f c Hc (fits_framed _ _ _ _ Hp)) as (c1 & Hs & Hw1 & Hk1 & Hc1 & Hok1).
    unfold send_all in IH. unfold send_all. cbn [iter_m]. rewrite (bind_Ok _ _ _ _ _ Hs).
    destruct (IH c1 Hok1 (eq_sym Hc1)) as (c' & Hs' & Hw' & Hok').
    exists c'. split; [done|]. split; [|done].
    by rewrite Hw', Hw1, Hk1, <- app_assoc, (proj1 (crypted_app _ _ _)).
Qed.

Lemma read_all_ok ps fs cs c rest :
  receiving c cs → Forall2 (fits_frame z (codec c)) ps fs → Forall (λ d, d ≠ []) cs →
  read_buf c ++ plain (cipher c) (concat cs) = concat (map frame_of fs) ++ rest →
  ∃ c' cs', repeat_m (length ps) (read_packet z aes) c = (Ok ps, c') ∧ receiving c' cs'
    ∧ Forall (λ d, d ≠ []) cs' ∧ read_buf c' ++ plain (cipher c') (concat cs') = rest.
Proof.
  intros Hc H. remember (codec c) as co eqn:Hco. revert c cs Hc Hco.
  induction H as [|p f ps fs Hp _ IH]; intros c cs [Hwf Hr] -> Hne Heq; cbn [repeat_m length map concat] in *.
  - exists c, cs. done.
  - unfold frame_of in Heq at 1. rewrite <- !app_assoc in Heq.
    destruct (read_loop_delivers p f _ cs c Hp Hne Heq) as (c1 & cs1 & Hl & Hr1 & Hne1 & Heq1 & Hco1 & Hwf1).
    assert (read_packet z aes c = (Ok p, c1)) as Hrd.
    { unfold read_packet, bind, check_not_failed. by rewrite Hwf, Hr. }
    rewrite (bind_Ok _ _ _ _ _ Hrd).
    destruct (IH c1 cs1 ltac:(split; congruence) (eq_sym Hco1) Hne1 Heq1) as (c' & cs' & Hl' & ? & ? & ?).
    rewrite (bind_Ok _ _ _ _ _ Hl'). exists c', cs'. done.
Qed.

Lemma plain_nil k d : plain k d = [] → d = [].
Proof.
  destruct k as [k|]; simpl; [|done]. unfold decrypt. destruct d as [|b d]; [done|]. simpl.
  by destruct (decrypt_loop aes (aes_key k) _ d).
Qed.

Lemma read_packet_closed c cs :
  receiving c cs → Forall (λ d, d ≠ []) cs → read_buf c ++ plain (cipher c) (concat cs) = [] →
  (read_packet z aes c).1 = Err ConnectionClosed.
Proof.
  intros [Hwf Hr] Hne Heq. apply app_eq_nil in Heq as [Hb Hp%plain_nil].
  assert (cs = []) as -> by (destruct Hne as [|d cs Hd]; [done|]; by apply app_eq_nil in Hp as [? _]).
  unfold read_packet, bind, check_not_failed. rewrite Hwf, Hr. simpl. by rewrite Hb.
Qed.

(** Both ends use the same key stream, or none. *)
Definition ciphers_in_sync (tx rx : option StreamCipher) : Prop :=
  match tx, rx with
  | None, None => True
  | Some k, Some k' => in_sync k k'
  | _, _ => False
  end.

Lemma plain_crypted tx rx d : ciphers_in_sync tx rx → plain rx (crypted tx d) = d.
Proof. destruct tx as [k|], rx as [k'|]; simpl; [|done..]. intros H. by apply decrypt_encrypt. Qed.
End delivery.

Lemma send_packet_flag z aes id payload c c' res :
  send_packet z aes id payload c = (res, c') →
  match res with
  | Err Timeout => write_failed c' = true
  | _ => write_failed c' = false ∧ write_failed c = false
  end.
Proof.
  unfold send_packet, bind, check_not_failed. destruct (write_failed c) eqn:Hwf; [intros H; by injection H as <- <-|].
  destruct (encode_frame z (codec c) _) as [frame|e]; [|intros H; by injection H as <- <-]. cbn [map_err].
  assert (∃ out c1, encrypt_out aes frame c = (Ok out, c1) ∧ write_failed c1 = false) as (out & c1 & -> & Hwf1).
  { unfold encrypt_out. destruct (cipher c) as [k|]; [destruct (encrypt aes k frame)|]; eauto. }
  unfold write_frame_with_timeout. destruct (head (to_write (sock c1))) as [[]|]; intros H; by injection H as <- <-.
Qed.

(** ** Properties *)

(** C1. End to end, the connection is a reliable packet channel: the packets
    one end sends (each within the frame caps) are what the other end's
    [read_packet] returns, all of them, once each and in order, with or
    without compression and encryption, however TCP cuts the byte stream into
    reads; and when the peer then closes, the next read says so. *)
Theorem connection_delivers_in_order (z : Zlib) (aes : list byte → list byte → list byte)
    (tx rx : Connection) (ps : list RawPacket) (fs cs : list (list byte)) :
  ZlibLaws z →
  sending tx → Forall2 (fits_frame z (codec tx)) ps fs →
  receiving rx cs → read_buf rx = [] → codec rx = codec tx → ciphers_in_sync (cipher tx) (cipher rx) →
  Forall (λ d, d ≠ []) cs → written (sock (send_all z aes ps tx).2) = written (sock tx) ++ concat cs →
  (send_all z aes ps tx).1 = Ok tt
  ∧ (repeat_m (length ps) (read_packet z aes) rx).1 = Ok ps
  ∧ (read_packet z aes (repeat_m (length ps) (read_packet z aes) rx).2).1 = Err ConnectionClosed.
Proof.
  intros Hz Htx Hfits Hrx Hbuf Hco Hsync Hne Hwire.
  destruct (send_all_ok z aes ps fs tx Htx Hfits) as (tx' & Hs & Hw & _).
  rewrite Hs in *. cbn [fst snd] in *. rewrite Hw in Hwire. apply app_inv_head in Hwire.
  destruct (read_all_ok z aes ps fs cs rx []) as (rx' & cs' & Hr & Hrx' & Hne' & Heq'); [done|by rewrite Hco|done| |].
  { rewrite Hbuf, <- Hwire, app_nil_r. by apply plain_crypted. }
  rewrite Hr. split_and!; [done|done|]. by eapply read_packet_closed.
Qed.

(** A timed-out send poisons the connection and nothing else does.  After
    [send_packet] returned [Timeout] every further send and read fails with
    [Timeout] without touching the socket, the cipher or the buffer; after any
    other outcome the flag is what it was. *)
Theorem write_timeout_poisons (z : Zlib) (aes : list byte → list byte → list byte)
    (id : Z) (payload : list byte) (c c' : Connection) (res : result MineRiderError unit) :
  send_packet z aes id payload c = (res, c') →
  match res with
  | Err Timeout =>
      write_failed c' = true
      ∧ (∀ id' payload', send_packet z aes id' payload' c' = (Err Timeout, c'))
      ∧ read_packet z aes c' = (Err Timeout, c')
  | _ => write_failed c' = false ∧ write_failed c = false
  end.
Proof.
  intros Hsend. assert (match res with Err Timeout => write_failed c' = true
    | _ => write_failed c' = false ∧ write_failed c = false end) as Hflag by by eapply send_packet_flag.
  destruct res as [|[]]; try done. split; [done|].
  split; intros; unfold send_packet, read_packet, bind, check_not_failed; by rewrite Hflag.
Qed.

(** The connection a proxy tunnel yields is not "otherwise identical" to a
    direct one: a direct connection uses the caller's read and write
    timeouts, a proxied one the defaults, whatever the caller passed. *)
Theorem proxied_timeouts_dropped (s : socket) (t : ConnectionTimeouts) :
  (∃ c, connect_with_timeouts (TcpUp s) t = Ok c ∧ read_timeout c = t_read t ∧ write_timeout c = t_write t)
  ∧ (∃ c, connect_via_proxy (Ok s) t = Ok c
      ∧ read_timeout c = DEFAULT_READ_TIMEOUT ∧ write_timeout c = DEFAULT_WRITE_TIMEOUT).
Proof. split; by eexists. Qed.

(** ** Witnesses *)

Definition xor_aes (key block : list byte) : list byte := zip_with byte_xor key (reverse block).
Definition sample_secret : list byte := map byte_of_Z [1; 2; 3; 4; 5; 6; 7; 8; 9; 10; 11; 12; 13; 14; 15; 16].
Definition sample_conn (events : list read_event) : Connection :=
  enable_encryption sample_secret (set_compression 2 (from_tcp_stream (mkSocket events [] []))).

(** Two packets, the second one cut in the middle of its frame. *)
Definition sample_packets : list RawPacket := [sample_packet; mkPacket 300 []].
Definition sample_wire : list byte :=
  written (sock (send_all stored_zlib xor_aes sample_packets (sample_conn [])).2).

Lemma connection_delivers_in_order_witness :
  (repeat_m 2 (read_packet stored_zlib xor_aes)
    (sample_conn [Bytes (take 1 sample_wire); Bytes (take 7 (drop 1 sample_wire)); Bytes (drop 8 sample_wire)])).1
  = Ok sample_packets.
Proof.
  refine (proj1 (proj2 (connection_delivers_in_order stored_zlib xor_aes (sample_conn [])
    (sample_conn (chunks [take 1 sample_wire; take 7 (drop 1 sample_wire); drop 8 sample_wire]))
    sample_packets [[x04; x1b; x01; x02; x03]; [x02; xac; x02]]
    [take 1 sample_wire; take 7 (drop 1 sample_wire); drop 8 sample_wire] _ _ _ _ _ _ _ _ _))).
  - by split.
  - constructor; [exact sample_fits|]. constructor; [|constructor].
    split; [unfold in_i; simpl; lia|vm_compute; congruence|vm_compute; reflexivity|vm_compute; congruence].
  - by split.
  - reflexivity.
  - reflexivity.
  - by split.
  - repeat constructor; vm_compute; discriminate.
  - vm_compute. reflexivity.
Defined.

Lemma write_timeout_poisons_witness :
  let c := set_sock (mkSocket [] [] [WriteTimedOut 1]) (sample_conn []) in
  read_packet stored_zlib xor_aes (send_packet stored_zlib xor_aes 27 [x01] c).2
  = (Err Timeout, (send_packet stored_zlib xor_aes 27 [x01] c).2).
Proof.
  intros c. refine (proj2 (proj2 (write_timeout_poisons stored_zlib xor_aes 27 [x01] c _ (Err Timeout) _))).
  vm_compute. reflexivity.
Defined.
