(* ===== verification/Link.v ===== *)
(** * The link a session talks through

    What [login.rs], [configuration.rs], [resource_pack.rs] and [play.rs] use
    of [Connection], as an interface: packets out and in, and the switches
    for compression, encryption and the protocol state.  A link keeps a log
    of what went through it, in order; the theorems about the sessions speak
    of that log.  [Connection] is one implementation; a script of
    packets that are read and of sends that succeed is another, for
    examples. *)

From S2P Require Import Prelude Machine Reader Errors Codec Cipher Connection.

Local Open Scope Z_scope.

Inductive LinkEvent : Type :=
  | Sent (id : Z) (payload : list byte)
  | Received (packet : RawPacket)
  | StateSet (s : ConnectionState)
  | CompressionSet (threshold : Z)
  | EncryptionEnabled (shared_secret : list byte).

Class Link (C : Type) : Type := {
  link_send : Z → list byte → M C MineRiderError unit;
  link_read : M C MineRiderError RawPacket;
  link_set_state : ConnectionState → C → C;
  link_set_compression : Z → C → C;
  link_enable_encryption : list byte → C → C;
  link_log : C → list LinkEvent;
}.

Class LinkLaws C `{!Link C} : Prop := {
  link_send_log id payload c :
    link_log (link_send id payload c).2
    = link_log c ++ (match (link_send id payload c).1 with Ok _ => [Sent id payload] | Err _ => [] end);
  link_read_log c :
    link_log (link_read c).2
    = link_log c ++ (match (link_read c).1 with Ok p => [Received p] | Err _ => [] end);
  link_set_state_log s c : link_log (link_set_state s c) = link_log c ++ [StateSet s];
  link_set_compression_log t c : link_log (link_set_compression t c) = link_log c ++ [CompressionSet t];
  link_enable_encryption_log k c : link_log (link_enable_encryption k c) = link_log c ++ [EncryptionEnabled k];
}.

(** ** The connection *)

Section connection.
Context (z : Zlib) (aes : list byte → list byte → list byte).

(** A connection with the log of what was done through it. *)
Record LoggedConnection : Type := mkLogged { lc_conn : Connection; lc_log : list LinkEvent }.

Definition logged_send (id : Z) (payload : list byte) : M LoggedConnection MineRiderError unit := λ c,
  match send_packet z aes id payload (lc_conn c) with
  | (Ok u, conn) => (Ok u, mkLogged conn (lc_log c ++ [Sent id payload]))
  | (Err e, conn) => (Err e, mkLogged conn (lc_log c))
  end.

Definition logged_read : M LoggedConnection MineRiderError RawPacket := λ c,
  match read_packet z aes (lc_conn c) with
  | (Ok p, conn) => (Ok p, mkLogged conn (lc_log c ++ [Received p]))
  | (Err e, conn) => (Err e, mkLogged conn (lc_log c))
  end.

Definition logged_connection : Link LoggedConnection := {|
  link_send := logged_send;
  link_read := logged_read;
  link_set_state s c := mkLogged (set_state s (lc_conn c)) (lc_log c ++ [StateSet s]);
  link_set_compression t c := mkLogged (set_compression t (lc_conn c)) (lc_log c ++ [CompressionSet t]);
  link_enable_encryption k c := mkLogged (enable_encryption k (lc_conn c)) (lc_log c ++ [EncryptionEnabled k]);
  link_log := lc_log;
|}.

#[export] Instance logged_connection_laws : @LinkLaws LoggedConnection logged_connection.
Proof.
  split; simpl; try done.
  - intros id payload [c l]. unfold logged_send. simpl. destruct (send_packet z aes id payload c) as [[u|e] c']; simpl; [done|].
    by rewrite app_nil_r.
  - intros [c l]. unfold logged_read. simpl. destruct (read_packet z aes c) as [[p|e] c']; simpl; [done|]. by rewrite app_nil_r.
Qed.
End connection.

(** ** A script *)

(** The packets a peer will send, then what happens when they are used up. *)
Record ScriptLink : Type := mkScript {
  script_in : list RawPacket;
  script_log : list LinkEvent;
}.

#[export] Instance script_link : Link ScriptLink := {
  link_send id payload := λ c, (Ok tt, mkScript (script_in c) (script_log c ++ [Sent id payload]));
  link_read := λ c,
    match script_in c with
    | p :: ps => (Ok p, mkScript ps (script_log c ++ [Received p]))
    | [] => (Err ConnectionClosed, c)
    end;
  link_set_state s c := mkScript (script_in c) (script_log c ++ [StateSet s]);
  link_set_compression t c := mkScript (script_in c) (script_log c ++ [CompressionSet t]);
  link_enable_encryption k c := mkScript (script_in c) (script_log c ++ [EncryptionEnabled k]);
  link_log := script_log;
}.

#[export] Instance script_link_laws : LinkLaws ScriptLink.
Proof. split; try done. intros [[|p ps] l]; simpl; [by rewrite app_nil_r|done]. Qed.

(** ** What was sent *)

Definition sent_of (l : list LinkEvent) : list (Z * list byte) :=
  omap (λ e, match e with Sent id payload => Some (id, payload) | _ => None end) l.

Lemma sent_of_app l k : sent_of (l ++ k) = sent_of l ++ sent_of k.
Proof. apply omap_app. Qed.

(** An encoder run on a fresh writer, as [encode(&mut w)?; w.freeze()]. *)
Definition encoded (w : Write) : result ProtocolError (list byte) :=
  match w new_writer with (Ok _, mkWriter bs) => Ok bs | (Err e, _) => Err e end.

(** ** Reasoning about the log *)

(** A state a link's log can be read from. *)
Class HasLog (S : Type) : Type := log_of : S → list LinkEvent.
#[export] Instance link_has_log {C} `{!Link C} : HasLog C := link_log.

(** [m] does exactly [evs] through the link when it succeeds, and stops
    somewhere on the way when it fails. *)
Definition answers {S E A} `{!HasLog S} (m : M S E A) (evs : list LinkEvent) : Prop :=
  ∀ s, match m s with
       | (Ok _, s') => log_of s' = log_of s ++ evs
       | (Err _, s') => ∃ k, k `prefix_of` evs ∧ log_of s' = log_of s ++ k
       end.

Section answers.
Context {S E : Type} `{!HasLog S}.

Lemma answers_silent {A} (m : M S E A) : (∀ s, log_of (m s).2 = log_of s) → answers m [].
Proof.
  intros Hm s. specialize (Hm s). destruct (m s) as [[a|e] s']; simpl in Hm; rewrite Hm; [by rewrite app_nil_r|].
  exists []. by rewrite app_nil_r.
Qed.

Lemma answers_ret {A} (a : A) : answers (ret a : M S E A) [].
Proof. by apply answers_silent. Qed.

Lemma answers_raise {A} e evs : answers (raise e : M S E A) evs.
Proof. intros s. exists []. split; [apply prefix_nil|by rewrite app_nil_r]. Qed.

Lemma answers_bind {A B} (m : M S E A) (k : A → M S E B) e1 e2 :
  answers m e1 → (∀ a, answers (k a) e2) → answers (bind m k) (e1 ++ e2).
Proof.
  intros Hm Hk s. specialize (Hm s). unfold bind. destruct (m s) as [[a|e] s1].
  - specialize (Hk a s1). destruct (k a s1) as [[b|e] s2].
    + by rewrite Hk, Hm, app_assoc.
    + destruct Hk as (l & Hl & ->). exists (e1 ++ l). split; [by apply prefix_app|by rewrite Hm, app_assoc].
  - destruct Hm as (l & Hl & ->). exists l. split; [by apply prefix_app_r|done].
Qed.

Lemma answers_bind_silent {A B} (m : M S E A) (k : A → M S E B) evs :
  answers m [] → (∀ a, answers (k a) evs) → answers (bind m k) evs.
Proof. intros Hm Hk. by apply (answers_bind m k [] evs). Qed.
End answers.

Lemma answers_link_send {C} `{!Link C, !LinkLaws C} id payload : answers (link_send id payload) [Sent id payload].
Proof.
  intros c. pose proof (link_send_log id payload c) as H. unfold log_of, link_has_log.
  destruct (link_send id payload c) as [[u|e] c']; simpl in H; [done|]. exists []. split; [apply prefix_nil|done].
Qed.

(** ** Reading loops *)

(** [for _ in 0..n { let packet = conn.read_packet().await?; match packet.id
    { ... } } Err(..)]: a handler returns from the function or lets the loop
    go on; the turn's number stands for what the handler draws from outside
    the program. *)
Section packet_loop.
Context {St A : Type} `{!HasLog St}.
Context (read : M St MineRiderError RawPacket) (handle : nat → RawPacket → M St MineRiderError (option A)).

Fixpoint packet_loop (n i : nat) : M St MineRiderError A :=
  match n with
  | O => raise Protocol
  | S n =>
      let* packet := read in
      let* r := handle i packet in
      match r with Some a => ret a | None => packet_loop n (S i) end
  end.

Context (ans : nat → RawPacket → list LinkEvent).
Hypothesis read_log : ∀ s, log_of (read s).2 = log_of s ++ (match (read s).1 with Ok p => [Received p] | Err _ => [] end).
Hypothesis handle_answers : ∀ i p, answers (handle i p) (ans i p).

(** The conversation over the packets [ps], each with its answer. *)
Definition conversation (i : nat) (ps : list RawPacket) : list LinkEvent :=
  concat (imap (λ j p, Received p :: ans (i + j) p) ps).

Lemma conversation_cons i p ps : conversation i (p :: ps) = Received p :: ans i p ++ conversation (S i) ps.
Proof.
  unfold conversation. simpl. rewrite Nat.add_0_r. do 2 f_equal. f_equal. apply imap_ext. intros j q _. simpl. do 2 f_equal. lia.
Qed.

(** What is known of the state once the packets [ps] were handled. *)
Context (known : list RawPacket → St → Prop).
Hypothesis known_read : ∀ ps s, known ps s → known ps (read s).2.
Hypothesis known_handle : ∀ i p ps s r s', known ps s → handle i p s = (Ok r, s') → known (ps ++ [p]) s'.

(** A packet the loop goes on after, and the one it returns with. *)
Definition goes_on (p : RawPacket) : Prop := ∃ i s s', handle i p s = (Ok None, s').
Definition returns (p : RawPacket) (a : A) (s' : St) : Prop := ∃ i s, handle i p s = (Ok (Some a), s').

(** The loop reads at most [n] packets and answers each before it reads the
    next; it returns what the handler makes of the last one. *)
Lemma packet_loop_spec n i s before :
  known before s →
  match packet_loop n i s with
  | (Ok a, s') =>
      ∃ ps final, (length ps < n)%nat ∧ Forall goes_on ps ∧ returns final a s' ∧ known (before ++ ps ++ [final]) s'
      ∧ log_of s' = log_of s ++ conversation i (ps ++ [final])
  | (Err _, s') =>
      ∃ ps final k, (length (ps ++ option_list final) ≤ n)%nat ∧ Forall goes_on ps
      ∧ k `prefix_of` conversation i (ps ++ option_list final) ∧ log_of s' = log_of s ++ k
  end.
Proof.
  revert i s before. induction n as [|n IH]; intros i s before Hb; simpl.
  { exists [], None, []. split_and!; [done|done|done|by rewrite app_nil_r]. }
  pose proof (read_log s) as Hr. apply known_read in Hb. unfold bind. destruct (read s) as [[p|e] s1]; simpl in Hr, Hb.
  2: { exists [], None, []. split_and!; [simpl; lia|done|done|done]. }
  pose proof (handle_answers i p s1) as Hh. destruct (handle i p s1) as [[[a|]|e] s2] eqn:Hp; simpl.
  - exists [], p. split_and!; [simpl; lia|done|by exists i, s1|by eapply known_handle|]. simpl.
    rewrite conversation_cons. unfold conversation at 1. simpl. rewrite app_nil_r, Hh, Hr. by rewrite <- app_assoc.
  - specialize (IH (S i) s2 (before ++ [p]) (known_handle _ _ _ _ _ _ Hb Hp)).
    destruct (packet_loop n (S i) s2) as [[a|e] s3].
    + destruct IH as (ps & final & Hl & Hg & Hf & Hk & Hlog). exists (p :: ps), final. simpl.
      split_and!; [lia|constructor; [by exists i, s1, s2|done]|done|by rewrite <- app_assoc in Hk|].
      rewrite conversation_cons, Hlog, Hh, Hr. by rewrite <- !app_assoc.
    + destruct IH as (ps & final & k & Hl & Hg & Hk & Hlog). exists (p :: ps), final, (Received p :: ans i p ++ k).
      split_and!; [simpl; lia|constructor; [by exists i, s1, s2|done]| |].
      * simpl. rewrite conversation_cons. by apply prefix_cons, prefix_app.
      * rewrite Hlog, Hh, Hr. by rewrite <- !app_assoc.
  - destruct Hh as (k & Hk & Hlog). exists [], (Some p), (Received p :: k). split_and!; [simpl; lia|done| |].
    + simpl. rewrite conversation_cons. unfold conversation. simpl. rewrite app_nil_r. by apply prefix_cons.
    + rewrite Hlog, Hr. by rewrite <- app_assoc.
Qed.
End packet_loop.

(** [PacketX::decode(&mut PacketReader::new(&packet.payload))?]. *)
Definition decode_payload {A} (d : Read A) (payload : list byte) : result MineRiderError A :=
  map_err Wire (d (new_reader payload)).1.

(** [p.encode(&mut w)?; conn.send_packet(id, &w.freeze())]. *)
Definition send_encoded {C} `{!Link C} (id : Z) (w : Write) : M C MineRiderError unit :=
  let* bytes := lift (map_err Wire (encoded w)) in link_send id bytes.

(** What that sends, if the packet can be encoded. *)
Definition sends (id : Z) (w : Write) : list LinkEvent :=
  match encoded w with Ok bytes => [Sent id bytes] | Err _ => [] end.

Lemma answers_lift {S E A} `{!HasLog S} (r : result E A) : answers (lift r : M S E A) [].
Proof. by apply answers_silent. Qed.

(** A decoding or checking step before what depends on its result. *)
Lemma answers_lift_bind {S E A B} `{!HasLog S} (r : result E A) (k : A → M S E B) evs :
  (∀ a, r = Ok a → answers (k a) evs) → answers (let* a := lift r in k a) evs.
Proof. intros Hk. destruct r as [a|e]; [exact (Hk a eq_refl)|exact (answers_raise e evs)]. Qed.

Lemma answers_send_encoded {C} `{!Link C, !LinkLaws C} id w : answers (S := C) (send_encoded id w) (sends id w).
Proof.
  unfold send_encoded, sends. destruct (encoded w) as [bytes|e]; simpl; [apply answers_link_send|apply (answers_raise (Wire e))].
Qed.
