(* ===== verification/ResourcePack.v ===== *)
(** * Resource packs

    [src/minecraft/resource_pack.rs]: the answer to an offered resource pack.
    The URL parser and the HTTP client are crates: parsing is a parameter,
    and what the network answers to a request is an argument. *)

From S2P Require Import Prelude Machine Reader Varint Utf8 Buffer Wire Nbt PacketTypes Errors Link.

Local Open Scope Z_scope.

Definition STATUS_SUCCESSFULLY_LOADED : Z := 0.
Definition STATUS_DECLINED : Z := 1.
Definition STATUS_FAILED_DOWNLOAD : Z := 2.
Definition STATUS_ACCEPTED : Z := 3.
Definition STATUS_DOWNLOADED : Z := 4.
Definition STATUS_INVALID_URL : Z := 5.
Definition MAX_RESOURCE_PACK_BYTES : Z := 100 * 1024 * 1024.

Inductive DownloadFailure : Type := InvalidUrl | Failed (reason : string).

(** ** Text helpers of the standard library *)

(** The UTF-8 forms of the characters [char::is_whitespace] accepts. *)
Definition whitespace : list (list byte) :=
  [[x09]; [x0a]; [x0b]; [x0c]; [x0d]; [x20]; [xc2; x85]; [xc2; xa0]; [xe1; x9a; x80];
   [xe2; x80; x80]; [xe2; x80; x81]; [xe2; x80; x82]; [xe2; x80; x83]; [xe2; x80; x84]; [xe2; x80; x85];
   [xe2; x80; x86]; [xe2; x80; x87]; [xe2; x80; x88]; [xe2; x80; x89]; [xe2; x80; x8a];
   [xe2; x80; xa8]; [xe2; x80; xa9]; [xe2; x80; xaf]; [xe2; x81; x9f]; [xe3; x80; x80]].

(** The rest after one of [ws], if the bytes start with one. *)
Definition strip_one (ws : list (list byte)) (bs : list byte) : option (list byte) :=
  match List.find (λ w, bool_decide (take (length w) bs = w)) ws with
  | Some w => Some (drop (length w) bs)
  | None => None
  end.

Fixpoint strip_all (fuel : nat) (ws : list (list byte)) (bs : list byte) : list byte :=
  match fuel, strip_one ws bs with
  | S fuel, Some bs => strip_all fuel ws bs
  | _, _ => bs
  end.

(** [str::trim]; a character takes at least a byte. *)
Definition trim_start (bs : list byte) : list byte := strip_all (length bs) whitespace bs.
Definition trim_end (bs : list byte) : list byte :=
  reverse (strip_all (length bs) (map reverse whitespace) (reverse bs)).
Definition trim (bs : list byte) : list byte := trim_end (trim_start bs).

Definition is_ascii_hexdigit (b : byte) : bool := within 48 57 (u8 b) || within 65 70 (u8 b) || within 97 102 (u8 b).
Definition to_ascii_lowercase (b : byte) : byte := if within 65 90 (u8 b) then byte_of_Z (u8 b + 32) else b.
Definition eq_ignore_ascii_case (a b : list byte) : bool :=
  bool_decide (map to_ascii_lowercase a = map to_ascii_lowercase b).

(** ** Download *)

(** What becomes of the request: no answer in time, no client, no response,
    or a response with its status, its declared length and its body, [None]
    when reading it fails. *)
Inductive Fetch : Type :=
  | FetchTimedOut
  | FetchNoClient
  | FetchNoResponse
  | FetchResponse (status_is_success : bool) (content_length : option Z) (body : option (list byte)).

Record Url : Type := mkUrl { scheme : string; host_str : option string }.

Section resource_pack.
Context (url_parse : string → option Url).
(** The hexadecimal SHA-1 of the body ([format!] of the digest). *)
Context (sha1_hex : list byte → list byte).

Definition verify_hash (expected body : list byte) : result DownloadFailure unit :=
  let expected := trim expected in
  if bool_decide (expected = []) then Ok tt
  else if negb (length expected =? 40)%nat || negb (forallb is_ascii_hexdigit expected) then Err (Failed "invalid SHA-1 field")
  else if negb (eq_ignore_ascii_case (sha1_hex body) expected) then Err (Failed "SHA-1 mismatch")
  else Ok tt.

(** [None]: the time limit ran out. *)
Definition download_and_verify (fetch : Fetch) (pack : PacketCommonAddResourcePack) : option (result DownloadFailure Z) :=
  match url_parse (PacketCommonAddResourcePack_url pack) with
  | None => Some (Err InvalidUrl)
  | Some url =>
      if negb (bool_decide (scheme url ∈ ["http"%string; "https"%string])) || bool_decide (host_str url = None)
      then Some (Err InvalidUrl)
      else
        match fetch with
        | FetchTimedOut => None
        | FetchNoClient => Some (Err (Failed "HTTP client initialization"))
        | FetchNoResponse => Some (Err (Failed "HTTP request"))
        | FetchResponse false _ _ => Some (Err (Failed "HTTP status"))
        | FetchResponse true None _ => Some (Err (Failed "missing Content-Length"))
        | FetchResponse true (Some declared_size) body =>
            if MAX_RESOURCE_PACK_BYTES <? declared_size then Some (Err (Failed "pack exceeds 100 MiB limit"))
            else match body with
                 | None => Some (Err (Failed "response body"))
                 | Some bytes =>
                     let size := Z.of_nat (length bytes) in
                     if (MAX_RESOURCE_PACK_BYTES <? size) || negb (size =? declared_size)
                     then Some (Err (Failed "invalid response size"))
                     else Some (let? _ := verify_hash (bytes_of (PacketCommonAddResourcePack_hash pack)) bytes in Ok size)
                 end
        end
  end.

(** ** The answer *)

Context {C : Type} `{!Link C}.

Definition status_payload (uuid status : Z) : list byte := buf (write_varint status (put_uuid uuid new_writer)).

Definition send_status (packet_id uuid status : Z) : M C MineRiderError unit :=
  link_send packet_id (status_payload uuid status).

Definition handle_offer (response_packet_id : Z) (pack : PacketCommonAddResourcePack) (accept_resource_packs : bool)
    (fetch : Fetch) : M C MineRiderError unit :=
  let send := send_status response_packet_id (PacketCommonAddResourcePack_uuid pack) in
  if negb accept_resource_packs then send STATUS_DECLINED
  else
    send STATUS_ACCEPTED ;;;
    match download_and_verify fetch pack with
    | Some (Ok _) => send STATUS_DOWNLOADED ;;; send STATUS_SUCCESSFULLY_LOADED
    | Some (Err InvalidUrl) => send STATUS_INVALID_URL
    | Some (Err (Failed _)) => send STATUS_FAILED_DOWNLOAD
    | None => send STATUS_FAILED_DOWNLOAD
    end.

(** ** What the server hears *)

(** The statuses of an offer, in order. *)
Definition offer_statuses (pack : PacketCommonAddResourcePack) (accept : bool) (fetch : Fetch) : list Z :=
  if accept then
    STATUS_ACCEPTED ::
    match download_and_verify fetch pack with
    | Some (Ok _) => [STATUS_DOWNLOADED; STATUS_SUCCESSFULLY_LOADED]
    | Some (Err InvalidUrl) => [STATUS_INVALID_URL]
    | _ => [STATUS_FAILED_DOWNLOAD]
    end
  else [STATUS_DECLINED].

Definition offer_answers (id : Z) (pack : PacketCommonAddResourcePack) (accept : bool) (fetch : Fetch) : list LinkEvent :=
  map (λ s, Sent id (status_payload (PacketCommonAddResourcePack_uuid pack) s)) (offer_statuses pack accept fetch).

Context `{!LinkLaws C}.

Lemma answers_send_status id uuid status : answers (send_status id uuid status) [Sent id (status_payload uuid status)].
Proof. apply answers_link_send. Qed.

Lemma answers_handle_offer id pack accept fetch :
  answers (handle_offer id pack accept fetch) (offer_answers id pack accept fetch).
Proof.
  unfold handle_offer, offer_answers, offer_statuses. destruct accept; simpl; [|apply answers_send_status].
  apply (answers_bind _ _ [_]); [apply answers_send_status|]. intros _.
  destruct (download_and_verify fetch pack) as [[n|[|reason]]|]; simpl; try apply answers_send_status.
  apply (answers_bind _ _ [_]); [|intros _]; apply answers_send_status.
Qed.

(** A body that passes every check. *)
Definition verified (pack : PacketCommonAddResourcePack) (fetch : Fetch) : Prop :=
  ∃ url body, url_parse (PacketCommonAddResourcePack_url pack) = Some url
  ∧ scheme url ∈ ["http"%string; "https"%string] ∧ host_str url ≠ None
  ∧ fetch = FetchResponse true (Some (Z.of_nat (length body))) (Some body)
  ∧ Z.of_nat (length body) ≤ MAX_RESOURCE_PACK_BYTES
  ∧ let expected := trim (bytes_of (PacketCommonAddResourcePack_hash pack)) in
    expected = []
    ∨ length expected = 40%nat ∧ map to_ascii_lowercase expected = map to_ascii_lowercase (sha1_hex body).

Lemma verify_hash_ok expected body :
  verify_hash expected body = Ok tt →
  trim expected = [] ∨ length (trim expected) = 40%nat ∧ map to_ascii_lowercase (trim expected) = map to_ascii_lowercase (sha1_hex body).
Proof.
  unfold verify_hash. case_bool_decide; [by left|].
  destruct (negb (length (trim expected) =? 40)%nat || _) eqn:Hc; [done|]. apply orb_false_iff in Hc as [Hl _].
  destruct (negb (eq_ignore_ascii_case _ _)) eqn:He; [done|]. intros _. right.
  apply negb_false_iff, Nat.eqb_eq in Hl. apply negb_false_iff in He. split; [done|].
  unfold eq_ignore_ascii_case in He. by apply bool_decide_eq_true in He.
Qed.

Lemma download_ok pack fetch n : download_and_verify fetch pack = Some (Ok n) → verified pack fetch.
Proof.
  unfold download_and_verify. destruct (url_parse _) as [url|] eqn:Hurl; [|done].
  destruct (negb _ || _) eqn:Hc; [done|]. apply orb_false_iff in Hc as [Hs%negb_false_iff Hh].
  apply bool_decide_eq_true in Hs. apply bool_decide_eq_false in Hh.
  destruct fetch as [| | |[] [declared|] body]; try done.
  destruct (Z.ltb_spec MAX_RESOURCE_PACK_BYTES declared); [done|]. destruct body as [bytes|]; [|done].
  destruct (_ || negb _) eqn:Hsz; [done|]. apply orb_false_iff in Hsz as [Hm%Z.ltb_ge Hd%negb_false_iff%Z.eqb_eq].
  destruct (verify_hash _ bytes) as [[]|e] eqn:Hv; [|done]. intros _. apply verify_hash_ok in Hv.
  exists url, bytes. by rewrite Hd.
Qed.
End resource_pack.

(** C34. An offered pack is answered with one sequence of statuses: declined;
    or accepted and then invalid URL, failed, or downloaded and loaded; a
    write error stops it on the way.  "Loaded" is sent only for a body that
    came over HTTP(S) with a successful status, whose length is the declared
    one and at most 100 MiB and whose SHA-1 is the announced one, if one was
    announced. *)
Theorem resource_pack_outcome url_parse sha1_hex {C} `{!Link C} `{!LinkLaws C} id pack accept fetch :
  answers (S := C) (handle_offer url_parse sha1_hex id pack accept fetch) (offer_answers url_parse sha1_hex id pack accept fetch)
  ∧ (STATUS_SUCCESSFULLY_LOADED ∈ offer_statuses url_parse sha1_hex pack accept fetch →
     accept = true ∧ verified url_parse sha1_hex pack fetch).
Proof.
  split; [apply answers_handle_offer, _|]. unfold offer_statuses. destruct accept; [|by intros ?%list_elem_of_singleton].
  destruct (download_and_verify url_parse sha1_hex fetch pack) as [[n|[|reason]]|] eqn:Hd.
  2-4: intros Hin; exfalso; revert Hin; unfold STATUS_ACCEPTED, STATUS_INVALID_URL, STATUS_FAILED_DOWNLOAD, STATUS_SUCCESSFULLY_LOADED;
    rewrite !elem_of_cons; intros [?|[?|?%not_elem_of_nil]]; done.
  intros _. split; [done|by eapply download_ok].
Qed.

Definition test_pack : PacketCommonAddResourcePack :=
  mkPacketCommonAddResourcePack 2 "http://host/pack.zip" "" true None.
Definition test_url (_ : string) : option Url := Some (mkUrl "http" (Some "host"%string)).

Lemma resource_pack_outcome_witness :
  offer_statuses test_url id test_pack true (FetchResponse true (Some 2) (Some [x50; x4b]))
  = [STATUS_ACCEPTED; STATUS_DOWNLOADED; STATUS_SUCCESSFULLY_LOADED]
  ∧ verified test_url id test_pack (FetchResponse true (Some 2) (Some [x50; x4b])).
Proof.
  split; [by vm_compute|].
  apply (resource_pack_outcome test_url id (C := ScriptLink) 6 test_pack true (FetchResponse true (Some 2) (Some [x50; x4b]))).
  vm_compute. by right; right; left.
Defined.
