(* ===== verification/ServerHash.v ===== *)
(** * The session-server hash

    [src/auth/server_hash.rs].  SHA-1 is the [sha1] crate: a function from
    the bytes fed by the [update] calls to the digest. *)

From S2P Require Import Prelude Machine Reader Varint Utf8.

Local Open Scope Z_scope.

(** The loop of [two_complement_in_place], from the least significant byte:
    [inverted] and [sum] are [u16], so [sum as u8] truncates and [sum >> 8]
    is the carry. *)
Fixpoint negate_loop (carry : Z) (bytes : list byte) : list byte :=
  match bytes with
  | [] => []
  | b :: bytes =>
      let inverted := Z.lxor (u8 b) 255 in
      let sum := inverted + carry in
      byte_of_Z sum :: negate_loop (Z.shiftr sum 8) bytes
  end.

Definition two_complement_in_place (bytes : list byte) : list byte :=
  reverse (negate_loop 1 (reverse bytes)).

(** A lowercase hexadecimal digit, and [format!("{b:02x}")]. *)
Definition hex_digit (d : Z) : byte := byte_of_Z (if d <? 10 then 48 + d else 87 + d).
Definition hex_byte (b : byte) : list byte := [hex_digit (u8 b / 16); hex_digit (u8 b `mod` 16)].

(** [trim_start_matches('0')]. *)
Fixpoint trim_zeros (s : list byte) : list byte :=
  match s with
  | b :: rest => if decide (b = x30) then trim_zeros rest else s
  | [] => []
  end.

(** [digest[0]] panics on an empty digest: [None]. *)
Definition signed_hex_digest (digest : list byte) : option string :=
  match digest with
  | [] => None
  | d0 :: _ =>
      let negative := negb (Z.land (u8 d0) 128 =? 0) in
      let magnitude := if negative then two_complement_in_place digest else digest in
      let hex := concat (map hex_byte magnitude) in
      let trimmed := trim_zeros hex in
      let trimmed := match trimmed with [] => [x30] | _ => trimmed end in
      Some (of_bytes (if negative then x2d :: trimmed else trimmed))
  end.

Definition server_id_hash (sha1 : list byte → list byte) (server_id : string)
    (shared_secret public_key_der : list byte) : option string :=
  signed_hex_digest (sha1 (bytes_of server_id ++ shared_secret ++ public_key_der)).

(** ** What a signed hexadecimal numeral denotes *)

Definition digit_value (b : byte) : Z := if u8 b <? 58 then u8 b - 48 else u8 b - 87.
Definition hex_value (s : list byte) : Z := foldl (λ acc b, acc * 16 + digit_value b) 0 s.
Definition is_hex_digit (b : byte) : bool := within 48 57 (u8 b) || within 97 102 (u8 b).

(** [denotes s v]: [s] is the one canonical base-16 numeral of [v], as
    [BigInteger.toString(16)] prints it: a minus sign for negative values
    only, lowercase digits, no leading zero except in "0". *)
Definition denotes (s : string) (v : Z) : Prop :=
  ∃ digits, bytes_of s = (if v <? 0 then [x2d] else []) ++ digits
    ∧ hex_value digits = Z.abs v
    ∧ Forall (λ b, is_hex_digit b = true) digits
    ∧ digits ≠ [] ∧ (head digits = Some x30 → digits = [x30]).

(** ** Lemmas *)

Lemma lxor_255 b : Z.lxor (u8 b) 255 = 255 - u8 b.
Proof. by destruct b. Qed.

Lemma negate_loop_value carry bs :
  0 ≤ carry ≤ 1 →
  le_value (negate_loop carry bs)
  = (2 ^ (8 * Z.of_nat (length bs)) - 1 - le_value bs + carry) `mod` 2 ^ (8 * Z.of_nat (length bs)).
Proof.
  revert carry. induction bs as [|b bs IH]; intros carry Hc; [by rewrite Z.mod_1_r|].
  cbn [negate_loop le_value length]. rewrite lxor_255, u8_of_Z, Z.shiftr_div_pow2 by lia.
  pose proof (u8_range b) as Hb. set (sum := 255 - u8 b + carry).
  assert (0 ≤ sum / 2 ^ 8 ≤ 1) as Hcarry.
  { change (2 ^ 8) with 256. split; [apply Z.div_pos; lia|]. apply Z.div_le_upper_bound; lia. }
  rewrite IH by done. replace (8 * Z.of_nat (S (length bs))) with (8 + 8 * Z.of_nat (length bs)) by lia.
  rewrite Z.pow_add_r by lia. change (2 ^ 8) with 256 in *.
  set (P := 2 ^ (8 * Z.of_nat (length bs))). assert (0 < P) by (apply pow2_pos; lia).
  replace (256 * P - 1 - (u8 b + 256 * le_value bs) + carry) with (sum + (P - 1 - le_value bs) * 256) by lia.
  rewrite Z.rem_mul_r by lia. rewrite Z.mod_add by lia. rewrite Z.div_add by lia.
  do 2 f_equal. f_equal. lia.
Qed.

Lemma negate_loop_length carry bs : length (negate_loop carry bs) = length bs.
Proof. revert carry. induction bs as [|b bs IH]; intros carry; simpl; [done|]. by rewrite IH. Qed.

Lemma two_complement_value bs :
  be_value (two_complement_in_place bs)
  = (- be_value bs) `mod` 2 ^ (8 * Z.of_nat (length bs)).
Proof.
  unfold two_complement_in_place, be_value. rewrite reverse_involutive, negate_loop_value by lia.
  rewrite length_reverse. rewrite <- (Z.mod_add (- _) 1) by (pose proof (pow2_pos (8 * Z.of_nat (length bs))); lia).
  f_equal. lia.
Qed.

Lemma be_value_app a b : be_value (a ++ b) = be_value a * 2 ^ (8 * Z.of_nat (length b)) + be_value b.
Proof.
  unfold be_value. rewrite reverse_app, <- (length_reverse b). generalize (reverse a) as y, (reverse b) as x.
  intros y x. induction x as [|c x IH]; simpl le_value; [simpl; lia|].
  simpl. simpl le_value in IH. rewrite IH.
  change (Z.pos (Pos.of_succ_nat (length x))) with (Z.of_nat (S (length x))).
  replace (8 * Z.of_nat (S (length x))) with (8 + 8 * Z.of_nat (length x)) by lia.
  rewrite Z.pow_add_r by lia. lia.
Qed.

Lemma hex_value_app s t : hex_value (s ++ t) = hex_value s * 16 ^ Z.of_nat (length t) + hex_value t.
Proof.
  unfold hex_value. rewrite foldl_app. generalize (foldl (λ acc b, acc * 16 + digit_value b) 0 s) as acc. intros acc.
  assert (∀ a, foldl (λ acc b, acc * 16 + digit_value b) a t
    = a * 16 ^ Z.of_nat (length t) + foldl (λ acc b, acc * 16 + digit_value b) 0 t) as H; [|apply H].
  induction t as [|b t IH]; intros a; simpl foldl; [simpl; lia|].
  rewrite IH, (IH (0 * 16 + digit_value b)). simpl length. rewrite Nat2Z.inj_succ, Z.pow_succ_r by lia. ring.
Qed.

Lemma hex_byte_ok b : hex_value (hex_byte b) = u8 b ∧ forallb is_hex_digit (hex_byte b) = true.
Proof. by destruct b. Qed.

Lemma hex_bytes_value bs : hex_value (concat (map hex_byte bs)) = be_value bs.
Proof.
  induction bs as [|b bs IH] using rev_ind; [done|].
  rewrite map_app, concat_app, hex_value_app, be_value_app, IH. cbn [map concat]. rewrite app_nil_r.
  rewrite (proj1 (hex_byte_ok b)). f_equal. unfold be_value. simpl. lia.
Qed.

Lemma hex_bytes_digits bs : Forall (λ b, is_hex_digit b = true) (concat (map hex_byte bs)).
Proof.
  induction bs as [|b bs IH]; cbn [map concat]; [constructor|]. apply Forall_app. split; [|done].
  apply List.Forall_forall, forallb_forall, hex_byte_ok.
Qed.

Lemma trim_zeros_spec s :
  hex_value (trim_zeros s) = hex_value s ∧ head (trim_zeros s) ≠ Some x30
  ∧ (∃ zs, s = zs ++ trim_zeros s).
Proof.
  induction s as [|b s IH]; simpl; [by split_and!; [..|exists []]|]. case_decide as Hb.
  - destruct IH as (H1 & H2 & zs & H3). split_and!; [|done|exists (b :: zs); simpl; by rewrite <- H3].
    by subst b.
  - split_and!; [done|simpl; congruence|by exists []].
Qed.

Lemma high_bit d0 ds :
  negb (Z.land (u8 d0) 128 =? 0) = (2 ^ (8 * Z.of_nat (length (d0 :: ds)) - 1) <=? be_value (d0 :: ds)).
Proof.
  change (d0 :: ds) with ([d0] ++ ds). rewrite be_value_app.
  pose proof (be_value_range ds) as Hr. pose proof (u8_range d0) as Hb.
  rewrite land_128_u8 by done. replace (be_value [d0]) with (u8 d0) by (unfold be_value; simpl; lia).
  rewrite length_app. replace (8 * Z.of_nat (length [d0] + length ds) - 1) with (7 + 8 * Z.of_nat (length ds)) by (simpl length; lia).
  rewrite Z.pow_add_r by lia. change (2 ^ 7) with 128.
  destruct (Z.ltb_spec (u8 d0) 128), (Z.leb_spec (128 * 2 ^ (8 * Z.of_nat (length ds))) (u8 d0 * 2 ^ (8 * Z.of_nat (length ds)) + be_value ds));
    [nia|done|done|nia].
Qed.

(** The digits of a non-negative magnitude. *)
Definition hex_digits (magnitude : list byte) : list byte :=
  let trimmed := trim_zeros (concat (map hex_byte magnitude)) in
  match trimmed with [] => [x30] | _ => trimmed end.

Lemma hex_digits_spec m :
  hex_value (hex_digits m) = be_value m ∧ Forall (λ b, is_hex_digit b = true) (hex_digits m)
  ∧ hex_digits m ≠ [] ∧ (head (hex_digits m) = Some x30 → hex_digits m = [x30]).
Proof.
  unfold hex_digits. destruct (trim_zeros_spec (concat (map hex_byte m))) as (Hv & Hh & zs & Heq).
  pose proof (hex_bytes_digits m) as Hd. rewrite Heq in Hd. apply Forall_app in Hd as [_ Hd].
  rewrite hex_bytes_value in Hv. destruct (trim_zeros _) as [|b t].
  - rewrite <- Hv. split_and!; [done|by repeat constructor|done|done].
  - split_and!; [done..|]. intros H. by destruct Hh.
Qed.

(** ** Properties *)

(** [signed_hex_digest] prints the digest read as a two's-complement
    big-endian integer, in canonical signed hexadecimal, for digests of any
    positive length (Java's [new BigInteger(digest).toString(16)]). *)
Theorem signed_hex_digest_denotes (digest : list byte) :
  digest ≠ [] →
  ∃ s, signed_hex_digest digest = Some s
    ∧ denotes s (swrap (8 * Z.of_nat (length digest)) (be_value digest)).
Proof.
  intros Hne. destruct digest as [|d0 ds]; [done|]. set (digest := d0 :: ds).
  set (w := 8 * Z.of_nat (length digest)). assert (1 ≤ w) as Hw by (unfold w; simpl; lia).
  pose proof (be_value_range digest) as Hr. fold w in Hr.
  pose proof (pow2_split w ltac:(lia)) as Hp. pose proof (pow2_pos (w - 1) ltac:(lia)).
  cbn [signed_hex_digest]. eexists. split; [reflexivity|]. fold digest. unfold denotes.
  rewrite bytes_of_of_bytes. unfold digest at 1. rewrite (high_bit d0 ds). fold digest. fold w.
  destruct (Z.leb_spec (2 ^ (w - 1)) (be_value digest)) as [Hneg|Hpos].
  - assert (swrap w (be_value digest) = be_value digest - 2 ^ w) as ->.
    { rewrite <- (swrap_small w (be_value digest - 2 ^ w)) by (unfold in_i; lia). apply swrap_mod.
      replace (be_value digest) with (be_value digest - 2 ^ w + 1 * 2 ^ w) at 1 by lia. apply Z.mod_add. lia. }
    rewrite (proj2 (Z.ltb_lt _ _)) by lia. exists (hex_digits (two_complement_in_place digest)). split; [done|].
    rewrite (proj1 (hex_digits_spec _)), two_complement_value. fold w. split; [|apply hex_digits_spec].
    rewrite <- (Z.mod_add _ 1), Z.mod_small by lia. lia.
  - rewrite swrap_small by (unfold in_i; lia). rewrite (proj2 (Z.ltb_ge _ _)) by lia.
    exists (hex_digits digest). split; [done|]. rewrite (proj1 (hex_digits_spec _)). split; [lia|apply hex_digits_spec].
Qed.

(** The digest of the protocol documentation's "jeb_" vector. *)
Definition jeb_digest : list byte := be_bytes 20 (2 ^ 160 - 0x7c9d5b0044c130109a5d7b5fb5c317c02b4e28c1).

Lemma signed_hex_digest_denotes_witness :
  signed_hex_digest jeb_digest = Some "-7c9d5b0044c130109a5d7b5fb5c317c02b4e28c1"%string
  ∧ ∃ s, signed_hex_digest jeb_digest = Some s ∧ denotes s (swrap 160 (be_value jeb_digest)).
Proof.
  split; [vm_compute; reflexivity|]. exact (signed_hex_digest_denotes jeb_digest ltac:(vm_compute; discriminate)).
Defined.
