(* ===== verification/Inventory.v ===== *)
(** * Inventory and container windows

    [src/minecraft/inventory.rs]: the player's inventory, at most one open
    container, the cursor, and the bounded click transactions.  The item type
    [Slot] is generated code the module only copies, so the state is
    parametric in it.  A packet argument is spelled out as its fields. *)

From S2P Require Import Prelude Machine Reader Nbt.

Local Open Scope Z_scope.

Definition PLAYER_INVENTORY_WINDOW_ID : Z := 0.
Definition MAX_WINDOW_SLOTS : nat := 1024.
Definition MAX_WINDOW_PROPERTIES : nat := 1024.
Definition MAX_PENDING_TRANSACTIONS : nat := 64.
Definition MAX_COMPLETED_TRANSACTIONS : nat := 128.
Definition TRANSACTION_TIMEOUT_TICKS : Z := 100.
Definition OUTSIDE_SLOT : Z := -999.

(** ** Clicks *)

Inductive MouseButton : Type := MouseLeft | MouseRight.
Inductive HotbarDestination : Type := HotbarSlot (slot : Z) | Offhand.
Inductive DragButton : Type := DragLeft | DragRight | DragMiddle.
Inductive DragPhase : Type := DStart | DAddSlot | DEnd.

Inductive InventoryClick : Type :=
  | Pickup (slot : option Z) (button : MouseButton)
  | QuickMove (slot : Z) (button : MouseButton)
  | HotbarSwap (slot : Z) (destination : HotbarDestination)
  | CloneSlot (slot : Z)
  | Throw (slot : Z) (whole_stack : bool)
  | QuickCraft (phase : DragPhase) (button : DragButton) (slot : option Z)
  | PickupAll (slot : Z).

Inductive GuiClick : Type :=
  | GuiLeft
  | GuiRight
  | GuiShiftLeft
  | GuiShiftRight
  | GuiHotbarSwap (hotbar_slot : Z)
  | GuiOffhandSwap
  | GuiThrowOne
  | GuiThrowStack
  | GuiDoubleClick
  | GuiOutsideLeft
  | GuiOutsideRight
  | GuiDragStart (button : DragButton)
  | GuiDragAddSlot (button : DragButton)
  | GuiDragEnd (button : DragButton)
  | GuiCreativeClone.

Definition into_inventory_click (g : GuiClick) (slot : Z) : InventoryClick :=
  match g with
  | GuiLeft => Pickup (Some slot) MouseLeft
  | GuiRight => Pickup (Some slot) MouseRight
  | GuiShiftLeft => QuickMove slot MouseLeft
  | GuiShiftRight => QuickMove slot MouseRight
  | GuiHotbarSwap h => HotbarSwap slot (HotbarSlot h)
  | GuiOffhandSwap => HotbarSwap slot Offhand
  | GuiThrowOne => Throw slot false
  | GuiThrowStack => Throw slot true
  | GuiDoubleClick => PickupAll slot
  | GuiOutsideLeft => Pickup None MouseLeft
  | GuiOutsideRight => Pickup None MouseRight
  | GuiDragStart b => QuickCraft DStart b None
  | GuiDragAddSlot b => QuickCraft DAddSlot b (Some slot)
  | GuiDragEnd b => QuickCraft DEnd b None
  | GuiCreativeClone => CloneSlot slot
  end.

Record InventoryClickRequest : Type := mkRequest {
  transaction_id : Z;
  generation : Z;
  req_window : Z;
  req_state : Z;
  click : InventoryClick;
}.

Inductive InventoryError : Type :=
  | UnknownWindow (window_id : Z)
  | StaleState (requested current : Z)
  | InvalidSlot (slot : Z) (slot_count : nat)
  | InvalidHotbarSlot (slot : Z)
  | CreativeOnly
  | InvalidDragPhase
  | DragInProgress
  | DuplicateTransaction (transaction_id : Z)
  | QueueFull.

Inductive InventoryTransactionStatus : Type := Queued | Sent.

Record InventoryTransaction : Type := mkTransaction {
  request : InventoryClickRequest;
  status : InventoryTransactionStatus;
  queued_tick : Z;
}.

Inductive InventoryOutcome : Type :=
  | OutSent
  | Confirmed (state_id : Z)
  | Corrected (state_id : Z)
  | TimedOut
  | OutWindowClosed
  | Rejected (e : InventoryError).

Inductive InventoryEvent : Type :=
  | WindowOpened (window_id : Z)
  | WindowClosed (window_id : Z)
  | WindowSynchronized (window_id state_id : Z) (first_sync : bool)
  | SlotUpdated (window_id state_id slot : Z)
  | CursorUpdated
  | PropertyUpdated (window_id property : Z)
  | SelectedHotbarChanged (slot : Z) (applied : bool)
  | TransactionQueued (transaction_id : Z)
  | TransactionSent (transaction_id : Z)
  | TransactionFinished (transaction_id : Z) (outcome : InventoryOutcome)
  | TransactionRejected (transaction_id : Z) (error : InventoryError).

#[export] Instance DragButton_eq_dec : EqDecision DragButton.
Proof. solve_decision. Defined.
#[export] Instance DragPhase_eq_dec : EqDecision DragPhase.
Proof. solve_decision. Defined.
#[export] Instance status_eq_dec : EqDecision InventoryTransactionStatus.
Proof. solve_decision. Defined.

(** The id of a pending transaction. *)
Definition tid (t : InventoryTransaction) : Z := transaction_id (request t).

(** [BTreeMap::keys().next()]: the least key. *)
Definition min_key {A} (m : gmap Z A) : option Z :=
  foldr (λ k acc, Some (match acc with Some b => Z.min k b | None => k end)) None (map_to_list m).*1.

(** Insertion into the bounded map of outcomes: a new key evicts the least
    one when the map is full. *)
Definition insert_bounded {A} (cap : nat) (k : Z) (v : A) (m : gmap Z A) : gmap Z A :=
  let m := if bool_decide (m !! k = None) && bool_decide (cap ≤ size m)%nat
           then match min_key m with Some oldest => delete oldest m | None => m end
           else m in
  <[k := v]> m.

Definition validate_slot (slot : Z) (slot_count : nat) : result InventoryError unit :=
  if slot <? 0 then Err (InvalidSlot slot slot_count)
  else if Z.of_nat slot_count <=? slot then Err (InvalidSlot slot slot_count)
  else Ok tt.

Definition validate_optional_slot (slot : option Z) (slot_count : nat) : result InventoryError Z :=
  match slot with
  | Some slot => let? _ := validate_slot slot slot_count in Ok slot
  | None => Ok OUTSIDE_SLOT
  end.

Definition mouse_button (b : MouseButton) : Z := match b with MouseLeft => 0 | MouseRight => 1 end.

Definition drag_button (button : DragButton) (phase : DragPhase) : Z :=
  (match button with DragLeft => 0 | DragRight => 4 | DragMiddle => 8 end)
  + match phase with DStart => 0 | DAddSlot => 1 | DEnd => 2 end.

(** [InventoryState::validate_click] reads the drag state, and returns it
    updated with the wire triple (slot, button, mode). *)
Definition validate_click (drag : option DragButton) (c : InventoryClick) (slot_count : nat)
    (creative_mode : bool) : result InventoryError (option DragButton * (Z * Z * Z)) :=
  match c with
  | QuickCraft phase button slot =>
      if bool_decide (button = DragMiddle) && negb creative_mode then Err CreativeOnly
      else
        let? wire_slot :=
          match phase, slot with
          | DStart, None | DEnd, None => Ok OUTSIDE_SLOT
          | DAddSlot, None => Err InvalidDragPhase
          | DAddSlot, Some slot => let? _ := validate_slot slot slot_count in Ok slot
          | _, _ => Err InvalidDragPhase
          end in
        let? drag :=
          match phase, drag with
          | DStart, None => Ok (Some button)
          | DAddSlot, Some b => if decide (b = button) then Ok drag else Err InvalidDragPhase
          | DEnd, Some b => if decide (b = button) then Ok None else Err InvalidDragPhase
          | _, _ => Err InvalidDragPhase
          end in
        Ok (drag, (wire_slot, drag_button button phase, 5))
  | _ =>
      if bool_decide (is_Some drag) then Err DragInProgress
      else
        let? wire :=
          match c with
          | Pickup slot button =>
              let? slot := validate_optional_slot slot slot_count in Ok (slot, mouse_button button, 0)
          | QuickMove slot button =>
              let? _ := validate_slot slot slot_count in Ok (slot, mouse_button button, 1)
          | HotbarSwap slot destination =>
              let? _ := validate_slot slot slot_count in
              let? button :=
                match destination with
                | HotbarSlot h => if (0 <=? h) && (h <=? 8) then Ok h else Err (InvalidHotbarSlot h)
                | Offhand => Ok 40
                end in
              Ok (slot, button, 2)
          | CloneSlot slot =>
              let? _ := validate_slot slot slot_count in
              if negb creative_mode then Err CreativeOnly else Ok (slot, 2, 3)
          | Throw slot whole_stack =>
              let? _ := validate_slot slot slot_count in Ok (slot, if whole_stack then 1 else 0, 4)
          | PickupAll slot => let? _ := validate_slot slot slot_count in Ok (slot, 0, 6)
          | QuickCraft _ _ _ => Err InvalidDragPhase
          end in
        Ok (drag, wire)
  end.

(** ** State *)

Section inventory.
Context {Slot : Type} (empty_slot : Slot).

Record Window : Type := mkWindow {
  win_id : Z;
  kind : Z;
  title : Nbt;
  state_id : Z;
  slots : list Slot;
  slots_truncated : bool;
  properties : gmap Z Z;
  synchronized_once : bool;
}.

Record InventoryState : Type := mkInventory {
  player_inventory : Window;
  open_win : option Window;
  cursor : Slot;
  selected_hotbar_slot : Z;
  pending_transactions : list InventoryTransaction;
  completed_transactions : gmap Z InventoryOutcome;
  drag : option DragButton;
}.

Record PacketWindowClick : Type := mkClickPacket {
  pk_window : Z;
  pk_state : Z;
  pk_slot : Z;
  pk_button : Z;
  pk_mode : Z;
  pk_changed : list (Z * Slot);
  pk_cursor : Slot;
}.

Definition window_player_inventory : Window :=
  mkWindow PLAYER_INVENTORY_WINDOW_ID 0 (NbtCompound []) 0 [] false ∅ true.

Definition window_from_open (window_id inventory_type : Z) (window_title : Nbt) : Window :=
  mkWindow window_id inventory_type window_title 0 [] false ∅ false.

Definition inventory_new : InventoryState :=
  mkInventory window_player_inventory None empty_slot 0 [] ∅ None.

(** Field updates. *)
Definition set_window_slots l w := mkWindow (win_id w) (kind w) (title w) (state_id w) l (slots_truncated w) (properties w) (synchronized_once w).
Definition set_window_state s w := mkWindow (win_id w) (kind w) (title w) s (slots w) (slots_truncated w) (properties w) (synchronized_once w).
Definition set_window_properties p w := mkWindow (win_id w) (kind w) (title w) (state_id w) (slots w) (slots_truncated w) p (synchronized_once w).
Definition set_open o s := mkInventory (player_inventory s) o (cursor s) (selected_hotbar_slot s) (pending_transactions s) (completed_transactions s) (drag s).
Definition set_player w s := mkInventory w (open_win s) (cursor s) (selected_hotbar_slot s) (pending_transactions s) (completed_transactions s) (drag s).
Definition set_cursor c s := mkInventory (player_inventory s) (open_win s) c (selected_hotbar_slot s) (pending_transactions s) (completed_transactions s) (drag s).
Definition set_hotbar h s := mkInventory (player_inventory s) (open_win s) (cursor s) h (pending_transactions s) (completed_transactions s) (drag s).
Definition set_pending p s := mkInventory (player_inventory s) (open_win s) (cursor s) (selected_hotbar_slot s) p (completed_transactions s) (drag s).
Definition set_completed m s := mkInventory (player_inventory s) (open_win s) (cursor s) (selected_hotbar_slot s) (pending_transactions s) m (drag s).
Definition set_drag d s := mkInventory (player_inventory s) (open_win s) (cursor s) (selected_hotbar_slot s) (pending_transactions s) (completed_transactions s) d.

(** [Window::set_slot]: the flag says whether the index was accepted. *)
Definition window_set_slot (index : Z) (item : Slot) (w : Window) : bool * Window :=
  if index <? 0 then (false, w)
  else
    let index := Z.to_nat index in
    if decide (MAX_WINDOW_SLOTS ≤ index)%nat then (false, w)
    else
      let l := if decide (length (slots w) ≤ index)%nat then resize (S index) empty_slot (slots w) else slots w in
      (true, set_window_slots (<[index := item]> l) w).

(** [InventoryState::window]. *)
Definition window (window_id : Z) (s : InventoryState) : option Window :=
  if window_id =? PLAYER_INVENTORY_WINDOW_ID then Some (player_inventory s)
  else match open_win s with
       | Some w => if win_id w =? window_id then Some w else None
       | None => None
       end.

(** Writing through the reference [window_mut] returned. *)
Definition put_window (window_id : Z) (w : Window) (s : InventoryState) : InventoryState :=
  if window_id =? PLAYER_INVENTORY_WINDOW_ID then set_player w s else set_open (Some w) s.

(** ** Transactions *)

(** [iter().position(..)] followed by [remove]. *)
Fixpoint remove_tid (id : Z) (l : list InventoryTransaction) : option (list InventoryTransaction) :=
  match l with
  | [] => None
  | t :: l => if tid t =? id then Some l else cons t <$> remove_tid id l
  end.

Definition finish_transaction (id : Z) (outcome : InventoryOutcome) (s : InventoryState) :
    option InventoryEvent * InventoryState :=
  match remove_tid id (pending_transactions s) with
  | None => (None, s)
  | Some pending =>
      (Some (TransactionFinished id outcome),
       set_completed (insert_bounded MAX_COMPLETED_TRANSACTIONS id outcome (completed_transactions s))
         (set_pending pending s))
  end.

(** [ids.into_iter().filter_map(|id| self.finish_transaction(id, outcome)).collect()]. *)
Fixpoint finish_ids (ids : list Z) (outcome : InventoryOutcome) (s : InventoryState) :
    list InventoryEvent * InventoryState :=
  match ids with
  | [] => ([], s)
  | id :: ids =>
      let '(e, s) := finish_transaction id outcome s in
      let '(es, s) := finish_ids ids outcome s in
      (option_list e ++ es, s)
  end.

Definition finish_matching (p : InventoryTransaction → bool) (outcome : InventoryOutcome) (s : InventoryState) :
    list InventoryEvent * InventoryState :=
  finish_ids (map tid (List.filter p (pending_transactions s))) outcome s.

Definition finish_window_transactions (window_id : Z) (outcome : InventoryOutcome) :=
  finish_matching (λ t, req_window (request t) =? window_id) outcome.

Definition finish_confirmed_transactions (window_id sid : Z) :=
  finish_matching (λ t, bool_decide (status t = Sent) && (req_window (request t) =? window_id)
                        && (req_state (request t) <? sid)) (Confirmed sid).

Definition expire_transactions (tick : Z) :=
  finish_matching (λ t, TRANSACTION_TIMEOUT_TICKS <=? saturating_sub tick (queued_tick t)) TimedOut.

Definition reject_transaction (id : Z) (error : InventoryError) (s : InventoryState) :
    InventoryEvent * InventoryState :=
  (TransactionRejected id error,
   set_completed (insert_bounded MAX_COMPLETED_TRANSACTIONS id (Rejected error) (completed_transactions s)) s).

(** The first transaction with the id is marked [Sent]; its click. *)
Fixpoint mark_tid (id : Z) (l : list InventoryTransaction) : option (InventoryClick * list InventoryTransaction) :=
  match l with
  | [] => None
  | t :: l =>
      if tid t =? id then Some (click (request t), mkTransaction (request t) Sent (queued_tick t) :: l)
      else '(c, l) ← mark_tid id l; Some (c, t :: l)
  end.

Definition mark_sent (id : Z) (s : InventoryState) : list InventoryEvent * InventoryState :=
  match mark_tid id (pending_transactions s) with
  | None => ([], s)
  | Some (c, pending) =>
      let s := set_pending pending s in
      match c with
      | QuickCraft (DStart | DAddSlot) _ _ =>
          let '(e, s) := finish_transaction id OutSent s in
          (TransactionSent id :: option_list e, s)
      | _ => ([TransactionSent id], s)
      end
  end.

Definition prepare_click (r : InventoryClickRequest) (tick : Z) (creative_mode : bool) :
    M InventoryState InventoryError (PacketWindowClick * InventoryEvent) := λ s,
  if decide (MAX_PENDING_TRANSACTIONS ≤ length (pending_transactions s))%nat then (Err QueueFull, s)
  else if existsb (λ t, tid t =? transaction_id r) (pending_transactions s)
          || bool_decide (is_Some (completed_transactions s !! transaction_id r))
  then (Err (DuplicateTransaction (transaction_id r)), s)
  else match window (req_window r) s with
  | None => (Err (UnknownWindow (req_window r)), s)
  | Some w =>
      if negb (req_state r =? state_id w) then (Err (StaleState (req_state r) (state_id w)), s)
      else match validate_click (drag s) (click r) (length (slots w)) creative_mode with
      | Err e => (Err e, s)
      | Ok (d, (slot, button, mode)) =>
          let packet := mkClickPacket (req_window r) (req_state r) slot button mode [] (cursor s) in
          (Ok (packet, TransactionQueued (transaction_id r)),
           set_pending (push (pending_transactions s) (mkTransaction r Queued tick)) (set_drag d s))
      end
  end.

(** ** Clientbound packets *)

Definition open_window (window_id inventory_type : Z) (window_title : Nbt) (s : InventoryState) :
    list InventoryEvent * InventoryState :=
  let '(events, s) :=
    match open_win s with
    | Some previous =>
        let '(es, s) := finish_window_transactions (win_id previous) OutWindowClosed (set_open None s) in
        (WindowClosed (win_id previous) :: es, s)
    | None => ([], s)
    end in
  (push events (WindowOpened window_id),
   set_drag None (set_open (Some (window_from_open window_id inventory_type window_title)) s)).

Definition close_window (window_id : Z) (s : InventoryState) : list InventoryEvent * InventoryState :=
  match open_win s with
  | Some w =>
      if win_id w =? window_id then
        let '(es, s) := finish_window_transactions window_id OutWindowClosed (set_drag None (set_open None s)) in
        (WindowClosed window_id :: es, s)
      else ([], s)
  | None => ([], s)
  end.

Definition window_items (window_id sid : Z) (items : list Slot) (carried_item : Slot) (s : InventoryState) :
    list InventoryEvent * InventoryState :=
  match window window_id s with
  | Some w =>
      let w' := mkWindow (win_id w) (kind w) (title w) sid (take MAX_WINDOW_SLOTS items)
        (bool_decide (MAX_WINDOW_SLOTS < length items)%nat) (properties w) true in
      let first_sync := negb (synchronized_once w) in
      let s := set_cursor carried_item (put_window window_id w' s) in
      let '(es, s) := finish_window_transactions window_id (Corrected sid) s in
      (CursorUpdated :: WindowSynchronized window_id sid first_sync :: es, s)
  | None => ([CursorUpdated], set_cursor carried_item s)
  end.

Definition set_slot (window_id sid slot : Z) (item : Slot) (s : InventoryState) :
    list InventoryEvent * InventoryState :=
  if window_id =? -1 then ([CursorUpdated], set_cursor item s)
  else match window window_id s with
  | Some w =>
      let '(applied, w) := window_set_slot slot item (set_window_state sid w) in
      let s := put_window window_id w s in
      if applied then
        let '(es, s) := finish_confirmed_transactions window_id sid s in
        (SlotUpdated window_id sid slot :: es, s)
      else ([], s)
  | None => ([], s)
  end.

Definition set_cursor_item (contents : Slot) (s : InventoryState) : list InventoryEvent * InventoryState :=
  ([CursorUpdated], set_cursor contents s).

(** [i16::try_from(p.slot_id)]. *)
Definition set_player_inventory (slot_id : Z) (contents : Slot) (s : InventoryState) :
    list InventoryEvent * InventoryState :=
  if bool_decide (in_i 16 slot_id) then
    let '(applied, w) := window_set_slot slot_id contents (player_inventory s) in
    if applied then ([SlotUpdated PLAYER_INVENTORY_WINDOW_ID (state_id w) slot_id], set_player w s)
    else ([], s)
  else ([], s).

Definition craft_progress_bar (window_id property value : Z) (s : InventoryState) :
    list InventoryEvent * InventoryState :=
  match window window_id s with
  | Some w =>
      if bool_decide (is_Some (properties w !! property)) || bool_decide (size (properties w) < MAX_WINDOW_PROPERTIES)%nat
      then ([PropertyUpdated window_id property],
            put_window window_id (set_window_properties (<[property := value]> (properties w)) w) s)
      else ([], s)
  | None => ([], s)
  end.

(** [held_item_slot] (clientbound) and [select_hotbar_slot] (our own). *)
Definition held_item_slot (slot : Z) (s : InventoryState) : list InventoryEvent * InventoryState :=
  let applied := (0 <=? slot) && (slot <=? 8) in
  let s := if applied then set_hotbar slot s else s in
  ([SelectedHotbarChanged (selected_hotbar_slot s) applied], s).

Definition select_hotbar_slot (slot : Z) (s : InventoryState) : list InventoryEvent * InventoryState :=
  let applied := (0 <=? slot) && (slot <=? 8) in
  let s := if applied then set_hotbar slot s else s in
  ([SelectedHotbarChanged (selected_hotbar_slot s) applied], s).
End inventory.

Arguments Window : clear implicits.
Arguments InventoryState : clear implicits.
Arguments PacketWindowClick : clear implicits.

(** ** Bounded maps *)

Section bounded.
Context {A : Type}.
Implicit Types m : gmap Z A.

Lemma foldr_min_spec (l : list Z) :
  match foldr (λ k acc, Some (match acc with Some b => Z.min k b | None => k end)) None l with
  | Some k => k ∈ l ∧ ∀ j, j ∈ l → k ≤ j
  | None => l = []
  end.
Proof.
  induction l as [|a l IH]; simpl; [done|]. destruct (foldr _ None l) as [b|].
  - destruct IH as [Hb Hmin]. split.
    + destruct (Z.min_spec a b) as [[_ ->]|[_ ->]]; [left|by right].
    + intros j [->|Hj]%elem_of_cons; [lia|]. specialize (Hmin j Hj). lia.
  - subst l. split; [by left|]. intros j [->|Hj]%elem_of_cons; [lia|]. by apply not_elem_of_nil in Hj.
Qed.

Lemma min_key_spec m :
  match min_key m with
  | Some k => is_Some (m !! k) ∧ ∀ j, is_Some (m !! j) → k ≤ j
  | None => m = ∅
  end.
Proof.
  unfold min_key. pose proof (foldr_min_spec (map_to_list m).*1) as H.
  assert (∀ k, k ∈ (map_to_list m).*1 ↔ is_Some (m !! k)) as Hk.
  { intros k. rewrite list_elem_of_fmap. split.
    - intros ([k' v] & -> & Hin). exists v. by apply elem_of_map_to_list in Hin.
    - intros [v Hv]. exists (k, v). split; [done|]. by apply elem_of_map_to_list. }
  destruct (foldr _ None _) as [k|].
  - destruct H as [H1 H2]. split; [by apply Hk|]. intros j Hj. by apply H2, Hk.
  - apply fmap_nil_inv in H. by apply map_to_list_empty_iff.
Qed.

Lemma insert_bounded_size cap k v m :
  (0 < cap)%nat → (size m ≤ cap)%nat → (size (insert_bounded cap k v m) ≤ cap)%nat.
Proof.
  intros Hcap Hm. unfold insert_bounded. case_bool_decide as Hk; simpl.
  2:{ destruct (m !! k) as [x|] eqn:Hx; [|done]. rewrite map_size_insert_Some by (by exists x). lia. }
  case_bool_decide as Hfull; [|rewrite map_size_insert_None by done; lia].
  pose proof (min_key_spec m) as H. destruct (min_key m) as [o|].
  - destruct H as [Ho _]. assert (0 < size m)%nat by lia. rewrite map_size_insert_None.
    + rewrite map_size_delete. destruct Ho as [x ->]. lia.
    + by apply lookup_delete_None; right.
  - subst m. rewrite map_size_empty in *. lia.
Qed.

Lemma insert_bounded_lookup cap k v m : insert_bounded cap k v m !! k = Some v.
Proof. unfold insert_bounded. apply lookup_insert_eq. Qed.
End bounded.

Lemma completed_size {A} k (v : A) (m : gmap Z A) :
  (size m ≤ MAX_COMPLETED_TRANSACTIONS)%nat →
  (size (insert_bounded MAX_COMPLETED_TRANSACTIONS k v m) ≤ MAX_COMPLETED_TRANSACTIONS)%nat.
Proof. apply insert_bounded_size. unfold MAX_COMPLETED_TRANSACTIONS. lia. Qed.

(** ** Transactions *)

Section transactions.
Context {Slot : Type}.
Implicit Types s : InventoryState Slot.

Definition pending_ids s : list Z := map tid (pending_transactions s).

Lemma remove_tid_spec id l :
  NoDup (map tid l) →
  match remove_tid id l with
  | Some l' => id ∈ map tid l ∧ l' = List.filter (λ t, negb (tid t =? id)) l
  | None => id ∉ map tid l
  end.
Proof.
  induction l as [|t l IH]; simpl; [intros _; apply not_elem_of_nil|]. intros [Ht Hl]%NoDup_cons.
  destruct (Z.eqb_spec (tid t) id) as [<-|Hne]; simpl.
  - split; [left|]. symmetry. apply forallb_filter_id, forallb_forall. intros x Hx.
    apply negb_true_iff, Z.eqb_neq. intros Heq. apply Ht. rewrite <- Heq. by apply list_elem_of_In, in_map.
  - specialize (IH Hl). destruct (remove_tid id l) as [l'|]; simpl.
    + destruct IH as [Hin ->]. split; [by right|done].
    + intros [->|?]%elem_of_cons; done.
Qed.

(** Same windows, cursor, hotbar and drag. *)
Definition same_view s s' : Prop :=
  player_inventory s' = player_inventory s ∧ open_win s' = open_win s ∧ cursor s' = cursor s
  ∧ selected_hotbar_slot s' = selected_hotbar_slot s ∧ drag s' = drag s.

#[export] Instance same_view_preorder : PreOrder same_view.
Proof. split; [done|]. intros s1 s2 s3 (?&?&?&?&?) (?&?&?&?&?). split_and!; congruence. Qed.

Lemma map_filter_tid (p : Z → bool) l :
  map tid (List.filter (λ t, p (tid t)) l) = List.filter p (map tid l).
Proof. induction l as [|t l IH]; simpl; [done|]. destruct (p (tid t)); simpl; by rewrite IH. Qed.

Lemma NoDup_filter_tid (p : InventoryTransaction → bool) l :
  NoDup (map tid l) → NoDup (map tid (List.filter p l)).
Proof.
  induction l as [|t l IH]; simpl; [done|]. intros [Ht Hl]%NoDup_cons. destruct (p t); simpl; [|auto].
  apply NoDup_cons. split; [|auto]. intros Hin. apply Ht. apply list_elem_of_In in Hin. apply list_elem_of_In.
  apply in_map_iff in Hin as (x & Hx & [Hin _]%filter_In). apply in_map_iff. eauto.
Qed.

Lemma filter_filter {B} (p q : B → bool) l :
  List.filter p (List.filter q l) = List.filter (λ x, q x && p x) l.
Proof.
  induction l as [|x l IH]; simpl; [done|]. destruct (q x); simpl; [destruct (p x)|]; by rewrite IH.
Qed.

Lemma filter_ext_tid (p q : InventoryTransaction → bool) l :
  (∀ t, t ∈ l → p t = q t) → List.filter p l = List.filter q l.
Proof.
  induction l as [|t l IH]; intros H; simpl; [done|]. rewrite (H t) by left. rewrite IH; [done|].
  intros x Hx. apply H. by right.
Qed.

(** What a batch of finishes does, for ids that are all pending. *)
Lemma finish_ids_spec ids outcome s :
  NoDup (pending_ids s) → NoDup ids → (∀ id, id ∈ ids → id ∈ pending_ids s) →
  (size (completed_transactions s) ≤ MAX_COMPLETED_TRANSACTIONS)%nat →
  let '(es, s') := finish_ids ids outcome s in
  es = map (λ id, TransactionFinished id outcome) ids
  ∧ pending_transactions s' = List.filter (λ t, bool_decide (tid t ∉ ids)) (pending_transactions s)
  ∧ same_view s s' ∧ (size (completed_transactions s') ≤ MAX_COMPLETED_TRANSACTIONS)%nat.
Proof.
  revert s. induction ids as [|id ids IH]; intros s Hnd Hids Hin Hsize; simpl.
  - split_and!; [done| |done..]. symmetry. apply forallb_filter_id, forallb_forall. done.
  - apply NoDup_cons in Hids as [Hid Hids]. unfold finish_transaction.
    pose proof (remove_tid_spec id (pending_transactions s) Hnd) as Hrm.
    destruct (remove_tid id (pending_transactions s)) as [l'|]; [|by destruct Hrm; apply Hin; left].
    destruct Hrm as [_ ->].
    set (s1 := set_completed _ _). specialize (IH s1).
    destruct (finish_ids ids outcome s1) as [es s'].
    destruct IH as (-> & Hp & Hv & Hs).
    + by apply NoDup_filter_tid.
    + done.
    + intros j Hj. unfold pending_ids, s1; simpl. rewrite (map_filter_tid (λ z, negb (z =? id))).
      apply list_elem_of_In, filter_In. split; [apply list_elem_of_In, Hin; by right|].
      apply negb_true_iff, Z.eqb_neq. intros ->. done.
    + by apply completed_size.
    + split_and!; [done| |by etrans; [|exact Hv]|done].
      rewrite Hp. unfold s1; simpl. rewrite filter_filter. apply filter_ext_tid. intros t _.
      destruct (Z.eqb_spec (tid t) id) as [->|Hne]; simpl.
      * symmetry. apply bool_decide_eq_false. intros H. apply H. left.
      * apply bool_decide_ext. rewrite not_elem_of_cons. tauto.
Qed.

(** The transactions that match are finished, in submission order; the
    others stay. *)
Lemma finish_matching_spec p outcome s :
  NoDup (pending_ids s) → (size (completed_transactions s) ≤ MAX_COMPLETED_TRANSACTIONS)%nat →
  let '(es, s') := finish_matching p outcome s in
  es = map (λ t, TransactionFinished (tid t) outcome) (List.filter p (pending_transactions s))
  ∧ pending_transactions s' = List.filter (λ t, negb (p t)) (pending_transactions s)
  ∧ same_view s s' ∧ (size (completed_transactions s') ≤ MAX_COMPLETED_TRANSACTIONS)%nat.
Proof.
  intros Hnd Hsize. unfold finish_matching. set (ids := map tid _).
  pose proof (finish_ids_spec ids outcome s Hnd) as H. destruct (finish_ids ids outcome s) as [es s'].
  destruct H as (-> & Hp & Hv & Hs); [by apply NoDup_filter_tid| |done|].
  { intros id Hid. apply list_elem_of_In in Hid. apply in_map_iff in Hid as (t & <- & [Ht _]%filter_In).
    apply list_elem_of_In. by apply in_map. }
  split_and!; [unfold ids; by rewrite map_map| |done|done]. rewrite Hp. apply filter_ext_tid.
  intros t Ht. assert (tid t ∈ ids ↔ p t = true) as Hiff.
  { unfold ids. rewrite list_elem_of_In, in_map_iff. split.
    - intros (x & Hx & [Hin Hpx]%filter_In). assert (x = t) as ->; [|done].
      apply list_elem_of_In in Hin. by apply (NoDup_map_inj tid _ _ _ Hnd).
    - intros Hpt. exists t. split; [done|]. apply filter_In. split; [by apply list_elem_of_In|done]. }
  destruct (p t); simpl.
  - apply bool_decide_eq_false. intros Hnot. by apply Hnot, Hiff.
  - apply bool_decide_eq_true. intros Hin. by apply Hiff in Hin.
Qed.
End transactions.

(** ** The invariant *)

Section invariant.
Context {Slot : Type} (empty_slot : Slot).
Implicit Types (s : InventoryState Slot) (w : Window Slot).

Definition window_ok w : Prop :=
  (length (slots w) ≤ MAX_WINDOW_SLOTS)%nat ∧ (size (properties w) ≤ MAX_WINDOW_PROPERTIES)%nat.

Record inventory_ok s : Prop := {
  ok_pending : (length (pending_transactions s) ≤ MAX_PENDING_TRANSACTIONS)%nat;
  ok_ids : NoDup (pending_ids s);
  ok_completed : (size (completed_transactions s) ≤ MAX_COMPLETED_TRANSACTIONS)%nat;
  ok_player : window_ok (player_inventory s);
  ok_open : ∀ w, open_win s = Some w → window_ok w;
  ok_hotbar : 0 ≤ selected_hotbar_slot s ≤ 8;
}.

Lemma filter_length_le {B} (p : B → bool) l : (length (List.filter p l) ≤ length l)%nat.
Proof. induction l as [|x l IH]; simpl; [done|]. destruct (p x); simpl; lia. Qed.

Lemma finish_matching_ok p outcome s : inventory_ok s → inventory_ok (finish_matching p outcome s).2.
Proof.
  intros [Hp Hids Hc Hpl Hop Hh]. pose proof (finish_matching_spec p outcome s Hids Hc) as H.
  destruct (finish_matching p outcome s) as [es s']. destruct H as (_ & Hp' & (H1 & H2 & H3 & H4 & H5) & Hc').
  split; simpl; rewrite ?H1, ?H2, ?H4; try done.
  - rewrite Hp'. etrans; [apply filter_length_le|done].
  - unfold pending_ids. rewrite Hp'. by apply NoDup_filter_tid.
Qed.

Lemma finish_transaction_ok id outcome s : inventory_ok s → inventory_ok (finish_transaction id outcome s).2.
Proof.
  intros [Hp Hids Hc Hpl Hop Hh]. unfold finish_transaction.
  pose proof (remove_tid_spec id _ Hids) as H. destruct (remove_tid id _) as [l'|]; [|by split].
  destruct H as [_ ->]. split; simpl; try done.
  - etrans; [apply filter_length_le|done].
  - by apply NoDup_filter_tid.
  - by apply completed_size.
Qed.

Lemma window_set_slot_ok index item w : window_ok w → window_ok (window_set_slot empty_slot index item w).2.
Proof.
  intros [H1 H2]. unfold window_set_slot. destruct (index <? 0); [done|]. case_decide; [done|].
  split; [|done]. simpl. rewrite length_insert. case_decide; [rewrite length_resize; lia|done].
Qed.

Lemma window_lookup_ok id s w : inventory_ok s → window id s = Some w → window_ok w.
Proof.
  intros Hs. unfold window. case_match; [intros [= <-]; by apply ok_player|].
  destruct (open_win s) as [w'|] eqn:Ho; [|done]. case_match; [|done]. intros [= <-]. by eapply ok_open.
Qed.

Lemma put_window_ok id w s : inventory_ok s → window_ok w → inventory_ok (put_window id w s).
Proof.
  intros [Hp Hids Hc Hpl Hop Hh] Hw. unfold put_window. case_match; split; simpl; try done.
  by intros w' [= <-].
Qed.

Lemma set_cursor_ok c s : inventory_ok s → inventory_ok (set_cursor c s).
Proof. by intros []. Qed.
Lemma set_drag_ok d s : inventory_ok s → inventory_ok (set_drag d s).
Proof. by intros []. Qed.
Lemma set_open_ok o s : inventory_ok s → (∀ w, o = Some w → window_ok w) → inventory_ok (set_open o s).
Proof. by intros []. Qed.

Lemma mark_tid_spec id l :
  match mark_tid id l with
  | Some (_, l') => map tid l' = map tid l ∧ map request l' = map request l ∧ map queued_tick l' = map queued_tick l
  | None => True
  end.
Proof.
  induction l as [|t l IH]; simpl; [done|]. destruct (tid t =? id); [done|].
  destruct (mark_tid id l) as [[c l']|]; simpl; [|done]. destruct IH as (H1 & H2 & H3). split_and!; simpl; congruence.
Qed.

Lemma set_pending_ok l s :
  inventory_ok s → (length l ≤ MAX_PENDING_TRANSACTIONS)%nat → NoDup (map tid l) → inventory_ok (set_pending l s).
Proof. by intros []. Qed.

Lemma mark_sent_ok id s : inventory_ok s → inventory_ok (mark_sent id s).2.
Proof.
  intros Hs. unfold mark_sent. pose proof (mark_tid_spec id (pending_transactions s)) as H.
  destruct (mark_tid id _) as [[c l]|]; [|done]. destruct H as (Hids & Hreq & _).
  assert (inventory_ok (set_pending l s)) as Hs'.
  { apply set_pending_ok; [done| |rewrite Hids; by apply ok_ids].
    rewrite <- (length_map tid l), Hids, length_map. by apply ok_pending. }
  destruct c as [| | | | |ph b sl|]; try done. destruct ph; try done;
    pose proof (finish_transaction_ok id OutSent _ Hs') as Hf; by destruct (finish_transaction id OutSent _).
Qed.

Lemma prepare_click_ok r tick creative s : inventory_ok s → inventory_ok (prepare_click r tick creative s).2.
Proof.
  intros Hs. unfold prepare_click. case_decide as Hlen; [done|].
  destruct (existsb _ _ || _) eqn:Hdup; [done|]. apply orb_false_iff in Hdup as [Hdup _].
  case_match; [|done]. case_match; [done|]. destruct (validate_click _ _ _ _) as [[d [[sl b] m]]|]; [|done].
  apply set_pending_ok; [by apply set_drag_ok| |].
  - unfold push. rewrite length_app. simpl. lia.
  - unfold push. rewrite map_app. apply NoDup_app. split; [by apply ok_ids|]. split; [|apply NoDup_singleton].
    intros id Hin Hid. apply list_elem_of_singleton in Hid as ->. apply not_true_iff_false in Hdup. apply Hdup.
    apply existsb_exists. apply list_elem_of_In, in_map_iff in Hin as (t & Ht & Hin). exists t.
    split; [done|]. by apply Z.eqb_eq.
Qed.
End invariant.

(** ** Histories *)

Inductive inventory_op (Slot : Type) : Type :=
  | OpOpenWindow (window_id inventory_type : Z) (window_title : Nbt)
  | OpCloseWindow (window_id : Z)
  | OpWindowItems (window_id sid : Z) (items : list Slot) (carried_item : Slot)
  | OpSetSlot (window_id sid slot : Z) (item : Slot)
  | OpSetCursorItem (contents : Slot)
  | OpSetPlayerInventory (slot_id : Z) (contents : Slot)
  | OpCraftProgressBar (window_id property value : Z)
  | OpHeldItemSlot (slot : Z)
  | OpSelectHotbarSlot (slot : Z)
  | OpPrepareClick (r : InventoryClickRequest) (tick : Z) (creative : bool)
  | OpMarkSent (id : Z)
  | OpExpire (tick : Z)
  | OpReject (id : Z) (e : InventoryError).
Arguments OpOpenWindow {Slot}.
Arguments OpCloseWindow {Slot}.
Arguments OpWindowItems {Slot}.
Arguments OpSetSlot {Slot}.
Arguments OpSetCursorItem {Slot}.
Arguments OpSetPlayerInventory {Slot}.
Arguments OpCraftProgressBar {Slot}.
Arguments OpHeldItemSlot {Slot}.
Arguments OpSelectHotbarSlot {Slot}.
Arguments OpPrepareClick {Slot}.
Arguments OpMarkSent {Slot}.
Arguments OpExpire {Slot}.
Arguments OpReject {Slot}.

(** The state after one call of the module's interface. *)
Definition run_op {Slot} (empty_slot : Slot) (op : inventory_op Slot) (s : InventoryState Slot) : InventoryState Slot :=
  match op with
  | OpOpenWindow id k t => (open_window id k t s).2
  | OpCloseWindow id => (close_window id s).2
  | OpWindowItems id sid items c => (window_items id sid items c s).2
  | OpSetSlot id sid slot item => (set_slot empty_slot id sid slot item s).2
  | OpSetCursorItem c => (set_cursor_item c s).2
  | OpSetPlayerInventory slot c => (set_player_inventory empty_slot slot c s).2
  | OpCraftProgressBar id p v => (craft_progress_bar id p v s).2
  | OpHeldItemSlot slot => (held_item_slot slot s).2
  | OpSelectHotbarSlot slot => (select_hotbar_slot slot s).2
  | OpPrepareClick r tick creative => (prepare_click r tick creative s).2
  | OpMarkSent id => (mark_sent id s).2
  | OpExpire tick => (expire_transactions tick s).2
  | OpReject id e => (reject_transaction id e s).2
  end.

Section histories.
Context {Slot : Type} (empty_slot : Slot).
Implicit Types (s : InventoryState Slot) (w : Window Slot).

Lemma open_window_ok id k t s : inventory_ok s → inventory_ok (open_window id k t s).2.
Proof.
  intros Hs. unfold open_window.
  assert (∀ s', inventory_ok s' → inventory_ok (set_drag None (set_open (Some (window_from_open id k t)) s'))) as Hend.
  { intros s' Hs'. apply set_drag_ok, set_open_ok; [done|]. intros w [= <-].
    split; cbn [slots properties window_from_open length]; [lia|]. rewrite map_size_empty. lia. }
  destruct (open_win s) as [prev|]; [|by apply Hend].
  pose proof (finish_matching_ok (λ t, req_window (request t) =? win_id prev) OutWindowClosed (set_open None s)) as Hf.
  unfold finish_window_transactions. destruct (finish_matching _ _ _) as [es s']. apply Hend, Hf.
  by apply set_open_ok.
Qed.

Lemma close_window_ok id s : inventory_ok s → inventory_ok (close_window id s).2.
Proof.
  intros Hs. unfold close_window. destruct (open_win s) as [w|]; [|done]. case_match; [|done].
  pose proof (finish_matching_ok (λ t, req_window (request t) =? id) OutWindowClosed (set_drag None (set_open None s))) as Hf.
  unfold finish_window_transactions. destruct (finish_matching _ _ _) as [es s']. apply Hf.
  by apply set_drag_ok, set_open_ok.
Qed.

Lemma window_items_ok id sid items c s : inventory_ok s → inventory_ok (window_items id sid items c s).2.
Proof.
  intros Hs. unfold window_items. destruct (window id s) as [w|] eqn:Hw; [|by apply set_cursor_ok].
  set (s1 := set_cursor c _). assert (inventory_ok s1) as Hs1.
  { apply set_cursor_ok, put_window_ok; [done|]. destruct (window_lookup_ok _ _ _ Hs Hw) as [_ Hp].
    split; [simpl; rewrite length_take; lia|done]. }
  pose proof (finish_matching_ok (λ t, req_window (request t) =? id) (Corrected sid) s1 Hs1) as Hf.
  unfold finish_window_transactions. by destruct (finish_matching _ _ _).
Qed.

Lemma set_slot_ok id sid slot item s : inventory_ok s → inventory_ok (set_slot empty_slot id sid slot item s).2.
Proof.
  intros Hs. unfold set_slot. case_match; [by apply set_cursor_ok|].
  destruct (window id s) as [w|] eqn:Hw; [|done].
  pose proof (window_set_slot_ok empty_slot slot item (set_window_state sid w)) as Hok.
  destruct (window_set_slot _ _ _ _) as [applied w']. destruct (window_lookup_ok _ _ _ Hs Hw) as [H1 H2].
  pose proof (put_window_ok id w' s Hs (Hok (conj H1 H2))) as Hs1. destruct applied; [|done].
  pose proof (finish_matching_ok (λ t, bool_decide (status t = Sent) && (req_window (request t) =? id) && (req_state (request t) <? sid))
    (Confirmed sid) _ Hs1) as Hf.
  unfold finish_confirmed_transactions. by destruct (finish_matching _ _ _).
Qed.

Lemma set_player_inventory_ok slot c s : inventory_ok s → inventory_ok (set_player_inventory empty_slot slot c s).2.
Proof.
  intros Hs. unfold set_player_inventory. case_match; [|done].
  pose proof (window_set_slot_ok empty_slot slot c _ (ok_player _ Hs)) as Hok.
  destruct (window_set_slot _ _ _ _) as [[] w']; [|done].
  exact (put_window_ok PLAYER_INVENTORY_WINDOW_ID w' s Hs Hok).
Qed.

Lemma craft_progress_bar_ok id p v s : inventory_ok s → inventory_ok (craft_progress_bar id p v s).2.
Proof.
  intros Hs. unfold craft_progress_bar. destruct (window id s) as [w|] eqn:Hw; [|done].
  destruct (window_lookup_ok _ _ _ Hs Hw) as [H1 H2]. destruct (_ || _) eqn:Hc; [|done].
  apply put_window_ok; [done|]. split; [done|]. simpl.
  apply orb_true_iff in Hc as [Hc%bool_decide_eq_true|Hc%bool_decide_eq_true].
  - by rewrite map_size_insert_Some.
  - rewrite map_size_insert. case_match; simpl; lia.
Qed.

Lemma hotbar_ok slot s :
  inventory_ok s → inventory_ok (if (0 <=? slot) && (slot <=? 8) then set_hotbar slot s else s).
Proof.
  intros [Hp Hids Hc Hpl Hop Hh]. destruct (_ && _) eqn:Hb; [|by split].
  apply andb_true_iff in Hb as [?%Z.leb_le ?%Z.leb_le]. by split.
Qed.

Lemma reject_transaction_ok id e s : inventory_ok s → inventory_ok (reject_transaction id e s).2.
Proof. intros []. split; simpl; try done. by apply completed_size. Qed.

Lemma run_op_ok op s : inventory_ok s → inventory_ok (run_op empty_slot op s).
Proof.
  destruct op; simpl; [apply open_window_ok|apply close_window_ok|apply window_items_ok|apply set_slot_ok
    |apply set_cursor_ok|apply set_player_inventory_ok|apply craft_progress_bar_ok|apply hotbar_ok|apply hotbar_ok
    |apply prepare_click_ok|apply mark_sent_ok|apply finish_matching_ok|apply reject_transaction_ok].
Qed.

Lemma inventory_new_ok : inventory_ok (inventory_new empty_slot).
Proof.
  split; cbn [inventory_new pending_transactions completed_transactions player_inventory open_win selected_hotbar_slot].
  - simpl. lia.
  - constructor.
  - rewrite map_size_empty. lia.
  - split; cbn [slots properties window_player_inventory]; [simpl; lia|rewrite map_size_empty; lia].
  - done.
  - lia.
Qed.
End histories.

(** The slot list after [Window::set_slot]. *)
Lemma set_slot_lookup {Slot} (empty_slot item : Slot) (l : list Slot) (i j : nat) :
  <[i := item]> (if decide (length l ≤ i)%nat then resize (S i) empty_slot l else l) !! j =
    if decide (j = i) then Some item
    else if decide (j < length l)%nat then l !! j
    else if decide (j < i)%nat then Some empty_slot else None.
Proof.
  destruct (decide (length l ≤ i)%nat) as [Hl|Hl]; case_decide as Hj.
  - subst j. rewrite list_lookup_insert_eq; [done|]. rewrite length_resize. lia.
  - rewrite list_lookup_insert_ne by done. case_decide as Hjl.
    + by rewrite lookup_resize by lia.
    + case_decide; [rewrite lookup_resize_new by lia; done|]. rewrite lookup_resize_old by lia. done.
  - subst j. rewrite list_lookup_insert_eq by lia. done.
  - rewrite list_lookup_insert_ne by done. case_decide; [done|]. rewrite decide_False by lia.
    apply lookup_ge_None. lia.
Qed.

(** ** Drag lifecycles *)

(** Clicks accepted one after the other, each against its own slot count and
    game mode. *)
Fixpoint accepted_run (d : option DragButton) (cs : list (InventoryClick * nat * bool)) :
    result InventoryError (option DragButton) :=
  match cs with
  | [] => Ok d
  | (c, n, creative) :: cs => let? (d, _) := validate_click d c n creative in accepted_run d cs
  end.

Definition is_drag (c : InventoryClick) : bool := match c with QuickCraft _ _ _ => true | _ => false end.
Definition adds_slot (b : DragButton) (c : InventoryClick) : Prop := ∃ slot, c = QuickCraft DAddSlot b (Some slot).

(** Whole drags (start, slots, end, one button) between ordinary clicks, the
    last drag possibly unfinished. *)
Inductive drag_word : list InventoryClick → option DragButton → Prop :=
  | word_nil : drag_word [] None
  | word_click c cs d : is_drag c = false → drag_word cs d → drag_word (c :: cs) d
  | word_drag b adds cs d :
      Forall (adds_slot b) adds → drag_word cs d →
      drag_word (QuickCraft DStart b None :: adds ++ QuickCraft DEnd b None :: cs) d
  | word_open b adds : Forall (adds_slot b) adds → drag_word (QuickCraft DStart b None :: adds) (Some b).

Lemma validate_click_drag d c n creative d' wire :
  validate_click d c n creative = Ok (d', wire) →
  match d with
  | None => (is_drag c = false ∧ d' = None) ∨ (∃ b, c = QuickCraft DStart b None ∧ d' = Some b)
  | Some b => (adds_slot b c ∧ d' = Some b) ∨ (c = QuickCraft DEnd b None ∧ d' = None)
  end.
Proof.
  assert (∀ r : result InventoryError (Z * Z * Z),
    (if bool_decide (is_Some d) then Err DragInProgress else let? wire := r in Ok (d, wire)) = Ok (d', wire) →
    d = None ∧ d' = None) as Hplain.
  { intros r. destruct d; [done|]. by intros (w & _ & H)%rbind_Ok_inv; simplify_eq. }
  destruct c as [sl b|sl b|sl h|sl|sl ws|ph b sl|sl]; cbn [validate_click];
    try (intros [-> ->]%Hplain; by left). clear Hplain.
  destruct (bool_decide (b = DragMiddle) && negb creative); [done|].
  intros (ws & Hws & H)%rbind_Ok_inv. apply rbind_Ok_inv in H as (d1 & Hd & H). simplify_eq.
  destruct ph, d as [b'|]; try done.
  - destruct sl; simplify_eq. right. by exists b.
  - case_decide; simplify_eq. destruct sl as [sl|]; [|done]. left. split; [by exists sl|done].
  - case_decide; simplify_eq. destruct sl; simplify_eq. by right.
Qed.

Lemma validate_slot_Ok slot n : validate_slot slot n = Ok tt ↔ 0 ≤ slot < Z.of_nat n.
Proof. unfold validate_slot. destruct (Z.ltb_spec slot 0), (Z.leb_spec (Z.of_nat n) slot); split; (done || lia). Qed.

Lemma validate_click_wire d c n creative d' sl b m :
  validate_click d c n creative = Ok (d', (sl, b, m)) →
  (sl = OUTSIDE_SLOT ∨ 0 ≤ sl < Z.of_nat n) ∧ 0 ≤ m ≤ 6.
Proof.
  unfold validate_click, validate_optional_slot, rbind. intros H.
  repeat match goal with
  | H : validate_slot ?x ?n = Ok ?u |- _ => destruct u; apply validate_slot_Ok in H
  | H : Ok _ = Ok _ |- _ => injection H as H; subst
  | H : Err _ = Ok _ |- _ => discriminate H
  | H : context [match ?x with _ => _ end] |- _ => destruct x eqn:?
  end; simplify_eq; split; auto; lia.
Qed.

Lemma accepted_run_word d cs d' :
  accepted_run d cs = Ok d' →
  match d with
  | None => drag_word (map (λ x, x.1.1) cs) d'
  | Some b => ∃ adds, Forall (adds_slot b) adds
      ∧ ((map (λ x, x.1.1) cs = adds ∧ d' = Some b)
         ∨ ∃ rest, map (λ x, x.1.1) cs = adds ++ QuickCraft DEnd b None :: rest ∧ drag_word rest d')
  end.
Proof.
  revert d. induction cs as [|[[c n] creative] cs IH]; intros d; simpl.
  { intros [= <-]. destruct d as [b|]; [exists []; eauto|constructor]. }
  intros ([d1 wire] & Hv & H)%rbind_Ok_inv. apply IH in H. apply validate_click_drag in Hv.
  destruct d as [b|].
  - destruct Hv as [[Hc ->]|[-> ->]].
    + destruct H as (adds & Ha & H). exists (c :: adds). split; [by constructor|].
      destruct H as [[-> ->]|(rest & -> & Hr)]; [by left|right; by exists rest].
    + exists []. split; [constructor|]. right. by eexists.
  - destruct Hv as [[Hc ->]|(b & -> & ->)]; [by constructor|].
    destruct H as (adds & Ha & [[Hm ->]|(rest & Hm & Hr)]); rewrite Hm; by constructor.
Qed.

(** ** Properties *)

(** C27. However the server and the caller interleave their calls, the state
    stays inside its bounds: at most 64 pending clicks with distinct ids, at
    most 128 remembered outcomes, windows of at most 1024 slots and 1024
    properties, a selected hotbar slot in 0..8. *)
Theorem inventory_bounds_invariant {Slot} (empty_slot : Slot) (ops : list (inventory_op Slot)) :
  inventory_ok (foldl (λ s op, run_op empty_slot op s) (inventory_new empty_slot) ops).
Proof.
  generalize (inventory_new_ok empty_slot). generalize (inventory_new empty_slot) as s.
  induction ops as [|op ops IH]; intros s Hs; simpl; [done|]. by apply IH, run_op_ok.
Qed.

(** C7. [prepare_click] is all-or-nothing and never predicts.  A refused click
    changes nothing; an accepted one was within the queue bound, had a fresh
    id, addressed an open window at its current revision, and becomes exactly
    one queued transaction plus a packet that echoes window and revision,
    names a slot of that window (or the outside), carries no predicted slots
    and the cursor as it is. *)
Theorem prepare_click_outcome {Slot} (r : InventoryClickRequest) (tick : Z) (creative : bool)
    (s : InventoryState Slot) :
  match prepare_click r tick creative s with
  | (Err _, s') => s' = s
  | (Ok (p, ev), s') =>
      (length (pending_transactions s) < MAX_PENDING_TRANSACTIONS)%nat
      ∧ (transaction_id r ∉ pending_ids s) ∧ completed_transactions s !! transaction_id r = None
      ∧ ev = TransactionQueued (transaction_id r)
      ∧ s' = set_pending (pending_transactions s ++ [mkTransaction r Queued tick]) (set_drag (drag s') s)
      ∧ ∃ w, window (req_window r) s = Some w ∧ state_id w = req_state r
          ∧ pk_window p = req_window r ∧ pk_state p = req_state r ∧ pk_changed p = [] ∧ pk_cursor p = cursor s
          ∧ (pk_slot p = OUTSIDE_SLOT ∨ 0 ≤ pk_slot p < Z.of_nat (length (slots w)))
          ∧ 0 ≤ pk_mode p ≤ 6
  end.
Proof.
  unfold prepare_click. case_decide as Hlen; [done|].
  destruct (existsb _ _ || _) eqn:Hdup; [done|]. apply orb_false_iff in Hdup as [Hdup Hcomp].
  destruct (window (req_window r) s) as [w|] eqn:Hw; [|done].
  destruct (Z.eqb_spec (req_state r) (state_id w)) as [Hst|]; [|done]. cbn [negb].
  destruct (validate_click _ _ _ _) as [[d [[sl b] m]]|] eqn:Hv; [|done].
  apply validate_click_wire in Hv as [Hsl Hm]. split_and!; [lia| | |done..|].
  - intros Hin. apply not_true_iff_false in Hdup. apply Hdup, existsb_exists.
    unfold pending_ids in Hin. apply list_elem_of_In, in_map_iff in Hin as (t & Ht & Hin).
    exists t. split; [done|]. by apply Z.eqb_eq.
  - apply bool_decide_eq_false in Hcomp. by apply eq_None_not_Some.
  - exists w. split_and!; cbn; (done || lia).
Qed.

(** Every accepted sequence of clicks is a sequence of whole drags, each
    started, extended and ended with one button, between ordinary clicks; no
    ordinary click is accepted while a drag is open, and the drag state after
    the sequence tells whether the last drag is unfinished. *)
Theorem drag_lifecycle (cs : list (InventoryClick * nat * bool)) (d : option DragButton) :
  accepted_run None cs = Ok d → drag_word (map (λ x, x.1.1) cs) d.
Proof. apply accepted_run_word. Qed.

Lemma drag_lifecycle_witness :
  drag_word [Pickup (Some 3) MouseLeft; QuickCraft DStart DragRight None; QuickCraft DAddSlot DragRight (Some 4);
             QuickCraft DEnd DragRight None; QuickCraft DStart DragLeft None] (Some DragLeft).
Proof.
  apply (drag_lifecycle
    [(Pickup (Some 3) MouseLeft, 46%nat, false); (QuickCraft DStart DragRight None, 46%nat, false);
     (QuickCraft DAddSlot DragRight (Some 4), 46%nat, false); (QuickCraft DEnd DragRight None, 46%nat, false);
     (QuickCraft DStart DragLeft None, 46%nat, false)]).
  vm_compute. reflexivity.
Defined.

(** [expire_transactions] ends exactly the transactions that have waited
    100 ticks or more, each with one [TimedOut] event, in submission order,
    and leaves the windows, the cursor and the drag alone; every transaction
    still pending afterwards is younger than that. *)
Theorem expire_transactions_exact {Slot} (tick : Z) (s : InventoryState Slot) :
  inventory_ok s →
  let '(es, s') := expire_transactions tick s in
  let expired t := TRANSACTION_TIMEOUT_TICKS <=? saturating_sub tick (queued_tick t) in
  es = map (λ t, TransactionFinished (tid t) TimedOut) (List.filter expired (pending_transactions s))
  ∧ pending_transactions s' = List.filter (λ t, negb (expired t)) (pending_transactions s)
  ∧ Forall (λ t, tick - queued_tick t < TRANSACTION_TIMEOUT_TICKS) (pending_transactions s')
  ∧ same_view s s'.
Proof.
  intros Hs. pose proof (finish_matching_spec (λ t, TRANSACTION_TIMEOUT_TICKS <=? saturating_sub tick (queued_tick t))
    TimedOut s (ok_ids _ Hs) (ok_completed _ Hs)) as H.
  unfold expire_transactions. destruct (finish_matching _ _ s) as [es s']. destruct H as (-> & Hp & Hv & _).
  split_and!; [done|done| |done]. rewrite Hp. apply List.Forall_forall. intros t [_ Ht]%filter_In.
  apply negb_true_iff, Z.leb_gt in Ht. unfold saturating_sub in Ht. lia.
Qed.

(** Closing the open container ends every transaction on it with
    [WindowClosed], one event each and in order, and keeps all others; the
    drag is over, and the player's inventory and the cursor are untouched. *)
Theorem close_window_ends_transactions {Slot} (w : Window Slot) (s : InventoryState Slot) :
  inventory_ok s → open_win s = Some w →
  let '(es, s') := close_window (win_id w) s in
  let on_window t := req_window (request t) =? win_id w in
  es = WindowClosed (win_id w)
       :: map (λ t, TransactionFinished (tid t) OutWindowClosed) (List.filter on_window (pending_transactions s))
  ∧ pending_transactions s' = List.filter (λ t, negb (on_window t)) (pending_transactions s)
  ∧ open_win s' = None ∧ drag s' = None
  ∧ player_inventory s' = player_inventory s ∧ cursor s' = cursor s.
Proof.
  intros Hs Ho. unfold close_window. rewrite Ho, Z.eqb_refl. set (s1 := set_drag None (set_open None s)).
  pose proof (finish_matching_spec (λ t, req_window (request t) =? win_id w) OutWindowClosed s1 (ok_ids _ Hs) (ok_completed _ Hs)) as H.
  unfold finish_window_transactions. destruct (finish_matching _ _ s1) as [es s'].
  destruct H as (-> & Hp & (H1 & H2 & H3 & H4 & H5) & _). by split_and!.
Qed.

Lemma window_put_window {Slot} id (w w' : Window Slot) s :
  window id s = Some w → win_id w' = win_id w → window id (put_window id w' s) = Some w'.
Proof.
  unfold window, put_window. destruct (Z.eqb_spec id PLAYER_INVENTORY_WINDOW_ID); [done|].
  destruct (open_win s) as [o|]; [|done]. destruct (Z.eqb_spec (win_id o) id) as [<-|]; [|done].
  intros [= ->] Heq. simpl. by rewrite Heq, Z.eqb_refl.
Qed.

Lemma same_view_window {Slot} id (s s' : InventoryState Slot) : same_view s s' → window id s' = window id s.
Proof. intros (H1 & H2 & _). unfold window. by rewrite H1, H2. Qed.

(** [set_slot] is the authoritative update: the addressed slot of the
    addressed window holds exactly the item sent, slots before it that did
    not exist yet are empty, every other slot keeps its item, the window takes
    the revision sent, and exactly the clicks that were sent at an older
    revision of that window are confirmed, in order. *)
Theorem set_slot_authoritative {Slot} (empty_slot : Slot) (id sid slot : Z) (item : Slot)
    (w : Window Slot) (s : InventoryState Slot) :
  inventory_ok s → id ≠ -1 → window id s = Some w → 0 ≤ slot < Z.of_nat MAX_WINDOW_SLOTS →
  let '(es, s') := set_slot empty_slot id sid slot item s in
  let confirmed t := bool_decide (status t = Sent) && (req_window (request t) =? id) && (req_state (request t) <? sid) in
  es = SlotUpdated id sid slot
       :: map (λ t, TransactionFinished (tid t) (Confirmed sid)) (List.filter confirmed (pending_transactions s))
  ∧ pending_transactions s' = List.filter (λ t, negb (confirmed t)) (pending_transactions s)
  ∧ ∃ w', window id s' = Some w' ∧ state_id w' = sid
      ∧ ∀ j, slots w' !! j =
          if decide (j = Z.to_nat slot) then Some item
          else if decide (j < length (slots w))%nat then slots w !! j
          else if decide (j < Z.to_nat slot)%nat then Some empty_slot else None.
Proof.
  intros Hs Hid Hw Hslot. unfold set_slot. rewrite (proj2 (Z.eqb_neq _ _)), Hw by done.
  unfold window_set_slot. rewrite (proj2 (Z.ltb_ge _ _)) by lia. rewrite decide_False by lia.
  set (w' := set_window_slots _ _). set (s1 := put_window id w' s).
  assert (inventory_ok s1) as Hs1.
  { apply put_window_ok; [done|]. destruct (window_lookup_ok _ _ _ Hs Hw) as [Hl Hp]. split; [|done].
    unfold w'. simpl. rewrite length_insert. case_decide; [rewrite length_resize; lia|done]. }
  pose proof (finish_matching_spec (λ t, bool_decide (status t = Sent) && (req_window (request t) =? id) && (req_state (request t) <? sid))
    (Confirmed sid) s1 (ok_ids _ Hs1) (ok_completed _ Hs1)) as H.
  unfold finish_confirmed_transactions. destruct (finish_matching _ _ s1) as [es s'].
  assert (pending_transactions s1 = pending_transactions s) as Hp1
    by (unfold s1, put_window; by destruct (id =? _)).
  rewrite Hp1 in H. destruct H as (-> & Hp & Hv & _). split_and!; [done|done|].
  exists w'. rewrite (same_view_window _ _ _ Hv). split; [by eapply window_put_window|]. split; [done|].
  intros j. apply set_slot_lookup.
Qed.

(** ** Witnesses *)

(** A chest with three slots; one click on it was sent, one on the player's
    inventory is queued. *)
Definition sample_inventory : InventoryState Z :=
  foldl (λ s op, run_op 0 op s) (inventory_new 0)
    [OpOpenWindow 5 2 (NbtString "chest"); OpWindowItems 5 7 [11; 12; 13] 0;
     OpWindowItems 0 1 [21; 22] 0;
     OpPrepareClick (mkRequest 100 1 5 7 (Pickup (Some 1) MouseLeft)) 40 false; OpMarkSent 100;
     OpPrepareClick (mkRequest 101 1 0 1 (Throw 0 true)) 90 false].

Lemma sample_inventory_ok : inventory_ok sample_inventory.
Proof. unfold sample_inventory. repeat apply run_op_ok. apply inventory_new_ok. Qed.

Definition sample_chest : Window Z := mkWindow 5 2 (NbtString "chest") 7 [11; 12; 13] false ∅ true.

Lemma expire_transactions_exact_witness :
  (expire_transactions 140 sample_inventory).1 = [TransactionFinished 100 TimedOut]
  ∧ same_view sample_inventory (expire_transactions 140 sample_inventory).2.
Proof.
  destruct (expire_transactions_exact 140 sample_inventory sample_inventory_ok) as (H1 & _ & _ & H2).
  split; [exact H1|exact H2].
Defined.

Lemma close_window_ends_transactions_witness :
  (close_window 5 sample_inventory).1 = [WindowClosed 5; TransactionFinished 100 OutWindowClosed]
  ∧ drag (close_window 5 sample_inventory).2 = None.
Proof.
  destruct (close_window_ends_transactions sample_chest sample_inventory sample_inventory_ok ltac:(vm_compute; reflexivity))
    as (H1 & _ & _ & H2 & _).
  split; [exact H1|exact H2].
Defined.

Lemma set_slot_authoritative_witness :
  (set_slot 0 5 8 4 99 sample_inventory).1 = [SlotUpdated 5 8 4; TransactionFinished 100 (Confirmed 8)]
  ∧ slots <$> window 5 (set_slot 0 5 8 4 99 sample_inventory).2 = Some [11; 12; 13; 0; 99].
Proof.
  destruct (set_slot_authoritative 0 5 8 4 99 sample_chest sample_inventory sample_inventory_ok ltac:(discriminate)
    ltac:(vm_compute; reflexivity) ltac:(unfold MAX_WINDOW_SLOTS; lia)) as (H1 & _).
  split; [exact H1|vm_compute; reflexivity].
Defined.
