(* ===== verification/Gui.v ===== *)
(** * The view of an open window

    [src/minecraft/gui.rs]: windows and item slots as a script sees them.
    Views are plain data computed from the inventory; the theorems say what
    each field of a slot's view is, whatever order the item's components come
    in, and that a view shows what the server last sent. *)

From S2P Require Import Prelude Machine Reader Wire Nbt PacketTypes Switch ItemTypes Items Text Inventory.

Local Open Scope Z_scope.

Section gui.
Context {J : Type}.

(** [TextComponent::from_nbt(nbt).plain_text()]. *)
Definition flat (nbt : Nbt) : string := plain_text (from_nbt (J := J) nbt).

(** ** Views *)

(** The registry name is always [None] in the code and is left out. *)
Record GuiSlotView : Type := mkSlotView {
  sv_index : nat;
  sv_empty : bool;
  sv_item_id : option Z;
  sv_count : Z;
  sv_custom_name : option string;
  sv_lore : option (list string);
  sv_enchantments : option (list (Z * Z));
  sv_components : list (SlotComponent Slot);
}.

(** What the loop over the components has gathered. *)
Record Gathered : Type := mkGathered {
  g_name : option string;
  g_lore : option (list string);
  g_enchantments : list (Z * Z);
}.

Definition stored_pairs (e : SlotComponentDataStoredEnchantments) : list (Z * Z) :=
  map (λ item, (SlotComponentDataStoredEnchantmentsEnchantmentsItem_id item,
                SlotComponentDataStoredEnchantmentsEnchantmentsItem_level item))
    (SlotComponentDataStoredEnchantments_enchantments e).
Definition enchantment_pairs (e : SlotComponentDataEnchantments) : list (Z * Z) :=
  map (λ item, (SlotComponentDataEnchantmentsEnchantmentsItem_id item,
                SlotComponentDataEnchantmentsEnchantmentsItem_level item))
    (SlotComponentDataEnchantments_enchantments e).

(** The body of the loop. *)
Definition gather (g : Gathered) (component : SlotComponent Slot) : Gathered :=
  match SlotComponent_data component with
  | SlotComponentData_CustomName nbt => mkGathered (Some (flat nbt)) (g_lore g) (g_enchantments g)
  | SlotComponentData_ItemName nbt =>
      match g_name g with
      | None => mkGathered (Some (flat nbt)) (g_lore g) (g_enchantments g)
      | Some _ => g
      end
  | SlotComponentData_Lore lines => mkGathered (g_name g) (Some (map flat (omap id lines))) (g_enchantments g)
  | SlotComponentData_Enchantments e => mkGathered (g_name g) (g_lore g) (g_enchantments g ++ enchantment_pairs e)
  | SlotComponentData_StoredEnchantments e => mkGathered (g_name g) (g_lore g) (g_enchantments g ++ stored_pairs e)
  | _ => g
  end.

(** [GuiSlotView::from_slot]. *)
Definition from_slot (index : nat) (slot : Slot) : GuiSlotView :=
  match Slot_value slot with
  | SlotValue_V0 => mkSlotView index true None (Slot_item_count slot) None None None []
  | SlotValue_Default data =>
      let g := foldl gather (mkGathered None None []) (SlotValueDefault_components data) in
      mkSlotView index false (Some (SlotValueDefault_item_id data)) (Slot_item_count slot)
        (g_name g) (g_lore g)
        (match g_enchantments g with [] => None | l => Some l end)
        (SlotValueDefault_components data)
  end.

Record GuiView : Type := mkView {
  v_window_id : Z;
  v_menu_type : Z;
  v_title_raw : Nbt;
  v_title_text : string;
  v_state_id : Z;
  v_slots : list GuiSlotView;
  v_cursor : GuiSlotView;
  v_properties : gmap Z Z;
  v_slots_truncated : bool;
}.

(** [GuiView::from_window]. *)
Definition from_window (window : Window Slot) (cursor : Slot) : GuiView :=
  mkView (win_id window) (kind window) (title window) (flat (title window)) (state_id window)
    (imap from_slot (slots window)) (from_slot 0 cursor) (properties window) (slots_truncated window).

Definition open_window_view (inventory : InventoryState Slot) : option GuiView :=
  (λ window, from_window window (cursor inventory)) <$> open_win inventory.

Definition player_inventory_view (inventory : InventoryState Slot) : GuiView :=
  from_window (player_inventory inventory) (cursor inventory).

(** ** What the loop gathers *)

Definition custom_name_of (c : SlotComponent Slot) : option string :=
  match SlotComponent_data c with SlotComponentData_CustomName nbt => Some (flat nbt) | _ => None end.
Definition item_name_of (c : SlotComponent Slot) : option string :=
  match SlotComponent_data c with SlotComponentData_ItemName nbt => Some (flat nbt) | _ => None end.
Definition lore_of (c : SlotComponent Slot) : option (list string) :=
  match SlotComponent_data c with SlotComponentData_Lore lines => Some (map flat (omap id lines)) | _ => None end.
Definition enchantments_of (c : SlotComponent Slot) : list (Z * Z) :=
  match SlotComponent_data c with
  | SlotComponentData_Enchantments e => enchantment_pairs e
  | SlotComponentData_StoredEnchantments e => stored_pairs e
  | _ => []
  end.

(** The display name: the last custom name, else the first item name. *)
Definition display_name (cs : list (SlotComponent Slot)) : option string :=
  match last (omap custom_name_of cs) with
  | Some name => Some name
  | None => head (omap item_name_of cs)
  end.

Lemma omap_snoc {A B} (f : A → option B) l x :
  omap f (l ++ [x]) = omap f l ++ match f x with Some y => [y] | None => [] end.
Proof. rewrite omap_app. simpl. by destruct (f x). Qed.

Lemma head_snoc {A} (l : list A) x : head (l ++ [x]) = match head l with Some y => Some y | None => Some x end.
Proof. by destruct l. Qed.

Lemma gathered cs :
  foldl gather (mkGathered None None []) cs
  = mkGathered (display_name cs) (last (omap lore_of cs)) (concat (map enchantments_of cs)).
Proof.
  induction cs as [|c cs IH] using rev_ind; [done|].
  rewrite foldl_snoc, IH, map_app, concat_app. unfold display_name. rewrite !omap_snoc. clear IH. destruct c as [ty data].
  generalize (omap custom_name_of cs) (omap item_name_of cs) (omap lore_of cs) (concat (map enchantments_of cs)).
  intros names inames lores es. destruct data; cbn; rewrite ?app_nil_r, ?last_snoc, ?head_snoc; try done.
  all: by repeat case_match; simplify_eq.
Qed.

(** A slot's view tells what the item carries, in whatever order its
    components come: it is empty exactly for an item without contents; the
    name is the last custom name, or without one the first item name; the
    lore is the present lines of the last lore component; the enchantments
    are those of all enchantment components in order, absent if there are
    none; the components themselves are kept as they are. *)
Theorem slot_view_exact (index : nat) (slot : Slot) :
  let v := from_slot index slot in
  sv_index v = index ∧ sv_count v = Slot_item_count slot
  ∧ match Slot_value slot with
    | SlotValue_V0 => v = mkSlotView index true None (Slot_item_count slot) None None None []
    | SlotValue_Default data =>
        sv_empty v = false ∧ sv_item_id v = Some (SlotValueDefault_item_id data)
        ∧ sv_custom_name v = display_name (SlotValueDefault_components data)
        ∧ sv_lore v = last (omap lore_of (SlotValueDefault_components data))
        ∧ default [] (sv_enchantments v) = concat (map enchantments_of (SlotValueDefault_components data))
        ∧ sv_enchantments v ≠ Some []
        ∧ sv_components v = SlotValueDefault_components data
    end.
Proof.
  unfold from_slot. destruct (Slot_value slot) as [|data]; [done|]. rewrite gathered. cbn.
  by destruct (concat _).
Qed.

(** ** What a view shows *)

Lemma finish_transaction_view id outcome (s : InventoryState Slot) : same_view s (finish_transaction id outcome s).2.
Proof. unfold finish_transaction. by case_match. Qed.

Lemma finish_matching_view p outcome (s : InventoryState Slot) : same_view s (finish_matching p outcome s).2.
Proof.
  unfold finish_matching. generalize (map tid (List.filter p (pending_transactions s))). intros ids.
  revert s. induction ids as [|id ids IH]; intros s; [done|]. simpl.
  pose proof (finish_transaction_view id outcome s) as H. destruct (finish_transaction id outcome s) as [e s1].
  specialize (IH s1). destruct (finish_ids ids outcome s1) as [es s2]. by trans s1.
Qed.

Lemma view_slots (w : Window Slot) (c : Slot) (i : nat) :
  v_slots (from_window w c) !! i = from_slot i <$> (slots w !! i).
Proof. apply list_lookup_imap. Qed.

(** A view shows what the server last sent: after the contents of the open
    window arrive, the view has the new state id, the cursor item and, index
    by index and never renumbered, the first [MAX_WINDOW_SLOTS] items sent,
    with a flag for those left out; the window's own identity is unchanged. *)
Theorem view_shows_contents (s : InventoryState Slot) (w : Window Slot) (sid : Z) (items : list Slot) (carried : Slot) :
  open_win s = Some w → win_id w ≠ PLAYER_INVENTORY_WINDOW_ID →
  ∃ v, open_window_view (window_items (win_id w) sid items carried s).2 = Some v
  ∧ (v_window_id v, v_menu_type v, v_title_raw v) = (win_id w, kind w, title w)
  ∧ v_state_id v = sid ∧ v_cursor v = from_slot 0 carried
  ∧ (∀ i, v_slots v !! i = if decide (i < MAX_WINDOW_SLOTS)%nat then from_slot i <$> (items !! i) else None)
  ∧ (v_slots_truncated v = true ↔ (MAX_WINDOW_SLOTS < length items)%nat).
Proof.
  intros Ho Hid. unfold window_items, window. rewrite (proj2 (Z.eqb_neq _ _)) by done. rewrite Ho, Z.eqb_refl.
  set (w' := mkWindow _ _ _ _ _ _ _ _). set (s1 := set_cursor _ _).
  pose proof (finish_matching_view (λ t, req_window (request t) =? win_id w) (Corrected sid) s1) as (_ & Hw & Hc & _).
  unfold finish_window_transactions. destruct (finish_matching _ _ _) as [es s2]. cbn [snd] in *.
  assert (open_win s1 = Some w') as Hw1 by (unfold s1, put_window; by rewrite (proj2 (Z.eqb_neq _ _))).
  unfold open_window_view. rewrite Hw, Hw1, Hc. eexists. split; [done|].
  split; [done|]. split; [done|]. split; [done|]. split.
  - intros i. rewrite view_slots. unfold w'. cbn [slots]. case_decide as Hi; [by rewrite lookup_take_lt|].
    by rewrite lookup_take_ge by lia.
  - apply bool_decide_eq_true.
Qed.
End gui.

Definition sample_inventory : InventoryState Slot :=
  set_open (Some (window_from_open 5 2 (NbtCompound []))) (inventory_new (mkSlot 0 SlotValue_V0)).

Lemma view_shows_contents_witness :
  ∃ w, open_win sample_inventory = Some w ∧ win_id w = 5
  ∧ ∃ v, open_window_view (J := unit) (window_items 5 3 [mkSlot 0 SlotValue_V0] (mkSlot 0 SlotValue_V0) sample_inventory).2 = Some v
    ∧ v_state_id v = 3 ∧ length (v_slots v) = 1%nat.
Proof.
  exists (window_from_open 5 2 (NbtCompound [])).
  assert (open_win sample_inventory = Some (window_from_open 5 2 (NbtCompound []))) as Ho by reflexivity.
  split; [exact Ho|]. split; [reflexivity|].
  destruct (view_shows_contents (J := unit) sample_inventory _ 3 [mkSlot 0 SlotValue_V0] (mkSlot 0 SlotValue_V0) Ho ltac:(discriminate))
    as (v & Hv & _ & Hs & _ & Hi & _).
  exists v. split; [exact Hv|]. split; [exact Hs|].
  assert (v_slots v !! 1%nat = None) as H1 by (rewrite Hi; reflexivity).
  assert (is_Some (v_slots v !! 0%nat)) as H0 by (rewrite Hi; eexists; reflexivity).
  apply lookup_ge_None in H1. apply lookup_lt_is_Some in H0. lia.
Defined.
