(* ===== verification/Scoreboard.v ===== *)
(** * Scoreboard and teams

    [src/minecraft/scoreboard.rs]: objectives, display slots, scores, and
    teams with the reverse index from member to team.  The text type and its
    NBT conversion belong to [text.rs]; the state is parametric in them. *)

From S2P Require Import Prelude Machine Reader Nbt.

Local Open Scope Z_scope.

Definition MAX_OBJECTIVES : Z := 256.
Definition MAX_DISPLAY_SLOTS : Z := 64.
Definition MAX_SCORES : Z := 16384.
Definition MAX_TEAMS : Z := 1024.
Definition MAX_TEAM_MEMBERS : Z := 16384.

(** ** Identities *)

Inductive ObjectiveRenderType : Type := RenderInteger | RenderHearts | RenderUnknown (v : Z).

Definition render_type_from (value : Z) : ObjectiveRenderType :=
  match value with 0 => RenderInteger | 1 => RenderHearts | other => RenderUnknown other end.

Inductive TeamColor : Type :=
  | Black | DarkBlue | DarkGreen | DarkAqua | DarkRed | DarkPurple | Gold | Gray | DarkGray
  | Blue | Green | Aqua | Red | LightPurple | Yellow | White | ResetColor | ColorUnknown (v : Z).

Definition team_color_from (value : Z) : TeamColor :=
  match value with
  | 0 => Black | 1 => DarkBlue | 2 => DarkGreen | 3 => DarkAqua | 4 => DarkRed | 5 => DarkPurple
  | 6 => Gold | 7 => Gray | 8 => DarkGray | 9 => Blue | 10 => Green | 11 => Aqua | 12 => Red
  | 13 => LightPurple | 14 => Yellow | 15 => White | -1 => ResetColor
  | other => ColorUnknown other
  end.

Inductive DisplaySlot : Type :=
  | SlotList | SlotSidebar | SlotBelowName | SlotTeam (c : TeamColor) | SlotUnknown (v : Z).

Definition display_slot_from (value : Z) : DisplaySlot :=
  match value with
  | 0 => SlotList
  | 1 => SlotSidebar
  | 2 => SlotBelowName
  | other => if (3 <=? other) && (other <=? 18) then SlotTeam (team_color_from (other - 3)) else SlotUnknown other
  end.

Record ScoreKey : Type := mkScoreKey { key_objective : string; key_owner : string }.

#[export] Instance TeamColor_eq_dec : EqDecision TeamColor.
Proof. solve_decision. Defined.
#[export] Instance DisplaySlot_eq_dec : EqDecision DisplaySlot.
Proof. solve_decision. Defined.
#[export] Instance ScoreKey_eq_dec : EqDecision ScoreKey.
Proof. solve_decision. Defined.

(** Injections that make the key types usable as map keys. *)
Definition color_code (c : TeamColor) : Z + Z :=
  match c with
  | Black => inl 0 | DarkBlue => inl 1 | DarkGreen => inl 2 | DarkAqua => inl 3 | DarkRed => inl 4
  | DarkPurple => inl 5 | Gold => inl 6 | Gray => inl 7 | DarkGray => inl 8 | Blue => inl 9
  | Green => inl 10 | Aqua => inl 11 | Red => inl 12 | LightPurple => inl 13 | Yellow => inl 14
  | White => inl 15 | ResetColor => inl (-1) | ColorUnknown v => inr v
  end.
Definition color_decode (c : Z + Z) : TeamColor :=
  match c with inl z => team_color_from z | inr v => ColorUnknown v end.
#[export] Instance TeamColor_countable : Countable TeamColor.
Proof. refine (inj_countable' color_code color_decode _). by intros []. Defined.

Definition slot_code (s : DisplaySlot) : Z + (TeamColor + Z) :=
  match s with
  | SlotList => inl 0 | SlotSidebar => inl 1 | SlotBelowName => inl 2
  | SlotTeam c => inr (inl c) | SlotUnknown v => inr (inr v)
  end.
Definition slot_decode (c : Z + (TeamColor + Z)) : DisplaySlot :=
  match c with
  | inl z => display_slot_from z
  | inr (inl c) => SlotTeam c
  | inr (inr v) => SlotUnknown v
  end.
#[export] Instance DisplaySlot_countable : Countable DisplaySlot.
Proof. refine (inj_countable' slot_code slot_decode _). by intros []. Defined.

#[export] Instance ScoreKey_countable : Countable ScoreKey.
Proof.
  refine (inj_countable' (λ k, (key_objective k, key_owner k)) (λ p, mkScoreKey p.1 p.2) _). by intros [].
Defined.

Inductive NameTagVisibility : Type :=
  | TagAlways | TagNever | HideForOtherTeams | HideForOwnTeam | TagUnknown (v : string).

Definition name_tag_from (value : string) : NameTagVisibility :=
  if bool_decide (value = "always") then TagAlways
  else if bool_decide (value = "never") then TagNever
  else if bool_decide (value = "hideForOtherTeams") then HideForOtherTeams
  else if bool_decide (value = "hideForOwnTeam") then HideForOwnTeam
  else TagUnknown value.

Inductive CollisionRule : Type :=
  | PushAlways | PushNever | PushOtherTeams | PushOwnTeam | PushUnknown (v : string).

Definition collision_rule_from (value : string) : CollisionRule :=
  if bool_decide (value = "always") then PushAlways
  else if bool_decide (value = "never") then PushNever
  else if bool_decide (value = "pushOtherTeams") then PushOtherTeams
  else if bool_decide (value = "pushOwnTeam") then PushOwnTeam
  else PushUnknown value.

(** [FriendlyFire], its raw [u8]. *)
Definition allows_friendly_fire (raw : Z) : bool := negb (Z.land raw 1 =? 0).
Definition see_friendly_invisibles (raw : Z) : bool := negb (Z.land raw 2 =? 0).

Inductive ObjectiveAction : Type := ObjCreate | ObjRemove | ObjUpdate | ObjUnknown (v : Z).

Definition objective_action_from (value : Z) : ObjectiveAction :=
  match value with 0 => ObjCreate | 1 => ObjRemove | 2 => ObjUpdate | other => ObjUnknown other end.

Inductive ScoreAction : Type := ScoreSet | ScoreReset.

Inductive TeamAction : Type :=
  | TeamCreate | TeamRemove | TeamUpdateAction | TeamAddMembers | TeamRemoveMembers | TeamUnknown (mode : Z).

(** ** State *)

Section scoreboard.
Context {Text : Type}.

Inductive NumberFormat : Type :=
  | Blank
  | Styled (style : Nbt)
  | Fixed (text : Text)
  | FormatUnknown (kind : Z) (styling : option Nbt).

Record ObjectiveDefinition : Type := mkObjectiveDefinition {
  od_display_name : Text;
  od_render_type : ObjectiveRenderType;
  od_number_format : option NumberFormat;
}.

Record Objective : Type := mkObjective {
  obj_name : string;
  obj_display_name : Text;
  obj_render_type : ObjectiveRenderType;
  obj_number_format : option NumberFormat;
}.

Definition into_objective (d : ObjectiveDefinition) (name : string) : Objective :=
  mkObjective name (od_display_name d) (od_render_type d) (od_number_format d).

Record Score : Type := mkScore {
  sc_owner : string;
  sc_objective : string;
  sc_value : Z;
  sc_display_name : option Text;
  sc_number_format : option NumberFormat;
}.

Record TeamDefinition : Type := mkTeamDefinition {
  td_display_name : Text;
  td_friendly_fire : Z;
  td_name_tag_visibility : NameTagVisibility;
  td_collision_rule : CollisionRule;
  td_color : TeamColor;
  td_prefix : Text;
  td_suffix : Text;
}.

(** [Team]: the definition's fields with the name and the members. *)
Record Team : Type := mkTeam {
  team_name : string;
  team_def : TeamDefinition;
  members : gset string;
}.

Definition into_team (d : TeamDefinition) (name : string) : Team := mkTeam name d ∅.
Definition set_members (m : gset string) (t : Team) : Team := mkTeam (team_name t) (team_def t) m.

Record ScoreboardState : Type := mkScoreboard {
  objectives : gmap string Objective;
  display_slots : gmap DisplaySlot string;
  scores : gmap ScoreKey Score;
  teams : gmap string Team;
  member_teams : gmap string string;
}.

Definition scoreboard_default : ScoreboardState := mkScoreboard ∅ ∅ ∅ ∅ ∅.

Inductive TeamUpdate : Type :=
  | TUCreate (name : string) (definition : TeamDefinition) (ms : list string)
  | TURemove (name : string)
  | TUUpdate (name : string) (definition : TeamDefinition)
  | TUAddMembers (name : string) (ms : list string)
  | TURemoveMembers (name : string) (ms : list string)
  | TUUnknown (name : string) (mode : Z).

Inductive ScoreboardUpdate : Type :=
  | UpObjective (name : string) (action : ObjectiveAction) (definition : option ObjectiveDefinition)
  | UpDisplaySlot (slot : DisplaySlot) (objective : option string)
  | UpSetScore (score : Score)
  | UpResetScore (owner : string) (objective : option string)
  | UpTeam (update : TeamUpdate).

Inductive ScoreboardEvent : Type :=
  | ObjectiveChanged (name : string) (action : ObjectiveAction) (current : option Objective)
      (detached_slots removed_scores : nat) (applied : bool)
  | DisplaySlotChanged (slot : DisplaySlot) (objective : option string) (applied : bool)
  | ScoreChanged (owner : string) (objective : option string) (action : ScoreAction)
      (current : option Score) (affected : nat) (applied : bool)
  | TeamChanged (name : string) (action : TeamAction) (current : option Team)
      (affected_members rejected_members : nat) (applied : bool).

Definition event_applied (e : ScoreboardEvent) : bool :=
  match e with
  | ObjectiveChanged _ _ _ _ _ a | DisplaySlotChanged _ _ a | ScoreChanged _ _ _ _ _ a
  | TeamChanged _ _ _ _ _ a => a
  end.

Definition set_objectives x s := mkScoreboard x (display_slots s) (scores s) (teams s) (member_teams s).
Definition set_display_slots x s := mkScoreboard (objectives s) x (scores s) (teams s) (member_teams s).
Definition set_scores x s := mkScoreboard (objectives s) (display_slots s) x (teams s) (member_teams s).
Definition set_teams x s := mkScoreboard (objectives s) (display_slots s) (scores s) x (member_teams s).
Definition set_member_teams x s := mkScoreboard (objectives s) (display_slots s) (scores s) (teams s) x.

(** [!m.contains_key(k) && m.len() >= cap]. *)
Definition full {K A} `{Countable K} (cap : Z) (k : K) (m : gmap K A) : bool :=
  bool_decide (m !! k = None) && (cap <=? Z.of_nat (size m)).

Definition team_for_member (member : string) (s : ScoreboardState) : option string := member_teams s !! member.

(** ** Objectives, display slots and scores *)

Definition apply_objective (name : string) (action : ObjectiveAction)
    (definition : option ObjectiveDefinition) (s : ScoreboardState) : ScoreboardEvent * ScoreboardState :=
  let event s detached removed applied :=
    (ObjectiveChanged name action (objectives s !! name) detached removed applied, s) in
  match action with
  | ObjCreate =>
      match definition with
      | Some d =>
          if full MAX_OBJECTIVES name (objectives s) then event s 0%nat 0%nat false
          else event (set_objectives (<[name := into_objective d name]> (objectives s)) s) 0%nat 0%nat true
      | None => event s 0%nat 0%nat false
      end
  | ObjUpdate =>
      match definition, objectives s !! name with
      | Some d, Some _ =>
          event (set_objectives (<[name := into_objective d name]> (objectives s)) s) 0%nat 0%nat true
      | _, _ => event s 0%nat 0%nat false
      end
  | ObjRemove =>
      let removed := bool_decide (is_Some (objectives s !! name)) in
      let s1 := set_objectives (delete name (objectives s)) s in
      let slots := filter (λ kv, kv.2 ≠ name) (display_slots s1) in
      let detached_slots := (size (display_slots s1) - size slots)%nat in
      let s2 := set_display_slots slots s1 in
      let kept := filter (λ kv, key_objective kv.1 ≠ name) (scores s2) in
      let removed_scores := (size (scores s2) - size kept)%nat in
      let s3 := set_scores kept s2 in
      event s3 detached_slots removed_scores
        (removed || negb (bool_decide (detached_slots = 0%nat)) || negb (bool_decide (removed_scores = 0%nat)))
  | ObjUnknown _ => event s 0%nat 0%nat false
  end.

Definition apply_display_slot (slot : DisplaySlot) (objective : option string) (s : ScoreboardState) :
    ScoreboardEvent * ScoreboardState :=
  let event s applied := (DisplaySlotChanged slot (display_slots s !! slot) applied, s) in
  match objective with
  | None =>
      event (set_display_slots (delete slot (display_slots s)) s)
        (bool_decide (is_Some (display_slots s !! slot)))
  | Some name =>
      if bool_decide (objectives s !! name = None) then event s false
      else if full MAX_DISPLAY_SLOTS slot (display_slots s) then event s false
      else event (set_display_slots (<[slot := name]> (display_slots s)) s) true
  end.

Definition apply_score (score : Score) (s : ScoreboardState) : ScoreboardEvent * ScoreboardState :=
  let key := mkScoreKey (sc_objective score) (sc_owner score) in
  let objective_exists := bool_decide (is_Some (objectives s !! sc_objective score)) in
  let has_capacity := bool_decide (is_Some (scores s !! key)) || (Z.of_nat (size (scores s)) <? MAX_SCORES) in
  let '(s, applied) :=
    if objective_exists && has_capacity then (set_scores (<[key := score]> (scores s)) s, true) else (s, false) in
  (ScoreChanged (key_owner key) (Some (key_objective key)) ScoreSet (scores s !! key)
     (if applied then 1%nat else 0%nat) applied, s).

Definition apply_score_reset (owner : string) (objective : option string) (s : ScoreboardState) :
    ScoreboardEvent * ScoreboardState :=
  let '(affected, s) :=
    match objective with
    | Some o =>
        let key := mkScoreKey o owner in
        ((if bool_decide (is_Some (scores s !! key)) then 1%nat else 0%nat), set_scores (delete key (scores s)) s)
    | None =>
        let kept := filter (λ kv, key_owner kv.1 ≠ owner) (scores s) in
        ((size (scores s) - size kept)%nat, set_scores kept s)
    end in
  (ScoreChanged owner objective ScoreReset None affected (negb (bool_decide (affected = 0%nat))), s).

(** ** Teams *)

(** [if let Some(team) = self.teams.get_mut(name) { team.members = f(..) }]. *)
Definition alter_members (f : gset string → gset string) (name : string) (s : ScoreboardState) : ScoreboardState :=
  set_teams (alter (λ t, set_members (f (members t)) t) name (teams s)) s.

Fixpoint add_team_members (name : string) (ms : list string) (s : ScoreboardState) :
    nat * nat * ScoreboardState :=
  match ms with
  | [] => (0%nat, 0%nat, s)
  | member :: ms =>
      if bool_decide (member_teams s !! member = Some name) then add_team_members name ms s
      else if full MAX_TEAM_MEMBERS member (member_teams s) then
        let '(affected, rejected, s) := add_team_members name ms s in (affected, S rejected, s)
      else
        let previous := member_teams s !! member in
        let s := set_member_teams (<[member := name]> (member_teams s)) s in
        let s := match previous with
                 | Some p => alter_members (λ m, m ∖ {[member]}) p s
                 | None => s
                 end in
        let hit := bool_decide (is_Some (teams s !! name)) in
        let s := alter_members (λ m, {[member]} ∪ m) name s in
        let '(affected, rejected, s) := add_team_members name ms s in
        ((if hit then S affected else affected), rejected, s)
  end.

Definition remove_team_members (name : string) (s : ScoreboardState) : nat * ScoreboardState :=
  match teams s !! name with
  | None => (0%nat, s)
  | Some team =>
      let ms := elements (members team) in
      let mt := foldl (λ mt m, if bool_decide (mt !! m = Some name) then delete m mt else mt) (member_teams s) ms in
      (length ms, alter_members (λ _, ∅) name (set_member_teams mt s))
  end.

Fixpoint remove_named_team_members (name : string) (ms : list string) (s : ScoreboardState) :
    nat * ScoreboardState :=
  match ms with
  | [] => (0%nat, s)
  | member :: ms =>
      if bool_decide (member_teams s !! member = Some name) then
        let s := set_member_teams (delete member (member_teams s)) s in
        let s := alter_members (λ m, m ∖ {[member]}) name s in
        let '(affected, s) := remove_named_team_members name ms s in (S affected, s)
      else remove_named_team_members name ms s
  end.

Definition update_name (u : TeamUpdate) : string :=
  match u with
  | TUCreate n _ _ | TURemove n | TUUpdate n _ | TUAddMembers n _ | TURemoveMembers n _ | TUUnknown n _ => n
  end.

Definition update_action (u : TeamUpdate) : TeamAction :=
  match u with
  | TUCreate _ _ _ => TeamCreate
  | TURemove _ => TeamRemove
  | TUUpdate _ _ => TeamUpdateAction
  | TUAddMembers _ _ => TeamAddMembers
  | TURemoveMembers _ _ => TeamRemoveMembers
  | TUUnknown _ mode => TeamUnknown mode
  end.

(** The match of [apply_team]: applied, affected, rejected and the state. *)
Definition team_effect (u : TeamUpdate) (s : ScoreboardState) : bool * nat * nat * ScoreboardState :=
  match u with
  | TUCreate name d ms =>
      if full MAX_TEAMS name (teams s) then (false, 0%nat, length ms, s)
      else
        let '(_, s) := remove_team_members name s in
        let s := set_teams (<[name := into_team d name]> (teams s)) s in
        let '(affected, rejected, s) := add_team_members name ms s in
        (true, affected, rejected, s)
  | TURemove name =>
      let '(affected, s) := remove_team_members name s in
      (bool_decide (is_Some (teams s !! name)), affected, 0%nat, set_teams (delete name (teams s)) s)
  | TUUpdate name d =>
      match teams s !! name with
      | None => (false, 0%nat, 0%nat, s)
      | Some team =>
          (true, 0%nat, 0%nat, set_teams (<[name := set_members (members team) (into_team d name)]> (teams s)) s)
      end
  | TUAddMembers name ms =>
      if bool_decide (teams s !! name = None) then (false, 0%nat, length ms, s)
      else
        let '(affected, rejected, s) := add_team_members name ms s in
        (negb (bool_decide (affected = 0%nat)), affected, rejected, s)
  | TURemoveMembers name ms =>
      if bool_decide (teams s !! name = None) then (false, 0%nat, length ms, s)
      else
        let '(affected, s) := remove_named_team_members name ms s in
        (negb (bool_decide (affected = 0%nat)), affected, 0%nat, s)
  | TUUnknown _ _ => (false, 0%nat, 0%nat, s)
  end.

Definition apply_team (u : TeamUpdate) (s : ScoreboardState) : ScoreboardEvent * ScoreboardState :=
  let '(applied, affected, rejected, s) := team_effect u s in
  (TeamChanged (update_name u) (update_action u) (teams s !! update_name u) affected rejected applied, s).

Definition scoreboard_apply (u : ScoreboardUpdate) (s : ScoreboardState) : ScoreboardEvent * ScoreboardState :=
  match u with
  | UpObjective name action definition => apply_objective name action definition s
  | UpDisplaySlot slot objective => apply_display_slot slot objective s
  | UpSetScore score => apply_score score s
  | UpResetScore owner objective => apply_score_reset owner objective s
  | UpTeam u => apply_team u s
  end.
End scoreboard.

Arguments NumberFormat : clear implicits.
Arguments ObjectiveDefinition : clear implicits.
Arguments Objective : clear implicits.
Arguments Score : clear implicits.
Arguments TeamDefinition : clear implicits.
Arguments Team : clear implicits.
Arguments ScoreboardState : clear implicits.
Arguments TeamUpdate : clear implicits.
Arguments ScoreboardUpdate : clear implicits.
Arguments ScoreboardEvent : clear implicits.

(** ** Lemmas on the maps *)

Section maps.
Context `{Countable K} {A : Type}.
Implicit Types m : gmap K A.

Lemma size_alter (f : A → A) k m : size (alter f k m) = size m.
Proof. rewrite <- !size_dom. by rewrite dom_alter_L. Qed.

Lemma insert_not_full cap k v m :
  full cap k m = false → Z.of_nat (size m) ≤ cap → Z.of_nat (size (<[k := v]> m)) ≤ cap.
Proof.
  unfold full. rewrite andb_false_iff, bool_decide_eq_false, Z.leb_gt, map_size_insert.
  intros Hf Hs. destruct (m !! k) as [x|]; simpl; [lia|]. destruct Hf; [done|lia].
Qed.

Lemma filter_same (P : K * A → Prop) `{∀ x, Decision (P x)} m :
  (size m - size (filter P m))%nat = 0%nat → filter P m = m.
Proof.
  intros Hs. apply map_subseteq_size_eq; [apply map_filter_subseteq|].
  pose proof (map_subseteq_size _ _ (map_filter_subseteq P m)). lia.
Qed.

Lemma delete_absent k m : m !! k = None → delete k m = m.
Proof. apply delete_id. Qed.
End maps.

(** ** The invariant *)

Section invariant.
Context {Text : Type}.
Implicit Types (s : ScoreboardState Text).

(** The reverse index agrees with the member sets. *)
Definition consistent s : Prop :=
  ∀ m t, member_teams s !! m = Some t ↔ ∃ team, teams s !! t = Some team ∧ m ∈ members team.

Record scoreboard_ok s : Prop := {
  ok_objectives : Z.of_nat (size (objectives s)) ≤ MAX_OBJECTIVES;
  ok_slots : Z.of_nat (size (display_slots s)) ≤ MAX_DISPLAY_SLOTS;
  ok_scores : Z.of_nat (size (scores s)) ≤ MAX_SCORES;
  ok_teams : Z.of_nat (size (teams s)) ≤ MAX_TEAMS;
  ok_members : Z.of_nat (size (member_teams s)) ≤ MAX_TEAM_MEMBERS;
  ok_objective_names : ∀ n o, objectives s !! n = Some o → obj_name o = n;
  ok_team_names : ∀ n t, teams s !! n = Some t → team_name t = n;
  ok_score_keys : ∀ k sc, scores s !! k = Some sc → k = mkScoreKey (sc_objective sc) (sc_owner sc);
  ok_slot_targets : ∀ slot n, display_slots s !! slot = Some n → is_Some (objectives s !! n);
  ok_score_targets : ∀ k sc, scores s !! k = Some sc → is_Some (objectives s !! key_objective k);
  ok_consistent : consistent s;
}.

(** The team half of the invariant, which the member loops maintain. *)
Record teams_ok s : Prop := {
  tok_teams : Z.of_nat (size (teams s)) ≤ MAX_TEAMS;
  tok_members : Z.of_nat (size (member_teams s)) ≤ MAX_TEAM_MEMBERS;
  tok_names : ∀ n t, teams s !! n = Some t → team_name t = n;
  tok_consistent : consistent s;
}.

(** Same objectives, slots and scores. *)
Definition same_scores s s' : Prop :=
  objectives s' = objectives s ∧ display_slots s' = display_slots s ∧ scores s' = scores s.
#[export] Instance same_scores_preorder : PreOrder same_scores.
Proof. split; [done|]. intros ??? (?&?&?) (?&?&?). split_and!; congruence. Qed.

Lemma scoreboard_teams_ok s : scoreboard_ok s → teams_ok s.
Proof. by intros []. Qed.

Lemma scoreboard_of_teams s s' : scoreboard_ok s → teams_ok s' → same_scores s s' → scoreboard_ok s'.
Proof.
  intros Hs [] (H1 & H2 & H3). split; rewrite ?H1, ?H2, ?H3; try done; apply Hs.
Qed.

Lemma alter_members_lookup f name s t :
  teams (alter_members f name s) !! t =
    if decide (t = name) then (λ x, set_members (f (members x)) x) <$> teams s !! t else teams s !! t.
Proof.
  unfold alter_members; simpl. case_decide as Ht; [subst t; by rewrite lookup_alter_eq|].
  by rewrite lookup_alter_ne.
Qed.

Lemma alter_members_names f name s :
  (∀ n t, teams s !! n = Some t → team_name t = n) →
  ∀ n t, teams (alter_members f name s) !! n = Some t → team_name t = n.
Proof.
  intros Hn n t. rewrite alter_members_lookup. case_decide; [|by apply Hn].
  intros (x & Hx & ->)%fmap_Some. simpl. by apply Hn.
Qed.

Lemma alter_members_size f name s : size (teams (alter_members f name s)) = size (teams s).
Proof. apply size_alter. Qed.

Lemma alter_members_exists f name s t : is_Some (teams (alter_members f name s) !! t) ↔ is_Some (teams s !! t).
Proof. unfold alter_members; simpl. apply lookup_alter_is_Some. Qed.

(** A member moves into [name] from wherever it was. *)
Definition move_member (name member : string) s : ScoreboardState Text :=
  let previous := member_teams s !! member in
  let s := set_member_teams (<[member := name]> (member_teams s)) s in
  let s := match previous with Some p => alter_members (λ m, m ∖ {[member]}) p s | None => s end in
  alter_members (λ m, {[member]} ∪ m) name s.

(** Membership after a move. *)
Lemma move_member_lookup name member s t :
  is_Some (teams s !! name) → consistent s → member_teams s !! member ≠ Some name →
  ∀ m, (∃ team, teams (move_member name member s) !! t = Some team ∧ m ∈ members team)
    ↔ if decide (m = member) then t = name else ∃ team, teams s !! t = Some team ∧ m ∈ members team.
Proof.
  intros [tn Htn] Hc Hne m. unfold move_member. rewrite alter_members_lookup.
  set (s1 := match member_teams s !! member with Some p => _ | None => _ end).
  assert (teams s1 !! t = if decide (member_teams s !! member = Some t)
    then (λ x, set_members (members x ∖ {[member]}) x) <$> teams s !! t else teams s !! t) as Hs1.
  { unfold s1. destruct (member_teams s !! member) as [p|]; [|by rewrite decide_False].
    rewrite alter_members_lookup. destruct (decide (t = p)) as [->|Hp]; [by rewrite decide_True|].
    rewrite decide_False; [done|congruence]. }
  rewrite Hs1. clear Hs1 s1. destruct (decide (t = name)) as [->|Ht].
  - rewrite (decide_False (P := member_teams s !! member = Some name)) by done. rewrite Htn. simpl.
    destruct (decide (m = member)) as [->|Hm].
    + split; [done|]. intros _. eexists. split; [done|]. simpl. set_solver.
    + split; intros (team & [= <-] & Hin); eexists; (split; [reflexivity|]); simpl in *; set_solver.
  - destruct (decide (member_teams s !! member = Some t)) as [Hp|Hp].
    + destruct (teams s !! t) as [team|]; simpl.
      * destruct (decide (m = member)) as [->|Hm].
        -- split; [|done]. intros (x & [= <-] & Hin); simpl in *; set_solver.
        -- split; intros (x & [= <-] & Hin); eexists; (split; [reflexivity|]); simpl in *; set_solver.
      * destruct (decide (m = member)); split; (done || by intros (x & ? & _)).
    + destruct (decide (m = member)) as [->|Hm]; [|done]. split; [|done]. intros Hin. by apply Hc in Hin.
Qed.

Lemma move_member_ok name member s :
  is_Some (teams s !! name) → teams_ok s → member_teams s !! member ≠ Some name →
  full MAX_TEAM_MEMBERS member (member_teams s) = false →
  teams_ok (move_member name member s) ∧ same_scores s (move_member name member s)
  ∧ member_teams (move_member name member s) = <[member := name]> (member_teams s)
  ∧ is_Some (teams (move_member name member s) !! name).
Proof.
  intros Hname [H1 H2 H3 H4] Hne Hfull.
  assert (member_teams (move_member name member s) = <[member := name]> (member_teams s)) as Hmt
    by (unfold move_member; by destruct (member_teams s !! member)).
  assert (size (teams (move_member name member s)) = size (teams s)) as Hsz.
  { unfold move_member. rewrite alter_members_size. destruct (member_teams s !! member); [|done].
    by rewrite alter_members_size. }
  split_and!; [split| |done|].
  - by rewrite Hsz.
  - rewrite Hmt. by apply insert_not_full.
  - unfold move_member. apply alter_members_names. destruct (member_teams s !! member); [|done].
    by apply alter_members_names.
  - intros m t. rewrite (move_member_lookup name member s t Hname H4 Hne m), Hmt.
    case_decide as Hm; [subst m; rewrite lookup_insert_eq; split; [by intros [= ->]|by intros ->]|].
    rewrite lookup_insert_ne by done. apply H4.
  - unfold move_member. by destruct (member_teams s !! member).
  - unfold move_member. rewrite alter_members_exists. destruct (member_teams s !! member); [|done].
    by rewrite alter_members_exists.
Qed.

Lemma add_team_members_ok name ms s :
  is_Some (teams s !! name) → teams_ok s →
  let '(affected, rejected, s') := add_team_members name ms s in
  teams_ok s' ∧ same_scores s s' ∧ is_Some (teams s' !! name) ∧ (affected = 0%nat → s' = s).
Proof.
  revert s. induction ms as [|m ms IH]; intros s Hname Hs; simpl; [done|].
  case_bool_decide as Hin; [by apply IH|].
  destruct (full MAX_TEAM_MEMBERS m (member_teams s)) eqn:Hf.
  { specialize (IH s Hname Hs). by destruct (add_team_members name ms s) as [[a r] s']. }
  destruct (move_member_ok name m s Hname Hs Hin Hf) as (Hs1 & Hsame & _ & Hname1).
  rewrite bool_decide_eq_true_2 by (destruct (member_teams s !! m); [by apply alter_members_exists|done]).
  fold (move_member name m s). specialize (IH _ Hname1 Hs1).
  destruct (add_team_members name ms (move_member name m s)) as [[a r] s'].
  destruct IH as (H1 & H2 & H3 & _). split_and!; [done|by etrans|done|done].
Qed.

(** The members removed from the index are exactly the team's. *)
Lemma foldl_delete_lookup name ms (mt : gmap string string) k :
  foldl (λ mt m, if bool_decide (mt !! m = Some name) then delete m mt else mt) mt ms !! k
  = if bool_decide (k ∈ ms ∧ mt !! k = Some name) then None else mt !! k.
Proof.
  revert mt. induction ms as [|m ms IH]; intros mt; simpl.
  - done.
  - rewrite IH. destruct (decide (mt !! m = Some name)) as [Hm|Hm].
    + rewrite (bool_decide_eq_true_2 _ Hm). destruct (decide (k = m)) as [->|Hk].
      * rewrite lookup_delete_eq. rewrite (bool_decide_eq_true_2 (m ∈ m :: ms ∧ _)) by (split; [left|done]).
        by case_bool_decide.
      * rewrite lookup_delete_ne by done. apply bool_decide_if_ext. rewrite elem_of_cons. tauto.
    + rewrite (bool_decide_eq_false_2 _ Hm). apply bool_decide_if_ext. rewrite elem_of_cons.
      split; [tauto|]. intros [[->|?] ?]; done.
Qed.

Lemma remove_team_members_ok name s :
  teams_ok s →
  let '(affected, s') := remove_team_members name s in
  teams_ok s' ∧ same_scores s s' ∧ (∀ t, is_Some (teams s' !! t) ↔ is_Some (teams s !! t))
  ∧ size (teams s') = size (teams s) ∧ (∀ m, member_teams s' !! m ≠ Some name) ∧ (teams s !! name = None → s' = s).
Proof.
  intros [H1 H2 H3 H4]. unfold remove_team_members. destruct (teams s !! name) as [team|] eqn:Ht.
  2:{ split_and!; try done. intros m Hm. apply H4 in Hm as (x & Hx & _). congruence. }
  set (mt := foldl _ _ _).
  assert (∀ k, mt !! k = if bool_decide (member_teams s !! k = Some name) then None else member_teams s !! k) as Hmt.
  { intros k. unfold mt. rewrite foldl_delete_lookup. apply bool_decide_if_ext.
    rewrite elem_of_elements. split; [tauto|]. intros Hk. split; [|done].
    apply H4 in Hk as (x & Hx & Hin). by simplify_eq. }
  split_and!; [split| |intros t; exact (alter_members_exists (λ _, ∅) name (set_member_teams mt s) t)| | |done].
  - by rewrite alter_members_size.
  - simpl. assert (size mt ≤ size (member_teams s))%nat; [|lia]. apply map_subseteq_size, map_subseteq_spec.
    intros k x. rewrite Hmt. by case_bool_decide.
  - apply alter_members_names. by intros n t Hn; apply H3.
  - intros m t. rewrite alter_members_lookup. cbn [member_teams teams alter_members set_teams set_member_teams]. rewrite Hmt.
    destruct (decide (t = name)) as [->|Hn].
    + rewrite Ht; simpl. split; [case_bool_decide; congruence|]. intros (x & [= <-] & Hin). simpl in Hin. set_solver.
    + rewrite <- (H4 m t). case_bool_decide as Hm; [|done]. split; congruence.
  - done.
  - exact (alter_members_size (λ _, ∅) name (set_member_teams mt s)).
  - intros m. simpl. rewrite Hmt. by case_bool_decide.
Qed.

(** A member leaves its team. *)
Definition drop_member (name member : string) s : ScoreboardState Text :=
  alter_members (λ m, m ∖ {[member]}) name (set_member_teams (delete member (member_teams s)) s).

Lemma drop_member_ok name member s :
  teams_ok s → member_teams s !! member = Some name →
  teams_ok (drop_member name member s) ∧ same_scores s (drop_member name member s).
Proof.
  intros [H1 H2 H3 H4] Hm. unfold drop_member. split_and!; [split|done].
  - by rewrite alter_members_size.
  - simpl. rewrite map_size_delete, Hm. lia.
  - by apply alter_members_names.
  - intros m t. rewrite alter_members_lookup. simpl.
    destruct (decide (m = member)) as [->|Hne].
    + rewrite lookup_delete_eq. split; [done|]. intros (x & Hx & Hin). case_decide as Ht.
      * apply fmap_Some in Hx as (y & Hy & ->). simpl in Hin. set_solver.
      * assert (member_teams s !! member = Some t) by (apply H4; eauto). congruence.
    + rewrite lookup_delete_ne, (H4 m t) by done. case_decide as Ht; [subst t|done].
      destruct (teams s !! name) as [y|]; simpl; [|by split; intros (x & ? & _)].
      split; intros (x & [= <-] & Hin); eexists; (split; [reflexivity|]); simpl in *; set_solver.
Qed.

Lemma remove_named_ok name ms s :
  teams_ok s →
  let '(affected, s') := remove_named_team_members name ms s in
  teams_ok s' ∧ same_scores s s' ∧ (affected = 0%nat → s' = s).
Proof.
  revert s. induction ms as [|m ms IH]; intros s Hs; simpl; [done|].
  case_bool_decide as Hin; [|by apply IH].
  fold (drop_member name m s). destruct (drop_member_ok name m s Hs Hin) as [Hs1 Hsame].
  specialize (IH _ Hs1). destruct (remove_named_team_members name ms (drop_member name m s)) as [a s'].
  destruct IH as (H1 & H2 & _). split_and!; [done|by etrans|done].
Qed.

(** Replacing an emptied team, deleting it, redefining one in place. *)
Lemma insert_team_ok name d s :
  teams_ok s → (∀ m, member_teams s !! m ≠ Some name) → full MAX_TEAMS name (teams s) = false →
  teams_ok (set_teams (<[name := into_team d name]> (teams s)) s).
Proof.
  intros [H1 H2 H3 H4] Hno Hf. split; [by apply insert_not_full|done| |].
  - intros n t. simpl. intros [[<- <-]|[_ Ht]]%lookup_insert_Some; [done|by apply H3].
  - intros m t. simpl. destruct (decide (t = name)) as [->|Hn].
    + rewrite lookup_insert_eq. split; [by intros Hm; destruct (Hno m)|].
      intros (x & [= <-] & Hin). simpl in Hin. set_solver.
    + rewrite lookup_insert_ne by done. apply H4.
Qed.

Lemma delete_team_ok name s :
  teams_ok s → (∀ m, member_teams s !! m ≠ Some name) → teams_ok (set_teams (delete name (teams s)) s).
Proof.
  intros [H1 H2 H3 H4] Hno. split; [|done| |].
  - simpl. pose proof (map_subseteq_size _ _ (delete_subseteq (teams s) name)). lia.
  - intros n t. simpl. intros [_ Ht]%lookup_delete_Some. by apply H3.
  - intros m t. simpl. destruct (decide (t = name)) as [->|Hn].
    + rewrite lookup_delete_eq. split; [by intros Hm; destruct (Hno m)|]. by intros (x & ? & _).
    + rewrite lookup_delete_ne by done. apply H4.
Qed.

Lemma update_team_ok name d team s :
  teams_ok s → teams s !! name = Some team →
  teams_ok (set_teams (<[name := set_members (members team) (into_team d name)]> (teams s)) s).
Proof.
  intros [H1 H2 H3 H4] Ht. split; [simpl; by rewrite map_size_insert_Some|done| |].
  - intros n t. simpl. intros [[<- <-]|[_ Hn]]%lookup_insert_Some; [done|by apply H3].
  - intros m t. simpl. rewrite (H4 m t). destruct (decide (t = name)) as [->|Hn]; [|by rewrite lookup_insert_ne].
    rewrite lookup_insert_eq, Ht. split; intros (x & [= <-] & Hin); by eexists.
Qed.

Lemma full_ext (m m' : gmap string (Team Text)) name :
  (∀ t, is_Some (m' !! t) ↔ is_Some (m !! t)) → size m' = size m → full MAX_TEAMS name m' = full MAX_TEAMS name m.
Proof.
  intros Hdom Hsize. unfold full. rewrite Hsize. f_equal. apply bool_decide_ext.
  rewrite !eq_None_not_Some. by rewrite Hdom.
Qed.

Lemma team_effect_ok u s :
  teams_ok s →
  let '(applied, _, _, s') := team_effect u s in
  teams_ok s' ∧ same_scores s s' ∧ (applied = false → s' = s).
Proof.
  intros Hs. destruct u as [name d ms|name|name d|name ms|name ms|name mode]; cbn [team_effect].
  - destruct (full MAX_TEAMS name (teams s)) eqn:Hf; [done|].
    pose proof (remove_team_members_ok name s Hs) as Hr. destruct (remove_team_members name s) as [a s1].
    destruct Hr as (Hs1 & Hsame & Hdom & Hsize & Hno & _).
    rewrite <- (full_ext _ _ name Hdom Hsize) in Hf.
    set (s2 := set_teams _ s1). assert (is_Some (teams s2 !! name)) as Hin by (simpl; rewrite lookup_insert_eq; eauto).
    pose proof (add_team_members_ok name ms s2 Hin (insert_team_ok name d s1 Hs1 Hno Hf)) as Ha.
    destruct (add_team_members name ms s2) as [[aff rej] s3]. destruct Ha as (? & ? & _).
    split_and!; [done| |done]. etrans; [exact Hsame|]. by etrans.
  - pose proof (remove_team_members_ok name s Hs) as Hr. destruct (remove_team_members name s) as [a s1].
    destruct Hr as (Hs1 & Hsame & Hdom & Hsize & Hno & Habs). split_and!; [by apply delete_team_ok|exact Hsame|].
    intros Hna%bool_decide_eq_false. rewrite Hdom in Hna. apply eq_None_not_Some in Hna.
    rewrite (Habs Hna). unfold set_teams. rewrite delete_id by done. by destruct s.
  - destruct (teams s !! name) as [team|] eqn:Ht; [|done]. split_and!; [by apply update_team_ok|done|done].
  - case_bool_decide as Hn; [done|]. pose proof (add_team_members_ok name ms s) as Ha.
    destruct (add_team_members name ms s) as [[aff rej] s3].
    destruct Ha as (? & ? & _ & Hz); [by apply not_eq_None_Some|done|]. split_and!; [done|done|].
    intros Ha%negb_false_iff%bool_decide_eq_true. by apply Hz.
  - case_bool_decide as Hn; [done|]. pose proof (remove_named_ok name ms s Hs) as Ha.
    destruct (remove_named_team_members name ms s) as [aff s3].
    destruct Ha as (? & ? & Hz). split_and!; [done|done|].
    intros Ha%negb_false_iff%bool_decide_eq_true. by apply Hz.
  - done.
Qed.

(** ** The other half: objectives, slots and scores *)

Lemma state_eta s : mkScoreboard (objectives s) (display_slots s) (scores s) (teams s) (member_teams s) = s.
Proof. by destruct s. Qed.

Lemma insert_objective_ok name d s :
  scoreboard_ok s → Z.of_nat (size (<[name := into_objective d name]> (objectives s))) ≤ MAX_OBJECTIVES →
  scoreboard_ok (set_objectives (<[name := into_objective d name]> (objectives s)) s).
Proof.
  intros [] Hsize. split; simpl; try done.
  - intros n o [[<- <-]|[_ Ho]]%lookup_insert_Some; [done|eauto].
  - intros slot n Hn. apply lookup_insert_is_Some'. right. eauto.
  - intros k sc Hk. apply lookup_insert_is_Some'. right. eauto.
Qed.

Lemma apply_objective_ok name action d s : scoreboard_ok s → scoreboard_ok (apply_objective name action d s).2.
Proof.
  intros Hs. unfold apply_objective. destruct action as [| | |v]; [| | |done].
  - destruct d as [d|]; [|done]. destruct (full _ _ _) eqn:Hf; [done|].
    apply insert_objective_ok; [done|]. apply insert_not_full; [done|]. by apply ok_objectives.
  - destruct Hs. split; simpl; try done.
    + pose proof (map_subseteq_size _ _ (delete_subseteq (objectives s) name)). lia.
    + pose proof (map_subseteq_size _ _ (map_filter_subseteq (λ kv, kv.2 ≠ name) (display_slots s))). lia.
    + pose proof (map_subseteq_size _ _ (map_filter_subseteq (λ kv, key_objective kv.1 ≠ name) (scores s))). lia.
    + intros n o [_ Ho]%lookup_delete_Some. eauto.
    + intros k sc [Hk _]%map_lookup_filter_Some. eauto.
    + intros slot n [Hn Hne]%map_lookup_filter_Some. simpl in Hne. rewrite lookup_delete_ne by done. eauto.
    + intros k sc [Hk Hne]%map_lookup_filter_Some. simpl in Hne. rewrite lookup_delete_ne by done. eauto.
  - destruct d as [d|]; [|done]. destruct (objectives s !! name) as [o|] eqn:Ho; [|done].
    apply insert_objective_ok; [done|]. rewrite map_size_insert_Some by (by exists o). by apply ok_objectives.
Qed.

Lemma apply_display_slot_ok slot o s : scoreboard_ok s → scoreboard_ok (apply_display_slot slot o s).2.
Proof.
  intros Hs. unfold apply_display_slot. destruct o as [n|].
  - case_bool_decide as Hn; [done|]. destruct (full _ _ _) eqn:Hf; [done|].
    destruct Hs. split; simpl; try done; [by apply insert_not_full|].
    intros sl m [[<- <-]|[_ Hm]]%lookup_insert_Some; [by apply not_eq_None_Some|eauto].
  - destruct Hs. split; simpl; try done.
    + pose proof (map_subseteq_size _ _ (delete_subseteq (display_slots s) slot)). lia.
    + intros sl m [_ Hm]%lookup_delete_Some. eauto.
Qed.

Lemma apply_score_ok sc s : scoreboard_ok s → scoreboard_ok (apply_score sc s).2.
Proof.
  intros Hs. unfold apply_score. destruct (_ && _) eqn:Hc; [|done].
  apply andb_true_iff in Hc as [Ho%bool_decide_eq_true Hcap].
  destruct Hs. split; simpl; try done.
  - rewrite map_size_insert. apply orb_true_iff in Hcap as [[x Hx]%bool_decide_eq_true|?%Z.ltb_lt].
    + by rewrite Hx.
    + destruct (scores s !! _); simpl; lia.
  - intros k x [[<- <-]|[_ Hk]]%lookup_insert_Some; [done|eauto].
  - intros k x [[<- <-]|[_ Hk]]%lookup_insert_Some; [done|eauto].
Qed.

Lemma sub_scores_ok m s : scoreboard_ok s → m ⊆ scores s → scoreboard_ok (set_scores m s).
Proof.
  intros [] Hm. split; simpl; try done.
  - pose proof (map_subseteq_size _ _ Hm). lia.
  - intros k sc Hk. apply (lookup_weaken _ _ _ _ Hk) in Hm. eauto.
  - intros k sc Hk. apply (lookup_weaken _ _ _ _ Hk) in Hm. eauto.
Qed.

Lemma apply_score_reset_ok owner o s : scoreboard_ok s → scoreboard_ok (apply_score_reset owner o s).2.
Proof.
  intros Hs. unfold apply_score_reset. destruct o as [o|]; apply sub_scores_ok; try done.
  - apply delete_subseteq.
  - apply map_filter_subseteq.
Qed.

Lemma apply_team_ok u s : scoreboard_ok s → scoreboard_ok (apply_team u s).2.
Proof.
  intros Hs. unfold apply_team. pose proof (team_effect_ok u s (scoreboard_teams_ok _ Hs)) as H.
  destruct (team_effect u s) as [[[a b] c] s']. destruct H as (H1 & H2 & _). by eapply scoreboard_of_teams.
Qed.

Lemma scoreboard_apply_ok u s : scoreboard_ok s → scoreboard_ok (scoreboard_apply u s).2.
Proof.
  destruct u; simpl; [apply apply_objective_ok|apply apply_display_slot_ok|apply apply_score_ok
    |apply apply_score_reset_ok|apply apply_team_ok].
Qed.

Lemma scoreboard_default_ok : scoreboard_ok (scoreboard_default (Text := Text)).
Proof.
  split; simpl; rewrite ?map_size_empty; try done; try lia.
  intros m t. simpl. rewrite !lookup_empty. split; [done|]. by intros (x & ? & _).
Qed.
End invariant.

(** With room for everyone, each entry of the list ends up in the team. *)
Lemma add_team_members_index {Text} name ms (s : ScoreboardState Text) :
  is_Some (teams s !! name) → teams_ok s →
  Z.of_nat (size (member_teams s)) + Z.of_nat (length ms) ≤ MAX_TEAM_MEMBERS →
  let '(_, rejected, s') := add_team_members name ms s in
  rejected = 0%nat
  ∧ ∀ m, member_teams s' !! m = if bool_decide (m ∈ ms) then Some name else member_teams s !! m.
Proof.
  revert s. induction ms as [|a ms IH]; intros s Hname Hs Hroom; simpl; [done|]. simpl in Hroom.
  case_bool_decide as Hin.
  - specialize (IH s Hname Hs ltac:(lia)). destruct (add_team_members name ms s) as [[x r] s'].
    destruct IH as [-> IH]. split; [done|]. intros m. rewrite IH. destruct (decide (m = a)) as [->|Hm].
    + rewrite (bool_decide_eq_true_2 (a ∈ a :: ms)) by left. by case_bool_decide.
    + apply bool_decide_if_ext. rewrite elem_of_cons. tauto.
  - assert (full MAX_TEAM_MEMBERS a (member_teams s) = false) as Hf.
    { unfold full. apply andb_false_iff. right. apply Z.leb_gt. lia. }
    rewrite Hf. destruct (move_member_ok name a s Hname Hs Hin Hf) as (Hs1 & _ & Hmt & Hname1).
    rewrite bool_decide_eq_true_2 by (destruct (member_teams s !! a); [by apply alter_members_exists|done]).
    fold (move_member name a s). specialize (IH _ Hname1 Hs1).
    destruct (add_team_members name ms (move_member name a s)) as [[x r] s']. rewrite Hmt in IH.
    destruct IH as [-> IH]; [rewrite map_size_insert; destruct (member_teams s !! a); simpl; lia|].
    split; [done|]. intros m. rewrite IH. destruct (decide (m = a)) as [->|Hm].
    + rewrite (bool_decide_eq_true_2 (a ∈ a :: ms)), lookup_insert_eq by left. by case_bool_decide.
    + rewrite lookup_insert_ne by done. apply bool_decide_if_ext. rewrite elem_of_cons. tauto.
Qed.

Lemma rejected_objective {Text} name action (d : option (ObjectiveDefinition Text)) s :
  event_applied (apply_objective name action d s).1 = false → (apply_objective name action d s).2 = s.
Proof.
  unfold apply_objective. destruct action as [| | |v]; [| | |done].
  - destruct d; [|done]. by destruct (full _ _ _).
  - cbn. rewrite !orb_false_iff, !negb_false_iff, !bool_decide_eq_true, bool_decide_eq_false.
    intros [[Hn Hsl] Hsc]. unfold set_scores, set_display_slots, set_objectives; cbn.
    rewrite delete_id by by apply eq_None_not_Some. rewrite !filter_same by done. apply state_eta.
  - destruct d; [|done]. by destruct (objectives s !! name).
Qed.

(** ** Properties *)

(** Whatever updates the server sends, in whatever order, the scoreboard
    stays well formed: every collection within its cap, every entry stored
    under its own name, display slots and scores only for existing
    objectives, and the member index in agreement with the teams, so that an
    entry belongs to at most one team. *)
Theorem scoreboard_invariant {Text} (us : list (ScoreboardUpdate Text)) :
  scoreboard_ok (foldl (λ s u, (scoreboard_apply u s).2) scoreboard_default us).
Proof.
  generalize (scoreboard_default_ok (Text := Text)). generalize (scoreboard_default (Text := Text)) as s.
  induction us as [|u us IH]; intros s Hs; simpl; [done|]. by apply IH, scoreboard_apply_ok.
Qed.

(** An update that reports [applied: false] has changed nothing. *)
Theorem rejected_update_is_noop {Text} (u : ScoreboardUpdate Text) (s : ScoreboardState Text) :
  scoreboard_ok s → event_applied (scoreboard_apply u s).1 = false → (scoreboard_apply u s).2 = s.
Proof.
  intros Hs. destruct u as [name action d|slot o|sc|owner o|u]; cbn [scoreboard_apply].
  - by apply rejected_objective.
  - unfold apply_display_slot. destruct o as [n|].
    + case_bool_decide; [done|]. by destruct (full _ _ _).
    + simpl. intros Hn%bool_decide_eq_false. unfold set_display_slots.
      rewrite delete_id by by apply eq_None_not_Some. apply state_eta.
  - unfold apply_score. by destruct (_ && _).
  - unfold apply_score_reset. destruct o as [o|]; simpl; intros Hn%negb_false_iff%bool_decide_eq_true; unfold set_scores.
    + case_bool_decide as Hk; [done|]. rewrite delete_id by by apply eq_None_not_Some. apply state_eta.
    + rewrite filter_same by done. apply state_eta.
  - unfold apply_team. pose proof (team_effect_ok u s (scoreboard_teams_ok _ Hs)) as H.
    destruct (team_effect u s) as [[[a b] c] s']. simpl. apply H.
Qed.

(** C8. Adding members moves them: while the member cap allows it, every entry
    listed belongs to the team afterwards and to no other one, whichever team
    it was in, none is rejected, and all other entries stay where they were. *)
Theorem add_members_moves {Text} (name : string) (ms : list string) (s : ScoreboardState Text) :
  scoreboard_ok s → is_Some (teams s !! name) →
  Z.of_nat (size (member_teams s)) + Z.of_nat (length ms) ≤ MAX_TEAM_MEMBERS →
  let '(ev, s') := scoreboard_apply (UpTeam (TUAddMembers name ms)) s in
  (∃ cur affected applied, ev = TeamChanged name TeamAddMembers cur affected 0 applied)
  ∧ (∀ m, team_for_member m s' = if bool_decide (m ∈ ms) then Some name else team_for_member m s)
  ∧ (∀ m t team, m ∈ ms → teams s' !! t = Some team → (m ∈ members team ↔ t = name)).
Proof.
  intros Hs Hname Hroom. cbn [scoreboard_apply]. unfold apply_team. cbn [team_effect update_name update_action].
  rewrite bool_decide_eq_false_2 by by apply not_eq_None_Some.
  pose proof (add_team_members_index name ms s Hname (scoreboard_teams_ok _ Hs) Hroom) as Hidx.
  pose proof (add_team_members_ok name ms s Hname (scoreboard_teams_ok _ Hs)) as Hok.
  destruct (add_team_members name ms s) as [[a r] s']. destruct Hidx as [-> Hidx]. destruct Hok as (Hok & _).
  split_and!; [eauto|done|]. intros m t team Hm Ht.
  pose proof (Hidx m) as Hi. rewrite bool_decide_eq_true_2 in Hi by done. split.
  - intros Hin. assert (member_teams s' !! m = Some t) as H by (apply (tok_consistent _ Hok); eauto). congruence.
  - intros ->. apply (tok_consistent _ Hok) in Hi as (x & Hx & Hin). by simplify_eq.
Qed.

(** Removing an objective removes everything that refers to it and nothing
    else: the display slots showing it and its scores go, the others stay,
    and the event counts exactly what went. *)
Theorem objective_removal_cascades {Text} (name : string) (d : option (ObjectiveDefinition Text))
    (s : ScoreboardState Text) :
  let '(ev, s') := scoreboard_apply (UpObjective name ObjRemove d) s in
  (∃ cur detached removed applied,
      ev = ObjectiveChanged name ObjRemove cur detached removed applied
      ∧ size (display_slots s) = (size (display_slots s') + detached)%nat
      ∧ size (scores s) = (size (scores s') + removed)%nat)
  ∧ (∀ n, objectives s' !! n = if decide (n = name) then None else objectives s !! n)
  ∧ (∀ slot n, display_slots s' !! slot = Some n ↔ display_slots s !! slot = Some n ∧ n ≠ name)
  ∧ (∀ k, scores s' !! k = if decide (key_objective k = name) then None else scores s !! k)
  ∧ teams s' = teams s ∧ member_teams s' = member_teams s.
Proof.
  cbn [scoreboard_apply]. unfold apply_objective.
  cbn [set_scores set_display_slots set_objectives objectives display_slots scores teams member_teams].
  split_and!.
  - eexists _, _, _, _. split; [reflexivity|].
    pose proof (map_subseteq_size _ _ (map_filter_subseteq (λ kv, kv.2 ≠ name) (display_slots s))).
    pose proof (map_subseteq_size _ _ (map_filter_subseteq (λ kv, key_objective kv.1 ≠ name) (scores s))). lia.
  - intros n. case_decide as Hn; [subst n; apply lookup_delete_eq|by apply lookup_delete_ne].
  - intros slot n. by rewrite map_lookup_filter_Some.
  - intros k. rewrite map_lookup_filter. destruct (scores s !! k); simpl; [|by case_decide].
    case_decide as Hk; [by rewrite option_guard_False by tauto|by rewrite option_guard_True].
  - done.
  - done.
Qed.

(** ** Witnesses *)

Definition sample_def : TeamDefinition Z := mkTeamDefinition 1 0 TagAlways PushNever Red 2 3.
Definition sample_scoreboard : ScoreboardState Z :=
  foldl (λ s u, (scoreboard_apply u s).2) scoreboard_default
    [UpTeam (TUCreate "red" sample_def ["alice"; "bob"]); UpTeam (TUCreate "blue" sample_def ["carol"])]%string.

Lemma sample_scoreboard_ok : scoreboard_ok sample_scoreboard.
Proof. unfold sample_scoreboard. repeat apply scoreboard_apply_ok. apply scoreboard_default_ok. Qed.

Lemma rejected_update_is_noop_witness :
  (scoreboard_apply (UpSetScore (mkScore "alice" "kills" 3 None None)) sample_scoreboard).2 = sample_scoreboard.
Proof. apply rejected_update_is_noop; [exact sample_scoreboard_ok|vm_compute; reflexivity]. Defined.

Lemma add_members_moves_witness :
  team_for_member "bob" sample_scoreboard = Some "red"%string
  ∧ team_for_member "bob" (scoreboard_apply (UpTeam (TUAddMembers "blue" ["bob"; "dave"])) sample_scoreboard).2
    = Some "blue"%string.
Proof.
  split; [vm_compute; reflexivity|].
  refine (proj1 (proj2 (add_members_moves "blue" ["bob"; "dave"] sample_scoreboard sample_scoreboard_ok _ _)) "bob"%string).
  - vm_compute. eauto.
  - vm_compute. discriminate.
Defined.
