(* ===== verification/ScoreboardWire.v ===== *)
(** * Scoreboard packets

    The packet side of [src/minecraft/scoreboard.rs] ([decode_update] and the
    conversions it calls), on top of the generated decoders of
    [crates/minerider-protocol/src/generated/v1_21_4/play.rs] for the five
    packets involved. *)

From S2P Require Import Prelude Machine Reader Varint Utf8 Buffer Wire Nbt Scoreboard.

Local Open Scope Z_scope.

Definition CLIENTBOUND_RESET_SCORE_ID : Z := 73.
Definition CLIENTBOUND_SCOREBOARD_DISPLAY_OBJECTIVE_ID : Z := 92.
Definition CLIENTBOUND_SCOREBOARD_OBJECTIVE_ID : Z := 100.
Definition CLIENTBOUND_TEAMS_ID : Z := 103.
Definition CLIENTBOUND_SCOREBOARD_SCORE_ID : Z := 104.

(** ** Generated packets *)

(** The generated switch enums: [V<case>(value)] for the listed cases,
    [Default] for every other discriminant. *)
Inductive switch (A : Type) : Type := V (case : Z) (value : A) | Default.
Arguments V {A} case value.
Arguments Default {A}.

(** [X::decode_from(input, discriminant)]. *)
Definition decode_from {A} (cases : list Z) (decode : Read A) (discriminant : Z) : Read (switch A) :=
  if bool_decide (discriminant ∈ cases) then (let* v := decode in ret (V discriminant v)) else ret Default.

(** A styling switch on [Option<i64>]. *)
Definition decode_styling (number_format : option Z) : Read (switch Nbt) :=
  match number_format with
  | Some k => decode_from [1; 2] nbt_decode k
  | None => ret Default
  end.

Definition optional_varint : Read (option Z) :=
  let* b := get_bool in
  if b then (let* v := read_varint in ret (Some v)) else ret None.

Record PacketScoreboardObjective : Type := mkPSO {
  pso_name : string;
  pso_action : Z;
  pso_display_text : switch Nbt;
  pso_type : switch Z;
  pso_number_format : switch (option Z);
  pso_styling : switch (switch Nbt);
}.

Definition decode_objective : Read PacketScoreboardObjective :=
  let* name := read_string in
  let* action := get_i8 in
  let* display_text := decode_from [0; 2] nbt_decode action in
  let* typ := decode_from [0; 2] read_varint action in
  let* number_format := decode_from [0; 2] optional_varint action in
  let* styling :=
    decode_from [0; 2] (decode_styling (match number_format with V _ v => v | Default => None end)) action in
  ret (mkPSO name action display_text typ number_format styling).

Record PacketTeams : Type := mkPT {
  pt_team : string;
  pt_mode : Z;
  pt_name : switch Nbt;
  pt_friendly_fire : switch Z;
  pt_name_tag_visibility : switch string;
  pt_collision_rule : switch string;
  pt_formatting : switch Z;
  pt_prefix : switch Nbt;
  pt_suffix : switch Nbt;
  pt_players : switch (list string);
}.

Definition decode_teams : Read PacketTeams :=
  let* team := read_string in
  let* mode := get_i8 in
  let* name := decode_from [0; 2] nbt_decode mode in
  let* friendly_fire := decode_from [0; 2] get_i8 mode in
  let* name_tag_visibility := decode_from [0; 2] read_string mode in
  let* collision_rule := decode_from [0; 2] read_string mode in
  let* formatting := decode_from [0; 2] read_varint mode in
  let* prefix := decode_from [0; 2] nbt_decode mode in
  let* suffix := decode_from [0; 2] nbt_decode mode in
  let* players := decode_from [0; 3; 4] (read_array read_string) mode in
  ret (mkPT team mode name friendly_fire name_tag_visibility collision_rule formatting prefix suffix players).

Record PacketScoreboardScore : Type := mkPSS {
  pss_item_name : string;
  pss_score_name : string;
  pss_value : Z;
  pss_display_name : option Nbt;
  pss_number_format : option Z;
  pss_styling : switch Nbt;
}.

Definition decode_score : Read PacketScoreboardScore :=
  let* item_name := read_string in
  let* score_name := read_string in
  let* value := read_varint in
  let* display_name := read_option nbt_decode in
  let* number_format := optional_varint in
  let* styling := decode_styling number_format in
  ret (mkPSS item_name score_name value display_name number_format styling).

(** ** Conversions *)

Section conversions.
Context {Text : Type} (from_nbt : Nbt → Text).

(** [match x { V0(v) | V2(v) => v, Default => return None }]. *)
Definition switch_value {A} (s : switch A) : option A :=
  match s with V _ v => Some v | Default => None end.

Definition number_format (kind : option Z) (styling : option Nbt) : option (NumberFormat Text) :=
  match kind with
  | None => None
  | Some 0 => Some Blank
  | Some 1 => Some (match styling with Some s => Styled s | None => FormatUnknown 1 None end)
  | Some 2 => Some (match styling with Some s => Fixed (from_nbt s) | None => FormatUnknown 2 None end)
  | Some k => Some (FormatUnknown k styling)
  end.

Definition objective_styling (styling : switch (switch Nbt)) : option Nbt :=
  match styling with V _ (V _ v) => Some v | _ => None end.

Definition objective_definition (p : PacketScoreboardObjective) : option (ObjectiveDefinition Text) :=
  display_name ← switch_value (pso_display_text p);
  render_type ← switch_value (pso_type p);
  kind ← switch_value (pso_number_format p);
  Some (mkObjectiveDefinition (from_nbt display_name) (render_type_from render_type)
          (number_format kind (objective_styling (pso_styling p)))).

Definition team_definition (p : PacketTeams) : option (TeamDefinition Text) :=
  display_name ← switch_value (pt_name p);
  friendly_fire ← switch_value (pt_friendly_fire p);
  name_tag_visibility ← switch_value (pt_name_tag_visibility p);
  collision_rule ← switch_value (pt_collision_rule p);
  color ← switch_value (pt_formatting p);
  prefix ← switch_value (pt_prefix p);
  suffix ← switch_value (pt_suffix p);
  Some (mkTeamDefinition (from_nbt display_name) (wrap 8 friendly_fire) (name_tag_from name_tag_visibility)
          (collision_rule_from collision_rule) (team_color_from color) (from_nbt prefix) (from_nbt suffix)).

Definition team_players (players : switch (list string)) : option (list string) := switch_value players.

Definition team_update (p : PacketTeams) : TeamUpdate Text :=
  let unknown := TUUnknown (pt_team p) (pt_mode p) in
  match pt_mode p with
  | 0 =>
      match team_definition p, team_players (pt_players p) with
      | Some d, Some ms => TUCreate (pt_team p) d ms
      | _, _ => unknown
      end
  | 1 => TURemove (pt_team p)
  | 2 => match team_definition p with Some d => TUUpdate (pt_team p) d | None => unknown end
  | 3 => match team_players (pt_players p) with Some ms => TUAddMembers (pt_team p) ms | None => unknown end
  | 4 => match team_players (pt_players p) with Some ms => TURemoveMembers (pt_team p) ms | None => unknown end
  | _ => unknown
  end.

Definition decode_update (id : Z) (payload : list byte) : result ProtocolError (option (ScoreboardUpdate Text)) :=
  let run {A} (m : Read A) : result ProtocolError A := (m (new_reader payload)).1 in
  if id =? CLIENTBOUND_SCOREBOARD_OBJECTIVE_ID then
    let? p := run decode_objective in
    Ok (Some (UpObjective (pso_name p) (objective_action_from (pso_action p)) (objective_definition p)))
  else if id =? CLIENTBOUND_SCOREBOARD_DISPLAY_OBJECTIVE_ID then
    let? (position, name) := run (let* position := read_varint in let* name := read_string in ret (position, name)) in
    Ok (Some (UpDisplaySlot (display_slot_from position) (if bool_decide (name = ""%string) then None else Some name)))
  else if id =? CLIENTBOUND_SCOREBOARD_SCORE_ID then
    let? p := run decode_score in
    Ok (Some (UpSetScore (mkScore (pss_item_name p) (pss_score_name p) (pss_value p)
      (from_nbt <$> pss_display_name p)
      (number_format (pss_number_format p) (switch_value (pss_styling p))))))
  else if id =? CLIENTBOUND_RESET_SCORE_ID then
    let? (owner, objective) := run (let* owner := read_string in let* o := read_option read_string in ret (owner, o)) in
    Ok (Some (UpResetScore owner objective))
  else if id =? CLIENTBOUND_TEAMS_ID then
    let? p := run decode_teams in Ok (Some (UpTeam (team_update p)))
  else Ok None.
End conversions.

(** ** The switches follow their discriminants *)

Lemma decode_from_inv {A} cases (m : Read A) d r s r' :
  decode_from cases m d r = (Ok s, r') → is_Some (switch_value s) ↔ d ∈ cases.
Proof.
  unfold decode_from. case_bool_decide as Hd.
  - intros (v & r1 & _ & H)%bind_Ok_inv. unfold ret in H. simplify_eq. simpl. split; [done|eauto].
  - intros H. unfold ret in H. simplify_eq. simpl. split; [by intros []|done].
Qed.

(** [reads_ok H]: name each step of a successful sequence of reads. *)
Ltac reads_ok H :=
  repeat match type of H with
  | bind _ _ _ = (Ok _, _) => let a := fresh "a" in let r := fresh "r" in let Ha := fresh "Ha" in
      apply bind_Ok_inv in H as (a & r & Ha & H)
  end; unfold ret in H; simplify_eq.

Lemma decode_teams_switches r p r' :
  decode_teams r = (Ok p, r') →
  (pt_mode p ∈ [0; 2] → is_Some (switch_value (pt_name p)) ∧ is_Some (switch_value (pt_friendly_fire p))
     ∧ is_Some (switch_value (pt_name_tag_visibility p)) ∧ is_Some (switch_value (pt_collision_rule p))
     ∧ is_Some (switch_value (pt_formatting p)) ∧ is_Some (switch_value (pt_prefix p))
     ∧ is_Some (switch_value (pt_suffix p)))
  ∧ (pt_mode p ∈ [0; 3; 4] → is_Some (switch_value (pt_players p))).
Proof.
  unfold decode_teams. intros H. reads_ok H. simpl.
  repeat match goal with H : decode_from _ _ _ _ = _ |- _ => apply decode_from_inv in H end.
  split; [intros Hm; split_and!|intros Hm]; tauto.
Qed.

Lemma decode_objective_switches r p r' :
  decode_objective r = (Ok p, r') → pso_action p ∈ [0; 2] →
  is_Some (switch_value (pso_display_text p)) ∧ is_Some (switch_value (pso_type p))
  ∧ is_Some (switch_value (pso_number_format p)).
Proof.
  unfold decode_objective. intros H. reads_ok H. simpl.
  repeat match goal with H : decode_from _ _ _ _ = _ |- _ => apply decode_from_inv in H end.
  intros Hm. split_and!; tauto.
Qed.

Lemma team_definition_Some {Text} (from_nbt : Nbt → Text) p r r' :
  decode_teams r = (Ok p, r') → pt_mode p ∈ [0; 2] → is_Some (team_definition from_nbt p).
Proof.
  intros [H _]%decode_teams_switches Hm.
  destruct (H Hm) as ([? E1] & [? E2] & [? E3] & [? E4] & [? E5] & [? E6] & [? E7]).
  unfold team_definition. rewrite E1, E2, E3, E4, E5, E6, E7. by eexists.
Qed.

Lemma team_players_Some p r r' :
  decode_teams r = (Ok p, r') → pt_mode p ∈ [0; 3; 4] → is_Some (team_players (pt_players p)).
Proof. intros [_ H]%decode_teams_switches. exact H. Qed.

Lemma team_update_known {Text} (from_nbt : Nbt → Text) p r r' :
  decode_teams r = (Ok p, r') →
  match team_update from_nbt p with TUUnknown _ mode => ¬ 0 ≤ mode ≤ 4 | _ => True end.
Proof.
  intros Hp. unfold team_update.
  pose proof (team_definition_Some from_nbt p r r' Hp) as Hd. pose proof (team_players_Some p r r' Hp) as Hpl.
  destruct (pt_mode p) as [|q|q]; [| |intros H; lia].
  - destruct Hd as [d ->]; [set_solver|]. by destruct Hpl as [ms ->]; [set_solver|].
  - do 3 (try destruct q as [q|q|]); try (intros H; lia); try done.
    + by destruct Hpl as [ms ->]; [set_solver|].
    + by destruct Hpl as [ms ->]; [set_solver|].
    + by destruct Hd as [d ->]; [set_solver|].
Qed.

Lemma objective_definition_Some {Text} (from_nbt : Nbt → Text) p r r' :
  decode_objective r = (Ok p, r') → pso_action p ∈ [0; 2] → is_Some (objective_definition from_nbt p).
Proof.
  intros Hp Hm. destruct (decode_objective_switches r p r' Hp Hm) as ([? E1] & [? E2] & [? E3]).
  unfold objective_definition. rewrite E1, E2, E3. by eexists.
Qed.

(** ** Properties *)

(** The forward-compatible fallbacks of [decode_update] are taken only for
    what the protocol does not define: a decoded team update is [Unknown]
    only for a mode outside 0..4, and a decoded objective creation or update
    always carries its definition, so no well-formed packet is dropped. *)
Theorem decode_update_no_spurious_unknown {Text} (from_nbt : Nbt → Text) (id : Z) (payload : list byte)
    (u : ScoreboardUpdate Text) :
  decode_update from_nbt id payload = Ok (Some u) →
  match u with
  | UpTeam (TUUnknown _ mode) => ¬ 0 ≤ mode ≤ 4
  | UpObjective _ ObjCreate d | UpObjective _ ObjUpdate d => is_Some d
  | _ => True
  end.
Proof.
  unfold decode_update. case_match.
  { destruct (decode_objective (new_reader payload)) as [[p|e] r'] eqn:Hp; [|done]. simpl. intros [= <-].
    pose proof (objective_definition_Some from_nbt p _ _ Hp) as Hd. unfold objective_action_from.
    destruct (pso_action p) as [|q|q]; [apply Hd; set_solver| |done].
    do 2 (try destruct q as [q|q|]); try done. apply Hd. set_solver. }
  do 3 (case_match; [by intros ([] & _ & [= <-])%rbind_Ok_inv|]).
  case_match; [|done]. destruct (decode_teams (new_reader payload)) as [[p|e] r'] eqn:Hp; [|done]. simpl. intros [= <-].
  by eapply team_update_known.
Qed.

(** A team creation as it arrives on the wire: name "a", mode 0. *)
Definition sample_teams_payload : list byte :=
  string_bytes "a" ++ [x00] ++ nbt_bytes (NbtString "A") ++ [x03] ++ string_bytes "always" ++ string_bytes "never"
  ++ varint_bytes 12 ++ nbt_bytes (NbtString "") ++ nbt_bytes (NbtString "") ++ varint_bytes 1 ++ string_bytes "bob".

Example decode_update_team :
  decode_update (λ v, v) CLIENTBOUND_TEAMS_ID sample_teams_payload
  = Ok (Some (UpTeam (TUCreate "a" (mkTeamDefinition (NbtString "A") 3 TagAlways PushNever Red (NbtString "") (NbtString "")) ["bob"%string]))).
Proof. vm_compute. reflexivity. Qed.

Lemma decode_update_no_spurious_unknown_witness :
  decode_update (λ v, v) CLIENTBOUND_TEAMS_ID (string_bytes "a" ++ [x07]) = Ok (Some (UpTeam (TUUnknown "a" 7)))
  ∧ ¬ 0 ≤ 7 ≤ 4.
Proof.
  split; [vm_compute; reflexivity|].
  exact (decode_update_no_spurious_unknown (λ v, v) CLIENTBOUND_TEAMS_ID (string_bytes "a" ++ [x07])
    (UpTeam (TUUnknown "a" 7)) ltac:(vm_compute; reflexivity)).
Defined.
