(* ===== verification/Hud.v ===== *)
(** * Player-facing state

    [src/minecraft/hud.rs]: the projection of everything a player sees that
    no other store keeps (vitals, hotbar, cooldowns, effects, attributes,
    world border, time, weather), with the bounds on what a server can make
    it hold.  [Slot] is the item type, [J] the JSON type of text components;
    floats are their bits. *)

From stdpp Require Import finite.
From S2P Require Import Prelude Machine Reader Nbt PacketTypes PlayPackets Text.

Local Open Scope Z_scope.

Definition MAX_COOLDOWNS : Z := 1024.
Definition MAX_EFFECTS : Z := 256.
Definition MAX_ATTRIBUTES : Z := 128.
Definition MAX_ATTRIBUTE_MODIFIERS : Z := 64.
Definition PLAYER_INVENTORY_HOTBAR_START : Z := 36.
Definition PLAYER_INVENTORY_HOTBAR_END : Z := 44.

(** ** Data *)

Record Vitals : Type := mkVitals { health : Z; food : Z; saturation : Z }.
(** [20.0], [20], [5.0]. *)
Definition vitals_default : Vitals := mkVitals 0x41A00000 20 0x40A00000.

Record Experience : Type := mkExperience { exp_bar : Z; exp_level : Z; exp_total : Z }.
Definition experience_default : Experience := mkExperience 0 0 0.

Inductive GameMode : Type := Survival | Creative | Adventure | Spectator | UnknownMode (raw : Z).

Definition game_mode_from_i32 (value : Z) : GameMode :=
  match value with 0 => Survival | 1 => Creative | 2 => Adventure | 3 => Spectator | other => UnknownMode other end.

(** What the code asks of an [f32], from its bits: [is_finite], [fract() ==
    0.0], and the saturating cast [as i32]. *)
Definition f32_exponent (bits : Z) : Z := Z.land (Z.shiftr bits 23) 255.
Definition f32_mantissa (bits : Z) : Z :=
  let frac := Z.land bits (Z.ones 23) in if f32_exponent bits =? 0 then frac else frac + 2 ^ 23.
Definition f32_is_finite (bits : Z) : bool := negb (f32_exponent bits =? 255).
(** The value is [f32_mantissa * 2 ^ f32_scale], up to sign. *)
Definition f32_scale (bits : Z) : Z := Z.max 1 (f32_exponent bits) - 150.
Definition f32_is_integral (bits : Z) : bool :=
  (0 <=? f32_scale bits) || (f32_mantissa bits `mod` 2 ^ (- f32_scale bits) =? 0).
Definition f32_as_i32 (bits : Z) : Z :=
  let magnitude := if 0 <=? f32_scale bits then f32_mantissa bits * 2 ^ f32_scale bits
                   else f32_mantissa bits / 2 ^ (- f32_scale bits) in
  let value := if Z.testbit bits 31 then - magnitude else magnitude in
  Z.max i32_min (Z.min i32_max value).

Definition game_mode_from_wire_float (bits : Z) : GameMode :=
  if f32_is_finite bits && f32_is_integral bits then game_mode_from_i32 (f32_as_i32 bits)
  else UnknownMode (swrap 32 bits).

Definition game_mode_from (m : SpawnInfoGamemode) : GameMode :=
  match m with
  | SpawnInfoGamemode_Survival => Survival
  | SpawnInfoGamemode_Creative => Creative
  | SpawnInfoGamemode_Adventure => Adventure
  | SpawnInfoGamemode_Spectator => Spectator
  end.

Definition game_mode_default : GameMode := UnknownMode (-1).

Record Abilities : Type := mkAbilities { ab_raw_flags : Z; flying_speed : Z; walking_speed : Z }.
Definition abilities_default : Abilities := mkAbilities 0 0 0.
Definition invulnerable (a : Abilities) : bool := negb (Z.land (ab_raw_flags a) 1 =? 0).
Definition flying (a : Abilities) : bool := negb (Z.land (ab_raw_flags a) 2 =? 0).
Definition may_fly (a : Abilities) : bool := negb (Z.land (ab_raw_flags a) 4 =? 0).
Definition instant_build (a : Abilities) : bool := negb (Z.land (ab_raw_flags a) 8 =? 0).

Record StatusEffect : Type := mkStatusEffect { eff_id : Z; amplifier : Z; duration_ticks : Z; eff_flags : Z }.

Inductive AttributeKey : Type :=
  | Armor | ArmorToughness | AttackDamage | AttackKnockback | AttackSpeed | BlockBreakSpeed
  | BlockInteractionRange | EntityInteractionRange | FallDamageMultiplier | FlyingSpeed | FollowRange
  | Gravity | JumpStrength | KnockbackResistance | Luck | MaxAbsorption | MaxHealth | MovementSpeed
  | SafeFallDistance | Scale | SpawnReinforcements | StepHeight.

#[export] Instance AttributeKey_eq_dec : EqDecision AttributeKey.
Proof. solve_decision. Defined.

(** Every key; the order of the [derive(Ord)]. *)
Definition attribute_keys : list AttributeKey :=
  [Armor; ArmorToughness; AttackDamage; AttackKnockback; AttackSpeed; BlockBreakSpeed;
   BlockInteractionRange; EntityInteractionRange; FallDamageMultiplier; FlyingSpeed; FollowRange;
   Gravity; JumpStrength; KnockbackResistance; Luck; MaxAbsorption; MaxHealth; MovementSpeed;
   SafeFallDistance; Scale; SpawnReinforcements; StepHeight].

Lemma attribute_keys_all k : k ∈ attribute_keys.
Proof. apply (bool_decide_unpack _). by destruct k; vm_compute. Qed.

#[export] Instance AttributeKey_finite : Finite AttributeKey.
Proof.
  refine {| enum := attribute_keys |}.
  - apply (bool_decide_unpack _). by vm_compute.
  - apply attribute_keys_all.
Defined.

Inductive AttributeOperation : Type := AddValue | AddMultipliedBase | AddMultipliedTotal | UnknownOperation (raw : Z).

Definition attribute_operation_from (value : Z) : AttributeOperation :=
  match value with 0 => AddValue | 1 => AddMultipliedBase | 2 => AddMultipliedTotal | other => UnknownOperation other end.

Record AttributeModifier : Type := mkModifier { mod_id : string; mod_amount : Z; mod_operation : AttributeOperation }.

Record Attribute_ : Type := mkAttribute {
  att_key : AttributeKey;
  base_value : Z;
  modifiers : list AttributeModifier;
  modifiers_truncated : bool;
}.

Record BlockPosition : Type := mkBlockPosition { bp_x : Z; bp_y : Z; bp_z : Z }.
Definition block_position_from (p : Position) : BlockPosition := mkBlockPosition (pos_x p) (pos_y p) (pos_z p).

Record GlobalPosition : Type := mkGlobalPosition { gp_dimension_name : string; gp_position : BlockPosition }.

Record RespawnState : Type := mkRespawn {
  respawn_count : Z;
  respawn_game_mode : GameMode;
  respawn_previous : option GameMode;
  dimension_name : string;
  last_death_location : option GlobalPosition;
  portal_cooldown : Z;
  sea_level : Z;
  copy_metadata : Z;
}.
Definition respawn_default : RespawnState := mkRespawn 0 game_mode_default None "" None 0 0 0.

Record WorldBorderState : Type := mkBorder {
  center_x : Z;
  center_z : Z;
  old_diameter : Z;
  new_diameter : Z;
  lerp_millis : Z;
  portal_teleport_boundary : Z;
  warning_blocks : Z;
  warning_time : Z;
}.

Inductive WorldBorderAction : Type := BInitialize | BCenter | BLerpSize | BSize | BWarningTime | BWarningBlocks.

Record WorldTime : Type := mkWorldTime { world_age : Z; raw_day_time : Z; day_time : Z; ticking : bool }.
Definition world_time_default : WorldTime := mkWorldTime 0 0 0 false.

Record WeatherState : Type := mkWeather { raining : bool; rain_level : Z; thunder_level : Z }.
Definition weather_default : WeatherState := mkWeather false 0 0.

Inductive Difficulty : Type := Peaceful | Easy | Normal | Hard | UnknownDifficulty (raw : Z).
Definition difficulty_from (value : Z) : Difficulty :=
  match value with 0 => Peaceful | 1 => Easy | 2 => Normal | 3 => Hard | other => UnknownDifficulty other end.

Record DifficultyState : Type := mkDifficulty { difficulty : Difficulty; locked : bool }.
Definition difficulty_default : DifficultyState := mkDifficulty (UnknownDifficulty 255) false.

Record SpawnPosition : Type := mkSpawnPosition { sp_position : BlockPosition; sp_angle : Z }.

Section hud.
Context {J Slot : Type} (empty_slot : Slot).

Record DeathInformation : Type := mkDeath { death_player_id : Z; death_message : TextComponent J }.

Record HudState : Type := mkHud {
  entity_id : option Z;
  vitals : Vitals;
  experience : Experience;
  game_mode : GameMode;
  previous_game_mode : option GameMode;
  hardcore : bool;
  abilities : Abilities;
  selected_hotbar_slot : Z;
  held_item : Slot;
  hotbar : gmap Z Slot;
  cooldowns : gmap string Z;
  active_effects : gmap Z StatusEffect;
  attributes : gmap AttributeKey Attribute_;
  death : option DeathInformation;
  respawn : RespawnState;
  world_border : option WorldBorderState;
  time : WorldTime;
  weather : WeatherState;
  hud_difficulty : DifficultyState;
  spawn_position : option SpawnPosition;
}.

Definition hud_default : HudState :=
  mkHud None vitals_default experience_default (UnknownMode (-1)) None false abilities_default 0 empty_slot
    ∅ ∅ ∅ ∅ None respawn_default None world_time_default weather_default difficulty_default None.

Inductive HudEvent : Type :=
  | VitalsChanged (v : Vitals)
  | ExperienceChanged (e : Experience)
  | GameModeChanged (m : GameMode)
  | AbilitiesChanged (a : Abilities)
  | HotbarChanged (selected_slot : Z) (held : Slot) (applied : bool)
  | CooldownChanged (group : string) (remaining_ticks : option Z) (applied : bool)
  | EffectChanged (effect_id : Z) (current : option StatusEffect) (applied : bool)
  | AttributesChanged (applied rejected : Z)
  | HudDeath (information : DeathInformation)
  | Respawned (state : RespawnState)
  | WorldBorderChanged (action : WorldBorderAction) (current : option WorldBorderState) (applied : bool)
  | TimeChanged (t : WorldTime)
  | WeatherChanged (w : WeatherState)
  | DifficultyChanged (d : DifficultyState)
  | SpawnPositionChanged (p : SpawnPosition)
  | PlayerListChanged (updated removed : list Z) (rejected : Z).

Inductive HudUpdate : Type :=
  | UpAbilities (a : Abilities)
  | UpCooldown (group : string) (ticks : Z)
  | UpSetEffect (entity : Z) (effect : StatusEffect)
  | UpRemoveEffect (entity effect : Z)
  | UpAttributes (entity : Z) (l : list Attribute_)
  | UpDeath (player_id : Z) (information : DeathInformation)
  | UpInitializeBorder (b : WorldBorderState)
  | UpBorderCenter (x z : Z)
  | UpBorderLerp (old new speed : Z)
  | UpBorderSize (diameter : Z)
  | UpBorderWarningTime (warning_time : Z)
  | UpBorderWarningBlocks (warning_blocks : Z)
  | UpDifficulty (d : DifficultyState)
  | UpSpawnPosition (p : SpawnPosition).

(** ** Assignments to fields *)

Implicit Types s : HudState.

Definition set_entity_id v s : HudState :=
  mkHud v (vitals s) (experience s) (game_mode s) (previous_game_mode s) (hardcore s) (abilities s)
    (selected_hotbar_slot s) (held_item s) (hotbar s) (cooldowns s) (active_effects s) (attributes
    s) (death s) (respawn s) (world_border s) (time s) (weather s) (hud_difficulty s)
    (spawn_position s).
Definition set_vitals v s : HudState :=
  mkHud (entity_id s) v (experience s) (game_mode s) (previous_game_mode s) (hardcore s) (abilities s)
    (selected_hotbar_slot s) (held_item s) (hotbar s) (cooldowns s) (active_effects s) (attributes
    s) (death s) (respawn s) (world_border s) (time s) (weather s) (hud_difficulty s)
    (spawn_position s).
Definition set_experience v s : HudState :=
  mkHud (entity_id s) (vitals s) v (game_mode s) (previous_game_mode s) (hardcore s) (abilities s)
    (selected_hotbar_slot s) (held_item s) (hotbar s) (cooldowns s) (active_effects s) (attributes
    s) (death s) (respawn s) (world_border s) (time s) (weather s) (hud_difficulty s)
    (spawn_position s).
Definition set_game_mode v s : HudState :=
  mkHud (entity_id s) (vitals s) (experience s) v (previous_game_mode s) (hardcore s) (abilities s)
    (selected_hotbar_slot s) (held_item s) (hotbar s) (cooldowns s) (active_effects s) (attributes
    s) (death s) (respawn s) (world_border s) (time s) (weather s) (hud_difficulty s)
    (spawn_position s).
Definition set_previous_game_mode v s : HudState :=
  mkHud (entity_id s) (vitals s) (experience s) (game_mode s) v (hardcore s) (abilities s)
    (selected_hotbar_slot s) (held_item s) (hotbar s) (cooldowns s) (active_effects s) (attributes
    s) (death s) (respawn s) (world_border s) (time s) (weather s) (hud_difficulty s)
    (spawn_position s).
Definition set_hardcore v s : HudState :=
  mkHud (entity_id s) (vitals s) (experience s) (game_mode s) (previous_game_mode s) v (abilities s)
    (selected_hotbar_slot s) (held_item s) (hotbar s) (cooldowns s) (active_effects s) (attributes
    s) (death s) (respawn s) (world_border s) (time s) (weather s) (hud_difficulty s)
    (spawn_position s).
Definition set_abilities v s : HudState :=
  mkHud (entity_id s) (vitals s) (experience s) (game_mode s) (previous_game_mode s) (hardcore s) v
    (selected_hotbar_slot s) (held_item s) (hotbar s) (cooldowns s) (active_effects s) (attributes
    s) (death s) (respawn s) (world_border s) (time s) (weather s) (hud_difficulty s)
    (spawn_position s).
Definition set_selected v s : HudState :=
  mkHud (entity_id s) (vitals s) (experience s) (game_mode s) (previous_game_mode s) (hardcore s)
    (abilities s) v (held_item s) (hotbar s) (cooldowns s) (active_effects s) (attributes s) (death
    s) (respawn s) (world_border s) (time s) (weather s) (hud_difficulty s) (spawn_position s).
Definition set_held_item v s : HudState :=
  mkHud (entity_id s) (vitals s) (experience s) (game_mode s) (previous_game_mode s) (hardcore s)
    (abilities s) (selected_hotbar_slot s) v (hotbar s) (cooldowns s) (active_effects s) (attributes
    s) (death s) (respawn s) (world_border s) (time s) (weather s) (hud_difficulty s)
    (spawn_position s).
Definition set_hotbar v s : HudState :=
  mkHud (entity_id s) (vitals s) (experience s) (game_mode s) (previous_game_mode s) (hardcore s)
    (abilities s) (selected_hotbar_slot s) (held_item s) v (cooldowns s) (active_effects s)
    (attributes s) (death s) (respawn s) (world_border s) (time s) (weather s) (hud_difficulty s)
    (spawn_position s).
Definition set_cooldowns v s : HudState :=
  mkHud (entity_id s) (vitals s) (experience s) (game_mode s) (previous_game_mode s) (hardcore s)
    (abilities s) (selected_hotbar_slot s) (held_item s) (hotbar s) v (active_effects s) (attributes
    s) (death s) (respawn s) (world_border s) (time s) (weather s) (hud_difficulty s)
    (spawn_position s).
Definition set_effects v s : HudState :=
  mkHud (entity_id s) (vitals s) (experience s) (game_mode s) (previous_game_mode s) (hardcore s)
    (abilities s) (selected_hotbar_slot s) (held_item s) (hotbar s) (cooldowns s) v (attributes s)
    (death s) (respawn s) (world_border s) (time s) (weather s) (hud_difficulty s) (spawn_position
    s).
Definition set_attributes v s : HudState :=
  mkHud (entity_id s) (vitals s) (experience s) (game_mode s) (previous_game_mode s) (hardcore s)
    (abilities s) (selected_hotbar_slot s) (held_item s) (hotbar s) (cooldowns s) (active_effects s)
    v (death s) (respawn s) (world_border s) (time s) (weather s) (hud_difficulty s) (spawn_position
    s).
Definition set_death v s : HudState :=
  mkHud (entity_id s) (vitals s) (experience s) (game_mode s) (previous_game_mode s) (hardcore s)
    (abilities s) (selected_hotbar_slot s) (held_item s) (hotbar s) (cooldowns s) (active_effects s)
    (attributes s) v (respawn s) (world_border s) (time s) (weather s) (hud_difficulty s)
    (spawn_position s).
Definition set_respawn v s : HudState :=
  mkHud (entity_id s) (vitals s) (experience s) (game_mode s) (previous_game_mode s) (hardcore s)
    (abilities s) (selected_hotbar_slot s) (held_item s) (hotbar s) (cooldowns s) (active_effects s)
    (attributes s) (death s) v (world_border s) (time s) (weather s) (hud_difficulty s)
    (spawn_position s).
Definition set_world_border v s : HudState :=
  mkHud (entity_id s) (vitals s) (experience s) (game_mode s) (previous_game_mode s) (hardcore s)
    (abilities s) (selected_hotbar_slot s) (held_item s) (hotbar s) (cooldowns s) (active_effects s)
    (attributes s) (death s) (respawn s) v (time s) (weather s) (hud_difficulty s) (spawn_position
    s).
Definition set_time v s : HudState :=
  mkHud (entity_id s) (vitals s) (experience s) (game_mode s) (previous_game_mode s) (hardcore s)
    (abilities s) (selected_hotbar_slot s) (held_item s) (hotbar s) (cooldowns s) (active_effects s)
    (attributes s) (death s) (respawn s) (world_border s) v (weather s) (hud_difficulty s)
    (spawn_position s).
Definition set_weather v s : HudState :=
  mkHud (entity_id s) (vitals s) (experience s) (game_mode s) (previous_game_mode s) (hardcore s)
    (abilities s) (selected_hotbar_slot s) (held_item s) (hotbar s) (cooldowns s) (active_effects s)
    (attributes s) (death s) (respawn s) (world_border s) (time s) v (hud_difficulty s)
    (spawn_position s).
Definition set_difficulty v s : HudState :=
  mkHud (entity_id s) (vitals s) (experience s) (game_mode s) (previous_game_mode s) (hardcore s)
    (abilities s) (selected_hotbar_slot s) (held_item s) (hotbar s) (cooldowns s) (active_effects s)
    (attributes s) (death s) (respawn s) (world_border s) (time s) (weather s) v (spawn_position s).
Definition set_spawn_position v s : HudState :=
  mkHud (entity_id s) (vitals s) (experience s) (game_mode s) (previous_game_mode s) (hardcore s)
    (abilities s) (selected_hotbar_slot s) (held_item s) (hotbar s) (cooldowns s) (active_effects s)
    (attributes s) (death s) (respawn s) (world_border s) (time s) (weather s) (hud_difficulty s) v.

(** ** Packets handled by their own methods *)

Definition apply_spawn_info (spawn : SpawnInfo) (copy : Z) s : HudState :=
  let mode := game_mode_from (SpawnInfo_gamemode spawn) in
  let previous :=
    if SpawnInfo_previous_gamemode spawn =? 255 then None
    else Some (game_mode_from_i32 (SpawnInfo_previous_gamemode spawn)) in
  let location :=
    (λ d, mkGlobalPosition (SpawnInfoDeathValue_dimension_name d) (block_position_from (SpawnInfoDeathValue_location d)))
      <$> SpawnInfo_death spawn in
  set_respawn
    (mkRespawn (respawn_count (respawn s)) mode previous (SpawnInfo_name spawn) location
       (SpawnInfo_portal_cooldown spawn) (SpawnInfo_sea_level spawn) copy)
    (set_previous_game_mode previous (set_game_mode mode s)).

Definition on_login (p : PacketLogin) s : HudState :=
  apply_spawn_info (PacketLogin_world_state p) 0
    (set_hardcore (PacketLogin_is_hardcore p) (set_entity_id (Some (PacketLogin_entity_id p)) s)).

(** [self.respawn.count.saturating_add(1)], a [u64]. *)
Definition count_respawn (r : RespawnState) : RespawnState :=
  mkRespawn (saturating_add 64 (respawn_count r) 1) (respawn_game_mode r) (respawn_previous r) (dimension_name r)
    (last_death_location r) (portal_cooldown r) (sea_level r) (copy_metadata r).

Definition on_respawn (p : PacketRespawn) s : HudEvent * HudState :=
  let s := set_respawn (count_respawn (respawn s)) s in
  let s := apply_spawn_info (PacketRespawn_world_state p) (PacketRespawn_copy_metadata p) s in
  (Respawned (respawn s), s).

Definition on_health (p : PacketUpdateHealth) s : HudEvent * HudState :=
  let v := mkVitals (PacketUpdateHealth_health p) (PacketUpdateHealth_food p) (PacketUpdateHealth_food_saturation p) in
  (VitalsChanged v, set_vitals v s).

Definition on_experience (bar level total : Z) s : HudEvent * HudState :=
  let e := mkExperience bar level total in (ExperienceChanged e, set_experience e s).

Definition hotbar_event (applied : bool) s : HudEvent :=
  HotbarChanged (selected_hotbar_slot s) (held_item s) applied.

Definition on_selected_hotbar (slot : Z) s : HudEvent * HudState :=
  let applied := (0 <=? slot) && (slot <=? 8) in
  let s := if applied then set_held_item (default empty_slot (hotbar s !! slot)) (set_selected slot s) else s in
  (hotbar_event applied s, s).

Definition on_player_inventory (slot_id : Z) (contents : Slot) s : HudEvent * HudState :=
  if (PLAYER_INVENTORY_HOTBAR_START <=? slot_id) && (slot_id <=? PLAYER_INVENTORY_HOTBAR_END) then
    let hotbar_slot := slot_id - PLAYER_INVENTORY_HOTBAR_START in
    let s := set_hotbar (<[hotbar_slot := contents]> (hotbar s)) s in
    let s := if hotbar_slot =? selected_hotbar_slot s then set_held_item contents s else s in
    (hotbar_event true s, s)
  else (hotbar_event false s, s).

Definition on_time (p : PacketUpdateTime) s : HudEvent * HudState :=
  let t := mkWorldTime (PacketUpdateTime_age p) (PacketUpdateTime_time p) (PacketUpdateTime_time p `mod` 24000)
             (PacketUpdateTime_tick_day_time p) in
  (TimeChanged t, set_time t s).

Definition on_game_state (p : PacketGameStateChange) s : option HudEvent * HudState :=
  let w := weather s in
  let weather_changed w := (Some (WeatherChanged w), set_weather w s) in
  match PacketGameStateChange_reason p with
  | 1 => weather_changed (mkWeather true (rain_level w) (thunder_level w))
  | 2 => weather_changed (mkWeather false (rain_level w) (thunder_level w))
  | 3 =>
      let mode := game_mode_from_wire_float (PacketGameStateChange_game_mode p) in
      let r := respawn s in
      (Some (GameModeChanged mode),
       set_respawn (mkRespawn (respawn_count r) mode (respawn_previous r) (dimension_name r) (last_death_location r)
                      (portal_cooldown r) (sea_level r) (copy_metadata r)) (set_game_mode mode s))
  | 7 => weather_changed (mkWeather (raining w) (PacketGameStateChange_game_mode p) (thunder_level w))
  | 8 => weather_changed (mkWeather (raining w) (rain_level w) (PacketGameStateChange_game_mode p))
  | _ => (None, s)
  end.

(** ** Decoded updates *)

(** [contains_key(k) || len() < cap]. *)
Definition has_room {K V} `{Countable K} (k : K) (cap : Z) (m : gmap K V) : bool :=
  bool_decide (is_Some (m !! k)) || (Z.of_nat (size m) <? cap).

Definition apply_cooldown (group : string) (ticks : Z) s : HudEvent * HudState :=
  let '(applied, s) :=
    if ticks <=? 0 then (bool_decide (is_Some (cooldowns s !! group)), set_cooldowns (delete group (cooldowns s)) s)
    else if has_room group MAX_COOLDOWNS (cooldowns s) then (true, set_cooldowns (<[group := ticks]> (cooldowns s)) s)
    else (false, s) in
  (CooldownChanged group (cooldowns s !! group) applied, s).

Definition apply_effect (effect : StatusEffect) s : HudEvent * HudState :=
  let id := eff_id effect in
  let '(applied, s) :=
    if id <? 0 then (false, s)
    else if has_room id MAX_EFFECTS (active_effects s) then (true, set_effects (<[id := effect]> (active_effects s)) s)
    else (false, s) in
  (EffectChanged id (active_effects s !! id) applied, s).

Definition remove_effect (effect_id : Z) s : HudEvent * HudState :=
  (EffectChanged effect_id None (bool_decide (is_Some (active_effects s !! effect_id))),
   set_effects (delete effect_id (active_effects s)) s).

(** The loop over the attributes of one packet. *)
Fixpoint apply_attributes (l : list Attribute_) (applied rejected : Z) s : Z * Z * HudState :=
  match l with
  | [] => (applied, rejected, s)
  | a :: l =>
      if has_room (att_key a) MAX_ATTRIBUTES (attributes s)
      then apply_attributes l (applied + 1) rejected (set_attributes (<[att_key a := a]> (attributes s)) s)
      else apply_attributes l applied (rejected + 1) s
  end.

(** [self.world_border.as_mut().is_some_and(|border| ...)] and the event. *)
Definition edit_border (action : WorldBorderAction) (f : WorldBorderState → WorldBorderState) s : HudEvent * HudState :=
  let border := f <$> world_border s in
  (WorldBorderChanged action border (bool_decide (is_Some (world_border s))), set_world_border border s).

(** [if Some(entity_id) != self.entity_id { return None; }]. *)
Definition for_self (entity : Z) (k : HudState → HudEvent * HudState) s : option HudEvent * HudState :=
  if bool_decide (Some entity = entity_id s) then let '(e, s) := k s in (Some e, s) else (None, s).

Definition always (p : HudEvent * HudState) : option HudEvent * HudState := (Some p.1, p.2).

Definition hud_apply (u : HudUpdate) s : option HudEvent * HudState :=
  match u with
  | UpAbilities a => (Some (AbilitiesChanged a), set_abilities a s)
  | UpCooldown group ticks => always (apply_cooldown group ticks s)
  | UpSetEffect entity effect => for_self entity (apply_effect effect) s
  | UpRemoveEffect entity effect => for_self entity (remove_effect effect) s
  | UpAttributes entity l =>
      for_self entity (λ s, let '(applied, rejected, s) := apply_attributes l 0 0 s in
                            (AttributesChanged applied rejected, s)) s
  | UpDeath player_id information =>
      for_self player_id (λ s, (HudDeath information, set_death (Some information) s)) s
  | UpInitializeBorder b => (Some (WorldBorderChanged BInitialize (Some b) true), set_world_border (Some b) s)
  | UpBorderCenter x z =>
      always (edit_border BCenter (λ b, mkBorder x z (old_diameter b) (new_diameter b) (lerp_millis b)
        (portal_teleport_boundary b) (warning_blocks b) (warning_time b)) s)
  | UpBorderLerp old new speed =>
      always (edit_border BLerpSize (λ b, mkBorder (center_x b) (center_z b) old new speed
        (portal_teleport_boundary b) (warning_blocks b) (warning_time b)) s)
  | UpBorderSize d =>
      always (edit_border BSize (λ b, mkBorder (center_x b) (center_z b) d d 0
        (portal_teleport_boundary b) (warning_blocks b) (warning_time b)) s)
  | UpBorderWarningTime t =>
      always (edit_border BWarningTime (λ b, mkBorder (center_x b) (center_z b) (old_diameter b) (new_diameter b)
        (lerp_millis b) (portal_teleport_boundary b) (warning_blocks b) t) s)
  | UpBorderWarningBlocks n =>
      always (edit_border BWarningBlocks (λ b, mkBorder (center_x b) (center_z b) (old_diameter b) (new_diameter b)
        (lerp_millis b) (portal_teleport_boundary b) n (warning_time b)) s)
  | UpDifficulty d => (Some (DifficultyChanged d), set_difficulty d s)
  | UpSpawnPosition p => (Some (SpawnPositionChanged p), set_spawn_position (Some p) s)
  end.

(** ** Every way the state changes *)

Inductive hud_op : Type :=
  | HLogin (p : PacketLogin)
  | HRespawn (p : PacketRespawn)
  | HHealth (p : PacketUpdateHealth)
  | HExperience (bar level total : Z)
  | HSelected (slot : Z)
  | HInventory (slot_id : Z) (contents : Slot)
  | HTime (p : PacketUpdateTime)
  | HGameState (p : PacketGameStateChange)
  | HUpdate (u : HudUpdate).

Definition hud_step (op : hud_op) s : option HudEvent * HudState :=
  match op with
  | HLogin p => (None, on_login p s)
  | HRespawn p => always (on_respawn p s)
  | HHealth p => always (on_health p s)
  | HExperience bar level total => always (on_experience bar level total s)
  | HSelected slot => always (on_selected_hotbar slot s)
  | HInventory slot_id contents => always (on_player_inventory slot_id contents s)
  | HTime p => always (on_time p s)
  | HGameState p => on_game_state p s
  | HUpdate u => hud_apply u s
  end.

(** ** Invariant *)

Record hud_ok s : Prop := {
  ok_selected : 0 ≤ selected_hotbar_slot s ≤ 8;
  ok_held : held_item s = default empty_slot (hotbar s !! selected_hotbar_slot s);
  ok_hotbar : ∀ i, is_Some (hotbar s !! i) → 0 ≤ i ≤ 8;
  ok_cooldowns : Z.of_nat (size (cooldowns s)) ≤ MAX_COOLDOWNS;
  ok_ticks : ∀ g t, cooldowns s !! g = Some t → 0 < t;
  ok_effects : Z.of_nat (size (active_effects s)) ≤ MAX_EFFECTS;
  ok_effect_ids : ∀ i e, active_effects s !! i = Some e → eff_id e = i ∧ 0 ≤ i;
  ok_attribute_keys : ∀ k a, attributes s !! k = Some a → att_key a = k;
  ok_modes : respawn_game_mode (respawn s) = game_mode s ∧ respawn_previous (respawn s) = previous_game_mode s;
  ok_respawns : in_u 64 (respawn_count (respawn s));
  ok_time : 0 ≤ day_time (time s) < 24000;
}.

Lemma has_room_insert {K V} `{Countable K} (k : K) (v : V) cap (m : gmap K V) :
  has_room k cap m = true → Z.of_nat (size m) ≤ cap → Z.of_nat (size (<[k := v]> m)) ≤ cap.
Proof.
  unfold has_room. intros Hr Hsz. apply orb_true_iff in Hr as [Hr|Hr%Z.ltb_lt].
  - apply bool_decide_eq_true in Hr as Hx. by rewrite map_size_insert_Some.
  - rewrite map_size_insert. destruct (m !! k); unfold id; lia.
Qed.

Lemma delete_size {K V} `{Countable K} (k : K) (m : gmap K V) : (size (delete k m) ≤ size m)%nat.
Proof. rewrite map_size_delete. destruct (m !! k); simpl; lia. Qed.

(** There are 22 attribute keys, so there is always room. *)
Lemma attributes_room (k : AttributeKey) (m : gmap AttributeKey Attribute_) : has_room k MAX_ATTRIBUTES m = true.
Proof.
  apply orb_true_iff. right. apply Z.ltb_lt. rewrite <- size_dom.
  assert (dom m ⊆ list_to_set (C:=gset AttributeKey) attribute_keys) as Hd.
  { intros j _. apply elem_of_list_to_set, attribute_keys_all. }
  apply subseteq_size in Hd.
  assert (size (list_to_set (C:=gset AttributeKey) attribute_keys) = 22%nat) as Hsz by (vm_compute; reflexivity).
  unfold MAX_ATTRIBUTES. lia.
Qed.

(** The attributes after a packet: later entries of a key win. *)
Lemma apply_attributes_eq l a r s :
  apply_attributes l a r s
  = (a + Z.of_nat (length l), r, set_attributes (foldl (λ m x, <[att_key x := x]> m) (attributes s) l) s).
Proof.
  revert a s. induction l as [|x l IH]; intros a s; simpl.
  - rewrite Z.add_0_r. by destruct s.
  - rewrite attributes_room, IH. simpl. f_equal. f_equal. lia.
Qed.

Lemma fold_attribute_keys (l : list Attribute_) (m : gmap AttributeKey Attribute_) :
  (∀ k a, m !! k = Some a → att_key a = k) →
  ∀ k a, foldl (λ m x, <[att_key x := x]> m) m l !! k = Some a → att_key a = k.
Proof.
  revert m. induction l as [|x l IH]; intros m Hm; simpl; [done|]. apply IH. intros k a.
  rewrite lookup_insert_Some. intros [[? ?]|[? ?]]; [congruence|by apply Hm].
Qed.

Lemma apply_spawn_info_ok spawn copy s : hud_ok s → hud_ok (apply_spawn_info spawn copy s).
Proof. intros []. by split. Qed.

#[local] Hint Resolve apply_spawn_info_ok : core.

Lemma hud_default_ok : hud_ok hud_default.
Proof. split; simpl; try done; try lia. by intros i [? ?]. Qed.

Lemma hotbar_insert_ok i contents s :
  hud_ok s → 0 ≤ i ≤ 8 →
  hud_ok (let s := set_hotbar (<[i := contents]> (hotbar s)) s in
          if i =? selected_hotbar_slot s then set_held_item contents s else s).
Proof.
  intros [] Hi. cbv zeta. change (selected_hotbar_slot (set_hotbar _ s)) with (selected_hotbar_slot s).
  assert (∀ j, is_Some (<[i := contents]> (hotbar s) !! j) → 0 ≤ j ≤ 8).
  { intros j. rewrite lookup_insert_is_Some. intros [->|[? ?]]; auto. }
  destruct (Z.eqb_spec i (selected_hotbar_slot s)) as [->|Hne]; split; simpl; try done.
  - by rewrite lookup_insert_eq.
  - by rewrite lookup_insert_ne.
Qed.

Lemma apply_cooldown_ok group ticks s : hud_ok s → hud_ok (apply_cooldown group ticks s).2.
Proof.
  intros []. unfold apply_cooldown. destruct (Z.leb_spec ticks 0); [|destruct (has_room _ _ _) eqn:Hr; [|done]].
  - split; simpl; try done.
    + pose proof (delete_size group (cooldowns s)). lia.
    + intros g t [_ ?]%lookup_delete_Some. eauto.
  - split; simpl; try done.
    + by apply has_room_insert.
    + intros g t. rewrite lookup_insert_Some. intros [[_ <-]|[_ ?]]; [lia|eauto].
Qed.

Lemma apply_effect_ok effect s : hud_ok s → hud_ok (apply_effect effect s).2.
Proof.
  intros []. unfold apply_effect. destruct (Z.ltb_spec (eff_id effect) 0); [done|]. destruct (has_room _ _ _) eqn:Hr; [|done].
  split; simpl; try done.
  - by apply has_room_insert.
  - intros i e. rewrite lookup_insert_Some. intros [[<- <-]|[_ ?]]; eauto.
Qed.

Lemma remove_effect_ok effect s : hud_ok s → hud_ok (remove_effect effect s).2.
Proof.
  intros []. split; simpl; try done.
  - pose proof (delete_size effect (active_effects s)). lia.
  - intros i e [_ ?]%lookup_delete_Some. eauto.
Qed.

Lemma edit_border_ok action f s : hud_ok s → hud_ok (edit_border action f s).2.
Proof. intros []. by split. Qed.

Lemma for_self_ok entity k s : hud_ok s → (∀ s, hud_ok s → hud_ok (k s).2) → hud_ok (for_self entity k s).2.
Proof. intros Hs Hk. unfold for_self. case_bool_decide; [|done]. specialize (Hk s Hs). by destruct (k s). Qed.

Lemma set_attributes_ok l s :
  hud_ok s → hud_ok (set_attributes (foldl (λ m x, <[att_key x := x]> m) (attributes s) l) s).
Proof. intros []. split; simpl; try done. by apply fold_attribute_keys. Qed.

Lemma hud_step_ok op s : hud_ok s → hud_ok (hud_step op s).2.
Proof.
  intros Hs. destruct op as [p|p|p|bar level total|slot|slot_id contents|p|p|u]; simpl.
  - apply apply_spawn_info_ok. destruct Hs. by split.
  - apply apply_spawn_info_ok. destruct Hs. split; simpl; try done.
    unfold saturating_add, in_u in *. lia.
  - destruct Hs. by split.
  - destruct Hs. by split.
  - destruct ((0 <=? slot) && (slot <=? 8)) eqn:Hslot; [|done]. apply andb_true_iff in Hslot as [?%Z.leb_le ?%Z.leb_le].
    destruct Hs. by split.
  - unfold on_player_inventory. destruct ((_ <=? slot_id) && _) eqn:Hslot; [|done].
    apply andb_true_iff in Hslot as [Hlo%Z.leb_le Hhi%Z.leb_le].
    unfold PLAYER_INVENTORY_HOTBAR_START, PLAYER_INVENTORY_HOTBAR_END in *. apply (hotbar_insert_ok (slot_id - 36)); [done|lia].
  - destruct Hs. split; try done. simpl. apply Z.mod_pos_bound. lia.
  - unfold on_game_state. destruct Hs. repeat case_match; split; simpl; naive_solver.
  - destruct u; simpl; eauto using apply_cooldown_ok, edit_border_ok, for_self_ok, apply_effect_ok, remove_effect_ok;
      try (destruct Hs; by split).
    + apply for_self_ok; [done|]. intros s' Hs'. rewrite apply_attributes_eq. by apply set_attributes_ok.
    + apply for_self_ok; [done|]. intros s' []. by split.
Qed.

(** Whatever the server sends, the state stays within its bounds and
    consistent: a valid hotbar slot is selected and the held item is that
    slot's, at most 1024 running cooldowns and 256 effects under their own
    ids, attributes under their own keys, a day time within the day, and the
    respawn record agreeing with the game mode. *)
Theorem hud_invariant ops : hud_ok (foldl (λ s op, (hud_step op s).2) hud_default ops).
Proof.
  assert (∀ s, hud_ok s → hud_ok (foldl (λ s op, (hud_step op s).2) s ops)) as Hgen; [|apply Hgen, hud_default_ok].
  induction ops as [|op ops IH]; intros s Hs; [done|]. by apply IH, hud_step_ok.
Qed.

(** ** Events *)

(** What an event says is what the state now holds. *)
Definition reports (e : HudEvent) s : Prop :=
  match e with
  | VitalsChanged v => v = vitals s
  | ExperienceChanged x => x = experience s
  | GameModeChanged m => m = game_mode s
  | AbilitiesChanged a => a = abilities s
  | HotbarChanged sel held _ => sel = selected_hotbar_slot s ∧ held = held_item s
  | CooldownChanged group remaining _ => remaining = cooldowns s !! group
  | EffectChanged id current _ => current = active_effects s !! id
  | AttributesChanged _ rejected => rejected = 0
  | HudDeath information => death s = Some information
  | Respawned r => r = respawn s
  | WorldBorderChanged _ current _ => current = world_border s
  | TimeChanged t => t = time s
  | WeatherChanged w => w = weather s
  | DifficultyChanged d => d = hud_difficulty s
  | SpawnPositionChanged p => spawn_position s = Some p
  | PlayerListChanged _ _ _ => False
  end.

(** The event says that nothing was applied. *)
Definition refused (e : HudEvent) : bool :=
  match e with
  | HotbarChanged _ _ applied | CooldownChanged _ _ applied | EffectChanged _ _ applied
  | WorldBorderChanged _ _ applied => negb applied
  | _ => false
  end.

(** The entity an update is about, when it is about one. *)
Definition addressee (op : hud_op) : option Z :=
  match op with
  | HUpdate (UpSetEffect entity _) | HUpdate (UpRemoveEffect entity _) | HUpdate (UpAttributes entity _)
  | HUpdate (UpDeath entity _) => Some entity
  | _ => None
  end.

Lemma always_event (p : HudEvent * HudState) : always p = (Some p.1, p.2).
Proof. done. Qed.

Lemma apply_cooldown_event group ticks s :
  let '(e, s') := apply_cooldown group ticks s in reports e s' ∧ (refused e = true → s' = s).
Proof.
  unfold apply_cooldown. destruct (ticks <=? 0); [|destruct (has_room _ _ _); by split].
  split; [done|]. simpl. intros Ha%negb_true_iff%bool_decide_eq_false. rewrite delete_id; [by destruct s|].
  by apply eq_None_not_Some.
Qed.

Lemma apply_effect_event effect s :
  let '(e, s') := apply_effect effect s in reports e s' ∧ (refused e = true → s' = s).
Proof. unfold apply_effect. destruct (_ <? 0); [by split|]. destruct (has_room _ _ _); by split. Qed.

Lemma remove_effect_event effect s :
  let '(e, s') := remove_effect effect s in reports e s' ∧ (refused e = true → s' = s).
Proof.
  simpl. rewrite lookup_delete_eq. split; [done|]. intros Ha%negb_true_iff%bool_decide_eq_false.
  rewrite delete_id; [by destruct s|]. by apply eq_None_not_Some.
Qed.

Lemma edit_border_event action f s :
  let '(e, s') := edit_border action f s in reports e s' ∧ (refused e = true → s' = s).
Proof.
  unfold edit_border. split; [done|]. simpl. intros Ha%negb_true_iff%bool_decide_eq_false.
  destruct s as [? ? ? ? ? ? ? ? ? ? ? ? ? ? ? [] ? ? ? ?]; simpl in *; [|done]. by destruct Ha.
Qed.

Lemma for_self_event entity k s :
  (let '(e, s') := k s in reports e s' ∧ (refused e = true → s' = s)) →
  let '(o, s') := for_self entity k s in
  match o with
  | Some e => (reports e s' ∧ (refused e = true → s' = s)) ∧ entity_id s = Some entity
  | None => s' = s ∧ entity_id s ≠ Some entity
  end.
Proof.
  unfold for_self. case_bool_decide as He; [|by split]. destruct (k s) as [e s']. by split.
Qed.

(** What a step owes its caller. *)
Definition truthful (op : hud_op) s (out : option HudEvent * HudState) : Prop :=
  match out.1 with
  | Some e => reports e out.2 ∧ (refused e = true → out.2 = s)
  | None => (∃ p, op = HLogin p) ∨ out.2 = s
  end
  ∧ ∀ entity, addressee op = Some entity → (is_Some out.1 ↔ entity_id s = Some entity).

Lemma truthful_always op s p :
  addressee op = None → (let '(e, s') := p in reports e s' ∧ (refused e = true → s' = s)) → truthful op s (always p).
Proof. intros Ha Hp. unfold truthful. rewrite Ha. destruct p as [e s']. by split. Qed.

Lemma truthful_for_self op entity k s :
  addressee op = Some entity → (let '(e, s') := k s in reports e s' ∧ (refused e = true → s' = s)) →
  truthful op s (for_self entity k s).
Proof.
  intros Ha Hk. unfold truthful. rewrite Ha. pose proof (for_self_event entity k s Hk) as Hf.
  destruct (for_self entity k s) as [[e|] s']; simpl; destruct Hf as [Hf He].
  - split; [done|]. intros x [= <-]. by split.
  - split; [by right|]. intros x [= <-]. split; [by intros []|done].
Qed.

(** C26. Every event tells the truth: it reports what the state now holds, an
    event marked as not applied means that nothing changed, an update about
    another entity is ignored without an event and without a change, and no
    attribute is ever rejected (the cap exceeds the number of keys). *)
Theorem hud_events_truthful op s : truthful op s (hud_step op s).
Proof.
  destruct op as [p|p|p|bar level total|slot|slot_id contents|p|p|u]; simpl.
  - split; [left; eauto|done].
  - by apply truthful_always.
  - by apply truthful_always.
  - by apply truthful_always.
  - apply truthful_always; [done|]. unfold on_selected_hotbar. destruct ((0 <=? slot) && (slot <=? 8)); by split.
  - apply truthful_always; [done|]. unfold on_player_inventory. destruct ((_ <=? slot_id) && _); [|by split].
    destruct (_ =? _); by split.
  - by apply truthful_always.
  - unfold truthful, on_game_state. split; [|done].
    destruct (PacketGameStateChange_reason p) as [|r|r]; [by right| |by right].
    do 4 (try destruct r as [r|r|]); simpl; done || by right.
  - destruct u; simpl; try (by apply truthful_always);
      try (apply truthful_always; [done|]; apply apply_cooldown_event || apply edit_border_event);
      try (apply truthful_for_self; [done|]; apply apply_effect_event || apply remove_effect_event);
      try (split; [split; done|done]).
    + apply truthful_for_self; [done|]. by rewrite apply_attributes_eq.
    + by apply truthful_for_self.
Qed.
End hud.
