(* ===== verification/HudWire.v ===== *)
(** * HUD packets

    [decode_update] of [src/minecraft/hud.rs] and its conversions, over the
    generated decoders: which packets belong to the HUD and what update each
    becomes. *)

From S2P Require Import Prelude Machine Reader Varint Utf8 Buffer Wire Nbt PacketTypes PlayPackets Text Hud.

Local Open Scope Z_scope.

Definition CLIENTBOUND_DIFFICULTY_ID : Z := 11.
Definition CLIENTBOUND_SET_COOLDOWN_ID : Z := 23.
Definition CLIENTBOUND_INITIALIZE_WORLD_BORDER_ID : Z := 38.
Definition CLIENTBOUND_ABILITIES_ID : Z := 58.
Definition CLIENTBOUND_DEATH_COMBAT_EVENT_ID : Z := 62.
Definition CLIENTBOUND_REMOVE_ENTITY_EFFECT_ID : Z := 72.
Definition CLIENTBOUND_WORLD_BORDER_CENTER_ID : Z := 82.
Definition CLIENTBOUND_WORLD_BORDER_LERP_SIZE_ID : Z := 83.
Definition CLIENTBOUND_WORLD_BORDER_SIZE_ID : Z := 84.
Definition CLIENTBOUND_WORLD_BORDER_WARNING_DELAY_ID : Z := 85.
Definition CLIENTBOUND_WORLD_BORDER_WARNING_REACH_ID : Z := 86.
Definition CLIENTBOUND_SPAWN_POSITION_ID : Z := 91.
Definition CLIENTBOUND_ENTITY_UPDATE_ATTRIBUTES_ID : Z := 124.
Definition CLIENTBOUND_ENTITY_EFFECT_ID : Z := 125.

Abbreviation WireKey := PacketEntityUpdateAttributesPropertiesItemKey.
Abbreviation WireAttribute := PacketEntityUpdateAttributesPropertiesItem.

Definition attribute_key (value : WireKey) : AttributeKey :=
  match value with
  | PacketEntityUpdateAttributesPropertiesItemKey_GenericArmor => Armor
  | PacketEntityUpdateAttributesPropertiesItemKey_GenericArmorToughness => ArmorToughness
  | PacketEntityUpdateAttributesPropertiesItemKey_GenericAttackDamage => AttackDamage
  | PacketEntityUpdateAttributesPropertiesItemKey_GenericAttackKnockback => AttackKnockback
  | PacketEntityUpdateAttributesPropertiesItemKey_GenericAttackSpeed => AttackSpeed
  | PacketEntityUpdateAttributesPropertiesItemKey_PlayerBlockBreakSpeed => BlockBreakSpeed
  | PacketEntityUpdateAttributesPropertiesItemKey_PlayerBlockInteractionRange => BlockInteractionRange
  | PacketEntityUpdateAttributesPropertiesItemKey_PlayerEntityInteractionRange => EntityInteractionRange
  | PacketEntityUpdateAttributesPropertiesItemKey_GenericFallDamageMultiplier => FallDamageMultiplier
  | PacketEntityUpdateAttributesPropertiesItemKey_GenericFlyingSpeed => FlyingSpeed
  | PacketEntityUpdateAttributesPropertiesItemKey_GenericFollowRange => FollowRange
  | PacketEntityUpdateAttributesPropertiesItemKey_GenericGravity => Gravity
  | PacketEntityUpdateAttributesPropertiesItemKey_GenericJumpStrength => JumpStrength
  | PacketEntityUpdateAttributesPropertiesItemKey_GenericKnockbackResistance => KnockbackResistance
  | PacketEntityUpdateAttributesPropertiesItemKey_GenericLuck => Luck
  | PacketEntityUpdateAttributesPropertiesItemKey_GenericMaxAbsorption => MaxAbsorption
  | PacketEntityUpdateAttributesPropertiesItemKey_GenericMaxHealth => MaxHealth
  | PacketEntityUpdateAttributesPropertiesItemKey_GenericMovementSpeed => MovementSpeed
  | PacketEntityUpdateAttributesPropertiesItemKey_GenericSafeFallDistance => SafeFallDistance
  | PacketEntityUpdateAttributesPropertiesItemKey_GenericScale => Scale
  | PacketEntityUpdateAttributesPropertiesItemKey_ZombieSpawnReinforcements => SpawnReinforcements
  | PacketEntityUpdateAttributesPropertiesItemKey_GenericStepHeight => StepHeight
  end.

Definition attribute (value : WireAttribute) : Attribute_ :=
  let wire_modifiers := PacketEntityUpdateAttributesPropertiesItem_modifiers value in
  mkAttribute (attribute_key (PacketEntityUpdateAttributesPropertiesItem_key value))
    (PacketEntityUpdateAttributesPropertiesItem_value value)
    (map (λ m, mkModifier (PacketEntityUpdateAttributesPropertiesItemModifiersItem_uuid m)
                 (PacketEntityUpdateAttributesPropertiesItemModifiersItem_amount m)
                 (attribute_operation_from (PacketEntityUpdateAttributesPropertiesItemModifiersItem_operation m)))
       (take (Z.to_nat MAX_ATTRIBUTE_MODIFIERS) wire_modifiers))
    (MAX_ATTRIBUTE_MODIFIERS <? Z.of_nat (length wire_modifiers)).

Section wire.
Context {J : Type}.
Abbreviation Up := (@HudUpdate J).

(** [let packet = P::decode(&mut input)?; update(packet)]. *)
Definition decode_as {P} (c : Codec P) (f : P → Up) : Read (option Up) :=
  let* packet := decode c in ret (Some (f packet)).

Definition abilities_update (p : PacketAbilities) : Up :=
  UpAbilities (mkAbilities (wrap 8 (PacketAbilities_flags p)) (PacketAbilities_flying_speed p) (PacketAbilities_walking_speed p)).
Definition cooldown_update (p : PacketSetCooldown) : Up :=
  UpCooldown (PacketSetCooldown_cooldown_group p) (PacketSetCooldown_cooldown_ticks p).
Definition effect_update (p : PacketEntityEffect) : Up :=
  UpSetEffect (PacketEntityEffect_entity_id p)
    (mkStatusEffect (PacketEntityEffect_effect_id p) (PacketEntityEffect_amplifier p) (PacketEntityEffect_duration p)
       (PacketEntityEffect_flags p)).
Definition remove_effect_update (p : PacketRemoveEntityEffect) : Up :=
  UpRemoveEffect (PacketRemoveEntityEffect_entity_id p) (PacketRemoveEntityEffect_effect_id p).
Definition attributes_update (p : PacketEntityUpdateAttributes) : Up :=
  UpAttributes (PacketEntityUpdateAttributes_entity_id p) (map attribute (PacketEntityUpdateAttributes_properties p)).
Definition death_update (p : PacketDeathCombatEvent) : Up :=
  UpDeath (PacketDeathCombatEvent_player_id p)
    (mkDeath (PacketDeathCombatEvent_player_id p) (from_nbt (PacketDeathCombatEvent_message p))).
Definition initialize_border_update (p : PacketInitializeWorldBorder) : Up :=
  UpInitializeBorder (mkBorder (PacketInitializeWorldBorder_x p) (PacketInitializeWorldBorder_z p)
    (PacketInitializeWorldBorder_old_diameter p) (PacketInitializeWorldBorder_new_diameter p)
    (PacketInitializeWorldBorder_speed p) (PacketInitializeWorldBorder_portal_teleport_boundary p)
    (PacketInitializeWorldBorder_warning_blocks p) (PacketInitializeWorldBorder_warning_time p)).
Definition border_center_update (p : PacketWorldBorderCenter) : Up :=
  UpBorderCenter (PacketWorldBorderCenter_x p) (PacketWorldBorderCenter_z p).
Definition border_lerp_update (p : PacketWorldBorderLerpSize) : Up :=
  UpBorderLerp (PacketWorldBorderLerpSize_old_diameter p) (PacketWorldBorderLerpSize_new_diameter p)
    (PacketWorldBorderLerpSize_speed p).
Definition border_size_update (p : PacketWorldBorderSize) : Up :=
  UpBorderSize (PacketWorldBorderSize_diameter p).
Definition border_delay_update (p : PacketWorldBorderWarningDelay) : Up :=
  UpBorderWarningTime (PacketWorldBorderWarningDelay_warning_time p).
Definition border_reach_update (p : PacketWorldBorderWarningReach) : Up :=
  UpBorderWarningBlocks (PacketWorldBorderWarningReach_warning_blocks p).
Definition difficulty_update (p : PacketDifficulty) : Up :=
  UpDifficulty (mkDifficulty (difficulty_from (PacketDifficulty_difficulty p)) (PacketDifficulty_difficulty_locked p)).
Definition spawn_position_update (p : PacketSpawnPosition) : Up :=
  UpSpawnPosition (mkSpawnPosition (block_position_from (PacketSpawnPosition_location p)) (PacketSpawnPosition_angle p)).

Definition hud_decode_update (id : Z) : Read (option Up) :=
  if id =? CLIENTBOUND_ABILITIES_ID then decode_as wire_PacketAbilities abilities_update
  else if id =? CLIENTBOUND_SET_COOLDOWN_ID then decode_as wire_PacketSetCooldown cooldown_update
  else if id =? CLIENTBOUND_ENTITY_EFFECT_ID then decode_as wire_PacketEntityEffect effect_update
  else if id =? CLIENTBOUND_REMOVE_ENTITY_EFFECT_ID then decode_as wire_PacketRemoveEntityEffect remove_effect_update
  else if id =? CLIENTBOUND_ENTITY_UPDATE_ATTRIBUTES_ID then decode_as wire_PacketEntityUpdateAttributes attributes_update
  else if id =? CLIENTBOUND_DEATH_COMBAT_EVENT_ID then decode_as wire_PacketDeathCombatEvent death_update
  else if id =? CLIENTBOUND_INITIALIZE_WORLD_BORDER_ID then
    decode_as wire_PacketInitializeWorldBorder initialize_border_update
  else if id =? CLIENTBOUND_WORLD_BORDER_CENTER_ID then decode_as wire_PacketWorldBorderCenter border_center_update
  else if id =? CLIENTBOUND_WORLD_BORDER_LERP_SIZE_ID then decode_as wire_PacketWorldBorderLerpSize border_lerp_update
  else if id =? CLIENTBOUND_WORLD_BORDER_SIZE_ID then decode_as wire_PacketWorldBorderSize border_size_update
  else if id =? CLIENTBOUND_WORLD_BORDER_WARNING_DELAY_ID then
    decode_as wire_PacketWorldBorderWarningDelay border_delay_update
  else if id =? CLIENTBOUND_WORLD_BORDER_WARNING_REACH_ID then
    decode_as wire_PacketWorldBorderWarningReach border_reach_update
  else if id =? CLIENTBOUND_DIFFICULTY_ID then decode_as wire_PacketDifficulty difficulty_update
  else if id =? CLIENTBOUND_SPAWN_POSITION_ID then decode_as wire_PacketSpawnPosition spawn_position_update
  else ret None.

(** ** What is decoded *)

(** A packet of the HUD: its id, the payloads the format can carry, their
    bytes, and the update the client makes of them. *)
Record hud_packet : Type := mkHudPacket {
  hp_id : Z;
  hp_payload : Type;
  hp_dom : hp_payload → Prop;
  hp_bytes : hp_payload → list byte;
  hp_update : hp_payload → Up;
}.
Arguments mkHudPacket hp_id {hp_payload} hp_dom hp_bytes hp_update.

Definition hud_packets : list hud_packet :=
  [mkHudPacket CLIENTBOUND_ABILITIES_ID dom_PacketAbilities bytes_PacketAbilities abilities_update;
   mkHudPacket CLIENTBOUND_SET_COOLDOWN_ID dom_PacketSetCooldown bytes_PacketSetCooldown cooldown_update;
   mkHudPacket CLIENTBOUND_ENTITY_EFFECT_ID dom_PacketEntityEffect bytes_PacketEntityEffect effect_update;
   mkHudPacket CLIENTBOUND_REMOVE_ENTITY_EFFECT_ID dom_PacketRemoveEntityEffect bytes_PacketRemoveEntityEffect remove_effect_update;
   mkHudPacket CLIENTBOUND_ENTITY_UPDATE_ATTRIBUTES_ID dom_PacketEntityUpdateAttributes bytes_PacketEntityUpdateAttributes attributes_update;
   mkHudPacket CLIENTBOUND_DEATH_COMBAT_EVENT_ID dom_PacketDeathCombatEvent bytes_PacketDeathCombatEvent death_update;
   mkHudPacket CLIENTBOUND_INITIALIZE_WORLD_BORDER_ID dom_PacketInitializeWorldBorder bytes_PacketInitializeWorldBorder initialize_border_update;
   mkHudPacket CLIENTBOUND_WORLD_BORDER_CENTER_ID dom_PacketWorldBorderCenter bytes_PacketWorldBorderCenter border_center_update;
   mkHudPacket CLIENTBOUND_WORLD_BORDER_LERP_SIZE_ID dom_PacketWorldBorderLerpSize bytes_PacketWorldBorderLerpSize border_lerp_update;
   mkHudPacket CLIENTBOUND_WORLD_BORDER_SIZE_ID dom_PacketWorldBorderSize bytes_PacketWorldBorderSize border_size_update;
   mkHudPacket CLIENTBOUND_WORLD_BORDER_WARNING_DELAY_ID dom_PacketWorldBorderWarningDelay bytes_PacketWorldBorderWarningDelay border_delay_update;
   mkHudPacket CLIENTBOUND_WORLD_BORDER_WARNING_REACH_ID dom_PacketWorldBorderWarningReach bytes_PacketWorldBorderWarningReach border_reach_update;
   mkHudPacket CLIENTBOUND_DIFFICULTY_ID dom_PacketDifficulty bytes_PacketDifficulty difficulty_update;
   mkHudPacket CLIENTBOUND_SPAWN_POSITION_ID dom_PacketSpawnPosition bytes_PacketSpawnPosition spawn_position_update].

Lemma decode_as_exact {P} (c : Codec P) dom enc (f : P → Up) p suf `{!LawfulCodec c dom enc} :
  dom p → decode_as c f (new_reader (enc p ++ suf)) = (Ok (Some (f p)), mkReader (enc p ++ suf) (length (enc p))).
Proof.
  intros Hp. unfold decode_as. by rewrite (bind_Ok _ _ _ _ _ (codec_reads (c := c) p Hp (new_reader (enc p ++ suf)) suf eq_refl)).
Qed.

(** The HUD decodes exactly its fourteen packets: a well-formed payload of
    one of them, whatever follows it, becomes the update of that packet, and
    every other packet id is left to the other components untouched. *)
Theorem hud_decode_exact :
  List.Forall (λ k, ∀ p suf, hp_dom k p →
    hud_decode_update (hp_id k) (new_reader (hp_bytes k p ++ suf))
    = (Ok (Some (hp_update k p)), mkReader (hp_bytes k p ++ suf) (length (hp_bytes k p)))) hud_packets
  ∧ ∀ id r, id ∉ map hp_id hud_packets → hud_decode_update id r = (Ok None, r).
Proof.
  split.
  - repeat (apply List.Forall_cons; [intros p suf Hp; refine (decode_as_exact _ _ _ _ p suf Hp)|]). apply List.Forall_nil.
  - intros id r Hid. unfold hud_decode_update.
    assert (∀ k, k ∈ map hp_id hud_packets → (id =? k) = false) as Hne by (intros k Hk; apply Z.eqb_neq; by intros ->).
    rewrite !Hne; [done|..]; apply (bool_decide_unpack _); vm_compute; reflexivity.
Qed.
End wire.
