(* ===== verification/Presentation.v ===== *)
(** * Presentation state

    [src/minecraft/presentation.rs]: chat history, action bar, titles,
    tab-list header and footer, boss bars and the disconnect reason, with the
    ordered event each update produces. *)

From S2P Require Import Prelude Machine Nbt Text.

Local Open Scope Z_scope.

Definition MAX_CHAT_HISTORY : nat := 512.
Definition MAX_BOSS_BARS : Z := 256.
Definition MAX_PREVIOUS_MESSAGES : Z := 64.
Definition MAX_FILTER_MASK_WORDS : Z := 512.
Definition MAX_CHAT_TYPE_PARAMETERS : Z := 16.

(** ** Data *)

Record TitleTiming : Type := mkTiming { fade_in : Z; stay : Z; fade_out : Z }.
Definition timing_default : TitleTiming := mkTiming 10 70 20.

Inductive BossBarColor : Type := Pink | BarBlue | BarRed | BarGreen | BarYellow | Purple | BarWhite | BarColorUnknown (v : Z).
Definition boss_bar_color_from (value : Z) : BossBarColor :=
  match value with
  | 0 => Pink | 1 => BarBlue | 2 => BarRed | 3 => BarGreen | 4 => BarYellow | 5 => Purple | 6 => BarWhite
  | other => BarColorUnknown other
  end.

Inductive BossBarOverlay : Type := OverlayProgress | Notched6 | Notched10 | Notched12 | Notched20 | OverlayUnknown (v : Z).
Definition boss_bar_overlay_from (value : Z) : BossBarOverlay :=
  match value with
  | 0 => OverlayProgress | 1 => Notched6 | 2 => Notched10 | 3 => Notched12 | 4 => Notched20
  | other => OverlayUnknown other
  end.

(** [BossBarFlags], its raw [u8]. *)
Definition darken_sky (raw : Z) : bool := negb (Z.land raw 1 =? 0).
Definition play_end_music (raw : Z) : bool := negb (Z.land raw 2 =? 0).
Definition create_world_fog (raw : Z) : bool := negb (Z.land raw 4 =? 0).

Inductive BossBarAction : Type :=
  | BarAdd | BarRemove | UpdateProgress | UpdateTitle | UpdateStyle | UpdateFlags | BarUnknown (v : Z).

Inductive ChatKind : Type := KindPlayer | KindDisguised | KindSystem.

Record PreviousMessage : Type := mkPreviousMessage { prev_id : Z; prev_signature : option (list byte) }.

Inductive ChatFilter : Type :=
  | PassThrough | FullyFiltered | PartiallyFiltered (mask : list Z) (truncated : bool) | FilterUnknown (v : Z).

Record SignedChatData : Type := mkSigned {
  sender_uuid : Z;
  signed_index : Z;
  signed_signature : option (list byte);
  plain_message : string;
  signed_timestamp : Z;
  signed_salt : Z;
  previous_messages : list PreviousMessage;
  previous_messages_truncated : bool;
  filter_ : ChatFilter;
}.

Inductive ChatTypeParameter : Type := ParamContent | ParamSender | ParamTarget.

Section presentation.
Context {J : Type}.
Abbreviation Text := (TextComponent J).

Record ChatDecoration : Type := mkDecoration {
  translation_key : string;
  parameters : list ChatTypeParameter;
  parameters_truncated : bool;
  dec_style : Style J;
}.

Record ChatDecorations : Type := mkDecorations { chat_decoration_ : ChatDecoration; narration : ChatDecoration }.

Inductive ChatTypeReference : Type := RegistryType (id : Z) | InlineType (types : ChatDecorations).

Record ChatMessage : Type := mkChat {
  sequence : Z;
  kind : ChatKind;
  chat_content : Text;
  chat_sender : option Text;
  chat_target : option Text;
  chat_type : option ChatTypeReference;
  chat_signed : option SignedChatData;
}.

(** [ChatMessage::display_text]. *)
Definition display_text (m : ChatMessage) : string :=
  let content := plain_text (chat_content m) in
  match plain_text <$> chat_sender m with
  | Some sender => if bool_decide (sender = "") then content else "<" ++ sender ++ "> " ++ content
  | None => content
  end%string.

Record BossBar : Type := mkBossBar {
  bar_id : Z;
  bar_title : Text;
  bar_progress : Z;
  bar_color : BossBarColor;
  bar_overlay : BossBarOverlay;
  bar_flags : Z;
}.

Record TitleState : Type := mkTitles { title : option Text; subtitle : option Text; timing : TitleTiming }.
Record TabListPresentation : Type := mkTabList { header : option Text; footer : option Text }.

Record PresentationState : Type := mkPresentation {
  chat : list ChatMessage;
  action_bar : option Text;
  titles : TitleState;
  tab_list : TabListPresentation;
  boss_bars : gmap Z BossBar;
  disconnect_reason : option Text;
  next_chat_sequence : Z;
}.
Implicit Types s : PresentationState.

Definition presentation_default : PresentationState :=
  mkPresentation [] None (mkTitles None None timing_default) (mkTabList None None) ∅ None 0.

Inductive BossBarUpdate : Type :=
  | BBAdd (bar : BossBar)
  | BBRemove (id : Z)
  | BBProgress (id progress : Z)
  | BBTitle (id : Z) (t : Text)
  | BBStyle (id : Z) (color : BossBarColor) (overlay : BossBarOverlay)
  | BBFlags (id flags : Z)
  | BBUnknown (id action : Z).

Definition update_id (u : BossBarUpdate) : Z :=
  match u with
  | BBAdd bar => bar_id bar
  | BBRemove id | BBProgress id _ | BBTitle id _ | BBStyle id _ _ | BBFlags id _ | BBUnknown id _ => id
  end.

Definition update_action (u : BossBarUpdate) : BossBarAction :=
  match u with
  | BBAdd _ => BarAdd
  | BBRemove _ => BarRemove
  | BBProgress _ _ => UpdateProgress
  | BBTitle _ _ => UpdateTitle
  | BBStyle _ _ _ => UpdateStyle
  | BBFlags _ _ => UpdateFlags
  | BBUnknown _ action => BarUnknown action
  end.

Inductive PresentationUpdate : Type :=
  | PUChat (m : ChatMessage)
  | PUActionBar (t : Text)
  | PUTitle (t : Text)
  | PUSubtitle (t : Text)
  | PUTitleTiming (t : TitleTiming)
  | PUClearTitles (reset : bool)
  | PUTabList (h f : Text)
  | PUBossBar (u : BossBarUpdate)
  | PUDisconnect (reason : Text).

Inductive PresentationEvent : Type :=
  | PresChat (m : ChatMessage)
  | ActionBarChanged (t : Text)
  | TitleChanged (t : Text)
  | SubtitleChanged (t : Text)
  | TitleTimingChanged (t : TitleTiming)
  | TitlesCleared (reset : bool)
  | TabListChanged (h f : Text)
  | BossBarChanged (id : Z) (action : BossBarAction) (current : option BossBar) (applied : bool)
  | PresDisconnected (reason : Text).

(** ** Operations *)

Definition set_chat c n s : PresentationState :=
  mkPresentation c (action_bar s) (titles s) (tab_list s) (boss_bars s) (disconnect_reason s) n.
Definition set_action_bar v s : PresentationState :=
  mkPresentation (chat s) v (titles s) (tab_list s) (boss_bars s) (disconnect_reason s) (next_chat_sequence s).
Definition set_titles v s : PresentationState :=
  mkPresentation (chat s) (action_bar s) v (tab_list s) (boss_bars s) (disconnect_reason s) (next_chat_sequence s).
Definition set_tab_list v s : PresentationState :=
  mkPresentation (chat s) (action_bar s) (titles s) v (boss_bars s) (disconnect_reason s) (next_chat_sequence s).
Definition set_boss_bars v s : PresentationState :=
  mkPresentation (chat s) (action_bar s) (titles s) (tab_list s) v (disconnect_reason s) (next_chat_sequence s).
Definition set_disconnect v s : PresentationState :=
  mkPresentation (chat s) (action_bar s) (titles s) (tab_list s) (boss_bars s) v (next_chat_sequence s).

Definition with_sequence (n : Z) (m : ChatMessage) : ChatMessage :=
  mkChat n (kind m) (chat_content m) (chat_sender m) (chat_target m) (chat_type m) (chat_signed m).

(** [get_mut(&id).map(|bar| ...).is_some()]. *)
Definition edit_bar (id : Z) (f : BossBar → BossBar) s : bool * PresentationState :=
  match boss_bars s !! id with
  | Some bar => (true, set_boss_bars (<[id := f bar]> (boss_bars s)) s)
  | None => (false, s)
  end.

Definition apply_boss_bar (u : BossBarUpdate) s : PresentationEvent * PresentationState :=
  let id := update_id u in
  let action := update_action u in
  let '(applied, s) :=
    match u with
    | BBAdd bar =>
        if bool_decide (is_Some (boss_bars s !! id)) || (Z.of_nat (size (boss_bars s)) <? MAX_BOSS_BARS)
        then (true, set_boss_bars (<[id := bar]> (boss_bars s)) s)
        else (false, s)
    | BBRemove _ => (bool_decide (is_Some (boss_bars s !! id)), set_boss_bars (delete id (boss_bars s)) s)
    | BBProgress _ progress =>
        edit_bar id (λ b, mkBossBar (bar_id b) (bar_title b) progress (bar_color b) (bar_overlay b) (bar_flags b)) s
    | BBTitle _ t =>
        edit_bar id (λ b, mkBossBar (bar_id b) t (bar_progress b) (bar_color b) (bar_overlay b) (bar_flags b)) s
    | BBStyle _ color overlay =>
        edit_bar id (λ b, mkBossBar (bar_id b) (bar_title b) (bar_progress b) color overlay (bar_flags b)) s
    | BBFlags _ flags =>
        edit_bar id (λ b, mkBossBar (bar_id b) (bar_title b) (bar_progress b) (bar_color b) (bar_overlay b) flags) s
    | BBUnknown _ _ => (false, s)
    end in
  (BossBarChanged id action (boss_bars s !! id) applied, s).

Definition presentation_apply (u : PresentationUpdate) s : PresentationEvent * PresentationState :=
  match u with
  | PUChat m =>
      let m := with_sequence (next_chat_sequence s) m in
      let history := if bool_decide (length (chat s) = MAX_CHAT_HISTORY) then tail (chat s) else chat s in
      (PresChat m, set_chat (push history m) (saturating_add 64 (next_chat_sequence s) 1) s)
  | PUActionBar t => (ActionBarChanged t, set_action_bar (Some t) s)
  | PUTitle t => (TitleChanged t, set_titles (mkTitles (Some t) (subtitle (titles s)) (timing (titles s))) s)
  | PUSubtitle t => (SubtitleChanged t, set_titles (mkTitles (title (titles s)) (Some t) (timing (titles s))) s)
  | PUTitleTiming t => (TitleTimingChanged t, set_titles (mkTitles (title (titles s)) (subtitle (titles s)) t) s)
  | PUClearTitles reset =>
      (TitlesCleared reset,
       set_titles (mkTitles None None (if reset then timing_default else timing (titles s))) s)
  | PUTabList h f => (TabListChanged h f, set_tab_list (mkTabList (Some h) (Some f)) s)
  | PUBossBar u => apply_boss_bar u s
  | PUDisconnect reason => (PresDisconnected reason, set_disconnect (Some reason) s)
  end.

Definition presentation_run (us : list PresentationUpdate) : PresentationState :=
  foldl (λ s u, (presentation_apply u s).2) presentation_default us.

(** ** Chat history *)

(** The reference: every chat message received, numbered from 0. *)
Definition chats (us : list PresentationUpdate) : list ChatMessage :=
  omap (λ u, match u with PUChat m => Some m | _ => None end) us.
Definition chat_log (us : list PresentationUpdate) : list ChatMessage :=
  imap (λ i m, with_sequence (Z.of_nat i) m) (chats us).

Lemma last_n_snoc {A} n (l : list A) x :
  last_n (S n) (l ++ [x]) = (if bool_decide (length (last_n (S n) l) = S n) then tail (last_n (S n) l) else last_n (S n) l) ++ [x].
Proof.
  rewrite last_n_length. case_bool_decide as Hl; [apply last_n_snoc_full|apply last_n_snoc_room]; lia.
Qed.

(** The chat history is exactly the last 512 messages received, oldest
    first, each with its number in the session, and the next number is their
    count. *)
Theorem chat_history us :
  Z.of_nat (length (chats us)) < 2 ^ 64 →
  chat (presentation_run us) = last_n MAX_CHAT_HISTORY (chat_log us)
  ∧ next_chat_sequence (presentation_run us) = Z.of_nat (length (chats us)).
Proof.
  unfold presentation_run, chat_log. induction us as [|u us IH] using rev_ind; [done|].
  unfold chats. rewrite omap_app, length_app, foldl_app. fold (chats us). intros Hlen.
  destruct IH as [IHc IHn]; [lia|]. simpl. set (s := foldl _ _ us) in *.
  assert (∀ s', chat s' = chat s → next_chat_sequence s' = next_chat_sequence s →
    (omap (λ u, match u with PUChat m => Some m | _ => None end) [u] = []) →
    chat s' = last_n MAX_CHAT_HISTORY (imap (λ i m, with_sequence (Z.of_nat i) m)
      (chats us ++ omap (λ u, match u with PUChat m => Some m | _ => None end) [u]))
    ∧ next_chat_sequence s' = Z.of_nat (length (chats us) + length (omap (λ u, match u with PUChat m => Some m | _ => None end) [u]))) as Hother.
  { intros s' Hc Hn ->. rewrite app_nil_r. simpl. split; [congruence|rewrite Hn, IHn; lia]. }
  destruct u as [m|t|t|t|t|reset|h f|b|reason]; try (by apply Hother).
  - simpl. rewrite imap_app. simpl. unfold MAX_CHAT_HISTORY in *. rewrite last_n_snoc, <- IHc, IHn, Nat.add_0_r.
    split; [done|]. simpl in Hlen. unfold saturating_add. lia.
  - apply Hother; [|..|done]; simpl; unfold apply_boss_bar, edit_bar; repeat case_match; simplify_eq; done.
Qed.

(** ** Boss bars *)

Record presentation_ok s : Prop := {
  ok_chat : (length (chat s) ≤ MAX_CHAT_HISTORY)%nat;
  ok_bars : Z.of_nat (size (boss_bars s)) ≤ MAX_BOSS_BARS;
  ok_bar_ids : ∀ i bar, boss_bars s !! i = Some bar → bar_id bar = i;
}.

(** Facts [L] about the one edit in the goal. *)
Ltac use_edit L :=
  match goal with |- context [edit_bar ?i ?f ?s] => pose proof (L i f s); destruct (edit_bar i f s) end.

Lemma edit_bar_ok id f s :
  (∀ b, bar_id (f b) = bar_id b) → presentation_ok s → presentation_ok (edit_bar id f s).2.
Proof.
  intros Hf []. unfold edit_bar. destruct (boss_bars s !! id) as [bar|] eqn:Hb; [|done]. split; simpl; try done.
  - rewrite map_size_insert_Some by eauto. done.
  - intros i b. rewrite lookup_insert_Some. intros [[<- <-]|[_ ?]]; [rewrite Hf|]; eauto.
Qed.

Lemma apply_boss_bar_ok u s : presentation_ok s → presentation_ok (apply_boss_bar u s).2.
Proof.
  intros Hs. unfold apply_boss_bar.
  destruct u as [bar|id|id progress|id t|id color overlay|id flags|id action]; simpl; try done.
  3-6: use_edit edit_bar_ok; naive_solver.
  - destruct Hs. destruct (_ || _) eqn:Hroom; [|done]. split; simpl; try done.
    + apply orb_true_iff in Hroom as [Hin%bool_decide_eq_true|Hlt%Z.ltb_lt]; [by rewrite map_size_insert_Some|].
      rewrite map_size_insert. destruct (boss_bars s !! _); unfold id; lia.
    + intros i b. rewrite lookup_insert_Some. intros [[<- <-]|[_ ?]]; eauto.
  - destruct Hs. split; simpl; try done.
    + rewrite map_size_delete. destruct (boss_bars s !! id); simpl; lia.
    + intros i b [_ ?]%lookup_delete_Some. eauto.
Qed.

Lemma presentation_apply_ok u s : presentation_ok s → presentation_ok (presentation_apply u s).2.
Proof.
  intros Hs. destruct u; simpl; try (destruct Hs; by split); [|by apply apply_boss_bar_ok].
  destruct Hs. split; simpl; try done. unfold push. rewrite length_app. simpl. unfold MAX_CHAT_HISTORY in *.
  case_bool_decide as Hl; [|lia]. destruct (chat s); simpl in *; lia.
Qed.

(** Whatever updates arrive, the chat history and the boss bars stay within
    their bounds and every bar is kept under its own id. *)
Theorem presentation_bounded us : presentation_ok (presentation_run us).
Proof.
  unfold presentation_run.
  assert (∀ s, presentation_ok s → presentation_ok (foldl (λ s u, (presentation_apply u s).2) s us)) as Hgen.
  { induction us as [|u us IH]; intros s Hs; [done|]. by apply IH, presentation_apply_ok. }
  apply Hgen. split; simpl; [unfold MAX_CHAT_HISTORY; lia|done|done].
Qed.

Lemma edit_bar_outcome id f s :
  let '(applied, s') := edit_bar id f s in
  (applied = false → s' = s) ∧ (∀ j, j ≠ id → boss_bars s' !! j = boss_bars s !! j)
  ∧ chat s' = chat s ∧ titles s' = titles s.
Proof.
  unfold edit_bar. destruct (boss_bars s !! id); split_and!; try done. simpl. intros j Hj. by rewrite lookup_insert_ne.
Qed.

(** A boss bar update reports what it did: the event carries the bar as it
    now is, an update that is not applied (an unknown bar or action, or a
    full table) changes nothing, and no other bar, chat line or title is
    touched. *)
Theorem boss_bar_outcome u s :
  ∃ current applied s',
    apply_boss_bar u s = (BossBarChanged (update_id u) (update_action u) current applied, s')
    ∧ current = boss_bars s' !! update_id u
    ∧ (applied = false → s' = s)
    ∧ (∀ j, j ≠ update_id u → boss_bars s' !! j = boss_bars s !! j)
    ∧ chat s' = chat s ∧ titles s' = titles s.
Proof.
  unfold apply_boss_bar. destruct u as [bar|id|id progress|id t|id color overlay|id flags|id action]; simpl.
  3-6: use_edit edit_bar_outcome; eauto 10.
  - destruct (_ || _); do 3 eexists; (split; [done|]); split_and!; try done. simpl. intros j Hj. by rewrite lookup_insert_ne.
  - do 3 eexists. split; [done|]. split_and!; try done; simpl.
    + intros Hn%bool_decide_eq_false. rewrite delete_id; [by destruct s|]. by apply eq_None_not_Some.
    + intros j Hj. by rewrite lookup_delete_ne.
  - do 3 eexists. split; [done|]. done.
Qed.
End presentation.

Lemma chat_history_witness :
  let say t := PUChat (mkChat 0 KindSystem (literal t) None None None None : ChatMessage (J:=unit)) in
  let us := [say "a"; PUClearTitles true; say "b"] in
  Z.of_nat (length (chats us)) < 2 ^ 64
  ∧ chat (presentation_run us) = last_n MAX_CHAT_HISTORY (chat_log us)
  ∧ map sequence (chat (presentation_run us)) = [0; 1].
Proof.
  cbv zeta. split; [vm_compute; reflexivity|]. split; [|vm_compute; reflexivity].
  apply chat_history. vm_compute. reflexivity.
Defined.
