(* ===== verification/PresentationWire.v ===== *)
(** * Presentation packets

    [decode_update] of [src/minecraft/presentation.rs] and its conversions,
    over the generated decoders; the boss bar and player chat packets, whose
    fields depend on a discriminant, are here. *)

From S2P Require Import Prelude Machine Reader Varint Utf8 Buffer Wire Nbt PacketTypes PlayPackets Scoreboard ScoreboardWire Text Presentation.

Local Open Scope Z_scope.

Definition CLIENTBOUND_BOSS_BAR_ID : Z := 10.
Definition CLIENTBOUND_CLEAR_TITLES_ID : Z := 15.
Definition CLIENTBOUND_KICK_DISCONNECT_ID : Z := 29.
Definition CLIENTBOUND_PROFILELESS_CHAT_ID : Z := 30.
Definition CLIENTBOUND_PLAYER_CHAT_ID : Z := 59.
Definition CLIENTBOUND_ACTION_BAR_ID : Z := 81.
Definition CLIENTBOUND_SET_TITLE_SUBTITLE_ID : Z := 106.
Definition CLIENTBOUND_SET_TITLE_TEXT_ID : Z := 108.
Definition CLIENTBOUND_SET_TITLE_TIME_ID : Z := 109.
Definition CLIENTBOUND_SYSTEM_CHAT_ID : Z := 115.
Definition CLIENTBOUND_PLAYERLIST_HEADER_ID : Z := 116.

(** ** Generated packets with discriminated fields *)

Record PacketBossBar : Type := mkPBB {
  pbb_entity_uuid : Z;
  pbb_action : Z;
  pbb_title : switch Nbt;
  pbb_health : switch Z;
  pbb_color : switch Z;
  pbb_dividers : switch Z;
  pbb_flags : switch Z;
}.

Definition decode_boss_bar : Read PacketBossBar :=
  let* entity_uuid := decode wire_u128 in
  let* action := read_varint in
  let* title := decode_from [0; 3] nbt_decode action in
  let* health := decode_from [0; 2] get_f32 action in
  let* color := decode_from [0; 4] read_varint action in
  let* dividers := decode_from [0; 4] read_varint action in
  let* flags := decode_from [0; 5] get_u8 action in
  ret (mkPBB entity_uuid action title health color dividers flags).

Record PreviousMessagesItem : Type := mkPMI { pmi_id : Z; pmi_signature : switch (list byte) }.

Definition decode_previous_message : Read PreviousMessagesItem :=
  let* id := read_varint in
  let* signature := decode_from [0] (read_bytes 256) id in
  ret (mkPMI id signature).

Record PacketPlayerChat : Type := mkPPC {
  ppc_sender_uuid : Z;
  ppc_index : Z;
  ppc_signature : option (list byte);
  ppc_plain_message : string;
  ppc_timestamp : Z;
  ppc_salt : Z;
  ppc_previous_messages : list PreviousMessagesItem;
  ppc_unsigned_chat_content : option Nbt;
  ppc_filter_type : Z;
  ppc_filter_type_mask : switch (list Z);
  ppc_type : Holder ChatTypes;
  ppc_network_name : Nbt;
  ppc_network_target_name : option Nbt;
}.

Definition decode_player_chat : Read PacketPlayerChat :=
  let* sender_uuid := decode wire_u128 in
  let* index := read_varint in
  let* signed := get_bool in
  let* signature := if signed then (let* v := read_bytes 256 in ret (Some v)) else ret None in
  let* plain_message := decode wire_String in
  let* timestamp := get_i64 in
  let* salt := get_i64 in
  let* previous_messages := read_array decode_previous_message in
  let* unsigned_chat_content := decode (wire_Option wire_Nbt) in
  let* filter_type := read_varint in
  let* filter_type_mask := decode_from [2] (read_array get_i64) filter_type in
  let* type := decode (wire_Holder wire_ChatTypes) in
  let* network_name := decode wire_Nbt in
  let* network_target_name := decode (wire_Option wire_Nbt) in
  ret (mkPPC sender_uuid index signature plain_message timestamp salt previous_messages unsigned_chat_content
         filter_type filter_type_mask type network_name network_target_name).

(** ** Conversions *)

Section wire.
Context {J : Type}.
Abbreviation Update := (@PresentationUpdate J).

Definition chat_parameter (p : ChatTypeParameterType) : ChatTypeParameter :=
  match p with
  | ChatTypeParameterType_Content => ParamContent
  | ChatTypeParameterType_Sender => ParamSender
  | ChatTypeParameterType_Target => ParamTarget
  end.

Definition chat_decoration (d : ChatType) : @ChatDecoration J :=
  mkDecoration (ChatType_translation_key d)
    (map chat_parameter (take (Z.to_nat MAX_CHAT_TYPE_PARAMETERS) (ChatType_parameters d)))
    (MAX_CHAT_TYPE_PARAMETERS <? Z.of_nat (length (ChatType_parameters d)))
    (style_of (from_nbt (ChatType_style d))).

Definition chat_decorations (t : ChatTypes) : @ChatDecorations J :=
  mkDecorations (chat_decoration (ChatTypes_chat t)) (chat_decoration (ChatTypes_narration t)).

Definition chat_type_reference (h : Holder ChatTypes) : @ChatTypeReference J :=
  match h with
  | Reference id => RegistryType id
  | Inline types => InlineType (chat_decorations types)
  end.

Definition player_chat_filter (filter_type : Z) (mask : switch (list Z)) : ChatFilter :=
  match filter_type, mask with
  | 0, _ => PassThrough
  | 1, _ => FullyFiltered
  | 2, V 2 mask =>
      PartiallyFiltered (take (Z.to_nat MAX_FILTER_MASK_WORDS) mask)
        (MAX_FILTER_MASK_WORDS <? Z.of_nat (length mask))
  | other, _ => FilterUnknown other
  end.

Definition player_chat (p : PacketPlayerChat) : @ChatMessage J :=
  mkChat 0 KindPlayer
    (match ppc_unsigned_chat_content p with
     | Some v => from_nbt v
     | None => literal (ppc_plain_message p)
     end)
    (Some (from_nbt (ppc_network_name p)))
    (from_nbt <$> ppc_network_target_name p)
    (Some (chat_type_reference (ppc_type p)))
    (Some (mkSigned (ppc_sender_uuid p) (ppc_index p) (ppc_signature p) (ppc_plain_message p) (ppc_timestamp p) (ppc_salt p)
       (map (λ m, mkPreviousMessage (pmi_id m) (switch_value (pmi_signature m)))
          (take (Z.to_nat MAX_PREVIOUS_MESSAGES) (ppc_previous_messages p)))
       (MAX_PREVIOUS_MESSAGES <? Z.of_nat (length (ppc_previous_messages p)))
       (player_chat_filter (ppc_filter_type p) (ppc_filter_type_mask p)))).

Definition boss_title (v : switch Nbt) : option (TextComponent J) := from_nbt <$> switch_value v.
Definition boss_progress (v : switch Z) : option Z := switch_value v.
Definition boss_color (v : switch Z) : option BossBarColor := boss_bar_color_from <$> switch_value v.
Definition boss_overlay (v : switch Z) : option BossBarOverlay := boss_bar_overlay_from <$> switch_value v.
Definition boss_flags (v : switch Z) : option Z := switch_value v.

Definition boss_bar_update (p : PacketBossBar) : @BossBarUpdate J :=
  let id := pbb_entity_uuid p in
  let unknown := BBUnknown id (pbb_action p) in
  match pbb_action p with
  | 0 =>
      BBAdd (mkBossBar id (default text_default (boss_title (pbb_title p))) (default 0 (boss_progress (pbb_health p)))
               (default (BarColorUnknown (-1)) (boss_color (pbb_color p)))
               (default (OverlayUnknown (-1)) (boss_overlay (pbb_dividers p))) (default 0 (boss_flags (pbb_flags p))))
  | 1 => BBRemove id
  | 2 => match boss_progress (pbb_health p) with Some progress => BBProgress id progress | None => unknown end
  | 3 => match boss_title (pbb_title p) with Some t => BBTitle id t | None => unknown end
  | 4 =>
      match boss_color (pbb_color p), boss_overlay (pbb_dividers p) with
      | Some color, Some overlay => BBStyle id color overlay
      | _, _ => unknown
      end
  | 5 => match boss_flags (pbb_flags p) with Some flags => BBFlags id flags | None => unknown end
  | action => BBUnknown id action
  end.

Definition system_chat_update (p : PacketSystemChat) : Update :=
  let content := from_nbt (PacketSystemChat_content p) in
  if PacketSystemChat_is_action_bar p then PUActionBar content
  else PUChat (mkChat 0 KindSystem content None None None None).

Definition profileless_chat_update (p : PacketProfilelessChat) : Update :=
  PUChat (mkChat 0 KindDisguised (from_nbt (PacketProfilelessChat_message p))
    (Some (from_nbt (PacketProfilelessChat_name p))) (from_nbt <$> PacketProfilelessChat_target p)
    (Some (chat_type_reference (PacketProfilelessChat_type p))) None).

Definition title_timing_update (p : PacketSetTitleTime) : Update :=
  PUTitleTiming (mkTiming (PacketSetTitleTime_fade_in p) (PacketSetTitleTime_stay p) (PacketSetTitleTime_fade_out p)).

Definition tab_list_update (p : PacketPlayerlistHeader) : Update :=
  PUTabList (from_nbt (PacketPlayerlistHeader_header p)) (from_nbt (PacketPlayerlistHeader_footer p)).

(** [let packet = P::decode(&mut input)?; update(packet)]. *)
Definition read_update {P} (m : Read P) (f : P → Update) : Read (option Update) :=
  let* packet := m in ret (Some (f packet)).

Definition presentation_decode_update (id : Z) : Read (option Update) :=
  if id =? CLIENTBOUND_SYSTEM_CHAT_ID then read_update (decode wire_PacketSystemChat) system_chat_update
  else if id =? CLIENTBOUND_PLAYER_CHAT_ID then read_update decode_player_chat (λ p, PUChat (player_chat p))
  else if id =? CLIENTBOUND_PROFILELESS_CHAT_ID then
    read_update (decode wire_PacketProfilelessChat) profileless_chat_update
  else if id =? CLIENTBOUND_ACTION_BAR_ID then
    read_update (decode wire_PacketActionBar) (λ p, PUActionBar (from_nbt (PacketActionBar_text p)))
  else if id =? CLIENTBOUND_SET_TITLE_TEXT_ID then
    read_update (decode wire_PacketSetTitleText) (λ p, PUTitle (from_nbt (PacketSetTitleText_text p)))
  else if id =? CLIENTBOUND_SET_TITLE_SUBTITLE_ID then
    read_update (decode wire_PacketSetTitleSubtitle) (λ p, PUSubtitle (from_nbt (PacketSetTitleSubtitle_text p)))
  else if id =? CLIENTBOUND_SET_TITLE_TIME_ID then read_update (decode wire_PacketSetTitleTime) title_timing_update
  else if id =? CLIENTBOUND_CLEAR_TITLES_ID then
    read_update (decode wire_PacketClearTitles) (λ p, PUClearTitles (PacketClearTitles_reset p))
  else if id =? CLIENTBOUND_PLAYERLIST_HEADER_ID then read_update (decode wire_PacketPlayerlistHeader) tab_list_update
  else if id =? CLIENTBOUND_BOSS_BAR_ID then read_update decode_boss_bar (λ p, PUBossBar (boss_bar_update p))
  else if id =? CLIENTBOUND_KICK_DISCONNECT_ID then
    read_update (decode wire_PacketKickDisconnect) (λ p, PUDisconnect (from_nbt (PacketKickDisconnect_reason p)))
  else ret None.
End wire.

(** ** What is decoded *)

Lemma decode_boss_bar_switches r p r' :
  decode_boss_bar r = (Ok p, r') →
  (pbb_action p ∈ [0; 3] → is_Some (switch_value (pbb_title p)))
  ∧ (pbb_action p ∈ [0; 2] → is_Some (switch_value (pbb_health p)))
  ∧ (pbb_action p ∈ [0; 4] → is_Some (switch_value (pbb_color p)) ∧ is_Some (switch_value (pbb_dividers p)))
  ∧ (pbb_action p ∈ [0; 5] → is_Some (switch_value (pbb_flags p))).
Proof.
  unfold decode_boss_bar. intros H. reads_ok H. simpl.
  repeat match goal with H : decode_from _ _ _ _ = _ |- _ => apply decode_from_inv in H end.
  split_and!; intros Hm; split_and?; tauto.
Qed.

(** A decoded boss bar update says what the packet says: the fallbacks for
    missing fields are never used. *)
Lemma boss_bar_update_known {J} r p r' :
  decode_boss_bar r = (Ok p, r') →
  match boss_bar_update (J:=J) p with
  | BBUnknown _ action => ¬ 0 ≤ action ≤ 5
  | BBAdd bar =>
      Some (bar_title bar) = boss_title (pbb_title p) ∧ Some (bar_progress bar) = boss_progress (pbb_health p)
      ∧ Some (bar_color bar) = boss_color (pbb_color p) ∧ Some (bar_overlay bar) = boss_overlay (pbb_dividers p)
      ∧ Some (bar_flags bar) = boss_flags (pbb_flags p)
  | _ => True
  end.
Proof.
  intros (Ht & Hh & Hc & Hf)%decode_boss_bar_switches. unfold boss_bar_update, boss_title, boss_progress, boss_color, boss_overlay, boss_flags.
  destruct (pbb_action p) as [|q|q]; [| |intros H; lia].
  - destruct Ht as [? ->]; [set_solver|]. destruct Hh as [? ->]; [set_solver|]. destruct Hc as [[? ->] [? ->]]; [set_solver|].
    by destruct Hf as [? ->]; [set_solver|].
  - do 3 (try destruct q as [q|q|]); try (intros H; lia); try done.
    + by destruct Hf as [? ->]; [set_solver|].
    + by destruct Ht as [? ->]; [set_solver|].
    + by destruct Hc as [[? ->] [? ->]]; [set_solver|].
    + by destruct Hh as [? ->]; [set_solver|].
Qed.

(** What a chat message may hold. *)
Definition decoration_bounded {J} (d : @ChatDecoration J) : Prop :=
  Z.of_nat (length (parameters d)) ≤ MAX_CHAT_TYPE_PARAMETERS.
Definition chat_bounded {J} (m : @ChatMessage J) : Prop :=
  match chat_type m with
  | Some (InlineType t) => decoration_bounded (chat_decoration_ t) ∧ decoration_bounded (narration t)
  | _ => True
  end
  ∧ match chat_signed m with
    | Some d => Z.of_nat (length (previous_messages d)) ≤ MAX_PREVIOUS_MESSAGES
        ∧ match filter_ d with PartiallyFiltered mask _ => Z.of_nat (length mask) ≤ MAX_FILTER_MASK_WORDS | _ => True end
    | None => True
    end.

Lemma take_bounded {A} (l : list A) n : 0 ≤ n → Z.of_nat (length (take (Z.to_nat n) l)) ≤ n.
Proof. intros Hn. rewrite length_take. lia. Qed.

Lemma chat_decoration_bounded {J} d : decoration_bounded (chat_decoration (J:=J) d).
Proof. unfold decoration_bounded. simpl. rewrite length_map. by apply take_bounded. Qed.

Lemma chat_type_bounded {J} h :
  match chat_type_reference (J:=J) h with
  | InlineType t => decoration_bounded (chat_decoration_ t) ∧ decoration_bounded (narration t)
  | _ => True
  end.
Proof. destruct h; simpl; [done|]. split; apply chat_decoration_bounded. Qed.

Lemma player_chat_bounded {J} p : chat_bounded (player_chat (J:=J) p).
Proof.
  split; [apply chat_type_bounded|]. simpl. split; [rewrite length_map; by apply take_bounded|].
  unfold player_chat_filter. repeat case_match; simplify_eq; try done. by apply take_bounded.
Qed.

Lemma read_update_inv {J P} (m : Read P) (f : P → @PresentationUpdate J) r u r' :
  read_update m f r = (Ok (Some u), r') → ∃ p, m r = (Ok p, r') ∧ u = f p.
Proof. unfold read_update. intros (p & r1 & Hp & H)%bind_Ok_inv. unfold ret in H. simplify_eq. eauto. Qed.

(** What the presentation decoder hands on is bounded and exact on any
    input: a chat message keeps at most 64 previous messages, 512 mask words
    and 16 parameters per decoration, and a boss bar update is [Unknown] only
    for an action the protocol does not define. *)
Theorem presentation_decode_sound {J} id r (u : @PresentationUpdate J) r' :
  presentation_decode_update id r = (Ok (Some u), r') →
  match u with
  | PUChat m => chat_bounded m
  | PUBossBar (BBUnknown _ action) => ¬ 0 ≤ action ≤ 5
  | _ => True
  end.
Proof.
  unfold presentation_decode_update. intros H.
  repeat match type of H with
  | (if ?b then _ else _) _ = _ => destruct b
  end; try (apply read_update_inv in H as (p & Hp & ->)); try done.
  - unfold system_chat_update. by destruct (PacketSystemChat_is_action_bar p).
  - apply player_chat_bounded.
  - split; [|done]. apply (chat_type_bounded (PacketProfilelessChat_type p)).
  - pose proof (boss_bar_update_known (J:=J) r p r' Hp). by destruct (boss_bar_update p).
Qed.

Lemma presentation_decode_sound_witness :
  (presentation_decode_update (J:=unit) CLIENTBOUND_BOSS_BAR_ID (new_reader (be_bytes 16 5 ++ varint_bytes 9))).1
  = Ok (Some (PUBossBar (BBUnknown 5 9)))
  ∧ ¬ 0 ≤ 9 ≤ 5.
Proof.
  split; [vm_compute; reflexivity|].
  refine (presentation_decode_sound (J:=unit) CLIENTBOUND_BOSS_BAR_ID (new_reader (be_bytes 16 5 ++ varint_bytes 9))
    (PUBossBar (BBUnknown 5 9)) _ _). vm_compute. reflexivity.
Defined.
