(* ===== verification/Queue.v ===== *)
(** * Worker queues

    [src/lua/queue.rs]: the bounded FIFO, the three-lane priority queue, and
    the interface that hides which one is used.  Counters are [usize]/[u64]
    that count pushes and are kept unbounded. *)

From S2P Require Import Prelude.

Inductive Priority : Type := High | Coalescible | Low.

#[export] Instance Priority_eq_dec : EqDecision Priority.
Proof. solve_decision. Defined.

(** [trait QueueItem]. *)
Class QueueItem (E : Type) : Type := {
  priority : E → Priority;
  name : E → string;
}.

Record Envelope (E : Type) : Type := mkEnvelope {
  bot_id : Z;
  event : E;
  enqueued_at : Z;
  bot_seq : Z;
}.
Arguments mkEnvelope {E}.
Arguments bot_id {E}.
Arguments event {E}.
Arguments enqueued_at {E}.
Arguments bot_seq {E}.

Inductive PushOutcome : Type :=
  | Accepted | DroppedOldest | DroppedNewest | Coalesced | CriticalOverflow | QueueClosed.

#[export] Instance PushOutcome_eq_dec : EqDecision PushOutcome.
Proof. solve_decision. Defined.

Inductive OverflowPolicy : Type := DropOldest | DropNewest.

Record QueueStats : Type := mkStats {
  st_peak_depth : nat;
  st_dropped : nat;
  st_coalesced : nat;
  st_accepted : nat;
}.

Definition stats_default : QueueStats := mkStats 0 0 0 0.
Definition bump_dropped s := mkStats (st_peak_depth s) (S (st_dropped s)) (st_coalesced s) (st_accepted s).
Definition bump_coalesced s := mkStats (st_peak_depth s) (st_dropped s) (S (st_coalesced s)) (st_accepted s).
Definition bump_accepted s := mkStats (st_peak_depth s) (st_dropped s) (st_coalesced s) (S (st_accepted s)).
Definition bump_peak d s := mkStats (st_peak_depth s `max` d) (st_dropped s) (st_coalesced s) (st_accepted s).

(** ** FifoQueue *)

Record FifoQueue (E : Type) : Type := mkFifo {
  f_capacity : nat;
  f_policy : OverflowPolicy;
  f_items : list (Envelope E);
  f_stats : QueueStats;
}.
Arguments mkFifo {E}.
Arguments f_capacity {E}.
Arguments f_policy {E}.
Arguments f_items {E}.
Arguments f_stats {E}.

Section fifo.
Context {E : Type}.
Implicit Types q : FifoQueue E.

Definition fifo_new (capacity : nat) (policy : OverflowPolicy) : FifoQueue E :=
  mkFifo capacity policy [] stats_default.

Definition fifo_push (e : Envelope E) q : PushOutcome * FifoQueue E :=
  if decide (f_capacity q ≤ length (f_items q)) then
    match f_policy q with
    | DropOldest =>
        let items := push (tail (f_items q)) e in
        (DroppedOldest, mkFifo (f_capacity q) (f_policy q) items (bump_peak (length items) (bump_dropped (f_stats q))))
    | DropNewest =>
        (DroppedNewest, mkFifo (f_capacity q) (f_policy q) (f_items q) (bump_dropped (f_stats q)))
    end
  else
    let items := push (f_items q) e in
    (Accepted, mkFifo (f_capacity q) (f_policy q) items (bump_peak (length items) (bump_accepted (f_stats q)))).

Definition fifo_pop q : option (Envelope E) * FifoQueue E :=
  (head (f_items q), mkFifo (f_capacity q) (f_policy q) (tail (f_items q)) (f_stats q)).

Definition fifo_drain q : list (Envelope E) * FifoQueue E :=
  (f_items q, mkFifo (f_capacity q) (f_policy q) [] (f_stats q)).

Definition fifo_depth q : nat := length (f_items q).
End fifo.

(** ** PriorityQueue *)

Record PriorityQueue (E : Type) : Type := mkPQ {
  high : list (Envelope E);
  high_capacity : nat;
  coalesced : gmap (Z * string) (Envelope E);
  coalesce_order : list (Z * string);
  low : list (Envelope E);
  low_capacity : nat;
  stats_high : QueueStats;
  stats_coalesced : QueueStats;
  stats_low : QueueStats;
}.
Arguments mkPQ {E}.
Arguments high {E}.
Arguments high_capacity {E}.
Arguments coalesced {E}.
Arguments coalesce_order {E}.
Arguments low {E}.
Arguments low_capacity {E}.
Arguments stats_high {E}.
Arguments stats_coalesced {E}.
Arguments stats_low {E}.

Section priority.
Context {E : Type} `{QueueItem E}.
Implicit Types q : PriorityQueue E.

Definition pq_new (hc lc : nat) : PriorityQueue E :=
  mkPQ [] hc ∅ [] [] lc stats_default stats_default stats_default.

(** [(envelope.bot_id, envelope.event.name())]. *)
Definition key_of (e : Envelope E) : Z * string := (bot_id e, name (event e)).

Definition pq_push (e : Envelope E) q : PushOutcome * PriorityQueue E :=
  match priority (event e) with
  | High =>
      if decide (high_capacity q ≤ length (high q)) then
        (CriticalOverflow,
         mkPQ (high q) (high_capacity q) (coalesced q) (coalesce_order q) (low q) (low_capacity q)
           (bump_dropped (stats_high q)) (stats_coalesced q) (stats_low q))
      else
        let h := push (high q) e in
        (Accepted,
         mkPQ h (high_capacity q) (coalesced q) (coalesce_order q) (low q) (low_capacity q)
           (bump_peak (length h) (bump_accepted (stats_high q))) (stats_coalesced q) (stats_low q))
  | Coalescible =>
      let key := key_of e in
      let replaced := bool_decide (is_Some (coalesced q !! key)) in
      let m := <[key := e]> (coalesced q) in
      let order := if replaced then coalesce_order q else push (coalesce_order q) key in
      let st := if replaced then bump_coalesced (stats_coalesced q) else bump_accepted (stats_coalesced q) in
      ((if replaced then Coalesced else Accepted),
       mkPQ (high q) (high_capacity q) m order (low q) (low_capacity q)
         (stats_high q) (bump_peak (size m) st) (stats_low q))
  | Low =>
      if decide (low_capacity q ≤ length (low q)) then
        let l := push (tail (low q)) e in
        (DroppedOldest,
         mkPQ (high q) (high_capacity q) (coalesced q) (coalesce_order q) l (low_capacity q)
           (stats_high q) (stats_coalesced q) (bump_peak (length l) (bump_dropped (stats_low q))))
      else
        let l := push (low q) e in
        (Accepted,
         mkPQ (high q) (high_capacity q) (coalesced q) (coalesce_order q) l (low_capacity q)
           (stats_high q) (stats_coalesced q) (bump_peak (length l) (bump_accepted (stats_low q))))
  end.

(** [while let Some(key) = self.coalesce_order.pop_front()]. *)
Fixpoint drain_coalesced (order : list (Z * string)) (m : gmap (Z * string) (Envelope E)) :
    list (Envelope E) * gmap (Z * string) (Envelope E) :=
  match order with
  | [] => ([], m)
  | key :: order =>
      let '(out, m') := drain_coalesced order (delete key m) in
      (option_list (m !! key) ++ out, m')
  end.

Definition pq_drain q : list (Envelope E) * PriorityQueue E :=
  let '(mid, m) := drain_coalesced (coalesce_order q) (coalesced q) in
  (high q ++ mid ++ low q,
   mkPQ [] (high_capacity q) m [] [] (low_capacity q) (stats_high q) (stats_coalesced q) (stats_low q)).

Definition pq_depth q : nat := (length (high q) + size (coalesced q) + length (low q))%nat.

Definition pq_stats q : QueueStats * QueueStats * QueueStats := (stats_high q, stats_coalesced q, stats_low q).
End priority.

(** ** QueueDesign *)

Inductive QueueDesign (E : Type) : Type :=
  | Fifo (q : FifoQueue E)
  | Prio (q : PriorityQueue E).
Arguments Fifo {E}.
Arguments Prio {E}.

Section design.
Context {E : Type} `{QueueItem E}.

Definition design_push (e : Envelope E) (d : QueueDesign E) : PushOutcome * QueueDesign E :=
  match d with
  | Fifo q => let '(o, q) := fifo_push e q in (o, Fifo q)
  | Prio q => let '(o, q) := pq_push e q in (o, Prio q)
  end.

Definition design_drain (d : QueueDesign E) : list (Envelope E) * QueueDesign E :=
  match d with
  | Fifo q => let '(l, q) := fifo_drain q in (l, Fifo q)
  | Prio q => let '(l, q) := pq_drain q in (l, Prio q)
  end.

Definition design_depth (d : QueueDesign E) : nat :=
  match d with Fifo q => fifo_depth q | Prio q => pq_depth q end.

Definition design_is_empty (d : QueueDesign E) : bool := bool_decide (design_depth d = 0).

Definition design_peak_depth (d : QueueDesign E) : nat :=
  match d with
  | Fifo q => st_peak_depth (f_stats q)
  | Prio q =>
      let '(h, c, l) := pq_stats q in (st_peak_depth h + st_peak_depth c + st_peak_depth l)%nat
  end.

Definition design_dropped (d : QueueDesign E) : nat :=
  match d with
  | Fifo q => st_dropped (f_stats q)
  | Prio q => let '(h, _, l) := pq_stats q in (st_dropped h + st_dropped l)%nat
  end.

Definition design_critical_overflow (d : QueueDesign E) : nat :=
  match d with Fifo _ => 0 | Prio q => st_dropped (stats_high q) end.
End design.

(** ** Specification of a drain *)

(** First occurrences, in order. *)
Fixpoint nub {A} `{EqDecision A} (l : list A) : list A :=
  match l with
  | [] => []
  | x :: l => x :: List.filter (λ y, bool_decide (y ≠ x)) (nub l)
  end.

Section spec.
Context {E : Type} `{QueueItem E}.
Implicit Types (es : list (Envelope E)) (q : PriorityQueue E).

Definition lane (p : Priority) es : list (Envelope E) :=
  List.filter (λ e, bool_decide (priority (event e) = p)) es.

Definition latest (k : Z * string) es : option (Envelope E) :=
  last (List.filter (λ e, bool_decide (key_of e = k)) (lane Coalescible es)).

(** What a queue that was sent [es] since it was last empty hands out: the
    first [hc] critical items, the latest value of each coalesced key in
    the order the keys appeared, the last [lc] low-priority items. *)
Definition drain_spec (hc lc : nat) es : list (Envelope E) :=
  take hc (lane High es)
  ++ omap (λ k, latest k es) (nub (map key_of (lane Coalescible es)))
  ++ last_n lc (lane Low es).

Definition push_all es q : PriorityQueue E := foldl (λ q e, (pq_push e q).2) q es.
End spec.

(** *** Interleaved use *)

Inductive QueueOp (E : Type) : Type :=
  | OpPush (e : Envelope E)
  | OpDrain.
Arguments OpPush {E}.
Arguments OpDrain {E}.

Section runs.
Context {E : Type} `{QueueItem E}.

(** The items handed out and the queue left by a sequence of operations. *)
Fixpoint run_queue (ops : list (QueueOp E)) (d : QueueDesign E) : list (Envelope E) * QueueDesign E :=
  match ops with
  | [] => ([], d)
  | OpPush e :: ops => run_queue ops (design_push e d).2
  | OpDrain :: ops =>
      let '(out, d) := design_drain d in
      let '(rest, d) := run_queue ops d in (out ++ rest, d)
  end.

Definition pushes (ops : list (QueueOp E)) : nat :=
  length (List.filter (λ o, match o with OpPush _ => true | OpDrain => false end) ops).

(** Replaced entries of the coalescing lane. *)
Definition design_replaced (d : QueueDesign E) : nat :=
  match d with Fifo _ => 0 | Prio q => st_coalesced (stats_coalesced q) end.

Definition queue_wf (d : QueueDesign E) : Prop :=
  match d with
  | Fifo q =>
      (0 < f_capacity q ∨ f_policy q = DropNewest)
      ∧ length (f_items q) ≤ f_capacity q
      ∧ length (f_items q) ≤ st_peak_depth (f_stats q)
  | Prio q =>
      0 < low_capacity q
      ∧ length (high q) ≤ high_capacity q
      ∧ length (low q) ≤ low_capacity q
      ∧ NoDup (coalesce_order q)
      ∧ dom (coalesced q) = list_to_set (coalesce_order q)
      ∧ length (high q) ≤ st_peak_depth (stats_high q)
      ∧ size (coalesced q) ≤ st_peak_depth (stats_coalesced q)
      ∧ length (low q) ≤ st_peak_depth (stats_low q)
  end.

Definition new_fifo (capacity : nat) (policy : OverflowPolicy) : QueueDesign E := Fifo (fifo_new capacity policy).
Definition new_priority (hc lc : nat) : QueueDesign E := Prio (pq_new hc lc).
End runs.

(** ** List lemmas *)

Section lists.
Context {A : Type}.

Lemma filter_snoc (p : A → bool) l x : List.filter p (l ++ [x]) = List.filter p l ++ (if p x then [x] else []).
Proof. rewrite List.filter_app. done. Qed.

Lemma take_snoc_full n (l : list A) x : n ≤ length l → take n (l ++ [x]) = take n l.
Proof. intros Hn. by rewrite take_app_le. Qed.

Lemma take_snoc_room n (l : list A) x : length l < n → take n (l ++ [x]) = take n l ++ [x].
Proof. intros Hn. rewrite !take_ge; rewrite ?length_app; simpl; (done || lia). Qed.

Lemma omap_ext_all {B} (f g : A → option B) (l : list A) : (∀ x, f x = g x) → omap f l = omap g l.
Proof. intros Hfg. induction l as [|x l IH]; csimpl; [done|]. by rewrite Hfg, IH. Qed.

Lemma length_omap_all {B} (f : A → option B) (l : list A) : (∀ x, x ∈ l → is_Some (f x)) → length (omap f l) = length l.
Proof.
  induction l as [|x l IH]; intros Hf; csimpl; [done|]. destruct (Hf x) as [y ->]; [left|]. simpl.
  rewrite IH; [done|]. intros z Hz. apply Hf. by right.
Qed.

Context `{EqDecision A}.

Lemma elem_of_nub (x : A) l : x ∈ nub l ↔ x ∈ l.
Proof.
  induction l as [|y l IH]; simpl; [done|]. rewrite !elem_of_cons, list_elem_of_In, filter_In, <- list_elem_of_In, IH.
  rewrite bool_decide_eq_true. destruct (decide (x = y)); tauto.
Qed.

Lemma nub_snoc (l : list A) x : nub (l ++ [x]) = if bool_decide (x ∈ l) then nub l else nub l ++ [x].
Proof.
  induction l as [|y l IH]; simpl; [done|]. rewrite IH.
  destruct (decide (x = y)) as [->|Hxy].
  - rewrite (bool_decide_eq_true_2 (y ∈ y :: l)) by left. f_equal. case_bool_decide; [done|].
    rewrite filter_snoc. rewrite bool_decide_eq_false_2 by (intros Hn; by apply Hn). by rewrite app_nil_r.
  - rewrite (bool_decide_ext (x ∈ y :: l) (x ∈ l)) by (rewrite elem_of_cons; tauto).
    case_bool_decide; [done|]. rewrite filter_snoc. by rewrite bool_decide_eq_true_2.
Qed.

Lemma NoDup_nub (l : list A) : NoDup (nub l).
Proof.
  induction l as [|x l IH]; simpl; [constructor|]. apply NoDup_cons. split.
  - rewrite list_elem_of_In, filter_In, bool_decide_eq_true. by intros [_ Hne].
  - apply NoDup_ListNoDup, List.NoDup_filter. by apply NoDup_ListNoDup.
Qed.
End lists.

(** ** The state a sequence of pushes builds *)

Section refine.
Context {E : Type} `{QueueItem E}.
Implicit Types (e : Envelope E) (es : list (Envelope E)) (q : PriorityQueue E).

(** [q] is the queue that holds [es], sent to it since it was last empty. *)
Record represents (es : list (Envelope E)) (q : PriorityQueue E) : Prop := {
  rep_high : high q = take (high_capacity q) (lane High es);
  rep_order : coalesce_order q = nub (map key_of (lane Coalescible es));
  rep_coalesced : ∀ k, coalesced q !! k = latest k es;
  rep_low : low q = last_n (low_capacity q) (lane Low es);
}.

Lemma lane_snoc p es e :
  lane p (es ++ [e]) = if bool_decide (priority (event e) = p) then lane p es ++ [e] else lane p es.
Proof. unfold lane. rewrite filter_snoc. case_bool_decide; by rewrite ?app_nil_r. Qed.

Lemma latest_snoc k es e :
  latest k (es ++ [e]) =
    if bool_decide (priority (event e) = Coalescible ∧ key_of e = k) then Some e else latest k es.
Proof.
  unfold latest. rewrite lane_snoc. case_bool_decide as Hp; [rewrite filter_snoc|].
  - case_bool_decide as Hk; [by rewrite last_snoc, bool_decide_eq_true_2|].
    rewrite app_nil_r, bool_decide_eq_false_2; [done|tauto].
  - rewrite bool_decide_eq_false_2; [done|tauto].
Qed.

Lemma latest_None k es : latest k es = None ↔ k ∉ map key_of (lane Coalescible es).
Proof.
  unfold latest. rewrite last_None. rewrite list_elem_of_In, in_map_iff. split.
  - intros Hnil (e & <- & He). apply (in_nil (a := e)). rewrite <- Hnil. apply filter_In. by rewrite bool_decide_eq_true.
  - intros Hnot. apply elem_of_nil_inv. intros e. rewrite list_elem_of_In, filter_In, bool_decide_eq_true.
    intros [He Hk]. apply Hnot. by exists e.
Qed.

Lemma represents_new hc lc : represents [] (pq_new hc lc).
Proof. by split; simpl; rewrite ?take_nil. Qed.

Lemma represents_push es e q :
  0 < low_capacity q → represents es q → represents (es ++ [e]) (pq_push e q).2.
Proof.
  intros Hlc [Hh Ho Hc Hl]. unfold pq_push.
  destruct (priority (event e)) eqn:Hp.
  - case_decide as Hfull; split; simpl; unfold push;
      rewrite ?lane_snoc, ?Hp; simpl; try done; try (intros k; rewrite latest_snoc, Hp; simpl; apply Hc).
    + rewrite Hh in Hfull |- *. rewrite length_take in Hfull. rewrite take_snoc_full; [done|lia].
    + rewrite Hh in Hfull |- *. rewrite length_take in Hfull. rewrite take_snoc_room; [done|lia].
  - split; simpl; unfold push; rewrite ?lane_snoc, ?Hp; simpl; try done.
    + rewrite map_app. simpl. rewrite nub_snoc, Ho.
      rewrite (bool_decide_if_ext (is_Some (coalesced q !! key_of e)) (key_of e ∈ map key_of (lane Coalescible es))); [done|].
      rewrite Hc, <- not_eq_None_Some, latest_None.
      destruct (decide (key_of e ∈ map key_of (lane Coalescible es))); tauto.
    + intros k. rewrite latest_snoc, Hp. case_bool_decide as Hk.
      * destruct Hk as [_ <-]. by rewrite lookup_insert_eq.
      * rewrite lookup_insert_ne; [apply Hc|naive_solver].
  - case_decide as Hfull; split; simpl; unfold push;
      rewrite ?lane_snoc, ?Hp; simpl; try done; try (intros k; rewrite latest_snoc, Hp; simpl; apply Hc).
    + rewrite Hl in Hfull |- *. rewrite last_n_length in Hfull. rewrite last_n_snoc_full; [done|lia].
    + rewrite Hl in Hfull |- *. rewrite last_n_length in Hfull. rewrite last_n_snoc_room; [done|lia].
Qed.

Lemma pq_push_capacities e q :
  high_capacity (pq_push e q).2 = high_capacity q ∧ low_capacity (pq_push e q).2 = low_capacity q.
Proof. unfold pq_push. by repeat case_match. Qed.

Lemma push_all_represents es q :
  0 < low_capacity q → represents [] q →
  represents es (push_all es q)
  ∧ high_capacity (push_all es q) = high_capacity q
  ∧ low_capacity (push_all es q) = low_capacity q.
Proof.
  intros Hlc Hnil. induction es as [|e es IH] using rev_ind; [done|].
  unfold push_all in *. rewrite foldl_app. simpl. destruct IH as (Hr & Hh & Hl).
  destruct (pq_push_capacities e (foldl (λ q e, (pq_push e q).2) q es)) as [Hh' Hl'].
  split_and!; [|congruence..]. apply represents_push; [lia|done].
Qed.

Lemma drain_coalesced_omap (order : list (Z * string)) (m : gmap (Z * string) (Envelope E)) :
  NoDup order →
  (drain_coalesced order m).1 = omap (λ k, m !! k) order
  ∧ ∀ k, (drain_coalesced order m).2 !! k = if decide (k ∈ order) then None else m !! k.
Proof.
  intros Hnd. revert m. induction Hnd as [|k order Hk Hnd IH]; intros m; csimpl; [done|].
  destruct (IH (delete k m)) as [Hout Hm]. destruct (drain_coalesced order (delete k m)) as [out m'].
  simpl in *. split.
  - assert (omap (λ k', delete k m !! k') order = omap (λ k', m !! k') order) as Hrest.
    { clear -Hk. induction order as [|k' order IH]; csimpl; [done|]. apply not_elem_of_cons in Hk as [Hne Hk].
      by rewrite lookup_delete_ne, IH. }
    rewrite <- Hrest, Hout. by destruct (m !! k).
  - intros k'. rewrite Hm. destruct (decide (k' = k)) as [->|Hne].
    + rewrite lookup_delete_eq. rewrite (decide_True (P := k ∈ k :: order)) by left. by case_decide.
    + rewrite lookup_delete_ne by done. apply decide_ext. rewrite elem_of_cons. tauto.
Qed.
End refine.

(** ** Invariant and accounting *)

Section accounting.
Context {E : Type} `{QueueItem E}.
Implicit Types (e : Envelope E) (d : QueueDesign E) (q : PriorityQueue E).

Lemma coalesced_size q :
  NoDup (coalesce_order q) → dom (coalesced q) = list_to_set (coalesce_order q) →
  size (coalesced q) = length (coalesce_order q).
Proof. intros Hnd Hdom. rewrite <- size_dom, Hdom. by apply size_list_to_set. Qed.

Lemma length_push {A} (l : list A) x : length (push l x) = S (length l).
Proof. unfold push. rewrite length_app. simpl. lia. Qed.

Lemma length_tail_pred {A} (l : list A) : length (tail l) = length l - 1.
Proof. destruct l; simpl; lia. Qed.

Lemma fifo_push_wf e (q : FifoQueue E) : queue_wf (Fifo q) → queue_wf (Fifo (fifo_push e q).2).
Proof.
  intros (Hc & Hl & Hp). unfold fifo_push. case_decide as Hfull; [destruct (f_policy q) eqn:Hpol|]; simpl;
    rewrite ?Hpol, ?length_push, ?length_tail_pred; split_and!; (done || lia || (destruct Hc; [lia|congruence])).
Qed.

Lemma pq_push_wf e q : queue_wf (Prio q) → queue_wf (Prio (pq_push e q).2).
Proof.
  intros (Hlc & Hh & Hl & Hnd & Hdom & Ph & Pc & Pl). unfold pq_push. destruct (priority (event e)).
  - case_decide; simpl; rewrite ?length_push; split_and!; (done || lia).
  - simpl. split_and!; try done.
    + case_bool_decide as Hk; [done|]. apply NoDup_app. split_and!; [done| |apply NoDup_singleton].
      intros k Hin ->%list_elem_of_singleton. revert Hin.
      rewrite <- (elem_of_list_to_set (C := gset _)), <- Hdom. by rewrite elem_of_dom.
    + rewrite dom_insert_L. case_bool_decide as Hk; unfold push; rewrite ?list_to_set_app_L, Hdom; [|simpl; set_solver].
      rewrite <- Hdom. apply elem_of_dom in Hk. set_solver.
    + lia.
  - case_decide; simpl; rewrite ?length_push, ?length_tail_pred; split_and!; (done || lia).
Qed.

Lemma design_push_wf e d : queue_wf d → queue_wf (design_push e d).2.
Proof.
  destruct d as [q|q]; simpl.
  - intros Hwf. pose proof (fifo_push_wf e q Hwf) as Hwf'. by destruct (fifo_push e q).
  - intros Hwf. pose proof (pq_push_wf e q Hwf) as Hwf'. by destruct (pq_push e q).
Qed.

(** Everything a queue ever took is still held, or was counted as lost. *)
Definition account d : nat := design_depth d + design_dropped d + design_replaced d.

Lemma fifo_push_account e (q : FifoQueue E) :
  queue_wf (Fifo q) → account (Fifo (fifo_push e q).2) = S (account (Fifo q)).
Proof.
  intros (Hc & Hl & Hp). unfold account, fifo_push. simpl.
  case_decide; [destruct (f_policy q) eqn:Hpol|]; simpl; unfold fifo_depth; simpl;
    rewrite ?length_push, ?length_tail_pred; (lia || (destruct Hc; [lia|congruence])).
Qed.

Lemma pq_push_account e q : queue_wf (Prio q) → account (Prio (pq_push e q).2) = S (account (Prio q)).
Proof.
  intros (Hlc & Hh & Hl & Hnd & Hdom & Ph & Pc & Pl). unfold account, pq_push. destruct (priority (event e)).
  - case_decide; simpl; unfold pq_depth; simpl; rewrite ?length_push; lia.
  - simpl. unfold pq_depth. simpl. case_bool_decide as Hk; simpl.
    + rewrite map_size_insert_Some by done. lia.
    + rewrite map_size_insert_None by by apply eq_None_not_Some. lia.
  - case_decide; simpl; unfold pq_depth; simpl; rewrite ?length_push, ?length_tail_pred; lia.
Qed.

Lemma design_push_account e d : queue_wf d → account (design_push e d).2 = S (account d).
Proof.
  destruct d as [q|q]; simpl.
  - intros Hwf. pose proof (fifo_push_account e q Hwf) as Hwf'. by destruct (fifo_push e q).
  - intros Hwf. pose proof (pq_push_account e q Hwf) as Hwf'. by destruct (pq_push e q).
Qed.

Lemma drain_coalesced_all q :
  NoDup (coalesce_order q) → dom (coalesced q) = list_to_set (coalesce_order q) →
  ∃ mid, drain_coalesced (coalesce_order q) (coalesced q) = (mid, ∅) ∧ length mid = size (coalesced q).
Proof.
  intros Hnd Hdom. rewrite coalesced_size by done.
  destruct (drain_coalesced_omap (coalesce_order q) (coalesced q) Hnd) as [Hout Hm].
  destruct (drain_coalesced _ _) as [mid m] eqn:Hd. simpl in *. exists mid. split.
  - f_equal. apply map_eq. intros k. rewrite Hm, lookup_empty. case_decide as Hk; [done|].
    apply not_elem_of_dom. rewrite Hdom. by rewrite elem_of_list_to_set.
  - subst mid. apply length_omap_all. intros k Hk. apply elem_of_dom. rewrite Hdom. by apply elem_of_list_to_set.
Qed.

Lemma design_drain_spec d :
  queue_wf d →
  queue_wf (design_drain d).2
  ∧ design_depth (design_drain d).2 = 0
  ∧ length (design_drain d).1 + account (design_drain d).2 = account d
  ∧ design_peak_depth (design_drain d).2 = design_peak_depth d.
Proof.
  destruct d as [q|q]; simpl.
  - intros (Hc & Hl & Hp). unfold account, fifo_depth. simpl. unfold fifo_depth. simpl. split_and!; (done || lia).
  - intros (Hlc & Hh & Hl & Hnd & Hdom & Ph & Pc & Pl). unfold pq_drain.
    destruct (drain_coalesced_all q Hnd Hdom) as (mid & -> & Hmid). unfold account, pq_depth. simpl.
    unfold pq_depth. simpl. rewrite map_size_empty, dom_empty_L, !length_app.
    split_and!; (done || lia || constructor).
Qed.

Lemma queue_wf_depth d : queue_wf d → design_depth d ≤ design_peak_depth d.
Proof. destruct d as [q|q]; simpl; unfold fifo_depth, pq_depth; [by intros (_ & _ & ?)|]. intros. simpl. lia. Qed.

Lemma run_queue_account ops d out d' :
  queue_wf d → run_queue ops d = (out, d') →
  queue_wf d' ∧ pushes ops + account d = length out + account d'.
Proof.
  revert d out. induction ops as [|[e|] ops IH]; intros d out Hwf; simpl.
  - intros [= <- <-]. done.
  - intros [Hwf' Hacc]%IH; [|by apply design_push_wf]. rewrite design_push_account in Hacc by done.
    split; [done|]. unfold pushes in *. simpl. lia.
  - destruct (design_drain_spec d Hwf) as (Hwf1 & _ & Hacc1 & _). destruct (design_drain d) as [o1 d1]. simpl in *.
    destruct (run_queue ops d1) as [o2 d2] eqn:Hrun. intros [= <- <-].
    apply IH in Hrun as [Hwf2 Hacc2]; [|done]. split; [done|]. rewrite length_app. unfold pushes in *. simpl. lia.
Qed.

Lemma new_fifo_wf capacity policy : 0 < capacity ∨ policy = DropNewest → queue_wf (E := E) (new_fifo capacity policy).
Proof. intros Hc. simpl. split_and!; (done || lia). Qed.

Lemma new_priority_wf hc lc : 0 < lc → queue_wf (E := E) (new_priority hc lc).
Proof. intros Hc. simpl. rewrite dom_empty_L. split_and!; (done || lia || constructor). Qed.
End accounting.

(** ** Properties *)

Section properties.
  Context {E : Type} `{QueueItem E}.

(** C33. Whatever is sent to a fresh priority queue between two drains, the
    drain returns exactly the specified sequence: the first [hc] critical
    items in arrival order (later ones are rejected, never an earlier one
    evicted), then the latest value of each (bot, kind) key in the order the
    keys first appeared, then the last [lc] low-priority items in arrival
    order; and it leaves the queue empty, holding no stale key. *)
Theorem pq_drain_refines_spec (hc lc : nat) (es : list (Envelope E)) :
  0 < lc →
  (pq_drain (push_all es (pq_new hc lc))).1 = drain_spec hc lc es
  ∧ represents [] (pq_drain (push_all es (pq_new hc lc))).2
  ∧ pq_depth (pq_drain (push_all es (pq_new hc lc))).2 = 0.
Proof.
  intros Hlc. destruct (push_all_represents es (pq_new hc lc)) as ([Hh Ho Hc Hl] & Hhc & Hlc'); [done|apply represents_new|].
  set (q := push_all es (pq_new hc lc)) in *. simpl in *. unfold pq_drain.
  assert (NoDup (coalesce_order q)) as Hnd by (rewrite Ho; apply NoDup_nub).
  destruct (drain_coalesced_omap (coalesce_order q) (coalesced q) Hnd) as [Hout Hm].
  destruct (drain_coalesced _ _) as [mid m]. simpl in *.
  assert (m = ∅) as ->.
  { apply map_eq. intros k. rewrite Hm, lookup_empty, Hc, Ho. case_decide as Hk; [done|].
    apply latest_None. by rewrite <- elem_of_nub. }
  split_and!.
  - unfold drain_spec. rewrite Hh, Hl, Hhc, Hlc', Hout, Ho. f_equal. f_equal.
    apply omap_ext_all. intros k. apply Hc.
  - by split; simpl; rewrite ?take_nil.
  - done.
Qed.

(** Under any interleaving of pushes and drains, on either queue design,
    nothing is lost unaccounted: the items pushed are exactly those handed
    out, those still queued, those counted as dropped and those replaced by a
    newer value; the lanes stay within their capacities, the key order lists
    exactly the pending keys once each, and the reported peak depth bounds the
    depth. *)
Theorem queue_conservation (d : QueueDesign E) (ops : list (QueueOp E)) out d' :
  queue_wf d → account d = 0 → run_queue ops d = (out, d') →
  pushes ops = length out + design_depth d' + design_dropped d' + design_replaced d'
  ∧ queue_wf d' ∧ design_depth d' ≤ design_peak_depth d'.
Proof.
  intros Hwf Hz Hrun. destruct (run_queue_account _ _ _ _ Hwf Hrun) as [Hwf' Hacc].
  split_and!; [unfold account in *; lia|done|by apply queue_wf_depth].
Qed.
End properties.

(** *** Samples *)

#[local] Instance sample_item : QueueItem (Priority * string) := {| priority := fst; name := snd |}.

Definition sample (bot : Z) (p : Priority) (kind : string) (seq : Z) : Envelope (Priority * string) :=
  mkEnvelope bot (p, kind) 0 seq.

Definition sample_events : list (Envelope (Priority * string)) :=
  [sample 1 Low "chat" 1; sample 1 Coalescible "health" 2; sample 1 High "login" 3; sample 2 Coalescible "health" 4;
   sample 1 Coalescible "health" 5; sample 1 Low "chat" 6; sample 2 High "login" 7; sample 1 Low "chat" 8].

Lemma pq_drain_refines_spec_witness :
  (pq_drain (push_all sample_events (pq_new 1 2))).1
    = [sample 1 High "login" 3; sample 1 Coalescible "health" 5; sample 2 Coalescible "health" 4;
       sample 1 Low "chat" 6; sample 1 Low "chat" 8].
Proof.
  destruct (pq_drain_refines_spec 1 2 sample_events ltac:(lia)) as [-> _]. vm_compute. reflexivity.
Defined.

Lemma queue_conservation_witness :
  let ops := map OpPush sample_events ++ [OpDrain; OpPush (sample 1 Low "chat" 9)] in
  let d' := (run_queue ops (new_priority 1 2)).2 in
  9 = 5 + design_depth d' + design_dropped d' + design_replaced d'.
Proof.
  intros ops d'.
  destruct (queue_conservation (new_priority 1 2) ops (run_queue ops (new_priority 1 2)).1 d') as [Hc _].
  - apply new_priority_wf. lia.
  - reflexivity.
  - vm_compute. reflexivity.
  - vm_compute in Hc. vm_compute. exact Hc.
Defined.

(** The reported peak depth of a priority queue is the sum of the lanes'
    own peaks, not the highest combined depth its comment announces: after a
    critical item is queued and drained and a low-priority item queued, it
    reports 2 although the queue never held more than one item, in any of the
    states passed through. *)
Theorem peak_depth_not_attained :
  let d0 := new_priority 8 8 in
  let d1 := (design_push (sample 1 High "login" 1) d0).2 in
  let d2 := (design_drain d1).2 in
  let d3 := (design_push (sample 1 Low "chat" 2) d2).2 in
  map design_depth [d0; d1; d2; d3] = [0; 1; 0; 1] ∧ design_peak_depth d3 = 2.
Proof. vm_compute. split; reflexivity. Qed.

(** With a low-priority capacity of zero the lane still keeps one item,
    and the very first push is reported and counted as a drop of an older item
    although none was there: the capacity bound and the accounting both need a
    capacity of at least one. *)
Theorem zero_low_capacity_overfills :
  let '(outcome, d) := design_push (sample 1 Low "chat" 1) (new_priority 1 0) in
  outcome = DroppedOldest ∧ design_depth d = 1 ∧ design_dropped d = 1.
Proof. vm_compute. split_and!; reflexivity. Qed.
