(* ===== verification/Event.v ===== *)
(** * Work items and their lanes

    [src/lua/event.rs] and the event enum of [src/minecraft/event.rs]: what a
    worker queue carries, the name each item is delivered under and the lane
    it travels in. *)

From S2P Require Import Prelude Text Scoreboard Inventory Presentation Hud Queue.

(** [SharedValue] is the payload of a cross-worker message, [Slot] the item
    type, [J] the JSON type of text components. *)
Section events.
Context {J Slot SharedValue : Type}.

Inductive BotEvent : Type :=
  | LoggedIn (entity_id : Z)
  | Spawned
  | Health (health food saturation : Z)
  | Death
  | Chat (sender message : string)
  | SystemChat (message : string)
  | PlayerJoined (uuid : Z) (player_name : string)
  | PlayerLeft (uuid : Z)
  | EntitySpawned (entity_id uuid entity_kind : Z)
  | EntityRemoved (entity_id : Z)
  | Time (time_of_day : Z)
  | Weather (raining : bool)
  | Kicked (reason : string)
  | Presentation (inner : @PresentationEvent J)
  | ScoreboardEv (inner : ScoreboardEvent (TextComponent J))
  | Hud (inner : @HudEvent J Slot)
  | InventoryEv (inner : InventoryEvent)
  | Connecting
  | Connected
  | DisconnectedEv (reason : string)
  | ReconnectScheduled (attempt delay : Z)
  | RetryAttemptStarted (attempt : Z)
  | RetriesExhausted
  | StoppedByCancellation.

Record ScriptError : Type := mkScriptError {
  code : string;
  message : string;
  retryable : bool;
  err_bot_id : option Z;
  err_generation : option Z;
}.

Inductive ActionOutcome : Type :=
  | DeliveredSent
  | ActConfirmed (act_state_id : Z)
  | ActCorrected (act_state_id : Z)
  | ActError (e : ScriptError).

Record ActionResult : Type := mkActionResult {
  request_id : Z;
  result_bot : Z;
  outcome : ActionOutcome;
}.

Inductive WorkItem : Type :=
  | BotItem (e : BotEvent)
  | ActionResultItem (r : ActionResult)
  | CallbackCompletion (r : ActionResult)
  | Message (topic : string) (payload : SharedValue)
  | TimerFired (timer_id : Z)
  | ScriptErrorItem (event_name text : string)
  | ScriptDisabled (reason : string)
  | WorkerOverloaded.

(** ** Names *)

Definition presentation_event_name (e : @PresentationEvent J) : string :=
  match e with
  | PresChat _ | TabListChanged _ _ | PresDisconnected _ => "presentation"
  | ActionBarChanged _ => "action_bar"
  | TitleChanged _ | SubtitleChanged _ | TitleTimingChanged _ | TitlesCleared _ => "title"
  | BossBarChanged _ _ _ _ => "boss_bar"
  end.

Definition scoreboard_event_name (e : ScoreboardEvent (TextComponent J)) : string :=
  match e with
  | ObjectiveChanged _ _ _ _ _ _ | DisplaySlotChanged _ _ _ | ScoreChanged _ _ _ _ _ _ => "scoreboard"
  | TeamChanged _ _ _ _ _ _ => "team"
  end.

Definition hud_event_name (e : @HudEvent J Slot) : string :=
  match e with
  | HudDeath _ => "death"
  | TimeChanged _ => "time"
  | WeatherChanged _ => "weather"
  | PlayerListChanged _ _ _ => "player_updated"
  | _ => "hud"
  end.

Definition inventory_event_name (e : InventoryEvent) : string :=
  match e with
  | WindowClosed _ => "gui_closed"
  | WindowSynchronized _ _ true => "gui_opened"
  | _ => "inventory"
  end.

Definition bot_event_name (e : BotEvent) : string :=
  match e with
  | LoggedIn _ => "login"
  | Spawned => "spawned"
  | Health _ _ _ => "health"
  | Death => "death"
  | Chat _ _ => "chat"
  | SystemChat _ => "system_chat"
  | PlayerJoined _ _ => "player_joined"
  | PlayerLeft _ => "player_left"
  | EntitySpawned _ _ _ => "entity_spawned"
  | EntityRemoved _ => "entity_removed"
  | Time _ => "time"
  | Weather _ => "weather"
  | Kicked _ => "kicked"
  | Presentation inner => presentation_event_name inner
  | ScoreboardEv inner => scoreboard_event_name inner
  | Hud inner => hud_event_name inner
  | InventoryEv inner => inventory_event_name inner
  | Connecting => "connecting"
  | Connected => "connected"
  | DisconnectedEv _ => "disconnected"
  | ReconnectScheduled _ _ => "reconnect_scheduled"
  | RetryAttemptStarted _ => "retry_started"
  | RetriesExhausted => "retries_exhausted"
  | StoppedByCancellation => "stopped"
  end.

Definition item_name (w : WorkItem) : string :=
  match w with
  | BotItem e => bot_event_name e
  | ActionResultItem _ => "action_result"
  | CallbackCompletion _ => "callback_completion"
  | Message _ _ => "message"
  | TimerFired _ => "timer"
  | ScriptErrorItem _ _ => "script_error"
  | ScriptDisabled _ => "script_disabled"
  | WorkerOverloaded => "worker_overload"
  end.

(** ** Lanes *)

Definition bot_event_priority (e : BotEvent) : Priority :=
  match e with
  | Connecting | Connected | DisconnectedEv _ | ReconnectScheduled _ _ | RetryAttemptStarted _
  | RetriesExhausted | StoppedByCancellation | Kicked _ | Death | LoggedIn _ | Spawned => High
  | Health _ _ _ | Time _ | Weather _ => Coalescible
  | Hud inner => match inner with HudDeath _ | Respawned _ => High | _ => Coalescible end
  | InventoryEv inner =>
      match inner with
      | WindowClosed _ | WindowSynchronized _ _ true | TransactionFinished _ _ | TransactionRejected _ _ => High
      | _ => Low
      end
  | Chat _ _ | SystemChat _ | PlayerJoined _ _ | PlayerLeft _ | EntitySpawned _ _ _ | EntityRemoved _
  | Presentation _ | ScoreboardEv _ => Low
  end.

Definition item_priority (w : WorkItem) : Priority :=
  match w with
  | BotItem e => bot_event_priority e
  | ActionResultItem _ | CallbackCompletion _ => High
  | Message _ _ | TimerFired _ => Low
  | ScriptErrorItem _ _ | ScriptDisabled _ => High
  | WorkerOverloaded => Low
  end.

#[export] Instance WorkItem_item : QueueItem WorkItem := {| priority := item_priority; name := item_name |}.

End events.
Arguments BotEvent : clear implicits.
Arguments WorkItem : clear implicits.

(** The two errors a lost completion is resolved with. *)
Definition worker_overloaded : ScriptError :=
  mkScriptError "worker_overloaded" "this worker's critical event queue is saturated" true None None.
Definition shutdown_error : ScriptError :=
  mkScriptError "shutdown" "the swarm is shutting down" false None None.

(** Two HUD updates of different kinds share the coalescing key of their bot:
    between two drains only the later one is delivered. *)
Example hud_kinds_coalesce :
  let hud k seq := mkEnvelope 1 (BotItem (Hud k) : WorkItem unit unit unit) 0 seq in
  (pq_drain (push_all [hud (AbilitiesChanged abilities_default) 1%Z; hud (ExperienceChanged experience_default) 2%Z]
     (pq_new 8 8))).1
  = [hud (ExperienceChanged experience_default) 2%Z].
Proof. vm_compute. reflexivity. Qed.
