(* ===== verification/Dispatcher.v ===== *)
(** * Worker queues as shared objects, and the dispatcher

    [src/lua/dispatcher.rs] and the loop of [run_worker] in
    [src/lua/worker.rs].  A [push] is several atomic actions (an atomic load,
    two critical sections on different mutexes, an atomic increment), which
    other producers, the worker and [close] interleave with; [step] is that
    interleaving.  [wq_push] is the same method run without interference. *)

From stdpp Require Import relations.
From S2P Require Import Prelude Machine Scoreboard Inventory Queue Event.

Section dispatcher.
Context {J Slot SharedValue : Type}.
Abbreviation Item := (WorkItem J Slot SharedValue).
Abbreviation Env := (Envelope Item).

(** ** WorkerQueue *)

Record WorkerQueue : Type := mkWQ {
  wq_state : QueueDesign Item;
  wq_closed : bool;
  wq_critical_overflow : nat;
  wq_failed : list (Z * ScriptError);
}.

Definition wq_new (design : QueueDesign Item) : WorkerQueue := mkWQ design false 0 [].

Definition set_state d q := mkWQ d (wq_closed q) (wq_critical_overflow q) (wq_failed q).
Definition wq_close q := mkWQ (wq_state q) true (wq_critical_overflow q) (wq_failed q).
Definition count_overflow q := mkWQ (wq_state q) (wq_closed q) (S (wq_critical_overflow q)) (wq_failed q).

(** [record_failure]. *)
Definition record_failure (id : Z) (err : ScriptError) q :=
  mkWQ (wq_state q) (wq_closed q) (wq_critical_overflow q) (push (wq_failed q) (id, err)).

Definition take_failed_requests q : list (Z * ScriptError) * WorkerQueue :=
  (wq_failed q, mkWQ (wq_state q) (wq_closed q) (wq_critical_overflow q) []).

(** The request a pending callback may be waiting on. *)
Definition resolvable_request_id (w : Item) : option Z :=
  match w with
  | ActionResultItem r | CallbackCompletion r => Some (request_id r)
  | _ => None
  end.

Definition record_if_resolvable (e : Env) (err : ScriptError) q :=
  match resolvable_request_id (event e) with
  | Some id => record_failure id err q
  | None => q
  end.

(** The diagnostic, for bot 0 and at the time of the failed push. *)
Definition overload_notice (e : Env) : Env := mkEnvelope 0 WorkerOverloaded (enqueued_at e) 0.

(** *** The atomic actions of one push *)

Inductive push_pc : Type :=
  | PStart (e : Env)      (** about to load [closed] *)
  | PReject (e : Env)     (** it was set: record the failure *)
  | PEnqueue (e : Env)    (** about to lock the queue *)
  | PCount (e : Env)      (** the high lane was full *)
  | PRecord (e : Env)
  | PNotice (e : Env)
  | PDone (o : PushOutcome).

Definition push_step (pc : push_pc) q : push_pc * WorkerQueue :=
  match pc with
  | PStart e => (if wq_closed q then PReject e else PEnqueue e, q)
  | PReject e => (PDone QueueClosed, record_if_resolvable e shutdown_error q)
  | PEnqueue e =>
      let '(o, d) := design_push e (wq_state q) in
      (if decide (o = CriticalOverflow) then PCount e else PDone o, set_state d q)
  | PCount e => (PRecord e, count_overflow q)
  | PRecord e => (PNotice e, record_if_resolvable e worker_overloaded q)
  | PNotice e => (PDone CriticalOverflow, set_state (design_push (overload_notice e) (wq_state q)).2 q)
  | PDone o => (PDone o, q)
  end.

(** [WorkerQueue::push] without interference. *)
Definition wq_push (e : Env) q : PushOutcome * WorkerQueue :=
  if wq_closed q then (QueueClosed, record_if_resolvable e shutdown_error q)
  else
    let '(o, d) := design_push e (wq_state q) in
    let q := set_state d q in
    if decide (o = CriticalOverflow) then
      let q := record_if_resolvable e worker_overloaded (count_overflow q) in
      (o, set_state (design_push (overload_notice e) (wq_state q)).2 q)
    else (o, q).

(** ** The system: one queue, its producers and its worker *)

(** The loop of [run_worker], with the batch it holds. *)
Inductive worker_pc : Type :=
  | WTop
  | WClose
  | WWait
  | WBatch (batch : list Env)
  | WResolve
  | WStopped.

Record system : Type := mkSystem {
  queue : WorkerQueue;
  calls : list push_pc;
  worker : worker_pc;
  shutdown : bool;
  submitted : list Env;
  delivered : list Env;
  resolved : list (Z * ScriptError);
}.

Definition system_new (design : QueueDesign Item) : system :=
  mkSystem (wq_new design) [] WTop false [] [] [].

(** [wait_for_batch] returns what is ready once there is something or the
    queue is closed, and an empty batch when it timed out on an empty queue;
    until then it waits, so it has no step. *)
Definition wait_for_batch (q : WorkerQueue) : list Env * WorkerQueue :=
  if negb (design_is_empty (wq_state q)) || wq_closed q then
    let '(b, d) := design_drain (wq_state q) in (b, set_state d q)
  else ([], q).

Inductive step : system → system → Prop :=
  | step_call s e :
      step s (mkSystem (queue s) (calls s ++ [PStart e]) (worker s) (shutdown s) (submitted s ++ [e]) (delivered s) (resolved s))
  | step_push s i pc pc' q :
      calls s !! i = Some pc → push_step pc (queue s) = (pc', q) →
      step s (mkSystem q (<[i := pc']> (calls s)) (worker s) (shutdown s) (submitted s) (delivered s) (resolved s))
  | step_shutdown s :
      step s (mkSystem (queue s) (calls s) (worker s) true (submitted s) (delivered s) (resolved s))
  | step_close_all s :
      step s (mkSystem (wq_close (queue s)) (calls s) (worker s) (shutdown s) (submitted s) (delivered s) (resolved s))
  | step_top s :
      worker s = WTop →
      step s (mkSystem (queue s) (calls s) (if shutdown s then WClose else WWait) (shutdown s) (submitted s) (delivered s) (resolved s))
  | step_worker_close s :
      worker s = WClose →
      step s (mkSystem (wq_close (queue s)) (calls s) WWait (shutdown s) (submitted s) (delivered s) (resolved s))
  | step_wait s b q :
      worker s = WWait → wait_for_batch (queue s) = (b, q) →
      step s (mkSystem q (calls s) (WBatch b) (shutdown s) (submitted s) (delivered s) (resolved s))
  | step_batch s b :
      worker s = WBatch b → ¬ (b = [] ∧ shutdown s = true) →
      step s (mkSystem (queue s) (calls s) WResolve (shutdown s) (submitted s) (delivered s ++ b) (resolved s))
  | step_stop s :
      worker s = WBatch [] → shutdown s = true →
      step s (mkSystem (queue s) (calls s) WStopped (shutdown s) (submitted s) (delivered s) (resolved s))
  | step_resolve s fs q :
      worker s = WResolve → take_failed_requests (queue s) = (fs, q) →
      step s (mkSystem q (calls s) WTop (shutdown s) (submitted s) (delivered s) (resolved s ++ fs)).


(** ** Accounting for completions *)

Implicit Types (e : Env) (q : PriorityQueue Item) (s : system) (r : Z).

Definition resolves r e : bool := bool_decide (resolvable_request_id (event e) = Some r).
Definition completions r (l : list Env) : nat := length (List.filter (resolves r) l).
Definition failures r (l : list (Z * ScriptError)) : nat := length (List.filter (λ p, p.1 =? r)%Z l).

(** The push has neither queued its item nor recorded its failure yet. *)
Definition in_flight r (pc : push_pc) : nat :=
  match pc with
  | PStart e | PReject e | PEnqueue e | PCount e | PRecord e => completions r [e]
  | PNotice _ | PDone _ => 0
  end.

Definition held r (w : worker_pc) : nat := match w with WBatch b => completions r b | _ => 0 end.

Definition queued r (d : QueueDesign Item) : nat :=
  match d with Prio q => completions r (high q) | Fifo q => completions r (f_items q) end.

(** Where the completions submitted for request [r] are. *)
Definition whereabouts r s : nat :=
  sum_list_with (in_flight r) (calls s) + queued r (wq_state (queue s)) + held r (worker s)
  + completions r (delivered s) + failures r (wq_failed (queue s)) + failures r (resolved s).

(** Completions travel in the high lane only. *)
Definition lanes_ok (d : QueueDesign Item) : Prop :=
  match d with
  | Fifo _ => False
  | Prio q =>
      map_Forall (λ _ e, priority (event e) = Coalescible) (coalesced q)
      ∧ Forall (λ e, priority (event e) = Low) (low q)
  end.

Lemma completions_app r l k : completions r (l ++ k) = completions r l + completions r k.
Proof. unfold completions. by rewrite List.filter_app, length_app. Qed.

Lemma failures_app r l k : failures r (l ++ k) = failures r l + failures r k.
Proof. unfold failures. by rewrite List.filter_app, length_app. Qed.

Lemma completions_lane r l : Forall (λ e, priority (event e) ≠ High) l → completions r l = 0.
Proof.
  unfold completions. induction 1 as [|e l He Hl IH]; [done|]. simpl. unfold resolves at 1.
  rewrite bool_decide_eq_false_2; [done|]. by destruct e as [b [] ? ?].
Qed.

Lemma completions_other r e : priority (event e) ≠ High → completions r [e] = 0.
Proof. intros He. apply completions_lane. by constructor. Qed.

Lemma record_if_resolvable_failures r e err (w : WorkerQueue) :
  failures r (wq_failed (record_if_resolvable e err w)) = failures r (wq_failed w) + completions r [e]
  ∧ wq_state (record_if_resolvable e err w) = wq_state w.
Proof.
  unfold record_if_resolvable, completions. simpl. unfold resolves.
  destruct (resolvable_request_id (event e)) as [id|]; simpl; [|by rewrite Nat.add_0_r].
  unfold push. rewrite failures_app. split; [|done]. f_equal. unfold failures. simpl.
  destruct (Z.eqb_spec id r) as [->|Hne]; [by rewrite bool_decide_eq_true_2|].
  rewrite bool_decide_eq_false_2; [done|congruence].
Qed.

(** A push into the queue keeps the lanes apart; unless it overflows, the item
    is queued once, and an overflow leaves the high lane as it was. *)
Lemma design_push_lanes r e (d : QueueDesign Item) o d' :
  lanes_ok d → design_push e d = (o, d') →
  lanes_ok d' ∧ queued r d' = queued r d + (if decide (o = CriticalOverflow) then 0 else completions r [e])
  ∧ (o = CriticalOverflow → priority (event e) = High).
Proof.
  destruct d as [|q]; [done|]. intros [Hc Hl]. simpl. unfold pq_push.
  destruct (priority (event e)) eqn:Hp.
  - case_decide; intros [= <- <-]; simpl; (split; [done|split; [|done]]).
    + lia.
    + unfold push. apply completions_app.
  - intros [= <- <-]. simpl. split; [split; [|done]|split].
    + apply map_Forall_insert_2; [apply Hp|apply Hc].
    + rewrite completions_other by (by rewrite Hp). case_bool_decide; simpl; lia.
    + by case_bool_decide.
  - assert (completions r [e] = 0) as Hz by (apply completions_other; by rewrite Hp).
    assert (Forall (λ e, priority (event e) = Low) (push (tail (low q)) e)) as Ht.
    { apply Forall_app. split; [|by constructor]. by apply Forall_tail. }
    case_decide; intros [= <- <-]; simpl; rewrite Hz; (split; [split; [done|]|split; [lia|done]]); [done|].
    apply Forall_app. split; [done|by constructor].
Qed.

Lemma drain_coalesced_Forall (P : Env → Prop) order m :
  map_Forall (λ _ e, P e) m →
  Forall P (drain_coalesced order m).1 ∧ map_Forall (λ _ e, P e) (drain_coalesced order m).2.
Proof.
  revert m. induction order as [|k order IH]; intros m Hm; simpl; [done|].
  destruct (IH (delete k m)) as [Ho Hm']; [by intros k' e' [_ Hk']%lookup_delete_Some; apply (Hm k')|].
  destruct (drain_coalesced order (delete k m)) as [out m']. simpl in *. split; [|done].
  apply Forall_app. split; [|done]. destruct (m !! k) as [e|] eqn:Hk; simpl; [|done].
  constructor; [|done]. by apply (Hm k).
Qed.

Lemma design_drain_lanes r (d : QueueDesign Item) b d' :
  lanes_ok d → design_drain d = (b, d') →
  lanes_ok d' ∧ completions r b = queued r d ∧ queued r d' = 0.
Proof.
  destruct d as [|q]; [done|]. intros [Hc Hl]. simpl. unfold pq_drain.
  destruct (drain_coalesced_Forall _ (coalesce_order q) _ Hc) as [Hmid Hm].
  destruct (drain_coalesced _ _) as [mid m]. intros [= <- <-]. simpl in *. split; [by split|]. split; [|done].
  rewrite !completions_app, (completions_lane r mid), (completions_lane r (low q)); [lia| |].
  - eapply Forall_impl; [done|]. simpl. intros e ->. done.
  - eapply Forall_impl; [done|]. simpl. intros e ->. done.
Qed.

Lemma wait_for_batch_lanes r (w : WorkerQueue) b w' :
  lanes_ok (wq_state w) → wait_for_batch w = (b, w') →
  lanes_ok (wq_state w') ∧ completions r b + queued r (wq_state w') = queued r (wq_state w)
  ∧ wq_failed w' = wq_failed w.
Proof.
  intros Hw. unfold wait_for_batch. destruct (_ || _).
  - destruct (design_drain (wq_state w)) as [b1 d1] eqn:Hd. intros [= <- <-].
    destruct (design_drain_lanes r _ _ _ Hw Hd) as (? & ? & ?). simpl. split_and!; [done|lia|done].
  - by intros [= <- <-].
Qed.

(** Each atomic action of a push moves the item it is about exactly once. *)
Lemma push_step_accounts r pc (w : WorkerQueue) pc' w' :
  lanes_ok (wq_state w) → push_step pc w = (pc', w') →
  lanes_ok (wq_state w')
  ∧ in_flight r pc' + queued r (wq_state w') + failures r (wq_failed w')
    = in_flight r pc + queued r (wq_state w) + failures r (wq_failed w).
Proof.
  intros Hw. destruct pc as [e|e|e|e|e|e|o]; cbn [push_step].
  - destruct (wq_closed w); by intros [= <- <-].
  - intros [= <- <-]. destruct (record_if_resolvable_failures r e shutdown_error w) as [-> ->]. split; [done|]. simpl. lia.
  - destruct (design_push e (wq_state w)) as [o d] eqn:Hd. intros [= <- <-].
    destruct (design_push_lanes r _ _ _ _ Hw Hd) as (Hok & Hq & _). cbn [wq_state wq_failed set_state]. split; [done|].
    rewrite Hq. case_decide; simpl; lia.
  - by intros [= <- <-].
  - intros [= <- <-]. destruct (record_if_resolvable_failures r e worker_overloaded w) as [-> ->]. split; [done|]. simpl. lia.
  - intros [= <- <-]. destruct (design_push (overload_notice e) (wq_state w)) as [o d] eqn:Hd.
    destruct (design_push_lanes r _ _ _ _ Hw Hd) as (Hok & Hq & _). cbn [wq_state wq_failed set_state]. split; [done|].
    cbn [snd]. rewrite Hq, completions_other by done. case_decide; simpl; lia.
  - by intros [= <- <-].
Qed.

Lemma sum_list_with_insert {A} (f : A → nat) (l : list A) i x y :
  l !! i = Some x → sum_list_with f (<[i := y]> l) + f x = sum_list_with f l + f y.
Proof.
  revert i. induction l as [|z l IH]; intros [|i] Hi; simplify_eq/=; [lia|]. apply IH in Hi. lia.
Qed.

Definition accounted s : Prop := lanes_ok (wq_state (queue s)) ∧ ∀ r, completions r (submitted s) = whereabouts r s.

Lemma step_accounted s s' : accounted s → step s s' → accounted s'.
Proof.
  intros [Hl Hr] Hstep. unfold accounted, whereabouts in *. destruct Hstep as
    [s e|s i pc pc' q Hi Hp|s|s|s Hw|s Hw|s b q Hw Hb|s b Hw Hn|s Hw Hsh|s fs q Hw Hf]; simpl in *;
    try (rewrite Hw in Hr; cbn [held] in Hr).
  - split; [done|]. intros r. rewrite completions_app, Hr, sum_list_with_app. simpl. lia.
  - split; [by apply (push_step_accounts 0 _ _ _ _ Hl Hp)|]. intros r.
    destruct (push_step_accounts r _ _ _ _ Hl Hp) as [_ Hacc]. pose proof (sum_list_with_insert (in_flight r) _ _ _ pc' Hi).
    rewrite Hr. lia.
  - done.
  - done.
  - split; [done|]. intros r. rewrite Hr. by destruct (shutdown s).
  - done.
  - split; [by apply (wait_for_batch_lanes 0 _ _ _ Hl Hb)|]. intros r.
    destruct (wait_for_batch_lanes r _ _ _ Hl Hb) as (_ & Hacc & ->). rewrite Hr. lia.
  - split; [done|]. intros r. rewrite completions_app, Hr. lia.
  - done.
  - unfold take_failed_requests in Hf. simplify_eq/=. split; [done|]. intros r. rewrite failures_app, Hr.
    assert (failures r [] = 0) as -> by done. lia.
Qed.

Lemma reachable_accounted hc lc s : rtc step (system_new (new_priority hc lc)) s → accounted s.
Proof.
  assert (accounted (system_new (new_priority hc lc))) as H0 by (split; [split; [apply map_Forall_empty|done]|done]).
  revert H0. generalize (system_new (new_priority hc lc)). intros s0 H0 Hs. revert H0.
  induction Hs; eauto using step_accounted.
Qed.

(** Nothing more is delivered or resolved once the worker has left its loop. *)
Lemma stopped_final s s' :
  rtc step s s' → worker s = WStopped →
  worker s' = WStopped ∧ delivered s' = delivered s ∧ resolved s' = resolved s.
Proof.
  induction 1 as [s|s1 s2 s3 Hstep _ IH]; [done|]. intros Hw.
  assert (worker s2 = WStopped ∧ delivered s2 = delivered s1 ∧ resolved s2 = resolved s1) as (Hw2 & Hd & Hr)
    by (destruct Hstep; simpl; (done || congruence)).
  destruct (IH Hw2) as (? & ? & ?). split_and!; congruence.
Qed.
End dispatcher.
Arguments WorkerQueue : clear implicits.
Arguments system : clear implicits.

(** ** Properties *)

(** C29. No completion is lost or duplicated, whatever producers, the worker,
    [close] and the shutdown flag do in whatever order: for every request, the
    action results and callback completions submitted to a worker's queue are
    exactly those of pushes still running, those queued, those in the batch
    the worker holds, those it dispatched, and those recorded as failures for
    the worker to resolve.  In particular a push that has returned left its
    item in exactly one of these places. *)
Theorem no_completion_lost {J Slot SharedValue} (hc lc : nat) (s : system J Slot SharedValue) (r : Z) :
  rtc step (system_new (new_priority hc lc)) s →
  completions r (submitted s)
  = sum_list_with (in_flight r) (calls s) + queued r (wq_state (queue s)) + held r (worker s)
    + completions r (delivered s) + failures r (wq_failed (queue s)) + failures r (resolved s).
Proof. intros Hs. by apply (reachable_accounted hc lc s Hs). Qed.

(** A push run without interference does what its atomic actions do one
    after the other, so the interleaved and the sequential reading of
    [WorkerQueue::push] agree; after [close] it returns [Closed], queues
    nothing and records the failure of the request it carried. *)
Theorem wq_push_atomic_actions {J Slot SharedValue} (e : Envelope (WorkItem J Slot SharedValue))
    (q : WorkerQueue J Slot SharedValue) :
  Nat.iter 5 (λ st, push_step st.1 st.2) (PStart e, q) = (PDone (wq_push e q).1, (wq_push e q).2)
  ∧ (wq_closed q = true →
      (wq_push e q).1 = QueueClosed ∧ wq_state (wq_push e q).2 = wq_state q
      ∧ ∀ r, failures r (wq_failed (wq_push e q).2) = failures r (wq_failed q) + completions r [e]).
Proof.
  split.
  - unfold wq_push. cbn [Nat.iter nat_rect push_step fst snd]. destruct (wq_closed q); [done|]. cbn [push_step].
    destruct (design_push e (wq_state q)) as [o d]. cbn [push_step fst snd set_state wq_state].
    case_decide as Ho; [by subst o|done].
  - intros Hc. unfold wq_push. rewrite Hc. simpl. split_and!; [done| |].
    + by apply (record_if_resolvable_failures 0).
    + intros r. by apply record_if_resolvable_failures.
Qed.

(** *** A completion accepted after the worker left *)

Definition sample_completion : Envelope (WorkItem unit unit unit) :=
  mkEnvelope 3 (ActionResultItem (mkActionResult 7 3 DeliveredSent)) 0 0.

(** The producer has seen the queue open and not locked it yet when the
    worker closes it, finds it empty and leaves. *)
Definition stopped_run : system unit unit unit :=
  mkSystem (wq_close (wq_new (new_priority 8 8))) [PEnqueue sample_completion] WStopped true [sample_completion] [] [].

Lemma stopped_run_reachable : rtc step (system_new (new_priority 8 8)) stopped_run.
Proof.
  eapply rtc_l; [apply (step_call _ sample_completion)|].
  eapply rtc_l; [by apply (step_push _ 0 (PStart sample_completion))|]. simpl.
  eapply rtc_l; [apply step_shutdown|]. simpl.
  eapply rtc_l; [by apply step_top|]. simpl.
  eapply rtc_l; [by apply step_worker_close|]. simpl.
  eapply rtc_l; [by eapply step_wait|]. simpl.
  eapply rtc_l; [by apply step_stop|]. done.
Qed.

(** [push] is documented as never accepting into a queue that nothing will
    drain again; it can.  There is a run in which the push of an action
    result returns [Accepted] after the worker closed the queue and left its
    loop; the item stays queued, no failure is recorded for it, and in no
    continuation is anything delivered or resolved. *)
Theorem accepted_after_worker_left :
  ∃ s : system unit unit unit,
    rtc step (system_new (new_priority 8 8)) s
    ∧ calls s = [PDone Accepted] ∧ wq_closed (queue s) = true ∧ worker s = WStopped
    ∧ queued 7 (wq_state (queue s)) = 1 ∧ wq_failed (queue s) = []
    ∧ ∀ s', rtc step s s' → delivered s' = [] ∧ resolved s' = [].
Proof.
  eexists. split; [eapply rtc_r; [apply stopped_run_reachable|by apply (step_push _ 0 (PEnqueue sample_completion))]|].
  split_and!; try done. intros s' Hs'. destruct (stopped_final _ _ Hs') as (_ & Hd & Hr); [done|]. by rewrite Hd, Hr.
Qed.

Lemma no_completion_lost_witness :
  completions 7 (submitted stopped_run)
  = sum_list_with (in_flight 7) (calls stopped_run) + queued 7 (wq_state (queue stopped_run)) + held 7 (worker stopped_run)
    + completions 7 (delivered stopped_run) + failures 7 (wq_failed (queue stopped_run)) + failures 7 (resolved stopped_run).
Proof. exact (no_completion_lost 8 8 stopped_run 7 stopped_run_reachable). Defined.
