(* ===== verification/Routing.v ===== *)
(** * The dispatcher handle

    [DispatcherHandle] of [src/lua/dispatcher.rs]: which worker an item goes
    to and the sequence number it carries.  Calls run one after the other
    here; what several threads may do inside one queue is in [Dispatcher].
    Indexing past the queues panics in the source and is [None] here. *)

From Stdlib Require Import Sorting.Sorted.
From S2P Require Import Prelude Machine Scoreboard Inventory Queue Event Dispatcher.

Local Open Scope Z_scope.

Section routing.
Context {J Slot SharedValue : Type}.
Abbreviation Item := (WorkItem J Slot SharedValue).
Abbreviation Env := (Envelope Item).
Abbreviation WQ := (WorkerQueue J Slot SharedValue).

Record DispatcherHandle : Type := mkHandle {
  queues : list WQ;
  next_request_id : Z;
  per_bot_seq : gmap Z Z;
}.

Definition handle_new (qs : list WQ) : DispatcherHandle := mkHandle qs 1 ∅.

Definition set_queues qs h := mkHandle qs (next_request_id h) (per_bot_seq h).

Definition worker_index_for (bot : Z) (h : DispatcherHandle) : nat := Z.to_nat (bot `mod` Z.of_nat (length (queues h))).

Definition seq_of (bot : Z) (h : DispatcherHandle) : Z := default 0 (per_bot_seq h !! bot).

(** [u64] counters, kept unbounded. *)
Definition next_bot_seq (bot : Z) (h : DispatcherHandle) : Z * DispatcherHandle :=
  let seq := seq_of bot h + 1 in
  (seq, mkHandle (queues h) (next_request_id h) (<[bot := seq]> (per_bot_seq h))).

Definition allocate_request_id (h : DispatcherHandle) : Z * DispatcherHandle :=
  (next_request_id h, mkHandle (queues h) (wrap 64 (next_request_id h + 1)) (per_bot_seq h)).

(** [self.queues[i].push(..)]. *)
Definition push_to (i : nat) (e : Env) (h : DispatcherHandle) : option (PushOutcome * DispatcherHandle) :=
  q ← queues h !! i;
  let '(o, q') := wq_push e q in
  Some (o, set_queues (<[i := q']> (queues h)) h).

(** [now] is the reading of the clock at the call. *)
Definition dispatch_sequenced (bot : Z) (item : Item) (now : Z) (h : DispatcherHandle) :
    option (PushOutcome * DispatcherHandle) :=
  let idx := worker_index_for bot h in
  let '(seq, h) := next_bot_seq bot h in
  push_to idx (mkEnvelope bot item now seq) h.

Definition dispatch_bot_event (bot : Z) (ev : BotEvent J Slot) (now : Z) (h : DispatcherHandle) :
    option (PushOutcome * DispatcherHandle) :=
  dispatch_sequenced bot (BotItem ev) now h.

Definition dispatch_timer (bot timer_id : Z) (now : Z) (h : DispatcherHandle) : option DispatcherHandle :=
  snd <$> dispatch_sequenced bot (TimerFired timer_id) now h.

Definition push_action_result (i : nat) (r : ActionResult) (now : Z) (h : DispatcherHandle) : option DispatcherHandle :=
  snd <$> push_to i (mkEnvelope (result_bot r) (ActionResultItem r) now 0) h.

Definition dispatch_action_result (origin : nat) (r : ActionResult) (now : Z) (h : DispatcherHandle) :
    option DispatcherHandle :=
  let owner := worker_index_for (result_bot r) h in
  if decide (origin = owner) then push_action_result owner r now h
  else
    h ← push_action_result owner r now h;
    snd <$> push_to origin (mkEnvelope (result_bot r) (CallbackCompletion r) now 0) h.

Definition broadcast_message (topic : string) (payload : SharedValue) (now : Z) (h : DispatcherHandle) : DispatcherHandle :=
  set_queues (map (λ q, (wq_push (mkEnvelope 0 (Message topic payload) now 0) q).2) (queues h)) h.

Definition close_all (h : DispatcherHandle) : DispatcherHandle := set_queues (map wq_close (queues h)) h.

(** A worker taking its batch. *)
Definition drain_worker (i : nat) (h : DispatcherHandle) : option (list Env * DispatcherHandle) :=
  q ← queues h !! i;
  let '(b, q') := wait_for_batch q in
  Some (b, set_queues (<[i := q']> (queues h)) h).

(** ** Histories *)

Inductive handle_op : Type :=
  | HBot (bot : Z) (ev : BotEvent J Slot) (now : Z)
  | HTimer (bot timer_id now : Z)
  | HResult (origin : nat) (r : ActionResult) (now : Z)
  | HBroadcast (topic : string) (payload : SharedValue) (now : Z)
  | HDrain (i : nat)
  | HCloseAll.

Definition run_handle_op (o : handle_op) (h : DispatcherHandle) : option DispatcherHandle :=
  match o with
  | HBot bot ev now => snd <$> dispatch_bot_event bot ev now h
  | HTimer bot timer_id now => dispatch_timer bot timer_id now h
  | HResult origin r now => dispatch_action_result origin r now h
  | HBroadcast topic payload now => Some (broadcast_message topic payload now h)
  | HDrain i => snd <$> drain_worker i h
  | HCloseAll => Some (close_all h)
  end.

Fixpoint run_handle (ops : list handle_op) (h : DispatcherHandle) : option DispatcherHandle :=
  match ops with
  | [] => Some h
  | o :: ops => h ← run_handle_op o h; run_handle ops h
  end.

(** ** Routing and order *)

(** The items that carry a sequence number. *)
Definition sequenced (e : Env) : bool :=
  match event e with BotItem _ | TimerFired _ => true | _ => false end.

(** [e] was handed out before [e'] if both are numbered items of one bot. *)
Definition before (e e' : Env) : Prop :=
  sequenced e = true → sequenced e' = true → bot_id e = bot_id e' → bot_seq e < bot_seq e'.

(** [e] belongs in queue [i] and its number has been given out. *)
Definition routed (h : DispatcherHandle) (i : nat) (e : Env) : Prop :=
  sequenced e = true → worker_index_for (bot_id e) h = i ∧ 1 ≤ bot_seq e ≤ seq_of (bot_id e) h.

Definition queue_routed (h : DispatcherHandle) (i : nat) (q : WQ) : Prop :=
  match wq_state q with
  | Fifo _ => False
  | Prio p =>
      Forall (routed h i) (high p) ∧ Forall (routed h i) (low p) ∧ map_Forall (λ _ e, routed h i e) (coalesced p)
      ∧ StronglySorted before (high p) ∧ StronglySorted before (low p)
  end.

Definition all_routed (h : DispatcherHandle) : Prop := ∀ i q, queues h !! i = Some q → queue_routed h i q.

Implicit Types (e x : Env) (q : WQ) (h : DispatcherHandle).

Lemma sorted_snoc (l : list Env) e :
  StronglySorted before l → Forall (λ x, before x e) l → StronglySorted before (push l e).
Proof.
  induction 1 as [|x l Hl IH Hx]; intros Hall; simpl; [repeat constructor|].
  apply Forall_cons in Hall as [Hxe Hall]. constructor; [by apply IH|]. apply Forall_app. split; [done|by constructor].
Qed.

Lemma sorted_tail (l : list Env) : StronglySorted before l → StronglySorted before (tail l).
Proof. destruct 1; [constructor|done]. Qed.

(** A push keeps a queue routed when the item belongs there and comes after
    everything of its bot that the queue holds. *)
Lemma pq_push_routed h h' i e (p : PriorityQueue Item) o p' b c fs :
  (∀ x, routed h i x → routed h' i x ∧ before x e) → routed h' i e →
  queue_routed h i (mkWQ (Prio p) b c fs) → pq_push e p = (o, p') → queue_routed h' i (mkWQ (Prio p') b c fs).
Proof.
  intros Hmono He (Hh & Hl & Hc & Sh & Sl). unfold queue_routed. cbn [wq_state] in *.
  assert (∀ l, Forall (routed h i) l → Forall (routed h' i) l ∧ Forall (λ x, before x e) l) as Hf.
  { intros l Hall. split; (eapply Forall_impl; [exact Hall|]); intros x Hx; by destruct (Hmono x Hx). }
  destruct (Hf _ Hh) as [Hh' Bh], (Hf _ Hl) as [Hl' Bl].
  assert (map_Forall (λ _ x, routed h' i x) (coalesced p)) as Hc'.
  { intros k x Hx. apply Hmono. by apply (Hc k). }
  assert (∀ l, Forall (routed h' i) l → Forall (routed h' i) (push l e)) as Hpush.
  { intros l ?. apply Forall_app. split; [done|by constructor]. }
  unfold pq_push. destruct (priority (event e)); [case_decide| |case_decide]; intros [= <- <-]; simpl;
    split_and!; auto using sorted_snoc, Forall_tail, sorted_tail.
  by apply map_Forall_insert_2.
Qed.

Lemma queue_routed_mono h h' i q :
  (∀ x, routed h i x → routed h' i x) → queue_routed h i q → queue_routed h' i q.
Proof.
  intros Hmono. unfold queue_routed. destruct (wq_state q) as [|p]; [done|]. intros (Hh & Hl & Hc & Sh & Sl).
  split_and!; try done; [by eapply Forall_impl..|]. intros k x Hx. by apply Hmono, (Hc k).
Qed.

Lemma unsequenced_routed h i e : sequenced e = false → routed h i e ∧ ∀ x, before x e.
Proof. intros He. unfold routed, before. rewrite He. done. Qed.

Lemma queue_routed_state h i q q' : wq_state q' = wq_state q → queue_routed h i q → queue_routed h i q'.
Proof. unfold queue_routed. by intros ->. Qed.

Lemma design_push_routed h h' i e q o d :
  (∀ x, routed h i x → routed h' i x ∧ before x e) → routed h' i e →
  queue_routed h i q → design_push e (wq_state q) = (o, d) → queue_routed h' i (set_state d q).
Proof.
  intros Hmono He Hq. destruct q as [[|p] b c fs]; [done|]. simpl. destruct (pq_push e p) as [o' p'] eqn:Hp.
  intros [= <- <-]. by eapply pq_push_routed.
Qed.

Lemma wq_push_routed h h' i e q :
  (∀ x, routed h i x → routed h' i x ∧ before x e) → routed h' i e →
  queue_routed h i q → queue_routed h' i (wq_push e q).2.
Proof.
  intros Hmono He Hq. unfold wq_push. destruct (wq_closed q).
  { apply (queue_routed_state _ _ q); [by apply (record_if_resolvable_failures 0)|].
    eapply queue_routed_mono; [|done]. intros x Hx. by apply Hmono. }
  destruct (design_push e (wq_state q)) as [o d] eqn:Hd. pose proof (design_push_routed _ _ _ _ _ _ _ Hmono He Hq Hd) as Hq1.
  case_decide; [|done]. cbn [snd]. set (q1 := record_if_resolvable _ _ _).
  assert (queue_routed h' i q1) as Hq2.
  { apply (queue_routed_state _ _ (set_state d q)); [|done].
    unfold q1. by rewrite (proj2 (record_if_resolvable_failures 0 _ _ _)). }
  destruct (design_push (overload_notice e) (wq_state q1)) as [o2 d2] eqn:Hd2. cbn [snd].
  destruct (unsequenced_routed h' i (overload_notice e)) as [Hr Hb]; [done|].
  eapply design_push_routed; [|done|exact Hq2|exact Hd2]. intros x Hx. split; [done|apply Hb].
Qed.

Lemma wait_for_batch_routed h i q : queue_routed h i q → queue_routed h i (wait_for_batch q).2.
Proof.
  destruct q as [[|p] b c fs]; [done|]. intros (Hh & Hl & Hc & Sh & Sl). unfold wait_for_batch.
  destruct (_ || _); [|by split_and!]. cbn [wq_state design_drain]. unfold pq_drain.
  destruct (drain_coalesced_Forall _ (coalesce_order p) _ Hc) as [_ Hm].
  destruct (drain_coalesced _ _) as [mid m]. cbn [snd] in *. split_and!; simpl; (done || constructor).
Qed.

(** Being routed depends on the number of queues and the counters only. *)
Lemma routed_same h h' :
  length (queues h') = length (queues h) → per_bot_seq h' = per_bot_seq h → ∀ i x, routed h i x ↔ routed h' i x.
Proof. intros Hl Hs i x. unfold routed, worker_index_for, seq_of. by rewrite Hl, Hs. Qed.

Lemma all_routed_update h h' (f : nat → WQ → WQ) :
  length (queues h') = length (queues h) → per_bot_seq h' = per_bot_seq h →
  (∀ i q', queues h' !! i = Some q' → ∃ q, queues h !! i = Some q ∧ (q' = q ∨ q' = f i q)) →
  (∀ i q, queue_routed h i q → queue_routed h i (f i q)) → all_routed h → all_routed h'.
Proof.
  intros Hl Hs Hq Hf Hall i q' Hi. destruct (Hq i q' Hi) as (q & Hiq & Hcase).
  apply (queue_routed_mono h); [by intros x; apply routed_same|]. destruct Hcase as [->| ->]; [by apply Hall|].
  by apply Hf, Hall.
Qed.

Lemma push_to_routed h h1 i e o h2 :
  all_routed h → queues h1 = queues h → (∀ j x, routed h j x → routed h1 j x) →
  (∀ x, routed h i x → before x e) → routed h1 i e → push_to i e h1 = Some (o, h2) → all_routed h2.
Proof.
  intros Hall Hqs Hmono Hbefore He. unfold push_to. rewrite Hqs. intros (q & Hi & Heq)%bind_Some.
  pose proof (wq_push_routed h h1 i e q) as Hpush. destruct (wq_push e q) as [o' q']. simplify_eq.
  assert (∀ j x, routed h1 j x → routed (set_queues (<[i := q']> (queues h1)) h1) j x) as Hsame.
  { intros j x. apply routed_same; simpl; [by rewrite length_insert|done]. }
  rewrite Hqs in Hsame. intros j qj. simpl. destruct (decide (j = i)) as [->|Hne].
  - rewrite list_lookup_insert_eq by by apply lookup_lt_Some in Hi. intros [= <-].
    apply (queue_routed_mono h1); [by apply Hsame|]. apply Hpush; [|done|by apply Hall].
    intros x Hx. split; [by apply Hmono|by apply Hbefore].
  - rewrite list_lookup_insert_ne by done. intros Hj. apply (queue_routed_mono h1); [by apply Hsame|].
    apply (queue_routed_mono h); [by apply Hmono|by apply Hall].
Qed.

Lemma seq_of_next bot b h :
  seq_of b (next_bot_seq bot h).2 = if decide (b = bot) then seq_of bot h + 1 else seq_of b h.
Proof.
  unfold seq_of at 1. cbn [next_bot_seq snd per_bot_seq]. case_decide as Hb.
  - subst b. by rewrite lookup_insert_eq.
  - by rewrite lookup_insert_ne.
Qed.

Lemma next_bot_seq_routed bot h i x : routed h i x → routed (next_bot_seq bot h).2 i x.
Proof.
  unfold routed. intros Hx Hs. destruct (Hx Hs) as (Hi & Hseq). split; [done|].
  rewrite seq_of_next. case_decide as Hb; [rewrite Hb in Hseq|]; lia.
Qed.

Lemma dispatch_sequenced_routed bot item now h o h' :
  all_routed h → 0 ≤ seq_of bot h → dispatch_sequenced bot item now h = Some (o, h') → all_routed h'.
Proof.
  intros Hall Hpos. unfold dispatch_sequenced. destruct (next_bot_seq bot h) as [seq h1] eqn:Hn.
  assert (seq = seq_of bot h + 1) as Hseq by (unfold next_bot_seq in Hn; by simplify_eq).
  assert (h1 = (next_bot_seq bot h).2) as Hh1 by by rewrite Hn.
  apply (push_to_routed h); [done|by rewrite Hh1|by intros; rewrite Hh1; apply next_bot_seq_routed| |].
  - intros x Hx Hs _ Hb. destruct (Hx Hs) as [_ [_ Hle]]. cbn [bot_seq bot_id] in *. rewrite Hb in Hle. lia.
  - intros _. cbn [bot_id bot_seq]. rewrite Hh1, seq_of_next, decide_True by done. split; [done|lia].
Qed.

(** The handle between calls. *)
Record handle_ok (n : nat) (h : DispatcherHandle) : Prop := {
  hok_count : length (queues h) = n;
  hok_routed : all_routed h;
  hok_seq : ∀ bot, 0 ≤ seq_of bot h;
}.

(** Worker indices that exist. *)
Definition op_in_range (n : nat) (o : handle_op) : Prop :=
  match o with HResult origin _ _ => (origin < n)%nat | HDrain i => (i < n)%nat | _ => True end.

Lemma worker_index_lt n h bot : (0 < n)%nat → length (queues h) = n → (worker_index_for bot h < n)%nat.
Proof.
  intros Hn Hl. unfold worker_index_for. rewrite Hl. pose proof (Z.mod_pos_bound bot (Z.of_nat n) ltac:(lia)). lia.
Qed.

(** Indexing within the queues does not panic. *)
Lemma push_to_total i e h : (i < length (queues h))%nat →
  ∃ o h', push_to i e h = Some (o, h') ∧ length (queues h') = length (queues h) ∧ per_bot_seq h' = per_bot_seq h.
Proof.
  intros [q Hq]%lookup_lt_is_Some. unfold push_to. rewrite Hq. simpl. destruct (wq_push e q) as [o q'].
  eexists _, _. split_and!; [done|apply length_insert|done].
Qed.

Lemma push_unsequenced_ok n i e h :
  (i < n)%nat → handle_ok n h → sequenced e = false →
  ∃ o h', push_to i e h = Some (o, h') ∧ handle_ok n h'.
Proof.
  intros Hi [Hn Hr Hs] He. destruct (push_to_total i e h) as (o & h' & Hp & Hl & Hb); [lia|].
  destruct (unsequenced_routed h i e He) as [Hre Hbe]. exists o, h'. split; [done|].
  split; [lia| |intros bot; unfold seq_of; rewrite Hb; apply Hs].
  eapply (push_to_routed h h); [done|done|done| |exact Hre|exact Hp]. auto.
Qed.

Lemma dispatch_sequenced_ok n bot item now h :
  (0 < n)%nat → handle_ok n h → ∃ o h', dispatch_sequenced bot item now h = Some (o, h') ∧ handle_ok n h'.
Proof.
  intros Hn0 [Hn Hr Hs]. pose proof (worker_index_lt n h bot Hn0 Hn) as Hidx.
  destruct (push_to_total (worker_index_for bot h) (mkEnvelope bot item now (seq_of bot h + 1)) (next_bot_seq bot h).2)
    as (o & h' & Hp & Hl & Hb); [simpl; lia|].
  assert (dispatch_sequenced bot item now h = Some (o, h')) as Hd by done.
  exists o, h'. split; [done|]. split; [simpl in Hl; lia| |].
  - by eapply dispatch_sequenced_routed.
  - intros b. unfold seq_of. rewrite Hb. fold (seq_of b (next_bot_seq bot h).2). rewrite seq_of_next.
    pose proof (Hs b). pose proof (Hs bot). case_decide; lia.
Qed.

Lemma map_queues_ok n h (f : WQ → WQ) :
  (∀ i q, queue_routed h i q → queue_routed h i (f q)) → handle_ok n h → handle_ok n (set_queues (map f (queues h)) h).
Proof.
  intros Hf [Hn Hr Hs]. split; [simpl; by rewrite length_map| |done].
  apply (all_routed_update h _ (λ _, f)); [simpl; by rewrite length_map|done| |done|done].
  intros i q' Hi. simpl in Hi. rewrite list_lookup_fmap in Hi. destruct (queues h !! i) as [q|]; [|done].
  simplify_eq/=. eauto.
Qed.

Lemma run_handle_op_ok n o h :
  (0 < n)%nat → op_in_range n o → handle_ok n h → ∃ h', run_handle_op o h = Some h' ∧ handle_ok n h'.
Proof.
  intros Hn0 Ho Hok. pose proof (hok_count _ _ Hok) as Hn. destruct o as [bot ev now|bot t now|origin r now|topic payload now|i|]; simpl in *.
  - unfold dispatch_bot_event. destruct (dispatch_sequenced_ok n bot (BotItem ev) now h Hn0 Hok) as (o & h' & -> & ?). eauto.
  - unfold dispatch_timer. destruct (dispatch_sequenced_ok n bot (TimerFired t) now h Hn0 Hok) as (o & h' & -> & ?). eauto.
  - unfold dispatch_action_result, push_action_result. pose proof (worker_index_lt n h (result_bot r) Hn0 Hn) as Hidx.
    destruct (push_unsequenced_ok n _ (mkEnvelope (result_bot r) (ActionResultItem r) now 0) h Hidx Hok eq_refl) as (o & h1 & -> & Hok1).
    case_decide; simpl; [eauto|].
    destruct (push_unsequenced_ok n origin (mkEnvelope (result_bot r) (CallbackCompletion r) now 0) h1 Ho Hok1 eq_refl) as (o2 & h2 & -> & ?). eauto.
  - eexists. split; [done|]. apply map_queues_ok; [|done]. intros i q Hq.
    destruct (unsequenced_routed h i (mkEnvelope 0 (Message topic payload) now 0)) as [Hr Hb]; [done|].
    apply (wq_push_routed h); [|done|done]. intros x Hx. split; [done|apply Hb].
  - assert (is_Some (queues h !! i)) as [q Hq] by (apply lookup_lt_is_Some; lia). unfold drain_worker. rewrite Hq. simpl.
    destruct (wait_for_batch q) as [b q'] eqn:Hw. eexists. split; [done|]. simpl.
    split; [simpl; by rewrite length_insert| |apply (hok_seq _ _ Hok)].
    apply (all_routed_update h _ (λ _ q, (wait_for_batch q).2)); [simpl; by rewrite length_insert|done| |apply wait_for_batch_routed|apply (hok_routed _ _ Hok)].
    intros j qj. simpl. destruct (decide (j = i)) as [->|Hne].
    + rewrite list_lookup_insert_eq by by apply lookup_lt_Some in Hq. intros [= <-]. exists q. split; [done|]. right. by rewrite Hw.
    + rewrite list_lookup_insert_ne by done. eauto.
  - eexists. split; [done|]. apply map_queues_ok; [|done]. done.
Qed.

Lemma handle_new_ok n hc lc : handle_ok n (handle_new (replicate n (wq_new (new_priority hc lc)))).
Proof.
  split; [apply length_replicate| |done]. intros i q [-> _]%lookup_replicate_1.
  split_and!; simpl; (apply map_Forall_empty || constructor).
Qed.

Lemma run_handle_ok n ops h :
  (0 < n)%nat → Forall (op_in_range n) ops → handle_ok n h → ∃ h', run_handle ops h = Some h' ∧ handle_ok n h'.
Proof.
  intros Hn Hops. revert h. induction Hops as [|o ops Ho Hops IH]; intros h Hok; simpl; [eauto|].
  destruct (run_handle_op_ok n o h Hn Ho Hok) as (h1 & -> & Hok1). by apply IH.
Qed.
End routing.
Arguments DispatcherHandle : clear implicits.
Arguments handle_op : clear implicits.

(** ** Properties *)

(** C40. A bot has one worker, and its items keep their order.  Whatever is
    dispatched, drained or closed, no call on an existing worker panics, and
    in every queue the numbered items (events and timers) are those of the
    bots assigned to that worker, carry numbers already given out, and stand
    in the critical and in the low lane in the order of their numbers; so no
    two workers ever handle one bot's events, and none sees them reordered
    within a lane. *)
Theorem dispatch_routes_in_order {J Slot SharedValue} (n hc lc : nat) (ops : list (handle_op J Slot SharedValue)) :
  (0 < n)%nat → Forall (op_in_range n) ops →
  ∃ h, run_handle ops (handle_new (replicate n (wq_new (new_priority hc lc)))) = Some h
    ∧ length (queues h) = n ∧ all_routed h.
Proof.
  intros Hn Hops. destruct (run_handle_ok n ops _ Hn Hops (handle_new_ok n hc lc)) as (h & Hrun & [Hc Hr _]).
  by exists h.
Qed.

(** A bot of each worker; the second one is told of its death while the first
    worker's script waits for one of its actions. *)
Definition sample_dispatch : list (handle_op unit unit unit) :=
  [HBot 4 Connected 0; HBot 5 Connected 1; HBot 5 Death 2; HTimer 5 77 3;
   HResult 0 (mkActionResult 9 5 DeliveredSent) 4; HBroadcast "hello" tt 5; HDrain 0; HBot 4 Death 6].

Lemma dispatch_routes_in_order_witness :
  ∃ h, run_handle sample_dispatch (handle_new (replicate 2 (wq_new (new_priority 4 4)))) = Some h
    ∧ length (queues h) = 2%nat ∧ all_routed h.
Proof.
  apply (dispatch_routes_in_order 2 4 4 sample_dispatch); [lia|].
  repeat (constructor; [simpl; lia || exact I|]). constructor.
Defined.

(** The completion reached the owner (worker 1) and the caller (worker 0). *)
Example sample_dispatch_queues :
  (λ h : DispatcherHandle unit unit unit, map (λ q, map item_name (map event (design_drain (wq_state q)).1)) (queues h))
    <$> run_handle (take 5 sample_dispatch) (handle_new (replicate 2 (wq_new (new_priority 4 4))))
  = Some [["connected"; "callback_completion"]; ["connected"; "death"; "action_result"; "timer"]]%string.
Proof. vm_compute. reflexivity. Qed.
