(* ===== verification/Worker.v ===== *)
(** * A script worker

    [src/lua/worker.rs] and [src/lua/api/timers.rs]: what one worker thread
    does with the batches of its queue (how they get there is [Dispatcher]):
    handlers of events, one-shot callbacks of actions, subscriptions, timers,
    and the accounting of errors that disables a bot's script.

    The Lua machine is a parameter: [call] says what a function does when it
    is called, the calls of the API it makes ([ApiCall]) and whether it ends
    in an error; it may depend on everything the worker holds.  A registry key
    is the function it keeps alive.  Conversions of values to Lua, which fail
    only for want of memory, are not modelled.  Times are in nanoseconds. *)

From S2P Require Import Prelude Machine Text Scoreboard Inventory Presentation Hud Queue Event.

Local Open Scope Z_scope.

Definition MAX_PENDING_CALLBACKS : nat := 4096.
Definition MAX_TIMERS_PER_WORKER : nat := 1024.
Definition MIN_TIMER_INTERVAL : Z := 10000000.
Definition MAX_TOPIC_LEN : nat := 256.

(** The names a script can register a handler for. *)
Definition EVENT_NAMES : list string :=
  ["connecting"; "connected"; "disconnected"; "reconnect_scheduled"; "retry_started"; "retries_exhausted"; "stopped"; "kicked";
   "login"; "spawned"; "death"; "health"; "chat"; "system_chat"; "player_joined"; "player_left"; "player_updated";
   "entity_spawned"; "entity_removed"; "time"; "weather"; "presentation"; "action_bar"; "title"; "boss_bar"; "scoreboard";
   "team"; "hud"; "gui_opened"; "gui_closed"; "inventory"; "action_result"; "worker_overload"; "script_error";
   "script_disabled"]%string.
Definition intern_event_name (name : string) : option string := List.find (String.eqb name) EVENT_NAMES.

Section worker.
Context {J Slot SharedValue : Type}.
Abbreviation Item := (WorkItem J Slot SharedValue).
Abbreviation Env := (Envelope Item).
(** Lua functions, and the state of the machine and of the world around it. *)
Context {Fn L : Type}.

(** ** State *)

Record Handler : Type := mkHandler { h_id : Z; h_fn : Fn; h_once : bool }.
Record HandlerRegistry : Type := mkRegistry {
  reg_global : gmap string (list Handler);
  reg_per_bot : gmap (Z * string) (list Handler);
  reg_next_id : Z;
}.
Record PendingCallback : Type := mkCallback { cb_fn : Fn; cb_bot : Z; cb_registered_at : Z }.
Record TimerEntry : Type := mkTimer { tm_fn : Fn; tm_interval : option Z; tm_next_fire : Z; tm_bot : option Z }.
Record TimerRegistry : Type := mkTimers { tm_entries : gmap Z TimerEntry; tm_next_id : Z }.
Record WorkerReport : Type := mkReport { events_processed : Z; handlers_run : Z; handler_errors : Z; bots_disabled : Z }.

(** What a function is called with. *)
Inductive Args : Type :=
  | ArgEvent (bot : Z) (e : BotEvent J Slot)
  | ArgActionResult (bot : Z) (r : ActionResult)
  | ArgResult (r : ActionResult)
  | ArgMessage (topic : string) (payload : SharedValue)
  | ArgOverload
  | ArgTimer.

(** Why it is called. *)
Inductive Source : Type :=
  | SrcHandler (id : Z)
  | SrcCallback (request : Z)
  | SrcMessage (id : Z)
  | SrcTimer (id : Z) (bot : option Z).

(** A record of what happened, kept for the theorems only. *)
Inductive Entry : Type :=
  | Registered (request : Z)
  | Replaced (request : Z)
  | Evicted (request : Z)
  | Invoked (src : Source) (args : Args) (ok : bool).

(** [borrowed] is the [RefCell] of the callbacks: set while a mutable borrow
    of it is alive. *)
Record WorkerState : Type := mkWorker {
  handlers : HandlerRegistry;
  pending : gmap Z PendingCallback;
  borrowed : bool;
  disabled_bots : gset Z;
  consecutive_errors : gmap Z Z;
  pubsub : gmap string (list Handler);
  timers : TimerRegistry;
  report : WorkerReport;
  vm : L;
  log : list Entry;
}.

Definition with_handlers x s := mkWorker x (pending s) (borrowed s) (disabled_bots s) (consecutive_errors s) (pubsub s) (timers s) (report s) (vm s) (log s).
Definition with_pending x s := mkWorker (handlers s) x (borrowed s) (disabled_bots s) (consecutive_errors s) (pubsub s) (timers s) (report s) (vm s) (log s).
Definition with_borrowed x s := mkWorker (handlers s) (pending s) x (disabled_bots s) (consecutive_errors s) (pubsub s) (timers s) (report s) (vm s) (log s).
Definition with_disabled x s := mkWorker (handlers s) (pending s) (borrowed s) x (consecutive_errors s) (pubsub s) (timers s) (report s) (vm s) (log s).
Definition with_errors x s := mkWorker (handlers s) (pending s) (borrowed s) (disabled_bots s) x (pubsub s) (timers s) (report s) (vm s) (log s).
Definition with_pubsub x s := mkWorker (handlers s) (pending s) (borrowed s) (disabled_bots s) (consecutive_errors s) x (timers s) (report s) (vm s) (log s).
Definition with_timers x s := mkWorker (handlers s) (pending s) (borrowed s) (disabled_bots s) (consecutive_errors s) (pubsub s) x (report s) (vm s) (log s).
Definition with_report x s := mkWorker (handlers s) (pending s) (borrowed s) (disabled_bots s) (consecutive_errors s) (pubsub s) (timers s) x (vm s) (log s).
Definition with_vm x s := mkWorker (handlers s) (pending s) (borrowed s) (disabled_bots s) (consecutive_errors s) (pubsub s) (timers s) (report s) x (log s).
Definition note (e : Entry) s := mkWorker (handlers s) (pending s) (borrowed s) (disabled_bots s) (consecutive_errors s) (pubsub s) (timers s) (report s) (vm s) (log s ++ [e]).

Definition worker_new (world : L) : WorkerState :=
  mkWorker (mkRegistry ∅ ∅ 0) ∅ false ∅ ∅ ∅ (mkTimers ∅ 0) (mkReport 0 0 0 0) world [].

Definition count_event s := with_report (let r := report s in mkReport (wrap 64 (events_processed r + 1)) (handlers_run r) (handler_errors r) (bots_disabled r)) s.
Definition count_run s := with_report (let r := report s in mkReport (events_processed r) (wrap 64 (handlers_run r + 1)) (handler_errors r) (bots_disabled r)) s.
Definition count_error s := with_report (let r := report s in mkReport (events_processed r) (handlers_run r) (wrap 64 (handler_errors r + 1)) (bots_disabled r)) s.
Definition count_disabled s := with_report (let r := report s in mkReport (events_processed r) (handlers_run r) (handler_errors r) (wrap 64 (bots_disabled r + 1))) s.

(** ** Registries *)

Definition register_global (name : string) (fn : Fn) (once : bool) (r : HandlerRegistry) : Z * HandlerRegistry :=
  let id := wrap 64 (reg_next_id r + 1) in
  (id, mkRegistry (<[name := default [] (reg_global r !! name) ++ [mkHandler id fn once]]> (reg_global r)) (reg_per_bot r) id).
Definition register_bot (bot : Z) (name : string) (fn : Fn) (once : bool) (r : HandlerRegistry) : Z * HandlerRegistry :=
  let id := wrap 64 (reg_next_id r + 1) in
  (id, mkRegistry (reg_global r) (<[(bot, name) := default [] (reg_per_bot r !! (bot, name)) ++ [mkHandler id fn once]]> (reg_per_bot r)) id).

(** The first handler with the id, in the first list that has one. *)
Definition remove_first (id : Z) (hs : list Handler) : list Handler :=
  match list_find (λ h, h_id h = id) hs with Some (i, _) => delete i hs | None => hs end.
Definition remove_from {K} `{Countable K} (id : Z) (m : gmap K (list Handler)) : option (gmap K (list Handler)) :=
  match list_find (λ kv, Exists (λ h, h_id h = id) kv.2) (map_to_list m) with
  | Some (_, (k, hs)) => Some (<[k := remove_first id hs]> m)
  | None => None
  end.
Definition registry_remove (id : Z) (r : HandlerRegistry) : bool * HandlerRegistry :=
  match remove_from id (reg_global r) with
  | Some m => (true, mkRegistry m (reg_per_bot r) (reg_next_id r))
  | None => match remove_from id (reg_per_bot r) with
            | Some m => (true, mkRegistry (reg_global r) m (reg_next_id r))
            | None => (false, r)
            end
  end.
Definition remove_handler_or_subscription (id : Z) s : bool * WorkerState :=
  let '(found, r) := registry_remove id (handlers s) in
  if found then (true, with_handlers r s)
  else match remove_from id (pubsub s) with
       | Some m => (true, with_pubsub m s)
       | None => (false, s)
       end.

(** ** What a script can do *)

(** [guarded] calls are made under [pcall], which catches a panic. *)
Inductive ApiCall : Type :=
  | ApiOn (name : string) (fn : Fn) (once : bool)
  | ApiOnBot (bot : Z) (name : string) (fn : Fn) (once : bool)
  | ApiOnMessage (topic : string) (fn : Fn)
  | ApiOff (id : Z)
  | ApiSetTimer (delay : Z) (interval : option Z) (fn : Fn)
  | ApiSetBotTimer (bot delay : Z) (interval : option Z) (fn : Fn)
  | ApiClearTimer (id : Z)
  | ApiClearBotTimer (id : Z)
  | ApiAction (guarded : bool) (bot request : Z) (callback : option Fn).

Inductive Panic : Type := AlreadyBorrowed.
Abbreviation W A := (M WorkerState Panic A).

(** [worker_index_for], this worker, its settings; what a function does; the
    clock; and the order in which a hash map is walked. *)
Context (owner_of : Z → nat) (worker_index : nat) (is_coordinator : bool)
        (consecutive_error_threshold callback_timeout : Z)
        (call : WorkerState → Fn → Args → list ApiCall * bool * L)
        (clock : WorkerState → Z)
        (arrange : WorkerState → list Z → list Z).

(** [timers::schedule]; the limit is an error of the script. *)
Definition schedule (fn : Fn) (delay : Z) (interval : option Z) (bot : option Z) s : WorkerState :=
  let delay := Z.max delay MIN_TIMER_INTERVAL in
  let interval := (λ i, Z.max i MIN_TIMER_INTERVAL) <$> interval in
  let t := timers s in
  if bool_decide (MAX_TIMERS_PER_WORKER ≤ size (tm_entries t))%nat then s
  else
    let id := wrap 64 (tm_next_id t + 1) in
    with_timers (mkTimers (<[id := mkTimer fn interval (clock s + delay) bot]> (tm_entries t)) id) s.
Definition schedule_for_bot (bot : Z) (fn : Fn) (delay : Z) (interval : option Z) s : WorkerState :=
  if bool_decide (owner_of bot = worker_index) then schedule fn delay interval (Some bot) s else s.
Definition clear_timer (id : Z) s : WorkerState :=
  with_timers (mkTimers (delete id (tm_entries (timers s))) (tm_next_id (timers s))) s.

(** [register_callback]: at the limit the oldest goes. *)
Definition oldest (s : WorkerState) : option Z :=
  foldl (λ best id,
    match best, pending s !! id with
    | Some b, Some cb => match pending s !! b with
                         | Some cb' => if cb_registered_at cb <? cb_registered_at cb' then Some id else best
                         | None => best
                         end
    | None, Some _ => Some id
    | _, None => best
    end) None (arrange s (map fst (map_to_list (pending s)))).
Definition make_room s : WorkerState :=
  if bool_decide (MAX_PENDING_CALLBACKS ≤ size (pending s))%nat then
    match oldest s with Some id => note (Evicted id) (with_pending (delete id (pending s)) s) | None => s end
  else s.
Definition register_callback (bot request : Z) (fn : Fn) s : WorkerState :=
  let s := make_room s in
  let s := if bool_decide (is_Some (pending s !! request)) then note (Replaced request) s else s in
  note (Registered request) (with_pending (<[request := mkCallback fn bot (clock s)]> (pending s)) s).

Definition api (c : ApiCall) : W unit :=
  match c with
  | ApiOn name fn once =>
      match intern_event_name name with
      | Some name => modify (λ s, with_handlers (register_global name fn once (handlers s)).2 s)
      | None => ret tt
      end
  | ApiOnBot bot name fn once =>
      match intern_event_name name with
      | Some name => modify (λ s, with_handlers (register_bot bot name fn once (handlers s)).2 s)
      | None => ret tt
      end
  | ApiOnMessage topic fn =>
      if (MAX_TOPIC_LEN <? String.length topic)%nat then ret tt
      else modify (λ s,
        let r := handlers s in
        let id := wrap 64 (reg_next_id r + 1) in
        with_pubsub (<[topic := default [] (pubsub s !! topic) ++ [mkHandler id fn false]]> (pubsub s))
          (with_handlers (mkRegistry (reg_global r) (reg_per_bot r) id) s))
  | ApiOff id => modify (λ s, (remove_handler_or_subscription id s).2)
  | ApiSetTimer delay interval fn => if is_coordinator then modify (schedule fn delay interval None) else ret tt
  | ApiSetBotTimer bot delay interval fn => modify (schedule_for_bot bot fn delay interval)
  | ApiClearTimer id => if is_coordinator then modify (clear_timer id) else ret tt
  | ApiClearBotTimer id => modify (clear_timer id)
  | ApiAction guarded bot request callback =>
      match callback with
      | None => ret tt
      | Some fn =>
          let* b := gets borrowed in
          if b then (if guarded then ret tt else raise AlreadyBorrowed)
          else modify (register_callback bot request fn)
      end
  end.

(** ** Running functions *)

(** [invoke_top_level], which every call goes through: whether it succeeded. *)
Definition invoke_top_level (src : Source) (fn : Fn) (args : Args) : W bool :=
  let* outcome := gets (λ s, call s fn args) in
  let '(calls, ok, world) := outcome in
  modify (λ s, note (Invoked src args ok) (with_vm world s)) ;;;
  iter_m api calls ;;;
  ret ok.

Definition record_bot_handler_outcome (bot : Z) (succeeded : bool) : W unit :=
  modify (λ s,
    if succeeded then with_errors (delete bot (consecutive_errors s)) s
    else
      let count := wrap 32 (default 0 (consecutive_errors s !! bot) + 1) in
      let s := with_errors (<[bot := count]> (consecutive_errors s)) s in
      if consecutive_error_threshold <=? count then count_disabled (with_disabled ({[bot]} ∪ disabled_bots s) s) else s).

(** Takes a pending callback and calls it. The borrow taken to remove it lasts
    to the end of the [if let]; the counts are kept at shutdown only. *)
Definition fire_callback (counted : bool) (request : Z) (outcome : ActionOutcome) : W unit :=
  let* cb := gets (λ s, pending s !! request) in
  match cb with
  | None => ret tt
  | Some cb =>
      modify (λ s, with_borrowed true (with_pending (delete request (pending s)) s)) ;;;
      modify (λ s, if counted then count_run s else s) ;;;
      let* ok := invoke_top_level (SrcCallback request) (cb_fn cb) (ArgResult (mkActionResult request (cb_bot cb) outcome)) in
      modify (λ s, if counted && negb ok then count_error s else s) ;;;
      modify (with_borrowed false)
  end.

(** [resolve_callback]: the result is passed on as it came. *)
Definition resolve_callback (r : ActionResult) : W unit :=
  let* cb := gets (λ s, pending s !! request_id r) in
  match cb with
  | None => ret tt
  | Some cb =>
      modify (λ s, with_borrowed true (with_pending (delete (request_id r) (pending s)) s)) ;;;
      invoke_top_level (SrcCallback (request_id r)) (cb_fn cb) (ArgResult r) ;;;
      modify (with_borrowed false)
  end.

(** One handler of a snapshot; whether any failed. *)
Definition run_one (args : Args) (h : Handler) : W bool :=
  modify count_run ;;;
  let* ok := invoke_top_level (SrcHandler (h_id h)) (h_fn h) args in
  modify (λ s, if ok then s else count_error s) ;;;
  ret ok.
Fixpoint run_all (args : Args) (hs : list Handler) : W bool :=
  match hs with
  | [] => ret true
  | h :: hs =>
      let* ok := run_one args h in
      let* rest := run_all args hs in
      ret (ok && rest)
  end.
Definition remove_once (hs : list Handler) : W unit :=
  modify (λ s, foldl (λ s h, if h_once h then with_handlers (registry_remove (h_id h) (handlers s)).2 s else s) s hs).

Definition global_of (name : string) s : list Handler := default [] (reg_global (handlers s) !! name).
Definition per_bot_of (bot : Z) (name : string) s : list Handler := default [] (reg_per_bot (handlers s) !! (bot, name)).

Definition run_global_handlers_for (name : string) : W unit :=
  let* hs := gets (global_of name) in
  run_all ArgOverload hs ;;;
  remove_once hs.

Definition run_handlers_for (bot : Z) (name : string) (args : Args) : W unit :=
  let* hs := gets (λ s, per_bot_of bot name s ++ global_of name s) in
  let* ok := run_all args hs in
  remove_once hs ;;;
  match hs with [] => ret tt | _ => record_bot_handler_outcome bot ok end.

(** ** Timers *)

Definition fire_one (id : Z) : W unit :=
  let* entry := gets (λ s, tm_entries (timers s) !! id) in
  match entry with
  | None => ret tt
  | Some e =>
      let* disabled := gets disabled_bots in
      if match tm_bot e with Some bot => bool_decide (bot ∈ disabled) | None => false end then ret tt
      else
        modify count_run ;;;
        let* ok := invoke_top_level (SrcTimer id (tm_bot e)) (tm_fn e) ArgTimer in
        modify (λ s, if ok then s else count_error s) ;;;
        match tm_bot e with Some bot => record_bot_handler_outcome bot ok | None => ret tt end ;;;
        modify (λ s,
          match tm_interval e with
          | Some interval =>
              with_timers (mkTimers (alter (λ e, mkTimer (tm_fn e) (tm_interval e) (clock s + interval) (tm_bot e)) id (tm_entries (timers s)))
                (tm_next_id (timers s))) s
          | None => clear_timer id s
          end)
  end.

Definition fire_due : W unit :=
  let* due := gets (λ s, arrange s (map fst (List.filter (λ kv, tm_next_fire kv.2 <=? clock s) (map_to_list (tm_entries (timers s)))))) in
  iter_m fire_one due.

(** ** The loop *)

Definition dispatch_one (envelope : Env) : W unit :=
  let bot := bot_id envelope in
  match event envelope with
  | BotItem e =>
      let* disabled := gets disabled_bots in
      if bool_decide (bot ∈ disabled) then ret tt else run_handlers_for bot (bot_event_name e) (ArgEvent bot e)
  | ActionResultItem r => resolve_callback r ;;; run_handlers_for bot "action_result" (ArgActionResult bot r)
  | CallbackCompletion r => resolve_callback r
  | Message topic payload =>
      let* hs := gets (λ s, default [] (pubsub s !! topic)) in
      iter_m (λ h,
        modify count_run ;;;
        let* ok := invoke_top_level (SrcMessage (h_id h)) (h_fn h) (ArgMessage topic payload) in
        modify (λ s, if ok then s else count_error s)) hs
  | TimerFired id => fire_one id
  | ScriptErrorItem _ _ | ScriptDisabled _ => ret tt
  | WorkerOverloaded => run_global_handlers_for "worker_overload"
  end.

Definition resolve_overflowed_callbacks (failed : list (Z * ScriptError)) : W unit :=
  iter_m (λ f, fire_callback false f.1 (ActError f.2)) failed.

Definition timed_out : ScriptError := mkScriptError "inventory_timeout" "action callback timed out waiting for a result" false None None.
Definition sweep_callback_timeouts : W unit :=
  let* expired := gets (λ s, arrange s (map fst (List.filter (λ kv, callback_timeout <? Z.max 0 (clock s - cb_registered_at kv.2)) (map_to_list (pending s))))) in
  iter_m (λ id, fire_callback false id (ActError timed_out)) expired.

(** One turn: what the queue handed out, and how the world went on meanwhile. *)
Record Turn : Type := mkTurn { turn_batch : list Env; turn_failed : list (Z * ScriptError); turn_pass : L → L }.

Definition worker_turn (t : Turn) : W unit :=
  modify (λ s, with_vm (turn_pass t (vm s)) s) ;;;
  iter_m (λ e, modify count_event ;;; dispatch_one e) (turn_batch t) ;;;
  resolve_overflowed_callbacks (turn_failed t) ;;;
  sweep_callback_timeouts ;;;
  fire_due.

Definition shutdown_cleanup : W unit :=
  let* ids := gets (λ s, arrange s (map fst (map_to_list (pending s)))) in
  iter_m (λ id, fire_callback true id (ActError shutdown_error)) ids ;;;
  modify (λ s, foldl (λ s id, clear_timer id s) s (arrange s (map fst (map_to_list (tm_entries (timers s)))))).

(** The loop of [run_worker], its turns until it is told to stop, and what
    follows it. *)
Definition worker_loop (turns : list Turn) : W unit := iter_m worker_turn turns ;;; shutdown_cleanup.

(** [run_worker]: the script is loaded, which runs it from top to bottom; when
    it fails the worker ends at once. Whether the loop was run. *)
Definition run_worker (script : WorkerState → list ApiCall * bool * L) (turns : list Turn) : W bool :=
  let* outcome := gets script in
  let '(calls, ok, world) := outcome in
  modify (with_vm world) ;;;
  iter_m api calls ;;;
  if (ok : bool) then worker_loop turns ;;; ret true else ret false.

(** ** Callbacks are accounted for *)

Implicit Types (s : WorkerState) (r : Z).

Definition tally (p : Entry → bool) s : nat := length (List.filter p (log s)).
Definition is_start r (e : Entry) : bool := match e with Registered r' => r' =? r | _ => false end.
Definition is_end r (e : Entry) : bool :=
  match e with Replaced r' | Evicted r' | Invoked (SrcCallback r') _ _ => r' =? r | _ => false end.
Definition waiting r s : nat := if bool_decide (is_Some (pending s !! r)) then 1 else 0.

(** Every registration has ended, once, or is still waiting. *)
Definition balanced r s : Prop := tally (is_start r) s = (tally (is_end r) s + waiting r s)%nat.
Definition stays_balanced s s' : Prop := ∀ r, balanced r s → balanced r s'.
#[local] Instance stays_balanced_preorder : PreOrder stays_balanced.
Proof. split; [by intros s r|]. intros s1 s2 s3 H1 H2 r H. by apply H2, H1. Qed.

Lemma preserves_modify (R : WorkerState → WorkerState → Prop) (f : WorkerState → WorkerState) :
  (∀ s, R s (f s)) → preserves R (modify f : W unit).
Proof. intros H s. apply H. Qed.
Lemma preserves_iter {A} (R : WorkerState → WorkerState → Prop) `{!PreOrder R} (m : A → W unit) xs :
  (∀ x, preserves R (m x)) → preserves R (iter_m m xs).
Proof.
  intros H. induction xs as [|x xs IH]; simpl; [by apply preserves_ret; apply _|]. by apply preserves_bind; [apply _|..].
Qed.
(** Steps that touch neither the callbacks nor the log. *)
Lemma stays_same s s' : log s' = log s → pending s' = pending s → stays_balanced s s'.
Proof. intros Hl Hp r. unfold balanced, tally, waiting. by rewrite Hl, Hp. Qed.
Lemma tally_note p e s : tally p (note e s) = (tally p s + if p e then 1 else 0)%nat.
Proof. unfold tally. cbn [note log]. rewrite List.filter_app, length_app. simpl. by destruct (p e). Qed.
Lemma tally_pending p m s : tally p (with_pending m s) = tally p s.
Proof. done. Qed.
Lemma stays_noted s src args ok : (∀ r, src ≠ SrcCallback r) → stays_balanced s (note (Invoked src args ok) s).
Proof.
  intros Hsrc r. unfold balanced, waiting. rewrite !tally_note. cbn [note pending]. simpl.
  destruct src; try by rewrite !Nat.add_0_r. by destruct (Hsrc request).
Qed.

Lemma evict_balanced id s : is_Some (pending s !! id) → stays_balanced s (note (Evicted id) (with_pending (delete id (pending s)) s)).
Proof.
  intros Hid r. unfold balanced. rewrite !tally_note. unfold waiting. cbn [note pending with_pending is_start is_end].
  destruct (Z.eqb_spec id r) as [<-|Hne].
  - rewrite lookup_delete_eq, bool_decide_eq_true_2, bool_decide_eq_false_2 by (done || by intros []).
    unfold tally. simpl. lia.
  - rewrite lookup_delete_ne by done. unfold tally. simpl. lia.
Qed.

Lemma oldest_pending s id : oldest s = Some id → is_Some (pending s !! id).
Proof.
  unfold oldest. generalize (arrange s (map fst (map_to_list (pending s)))). intros ids.
  assert (∀ best, (∀ b, best = Some b → is_Some (pending s !! b)) →
    ∀ b, foldl (λ best id, match best, pending s !! id with
      | Some b, Some cb => match pending s !! b with
                           | Some cb' => if cb_registered_at cb <? cb_registered_at cb' then Some id else best
                           | None => best end
      | None, Some _ => Some id
      | _, None => best end) best ids = Some b → is_Some (pending s !! b)) as H; [|by apply H].
  induction ids as [|x ids IH]; simpl; intros best Hbest; [done|]. apply IH. intros b.
  destruct best as [b'|], (pending s !! x) eqn:Hx; try by (intros [= <-]; rewrite Hx) || apply Hbest.
  destruct (pending s !! b'); [|by apply Hbest]. destruct (_ <? _); [intros [= <-]; by rewrite Hx|by apply Hbest].
Qed.

Lemma register_balanced bot request fn s : stays_balanced s (register_callback bot request fn s).
Proof.
  unfold register_callback. etrans; [instantiate (1 := make_room s)|].
  - unfold make_room. case_bool_decide; [|done]. destruct (oldest s) eqn:Ho; [|done]. by apply evict_balanced, oldest_pending.
  - generalize (make_room s). clear s. intros s r. unfold balanced. rewrite tally_note, (tally_note (is_end r)).
    unfold waiting. cbn [note pending with_pending is_start is_end].
    destruct (Z.eqb_spec request r) as [<-|Hne].
    + rewrite lookup_insert_eq, (bool_decide_eq_true_2 (is_Some (Some _))) by done.
      case_bool_decide; rewrite !tally_pending, ?tally_note; simpl; rewrite ?Z.eqb_refl; lia.
    + rewrite lookup_insert_ne by done. rewrite !tally_pending.
      destruct (bool_decide (is_Some (pending s !! request))); [|lia].
      rewrite !tally_note. simpl. rewrite (proj2 (Z.eqb_neq _ _)) by done. lia.
Qed.

Lemma api_balanced c : preserves stays_balanced (api c).
Proof.
  destruct c; simpl; repeat case_match; try (apply preserves_ret; apply _);
    try (apply preserves_modify; intros st; apply stays_same; done).
  - apply preserves_modify. intros s. unfold remove_handler_or_subscription. destruct (registry_remove _ _) as [[] ?]; [by apply stays_same|].
    by destruct (remove_from id (pubsub s)); apply stays_same.
  - apply preserves_modify. intros s. unfold schedule. case_bool_decide; by apply stays_same.
  - apply preserves_modify. intros s. unfold schedule_for_bot, schedule. by repeat case_bool_decide; apply stays_same.
  - apply preserves_bind; [apply _|apply preserves_gets; apply _|]. intros [];
      [first [apply preserves_ret; apply _|apply preserves_raise; apply _]|apply preserves_modify; intros st; apply register_balanced].
  - apply preserves_bind; [apply _|apply preserves_gets; apply _|]. intros [];
      [first [apply preserves_ret; apply _|apply preserves_raise; apply _]|apply preserves_modify; intros st; apply register_balanced].
Qed.

Lemma invoke_balanced src fn args : (∀ r, src ≠ SrcCallback r) → preserves stays_balanced (invoke_top_level src fn args).
Proof.
  intros Hsrc. unfold invoke_top_level. apply preserves_bind; [apply _|apply preserves_gets; apply _|]. intros [[calls ok] world].
  apply preserves_bind; [apply _| |intros _; apply preserves_bind; [apply _|apply preserves_iter; [apply _|apply api_balanced]|intros _; apply preserves_ret; apply _]].
  apply preserves_modify. intros s. trans (with_vm world s); [by apply stays_same|by apply stays_noted].
Qed.

(** Taking a callback and calling it is one ending. *)
Lemma take_balanced r cb args ok world s :
  pending s !! r = Some cb →
  stays_balanced s (note (Invoked (SrcCallback r) args ok) (with_vm world (with_borrowed true (with_pending (delete r (pending s)) s)))).
Proof.
  intros Hr r'. unfold balanced. rewrite !tally_note. unfold waiting. cbn [note pending with_vm with_borrowed with_pending is_start is_end].
  change (tally ?p (with_vm _ _)) with (tally p s).
  destruct (Z.eqb_spec r r') as [<-|Hne].
  - rewrite Hr, lookup_delete_eq. rewrite bool_decide_eq_true_2, bool_decide_eq_false_2 by (done || by intros []). lia.
  - rewrite lookup_delete_ne by done. lia.
Qed.

Lemma invoke_eq src fn args s :
  invoke_top_level src fn args s
  = (iter_m api (call s fn args).1.1 ;;; ret (call s fn args).1.2)%eff (note (Invoked src args (call s fn args).1.2) (with_vm (call s fn args).2 s)).
Proof. unfold invoke_top_level, bind at 1, gets. by destruct (call s fn args) as [[calls ok] world]. Qed.

Ltac walk :=
  lazymatch goal with
  | |- preserves _ (bind _ _) => apply preserves_bind; [apply _|walk|intros ?; walk]
  | |- preserves _ (ret _) => apply preserves_ret; apply _
  | |- preserves _ (gets _) => apply preserves_gets; apply _
  | |- preserves _ (iter_m _ _) => apply preserves_iter; [apply _|intros ?; walk]
  | |- preserves _ (match ?x with _ => _ end) => destruct x; walk
  | |- _ => idtac
  end.
Ltac same_callbacks := apply preserves_modify; intros ?; apply stays_same; repeat case_match; done.

(** The rest of a callback, once it has been taken and its call noted. *)
Lemma taken_balanced {A} cb r args (k : bool → W A) s :
  pending s !! r = Some cb → (∀ ok, preserves stays_balanced (k ok)) →
  stays_balanced s ((let* ok := invoke_top_level (SrcCallback r) (cb_fn cb) args in k ok) (with_borrowed true (with_pending (delete r (pending s)) s))).2.
Proof.
  intros Hr Hk. set (s1 := with_borrowed _ _). unfold bind at 1. rewrite invoke_eq.
  set (s2 := note _ _). trans s2; [by apply take_balanced with (cb := cb)|].
  set (ok := (call s1 (cb_fn cb) args).1.2) in *. set (calls := (call s1 (cb_fn cb) args).1.1) in *.
  assert (preserves stays_balanced (let* o := (iter_m api calls ;;; ret ok) in k o)) as H by (walk; [apply api_balanced|apply Hk]).
  exact (H s2).
Qed.

Lemma fire_balanced counted r outcome : preserves stays_balanced (fire_callback counted r outcome).
Proof.
  intros s. unfold fire_callback, bind at 1, gets. destruct (pending s !! r) as [cb|] eqn:Hr; [|done].
  unfold bind at 1, modify at 1. unfold bind at 1, modify at 1. cbv beta iota.
  assert (∀ k : bool → W unit, (∀ ok, preserves stays_balanced (k ok)) →
    stays_balanced s ((let* ok := invoke_top_level (SrcCallback r) (cb_fn cb) (ArgResult (mkActionResult r (cb_bot cb) outcome)) in k ok)
      (if counted then count_run (with_borrowed true (with_pending (delete r (pending s)) s)) else with_borrowed true (with_pending (delete r (pending s)) s))).2) as H.
  { intros k Hk. destruct counted; [|by apply taken_balanced]. trans (count_run s); [by apply stays_same|].
    exact (taken_balanced cb r _ k (count_run s) Hr Hk). }
  apply H. intros ok. walk; same_callbacks.
Qed.

Lemma resolve_balanced (res : ActionResult) : preserves stays_balanced (resolve_callback res).
Proof.
  intros s. unfold resolve_callback, bind at 1, gets. destruct (pending s !! request_id res) as [cb|] eqn:Hr; [|done].
  unfold bind at 1, modify at 1. cbv beta iota. apply taken_balanced; [done|]. intros ok. same_callbacks.
Qed.

Lemma run_all_balanced args hs : preserves stays_balanced (run_all args hs).
Proof.
  induction hs as [|h hs IH]; cbn [run_all]; [walk|]. unfold run_one. walk; try done; try same_callbacks.
  by apply invoke_balanced.
Qed.
Lemma remove_once_balanced hs : preserves stays_balanced (remove_once hs).
Proof.
  apply preserves_modify. induction hs as [|h hs IH]; intros s; simpl; [done|]. etrans; [|apply IH].
  destruct (h_once h); [by apply stays_same|done].
Qed.
Lemma outcome_balanced bot ok : preserves stays_balanced (record_bot_handler_outcome bot ok).
Proof. apply preserves_modify. intros s. destruct ok; cbv zeta; [|destruct (_ <=? _)]; by apply stays_same. Qed.
Lemma fire_one_balanced id : preserves stays_balanced (fire_one id).
Proof. unfold fire_one. walk; try apply outcome_balanced; try same_callbacks; by apply invoke_balanced. Qed.

Lemma dispatch_balanced e : preserves stays_balanced (dispatch_one e).
Proof.
  unfold dispatch_one, run_handlers_for, run_global_handlers_for. destruct (event e); walk;
    try apply run_all_balanced; try apply remove_once_balanced; try apply resolve_balanced; try apply fire_one_balanced;
    try apply outcome_balanced; try same_callbacks; by apply invoke_balanced.
Qed.

Lemma turn_balanced t : preserves stays_balanced (worker_turn t).
Proof.
  unfold worker_turn, resolve_overflowed_callbacks, sweep_callback_timeouts, fire_due.
  walk; try apply dispatch_balanced; try apply fire_balanced; try apply fire_one_balanced; same_callbacks.
Qed.

Lemma clear_all_balanced ids s : stays_balanced s (foldl (λ s id, clear_timer id s) s ids).
Proof. revert s. induction ids as [|id ids IH]; intros s; simpl; [done|]. etrans; [|apply IH]. by apply stays_same. Qed.

Lemma worker_balanced script turns : preserves stays_balanced (run_worker script turns).
Proof.
  unfold run_worker, worker_loop, shutdown_cleanup. walk; try apply api_balanced; try apply turn_balanced; try apply fire_balanced; try same_callbacks.
  apply preserves_modify. intros s. apply clear_all_balanced.
Qed.

(** ** Nothing is left when the worker ends *)

(** While the callbacks are borrowed a script cannot add one: it panics, or
    catches the panic. *)
Lemma api_borrowed c s s' : borrowed s = true → api c s = (Ok tt, s') → pending s' = pending s ∧ borrowed s' = true.
Proof.
  intros Hb. destruct c as [name fn once|bot name fn once|topic fn|id|delay i fn|bot delay i fn|id|id|guarded bot r [fn|]]; simpl; try (by intros [= <-]).
  - destruct (intern_event_name name); by intros [= <-].
  - destruct (intern_event_name name); by intros [= <-].
  - destruct (_ <? _)%nat; by intros [= <-].
  - intros [= <-]. unfold remove_handler_or_subscription. destruct (registry_remove _ _) as [[] ?]; [done|]. by destruct (remove_from id (pubsub s)).
  - destruct is_coordinator; intros [= <-]; [|done]. unfold schedule. by case_bool_decide.
  - intros [= <-]. unfold schedule_for_bot, schedule. by repeat case_bool_decide.
  - destruct is_coordinator; by intros [= <-].
  - unfold bind, gets. rewrite Hb. destruct guarded; [by intros [= <-]|done].
Qed.
Lemma apis_borrowed cs s s' : borrowed s = true → iter_m api cs s = (Ok tt, s') → pending s' = pending s ∧ borrowed s' = true.
Proof.
  revert s. induction cs as [|c cs IH]; intros s Hb; simpl; [by intros [= <-]|].
  intros ([] & s1 & Hc & Hcs)%bind_Ok_inv. destruct (api_borrowed _ _ _ Hb Hc) as [Hp Hb1]. rewrite <- Hp. by apply IH.
Qed.
Lemma invoke_borrowed src fn args s ok s' : borrowed s = true → invoke_top_level src fn args s = (Ok ok, s') → pending s' = pending s ∧ borrowed s' = true.
Proof.
  intros Hb. rewrite invoke_eq. intros ([] & s1 & Hcs & [= <- <-])%bind_Ok_inv. apply apis_borrowed in Hcs; [exact Hcs|exact Hb].
Qed.

Lemma fire_callback_taken counted r outcome s s' : fire_callback counted r outcome s = (Ok tt, s') → pending s' = delete r (pending s).
Proof.
  unfold fire_callback. intros (o & s1 & [= <- <-] & H)%bind_Ok_inv. destruct (pending s !! r) as [cb|] eqn:Hr.
  - apply bind_Ok_inv in H as ([] & s1 & [= <-] & H). apply bind_Ok_inv in H as ([] & s2 & [= <-] & H).
    apply bind_Ok_inv in H as (ok & s3 & Hi & H). apply bind_Ok_inv in H as ([] & s4 & [= <-] & [= <-]).
    apply invoke_borrowed in Hi as [Hp _]; [|by destruct counted]. destruct (counted && negb ok), counted; exact Hp.
  - injection H as <-. by rewrite delete_id.
Qed.
Lemma fire_callbacks_taken counted outcome ids s s' :
  iter_m (λ id, fire_callback counted id outcome) ids s = (Ok tt, s') → ∀ r, pending s' !! r = if bool_decide (r ∈ ids) then None else pending s !! r.
Proof.
  revert s. induction ids as [|id ids IH]; intros s; simpl; [by intros [= <-]|].
  intros ([] & s1 & Hc & Hcs)%bind_Ok_inv r. rewrite (IH _ Hcs r), (fire_callback_taken _ _ _ _ _ Hc).
  destruct (decide (r = id)) as [->|Hne].
  - rewrite lookup_delete_eq, (bool_decide_eq_true_2 (id ∈ id :: ids)) by left. by case_bool_decide.
  - rewrite lookup_delete_ne by done. repeat case_bool_decide; set_solver.
Qed.

Lemma clear_all_entries ids s r :
  tm_entries (timers (foldl (λ s id, clear_timer id s) s ids)) !! r = if bool_decide (r ∈ ids) then None else tm_entries (timers s) !! r.
Proof.
  revert s. induction ids as [|id ids IH]; intros s; simpl; [done|]. rewrite IH. simpl. destruct (decide (r = id)) as [->|Hne].
  - rewrite lookup_delete_eq, (bool_decide_eq_true_2 (id ∈ id :: ids)) by left. by case_bool_decide.
  - rewrite lookup_delete_ne by done. repeat case_bool_decide; set_solver.
Qed.
Lemma clear_all_pending ids s : pending (foldl (λ s id, clear_timer id s) s ids) = pending s.
Proof. revert s. induction ids as [|id ids IH]; intros s; simpl; [done|]. by rewrite IH. Qed.

Lemma keys_spec {A} (m : gmap Z A) (ids : list Z) r : ids ≡ₚ map fst (map_to_list m) → r ∈ ids ↔ is_Some (m !! r).
Proof.
  intros ->. split.
  - intros ([k a] & -> & Hin)%list_elem_of_fmap. apply elem_of_map_to_list in Hin. by exists a.
  - intros [a Ha]. apply list_elem_of_fmap. exists (r, a). split; [done|]. by apply elem_of_map_to_list.
Qed.

(** ** Events and the accounting of errors *)

(** The calls made so far. *)
Definition invocation (e : Entry) : option (Source * Args * bool) := match e with Invoked src args ok => Some (src, args, ok) | _ => None end.
Definition invocations s : list (Source * Args * bool) := omap invocation (log s).

(** What the calls of a script leave alone. *)
Definition untouched s s' : Prop :=
  invocations s' = invocations s ∧ disabled_bots s' = disabled_bots s ∧ consecutive_errors s' = consecutive_errors s.
#[local] Instance untouched_preorder : PreOrder untouched.
Proof. split; [by intros s|]. intros s1 s2 s3 (H1 & H2 & H3) (H4 & H5 & H6). split_and!; congruence. Qed.

Lemma invocations_note e s : invocations (note e s) = invocations s ++ option_list (invocation e).
Proof. unfold invocations. cbn [note log]. rewrite omap_app. simpl. by destruct (invocation e). Qed.
Lemma register_untouched bot r fn s : untouched s (register_callback bot r fn s).
Proof.
  unfold register_callback. trans (make_room s).
  - unfold make_room. case_bool_decide; [|done]. destruct (oldest s); [|done]. split_and!; [|done|done].
    rewrite invocations_note. apply app_nil_r.
  - generalize (make_room s). clear s. intros s. destruct (bool_decide (is_Some (pending s !! r))); (split_and!; [|done|done]);
      rewrite invocations_note, app_nil_r; [|done]. change (invocations (with_pending _ ?t)) with (invocations t). by rewrite invocations_note, app_nil_r.
Qed.
Lemma api_untouched c : preserves untouched (api c).
Proof.
  intros s. destruct c as [name fn once|bot name fn once|topic fn|id|delay i fn|bot delay i fn|id|id|guarded bot r [fn|]]; simpl; try done.
  - by destruct (intern_event_name name).
  - by destruct (intern_event_name name).
  - by destruct (_ <? _)%nat.
  - unfold remove_handler_or_subscription. destruct (registry_remove _ _) as [[] ?]; [done|]. by destruct (remove_from id (pubsub s)).
  - destruct is_coordinator; [|done]. simpl. unfold schedule. by case_bool_decide.
  - unfold schedule_for_bot, schedule. by repeat case_bool_decide.
  - by destruct is_coordinator.
  - unfold bind, gets. destruct (borrowed s); [by destruct guarded|]. apply register_untouched.
Qed.

Lemma invoke_spec src fn args s res s' :
  invoke_top_level src fn args s = (res, s') →
  invocations s' = invocations s ++ [(src, args, (call s fn args).1.2)]
  ∧ disabled_bots s' = disabled_bots s ∧ consecutive_errors s' = consecutive_errors s ∧ ∀ ok, res = Ok ok → ok = (call s fn args).1.2.
Proof.
  rewrite invoke_eq. intros H. set (s1 := note _ _) in H.
  assert (preserves untouched (iter_m api (call s fn args).1.1)) as Hu by (apply preserves_iter; [apply _|apply api_untouched]).
  destruct (Hu s1) as (Hi & Hd & He). unfold bind in H. destruct (iter_m api _ s1) as [[[]|e] s2]; cbn [snd] in *; injection H as <- <-;
    (split; [rewrite Hi; unfold s1; by rewrite invocations_note|]); (split; [done|]); (split; [done|]); [by intros ok [= <-]|done].
Qed.

Lemma run_all_spec args hs s ok s' :
  run_all args hs s = (Ok ok, s') →
  ∃ oks, length oks = length hs ∧ ok = forallb id oks
  ∧ invocations s' = invocations s ++ zip_with (λ h ok, (SrcHandler (h_id h), args, ok)) hs oks
  ∧ disabled_bots s' = disabled_bots s ∧ consecutive_errors s' = consecutive_errors s.
Proof.
  revert s ok. induction hs as [|h hs IH]; intros s ok; cbn [run_all].
  - intros [= <- <-]. exists []. by rewrite app_nil_r.
  - intros (ok1 & s1 & H1 & H)%bind_Ok_inv. apply bind_Ok_inv in H as (ok2 & s2 & H2 & [= <- <-]).
    unfold run_one in H1. apply bind_Ok_inv in H1 as ([] & s3 & [= <-] & H1). apply bind_Ok_inv in H1 as (ok3 & s4 & Hi & H1).
    apply bind_Ok_inv in H1 as ([] & s5 & [= <-] & [= <- <-]). apply invoke_spec in Hi as (Hi & Hd & He & Hok). specialize (Hok _ eq_refl). rewrite <- Hok in Hi.
    apply IH in H2 as (oks & Hl & -> & Hi2 & Hd2 & He2). exists (ok3 :: oks). split; [simpl; lia|]. split; [done|].
    split_and!.
    + rewrite Hi2. assert (invocations (if ok3 then s4 else count_error s4) = invocations s4) as -> by (by destruct ok3).
      rewrite Hi. simpl. by rewrite <- (assoc_L app).
    + rewrite Hd2. trans (disabled_bots s4); [by destruct ok3|exact Hd].
    + rewrite He2. trans (consecutive_errors s4); [by destruct ok3|exact He].
Qed.

Lemma remove_once_spec hs s s' :
  remove_once hs s = (Ok tt, s') →
  invocations s' = invocations s ∧ disabled_bots s' = disabled_bots s ∧ consecutive_errors s' = consecutive_errors s.
Proof.
  unfold remove_once. intros [= <-]. revert s. induction hs as [|h hs IH]; intros s; simpl; [done|].
  specialize (IH (if h_once h then with_handlers (registry_remove (h_id h) (handlers s)).2 s else s)).
  destruct (h_once h); exact IH.
Qed.

(** How a run of handlers of a bot counts: a success clears the count, a
    failure raises it and disables the bot's script at the threshold. *)
Definition accounted (bot : Z) (ok : bool) s s' : Prop :=
  if ok then consecutive_errors s' = delete bot (consecutive_errors s) ∧ disabled_bots s' = disabled_bots s
  else let count := wrap 32 (default 0 (consecutive_errors s !! bot) + 1) in
    consecutive_errors s' = <[bot := count]> (consecutive_errors s)
    ∧ disabled_bots s' = if consecutive_error_threshold <=? count then {[bot]} ∪ disabled_bots s else disabled_bots s.

(** C31. An event of a bot runs the handlers registered for it when it is
    taken up, those of the bot before the global ones, each once and in the
    order of registration, and nothing else; the run counts as a failure of
    the bot's script exactly when one of them fails, and not at all when there
    is none. An event of a bot whose script is disabled does nothing. *)
Theorem bot_event_exact (bot time seq : Z) (e : BotEvent J Slot) (s s' : WorkerState) :
  dispatch_one (mkEnvelope bot (BotItem e) time seq) s = (Ok tt, s') →
  if bool_decide (bot ∈ disabled_bots s) then s' = s
  else
    let hs := per_bot_of bot (bot_event_name e) s ++ global_of (bot_event_name e) s in
    ∃ oks, length oks = length hs
    ∧ invocations s' = invocations s ++ zip_with (λ h ok, (SrcHandler (h_id h), ArgEvent bot e, ok)) hs oks
    ∧ if bool_decide (hs = []) then consecutive_errors s' = consecutive_errors s ∧ disabled_bots s' = disabled_bots s
      else accounted bot (forallb id oks) s s'.
Proof.
  unfold dispatch_one. cbn [event bot_id]. intros (d & s0 & [= <- <-] & H)%bind_Ok_inv.
  case_bool_decide as Hd; [by injection H as <-|]. unfold run_handlers_for in H.
  apply bind_Ok_inv in H as (hs & s0 & [= <- <-] & H). cbv zeta. set (hs := _ ++ _) in *.
  apply bind_Ok_inv in H as (ok & s1 & Hr & H). apply bind_Ok_inv in H as ([] & s2 & Ho & H).
  apply run_all_spec in Hr as (oks & Hl & -> & Hi & Hd1 & He1). apply remove_once_spec in Ho as (Hi2 & Hd2 & He2).
  exists oks. split; [done|]. assert (invocations s' = invocations s2 ∧ (hs = [] → s' = s2)
    ∧ (hs ≠ [] → record_bot_handler_outcome bot (forallb id oks) s2 = (Ok tt, s'))) as (Hi3 & Hnil & Hcons).
  { destruct hs; [injection H as <-; done|]. split; [|done]. injection H as <-. destruct (forallb id oks); [done|]. by destruct (_ <=? _). }
  split; [by rewrite Hi3, Hi2|]. case_bool_decide as Hh; [rewrite (Hnil Hh); split; congruence|].
  specialize (Hcons Hh). injection Hcons as <-. unfold accounted. destruct (forallb id oks); [split; simpl; congruence|].
  rewrite <- He1, <- He2, <- Hd1, <- Hd2. cbv zeta. destruct (_ <=? _); done.
Qed.

(** ** What a disabled script still does *)

(** The calls that are made although the script of [bot] is disabled: events
    and timers of other bots, timers of the coordinator, messages, overloads,
    and the results of actions, those of the bot included. *)
Definition allowed (bot : Z) (src : Source) (args : Args) : Prop :=
  match src, args with
  | SrcHandler _, ArgEvent b _ => b ≠ bot
  | SrcHandler _, ArgActionResult _ _ | SrcHandler _, ArgOverload => True
  | SrcCallback r, ArgResult res => request_id res = r
  | SrcMessage _, ArgMessage _ _ => True
  | SrcTimer _ None, ArgTimer => True
  | SrcTimer _ (Some b), ArgTimer => b ≠ bot
  | _, _ => False
  end.
Definition silent (bot : Z) (e : Entry) : Prop := match e with Invoked src args _ => allowed bot src args | _ => True end.

Definition stays_silent s s' : Prop :=
  disabled_bots s ⊆ disabled_bots s'
  ∧ ∃ new, log s' = log s ++ new ∧ ∀ bot, bot ∈ disabled_bots s → Forall (silent bot) new.
#[local] Instance stays_silent_preorder : PreOrder stays_silent.
Proof.
  split; [intros s; split; [done|]; exists []; by rewrite app_nil_r|].
  intros s1 s2 s3 (Hd & n1 & Hl1 & H1) (Hd' & n2 & Hl2 & H2). split; [set_solver|]. exists (n1 ++ n2).
  split; [by rewrite Hl2, Hl1, (assoc_L app)|]. intros bot Hb. apply Forall_app. split; [by apply H1|apply H2; set_solver].
Qed.

(** The disabled scripts stay as they are, and what is noted satisfies [P]. *)
Definition adds (P : Entry → Prop) s s' : Prop := disabled_bots s' = disabled_bots s ∧ ∃ new, log s' = log s ++ new ∧ Forall P new.
#[local] Instance adds_preorder P : PreOrder (adds P).
Proof.
  split; [intros s; split; [done|]; exists []; by rewrite app_nil_r|].
  intros s1 s2 s3 (Hd & n1 & Hl1 & H1) (Hd' & n2 & Hl2 & H2). split; [congruence|]. exists (n1 ++ n2).
  split; [by rewrite Hl2, Hl1, (assoc_L app)|by apply Forall_app].
Qed.
Lemma adds_nothing P s s' : disabled_bots s' = disabled_bots s → log s' = log s → adds P s s'.
Proof. intros Hd Hl. split; [done|]. exists []. by rewrite app_nil_r. Qed.
Lemma adds_note (P : Entry → Prop) e s : P e → adds P s (note e s).
Proof. intros He. split; [done|]. exists [e]. split; [done|by constructor]. Qed.
Lemma adds_silent (P : Entry → Prop) s s' : adds P s s' → (∀ bot e, bot ∈ disabled_bots s → P e → silent bot e) → stays_silent s s'.
Proof. intros (Hd & n & Hl & Hn) HP. split; [by rewrite Hd|]. exists n. split; [done|]. intros bot Hb. eapply Forall_impl; [exact Hn|]. naive_solver. Qed.
Lemma nothing_silent s s' : disabled_bots s ⊆ disabled_bots s' → log s' = log s → stays_silent s s'.
Proof. intros Hd Hl. split; [done|]. exists []. by rewrite app_nil_r. Qed.

(** Entries of the callbacks, and of one call. *)
Definition of_call (src : Source → Prop) (args : Args) (e : Entry) : Prop := match e with Invoked s a _ => src s ∧ a = args | _ => True end.

Lemma register_adds src args bot r fn s : adds (of_call src args) s (register_callback bot r fn s).
Proof.
  unfold register_callback. trans (make_room s).
  - unfold make_room. case_bool_decide; [|done]. destruct (oldest s) as [id|]; [|done].
    trans (with_pending (delete id (pending s)) s); [by apply adds_nothing|by apply adds_note].
  - generalize (make_room s). clear s. intros s. set (s1 := if bool_decide (is_Some (pending s !! r)) then note (Replaced r) s else s).
    trans s1; [unfold s1; case_bool_decide; [by apply adds_note|done]|].
    trans (with_pending (<[r:=mkCallback fn bot (clock s1)]> (pending s1)) s1); [by apply adds_nothing|by apply adds_note].
Qed.
Lemma api_adds src args c : preserves (adds (of_call src args)) (api c).
Proof.
  intros s. destruct c as [name fn once|bot name fn once|topic fn|id|delay i fn|bot delay i fn|id|id|guarded bot r [fn|]]; simpl; try by apply adds_nothing.
  - destruct (intern_event_name name); by apply adds_nothing.
  - destruct (intern_event_name name); by apply adds_nothing.
  - destruct (_ <? _)%nat; by apply adds_nothing.
  - unfold remove_handler_or_subscription. destruct (registry_remove _ _) as [[] ?]; [by apply adds_nothing|].
    destruct (remove_from id (pubsub s)); by apply adds_nothing.
  - destruct is_coordinator; [|by apply adds_nothing]. simpl. unfold schedule. case_bool_decide; by apply adds_nothing.
  - unfold schedule_for_bot, schedule. repeat case_bool_decide; by apply adds_nothing.
  - destruct is_coordinator; by apply adds_nothing.
  - unfold bind, gets. destruct (borrowed s); [destruct guarded; by apply adds_nothing|]. apply register_adds.
Qed.
Lemma invoke_adds (P : Source → Prop) src fn args : P src → preserves (adds (of_call P args)) (invoke_top_level src fn args).
Proof.
  intros Hs. unfold invoke_top_level. walk; [|apply api_adds]. apply preserves_modify. intros s.
  trans (with_vm l s); [by apply adds_nothing|by apply adds_note].
Qed.
Lemma run_all_adds args hs : preserves (adds (of_call (λ x, ∃ id, x = SrcHandler id) args)) (run_all args hs).
Proof.
  induction hs as [|h hs IH]; cbn [run_all]; [walk|]. unfold run_one. walk; try done.
  - apply preserves_modify. intros s. by apply adds_nothing.
  - apply invoke_adds. eauto.
  - apply preserves_modify. intros s. case_match; by apply adds_nothing.
Qed.

Lemma bind_silent {A B} (m : W A) (k : A → W B) s :
  stays_silent s (m s).2 → (∀ a, preserves stays_silent (k a)) → stays_silent s (bind m k s).2.
Proof. intros Hm Hk. unfold bind. destruct (m s) as [[a|e] s1]; cbn [snd] in *; [|done]. etrans; [exact Hm|apply Hk]. Qed.

Ltac same_silent := apply preserves_modify; intros ?; apply nothing_silent; repeat case_match; done.

Lemma invoke_silent src fn args : (∀ bot, allowed bot src args) → preserves stays_silent (invoke_top_level src fn args).
Proof.
  intros Ha s. eapply adds_silent; [by apply (invoke_adds (λ x, x = src))|]. intros bot [| | |src' args' ok] _; try done. intros [-> ->]. apply Ha.
Qed.
Lemma outcome_silent bot ok : preserves stays_silent (record_bot_handler_outcome bot ok).
Proof. apply preserves_modify. intros s. destruct ok; cbv zeta; [|destruct (_ <=? _)]; apply nothing_silent; simpl; try done. set_solver. Qed.
Lemma remove_once_silent hs : preserves stays_silent (remove_once hs).
Proof.
  apply preserves_modify. induction hs as [|h hs IH]; intros s; simpl; [done|]. etrans; [|apply IH].
  destruct (h_once h); [by apply nothing_silent|done].
Qed.
Lemma fire_silent counted r outcome : preserves stays_silent (fire_callback counted r outcome).
Proof. unfold fire_callback. walk; try same_silent. by apply invoke_silent. Qed.
Lemma resolve_silent (res : ActionResult) : preserves stays_silent (resolve_callback res).
Proof. unfold resolve_callback. walk; try same_silent. by apply invoke_silent. Qed.

Lemma run_handlers_silent bot name args s :
  (∀ b id, b ∈ disabled_bots s → allowed b (SrcHandler id) args) → stays_silent s (run_handlers_for bot name args s).2.
Proof.
  intros Ha. unfold run_handlers_for, bind at 1, gets. apply bind_silent.
  - eapply adds_silent; [apply run_all_adds|]. intros b [| | |src args' ok] Hb; try done. intros [[id ->] ->]. by apply Ha.
  - intros ok. walk; [apply remove_once_silent|apply outcome_silent].
Qed.

Lemma fire_one_silent id : preserves stays_silent (fire_one id).
Proof.
  intros s. unfold fire_one, bind at 1, gets. destruct (tm_entries (timers s) !! id) as [e|]; [|done].
  unfold bind at 1, gets. destruct (match tm_bot e with Some bot => bool_decide (bot ∈ disabled_bots s) | None => false end) eqn:Hb; [done|].
  unfold bind at 1, modify at 1. cbv beta iota.
  trans (count_run s); [by apply nothing_silent|]. apply bind_silent.
  - eapply adds_silent; [by apply (invoke_adds (λ x, x = SrcTimer id (tm_bot e)))|]. intros b [| | |src args ok] Hin; try done.
    intros [-> ->]. simpl. destruct (tm_bot e) as [b'|]; [|done]. rewrite bool_decide_eq_false in Hb. by intros ->.
  - intros ok. walk; try apply outcome_silent; apply preserves_modify; intros t; [destruct ok|destruct (tm_interval e)]; by apply nothing_silent.
Qed.

Lemma dispatch_silent e : preserves stays_silent (dispatch_one e).
Proof.
  unfold dispatch_one. destruct (event e) as [ev|res|res|topic payload|id|n t|why|].
  - intros s. unfold bind, gets. case_bool_decide as Hb; [done|]. apply run_handlers_silent. intros b id Hin. simpl. by intros <-.
  - walk; [apply resolve_silent|]. intros s. by apply run_handlers_silent.
  - apply resolve_silent.
  - walk; try by apply invoke_silent. all: same_silent.
  - apply fire_one_silent.
  - walk.
  - walk.
  - intros s. unfold run_global_handlers_for, bind at 1, gets. apply bind_silent; [|intros ok; apply remove_once_silent].
    eapply adds_silent; [apply run_all_adds|]. intros b [| | |src args' ok] Hb; try done. by intros [[id ->] ->].
Qed.

Lemma turn_silent t : preserves stays_silent (worker_turn t).
Proof.
  unfold worker_turn, resolve_overflowed_callbacks, sweep_callback_timeouts, fire_due.
  walk; try apply dispatch_silent; try apply fire_silent; try apply fire_one_silent; same_silent.
Qed.
Lemma clear_all_silent ids s : stays_silent s (foldl (λ s id, clear_timer id s) s ids).
Proof. revert s. induction ids as [|id ids IH]; intros s; simpl; [done|]. etrans; [|apply IH]. by apply nothing_silent. Qed.

(** C32. Once a script is disabled, only the results of its actions still
    reach it: from whatever state a worker goes on, through batches, timers,
    panics and shutdown, the script stays disabled; no handler of any other
    event of the bot and no timer of the bot runs any more. Every call that
    is made is for another bot, for the worker (a message, an overload, a
    coordinator's timer) or brings the result of an action: those of the bot
    still run their callback and the handlers of [action_result]
    ([disabled_script_still_runs]). *)
Theorem disabled_gets_only_results (turns : list Turn) (s s' : WorkerState) (bot : Z) (res : result Panic unit) :
  worker_loop turns s = (res, s') → bot ∈ disabled_bots s →
  bot ∈ disabled_bots s'
  ∧ ∃ new, log s' = log s ++ new ∧ ∀ src args ok, Invoked src args ok ∈ new → allowed bot src args.
Proof.
  intros Hrun Hb. assert (preserves stays_silent (worker_loop turns)) as H.
  { unfold worker_loop, shutdown_cleanup. walk; [apply turn_silent|apply fire_silent|]. apply preserves_modify. intros t. apply clear_all_silent. }
  destruct (H s) as (Hd & new & Hl & Hn). rewrite Hrun in Hd, Hl. split; [set_solver|]. exists new. split; [done|].
  intros src args ok Hin. specialize (Hn bot Hb). rewrite Forall_forall in Hn. exact (Hn _ Hin).
Qed.
Context (arrange_perm : ∀ s ids, arrange s ids ≡ₚ ids).

Lemma cleanup_empty s s' : shutdown_cleanup s = (Ok tt, s') → pending s' = ∅ ∧ tm_entries (timers s') = ∅.
Proof.
  unfold shutdown_cleanup. intros (ids & s1 & [= <- <-] & H)%bind_Ok_inv. apply bind_Ok_inv in H as ([] & s2 & Hf & [= <-]).
  split; apply map_eq; intros r; rewrite lookup_empty.
  - rewrite clear_all_pending, (fire_callbacks_taken _ _ _ _ _ Hf r). case_bool_decide as Hr; [done|].
    rewrite (keys_spec (pending s)) in Hr by apply arrange_perm. by destruct (pending s !! r); [destruct Hr|].
  - rewrite clear_all_entries. case_bool_decide as Hr; [done|].
    rewrite (keys_spec (tm_entries (timers s2))) in Hr by apply arrange_perm. by destruct (tm_entries (timers s2) !! r); [destruct Hr|].
Qed.

(** C30. Every callback of an action ends once. Whatever the batches, the
    failures and the scripts are, at every point of a worker's life, panics
    included, each registration under a request id has been called, evicted
    at the limit or replaced by another one under its id, exactly once, or is
    still waiting; and when the worker ends of its own accord none is waiting
    and no timer is left. *)
Theorem callbacks_end_once (script : WorkerState → list ApiCall * bool * L) (turns : list Turn) (world : L) :
  let '(r, s) := run_worker script turns (worker_new world) in
  (∀ request, tally (is_start request) s = (tally (is_end request) s + waiting request s)%nat)
  ∧ (r = Ok true → pending s = ∅ ∧ tm_entries (timers s) = ∅ ∧ ∀ request, tally (is_start request) s = tally (is_end request) s).
Proof.
  pose proof (worker_balanced script turns (worker_new world)) as Hb. destruct (run_worker script turns (worker_new world)) as [r s] eqn:Hrun.
  assert (∀ request, balanced request s) as Hall by (intros request; by apply Hb). split; [exact Hall|]. intros ->.
  assert (pending s = ∅ ∧ tm_entries (timers s) = ∅) as [Hp Ht].
  { unfold run_worker in Hrun. apply bind_Ok_inv in Hrun as ([[calls ok] w] & s1 & _ & Hrun). apply bind_Ok_inv in Hrun as (u & s2 & _ & Hrun).
    apply bind_Ok_inv in Hrun as (u' & s3 & _ & Hrun). destruct ok; [|done]. apply bind_Ok_inv in Hrun as ([] & s4 & Hl & [= <-]).
    unfold worker_loop in Hl. apply bind_Ok_inv in Hl as ([] & s5 & _ & Hc). by apply cleanup_empty in Hc. }
  split; [done|]. split; [done|]. intros request. specialize (Hall request). unfold balanced, waiting in Hall.
  rewrite Hp, lookup_empty in Hall. rewrite bool_decide_eq_false_2 in Hall by (by intros []). lia.
Qed.
End worker.

(** ** Samples *)

Abbreviation SampleState := (WorkerState (J := unit) (Slot := unit) (SharedValue := unit) (Fn := nat) (L := unit)).
Abbreviation SampleCall := (ApiCall (Fn := nat)).

(** Function 1 fails, 2 acts on bot 0 with function 0 as callback, 3 acts with
    2 as callback, the others do nothing. *)
Definition sample_call (s : SampleState) (fn : nat) (args : Args (J := unit) (Slot := unit) (SharedValue := unit)) : list SampleCall * bool * unit :=
  match fn with
  | 1%nat => ([], false, tt)
  | 2%nat => ([ApiAction false 0 8 (Some 0%nat)], true, tt)
  | 3%nat => ([ApiAction false 0 7 (Some 2%nat)], true, tt)
  | _ => ([], true, tt)
  end.
Definition sample_run (threshold : Z) (script : list SampleCall) (batch : list (WorkItem unit unit unit)) : result Panic bool * SampleState :=
  run_worker (λ _, 0%nat) 0 true threshold 30000000000 sample_call (λ _, 0) (λ _ ids, ids) (λ _, (script, true, tt))
    [mkTurn (map (λ item, mkEnvelope 0 item 0 0) batch) [] id] (worker_new tt).

(** An action made by the callback of an action, with a callback of its own,
    finds the callbacks borrowed: the worker panics and with it the scripts of
    all its bots. *)
Lemma chained_callback_panics :
  (sample_run 10 [ApiOn "spawned" 3%nat false] [BotItem Spawned; ActionResultItem (mkActionResult 7 0 DeliveredSent)]).1 = Err AlreadyBorrowed
  ∧ (sample_run 10 [ApiOn "spawned" 2%nat false] [BotItem Spawned; ActionResultItem (mkActionResult 8 0 DeliveredSent)]).1 = Ok true.
Proof. by vm_compute. Qed.

(** A disabled script still gets the results of actions. *)
Lemma disabled_script_still_runs :
  let s := (sample_run 1 [ApiOn "spawned" 1%nat false; ApiOn "action_result" 0%nat false]
              [BotItem Spawned; BotItem Spawned; ActionResultItem (mkActionResult 7 0 DeliveredSent)]).2 in
  0 ∈ disabled_bots s
  ∧ log s = [Invoked (SrcHandler 1) (ArgEvent 0 Spawned) false; Invoked (SrcHandler 2) (ArgActionResult 0 (mkActionResult 7 0 DeliveredSent)) true].
Proof. split; [apply (bool_decide_unpack _)|]; by vm_compute. Qed.

(** A handler of [script_disabled] can be registered and is never run. *)
Lemma script_disabled_never_fires (s : SampleState) (bot time seq : Z) (reason : string) :
  intern_event_name "script_disabled" = Some "script_disabled"%string
  ∧ dispatch_one (λ _, 0%nat) 0 true 10 sample_call (λ _, 0) (λ _ ids, ids) (mkEnvelope bot (ScriptDisabled reason) time seq) s = (Ok tt, s).
Proof. done. Qed.

Lemma callbacks_end_once_witness :
  (∀ (s : SampleState) ids, (λ (_ : SampleState) (ids : list Z), ids) s ids ≡ₚ ids)
  ∧ let s := (sample_run 10 [ApiOn "spawned" 2%nat false] [BotItem Spawned]).2 in
    tally (is_start 8) s = 1%nat ∧ tally (is_end 8) s = 1%nat ∧ pending s = ∅.
Proof.
  split; [intros s ids; reflexivity|].
  pose proof (callbacks_end_once (λ _, 0%nat) 0 true 10 30000000000 sample_call (λ _, 0) (λ _ ids, ids) (λ s ids, reflexivity ids)
    (λ _, ([ApiOn "spawned" 2%nat false], true, tt)) [mkTurn [mkEnvelope 0 (BotItem Spawned : WorkItem unit unit unit) 0 0] [] id] tt) as H.
  fold (sample_run 10 [ApiOn "spawned" 2%nat false] [BotItem Spawned]) in H.
  change (run_worker _ _ _ _ _ _ _ _ _ _ _) with (sample_run 10 [ApiOn "spawned" 2%nat false] [BotItem Spawned]) in H.
  assert ((sample_run 10 [ApiOn "spawned" 2%nat false] [BotItem Spawned]).1 = Ok true) as Hr by (vm_compute; reflexivity).
  destruct (sample_run 10 [ApiOn "spawned" 2%nat false] [BotItem Spawned]) as [r s] eqn:Hs. cbn [fst snd] in *. destruct H as [_ H].
  destruct (H Hr) as (Hp & _ & Hb). split; [|split; [|exact Hp]].
  - vm_compute in Hs. injection Hs as <- <-. reflexivity.
  - rewrite <- Hb. vm_compute in Hs. injection Hs as <- <-. reflexivity.
Defined.

Definition sample_dispatch (threshold : Z) (item : WorkItem unit unit unit) (s : SampleState) : result Panic unit * SampleState :=
  dispatch_one (λ _, 0%nat) 0 true threshold sample_call (λ _, 0) (λ _ ids, ids) (mkEnvelope 0 item 0 0) s.
Definition sample_state : SampleState := (sample_run 1 [ApiOn "spawned" 2%nat false; ApiOnBot 0 "spawned" 1%nat true] []).2.

Lemma bot_event_exact_witness :
  let s' := (sample_dispatch 1 (BotItem Spawned) sample_state).2 in
  sample_dispatch 1 (BotItem Spawned) sample_state = (Ok tt, s')
  ∧ invocations s' = [(SrcHandler 2, ArgEvent 0 Spawned, false); (SrcHandler 1, ArgEvent 0 Spawned, true)] ∧ 0 ∈ disabled_bots s'.
Proof.
  set (s' := (sample_dispatch 1 (BotItem Spawned) sample_state).2). cbv zeta.
  assert (sample_dispatch 1 (BotItem Spawned) sample_state = (Ok tt, s')) as H by (vm_compute; reflexivity).
  pose proof (bot_event_exact (λ _, 0%nat) 0 true 1 sample_call (λ _, 0) (λ _ ids, ids) 0 0 0 Spawned sample_state s' H) as E.
  split; [exact H|]. split; [vm_compute; reflexivity|].
  rewrite bool_decide_eq_false_2 in E by (apply (bool_decide_unpack _); vm_compute; reflexivity).
  destruct E as (oks & Hl & Hi & Hd). rewrite bool_decide_eq_false_2 in Hd by (vm_compute; discriminate).
  assert (oks = [false; true]) as ->.
  { destruct oks as [|b1 [|b2 [|]]]; vm_compute in Hl; try discriminate Hl. vm_compute in Hi. injection Hi as <- <-. reflexivity. }
  destruct Hd as [_ ->]. apply elem_of_union. left. by apply elem_of_singleton.
Defined.

Lemma disabled_gets_only_results_witness :
  let s := (sample_dispatch 1 (BotItem Spawned) sample_state).2 in
  let turns := [mkTurn [mkEnvelope 0 (BotItem Spawned) 0 0; mkEnvelope 0 (BotItem Death) 0 0] [] id] in
  let s' := (worker_loop (λ _, 0%nat) 0 true 1 30000000000 sample_call (λ _, 0) (λ _ ids, ids) turns s).2 in
  0 ∈ disabled_bots s ∧ 0 ∈ disabled_bots s'
  ∧ ∃ new, log s' = log s ++ new ∧ ∀ src args ok, Invoked src args ok ∈ new → allowed 0 src args.
Proof.
  cbv zeta. set (s := (sample_dispatch 1 (BotItem Spawned) sample_state).2). set (turns := [_]).
  assert (0 ∈ disabled_bots s) as Hb by (apply (bool_decide_unpack _); vm_compute; reflexivity). split; [exact Hb|].
  exact (disabled_gets_only_results (λ _, 0%nat) 0 true 1 30000000000 sample_call (λ _, 0) (λ _ ids, ids) turns s _ 0 _ (surjective_pairing _) Hb).
Defined.
