(* ===== verification/Registry.v ===== *)
(** * The swarm registry

    [src/lua/registry.rs]: servers, bots and groups as a configuration script
    adds them, each call validated at once.  Strings are counted in bytes as
    in the source; the texts of [InvalidConfiguration] are not kept. *)

From S2P Require Import Prelude Machine Utf8.

Local Open Scope Z_scope.

Definition MAX_BOTS : Z := 20000.
Definition MAX_GROUPS : Z := 4000.
Definition MAX_BOTS_PER_GROUP : Z := 20000.
Definition MAX_NAME_LEN : Z := 256.
Definition MAX_USERNAME_LEN : Z := 64.
Definition MAX_LABEL_LEN : Z := 256.

Definition str_len (s : string) : Z := Z.of_nat (length (bytes_of s)).
Definition map_len {K A} `{Countable K} (m : gmap K A) : Z := Z.of_nat (size m).

(** [u32] arithmetic on ids. *)
Definition checked_add_u32 (a b : Z) : option Z := if a + b <=? u32_max then Some (a + b) else None.
Definition saturating_add_u32 (a b : Z) : Z := Z.min u32_max (a + b).

Record ServerDef : Type := mkServerDef {
  server_name : string;
  host : string;
  port : Z;
  view_distance : Z;
  write_timeout : Z;
  connect_deadline : Z;
  shared_chunks : bool;
  accept_resource_packs : bool;
}.

(** The reconnect policy is stored and handed on, never looked at. *)
Section registry.
Context {ReconnectPolicy : Type}.

Record BotDef : Type := mkBotDef {
  id : Z;
  username : string;
  server : string;
  proxy : option string;
  reconnect : ReconnectPolicy;
  label : option string;
}.

Record GroupDef : Type := mkGroupDef {
  group_name : string;
  bot_ids : list Z;
}.

Record BotSpec : Type := mkBotSpec {
  spec_id : option Z;
  spec_username : string;
  spec_server : string;
  spec_proxy : option string;
  spec_reconnect : ReconnectPolicy;
  spec_label : option string;
}.

Inductive RegistryError : Type :=
  | DuplicateServer (name : string)
  | DuplicateBotId (id : Z)
  | DuplicateUsername (name : string)
  | DuplicateGroup (name : string)
  | UnknownServer (name : string)
  | UnknownProxy (name : string)
  | InvalidConfiguration.

Definition code (e : RegistryError) : string :=
  match e with
  | DuplicateServer _ | DuplicateBotId _ | DuplicateUsername _ | DuplicateGroup _ => "duplicate_id"
  | UnknownServer _ => "unknown_server"
  | UnknownProxy _ => "unknown_proxy"
  | InvalidConfiguration => "invalid_configuration"
  end.

Record SwarmRegistryBuilder : Type := mkBuilder {
  servers : gmap string ServerDef;
  proxy_profile_ids : gset string;
  bots : gmap Z BotDef;
  username_to_id : gmap string Z;
  groups : gmap string GroupDef;
  next_auto_id : Z;
}.

Abbreviation Reg A := (M SwarmRegistryBuilder RegistryError A).

Definition builder_new (profiles : gset string) : SwarmRegistryBuilder := mkBuilder ∅ profiles ∅ ∅ ∅ 0.

Definition set_servers x b := mkBuilder x (proxy_profile_ids b) (bots b) (username_to_id b) (groups b) (next_auto_id b).
Definition set_bots x b := mkBuilder (servers b) (proxy_profile_ids b) x (username_to_id b) (groups b) (next_auto_id b).
Definition set_usernames x b := mkBuilder (servers b) (proxy_profile_ids b) (bots b) x (groups b) (next_auto_id b).
Definition set_groups x b := mkBuilder (servers b) (proxy_profile_ids b) (bots b) (username_to_id b) x (next_auto_id b).
Definition set_next x b := mkBuilder (servers b) (proxy_profile_ids b) (bots b) (username_to_id b) (groups b) x.

Definition add_server (def : ServerDef) : Reg unit := λ b,
  if decide (server_name def = "") then (Err InvalidConfiguration, b)
  else if MAX_NAME_LEN <? str_len (server_name def) then (Err InvalidConfiguration, b)
  else if decide (host def = "") then (Err InvalidConfiguration, b)
  else if negb ((2 <=? view_distance def) && (view_distance def <=? 32)) then (Err InvalidConfiguration, b)
  else if decide (is_Some (servers b !! server_name def)) then (Err (DuplicateServer (server_name def)), b)
  else (Ok tt, set_servers (<[server_name def := def]> (servers b)) b).

(** The loop of [allocate_id]; it is left after at most one pass over each
    used id, so the number of bots bounds the passes ([allocate_id_spec]). *)
Fixpoint allocate_loop (fuel : nat) : Reg Z := λ b,
  match fuel with
  | O => (Err InvalidConfiguration, b)
  | S fuel =>
      let current := next_auto_id b in
      if decide (bots b !! current = None) then
        (Ok current, set_next (match checked_add_u32 current 1 with Some next => next | None => u32_max end) b)
      else
        match checked_add_u32 current 1 with
        | Some next => allocate_loop fuel (set_next next b)
        | None => (Err InvalidConfiguration, b)
        end
  end.

Definition allocate_id : Reg Z := λ b, allocate_loop (S (size (bots b))) b.

Definition choose_id (spec : BotSpec) : Reg Z := λ b,
  match spec_id spec with
  | Some i => if decide (is_Some (bots b !! i)) then (Err (DuplicateBotId i), b) else (Ok i, b)
  | None => allocate_id b
  end.

Definition ensure (ok : bool) (e : RegistryError) : result RegistryError unit := if ok then Ok tt else Err e.

(** The checks made before an id is chosen. *)
Definition check_bot (spec : BotSpec) (b : SwarmRegistryBuilder) : result RegistryError unit :=
  let? _ := ensure (bool_decide (spec_username spec ≠ "")) InvalidConfiguration in
  let? _ := ensure (str_len (spec_username spec) <=? MAX_USERNAME_LEN) InvalidConfiguration in
  let? _ := match spec_label spec with
            | Some l => ensure (str_len l <=? MAX_LABEL_LEN) InvalidConfiguration
            | None => Ok tt
            end in
  let? _ := ensure (bool_decide (is_Some (servers b !! spec_server spec))) (UnknownServer (spec_server spec)) in
  let? _ := match spec_proxy spec with
            | Some p => ensure (bool_decide (p ∈ proxy_profile_ids b)) (UnknownProxy p)
            | None => Ok tt
            end in
  let? _ := ensure (bool_decide (username_to_id b !! spec_username spec = None)) (DuplicateUsername (spec_username spec)) in
  ensure (map_len (bots b) <? MAX_BOTS) InvalidConfiguration.

(** The bookkeeping once the id is known. *)
Definition insert_bot (spec : BotSpec) (i : Z) (b : SwarmRegistryBuilder) : SwarmRegistryBuilder :=
  let b := set_next (Z.max (next_auto_id b) (saturating_add_u32 i 1)) b in
  let b := set_usernames (<[spec_username spec := i]> (username_to_id b)) b in
  set_bots (<[i := mkBotDef i (spec_username spec) (spec_server spec) (spec_proxy spec) (spec_reconnect spec) (spec_label spec)]>
              (bots b)) b.

Definition add_bot (spec : BotSpec) : Reg Z :=
  let* b := gets (λ b, b) in
  lift (check_bot spec b) ;;;
  let* i := choose_id spec in
  modify (insert_bot spec i) ;;;
  ret i.

Definition remove_bot (i : Z) (b : SwarmRegistryBuilder) : bool * SwarmRegistryBuilder :=
  match bots b !! i with
  | Some def => (true, set_usernames (delete (username def) (username_to_id b)) (set_bots (delete i (bots b)) b))
  | None => (false, b)
  end.

Definition check_group (name : string) (ids : list Z) (b : SwarmRegistryBuilder) : result RegistryError unit :=
  let? _ := ensure (bool_decide (name ≠ "")) InvalidConfiguration in
  let? _ := ensure (str_len name <=? MAX_NAME_LEN) InvalidConfiguration in
  let? _ := ensure (Z.of_nat (length ids) <=? MAX_BOTS_PER_GROUP) InvalidConfiguration in
  let? _ := ensure (bool_decide (groups b !! name = None)) (DuplicateGroup name) in
  let? _ := ensure (map_len (groups b) <? MAX_GROUPS) InvalidConfiguration in
  ensure (forallb (λ i, bool_decide (is_Some (bots b !! i))) ids) InvalidConfiguration.

Definition add_group (name : string) (ids : list Z) : Reg unit :=
  let* b := gets (λ b, b) in
  lift (check_group name ids b) ;;;
  modify (set_groups (<[name := mkGroupDef name ids]> (groups b))).

(** [build] freezes the maps; [worker_index] and [bot_by_username] read them. *)
Definition worker_index (bot_id : Z) (worker_count : nat) : Z := bot_id `mod` Z.of_nat worker_count.

Definition bot_by_username (name : string) (b : SwarmRegistryBuilder) : option BotDef :=
  i ← username_to_id b !! name; bots b !! i.

(** ** Histories *)

Inductive registry_op : Type :=
  | OpAddServer (def : ServerDef)
  | OpAddBot (spec : BotSpec)
  | OpRemoveBot (i : Z)
  | OpAddGroup (name : string) (ids : list Z).

Definition run_op (o : registry_op) (b : SwarmRegistryBuilder) : SwarmRegistryBuilder :=
  match o with
  | OpAddServer def => (add_server def b).2
  | OpAddBot spec => (add_bot spec b).2
  | OpRemoveBot i => (remove_bot i b).2
  | OpAddGroup name ids => (add_group name ids b).2
  end.

(** Explicit ids are [u32]. *)
Definition op_typed (o : registry_op) : Prop :=
  match o with OpAddBot spec => ∀ i, spec_id spec = Some i → in_u 32 i | _ => True end.

(** ** Invariant *)

Definition bot_ok (b : SwarmRegistryBuilder) (i : Z) (d : BotDef) : Prop :=
  id d = i ∧ in_u 32 i ∧ username d ≠ "" ∧ str_len (username d) ≤ MAX_USERNAME_LEN
  ∧ is_Some (servers b !! server d) ∧ (∀ p, proxy d = Some p → p ∈ proxy_profile_ids b)
  ∧ username_to_id b !! username d = Some i.

Record registry_ok (b : SwarmRegistryBuilder) : Prop := {
  ok_servers : map_Forall (λ n d, server_name d = n ∧ n ≠ "" ∧ host d ≠ "" ∧ 2 ≤ view_distance d ≤ 32) (servers b);
  ok_bots : map_Forall (bot_ok b) (bots b);
  ok_usernames : map_Forall (λ u i, ∃ d, bots b !! i = Some d ∧ username d = u) (username_to_id b);
  ok_groups : map_Forall (λ n g, group_name g = n ∧ n ≠ "" ∧ Z.of_nat (length (bot_ids g)) ≤ MAX_BOTS_PER_GROUP) (groups b);
  ok_bot_count : map_len (bots b) ≤ MAX_BOTS;
  ok_group_count : map_len (groups b) ≤ MAX_GROUPS;
  ok_next : in_u 32 (next_auto_id b) ∧ ∀ i, is_Some (bots b !! i) → i < next_auto_id b ∨ i = u32_max;
}.

(** Every group lists known bots. *)
Definition groups_closed (b : SwarmRegistryBuilder) : Prop :=
  map_Forall (λ _ g, Forall (λ i, is_Some (bots b !! i)) (bot_ids g)) (groups b).
End registry.
Arguments SwarmRegistryBuilder : clear implicits.
Arguments registry_op : clear implicits.

(** ** Choosing ids *)

Section allocate.
Context {ReconnectPolicy : Type}.
Implicit Types b : SwarmRegistryBuilder ReconnectPolicy.

(** All ids of [lo, hi) are used. *)
Definition all_used b (lo hi : Z) : Prop := ∀ j, lo ≤ j < hi → is_Some (bots b !! j).

Lemma all_used_length b lo hi : lo ≤ hi → all_used b lo hi → hi - lo ≤ Z.of_nat (size (bots b)).
Proof.
  intros Hle Hused. rewrite <- size_dom.
  assert (size (list_to_set (seqZ lo (hi - lo)) : gset Z) ≤ size (dom (bots b)))%nat as Hsize.
  { apply subseteq_size. intros j Hj%elem_of_list_to_set%elem_of_seqZ. apply elem_of_dom, Hused. lia. }
  rewrite size_list_to_set in Hsize by apply NoDup_seqZ. rewrite length_seqZ in Hsize. lia.
Qed.

Lemma all_used_snoc b lo hi : all_used b lo hi → is_Some (bots b !! hi) → all_used b lo (hi + 1).
Proof. intros Hall Hhi j Hj. destruct (decide (j = hi)) as [->|]; [done|]. apply Hall. lia. Qed.

(** From a loop state where the ids passed over are used, and with a pass left
    for each used id not yet passed, the loop ends at the first free id, or
    finds every id up to the last used. *)
Lemma allocate_loop_spec fuel b start :
  0 ≤ start ≤ next_auto_id b → next_auto_id b ≤ u32_max → all_used b start (next_auto_id b) →
  Z.of_nat (size (bots b)) < Z.of_nat fuel + (next_auto_id b - start) →
  (∃ i, allocate_loop fuel b = (Ok i, set_next (Z.min u32_max (i + 1)) b)
        ∧ next_auto_id b ≤ i ≤ u32_max ∧ bots b !! i = None ∧ all_used b start i)
  ∨ ((allocate_loop fuel b).1 = Err InvalidConfiguration
     ∧ (allocate_loop fuel b).2 = set_next u32_max b
     ∧ all_used b start (u32_max + 1)).
Proof.
  revert b. induction fuel as [|fuel IH]; intros b Hstart Hnext Hused Hfuel.
  { pose proof (all_used_length b start (next_auto_id b) ltac:(lia) Hused). lia. }
  simpl. case_decide as Hfree.
  - left. exists (next_auto_id b). split_and!; try done. unfold checked_add_u32.
    f_equal. f_equal. destruct (Z.leb_spec (next_auto_id b + 1) u32_max); lia.
  - assert (is_Some (bots b !! next_auto_id b)) as Hsome by by apply not_eq_None_Some.
    pose proof (all_used_snoc _ _ _ Hused Hsome) as Hused'. unfold checked_add_u32.
    destruct (Z.leb_spec (next_auto_id b + 1) u32_max) as [Hle|Hgt].
    + destruct (IH (set_next (next_auto_id b + 1) b)) as [(i & Ha & Hi & Hn & Hu)|(Ha & Hb & Hu)];
        cbn [set_next next_auto_id bots] in *; [lia|lia|done|lia| |].
      * left. exists i. rewrite Ha. split_and!; (done || lia).
      * right. by rewrite Ha, Hb.
    + right. assert (next_auto_id b = u32_max) as Heq by lia. simpl. split_and!; [done| |by rewrite Heq in Hused'].
      destruct b. simpl in *. by subst.
Qed.

(** [allocate_id] never runs out of passes. *)
Lemma allocate_id_spec b :
  in_u 32 (next_auto_id b) →
  (∃ i, allocate_id b = (Ok i, set_next (Z.min u32_max (i + 1)) b)
        ∧ next_auto_id b ≤ i ≤ u32_max ∧ bots b !! i = None ∧ all_used b (next_auto_id b) i)
  ∨ ((allocate_id b).1 = Err InvalidConfiguration
     ∧ (allocate_id b).2 = set_next u32_max b ∧ all_used b (next_auto_id b) (u32_max + 1)).
Proof.
  intros Hu. apply allocate_loop_spec; unfold in_u, u32_max in *; try lia. intros j Hj. lia.
Qed.
End allocate.

(** ** Preservation *)

Section preservation.
Context {ReconnectPolicy : Type}.
Implicit Types b : SwarmRegistryBuilder ReconnectPolicy.

Lemma ensure_Ok (ok : bool) e : ensure ok e = Ok tt → ok = true.
Proof. by destruct ok. Qed.

Lemma builder_new_ok profiles : registry_ok (builder_new profiles : SwarmRegistryBuilder ReconnectPolicy).
Proof.
  split; try (by apply map_Forall_empty); unfold map_len; simpl; rewrite ?map_size_empty; try done.
  split; [done|]. intros i [? Hi]. by rewrite lookup_empty in Hi.
Qed.

Lemma map_len_insert {K A} `{Countable K} (m : gmap K A) k x :
  m !! k = None → map_len (<[k := x]> m) = map_len m + 1.
Proof. intros Hk. unfold map_len. rewrite map_size_insert_None by done. lia. Qed.

Lemma set_next_ok b n :
  registry_ok b → in_u 32 n → next_auto_id b ≤ n → registry_ok (set_next n b).
Proof.
  intros [H1 H2 H3 H4 H5 H6 [H7 H8]] Hn Hle. split; try done. split; [done|].
  intros i Hi. destruct (H8 i Hi); [|by right]. left. simpl. lia.
Qed.

Lemma add_server_ok def b : registry_ok b → registry_ok (add_server def b).2.
Proof.
  intros [H1 H2 H3 H4 H5 H6 H7]. unfold add_server. repeat (case_match; [by split|]). simpl.
  split; try done; simpl.
  - apply map_Forall_insert_2; [|done]. apply negb_false_iff, andb_true_iff in H9 as [??]. split_and!; (done || lia).
  - intros i d Hd. destruct (H2 i d Hd) as (? & ? & ? & ? & ? & ? & ?). unfold bot_ok. simpl. split_and!; try done.
    rewrite lookup_insert_is_Some. destruct (decide (server_name def = server d)); auto.
Qed.

Lemma choose_id_spec (spec : BotSpec) b i b' :
  registry_ok b → (∀ j, spec_id spec = Some j → in_u 32 j) → choose_id spec b = (Ok i, b') →
  in_u 32 i ∧ bots b !! i = None ∧ ∃ n, b' = set_next n b ∧ in_u 32 n ∧ next_auto_id b ≤ n.
Proof.
  intros Hok Hty. unfold choose_id. destruct (ok_next _ Hok) as [Hn _]. destruct (spec_id spec) as [j|].
  - case_decide as Hj; [done|]. intros [= <- <-]. split_and!; [by apply Hty|by apply eq_None_not_Some|].
    exists (next_auto_id b). split_and!; [by destruct b|done|lia].
  - destruct (allocate_id_spec b Hn) as [(i' & Ha & Hi & Hfree & _)|(Ha & _ & _)].
    + rewrite Ha. intros [= <- <-]. unfold in_u, u32_max in *. split_and!; [lia|lia|done|].
      eexists. split_and!; [done|lia|lia|lia].
    + destruct (allocate_id b). by simplify_eq/=.
Qed.

Lemma choose_id_ok (spec : BotSpec) b : registry_ok b → registry_ok (choose_id spec b).2.
Proof.
  intros Hok. destruct (ok_next _ Hok) as [Hn _]. unfold choose_id. destruct (spec_id spec); [by case_decide|].
  destruct (allocate_id_spec b Hn) as [(i & Ha & Hi & _)|(_ & Ha & _)]; rewrite Ha;
    apply set_next_ok; unfold in_u, u32_max in *; (done || lia).
Qed.

Lemma check_bot_Ok (spec : BotSpec) b :
  check_bot spec b = Ok tt →
  spec_username spec ≠ "" ∧ str_len (spec_username spec) ≤ MAX_USERNAME_LEN ∧ is_Some (servers b !! spec_server spec)
  ∧ (∀ p, spec_proxy spec = Some p → p ∈ proxy_profile_ids b)
  ∧ username_to_id b !! spec_username spec = None ∧ map_len (bots b) < MAX_BOTS.
Proof.
  unfold check_bot.
  intros ([] & H1%ensure_Ok%bool_decide_eq_true & ([] & H2%ensure_Ok & ([] & _ & ([] & H3%ensure_Ok%bool_decide_eq_true &
    ([] & H4 & ([] & H5%ensure_Ok%bool_decide_eq_true & H6%ensure_Ok)%rbind_Ok_inv)%rbind_Ok_inv)%rbind_Ok_inv
    )%rbind_Ok_inv)%rbind_Ok_inv)%rbind_Ok_inv.
  split_and!; try done; [by apply Z.leb_le| |by apply Z.ltb_lt].
  intros p Hp. rewrite Hp in H4. by apply ensure_Ok, bool_decide_eq_true in H4.
Qed.

Lemma insert_bot_ok (spec : BotSpec) i n b :
  registry_ok b → check_bot spec b = Ok tt → in_u 32 i → bots b !! i = None → in_u 32 n → next_auto_id b ≤ n →
  registry_ok (insert_bot spec i (set_next n b)).
Proof.
  intros [H1 H2 H3 H4 H5 H6 [H7 H8]] (C1 & C2 & C3 & C4 & C5 & C6)%check_bot_Ok Hi Hfree Hn Hle.
  split; try done; simpl.
  - apply map_Forall_insert_2.
    + split_and!; simpl; try done. apply lookup_insert_eq.
    + intros j d Hd. destruct (H2 j d Hd) as (? & ? & ? & ? & ? & ? & Hu). unfold bot_ok. simpl. split_and!; try done.
      rewrite lookup_insert_ne; [done|]. intros Heq. rewrite <- Heq in Hu. congruence.
  - apply map_Forall_insert_2; [eexists; by rewrite lookup_insert_eq|].
    intros u j Hu. destruct (H3 u j Hu) as (d & Hd & Hname). exists d. rewrite lookup_insert_ne; [done|congruence].
  - rewrite map_len_insert by done. lia.
  - unfold saturating_add_u32, in_u, u32_max in *. split; [lia|]. intros j. rewrite lookup_insert_is_Some.
    intros [<-|[Hne Hj]]; [lia|]. destruct (H8 j Hj); lia.
Qed.

Lemma add_bot_ok (spec : BotSpec) b :
  registry_ok b → (∀ j, spec_id spec = Some j → in_u 32 j) → registry_ok (add_bot spec b).2.
Proof.
  intros Hok Hty. unfold add_bot, bind, gets, lift. destruct (check_bot spec b) as [[]|e] eqn:Hc; [|done].
  pose proof (choose_id_ok spec b Hok) as Hok'. destruct (choose_id spec b) as [[i|e] b'] eqn:Hi; [|done].
  destruct (choose_id_spec _ _ _ _ Hok Hty Hi) as (? & ? & n & -> & ? & ?). by apply insert_bot_ok.
Qed.

Lemma remove_bot_ok i b : registry_ok b → registry_ok (remove_bot i b).2.
Proof.
  intros Hok. unfold remove_bot. destruct (bots b !! i) as [d|] eqn:Hd; [|done].
  destruct Hok as [H1 H2 H3 H4 H5 H6 [H7 H8]]. destruct (H2 i d Hd) as (_ & _ & _ & _ & _ & _ & Hu). split; try done; simpl.
  - intros j d' [Hne Hd']%lookup_delete_Some. destruct (H2 j d' Hd') as (? & ? & ? & ? & ? & ? & Hu').
    unfold bot_ok. simpl. split_and!; try done. rewrite lookup_delete_ne; [done|]. intros Heq. rewrite Heq in Hu. congruence.
  - intros u j [Hne Hj]%lookup_delete_Some. destruct (H3 u j Hj) as (d' & Hd' & Hname). exists d'.
    rewrite lookup_delete_ne; [done|]. intros <-. congruence.
  - unfold map_len in *. rewrite map_size_delete, Hd. lia.
  - split; [done|]. intros j Hj. apply H8. rewrite lookup_delete_is_Some in Hj. by destruct Hj.
Qed.

Lemma check_group_Ok name ids b :
  check_group name ids b = Ok tt →
  name ≠ "" ∧ Z.of_nat (length ids) ≤ MAX_BOTS_PER_GROUP ∧ groups b !! name = None
  ∧ map_len (groups b) < MAX_GROUPS ∧ Forall (λ i, is_Some (bots b !! i)) ids.
Proof.
  unfold check_group.
  intros ([] & H1%ensure_Ok%bool_decide_eq_true & ([] & _ & ([] & H2%ensure_Ok & ([] & H3%ensure_Ok%bool_decide_eq_true &
    ([] & H4%ensure_Ok & H5%ensure_Ok)%rbind_Ok_inv)%rbind_Ok_inv)%rbind_Ok_inv)%rbind_Ok_inv)%rbind_Ok_inv.
  split_and!; [done|by apply Z.leb_le|done|by apply Z.ltb_lt|]. apply List.Forall_forall. intros i Hi.
  rewrite forallb_forall in H5. by apply H5, bool_decide_eq_true in Hi.
Qed.

Lemma add_group_ok name ids b : registry_ok b → registry_ok (add_group name ids b).2.
Proof.
  intros Hok. unfold add_group, bind, gets, lift. destruct (check_group name ids b) as [[]|e] eqn:Hc; [|done].
  apply check_group_Ok in Hc as (? & ? & ? & ? & _). destruct Hok as [H1' H2' H3' H4' H5' H6' H7']. split; try done; simpl.
  - by apply map_Forall_insert_2.
  - rewrite map_len_insert by done. lia.
Qed.

Lemma registry_op_ok (o : registry_op ReconnectPolicy) b : op_typed o → registry_ok b → registry_ok (run_op o b).
Proof.
  destruct o; simpl; intros Hty Hok;
    [by apply add_server_ok|by apply add_bot_ok|by apply remove_bot_ok|by apply add_group_ok].
Qed.

(** What [add_bot] does, on every path. *)
Lemma add_bot_cases (spec : BotSpec) b :
  registry_ok b → (∀ j, spec_id spec = Some j → in_u 32 j) →
  (∃ e n, add_bot spec b = (Err e, set_next n b))
  ∨ ∃ i n, add_bot spec b = (Ok i, insert_bot spec i (set_next n b)) ∧ bots b !! i = None ∧ in_u 32 i.
Proof.
  intros Hok Hty. assert (b = set_next (next_auto_id b) b) as Hself by by destruct b.
  unfold add_bot, bind, gets, lift. destruct (check_bot spec b) as [[]|e]; [|left; eexists _, _; by f_equal].
  destruct (choose_id spec b) as [[i|e] b'] eqn:Hi.
  - right. destruct (choose_id_spec _ _ _ _ Hok Hty Hi) as (? & ? & n & -> & _ & _). by exists i, n.
  - left. revert Hi. unfold choose_id. destruct (spec_id spec); [case_decide; [|done]; intros [= <- <-]; eexists _, _; by f_equal|].
    destruct (allocate_id_spec b (proj1 (ok_next _ Hok))) as [(i & -> & _)|(_ & Hb & _)]; [done|].
    intros Ha. rewrite Ha in Hb. simpl in Hb. subst b'. by eexists _, _.
Qed.

Lemma groups_closed_mono b b' : groups b' = groups b → bots b ⊆ bots b' → groups_closed b → groups_closed b'.
Proof.
  intros Hg Hb Hc n g Hn. rewrite Hg in Hn. eapply Forall_impl; [by apply (Hc n)|]. simpl.
  intros i [d Hd]. exists d. by eapply lookup_weaken.
Qed.

Lemma registry_op_closed (o : registry_op ReconnectPolicy) b :
  op_typed o → (∀ i, o ≠ OpRemoveBot i) → registry_ok b → groups_closed b → groups_closed (run_op o b).
Proof.
  intros Hty Hno Hok Hc. destruct o as [def|spec|i|name ids]; simpl.
  - unfold add_server. by repeat (case_match; [done|]).
  - destruct (add_bot_cases spec b Hok Hty) as [(e & n & ->)|(i & n & -> & Hi & _)]; [done|].
    eapply (groups_closed_mono b); [done| |done]. by apply insert_subseteq.
  - by destruct (Hno i).
  - unfold add_group, bind, gets, lift. destruct (check_group name ids b) as [[]|e] eqn:Hg; [|done].
    apply check_group_Ok in Hg as (_ & _ & _ & _ & Hids). by apply map_Forall_insert_2.
Qed.

Definition run_ops (ops : list (registry_op ReconnectPolicy)) b := foldl (λ b o, run_op o b) b ops.

Lemma run_ops_ok ops b : Forall op_typed ops → registry_ok b → registry_ok (run_ops ops b).
Proof. intros Hty. revert b. induction Hty; intros b Hok; simpl; [done|]. eauto using registry_op_ok. Qed.

Lemma run_ops_closed ops b :
  Forall op_typed ops → Forall (λ o, ∀ i, o ≠ OpRemoveBot i) ops → registry_ok b → groups_closed b →
  groups_closed (run_ops ops b).
Proof.
  intros Hty. revert b. induction Hty as [|o ops Ho Hty IH]; intros b Hno Hok Hc; simpl; [done|].
  apply Forall_cons in Hno as [Hno Hnos]. eauto using registry_op_ok, registry_op_closed.
Qed.

Lemma bot_by_username_spec b name d :
  registry_ok b → bot_by_username name b = Some d ↔ bots b !! id d = Some d ∧ username d = name.
Proof.
  intros Hok. unfold bot_by_username. split.
  - intros (i & Hu & Hd)%bind_Some. destruct (ok_usernames _ Hok _ _ Hu) as (d' & Hd' & <-). simplify_eq.
    destruct (ok_bots _ Hok _ _ Hd) as (<- & _). done.
  - intros [Hd <-]. destruct (ok_bots _ Hok _ _ Hd) as (_ & _ & _ & _ & _ & _ & Hu). by rewrite Hu.
Qed.
End preservation.

(** ** Properties *)

(** C38. However a script configures the swarm, rollbacks included, the
    registry stays consistent: ids are distinct [u32]s, user names and bots
    are in one-to-one correspondence, every bot is on a known server and uses
    only proxies the host registered, servers and groups are stored under
    their names and everything is within its limit; and as long as no bot was
    rolled back every group lists known bots. *)
Theorem registry_invariant {ReconnectPolicy} (profiles : gset string) (ops : list (registry_op ReconnectPolicy)) :
  Forall op_typed ops →
  let b := run_ops ops (builder_new profiles) in
  registry_ok b
  ∧ (∀ name d, bot_by_username name b = Some d ↔ bots b !! id d = Some d ∧ username d = name)
  ∧ (Forall (λ o, ∀ i, o ≠ OpRemoveBot i) ops → groups_closed b).
Proof.
  intros Hty b. pose proof (builder_new_ok (ReconnectPolicy := ReconnectPolicy) profiles) as H0.
  assert (registry_ok b) as Hok by by apply run_ops_ok. split_and!; [done|by intros; apply bot_by_username_spec|].
  intros Hno. apply run_ops_closed; [done|done|done|apply map_Forall_empty].
Qed.

(** What [add_bot] answers.  The id it returns was free, is the one asked
    for if one was, and otherwise the first free one at or above the counter;
    the bot is then found under that id and under its user name, and all other
    bots, the servers and the groups are as before.  A refused bot changes
    nothing but the counter, and the search for a free id always ends: it
    fails only when every id from the counter up to [u32::MAX] is used. *)
Theorem add_bot_outcome {ReconnectPolicy} (spec : BotSpec (ReconnectPolicy := ReconnectPolicy))
    (b : SwarmRegistryBuilder ReconnectPolicy) :
  registry_ok b → (∀ j, spec_id spec = Some j → in_u 32 j) →
  match add_bot spec b with
  | (Ok i, b') =>
      bots b !! i = None
      ∧ (match spec_id spec with Some j => i = j | None => next_auto_id b ≤ i ∧ all_used b (next_auto_id b) i end)
      ∧ (∃ d, bots b' = <[i := d]> (bots b) ∧ bot_by_username (spec_username spec) b' = Some d)
      ∧ servers b' = servers b ∧ groups b' = groups b
  | (Err e, b') =>
      (∃ n, b' = set_next n b)
      ∧ (check_bot spec b = Err e
         ∨ (∃ j, spec_id spec = Some j ∧ is_Some (bots b !! j) ∧ e = DuplicateBotId j)
         ∨ (spec_id spec = None ∧ all_used b (next_auto_id b) (u32_max + 1)))
  end.
Proof.
  intros Hok Hty. pose proof (allocate_id_spec b (proj1 (ok_next _ Hok))) as Halloc.
  assert (b = set_next (next_auto_id b) b) as Hself by by destruct b.
  unfold add_bot, bind, gets, lift. destruct (check_bot spec b) as [[]|e] eqn:Hc; [|split; [by eexists|by left]].
  unfold choose_id. destruct (spec_id spec) as [j|].
  - case_decide as Hj; [split; [by eexists|right; left; by eexists]|]. simpl.
    split_and!; try done; [by apply eq_None_not_Some|]. eexists. split; [done|].
    unfold bot_by_username. simpl. rewrite lookup_insert_eq. simpl. apply lookup_insert_eq.
  - destruct Halloc as [(i & -> & Hi & Hfree & Hall)|(He & Hb & Hall)].
    + simpl. split_and!; try done; [lia|]. eexists. split; [done|].
      unfold bot_by_username. simpl. rewrite lookup_insert_eq. simpl. apply lookup_insert_eq.
    + destruct (allocate_id b) as [r b']. simplify_eq/=. split; [by eexists|]. right; right. done.
Qed.

(** *** Samples *)

Definition sample_server : ServerDef := mkServerDef "lobby" "mc.example.net" 25565 10 10000 15000 true true.
Definition sample_bot (i : option Z) (name : string) : BotSpec (ReconnectPolicy := unit) :=
  mkBotSpec i name "lobby" None tt None.
Definition sample_ops : list (registry_op unit) :=
  [OpAddServer sample_server; OpAddBot (sample_bot (Some 1) "alice"); OpAddBot (sample_bot (Some u32_max) "bob");
   OpAddGroup "all" [1; u32_max]].

Lemma sample_ops_typed : Forall op_typed sample_ops.
Proof.
  unfold sample_ops. rewrite !Forall_cons, Forall_nil. simpl. split_and!; try done;
    intros i [= <-]; split; vm_compute; (discriminate || reflexivity).
Qed.

Lemma registry_invariant_witness : registry_ok (run_ops sample_ops (builder_new ∅)).
Proof. exact (proj1 (registry_invariant ∅ sample_ops sample_ops_typed)). Defined.

Lemma add_bot_outcome_witness :
  add_bot (sample_bot None "carol") (run_ops (take 2 sample_ops) (builder_new ∅))
    = (Ok 2, run_ops [OpAddBot (sample_bot None "carol")] (run_ops (take 2 sample_ops) (builder_new ∅)))
  ∧ bots (run_ops (take 2 sample_ops) (builder_new ∅)) !! 2 = None.
Proof.
  assert (registry_ok (run_ops (take 2 sample_ops) (builder_new ∅))) as Hok
    by (apply run_ops_ok; [apply Forall_take, sample_ops_typed|apply builder_new_ok]).
  split; [vm_compute; reflexivity|].
  exact (proj1 (add_bot_outcome (sample_bot None "carol") _ Hok ltac:(discriminate))).
Defined.

(** [remove_bot] is documented as never letting a removed id be reused.  Once
    [u32::MAX] was used the counter stays there, so removing that bot and
    adding another one without an id gives it the same id; and a group keeps
    listing a bot that was removed. *)
Theorem removed_id_reused :
  let b := run_ops sample_ops (builder_new ∅) in
  let b' := (remove_bot u32_max b).2 in
  (add_bot (sample_bot None "dave") b').1 = Ok u32_max
  ∧ bot_ids <$> groups b' !! "all" = Some [1; u32_max] ∧ bots b' !! u32_max = None.
Proof. vm_compute. split_and!; reflexivity. Qed.
