(* ===== verification/Palette.v ===== *)
(** * Paletted containers

    The container and section half of [src/minecraft/world.rs]: decoding a
    chunk's sections, reading a packed value, and replacing one value by
    repacking all of them. *)

From S2P Require Import Prelude Machine Reader Varint Errors.

Local Open Scope Z_scope.

Definition BLOCKS_PER_SECTION : nat := 16 * 16 * 16.
Definition BIOMES_PER_SECTION : nat := 4 * 4 * 4.
Definition MAX_PALETTE_BITS : Z := 32.

Inductive PalettedContainer : Type :=
  | Single (value : Z)
  | Indirect (bits : Z) (palette data : list Z)
  | Direct (bits : Z) (data : list Z).

#[export] Instance PalettedContainer_eq_dec : EqDecision PalettedContainer.
Proof. solve_decision. Defined.

(** ** Reading packed values *)

(** [64 / usize::from(bits)]; [bits] is never 0 ([container_ok]). *)
Definition values_per_long (bits : Z) : Z := 64 / bits.

Definition packed_value (bits : Z) (data : list Z) (index : nat) : option Z :=
  let per := values_per_long bits in
  long ← data !! Z.to_nat (Z.of_nat index / per);
  let shift := (Z.of_nat index `mod` per) * bits in
  let mask := if bits =? 32 then u32_max else Z.shiftl 1 bits - 1 in
  Some (wrap 32 (Z.land (Z.shiftr long shift) mask)).

Definition container_get (c : PalettedContainer) (index : nat) : option Z :=
  match c with
  | Single value => Some value
  | Indirect bits palette data => i ← packed_value bits data index; palette !! Z.to_nat i
  | Direct bits data => packed_value bits data index
  end.

(** ** Decoding *)

Abbreviation PRead A := (M PacketReader MineRiderError A).

(** [?] on a protocol result converts its error. *)
Definition wire {A} (m : Read A) : PRead A := m_map_err Wire m.

Definition nonnegative_varint : PRead Z :=
  let* value := wire read_varint in
  if value <? 0 then raise Protocol else ret value.

(** [entries.div_ceil(per)]. *)
Definition div_ceil (a b : Z) : Z := (a + b - 1) / b.

Definition decode_palette (bits : Z) : PRead (list Z) :=
  let* count := nonnegative_varint in
  let capacity := Z.shiftl 1 bits in
  if (count =? 0) || (capacity <? count) then raise Protocol
  else repeat_m (Z.to_nat count) nonnegative_varint.

Definition decode_longs (entries : nat) (bits : Z) : PRead (list Z) :=
  let per := values_per_long bits in
  if per =? 0 then raise Protocol
  else
    let expected_longs := div_ceil (Z.of_nat entries) per in
    let* long_count := nonnegative_varint in
    if negb (long_count =? expected_longs) then raise Protocol
    else repeat_m (Z.to_nat long_count) (wire get_u64).

Definition container_decode (entries : nat) (min_indirect_bits max_indirect_bits : Z) : PRead PalettedContainer :=
  let* wire_bits := wire get_u8 in
  if wire_bits =? 0 then
    let* value := nonnegative_varint in
    let* long_count := nonnegative_varint in
    if negb (long_count =? 0) then raise Protocol else ret (Single value)
  else if MAX_PALETTE_BITS <? wire_bits then raise Protocol
  else if wire_bits <=? max_indirect_bits then
    let bits := Z.max wire_bits min_indirect_bits in
    let* palette := decode_palette bits in
    let* data := decode_longs entries bits in
    ret (Indirect bits palette data)
  else
    let* data := decode_longs entries wire_bits in
    ret (Direct wire_bits data).

Record ChunkSection : Type := mkSection {
  non_air_blocks : Z;
  block_states : PalettedContainer;
  biomes : PalettedContainer;
}.

#[export] Instance ChunkSection_eq_dec : EqDecision ChunkSection.
Proof. solve_decision. Defined.

Definition decode_section : PRead ChunkSection :=
  let* non_air := wire get_i16 in
  if (non_air <? 0) || (Z.of_nat BLOCKS_PER_SECTION <? non_air) then raise Protocol
  else
    let* states := container_decode BLOCKS_PER_SECTION 4 8 in
    let* biomes := container_decode BIOMES_PER_SECTION 1 3 in
    ret (mkSection non_air states biomes).

(** The sections of [Chunk::decode]. *)
Definition decode_sections (section_count : nat) (chunk_data : list byte) : result MineRiderError (list ChunkSection) :=
  let '(res, input) := repeat_m section_count decode_section (new_reader chunk_data) in
  let? sections := res in
  if is_empty input then Ok sections else Err Protocol.

(** ** Replacing one value *)

(** [32 - max.leading_zeros()], at least 1. *)
Definition bits_for (values : list Z) : Z :=
  let m := foldr Z.max 0 values in
  Z.max 1 (if m =? 0 then 0 else Z.log2 m + 1).

(** [data[long] |= (u64::from(value) & mask) << shift]. *)
Definition put_value (bits : Z) (i : nat) (value : Z) (data : list Z) : list Z :=
  let per := values_per_long bits in
  let long := Z.to_nat (Z.of_nat i / per) in
  let shift := (Z.of_nat i `mod` per) * bits in
  let mask := Z.shiftl 1 bits - 1 in
  alter (λ d, Z.lor d (wrap 64 (Z.shiftl (Z.land value mask) shift))) long data.

(** The packing loop, from index [i] on. *)
Fixpoint pack_loop (bits : Z) (i : nat) (values data : list Z) : list Z :=
  match values with
  | [] => data
  | v :: values => pack_loop bits (S i) values (put_value bits i v data)
  end.

Definition pack (bits : Z) (values : list Z) : list Z :=
  pack_loop bits 0 values
    (replicate (Z.to_nat (div_ceil (Z.of_nat (length values)) (values_per_long bits))) 0).

(** [(0..entries).map(get).collect::<Result<Vec<_>>>()]. *)
Definition materialize (c : PalettedContainer) (entries : nat) : option (list Z) :=
  mapM (container_get c) (seq 0 entries).

Definition materialize_and_set (entries index : nat) (state : Z) (c : PalettedContainer) :
    result MineRiderError PalettedContainer :=
  if decide (entries ≤ index)%nat then Err Protocol
  else match materialize c entries with
       | None => Err Protocol
       | Some values =>
           let values := <[index := state]> values in
           let bits := bits_for values in
           Ok (Direct bits (pack bits values))
       end.

(** ** Packing *)

Section packing.
Context (bits : Z).
Hypothesis Hbits : 1 ≤ bits ≤ 32.

Lemma values_per_long_bounds : 2 ≤ values_per_long bits ∧ values_per_long bits * bits ≤ 64.
Proof. unfold values_per_long. pose proof (Z.div_mod 64 bits ltac:(lia)). pose proof (Z.mod_pos_bound 64 bits ltac:(lia)). nia. Qed.

Lemma mask_ones : Z.shiftl 1 bits - 1 = Z.ones bits.
Proof. unfold Z.ones. lia. Qed.

Lemma get_mask : (if bits =? 32 then u32_max else Z.shiftl 1 bits - 1) = Z.ones bits.
Proof. destruct (Z.eqb_spec bits 32) as [->|]; [done|apply mask_ones]. Qed.

(** The value in slot [j] of a long. *)
Definition slot (long j : Z) : Z := Z.land (Z.shiftr long (j * bits)) (Z.ones bits).

Lemma slot_range long j : 0 ≤ slot long j < 2 ^ bits.
Proof. unfold slot. rewrite Z.land_ones by lia. apply Z.mod_pos_bound. lia. Qed.

(** Writing slot [j] changes no other slot, and an empty slot takes the value. *)
Lemma slot_lor long v j k :
  0 ≤ j → 0 ≤ k → 0 ≤ v < 2 ^ bits → slot long j = 0 →
  slot (Z.lor long (Z.shiftl v (j * bits))) k = if decide (k = j) then v else slot long k.
Proof.
  intros Hj Hk Hv Hempty. unfold slot in *. rewrite Z.shiftr_lor, Z.land_lor_distr_l. case_decide as Hkj.
  - subst k. rewrite Hempty, Z.lor_0_l, Z.shiftr_shiftl_l by lia. rewrite Z.sub_diag, Z.shiftl_0_r, Z.land_ones by lia.
    apply Z.mod_small. lia.
  - rewrite <- (Z.lor_0_r (Z.land (Z.shiftr long (k * bits)) (Z.ones bits))) at 2. f_equal.
    apply Z.bits_inj'. intros n Hn. rewrite Z.land_spec, Z.shiftr_spec, Z.bits_0 by lia.
    destruct (decide (n < bits)) as [Hlt|Hge]; [|rewrite Z.ones_spec_high, andb_false_r by lia; done].
    rewrite Z.shiftl_spec by nia. replace (Z.testbit v (n + k * bits - j * bits)) with false; [done|].
    destruct (decide (k < j)); [symmetry; apply Z.testbit_neg_r; nia|].
    symmetry. rewrite <- (Z.mod_small v (2 ^ bits)) by lia. rewrite Z.mod_pow2_bits_high; [done|]. nia.
Qed.

Lemma put_shift v j :
  0 ≤ j < values_per_long bits → 0 ≤ v < 2 ^ bits →
  wrap 64 (Z.shiftl (Z.land v (Z.shiftl 1 bits - 1)) (j * bits)) = Z.shiftl v (j * bits).
Proof.
  intros Hj Hv. rewrite mask_ones, Z.land_ones, (Z.mod_small v) by lia. apply wrap_small.
  destruct values_per_long_bounds as [_ Hper]. rewrite Z.shiftl_mul_pow2 by nia. split; [nia|].
  assert (2 ^ bits * 2 ^ (j * bits) ≤ 2 ^ 64) as Hpow.
  { rewrite <- Z.pow_add_r by nia. apply Z.pow_le_mono_r; nia. }
  pose proof (Z.pow_pos_nonneg 2 (j * bits) ltac:(lia) ltac:(nia)). nia.
Qed.

Lemma packed_value_slot data i :
  packed_value bits data i
  = (λ long, slot long (Z.of_nat i `mod` values_per_long bits)) <$> data !! Z.to_nat (Z.of_nat i / values_per_long bits).
Proof.
  unfold packed_value. rewrite get_mask. destruct (data !! _) as [long|]; [|done]. simpl. f_equal.
  apply wrap_small. pose proof (slot_range long (Z.of_nat i `mod` values_per_long bits)) as Hr. unfold slot in *.
  pose proof (Z.pow_le_mono_r 2 bits 32 ltac:(lia) ltac:(lia)). unfold in_u. lia.
Qed.

(** Writing at an empty index is read back there and nowhere else. *)
Lemma packed_put_value data i v k :
  0 ≤ v < 2 ^ bits → packed_value bits data i = Some 0 →
  packed_value bits (put_value bits i v data) k = if decide (k = i) then Some v else packed_value bits data k.
Proof.
  intros Hv Hempty. destruct values_per_long_bounds as [Hper _]. rewrite packed_value_slot in Hempty. rewrite !packed_value_slot.
  set (per := values_per_long bits) in *. unfold put_value. fold per.
  pose proof (Z.mod_pos_bound (Z.of_nat i) per ltac:(lia)) as Hi. pose proof (Z.mod_pos_bound (Z.of_nat k) per ltac:(lia)) as Hk.
  pose proof (Z.div_mod (Z.of_nat i) per ltac:(lia)) as Di. pose proof (Z.div_mod (Z.of_nat k) per ltac:(lia)) as Dk.
  pose proof (Z.div_pos (Z.of_nat i) per ltac:(lia) ltac:(lia)). pose proof (Z.div_pos (Z.of_nat k) per ltac:(lia) ltac:(lia)).
  destruct (data !! Z.to_nat (Z.of_nat i / per)) as [long|] eqn:Hl; [|done]. simpl in Hempty. injection Hempty as Hempty.
  rewrite put_shift by done.
  destruct (decide (Z.of_nat k / per = Z.of_nat i / per)) as [Hsame|Hother].
  - rewrite Hsame, list_lookup_alter_eq, Hl. simpl. rewrite slot_lor by (done || lia).
    destruct (decide (k = i)) as [->|Hne]; [by rewrite decide_True|]. rewrite decide_False; [done|]. nia.
  - rewrite list_lookup_alter_ne by lia. rewrite decide_False; [done|]. intros ->. done.
Qed.

Lemma pack_loop_value values i data k :
  Forall (λ v, 0 ≤ v < 2 ^ bits) values →
  (∀ j, (i ≤ j < i + length values)%nat → packed_value bits data j = Some 0) →
  packed_value bits (pack_loop bits i values data) k
  = if decide (i ≤ k < i + length values)%nat then values !! (k - i)%nat else packed_value bits data k.
Proof.
  intros Hv. revert i data. induction Hv as [|v values Hv Hvs IH]; intros i data Hz; simpl.
  { rewrite decide_False by lia. done. }
  assert (packed_value bits data i = Some 0) as Hi by (apply Hz; simpl; lia).
  rewrite IH.
  - destruct (decide (k = i)) as [->|Hne].
    + rewrite decide_False, decide_True by lia. rewrite Nat.sub_diag, packed_put_value, decide_True by done. done.
    + destruct (decide (S i ≤ k < S i + length values)%nat).
      * rewrite decide_True by lia. by replace (k - i)%nat with (S (k - S i)) by lia.
      * rewrite decide_False by lia. rewrite packed_put_value, decide_False by done. done.
  - intros j Hj. rewrite packed_put_value, decide_False by (done || lia). apply Hz. simpl. lia.
Qed.

Lemma pack_value values k :
  Forall (λ v, 0 ≤ v < 2 ^ bits) values → (k < length values)%nat →
  packed_value bits (pack bits values) k = values !! k.
Proof.
  intros Hv Hk. unfold pack. rewrite pack_loop_value; [rewrite decide_True by lia; by rewrite Nat.sub_0_r|done|].
  intros j Hj. rewrite packed_value_slot. destruct values_per_long_bounds as [Hper _]. set (per := values_per_long bits) in *.
  rewrite lookup_replicate_2; [simpl; unfold slot; by rewrite Z.shiftr_0_l, Z.land_0_l|].
  pose proof (Z.div_pos (Z.of_nat j) per ltac:(lia) ltac:(lia)).
  apply Nat2Z.inj_lt. rewrite !Z2Nat.id; [|apply Z.div_pos; lia|done]. unfold div_ceil.
  apply Z.div_lt_upper_bound; [lia|]. pose proof (Z.div_mod (Z.of_nat (length values) + per - 1) per ltac:(lia)).
  pose proof (Z.mod_pos_bound (Z.of_nat (length values) + per - 1) per ltac:(lia)). lia.
Qed.
End packing.

(** ** Choosing the width *)

Lemma foldr_max_le values : Forall (λ v, v ≤ foldr Z.max 0 values) values ∧ 0 ≤ foldr Z.max 0 values.
Proof.
  induction values as [|v values [IH IH0]]; simpl; [done|]. split; [|lia]. constructor; [lia|].
  eapply Forall_impl; [exact IH|]. simpl. lia.
Qed.

Lemma bits_for_fits values :
  Forall (in_u 32) values → 1 ≤ bits_for values ≤ 32 ∧ Forall (λ v, 0 ≤ v < 2 ^ bits_for values) values.
Proof.
  intros Hv. destruct (foldr_max_le values) as [Hle H0]. unfold bits_for. set (m := foldr Z.max 0 values) in *.
  assert (m < 2 ^ 32) as Hm.
  { unfold m. clear -Hv. induction Hv as [|v values Hv _ IH]; simpl; [lia|]. unfold in_u in Hv. lia. }
  assert (m < 2 ^ Z.max 1 (if m =? 0 then 0 else Z.log2 m + 1) ∧ Z.max 1 (if m =? 0 then 0 else Z.log2 m + 1) ≤ 32) as [Hlt Hmax].
  { destruct (Z.eqb_spec m 0) as [->|]; [done|]. destruct (Z.log2_spec m ltac:(lia)) as [_ Hlog].
    pose proof (Z.log2_nonneg m). pose proof (proj1 (Z.log2_lt_pow2 m 32 ltac:(lia)) Hm).
    rewrite Z.max_r by lia. rewrite <- Z.add_1_r in Hlog. lia. }
  split; [lia|]. apply List.Forall_forall. intros v Hin. rewrite List.Forall_forall in Hle, Hv.
  specialize (Hle v Hin). destruct (Hv v Hin). lia.
Qed.

(** ** Well-formed containers *)

(** What decoding and repacking produce: a width the reader can handle and
    32-bit values. *)
Definition container_ok (c : PalettedContainer) : Prop :=
  match c with
  | Single v => in_u 32 v
  | Indirect bits palette data => 1 ≤ bits ≤ 32 ∧ Forall (in_u 32) palette
  | Direct bits data => 1 ≤ bits ≤ 32
  end.

Lemma container_get_range c i v : container_ok c → container_get c i = Some v → in_u 32 v.
Proof.
  assert (∀ bits data, 1 ≤ bits ≤ 32 → packed_value bits data i = Some v → in_u 32 v) as Hpv.
  { intros bits data Hb. rewrite packed_value_slot by done. intros (long & _ & ->)%fmap_Some.
    pose proof (slot_range bits Hb long (Z.of_nat i `mod` values_per_long bits)).
    pose proof (Z.pow_le_mono_r 2 bits 32 ltac:(lia) ltac:(lia)). unfold in_u. lia. }
  destruct c as [w|bits palette data|bits data]; simpl.
  - by intros ? [= <-].
  - intros [_ Hp] (j & _ & Hj)%bind_Some. by eapply Forall_lookup_1 in Hj.
  - apply Hpv.
Qed.

Lemma materialize_lookup c n values :
  materialize c n = Some values → length values = n ∧ ∀ k, (k < n)%nat → values !! k = container_get c k.
Proof.
  intros Hm. apply mapM_Some_1 in Hm. pose proof (Forall2_length _ _ _ Hm) as Hl. rewrite length_seq in Hl. split; [done|].
  intros k Hk. eapply Forall2_lookup_l in Hm as (v & Hv & Hget); [|by apply lookup_seq_lt]. simpl in Hget. by rewrite Hv, Hget.
Qed.

(** [materialize_and_set] puts the value at its index and changes no other
    entry; it fails only when the container cannot be read in full. *)
Lemma materialize_and_set_spec entries index state c c' :
  container_ok c → in_u 32 state → materialize_and_set entries index state c = Ok c' →
  container_ok c' ∧ (index < entries)%nat
  ∧ ∀ k, (k < entries)%nat → container_get c' k = if decide (k = index) then Some state else container_get c k.
Proof.
  intros Hc Hs. unfold materialize_and_set. case_decide as Hi; [done|].
  destruct (materialize c entries) as [values|] eqn:Hm; [|done]. intros [= <-].
  apply materialize_lookup in Hm as [Hl Hget].
  assert (Forall (in_u 32) values) as Hv.
  { apply Forall_lookup_2. intros k v Hk. pose proof (lookup_lt_Some _ _ _ Hk). rewrite Hget in Hk by lia.
    by eapply container_get_range. }
  destruct (bits_for_fits (<[index := state]> values)) as [Hb Hfit]; [by apply Forall_insert|].
  split_and!; [done|lia|]. intros k Hk. simpl. rewrite pack_value by (done || rewrite length_insert; lia).
  case_decide as Hki; [subst k; apply list_lookup_insert_eq; lia|]. rewrite list_lookup_insert_ne by done. by apply Hget.
Qed.

(** ** What the decoder accepts *)

Lemma yields_wire {A} (m : Read A) (Q : A → Prop) : (∀ r a r', m r = (Ok a, r') → Q a) → yields (wire m) Q.
Proof.
  intros Hm r a r'. unfold wire, m_map_err. destruct (m r) as [[a'|e] r1] eqn:Hr; [|done]. intros [= <- <-]. by eapply Hm.
Qed.

Lemma yields_nonnegative_varint : yields nonnegative_varint (in_u 32).
Proof.
  unfold nonnegative_varint. eapply yields_bind; [apply (yields_wire read_varint (in_i 32)); apply read_varint_range|].
  intros v Hv. destruct (Z.ltb_spec v 0); [apply yields_raise|apply yields_ret]. unfold in_i, in_u in *. lia.
Qed.

Lemma yields_decode_palette bits : yields (decode_palette bits) (λ p, Forall (in_u 32) p ∧ (1 ≤ length p)%nat ∧ Z.of_nat (length p) ≤ Z.shiftl 1 bits).
Proof.
  unfold decode_palette. eapply yields_bind; [apply yields_nonnegative_varint|]. intros count Hc.
  destruct (_ || _) eqn:Hb; [apply yields_raise|]. apply orb_false_iff in Hb as [H0%Z.eqb_neq H1%Z.ltb_ge].
  intros r p r' Hp. apply (yields_repeat_m _ _ _ yields_nonnegative_varint) in Hp as [Hl HF].
  unfold in_u in Hc. split_and!; [done|lia|lia].
Qed.

Lemma yields_decode_longs entries bits :
  yields (decode_longs entries bits) (λ d, Z.of_nat (length d) = div_ceil (Z.of_nat entries) (values_per_long bits)).
Proof.
  unfold decode_longs. case_match; [apply yields_raise|].
  eapply yields_bind; [apply yields_nonnegative_varint|]. intros count Hc.
  destruct (Z.eqb_spec count (div_ceil (Z.of_nat entries) (values_per_long bits))) as [->|]; [|apply yields_raise]. simpl.
  intros r d r' Hd. apply repeat_m_length in Hd. unfold in_u in Hc. lia.
Qed.

(** Enough longs for every entry. *)
Lemma packed_value_total bits data entries k :
  1 ≤ bits ≤ 32 → Z.of_nat (length data) = div_ceil (Z.of_nat entries) (values_per_long bits) → (k < entries)%nat →
  is_Some (packed_value bits data k).
Proof.
  intros Hb Hl Hk. rewrite packed_value_slot by done. apply fmap_is_Some, lookup_lt_is_Some.
  destruct (values_per_long_bounds bits Hb) as [Hper _]. set (per := values_per_long bits) in *.
  pose proof (Z.div_pos (Z.of_nat k) per ltac:(lia) ltac:(lia)). apply Nat2Z.inj_lt. rewrite Z2Nat.id, Hl by done. unfold div_ceil.
  apply Z.div_lt_upper_bound; [lia|]. pose proof (Z.div_mod (Z.of_nat entries + per - 1) per ltac:(lia)).
  pose proof (Z.mod_pos_bound (Z.of_nat entries + per - 1) per ltac:(lia)). lia.
Qed.

(** The entries of a decoded container can be read, except that an indirect
    one may point past its palette. *)
Definition container_full (entries : nat) (c : PalettedContainer) : Prop :=
  ∀ k, (k < entries)%nat →
    is_Some (match c with Indirect bits _ data => packed_value bits data k | _ => container_get c k end).

Lemma yields_container_decode entries lo hi :
  1 ≤ lo ≤ 32 → yields (container_decode entries lo hi) (λ c, container_ok c ∧ container_full entries c).
Proof.
  intros Hlo. unfold container_decode.
  eapply (yields_bind _ _ (in_u 8)); [|].
  { apply yields_wire. intros r v r' Hv. by destruct (consumes_get_u8 _ _ _ Hv) as (? & ? & _ & _ & ? & _). }
  intros wb Hwb. destruct (Z.eqb_spec wb 0) as [|Hne].
  { eapply yields_bind; [apply yields_nonnegative_varint|]. intros v Hv.
    eapply yields_bind; [apply yields_nonnegative_varint|]. intros n _. case_match; [apply yields_raise|].
    apply yields_ret. split; [done|]. intros k _. by eexists. }
  destruct (Z.ltb_spec MAX_PALETTE_BITS wb) as [|Hmax]; [apply yields_raise|]. unfold MAX_PALETTE_BITS, in_u in *.
  destruct (Z.leb_spec wb hi).
  - eapply yields_bind; [apply yields_decode_palette|]. intros p (Hp & _ & _).
    eapply yields_bind; [apply yields_decode_longs|]. intros d Hd. apply yields_ret.
    assert (1 ≤ wb `max` lo ≤ 32) by lia. split; [done|]. intros k Hk. by apply (packed_value_total _ _ entries).
  - eapply yields_bind; [apply yields_decode_longs|]. intros d Hd. apply yields_ret.
    assert (1 ≤ wb ≤ 32) by lia. split; [done|]. intros k Hk. by apply (packed_value_total _ _ entries).
Qed.

Definition section_ok (s : ChunkSection) : Prop :=
  0 ≤ non_air_blocks s ≤ Z.of_nat BLOCKS_PER_SECTION
  ∧ container_ok (block_states s) ∧ container_ok (biomes s).

Lemma decode_sections_ok n data sections :
  decode_sections n data = Ok sections → length sections = n ∧ Forall section_ok sections.
Proof.
  unfold decode_sections. destruct (repeat_m n decode_section (new_reader data)) as [res r] eqn:Hr.
  intros (ss & -> & Hs)%rbind_Ok_inv. case_match; simplify_eq.
  revert Hr. apply yields_repeat_m. unfold decode_section.
  eapply (yields_bind _ _ (λ _, True)); [by apply yields_wire|]. intros b _.
  destruct (_ || _) eqn:Hb; [apply yields_raise|]. apply orb_false_iff in Hb as [Hb0%Z.ltb_ge Hb1%Z.ltb_ge].
  eapply yields_bind; [by apply yields_container_decode|]. intros c [Hc _].
  eapply yields_bind; [by apply yields_container_decode|]. intros c' [Hc' _]. by apply yields_ret.
Qed.
