(* ===== verification/Dimension.v ===== *)
(** * Dimension types

    The dimension registry of [src/minecraft/configuration.rs]: which
    dimension bounds the client accepts from the server, the bounds every
    chunk is decoded and indexed with. *)

From S2P Require Import Prelude Machine Reader Utf8 Nbt LoginPackets Errors.

Local Open Scope Z_scope.

Record DimensionType : Type := mkDimension {
  dim_key : string;
  min_y : Z;
  height : Z;
  logical_height : Z;
  coordinate_scale : Z;  (* the bits of the [f64] *)
  ultrawarm : bool;
  has_ceiling : bool;
}.

(** [(self.height / 16) as usize]; [usize] has 64 bits. *)
Definition section_count (d : DimensionType) : Z := wrap 64 (height d ÷ 16).

Definition min_section_y (d : DimensionType) : Z := min_y d / 16.

Definition nbt_i32 (value : Nbt) (key : string) : result MineRiderError Z :=
  match nbt_get value key with Some (NbtInt v) => Ok v | _ => Err Protocol end.

Definition nbt_f64 (value : Nbt) (key : string) : result MineRiderError Z :=
  match nbt_get value key with Some (NbtDouble v) => Ok v | _ => Err Protocol end.

Definition nbt_bool (value : Nbt) (key : string) : result MineRiderError bool :=
  match nbt_get value key with Some (NbtByte v) => Ok (negb (v =? 0)) | _ => Err Protocol end.

(** The bits of [1.0] and [8.0]. *)
Definition f64_one : Z := 0x3ff0000000000000.
Definition f64_eight : Z := 0x4020000000000000.

Definition vanilla_dimension_type (key : string) : option DimensionType :=
  if bool_decide (key = "minecraft:overworld"%string ∨ key = "minecraft:overworld_caves"%string) then
    Some (mkDimension key (-64) 384 384 f64_one false false)
  else if bool_decide (key = "minecraft:the_nether"%string) then
    Some (mkDimension key 0 256 128 f64_eight true true)
  else if bool_decide (key = "minecraft:the_end"%string) then
    Some (mkDimension key 0 256 256 f64_one false false)
  else None.

(** An inline registry value, field by field in the order of the code. *)
Definition dimension_of_nbt (key : string) (value : Nbt) : result MineRiderError DimensionType :=
  let? y := nbt_i32 value "min_y" in
  let? h := nbt_i32 value "height" in
  let? lh := nbt_i32 value "logical_height" in
  let? scale := nbt_f64 value "coordinate_scale" in
  let? uw := nbt_bool value "ultrawarm" in
  let? ceiling := nbt_bool value "has_ceiling" in
  Ok (mkDimension key y h lh scale uw ceiling).

(** The bounds check of [store_registry], true when the dimension is refused;
    [%] is the remainder that takes the sign of its left operand. *)
Definition bad_bounds (d : DimensionType) : bool :=
  (height d <=? 0) || negb (Z.rem (height d) 16 =? 0) || negb (Z.rem (min_y d) 16 =? 0)
  || negb (within 1 256 (section_count d)).

Definition DIMENSION_TYPE_REGISTRY : string := "minecraft:dimension_type".

Definition read_dimension (entry : ConfigPacketRegistryDataEntriesItem) : result MineRiderError DimensionType :=
  match ConfigPacketRegistryDataEntriesItem_value entry with
  | Some value => dimension_of_nbt (ConfigPacketRegistryDataEntriesItem_key entry) value
  | None =>
      match vanilla_dimension_type (ConfigPacketRegistryDataEntriesItem_key entry) with
      | Some d => Ok d
      | None => Err Protocol
      end
  end.

(** One turn of the loop over [packet.entries]. *)
Definition store_entry (entry : ConfigPacketRegistryDataEntriesItem) : M (list DimensionType) MineRiderError unit :=
  let* dimension := lift (read_dimension entry) in
  if bad_bounds dimension then raise Protocol
  else modify (λ dims, push dims dimension).

(** The state is [data.dimension_types]. *)
Definition store_registry (packet : ConfigPacketRegistryData) : M (list DimensionType) MineRiderError unit :=
  if negb (bool_decide (ConfigPacketRegistryData_id packet = DIMENSION_TYPE_REGISTRY)) then ret tt
  else
    modify (λ _, []) ;;;
    iter_m store_entry (ConfigPacketRegistryData_entries packet).

(** ** Accepted bounds *)

(** The bounds of a stored dimension: whole sections, at most 256 of them. *)
Definition dimension_ok (d : DimensionType) : Prop :=
  in_i 32 (min_y d) ∧ min_y d `mod` 16 = 0
  ∧ ∃ n, 1 ≤ n ≤ 256 ∧ height d = 16 * n ∧ section_count d = n.

Lemma rem16_mod z : Z.rem z 16 = 0 → z `mod` 16 = 0.
Proof. intros Hr. pose proof (Z.quot_rem' z 16). apply Z.mod_divide; [done|]. exists (z ÷ 16). lia. Qed.

(** What [store_registry] checks, on bounds that are [i32]s. *)
Lemma good_bounds d :
  bad_bounds d = false → in_i 32 (min_y d) → in_i 32 (height d) → dimension_ok d.
Proof.
  unfold bad_bounds. rewrite !orb_false_iff, !negb_false_iff, !Z.eqb_eq, Z.leb_gt. intros (((Hh & Hr) & Hm) & Hs) Hy Hi.
  split_and!; [done|by apply rem16_mod|]. apply rem16_mod in Hr. exists (section_count d).
  unfold within in Hs. apply andb_true_iff in Hs as [H1%Z.leb_le H2%Z.leb_le]. split_and!; [done..| |done].
  unfold section_count. rewrite Z.quot_div_nonneg by lia. pose proof (Z.div_mod (height d) 16 ltac:(lia)).
  unfold in_i in Hi. rewrite wrap_small; [lia|]. unfold in_u. lia.
Qed.

Lemma nbt_get_ok v key x : nbt_ok v = true → nbt_get v key = Some x → nbt_ok x = true.
Proof.
  destruct v as [| | | | | | | | |entries| |]; simpl; try done. intros Hok (e & Hf & ->)%fmap_Some.
  apply List.find_some in Hf as [Hin _]. rewrite List.forallb_forall in Hok. specialize (Hok e Hin).
  destruct e. by apply andb_true_iff in Hok as [_ ?].
Qed.

Lemma nbt_i32_range v key z : nbt_ok v = true → nbt_i32 v key = Ok z → in_i 32 z.
Proof.
  intros Hv. unfold nbt_i32. destruct (nbt_get v key) as [[]|] eqn:Hg; try done. intros [= <-].
  apply nbt_get_ok in Hg; [|done]. by apply bool_decide_eq_true in Hg.
Qed.

Lemma vanilla_dimension_ok key d :
  vanilla_dimension_type key = Some d → dim_key d = key ∧ bad_bounds d = false ∧ in_i 32 (min_y d) ∧ in_i 32 (height d).
Proof. unfold vanilla_dimension_type. repeat case_bool_decide; intros; simplify_eq; done. Qed.

Definition registry_entry_ok (e : ConfigPacketRegistryDataEntriesItem) : Prop :=
  match ConfigPacketRegistryDataEntriesItem_value e with Some v => nbt_ok v = true | None => True end.

Lemma read_dimension_range e d :
  registry_entry_ok e → read_dimension e = Ok d → dim_key d = ConfigPacketRegistryDataEntriesItem_key e ∧ in_i 32 (min_y d) ∧ in_i 32 (height d).
Proof.
  unfold registry_entry_ok, read_dimension. destruct (ConfigPacketRegistryDataEntriesItem_value e) as [v|].
  - intros Hv (y & Hy & H)%rbind_Ok_inv. apply rbind_Ok_inv in H as (h & Hh & H).
    do 4 apply rbind_Ok_inv in H as (? & _ & H). injection H as <-. simpl. by eauto using nbt_i32_range.
  - intros _. destruct (vanilla_dimension_type _) eqn:Hd; [|done]. intros [= <-].
    apply vanilla_dimension_ok in Hd. naive_solver.
Qed.

(** What the loop accepts and where it stops. *)
Definition accepts (e : ConfigPacketRegistryDataEntriesItem) (d : DimensionType) : Prop :=
  read_dimension e = Ok d ∧ bad_bounds d = false.

Definition refused (e : ConfigPacketRegistryDataEntriesItem) : Prop := ∀ d, ¬ accepts e d.

Lemma store_entry_cases e dims :
  (∃ d, accepts e d ∧ store_entry e dims = (Ok tt, dims ++ [d]))
  ∨ (refused e ∧ ∃ err, store_entry e dims = (Err err, dims)).
Proof.
  unfold store_entry, refused, accepts, bind, lift. destruct (read_dimension e) as [d|err]; [|right; naive_solver].
  destruct (bad_bounds d) eqn:Hb; [right|left; by eauto]. split; [|by eauto]. intros d' [[= <-] ?]. congruence.
Qed.

Lemma store_entries_outcome entries dims :
  let '(r, dims') := iter_m store_entry entries dims in
  ∃ added, dims' = dims ++ added
  ∧ match r with
    | Ok _ => Forall2 accepts entries added
    | Err _ => ∃ before e after, entries = before ++ e :: after ∧ Forall2 accepts before added ∧ refused e
    end.
Proof.
  revert dims. induction entries as [|e entries IH]; intros dims; simpl; [exists []; by rewrite app_nil_r|].
  unfold bind. destruct (store_entry_cases e dims) as [(d & Hd & ->)|(Hr & err & ->)].
  - specialize (IH (dims ++ [d])). destruct (iter_m store_entry entries (dims ++ [d])) as [r dims'].
    destruct IH as (added & -> & Hr). exists (d :: added). rewrite <- app_assoc. split; [done|].
    destruct r; [by constructor|]. destruct Hr as (b & e' & a & -> & Hb & He). exists (e :: b), e', a.
    split_and!; [done|by constructor|done].
  - exists []. rewrite app_nil_r. split; [done|]. exists [], e, entries. by split_and!.
Qed.

Lemma accepts_ok entries dims :
  Forall registry_entry_ok entries → Forall2 accepts entries dims →
  Forall dimension_ok dims ∧ map dim_key dims = map ConfigPacketRegistryDataEntriesItem_key entries.
Proof.
  intros Hok HF. induction HF as [|e d entries dims [Hr Hb] HF IH]; [done|]. apply Forall_cons in Hok as [He Hok].
  destruct (IH Hok) as [IH1 IH2]. destruct (read_dimension_range e d He Hr) as (Hk & Hy & Hh). simpl.
  split; [constructor; [by apply good_bounds|done]|by f_equal].
Qed.

(** A registry packet for another registry changes nothing.  A dimension
    registry packet replaces the stored list: accepted, it stores one
    dimension per entry, in order, each made of 1 to 256 whole sections; a
    refused entry is the first one without a readable value or with bad
    bounds, and exactly the entries before it stay stored. *)
Theorem store_registry_outcome packet dims :
  Forall registry_entry_ok (ConfigPacketRegistryData_entries packet) →
  let '(r, dims') := store_registry packet dims in
  if bool_decide (ConfigPacketRegistryData_id packet = DIMENSION_TYPE_REGISTRY) then
    Forall dimension_ok dims'
    ∧ match r with
      | Ok _ => map dim_key dims' = map ConfigPacketRegistryDataEntriesItem_key (ConfigPacketRegistryData_entries packet)
      | Err _ =>
          ∃ before e after, ConfigPacketRegistryData_entries packet = before ++ e :: after
          ∧ map dim_key dims' = map ConfigPacketRegistryDataEntriesItem_key before ∧ refused e
      end
  else r = Ok tt ∧ dims' = dims.
Proof.
  intros Hok. unfold store_registry. case_bool_decide; simpl; [|done]. unfold bind, modify.
  pose proof (store_entries_outcome (ConfigPacketRegistryData_entries packet) []) as Hs.
  destruct (iter_m store_entry _ []) as [r dims']. destruct Hs as (added & -> & Hr). simpl.
  destruct r as [[]|err]; [by apply accepts_ok|]. destruct Hr as (b & e & a & Heq & Hb & He).
  rewrite Heq in Hok. apply Forall_app in Hok as [Hok _]. destruct (accepts_ok b added Hok Hb). split; [done|]. by exists b, e, a.
Qed.

Lemma store_registry_outcome_witness :
  let packet := mkConfigPacketRegistryData DIMENSION_TYPE_REGISTRY
    [mkConfigPacketRegistryDataEntriesItem "minecraft:the_end" None; mkConfigPacketRegistryDataEntriesItem "custom" None] in
  let '(r, dims') := store_registry packet [] in
  r = Err Protocol ∧ map dim_key dims' = ["minecraft:the_end"%string] ∧ Forall dimension_ok dims'.
Proof.
  pose proof (store_registry_outcome (mkConfigPacketRegistryData DIMENSION_TYPE_REGISTRY
    [mkConfigPacketRegistryDataEntriesItem "minecraft:the_end" None; mkConfigPacketRegistryDataEntriesItem "custom" None]) [] ltac:(by repeat constructor)) as [Hok _].
  split_and!; [done|done|exact Hok].
Defined.
