(* ===== verification/Join.v ===== *)
(** * Joining a server

    The path from a connected socket to the play state: [handshake.rs],
    [login.rs], the loop of [configuration.rs] and the stages of
    [Client::connect_stages] ([src/core/client.rs]) that talk over the
    connection, over any [Link].  The RSA encryption and the call of the
    session server are parameters; the random secret of a login turn is an
    argument. *)

From S2P Require Import Prelude Machine Reader Varint Utf8 Buffer Wire Nbt PacketTypes LoginPackets Errors Codec Connection Text Dimension Link ResourcePack.

Local Open Scope Z_scope.

(** ** Handshake *)

Definition NEXT_STATE_LOGIN : Z := 2.
Definition SERVERBOUND_SET_PROTOCOL_ID : Z := 0.

Definition handshake_packet (protocol_version : Z) (server_address : string) (server_port : Z) : HandshakePacketSetProtocol :=
  mkHandshakePacketSetProtocol protocol_version server_address server_port NEXT_STATE_LOGIN.

Definition handshake_send {C} `{!Link C} (protocol_version : Z) (server_address : string) (server_port : Z) : M C MineRiderError unit :=
  send_encoded SERVERBOUND_SET_PROTOCOL_ID
    (encode wire_HandshakePacketSetProtocol (handshake_packet protocol_version server_address server_port)).

(** ** Login packets *)

Definition LOGIN_CLIENTBOUND_DISCONNECT_ID : Z := 0.
Definition LOGIN_CLIENTBOUND_ENCRYPTION_BEGIN_ID : Z := 1.
Definition LOGIN_CLIENTBOUND_SUCCESS_ID : Z := 2.
Definition LOGIN_CLIENTBOUND_COMPRESS_ID : Z := 3.
Definition LOGIN_CLIENTBOUND_LOGIN_PLUGIN_REQUEST_ID : Z := 4.
Definition LOGIN_SERVERBOUND_LOGIN_START_ID : Z := 0.
Definition LOGIN_SERVERBOUND_ENCRYPTION_BEGIN_ID : Z := 1.
Definition LOGIN_SERVERBOUND_LOGIN_PLUGIN_RESPONSE_ID : Z := 2.
Definition LOGIN_SERVERBOUND_LOGIN_ACKNOWLEDGED_ID : Z := 3.

Record PacketLoginPluginRequest : Type := mkPluginRequest {
  plugin_message_id : Z;
  plugin_channel : string;
  plugin_data : list byte;
}.

(** [{ let bytes = input.rest().to_vec(); input.skip_all(); bytes }]. *)
Definition read_rest : Read (list byte) := λ r, (Ok (rest r), advance r (length (rest r))).

Definition decode_plugin_request : Read PacketLoginPluginRequest :=
  let* message_id := read_varint in
  let* channel := decode wire_String in
  let* data := read_rest in
  ret (mkPluginRequest message_id channel data).

Record PacketLoginPluginResponse : Type := mkPluginResponse {
  response_message_id : Z;
  response_data : option (list byte);
}.

Definition encode_plugin_response (p : PacketLoginPluginResponse) : Write :=
  modify (write_varint (response_message_id p)) ;;;
  modify (put_bool (bool_decide (is_Some (response_data p)))) ;;;
  match response_data p with Some v => modify (put_bytes v) | None => ret tt end.

(** ** Login *)

Definition MAX_LOGIN_PACKETS : nat := 64.

Record LoginSuccess : Type := mkSuccess { login_uuid : Z; login_username : string }.

(** What a [PremiumSession] identifies as. *)
Record PremiumSession : Type := mkPremium { premium_uuid : Z; premium_username : string }.

Definition is_username_byte (b : byte) : bool :=
  within 48 57 (u8 b) || within 65 90 (u8 b) || within 97 122 (u8 b) || (u8 b =? 95).

Definition is_valid_username (username : string) : bool :=
  let bs := bytes_of username in
  within 3 16 (Z.of_nat (length bs)) && forallb is_username_byte bs.

Section login.
Context (rsa_encrypt : list byte → list byte → result ProtocolError (list byte)).
(** [session.join_session(server_id, shared_secret, public_key)]. *)
Context (join_session : PremiumSession → string → list byte → list byte → result MineRiderError unit).
(** The secret drawn in a turn of the loop. *)
Context (fresh_secret : nat → list byte).

Definition login_start (username : string) (premium : option PremiumSession) : result MineRiderError LoginPacketLoginStart :=
  match premium with
  | Some session => Ok (mkLoginPacketLoginStart (premium_username session) (premium_uuid session))
  | None => if is_valid_username username then Ok (mkLoginPacketLoginStart username 0) else Err Protocol
  end.

(** The checks of [handle_encryption_request] before anything is sent: the
    session server is told first. *)
Definition encryption_response (secret : list byte) (request : LoginPacketEncryptionBegin) (premium : option PremiumSession) :
    result MineRiderError LoginPacketEncryptionBeginServerbound :=
  let public_key := map byte_of_Z (LoginPacketEncryptionBegin_public_key request) in
  let? _ :=
    if LoginPacketEncryptionBegin_should_authenticate request then
      match premium with
      | Some session => join_session session (LoginPacketEncryptionBegin_server_id request) secret public_key
      | None => Err Protocol
      end
    else Ok tt in
  let? encrypted_secret := map_err Wire (rsa_encrypt public_key secret) in
  let? encrypted_token := map_err Wire (rsa_encrypt public_key (map byte_of_Z (LoginPacketEncryptionBegin_verify_token request))) in
  Ok (mkLoginPacketEncryptionBeginServerbound (map u8 encrypted_secret) (map u8 encrypted_token)).

Section flow.
Context {C : Type} `{!Link C}.

Definition handle_encryption_request (secret : list byte) (request : LoginPacketEncryptionBegin)
    (premium : option PremiumSession) : M C MineRiderError unit :=
  let* response := lift (encryption_response secret request premium) in
  send_encoded LOGIN_SERVERBOUND_ENCRYPTION_BEGIN_ID (encode wire_LoginPacketEncryptionBeginServerbound response) ;;;
  modify (link_enable_encryption secret).

(** The [match packet.id] of [login]: [Some] returns from it. *)
Definition handle_login_packet (premium : option PremiumSession) (turn : nat) (packet : RawPacket) :
    M C MineRiderError (option LoginSuccess) :=
  let id := pkt_id packet in
  let payload := pkt_payload packet in
  if id =? LOGIN_CLIENTBOUND_DISCONNECT_ID then
    let* disconnect := lift (decode_payload (decode wire_LoginPacketDisconnect) payload) in
    raise (Disconnected (LoginPacketDisconnect_reason disconnect))
  else if id =? LOGIN_CLIENTBOUND_ENCRYPTION_BEGIN_ID then
    let* request := lift (decode_payload (decode wire_LoginPacketEncryptionBegin) payload) in
    handle_encryption_request (fresh_secret turn) request premium ;;;
    ret None
  else if id =? LOGIN_CLIENTBOUND_SUCCESS_ID then
    let* success := lift (decode_payload (decode wire_LoginPacketSuccess) payload) in
    link_send LOGIN_SERVERBOUND_LOGIN_ACKNOWLEDGED_ID [] ;;;
    modify (link_set_state Configuration) ;;;
    ret (Some (mkSuccess (LoginPacketSuccess_uuid success) (LoginPacketSuccess_username success)))
  else if id =? LOGIN_CLIENTBOUND_COMPRESS_ID then
    let* compress := lift (decode_payload (decode wire_LoginPacketCompress) payload) in
    modify (link_set_compression (LoginPacketCompress_threshold compress)) ;;;
    ret None
  else if id =? LOGIN_CLIENTBOUND_LOGIN_PLUGIN_REQUEST_ID then
    let* request := lift (decode_payload decode_plugin_request payload) in
    send_encoded LOGIN_SERVERBOUND_LOGIN_PLUGIN_RESPONSE_ID
      (encode_plugin_response (mkPluginResponse (plugin_message_id request) None)) ;;;
    ret None
  else raise Protocol.

Definition login (username : string) (premium : option PremiumSession) : M C MineRiderError LoginSuccess :=
  let* start := lift (login_start username premium) in
  send_encoded LOGIN_SERVERBOUND_LOGIN_START_ID (encode wire_LoginPacketLoginStart start) ;;;
  packet_loop link_read (handle_login_packet premium) MAX_LOGIN_PACKETS 0.
End flow.
End login.

(** ** Configuration *)

Definition CONFIG_CLIENTBOUND_DISCONNECT_ID : Z := 2.
Definition CONFIG_CLIENTBOUND_FINISH_CONFIGURATION_ID : Z := 3.
Definition CONFIG_CLIENTBOUND_KEEP_ALIVE_ID : Z := 4.
Definition CONFIG_CLIENTBOUND_PING_ID : Z := 5.
Definition CONFIG_CLIENTBOUND_REGISTRY_DATA_ID : Z := 7.
Definition CONFIG_CLIENTBOUND_REMOVE_RESOURCE_PACK_ID : Z := 8.
Definition CONFIG_CLIENTBOUND_ADD_RESOURCE_PACK_ID : Z := 9.
Definition CONFIG_CLIENTBOUND_SELECT_KNOWN_PACKS_ID : Z := 14.
Definition CONFIG_SERVERBOUND_SETTINGS_ID : Z := 0.
Definition CONFIG_SERVERBOUND_CUSTOM_PAYLOAD_ID : Z := 2.
Definition CONFIG_SERVERBOUND_FINISH_CONFIGURATION_ID : Z := 3.
Definition CONFIG_SERVERBOUND_KEEP_ALIVE_ID : Z := 4.
Definition CONFIG_SERVERBOUND_PONG_ID : Z := 5.
Definition CONFIG_SERVERBOUND_RESOURCE_PACK_RECEIVE_ID : Z := 6.
Definition CONFIG_SERVERBOUND_SELECT_KNOWN_PACKS_ID : Z := 7.

Definition MAX_CONFIGURATION_PACKETS : nat := 512.
Definition CLIENT_BRAND : string := "vanilla".
Definition BRAND_CHANNEL : string := "minecraft:brand".

Definition vanilla_client_information (view_distance : Z) : PacketCommonSettings := {|
  PacketCommonSettings_locale := "en_us";
  PacketCommonSettings_view_distance := view_distance;
  PacketCommonSettings_chat_flags := 0;
  PacketCommonSettings_chat_colors := true;
  PacketCommonSettings_skin_parts := 0x7f;
  PacketCommonSettings_main_hand := 1;
  PacketCommonSettings_enable_text_filtering := false;
  PacketCommonSettings_enable_server_listing := true;
  PacketCommonSettings_particle_status := PacketCommonSettingsParticleStatus_All;
|}.

Definition brand_payload : result ProtocolError (list byte) := encoded (put_string CLIENT_BRAND).

(** [PacketCustomPayload]: a channel and the rest of the packet. *)
Definition encode_custom_payload (channel : string) (data : list byte) : Write :=
  encode wire_String channel ;;; modify (put_bytes data).

Definition nbt_reason_text {J} (component : Nbt) : string := plain_text (from_nbt (J := J) component).

(** [SELECT_KNOWN_PACKS]: the core pack, whatever is offered. *)
Definition known_packs : PacketCommonSelectKnownPacks :=
  mkPacketCommonSelectKnownPacks [mkPacketCommonSelectKnownPacksPacksItem "minecraft" "core" "1.21.4"].

Section configuration.
Context {J : Type}.
Context (url_parse : string → option Url) (sha1_hex : list byte → list byte).
(** What the network answers to a download started in a turn of the loop. *)
Context (fetch : nat → Fetch).

Section flow.
Context {C : Type} `{!Link C}.

Definition send_client_configuration (view_distance : Z) : M C MineRiderError unit :=
  let* data := lift (map_err Wire brand_payload) in
  send_encoded CONFIG_SERVERBOUND_CUSTOM_PAYLOAD_ID (encode_custom_payload BRAND_CHANNEL data) ;;;
  send_encoded CONFIG_SERVERBOUND_SETTINGS_ID (encode wire_PacketCommonSettings (vanilla_client_information view_distance)).

(** The connection and [data.dimension_types]. *)
Abbreviation ConfigM := (M (C * list DimensionType) MineRiderError).

Definition on_conn {A} (m : M C MineRiderError A) : ConfigM A := λ '(c, d), let '(r, c) := m c in (r, (c, d)).
Definition on_data {A} (m : M (list DimensionType) MineRiderError A) : ConfigM A :=
  λ '(c, d), let '(r, d) := m d in (r, (c, d)).

(** The [match packet.id] of [run_configuration]: [Some] returns from it. *)
Definition handle_configuration_packet (accept_resource_packs : bool) (turn : nat) (packet : RawPacket) :
    ConfigM (option (list DimensionType)) :=
  let id := pkt_id packet in
  let payload := pkt_payload packet in
  if id =? CONFIG_CLIENTBOUND_DISCONNECT_ID then
    let* disconnect := lift (decode_payload (decode wire_ConfigPacketDisconnect) payload) in
    raise (Disconnected (nbt_reason_text (J := J) (ConfigPacketDisconnect_reason disconnect)))
  else if id =? CONFIG_CLIENTBOUND_FINISH_CONFIGURATION_ID then
    on_conn (link_send CONFIG_SERVERBOUND_FINISH_CONFIGURATION_ID []) ;;;
    on_conn (modify (link_set_state Play)) ;;;
    let* data := gets snd in
    ret (Some data)
  else if id =? CONFIG_CLIENTBOUND_REGISTRY_DATA_ID then
    let* registry := lift (decode_payload (decode wire_ConfigPacketRegistryData) payload) in
    on_data (store_registry registry) ;;;
    ret None
  else if (id =? CONFIG_CLIENTBOUND_KEEP_ALIVE_ID) || (id =? CONFIG_CLIENTBOUND_PING_ID) then
    let response_id :=
      if id =? CONFIG_CLIENTBOUND_KEEP_ALIVE_ID then CONFIG_SERVERBOUND_KEEP_ALIVE_ID else CONFIG_SERVERBOUND_PONG_ID in
    on_conn (link_send response_id payload) ;;;
    ret None
  else if id =? CONFIG_CLIENTBOUND_ADD_RESOURCE_PACK_ID then
    let* pack := lift (decode_payload (decode wire_PacketCommonAddResourcePack) payload) in
    on_conn (handle_offer url_parse sha1_hex CONFIG_SERVERBOUND_RESOURCE_PACK_RECEIVE_ID pack accept_resource_packs (fetch turn)) ;;;
    ret None
  else if id =? CONFIG_CLIENTBOUND_REMOVE_RESOURCE_PACK_ID then ret None
  else if id =? CONFIG_CLIENTBOUND_SELECT_KNOWN_PACKS_ID then
    on_conn (send_encoded CONFIG_SERVERBOUND_SELECT_KNOWN_PACKS_ID (encode wire_PacketCommonSelectKnownPacks known_packs)) ;;;
    ret None
  else ret None.

Definition run_configuration (view_distance : Z) (accept_resource_packs : bool) : M C MineRiderError (list DimensionType) := λ c,
  match send_client_configuration view_distance c with
  | (Err e, c) => (Err e, c)
  | (Ok _, c) =>
      let '(r, (c, _)) :=
        packet_loop (on_conn link_read) (handle_configuration_packet accept_resource_packs) MAX_CONFIGURATION_PACKETS 0 (c, []) in
      (r, c)
  end.
End flow.
End configuration.

(** ** From the handshake to the play state *)

(** The part of [ClientConfig] that is used over the connection. *)
Record ClientConfig : Type := mkConfig {
  cfg_protocol : Z;
  cfg_host : string;
  cfg_port : Z;
  cfg_username : string;
  cfg_premium : option PremiumSession;
  cfg_view_distance : Z;
  cfg_accept_resource_packs : bool;
}.

(** Everything the join takes from outside the program. *)
Record Outside : Type := mkOutside {
  out_rsa : list byte → list byte → result ProtocolError (list byte);
  out_join : PremiumSession → string → list byte → list byte → result MineRiderError unit;
  out_secret : nat → list byte;
  out_url : string → option Url;
  out_sha1 : list byte → list byte;
  out_fetch : nat → Fetch;
}.

Section join.
Context {J C : Type} `{!Link C}.

(** [connect_stages] once the connection is up. *)
Definition connect_stages (o : Outside) (cfg : ClientConfig) : M C MineRiderError (LoginSuccess * list DimensionType) :=
  handshake_send (cfg_protocol cfg) (cfg_host cfg) (cfg_port cfg) ;;;
  modify (link_set_state Login) ;;;
  let* success := login (out_rsa o) (out_join o) (out_secret o) (cfg_username cfg) (cfg_premium cfg) in
  let* configuration :=
    run_configuration (J := J) (out_url o) (out_sha1 o) (out_fetch o) (cfg_view_distance cfg) (cfg_accept_resource_packs cfg) in
  ret (success, configuration).
End join.

(** ** The conversation *)

(** What each login packet is answered with. *)
Definition login_answers (o : Outside) (premium : option PremiumSession) (turn : nat) (packet : RawPacket) : list LinkEvent :=
  let id := pkt_id packet in
  let payload := pkt_payload packet in
  if id =? LOGIN_CLIENTBOUND_ENCRYPTION_BEGIN_ID then
    match decode_payload (decode wire_LoginPacketEncryptionBegin) payload with
    | Ok request =>
        match encryption_response (out_rsa o) (out_join o) (out_secret o turn) request premium with
        | Ok response =>
            sends LOGIN_SERVERBOUND_ENCRYPTION_BEGIN_ID (encode wire_LoginPacketEncryptionBeginServerbound response)
            ++ [EncryptionEnabled (out_secret o turn)]
        | Err _ => []
        end
    | Err _ => []
    end
  else if id =? LOGIN_CLIENTBOUND_SUCCESS_ID then [Sent LOGIN_SERVERBOUND_LOGIN_ACKNOWLEDGED_ID []; StateSet Configuration]
  else if id =? LOGIN_CLIENTBOUND_COMPRESS_ID then
    match decode_payload (decode wire_LoginPacketCompress) payload with
    | Ok compress => [CompressionSet (LoginPacketCompress_threshold compress)]
    | Err _ => []
    end
  else if id =? LOGIN_CLIENTBOUND_LOGIN_PLUGIN_REQUEST_ID then
    match decode_payload decode_plugin_request payload with
    | Ok request =>
        sends LOGIN_SERVERBOUND_LOGIN_PLUGIN_RESPONSE_ID (encode_plugin_response (mkPluginResponse (plugin_message_id request) None))
    | Err _ => []
    end
  else [].

(** What each configuration packet is answered with. *)
Definition config_answers (o : Outside) (accept : bool) (turn : nat) (packet : RawPacket) : list LinkEvent :=
  let id := pkt_id packet in
  let payload := pkt_payload packet in
  if id =? CONFIG_CLIENTBOUND_FINISH_CONFIGURATION_ID then [Sent CONFIG_SERVERBOUND_FINISH_CONFIGURATION_ID []; StateSet Play]
  else if id =? CONFIG_CLIENTBOUND_KEEP_ALIVE_ID then [Sent CONFIG_SERVERBOUND_KEEP_ALIVE_ID payload]
  else if id =? CONFIG_CLIENTBOUND_PING_ID then [Sent CONFIG_SERVERBOUND_PONG_ID payload]
  else if id =? CONFIG_CLIENTBOUND_ADD_RESOURCE_PACK_ID then
    match decode_payload (decode wire_PacketCommonAddResourcePack) payload with
    | Ok pack => offer_answers (out_url o) (out_sha1 o) CONFIG_SERVERBOUND_RESOURCE_PACK_RECEIVE_ID pack accept (out_fetch o turn)
    | Err _ => []
    end
  else if id =? CONFIG_CLIENTBOUND_SELECT_KNOWN_PACKS_ID then
    sends CONFIG_SERVERBOUND_SELECT_KNOWN_PACKS_ID (encode wire_PacketCommonSelectKnownPacks known_packs)
  else [].

(** The dimensions after the configuration packets [qs]. *)
Definition config_dimensions (qs : list RawPacket) : list DimensionType :=
  foldl (λ dims q,
    if pkt_id q =? CONFIG_CLIENTBOUND_REGISTRY_DATA_ID then
      match decode_payload (decode wire_ConfigPacketRegistryData) (pkt_payload q) with
      | Ok registry => (store_registry registry dims).2
      | Err _ => dims
      end
    else dims) [] qs.

(** The brand and the settings. *)
Definition config_hello (view_distance : Z) : list LinkEvent :=
  (match brand_payload with
   | Ok data => sends CONFIG_SERVERBOUND_CUSTOM_PAYLOAD_ID (encode_custom_payload BRAND_CHANNEL data)
   | Err _ => []
   end)
  ++ sends CONFIG_SERVERBOUND_SETTINGS_ID (encode wire_PacketCommonSettings (vanilla_client_information view_distance)).

(** Everything that is said: the handshake, the login with the packets [ps]
    and the configuration with the packets [qs]. *)
Definition join_script (o : Outside) (cfg : ClientConfig) (start : LoginPacketLoginStart) (ps qs : list RawPacket) : list LinkEvent :=
  sends SERVERBOUND_SET_PROTOCOL_ID
    (encode wire_HandshakePacketSetProtocol (handshake_packet (cfg_protocol cfg) (cfg_host cfg) (cfg_port cfg)))
  ++ [StateSet Login]
  ++ sends LOGIN_SERVERBOUND_LOGIN_START_ID (encode wire_LoginPacketLoginStart start)
  ++ conversation (login_answers o (cfg_premium cfg)) 0 ps
  ++ config_hello (cfg_view_distance cfg)
  ++ conversation (config_answers o (cfg_accept_resource_packs cfg)) 0 qs.

Section conversation.
Context {J C : Type} `{!Link C} `{!LinkLaws C} (o : Outside).

#[local] Instance config_has_log : HasLog (C * list DimensionType) := λ s, link_log s.1.

Lemma answers_modify_link {S} `{!HasLog S} (f : S → S) evs :
  (∀ s, log_of (f s) = log_of s ++ evs) → answers (modify f : M S MineRiderError unit) evs.
Proof. intros Hf s. apply Hf. Qed.

Lemma answers_none {S A B} `{!HasLog S} (m : M S MineRiderError A) evs :
  answers m evs → answers (m ;;; ret (@None B)) evs.
Proof. intros Hm. rewrite <- (app_nil_r evs). apply answers_bind; [done|]. intros _. apply answers_ret. Qed.

Lemma answers_on_conn {A} (m : M C MineRiderError A) evs : answers m evs → answers (on_conn m) evs.
Proof. intros Hm [c d]. specialize (Hm c). unfold on_conn. by destruct (m c) as [[a|e] c']. Qed.

Lemma answers_on_data {A} (m : M (list DimensionType) MineRiderError A) : answers (on_data (C := C) m) [].
Proof. apply answers_silent. intros [c d]. unfold on_data. by destruct (m d). Qed.

Lemma answers_handle_login premium turn packet :
  answers (S := C) (handle_login_packet (out_rsa o) (out_join o) (out_secret o) premium turn packet)
    (login_answers o premium turn packet).
Proof.
  unfold handle_login_packet, login_answers. destruct (pkt_id packet =? LOGIN_CLIENTBOUND_DISCONNECT_ID) eqn:H0.
  { apply answers_lift_bind. intros d _. apply answers_raise. }
  destruct (pkt_id packet =? LOGIN_CLIENTBOUND_ENCRYPTION_BEGIN_ID) eqn:H1.
  { apply answers_lift_bind. intros request ->. apply answers_none. unfold handle_encryption_request.
    apply answers_lift_bind. intros response ->. apply answers_bind; [apply answers_send_encoded|]. intros _.
    apply answers_modify_link. intros c. apply link_enable_encryption_log. }
  destruct (pkt_id packet =? LOGIN_CLIENTBOUND_SUCCESS_ID) eqn:H2.
  { apply answers_lift_bind. intros success _. apply (answers_bind _ _ [_]); [apply answers_link_send|]. intros _.
    apply (answers_bind _ _ [_] []); [apply answers_modify_link, link_set_state_log|]. intros _. apply answers_ret. }
  destruct (pkt_id packet =? LOGIN_CLIENTBOUND_COMPRESS_ID) eqn:H3.
  { apply answers_lift_bind. intros compress ->. apply answers_none, answers_modify_link, link_set_compression_log. }
  destruct (pkt_id packet =? LOGIN_CLIENTBOUND_LOGIN_PLUGIN_REQUEST_ID) eqn:H4; [|apply answers_raise].
  apply answers_lift_bind. intros request ->. apply answers_none, answers_send_encoded.
Qed.

Lemma answers_handle_configuration accept turn packet :
  answers (handle_configuration_packet (J := J) (C := C) (out_url o) (out_sha1 o) (out_fetch o) accept turn packet)
    (config_answers o accept turn packet).
Proof.
  unfold handle_configuration_packet, config_answers.
  destruct (Z.eqb_spec (pkt_id packet) CONFIG_CLIENTBOUND_DISCONNECT_ID) as [->|_].
  { simpl. apply answers_lift_bind. intros d _. apply answers_raise. }
  destruct (Z.eqb_spec (pkt_id packet) CONFIG_CLIENTBOUND_FINISH_CONFIGURATION_ID) as [_|_].
  { apply (answers_bind _ _ [_]); [apply answers_on_conn, answers_link_send|]. intros _.
    apply (answers_bind _ _ [_] []); [apply answers_on_conn, answers_modify_link, link_set_state_log|]. intros _.
    apply (answers_bind_silent _ _ []); [by apply answers_silent|]. intros data. apply answers_ret. }
  destruct (Z.eqb_spec (pkt_id packet) CONFIG_CLIENTBOUND_REGISTRY_DATA_ID) as [->|_].
  { simpl. apply answers_lift_bind. intros registry _. apply answers_none, answers_on_data. }
  destruct (Z.eqb_spec (pkt_id packet) CONFIG_CLIENTBOUND_KEEP_ALIVE_ID) as [->|_].
  { simpl. apply answers_none, answers_on_conn, answers_link_send. }
  destruct (Z.eqb_spec (pkt_id packet) CONFIG_CLIENTBOUND_PING_ID) as [->|_].
  { simpl. apply answers_none, answers_on_conn, answers_link_send. }
  simpl. destruct (Z.eqb_spec (pkt_id packet) CONFIG_CLIENTBOUND_ADD_RESOURCE_PACK_ID) as [_|_].
  { apply answers_lift_bind. intros pack ->. apply answers_none, answers_on_conn, answers_handle_offer, _. }
  destruct (Z.eqb_spec (pkt_id packet) CONFIG_CLIENTBOUND_REMOVE_RESOURCE_PACK_ID) as [->|_]; [apply answers_ret|].
  destruct (Z.eqb_spec (pkt_id packet) CONFIG_CLIENTBOUND_SELECT_KNOWN_PACKS_ID) as [_|_]; [|apply answers_ret].
  apply answers_none, answers_on_conn, answers_send_encoded.
Qed.

(** What the last packet of a login says. *)
Definition logs_in (p : RawPacket) (success : LoginSuccess) : Prop :=
  pkt_id p = LOGIN_CLIENTBOUND_SUCCESS_ID
  ∧ ∃ s, decode_payload (decode wire_LoginPacketSuccess) (pkt_payload p) = Ok s
    ∧ success = mkSuccess (LoginPacketSuccess_uuid s) (LoginPacketSuccess_username s).

Lemma lift_bind_inv {S A B} (r : result MineRiderError A) (k : A → M S MineRiderError B) s b s' :
  (let* a := lift r in k a) s = (Ok b, s') → ∃ a, r = Ok a ∧ k a s = (Ok b, s').
Proof. destruct r as [a|e]; [|done]. intros H. by exists a. Qed.

Lemma none_inv {S A B} (m : M S MineRiderError A) s (b : option B) s' : (m ;;; ret None) s = (Ok b, s') → b = None.
Proof. unfold bind. destruct (m s) as [[a|e] s1]; [|done]. by intros [= <- _]. Qed.

Lemma login_result premium turn p (s : C) r s' :
  handle_login_packet (out_rsa o) (out_join o) (out_secret o) premium turn p s = (Ok r, s') →
  match r with Some success => logs_in p success | None => pkt_id p ≠ LOGIN_CLIENTBOUND_SUCCESS_ID end.
Proof.
  unfold handle_login_packet. destruct (Z.eqb_spec (pkt_id p) LOGIN_CLIENTBOUND_DISCONNECT_ID) as [_|_].
  { by intros (d & _ & H)%lift_bind_inv. }
  destruct (Z.eqb_spec (pkt_id p) LOGIN_CLIENTBOUND_ENCRYPTION_BEGIN_ID) as [->|_].
  { by intros (d & _ & ->%none_inv)%lift_bind_inv. }
  destruct (Z.eqb_spec (pkt_id p) LOGIN_CLIENTBOUND_SUCCESS_ID) as [Hid|Hid].
  { intros (su & Hd & H)%lift_bind_inv. unfold bind in H. destruct (link_send _ _ s) as [[u|e] s1]; [|done].
    injection H as <- _. split; [done|by exists su]. }
  destruct (Z.eqb_spec (pkt_id p) LOGIN_CLIENTBOUND_COMPRESS_ID) as [_|_]; [by intros (d & _ & ->%none_inv)%lift_bind_inv|].
  destruct (Z.eqb_spec (pkt_id p) LOGIN_CLIENTBOUND_LOGIN_PLUGIN_REQUEST_ID) as [_|_]; [|done].
  by intros (d & _ & ->%none_inv)%lift_bind_inv.
Qed.

Definition config_data_is (qs : list RawPacket) (s : C * list DimensionType) : Prop := s.2 = config_dimensions qs.

Lemma config_dimensions_snoc qs q :
  config_dimensions (qs ++ [q])
  = if pkt_id q =? CONFIG_CLIENTBOUND_REGISTRY_DATA_ID then
      match decode_payload (decode wire_ConfigPacketRegistryData) (pkt_payload q) with
      | Ok registry => (store_registry registry (config_dimensions qs)).2
      | Err _ => config_dimensions qs
      end
    else config_dimensions qs.
Proof. unfold config_dimensions. by rewrite foldl_app. Qed.

Lemma on_conn_data {A} (m : M C MineRiderError A) s : (on_conn m s).2.2 = s.2.
Proof. destruct s as [c d]. unfold on_conn. simpl. by destruct (m c). Qed.

Lemma config_result accept turn p (s : C * list DimensionType) r s' :
  handle_configuration_packet (J := J) (out_url o) (out_sha1 o) (out_fetch o) accept turn p s = (Ok r, s') →
  match r with
  | Some dims => pkt_id p = CONFIG_CLIENTBOUND_FINISH_CONFIGURATION_ID ∧ dims = s'.2
  | None => pkt_id p ≠ CONFIG_CLIENTBOUND_FINISH_CONFIGURATION_ID
  end
  ∧ ∀ qs, config_data_is qs s → config_data_is (qs ++ [p]) s'.
Proof.
  assert (∀ {A} (m : M C MineRiderError A) (b : option (list DimensionType)),
    (on_conn m ;;; ret None) s = (Ok b, s') → b = None ∧ s'.2 = s.2) as Hconn.
  { intros A m b H. pose proof (none_inv _ _ _ _ H) as ->. split; [done|]. pose proof (on_conn_data m s) as Hd.
    unfold bind in H. destruct (on_conn m s) as [[a|e] s1]; [|done]. by injection H as <-. }
  assert (pkt_id p ≠ CONFIG_CLIENTBOUND_REGISTRY_DATA_ID → s'.2 = s.2 → ∀ qs, config_data_is qs s → config_data_is (qs ++ [p]) s') as Hsame.
  { intros Hid Hs qs Hq. unfold config_data_is. rewrite config_dimensions_snoc, (proj2 (Z.eqb_neq _ _) Hid), Hs. done. }
  unfold handle_configuration_packet.
  destruct (Z.eqb_spec (pkt_id p) CONFIG_CLIENTBOUND_DISCONNECT_ID) as [_|_].
  { by intros (d & _ & H)%lift_bind_inv. }
  destruct (Z.eqb_spec (pkt_id p) CONFIG_CLIENTBOUND_FINISH_CONFIGURATION_ID) as [Hid|Hid].
  { unfold bind at 1 2. pose proof (on_conn_data (link_send CONFIG_SERVERBOUND_FINISH_CONFIGURATION_ID []) s) as Hd1.
    destruct (on_conn (link_send _ _) s) as [[u|e] [c1 d1]]; [|done]. simpl in Hd1. intros [= <- <-].
    split; [done|]. apply Hsame; [by rewrite Hid|done]. }
  destruct (Z.eqb_spec (pkt_id p) CONFIG_CLIENTBOUND_REGISTRY_DATA_ID) as [Hr|Hr].
  { intros (registry & Hdec & H)%lift_bind_inv. pose proof (none_inv _ _ _ _ H) as ->. split; [done|].
    intros qs Hq. unfold config_data_is in *. rewrite config_dimensions_snoc, (proj2 (Z.eqb_eq _ _) Hr), Hdec, <- Hq.
    destruct s as [c d]. unfold bind, on_data in H. simpl. destruct (store_registry registry d) as [[u|e] d']; [|done]. by injection H as <-. }
  destruct ((pkt_id p =? _) || _); [intros [-> Hs]%Hconn; auto|].
  destruct (Z.eqb_spec (pkt_id p) CONFIG_CLIENTBOUND_ADD_RESOURCE_PACK_ID) as [_|_].
  { intros (pack & _ & [-> Hs]%Hconn)%lift_bind_inv. auto. }
  destruct (Z.eqb_spec (pkt_id p) CONFIG_CLIENTBOUND_REMOVE_RESOURCE_PACK_ID) as [_|_]; [intros [= <- <-]; auto|].
  destruct (Z.eqb_spec (pkt_id p) CONFIG_CLIENTBOUND_SELECT_KNOWN_PACKS_ID) as [_|_]; [intros [-> Hs]%Hconn; auto|].
  intros [= <- <-]. auto.
Qed.

(** [qs] ends with its only packet of id [id]. *)
Definition ends_with (id : Z) (qs : list RawPacket) : Prop :=
  ∃ before final, qs = before ++ [final] ∧ Forall (λ q, pkt_id q ≠ id) before ∧ pkt_id final = id.

Lemma login_spec username premium (c : C) :
  match login (out_rsa o) (out_join o) (out_secret o) username premium c with
  | (Ok success, c') =>
      ∃ start ps, login_start username premium = Ok start ∧ (length ps ≤ MAX_LOGIN_PACKETS)%nat
      ∧ ends_with LOGIN_CLIENTBOUND_SUCCESS_ID ps ∧ (∃ p, last ps = Some p ∧ logs_in p success)
      ∧ link_log c' = link_log c ++ sends LOGIN_SERVERBOUND_LOGIN_START_ID (encode wire_LoginPacketLoginStart start)
                                 ++ conversation (login_answers o premium) 0 ps
  | (Err _, c') =>
      ∃ ps k, (length ps ≤ MAX_LOGIN_PACKETS)%nat
      ∧ link_log c' = link_log c ++ k
      ∧ match login_start username premium with
        | Ok start => k `prefix_of` sends LOGIN_SERVERBOUND_LOGIN_START_ID (encode wire_LoginPacketLoginStart start)
                                    ++ conversation (login_answers o premium) 0 ps
        | Err _ => k = []
        end
  end.
Proof.
  unfold login. destruct (login_start username premium) as [start|e].
  2: { exists [], []. simpl. split_and!; [lia|by rewrite app_nil_r|done]. }
  unfold lift. unfold bind at 1. cbv beta iota. unfold bind at 1.
  pose proof (answers_send_encoded (C := C) LOGIN_SERVERBOUND_LOGIN_START_ID (encode wire_LoginPacketLoginStart start) c) as Hs.
  destruct (send_encoded _ _ c) as [[u|e] c1]; [|destruct Hs as (k & Hk & Hlog); exists [], k; split_and!; [simpl; lia|done|by apply prefix_app_r]].
  pose proof (packet_loop_spec link_read (handle_login_packet (out_rsa o) (out_join o) (out_secret o) premium)
    (login_answers o premium) link_read_log (answers_handle_login premium) (λ _ _, True) ltac:(done) ltac:(done)
    MAX_LOGIN_PACKETS 0 c1 [] I) as Hl.
  destruct (packet_loop _ _ _ _ c1) as [[success|e] c2].
  - destruct Hl as (ps & final & Hlen & Hg & (i & s1 & Hr%login_result) & _ & Hlog). exists start, (ps ++ [final]).
    rewrite length_app. split_and!; [done|simpl; lia| |exists final; by rewrite last_snoc|].
    + exists ps, final. split_and!; [done| |apply Hr]. apply (Forall_impl _ _ _ Hg). by intros p (j & s3 & s4 & Hp%login_result).
    + unfold log_of, link_has_log in *. by rewrite Hlog, Hs, <- app_assoc.
  - destruct Hl as (ps & final & k & Hlen & _ & Hk & Hlog). eexists (ps ++ option_list final), (_ ++ k).
    split_and!; [done| |by apply prefix_app].
    unfold log_of, link_has_log in *. by rewrite Hlog, Hs, <- app_assoc.
Qed.

Lemma answers_hello view_distance : answers (S := C) (send_client_configuration view_distance) (config_hello view_distance).
Proof.
  unfold send_client_configuration, config_hello. apply answers_lift_bind. intros data Hd.
  destruct brand_payload as [data'|]; simpl in Hd; [|done]. injection Hd as ->.
  apply answers_bind; [apply answers_send_encoded|]. intros _. apply answers_send_encoded.
Qed.

Lemma configuration_spec view_distance accept (c : C) :
  match run_configuration (J := J) (out_url o) (out_sha1 o) (out_fetch o) view_distance accept c with
  | (Ok dims, c') =>
      ∃ qs, (length qs ≤ MAX_CONFIGURATION_PACKETS)%nat
      ∧ ends_with CONFIG_CLIENTBOUND_FINISH_CONFIGURATION_ID qs ∧ dims = config_dimensions qs
      ∧ link_log c' = link_log c ++ config_hello view_distance ++ conversation (config_answers o accept) 0 qs
  | (Err _, c') =>
      ∃ qs final k, (length (qs ++ option_list final) ≤ MAX_CONFIGURATION_PACKETS)%nat
      ∧ Forall (λ q, pkt_id q ≠ CONFIG_CLIENTBOUND_FINISH_CONFIGURATION_ID) qs ∧ link_log c' = link_log c ++ k
      ∧ k `prefix_of` config_hello view_distance ++ conversation (config_answers o accept) 0 (qs ++ option_list final)
  end.
Proof.
  unfold run_configuration. pose proof (answers_hello view_distance c) as Hs.
  destruct (send_client_configuration view_distance c) as [[u|e] c1].
  2: { destruct Hs as (k & Hk & Hlog). exists [], None, k. split_and!; [simpl; lia|done|done|by apply prefix_app_r]. }
  pose proof (packet_loop_spec (on_conn link_read)
    (handle_configuration_packet (J := J) (out_url o) (out_sha1 o) (out_fetch o) accept)
    (config_answers o accept)) as Hl.
  specialize (Hl ltac:(intros [c2 d]; unfold on_conn, log_of, config_has_log; simpl; pose proof (link_read_log c2); by destruct (link_read c2))).
  specialize (Hl (answers_handle_configuration accept) config_data_is).
  specialize (Hl ltac:(intros qs s Hq; red; rewrite on_conn_data; exact Hq)).
  specialize (Hl ltac:(intros i p qs s r s' Hq Hp; exact (proj2 (config_result _ _ _ _ _ _ Hp) qs Hq))).
  specialize (Hl MAX_CONFIGURATION_PACKETS 0%nat (c1, []) [] eq_refl).
  destruct (packet_loop _ _ _ _ (c1, [])) as [[dims|e] [c2 d2]].
  - destruct Hl as (qs & final & Hlen & Hg & (i & s1 & Hr) & Hk & Hlog). exists (qs ++ [final]).
    pose proof (config_result _ _ _ _ _ _ Hr) as [[Hid Hdims] Hd].
    rewrite length_app. split_and!; [simpl; lia| | |].
    + exists qs, final. split_and!; [done| |done]. apply (Forall_impl _ _ _ Hg).
      intros p (j & s3 & s4 & Hp). by destruct (config_result _ _ _ _ _ _ Hp).
    + by rewrite Hdims.
    + unfold log_of, link_has_log, config_has_log in *. simpl in Hlog. by rewrite Hlog, Hs, <- app_assoc.
  - destruct Hl as (qs & final & k & Hlen & Hg & Hk & Hlog). eexists qs, final, (_ ++ k). split_and!; [done| | |by apply prefix_app].
    { apply (Forall_impl _ _ _ Hg). intros p (j & s3 & s4 & Hp). by destruct (config_result _ _ _ _ _ _ Hp). }
    unfold log_of, link_has_log, config_has_log in *. simpl in Hlog. by rewrite Hlog, Hs, <- app_assoc.
Qed.
End conversation.

(** C2. Joining a server, whatever it sends and however the link fails.  The
    conversation is a handshake, a login in which at most 64 packets are read
    and a configuration in which at most 512 are, each packet answered as its
    kind demands before the next is read; a failure stops it on the way.  It
    succeeds exactly at the end of such a conversation: the login ended with
    its only success packet, the configuration with its only finish packet,
    the identity is the server's and the dimensions are those the registry
    packets left. *)
Theorem join_conversation {J C} `{!Link C} `{!LinkLaws C} (o : Outside) (cfg : ClientConfig) (c : C) :
  match connect_stages (J := J) o cfg c with
  | (Ok (success, dims), c') =>
      ∃ start ps qs, login_start (cfg_username cfg) (cfg_premium cfg) = Ok start
      ∧ (length ps ≤ MAX_LOGIN_PACKETS)%nat ∧ (length qs ≤ MAX_CONFIGURATION_PACKETS)%nat
      ∧ ends_with LOGIN_CLIENTBOUND_SUCCESS_ID ps ∧ (∃ p, last ps = Some p ∧ logs_in p success)
      ∧ ends_with CONFIG_CLIENTBOUND_FINISH_CONFIGURATION_ID qs ∧ dims = config_dimensions qs
      ∧ link_log c' = link_log c ++ join_script o cfg start ps qs
  | (Err _, c') =>
      ∃ k start ps qs, link_log c' = link_log c ++ k ∧ k `prefix_of` join_script o cfg start ps qs
      ∧ (length ps ≤ MAX_LOGIN_PACKETS)%nat ∧ (length qs ≤ MAX_CONFIGURATION_PACKETS)%nat
      ∧ (login_start (cfg_username cfg) (cfg_premium cfg) = Ok start ∨ sent_of k `prefix_of` sent_of (sends SERVERBOUND_SET_PROTOCOL_ID
           (encode wire_HandshakePacketSetProtocol (handshake_packet (cfg_protocol cfg) (cfg_host cfg) (cfg_port cfg)))))
  end.
Proof.
  unfold connect_stages. unfold bind at 1. set (hs := sends SERVERBOUND_SET_PROTOCOL_ID _).
  assert (answers (S := C) (handshake_send (cfg_protocol cfg) (cfg_host cfg) (cfg_port cfg)) hs) as Hh by apply answers_send_encoded.
  specialize (Hh c). destruct (handshake_send _ _ _ c) as [[u|e] c1].
  2: { destruct Hh as (k & Hk & Hlog). exists k, (mkLoginPacketLoginStart "" 0), [], []. split_and!; [done| |simpl; lia|simpl; lia|].
       - by apply prefix_app_r.
       - right. destruct Hk as [k' ->]. rewrite sent_of_app. by apply prefix_app_r. }
  unfold bind at 1, modify at 1. cbv beta iota.
  assert (link_log (link_set_state Login c1) = link_log c ++ hs ++ [StateSet Login]) as H1.
  { rewrite link_set_state_log. unfold log_of, link_has_log in Hh. by rewrite Hh, <- app_assoc. }
  unfold bind at 1. pose proof (login_spec o (cfg_username cfg) (cfg_premium cfg) (link_set_state Login c1)) as Hl.
  destruct (login _ _ _ _ _ (link_set_state Login c1)) as [[success|e] c2].
  2: { destruct Hl as (ps & k & Hps & Hlog & Hk).
       destruct (login_start (cfg_username cfg) (cfg_premium cfg)) as [start|e'].
       - exists (hs ++ [StateSet Login] ++ k), start, ps, []. rewrite Hlog, H1. split_and!; [by rewrite <- !app_assoc| |done|simpl; lia|by left].
         unfold join_script. fold hs. do 2 apply prefix_app. rewrite app_assoc. by apply prefix_app_r.
       - subst k. exists (hs ++ [StateSet Login]), (mkLoginPacketLoginStart "" 0), ps, []. rewrite Hlog, H1, app_nil_r.
         split_and!; [done| |done|simpl; lia|].
         + unfold join_script. fold hs. rewrite app_assoc. by apply prefix_app_r.
         + right. rewrite sent_of_app. simpl. by rewrite app_nil_r. }
  destruct Hl as (start & ps & Hstart & Hps & Hend & Hlast & Hlog2).
  unfold bind at 1. pose proof (configuration_spec (J := J) o (cfg_view_distance cfg) (cfg_accept_resource_packs cfg) c2) as Hc.
  destruct (run_configuration _ _ _ _ _ c2) as [[dims|e] c3].
  - destruct Hc as (qs & Hqs & Hqend & Hd & Hlog). exists start, ps, qs. split_and!; try done.
    rewrite Hlog, Hlog2, H1. unfold join_script. fold hs. by rewrite <- !app_assoc.
  - destruct Hc as (qs0 & final & k & Hqs & _ & Hlog & Hk). set (qs := qs0 ++ option_list final) in *.
    set (st := sends LOGIN_SERVERBOUND_LOGIN_START_ID _) in *. set (cv := conversation _ 0 ps) in *.
    exists (hs ++ [StateSet Login] ++ st ++ cv ++ k), start, ps, qs.
    split_and!; [by rewrite Hlog, Hlog2, H1, <- !app_assoc| |exact Hps|exact Hqs|left; exact Hstart].
    unfold join_script. fold hs st cv. do 4 apply prefix_app. exact Hk.
Qed.

(** A server that compresses, logs the client in, pings it and finishes. *)
Definition test_outside : Outside :=
  mkOutside (λ _ bs, Ok bs) (λ _ _ _ _, Ok tt) (λ _, replicate 16 x00) (λ _, None) (λ bs, bs) (λ _, FetchTimedOut).
Definition test_config : ClientConfig := mkConfig 769 "localhost" 25565 "Steve" None 12 false.
Definition test_server : ScriptLink :=
  mkScript
    [mkPacket LOGIN_CLIENTBOUND_COMPRESS_ID (varint_bytes 256);
     mkPacket LOGIN_CLIENTBOUND_SUCCESS_ID (be_bytes 16 7 ++ string_bytes "Steve" ++ [x00]);
     mkPacket CONFIG_CLIENTBOUND_PING_ID (be_bytes 4 5);
     mkPacket CONFIG_CLIENTBOUND_FINISH_CONFIGURATION_ID []] [].

Lemma join_conversation_witness :
  (connect_stages (J := unit) test_outside test_config test_server).1 = Ok (mkSuccess 7 "Steve", [])
  ∧ ∃ start ps qs, (length ps ≤ MAX_LOGIN_PACKETS)%nat ∧ ends_with LOGIN_CLIENTBOUND_SUCCESS_ID ps
  ∧ script_log (connect_stages (J := unit) test_outside test_config test_server).2 = join_script test_outside test_config start ps qs.
Proof.
  assert ((connect_stages (J := unit) test_outside test_config test_server).1 = Ok (mkSuccess 7 "Steve", [])) as Hr by (by vm_compute).
  split; [exact Hr|].
  pose proof (join_conversation (J := unit) test_outside test_config test_server) as H. revert H Hr.
  destruct (connect_stages test_outside test_config test_server) as [[[success dims]|e] c']; [|done].
  intros (start & ps & qs & _ & Hps & _ & Hend & _ & _ & _ & Hlog) _. exists start, ps, qs. split_and!; [exact Hps|exact Hend|exact Hlog].
Defined.
