(* ===== verification/Chunk.v ===== *)
(** * Chunk snapshots

    The payload half of [src/minecraft/shared_world.rs]: the immutable
    [ChunkSnapshot], its derived equality, and the fingerprint that selects
    a bucket of the shared store. *)

From S2P Require Import Prelude Machine Reader Varint Utf8 Buffer Wire Nbt Errors Palette.

Local Open Scope Z_scope.

(** ** Data *)

Record BlockEntitySnapshot : Type := mkBlockEntity {
  local_x : Z;
  local_z : Z;
  entity_y : Z;
  kind : Z;
  entity_nbt : option Nbt;
}.

Record ChunkLight : Type := mkLight {
  sky_mask : list Z;
  block_mask : list Z;
  empty_sky_mask : list Z;
  empty_block_mask : list Z;
  sky_arrays : list (list byte);
  block_arrays : list (list byte);
}.

(** The parts behind an [Arc] of their own ([sections], [heightmaps],
    [block_entities], [light]) are immutable and never compared by address:
    they are values here. *)
Record ChunkSnapshot : Type := mkSnapshot {
  chunk_x : Z;
  chunk_z : Z;
  sections : list ChunkSection;
  heightmaps : Nbt;
  block_entities : list BlockEntitySnapshot;
  light : ChunkLight;
}.

(** The decoded packets the world consumes. *)
Record ChunkBlockEntity : Type := mkChunkBlockEntity {
  cbe_x : Z;
  cbe_z : Z;
  cbe_y : Z;
  cbe_type : Z;
  cbe_nbt_data : option Nbt;
}.

Record PacketMapChunk : Type := mkMapChunk {
  mc_x : Z;
  mc_z : Z;
  mc_heightmaps : Nbt;
  mc_chunk_data : list byte;
  mc_block_entities : list ChunkBlockEntity;
  mc_sky_light_mask : list Z;
  mc_block_light_mask : list Z;
  mc_empty_sky_light_mask : list Z;
  mc_empty_block_light_mask : list Z;
  mc_sky_light : list (list byte);
  mc_block_light : list (list byte);
}.

Definition from_map_chunk (packet : PacketMapChunk) : ChunkLight := {|
  sky_mask := mc_sky_light_mask packet;
  block_mask := mc_block_light_mask packet;
  empty_sky_mask := mc_empty_sky_light_mask packet;
  empty_block_mask := mc_empty_block_light_mask packet;
  sky_arrays := mc_sky_light packet;
  block_arrays := mc_block_light packet;
|}.

Definition snapshot_decode (packet : PacketMapChunk) (section_count : nat) : result MineRiderError ChunkSnapshot :=
  let? decoded := decode_sections section_count (mc_chunk_data packet) in
  Ok {| chunk_x := mc_x packet;
        chunk_z := mc_z packet;
        sections := decoded;
        heightmaps := mc_heightmaps packet;
        block_entities :=
          map (λ e, mkBlockEntity (cbe_x e) (cbe_z e) (cbe_y e) (cbe_type e) (cbe_nbt_data e))
            (mc_block_entities packet);
        light := from_map_chunk packet |}.

(** ** The derived [PartialEq] *)

(** [==] on floats given as bits: a NaN differs from everything, the two
    zeros are equal, and any other values are equal when their bits are.
    [infinity] is the largest magnitude that is not a NaN. *)
Definition float_eq (w infinity a b : Z) : bool :=
  let mag z := z `mod` 2 ^ (w - 1) in
  (mag a <=? infinity) && (mag b <=? infinity)
  && ((a =? b) || ((mag a =? 0) && (mag b =? 0))).

Definition f32_eq : Z → Z → bool := float_eq 32 0x7f800000.
Definition f64_eq : Z → Z → bool := float_eq 64 0x7ff0000000000000.

Definition list_eqb {A} (eqb : A → A → bool) : list A → list A → bool :=
  fix go l k :=
    match l, k with
    | [], [] => true
    | x :: l, y :: k => eqb x y && go l k
    | _, _ => false
    end.

Fixpoint nbt_eq (a b : Nbt) : bool :=
  match a, b with
  | NbtByte x, NbtByte y | NbtShort x, NbtShort y | NbtInt x, NbtInt y | NbtLong x, NbtLong y => x =? y
  | NbtFloat x, NbtFloat y => f32_eq x y
  | NbtDouble x, NbtDouble y => f64_eq x y
  | NbtByteArray x, NbtByteArray y => bool_decide (x = y)
  | NbtString x, NbtString y => bool_decide (x = y)
  | NbtList t x, NbtList u y => (t =? u) && list_eqb nbt_eq x y
  | NbtCompound x, NbtCompound y =>
      list_eqb (λ e f, bool_decide (e.1 = f.1) && nbt_eq e.2 f.2) x y
  | NbtIntArray x, NbtIntArray y | NbtLongArray x, NbtLongArray y => bool_decide (x = y)
  | _, _ => false
  end.

Definition option_eqb {A} (eqb : A → A → bool) (a b : option A) : bool :=
  match a, b with
  | Some x, Some y => eqb x y
  | None, None => true
  | _, _ => false
  end.

Definition entity_eq (a b : BlockEntitySnapshot) : bool :=
  (local_x a =? local_x b) && (local_z a =? local_z b) && (entity_y a =? entity_y b)
  && (kind a =? kind b) && option_eqb nbt_eq (entity_nbt a) (entity_nbt b).

#[export] Instance ChunkLight_eq_dec : EqDecision ChunkLight.
Proof. solve_decision. Defined.

Definition snapshot_eq (a b : ChunkSnapshot) : bool :=
  (chunk_x a =? chunk_x b) && (chunk_z a =? chunk_z b)
  && bool_decide (sections a = sections b)
  && nbt_eq (heightmaps a) (heightmaps b)
  && list_eqb entity_eq (block_entities a) (block_entities b)
  && bool_decide (light a = light b).

(** ** The fingerprint *)

(** [Fnv64] is its 64-bit state. *)
Definition fnv_new : Z := 0xcbf29ce484222325.

Definition fnv_byte (hash : Z) (b : byte) : Z := wrap 64 (Z.lxor hash (u8 b) * 0x100000001b3).

Definition fnv_write (bytes : list byte) (hash : Z) : Z := foldl fnv_byte hash bytes.

Abbreviation Hash := (M Z MineRiderError unit).

Definition hash_write (bytes : list byte) : Hash := modify (fnv_write bytes).

Definition write_len (n : nat) : Hash := hash_write (le_bytes 8 (Z.of_nat n)).

(** [for v in values { hash.write(&v.to_le_bytes()) }] on [n]-byte values. *)
Definition write_values (n : nat) (values : list Z) : Hash :=
  iter_m (λ v, hash_write (le_bytes n v)) values.

Definition hash_container (c : PalettedContainer) : Hash :=
  match c with
  | Single value =>
      hash_write [x00] ;;;
      hash_write (le_bytes 4 value)
  | Indirect bits palette data =>
      hash_write [x01; byte_of_Z bits] ;;;
      write_len (length palette) ;;;
      write_values 4 palette ;;;
      write_len (length data) ;;;
      write_values 8 data
  | Direct bits data =>
      hash_write [x02; byte_of_Z bits] ;;;
      write_len (length data) ;;;
      write_values 8 data
  end.

(** The encoder writes into a buffer of its own. *)
Definition hash_nbt (v : Nbt) : Hash := λ hash,
  match nbt_encode v new_writer with
  | (Ok _, encoded) => (write_len (length (buf encoded)) ;;; hash_write (buf encoded)) hash
  | (Err e, _) => (Err (Wire e), hash)
  end.

Definition hash_i64s (values : list Z) : Hash :=
  write_len (length values) ;;; write_values 8 values.

Definition hash_byte_arrays (arrays : list (list byte)) : Hash :=
  write_len (length arrays) ;;;
  iter_m (λ array, write_len (length array) ;;; hash_write array) arrays.

Definition hash_light (l : ChunkLight) : Hash :=
  hash_i64s (sky_mask l) ;;;
  hash_i64s (block_mask l) ;;;
  hash_i64s (empty_sky_mask l) ;;;
  hash_i64s (empty_block_mask l) ;;;
  hash_byte_arrays (sky_arrays l) ;;;
  hash_byte_arrays (block_arrays l).

Definition hash_section (s : ChunkSection) : Hash :=
  hash_write (le_bytes 2 (non_air_blocks s)) ;;;
  hash_container (block_states s) ;;;
  hash_container (biomes s).

Definition hash_entity (e : BlockEntitySnapshot) : Hash :=
  hash_write [byte_of_Z (local_x e); byte_of_Z (local_z e)] ;;;
  hash_write (le_bytes 2 (entity_y e)) ;;;
  hash_write (le_bytes 4 (kind e)) ;;;
  match entity_nbt e with
  | Some nbt => hash_write [x01] ;;; hash_nbt nbt
  | None => hash_write [x00]
  end.

Definition hash_snapshot (s : ChunkSnapshot) : Hash :=
  hash_write (le_bytes 4 (chunk_x s)) ;;;
  hash_write (le_bytes 4 (chunk_z s)) ;;;
  write_len (length (sections s)) ;;;
  iter_m hash_section (sections s) ;;;
  hash_nbt (heightmaps s) ;;;
  write_len (length (block_entities s)) ;;;
  iter_m hash_entity (block_entities s) ;;;
  hash_light (light s).

Definition fingerprint (s : ChunkSnapshot) : result MineRiderError Z :=
  match hash_snapshot s fnv_new with
  | (Ok _, hash) => Ok hash
  | (Err e, _) => Err e
  end.

(** ** Runs that agree on their result, whatever state they start from *)

Definition same_result {S E A} (m m' : M S E A) : Prop := ∀ s s', (m s).1 = (m' s').1.

Lemma same_bind {S E A B} (m m' : M S E A) (k k' : A → M S E B) :
  same_result m m' → (∀ a, same_result (k a) (k' a)) → same_result (bind m k) (bind m' k').
Proof.
  intros Hm Hk s s'. unfold bind. specialize (Hm s s').
  destruct (m s) as [r s1], (m' s') as [r' s1']; simpl in Hm; subst r'. destruct r; [apply Hk|done].
Qed.

Lemma same_modify {S E} (f g : S → S) : same_result (modify f : M S E unit) (modify g).
Proof. by intros s s'. Qed.

Lemma same_ret {S E A} (a : A) : same_result (ret a : M S E A) (ret a).
Proof. by intros s s'. Qed.

Lemma same_raise {S E A} (e : E) : same_result (raise e : M S E A) (raise e).
Proof. by intros s s'. Qed.

Lemma same_iter {S E A} (m m' : A → M S E unit) l k :
  Forall2 (λ x y, same_result (m x) (m' y)) l k → same_result (iter_m m l) (iter_m m' k).
Proof. intros HF. induction HF; simpl; [apply same_ret|]. by apply same_bind. Qed.

Create HintDb same discriminated.
#[export] Hint Resolve same_bind same_modify same_ret same_raise same_iter : same.

(** ** Equality and encoding *)

Lemma list_eqb_Forall2 {A} (f : A → A → bool) l k : list_eqb f l k = true ↔ Forall2 (λ x y, f x y = true) l k.
Proof.
  split.
  - revert k. induction l as [|x l IH]; intros [|y k]; simpl; try done. intros [? ?]%andb_true_iff. constructor; auto.
  - induction 1; simpl; [done|]. by apply andb_true_iff.
Qed.

Lemma nbt_eq_tag a b : nbt_eq a b = true → tag_id a = tag_id b.
Proof. by destruct a, b. Qed.

Lemma write_nbt_string_self s : same_result (write_nbt_string s) (write_nbt_string s).
Proof. unfold write_nbt_string. case_match; auto with same. Qed.
#[export] Hint Resolve write_nbt_string_self : same.

Lemma tags_Forall2 l k t :
  Forall2 (λ x y, nbt_eq x y = true) l k →
  existsb (λ i, negb (tag_id i =? t)) l = existsb (λ i, negb (tag_id i =? t)) k.
Proof. induction 1 as [|x y l k Hxy HF IH]; simpl; [done|]. by rewrite (nbt_eq_tag x y), IH. Qed.

Lemma same_iter_self {A} (f : A → PacketWriter → PacketWriter) (l : list A) :
  same_result (iter_m (λ x, modify (f x)) l : Write) (iter_m (λ x, modify (f x)) l).
Proof. apply same_iter. apply Forall_Forall2_diag. apply Forall_true. intros. apply same_modify. Qed.

(** Equal values encode with the same result. *)
Lemma nbt_eq_encode a b : nbt_eq a b = true → same_result (write_payload a) (write_payload b).
Proof.
  revert b. induction a as [v Hl Hc|t items IH|entries IH] using nbt_strong_ind; intros b Hab.
  - destruct v as [| | | | | | |s|t items|entries| |], b; simpl in Hab; try done; try apply same_modify;
      try (by destruct (Hl t items)); try (by destruct (Hc entries));
      apply bool_decide_eq_true in Hab as ->; [apply write_nbt_string_self|..];
      (apply same_bind; [apply same_modify|intros _; apply same_iter_self]).
  - destruct b as [| | | | | | | |u items'| | |]; try done. simpl in Hab.
    apply andb_true_iff in Hab as [->%Z.eqb_eq HF%list_eqb_Forall2]. simpl. rewrite (tags_Forall2 items items') by done.
    case_match; [apply same_raise|]. do 2 (apply same_bind; [apply same_modify|intros _]). apply same_iter.
    apply Forall2_same_length_lookup. split; [by eapply Forall2_length|].
    intros i x y Hx Hy. rewrite Forall_lookup in IH. apply (IH i x Hx). by eapply (Forall2_lookup_lr _ _ _ i) in HF.
  - destruct b as [| | | | | | | | |entries'| |]; try done. simpl in Hab. apply list_eqb_Forall2 in Hab. simpl.
    apply same_bind; [|intros _; apply same_modify]. apply same_iter.
    apply Forall2_same_length_lookup. split; [by eapply Forall2_length|]. intros i [n x] [n' y] Hx Hy.
    eapply Forall2_lookup_lr in Hab; [|exact Hx|exact Hy]. apply andb_true_iff in Hab as [Hn%bool_decide_eq_true Hxy].
    simpl in *. subst n'. rewrite (nbt_eq_tag x y) by done. apply same_bind; [apply same_modify|intros _].
    apply same_bind; [apply write_nbt_string_self|intros _]. rewrite Forall_lookup in IH. by apply (IH i (n, x) Hx).
Qed.

Lemma float_eq_trans w inf a b c : float_eq w inf a b = true → float_eq w inf b c = true → float_eq w inf a c = true.
Proof.
  unfold float_eq. rewrite !andb_true_iff, !orb_true_iff, !andb_true_iff, !Z.eqb_eq, !Z.leb_le.
  intros [[Ha Hb] Hab] [[_ Hc] Hbc]. split; [done|]. destruct Hab as [->|[? ?]]; [done|].
  destruct Hbc as [<-|[? ?]]; auto.
Qed.

Lemma list_eqb_trans {A} (f : A → A → bool) l k m :
  Forall (λ x, ∀ y z, f x y = true → f y z = true → f x z = true) l →
  list_eqb f l k = true → list_eqb f k m = true → list_eqb f l m = true.
Proof.
  intros HF. revert k m. induction HF as [|x l Hx HF IH]; intros [|y k] [|z m]; simpl; try done.
  rewrite !andb_true_iff. intros [? ?] [? ?]. eauto.
Qed.

Lemma nbt_eq_trans a b c : nbt_eq a b = true → nbt_eq b c = true → nbt_eq a c = true.
Proof.
  revert b c. induction a as [v Hl Hc|t items IH|entries IH] using nbt_strong_ind; intros b c Hab Hbc.
  - destruct v as [| | | | | | | |t items|entries| |], b; try done; destruct c; try done; simpl in *;
      try (by destruct (Hl t items)); try (by destruct (Hc entries)); try (by eapply float_eq_trans);
      rewrite ?Z.eqb_eq, ?bool_decide_eq_true in *; congruence.
  - destruct b, c; try done. simpl in *. rewrite andb_true_iff, Z.eqb_eq in *.
    destruct Hab as [-> Hab], Hbc as [-> Hbc]. split; [done|]. by eapply list_eqb_trans.
  - destruct b, c; try done. simpl in *. eapply list_eqb_trans; [|exact Hab|exact Hbc].
    eapply Forall_impl; [exact IH|]. simpl. intros e He f g. rewrite !andb_true_iff, !bool_decide_eq_true.
    intros [-> ?] [-> ?]. eauto.
Qed.

(** ** Interchangeable snapshots

    What the store may hand out for a snapshot: the same snapshot, or one
    that compares equal.  [==] is not reflexive (NaN), so both cases stay. *)

Definition nbt_sim (a b : Nbt) : Prop := a = b ∨ nbt_eq a b = true.

#[export] Instance nbt_sim_refl : Reflexive nbt_sim.
Proof. by left. Qed.
#[export] Instance nbt_sim_trans : Transitive nbt_sim.
Proof. intros a b c [->|Hab] [<-|Hbc]; [by left|by right|by right|right; by eapply nbt_eq_trans]. Qed.

(** The result of encoding does not depend on what is already written. *)
Lemma write_payload_self a : same_result (write_payload a) (write_payload a).
Proof.
  induction a as [v Hl Hc|t items IH|entries IH] using nbt_strong_ind.
  - destruct v as [| | | | | | |s|t items|entries| |]; try apply same_modify;
      try (by destruct (Hl t items)); try (by destruct (Hc entries)); [apply write_nbt_string_self|..];
      (apply same_bind; [apply same_modify|intros _; apply same_iter_self]).
  - simpl. case_match; [apply same_raise|]. do 2 (apply same_bind; [apply same_modify|intros _]).
    by apply same_iter, Forall_Forall2_diag.
  - simpl. apply same_bind; [|intros _; apply same_modify]. apply same_iter, Forall_Forall2_diag.
    eapply Forall_impl; [exact IH|]. intros [n v] Hv. simpl in *. apply same_bind; [apply same_modify|intros _].
    by apply same_bind; [apply write_nbt_string_self|intros _].
Qed.

Lemma nbt_sim_encode a b : nbt_sim a b → same_result (nbt_encode a) (nbt_encode b).
Proof.
  intros [->|Hab]; unfold nbt_encode; (apply same_bind; [apply same_modify|intros _]);
    [apply write_payload_self|by apply nbt_eq_encode].
Qed.

Definition entity_sim (a b : BlockEntitySnapshot) : Prop :=
  local_x a = local_x b ∧ local_z a = local_z b ∧ entity_y a = entity_y b ∧ kind a = kind b
  ∧ option_Forall2 nbt_sim (entity_nbt a) (entity_nbt b).

#[export] Instance entity_sim_refl : Reflexive entity_sim.
Proof. intros e. by split_and!. Qed.
#[export] Instance entity_sim_trans : Transitive entity_sim.
Proof.
  intros a b c (? & ? & ? & ? & Hab) (? & ? & ? & ? & Hbc). split_and!; [congruence..|]. by etrans.
Qed.

Definition snapshot_sim (a b : ChunkSnapshot) : Prop :=
  chunk_x a = chunk_x b ∧ chunk_z a = chunk_z b ∧ sections a = sections b
  ∧ nbt_sim (heightmaps a) (heightmaps b)
  ∧ Forall2 entity_sim (block_entities a) (block_entities b)
  ∧ light a = light b.

#[export] Instance snapshot_sim_refl : Reflexive snapshot_sim.
Proof. intros s. by split_and!. Qed.
#[export] Instance snapshot_sim_trans : Transitive snapshot_sim.
Proof.
  intros a b c (? & ? & ? & Hab & Eab & ?) (? & ? & ? & Hbc & Ebc & ?). split_and!; [congruence..| | |congruence]; by etrans.
Qed.

Lemma snapshot_eq_sim a b : snapshot_eq a b = true → snapshot_sim a b.
Proof.
  unfold snapshot_eq. rewrite !andb_true_iff, !Z.eqb_eq, !bool_decide_eq_true, list_eqb_Forall2.
  intros (((((? & ?) & ?) & Hh) & He) & ?). split_and!; [done..|by right| |done].
  eapply Forall2_impl; [exact He|]. intros x y. unfold entity_eq. rewrite !andb_true_iff, !Z.eqb_eq.
  intros ((((? & ?) & ?) & ?) & Hn). split_and!; [done..|].
  destruct (entity_nbt x), (entity_nbt y); try done; constructor. by right.
Qed.

(** ** Fingerprints of interchangeable snapshots *)

Lemma same_hash_write a b : same_result (hash_write a) (hash_write b).
Proof. apply same_modify. Qed.

Lemma same_hash_nbt a b : nbt_sim a b → same_result (hash_nbt a) (hash_nbt b).
Proof.
  intros Hab h h'. unfold hash_nbt. pose proof (nbt_sim_encode a b Hab new_writer new_writer) as He.
  destruct (nbt_encode a new_writer) as [ra wa], (nbt_encode b new_writer) as [rb wb]. simpl in He. subst rb.
  by destruct ra.
Qed.

(** A hash that cannot fail. *)
Lemma same_iter_hash {A} (m : A → Hash) l : (∀ x, same_result (m x) (m x)) → same_result (iter_m m l) (iter_m m l).
Proof. intros Hm. apply same_iter, Forall_Forall2_diag, Forall_true, Hm. Qed.

Lemma same_write_values n l : same_result (write_values n l) (write_values n l).
Proof. apply same_iter_hash. intros. apply same_hash_write. Qed.

#[export] Hint Resolve same_hash_write same_hash_nbt same_write_values same_iter_hash : same.

Ltac same_auto := repeat (apply same_bind; [|intros _]); auto with same.

Lemma same_hash_container c : same_result (hash_container c) (hash_container c).
Proof. destruct c; simpl; unfold write_len; same_auto. Qed.

Lemma same_hash_section s : same_result (hash_section s) (hash_section s).
Proof. unfold hash_section. same_auto; apply same_hash_container. Qed.

Lemma same_hash_light l : same_result (hash_light l) (hash_light l).
Proof. unfold hash_light, hash_i64s, hash_byte_arrays, write_len. same_auto; apply same_iter_hash; intros; same_auto. Qed.

Lemma same_hash_entity a b : entity_sim a b → same_result (hash_entity a) (hash_entity b).
Proof.
  intros (_ & _ & _ & _ & Hn). unfold hash_entity. same_auto. destruct Hn; same_auto.
Qed.

(** Interchangeable snapshots are both hashable or fail alike. *)
Lemma snapshot_sim_hash a b : snapshot_sim a b → same_result (hash_snapshot a) (hash_snapshot b).
Proof.
  intros (_ & _ & Hs & Hh & He & Hl). unfold hash_snapshot, write_len. rewrite Hs, Hl.
  assert (same_result (iter_m hash_entity (block_entities a)) (iter_m hash_entity (block_entities b))).
  { apply same_iter. eapply Forall2_impl; [exact He|]. apply same_hash_entity. }
  repeat (apply same_bind; [solve [auto using same_hash_section with same]|intros _]). apply same_hash_light.
Qed.

(** The error of [fingerprint], if any. *)
Definition fingerprint_check (s : ChunkSnapshot) : result MineRiderError unit :=
  let? _ := fingerprint s in Ok tt.

Lemma fingerprint_check_sim a b : snapshot_sim a b → fingerprint_check a = fingerprint_check b.
Proof.
  intros Hab%snapshot_sim_hash. specialize (Hab fnv_new fnv_new). unfold fingerprint_check, fingerprint.
  destruct (hash_snapshot a fnv_new) as [ra ha], (hash_snapshot b fnv_new) as [rb hb]. simpl in Hab. subst rb.
  by destruct ra.
Qed.
