(* ===== verification/ChunkStore.v ===== *)
(** * The shared chunk store

    The store half of [src/minecraft/shared_world.rs]: a sharded, bounded
    table of weak references that lets clients of one server share equal
    chunk payloads.

    A payload behind an [Arc] is a location of the [Heap]; it is live while
    some client owns it, a [Weak] is the bare location.  An [intern] call
    holds its shard's lock from the lookup on, so calls are atomic with
    respect to each other; what can still happen during a call is that the
    last owner of a payload lets go between [strong_count] and [upgrade].
    The argument [lost] is the set of payloads this happens to. *)

From S2P Require Import Prelude Machine Reader Utf8 Buffer Nbt Errors Palette Dimension Chunk.

Local Open Scope Z_scope.

(** ** Reference-counted payloads *)

Record Heap : Type := mkHeap {
  live : gmap nat ChunkSnapshot;
  next_arc : nat;
}.

Definition arc_new (s : ChunkSnapshot) (h : Heap) : nat * Heap :=
  (next_arc h, {| live := <[next_arc h := s]> (live h); next_arc := S (next_arc h) |}).

(** The last owner lets go. *)
Definition arc_drop (l : nat) (h : Heap) : Heap := {| live := delete l (live h); next_arc := next_arc h |}.

Definition strong (h : Heap) (l : nat) : bool := bool_decide (is_Some (live h !! l)).

Definition upgrade (lost : gset nat) (h : Heap) (l : nat) : option ChunkSnapshot :=
  if bool_decide (l ∈ lost) then None else live h !! l.

(** ** Scopes and keys *)

Record ServerIdentity : Type := mkServer { host : string; port : Z }.

(** [trim_end_matches('.')], on the bytes of the name from the end. *)
Fixpoint skip_dots (bs : list byte) : list byte :=
  match bs with
  | b :: bs' => if bool_decide (b = x2e) then skip_dots bs' else bs
  | [] => []
  end.

Definition ascii_lowercase (b : byte) : byte :=
  if (65 <=? u8 b) && (u8 b <=? 90) then byte_of_Z (u8 b + 32) else b.

Definition server_new (h : string) (p : Z) : ServerIdentity :=
  {| host := of_bytes (map ascii_lowercase (reverse (skip_dots (reverse (bytes_of h))))); port := p |}.

Record WorldIdentity : Type := mkWorldIdentity { world_name : string; hashed_seed : Z }.

Record DimensionIdentity : Type := mkDimensionIdentity {
  di_key : string;
  di_min_y : Z;
  di_height : Z;
  di_logical_height : Z;
  di_coordinate_scale_bits : Z;
  di_ultrawarm : bool;
  di_has_ceiling : bool;
}.

(** [From<&DimensionType>]; [to_bits] is the identity on the modelled bits. *)
Definition dimension_identity (d : DimensionType) : DimensionIdentity :=
  mkDimensionIdentity (dim_key d) (min_y d) (height d) (logical_height d) (coordinate_scale d)
    (ultrawarm d) (has_ceiling d).

Record WorldScope : Type := mkScope {
  scope_server : ServerIdentity;
  scope_world : WorldIdentity;
  scope_dimension : DimensionIdentity;
}.

Definition scope_new (server : ServerIdentity) (name : string) (seed : Z) (d : DimensionType) : WorldScope :=
  mkScope server (mkWorldIdentity name seed) (dimension_identity d).

Record InternKey : Type := mkKey {
  key_scope : WorldScope;
  key_x : Z;
  key_z : Z;
  key_fingerprint : Z;
}.

#[export] Instance ServerIdentity_eq_dec : EqDecision ServerIdentity.
Proof. solve_decision. Defined.
#[export] Instance WorldIdentity_eq_dec : EqDecision WorldIdentity.
Proof. solve_decision. Defined.
#[export] Instance DimensionIdentity_eq_dec : EqDecision DimensionIdentity.
Proof. solve_decision. Defined.
#[export] Instance WorldScope_eq_dec : EqDecision WorldScope.
Proof. solve_decision. Defined.
#[export] Instance InternKey_eq_dec : EqDecision InternKey.
Proof. solve_decision. Defined.

(** The fields of a key as a flat list, to use it as a map key. *)
Definition key_fields (k : InternKey) : list (string + Z) :=
  let s := key_scope k in let d := scope_dimension s in
  [inl (host (scope_server s)); inr (port (scope_server s)); inl (world_name (scope_world s)); inr (hashed_seed (scope_world s));
   inl (di_key d); inr (di_min_y d); inr (di_height d); inr (di_logical_height d); inr (di_coordinate_scale_bits d);
   inr (Z.b2z (di_ultrawarm d)); inr (Z.b2z (di_has_ceiling d)); inr (key_x k); inr (key_z k); inr (key_fingerprint k)].

Definition fields_key (l : list (string + Z)) : option InternKey :=
  match l with
  | [inl h; inr p; inl n; inr s; inl k; inr y; inr hh; inr lh; inr cs; inr u; inr c; inr x; inr z; inr f] =>
      Some (mkKey (mkScope (mkServer h p) (mkWorldIdentity n s)
        (mkDimensionIdentity k y hh lh cs (u =? 1) (c =? 1))) x z f)
  | _ => None
  end.

#[export] Instance InternKey_countable : Countable InternKey.
Proof. refine (inj_countable key_fields fields_key _). by intros [[[] [] [? ? ? ? ? [] []]]]. Defined.

(** ** The store *)

Record StoreShard : Type := mkShard {
  entries : gmap InternKey (list nat);
  insertion_order : list InternKey;
}.

Definition shard_default : StoreShard := {| entries := ∅; insertion_order := [] |}.

Record SharedChunkStore : Type := mkStore {
  shards : list StoreShard;
  max_keys_per_shard : nat;
  max_collisions_per_key : nat;
  evictions : Z;
  uncached_collision_payloads : Z;
}.

Definition DEFAULT_SHARD_COUNT : nat := 16.
Definition DEFAULT_KEYS_PER_SHARD : nat := 4096.
Definition DEFAULT_COLLISIONS_PER_KEY : nat := 8.

(** The assertions that the arguments are positive are hypotheses of the
    theorems ([limits_ok]). *)
Definition with_limits (n keys_per_shard collisions_per_key : nat) : SharedChunkStore := {|
  shards := replicate n shard_default;
  max_keys_per_shard := keys_per_shard;
  max_collisions_per_key := collisions_per_key;
  evictions := 0;
  uncached_collision_payloads := 0;
|}.

Definition store_new : SharedChunkStore :=
  with_limits DEFAULT_SHARD_COUNT DEFAULT_KEYS_PER_SHARD DEFAULT_COLLISIONS_PER_KEY.

(** [rotate_left] on 64 bits. *)
Definition rotate_left (z n : Z) : Z := Z.lor (wrap 64 (Z.shiftl z n)) (Z.shiftr z (64 - n)).

Definition shard_index (n : nat) (key : InternKey) : nat :=
  let mixed :=
    Z.lxor (Z.lxor (Z.lxor (Z.lxor (key_fingerprint key)
      (rotate_left (wrap 32 (key_x key)) 17))
      (rotate_left (wrap 32 (key_z key)) 37))
      (rotate_left (wrap 64 (hashed_seed (scope_world (key_scope key)))) 7))
      (port (scope_server (key_scope key))) in
  Z.to_nat (mixed `mod` Z.of_nat n).

(** [fetch_add(1)] on an [AtomicU64]. *)
Definition bump (counter : Z) : Z := wrap 64 (counter + 1).

(** [while shard.entries.len() >= max { ... }]: a turn pops one key, so the
    recursion is on the queue. *)
Fixpoint evict (max : nat) (es : gmap InternKey (list nat)) (order : list InternKey) (evicted : Z) :
    StoreShard * Z :=
  if (size es <? max)%nat then ({| entries := es; insertion_order := order |}, evicted)
  else match order with
       | [] => ({| entries := es; insertion_order := [] |}, evicted)
       | oldest :: order =>
           evict max (delete oldest es) order
             (match es !! oldest with Some _ => bump evicted | None => evicted end)
       end.

Definition set_shard (i : nat) (shard : StoreShard) (st : SharedChunkStore) : SharedChunkStore :=
  {| shards := <[i := shard]> (shards st);
     max_keys_per_shard := max_keys_per_shard st;
     max_collisions_per_key := max_collisions_per_key st;
     evictions := evictions st;
     uncached_collision_payloads := uncached_collision_payloads st |}.

Definition set_counters (ev un : Z) (st : SharedChunkStore) : SharedChunkStore :=
  {| shards := shards st;
     max_keys_per_shard := max_keys_per_shard st;
     max_collisions_per_key := max_collisions_per_key st;
     evictions := ev;
     uncached_collision_payloads := un |}.

(** The first candidate of the bucket that can be upgraded and compares
    equal. *)
Definition find_candidate (lost : gset nat) (h : Heap) (s : ChunkSnapshot) (bucket : list nat) : option nat :=
  List.find (λ l, match upgrade lost h l with Some c => snapshot_eq c s | None => false end) bucket.

(** The key is in the table: prune its bucket, then share or add. *)
Definition intern_known (lost : gset nat) (i : nat) (shard : StoreShard) (key : InternKey) (bucket : list nat)
    (s : ChunkSnapshot) (st : SharedChunkStore) (h : Heap) : nat * (SharedChunkStore * Heap) :=
  let bucket := filter (λ l, strong h l = true) bucket in
  let put b := set_shard i {| entries := <[key := b]> (entries shard); insertion_order := insertion_order shard |} in
  match find_candidate lost h s bucket with
  | Some candidate => (candidate, (put bucket st, h))
  | None =>
      let '(l, h) := arc_new s h in
      if (length bucket <? max_collisions_per_key st)%nat then (l, (put (push bucket l) st, h))
      else (l, (set_counters (evictions st) (bump (uncached_collision_payloads st)) (put bucket st), h))
  end.

(** The key is new: make room, then add it. *)
Definition intern_new (i : nat) (shard : StoreShard) (key : InternKey) (s : ChunkSnapshot) (st : SharedChunkStore)
    (h : Heap) : nat * (SharedChunkStore * Heap) :=
  let '(shard, evicted) := evict (max_keys_per_shard st) (entries shard) (insertion_order shard) (evictions st) in
  let '(l, h) := arc_new s h in
  let shard := {| entries := <[key := [l]]> (entries shard); insertion_order := push (insertion_order shard) key |} in
  (l, (set_counters evicted (uncached_collision_payloads st) (set_shard i shard st), h)).

Definition intern_with_fingerprint (lost : gset nat) (scope : WorldScope) (s : ChunkSnapshot) (fp : Z)
    (st : SharedChunkStore) (h : Heap) : nat * (SharedChunkStore * Heap) :=
  let key := mkKey scope (chunk_x s) (chunk_z s) fp in
  let i := shard_index (length (shards st)) key in
  let shard := default shard_default (shards st !! i) in
  match entries shard !! key with
  | Some bucket => intern_known lost i shard key bucket s st h
  | None => intern_new i shard key s st h
  end.

(** The state a client call works on. *)
Record Env : Type := mkEnv { heap : Heap; store : SharedChunkStore }.

Definition store_intern (scope : WorldScope) (lost : gset nat) (s : ChunkSnapshot) : M Env MineRiderError nat := λ env,
  match fingerprint s with
  | Err e => (Err e, env)
  | Ok fp =>
      let '(l, (st, h)) := intern_with_fingerprint lost scope s fp (store env) (heap env) in
      (Ok l, mkEnv h st)
  end.

(** [prune], shard by shard. *)
Definition prune_bucket (h : Heap) (bucket : list nat) : option (list nat) :=
  match filter (λ l, strong h l = true) bucket with
  | [] => None
  | b => Some b
  end.

Definition prune_shard (h : Heap) (shard : StoreShard) : StoreShard :=
  let es := omap (prune_bucket h) (entries shard) in
  {| entries := es;
     insertion_order := filter (λ k, is_Some (es !! k)) (insertion_order shard) |}.

Definition prune (env : Env) : Env :=
  let st := store env in
  mkEnv (heap env)
    {| shards := map (prune_shard (heap env)) (shards st);
       max_keys_per_shard := max_keys_per_shard st;
       max_collisions_per_key := max_collisions_per_key st;
       evictions := evictions st;
       uncached_collision_payloads := uncached_collision_payloads st |}.

Record SharedChunkStoreStats : Type := mkStats {
  cache_keys : nat;
  weak_entries : nat;
  live_payloads : nat;
  stat_evictions : Z;
  stat_uncached : Z;
}.

(** All weak references of the table. *)
Definition all_weak (st : SharedChunkStore) : list nat :=
  concat (map (λ shard, concat (map snd (map_to_list (entries shard)))) (shards st)).

Definition stats (env : Env) : SharedChunkStoreStats :=
  let st := store env in
  {| cache_keys := list_sum (map (λ shard, size (entries shard)) (shards st));
     weak_entries := length (all_weak st);
     live_payloads := size (list_to_set (C := gset nat) (filter (λ l, strong (heap env) l = true) (all_weak st)));
     stat_evictions := evictions st;
     stat_uncached := uncached_collision_payloads st |}.

(** ** Invariant *)

(** A payload filed under a key has the key's position and fingerprint. *)
Definition payload_ok (key : InternKey) (s : ChunkSnapshot) : Prop :=
  chunk_x s = key_x key ∧ chunk_z s = key_z key ∧ fingerprint s = Ok (key_fingerprint key).

Definition bucket_ok (max : nat) (h : Heap) (key : InternKey) (bucket : list nat) : Prop :=
  (length bucket ≤ max)%nat
  ∧ ∀ l, l ∈ bucket → (l < next_arc h)%nat ∧ ∀ s, live h !! l = Some s → payload_ok key s.

(** The queue lists the keys of the table, each once. *)
Definition queue_ok (es : gmap InternKey (list nat)) (order : list InternKey) : Prop :=
  NoDup order ∧ ∀ k, k ∈ order ↔ is_Some (es !! k).

Definition shard_ok (st : SharedChunkStore) (h : Heap) (i : nat) (shard : StoreShard) : Prop :=
  (size (entries shard) ≤ max_keys_per_shard st)%nat
  ∧ queue_ok (entries shard) (insertion_order shard)
  ∧ ∀ k b, entries shard !! k = Some b →
      shard_index (length (shards st)) k = i ∧ bucket_ok (max_collisions_per_key st) h k b.

Definition heap_ok (h : Heap) : Prop := ∀ l, is_Some (live h !! l) → (l < next_arc h)%nat.

Definition limits_ok (st : SharedChunkStore) : Prop :=
  (0 < length (shards st))%nat ∧ (0 < max_keys_per_shard st)%nat ∧ (0 < max_collisions_per_key st)%nat.

Definition env_ok (env : Env) : Prop :=
  heap_ok (heap env) ∧ limits_ok (store env)
  ∧ ∀ i shard, shards (store env) !! i = Some shard → shard_ok (store env) (heap env) i shard.

(** A later heap: payloads may have died, none has changed. *)
Definition heap_later (h h' : Heap) : Prop :=
  (next_arc h ≤ next_arc h')%nat
  ∧ ∀ l s, (l < next_arc h)%nat → live h' !! l = Some s → live h !! l = Some s.

Lemma heap_later_refl h : heap_later h h.
Proof. by split. Qed.

Lemma heap_later_new s h : heap_later h (arc_new s h).2.
Proof. split; simpl; [lia|]. intros l s' Hl. by rewrite lookup_insert_ne by lia. Qed.

Lemma heap_later_drop l h : heap_later h (arc_drop l h).
Proof. split; simpl; [lia|]. intros l' s _ [_ ?]%lookup_delete_Some. done. Qed.
#[export] Hint Resolve heap_later_refl heap_later_new heap_later_drop : core.

Lemma heap_ok_new s h : heap_ok h → heap_ok (arc_new s h).2.
Proof.
  intros Hh l. simpl. destruct (decide (l = next_arc h)) as [->|]; [lia|]. rewrite lookup_insert_ne by done.
  intros ?%Hh. lia.
Qed.

Lemma heap_ok_drop l h : heap_ok h → heap_ok (arc_drop l h).
Proof. intros Hh l' [s Hs]. simpl in Hs. apply lookup_delete_Some in Hs as [_ Hs]. apply Hh. by eexists. Qed.

Lemma bucket_ok_later max h h' k b : heap_later h h' → bucket_ok max h k b → bucket_ok max h' k b.
Proof.
  intros [Hn Hl] [Hlen Hb]. split; [done|]. intros l [Hlt Hs]%Hb. split; [lia|]. intros s Hs'. by apply Hs, Hl.
Qed.

Lemma bucket_ok_sub max h k b b' : bucket_ok max h k b → b' ⊆+ b → bucket_ok max h k b'.
Proof.
  intros [Hlen Hb] Hsub. split; [by apply submseteq_length in Hsub; lia|]. intros l Hl. apply Hb.
  by eapply elem_of_submseteq.
Qed.

Lemma env_ok_later h h' st : heap_later h h' → heap_ok h' → env_ok (mkEnv h st) → env_ok (mkEnv h' st).
Proof.
  intros Hle Hh' (_ & Hl & Hs). split_and!; [done..|]. intros i shard Hi. destruct (Hs i shard Hi) as (Hz & Hq & Hb).
  split_and!; [done..|]. intros k b Hk. destruct (Hb k b Hk). split; [done|]. by eapply bucket_ok_later.
Qed.

(** Replacing the shard [i] by a good one. *)
Lemma env_ok_set_shard h st i shard :
  env_ok (mkEnv h st) → shard_ok st h i shard → env_ok (mkEnv h (set_shard i shard st)).
Proof.
  intros (Hh & Hl & Hs) Hshard. split_and!; [done| |].
  - unfold limits_ok in *. simpl. by rewrite length_insert.
  - intros j shard' Hj. simpl in Hj. unfold shard_ok in *. simpl. rewrite length_insert.
    apply list_lookup_insert_Some in Hj as [(-> & <- & _)|(_ & Hj)]; [exact Hshard|by apply Hs].
Qed.

Lemma env_ok_set_counters h st ev un : env_ok (mkEnv h st) → env_ok (mkEnv h (set_counters ev un st)).
Proof. done. Qed.

(** ** Eviction *)

Lemma queue_size es order : queue_ok es order → size es = length order.
Proof.
  intros [Hnd Hq]. rewrite <- size_dom. rewrite <- (size_list_to_set (C := gset InternKey) order) by done. f_equal.
  apply set_eq. intros k. rewrite elem_of_dom, elem_of_list_to_set. symmetry. apply Hq.
Qed.

Lemma queue_tail es k order : queue_ok es (k :: order) → queue_ok (delete k es) order.
Proof.
  intros [[Hk Hnd]%NoDup_cons Hq]. split; [done|]. intros k'. specialize (Hq k'). rewrite elem_of_cons in Hq.
  rewrite lookup_delete_is_Some. destruct (decide (k' = k)) as [->|]; naive_solver.
Qed.

Lemma queue_push es k b order : queue_ok es order → es !! k = None → queue_ok (<[k := b]> es) (push order k).
Proof.
  intros [Hnd Hq] Hk. unfold push. split.
  - apply NoDup_app. split_and!; [done| |apply NoDup_singleton]. intros k' Hk' ->%list_elem_of_singleton.
    apply Hq in Hk' as [? ?]. congruence.
  - intros k'. rewrite elem_of_app, list_elem_of_singleton, lookup_insert_is_Some, Hq.
    destruct (decide (k = k')) as [->|]; naive_solver.
Qed.

(** A shard within its bound loses its oldest key when it is full and
    nothing otherwise. *)
Lemma evict_exact max es order ev :
  (0 < max)%nat → (size es ≤ max)%nat → queue_ok es order →
  evict max es order ev =
    match order with
    | oldest :: order' =>
        if (size es <? max)%nat then (mkShard es order, ev) else (mkShard (delete oldest es) order', bump ev)
    | [] => (mkShard es order, ev)
    end.
Proof.
  intros Hmax Hsize Hq. destruct order as [|oldest order].
  - apply queue_size in Hq. simpl in *. destruct (Nat.ltb_spec (size es) max); [done|lia].
  - simpl. destruct (Nat.ltb_spec (size es) max) as [|Hfull]; [done|].
    assert (is_Some (es !! oldest)) as [b Hb] by (apply Hq, elem_of_cons; by left).
    assert (size (delete oldest es) < max)%nat as Hlt.
    { rewrite map_size_delete_Some by done. lia. }
    rewrite Hb. apply Nat.ltb_lt in Hlt. destruct order; simpl; by rewrite Hlt.
Qed.

Lemma evict_spec max es order ev :
  (0 < max)%nat → (size es ≤ max)%nat → queue_ok es order →
  let shard := (evict max es order ev).1 in
  (size (entries shard) < max)%nat ∧ queue_ok (entries shard) (insertion_order shard) ∧ entries shard ⊆ es.
Proof.
  intros Hmax Hsize Hq. rewrite evict_exact by done. destruct order as [|oldest order]; simpl.
  - pose proof (queue_size _ _ Hq). simpl in *. split_and!; [lia|done..].
  - destruct (Nat.ltb_spec (size es) max) as [|Hfull]; simpl; [done|].
    assert (is_Some (es !! oldest)) as [b Hb] by (apply Hq, elem_of_cons; by left).
    split_and!; [rewrite map_size_delete_Some by done; lia|by apply queue_tail|apply delete_subseteq].
Qed.

(** ** Interning *)

Lemma shard_index_lt n key : (0 < n)%nat → (shard_index n key < n)%nat.
Proof.
  intros Hn. unfold shard_index. match goal with |- context [?m `mod` _] => pose proof (Z.mod_pos_bound m (Z.of_nat n)) end. lia.
Qed.

Lemma find_candidate_Some lost h s bucket l :
  find_candidate lost h s bucket = Some l → l ∈ bucket ∧ ∃ c, live h !! l = Some c ∧ snapshot_eq c s = true.
Proof.
  unfold find_candidate. intros [Hin Hc]%List.find_some. split; [by apply list_elem_of_In|].
  unfold upgrade in Hc. case_bool_decide; [done|]. destruct (live h !! l) as [c|]; [by exists c|done].
Qed.

(** What an interned payload promises: the location holds the snapshot or
    one that compares equal, live payloads keep their content, and the
    environment stays good. *)
Definition interned (s : ChunkSnapshot) (env : Env) (l : nat) (env' : Env) : Prop :=
  env_ok env' ∧ (∃ c, live (heap env') !! l = Some c ∧ snapshot_sim c s)
  ∧ ∀ l' c, live (heap env) !! l' = Some c → live (heap env') !! l' = Some c.

Lemma arc_new_keeps s h : heap_ok h → ∀ l c, live h !! l = Some c → live (arc_new s h).2 !! l = Some c.
Proof. intros Hh l c Hl. simpl. assert (l < next_arc h)%nat by (apply Hh; by eexists). by rewrite lookup_insert_ne by lia. Qed.

Lemma interned_new s h st st' :
  env_ok (mkEnv (arc_new s h).2 st') → heap_ok h → interned s (mkEnv h st) (next_arc h) (mkEnv (arc_new s h).2 st').
Proof.
  intros Hok Hh. split_and!; [done| |by apply arc_new_keeps]. exists s. split; [apply lookup_insert_eq|done].
Qed.

Lemma shard_ok_put st h i shard key b b' :
  shard_ok st h i shard → entries shard !! key = Some b → bucket_ok (max_collisions_per_key st) h key b' →
  shard_ok st h i {| entries := <[key := b']> (entries shard); insertion_order := insertion_order shard |}.
Proof.
  intros (Hz & [Hnd Hq] & Hb) Hk Hb'. split_and!; simpl.
  - by rewrite map_size_insert_Some.
  - split; [done|]. intros k. rewrite Hq, lookup_insert_is_Some. destruct (decide (key = k)) as [->|]; naive_solver.
  - intros k b0 [[-> <-]|[_ H]]%lookup_insert_Some; [|by apply Hb]. split; [by apply (Hb k b)|done].
Qed.

Lemma bucket_ok_push max h key b s :
  payload_ok key s → bucket_ok max h key b → (length b < max)%nat → bucket_ok max (arc_new s h).2 key (push b (next_arc h)).
Proof.
  intros Hs Hb Hlt. apply (bucket_ok_later _ _ _ _ _ (heap_later_new s h)) in Hb as [_ Hb]. unfold push.
  split; [rewrite length_app; simpl; lia|].
  intros l [Hl%Hb| ->%list_elem_of_singleton]%elem_of_app; [done|]. simpl. split; [lia|]. intros s'.
  rewrite lookup_insert_eq. by intros [= <-].
Qed.

Section intern.
Context (lost : gset nat) (key : InternKey) (s : ChunkSnapshot) (st : SharedChunkStore) (h : Heap) (i : nat) (shard : StoreShard).
Hypothesis Henv : env_ok (mkEnv h st).
Hypothesis Hi : shards st !! i = Some shard.
Hypothesis Hkey : shard_index (length (shards st)) key = i.
Hypothesis Hs : payload_ok key s.

Lemma intern_known_spec bucket :
  entries shard !! key = Some bucket →
  let '(l, (st', h')) := intern_known lost i shard key bucket s st h in
  interned s (mkEnv h st) l (mkEnv h' st').
Proof.
  intros Hb. destruct Henv as (Hh & Hl & Hshards). pose proof (Hshards i shard Hi) as Hshard.
  assert (bucket_ok (max_collisions_per_key st) h key (filter (λ l, strong h l = true) bucket)) as Hb'.
  { eapply bucket_ok_sub; [by apply Hshard|]. apply sublist_submseteq, sublist_filter. }
  unfold intern_known. set (bucket' := filter (λ l, strong h l = true) bucket) in *.
  destruct (find_candidate lost h s bucket') as [l|] eqn:Hf.
  - apply find_candidate_Some in Hf as (_ & c & Hc & Heq). split_and!; [|exists c; by eauto using snapshot_eq_sim|done].
    by eapply env_ok_set_shard, shard_ok_put.
  - assert (env_ok (mkEnv (arc_new s h).2 st)) as Henv'.
    { eapply env_ok_later; [apply heap_later_new|by apply heap_ok_new|done]. }
    pose proof (proj2 (proj2 Henv') i shard Hi) as Hshard'. simpl.
    destruct (Nat.ltb_spec (length bucket') (max_collisions_per_key st)); apply interned_new; try done.
    + by eapply env_ok_set_shard, shard_ok_put, bucket_ok_push.
    + apply env_ok_set_counters. eapply env_ok_set_shard, shard_ok_put; [done..|].
      by eapply bucket_ok_later; [apply heap_later_new|].
Qed.

Lemma intern_new_spec :
  entries shard !! key = None →
  let '(l, (st', h')) := intern_new i shard key s st h in
  interned s (mkEnv h st) l (mkEnv h' st').
Proof.
  intros Hnone. destruct Henv as (Hh & Hl & Hshards). destruct (Hshards i shard Hi) as (Hz & Hq & Hb).
  unfold intern_new. pose proof (evict_spec _ _ _ (evictions st) (proj1 (proj2 Hl)) Hz Hq) as Hev.
  destruct (evict _ _ _ _) as [shard' evicted]. simpl in Hev. destruct Hev as (Hz' & Hq' & Hsub). simpl.
  apply (interned_new s h); [|done]. apply env_ok_set_counters, env_ok_set_shard.
  { eapply env_ok_later; [apply (heap_later_new s)|by apply heap_ok_new|done]. }
  assert (entries shard' !! key = None) as Hnone'.
  { destruct (entries shard' !! key) eqn:Hk; [|done]. by eapply lookup_weaken in Hk; [rewrite Hnone in Hk|]. }
  split_and!; simpl.
  - rewrite map_size_insert_None by done. lia.
  - by apply queue_push.
  - intros k b [[<- <-]|[_ Hk]]%lookup_insert_Some.
    + split; [done|]. apply (bucket_ok_push _ h key []); [done| |by apply Hl]. split; [simpl; lia|]. by intros l ?%not_elem_of_nil.
    + destruct (Hb k b) as [? Hbk]; [by eapply lookup_weaken|]. split; [done|].
      eapply bucket_ok_later; [apply (heap_later_new s)|done].
Qed.
End intern.

(** ** Pruning *)

Lemma prune_shard_ok st h i shard : shard_ok st h i shard → shard_ok st h i (prune_shard h shard).
Proof.
  intros (Hz & [Hnd Hq] & Hb). unfold prune_shard. set (es := omap (prune_bucket h) (entries shard)).
  assert (∀ k, is_Some (es !! k) → is_Some (entries shard !! k)) as Hsub.
  { intros k [b Hk]. unfold es in Hk. rewrite lookup_omap in Hk. apply bind_Some in Hk as (b' & Hk & _). by eexists. }
  split_and!; simpl.
  - etrans; [|exact Hz]. rewrite <- !size_dom. apply subseteq_size. intros k. rewrite !elem_of_dom. apply Hsub.
  - split; [by apply NoDup_filter|]. intros k. rewrite list_elem_of_filter, Hq. naive_solver.
  - intros k b Hk. unfold es in Hk. rewrite lookup_omap in Hk. apply bind_Some in Hk as (b' & Hk & Hb').
    destruct (Hb k b' Hk) as [Hi Hbk]. split; [done|]. eapply bucket_ok_sub; [exact Hbk|].
    unfold prune_bucket in Hb'. destruct (filter _ b') as [|l f] eqn:Hf; [done|]. injection Hb' as <-. rewrite <- Hf.
    apply sublist_submseteq, sublist_filter.
Qed.

Lemma env_ok_prune env : env_ok env → env_ok (prune env).
Proof.
  intros (Hh & (? & ? & ?) & Hs). unfold env_ok, limits_ok, prune in *. simpl. rewrite length_map. split_and!; [done..|].
  intros i shard Hi. rewrite list_lookup_fmap in Hi. apply fmap_Some in Hi as (shard0 & Hi & ->).
  pose proof (prune_shard_ok _ _ _ _ (Hs i shard0 Hi)) as Hp. unfold shard_ok in *. simpl. by rewrite length_map.
Qed.

(** ** The contract of interning

    What a world needs to know about where its payloads come from.  [check]
    is the error the interner may return for a snapshot. *)

Class Interner (intern : gset nat → ChunkSnapshot → M Env MineRiderError nat)
    (check : ChunkSnapshot → result MineRiderError unit) : Prop :=
  interner_spec lost s env : env_ok env →
    match intern lost s env with
    | (Ok l, env') => check s = Ok tt ∧ interned s env l env'
    | (Err e, env') => check s = Err e ∧ env' = env
    end.

(** [Arc::new] without a store. *)
Definition private_intern (lost : gset nat) (s : ChunkSnapshot) : M Env MineRiderError nat := λ env,
  let '(l, h) := arc_new s (heap env) in (Ok l, mkEnv h (store env)).

#[export] Instance private_interner : Interner private_intern (λ _, Ok tt).
Proof.
  intros lost s [h st] Hok. simpl. split; [done|]. apply (interned_new s h); [|by apply Hok].
  eapply env_ok_later; [apply (heap_later_new s)|by apply heap_ok_new, Hok|done].
Qed.

Lemma env_shard env key :
  env_ok env → let i := shard_index (length (shards (store env))) key in
  shards (store env) !! i = Some (default shard_default (shards (store env) !! i)).
Proof.
  intros (_ & Hl & _). destruct (lookup_lt_is_Some_2 (shards (store env)) (shard_index (length (shards (store env))) key)) as [sh Hsh].
  { by apply shard_index_lt, Hl. }
  simpl. by rewrite Hsh.
Qed.

#[export] Instance store_interner scope : Interner (store_intern scope) fingerprint_check.
Proof.
  intros lost s env Hok. unfold store_intern, fingerprint_check. destruct (fingerprint s) as [fp|e] eqn:Hfp; [|done]. simpl.
  unfold intern_with_fingerprint. set (key := mkKey scope (chunk_x s) (chunk_z s) fp). pose proof (env_shard env key Hok) as Hsh.
  simpl in Hsh. set (i := shard_index _ key) in *. set (shard := default shard_default _) in *.
  assert (payload_ok key s) as Hs by done. destruct env as [h st]. simpl in *. destruct (entries shard !! key) as [bucket|] eqn:He.
  - pose proof (intern_known_spec lost key s st h i shard Hok Hsh Hs bucket He) as Hi.
    destruct (intern_known _ _ _ _ _ _ _ _) as [l [st' h']]. by split.
  - pose proof (intern_new_spec key s st h i shard Hok Hsh eq_refl Hs He) as Hi.
    destruct (intern_new _ _ _ _ _ _) as [l [st' h']]. by split.
Qed.

(** ** Sharing *)

Lemma filter_strong_all h b : Forall (λ l, strong h l = true) b → filter (λ l, strong h l = true) b = b.
Proof. induction 1 as [|l b Hl HF IH]; [done|]. rewrite filter_cons_True by done. by rewrite IH. Qed.

Lemma filter_strong_Forall h b : Forall (λ l, strong h l = true) (filter (λ l, strong h l = true) b).
Proof. apply Forall_forall. by intros l [? _]%list_elem_of_filter. Qed.

(** A bucket whose candidate is found is left as it is. *)
Lemma intern_hit lost scope s fp st h shard b l :
  let key := mkKey scope (chunk_x s) (chunk_z s) fp in
  shards st !! shard_index (length (shards st)) key = Some shard → entries shard !! key = Some b →
  Forall (λ l, strong h l = true) b → find_candidate lost h s b = Some l →
  intern_with_fingerprint lost scope s fp st h = (l, (st, h)).
Proof.
  intros key Hsh Hb HF Hf. unfold intern_with_fingerprint. fold key. rewrite Hsh. simpl. rewrite Hb.
  unfold intern_known. rewrite filter_strong_all, Hf by done. do 2 f_equal.
  destruct st as [shs mk mc ev un], shard as [es order]. unfold set_shard. simpl in *. f_equal.
  rewrite insert_id by done. by rewrite list_insert_id.
Qed.

(** What a call that caches its payload leaves in the table. *)
Definition cached (scope : WorldScope) (s : ChunkSnapshot) (fp : Z) (st : SharedChunkStore) (h : Heap) (l : nat) : Prop :=
  let key := mkKey scope (chunk_x s) (chunk_z s) fp in
  ∃ shard b, shards st !! shard_index (length (shards st)) key = Some shard ∧ entries shard !! key = Some b
  ∧ Forall (λ l, strong h l = true) b ∧ find_candidate ∅ h s b = Some l.

Lemma strong_new s h l : heap_ok h → strong h l = true → strong (arc_new s h).2 l = true.
Proof.
  unfold strong. rewrite !bool_decide_eq_true. intros Hh Hl. destruct Hl as [c Hc].
  exists c. by apply arc_new_keeps.
Qed.

Lemma upgrade_empty h l : upgrade ∅ h l = live h !! l.
Proof. unfold upgrade. rewrite bool_decide_false; [done|set_solver]. Qed.

Lemma find_candidate_push s h b :
  heap_ok h → Forall (λ l, strong h l = true) b → find_candidate ∅ h s b = None → snapshot_eq s s = true →
  find_candidate ∅ (arc_new s h).2 s (push b (next_arc h)) = Some (next_arc h).
Proof.
  intros Hh HF Hf Hs. unfold push. induction HF as [|l b Hl HF IH]; simpl in *.
  - rewrite upgrade_empty. simpl. by rewrite lookup_insert_eq, Hs.
  - apply bool_decide_eq_true in Hl as [c Hc]. rewrite upgrade_empty in *. simpl in *.
    rewrite lookup_insert_ne by (assert (l < next_arc h)%nat by (apply Hh; by eexists); lia).
    rewrite Hc in *. destruct (snapshot_eq c s); [done|]. by apply IH.
Qed.

Lemma set_shard_lookup st i shard sh : shards st !! i = Some sh → shards (set_shard i shard st) !! i = Some shard.
Proof. intros Hi. simpl. apply list_lookup_insert_eq. by eapply lookup_lt_Some. Qed.

Lemma bump_neq z : in_u 64 z → bump z ≠ z.
Proof.
  unfold bump, wrap, in_u. intros Hz Heq. destruct (decide (z + 1 = 2 ^ 64)) as [He|].
  - rewrite He, Z_mod_same_full in Heq. lia.
  - rewrite Z.mod_small in Heq; lia.
Qed.

Lemma intern_caches scope s fp st h :
  env_ok (mkEnv h st) → snapshot_eq s s = true →
  let '(l, (st', h')) := intern_with_fingerprint ∅ scope s fp st h in
  uncached_collision_payloads st' = uncached_collision_payloads st → in_u 64 (uncached_collision_payloads st) →
  cached scope s fp st' h' l.
Proof.
  intros Hok Hs. unfold intern_with_fingerprint. set (key := mkKey scope (chunk_x s) (chunk_z s) fp).
  pose proof (env_shard _ key Hok) as Hsh. simpl in Hsh. set (i := shard_index _ key) in *. set (shard := default shard_default _) in *.
  assert (heap_ok h) as Hh by apply Hok. destruct (entries shard !! key) as [bucket|] eqn:He.
  - unfold intern_known. pose proof (filter_strong_Forall h bucket) as HF. set (b := filter _ bucket) in *.
    destruct (find_candidate ∅ h s b) as [l|] eqn:Hf.
    + intros _ _. eexists _, b. split_and!; [simpl; rewrite length_insert; by eapply set_shard_lookup|apply lookup_insert_eq|done..].
    + simpl. destruct (length b <? max_collisions_per_key st)%nat.
      * intros _ _. eexists _, (push b (next_arc h)).
        split_and!; [simpl; rewrite length_insert; by eapply set_shard_lookup|apply lookup_insert_eq| |by apply find_candidate_push].
        apply Forall_app. split; [eapply Forall_impl; [exact HF|]; intros l Hl; by apply strong_new|].
        apply Forall_singleton. apply bool_decide_eq_true. exists s. apply lookup_insert_eq.
      * intros Hun Hr. by apply bump_neq in Hun.
  - unfold intern_new. destruct (evict _ _ _ _) as [shard' ev']. simpl. intros _ _. eexists _, [next_arc h].
    split_and!; [simpl; rewrite length_insert; by eapply set_shard_lookup|apply lookup_insert_eq| |].
    + apply Forall_singleton. apply bool_decide_eq_true. exists s. apply lookup_insert_eq.
    + by apply (find_candidate_push s h []).
Qed.

(** Sharing.  When a call caches its payload (no collision overflow) and
    the snapshot equals itself (no NaN in its NBT), interning the same
    snapshot again, for any client of the scope, returns the same [Arc] and
    changes neither the table nor the heap. *)
Theorem intern_shares scope s env l env' :
  env_ok env → in_u 64 (uncached_collision_payloads (store env)) → snapshot_eq s s = true →
  store_intern scope ∅ s env = (Ok l, env') →
  uncached_collision_payloads (store env') = uncached_collision_payloads (store env) →
  store_intern scope ∅ s env' = (Ok l, env').
Proof.
  intros Hok Hr Hs. unfold store_intern. destruct (fingerprint s) as [fp|e]; [|done]. destruct env as [h st]. simpl in *.
  pose proof (intern_caches scope s fp st h Hok Hs) as Hc.
  destruct (intern_with_fingerprint ∅ scope s fp st h) as [l0 [st1 h1]]. intros [= <- <-] Hun. simpl in *.
  destruct (Hc Hun Hr) as (shard & b & Hsh & Hb & HF & Hf). by rewrite (intern_hit ∅ scope s fp st1 h1 shard b l0).
Qed.

(** A key the store has not seen.  Its payload is a new allocation filed
    under it; a full shard gives up its oldest key for it, and only that one,
    counting one eviction; other shards are untouched. *)
Theorem intern_evicts_oldest lost scope s fp st h :
  env_ok (mkEnv h st) →
  let key := mkKey scope (chunk_x s) (chunk_z s) fp in
  let i := shard_index (length (shards st)) key in
  let shard := default shard_default (shards st !! i) in
  let full := bool_decide (max_keys_per_shard st ≤ size (entries shard))%nat in
  entries shard !! key = None →
  let '(l, (st', h')) := intern_with_fingerprint lost scope s fp st h in
  l = next_arc h ∧ live h' = <[l := s]> (live h)
  ∧ (∃ shard', shards st' = <[i := shard']> (shards st)
     ∧ insertion_order shard' = (if full then tail (insertion_order shard) else insertion_order shard) ++ [key]
     ∧ ∀ k, entries shard' !! k =
         if bool_decide (k = key) then Some [l]
         else if full && bool_decide (head (insertion_order shard) = Some k) then None
         else entries shard !! k)
  ∧ evictions st' = if full then bump (evictions st) else evictions st.
Proof.
  intros Hok key i shard full Hnone. pose proof (env_shard _ key Hok) as Hsh. simpl in Hsh. fold i shard in Hsh.
  destruct Hok as (_ & (_ & Hmax & _) & Hshards). destruct (Hshards i shard Hsh) as (Hz & Hq & _).
  unfold intern_with_fingerprint. fold key i shard. rewrite Hnone. unfold intern_new. rewrite evict_exact by done. subst full.
  pose proof (queue_size _ _ Hq) as Hlen. destruct (insertion_order shard) as [|oldest order] eqn:Ho; simpl in *.
  { rewrite bool_decide_false by lia. split_and!; [done..| |done]. eexists. split_and!; [done..|]. intros k. simpl.
    case_bool_decide as Hk; [subst k; apply lookup_insert_eq|by apply lookup_insert_ne]. }
  destruct (Nat.ltb_spec (size (entries shard)) (max_keys_per_shard st)) as [Hlt|Hge].
  - rewrite bool_decide_false by lia. split_and!; [done..| |done]. eexists. split_and!; [done..|]. intros k. simpl.
    case_bool_decide as Hk; [subst k; apply lookup_insert_eq|by apply lookup_insert_ne].
  - rewrite bool_decide_true by lia. split_and!; [done..| |done]. eexists. split_and!; [done..|]. intros k. simpl.
    case_bool_decide as Hk; [subst k; apply lookup_insert_eq|rewrite lookup_insert_ne by done].
    case_bool_decide as Hold; [simplify_eq; apply lookup_delete_eq|by apply lookup_delete_ne; congruence].
Qed.

(** A fresh store. *)
Lemma env_ok_new n mk mc :
  (0 < n)%nat → (0 < mk)%nat → (0 < mc)%nat → env_ok (mkEnv (mkHeap ∅ 0) (with_limits n mk mc)).
Proof.
  intros Hn Hk Hc. split_and!; [|split_and!; simpl; [by rewrite length_replicate|done..]|].
  { intros l [c Hl]. simpl in Hl. by apply lookup_empty_Some in Hl. }
  simpl. intros i shard [-> _]%lookup_replicate. split_and!; simpl; [rewrite map_size_empty; lia|split; [constructor|]|].
  - intros k. rewrite lookup_empty. split; [by intros ?%not_elem_of_nil|by intros []].
  - intros k b ?%lookup_empty_Some. done.
Qed.

(** An air section and a chunk made of it. *)
Definition air_chunk (x z : Z) : ChunkSnapshot :=
  mkSnapshot x z [mkSection 0 (Single 0) (Single 0)] (NbtCompound []) [] (mkLight [] [] [] [] [] []).

Definition test_scope : WorldScope :=
  mkScope (server_new "Example.Test." 25565) (mkWorldIdentity "minecraft:overworld" 7)
    (mkDimensionIdentity "minecraft:overworld" 0 16 16 f64_one false false).

Definition test_env : Env := mkEnv (mkHeap ∅ 0) (with_limits 1 1 1).

(** The store after one call. *)
Definition test_env1 : Env := (store_intern test_scope ∅ (air_chunk 2 (-3)) test_env).2.

Lemma test_env1_eq : store_intern test_scope ∅ (air_chunk 2 (-3)) test_env = (Ok 0%nat, test_env1).
Proof.
  assert ((store_intern test_scope ∅ (air_chunk 2 (-3)) test_env).1 = Ok 0%nat) as Hl by (by vm_compute).
  unfold test_env1. rewrite <- Hl. apply surjective_pairing.
Qed.

Lemma test_env1_ok : env_ok test_env1.
Proof.
  pose proof (store_interner test_scope ∅ (air_chunk 2 (-3)) test_env (env_ok_new 1 1 1 ltac:(lia) ltac:(lia) ltac:(lia))) as Hi.
  rewrite test_env1_eq in Hi. apply Hi.
Qed.

Lemma intern_shares_witness : store_intern test_scope ∅ (air_chunk 2 (-3)) test_env1 = (Ok 0%nat, test_env1).
Proof.
  apply (intern_shares test_scope (air_chunk 2 (-3)) test_env 0 test_env1);
    [apply env_ok_new; lia|by vm_compute|by vm_compute|exact test_env1_eq|by vm_compute].
Defined.

Lemma intern_evicts_oldest_witness :
  let '(l, (st', _)) := intern_with_fingerprint ∅ test_scope (air_chunk 5 5) 9 (store test_env1) (heap test_env1) in
  l = 1%nat ∧ evictions st' = 1.
Proof.
  pose proof (intern_evicts_oldest ∅ test_scope (air_chunk 5 5) 9 (store test_env1) (heap test_env1) test_env1_ok
    ltac:(by vm_compute)) as Ht.
  destruct (intern_with_fingerprint _ _ _ _ _ _) as [l [st' h']]. destruct Ht as (-> & _ & _ & ->). by vm_compute.
Defined.
