(* ===== verification/World.v ===== *)
(** * The client world

    The storage half of [src/minecraft/world.rs]: one client's map from chunk
    positions to payloads, the packets that change it, and block lookups.  A
    payload is a location of the [Heap] of [ChunkStore]; with a shared store
    several clients hold the same one. *)

From S2P Require Import Prelude Machine Reader Nbt PacketTypes PlayPackets Errors Palette Dimension Chunk ChunkStore.

Local Open Scope Z_scope.

(** ** State *)

Record World : Type := mkWorld {
  dimension : DimensionType;
  chunks : gmap (Z * Z) nat;
  shared : option WorldScope;
}.

Definition world_new (d : DimensionType) : World := mkWorld d ∅ None.
Definition with_shared_store (d : DimensionType) (scope : WorldScope) : World := mkWorld d ∅ (Some scope).

(** A world and the payloads and table it shares with other clients. *)
Abbreviation WorldM := (M (World * Env) MineRiderError).

(** The payload behind the [Arc] of a loaded chunk. *)
Definition chunk_at (w : World) (env : Env) (pos : Z * Z) : option ChunkSnapshot :=
  l ← chunks w !! pos; live (heap env) !! l.

Definition put_chunk (pos : Z * Z) (l : nat) (w : World) : World :=
  mkWorld (dimension w) (<[pos := l]> (chunks w)) (shared w).

(** [World::intern]. *)
Definition world_intern (lost : gset nat) (s : ChunkSnapshot) : WorldM nat := λ '(w, env),
  let '(r, env) :=
    match shared w with
    | Some scope => store_intern scope lost s env
    | None => private_intern lost s env
    end in
  (r, (w, env)).

(** [let next = self.intern(next)?; self.chunks.insert(position, next)]. *)
Definition store_chunk (lost : gset nat) (pos : Z * Z) (s : ChunkSnapshot) : WorldM unit :=
  let* l := world_intern lost s in
  modify (λ '(w, env), (put_chunk pos l w, env)).

(** The update of a loaded chunk: clone the payload, change the clone, intern
    it, put it in place of the old one. *)
Definition update_chunk (lost : gset nat) (pos : Z * Z)
    (change : ChunkSnapshot → result MineRiderError ChunkSnapshot) : WorldM unit := λ '(w, env),
  match chunk_at w env pos with
  | None => (Err Protocol, (w, env))
  | Some current =>
      match change current with
      | Err e => (Err e, (w, env))
      | Ok next => store_chunk lost pos next (w, env)
      end
  end.

(** ** Whole chunks *)

Definition insert_chunk (lost : gset nat) (packet : PacketMapChunk) : WorldM unit := λ '(w, env),
  match snapshot_decode packet (Z.to_nat (section_count (dimension w))) with
  | Err e => (Err e, (w, env))
  | Ok chunk => store_chunk lost (chunk_x chunk, chunk_z chunk) chunk (w, env)
  end.

Definition unload_chunk (x z : Z) : WorldM unit :=
  modify (λ '(w, env), (mkWorld (dimension w) (delete (x, z) (chunks w)) (shared w), env)).

Definition has_chunk (x z : Z) (w : World) : bool := bool_decide (is_Some (chunks w !! (x, z))).

(** ** Blocks *)

(** [div_euclid] and [rem_euclid] by 16 are floor division and its
    remainder. *)
Definition chunk_pos (x z : Z) : Z * Z := (x / 16, z / 16).

Definition block_index (x y z : Z) : nat := Z.to_nat ((y `mod` 16 * 16 + z `mod` 16) * 16 + x `mod` 16).

(** [y - self.dimension.min_y] and [min_y + height] are [i32] arithmetic. *)
Definition section_index (d : DimensionType) (y : Z) : Z := swrap 32 (y - min_y d) / 16.

(** [block_state] on the chunk of the position. *)
Definition snapshot_block (s : ChunkSnapshot) (d : DimensionType) (x y z : Z) : option Z :=
  let i := section_index d y in
  if i <? 0 then None
  else section ← sections s !! Z.to_nat i; container_get (block_states section) (block_index x y z).

Definition block_state (w : World) (env : Env) (x y z : Z) : option Z :=
  let d := dimension w in
  if (y <? min_y d) || (swrap 32 (min_y d + height d) <=? y) then None
  else chunk ← chunk_at w env (chunk_pos x z); snapshot_block chunk d x y z.

Definition set_sections (ss : list ChunkSection) (s : ChunkSnapshot) : ChunkSnapshot :=
  mkSnapshot (chunk_x s) (chunk_z s) ss (heightmaps s) (block_entities s) (light s).

(** The change [set_block_state] makes to its chunk.  Only the addressed
    section is replaced; its count of non-air blocks is left as it was. *)
Definition set_block (d : DimensionType) (x y z state : Z) (s : ChunkSnapshot) : result MineRiderError ChunkSnapshot :=
  let i := section_index d y in
  if (i <? 0) || (Z.of_nat (length (sections s)) <=? i) then Err Protocol
  else match sections s !! Z.to_nat i with
       | None => Err Protocol
       | Some section =>
           let? states := materialize_and_set BLOCKS_PER_SECTION (block_index x y z) state (block_states section) in
           Ok (set_sections (<[Z.to_nat i := mkSection (non_air_blocks section) states (biomes section)]> (sections s)) s)
       end.

Definition set_block_state (lost : gset nat) (x y z state : Z) : WorldM unit := λ '(w, env),
  update_chunk lost (chunk_pos x z) (set_block (dimension w) x y z state) (w, env).

(** [packet.r#type as u32]. *)
Definition apply_block_change (lost : gset nat) (p : PacketBlockChange) : WorldM unit :=
  let loc := PacketBlockChange_location p in
  set_block_state lost (pos_x loc) (pos_y loc) (pos_z loc) (wrap 32 (PacketBlockChange_type p)).

Record PacketMultiBlockChange : Type := mkMultiBlockChange {
  mb_x : Z;
  mb_z : Z;
  mb_y : Z;
  records : list Z;
}.

(** One record; the coordinates are [i32] arithmetic. *)
Definition apply_record (lost : gset nat) (p : PacketMultiBlockChange) (record : Z) : WorldM unit :=
  if record <? 0 then raise Protocol
  else
    let state := Z.shiftr record 12 in
    let local := Z.land record 0xfff in
    let x := swrap 32 (swrap 32 (mb_x p * 16) + Z.land (Z.shiftr local 8) 0xf) in
    let z := swrap 32 (swrap 32 (mb_z p * 16) + Z.land (Z.shiftr local 4) 0xf) in
    let y := swrap 32 (swrap 32 (mb_y p * 16) + Z.land local 0xf) in
    set_block_state lost x y z state.

Definition apply_multi_block_change (lost : gset nat) (p : PacketMultiBlockChange) : WorldM unit :=
  iter_m (apply_record lost p) (records p).

(** ** Light and block entities *)

Definition set_light (p : PacketUpdateLight) (s : ChunkSnapshot) : ChunkSnapshot :=
  mkSnapshot (chunk_x s) (chunk_z s) (sections s) (heightmaps s) (block_entities s)
    {| sky_mask := PacketUpdateLight_sky_light_mask p;
       block_mask := PacketUpdateLight_block_light_mask p;
       empty_sky_mask := PacketUpdateLight_empty_sky_light_mask p;
       empty_block_mask := PacketUpdateLight_empty_block_light_mask p;
       sky_arrays := map (map byte_of_Z) (PacketUpdateLight_sky_light p);
       block_arrays := map (map byte_of_Z) (PacketUpdateLight_block_light p) |}.

Definition apply_light_update (lost : gset nat) (p : PacketUpdateLight) : WorldM unit :=
  update_chunk lost (PacketUpdateLight_chunk_x p, PacketUpdateLight_chunk_z p) (λ s, Ok (set_light p s)).

Record PacketTileEntityData : Type := mkTileEntityData {
  te_location : Position;
  te_action : Z;
  te_nbt_data : option Nbt;
}.

Definition entity_at (x z y : Z) (e : BlockEntitySnapshot) : bool :=
  (local_x e =? x) && (local_z e =? z) && (entity_y e =? y).

(** The list after the update: replace or remove the first entity at the
    position, or append. *)
Definition update_entities (p : PacketTileEntityData) (entities : list BlockEntitySnapshot) : list BlockEntitySnapshot :=
  let loc := te_location p in
  let x := pos_x loc `mod` 16 in
  let z := pos_z loc `mod` 16 in
  let existing := fst <$> list_find (λ e, entity_at x z (pos_y loc) e = true) entities in
  let new := mkBlockEntity x z (pos_y loc) (te_action p) in
  match te_nbt_data p, existing with
  | Some nbt, Some index => <[index := new (Some nbt)]> entities
  | Some nbt, None => push entities (new (Some nbt))
  | None, Some index => delete index entities
  | None, None => entities
  end.

Definition set_entities (p : PacketTileEntityData) (s : ChunkSnapshot) : ChunkSnapshot :=
  mkSnapshot (chunk_x s) (chunk_z s) (sections s) (heightmaps s) (update_entities p (block_entities s)) (light s).

Definition apply_block_entity_update (lost : gset nat) (p : PacketTileEntityData) : WorldM unit :=
  update_chunk lost (chunk_pos (pos_x (te_location p)) (pos_z (te_location p))) (λ s, Ok (set_entities p s)).

(** ** Operations *)

(** What the play loop applies to a world. *)
Inductive WorldOp : Type :=
  | OpMapChunk (p : PacketMapChunk)
  | OpUnloadChunk (x z : Z)
  | OpBlockChange (p : PacketBlockChange)
  | OpMultiBlockChange (p : PacketMultiBlockChange)
  | OpUpdateLight (p : PacketUpdateLight)
  | OpTileEntityData (p : PacketTileEntityData).

Definition apply_op (lost : gset nat) (op : WorldOp) : WorldM unit :=
  match op with
  | OpMapChunk p => insert_chunk lost p
  | OpUnloadChunk x z => unload_chunk x z
  | OpBlockChange p => apply_block_change lost p
  | OpMultiBlockChange p => apply_multi_block_change lost p
  | OpUpdateLight p => apply_light_update lost p
  | OpTileEntityData p => apply_block_entity_update lost p
  end.

(** ** Well-formed worlds *)

(** A dimension whose upper bound is an [i32] ([min_y + height] does not
    wrap). *)
Definition bounds_ok (d : DimensionType) : Prop := dimension_ok d ∧ in_i 32 (min_y d + height d).

Definition chunk_ok (d : DimensionType) (pos : Z * Z) (s : ChunkSnapshot) : Prop :=
  (chunk_x s, chunk_z s) = pos ∧ Z.of_nat (length (sections s)) = section_count d ∧ Forall section_ok (sections s).

(** Every pointer of the world is live and its payload fits the dimension. *)
Definition world_ok (w : World) (env : Env) : Prop :=
  ∀ pos l, chunks w !! pos = Some l → ∃ s, live (heap env) !! l = Some s ∧ chunk_ok (dimension w) pos s.

Lemma chunk_ok_sim d pos a b : snapshot_sim a b → chunk_ok d pos b → chunk_ok d pos a.
Proof. intros (Hx & Hz & Hs & _) (Hp & Hl & HF). unfold chunk_ok. by rewrite Hx, Hz, Hs. Qed.

Lemma snapshot_decode_ok d p s :
  0 ≤ section_count d → snapshot_decode p (Z.to_nat (section_count d)) = Ok s → chunk_ok d (chunk_x s, chunk_z s) s.
Proof.
  intros Hd (ss & Hss & [= <-])%rbind_Ok_inv. apply decode_sections_ok in Hss as [Hl HF]. split_and!; simpl; [done|lia|done].
Qed.

(** Whichever interner the world uses. *)
Definition world_check (w : World) (s : ChunkSnapshot) : result MineRiderError unit :=
  match shared w with Some _ => fingerprint_check s | None => Ok tt end.

Lemma world_intern_spec lost s w env :
  env_ok env →
  match world_intern lost s (w, env) with
  | (Ok l, (w', env')) => w' = w ∧ world_check w s = Ok tt ∧ interned s env l env'
  | (Err e, (w', env')) => w' = w ∧ world_check w s = Err e ∧ env' = env
  end.
Proof.
  intros Hok. unfold world_intern, world_check. destruct (shared w) as [scope|].
  - pose proof (interner_spec (intern := store_intern scope) lost s env Hok) as H.
    by destruct (store_intern scope lost s env) as [[l|e] env'].
  - pose proof (interner_spec (intern := private_intern) lost s env Hok) as H.
    by destruct (private_intern lost s env) as [[l|e] env'].
Qed.

(** Live payloads keep their content. *)
Definition keeps (env env' : Env) : Prop :=
  ∀ l c, live (heap env) !! l = Some c → live (heap env') !! l = Some c.

#[export] Instance keeps_preorder : PreOrder keeps.
Proof. split; [by intros env l c|]. intros a b c Hab Hbc l s Hl. by apply Hbc, Hab. Qed.

Lemma world_ok_keeps w env env' : keeps env env' → world_ok w env → world_ok w env'.
Proof. intros Hk Hw pos l Hl. destruct (Hw pos l Hl) as (s & Hs & Hok). exists s. split; [by apply Hk|done]. Qed.

Lemma chunk_at_keeps w env env' pos : keeps env env' → world_ok w env → chunk_at w env' pos = chunk_at w env pos.
Proof.
  intros Hk Hw. unfold chunk_at. destruct (chunks w !! pos) as [l|] eqn:Hl; [|done]. simpl.
  destruct (Hw pos l Hl) as (s & Hs & _). by rewrite Hs, (Hk l s).
Qed.

(** Storing a chunk: on success the position holds the snapshot or an equal
    one and every other position what it held; on an error nothing
    changes. *)
Lemma store_chunk_spec lost pos s w env :
  env_ok env → world_ok w env → chunk_ok (dimension w) pos s →
  match store_chunk lost pos s (w, env) with
  | (Ok _, (w', env')) =>
      world_check w s = Ok tt ∧ env_ok env' ∧ keeps env env' ∧ dimension w' = dimension w ∧ shared w' = shared w
      ∧ (∃ c, chunk_at w' env' pos = Some c ∧ snapshot_sim c s)
      ∧ (∀ pos', pos' ≠ pos → chunk_at w' env' pos' = chunk_at w env pos') ∧ world_ok w' env'
  | (Err e, (w', env')) => world_check w s = Err e ∧ w' = w ∧ env' = env
  end.
Proof.
  intros He Hw Hs. pose proof (world_intern_spec lost s w env He) as Hi. unfold store_chunk, bind.
  destruct (world_intern lost s (w, env)) as [[l|e] [w1 env1]]; [|naive_solver].
  destruct Hi as (-> & Hc & He' & (c & Hl & Hsim) & Hk). simpl. split_and!; try done.
  - exists c. split; [|done]. unfold chunk_at. simpl. rewrite lookup_insert_eq. done.
  - intros pos' Hne. rewrite <- (chunk_at_keeps w env env1) by done. unfold chunk_at. simpl. by rewrite lookup_insert_ne.
  - intros pos' l'. simpl. intros [[<- <-]|[_ Hl']]%lookup_insert_Some; [exists c; eauto using chunk_ok_sim|].
    destruct (Hw pos' l' Hl') as (s' & Hs' & Hok'). exists s'. split; [by apply Hk|done].
Qed.

(** A change of a chunk that keeps it well formed. *)
Definition good_change (d : DimensionType) (pos : Z * Z) (change : ChunkSnapshot → result MineRiderError ChunkSnapshot) : Prop :=
  ∀ s s', chunk_ok d pos s → change s = Ok s' → chunk_ok d pos s'.

Lemma chunk_at_ok w env pos s : world_ok w env → chunk_at w env pos = Some s → chunk_ok (dimension w) pos s.
Proof.
  intros Hw (l & Hl & Hs)%bind_Some. destruct (Hw pos l Hl) as (s' & Hs' & Hok). simpl in Hs. congruence.
Qed.

Lemma update_chunk_spec lost pos change w env :
  env_ok env → world_ok w env → good_change (dimension w) pos change →
  match update_chunk lost pos change (w, env) with
  | (Ok _, (w', env')) =>
      ∃ s s', chunk_at w env pos = Some s ∧ change s = Ok s' ∧ world_check w s' = Ok tt
      ∧ env_ok env' ∧ keeps env env' ∧ dimension w' = dimension w ∧ shared w' = shared w
      ∧ (∃ c, chunk_at w' env' pos = Some c ∧ snapshot_sim c s')
      ∧ (∀ pos', pos' ≠ pos → chunk_at w' env' pos' = chunk_at w env pos') ∧ world_ok w' env'
  | (Err e, (w', env')) =>
      w' = w ∧ env' = env
      ∧ match chunk_at w env pos with
        | None => e = Protocol
        | Some s => match change s with Err e' => e = e' | Ok s' => world_check w s' = Err e end
        end
  end.
Proof.
  intros He Hw Hgood. unfold update_chunk. destruct (chunk_at w env pos) as [s|] eqn:Hs; [|done].
  destruct (change s) as [s'|e] eqn:Hc; [|done]. pose proof (chunk_at_ok w env pos s Hw Hs) as Hok.
  pose proof (store_chunk_spec lost pos s' w env He Hw (Hgood s s' Hok Hc)) as Hst.
  destruct (store_chunk lost pos s' (w, env)) as [[u|e] [w' env']]; [|naive_solver]. exists s, s'. naive_solver.
Qed.

Lemma good_set_block d pos x y z state : in_u 32 state → good_change d pos (set_block d x y z state).
Proof.
  intros Hst s s' (Hp & Hl & HF). unfold set_block. case_match; [done|].
  destruct (sections s !! _) as [section|] eqn:Hsec; [|done]. intros (c & Hc & [= <-])%rbind_Ok_inv. pose proof (Forall_lookup_1 _ _ _ _ HF Hsec) as (Hna & Hbs & Hbi).
  apply materialize_and_set_spec in Hc as (Hc & _); [|done..].
  split_and!; simpl; [done|by rewrite length_insert|]. by apply Forall_insert.
Qed.

Lemma good_set_light d pos p : good_change d pos (λ s, Ok (set_light p s)).
Proof. by intros s s' Hok [= <-]. Qed.

Lemma good_set_entities d pos p : good_change d pos (λ s, Ok (set_entities p s)).
Proof. by intros s s' Hok [= <-]. Qed.

(** ** Every operation keeps a world well formed *)

(** Blocks of the section update are [i32]s, as decoded. *)
Definition op_fits (op : WorldOp) : Prop :=
  match op with OpMultiBlockChange p => Forall (in_i 32) (records p) | _ => True end.

Definition world_safe (m : WorldM unit) : Prop :=
  ∀ w env, env_ok env → world_ok w env →
    let '(_, (w', env')) := m (w, env) in env_ok env' ∧ dimension w' = dimension w ∧ world_ok w' env'.

Lemma update_chunk_safe lost pos change :
  (∀ d, good_change d pos (change d)) → world_safe (λ '(w, env), update_chunk lost pos (change (dimension w)) (w, env)).
Proof.
  intros Hgood w env He Hw. pose proof (update_chunk_spec lost pos _ w env He Hw (Hgood (dimension w))) as H.
  destruct (update_chunk _ _ _ _) as [[u|e] [w' env']]; [|by destruct H as (-> & -> & _)].
  destruct H as (s & s' & _ & _ & _ & ? & _ & ? & _ & _ & _ & ?). by split_and!.
Qed.

Lemma set_block_state_safe lost x y z state : in_u 32 state → world_safe (set_block_state lost x y z state).
Proof.
  intros Hs. apply (update_chunk_safe lost (chunk_pos x z) (λ d, set_block d x y z state)). intros d. by apply good_set_block.
Qed.

Lemma iter_safe {A} (m : A → WorldM unit) l : Forall (λ a, world_safe (m a)) l → world_safe (iter_m m l).
Proof.
  induction 1 as [|a l Ha Hl IH]; intros w env He Hw; simpl; [by split_and!|]. unfold bind.
  specialize (Ha w env He Hw). destruct (m a (w, env)) as [[u|e] [w1 env1]]; [|done]. destruct Ha as (He1 & Hd1 & Hw1).
  specialize (IH w1 env1 He1 Hw1). destruct (iter_m m l (w1, env1)) as [r [w2 env2]]. by rewrite <- Hd1.
Qed.

Lemma apply_op_safe lost op : op_fits op → world_safe (apply_op lost op).
Proof.
  destruct op as [p|x z|p|p|p|p]; simpl; intros Hfits.
  - intros w env He Hw. unfold insert_chunk. destruct (snapshot_decode _ _) as [s|e] eqn:Hs; [|by split_and!].
    apply snapshot_decode_ok in Hs; [|apply Z.mod_pos_bound; lia].
    pose proof (store_chunk_spec lost _ s w env He Hw Hs) as H.
    destruct (store_chunk _ _ _ _) as [[u|e] [w' env']]; [|by destruct H as (_ & -> & ->)].
    destruct H as (_ & ? & _ & ? & _ & _ & _ & ?). by split_and!.
  - intros w env He Hw. simpl. split_and!; [done..|]. intros pos l. cbn [chunks]. intros [_ Hl]%lookup_delete_Some. by apply Hw.
  - apply set_block_state_safe. apply wrap_range. lia.
  - apply iter_safe. apply (Forall_impl _ _ _ Hfits). intros record Hr. unfold apply_record.
    destruct (Z.ltb_spec record 0); [by intros w env He Hw|]. apply set_block_state_safe. unfold in_i, in_u in *.
    rewrite Z.shiftr_div_pow2 by lia. split; [apply Z.div_pos; lia|]. apply Z.div_lt_upper_bound; lia.
  - apply (update_chunk_safe lost _ (λ _ s, Ok (set_light p s))). intros d. apply good_set_light.
  - apply (update_chunk_safe lost _ (λ _ s, Ok (set_entities p s))). intros d. apply good_set_entities.
Qed.

(** ** Reading a block back *)

(** The index inside a section determines the local coordinates. *)
Lemma block_index_inj x y z x' y' z' :
  block_index x y z = block_index x' y' z' →
  x `mod` 16 = x' `mod` 16 ∧ y `mod` 16 = y' `mod` 16 ∧ z `mod` 16 = z' `mod` 16.
Proof.
  unfold block_index. intros Heq.
  pose proof (Z.mod_pos_bound x 16 ltac:(lia)). pose proof (Z.mod_pos_bound y 16 ltac:(lia)). pose proof (Z.mod_pos_bound z 16 ltac:(lia)).
  pose proof (Z.mod_pos_bound x' 16 ltac:(lia)). pose proof (Z.mod_pos_bound y' 16 ltac:(lia)). pose proof (Z.mod_pos_bound z' 16 ltac:(lia)).
  lia.
Qed.

Lemma block_index_lt x y z : (block_index x y z < BLOCKS_PER_SECTION)%nat.
Proof.
  unfold block_index, BLOCKS_PER_SECTION.
  pose proof (Z.mod_pos_bound x 16 ltac:(lia)). pose proof (Z.mod_pos_bound y 16 ltac:(lia)). pose proof (Z.mod_pos_bound z 16 ltac:(lia)).
  lia.
Qed.

(** Inside the bounds the section index is exact. *)
Lemma section_index_exact d y :
  bounds_ok d → min_y d ≤ y < min_y d + height d → section_index d y = (y - min_y d) / 16 ∧ 0 ≤ section_index d y < section_count d.
Proof.
  intros [(Hy & _ & n & Hn & Hh & Hs) Hb] Hin. unfold section_index. unfold in_i in *. rewrite swrap_small; [|lia|unfold in_i; lia].
  split; [done|]. rewrite Hs. split; [apply Z.div_pos; lia|]. apply Z.div_lt_upper_bound; lia.
Qed.

(** A section index in range comes from a height in range. *)
Lemma section_index_in_bounds d y :
  bounds_ok d → in_i 32 y → 0 ≤ section_index d y < section_count d → min_y d ≤ y < min_y d + height d.
Proof.
  intros [(Hy & _ & n & Hn & Hh & Hs) Hb] Hy' Hi. unfold section_index in Hi. rewrite Hs in Hi.
  assert (0 ≤ swrap 32 (y - min_y d) < 16 * n) as Hw.
  { pose proof (Z.div_mod (swrap 32 (y - min_y d)) 16 ltac:(lia)). pose proof (Z.mod_pos_bound (swrap 32 (y - min_y d)) 16 ltac:(lia)). lia. }
  unfold swrap in Hw. unfold in_i in *. change (2 ^ (32 - 1)) with 2147483648 in *. change (2 ^ 32) with 4294967296 in *.
  pose proof (Z.div_mod (y - min_y d + 2147483648) 4294967296 ltac:(lia)) as Hdm. lia.
Qed.

Lemma section_and_local d y y' :
  bounds_ok d → min_y d ≤ y < min_y d + height d → min_y d ≤ y' < min_y d + height d →
  section_index d y = section_index d y' → y `mod` 16 = y' `mod` 16 → y = y'.
Proof.
  intros Hb Hy Hy' Hi Hm. destruct (section_index_exact d y Hb Hy) as [E _]. destruct (section_index_exact d y' Hb Hy') as [E' _].
  rewrite E, E' in Hi. destruct Hb as [(_ & Hm0 & _) _].
  pose proof (Z.div_mod (y - min_y d) 16 ltac:(lia)) as D. pose proof (Z.div_mod (y' - min_y d) 16 ltac:(lia)) as D'.
  rewrite Zminus_mod, Hm0, Z.sub_0_r, Zmod_mod in D, D'. lia.
Qed.

(** What [set_block] does to the blocks of its chunk. *)
Lemma set_block_blocks d pos x y z state s s' x' y' z' :
  bounds_ok d → chunk_ok d pos s → in_u 32 state → in_i 32 y → set_block d x y z state s = Ok s' →
  min_y d ≤ y' < min_y d + height d → x / 16 = x' / 16 → z / 16 = z' / 16 →
  min_y d ≤ y < min_y d + height d
  ∧ snapshot_block s' d x' y' z' = if decide (x' = x ∧ y' = y ∧ z' = z) then Some state else snapshot_block s d x' y' z'.
Proof.
  intros Hb (_ & Hl & HF) Hst Hy. unfold set_block. destruct (_ || _) eqn:Hrange; [done|].
  apply orb_false_iff in Hrange as [H0%Z.ltb_ge H1%Z.leb_gt]. rewrite Hl in H1.
  assert (min_y d ≤ y < min_y d + height d) as Hin by by apply section_index_in_bounds.
  destruct (sections s !! _) as [section|] eqn:Hsec; [|done]. intros (c & Hc & [= <-])%rbind_Ok_inv Hy' Hx Hz. split; [done|].
  pose proof (Forall_lookup_1 _ _ _ _ HF Hsec) as (_ & Hbs & _).
  apply materialize_and_set_spec in Hc as (_ & _ & Hget); [|done..].
  destruct (section_index_exact d y' Hb Hy') as [_ Hi']. unfold snapshot_block. simpl. rewrite (proj2 (Z.ltb_ge _ _)) by lia.
  destruct (decide (section_index d y' = section_index d y)) as [Hsame|Hother].
  - rewrite Hsame, list_lookup_insert_eq, Hsec by (by eapply lookup_lt_Some). simpl. rewrite Hget by apply block_index_lt.
    destruct (decide (block_index x' y' z' = block_index x y z)) as [Hidx|Hidx].
    + apply block_index_inj in Hidx as (Hmx & Hmy & Hmz). rewrite decide_True; [done|].
      pose proof (Z.div_mod x 16 ltac:(lia)). pose proof (Z.div_mod x' 16 ltac:(lia)).
      pose proof (Z.div_mod z 16 ltac:(lia)). pose proof (Z.div_mod z' 16 ltac:(lia)).
      split_and!; [lia| |lia]. by apply (section_and_local d).
    + rewrite decide_False; [done|]. intros (-> & -> & ->). done.
  - rewrite list_lookup_insert_ne by lia. rewrite decide_False; [done|]. intros (_ & -> & _). done.
Qed.

Lemma block_state_in_bounds w env x y z :
  bounds_ok (dimension w) →
  block_state w env x y z =
    if decide (min_y (dimension w) ≤ y < min_y (dimension w) + height (dimension w))
    then chunk ← chunk_at w env (chunk_pos x z); snapshot_block chunk (dimension w) x y z else None.
Proof.
  intros [_ Hb]. unfold block_state. rewrite swrap_small by done.
  destruct (Z.ltb_spec y (min_y (dimension w))), (Z.leb_spec (min_y (dimension w) + height (dimension w)) y); simpl;
    case_decide; (done || lia).
Qed.

Lemma snapshot_block_sim a b d x y z : snapshot_sim a b → snapshot_block a d x y z = snapshot_block b d x y z.
Proof. intros (_ & _ & Hs & _). unfold snapshot_block. by rewrite Hs. Qed.

(** Why a block update is refused. *)
Definition unwritable (w : World) (env : Env) (x y z state : Z) : Prop :=
  let d := dimension w in
  match chunk_at w env (chunk_pos x z) with
  | None => True
  | Some s =>
      ¬ (min_y d ≤ y < min_y d + height d)
      ∨ (∃ section, sections s !! Z.to_nat (section_index d y) = Some section
           ∧ materialize (block_states section) BLOCKS_PER_SECTION = None)
      ∨ (∃ s' e, set_block d x y z state s = Ok s' ∧ world_check w s' = Err e)
  end.

Lemma set_block_refused d pos x y z state s e :
  bounds_ok d → chunk_ok d pos s → set_block d x y z state s = Err e →
  ¬ (min_y d ≤ y < min_y d + height d)
  ∨ ∃ section, sections s !! Z.to_nat (section_index d y) = Some section
      ∧ materialize (block_states section) BLOCKS_PER_SECTION = None.
Proof.
  intros Hb (_ & Hl & _). unfold set_block. destruct (_ || _) eqn:Hrange.
  - intros _. left. intros Hin. destruct (section_index_exact d y Hb Hin) as [_ [Hi0 Hi1]].
    apply orb_true_iff in Hrange as [?%Z.ltb_lt|?%Z.leb_le]; lia.
  - apply orb_false_iff in Hrange as [H0%Z.ltb_ge H1%Z.leb_gt].
    destruct (sections s !! _) as [section|] eqn:Hsec; [|by apply lookup_ge_None in Hsec; lia].
    unfold materialize_and_set. rewrite decide_False by (pose proof (block_index_lt x y z); lia).
    destruct (materialize _ _) eqn:Hm; [done|]. intros _. right. eauto.
Qed.

(** C10. A block update that succeeds puts the new state at its position and
    changes no other block of the world; one that fails changes nothing, and
    fails only for a chunk that is not loaded, a height outside the
    dimension, a section that points past its palette, or (with a shared
    store) NBT that cannot be encoded. *)
Theorem set_block_state_exact lost x y z state w env :
  env_ok env → world_ok w env → bounds_ok (dimension w) → in_u 32 state → in_i 32 y →
  match set_block_state lost x y z state (w, env) with
  | (Ok _, (w', env')) =>
      ∀ x' y' z', block_state w' env' x' y' z' =
        if decide (x' = x ∧ y' = y ∧ z' = z) then Some state else block_state w env x' y' z'
  | (Err _, (w', env')) => w' = w ∧ env' = env ∧ unwritable w env x y z state
  end.
Proof.
  intros He Hw Hb Hst Hy. unfold set_block_state.
  pose proof (update_chunk_spec lost (chunk_pos x z) _ w env He Hw (good_set_block (dimension w) _ x y z state Hst)) as Hu.
  destruct (update_chunk lost _ _ (w, env)) as [[u|e] [w' env']].
  - destruct Hu as (s & s' & Hs & Hset & _ & _ & _ & Hd & _ & (c & Hc & Hsim) & Hrest & _). intros x' y' z'.
    pose proof (chunk_at_ok w env _ s Hw Hs) as Hok. rewrite !block_state_in_bounds, Hd by by rewrite ?Hd.
    destruct (decide (min_y _ ≤ y' < _)) as [Hy'|Hout].
    + destruct (decide (chunk_pos x' z' = chunk_pos x z)) as [Hpos|Hpos].
      * rewrite Hpos, Hc, Hs. simpl. rewrite (snapshot_block_sim c s') by done. injection Hpos as Hx Hz.
        by apply (set_block_blocks (dimension w) (chunk_pos x z) x y z state s s').
      * rewrite Hrest by done. rewrite decide_False; [done|]. intros (-> & _ & ->). done.
    + rewrite decide_False; [done|]. intros (_ & -> & _). apply Hout.
      assert (min_y (dimension w) ≤ min_y (dimension w) < min_y (dimension w) + height (dimension w)) as Hm.
      { destruct Hb as [(_ & _ & n & Hn & -> & _) _]. lia. }
      by destruct (set_block_blocks _ _ x y z state s s' x _ z Hb Hok Hst Hy Hset Hm eq_refl eq_refl).
  - destruct Hu as (-> & -> & Hcause). split_and!; [done..|]. unfold unwritable.
    destruct (chunk_at w env (chunk_pos x z)) as [s|] eqn:Hs; [|done]. pose proof (chunk_at_ok w env _ s Hw Hs) as Hok.
    destruct (set_block _ x y z state s) as [s'|e'] eqn:Hset; [right; right; by eauto|].
    apply (set_block_refused _ _ _ _ _ _ _ _ Hb Hok) in Hset. naive_solver.
Qed.

(** A one-section dimension and a world with one loaded air chunk. *)
Definition test_dimension : DimensionType := mkDimension "test" 0 16 16 f64_one false false.
Definition test_heap : Heap := mkHeap {[0%nat := air_chunk 0 0]} 1.
Definition test_world : World := mkWorld test_dimension {[(0, 0) := 0%nat]} None.
Definition test_state : World * Env := (test_world, mkEnv test_heap (with_limits 1 1 1)).

Lemma test_bounds_ok : bounds_ok test_dimension.
Proof. split; [|done]. split_and!; [done..|]. by exists 1. Qed.

Lemma test_state_ok : env_ok test_state.2 ∧ world_ok test_state.1 test_state.2.
Proof.
  split.
  - eapply (env_ok_later (mkHeap ∅ 0)); [split; simpl; lia| |apply env_ok_new; lia].
    intros l [s Hs]. simpl in Hs. apply lookup_singleton_Some in Hs as [<- _]. simpl. lia.
  - intros pos l. simpl. intros [<- <-]%lookup_singleton_Some. exists (air_chunk 0 0).
    split; [apply lookup_singleton_eq|]. split_and!; [done..|]. by repeat constructor.
Qed.

Lemma set_block_state_exact_witness :
  let '(w', env') := (set_block_state ∅ 3 5 7 42 test_state).2 in
  block_state w' env' 3 5 7 = Some 42
  ∧ block_state w' env' 4 5 7 = block_state test_state.1 test_state.2 4 5 7.
Proof.
  destruct test_state_ok as [He Hw].
  pose proof (set_block_state_exact ∅ 3 5 7 42 test_state.1 test_state.2 He Hw test_bounds_ok ltac:(done) ltac:(done)) as H.
  change (test_state.1, test_state.2) with test_state in H.
  assert ((set_block_state ∅ 3 5 7 42 test_state).1 = Ok tt) as Hok by (by vm_compute).
  destruct (set_block_state ∅ 3 5 7 42 test_state) as [r [w' env']]. simpl in Hok. subst r.
  simpl. rewrite !H. by rewrite decide_True, decide_False by naive_solver.
Defined.

(** ** Block entities *)

Definition entity_key (e : BlockEntitySnapshot) : Z * Z * Z := (local_x e, local_z e, entity_y e).

Definition entity_lookup (k : Z * Z * Z) (es : list BlockEntitySnapshot) : option BlockEntitySnapshot :=
  snd <$> list_find (λ e, entity_key e = k) es.

Definition update_key (p : PacketTileEntityData) : Z * Z * Z :=
  (pos_x (te_location p) `mod` 16, pos_z (te_location p) `mod` 16, pos_y (te_location p)).

Lemma entity_at_key x z y e : entity_at x z y e = true ↔ entity_key e = (x, z, y).
Proof. unfold entity_at, entity_key. rewrite !andb_true_iff, !Z.eqb_eq. naive_solver. Qed.

(** Looking an entity up in a list without duplicate keys. *)
Lemma entity_lookup_Some k es e : NoDup (map entity_key es) → entity_lookup k es = Some e ↔ e ∈ es ∧ entity_key e = k.
Proof.
  intros Hnd. unfold entity_lookup. split.
  - intros ([i e'] & Hf & ->)%fmap_Some. apply list_find_Some in Hf as (Hi & Hk & _). simpl. split; [by eapply list_elem_of_lookup_2|done].
  - intros [Hin Hk]. destruct (list_find (λ e, entity_key e = k) es) as [[i e']|] eqn:Hf.
    + apply list_find_Some in Hf as (Hi & Hk' & _). simpl. f_equal.
      eapply (NoDup_map_inj entity_key es); [done|by eapply list_elem_of_lookup_2|done|congruence].
    + apply list_find_None in Hf. rewrite Forall_forall in Hf. by destruct (Hf e Hin).
Qed.

Lemma entity_lookup_None k es : entity_lookup k es = None ↔ ∀ e, e ∈ es → entity_key e ≠ k.
Proof.
  unfold entity_lookup. rewrite fmap_None, list_find_None, Forall_forall. done.
Qed.

Lemma entity_lookup_unique k es o :
  NoDup (map entity_key es) → (∀ e, e ∈ es ∧ entity_key e = k ↔ o = Some e) → entity_lookup k es = o.
Proof.
  intros Hnd Ho. apply option_eq. intros e. rewrite entity_lookup_Some by done. by rewrite Ho.
Qed.

(** The entity an update carries. *)
Definition new_entity (p : PacketTileEntityData) : option BlockEntitySnapshot :=
  (λ nbt, mkBlockEntity (pos_x (te_location p) `mod` 16) (pos_z (te_location p) `mod` 16)
     (pos_y (te_location p)) (te_action p) (Some nbt)) <$> te_nbt_data p.

Lemma new_entity_key p n : new_entity p = Some n → entity_key n = update_key p.
Proof. by intros (nbt & _ & ->)%fmap_Some. Qed.

Lemma update_entities_split p es :
  (∃ a e b, es = a ++ e :: b ∧ entity_key e = update_key p ∧ update_entities p es = a ++ option_list (new_entity p) ++ b)
  ∨ ((∀ e, e ∈ es → entity_key e ≠ update_key p) ∧ update_entities p es = es ++ option_list (new_entity p)).
Proof.
  unfold update_entities, new_entity. destruct (list_find _ es) as [[i e]|] eqn:Hf.
  - left. apply list_find_Some in Hf as (Hi & Hk%entity_at_key & _). exists (take i es), e, (drop (S i) es).
    split_and!; [by rewrite take_drop_middle|done|]. pose proof (lookup_lt_Some _ _ _ Hi). simpl.
    destruct (te_nbt_data p); simpl; [by apply insert_take_drop|apply delete_take_drop].
  - right. apply list_find_None in Hf. rewrite Forall_forall in Hf. split; [intros e He Hk; by apply (Hf e He), entity_at_key|].
    destruct (te_nbt_data p); simpl; [done|by rewrite app_nil_r].
Qed.

Lemma elem_of_option_list {A} (o : option A) a : a ∈ option_list o ↔ o = Some a.
Proof. destruct o; simpl; [rewrite list_elem_of_singleton; naive_solver|rewrite elem_of_nil; done]. Qed.

(** Membership and keys after replacing the middle of a list. *)
Lemma NoDup_replace a e b (o : option BlockEntitySnapshot) :
  NoDup (map entity_key (a ++ e :: b)) → (∀ n, o = Some n → entity_key n = entity_key e) →
  NoDup (map entity_key (a ++ option_list o ++ b)) ∧ ∀ e', e' ∈ a ++ b → entity_key e' ≠ entity_key e.
Proof.
  intros Hnd Ho. rewrite !map_app in *. simpl in *. split.
  - destruct o as [n|]; simpl; [by rewrite (Ho n)|]. eapply sublist_NoDup; [exact Hnd|]. by apply sublist_app, sublist_cons.
  - intros e' Hin Hk. rewrite <- Permutation_middle in Hnd. apply NoDup_cons in Hnd as [Hnot _]. apply Hnot.
    rewrite <- Hk, <- map_app. by apply list_elem_of_fmap_2.
Qed.

(** A block entity update acts on the entity at its position only: with
    data it replaces the entity or adds one, without data it removes it, and
    every other entity of the chunk stays; positions stay distinct. *)
Theorem block_entity_update_exact p es :
  NoDup (map entity_key es) →
  NoDup (map entity_key (update_entities p es))
  ∧ ∀ k, entity_lookup k (update_entities p es) =
      if decide (k = update_key p)
      then new_entity p else entity_lookup k es.
Proof.
  intros Hnd. destruct (update_entities_split p es) as [(a & e & b & -> & Hk & ->)|[Hno ->]].
  - destruct (NoDup_replace a e b (new_entity p) Hnd) as [Hnd' Hother]; [intros n ->%new_entity_key; done|].
    split; [done|]. intros k. apply entity_lookup_unique; [done|]. intros e'. rewrite Hk in Hother.
    rewrite !elem_of_app, elem_of_option_list in *. case_decide as Hkk.
    + subst k. split; [|intros Hn; by eauto using new_entity_key]. intros [[?|[?|?]] He']; [|done|];
        exfalso; apply (Hother e'); by rewrite ?elem_of_app; auto.
    + rewrite entity_lookup_Some by done. rewrite elem_of_app, elem_of_cons. split; [|naive_solver].
      intros [[?|[Hn|?]] <-]; [naive_solver| |naive_solver]. by apply new_entity_key in Hn.
  - assert (NoDup (map entity_key (es ++ option_list (new_entity p)))) as Hnd'.
    { destruct (new_entity p) as [n|] eqn:Hn; simpl; [|by rewrite app_nil_r]. rewrite map_app. apply NoDup_app.
      split_and!; [done| |apply NoDup_singleton]. intros k (e & -> & He)%list_elem_of_fmap Hk%list_elem_of_singleton.
      apply (Hno e He). by rewrite Hk, (new_entity_key p n). }
    split; [done|]. intros k. apply entity_lookup_unique; [done|]. intros e'. rewrite elem_of_app, elem_of_option_list.
    case_decide as Hkk; [subst k; split; [naive_solver|intros Hn; by eauto using new_entity_key]|].
    rewrite entity_lookup_Some by done. split; [|naive_solver]. intros [[?|Hn] <-]; [done|]. by apply new_entity_key in Hn.
Qed.

Lemma block_entity_update_exact_witness :
  let es := [mkBlockEntity 1 2 64 5 None; mkBlockEntity 3 4 64 5 None] in
  let p := mkTileEntityData (mkPosition (-15) 18 64) 7 None in
  update_entities p es = [mkBlockEntity 3 4 64 5 None]
  ∧ entity_lookup (1, 2, 64) (update_entities p es) = None
  ∧ entity_lookup (3, 4, 64) (update_entities p es) = Some (mkBlockEntity 3 4 64 5 None).
Proof.
  pose proof (block_entity_update_exact (mkTileEntityData (mkPosition (-15) 18 64) 7 None)
    [mkBlockEntity 1 2 64 5 None; mkBlockEntity 3 4 64 5 None]) as [_ H].
  { simpl. repeat constructor; set_solver. }
  cbv zeta. rewrite !H. by split_and!.
Defined.
