(* ===== verification/SharedWorld.v ===== *)
(** * Clients that share chunks

    Many clients, each with a [World] of its own, over one payload heap and
    one [SharedChunkStore].  The specification is a client alone: a map from
    positions to snapshots, with no heap, no table and no other client.  The
    refinement theorem says that sharing is only an optimisation: whatever
    the others do, whatever is dropped, evicted or pruned, a client gets the
    results and sees the chunks it would have alone. *)

From S2P Require Import Prelude Machine Reader Nbt PacketTypes PlayPackets Errors Palette Dimension Chunk ChunkStore World.

Local Open Scope Z_scope.

(** ** A client alone *)

Record SoloWorld : Type := mkSolo {
  solo_dimension : DimensionType;
  solo_chunks : gmap (Z * Z) ChunkSnapshot;
  solo_checked : bool;  (* snapshots have to be hashable *)
}.

Abbreviation SoloM := (M SoloWorld MineRiderError).

Definition solo_check (w : SoloWorld) (s : ChunkSnapshot) : result MineRiderError unit :=
  if solo_checked w then fingerprint_check s else Ok tt.

Definition solo_put (pos : Z * Z) (s : ChunkSnapshot) : SoloM unit := λ w,
  match solo_check w s with
  | Err e => (Err e, w)
  | Ok _ => (Ok tt, mkSolo (solo_dimension w) (<[pos := s]> (solo_chunks w)) (solo_checked w))
  end.

Definition solo_update (pos : Z * Z) (change : ChunkSnapshot → result MineRiderError ChunkSnapshot) : SoloM unit := λ w,
  match solo_chunks w !! pos with
  | None => (Err Protocol, w)
  | Some s => match change s with Err e => (Err e, w) | Ok s' => solo_put pos s' w end
  end.

Definition solo_set_block (x y z state : Z) : SoloM unit := λ w,
  solo_update (chunk_pos x z) (set_block (solo_dimension w) x y z state) w.

Definition solo_record (p : PacketMultiBlockChange) (record : Z) : SoloM unit :=
  if record <? 0 then raise Protocol
  else
    let local := Z.land record 0xfff in
    solo_set_block
      (swrap 32 (swrap 32 (mb_x p * 16) + Z.land (Z.shiftr local 8) 0xf))
      (swrap 32 (swrap 32 (mb_y p * 16) + Z.land local 0xf))
      (swrap 32 (swrap 32 (mb_z p * 16) + Z.land (Z.shiftr local 4) 0xf))
      (Z.shiftr record 12).

Definition solo_op (op : WorldOp) : SoloM unit :=
  match op with
  | OpMapChunk p => λ w,
      match snapshot_decode p (Z.to_nat (section_count (solo_dimension w))) with
      | Err e => (Err e, w)
      | Ok s => solo_put (chunk_x s, chunk_z s) s w
      end
  | OpUnloadChunk x z => modify (λ w, mkSolo (solo_dimension w) (delete (x, z) (solo_chunks w)) (solo_checked w))
  | OpBlockChange p =>
      let loc := PacketBlockChange_location p in solo_set_block (pos_x loc) (pos_y loc) (pos_z loc) (wrap 32 (PacketBlockChange_type p))
  | OpMultiBlockChange p => iter_m (solo_record p) (records p)
  | OpUpdateLight p => solo_update (PacketUpdateLight_chunk_x p, PacketUpdateLight_chunk_z p) (λ s, Ok (set_light p s))
  | OpTileEntityData p =>
      solo_update (chunk_pos (pos_x (te_location p)) (pos_z (te_location p))) (λ s, Ok (set_entities p s))
  end.

(** ** Simulation of one client *)

(** The client's chunk at each position is the specification's, up to
    payloads that compare equal. *)
Definition world_sim (w : World) (env : Env) (sw : SoloWorld) : Prop :=
  dimension w = solo_dimension sw
  ∧ solo_checked sw = bool_decide (is_Some (shared w))
  ∧ (∀ pos l, chunks w !! pos = Some l → is_Some (live (heap env) !! l))
  ∧ ∀ pos, option_Forall2 snapshot_sim (chunk_at w env pos) (solo_chunks sw !! pos).

(** One call against its specification. *)
Definition op_sim (m : WorldM unit) (sm : SoloM unit) : Prop :=
  ∀ w env sw, env_ok env → world_sim w env sw →
    let '(r, (w', env')) := m (w, env) in
    let '(r', sw') := sm sw in
    r = r' ∧ env_ok env' ∧ keeps env env' ∧ world_sim w' env' sw'.

Lemma world_sim_keeps w env env' sw : keeps env env' → world_sim w env sw → world_sim w env' sw.
Proof.
  intros Hk (Hd & Hc & Hl & Hs). split_and!; [done..| |].
  - intros pos l [s Hs']%Hl. exists s. by apply Hk.
  - intros pos. specialize (Hs pos). unfold chunk_at in *. destruct (chunks w !! pos) as [l|] eqn:Hp; [|done].
    destruct (Hl pos l Hp) as [s Hs']. simpl in *. by rewrite (Hk l s Hs'), <- Hs'.
Qed.

Lemma world_check_sim w sw env s s' : world_sim w env sw → snapshot_sim s s' → world_check w s = solo_check sw s'.
Proof.
  intros (_ & Hc & _) Hs. unfold world_check, solo_check. rewrite Hc. destruct (shared w); simpl; [by apply fingerprint_check_sim|done].
Qed.

Lemma store_chunk_sim lost pos s s' w env sw :
  env_ok env → world_sim w env sw → snapshot_sim s s' →
  let '(r, (w', env')) := store_chunk lost pos s (w, env) in
  let '(r', sw') := solo_put pos s' sw in
  r = r' ∧ env_ok env' ∧ keeps env env' ∧ world_sim w' env' sw'.
Proof.
  intros He Hw Hs. pose proof (world_check_sim w sw env s s' Hw Hs) as Hcheck.
  pose proof (world_intern_spec lost s w env He) as Hi. unfold store_chunk, bind, solo_put. rewrite <- Hcheck.
  destruct (world_intern lost s (w, env)) as [[l|e] [w1 env1]].
  - destruct Hi as (-> & -> & He' & (c & Hc & Hcs) & Hk). simpl. split_and!; [done..|].
    apply (world_sim_keeps _ _ _ _ Hk) in Hw as (Hd & Hch & Hl & Hsim). split_and!; simpl; [done..| |].
    + intros pos' l' [[<- <-]|[_ Hl']]%lookup_insert_Some; [by eexists|by eapply Hl].
    + intros pos'. specialize (Hsim pos'). unfold chunk_at in *. simpl. destruct (decide (pos = pos')) as [->|Hne].
      * rewrite !lookup_insert_eq. simpl. rewrite Hc. constructor. by etrans.
      * by rewrite !lookup_insert_ne.
  - destruct Hi as (-> & -> & ->). done.
Qed.

(** A change that does not tell interchangeable snapshots apart. *)
Definition change_sim (change : ChunkSnapshot → result MineRiderError ChunkSnapshot) : Prop :=
  ∀ s s', snapshot_sim s s' →
    match change s, change s' with
    | Ok t, Ok t' => snapshot_sim t t'
    | Err e, Err e' => e = e'
    | _, _ => False
    end.

Lemma update_chunk_sim lost pos change :
  change_sim change → op_sim (update_chunk lost pos change) (solo_update pos change).
Proof.
  intros Hch w env sw He Hw. unfold update_chunk, solo_update. pose proof Hw as (_ & _ & _ & Hsim). specialize (Hsim pos).
  destruct Hsim as [s s' Hs|]; [|by split_and!]. specialize (Hch s s' Hs).
  destruct (change s) as [t|e], (change s') as [t'|e']; try done; [by apply store_chunk_sim|by subst].
Qed.

Lemma set_block_sim d x y z state : change_sim (set_block d x y z state).
Proof.
  intros s s' (Hx & Hz & Hs & Hh & He & Hl). unfold set_block. rewrite Hs. destruct (_ || _); [done|].
  destruct (sections s' !! _); [|done].
  destruct (materialize_and_set _ _ _ _); simpl; [|done]. by split_and!.
Qed.

Lemma set_light_sim p : change_sim (λ s, Ok (set_light p s)).
Proof. intros s s' (Hx & Hz & Hs & Hh & He & Hl). by split_and!. Qed.

Lemma list_find_sim P (Hdec : ∀ e, Decision (P e)) es es' :
  (∀ e e', entity_sim e e' → P e ↔ P e') → Forall2 entity_sim es es' →
  fst <$> list_find P es = fst <$> list_find P es'.
Proof.
  intros HP. induction 1 as [|e e' es es' He HF IH]; simpl; [done|]. pose proof (HP e e' He).
  destruct (decide (P e)), (decide (P e')); [done|tauto|tauto|].
  destruct (list_find P es) as [[]|], (list_find P es') as [[]|]; simpl in *; congruence.
Qed.

Lemma set_entities_sim p : change_sim (λ s, Ok (set_entities p s)).
Proof.
  intros s s' (Hx & Hz & Hs & Hh & He & Hl). split_and!; simpl; try done. unfold update_entities.
  erewrite (list_find_sim _ _ (block_entities s) (block_entities s')); [|intros e e' (H1 & H2 & H3 & _); unfold entity_at; by rewrite H1, H2, H3|done].
  destruct (te_nbt_data p), (fst <$> _); [by apply Forall2_insert|apply Forall2_app; [done|by repeat constructor]|by apply Forall2_delete|done].
Qed.

Lemma set_block_state_sim lost x y z state : op_sim (set_block_state lost x y z state) (solo_set_block x y z state).
Proof.
  intros w env sw He Hw. unfold set_block_state, solo_set_block. rewrite <- (proj1 Hw).
  by apply (update_chunk_sim lost (chunk_pos x z) _ (set_block_sim (dimension w) x y z state)).
Qed.

Lemma iter_sim {A} (m : A → WorldM unit) (sm : A → SoloM unit) l :
  (∀ a, op_sim (m a) (sm a)) → op_sim (iter_m m l) (iter_m sm l).
Proof.
  intros Hm. induction l as [|a l IH]; intros w env sw He Hw; simpl; [by split_and!|]. unfold bind.
  specialize (Hm a w env sw He Hw). destruct (m a (w, env)) as [r [w1 env1]], (sm a sw) as [r' sw1].
  destruct Hm as (<- & He1 & Hk1 & Hw1). destruct r as [u|e]; [|done]. specialize (IH w1 env1 sw1 He1 Hw1).
  destruct (iter_m m l (w1, env1)) as [r2 [w2 env2]], (iter_m sm l sw1) as [r2' sw2].
  destruct IH as (? & ? & ? & ?). split_and!; [done..|by etrans|done].
Qed.

Lemma apply_op_sim lost op : op_sim (apply_op lost op) (solo_op op).
Proof.
  destruct op as [p|x z|p|p|p|p]; simpl.
  - intros w env sw He Hw. unfold insert_chunk. rewrite <- (proj1 Hw). destruct (snapshot_decode _ _); [|by split_and!].
    by apply store_chunk_sim.
  - intros w env sw He (Hd & Hc & Hl & Hs). simpl. split_and!; [done..|]. split_and!; simpl; [done..| |].
    + intros pos l [_ Hp]%lookup_delete_Some. by eapply Hl.
    + intros pos. specialize (Hs pos). unfold chunk_at in *. simpl.
      destruct (decide ((x, z) = pos)) as [<-|]; [rewrite !lookup_delete_eq; constructor|by rewrite !lookup_delete_ne].
  - apply set_block_state_sim.
  - apply iter_sim. intros record. unfold apply_record, solo_record.
    destruct (record <? 0); [by intros w env sw He Hw|apply set_block_state_sim].
  - apply update_chunk_sim, set_light_sim.
  - apply update_chunk_sim, set_entities_sim.
Qed.

(** ** Many clients *)

Record Process : Type := mkProcess {
  clients : gmap nat World;
  env : Env;
  log : list (nat * result MineRiderError unit);  (* what each packet returned *)
}.

(** What can happen in the process: a client enters a dimension (with the
    shared store or without), leaves, or applies a packet; the last owner of
    a payload lets go of it; somebody prunes the store. *)
Inductive ProcessEvent : Type :=
  | Enter (i : nat) (d : DimensionType) (scope : option WorldScope)
  | Leave (i : nat)
  | Packet (i : nat) (op : WorldOp) (lost : gset nat)
  | LetGo (l : nat)
  | Prune.

Definition owned (p : Process) (l : nat) : bool :=
  existsb (λ '(_, w), existsb (λ '(_, l'), bool_decide (l = l')) (map_to_list (chunks w))) (map_to_list (clients p)).

Definition process_step (p : Process) (ev : ProcessEvent) : Process :=
  match ev with
  | Enter i d scope =>
      let w := match scope with Some sc => with_shared_store d sc | None => world_new d end in
      mkProcess (<[i := w]> (clients p)) (env p) (log p)
  | Leave i => mkProcess (delete i (clients p)) (env p) (log p)
  | Packet i op lost =>
      match clients p !! i with
      | None => p
      | Some w =>
          let '(r, (w', env')) := apply_op lost op (w, env p) in
          mkProcess (<[i := w']> (clients p)) env' (push (log p) (i, r))
      end
  | LetGo l =>
      if owned p l then p
      else mkProcess (clients p) (mkEnv (arc_drop l (heap (env p))) (store (env p))) (log p)
  | Prune => mkProcess (clients p) (prune (env p)) (log p)
  end.

Definition process_new (st : SharedChunkStore) : Process := mkProcess ∅ (mkEnv (mkHeap ∅ 0) st) [].

Definition process_run (p : Process) (evs : list ProcessEvent) : Process := foldl process_step p evs.

(** Client [i] alone: its own events only. *)
Record Solo : Type := mkSoloClient { solo_world : option SoloWorld; solo_log : list (result MineRiderError unit) }.

Definition solo_step (i : nat) (c : Solo) (ev : ProcessEvent) : Solo :=
  match ev with
  | Enter j d scope => if decide (j = i) then mkSoloClient (Some (mkSolo d ∅ (bool_decide (is_Some scope)))) (solo_log c) else c
  | Leave j => if decide (j = i) then mkSoloClient None (solo_log c) else c
  | Packet j op _ =>
      if decide (j = i) then
        match solo_world c with
        | None => c
        | Some w => let '(r, w') := solo_op op w in mkSoloClient (Some w') (push (solo_log c) r)
        end
      else c
  | LetGo _ | Prune => c
  end.

Definition solo_run (i : nat) (evs : list ProcessEvent) : Solo := foldl (solo_step i) (mkSoloClient None []) evs.

(** The results client [i] got. *)
Definition client_log (i : nat) (p : Process) : list (result MineRiderError unit) :=
  omap (λ '(j, r), if decide (j = i) then Some r else None) (log p).

(** ** Refinement *)

Definition client_sim (e : Env) (w : option World) (sw : option SoloWorld) : Prop :=
  option_Forall2 (λ w sw, world_sim w e sw) w sw.

Definition process_sim (p : Process) (c : nat → Solo) : Prop :=
  env_ok (env p)
  ∧ ∀ i, client_log i p = solo_log (c i) ∧ client_sim (env p) (clients p !! i) (solo_world (c i)).

Lemma client_sim_keeps e e' w sw : keeps e e' → client_sim e w sw → client_sim e' w sw.
Proof. intros Hk [w' sw' H|]; constructor. by eapply world_sim_keeps. Qed.

Lemma client_log_push i p j r : client_log i (mkProcess (clients p) (env p) (push (log p) (j, r)))
  = client_log i p ++ if decide (j = i) then [r] else [].
Proof. unfold client_log, push. simpl. rewrite omap_app. simpl. by case_decide. Qed.

(** A payload nobody owns is in no client's map. *)
Lemma not_owned p l i w pos l' :
  owned p l = false → clients p !! i = Some w → chunks w !! pos = Some l' → l' ≠ l.
Proof.
  intros Hno Hi Hpos ->. apply not_true_iff_false in Hno. apply Hno. unfold owned.
  apply existsb_exists. exists (i, w). split; [by apply list_elem_of_In, elem_of_map_to_list|].
  apply existsb_exists. exists (pos, l). split; [by apply list_elem_of_In, elem_of_map_to_list|]. by apply bool_decide_eq_true.
Qed.

Lemma world_sim_let_go p l i w sw :
  owned p l = false → clients p !! i = Some w → world_sim w (env p) sw →
  world_sim w (mkEnv (arc_drop l (heap (env p))) (store (env p))) sw.
Proof.
  intros Hno Hi (Hd & Hc & Hl & Hs). split_and!; [done..| |].
  - intros pos l' Hpos. simpl. rewrite lookup_delete_ne; [by eapply Hl|]. pose proof (not_owned p l i w pos l' Hno Hi Hpos). done.
  - intros pos. specialize (Hs pos). unfold chunk_at in *. destruct (chunks w !! pos) as [l'|] eqn:Hpos; [|done]. simpl in *.
    rewrite lookup_delete_ne; [done|]. pose proof (not_owned p l i w pos l' Hno Hi Hpos). done.
Qed.

Lemma process_step_sim p c ev : process_sim p c → process_sim (process_step p ev) (λ i, solo_step i (c i) ev).
Proof.
  intros [He Hc]. destruct ev as [j d scope|j|j op lost|l|]; simpl.
  - split; [done|]. intros i. destruct (Hc i) as [Hlog Hw]. simpl. case_decide as Hj; simpl.
    + subst j. rewrite lookup_insert_eq. split; [done|]. constructor. destruct scope; (split_and!; simpl; [done..| |]);
        try (by intros pos l Hl; rewrite lookup_empty in Hl); intros pos; unfold chunk_at; simpl; rewrite !lookup_empty; constructor.
    + by rewrite lookup_insert_ne.
  - split; [done|]. intros i. destruct (Hc i) as [Hlog Hw]. simpl. case_decide as Hj; simpl.
    + subst j. rewrite lookup_delete_eq. by split; [|constructor].
    + by rewrite lookup_delete_ne.
  - destruct (Hc j) as [Hlog Hw]. inversion Hw as [w sw Hsim Hwj Hswj|Hwj Hswj].
    + pose proof (apply_op_sim lost op w (env p) sw He Hsim) as Hop.
      destruct (apply_op lost op (w, env p)) as [r [w' env']], (solo_op op sw) as [r' sw'] eqn:Hsolo.
      destruct Hop as (<- & He' & Hk & Hsim'). split; [done|]. intros i. destruct (Hc i) as [Hlogi Hwi].
      change (client_log i _) with (client_log i (mkProcess (clients p) (env p) (push (log p) (j, r)))).
      rewrite client_log_push, Hlogi. simpl. case_decide as Hj; simpl.
      * subst j. rewrite <- Hswj. rewrite Hsolo, lookup_insert_eq. by split; [|constructor].
      * rewrite app_nil_r, lookup_insert_ne by done. split; [done|]. by eapply client_sim_keeps.
    + split; [done|]. intros i. destruct (Hc i). case_decide as Hj; [|done]. subst j. by rewrite <- Hswj.
  - destruct (owned p l) eqn:Hown; [done|]. split.
    { simpl. eapply env_ok_later; [apply heap_later_drop|apply heap_ok_drop, He|]. by destruct (env p). }
    intros i. destruct (Hc i) as [Hlog Hw]. split; [done|]. simpl.
    inversion Hw as [w sw Hsim Hwi Hswi|]; constructor. by eapply world_sim_let_go.
  - split; [by apply env_ok_prune|]. done.
Qed.

Lemma process_run_sim p c evs : process_sim p c → process_sim (process_run p evs) (λ i, foldl (solo_step i) (c i) evs).
Proof. revert p c. induction evs as [|ev evs IH]; intros p c Hp; [done|]. simpl. by apply (IH _ (λ i, solo_step i (c i) ev)), process_step_sim. Qed.

Lemma process_new_sim st : env_ok (mkEnv (mkHeap ∅ 0) st) → process_sim (process_new st) (λ _, mkSoloClient None []).
Proof. intros He. split; [done|]. intros i. split; [done|]. simpl. rewrite lookup_empty. constructor. Qed.

(** C9. Sharing is only an optimisation.  In any run of the process (clients
    entering, leaving and applying packets in any interleaving, payloads
    dying at any moment, prunes) every client gets the results of a client
    alone, has the same chunks loaded, reads the same block at every
    position, and holds chunks interchangeable with those it would hold
    alone. *)
Theorem sharing_is_transparent n mk mc evs i :
  (0 < n)%nat → (0 < mk)%nat → (0 < mc)%nat →
  let p := process_run (process_new (with_limits n mk mc)) evs in
  let c := solo_run i evs in
  client_log i p = solo_log c
  ∧ match clients p !! i, solo_world c with
    | Some w, Some sw =>
        dimension w = solo_dimension sw
        ∧ (∀ pos, option_Forall2 snapshot_sim (chunk_at w (env p) pos) (solo_chunks sw !! pos))
        ∧ (∀ x z, has_chunk x z w = bool_decide (is_Some (solo_chunks sw !! (x, z))))
        ∧ ∀ x y z, block_state w (env p) x y z =
            if (y <? min_y (dimension w)) || (swrap 32 (min_y (dimension w) + height (dimension w)) <=? y) then None
            else s ← solo_chunks sw !! chunk_pos x z; snapshot_block s (dimension w) x y z
    | None, None => True
    | _, _ => False
    end.
Proof.
  intros Hn Hk Hc. cbv zeta. pose proof (process_run_sim _ _ evs (process_new_sim _ (env_ok_new n mk mc Hn Hk Hc))) as [_ Hp].
  destruct (Hp i) as [Hlog Hw]. split; [done|]. unfold solo_run. inversion Hw as [w sw (Hd & _ & Hl & Hs)|]; [|done].
  split_and!; [done..| |].
  - intros x z. specialize (Hs (x, z)). unfold has_chunk, chunk_at in *. apply bool_decide_ext.
    destruct (chunks w !! (x, z)) as [l|] eqn:Hpos; simpl in Hs.
    + destruct (Hl _ _ Hpos) as [s Hls]. rewrite Hls in Hs. by inversion Hs.
    + inversion Hs. split; by intros [].
  - intros x y z. unfold block_state. case_match; [done|]. specialize (Hs (chunk_pos x z)).
    destruct Hs as [s s' Hs|]; [|done]. simpl. by apply snapshot_block_sim.
Qed.

(** ** The bounds of the store *)

Definition limits (e : Env) : nat * nat := (max_keys_per_shard (store e), max_collisions_per_key (store e)).

Definition same_limits (s s' : World * Env) : Prop := limits s'.2 = limits s.2.

#[export] Instance same_limits_preorder : PreOrder same_limits.
Proof. split; [done|]. intros a b c Hab Hbc. unfold same_limits in *. congruence. Qed.

Lemma intern_limits lost scope s fp st h :
  let '(_, (st', _)) := intern_with_fingerprint lost scope s fp st h in
  max_keys_per_shard st' = max_keys_per_shard st ∧ max_collisions_per_key st' = max_collisions_per_key st.
Proof.
  unfold intern_with_fingerprint. destruct (entries _ !! _) as [b|].
  - unfold intern_known. destruct (find_candidate _ _ _ _); [done|]. simpl. by destruct (_ <? _)%nat.
  - unfold intern_new. by destruct (evict _ _ _ _).
Qed.

Lemma store_chunk_limits lost pos s : preserves same_limits (store_chunk lost pos s).
Proof.
  unfold store_chunk. apply preserves_bind; [apply _| |intros l [w e]; done]. intros [w e]. unfold world_intern, same_limits.
  destruct (shared w) as [scope|]; [|done]. unfold store_intern. destruct (fingerprint s) as [fp|]; [|done].
  pose proof (intern_limits lost scope s fp (store e) (heap e)) as Hl.
  destruct (intern_with_fingerprint _ _ _ _ _ _) as [l [st' h']]. destruct Hl as [Hk Hc]. unfold limits. simpl. by rewrite Hk, Hc.
Qed.
#[export] Hint Resolve store_chunk_limits : preserves.

Lemma update_chunk_limits lost pos change : preserves same_limits (update_chunk lost pos change).
Proof.
  intros [w e]. unfold update_chunk. destruct (chunk_at w e pos) as [s|]; [|done].
  destruct (change s) as [s'|]; [apply store_chunk_limits|done].
Qed.

Lemma set_block_state_limits lost x y z state : preserves same_limits (set_block_state lost x y z state).
Proof. intros [w e]. apply update_chunk_limits. Qed.

Lemma preserves_iter_m {S E A} (R : S → S → Prop) `{!PreOrder R} (m : A → M S E unit) l :
  (∀ a, preserves R (m a)) → preserves R (iter_m m l).
Proof.
  intros Hm. induction l as [|a l IH]; simpl; [apply preserves_ret; apply _|]. by apply preserves_bind; [apply _| |].
Qed.

Lemma apply_op_limits lost op : preserves same_limits (apply_op lost op).
Proof.
  destruct op as [p|x z|p|p|p|p]; simpl.
  - intros [w e]. unfold insert_chunk. case_match; [apply store_chunk_limits|done].
  - by intros [w e].
  - apply set_block_state_limits.
  - apply preserves_iter_m; [apply _|]. intros record. unfold apply_record.
    case_match; [apply preserves_raise; apply _|apply set_block_state_limits].
  - apply update_chunk_limits.
  - apply update_chunk_limits.
Qed.

Lemma process_step_limits p ev : limits (env (process_step p ev)) = limits (env p).
Proof.
  destruct ev as [| |i op lost|l|]; simpl; try done.
  - destruct (clients p !! i) as [w|]; [|done]. pose proof (apply_op_limits lost op (w, env p)) as Hl.
    destruct (apply_op lost op (w, env p)) as [r [w' env']]. exact Hl.
  - by destruct (owned p l).
Qed.

Lemma process_run_limits p evs : limits (env (process_run p evs)) = limits (env p).
Proof. revert p. induction evs as [|ev evs IH]; intros p; [done|]. simpl. by rewrite IH, process_step_limits. Qed.

(** The store stays within its bounds in every run: no shard holds more
    keys than it may, no key more payloads than it may, the eviction queue
    lists exactly the keys of the table, each once, and a payload that is
    still alive is filed under its own position and fingerprint; every chunk
    a client has loaded is alive. *)
Theorem store_stays_bounded n mk mc evs :
  (0 < n)%nat → (0 < mk)%nat → (0 < mc)%nat →
  let p := process_run (process_new (with_limits n mk mc)) evs in
  (∀ j shard, shards (store (env p)) !! j = Some shard →
     (size (entries shard) ≤ mk)%nat
     ∧ NoDup (insertion_order shard) ∧ (∀ k, k ∈ insertion_order shard ↔ is_Some (entries shard !! k))
     ∧ ∀ k b, entries shard !! k = Some b →
         (length b ≤ mc)%nat ∧ ∀ l s, l ∈ b → live (heap (env p)) !! l = Some s → payload_ok k s)
  ∧ ∀ i w pos l, clients p !! i = Some w → chunks w !! pos = Some l → is_Some (live (heap (env p)) !! l).
Proof.
  intros Hn Hk Hc. cbv zeta. set (p := process_run _ evs).
  pose proof (process_run_sim _ _ evs (process_new_sim _ (env_ok_new n mk mc Hn Hk Hc))) as [He Hp]. fold p in He, Hp.
  pose proof (process_run_limits (process_new (with_limits n mk mc)) evs) as Hl. fold p in Hl. injection Hl as Hlk Hlc. clearbody p. split.
  - intros j shard Hj. destruct He as (_ & _ & Hs). destruct (Hs j shard Hj) as (Hz & [Hnd Hq] & Hb). simpl in *. rewrite Hlk in Hz.
    split_and!; [done..|]. intros k b Hkb. destruct (Hb k b Hkb) as [_ [Hlen Hbl]]. rewrite Hlc in Hlen. split; [done|].
    intros l s Hin. by apply Hbl.
  - intros i w pos l Hi. destruct (Hp i) as [_ Hw]. rewrite Hi in Hw. inversion Hw as [? sw (_ & _ & Hlive & _)|]; subst. apply Hlive.
Qed.

(** Two clients load the same air chunk, one writes a block, a payload is let
    go of, the store is pruned. *)
Definition air_packet : PacketMapChunk :=
  mkMapChunk 0 0 (NbtCompound []) [x00; x00; x00; x00; x00; x00; x00; x00] [] [] [] [] [] [] [].

Definition test_events : list ProcessEvent :=
  [Enter 0 test_dimension (Some test_scope); Enter 1 test_dimension (Some test_scope);
   Packet 0 (OpMapChunk air_packet) ∅; Packet 1 (OpMapChunk air_packet) ∅;
   Packet 0 (OpBlockChange (mkPacketBlockChange (mkPosition 3 7 5) 42)) ∅;
   Packet 0 (OpBlockChange (mkPacketBlockChange (mkPosition 99 7 5) 42)) ∅; LetGo 9; Prune].

Lemma sharing_is_transparent_witness :
  let p := process_run (process_new (with_limits 1 1 1)) test_events in
  client_log 0 p = [Ok tt; Ok tt; Err Protocol] ∧ client_log 1 p = [Ok tt].
Proof.
  cbv zeta. destruct (sharing_is_transparent 1 1 1 test_events 0 ltac:(lia) ltac:(lia) ltac:(lia)) as [-> _].
  destruct (sharing_is_transparent 1 1 1 test_events 1 ltac:(lia) ltac:(lia) ltac:(lia)) as [-> _]. by vm_compute.
Defined.

Lemma store_stays_bounded_witness :
  let p := process_run (process_new (with_limits 1 1 1)) test_events in
  Forall (λ shard, (size (entries shard) ≤ 1)%nat) (shards (store (env p))).
Proof.
  cbv zeta. destruct (store_stays_bounded 1 1 1 test_events ltac:(lia) ltac:(lia) ltac:(lia)) as [H _].
  apply Forall_lookup_2. intros j shard Hj. by destruct (H j shard Hj).
Defined.

(** The two clients do share: after loading the chunk they hold one [Arc]. *)
Example clients_share :
  let p := process_run (process_new (with_limits 1 1 1)) (take 4 test_events) in
  (λ w, map_to_list (chunks w)) <$> clients p !! 0%nat = Some [((0, 0), 0%nat)]
  ∧ (λ w, map_to_list (chunks w)) <$> clients p !! 1%nat = Some [((0, 0), 0%nat)].
Proof. by vm_compute. Qed.
