(* ===== verification/Physics.v ===== *)
(** * Collision

    [src/minecraft/physics.rs], and [World::collision_boxes]: axis-aligned
    boxes, the clipping of a movement against them and the automatic step-up.
    Coordinates are [f64] bits.  The tables of [collision_data.rs] and the
    sine of the standard library are parameters: nothing here depends on
    their values. *)

From Stdlib Require Import SpecFloat.
From S2P Require Import Prelude Machine Float FloatOrder Reader Nbt PacketTypes PlayPackets Errors Palette Dimension Chunk ChunkStore World.

Local Open Scope Z_scope.

Definition d_0 : Z := 0.

(** ** The sine table *)

Section sine.
Context (sin64 : Z → Z).

(** [std::f64::consts::PI]. *)
Definition d_pi : Z := 0x400921fb54442d18.
(** [std::f32::consts::PI]. *)
Definition s_pi : Z := 0x40490fdb.

Definition sin_table (i : Z) : Z :=
  s_of_d (sin64 (d_div (d_mul (d_mul (d_of_Z i) d_pi) (d_of_Z 2)) (d_of_Z 65536))).

(** [as i32 & 0xffff]: an index of the table, whatever the angle. *)
Definition mc_sin (radians : Z) : Z := sin_table (Z.land (s_to_i32 (s_mul radians (s_lit 10430378 3))) 0xffff).
Definition mc_cos (radians : Z) : Z :=
  sin_table (Z.land (s_to_i32 (s_add (s_mul radians (s_lit 10430378 3)) (s_of_Z 16384))) 0xffff).
End sine.

(** ** Boxes *)

Record Aabb : Type := mkAabb {
  min_x : Z;
  box_min_y : Z;
  min_z : Z;
  max_x : Z;
  max_y : Z;
  max_z : Z;
}.

Record Vec3 : Type := mkVec3 { v_x : Z; v_y : Z; v_z : Z }.
Definition vec3_default : Vec3 := mkVec3 d_0 d_0 d_0.

Definition moved (b : Aabb) (x y z : Z) : Aabb :=
  mkAabb (d_add (min_x b) x) (d_add (box_min_y b) y) (d_add (min_z b) z)
    (d_add (max_x b) x) (d_add (max_y b) y) (d_add (max_z b) z).

Definition intersects_xz (a b : Aabb) : bool :=
  d_lt (min_x b) (max_x a) && d_lt (min_x a) (max_x b) && d_lt (min_z b) (max_z a) && d_lt (min_z a) (max_z b).
Definition intersects_yz (a b : Aabb) : bool :=
  d_lt (box_min_y b) (max_y a) && d_lt (box_min_y a) (max_y b) && d_lt (min_z b) (max_z a) && d_lt (min_z a) (max_z b).
Definition intersects_xy (a b : Aabb) : bool :=
  d_lt (min_x b) (max_x a) && d_lt (min_x a) (max_x b) && d_lt (box_min_y b) (max_y a) && d_lt (box_min_y a) (max_y b).

(** One turn of the loops over the boxes, on one axis: [lo] and [hi] are the
    moving box, [slo] and [shi] the obstacle. *)
Definition clip_step (lo hi slo shi movement : Z) : Z :=
  if d_lt d_0 movement && d_le hi slo then d_min movement (d_sub slo hi)
  else if d_lt movement d_0 && d_le shi lo then d_max movement (d_sub shi lo)
  else movement.

Definition clip_x (b : Aabb) (movement : Z) (boxes : list Aabb) : Z :=
  foldl (λ m s, if intersects_yz b s then clip_step (min_x b) (max_x b) (min_x s) (max_x s) m else m) movement boxes.
Definition clip_y (b : Aabb) (movement : Z) (boxes : list Aabb) : Z :=
  foldl (λ m s, if intersects_xz b s then clip_step (box_min_y b) (max_y b) (box_min_y s) (max_y s) m else m) movement boxes.
Definition clip_z (b : Aabb) (movement : Z) (boxes : list Aabb) : Z :=
  foldl (λ m s, if intersects_xy b s then clip_step (min_z b) (max_z b) (min_z s) (max_z s) m else m) movement boxes.

Definition clip_movement (b : Aabb) (movement : Vec3) (boxes : list Aabb) : Vec3 :=
  let y := clip_y b (v_y movement) boxes in
  let b := moved b d_0 y d_0 in
  if d_lt (d_abs (v_x movement)) (d_abs (v_z movement)) then
    let z := clip_z b (v_z movement) boxes in
    let x := clip_x (moved b d_0 d_0 z) (v_x movement) boxes in
    mkVec3 x y z
  else
    let x := clip_x b (v_x movement) boxes in
    let z := clip_z (moved b x d_0 d_0) (v_z movement) boxes in
    mkVec3 x y z.

Record CollisionResult : Type := mkCollision {
  cr_movement : Vec3;
  cr_horizontal_collision : bool;
  cr_vertical_collision : bool;
  cr_on_ground : bool;
}.

Definition collision_result (movement requested : Vec3) : CollisionResult :=
  let vertical_collision := negb (d_eq (v_y movement) (v_y requested)) in
  {| cr_movement := movement;
     cr_horizontal_collision := negb (d_eq (v_x movement) (v_x requested)) || negb (d_eq (v_z movement) (v_z requested));
     cr_vertical_collision := vertical_collision;
     cr_on_ground := vertical_collision && d_lt (v_y requested) d_0 |}.

Definition collide (b : Aabb) (movement : Vec3) (boxes : list Aabb) : CollisionResult :=
  collision_result (clip_movement b movement boxes) movement.

Definition vec_add (a b : Vec3) : Vec3 := mkVec3 (d_add (v_x a) (v_x b)) (d_add (v_y a) (v_y b)) (d_add (v_z a) (v_z b)).
Definition horizontal_sqr (v : Vec3) : Z := d_add (d_mul (v_x v) (v_x v)) (d_mul (v_z v) (v_z v)).

Definition expand_towards (b : Aabb) (dx dy dz : Z) : Aabb :=
  mkAabb (d_add (min_x b) (d_min dx d_0)) (d_add (box_min_y b) (d_min dy d_0)) (d_add (min_z b) (d_min dz d_0))
    (d_add (max_x b) (d_max dx d_0)) (d_add (max_y b) (d_max dy d_0)) (d_add (max_z b) (d_max dz d_0)).

Definition collide_with_step (b : Aabb) (movement : Vec3) (step_height : Z) (on_ground : bool) (boxes : list Aabb) : CollisionResult :=
  let base := clip_movement b movement boxes in
  let blocked_horizontally := negb (d_eq (v_x base) (v_x movement)) || negb (d_eq (v_z base) (v_z movement)) in
  let vertical_below := negb (d_eq (v_y base) (v_y movement)) && d_lt (v_y movement) d_0 in
  let can_step := on_ground || vertical_below in
  let chosen :=
    if d_lt d_0 step_height && can_step && blocked_horizontally then
      let stepped := clip_movement b (mkVec3 (v_x movement) step_height (v_z movement)) boxes in
      let lift := clip_movement (expand_towards b (v_x movement) d_0 (v_z movement)) (mkVec3 d_0 step_height d_0) boxes in
      let stepped :=
        if d_lt (v_y lift) step_height then
          let after_lift :=
            vec_add (clip_movement (moved b (v_x lift) (v_y lift) (v_z lift)) (mkVec3 (v_x movement) d_0 (v_z movement)) boxes) lift in
          if d_lt (horizontal_sqr stepped) (horizontal_sqr after_lift) then after_lift else stepped
        else stepped in
      if d_lt (horizontal_sqr base) (horizontal_sqr stepped) then
        let settle :=
          clip_movement (moved b (v_x stepped) (v_y stepped) (v_z stepped))
            (mkVec3 d_0 (d_add (d_neg (v_y stepped)) (v_y movement)) d_0) boxes in
        vec_add stepped settle
      else base
    else base in
  collision_result chosen movement.

(** ** Block tables *)

Definition DEFAULT_FRICTION : Z := d_lit 6 1.

Record CollisionData : Type := mkCollisionData {
  FRICTION_OVERRIDES : list (Z * Z * Z);
  STATE_SHAPES : list Z;
  SHAPE_RANGES : list (Z * Z);
  SHAPE_BOXES : list Aabb;
}.

Section tables.
Context (data : CollisionData).

Definition block_friction (state_id : Z) : Z :=
  match List.find (λ '(lo, hi, _), (lo <=? state_id) && (state_id <=? hi)) (FRICTION_OVERRIDES data) with
  | Some (_, _, friction) => d_of_s friction
  | None => DEFAULT_FRICTION
  end.

(** [slice.get(start..start + count)]. *)
Definition shape_boxes (start count : Z) : option (list Aabb) :=
  if (start + count <=? Z.of_nat (length (SHAPE_BOXES data))) && (0 <=? start) && (0 <=? count)
  then Some (take (Z.to_nat count) (drop (Z.to_nat start) (SHAPE_BOXES data))) else None.

Definition collision_boxes (state_id : Z) : option (list Aabb) :=
  shape ← STATE_SHAPES data !! Z.to_nat state_id;
  '(start, count) ← SHAPE_RANGES data !! Z.to_nat shape;
  shape_boxes start count.

(** ** The blocks a box touches *)

(** [lo..hi] as a range of [i32]. *)
Definition range (lo hi : Z) : list Z := (λ i, lo + Z.of_nat i) <$> seq 0 (Z.to_nat (hi - lo)).

(** The positions of the three nested loops, in order. *)
Definition touched (area : Aabb) : list (Z * Z * Z) :=
  y ← range (d_floor_i32 (box_min_y area)) (d_ceil_i32 (max_y area));
  z ← range (d_floor_i32 (min_z area)) (d_ceil_i32 (max_z area));
  (λ x, (x, y, z)) <$> range (d_floor_i32 (min_x area)) (d_ceil_i32 (max_x area)).

(** The loop: [Ok None] when a block is not loaded. *)
Fixpoint gather (block : Z → Z → Z → option Z) (ps : list (Z * Z * Z)) (out : list Aabb) : result MineRiderError (option (list Aabb)) :=
  match ps with
  | [] => Ok (Some out)
  | (x, y, z) :: ps =>
      match block x y z with
      | None => Ok None
      | Some state =>
          match collision_boxes state with
          | None => Err Protocol
          | Some shapes => gather block ps (out ++ map (λ s, moved s (d_of_Z x) (d_of_Z y) (d_of_Z z)) shapes)
          end
      end
  end.

Definition world_collision_boxes (w : World) (env : Env) (area : Aabb) : result MineRiderError (option (list Aabb)) :=
  gather (block_state w env) (touched area) [].
End tables.

(** ** Clipping *)

(** A movement along one axis, clipped against obstacles that are intervals
    of the axis. *)
Definition clip (lo hi movement : Z) (obstacles : list (Z * Z)) : Z :=
  foldl (λ m o, clip_step lo hi o.1 o.2 m) movement obstacles.

Definition is_number (a : Z) : Prop := float_is_nan (f64_val a) = false.

(** The result of a correct clip: it is the movement or the gap to an
    obstacle; it goes the way of the movement, not further than it, and not
    further than the gap to any obstacle that lies ahead. *)
Record clipped (lo hi movement : Z) (obstacles : list (Z * Z)) (r : Z) : Prop := {
  cl_source : r = movement ∨ ∃ o, o ∈ obstacles ∧ (r = d_sub o.1 hi ∨ r = d_sub o.2 lo);
  cl_forward : d_lt d_0 movement = true →
    d_le d_0 r = true ∧ d_le r movement = true
    ∧ ∀ o, o ∈ obstacles → d_le hi o.1 = true → is_number (d_sub o.1 hi) → d_le r (d_sub o.1 hi) = true;
  cl_backward : d_lt movement d_0 = true →
    d_le r d_0 = true ∧ d_le movement r = true
    ∧ ∀ o, o ∈ obstacles → d_le o.2 lo = true → is_number (d_sub o.2 lo) → d_le (d_sub o.2 lo) r = true;
  cl_still : d_lt d_0 movement = false → d_lt movement d_0 = false → r = movement;
}.

Lemma d_le_trans a b c : d_le a b = true → d_le b c = true → d_le a c = true.
Proof. apply SFleb_trans. Qed.

Lemma d_le_refl a : is_number a → d_le a a = true.
Proof. apply SFleb_refl. Qed.

Lemma d_le_not_lt a b : d_le a b = true → d_lt b a = false.
Proof.
  unfold d_le, d_lt, SFleb, SFltb. rewrite (SFcompare_antisym (f64_val a)). by destruct (SFcompare (f64_val a) (f64_val b)) as [[]|].
Qed.

Lemma d_not_lt_le a b : d_lt a b = false → is_number a → is_number b → d_le b a = true.
Proof. apply SFltb_false. Qed.

Lemma d_le_number a b : d_le a b = true → is_number a ∧ is_number b.
Proof. apply SFleb_not_nan. Qed.

(** The smaller of the two, or the first when the second is not a number. *)
Lemma d_min_cases a g :
  is_number a → (d_min a g = g ∧ d_le g a = true) ∨ (d_min a g = a ∧ (is_number g → d_le a g = true)).
Proof.
  intros Ha. unfold d_min. rewrite Ha. change (SFltb (f64_val g) (f64_val a)) with (d_lt g a).
  destruct (d_lt g a) eqn:Hl; [left|right]; split; try done; [by apply SFltb_leb|]. intros Hg. by apply d_not_lt_le.
Qed.

Lemma d_max_cases a g :
  is_number a → (d_max a g = g ∧ d_le a g = true) ∨ (d_max a g = a ∧ (is_number g → d_le g a = true)).
Proof.
  intros Ha. unfold d_max. rewrite Ha. change (SFltb (f64_val a) (f64_val g)) with (d_lt a g).
  destruct (d_lt a g) eqn:Hl; [left|right]; split; try done; [by apply SFltb_leb|]. intros Hg. by apply d_not_lt_le.
Qed.

Lemma number_0 : is_number d_0.
Proof. done. Qed.

(** One obstacle, for a movement that goes forward. *)
Lemma clip_step_forward lo hi slo shi m :
  d_le d_0 m = true →
  let r := clip_step lo hi slo shi m in
  (r = m ∨ r = d_sub slo hi) ∧ d_le d_0 r = true ∧ d_le r m = true
  ∧ (d_le hi slo = true → is_number (d_sub slo hi) → d_le r (d_sub slo hi) = true).
Proof.
  intros H0. destruct (d_le_number _ _ H0) as [_ Hm]. unfold clip_step. rewrite (d_le_not_lt _ _ H0), andb_false_l.
  destruct (d_lt d_0 m) eqn:Hlt; cbn [andb].
  - destruct (d_le hi slo) eqn:Hle; [|split_and!; auto using d_le_refl; done].
    destruct (d_min_cases m (d_sub slo hi) Hm) as [[-> Hg]|[-> Hg]].
    + destruct (d_le_number _ _ Hg) as [Hn _]. split_and!; auto using d_le_refl, d_sub_nonneg.
    + split_and!; auto using d_le_refl.
  - split_and!; auto using d_le_refl. intros Hle Hn. eapply d_le_trans; [|by apply d_sub_nonneg]. apply d_not_lt_le; auto using number_0.
Qed.

Lemma clip_step_backward lo hi slo shi m :
  d_le m d_0 = true →
  let r := clip_step lo hi slo shi m in
  (r = m ∨ r = d_sub shi lo) ∧ d_le r d_0 = true ∧ d_le m r = true
  ∧ (d_le shi lo = true → is_number (d_sub shi lo) → d_le (d_sub shi lo) r = true).
Proof.
  intros H0. destruct (d_le_number _ _ H0) as [Hm _]. unfold clip_step. rewrite (d_le_not_lt _ _ H0), andb_false_l.
  destruct (d_lt m d_0) eqn:Hlt; cbn [andb].
  - destruct (d_le shi lo) eqn:Hle; [|split_and!; auto using d_le_refl; done].
    destruct (d_max_cases m (d_sub shi lo) Hm) as [[-> Hg]|[-> Hg]].
    + destruct (d_le_number _ _ Hg) as [_ Hn]. split_and!; auto using d_le_refl, d_sub_nonpos.
    + split_and!; auto using d_le_refl.
  - split_and!; auto using d_le_refl. intros Hle Hn. eapply d_le_trans; [by apply d_sub_nonpos|]. apply d_not_lt_le; auto using number_0.
Qed.

Lemma clip_clipped lo hi movement obstacles : clipped lo hi movement obstacles (clip lo hi movement obstacles).
Proof.
  induction obstacles as [|o obstacles IH] using rev_ind.
  - split; simpl; auto; intros Hm; apply SFltb_leb in Hm as Hle; destruct (d_le_number _ _ Hle); split_and!; auto using d_le_refl;
      by intros o Ho%elem_of_nil.
  - unfold clip in *. rewrite foldl_app. simpl. set (m := foldl _ movement obstacles) in *. destruct IH as [Hs Hf Hb Hst].
    assert (clip_step lo hi o.1 o.2 m = m ∨ clip_step lo hi o.1 o.2 m = d_sub o.1 hi ∨ clip_step lo hi o.1 o.2 m = d_sub o.2 lo) as Hc.
    { unfold clip_step, d_min, d_max. repeat case_match; auto. }
    split.
    + destruct Hc as [->|Hc]; [|right; exists o; set_solver]. destruct Hs as [Hs|(o' & Ho' & Hs)]; [by left|]. right. exists o'. set_solver.
    + intros Hm. destruct (Hf Hm) as (H0 & Hle & Ho). destruct (clip_step_forward lo hi o.1 o.2 m H0) as (_ & H1 & H2 & H3).
      split_and!; [done|by eapply d_le_trans|]. intros o' [Hin|Hin]%elem_of_app Hh Hn; [eapply d_le_trans; eauto|].
      apply list_elem_of_singleton in Hin as ->. auto.
    + intros Hm. destruct (Hb Hm) as (H0 & Hle & Ho). destruct (clip_step_backward lo hi o.1 o.2 m H0) as (_ & H1 & H2 & H3).
      split_and!; [done|by eapply d_le_trans|]. intros o' [Hin|Hin]%elem_of_app Hh Hn; [eapply d_le_trans; eauto|].
      apply list_elem_of_singleton in Hin as ->. auto.
    + intros H1 H2. rewrite (Hst H1 H2). unfold clip_step. by rewrite H1, H2.
Qed.

(** The boxes that are in the way on an axis, as intervals of it. *)
Definition ahead_x (b : Aabb) (boxes : list Aabb) : list (Z * Z) :=
  map (λ s, (min_x s, max_x s)) (List.filter (intersects_yz b) boxes).
Definition ahead_y (b : Aabb) (boxes : list Aabb) : list (Z * Z) :=
  map (λ s, (box_min_y s, max_y s)) (List.filter (intersects_xz b) boxes).
Definition ahead_z (b : Aabb) (boxes : list Aabb) : list (Z * Z) :=
  map (λ s, (min_z s, max_z s)) (List.filter (intersects_xy b) boxes).

(** A loop over all boxes that skips some is the clip against the others. *)
Lemma clip_filter lo hi (hit : Aabb → bool) (span : Aabb → Z * Z) boxes movement :
  foldl (λ m s, if hit s then clip_step lo hi (span s).1 (span s).2 m else m) movement boxes
  = clip lo hi movement (map span (List.filter hit boxes)).
Proof.
  unfold clip. revert movement. induction boxes as [|s boxes IH]; intros m; [done|]. simpl. destruct (hit s); apply IH.
Qed.

Definition clipped_x (b : Aabb) (boxes : list Aabb) : Z → Z → Prop := λ m, clipped (min_x b) (max_x b) m (ahead_x b boxes).
Definition clipped_y (b : Aabb) (boxes : list Aabb) : Z → Z → Prop := λ m, clipped (box_min_y b) (max_y b) m (ahead_y b boxes).
Definition clipped_z (b : Aabb) (boxes : list Aabb) : Z → Z → Prop := λ m, clipped (min_z b) (max_z b) m (ahead_z b boxes).

(** C6. Collisions are resolved axis by axis, vertical first and then the
    larger horizontal part, each against the boxes that the player, moved so
    far, would hit.  On each axis the result is the movement asked for or
    the gap to one box, as the machine subtracts; it never turns around, is never longer than
    asked and never longer than the gap to any box ahead, so the player stops
    at the nearest one.  Holds for every value, infinities and values that
    are no numbers included. *)
Theorem clip_movement_stops b movement boxes :
  let r := clip_movement b movement boxes in
  let b1 := moved b d_0 (v_y r) d_0 in
  clipped_y b boxes (v_y movement) (v_y r)
  ∧ if d_lt (d_abs (v_x movement)) (d_abs (v_z movement))
    then clipped_z b1 boxes (v_z movement) (v_z r) ∧ clipped_x (moved b1 d_0 d_0 (v_z r)) boxes (v_x movement) (v_x r)
    else clipped_x b1 boxes (v_x movement) (v_x r) ∧ clipped_z (moved b1 (v_x r) d_0 d_0) boxes (v_z movement) (v_z r).
Proof.
  assert (∀ b m, clipped_x b boxes m (clip_x b m boxes)) as Hx.
  { intros b' m. unfold clip_x. rewrite (clip_filter _ _ (intersects_yz b') (λ s, (min_x s, max_x s))). apply clip_clipped. }
  assert (∀ b m, clipped_y b boxes m (clip_y b m boxes)) as Hy.
  { intros b' m. unfold clip_y. rewrite (clip_filter _ _ (intersects_xz b') (λ s, (box_min_y s, max_y s))). apply clip_clipped. }
  assert (∀ b m, clipped_z b boxes m (clip_z b m boxes)) as Hz.
  { intros b' m. unfold clip_z. rewrite (clip_filter _ _ (intersects_xy b') (λ s, (min_z s, max_z s))). apply clip_clipped. }
  unfold clip_movement. destruct (d_lt (d_abs (v_x movement)) (d_abs (v_z movement))); cbn [v_x v_y v_z];
    (split; [apply Hy|split; [by auto|by auto]]).
Qed.
