(* ===== verification/CollisionTables.v ===== *)
(** * The collision tables

    [src/minecraft/collision_data.rs]: the boxes of every block shape, the
    ranges of them that make a shape, the shape of every block state and the
    blocks with a friction of their own, row by row.  [CollisionLaws] checks
    what the lookups of [Physics] rely on. *)

From S2P Require Import Prelude Machine Float Physics.

Local Open Scope Z_scope.

Definition STATE_COUNT : Z := 27866.

(** The coordinates that occur, as [f64] bits. *)
Definition f_m0_25 : Z := Eval vm_compute in d_neg (d_lit 25 2).
Definition f_m0_0625 : Z := Eval vm_compute in d_neg (d_lit 625 4).
Definition f_0_0 : Z := Eval vm_compute in d_of_Z 0.
Definition f_0_0625 : Z := Eval vm_compute in d_lit 625 4.
Definition f_0_09375 : Z := Eval vm_compute in d_lit 9375 5.
Definition f_0_125 : Z := Eval vm_compute in d_lit 125 3.
Definition f_0_15625 : Z := Eval vm_compute in d_lit 15625 5.
Definition f_0_1875 : Z := Eval vm_compute in d_lit 1875 4.
Definition f_0_25 : Z := Eval vm_compute in d_lit 25 2.
Definition f_0_3125 : Z := Eval vm_compute in d_lit 3125 4.
Definition f_0_34375 : Z := Eval vm_compute in d_lit 34375 5.
Definition f_0_375 : Z := Eval vm_compute in d_lit 375 3.
Definition f_0_40625 : Z := Eval vm_compute in d_lit 40625 5.
Definition f_0_4375 : Z := Eval vm_compute in d_lit 4375 4.
Definition f_0_5 : Z := Eval vm_compute in d_lit 5 1.
Definition f_0_5625 : Z := Eval vm_compute in d_lit 5625 4.
Definition f_0_59375 : Z := Eval vm_compute in d_lit 59375 5.
Definition f_0_625 : Z := Eval vm_compute in d_lit 625 3.
Definition f_0_6875 : Z := Eval vm_compute in d_lit 6875 4.
Definition f_0_75 : Z := Eval vm_compute in d_lit 75 2.
Definition f_0_8125 : Z := Eval vm_compute in d_lit 8125 4.
Definition f_0_875 : Z := Eval vm_compute in d_lit 875 3.
Definition f_0_9375 : Z := Eval vm_compute in d_lit 9375 4.
Definition f_1_0 : Z := Eval vm_compute in d_of_Z 1.
Definition f_1_25 : Z := Eval vm_compute in d_lit 125 2.
Definition f_1_5 : Z := Eval vm_compute in d_lit 15 1.

Definition SHAPE_BOXES_0 : list Aabb :=
  [mkAabb f_0_0 f_0_0 f_0_0 f_1_0 f_1_0 f_1_0;
   mkAabb f_0_0 f_0_0 f_0_0 f_0_1875 f_0_5625 f_0_1875;
   mkAabb f_0_8125 f_0_0 f_0_0 f_1_0 f_0_5625 f_0_1875;
   mkAabb f_0_0 f_0_1875 f_0_1875 f_1_0 f_0_5625 f_1_0;
   mkAabb f_0_1875 f_0_1875 f_0_0 f_0_8125 f_0_5625 f_0_1875;
   mkAabb f_0_0 f_0_0 f_0_8125 f_0_1875 f_0_5625 f_1_0;
   mkAabb f_0_8125 f_0_0 f_0_8125 f_1_0 f_0_5625 f_1_0;
   mkAabb f_0_0 f_0_1875 f_0_0 f_1_0 f_0_5625 f_0_8125;
   mkAabb f_0_1875 f_0_1875 f_0_8125 f_0_8125 f_0_5625 f_1_0;
   mkAabb f_0_0 f_0_0 f_0_0 f_0_1875 f_0_5625 f_0_1875;
   mkAabb f_0_0 f_0_0 f_0_8125 f_0_1875 f_0_5625 f_1_0;
   mkAabb f_0_0 f_0_1875 f_0_1875 f_1_0 f_0_5625 f_0_8125;
   mkAabb f_0_1875 f_0_1875 f_0_0 f_1_0 f_0_5625 f_0_1875;
   mkAabb f_0_1875 f_0_1875 f_0_8125 f_1_0 f_0_5625 f_1_0;
   mkAabb f_0_8125 f_0_0 f_0_0 f_1_0 f_0_5625 f_0_1875;
   mkAabb f_0_8125 f_0_0 f_0_8125 f_1_0 f_0_5625 f_1_0;
   mkAabb f_0_0 f_0_1875 f_0_0 f_0_8125 f_0_5625 f_1_0;
   mkAabb f_0_8125 f_0_1875 f_0_1875 f_1_0 f_0_5625 f_0_8125;
   mkAabb f_0_0 f_0_0 f_0_25 f_1_0 f_1_0 f_1_0;
   mkAabb f_0_0 f_0_0 f_0_0 f_0_75 f_1_0 f_1_0;
   mkAabb f_0_0 f_0_0 f_0_0 f_1_0 f_1_0 f_0_75;
   mkAabb f_0_25 f_0_0 f_0_0 f_1_0 f_1_0 f_1_0;
   mkAabb f_0_0 f_0_0 f_0_0 f_1_0 f_0_75 f_1_0;
   mkAabb f_0_0 f_0_25 f_0_0 f_1_0 f_1_0 f_1_0;
   mkAabb f_0_0 f_0_0 f_0_0 f_1_0 f_1_0 f_0_25;
   mkAabb f_0_375 f_0_375 f_0_25 f_0_625 f_0_625 f_1_0;
   mkAabb f_0_0 f_0_0 f_0_0 f_1_0 f_1_0 f_0_25;
   mkAabb f_0_375 f_0_375 f_0_25 f_0_625 f_0_625 f_1_25;
   mkAabb f_0_75 f_0_0 f_0_0 f_1_0 f_1_0 f_1_0;
   mkAabb f_0_0 f_0_375 f_0_375 f_0_75 f_0_625 f_0_625;
   mkAabb f_0_75 f_0_0 f_0_0 f_1_0 f_1_0 f_1_0;
   mkAabb f_m0_25 f_0_375 f_0_375 f_0_75 f_0_625 f_0_625;
   mkAabb f_0_0 f_0_0 f_0_75 f_1_0 f_1_0 f_1_0;
   mkAabb f_0_375 f_0_375 f_0_0 f_0_625 f_0_625 f_0_75;
   mkAabb f_0_0 f_0_0 f_0_75 f_1_0 f_1_0 f_1_0;
   mkAabb f_0_375 f_0_375 f_m0_25 f_0_625 f_0_625 f_0_75;
   mkAabb f_0_0 f_0_0 f_0_0 f_0_25 f_1_0 f_1_0;
   mkAabb f_0_25 f_0_375 f_0_375 f_1_0 f_0_625 f_0_625;
   mkAabb f_0_0 f_0_0 f_0_0 f_0_25 f_1_0 f_1_0;
   mkAabb f_0_25 f_0_375 f_0_375 f_1_25 f_0_625 f_0_625;
   mkAabb f_0_375 f_0_0 f_0_375 f_0_625 f_1_0 f_0_625;
   mkAabb f_0_0 f_0_75 f_0_0 f_0_375 f_1_0 f_1_0;
   mkAabb f_0_375 f_0_75 f_0_0 f_1_0 f_1_0 f_0_375;
   mkAabb f_0_375 f_0_75 f_0_625 f_1_0 f_1_0 f_1_0;
   mkAabb f_0_625 f_0_75 f_0_375 f_1_0 f_1_0 f_0_625;
   mkAabb f_0_375 f_m0_25 f_0_375 f_0_625 f_1_0 f_0_625;
   mkAabb f_0_0 f_0_75 f_0_0 f_0_375 f_1_0 f_1_0;
   mkAabb f_0_375 f_0_75 f_0_0 f_1_0 f_1_0 f_0_375;
   mkAabb f_0_375 f_0_75 f_0_625 f_1_0 f_1_0 f_1_0;
   mkAabb f_0_625 f_0_75 f_0_375 f_1_0 f_1_0 f_0_625;
   mkAabb f_0_0 f_0_0 f_0_0 f_1_0 f_0_25 f_1_0;
   mkAabb f_0_375 f_0_25 f_0_375 f_0_625 f_1_0 f_0_625;
   mkAabb f_0_0 f_0_0 f_0_0 f_1_0 f_0_25 f_1_0;
   mkAabb f_0_375 f_0_25 f_0_375 f_0_625 f_1_25 f_0_625;
   mkAabb f_0_0 f_0_0 f_0_0 f_1_0 f_1_0 f_0_5;
   mkAabb f_0_0 f_0_5 f_0_5 f_1_0 f_1_0 f_1_0;
   mkAabb f_0_0 f_0_0 f_0_0 f_0_5 f_1_0 f_1_0;
   mkAabb f_0_5 f_0_0 f_0_0 f_1_0 f_1_0 f_0_5;
   mkAabb f_0_5 f_0_5 f_0_5 f_1_0 f_1_0 f_1_0;
   mkAabb f_0_0 f_0_0 f_0_0 f_1_0 f_1_0 f_0_5;
   mkAabb f_0_5 f_0_0 f_0_5 f_1_0 f_1_0 f_1_0;
   mkAabb f_0_0 f_0_5 f_0_5 f_0_5 f_1_0 f_1_0;
   mkAabb f_0_0 f_0_0 f_0_0 f_0_5 f_1_0 f_0_5;
   mkAabb f_0_0 f_0_5 f_0_5 f_1_0 f_1_0 f_1_0;
   mkAabb f_0_5 f_0_5 f_0_0 f_1_0 f_1_0 f_0_5;
   mkAabb f_0_5 f_0_0 f_0_0 f_1_0 f_1_0 f_0_5;
   mkAabb f_0_0 f_0_5 f_0_0 f_0_5 f_1_0 f_1_0;
   mkAabb f_0_5 f_0_5 f_0_5 f_1_0 f_1_0 f_1_0;
   mkAabb f_0_0 f_0_0 f_0_0 f_1_0 f_0_5 f_1_0;
   mkAabb f_0_0 f_0_5 f_0_0 f_1_0 f_1_0 f_0_5;
   mkAabb f_0_0 f_0_0 f_0_0 f_1_0 f_0_5 f_1_0;
   mkAabb f_0_0 f_0_5 f_0_0 f_0_5 f_1_0 f_1_0;
   mkAabb f_0_5 f_0_5 f_0_0 f_1_0 f_1_0 f_0_5;
   mkAabb f_0_0 f_0_0 f_0_0 f_1_0 f_0_5 f_1_0;
   mkAabb f_0_0 f_0_5 f_0_0 f_1_0 f_1_0 f_0_5;
   mkAabb f_0_5 f_0_5 f_0_5 f_1_0 f_1_0 f_1_0;
   mkAabb f_0_0 f_0_0 f_0_0 f_1_0 f_0_5 f_1_0;
   mkAabb f_0_0 f_0_5 f_0_0 f_0_5 f_1_0 f_0_5;
   mkAabb f_0_0 f_0_0 f_0_0 f_1_0 f_0_5 f_1_0;
   mkAabb f_0_5 f_0_5 f_0_0 f_1_0 f_1_0 f_0_5;
   mkAabb f_0_0 f_0_0 f_0_5 f_1_0 f_1_0 f_1_0;
   mkAabb f_0_0 f_0_5 f_0_0 f_1_0 f_1_0 f_0_5;
   mkAabb f_0_0 f_0_0 f_0_5 f_1_0 f_1_0 f_1_0;
   mkAabb f_0_5 f_0_0 f_0_0 f_1_0 f_1_0 f_0_5;
   mkAabb f_0_0 f_0_5 f_0_0 f_0_5 f_1_0 f_0_5;
   mkAabb f_0_0 f_0_0 f_0_0 f_0_5 f_1_0 f_1_0;
   mkAabb f_0_5 f_0_0 f_0_5 f_1_0 f_1_0 f_1_0;
   mkAabb f_0_5 f_0_5 f_0_0 f_1_0 f_1_0 f_0_5;
   mkAabb f_0_5 f_0_0 f_0_5 f_1_0 f_1_0 f_1_0;
   mkAabb f_0_0 f_0_5 f_0_0 f_0_5 f_1_0 f_1_0;
   mkAabb f_0_5 f_0_5 f_0_0 f_1_0 f_1_0 f_0_5;
   mkAabb f_0_0 f_0_0 f_0_5 f_0_5 f_1_0 f_1_0;
   mkAabb f_0_0 f_0_5 f_0_0 f_1_0 f_1_0 f_0_5;
   mkAabb f_0_5 f_0_5 f_0_5 f_1_0 f_1_0 f_1_0;
   mkAabb f_0_0 f_0_0 f_0_0 f_1_0 f_0_5 f_1_0;
   mkAabb f_0_0 f_0_5 f_0_5 f_1_0 f_1_0 f_1_0;
   mkAabb f_0_0 f_0_0 f_0_0 f_1_0 f_0_5 f_1_0;
   mkAabb f_0_0 f_0_5 f_0_5 f_1_0 f_1_0 f_1_0;
   mkAabb f_0_5 f_0_5 f_0_0 f_1_0 f_1_0 f_0_5;
   mkAabb f_0_0 f_0_0 f_0_0 f_1_0 f_0_5 f_1_0;
   mkAabb f_0_0 f_0_5 f_0_0 f_0_5 f_1_0 f_1_0;
   mkAabb f_0_5 f_0_5 f_0_5 f_1_0 f_1_0 f_1_0;
   mkAabb f_0_0 f_0_0 f_0_0 f_1_0 f_0_5 f_1_0;
   mkAabb f_0_5 f_0_5 f_0_5 f_1_0 f_1_0 f_1_0;
   mkAabb f_0_0 f_0_0 f_0_0 f_1_0 f_0_5 f_1_0;
   mkAabb f_0_0 f_0_5 f_0_5 f_0_5 f_1_0 f_1_0;
   mkAabb f_0_0 f_0_0 f_0_0 f_0_5 f_1_0 f_1_0;
   mkAabb f_0_5 f_0_5 f_0_0 f_1_0 f_1_0 f_1_0;
   mkAabb f_0_0 f_0_0 f_0_0 f_1_0 f_0_5 f_1_0;
   mkAabb f_0_0 f_0_5 f_0_0 f_0_5 f_1_0 f_1_0;
   mkAabb f_0_5 f_0_0 f_0_0 f_1_0 f_1_0 f_1_0;
   mkAabb f_0_0 f_0_5 f_0_0 f_0_5 f_1_0 f_1_0;
   mkAabb f_0_0 f_0_0 f_0_0 f_1_0 f_0_5 f_1_0;
   mkAabb f_0_5 f_0_5 f_0_0 f_1_0 f_1_0 f_1_0;
   mkAabb f_0_0625 f_0_0 f_0_0625 f_0_9375 f_0_875 f_0_9375;
   mkAabb f_0_0625 f_0_0 f_0_0625 f_1_0 f_0_875 f_0_9375;
   mkAabb f_0_0 f_0_0 f_0_0625 f_0_9375 f_0_875 f_0_9375;
   mkAabb f_0_0625 f_0_0 f_0_0 f_0_9375 f_0_875 f_0_9375;
   mkAabb f_0_0625 f_0_0 f_0_0625 f_0_9375 f_0_875 f_1_0;
   mkAabb f_0_0 f_0_0 f_0_0 f_1_0 f_0_9375 f_1_0;
   mkAabb f_0_0 f_0_0 f_0_0 f_0_1875 f_1_0 f_1_0;
   mkAabb f_0_0 f_0_0 f_0_8125 f_1_0 f_1_0 f_1_0;
   mkAabb f_0_8125 f_0_0 f_0_0 f_1_0 f_1_0 f_1_0;
   mkAabb f_0_0 f_0_0 f_0_0 f_1_0 f_1_0 f_0_1875;
   mkAabb f_0_0 f_0_0 f_0_8125 f_1_0 f_1_0 f_1_0;
   mkAabb f_0_0 f_0_0 f_0_0 f_1_0 f_1_0 f_0_1875;
   mkAabb f_0_8125 f_0_0 f_0_0 f_1_0 f_1_0 f_1_0;
   mkAabb f_0_0 f_0_0 f_0_0 f_0_1875 f_1_0 f_1_0;
   mkAabb f_0_0 f_0_875 f_0_375 f_1_0 f_1_0 f_0_625;
   mkAabb f_0_375 f_0_875 f_0_0 f_0_625 f_1_0 f_1_0;
   mkAabb f_0_0 f_0_0 f_0_0 f_1_0 f_0_125 f_1_0;
   mkAabb f_0_0 f_0_0 f_0_0 f_1_0 f_0_25 f_1_0;
   mkAabb f_0_0 f_0_0 f_0_0 f_1_0 f_0_375 f_1_0;
   mkAabb f_0_0 f_0_0 f_0_0 f_1_0 f_0_5 f_1_0;
   mkAabb f_0_0 f_0_0 f_0_0 f_1_0 f_0_625 f_1_0;
   mkAabb f_0_0 f_0_0 f_0_0 f_1_0 f_0_75 f_1_0;
   mkAabb f_0_0 f_0_0 f_0_0 f_1_0 f_0_875 f_1_0;
   mkAabb f_0_0625 f_0_0 f_0_0625 f_0_9375 f_0_9375 f_0_9375;
   mkAabb f_0_0 f_0_0 f_0_375 f_1_0 f_1_5 f_0_625;
   mkAabb f_0_375 f_0_0 f_0_0 f_0_625 f_1_5 f_0_375;
   mkAabb f_0_375 f_0_0 f_0_625 f_0_625 f_1_5 f_1_0;
   mkAabb f_0_375 f_0_0 f_0_0 f_0_625 f_1_5 f_1_0;
   mkAabb f_0_625 f_0_0 f_0_375 f_1_0 f_1_5 f_0_625;
   mkAabb f_0_0 f_0_0 f_0_375 f_1_0 f_1_5 f_0_625;
   mkAabb f_0_375 f_0_0 f_0_0 f_0_625 f_1_5 f_0_375;
   mkAabb f_0_375 f_0_0 f_0_0 f_0_625 f_1_5 f_0_625;
   mkAabb f_0_625 f_0_0 f_0_375 f_1_0 f_1_5 f_0_625;
   mkAabb f_0_0 f_0_0 f_0_375 f_1_0 f_1_5 f_0_625;
   mkAabb f_0_375 f_0_0 f_0_625 f_0_625 f_1_5 f_1_0;
   mkAabb f_0_375 f_0_0 f_0_375 f_0_625 f_1_5 f_1_0].
Definition SHAPE_BOXES_1 : list Aabb :=
  [mkAabb f_0_625 f_0_0 f_0_375 f_1_0 f_1_5 f_0_625;
   mkAabb f_0_0 f_0_0 f_0_375 f_1_0 f_1_5 f_0_625;
   mkAabb f_0_375 f_0_0 f_0_375 f_1_0 f_1_5 f_0_625;
   mkAabb f_0_0 f_0_0 f_0_375 f_0_625 f_1_5 f_0_625;
   mkAabb f_0_375 f_0_0 f_0_0 f_0_625 f_1_5 f_0_375;
   mkAabb f_0_375 f_0_0 f_0_625 f_0_625 f_1_5 f_1_0;
   mkAabb f_0_375 f_0_0 f_0_0 f_0_625 f_1_5 f_1_0;
   mkAabb f_0_0 f_0_0 f_0_375 f_0_625 f_1_5 f_0_625;
   mkAabb f_0_375 f_0_0 f_0_0 f_0_625 f_1_5 f_0_375;
   mkAabb f_0_375 f_0_0 f_0_0 f_0_625 f_1_5 f_0_625;
   mkAabb f_0_0 f_0_0 f_0_375 f_0_625 f_1_5 f_0_625;
   mkAabb f_0_375 f_0_0 f_0_625 f_0_625 f_1_5 f_1_0;
   mkAabb f_0_375 f_0_0 f_0_375 f_0_625 f_1_5 f_1_0;
   mkAabb f_0_0 f_0_0 f_0_375 f_0_625 f_1_5 f_0_625;
   mkAabb f_0_375 f_0_0 f_0_375 f_0_625 f_1_5 f_0_625;
   mkAabb f_0_0 f_0_0 f_0_0 f_1_0 f_0_875 f_1_0;
   mkAabb f_0_0625 f_0_0 f_0_0625 f_0_9375 f_0_5 f_0_9375;
   mkAabb f_0_1875 f_0_0 f_0_0625 f_0_9375 f_0_5 f_0_9375;
   mkAabb f_0_3125 f_0_0 f_0_0625 f_0_9375 f_0_5 f_0_9375;
   mkAabb f_0_4375 f_0_0 f_0_0625 f_0_9375 f_0_5 f_0_9375;
   mkAabb f_0_5625 f_0_0 f_0_0625 f_0_9375 f_0_5 f_0_9375;
   mkAabb f_0_6875 f_0_0 f_0_0625 f_0_9375 f_0_5 f_0_9375;
   mkAabb f_0_8125 f_0_0 f_0_0625 f_0_9375 f_0_5 f_0_9375;
   mkAabb f_0_0 f_0_0 f_0_0 f_1_0 f_0_125 f_1_0;
   mkAabb f_0_0 f_0_0 f_0_8125 f_1_0 f_1_0 f_1_0;
   mkAabb f_0_0 f_0_8125 f_0_0 f_1_0 f_1_0 f_1_0;
   mkAabb f_0_0 f_0_0 f_0_0 f_1_0 f_0_1875 f_1_0;
   mkAabb f_0_0 f_0_0 f_0_0 f_1_0 f_1_0 f_0_1875;
   mkAabb f_0_8125 f_0_0 f_0_0 f_1_0 f_1_0 f_1_0;
   mkAabb f_0_0 f_0_0 f_0_0 f_0_1875 f_1_0 f_1_0;
   mkAabb f_0_0 f_0_0 f_0_4375 f_1_0 f_1_0 f_0_5625;
   mkAabb f_0_4375 f_0_0 f_0_0 f_0_5625 f_1_0 f_0_4375;
   mkAabb f_0_4375 f_0_0 f_0_5625 f_0_5625 f_1_0 f_1_0;
   mkAabb f_0_4375 f_0_0 f_0_0 f_0_5625 f_1_0 f_1_0;
   mkAabb f_0_5625 f_0_0 f_0_4375 f_1_0 f_1_0 f_0_5625;
   mkAabb f_0_0 f_0_0 f_0_4375 f_1_0 f_1_0 f_0_5625;
   mkAabb f_0_4375 f_0_0 f_0_0 f_0_5625 f_1_0 f_0_4375;
   mkAabb f_0_4375 f_0_0 f_0_0 f_0_5625 f_1_0 f_0_5625;
   mkAabb f_0_5625 f_0_0 f_0_4375 f_1_0 f_1_0 f_0_5625;
   mkAabb f_0_0 f_0_0 f_0_4375 f_1_0 f_1_0 f_0_5625;
   mkAabb f_0_4375 f_0_0 f_0_5625 f_0_5625 f_1_0 f_1_0;
   mkAabb f_0_4375 f_0_0 f_0_4375 f_0_5625 f_1_0 f_1_0;
   mkAabb f_0_5625 f_0_0 f_0_4375 f_1_0 f_1_0 f_0_5625;
   mkAabb f_0_0 f_0_0 f_0_4375 f_1_0 f_1_0 f_0_5625;
   mkAabb f_0_4375 f_0_0 f_0_4375 f_1_0 f_1_0 f_0_5625;
   mkAabb f_0_0 f_0_0 f_0_4375 f_0_5625 f_1_0 f_0_5625;
   mkAabb f_0_4375 f_0_0 f_0_0 f_0_5625 f_1_0 f_0_4375;
   mkAabb f_0_4375 f_0_0 f_0_5625 f_0_5625 f_1_0 f_1_0;
   mkAabb f_0_4375 f_0_0 f_0_0 f_0_5625 f_1_0 f_1_0;
   mkAabb f_0_0 f_0_0 f_0_4375 f_0_5625 f_1_0 f_0_5625;
   mkAabb f_0_4375 f_0_0 f_0_0 f_0_5625 f_1_0 f_0_4375;
   mkAabb f_0_4375 f_0_0 f_0_0 f_0_5625 f_1_0 f_0_5625;
   mkAabb f_0_0 f_0_0 f_0_4375 f_0_5625 f_1_0 f_0_5625;
   mkAabb f_0_4375 f_0_0 f_0_5625 f_0_5625 f_1_0 f_1_0;
   mkAabb f_0_4375 f_0_0 f_0_4375 f_0_5625 f_1_0 f_1_0;
   mkAabb f_0_0 f_0_0 f_0_4375 f_0_5625 f_1_0 f_0_5625;
   mkAabb f_0_4375 f_0_0 f_0_4375 f_0_5625 f_1_0 f_0_5625;
   mkAabb f_0_0 f_0_40625 f_0_40625 f_1_0 f_0_59375 f_0_59375;
   mkAabb f_0_40625 f_0_0 f_0_40625 f_0_59375 f_1_0 f_0_59375;
   mkAabb f_0_40625 f_0_40625 f_0_0 f_0_59375 f_0_59375 f_1_0;
   mkAabb f_0_0 f_0_0 f_0_4375 f_1_0 f_1_0 f_0_5625;
   mkAabb f_0_4375 f_0_0 f_0_0 f_0_5625 f_1_0 f_0_4375;
   mkAabb f_0_4375 f_0_0 f_0_5625 f_0_5625 f_1_0 f_1_0;
   mkAabb f_0_4375 f_0_0 f_0_0 f_0_5625 f_1_0 f_1_0;
   mkAabb f_0_5625 f_0_0 f_0_4375 f_1_0 f_1_0 f_0_5625;
   mkAabb f_0_0 f_0_0 f_0_4375 f_1_0 f_1_0 f_0_5625;
   mkAabb f_0_4375 f_0_0 f_0_0 f_0_5625 f_1_0 f_0_4375;
   mkAabb f_0_4375 f_0_0 f_0_0 f_0_5625 f_1_0 f_0_5625;
   mkAabb f_0_5625 f_0_0 f_0_4375 f_1_0 f_1_0 f_0_5625;
   mkAabb f_0_0 f_0_0 f_0_4375 f_1_0 f_1_0 f_0_5625;
   mkAabb f_0_4375 f_0_0 f_0_5625 f_0_5625 f_1_0 f_1_0;
   mkAabb f_0_4375 f_0_0 f_0_4375 f_0_5625 f_1_0 f_1_0;
   mkAabb f_0_5625 f_0_0 f_0_4375 f_1_0 f_1_0 f_0_5625;
   mkAabb f_0_0 f_0_0 f_0_4375 f_1_0 f_1_0 f_0_5625;
   mkAabb f_0_4375 f_0_0 f_0_4375 f_1_0 f_1_0 f_0_5625;
   mkAabb f_0_0 f_0_0 f_0_4375 f_0_5625 f_1_0 f_0_5625;
   mkAabb f_0_4375 f_0_0 f_0_0 f_0_5625 f_1_0 f_0_4375;
   mkAabb f_0_4375 f_0_0 f_0_5625 f_0_5625 f_1_0 f_1_0;
   mkAabb f_0_4375 f_0_0 f_0_0 f_0_5625 f_1_0 f_1_0;
   mkAabb f_0_0 f_0_0 f_0_4375 f_0_5625 f_1_0 f_0_5625;
   mkAabb f_0_4375 f_0_0 f_0_0 f_0_5625 f_1_0 f_0_4375;
   mkAabb f_0_4375 f_0_0 f_0_0 f_0_5625 f_1_0 f_0_5625;
   mkAabb f_0_0 f_0_0 f_0_4375 f_0_5625 f_1_0 f_0_5625;
   mkAabb f_0_4375 f_0_0 f_0_5625 f_0_5625 f_1_0 f_1_0;
   mkAabb f_0_4375 f_0_0 f_0_4375 f_0_5625 f_1_0 f_1_0;
   mkAabb f_0_0 f_0_0 f_0_4375 f_0_5625 f_1_0 f_0_5625;
   mkAabb f_0_4375 f_0_0 f_0_4375 f_0_5625 f_1_0 f_0_5625;
   mkAabb f_0_0 f_0_0 f_0_375 f_1_0 f_1_5 f_0_625;
   mkAabb f_0_375 f_0_0 f_0_0 f_0_625 f_1_5 f_1_0;
   mkAabb f_0_0625 f_0_0 f_0_0625 f_0_9375 f_0_09375 f_0_9375;
   mkAabb f_0_0 f_0_5 f_0_0 f_1_0 f_1_0 f_1_0;
   mkAabb f_0_0 f_0_0 f_0_0 f_1_0 f_0_5 f_1_0;
   mkAabb f_0_25 f_0_0 f_0_25 f_0_75 f_1_5 f_0_75;
   mkAabb f_0_0 f_0_0 f_0_3125 f_0_75 f_1_5 f_0_6875;
   mkAabb f_0_25 f_0_0 f_0_25 f_0_75 f_1_5 f_0_3125;
   mkAabb f_0_25 f_0_0 f_0_6875 f_0_75 f_1_5 f_0_75;
   mkAabb f_0_0 f_0_0 f_0_3125 f_0_75 f_1_5 f_0_6875;
   mkAabb f_0_25 f_0_0 f_0_25 f_0_75 f_1_5 f_0_3125;
   mkAabb f_0_25 f_0_0 f_0_6875 f_0_75 f_1_5 f_0_75;
   mkAabb f_0_0 f_0_0 f_0_3125 f_0_6875 f_1_5 f_0_6875;
   mkAabb f_0_0 f_0_0 f_0_3125 f_0_6875 f_1_5 f_0_6875;
   mkAabb f_0_25 f_0_0 f_0_25 f_0_75 f_1_5 f_0_75;
   mkAabb f_0_3125 f_0_0 f_0_75 f_0_6875 f_1_5 f_1_0;
   mkAabb f_0_0 f_0_0 f_0_3125 f_0_75 f_1_5 f_0_6875;
   mkAabb f_0_25 f_0_0 f_0_25 f_0_75 f_1_5 f_0_3125;
   mkAabb f_0_25 f_0_0 f_0_6875 f_0_75 f_1_5 f_0_75;
   mkAabb f_0_3125 f_0_0 f_0_75 f_0_6875 f_1_5 f_1_0;
   mkAabb f_0_0 f_0_0 f_0_3125 f_0_75 f_1_5 f_0_6875;
   mkAabb f_0_25 f_0_0 f_0_25 f_0_75 f_1_5 f_0_3125;
   mkAabb f_0_25 f_0_0 f_0_6875 f_0_75 f_1_5 f_0_75;
   mkAabb f_0_3125 f_0_0 f_0_75 f_0_6875 f_1_5 f_1_0;
   mkAabb f_0_3125 f_0_0 f_0_3125 f_0_6875 f_1_5 f_1_0;
   mkAabb f_0_0 f_0_0 f_0_3125 f_0_6875 f_1_5 f_0_6875;
   mkAabb f_0_3125 f_0_0 f_0_6875 f_0_6875 f_1_5 f_1_0;
   mkAabb f_0_0 f_0_0 f_0_3125 f_0_6875 f_1_5 f_0_6875;
   mkAabb f_0_3125 f_0_0 f_0_6875 f_0_6875 f_1_5 f_1_0;
   mkAabb f_0_25 f_0_0 f_0_25 f_0_75 f_1_5 f_0_75;
   mkAabb f_0_3125 f_0_0 f_0_75 f_0_6875 f_1_5 f_1_0;
   mkAabb f_0_0 f_0_0 f_0_3125 f_0_75 f_1_5 f_0_6875;
   mkAabb f_0_25 f_0_0 f_0_25 f_0_75 f_1_5 f_0_3125;
   mkAabb f_0_25 f_0_0 f_0_6875 f_0_75 f_1_5 f_0_75;
   mkAabb f_0_3125 f_0_0 f_0_75 f_0_6875 f_1_5 f_1_0;
   mkAabb f_0_0 f_0_0 f_0_3125 f_0_75 f_1_5 f_0_6875;
   mkAabb f_0_25 f_0_0 f_0_25 f_0_75 f_1_5 f_0_3125;
   mkAabb f_0_25 f_0_0 f_0_6875 f_0_75 f_1_5 f_0_75;
   mkAabb f_0_3125 f_0_0 f_0_75 f_0_6875 f_1_5 f_1_0;
   mkAabb f_0_3125 f_0_0 f_0_3125 f_0_6875 f_1_5 f_1_0;
   mkAabb f_0_0 f_0_0 f_0_3125 f_0_6875 f_1_5 f_0_6875;
   mkAabb f_0_3125 f_0_0 f_0_6875 f_0_6875 f_1_5 f_1_0;
   mkAabb f_0_0 f_0_0 f_0_3125 f_0_6875 f_1_5 f_0_6875;
   mkAabb f_0_3125 f_0_0 f_0_6875 f_0_6875 f_1_5 f_1_0;
   mkAabb f_0_25 f_0_0 f_0_25 f_0_75 f_1_5 f_0_75;
   mkAabb f_0_3125 f_0_0 f_0_0 f_0_6875 f_1_5 f_0_25;
   mkAabb f_0_0 f_0_0 f_0_3125 f_0_75 f_1_5 f_0_6875;
   mkAabb f_0_25 f_0_0 f_0_25 f_0_75 f_1_5 f_0_3125;
   mkAabb f_0_25 f_0_0 f_0_6875 f_0_75 f_1_5 f_0_75;
   mkAabb f_0_3125 f_0_0 f_0_0 f_0_6875 f_1_5 f_0_25;
   mkAabb f_0_0 f_0_0 f_0_3125 f_0_75 f_1_5 f_0_6875;
   mkAabb f_0_25 f_0_0 f_0_25 f_0_75 f_1_5 f_0_3125;
   mkAabb f_0_25 f_0_0 f_0_6875 f_0_75 f_1_5 f_0_75;
   mkAabb f_0_3125 f_0_0 f_0_0 f_0_6875 f_1_5 f_0_25;
   mkAabb f_0_3125 f_0_0 f_0_0 f_0_6875 f_1_5 f_0_6875;
   mkAabb f_0_0 f_0_0 f_0_3125 f_0_6875 f_1_5 f_0_6875;
   mkAabb f_0_3125 f_0_0 f_0_0 f_0_6875 f_1_5 f_0_3125;
   mkAabb f_0_0 f_0_0 f_0_3125 f_0_6875 f_1_5 f_0_6875;
   mkAabb f_0_3125 f_0_0 f_0_0 f_0_6875 f_1_5 f_0_3125;
   mkAabb f_0_25 f_0_0 f_0_25 f_0_75 f_1_5 f_0_75;
   mkAabb f_0_3125 f_0_0 f_0_0 f_0_6875 f_1_5 f_0_25;
   mkAabb f_0_3125 f_0_0 f_0_75 f_0_6875 f_1_5 f_1_0;
   mkAabb f_0_0 f_0_0 f_0_3125 f_0_75 f_1_5 f_0_6875].
Definition SHAPE_BOXES_2 : list Aabb :=
  [mkAabb f_0_25 f_0_0 f_0_25 f_0_75 f_1_5 f_0_3125;
   mkAabb f_0_25 f_0_0 f_0_6875 f_0_75 f_1_5 f_0_75;
   mkAabb f_0_3125 f_0_0 f_0_0 f_0_6875 f_1_5 f_0_25;
   mkAabb f_0_3125 f_0_0 f_0_75 f_0_6875 f_1_5 f_1_0;
   mkAabb f_0_0 f_0_0 f_0_3125 f_0_75 f_1_5 f_0_6875;
   mkAabb f_0_25 f_0_0 f_0_25 f_0_75 f_1_5 f_0_3125;
   mkAabb f_0_25 f_0_0 f_0_6875 f_0_75 f_1_5 f_0_75;
   mkAabb f_0_3125 f_0_0 f_0_0 f_0_6875 f_1_5 f_0_25;
   mkAabb f_0_3125 f_0_0 f_0_75 f_0_6875 f_1_5 f_1_0;
   mkAabb f_0_3125 f_0_0 f_0_0 f_0_6875 f_1_5 f_1_0;
   mkAabb f_0_0 f_0_0 f_0_3125 f_0_6875 f_1_5 f_0_6875;
   mkAabb f_0_3125 f_0_0 f_0_0 f_0_6875 f_1_5 f_0_3125;
   mkAabb f_0_3125 f_0_0 f_0_6875 f_0_6875 f_1_5 f_1_0;
   mkAabb f_0_0 f_0_0 f_0_3125 f_0_6875 f_1_5 f_0_6875;
   mkAabb f_0_3125 f_0_0 f_0_0 f_0_6875 f_1_5 f_0_3125;
   mkAabb f_0_3125 f_0_0 f_0_6875 f_0_6875 f_1_5 f_1_0;
   mkAabb f_0_25 f_0_0 f_0_25 f_0_75 f_1_5 f_0_75;
   mkAabb f_0_3125 f_0_0 f_0_0 f_0_6875 f_1_5 f_0_25;
   mkAabb f_0_3125 f_0_0 f_0_75 f_0_6875 f_1_5 f_1_0;
   mkAabb f_0_0 f_0_0 f_0_3125 f_0_75 f_1_5 f_0_6875;
   mkAabb f_0_25 f_0_0 f_0_25 f_0_75 f_1_5 f_0_3125;
   mkAabb f_0_25 f_0_0 f_0_6875 f_0_75 f_1_5 f_0_75;
   mkAabb f_0_3125 f_0_0 f_0_0 f_0_6875 f_1_5 f_0_25;
   mkAabb f_0_3125 f_0_0 f_0_75 f_0_6875 f_1_5 f_1_0;
   mkAabb f_0_0 f_0_0 f_0_3125 f_0_75 f_1_5 f_0_6875;
   mkAabb f_0_25 f_0_0 f_0_25 f_0_75 f_1_5 f_0_3125;
   mkAabb f_0_25 f_0_0 f_0_6875 f_0_75 f_1_5 f_0_75;
   mkAabb f_0_3125 f_0_0 f_0_0 f_0_6875 f_1_5 f_0_25;
   mkAabb f_0_3125 f_0_0 f_0_75 f_0_6875 f_1_5 f_1_0;
   mkAabb f_0_3125 f_0_0 f_0_0 f_0_6875 f_1_5 f_1_0;
   mkAabb f_0_0 f_0_0 f_0_3125 f_0_6875 f_1_5 f_0_6875;
   mkAabb f_0_3125 f_0_0 f_0_0 f_0_6875 f_1_5 f_0_3125;
   mkAabb f_0_3125 f_0_0 f_0_6875 f_0_6875 f_1_5 f_1_0;
   mkAabb f_0_0 f_0_0 f_0_3125 f_0_6875 f_1_5 f_0_6875;
   mkAabb f_0_3125 f_0_0 f_0_0 f_0_6875 f_1_5 f_0_3125;
   mkAabb f_0_3125 f_0_0 f_0_6875 f_0_6875 f_1_5 f_1_0;
   mkAabb f_0_25 f_0_0 f_0_25 f_0_75 f_1_5 f_0_75;
   mkAabb f_0_3125 f_0_0 f_0_0 f_0_6875 f_1_5 f_0_25;
   mkAabb f_0_0 f_0_0 f_0_3125 f_0_75 f_1_5 f_0_6875;
   mkAabb f_0_25 f_0_0 f_0_25 f_0_75 f_1_5 f_0_3125;
   mkAabb f_0_25 f_0_0 f_0_6875 f_0_75 f_1_5 f_0_75;
   mkAabb f_0_3125 f_0_0 f_0_0 f_0_6875 f_1_5 f_0_25;
   mkAabb f_0_0 f_0_0 f_0_3125 f_0_75 f_1_5 f_0_6875;
   mkAabb f_0_25 f_0_0 f_0_25 f_0_75 f_1_5 f_0_3125;
   mkAabb f_0_25 f_0_0 f_0_6875 f_0_75 f_1_5 f_0_75;
   mkAabb f_0_3125 f_0_0 f_0_0 f_0_6875 f_1_5 f_0_25;
   mkAabb f_0_3125 f_0_0 f_0_0 f_0_6875 f_1_5 f_0_6875;
   mkAabb f_0_0 f_0_0 f_0_3125 f_0_6875 f_1_5 f_0_6875;
   mkAabb f_0_3125 f_0_0 f_0_0 f_0_6875 f_1_5 f_0_3125;
   mkAabb f_0_0 f_0_0 f_0_3125 f_0_6875 f_1_5 f_0_6875;
   mkAabb f_0_3125 f_0_0 f_0_0 f_0_6875 f_1_5 f_0_3125;
   mkAabb f_0_25 f_0_0 f_0_25 f_0_75 f_1_5 f_0_75;
   mkAabb f_0_3125 f_0_0 f_0_0 f_0_6875 f_1_5 f_0_25;
   mkAabb f_0_3125 f_0_0 f_0_75 f_0_6875 f_1_5 f_1_0;
   mkAabb f_0_0 f_0_0 f_0_3125 f_0_75 f_1_5 f_0_6875;
   mkAabb f_0_25 f_0_0 f_0_25 f_0_75 f_1_5 f_0_3125;
   mkAabb f_0_25 f_0_0 f_0_6875 f_0_75 f_1_5 f_0_75;
   mkAabb f_0_3125 f_0_0 f_0_0 f_0_6875 f_1_5 f_0_25;
   mkAabb f_0_3125 f_0_0 f_0_75 f_0_6875 f_1_5 f_1_0;
   mkAabb f_0_0 f_0_0 f_0_3125 f_0_75 f_1_5 f_0_6875;
   mkAabb f_0_25 f_0_0 f_0_25 f_0_75 f_1_5 f_0_3125;
   mkAabb f_0_25 f_0_0 f_0_6875 f_0_75 f_1_5 f_0_75;
   mkAabb f_0_3125 f_0_0 f_0_0 f_0_6875 f_1_5 f_0_25;
   mkAabb f_0_3125 f_0_0 f_0_75 f_0_6875 f_1_5 f_1_0;
   mkAabb f_0_3125 f_0_0 f_0_0 f_0_6875 f_1_5 f_1_0;
   mkAabb f_0_0 f_0_0 f_0_3125 f_0_6875 f_1_5 f_0_6875;
   mkAabb f_0_3125 f_0_0 f_0_0 f_0_6875 f_1_5 f_0_3125;
   mkAabb f_0_3125 f_0_0 f_0_6875 f_0_6875 f_1_5 f_1_0;
   mkAabb f_0_0 f_0_0 f_0_3125 f_0_6875 f_1_5 f_0_6875;
   mkAabb f_0_3125 f_0_0 f_0_0 f_0_6875 f_1_5 f_0_3125;
   mkAabb f_0_3125 f_0_0 f_0_6875 f_0_6875 f_1_5 f_1_0;
   mkAabb f_0_25 f_0_0 f_0_25 f_0_75 f_1_5 f_0_75;
   mkAabb f_0_3125 f_0_0 f_0_0 f_0_6875 f_1_5 f_0_25;
   mkAabb f_0_3125 f_0_0 f_0_75 f_0_6875 f_1_5 f_1_0;
   mkAabb f_0_0 f_0_0 f_0_3125 f_0_75 f_1_5 f_0_6875;
   mkAabb f_0_25 f_0_0 f_0_25 f_0_75 f_1_5 f_0_3125;
   mkAabb f_0_25 f_0_0 f_0_6875 f_0_75 f_1_5 f_0_75;
   mkAabb f_0_3125 f_0_0 f_0_0 f_0_6875 f_1_5 f_0_25;
   mkAabb f_0_3125 f_0_0 f_0_75 f_0_6875 f_1_5 f_1_0;
   mkAabb f_0_0 f_0_0 f_0_3125 f_0_75 f_1_5 f_0_6875;
   mkAabb f_0_25 f_0_0 f_0_25 f_0_75 f_1_5 f_0_3125;
   mkAabb f_0_25 f_0_0 f_0_6875 f_0_75 f_1_5 f_0_75;
   mkAabb f_0_3125 f_0_0 f_0_0 f_0_6875 f_1_5 f_0_25;
   mkAabb f_0_3125 f_0_0 f_0_75 f_0_6875 f_1_5 f_1_0;
   mkAabb f_0_3125 f_0_0 f_0_0 f_0_6875 f_1_5 f_1_0;
   mkAabb f_0_0 f_0_0 f_0_3125 f_0_6875 f_1_5 f_0_6875;
   mkAabb f_0_3125 f_0_0 f_0_0 f_0_6875 f_1_5 f_0_3125;
   mkAabb f_0_3125 f_0_0 f_0_6875 f_0_6875 f_1_5 f_1_0;
   mkAabb f_0_0 f_0_0 f_0_3125 f_0_6875 f_1_5 f_0_6875;
   mkAabb f_0_3125 f_0_0 f_0_0 f_0_6875 f_1_5 f_0_3125;
   mkAabb f_0_3125 f_0_0 f_0_6875 f_0_6875 f_1_5 f_1_0;
   mkAabb f_0_25 f_0_0 f_0_25 f_0_75 f_1_5 f_0_75;
   mkAabb f_0_75 f_0_0 f_0_3125 f_1_0 f_1_5 f_0_6875;
   mkAabb f_0_0 f_0_0 f_0_3125 f_1_0 f_1_5 f_0_6875;
   mkAabb f_0_25 f_0_0 f_0_25 f_0_75 f_1_5 f_0_3125;
   mkAabb f_0_25 f_0_0 f_0_6875 f_0_75 f_1_5 f_0_75;
   mkAabb f_0_0 f_0_0 f_0_3125 f_1_0 f_1_5 f_0_6875;
   mkAabb f_0_25 f_0_0 f_0_25 f_0_75 f_1_5 f_0_3125;
   mkAabb f_0_25 f_0_0 f_0_6875 f_0_75 f_1_5 f_0_75;
   mkAabb f_0_3125 f_0_0 f_0_3125 f_1_0 f_1_5 f_0_6875;
   mkAabb f_0_0 f_0_0 f_0_3125 f_1_0 f_1_5 f_0_6875;
   mkAabb f_0_0 f_0_0 f_0_3125 f_1_0 f_1_5 f_0_6875;
   mkAabb f_0_25 f_0_0 f_0_25 f_0_75 f_1_5 f_0_75;
   mkAabb f_0_3125 f_0_0 f_0_75 f_0_6875 f_1_5 f_1_0;
   mkAabb f_0_75 f_0_0 f_0_3125 f_1_0 f_1_5 f_0_6875;
   mkAabb f_0_0 f_0_0 f_0_3125 f_1_0 f_1_5 f_0_6875;
   mkAabb f_0_25 f_0_0 f_0_25 f_0_75 f_1_5 f_0_3125;
   mkAabb f_0_25 f_0_0 f_0_6875 f_0_75 f_1_5 f_0_75;
   mkAabb f_0_3125 f_0_0 f_0_75 f_0_6875 f_1_5 f_1_0;
   mkAabb f_0_0 f_0_0 f_0_3125 f_1_0 f_1_5 f_0_6875;
   mkAabb f_0_25 f_0_0 f_0_25 f_0_75 f_1_5 f_0_3125;
   mkAabb f_0_25 f_0_0 f_0_6875 f_0_75 f_1_5 f_0_75;
   mkAabb f_0_3125 f_0_0 f_0_75 f_0_6875 f_1_5 f_1_0;
   mkAabb f_0_3125 f_0_0 f_0_3125 f_0_6875 f_1_5 f_1_0;
   mkAabb f_0_6875 f_0_0 f_0_3125 f_1_0 f_1_5 f_0_6875;
   mkAabb f_0_0 f_0_0 f_0_3125 f_1_0 f_1_5 f_0_6875;
   mkAabb f_0_3125 f_0_0 f_0_6875 f_0_6875 f_1_5 f_1_0;
   mkAabb f_0_0 f_0_0 f_0_3125 f_1_0 f_1_5 f_0_6875;
   mkAabb f_0_3125 f_0_0 f_0_6875 f_0_6875 f_1_5 f_1_0;
   mkAabb f_0_25 f_0_0 f_0_25 f_0_75 f_1_5 f_0_75;
   mkAabb f_0_3125 f_0_0 f_0_75 f_0_6875 f_1_5 f_1_0;
   mkAabb f_0_75 f_0_0 f_0_3125 f_1_0 f_1_5 f_0_6875;
   mkAabb f_0_0 f_0_0 f_0_3125 f_1_0 f_1_5 f_0_6875;
   mkAabb f_0_25 f_0_0 f_0_25 f_0_75 f_1_5 f_0_3125;
   mkAabb f_0_25 f_0_0 f_0_6875 f_0_75 f_1_5 f_0_75;
   mkAabb f_0_3125 f_0_0 f_0_75 f_0_6875 f_1_5 f_1_0;
   mkAabb f_0_0 f_0_0 f_0_3125 f_1_0 f_1_5 f_0_6875;
   mkAabb f_0_25 f_0_0 f_0_25 f_0_75 f_1_5 f_0_3125;
   mkAabb f_0_25 f_0_0 f_0_6875 f_0_75 f_1_5 f_0_75;
   mkAabb f_0_3125 f_0_0 f_0_75 f_0_6875 f_1_5 f_1_0;
   mkAabb f_0_3125 f_0_0 f_0_3125 f_0_6875 f_1_5 f_1_0;
   mkAabb f_0_6875 f_0_0 f_0_3125 f_1_0 f_1_5 f_0_6875;
   mkAabb f_0_0 f_0_0 f_0_3125 f_1_0 f_1_5 f_0_6875;
   mkAabb f_0_3125 f_0_0 f_0_6875 f_0_6875 f_1_5 f_1_0;
   mkAabb f_0_0 f_0_0 f_0_3125 f_1_0 f_1_5 f_0_6875;
   mkAabb f_0_3125 f_0_0 f_0_6875 f_0_6875 f_1_5 f_1_0;
   mkAabb f_0_25 f_0_0 f_0_25 f_0_75 f_1_5 f_0_75;
   mkAabb f_0_3125 f_0_0 f_0_0 f_0_6875 f_1_5 f_0_25;
   mkAabb f_0_75 f_0_0 f_0_3125 f_1_0 f_1_5 f_0_6875;
   mkAabb f_0_0 f_0_0 f_0_3125 f_1_0 f_1_5 f_0_6875;
   mkAabb f_0_25 f_0_0 f_0_25 f_0_75 f_1_5 f_0_3125;
   mkAabb f_0_25 f_0_0 f_0_6875 f_0_75 f_1_5 f_0_75;
   mkAabb f_0_3125 f_0_0 f_0_0 f_0_6875 f_1_5 f_0_25;
   mkAabb f_0_0 f_0_0 f_0_3125 f_1_0 f_1_5 f_0_6875;
   mkAabb f_0_25 f_0_0 f_0_25 f_0_75 f_1_5 f_0_3125;
   mkAabb f_0_25 f_0_0 f_0_6875 f_0_75 f_1_5 f_0_75;
   mkAabb f_0_3125 f_0_0 f_0_0 f_0_6875 f_1_5 f_0_25;
   mkAabb f_0_3125 f_0_0 f_0_0 f_0_6875 f_1_5 f_0_6875;
   mkAabb f_0_6875 f_0_0 f_0_3125 f_1_0 f_1_5 f_0_6875;
   mkAabb f_0_0 f_0_0 f_0_3125 f_1_0 f_1_5 f_0_6875].
Definition SHAPE_BOXES_3 : list Aabb :=
  [mkAabb f_0_3125 f_0_0 f_0_0 f_0_6875 f_1_5 f_0_3125;
   mkAabb f_0_0 f_0_0 f_0_3125 f_1_0 f_1_5 f_0_6875;
   mkAabb f_0_3125 f_0_0 f_0_0 f_0_6875 f_1_5 f_0_3125;
   mkAabb f_0_25 f_0_0 f_0_25 f_0_75 f_1_5 f_0_75;
   mkAabb f_0_3125 f_0_0 f_0_0 f_0_6875 f_1_5 f_0_25;
   mkAabb f_0_3125 f_0_0 f_0_75 f_0_6875 f_1_5 f_1_0;
   mkAabb f_0_75 f_0_0 f_0_3125 f_1_0 f_1_5 f_0_6875;
   mkAabb f_0_0 f_0_0 f_0_3125 f_1_0 f_1_5 f_0_6875;
   mkAabb f_0_25 f_0_0 f_0_25 f_0_75 f_1_5 f_0_3125;
   mkAabb f_0_25 f_0_0 f_0_6875 f_0_75 f_1_5 f_0_75;
   mkAabb f_0_3125 f_0_0 f_0_0 f_0_6875 f_1_5 f_0_25;
   mkAabb f_0_3125 f_0_0 f_0_75 f_0_6875 f_1_5 f_1_0;
   mkAabb f_0_0 f_0_0 f_0_3125 f_1_0 f_1_5 f_0_6875;
   mkAabb f_0_25 f_0_0 f_0_25 f_0_75 f_1_5 f_0_3125;
   mkAabb f_0_25 f_0_0 f_0_6875 f_0_75 f_1_5 f_0_75;
   mkAabb f_0_3125 f_0_0 f_0_0 f_0_6875 f_1_5 f_0_25;
   mkAabb f_0_3125 f_0_0 f_0_75 f_0_6875 f_1_5 f_1_0;
   mkAabb f_0_3125 f_0_0 f_0_0 f_0_6875 f_1_5 f_1_0;
   mkAabb f_0_6875 f_0_0 f_0_3125 f_1_0 f_1_5 f_0_6875;
   mkAabb f_0_0 f_0_0 f_0_3125 f_1_0 f_1_5 f_0_6875;
   mkAabb f_0_3125 f_0_0 f_0_0 f_0_6875 f_1_5 f_0_3125;
   mkAabb f_0_3125 f_0_0 f_0_6875 f_0_6875 f_1_5 f_1_0;
   mkAabb f_0_0 f_0_0 f_0_3125 f_1_0 f_1_5 f_0_6875;
   mkAabb f_0_3125 f_0_0 f_0_0 f_0_6875 f_1_5 f_0_3125;
   mkAabb f_0_3125 f_0_0 f_0_6875 f_0_6875 f_1_5 f_1_0;
   mkAabb f_0_25 f_0_0 f_0_25 f_0_75 f_1_5 f_0_75;
   mkAabb f_0_3125 f_0_0 f_0_0 f_0_6875 f_1_5 f_0_25;
   mkAabb f_0_3125 f_0_0 f_0_75 f_0_6875 f_1_5 f_1_0;
   mkAabb f_0_75 f_0_0 f_0_3125 f_1_0 f_1_5 f_0_6875;
   mkAabb f_0_0 f_0_0 f_0_3125 f_1_0 f_1_5 f_0_6875;
   mkAabb f_0_25 f_0_0 f_0_25 f_0_75 f_1_5 f_0_3125;
   mkAabb f_0_25 f_0_0 f_0_6875 f_0_75 f_1_5 f_0_75;
   mkAabb f_0_3125 f_0_0 f_0_0 f_0_6875 f_1_5 f_0_25;
   mkAabb f_0_3125 f_0_0 f_0_75 f_0_6875 f_1_5 f_1_0;
   mkAabb f_0_0 f_0_0 f_0_3125 f_1_0 f_1_5 f_0_6875;
   mkAabb f_0_25 f_0_0 f_0_25 f_0_75 f_1_5 f_0_3125;
   mkAabb f_0_25 f_0_0 f_0_6875 f_0_75 f_1_5 f_0_75;
   mkAabb f_0_3125 f_0_0 f_0_0 f_0_6875 f_1_5 f_0_25;
   mkAabb f_0_3125 f_0_0 f_0_75 f_0_6875 f_1_5 f_1_0;
   mkAabb f_0_3125 f_0_0 f_0_0 f_0_6875 f_1_5 f_1_0;
   mkAabb f_0_6875 f_0_0 f_0_3125 f_1_0 f_1_5 f_0_6875;
   mkAabb f_0_0 f_0_0 f_0_3125 f_1_0 f_1_5 f_0_6875;
   mkAabb f_0_3125 f_0_0 f_0_0 f_0_6875 f_1_5 f_0_3125;
   mkAabb f_0_3125 f_0_0 f_0_6875 f_0_6875 f_1_5 f_1_0;
   mkAabb f_0_0 f_0_0 f_0_3125 f_1_0 f_1_5 f_0_6875;
   mkAabb f_0_3125 f_0_0 f_0_0 f_0_6875 f_1_5 f_0_3125;
   mkAabb f_0_3125 f_0_0 f_0_6875 f_0_6875 f_1_5 f_1_0;
   mkAabb f_0_25 f_0_0 f_0_25 f_0_75 f_1_5 f_0_75;
   mkAabb f_0_3125 f_0_0 f_0_0 f_0_6875 f_1_5 f_0_25;
   mkAabb f_0_75 f_0_0 f_0_3125 f_1_0 f_1_5 f_0_6875;
   mkAabb f_0_0 f_0_0 f_0_3125 f_1_0 f_1_5 f_0_6875;
   mkAabb f_0_25 f_0_0 f_0_25 f_0_75 f_1_5 f_0_3125;
   mkAabb f_0_25 f_0_0 f_0_6875 f_0_75 f_1_5 f_0_75;
   mkAabb f_0_3125 f_0_0 f_0_0 f_0_6875 f_1_5 f_0_25;
   mkAabb f_0_0 f_0_0 f_0_3125 f_1_0 f_1_5 f_0_6875;
   mkAabb f_0_25 f_0_0 f_0_25 f_0_75 f_1_5 f_0_3125;
   mkAabb f_0_25 f_0_0 f_0_6875 f_0_75 f_1_5 f_0_75;
   mkAabb f_0_3125 f_0_0 f_0_0 f_0_6875 f_1_5 f_0_25;
   mkAabb f_0_3125 f_0_0 f_0_0 f_0_6875 f_1_5 f_0_6875;
   mkAabb f_0_6875 f_0_0 f_0_3125 f_1_0 f_1_5 f_0_6875;
   mkAabb f_0_0 f_0_0 f_0_3125 f_1_0 f_1_5 f_0_6875;
   mkAabb f_0_3125 f_0_0 f_0_0 f_0_6875 f_1_5 f_0_3125;
   mkAabb f_0_0 f_0_0 f_0_3125 f_1_0 f_1_5 f_0_6875;
   mkAabb f_0_3125 f_0_0 f_0_0 f_0_6875 f_1_5 f_0_3125;
   mkAabb f_0_25 f_0_0 f_0_25 f_0_75 f_1_5 f_0_75;
   mkAabb f_0_3125 f_0_0 f_0_0 f_0_6875 f_1_5 f_0_25;
   mkAabb f_0_3125 f_0_0 f_0_75 f_0_6875 f_1_5 f_1_0;
   mkAabb f_0_75 f_0_0 f_0_3125 f_1_0 f_1_5 f_0_6875;
   mkAabb f_0_0 f_0_0 f_0_3125 f_1_0 f_1_5 f_0_6875;
   mkAabb f_0_25 f_0_0 f_0_25 f_0_75 f_1_5 f_0_3125;
   mkAabb f_0_25 f_0_0 f_0_6875 f_0_75 f_1_5 f_0_75;
   mkAabb f_0_3125 f_0_0 f_0_0 f_0_6875 f_1_5 f_0_25;
   mkAabb f_0_3125 f_0_0 f_0_75 f_0_6875 f_1_5 f_1_0;
   mkAabb f_0_0 f_0_0 f_0_3125 f_1_0 f_1_5 f_0_6875;
   mkAabb f_0_25 f_0_0 f_0_25 f_0_75 f_1_5 f_0_3125;
   mkAabb f_0_25 f_0_0 f_0_6875 f_0_75 f_1_5 f_0_75;
   mkAabb f_0_3125 f_0_0 f_0_0 f_0_6875 f_1_5 f_0_25;
   mkAabb f_0_3125 f_0_0 f_0_75 f_0_6875 f_1_5 f_1_0;
   mkAabb f_0_3125 f_0_0 f_0_0 f_0_6875 f_1_5 f_1_0;
   mkAabb f_0_6875 f_0_0 f_0_3125 f_1_0 f_1_5 f_0_6875;
   mkAabb f_0_0 f_0_0 f_0_3125 f_1_0 f_1_5 f_0_6875;
   mkAabb f_0_3125 f_0_0 f_0_0 f_0_6875 f_1_5 f_0_3125;
   mkAabb f_0_3125 f_0_0 f_0_6875 f_0_6875 f_1_5 f_1_0;
   mkAabb f_0_0 f_0_0 f_0_3125 f_1_0 f_1_5 f_0_6875;
   mkAabb f_0_3125 f_0_0 f_0_0 f_0_6875 f_1_5 f_0_3125;
   mkAabb f_0_3125 f_0_0 f_0_6875 f_0_6875 f_1_5 f_1_0;
   mkAabb f_0_25 f_0_0 f_0_25 f_0_75 f_1_5 f_0_75;
   mkAabb f_0_3125 f_0_0 f_0_0 f_0_6875 f_1_5 f_0_25;
   mkAabb f_0_3125 f_0_0 f_0_75 f_0_6875 f_1_5 f_1_0;
   mkAabb f_0_75 f_0_0 f_0_3125 f_1_0 f_1_5 f_0_6875;
   mkAabb f_0_0 f_0_0 f_0_3125 f_1_0 f_1_5 f_0_6875;
   mkAabb f_0_25 f_0_0 f_0_25 f_0_75 f_1_5 f_0_3125;
   mkAabb f_0_25 f_0_0 f_0_6875 f_0_75 f_1_5 f_0_75;
   mkAabb f_0_3125 f_0_0 f_0_0 f_0_6875 f_1_5 f_0_25;
   mkAabb f_0_3125 f_0_0 f_0_75 f_0_6875 f_1_5 f_1_0;
   mkAabb f_0_0 f_0_0 f_0_3125 f_1_0 f_1_5 f_0_6875;
   mkAabb f_0_25 f_0_0 f_0_25 f_0_75 f_1_5 f_0_3125;
   mkAabb f_0_25 f_0_0 f_0_6875 f_0_75 f_1_5 f_0_75;
   mkAabb f_0_3125 f_0_0 f_0_0 f_0_6875 f_1_5 f_0_25;
   mkAabb f_0_3125 f_0_0 f_0_75 f_0_6875 f_1_5 f_1_0;
   mkAabb f_0_3125 f_0_0 f_0_0 f_0_6875 f_1_5 f_1_0;
   mkAabb f_0_6875 f_0_0 f_0_3125 f_1_0 f_1_5 f_0_6875;
   mkAabb f_0_0 f_0_0 f_0_3125 f_1_0 f_1_5 f_0_6875;
   mkAabb f_0_3125 f_0_0 f_0_0 f_0_6875 f_1_5 f_0_3125;
   mkAabb f_0_3125 f_0_0 f_0_6875 f_0_6875 f_1_5 f_1_0;
   mkAabb f_0_0 f_0_0 f_0_3125 f_1_0 f_1_5 f_0_6875;
   mkAabb f_0_3125 f_0_0 f_0_0 f_0_6875 f_1_5 f_0_3125;
   mkAabb f_0_3125 f_0_0 f_0_6875 f_0_6875 f_1_5 f_1_0;
   mkAabb f_0_25 f_0_0 f_0_25 f_0_75 f_1_5 f_0_75;
   mkAabb f_0_75 f_0_0 f_0_3125 f_1_0 f_1_5 f_0_6875;
   mkAabb f_0_0 f_0_0 f_0_3125 f_1_0 f_1_5 f_0_6875;
   mkAabb f_0_25 f_0_0 f_0_25 f_0_75 f_1_5 f_0_3125;
   mkAabb f_0_25 f_0_0 f_0_6875 f_0_75 f_1_5 f_0_75;
   mkAabb f_0_0 f_0_0 f_0_3125 f_1_0 f_1_5 f_0_6875;
   mkAabb f_0_25 f_0_0 f_0_25 f_0_75 f_1_5 f_0_3125;
   mkAabb f_0_25 f_0_0 f_0_6875 f_0_75 f_1_5 f_0_75;
   mkAabb f_0_3125 f_0_0 f_0_3125 f_1_0 f_1_5 f_0_6875;
   mkAabb f_0_0 f_0_0 f_0_3125 f_1_0 f_1_5 f_0_6875;
   mkAabb f_0_0 f_0_0 f_0_3125 f_1_0 f_1_5 f_0_6875;
   mkAabb f_0_25 f_0_0 f_0_25 f_0_75 f_1_5 f_0_75;
   mkAabb f_0_3125 f_0_0 f_0_75 f_0_6875 f_1_5 f_1_0;
   mkAabb f_0_75 f_0_0 f_0_3125 f_1_0 f_1_5 f_0_6875;
   mkAabb f_0_0 f_0_0 f_0_3125 f_1_0 f_1_5 f_0_6875;
   mkAabb f_0_25 f_0_0 f_0_25 f_0_75 f_1_5 f_0_3125;
   mkAabb f_0_25 f_0_0 f_0_6875 f_0_75 f_1_5 f_0_75;
   mkAabb f_0_3125 f_0_0 f_0_75 f_0_6875 f_1_5 f_1_0;
   mkAabb f_0_0 f_0_0 f_0_3125 f_1_0 f_1_5 f_0_6875;
   mkAabb f_0_25 f_0_0 f_0_25 f_0_75 f_1_5 f_0_3125;
   mkAabb f_0_25 f_0_0 f_0_6875 f_0_75 f_1_5 f_0_75;
   mkAabb f_0_3125 f_0_0 f_0_75 f_0_6875 f_1_5 f_1_0;
   mkAabb f_0_3125 f_0_0 f_0_3125 f_0_6875 f_1_5 f_1_0;
   mkAabb f_0_6875 f_0_0 f_0_3125 f_1_0 f_1_5 f_0_6875;
   mkAabb f_0_0 f_0_0 f_0_3125 f_1_0 f_1_5 f_0_6875;
   mkAabb f_0_3125 f_0_0 f_0_6875 f_0_6875 f_1_5 f_1_0;
   mkAabb f_0_0 f_0_0 f_0_3125 f_1_0 f_1_5 f_0_6875;
   mkAabb f_0_3125 f_0_0 f_0_6875 f_0_6875 f_1_5 f_1_0;
   mkAabb f_0_25 f_0_0 f_0_25 f_0_75 f_1_5 f_0_75;
   mkAabb f_0_3125 f_0_0 f_0_75 f_0_6875 f_1_5 f_1_0;
   mkAabb f_0_75 f_0_0 f_0_3125 f_1_0 f_1_5 f_0_6875;
   mkAabb f_0_0 f_0_0 f_0_3125 f_1_0 f_1_5 f_0_6875;
   mkAabb f_0_25 f_0_0 f_0_25 f_0_75 f_1_5 f_0_3125;
   mkAabb f_0_25 f_0_0 f_0_6875 f_0_75 f_1_5 f_0_75;
   mkAabb f_0_3125 f_0_0 f_0_75 f_0_6875 f_1_5 f_1_0;
   mkAabb f_0_0 f_0_0 f_0_3125 f_1_0 f_1_5 f_0_6875;
   mkAabb f_0_25 f_0_0 f_0_25 f_0_75 f_1_5 f_0_3125;
   mkAabb f_0_25 f_0_0 f_0_6875 f_0_75 f_1_5 f_0_75;
   mkAabb f_0_3125 f_0_0 f_0_75 f_0_6875 f_1_5 f_1_0;
   mkAabb f_0_3125 f_0_0 f_0_3125 f_0_6875 f_1_5 f_1_0;
   mkAabb f_0_6875 f_0_0 f_0_3125 f_1_0 f_1_5 f_0_6875;
   mkAabb f_0_0 f_0_0 f_0_3125 f_1_0 f_1_5 f_0_6875].
Definition SHAPE_BOXES_4 : list Aabb :=
  [mkAabb f_0_3125 f_0_0 f_0_6875 f_0_6875 f_1_5 f_1_0;
   mkAabb f_0_0 f_0_0 f_0_3125 f_1_0 f_1_5 f_0_6875;
   mkAabb f_0_3125 f_0_0 f_0_6875 f_0_6875 f_1_5 f_1_0;
   mkAabb f_0_25 f_0_0 f_0_25 f_0_75 f_1_5 f_0_75;
   mkAabb f_0_3125 f_0_0 f_0_0 f_0_6875 f_1_5 f_0_25;
   mkAabb f_0_75 f_0_0 f_0_3125 f_1_0 f_1_5 f_0_6875;
   mkAabb f_0_0 f_0_0 f_0_3125 f_1_0 f_1_5 f_0_6875;
   mkAabb f_0_25 f_0_0 f_0_25 f_0_75 f_1_5 f_0_3125;
   mkAabb f_0_25 f_0_0 f_0_6875 f_0_75 f_1_5 f_0_75;
   mkAabb f_0_3125 f_0_0 f_0_0 f_0_6875 f_1_5 f_0_25;
   mkAabb f_0_0 f_0_0 f_0_3125 f_1_0 f_1_5 f_0_6875;
   mkAabb f_0_25 f_0_0 f_0_25 f_0_75 f_1_5 f_0_3125;
   mkAabb f_0_25 f_0_0 f_0_6875 f_0_75 f_1_5 f_0_75;
   mkAabb f_0_3125 f_0_0 f_0_0 f_0_6875 f_1_5 f_0_25;
   mkAabb f_0_3125 f_0_0 f_0_0 f_0_6875 f_1_5 f_0_6875;
   mkAabb f_0_6875 f_0_0 f_0_3125 f_1_0 f_1_5 f_0_6875;
   mkAabb f_0_0 f_0_0 f_0_3125 f_1_0 f_1_5 f_0_6875;
   mkAabb f_0_3125 f_0_0 f_0_0 f_0_6875 f_1_5 f_0_3125;
   mkAabb f_0_0 f_0_0 f_0_3125 f_1_0 f_1_5 f_0_6875;
   mkAabb f_0_3125 f_0_0 f_0_0 f_0_6875 f_1_5 f_0_3125;
   mkAabb f_0_25 f_0_0 f_0_25 f_0_75 f_1_5 f_0_75;
   mkAabb f_0_3125 f_0_0 f_0_0 f_0_6875 f_1_5 f_0_25;
   mkAabb f_0_3125 f_0_0 f_0_75 f_0_6875 f_1_5 f_1_0;
   mkAabb f_0_75 f_0_0 f_0_3125 f_1_0 f_1_5 f_0_6875;
   mkAabb f_0_0 f_0_0 f_0_3125 f_1_0 f_1_5 f_0_6875;
   mkAabb f_0_25 f_0_0 f_0_25 f_0_75 f_1_5 f_0_3125;
   mkAabb f_0_25 f_0_0 f_0_6875 f_0_75 f_1_5 f_0_75;
   mkAabb f_0_3125 f_0_0 f_0_0 f_0_6875 f_1_5 f_0_25;
   mkAabb f_0_3125 f_0_0 f_0_75 f_0_6875 f_1_5 f_1_0;
   mkAabb f_0_0 f_0_0 f_0_3125 f_1_0 f_1_5 f_0_6875;
   mkAabb f_0_25 f_0_0 f_0_25 f_0_75 f_1_5 f_0_3125;
   mkAabb f_0_25 f_0_0 f_0_6875 f_0_75 f_1_5 f_0_75;
   mkAabb f_0_3125 f_0_0 f_0_0 f_0_6875 f_1_5 f_0_25;
   mkAabb f_0_3125 f_0_0 f_0_75 f_0_6875 f_1_5 f_1_0;
   mkAabb f_0_3125 f_0_0 f_0_0 f_0_6875 f_1_5 f_1_0;
   mkAabb f_0_6875 f_0_0 f_0_3125 f_1_0 f_1_5 f_0_6875;
   mkAabb f_0_0 f_0_0 f_0_3125 f_1_0 f_1_5 f_0_6875;
   mkAabb f_0_3125 f_0_0 f_0_0 f_0_6875 f_1_5 f_0_3125;
   mkAabb f_0_3125 f_0_0 f_0_6875 f_0_6875 f_1_5 f_1_0;
   mkAabb f_0_0 f_0_0 f_0_3125 f_1_0 f_1_5 f_0_6875;
   mkAabb f_0_3125 f_0_0 f_0_0 f_0_6875 f_1_5 f_0_3125;
   mkAabb f_0_3125 f_0_0 f_0_6875 f_0_6875 f_1_5 f_1_0;
   mkAabb f_0_25 f_0_0 f_0_25 f_0_75 f_1_5 f_0_75;
   mkAabb f_0_3125 f_0_0 f_0_0 f_0_6875 f_1_5 f_0_25;
   mkAabb f_0_3125 f_0_0 f_0_75 f_0_6875 f_1_5 f_1_0;
   mkAabb f_0_75 f_0_0 f_0_3125 f_1_0 f_1_5 f_0_6875;
   mkAabb f_0_0 f_0_0 f_0_3125 f_1_0 f_1_5 f_0_6875;
   mkAabb f_0_25 f_0_0 f_0_25 f_0_75 f_1_5 f_0_3125;
   mkAabb f_0_25 f_0_0 f_0_6875 f_0_75 f_1_5 f_0_75;
   mkAabb f_0_3125 f_0_0 f_0_0 f_0_6875 f_1_5 f_0_25;
   mkAabb f_0_3125 f_0_0 f_0_75 f_0_6875 f_1_5 f_1_0;
   mkAabb f_0_0 f_0_0 f_0_3125 f_1_0 f_1_5 f_0_6875;
   mkAabb f_0_25 f_0_0 f_0_25 f_0_75 f_1_5 f_0_3125;
   mkAabb f_0_25 f_0_0 f_0_6875 f_0_75 f_1_5 f_0_75;
   mkAabb f_0_3125 f_0_0 f_0_0 f_0_6875 f_1_5 f_0_25;
   mkAabb f_0_3125 f_0_0 f_0_75 f_0_6875 f_1_5 f_1_0;
   mkAabb f_0_3125 f_0_0 f_0_0 f_0_6875 f_1_5 f_1_0;
   mkAabb f_0_6875 f_0_0 f_0_3125 f_1_0 f_1_5 f_0_6875;
   mkAabb f_0_0 f_0_0 f_0_3125 f_1_0 f_1_5 f_0_6875;
   mkAabb f_0_3125 f_0_0 f_0_0 f_0_6875 f_1_5 f_0_3125;
   mkAabb f_0_3125 f_0_0 f_0_6875 f_0_6875 f_1_5 f_1_0;
   mkAabb f_0_0 f_0_0 f_0_3125 f_1_0 f_1_5 f_0_6875;
   mkAabb f_0_3125 f_0_0 f_0_0 f_0_6875 f_1_5 f_0_3125;
   mkAabb f_0_3125 f_0_0 f_0_6875 f_0_6875 f_1_5 f_1_0;
   mkAabb f_0_25 f_0_0 f_0_25 f_0_75 f_1_5 f_0_75;
   mkAabb f_0_3125 f_0_0 f_0_0 f_0_6875 f_1_5 f_0_25;
   mkAabb f_0_75 f_0_0 f_0_3125 f_1_0 f_1_5 f_0_6875;
   mkAabb f_0_0 f_0_0 f_0_3125 f_1_0 f_1_5 f_0_6875;
   mkAabb f_0_25 f_0_0 f_0_25 f_0_75 f_1_5 f_0_3125;
   mkAabb f_0_25 f_0_0 f_0_6875 f_0_75 f_1_5 f_0_75;
   mkAabb f_0_3125 f_0_0 f_0_0 f_0_6875 f_1_5 f_0_25;
   mkAabb f_0_0 f_0_0 f_0_3125 f_1_0 f_1_5 f_0_6875;
   mkAabb f_0_25 f_0_0 f_0_25 f_0_75 f_1_5 f_0_3125;
   mkAabb f_0_25 f_0_0 f_0_6875 f_0_75 f_1_5 f_0_75;
   mkAabb f_0_3125 f_0_0 f_0_0 f_0_6875 f_1_5 f_0_25;
   mkAabb f_0_3125 f_0_0 f_0_0 f_0_6875 f_1_5 f_0_6875;
   mkAabb f_0_6875 f_0_0 f_0_3125 f_1_0 f_1_5 f_0_6875;
   mkAabb f_0_0 f_0_0 f_0_3125 f_1_0 f_1_5 f_0_6875;
   mkAabb f_0_3125 f_0_0 f_0_0 f_0_6875 f_1_5 f_0_3125;
   mkAabb f_0_0 f_0_0 f_0_3125 f_1_0 f_1_5 f_0_6875;
   mkAabb f_0_3125 f_0_0 f_0_0 f_0_6875 f_1_5 f_0_3125;
   mkAabb f_0_25 f_0_0 f_0_25 f_0_75 f_1_5 f_0_75;
   mkAabb f_0_3125 f_0_0 f_0_0 f_0_6875 f_1_5 f_0_25;
   mkAabb f_0_3125 f_0_0 f_0_75 f_0_6875 f_1_5 f_1_0;
   mkAabb f_0_75 f_0_0 f_0_3125 f_1_0 f_1_5 f_0_6875;
   mkAabb f_0_0 f_0_0 f_0_3125 f_1_0 f_1_5 f_0_6875;
   mkAabb f_0_25 f_0_0 f_0_25 f_0_75 f_1_5 f_0_3125;
   mkAabb f_0_25 f_0_0 f_0_6875 f_0_75 f_1_5 f_0_75;
   mkAabb f_0_3125 f_0_0 f_0_0 f_0_6875 f_1_5 f_0_25;
   mkAabb f_0_3125 f_0_0 f_0_75 f_0_6875 f_1_5 f_1_0;
   mkAabb f_0_0 f_0_0 f_0_3125 f_1_0 f_1_5 f_0_6875;
   mkAabb f_0_25 f_0_0 f_0_25 f_0_75 f_1_5 f_0_3125;
   mkAabb f_0_25 f_0_0 f_0_6875 f_0_75 f_1_5 f_0_75;
   mkAabb f_0_3125 f_0_0 f_0_0 f_0_6875 f_1_5 f_0_25;
   mkAabb f_0_3125 f_0_0 f_0_75 f_0_6875 f_1_5 f_1_0;
   mkAabb f_0_3125 f_0_0 f_0_0 f_0_6875 f_1_5 f_1_0;
   mkAabb f_0_6875 f_0_0 f_0_3125 f_1_0 f_1_5 f_0_6875;
   mkAabb f_0_0 f_0_0 f_0_3125 f_1_0 f_1_5 f_0_6875;
   mkAabb f_0_3125 f_0_0 f_0_0 f_0_6875 f_1_5 f_0_3125;
   mkAabb f_0_3125 f_0_0 f_0_6875 f_0_6875 f_1_5 f_1_0;
   mkAabb f_0_0 f_0_0 f_0_3125 f_1_0 f_1_5 f_0_6875;
   mkAabb f_0_3125 f_0_0 f_0_0 f_0_6875 f_1_5 f_0_3125;
   mkAabb f_0_3125 f_0_0 f_0_6875 f_0_6875 f_1_5 f_1_0;
   mkAabb f_0_25 f_0_0 f_0_25 f_0_75 f_1_5 f_0_75;
   mkAabb f_0_3125 f_0_0 f_0_0 f_0_6875 f_1_5 f_0_25;
   mkAabb f_0_3125 f_0_0 f_0_75 f_0_6875 f_1_5 f_1_0;
   mkAabb f_0_75 f_0_0 f_0_3125 f_1_0 f_1_5 f_0_6875;
   mkAabb f_0_0 f_0_0 f_0_3125 f_1_0 f_1_5 f_0_6875;
   mkAabb f_0_25 f_0_0 f_0_25 f_0_75 f_1_5 f_0_3125;
   mkAabb f_0_25 f_0_0 f_0_6875 f_0_75 f_1_5 f_0_75;
   mkAabb f_0_3125 f_0_0 f_0_0 f_0_6875 f_1_5 f_0_25;
   mkAabb f_0_3125 f_0_0 f_0_75 f_0_6875 f_1_5 f_1_0;
   mkAabb f_0_0 f_0_0 f_0_3125 f_1_0 f_1_5 f_0_6875;
   mkAabb f_0_25 f_0_0 f_0_25 f_0_75 f_1_5 f_0_3125;
   mkAabb f_0_25 f_0_0 f_0_6875 f_0_75 f_1_5 f_0_75;
   mkAabb f_0_3125 f_0_0 f_0_0 f_0_6875 f_1_5 f_0_25;
   mkAabb f_0_3125 f_0_0 f_0_75 f_0_6875 f_1_5 f_1_0;
   mkAabb f_0_3125 f_0_0 f_0_0 f_0_6875 f_1_5 f_1_0;
   mkAabb f_0_6875 f_0_0 f_0_3125 f_1_0 f_1_5 f_0_6875;
   mkAabb f_0_0 f_0_0 f_0_3125 f_1_0 f_1_5 f_0_6875;
   mkAabb f_0_3125 f_0_0 f_0_0 f_0_6875 f_1_5 f_0_3125;
   mkAabb f_0_3125 f_0_0 f_0_6875 f_0_6875 f_1_5 f_1_0;
   mkAabb f_0_0 f_0_0 f_0_3125 f_1_0 f_1_5 f_0_6875;
   mkAabb f_0_3125 f_0_0 f_0_0 f_0_6875 f_1_5 f_0_3125;
   mkAabb f_0_3125 f_0_0 f_0_6875 f_0_6875 f_1_5 f_1_0;
   mkAabb f_0_0 f_0_0 f_0_375 f_1_0 f_1_5 f_0_625;
   mkAabb f_0_375 f_0_0 f_0_0 f_0_625 f_1_5 f_0_375;
   mkAabb f_0_375 f_0_0 f_0_625 f_0_625 f_1_5 f_1_0;
   mkAabb f_0_375 f_0_0 f_0_0 f_0_625 f_1_5 f_1_0;
   mkAabb f_0_625 f_0_0 f_0_375 f_1_0 f_1_5 f_0_625;
   mkAabb f_0_0 f_0_0 f_0_375 f_1_0 f_1_5 f_0_625;
   mkAabb f_0_375 f_0_0 f_0_0 f_0_625 f_1_5 f_0_375;
   mkAabb f_0_375 f_0_0 f_0_0 f_0_625 f_1_5 f_0_625;
   mkAabb f_0_625 f_0_0 f_0_375 f_1_0 f_1_5 f_0_625;
   mkAabb f_0_0 f_0_0 f_0_375 f_1_0 f_1_5 f_0_625;
   mkAabb f_0_375 f_0_0 f_0_625 f_0_625 f_1_5 f_1_0;
   mkAabb f_0_375 f_0_0 f_0_375 f_0_625 f_1_5 f_1_0;
   mkAabb f_0_625 f_0_0 f_0_375 f_1_0 f_1_5 f_0_625;
   mkAabb f_0_0 f_0_0 f_0_375 f_1_0 f_1_5 f_0_625;
   mkAabb f_0_375 f_0_0 f_0_375 f_1_0 f_1_5 f_0_625;
   mkAabb f_0_0 f_0_0 f_0_375 f_0_625 f_1_5 f_0_625;
   mkAabb f_0_375 f_0_0 f_0_0 f_0_625 f_1_5 f_0_375;
   mkAabb f_0_375 f_0_0 f_0_625 f_0_625 f_1_5 f_1_0;
   mkAabb f_0_375 f_0_0 f_0_0 f_0_625 f_1_5 f_1_0;
   mkAabb f_0_0 f_0_0 f_0_375 f_0_625 f_1_5 f_0_625;
   mkAabb f_0_375 f_0_0 f_0_0 f_0_625 f_1_5 f_0_375;
   mkAabb f_0_375 f_0_0 f_0_0 f_0_625 f_1_5 f_0_625;
   mkAabb f_0_0 f_0_0 f_0_375 f_0_625 f_1_5 f_0_625;
   mkAabb f_0_375 f_0_0 f_0_625 f_0_625 f_1_5 f_1_0;
   mkAabb f_0_375 f_0_0 f_0_375 f_0_625 f_1_5 f_1_0].
Definition SHAPE_BOXES_5 : list Aabb :=
  [mkAabb f_0_0 f_0_0 f_0_375 f_0_625 f_1_5 f_0_625;
   mkAabb f_0_375 f_0_0 f_0_375 f_0_625 f_1_5 f_0_625;
   mkAabb f_0_0 f_0_0 f_0_0 f_1_0 f_0_75 f_1_0;
   mkAabb f_0_0625 f_0_0 f_0_0625 f_0_9375 f_0_125 f_0_9375;
   mkAabb f_0_4375 f_0_125 f_0_4375 f_0_5625 f_0_875 f_0_5625;
   mkAabb f_0_0 f_0_0 f_0_0 f_0_125 f_1_0 f_0_25;
   mkAabb f_0_0 f_0_0 f_0_75 f_0_125 f_1_0 f_1_0;
   mkAabb f_0_125 f_0_0 f_0_0 f_0_25 f_1_0 f_0_125;
   mkAabb f_0_125 f_0_0 f_0_875 f_0_25 f_1_0 f_1_0;
   mkAabb f_0_75 f_0_0 f_0_0 f_1_0 f_1_0 f_0_125;
   mkAabb f_0_75 f_0_0 f_0_875 f_1_0 f_1_0 f_1_0;
   mkAabb f_0_875 f_0_0 f_0_125 f_1_0 f_1_0 f_0_25;
   mkAabb f_0_875 f_0_0 f_0_75 f_1_0 f_1_0 f_0_875;
   mkAabb f_0_0 f_0_1875 f_0_25 f_1_0 f_0_25 f_0_75;
   mkAabb f_0_125 f_0_1875 f_0_125 f_0_875 f_0_25 f_0_25;
   mkAabb f_0_125 f_0_1875 f_0_75 f_0_875 f_0_25 f_0_875;
   mkAabb f_0_25 f_0_1875 f_0_0 f_0_75 f_1_0 f_0_125;
   mkAabb f_0_25 f_0_1875 f_0_875 f_0_75 f_1_0 f_1_0;
   mkAabb f_0_0 f_0_25 f_0_25 f_0_125 f_1_0 f_0_75;
   mkAabb f_0_875 f_0_25 f_0_25 f_1_0 f_1_0 f_0_75;
   mkAabb f_0_0 f_0_0 f_0_0 f_1_0 f_0_8125 f_1_0;
   mkAabb f_0_25 f_0_8125 f_0_25 f_0_75 f_1_0 f_0_75;
   mkAabb f_0_0 f_0_0 f_0_0 f_1_0 f_0_8125 f_1_0;
   mkAabb f_0_0625 f_0_0 f_0_0625 f_0_9375 f_1_0 f_0_9375;
   mkAabb f_0_375 f_0_4375 f_0_0625 f_0_625 f_0_75 f_0_3125;
   mkAabb f_0_375 f_0_4375 f_0_6875 f_0_625 f_0_75 f_0_9375;
   mkAabb f_0_0625 f_0_4375 f_0_375 f_0_3125 f_0_75 f_0_625;
   mkAabb f_0_6875 f_0_4375 f_0_375 f_0_9375 f_0_75 f_0_625;
   mkAabb f_0_3125 f_0_3125 f_0_0625 f_0_6875 f_0_75 f_0_4375;
   mkAabb f_0_3125 f_0_3125 f_0_5625 f_0_6875 f_0_75 f_0_9375;
   mkAabb f_0_0625 f_0_3125 f_0_3125 f_0_4375 f_0_75 f_0_6875;
   mkAabb f_0_5625 f_0_3125 f_0_3125 f_0_9375 f_0_75 f_0_6875;
   mkAabb f_0_25 f_0_1875 f_0_0625 f_0_75 f_0_75 f_0_5625;
   mkAabb f_0_25 f_0_1875 f_0_4375 f_0_75 f_0_75 f_0_9375;
   mkAabb f_0_0625 f_0_1875 f_0_25 f_0_5625 f_0_75 f_0_75;
   mkAabb f_0_4375 f_0_1875 f_0_25 f_0_9375 f_0_75 f_0_75;
   mkAabb f_0_0625 f_0_0 f_0_0625 f_0_9375 f_0_875 f_0_9375;
   mkAabb f_0_25 f_0_0 f_0_25 f_0_75 f_1_5 f_0_75;
   mkAabb f_0_0 f_0_0 f_0_3125 f_0_75 f_1_5 f_0_6875;
   mkAabb f_0_25 f_0_0 f_0_25 f_0_75 f_1_5 f_0_3125;
   mkAabb f_0_25 f_0_0 f_0_6875 f_0_75 f_1_5 f_0_75;
   mkAabb f_0_0 f_0_0 f_0_3125 f_0_75 f_1_5 f_0_6875;
   mkAabb f_0_25 f_0_0 f_0_25 f_0_75 f_1_5 f_0_3125;
   mkAabb f_0_25 f_0_0 f_0_6875 f_0_75 f_1_5 f_0_75;
   mkAabb f_0_0 f_0_0 f_0_3125 f_0_6875 f_1_5 f_0_6875;
   mkAabb f_0_0 f_0_0 f_0_3125 f_0_6875 f_1_5 f_0_6875;
   mkAabb f_0_25 f_0_0 f_0_25 f_0_75 f_1_5 f_0_75;
   mkAabb f_0_3125 f_0_0 f_0_75 f_0_6875 f_1_5 f_1_0;
   mkAabb f_0_0 f_0_0 f_0_3125 f_0_75 f_1_5 f_0_6875;
   mkAabb f_0_25 f_0_0 f_0_25 f_0_75 f_1_5 f_0_3125;
   mkAabb f_0_25 f_0_0 f_0_6875 f_0_75 f_1_5 f_0_75;
   mkAabb f_0_3125 f_0_0 f_0_75 f_0_6875 f_1_5 f_1_0;
   mkAabb f_0_0 f_0_0 f_0_3125 f_0_75 f_1_5 f_0_6875;
   mkAabb f_0_25 f_0_0 f_0_25 f_0_75 f_1_5 f_0_3125;
   mkAabb f_0_25 f_0_0 f_0_6875 f_0_75 f_1_5 f_0_75;
   mkAabb f_0_3125 f_0_0 f_0_75 f_0_6875 f_1_5 f_1_0;
   mkAabb f_0_3125 f_0_0 f_0_3125 f_0_6875 f_1_5 f_1_0;
   mkAabb f_0_0 f_0_0 f_0_3125 f_0_6875 f_1_5 f_0_6875;
   mkAabb f_0_3125 f_0_0 f_0_6875 f_0_6875 f_1_5 f_1_0;
   mkAabb f_0_0 f_0_0 f_0_3125 f_0_6875 f_1_5 f_0_6875;
   mkAabb f_0_3125 f_0_0 f_0_6875 f_0_6875 f_1_5 f_1_0;
   mkAabb f_0_25 f_0_0 f_0_25 f_0_75 f_1_5 f_0_75;
   mkAabb f_0_3125 f_0_0 f_0_75 f_0_6875 f_1_5 f_1_0;
   mkAabb f_0_0 f_0_0 f_0_3125 f_0_75 f_1_5 f_0_6875;
   mkAabb f_0_25 f_0_0 f_0_25 f_0_75 f_1_5 f_0_3125;
   mkAabb f_0_25 f_0_0 f_0_6875 f_0_75 f_1_5 f_0_75;
   mkAabb f_0_3125 f_0_0 f_0_75 f_0_6875 f_1_5 f_1_0;
   mkAabb f_0_0 f_0_0 f_0_3125 f_0_75 f_1_5 f_0_6875;
   mkAabb f_0_25 f_0_0 f_0_25 f_0_75 f_1_5 f_0_3125;
   mkAabb f_0_25 f_0_0 f_0_6875 f_0_75 f_1_5 f_0_75;
   mkAabb f_0_3125 f_0_0 f_0_75 f_0_6875 f_1_5 f_1_0;
   mkAabb f_0_3125 f_0_0 f_0_3125 f_0_6875 f_1_5 f_1_0;
   mkAabb f_0_0 f_0_0 f_0_3125 f_0_6875 f_1_5 f_0_6875;
   mkAabb f_0_3125 f_0_0 f_0_6875 f_0_6875 f_1_5 f_1_0;
   mkAabb f_0_0 f_0_0 f_0_3125 f_0_6875 f_1_5 f_0_6875;
   mkAabb f_0_3125 f_0_0 f_0_6875 f_0_6875 f_1_5 f_1_0;
   mkAabb f_0_25 f_0_0 f_0_25 f_0_75 f_1_5 f_0_75;
   mkAabb f_0_3125 f_0_0 f_0_0 f_0_6875 f_1_5 f_0_25;
   mkAabb f_0_0 f_0_0 f_0_3125 f_0_75 f_1_5 f_0_6875;
   mkAabb f_0_25 f_0_0 f_0_25 f_0_75 f_1_5 f_0_3125;
   mkAabb f_0_25 f_0_0 f_0_6875 f_0_75 f_1_5 f_0_75;
   mkAabb f_0_3125 f_0_0 f_0_0 f_0_6875 f_1_5 f_0_25;
   mkAabb f_0_0 f_0_0 f_0_3125 f_0_75 f_1_5 f_0_6875;
   mkAabb f_0_25 f_0_0 f_0_25 f_0_75 f_1_5 f_0_3125;
   mkAabb f_0_25 f_0_0 f_0_6875 f_0_75 f_1_5 f_0_75;
   mkAabb f_0_3125 f_0_0 f_0_0 f_0_6875 f_1_5 f_0_25;
   mkAabb f_0_3125 f_0_0 f_0_0 f_0_6875 f_1_5 f_0_6875;
   mkAabb f_0_0 f_0_0 f_0_3125 f_0_6875 f_1_5 f_0_6875;
   mkAabb f_0_3125 f_0_0 f_0_0 f_0_6875 f_1_5 f_0_3125;
   mkAabb f_0_0 f_0_0 f_0_3125 f_0_6875 f_1_5 f_0_6875;
   mkAabb f_0_3125 f_0_0 f_0_0 f_0_6875 f_1_5 f_0_3125;
   mkAabb f_0_25 f_0_0 f_0_25 f_0_75 f_1_5 f_0_75;
   mkAabb f_0_3125 f_0_0 f_0_0 f_0_6875 f_1_5 f_0_25;
   mkAabb f_0_3125 f_0_0 f_0_75 f_0_6875 f_1_5 f_1_0;
   mkAabb f_0_0 f_0_0 f_0_3125 f_0_75 f_1_5 f_0_6875;
   mkAabb f_0_25 f_0_0 f_0_25 f_0_75 f_1_5 f_0_3125;
   mkAabb f_0_25 f_0_0 f_0_6875 f_0_75 f_1_5 f_0_75;
   mkAabb f_0_3125 f_0_0 f_0_0 f_0_6875 f_1_5 f_0_25;
   mkAabb f_0_3125 f_0_0 f_0_75 f_0_6875 f_1_5 f_1_0;
   mkAabb f_0_0 f_0_0 f_0_3125 f_0_75 f_1_5 f_0_6875;
   mkAabb f_0_25 f_0_0 f_0_25 f_0_75 f_1_5 f_0_3125;
   mkAabb f_0_25 f_0_0 f_0_6875 f_0_75 f_1_5 f_0_75;
   mkAabb f_0_3125 f_0_0 f_0_0 f_0_6875 f_1_5 f_0_25;
   mkAabb f_0_3125 f_0_0 f_0_75 f_0_6875 f_1_5 f_1_0;
   mkAabb f_0_3125 f_0_0 f_0_0 f_0_6875 f_1_5 f_1_0;
   mkAabb f_0_0 f_0_0 f_0_3125 f_0_6875 f_1_5 f_0_6875;
   mkAabb f_0_3125 f_0_0 f_0_0 f_0_6875 f_1_5 f_0_3125;
   mkAabb f_0_3125 f_0_0 f_0_6875 f_0_6875 f_1_5 f_1_0;
   mkAabb f_0_0 f_0_0 f_0_3125 f_0_6875 f_1_5 f_0_6875;
   mkAabb f_0_3125 f_0_0 f_0_0 f_0_6875 f_1_5 f_0_3125;
   mkAabb f_0_3125 f_0_0 f_0_6875 f_0_6875 f_1_5 f_1_0;
   mkAabb f_0_25 f_0_0 f_0_25 f_0_75 f_1_5 f_0_75;
   mkAabb f_0_3125 f_0_0 f_0_0 f_0_6875 f_1_5 f_0_25;
   mkAabb f_0_3125 f_0_0 f_0_75 f_0_6875 f_1_5 f_1_0;
   mkAabb f_0_0 f_0_0 f_0_3125 f_0_75 f_1_5 f_0_6875;
   mkAabb f_0_25 f_0_0 f_0_25 f_0_75 f_1_5 f_0_3125;
   mkAabb f_0_25 f_0_0 f_0_6875 f_0_75 f_1_5 f_0_75;
   mkAabb f_0_3125 f_0_0 f_0_0 f_0_6875 f_1_5 f_0_25;
   mkAabb f_0_3125 f_0_0 f_0_75 f_0_6875 f_1_5 f_1_0;
   mkAabb f_0_0 f_0_0 f_0_3125 f_0_75 f_1_5 f_0_6875;
   mkAabb f_0_25 f_0_0 f_0_25 f_0_75 f_1_5 f_0_3125;
   mkAabb f_0_25 f_0_0 f_0_6875 f_0_75 f_1_5 f_0_75;
   mkAabb f_0_3125 f_0_0 f_0_0 f_0_6875 f_1_5 f_0_25;
   mkAabb f_0_3125 f_0_0 f_0_75 f_0_6875 f_1_5 f_1_0;
   mkAabb f_0_3125 f_0_0 f_0_0 f_0_6875 f_1_5 f_1_0;
   mkAabb f_0_0 f_0_0 f_0_3125 f_0_6875 f_1_5 f_0_6875;
   mkAabb f_0_3125 f_0_0 f_0_0 f_0_6875 f_1_5 f_0_3125;
   mkAabb f_0_3125 f_0_0 f_0_6875 f_0_6875 f_1_5 f_1_0;
   mkAabb f_0_0 f_0_0 f_0_3125 f_0_6875 f_1_5 f_0_6875;
   mkAabb f_0_3125 f_0_0 f_0_0 f_0_6875 f_1_5 f_0_3125;
   mkAabb f_0_3125 f_0_0 f_0_6875 f_0_6875 f_1_5 f_1_0;
   mkAabb f_0_25 f_0_0 f_0_25 f_0_75 f_1_5 f_0_75;
   mkAabb f_0_3125 f_0_0 f_0_0 f_0_6875 f_1_5 f_0_25;
   mkAabb f_0_0 f_0_0 f_0_3125 f_0_75 f_1_5 f_0_6875;
   mkAabb f_0_25 f_0_0 f_0_25 f_0_75 f_1_5 f_0_3125;
   mkAabb f_0_25 f_0_0 f_0_6875 f_0_75 f_1_5 f_0_75;
   mkAabb f_0_3125 f_0_0 f_0_0 f_0_6875 f_1_5 f_0_25;
   mkAabb f_0_0 f_0_0 f_0_3125 f_0_75 f_1_5 f_0_6875;
   mkAabb f_0_25 f_0_0 f_0_25 f_0_75 f_1_5 f_0_3125;
   mkAabb f_0_25 f_0_0 f_0_6875 f_0_75 f_1_5 f_0_75;
   mkAabb f_0_3125 f_0_0 f_0_0 f_0_6875 f_1_5 f_0_25;
   mkAabb f_0_3125 f_0_0 f_0_0 f_0_6875 f_1_5 f_0_6875;
   mkAabb f_0_0 f_0_0 f_0_3125 f_0_6875 f_1_5 f_0_6875;
   mkAabb f_0_3125 f_0_0 f_0_0 f_0_6875 f_1_5 f_0_3125;
   mkAabb f_0_0 f_0_0 f_0_3125 f_0_6875 f_1_5 f_0_6875;
   mkAabb f_0_3125 f_0_0 f_0_0 f_0_6875 f_1_5 f_0_3125;
   mkAabb f_0_25 f_0_0 f_0_25 f_0_75 f_1_5 f_0_75;
   mkAabb f_0_3125 f_0_0 f_0_0 f_0_6875 f_1_5 f_0_25;
   mkAabb f_0_3125 f_0_0 f_0_75 f_0_6875 f_1_5 f_1_0;
   mkAabb f_0_0 f_0_0 f_0_3125 f_0_75 f_1_5 f_0_6875].
Definition SHAPE_BOXES_6 : list Aabb :=
  [mkAabb f_0_25 f_0_0 f_0_25 f_0_75 f_1_5 f_0_3125;
   mkAabb f_0_25 f_0_0 f_0_6875 f_0_75 f_1_5 f_0_75;
   mkAabb f_0_3125 f_0_0 f_0_0 f_0_6875 f_1_5 f_0_25;
   mkAabb f_0_3125 f_0_0 f_0_75 f_0_6875 f_1_5 f_1_0;
   mkAabb f_0_0 f_0_0 f_0_3125 f_0_75 f_1_5 f_0_6875;
   mkAabb f_0_25 f_0_0 f_0_25 f_0_75 f_1_5 f_0_3125;
   mkAabb f_0_25 f_0_0 f_0_6875 f_0_75 f_1_5 f_0_75;
   mkAabb f_0_3125 f_0_0 f_0_0 f_0_6875 f_1_5 f_0_25;
   mkAabb f_0_3125 f_0_0 f_0_75 f_0_6875 f_1_5 f_1_0;
   mkAabb f_0_3125 f_0_0 f_0_0 f_0_6875 f_1_5 f_1_0;
   mkAabb f_0_0 f_0_0 f_0_3125 f_0_6875 f_1_5 f_0_6875;
   mkAabb f_0_3125 f_0_0 f_0_0 f_0_6875 f_1_5 f_0_3125;
   mkAabb f_0_3125 f_0_0 f_0_6875 f_0_6875 f_1_5 f_1_0;
   mkAabb f_0_0 f_0_0 f_0_3125 f_0_6875 f_1_5 f_0_6875;
   mkAabb f_0_3125 f_0_0 f_0_0 f_0_6875 f_1_5 f_0_3125;
   mkAabb f_0_3125 f_0_0 f_0_6875 f_0_6875 f_1_5 f_1_0;
   mkAabb f_0_25 f_0_0 f_0_25 f_0_75 f_1_5 f_0_75;
   mkAabb f_0_3125 f_0_0 f_0_0 f_0_6875 f_1_5 f_0_25;
   mkAabb f_0_3125 f_0_0 f_0_75 f_0_6875 f_1_5 f_1_0;
   mkAabb f_0_0 f_0_0 f_0_3125 f_0_75 f_1_5 f_0_6875;
   mkAabb f_0_25 f_0_0 f_0_25 f_0_75 f_1_5 f_0_3125;
   mkAabb f_0_25 f_0_0 f_0_6875 f_0_75 f_1_5 f_0_75;
   mkAabb f_0_3125 f_0_0 f_0_0 f_0_6875 f_1_5 f_0_25;
   mkAabb f_0_3125 f_0_0 f_0_75 f_0_6875 f_1_5 f_1_0;
   mkAabb f_0_0 f_0_0 f_0_3125 f_0_75 f_1_5 f_0_6875;
   mkAabb f_0_25 f_0_0 f_0_25 f_0_75 f_1_5 f_0_3125;
   mkAabb f_0_25 f_0_0 f_0_6875 f_0_75 f_1_5 f_0_75;
   mkAabb f_0_3125 f_0_0 f_0_0 f_0_6875 f_1_5 f_0_25;
   mkAabb f_0_3125 f_0_0 f_0_75 f_0_6875 f_1_5 f_1_0;
   mkAabb f_0_3125 f_0_0 f_0_0 f_0_6875 f_1_5 f_1_0;
   mkAabb f_0_0 f_0_0 f_0_3125 f_0_6875 f_1_5 f_0_6875;
   mkAabb f_0_3125 f_0_0 f_0_0 f_0_6875 f_1_5 f_0_3125;
   mkAabb f_0_3125 f_0_0 f_0_6875 f_0_6875 f_1_5 f_1_0;
   mkAabb f_0_0 f_0_0 f_0_3125 f_0_6875 f_1_5 f_0_6875;
   mkAabb f_0_3125 f_0_0 f_0_0 f_0_6875 f_1_5 f_0_3125;
   mkAabb f_0_3125 f_0_0 f_0_6875 f_0_6875 f_1_5 f_1_0;
   mkAabb f_0_25 f_0_0 f_0_25 f_0_75 f_1_5 f_0_75;
   mkAabb f_0_75 f_0_0 f_0_3125 f_1_0 f_1_5 f_0_6875;
   mkAabb f_0_0 f_0_0 f_0_3125 f_1_0 f_1_5 f_0_6875;
   mkAabb f_0_25 f_0_0 f_0_25 f_0_75 f_1_5 f_0_3125;
   mkAabb f_0_25 f_0_0 f_0_6875 f_0_75 f_1_5 f_0_75;
   mkAabb f_0_0 f_0_0 f_0_3125 f_1_0 f_1_5 f_0_6875;
   mkAabb f_0_25 f_0_0 f_0_25 f_0_75 f_1_5 f_0_3125;
   mkAabb f_0_25 f_0_0 f_0_6875 f_0_75 f_1_5 f_0_75;
   mkAabb f_0_3125 f_0_0 f_0_3125 f_1_0 f_1_5 f_0_6875;
   mkAabb f_0_0 f_0_0 f_0_3125 f_1_0 f_1_5 f_0_6875;
   mkAabb f_0_0 f_0_0 f_0_3125 f_1_0 f_1_5 f_0_6875;
   mkAabb f_0_25 f_0_0 f_0_25 f_0_75 f_1_5 f_0_75;
   mkAabb f_0_3125 f_0_0 f_0_75 f_0_6875 f_1_5 f_1_0;
   mkAabb f_0_75 f_0_0 f_0_3125 f_1_0 f_1_5 f_0_6875;
   mkAabb f_0_0 f_0_0 f_0_3125 f_1_0 f_1_5 f_0_6875;
   mkAabb f_0_25 f_0_0 f_0_25 f_0_75 f_1_5 f_0_3125;
   mkAabb f_0_25 f_0_0 f_0_6875 f_0_75 f_1_5 f_0_75;
   mkAabb f_0_3125 f_0_0 f_0_75 f_0_6875 f_1_5 f_1_0;
   mkAabb f_0_0 f_0_0 f_0_3125 f_1_0 f_1_5 f_0_6875;
   mkAabb f_0_25 f_0_0 f_0_25 f_0_75 f_1_5 f_0_3125;
   mkAabb f_0_25 f_0_0 f_0_6875 f_0_75 f_1_5 f_0_75;
   mkAabb f_0_3125 f_0_0 f_0_75 f_0_6875 f_1_5 f_1_0;
   mkAabb f_0_3125 f_0_0 f_0_3125 f_0_6875 f_1_5 f_1_0;
   mkAabb f_0_6875 f_0_0 f_0_3125 f_1_0 f_1_5 f_0_6875;
   mkAabb f_0_0 f_0_0 f_0_3125 f_1_0 f_1_5 f_0_6875;
   mkAabb f_0_3125 f_0_0 f_0_6875 f_0_6875 f_1_5 f_1_0;
   mkAabb f_0_0 f_0_0 f_0_3125 f_1_0 f_1_5 f_0_6875;
   mkAabb f_0_3125 f_0_0 f_0_6875 f_0_6875 f_1_5 f_1_0;
   mkAabb f_0_25 f_0_0 f_0_25 f_0_75 f_1_5 f_0_75;
   mkAabb f_0_3125 f_0_0 f_0_75 f_0_6875 f_1_5 f_1_0;
   mkAabb f_0_75 f_0_0 f_0_3125 f_1_0 f_1_5 f_0_6875;
   mkAabb f_0_0 f_0_0 f_0_3125 f_1_0 f_1_5 f_0_6875;
   mkAabb f_0_25 f_0_0 f_0_25 f_0_75 f_1_5 f_0_3125;
   mkAabb f_0_25 f_0_0 f_0_6875 f_0_75 f_1_5 f_0_75;
   mkAabb f_0_3125 f_0_0 f_0_75 f_0_6875 f_1_5 f_1_0;
   mkAabb f_0_0 f_0_0 f_0_3125 f_1_0 f_1_5 f_0_6875;
   mkAabb f_0_25 f_0_0 f_0_25 f_0_75 f_1_5 f_0_3125;
   mkAabb f_0_25 f_0_0 f_0_6875 f_0_75 f_1_5 f_0_75;
   mkAabb f_0_3125 f_0_0 f_0_75 f_0_6875 f_1_5 f_1_0;
   mkAabb f_0_3125 f_0_0 f_0_3125 f_0_6875 f_1_5 f_1_0;
   mkAabb f_0_6875 f_0_0 f_0_3125 f_1_0 f_1_5 f_0_6875;
   mkAabb f_0_0 f_0_0 f_0_3125 f_1_0 f_1_5 f_0_6875;
   mkAabb f_0_3125 f_0_0 f_0_6875 f_0_6875 f_1_5 f_1_0;
   mkAabb f_0_0 f_0_0 f_0_3125 f_1_0 f_1_5 f_0_6875;
   mkAabb f_0_3125 f_0_0 f_0_6875 f_0_6875 f_1_5 f_1_0;
   mkAabb f_0_25 f_0_0 f_0_25 f_0_75 f_1_5 f_0_75;
   mkAabb f_0_3125 f_0_0 f_0_0 f_0_6875 f_1_5 f_0_25;
   mkAabb f_0_75 f_0_0 f_0_3125 f_1_0 f_1_5 f_0_6875;
   mkAabb f_0_0 f_0_0 f_0_3125 f_1_0 f_1_5 f_0_6875;
   mkAabb f_0_25 f_0_0 f_0_25 f_0_75 f_1_5 f_0_3125;
   mkAabb f_0_25 f_0_0 f_0_6875 f_0_75 f_1_5 f_0_75;
   mkAabb f_0_3125 f_0_0 f_0_0 f_0_6875 f_1_5 f_0_25;
   mkAabb f_0_0 f_0_0 f_0_3125 f_1_0 f_1_5 f_0_6875;
   mkAabb f_0_25 f_0_0 f_0_25 f_0_75 f_1_5 f_0_3125;
   mkAabb f_0_25 f_0_0 f_0_6875 f_0_75 f_1_5 f_0_75;
   mkAabb f_0_3125 f_0_0 f_0_0 f_0_6875 f_1_5 f_0_25;
   mkAabb f_0_3125 f_0_0 f_0_0 f_0_6875 f_1_5 f_0_6875;
   mkAabb f_0_6875 f_0_0 f_0_3125 f_1_0 f_1_5 f_0_6875;
   mkAabb f_0_0 f_0_0 f_0_3125 f_1_0 f_1_5 f_0_6875;
   mkAabb f_0_3125 f_0_0 f_0_0 f_0_6875 f_1_5 f_0_3125;
   mkAabb f_0_0 f_0_0 f_0_3125 f_1_0 f_1_5 f_0_6875;
   mkAabb f_0_3125 f_0_0 f_0_0 f_0_6875 f_1_5 f_0_3125;
   mkAabb f_0_25 f_0_0 f_0_25 f_0_75 f_1_5 f_0_75;
   mkAabb f_0_3125 f_0_0 f_0_0 f_0_6875 f_1_5 f_0_25;
   mkAabb f_0_3125 f_0_0 f_0_75 f_0_6875 f_1_5 f_1_0;
   mkAabb f_0_75 f_0_0 f_0_3125 f_1_0 f_1_5 f_0_6875;
   mkAabb f_0_0 f_0_0 f_0_3125 f_1_0 f_1_5 f_0_6875;
   mkAabb f_0_25 f_0_0 f_0_25 f_0_75 f_1_5 f_0_3125;
   mkAabb f_0_25 f_0_0 f_0_6875 f_0_75 f_1_5 f_0_75;
   mkAabb f_0_3125 f_0_0 f_0_0 f_0_6875 f_1_5 f_0_25;
   mkAabb f_0_3125 f_0_0 f_0_75 f_0_6875 f_1_5 f_1_0;
   mkAabb f_0_0 f_0_0 f_0_3125 f_1_0 f_1_5 f_0_6875;
   mkAabb f_0_25 f_0_0 f_0_25 f_0_75 f_1_5 f_0_3125;
   mkAabb f_0_25 f_0_0 f_0_6875 f_0_75 f_1_5 f_0_75;
   mkAabb f_0_3125 f_0_0 f_0_0 f_0_6875 f_1_5 f_0_25;
   mkAabb f_0_3125 f_0_0 f_0_75 f_0_6875 f_1_5 f_1_0;
   mkAabb f_0_3125 f_0_0 f_0_0 f_0_6875 f_1_5 f_1_0;
   mkAabb f_0_6875 f_0_0 f_0_3125 f_1_0 f_1_5 f_0_6875;
   mkAabb f_0_0 f_0_0 f_0_3125 f_1_0 f_1_5 f_0_6875;
   mkAabb f_0_3125 f_0_0 f_0_0 f_0_6875 f_1_5 f_0_3125;
   mkAabb f_0_3125 f_0_0 f_0_6875 f_0_6875 f_1_5 f_1_0;
   mkAabb f_0_0 f_0_0 f_0_3125 f_1_0 f_1_5 f_0_6875;
   mkAabb f_0_3125 f_0_0 f_0_0 f_0_6875 f_1_5 f_0_3125;
   mkAabb f_0_3125 f_0_0 f_0_6875 f_0_6875 f_1_5 f_1_0;
   mkAabb f_0_25 f_0_0 f_0_25 f_0_75 f_1_5 f_0_75;
   mkAabb f_0_3125 f_0_0 f_0_0 f_0_6875 f_1_5 f_0_25;
   mkAabb f_0_3125 f_0_0 f_0_75 f_0_6875 f_1_5 f_1_0;
   mkAabb f_0_75 f_0_0 f_0_3125 f_1_0 f_1_5 f_0_6875;
   mkAabb f_0_0 f_0_0 f_0_3125 f_1_0 f_1_5 f_0_6875;
   mkAabb f_0_25 f_0_0 f_0_25 f_0_75 f_1_5 f_0_3125;
   mkAabb f_0_25 f_0_0 f_0_6875 f_0_75 f_1_5 f_0_75;
   mkAabb f_0_3125 f_0_0 f_0_0 f_0_6875 f_1_5 f_0_25;
   mkAabb f_0_3125 f_0_0 f_0_75 f_0_6875 f_1_5 f_1_0;
   mkAabb f_0_0 f_0_0 f_0_3125 f_1_0 f_1_5 f_0_6875;
   mkAabb f_0_25 f_0_0 f_0_25 f_0_75 f_1_5 f_0_3125;
   mkAabb f_0_25 f_0_0 f_0_6875 f_0_75 f_1_5 f_0_75;
   mkAabb f_0_3125 f_0_0 f_0_0 f_0_6875 f_1_5 f_0_25;
   mkAabb f_0_3125 f_0_0 f_0_75 f_0_6875 f_1_5 f_1_0;
   mkAabb f_0_3125 f_0_0 f_0_0 f_0_6875 f_1_5 f_1_0;
   mkAabb f_0_6875 f_0_0 f_0_3125 f_1_0 f_1_5 f_0_6875;
   mkAabb f_0_0 f_0_0 f_0_3125 f_1_0 f_1_5 f_0_6875;
   mkAabb f_0_3125 f_0_0 f_0_0 f_0_6875 f_1_5 f_0_3125;
   mkAabb f_0_3125 f_0_0 f_0_6875 f_0_6875 f_1_5 f_1_0;
   mkAabb f_0_0 f_0_0 f_0_3125 f_1_0 f_1_5 f_0_6875;
   mkAabb f_0_3125 f_0_0 f_0_0 f_0_6875 f_1_5 f_0_3125;
   mkAabb f_0_3125 f_0_0 f_0_6875 f_0_6875 f_1_5 f_1_0;
   mkAabb f_0_25 f_0_0 f_0_25 f_0_75 f_1_5 f_0_75;
   mkAabb f_0_3125 f_0_0 f_0_0 f_0_6875 f_1_5 f_0_25;
   mkAabb f_0_75 f_0_0 f_0_3125 f_1_0 f_1_5 f_0_6875;
   mkAabb f_0_0 f_0_0 f_0_3125 f_1_0 f_1_5 f_0_6875;
   mkAabb f_0_25 f_0_0 f_0_25 f_0_75 f_1_5 f_0_3125;
   mkAabb f_0_25 f_0_0 f_0_6875 f_0_75 f_1_5 f_0_75;
   mkAabb f_0_3125 f_0_0 f_0_0 f_0_6875 f_1_5 f_0_25;
   mkAabb f_0_0 f_0_0 f_0_3125 f_1_0 f_1_5 f_0_6875].
Definition SHAPE_BOXES_7 : list Aabb :=
  [mkAabb f_0_25 f_0_0 f_0_25 f_0_75 f_1_5 f_0_3125;
   mkAabb f_0_25 f_0_0 f_0_6875 f_0_75 f_1_5 f_0_75;
   mkAabb f_0_3125 f_0_0 f_0_0 f_0_6875 f_1_5 f_0_25;
   mkAabb f_0_3125 f_0_0 f_0_0 f_0_6875 f_1_5 f_0_6875;
   mkAabb f_0_6875 f_0_0 f_0_3125 f_1_0 f_1_5 f_0_6875;
   mkAabb f_0_0 f_0_0 f_0_3125 f_1_0 f_1_5 f_0_6875;
   mkAabb f_0_3125 f_0_0 f_0_0 f_0_6875 f_1_5 f_0_3125;
   mkAabb f_0_0 f_0_0 f_0_3125 f_1_0 f_1_5 f_0_6875;
   mkAabb f_0_3125 f_0_0 f_0_0 f_0_6875 f_1_5 f_0_3125;
   mkAabb f_0_25 f_0_0 f_0_25 f_0_75 f_1_5 f_0_75;
   mkAabb f_0_3125 f_0_0 f_0_0 f_0_6875 f_1_5 f_0_25;
   mkAabb f_0_3125 f_0_0 f_0_75 f_0_6875 f_1_5 f_1_0;
   mkAabb f_0_75 f_0_0 f_0_3125 f_1_0 f_1_5 f_0_6875;
   mkAabb f_0_0 f_0_0 f_0_3125 f_1_0 f_1_5 f_0_6875;
   mkAabb f_0_25 f_0_0 f_0_25 f_0_75 f_1_5 f_0_3125;
   mkAabb f_0_25 f_0_0 f_0_6875 f_0_75 f_1_5 f_0_75;
   mkAabb f_0_3125 f_0_0 f_0_0 f_0_6875 f_1_5 f_0_25;
   mkAabb f_0_3125 f_0_0 f_0_75 f_0_6875 f_1_5 f_1_0;
   mkAabb f_0_0 f_0_0 f_0_3125 f_1_0 f_1_5 f_0_6875;
   mkAabb f_0_25 f_0_0 f_0_25 f_0_75 f_1_5 f_0_3125;
   mkAabb f_0_25 f_0_0 f_0_6875 f_0_75 f_1_5 f_0_75;
   mkAabb f_0_3125 f_0_0 f_0_0 f_0_6875 f_1_5 f_0_25;
   mkAabb f_0_3125 f_0_0 f_0_75 f_0_6875 f_1_5 f_1_0;
   mkAabb f_0_3125 f_0_0 f_0_0 f_0_6875 f_1_5 f_1_0;
   mkAabb f_0_6875 f_0_0 f_0_3125 f_1_0 f_1_5 f_0_6875;
   mkAabb f_0_0 f_0_0 f_0_3125 f_1_0 f_1_5 f_0_6875;
   mkAabb f_0_3125 f_0_0 f_0_0 f_0_6875 f_1_5 f_0_3125;
   mkAabb f_0_3125 f_0_0 f_0_6875 f_0_6875 f_1_5 f_1_0;
   mkAabb f_0_0 f_0_0 f_0_3125 f_1_0 f_1_5 f_0_6875;
   mkAabb f_0_3125 f_0_0 f_0_0 f_0_6875 f_1_5 f_0_3125;
   mkAabb f_0_3125 f_0_0 f_0_6875 f_0_6875 f_1_5 f_1_0;
   mkAabb f_0_25 f_0_0 f_0_25 f_0_75 f_1_5 f_0_75;
   mkAabb f_0_3125 f_0_0 f_0_0 f_0_6875 f_1_5 f_0_25;
   mkAabb f_0_3125 f_0_0 f_0_75 f_0_6875 f_1_5 f_1_0;
   mkAabb f_0_75 f_0_0 f_0_3125 f_1_0 f_1_5 f_0_6875;
   mkAabb f_0_0 f_0_0 f_0_3125 f_1_0 f_1_5 f_0_6875;
   mkAabb f_0_25 f_0_0 f_0_25 f_0_75 f_1_5 f_0_3125;
   mkAabb f_0_25 f_0_0 f_0_6875 f_0_75 f_1_5 f_0_75;
   mkAabb f_0_3125 f_0_0 f_0_0 f_0_6875 f_1_5 f_0_25;
   mkAabb f_0_3125 f_0_0 f_0_75 f_0_6875 f_1_5 f_1_0;
   mkAabb f_0_0 f_0_0 f_0_3125 f_1_0 f_1_5 f_0_6875;
   mkAabb f_0_25 f_0_0 f_0_25 f_0_75 f_1_5 f_0_3125;
   mkAabb f_0_25 f_0_0 f_0_6875 f_0_75 f_1_5 f_0_75;
   mkAabb f_0_3125 f_0_0 f_0_0 f_0_6875 f_1_5 f_0_25;
   mkAabb f_0_3125 f_0_0 f_0_75 f_0_6875 f_1_5 f_1_0;
   mkAabb f_0_3125 f_0_0 f_0_0 f_0_6875 f_1_5 f_1_0;
   mkAabb f_0_6875 f_0_0 f_0_3125 f_1_0 f_1_5 f_0_6875;
   mkAabb f_0_0 f_0_0 f_0_3125 f_1_0 f_1_5 f_0_6875;
   mkAabb f_0_3125 f_0_0 f_0_0 f_0_6875 f_1_5 f_0_3125;
   mkAabb f_0_3125 f_0_0 f_0_6875 f_0_6875 f_1_5 f_1_0;
   mkAabb f_0_0 f_0_0 f_0_3125 f_1_0 f_1_5 f_0_6875;
   mkAabb f_0_3125 f_0_0 f_0_0 f_0_6875 f_1_5 f_0_3125;
   mkAabb f_0_3125 f_0_0 f_0_6875 f_0_6875 f_1_5 f_1_0;
   mkAabb f_0_25 f_0_0 f_0_25 f_0_75 f_1_5 f_0_75;
   mkAabb f_0_75 f_0_0 f_0_3125 f_1_0 f_1_5 f_0_6875;
   mkAabb f_0_0 f_0_0 f_0_3125 f_1_0 f_1_5 f_0_6875;
   mkAabb f_0_25 f_0_0 f_0_25 f_0_75 f_1_5 f_0_3125;
   mkAabb f_0_25 f_0_0 f_0_6875 f_0_75 f_1_5 f_0_75;
   mkAabb f_0_0 f_0_0 f_0_3125 f_1_0 f_1_5 f_0_6875;
   mkAabb f_0_25 f_0_0 f_0_25 f_0_75 f_1_5 f_0_3125;
   mkAabb f_0_25 f_0_0 f_0_6875 f_0_75 f_1_5 f_0_75;
   mkAabb f_0_3125 f_0_0 f_0_3125 f_1_0 f_1_5 f_0_6875;
   mkAabb f_0_0 f_0_0 f_0_3125 f_1_0 f_1_5 f_0_6875;
   mkAabb f_0_0 f_0_0 f_0_3125 f_1_0 f_1_5 f_0_6875;
   mkAabb f_0_25 f_0_0 f_0_25 f_0_75 f_1_5 f_0_75;
   mkAabb f_0_3125 f_0_0 f_0_75 f_0_6875 f_1_5 f_1_0;
   mkAabb f_0_75 f_0_0 f_0_3125 f_1_0 f_1_5 f_0_6875;
   mkAabb f_0_0 f_0_0 f_0_3125 f_1_0 f_1_5 f_0_6875;
   mkAabb f_0_25 f_0_0 f_0_25 f_0_75 f_1_5 f_0_3125;
   mkAabb f_0_25 f_0_0 f_0_6875 f_0_75 f_1_5 f_0_75;
   mkAabb f_0_3125 f_0_0 f_0_75 f_0_6875 f_1_5 f_1_0;
   mkAabb f_0_0 f_0_0 f_0_3125 f_1_0 f_1_5 f_0_6875;
   mkAabb f_0_25 f_0_0 f_0_25 f_0_75 f_1_5 f_0_3125;
   mkAabb f_0_25 f_0_0 f_0_6875 f_0_75 f_1_5 f_0_75;
   mkAabb f_0_3125 f_0_0 f_0_75 f_0_6875 f_1_5 f_1_0;
   mkAabb f_0_3125 f_0_0 f_0_3125 f_0_6875 f_1_5 f_1_0;
   mkAabb f_0_6875 f_0_0 f_0_3125 f_1_0 f_1_5 f_0_6875;
   mkAabb f_0_0 f_0_0 f_0_3125 f_1_0 f_1_5 f_0_6875;
   mkAabb f_0_3125 f_0_0 f_0_6875 f_0_6875 f_1_5 f_1_0;
   mkAabb f_0_0 f_0_0 f_0_3125 f_1_0 f_1_5 f_0_6875;
   mkAabb f_0_3125 f_0_0 f_0_6875 f_0_6875 f_1_5 f_1_0;
   mkAabb f_0_25 f_0_0 f_0_25 f_0_75 f_1_5 f_0_75;
   mkAabb f_0_3125 f_0_0 f_0_75 f_0_6875 f_1_5 f_1_0;
   mkAabb f_0_75 f_0_0 f_0_3125 f_1_0 f_1_5 f_0_6875;
   mkAabb f_0_0 f_0_0 f_0_3125 f_1_0 f_1_5 f_0_6875;
   mkAabb f_0_25 f_0_0 f_0_25 f_0_75 f_1_5 f_0_3125;
   mkAabb f_0_25 f_0_0 f_0_6875 f_0_75 f_1_5 f_0_75;
   mkAabb f_0_3125 f_0_0 f_0_75 f_0_6875 f_1_5 f_1_0;
   mkAabb f_0_0 f_0_0 f_0_3125 f_1_0 f_1_5 f_0_6875;
   mkAabb f_0_25 f_0_0 f_0_25 f_0_75 f_1_5 f_0_3125;
   mkAabb f_0_25 f_0_0 f_0_6875 f_0_75 f_1_5 f_0_75;
   mkAabb f_0_3125 f_0_0 f_0_75 f_0_6875 f_1_5 f_1_0;
   mkAabb f_0_3125 f_0_0 f_0_3125 f_0_6875 f_1_5 f_1_0;
   mkAabb f_0_6875 f_0_0 f_0_3125 f_1_0 f_1_5 f_0_6875;
   mkAabb f_0_0 f_0_0 f_0_3125 f_1_0 f_1_5 f_0_6875;
   mkAabb f_0_3125 f_0_0 f_0_6875 f_0_6875 f_1_5 f_1_0;
   mkAabb f_0_0 f_0_0 f_0_3125 f_1_0 f_1_5 f_0_6875;
   mkAabb f_0_3125 f_0_0 f_0_6875 f_0_6875 f_1_5 f_1_0;
   mkAabb f_0_25 f_0_0 f_0_25 f_0_75 f_1_5 f_0_75;
   mkAabb f_0_3125 f_0_0 f_0_0 f_0_6875 f_1_5 f_0_25;
   mkAabb f_0_75 f_0_0 f_0_3125 f_1_0 f_1_5 f_0_6875;
   mkAabb f_0_0 f_0_0 f_0_3125 f_1_0 f_1_5 f_0_6875;
   mkAabb f_0_25 f_0_0 f_0_25 f_0_75 f_1_5 f_0_3125;
   mkAabb f_0_25 f_0_0 f_0_6875 f_0_75 f_1_5 f_0_75;
   mkAabb f_0_3125 f_0_0 f_0_0 f_0_6875 f_1_5 f_0_25;
   mkAabb f_0_0 f_0_0 f_0_3125 f_1_0 f_1_5 f_0_6875;
   mkAabb f_0_25 f_0_0 f_0_25 f_0_75 f_1_5 f_0_3125;
   mkAabb f_0_25 f_0_0 f_0_6875 f_0_75 f_1_5 f_0_75;
   mkAabb f_0_3125 f_0_0 f_0_0 f_0_6875 f_1_5 f_0_25;
   mkAabb f_0_3125 f_0_0 f_0_0 f_0_6875 f_1_5 f_0_6875;
   mkAabb f_0_6875 f_0_0 f_0_3125 f_1_0 f_1_5 f_0_6875;
   mkAabb f_0_0 f_0_0 f_0_3125 f_1_0 f_1_5 f_0_6875;
   mkAabb f_0_3125 f_0_0 f_0_0 f_0_6875 f_1_5 f_0_3125;
   mkAabb f_0_0 f_0_0 f_0_3125 f_1_0 f_1_5 f_0_6875;
   mkAabb f_0_3125 f_0_0 f_0_0 f_0_6875 f_1_5 f_0_3125;
   mkAabb f_0_25 f_0_0 f_0_25 f_0_75 f_1_5 f_0_75;
   mkAabb f_0_3125 f_0_0 f_0_0 f_0_6875 f_1_5 f_0_25;
   mkAabb f_0_3125 f_0_0 f_0_75 f_0_6875 f_1_5 f_1_0;
   mkAabb f_0_75 f_0_0 f_0_3125 f_1_0 f_1_5 f_0_6875;
   mkAabb f_0_0 f_0_0 f_0_3125 f_1_0 f_1_5 f_0_6875;
   mkAabb f_0_25 f_0_0 f_0_25 f_0_75 f_1_5 f_0_3125;
   mkAabb f_0_25 f_0_0 f_0_6875 f_0_75 f_1_5 f_0_75;
   mkAabb f_0_3125 f_0_0 f_0_0 f_0_6875 f_1_5 f_0_25;
   mkAabb f_0_3125 f_0_0 f_0_75 f_0_6875 f_1_5 f_1_0;
   mkAabb f_0_0 f_0_0 f_0_3125 f_1_0 f_1_5 f_0_6875;
   mkAabb f_0_25 f_0_0 f_0_25 f_0_75 f_1_5 f_0_3125;
   mkAabb f_0_25 f_0_0 f_0_6875 f_0_75 f_1_5 f_0_75;
   mkAabb f_0_3125 f_0_0 f_0_0 f_0_6875 f_1_5 f_0_25;
   mkAabb f_0_3125 f_0_0 f_0_75 f_0_6875 f_1_5 f_1_0;
   mkAabb f_0_3125 f_0_0 f_0_0 f_0_6875 f_1_5 f_1_0;
   mkAabb f_0_6875 f_0_0 f_0_3125 f_1_0 f_1_5 f_0_6875;
   mkAabb f_0_0 f_0_0 f_0_3125 f_1_0 f_1_5 f_0_6875;
   mkAabb f_0_3125 f_0_0 f_0_0 f_0_6875 f_1_5 f_0_3125;
   mkAabb f_0_3125 f_0_0 f_0_6875 f_0_6875 f_1_5 f_1_0;
   mkAabb f_0_0 f_0_0 f_0_3125 f_1_0 f_1_5 f_0_6875;
   mkAabb f_0_3125 f_0_0 f_0_0 f_0_6875 f_1_5 f_0_3125;
   mkAabb f_0_3125 f_0_0 f_0_6875 f_0_6875 f_1_5 f_1_0;
   mkAabb f_0_25 f_0_0 f_0_25 f_0_75 f_1_5 f_0_75;
   mkAabb f_0_3125 f_0_0 f_0_0 f_0_6875 f_1_5 f_0_25;
   mkAabb f_0_3125 f_0_0 f_0_75 f_0_6875 f_1_5 f_1_0;
   mkAabb f_0_75 f_0_0 f_0_3125 f_1_0 f_1_5 f_0_6875;
   mkAabb f_0_0 f_0_0 f_0_3125 f_1_0 f_1_5 f_0_6875;
   mkAabb f_0_25 f_0_0 f_0_25 f_0_75 f_1_5 f_0_3125;
   mkAabb f_0_25 f_0_0 f_0_6875 f_0_75 f_1_5 f_0_75;
   mkAabb f_0_3125 f_0_0 f_0_0 f_0_6875 f_1_5 f_0_25;
   mkAabb f_0_3125 f_0_0 f_0_75 f_0_6875 f_1_5 f_1_0;
   mkAabb f_0_0 f_0_0 f_0_3125 f_1_0 f_1_5 f_0_6875;
   mkAabb f_0_25 f_0_0 f_0_25 f_0_75 f_1_5 f_0_3125;
   mkAabb f_0_25 f_0_0 f_0_6875 f_0_75 f_1_5 f_0_75;
   mkAabb f_0_3125 f_0_0 f_0_0 f_0_6875 f_1_5 f_0_25].
Definition SHAPE_BOXES_8 : list Aabb :=
  [mkAabb f_0_3125 f_0_0 f_0_75 f_0_6875 f_1_5 f_1_0;
   mkAabb f_0_3125 f_0_0 f_0_0 f_0_6875 f_1_5 f_1_0;
   mkAabb f_0_6875 f_0_0 f_0_3125 f_1_0 f_1_5 f_0_6875;
   mkAabb f_0_0 f_0_0 f_0_3125 f_1_0 f_1_5 f_0_6875;
   mkAabb f_0_3125 f_0_0 f_0_0 f_0_6875 f_1_5 f_0_3125;
   mkAabb f_0_3125 f_0_0 f_0_6875 f_0_6875 f_1_5 f_1_0;
   mkAabb f_0_0 f_0_0 f_0_3125 f_1_0 f_1_5 f_0_6875;
   mkAabb f_0_3125 f_0_0 f_0_0 f_0_6875 f_1_5 f_0_3125;
   mkAabb f_0_3125 f_0_0 f_0_6875 f_0_6875 f_1_5 f_1_0;
   mkAabb f_0_25 f_0_0 f_0_25 f_0_75 f_1_5 f_0_75;
   mkAabb f_0_3125 f_0_0 f_0_0 f_0_6875 f_1_5 f_0_25;
   mkAabb f_0_75 f_0_0 f_0_3125 f_1_0 f_1_5 f_0_6875;
   mkAabb f_0_0 f_0_0 f_0_3125 f_1_0 f_1_5 f_0_6875;
   mkAabb f_0_25 f_0_0 f_0_25 f_0_75 f_1_5 f_0_3125;
   mkAabb f_0_25 f_0_0 f_0_6875 f_0_75 f_1_5 f_0_75;
   mkAabb f_0_3125 f_0_0 f_0_0 f_0_6875 f_1_5 f_0_25;
   mkAabb f_0_0 f_0_0 f_0_3125 f_1_0 f_1_5 f_0_6875;
   mkAabb f_0_25 f_0_0 f_0_25 f_0_75 f_1_5 f_0_3125;
   mkAabb f_0_25 f_0_0 f_0_6875 f_0_75 f_1_5 f_0_75;
   mkAabb f_0_3125 f_0_0 f_0_0 f_0_6875 f_1_5 f_0_25;
   mkAabb f_0_3125 f_0_0 f_0_0 f_0_6875 f_1_5 f_0_6875;
   mkAabb f_0_6875 f_0_0 f_0_3125 f_1_0 f_1_5 f_0_6875;
   mkAabb f_0_0 f_0_0 f_0_3125 f_1_0 f_1_5 f_0_6875;
   mkAabb f_0_3125 f_0_0 f_0_0 f_0_6875 f_1_5 f_0_3125;
   mkAabb f_0_0 f_0_0 f_0_3125 f_1_0 f_1_5 f_0_6875;
   mkAabb f_0_3125 f_0_0 f_0_0 f_0_6875 f_1_5 f_0_3125;
   mkAabb f_0_25 f_0_0 f_0_25 f_0_75 f_1_5 f_0_75;
   mkAabb f_0_3125 f_0_0 f_0_0 f_0_6875 f_1_5 f_0_25;
   mkAabb f_0_3125 f_0_0 f_0_75 f_0_6875 f_1_5 f_1_0;
   mkAabb f_0_75 f_0_0 f_0_3125 f_1_0 f_1_5 f_0_6875;
   mkAabb f_0_0 f_0_0 f_0_3125 f_1_0 f_1_5 f_0_6875;
   mkAabb f_0_25 f_0_0 f_0_25 f_0_75 f_1_5 f_0_3125;
   mkAabb f_0_25 f_0_0 f_0_6875 f_0_75 f_1_5 f_0_75;
   mkAabb f_0_3125 f_0_0 f_0_0 f_0_6875 f_1_5 f_0_25;
   mkAabb f_0_3125 f_0_0 f_0_75 f_0_6875 f_1_5 f_1_0;
   mkAabb f_0_0 f_0_0 f_0_3125 f_1_0 f_1_5 f_0_6875;
   mkAabb f_0_25 f_0_0 f_0_25 f_0_75 f_1_5 f_0_3125;
   mkAabb f_0_25 f_0_0 f_0_6875 f_0_75 f_1_5 f_0_75;
   mkAabb f_0_3125 f_0_0 f_0_0 f_0_6875 f_1_5 f_0_25;
   mkAabb f_0_3125 f_0_0 f_0_75 f_0_6875 f_1_5 f_1_0;
   mkAabb f_0_3125 f_0_0 f_0_0 f_0_6875 f_1_5 f_1_0;
   mkAabb f_0_6875 f_0_0 f_0_3125 f_1_0 f_1_5 f_0_6875;
   mkAabb f_0_0 f_0_0 f_0_3125 f_1_0 f_1_5 f_0_6875;
   mkAabb f_0_3125 f_0_0 f_0_0 f_0_6875 f_1_5 f_0_3125;
   mkAabb f_0_3125 f_0_0 f_0_6875 f_0_6875 f_1_5 f_1_0;
   mkAabb f_0_0 f_0_0 f_0_3125 f_1_0 f_1_5 f_0_6875;
   mkAabb f_0_3125 f_0_0 f_0_0 f_0_6875 f_1_5 f_0_3125;
   mkAabb f_0_3125 f_0_0 f_0_6875 f_0_6875 f_1_5 f_1_0;
   mkAabb f_0_25 f_0_0 f_0_25 f_0_75 f_1_5 f_0_75;
   mkAabb f_0_3125 f_0_0 f_0_0 f_0_6875 f_1_5 f_0_25;
   mkAabb f_0_3125 f_0_0 f_0_75 f_0_6875 f_1_5 f_1_0;
   mkAabb f_0_75 f_0_0 f_0_3125 f_1_0 f_1_5 f_0_6875;
   mkAabb f_0_0 f_0_0 f_0_3125 f_1_0 f_1_5 f_0_6875;
   mkAabb f_0_25 f_0_0 f_0_25 f_0_75 f_1_5 f_0_3125;
   mkAabb f_0_25 f_0_0 f_0_6875 f_0_75 f_1_5 f_0_75;
   mkAabb f_0_3125 f_0_0 f_0_0 f_0_6875 f_1_5 f_0_25;
   mkAabb f_0_3125 f_0_0 f_0_75 f_0_6875 f_1_5 f_1_0;
   mkAabb f_0_0 f_0_0 f_0_3125 f_1_0 f_1_5 f_0_6875;
   mkAabb f_0_25 f_0_0 f_0_25 f_0_75 f_1_5 f_0_3125;
   mkAabb f_0_25 f_0_0 f_0_6875 f_0_75 f_1_5 f_0_75;
   mkAabb f_0_3125 f_0_0 f_0_0 f_0_6875 f_1_5 f_0_25;
   mkAabb f_0_3125 f_0_0 f_0_75 f_0_6875 f_1_5 f_1_0;
   mkAabb f_0_3125 f_0_0 f_0_0 f_0_6875 f_1_5 f_1_0;
   mkAabb f_0_6875 f_0_0 f_0_3125 f_1_0 f_1_5 f_0_6875;
   mkAabb f_0_0 f_0_0 f_0_3125 f_1_0 f_1_5 f_0_6875;
   mkAabb f_0_3125 f_0_0 f_0_0 f_0_6875 f_1_5 f_0_3125;
   mkAabb f_0_3125 f_0_0 f_0_6875 f_0_6875 f_1_5 f_1_0;
   mkAabb f_0_0 f_0_0 f_0_3125 f_1_0 f_1_5 f_0_6875;
   mkAabb f_0_3125 f_0_0 f_0_0 f_0_6875 f_1_5 f_0_3125;
   mkAabb f_0_3125 f_0_0 f_0_6875 f_0_6875 f_1_5 f_1_0;
   mkAabb f_0_25 f_0_0 f_0_25 f_0_75 f_1_5 f_0_75;
   mkAabb f_0_0 f_0_0 f_0_3125 f_0_75 f_1_5 f_0_6875;
   mkAabb f_0_25 f_0_0 f_0_25 f_0_75 f_1_5 f_0_3125;
   mkAabb f_0_25 f_0_0 f_0_6875 f_0_75 f_1_5 f_0_75;
   mkAabb f_0_0 f_0_0 f_0_3125 f_0_75 f_1_5 f_0_6875;
   mkAabb f_0_25 f_0_0 f_0_25 f_0_75 f_1_5 f_0_3125;
   mkAabb f_0_25 f_0_0 f_0_6875 f_0_75 f_1_5 f_0_75;
   mkAabb f_0_0 f_0_0 f_0_3125 f_0_6875 f_1_5 f_0_6875;
   mkAabb f_0_0 f_0_0 f_0_3125 f_0_6875 f_1_5 f_0_6875;
   mkAabb f_0_25 f_0_0 f_0_25 f_0_75 f_1_5 f_0_75;
   mkAabb f_0_3125 f_0_0 f_0_75 f_0_6875 f_1_5 f_1_0;
   mkAabb f_0_0 f_0_0 f_0_3125 f_0_75 f_1_5 f_0_6875;
   mkAabb f_0_25 f_0_0 f_0_25 f_0_75 f_1_5 f_0_3125;
   mkAabb f_0_25 f_0_0 f_0_6875 f_0_75 f_1_5 f_0_75;
   mkAabb f_0_3125 f_0_0 f_0_75 f_0_6875 f_1_5 f_1_0;
   mkAabb f_0_0 f_0_0 f_0_3125 f_0_75 f_1_5 f_0_6875;
   mkAabb f_0_25 f_0_0 f_0_25 f_0_75 f_1_5 f_0_3125;
   mkAabb f_0_25 f_0_0 f_0_6875 f_0_75 f_1_5 f_0_75;
   mkAabb f_0_3125 f_0_0 f_0_75 f_0_6875 f_1_5 f_1_0;
   mkAabb f_0_3125 f_0_0 f_0_3125 f_0_6875 f_1_5 f_1_0;
   mkAabb f_0_0 f_0_0 f_0_3125 f_0_6875 f_1_5 f_0_6875;
   mkAabb f_0_3125 f_0_0 f_0_6875 f_0_6875 f_1_5 f_1_0;
   mkAabb f_0_0 f_0_0 f_0_3125 f_0_6875 f_1_5 f_0_6875;
   mkAabb f_0_3125 f_0_0 f_0_6875 f_0_6875 f_1_5 f_1_0;
   mkAabb f_0_25 f_0_0 f_0_25 f_0_75 f_1_5 f_0_75;
   mkAabb f_0_3125 f_0_0 f_0_75 f_0_6875 f_1_5 f_1_0;
   mkAabb f_0_0 f_0_0 f_0_3125 f_0_75 f_1_5 f_0_6875;
   mkAabb f_0_25 f_0_0 f_0_25 f_0_75 f_1_5 f_0_3125;
   mkAabb f_0_25 f_0_0 f_0_6875 f_0_75 f_1_5 f_0_75;
   mkAabb f_0_3125 f_0_0 f_0_75 f_0_6875 f_1_5 f_1_0;
   mkAabb f_0_0 f_0_0 f_0_3125 f_0_75 f_1_5 f_0_6875;
   mkAabb f_0_25 f_0_0 f_0_25 f_0_75 f_1_5 f_0_3125;
   mkAabb f_0_25 f_0_0 f_0_6875 f_0_75 f_1_5 f_0_75;
   mkAabb f_0_3125 f_0_0 f_0_75 f_0_6875 f_1_5 f_1_0;
   mkAabb f_0_3125 f_0_0 f_0_3125 f_0_6875 f_1_5 f_1_0;
   mkAabb f_0_0 f_0_0 f_0_3125 f_0_6875 f_1_5 f_0_6875;
   mkAabb f_0_3125 f_0_0 f_0_6875 f_0_6875 f_1_5 f_1_0;
   mkAabb f_0_0 f_0_0 f_0_3125 f_0_6875 f_1_5 f_0_6875;
   mkAabb f_0_3125 f_0_0 f_0_6875 f_0_6875 f_1_5 f_1_0;
   mkAabb f_0_25 f_0_0 f_0_25 f_0_75 f_1_5 f_0_75;
   mkAabb f_0_3125 f_0_0 f_0_0 f_0_6875 f_1_5 f_0_25;
   mkAabb f_0_0 f_0_0 f_0_3125 f_0_75 f_1_5 f_0_6875;
   mkAabb f_0_25 f_0_0 f_0_25 f_0_75 f_1_5 f_0_3125;
   mkAabb f_0_25 f_0_0 f_0_6875 f_0_75 f_1_5 f_0_75;
   mkAabb f_0_3125 f_0_0 f_0_0 f_0_6875 f_1_5 f_0_25;
   mkAabb f_0_0 f_0_0 f_0_3125 f_0_75 f_1_5 f_0_6875;
   mkAabb f_0_25 f_0_0 f_0_25 f_0_75 f_1_5 f_0_3125;
   mkAabb f_0_25 f_0_0 f_0_6875 f_0_75 f_1_5 f_0_75;
   mkAabb f_0_3125 f_0_0 f_0_0 f_0_6875 f_1_5 f_0_25;
   mkAabb f_0_3125 f_0_0 f_0_0 f_0_6875 f_1_5 f_0_6875;
   mkAabb f_0_0 f_0_0 f_0_3125 f_0_6875 f_1_5 f_0_6875;
   mkAabb f_0_3125 f_0_0 f_0_0 f_0_6875 f_1_5 f_0_3125;
   mkAabb f_0_0 f_0_0 f_0_3125 f_0_6875 f_1_5 f_0_6875;
   mkAabb f_0_3125 f_0_0 f_0_0 f_0_6875 f_1_5 f_0_3125;
   mkAabb f_0_25 f_0_0 f_0_25 f_0_75 f_1_5 f_0_75;
   mkAabb f_0_3125 f_0_0 f_0_0 f_0_6875 f_1_5 f_0_25;
   mkAabb f_0_3125 f_0_0 f_0_75 f_0_6875 f_1_5 f_1_0;
   mkAabb f_0_0 f_0_0 f_0_3125 f_0_75 f_1_5 f_0_6875;
   mkAabb f_0_25 f_0_0 f_0_25 f_0_75 f_1_5 f_0_3125;
   mkAabb f_0_25 f_0_0 f_0_6875 f_0_75 f_1_5 f_0_75;
   mkAabb f_0_3125 f_0_0 f_0_0 f_0_6875 f_1_5 f_0_25;
   mkAabb f_0_3125 f_0_0 f_0_75 f_0_6875 f_1_5 f_1_0;
   mkAabb f_0_0 f_0_0 f_0_3125 f_0_75 f_1_5 f_0_6875;
   mkAabb f_0_25 f_0_0 f_0_25 f_0_75 f_1_5 f_0_3125;
   mkAabb f_0_25 f_0_0 f_0_6875 f_0_75 f_1_5 f_0_75;
   mkAabb f_0_3125 f_0_0 f_0_0 f_0_6875 f_1_5 f_0_25;
   mkAabb f_0_3125 f_0_0 f_0_75 f_0_6875 f_1_5 f_1_0;
   mkAabb f_0_3125 f_0_0 f_0_0 f_0_6875 f_1_5 f_1_0;
   mkAabb f_0_0 f_0_0 f_0_3125 f_0_6875 f_1_5 f_0_6875;
   mkAabb f_0_3125 f_0_0 f_0_0 f_0_6875 f_1_5 f_0_3125;
   mkAabb f_0_3125 f_0_0 f_0_6875 f_0_6875 f_1_5 f_1_0;
   mkAabb f_0_0 f_0_0 f_0_3125 f_0_6875 f_1_5 f_0_6875;
   mkAabb f_0_3125 f_0_0 f_0_0 f_0_6875 f_1_5 f_0_3125;
   mkAabb f_0_3125 f_0_0 f_0_6875 f_0_6875 f_1_5 f_1_0;
   mkAabb f_0_25 f_0_0 f_0_25 f_0_75 f_1_5 f_0_75;
   mkAabb f_0_3125 f_0_0 f_0_0 f_0_6875 f_1_5 f_0_25;
   mkAabb f_0_3125 f_0_0 f_0_75 f_0_6875 f_1_5 f_1_0;
   mkAabb f_0_0 f_0_0 f_0_3125 f_0_75 f_1_5 f_0_6875;
   mkAabb f_0_25 f_0_0 f_0_25 f_0_75 f_1_5 f_0_3125;
   mkAabb f_0_25 f_0_0 f_0_6875 f_0_75 f_1_5 f_0_75].
Definition SHAPE_BOXES_9 : list Aabb :=
  [mkAabb f_0_3125 f_0_0 f_0_0 f_0_6875 f_1_5 f_0_25;
   mkAabb f_0_3125 f_0_0 f_0_75 f_0_6875 f_1_5 f_1_0;
   mkAabb f_0_0 f_0_0 f_0_3125 f_0_75 f_1_5 f_0_6875;
   mkAabb f_0_25 f_0_0 f_0_25 f_0_75 f_1_5 f_0_3125;
   mkAabb f_0_25 f_0_0 f_0_6875 f_0_75 f_1_5 f_0_75;
   mkAabb f_0_3125 f_0_0 f_0_0 f_0_6875 f_1_5 f_0_25;
   mkAabb f_0_3125 f_0_0 f_0_75 f_0_6875 f_1_5 f_1_0;
   mkAabb f_0_3125 f_0_0 f_0_0 f_0_6875 f_1_5 f_1_0;
   mkAabb f_0_0 f_0_0 f_0_3125 f_0_6875 f_1_5 f_0_6875;
   mkAabb f_0_3125 f_0_0 f_0_0 f_0_6875 f_1_5 f_0_3125;
   mkAabb f_0_3125 f_0_0 f_0_6875 f_0_6875 f_1_5 f_1_0;
   mkAabb f_0_0 f_0_0 f_0_3125 f_0_6875 f_1_5 f_0_6875;
   mkAabb f_0_3125 f_0_0 f_0_0 f_0_6875 f_1_5 f_0_3125;
   mkAabb f_0_3125 f_0_0 f_0_6875 f_0_6875 f_1_5 f_1_0;
   mkAabb f_0_25 f_0_0 f_0_25 f_0_75 f_1_5 f_0_75;
   mkAabb f_0_3125 f_0_0 f_0_0 f_0_6875 f_1_5 f_0_25;
   mkAabb f_0_0 f_0_0 f_0_3125 f_0_75 f_1_5 f_0_6875;
   mkAabb f_0_25 f_0_0 f_0_25 f_0_75 f_1_5 f_0_3125;
   mkAabb f_0_25 f_0_0 f_0_6875 f_0_75 f_1_5 f_0_75;
   mkAabb f_0_3125 f_0_0 f_0_0 f_0_6875 f_1_5 f_0_25;
   mkAabb f_0_0 f_0_0 f_0_3125 f_0_75 f_1_5 f_0_6875;
   mkAabb f_0_25 f_0_0 f_0_25 f_0_75 f_1_5 f_0_3125;
   mkAabb f_0_25 f_0_0 f_0_6875 f_0_75 f_1_5 f_0_75;
   mkAabb f_0_3125 f_0_0 f_0_0 f_0_6875 f_1_5 f_0_25;
   mkAabb f_0_3125 f_0_0 f_0_0 f_0_6875 f_1_5 f_0_6875;
   mkAabb f_0_0 f_0_0 f_0_3125 f_0_6875 f_1_5 f_0_6875;
   mkAabb f_0_3125 f_0_0 f_0_0 f_0_6875 f_1_5 f_0_3125;
   mkAabb f_0_0 f_0_0 f_0_3125 f_0_6875 f_1_5 f_0_6875;
   mkAabb f_0_3125 f_0_0 f_0_0 f_0_6875 f_1_5 f_0_3125;
   mkAabb f_0_25 f_0_0 f_0_25 f_0_75 f_1_5 f_0_75;
   mkAabb f_0_3125 f_0_0 f_0_0 f_0_6875 f_1_5 f_0_25;
   mkAabb f_0_3125 f_0_0 f_0_75 f_0_6875 f_1_5 f_1_0;
   mkAabb f_0_0 f_0_0 f_0_3125 f_0_75 f_1_5 f_0_6875;
   mkAabb f_0_25 f_0_0 f_0_25 f_0_75 f_1_5 f_0_3125;
   mkAabb f_0_25 f_0_0 f_0_6875 f_0_75 f_1_5 f_0_75;
   mkAabb f_0_3125 f_0_0 f_0_0 f_0_6875 f_1_5 f_0_25;
   mkAabb f_0_3125 f_0_0 f_0_75 f_0_6875 f_1_5 f_1_0;
   mkAabb f_0_0 f_0_0 f_0_3125 f_0_75 f_1_5 f_0_6875;
   mkAabb f_0_25 f_0_0 f_0_25 f_0_75 f_1_5 f_0_3125;
   mkAabb f_0_25 f_0_0 f_0_6875 f_0_75 f_1_5 f_0_75;
   mkAabb f_0_3125 f_0_0 f_0_0 f_0_6875 f_1_5 f_0_25;
   mkAabb f_0_3125 f_0_0 f_0_75 f_0_6875 f_1_5 f_1_0;
   mkAabb f_0_3125 f_0_0 f_0_0 f_0_6875 f_1_5 f_1_0;
   mkAabb f_0_0 f_0_0 f_0_3125 f_0_6875 f_1_5 f_0_6875;
   mkAabb f_0_3125 f_0_0 f_0_0 f_0_6875 f_1_5 f_0_3125;
   mkAabb f_0_3125 f_0_0 f_0_6875 f_0_6875 f_1_5 f_1_0;
   mkAabb f_0_0 f_0_0 f_0_3125 f_0_6875 f_1_5 f_0_6875;
   mkAabb f_0_3125 f_0_0 f_0_0 f_0_6875 f_1_5 f_0_3125;
   mkAabb f_0_3125 f_0_0 f_0_6875 f_0_6875 f_1_5 f_1_0;
   mkAabb f_0_25 f_0_0 f_0_25 f_0_75 f_1_5 f_0_75;
   mkAabb f_0_3125 f_0_0 f_0_0 f_0_6875 f_1_5 f_0_25;
   mkAabb f_0_3125 f_0_0 f_0_75 f_0_6875 f_1_5 f_1_0;
   mkAabb f_0_0 f_0_0 f_0_3125 f_0_75 f_1_5 f_0_6875;
   mkAabb f_0_25 f_0_0 f_0_25 f_0_75 f_1_5 f_0_3125;
   mkAabb f_0_25 f_0_0 f_0_6875 f_0_75 f_1_5 f_0_75;
   mkAabb f_0_3125 f_0_0 f_0_0 f_0_6875 f_1_5 f_0_25;
   mkAabb f_0_3125 f_0_0 f_0_75 f_0_6875 f_1_5 f_1_0;
   mkAabb f_0_0 f_0_0 f_0_3125 f_0_75 f_1_5 f_0_6875;
   mkAabb f_0_25 f_0_0 f_0_25 f_0_75 f_1_5 f_0_3125;
   mkAabb f_0_25 f_0_0 f_0_6875 f_0_75 f_1_5 f_0_75;
   mkAabb f_0_3125 f_0_0 f_0_0 f_0_6875 f_1_5 f_0_25;
   mkAabb f_0_3125 f_0_0 f_0_75 f_0_6875 f_1_5 f_1_0;
   mkAabb f_0_3125 f_0_0 f_0_0 f_0_6875 f_1_5 f_1_0;
   mkAabb f_0_0 f_0_0 f_0_3125 f_0_6875 f_1_5 f_0_6875;
   mkAabb f_0_3125 f_0_0 f_0_0 f_0_6875 f_1_5 f_0_3125;
   mkAabb f_0_3125 f_0_0 f_0_6875 f_0_6875 f_1_5 f_1_0;
   mkAabb f_0_0 f_0_0 f_0_3125 f_0_6875 f_1_5 f_0_6875;
   mkAabb f_0_3125 f_0_0 f_0_0 f_0_6875 f_1_5 f_0_3125;
   mkAabb f_0_3125 f_0_0 f_0_6875 f_0_6875 f_1_5 f_1_0;
   mkAabb f_0_25 f_0_0 f_0_25 f_0_75 f_1_5 f_0_75;
   mkAabb f_0_75 f_0_0 f_0_3125 f_1_0 f_1_5 f_0_6875;
   mkAabb f_0_0 f_0_0 f_0_3125 f_1_0 f_1_5 f_0_6875;
   mkAabb f_0_25 f_0_0 f_0_25 f_0_75 f_1_5 f_0_3125;
   mkAabb f_0_25 f_0_0 f_0_6875 f_0_75 f_1_5 f_0_75;
   mkAabb f_0_0 f_0_0 f_0_3125 f_1_0 f_1_5 f_0_6875;
   mkAabb f_0_25 f_0_0 f_0_25 f_0_75 f_1_5 f_0_3125;
   mkAabb f_0_25 f_0_0 f_0_6875 f_0_75 f_1_5 f_0_75;
   mkAabb f_0_3125 f_0_0 f_0_3125 f_1_0 f_1_5 f_0_6875;
   mkAabb f_0_0 f_0_0 f_0_3125 f_1_0 f_1_5 f_0_6875;
   mkAabb f_0_0 f_0_0 f_0_3125 f_1_0 f_1_5 f_0_6875;
   mkAabb f_0_25 f_0_0 f_0_25 f_0_75 f_1_5 f_0_75;
   mkAabb f_0_3125 f_0_0 f_0_75 f_0_6875 f_1_5 f_1_0;
   mkAabb f_0_75 f_0_0 f_0_3125 f_1_0 f_1_5 f_0_6875;
   mkAabb f_0_0 f_0_0 f_0_3125 f_1_0 f_1_5 f_0_6875;
   mkAabb f_0_25 f_0_0 f_0_25 f_0_75 f_1_5 f_0_3125;
   mkAabb f_0_25 f_0_0 f_0_6875 f_0_75 f_1_5 f_0_75;
   mkAabb f_0_3125 f_0_0 f_0_75 f_0_6875 f_1_5 f_1_0;
   mkAabb f_0_0 f_0_0 f_0_3125 f_1_0 f_1_5 f_0_6875;
   mkAabb f_0_25 f_0_0 f_0_25 f_0_75 f_1_5 f_0_3125;
   mkAabb f_0_25 f_0_0 f_0_6875 f_0_75 f_1_5 f_0_75;
   mkAabb f_0_3125 f_0_0 f_0_75 f_0_6875 f_1_5 f_1_0;
   mkAabb f_0_3125 f_0_0 f_0_3125 f_0_6875 f_1_5 f_1_0;
   mkAabb f_0_6875 f_0_0 f_0_3125 f_1_0 f_1_5 f_0_6875;
   mkAabb f_0_0 f_0_0 f_0_3125 f_1_0 f_1_5 f_0_6875;
   mkAabb f_0_3125 f_0_0 f_0_6875 f_0_6875 f_1_5 f_1_0;
   mkAabb f_0_0 f_0_0 f_0_3125 f_1_0 f_1_5 f_0_6875;
   mkAabb f_0_3125 f_0_0 f_0_6875 f_0_6875 f_1_5 f_1_0;
   mkAabb f_0_25 f_0_0 f_0_25 f_0_75 f_1_5 f_0_75;
   mkAabb f_0_3125 f_0_0 f_0_75 f_0_6875 f_1_5 f_1_0;
   mkAabb f_0_75 f_0_0 f_0_3125 f_1_0 f_1_5 f_0_6875;
   mkAabb f_0_0 f_0_0 f_0_3125 f_1_0 f_1_5 f_0_6875;
   mkAabb f_0_25 f_0_0 f_0_25 f_0_75 f_1_5 f_0_3125;
   mkAabb f_0_25 f_0_0 f_0_6875 f_0_75 f_1_5 f_0_75;
   mkAabb f_0_3125 f_0_0 f_0_75 f_0_6875 f_1_5 f_1_0;
   mkAabb f_0_0 f_0_0 f_0_3125 f_1_0 f_1_5 f_0_6875;
   mkAabb f_0_25 f_0_0 f_0_25 f_0_75 f_1_5 f_0_3125;
   mkAabb f_0_25 f_0_0 f_0_6875 f_0_75 f_1_5 f_0_75;
   mkAabb f_0_3125 f_0_0 f_0_75 f_0_6875 f_1_5 f_1_0;
   mkAabb f_0_3125 f_0_0 f_0_3125 f_0_6875 f_1_5 f_1_0;
   mkAabb f_0_6875 f_0_0 f_0_3125 f_1_0 f_1_5 f_0_6875;
   mkAabb f_0_0 f_0_0 f_0_3125 f_1_0 f_1_5 f_0_6875;
   mkAabb f_0_3125 f_0_0 f_0_6875 f_0_6875 f_1_5 f_1_0;
   mkAabb f_0_0 f_0_0 f_0_3125 f_1_0 f_1_5 f_0_6875;
   mkAabb f_0_3125 f_0_0 f_0_6875 f_0_6875 f_1_5 f_1_0;
   mkAabb f_0_25 f_0_0 f_0_25 f_0_75 f_1_5 f_0_75;
   mkAabb f_0_3125 f_0_0 f_0_0 f_0_6875 f_1_5 f_0_25;
   mkAabb f_0_75 f_0_0 f_0_3125 f_1_0 f_1_5 f_0_6875;
   mkAabb f_0_0 f_0_0 f_0_3125 f_1_0 f_1_5 f_0_6875;
   mkAabb f_0_25 f_0_0 f_0_25 f_0_75 f_1_5 f_0_3125;
   mkAabb f_0_25 f_0_0 f_0_6875 f_0_75 f_1_5 f_0_75;
   mkAabb f_0_3125 f_0_0 f_0_0 f_0_6875 f_1_5 f_0_25;
   mkAabb f_0_0 f_0_0 f_0_3125 f_1_0 f_1_5 f_0_6875;
   mkAabb f_0_25 f_0_0 f_0_25 f_0_75 f_1_5 f_0_3125;
   mkAabb f_0_25 f_0_0 f_0_6875 f_0_75 f_1_5 f_0_75;
   mkAabb f_0_3125 f_0_0 f_0_0 f_0_6875 f_1_5 f_0_25;
   mkAabb f_0_3125 f_0_0 f_0_0 f_0_6875 f_1_5 f_0_6875;
   mkAabb f_0_6875 f_0_0 f_0_3125 f_1_0 f_1_5 f_0_6875;
   mkAabb f_0_0 f_0_0 f_0_3125 f_1_0 f_1_5 f_0_6875;
   mkAabb f_0_3125 f_0_0 f_0_0 f_0_6875 f_1_5 f_0_3125;
   mkAabb f_0_0 f_0_0 f_0_3125 f_1_0 f_1_5 f_0_6875;
   mkAabb f_0_3125 f_0_0 f_0_0 f_0_6875 f_1_5 f_0_3125;
   mkAabb f_0_25 f_0_0 f_0_25 f_0_75 f_1_5 f_0_75;
   mkAabb f_0_3125 f_0_0 f_0_0 f_0_6875 f_1_5 f_0_25;
   mkAabb f_0_3125 f_0_0 f_0_75 f_0_6875 f_1_5 f_1_0;
   mkAabb f_0_75 f_0_0 f_0_3125 f_1_0 f_1_5 f_0_6875;
   mkAabb f_0_0 f_0_0 f_0_3125 f_1_0 f_1_5 f_0_6875;
   mkAabb f_0_25 f_0_0 f_0_25 f_0_75 f_1_5 f_0_3125;
   mkAabb f_0_25 f_0_0 f_0_6875 f_0_75 f_1_5 f_0_75;
   mkAabb f_0_3125 f_0_0 f_0_0 f_0_6875 f_1_5 f_0_25;
   mkAabb f_0_3125 f_0_0 f_0_75 f_0_6875 f_1_5 f_1_0;
   mkAabb f_0_0 f_0_0 f_0_3125 f_1_0 f_1_5 f_0_6875;
   mkAabb f_0_25 f_0_0 f_0_25 f_0_75 f_1_5 f_0_3125;
   mkAabb f_0_25 f_0_0 f_0_6875 f_0_75 f_1_5 f_0_75;
   mkAabb f_0_3125 f_0_0 f_0_0 f_0_6875 f_1_5 f_0_25;
   mkAabb f_0_3125 f_0_0 f_0_75 f_0_6875 f_1_5 f_1_0;
   mkAabb f_0_3125 f_0_0 f_0_0 f_0_6875 f_1_5 f_1_0;
   mkAabb f_0_6875 f_0_0 f_0_3125 f_1_0 f_1_5 f_0_6875;
   mkAabb f_0_0 f_0_0 f_0_3125 f_1_0 f_1_5 f_0_6875;
   mkAabb f_0_3125 f_0_0 f_0_0 f_0_6875 f_1_5 f_0_3125;
   mkAabb f_0_3125 f_0_0 f_0_6875 f_0_6875 f_1_5 f_1_0].
Definition SHAPE_BOXES_10 : list Aabb :=
  [mkAabb f_0_0 f_0_0 f_0_3125 f_1_0 f_1_5 f_0_6875;
   mkAabb f_0_3125 f_0_0 f_0_0 f_0_6875 f_1_5 f_0_3125;
   mkAabb f_0_3125 f_0_0 f_0_6875 f_0_6875 f_1_5 f_1_0;
   mkAabb f_0_25 f_0_0 f_0_25 f_0_75 f_1_5 f_0_75;
   mkAabb f_0_3125 f_0_0 f_0_0 f_0_6875 f_1_5 f_0_25;
   mkAabb f_0_3125 f_0_0 f_0_75 f_0_6875 f_1_5 f_1_0;
   mkAabb f_0_75 f_0_0 f_0_3125 f_1_0 f_1_5 f_0_6875;
   mkAabb f_0_0 f_0_0 f_0_3125 f_1_0 f_1_5 f_0_6875;
   mkAabb f_0_25 f_0_0 f_0_25 f_0_75 f_1_5 f_0_3125;
   mkAabb f_0_25 f_0_0 f_0_6875 f_0_75 f_1_5 f_0_75;
   mkAabb f_0_3125 f_0_0 f_0_0 f_0_6875 f_1_5 f_0_25;
   mkAabb f_0_3125 f_0_0 f_0_75 f_0_6875 f_1_5 f_1_0;
   mkAabb f_0_0 f_0_0 f_0_3125 f_1_0 f_1_5 f_0_6875;
   mkAabb f_0_25 f_0_0 f_0_25 f_0_75 f_1_5 f_0_3125;
   mkAabb f_0_25 f_0_0 f_0_6875 f_0_75 f_1_5 f_0_75;
   mkAabb f_0_3125 f_0_0 f_0_0 f_0_6875 f_1_5 f_0_25;
   mkAabb f_0_3125 f_0_0 f_0_75 f_0_6875 f_1_5 f_1_0;
   mkAabb f_0_3125 f_0_0 f_0_0 f_0_6875 f_1_5 f_1_0;
   mkAabb f_0_6875 f_0_0 f_0_3125 f_1_0 f_1_5 f_0_6875;
   mkAabb f_0_0 f_0_0 f_0_3125 f_1_0 f_1_5 f_0_6875;
   mkAabb f_0_3125 f_0_0 f_0_0 f_0_6875 f_1_5 f_0_3125;
   mkAabb f_0_3125 f_0_0 f_0_6875 f_0_6875 f_1_5 f_1_0;
   mkAabb f_0_0 f_0_0 f_0_3125 f_1_0 f_1_5 f_0_6875;
   mkAabb f_0_3125 f_0_0 f_0_0 f_0_6875 f_1_5 f_0_3125;
   mkAabb f_0_3125 f_0_0 f_0_6875 f_0_6875 f_1_5 f_1_0;
   mkAabb f_0_25 f_0_0 f_0_25 f_0_75 f_1_5 f_0_75;
   mkAabb f_0_3125 f_0_0 f_0_0 f_0_6875 f_1_5 f_0_25;
   mkAabb f_0_75 f_0_0 f_0_3125 f_1_0 f_1_5 f_0_6875;
   mkAabb f_0_0 f_0_0 f_0_3125 f_1_0 f_1_5 f_0_6875;
   mkAabb f_0_25 f_0_0 f_0_25 f_0_75 f_1_5 f_0_3125;
   mkAabb f_0_25 f_0_0 f_0_6875 f_0_75 f_1_5 f_0_75;
   mkAabb f_0_3125 f_0_0 f_0_0 f_0_6875 f_1_5 f_0_25;
   mkAabb f_0_0 f_0_0 f_0_3125 f_1_0 f_1_5 f_0_6875;
   mkAabb f_0_25 f_0_0 f_0_25 f_0_75 f_1_5 f_0_3125;
   mkAabb f_0_25 f_0_0 f_0_6875 f_0_75 f_1_5 f_0_75;
   mkAabb f_0_3125 f_0_0 f_0_0 f_0_6875 f_1_5 f_0_25;
   mkAabb f_0_3125 f_0_0 f_0_0 f_0_6875 f_1_5 f_0_6875;
   mkAabb f_0_6875 f_0_0 f_0_3125 f_1_0 f_1_5 f_0_6875;
   mkAabb f_0_0 f_0_0 f_0_3125 f_1_0 f_1_5 f_0_6875;
   mkAabb f_0_3125 f_0_0 f_0_0 f_0_6875 f_1_5 f_0_3125;
   mkAabb f_0_0 f_0_0 f_0_3125 f_1_0 f_1_5 f_0_6875;
   mkAabb f_0_3125 f_0_0 f_0_0 f_0_6875 f_1_5 f_0_3125;
   mkAabb f_0_25 f_0_0 f_0_25 f_0_75 f_1_5 f_0_75;
   mkAabb f_0_3125 f_0_0 f_0_0 f_0_6875 f_1_5 f_0_25;
   mkAabb f_0_3125 f_0_0 f_0_75 f_0_6875 f_1_5 f_1_0;
   mkAabb f_0_75 f_0_0 f_0_3125 f_1_0 f_1_5 f_0_6875;
   mkAabb f_0_0 f_0_0 f_0_3125 f_1_0 f_1_5 f_0_6875;
   mkAabb f_0_25 f_0_0 f_0_25 f_0_75 f_1_5 f_0_3125;
   mkAabb f_0_25 f_0_0 f_0_6875 f_0_75 f_1_5 f_0_75;
   mkAabb f_0_3125 f_0_0 f_0_0 f_0_6875 f_1_5 f_0_25;
   mkAabb f_0_3125 f_0_0 f_0_75 f_0_6875 f_1_5 f_1_0;
   mkAabb f_0_0 f_0_0 f_0_3125 f_1_0 f_1_5 f_0_6875;
   mkAabb f_0_25 f_0_0 f_0_25 f_0_75 f_1_5 f_0_3125;
   mkAabb f_0_25 f_0_0 f_0_6875 f_0_75 f_1_5 f_0_75;
   mkAabb f_0_3125 f_0_0 f_0_0 f_0_6875 f_1_5 f_0_25;
   mkAabb f_0_3125 f_0_0 f_0_75 f_0_6875 f_1_5 f_1_0;
   mkAabb f_0_3125 f_0_0 f_0_0 f_0_6875 f_1_5 f_1_0;
   mkAabb f_0_6875 f_0_0 f_0_3125 f_1_0 f_1_5 f_0_6875;
   mkAabb f_0_0 f_0_0 f_0_3125 f_1_0 f_1_5 f_0_6875;
   mkAabb f_0_3125 f_0_0 f_0_0 f_0_6875 f_1_5 f_0_3125;
   mkAabb f_0_3125 f_0_0 f_0_6875 f_0_6875 f_1_5 f_1_0;
   mkAabb f_0_0 f_0_0 f_0_3125 f_1_0 f_1_5 f_0_6875;
   mkAabb f_0_3125 f_0_0 f_0_0 f_0_6875 f_1_5 f_0_3125;
   mkAabb f_0_3125 f_0_0 f_0_6875 f_0_6875 f_1_5 f_1_0;
   mkAabb f_0_25 f_0_0 f_0_25 f_0_75 f_1_5 f_0_75;
   mkAabb f_0_3125 f_0_0 f_0_0 f_0_6875 f_1_5 f_0_25;
   mkAabb f_0_3125 f_0_0 f_0_75 f_0_6875 f_1_5 f_1_0;
   mkAabb f_0_75 f_0_0 f_0_3125 f_1_0 f_1_5 f_0_6875;
   mkAabb f_0_0 f_0_0 f_0_3125 f_1_0 f_1_5 f_0_6875;
   mkAabb f_0_25 f_0_0 f_0_25 f_0_75 f_1_5 f_0_3125;
   mkAabb f_0_25 f_0_0 f_0_6875 f_0_75 f_1_5 f_0_75;
   mkAabb f_0_3125 f_0_0 f_0_0 f_0_6875 f_1_5 f_0_25;
   mkAabb f_0_3125 f_0_0 f_0_75 f_0_6875 f_1_5 f_1_0;
   mkAabb f_0_0 f_0_0 f_0_3125 f_1_0 f_1_5 f_0_6875;
   mkAabb f_0_25 f_0_0 f_0_25 f_0_75 f_1_5 f_0_3125;
   mkAabb f_0_25 f_0_0 f_0_6875 f_0_75 f_1_5 f_0_75;
   mkAabb f_0_3125 f_0_0 f_0_0 f_0_6875 f_1_5 f_0_25;
   mkAabb f_0_3125 f_0_0 f_0_75 f_0_6875 f_1_5 f_1_0;
   mkAabb f_0_3125 f_0_0 f_0_0 f_0_6875 f_1_5 f_1_0;
   mkAabb f_0_6875 f_0_0 f_0_3125 f_1_0 f_1_5 f_0_6875;
   mkAabb f_0_0 f_0_0 f_0_3125 f_1_0 f_1_5 f_0_6875;
   mkAabb f_0_3125 f_0_0 f_0_0 f_0_6875 f_1_5 f_0_3125;
   mkAabb f_0_3125 f_0_0 f_0_6875 f_0_6875 f_1_5 f_1_0;
   mkAabb f_0_0 f_0_0 f_0_3125 f_1_0 f_1_5 f_0_6875;
   mkAabb f_0_3125 f_0_0 f_0_0 f_0_6875 f_1_5 f_0_3125;
   mkAabb f_0_3125 f_0_0 f_0_6875 f_0_6875 f_1_5 f_1_0;
   mkAabb f_0_25 f_0_0 f_0_25 f_0_75 f_1_5 f_0_75;
   mkAabb f_0_75 f_0_0 f_0_3125 f_1_0 f_1_5 f_0_6875;
   mkAabb f_0_0 f_0_0 f_0_3125 f_1_0 f_1_5 f_0_6875;
   mkAabb f_0_25 f_0_0 f_0_25 f_0_75 f_1_5 f_0_3125;
   mkAabb f_0_25 f_0_0 f_0_6875 f_0_75 f_1_5 f_0_75;
   mkAabb f_0_0 f_0_0 f_0_3125 f_1_0 f_1_5 f_0_6875;
   mkAabb f_0_25 f_0_0 f_0_25 f_0_75 f_1_5 f_0_3125;
   mkAabb f_0_25 f_0_0 f_0_6875 f_0_75 f_1_5 f_0_75;
   mkAabb f_0_3125 f_0_0 f_0_3125 f_1_0 f_1_5 f_0_6875;
   mkAabb f_0_0 f_0_0 f_0_3125 f_1_0 f_1_5 f_0_6875;
   mkAabb f_0_0 f_0_0 f_0_3125 f_1_0 f_1_5 f_0_6875;
   mkAabb f_0_25 f_0_0 f_0_25 f_0_75 f_1_5 f_0_75;
   mkAabb f_0_3125 f_0_0 f_0_75 f_0_6875 f_1_5 f_1_0;
   mkAabb f_0_75 f_0_0 f_0_3125 f_1_0 f_1_5 f_0_6875;
   mkAabb f_0_0 f_0_0 f_0_3125 f_1_0 f_1_5 f_0_6875;
   mkAabb f_0_25 f_0_0 f_0_25 f_0_75 f_1_5 f_0_3125;
   mkAabb f_0_25 f_0_0 f_0_6875 f_0_75 f_1_5 f_0_75;
   mkAabb f_0_3125 f_0_0 f_0_75 f_0_6875 f_1_5 f_1_0;
   mkAabb f_0_0 f_0_0 f_0_3125 f_1_0 f_1_5 f_0_6875;
   mkAabb f_0_25 f_0_0 f_0_25 f_0_75 f_1_5 f_0_3125;
   mkAabb f_0_25 f_0_0 f_0_6875 f_0_75 f_1_5 f_0_75;
   mkAabb f_0_3125 f_0_0 f_0_75 f_0_6875 f_1_5 f_1_0;
   mkAabb f_0_3125 f_0_0 f_0_3125 f_0_6875 f_1_5 f_1_0;
   mkAabb f_0_6875 f_0_0 f_0_3125 f_1_0 f_1_5 f_0_6875;
   mkAabb f_0_0 f_0_0 f_0_3125 f_1_0 f_1_5 f_0_6875;
   mkAabb f_0_3125 f_0_0 f_0_6875 f_0_6875 f_1_5 f_1_0;
   mkAabb f_0_0 f_0_0 f_0_3125 f_1_0 f_1_5 f_0_6875;
   mkAabb f_0_3125 f_0_0 f_0_6875 f_0_6875 f_1_5 f_1_0;
   mkAabb f_0_25 f_0_0 f_0_25 f_0_75 f_1_5 f_0_75;
   mkAabb f_0_3125 f_0_0 f_0_75 f_0_6875 f_1_5 f_1_0;
   mkAabb f_0_75 f_0_0 f_0_3125 f_1_0 f_1_5 f_0_6875;
   mkAabb f_0_0 f_0_0 f_0_3125 f_1_0 f_1_5 f_0_6875;
   mkAabb f_0_25 f_0_0 f_0_25 f_0_75 f_1_5 f_0_3125;
   mkAabb f_0_25 f_0_0 f_0_6875 f_0_75 f_1_5 f_0_75;
   mkAabb f_0_3125 f_0_0 f_0_75 f_0_6875 f_1_5 f_1_0;
   mkAabb f_0_0 f_0_0 f_0_3125 f_1_0 f_1_5 f_0_6875;
   mkAabb f_0_25 f_0_0 f_0_25 f_0_75 f_1_5 f_0_3125;
   mkAabb f_0_25 f_0_0 f_0_6875 f_0_75 f_1_5 f_0_75;
   mkAabb f_0_3125 f_0_0 f_0_75 f_0_6875 f_1_5 f_1_0;
   mkAabb f_0_3125 f_0_0 f_0_3125 f_0_6875 f_1_5 f_1_0;
   mkAabb f_0_6875 f_0_0 f_0_3125 f_1_0 f_1_5 f_0_6875;
   mkAabb f_0_0 f_0_0 f_0_3125 f_1_0 f_1_5 f_0_6875;
   mkAabb f_0_3125 f_0_0 f_0_6875 f_0_6875 f_1_5 f_1_0;
   mkAabb f_0_0 f_0_0 f_0_3125 f_1_0 f_1_5 f_0_6875;
   mkAabb f_0_3125 f_0_0 f_0_6875 f_0_6875 f_1_5 f_1_0;
   mkAabb f_0_25 f_0_0 f_0_25 f_0_75 f_1_5 f_0_75;
   mkAabb f_0_3125 f_0_0 f_0_0 f_0_6875 f_1_5 f_0_25;
   mkAabb f_0_75 f_0_0 f_0_3125 f_1_0 f_1_5 f_0_6875;
   mkAabb f_0_0 f_0_0 f_0_3125 f_1_0 f_1_5 f_0_6875;
   mkAabb f_0_25 f_0_0 f_0_25 f_0_75 f_1_5 f_0_3125;
   mkAabb f_0_25 f_0_0 f_0_6875 f_0_75 f_1_5 f_0_75;
   mkAabb f_0_3125 f_0_0 f_0_0 f_0_6875 f_1_5 f_0_25;
   mkAabb f_0_0 f_0_0 f_0_3125 f_1_0 f_1_5 f_0_6875;
   mkAabb f_0_25 f_0_0 f_0_25 f_0_75 f_1_5 f_0_3125;
   mkAabb f_0_25 f_0_0 f_0_6875 f_0_75 f_1_5 f_0_75;
   mkAabb f_0_3125 f_0_0 f_0_0 f_0_6875 f_1_5 f_0_25;
   mkAabb f_0_3125 f_0_0 f_0_0 f_0_6875 f_1_5 f_0_6875;
   mkAabb f_0_6875 f_0_0 f_0_3125 f_1_0 f_1_5 f_0_6875;
   mkAabb f_0_0 f_0_0 f_0_3125 f_1_0 f_1_5 f_0_6875;
   mkAabb f_0_3125 f_0_0 f_0_0 f_0_6875 f_1_5 f_0_3125;
   mkAabb f_0_0 f_0_0 f_0_3125 f_1_0 f_1_5 f_0_6875;
   mkAabb f_0_3125 f_0_0 f_0_0 f_0_6875 f_1_5 f_0_3125;
   mkAabb f_0_25 f_0_0 f_0_25 f_0_75 f_1_5 f_0_75;
   mkAabb f_0_3125 f_0_0 f_0_0 f_0_6875 f_1_5 f_0_25].
Definition SHAPE_BOXES_11 : list Aabb :=
  [mkAabb f_0_3125 f_0_0 f_0_75 f_0_6875 f_1_5 f_1_0;
   mkAabb f_0_75 f_0_0 f_0_3125 f_1_0 f_1_5 f_0_6875;
   mkAabb f_0_0 f_0_0 f_0_3125 f_1_0 f_1_5 f_0_6875;
   mkAabb f_0_25 f_0_0 f_0_25 f_0_75 f_1_5 f_0_3125;
   mkAabb f_0_25 f_0_0 f_0_6875 f_0_75 f_1_5 f_0_75;
   mkAabb f_0_3125 f_0_0 f_0_0 f_0_6875 f_1_5 f_0_25;
   mkAabb f_0_3125 f_0_0 f_0_75 f_0_6875 f_1_5 f_1_0;
   mkAabb f_0_0 f_0_0 f_0_3125 f_1_0 f_1_5 f_0_6875;
   mkAabb f_0_25 f_0_0 f_0_25 f_0_75 f_1_5 f_0_3125;
   mkAabb f_0_25 f_0_0 f_0_6875 f_0_75 f_1_5 f_0_75;
   mkAabb f_0_3125 f_0_0 f_0_0 f_0_6875 f_1_5 f_0_25;
   mkAabb f_0_3125 f_0_0 f_0_75 f_0_6875 f_1_5 f_1_0;
   mkAabb f_0_3125 f_0_0 f_0_0 f_0_6875 f_1_5 f_1_0;
   mkAabb f_0_6875 f_0_0 f_0_3125 f_1_0 f_1_5 f_0_6875;
   mkAabb f_0_0 f_0_0 f_0_3125 f_1_0 f_1_5 f_0_6875;
   mkAabb f_0_3125 f_0_0 f_0_0 f_0_6875 f_1_5 f_0_3125;
   mkAabb f_0_3125 f_0_0 f_0_6875 f_0_6875 f_1_5 f_1_0;
   mkAabb f_0_0 f_0_0 f_0_3125 f_1_0 f_1_5 f_0_6875;
   mkAabb f_0_3125 f_0_0 f_0_0 f_0_6875 f_1_5 f_0_3125;
   mkAabb f_0_3125 f_0_0 f_0_6875 f_0_6875 f_1_5 f_1_0;
   mkAabb f_0_25 f_0_0 f_0_25 f_0_75 f_1_5 f_0_75;
   mkAabb f_0_3125 f_0_0 f_0_0 f_0_6875 f_1_5 f_0_25;
   mkAabb f_0_3125 f_0_0 f_0_75 f_0_6875 f_1_5 f_1_0;
   mkAabb f_0_75 f_0_0 f_0_3125 f_1_0 f_1_5 f_0_6875;
   mkAabb f_0_0 f_0_0 f_0_3125 f_1_0 f_1_5 f_0_6875;
   mkAabb f_0_25 f_0_0 f_0_25 f_0_75 f_1_5 f_0_3125;
   mkAabb f_0_25 f_0_0 f_0_6875 f_0_75 f_1_5 f_0_75;
   mkAabb f_0_3125 f_0_0 f_0_0 f_0_6875 f_1_5 f_0_25;
   mkAabb f_0_3125 f_0_0 f_0_75 f_0_6875 f_1_5 f_1_0;
   mkAabb f_0_0 f_0_0 f_0_3125 f_1_0 f_1_5 f_0_6875;
   mkAabb f_0_25 f_0_0 f_0_25 f_0_75 f_1_5 f_0_3125;
   mkAabb f_0_25 f_0_0 f_0_6875 f_0_75 f_1_5 f_0_75;
   mkAabb f_0_3125 f_0_0 f_0_0 f_0_6875 f_1_5 f_0_25;
   mkAabb f_0_3125 f_0_0 f_0_75 f_0_6875 f_1_5 f_1_0;
   mkAabb f_0_3125 f_0_0 f_0_0 f_0_6875 f_1_5 f_1_0;
   mkAabb f_0_6875 f_0_0 f_0_3125 f_1_0 f_1_5 f_0_6875;
   mkAabb f_0_0 f_0_0 f_0_3125 f_1_0 f_1_5 f_0_6875;
   mkAabb f_0_3125 f_0_0 f_0_0 f_0_6875 f_1_5 f_0_3125;
   mkAabb f_0_3125 f_0_0 f_0_6875 f_0_6875 f_1_5 f_1_0;
   mkAabb f_0_0 f_0_0 f_0_3125 f_1_0 f_1_5 f_0_6875;
   mkAabb f_0_3125 f_0_0 f_0_0 f_0_6875 f_1_5 f_0_3125;
   mkAabb f_0_3125 f_0_0 f_0_6875 f_0_6875 f_1_5 f_1_0;
   mkAabb f_0_25 f_0_0 f_0_25 f_0_75 f_1_5 f_0_75;
   mkAabb f_0_3125 f_0_0 f_0_0 f_0_6875 f_1_5 f_0_25;
   mkAabb f_0_75 f_0_0 f_0_3125 f_1_0 f_1_5 f_0_6875;
   mkAabb f_0_0 f_0_0 f_0_3125 f_1_0 f_1_5 f_0_6875;
   mkAabb f_0_25 f_0_0 f_0_25 f_0_75 f_1_5 f_0_3125;
   mkAabb f_0_25 f_0_0 f_0_6875 f_0_75 f_1_5 f_0_75;
   mkAabb f_0_3125 f_0_0 f_0_0 f_0_6875 f_1_5 f_0_25;
   mkAabb f_0_0 f_0_0 f_0_3125 f_1_0 f_1_5 f_0_6875;
   mkAabb f_0_25 f_0_0 f_0_25 f_0_75 f_1_5 f_0_3125;
   mkAabb f_0_25 f_0_0 f_0_6875 f_0_75 f_1_5 f_0_75;
   mkAabb f_0_3125 f_0_0 f_0_0 f_0_6875 f_1_5 f_0_25;
   mkAabb f_0_3125 f_0_0 f_0_0 f_0_6875 f_1_5 f_0_6875;
   mkAabb f_0_6875 f_0_0 f_0_3125 f_1_0 f_1_5 f_0_6875;
   mkAabb f_0_0 f_0_0 f_0_3125 f_1_0 f_1_5 f_0_6875;
   mkAabb f_0_3125 f_0_0 f_0_0 f_0_6875 f_1_5 f_0_3125;
   mkAabb f_0_0 f_0_0 f_0_3125 f_1_0 f_1_5 f_0_6875;
   mkAabb f_0_3125 f_0_0 f_0_0 f_0_6875 f_1_5 f_0_3125;
   mkAabb f_0_25 f_0_0 f_0_25 f_0_75 f_1_5 f_0_75;
   mkAabb f_0_3125 f_0_0 f_0_0 f_0_6875 f_1_5 f_0_25;
   mkAabb f_0_3125 f_0_0 f_0_75 f_0_6875 f_1_5 f_1_0;
   mkAabb f_0_75 f_0_0 f_0_3125 f_1_0 f_1_5 f_0_6875;
   mkAabb f_0_0 f_0_0 f_0_3125 f_1_0 f_1_5 f_0_6875;
   mkAabb f_0_25 f_0_0 f_0_25 f_0_75 f_1_5 f_0_3125;
   mkAabb f_0_25 f_0_0 f_0_6875 f_0_75 f_1_5 f_0_75;
   mkAabb f_0_3125 f_0_0 f_0_0 f_0_6875 f_1_5 f_0_25;
   mkAabb f_0_3125 f_0_0 f_0_75 f_0_6875 f_1_5 f_1_0;
   mkAabb f_0_0 f_0_0 f_0_3125 f_1_0 f_1_5 f_0_6875;
   mkAabb f_0_25 f_0_0 f_0_25 f_0_75 f_1_5 f_0_3125;
   mkAabb f_0_25 f_0_0 f_0_6875 f_0_75 f_1_5 f_0_75;
   mkAabb f_0_3125 f_0_0 f_0_0 f_0_6875 f_1_5 f_0_25;
   mkAabb f_0_3125 f_0_0 f_0_75 f_0_6875 f_1_5 f_1_0;
   mkAabb f_0_3125 f_0_0 f_0_0 f_0_6875 f_1_5 f_1_0;
   mkAabb f_0_6875 f_0_0 f_0_3125 f_1_0 f_1_5 f_0_6875;
   mkAabb f_0_0 f_0_0 f_0_3125 f_1_0 f_1_5 f_0_6875;
   mkAabb f_0_3125 f_0_0 f_0_0 f_0_6875 f_1_5 f_0_3125;
   mkAabb f_0_3125 f_0_0 f_0_6875 f_0_6875 f_1_5 f_1_0;
   mkAabb f_0_0 f_0_0 f_0_3125 f_1_0 f_1_5 f_0_6875;
   mkAabb f_0_3125 f_0_0 f_0_0 f_0_6875 f_1_5 f_0_3125;
   mkAabb f_0_3125 f_0_0 f_0_6875 f_0_6875 f_1_5 f_1_0;
   mkAabb f_0_25 f_0_0 f_0_25 f_0_75 f_1_5 f_0_75;
   mkAabb f_0_3125 f_0_0 f_0_0 f_0_6875 f_1_5 f_0_25;
   mkAabb f_0_3125 f_0_0 f_0_75 f_0_6875 f_1_5 f_1_0;
   mkAabb f_0_75 f_0_0 f_0_3125 f_1_0 f_1_5 f_0_6875;
   mkAabb f_0_0 f_0_0 f_0_3125 f_1_0 f_1_5 f_0_6875;
   mkAabb f_0_25 f_0_0 f_0_25 f_0_75 f_1_5 f_0_3125;
   mkAabb f_0_25 f_0_0 f_0_6875 f_0_75 f_1_5 f_0_75;
   mkAabb f_0_3125 f_0_0 f_0_0 f_0_6875 f_1_5 f_0_25;
   mkAabb f_0_3125 f_0_0 f_0_75 f_0_6875 f_1_5 f_1_0;
   mkAabb f_0_0 f_0_0 f_0_3125 f_1_0 f_1_5 f_0_6875;
   mkAabb f_0_25 f_0_0 f_0_25 f_0_75 f_1_5 f_0_3125;
   mkAabb f_0_25 f_0_0 f_0_6875 f_0_75 f_1_5 f_0_75;
   mkAabb f_0_3125 f_0_0 f_0_0 f_0_6875 f_1_5 f_0_25;
   mkAabb f_0_3125 f_0_0 f_0_75 f_0_6875 f_1_5 f_1_0;
   mkAabb f_0_3125 f_0_0 f_0_0 f_0_6875 f_1_5 f_1_0;
   mkAabb f_0_6875 f_0_0 f_0_3125 f_1_0 f_1_5 f_0_6875;
   mkAabb f_0_0 f_0_0 f_0_3125 f_1_0 f_1_5 f_0_6875;
   mkAabb f_0_3125 f_0_0 f_0_0 f_0_6875 f_1_5 f_0_3125;
   mkAabb f_0_3125 f_0_0 f_0_6875 f_0_6875 f_1_5 f_1_0;
   mkAabb f_0_0 f_0_0 f_0_3125 f_1_0 f_1_5 f_0_6875;
   mkAabb f_0_3125 f_0_0 f_0_0 f_0_6875 f_1_5 f_0_3125;
   mkAabb f_0_3125 f_0_0 f_0_6875 f_0_6875 f_1_5 f_1_0;
   mkAabb f_0_3125 f_0_0 f_0_3125 f_0_6875 f_0_375 f_0_6875;
   mkAabb f_0_25 f_0_0 f_0_25 f_0_75 f_0_5 f_0_75;
   mkAabb f_0_25 f_0_25 f_0_5 f_0_75 f_0_75 f_1_0;
   mkAabb f_0_25 f_0_25 f_0_0 f_0_75 f_0_75 f_0_5;
   mkAabb f_0_5 f_0_25 f_0_25 f_1_0 f_0_75 f_0_75;
   mkAabb f_0_0 f_0_25 f_0_25 f_0_5 f_0_75 f_0_75;
   mkAabb f_0_1875 f_0_0 f_0_1875 f_0_8125 f_0_5 f_0_8125;
   mkAabb f_0_1875 f_0_25 f_0_5 f_0_8125 f_0_75 f_1_0;
   mkAabb f_0_1875 f_0_25 f_0_0 f_0_8125 f_0_75 f_0_5;
   mkAabb f_0_5 f_0_25 f_0_1875 f_1_0 f_0_75 f_0_8125;
   mkAabb f_0_0 f_0_25 f_0_1875 f_0_5 f_0_75 f_0_8125;
   mkAabb f_0_125 f_0_0 f_0_125 f_0_875 f_0_25 f_0_875;
   mkAabb f_0_25 f_0_25 f_0_1875 f_0_75 f_0_3125 f_0_8125;
   mkAabb f_0_375 f_0_3125 f_0_25 f_0_625 f_1_0 f_0_75;
   mkAabb f_0_1875 f_0_625 f_0_0 f_0_375 f_1_0 f_1_0;
   mkAabb f_0_375 f_0_625 f_0_0 f_0_8125 f_1_0 f_0_25;
   mkAabb f_0_375 f_0_625 f_0_75 f_0_8125 f_1_0 f_1_0;
   mkAabb f_0_625 f_0_625 f_0_25 f_0_8125 f_1_0 f_0_75;
   mkAabb f_0_125 f_0_0 f_0_125 f_0_875 f_0_25 f_0_875;
   mkAabb f_0_1875 f_0_25 f_0_25 f_0_8125 f_0_3125 f_0_75;
   mkAabb f_0_25 f_0_3125 f_0_375 f_0_75 f_1_0 f_0_625;
   mkAabb f_0_0 f_0_625 f_0_1875 f_0_25 f_1_0 f_0_8125;
   mkAabb f_0_25 f_0_625 f_0_1875 f_1_0 f_1_0 f_0_375;
   mkAabb f_0_25 f_0_625 f_0_625 f_1_0 f_1_0 f_0_8125;
   mkAabb f_0_75 f_0_625 f_0_375 f_1_0 f_1_0 f_0_625;
   mkAabb f_0_0 f_0_0 f_0_0 f_1_0 f_0_375 f_1_0;
   mkAabb f_0_375 f_0_0 f_0_375 f_0_625 f_0_6875 f_0_625;
   mkAabb f_0_25 f_0_25 f_0_25 f_0_375 f_0_6875 f_0_75;
   mkAabb f_0_375 f_0_25 f_0_25 f_0_75 f_0_6875 f_0_375;
   mkAabb f_0_375 f_0_25 f_0_625 f_0_75 f_0_6875 f_0_75;
   mkAabb f_0_625 f_0_25 f_0_375 f_0_75 f_0_6875 f_0_625;
   mkAabb f_0_0 f_0_625 f_0_0 f_0_25 f_0_6875 f_1_0;
   mkAabb f_0_25 f_0_625 f_0_0 f_1_0 f_0_6875 f_0_25;
   mkAabb f_0_25 f_0_625 f_0_75 f_1_0 f_0_6875 f_1_0;
   mkAabb f_0_75 f_0_625 f_0_25 f_1_0 f_0_6875 f_0_75;
   mkAabb f_0_0 f_0_6875 f_0_0 f_0_125 f_1_0 f_1_0;
   mkAabb f_0_125 f_0_6875 f_0_0 f_1_0 f_1_0 f_0_125;
   mkAabb f_0_125 f_0_6875 f_0_875 f_1_0 f_1_0 f_1_0;
   mkAabb f_0_875 f_0_6875 f_0_125 f_1_0 f_1_0 f_0_875;
   mkAabb f_0_25 f_0_25 f_0_25 f_0_75 f_0_6875 f_0_75;
   mkAabb f_0_375 f_0_25 f_0_0 f_0_625 f_0_5 f_0_25;
   mkAabb f_0_0 f_0_625 f_0_0 f_0_25 f_0_6875 f_1_0;
   mkAabb f_0_25 f_0_625 f_0_0 f_1_0 f_0_6875 f_0_25;
   mkAabb f_0_25 f_0_625 f_0_75 f_1_0 f_0_6875 f_1_0;
   mkAabb f_0_75 f_0_625 f_0_25 f_1_0 f_0_6875 f_0_75;
   mkAabb f_0_0 f_0_6875 f_0_0 f_0_125 f_1_0 f_1_0;
   mkAabb f_0_125 f_0_6875 f_0_0 f_1_0 f_1_0 f_0_125].
Definition SHAPE_BOXES_12 : list Aabb :=
  [mkAabb f_0_125 f_0_6875 f_0_875 f_1_0 f_1_0 f_1_0;
   mkAabb f_0_875 f_0_6875 f_0_125 f_1_0 f_1_0 f_0_875;
   mkAabb f_0_25 f_0_25 f_0_25 f_0_75 f_0_6875 f_0_75;
   mkAabb f_0_375 f_0_25 f_0_75 f_0_625 f_0_5 f_1_0;
   mkAabb f_0_0 f_0_625 f_0_0 f_0_25 f_0_6875 f_1_0;
   mkAabb f_0_25 f_0_625 f_0_0 f_1_0 f_0_6875 f_0_25;
   mkAabb f_0_25 f_0_625 f_0_75 f_1_0 f_0_6875 f_1_0;
   mkAabb f_0_75 f_0_625 f_0_25 f_1_0 f_0_6875 f_0_75;
   mkAabb f_0_0 f_0_6875 f_0_0 f_0_125 f_1_0 f_1_0;
   mkAabb f_0_125 f_0_6875 f_0_0 f_1_0 f_1_0 f_0_125;
   mkAabb f_0_125 f_0_6875 f_0_875 f_1_0 f_1_0 f_1_0;
   mkAabb f_0_875 f_0_6875 f_0_125 f_1_0 f_1_0 f_0_875;
   mkAabb f_0_0 f_0_25 f_0_375 f_0_75 f_0_5 f_0_625;
   mkAabb f_0_25 f_0_25 f_0_25 f_0_75 f_0_6875 f_0_375;
   mkAabb f_0_25 f_0_25 f_0_625 f_0_75 f_0_6875 f_0_75;
   mkAabb f_0_25 f_0_5 f_0_375 f_0_75 f_0_6875 f_0_625;
   mkAabb f_0_0 f_0_625 f_0_0 f_0_25 f_0_6875 f_1_0;
   mkAabb f_0_25 f_0_625 f_0_0 f_1_0 f_0_6875 f_0_25;
   mkAabb f_0_25 f_0_625 f_0_75 f_1_0 f_0_6875 f_1_0;
   mkAabb f_0_75 f_0_625 f_0_25 f_1_0 f_0_6875 f_0_75;
   mkAabb f_0_0 f_0_6875 f_0_0 f_0_125 f_1_0 f_1_0;
   mkAabb f_0_125 f_0_6875 f_0_0 f_1_0 f_1_0 f_0_125;
   mkAabb f_0_125 f_0_6875 f_0_875 f_1_0 f_1_0 f_1_0;
   mkAabb f_0_875 f_0_6875 f_0_125 f_1_0 f_1_0 f_0_875;
   mkAabb f_0_25 f_0_25 f_0_25 f_0_75 f_0_6875 f_0_75;
   mkAabb f_0_75 f_0_25 f_0_375 f_1_0 f_0_5 f_0_625;
   mkAabb f_0_0 f_0_625 f_0_0 f_0_25 f_0_6875 f_1_0;
   mkAabb f_0_25 f_0_625 f_0_0 f_1_0 f_0_6875 f_0_25;
   mkAabb f_0_25 f_0_625 f_0_75 f_1_0 f_0_6875 f_1_0;
   mkAabb f_0_75 f_0_625 f_0_25 f_1_0 f_0_6875 f_0_75;
   mkAabb f_0_0 f_0_6875 f_0_0 f_0_125 f_1_0 f_1_0;
   mkAabb f_0_125 f_0_6875 f_0_0 f_1_0 f_1_0 f_0_125;
   mkAabb f_0_125 f_0_6875 f_0_875 f_1_0 f_1_0 f_1_0;
   mkAabb f_0_875 f_0_6875 f_0_125 f_1_0 f_1_0 f_0_875;
   mkAabb f_0_0 f_0_0 f_0_4375 f_1_0 f_1_0 f_0_5625;
   mkAabb f_0_4375 f_0_0 f_0_0 f_0_5625 f_1_0 f_0_4375;
   mkAabb f_0_4375 f_0_0 f_0_5625 f_0_5625 f_1_0 f_1_0;
   mkAabb f_0_4375 f_0_0 f_0_0 f_0_5625 f_1_0 f_1_0;
   mkAabb f_0_5625 f_0_0 f_0_4375 f_1_0 f_1_0 f_0_5625;
   mkAabb f_0_0 f_0_0 f_0_4375 f_1_0 f_1_0 f_0_5625;
   mkAabb f_0_4375 f_0_0 f_0_0 f_0_5625 f_1_0 f_0_4375;
   mkAabb f_0_4375 f_0_0 f_0_0 f_0_5625 f_1_0 f_0_5625;
   mkAabb f_0_5625 f_0_0 f_0_4375 f_1_0 f_1_0 f_0_5625;
   mkAabb f_0_0 f_0_0 f_0_4375 f_1_0 f_1_0 f_0_5625;
   mkAabb f_0_4375 f_0_0 f_0_5625 f_0_5625 f_1_0 f_1_0;
   mkAabb f_0_4375 f_0_0 f_0_4375 f_0_5625 f_1_0 f_1_0;
   mkAabb f_0_5625 f_0_0 f_0_4375 f_1_0 f_1_0 f_0_5625;
   mkAabb f_0_0 f_0_0 f_0_4375 f_1_0 f_1_0 f_0_5625;
   mkAabb f_0_4375 f_0_0 f_0_4375 f_1_0 f_1_0 f_0_5625;
   mkAabb f_0_0 f_0_0 f_0_4375 f_0_5625 f_1_0 f_0_5625;
   mkAabb f_0_4375 f_0_0 f_0_0 f_0_5625 f_1_0 f_0_4375;
   mkAabb f_0_4375 f_0_0 f_0_5625 f_0_5625 f_1_0 f_1_0;
   mkAabb f_0_4375 f_0_0 f_0_0 f_0_5625 f_1_0 f_1_0;
   mkAabb f_0_0 f_0_0 f_0_4375 f_0_5625 f_1_0 f_0_5625;
   mkAabb f_0_4375 f_0_0 f_0_0 f_0_5625 f_1_0 f_0_4375;
   mkAabb f_0_4375 f_0_0 f_0_0 f_0_5625 f_1_0 f_0_5625;
   mkAabb f_0_0 f_0_0 f_0_4375 f_0_5625 f_1_0 f_0_5625;
   mkAabb f_0_4375 f_0_0 f_0_5625 f_0_5625 f_1_0 f_1_0;
   mkAabb f_0_4375 f_0_0 f_0_4375 f_0_5625 f_1_0 f_1_0;
   mkAabb f_0_0 f_0_0 f_0_4375 f_0_5625 f_1_0 f_0_5625;
   mkAabb f_0_4375 f_0_0 f_0_4375 f_0_5625 f_1_0 f_0_5625;
   mkAabb f_0_0 f_0_0 f_0_4375 f_1_0 f_1_0 f_0_5625;
   mkAabb f_0_4375 f_0_0 f_0_0 f_0_5625 f_1_0 f_0_4375;
   mkAabb f_0_4375 f_0_0 f_0_5625 f_0_5625 f_1_0 f_1_0;
   mkAabb f_0_4375 f_0_0 f_0_0 f_0_5625 f_1_0 f_1_0;
   mkAabb f_0_5625 f_0_0 f_0_4375 f_1_0 f_1_0 f_0_5625;
   mkAabb f_0_0 f_0_0 f_0_4375 f_1_0 f_1_0 f_0_5625;
   mkAabb f_0_4375 f_0_0 f_0_0 f_0_5625 f_1_0 f_0_4375;
   mkAabb f_0_4375 f_0_0 f_0_0 f_0_5625 f_1_0 f_0_5625;
   mkAabb f_0_5625 f_0_0 f_0_4375 f_1_0 f_1_0 f_0_5625;
   mkAabb f_0_0 f_0_0 f_0_4375 f_1_0 f_1_0 f_0_5625;
   mkAabb f_0_4375 f_0_0 f_0_5625 f_0_5625 f_1_0 f_1_0;
   mkAabb f_0_4375 f_0_0 f_0_4375 f_0_5625 f_1_0 f_1_0;
   mkAabb f_0_5625 f_0_0 f_0_4375 f_1_0 f_1_0 f_0_5625;
   mkAabb f_0_0 f_0_0 f_0_4375 f_1_0 f_1_0 f_0_5625;
   mkAabb f_0_4375 f_0_0 f_0_4375 f_1_0 f_1_0 f_0_5625;
   mkAabb f_0_0 f_0_0 f_0_4375 f_0_5625 f_1_0 f_0_5625;
   mkAabb f_0_4375 f_0_0 f_0_0 f_0_5625 f_1_0 f_0_4375;
   mkAabb f_0_4375 f_0_0 f_0_5625 f_0_5625 f_1_0 f_1_0;
   mkAabb f_0_4375 f_0_0 f_0_0 f_0_5625 f_1_0 f_1_0;
   mkAabb f_0_0 f_0_0 f_0_4375 f_0_5625 f_1_0 f_0_5625;
   mkAabb f_0_4375 f_0_0 f_0_0 f_0_5625 f_1_0 f_0_4375;
   mkAabb f_0_4375 f_0_0 f_0_0 f_0_5625 f_1_0 f_0_5625;
   mkAabb f_0_0 f_0_0 f_0_4375 f_0_5625 f_1_0 f_0_5625;
   mkAabb f_0_4375 f_0_0 f_0_5625 f_0_5625 f_1_0 f_1_0;
   mkAabb f_0_4375 f_0_0 f_0_4375 f_0_5625 f_1_0 f_1_0;
   mkAabb f_0_0 f_0_0 f_0_4375 f_0_5625 f_1_0 f_0_5625;
   mkAabb f_0_4375 f_0_0 f_0_4375 f_0_5625 f_1_0 f_0_5625;
   mkAabb f_0_0 f_0_0 f_0_4375 f_1_0 f_1_0 f_0_5625;
   mkAabb f_0_4375 f_0_0 f_0_0 f_0_5625 f_1_0 f_0_4375;
   mkAabb f_0_4375 f_0_0 f_0_5625 f_0_5625 f_1_0 f_1_0;
   mkAabb f_0_4375 f_0_0 f_0_0 f_0_5625 f_1_0 f_1_0;
   mkAabb f_0_5625 f_0_0 f_0_4375 f_1_0 f_1_0 f_0_5625;
   mkAabb f_0_0 f_0_0 f_0_4375 f_1_0 f_1_0 f_0_5625;
   mkAabb f_0_4375 f_0_0 f_0_0 f_0_5625 f_1_0 f_0_4375;
   mkAabb f_0_4375 f_0_0 f_0_0 f_0_5625 f_1_0 f_0_5625;
   mkAabb f_0_5625 f_0_0 f_0_4375 f_1_0 f_1_0 f_0_5625;
   mkAabb f_0_0 f_0_0 f_0_4375 f_1_0 f_1_0 f_0_5625;
   mkAabb f_0_4375 f_0_0 f_0_5625 f_0_5625 f_1_0 f_1_0;
   mkAabb f_0_4375 f_0_0 f_0_4375 f_0_5625 f_1_0 f_1_0;
   mkAabb f_0_5625 f_0_0 f_0_4375 f_1_0 f_1_0 f_0_5625;
   mkAabb f_0_0 f_0_0 f_0_4375 f_1_0 f_1_0 f_0_5625;
   mkAabb f_0_4375 f_0_0 f_0_4375 f_1_0 f_1_0 f_0_5625;
   mkAabb f_0_0 f_0_0 f_0_4375 f_0_5625 f_1_0 f_0_5625;
   mkAabb f_0_4375 f_0_0 f_0_0 f_0_5625 f_1_0 f_0_4375;
   mkAabb f_0_4375 f_0_0 f_0_5625 f_0_5625 f_1_0 f_1_0;
   mkAabb f_0_4375 f_0_0 f_0_0 f_0_5625 f_1_0 f_1_0;
   mkAabb f_0_0 f_0_0 f_0_4375 f_0_5625 f_1_0 f_0_5625;
   mkAabb f_0_4375 f_0_0 f_0_0 f_0_5625 f_1_0 f_0_4375;
   mkAabb f_0_4375 f_0_0 f_0_0 f_0_5625 f_1_0 f_0_5625;
   mkAabb f_0_0 f_0_0 f_0_4375 f_0_5625 f_1_0 f_0_5625;
   mkAabb f_0_4375 f_0_0 f_0_5625 f_0_5625 f_1_0 f_1_0;
   mkAabb f_0_4375 f_0_0 f_0_4375 f_0_5625 f_1_0 f_1_0;
   mkAabb f_0_0 f_0_0 f_0_4375 f_0_5625 f_1_0 f_0_5625;
   mkAabb f_0_4375 f_0_0 f_0_4375 f_0_5625 f_1_0 f_0_5625;
   mkAabb f_0_0 f_0_0 f_0_4375 f_1_0 f_1_0 f_0_5625;
   mkAabb f_0_4375 f_0_0 f_0_0 f_0_5625 f_1_0 f_0_4375;
   mkAabb f_0_4375 f_0_0 f_0_5625 f_0_5625 f_1_0 f_1_0;
   mkAabb f_0_4375 f_0_0 f_0_0 f_0_5625 f_1_0 f_1_0;
   mkAabb f_0_5625 f_0_0 f_0_4375 f_1_0 f_1_0 f_0_5625;
   mkAabb f_0_0 f_0_0 f_0_4375 f_1_0 f_1_0 f_0_5625;
   mkAabb f_0_4375 f_0_0 f_0_0 f_0_5625 f_1_0 f_0_4375;
   mkAabb f_0_4375 f_0_0 f_0_0 f_0_5625 f_1_0 f_0_5625;
   mkAabb f_0_5625 f_0_0 f_0_4375 f_1_0 f_1_0 f_0_5625;
   mkAabb f_0_0 f_0_0 f_0_4375 f_1_0 f_1_0 f_0_5625;
   mkAabb f_0_4375 f_0_0 f_0_5625 f_0_5625 f_1_0 f_1_0;
   mkAabb f_0_4375 f_0_0 f_0_4375 f_0_5625 f_1_0 f_1_0;
   mkAabb f_0_5625 f_0_0 f_0_4375 f_1_0 f_1_0 f_0_5625;
   mkAabb f_0_0 f_0_0 f_0_4375 f_1_0 f_1_0 f_0_5625;
   mkAabb f_0_4375 f_0_0 f_0_4375 f_1_0 f_1_0 f_0_5625;
   mkAabb f_0_0 f_0_0 f_0_4375 f_0_5625 f_1_0 f_0_5625;
   mkAabb f_0_4375 f_0_0 f_0_0 f_0_5625 f_1_0 f_0_4375;
   mkAabb f_0_4375 f_0_0 f_0_5625 f_0_5625 f_1_0 f_1_0;
   mkAabb f_0_4375 f_0_0 f_0_0 f_0_5625 f_1_0 f_1_0;
   mkAabb f_0_0 f_0_0 f_0_4375 f_0_5625 f_1_0 f_0_5625;
   mkAabb f_0_4375 f_0_0 f_0_0 f_0_5625 f_1_0 f_0_4375;
   mkAabb f_0_4375 f_0_0 f_0_0 f_0_5625 f_1_0 f_0_5625;
   mkAabb f_0_0 f_0_0 f_0_4375 f_0_5625 f_1_0 f_0_5625;
   mkAabb f_0_4375 f_0_0 f_0_5625 f_0_5625 f_1_0 f_1_0;
   mkAabb f_0_4375 f_0_0 f_0_4375 f_0_5625 f_1_0 f_1_0;
   mkAabb f_0_0 f_0_0 f_0_4375 f_0_5625 f_1_0 f_0_5625;
   mkAabb f_0_4375 f_0_0 f_0_4375 f_0_5625 f_1_0 f_0_5625;
   mkAabb f_0_0 f_0_0 f_0_4375 f_1_0 f_1_0 f_0_5625;
   mkAabb f_0_4375 f_0_0 f_0_0 f_0_5625 f_1_0 f_0_4375;
   mkAabb f_0_4375 f_0_0 f_0_5625 f_0_5625 f_1_0 f_1_0;
   mkAabb f_0_4375 f_0_0 f_0_0 f_0_5625 f_1_0 f_1_0;
   mkAabb f_0_5625 f_0_0 f_0_4375 f_1_0 f_1_0 f_0_5625;
   mkAabb f_0_0 f_0_0 f_0_4375 f_1_0 f_1_0 f_0_5625;
   mkAabb f_0_4375 f_0_0 f_0_0 f_0_5625 f_1_0 f_0_4375;
   mkAabb f_0_4375 f_0_0 f_0_0 f_0_5625 f_1_0 f_0_5625].
Definition SHAPE_BOXES_13 : list Aabb :=
  [mkAabb f_0_5625 f_0_0 f_0_4375 f_1_0 f_1_0 f_0_5625;
   mkAabb f_0_0 f_0_0 f_0_4375 f_1_0 f_1_0 f_0_5625;
   mkAabb f_0_4375 f_0_0 f_0_5625 f_0_5625 f_1_0 f_1_0;
   mkAabb f_0_4375 f_0_0 f_0_4375 f_0_5625 f_1_0 f_1_0;
   mkAabb f_0_5625 f_0_0 f_0_4375 f_1_0 f_1_0 f_0_5625;
   mkAabb f_0_0 f_0_0 f_0_4375 f_1_0 f_1_0 f_0_5625;
   mkAabb f_0_4375 f_0_0 f_0_4375 f_1_0 f_1_0 f_0_5625;
   mkAabb f_0_0 f_0_0 f_0_4375 f_0_5625 f_1_0 f_0_5625;
   mkAabb f_0_4375 f_0_0 f_0_0 f_0_5625 f_1_0 f_0_4375;
   mkAabb f_0_4375 f_0_0 f_0_5625 f_0_5625 f_1_0 f_1_0;
   mkAabb f_0_4375 f_0_0 f_0_0 f_0_5625 f_1_0 f_1_0;
   mkAabb f_0_0 f_0_0 f_0_4375 f_0_5625 f_1_0 f_0_5625;
   mkAabb f_0_4375 f_0_0 f_0_0 f_0_5625 f_1_0 f_0_4375;
   mkAabb f_0_4375 f_0_0 f_0_0 f_0_5625 f_1_0 f_0_5625;
   mkAabb f_0_0 f_0_0 f_0_4375 f_0_5625 f_1_0 f_0_5625;
   mkAabb f_0_4375 f_0_0 f_0_5625 f_0_5625 f_1_0 f_1_0;
   mkAabb f_0_4375 f_0_0 f_0_4375 f_0_5625 f_1_0 f_1_0;
   mkAabb f_0_0 f_0_0 f_0_4375 f_0_5625 f_1_0 f_0_5625;
   mkAabb f_0_4375 f_0_0 f_0_4375 f_0_5625 f_1_0 f_0_5625;
   mkAabb f_0_0 f_0_0 f_0_4375 f_1_0 f_1_0 f_0_5625;
   mkAabb f_0_4375 f_0_0 f_0_0 f_0_5625 f_1_0 f_0_4375;
   mkAabb f_0_4375 f_0_0 f_0_5625 f_0_5625 f_1_0 f_1_0;
   mkAabb f_0_4375 f_0_0 f_0_0 f_0_5625 f_1_0 f_1_0;
   mkAabb f_0_5625 f_0_0 f_0_4375 f_1_0 f_1_0 f_0_5625;
   mkAabb f_0_0 f_0_0 f_0_4375 f_1_0 f_1_0 f_0_5625;
   mkAabb f_0_4375 f_0_0 f_0_0 f_0_5625 f_1_0 f_0_4375;
   mkAabb f_0_4375 f_0_0 f_0_0 f_0_5625 f_1_0 f_0_5625;
   mkAabb f_0_5625 f_0_0 f_0_4375 f_1_0 f_1_0 f_0_5625;
   mkAabb f_0_0 f_0_0 f_0_4375 f_1_0 f_1_0 f_0_5625;
   mkAabb f_0_4375 f_0_0 f_0_5625 f_0_5625 f_1_0 f_1_0;
   mkAabb f_0_4375 f_0_0 f_0_4375 f_0_5625 f_1_0 f_1_0;
   mkAabb f_0_5625 f_0_0 f_0_4375 f_1_0 f_1_0 f_0_5625;
   mkAabb f_0_0 f_0_0 f_0_4375 f_1_0 f_1_0 f_0_5625;
   mkAabb f_0_4375 f_0_0 f_0_4375 f_1_0 f_1_0 f_0_5625;
   mkAabb f_0_0 f_0_0 f_0_4375 f_0_5625 f_1_0 f_0_5625;
   mkAabb f_0_4375 f_0_0 f_0_0 f_0_5625 f_1_0 f_0_4375;
   mkAabb f_0_4375 f_0_0 f_0_5625 f_0_5625 f_1_0 f_1_0;
   mkAabb f_0_4375 f_0_0 f_0_0 f_0_5625 f_1_0 f_1_0;
   mkAabb f_0_0 f_0_0 f_0_4375 f_0_5625 f_1_0 f_0_5625;
   mkAabb f_0_4375 f_0_0 f_0_0 f_0_5625 f_1_0 f_0_4375;
   mkAabb f_0_4375 f_0_0 f_0_0 f_0_5625 f_1_0 f_0_5625;
   mkAabb f_0_0 f_0_0 f_0_4375 f_0_5625 f_1_0 f_0_5625;
   mkAabb f_0_4375 f_0_0 f_0_5625 f_0_5625 f_1_0 f_1_0;
   mkAabb f_0_4375 f_0_0 f_0_4375 f_0_5625 f_1_0 f_1_0;
   mkAabb f_0_0 f_0_0 f_0_4375 f_0_5625 f_1_0 f_0_5625;
   mkAabb f_0_4375 f_0_0 f_0_4375 f_0_5625 f_1_0 f_0_5625;
   mkAabb f_0_0 f_0_0 f_0_4375 f_1_0 f_1_0 f_0_5625;
   mkAabb f_0_4375 f_0_0 f_0_0 f_0_5625 f_1_0 f_0_4375;
   mkAabb f_0_4375 f_0_0 f_0_5625 f_0_5625 f_1_0 f_1_0;
   mkAabb f_0_4375 f_0_0 f_0_0 f_0_5625 f_1_0 f_1_0;
   mkAabb f_0_5625 f_0_0 f_0_4375 f_1_0 f_1_0 f_0_5625;
   mkAabb f_0_0 f_0_0 f_0_4375 f_1_0 f_1_0 f_0_5625;
   mkAabb f_0_4375 f_0_0 f_0_0 f_0_5625 f_1_0 f_0_4375;
   mkAabb f_0_4375 f_0_0 f_0_0 f_0_5625 f_1_0 f_0_5625;
   mkAabb f_0_5625 f_0_0 f_0_4375 f_1_0 f_1_0 f_0_5625;
   mkAabb f_0_0 f_0_0 f_0_4375 f_1_0 f_1_0 f_0_5625;
   mkAabb f_0_4375 f_0_0 f_0_5625 f_0_5625 f_1_0 f_1_0;
   mkAabb f_0_4375 f_0_0 f_0_4375 f_0_5625 f_1_0 f_1_0;
   mkAabb f_0_5625 f_0_0 f_0_4375 f_1_0 f_1_0 f_0_5625;
   mkAabb f_0_0 f_0_0 f_0_4375 f_1_0 f_1_0 f_0_5625;
   mkAabb f_0_4375 f_0_0 f_0_4375 f_1_0 f_1_0 f_0_5625;
   mkAabb f_0_0 f_0_0 f_0_4375 f_0_5625 f_1_0 f_0_5625;
   mkAabb f_0_4375 f_0_0 f_0_0 f_0_5625 f_1_0 f_0_4375;
   mkAabb f_0_4375 f_0_0 f_0_5625 f_0_5625 f_1_0 f_1_0;
   mkAabb f_0_4375 f_0_0 f_0_0 f_0_5625 f_1_0 f_1_0;
   mkAabb f_0_0 f_0_0 f_0_4375 f_0_5625 f_1_0 f_0_5625;
   mkAabb f_0_4375 f_0_0 f_0_0 f_0_5625 f_1_0 f_0_4375;
   mkAabb f_0_4375 f_0_0 f_0_0 f_0_5625 f_1_0 f_0_5625;
   mkAabb f_0_0 f_0_0 f_0_4375 f_0_5625 f_1_0 f_0_5625;
   mkAabb f_0_4375 f_0_0 f_0_5625 f_0_5625 f_1_0 f_1_0;
   mkAabb f_0_4375 f_0_0 f_0_4375 f_0_5625 f_1_0 f_1_0;
   mkAabb f_0_0 f_0_0 f_0_4375 f_0_5625 f_1_0 f_0_5625;
   mkAabb f_0_4375 f_0_0 f_0_4375 f_0_5625 f_1_0 f_0_5625;
   mkAabb f_0_0 f_0_0 f_0_4375 f_1_0 f_1_0 f_0_5625;
   mkAabb f_0_4375 f_0_0 f_0_0 f_0_5625 f_1_0 f_0_4375;
   mkAabb f_0_4375 f_0_0 f_0_5625 f_0_5625 f_1_0 f_1_0;
   mkAabb f_0_4375 f_0_0 f_0_0 f_0_5625 f_1_0 f_1_0;
   mkAabb f_0_5625 f_0_0 f_0_4375 f_1_0 f_1_0 f_0_5625;
   mkAabb f_0_0 f_0_0 f_0_4375 f_1_0 f_1_0 f_0_5625;
   mkAabb f_0_4375 f_0_0 f_0_0 f_0_5625 f_1_0 f_0_4375;
   mkAabb f_0_4375 f_0_0 f_0_0 f_0_5625 f_1_0 f_0_5625;
   mkAabb f_0_5625 f_0_0 f_0_4375 f_1_0 f_1_0 f_0_5625;
   mkAabb f_0_0 f_0_0 f_0_4375 f_1_0 f_1_0 f_0_5625;
   mkAabb f_0_4375 f_0_0 f_0_5625 f_0_5625 f_1_0 f_1_0;
   mkAabb f_0_4375 f_0_0 f_0_4375 f_0_5625 f_1_0 f_1_0;
   mkAabb f_0_5625 f_0_0 f_0_4375 f_1_0 f_1_0 f_0_5625;
   mkAabb f_0_0 f_0_0 f_0_4375 f_1_0 f_1_0 f_0_5625;
   mkAabb f_0_4375 f_0_0 f_0_4375 f_1_0 f_1_0 f_0_5625;
   mkAabb f_0_0 f_0_0 f_0_4375 f_0_5625 f_1_0 f_0_5625;
   mkAabb f_0_4375 f_0_0 f_0_0 f_0_5625 f_1_0 f_0_4375;
   mkAabb f_0_4375 f_0_0 f_0_5625 f_0_5625 f_1_0 f_1_0;
   mkAabb f_0_4375 f_0_0 f_0_0 f_0_5625 f_1_0 f_1_0;
   mkAabb f_0_0 f_0_0 f_0_4375 f_0_5625 f_1_0 f_0_5625;
   mkAabb f_0_4375 f_0_0 f_0_0 f_0_5625 f_1_0 f_0_4375;
   mkAabb f_0_4375 f_0_0 f_0_0 f_0_5625 f_1_0 f_0_5625;
   mkAabb f_0_0 f_0_0 f_0_4375 f_0_5625 f_1_0 f_0_5625;
   mkAabb f_0_4375 f_0_0 f_0_5625 f_0_5625 f_1_0 f_1_0;
   mkAabb f_0_4375 f_0_0 f_0_4375 f_0_5625 f_1_0 f_1_0;
   mkAabb f_0_0 f_0_0 f_0_4375 f_0_5625 f_1_0 f_0_5625;
   mkAabb f_0_4375 f_0_0 f_0_4375 f_0_5625 f_1_0 f_0_5625;
   mkAabb f_0_0 f_0_0 f_0_4375 f_1_0 f_1_0 f_0_5625;
   mkAabb f_0_4375 f_0_0 f_0_0 f_0_5625 f_1_0 f_0_4375;
   mkAabb f_0_4375 f_0_0 f_0_5625 f_0_5625 f_1_0 f_1_0;
   mkAabb f_0_4375 f_0_0 f_0_0 f_0_5625 f_1_0 f_1_0;
   mkAabb f_0_5625 f_0_0 f_0_4375 f_1_0 f_1_0 f_0_5625;
   mkAabb f_0_0 f_0_0 f_0_4375 f_1_0 f_1_0 f_0_5625;
   mkAabb f_0_4375 f_0_0 f_0_0 f_0_5625 f_1_0 f_0_4375;
   mkAabb f_0_4375 f_0_0 f_0_0 f_0_5625 f_1_0 f_0_5625;
   mkAabb f_0_5625 f_0_0 f_0_4375 f_1_0 f_1_0 f_0_5625;
   mkAabb f_0_0 f_0_0 f_0_4375 f_1_0 f_1_0 f_0_5625;
   mkAabb f_0_4375 f_0_0 f_0_5625 f_0_5625 f_1_0 f_1_0;
   mkAabb f_0_4375 f_0_0 f_0_4375 f_0_5625 f_1_0 f_1_0;
   mkAabb f_0_5625 f_0_0 f_0_4375 f_1_0 f_1_0 f_0_5625;
   mkAabb f_0_0 f_0_0 f_0_4375 f_1_0 f_1_0 f_0_5625;
   mkAabb f_0_4375 f_0_0 f_0_4375 f_1_0 f_1_0 f_0_5625;
   mkAabb f_0_0 f_0_0 f_0_4375 f_0_5625 f_1_0 f_0_5625;
   mkAabb f_0_4375 f_0_0 f_0_0 f_0_5625 f_1_0 f_0_4375;
   mkAabb f_0_4375 f_0_0 f_0_5625 f_0_5625 f_1_0 f_1_0;
   mkAabb f_0_4375 f_0_0 f_0_0 f_0_5625 f_1_0 f_1_0;
   mkAabb f_0_0 f_0_0 f_0_4375 f_0_5625 f_1_0 f_0_5625;
   mkAabb f_0_4375 f_0_0 f_0_0 f_0_5625 f_1_0 f_0_4375;
   mkAabb f_0_4375 f_0_0 f_0_0 f_0_5625 f_1_0 f_0_5625;
   mkAabb f_0_0 f_0_0 f_0_4375 f_0_5625 f_1_0 f_0_5625;
   mkAabb f_0_4375 f_0_0 f_0_5625 f_0_5625 f_1_0 f_1_0;
   mkAabb f_0_4375 f_0_0 f_0_4375 f_0_5625 f_1_0 f_1_0;
   mkAabb f_0_0 f_0_0 f_0_4375 f_0_5625 f_1_0 f_0_5625;
   mkAabb f_0_4375 f_0_0 f_0_4375 f_0_5625 f_1_0 f_0_5625;
   mkAabb f_0_0 f_0_0 f_0_4375 f_1_0 f_1_0 f_0_5625;
   mkAabb f_0_4375 f_0_0 f_0_0 f_0_5625 f_1_0 f_0_4375;
   mkAabb f_0_4375 f_0_0 f_0_5625 f_0_5625 f_1_0 f_1_0;
   mkAabb f_0_4375 f_0_0 f_0_0 f_0_5625 f_1_0 f_1_0;
   mkAabb f_0_5625 f_0_0 f_0_4375 f_1_0 f_1_0 f_0_5625;
   mkAabb f_0_0 f_0_0 f_0_4375 f_1_0 f_1_0 f_0_5625;
   mkAabb f_0_4375 f_0_0 f_0_0 f_0_5625 f_1_0 f_0_4375;
   mkAabb f_0_4375 f_0_0 f_0_0 f_0_5625 f_1_0 f_0_5625;
   mkAabb f_0_5625 f_0_0 f_0_4375 f_1_0 f_1_0 f_0_5625;
   mkAabb f_0_0 f_0_0 f_0_4375 f_1_0 f_1_0 f_0_5625;
   mkAabb f_0_4375 f_0_0 f_0_5625 f_0_5625 f_1_0 f_1_0;
   mkAabb f_0_4375 f_0_0 f_0_4375 f_0_5625 f_1_0 f_1_0;
   mkAabb f_0_5625 f_0_0 f_0_4375 f_1_0 f_1_0 f_0_5625;
   mkAabb f_0_0 f_0_0 f_0_4375 f_1_0 f_1_0 f_0_5625;
   mkAabb f_0_4375 f_0_0 f_0_4375 f_1_0 f_1_0 f_0_5625;
   mkAabb f_0_0 f_0_0 f_0_4375 f_0_5625 f_1_0 f_0_5625;
   mkAabb f_0_4375 f_0_0 f_0_0 f_0_5625 f_1_0 f_0_4375;
   mkAabb f_0_4375 f_0_0 f_0_5625 f_0_5625 f_1_0 f_1_0;
   mkAabb f_0_4375 f_0_0 f_0_0 f_0_5625 f_1_0 f_1_0;
   mkAabb f_0_0 f_0_0 f_0_4375 f_0_5625 f_1_0 f_0_5625;
   mkAabb f_0_4375 f_0_0 f_0_0 f_0_5625 f_1_0 f_0_4375;
   mkAabb f_0_4375 f_0_0 f_0_0 f_0_5625 f_1_0 f_0_5625;
   mkAabb f_0_0 f_0_0 f_0_4375 f_0_5625 f_1_0 f_0_5625].
Definition SHAPE_BOXES_14 : list Aabb :=
  [mkAabb f_0_4375 f_0_0 f_0_5625 f_0_5625 f_1_0 f_1_0;
   mkAabb f_0_4375 f_0_0 f_0_4375 f_0_5625 f_1_0 f_1_0;
   mkAabb f_0_0 f_0_0 f_0_4375 f_0_5625 f_1_0 f_0_5625;
   mkAabb f_0_4375 f_0_0 f_0_4375 f_0_5625 f_1_0 f_0_5625;
   mkAabb f_0_0 f_0_0 f_0_4375 f_1_0 f_1_0 f_0_5625;
   mkAabb f_0_4375 f_0_0 f_0_0 f_0_5625 f_1_0 f_0_4375;
   mkAabb f_0_4375 f_0_0 f_0_5625 f_0_5625 f_1_0 f_1_0;
   mkAabb f_0_4375 f_0_0 f_0_0 f_0_5625 f_1_0 f_1_0;
   mkAabb f_0_5625 f_0_0 f_0_4375 f_1_0 f_1_0 f_0_5625;
   mkAabb f_0_0 f_0_0 f_0_4375 f_1_0 f_1_0 f_0_5625;
   mkAabb f_0_4375 f_0_0 f_0_0 f_0_5625 f_1_0 f_0_4375;
   mkAabb f_0_4375 f_0_0 f_0_0 f_0_5625 f_1_0 f_0_5625;
   mkAabb f_0_5625 f_0_0 f_0_4375 f_1_0 f_1_0 f_0_5625;
   mkAabb f_0_0 f_0_0 f_0_4375 f_1_0 f_1_0 f_0_5625;
   mkAabb f_0_4375 f_0_0 f_0_5625 f_0_5625 f_1_0 f_1_0;
   mkAabb f_0_4375 f_0_0 f_0_4375 f_0_5625 f_1_0 f_1_0;
   mkAabb f_0_5625 f_0_0 f_0_4375 f_1_0 f_1_0 f_0_5625;
   mkAabb f_0_0 f_0_0 f_0_4375 f_1_0 f_1_0 f_0_5625;
   mkAabb f_0_4375 f_0_0 f_0_4375 f_1_0 f_1_0 f_0_5625;
   mkAabb f_0_0 f_0_0 f_0_4375 f_0_5625 f_1_0 f_0_5625;
   mkAabb f_0_4375 f_0_0 f_0_0 f_0_5625 f_1_0 f_0_4375;
   mkAabb f_0_4375 f_0_0 f_0_5625 f_0_5625 f_1_0 f_1_0;
   mkAabb f_0_4375 f_0_0 f_0_0 f_0_5625 f_1_0 f_1_0;
   mkAabb f_0_0 f_0_0 f_0_4375 f_0_5625 f_1_0 f_0_5625;
   mkAabb f_0_4375 f_0_0 f_0_0 f_0_5625 f_1_0 f_0_4375;
   mkAabb f_0_4375 f_0_0 f_0_0 f_0_5625 f_1_0 f_0_5625;
   mkAabb f_0_0 f_0_0 f_0_4375 f_0_5625 f_1_0 f_0_5625;
   mkAabb f_0_4375 f_0_0 f_0_5625 f_0_5625 f_1_0 f_1_0;
   mkAabb f_0_4375 f_0_0 f_0_4375 f_0_5625 f_1_0 f_1_0;
   mkAabb f_0_0 f_0_0 f_0_4375 f_0_5625 f_1_0 f_0_5625;
   mkAabb f_0_4375 f_0_0 f_0_4375 f_0_5625 f_1_0 f_0_5625;
   mkAabb f_0_0 f_0_0 f_0_4375 f_1_0 f_1_0 f_0_5625;
   mkAabb f_0_4375 f_0_0 f_0_0 f_0_5625 f_1_0 f_0_4375;
   mkAabb f_0_4375 f_0_0 f_0_5625 f_0_5625 f_1_0 f_1_0;
   mkAabb f_0_4375 f_0_0 f_0_0 f_0_5625 f_1_0 f_1_0;
   mkAabb f_0_5625 f_0_0 f_0_4375 f_1_0 f_1_0 f_0_5625;
   mkAabb f_0_0 f_0_0 f_0_4375 f_1_0 f_1_0 f_0_5625;
   mkAabb f_0_4375 f_0_0 f_0_0 f_0_5625 f_1_0 f_0_4375;
   mkAabb f_0_4375 f_0_0 f_0_0 f_0_5625 f_1_0 f_0_5625;
   mkAabb f_0_5625 f_0_0 f_0_4375 f_1_0 f_1_0 f_0_5625;
   mkAabb f_0_0 f_0_0 f_0_4375 f_1_0 f_1_0 f_0_5625;
   mkAabb f_0_4375 f_0_0 f_0_5625 f_0_5625 f_1_0 f_1_0;
   mkAabb f_0_4375 f_0_0 f_0_4375 f_0_5625 f_1_0 f_1_0;
   mkAabb f_0_5625 f_0_0 f_0_4375 f_1_0 f_1_0 f_0_5625;
   mkAabb f_0_0 f_0_0 f_0_4375 f_1_0 f_1_0 f_0_5625;
   mkAabb f_0_4375 f_0_0 f_0_4375 f_1_0 f_1_0 f_0_5625;
   mkAabb f_0_0 f_0_0 f_0_4375 f_0_5625 f_1_0 f_0_5625;
   mkAabb f_0_4375 f_0_0 f_0_0 f_0_5625 f_1_0 f_0_4375;
   mkAabb f_0_4375 f_0_0 f_0_5625 f_0_5625 f_1_0 f_1_0;
   mkAabb f_0_4375 f_0_0 f_0_0 f_0_5625 f_1_0 f_1_0;
   mkAabb f_0_0 f_0_0 f_0_4375 f_0_5625 f_1_0 f_0_5625;
   mkAabb f_0_4375 f_0_0 f_0_0 f_0_5625 f_1_0 f_0_4375;
   mkAabb f_0_4375 f_0_0 f_0_0 f_0_5625 f_1_0 f_0_5625;
   mkAabb f_0_0 f_0_0 f_0_4375 f_0_5625 f_1_0 f_0_5625;
   mkAabb f_0_4375 f_0_0 f_0_5625 f_0_5625 f_1_0 f_1_0;
   mkAabb f_0_4375 f_0_0 f_0_4375 f_0_5625 f_1_0 f_1_0;
   mkAabb f_0_0 f_0_0 f_0_4375 f_0_5625 f_1_0 f_0_5625;
   mkAabb f_0_4375 f_0_0 f_0_4375 f_0_5625 f_1_0 f_0_5625;
   mkAabb f_0_0 f_0_0 f_0_4375 f_1_0 f_1_0 f_0_5625;
   mkAabb f_0_4375 f_0_0 f_0_0 f_0_5625 f_1_0 f_0_4375;
   mkAabb f_0_4375 f_0_0 f_0_5625 f_0_5625 f_1_0 f_1_0;
   mkAabb f_0_4375 f_0_0 f_0_0 f_0_5625 f_1_0 f_1_0;
   mkAabb f_0_5625 f_0_0 f_0_4375 f_1_0 f_1_0 f_0_5625;
   mkAabb f_0_0 f_0_0 f_0_4375 f_1_0 f_1_0 f_0_5625;
   mkAabb f_0_4375 f_0_0 f_0_0 f_0_5625 f_1_0 f_0_4375;
   mkAabb f_0_4375 f_0_0 f_0_0 f_0_5625 f_1_0 f_0_5625;
   mkAabb f_0_5625 f_0_0 f_0_4375 f_1_0 f_1_0 f_0_5625;
   mkAabb f_0_0 f_0_0 f_0_4375 f_1_0 f_1_0 f_0_5625;
   mkAabb f_0_4375 f_0_0 f_0_5625 f_0_5625 f_1_0 f_1_0;
   mkAabb f_0_4375 f_0_0 f_0_4375 f_0_5625 f_1_0 f_1_0;
   mkAabb f_0_5625 f_0_0 f_0_4375 f_1_0 f_1_0 f_0_5625;
   mkAabb f_0_0 f_0_0 f_0_4375 f_1_0 f_1_0 f_0_5625;
   mkAabb f_0_4375 f_0_0 f_0_4375 f_1_0 f_1_0 f_0_5625;
   mkAabb f_0_0 f_0_0 f_0_4375 f_0_5625 f_1_0 f_0_5625;
   mkAabb f_0_4375 f_0_0 f_0_0 f_0_5625 f_1_0 f_0_4375;
   mkAabb f_0_4375 f_0_0 f_0_5625 f_0_5625 f_1_0 f_1_0;
   mkAabb f_0_4375 f_0_0 f_0_0 f_0_5625 f_1_0 f_1_0;
   mkAabb f_0_0 f_0_0 f_0_4375 f_0_5625 f_1_0 f_0_5625;
   mkAabb f_0_4375 f_0_0 f_0_0 f_0_5625 f_1_0 f_0_4375;
   mkAabb f_0_4375 f_0_0 f_0_0 f_0_5625 f_1_0 f_0_5625;
   mkAabb f_0_0 f_0_0 f_0_4375 f_0_5625 f_1_0 f_0_5625;
   mkAabb f_0_4375 f_0_0 f_0_5625 f_0_5625 f_1_0 f_1_0;
   mkAabb f_0_4375 f_0_0 f_0_4375 f_0_5625 f_1_0 f_1_0;
   mkAabb f_0_0 f_0_0 f_0_4375 f_0_5625 f_1_0 f_0_5625;
   mkAabb f_0_4375 f_0_0 f_0_4375 f_0_5625 f_1_0 f_0_5625;
   mkAabb f_0_0 f_0_0 f_0_4375 f_1_0 f_1_0 f_0_5625;
   mkAabb f_0_4375 f_0_0 f_0_0 f_0_5625 f_1_0 f_0_4375;
   mkAabb f_0_4375 f_0_0 f_0_5625 f_0_5625 f_1_0 f_1_0;
   mkAabb f_0_4375 f_0_0 f_0_0 f_0_5625 f_1_0 f_1_0;
   mkAabb f_0_5625 f_0_0 f_0_4375 f_1_0 f_1_0 f_0_5625;
   mkAabb f_0_0 f_0_0 f_0_4375 f_1_0 f_1_0 f_0_5625;
   mkAabb f_0_4375 f_0_0 f_0_0 f_0_5625 f_1_0 f_0_4375;
   mkAabb f_0_4375 f_0_0 f_0_0 f_0_5625 f_1_0 f_0_5625;
   mkAabb f_0_5625 f_0_0 f_0_4375 f_1_0 f_1_0 f_0_5625;
   mkAabb f_0_0 f_0_0 f_0_4375 f_1_0 f_1_0 f_0_5625;
   mkAabb f_0_4375 f_0_0 f_0_5625 f_0_5625 f_1_0 f_1_0;
   mkAabb f_0_4375 f_0_0 f_0_4375 f_0_5625 f_1_0 f_1_0;
   mkAabb f_0_5625 f_0_0 f_0_4375 f_1_0 f_1_0 f_0_5625;
   mkAabb f_0_0 f_0_0 f_0_4375 f_1_0 f_1_0 f_0_5625;
   mkAabb f_0_4375 f_0_0 f_0_4375 f_1_0 f_1_0 f_0_5625;
   mkAabb f_0_0 f_0_0 f_0_4375 f_0_5625 f_1_0 f_0_5625;
   mkAabb f_0_4375 f_0_0 f_0_0 f_0_5625 f_1_0 f_0_4375;
   mkAabb f_0_4375 f_0_0 f_0_5625 f_0_5625 f_1_0 f_1_0;
   mkAabb f_0_4375 f_0_0 f_0_0 f_0_5625 f_1_0 f_1_0;
   mkAabb f_0_0 f_0_0 f_0_4375 f_0_5625 f_1_0 f_0_5625;
   mkAabb f_0_4375 f_0_0 f_0_0 f_0_5625 f_1_0 f_0_4375;
   mkAabb f_0_4375 f_0_0 f_0_0 f_0_5625 f_1_0 f_0_5625;
   mkAabb f_0_0 f_0_0 f_0_4375 f_0_5625 f_1_0 f_0_5625;
   mkAabb f_0_4375 f_0_0 f_0_5625 f_0_5625 f_1_0 f_1_0;
   mkAabb f_0_4375 f_0_0 f_0_4375 f_0_5625 f_1_0 f_1_0;
   mkAabb f_0_0 f_0_0 f_0_4375 f_0_5625 f_1_0 f_0_5625;
   mkAabb f_0_4375 f_0_0 f_0_4375 f_0_5625 f_1_0 f_0_5625;
   mkAabb f_0_0 f_0_0 f_0_4375 f_1_0 f_1_0 f_0_5625;
   mkAabb f_0_4375 f_0_0 f_0_0 f_0_5625 f_1_0 f_0_4375;
   mkAabb f_0_4375 f_0_0 f_0_5625 f_0_5625 f_1_0 f_1_0;
   mkAabb f_0_4375 f_0_0 f_0_0 f_0_5625 f_1_0 f_1_0;
   mkAabb f_0_5625 f_0_0 f_0_4375 f_1_0 f_1_0 f_0_5625;
   mkAabb f_0_0 f_0_0 f_0_4375 f_1_0 f_1_0 f_0_5625;
   mkAabb f_0_4375 f_0_0 f_0_0 f_0_5625 f_1_0 f_0_4375;
   mkAabb f_0_4375 f_0_0 f_0_0 f_0_5625 f_1_0 f_0_5625;
   mkAabb f_0_5625 f_0_0 f_0_4375 f_1_0 f_1_0 f_0_5625;
   mkAabb f_0_0 f_0_0 f_0_4375 f_1_0 f_1_0 f_0_5625;
   mkAabb f_0_4375 f_0_0 f_0_5625 f_0_5625 f_1_0 f_1_0;
   mkAabb f_0_4375 f_0_0 f_0_4375 f_0_5625 f_1_0 f_1_0;
   mkAabb f_0_5625 f_0_0 f_0_4375 f_1_0 f_1_0 f_0_5625;
   mkAabb f_0_0 f_0_0 f_0_4375 f_1_0 f_1_0 f_0_5625;
   mkAabb f_0_4375 f_0_0 f_0_4375 f_1_0 f_1_0 f_0_5625;
   mkAabb f_0_0 f_0_0 f_0_4375 f_0_5625 f_1_0 f_0_5625;
   mkAabb f_0_4375 f_0_0 f_0_0 f_0_5625 f_1_0 f_0_4375;
   mkAabb f_0_4375 f_0_0 f_0_5625 f_0_5625 f_1_0 f_1_0;
   mkAabb f_0_4375 f_0_0 f_0_0 f_0_5625 f_1_0 f_1_0;
   mkAabb f_0_0 f_0_0 f_0_4375 f_0_5625 f_1_0 f_0_5625;
   mkAabb f_0_4375 f_0_0 f_0_0 f_0_5625 f_1_0 f_0_4375;
   mkAabb f_0_4375 f_0_0 f_0_0 f_0_5625 f_1_0 f_0_5625;
   mkAabb f_0_0 f_0_0 f_0_4375 f_0_5625 f_1_0 f_0_5625;
   mkAabb f_0_4375 f_0_0 f_0_5625 f_0_5625 f_1_0 f_1_0;
   mkAabb f_0_4375 f_0_0 f_0_4375 f_0_5625 f_1_0 f_1_0;
   mkAabb f_0_0 f_0_0 f_0_4375 f_0_5625 f_1_0 f_0_5625;
   mkAabb f_0_4375 f_0_0 f_0_4375 f_0_5625 f_1_0 f_0_5625;
   mkAabb f_0_0 f_0_0 f_0_4375 f_1_0 f_1_0 f_0_5625;
   mkAabb f_0_4375 f_0_0 f_0_0 f_0_5625 f_1_0 f_0_4375;
   mkAabb f_0_4375 f_0_0 f_0_5625 f_0_5625 f_1_0 f_1_0;
   mkAabb f_0_4375 f_0_0 f_0_0 f_0_5625 f_1_0 f_1_0;
   mkAabb f_0_5625 f_0_0 f_0_4375 f_1_0 f_1_0 f_0_5625;
   mkAabb f_0_0 f_0_0 f_0_4375 f_1_0 f_1_0 f_0_5625;
   mkAabb f_0_4375 f_0_0 f_0_0 f_0_5625 f_1_0 f_0_4375;
   mkAabb f_0_4375 f_0_0 f_0_0 f_0_5625 f_1_0 f_0_5625;
   mkAabb f_0_5625 f_0_0 f_0_4375 f_1_0 f_1_0 f_0_5625;
   mkAabb f_0_0 f_0_0 f_0_4375 f_1_0 f_1_0 f_0_5625;
   mkAabb f_0_4375 f_0_0 f_0_5625 f_0_5625 f_1_0 f_1_0].
Definition SHAPE_BOXES_15 : list Aabb :=
  [mkAabb f_0_4375 f_0_0 f_0_4375 f_0_5625 f_1_0 f_1_0;
   mkAabb f_0_5625 f_0_0 f_0_4375 f_1_0 f_1_0 f_0_5625;
   mkAabb f_0_0 f_0_0 f_0_4375 f_1_0 f_1_0 f_0_5625;
   mkAabb f_0_4375 f_0_0 f_0_4375 f_1_0 f_1_0 f_0_5625;
   mkAabb f_0_0 f_0_0 f_0_4375 f_0_5625 f_1_0 f_0_5625;
   mkAabb f_0_4375 f_0_0 f_0_0 f_0_5625 f_1_0 f_0_4375;
   mkAabb f_0_4375 f_0_0 f_0_5625 f_0_5625 f_1_0 f_1_0;
   mkAabb f_0_4375 f_0_0 f_0_0 f_0_5625 f_1_0 f_1_0;
   mkAabb f_0_0 f_0_0 f_0_4375 f_0_5625 f_1_0 f_0_5625;
   mkAabb f_0_4375 f_0_0 f_0_0 f_0_5625 f_1_0 f_0_4375;
   mkAabb f_0_4375 f_0_0 f_0_0 f_0_5625 f_1_0 f_0_5625;
   mkAabb f_0_0 f_0_0 f_0_4375 f_0_5625 f_1_0 f_0_5625;
   mkAabb f_0_4375 f_0_0 f_0_5625 f_0_5625 f_1_0 f_1_0;
   mkAabb f_0_4375 f_0_0 f_0_4375 f_0_5625 f_1_0 f_1_0;
   mkAabb f_0_0 f_0_0 f_0_4375 f_0_5625 f_1_0 f_0_5625;
   mkAabb f_0_4375 f_0_0 f_0_4375 f_0_5625 f_1_0 f_0_5625;
   mkAabb f_0_0 f_0_0 f_0_0 f_1_0 f_0_0625 f_1_0;
   mkAabb f_0_0 f_0_0 f_0_375 f_1_0 f_1_5 f_0_625;
   mkAabb f_0_375 f_0_0 f_0_0 f_0_625 f_1_5 f_0_375;
   mkAabb f_0_375 f_0_0 f_0_625 f_0_625 f_1_5 f_1_0;
   mkAabb f_0_375 f_0_0 f_0_0 f_0_625 f_1_5 f_1_0;
   mkAabb f_0_625 f_0_0 f_0_375 f_1_0 f_1_5 f_0_625;
   mkAabb f_0_0 f_0_0 f_0_375 f_1_0 f_1_5 f_0_625;
   mkAabb f_0_375 f_0_0 f_0_0 f_0_625 f_1_5 f_0_375;
   mkAabb f_0_375 f_0_0 f_0_0 f_0_625 f_1_5 f_0_625;
   mkAabb f_0_625 f_0_0 f_0_375 f_1_0 f_1_5 f_0_625;
   mkAabb f_0_0 f_0_0 f_0_375 f_1_0 f_1_5 f_0_625;
   mkAabb f_0_375 f_0_0 f_0_625 f_0_625 f_1_5 f_1_0;
   mkAabb f_0_375 f_0_0 f_0_375 f_0_625 f_1_5 f_1_0;
   mkAabb f_0_625 f_0_0 f_0_375 f_1_0 f_1_5 f_0_625;
   mkAabb f_0_0 f_0_0 f_0_375 f_1_0 f_1_5 f_0_625;
   mkAabb f_0_375 f_0_0 f_0_375 f_1_0 f_1_5 f_0_625;
   mkAabb f_0_0 f_0_0 f_0_375 f_0_625 f_1_5 f_0_625;
   mkAabb f_0_375 f_0_0 f_0_0 f_0_625 f_1_5 f_0_375;
   mkAabb f_0_375 f_0_0 f_0_625 f_0_625 f_1_5 f_1_0;
   mkAabb f_0_375 f_0_0 f_0_0 f_0_625 f_1_5 f_1_0;
   mkAabb f_0_0 f_0_0 f_0_375 f_0_625 f_1_5 f_0_625;
   mkAabb f_0_375 f_0_0 f_0_0 f_0_625 f_1_5 f_0_375;
   mkAabb f_0_375 f_0_0 f_0_0 f_0_625 f_1_5 f_0_625;
   mkAabb f_0_0 f_0_0 f_0_375 f_0_625 f_1_5 f_0_625;
   mkAabb f_0_375 f_0_0 f_0_625 f_0_625 f_1_5 f_1_0;
   mkAabb f_0_375 f_0_0 f_0_375 f_0_625 f_1_5 f_1_0;
   mkAabb f_0_0 f_0_0 f_0_375 f_0_625 f_1_5 f_0_625;
   mkAabb f_0_375 f_0_0 f_0_375 f_0_625 f_1_5 f_0_625;
   mkAabb f_0_0 f_0_0 f_0_375 f_1_0 f_1_5 f_0_625;
   mkAabb f_0_375 f_0_0 f_0_0 f_0_625 f_1_5 f_0_375;
   mkAabb f_0_375 f_0_0 f_0_625 f_0_625 f_1_5 f_1_0;
   mkAabb f_0_375 f_0_0 f_0_0 f_0_625 f_1_5 f_1_0;
   mkAabb f_0_625 f_0_0 f_0_375 f_1_0 f_1_5 f_0_625;
   mkAabb f_0_0 f_0_0 f_0_375 f_1_0 f_1_5 f_0_625;
   mkAabb f_0_375 f_0_0 f_0_0 f_0_625 f_1_5 f_0_375;
   mkAabb f_0_375 f_0_0 f_0_0 f_0_625 f_1_5 f_0_625;
   mkAabb f_0_625 f_0_0 f_0_375 f_1_0 f_1_5 f_0_625;
   mkAabb f_0_0 f_0_0 f_0_375 f_1_0 f_1_5 f_0_625;
   mkAabb f_0_375 f_0_0 f_0_625 f_0_625 f_1_5 f_1_0;
   mkAabb f_0_375 f_0_0 f_0_375 f_0_625 f_1_5 f_1_0;
   mkAabb f_0_625 f_0_0 f_0_375 f_1_0 f_1_5 f_0_625;
   mkAabb f_0_0 f_0_0 f_0_375 f_1_0 f_1_5 f_0_625;
   mkAabb f_0_375 f_0_0 f_0_375 f_1_0 f_1_5 f_0_625;
   mkAabb f_0_0 f_0_0 f_0_375 f_0_625 f_1_5 f_0_625;
   mkAabb f_0_375 f_0_0 f_0_0 f_0_625 f_1_5 f_0_375;
   mkAabb f_0_375 f_0_0 f_0_625 f_0_625 f_1_5 f_1_0;
   mkAabb f_0_375 f_0_0 f_0_0 f_0_625 f_1_5 f_1_0;
   mkAabb f_0_0 f_0_0 f_0_375 f_0_625 f_1_5 f_0_625;
   mkAabb f_0_375 f_0_0 f_0_0 f_0_625 f_1_5 f_0_375;
   mkAabb f_0_375 f_0_0 f_0_0 f_0_625 f_1_5 f_0_625;
   mkAabb f_0_0 f_0_0 f_0_375 f_0_625 f_1_5 f_0_625;
   mkAabb f_0_375 f_0_0 f_0_625 f_0_625 f_1_5 f_1_0;
   mkAabb f_0_375 f_0_0 f_0_375 f_0_625 f_1_5 f_1_0;
   mkAabb f_0_0 f_0_0 f_0_375 f_0_625 f_1_5 f_0_625;
   mkAabb f_0_375 f_0_0 f_0_375 f_0_625 f_1_5 f_0_625;
   mkAabb f_0_0 f_0_0 f_0_375 f_1_0 f_1_5 f_0_625;
   mkAabb f_0_375 f_0_0 f_0_0 f_0_625 f_1_5 f_0_375;
   mkAabb f_0_375 f_0_0 f_0_625 f_0_625 f_1_5 f_1_0;
   mkAabb f_0_375 f_0_0 f_0_0 f_0_625 f_1_5 f_1_0;
   mkAabb f_0_625 f_0_0 f_0_375 f_1_0 f_1_5 f_0_625;
   mkAabb f_0_0 f_0_0 f_0_375 f_1_0 f_1_5 f_0_625;
   mkAabb f_0_375 f_0_0 f_0_0 f_0_625 f_1_5 f_0_375;
   mkAabb f_0_375 f_0_0 f_0_0 f_0_625 f_1_5 f_0_625;
   mkAabb f_0_625 f_0_0 f_0_375 f_1_0 f_1_5 f_0_625;
   mkAabb f_0_0 f_0_0 f_0_375 f_1_0 f_1_5 f_0_625;
   mkAabb f_0_375 f_0_0 f_0_625 f_0_625 f_1_5 f_1_0;
   mkAabb f_0_375 f_0_0 f_0_375 f_0_625 f_1_5 f_1_0;
   mkAabb f_0_625 f_0_0 f_0_375 f_1_0 f_1_5 f_0_625;
   mkAabb f_0_0 f_0_0 f_0_375 f_1_0 f_1_5 f_0_625;
   mkAabb f_0_375 f_0_0 f_0_375 f_1_0 f_1_5 f_0_625;
   mkAabb f_0_0 f_0_0 f_0_375 f_0_625 f_1_5 f_0_625;
   mkAabb f_0_375 f_0_0 f_0_0 f_0_625 f_1_5 f_0_375;
   mkAabb f_0_375 f_0_0 f_0_625 f_0_625 f_1_5 f_1_0;
   mkAabb f_0_375 f_0_0 f_0_0 f_0_625 f_1_5 f_1_0;
   mkAabb f_0_0 f_0_0 f_0_375 f_0_625 f_1_5 f_0_625;
   mkAabb f_0_375 f_0_0 f_0_0 f_0_625 f_1_5 f_0_375;
   mkAabb f_0_375 f_0_0 f_0_0 f_0_625 f_1_5 f_0_625;
   mkAabb f_0_0 f_0_0 f_0_375 f_0_625 f_1_5 f_0_625;
   mkAabb f_0_375 f_0_0 f_0_625 f_0_625 f_1_5 f_1_0;
   mkAabb f_0_375 f_0_0 f_0_375 f_0_625 f_1_5 f_1_0;
   mkAabb f_0_0 f_0_0 f_0_375 f_0_625 f_1_5 f_0_625;
   mkAabb f_0_375 f_0_0 f_0_375 f_0_625 f_1_5 f_0_625;
   mkAabb f_0_0 f_0_0 f_0_375 f_1_0 f_1_5 f_0_625;
   mkAabb f_0_375 f_0_0 f_0_0 f_0_625 f_1_5 f_0_375;
   mkAabb f_0_375 f_0_0 f_0_625 f_0_625 f_1_5 f_1_0;
   mkAabb f_0_375 f_0_0 f_0_0 f_0_625 f_1_5 f_1_0;
   mkAabb f_0_625 f_0_0 f_0_375 f_1_0 f_1_5 f_0_625;
   mkAabb f_0_0 f_0_0 f_0_375 f_1_0 f_1_5 f_0_625;
   mkAabb f_0_375 f_0_0 f_0_0 f_0_625 f_1_5 f_0_375;
   mkAabb f_0_375 f_0_0 f_0_0 f_0_625 f_1_5 f_0_625;
   mkAabb f_0_625 f_0_0 f_0_375 f_1_0 f_1_5 f_0_625;
   mkAabb f_0_0 f_0_0 f_0_375 f_1_0 f_1_5 f_0_625;
   mkAabb f_0_375 f_0_0 f_0_625 f_0_625 f_1_5 f_1_0;
   mkAabb f_0_375 f_0_0 f_0_375 f_0_625 f_1_5 f_1_0;
   mkAabb f_0_625 f_0_0 f_0_375 f_1_0 f_1_5 f_0_625;
   mkAabb f_0_0 f_0_0 f_0_375 f_1_0 f_1_5 f_0_625;
   mkAabb f_0_375 f_0_0 f_0_375 f_1_0 f_1_5 f_0_625;
   mkAabb f_0_0 f_0_0 f_0_375 f_0_625 f_1_5 f_0_625;
   mkAabb f_0_375 f_0_0 f_0_0 f_0_625 f_1_5 f_0_375;
   mkAabb f_0_375 f_0_0 f_0_625 f_0_625 f_1_5 f_1_0;
   mkAabb f_0_375 f_0_0 f_0_0 f_0_625 f_1_5 f_1_0;
   mkAabb f_0_0 f_0_0 f_0_375 f_0_625 f_1_5 f_0_625;
   mkAabb f_0_375 f_0_0 f_0_0 f_0_625 f_1_5 f_0_375;
   mkAabb f_0_375 f_0_0 f_0_0 f_0_625 f_1_5 f_0_625;
   mkAabb f_0_0 f_0_0 f_0_375 f_0_625 f_1_5 f_0_625;
   mkAabb f_0_375 f_0_0 f_0_625 f_0_625 f_1_5 f_1_0;
   mkAabb f_0_375 f_0_0 f_0_375 f_0_625 f_1_5 f_1_0;
   mkAabb f_0_0 f_0_0 f_0_375 f_0_625 f_1_5 f_0_625;
   mkAabb f_0_375 f_0_0 f_0_375 f_0_625 f_1_5 f_0_625;
   mkAabb f_0_0 f_0_0 f_0_375 f_1_0 f_1_5 f_0_625;
   mkAabb f_0_375 f_0_0 f_0_0 f_0_625 f_1_5 f_0_375;
   mkAabb f_0_375 f_0_0 f_0_625 f_0_625 f_1_5 f_1_0;
   mkAabb f_0_375 f_0_0 f_0_0 f_0_625 f_1_5 f_1_0;
   mkAabb f_0_625 f_0_0 f_0_375 f_1_0 f_1_5 f_0_625;
   mkAabb f_0_0 f_0_0 f_0_375 f_1_0 f_1_5 f_0_625;
   mkAabb f_0_375 f_0_0 f_0_0 f_0_625 f_1_5 f_0_375;
   mkAabb f_0_375 f_0_0 f_0_0 f_0_625 f_1_5 f_0_625;
   mkAabb f_0_625 f_0_0 f_0_375 f_1_0 f_1_5 f_0_625;
   mkAabb f_0_0 f_0_0 f_0_375 f_1_0 f_1_5 f_0_625;
   mkAabb f_0_375 f_0_0 f_0_625 f_0_625 f_1_5 f_1_0;
   mkAabb f_0_375 f_0_0 f_0_375 f_0_625 f_1_5 f_1_0;
   mkAabb f_0_625 f_0_0 f_0_375 f_1_0 f_1_5 f_0_625;
   mkAabb f_0_0 f_0_0 f_0_375 f_1_0 f_1_5 f_0_625;
   mkAabb f_0_375 f_0_0 f_0_375 f_1_0 f_1_5 f_0_625;
   mkAabb f_0_0 f_0_0 f_0_375 f_0_625 f_1_5 f_0_625;
   mkAabb f_0_375 f_0_0 f_0_0 f_0_625 f_1_5 f_0_375;
   mkAabb f_0_375 f_0_0 f_0_625 f_0_625 f_1_5 f_1_0;
   mkAabb f_0_375 f_0_0 f_0_0 f_0_625 f_1_5 f_1_0;
   mkAabb f_0_0 f_0_0 f_0_375 f_0_625 f_1_5 f_0_625;
   mkAabb f_0_375 f_0_0 f_0_0 f_0_625 f_1_5 f_0_375;
   mkAabb f_0_375 f_0_0 f_0_0 f_0_625 f_1_5 f_0_625;
   mkAabb f_0_0 f_0_0 f_0_375 f_0_625 f_1_5 f_0_625;
   mkAabb f_0_375 f_0_0 f_0_625 f_0_625 f_1_5 f_1_0;
   mkAabb f_0_375 f_0_0 f_0_375 f_0_625 f_1_5 f_1_0].
Definition SHAPE_BOXES_16 : list Aabb :=
  [mkAabb f_0_0 f_0_0 f_0_375 f_0_625 f_1_5 f_0_625;
   mkAabb f_0_375 f_0_0 f_0_375 f_0_625 f_1_5 f_0_625;
   mkAabb f_0_0 f_0_0 f_0_375 f_1_0 f_1_5 f_0_625;
   mkAabb f_0_375 f_0_0 f_0_0 f_0_625 f_1_5 f_0_375;
   mkAabb f_0_375 f_0_0 f_0_625 f_0_625 f_1_5 f_1_0;
   mkAabb f_0_375 f_0_0 f_0_0 f_0_625 f_1_5 f_1_0;
   mkAabb f_0_625 f_0_0 f_0_375 f_1_0 f_1_5 f_0_625;
   mkAabb f_0_0 f_0_0 f_0_375 f_1_0 f_1_5 f_0_625;
   mkAabb f_0_375 f_0_0 f_0_0 f_0_625 f_1_5 f_0_375;
   mkAabb f_0_375 f_0_0 f_0_0 f_0_625 f_1_5 f_0_625;
   mkAabb f_0_625 f_0_0 f_0_375 f_1_0 f_1_5 f_0_625;
   mkAabb f_0_0 f_0_0 f_0_375 f_1_0 f_1_5 f_0_625;
   mkAabb f_0_375 f_0_0 f_0_625 f_0_625 f_1_5 f_1_0;
   mkAabb f_0_375 f_0_0 f_0_375 f_0_625 f_1_5 f_1_0;
   mkAabb f_0_625 f_0_0 f_0_375 f_1_0 f_1_5 f_0_625;
   mkAabb f_0_0 f_0_0 f_0_375 f_1_0 f_1_5 f_0_625;
   mkAabb f_0_375 f_0_0 f_0_375 f_1_0 f_1_5 f_0_625;
   mkAabb f_0_0 f_0_0 f_0_375 f_0_625 f_1_5 f_0_625;
   mkAabb f_0_375 f_0_0 f_0_0 f_0_625 f_1_5 f_0_375;
   mkAabb f_0_375 f_0_0 f_0_625 f_0_625 f_1_5 f_1_0;
   mkAabb f_0_375 f_0_0 f_0_0 f_0_625 f_1_5 f_1_0;
   mkAabb f_0_0 f_0_0 f_0_375 f_0_625 f_1_5 f_0_625;
   mkAabb f_0_375 f_0_0 f_0_0 f_0_625 f_1_5 f_0_375;
   mkAabb f_0_375 f_0_0 f_0_0 f_0_625 f_1_5 f_0_625;
   mkAabb f_0_0 f_0_0 f_0_375 f_0_625 f_1_5 f_0_625;
   mkAabb f_0_375 f_0_0 f_0_625 f_0_625 f_1_5 f_1_0;
   mkAabb f_0_375 f_0_0 f_0_375 f_0_625 f_1_5 f_1_0;
   mkAabb f_0_0 f_0_0 f_0_375 f_0_625 f_1_5 f_0_625;
   mkAabb f_0_375 f_0_0 f_0_375 f_0_625 f_1_5 f_0_625;
   mkAabb f_0_0 f_0_0 f_0_375 f_1_0 f_1_5 f_0_625;
   mkAabb f_0_375 f_0_0 f_0_0 f_0_625 f_1_5 f_0_375;
   mkAabb f_0_375 f_0_0 f_0_625 f_0_625 f_1_5 f_1_0;
   mkAabb f_0_375 f_0_0 f_0_0 f_0_625 f_1_5 f_1_0;
   mkAabb f_0_625 f_0_0 f_0_375 f_1_0 f_1_5 f_0_625;
   mkAabb f_0_0 f_0_0 f_0_375 f_1_0 f_1_5 f_0_625;
   mkAabb f_0_375 f_0_0 f_0_0 f_0_625 f_1_5 f_0_375;
   mkAabb f_0_375 f_0_0 f_0_0 f_0_625 f_1_5 f_0_625;
   mkAabb f_0_625 f_0_0 f_0_375 f_1_0 f_1_5 f_0_625;
   mkAabb f_0_0 f_0_0 f_0_375 f_1_0 f_1_5 f_0_625;
   mkAabb f_0_375 f_0_0 f_0_625 f_0_625 f_1_5 f_1_0;
   mkAabb f_0_375 f_0_0 f_0_375 f_0_625 f_1_5 f_1_0;
   mkAabb f_0_625 f_0_0 f_0_375 f_1_0 f_1_5 f_0_625;
   mkAabb f_0_0 f_0_0 f_0_375 f_1_0 f_1_5 f_0_625;
   mkAabb f_0_375 f_0_0 f_0_375 f_1_0 f_1_5 f_0_625;
   mkAabb f_0_0 f_0_0 f_0_375 f_0_625 f_1_5 f_0_625;
   mkAabb f_0_375 f_0_0 f_0_0 f_0_625 f_1_5 f_0_375;
   mkAabb f_0_375 f_0_0 f_0_625 f_0_625 f_1_5 f_1_0;
   mkAabb f_0_375 f_0_0 f_0_0 f_0_625 f_1_5 f_1_0;
   mkAabb f_0_0 f_0_0 f_0_375 f_0_625 f_1_5 f_0_625;
   mkAabb f_0_375 f_0_0 f_0_0 f_0_625 f_1_5 f_0_375;
   mkAabb f_0_375 f_0_0 f_0_0 f_0_625 f_1_5 f_0_625;
   mkAabb f_0_0 f_0_0 f_0_375 f_0_625 f_1_5 f_0_625;
   mkAabb f_0_375 f_0_0 f_0_625 f_0_625 f_1_5 f_1_0;
   mkAabb f_0_375 f_0_0 f_0_375 f_0_625 f_1_5 f_1_0;
   mkAabb f_0_0 f_0_0 f_0_375 f_0_625 f_1_5 f_0_625;
   mkAabb f_0_375 f_0_0 f_0_375 f_0_625 f_1_5 f_0_625;
   mkAabb f_0_0 f_0_0 f_0_375 f_1_0 f_1_5 f_0_625;
   mkAabb f_0_375 f_0_0 f_0_0 f_0_625 f_1_5 f_0_375;
   mkAabb f_0_375 f_0_0 f_0_625 f_0_625 f_1_5 f_1_0;
   mkAabb f_0_375 f_0_0 f_0_0 f_0_625 f_1_5 f_1_0;
   mkAabb f_0_625 f_0_0 f_0_375 f_1_0 f_1_5 f_0_625;
   mkAabb f_0_0 f_0_0 f_0_375 f_1_0 f_1_5 f_0_625;
   mkAabb f_0_375 f_0_0 f_0_0 f_0_625 f_1_5 f_0_375;
   mkAabb f_0_375 f_0_0 f_0_0 f_0_625 f_1_5 f_0_625;
   mkAabb f_0_625 f_0_0 f_0_375 f_1_0 f_1_5 f_0_625;
   mkAabb f_0_0 f_0_0 f_0_375 f_1_0 f_1_5 f_0_625;
   mkAabb f_0_375 f_0_0 f_0_625 f_0_625 f_1_5 f_1_0;
   mkAabb f_0_375 f_0_0 f_0_375 f_0_625 f_1_5 f_1_0;
   mkAabb f_0_625 f_0_0 f_0_375 f_1_0 f_1_5 f_0_625;
   mkAabb f_0_0 f_0_0 f_0_375 f_1_0 f_1_5 f_0_625;
   mkAabb f_0_375 f_0_0 f_0_375 f_1_0 f_1_5 f_0_625;
   mkAabb f_0_0 f_0_0 f_0_375 f_0_625 f_1_5 f_0_625;
   mkAabb f_0_375 f_0_0 f_0_0 f_0_625 f_1_5 f_0_375;
   mkAabb f_0_375 f_0_0 f_0_625 f_0_625 f_1_5 f_1_0;
   mkAabb f_0_375 f_0_0 f_0_0 f_0_625 f_1_5 f_1_0;
   mkAabb f_0_0 f_0_0 f_0_375 f_0_625 f_1_5 f_0_625;
   mkAabb f_0_375 f_0_0 f_0_0 f_0_625 f_1_5 f_0_375;
   mkAabb f_0_375 f_0_0 f_0_0 f_0_625 f_1_5 f_0_625;
   mkAabb f_0_0 f_0_0 f_0_375 f_0_625 f_1_5 f_0_625;
   mkAabb f_0_375 f_0_0 f_0_625 f_0_625 f_1_5 f_1_0;
   mkAabb f_0_375 f_0_0 f_0_375 f_0_625 f_1_5 f_1_0;
   mkAabb f_0_0 f_0_0 f_0_375 f_0_625 f_1_5 f_0_625;
   mkAabb f_0_375 f_0_0 f_0_375 f_0_625 f_1_5 f_0_625;
   mkAabb f_0_0 f_0_0 f_0_375 f_1_0 f_1_5 f_0_625;
   mkAabb f_0_375 f_0_0 f_0_0 f_0_625 f_1_5 f_0_375;
   mkAabb f_0_375 f_0_0 f_0_625 f_0_625 f_1_5 f_1_0;
   mkAabb f_0_375 f_0_0 f_0_0 f_0_625 f_1_5 f_1_0;
   mkAabb f_0_625 f_0_0 f_0_375 f_1_0 f_1_5 f_0_625;
   mkAabb f_0_0 f_0_0 f_0_375 f_1_0 f_1_5 f_0_625;
   mkAabb f_0_375 f_0_0 f_0_0 f_0_625 f_1_5 f_0_375;
   mkAabb f_0_375 f_0_0 f_0_0 f_0_625 f_1_5 f_0_625;
   mkAabb f_0_625 f_0_0 f_0_375 f_1_0 f_1_5 f_0_625;
   mkAabb f_0_0 f_0_0 f_0_375 f_1_0 f_1_5 f_0_625;
   mkAabb f_0_375 f_0_0 f_0_625 f_0_625 f_1_5 f_1_0;
   mkAabb f_0_375 f_0_0 f_0_375 f_0_625 f_1_5 f_1_0;
   mkAabb f_0_625 f_0_0 f_0_375 f_1_0 f_1_5 f_0_625;
   mkAabb f_0_0 f_0_0 f_0_375 f_1_0 f_1_5 f_0_625;
   mkAabb f_0_375 f_0_0 f_0_375 f_1_0 f_1_5 f_0_625;
   mkAabb f_0_0 f_0_0 f_0_375 f_0_625 f_1_5 f_0_625;
   mkAabb f_0_375 f_0_0 f_0_0 f_0_625 f_1_5 f_0_375;
   mkAabb f_0_375 f_0_0 f_0_625 f_0_625 f_1_5 f_1_0;
   mkAabb f_0_375 f_0_0 f_0_0 f_0_625 f_1_5 f_1_0;
   mkAabb f_0_0 f_0_0 f_0_375 f_0_625 f_1_5 f_0_625;
   mkAabb f_0_375 f_0_0 f_0_0 f_0_625 f_1_5 f_0_375;
   mkAabb f_0_375 f_0_0 f_0_0 f_0_625 f_1_5 f_0_625;
   mkAabb f_0_0 f_0_0 f_0_375 f_0_625 f_1_5 f_0_625;
   mkAabb f_0_375 f_0_0 f_0_625 f_0_625 f_1_5 f_1_0;
   mkAabb f_0_375 f_0_0 f_0_375 f_0_625 f_1_5 f_1_0;
   mkAabb f_0_0 f_0_0 f_0_375 f_0_625 f_1_5 f_0_625;
   mkAabb f_0_375 f_0_0 f_0_375 f_0_625 f_1_5 f_0_625;
   mkAabb f_0_375 f_0_375 f_0_0 f_0_625 f_0_625 f_1_0;
   mkAabb f_0_0 f_0_375 f_0_375 f_1_0 f_0_625 f_0_625;
   mkAabb f_0_375 f_0_0 f_0_375 f_0_625 f_1_0 f_0_625;
   mkAabb f_0_1875 f_0_0 f_0_1875 f_0_8125 f_1_0 f_0_8125;
   mkAabb f_0_0 f_0_1875 f_0_1875 f_0_1875 f_0_8125 f_0_8125;
   mkAabb f_0_1875 f_0_1875 f_0_0 f_0_8125 f_0_8125 f_0_1875;
   mkAabb f_0_1875 f_0_1875 f_0_8125 f_0_8125 f_0_8125 f_1_0;
   mkAabb f_0_8125 f_0_1875 f_0_1875 f_1_0 f_0_8125 f_0_8125;
   mkAabb f_0_1875 f_0_0 f_0_1875 f_0_8125 f_1_0 f_0_8125;
   mkAabb f_0_1875 f_0_1875 f_0_0 f_0_8125 f_0_8125 f_0_1875;
   mkAabb f_0_1875 f_0_1875 f_0_8125 f_0_8125 f_0_8125 f_1_0;
   mkAabb f_0_8125 f_0_1875 f_0_1875 f_1_0 f_0_8125 f_0_8125;
   mkAabb f_0_1875 f_0_0 f_0_1875 f_0_8125 f_0_8125 f_0_8125;
   mkAabb f_0_0 f_0_1875 f_0_1875 f_0_1875 f_0_8125 f_0_8125;
   mkAabb f_0_1875 f_0_1875 f_0_0 f_0_8125 f_0_8125 f_0_1875;
   mkAabb f_0_1875 f_0_1875 f_0_8125 f_0_8125 f_0_8125 f_1_0;
   mkAabb f_0_8125 f_0_1875 f_0_1875 f_1_0 f_0_8125 f_0_8125;
   mkAabb f_0_1875 f_0_0 f_0_1875 f_0_8125 f_0_8125 f_0_8125;
   mkAabb f_0_1875 f_0_1875 f_0_0 f_0_8125 f_0_8125 f_0_1875;
   mkAabb f_0_1875 f_0_1875 f_0_8125 f_0_8125 f_0_8125 f_1_0;
   mkAabb f_0_8125 f_0_1875 f_0_1875 f_1_0 f_0_8125 f_0_8125;
   mkAabb f_0_1875 f_0_0 f_0_1875 f_0_8125 f_1_0 f_0_8125;
   mkAabb f_0_0 f_0_1875 f_0_1875 f_0_1875 f_0_8125 f_0_8125;
   mkAabb f_0_1875 f_0_1875 f_0_0 f_0_8125 f_0_8125 f_0_1875;
   mkAabb f_0_8125 f_0_1875 f_0_1875 f_1_0 f_0_8125 f_0_8125;
   mkAabb f_0_1875 f_0_0 f_0_1875 f_0_8125 f_1_0 f_0_8125;
   mkAabb f_0_1875 f_0_1875 f_0_0 f_0_8125 f_0_8125 f_0_1875;
   mkAabb f_0_8125 f_0_1875 f_0_1875 f_1_0 f_0_8125 f_0_8125;
   mkAabb f_0_1875 f_0_0 f_0_1875 f_0_8125 f_0_8125 f_0_8125;
   mkAabb f_0_0 f_0_1875 f_0_1875 f_0_1875 f_0_8125 f_0_8125;
   mkAabb f_0_1875 f_0_1875 f_0_0 f_0_8125 f_0_8125 f_0_1875;
   mkAabb f_0_8125 f_0_1875 f_0_1875 f_1_0 f_0_8125 f_0_8125;
   mkAabb f_0_1875 f_0_0 f_0_1875 f_0_8125 f_0_8125 f_0_8125;
   mkAabb f_0_1875 f_0_1875 f_0_0 f_0_8125 f_0_8125 f_0_1875;
   mkAabb f_0_8125 f_0_1875 f_0_1875 f_1_0 f_0_8125 f_0_8125;
   mkAabb f_0_1875 f_0_0 f_0_1875 f_0_8125 f_1_0 f_0_8125;
   mkAabb f_0_0 f_0_1875 f_0_1875 f_0_1875 f_0_8125 f_0_8125;
   mkAabb f_0_1875 f_0_1875 f_0_8125 f_0_8125 f_0_8125 f_1_0;
   mkAabb f_0_8125 f_0_1875 f_0_1875 f_1_0 f_0_8125 f_0_8125;
   mkAabb f_0_1875 f_0_0 f_0_1875 f_0_8125 f_1_0 f_0_8125].
Definition SHAPE_BOXES_17 : list Aabb :=
  [mkAabb f_0_1875 f_0_1875 f_0_8125 f_0_8125 f_0_8125 f_1_0;
   mkAabb f_0_8125 f_0_1875 f_0_1875 f_1_0 f_0_8125 f_0_8125;
   mkAabb f_0_1875 f_0_0 f_0_1875 f_0_8125 f_0_8125 f_0_8125;
   mkAabb f_0_0 f_0_1875 f_0_1875 f_0_1875 f_0_8125 f_0_8125;
   mkAabb f_0_1875 f_0_1875 f_0_8125 f_0_8125 f_0_8125 f_1_0;
   mkAabb f_0_8125 f_0_1875 f_0_1875 f_1_0 f_0_8125 f_0_8125;
   mkAabb f_0_1875 f_0_0 f_0_1875 f_0_8125 f_0_8125 f_0_8125;
   mkAabb f_0_1875 f_0_1875 f_0_8125 f_0_8125 f_0_8125 f_1_0;
   mkAabb f_0_8125 f_0_1875 f_0_1875 f_1_0 f_0_8125 f_0_8125;
   mkAabb f_0_1875 f_0_0 f_0_1875 f_0_8125 f_1_0 f_0_8125;
   mkAabb f_0_0 f_0_1875 f_0_1875 f_0_1875 f_0_8125 f_0_8125;
   mkAabb f_0_8125 f_0_1875 f_0_1875 f_1_0 f_0_8125 f_0_8125;
   mkAabb f_0_1875 f_0_0 f_0_1875 f_0_8125 f_1_0 f_0_8125;
   mkAabb f_0_8125 f_0_1875 f_0_1875 f_1_0 f_0_8125 f_0_8125;
   mkAabb f_0_1875 f_0_0 f_0_1875 f_0_8125 f_0_8125 f_0_8125;
   mkAabb f_0_0 f_0_1875 f_0_1875 f_0_1875 f_0_8125 f_0_8125;
   mkAabb f_0_8125 f_0_1875 f_0_1875 f_1_0 f_0_8125 f_0_8125;
   mkAabb f_0_1875 f_0_0 f_0_1875 f_0_8125 f_0_8125 f_0_8125;
   mkAabb f_0_8125 f_0_1875 f_0_1875 f_1_0 f_0_8125 f_0_8125;
   mkAabb f_0_1875 f_0_0 f_0_1875 f_0_8125 f_1_0 f_0_8125;
   mkAabb f_0_0 f_0_1875 f_0_1875 f_0_1875 f_0_8125 f_0_8125;
   mkAabb f_0_1875 f_0_1875 f_0_0 f_0_8125 f_0_8125 f_0_1875;
   mkAabb f_0_1875 f_0_1875 f_0_8125 f_0_8125 f_0_8125 f_1_0;
   mkAabb f_0_1875 f_0_0 f_0_1875 f_0_8125 f_1_0 f_0_8125;
   mkAabb f_0_1875 f_0_1875 f_0_0 f_0_8125 f_0_8125 f_0_1875;
   mkAabb f_0_1875 f_0_1875 f_0_8125 f_0_8125 f_0_8125 f_1_0;
   mkAabb f_0_1875 f_0_0 f_0_1875 f_0_8125 f_0_8125 f_0_8125;
   mkAabb f_0_0 f_0_1875 f_0_1875 f_0_1875 f_0_8125 f_0_8125;
   mkAabb f_0_1875 f_0_1875 f_0_0 f_0_8125 f_0_8125 f_0_1875;
   mkAabb f_0_1875 f_0_1875 f_0_8125 f_0_8125 f_0_8125 f_1_0;
   mkAabb f_0_1875 f_0_0 f_0_1875 f_0_8125 f_0_8125 f_0_8125;
   mkAabb f_0_1875 f_0_1875 f_0_0 f_0_8125 f_0_8125 f_0_1875;
   mkAabb f_0_1875 f_0_1875 f_0_8125 f_0_8125 f_0_8125 f_1_0;
   mkAabb f_0_1875 f_0_0 f_0_1875 f_0_8125 f_1_0 f_0_8125;
   mkAabb f_0_0 f_0_1875 f_0_1875 f_0_1875 f_0_8125 f_0_8125;
   mkAabb f_0_1875 f_0_1875 f_0_0 f_0_8125 f_0_8125 f_0_1875;
   mkAabb f_0_1875 f_0_0 f_0_1875 f_0_8125 f_1_0 f_0_8125;
   mkAabb f_0_1875 f_0_1875 f_0_0 f_0_8125 f_0_8125 f_0_1875;
   mkAabb f_0_1875 f_0_0 f_0_1875 f_0_8125 f_0_8125 f_0_8125;
   mkAabb f_0_0 f_0_1875 f_0_1875 f_0_1875 f_0_8125 f_0_8125;
   mkAabb f_0_1875 f_0_1875 f_0_0 f_0_8125 f_0_8125 f_0_1875;
   mkAabb f_0_1875 f_0_0 f_0_1875 f_0_8125 f_0_8125 f_0_8125;
   mkAabb f_0_1875 f_0_1875 f_0_0 f_0_8125 f_0_8125 f_0_1875;
   mkAabb f_0_1875 f_0_0 f_0_1875 f_0_8125 f_1_0 f_0_8125;
   mkAabb f_0_0 f_0_1875 f_0_1875 f_0_1875 f_0_8125 f_0_8125;
   mkAabb f_0_1875 f_0_1875 f_0_8125 f_0_8125 f_0_8125 f_1_0;
   mkAabb f_0_1875 f_0_0 f_0_1875 f_0_8125 f_1_0 f_0_8125;
   mkAabb f_0_1875 f_0_1875 f_0_8125 f_0_8125 f_0_8125 f_1_0;
   mkAabb f_0_1875 f_0_0 f_0_1875 f_0_8125 f_0_8125 f_0_8125;
   mkAabb f_0_0 f_0_1875 f_0_1875 f_0_1875 f_0_8125 f_0_8125;
   mkAabb f_0_1875 f_0_1875 f_0_8125 f_0_8125 f_0_8125 f_1_0;
   mkAabb f_0_1875 f_0_0 f_0_1875 f_0_8125 f_0_8125 f_0_8125;
   mkAabb f_0_1875 f_0_1875 f_0_8125 f_0_8125 f_0_8125 f_1_0;
   mkAabb f_0_1875 f_0_0 f_0_1875 f_0_8125 f_1_0 f_0_8125;
   mkAabb f_0_0 f_0_1875 f_0_1875 f_0_1875 f_0_8125 f_0_8125;
   mkAabb f_0_1875 f_0_0 f_0_1875 f_0_8125 f_1_0 f_0_8125;
   mkAabb f_0_1875 f_0_0 f_0_1875 f_0_8125 f_0_8125 f_0_8125;
   mkAabb f_0_0 f_0_1875 f_0_1875 f_0_1875 f_0_8125 f_0_8125;
   mkAabb f_0_1875 f_0_0 f_0_1875 f_0_8125 f_0_8125 f_0_8125;
   mkAabb f_0_0 f_0_1875 f_0_1875 f_1_0 f_0_8125 f_0_8125;
   mkAabb f_0_1875 f_0_1875 f_0_0 f_0_8125 f_0_8125 f_0_1875;
   mkAabb f_0_1875 f_0_1875 f_0_8125 f_0_8125 f_0_8125 f_1_0;
   mkAabb f_0_1875 f_0_8125 f_0_1875 f_0_8125 f_1_0 f_0_8125;
   mkAabb f_0_1875 f_0_1875 f_0_0 f_0_8125 f_0_8125 f_1_0;
   mkAabb f_0_8125 f_0_1875 f_0_1875 f_1_0 f_0_8125 f_0_8125;
   mkAabb f_0_1875 f_0_8125 f_0_1875 f_0_8125 f_1_0 f_0_8125;
   mkAabb f_0_0 f_0_1875 f_0_1875 f_1_0 f_0_8125 f_0_8125;
   mkAabb f_0_1875 f_0_1875 f_0_0 f_0_8125 f_0_8125 f_0_1875;
   mkAabb f_0_1875 f_0_1875 f_0_8125 f_0_8125 f_0_8125 f_1_0;
   mkAabb f_0_1875 f_0_1875 f_0_0 f_0_8125 f_0_8125 f_1_0;
   mkAabb f_0_8125 f_0_1875 f_0_1875 f_1_0 f_0_8125 f_0_8125;
   mkAabb f_0_0 f_0_1875 f_0_1875 f_1_0 f_0_8125 f_0_8125;
   mkAabb f_0_1875 f_0_1875 f_0_0 f_0_8125 f_0_8125 f_0_1875;
   mkAabb f_0_1875 f_0_8125 f_0_1875 f_0_8125 f_1_0 f_0_8125;
   mkAabb f_0_1875 f_0_1875 f_0_0 f_0_8125 f_0_8125 f_0_8125;
   mkAabb f_0_8125 f_0_1875 f_0_1875 f_1_0 f_0_8125 f_0_8125;
   mkAabb f_0_1875 f_0_8125 f_0_1875 f_0_8125 f_1_0 f_0_8125;
   mkAabb f_0_0 f_0_1875 f_0_1875 f_1_0 f_0_8125 f_0_8125;
   mkAabb f_0_1875 f_0_1875 f_0_0 f_0_8125 f_0_8125 f_0_1875;
   mkAabb f_0_1875 f_0_1875 f_0_0 f_0_8125 f_0_8125 f_0_8125;
   mkAabb f_0_8125 f_0_1875 f_0_1875 f_1_0 f_0_8125 f_0_8125;
   mkAabb f_0_0 f_0_1875 f_0_1875 f_1_0 f_0_8125 f_0_8125;
   mkAabb f_0_1875 f_0_1875 f_0_8125 f_0_8125 f_0_8125 f_1_0;
   mkAabb f_0_1875 f_0_8125 f_0_1875 f_0_8125 f_1_0 f_0_8125;
   mkAabb f_0_1875 f_0_1875 f_0_1875 f_0_8125 f_0_8125 f_1_0;
   mkAabb f_0_8125 f_0_1875 f_0_1875 f_1_0 f_0_8125 f_0_8125;
   mkAabb f_0_1875 f_0_8125 f_0_1875 f_0_8125 f_1_0 f_0_8125;
   mkAabb f_0_0 f_0_1875 f_0_1875 f_1_0 f_0_8125 f_0_8125;
   mkAabb f_0_1875 f_0_1875 f_0_8125 f_0_8125 f_0_8125 f_1_0;
   mkAabb f_0_1875 f_0_1875 f_0_1875 f_0_8125 f_0_8125 f_1_0;
   mkAabb f_0_8125 f_0_1875 f_0_1875 f_1_0 f_0_8125 f_0_8125;
   mkAabb f_0_0 f_0_1875 f_0_1875 f_1_0 f_0_8125 f_0_8125;
   mkAabb f_0_1875 f_0_8125 f_0_1875 f_0_8125 f_1_0 f_0_8125;
   mkAabb f_0_1875 f_0_1875 f_0_1875 f_1_0 f_0_8125 f_0_8125;
   mkAabb f_0_1875 f_0_8125 f_0_1875 f_0_8125 f_1_0 f_0_8125;
   mkAabb f_0_0 f_0_1875 f_0_1875 f_1_0 f_0_8125 f_0_8125;
   mkAabb f_0_1875 f_0_1875 f_0_1875 f_1_0 f_0_8125 f_0_8125;
   mkAabb f_0_0 f_0_1875 f_0_1875 f_0_8125 f_0_8125 f_0_8125;
   mkAabb f_0_1875 f_0_1875 f_0_0 f_0_8125 f_0_8125 f_0_1875;
   mkAabb f_0_1875 f_0_1875 f_0_8125 f_0_8125 f_0_8125 f_1_0;
   mkAabb f_0_1875 f_0_8125 f_0_1875 f_0_8125 f_1_0 f_0_8125;
   mkAabb f_0_1875 f_0_1875 f_0_0 f_0_8125 f_0_8125 f_1_0;
   mkAabb f_0_1875 f_0_8125 f_0_1875 f_0_8125 f_1_0 f_0_8125;
   mkAabb f_0_0 f_0_1875 f_0_1875 f_0_8125 f_0_8125 f_0_8125;
   mkAabb f_0_1875 f_0_1875 f_0_0 f_0_8125 f_0_8125 f_0_1875;
   mkAabb f_0_1875 f_0_1875 f_0_8125 f_0_8125 f_0_8125 f_1_0;
   mkAabb f_0_1875 f_0_1875 f_0_0 f_0_8125 f_0_8125 f_1_0;
   mkAabb f_0_0 f_0_1875 f_0_1875 f_0_8125 f_0_8125 f_0_8125;
   mkAabb f_0_1875 f_0_1875 f_0_0 f_0_8125 f_0_8125 f_0_1875;
   mkAabb f_0_1875 f_0_8125 f_0_1875 f_0_8125 f_1_0 f_0_8125;
   mkAabb f_0_1875 f_0_1875 f_0_0 f_0_8125 f_0_8125 f_0_8125;
   mkAabb f_0_1875 f_0_8125 f_0_1875 f_0_8125 f_1_0 f_0_8125;
   mkAabb f_0_0 f_0_1875 f_0_1875 f_0_8125 f_0_8125 f_0_8125;
   mkAabb f_0_1875 f_0_1875 f_0_0 f_0_8125 f_0_8125 f_0_1875;
   mkAabb f_0_1875 f_0_1875 f_0_0 f_0_8125 f_0_8125 f_0_8125;
   mkAabb f_0_0 f_0_1875 f_0_1875 f_0_8125 f_0_8125 f_0_8125;
   mkAabb f_0_1875 f_0_1875 f_0_8125 f_0_8125 f_0_8125 f_1_0;
   mkAabb f_0_1875 f_0_8125 f_0_1875 f_0_8125 f_1_0 f_0_8125;
   mkAabb f_0_1875 f_0_1875 f_0_1875 f_0_8125 f_0_8125 f_1_0;
   mkAabb f_0_1875 f_0_8125 f_0_1875 f_0_8125 f_1_0 f_0_8125;
   mkAabb f_0_0 f_0_1875 f_0_1875 f_0_8125 f_0_8125 f_0_8125;
   mkAabb f_0_1875 f_0_1875 f_0_8125 f_0_8125 f_0_8125 f_1_0;
   mkAabb f_0_1875 f_0_1875 f_0_1875 f_0_8125 f_0_8125 f_1_0;
   mkAabb f_0_0 f_0_1875 f_0_1875 f_0_8125 f_0_8125 f_0_8125;
   mkAabb f_0_1875 f_0_8125 f_0_1875 f_0_8125 f_1_0 f_0_8125;
   mkAabb f_0_1875 f_0_1875 f_0_1875 f_0_8125 f_1_0 f_0_8125;
   mkAabb f_0_0 f_0_1875 f_0_1875 f_0_8125 f_0_8125 f_0_8125;
   mkAabb f_0_1875 f_0_1875 f_0_1875 f_0_8125 f_0_8125 f_0_8125;
   mkAabb f_0_3125 f_m0_0625 f_0_3125 f_0_6875 f_0_1875 f_0_6875;
   mkAabb f_0_1875 f_m0_0625 f_0_1875 f_0_8125 f_0_3125 f_0_8125;
   mkAabb f_0_1875 f_0_0 f_0_1875 f_0_75 f_0_4375 f_0_75;
   mkAabb f_0_0625 f_0_0 f_0_0625 f_0_9375 f_0_4375 f_0_9375;
   mkAabb f_0_0625 f_0_0 f_0_125 f_0_9375 f_1_0 f_0_875;
   mkAabb f_0_375 f_0_0 f_0_375 f_0_625 f_0_375 f_0_625;
   mkAabb f_0_1875 f_0_0 f_0_1875 f_0_8125 f_0_375 f_0_8125;
   mkAabb f_0_125 f_0_0 f_0_125 f_0_875 f_0_375 f_0_875;
   mkAabb f_0_125 f_0_0 f_0_125 f_0_875 f_0_4375 f_0_875;
   mkAabb f_0_3125 f_0_3125 f_0_3125 f_0_6875 f_0_6875 f_0_6875;
   mkAabb f_0_15625 f_0_0 f_0_15625 f_0_34375 f_1_0 f_0_34375;
   mkAabb f_0_15625 f_0_0 f_0_15625 f_0_34375 f_1_0 f_0_34375;
   mkAabb f_0_15625 f_0_0 f_0_15625 f_0_34375 f_1_0 f_0_34375;
   mkAabb f_0_15625 f_0_0 f_0_15625 f_0_34375 f_1_0 f_0_34375;
   mkAabb f_0_15625 f_0_0 f_0_15625 f_0_34375 f_1_0 f_0_34375;
   mkAabb f_0_15625 f_0_0 f_0_15625 f_0_34375 f_1_0 f_0_34375;
   mkAabb f_0_15625 f_0_0 f_0_15625 f_0_34375 f_1_0 f_0_34375;
   mkAabb f_0_15625 f_0_0 f_0_15625 f_0_34375 f_1_0 f_0_34375;
   mkAabb f_0_15625 f_0_0 f_0_15625 f_0_34375 f_1_0 f_0_34375;
   mkAabb f_0_15625 f_0_0 f_0_15625 f_0_34375 f_1_0 f_0_34375;
   mkAabb f_0_15625 f_0_0 f_0_15625 f_0_34375 f_1_0 f_0_34375;
   mkAabb f_0_15625 f_0_0 f_0_15625 f_0_34375 f_1_0 f_0_34375].
Definition SHAPE_BOXES_18 : list Aabb :=
  [mkAabb f_0_25 f_0_0 f_0_25 f_0_75 f_1_5 f_0_75;
   mkAabb f_0_0 f_0_0 f_0_3125 f_0_75 f_1_5 f_0_6875;
   mkAabb f_0_25 f_0_0 f_0_25 f_0_75 f_1_5 f_0_3125;
   mkAabb f_0_25 f_0_0 f_0_6875 f_0_75 f_1_5 f_0_75;
   mkAabb f_0_0 f_0_0 f_0_3125 f_0_75 f_1_5 f_0_6875;
   mkAabb f_0_25 f_0_0 f_0_25 f_0_75 f_1_5 f_0_3125;
   mkAabb f_0_25 f_0_0 f_0_6875 f_0_75 f_1_5 f_0_75;
   mkAabb f_0_0 f_0_0 f_0_3125 f_0_6875 f_1_5 f_0_6875;
   mkAabb f_0_0 f_0_0 f_0_3125 f_0_6875 f_1_5 f_0_6875;
   mkAabb f_0_25 f_0_0 f_0_25 f_0_75 f_1_5 f_0_75;
   mkAabb f_0_3125 f_0_0 f_0_75 f_0_6875 f_1_5 f_1_0;
   mkAabb f_0_0 f_0_0 f_0_3125 f_0_75 f_1_5 f_0_6875;
   mkAabb f_0_25 f_0_0 f_0_25 f_0_75 f_1_5 f_0_3125;
   mkAabb f_0_25 f_0_0 f_0_6875 f_0_75 f_1_5 f_0_75;
   mkAabb f_0_3125 f_0_0 f_0_75 f_0_6875 f_1_5 f_1_0;
   mkAabb f_0_0 f_0_0 f_0_3125 f_0_75 f_1_5 f_0_6875;
   mkAabb f_0_25 f_0_0 f_0_25 f_0_75 f_1_5 f_0_3125;
   mkAabb f_0_25 f_0_0 f_0_6875 f_0_75 f_1_5 f_0_75;
   mkAabb f_0_3125 f_0_0 f_0_75 f_0_6875 f_1_5 f_1_0;
   mkAabb f_0_3125 f_0_0 f_0_3125 f_0_6875 f_1_5 f_1_0;
   mkAabb f_0_0 f_0_0 f_0_3125 f_0_6875 f_1_5 f_0_6875;
   mkAabb f_0_3125 f_0_0 f_0_6875 f_0_6875 f_1_5 f_1_0;
   mkAabb f_0_0 f_0_0 f_0_3125 f_0_6875 f_1_5 f_0_6875;
   mkAabb f_0_3125 f_0_0 f_0_6875 f_0_6875 f_1_5 f_1_0;
   mkAabb f_0_25 f_0_0 f_0_25 f_0_75 f_1_5 f_0_75;
   mkAabb f_0_3125 f_0_0 f_0_75 f_0_6875 f_1_5 f_1_0;
   mkAabb f_0_0 f_0_0 f_0_3125 f_0_75 f_1_5 f_0_6875;
   mkAabb f_0_25 f_0_0 f_0_25 f_0_75 f_1_5 f_0_3125;
   mkAabb f_0_25 f_0_0 f_0_6875 f_0_75 f_1_5 f_0_75;
   mkAabb f_0_3125 f_0_0 f_0_75 f_0_6875 f_1_5 f_1_0;
   mkAabb f_0_0 f_0_0 f_0_3125 f_0_75 f_1_5 f_0_6875;
   mkAabb f_0_25 f_0_0 f_0_25 f_0_75 f_1_5 f_0_3125;
   mkAabb f_0_25 f_0_0 f_0_6875 f_0_75 f_1_5 f_0_75;
   mkAabb f_0_3125 f_0_0 f_0_75 f_0_6875 f_1_5 f_1_0;
   mkAabb f_0_3125 f_0_0 f_0_3125 f_0_6875 f_1_5 f_1_0;
   mkAabb f_0_0 f_0_0 f_0_3125 f_0_6875 f_1_5 f_0_6875;
   mkAabb f_0_3125 f_0_0 f_0_6875 f_0_6875 f_1_5 f_1_0;
   mkAabb f_0_0 f_0_0 f_0_3125 f_0_6875 f_1_5 f_0_6875;
   mkAabb f_0_3125 f_0_0 f_0_6875 f_0_6875 f_1_5 f_1_0;
   mkAabb f_0_25 f_0_0 f_0_25 f_0_75 f_1_5 f_0_75;
   mkAabb f_0_3125 f_0_0 f_0_0 f_0_6875 f_1_5 f_0_25;
   mkAabb f_0_0 f_0_0 f_0_3125 f_0_75 f_1_5 f_0_6875;
   mkAabb f_0_25 f_0_0 f_0_25 f_0_75 f_1_5 f_0_3125;
   mkAabb f_0_25 f_0_0 f_0_6875 f_0_75 f_1_5 f_0_75;
   mkAabb f_0_3125 f_0_0 f_0_0 f_0_6875 f_1_5 f_0_25;
   mkAabb f_0_0 f_0_0 f_0_3125 f_0_75 f_1_5 f_0_6875;
   mkAabb f_0_25 f_0_0 f_0_25 f_0_75 f_1_5 f_0_3125;
   mkAabb f_0_25 f_0_0 f_0_6875 f_0_75 f_1_5 f_0_75;
   mkAabb f_0_3125 f_0_0 f_0_0 f_0_6875 f_1_5 f_0_25;
   mkAabb f_0_3125 f_0_0 f_0_0 f_0_6875 f_1_5 f_0_6875;
   mkAabb f_0_0 f_0_0 f_0_3125 f_0_6875 f_1_5 f_0_6875;
   mkAabb f_0_3125 f_0_0 f_0_0 f_0_6875 f_1_5 f_0_3125;
   mkAabb f_0_0 f_0_0 f_0_3125 f_0_6875 f_1_5 f_0_6875;
   mkAabb f_0_3125 f_0_0 f_0_0 f_0_6875 f_1_5 f_0_3125;
   mkAabb f_0_25 f_0_0 f_0_25 f_0_75 f_1_5 f_0_75;
   mkAabb f_0_3125 f_0_0 f_0_0 f_0_6875 f_1_5 f_0_25;
   mkAabb f_0_3125 f_0_0 f_0_75 f_0_6875 f_1_5 f_1_0;
   mkAabb f_0_0 f_0_0 f_0_3125 f_0_75 f_1_5 f_0_6875;
   mkAabb f_0_25 f_0_0 f_0_25 f_0_75 f_1_5 f_0_3125;
   mkAabb f_0_25 f_0_0 f_0_6875 f_0_75 f_1_5 f_0_75;
   mkAabb f_0_3125 f_0_0 f_0_0 f_0_6875 f_1_5 f_0_25;
   mkAabb f_0_3125 f_0_0 f_0_75 f_0_6875 f_1_5 f_1_0;
   mkAabb f_0_0 f_0_0 f_0_3125 f_0_75 f_1_5 f_0_6875;
   mkAabb f_0_25 f_0_0 f_0_25 f_0_75 f_1_5 f_0_3125;
   mkAabb f_0_25 f_0_0 f_0_6875 f_0_75 f_1_5 f_0_75;
   mkAabb f_0_3125 f_0_0 f_0_0 f_0_6875 f_1_5 f_0_25;
   mkAabb f_0_3125 f_0_0 f_0_75 f_0_6875 f_1_5 f_1_0;
   mkAabb f_0_3125 f_0_0 f_0_0 f_0_6875 f_1_5 f_1_0;
   mkAabb f_0_0 f_0_0 f_0_3125 f_0_6875 f_1_5 f_0_6875;
   mkAabb f_0_3125 f_0_0 f_0_0 f_0_6875 f_1_5 f_0_3125;
   mkAabb f_0_3125 f_0_0 f_0_6875 f_0_6875 f_1_5 f_1_0;
   mkAabb f_0_0 f_0_0 f_0_3125 f_0_6875 f_1_5 f_0_6875;
   mkAabb f_0_3125 f_0_0 f_0_0 f_0_6875 f_1_5 f_0_3125;
   mkAabb f_0_3125 f_0_0 f_0_6875 f_0_6875 f_1_5 f_1_0;
   mkAabb f_0_25 f_0_0 f_0_25 f_0_75 f_1_5 f_0_75;
   mkAabb f_0_3125 f_0_0 f_0_0 f_0_6875 f_1_5 f_0_25;
   mkAabb f_0_3125 f_0_0 f_0_75 f_0_6875 f_1_5 f_1_0;
   mkAabb f_0_0 f_0_0 f_0_3125 f_0_75 f_1_5 f_0_6875;
   mkAabb f_0_25 f_0_0 f_0_25 f_0_75 f_1_5 f_0_3125;
   mkAabb f_0_25 f_0_0 f_0_6875 f_0_75 f_1_5 f_0_75;
   mkAabb f_0_3125 f_0_0 f_0_0 f_0_6875 f_1_5 f_0_25;
   mkAabb f_0_3125 f_0_0 f_0_75 f_0_6875 f_1_5 f_1_0;
   mkAabb f_0_0 f_0_0 f_0_3125 f_0_75 f_1_5 f_0_6875;
   mkAabb f_0_25 f_0_0 f_0_25 f_0_75 f_1_5 f_0_3125;
   mkAabb f_0_25 f_0_0 f_0_6875 f_0_75 f_1_5 f_0_75;
   mkAabb f_0_3125 f_0_0 f_0_0 f_0_6875 f_1_5 f_0_25;
   mkAabb f_0_3125 f_0_0 f_0_75 f_0_6875 f_1_5 f_1_0;
   mkAabb f_0_3125 f_0_0 f_0_0 f_0_6875 f_1_5 f_1_0;
   mkAabb f_0_0 f_0_0 f_0_3125 f_0_6875 f_1_5 f_0_6875;
   mkAabb f_0_3125 f_0_0 f_0_0 f_0_6875 f_1_5 f_0_3125;
   mkAabb f_0_3125 f_0_0 f_0_6875 f_0_6875 f_1_5 f_1_0;
   mkAabb f_0_0 f_0_0 f_0_3125 f_0_6875 f_1_5 f_0_6875;
   mkAabb f_0_3125 f_0_0 f_0_0 f_0_6875 f_1_5 f_0_3125;
   mkAabb f_0_3125 f_0_0 f_0_6875 f_0_6875 f_1_5 f_1_0;
   mkAabb f_0_25 f_0_0 f_0_25 f_0_75 f_1_5 f_0_75;
   mkAabb f_0_3125 f_0_0 f_0_0 f_0_6875 f_1_5 f_0_25;
   mkAabb f_0_0 f_0_0 f_0_3125 f_0_75 f_1_5 f_0_6875;
   mkAabb f_0_25 f_0_0 f_0_25 f_0_75 f_1_5 f_0_3125;
   mkAabb f_0_25 f_0_0 f_0_6875 f_0_75 f_1_5 f_0_75;
   mkAabb f_0_3125 f_0_0 f_0_0 f_0_6875 f_1_5 f_0_25;
   mkAabb f_0_0 f_0_0 f_0_3125 f_0_75 f_1_5 f_0_6875;
   mkAabb f_0_25 f_0_0 f_0_25 f_0_75 f_1_5 f_0_3125;
   mkAabb f_0_25 f_0_0 f_0_6875 f_0_75 f_1_5 f_0_75;
   mkAabb f_0_3125 f_0_0 f_0_0 f_0_6875 f_1_5 f_0_25;
   mkAabb f_0_3125 f_0_0 f_0_0 f_0_6875 f_1_5 f_0_6875;
   mkAabb f_0_0 f_0_0 f_0_3125 f_0_6875 f_1_5 f_0_6875;
   mkAabb f_0_3125 f_0_0 f_0_0 f_0_6875 f_1_5 f_0_3125;
   mkAabb f_0_0 f_0_0 f_0_3125 f_0_6875 f_1_5 f_0_6875;
   mkAabb f_0_3125 f_0_0 f_0_0 f_0_6875 f_1_5 f_0_3125;
   mkAabb f_0_25 f_0_0 f_0_25 f_0_75 f_1_5 f_0_75;
   mkAabb f_0_3125 f_0_0 f_0_0 f_0_6875 f_1_5 f_0_25;
   mkAabb f_0_3125 f_0_0 f_0_75 f_0_6875 f_1_5 f_1_0;
   mkAabb f_0_0 f_0_0 f_0_3125 f_0_75 f_1_5 f_0_6875;
   mkAabb f_0_25 f_0_0 f_0_25 f_0_75 f_1_5 f_0_3125;
   mkAabb f_0_25 f_0_0 f_0_6875 f_0_75 f_1_5 f_0_75;
   mkAabb f_0_3125 f_0_0 f_0_0 f_0_6875 f_1_5 f_0_25;
   mkAabb f_0_3125 f_0_0 f_0_75 f_0_6875 f_1_5 f_1_0;
   mkAabb f_0_0 f_0_0 f_0_3125 f_0_75 f_1_5 f_0_6875;
   mkAabb f_0_25 f_0_0 f_0_25 f_0_75 f_1_5 f_0_3125;
   mkAabb f_0_25 f_0_0 f_0_6875 f_0_75 f_1_5 f_0_75;
   mkAabb f_0_3125 f_0_0 f_0_0 f_0_6875 f_1_5 f_0_25;
   mkAabb f_0_3125 f_0_0 f_0_75 f_0_6875 f_1_5 f_1_0;
   mkAabb f_0_3125 f_0_0 f_0_0 f_0_6875 f_1_5 f_1_0;
   mkAabb f_0_0 f_0_0 f_0_3125 f_0_6875 f_1_5 f_0_6875;
   mkAabb f_0_3125 f_0_0 f_0_0 f_0_6875 f_1_5 f_0_3125;
   mkAabb f_0_3125 f_0_0 f_0_6875 f_0_6875 f_1_5 f_1_0;
   mkAabb f_0_0 f_0_0 f_0_3125 f_0_6875 f_1_5 f_0_6875;
   mkAabb f_0_3125 f_0_0 f_0_0 f_0_6875 f_1_5 f_0_3125;
   mkAabb f_0_3125 f_0_0 f_0_6875 f_0_6875 f_1_5 f_1_0;
   mkAabb f_0_25 f_0_0 f_0_25 f_0_75 f_1_5 f_0_75;
   mkAabb f_0_3125 f_0_0 f_0_0 f_0_6875 f_1_5 f_0_25;
   mkAabb f_0_3125 f_0_0 f_0_75 f_0_6875 f_1_5 f_1_0;
   mkAabb f_0_0 f_0_0 f_0_3125 f_0_75 f_1_5 f_0_6875;
   mkAabb f_0_25 f_0_0 f_0_25 f_0_75 f_1_5 f_0_3125;
   mkAabb f_0_25 f_0_0 f_0_6875 f_0_75 f_1_5 f_0_75;
   mkAabb f_0_3125 f_0_0 f_0_0 f_0_6875 f_1_5 f_0_25;
   mkAabb f_0_3125 f_0_0 f_0_75 f_0_6875 f_1_5 f_1_0;
   mkAabb f_0_0 f_0_0 f_0_3125 f_0_75 f_1_5 f_0_6875;
   mkAabb f_0_25 f_0_0 f_0_25 f_0_75 f_1_5 f_0_3125;
   mkAabb f_0_25 f_0_0 f_0_6875 f_0_75 f_1_5 f_0_75;
   mkAabb f_0_3125 f_0_0 f_0_0 f_0_6875 f_1_5 f_0_25;
   mkAabb f_0_3125 f_0_0 f_0_75 f_0_6875 f_1_5 f_1_0;
   mkAabb f_0_3125 f_0_0 f_0_0 f_0_6875 f_1_5 f_1_0;
   mkAabb f_0_0 f_0_0 f_0_3125 f_0_6875 f_1_5 f_0_6875;
   mkAabb f_0_3125 f_0_0 f_0_0 f_0_6875 f_1_5 f_0_3125;
   mkAabb f_0_3125 f_0_0 f_0_6875 f_0_6875 f_1_5 f_1_0;
   mkAabb f_0_0 f_0_0 f_0_3125 f_0_6875 f_1_5 f_0_6875;
   mkAabb f_0_3125 f_0_0 f_0_0 f_0_6875 f_1_5 f_0_3125;
   mkAabb f_0_3125 f_0_0 f_0_6875 f_0_6875 f_1_5 f_1_0;
   mkAabb f_0_25 f_0_0 f_0_25 f_0_75 f_1_5 f_0_75].
Definition SHAPE_BOXES_19 : list Aabb :=
  [mkAabb f_0_75 f_0_0 f_0_3125 f_1_0 f_1_5 f_0_6875;
   mkAabb f_0_0 f_0_0 f_0_3125 f_1_0 f_1_5 f_0_6875;
   mkAabb f_0_25 f_0_0 f_0_25 f_0_75 f_1_5 f_0_3125;
   mkAabb f_0_25 f_0_0 f_0_6875 f_0_75 f_1_5 f_0_75;
   mkAabb f_0_0 f_0_0 f_0_3125 f_1_0 f_1_5 f_0_6875;
   mkAabb f_0_25 f_0_0 f_0_25 f_0_75 f_1_5 f_0_3125;
   mkAabb f_0_25 f_0_0 f_0_6875 f_0_75 f_1_5 f_0_75;
   mkAabb f_0_3125 f_0_0 f_0_3125 f_1_0 f_1_5 f_0_6875;
   mkAabb f_0_0 f_0_0 f_0_3125 f_1_0 f_1_5 f_0_6875;
   mkAabb f_0_0 f_0_0 f_0_3125 f_1_0 f_1_5 f_0_6875;
   mkAabb f_0_25 f_0_0 f_0_25 f_0_75 f_1_5 f_0_75;
   mkAabb f_0_3125 f_0_0 f_0_75 f_0_6875 f_1_5 f_1_0;
   mkAabb f_0_75 f_0_0 f_0_3125 f_1_0 f_1_5 f_0_6875;
   mkAabb f_0_0 f_0_0 f_0_3125 f_1_0 f_1_5 f_0_6875;
   mkAabb f_0_25 f_0_0 f_0_25 f_0_75 f_1_5 f_0_3125;
   mkAabb f_0_25 f_0_0 f_0_6875 f_0_75 f_1_5 f_0_75;
   mkAabb f_0_3125 f_0_0 f_0_75 f_0_6875 f_1_5 f_1_0;
   mkAabb f_0_0 f_0_0 f_0_3125 f_1_0 f_1_5 f_0_6875;
   mkAabb f_0_25 f_0_0 f_0_25 f_0_75 f_1_5 f_0_3125;
   mkAabb f_0_25 f_0_0 f_0_6875 f_0_75 f_1_5 f_0_75;
   mkAabb f_0_3125 f_0_0 f_0_75 f_0_6875 f_1_5 f_1_0;
   mkAabb f_0_3125 f_0_0 f_0_3125 f_0_6875 f_1_5 f_1_0;
   mkAabb f_0_6875 f_0_0 f_0_3125 f_1_0 f_1_5 f_0_6875;
   mkAabb f_0_0 f_0_0 f_0_3125 f_1_0 f_1_5 f_0_6875;
   mkAabb f_0_3125 f_0_0 f_0_6875 f_0_6875 f_1_5 f_1_0;
   mkAabb f_0_0 f_0_0 f_0_3125 f_1_0 f_1_5 f_0_6875;
   mkAabb f_0_3125 f_0_0 f_0_6875 f_0_6875 f_1_5 f_1_0;
   mkAabb f_0_25 f_0_0 f_0_25 f_0_75 f_1_5 f_0_75;
   mkAabb f_0_3125 f_0_0 f_0_75 f_0_6875 f_1_5 f_1_0;
   mkAabb f_0_75 f_0_0 f_0_3125 f_1_0 f_1_5 f_0_6875;
   mkAabb f_0_0 f_0_0 f_0_3125 f_1_0 f_1_5 f_0_6875;
   mkAabb f_0_25 f_0_0 f_0_25 f_0_75 f_1_5 f_0_3125;
   mkAabb f_0_25 f_0_0 f_0_6875 f_0_75 f_1_5 f_0_75;
   mkAabb f_0_3125 f_0_0 f_0_75 f_0_6875 f_1_5 f_1_0;
   mkAabb f_0_0 f_0_0 f_0_3125 f_1_0 f_1_5 f_0_6875;
   mkAabb f_0_25 f_0_0 f_0_25 f_0_75 f_1_5 f_0_3125;
   mkAabb f_0_25 f_0_0 f_0_6875 f_0_75 f_1_5 f_0_75;
   mkAabb f_0_3125 f_0_0 f_0_75 f_0_6875 f_1_5 f_1_0;
   mkAabb f_0_3125 f_0_0 f_0_3125 f_0_6875 f_1_5 f_1_0;
   mkAabb f_0_6875 f_0_0 f_0_3125 f_1_0 f_1_5 f_0_6875;
   mkAabb f_0_0 f_0_0 f_0_3125 f_1_0 f_1_5 f_0_6875;
   mkAabb f_0_3125 f_0_0 f_0_6875 f_0_6875 f_1_5 f_1_0;
   mkAabb f_0_0 f_0_0 f_0_3125 f_1_0 f_1_5 f_0_6875;
   mkAabb f_0_3125 f_0_0 f_0_6875 f_0_6875 f_1_5 f_1_0;
   mkAabb f_0_25 f_0_0 f_0_25 f_0_75 f_1_5 f_0_75;
   mkAabb f_0_3125 f_0_0 f_0_0 f_0_6875 f_1_5 f_0_25;
   mkAabb f_0_75 f_0_0 f_0_3125 f_1_0 f_1_5 f_0_6875;
   mkAabb f_0_0 f_0_0 f_0_3125 f_1_0 f_1_5 f_0_6875;
   mkAabb f_0_25 f_0_0 f_0_25 f_0_75 f_1_5 f_0_3125;
   mkAabb f_0_25 f_0_0 f_0_6875 f_0_75 f_1_5 f_0_75;
   mkAabb f_0_3125 f_0_0 f_0_0 f_0_6875 f_1_5 f_0_25;
   mkAabb f_0_0 f_0_0 f_0_3125 f_1_0 f_1_5 f_0_6875;
   mkAabb f_0_25 f_0_0 f_0_25 f_0_75 f_1_5 f_0_3125;
   mkAabb f_0_25 f_0_0 f_0_6875 f_0_75 f_1_5 f_0_75;
   mkAabb f_0_3125 f_0_0 f_0_0 f_0_6875 f_1_5 f_0_25;
   mkAabb f_0_3125 f_0_0 f_0_0 f_0_6875 f_1_5 f_0_6875;
   mkAabb f_0_6875 f_0_0 f_0_3125 f_1_0 f_1_5 f_0_6875;
   mkAabb f_0_0 f_0_0 f_0_3125 f_1_0 f_1_5 f_0_6875;
   mkAabb f_0_3125 f_0_0 f_0_0 f_0_6875 f_1_5 f_0_3125;
   mkAabb f_0_0 f_0_0 f_0_3125 f_1_0 f_1_5 f_0_6875;
   mkAabb f_0_3125 f_0_0 f_0_0 f_0_6875 f_1_5 f_0_3125;
   mkAabb f_0_25 f_0_0 f_0_25 f_0_75 f_1_5 f_0_75;
   mkAabb f_0_3125 f_0_0 f_0_0 f_0_6875 f_1_5 f_0_25;
   mkAabb f_0_3125 f_0_0 f_0_75 f_0_6875 f_1_5 f_1_0;
   mkAabb f_0_75 f_0_0 f_0_3125 f_1_0 f_1_5 f_0_6875;
   mkAabb f_0_0 f_0_0 f_0_3125 f_1_0 f_1_5 f_0_6875;
   mkAabb f_0_25 f_0_0 f_0_25 f_0_75 f_1_5 f_0_3125;
   mkAabb f_0_25 f_0_0 f_0_6875 f_0_75 f_1_5 f_0_75;
   mkAabb f_0_3125 f_0_0 f_0_0 f_0_6875 f_1_5 f_0_25;
   mkAabb f_0_3125 f_0_0 f_0_75 f_0_6875 f_1_5 f_1_0;
   mkAabb f_0_0 f_0_0 f_0_3125 f_1_0 f_1_5 f_0_6875;
   mkAabb f_0_25 f_0_0 f_0_25 f_0_75 f_1_5 f_0_3125;
   mkAabb f_0_25 f_0_0 f_0_6875 f_0_75 f_1_5 f_0_75;
   mkAabb f_0_3125 f_0_0 f_0_0 f_0_6875 f_1_5 f_0_25;
   mkAabb f_0_3125 f_0_0 f_0_75 f_0_6875 f_1_5 f_1_0;
   mkAabb f_0_3125 f_0_0 f_0_0 f_0_6875 f_1_5 f_1_0;
   mkAabb f_0_6875 f_0_0 f_0_3125 f_1_0 f_1_5 f_0_6875;
   mkAabb f_0_0 f_0_0 f_0_3125 f_1_0 f_1_5 f_0_6875;
   mkAabb f_0_3125 f_0_0 f_0_0 f_0_6875 f_1_5 f_0_3125;
   mkAabb f_0_3125 f_0_0 f_0_6875 f_0_6875 f_1_5 f_1_0;
   mkAabb f_0_0 f_0_0 f_0_3125 f_1_0 f_1_5 f_0_6875;
   mkAabb f_0_3125 f_0_0 f_0_0 f_0_6875 f_1_5 f_0_3125;
   mkAabb f_0_3125 f_0_0 f_0_6875 f_0_6875 f_1_5 f_1_0;
   mkAabb f_0_25 f_0_0 f_0_25 f_0_75 f_1_5 f_0_75;
   mkAabb f_0_3125 f_0_0 f_0_0 f_0_6875 f_1_5 f_0_25;
   mkAabb f_0_3125 f_0_0 f_0_75 f_0_6875 f_1_5 f_1_0;
   mkAabb f_0_75 f_0_0 f_0_3125 f_1_0 f_1_5 f_0_6875;
   mkAabb f_0_0 f_0_0 f_0_3125 f_1_0 f_1_5 f_0_6875;
   mkAabb f_0_25 f_0_0 f_0_25 f_0_75 f_1_5 f_0_3125;
   mkAabb f_0_25 f_0_0 f_0_6875 f_0_75 f_1_5 f_0_75;
   mkAabb f_0_3125 f_0_0 f_0_0 f_0_6875 f_1_5 f_0_25;
   mkAabb f_0_3125 f_0_0 f_0_75 f_0_6875 f_1_5 f_1_0;
   mkAabb f_0_0 f_0_0 f_0_3125 f_1_0 f_1_5 f_0_6875;
   mkAabb f_0_25 f_0_0 f_0_25 f_0_75 f_1_5 f_0_3125;
   mkAabb f_0_25 f_0_0 f_0_6875 f_0_75 f_1_5 f_0_75;
   mkAabb f_0_3125 f_0_0 f_0_0 f_0_6875 f_1_5 f_0_25;
   mkAabb f_0_3125 f_0_0 f_0_75 f_0_6875 f_1_5 f_1_0;
   mkAabb f_0_3125 f_0_0 f_0_0 f_0_6875 f_1_5 f_1_0;
   mkAabb f_0_6875 f_0_0 f_0_3125 f_1_0 f_1_5 f_0_6875;
   mkAabb f_0_0 f_0_0 f_0_3125 f_1_0 f_1_5 f_0_6875;
   mkAabb f_0_3125 f_0_0 f_0_0 f_0_6875 f_1_5 f_0_3125;
   mkAabb f_0_3125 f_0_0 f_0_6875 f_0_6875 f_1_5 f_1_0;
   mkAabb f_0_0 f_0_0 f_0_3125 f_1_0 f_1_5 f_0_6875;
   mkAabb f_0_3125 f_0_0 f_0_0 f_0_6875 f_1_5 f_0_3125;
   mkAabb f_0_3125 f_0_0 f_0_6875 f_0_6875 f_1_5 f_1_0;
   mkAabb f_0_25 f_0_0 f_0_25 f_0_75 f_1_5 f_0_75;
   mkAabb f_0_3125 f_0_0 f_0_0 f_0_6875 f_1_5 f_0_25;
   mkAabb f_0_75 f_0_0 f_0_3125 f_1_0 f_1_5 f_0_6875;
   mkAabb f_0_0 f_0_0 f_0_3125 f_1_0 f_1_5 f_0_6875;
   mkAabb f_0_25 f_0_0 f_0_25 f_0_75 f_1_5 f_0_3125;
   mkAabb f_0_25 f_0_0 f_0_6875 f_0_75 f_1_5 f_0_75;
   mkAabb f_0_3125 f_0_0 f_0_0 f_0_6875 f_1_5 f_0_25;
   mkAabb f_0_0 f_0_0 f_0_3125 f_1_0 f_1_5 f_0_6875;
   mkAabb f_0_25 f_0_0 f_0_25 f_0_75 f_1_5 f_0_3125;
   mkAabb f_0_25 f_0_0 f_0_6875 f_0_75 f_1_5 f_0_75;
   mkAabb f_0_3125 f_0_0 f_0_0 f_0_6875 f_1_5 f_0_25;
   mkAabb f_0_3125 f_0_0 f_0_0 f_0_6875 f_1_5 f_0_6875;
   mkAabb f_0_6875 f_0_0 f_0_3125 f_1_0 f_1_5 f_0_6875;
   mkAabb f_0_0 f_0_0 f_0_3125 f_1_0 f_1_5 f_0_6875;
   mkAabb f_0_3125 f_0_0 f_0_0 f_0_6875 f_1_5 f_0_3125;
   mkAabb f_0_0 f_0_0 f_0_3125 f_1_0 f_1_5 f_0_6875;
   mkAabb f_0_3125 f_0_0 f_0_0 f_0_6875 f_1_5 f_0_3125;
   mkAabb f_0_25 f_0_0 f_0_25 f_0_75 f_1_5 f_0_75;
   mkAabb f_0_3125 f_0_0 f_0_0 f_0_6875 f_1_5 f_0_25;
   mkAabb f_0_3125 f_0_0 f_0_75 f_0_6875 f_1_5 f_1_0;
   mkAabb f_0_75 f_0_0 f_0_3125 f_1_0 f_1_5 f_0_6875;
   mkAabb f_0_0 f_0_0 f_0_3125 f_1_0 f_1_5 f_0_6875;
   mkAabb f_0_25 f_0_0 f_0_25 f_0_75 f_1_5 f_0_3125;
   mkAabb f_0_25 f_0_0 f_0_6875 f_0_75 f_1_5 f_0_75;
   mkAabb f_0_3125 f_0_0 f_0_0 f_0_6875 f_1_5 f_0_25;
   mkAabb f_0_3125 f_0_0 f_0_75 f_0_6875 f_1_5 f_1_0;
   mkAabb f_0_0 f_0_0 f_0_3125 f_1_0 f_1_5 f_0_6875;
   mkAabb f_0_25 f_0_0 f_0_25 f_0_75 f_1_5 f_0_3125;
   mkAabb f_0_25 f_0_0 f_0_6875 f_0_75 f_1_5 f_0_75;
   mkAabb f_0_3125 f_0_0 f_0_0 f_0_6875 f_1_5 f_0_25;
   mkAabb f_0_3125 f_0_0 f_0_75 f_0_6875 f_1_5 f_1_0;
   mkAabb f_0_3125 f_0_0 f_0_0 f_0_6875 f_1_5 f_1_0;
   mkAabb f_0_6875 f_0_0 f_0_3125 f_1_0 f_1_5 f_0_6875;
   mkAabb f_0_0 f_0_0 f_0_3125 f_1_0 f_1_5 f_0_6875;
   mkAabb f_0_3125 f_0_0 f_0_0 f_0_6875 f_1_5 f_0_3125;
   mkAabb f_0_3125 f_0_0 f_0_6875 f_0_6875 f_1_5 f_1_0;
   mkAabb f_0_0 f_0_0 f_0_3125 f_1_0 f_1_5 f_0_6875;
   mkAabb f_0_3125 f_0_0 f_0_0 f_0_6875 f_1_5 f_0_3125;
   mkAabb f_0_3125 f_0_0 f_0_6875 f_0_6875 f_1_5 f_1_0;
   mkAabb f_0_25 f_0_0 f_0_25 f_0_75 f_1_5 f_0_75;
   mkAabb f_0_3125 f_0_0 f_0_0 f_0_6875 f_1_5 f_0_25;
   mkAabb f_0_3125 f_0_0 f_0_75 f_0_6875 f_1_5 f_1_0;
   mkAabb f_0_75 f_0_0 f_0_3125 f_1_0 f_1_5 f_0_6875;
   mkAabb f_0_0 f_0_0 f_0_3125 f_1_0 f_1_5 f_0_6875;
   mkAabb f_0_25 f_0_0 f_0_25 f_0_75 f_1_5 f_0_3125].
Definition SHAPE_BOXES_20 : list Aabb :=
  [mkAabb f_0_25 f_0_0 f_0_6875 f_0_75 f_1_5 f_0_75;
   mkAabb f_0_3125 f_0_0 f_0_0 f_0_6875 f_1_5 f_0_25;
   mkAabb f_0_3125 f_0_0 f_0_75 f_0_6875 f_1_5 f_1_0;
   mkAabb f_0_0 f_0_0 f_0_3125 f_1_0 f_1_5 f_0_6875;
   mkAabb f_0_25 f_0_0 f_0_25 f_0_75 f_1_5 f_0_3125;
   mkAabb f_0_25 f_0_0 f_0_6875 f_0_75 f_1_5 f_0_75;
   mkAabb f_0_3125 f_0_0 f_0_0 f_0_6875 f_1_5 f_0_25;
   mkAabb f_0_3125 f_0_0 f_0_75 f_0_6875 f_1_5 f_1_0;
   mkAabb f_0_3125 f_0_0 f_0_0 f_0_6875 f_1_5 f_1_0;
   mkAabb f_0_6875 f_0_0 f_0_3125 f_1_0 f_1_5 f_0_6875;
   mkAabb f_0_0 f_0_0 f_0_3125 f_1_0 f_1_5 f_0_6875;
   mkAabb f_0_3125 f_0_0 f_0_0 f_0_6875 f_1_5 f_0_3125;
   mkAabb f_0_3125 f_0_0 f_0_6875 f_0_6875 f_1_5 f_1_0;
   mkAabb f_0_0 f_0_0 f_0_3125 f_1_0 f_1_5 f_0_6875;
   mkAabb f_0_3125 f_0_0 f_0_0 f_0_6875 f_1_5 f_0_3125;
   mkAabb f_0_3125 f_0_0 f_0_6875 f_0_6875 f_1_5 f_1_0;
   mkAabb f_0_25 f_0_0 f_0_25 f_0_75 f_1_5 f_0_75;
   mkAabb f_0_75 f_0_0 f_0_3125 f_1_0 f_1_5 f_0_6875;
   mkAabb f_0_0 f_0_0 f_0_3125 f_1_0 f_1_5 f_0_6875;
   mkAabb f_0_25 f_0_0 f_0_25 f_0_75 f_1_5 f_0_3125;
   mkAabb f_0_25 f_0_0 f_0_6875 f_0_75 f_1_5 f_0_75;
   mkAabb f_0_0 f_0_0 f_0_3125 f_1_0 f_1_5 f_0_6875;
   mkAabb f_0_25 f_0_0 f_0_25 f_0_75 f_1_5 f_0_3125;
   mkAabb f_0_25 f_0_0 f_0_6875 f_0_75 f_1_5 f_0_75;
   mkAabb f_0_3125 f_0_0 f_0_3125 f_1_0 f_1_5 f_0_6875;
   mkAabb f_0_0 f_0_0 f_0_3125 f_1_0 f_1_5 f_0_6875;
   mkAabb f_0_0 f_0_0 f_0_3125 f_1_0 f_1_5 f_0_6875;
   mkAabb f_0_25 f_0_0 f_0_25 f_0_75 f_1_5 f_0_75;
   mkAabb f_0_3125 f_0_0 f_0_75 f_0_6875 f_1_5 f_1_0;
   mkAabb f_0_75 f_0_0 f_0_3125 f_1_0 f_1_5 f_0_6875;
   mkAabb f_0_0 f_0_0 f_0_3125 f_1_0 f_1_5 f_0_6875;
   mkAabb f_0_25 f_0_0 f_0_25 f_0_75 f_1_5 f_0_3125;
   mkAabb f_0_25 f_0_0 f_0_6875 f_0_75 f_1_5 f_0_75;
   mkAabb f_0_3125 f_0_0 f_0_75 f_0_6875 f_1_5 f_1_0;
   mkAabb f_0_0 f_0_0 f_0_3125 f_1_0 f_1_5 f_0_6875;
   mkAabb f_0_25 f_0_0 f_0_25 f_0_75 f_1_5 f_0_3125;
   mkAabb f_0_25 f_0_0 f_0_6875 f_0_75 f_1_5 f_0_75;
   mkAabb f_0_3125 f_0_0 f_0_75 f_0_6875 f_1_5 f_1_0;
   mkAabb f_0_3125 f_0_0 f_0_3125 f_0_6875 f_1_5 f_1_0;
   mkAabb f_0_6875 f_0_0 f_0_3125 f_1_0 f_1_5 f_0_6875;
   mkAabb f_0_0 f_0_0 f_0_3125 f_1_0 f_1_5 f_0_6875;
   mkAabb f_0_3125 f_0_0 f_0_6875 f_0_6875 f_1_5 f_1_0;
   mkAabb f_0_0 f_0_0 f_0_3125 f_1_0 f_1_5 f_0_6875;
   mkAabb f_0_3125 f_0_0 f_0_6875 f_0_6875 f_1_5 f_1_0;
   mkAabb f_0_25 f_0_0 f_0_25 f_0_75 f_1_5 f_0_75;
   mkAabb f_0_3125 f_0_0 f_0_75 f_0_6875 f_1_5 f_1_0;
   mkAabb f_0_75 f_0_0 f_0_3125 f_1_0 f_1_5 f_0_6875;
   mkAabb f_0_0 f_0_0 f_0_3125 f_1_0 f_1_5 f_0_6875;
   mkAabb f_0_25 f_0_0 f_0_25 f_0_75 f_1_5 f_0_3125;
   mkAabb f_0_25 f_0_0 f_0_6875 f_0_75 f_1_5 f_0_75;
   mkAabb f_0_3125 f_0_0 f_0_75 f_0_6875 f_1_5 f_1_0;
   mkAabb f_0_0 f_0_0 f_0_3125 f_1_0 f_1_5 f_0_6875;
   mkAabb f_0_25 f_0_0 f_0_25 f_0_75 f_1_5 f_0_3125;
   mkAabb f_0_25 f_0_0 f_0_6875 f_0_75 f_1_5 f_0_75;
   mkAabb f_0_3125 f_0_0 f_0_75 f_0_6875 f_1_5 f_1_0;
   mkAabb f_0_3125 f_0_0 f_0_3125 f_0_6875 f_1_5 f_1_0;
   mkAabb f_0_6875 f_0_0 f_0_3125 f_1_0 f_1_5 f_0_6875;
   mkAabb f_0_0 f_0_0 f_0_3125 f_1_0 f_1_5 f_0_6875;
   mkAabb f_0_3125 f_0_0 f_0_6875 f_0_6875 f_1_5 f_1_0;
   mkAabb f_0_0 f_0_0 f_0_3125 f_1_0 f_1_5 f_0_6875;
   mkAabb f_0_3125 f_0_0 f_0_6875 f_0_6875 f_1_5 f_1_0;
   mkAabb f_0_25 f_0_0 f_0_25 f_0_75 f_1_5 f_0_75;
   mkAabb f_0_3125 f_0_0 f_0_0 f_0_6875 f_1_5 f_0_25;
   mkAabb f_0_75 f_0_0 f_0_3125 f_1_0 f_1_5 f_0_6875;
   mkAabb f_0_0 f_0_0 f_0_3125 f_1_0 f_1_5 f_0_6875;
   mkAabb f_0_25 f_0_0 f_0_25 f_0_75 f_1_5 f_0_3125;
   mkAabb f_0_25 f_0_0 f_0_6875 f_0_75 f_1_5 f_0_75;
   mkAabb f_0_3125 f_0_0 f_0_0 f_0_6875 f_1_5 f_0_25;
   mkAabb f_0_0 f_0_0 f_0_3125 f_1_0 f_1_5 f_0_6875;
   mkAabb f_0_25 f_0_0 f_0_25 f_0_75 f_1_5 f_0_3125;
   mkAabb f_0_25 f_0_0 f_0_6875 f_0_75 f_1_5 f_0_75;
   mkAabb f_0_3125 f_0_0 f_0_0 f_0_6875 f_1_5 f_0_25;
   mkAabb f_0_3125 f_0_0 f_0_0 f_0_6875 f_1_5 f_0_6875;
   mkAabb f_0_6875 f_0_0 f_0_3125 f_1_0 f_1_5 f_0_6875;
   mkAabb f_0_0 f_0_0 f_0_3125 f_1_0 f_1_5 f_0_6875;
   mkAabb f_0_3125 f_0_0 f_0_0 f_0_6875 f_1_5 f_0_3125;
   mkAabb f_0_0 f_0_0 f_0_3125 f_1_0 f_1_5 f_0_6875;
   mkAabb f_0_3125 f_0_0 f_0_0 f_0_6875 f_1_5 f_0_3125;
   mkAabb f_0_25 f_0_0 f_0_25 f_0_75 f_1_5 f_0_75;
   mkAabb f_0_3125 f_0_0 f_0_0 f_0_6875 f_1_5 f_0_25;
   mkAabb f_0_3125 f_0_0 f_0_75 f_0_6875 f_1_5 f_1_0;
   mkAabb f_0_75 f_0_0 f_0_3125 f_1_0 f_1_5 f_0_6875;
   mkAabb f_0_0 f_0_0 f_0_3125 f_1_0 f_1_5 f_0_6875;
   mkAabb f_0_25 f_0_0 f_0_25 f_0_75 f_1_5 f_0_3125;
   mkAabb f_0_25 f_0_0 f_0_6875 f_0_75 f_1_5 f_0_75;
   mkAabb f_0_3125 f_0_0 f_0_0 f_0_6875 f_1_5 f_0_25;
   mkAabb f_0_3125 f_0_0 f_0_75 f_0_6875 f_1_5 f_1_0;
   mkAabb f_0_0 f_0_0 f_0_3125 f_1_0 f_1_5 f_0_6875;
   mkAabb f_0_25 f_0_0 f_0_25 f_0_75 f_1_5 f_0_3125;
   mkAabb f_0_25 f_0_0 f_0_6875 f_0_75 f_1_5 f_0_75;
   mkAabb f_0_3125 f_0_0 f_0_0 f_0_6875 f_1_5 f_0_25;
   mkAabb f_0_3125 f_0_0 f_0_75 f_0_6875 f_1_5 f_1_0;
   mkAabb f_0_3125 f_0_0 f_0_0 f_0_6875 f_1_5 f_1_0;
   mkAabb f_0_6875 f_0_0 f_0_3125 f_1_0 f_1_5 f_0_6875;
   mkAabb f_0_0 f_0_0 f_0_3125 f_1_0 f_1_5 f_0_6875;
   mkAabb f_0_3125 f_0_0 f_0_0 f_0_6875 f_1_5 f_0_3125;
   mkAabb f_0_3125 f_0_0 f_0_6875 f_0_6875 f_1_5 f_1_0;
   mkAabb f_0_0 f_0_0 f_0_3125 f_1_0 f_1_5 f_0_6875;
   mkAabb f_0_3125 f_0_0 f_0_0 f_0_6875 f_1_5 f_0_3125;
   mkAabb f_0_3125 f_0_0 f_0_6875 f_0_6875 f_1_5 f_1_0;
   mkAabb f_0_25 f_0_0 f_0_25 f_0_75 f_1_5 f_0_75;
   mkAabb f_0_3125 f_0_0 f_0_0 f_0_6875 f_1_5 f_0_25;
   mkAabb f_0_3125 f_0_0 f_0_75 f_0_6875 f_1_5 f_1_0;
   mkAabb f_0_75 f_0_0 f_0_3125 f_1_0 f_1_5 f_0_6875;
   mkAabb f_0_0 f_0_0 f_0_3125 f_1_0 f_1_5 f_0_6875;
   mkAabb f_0_25 f_0_0 f_0_25 f_0_75 f_1_5 f_0_3125;
   mkAabb f_0_25 f_0_0 f_0_6875 f_0_75 f_1_5 f_0_75;
   mkAabb f_0_3125 f_0_0 f_0_0 f_0_6875 f_1_5 f_0_25;
   mkAabb f_0_3125 f_0_0 f_0_75 f_0_6875 f_1_5 f_1_0;
   mkAabb f_0_0 f_0_0 f_0_3125 f_1_0 f_1_5 f_0_6875;
   mkAabb f_0_25 f_0_0 f_0_25 f_0_75 f_1_5 f_0_3125;
   mkAabb f_0_25 f_0_0 f_0_6875 f_0_75 f_1_5 f_0_75;
   mkAabb f_0_3125 f_0_0 f_0_0 f_0_6875 f_1_5 f_0_25;
   mkAabb f_0_3125 f_0_0 f_0_75 f_0_6875 f_1_5 f_1_0;
   mkAabb f_0_3125 f_0_0 f_0_0 f_0_6875 f_1_5 f_1_0;
   mkAabb f_0_6875 f_0_0 f_0_3125 f_1_0 f_1_5 f_0_6875;
   mkAabb f_0_0 f_0_0 f_0_3125 f_1_0 f_1_5 f_0_6875;
   mkAabb f_0_3125 f_0_0 f_0_0 f_0_6875 f_1_5 f_0_3125;
   mkAabb f_0_3125 f_0_0 f_0_6875 f_0_6875 f_1_5 f_1_0;
   mkAabb f_0_0 f_0_0 f_0_3125 f_1_0 f_1_5 f_0_6875;
   mkAabb f_0_3125 f_0_0 f_0_0 f_0_6875 f_1_5 f_0_3125;
   mkAabb f_0_3125 f_0_0 f_0_6875 f_0_6875 f_1_5 f_1_0;
   mkAabb f_0_25 f_0_0 f_0_25 f_0_75 f_1_5 f_0_75;
   mkAabb f_0_3125 f_0_0 f_0_0 f_0_6875 f_1_5 f_0_25;
   mkAabb f_0_75 f_0_0 f_0_3125 f_1_0 f_1_5 f_0_6875;
   mkAabb f_0_0 f_0_0 f_0_3125 f_1_0 f_1_5 f_0_6875;
   mkAabb f_0_25 f_0_0 f_0_25 f_0_75 f_1_5 f_0_3125;
   mkAabb f_0_25 f_0_0 f_0_6875 f_0_75 f_1_5 f_0_75;
   mkAabb f_0_3125 f_0_0 f_0_0 f_0_6875 f_1_5 f_0_25;
   mkAabb f_0_0 f_0_0 f_0_3125 f_1_0 f_1_5 f_0_6875;
   mkAabb f_0_25 f_0_0 f_0_25 f_0_75 f_1_5 f_0_3125;
   mkAabb f_0_25 f_0_0 f_0_6875 f_0_75 f_1_5 f_0_75;
   mkAabb f_0_3125 f_0_0 f_0_0 f_0_6875 f_1_5 f_0_25;
   mkAabb f_0_3125 f_0_0 f_0_0 f_0_6875 f_1_5 f_0_6875;
   mkAabb f_0_6875 f_0_0 f_0_3125 f_1_0 f_1_5 f_0_6875;
   mkAabb f_0_0 f_0_0 f_0_3125 f_1_0 f_1_5 f_0_6875;
   mkAabb f_0_3125 f_0_0 f_0_0 f_0_6875 f_1_5 f_0_3125;
   mkAabb f_0_0 f_0_0 f_0_3125 f_1_0 f_1_5 f_0_6875;
   mkAabb f_0_3125 f_0_0 f_0_0 f_0_6875 f_1_5 f_0_3125;
   mkAabb f_0_25 f_0_0 f_0_25 f_0_75 f_1_5 f_0_75;
   mkAabb f_0_3125 f_0_0 f_0_0 f_0_6875 f_1_5 f_0_25;
   mkAabb f_0_3125 f_0_0 f_0_75 f_0_6875 f_1_5 f_1_0;
   mkAabb f_0_75 f_0_0 f_0_3125 f_1_0 f_1_5 f_0_6875;
   mkAabb f_0_0 f_0_0 f_0_3125 f_1_0 f_1_5 f_0_6875;
   mkAabb f_0_25 f_0_0 f_0_25 f_0_75 f_1_5 f_0_3125;
   mkAabb f_0_25 f_0_0 f_0_6875 f_0_75 f_1_5 f_0_75;
   mkAabb f_0_3125 f_0_0 f_0_0 f_0_6875 f_1_5 f_0_25;
   mkAabb f_0_3125 f_0_0 f_0_75 f_0_6875 f_1_5 f_1_0;
   mkAabb f_0_0 f_0_0 f_0_3125 f_1_0 f_1_5 f_0_6875;
   mkAabb f_0_25 f_0_0 f_0_25 f_0_75 f_1_5 f_0_3125].
Definition SHAPE_BOXES_21 : list Aabb :=
  [mkAabb f_0_25 f_0_0 f_0_6875 f_0_75 f_1_5 f_0_75;
   mkAabb f_0_3125 f_0_0 f_0_0 f_0_6875 f_1_5 f_0_25;
   mkAabb f_0_3125 f_0_0 f_0_75 f_0_6875 f_1_5 f_1_0;
   mkAabb f_0_3125 f_0_0 f_0_0 f_0_6875 f_1_5 f_1_0;
   mkAabb f_0_6875 f_0_0 f_0_3125 f_1_0 f_1_5 f_0_6875;
   mkAabb f_0_0 f_0_0 f_0_3125 f_1_0 f_1_5 f_0_6875;
   mkAabb f_0_3125 f_0_0 f_0_0 f_0_6875 f_1_5 f_0_3125;
   mkAabb f_0_3125 f_0_0 f_0_6875 f_0_6875 f_1_5 f_1_0;
   mkAabb f_0_0 f_0_0 f_0_3125 f_1_0 f_1_5 f_0_6875;
   mkAabb f_0_3125 f_0_0 f_0_0 f_0_6875 f_1_5 f_0_3125;
   mkAabb f_0_3125 f_0_0 f_0_6875 f_0_6875 f_1_5 f_1_0;
   mkAabb f_0_25 f_0_0 f_0_25 f_0_75 f_1_5 f_0_75;
   mkAabb f_0_3125 f_0_0 f_0_0 f_0_6875 f_1_5 f_0_25;
   mkAabb f_0_3125 f_0_0 f_0_75 f_0_6875 f_1_5 f_1_0;
   mkAabb f_0_75 f_0_0 f_0_3125 f_1_0 f_1_5 f_0_6875;
   mkAabb f_0_0 f_0_0 f_0_3125 f_1_0 f_1_5 f_0_6875;
   mkAabb f_0_25 f_0_0 f_0_25 f_0_75 f_1_5 f_0_3125;
   mkAabb f_0_25 f_0_0 f_0_6875 f_0_75 f_1_5 f_0_75;
   mkAabb f_0_3125 f_0_0 f_0_0 f_0_6875 f_1_5 f_0_25;
   mkAabb f_0_3125 f_0_0 f_0_75 f_0_6875 f_1_5 f_1_0;
   mkAabb f_0_0 f_0_0 f_0_3125 f_1_0 f_1_5 f_0_6875;
   mkAabb f_0_25 f_0_0 f_0_25 f_0_75 f_1_5 f_0_3125;
   mkAabb f_0_25 f_0_0 f_0_6875 f_0_75 f_1_5 f_0_75;
   mkAabb f_0_3125 f_0_0 f_0_0 f_0_6875 f_1_5 f_0_25;
   mkAabb f_0_3125 f_0_0 f_0_75 f_0_6875 f_1_5 f_1_0;
   mkAabb f_0_3125 f_0_0 f_0_0 f_0_6875 f_1_5 f_1_0;
   mkAabb f_0_6875 f_0_0 f_0_3125 f_1_0 f_1_5 f_0_6875;
   mkAabb f_0_0 f_0_0 f_0_3125 f_1_0 f_1_5 f_0_6875;
   mkAabb f_0_3125 f_0_0 f_0_0 f_0_6875 f_1_5 f_0_3125;
   mkAabb f_0_3125 f_0_0 f_0_6875 f_0_6875 f_1_5 f_1_0;
   mkAabb f_0_0 f_0_0 f_0_3125 f_1_0 f_1_5 f_0_6875;
   mkAabb f_0_3125 f_0_0 f_0_0 f_0_6875 f_1_5 f_0_3125;
   mkAabb f_0_3125 f_0_0 f_0_6875 f_0_6875 f_1_5 f_1_0;
   mkAabb f_0_25 f_0_0 f_0_25 f_0_75 f_1_5 f_0_75;
   mkAabb f_0_0 f_0_0 f_0_3125 f_0_75 f_1_5 f_0_6875;
   mkAabb f_0_25 f_0_0 f_0_25 f_0_75 f_1_5 f_0_3125;
   mkAabb f_0_25 f_0_0 f_0_6875 f_0_75 f_1_5 f_0_75;
   mkAabb f_0_0 f_0_0 f_0_3125 f_0_75 f_1_5 f_0_6875;
   mkAabb f_0_25 f_0_0 f_0_25 f_0_75 f_1_5 f_0_3125;
   mkAabb f_0_25 f_0_0 f_0_6875 f_0_75 f_1_5 f_0_75;
   mkAabb f_0_0 f_0_0 f_0_3125 f_0_6875 f_1_5 f_0_6875;
   mkAabb f_0_0 f_0_0 f_0_3125 f_0_6875 f_1_5 f_0_6875;
   mkAabb f_0_25 f_0_0 f_0_25 f_0_75 f_1_5 f_0_75;
   mkAabb f_0_3125 f_0_0 f_0_75 f_0_6875 f_1_5 f_1_0;
   mkAabb f_0_0 f_0_0 f_0_3125 f_0_75 f_1_5 f_0_6875;
   mkAabb f_0_25 f_0_0 f_0_25 f_0_75 f_1_5 f_0_3125;
   mkAabb f_0_25 f_0_0 f_0_6875 f_0_75 f_1_5 f_0_75;
   mkAabb f_0_3125 f_0_0 f_0_75 f_0_6875 f_1_5 f_1_0;
   mkAabb f_0_0 f_0_0 f_0_3125 f_0_75 f_1_5 f_0_6875;
   mkAabb f_0_25 f_0_0 f_0_25 f_0_75 f_1_5 f_0_3125;
   mkAabb f_0_25 f_0_0 f_0_6875 f_0_75 f_1_5 f_0_75;
   mkAabb f_0_3125 f_0_0 f_0_75 f_0_6875 f_1_5 f_1_0;
   mkAabb f_0_3125 f_0_0 f_0_3125 f_0_6875 f_1_5 f_1_0;
   mkAabb f_0_0 f_0_0 f_0_3125 f_0_6875 f_1_5 f_0_6875;
   mkAabb f_0_3125 f_0_0 f_0_6875 f_0_6875 f_1_5 f_1_0;
   mkAabb f_0_0 f_0_0 f_0_3125 f_0_6875 f_1_5 f_0_6875;
   mkAabb f_0_3125 f_0_0 f_0_6875 f_0_6875 f_1_5 f_1_0;
   mkAabb f_0_25 f_0_0 f_0_25 f_0_75 f_1_5 f_0_75;
   mkAabb f_0_3125 f_0_0 f_0_75 f_0_6875 f_1_5 f_1_0;
   mkAabb f_0_0 f_0_0 f_0_3125 f_0_75 f_1_5 f_0_6875;
   mkAabb f_0_25 f_0_0 f_0_25 f_0_75 f_1_5 f_0_3125;
   mkAabb f_0_25 f_0_0 f_0_6875 f_0_75 f_1_5 f_0_75;
   mkAabb f_0_3125 f_0_0 f_0_75 f_0_6875 f_1_5 f_1_0;
   mkAabb f_0_0 f_0_0 f_0_3125 f_0_75 f_1_5 f_0_6875;
   mkAabb f_0_25 f_0_0 f_0_25 f_0_75 f_1_5 f_0_3125;
   mkAabb f_0_25 f_0_0 f_0_6875 f_0_75 f_1_5 f_0_75;
   mkAabb f_0_3125 f_0_0 f_0_75 f_0_6875 f_1_5 f_1_0;
   mkAabb f_0_3125 f_0_0 f_0_3125 f_0_6875 f_1_5 f_1_0;
   mkAabb f_0_0 f_0_0 f_0_3125 f_0_6875 f_1_5 f_0_6875;
   mkAabb f_0_3125 f_0_0 f_0_6875 f_0_6875 f_1_5 f_1_0;
   mkAabb f_0_0 f_0_0 f_0_3125 f_0_6875 f_1_5 f_0_6875;
   mkAabb f_0_3125 f_0_0 f_0_6875 f_0_6875 f_1_5 f_1_0;
   mkAabb f_0_25 f_0_0 f_0_25 f_0_75 f_1_5 f_0_75;
   mkAabb f_0_3125 f_0_0 f_0_0 f_0_6875 f_1_5 f_0_25;
   mkAabb f_0_0 f_0_0 f_0_3125 f_0_75 f_1_5 f_0_6875;
   mkAabb f_0_25 f_0_0 f_0_25 f_0_75 f_1_5 f_0_3125;
   mkAabb f_0_25 f_0_0 f_0_6875 f_0_75 f_1_5 f_0_75;
   mkAabb f_0_3125 f_0_0 f_0_0 f_0_6875 f_1_5 f_0_25;
   mkAabb f_0_0 f_0_0 f_0_3125 f_0_75 f_1_5 f_0_6875;
   mkAabb f_0_25 f_0_0 f_0_25 f_0_75 f_1_5 f_0_3125;
   mkAabb f_0_25 f_0_0 f_0_6875 f_0_75 f_1_5 f_0_75;
   mkAabb f_0_3125 f_0_0 f_0_0 f_0_6875 f_1_5 f_0_25;
   mkAabb f_0_3125 f_0_0 f_0_0 f_0_6875 f_1_5 f_0_6875;
   mkAabb f_0_0 f_0_0 f_0_3125 f_0_6875 f_1_5 f_0_6875;
   mkAabb f_0_3125 f_0_0 f_0_0 f_0_6875 f_1_5 f_0_3125;
   mkAabb f_0_0 f_0_0 f_0_3125 f_0_6875 f_1_5 f_0_6875;
   mkAabb f_0_3125 f_0_0 f_0_0 f_0_6875 f_1_5 f_0_3125;
   mkAabb f_0_25 f_0_0 f_0_25 f_0_75 f_1_5 f_0_75;
   mkAabb f_0_3125 f_0_0 f_0_0 f_0_6875 f_1_5 f_0_25;
   mkAabb f_0_3125 f_0_0 f_0_75 f_0_6875 f_1_5 f_1_0;
   mkAabb f_0_0 f_0_0 f_0_3125 f_0_75 f_1_5 f_0_6875;
   mkAabb f_0_25 f_0_0 f_0_25 f_0_75 f_1_5 f_0_3125;
   mkAabb f_0_25 f_0_0 f_0_6875 f_0_75 f_1_5 f_0_75;
   mkAabb f_0_3125 f_0_0 f_0_0 f_0_6875 f_1_5 f_0_25;
   mkAabb f_0_3125 f_0_0 f_0_75 f_0_6875 f_1_5 f_1_0;
   mkAabb f_0_0 f_0_0 f_0_3125 f_0_75 f_1_5 f_0_6875;
   mkAabb f_0_25 f_0_0 f_0_25 f_0_75 f_1_5 f_0_3125;
   mkAabb f_0_25 f_0_0 f_0_6875 f_0_75 f_1_5 f_0_75;
   mkAabb f_0_3125 f_0_0 f_0_0 f_0_6875 f_1_5 f_0_25;
   mkAabb f_0_3125 f_0_0 f_0_75 f_0_6875 f_1_5 f_1_0;
   mkAabb f_0_3125 f_0_0 f_0_0 f_0_6875 f_1_5 f_1_0;
   mkAabb f_0_0 f_0_0 f_0_3125 f_0_6875 f_1_5 f_0_6875;
   mkAabb f_0_3125 f_0_0 f_0_0 f_0_6875 f_1_5 f_0_3125;
   mkAabb f_0_3125 f_0_0 f_0_6875 f_0_6875 f_1_5 f_1_0;
   mkAabb f_0_0 f_0_0 f_0_3125 f_0_6875 f_1_5 f_0_6875;
   mkAabb f_0_3125 f_0_0 f_0_0 f_0_6875 f_1_5 f_0_3125;
   mkAabb f_0_3125 f_0_0 f_0_6875 f_0_6875 f_1_5 f_1_0;
   mkAabb f_0_25 f_0_0 f_0_25 f_0_75 f_1_5 f_0_75;
   mkAabb f_0_3125 f_0_0 f_0_0 f_0_6875 f_1_5 f_0_25;
   mkAabb f_0_3125 f_0_0 f_0_75 f_0_6875 f_1_5 f_1_0;
   mkAabb f_0_0 f_0_0 f_0_3125 f_0_75 f_1_5 f_0_6875;
   mkAabb f_0_25 f_0_0 f_0_25 f_0_75 f_1_5 f_0_3125;
   mkAabb f_0_25 f_0_0 f_0_6875 f_0_75 f_1_5 f_0_75;
   mkAabb f_0_3125 f_0_0 f_0_0 f_0_6875 f_1_5 f_0_25;
   mkAabb f_0_3125 f_0_0 f_0_75 f_0_6875 f_1_5 f_1_0;
   mkAabb f_0_0 f_0_0 f_0_3125 f_0_75 f_1_5 f_0_6875;
   mkAabb f_0_25 f_0_0 f_0_25 f_0_75 f_1_5 f_0_3125;
   mkAabb f_0_25 f_0_0 f_0_6875 f_0_75 f_1_5 f_0_75;
   mkAabb f_0_3125 f_0_0 f_0_0 f_0_6875 f_1_5 f_0_25;
   mkAabb f_0_3125 f_0_0 f_0_75 f_0_6875 f_1_5 f_1_0;
   mkAabb f_0_3125 f_0_0 f_0_0 f_0_6875 f_1_5 f_1_0;
   mkAabb f_0_0 f_0_0 f_0_3125 f_0_6875 f_1_5 f_0_6875;
   mkAabb f_0_3125 f_0_0 f_0_0 f_0_6875 f_1_5 f_0_3125;
   mkAabb f_0_3125 f_0_0 f_0_6875 f_0_6875 f_1_5 f_1_0;
   mkAabb f_0_0 f_0_0 f_0_3125 f_0_6875 f_1_5 f_0_6875;
   mkAabb f_0_3125 f_0_0 f_0_0 f_0_6875 f_1_5 f_0_3125;
   mkAabb f_0_3125 f_0_0 f_0_6875 f_0_6875 f_1_5 f_1_0;
   mkAabb f_0_25 f_0_0 f_0_25 f_0_75 f_1_5 f_0_75;
   mkAabb f_0_3125 f_0_0 f_0_0 f_0_6875 f_1_5 f_0_25;
   mkAabb f_0_0 f_0_0 f_0_3125 f_0_75 f_1_5 f_0_6875;
   mkAabb f_0_25 f_0_0 f_0_25 f_0_75 f_1_5 f_0_3125;
   mkAabb f_0_25 f_0_0 f_0_6875 f_0_75 f_1_5 f_0_75;
   mkAabb f_0_3125 f_0_0 f_0_0 f_0_6875 f_1_5 f_0_25;
   mkAabb f_0_0 f_0_0 f_0_3125 f_0_75 f_1_5 f_0_6875;
   mkAabb f_0_25 f_0_0 f_0_25 f_0_75 f_1_5 f_0_3125;
   mkAabb f_0_25 f_0_0 f_0_6875 f_0_75 f_1_5 f_0_75;
   mkAabb f_0_3125 f_0_0 f_0_0 f_0_6875 f_1_5 f_0_25;
   mkAabb f_0_3125 f_0_0 f_0_0 f_0_6875 f_1_5 f_0_6875;
   mkAabb f_0_0 f_0_0 f_0_3125 f_0_6875 f_1_5 f_0_6875;
   mkAabb f_0_3125 f_0_0 f_0_0 f_0_6875 f_1_5 f_0_3125;
   mkAabb f_0_0 f_0_0 f_0_3125 f_0_6875 f_1_5 f_0_6875;
   mkAabb f_0_3125 f_0_0 f_0_0 f_0_6875 f_1_5 f_0_3125;
   mkAabb f_0_25 f_0_0 f_0_25 f_0_75 f_1_5 f_0_75;
   mkAabb f_0_3125 f_0_0 f_0_0 f_0_6875 f_1_5 f_0_25;
   mkAabb f_0_3125 f_0_0 f_0_75 f_0_6875 f_1_5 f_1_0;
   mkAabb f_0_0 f_0_0 f_0_3125 f_0_75 f_1_5 f_0_6875;
   mkAabb f_0_25 f_0_0 f_0_25 f_0_75 f_1_5 f_0_3125;
   mkAabb f_0_25 f_0_0 f_0_6875 f_0_75 f_1_5 f_0_75;
   mkAabb f_0_3125 f_0_0 f_0_0 f_0_6875 f_1_5 f_0_25;
   mkAabb f_0_3125 f_0_0 f_0_75 f_0_6875 f_1_5 f_1_0].
Definition SHAPE_BOXES_22 : list Aabb :=
  [mkAabb f_0_0 f_0_0 f_0_3125 f_0_75 f_1_5 f_0_6875;
   mkAabb f_0_25 f_0_0 f_0_25 f_0_75 f_1_5 f_0_3125;
   mkAabb f_0_25 f_0_0 f_0_6875 f_0_75 f_1_5 f_0_75;
   mkAabb f_0_3125 f_0_0 f_0_0 f_0_6875 f_1_5 f_0_25;
   mkAabb f_0_3125 f_0_0 f_0_75 f_0_6875 f_1_5 f_1_0;
   mkAabb f_0_3125 f_0_0 f_0_0 f_0_6875 f_1_5 f_1_0;
   mkAabb f_0_0 f_0_0 f_0_3125 f_0_6875 f_1_5 f_0_6875;
   mkAabb f_0_3125 f_0_0 f_0_0 f_0_6875 f_1_5 f_0_3125;
   mkAabb f_0_3125 f_0_0 f_0_6875 f_0_6875 f_1_5 f_1_0;
   mkAabb f_0_0 f_0_0 f_0_3125 f_0_6875 f_1_5 f_0_6875;
   mkAabb f_0_3125 f_0_0 f_0_0 f_0_6875 f_1_5 f_0_3125;
   mkAabb f_0_3125 f_0_0 f_0_6875 f_0_6875 f_1_5 f_1_0;
   mkAabb f_0_25 f_0_0 f_0_25 f_0_75 f_1_5 f_0_75;
   mkAabb f_0_3125 f_0_0 f_0_0 f_0_6875 f_1_5 f_0_25;
   mkAabb f_0_3125 f_0_0 f_0_75 f_0_6875 f_1_5 f_1_0;
   mkAabb f_0_0 f_0_0 f_0_3125 f_0_75 f_1_5 f_0_6875;
   mkAabb f_0_25 f_0_0 f_0_25 f_0_75 f_1_5 f_0_3125;
   mkAabb f_0_25 f_0_0 f_0_6875 f_0_75 f_1_5 f_0_75;
   mkAabb f_0_3125 f_0_0 f_0_0 f_0_6875 f_1_5 f_0_25;
   mkAabb f_0_3125 f_0_0 f_0_75 f_0_6875 f_1_5 f_1_0;
   mkAabb f_0_0 f_0_0 f_0_3125 f_0_75 f_1_5 f_0_6875;
   mkAabb f_0_25 f_0_0 f_0_25 f_0_75 f_1_5 f_0_3125;
   mkAabb f_0_25 f_0_0 f_0_6875 f_0_75 f_1_5 f_0_75;
   mkAabb f_0_3125 f_0_0 f_0_0 f_0_6875 f_1_5 f_0_25;
   mkAabb f_0_3125 f_0_0 f_0_75 f_0_6875 f_1_5 f_1_0;
   mkAabb f_0_3125 f_0_0 f_0_0 f_0_6875 f_1_5 f_1_0;
   mkAabb f_0_0 f_0_0 f_0_3125 f_0_6875 f_1_5 f_0_6875;
   mkAabb f_0_3125 f_0_0 f_0_0 f_0_6875 f_1_5 f_0_3125;
   mkAabb f_0_3125 f_0_0 f_0_6875 f_0_6875 f_1_5 f_1_0;
   mkAabb f_0_0 f_0_0 f_0_3125 f_0_6875 f_1_5 f_0_6875;
   mkAabb f_0_3125 f_0_0 f_0_0 f_0_6875 f_1_5 f_0_3125;
   mkAabb f_0_3125 f_0_0 f_0_6875 f_0_6875 f_1_5 f_1_0;
   mkAabb f_0_25 f_0_0 f_0_25 f_0_75 f_1_5 f_0_75;
   mkAabb f_0_75 f_0_0 f_0_3125 f_1_0 f_1_5 f_0_6875;
   mkAabb f_0_0 f_0_0 f_0_3125 f_1_0 f_1_5 f_0_6875;
   mkAabb f_0_25 f_0_0 f_0_25 f_0_75 f_1_5 f_0_3125;
   mkAabb f_0_25 f_0_0 f_0_6875 f_0_75 f_1_5 f_0_75;
   mkAabb f_0_0 f_0_0 f_0_3125 f_1_0 f_1_5 f_0_6875;
   mkAabb f_0_25 f_0_0 f_0_25 f_0_75 f_1_5 f_0_3125;
   mkAabb f_0_25 f_0_0 f_0_6875 f_0_75 f_1_5 f_0_75;
   mkAabb f_0_3125 f_0_0 f_0_3125 f_1_0 f_1_5 f_0_6875;
   mkAabb f_0_0 f_0_0 f_0_3125 f_1_0 f_1_5 f_0_6875;
   mkAabb f_0_0 f_0_0 f_0_3125 f_1_0 f_1_5 f_0_6875;
   mkAabb f_0_25 f_0_0 f_0_25 f_0_75 f_1_5 f_0_75;
   mkAabb f_0_3125 f_0_0 f_0_75 f_0_6875 f_1_5 f_1_0;
   mkAabb f_0_75 f_0_0 f_0_3125 f_1_0 f_1_5 f_0_6875;
   mkAabb f_0_0 f_0_0 f_0_3125 f_1_0 f_1_5 f_0_6875;
   mkAabb f_0_25 f_0_0 f_0_25 f_0_75 f_1_5 f_0_3125;
   mkAabb f_0_25 f_0_0 f_0_6875 f_0_75 f_1_5 f_0_75;
   mkAabb f_0_3125 f_0_0 f_0_75 f_0_6875 f_1_5 f_1_0;
   mkAabb f_0_0 f_0_0 f_0_3125 f_1_0 f_1_5 f_0_6875;
   mkAabb f_0_25 f_0_0 f_0_25 f_0_75 f_1_5 f_0_3125;
   mkAabb f_0_25 f_0_0 f_0_6875 f_0_75 f_1_5 f_0_75;
   mkAabb f_0_3125 f_0_0 f_0_75 f_0_6875 f_1_5 f_1_0;
   mkAabb f_0_3125 f_0_0 f_0_3125 f_0_6875 f_1_5 f_1_0;
   mkAabb f_0_6875 f_0_0 f_0_3125 f_1_0 f_1_5 f_0_6875;
   mkAabb f_0_0 f_0_0 f_0_3125 f_1_0 f_1_5 f_0_6875;
   mkAabb f_0_3125 f_0_0 f_0_6875 f_0_6875 f_1_5 f_1_0;
   mkAabb f_0_0 f_0_0 f_0_3125 f_1_0 f_1_5 f_0_6875;
   mkAabb f_0_3125 f_0_0 f_0_6875 f_0_6875 f_1_5 f_1_0;
   mkAabb f_0_25 f_0_0 f_0_25 f_0_75 f_1_5 f_0_75;
   mkAabb f_0_3125 f_0_0 f_0_75 f_0_6875 f_1_5 f_1_0;
   mkAabb f_0_75 f_0_0 f_0_3125 f_1_0 f_1_5 f_0_6875;
   mkAabb f_0_0 f_0_0 f_0_3125 f_1_0 f_1_5 f_0_6875;
   mkAabb f_0_25 f_0_0 f_0_25 f_0_75 f_1_5 f_0_3125;
   mkAabb f_0_25 f_0_0 f_0_6875 f_0_75 f_1_5 f_0_75;
   mkAabb f_0_3125 f_0_0 f_0_75 f_0_6875 f_1_5 f_1_0;
   mkAabb f_0_0 f_0_0 f_0_3125 f_1_0 f_1_5 f_0_6875;
   mkAabb f_0_25 f_0_0 f_0_25 f_0_75 f_1_5 f_0_3125;
   mkAabb f_0_25 f_0_0 f_0_6875 f_0_75 f_1_5 f_0_75;
   mkAabb f_0_3125 f_0_0 f_0_75 f_0_6875 f_1_5 f_1_0;
   mkAabb f_0_3125 f_0_0 f_0_3125 f_0_6875 f_1_5 f_1_0;
   mkAabb f_0_6875 f_0_0 f_0_3125 f_1_0 f_1_5 f_0_6875;
   mkAabb f_0_0 f_0_0 f_0_3125 f_1_0 f_1_5 f_0_6875;
   mkAabb f_0_3125 f_0_0 f_0_6875 f_0_6875 f_1_5 f_1_0;
   mkAabb f_0_0 f_0_0 f_0_3125 f_1_0 f_1_5 f_0_6875;
   mkAabb f_0_3125 f_0_0 f_0_6875 f_0_6875 f_1_5 f_1_0;
   mkAabb f_0_25 f_0_0 f_0_25 f_0_75 f_1_5 f_0_75;
   mkAabb f_0_3125 f_0_0 f_0_0 f_0_6875 f_1_5 f_0_25;
   mkAabb f_0_75 f_0_0 f_0_3125 f_1_0 f_1_5 f_0_6875;
   mkAabb f_0_0 f_0_0 f_0_3125 f_1_0 f_1_5 f_0_6875;
   mkAabb f_0_25 f_0_0 f_0_25 f_0_75 f_1_5 f_0_3125;
   mkAabb f_0_25 f_0_0 f_0_6875 f_0_75 f_1_5 f_0_75;
   mkAabb f_0_3125 f_0_0 f_0_0 f_0_6875 f_1_5 f_0_25;
   mkAabb f_0_0 f_0_0 f_0_3125 f_1_0 f_1_5 f_0_6875;
   mkAabb f_0_25 f_0_0 f_0_25 f_0_75 f_1_5 f_0_3125;
   mkAabb f_0_25 f_0_0 f_0_6875 f_0_75 f_1_5 f_0_75;
   mkAabb f_0_3125 f_0_0 f_0_0 f_0_6875 f_1_5 f_0_25;
   mkAabb f_0_3125 f_0_0 f_0_0 f_0_6875 f_1_5 f_0_6875;
   mkAabb f_0_6875 f_0_0 f_0_3125 f_1_0 f_1_5 f_0_6875;
   mkAabb f_0_0 f_0_0 f_0_3125 f_1_0 f_1_5 f_0_6875;
   mkAabb f_0_3125 f_0_0 f_0_0 f_0_6875 f_1_5 f_0_3125;
   mkAabb f_0_0 f_0_0 f_0_3125 f_1_0 f_1_5 f_0_6875;
   mkAabb f_0_3125 f_0_0 f_0_0 f_0_6875 f_1_5 f_0_3125;
   mkAabb f_0_25 f_0_0 f_0_25 f_0_75 f_1_5 f_0_75;
   mkAabb f_0_3125 f_0_0 f_0_0 f_0_6875 f_1_5 f_0_25;
   mkAabb f_0_3125 f_0_0 f_0_75 f_0_6875 f_1_5 f_1_0;
   mkAabb f_0_75 f_0_0 f_0_3125 f_1_0 f_1_5 f_0_6875;
   mkAabb f_0_0 f_0_0 f_0_3125 f_1_0 f_1_5 f_0_6875;
   mkAabb f_0_25 f_0_0 f_0_25 f_0_75 f_1_5 f_0_3125;
   mkAabb f_0_25 f_0_0 f_0_6875 f_0_75 f_1_5 f_0_75;
   mkAabb f_0_3125 f_0_0 f_0_0 f_0_6875 f_1_5 f_0_25;
   mkAabb f_0_3125 f_0_0 f_0_75 f_0_6875 f_1_5 f_1_0;
   mkAabb f_0_0 f_0_0 f_0_3125 f_1_0 f_1_5 f_0_6875;
   mkAabb f_0_25 f_0_0 f_0_25 f_0_75 f_1_5 f_0_3125;
   mkAabb f_0_25 f_0_0 f_0_6875 f_0_75 f_1_5 f_0_75;
   mkAabb f_0_3125 f_0_0 f_0_0 f_0_6875 f_1_5 f_0_25;
   mkAabb f_0_3125 f_0_0 f_0_75 f_0_6875 f_1_5 f_1_0;
   mkAabb f_0_3125 f_0_0 f_0_0 f_0_6875 f_1_5 f_1_0;
   mkAabb f_0_6875 f_0_0 f_0_3125 f_1_0 f_1_5 f_0_6875;
   mkAabb f_0_0 f_0_0 f_0_3125 f_1_0 f_1_5 f_0_6875;
   mkAabb f_0_3125 f_0_0 f_0_0 f_0_6875 f_1_5 f_0_3125;
   mkAabb f_0_3125 f_0_0 f_0_6875 f_0_6875 f_1_5 f_1_0;
   mkAabb f_0_0 f_0_0 f_0_3125 f_1_0 f_1_5 f_0_6875;
   mkAabb f_0_3125 f_0_0 f_0_0 f_0_6875 f_1_5 f_0_3125;
   mkAabb f_0_3125 f_0_0 f_0_6875 f_0_6875 f_1_5 f_1_0;
   mkAabb f_0_25 f_0_0 f_0_25 f_0_75 f_1_5 f_0_75;
   mkAabb f_0_3125 f_0_0 f_0_0 f_0_6875 f_1_5 f_0_25;
   mkAabb f_0_3125 f_0_0 f_0_75 f_0_6875 f_1_5 f_1_0;
   mkAabb f_0_75 f_0_0 f_0_3125 f_1_0 f_1_5 f_0_6875;
   mkAabb f_0_0 f_0_0 f_0_3125 f_1_0 f_1_5 f_0_6875;
   mkAabb f_0_25 f_0_0 f_0_25 f_0_75 f_1_5 f_0_3125;
   mkAabb f_0_25 f_0_0 f_0_6875 f_0_75 f_1_5 f_0_75;
   mkAabb f_0_3125 f_0_0 f_0_0 f_0_6875 f_1_5 f_0_25;
   mkAabb f_0_3125 f_0_0 f_0_75 f_0_6875 f_1_5 f_1_0;
   mkAabb f_0_0 f_0_0 f_0_3125 f_1_0 f_1_5 f_0_6875;
   mkAabb f_0_25 f_0_0 f_0_25 f_0_75 f_1_5 f_0_3125;
   mkAabb f_0_25 f_0_0 f_0_6875 f_0_75 f_1_5 f_0_75;
   mkAabb f_0_3125 f_0_0 f_0_0 f_0_6875 f_1_5 f_0_25;
   mkAabb f_0_3125 f_0_0 f_0_75 f_0_6875 f_1_5 f_1_0;
   mkAabb f_0_3125 f_0_0 f_0_0 f_0_6875 f_1_5 f_1_0;
   mkAabb f_0_6875 f_0_0 f_0_3125 f_1_0 f_1_5 f_0_6875;
   mkAabb f_0_0 f_0_0 f_0_3125 f_1_0 f_1_5 f_0_6875;
   mkAabb f_0_3125 f_0_0 f_0_0 f_0_6875 f_1_5 f_0_3125;
   mkAabb f_0_3125 f_0_0 f_0_6875 f_0_6875 f_1_5 f_1_0;
   mkAabb f_0_0 f_0_0 f_0_3125 f_1_0 f_1_5 f_0_6875;
   mkAabb f_0_3125 f_0_0 f_0_0 f_0_6875 f_1_5 f_0_3125;
   mkAabb f_0_3125 f_0_0 f_0_6875 f_0_6875 f_1_5 f_1_0;
   mkAabb f_0_25 f_0_0 f_0_25 f_0_75 f_1_5 f_0_75;
   mkAabb f_0_3125 f_0_0 f_0_0 f_0_6875 f_1_5 f_0_25;
   mkAabb f_0_75 f_0_0 f_0_3125 f_1_0 f_1_5 f_0_6875;
   mkAabb f_0_0 f_0_0 f_0_3125 f_1_0 f_1_5 f_0_6875;
   mkAabb f_0_25 f_0_0 f_0_25 f_0_75 f_1_5 f_0_3125;
   mkAabb f_0_25 f_0_0 f_0_6875 f_0_75 f_1_5 f_0_75;
   mkAabb f_0_3125 f_0_0 f_0_0 f_0_6875 f_1_5 f_0_25;
   mkAabb f_0_0 f_0_0 f_0_3125 f_1_0 f_1_5 f_0_6875;
   mkAabb f_0_25 f_0_0 f_0_25 f_0_75 f_1_5 f_0_3125;
   mkAabb f_0_25 f_0_0 f_0_6875 f_0_75 f_1_5 f_0_75;
   mkAabb f_0_3125 f_0_0 f_0_0 f_0_6875 f_1_5 f_0_25;
   mkAabb f_0_3125 f_0_0 f_0_0 f_0_6875 f_1_5 f_0_6875].
Definition SHAPE_BOXES_23 : list Aabb :=
  [mkAabb f_0_6875 f_0_0 f_0_3125 f_1_0 f_1_5 f_0_6875;
   mkAabb f_0_0 f_0_0 f_0_3125 f_1_0 f_1_5 f_0_6875;
   mkAabb f_0_3125 f_0_0 f_0_0 f_0_6875 f_1_5 f_0_3125;
   mkAabb f_0_0 f_0_0 f_0_3125 f_1_0 f_1_5 f_0_6875;
   mkAabb f_0_3125 f_0_0 f_0_0 f_0_6875 f_1_5 f_0_3125;
   mkAabb f_0_25 f_0_0 f_0_25 f_0_75 f_1_5 f_0_75;
   mkAabb f_0_3125 f_0_0 f_0_0 f_0_6875 f_1_5 f_0_25;
   mkAabb f_0_3125 f_0_0 f_0_75 f_0_6875 f_1_5 f_1_0;
   mkAabb f_0_75 f_0_0 f_0_3125 f_1_0 f_1_5 f_0_6875;
   mkAabb f_0_0 f_0_0 f_0_3125 f_1_0 f_1_5 f_0_6875;
   mkAabb f_0_25 f_0_0 f_0_25 f_0_75 f_1_5 f_0_3125;
   mkAabb f_0_25 f_0_0 f_0_6875 f_0_75 f_1_5 f_0_75;
   mkAabb f_0_3125 f_0_0 f_0_0 f_0_6875 f_1_5 f_0_25;
   mkAabb f_0_3125 f_0_0 f_0_75 f_0_6875 f_1_5 f_1_0;
   mkAabb f_0_0 f_0_0 f_0_3125 f_1_0 f_1_5 f_0_6875;
   mkAabb f_0_25 f_0_0 f_0_25 f_0_75 f_1_5 f_0_3125;
   mkAabb f_0_25 f_0_0 f_0_6875 f_0_75 f_1_5 f_0_75;
   mkAabb f_0_3125 f_0_0 f_0_0 f_0_6875 f_1_5 f_0_25;
   mkAabb f_0_3125 f_0_0 f_0_75 f_0_6875 f_1_5 f_1_0;
   mkAabb f_0_3125 f_0_0 f_0_0 f_0_6875 f_1_5 f_1_0;
   mkAabb f_0_6875 f_0_0 f_0_3125 f_1_0 f_1_5 f_0_6875;
   mkAabb f_0_0 f_0_0 f_0_3125 f_1_0 f_1_5 f_0_6875;
   mkAabb f_0_3125 f_0_0 f_0_0 f_0_6875 f_1_5 f_0_3125;
   mkAabb f_0_3125 f_0_0 f_0_6875 f_0_6875 f_1_5 f_1_0;
   mkAabb f_0_0 f_0_0 f_0_3125 f_1_0 f_1_5 f_0_6875;
   mkAabb f_0_3125 f_0_0 f_0_0 f_0_6875 f_1_5 f_0_3125;
   mkAabb f_0_3125 f_0_0 f_0_6875 f_0_6875 f_1_5 f_1_0;
   mkAabb f_0_25 f_0_0 f_0_25 f_0_75 f_1_5 f_0_75;
   mkAabb f_0_3125 f_0_0 f_0_0 f_0_6875 f_1_5 f_0_25;
   mkAabb f_0_3125 f_0_0 f_0_75 f_0_6875 f_1_5 f_1_0;
   mkAabb f_0_75 f_0_0 f_0_3125 f_1_0 f_1_5 f_0_6875;
   mkAabb f_0_0 f_0_0 f_0_3125 f_1_0 f_1_5 f_0_6875;
   mkAabb f_0_25 f_0_0 f_0_25 f_0_75 f_1_5 f_0_3125;
   mkAabb f_0_25 f_0_0 f_0_6875 f_0_75 f_1_5 f_0_75;
   mkAabb f_0_3125 f_0_0 f_0_0 f_0_6875 f_1_5 f_0_25;
   mkAabb f_0_3125 f_0_0 f_0_75 f_0_6875 f_1_5 f_1_0;
   mkAabb f_0_0 f_0_0 f_0_3125 f_1_0 f_1_5 f_0_6875;
   mkAabb f_0_25 f_0_0 f_0_25 f_0_75 f_1_5 f_0_3125;
   mkAabb f_0_25 f_0_0 f_0_6875 f_0_75 f_1_5 f_0_75;
   mkAabb f_0_3125 f_0_0 f_0_0 f_0_6875 f_1_5 f_0_25;
   mkAabb f_0_3125 f_0_0 f_0_75 f_0_6875 f_1_5 f_1_0;
   mkAabb f_0_3125 f_0_0 f_0_0 f_0_6875 f_1_5 f_1_0;
   mkAabb f_0_6875 f_0_0 f_0_3125 f_1_0 f_1_5 f_0_6875;
   mkAabb f_0_0 f_0_0 f_0_3125 f_1_0 f_1_5 f_0_6875;
   mkAabb f_0_3125 f_0_0 f_0_0 f_0_6875 f_1_5 f_0_3125;
   mkAabb f_0_3125 f_0_0 f_0_6875 f_0_6875 f_1_5 f_1_0;
   mkAabb f_0_0 f_0_0 f_0_3125 f_1_0 f_1_5 f_0_6875;
   mkAabb f_0_3125 f_0_0 f_0_0 f_0_6875 f_1_5 f_0_3125;
   mkAabb f_0_3125 f_0_0 f_0_6875 f_0_6875 f_1_5 f_1_0;
   mkAabb f_0_25 f_0_0 f_0_25 f_0_75 f_1_5 f_0_75;
   mkAabb f_0_75 f_0_0 f_0_3125 f_1_0 f_1_5 f_0_6875;
   mkAabb f_0_0 f_0_0 f_0_3125 f_1_0 f_1_5 f_0_6875;
   mkAabb f_0_25 f_0_0 f_0_25 f_0_75 f_1_5 f_0_3125;
   mkAabb f_0_25 f_0_0 f_0_6875 f_0_75 f_1_5 f_0_75;
   mkAabb f_0_0 f_0_0 f_0_3125 f_1_0 f_1_5 f_0_6875;
   mkAabb f_0_25 f_0_0 f_0_25 f_0_75 f_1_5 f_0_3125;
   mkAabb f_0_25 f_0_0 f_0_6875 f_0_75 f_1_5 f_0_75;
   mkAabb f_0_3125 f_0_0 f_0_3125 f_1_0 f_1_5 f_0_6875;
   mkAabb f_0_0 f_0_0 f_0_3125 f_1_0 f_1_5 f_0_6875;
   mkAabb f_0_0 f_0_0 f_0_3125 f_1_0 f_1_5 f_0_6875;
   mkAabb f_0_25 f_0_0 f_0_25 f_0_75 f_1_5 f_0_75;
   mkAabb f_0_3125 f_0_0 f_0_75 f_0_6875 f_1_5 f_1_0;
   mkAabb f_0_75 f_0_0 f_0_3125 f_1_0 f_1_5 f_0_6875;
   mkAabb f_0_0 f_0_0 f_0_3125 f_1_0 f_1_5 f_0_6875;
   mkAabb f_0_25 f_0_0 f_0_25 f_0_75 f_1_5 f_0_3125;
   mkAabb f_0_25 f_0_0 f_0_6875 f_0_75 f_1_5 f_0_75;
   mkAabb f_0_3125 f_0_0 f_0_75 f_0_6875 f_1_5 f_1_0;
   mkAabb f_0_0 f_0_0 f_0_3125 f_1_0 f_1_5 f_0_6875;
   mkAabb f_0_25 f_0_0 f_0_25 f_0_75 f_1_5 f_0_3125;
   mkAabb f_0_25 f_0_0 f_0_6875 f_0_75 f_1_5 f_0_75;
   mkAabb f_0_3125 f_0_0 f_0_75 f_0_6875 f_1_5 f_1_0;
   mkAabb f_0_3125 f_0_0 f_0_3125 f_0_6875 f_1_5 f_1_0;
   mkAabb f_0_6875 f_0_0 f_0_3125 f_1_0 f_1_5 f_0_6875;
   mkAabb f_0_0 f_0_0 f_0_3125 f_1_0 f_1_5 f_0_6875;
   mkAabb f_0_3125 f_0_0 f_0_6875 f_0_6875 f_1_5 f_1_0;
   mkAabb f_0_0 f_0_0 f_0_3125 f_1_0 f_1_5 f_0_6875;
   mkAabb f_0_3125 f_0_0 f_0_6875 f_0_6875 f_1_5 f_1_0;
   mkAabb f_0_25 f_0_0 f_0_25 f_0_75 f_1_5 f_0_75;
   mkAabb f_0_3125 f_0_0 f_0_75 f_0_6875 f_1_5 f_1_0;
   mkAabb f_0_75 f_0_0 f_0_3125 f_1_0 f_1_5 f_0_6875;
   mkAabb f_0_0 f_0_0 f_0_3125 f_1_0 f_1_5 f_0_6875;
   mkAabb f_0_25 f_0_0 f_0_25 f_0_75 f_1_5 f_0_3125;
   mkAabb f_0_25 f_0_0 f_0_6875 f_0_75 f_1_5 f_0_75;
   mkAabb f_0_3125 f_0_0 f_0_75 f_0_6875 f_1_5 f_1_0;
   mkAabb f_0_0 f_0_0 f_0_3125 f_1_0 f_1_5 f_0_6875;
   mkAabb f_0_25 f_0_0 f_0_25 f_0_75 f_1_5 f_0_3125;
   mkAabb f_0_25 f_0_0 f_0_6875 f_0_75 f_1_5 f_0_75;
   mkAabb f_0_3125 f_0_0 f_0_75 f_0_6875 f_1_5 f_1_0;
   mkAabb f_0_3125 f_0_0 f_0_3125 f_0_6875 f_1_5 f_1_0;
   mkAabb f_0_6875 f_0_0 f_0_3125 f_1_0 f_1_5 f_0_6875;
   mkAabb f_0_0 f_0_0 f_0_3125 f_1_0 f_1_5 f_0_6875;
   mkAabb f_0_3125 f_0_0 f_0_6875 f_0_6875 f_1_5 f_1_0;
   mkAabb f_0_0 f_0_0 f_0_3125 f_1_0 f_1_5 f_0_6875;
   mkAabb f_0_3125 f_0_0 f_0_6875 f_0_6875 f_1_5 f_1_0;
   mkAabb f_0_25 f_0_0 f_0_25 f_0_75 f_1_5 f_0_75;
   mkAabb f_0_3125 f_0_0 f_0_0 f_0_6875 f_1_5 f_0_25;
   mkAabb f_0_75 f_0_0 f_0_3125 f_1_0 f_1_5 f_0_6875;
   mkAabb f_0_0 f_0_0 f_0_3125 f_1_0 f_1_5 f_0_6875;
   mkAabb f_0_25 f_0_0 f_0_25 f_0_75 f_1_5 f_0_3125;
   mkAabb f_0_25 f_0_0 f_0_6875 f_0_75 f_1_5 f_0_75;
   mkAabb f_0_3125 f_0_0 f_0_0 f_0_6875 f_1_5 f_0_25;
   mkAabb f_0_0 f_0_0 f_0_3125 f_1_0 f_1_5 f_0_6875;
   mkAabb f_0_25 f_0_0 f_0_25 f_0_75 f_1_5 f_0_3125;
   mkAabb f_0_25 f_0_0 f_0_6875 f_0_75 f_1_5 f_0_75;
   mkAabb f_0_3125 f_0_0 f_0_0 f_0_6875 f_1_5 f_0_25;
   mkAabb f_0_3125 f_0_0 f_0_0 f_0_6875 f_1_5 f_0_6875;
   mkAabb f_0_6875 f_0_0 f_0_3125 f_1_0 f_1_5 f_0_6875;
   mkAabb f_0_0 f_0_0 f_0_3125 f_1_0 f_1_5 f_0_6875;
   mkAabb f_0_3125 f_0_0 f_0_0 f_0_6875 f_1_5 f_0_3125;
   mkAabb f_0_0 f_0_0 f_0_3125 f_1_0 f_1_5 f_0_6875;
   mkAabb f_0_3125 f_0_0 f_0_0 f_0_6875 f_1_5 f_0_3125;
   mkAabb f_0_25 f_0_0 f_0_25 f_0_75 f_1_5 f_0_75;
   mkAabb f_0_3125 f_0_0 f_0_0 f_0_6875 f_1_5 f_0_25;
   mkAabb f_0_3125 f_0_0 f_0_75 f_0_6875 f_1_5 f_1_0;
   mkAabb f_0_75 f_0_0 f_0_3125 f_1_0 f_1_5 f_0_6875;
   mkAabb f_0_0 f_0_0 f_0_3125 f_1_0 f_1_5 f_0_6875;
   mkAabb f_0_25 f_0_0 f_0_25 f_0_75 f_1_5 f_0_3125;
   mkAabb f_0_25 f_0_0 f_0_6875 f_0_75 f_1_5 f_0_75;
   mkAabb f_0_3125 f_0_0 f_0_0 f_0_6875 f_1_5 f_0_25;
   mkAabb f_0_3125 f_0_0 f_0_75 f_0_6875 f_1_5 f_1_0;
   mkAabb f_0_0 f_0_0 f_0_3125 f_1_0 f_1_5 f_0_6875;
   mkAabb f_0_25 f_0_0 f_0_25 f_0_75 f_1_5 f_0_3125;
   mkAabb f_0_25 f_0_0 f_0_6875 f_0_75 f_1_5 f_0_75;
   mkAabb f_0_3125 f_0_0 f_0_0 f_0_6875 f_1_5 f_0_25;
   mkAabb f_0_3125 f_0_0 f_0_75 f_0_6875 f_1_5 f_1_0;
   mkAabb f_0_3125 f_0_0 f_0_0 f_0_6875 f_1_5 f_1_0;
   mkAabb f_0_6875 f_0_0 f_0_3125 f_1_0 f_1_5 f_0_6875;
   mkAabb f_0_0 f_0_0 f_0_3125 f_1_0 f_1_5 f_0_6875;
   mkAabb f_0_3125 f_0_0 f_0_0 f_0_6875 f_1_5 f_0_3125;
   mkAabb f_0_3125 f_0_0 f_0_6875 f_0_6875 f_1_5 f_1_0;
   mkAabb f_0_0 f_0_0 f_0_3125 f_1_0 f_1_5 f_0_6875;
   mkAabb f_0_3125 f_0_0 f_0_0 f_0_6875 f_1_5 f_0_3125;
   mkAabb f_0_3125 f_0_0 f_0_6875 f_0_6875 f_1_5 f_1_0;
   mkAabb f_0_25 f_0_0 f_0_25 f_0_75 f_1_5 f_0_75;
   mkAabb f_0_3125 f_0_0 f_0_0 f_0_6875 f_1_5 f_0_25;
   mkAabb f_0_3125 f_0_0 f_0_75 f_0_6875 f_1_5 f_1_0;
   mkAabb f_0_75 f_0_0 f_0_3125 f_1_0 f_1_5 f_0_6875;
   mkAabb f_0_0 f_0_0 f_0_3125 f_1_0 f_1_5 f_0_6875;
   mkAabb f_0_25 f_0_0 f_0_25 f_0_75 f_1_5 f_0_3125;
   mkAabb f_0_25 f_0_0 f_0_6875 f_0_75 f_1_5 f_0_75;
   mkAabb f_0_3125 f_0_0 f_0_0 f_0_6875 f_1_5 f_0_25;
   mkAabb f_0_3125 f_0_0 f_0_75 f_0_6875 f_1_5 f_1_0;
   mkAabb f_0_0 f_0_0 f_0_3125 f_1_0 f_1_5 f_0_6875;
   mkAabb f_0_25 f_0_0 f_0_25 f_0_75 f_1_5 f_0_3125;
   mkAabb f_0_25 f_0_0 f_0_6875 f_0_75 f_1_5 f_0_75;
   mkAabb f_0_3125 f_0_0 f_0_0 f_0_6875 f_1_5 f_0_25;
   mkAabb f_0_3125 f_0_0 f_0_75 f_0_6875 f_1_5 f_1_0;
   mkAabb f_0_3125 f_0_0 f_0_0 f_0_6875 f_1_5 f_1_0;
   mkAabb f_0_6875 f_0_0 f_0_3125 f_1_0 f_1_5 f_0_6875;
   mkAabb f_0_0 f_0_0 f_0_3125 f_1_0 f_1_5 f_0_6875].
Definition SHAPE_BOXES_24 : list Aabb :=
  [mkAabb f_0_3125 f_0_0 f_0_0 f_0_6875 f_1_5 f_0_3125;
   mkAabb f_0_3125 f_0_0 f_0_6875 f_0_6875 f_1_5 f_1_0;
   mkAabb f_0_0 f_0_0 f_0_3125 f_1_0 f_1_5 f_0_6875;
   mkAabb f_0_3125 f_0_0 f_0_0 f_0_6875 f_1_5 f_0_3125;
   mkAabb f_0_3125 f_0_0 f_0_6875 f_0_6875 f_1_5 f_1_0;
   mkAabb f_0_25 f_0_0 f_0_25 f_0_75 f_1_5 f_0_75;
   mkAabb f_0_3125 f_0_0 f_0_0 f_0_6875 f_1_5 f_0_25;
   mkAabb f_0_75 f_0_0 f_0_3125 f_1_0 f_1_5 f_0_6875;
   mkAabb f_0_0 f_0_0 f_0_3125 f_1_0 f_1_5 f_0_6875;
   mkAabb f_0_25 f_0_0 f_0_25 f_0_75 f_1_5 f_0_3125;
   mkAabb f_0_25 f_0_0 f_0_6875 f_0_75 f_1_5 f_0_75;
   mkAabb f_0_3125 f_0_0 f_0_0 f_0_6875 f_1_5 f_0_25;
   mkAabb f_0_0 f_0_0 f_0_3125 f_1_0 f_1_5 f_0_6875;
   mkAabb f_0_25 f_0_0 f_0_25 f_0_75 f_1_5 f_0_3125;
   mkAabb f_0_25 f_0_0 f_0_6875 f_0_75 f_1_5 f_0_75;
   mkAabb f_0_3125 f_0_0 f_0_0 f_0_6875 f_1_5 f_0_25;
   mkAabb f_0_3125 f_0_0 f_0_0 f_0_6875 f_1_5 f_0_6875;
   mkAabb f_0_6875 f_0_0 f_0_3125 f_1_0 f_1_5 f_0_6875;
   mkAabb f_0_0 f_0_0 f_0_3125 f_1_0 f_1_5 f_0_6875;
   mkAabb f_0_3125 f_0_0 f_0_0 f_0_6875 f_1_5 f_0_3125;
   mkAabb f_0_0 f_0_0 f_0_3125 f_1_0 f_1_5 f_0_6875;
   mkAabb f_0_3125 f_0_0 f_0_0 f_0_6875 f_1_5 f_0_3125;
   mkAabb f_0_25 f_0_0 f_0_25 f_0_75 f_1_5 f_0_75;
   mkAabb f_0_3125 f_0_0 f_0_0 f_0_6875 f_1_5 f_0_25;
   mkAabb f_0_3125 f_0_0 f_0_75 f_0_6875 f_1_5 f_1_0;
   mkAabb f_0_75 f_0_0 f_0_3125 f_1_0 f_1_5 f_0_6875;
   mkAabb f_0_0 f_0_0 f_0_3125 f_1_0 f_1_5 f_0_6875;
   mkAabb f_0_25 f_0_0 f_0_25 f_0_75 f_1_5 f_0_3125;
   mkAabb f_0_25 f_0_0 f_0_6875 f_0_75 f_1_5 f_0_75;
   mkAabb f_0_3125 f_0_0 f_0_0 f_0_6875 f_1_5 f_0_25;
   mkAabb f_0_3125 f_0_0 f_0_75 f_0_6875 f_1_5 f_1_0;
   mkAabb f_0_0 f_0_0 f_0_3125 f_1_0 f_1_5 f_0_6875;
   mkAabb f_0_25 f_0_0 f_0_25 f_0_75 f_1_5 f_0_3125;
   mkAabb f_0_25 f_0_0 f_0_6875 f_0_75 f_1_5 f_0_75;
   mkAabb f_0_3125 f_0_0 f_0_0 f_0_6875 f_1_5 f_0_25;
   mkAabb f_0_3125 f_0_0 f_0_75 f_0_6875 f_1_5 f_1_0;
   mkAabb f_0_3125 f_0_0 f_0_0 f_0_6875 f_1_5 f_1_0;
   mkAabb f_0_6875 f_0_0 f_0_3125 f_1_0 f_1_5 f_0_6875;
   mkAabb f_0_0 f_0_0 f_0_3125 f_1_0 f_1_5 f_0_6875;
   mkAabb f_0_3125 f_0_0 f_0_0 f_0_6875 f_1_5 f_0_3125;
   mkAabb f_0_3125 f_0_0 f_0_6875 f_0_6875 f_1_5 f_1_0;
   mkAabb f_0_0 f_0_0 f_0_3125 f_1_0 f_1_5 f_0_6875;
   mkAabb f_0_3125 f_0_0 f_0_0 f_0_6875 f_1_5 f_0_3125;
   mkAabb f_0_3125 f_0_0 f_0_6875 f_0_6875 f_1_5 f_1_0;
   mkAabb f_0_25 f_0_0 f_0_25 f_0_75 f_1_5 f_0_75;
   mkAabb f_0_3125 f_0_0 f_0_0 f_0_6875 f_1_5 f_0_25;
   mkAabb f_0_3125 f_0_0 f_0_75 f_0_6875 f_1_5 f_1_0;
   mkAabb f_0_75 f_0_0 f_0_3125 f_1_0 f_1_5 f_0_6875;
   mkAabb f_0_0 f_0_0 f_0_3125 f_1_0 f_1_5 f_0_6875;
   mkAabb f_0_25 f_0_0 f_0_25 f_0_75 f_1_5 f_0_3125;
   mkAabb f_0_25 f_0_0 f_0_6875 f_0_75 f_1_5 f_0_75;
   mkAabb f_0_3125 f_0_0 f_0_0 f_0_6875 f_1_5 f_0_25;
   mkAabb f_0_3125 f_0_0 f_0_75 f_0_6875 f_1_5 f_1_0;
   mkAabb f_0_0 f_0_0 f_0_3125 f_1_0 f_1_5 f_0_6875;
   mkAabb f_0_25 f_0_0 f_0_25 f_0_75 f_1_5 f_0_3125;
   mkAabb f_0_25 f_0_0 f_0_6875 f_0_75 f_1_5 f_0_75;
   mkAabb f_0_3125 f_0_0 f_0_0 f_0_6875 f_1_5 f_0_25;
   mkAabb f_0_3125 f_0_0 f_0_75 f_0_6875 f_1_5 f_1_0;
   mkAabb f_0_3125 f_0_0 f_0_0 f_0_6875 f_1_5 f_1_0;
   mkAabb f_0_6875 f_0_0 f_0_3125 f_1_0 f_1_5 f_0_6875;
   mkAabb f_0_0 f_0_0 f_0_3125 f_1_0 f_1_5 f_0_6875;
   mkAabb f_0_3125 f_0_0 f_0_0 f_0_6875 f_1_5 f_0_3125;
   mkAabb f_0_3125 f_0_0 f_0_6875 f_0_6875 f_1_5 f_1_0;
   mkAabb f_0_0 f_0_0 f_0_3125 f_1_0 f_1_5 f_0_6875;
   mkAabb f_0_3125 f_0_0 f_0_0 f_0_6875 f_1_5 f_0_3125;
   mkAabb f_0_3125 f_0_0 f_0_6875 f_0_6875 f_1_5 f_1_0;
   mkAabb f_0_25 f_0_0 f_0_25 f_0_75 f_1_5 f_0_75;
   mkAabb f_0_0 f_0_0 f_0_3125 f_0_75 f_1_5 f_0_6875;
   mkAabb f_0_25 f_0_0 f_0_25 f_0_75 f_1_5 f_0_3125;
   mkAabb f_0_25 f_0_0 f_0_6875 f_0_75 f_1_5 f_0_75;
   mkAabb f_0_0 f_0_0 f_0_3125 f_0_75 f_1_5 f_0_6875;
   mkAabb f_0_25 f_0_0 f_0_25 f_0_75 f_1_5 f_0_3125;
   mkAabb f_0_25 f_0_0 f_0_6875 f_0_75 f_1_5 f_0_75;
   mkAabb f_0_0 f_0_0 f_0_3125 f_0_6875 f_1_5 f_0_6875;
   mkAabb f_0_0 f_0_0 f_0_3125 f_0_6875 f_1_5 f_0_6875;
   mkAabb f_0_25 f_0_0 f_0_25 f_0_75 f_1_5 f_0_75;
   mkAabb f_0_3125 f_0_0 f_0_75 f_0_6875 f_1_5 f_1_0;
   mkAabb f_0_0 f_0_0 f_0_3125 f_0_75 f_1_5 f_0_6875;
   mkAabb f_0_25 f_0_0 f_0_25 f_0_75 f_1_5 f_0_3125;
   mkAabb f_0_25 f_0_0 f_0_6875 f_0_75 f_1_5 f_0_75;
   mkAabb f_0_3125 f_0_0 f_0_75 f_0_6875 f_1_5 f_1_0;
   mkAabb f_0_0 f_0_0 f_0_3125 f_0_75 f_1_5 f_0_6875;
   mkAabb f_0_25 f_0_0 f_0_25 f_0_75 f_1_5 f_0_3125;
   mkAabb f_0_25 f_0_0 f_0_6875 f_0_75 f_1_5 f_0_75;
   mkAabb f_0_3125 f_0_0 f_0_75 f_0_6875 f_1_5 f_1_0;
   mkAabb f_0_3125 f_0_0 f_0_3125 f_0_6875 f_1_5 f_1_0;
   mkAabb f_0_0 f_0_0 f_0_3125 f_0_6875 f_1_5 f_0_6875;
   mkAabb f_0_3125 f_0_0 f_0_6875 f_0_6875 f_1_5 f_1_0;
   mkAabb f_0_0 f_0_0 f_0_3125 f_0_6875 f_1_5 f_0_6875;
   mkAabb f_0_3125 f_0_0 f_0_6875 f_0_6875 f_1_5 f_1_0;
   mkAabb f_0_25 f_0_0 f_0_25 f_0_75 f_1_5 f_0_75;
   mkAabb f_0_3125 f_0_0 f_0_75 f_0_6875 f_1_5 f_1_0;
   mkAabb f_0_0 f_0_0 f_0_3125 f_0_75 f_1_5 f_0_6875;
   mkAabb f_0_25 f_0_0 f_0_25 f_0_75 f_1_5 f_0_3125;
   mkAabb f_0_25 f_0_0 f_0_6875 f_0_75 f_1_5 f_0_75;
   mkAabb f_0_3125 f_0_0 f_0_75 f_0_6875 f_1_5 f_1_0;
   mkAabb f_0_0 f_0_0 f_0_3125 f_0_75 f_1_5 f_0_6875;
   mkAabb f_0_25 f_0_0 f_0_25 f_0_75 f_1_5 f_0_3125;
   mkAabb f_0_25 f_0_0 f_0_6875 f_0_75 f_1_5 f_0_75;
   mkAabb f_0_3125 f_0_0 f_0_75 f_0_6875 f_1_5 f_1_0;
   mkAabb f_0_3125 f_0_0 f_0_3125 f_0_6875 f_1_5 f_1_0;
   mkAabb f_0_0 f_0_0 f_0_3125 f_0_6875 f_1_5 f_0_6875;
   mkAabb f_0_3125 f_0_0 f_0_6875 f_0_6875 f_1_5 f_1_0;
   mkAabb f_0_0 f_0_0 f_0_3125 f_0_6875 f_1_5 f_0_6875;
   mkAabb f_0_3125 f_0_0 f_0_6875 f_0_6875 f_1_5 f_1_0;
   mkAabb f_0_25 f_0_0 f_0_25 f_0_75 f_1_5 f_0_75;
   mkAabb f_0_3125 f_0_0 f_0_0 f_0_6875 f_1_5 f_0_25;
   mkAabb f_0_0 f_0_0 f_0_3125 f_0_75 f_1_5 f_0_6875;
   mkAabb f_0_25 f_0_0 f_0_25 f_0_75 f_1_5 f_0_3125;
   mkAabb f_0_25 f_0_0 f_0_6875 f_0_75 f_1_5 f_0_75;
   mkAabb f_0_3125 f_0_0 f_0_0 f_0_6875 f_1_5 f_0_25;
   mkAabb f_0_0 f_0_0 f_0_3125 f_0_75 f_1_5 f_0_6875;
   mkAabb f_0_25 f_0_0 f_0_25 f_0_75 f_1_5 f_0_3125;
   mkAabb f_0_25 f_0_0 f_0_6875 f_0_75 f_1_5 f_0_75;
   mkAabb f_0_3125 f_0_0 f_0_0 f_0_6875 f_1_5 f_0_25;
   mkAabb f_0_3125 f_0_0 f_0_0 f_0_6875 f_1_5 f_0_6875;
   mkAabb f_0_0 f_0_0 f_0_3125 f_0_6875 f_1_5 f_0_6875;
   mkAabb f_0_3125 f_0_0 f_0_0 f_0_6875 f_1_5 f_0_3125;
   mkAabb f_0_0 f_0_0 f_0_3125 f_0_6875 f_1_5 f_0_6875;
   mkAabb f_0_3125 f_0_0 f_0_0 f_0_6875 f_1_5 f_0_3125;
   mkAabb f_0_25 f_0_0 f_0_25 f_0_75 f_1_5 f_0_75;
   mkAabb f_0_3125 f_0_0 f_0_0 f_0_6875 f_1_5 f_0_25;
   mkAabb f_0_3125 f_0_0 f_0_75 f_0_6875 f_1_5 f_1_0;
   mkAabb f_0_0 f_0_0 f_0_3125 f_0_75 f_1_5 f_0_6875;
   mkAabb f_0_25 f_0_0 f_0_25 f_0_75 f_1_5 f_0_3125;
   mkAabb f_0_25 f_0_0 f_0_6875 f_0_75 f_1_5 f_0_75;
   mkAabb f_0_3125 f_0_0 f_0_0 f_0_6875 f_1_5 f_0_25;
   mkAabb f_0_3125 f_0_0 f_0_75 f_0_6875 f_1_5 f_1_0;
   mkAabb f_0_0 f_0_0 f_0_3125 f_0_75 f_1_5 f_0_6875;
   mkAabb f_0_25 f_0_0 f_0_25 f_0_75 f_1_5 f_0_3125;
   mkAabb f_0_25 f_0_0 f_0_6875 f_0_75 f_1_5 f_0_75;
   mkAabb f_0_3125 f_0_0 f_0_0 f_0_6875 f_1_5 f_0_25;
   mkAabb f_0_3125 f_0_0 f_0_75 f_0_6875 f_1_5 f_1_0;
   mkAabb f_0_3125 f_0_0 f_0_0 f_0_6875 f_1_5 f_1_0;
   mkAabb f_0_0 f_0_0 f_0_3125 f_0_6875 f_1_5 f_0_6875;
   mkAabb f_0_3125 f_0_0 f_0_0 f_0_6875 f_1_5 f_0_3125;
   mkAabb f_0_3125 f_0_0 f_0_6875 f_0_6875 f_1_5 f_1_0;
   mkAabb f_0_0 f_0_0 f_0_3125 f_0_6875 f_1_5 f_0_6875;
   mkAabb f_0_3125 f_0_0 f_0_0 f_0_6875 f_1_5 f_0_3125;
   mkAabb f_0_3125 f_0_0 f_0_6875 f_0_6875 f_1_5 f_1_0;
   mkAabb f_0_25 f_0_0 f_0_25 f_0_75 f_1_5 f_0_75;
   mkAabb f_0_3125 f_0_0 f_0_0 f_0_6875 f_1_5 f_0_25;
   mkAabb f_0_3125 f_0_0 f_0_75 f_0_6875 f_1_5 f_1_0;
   mkAabb f_0_0 f_0_0 f_0_3125 f_0_75 f_1_5 f_0_6875;
   mkAabb f_0_25 f_0_0 f_0_25 f_0_75 f_1_5 f_0_3125;
   mkAabb f_0_25 f_0_0 f_0_6875 f_0_75 f_1_5 f_0_75;
   mkAabb f_0_3125 f_0_0 f_0_0 f_0_6875 f_1_5 f_0_25;
   mkAabb f_0_3125 f_0_0 f_0_75 f_0_6875 f_1_5 f_1_0;
   mkAabb f_0_0 f_0_0 f_0_3125 f_0_75 f_1_5 f_0_6875;
   mkAabb f_0_25 f_0_0 f_0_25 f_0_75 f_1_5 f_0_3125].
Definition SHAPE_BOXES_25 : list Aabb :=
  [mkAabb f_0_25 f_0_0 f_0_6875 f_0_75 f_1_5 f_0_75;
   mkAabb f_0_3125 f_0_0 f_0_0 f_0_6875 f_1_5 f_0_25;
   mkAabb f_0_3125 f_0_0 f_0_75 f_0_6875 f_1_5 f_1_0;
   mkAabb f_0_3125 f_0_0 f_0_0 f_0_6875 f_1_5 f_1_0;
   mkAabb f_0_0 f_0_0 f_0_3125 f_0_6875 f_1_5 f_0_6875;
   mkAabb f_0_3125 f_0_0 f_0_0 f_0_6875 f_1_5 f_0_3125;
   mkAabb f_0_3125 f_0_0 f_0_6875 f_0_6875 f_1_5 f_1_0;
   mkAabb f_0_0 f_0_0 f_0_3125 f_0_6875 f_1_5 f_0_6875;
   mkAabb f_0_3125 f_0_0 f_0_0 f_0_6875 f_1_5 f_0_3125;
   mkAabb f_0_3125 f_0_0 f_0_6875 f_0_6875 f_1_5 f_1_0;
   mkAabb f_0_25 f_0_0 f_0_25 f_0_75 f_1_5 f_0_75;
   mkAabb f_0_3125 f_0_0 f_0_0 f_0_6875 f_1_5 f_0_25;
   mkAabb f_0_0 f_0_0 f_0_3125 f_0_75 f_1_5 f_0_6875;
   mkAabb f_0_25 f_0_0 f_0_25 f_0_75 f_1_5 f_0_3125;
   mkAabb f_0_25 f_0_0 f_0_6875 f_0_75 f_1_5 f_0_75;
   mkAabb f_0_3125 f_0_0 f_0_0 f_0_6875 f_1_5 f_0_25;
   mkAabb f_0_0 f_0_0 f_0_3125 f_0_75 f_1_5 f_0_6875;
   mkAabb f_0_25 f_0_0 f_0_25 f_0_75 f_1_5 f_0_3125;
   mkAabb f_0_25 f_0_0 f_0_6875 f_0_75 f_1_5 f_0_75;
   mkAabb f_0_3125 f_0_0 f_0_0 f_0_6875 f_1_5 f_0_25;
   mkAabb f_0_3125 f_0_0 f_0_0 f_0_6875 f_1_5 f_0_6875;
   mkAabb f_0_0 f_0_0 f_0_3125 f_0_6875 f_1_5 f_0_6875;
   mkAabb f_0_3125 f_0_0 f_0_0 f_0_6875 f_1_5 f_0_3125;
   mkAabb f_0_0 f_0_0 f_0_3125 f_0_6875 f_1_5 f_0_6875;
   mkAabb f_0_3125 f_0_0 f_0_0 f_0_6875 f_1_5 f_0_3125;
   mkAabb f_0_25 f_0_0 f_0_25 f_0_75 f_1_5 f_0_75;
   mkAabb f_0_3125 f_0_0 f_0_0 f_0_6875 f_1_5 f_0_25;
   mkAabb f_0_3125 f_0_0 f_0_75 f_0_6875 f_1_5 f_1_0;
   mkAabb f_0_0 f_0_0 f_0_3125 f_0_75 f_1_5 f_0_6875;
   mkAabb f_0_25 f_0_0 f_0_25 f_0_75 f_1_5 f_0_3125;
   mkAabb f_0_25 f_0_0 f_0_6875 f_0_75 f_1_5 f_0_75;
   mkAabb f_0_3125 f_0_0 f_0_0 f_0_6875 f_1_5 f_0_25;
   mkAabb f_0_3125 f_0_0 f_0_75 f_0_6875 f_1_5 f_1_0;
   mkAabb f_0_0 f_0_0 f_0_3125 f_0_75 f_1_5 f_0_6875;
   mkAabb f_0_25 f_0_0 f_0_25 f_0_75 f_1_5 f_0_3125;
   mkAabb f_0_25 f_0_0 f_0_6875 f_0_75 f_1_5 f_0_75;
   mkAabb f_0_3125 f_0_0 f_0_0 f_0_6875 f_1_5 f_0_25;
   mkAabb f_0_3125 f_0_0 f_0_75 f_0_6875 f_1_5 f_1_0;
   mkAabb f_0_3125 f_0_0 f_0_0 f_0_6875 f_1_5 f_1_0;
   mkAabb f_0_0 f_0_0 f_0_3125 f_0_6875 f_1_5 f_0_6875;
   mkAabb f_0_3125 f_0_0 f_0_0 f_0_6875 f_1_5 f_0_3125;
   mkAabb f_0_3125 f_0_0 f_0_6875 f_0_6875 f_1_5 f_1_0;
   mkAabb f_0_0 f_0_0 f_0_3125 f_0_6875 f_1_5 f_0_6875;
   mkAabb f_0_3125 f_0_0 f_0_0 f_0_6875 f_1_5 f_0_3125;
   mkAabb f_0_3125 f_0_0 f_0_6875 f_0_6875 f_1_5 f_1_0;
   mkAabb f_0_25 f_0_0 f_0_25 f_0_75 f_1_5 f_0_75;
   mkAabb f_0_3125 f_0_0 f_0_0 f_0_6875 f_1_5 f_0_25;
   mkAabb f_0_3125 f_0_0 f_0_75 f_0_6875 f_1_5 f_1_0;
   mkAabb f_0_0 f_0_0 f_0_3125 f_0_75 f_1_5 f_0_6875;
   mkAabb f_0_25 f_0_0 f_0_25 f_0_75 f_1_5 f_0_3125;
   mkAabb f_0_25 f_0_0 f_0_6875 f_0_75 f_1_5 f_0_75;
   mkAabb f_0_3125 f_0_0 f_0_0 f_0_6875 f_1_5 f_0_25;
   mkAabb f_0_3125 f_0_0 f_0_75 f_0_6875 f_1_5 f_1_0;
   mkAabb f_0_0 f_0_0 f_0_3125 f_0_75 f_1_5 f_0_6875;
   mkAabb f_0_25 f_0_0 f_0_25 f_0_75 f_1_5 f_0_3125;
   mkAabb f_0_25 f_0_0 f_0_6875 f_0_75 f_1_5 f_0_75;
   mkAabb f_0_3125 f_0_0 f_0_0 f_0_6875 f_1_5 f_0_25;
   mkAabb f_0_3125 f_0_0 f_0_75 f_0_6875 f_1_5 f_1_0;
   mkAabb f_0_3125 f_0_0 f_0_0 f_0_6875 f_1_5 f_1_0;
   mkAabb f_0_0 f_0_0 f_0_3125 f_0_6875 f_1_5 f_0_6875;
   mkAabb f_0_3125 f_0_0 f_0_0 f_0_6875 f_1_5 f_0_3125;
   mkAabb f_0_3125 f_0_0 f_0_6875 f_0_6875 f_1_5 f_1_0;
   mkAabb f_0_0 f_0_0 f_0_3125 f_0_6875 f_1_5 f_0_6875;
   mkAabb f_0_3125 f_0_0 f_0_0 f_0_6875 f_1_5 f_0_3125;
   mkAabb f_0_3125 f_0_0 f_0_6875 f_0_6875 f_1_5 f_1_0;
   mkAabb f_0_25 f_0_0 f_0_25 f_0_75 f_1_5 f_0_75;
   mkAabb f_0_75 f_0_0 f_0_3125 f_1_0 f_1_5 f_0_6875;
   mkAabb f_0_0 f_0_0 f_0_3125 f_1_0 f_1_5 f_0_6875;
   mkAabb f_0_25 f_0_0 f_0_25 f_0_75 f_1_5 f_0_3125;
   mkAabb f_0_25 f_0_0 f_0_6875 f_0_75 f_1_5 f_0_75;
   mkAabb f_0_0 f_0_0 f_0_3125 f_1_0 f_1_5 f_0_6875;
   mkAabb f_0_25 f_0_0 f_0_25 f_0_75 f_1_5 f_0_3125;
   mkAabb f_0_25 f_0_0 f_0_6875 f_0_75 f_1_5 f_0_75;
   mkAabb f_0_3125 f_0_0 f_0_3125 f_1_0 f_1_5 f_0_6875;
   mkAabb f_0_0 f_0_0 f_0_3125 f_1_0 f_1_5 f_0_6875;
   mkAabb f_0_0 f_0_0 f_0_3125 f_1_0 f_1_5 f_0_6875;
   mkAabb f_0_25 f_0_0 f_0_25 f_0_75 f_1_5 f_0_75;
   mkAabb f_0_3125 f_0_0 f_0_75 f_0_6875 f_1_5 f_1_0;
   mkAabb f_0_75 f_0_0 f_0_3125 f_1_0 f_1_5 f_0_6875;
   mkAabb f_0_0 f_0_0 f_0_3125 f_1_0 f_1_5 f_0_6875;
   mkAabb f_0_25 f_0_0 f_0_25 f_0_75 f_1_5 f_0_3125;
   mkAabb f_0_25 f_0_0 f_0_6875 f_0_75 f_1_5 f_0_75;
   mkAabb f_0_3125 f_0_0 f_0_75 f_0_6875 f_1_5 f_1_0;
   mkAabb f_0_0 f_0_0 f_0_3125 f_1_0 f_1_5 f_0_6875;
   mkAabb f_0_25 f_0_0 f_0_25 f_0_75 f_1_5 f_0_3125;
   mkAabb f_0_25 f_0_0 f_0_6875 f_0_75 f_1_5 f_0_75;
   mkAabb f_0_3125 f_0_0 f_0_75 f_0_6875 f_1_5 f_1_0;
   mkAabb f_0_3125 f_0_0 f_0_3125 f_0_6875 f_1_5 f_1_0;
   mkAabb f_0_6875 f_0_0 f_0_3125 f_1_0 f_1_5 f_0_6875;
   mkAabb f_0_0 f_0_0 f_0_3125 f_1_0 f_1_5 f_0_6875;
   mkAabb f_0_3125 f_0_0 f_0_6875 f_0_6875 f_1_5 f_1_0;
   mkAabb f_0_0 f_0_0 f_0_3125 f_1_0 f_1_5 f_0_6875;
   mkAabb f_0_3125 f_0_0 f_0_6875 f_0_6875 f_1_5 f_1_0;
   mkAabb f_0_25 f_0_0 f_0_25 f_0_75 f_1_5 f_0_75;
   mkAabb f_0_3125 f_0_0 f_0_75 f_0_6875 f_1_5 f_1_0;
   mkAabb f_0_75 f_0_0 f_0_3125 f_1_0 f_1_5 f_0_6875;
   mkAabb f_0_0 f_0_0 f_0_3125 f_1_0 f_1_5 f_0_6875;
   mkAabb f_0_25 f_0_0 f_0_25 f_0_75 f_1_5 f_0_3125;
   mkAabb f_0_25 f_0_0 f_0_6875 f_0_75 f_1_5 f_0_75;
   mkAabb f_0_3125 f_0_0 f_0_75 f_0_6875 f_1_5 f_1_0;
   mkAabb f_0_0 f_0_0 f_0_3125 f_1_0 f_1_5 f_0_6875;
   mkAabb f_0_25 f_0_0 f_0_25 f_0_75 f_1_5 f_0_3125;
   mkAabb f_0_25 f_0_0 f_0_6875 f_0_75 f_1_5 f_0_75;
   mkAabb f_0_3125 f_0_0 f_0_75 f_0_6875 f_1_5 f_1_0;
   mkAabb f_0_3125 f_0_0 f_0_3125 f_0_6875 f_1_5 f_1_0;
   mkAabb f_0_6875 f_0_0 f_0_3125 f_1_0 f_1_5 f_0_6875;
   mkAabb f_0_0 f_0_0 f_0_3125 f_1_0 f_1_5 f_0_6875;
   mkAabb f_0_3125 f_0_0 f_0_6875 f_0_6875 f_1_5 f_1_0;
   mkAabb f_0_0 f_0_0 f_0_3125 f_1_0 f_1_5 f_0_6875;
   mkAabb f_0_3125 f_0_0 f_0_6875 f_0_6875 f_1_5 f_1_0;
   mkAabb f_0_25 f_0_0 f_0_25 f_0_75 f_1_5 f_0_75;
   mkAabb f_0_3125 f_0_0 f_0_0 f_0_6875 f_1_5 f_0_25;
   mkAabb f_0_75 f_0_0 f_0_3125 f_1_0 f_1_5 f_0_6875;
   mkAabb f_0_0 f_0_0 f_0_3125 f_1_0 f_1_5 f_0_6875;
   mkAabb f_0_25 f_0_0 f_0_25 f_0_75 f_1_5 f_0_3125;
   mkAabb f_0_25 f_0_0 f_0_6875 f_0_75 f_1_5 f_0_75;
   mkAabb f_0_3125 f_0_0 f_0_0 f_0_6875 f_1_5 f_0_25;
   mkAabb f_0_0 f_0_0 f_0_3125 f_1_0 f_1_5 f_0_6875;
   mkAabb f_0_25 f_0_0 f_0_25 f_0_75 f_1_5 f_0_3125;
   mkAabb f_0_25 f_0_0 f_0_6875 f_0_75 f_1_5 f_0_75;
   mkAabb f_0_3125 f_0_0 f_0_0 f_0_6875 f_1_5 f_0_25;
   mkAabb f_0_3125 f_0_0 f_0_0 f_0_6875 f_1_5 f_0_6875;
   mkAabb f_0_6875 f_0_0 f_0_3125 f_1_0 f_1_5 f_0_6875;
   mkAabb f_0_0 f_0_0 f_0_3125 f_1_0 f_1_5 f_0_6875;
   mkAabb f_0_3125 f_0_0 f_0_0 f_0_6875 f_1_5 f_0_3125;
   mkAabb f_0_0 f_0_0 f_0_3125 f_1_0 f_1_5 f_0_6875;
   mkAabb f_0_3125 f_0_0 f_0_0 f_0_6875 f_1_5 f_0_3125;
   mkAabb f_0_25 f_0_0 f_0_25 f_0_75 f_1_5 f_0_75;
   mkAabb f_0_3125 f_0_0 f_0_0 f_0_6875 f_1_5 f_0_25;
   mkAabb f_0_3125 f_0_0 f_0_75 f_0_6875 f_1_5 f_1_0;
   mkAabb f_0_75 f_0_0 f_0_3125 f_1_0 f_1_5 f_0_6875;
   mkAabb f_0_0 f_0_0 f_0_3125 f_1_0 f_1_5 f_0_6875;
   mkAabb f_0_25 f_0_0 f_0_25 f_0_75 f_1_5 f_0_3125;
   mkAabb f_0_25 f_0_0 f_0_6875 f_0_75 f_1_5 f_0_75;
   mkAabb f_0_3125 f_0_0 f_0_0 f_0_6875 f_1_5 f_0_25;
   mkAabb f_0_3125 f_0_0 f_0_75 f_0_6875 f_1_5 f_1_0;
   mkAabb f_0_0 f_0_0 f_0_3125 f_1_0 f_1_5 f_0_6875;
   mkAabb f_0_25 f_0_0 f_0_25 f_0_75 f_1_5 f_0_3125;
   mkAabb f_0_25 f_0_0 f_0_6875 f_0_75 f_1_5 f_0_75;
   mkAabb f_0_3125 f_0_0 f_0_0 f_0_6875 f_1_5 f_0_25;
   mkAabb f_0_3125 f_0_0 f_0_75 f_0_6875 f_1_5 f_1_0;
   mkAabb f_0_3125 f_0_0 f_0_0 f_0_6875 f_1_5 f_1_0;
   mkAabb f_0_6875 f_0_0 f_0_3125 f_1_0 f_1_5 f_0_6875;
   mkAabb f_0_0 f_0_0 f_0_3125 f_1_0 f_1_5 f_0_6875;
   mkAabb f_0_3125 f_0_0 f_0_0 f_0_6875 f_1_5 f_0_3125;
   mkAabb f_0_3125 f_0_0 f_0_6875 f_0_6875 f_1_5 f_1_0;
   mkAabb f_0_0 f_0_0 f_0_3125 f_1_0 f_1_5 f_0_6875;
   mkAabb f_0_3125 f_0_0 f_0_0 f_0_6875 f_1_5 f_0_3125;
   mkAabb f_0_3125 f_0_0 f_0_6875 f_0_6875 f_1_5 f_1_0;
   mkAabb f_0_25 f_0_0 f_0_25 f_0_75 f_1_5 f_0_75].
Definition SHAPE_BOXES_26 : list Aabb :=
  [mkAabb f_0_3125 f_0_0 f_0_0 f_0_6875 f_1_5 f_0_25;
   mkAabb f_0_3125 f_0_0 f_0_75 f_0_6875 f_1_5 f_1_0;
   mkAabb f_0_75 f_0_0 f_0_3125 f_1_0 f_1_5 f_0_6875;
   mkAabb f_0_0 f_0_0 f_0_3125 f_1_0 f_1_5 f_0_6875;
   mkAabb f_0_25 f_0_0 f_0_25 f_0_75 f_1_5 f_0_3125;
   mkAabb f_0_25 f_0_0 f_0_6875 f_0_75 f_1_5 f_0_75;
   mkAabb f_0_3125 f_0_0 f_0_0 f_0_6875 f_1_5 f_0_25;
   mkAabb f_0_3125 f_0_0 f_0_75 f_0_6875 f_1_5 f_1_0;
   mkAabb f_0_0 f_0_0 f_0_3125 f_1_0 f_1_5 f_0_6875;
   mkAabb f_0_25 f_0_0 f_0_25 f_0_75 f_1_5 f_0_3125;
   mkAabb f_0_25 f_0_0 f_0_6875 f_0_75 f_1_5 f_0_75;
   mkAabb f_0_3125 f_0_0 f_0_0 f_0_6875 f_1_5 f_0_25;
   mkAabb f_0_3125 f_0_0 f_0_75 f_0_6875 f_1_5 f_1_0;
   mkAabb f_0_3125 f_0_0 f_0_0 f_0_6875 f_1_5 f_1_0;
   mkAabb f_0_6875 f_0_0 f_0_3125 f_1_0 f_1_5 f_0_6875;
   mkAabb f_0_0 f_0_0 f_0_3125 f_1_0 f_1_5 f_0_6875;
   mkAabb f_0_3125 f_0_0 f_0_0 f_0_6875 f_1_5 f_0_3125;
   mkAabb f_0_3125 f_0_0 f_0_6875 f_0_6875 f_1_5 f_1_0;
   mkAabb f_0_0 f_0_0 f_0_3125 f_1_0 f_1_5 f_0_6875;
   mkAabb f_0_3125 f_0_0 f_0_0 f_0_6875 f_1_5 f_0_3125;
   mkAabb f_0_3125 f_0_0 f_0_6875 f_0_6875 f_1_5 f_1_0;
   mkAabb f_0_25 f_0_0 f_0_25 f_0_75 f_1_5 f_0_75;
   mkAabb f_0_3125 f_0_0 f_0_0 f_0_6875 f_1_5 f_0_25;
   mkAabb f_0_75 f_0_0 f_0_3125 f_1_0 f_1_5 f_0_6875;
   mkAabb f_0_0 f_0_0 f_0_3125 f_1_0 f_1_5 f_0_6875;
   mkAabb f_0_25 f_0_0 f_0_25 f_0_75 f_1_5 f_0_3125;
   mkAabb f_0_25 f_0_0 f_0_6875 f_0_75 f_1_5 f_0_75;
   mkAabb f_0_3125 f_0_0 f_0_0 f_0_6875 f_1_5 f_0_25;
   mkAabb f_0_0 f_0_0 f_0_3125 f_1_0 f_1_5 f_0_6875;
   mkAabb f_0_25 f_0_0 f_0_25 f_0_75 f_1_5 f_0_3125;
   mkAabb f_0_25 f_0_0 f_0_6875 f_0_75 f_1_5 f_0_75;
   mkAabb f_0_3125 f_0_0 f_0_0 f_0_6875 f_1_5 f_0_25;
   mkAabb f_0_3125 f_0_0 f_0_0 f_0_6875 f_1_5 f_0_6875;
   mkAabb f_0_6875 f_0_0 f_0_3125 f_1_0 f_1_5 f_0_6875;
   mkAabb f_0_0 f_0_0 f_0_3125 f_1_0 f_1_5 f_0_6875;
   mkAabb f_0_3125 f_0_0 f_0_0 f_0_6875 f_1_5 f_0_3125;
   mkAabb f_0_0 f_0_0 f_0_3125 f_1_0 f_1_5 f_0_6875;
   mkAabb f_0_3125 f_0_0 f_0_0 f_0_6875 f_1_5 f_0_3125;
   mkAabb f_0_25 f_0_0 f_0_25 f_0_75 f_1_5 f_0_75;
   mkAabb f_0_3125 f_0_0 f_0_0 f_0_6875 f_1_5 f_0_25;
   mkAabb f_0_3125 f_0_0 f_0_75 f_0_6875 f_1_5 f_1_0;
   mkAabb f_0_75 f_0_0 f_0_3125 f_1_0 f_1_5 f_0_6875;
   mkAabb f_0_0 f_0_0 f_0_3125 f_1_0 f_1_5 f_0_6875;
   mkAabb f_0_25 f_0_0 f_0_25 f_0_75 f_1_5 f_0_3125;
   mkAabb f_0_25 f_0_0 f_0_6875 f_0_75 f_1_5 f_0_75;
   mkAabb f_0_3125 f_0_0 f_0_0 f_0_6875 f_1_5 f_0_25;
   mkAabb f_0_3125 f_0_0 f_0_75 f_0_6875 f_1_5 f_1_0;
   mkAabb f_0_0 f_0_0 f_0_3125 f_1_0 f_1_5 f_0_6875;
   mkAabb f_0_25 f_0_0 f_0_25 f_0_75 f_1_5 f_0_3125;
   mkAabb f_0_25 f_0_0 f_0_6875 f_0_75 f_1_5 f_0_75;
   mkAabb f_0_3125 f_0_0 f_0_0 f_0_6875 f_1_5 f_0_25;
   mkAabb f_0_3125 f_0_0 f_0_75 f_0_6875 f_1_5 f_1_0;
   mkAabb f_0_3125 f_0_0 f_0_0 f_0_6875 f_1_5 f_1_0;
   mkAabb f_0_6875 f_0_0 f_0_3125 f_1_0 f_1_5 f_0_6875;
   mkAabb f_0_0 f_0_0 f_0_3125 f_1_0 f_1_5 f_0_6875;
   mkAabb f_0_3125 f_0_0 f_0_0 f_0_6875 f_1_5 f_0_3125;
   mkAabb f_0_3125 f_0_0 f_0_6875 f_0_6875 f_1_5 f_1_0;
   mkAabb f_0_0 f_0_0 f_0_3125 f_1_0 f_1_5 f_0_6875;
   mkAabb f_0_3125 f_0_0 f_0_0 f_0_6875 f_1_5 f_0_3125;
   mkAabb f_0_3125 f_0_0 f_0_6875 f_0_6875 f_1_5 f_1_0;
   mkAabb f_0_25 f_0_0 f_0_25 f_0_75 f_1_5 f_0_75;
   mkAabb f_0_3125 f_0_0 f_0_0 f_0_6875 f_1_5 f_0_25;
   mkAabb f_0_3125 f_0_0 f_0_75 f_0_6875 f_1_5 f_1_0;
   mkAabb f_0_75 f_0_0 f_0_3125 f_1_0 f_1_5 f_0_6875;
   mkAabb f_0_0 f_0_0 f_0_3125 f_1_0 f_1_5 f_0_6875;
   mkAabb f_0_25 f_0_0 f_0_25 f_0_75 f_1_5 f_0_3125;
   mkAabb f_0_25 f_0_0 f_0_6875 f_0_75 f_1_5 f_0_75;
   mkAabb f_0_3125 f_0_0 f_0_0 f_0_6875 f_1_5 f_0_25;
   mkAabb f_0_3125 f_0_0 f_0_75 f_0_6875 f_1_5 f_1_0;
   mkAabb f_0_0 f_0_0 f_0_3125 f_1_0 f_1_5 f_0_6875;
   mkAabb f_0_25 f_0_0 f_0_25 f_0_75 f_1_5 f_0_3125;
   mkAabb f_0_25 f_0_0 f_0_6875 f_0_75 f_1_5 f_0_75;
   mkAabb f_0_3125 f_0_0 f_0_0 f_0_6875 f_1_5 f_0_25;
   mkAabb f_0_3125 f_0_0 f_0_75 f_0_6875 f_1_5 f_1_0;
   mkAabb f_0_3125 f_0_0 f_0_0 f_0_6875 f_1_5 f_1_0;
   mkAabb f_0_6875 f_0_0 f_0_3125 f_1_0 f_1_5 f_0_6875;
   mkAabb f_0_0 f_0_0 f_0_3125 f_1_0 f_1_5 f_0_6875;
   mkAabb f_0_3125 f_0_0 f_0_0 f_0_6875 f_1_5 f_0_3125;
   mkAabb f_0_3125 f_0_0 f_0_6875 f_0_6875 f_1_5 f_1_0;
   mkAabb f_0_0 f_0_0 f_0_3125 f_1_0 f_1_5 f_0_6875;
   mkAabb f_0_3125 f_0_0 f_0_0 f_0_6875 f_1_5 f_0_3125;
   mkAabb f_0_3125 f_0_0 f_0_6875 f_0_6875 f_1_5 f_1_0;
   mkAabb f_0_25 f_0_0 f_0_25 f_0_75 f_1_5 f_0_75;
   mkAabb f_0_75 f_0_0 f_0_3125 f_1_0 f_1_5 f_0_6875;
   mkAabb f_0_0 f_0_0 f_0_3125 f_1_0 f_1_5 f_0_6875;
   mkAabb f_0_25 f_0_0 f_0_25 f_0_75 f_1_5 f_0_3125;
   mkAabb f_0_25 f_0_0 f_0_6875 f_0_75 f_1_5 f_0_75;
   mkAabb f_0_0 f_0_0 f_0_3125 f_1_0 f_1_5 f_0_6875;
   mkAabb f_0_25 f_0_0 f_0_25 f_0_75 f_1_5 f_0_3125;
   mkAabb f_0_25 f_0_0 f_0_6875 f_0_75 f_1_5 f_0_75;
   mkAabb f_0_3125 f_0_0 f_0_3125 f_1_0 f_1_5 f_0_6875;
   mkAabb f_0_0 f_0_0 f_0_3125 f_1_0 f_1_5 f_0_6875;
   mkAabb f_0_0 f_0_0 f_0_3125 f_1_0 f_1_5 f_0_6875;
   mkAabb f_0_25 f_0_0 f_0_25 f_0_75 f_1_5 f_0_75;
   mkAabb f_0_3125 f_0_0 f_0_75 f_0_6875 f_1_5 f_1_0;
   mkAabb f_0_75 f_0_0 f_0_3125 f_1_0 f_1_5 f_0_6875;
   mkAabb f_0_0 f_0_0 f_0_3125 f_1_0 f_1_5 f_0_6875;
   mkAabb f_0_25 f_0_0 f_0_25 f_0_75 f_1_5 f_0_3125;
   mkAabb f_0_25 f_0_0 f_0_6875 f_0_75 f_1_5 f_0_75;
   mkAabb f_0_3125 f_0_0 f_0_75 f_0_6875 f_1_5 f_1_0;
   mkAabb f_0_0 f_0_0 f_0_3125 f_1_0 f_1_5 f_0_6875;
   mkAabb f_0_25 f_0_0 f_0_25 f_0_75 f_1_5 f_0_3125;
   mkAabb f_0_25 f_0_0 f_0_6875 f_0_75 f_1_5 f_0_75;
   mkAabb f_0_3125 f_0_0 f_0_75 f_0_6875 f_1_5 f_1_0;
   mkAabb f_0_3125 f_0_0 f_0_3125 f_0_6875 f_1_5 f_1_0;
   mkAabb f_0_6875 f_0_0 f_0_3125 f_1_0 f_1_5 f_0_6875;
   mkAabb f_0_0 f_0_0 f_0_3125 f_1_0 f_1_5 f_0_6875;
   mkAabb f_0_3125 f_0_0 f_0_6875 f_0_6875 f_1_5 f_1_0;
   mkAabb f_0_0 f_0_0 f_0_3125 f_1_0 f_1_5 f_0_6875;
   mkAabb f_0_3125 f_0_0 f_0_6875 f_0_6875 f_1_5 f_1_0;
   mkAabb f_0_25 f_0_0 f_0_25 f_0_75 f_1_5 f_0_75;
   mkAabb f_0_3125 f_0_0 f_0_75 f_0_6875 f_1_5 f_1_0;
   mkAabb f_0_75 f_0_0 f_0_3125 f_1_0 f_1_5 f_0_6875;
   mkAabb f_0_0 f_0_0 f_0_3125 f_1_0 f_1_5 f_0_6875;
   mkAabb f_0_25 f_0_0 f_0_25 f_0_75 f_1_5 f_0_3125;
   mkAabb f_0_25 f_0_0 f_0_6875 f_0_75 f_1_5 f_0_75;
   mkAabb f_0_3125 f_0_0 f_0_75 f_0_6875 f_1_5 f_1_0;
   mkAabb f_0_0 f_0_0 f_0_3125 f_1_0 f_1_5 f_0_6875;
   mkAabb f_0_25 f_0_0 f_0_25 f_0_75 f_1_5 f_0_3125;
   mkAabb f_0_25 f_0_0 f_0_6875 f_0_75 f_1_5 f_0_75;
   mkAabb f_0_3125 f_0_0 f_0_75 f_0_6875 f_1_5 f_1_0;
   mkAabb f_0_3125 f_0_0 f_0_3125 f_0_6875 f_1_5 f_1_0;
   mkAabb f_0_6875 f_0_0 f_0_3125 f_1_0 f_1_5 f_0_6875;
   mkAabb f_0_0 f_0_0 f_0_3125 f_1_0 f_1_5 f_0_6875;
   mkAabb f_0_3125 f_0_0 f_0_6875 f_0_6875 f_1_5 f_1_0;
   mkAabb f_0_0 f_0_0 f_0_3125 f_1_0 f_1_5 f_0_6875;
   mkAabb f_0_3125 f_0_0 f_0_6875 f_0_6875 f_1_5 f_1_0;
   mkAabb f_0_25 f_0_0 f_0_25 f_0_75 f_1_5 f_0_75;
   mkAabb f_0_3125 f_0_0 f_0_0 f_0_6875 f_1_5 f_0_25;
   mkAabb f_0_75 f_0_0 f_0_3125 f_1_0 f_1_5 f_0_6875;
   mkAabb f_0_0 f_0_0 f_0_3125 f_1_0 f_1_5 f_0_6875;
   mkAabb f_0_25 f_0_0 f_0_25 f_0_75 f_1_5 f_0_3125;
   mkAabb f_0_25 f_0_0 f_0_6875 f_0_75 f_1_5 f_0_75;
   mkAabb f_0_3125 f_0_0 f_0_0 f_0_6875 f_1_5 f_0_25;
   mkAabb f_0_0 f_0_0 f_0_3125 f_1_0 f_1_5 f_0_6875;
   mkAabb f_0_25 f_0_0 f_0_25 f_0_75 f_1_5 f_0_3125;
   mkAabb f_0_25 f_0_0 f_0_6875 f_0_75 f_1_5 f_0_75;
   mkAabb f_0_3125 f_0_0 f_0_0 f_0_6875 f_1_5 f_0_25;
   mkAabb f_0_3125 f_0_0 f_0_0 f_0_6875 f_1_5 f_0_6875;
   mkAabb f_0_6875 f_0_0 f_0_3125 f_1_0 f_1_5 f_0_6875;
   mkAabb f_0_0 f_0_0 f_0_3125 f_1_0 f_1_5 f_0_6875;
   mkAabb f_0_3125 f_0_0 f_0_0 f_0_6875 f_1_5 f_0_3125;
   mkAabb f_0_0 f_0_0 f_0_3125 f_1_0 f_1_5 f_0_6875;
   mkAabb f_0_3125 f_0_0 f_0_0 f_0_6875 f_1_5 f_0_3125;
   mkAabb f_0_25 f_0_0 f_0_25 f_0_75 f_1_5 f_0_75;
   mkAabb f_0_3125 f_0_0 f_0_0 f_0_6875 f_1_5 f_0_25;
   mkAabb f_0_3125 f_0_0 f_0_75 f_0_6875 f_1_5 f_1_0;
   mkAabb f_0_75 f_0_0 f_0_3125 f_1_0 f_1_5 f_0_6875;
   mkAabb f_0_0 f_0_0 f_0_3125 f_1_0 f_1_5 f_0_6875;
   mkAabb f_0_25 f_0_0 f_0_25 f_0_75 f_1_5 f_0_3125].
Definition SHAPE_BOXES_27 : list Aabb :=
  [mkAabb f_0_25 f_0_0 f_0_6875 f_0_75 f_1_5 f_0_75;
   mkAabb f_0_3125 f_0_0 f_0_0 f_0_6875 f_1_5 f_0_25;
   mkAabb f_0_3125 f_0_0 f_0_75 f_0_6875 f_1_5 f_1_0;
   mkAabb f_0_0 f_0_0 f_0_3125 f_1_0 f_1_5 f_0_6875;
   mkAabb f_0_25 f_0_0 f_0_25 f_0_75 f_1_5 f_0_3125;
   mkAabb f_0_25 f_0_0 f_0_6875 f_0_75 f_1_5 f_0_75;
   mkAabb f_0_3125 f_0_0 f_0_0 f_0_6875 f_1_5 f_0_25;
   mkAabb f_0_3125 f_0_0 f_0_75 f_0_6875 f_1_5 f_1_0;
   mkAabb f_0_3125 f_0_0 f_0_0 f_0_6875 f_1_5 f_1_0;
   mkAabb f_0_6875 f_0_0 f_0_3125 f_1_0 f_1_5 f_0_6875;
   mkAabb f_0_0 f_0_0 f_0_3125 f_1_0 f_1_5 f_0_6875;
   mkAabb f_0_3125 f_0_0 f_0_0 f_0_6875 f_1_5 f_0_3125;
   mkAabb f_0_3125 f_0_0 f_0_6875 f_0_6875 f_1_5 f_1_0;
   mkAabb f_0_0 f_0_0 f_0_3125 f_1_0 f_1_5 f_0_6875;
   mkAabb f_0_3125 f_0_0 f_0_0 f_0_6875 f_1_5 f_0_3125;
   mkAabb f_0_3125 f_0_0 f_0_6875 f_0_6875 f_1_5 f_1_0;
   mkAabb f_0_25 f_0_0 f_0_25 f_0_75 f_1_5 f_0_75;
   mkAabb f_0_3125 f_0_0 f_0_0 f_0_6875 f_1_5 f_0_25;
   mkAabb f_0_3125 f_0_0 f_0_75 f_0_6875 f_1_5 f_1_0;
   mkAabb f_0_75 f_0_0 f_0_3125 f_1_0 f_1_5 f_0_6875;
   mkAabb f_0_0 f_0_0 f_0_3125 f_1_0 f_1_5 f_0_6875;
   mkAabb f_0_25 f_0_0 f_0_25 f_0_75 f_1_5 f_0_3125;
   mkAabb f_0_25 f_0_0 f_0_6875 f_0_75 f_1_5 f_0_75;
   mkAabb f_0_3125 f_0_0 f_0_0 f_0_6875 f_1_5 f_0_25;
   mkAabb f_0_3125 f_0_0 f_0_75 f_0_6875 f_1_5 f_1_0;
   mkAabb f_0_0 f_0_0 f_0_3125 f_1_0 f_1_5 f_0_6875;
   mkAabb f_0_25 f_0_0 f_0_25 f_0_75 f_1_5 f_0_3125;
   mkAabb f_0_25 f_0_0 f_0_6875 f_0_75 f_1_5 f_0_75;
   mkAabb f_0_3125 f_0_0 f_0_0 f_0_6875 f_1_5 f_0_25;
   mkAabb f_0_3125 f_0_0 f_0_75 f_0_6875 f_1_5 f_1_0;
   mkAabb f_0_3125 f_0_0 f_0_0 f_0_6875 f_1_5 f_1_0;
   mkAabb f_0_6875 f_0_0 f_0_3125 f_1_0 f_1_5 f_0_6875;
   mkAabb f_0_0 f_0_0 f_0_3125 f_1_0 f_1_5 f_0_6875;
   mkAabb f_0_3125 f_0_0 f_0_0 f_0_6875 f_1_5 f_0_3125;
   mkAabb f_0_3125 f_0_0 f_0_6875 f_0_6875 f_1_5 f_1_0;
   mkAabb f_0_0 f_0_0 f_0_3125 f_1_0 f_1_5 f_0_6875;
   mkAabb f_0_3125 f_0_0 f_0_0 f_0_6875 f_1_5 f_0_3125;
   mkAabb f_0_3125 f_0_0 f_0_6875 f_0_6875 f_1_5 f_1_0;
   mkAabb f_0_25 f_0_0 f_0_25 f_0_75 f_1_5 f_0_75;
   mkAabb f_0_3125 f_0_0 f_0_0 f_0_6875 f_1_5 f_0_25;
   mkAabb f_0_75 f_0_0 f_0_3125 f_1_0 f_1_5 f_0_6875;
   mkAabb f_0_0 f_0_0 f_0_3125 f_1_0 f_1_5 f_0_6875;
   mkAabb f_0_25 f_0_0 f_0_25 f_0_75 f_1_5 f_0_3125;
   mkAabb f_0_25 f_0_0 f_0_6875 f_0_75 f_1_5 f_0_75;
   mkAabb f_0_3125 f_0_0 f_0_0 f_0_6875 f_1_5 f_0_25;
   mkAabb f_0_0 f_0_0 f_0_3125 f_1_0 f_1_5 f_0_6875;
   mkAabb f_0_25 f_0_0 f_0_25 f_0_75 f_1_5 f_0_3125;
   mkAabb f_0_25 f_0_0 f_0_6875 f_0_75 f_1_5 f_0_75;
   mkAabb f_0_3125 f_0_0 f_0_0 f_0_6875 f_1_5 f_0_25;
   mkAabb f_0_3125 f_0_0 f_0_0 f_0_6875 f_1_5 f_0_6875;
   mkAabb f_0_6875 f_0_0 f_0_3125 f_1_0 f_1_5 f_0_6875;
   mkAabb f_0_0 f_0_0 f_0_3125 f_1_0 f_1_5 f_0_6875;
   mkAabb f_0_3125 f_0_0 f_0_0 f_0_6875 f_1_5 f_0_3125;
   mkAabb f_0_0 f_0_0 f_0_3125 f_1_0 f_1_5 f_0_6875;
   mkAabb f_0_3125 f_0_0 f_0_0 f_0_6875 f_1_5 f_0_3125;
   mkAabb f_0_25 f_0_0 f_0_25 f_0_75 f_1_5 f_0_75;
   mkAabb f_0_3125 f_0_0 f_0_0 f_0_6875 f_1_5 f_0_25;
   mkAabb f_0_3125 f_0_0 f_0_75 f_0_6875 f_1_5 f_1_0;
   mkAabb f_0_75 f_0_0 f_0_3125 f_1_0 f_1_5 f_0_6875;
   mkAabb f_0_0 f_0_0 f_0_3125 f_1_0 f_1_5 f_0_6875;
   mkAabb f_0_25 f_0_0 f_0_25 f_0_75 f_1_5 f_0_3125;
   mkAabb f_0_25 f_0_0 f_0_6875 f_0_75 f_1_5 f_0_75;
   mkAabb f_0_3125 f_0_0 f_0_0 f_0_6875 f_1_5 f_0_25;
   mkAabb f_0_3125 f_0_0 f_0_75 f_0_6875 f_1_5 f_1_0;
   mkAabb f_0_0 f_0_0 f_0_3125 f_1_0 f_1_5 f_0_6875;
   mkAabb f_0_25 f_0_0 f_0_25 f_0_75 f_1_5 f_0_3125;
   mkAabb f_0_25 f_0_0 f_0_6875 f_0_75 f_1_5 f_0_75;
   mkAabb f_0_3125 f_0_0 f_0_0 f_0_6875 f_1_5 f_0_25;
   mkAabb f_0_3125 f_0_0 f_0_75 f_0_6875 f_1_5 f_1_0;
   mkAabb f_0_3125 f_0_0 f_0_0 f_0_6875 f_1_5 f_1_0;
   mkAabb f_0_6875 f_0_0 f_0_3125 f_1_0 f_1_5 f_0_6875;
   mkAabb f_0_0 f_0_0 f_0_3125 f_1_0 f_1_5 f_0_6875;
   mkAabb f_0_3125 f_0_0 f_0_0 f_0_6875 f_1_5 f_0_3125;
   mkAabb f_0_3125 f_0_0 f_0_6875 f_0_6875 f_1_5 f_1_0;
   mkAabb f_0_0 f_0_0 f_0_3125 f_1_0 f_1_5 f_0_6875;
   mkAabb f_0_3125 f_0_0 f_0_0 f_0_6875 f_1_5 f_0_3125;
   mkAabb f_0_3125 f_0_0 f_0_6875 f_0_6875 f_1_5 f_1_0;
   mkAabb f_0_25 f_0_0 f_0_25 f_0_75 f_1_5 f_0_75;
   mkAabb f_0_3125 f_0_0 f_0_0 f_0_6875 f_1_5 f_0_25;
   mkAabb f_0_3125 f_0_0 f_0_75 f_0_6875 f_1_5 f_1_0;
   mkAabb f_0_75 f_0_0 f_0_3125 f_1_0 f_1_5 f_0_6875;
   mkAabb f_0_0 f_0_0 f_0_3125 f_1_0 f_1_5 f_0_6875;
   mkAabb f_0_25 f_0_0 f_0_25 f_0_75 f_1_5 f_0_3125;
   mkAabb f_0_25 f_0_0 f_0_6875 f_0_75 f_1_5 f_0_75;
   mkAabb f_0_3125 f_0_0 f_0_0 f_0_6875 f_1_5 f_0_25;
   mkAabb f_0_3125 f_0_0 f_0_75 f_0_6875 f_1_5 f_1_0;
   mkAabb f_0_0 f_0_0 f_0_3125 f_1_0 f_1_5 f_0_6875;
   mkAabb f_0_25 f_0_0 f_0_25 f_0_75 f_1_5 f_0_3125;
   mkAabb f_0_25 f_0_0 f_0_6875 f_0_75 f_1_5 f_0_75;
   mkAabb f_0_3125 f_0_0 f_0_0 f_0_6875 f_1_5 f_0_25;
   mkAabb f_0_3125 f_0_0 f_0_75 f_0_6875 f_1_5 f_1_0;
   mkAabb f_0_3125 f_0_0 f_0_0 f_0_6875 f_1_5 f_1_0;
   mkAabb f_0_6875 f_0_0 f_0_3125 f_1_0 f_1_5 f_0_6875;
   mkAabb f_0_0 f_0_0 f_0_3125 f_1_0 f_1_5 f_0_6875;
   mkAabb f_0_3125 f_0_0 f_0_0 f_0_6875 f_1_5 f_0_3125;
   mkAabb f_0_3125 f_0_0 f_0_6875 f_0_6875 f_1_5 f_1_0;
   mkAabb f_0_0 f_0_0 f_0_3125 f_1_0 f_1_5 f_0_6875;
   mkAabb f_0_3125 f_0_0 f_0_0 f_0_6875 f_1_5 f_0_3125;
   mkAabb f_0_3125 f_0_0 f_0_6875 f_0_6875 f_1_5 f_1_0;
   mkAabb f_0_25 f_0_0 f_0_25 f_0_75 f_1_5 f_0_75;
   mkAabb f_0_0 f_0_0 f_0_3125 f_0_75 f_1_5 f_0_6875;
   mkAabb f_0_25 f_0_0 f_0_25 f_0_75 f_1_5 f_0_3125;
   mkAabb f_0_25 f_0_0 f_0_6875 f_0_75 f_1_5 f_0_75;
   mkAabb f_0_0 f_0_0 f_0_3125 f_0_75 f_1_5 f_0_6875;
   mkAabb f_0_25 f_0_0 f_0_25 f_0_75 f_1_5 f_0_3125;
   mkAabb f_0_25 f_0_0 f_0_6875 f_0_75 f_1_5 f_0_75;
   mkAabb f_0_0 f_0_0 f_0_3125 f_0_6875 f_1_5 f_0_6875;
   mkAabb f_0_0 f_0_0 f_0_3125 f_0_6875 f_1_5 f_0_6875;
   mkAabb f_0_25 f_0_0 f_0_25 f_0_75 f_1_5 f_0_75;
   mkAabb f_0_3125 f_0_0 f_0_75 f_0_6875 f_1_5 f_1_0;
   mkAabb f_0_0 f_0_0 f_0_3125 f_0_75 f_1_5 f_0_6875;
   mkAabb f_0_25 f_0_0 f_0_25 f_0_75 f_1_5 f_0_3125;
   mkAabb f_0_25 f_0_0 f_0_6875 f_0_75 f_1_5 f_0_75;
   mkAabb f_0_3125 f_0_0 f_0_75 f_0_6875 f_1_5 f_1_0;
   mkAabb f_0_0 f_0_0 f_0_3125 f_0_75 f_1_5 f_0_6875;
   mkAabb f_0_25 f_0_0 f_0_25 f_0_75 f_1_5 f_0_3125;
   mkAabb f_0_25 f_0_0 f_0_6875 f_0_75 f_1_5 f_0_75;
   mkAabb f_0_3125 f_0_0 f_0_75 f_0_6875 f_1_5 f_1_0;
   mkAabb f_0_3125 f_0_0 f_0_3125 f_0_6875 f_1_5 f_1_0;
   mkAabb f_0_0 f_0_0 f_0_3125 f_0_6875 f_1_5 f_0_6875;
   mkAabb f_0_3125 f_0_0 f_0_6875 f_0_6875 f_1_5 f_1_0;
   mkAabb f_0_0 f_0_0 f_0_3125 f_0_6875 f_1_5 f_0_6875;
   mkAabb f_0_3125 f_0_0 f_0_6875 f_0_6875 f_1_5 f_1_0;
   mkAabb f_0_25 f_0_0 f_0_25 f_0_75 f_1_5 f_0_75;
   mkAabb f_0_3125 f_0_0 f_0_75 f_0_6875 f_1_5 f_1_0;
   mkAabb f_0_0 f_0_0 f_0_3125 f_0_75 f_1_5 f_0_6875;
   mkAabb f_0_25 f_0_0 f_0_25 f_0_75 f_1_5 f_0_3125;
   mkAabb f_0_25 f_0_0 f_0_6875 f_0_75 f_1_5 f_0_75;
   mkAabb f_0_3125 f_0_0 f_0_75 f_0_6875 f_1_5 f_1_0;
   mkAabb f_0_0 f_0_0 f_0_3125 f_0_75 f_1_5 f_0_6875;
   mkAabb f_0_25 f_0_0 f_0_25 f_0_75 f_1_5 f_0_3125;
   mkAabb f_0_25 f_0_0 f_0_6875 f_0_75 f_1_5 f_0_75;
   mkAabb f_0_3125 f_0_0 f_0_75 f_0_6875 f_1_5 f_1_0;
   mkAabb f_0_3125 f_0_0 f_0_3125 f_0_6875 f_1_5 f_1_0;
   mkAabb f_0_0 f_0_0 f_0_3125 f_0_6875 f_1_5 f_0_6875;
   mkAabb f_0_3125 f_0_0 f_0_6875 f_0_6875 f_1_5 f_1_0;
   mkAabb f_0_0 f_0_0 f_0_3125 f_0_6875 f_1_5 f_0_6875;
   mkAabb f_0_3125 f_0_0 f_0_6875 f_0_6875 f_1_5 f_1_0;
   mkAabb f_0_25 f_0_0 f_0_25 f_0_75 f_1_5 f_0_75;
   mkAabb f_0_3125 f_0_0 f_0_0 f_0_6875 f_1_5 f_0_25;
   mkAabb f_0_0 f_0_0 f_0_3125 f_0_75 f_1_5 f_0_6875;
   mkAabb f_0_25 f_0_0 f_0_25 f_0_75 f_1_5 f_0_3125;
   mkAabb f_0_25 f_0_0 f_0_6875 f_0_75 f_1_5 f_0_75;
   mkAabb f_0_3125 f_0_0 f_0_0 f_0_6875 f_1_5 f_0_25;
   mkAabb f_0_0 f_0_0 f_0_3125 f_0_75 f_1_5 f_0_6875;
   mkAabb f_0_25 f_0_0 f_0_25 f_0_75 f_1_5 f_0_3125;
   mkAabb f_0_25 f_0_0 f_0_6875 f_0_75 f_1_5 f_0_75;
   mkAabb f_0_3125 f_0_0 f_0_0 f_0_6875 f_1_5 f_0_25;
   mkAabb f_0_3125 f_0_0 f_0_0 f_0_6875 f_1_5 f_0_6875;
   mkAabb f_0_0 f_0_0 f_0_3125 f_0_6875 f_1_5 f_0_6875].
Definition SHAPE_BOXES_28 : list Aabb :=
  [mkAabb f_0_3125 f_0_0 f_0_0 f_0_6875 f_1_5 f_0_3125;
   mkAabb f_0_0 f_0_0 f_0_3125 f_0_6875 f_1_5 f_0_6875;
   mkAabb f_0_3125 f_0_0 f_0_0 f_0_6875 f_1_5 f_0_3125;
   mkAabb f_0_25 f_0_0 f_0_25 f_0_75 f_1_5 f_0_75;
   mkAabb f_0_3125 f_0_0 f_0_0 f_0_6875 f_1_5 f_0_25;
   mkAabb f_0_3125 f_0_0 f_0_75 f_0_6875 f_1_5 f_1_0;
   mkAabb f_0_0 f_0_0 f_0_3125 f_0_75 f_1_5 f_0_6875;
   mkAabb f_0_25 f_0_0 f_0_25 f_0_75 f_1_5 f_0_3125;
   mkAabb f_0_25 f_0_0 f_0_6875 f_0_75 f_1_5 f_0_75;
   mkAabb f_0_3125 f_0_0 f_0_0 f_0_6875 f_1_5 f_0_25;
   mkAabb f_0_3125 f_0_0 f_0_75 f_0_6875 f_1_5 f_1_0;
   mkAabb f_0_0 f_0_0 f_0_3125 f_0_75 f_1_5 f_0_6875;
   mkAabb f_0_25 f_0_0 f_0_25 f_0_75 f_1_5 f_0_3125;
   mkAabb f_0_25 f_0_0 f_0_6875 f_0_75 f_1_5 f_0_75;
   mkAabb f_0_3125 f_0_0 f_0_0 f_0_6875 f_1_5 f_0_25;
   mkAabb f_0_3125 f_0_0 f_0_75 f_0_6875 f_1_5 f_1_0;
   mkAabb f_0_3125 f_0_0 f_0_0 f_0_6875 f_1_5 f_1_0;
   mkAabb f_0_0 f_0_0 f_0_3125 f_0_6875 f_1_5 f_0_6875;
   mkAabb f_0_3125 f_0_0 f_0_0 f_0_6875 f_1_5 f_0_3125;
   mkAabb f_0_3125 f_0_0 f_0_6875 f_0_6875 f_1_5 f_1_0;
   mkAabb f_0_0 f_0_0 f_0_3125 f_0_6875 f_1_5 f_0_6875;
   mkAabb f_0_3125 f_0_0 f_0_0 f_0_6875 f_1_5 f_0_3125;
   mkAabb f_0_3125 f_0_0 f_0_6875 f_0_6875 f_1_5 f_1_0;
   mkAabb f_0_25 f_0_0 f_0_25 f_0_75 f_1_5 f_0_75;
   mkAabb f_0_3125 f_0_0 f_0_0 f_0_6875 f_1_5 f_0_25;
   mkAabb f_0_3125 f_0_0 f_0_75 f_0_6875 f_1_5 f_1_0;
   mkAabb f_0_0 f_0_0 f_0_3125 f_0_75 f_1_5 f_0_6875;
   mkAabb f_0_25 f_0_0 f_0_25 f_0_75 f_1_5 f_0_3125;
   mkAabb f_0_25 f_0_0 f_0_6875 f_0_75 f_1_5 f_0_75;
   mkAabb f_0_3125 f_0_0 f_0_0 f_0_6875 f_1_5 f_0_25;
   mkAabb f_0_3125 f_0_0 f_0_75 f_0_6875 f_1_5 f_1_0;
   mkAabb f_0_0 f_0_0 f_0_3125 f_0_75 f_1_5 f_0_6875;
   mkAabb f_0_25 f_0_0 f_0_25 f_0_75 f_1_5 f_0_3125;
   mkAabb f_0_25 f_0_0 f_0_6875 f_0_75 f_1_5 f_0_75;
   mkAabb f_0_3125 f_0_0 f_0_0 f_0_6875 f_1_5 f_0_25;
   mkAabb f_0_3125 f_0_0 f_0_75 f_0_6875 f_1_5 f_1_0;
   mkAabb f_0_3125 f_0_0 f_0_0 f_0_6875 f_1_5 f_1_0;
   mkAabb f_0_0 f_0_0 f_0_3125 f_0_6875 f_1_5 f_0_6875;
   mkAabb f_0_3125 f_0_0 f_0_0 f_0_6875 f_1_5 f_0_3125;
   mkAabb f_0_3125 f_0_0 f_0_6875 f_0_6875 f_1_5 f_1_0;
   mkAabb f_0_0 f_0_0 f_0_3125 f_0_6875 f_1_5 f_0_6875;
   mkAabb f_0_3125 f_0_0 f_0_0 f_0_6875 f_1_5 f_0_3125;
   mkAabb f_0_3125 f_0_0 f_0_6875 f_0_6875 f_1_5 f_1_0;
   mkAabb f_0_25 f_0_0 f_0_25 f_0_75 f_1_5 f_0_75;
   mkAabb f_0_3125 f_0_0 f_0_0 f_0_6875 f_1_5 f_0_25;
   mkAabb f_0_0 f_0_0 f_0_3125 f_0_75 f_1_5 f_0_6875;
   mkAabb f_0_25 f_0_0 f_0_25 f_0_75 f_1_5 f_0_3125;
   mkAabb f_0_25 f_0_0 f_0_6875 f_0_75 f_1_5 f_0_75;
   mkAabb f_0_3125 f_0_0 f_0_0 f_0_6875 f_1_5 f_0_25;
   mkAabb f_0_0 f_0_0 f_0_3125 f_0_75 f_1_5 f_0_6875;
   mkAabb f_0_25 f_0_0 f_0_25 f_0_75 f_1_5 f_0_3125;
   mkAabb f_0_25 f_0_0 f_0_6875 f_0_75 f_1_5 f_0_75;
   mkAabb f_0_3125 f_0_0 f_0_0 f_0_6875 f_1_5 f_0_25;
   mkAabb f_0_3125 f_0_0 f_0_0 f_0_6875 f_1_5 f_0_6875;
   mkAabb f_0_0 f_0_0 f_0_3125 f_0_6875 f_1_5 f_0_6875;
   mkAabb f_0_3125 f_0_0 f_0_0 f_0_6875 f_1_5 f_0_3125;
   mkAabb f_0_0 f_0_0 f_0_3125 f_0_6875 f_1_5 f_0_6875;
   mkAabb f_0_3125 f_0_0 f_0_0 f_0_6875 f_1_5 f_0_3125;
   mkAabb f_0_25 f_0_0 f_0_25 f_0_75 f_1_5 f_0_75;
   mkAabb f_0_3125 f_0_0 f_0_0 f_0_6875 f_1_5 f_0_25;
   mkAabb f_0_3125 f_0_0 f_0_75 f_0_6875 f_1_5 f_1_0;
   mkAabb f_0_0 f_0_0 f_0_3125 f_0_75 f_1_5 f_0_6875;
   mkAabb f_0_25 f_0_0 f_0_25 f_0_75 f_1_5 f_0_3125;
   mkAabb f_0_25 f_0_0 f_0_6875 f_0_75 f_1_5 f_0_75;
   mkAabb f_0_3125 f_0_0 f_0_0 f_0_6875 f_1_5 f_0_25;
   mkAabb f_0_3125 f_0_0 f_0_75 f_0_6875 f_1_5 f_1_0;
   mkAabb f_0_0 f_0_0 f_0_3125 f_0_75 f_1_5 f_0_6875;
   mkAabb f_0_25 f_0_0 f_0_25 f_0_75 f_1_5 f_0_3125;
   mkAabb f_0_25 f_0_0 f_0_6875 f_0_75 f_1_5 f_0_75;
   mkAabb f_0_3125 f_0_0 f_0_0 f_0_6875 f_1_5 f_0_25;
   mkAabb f_0_3125 f_0_0 f_0_75 f_0_6875 f_1_5 f_1_0;
   mkAabb f_0_3125 f_0_0 f_0_0 f_0_6875 f_1_5 f_1_0;
   mkAabb f_0_0 f_0_0 f_0_3125 f_0_6875 f_1_5 f_0_6875;
   mkAabb f_0_3125 f_0_0 f_0_0 f_0_6875 f_1_5 f_0_3125;
   mkAabb f_0_3125 f_0_0 f_0_6875 f_0_6875 f_1_5 f_1_0;
   mkAabb f_0_0 f_0_0 f_0_3125 f_0_6875 f_1_5 f_0_6875;
   mkAabb f_0_3125 f_0_0 f_0_0 f_0_6875 f_1_5 f_0_3125;
   mkAabb f_0_3125 f_0_0 f_0_6875 f_0_6875 f_1_5 f_1_0;
   mkAabb f_0_25 f_0_0 f_0_25 f_0_75 f_1_5 f_0_75;
   mkAabb f_0_3125 f_0_0 f_0_0 f_0_6875 f_1_5 f_0_25;
   mkAabb f_0_3125 f_0_0 f_0_75 f_0_6875 f_1_5 f_1_0;
   mkAabb f_0_0 f_0_0 f_0_3125 f_0_75 f_1_5 f_0_6875;
   mkAabb f_0_25 f_0_0 f_0_25 f_0_75 f_1_5 f_0_3125;
   mkAabb f_0_25 f_0_0 f_0_6875 f_0_75 f_1_5 f_0_75;
   mkAabb f_0_3125 f_0_0 f_0_0 f_0_6875 f_1_5 f_0_25;
   mkAabb f_0_3125 f_0_0 f_0_75 f_0_6875 f_1_5 f_1_0;
   mkAabb f_0_0 f_0_0 f_0_3125 f_0_75 f_1_5 f_0_6875;
   mkAabb f_0_25 f_0_0 f_0_25 f_0_75 f_1_5 f_0_3125;
   mkAabb f_0_25 f_0_0 f_0_6875 f_0_75 f_1_5 f_0_75;
   mkAabb f_0_3125 f_0_0 f_0_0 f_0_6875 f_1_5 f_0_25;
   mkAabb f_0_3125 f_0_0 f_0_75 f_0_6875 f_1_5 f_1_0;
   mkAabb f_0_3125 f_0_0 f_0_0 f_0_6875 f_1_5 f_1_0;
   mkAabb f_0_0 f_0_0 f_0_3125 f_0_6875 f_1_5 f_0_6875;
   mkAabb f_0_3125 f_0_0 f_0_0 f_0_6875 f_1_5 f_0_3125;
   mkAabb f_0_3125 f_0_0 f_0_6875 f_0_6875 f_1_5 f_1_0;
   mkAabb f_0_0 f_0_0 f_0_3125 f_0_6875 f_1_5 f_0_6875;
   mkAabb f_0_3125 f_0_0 f_0_0 f_0_6875 f_1_5 f_0_3125;
   mkAabb f_0_3125 f_0_0 f_0_6875 f_0_6875 f_1_5 f_1_0;
   mkAabb f_0_25 f_0_0 f_0_25 f_0_75 f_1_5 f_0_75;
   mkAabb f_0_75 f_0_0 f_0_3125 f_1_0 f_1_5 f_0_6875;
   mkAabb f_0_0 f_0_0 f_0_3125 f_1_0 f_1_5 f_0_6875;
   mkAabb f_0_25 f_0_0 f_0_25 f_0_75 f_1_5 f_0_3125;
   mkAabb f_0_25 f_0_0 f_0_6875 f_0_75 f_1_5 f_0_75;
   mkAabb f_0_0 f_0_0 f_0_3125 f_1_0 f_1_5 f_0_6875;
   mkAabb f_0_25 f_0_0 f_0_25 f_0_75 f_1_5 f_0_3125;
   mkAabb f_0_25 f_0_0 f_0_6875 f_0_75 f_1_5 f_0_75;
   mkAabb f_0_3125 f_0_0 f_0_3125 f_1_0 f_1_5 f_0_6875;
   mkAabb f_0_0 f_0_0 f_0_3125 f_1_0 f_1_5 f_0_6875;
   mkAabb f_0_0 f_0_0 f_0_3125 f_1_0 f_1_5 f_0_6875;
   mkAabb f_0_25 f_0_0 f_0_25 f_0_75 f_1_5 f_0_75;
   mkAabb f_0_3125 f_0_0 f_0_75 f_0_6875 f_1_5 f_1_0;
   mkAabb f_0_75 f_0_0 f_0_3125 f_1_0 f_1_5 f_0_6875;
   mkAabb f_0_0 f_0_0 f_0_3125 f_1_0 f_1_5 f_0_6875;
   mkAabb f_0_25 f_0_0 f_0_25 f_0_75 f_1_5 f_0_3125;
   mkAabb f_0_25 f_0_0 f_0_6875 f_0_75 f_1_5 f_0_75;
   mkAabb f_0_3125 f_0_0 f_0_75 f_0_6875 f_1_5 f_1_0;
   mkAabb f_0_0 f_0_0 f_0_3125 f_1_0 f_1_5 f_0_6875;
   mkAabb f_0_25 f_0_0 f_0_25 f_0_75 f_1_5 f_0_3125;
   mkAabb f_0_25 f_0_0 f_0_6875 f_0_75 f_1_5 f_0_75;
   mkAabb f_0_3125 f_0_0 f_0_75 f_0_6875 f_1_5 f_1_0;
   mkAabb f_0_3125 f_0_0 f_0_3125 f_0_6875 f_1_5 f_1_0;
   mkAabb f_0_6875 f_0_0 f_0_3125 f_1_0 f_1_5 f_0_6875;
   mkAabb f_0_0 f_0_0 f_0_3125 f_1_0 f_1_5 f_0_6875;
   mkAabb f_0_3125 f_0_0 f_0_6875 f_0_6875 f_1_5 f_1_0;
   mkAabb f_0_0 f_0_0 f_0_3125 f_1_0 f_1_5 f_0_6875;
   mkAabb f_0_3125 f_0_0 f_0_6875 f_0_6875 f_1_5 f_1_0;
   mkAabb f_0_25 f_0_0 f_0_25 f_0_75 f_1_5 f_0_75;
   mkAabb f_0_3125 f_0_0 f_0_75 f_0_6875 f_1_5 f_1_0;
   mkAabb f_0_75 f_0_0 f_0_3125 f_1_0 f_1_5 f_0_6875;
   mkAabb f_0_0 f_0_0 f_0_3125 f_1_0 f_1_5 f_0_6875;
   mkAabb f_0_25 f_0_0 f_0_25 f_0_75 f_1_5 f_0_3125;
   mkAabb f_0_25 f_0_0 f_0_6875 f_0_75 f_1_5 f_0_75;
   mkAabb f_0_3125 f_0_0 f_0_75 f_0_6875 f_1_5 f_1_0;
   mkAabb f_0_0 f_0_0 f_0_3125 f_1_0 f_1_5 f_0_6875;
   mkAabb f_0_25 f_0_0 f_0_25 f_0_75 f_1_5 f_0_3125;
   mkAabb f_0_25 f_0_0 f_0_6875 f_0_75 f_1_5 f_0_75;
   mkAabb f_0_3125 f_0_0 f_0_75 f_0_6875 f_1_5 f_1_0;
   mkAabb f_0_3125 f_0_0 f_0_3125 f_0_6875 f_1_5 f_1_0;
   mkAabb f_0_6875 f_0_0 f_0_3125 f_1_0 f_1_5 f_0_6875;
   mkAabb f_0_0 f_0_0 f_0_3125 f_1_0 f_1_5 f_0_6875;
   mkAabb f_0_3125 f_0_0 f_0_6875 f_0_6875 f_1_5 f_1_0;
   mkAabb f_0_0 f_0_0 f_0_3125 f_1_0 f_1_5 f_0_6875;
   mkAabb f_0_3125 f_0_0 f_0_6875 f_0_6875 f_1_5 f_1_0;
   mkAabb f_0_25 f_0_0 f_0_25 f_0_75 f_1_5 f_0_75;
   mkAabb f_0_3125 f_0_0 f_0_0 f_0_6875 f_1_5 f_0_25;
   mkAabb f_0_75 f_0_0 f_0_3125 f_1_0 f_1_5 f_0_6875;
   mkAabb f_0_0 f_0_0 f_0_3125 f_1_0 f_1_5 f_0_6875;
   mkAabb f_0_25 f_0_0 f_0_25 f_0_75 f_1_5 f_0_3125;
   mkAabb f_0_25 f_0_0 f_0_6875 f_0_75 f_1_5 f_0_75;
   mkAabb f_0_3125 f_0_0 f_0_0 f_0_6875 f_1_5 f_0_25].
Definition SHAPE_BOXES_29 : list Aabb :=
  [mkAabb f_0_0 f_0_0 f_0_3125 f_1_0 f_1_5 f_0_6875;
   mkAabb f_0_25 f_0_0 f_0_25 f_0_75 f_1_5 f_0_3125;
   mkAabb f_0_25 f_0_0 f_0_6875 f_0_75 f_1_5 f_0_75;
   mkAabb f_0_3125 f_0_0 f_0_0 f_0_6875 f_1_5 f_0_25;
   mkAabb f_0_3125 f_0_0 f_0_0 f_0_6875 f_1_5 f_0_6875;
   mkAabb f_0_6875 f_0_0 f_0_3125 f_1_0 f_1_5 f_0_6875;
   mkAabb f_0_0 f_0_0 f_0_3125 f_1_0 f_1_5 f_0_6875;
   mkAabb f_0_3125 f_0_0 f_0_0 f_0_6875 f_1_5 f_0_3125;
   mkAabb f_0_0 f_0_0 f_0_3125 f_1_0 f_1_5 f_0_6875;
   mkAabb f_0_3125 f_0_0 f_0_0 f_0_6875 f_1_5 f_0_3125;
   mkAabb f_0_25 f_0_0 f_0_25 f_0_75 f_1_5 f_0_75;
   mkAabb f_0_3125 f_0_0 f_0_0 f_0_6875 f_1_5 f_0_25;
   mkAabb f_0_3125 f_0_0 f_0_75 f_0_6875 f_1_5 f_1_0;
   mkAabb f_0_75 f_0_0 f_0_3125 f_1_0 f_1_5 f_0_6875;
   mkAabb f_0_0 f_0_0 f_0_3125 f_1_0 f_1_5 f_0_6875;
   mkAabb f_0_25 f_0_0 f_0_25 f_0_75 f_1_5 f_0_3125;
   mkAabb f_0_25 f_0_0 f_0_6875 f_0_75 f_1_5 f_0_75;
   mkAabb f_0_3125 f_0_0 f_0_0 f_0_6875 f_1_5 f_0_25;
   mkAabb f_0_3125 f_0_0 f_0_75 f_0_6875 f_1_5 f_1_0;
   mkAabb f_0_0 f_0_0 f_0_3125 f_1_0 f_1_5 f_0_6875;
   mkAabb f_0_25 f_0_0 f_0_25 f_0_75 f_1_5 f_0_3125;
   mkAabb f_0_25 f_0_0 f_0_6875 f_0_75 f_1_5 f_0_75;
   mkAabb f_0_3125 f_0_0 f_0_0 f_0_6875 f_1_5 f_0_25;
   mkAabb f_0_3125 f_0_0 f_0_75 f_0_6875 f_1_5 f_1_0;
   mkAabb f_0_3125 f_0_0 f_0_0 f_0_6875 f_1_5 f_1_0;
   mkAabb f_0_6875 f_0_0 f_0_3125 f_1_0 f_1_5 f_0_6875;
   mkAabb f_0_0 f_0_0 f_0_3125 f_1_0 f_1_5 f_0_6875;
   mkAabb f_0_3125 f_0_0 f_0_0 f_0_6875 f_1_5 f_0_3125;
   mkAabb f_0_3125 f_0_0 f_0_6875 f_0_6875 f_1_5 f_1_0;
   mkAabb f_0_0 f_0_0 f_0_3125 f_1_0 f_1_5 f_0_6875;
   mkAabb f_0_3125 f_0_0 f_0_0 f_0_6875 f_1_5 f_0_3125;
   mkAabb f_0_3125 f_0_0 f_0_6875 f_0_6875 f_1_5 f_1_0;
   mkAabb f_0_25 f_0_0 f_0_25 f_0_75 f_1_5 f_0_75;
   mkAabb f_0_3125 f_0_0 f_0_0 f_0_6875 f_1_5 f_0_25;
   mkAabb f_0_3125 f_0_0 f_0_75 f_0_6875 f_1_5 f_1_0;
   mkAabb f_0_75 f_0_0 f_0_3125 f_1_0 f_1_5 f_0_6875;
   mkAabb f_0_0 f_0_0 f_0_3125 f_1_0 f_1_5 f_0_6875;
   mkAabb f_0_25 f_0_0 f_0_25 f_0_75 f_1_5 f_0_3125;
   mkAabb f_0_25 f_0_0 f_0_6875 f_0_75 f_1_5 f_0_75;
   mkAabb f_0_3125 f_0_0 f_0_0 f_0_6875 f_1_5 f_0_25;
   mkAabb f_0_3125 f_0_0 f_0_75 f_0_6875 f_1_5 f_1_0;
   mkAabb f_0_0 f_0_0 f_0_3125 f_1_0 f_1_5 f_0_6875;
   mkAabb f_0_25 f_0_0 f_0_25 f_0_75 f_1_5 f_0_3125;
   mkAabb f_0_25 f_0_0 f_0_6875 f_0_75 f_1_5 f_0_75;
   mkAabb f_0_3125 f_0_0 f_0_0 f_0_6875 f_1_5 f_0_25;
   mkAabb f_0_3125 f_0_0 f_0_75 f_0_6875 f_1_5 f_1_0;
   mkAabb f_0_3125 f_0_0 f_0_0 f_0_6875 f_1_5 f_1_0;
   mkAabb f_0_6875 f_0_0 f_0_3125 f_1_0 f_1_5 f_0_6875;
   mkAabb f_0_0 f_0_0 f_0_3125 f_1_0 f_1_5 f_0_6875;
   mkAabb f_0_3125 f_0_0 f_0_0 f_0_6875 f_1_5 f_0_3125;
   mkAabb f_0_3125 f_0_0 f_0_6875 f_0_6875 f_1_5 f_1_0;
   mkAabb f_0_0 f_0_0 f_0_3125 f_1_0 f_1_5 f_0_6875;
   mkAabb f_0_3125 f_0_0 f_0_0 f_0_6875 f_1_5 f_0_3125;
   mkAabb f_0_3125 f_0_0 f_0_6875 f_0_6875 f_1_5 f_1_0;
   mkAabb f_0_25 f_0_0 f_0_25 f_0_75 f_1_5 f_0_75;
   mkAabb f_0_3125 f_0_0 f_0_0 f_0_6875 f_1_5 f_0_25;
   mkAabb f_0_75 f_0_0 f_0_3125 f_1_0 f_1_5 f_0_6875;
   mkAabb f_0_0 f_0_0 f_0_3125 f_1_0 f_1_5 f_0_6875;
   mkAabb f_0_25 f_0_0 f_0_25 f_0_75 f_1_5 f_0_3125;
   mkAabb f_0_25 f_0_0 f_0_6875 f_0_75 f_1_5 f_0_75;
   mkAabb f_0_3125 f_0_0 f_0_0 f_0_6875 f_1_5 f_0_25;
   mkAabb f_0_0 f_0_0 f_0_3125 f_1_0 f_1_5 f_0_6875;
   mkAabb f_0_25 f_0_0 f_0_25 f_0_75 f_1_5 f_0_3125;
   mkAabb f_0_25 f_0_0 f_0_6875 f_0_75 f_1_5 f_0_75;
   mkAabb f_0_3125 f_0_0 f_0_0 f_0_6875 f_1_5 f_0_25;
   mkAabb f_0_3125 f_0_0 f_0_0 f_0_6875 f_1_5 f_0_6875;
   mkAabb f_0_6875 f_0_0 f_0_3125 f_1_0 f_1_5 f_0_6875;
   mkAabb f_0_0 f_0_0 f_0_3125 f_1_0 f_1_5 f_0_6875;
   mkAabb f_0_3125 f_0_0 f_0_0 f_0_6875 f_1_5 f_0_3125;
   mkAabb f_0_0 f_0_0 f_0_3125 f_1_0 f_1_5 f_0_6875;
   mkAabb f_0_3125 f_0_0 f_0_0 f_0_6875 f_1_5 f_0_3125;
   mkAabb f_0_25 f_0_0 f_0_25 f_0_75 f_1_5 f_0_75;
   mkAabb f_0_3125 f_0_0 f_0_0 f_0_6875 f_1_5 f_0_25;
   mkAabb f_0_3125 f_0_0 f_0_75 f_0_6875 f_1_5 f_1_0;
   mkAabb f_0_75 f_0_0 f_0_3125 f_1_0 f_1_5 f_0_6875;
   mkAabb f_0_0 f_0_0 f_0_3125 f_1_0 f_1_5 f_0_6875;
   mkAabb f_0_25 f_0_0 f_0_25 f_0_75 f_1_5 f_0_3125;
   mkAabb f_0_25 f_0_0 f_0_6875 f_0_75 f_1_5 f_0_75;
   mkAabb f_0_3125 f_0_0 f_0_0 f_0_6875 f_1_5 f_0_25;
   mkAabb f_0_3125 f_0_0 f_0_75 f_0_6875 f_1_5 f_1_0;
   mkAabb f_0_0 f_0_0 f_0_3125 f_1_0 f_1_5 f_0_6875;
   mkAabb f_0_25 f_0_0 f_0_25 f_0_75 f_1_5 f_0_3125;
   mkAabb f_0_25 f_0_0 f_0_6875 f_0_75 f_1_5 f_0_75;
   mkAabb f_0_3125 f_0_0 f_0_0 f_0_6875 f_1_5 f_0_25;
   mkAabb f_0_3125 f_0_0 f_0_75 f_0_6875 f_1_5 f_1_0;
   mkAabb f_0_3125 f_0_0 f_0_0 f_0_6875 f_1_5 f_1_0;
   mkAabb f_0_6875 f_0_0 f_0_3125 f_1_0 f_1_5 f_0_6875;
   mkAabb f_0_0 f_0_0 f_0_3125 f_1_0 f_1_5 f_0_6875;
   mkAabb f_0_3125 f_0_0 f_0_0 f_0_6875 f_1_5 f_0_3125;
   mkAabb f_0_3125 f_0_0 f_0_6875 f_0_6875 f_1_5 f_1_0;
   mkAabb f_0_0 f_0_0 f_0_3125 f_1_0 f_1_5 f_0_6875;
   mkAabb f_0_3125 f_0_0 f_0_0 f_0_6875 f_1_5 f_0_3125;
   mkAabb f_0_3125 f_0_0 f_0_6875 f_0_6875 f_1_5 f_1_0;
   mkAabb f_0_25 f_0_0 f_0_25 f_0_75 f_1_5 f_0_75;
   mkAabb f_0_3125 f_0_0 f_0_0 f_0_6875 f_1_5 f_0_25;
   mkAabb f_0_3125 f_0_0 f_0_75 f_0_6875 f_1_5 f_1_0;
   mkAabb f_0_75 f_0_0 f_0_3125 f_1_0 f_1_5 f_0_6875;
   mkAabb f_0_0 f_0_0 f_0_3125 f_1_0 f_1_5 f_0_6875;
   mkAabb f_0_25 f_0_0 f_0_25 f_0_75 f_1_5 f_0_3125;
   mkAabb f_0_25 f_0_0 f_0_6875 f_0_75 f_1_5 f_0_75;
   mkAabb f_0_3125 f_0_0 f_0_0 f_0_6875 f_1_5 f_0_25;
   mkAabb f_0_3125 f_0_0 f_0_75 f_0_6875 f_1_5 f_1_0;
   mkAabb f_0_0 f_0_0 f_0_3125 f_1_0 f_1_5 f_0_6875;
   mkAabb f_0_25 f_0_0 f_0_25 f_0_75 f_1_5 f_0_3125;
   mkAabb f_0_25 f_0_0 f_0_6875 f_0_75 f_1_5 f_0_75;
   mkAabb f_0_3125 f_0_0 f_0_0 f_0_6875 f_1_5 f_0_25;
   mkAabb f_0_3125 f_0_0 f_0_75 f_0_6875 f_1_5 f_1_0;
   mkAabb f_0_3125 f_0_0 f_0_0 f_0_6875 f_1_5 f_1_0;
   mkAabb f_0_6875 f_0_0 f_0_3125 f_1_0 f_1_5 f_0_6875;
   mkAabb f_0_0 f_0_0 f_0_3125 f_1_0 f_1_5 f_0_6875;
   mkAabb f_0_3125 f_0_0 f_0_0 f_0_6875 f_1_5 f_0_3125;
   mkAabb f_0_3125 f_0_0 f_0_6875 f_0_6875 f_1_5 f_1_0;
   mkAabb f_0_0 f_0_0 f_0_3125 f_1_0 f_1_5 f_0_6875;
   mkAabb f_0_3125 f_0_0 f_0_0 f_0_6875 f_1_5 f_0_3125;
   mkAabb f_0_3125 f_0_0 f_0_6875 f_0_6875 f_1_5 f_1_0;
   mkAabb f_0_25 f_0_0 f_0_25 f_0_75 f_1_5 f_0_75;
   mkAabb f_0_75 f_0_0 f_0_3125 f_1_0 f_1_5 f_0_6875;
   mkAabb f_0_0 f_0_0 f_0_3125 f_1_0 f_1_5 f_0_6875;
   mkAabb f_0_25 f_0_0 f_0_25 f_0_75 f_1_5 f_0_3125;
   mkAabb f_0_25 f_0_0 f_0_6875 f_0_75 f_1_5 f_0_75;
   mkAabb f_0_0 f_0_0 f_0_3125 f_1_0 f_1_5 f_0_6875;
   mkAabb f_0_25 f_0_0 f_0_25 f_0_75 f_1_5 f_0_3125;
   mkAabb f_0_25 f_0_0 f_0_6875 f_0_75 f_1_5 f_0_75;
   mkAabb f_0_3125 f_0_0 f_0_3125 f_1_0 f_1_5 f_0_6875;
   mkAabb f_0_0 f_0_0 f_0_3125 f_1_0 f_1_5 f_0_6875;
   mkAabb f_0_0 f_0_0 f_0_3125 f_1_0 f_1_5 f_0_6875;
   mkAabb f_0_25 f_0_0 f_0_25 f_0_75 f_1_5 f_0_75;
   mkAabb f_0_3125 f_0_0 f_0_75 f_0_6875 f_1_5 f_1_0;
   mkAabb f_0_75 f_0_0 f_0_3125 f_1_0 f_1_5 f_0_6875;
   mkAabb f_0_0 f_0_0 f_0_3125 f_1_0 f_1_5 f_0_6875;
   mkAabb f_0_25 f_0_0 f_0_25 f_0_75 f_1_5 f_0_3125;
   mkAabb f_0_25 f_0_0 f_0_6875 f_0_75 f_1_5 f_0_75;
   mkAabb f_0_3125 f_0_0 f_0_75 f_0_6875 f_1_5 f_1_0;
   mkAabb f_0_0 f_0_0 f_0_3125 f_1_0 f_1_5 f_0_6875;
   mkAabb f_0_25 f_0_0 f_0_25 f_0_75 f_1_5 f_0_3125;
   mkAabb f_0_25 f_0_0 f_0_6875 f_0_75 f_1_5 f_0_75;
   mkAabb f_0_3125 f_0_0 f_0_75 f_0_6875 f_1_5 f_1_0;
   mkAabb f_0_3125 f_0_0 f_0_3125 f_0_6875 f_1_5 f_1_0;
   mkAabb f_0_6875 f_0_0 f_0_3125 f_1_0 f_1_5 f_0_6875;
   mkAabb f_0_0 f_0_0 f_0_3125 f_1_0 f_1_5 f_0_6875;
   mkAabb f_0_3125 f_0_0 f_0_6875 f_0_6875 f_1_5 f_1_0;
   mkAabb f_0_0 f_0_0 f_0_3125 f_1_0 f_1_5 f_0_6875;
   mkAabb f_0_3125 f_0_0 f_0_6875 f_0_6875 f_1_5 f_1_0;
   mkAabb f_0_25 f_0_0 f_0_25 f_0_75 f_1_5 f_0_75;
   mkAabb f_0_3125 f_0_0 f_0_75 f_0_6875 f_1_5 f_1_0;
   mkAabb f_0_75 f_0_0 f_0_3125 f_1_0 f_1_5 f_0_6875;
   mkAabb f_0_0 f_0_0 f_0_3125 f_1_0 f_1_5 f_0_6875;
   mkAabb f_0_25 f_0_0 f_0_25 f_0_75 f_1_5 f_0_3125;
   mkAabb f_0_25 f_0_0 f_0_6875 f_0_75 f_1_5 f_0_75;
   mkAabb f_0_3125 f_0_0 f_0_75 f_0_6875 f_1_5 f_1_0].
Definition SHAPE_BOXES_30 : list Aabb :=
  [mkAabb f_0_0 f_0_0 f_0_3125 f_1_0 f_1_5 f_0_6875;
   mkAabb f_0_25 f_0_0 f_0_25 f_0_75 f_1_5 f_0_3125;
   mkAabb f_0_25 f_0_0 f_0_6875 f_0_75 f_1_5 f_0_75;
   mkAabb f_0_3125 f_0_0 f_0_75 f_0_6875 f_1_5 f_1_0;
   mkAabb f_0_3125 f_0_0 f_0_3125 f_0_6875 f_1_5 f_1_0;
   mkAabb f_0_6875 f_0_0 f_0_3125 f_1_0 f_1_5 f_0_6875;
   mkAabb f_0_0 f_0_0 f_0_3125 f_1_0 f_1_5 f_0_6875;
   mkAabb f_0_3125 f_0_0 f_0_6875 f_0_6875 f_1_5 f_1_0;
   mkAabb f_0_0 f_0_0 f_0_3125 f_1_0 f_1_5 f_0_6875;
   mkAabb f_0_3125 f_0_0 f_0_6875 f_0_6875 f_1_5 f_1_0;
   mkAabb f_0_25 f_0_0 f_0_25 f_0_75 f_1_5 f_0_75;
   mkAabb f_0_3125 f_0_0 f_0_0 f_0_6875 f_1_5 f_0_25;
   mkAabb f_0_75 f_0_0 f_0_3125 f_1_0 f_1_5 f_0_6875;
   mkAabb f_0_0 f_0_0 f_0_3125 f_1_0 f_1_5 f_0_6875;
   mkAabb f_0_25 f_0_0 f_0_25 f_0_75 f_1_5 f_0_3125;
   mkAabb f_0_25 f_0_0 f_0_6875 f_0_75 f_1_5 f_0_75;
   mkAabb f_0_3125 f_0_0 f_0_0 f_0_6875 f_1_5 f_0_25;
   mkAabb f_0_0 f_0_0 f_0_3125 f_1_0 f_1_5 f_0_6875;
   mkAabb f_0_25 f_0_0 f_0_25 f_0_75 f_1_5 f_0_3125;
   mkAabb f_0_25 f_0_0 f_0_6875 f_0_75 f_1_5 f_0_75;
   mkAabb f_0_3125 f_0_0 f_0_0 f_0_6875 f_1_5 f_0_25;
   mkAabb f_0_3125 f_0_0 f_0_0 f_0_6875 f_1_5 f_0_6875;
   mkAabb f_0_6875 f_0_0 f_0_3125 f_1_0 f_1_5 f_0_6875;
   mkAabb f_0_0 f_0_0 f_0_3125 f_1_0 f_1_5 f_0_6875;
   mkAabb f_0_3125 f_0_0 f_0_0 f_0_6875 f_1_5 f_0_3125;
   mkAabb f_0_0 f_0_0 f_0_3125 f_1_0 f_1_5 f_0_6875;
   mkAabb f_0_3125 f_0_0 f_0_0 f_0_6875 f_1_5 f_0_3125;
   mkAabb f_0_25 f_0_0 f_0_25 f_0_75 f_1_5 f_0_75;
   mkAabb f_0_3125 f_0_0 f_0_0 f_0_6875 f_1_5 f_0_25;
   mkAabb f_0_3125 f_0_0 f_0_75 f_0_6875 f_1_5 f_1_0;
   mkAabb f_0_75 f_0_0 f_0_3125 f_1_0 f_1_5 f_0_6875;
   mkAabb f_0_0 f_0_0 f_0_3125 f_1_0 f_1_5 f_0_6875;
   mkAabb f_0_25 f_0_0 f_0_25 f_0_75 f_1_5 f_0_3125;
   mkAabb f_0_25 f_0_0 f_0_6875 f_0_75 f_1_5 f_0_75;
   mkAabb f_0_3125 f_0_0 f_0_0 f_0_6875 f_1_5 f_0_25;
   mkAabb f_0_3125 f_0_0 f_0_75 f_0_6875 f_1_5 f_1_0;
   mkAabb f_0_0 f_0_0 f_0_3125 f_1_0 f_1_5 f_0_6875;
   mkAabb f_0_25 f_0_0 f_0_25 f_0_75 f_1_5 f_0_3125;
   mkAabb f_0_25 f_0_0 f_0_6875 f_0_75 f_1_5 f_0_75;
   mkAabb f_0_3125 f_0_0 f_0_0 f_0_6875 f_1_5 f_0_25;
   mkAabb f_0_3125 f_0_0 f_0_75 f_0_6875 f_1_5 f_1_0;
   mkAabb f_0_3125 f_0_0 f_0_0 f_0_6875 f_1_5 f_1_0;
   mkAabb f_0_6875 f_0_0 f_0_3125 f_1_0 f_1_5 f_0_6875;
   mkAabb f_0_0 f_0_0 f_0_3125 f_1_0 f_1_5 f_0_6875;
   mkAabb f_0_3125 f_0_0 f_0_0 f_0_6875 f_1_5 f_0_3125;
   mkAabb f_0_3125 f_0_0 f_0_6875 f_0_6875 f_1_5 f_1_0;
   mkAabb f_0_0 f_0_0 f_0_3125 f_1_0 f_1_5 f_0_6875;
   mkAabb f_0_3125 f_0_0 f_0_0 f_0_6875 f_1_5 f_0_3125;
   mkAabb f_0_3125 f_0_0 f_0_6875 f_0_6875 f_1_5 f_1_0;
   mkAabb f_0_25 f_0_0 f_0_25 f_0_75 f_1_5 f_0_75;
   mkAabb f_0_3125 f_0_0 f_0_0 f_0_6875 f_1_5 f_0_25;
   mkAabb f_0_3125 f_0_0 f_0_75 f_0_6875 f_1_5 f_1_0;
   mkAabb f_0_75 f_0_0 f_0_3125 f_1_0 f_1_5 f_0_6875;
   mkAabb f_0_0 f_0_0 f_0_3125 f_1_0 f_1_5 f_0_6875;
   mkAabb f_0_25 f_0_0 f_0_25 f_0_75 f_1_5 f_0_3125;
   mkAabb f_0_25 f_0_0 f_0_6875 f_0_75 f_1_5 f_0_75;
   mkAabb f_0_3125 f_0_0 f_0_0 f_0_6875 f_1_5 f_0_25;
   mkAabb f_0_3125 f_0_0 f_0_75 f_0_6875 f_1_5 f_1_0;
   mkAabb f_0_0 f_0_0 f_0_3125 f_1_0 f_1_5 f_0_6875;
   mkAabb f_0_25 f_0_0 f_0_25 f_0_75 f_1_5 f_0_3125;
   mkAabb f_0_25 f_0_0 f_0_6875 f_0_75 f_1_5 f_0_75;
   mkAabb f_0_3125 f_0_0 f_0_0 f_0_6875 f_1_5 f_0_25;
   mkAabb f_0_3125 f_0_0 f_0_75 f_0_6875 f_1_5 f_1_0;
   mkAabb f_0_3125 f_0_0 f_0_0 f_0_6875 f_1_5 f_1_0;
   mkAabb f_0_6875 f_0_0 f_0_3125 f_1_0 f_1_5 f_0_6875;
   mkAabb f_0_0 f_0_0 f_0_3125 f_1_0 f_1_5 f_0_6875;
   mkAabb f_0_3125 f_0_0 f_0_0 f_0_6875 f_1_5 f_0_3125;
   mkAabb f_0_3125 f_0_0 f_0_6875 f_0_6875 f_1_5 f_1_0;
   mkAabb f_0_0 f_0_0 f_0_3125 f_1_0 f_1_5 f_0_6875;
   mkAabb f_0_3125 f_0_0 f_0_0 f_0_6875 f_1_5 f_0_3125;
   mkAabb f_0_3125 f_0_0 f_0_6875 f_0_6875 f_1_5 f_1_0;
   mkAabb f_0_25 f_0_0 f_0_25 f_0_75 f_1_5 f_0_75;
   mkAabb f_0_3125 f_0_0 f_0_0 f_0_6875 f_1_5 f_0_25;
   mkAabb f_0_75 f_0_0 f_0_3125 f_1_0 f_1_5 f_0_6875;
   mkAabb f_0_0 f_0_0 f_0_3125 f_1_0 f_1_5 f_0_6875;
   mkAabb f_0_25 f_0_0 f_0_25 f_0_75 f_1_5 f_0_3125;
   mkAabb f_0_25 f_0_0 f_0_6875 f_0_75 f_1_5 f_0_75;
   mkAabb f_0_3125 f_0_0 f_0_0 f_0_6875 f_1_5 f_0_25;
   mkAabb f_0_0 f_0_0 f_0_3125 f_1_0 f_1_5 f_0_6875;
   mkAabb f_0_25 f_0_0 f_0_25 f_0_75 f_1_5 f_0_3125;
   mkAabb f_0_25 f_0_0 f_0_6875 f_0_75 f_1_5 f_0_75;
   mkAabb f_0_3125 f_0_0 f_0_0 f_0_6875 f_1_5 f_0_25;
   mkAabb f_0_3125 f_0_0 f_0_0 f_0_6875 f_1_5 f_0_6875;
   mkAabb f_0_6875 f_0_0 f_0_3125 f_1_0 f_1_5 f_0_6875;
   mkAabb f_0_0 f_0_0 f_0_3125 f_1_0 f_1_5 f_0_6875;
   mkAabb f_0_3125 f_0_0 f_0_0 f_0_6875 f_1_5 f_0_3125;
   mkAabb f_0_0 f_0_0 f_0_3125 f_1_0 f_1_5 f_0_6875;
   mkAabb f_0_3125 f_0_0 f_0_0 f_0_6875 f_1_5 f_0_3125;
   mkAabb f_0_25 f_0_0 f_0_25 f_0_75 f_1_5 f_0_75;
   mkAabb f_0_3125 f_0_0 f_0_0 f_0_6875 f_1_5 f_0_25;
   mkAabb f_0_3125 f_0_0 f_0_75 f_0_6875 f_1_5 f_1_0;
   mkAabb f_0_75 f_0_0 f_0_3125 f_1_0 f_1_5 f_0_6875;
   mkAabb f_0_0 f_0_0 f_0_3125 f_1_0 f_1_5 f_0_6875;
   mkAabb f_0_25 f_0_0 f_0_25 f_0_75 f_1_5 f_0_3125;
   mkAabb f_0_25 f_0_0 f_0_6875 f_0_75 f_1_5 f_0_75;
   mkAabb f_0_3125 f_0_0 f_0_0 f_0_6875 f_1_5 f_0_25;
   mkAabb f_0_3125 f_0_0 f_0_75 f_0_6875 f_1_5 f_1_0;
   mkAabb f_0_0 f_0_0 f_0_3125 f_1_0 f_1_5 f_0_6875;
   mkAabb f_0_25 f_0_0 f_0_25 f_0_75 f_1_5 f_0_3125;
   mkAabb f_0_25 f_0_0 f_0_6875 f_0_75 f_1_5 f_0_75;
   mkAabb f_0_3125 f_0_0 f_0_0 f_0_6875 f_1_5 f_0_25;
   mkAabb f_0_3125 f_0_0 f_0_75 f_0_6875 f_1_5 f_1_0;
   mkAabb f_0_3125 f_0_0 f_0_0 f_0_6875 f_1_5 f_1_0;
   mkAabb f_0_6875 f_0_0 f_0_3125 f_1_0 f_1_5 f_0_6875;
   mkAabb f_0_0 f_0_0 f_0_3125 f_1_0 f_1_5 f_0_6875;
   mkAabb f_0_3125 f_0_0 f_0_0 f_0_6875 f_1_5 f_0_3125;
   mkAabb f_0_3125 f_0_0 f_0_6875 f_0_6875 f_1_5 f_1_0;
   mkAabb f_0_0 f_0_0 f_0_3125 f_1_0 f_1_5 f_0_6875;
   mkAabb f_0_3125 f_0_0 f_0_0 f_0_6875 f_1_5 f_0_3125;
   mkAabb f_0_3125 f_0_0 f_0_6875 f_0_6875 f_1_5 f_1_0;
   mkAabb f_0_25 f_0_0 f_0_25 f_0_75 f_1_5 f_0_75;
   mkAabb f_0_3125 f_0_0 f_0_0 f_0_6875 f_1_5 f_0_25;
   mkAabb f_0_3125 f_0_0 f_0_75 f_0_6875 f_1_5 f_1_0;
   mkAabb f_0_75 f_0_0 f_0_3125 f_1_0 f_1_5 f_0_6875;
   mkAabb f_0_0 f_0_0 f_0_3125 f_1_0 f_1_5 f_0_6875;
   mkAabb f_0_25 f_0_0 f_0_25 f_0_75 f_1_5 f_0_3125;
   mkAabb f_0_25 f_0_0 f_0_6875 f_0_75 f_1_5 f_0_75;
   mkAabb f_0_3125 f_0_0 f_0_0 f_0_6875 f_1_5 f_0_25;
   mkAabb f_0_3125 f_0_0 f_0_75 f_0_6875 f_1_5 f_1_0;
   mkAabb f_0_0 f_0_0 f_0_3125 f_1_0 f_1_5 f_0_6875;
   mkAabb f_0_25 f_0_0 f_0_25 f_0_75 f_1_5 f_0_3125;
   mkAabb f_0_25 f_0_0 f_0_6875 f_0_75 f_1_5 f_0_75;
   mkAabb f_0_3125 f_0_0 f_0_0 f_0_6875 f_1_5 f_0_25;
   mkAabb f_0_3125 f_0_0 f_0_75 f_0_6875 f_1_5 f_1_0;
   mkAabb f_0_3125 f_0_0 f_0_0 f_0_6875 f_1_5 f_1_0;
   mkAabb f_0_6875 f_0_0 f_0_3125 f_1_0 f_1_5 f_0_6875;
   mkAabb f_0_0 f_0_0 f_0_3125 f_1_0 f_1_5 f_0_6875;
   mkAabb f_0_3125 f_0_0 f_0_0 f_0_6875 f_1_5 f_0_3125;
   mkAabb f_0_3125 f_0_0 f_0_6875 f_0_6875 f_1_5 f_1_0;
   mkAabb f_0_0 f_0_0 f_0_3125 f_1_0 f_1_5 f_0_6875;
   mkAabb f_0_3125 f_0_0 f_0_0 f_0_6875 f_1_5 f_0_3125;
   mkAabb f_0_3125 f_0_0 f_0_6875 f_0_6875 f_1_5 f_1_0;
   mkAabb f_0_25 f_0_0 f_0_25 f_0_75 f_1_5 f_0_75;
   mkAabb f_0_0 f_0_0 f_0_3125 f_0_75 f_1_5 f_0_6875;
   mkAabb f_0_25 f_0_0 f_0_25 f_0_75 f_1_5 f_0_3125;
   mkAabb f_0_25 f_0_0 f_0_6875 f_0_75 f_1_5 f_0_75;
   mkAabb f_0_0 f_0_0 f_0_3125 f_0_75 f_1_5 f_0_6875;
   mkAabb f_0_25 f_0_0 f_0_25 f_0_75 f_1_5 f_0_3125;
   mkAabb f_0_25 f_0_0 f_0_6875 f_0_75 f_1_5 f_0_75;
   mkAabb f_0_0 f_0_0 f_0_3125 f_0_6875 f_1_5 f_0_6875;
   mkAabb f_0_0 f_0_0 f_0_3125 f_0_6875 f_1_5 f_0_6875;
   mkAabb f_0_25 f_0_0 f_0_25 f_0_75 f_1_5 f_0_75;
   mkAabb f_0_3125 f_0_0 f_0_75 f_0_6875 f_1_5 f_1_0;
   mkAabb f_0_0 f_0_0 f_0_3125 f_0_75 f_1_5 f_0_6875;
   mkAabb f_0_25 f_0_0 f_0_25 f_0_75 f_1_5 f_0_3125;
   mkAabb f_0_25 f_0_0 f_0_6875 f_0_75 f_1_5 f_0_75;
   mkAabb f_0_3125 f_0_0 f_0_75 f_0_6875 f_1_5 f_1_0;
   mkAabb f_0_0 f_0_0 f_0_3125 f_0_75 f_1_5 f_0_6875;
   mkAabb f_0_25 f_0_0 f_0_25 f_0_75 f_1_5 f_0_3125;
   mkAabb f_0_25 f_0_0 f_0_6875 f_0_75 f_1_5 f_0_75].
Definition SHAPE_BOXES_31 : list Aabb :=
  [mkAabb f_0_3125 f_0_0 f_0_75 f_0_6875 f_1_5 f_1_0;
   mkAabb f_0_3125 f_0_0 f_0_3125 f_0_6875 f_1_5 f_1_0;
   mkAabb f_0_0 f_0_0 f_0_3125 f_0_6875 f_1_5 f_0_6875;
   mkAabb f_0_3125 f_0_0 f_0_6875 f_0_6875 f_1_5 f_1_0;
   mkAabb f_0_0 f_0_0 f_0_3125 f_0_6875 f_1_5 f_0_6875;
   mkAabb f_0_3125 f_0_0 f_0_6875 f_0_6875 f_1_5 f_1_0;
   mkAabb f_0_25 f_0_0 f_0_25 f_0_75 f_1_5 f_0_75;
   mkAabb f_0_3125 f_0_0 f_0_75 f_0_6875 f_1_5 f_1_0;
   mkAabb f_0_0 f_0_0 f_0_3125 f_0_75 f_1_5 f_0_6875;
   mkAabb f_0_25 f_0_0 f_0_25 f_0_75 f_1_5 f_0_3125;
   mkAabb f_0_25 f_0_0 f_0_6875 f_0_75 f_1_5 f_0_75;
   mkAabb f_0_3125 f_0_0 f_0_75 f_0_6875 f_1_5 f_1_0;
   mkAabb f_0_0 f_0_0 f_0_3125 f_0_75 f_1_5 f_0_6875;
   mkAabb f_0_25 f_0_0 f_0_25 f_0_75 f_1_5 f_0_3125;
   mkAabb f_0_25 f_0_0 f_0_6875 f_0_75 f_1_5 f_0_75;
   mkAabb f_0_3125 f_0_0 f_0_75 f_0_6875 f_1_5 f_1_0;
   mkAabb f_0_3125 f_0_0 f_0_3125 f_0_6875 f_1_5 f_1_0;
   mkAabb f_0_0 f_0_0 f_0_3125 f_0_6875 f_1_5 f_0_6875;
   mkAabb f_0_3125 f_0_0 f_0_6875 f_0_6875 f_1_5 f_1_0;
   mkAabb f_0_0 f_0_0 f_0_3125 f_0_6875 f_1_5 f_0_6875;
   mkAabb f_0_3125 f_0_0 f_0_6875 f_0_6875 f_1_5 f_1_0;
   mkAabb f_0_25 f_0_0 f_0_25 f_0_75 f_1_5 f_0_75;
   mkAabb f_0_3125 f_0_0 f_0_0 f_0_6875 f_1_5 f_0_25;
   mkAabb f_0_0 f_0_0 f_0_3125 f_0_75 f_1_5 f_0_6875;
   mkAabb f_0_25 f_0_0 f_0_25 f_0_75 f_1_5 f_0_3125;
   mkAabb f_0_25 f_0_0 f_0_6875 f_0_75 f_1_5 f_0_75;
   mkAabb f_0_3125 f_0_0 f_0_0 f_0_6875 f_1_5 f_0_25;
   mkAabb f_0_0 f_0_0 f_0_3125 f_0_75 f_1_5 f_0_6875;
   mkAabb f_0_25 f_0_0 f_0_25 f_0_75 f_1_5 f_0_3125;
   mkAabb f_0_25 f_0_0 f_0_6875 f_0_75 f_1_5 f_0_75;
   mkAabb f_0_3125 f_0_0 f_0_0 f_0_6875 f_1_5 f_0_25;
   mkAabb f_0_3125 f_0_0 f_0_0 f_0_6875 f_1_5 f_0_6875;
   mkAabb f_0_0 f_0_0 f_0_3125 f_0_6875 f_1_5 f_0_6875;
   mkAabb f_0_3125 f_0_0 f_0_0 f_0_6875 f_1_5 f_0_3125;
   mkAabb f_0_0 f_0_0 f_0_3125 f_0_6875 f_1_5 f_0_6875;
   mkAabb f_0_3125 f_0_0 f_0_0 f_0_6875 f_1_5 f_0_3125;
   mkAabb f_0_25 f_0_0 f_0_25 f_0_75 f_1_5 f_0_75;
   mkAabb f_0_3125 f_0_0 f_0_0 f_0_6875 f_1_5 f_0_25;
   mkAabb f_0_3125 f_0_0 f_0_75 f_0_6875 f_1_5 f_1_0;
   mkAabb f_0_0 f_0_0 f_0_3125 f_0_75 f_1_5 f_0_6875;
   mkAabb f_0_25 f_0_0 f_0_25 f_0_75 f_1_5 f_0_3125;
   mkAabb f_0_25 f_0_0 f_0_6875 f_0_75 f_1_5 f_0_75;
   mkAabb f_0_3125 f_0_0 f_0_0 f_0_6875 f_1_5 f_0_25;
   mkAabb f_0_3125 f_0_0 f_0_75 f_0_6875 f_1_5 f_1_0;
   mkAabb f_0_0 f_0_0 f_0_3125 f_0_75 f_1_5 f_0_6875;
   mkAabb f_0_25 f_0_0 f_0_25 f_0_75 f_1_5 f_0_3125;
   mkAabb f_0_25 f_0_0 f_0_6875 f_0_75 f_1_5 f_0_75;
   mkAabb f_0_3125 f_0_0 f_0_0 f_0_6875 f_1_5 f_0_25;
   mkAabb f_0_3125 f_0_0 f_0_75 f_0_6875 f_1_5 f_1_0;
   mkAabb f_0_3125 f_0_0 f_0_0 f_0_6875 f_1_5 f_1_0;
   mkAabb f_0_0 f_0_0 f_0_3125 f_0_6875 f_1_5 f_0_6875;
   mkAabb f_0_3125 f_0_0 f_0_0 f_0_6875 f_1_5 f_0_3125;
   mkAabb f_0_3125 f_0_0 f_0_6875 f_0_6875 f_1_5 f_1_0;
   mkAabb f_0_0 f_0_0 f_0_3125 f_0_6875 f_1_5 f_0_6875;
   mkAabb f_0_3125 f_0_0 f_0_0 f_0_6875 f_1_5 f_0_3125;
   mkAabb f_0_3125 f_0_0 f_0_6875 f_0_6875 f_1_5 f_1_0;
   mkAabb f_0_25 f_0_0 f_0_25 f_0_75 f_1_5 f_0_75;
   mkAabb f_0_3125 f_0_0 f_0_0 f_0_6875 f_1_5 f_0_25;
   mkAabb f_0_3125 f_0_0 f_0_75 f_0_6875 f_1_5 f_1_0;
   mkAabb f_0_0 f_0_0 f_0_3125 f_0_75 f_1_5 f_0_6875;
   mkAabb f_0_25 f_0_0 f_0_25 f_0_75 f_1_5 f_0_3125;
   mkAabb f_0_25 f_0_0 f_0_6875 f_0_75 f_1_5 f_0_75;
   mkAabb f_0_3125 f_0_0 f_0_0 f_0_6875 f_1_5 f_0_25;
   mkAabb f_0_3125 f_0_0 f_0_75 f_0_6875 f_1_5 f_1_0;
   mkAabb f_0_0 f_0_0 f_0_3125 f_0_75 f_1_5 f_0_6875;
   mkAabb f_0_25 f_0_0 f_0_25 f_0_75 f_1_5 f_0_3125;
   mkAabb f_0_25 f_0_0 f_0_6875 f_0_75 f_1_5 f_0_75;
   mkAabb f_0_3125 f_0_0 f_0_0 f_0_6875 f_1_5 f_0_25;
   mkAabb f_0_3125 f_0_0 f_0_75 f_0_6875 f_1_5 f_1_0;
   mkAabb f_0_3125 f_0_0 f_0_0 f_0_6875 f_1_5 f_1_0;
   mkAabb f_0_0 f_0_0 f_0_3125 f_0_6875 f_1_5 f_0_6875;
   mkAabb f_0_3125 f_0_0 f_0_0 f_0_6875 f_1_5 f_0_3125;
   mkAabb f_0_3125 f_0_0 f_0_6875 f_0_6875 f_1_5 f_1_0;
   mkAabb f_0_0 f_0_0 f_0_3125 f_0_6875 f_1_5 f_0_6875;
   mkAabb f_0_3125 f_0_0 f_0_0 f_0_6875 f_1_5 f_0_3125;
   mkAabb f_0_3125 f_0_0 f_0_6875 f_0_6875 f_1_5 f_1_0;
   mkAabb f_0_25 f_0_0 f_0_25 f_0_75 f_1_5 f_0_75;
   mkAabb f_0_3125 f_0_0 f_0_0 f_0_6875 f_1_5 f_0_25;
   mkAabb f_0_0 f_0_0 f_0_3125 f_0_75 f_1_5 f_0_6875;
   mkAabb f_0_25 f_0_0 f_0_25 f_0_75 f_1_5 f_0_3125;
   mkAabb f_0_25 f_0_0 f_0_6875 f_0_75 f_1_5 f_0_75;
   mkAabb f_0_3125 f_0_0 f_0_0 f_0_6875 f_1_5 f_0_25;
   mkAabb f_0_0 f_0_0 f_0_3125 f_0_75 f_1_5 f_0_6875;
   mkAabb f_0_25 f_0_0 f_0_25 f_0_75 f_1_5 f_0_3125;
   mkAabb f_0_25 f_0_0 f_0_6875 f_0_75 f_1_5 f_0_75;
   mkAabb f_0_3125 f_0_0 f_0_0 f_0_6875 f_1_5 f_0_25;
   mkAabb f_0_3125 f_0_0 f_0_0 f_0_6875 f_1_5 f_0_6875;
   mkAabb f_0_0 f_0_0 f_0_3125 f_0_6875 f_1_5 f_0_6875;
   mkAabb f_0_3125 f_0_0 f_0_0 f_0_6875 f_1_5 f_0_3125;
   mkAabb f_0_0 f_0_0 f_0_3125 f_0_6875 f_1_5 f_0_6875;
   mkAabb f_0_3125 f_0_0 f_0_0 f_0_6875 f_1_5 f_0_3125;
   mkAabb f_0_25 f_0_0 f_0_25 f_0_75 f_1_5 f_0_75;
   mkAabb f_0_3125 f_0_0 f_0_0 f_0_6875 f_1_5 f_0_25;
   mkAabb f_0_3125 f_0_0 f_0_75 f_0_6875 f_1_5 f_1_0;
   mkAabb f_0_0 f_0_0 f_0_3125 f_0_75 f_1_5 f_0_6875;
   mkAabb f_0_25 f_0_0 f_0_25 f_0_75 f_1_5 f_0_3125;
   mkAabb f_0_25 f_0_0 f_0_6875 f_0_75 f_1_5 f_0_75;
   mkAabb f_0_3125 f_0_0 f_0_0 f_0_6875 f_1_5 f_0_25;
   mkAabb f_0_3125 f_0_0 f_0_75 f_0_6875 f_1_5 f_1_0;
   mkAabb f_0_0 f_0_0 f_0_3125 f_0_75 f_1_5 f_0_6875;
   mkAabb f_0_25 f_0_0 f_0_25 f_0_75 f_1_5 f_0_3125;
   mkAabb f_0_25 f_0_0 f_0_6875 f_0_75 f_1_5 f_0_75;
   mkAabb f_0_3125 f_0_0 f_0_0 f_0_6875 f_1_5 f_0_25;
   mkAabb f_0_3125 f_0_0 f_0_75 f_0_6875 f_1_5 f_1_0;
   mkAabb f_0_3125 f_0_0 f_0_0 f_0_6875 f_1_5 f_1_0;
   mkAabb f_0_0 f_0_0 f_0_3125 f_0_6875 f_1_5 f_0_6875;
   mkAabb f_0_3125 f_0_0 f_0_0 f_0_6875 f_1_5 f_0_3125;
   mkAabb f_0_3125 f_0_0 f_0_6875 f_0_6875 f_1_5 f_1_0;
   mkAabb f_0_0 f_0_0 f_0_3125 f_0_6875 f_1_5 f_0_6875;
   mkAabb f_0_3125 f_0_0 f_0_0 f_0_6875 f_1_5 f_0_3125;
   mkAabb f_0_3125 f_0_0 f_0_6875 f_0_6875 f_1_5 f_1_0;
   mkAabb f_0_25 f_0_0 f_0_25 f_0_75 f_1_5 f_0_75;
   mkAabb f_0_3125 f_0_0 f_0_0 f_0_6875 f_1_5 f_0_25;
   mkAabb f_0_3125 f_0_0 f_0_75 f_0_6875 f_1_5 f_1_0;
   mkAabb f_0_0 f_0_0 f_0_3125 f_0_75 f_1_5 f_0_6875;
   mkAabb f_0_25 f_0_0 f_0_25 f_0_75 f_1_5 f_0_3125;
   mkAabb f_0_25 f_0_0 f_0_6875 f_0_75 f_1_5 f_0_75;
   mkAabb f_0_3125 f_0_0 f_0_0 f_0_6875 f_1_5 f_0_25;
   mkAabb f_0_3125 f_0_0 f_0_75 f_0_6875 f_1_5 f_1_0;
   mkAabb f_0_0 f_0_0 f_0_3125 f_0_75 f_1_5 f_0_6875;
   mkAabb f_0_25 f_0_0 f_0_25 f_0_75 f_1_5 f_0_3125;
   mkAabb f_0_25 f_0_0 f_0_6875 f_0_75 f_1_5 f_0_75;
   mkAabb f_0_3125 f_0_0 f_0_0 f_0_6875 f_1_5 f_0_25;
   mkAabb f_0_3125 f_0_0 f_0_75 f_0_6875 f_1_5 f_1_0;
   mkAabb f_0_3125 f_0_0 f_0_0 f_0_6875 f_1_5 f_1_0;
   mkAabb f_0_0 f_0_0 f_0_3125 f_0_6875 f_1_5 f_0_6875;
   mkAabb f_0_3125 f_0_0 f_0_0 f_0_6875 f_1_5 f_0_3125;
   mkAabb f_0_3125 f_0_0 f_0_6875 f_0_6875 f_1_5 f_1_0;
   mkAabb f_0_0 f_0_0 f_0_3125 f_0_6875 f_1_5 f_0_6875;
   mkAabb f_0_3125 f_0_0 f_0_0 f_0_6875 f_1_5 f_0_3125;
   mkAabb f_0_3125 f_0_0 f_0_6875 f_0_6875 f_1_5 f_1_0;
   mkAabb f_0_25 f_0_0 f_0_25 f_0_75 f_1_5 f_0_75;
   mkAabb f_0_75 f_0_0 f_0_3125 f_1_0 f_1_5 f_0_6875;
   mkAabb f_0_0 f_0_0 f_0_3125 f_1_0 f_1_5 f_0_6875;
   mkAabb f_0_25 f_0_0 f_0_25 f_0_75 f_1_5 f_0_3125;
   mkAabb f_0_25 f_0_0 f_0_6875 f_0_75 f_1_5 f_0_75;
   mkAabb f_0_0 f_0_0 f_0_3125 f_1_0 f_1_5 f_0_6875;
   mkAabb f_0_25 f_0_0 f_0_25 f_0_75 f_1_5 f_0_3125;
   mkAabb f_0_25 f_0_0 f_0_6875 f_0_75 f_1_5 f_0_75;
   mkAabb f_0_3125 f_0_0 f_0_3125 f_1_0 f_1_5 f_0_6875;
   mkAabb f_0_0 f_0_0 f_0_3125 f_1_0 f_1_5 f_0_6875;
   mkAabb f_0_0 f_0_0 f_0_3125 f_1_0 f_1_5 f_0_6875;
   mkAabb f_0_25 f_0_0 f_0_25 f_0_75 f_1_5 f_0_75;
   mkAabb f_0_3125 f_0_0 f_0_75 f_0_6875 f_1_5 f_1_0;
   mkAabb f_0_75 f_0_0 f_0_3125 f_1_0 f_1_5 f_0_6875;
   mkAabb f_0_0 f_0_0 f_0_3125 f_1_0 f_1_5 f_0_6875;
   mkAabb f_0_25 f_0_0 f_0_25 f_0_75 f_1_5 f_0_3125;
   mkAabb f_0_25 f_0_0 f_0_6875 f_0_75 f_1_5 f_0_75;
   mkAabb f_0_3125 f_0_0 f_0_75 f_0_6875 f_1_5 f_1_0;
   mkAabb f_0_0 f_0_0 f_0_3125 f_1_0 f_1_5 f_0_6875].
Definition SHAPE_BOXES_32 : list Aabb :=
  [mkAabb f_0_25 f_0_0 f_0_25 f_0_75 f_1_5 f_0_3125;
   mkAabb f_0_25 f_0_0 f_0_6875 f_0_75 f_1_5 f_0_75;
   mkAabb f_0_3125 f_0_0 f_0_75 f_0_6875 f_1_5 f_1_0;
   mkAabb f_0_3125 f_0_0 f_0_3125 f_0_6875 f_1_5 f_1_0;
   mkAabb f_0_6875 f_0_0 f_0_3125 f_1_0 f_1_5 f_0_6875;
   mkAabb f_0_0 f_0_0 f_0_3125 f_1_0 f_1_5 f_0_6875;
   mkAabb f_0_3125 f_0_0 f_0_6875 f_0_6875 f_1_5 f_1_0;
   mkAabb f_0_0 f_0_0 f_0_3125 f_1_0 f_1_5 f_0_6875;
   mkAabb f_0_3125 f_0_0 f_0_6875 f_0_6875 f_1_5 f_1_0;
   mkAabb f_0_25 f_0_0 f_0_25 f_0_75 f_1_5 f_0_75;
   mkAabb f_0_3125 f_0_0 f_0_75 f_0_6875 f_1_5 f_1_0;
   mkAabb f_0_75 f_0_0 f_0_3125 f_1_0 f_1_5 f_0_6875;
   mkAabb f_0_0 f_0_0 f_0_3125 f_1_0 f_1_5 f_0_6875;
   mkAabb f_0_25 f_0_0 f_0_25 f_0_75 f_1_5 f_0_3125;
   mkAabb f_0_25 f_0_0 f_0_6875 f_0_75 f_1_5 f_0_75;
   mkAabb f_0_3125 f_0_0 f_0_75 f_0_6875 f_1_5 f_1_0;
   mkAabb f_0_0 f_0_0 f_0_3125 f_1_0 f_1_5 f_0_6875;
   mkAabb f_0_25 f_0_0 f_0_25 f_0_75 f_1_5 f_0_3125;
   mkAabb f_0_25 f_0_0 f_0_6875 f_0_75 f_1_5 f_0_75;
   mkAabb f_0_3125 f_0_0 f_0_75 f_0_6875 f_1_5 f_1_0;
   mkAabb f_0_3125 f_0_0 f_0_3125 f_0_6875 f_1_5 f_1_0;
   mkAabb f_0_6875 f_0_0 f_0_3125 f_1_0 f_1_5 f_0_6875;
   mkAabb f_0_0 f_0_0 f_0_3125 f_1_0 f_1_5 f_0_6875;
   mkAabb f_0_3125 f_0_0 f_0_6875 f_0_6875 f_1_5 f_1_0;
   mkAabb f_0_0 f_0_0 f_0_3125 f_1_0 f_1_5 f_0_6875;
   mkAabb f_0_3125 f_0_0 f_0_6875 f_0_6875 f_1_5 f_1_0;
   mkAabb f_0_25 f_0_0 f_0_25 f_0_75 f_1_5 f_0_75;
   mkAabb f_0_3125 f_0_0 f_0_0 f_0_6875 f_1_5 f_0_25;
   mkAabb f_0_75 f_0_0 f_0_3125 f_1_0 f_1_5 f_0_6875;
   mkAabb f_0_0 f_0_0 f_0_3125 f_1_0 f_1_5 f_0_6875;
   mkAabb f_0_25 f_0_0 f_0_25 f_0_75 f_1_5 f_0_3125;
   mkAabb f_0_25 f_0_0 f_0_6875 f_0_75 f_1_5 f_0_75;
   mkAabb f_0_3125 f_0_0 f_0_0 f_0_6875 f_1_5 f_0_25;
   mkAabb f_0_0 f_0_0 f_0_3125 f_1_0 f_1_5 f_0_6875;
   mkAabb f_0_25 f_0_0 f_0_25 f_0_75 f_1_5 f_0_3125;
   mkAabb f_0_25 f_0_0 f_0_6875 f_0_75 f_1_5 f_0_75;
   mkAabb f_0_3125 f_0_0 f_0_0 f_0_6875 f_1_5 f_0_25;
   mkAabb f_0_3125 f_0_0 f_0_0 f_0_6875 f_1_5 f_0_6875;
   mkAabb f_0_6875 f_0_0 f_0_3125 f_1_0 f_1_5 f_0_6875;
   mkAabb f_0_0 f_0_0 f_0_3125 f_1_0 f_1_5 f_0_6875;
   mkAabb f_0_3125 f_0_0 f_0_0 f_0_6875 f_1_5 f_0_3125;
   mkAabb f_0_0 f_0_0 f_0_3125 f_1_0 f_1_5 f_0_6875;
   mkAabb f_0_3125 f_0_0 f_0_0 f_0_6875 f_1_5 f_0_3125;
   mkAabb f_0_25 f_0_0 f_0_25 f_0_75 f_1_5 f_0_75;
   mkAabb f_0_3125 f_0_0 f_0_0 f_0_6875 f_1_5 f_0_25;
   mkAabb f_0_3125 f_0_0 f_0_75 f_0_6875 f_1_5 f_1_0;
   mkAabb f_0_75 f_0_0 f_0_3125 f_1_0 f_1_5 f_0_6875;
   mkAabb f_0_0 f_0_0 f_0_3125 f_1_0 f_1_5 f_0_6875;
   mkAabb f_0_25 f_0_0 f_0_25 f_0_75 f_1_5 f_0_3125;
   mkAabb f_0_25 f_0_0 f_0_6875 f_0_75 f_1_5 f_0_75;
   mkAabb f_0_3125 f_0_0 f_0_0 f_0_6875 f_1_5 f_0_25;
   mkAabb f_0_3125 f_0_0 f_0_75 f_0_6875 f_1_5 f_1_0;
   mkAabb f_0_0 f_0_0 f_0_3125 f_1_0 f_1_5 f_0_6875;
   mkAabb f_0_25 f_0_0 f_0_25 f_0_75 f_1_5 f_0_3125;
   mkAabb f_0_25 f_0_0 f_0_6875 f_0_75 f_1_5 f_0_75;
   mkAabb f_0_3125 f_0_0 f_0_0 f_0_6875 f_1_5 f_0_25;
   mkAabb f_0_3125 f_0_0 f_0_75 f_0_6875 f_1_5 f_1_0;
   mkAabb f_0_3125 f_0_0 f_0_0 f_0_6875 f_1_5 f_1_0;
   mkAabb f_0_6875 f_0_0 f_0_3125 f_1_0 f_1_5 f_0_6875;
   mkAabb f_0_0 f_0_0 f_0_3125 f_1_0 f_1_5 f_0_6875;
   mkAabb f_0_3125 f_0_0 f_0_0 f_0_6875 f_1_5 f_0_3125;
   mkAabb f_0_3125 f_0_0 f_0_6875 f_0_6875 f_1_5 f_1_0;
   mkAabb f_0_0 f_0_0 f_0_3125 f_1_0 f_1_5 f_0_6875;
   mkAabb f_0_3125 f_0_0 f_0_0 f_0_6875 f_1_5 f_0_3125;
   mkAabb f_0_3125 f_0_0 f_0_6875 f_0_6875 f_1_5 f_1_0;
   mkAabb f_0_25 f_0_0 f_0_25 f_0_75 f_1_5 f_0_75;
   mkAabb f_0_3125 f_0_0 f_0_0 f_0_6875 f_1_5 f_0_25;
   mkAabb f_0_3125 f_0_0 f_0_75 f_0_6875 f_1_5 f_1_0;
   mkAabb f_0_75 f_0_0 f_0_3125 f_1_0 f_1_5 f_0_6875;
   mkAabb f_0_0 f_0_0 f_0_3125 f_1_0 f_1_5 f_0_6875;
   mkAabb f_0_25 f_0_0 f_0_25 f_0_75 f_1_5 f_0_3125;
   mkAabb f_0_25 f_0_0 f_0_6875 f_0_75 f_1_5 f_0_75;
   mkAabb f_0_3125 f_0_0 f_0_0 f_0_6875 f_1_5 f_0_25;
   mkAabb f_0_3125 f_0_0 f_0_75 f_0_6875 f_1_5 f_1_0;
   mkAabb f_0_0 f_0_0 f_0_3125 f_1_0 f_1_5 f_0_6875;
   mkAabb f_0_25 f_0_0 f_0_25 f_0_75 f_1_5 f_0_3125;
   mkAabb f_0_25 f_0_0 f_0_6875 f_0_75 f_1_5 f_0_75;
   mkAabb f_0_3125 f_0_0 f_0_0 f_0_6875 f_1_5 f_0_25;
   mkAabb f_0_3125 f_0_0 f_0_75 f_0_6875 f_1_5 f_1_0;
   mkAabb f_0_3125 f_0_0 f_0_0 f_0_6875 f_1_5 f_1_0;
   mkAabb f_0_6875 f_0_0 f_0_3125 f_1_0 f_1_5 f_0_6875;
   mkAabb f_0_0 f_0_0 f_0_3125 f_1_0 f_1_5 f_0_6875;
   mkAabb f_0_3125 f_0_0 f_0_0 f_0_6875 f_1_5 f_0_3125;
   mkAabb f_0_3125 f_0_0 f_0_6875 f_0_6875 f_1_5 f_1_0;
   mkAabb f_0_0 f_0_0 f_0_3125 f_1_0 f_1_5 f_0_6875;
   mkAabb f_0_3125 f_0_0 f_0_0 f_0_6875 f_1_5 f_0_3125;
   mkAabb f_0_3125 f_0_0 f_0_6875 f_0_6875 f_1_5 f_1_0;
   mkAabb f_0_25 f_0_0 f_0_25 f_0_75 f_1_5 f_0_75;
   mkAabb f_0_3125 f_0_0 f_0_0 f_0_6875 f_1_5 f_0_25;
   mkAabb f_0_75 f_0_0 f_0_3125 f_1_0 f_1_5 f_0_6875;
   mkAabb f_0_0 f_0_0 f_0_3125 f_1_0 f_1_5 f_0_6875;
   mkAabb f_0_25 f_0_0 f_0_25 f_0_75 f_1_5 f_0_3125;
   mkAabb f_0_25 f_0_0 f_0_6875 f_0_75 f_1_5 f_0_75;
   mkAabb f_0_3125 f_0_0 f_0_0 f_0_6875 f_1_5 f_0_25;
   mkAabb f_0_0 f_0_0 f_0_3125 f_1_0 f_1_5 f_0_6875;
   mkAabb f_0_25 f_0_0 f_0_25 f_0_75 f_1_5 f_0_3125;
   mkAabb f_0_25 f_0_0 f_0_6875 f_0_75 f_1_5 f_0_75;
   mkAabb f_0_3125 f_0_0 f_0_0 f_0_6875 f_1_5 f_0_25;
   mkAabb f_0_3125 f_0_0 f_0_0 f_0_6875 f_1_5 f_0_6875;
   mkAabb f_0_6875 f_0_0 f_0_3125 f_1_0 f_1_5 f_0_6875;
   mkAabb f_0_0 f_0_0 f_0_3125 f_1_0 f_1_5 f_0_6875;
   mkAabb f_0_3125 f_0_0 f_0_0 f_0_6875 f_1_5 f_0_3125;
   mkAabb f_0_0 f_0_0 f_0_3125 f_1_0 f_1_5 f_0_6875;
   mkAabb f_0_3125 f_0_0 f_0_0 f_0_6875 f_1_5 f_0_3125;
   mkAabb f_0_25 f_0_0 f_0_25 f_0_75 f_1_5 f_0_75;
   mkAabb f_0_3125 f_0_0 f_0_0 f_0_6875 f_1_5 f_0_25;
   mkAabb f_0_3125 f_0_0 f_0_75 f_0_6875 f_1_5 f_1_0;
   mkAabb f_0_75 f_0_0 f_0_3125 f_1_0 f_1_5 f_0_6875;
   mkAabb f_0_0 f_0_0 f_0_3125 f_1_0 f_1_5 f_0_6875;
   mkAabb f_0_25 f_0_0 f_0_25 f_0_75 f_1_5 f_0_3125;
   mkAabb f_0_25 f_0_0 f_0_6875 f_0_75 f_1_5 f_0_75;
   mkAabb f_0_3125 f_0_0 f_0_0 f_0_6875 f_1_5 f_0_25;
   mkAabb f_0_3125 f_0_0 f_0_75 f_0_6875 f_1_5 f_1_0;
   mkAabb f_0_0 f_0_0 f_0_3125 f_1_0 f_1_5 f_0_6875;
   mkAabb f_0_25 f_0_0 f_0_25 f_0_75 f_1_5 f_0_3125;
   mkAabb f_0_25 f_0_0 f_0_6875 f_0_75 f_1_5 f_0_75;
   mkAabb f_0_3125 f_0_0 f_0_0 f_0_6875 f_1_5 f_0_25;
   mkAabb f_0_3125 f_0_0 f_0_75 f_0_6875 f_1_5 f_1_0;
   mkAabb f_0_3125 f_0_0 f_0_0 f_0_6875 f_1_5 f_1_0;
   mkAabb f_0_6875 f_0_0 f_0_3125 f_1_0 f_1_5 f_0_6875;
   mkAabb f_0_0 f_0_0 f_0_3125 f_1_0 f_1_5 f_0_6875;
   mkAabb f_0_3125 f_0_0 f_0_0 f_0_6875 f_1_5 f_0_3125;
   mkAabb f_0_3125 f_0_0 f_0_6875 f_0_6875 f_1_5 f_1_0;
   mkAabb f_0_0 f_0_0 f_0_3125 f_1_0 f_1_5 f_0_6875;
   mkAabb f_0_3125 f_0_0 f_0_0 f_0_6875 f_1_5 f_0_3125;
   mkAabb f_0_3125 f_0_0 f_0_6875 f_0_6875 f_1_5 f_1_0;
   mkAabb f_0_25 f_0_0 f_0_25 f_0_75 f_1_5 f_0_75;
   mkAabb f_0_3125 f_0_0 f_0_0 f_0_6875 f_1_5 f_0_25;
   mkAabb f_0_3125 f_0_0 f_0_75 f_0_6875 f_1_5 f_1_0;
   mkAabb f_0_75 f_0_0 f_0_3125 f_1_0 f_1_5 f_0_6875;
   mkAabb f_0_0 f_0_0 f_0_3125 f_1_0 f_1_5 f_0_6875;
   mkAabb f_0_25 f_0_0 f_0_25 f_0_75 f_1_5 f_0_3125;
   mkAabb f_0_25 f_0_0 f_0_6875 f_0_75 f_1_5 f_0_75;
   mkAabb f_0_3125 f_0_0 f_0_0 f_0_6875 f_1_5 f_0_25;
   mkAabb f_0_3125 f_0_0 f_0_75 f_0_6875 f_1_5 f_1_0;
   mkAabb f_0_0 f_0_0 f_0_3125 f_1_0 f_1_5 f_0_6875;
   mkAabb f_0_25 f_0_0 f_0_25 f_0_75 f_1_5 f_0_3125;
   mkAabb f_0_25 f_0_0 f_0_6875 f_0_75 f_1_5 f_0_75;
   mkAabb f_0_3125 f_0_0 f_0_0 f_0_6875 f_1_5 f_0_25;
   mkAabb f_0_3125 f_0_0 f_0_75 f_0_6875 f_1_5 f_1_0;
   mkAabb f_0_3125 f_0_0 f_0_0 f_0_6875 f_1_5 f_1_0;
   mkAabb f_0_6875 f_0_0 f_0_3125 f_1_0 f_1_5 f_0_6875;
   mkAabb f_0_0 f_0_0 f_0_3125 f_1_0 f_1_5 f_0_6875;
   mkAabb f_0_3125 f_0_0 f_0_0 f_0_6875 f_1_5 f_0_3125;
   mkAabb f_0_3125 f_0_0 f_0_6875 f_0_6875 f_1_5 f_1_0;
   mkAabb f_0_0 f_0_0 f_0_3125 f_1_0 f_1_5 f_0_6875;
   mkAabb f_0_3125 f_0_0 f_0_0 f_0_6875 f_1_5 f_0_3125;
   mkAabb f_0_3125 f_0_0 f_0_6875 f_0_6875 f_1_5 f_1_0;
   mkAabb f_0_25 f_0_0 f_0_25 f_0_75 f_1_5 f_0_75;
   mkAabb f_0_75 f_0_0 f_0_3125 f_1_0 f_1_5 f_0_6875].
Definition SHAPE_BOXES_33 : list Aabb :=
  [mkAabb f_0_0 f_0_0 f_0_3125 f_1_0 f_1_5 f_0_6875;
   mkAabb f_0_25 f_0_0 f_0_25 f_0_75 f_1_5 f_0_3125;
   mkAabb f_0_25 f_0_0 f_0_6875 f_0_75 f_1_5 f_0_75;
   mkAabb f_0_0 f_0_0 f_0_3125 f_1_0 f_1_5 f_0_6875;
   mkAabb f_0_25 f_0_0 f_0_25 f_0_75 f_1_5 f_0_3125;
   mkAabb f_0_25 f_0_0 f_0_6875 f_0_75 f_1_5 f_0_75;
   mkAabb f_0_3125 f_0_0 f_0_3125 f_1_0 f_1_5 f_0_6875;
   mkAabb f_0_0 f_0_0 f_0_3125 f_1_0 f_1_5 f_0_6875;
   mkAabb f_0_0 f_0_0 f_0_3125 f_1_0 f_1_5 f_0_6875;
   mkAabb f_0_25 f_0_0 f_0_25 f_0_75 f_1_5 f_0_75;
   mkAabb f_0_3125 f_0_0 f_0_75 f_0_6875 f_1_5 f_1_0;
   mkAabb f_0_75 f_0_0 f_0_3125 f_1_0 f_1_5 f_0_6875;
   mkAabb f_0_0 f_0_0 f_0_3125 f_1_0 f_1_5 f_0_6875;
   mkAabb f_0_25 f_0_0 f_0_25 f_0_75 f_1_5 f_0_3125;
   mkAabb f_0_25 f_0_0 f_0_6875 f_0_75 f_1_5 f_0_75;
   mkAabb f_0_3125 f_0_0 f_0_75 f_0_6875 f_1_5 f_1_0;
   mkAabb f_0_0 f_0_0 f_0_3125 f_1_0 f_1_5 f_0_6875;
   mkAabb f_0_25 f_0_0 f_0_25 f_0_75 f_1_5 f_0_3125;
   mkAabb f_0_25 f_0_0 f_0_6875 f_0_75 f_1_5 f_0_75;
   mkAabb f_0_3125 f_0_0 f_0_75 f_0_6875 f_1_5 f_1_0;
   mkAabb f_0_3125 f_0_0 f_0_3125 f_0_6875 f_1_5 f_1_0;
   mkAabb f_0_6875 f_0_0 f_0_3125 f_1_0 f_1_5 f_0_6875;
   mkAabb f_0_0 f_0_0 f_0_3125 f_1_0 f_1_5 f_0_6875;
   mkAabb f_0_3125 f_0_0 f_0_6875 f_0_6875 f_1_5 f_1_0;
   mkAabb f_0_0 f_0_0 f_0_3125 f_1_0 f_1_5 f_0_6875;
   mkAabb f_0_3125 f_0_0 f_0_6875 f_0_6875 f_1_5 f_1_0;
   mkAabb f_0_25 f_0_0 f_0_25 f_0_75 f_1_5 f_0_75;
   mkAabb f_0_3125 f_0_0 f_0_75 f_0_6875 f_1_5 f_1_0;
   mkAabb f_0_75 f_0_0 f_0_3125 f_1_0 f_1_5 f_0_6875;
   mkAabb f_0_0 f_0_0 f_0_3125 f_1_0 f_1_5 f_0_6875;
   mkAabb f_0_25 f_0_0 f_0_25 f_0_75 f_1_5 f_0_3125;
   mkAabb f_0_25 f_0_0 f_0_6875 f_0_75 f_1_5 f_0_75;
   mkAabb f_0_3125 f_0_0 f_0_75 f_0_6875 f_1_5 f_1_0;
   mkAabb f_0_0 f_0_0 f_0_3125 f_1_0 f_1_5 f_0_6875;
   mkAabb f_0_25 f_0_0 f_0_25 f_0_75 f_1_5 f_0_3125;
   mkAabb f_0_25 f_0_0 f_0_6875 f_0_75 f_1_5 f_0_75;
   mkAabb f_0_3125 f_0_0 f_0_75 f_0_6875 f_1_5 f_1_0;
   mkAabb f_0_3125 f_0_0 f_0_3125 f_0_6875 f_1_5 f_1_0;
   mkAabb f_0_6875 f_0_0 f_0_3125 f_1_0 f_1_5 f_0_6875;
   mkAabb f_0_0 f_0_0 f_0_3125 f_1_0 f_1_5 f_0_6875;
   mkAabb f_0_3125 f_0_0 f_0_6875 f_0_6875 f_1_5 f_1_0;
   mkAabb f_0_0 f_0_0 f_0_3125 f_1_0 f_1_5 f_0_6875;
   mkAabb f_0_3125 f_0_0 f_0_6875 f_0_6875 f_1_5 f_1_0;
   mkAabb f_0_25 f_0_0 f_0_25 f_0_75 f_1_5 f_0_75;
   mkAabb f_0_3125 f_0_0 f_0_0 f_0_6875 f_1_5 f_0_25;
   mkAabb f_0_75 f_0_0 f_0_3125 f_1_0 f_1_5 f_0_6875;
   mkAabb f_0_0 f_0_0 f_0_3125 f_1_0 f_1_5 f_0_6875;
   mkAabb f_0_25 f_0_0 f_0_25 f_0_75 f_1_5 f_0_3125;
   mkAabb f_0_25 f_0_0 f_0_6875 f_0_75 f_1_5 f_0_75;
   mkAabb f_0_3125 f_0_0 f_0_0 f_0_6875 f_1_5 f_0_25;
   mkAabb f_0_0 f_0_0 f_0_3125 f_1_0 f_1_5 f_0_6875;
   mkAabb f_0_25 f_0_0 f_0_25 f_0_75 f_1_5 f_0_3125;
   mkAabb f_0_25 f_0_0 f_0_6875 f_0_75 f_1_5 f_0_75;
   mkAabb f_0_3125 f_0_0 f_0_0 f_0_6875 f_1_5 f_0_25;
   mkAabb f_0_3125 f_0_0 f_0_0 f_0_6875 f_1_5 f_0_6875;
   mkAabb f_0_6875 f_0_0 f_0_3125 f_1_0 f_1_5 f_0_6875;
   mkAabb f_0_0 f_0_0 f_0_3125 f_1_0 f_1_5 f_0_6875;
   mkAabb f_0_3125 f_0_0 f_0_0 f_0_6875 f_1_5 f_0_3125;
   mkAabb f_0_0 f_0_0 f_0_3125 f_1_0 f_1_5 f_0_6875;
   mkAabb f_0_3125 f_0_0 f_0_0 f_0_6875 f_1_5 f_0_3125;
   mkAabb f_0_25 f_0_0 f_0_25 f_0_75 f_1_5 f_0_75;
   mkAabb f_0_3125 f_0_0 f_0_0 f_0_6875 f_1_5 f_0_25;
   mkAabb f_0_3125 f_0_0 f_0_75 f_0_6875 f_1_5 f_1_0;
   mkAabb f_0_75 f_0_0 f_0_3125 f_1_0 f_1_5 f_0_6875;
   mkAabb f_0_0 f_0_0 f_0_3125 f_1_0 f_1_5 f_0_6875;
   mkAabb f_0_25 f_0_0 f_0_25 f_0_75 f_1_5 f_0_3125;
   mkAabb f_0_25 f_0_0 f_0_6875 f_0_75 f_1_5 f_0_75;
   mkAabb f_0_3125 f_0_0 f_0_0 f_0_6875 f_1_5 f_0_25;
   mkAabb f_0_3125 f_0_0 f_0_75 f_0_6875 f_1_5 f_1_0;
   mkAabb f_0_0 f_0_0 f_0_3125 f_1_0 f_1_5 f_0_6875;
   mkAabb f_0_25 f_0_0 f_0_25 f_0_75 f_1_5 f_0_3125;
   mkAabb f_0_25 f_0_0 f_0_6875 f_0_75 f_1_5 f_0_75;
   mkAabb f_0_3125 f_0_0 f_0_0 f_0_6875 f_1_5 f_0_25;
   mkAabb f_0_3125 f_0_0 f_0_75 f_0_6875 f_1_5 f_1_0;
   mkAabb f_0_3125 f_0_0 f_0_0 f_0_6875 f_1_5 f_1_0;
   mkAabb f_0_6875 f_0_0 f_0_3125 f_1_0 f_1_5 f_0_6875;
   mkAabb f_0_0 f_0_0 f_0_3125 f_1_0 f_1_5 f_0_6875;
   mkAabb f_0_3125 f_0_0 f_0_0 f_0_6875 f_1_5 f_0_3125;
   mkAabb f_0_3125 f_0_0 f_0_6875 f_0_6875 f_1_5 f_1_0;
   mkAabb f_0_0 f_0_0 f_0_3125 f_1_0 f_1_5 f_0_6875;
   mkAabb f_0_3125 f_0_0 f_0_0 f_0_6875 f_1_5 f_0_3125;
   mkAabb f_0_3125 f_0_0 f_0_6875 f_0_6875 f_1_5 f_1_0;
   mkAabb f_0_25 f_0_0 f_0_25 f_0_75 f_1_5 f_0_75;
   mkAabb f_0_3125 f_0_0 f_0_0 f_0_6875 f_1_5 f_0_25;
   mkAabb f_0_3125 f_0_0 f_0_75 f_0_6875 f_1_5 f_1_0;
   mkAabb f_0_75 f_0_0 f_0_3125 f_1_0 f_1_5 f_0_6875;
   mkAabb f_0_0 f_0_0 f_0_3125 f_1_0 f_1_5 f_0_6875;
   mkAabb f_0_25 f_0_0 f_0_25 f_0_75 f_1_5 f_0_3125;
   mkAabb f_0_25 f_0_0 f_0_6875 f_0_75 f_1_5 f_0_75;
   mkAabb f_0_3125 f_0_0 f_0_0 f_0_6875 f_1_5 f_0_25;
   mkAabb f_0_3125 f_0_0 f_0_75 f_0_6875 f_1_5 f_1_0;
   mkAabb f_0_0 f_0_0 f_0_3125 f_1_0 f_1_5 f_0_6875;
   mkAabb f_0_25 f_0_0 f_0_25 f_0_75 f_1_5 f_0_3125;
   mkAabb f_0_25 f_0_0 f_0_6875 f_0_75 f_1_5 f_0_75;
   mkAabb f_0_3125 f_0_0 f_0_0 f_0_6875 f_1_5 f_0_25;
   mkAabb f_0_3125 f_0_0 f_0_75 f_0_6875 f_1_5 f_1_0;
   mkAabb f_0_3125 f_0_0 f_0_0 f_0_6875 f_1_5 f_1_0;
   mkAabb f_0_6875 f_0_0 f_0_3125 f_1_0 f_1_5 f_0_6875;
   mkAabb f_0_0 f_0_0 f_0_3125 f_1_0 f_1_5 f_0_6875;
   mkAabb f_0_3125 f_0_0 f_0_0 f_0_6875 f_1_5 f_0_3125;
   mkAabb f_0_3125 f_0_0 f_0_6875 f_0_6875 f_1_5 f_1_0;
   mkAabb f_0_0 f_0_0 f_0_3125 f_1_0 f_1_5 f_0_6875;
   mkAabb f_0_3125 f_0_0 f_0_0 f_0_6875 f_1_5 f_0_3125;
   mkAabb f_0_3125 f_0_0 f_0_6875 f_0_6875 f_1_5 f_1_0;
   mkAabb f_0_25 f_0_0 f_0_25 f_0_75 f_1_5 f_0_75;
   mkAabb f_0_3125 f_0_0 f_0_0 f_0_6875 f_1_5 f_0_25;
   mkAabb f_0_75 f_0_0 f_0_3125 f_1_0 f_1_5 f_0_6875;
   mkAabb f_0_0 f_0_0 f_0_3125 f_1_0 f_1_5 f_0_6875;
   mkAabb f_0_25 f_0_0 f_0_25 f_0_75 f_1_5 f_0_3125;
   mkAabb f_0_25 f_0_0 f_0_6875 f_0_75 f_1_5 f_0_75;
   mkAabb f_0_3125 f_0_0 f_0_0 f_0_6875 f_1_5 f_0_25;
   mkAabb f_0_0 f_0_0 f_0_3125 f_1_0 f_1_5 f_0_6875;
   mkAabb f_0_25 f_0_0 f_0_25 f_0_75 f_1_5 f_0_3125;
   mkAabb f_0_25 f_0_0 f_0_6875 f_0_75 f_1_5 f_0_75;
   mkAabb f_0_3125 f_0_0 f_0_0 f_0_6875 f_1_5 f_0_25;
   mkAabb f_0_3125 f_0_0 f_0_0 f_0_6875 f_1_5 f_0_6875;
   mkAabb f_0_6875 f_0_0 f_0_3125 f_1_0 f_1_5 f_0_6875;
   mkAabb f_0_0 f_0_0 f_0_3125 f_1_0 f_1_5 f_0_6875;
   mkAabb f_0_3125 f_0_0 f_0_0 f_0_6875 f_1_5 f_0_3125;
   mkAabb f_0_0 f_0_0 f_0_3125 f_1_0 f_1_5 f_0_6875;
   mkAabb f_0_3125 f_0_0 f_0_0 f_0_6875 f_1_5 f_0_3125;
   mkAabb f_0_25 f_0_0 f_0_25 f_0_75 f_1_5 f_0_75;
   mkAabb f_0_3125 f_0_0 f_0_0 f_0_6875 f_1_5 f_0_25;
   mkAabb f_0_3125 f_0_0 f_0_75 f_0_6875 f_1_5 f_1_0;
   mkAabb f_0_75 f_0_0 f_0_3125 f_1_0 f_1_5 f_0_6875;
   mkAabb f_0_0 f_0_0 f_0_3125 f_1_0 f_1_5 f_0_6875;
   mkAabb f_0_25 f_0_0 f_0_25 f_0_75 f_1_5 f_0_3125;
   mkAabb f_0_25 f_0_0 f_0_6875 f_0_75 f_1_5 f_0_75;
   mkAabb f_0_3125 f_0_0 f_0_0 f_0_6875 f_1_5 f_0_25;
   mkAabb f_0_3125 f_0_0 f_0_75 f_0_6875 f_1_5 f_1_0;
   mkAabb f_0_0 f_0_0 f_0_3125 f_1_0 f_1_5 f_0_6875;
   mkAabb f_0_25 f_0_0 f_0_25 f_0_75 f_1_5 f_0_3125;
   mkAabb f_0_25 f_0_0 f_0_6875 f_0_75 f_1_5 f_0_75;
   mkAabb f_0_3125 f_0_0 f_0_0 f_0_6875 f_1_5 f_0_25;
   mkAabb f_0_3125 f_0_0 f_0_75 f_0_6875 f_1_5 f_1_0;
   mkAabb f_0_3125 f_0_0 f_0_0 f_0_6875 f_1_5 f_1_0;
   mkAabb f_0_6875 f_0_0 f_0_3125 f_1_0 f_1_5 f_0_6875;
   mkAabb f_0_0 f_0_0 f_0_3125 f_1_0 f_1_5 f_0_6875;
   mkAabb f_0_3125 f_0_0 f_0_0 f_0_6875 f_1_5 f_0_3125;
   mkAabb f_0_3125 f_0_0 f_0_6875 f_0_6875 f_1_5 f_1_0;
   mkAabb f_0_0 f_0_0 f_0_3125 f_1_0 f_1_5 f_0_6875;
   mkAabb f_0_3125 f_0_0 f_0_0 f_0_6875 f_1_5 f_0_3125;
   mkAabb f_0_3125 f_0_0 f_0_6875 f_0_6875 f_1_5 f_1_0;
   mkAabb f_0_25 f_0_0 f_0_25 f_0_75 f_1_5 f_0_75;
   mkAabb f_0_3125 f_0_0 f_0_0 f_0_6875 f_1_5 f_0_25;
   mkAabb f_0_3125 f_0_0 f_0_75 f_0_6875 f_1_5 f_1_0;
   mkAabb f_0_75 f_0_0 f_0_3125 f_1_0 f_1_5 f_0_6875;
   mkAabb f_0_0 f_0_0 f_0_3125 f_1_0 f_1_5 f_0_6875;
   mkAabb f_0_25 f_0_0 f_0_25 f_0_75 f_1_5 f_0_3125;
   mkAabb f_0_25 f_0_0 f_0_6875 f_0_75 f_1_5 f_0_75].
Definition SHAPE_BOXES_34 : list Aabb :=
  [mkAabb f_0_3125 f_0_0 f_0_0 f_0_6875 f_1_5 f_0_25;
   mkAabb f_0_3125 f_0_0 f_0_75 f_0_6875 f_1_5 f_1_0;
   mkAabb f_0_0 f_0_0 f_0_3125 f_1_0 f_1_5 f_0_6875;
   mkAabb f_0_25 f_0_0 f_0_25 f_0_75 f_1_5 f_0_3125;
   mkAabb f_0_25 f_0_0 f_0_6875 f_0_75 f_1_5 f_0_75;
   mkAabb f_0_3125 f_0_0 f_0_0 f_0_6875 f_1_5 f_0_25;
   mkAabb f_0_3125 f_0_0 f_0_75 f_0_6875 f_1_5 f_1_0;
   mkAabb f_0_3125 f_0_0 f_0_0 f_0_6875 f_1_5 f_1_0;
   mkAabb f_0_6875 f_0_0 f_0_3125 f_1_0 f_1_5 f_0_6875;
   mkAabb f_0_0 f_0_0 f_0_3125 f_1_0 f_1_5 f_0_6875;
   mkAabb f_0_3125 f_0_0 f_0_0 f_0_6875 f_1_5 f_0_3125;
   mkAabb f_0_3125 f_0_0 f_0_6875 f_0_6875 f_1_5 f_1_0;
   mkAabb f_0_0 f_0_0 f_0_3125 f_1_0 f_1_5 f_0_6875;
   mkAabb f_0_3125 f_0_0 f_0_0 f_0_6875 f_1_5 f_0_3125;
   mkAabb f_0_3125 f_0_0 f_0_6875 f_0_6875 f_1_5 f_1_0;
   mkAabb f_0_25 f_0_0 f_0_25 f_0_75 f_1_5 f_0_75;
   mkAabb f_0_0 f_0_0 f_0_3125 f_0_75 f_1_5 f_0_6875;
   mkAabb f_0_25 f_0_0 f_0_25 f_0_75 f_1_5 f_0_3125;
   mkAabb f_0_25 f_0_0 f_0_6875 f_0_75 f_1_5 f_0_75;
   mkAabb f_0_0 f_0_0 f_0_3125 f_0_75 f_1_5 f_0_6875;
   mkAabb f_0_25 f_0_0 f_0_25 f_0_75 f_1_5 f_0_3125;
   mkAabb f_0_25 f_0_0 f_0_6875 f_0_75 f_1_5 f_0_75;
   mkAabb f_0_0 f_0_0 f_0_3125 f_0_6875 f_1_5 f_0_6875;
   mkAabb f_0_0 f_0_0 f_0_3125 f_0_6875 f_1_5 f_0_6875;
   mkAabb f_0_25 f_0_0 f_0_25 f_0_75 f_1_5 f_0_75;
   mkAabb f_0_3125 f_0_0 f_0_75 f_0_6875 f_1_5 f_1_0;
   mkAabb f_0_0 f_0_0 f_0_3125 f_0_75 f_1_5 f_0_6875;
   mkAabb f_0_25 f_0_0 f_0_25 f_0_75 f_1_5 f_0_3125;
   mkAabb f_0_25 f_0_0 f_0_6875 f_0_75 f_1_5 f_0_75;
   mkAabb f_0_3125 f_0_0 f_0_75 f_0_6875 f_1_5 f_1_0;
   mkAabb f_0_0 f_0_0 f_0_3125 f_0_75 f_1_5 f_0_6875;
   mkAabb f_0_25 f_0_0 f_0_25 f_0_75 f_1_5 f_0_3125;
   mkAabb f_0_25 f_0_0 f_0_6875 f_0_75 f_1_5 f_0_75;
   mkAabb f_0_3125 f_0_0 f_0_75 f_0_6875 f_1_5 f_1_0;
   mkAabb f_0_3125 f_0_0 f_0_3125 f_0_6875 f_1_5 f_1_0;
   mkAabb f_0_0 f_0_0 f_0_3125 f_0_6875 f_1_5 f_0_6875;
   mkAabb f_0_3125 f_0_0 f_0_6875 f_0_6875 f_1_5 f_1_0;
   mkAabb f_0_0 f_0_0 f_0_3125 f_0_6875 f_1_5 f_0_6875;
   mkAabb f_0_3125 f_0_0 f_0_6875 f_0_6875 f_1_5 f_1_0;
   mkAabb f_0_25 f_0_0 f_0_25 f_0_75 f_1_5 f_0_75;
   mkAabb f_0_3125 f_0_0 f_0_75 f_0_6875 f_1_5 f_1_0;
   mkAabb f_0_0 f_0_0 f_0_3125 f_0_75 f_1_5 f_0_6875;
   mkAabb f_0_25 f_0_0 f_0_25 f_0_75 f_1_5 f_0_3125;
   mkAabb f_0_25 f_0_0 f_0_6875 f_0_75 f_1_5 f_0_75;
   mkAabb f_0_3125 f_0_0 f_0_75 f_0_6875 f_1_5 f_1_0;
   mkAabb f_0_0 f_0_0 f_0_3125 f_0_75 f_1_5 f_0_6875;
   mkAabb f_0_25 f_0_0 f_0_25 f_0_75 f_1_5 f_0_3125;
   mkAabb f_0_25 f_0_0 f_0_6875 f_0_75 f_1_5 f_0_75;
   mkAabb f_0_3125 f_0_0 f_0_75 f_0_6875 f_1_5 f_1_0;
   mkAabb f_0_3125 f_0_0 f_0_3125 f_0_6875 f_1_5 f_1_0;
   mkAabb f_0_0 f_0_0 f_0_3125 f_0_6875 f_1_5 f_0_6875;
   mkAabb f_0_3125 f_0_0 f_0_6875 f_0_6875 f_1_5 f_1_0;
   mkAabb f_0_0 f_0_0 f_0_3125 f_0_6875 f_1_5 f_0_6875;
   mkAabb f_0_3125 f_0_0 f_0_6875 f_0_6875 f_1_5 f_1_0;
   mkAabb f_0_25 f_0_0 f_0_25 f_0_75 f_1_5 f_0_75;
   mkAabb f_0_3125 f_0_0 f_0_0 f_0_6875 f_1_5 f_0_25;
   mkAabb f_0_0 f_0_0 f_0_3125 f_0_75 f_1_5 f_0_6875;
   mkAabb f_0_25 f_0_0 f_0_25 f_0_75 f_1_5 f_0_3125;
   mkAabb f_0_25 f_0_0 f_0_6875 f_0_75 f_1_5 f_0_75;
   mkAabb f_0_3125 f_0_0 f_0_0 f_0_6875 f_1_5 f_0_25;
   mkAabb f_0_0 f_0_0 f_0_3125 f_0_75 f_1_5 f_0_6875;
   mkAabb f_0_25 f_0_0 f_0_25 f_0_75 f_1_5 f_0_3125;
   mkAabb f_0_25 f_0_0 f_0_6875 f_0_75 f_1_5 f_0_75;
   mkAabb f_0_3125 f_0_0 f_0_0 f_0_6875 f_1_5 f_0_25;
   mkAabb f_0_3125 f_0_0 f_0_0 f_0_6875 f_1_5 f_0_6875;
   mkAabb f_0_0 f_0_0 f_0_3125 f_0_6875 f_1_5 f_0_6875;
   mkAabb f_0_3125 f_0_0 f_0_0 f_0_6875 f_1_5 f_0_3125;
   mkAabb f_0_0 f_0_0 f_0_3125 f_0_6875 f_1_5 f_0_6875;
   mkAabb f_0_3125 f_0_0 f_0_0 f_0_6875 f_1_5 f_0_3125;
   mkAabb f_0_25 f_0_0 f_0_25 f_0_75 f_1_5 f_0_75;
   mkAabb f_0_3125 f_0_0 f_0_0 f_0_6875 f_1_5 f_0_25;
   mkAabb f_0_3125 f_0_0 f_0_75 f_0_6875 f_1_5 f_1_0;
   mkAabb f_0_0 f_0_0 f_0_3125 f_0_75 f_1_5 f_0_6875;
   mkAabb f_0_25 f_0_0 f_0_25 f_0_75 f_1_5 f_0_3125;
   mkAabb f_0_25 f_0_0 f_0_6875 f_0_75 f_1_5 f_0_75;
   mkAabb f_0_3125 f_0_0 f_0_0 f_0_6875 f_1_5 f_0_25;
   mkAabb f_0_3125 f_0_0 f_0_75 f_0_6875 f_1_5 f_1_0;
   mkAabb f_0_0 f_0_0 f_0_3125 f_0_75 f_1_5 f_0_6875;
   mkAabb f_0_25 f_0_0 f_0_25 f_0_75 f_1_5 f_0_3125;
   mkAabb f_0_25 f_0_0 f_0_6875 f_0_75 f_1_5 f_0_75;
   mkAabb f_0_3125 f_0_0 f_0_0 f_0_6875 f_1_5 f_0_25;
   mkAabb f_0_3125 f_0_0 f_0_75 f_0_6875 f_1_5 f_1_0;
   mkAabb f_0_3125 f_0_0 f_0_0 f_0_6875 f_1_5 f_1_0;
   mkAabb f_0_0 f_0_0 f_0_3125 f_0_6875 f_1_5 f_0_6875;
   mkAabb f_0_3125 f_0_0 f_0_0 f_0_6875 f_1_5 f_0_3125;
   mkAabb f_0_3125 f_0_0 f_0_6875 f_0_6875 f_1_5 f_1_0;
   mkAabb f_0_0 f_0_0 f_0_3125 f_0_6875 f_1_5 f_0_6875;
   mkAabb f_0_3125 f_0_0 f_0_0 f_0_6875 f_1_5 f_0_3125;
   mkAabb f_0_3125 f_0_0 f_0_6875 f_0_6875 f_1_5 f_1_0;
   mkAabb f_0_25 f_0_0 f_0_25 f_0_75 f_1_5 f_0_75;
   mkAabb f_0_3125 f_0_0 f_0_0 f_0_6875 f_1_5 f_0_25;
   mkAabb f_0_3125 f_0_0 f_0_75 f_0_6875 f_1_5 f_1_0;
   mkAabb f_0_0 f_0_0 f_0_3125 f_0_75 f_1_5 f_0_6875;
   mkAabb f_0_25 f_0_0 f_0_25 f_0_75 f_1_5 f_0_3125;
   mkAabb f_0_25 f_0_0 f_0_6875 f_0_75 f_1_5 f_0_75;
   mkAabb f_0_3125 f_0_0 f_0_0 f_0_6875 f_1_5 f_0_25;
   mkAabb f_0_3125 f_0_0 f_0_75 f_0_6875 f_1_5 f_1_0;
   mkAabb f_0_0 f_0_0 f_0_3125 f_0_75 f_1_5 f_0_6875;
   mkAabb f_0_25 f_0_0 f_0_25 f_0_75 f_1_5 f_0_3125;
   mkAabb f_0_25 f_0_0 f_0_6875 f_0_75 f_1_5 f_0_75;
   mkAabb f_0_3125 f_0_0 f_0_0 f_0_6875 f_1_5 f_0_25;
   mkAabb f_0_3125 f_0_0 f_0_75 f_0_6875 f_1_5 f_1_0;
   mkAabb f_0_3125 f_0_0 f_0_0 f_0_6875 f_1_5 f_1_0;
   mkAabb f_0_0 f_0_0 f_0_3125 f_0_6875 f_1_5 f_0_6875;
   mkAabb f_0_3125 f_0_0 f_0_0 f_0_6875 f_1_5 f_0_3125;
   mkAabb f_0_3125 f_0_0 f_0_6875 f_0_6875 f_1_5 f_1_0;
   mkAabb f_0_0 f_0_0 f_0_3125 f_0_6875 f_1_5 f_0_6875;
   mkAabb f_0_3125 f_0_0 f_0_0 f_0_6875 f_1_5 f_0_3125;
   mkAabb f_0_3125 f_0_0 f_0_6875 f_0_6875 f_1_5 f_1_0;
   mkAabb f_0_25 f_0_0 f_0_25 f_0_75 f_1_5 f_0_75;
   mkAabb f_0_3125 f_0_0 f_0_0 f_0_6875 f_1_5 f_0_25;
   mkAabb f_0_0 f_0_0 f_0_3125 f_0_75 f_1_5 f_0_6875;
   mkAabb f_0_25 f_0_0 f_0_25 f_0_75 f_1_5 f_0_3125;
   mkAabb f_0_25 f_0_0 f_0_6875 f_0_75 f_1_5 f_0_75;
   mkAabb f_0_3125 f_0_0 f_0_0 f_0_6875 f_1_5 f_0_25;
   mkAabb f_0_0 f_0_0 f_0_3125 f_0_75 f_1_5 f_0_6875;
   mkAabb f_0_25 f_0_0 f_0_25 f_0_75 f_1_5 f_0_3125;
   mkAabb f_0_25 f_0_0 f_0_6875 f_0_75 f_1_5 f_0_75;
   mkAabb f_0_3125 f_0_0 f_0_0 f_0_6875 f_1_5 f_0_25;
   mkAabb f_0_3125 f_0_0 f_0_0 f_0_6875 f_1_5 f_0_6875;
   mkAabb f_0_0 f_0_0 f_0_3125 f_0_6875 f_1_5 f_0_6875;
   mkAabb f_0_3125 f_0_0 f_0_0 f_0_6875 f_1_5 f_0_3125;
   mkAabb f_0_0 f_0_0 f_0_3125 f_0_6875 f_1_5 f_0_6875;
   mkAabb f_0_3125 f_0_0 f_0_0 f_0_6875 f_1_5 f_0_3125;
   mkAabb f_0_25 f_0_0 f_0_25 f_0_75 f_1_5 f_0_75;
   mkAabb f_0_3125 f_0_0 f_0_0 f_0_6875 f_1_5 f_0_25;
   mkAabb f_0_3125 f_0_0 f_0_75 f_0_6875 f_1_5 f_1_0;
   mkAabb f_0_0 f_0_0 f_0_3125 f_0_75 f_1_5 f_0_6875;
   mkAabb f_0_25 f_0_0 f_0_25 f_0_75 f_1_5 f_0_3125;
   mkAabb f_0_25 f_0_0 f_0_6875 f_0_75 f_1_5 f_0_75;
   mkAabb f_0_3125 f_0_0 f_0_0 f_0_6875 f_1_5 f_0_25;
   mkAabb f_0_3125 f_0_0 f_0_75 f_0_6875 f_1_5 f_1_0;
   mkAabb f_0_0 f_0_0 f_0_3125 f_0_75 f_1_5 f_0_6875;
   mkAabb f_0_25 f_0_0 f_0_25 f_0_75 f_1_5 f_0_3125;
   mkAabb f_0_25 f_0_0 f_0_6875 f_0_75 f_1_5 f_0_75;
   mkAabb f_0_3125 f_0_0 f_0_0 f_0_6875 f_1_5 f_0_25;
   mkAabb f_0_3125 f_0_0 f_0_75 f_0_6875 f_1_5 f_1_0;
   mkAabb f_0_3125 f_0_0 f_0_0 f_0_6875 f_1_5 f_1_0;
   mkAabb f_0_0 f_0_0 f_0_3125 f_0_6875 f_1_5 f_0_6875;
   mkAabb f_0_3125 f_0_0 f_0_0 f_0_6875 f_1_5 f_0_3125;
   mkAabb f_0_3125 f_0_0 f_0_6875 f_0_6875 f_1_5 f_1_0;
   mkAabb f_0_0 f_0_0 f_0_3125 f_0_6875 f_1_5 f_0_6875;
   mkAabb f_0_3125 f_0_0 f_0_0 f_0_6875 f_1_5 f_0_3125;
   mkAabb f_0_3125 f_0_0 f_0_6875 f_0_6875 f_1_5 f_1_0;
   mkAabb f_0_25 f_0_0 f_0_25 f_0_75 f_1_5 f_0_75;
   mkAabb f_0_3125 f_0_0 f_0_0 f_0_6875 f_1_5 f_0_25;
   mkAabb f_0_3125 f_0_0 f_0_75 f_0_6875 f_1_5 f_1_0;
   mkAabb f_0_0 f_0_0 f_0_3125 f_0_75 f_1_5 f_0_6875;
   mkAabb f_0_25 f_0_0 f_0_25 f_0_75 f_1_5 f_0_3125;
   mkAabb f_0_25 f_0_0 f_0_6875 f_0_75 f_1_5 f_0_75].
Definition SHAPE_BOXES_35 : list Aabb :=
  [mkAabb f_0_3125 f_0_0 f_0_0 f_0_6875 f_1_5 f_0_25;
   mkAabb f_0_3125 f_0_0 f_0_75 f_0_6875 f_1_5 f_1_0;
   mkAabb f_0_0 f_0_0 f_0_3125 f_0_75 f_1_5 f_0_6875;
   mkAabb f_0_25 f_0_0 f_0_25 f_0_75 f_1_5 f_0_3125;
   mkAabb f_0_25 f_0_0 f_0_6875 f_0_75 f_1_5 f_0_75;
   mkAabb f_0_3125 f_0_0 f_0_0 f_0_6875 f_1_5 f_0_25;
   mkAabb f_0_3125 f_0_0 f_0_75 f_0_6875 f_1_5 f_1_0;
   mkAabb f_0_3125 f_0_0 f_0_0 f_0_6875 f_1_5 f_1_0;
   mkAabb f_0_0 f_0_0 f_0_3125 f_0_6875 f_1_5 f_0_6875;
   mkAabb f_0_3125 f_0_0 f_0_0 f_0_6875 f_1_5 f_0_3125;
   mkAabb f_0_3125 f_0_0 f_0_6875 f_0_6875 f_1_5 f_1_0;
   mkAabb f_0_0 f_0_0 f_0_3125 f_0_6875 f_1_5 f_0_6875;
   mkAabb f_0_3125 f_0_0 f_0_0 f_0_6875 f_1_5 f_0_3125;
   mkAabb f_0_3125 f_0_0 f_0_6875 f_0_6875 f_1_5 f_1_0;
   mkAabb f_0_25 f_0_0 f_0_25 f_0_75 f_1_5 f_0_75;
   mkAabb f_0_75 f_0_0 f_0_3125 f_1_0 f_1_5 f_0_6875;
   mkAabb f_0_0 f_0_0 f_0_3125 f_1_0 f_1_5 f_0_6875;
   mkAabb f_0_25 f_0_0 f_0_25 f_0_75 f_1_5 f_0_3125;
   mkAabb f_0_25 f_0_0 f_0_6875 f_0_75 f_1_5 f_0_75;
   mkAabb f_0_0 f_0_0 f_0_3125 f_1_0 f_1_5 f_0_6875;
   mkAabb f_0_25 f_0_0 f_0_25 f_0_75 f_1_5 f_0_3125;
   mkAabb f_0_25 f_0_0 f_0_6875 f_0_75 f_1_5 f_0_75;
   mkAabb f_0_3125 f_0_0 f_0_3125 f_1_0 f_1_5 f_0_6875;
   mkAabb f_0_0 f_0_0 f_0_3125 f_1_0 f_1_5 f_0_6875;
   mkAabb f_0_0 f_0_0 f_0_3125 f_1_0 f_1_5 f_0_6875;
   mkAabb f_0_25 f_0_0 f_0_25 f_0_75 f_1_5 f_0_75;
   mkAabb f_0_3125 f_0_0 f_0_75 f_0_6875 f_1_5 f_1_0;
   mkAabb f_0_75 f_0_0 f_0_3125 f_1_0 f_1_5 f_0_6875;
   mkAabb f_0_0 f_0_0 f_0_3125 f_1_0 f_1_5 f_0_6875;
   mkAabb f_0_25 f_0_0 f_0_25 f_0_75 f_1_5 f_0_3125;
   mkAabb f_0_25 f_0_0 f_0_6875 f_0_75 f_1_5 f_0_75;
   mkAabb f_0_3125 f_0_0 f_0_75 f_0_6875 f_1_5 f_1_0;
   mkAabb f_0_0 f_0_0 f_0_3125 f_1_0 f_1_5 f_0_6875;
   mkAabb f_0_25 f_0_0 f_0_25 f_0_75 f_1_5 f_0_3125;
   mkAabb f_0_25 f_0_0 f_0_6875 f_0_75 f_1_5 f_0_75;
   mkAabb f_0_3125 f_0_0 f_0_75 f_0_6875 f_1_5 f_1_0;
   mkAabb f_0_3125 f_0_0 f_0_3125 f_0_6875 f_1_5 f_1_0;
   mkAabb f_0_6875 f_0_0 f_0_3125 f_1_0 f_1_5 f_0_6875;
   mkAabb f_0_0 f_0_0 f_0_3125 f_1_0 f_1_5 f_0_6875;
   mkAabb f_0_3125 f_0_0 f_0_6875 f_0_6875 f_1_5 f_1_0;
   mkAabb f_0_0 f_0_0 f_0_3125 f_1_0 f_1_5 f_0_6875;
   mkAabb f_0_3125 f_0_0 f_0_6875 f_0_6875 f_1_5 f_1_0;
   mkAabb f_0_25 f_0_0 f_0_25 f_0_75 f_1_5 f_0_75;
   mkAabb f_0_3125 f_0_0 f_0_75 f_0_6875 f_1_5 f_1_0;
   mkAabb f_0_75 f_0_0 f_0_3125 f_1_0 f_1_5 f_0_6875;
   mkAabb f_0_0 f_0_0 f_0_3125 f_1_0 f_1_5 f_0_6875;
   mkAabb f_0_25 f_0_0 f_0_25 f_0_75 f_1_5 f_0_3125;
   mkAabb f_0_25 f_0_0 f_0_6875 f_0_75 f_1_5 f_0_75;
   mkAabb f_0_3125 f_0_0 f_0_75 f_0_6875 f_1_5 f_1_0;
   mkAabb f_0_0 f_0_0 f_0_3125 f_1_0 f_1_5 f_0_6875;
   mkAabb f_0_25 f_0_0 f_0_25 f_0_75 f_1_5 f_0_3125;
   mkAabb f_0_25 f_0_0 f_0_6875 f_0_75 f_1_5 f_0_75;
   mkAabb f_0_3125 f_0_0 f_0_75 f_0_6875 f_1_5 f_1_0;
   mkAabb f_0_3125 f_0_0 f_0_3125 f_0_6875 f_1_5 f_1_0;
   mkAabb f_0_6875 f_0_0 f_0_3125 f_1_0 f_1_5 f_0_6875;
   mkAabb f_0_0 f_0_0 f_0_3125 f_1_0 f_1_5 f_0_6875;
   mkAabb f_0_3125 f_0_0 f_0_6875 f_0_6875 f_1_5 f_1_0;
   mkAabb f_0_0 f_0_0 f_0_3125 f_1_0 f_1_5 f_0_6875;
   mkAabb f_0_3125 f_0_0 f_0_6875 f_0_6875 f_1_5 f_1_0;
   mkAabb f_0_25 f_0_0 f_0_25 f_0_75 f_1_5 f_0_75;
   mkAabb f_0_3125 f_0_0 f_0_0 f_0_6875 f_1_5 f_0_25;
   mkAabb f_0_75 f_0_0 f_0_3125 f_1_0 f_1_5 f_0_6875;
   mkAabb f_0_0 f_0_0 f_0_3125 f_1_0 f_1_5 f_0_6875;
   mkAabb f_0_25 f_0_0 f_0_25 f_0_75 f_1_5 f_0_3125;
   mkAabb f_0_25 f_0_0 f_0_6875 f_0_75 f_1_5 f_0_75;
   mkAabb f_0_3125 f_0_0 f_0_0 f_0_6875 f_1_5 f_0_25;
   mkAabb f_0_0 f_0_0 f_0_3125 f_1_0 f_1_5 f_0_6875;
   mkAabb f_0_25 f_0_0 f_0_25 f_0_75 f_1_5 f_0_3125;
   mkAabb f_0_25 f_0_0 f_0_6875 f_0_75 f_1_5 f_0_75;
   mkAabb f_0_3125 f_0_0 f_0_0 f_0_6875 f_1_5 f_0_25;
   mkAabb f_0_3125 f_0_0 f_0_0 f_0_6875 f_1_5 f_0_6875;
   mkAabb f_0_6875 f_0_0 f_0_3125 f_1_0 f_1_5 f_0_6875;
   mkAabb f_0_0 f_0_0 f_0_3125 f_1_0 f_1_5 f_0_6875;
   mkAabb f_0_3125 f_0_0 f_0_0 f_0_6875 f_1_5 f_0_3125;
   mkAabb f_0_0 f_0_0 f_0_3125 f_1_0 f_1_5 f_0_6875;
   mkAabb f_0_3125 f_0_0 f_0_0 f_0_6875 f_1_5 f_0_3125;
   mkAabb f_0_25 f_0_0 f_0_25 f_0_75 f_1_5 f_0_75;
   mkAabb f_0_3125 f_0_0 f_0_0 f_0_6875 f_1_5 f_0_25;
   mkAabb f_0_3125 f_0_0 f_0_75 f_0_6875 f_1_5 f_1_0;
   mkAabb f_0_75 f_0_0 f_0_3125 f_1_0 f_1_5 f_0_6875;
   mkAabb f_0_0 f_0_0 f_0_3125 f_1_0 f_1_5 f_0_6875;
   mkAabb f_0_25 f_0_0 f_0_25 f_0_75 f_1_5 f_0_3125;
   mkAabb f_0_25 f_0_0 f_0_6875 f_0_75 f_1_5 f_0_75;
   mkAabb f_0_3125 f_0_0 f_0_0 f_0_6875 f_1_5 f_0_25;
   mkAabb f_0_3125 f_0_0 f_0_75 f_0_6875 f_1_5 f_1_0;
   mkAabb f_0_0 f_0_0 f_0_3125 f_1_0 f_1_5 f_0_6875;
   mkAabb f_0_25 f_0_0 f_0_25 f_0_75 f_1_5 f_0_3125;
   mkAabb f_0_25 f_0_0 f_0_6875 f_0_75 f_1_5 f_0_75;
   mkAabb f_0_3125 f_0_0 f_0_0 f_0_6875 f_1_5 f_0_25;
   mkAabb f_0_3125 f_0_0 f_0_75 f_0_6875 f_1_5 f_1_0;
   mkAabb f_0_3125 f_0_0 f_0_0 f_0_6875 f_1_5 f_1_0;
   mkAabb f_0_6875 f_0_0 f_0_3125 f_1_0 f_1_5 f_0_6875;
   mkAabb f_0_0 f_0_0 f_0_3125 f_1_0 f_1_5 f_0_6875;
   mkAabb f_0_3125 f_0_0 f_0_0 f_0_6875 f_1_5 f_0_3125;
   mkAabb f_0_3125 f_0_0 f_0_6875 f_0_6875 f_1_5 f_1_0;
   mkAabb f_0_0 f_0_0 f_0_3125 f_1_0 f_1_5 f_0_6875;
   mkAabb f_0_3125 f_0_0 f_0_0 f_0_6875 f_1_5 f_0_3125;
   mkAabb f_0_3125 f_0_0 f_0_6875 f_0_6875 f_1_5 f_1_0;
   mkAabb f_0_25 f_0_0 f_0_25 f_0_75 f_1_5 f_0_75;
   mkAabb f_0_3125 f_0_0 f_0_0 f_0_6875 f_1_5 f_0_25;
   mkAabb f_0_3125 f_0_0 f_0_75 f_0_6875 f_1_5 f_1_0;
   mkAabb f_0_75 f_0_0 f_0_3125 f_1_0 f_1_5 f_0_6875;
   mkAabb f_0_0 f_0_0 f_0_3125 f_1_0 f_1_5 f_0_6875;
   mkAabb f_0_25 f_0_0 f_0_25 f_0_75 f_1_5 f_0_3125;
   mkAabb f_0_25 f_0_0 f_0_6875 f_0_75 f_1_5 f_0_75;
   mkAabb f_0_3125 f_0_0 f_0_0 f_0_6875 f_1_5 f_0_25;
   mkAabb f_0_3125 f_0_0 f_0_75 f_0_6875 f_1_5 f_1_0;
   mkAabb f_0_0 f_0_0 f_0_3125 f_1_0 f_1_5 f_0_6875;
   mkAabb f_0_25 f_0_0 f_0_25 f_0_75 f_1_5 f_0_3125;
   mkAabb f_0_25 f_0_0 f_0_6875 f_0_75 f_1_5 f_0_75;
   mkAabb f_0_3125 f_0_0 f_0_0 f_0_6875 f_1_5 f_0_25;
   mkAabb f_0_3125 f_0_0 f_0_75 f_0_6875 f_1_5 f_1_0;
   mkAabb f_0_3125 f_0_0 f_0_0 f_0_6875 f_1_5 f_1_0;
   mkAabb f_0_6875 f_0_0 f_0_3125 f_1_0 f_1_5 f_0_6875;
   mkAabb f_0_0 f_0_0 f_0_3125 f_1_0 f_1_5 f_0_6875;
   mkAabb f_0_3125 f_0_0 f_0_0 f_0_6875 f_1_5 f_0_3125;
   mkAabb f_0_3125 f_0_0 f_0_6875 f_0_6875 f_1_5 f_1_0;
   mkAabb f_0_0 f_0_0 f_0_3125 f_1_0 f_1_5 f_0_6875;
   mkAabb f_0_3125 f_0_0 f_0_0 f_0_6875 f_1_5 f_0_3125;
   mkAabb f_0_3125 f_0_0 f_0_6875 f_0_6875 f_1_5 f_1_0;
   mkAabb f_0_25 f_0_0 f_0_25 f_0_75 f_1_5 f_0_75;
   mkAabb f_0_3125 f_0_0 f_0_0 f_0_6875 f_1_5 f_0_25;
   mkAabb f_0_75 f_0_0 f_0_3125 f_1_0 f_1_5 f_0_6875;
   mkAabb f_0_0 f_0_0 f_0_3125 f_1_0 f_1_5 f_0_6875;
   mkAabb f_0_25 f_0_0 f_0_25 f_0_75 f_1_5 f_0_3125;
   mkAabb f_0_25 f_0_0 f_0_6875 f_0_75 f_1_5 f_0_75;
   mkAabb f_0_3125 f_0_0 f_0_0 f_0_6875 f_1_5 f_0_25;
   mkAabb f_0_0 f_0_0 f_0_3125 f_1_0 f_1_5 f_0_6875;
   mkAabb f_0_25 f_0_0 f_0_25 f_0_75 f_1_5 f_0_3125;
   mkAabb f_0_25 f_0_0 f_0_6875 f_0_75 f_1_5 f_0_75;
   mkAabb f_0_3125 f_0_0 f_0_0 f_0_6875 f_1_5 f_0_25;
   mkAabb f_0_3125 f_0_0 f_0_0 f_0_6875 f_1_5 f_0_6875;
   mkAabb f_0_6875 f_0_0 f_0_3125 f_1_0 f_1_5 f_0_6875;
   mkAabb f_0_0 f_0_0 f_0_3125 f_1_0 f_1_5 f_0_6875;
   mkAabb f_0_3125 f_0_0 f_0_0 f_0_6875 f_1_5 f_0_3125;
   mkAabb f_0_0 f_0_0 f_0_3125 f_1_0 f_1_5 f_0_6875;
   mkAabb f_0_3125 f_0_0 f_0_0 f_0_6875 f_1_5 f_0_3125;
   mkAabb f_0_25 f_0_0 f_0_25 f_0_75 f_1_5 f_0_75;
   mkAabb f_0_3125 f_0_0 f_0_0 f_0_6875 f_1_5 f_0_25;
   mkAabb f_0_3125 f_0_0 f_0_75 f_0_6875 f_1_5 f_1_0;
   mkAabb f_0_75 f_0_0 f_0_3125 f_1_0 f_1_5 f_0_6875;
   mkAabb f_0_0 f_0_0 f_0_3125 f_1_0 f_1_5 f_0_6875;
   mkAabb f_0_25 f_0_0 f_0_25 f_0_75 f_1_5 f_0_3125;
   mkAabb f_0_25 f_0_0 f_0_6875 f_0_75 f_1_5 f_0_75;
   mkAabb f_0_3125 f_0_0 f_0_0 f_0_6875 f_1_5 f_0_25;
   mkAabb f_0_3125 f_0_0 f_0_75 f_0_6875 f_1_5 f_1_0;
   mkAabb f_0_0 f_0_0 f_0_3125 f_1_0 f_1_5 f_0_6875;
   mkAabb f_0_25 f_0_0 f_0_25 f_0_75 f_1_5 f_0_3125;
   mkAabb f_0_25 f_0_0 f_0_6875 f_0_75 f_1_5 f_0_75;
   mkAabb f_0_3125 f_0_0 f_0_0 f_0_6875 f_1_5 f_0_25].
Definition SHAPE_BOXES_36 : list Aabb :=
  [mkAabb f_0_3125 f_0_0 f_0_75 f_0_6875 f_1_5 f_1_0;
   mkAabb f_0_3125 f_0_0 f_0_0 f_0_6875 f_1_5 f_1_0;
   mkAabb f_0_6875 f_0_0 f_0_3125 f_1_0 f_1_5 f_0_6875;
   mkAabb f_0_0 f_0_0 f_0_3125 f_1_0 f_1_5 f_0_6875;
   mkAabb f_0_3125 f_0_0 f_0_0 f_0_6875 f_1_5 f_0_3125;
   mkAabb f_0_3125 f_0_0 f_0_6875 f_0_6875 f_1_5 f_1_0;
   mkAabb f_0_0 f_0_0 f_0_3125 f_1_0 f_1_5 f_0_6875;
   mkAabb f_0_3125 f_0_0 f_0_0 f_0_6875 f_1_5 f_0_3125;
   mkAabb f_0_3125 f_0_0 f_0_6875 f_0_6875 f_1_5 f_1_0;
   mkAabb f_0_25 f_0_0 f_0_25 f_0_75 f_1_5 f_0_75;
   mkAabb f_0_3125 f_0_0 f_0_0 f_0_6875 f_1_5 f_0_25;
   mkAabb f_0_3125 f_0_0 f_0_75 f_0_6875 f_1_5 f_1_0;
   mkAabb f_0_75 f_0_0 f_0_3125 f_1_0 f_1_5 f_0_6875;
   mkAabb f_0_0 f_0_0 f_0_3125 f_1_0 f_1_5 f_0_6875;
   mkAabb f_0_25 f_0_0 f_0_25 f_0_75 f_1_5 f_0_3125;
   mkAabb f_0_25 f_0_0 f_0_6875 f_0_75 f_1_5 f_0_75;
   mkAabb f_0_3125 f_0_0 f_0_0 f_0_6875 f_1_5 f_0_25;
   mkAabb f_0_3125 f_0_0 f_0_75 f_0_6875 f_1_5 f_1_0;
   mkAabb f_0_0 f_0_0 f_0_3125 f_1_0 f_1_5 f_0_6875;
   mkAabb f_0_25 f_0_0 f_0_25 f_0_75 f_1_5 f_0_3125;
   mkAabb f_0_25 f_0_0 f_0_6875 f_0_75 f_1_5 f_0_75;
   mkAabb f_0_3125 f_0_0 f_0_0 f_0_6875 f_1_5 f_0_25;
   mkAabb f_0_3125 f_0_0 f_0_75 f_0_6875 f_1_5 f_1_0;
   mkAabb f_0_3125 f_0_0 f_0_0 f_0_6875 f_1_5 f_1_0;
   mkAabb f_0_6875 f_0_0 f_0_3125 f_1_0 f_1_5 f_0_6875;
   mkAabb f_0_0 f_0_0 f_0_3125 f_1_0 f_1_5 f_0_6875;
   mkAabb f_0_3125 f_0_0 f_0_0 f_0_6875 f_1_5 f_0_3125;
   mkAabb f_0_3125 f_0_0 f_0_6875 f_0_6875 f_1_5 f_1_0;
   mkAabb f_0_0 f_0_0 f_0_3125 f_1_0 f_1_5 f_0_6875;
   mkAabb f_0_3125 f_0_0 f_0_0 f_0_6875 f_1_5 f_0_3125;
   mkAabb f_0_3125 f_0_0 f_0_6875 f_0_6875 f_1_5 f_1_0;
   mkAabb f_0_25 f_0_0 f_0_25 f_0_75 f_1_5 f_0_75;
   mkAabb f_0_75 f_0_0 f_0_3125 f_1_0 f_1_5 f_0_6875;
   mkAabb f_0_0 f_0_0 f_0_3125 f_1_0 f_1_5 f_0_6875;
   mkAabb f_0_25 f_0_0 f_0_25 f_0_75 f_1_5 f_0_3125;
   mkAabb f_0_25 f_0_0 f_0_6875 f_0_75 f_1_5 f_0_75;
   mkAabb f_0_0 f_0_0 f_0_3125 f_1_0 f_1_5 f_0_6875;
   mkAabb f_0_25 f_0_0 f_0_25 f_0_75 f_1_5 f_0_3125;
   mkAabb f_0_25 f_0_0 f_0_6875 f_0_75 f_1_5 f_0_75;
   mkAabb f_0_3125 f_0_0 f_0_3125 f_1_0 f_1_5 f_0_6875;
   mkAabb f_0_0 f_0_0 f_0_3125 f_1_0 f_1_5 f_0_6875;
   mkAabb f_0_0 f_0_0 f_0_3125 f_1_0 f_1_5 f_0_6875;
   mkAabb f_0_25 f_0_0 f_0_25 f_0_75 f_1_5 f_0_75;
   mkAabb f_0_3125 f_0_0 f_0_75 f_0_6875 f_1_5 f_1_0;
   mkAabb f_0_75 f_0_0 f_0_3125 f_1_0 f_1_5 f_0_6875;
   mkAabb f_0_0 f_0_0 f_0_3125 f_1_0 f_1_5 f_0_6875;
   mkAabb f_0_25 f_0_0 f_0_25 f_0_75 f_1_5 f_0_3125;
   mkAabb f_0_25 f_0_0 f_0_6875 f_0_75 f_1_5 f_0_75;
   mkAabb f_0_3125 f_0_0 f_0_75 f_0_6875 f_1_5 f_1_0;
   mkAabb f_0_0 f_0_0 f_0_3125 f_1_0 f_1_5 f_0_6875;
   mkAabb f_0_25 f_0_0 f_0_25 f_0_75 f_1_5 f_0_3125;
   mkAabb f_0_25 f_0_0 f_0_6875 f_0_75 f_1_5 f_0_75;
   mkAabb f_0_3125 f_0_0 f_0_75 f_0_6875 f_1_5 f_1_0;
   mkAabb f_0_3125 f_0_0 f_0_3125 f_0_6875 f_1_5 f_1_0;
   mkAabb f_0_6875 f_0_0 f_0_3125 f_1_0 f_1_5 f_0_6875;
   mkAabb f_0_0 f_0_0 f_0_3125 f_1_0 f_1_5 f_0_6875;
   mkAabb f_0_3125 f_0_0 f_0_6875 f_0_6875 f_1_5 f_1_0;
   mkAabb f_0_0 f_0_0 f_0_3125 f_1_0 f_1_5 f_0_6875;
   mkAabb f_0_3125 f_0_0 f_0_6875 f_0_6875 f_1_5 f_1_0;
   mkAabb f_0_25 f_0_0 f_0_25 f_0_75 f_1_5 f_0_75;
   mkAabb f_0_3125 f_0_0 f_0_75 f_0_6875 f_1_5 f_1_0;
   mkAabb f_0_75 f_0_0 f_0_3125 f_1_0 f_1_5 f_0_6875;
   mkAabb f_0_0 f_0_0 f_0_3125 f_1_0 f_1_5 f_0_6875;
   mkAabb f_0_25 f_0_0 f_0_25 f_0_75 f_1_5 f_0_3125;
   mkAabb f_0_25 f_0_0 f_0_6875 f_0_75 f_1_5 f_0_75;
   mkAabb f_0_3125 f_0_0 f_0_75 f_0_6875 f_1_5 f_1_0;
   mkAabb f_0_0 f_0_0 f_0_3125 f_1_0 f_1_5 f_0_6875;
   mkAabb f_0_25 f_0_0 f_0_25 f_0_75 f_1_5 f_0_3125;
   mkAabb f_0_25 f_0_0 f_0_6875 f_0_75 f_1_5 f_0_75;
   mkAabb f_0_3125 f_0_0 f_0_75 f_0_6875 f_1_5 f_1_0;
   mkAabb f_0_3125 f_0_0 f_0_3125 f_0_6875 f_1_5 f_1_0;
   mkAabb f_0_6875 f_0_0 f_0_3125 f_1_0 f_1_5 f_0_6875;
   mkAabb f_0_0 f_0_0 f_0_3125 f_1_0 f_1_5 f_0_6875;
   mkAabb f_0_3125 f_0_0 f_0_6875 f_0_6875 f_1_5 f_1_0;
   mkAabb f_0_0 f_0_0 f_0_3125 f_1_0 f_1_5 f_0_6875;
   mkAabb f_0_3125 f_0_0 f_0_6875 f_0_6875 f_1_5 f_1_0;
   mkAabb f_0_25 f_0_0 f_0_25 f_0_75 f_1_5 f_0_75;
   mkAabb f_0_3125 f_0_0 f_0_0 f_0_6875 f_1_5 f_0_25;
   mkAabb f_0_75 f_0_0 f_0_3125 f_1_0 f_1_5 f_0_6875;
   mkAabb f_0_0 f_0_0 f_0_3125 f_1_0 f_1_5 f_0_6875;
   mkAabb f_0_25 f_0_0 f_0_25 f_0_75 f_1_5 f_0_3125;
   mkAabb f_0_25 f_0_0 f_0_6875 f_0_75 f_1_5 f_0_75;
   mkAabb f_0_3125 f_0_0 f_0_0 f_0_6875 f_1_5 f_0_25;
   mkAabb f_0_0 f_0_0 f_0_3125 f_1_0 f_1_5 f_0_6875;
   mkAabb f_0_25 f_0_0 f_0_25 f_0_75 f_1_5 f_0_3125;
   mkAabb f_0_25 f_0_0 f_0_6875 f_0_75 f_1_5 f_0_75;
   mkAabb f_0_3125 f_0_0 f_0_0 f_0_6875 f_1_5 f_0_25;
   mkAabb f_0_3125 f_0_0 f_0_0 f_0_6875 f_1_5 f_0_6875;
   mkAabb f_0_6875 f_0_0 f_0_3125 f_1_0 f_1_5 f_0_6875;
   mkAabb f_0_0 f_0_0 f_0_3125 f_1_0 f_1_5 f_0_6875;
   mkAabb f_0_3125 f_0_0 f_0_0 f_0_6875 f_1_5 f_0_3125;
   mkAabb f_0_0 f_0_0 f_0_3125 f_1_0 f_1_5 f_0_6875;
   mkAabb f_0_3125 f_0_0 f_0_0 f_0_6875 f_1_5 f_0_3125;
   mkAabb f_0_25 f_0_0 f_0_25 f_0_75 f_1_5 f_0_75;
   mkAabb f_0_3125 f_0_0 f_0_0 f_0_6875 f_1_5 f_0_25;
   mkAabb f_0_3125 f_0_0 f_0_75 f_0_6875 f_1_5 f_1_0;
   mkAabb f_0_75 f_0_0 f_0_3125 f_1_0 f_1_5 f_0_6875;
   mkAabb f_0_0 f_0_0 f_0_3125 f_1_0 f_1_5 f_0_6875;
   mkAabb f_0_25 f_0_0 f_0_25 f_0_75 f_1_5 f_0_3125;
   mkAabb f_0_25 f_0_0 f_0_6875 f_0_75 f_1_5 f_0_75;
   mkAabb f_0_3125 f_0_0 f_0_0 f_0_6875 f_1_5 f_0_25;
   mkAabb f_0_3125 f_0_0 f_0_75 f_0_6875 f_1_5 f_1_0;
   mkAabb f_0_0 f_0_0 f_0_3125 f_1_0 f_1_5 f_0_6875;
   mkAabb f_0_25 f_0_0 f_0_25 f_0_75 f_1_5 f_0_3125;
   mkAabb f_0_25 f_0_0 f_0_6875 f_0_75 f_1_5 f_0_75;
   mkAabb f_0_3125 f_0_0 f_0_0 f_0_6875 f_1_5 f_0_25;
   mkAabb f_0_3125 f_0_0 f_0_75 f_0_6875 f_1_5 f_1_0;
   mkAabb f_0_3125 f_0_0 f_0_0 f_0_6875 f_1_5 f_1_0;
   mkAabb f_0_6875 f_0_0 f_0_3125 f_1_0 f_1_5 f_0_6875;
   mkAabb f_0_0 f_0_0 f_0_3125 f_1_0 f_1_5 f_0_6875;
   mkAabb f_0_3125 f_0_0 f_0_0 f_0_6875 f_1_5 f_0_3125;
   mkAabb f_0_3125 f_0_0 f_0_6875 f_0_6875 f_1_5 f_1_0;
   mkAabb f_0_0 f_0_0 f_0_3125 f_1_0 f_1_5 f_0_6875;
   mkAabb f_0_3125 f_0_0 f_0_0 f_0_6875 f_1_5 f_0_3125;
   mkAabb f_0_3125 f_0_0 f_0_6875 f_0_6875 f_1_5 f_1_0;
   mkAabb f_0_25 f_0_0 f_0_25 f_0_75 f_1_5 f_0_75;
   mkAabb f_0_3125 f_0_0 f_0_0 f_0_6875 f_1_5 f_0_25;
   mkAabb f_0_3125 f_0_0 f_0_75 f_0_6875 f_1_5 f_1_0;
   mkAabb f_0_75 f_0_0 f_0_3125 f_1_0 f_1_5 f_0_6875;
   mkAabb f_0_0 f_0_0 f_0_3125 f_1_0 f_1_5 f_0_6875;
   mkAabb f_0_25 f_0_0 f_0_25 f_0_75 f_1_5 f_0_3125;
   mkAabb f_0_25 f_0_0 f_0_6875 f_0_75 f_1_5 f_0_75;
   mkAabb f_0_3125 f_0_0 f_0_0 f_0_6875 f_1_5 f_0_25;
   mkAabb f_0_3125 f_0_0 f_0_75 f_0_6875 f_1_5 f_1_0;
   mkAabb f_0_0 f_0_0 f_0_3125 f_1_0 f_1_5 f_0_6875;
   mkAabb f_0_25 f_0_0 f_0_25 f_0_75 f_1_5 f_0_3125;
   mkAabb f_0_25 f_0_0 f_0_6875 f_0_75 f_1_5 f_0_75;
   mkAabb f_0_3125 f_0_0 f_0_0 f_0_6875 f_1_5 f_0_25;
   mkAabb f_0_3125 f_0_0 f_0_75 f_0_6875 f_1_5 f_1_0;
   mkAabb f_0_3125 f_0_0 f_0_0 f_0_6875 f_1_5 f_1_0;
   mkAabb f_0_6875 f_0_0 f_0_3125 f_1_0 f_1_5 f_0_6875;
   mkAabb f_0_0 f_0_0 f_0_3125 f_1_0 f_1_5 f_0_6875;
   mkAabb f_0_3125 f_0_0 f_0_0 f_0_6875 f_1_5 f_0_3125;
   mkAabb f_0_3125 f_0_0 f_0_6875 f_0_6875 f_1_5 f_1_0;
   mkAabb f_0_0 f_0_0 f_0_3125 f_1_0 f_1_5 f_0_6875;
   mkAabb f_0_3125 f_0_0 f_0_0 f_0_6875 f_1_5 f_0_3125;
   mkAabb f_0_3125 f_0_0 f_0_6875 f_0_6875 f_1_5 f_1_0;
   mkAabb f_0_25 f_0_0 f_0_25 f_0_75 f_1_5 f_0_75;
   mkAabb f_0_3125 f_0_0 f_0_0 f_0_6875 f_1_5 f_0_25;
   mkAabb f_0_75 f_0_0 f_0_3125 f_1_0 f_1_5 f_0_6875;
   mkAabb f_0_0 f_0_0 f_0_3125 f_1_0 f_1_5 f_0_6875;
   mkAabb f_0_25 f_0_0 f_0_25 f_0_75 f_1_5 f_0_3125;
   mkAabb f_0_25 f_0_0 f_0_6875 f_0_75 f_1_5 f_0_75;
   mkAabb f_0_3125 f_0_0 f_0_0 f_0_6875 f_1_5 f_0_25;
   mkAabb f_0_0 f_0_0 f_0_3125 f_1_0 f_1_5 f_0_6875;
   mkAabb f_0_25 f_0_0 f_0_25 f_0_75 f_1_5 f_0_3125;
   mkAabb f_0_25 f_0_0 f_0_6875 f_0_75 f_1_5 f_0_75;
   mkAabb f_0_3125 f_0_0 f_0_0 f_0_6875 f_1_5 f_0_25;
   mkAabb f_0_3125 f_0_0 f_0_0 f_0_6875 f_1_5 f_0_6875;
   mkAabb f_0_6875 f_0_0 f_0_3125 f_1_0 f_1_5 f_0_6875].
Definition SHAPE_BOXES_37 : list Aabb :=
  [mkAabb f_0_0 f_0_0 f_0_3125 f_1_0 f_1_5 f_0_6875;
   mkAabb f_0_3125 f_0_0 f_0_0 f_0_6875 f_1_5 f_0_3125;
   mkAabb f_0_0 f_0_0 f_0_3125 f_1_0 f_1_5 f_0_6875;
   mkAabb f_0_3125 f_0_0 f_0_0 f_0_6875 f_1_5 f_0_3125;
   mkAabb f_0_25 f_0_0 f_0_25 f_0_75 f_1_5 f_0_75;
   mkAabb f_0_3125 f_0_0 f_0_0 f_0_6875 f_1_5 f_0_25;
   mkAabb f_0_3125 f_0_0 f_0_75 f_0_6875 f_1_5 f_1_0;
   mkAabb f_0_75 f_0_0 f_0_3125 f_1_0 f_1_5 f_0_6875;
   mkAabb f_0_0 f_0_0 f_0_3125 f_1_0 f_1_5 f_0_6875;
   mkAabb f_0_25 f_0_0 f_0_25 f_0_75 f_1_5 f_0_3125;
   mkAabb f_0_25 f_0_0 f_0_6875 f_0_75 f_1_5 f_0_75;
   mkAabb f_0_3125 f_0_0 f_0_0 f_0_6875 f_1_5 f_0_25;
   mkAabb f_0_3125 f_0_0 f_0_75 f_0_6875 f_1_5 f_1_0;
   mkAabb f_0_0 f_0_0 f_0_3125 f_1_0 f_1_5 f_0_6875;
   mkAabb f_0_25 f_0_0 f_0_25 f_0_75 f_1_5 f_0_3125;
   mkAabb f_0_25 f_0_0 f_0_6875 f_0_75 f_1_5 f_0_75;
   mkAabb f_0_3125 f_0_0 f_0_0 f_0_6875 f_1_5 f_0_25;
   mkAabb f_0_3125 f_0_0 f_0_75 f_0_6875 f_1_5 f_1_0;
   mkAabb f_0_3125 f_0_0 f_0_0 f_0_6875 f_1_5 f_1_0;
   mkAabb f_0_6875 f_0_0 f_0_3125 f_1_0 f_1_5 f_0_6875;
   mkAabb f_0_0 f_0_0 f_0_3125 f_1_0 f_1_5 f_0_6875;
   mkAabb f_0_3125 f_0_0 f_0_0 f_0_6875 f_1_5 f_0_3125;
   mkAabb f_0_3125 f_0_0 f_0_6875 f_0_6875 f_1_5 f_1_0;
   mkAabb f_0_0 f_0_0 f_0_3125 f_1_0 f_1_5 f_0_6875;
   mkAabb f_0_3125 f_0_0 f_0_0 f_0_6875 f_1_5 f_0_3125;
   mkAabb f_0_3125 f_0_0 f_0_6875 f_0_6875 f_1_5 f_1_0;
   mkAabb f_0_25 f_0_0 f_0_25 f_0_75 f_1_5 f_0_75;
   mkAabb f_0_3125 f_0_0 f_0_0 f_0_6875 f_1_5 f_0_25;
   mkAabb f_0_3125 f_0_0 f_0_75 f_0_6875 f_1_5 f_1_0;
   mkAabb f_0_75 f_0_0 f_0_3125 f_1_0 f_1_5 f_0_6875;
   mkAabb f_0_0 f_0_0 f_0_3125 f_1_0 f_1_5 f_0_6875;
   mkAabb f_0_25 f_0_0 f_0_25 f_0_75 f_1_5 f_0_3125;
   mkAabb f_0_25 f_0_0 f_0_6875 f_0_75 f_1_5 f_0_75;
   mkAabb f_0_3125 f_0_0 f_0_0 f_0_6875 f_1_5 f_0_25;
   mkAabb f_0_3125 f_0_0 f_0_75 f_0_6875 f_1_5 f_1_0;
   mkAabb f_0_0 f_0_0 f_0_3125 f_1_0 f_1_5 f_0_6875;
   mkAabb f_0_25 f_0_0 f_0_25 f_0_75 f_1_5 f_0_3125;
   mkAabb f_0_25 f_0_0 f_0_6875 f_0_75 f_1_5 f_0_75;
   mkAabb f_0_3125 f_0_0 f_0_0 f_0_6875 f_1_5 f_0_25;
   mkAabb f_0_3125 f_0_0 f_0_75 f_0_6875 f_1_5 f_1_0;
   mkAabb f_0_3125 f_0_0 f_0_0 f_0_6875 f_1_5 f_1_0;
   mkAabb f_0_6875 f_0_0 f_0_3125 f_1_0 f_1_5 f_0_6875;
   mkAabb f_0_0 f_0_0 f_0_3125 f_1_0 f_1_5 f_0_6875;
   mkAabb f_0_3125 f_0_0 f_0_0 f_0_6875 f_1_5 f_0_3125;
   mkAabb f_0_3125 f_0_0 f_0_6875 f_0_6875 f_1_5 f_1_0;
   mkAabb f_0_0 f_0_0 f_0_3125 f_1_0 f_1_5 f_0_6875;
   mkAabb f_0_3125 f_0_0 f_0_0 f_0_6875 f_1_5 f_0_3125;
   mkAabb f_0_3125 f_0_0 f_0_6875 f_0_6875 f_1_5 f_1_0;
   mkAabb f_0_25 f_0_0 f_0_25 f_0_75 f_1_5 f_0_75;
   mkAabb f_0_0 f_0_0 f_0_3125 f_0_75 f_1_5 f_0_6875;
   mkAabb f_0_25 f_0_0 f_0_25 f_0_75 f_1_5 f_0_3125;
   mkAabb f_0_25 f_0_0 f_0_6875 f_0_75 f_1_5 f_0_75;
   mkAabb f_0_0 f_0_0 f_0_3125 f_0_75 f_1_5 f_0_6875;
   mkAabb f_0_25 f_0_0 f_0_25 f_0_75 f_1_5 f_0_3125;
   mkAabb f_0_25 f_0_0 f_0_6875 f_0_75 f_1_5 f_0_75;
   mkAabb f_0_0 f_0_0 f_0_3125 f_0_6875 f_1_5 f_0_6875;
   mkAabb f_0_0 f_0_0 f_0_3125 f_0_6875 f_1_5 f_0_6875;
   mkAabb f_0_25 f_0_0 f_0_25 f_0_75 f_1_5 f_0_75;
   mkAabb f_0_3125 f_0_0 f_0_75 f_0_6875 f_1_5 f_1_0;
   mkAabb f_0_0 f_0_0 f_0_3125 f_0_75 f_1_5 f_0_6875;
   mkAabb f_0_25 f_0_0 f_0_25 f_0_75 f_1_5 f_0_3125;
   mkAabb f_0_25 f_0_0 f_0_6875 f_0_75 f_1_5 f_0_75;
   mkAabb f_0_3125 f_0_0 f_0_75 f_0_6875 f_1_5 f_1_0;
   mkAabb f_0_0 f_0_0 f_0_3125 f_0_75 f_1_5 f_0_6875;
   mkAabb f_0_25 f_0_0 f_0_25 f_0_75 f_1_5 f_0_3125;
   mkAabb f_0_25 f_0_0 f_0_6875 f_0_75 f_1_5 f_0_75;
   mkAabb f_0_3125 f_0_0 f_0_75 f_0_6875 f_1_5 f_1_0;
   mkAabb f_0_3125 f_0_0 f_0_3125 f_0_6875 f_1_5 f_1_0;
   mkAabb f_0_0 f_0_0 f_0_3125 f_0_6875 f_1_5 f_0_6875;
   mkAabb f_0_3125 f_0_0 f_0_6875 f_0_6875 f_1_5 f_1_0;
   mkAabb f_0_0 f_0_0 f_0_3125 f_0_6875 f_1_5 f_0_6875;
   mkAabb f_0_3125 f_0_0 f_0_6875 f_0_6875 f_1_5 f_1_0;
   mkAabb f_0_25 f_0_0 f_0_25 f_0_75 f_1_5 f_0_75;
   mkAabb f_0_3125 f_0_0 f_0_75 f_0_6875 f_1_5 f_1_0;
   mkAabb f_0_0 f_0_0 f_0_3125 f_0_75 f_1_5 f_0_6875;
   mkAabb f_0_25 f_0_0 f_0_25 f_0_75 f_1_5 f_0_3125;
   mkAabb f_0_25 f_0_0 f_0_6875 f_0_75 f_1_5 f_0_75;
   mkAabb f_0_3125 f_0_0 f_0_75 f_0_6875 f_1_5 f_1_0;
   mkAabb f_0_0 f_0_0 f_0_3125 f_0_75 f_1_5 f_0_6875;
   mkAabb f_0_25 f_0_0 f_0_25 f_0_75 f_1_5 f_0_3125;
   mkAabb f_0_25 f_0_0 f_0_6875 f_0_75 f_1_5 f_0_75;
   mkAabb f_0_3125 f_0_0 f_0_75 f_0_6875 f_1_5 f_1_0;
   mkAabb f_0_3125 f_0_0 f_0_3125 f_0_6875 f_1_5 f_1_0;
   mkAabb f_0_0 f_0_0 f_0_3125 f_0_6875 f_1_5 f_0_6875;
   mkAabb f_0_3125 f_0_0 f_0_6875 f_0_6875 f_1_5 f_1_0;
   mkAabb f_0_0 f_0_0 f_0_3125 f_0_6875 f_1_5 f_0_6875;
   mkAabb f_0_3125 f_0_0 f_0_6875 f_0_6875 f_1_5 f_1_0;
   mkAabb f_0_25 f_0_0 f_0_25 f_0_75 f_1_5 f_0_75;
   mkAabb f_0_3125 f_0_0 f_0_0 f_0_6875 f_1_5 f_0_25;
   mkAabb f_0_0 f_0_0 f_0_3125 f_0_75 f_1_5 f_0_6875;
   mkAabb f_0_25 f_0_0 f_0_25 f_0_75 f_1_5 f_0_3125;
   mkAabb f_0_25 f_0_0 f_0_6875 f_0_75 f_1_5 f_0_75;
   mkAabb f_0_3125 f_0_0 f_0_0 f_0_6875 f_1_5 f_0_25;
   mkAabb f_0_0 f_0_0 f_0_3125 f_0_75 f_1_5 f_0_6875;
   mkAabb f_0_25 f_0_0 f_0_25 f_0_75 f_1_5 f_0_3125;
   mkAabb f_0_25 f_0_0 f_0_6875 f_0_75 f_1_5 f_0_75;
   mkAabb f_0_3125 f_0_0 f_0_0 f_0_6875 f_1_5 f_0_25;
   mkAabb f_0_3125 f_0_0 f_0_0 f_0_6875 f_1_5 f_0_6875;
   mkAabb f_0_0 f_0_0 f_0_3125 f_0_6875 f_1_5 f_0_6875;
   mkAabb f_0_3125 f_0_0 f_0_0 f_0_6875 f_1_5 f_0_3125;
   mkAabb f_0_0 f_0_0 f_0_3125 f_0_6875 f_1_5 f_0_6875;
   mkAabb f_0_3125 f_0_0 f_0_0 f_0_6875 f_1_5 f_0_3125;
   mkAabb f_0_25 f_0_0 f_0_25 f_0_75 f_1_5 f_0_75;
   mkAabb f_0_3125 f_0_0 f_0_0 f_0_6875 f_1_5 f_0_25;
   mkAabb f_0_3125 f_0_0 f_0_75 f_0_6875 f_1_5 f_1_0;
   mkAabb f_0_0 f_0_0 f_0_3125 f_0_75 f_1_5 f_0_6875;
   mkAabb f_0_25 f_0_0 f_0_25 f_0_75 f_1_5 f_0_3125;
   mkAabb f_0_25 f_0_0 f_0_6875 f_0_75 f_1_5 f_0_75;
   mkAabb f_0_3125 f_0_0 f_0_0 f_0_6875 f_1_5 f_0_25;
   mkAabb f_0_3125 f_0_0 f_0_75 f_0_6875 f_1_5 f_1_0;
   mkAabb f_0_0 f_0_0 f_0_3125 f_0_75 f_1_5 f_0_6875;
   mkAabb f_0_25 f_0_0 f_0_25 f_0_75 f_1_5 f_0_3125;
   mkAabb f_0_25 f_0_0 f_0_6875 f_0_75 f_1_5 f_0_75;
   mkAabb f_0_3125 f_0_0 f_0_0 f_0_6875 f_1_5 f_0_25;
   mkAabb f_0_3125 f_0_0 f_0_75 f_0_6875 f_1_5 f_1_0;
   mkAabb f_0_3125 f_0_0 f_0_0 f_0_6875 f_1_5 f_1_0;
   mkAabb f_0_0 f_0_0 f_0_3125 f_0_6875 f_1_5 f_0_6875;
   mkAabb f_0_3125 f_0_0 f_0_0 f_0_6875 f_1_5 f_0_3125;
   mkAabb f_0_3125 f_0_0 f_0_6875 f_0_6875 f_1_5 f_1_0;
   mkAabb f_0_0 f_0_0 f_0_3125 f_0_6875 f_1_5 f_0_6875;
   mkAabb f_0_3125 f_0_0 f_0_0 f_0_6875 f_1_5 f_0_3125;
   mkAabb f_0_3125 f_0_0 f_0_6875 f_0_6875 f_1_5 f_1_0;
   mkAabb f_0_25 f_0_0 f_0_25 f_0_75 f_1_5 f_0_75;
   mkAabb f_0_3125 f_0_0 f_0_0 f_0_6875 f_1_5 f_0_25;
   mkAabb f_0_3125 f_0_0 f_0_75 f_0_6875 f_1_5 f_1_0;
   mkAabb f_0_0 f_0_0 f_0_3125 f_0_75 f_1_5 f_0_6875;
   mkAabb f_0_25 f_0_0 f_0_25 f_0_75 f_1_5 f_0_3125;
   mkAabb f_0_25 f_0_0 f_0_6875 f_0_75 f_1_5 f_0_75;
   mkAabb f_0_3125 f_0_0 f_0_0 f_0_6875 f_1_5 f_0_25;
   mkAabb f_0_3125 f_0_0 f_0_75 f_0_6875 f_1_5 f_1_0;
   mkAabb f_0_0 f_0_0 f_0_3125 f_0_75 f_1_5 f_0_6875;
   mkAabb f_0_25 f_0_0 f_0_25 f_0_75 f_1_5 f_0_3125;
   mkAabb f_0_25 f_0_0 f_0_6875 f_0_75 f_1_5 f_0_75;
   mkAabb f_0_3125 f_0_0 f_0_0 f_0_6875 f_1_5 f_0_25;
   mkAabb f_0_3125 f_0_0 f_0_75 f_0_6875 f_1_5 f_1_0;
   mkAabb f_0_3125 f_0_0 f_0_0 f_0_6875 f_1_5 f_1_0;
   mkAabb f_0_0 f_0_0 f_0_3125 f_0_6875 f_1_5 f_0_6875;
   mkAabb f_0_3125 f_0_0 f_0_0 f_0_6875 f_1_5 f_0_3125;
   mkAabb f_0_3125 f_0_0 f_0_6875 f_0_6875 f_1_5 f_1_0;
   mkAabb f_0_0 f_0_0 f_0_3125 f_0_6875 f_1_5 f_0_6875;
   mkAabb f_0_3125 f_0_0 f_0_0 f_0_6875 f_1_5 f_0_3125;
   mkAabb f_0_3125 f_0_0 f_0_6875 f_0_6875 f_1_5 f_1_0;
   mkAabb f_0_25 f_0_0 f_0_25 f_0_75 f_1_5 f_0_75;
   mkAabb f_0_3125 f_0_0 f_0_0 f_0_6875 f_1_5 f_0_25;
   mkAabb f_0_0 f_0_0 f_0_3125 f_0_75 f_1_5 f_0_6875;
   mkAabb f_0_25 f_0_0 f_0_25 f_0_75 f_1_5 f_0_3125;
   mkAabb f_0_25 f_0_0 f_0_6875 f_0_75 f_1_5 f_0_75;
   mkAabb f_0_3125 f_0_0 f_0_0 f_0_6875 f_1_5 f_0_25;
   mkAabb f_0_0 f_0_0 f_0_3125 f_0_75 f_1_5 f_0_6875;
   mkAabb f_0_25 f_0_0 f_0_25 f_0_75 f_1_5 f_0_3125].
Definition SHAPE_BOXES_38 : list Aabb :=
  [mkAabb f_0_25 f_0_0 f_0_6875 f_0_75 f_1_5 f_0_75;
   mkAabb f_0_3125 f_0_0 f_0_0 f_0_6875 f_1_5 f_0_25;
   mkAabb f_0_3125 f_0_0 f_0_0 f_0_6875 f_1_5 f_0_6875;
   mkAabb f_0_0 f_0_0 f_0_3125 f_0_6875 f_1_5 f_0_6875;
   mkAabb f_0_3125 f_0_0 f_0_0 f_0_6875 f_1_5 f_0_3125;
   mkAabb f_0_0 f_0_0 f_0_3125 f_0_6875 f_1_5 f_0_6875;
   mkAabb f_0_3125 f_0_0 f_0_0 f_0_6875 f_1_5 f_0_3125;
   mkAabb f_0_25 f_0_0 f_0_25 f_0_75 f_1_5 f_0_75;
   mkAabb f_0_3125 f_0_0 f_0_0 f_0_6875 f_1_5 f_0_25;
   mkAabb f_0_3125 f_0_0 f_0_75 f_0_6875 f_1_5 f_1_0;
   mkAabb f_0_0 f_0_0 f_0_3125 f_0_75 f_1_5 f_0_6875;
   mkAabb f_0_25 f_0_0 f_0_25 f_0_75 f_1_5 f_0_3125;
   mkAabb f_0_25 f_0_0 f_0_6875 f_0_75 f_1_5 f_0_75;
   mkAabb f_0_3125 f_0_0 f_0_0 f_0_6875 f_1_5 f_0_25;
   mkAabb f_0_3125 f_0_0 f_0_75 f_0_6875 f_1_5 f_1_0;
   mkAabb f_0_0 f_0_0 f_0_3125 f_0_75 f_1_5 f_0_6875;
   mkAabb f_0_25 f_0_0 f_0_25 f_0_75 f_1_5 f_0_3125;
   mkAabb f_0_25 f_0_0 f_0_6875 f_0_75 f_1_5 f_0_75;
   mkAabb f_0_3125 f_0_0 f_0_0 f_0_6875 f_1_5 f_0_25;
   mkAabb f_0_3125 f_0_0 f_0_75 f_0_6875 f_1_5 f_1_0;
   mkAabb f_0_3125 f_0_0 f_0_0 f_0_6875 f_1_5 f_1_0;
   mkAabb f_0_0 f_0_0 f_0_3125 f_0_6875 f_1_5 f_0_6875;
   mkAabb f_0_3125 f_0_0 f_0_0 f_0_6875 f_1_5 f_0_3125;
   mkAabb f_0_3125 f_0_0 f_0_6875 f_0_6875 f_1_5 f_1_0;
   mkAabb f_0_0 f_0_0 f_0_3125 f_0_6875 f_1_5 f_0_6875;
   mkAabb f_0_3125 f_0_0 f_0_0 f_0_6875 f_1_5 f_0_3125;
   mkAabb f_0_3125 f_0_0 f_0_6875 f_0_6875 f_1_5 f_1_0;
   mkAabb f_0_25 f_0_0 f_0_25 f_0_75 f_1_5 f_0_75;
   mkAabb f_0_3125 f_0_0 f_0_0 f_0_6875 f_1_5 f_0_25;
   mkAabb f_0_3125 f_0_0 f_0_75 f_0_6875 f_1_5 f_1_0;
   mkAabb f_0_0 f_0_0 f_0_3125 f_0_75 f_1_5 f_0_6875;
   mkAabb f_0_25 f_0_0 f_0_25 f_0_75 f_1_5 f_0_3125;
   mkAabb f_0_25 f_0_0 f_0_6875 f_0_75 f_1_5 f_0_75;
   mkAabb f_0_3125 f_0_0 f_0_0 f_0_6875 f_1_5 f_0_25;
   mkAabb f_0_3125 f_0_0 f_0_75 f_0_6875 f_1_5 f_1_0;
   mkAabb f_0_0 f_0_0 f_0_3125 f_0_75 f_1_5 f_0_6875;
   mkAabb f_0_25 f_0_0 f_0_25 f_0_75 f_1_5 f_0_3125;
   mkAabb f_0_25 f_0_0 f_0_6875 f_0_75 f_1_5 f_0_75;
   mkAabb f_0_3125 f_0_0 f_0_0 f_0_6875 f_1_5 f_0_25;
   mkAabb f_0_3125 f_0_0 f_0_75 f_0_6875 f_1_5 f_1_0;
   mkAabb f_0_3125 f_0_0 f_0_0 f_0_6875 f_1_5 f_1_0;
   mkAabb f_0_0 f_0_0 f_0_3125 f_0_6875 f_1_5 f_0_6875;
   mkAabb f_0_3125 f_0_0 f_0_0 f_0_6875 f_1_5 f_0_3125;
   mkAabb f_0_3125 f_0_0 f_0_6875 f_0_6875 f_1_5 f_1_0;
   mkAabb f_0_0 f_0_0 f_0_3125 f_0_6875 f_1_5 f_0_6875;
   mkAabb f_0_3125 f_0_0 f_0_0 f_0_6875 f_1_5 f_0_3125;
   mkAabb f_0_3125 f_0_0 f_0_6875 f_0_6875 f_1_5 f_1_0;
   mkAabb f_0_25 f_0_0 f_0_25 f_0_75 f_1_5 f_0_75;
   mkAabb f_0_75 f_0_0 f_0_3125 f_1_0 f_1_5 f_0_6875;
   mkAabb f_0_0 f_0_0 f_0_3125 f_1_0 f_1_5 f_0_6875;
   mkAabb f_0_25 f_0_0 f_0_25 f_0_75 f_1_5 f_0_3125;
   mkAabb f_0_25 f_0_0 f_0_6875 f_0_75 f_1_5 f_0_75;
   mkAabb f_0_0 f_0_0 f_0_3125 f_1_0 f_1_5 f_0_6875;
   mkAabb f_0_25 f_0_0 f_0_25 f_0_75 f_1_5 f_0_3125;
   mkAabb f_0_25 f_0_0 f_0_6875 f_0_75 f_1_5 f_0_75;
   mkAabb f_0_3125 f_0_0 f_0_3125 f_1_0 f_1_5 f_0_6875;
   mkAabb f_0_0 f_0_0 f_0_3125 f_1_0 f_1_5 f_0_6875;
   mkAabb f_0_0 f_0_0 f_0_3125 f_1_0 f_1_5 f_0_6875;
   mkAabb f_0_25 f_0_0 f_0_25 f_0_75 f_1_5 f_0_75;
   mkAabb f_0_3125 f_0_0 f_0_75 f_0_6875 f_1_5 f_1_0;
   mkAabb f_0_75 f_0_0 f_0_3125 f_1_0 f_1_5 f_0_6875;
   mkAabb f_0_0 f_0_0 f_0_3125 f_1_0 f_1_5 f_0_6875;
   mkAabb f_0_25 f_0_0 f_0_25 f_0_75 f_1_5 f_0_3125;
   mkAabb f_0_25 f_0_0 f_0_6875 f_0_75 f_1_5 f_0_75;
   mkAabb f_0_3125 f_0_0 f_0_75 f_0_6875 f_1_5 f_1_0;
   mkAabb f_0_0 f_0_0 f_0_3125 f_1_0 f_1_5 f_0_6875;
   mkAabb f_0_25 f_0_0 f_0_25 f_0_75 f_1_5 f_0_3125;
   mkAabb f_0_25 f_0_0 f_0_6875 f_0_75 f_1_5 f_0_75;
   mkAabb f_0_3125 f_0_0 f_0_75 f_0_6875 f_1_5 f_1_0;
   mkAabb f_0_3125 f_0_0 f_0_3125 f_0_6875 f_1_5 f_1_0;
   mkAabb f_0_6875 f_0_0 f_0_3125 f_1_0 f_1_5 f_0_6875;
   mkAabb f_0_0 f_0_0 f_0_3125 f_1_0 f_1_5 f_0_6875;
   mkAabb f_0_3125 f_0_0 f_0_6875 f_0_6875 f_1_5 f_1_0;
   mkAabb f_0_0 f_0_0 f_0_3125 f_1_0 f_1_5 f_0_6875;
   mkAabb f_0_3125 f_0_0 f_0_6875 f_0_6875 f_1_5 f_1_0;
   mkAabb f_0_25 f_0_0 f_0_25 f_0_75 f_1_5 f_0_75;
   mkAabb f_0_3125 f_0_0 f_0_75 f_0_6875 f_1_5 f_1_0;
   mkAabb f_0_75 f_0_0 f_0_3125 f_1_0 f_1_5 f_0_6875;
   mkAabb f_0_0 f_0_0 f_0_3125 f_1_0 f_1_5 f_0_6875;
   mkAabb f_0_25 f_0_0 f_0_25 f_0_75 f_1_5 f_0_3125;
   mkAabb f_0_25 f_0_0 f_0_6875 f_0_75 f_1_5 f_0_75;
   mkAabb f_0_3125 f_0_0 f_0_75 f_0_6875 f_1_5 f_1_0;
   mkAabb f_0_0 f_0_0 f_0_3125 f_1_0 f_1_5 f_0_6875;
   mkAabb f_0_25 f_0_0 f_0_25 f_0_75 f_1_5 f_0_3125;
   mkAabb f_0_25 f_0_0 f_0_6875 f_0_75 f_1_5 f_0_75;
   mkAabb f_0_3125 f_0_0 f_0_75 f_0_6875 f_1_5 f_1_0;
   mkAabb f_0_3125 f_0_0 f_0_3125 f_0_6875 f_1_5 f_1_0;
   mkAabb f_0_6875 f_0_0 f_0_3125 f_1_0 f_1_5 f_0_6875;
   mkAabb f_0_0 f_0_0 f_0_3125 f_1_0 f_1_5 f_0_6875;
   mkAabb f_0_3125 f_0_0 f_0_6875 f_0_6875 f_1_5 f_1_0;
   mkAabb f_0_0 f_0_0 f_0_3125 f_1_0 f_1_5 f_0_6875;
   mkAabb f_0_3125 f_0_0 f_0_6875 f_0_6875 f_1_5 f_1_0;
   mkAabb f_0_25 f_0_0 f_0_25 f_0_75 f_1_5 f_0_75;
   mkAabb f_0_3125 f_0_0 f_0_0 f_0_6875 f_1_5 f_0_25;
   mkAabb f_0_75 f_0_0 f_0_3125 f_1_0 f_1_5 f_0_6875;
   mkAabb f_0_0 f_0_0 f_0_3125 f_1_0 f_1_5 f_0_6875;
   mkAabb f_0_25 f_0_0 f_0_25 f_0_75 f_1_5 f_0_3125;
   mkAabb f_0_25 f_0_0 f_0_6875 f_0_75 f_1_5 f_0_75;
   mkAabb f_0_3125 f_0_0 f_0_0 f_0_6875 f_1_5 f_0_25;
   mkAabb f_0_0 f_0_0 f_0_3125 f_1_0 f_1_5 f_0_6875;
   mkAabb f_0_25 f_0_0 f_0_25 f_0_75 f_1_5 f_0_3125;
   mkAabb f_0_25 f_0_0 f_0_6875 f_0_75 f_1_5 f_0_75;
   mkAabb f_0_3125 f_0_0 f_0_0 f_0_6875 f_1_5 f_0_25;
   mkAabb f_0_3125 f_0_0 f_0_0 f_0_6875 f_1_5 f_0_6875;
   mkAabb f_0_6875 f_0_0 f_0_3125 f_1_0 f_1_5 f_0_6875;
   mkAabb f_0_0 f_0_0 f_0_3125 f_1_0 f_1_5 f_0_6875;
   mkAabb f_0_3125 f_0_0 f_0_0 f_0_6875 f_1_5 f_0_3125;
   mkAabb f_0_0 f_0_0 f_0_3125 f_1_0 f_1_5 f_0_6875;
   mkAabb f_0_3125 f_0_0 f_0_0 f_0_6875 f_1_5 f_0_3125;
   mkAabb f_0_25 f_0_0 f_0_25 f_0_75 f_1_5 f_0_75;
   mkAabb f_0_3125 f_0_0 f_0_0 f_0_6875 f_1_5 f_0_25;
   mkAabb f_0_3125 f_0_0 f_0_75 f_0_6875 f_1_5 f_1_0;
   mkAabb f_0_75 f_0_0 f_0_3125 f_1_0 f_1_5 f_0_6875;
   mkAabb f_0_0 f_0_0 f_0_3125 f_1_0 f_1_5 f_0_6875;
   mkAabb f_0_25 f_0_0 f_0_25 f_0_75 f_1_5 f_0_3125;
   mkAabb f_0_25 f_0_0 f_0_6875 f_0_75 f_1_5 f_0_75;
   mkAabb f_0_3125 f_0_0 f_0_0 f_0_6875 f_1_5 f_0_25;
   mkAabb f_0_3125 f_0_0 f_0_75 f_0_6875 f_1_5 f_1_0;
   mkAabb f_0_0 f_0_0 f_0_3125 f_1_0 f_1_5 f_0_6875;
   mkAabb f_0_25 f_0_0 f_0_25 f_0_75 f_1_5 f_0_3125;
   mkAabb f_0_25 f_0_0 f_0_6875 f_0_75 f_1_5 f_0_75;
   mkAabb f_0_3125 f_0_0 f_0_0 f_0_6875 f_1_5 f_0_25;
   mkAabb f_0_3125 f_0_0 f_0_75 f_0_6875 f_1_5 f_1_0;
   mkAabb f_0_3125 f_0_0 f_0_0 f_0_6875 f_1_5 f_1_0;
   mkAabb f_0_6875 f_0_0 f_0_3125 f_1_0 f_1_5 f_0_6875;
   mkAabb f_0_0 f_0_0 f_0_3125 f_1_0 f_1_5 f_0_6875;
   mkAabb f_0_3125 f_0_0 f_0_0 f_0_6875 f_1_5 f_0_3125;
   mkAabb f_0_3125 f_0_0 f_0_6875 f_0_6875 f_1_5 f_1_0;
   mkAabb f_0_0 f_0_0 f_0_3125 f_1_0 f_1_5 f_0_6875;
   mkAabb f_0_3125 f_0_0 f_0_0 f_0_6875 f_1_5 f_0_3125;
   mkAabb f_0_3125 f_0_0 f_0_6875 f_0_6875 f_1_5 f_1_0;
   mkAabb f_0_25 f_0_0 f_0_25 f_0_75 f_1_5 f_0_75;
   mkAabb f_0_3125 f_0_0 f_0_0 f_0_6875 f_1_5 f_0_25;
   mkAabb f_0_3125 f_0_0 f_0_75 f_0_6875 f_1_5 f_1_0;
   mkAabb f_0_75 f_0_0 f_0_3125 f_1_0 f_1_5 f_0_6875;
   mkAabb f_0_0 f_0_0 f_0_3125 f_1_0 f_1_5 f_0_6875;
   mkAabb f_0_25 f_0_0 f_0_25 f_0_75 f_1_5 f_0_3125;
   mkAabb f_0_25 f_0_0 f_0_6875 f_0_75 f_1_5 f_0_75;
   mkAabb f_0_3125 f_0_0 f_0_0 f_0_6875 f_1_5 f_0_25;
   mkAabb f_0_3125 f_0_0 f_0_75 f_0_6875 f_1_5 f_1_0;
   mkAabb f_0_0 f_0_0 f_0_3125 f_1_0 f_1_5 f_0_6875;
   mkAabb f_0_25 f_0_0 f_0_25 f_0_75 f_1_5 f_0_3125;
   mkAabb f_0_25 f_0_0 f_0_6875 f_0_75 f_1_5 f_0_75;
   mkAabb f_0_3125 f_0_0 f_0_0 f_0_6875 f_1_5 f_0_25;
   mkAabb f_0_3125 f_0_0 f_0_75 f_0_6875 f_1_5 f_1_0;
   mkAabb f_0_3125 f_0_0 f_0_0 f_0_6875 f_1_5 f_1_0;
   mkAabb f_0_6875 f_0_0 f_0_3125 f_1_0 f_1_5 f_0_6875;
   mkAabb f_0_0 f_0_0 f_0_3125 f_1_0 f_1_5 f_0_6875;
   mkAabb f_0_3125 f_0_0 f_0_0 f_0_6875 f_1_5 f_0_3125;
   mkAabb f_0_3125 f_0_0 f_0_6875 f_0_6875 f_1_5 f_1_0].
Definition SHAPE_BOXES_39 : list Aabb :=
  [mkAabb f_0_0 f_0_0 f_0_3125 f_1_0 f_1_5 f_0_6875;
   mkAabb f_0_3125 f_0_0 f_0_0 f_0_6875 f_1_5 f_0_3125;
   mkAabb f_0_3125 f_0_0 f_0_6875 f_0_6875 f_1_5 f_1_0;
   mkAabb f_0_25 f_0_0 f_0_25 f_0_75 f_1_5 f_0_75;
   mkAabb f_0_3125 f_0_0 f_0_0 f_0_6875 f_1_5 f_0_25;
   mkAabb f_0_75 f_0_0 f_0_3125 f_1_0 f_1_5 f_0_6875;
   mkAabb f_0_0 f_0_0 f_0_3125 f_1_0 f_1_5 f_0_6875;
   mkAabb f_0_25 f_0_0 f_0_25 f_0_75 f_1_5 f_0_3125;
   mkAabb f_0_25 f_0_0 f_0_6875 f_0_75 f_1_5 f_0_75;
   mkAabb f_0_3125 f_0_0 f_0_0 f_0_6875 f_1_5 f_0_25;
   mkAabb f_0_0 f_0_0 f_0_3125 f_1_0 f_1_5 f_0_6875;
   mkAabb f_0_25 f_0_0 f_0_25 f_0_75 f_1_5 f_0_3125;
   mkAabb f_0_25 f_0_0 f_0_6875 f_0_75 f_1_5 f_0_75;
   mkAabb f_0_3125 f_0_0 f_0_0 f_0_6875 f_1_5 f_0_25;
   mkAabb f_0_3125 f_0_0 f_0_0 f_0_6875 f_1_5 f_0_6875;
   mkAabb f_0_6875 f_0_0 f_0_3125 f_1_0 f_1_5 f_0_6875;
   mkAabb f_0_0 f_0_0 f_0_3125 f_1_0 f_1_5 f_0_6875;
   mkAabb f_0_3125 f_0_0 f_0_0 f_0_6875 f_1_5 f_0_3125;
   mkAabb f_0_0 f_0_0 f_0_3125 f_1_0 f_1_5 f_0_6875;
   mkAabb f_0_3125 f_0_0 f_0_0 f_0_6875 f_1_5 f_0_3125;
   mkAabb f_0_25 f_0_0 f_0_25 f_0_75 f_1_5 f_0_75;
   mkAabb f_0_3125 f_0_0 f_0_0 f_0_6875 f_1_5 f_0_25;
   mkAabb f_0_3125 f_0_0 f_0_75 f_0_6875 f_1_5 f_1_0;
   mkAabb f_0_75 f_0_0 f_0_3125 f_1_0 f_1_5 f_0_6875;
   mkAabb f_0_0 f_0_0 f_0_3125 f_1_0 f_1_5 f_0_6875;
   mkAabb f_0_25 f_0_0 f_0_25 f_0_75 f_1_5 f_0_3125;
   mkAabb f_0_25 f_0_0 f_0_6875 f_0_75 f_1_5 f_0_75;
   mkAabb f_0_3125 f_0_0 f_0_0 f_0_6875 f_1_5 f_0_25;
   mkAabb f_0_3125 f_0_0 f_0_75 f_0_6875 f_1_5 f_1_0;
   mkAabb f_0_0 f_0_0 f_0_3125 f_1_0 f_1_5 f_0_6875;
   mkAabb f_0_25 f_0_0 f_0_25 f_0_75 f_1_5 f_0_3125;
   mkAabb f_0_25 f_0_0 f_0_6875 f_0_75 f_1_5 f_0_75;
   mkAabb f_0_3125 f_0_0 f_0_0 f_0_6875 f_1_5 f_0_25;
   mkAabb f_0_3125 f_0_0 f_0_75 f_0_6875 f_1_5 f_1_0;
   mkAabb f_0_3125 f_0_0 f_0_0 f_0_6875 f_1_5 f_1_0;
   mkAabb f_0_6875 f_0_0 f_0_3125 f_1_0 f_1_5 f_0_6875;
   mkAabb f_0_0 f_0_0 f_0_3125 f_1_0 f_1_5 f_0_6875;
   mkAabb f_0_3125 f_0_0 f_0_0 f_0_6875 f_1_5 f_0_3125;
   mkAabb f_0_3125 f_0_0 f_0_6875 f_0_6875 f_1_5 f_1_0;
   mkAabb f_0_0 f_0_0 f_0_3125 f_1_0 f_1_5 f_0_6875;
   mkAabb f_0_3125 f_0_0 f_0_0 f_0_6875 f_1_5 f_0_3125;
   mkAabb f_0_3125 f_0_0 f_0_6875 f_0_6875 f_1_5 f_1_0;
   mkAabb f_0_25 f_0_0 f_0_25 f_0_75 f_1_5 f_0_75;
   mkAabb f_0_3125 f_0_0 f_0_0 f_0_6875 f_1_5 f_0_25;
   mkAabb f_0_3125 f_0_0 f_0_75 f_0_6875 f_1_5 f_1_0;
   mkAabb f_0_75 f_0_0 f_0_3125 f_1_0 f_1_5 f_0_6875;
   mkAabb f_0_0 f_0_0 f_0_3125 f_1_0 f_1_5 f_0_6875;
   mkAabb f_0_25 f_0_0 f_0_25 f_0_75 f_1_5 f_0_3125;
   mkAabb f_0_25 f_0_0 f_0_6875 f_0_75 f_1_5 f_0_75;
   mkAabb f_0_3125 f_0_0 f_0_0 f_0_6875 f_1_5 f_0_25;
   mkAabb f_0_3125 f_0_0 f_0_75 f_0_6875 f_1_5 f_1_0;
   mkAabb f_0_0 f_0_0 f_0_3125 f_1_0 f_1_5 f_0_6875;
   mkAabb f_0_25 f_0_0 f_0_25 f_0_75 f_1_5 f_0_3125;
   mkAabb f_0_25 f_0_0 f_0_6875 f_0_75 f_1_5 f_0_75;
   mkAabb f_0_3125 f_0_0 f_0_0 f_0_6875 f_1_5 f_0_25;
   mkAabb f_0_3125 f_0_0 f_0_75 f_0_6875 f_1_5 f_1_0;
   mkAabb f_0_3125 f_0_0 f_0_0 f_0_6875 f_1_5 f_1_0;
   mkAabb f_0_6875 f_0_0 f_0_3125 f_1_0 f_1_5 f_0_6875;
   mkAabb f_0_0 f_0_0 f_0_3125 f_1_0 f_1_5 f_0_6875;
   mkAabb f_0_3125 f_0_0 f_0_0 f_0_6875 f_1_5 f_0_3125;
   mkAabb f_0_3125 f_0_0 f_0_6875 f_0_6875 f_1_5 f_1_0;
   mkAabb f_0_0 f_0_0 f_0_3125 f_1_0 f_1_5 f_0_6875;
   mkAabb f_0_3125 f_0_0 f_0_0 f_0_6875 f_1_5 f_0_3125;
   mkAabb f_0_3125 f_0_0 f_0_6875 f_0_6875 f_1_5 f_1_0;
   mkAabb f_0_25 f_0_0 f_0_25 f_0_75 f_1_5 f_0_75;
   mkAabb f_0_75 f_0_0 f_0_3125 f_1_0 f_1_5 f_0_6875;
   mkAabb f_0_0 f_0_0 f_0_3125 f_1_0 f_1_5 f_0_6875;
   mkAabb f_0_25 f_0_0 f_0_25 f_0_75 f_1_5 f_0_3125;
   mkAabb f_0_25 f_0_0 f_0_6875 f_0_75 f_1_5 f_0_75;
   mkAabb f_0_0 f_0_0 f_0_3125 f_1_0 f_1_5 f_0_6875;
   mkAabb f_0_25 f_0_0 f_0_25 f_0_75 f_1_5 f_0_3125;
   mkAabb f_0_25 f_0_0 f_0_6875 f_0_75 f_1_5 f_0_75;
   mkAabb f_0_3125 f_0_0 f_0_3125 f_1_0 f_1_5 f_0_6875;
   mkAabb f_0_0 f_0_0 f_0_3125 f_1_0 f_1_5 f_0_6875;
   mkAabb f_0_0 f_0_0 f_0_3125 f_1_0 f_1_5 f_0_6875;
   mkAabb f_0_25 f_0_0 f_0_25 f_0_75 f_1_5 f_0_75;
   mkAabb f_0_3125 f_0_0 f_0_75 f_0_6875 f_1_5 f_1_0;
   mkAabb f_0_75 f_0_0 f_0_3125 f_1_0 f_1_5 f_0_6875;
   mkAabb f_0_0 f_0_0 f_0_3125 f_1_0 f_1_5 f_0_6875;
   mkAabb f_0_25 f_0_0 f_0_25 f_0_75 f_1_5 f_0_3125;
   mkAabb f_0_25 f_0_0 f_0_6875 f_0_75 f_1_5 f_0_75;
   mkAabb f_0_3125 f_0_0 f_0_75 f_0_6875 f_1_5 f_1_0;
   mkAabb f_0_0 f_0_0 f_0_3125 f_1_0 f_1_5 f_0_6875;
   mkAabb f_0_25 f_0_0 f_0_25 f_0_75 f_1_5 f_0_3125;
   mkAabb f_0_25 f_0_0 f_0_6875 f_0_75 f_1_5 f_0_75;
   mkAabb f_0_3125 f_0_0 f_0_75 f_0_6875 f_1_5 f_1_0;
   mkAabb f_0_3125 f_0_0 f_0_3125 f_0_6875 f_1_5 f_1_0;
   mkAabb f_0_6875 f_0_0 f_0_3125 f_1_0 f_1_5 f_0_6875;
   mkAabb f_0_0 f_0_0 f_0_3125 f_1_0 f_1_5 f_0_6875;
   mkAabb f_0_3125 f_0_0 f_0_6875 f_0_6875 f_1_5 f_1_0;
   mkAabb f_0_0 f_0_0 f_0_3125 f_1_0 f_1_5 f_0_6875;
   mkAabb f_0_3125 f_0_0 f_0_6875 f_0_6875 f_1_5 f_1_0;
   mkAabb f_0_25 f_0_0 f_0_25 f_0_75 f_1_5 f_0_75;
   mkAabb f_0_3125 f_0_0 f_0_75 f_0_6875 f_1_5 f_1_0;
   mkAabb f_0_75 f_0_0 f_0_3125 f_1_0 f_1_5 f_0_6875;
   mkAabb f_0_0 f_0_0 f_0_3125 f_1_0 f_1_5 f_0_6875;
   mkAabb f_0_25 f_0_0 f_0_25 f_0_75 f_1_5 f_0_3125;
   mkAabb f_0_25 f_0_0 f_0_6875 f_0_75 f_1_5 f_0_75;
   mkAabb f_0_3125 f_0_0 f_0_75 f_0_6875 f_1_5 f_1_0;
   mkAabb f_0_0 f_0_0 f_0_3125 f_1_0 f_1_5 f_0_6875;
   mkAabb f_0_25 f_0_0 f_0_25 f_0_75 f_1_5 f_0_3125;
   mkAabb f_0_25 f_0_0 f_0_6875 f_0_75 f_1_5 f_0_75;
   mkAabb f_0_3125 f_0_0 f_0_75 f_0_6875 f_1_5 f_1_0;
   mkAabb f_0_3125 f_0_0 f_0_3125 f_0_6875 f_1_5 f_1_0;
   mkAabb f_0_6875 f_0_0 f_0_3125 f_1_0 f_1_5 f_0_6875;
   mkAabb f_0_0 f_0_0 f_0_3125 f_1_0 f_1_5 f_0_6875;
   mkAabb f_0_3125 f_0_0 f_0_6875 f_0_6875 f_1_5 f_1_0;
   mkAabb f_0_0 f_0_0 f_0_3125 f_1_0 f_1_5 f_0_6875;
   mkAabb f_0_3125 f_0_0 f_0_6875 f_0_6875 f_1_5 f_1_0;
   mkAabb f_0_25 f_0_0 f_0_25 f_0_75 f_1_5 f_0_75;
   mkAabb f_0_3125 f_0_0 f_0_0 f_0_6875 f_1_5 f_0_25;
   mkAabb f_0_75 f_0_0 f_0_3125 f_1_0 f_1_5 f_0_6875;
   mkAabb f_0_0 f_0_0 f_0_3125 f_1_0 f_1_5 f_0_6875;
   mkAabb f_0_25 f_0_0 f_0_25 f_0_75 f_1_5 f_0_3125;
   mkAabb f_0_25 f_0_0 f_0_6875 f_0_75 f_1_5 f_0_75;
   mkAabb f_0_3125 f_0_0 f_0_0 f_0_6875 f_1_5 f_0_25;
   mkAabb f_0_0 f_0_0 f_0_3125 f_1_0 f_1_5 f_0_6875;
   mkAabb f_0_25 f_0_0 f_0_25 f_0_75 f_1_5 f_0_3125;
   mkAabb f_0_25 f_0_0 f_0_6875 f_0_75 f_1_5 f_0_75;
   mkAabb f_0_3125 f_0_0 f_0_0 f_0_6875 f_1_5 f_0_25;
   mkAabb f_0_3125 f_0_0 f_0_0 f_0_6875 f_1_5 f_0_6875;
   mkAabb f_0_6875 f_0_0 f_0_3125 f_1_0 f_1_5 f_0_6875;
   mkAabb f_0_0 f_0_0 f_0_3125 f_1_0 f_1_5 f_0_6875;
   mkAabb f_0_3125 f_0_0 f_0_0 f_0_6875 f_1_5 f_0_3125;
   mkAabb f_0_0 f_0_0 f_0_3125 f_1_0 f_1_5 f_0_6875;
   mkAabb f_0_3125 f_0_0 f_0_0 f_0_6875 f_1_5 f_0_3125;
   mkAabb f_0_25 f_0_0 f_0_25 f_0_75 f_1_5 f_0_75;
   mkAabb f_0_3125 f_0_0 f_0_0 f_0_6875 f_1_5 f_0_25;
   mkAabb f_0_3125 f_0_0 f_0_75 f_0_6875 f_1_5 f_1_0;
   mkAabb f_0_75 f_0_0 f_0_3125 f_1_0 f_1_5 f_0_6875;
   mkAabb f_0_0 f_0_0 f_0_3125 f_1_0 f_1_5 f_0_6875;
   mkAabb f_0_25 f_0_0 f_0_25 f_0_75 f_1_5 f_0_3125;
   mkAabb f_0_25 f_0_0 f_0_6875 f_0_75 f_1_5 f_0_75;
   mkAabb f_0_3125 f_0_0 f_0_0 f_0_6875 f_1_5 f_0_25;
   mkAabb f_0_3125 f_0_0 f_0_75 f_0_6875 f_1_5 f_1_0;
   mkAabb f_0_0 f_0_0 f_0_3125 f_1_0 f_1_5 f_0_6875;
   mkAabb f_0_25 f_0_0 f_0_25 f_0_75 f_1_5 f_0_3125;
   mkAabb f_0_25 f_0_0 f_0_6875 f_0_75 f_1_5 f_0_75;
   mkAabb f_0_3125 f_0_0 f_0_0 f_0_6875 f_1_5 f_0_25;
   mkAabb f_0_3125 f_0_0 f_0_75 f_0_6875 f_1_5 f_1_0;
   mkAabb f_0_3125 f_0_0 f_0_0 f_0_6875 f_1_5 f_1_0;
   mkAabb f_0_6875 f_0_0 f_0_3125 f_1_0 f_1_5 f_0_6875;
   mkAabb f_0_0 f_0_0 f_0_3125 f_1_0 f_1_5 f_0_6875;
   mkAabb f_0_3125 f_0_0 f_0_0 f_0_6875 f_1_5 f_0_3125;
   mkAabb f_0_3125 f_0_0 f_0_6875 f_0_6875 f_1_5 f_1_0;
   mkAabb f_0_0 f_0_0 f_0_3125 f_1_0 f_1_5 f_0_6875;
   mkAabb f_0_3125 f_0_0 f_0_0 f_0_6875 f_1_5 f_0_3125;
   mkAabb f_0_3125 f_0_0 f_0_6875 f_0_6875 f_1_5 f_1_0;
   mkAabb f_0_25 f_0_0 f_0_25 f_0_75 f_1_5 f_0_75;
   mkAabb f_0_3125 f_0_0 f_0_0 f_0_6875 f_1_5 f_0_25].
Definition SHAPE_BOXES_40 : list Aabb :=
  [mkAabb f_0_3125 f_0_0 f_0_75 f_0_6875 f_1_5 f_1_0;
   mkAabb f_0_75 f_0_0 f_0_3125 f_1_0 f_1_5 f_0_6875;
   mkAabb f_0_0 f_0_0 f_0_3125 f_1_0 f_1_5 f_0_6875;
   mkAabb f_0_25 f_0_0 f_0_25 f_0_75 f_1_5 f_0_3125;
   mkAabb f_0_25 f_0_0 f_0_6875 f_0_75 f_1_5 f_0_75;
   mkAabb f_0_3125 f_0_0 f_0_0 f_0_6875 f_1_5 f_0_25;
   mkAabb f_0_3125 f_0_0 f_0_75 f_0_6875 f_1_5 f_1_0;
   mkAabb f_0_0 f_0_0 f_0_3125 f_1_0 f_1_5 f_0_6875;
   mkAabb f_0_25 f_0_0 f_0_25 f_0_75 f_1_5 f_0_3125;
   mkAabb f_0_25 f_0_0 f_0_6875 f_0_75 f_1_5 f_0_75;
   mkAabb f_0_3125 f_0_0 f_0_0 f_0_6875 f_1_5 f_0_25;
   mkAabb f_0_3125 f_0_0 f_0_75 f_0_6875 f_1_5 f_1_0;
   mkAabb f_0_3125 f_0_0 f_0_0 f_0_6875 f_1_5 f_1_0;
   mkAabb f_0_6875 f_0_0 f_0_3125 f_1_0 f_1_5 f_0_6875;
   mkAabb f_0_0 f_0_0 f_0_3125 f_1_0 f_1_5 f_0_6875;
   mkAabb f_0_3125 f_0_0 f_0_0 f_0_6875 f_1_5 f_0_3125;
   mkAabb f_0_3125 f_0_0 f_0_6875 f_0_6875 f_1_5 f_1_0;
   mkAabb f_0_0 f_0_0 f_0_3125 f_1_0 f_1_5 f_0_6875;
   mkAabb f_0_3125 f_0_0 f_0_0 f_0_6875 f_1_5 f_0_3125;
   mkAabb f_0_3125 f_0_0 f_0_6875 f_0_6875 f_1_5 f_1_0;
   mkAabb f_0_25 f_0_0 f_0_25 f_0_75 f_1_5 f_0_75;
   mkAabb f_0_3125 f_0_0 f_0_0 f_0_6875 f_1_5 f_0_25;
   mkAabb f_0_75 f_0_0 f_0_3125 f_1_0 f_1_5 f_0_6875;
   mkAabb f_0_0 f_0_0 f_0_3125 f_1_0 f_1_5 f_0_6875;
   mkAabb f_0_25 f_0_0 f_0_25 f_0_75 f_1_5 f_0_3125;
   mkAabb f_0_25 f_0_0 f_0_6875 f_0_75 f_1_5 f_0_75;
   mkAabb f_0_3125 f_0_0 f_0_0 f_0_6875 f_1_5 f_0_25;
   mkAabb f_0_0 f_0_0 f_0_3125 f_1_0 f_1_5 f_0_6875;
   mkAabb f_0_25 f_0_0 f_0_25 f_0_75 f_1_5 f_0_3125;
   mkAabb f_0_25 f_0_0 f_0_6875 f_0_75 f_1_5 f_0_75;
   mkAabb f_0_3125 f_0_0 f_0_0 f_0_6875 f_1_5 f_0_25;
   mkAabb f_0_3125 f_0_0 f_0_0 f_0_6875 f_1_5 f_0_6875;
   mkAabb f_0_6875 f_0_0 f_0_3125 f_1_0 f_1_5 f_0_6875;
   mkAabb f_0_0 f_0_0 f_0_3125 f_1_0 f_1_5 f_0_6875;
   mkAabb f_0_3125 f_0_0 f_0_0 f_0_6875 f_1_5 f_0_3125;
   mkAabb f_0_0 f_0_0 f_0_3125 f_1_0 f_1_5 f_0_6875;
   mkAabb f_0_3125 f_0_0 f_0_0 f_0_6875 f_1_5 f_0_3125;
   mkAabb f_0_25 f_0_0 f_0_25 f_0_75 f_1_5 f_0_75;
   mkAabb f_0_3125 f_0_0 f_0_0 f_0_6875 f_1_5 f_0_25;
   mkAabb f_0_3125 f_0_0 f_0_75 f_0_6875 f_1_5 f_1_0;
   mkAabb f_0_75 f_0_0 f_0_3125 f_1_0 f_1_5 f_0_6875;
   mkAabb f_0_0 f_0_0 f_0_3125 f_1_0 f_1_5 f_0_6875;
   mkAabb f_0_25 f_0_0 f_0_25 f_0_75 f_1_5 f_0_3125;
   mkAabb f_0_25 f_0_0 f_0_6875 f_0_75 f_1_5 f_0_75;
   mkAabb f_0_3125 f_0_0 f_0_0 f_0_6875 f_1_5 f_0_25;
   mkAabb f_0_3125 f_0_0 f_0_75 f_0_6875 f_1_5 f_1_0;
   mkAabb f_0_0 f_0_0 f_0_3125 f_1_0 f_1_5 f_0_6875;
   mkAabb f_0_25 f_0_0 f_0_25 f_0_75 f_1_5 f_0_3125;
   mkAabb f_0_25 f_0_0 f_0_6875 f_0_75 f_1_5 f_0_75;
   mkAabb f_0_3125 f_0_0 f_0_0 f_0_6875 f_1_5 f_0_25;
   mkAabb f_0_3125 f_0_0 f_0_75 f_0_6875 f_1_5 f_1_0;
   mkAabb f_0_3125 f_0_0 f_0_0 f_0_6875 f_1_5 f_1_0;
   mkAabb f_0_6875 f_0_0 f_0_3125 f_1_0 f_1_5 f_0_6875;
   mkAabb f_0_0 f_0_0 f_0_3125 f_1_0 f_1_5 f_0_6875;
   mkAabb f_0_3125 f_0_0 f_0_0 f_0_6875 f_1_5 f_0_3125;
   mkAabb f_0_3125 f_0_0 f_0_6875 f_0_6875 f_1_5 f_1_0;
   mkAabb f_0_0 f_0_0 f_0_3125 f_1_0 f_1_5 f_0_6875;
   mkAabb f_0_3125 f_0_0 f_0_0 f_0_6875 f_1_5 f_0_3125;
   mkAabb f_0_3125 f_0_0 f_0_6875 f_0_6875 f_1_5 f_1_0;
   mkAabb f_0_25 f_0_0 f_0_25 f_0_75 f_1_5 f_0_75;
   mkAabb f_0_3125 f_0_0 f_0_0 f_0_6875 f_1_5 f_0_25;
   mkAabb f_0_3125 f_0_0 f_0_75 f_0_6875 f_1_5 f_1_0;
   mkAabb f_0_75 f_0_0 f_0_3125 f_1_0 f_1_5 f_0_6875;
   mkAabb f_0_0 f_0_0 f_0_3125 f_1_0 f_1_5 f_0_6875;
   mkAabb f_0_25 f_0_0 f_0_25 f_0_75 f_1_5 f_0_3125;
   mkAabb f_0_25 f_0_0 f_0_6875 f_0_75 f_1_5 f_0_75;
   mkAabb f_0_3125 f_0_0 f_0_0 f_0_6875 f_1_5 f_0_25;
   mkAabb f_0_3125 f_0_0 f_0_75 f_0_6875 f_1_5 f_1_0;
   mkAabb f_0_0 f_0_0 f_0_3125 f_1_0 f_1_5 f_0_6875;
   mkAabb f_0_25 f_0_0 f_0_25 f_0_75 f_1_5 f_0_3125;
   mkAabb f_0_25 f_0_0 f_0_6875 f_0_75 f_1_5 f_0_75;
   mkAabb f_0_3125 f_0_0 f_0_0 f_0_6875 f_1_5 f_0_25;
   mkAabb f_0_3125 f_0_0 f_0_75 f_0_6875 f_1_5 f_1_0;
   mkAabb f_0_3125 f_0_0 f_0_0 f_0_6875 f_1_5 f_1_0;
   mkAabb f_0_6875 f_0_0 f_0_3125 f_1_0 f_1_5 f_0_6875;
   mkAabb f_0_0 f_0_0 f_0_3125 f_1_0 f_1_5 f_0_6875;
   mkAabb f_0_3125 f_0_0 f_0_0 f_0_6875 f_1_5 f_0_3125;
   mkAabb f_0_3125 f_0_0 f_0_6875 f_0_6875 f_1_5 f_1_0;
   mkAabb f_0_0 f_0_0 f_0_3125 f_1_0 f_1_5 f_0_6875;
   mkAabb f_0_3125 f_0_0 f_0_0 f_0_6875 f_1_5 f_0_3125;
   mkAabb f_0_3125 f_0_0 f_0_6875 f_0_6875 f_1_5 f_1_0;
   mkAabb f_0_25 f_0_0 f_0_25 f_0_75 f_1_5 f_0_75;
   mkAabb f_0_0 f_0_0 f_0_3125 f_0_75 f_1_5 f_0_6875;
   mkAabb f_0_25 f_0_0 f_0_25 f_0_75 f_1_5 f_0_3125;
   mkAabb f_0_25 f_0_0 f_0_6875 f_0_75 f_1_5 f_0_75;
   mkAabb f_0_0 f_0_0 f_0_3125 f_0_75 f_1_5 f_0_6875;
   mkAabb f_0_25 f_0_0 f_0_25 f_0_75 f_1_5 f_0_3125;
   mkAabb f_0_25 f_0_0 f_0_6875 f_0_75 f_1_5 f_0_75;
   mkAabb f_0_0 f_0_0 f_0_3125 f_0_6875 f_1_5 f_0_6875;
   mkAabb f_0_0 f_0_0 f_0_3125 f_0_6875 f_1_5 f_0_6875;
   mkAabb f_0_25 f_0_0 f_0_25 f_0_75 f_1_5 f_0_75;
   mkAabb f_0_3125 f_0_0 f_0_75 f_0_6875 f_1_5 f_1_0;
   mkAabb f_0_0 f_0_0 f_0_3125 f_0_75 f_1_5 f_0_6875;
   mkAabb f_0_25 f_0_0 f_0_25 f_0_75 f_1_5 f_0_3125;
   mkAabb f_0_25 f_0_0 f_0_6875 f_0_75 f_1_5 f_0_75;
   mkAabb f_0_3125 f_0_0 f_0_75 f_0_6875 f_1_5 f_1_0;
   mkAabb f_0_0 f_0_0 f_0_3125 f_0_75 f_1_5 f_0_6875;
   mkAabb f_0_25 f_0_0 f_0_25 f_0_75 f_1_5 f_0_3125;
   mkAabb f_0_25 f_0_0 f_0_6875 f_0_75 f_1_5 f_0_75;
   mkAabb f_0_3125 f_0_0 f_0_75 f_0_6875 f_1_5 f_1_0;
   mkAabb f_0_3125 f_0_0 f_0_3125 f_0_6875 f_1_5 f_1_0;
   mkAabb f_0_0 f_0_0 f_0_3125 f_0_6875 f_1_5 f_0_6875;
   mkAabb f_0_3125 f_0_0 f_0_6875 f_0_6875 f_1_5 f_1_0;
   mkAabb f_0_0 f_0_0 f_0_3125 f_0_6875 f_1_5 f_0_6875;
   mkAabb f_0_3125 f_0_0 f_0_6875 f_0_6875 f_1_5 f_1_0;
   mkAabb f_0_25 f_0_0 f_0_25 f_0_75 f_1_5 f_0_75;
   mkAabb f_0_3125 f_0_0 f_0_75 f_0_6875 f_1_5 f_1_0;
   mkAabb f_0_0 f_0_0 f_0_3125 f_0_75 f_1_5 f_0_6875;
   mkAabb f_0_25 f_0_0 f_0_25 f_0_75 f_1_5 f_0_3125;
   mkAabb f_0_25 f_0_0 f_0_6875 f_0_75 f_1_5 f_0_75;
   mkAabb f_0_3125 f_0_0 f_0_75 f_0_6875 f_1_5 f_1_0;
   mkAabb f_0_0 f_0_0 f_0_3125 f_0_75 f_1_5 f_0_6875;
   mkAabb f_0_25 f_0_0 f_0_25 f_0_75 f_1_5 f_0_3125;
   mkAabb f_0_25 f_0_0 f_0_6875 f_0_75 f_1_5 f_0_75;
   mkAabb f_0_3125 f_0_0 f_0_75 f_0_6875 f_1_5 f_1_0;
   mkAabb f_0_3125 f_0_0 f_0_3125 f_0_6875 f_1_5 f_1_0;
   mkAabb f_0_0 f_0_0 f_0_3125 f_0_6875 f_1_5 f_0_6875;
   mkAabb f_0_3125 f_0_0 f_0_6875 f_0_6875 f_1_5 f_1_0;
   mkAabb f_0_0 f_0_0 f_0_3125 f_0_6875 f_1_5 f_0_6875;
   mkAabb f_0_3125 f_0_0 f_0_6875 f_0_6875 f_1_5 f_1_0;
   mkAabb f_0_25 f_0_0 f_0_25 f_0_75 f_1_5 f_0_75;
   mkAabb f_0_3125 f_0_0 f_0_0 f_0_6875 f_1_5 f_0_25;
   mkAabb f_0_0 f_0_0 f_0_3125 f_0_75 f_1_5 f_0_6875;
   mkAabb f_0_25 f_0_0 f_0_25 f_0_75 f_1_5 f_0_3125;
   mkAabb f_0_25 f_0_0 f_0_6875 f_0_75 f_1_5 f_0_75;
   mkAabb f_0_3125 f_0_0 f_0_0 f_0_6875 f_1_5 f_0_25;
   mkAabb f_0_0 f_0_0 f_0_3125 f_0_75 f_1_5 f_0_6875;
   mkAabb f_0_25 f_0_0 f_0_25 f_0_75 f_1_5 f_0_3125;
   mkAabb f_0_25 f_0_0 f_0_6875 f_0_75 f_1_5 f_0_75;
   mkAabb f_0_3125 f_0_0 f_0_0 f_0_6875 f_1_5 f_0_25;
   mkAabb f_0_3125 f_0_0 f_0_0 f_0_6875 f_1_5 f_0_6875;
   mkAabb f_0_0 f_0_0 f_0_3125 f_0_6875 f_1_5 f_0_6875;
   mkAabb f_0_3125 f_0_0 f_0_0 f_0_6875 f_1_5 f_0_3125;
   mkAabb f_0_0 f_0_0 f_0_3125 f_0_6875 f_1_5 f_0_6875;
   mkAabb f_0_3125 f_0_0 f_0_0 f_0_6875 f_1_5 f_0_3125;
   mkAabb f_0_25 f_0_0 f_0_25 f_0_75 f_1_5 f_0_75;
   mkAabb f_0_3125 f_0_0 f_0_0 f_0_6875 f_1_5 f_0_25;
   mkAabb f_0_3125 f_0_0 f_0_75 f_0_6875 f_1_5 f_1_0;
   mkAabb f_0_0 f_0_0 f_0_3125 f_0_75 f_1_5 f_0_6875;
   mkAabb f_0_25 f_0_0 f_0_25 f_0_75 f_1_5 f_0_3125;
   mkAabb f_0_25 f_0_0 f_0_6875 f_0_75 f_1_5 f_0_75;
   mkAabb f_0_3125 f_0_0 f_0_0 f_0_6875 f_1_5 f_0_25;
   mkAabb f_0_3125 f_0_0 f_0_75 f_0_6875 f_1_5 f_1_0;
   mkAabb f_0_0 f_0_0 f_0_3125 f_0_75 f_1_5 f_0_6875;
   mkAabb f_0_25 f_0_0 f_0_25 f_0_75 f_1_5 f_0_3125;
   mkAabb f_0_25 f_0_0 f_0_6875 f_0_75 f_1_5 f_0_75;
   mkAabb f_0_3125 f_0_0 f_0_0 f_0_6875 f_1_5 f_0_25;
   mkAabb f_0_3125 f_0_0 f_0_75 f_0_6875 f_1_5 f_1_0;
   mkAabb f_0_3125 f_0_0 f_0_0 f_0_6875 f_1_5 f_1_0;
   mkAabb f_0_0 f_0_0 f_0_3125 f_0_6875 f_1_5 f_0_6875].
Definition SHAPE_BOXES_41 : list Aabb :=
  [mkAabb f_0_3125 f_0_0 f_0_0 f_0_6875 f_1_5 f_0_3125;
   mkAabb f_0_3125 f_0_0 f_0_6875 f_0_6875 f_1_5 f_1_0;
   mkAabb f_0_0 f_0_0 f_0_3125 f_0_6875 f_1_5 f_0_6875;
   mkAabb f_0_3125 f_0_0 f_0_0 f_0_6875 f_1_5 f_0_3125;
   mkAabb f_0_3125 f_0_0 f_0_6875 f_0_6875 f_1_5 f_1_0;
   mkAabb f_0_25 f_0_0 f_0_25 f_0_75 f_1_5 f_0_75;
   mkAabb f_0_3125 f_0_0 f_0_0 f_0_6875 f_1_5 f_0_25;
   mkAabb f_0_3125 f_0_0 f_0_75 f_0_6875 f_1_5 f_1_0;
   mkAabb f_0_0 f_0_0 f_0_3125 f_0_75 f_1_5 f_0_6875;
   mkAabb f_0_25 f_0_0 f_0_25 f_0_75 f_1_5 f_0_3125;
   mkAabb f_0_25 f_0_0 f_0_6875 f_0_75 f_1_5 f_0_75;
   mkAabb f_0_3125 f_0_0 f_0_0 f_0_6875 f_1_5 f_0_25;
   mkAabb f_0_3125 f_0_0 f_0_75 f_0_6875 f_1_5 f_1_0;
   mkAabb f_0_0 f_0_0 f_0_3125 f_0_75 f_1_5 f_0_6875;
   mkAabb f_0_25 f_0_0 f_0_25 f_0_75 f_1_5 f_0_3125;
   mkAabb f_0_25 f_0_0 f_0_6875 f_0_75 f_1_5 f_0_75;
   mkAabb f_0_3125 f_0_0 f_0_0 f_0_6875 f_1_5 f_0_25;
   mkAabb f_0_3125 f_0_0 f_0_75 f_0_6875 f_1_5 f_1_0;
   mkAabb f_0_3125 f_0_0 f_0_0 f_0_6875 f_1_5 f_1_0;
   mkAabb f_0_0 f_0_0 f_0_3125 f_0_6875 f_1_5 f_0_6875;
   mkAabb f_0_3125 f_0_0 f_0_0 f_0_6875 f_1_5 f_0_3125;
   mkAabb f_0_3125 f_0_0 f_0_6875 f_0_6875 f_1_5 f_1_0;
   mkAabb f_0_0 f_0_0 f_0_3125 f_0_6875 f_1_5 f_0_6875;
   mkAabb f_0_3125 f_0_0 f_0_0 f_0_6875 f_1_5 f_0_3125;
   mkAabb f_0_3125 f_0_0 f_0_6875 f_0_6875 f_1_5 f_1_0;
   mkAabb f_0_25 f_0_0 f_0_25 f_0_75 f_1_5 f_0_75;
   mkAabb f_0_3125 f_0_0 f_0_0 f_0_6875 f_1_5 f_0_25;
   mkAabb f_0_0 f_0_0 f_0_3125 f_0_75 f_1_5 f_0_6875;
   mkAabb f_0_25 f_0_0 f_0_25 f_0_75 f_1_5 f_0_3125;
   mkAabb f_0_25 f_0_0 f_0_6875 f_0_75 f_1_5 f_0_75;
   mkAabb f_0_3125 f_0_0 f_0_0 f_0_6875 f_1_5 f_0_25;
   mkAabb f_0_0 f_0_0 f_0_3125 f_0_75 f_1_5 f_0_6875;
   mkAabb f_0_25 f_0_0 f_0_25 f_0_75 f_1_5 f_0_3125;
   mkAabb f_0_25 f_0_0 f_0_6875 f_0_75 f_1_5 f_0_75;
   mkAabb f_0_3125 f_0_0 f_0_0 f_0_6875 f_1_5 f_0_25;
   mkAabb f_0_3125 f_0_0 f_0_0 f_0_6875 f_1_5 f_0_6875;
   mkAabb f_0_0 f_0_0 f_0_3125 f_0_6875 f_1_5 f_0_6875;
   mkAabb f_0_3125 f_0_0 f_0_0 f_0_6875 f_1_5 f_0_3125;
   mkAabb f_0_0 f_0_0 f_0_3125 f_0_6875 f_1_5 f_0_6875;
   mkAabb f_0_3125 f_0_0 f_0_0 f_0_6875 f_1_5 f_0_3125;
   mkAabb f_0_25 f_0_0 f_0_25 f_0_75 f_1_5 f_0_75;
   mkAabb f_0_3125 f_0_0 f_0_0 f_0_6875 f_1_5 f_0_25;
   mkAabb f_0_3125 f_0_0 f_0_75 f_0_6875 f_1_5 f_1_0;
   mkAabb f_0_0 f_0_0 f_0_3125 f_0_75 f_1_5 f_0_6875;
   mkAabb f_0_25 f_0_0 f_0_25 f_0_75 f_1_5 f_0_3125;
   mkAabb f_0_25 f_0_0 f_0_6875 f_0_75 f_1_5 f_0_75;
   mkAabb f_0_3125 f_0_0 f_0_0 f_0_6875 f_1_5 f_0_25;
   mkAabb f_0_3125 f_0_0 f_0_75 f_0_6875 f_1_5 f_1_0;
   mkAabb f_0_0 f_0_0 f_0_3125 f_0_75 f_1_5 f_0_6875;
   mkAabb f_0_25 f_0_0 f_0_25 f_0_75 f_1_5 f_0_3125;
   mkAabb f_0_25 f_0_0 f_0_6875 f_0_75 f_1_5 f_0_75;
   mkAabb f_0_3125 f_0_0 f_0_0 f_0_6875 f_1_5 f_0_25;
   mkAabb f_0_3125 f_0_0 f_0_75 f_0_6875 f_1_5 f_1_0;
   mkAabb f_0_3125 f_0_0 f_0_0 f_0_6875 f_1_5 f_1_0;
   mkAabb f_0_0 f_0_0 f_0_3125 f_0_6875 f_1_5 f_0_6875;
   mkAabb f_0_3125 f_0_0 f_0_0 f_0_6875 f_1_5 f_0_3125;
   mkAabb f_0_3125 f_0_0 f_0_6875 f_0_6875 f_1_5 f_1_0;
   mkAabb f_0_0 f_0_0 f_0_3125 f_0_6875 f_1_5 f_0_6875;
   mkAabb f_0_3125 f_0_0 f_0_0 f_0_6875 f_1_5 f_0_3125;
   mkAabb f_0_3125 f_0_0 f_0_6875 f_0_6875 f_1_5 f_1_0;
   mkAabb f_0_25 f_0_0 f_0_25 f_0_75 f_1_5 f_0_75;
   mkAabb f_0_3125 f_0_0 f_0_0 f_0_6875 f_1_5 f_0_25;
   mkAabb f_0_3125 f_0_0 f_0_75 f_0_6875 f_1_5 f_1_0;
   mkAabb f_0_0 f_0_0 f_0_3125 f_0_75 f_1_5 f_0_6875;
   mkAabb f_0_25 f_0_0 f_0_25 f_0_75 f_1_5 f_0_3125;
   mkAabb f_0_25 f_0_0 f_0_6875 f_0_75 f_1_5 f_0_75;
   mkAabb f_0_3125 f_0_0 f_0_0 f_0_6875 f_1_5 f_0_25;
   mkAabb f_0_3125 f_0_0 f_0_75 f_0_6875 f_1_5 f_1_0;
   mkAabb f_0_0 f_0_0 f_0_3125 f_0_75 f_1_5 f_0_6875;
   mkAabb f_0_25 f_0_0 f_0_25 f_0_75 f_1_5 f_0_3125;
   mkAabb f_0_25 f_0_0 f_0_6875 f_0_75 f_1_5 f_0_75;
   mkAabb f_0_3125 f_0_0 f_0_0 f_0_6875 f_1_5 f_0_25;
   mkAabb f_0_3125 f_0_0 f_0_75 f_0_6875 f_1_5 f_1_0;
   mkAabb f_0_3125 f_0_0 f_0_0 f_0_6875 f_1_5 f_1_0;
   mkAabb f_0_0 f_0_0 f_0_3125 f_0_6875 f_1_5 f_0_6875;
   mkAabb f_0_3125 f_0_0 f_0_0 f_0_6875 f_1_5 f_0_3125;
   mkAabb f_0_3125 f_0_0 f_0_6875 f_0_6875 f_1_5 f_1_0;
   mkAabb f_0_0 f_0_0 f_0_3125 f_0_6875 f_1_5 f_0_6875;
   mkAabb f_0_3125 f_0_0 f_0_0 f_0_6875 f_1_5 f_0_3125;
   mkAabb f_0_3125 f_0_0 f_0_6875 f_0_6875 f_1_5 f_1_0;
   mkAabb f_0_25 f_0_0 f_0_25 f_0_75 f_1_5 f_0_75;
   mkAabb f_0_75 f_0_0 f_0_3125 f_1_0 f_1_5 f_0_6875;
   mkAabb f_0_0 f_0_0 f_0_3125 f_1_0 f_1_5 f_0_6875;
   mkAabb f_0_25 f_0_0 f_0_25 f_0_75 f_1_5 f_0_3125;
   mkAabb f_0_25 f_0_0 f_0_6875 f_0_75 f_1_5 f_0_75;
   mkAabb f_0_0 f_0_0 f_0_3125 f_1_0 f_1_5 f_0_6875;
   mkAabb f_0_25 f_0_0 f_0_25 f_0_75 f_1_5 f_0_3125;
   mkAabb f_0_25 f_0_0 f_0_6875 f_0_75 f_1_5 f_0_75;
   mkAabb f_0_3125 f_0_0 f_0_3125 f_1_0 f_1_5 f_0_6875;
   mkAabb f_0_0 f_0_0 f_0_3125 f_1_0 f_1_5 f_0_6875;
   mkAabb f_0_0 f_0_0 f_0_3125 f_1_0 f_1_5 f_0_6875;
   mkAabb f_0_25 f_0_0 f_0_25 f_0_75 f_1_5 f_0_75;
   mkAabb f_0_3125 f_0_0 f_0_75 f_0_6875 f_1_5 f_1_0;
   mkAabb f_0_75 f_0_0 f_0_3125 f_1_0 f_1_5 f_0_6875;
   mkAabb f_0_0 f_0_0 f_0_3125 f_1_0 f_1_5 f_0_6875;
   mkAabb f_0_25 f_0_0 f_0_25 f_0_75 f_1_5 f_0_3125;
   mkAabb f_0_25 f_0_0 f_0_6875 f_0_75 f_1_5 f_0_75;
   mkAabb f_0_3125 f_0_0 f_0_75 f_0_6875 f_1_5 f_1_0;
   mkAabb f_0_0 f_0_0 f_0_3125 f_1_0 f_1_5 f_0_6875;
   mkAabb f_0_25 f_0_0 f_0_25 f_0_75 f_1_5 f_0_3125;
   mkAabb f_0_25 f_0_0 f_0_6875 f_0_75 f_1_5 f_0_75;
   mkAabb f_0_3125 f_0_0 f_0_75 f_0_6875 f_1_5 f_1_0;
   mkAabb f_0_3125 f_0_0 f_0_3125 f_0_6875 f_1_5 f_1_0;
   mkAabb f_0_6875 f_0_0 f_0_3125 f_1_0 f_1_5 f_0_6875;
   mkAabb f_0_0 f_0_0 f_0_3125 f_1_0 f_1_5 f_0_6875;
   mkAabb f_0_3125 f_0_0 f_0_6875 f_0_6875 f_1_5 f_1_0;
   mkAabb f_0_0 f_0_0 f_0_3125 f_1_0 f_1_5 f_0_6875;
   mkAabb f_0_3125 f_0_0 f_0_6875 f_0_6875 f_1_5 f_1_0;
   mkAabb f_0_25 f_0_0 f_0_25 f_0_75 f_1_5 f_0_75;
   mkAabb f_0_3125 f_0_0 f_0_75 f_0_6875 f_1_5 f_1_0;
   mkAabb f_0_75 f_0_0 f_0_3125 f_1_0 f_1_5 f_0_6875;
   mkAabb f_0_0 f_0_0 f_0_3125 f_1_0 f_1_5 f_0_6875;
   mkAabb f_0_25 f_0_0 f_0_25 f_0_75 f_1_5 f_0_3125;
   mkAabb f_0_25 f_0_0 f_0_6875 f_0_75 f_1_5 f_0_75;
   mkAabb f_0_3125 f_0_0 f_0_75 f_0_6875 f_1_5 f_1_0;
   mkAabb f_0_0 f_0_0 f_0_3125 f_1_0 f_1_5 f_0_6875;
   mkAabb f_0_25 f_0_0 f_0_25 f_0_75 f_1_5 f_0_3125;
   mkAabb f_0_25 f_0_0 f_0_6875 f_0_75 f_1_5 f_0_75;
   mkAabb f_0_3125 f_0_0 f_0_75 f_0_6875 f_1_5 f_1_0;
   mkAabb f_0_3125 f_0_0 f_0_3125 f_0_6875 f_1_5 f_1_0;
   mkAabb f_0_6875 f_0_0 f_0_3125 f_1_0 f_1_5 f_0_6875;
   mkAabb f_0_0 f_0_0 f_0_3125 f_1_0 f_1_5 f_0_6875;
   mkAabb f_0_3125 f_0_0 f_0_6875 f_0_6875 f_1_5 f_1_0;
   mkAabb f_0_0 f_0_0 f_0_3125 f_1_0 f_1_5 f_0_6875;
   mkAabb f_0_3125 f_0_0 f_0_6875 f_0_6875 f_1_5 f_1_0;
   mkAabb f_0_25 f_0_0 f_0_25 f_0_75 f_1_5 f_0_75;
   mkAabb f_0_3125 f_0_0 f_0_0 f_0_6875 f_1_5 f_0_25;
   mkAabb f_0_75 f_0_0 f_0_3125 f_1_0 f_1_5 f_0_6875;
   mkAabb f_0_0 f_0_0 f_0_3125 f_1_0 f_1_5 f_0_6875;
   mkAabb f_0_25 f_0_0 f_0_25 f_0_75 f_1_5 f_0_3125;
   mkAabb f_0_25 f_0_0 f_0_6875 f_0_75 f_1_5 f_0_75;
   mkAabb f_0_3125 f_0_0 f_0_0 f_0_6875 f_1_5 f_0_25;
   mkAabb f_0_0 f_0_0 f_0_3125 f_1_0 f_1_5 f_0_6875;
   mkAabb f_0_25 f_0_0 f_0_25 f_0_75 f_1_5 f_0_3125;
   mkAabb f_0_25 f_0_0 f_0_6875 f_0_75 f_1_5 f_0_75;
   mkAabb f_0_3125 f_0_0 f_0_0 f_0_6875 f_1_5 f_0_25;
   mkAabb f_0_3125 f_0_0 f_0_0 f_0_6875 f_1_5 f_0_6875;
   mkAabb f_0_6875 f_0_0 f_0_3125 f_1_0 f_1_5 f_0_6875;
   mkAabb f_0_0 f_0_0 f_0_3125 f_1_0 f_1_5 f_0_6875;
   mkAabb f_0_3125 f_0_0 f_0_0 f_0_6875 f_1_5 f_0_3125;
   mkAabb f_0_0 f_0_0 f_0_3125 f_1_0 f_1_5 f_0_6875;
   mkAabb f_0_3125 f_0_0 f_0_0 f_0_6875 f_1_5 f_0_3125;
   mkAabb f_0_25 f_0_0 f_0_25 f_0_75 f_1_5 f_0_75;
   mkAabb f_0_3125 f_0_0 f_0_0 f_0_6875 f_1_5 f_0_25;
   mkAabb f_0_3125 f_0_0 f_0_75 f_0_6875 f_1_5 f_1_0;
   mkAabb f_0_75 f_0_0 f_0_3125 f_1_0 f_1_5 f_0_6875;
   mkAabb f_0_0 f_0_0 f_0_3125 f_1_0 f_1_5 f_0_6875;
   mkAabb f_0_25 f_0_0 f_0_25 f_0_75 f_1_5 f_0_3125;
   mkAabb f_0_25 f_0_0 f_0_6875 f_0_75 f_1_5 f_0_75;
   mkAabb f_0_3125 f_0_0 f_0_0 f_0_6875 f_1_5 f_0_25].
Definition SHAPE_BOXES_42 : list Aabb :=
  [mkAabb f_0_3125 f_0_0 f_0_75 f_0_6875 f_1_5 f_1_0;
   mkAabb f_0_0 f_0_0 f_0_3125 f_1_0 f_1_5 f_0_6875;
   mkAabb f_0_25 f_0_0 f_0_25 f_0_75 f_1_5 f_0_3125;
   mkAabb f_0_25 f_0_0 f_0_6875 f_0_75 f_1_5 f_0_75;
   mkAabb f_0_3125 f_0_0 f_0_0 f_0_6875 f_1_5 f_0_25;
   mkAabb f_0_3125 f_0_0 f_0_75 f_0_6875 f_1_5 f_1_0;
   mkAabb f_0_3125 f_0_0 f_0_0 f_0_6875 f_1_5 f_1_0;
   mkAabb f_0_6875 f_0_0 f_0_3125 f_1_0 f_1_5 f_0_6875;
   mkAabb f_0_0 f_0_0 f_0_3125 f_1_0 f_1_5 f_0_6875;
   mkAabb f_0_3125 f_0_0 f_0_0 f_0_6875 f_1_5 f_0_3125;
   mkAabb f_0_3125 f_0_0 f_0_6875 f_0_6875 f_1_5 f_1_0;
   mkAabb f_0_0 f_0_0 f_0_3125 f_1_0 f_1_5 f_0_6875;
   mkAabb f_0_3125 f_0_0 f_0_0 f_0_6875 f_1_5 f_0_3125;
   mkAabb f_0_3125 f_0_0 f_0_6875 f_0_6875 f_1_5 f_1_0;
   mkAabb f_0_25 f_0_0 f_0_25 f_0_75 f_1_5 f_0_75;
   mkAabb f_0_3125 f_0_0 f_0_0 f_0_6875 f_1_5 f_0_25;
   mkAabb f_0_3125 f_0_0 f_0_75 f_0_6875 f_1_5 f_1_0;
   mkAabb f_0_75 f_0_0 f_0_3125 f_1_0 f_1_5 f_0_6875;
   mkAabb f_0_0 f_0_0 f_0_3125 f_1_0 f_1_5 f_0_6875;
   mkAabb f_0_25 f_0_0 f_0_25 f_0_75 f_1_5 f_0_3125;
   mkAabb f_0_25 f_0_0 f_0_6875 f_0_75 f_1_5 f_0_75;
   mkAabb f_0_3125 f_0_0 f_0_0 f_0_6875 f_1_5 f_0_25;
   mkAabb f_0_3125 f_0_0 f_0_75 f_0_6875 f_1_5 f_1_0;
   mkAabb f_0_0 f_0_0 f_0_3125 f_1_0 f_1_5 f_0_6875;
   mkAabb f_0_25 f_0_0 f_0_25 f_0_75 f_1_5 f_0_3125;
   mkAabb f_0_25 f_0_0 f_0_6875 f_0_75 f_1_5 f_0_75;
   mkAabb f_0_3125 f_0_0 f_0_0 f_0_6875 f_1_5 f_0_25;
   mkAabb f_0_3125 f_0_0 f_0_75 f_0_6875 f_1_5 f_1_0;
   mkAabb f_0_3125 f_0_0 f_0_0 f_0_6875 f_1_5 f_1_0;
   mkAabb f_0_6875 f_0_0 f_0_3125 f_1_0 f_1_5 f_0_6875;
   mkAabb f_0_0 f_0_0 f_0_3125 f_1_0 f_1_5 f_0_6875;
   mkAabb f_0_3125 f_0_0 f_0_0 f_0_6875 f_1_5 f_0_3125;
   mkAabb f_0_3125 f_0_0 f_0_6875 f_0_6875 f_1_5 f_1_0;
   mkAabb f_0_0 f_0_0 f_0_3125 f_1_0 f_1_5 f_0_6875;
   mkAabb f_0_3125 f_0_0 f_0_0 f_0_6875 f_1_5 f_0_3125;
   mkAabb f_0_3125 f_0_0 f_0_6875 f_0_6875 f_1_5 f_1_0;
   mkAabb f_0_25 f_0_0 f_0_25 f_0_75 f_1_5 f_0_75;
   mkAabb f_0_3125 f_0_0 f_0_0 f_0_6875 f_1_5 f_0_25;
   mkAabb f_0_75 f_0_0 f_0_3125 f_1_0 f_1_5 f_0_6875;
   mkAabb f_0_0 f_0_0 f_0_3125 f_1_0 f_1_5 f_0_6875;
   mkAabb f_0_25 f_0_0 f_0_25 f_0_75 f_1_5 f_0_3125;
   mkAabb f_0_25 f_0_0 f_0_6875 f_0_75 f_1_5 f_0_75;
   mkAabb f_0_3125 f_0_0 f_0_0 f_0_6875 f_1_5 f_0_25;
   mkAabb f_0_0 f_0_0 f_0_3125 f_1_0 f_1_5 f_0_6875;
   mkAabb f_0_25 f_0_0 f_0_25 f_0_75 f_1_5 f_0_3125;
   mkAabb f_0_25 f_0_0 f_0_6875 f_0_75 f_1_5 f_0_75;
   mkAabb f_0_3125 f_0_0 f_0_0 f_0_6875 f_1_5 f_0_25;
   mkAabb f_0_3125 f_0_0 f_0_0 f_0_6875 f_1_5 f_0_6875;
   mkAabb f_0_6875 f_0_0 f_0_3125 f_1_0 f_1_5 f_0_6875;
   mkAabb f_0_0 f_0_0 f_0_3125 f_1_0 f_1_5 f_0_6875;
   mkAabb f_0_3125 f_0_0 f_0_0 f_0_6875 f_1_5 f_0_3125;
   mkAabb f_0_0 f_0_0 f_0_3125 f_1_0 f_1_5 f_0_6875;
   mkAabb f_0_3125 f_0_0 f_0_0 f_0_6875 f_1_5 f_0_3125;
   mkAabb f_0_25 f_0_0 f_0_25 f_0_75 f_1_5 f_0_75;
   mkAabb f_0_3125 f_0_0 f_0_0 f_0_6875 f_1_5 f_0_25;
   mkAabb f_0_3125 f_0_0 f_0_75 f_0_6875 f_1_5 f_1_0;
   mkAabb f_0_75 f_0_0 f_0_3125 f_1_0 f_1_5 f_0_6875;
   mkAabb f_0_0 f_0_0 f_0_3125 f_1_0 f_1_5 f_0_6875;
   mkAabb f_0_25 f_0_0 f_0_25 f_0_75 f_1_5 f_0_3125;
   mkAabb f_0_25 f_0_0 f_0_6875 f_0_75 f_1_5 f_0_75;
   mkAabb f_0_3125 f_0_0 f_0_0 f_0_6875 f_1_5 f_0_25;
   mkAabb f_0_3125 f_0_0 f_0_75 f_0_6875 f_1_5 f_1_0;
   mkAabb f_0_0 f_0_0 f_0_3125 f_1_0 f_1_5 f_0_6875;
   mkAabb f_0_25 f_0_0 f_0_25 f_0_75 f_1_5 f_0_3125;
   mkAabb f_0_25 f_0_0 f_0_6875 f_0_75 f_1_5 f_0_75;
   mkAabb f_0_3125 f_0_0 f_0_0 f_0_6875 f_1_5 f_0_25;
   mkAabb f_0_3125 f_0_0 f_0_75 f_0_6875 f_1_5 f_1_0;
   mkAabb f_0_3125 f_0_0 f_0_0 f_0_6875 f_1_5 f_1_0;
   mkAabb f_0_6875 f_0_0 f_0_3125 f_1_0 f_1_5 f_0_6875;
   mkAabb f_0_0 f_0_0 f_0_3125 f_1_0 f_1_5 f_0_6875;
   mkAabb f_0_3125 f_0_0 f_0_0 f_0_6875 f_1_5 f_0_3125;
   mkAabb f_0_3125 f_0_0 f_0_6875 f_0_6875 f_1_5 f_1_0;
   mkAabb f_0_0 f_0_0 f_0_3125 f_1_0 f_1_5 f_0_6875;
   mkAabb f_0_3125 f_0_0 f_0_0 f_0_6875 f_1_5 f_0_3125;
   mkAabb f_0_3125 f_0_0 f_0_6875 f_0_6875 f_1_5 f_1_0;
   mkAabb f_0_25 f_0_0 f_0_25 f_0_75 f_1_5 f_0_75;
   mkAabb f_0_3125 f_0_0 f_0_0 f_0_6875 f_1_5 f_0_25;
   mkAabb f_0_3125 f_0_0 f_0_75 f_0_6875 f_1_5 f_1_0;
   mkAabb f_0_75 f_0_0 f_0_3125 f_1_0 f_1_5 f_0_6875;
   mkAabb f_0_0 f_0_0 f_0_3125 f_1_0 f_1_5 f_0_6875;
   mkAabb f_0_25 f_0_0 f_0_25 f_0_75 f_1_5 f_0_3125;
   mkAabb f_0_25 f_0_0 f_0_6875 f_0_75 f_1_5 f_0_75;
   mkAabb f_0_3125 f_0_0 f_0_0 f_0_6875 f_1_5 f_0_25;
   mkAabb f_0_3125 f_0_0 f_0_75 f_0_6875 f_1_5 f_1_0;
   mkAabb f_0_0 f_0_0 f_0_3125 f_1_0 f_1_5 f_0_6875;
   mkAabb f_0_25 f_0_0 f_0_25 f_0_75 f_1_5 f_0_3125;
   mkAabb f_0_25 f_0_0 f_0_6875 f_0_75 f_1_5 f_0_75;
   mkAabb f_0_3125 f_0_0 f_0_0 f_0_6875 f_1_5 f_0_25;
   mkAabb f_0_3125 f_0_0 f_0_75 f_0_6875 f_1_5 f_1_0;
   mkAabb f_0_3125 f_0_0 f_0_0 f_0_6875 f_1_5 f_1_0;
   mkAabb f_0_6875 f_0_0 f_0_3125 f_1_0 f_1_5 f_0_6875;
   mkAabb f_0_0 f_0_0 f_0_3125 f_1_0 f_1_5 f_0_6875;
   mkAabb f_0_3125 f_0_0 f_0_0 f_0_6875 f_1_5 f_0_3125;
   mkAabb f_0_3125 f_0_0 f_0_6875 f_0_6875 f_1_5 f_1_0;
   mkAabb f_0_0 f_0_0 f_0_3125 f_1_0 f_1_5 f_0_6875;
   mkAabb f_0_3125 f_0_0 f_0_0 f_0_6875 f_1_5 f_0_3125;
   mkAabb f_0_3125 f_0_0 f_0_6875 f_0_6875 f_1_5 f_1_0;
   mkAabb f_0_25 f_0_0 f_0_25 f_0_75 f_1_5 f_0_75;
   mkAabb f_0_75 f_0_0 f_0_3125 f_1_0 f_1_5 f_0_6875;
   mkAabb f_0_0 f_0_0 f_0_3125 f_1_0 f_1_5 f_0_6875;
   mkAabb f_0_25 f_0_0 f_0_25 f_0_75 f_1_5 f_0_3125;
   mkAabb f_0_25 f_0_0 f_0_6875 f_0_75 f_1_5 f_0_75;
   mkAabb f_0_0 f_0_0 f_0_3125 f_1_0 f_1_5 f_0_6875;
   mkAabb f_0_25 f_0_0 f_0_25 f_0_75 f_1_5 f_0_3125;
   mkAabb f_0_25 f_0_0 f_0_6875 f_0_75 f_1_5 f_0_75;
   mkAabb f_0_3125 f_0_0 f_0_3125 f_1_0 f_1_5 f_0_6875;
   mkAabb f_0_0 f_0_0 f_0_3125 f_1_0 f_1_5 f_0_6875;
   mkAabb f_0_0 f_0_0 f_0_3125 f_1_0 f_1_5 f_0_6875;
   mkAabb f_0_25 f_0_0 f_0_25 f_0_75 f_1_5 f_0_75;
   mkAabb f_0_3125 f_0_0 f_0_75 f_0_6875 f_1_5 f_1_0;
   mkAabb f_0_75 f_0_0 f_0_3125 f_1_0 f_1_5 f_0_6875;
   mkAabb f_0_0 f_0_0 f_0_3125 f_1_0 f_1_5 f_0_6875;
   mkAabb f_0_25 f_0_0 f_0_25 f_0_75 f_1_5 f_0_3125;
   mkAabb f_0_25 f_0_0 f_0_6875 f_0_75 f_1_5 f_0_75;
   mkAabb f_0_3125 f_0_0 f_0_75 f_0_6875 f_1_5 f_1_0;
   mkAabb f_0_0 f_0_0 f_0_3125 f_1_0 f_1_5 f_0_6875;
   mkAabb f_0_25 f_0_0 f_0_25 f_0_75 f_1_5 f_0_3125;
   mkAabb f_0_25 f_0_0 f_0_6875 f_0_75 f_1_5 f_0_75;
   mkAabb f_0_3125 f_0_0 f_0_75 f_0_6875 f_1_5 f_1_0;
   mkAabb f_0_3125 f_0_0 f_0_3125 f_0_6875 f_1_5 f_1_0;
   mkAabb f_0_6875 f_0_0 f_0_3125 f_1_0 f_1_5 f_0_6875;
   mkAabb f_0_0 f_0_0 f_0_3125 f_1_0 f_1_5 f_0_6875;
   mkAabb f_0_3125 f_0_0 f_0_6875 f_0_6875 f_1_5 f_1_0;
   mkAabb f_0_0 f_0_0 f_0_3125 f_1_0 f_1_5 f_0_6875;
   mkAabb f_0_3125 f_0_0 f_0_6875 f_0_6875 f_1_5 f_1_0;
   mkAabb f_0_25 f_0_0 f_0_25 f_0_75 f_1_5 f_0_75;
   mkAabb f_0_3125 f_0_0 f_0_75 f_0_6875 f_1_5 f_1_0;
   mkAabb f_0_75 f_0_0 f_0_3125 f_1_0 f_1_5 f_0_6875;
   mkAabb f_0_0 f_0_0 f_0_3125 f_1_0 f_1_5 f_0_6875;
   mkAabb f_0_25 f_0_0 f_0_25 f_0_75 f_1_5 f_0_3125;
   mkAabb f_0_25 f_0_0 f_0_6875 f_0_75 f_1_5 f_0_75;
   mkAabb f_0_3125 f_0_0 f_0_75 f_0_6875 f_1_5 f_1_0;
   mkAabb f_0_0 f_0_0 f_0_3125 f_1_0 f_1_5 f_0_6875;
   mkAabb f_0_25 f_0_0 f_0_25 f_0_75 f_1_5 f_0_3125;
   mkAabb f_0_25 f_0_0 f_0_6875 f_0_75 f_1_5 f_0_75;
   mkAabb f_0_3125 f_0_0 f_0_75 f_0_6875 f_1_5 f_1_0;
   mkAabb f_0_3125 f_0_0 f_0_3125 f_0_6875 f_1_5 f_1_0;
   mkAabb f_0_6875 f_0_0 f_0_3125 f_1_0 f_1_5 f_0_6875;
   mkAabb f_0_0 f_0_0 f_0_3125 f_1_0 f_1_5 f_0_6875;
   mkAabb f_0_3125 f_0_0 f_0_6875 f_0_6875 f_1_5 f_1_0;
   mkAabb f_0_0 f_0_0 f_0_3125 f_1_0 f_1_5 f_0_6875;
   mkAabb f_0_3125 f_0_0 f_0_6875 f_0_6875 f_1_5 f_1_0;
   mkAabb f_0_25 f_0_0 f_0_25 f_0_75 f_1_5 f_0_75;
   mkAabb f_0_3125 f_0_0 f_0_0 f_0_6875 f_1_5 f_0_25;
   mkAabb f_0_75 f_0_0 f_0_3125 f_1_0 f_1_5 f_0_6875;
   mkAabb f_0_0 f_0_0 f_0_3125 f_1_0 f_1_5 f_0_6875;
   mkAabb f_0_25 f_0_0 f_0_25 f_0_75 f_1_5 f_0_3125;
   mkAabb f_0_25 f_0_0 f_0_6875 f_0_75 f_1_5 f_0_75;
   mkAabb f_0_3125 f_0_0 f_0_0 f_0_6875 f_1_5 f_0_25;
   mkAabb f_0_0 f_0_0 f_0_3125 f_1_0 f_1_5 f_0_6875].
Definition SHAPE_BOXES_43 : list Aabb :=
  [mkAabb f_0_25 f_0_0 f_0_25 f_0_75 f_1_5 f_0_3125;
   mkAabb f_0_25 f_0_0 f_0_6875 f_0_75 f_1_5 f_0_75;
   mkAabb f_0_3125 f_0_0 f_0_0 f_0_6875 f_1_5 f_0_25;
   mkAabb f_0_3125 f_0_0 f_0_0 f_0_6875 f_1_5 f_0_6875;
   mkAabb f_0_6875 f_0_0 f_0_3125 f_1_0 f_1_5 f_0_6875;
   mkAabb f_0_0 f_0_0 f_0_3125 f_1_0 f_1_5 f_0_6875;
   mkAabb f_0_3125 f_0_0 f_0_0 f_0_6875 f_1_5 f_0_3125;
   mkAabb f_0_0 f_0_0 f_0_3125 f_1_0 f_1_5 f_0_6875;
   mkAabb f_0_3125 f_0_0 f_0_0 f_0_6875 f_1_5 f_0_3125;
   mkAabb f_0_25 f_0_0 f_0_25 f_0_75 f_1_5 f_0_75;
   mkAabb f_0_3125 f_0_0 f_0_0 f_0_6875 f_1_5 f_0_25;
   mkAabb f_0_3125 f_0_0 f_0_75 f_0_6875 f_1_5 f_1_0;
   mkAabb f_0_75 f_0_0 f_0_3125 f_1_0 f_1_5 f_0_6875;
   mkAabb f_0_0 f_0_0 f_0_3125 f_1_0 f_1_5 f_0_6875;
   mkAabb f_0_25 f_0_0 f_0_25 f_0_75 f_1_5 f_0_3125;
   mkAabb f_0_25 f_0_0 f_0_6875 f_0_75 f_1_5 f_0_75;
   mkAabb f_0_3125 f_0_0 f_0_0 f_0_6875 f_1_5 f_0_25;
   mkAabb f_0_3125 f_0_0 f_0_75 f_0_6875 f_1_5 f_1_0;
   mkAabb f_0_0 f_0_0 f_0_3125 f_1_0 f_1_5 f_0_6875;
   mkAabb f_0_25 f_0_0 f_0_25 f_0_75 f_1_5 f_0_3125;
   mkAabb f_0_25 f_0_0 f_0_6875 f_0_75 f_1_5 f_0_75;
   mkAabb f_0_3125 f_0_0 f_0_0 f_0_6875 f_1_5 f_0_25;
   mkAabb f_0_3125 f_0_0 f_0_75 f_0_6875 f_1_5 f_1_0;
   mkAabb f_0_3125 f_0_0 f_0_0 f_0_6875 f_1_5 f_1_0;
   mkAabb f_0_6875 f_0_0 f_0_3125 f_1_0 f_1_5 f_0_6875;
   mkAabb f_0_0 f_0_0 f_0_3125 f_1_0 f_1_5 f_0_6875;
   mkAabb f_0_3125 f_0_0 f_0_0 f_0_6875 f_1_5 f_0_3125;
   mkAabb f_0_3125 f_0_0 f_0_6875 f_0_6875 f_1_5 f_1_0;
   mkAabb f_0_0 f_0_0 f_0_3125 f_1_0 f_1_5 f_0_6875;
   mkAabb f_0_3125 f_0_0 f_0_0 f_0_6875 f_1_5 f_0_3125;
   mkAabb f_0_3125 f_0_0 f_0_6875 f_0_6875 f_1_5 f_1_0;
   mkAabb f_0_25 f_0_0 f_0_25 f_0_75 f_1_5 f_0_75;
   mkAabb f_0_3125 f_0_0 f_0_0 f_0_6875 f_1_5 f_0_25;
   mkAabb f_0_3125 f_0_0 f_0_75 f_0_6875 f_1_5 f_1_0;
   mkAabb f_0_75 f_0_0 f_0_3125 f_1_0 f_1_5 f_0_6875;
   mkAabb f_0_0 f_0_0 f_0_3125 f_1_0 f_1_5 f_0_6875;
   mkAabb f_0_25 f_0_0 f_0_25 f_0_75 f_1_5 f_0_3125;
   mkAabb f_0_25 f_0_0 f_0_6875 f_0_75 f_1_5 f_0_75;
   mkAabb f_0_3125 f_0_0 f_0_0 f_0_6875 f_1_5 f_0_25;
   mkAabb f_0_3125 f_0_0 f_0_75 f_0_6875 f_1_5 f_1_0;
   mkAabb f_0_0 f_0_0 f_0_3125 f_1_0 f_1_5 f_0_6875;
   mkAabb f_0_25 f_0_0 f_0_25 f_0_75 f_1_5 f_0_3125;
   mkAabb f_0_25 f_0_0 f_0_6875 f_0_75 f_1_5 f_0_75;
   mkAabb f_0_3125 f_0_0 f_0_0 f_0_6875 f_1_5 f_0_25;
   mkAabb f_0_3125 f_0_0 f_0_75 f_0_6875 f_1_5 f_1_0;
   mkAabb f_0_3125 f_0_0 f_0_0 f_0_6875 f_1_5 f_1_0;
   mkAabb f_0_6875 f_0_0 f_0_3125 f_1_0 f_1_5 f_0_6875;
   mkAabb f_0_0 f_0_0 f_0_3125 f_1_0 f_1_5 f_0_6875;
   mkAabb f_0_3125 f_0_0 f_0_0 f_0_6875 f_1_5 f_0_3125;
   mkAabb f_0_3125 f_0_0 f_0_6875 f_0_6875 f_1_5 f_1_0;
   mkAabb f_0_0 f_0_0 f_0_3125 f_1_0 f_1_5 f_0_6875;
   mkAabb f_0_3125 f_0_0 f_0_0 f_0_6875 f_1_5 f_0_3125;
   mkAabb f_0_3125 f_0_0 f_0_6875 f_0_6875 f_1_5 f_1_0;
   mkAabb f_0_25 f_0_0 f_0_25 f_0_75 f_1_5 f_0_75;
   mkAabb f_0_3125 f_0_0 f_0_0 f_0_6875 f_1_5 f_0_25;
   mkAabb f_0_75 f_0_0 f_0_3125 f_1_0 f_1_5 f_0_6875;
   mkAabb f_0_0 f_0_0 f_0_3125 f_1_0 f_1_5 f_0_6875;
   mkAabb f_0_25 f_0_0 f_0_25 f_0_75 f_1_5 f_0_3125;
   mkAabb f_0_25 f_0_0 f_0_6875 f_0_75 f_1_5 f_0_75;
   mkAabb f_0_3125 f_0_0 f_0_0 f_0_6875 f_1_5 f_0_25;
   mkAabb f_0_0 f_0_0 f_0_3125 f_1_0 f_1_5 f_0_6875;
   mkAabb f_0_25 f_0_0 f_0_25 f_0_75 f_1_5 f_0_3125;
   mkAabb f_0_25 f_0_0 f_0_6875 f_0_75 f_1_5 f_0_75;
   mkAabb f_0_3125 f_0_0 f_0_0 f_0_6875 f_1_5 f_0_25;
   mkAabb f_0_3125 f_0_0 f_0_0 f_0_6875 f_1_5 f_0_6875;
   mkAabb f_0_6875 f_0_0 f_0_3125 f_1_0 f_1_5 f_0_6875;
   mkAabb f_0_0 f_0_0 f_0_3125 f_1_0 f_1_5 f_0_6875;
   mkAabb f_0_3125 f_0_0 f_0_0 f_0_6875 f_1_5 f_0_3125;
   mkAabb f_0_0 f_0_0 f_0_3125 f_1_0 f_1_5 f_0_6875;
   mkAabb f_0_3125 f_0_0 f_0_0 f_0_6875 f_1_5 f_0_3125;
   mkAabb f_0_25 f_0_0 f_0_25 f_0_75 f_1_5 f_0_75;
   mkAabb f_0_3125 f_0_0 f_0_0 f_0_6875 f_1_5 f_0_25;
   mkAabb f_0_3125 f_0_0 f_0_75 f_0_6875 f_1_5 f_1_0;
   mkAabb f_0_75 f_0_0 f_0_3125 f_1_0 f_1_5 f_0_6875;
   mkAabb f_0_0 f_0_0 f_0_3125 f_1_0 f_1_5 f_0_6875;
   mkAabb f_0_25 f_0_0 f_0_25 f_0_75 f_1_5 f_0_3125;
   mkAabb f_0_25 f_0_0 f_0_6875 f_0_75 f_1_5 f_0_75;
   mkAabb f_0_3125 f_0_0 f_0_0 f_0_6875 f_1_5 f_0_25;
   mkAabb f_0_3125 f_0_0 f_0_75 f_0_6875 f_1_5 f_1_0;
   mkAabb f_0_0 f_0_0 f_0_3125 f_1_0 f_1_5 f_0_6875;
   mkAabb f_0_25 f_0_0 f_0_25 f_0_75 f_1_5 f_0_3125;
   mkAabb f_0_25 f_0_0 f_0_6875 f_0_75 f_1_5 f_0_75;
   mkAabb f_0_3125 f_0_0 f_0_0 f_0_6875 f_1_5 f_0_25;
   mkAabb f_0_3125 f_0_0 f_0_75 f_0_6875 f_1_5 f_1_0;
   mkAabb f_0_3125 f_0_0 f_0_0 f_0_6875 f_1_5 f_1_0;
   mkAabb f_0_6875 f_0_0 f_0_3125 f_1_0 f_1_5 f_0_6875;
   mkAabb f_0_0 f_0_0 f_0_3125 f_1_0 f_1_5 f_0_6875;
   mkAabb f_0_3125 f_0_0 f_0_0 f_0_6875 f_1_5 f_0_3125;
   mkAabb f_0_3125 f_0_0 f_0_6875 f_0_6875 f_1_5 f_1_0;
   mkAabb f_0_0 f_0_0 f_0_3125 f_1_0 f_1_5 f_0_6875;
   mkAabb f_0_3125 f_0_0 f_0_0 f_0_6875 f_1_5 f_0_3125;
   mkAabb f_0_3125 f_0_0 f_0_6875 f_0_6875 f_1_5 f_1_0;
   mkAabb f_0_25 f_0_0 f_0_25 f_0_75 f_1_5 f_0_75;
   mkAabb f_0_3125 f_0_0 f_0_0 f_0_6875 f_1_5 f_0_25;
   mkAabb f_0_3125 f_0_0 f_0_75 f_0_6875 f_1_5 f_1_0;
   mkAabb f_0_75 f_0_0 f_0_3125 f_1_0 f_1_5 f_0_6875;
   mkAabb f_0_0 f_0_0 f_0_3125 f_1_0 f_1_5 f_0_6875;
   mkAabb f_0_25 f_0_0 f_0_25 f_0_75 f_1_5 f_0_3125;
   mkAabb f_0_25 f_0_0 f_0_6875 f_0_75 f_1_5 f_0_75;
   mkAabb f_0_3125 f_0_0 f_0_0 f_0_6875 f_1_5 f_0_25;
   mkAabb f_0_3125 f_0_0 f_0_75 f_0_6875 f_1_5 f_1_0;
   mkAabb f_0_0 f_0_0 f_0_3125 f_1_0 f_1_5 f_0_6875;
   mkAabb f_0_25 f_0_0 f_0_25 f_0_75 f_1_5 f_0_3125;
   mkAabb f_0_25 f_0_0 f_0_6875 f_0_75 f_1_5 f_0_75;
   mkAabb f_0_3125 f_0_0 f_0_0 f_0_6875 f_1_5 f_0_25;
   mkAabb f_0_3125 f_0_0 f_0_75 f_0_6875 f_1_5 f_1_0;
   mkAabb f_0_3125 f_0_0 f_0_0 f_0_6875 f_1_5 f_1_0;
   mkAabb f_0_6875 f_0_0 f_0_3125 f_1_0 f_1_5 f_0_6875;
   mkAabb f_0_0 f_0_0 f_0_3125 f_1_0 f_1_5 f_0_6875;
   mkAabb f_0_3125 f_0_0 f_0_0 f_0_6875 f_1_5 f_0_3125;
   mkAabb f_0_3125 f_0_0 f_0_6875 f_0_6875 f_1_5 f_1_0;
   mkAabb f_0_0 f_0_0 f_0_3125 f_1_0 f_1_5 f_0_6875;
   mkAabb f_0_3125 f_0_0 f_0_0 f_0_6875 f_1_5 f_0_3125;
   mkAabb f_0_3125 f_0_0 f_0_6875 f_0_6875 f_1_5 f_1_0;
   mkAabb f_0_25 f_0_0 f_0_25 f_0_75 f_1_5 f_0_75;
   mkAabb f_0_0 f_0_0 f_0_3125 f_0_75 f_1_5 f_0_6875;
   mkAabb f_0_25 f_0_0 f_0_25 f_0_75 f_1_5 f_0_3125;
   mkAabb f_0_25 f_0_0 f_0_6875 f_0_75 f_1_5 f_0_75;
   mkAabb f_0_0 f_0_0 f_0_3125 f_0_75 f_1_5 f_0_6875;
   mkAabb f_0_25 f_0_0 f_0_25 f_0_75 f_1_5 f_0_3125;
   mkAabb f_0_25 f_0_0 f_0_6875 f_0_75 f_1_5 f_0_75;
   mkAabb f_0_0 f_0_0 f_0_3125 f_0_6875 f_1_5 f_0_6875;
   mkAabb f_0_0 f_0_0 f_0_3125 f_0_6875 f_1_5 f_0_6875;
   mkAabb f_0_25 f_0_0 f_0_25 f_0_75 f_1_5 f_0_75;
   mkAabb f_0_3125 f_0_0 f_0_75 f_0_6875 f_1_5 f_1_0;
   mkAabb f_0_0 f_0_0 f_0_3125 f_0_75 f_1_5 f_0_6875;
   mkAabb f_0_25 f_0_0 f_0_25 f_0_75 f_1_5 f_0_3125;
   mkAabb f_0_25 f_0_0 f_0_6875 f_0_75 f_1_5 f_0_75;
   mkAabb f_0_3125 f_0_0 f_0_75 f_0_6875 f_1_5 f_1_0;
   mkAabb f_0_0 f_0_0 f_0_3125 f_0_75 f_1_5 f_0_6875;
   mkAabb f_0_25 f_0_0 f_0_25 f_0_75 f_1_5 f_0_3125;
   mkAabb f_0_25 f_0_0 f_0_6875 f_0_75 f_1_5 f_0_75;
   mkAabb f_0_3125 f_0_0 f_0_75 f_0_6875 f_1_5 f_1_0;
   mkAabb f_0_3125 f_0_0 f_0_3125 f_0_6875 f_1_5 f_1_0;
   mkAabb f_0_0 f_0_0 f_0_3125 f_0_6875 f_1_5 f_0_6875;
   mkAabb f_0_3125 f_0_0 f_0_6875 f_0_6875 f_1_5 f_1_0;
   mkAabb f_0_0 f_0_0 f_0_3125 f_0_6875 f_1_5 f_0_6875;
   mkAabb f_0_3125 f_0_0 f_0_6875 f_0_6875 f_1_5 f_1_0;
   mkAabb f_0_25 f_0_0 f_0_25 f_0_75 f_1_5 f_0_75;
   mkAabb f_0_3125 f_0_0 f_0_75 f_0_6875 f_1_5 f_1_0;
   mkAabb f_0_0 f_0_0 f_0_3125 f_0_75 f_1_5 f_0_6875;
   mkAabb f_0_25 f_0_0 f_0_25 f_0_75 f_1_5 f_0_3125;
   mkAabb f_0_25 f_0_0 f_0_6875 f_0_75 f_1_5 f_0_75;
   mkAabb f_0_3125 f_0_0 f_0_75 f_0_6875 f_1_5 f_1_0;
   mkAabb f_0_0 f_0_0 f_0_3125 f_0_75 f_1_5 f_0_6875;
   mkAabb f_0_25 f_0_0 f_0_25 f_0_75 f_1_5 f_0_3125;
   mkAabb f_0_25 f_0_0 f_0_6875 f_0_75 f_1_5 f_0_75;
   mkAabb f_0_3125 f_0_0 f_0_75 f_0_6875 f_1_5 f_1_0;
   mkAabb f_0_3125 f_0_0 f_0_3125 f_0_6875 f_1_5 f_1_0;
   mkAabb f_0_0 f_0_0 f_0_3125 f_0_6875 f_1_5 f_0_6875].
Definition SHAPE_BOXES_44 : list Aabb :=
  [mkAabb f_0_3125 f_0_0 f_0_6875 f_0_6875 f_1_5 f_1_0;
   mkAabb f_0_0 f_0_0 f_0_3125 f_0_6875 f_1_5 f_0_6875;
   mkAabb f_0_3125 f_0_0 f_0_6875 f_0_6875 f_1_5 f_1_0;
   mkAabb f_0_25 f_0_0 f_0_25 f_0_75 f_1_5 f_0_75;
   mkAabb f_0_3125 f_0_0 f_0_0 f_0_6875 f_1_5 f_0_25;
   mkAabb f_0_0 f_0_0 f_0_3125 f_0_75 f_1_5 f_0_6875;
   mkAabb f_0_25 f_0_0 f_0_25 f_0_75 f_1_5 f_0_3125;
   mkAabb f_0_25 f_0_0 f_0_6875 f_0_75 f_1_5 f_0_75;
   mkAabb f_0_3125 f_0_0 f_0_0 f_0_6875 f_1_5 f_0_25;
   mkAabb f_0_0 f_0_0 f_0_3125 f_0_75 f_1_5 f_0_6875;
   mkAabb f_0_25 f_0_0 f_0_25 f_0_75 f_1_5 f_0_3125;
   mkAabb f_0_25 f_0_0 f_0_6875 f_0_75 f_1_5 f_0_75;
   mkAabb f_0_3125 f_0_0 f_0_0 f_0_6875 f_1_5 f_0_25;
   mkAabb f_0_3125 f_0_0 f_0_0 f_0_6875 f_1_5 f_0_6875;
   mkAabb f_0_0 f_0_0 f_0_3125 f_0_6875 f_1_5 f_0_6875;
   mkAabb f_0_3125 f_0_0 f_0_0 f_0_6875 f_1_5 f_0_3125;
   mkAabb f_0_0 f_0_0 f_0_3125 f_0_6875 f_1_5 f_0_6875;
   mkAabb f_0_3125 f_0_0 f_0_0 f_0_6875 f_1_5 f_0_3125;
   mkAabb f_0_25 f_0_0 f_0_25 f_0_75 f_1_5 f_0_75;
   mkAabb f_0_3125 f_0_0 f_0_0 f_0_6875 f_1_5 f_0_25;
   mkAabb f_0_3125 f_0_0 f_0_75 f_0_6875 f_1_5 f_1_0;
   mkAabb f_0_0 f_0_0 f_0_3125 f_0_75 f_1_5 f_0_6875;
   mkAabb f_0_25 f_0_0 f_0_25 f_0_75 f_1_5 f_0_3125;
   mkAabb f_0_25 f_0_0 f_0_6875 f_0_75 f_1_5 f_0_75;
   mkAabb f_0_3125 f_0_0 f_0_0 f_0_6875 f_1_5 f_0_25;
   mkAabb f_0_3125 f_0_0 f_0_75 f_0_6875 f_1_5 f_1_0;
   mkAabb f_0_0 f_0_0 f_0_3125 f_0_75 f_1_5 f_0_6875;
   mkAabb f_0_25 f_0_0 f_0_25 f_0_75 f_1_5 f_0_3125;
   mkAabb f_0_25 f_0_0 f_0_6875 f_0_75 f_1_5 f_0_75;
   mkAabb f_0_3125 f_0_0 f_0_0 f_0_6875 f_1_5 f_0_25;
   mkAabb f_0_3125 f_0_0 f_0_75 f_0_6875 f_1_5 f_1_0;
   mkAabb f_0_3125 f_0_0 f_0_0 f_0_6875 f_1_5 f_1_0;
   mkAabb f_0_0 f_0_0 f_0_3125 f_0_6875 f_1_5 f_0_6875;
   mkAabb f_0_3125 f_0_0 f_0_0 f_0_6875 f_1_5 f_0_3125;
   mkAabb f_0_3125 f_0_0 f_0_6875 f_0_6875 f_1_5 f_1_0;
   mkAabb f_0_0 f_0_0 f_0_3125 f_0_6875 f_1_5 f_0_6875;
   mkAabb f_0_3125 f_0_0 f_0_0 f_0_6875 f_1_5 f_0_3125;
   mkAabb f_0_3125 f_0_0 f_0_6875 f_0_6875 f_1_5 f_1_0;
   mkAabb f_0_25 f_0_0 f_0_25 f_0_75 f_1_5 f_0_75;
   mkAabb f_0_3125 f_0_0 f_0_0 f_0_6875 f_1_5 f_0_25;
   mkAabb f_0_3125 f_0_0 f_0_75 f_0_6875 f_1_5 f_1_0;
   mkAabb f_0_0 f_0_0 f_0_3125 f_0_75 f_1_5 f_0_6875;
   mkAabb f_0_25 f_0_0 f_0_25 f_0_75 f_1_5 f_0_3125;
   mkAabb f_0_25 f_0_0 f_0_6875 f_0_75 f_1_5 f_0_75;
   mkAabb f_0_3125 f_0_0 f_0_0 f_0_6875 f_1_5 f_0_25;
   mkAabb f_0_3125 f_0_0 f_0_75 f_0_6875 f_1_5 f_1_0;
   mkAabb f_0_0 f_0_0 f_0_3125 f_0_75 f_1_5 f_0_6875;
   mkAabb f_0_25 f_0_0 f_0_25 f_0_75 f_1_5 f_0_3125;
   mkAabb f_0_25 f_0_0 f_0_6875 f_0_75 f_1_5 f_0_75;
   mkAabb f_0_3125 f_0_0 f_0_0 f_0_6875 f_1_5 f_0_25;
   mkAabb f_0_3125 f_0_0 f_0_75 f_0_6875 f_1_5 f_1_0;
   mkAabb f_0_3125 f_0_0 f_0_0 f_0_6875 f_1_5 f_1_0;
   mkAabb f_0_0 f_0_0 f_0_3125 f_0_6875 f_1_5 f_0_6875;
   mkAabb f_0_3125 f_0_0 f_0_0 f_0_6875 f_1_5 f_0_3125;
   mkAabb f_0_3125 f_0_0 f_0_6875 f_0_6875 f_1_5 f_1_0;
   mkAabb f_0_0 f_0_0 f_0_3125 f_0_6875 f_1_5 f_0_6875;
   mkAabb f_0_3125 f_0_0 f_0_0 f_0_6875 f_1_5 f_0_3125;
   mkAabb f_0_3125 f_0_0 f_0_6875 f_0_6875 f_1_5 f_1_0;
   mkAabb f_0_25 f_0_0 f_0_25 f_0_75 f_1_5 f_0_75;
   mkAabb f_0_3125 f_0_0 f_0_0 f_0_6875 f_1_5 f_0_25;
   mkAabb f_0_0 f_0_0 f_0_3125 f_0_75 f_1_5 f_0_6875;
   mkAabb f_0_25 f_0_0 f_0_25 f_0_75 f_1_5 f_0_3125;
   mkAabb f_0_25 f_0_0 f_0_6875 f_0_75 f_1_5 f_0_75;
   mkAabb f_0_3125 f_0_0 f_0_0 f_0_6875 f_1_5 f_0_25;
   mkAabb f_0_0 f_0_0 f_0_3125 f_0_75 f_1_5 f_0_6875;
   mkAabb f_0_25 f_0_0 f_0_25 f_0_75 f_1_5 f_0_3125;
   mkAabb f_0_25 f_0_0 f_0_6875 f_0_75 f_1_5 f_0_75;
   mkAabb f_0_3125 f_0_0 f_0_0 f_0_6875 f_1_5 f_0_25;
   mkAabb f_0_3125 f_0_0 f_0_0 f_0_6875 f_1_5 f_0_6875;
   mkAabb f_0_0 f_0_0 f_0_3125 f_0_6875 f_1_5 f_0_6875;
   mkAabb f_0_3125 f_0_0 f_0_0 f_0_6875 f_1_5 f_0_3125;
   mkAabb f_0_0 f_0_0 f_0_3125 f_0_6875 f_1_5 f_0_6875;
   mkAabb f_0_3125 f_0_0 f_0_0 f_0_6875 f_1_5 f_0_3125;
   mkAabb f_0_25 f_0_0 f_0_25 f_0_75 f_1_5 f_0_75;
   mkAabb f_0_3125 f_0_0 f_0_0 f_0_6875 f_1_5 f_0_25;
   mkAabb f_0_3125 f_0_0 f_0_75 f_0_6875 f_1_5 f_1_0;
   mkAabb f_0_0 f_0_0 f_0_3125 f_0_75 f_1_5 f_0_6875;
   mkAabb f_0_25 f_0_0 f_0_25 f_0_75 f_1_5 f_0_3125;
   mkAabb f_0_25 f_0_0 f_0_6875 f_0_75 f_1_5 f_0_75;
   mkAabb f_0_3125 f_0_0 f_0_0 f_0_6875 f_1_5 f_0_25;
   mkAabb f_0_3125 f_0_0 f_0_75 f_0_6875 f_1_5 f_1_0;
   mkAabb f_0_0 f_0_0 f_0_3125 f_0_75 f_1_5 f_0_6875;
   mkAabb f_0_25 f_0_0 f_0_25 f_0_75 f_1_5 f_0_3125;
   mkAabb f_0_25 f_0_0 f_0_6875 f_0_75 f_1_5 f_0_75;
   mkAabb f_0_3125 f_0_0 f_0_0 f_0_6875 f_1_5 f_0_25;
   mkAabb f_0_3125 f_0_0 f_0_75 f_0_6875 f_1_5 f_1_0;
   mkAabb f_0_3125 f_0_0 f_0_0 f_0_6875 f_1_5 f_1_0;
   mkAabb f_0_0 f_0_0 f_0_3125 f_0_6875 f_1_5 f_0_6875;
   mkAabb f_0_3125 f_0_0 f_0_0 f_0_6875 f_1_5 f_0_3125;
   mkAabb f_0_3125 f_0_0 f_0_6875 f_0_6875 f_1_5 f_1_0;
   mkAabb f_0_0 f_0_0 f_0_3125 f_0_6875 f_1_5 f_0_6875;
   mkAabb f_0_3125 f_0_0 f_0_0 f_0_6875 f_1_5 f_0_3125;
   mkAabb f_0_3125 f_0_0 f_0_6875 f_0_6875 f_1_5 f_1_0;
   mkAabb f_0_25 f_0_0 f_0_25 f_0_75 f_1_5 f_0_75;
   mkAabb f_0_3125 f_0_0 f_0_0 f_0_6875 f_1_5 f_0_25;
   mkAabb f_0_3125 f_0_0 f_0_75 f_0_6875 f_1_5 f_1_0;
   mkAabb f_0_0 f_0_0 f_0_3125 f_0_75 f_1_5 f_0_6875;
   mkAabb f_0_25 f_0_0 f_0_25 f_0_75 f_1_5 f_0_3125;
   mkAabb f_0_25 f_0_0 f_0_6875 f_0_75 f_1_5 f_0_75;
   mkAabb f_0_3125 f_0_0 f_0_0 f_0_6875 f_1_5 f_0_25;
   mkAabb f_0_3125 f_0_0 f_0_75 f_0_6875 f_1_5 f_1_0;
   mkAabb f_0_0 f_0_0 f_0_3125 f_0_75 f_1_5 f_0_6875;
   mkAabb f_0_25 f_0_0 f_0_25 f_0_75 f_1_5 f_0_3125;
   mkAabb f_0_25 f_0_0 f_0_6875 f_0_75 f_1_5 f_0_75;
   mkAabb f_0_3125 f_0_0 f_0_0 f_0_6875 f_1_5 f_0_25;
   mkAabb f_0_3125 f_0_0 f_0_75 f_0_6875 f_1_5 f_1_0;
   mkAabb f_0_3125 f_0_0 f_0_0 f_0_6875 f_1_5 f_1_0;
   mkAabb f_0_0 f_0_0 f_0_3125 f_0_6875 f_1_5 f_0_6875;
   mkAabb f_0_3125 f_0_0 f_0_0 f_0_6875 f_1_5 f_0_3125;
   mkAabb f_0_3125 f_0_0 f_0_6875 f_0_6875 f_1_5 f_1_0;
   mkAabb f_0_0 f_0_0 f_0_3125 f_0_6875 f_1_5 f_0_6875;
   mkAabb f_0_3125 f_0_0 f_0_0 f_0_6875 f_1_5 f_0_3125;
   mkAabb f_0_3125 f_0_0 f_0_6875 f_0_6875 f_1_5 f_1_0;
   mkAabb f_0_25 f_0_0 f_0_25 f_0_75 f_1_5 f_0_75;
   mkAabb f_0_75 f_0_0 f_0_3125 f_1_0 f_1_5 f_0_6875;
   mkAabb f_0_0 f_0_0 f_0_3125 f_1_0 f_1_5 f_0_6875;
   mkAabb f_0_25 f_0_0 f_0_25 f_0_75 f_1_5 f_0_3125;
   mkAabb f_0_25 f_0_0 f_0_6875 f_0_75 f_1_5 f_0_75;
   mkAabb f_0_0 f_0_0 f_0_3125 f_1_0 f_1_5 f_0_6875;
   mkAabb f_0_25 f_0_0 f_0_25 f_0_75 f_1_5 f_0_3125;
   mkAabb f_0_25 f_0_0 f_0_6875 f_0_75 f_1_5 f_0_75;
   mkAabb f_0_3125 f_0_0 f_0_3125 f_1_0 f_1_5 f_0_6875;
   mkAabb f_0_0 f_0_0 f_0_3125 f_1_0 f_1_5 f_0_6875;
   mkAabb f_0_0 f_0_0 f_0_3125 f_1_0 f_1_5 f_0_6875;
   mkAabb f_0_25 f_0_0 f_0_25 f_0_75 f_1_5 f_0_75;
   mkAabb f_0_3125 f_0_0 f_0_75 f_0_6875 f_1_5 f_1_0;
   mkAabb f_0_75 f_0_0 f_0_3125 f_1_0 f_1_5 f_0_6875;
   mkAabb f_0_0 f_0_0 f_0_3125 f_1_0 f_1_5 f_0_6875;
   mkAabb f_0_25 f_0_0 f_0_25 f_0_75 f_1_5 f_0_3125;
   mkAabb f_0_25 f_0_0 f_0_6875 f_0_75 f_1_5 f_0_75;
   mkAabb f_0_3125 f_0_0 f_0_75 f_0_6875 f_1_5 f_1_0;
   mkAabb f_0_0 f_0_0 f_0_3125 f_1_0 f_1_5 f_0_6875;
   mkAabb f_0_25 f_0_0 f_0_25 f_0_75 f_1_5 f_0_3125;
   mkAabb f_0_25 f_0_0 f_0_6875 f_0_75 f_1_5 f_0_75;
   mkAabb f_0_3125 f_0_0 f_0_75 f_0_6875 f_1_5 f_1_0;
   mkAabb f_0_3125 f_0_0 f_0_3125 f_0_6875 f_1_5 f_1_0;
   mkAabb f_0_6875 f_0_0 f_0_3125 f_1_0 f_1_5 f_0_6875;
   mkAabb f_0_0 f_0_0 f_0_3125 f_1_0 f_1_5 f_0_6875;
   mkAabb f_0_3125 f_0_0 f_0_6875 f_0_6875 f_1_5 f_1_0;
   mkAabb f_0_0 f_0_0 f_0_3125 f_1_0 f_1_5 f_0_6875;
   mkAabb f_0_3125 f_0_0 f_0_6875 f_0_6875 f_1_5 f_1_0;
   mkAabb f_0_25 f_0_0 f_0_25 f_0_75 f_1_5 f_0_75;
   mkAabb f_0_3125 f_0_0 f_0_75 f_0_6875 f_1_5 f_1_0;
   mkAabb f_0_75 f_0_0 f_0_3125 f_1_0 f_1_5 f_0_6875;
   mkAabb f_0_0 f_0_0 f_0_3125 f_1_0 f_1_5 f_0_6875;
   mkAabb f_0_25 f_0_0 f_0_25 f_0_75 f_1_5 f_0_3125;
   mkAabb f_0_25 f_0_0 f_0_6875 f_0_75 f_1_5 f_0_75;
   mkAabb f_0_3125 f_0_0 f_0_75 f_0_6875 f_1_5 f_1_0;
   mkAabb f_0_0 f_0_0 f_0_3125 f_1_0 f_1_5 f_0_6875;
   mkAabb f_0_25 f_0_0 f_0_25 f_0_75 f_1_5 f_0_3125].
Definition SHAPE_BOXES_45 : list Aabb :=
  [mkAabb f_0_25 f_0_0 f_0_6875 f_0_75 f_1_5 f_0_75;
   mkAabb f_0_3125 f_0_0 f_0_75 f_0_6875 f_1_5 f_1_0;
   mkAabb f_0_3125 f_0_0 f_0_3125 f_0_6875 f_1_5 f_1_0;
   mkAabb f_0_6875 f_0_0 f_0_3125 f_1_0 f_1_5 f_0_6875;
   mkAabb f_0_0 f_0_0 f_0_3125 f_1_0 f_1_5 f_0_6875;
   mkAabb f_0_3125 f_0_0 f_0_6875 f_0_6875 f_1_5 f_1_0;
   mkAabb f_0_0 f_0_0 f_0_3125 f_1_0 f_1_5 f_0_6875;
   mkAabb f_0_3125 f_0_0 f_0_6875 f_0_6875 f_1_5 f_1_0;
   mkAabb f_0_25 f_0_0 f_0_25 f_0_75 f_1_5 f_0_75;
   mkAabb f_0_3125 f_0_0 f_0_0 f_0_6875 f_1_5 f_0_25;
   mkAabb f_0_75 f_0_0 f_0_3125 f_1_0 f_1_5 f_0_6875;
   mkAabb f_0_0 f_0_0 f_0_3125 f_1_0 f_1_5 f_0_6875;
   mkAabb f_0_25 f_0_0 f_0_25 f_0_75 f_1_5 f_0_3125;
   mkAabb f_0_25 f_0_0 f_0_6875 f_0_75 f_1_5 f_0_75;
   mkAabb f_0_3125 f_0_0 f_0_0 f_0_6875 f_1_5 f_0_25;
   mkAabb f_0_0 f_0_0 f_0_3125 f_1_0 f_1_5 f_0_6875;
   mkAabb f_0_25 f_0_0 f_0_25 f_0_75 f_1_5 f_0_3125;
   mkAabb f_0_25 f_0_0 f_0_6875 f_0_75 f_1_5 f_0_75;
   mkAabb f_0_3125 f_0_0 f_0_0 f_0_6875 f_1_5 f_0_25;
   mkAabb f_0_3125 f_0_0 f_0_0 f_0_6875 f_1_5 f_0_6875;
   mkAabb f_0_6875 f_0_0 f_0_3125 f_1_0 f_1_5 f_0_6875;
   mkAabb f_0_0 f_0_0 f_0_3125 f_1_0 f_1_5 f_0_6875;
   mkAabb f_0_3125 f_0_0 f_0_0 f_0_6875 f_1_5 f_0_3125;
   mkAabb f_0_0 f_0_0 f_0_3125 f_1_0 f_1_5 f_0_6875;
   mkAabb f_0_3125 f_0_0 f_0_0 f_0_6875 f_1_5 f_0_3125;
   mkAabb f_0_25 f_0_0 f_0_25 f_0_75 f_1_5 f_0_75;
   mkAabb f_0_3125 f_0_0 f_0_0 f_0_6875 f_1_5 f_0_25;
   mkAabb f_0_3125 f_0_0 f_0_75 f_0_6875 f_1_5 f_1_0;
   mkAabb f_0_75 f_0_0 f_0_3125 f_1_0 f_1_5 f_0_6875;
   mkAabb f_0_0 f_0_0 f_0_3125 f_1_0 f_1_5 f_0_6875;
   mkAabb f_0_25 f_0_0 f_0_25 f_0_75 f_1_5 f_0_3125;
   mkAabb f_0_25 f_0_0 f_0_6875 f_0_75 f_1_5 f_0_75;
   mkAabb f_0_3125 f_0_0 f_0_0 f_0_6875 f_1_5 f_0_25;
   mkAabb f_0_3125 f_0_0 f_0_75 f_0_6875 f_1_5 f_1_0;
   mkAabb f_0_0 f_0_0 f_0_3125 f_1_0 f_1_5 f_0_6875;
   mkAabb f_0_25 f_0_0 f_0_25 f_0_75 f_1_5 f_0_3125;
   mkAabb f_0_25 f_0_0 f_0_6875 f_0_75 f_1_5 f_0_75;
   mkAabb f_0_3125 f_0_0 f_0_0 f_0_6875 f_1_5 f_0_25;
   mkAabb f_0_3125 f_0_0 f_0_75 f_0_6875 f_1_5 f_1_0;
   mkAabb f_0_3125 f_0_0 f_0_0 f_0_6875 f_1_5 f_1_0;
   mkAabb f_0_6875 f_0_0 f_0_3125 f_1_0 f_1_5 f_0_6875;
   mkAabb f_0_0 f_0_0 f_0_3125 f_1_0 f_1_5 f_0_6875;
   mkAabb f_0_3125 f_0_0 f_0_0 f_0_6875 f_1_5 f_0_3125;
   mkAabb f_0_3125 f_0_0 f_0_6875 f_0_6875 f_1_5 f_1_0;
   mkAabb f_0_0 f_0_0 f_0_3125 f_1_0 f_1_5 f_0_6875;
   mkAabb f_0_3125 f_0_0 f_0_0 f_0_6875 f_1_5 f_0_3125;
   mkAabb f_0_3125 f_0_0 f_0_6875 f_0_6875 f_1_5 f_1_0;
   mkAabb f_0_25 f_0_0 f_0_25 f_0_75 f_1_5 f_0_75;
   mkAabb f_0_3125 f_0_0 f_0_0 f_0_6875 f_1_5 f_0_25;
   mkAabb f_0_3125 f_0_0 f_0_75 f_0_6875 f_1_5 f_1_0;
   mkAabb f_0_75 f_0_0 f_0_3125 f_1_0 f_1_5 f_0_6875;
   mkAabb f_0_0 f_0_0 f_0_3125 f_1_0 f_1_5 f_0_6875;
   mkAabb f_0_25 f_0_0 f_0_25 f_0_75 f_1_5 f_0_3125;
   mkAabb f_0_25 f_0_0 f_0_6875 f_0_75 f_1_5 f_0_75;
   mkAabb f_0_3125 f_0_0 f_0_0 f_0_6875 f_1_5 f_0_25;
   mkAabb f_0_3125 f_0_0 f_0_75 f_0_6875 f_1_5 f_1_0;
   mkAabb f_0_0 f_0_0 f_0_3125 f_1_0 f_1_5 f_0_6875;
   mkAabb f_0_25 f_0_0 f_0_25 f_0_75 f_1_5 f_0_3125;
   mkAabb f_0_25 f_0_0 f_0_6875 f_0_75 f_1_5 f_0_75;
   mkAabb f_0_3125 f_0_0 f_0_0 f_0_6875 f_1_5 f_0_25;
   mkAabb f_0_3125 f_0_0 f_0_75 f_0_6875 f_1_5 f_1_0;
   mkAabb f_0_3125 f_0_0 f_0_0 f_0_6875 f_1_5 f_1_0;
   mkAabb f_0_6875 f_0_0 f_0_3125 f_1_0 f_1_5 f_0_6875;
   mkAabb f_0_0 f_0_0 f_0_3125 f_1_0 f_1_5 f_0_6875;
   mkAabb f_0_3125 f_0_0 f_0_0 f_0_6875 f_1_5 f_0_3125;
   mkAabb f_0_3125 f_0_0 f_0_6875 f_0_6875 f_1_5 f_1_0;
   mkAabb f_0_0 f_0_0 f_0_3125 f_1_0 f_1_5 f_0_6875;
   mkAabb f_0_3125 f_0_0 f_0_0 f_0_6875 f_1_5 f_0_3125;
   mkAabb f_0_3125 f_0_0 f_0_6875 f_0_6875 f_1_5 f_1_0;
   mkAabb f_0_25 f_0_0 f_0_25 f_0_75 f_1_5 f_0_75;
   mkAabb f_0_3125 f_0_0 f_0_0 f_0_6875 f_1_5 f_0_25;
   mkAabb f_0_75 f_0_0 f_0_3125 f_1_0 f_1_5 f_0_6875;
   mkAabb f_0_0 f_0_0 f_0_3125 f_1_0 f_1_5 f_0_6875;
   mkAabb f_0_25 f_0_0 f_0_25 f_0_75 f_1_5 f_0_3125;
   mkAabb f_0_25 f_0_0 f_0_6875 f_0_75 f_1_5 f_0_75;
   mkAabb f_0_3125 f_0_0 f_0_0 f_0_6875 f_1_5 f_0_25;
   mkAabb f_0_0 f_0_0 f_0_3125 f_1_0 f_1_5 f_0_6875;
   mkAabb f_0_25 f_0_0 f_0_25 f_0_75 f_1_5 f_0_3125;
   mkAabb f_0_25 f_0_0 f_0_6875 f_0_75 f_1_5 f_0_75;
   mkAabb f_0_3125 f_0_0 f_0_0 f_0_6875 f_1_5 f_0_25;
   mkAabb f_0_3125 f_0_0 f_0_0 f_0_6875 f_1_5 f_0_6875;
   mkAabb f_0_6875 f_0_0 f_0_3125 f_1_0 f_1_5 f_0_6875;
   mkAabb f_0_0 f_0_0 f_0_3125 f_1_0 f_1_5 f_0_6875;
   mkAabb f_0_3125 f_0_0 f_0_0 f_0_6875 f_1_5 f_0_3125;
   mkAabb f_0_0 f_0_0 f_0_3125 f_1_0 f_1_5 f_0_6875;
   mkAabb f_0_3125 f_0_0 f_0_0 f_0_6875 f_1_5 f_0_3125;
   mkAabb f_0_25 f_0_0 f_0_25 f_0_75 f_1_5 f_0_75;
   mkAabb f_0_3125 f_0_0 f_0_0 f_0_6875 f_1_5 f_0_25;
   mkAabb f_0_3125 f_0_0 f_0_75 f_0_6875 f_1_5 f_1_0;
   mkAabb f_0_75 f_0_0 f_0_3125 f_1_0 f_1_5 f_0_6875;
   mkAabb f_0_0 f_0_0 f_0_3125 f_1_0 f_1_5 f_0_6875;
   mkAabb f_0_25 f_0_0 f_0_25 f_0_75 f_1_5 f_0_3125;
   mkAabb f_0_25 f_0_0 f_0_6875 f_0_75 f_1_5 f_0_75;
   mkAabb f_0_3125 f_0_0 f_0_0 f_0_6875 f_1_5 f_0_25;
   mkAabb f_0_3125 f_0_0 f_0_75 f_0_6875 f_1_5 f_1_0;
   mkAabb f_0_0 f_0_0 f_0_3125 f_1_0 f_1_5 f_0_6875;
   mkAabb f_0_25 f_0_0 f_0_25 f_0_75 f_1_5 f_0_3125;
   mkAabb f_0_25 f_0_0 f_0_6875 f_0_75 f_1_5 f_0_75;
   mkAabb f_0_3125 f_0_0 f_0_0 f_0_6875 f_1_5 f_0_25;
   mkAabb f_0_3125 f_0_0 f_0_75 f_0_6875 f_1_5 f_1_0;
   mkAabb f_0_3125 f_0_0 f_0_0 f_0_6875 f_1_5 f_1_0;
   mkAabb f_0_6875 f_0_0 f_0_3125 f_1_0 f_1_5 f_0_6875;
   mkAabb f_0_0 f_0_0 f_0_3125 f_1_0 f_1_5 f_0_6875;
   mkAabb f_0_3125 f_0_0 f_0_0 f_0_6875 f_1_5 f_0_3125;
   mkAabb f_0_3125 f_0_0 f_0_6875 f_0_6875 f_1_5 f_1_0;
   mkAabb f_0_0 f_0_0 f_0_3125 f_1_0 f_1_5 f_0_6875;
   mkAabb f_0_3125 f_0_0 f_0_0 f_0_6875 f_1_5 f_0_3125;
   mkAabb f_0_3125 f_0_0 f_0_6875 f_0_6875 f_1_5 f_1_0;
   mkAabb f_0_25 f_0_0 f_0_25 f_0_75 f_1_5 f_0_75;
   mkAabb f_0_3125 f_0_0 f_0_0 f_0_6875 f_1_5 f_0_25;
   mkAabb f_0_3125 f_0_0 f_0_75 f_0_6875 f_1_5 f_1_0;
   mkAabb f_0_75 f_0_0 f_0_3125 f_1_0 f_1_5 f_0_6875;
   mkAabb f_0_0 f_0_0 f_0_3125 f_1_0 f_1_5 f_0_6875;
   mkAabb f_0_25 f_0_0 f_0_25 f_0_75 f_1_5 f_0_3125;
   mkAabb f_0_25 f_0_0 f_0_6875 f_0_75 f_1_5 f_0_75;
   mkAabb f_0_3125 f_0_0 f_0_0 f_0_6875 f_1_5 f_0_25;
   mkAabb f_0_3125 f_0_0 f_0_75 f_0_6875 f_1_5 f_1_0;
   mkAabb f_0_0 f_0_0 f_0_3125 f_1_0 f_1_5 f_0_6875;
   mkAabb f_0_25 f_0_0 f_0_25 f_0_75 f_1_5 f_0_3125;
   mkAabb f_0_25 f_0_0 f_0_6875 f_0_75 f_1_5 f_0_75;
   mkAabb f_0_3125 f_0_0 f_0_0 f_0_6875 f_1_5 f_0_25;
   mkAabb f_0_3125 f_0_0 f_0_75 f_0_6875 f_1_5 f_1_0;
   mkAabb f_0_3125 f_0_0 f_0_0 f_0_6875 f_1_5 f_1_0;
   mkAabb f_0_6875 f_0_0 f_0_3125 f_1_0 f_1_5 f_0_6875;
   mkAabb f_0_0 f_0_0 f_0_3125 f_1_0 f_1_5 f_0_6875;
   mkAabb f_0_3125 f_0_0 f_0_0 f_0_6875 f_1_5 f_0_3125;
   mkAabb f_0_3125 f_0_0 f_0_6875 f_0_6875 f_1_5 f_1_0;
   mkAabb f_0_0 f_0_0 f_0_3125 f_1_0 f_1_5 f_0_6875;
   mkAabb f_0_3125 f_0_0 f_0_0 f_0_6875 f_1_5 f_0_3125;
   mkAabb f_0_3125 f_0_0 f_0_6875 f_0_6875 f_1_5 f_1_0;
   mkAabb f_0_25 f_0_0 f_0_25 f_0_75 f_1_5 f_0_75;
   mkAabb f_0_75 f_0_0 f_0_3125 f_1_0 f_1_5 f_0_6875;
   mkAabb f_0_0 f_0_0 f_0_3125 f_1_0 f_1_5 f_0_6875;
   mkAabb f_0_25 f_0_0 f_0_25 f_0_75 f_1_5 f_0_3125;
   mkAabb f_0_25 f_0_0 f_0_6875 f_0_75 f_1_5 f_0_75;
   mkAabb f_0_0 f_0_0 f_0_3125 f_1_0 f_1_5 f_0_6875;
   mkAabb f_0_25 f_0_0 f_0_25 f_0_75 f_1_5 f_0_3125;
   mkAabb f_0_25 f_0_0 f_0_6875 f_0_75 f_1_5 f_0_75;
   mkAabb f_0_3125 f_0_0 f_0_3125 f_1_0 f_1_5 f_0_6875;
   mkAabb f_0_0 f_0_0 f_0_3125 f_1_0 f_1_5 f_0_6875;
   mkAabb f_0_0 f_0_0 f_0_3125 f_1_0 f_1_5 f_0_6875;
   mkAabb f_0_25 f_0_0 f_0_25 f_0_75 f_1_5 f_0_75;
   mkAabb f_0_3125 f_0_0 f_0_75 f_0_6875 f_1_5 f_1_0;
   mkAabb f_0_75 f_0_0 f_0_3125 f_1_0 f_1_5 f_0_6875;
   mkAabb f_0_0 f_0_0 f_0_3125 f_1_0 f_1_5 f_0_6875;
   mkAabb f_0_25 f_0_0 f_0_25 f_0_75 f_1_5 f_0_3125;
   mkAabb f_0_25 f_0_0 f_0_6875 f_0_75 f_1_5 f_0_75;
   mkAabb f_0_3125 f_0_0 f_0_75 f_0_6875 f_1_5 f_1_0;
   mkAabb f_0_0 f_0_0 f_0_3125 f_1_0 f_1_5 f_0_6875;
   mkAabb f_0_25 f_0_0 f_0_25 f_0_75 f_1_5 f_0_3125].
Definition SHAPE_BOXES_46 : list Aabb :=
  [mkAabb f_0_25 f_0_0 f_0_6875 f_0_75 f_1_5 f_0_75;
   mkAabb f_0_3125 f_0_0 f_0_75 f_0_6875 f_1_5 f_1_0;
   mkAabb f_0_3125 f_0_0 f_0_3125 f_0_6875 f_1_5 f_1_0;
   mkAabb f_0_6875 f_0_0 f_0_3125 f_1_0 f_1_5 f_0_6875;
   mkAabb f_0_0 f_0_0 f_0_3125 f_1_0 f_1_5 f_0_6875;
   mkAabb f_0_3125 f_0_0 f_0_6875 f_0_6875 f_1_5 f_1_0;
   mkAabb f_0_0 f_0_0 f_0_3125 f_1_0 f_1_5 f_0_6875;
   mkAabb f_0_3125 f_0_0 f_0_6875 f_0_6875 f_1_5 f_1_0;
   mkAabb f_0_25 f_0_0 f_0_25 f_0_75 f_1_5 f_0_75;
   mkAabb f_0_3125 f_0_0 f_0_75 f_0_6875 f_1_5 f_1_0;
   mkAabb f_0_75 f_0_0 f_0_3125 f_1_0 f_1_5 f_0_6875;
   mkAabb f_0_0 f_0_0 f_0_3125 f_1_0 f_1_5 f_0_6875;
   mkAabb f_0_25 f_0_0 f_0_25 f_0_75 f_1_5 f_0_3125;
   mkAabb f_0_25 f_0_0 f_0_6875 f_0_75 f_1_5 f_0_75;
   mkAabb f_0_3125 f_0_0 f_0_75 f_0_6875 f_1_5 f_1_0;
   mkAabb f_0_0 f_0_0 f_0_3125 f_1_0 f_1_5 f_0_6875;
   mkAabb f_0_25 f_0_0 f_0_25 f_0_75 f_1_5 f_0_3125;
   mkAabb f_0_25 f_0_0 f_0_6875 f_0_75 f_1_5 f_0_75;
   mkAabb f_0_3125 f_0_0 f_0_75 f_0_6875 f_1_5 f_1_0;
   mkAabb f_0_3125 f_0_0 f_0_3125 f_0_6875 f_1_5 f_1_0;
   mkAabb f_0_6875 f_0_0 f_0_3125 f_1_0 f_1_5 f_0_6875;
   mkAabb f_0_0 f_0_0 f_0_3125 f_1_0 f_1_5 f_0_6875;
   mkAabb f_0_3125 f_0_0 f_0_6875 f_0_6875 f_1_5 f_1_0;
   mkAabb f_0_0 f_0_0 f_0_3125 f_1_0 f_1_5 f_0_6875;
   mkAabb f_0_3125 f_0_0 f_0_6875 f_0_6875 f_1_5 f_1_0;
   mkAabb f_0_25 f_0_0 f_0_25 f_0_75 f_1_5 f_0_75;
   mkAabb f_0_3125 f_0_0 f_0_0 f_0_6875 f_1_5 f_0_25;
   mkAabb f_0_75 f_0_0 f_0_3125 f_1_0 f_1_5 f_0_6875;
   mkAabb f_0_0 f_0_0 f_0_3125 f_1_0 f_1_5 f_0_6875;
   mkAabb f_0_25 f_0_0 f_0_25 f_0_75 f_1_5 f_0_3125;
   mkAabb f_0_25 f_0_0 f_0_6875 f_0_75 f_1_5 f_0_75;
   mkAabb f_0_3125 f_0_0 f_0_0 f_0_6875 f_1_5 f_0_25;
   mkAabb f_0_0 f_0_0 f_0_3125 f_1_0 f_1_5 f_0_6875;
   mkAabb f_0_25 f_0_0 f_0_25 f_0_75 f_1_5 f_0_3125;
   mkAabb f_0_25 f_0_0 f_0_6875 f_0_75 f_1_5 f_0_75;
   mkAabb f_0_3125 f_0_0 f_0_0 f_0_6875 f_1_5 f_0_25;
   mkAabb f_0_3125 f_0_0 f_0_0 f_0_6875 f_1_5 f_0_6875;
   mkAabb f_0_6875 f_0_0 f_0_3125 f_1_0 f_1_5 f_0_6875;
   mkAabb f_0_0 f_0_0 f_0_3125 f_1_0 f_1_5 f_0_6875;
   mkAabb f_0_3125 f_0_0 f_0_0 f_0_6875 f_1_5 f_0_3125;
   mkAabb f_0_0 f_0_0 f_0_3125 f_1_0 f_1_5 f_0_6875;
   mkAabb f_0_3125 f_0_0 f_0_0 f_0_6875 f_1_5 f_0_3125;
   mkAabb f_0_25 f_0_0 f_0_25 f_0_75 f_1_5 f_0_75;
   mkAabb f_0_3125 f_0_0 f_0_0 f_0_6875 f_1_5 f_0_25;
   mkAabb f_0_3125 f_0_0 f_0_75 f_0_6875 f_1_5 f_1_0;
   mkAabb f_0_75 f_0_0 f_0_3125 f_1_0 f_1_5 f_0_6875;
   mkAabb f_0_0 f_0_0 f_0_3125 f_1_0 f_1_5 f_0_6875;
   mkAabb f_0_25 f_0_0 f_0_25 f_0_75 f_1_5 f_0_3125;
   mkAabb f_0_25 f_0_0 f_0_6875 f_0_75 f_1_5 f_0_75;
   mkAabb f_0_3125 f_0_0 f_0_0 f_0_6875 f_1_5 f_0_25;
   mkAabb f_0_3125 f_0_0 f_0_75 f_0_6875 f_1_5 f_1_0;
   mkAabb f_0_0 f_0_0 f_0_3125 f_1_0 f_1_5 f_0_6875;
   mkAabb f_0_25 f_0_0 f_0_25 f_0_75 f_1_5 f_0_3125;
   mkAabb f_0_25 f_0_0 f_0_6875 f_0_75 f_1_5 f_0_75;
   mkAabb f_0_3125 f_0_0 f_0_0 f_0_6875 f_1_5 f_0_25;
   mkAabb f_0_3125 f_0_0 f_0_75 f_0_6875 f_1_5 f_1_0;
   mkAabb f_0_3125 f_0_0 f_0_0 f_0_6875 f_1_5 f_1_0;
   mkAabb f_0_6875 f_0_0 f_0_3125 f_1_0 f_1_5 f_0_6875;
   mkAabb f_0_0 f_0_0 f_0_3125 f_1_0 f_1_5 f_0_6875;
   mkAabb f_0_3125 f_0_0 f_0_0 f_0_6875 f_1_5 f_0_3125;
   mkAabb f_0_3125 f_0_0 f_0_6875 f_0_6875 f_1_5 f_1_0;
   mkAabb f_0_0 f_0_0 f_0_3125 f_1_0 f_1_5 f_0_6875;
   mkAabb f_0_3125 f_0_0 f_0_0 f_0_6875 f_1_5 f_0_3125;
   mkAabb f_0_3125 f_0_0 f_0_6875 f_0_6875 f_1_5 f_1_0;
   mkAabb f_0_25 f_0_0 f_0_25 f_0_75 f_1_5 f_0_75;
   mkAabb f_0_3125 f_0_0 f_0_0 f_0_6875 f_1_5 f_0_25;
   mkAabb f_0_3125 f_0_0 f_0_75 f_0_6875 f_1_5 f_1_0;
   mkAabb f_0_75 f_0_0 f_0_3125 f_1_0 f_1_5 f_0_6875;
   mkAabb f_0_0 f_0_0 f_0_3125 f_1_0 f_1_5 f_0_6875;
   mkAabb f_0_25 f_0_0 f_0_25 f_0_75 f_1_5 f_0_3125;
   mkAabb f_0_25 f_0_0 f_0_6875 f_0_75 f_1_5 f_0_75;
   mkAabb f_0_3125 f_0_0 f_0_0 f_0_6875 f_1_5 f_0_25;
   mkAabb f_0_3125 f_0_0 f_0_75 f_0_6875 f_1_5 f_1_0;
   mkAabb f_0_0 f_0_0 f_0_3125 f_1_0 f_1_5 f_0_6875;
   mkAabb f_0_25 f_0_0 f_0_25 f_0_75 f_1_5 f_0_3125;
   mkAabb f_0_25 f_0_0 f_0_6875 f_0_75 f_1_5 f_0_75;
   mkAabb f_0_3125 f_0_0 f_0_0 f_0_6875 f_1_5 f_0_25;
   mkAabb f_0_3125 f_0_0 f_0_75 f_0_6875 f_1_5 f_1_0;
   mkAabb f_0_3125 f_0_0 f_0_0 f_0_6875 f_1_5 f_1_0;
   mkAabb f_0_6875 f_0_0 f_0_3125 f_1_0 f_1_5 f_0_6875;
   mkAabb f_0_0 f_0_0 f_0_3125 f_1_0 f_1_5 f_0_6875;
   mkAabb f_0_3125 f_0_0 f_0_0 f_0_6875 f_1_5 f_0_3125;
   mkAabb f_0_3125 f_0_0 f_0_6875 f_0_6875 f_1_5 f_1_0;
   mkAabb f_0_0 f_0_0 f_0_3125 f_1_0 f_1_5 f_0_6875;
   mkAabb f_0_3125 f_0_0 f_0_0 f_0_6875 f_1_5 f_0_3125;
   mkAabb f_0_3125 f_0_0 f_0_6875 f_0_6875 f_1_5 f_1_0;
   mkAabb f_0_25 f_0_0 f_0_25 f_0_75 f_1_5 f_0_75;
   mkAabb f_0_3125 f_0_0 f_0_0 f_0_6875 f_1_5 f_0_25;
   mkAabb f_0_75 f_0_0 f_0_3125 f_1_0 f_1_5 f_0_6875;
   mkAabb f_0_0 f_0_0 f_0_3125 f_1_0 f_1_5 f_0_6875;
   mkAabb f_0_25 f_0_0 f_0_25 f_0_75 f_1_5 f_0_3125;
   mkAabb f_0_25 f_0_0 f_0_6875 f_0_75 f_1_5 f_0_75;
   mkAabb f_0_3125 f_0_0 f_0_0 f_0_6875 f_1_5 f_0_25;
   mkAabb f_0_0 f_0_0 f_0_3125 f_1_0 f_1_5 f_0_6875;
   mkAabb f_0_25 f_0_0 f_0_25 f_0_75 f_1_5 f_0_3125;
   mkAabb f_0_25 f_0_0 f_0_6875 f_0_75 f_1_5 f_0_75;
   mkAabb f_0_3125 f_0_0 f_0_0 f_0_6875 f_1_5 f_0_25;
   mkAabb f_0_3125 f_0_0 f_0_0 f_0_6875 f_1_5 f_0_6875;
   mkAabb f_0_6875 f_0_0 f_0_3125 f_1_0 f_1_5 f_0_6875;
   mkAabb f_0_0 f_0_0 f_0_3125 f_1_0 f_1_5 f_0_6875;
   mkAabb f_0_3125 f_0_0 f_0_0 f_0_6875 f_1_5 f_0_3125;
   mkAabb f_0_0 f_0_0 f_0_3125 f_1_0 f_1_5 f_0_6875;
   mkAabb f_0_3125 f_0_0 f_0_0 f_0_6875 f_1_5 f_0_3125;
   mkAabb f_0_25 f_0_0 f_0_25 f_0_75 f_1_5 f_0_75;
   mkAabb f_0_3125 f_0_0 f_0_0 f_0_6875 f_1_5 f_0_25;
   mkAabb f_0_3125 f_0_0 f_0_75 f_0_6875 f_1_5 f_1_0;
   mkAabb f_0_75 f_0_0 f_0_3125 f_1_0 f_1_5 f_0_6875;
   mkAabb f_0_0 f_0_0 f_0_3125 f_1_0 f_1_5 f_0_6875;
   mkAabb f_0_25 f_0_0 f_0_25 f_0_75 f_1_5 f_0_3125;
   mkAabb f_0_25 f_0_0 f_0_6875 f_0_75 f_1_5 f_0_75;
   mkAabb f_0_3125 f_0_0 f_0_0 f_0_6875 f_1_5 f_0_25;
   mkAabb f_0_3125 f_0_0 f_0_75 f_0_6875 f_1_5 f_1_0;
   mkAabb f_0_0 f_0_0 f_0_3125 f_1_0 f_1_5 f_0_6875;
   mkAabb f_0_25 f_0_0 f_0_25 f_0_75 f_1_5 f_0_3125;
   mkAabb f_0_25 f_0_0 f_0_6875 f_0_75 f_1_5 f_0_75;
   mkAabb f_0_3125 f_0_0 f_0_0 f_0_6875 f_1_5 f_0_25;
   mkAabb f_0_3125 f_0_0 f_0_75 f_0_6875 f_1_5 f_1_0;
   mkAabb f_0_3125 f_0_0 f_0_0 f_0_6875 f_1_5 f_1_0;
   mkAabb f_0_6875 f_0_0 f_0_3125 f_1_0 f_1_5 f_0_6875;
   mkAabb f_0_0 f_0_0 f_0_3125 f_1_0 f_1_5 f_0_6875;
   mkAabb f_0_3125 f_0_0 f_0_0 f_0_6875 f_1_5 f_0_3125;
   mkAabb f_0_3125 f_0_0 f_0_6875 f_0_6875 f_1_5 f_1_0;
   mkAabb f_0_0 f_0_0 f_0_3125 f_1_0 f_1_5 f_0_6875;
   mkAabb f_0_3125 f_0_0 f_0_0 f_0_6875 f_1_5 f_0_3125;
   mkAabb f_0_3125 f_0_0 f_0_6875 f_0_6875 f_1_5 f_1_0;
   mkAabb f_0_25 f_0_0 f_0_25 f_0_75 f_1_5 f_0_75;
   mkAabb f_0_3125 f_0_0 f_0_0 f_0_6875 f_1_5 f_0_25;
   mkAabb f_0_3125 f_0_0 f_0_75 f_0_6875 f_1_5 f_1_0;
   mkAabb f_0_75 f_0_0 f_0_3125 f_1_0 f_1_5 f_0_6875;
   mkAabb f_0_0 f_0_0 f_0_3125 f_1_0 f_1_5 f_0_6875;
   mkAabb f_0_25 f_0_0 f_0_25 f_0_75 f_1_5 f_0_3125;
   mkAabb f_0_25 f_0_0 f_0_6875 f_0_75 f_1_5 f_0_75;
   mkAabb f_0_3125 f_0_0 f_0_0 f_0_6875 f_1_5 f_0_25;
   mkAabb f_0_3125 f_0_0 f_0_75 f_0_6875 f_1_5 f_1_0;
   mkAabb f_0_0 f_0_0 f_0_3125 f_1_0 f_1_5 f_0_6875;
   mkAabb f_0_25 f_0_0 f_0_25 f_0_75 f_1_5 f_0_3125;
   mkAabb f_0_25 f_0_0 f_0_6875 f_0_75 f_1_5 f_0_75;
   mkAabb f_0_3125 f_0_0 f_0_0 f_0_6875 f_1_5 f_0_25;
   mkAabb f_0_3125 f_0_0 f_0_75 f_0_6875 f_1_5 f_1_0;
   mkAabb f_0_3125 f_0_0 f_0_0 f_0_6875 f_1_5 f_1_0;
   mkAabb f_0_6875 f_0_0 f_0_3125 f_1_0 f_1_5 f_0_6875;
   mkAabb f_0_0 f_0_0 f_0_3125 f_1_0 f_1_5 f_0_6875;
   mkAabb f_0_3125 f_0_0 f_0_0 f_0_6875 f_1_5 f_0_3125;
   mkAabb f_0_3125 f_0_0 f_0_6875 f_0_6875 f_1_5 f_1_0;
   mkAabb f_0_0 f_0_0 f_0_3125 f_1_0 f_1_5 f_0_6875;
   mkAabb f_0_3125 f_0_0 f_0_0 f_0_6875 f_1_5 f_0_3125;
   mkAabb f_0_3125 f_0_0 f_0_6875 f_0_6875 f_1_5 f_1_0;
   mkAabb f_0_25 f_0_0 f_0_25 f_0_75 f_1_5 f_0_75;
   mkAabb f_0_0 f_0_0 f_0_3125 f_0_75 f_1_5 f_0_6875;
   mkAabb f_0_25 f_0_0 f_0_25 f_0_75 f_1_5 f_0_3125].
Definition SHAPE_BOXES_47 : list Aabb :=
  [mkAabb f_0_25 f_0_0 f_0_6875 f_0_75 f_1_5 f_0_75;
   mkAabb f_0_0 f_0_0 f_0_3125 f_0_75 f_1_5 f_0_6875;
   mkAabb f_0_25 f_0_0 f_0_25 f_0_75 f_1_5 f_0_3125;
   mkAabb f_0_25 f_0_0 f_0_6875 f_0_75 f_1_5 f_0_75;
   mkAabb f_0_0 f_0_0 f_0_3125 f_0_6875 f_1_5 f_0_6875;
   mkAabb f_0_0 f_0_0 f_0_3125 f_0_6875 f_1_5 f_0_6875;
   mkAabb f_0_25 f_0_0 f_0_25 f_0_75 f_1_5 f_0_75;
   mkAabb f_0_3125 f_0_0 f_0_75 f_0_6875 f_1_5 f_1_0;
   mkAabb f_0_0 f_0_0 f_0_3125 f_0_75 f_1_5 f_0_6875;
   mkAabb f_0_25 f_0_0 f_0_25 f_0_75 f_1_5 f_0_3125;
   mkAabb f_0_25 f_0_0 f_0_6875 f_0_75 f_1_5 f_0_75;
   mkAabb f_0_3125 f_0_0 f_0_75 f_0_6875 f_1_5 f_1_0;
   mkAabb f_0_0 f_0_0 f_0_3125 f_0_75 f_1_5 f_0_6875;
   mkAabb f_0_25 f_0_0 f_0_25 f_0_75 f_1_5 f_0_3125;
   mkAabb f_0_25 f_0_0 f_0_6875 f_0_75 f_1_5 f_0_75;
   mkAabb f_0_3125 f_0_0 f_0_75 f_0_6875 f_1_5 f_1_0;
   mkAabb f_0_3125 f_0_0 f_0_3125 f_0_6875 f_1_5 f_1_0;
   mkAabb f_0_0 f_0_0 f_0_3125 f_0_6875 f_1_5 f_0_6875;
   mkAabb f_0_3125 f_0_0 f_0_6875 f_0_6875 f_1_5 f_1_0;
   mkAabb f_0_0 f_0_0 f_0_3125 f_0_6875 f_1_5 f_0_6875;
   mkAabb f_0_3125 f_0_0 f_0_6875 f_0_6875 f_1_5 f_1_0;
   mkAabb f_0_25 f_0_0 f_0_25 f_0_75 f_1_5 f_0_75;
   mkAabb f_0_3125 f_0_0 f_0_75 f_0_6875 f_1_5 f_1_0;
   mkAabb f_0_0 f_0_0 f_0_3125 f_0_75 f_1_5 f_0_6875;
   mkAabb f_0_25 f_0_0 f_0_25 f_0_75 f_1_5 f_0_3125;
   mkAabb f_0_25 f_0_0 f_0_6875 f_0_75 f_1_5 f_0_75;
   mkAabb f_0_3125 f_0_0 f_0_75 f_0_6875 f_1_5 f_1_0;
   mkAabb f_0_0 f_0_0 f_0_3125 f_0_75 f_1_5 f_0_6875;
   mkAabb f_0_25 f_0_0 f_0_25 f_0_75 f_1_5 f_0_3125;
   mkAabb f_0_25 f_0_0 f_0_6875 f_0_75 f_1_5 f_0_75;
   mkAabb f_0_3125 f_0_0 f_0_75 f_0_6875 f_1_5 f_1_0;
   mkAabb f_0_3125 f_0_0 f_0_3125 f_0_6875 f_1_5 f_1_0;
   mkAabb f_0_0 f_0_0 f_0_3125 f_0_6875 f_1_5 f_0_6875;
   mkAabb f_0_3125 f_0_0 f_0_6875 f_0_6875 f_1_5 f_1_0;
   mkAabb f_0_0 f_0_0 f_0_3125 f_0_6875 f_1_5 f_0_6875;
   mkAabb f_0_3125 f_0_0 f_0_6875 f_0_6875 f_1_5 f_1_0;
   mkAabb f_0_25 f_0_0 f_0_25 f_0_75 f_1_5 f_0_75;
   mkAabb f_0_3125 f_0_0 f_0_0 f_0_6875 f_1_5 f_0_25;
   mkAabb f_0_0 f_0_0 f_0_3125 f_0_75 f_1_5 f_0_6875;
   mkAabb f_0_25 f_0_0 f_0_25 f_0_75 f_1_5 f_0_3125;
   mkAabb f_0_25 f_0_0 f_0_6875 f_0_75 f_1_5 f_0_75;
   mkAabb f_0_3125 f_0_0 f_0_0 f_0_6875 f_1_5 f_0_25;
   mkAabb f_0_0 f_0_0 f_0_3125 f_0_75 f_1_5 f_0_6875;
   mkAabb f_0_25 f_0_0 f_0_25 f_0_75 f_1_5 f_0_3125;
   mkAabb f_0_25 f_0_0 f_0_6875 f_0_75 f_1_5 f_0_75;
   mkAabb f_0_3125 f_0_0 f_0_0 f_0_6875 f_1_5 f_0_25;
   mkAabb f_0_3125 f_0_0 f_0_0 f_0_6875 f_1_5 f_0_6875;
   mkAabb f_0_0 f_0_0 f_0_3125 f_0_6875 f_1_5 f_0_6875;
   mkAabb f_0_3125 f_0_0 f_0_0 f_0_6875 f_1_5 f_0_3125;
   mkAabb f_0_0 f_0_0 f_0_3125 f_0_6875 f_1_5 f_0_6875;
   mkAabb f_0_3125 f_0_0 f_0_0 f_0_6875 f_1_5 f_0_3125;
   mkAabb f_0_25 f_0_0 f_0_25 f_0_75 f_1_5 f_0_75;
   mkAabb f_0_3125 f_0_0 f_0_0 f_0_6875 f_1_5 f_0_25;
   mkAabb f_0_3125 f_0_0 f_0_75 f_0_6875 f_1_5 f_1_0;
   mkAabb f_0_0 f_0_0 f_0_3125 f_0_75 f_1_5 f_0_6875;
   mkAabb f_0_25 f_0_0 f_0_25 f_0_75 f_1_5 f_0_3125;
   mkAabb f_0_25 f_0_0 f_0_6875 f_0_75 f_1_5 f_0_75;
   mkAabb f_0_3125 f_0_0 f_0_0 f_0_6875 f_1_5 f_0_25;
   mkAabb f_0_3125 f_0_0 f_0_75 f_0_6875 f_1_5 f_1_0;
   mkAabb f_0_0 f_0_0 f_0_3125 f_0_75 f_1_5 f_0_6875;
   mkAabb f_0_25 f_0_0 f_0_25 f_0_75 f_1_5 f_0_3125;
   mkAabb f_0_25 f_0_0 f_0_6875 f_0_75 f_1_5 f_0_75;
   mkAabb f_0_3125 f_0_0 f_0_0 f_0_6875 f_1_5 f_0_25;
   mkAabb f_0_3125 f_0_0 f_0_75 f_0_6875 f_1_5 f_1_0;
   mkAabb f_0_3125 f_0_0 f_0_0 f_0_6875 f_1_5 f_1_0;
   mkAabb f_0_0 f_0_0 f_0_3125 f_0_6875 f_1_5 f_0_6875;
   mkAabb f_0_3125 f_0_0 f_0_0 f_0_6875 f_1_5 f_0_3125;
   mkAabb f_0_3125 f_0_0 f_0_6875 f_0_6875 f_1_5 f_1_0;
   mkAabb f_0_0 f_0_0 f_0_3125 f_0_6875 f_1_5 f_0_6875;
   mkAabb f_0_3125 f_0_0 f_0_0 f_0_6875 f_1_5 f_0_3125;
   mkAabb f_0_3125 f_0_0 f_0_6875 f_0_6875 f_1_5 f_1_0;
   mkAabb f_0_25 f_0_0 f_0_25 f_0_75 f_1_5 f_0_75;
   mkAabb f_0_3125 f_0_0 f_0_0 f_0_6875 f_1_5 f_0_25;
   mkAabb f_0_3125 f_0_0 f_0_75 f_0_6875 f_1_5 f_1_0;
   mkAabb f_0_0 f_0_0 f_0_3125 f_0_75 f_1_5 f_0_6875;
   mkAabb f_0_25 f_0_0 f_0_25 f_0_75 f_1_5 f_0_3125;
   mkAabb f_0_25 f_0_0 f_0_6875 f_0_75 f_1_5 f_0_75;
   mkAabb f_0_3125 f_0_0 f_0_0 f_0_6875 f_1_5 f_0_25;
   mkAabb f_0_3125 f_0_0 f_0_75 f_0_6875 f_1_5 f_1_0;
   mkAabb f_0_0 f_0_0 f_0_3125 f_0_75 f_1_5 f_0_6875;
   mkAabb f_0_25 f_0_0 f_0_25 f_0_75 f_1_5 f_0_3125;
   mkAabb f_0_25 f_0_0 f_0_6875 f_0_75 f_1_5 f_0_75;
   mkAabb f_0_3125 f_0_0 f_0_0 f_0_6875 f_1_5 f_0_25;
   mkAabb f_0_3125 f_0_0 f_0_75 f_0_6875 f_1_5 f_1_0;
   mkAabb f_0_3125 f_0_0 f_0_0 f_0_6875 f_1_5 f_1_0;
   mkAabb f_0_0 f_0_0 f_0_3125 f_0_6875 f_1_5 f_0_6875;
   mkAabb f_0_3125 f_0_0 f_0_0 f_0_6875 f_1_5 f_0_3125;
   mkAabb f_0_3125 f_0_0 f_0_6875 f_0_6875 f_1_5 f_1_0;
   mkAabb f_0_0 f_0_0 f_0_3125 f_0_6875 f_1_5 f_0_6875;
   mkAabb f_0_3125 f_0_0 f_0_0 f_0_6875 f_1_5 f_0_3125;
   mkAabb f_0_3125 f_0_0 f_0_6875 f_0_6875 f_1_5 f_1_0;
   mkAabb f_0_25 f_0_0 f_0_25 f_0_75 f_1_5 f_0_75;
   mkAabb f_0_3125 f_0_0 f_0_0 f_0_6875 f_1_5 f_0_25;
   mkAabb f_0_0 f_0_0 f_0_3125 f_0_75 f_1_5 f_0_6875;
   mkAabb f_0_25 f_0_0 f_0_25 f_0_75 f_1_5 f_0_3125;
   mkAabb f_0_25 f_0_0 f_0_6875 f_0_75 f_1_5 f_0_75;
   mkAabb f_0_3125 f_0_0 f_0_0 f_0_6875 f_1_5 f_0_25;
   mkAabb f_0_0 f_0_0 f_0_3125 f_0_75 f_1_5 f_0_6875;
   mkAabb f_0_25 f_0_0 f_0_25 f_0_75 f_1_5 f_0_3125;
   mkAabb f_0_25 f_0_0 f_0_6875 f_0_75 f_1_5 f_0_75;
   mkAabb f_0_3125 f_0_0 f_0_0 f_0_6875 f_1_5 f_0_25;
   mkAabb f_0_3125 f_0_0 f_0_0 f_0_6875 f_1_5 f_0_6875;
   mkAabb f_0_0 f_0_0 f_0_3125 f_0_6875 f_1_5 f_0_6875;
   mkAabb f_0_3125 f_0_0 f_0_0 f_0_6875 f_1_5 f_0_3125;
   mkAabb f_0_0 f_0_0 f_0_3125 f_0_6875 f_1_5 f_0_6875;
   mkAabb f_0_3125 f_0_0 f_0_0 f_0_6875 f_1_5 f_0_3125;
   mkAabb f_0_25 f_0_0 f_0_25 f_0_75 f_1_5 f_0_75;
   mkAabb f_0_3125 f_0_0 f_0_0 f_0_6875 f_1_5 f_0_25;
   mkAabb f_0_3125 f_0_0 f_0_75 f_0_6875 f_1_5 f_1_0;
   mkAabb f_0_0 f_0_0 f_0_3125 f_0_75 f_1_5 f_0_6875;
   mkAabb f_0_25 f_0_0 f_0_25 f_0_75 f_1_5 f_0_3125;
   mkAabb f_0_25 f_0_0 f_0_6875 f_0_75 f_1_5 f_0_75;
   mkAabb f_0_3125 f_0_0 f_0_0 f_0_6875 f_1_5 f_0_25;
   mkAabb f_0_3125 f_0_0 f_0_75 f_0_6875 f_1_5 f_1_0;
   mkAabb f_0_0 f_0_0 f_0_3125 f_0_75 f_1_5 f_0_6875;
   mkAabb f_0_25 f_0_0 f_0_25 f_0_75 f_1_5 f_0_3125;
   mkAabb f_0_25 f_0_0 f_0_6875 f_0_75 f_1_5 f_0_75;
   mkAabb f_0_3125 f_0_0 f_0_0 f_0_6875 f_1_5 f_0_25;
   mkAabb f_0_3125 f_0_0 f_0_75 f_0_6875 f_1_5 f_1_0;
   mkAabb f_0_3125 f_0_0 f_0_0 f_0_6875 f_1_5 f_1_0;
   mkAabb f_0_0 f_0_0 f_0_3125 f_0_6875 f_1_5 f_0_6875;
   mkAabb f_0_3125 f_0_0 f_0_0 f_0_6875 f_1_5 f_0_3125;
   mkAabb f_0_3125 f_0_0 f_0_6875 f_0_6875 f_1_5 f_1_0;
   mkAabb f_0_0 f_0_0 f_0_3125 f_0_6875 f_1_5 f_0_6875;
   mkAabb f_0_3125 f_0_0 f_0_0 f_0_6875 f_1_5 f_0_3125;
   mkAabb f_0_3125 f_0_0 f_0_6875 f_0_6875 f_1_5 f_1_0;
   mkAabb f_0_25 f_0_0 f_0_25 f_0_75 f_1_5 f_0_75;
   mkAabb f_0_3125 f_0_0 f_0_0 f_0_6875 f_1_5 f_0_25;
   mkAabb f_0_3125 f_0_0 f_0_75 f_0_6875 f_1_5 f_1_0;
   mkAabb f_0_0 f_0_0 f_0_3125 f_0_75 f_1_5 f_0_6875;
   mkAabb f_0_25 f_0_0 f_0_25 f_0_75 f_1_5 f_0_3125;
   mkAabb f_0_25 f_0_0 f_0_6875 f_0_75 f_1_5 f_0_75;
   mkAabb f_0_3125 f_0_0 f_0_0 f_0_6875 f_1_5 f_0_25;
   mkAabb f_0_3125 f_0_0 f_0_75 f_0_6875 f_1_5 f_1_0;
   mkAabb f_0_0 f_0_0 f_0_3125 f_0_75 f_1_5 f_0_6875;
   mkAabb f_0_25 f_0_0 f_0_25 f_0_75 f_1_5 f_0_3125;
   mkAabb f_0_25 f_0_0 f_0_6875 f_0_75 f_1_5 f_0_75;
   mkAabb f_0_3125 f_0_0 f_0_0 f_0_6875 f_1_5 f_0_25;
   mkAabb f_0_3125 f_0_0 f_0_75 f_0_6875 f_1_5 f_1_0;
   mkAabb f_0_3125 f_0_0 f_0_0 f_0_6875 f_1_5 f_1_0;
   mkAabb f_0_0 f_0_0 f_0_3125 f_0_6875 f_1_5 f_0_6875;
   mkAabb f_0_3125 f_0_0 f_0_0 f_0_6875 f_1_5 f_0_3125;
   mkAabb f_0_3125 f_0_0 f_0_6875 f_0_6875 f_1_5 f_1_0;
   mkAabb f_0_0 f_0_0 f_0_3125 f_0_6875 f_1_5 f_0_6875;
   mkAabb f_0_3125 f_0_0 f_0_0 f_0_6875 f_1_5 f_0_3125;
   mkAabb f_0_3125 f_0_0 f_0_6875 f_0_6875 f_1_5 f_1_0;
   mkAabb f_0_25 f_0_0 f_0_25 f_0_75 f_1_5 f_0_75;
   mkAabb f_0_75 f_0_0 f_0_3125 f_1_0 f_1_5 f_0_6875;
   mkAabb f_0_0 f_0_0 f_0_3125 f_1_0 f_1_5 f_0_6875;
   mkAabb f_0_25 f_0_0 f_0_25 f_0_75 f_1_5 f_0_3125].
Definition SHAPE_BOXES_48 : list Aabb :=
  [mkAabb f_0_25 f_0_0 f_0_6875 f_0_75 f_1_5 f_0_75;
   mkAabb f_0_0 f_0_0 f_0_3125 f_1_0 f_1_5 f_0_6875;
   mkAabb f_0_25 f_0_0 f_0_25 f_0_75 f_1_5 f_0_3125;
   mkAabb f_0_25 f_0_0 f_0_6875 f_0_75 f_1_5 f_0_75;
   mkAabb f_0_3125 f_0_0 f_0_3125 f_1_0 f_1_5 f_0_6875;
   mkAabb f_0_0 f_0_0 f_0_3125 f_1_0 f_1_5 f_0_6875;
   mkAabb f_0_0 f_0_0 f_0_3125 f_1_0 f_1_5 f_0_6875;
   mkAabb f_0_25 f_0_0 f_0_25 f_0_75 f_1_5 f_0_75;
   mkAabb f_0_3125 f_0_0 f_0_75 f_0_6875 f_1_5 f_1_0;
   mkAabb f_0_75 f_0_0 f_0_3125 f_1_0 f_1_5 f_0_6875;
   mkAabb f_0_0 f_0_0 f_0_3125 f_1_0 f_1_5 f_0_6875;
   mkAabb f_0_25 f_0_0 f_0_25 f_0_75 f_1_5 f_0_3125;
   mkAabb f_0_25 f_0_0 f_0_6875 f_0_75 f_1_5 f_0_75;
   mkAabb f_0_3125 f_0_0 f_0_75 f_0_6875 f_1_5 f_1_0;
   mkAabb f_0_0 f_0_0 f_0_3125 f_1_0 f_1_5 f_0_6875;
   mkAabb f_0_25 f_0_0 f_0_25 f_0_75 f_1_5 f_0_3125;
   mkAabb f_0_25 f_0_0 f_0_6875 f_0_75 f_1_5 f_0_75;
   mkAabb f_0_3125 f_0_0 f_0_75 f_0_6875 f_1_5 f_1_0;
   mkAabb f_0_3125 f_0_0 f_0_3125 f_0_6875 f_1_5 f_1_0;
   mkAabb f_0_6875 f_0_0 f_0_3125 f_1_0 f_1_5 f_0_6875;
   mkAabb f_0_0 f_0_0 f_0_3125 f_1_0 f_1_5 f_0_6875;
   mkAabb f_0_3125 f_0_0 f_0_6875 f_0_6875 f_1_5 f_1_0;
   mkAabb f_0_0 f_0_0 f_0_3125 f_1_0 f_1_5 f_0_6875;
   mkAabb f_0_3125 f_0_0 f_0_6875 f_0_6875 f_1_5 f_1_0;
   mkAabb f_0_25 f_0_0 f_0_25 f_0_75 f_1_5 f_0_75;
   mkAabb f_0_3125 f_0_0 f_0_75 f_0_6875 f_1_5 f_1_0;
   mkAabb f_0_75 f_0_0 f_0_3125 f_1_0 f_1_5 f_0_6875;
   mkAabb f_0_0 f_0_0 f_0_3125 f_1_0 f_1_5 f_0_6875;
   mkAabb f_0_25 f_0_0 f_0_25 f_0_75 f_1_5 f_0_3125;
   mkAabb f_0_25 f_0_0 f_0_6875 f_0_75 f_1_5 f_0_75;
   mkAabb f_0_3125 f_0_0 f_0_75 f_0_6875 f_1_5 f_1_0;
   mkAabb f_0_0 f_0_0 f_0_3125 f_1_0 f_1_5 f_0_6875;
   mkAabb f_0_25 f_0_0 f_0_25 f_0_75 f_1_5 f_0_3125;
   mkAabb f_0_25 f_0_0 f_0_6875 f_0_75 f_1_5 f_0_75;
   mkAabb f_0_3125 f_0_0 f_0_75 f_0_6875 f_1_5 f_1_0;
   mkAabb f_0_3125 f_0_0 f_0_3125 f_0_6875 f_1_5 f_1_0;
   mkAabb f_0_6875 f_0_0 f_0_3125 f_1_0 f_1_5 f_0_6875;
   mkAabb f_0_0 f_0_0 f_0_3125 f_1_0 f_1_5 f_0_6875;
   mkAabb f_0_3125 f_0_0 f_0_6875 f_0_6875 f_1_5 f_1_0;
   mkAabb f_0_0 f_0_0 f_0_3125 f_1_0 f_1_5 f_0_6875;
   mkAabb f_0_3125 f_0_0 f_0_6875 f_0_6875 f_1_5 f_1_0;
   mkAabb f_0_25 f_0_0 f_0_25 f_0_75 f_1_5 f_0_75;
   mkAabb f_0_3125 f_0_0 f_0_0 f_0_6875 f_1_5 f_0_25;
   mkAabb f_0_75 f_0_0 f_0_3125 f_1_0 f_1_5 f_0_6875;
   mkAabb f_0_0 f_0_0 f_0_3125 f_1_0 f_1_5 f_0_6875;
   mkAabb f_0_25 f_0_0 f_0_25 f_0_75 f_1_5 f_0_3125;
   mkAabb f_0_25 f_0_0 f_0_6875 f_0_75 f_1_5 f_0_75;
   mkAabb f_0_3125 f_0_0 f_0_0 f_0_6875 f_1_5 f_0_25;
   mkAabb f_0_0 f_0_0 f_0_3125 f_1_0 f_1_5 f_0_6875;
   mkAabb f_0_25 f_0_0 f_0_25 f_0_75 f_1_5 f_0_3125;
   mkAabb f_0_25 f_0_0 f_0_6875 f_0_75 f_1_5 f_0_75;
   mkAabb f_0_3125 f_0_0 f_0_0 f_0_6875 f_1_5 f_0_25;
   mkAabb f_0_3125 f_0_0 f_0_0 f_0_6875 f_1_5 f_0_6875;
   mkAabb f_0_6875 f_0_0 f_0_3125 f_1_0 f_1_5 f_0_6875;
   mkAabb f_0_0 f_0_0 f_0_3125 f_1_0 f_1_5 f_0_6875;
   mkAabb f_0_3125 f_0_0 f_0_0 f_0_6875 f_1_5 f_0_3125;
   mkAabb f_0_0 f_0_0 f_0_3125 f_1_0 f_1_5 f_0_6875;
   mkAabb f_0_3125 f_0_0 f_0_0 f_0_6875 f_1_5 f_0_3125;
   mkAabb f_0_25 f_0_0 f_0_25 f_0_75 f_1_5 f_0_75;
   mkAabb f_0_3125 f_0_0 f_0_0 f_0_6875 f_1_5 f_0_25;
   mkAabb f_0_3125 f_0_0 f_0_75 f_0_6875 f_1_5 f_1_0;
   mkAabb f_0_75 f_0_0 f_0_3125 f_1_0 f_1_5 f_0_6875;
   mkAabb f_0_0 f_0_0 f_0_3125 f_1_0 f_1_5 f_0_6875;
   mkAabb f_0_25 f_0_0 f_0_25 f_0_75 f_1_5 f_0_3125;
   mkAabb f_0_25 f_0_0 f_0_6875 f_0_75 f_1_5 f_0_75;
   mkAabb f_0_3125 f_0_0 f_0_0 f_0_6875 f_1_5 f_0_25;
   mkAabb f_0_3125 f_0_0 f_0_75 f_0_6875 f_1_5 f_1_0;
   mkAabb f_0_0 f_0_0 f_0_3125 f_1_0 f_1_5 f_0_6875;
   mkAabb f_0_25 f_0_0 f_0_25 f_0_75 f_1_5 f_0_3125;
   mkAabb f_0_25 f_0_0 f_0_6875 f_0_75 f_1_5 f_0_75;
   mkAabb f_0_3125 f_0_0 f_0_0 f_0_6875 f_1_5 f_0_25;
   mkAabb f_0_3125 f_0_0 f_0_75 f_0_6875 f_1_5 f_1_0;
   mkAabb f_0_3125 f_0_0 f_0_0 f_0_6875 f_1_5 f_1_0;
   mkAabb f_0_6875 f_0_0 f_0_3125 f_1_0 f_1_5 f_0_6875;
   mkAabb f_0_0 f_0_0 f_0_3125 f_1_0 f_1_5 f_0_6875;
   mkAabb f_0_3125 f_0_0 f_0_0 f_0_6875 f_1_5 f_0_3125;
   mkAabb f_0_3125 f_0_0 f_0_6875 f_0_6875 f_1_5 f_1_0;
   mkAabb f_0_0 f_0_0 f_0_3125 f_1_0 f_1_5 f_0_6875;
   mkAabb f_0_3125 f_0_0 f_0_0 f_0_6875 f_1_5 f_0_3125;
   mkAabb f_0_3125 f_0_0 f_0_6875 f_0_6875 f_1_5 f_1_0;
   mkAabb f_0_25 f_0_0 f_0_25 f_0_75 f_1_5 f_0_75;
   mkAabb f_0_3125 f_0_0 f_0_0 f_0_6875 f_1_5 f_0_25;
   mkAabb f_0_3125 f_0_0 f_0_75 f_0_6875 f_1_5 f_1_0;
   mkAabb f_0_75 f_0_0 f_0_3125 f_1_0 f_1_5 f_0_6875;
   mkAabb f_0_0 f_0_0 f_0_3125 f_1_0 f_1_5 f_0_6875;
   mkAabb f_0_25 f_0_0 f_0_25 f_0_75 f_1_5 f_0_3125;
   mkAabb f_0_25 f_0_0 f_0_6875 f_0_75 f_1_5 f_0_75;
   mkAabb f_0_3125 f_0_0 f_0_0 f_0_6875 f_1_5 f_0_25;
   mkAabb f_0_3125 f_0_0 f_0_75 f_0_6875 f_1_5 f_1_0;
   mkAabb f_0_0 f_0_0 f_0_3125 f_1_0 f_1_5 f_0_6875;
   mkAabb f_0_25 f_0_0 f_0_25 f_0_75 f_1_5 f_0_3125;
   mkAabb f_0_25 f_0_0 f_0_6875 f_0_75 f_1_5 f_0_75;
   mkAabb f_0_3125 f_0_0 f_0_0 f_0_6875 f_1_5 f_0_25;
   mkAabb f_0_3125 f_0_0 f_0_75 f_0_6875 f_1_5 f_1_0;
   mkAabb f_0_3125 f_0_0 f_0_0 f_0_6875 f_1_5 f_1_0;
   mkAabb f_0_6875 f_0_0 f_0_3125 f_1_0 f_1_5 f_0_6875;
   mkAabb f_0_0 f_0_0 f_0_3125 f_1_0 f_1_5 f_0_6875;
   mkAabb f_0_3125 f_0_0 f_0_0 f_0_6875 f_1_5 f_0_3125;
   mkAabb f_0_3125 f_0_0 f_0_6875 f_0_6875 f_1_5 f_1_0;
   mkAabb f_0_0 f_0_0 f_0_3125 f_1_0 f_1_5 f_0_6875;
   mkAabb f_0_3125 f_0_0 f_0_0 f_0_6875 f_1_5 f_0_3125;
   mkAabb f_0_3125 f_0_0 f_0_6875 f_0_6875 f_1_5 f_1_0;
   mkAabb f_0_25 f_0_0 f_0_25 f_0_75 f_1_5 f_0_75;
   mkAabb f_0_3125 f_0_0 f_0_0 f_0_6875 f_1_5 f_0_25;
   mkAabb f_0_75 f_0_0 f_0_3125 f_1_0 f_1_5 f_0_6875;
   mkAabb f_0_0 f_0_0 f_0_3125 f_1_0 f_1_5 f_0_6875;
   mkAabb f_0_25 f_0_0 f_0_25 f_0_75 f_1_5 f_0_3125;
   mkAabb f_0_25 f_0_0 f_0_6875 f_0_75 f_1_5 f_0_75;
   mkAabb f_0_3125 f_0_0 f_0_0 f_0_6875 f_1_5 f_0_25;
   mkAabb f_0_0 f_0_0 f_0_3125 f_1_0 f_1_5 f_0_6875;
   mkAabb f_0_25 f_0_0 f_0_25 f_0_75 f_1_5 f_0_3125;
   mkAabb f_0_25 f_0_0 f_0_6875 f_0_75 f_1_5 f_0_75;
   mkAabb f_0_3125 f_0_0 f_0_0 f_0_6875 f_1_5 f_0_25;
   mkAabb f_0_3125 f_0_0 f_0_0 f_0_6875 f_1_5 f_0_6875;
   mkAabb f_0_6875 f_0_0 f_0_3125 f_1_0 f_1_5 f_0_6875;
   mkAabb f_0_0 f_0_0 f_0_3125 f_1_0 f_1_5 f_0_6875;
   mkAabb f_0_3125 f_0_0 f_0_0 f_0_6875 f_1_5 f_0_3125;
   mkAabb f_0_0 f_0_0 f_0_3125 f_1_0 f_1_5 f_0_6875;
   mkAabb f_0_3125 f_0_0 f_0_0 f_0_6875 f_1_5 f_0_3125;
   mkAabb f_0_25 f_0_0 f_0_25 f_0_75 f_1_5 f_0_75;
   mkAabb f_0_3125 f_0_0 f_0_0 f_0_6875 f_1_5 f_0_25;
   mkAabb f_0_3125 f_0_0 f_0_75 f_0_6875 f_1_5 f_1_0;
   mkAabb f_0_75 f_0_0 f_0_3125 f_1_0 f_1_5 f_0_6875;
   mkAabb f_0_0 f_0_0 f_0_3125 f_1_0 f_1_5 f_0_6875;
   mkAabb f_0_25 f_0_0 f_0_25 f_0_75 f_1_5 f_0_3125;
   mkAabb f_0_25 f_0_0 f_0_6875 f_0_75 f_1_5 f_0_75;
   mkAabb f_0_3125 f_0_0 f_0_0 f_0_6875 f_1_5 f_0_25;
   mkAabb f_0_3125 f_0_0 f_0_75 f_0_6875 f_1_5 f_1_0;
   mkAabb f_0_0 f_0_0 f_0_3125 f_1_0 f_1_5 f_0_6875;
   mkAabb f_0_25 f_0_0 f_0_25 f_0_75 f_1_5 f_0_3125;
   mkAabb f_0_25 f_0_0 f_0_6875 f_0_75 f_1_5 f_0_75;
   mkAabb f_0_3125 f_0_0 f_0_0 f_0_6875 f_1_5 f_0_25;
   mkAabb f_0_3125 f_0_0 f_0_75 f_0_6875 f_1_5 f_1_0;
   mkAabb f_0_3125 f_0_0 f_0_0 f_0_6875 f_1_5 f_1_0;
   mkAabb f_0_6875 f_0_0 f_0_3125 f_1_0 f_1_5 f_0_6875;
   mkAabb f_0_0 f_0_0 f_0_3125 f_1_0 f_1_5 f_0_6875;
   mkAabb f_0_3125 f_0_0 f_0_0 f_0_6875 f_1_5 f_0_3125;
   mkAabb f_0_3125 f_0_0 f_0_6875 f_0_6875 f_1_5 f_1_0;
   mkAabb f_0_0 f_0_0 f_0_3125 f_1_0 f_1_5 f_0_6875;
   mkAabb f_0_3125 f_0_0 f_0_0 f_0_6875 f_1_5 f_0_3125;
   mkAabb f_0_3125 f_0_0 f_0_6875 f_0_6875 f_1_5 f_1_0;
   mkAabb f_0_25 f_0_0 f_0_25 f_0_75 f_1_5 f_0_75;
   mkAabb f_0_3125 f_0_0 f_0_0 f_0_6875 f_1_5 f_0_25;
   mkAabb f_0_3125 f_0_0 f_0_75 f_0_6875 f_1_5 f_1_0;
   mkAabb f_0_75 f_0_0 f_0_3125 f_1_0 f_1_5 f_0_6875;
   mkAabb f_0_0 f_0_0 f_0_3125 f_1_0 f_1_5 f_0_6875;
   mkAabb f_0_25 f_0_0 f_0_25 f_0_75 f_1_5 f_0_3125;
   mkAabb f_0_25 f_0_0 f_0_6875 f_0_75 f_1_5 f_0_75;
   mkAabb f_0_3125 f_0_0 f_0_0 f_0_6875 f_1_5 f_0_25;
   mkAabb f_0_3125 f_0_0 f_0_75 f_0_6875 f_1_5 f_1_0].
Definition SHAPE_BOXES_49 : list Aabb :=
  [mkAabb f_0_0 f_0_0 f_0_3125 f_1_0 f_1_5 f_0_6875;
   mkAabb f_0_25 f_0_0 f_0_25 f_0_75 f_1_5 f_0_3125;
   mkAabb f_0_25 f_0_0 f_0_6875 f_0_75 f_1_5 f_0_75;
   mkAabb f_0_3125 f_0_0 f_0_0 f_0_6875 f_1_5 f_0_25;
   mkAabb f_0_3125 f_0_0 f_0_75 f_0_6875 f_1_5 f_1_0;
   mkAabb f_0_3125 f_0_0 f_0_0 f_0_6875 f_1_5 f_1_0;
   mkAabb f_0_6875 f_0_0 f_0_3125 f_1_0 f_1_5 f_0_6875;
   mkAabb f_0_0 f_0_0 f_0_3125 f_1_0 f_1_5 f_0_6875;
   mkAabb f_0_3125 f_0_0 f_0_0 f_0_6875 f_1_5 f_0_3125;
   mkAabb f_0_3125 f_0_0 f_0_6875 f_0_6875 f_1_5 f_1_0;
   mkAabb f_0_0 f_0_0 f_0_3125 f_1_0 f_1_5 f_0_6875;
   mkAabb f_0_3125 f_0_0 f_0_0 f_0_6875 f_1_5 f_0_3125;
   mkAabb f_0_3125 f_0_0 f_0_6875 f_0_6875 f_1_5 f_1_0;
   mkAabb f_0_25 f_0_0 f_0_25 f_0_75 f_1_5 f_0_75;
   mkAabb f_0_75 f_0_0 f_0_3125 f_1_0 f_1_5 f_0_6875;
   mkAabb f_0_0 f_0_0 f_0_3125 f_1_0 f_1_5 f_0_6875;
   mkAabb f_0_25 f_0_0 f_0_25 f_0_75 f_1_5 f_0_3125;
   mkAabb f_0_25 f_0_0 f_0_6875 f_0_75 f_1_5 f_0_75;
   mkAabb f_0_0 f_0_0 f_0_3125 f_1_0 f_1_5 f_0_6875;
   mkAabb f_0_25 f_0_0 f_0_25 f_0_75 f_1_5 f_0_3125;
   mkAabb f_0_25 f_0_0 f_0_6875 f_0_75 f_1_5 f_0_75;
   mkAabb f_0_3125 f_0_0 f_0_3125 f_1_0 f_1_5 f_0_6875;
   mkAabb f_0_0 f_0_0 f_0_3125 f_1_0 f_1_5 f_0_6875;
   mkAabb f_0_0 f_0_0 f_0_3125 f_1_0 f_1_5 f_0_6875;
   mkAabb f_0_25 f_0_0 f_0_25 f_0_75 f_1_5 f_0_75;
   mkAabb f_0_3125 f_0_0 f_0_75 f_0_6875 f_1_5 f_1_0;
   mkAabb f_0_75 f_0_0 f_0_3125 f_1_0 f_1_5 f_0_6875;
   mkAabb f_0_0 f_0_0 f_0_3125 f_1_0 f_1_5 f_0_6875;
   mkAabb f_0_25 f_0_0 f_0_25 f_0_75 f_1_5 f_0_3125;
   mkAabb f_0_25 f_0_0 f_0_6875 f_0_75 f_1_5 f_0_75;
   mkAabb f_0_3125 f_0_0 f_0_75 f_0_6875 f_1_5 f_1_0;
   mkAabb f_0_0 f_0_0 f_0_3125 f_1_0 f_1_5 f_0_6875;
   mkAabb f_0_25 f_0_0 f_0_25 f_0_75 f_1_5 f_0_3125;
   mkAabb f_0_25 f_0_0 f_0_6875 f_0_75 f_1_5 f_0_75;
   mkAabb f_0_3125 f_0_0 f_0_75 f_0_6875 f_1_5 f_1_0;
   mkAabb f_0_3125 f_0_0 f_0_3125 f_0_6875 f_1_5 f_1_0;
   mkAabb f_0_6875 f_0_0 f_0_3125 f_1_0 f_1_5 f_0_6875;
   mkAabb f_0_0 f_0_0 f_0_3125 f_1_0 f_1_5 f_0_6875;
   mkAabb f_0_3125 f_0_0 f_0_6875 f_0_6875 f_1_5 f_1_0;
   mkAabb f_0_0 f_0_0 f_0_3125 f_1_0 f_1_5 f_0_6875;
   mkAabb f_0_3125 f_0_0 f_0_6875 f_0_6875 f_1_5 f_1_0;
   mkAabb f_0_25 f_0_0 f_0_25 f_0_75 f_1_5 f_0_75;
   mkAabb f_0_3125 f_0_0 f_0_75 f_0_6875 f_1_5 f_1_0;
   mkAabb f_0_75 f_0_0 f_0_3125 f_1_0 f_1_5 f_0_6875;
   mkAabb f_0_0 f_0_0 f_0_3125 f_1_0 f_1_5 f_0_6875;
   mkAabb f_0_25 f_0_0 f_0_25 f_0_75 f_1_5 f_0_3125;
   mkAabb f_0_25 f_0_0 f_0_6875 f_0_75 f_1_5 f_0_75;
   mkAabb f_0_3125 f_0_0 f_0_75 f_0_6875 f_1_5 f_1_0;
   mkAabb f_0_0 f_0_0 f_0_3125 f_1_0 f_1_5 f_0_6875;
   mkAabb f_0_25 f_0_0 f_0_25 f_0_75 f_1_5 f_0_3125;
   mkAabb f_0_25 f_0_0 f_0_6875 f_0_75 f_1_5 f_0_75;
   mkAabb f_0_3125 f_0_0 f_0_75 f_0_6875 f_1_5 f_1_0;
   mkAabb f_0_3125 f_0_0 f_0_3125 f_0_6875 f_1_5 f_1_0;
   mkAabb f_0_6875 f_0_0 f_0_3125 f_1_0 f_1_5 f_0_6875;
   mkAabb f_0_0 f_0_0 f_0_3125 f_1_0 f_1_5 f_0_6875;
   mkAabb f_0_3125 f_0_0 f_0_6875 f_0_6875 f_1_5 f_1_0;
   mkAabb f_0_0 f_0_0 f_0_3125 f_1_0 f_1_5 f_0_6875;
   mkAabb f_0_3125 f_0_0 f_0_6875 f_0_6875 f_1_5 f_1_0;
   mkAabb f_0_25 f_0_0 f_0_25 f_0_75 f_1_5 f_0_75;
   mkAabb f_0_3125 f_0_0 f_0_0 f_0_6875 f_1_5 f_0_25;
   mkAabb f_0_75 f_0_0 f_0_3125 f_1_0 f_1_5 f_0_6875;
   mkAabb f_0_0 f_0_0 f_0_3125 f_1_0 f_1_5 f_0_6875;
   mkAabb f_0_25 f_0_0 f_0_25 f_0_75 f_1_5 f_0_3125;
   mkAabb f_0_25 f_0_0 f_0_6875 f_0_75 f_1_5 f_0_75;
   mkAabb f_0_3125 f_0_0 f_0_0 f_0_6875 f_1_5 f_0_25;
   mkAabb f_0_0 f_0_0 f_0_3125 f_1_0 f_1_5 f_0_6875;
   mkAabb f_0_25 f_0_0 f_0_25 f_0_75 f_1_5 f_0_3125;
   mkAabb f_0_25 f_0_0 f_0_6875 f_0_75 f_1_5 f_0_75;
   mkAabb f_0_3125 f_0_0 f_0_0 f_0_6875 f_1_5 f_0_25;
   mkAabb f_0_3125 f_0_0 f_0_0 f_0_6875 f_1_5 f_0_6875;
   mkAabb f_0_6875 f_0_0 f_0_3125 f_1_0 f_1_5 f_0_6875;
   mkAabb f_0_0 f_0_0 f_0_3125 f_1_0 f_1_5 f_0_6875;
   mkAabb f_0_3125 f_0_0 f_0_0 f_0_6875 f_1_5 f_0_3125;
   mkAabb f_0_0 f_0_0 f_0_3125 f_1_0 f_1_5 f_0_6875;
   mkAabb f_0_3125 f_0_0 f_0_0 f_0_6875 f_1_5 f_0_3125;
   mkAabb f_0_25 f_0_0 f_0_25 f_0_75 f_1_5 f_0_75;
   mkAabb f_0_3125 f_0_0 f_0_0 f_0_6875 f_1_5 f_0_25;
   mkAabb f_0_3125 f_0_0 f_0_75 f_0_6875 f_1_5 f_1_0;
   mkAabb f_0_75 f_0_0 f_0_3125 f_1_0 f_1_5 f_0_6875;
   mkAabb f_0_0 f_0_0 f_0_3125 f_1_0 f_1_5 f_0_6875;
   mkAabb f_0_25 f_0_0 f_0_25 f_0_75 f_1_5 f_0_3125;
   mkAabb f_0_25 f_0_0 f_0_6875 f_0_75 f_1_5 f_0_75;
   mkAabb f_0_3125 f_0_0 f_0_0 f_0_6875 f_1_5 f_0_25;
   mkAabb f_0_3125 f_0_0 f_0_75 f_0_6875 f_1_5 f_1_0;
   mkAabb f_0_0 f_0_0 f_0_3125 f_1_0 f_1_5 f_0_6875;
   mkAabb f_0_25 f_0_0 f_0_25 f_0_75 f_1_5 f_0_3125;
   mkAabb f_0_25 f_0_0 f_0_6875 f_0_75 f_1_5 f_0_75;
   mkAabb f_0_3125 f_0_0 f_0_0 f_0_6875 f_1_5 f_0_25;
   mkAabb f_0_3125 f_0_0 f_0_75 f_0_6875 f_1_5 f_1_0;
   mkAabb f_0_3125 f_0_0 f_0_0 f_0_6875 f_1_5 f_1_0;
   mkAabb f_0_6875 f_0_0 f_0_3125 f_1_0 f_1_5 f_0_6875;
   mkAabb f_0_0 f_0_0 f_0_3125 f_1_0 f_1_5 f_0_6875;
   mkAabb f_0_3125 f_0_0 f_0_0 f_0_6875 f_1_5 f_0_3125;
   mkAabb f_0_3125 f_0_0 f_0_6875 f_0_6875 f_1_5 f_1_0;
   mkAabb f_0_0 f_0_0 f_0_3125 f_1_0 f_1_5 f_0_6875;
   mkAabb f_0_3125 f_0_0 f_0_0 f_0_6875 f_1_5 f_0_3125;
   mkAabb f_0_3125 f_0_0 f_0_6875 f_0_6875 f_1_5 f_1_0;
   mkAabb f_0_25 f_0_0 f_0_25 f_0_75 f_1_5 f_0_75;
   mkAabb f_0_3125 f_0_0 f_0_0 f_0_6875 f_1_5 f_0_25;
   mkAabb f_0_3125 f_0_0 f_0_75 f_0_6875 f_1_5 f_1_0;
   mkAabb f_0_75 f_0_0 f_0_3125 f_1_0 f_1_5 f_0_6875;
   mkAabb f_0_0 f_0_0 f_0_3125 f_1_0 f_1_5 f_0_6875;
   mkAabb f_0_25 f_0_0 f_0_25 f_0_75 f_1_5 f_0_3125;
   mkAabb f_0_25 f_0_0 f_0_6875 f_0_75 f_1_5 f_0_75;
   mkAabb f_0_3125 f_0_0 f_0_0 f_0_6875 f_1_5 f_0_25;
   mkAabb f_0_3125 f_0_0 f_0_75 f_0_6875 f_1_5 f_1_0;
   mkAabb f_0_0 f_0_0 f_0_3125 f_1_0 f_1_5 f_0_6875;
   mkAabb f_0_25 f_0_0 f_0_25 f_0_75 f_1_5 f_0_3125;
   mkAabb f_0_25 f_0_0 f_0_6875 f_0_75 f_1_5 f_0_75;
   mkAabb f_0_3125 f_0_0 f_0_0 f_0_6875 f_1_5 f_0_25;
   mkAabb f_0_3125 f_0_0 f_0_75 f_0_6875 f_1_5 f_1_0;
   mkAabb f_0_3125 f_0_0 f_0_0 f_0_6875 f_1_5 f_1_0;
   mkAabb f_0_6875 f_0_0 f_0_3125 f_1_0 f_1_5 f_0_6875;
   mkAabb f_0_0 f_0_0 f_0_3125 f_1_0 f_1_5 f_0_6875;
   mkAabb f_0_3125 f_0_0 f_0_0 f_0_6875 f_1_5 f_0_3125;
   mkAabb f_0_3125 f_0_0 f_0_6875 f_0_6875 f_1_5 f_1_0;
   mkAabb f_0_0 f_0_0 f_0_3125 f_1_0 f_1_5 f_0_6875;
   mkAabb f_0_3125 f_0_0 f_0_0 f_0_6875 f_1_5 f_0_3125;
   mkAabb f_0_3125 f_0_0 f_0_6875 f_0_6875 f_1_5 f_1_0;
   mkAabb f_0_25 f_0_0 f_0_25 f_0_75 f_1_5 f_0_75;
   mkAabb f_0_3125 f_0_0 f_0_0 f_0_6875 f_1_5 f_0_25;
   mkAabb f_0_75 f_0_0 f_0_3125 f_1_0 f_1_5 f_0_6875;
   mkAabb f_0_0 f_0_0 f_0_3125 f_1_0 f_1_5 f_0_6875;
   mkAabb f_0_25 f_0_0 f_0_25 f_0_75 f_1_5 f_0_3125;
   mkAabb f_0_25 f_0_0 f_0_6875 f_0_75 f_1_5 f_0_75;
   mkAabb f_0_3125 f_0_0 f_0_0 f_0_6875 f_1_5 f_0_25;
   mkAabb f_0_0 f_0_0 f_0_3125 f_1_0 f_1_5 f_0_6875;
   mkAabb f_0_25 f_0_0 f_0_25 f_0_75 f_1_5 f_0_3125;
   mkAabb f_0_25 f_0_0 f_0_6875 f_0_75 f_1_5 f_0_75;
   mkAabb f_0_3125 f_0_0 f_0_0 f_0_6875 f_1_5 f_0_25;
   mkAabb f_0_3125 f_0_0 f_0_0 f_0_6875 f_1_5 f_0_6875;
   mkAabb f_0_6875 f_0_0 f_0_3125 f_1_0 f_1_5 f_0_6875;
   mkAabb f_0_0 f_0_0 f_0_3125 f_1_0 f_1_5 f_0_6875;
   mkAabb f_0_3125 f_0_0 f_0_0 f_0_6875 f_1_5 f_0_3125;
   mkAabb f_0_0 f_0_0 f_0_3125 f_1_0 f_1_5 f_0_6875;
   mkAabb f_0_3125 f_0_0 f_0_0 f_0_6875 f_1_5 f_0_3125;
   mkAabb f_0_25 f_0_0 f_0_25 f_0_75 f_1_5 f_0_75;
   mkAabb f_0_3125 f_0_0 f_0_0 f_0_6875 f_1_5 f_0_25;
   mkAabb f_0_3125 f_0_0 f_0_75 f_0_6875 f_1_5 f_1_0;
   mkAabb f_0_75 f_0_0 f_0_3125 f_1_0 f_1_5 f_0_6875;
   mkAabb f_0_0 f_0_0 f_0_3125 f_1_0 f_1_5 f_0_6875;
   mkAabb f_0_25 f_0_0 f_0_25 f_0_75 f_1_5 f_0_3125;
   mkAabb f_0_25 f_0_0 f_0_6875 f_0_75 f_1_5 f_0_75;
   mkAabb f_0_3125 f_0_0 f_0_0 f_0_6875 f_1_5 f_0_25;
   mkAabb f_0_3125 f_0_0 f_0_75 f_0_6875 f_1_5 f_1_0;
   mkAabb f_0_0 f_0_0 f_0_3125 f_1_0 f_1_5 f_0_6875;
   mkAabb f_0_25 f_0_0 f_0_25 f_0_75 f_1_5 f_0_3125;
   mkAabb f_0_25 f_0_0 f_0_6875 f_0_75 f_1_5 f_0_75;
   mkAabb f_0_3125 f_0_0 f_0_0 f_0_6875 f_1_5 f_0_25;
   mkAabb f_0_3125 f_0_0 f_0_75 f_0_6875 f_1_5 f_1_0].
Definition SHAPE_BOXES_50 : list Aabb :=
  [mkAabb f_0_3125 f_0_0 f_0_0 f_0_6875 f_1_5 f_1_0;
   mkAabb f_0_6875 f_0_0 f_0_3125 f_1_0 f_1_5 f_0_6875;
   mkAabb f_0_0 f_0_0 f_0_3125 f_1_0 f_1_5 f_0_6875;
   mkAabb f_0_3125 f_0_0 f_0_0 f_0_6875 f_1_5 f_0_3125;
   mkAabb f_0_3125 f_0_0 f_0_6875 f_0_6875 f_1_5 f_1_0;
   mkAabb f_0_0 f_0_0 f_0_3125 f_1_0 f_1_5 f_0_6875;
   mkAabb f_0_3125 f_0_0 f_0_0 f_0_6875 f_1_5 f_0_3125;
   mkAabb f_0_3125 f_0_0 f_0_6875 f_0_6875 f_1_5 f_1_0;
   mkAabb f_0_25 f_0_0 f_0_25 f_0_75 f_1_5 f_0_75;
   mkAabb f_0_3125 f_0_0 f_0_0 f_0_6875 f_1_5 f_0_25;
   mkAabb f_0_3125 f_0_0 f_0_75 f_0_6875 f_1_5 f_1_0;
   mkAabb f_0_75 f_0_0 f_0_3125 f_1_0 f_1_5 f_0_6875;
   mkAabb f_0_0 f_0_0 f_0_3125 f_1_0 f_1_5 f_0_6875;
   mkAabb f_0_25 f_0_0 f_0_25 f_0_75 f_1_5 f_0_3125;
   mkAabb f_0_25 f_0_0 f_0_6875 f_0_75 f_1_5 f_0_75;
   mkAabb f_0_3125 f_0_0 f_0_0 f_0_6875 f_1_5 f_0_25;
   mkAabb f_0_3125 f_0_0 f_0_75 f_0_6875 f_1_5 f_1_0;
   mkAabb f_0_0 f_0_0 f_0_3125 f_1_0 f_1_5 f_0_6875;
   mkAabb f_0_25 f_0_0 f_0_25 f_0_75 f_1_5 f_0_3125;
   mkAabb f_0_25 f_0_0 f_0_6875 f_0_75 f_1_5 f_0_75;
   mkAabb f_0_3125 f_0_0 f_0_0 f_0_6875 f_1_5 f_0_25;
   mkAabb f_0_3125 f_0_0 f_0_75 f_0_6875 f_1_5 f_1_0;
   mkAabb f_0_3125 f_0_0 f_0_0 f_0_6875 f_1_5 f_1_0;
   mkAabb f_0_6875 f_0_0 f_0_3125 f_1_0 f_1_5 f_0_6875;
   mkAabb f_0_0 f_0_0 f_0_3125 f_1_0 f_1_5 f_0_6875;
   mkAabb f_0_3125 f_0_0 f_0_0 f_0_6875 f_1_5 f_0_3125;
   mkAabb f_0_3125 f_0_0 f_0_6875 f_0_6875 f_1_5 f_1_0;
   mkAabb f_0_0 f_0_0 f_0_3125 f_1_0 f_1_5 f_0_6875;
   mkAabb f_0_3125 f_0_0 f_0_0 f_0_6875 f_1_5 f_0_3125;
   mkAabb f_0_3125 f_0_0 f_0_6875 f_0_6875 f_1_5 f_1_0;
   mkAabb f_0_25 f_0_0 f_0_25 f_0_75 f_1_5 f_0_75;
   mkAabb f_0_0 f_0_0 f_0_3125 f_0_75 f_1_5 f_0_6875;
   mkAabb f_0_25 f_0_0 f_0_25 f_0_75 f_1_5 f_0_3125;
   mkAabb f_0_25 f_0_0 f_0_6875 f_0_75 f_1_5 f_0_75;
   mkAabb f_0_0 f_0_0 f_0_3125 f_0_75 f_1_5 f_0_6875;
   mkAabb f_0_25 f_0_0 f_0_25 f_0_75 f_1_5 f_0_3125;
   mkAabb f_0_25 f_0_0 f_0_6875 f_0_75 f_1_5 f_0_75;
   mkAabb f_0_0 f_0_0 f_0_3125 f_0_6875 f_1_5 f_0_6875;
   mkAabb f_0_0 f_0_0 f_0_3125 f_0_6875 f_1_5 f_0_6875;
   mkAabb f_0_25 f_0_0 f_0_25 f_0_75 f_1_5 f_0_75;
   mkAabb f_0_3125 f_0_0 f_0_75 f_0_6875 f_1_5 f_1_0;
   mkAabb f_0_0 f_0_0 f_0_3125 f_0_75 f_1_5 f_0_6875;
   mkAabb f_0_25 f_0_0 f_0_25 f_0_75 f_1_5 f_0_3125;
   mkAabb f_0_25 f_0_0 f_0_6875 f_0_75 f_1_5 f_0_75;
   mkAabb f_0_3125 f_0_0 f_0_75 f_0_6875 f_1_5 f_1_0;
   mkAabb f_0_0 f_0_0 f_0_3125 f_0_75 f_1_5 f_0_6875;
   mkAabb f_0_25 f_0_0 f_0_25 f_0_75 f_1_5 f_0_3125;
   mkAabb f_0_25 f_0_0 f_0_6875 f_0_75 f_1_5 f_0_75;
   mkAabb f_0_3125 f_0_0 f_0_75 f_0_6875 f_1_5 f_1_0;
   mkAabb f_0_3125 f_0_0 f_0_3125 f_0_6875 f_1_5 f_1_0;
   mkAabb f_0_0 f_0_0 f_0_3125 f_0_6875 f_1_5 f_0_6875;
   mkAabb f_0_3125 f_0_0 f_0_6875 f_0_6875 f_1_5 f_1_0;
   mkAabb f_0_0 f_0_0 f_0_3125 f_0_6875 f_1_5 f_0_6875;
   mkAabb f_0_3125 f_0_0 f_0_6875 f_0_6875 f_1_5 f_1_0;
   mkAabb f_0_25 f_0_0 f_0_25 f_0_75 f_1_5 f_0_75;
   mkAabb f_0_3125 f_0_0 f_0_75 f_0_6875 f_1_5 f_1_0;
   mkAabb f_0_0 f_0_0 f_0_3125 f_0_75 f_1_5 f_0_6875;
   mkAabb f_0_25 f_0_0 f_0_25 f_0_75 f_1_5 f_0_3125;
   mkAabb f_0_25 f_0_0 f_0_6875 f_0_75 f_1_5 f_0_75;
   mkAabb f_0_3125 f_0_0 f_0_75 f_0_6875 f_1_5 f_1_0;
   mkAabb f_0_0 f_0_0 f_0_3125 f_0_75 f_1_5 f_0_6875;
   mkAabb f_0_25 f_0_0 f_0_25 f_0_75 f_1_5 f_0_3125;
   mkAabb f_0_25 f_0_0 f_0_6875 f_0_75 f_1_5 f_0_75;
   mkAabb f_0_3125 f_0_0 f_0_75 f_0_6875 f_1_5 f_1_0;
   mkAabb f_0_3125 f_0_0 f_0_3125 f_0_6875 f_1_5 f_1_0;
   mkAabb f_0_0 f_0_0 f_0_3125 f_0_6875 f_1_5 f_0_6875;
   mkAabb f_0_3125 f_0_0 f_0_6875 f_0_6875 f_1_5 f_1_0;
   mkAabb f_0_0 f_0_0 f_0_3125 f_0_6875 f_1_5 f_0_6875;
   mkAabb f_0_3125 f_0_0 f_0_6875 f_0_6875 f_1_5 f_1_0;
   mkAabb f_0_25 f_0_0 f_0_25 f_0_75 f_1_5 f_0_75;
   mkAabb f_0_3125 f_0_0 f_0_0 f_0_6875 f_1_5 f_0_25;
   mkAabb f_0_0 f_0_0 f_0_3125 f_0_75 f_1_5 f_0_6875;
   mkAabb f_0_25 f_0_0 f_0_25 f_0_75 f_1_5 f_0_3125;
   mkAabb f_0_25 f_0_0 f_0_6875 f_0_75 f_1_5 f_0_75;
   mkAabb f_0_3125 f_0_0 f_0_0 f_0_6875 f_1_5 f_0_25;
   mkAabb f_0_0 f_0_0 f_0_3125 f_0_75 f_1_5 f_0_6875;
   mkAabb f_0_25 f_0_0 f_0_25 f_0_75 f_1_5 f_0_3125;
   mkAabb f_0_25 f_0_0 f_0_6875 f_0_75 f_1_5 f_0_75;
   mkAabb f_0_3125 f_0_0 f_0_0 f_0_6875 f_1_5 f_0_25;
   mkAabb f_0_3125 f_0_0 f_0_0 f_0_6875 f_1_5 f_0_6875;
   mkAabb f_0_0 f_0_0 f_0_3125 f_0_6875 f_1_5 f_0_6875;
   mkAabb f_0_3125 f_0_0 f_0_0 f_0_6875 f_1_5 f_0_3125;
   mkAabb f_0_0 f_0_0 f_0_3125 f_0_6875 f_1_5 f_0_6875;
   mkAabb f_0_3125 f_0_0 f_0_0 f_0_6875 f_1_5 f_0_3125;
   mkAabb f_0_25 f_0_0 f_0_25 f_0_75 f_1_5 f_0_75;
   mkAabb f_0_3125 f_0_0 f_0_0 f_0_6875 f_1_5 f_0_25;
   mkAabb f_0_3125 f_0_0 f_0_75 f_0_6875 f_1_5 f_1_0;
   mkAabb f_0_0 f_0_0 f_0_3125 f_0_75 f_1_5 f_0_6875;
   mkAabb f_0_25 f_0_0 f_0_25 f_0_75 f_1_5 f_0_3125;
   mkAabb f_0_25 f_0_0 f_0_6875 f_0_75 f_1_5 f_0_75;
   mkAabb f_0_3125 f_0_0 f_0_0 f_0_6875 f_1_5 f_0_25;
   mkAabb f_0_3125 f_0_0 f_0_75 f_0_6875 f_1_5 f_1_0;
   mkAabb f_0_0 f_0_0 f_0_3125 f_0_75 f_1_5 f_0_6875;
   mkAabb f_0_25 f_0_0 f_0_25 f_0_75 f_1_5 f_0_3125;
   mkAabb f_0_25 f_0_0 f_0_6875 f_0_75 f_1_5 f_0_75;
   mkAabb f_0_3125 f_0_0 f_0_0 f_0_6875 f_1_5 f_0_25;
   mkAabb f_0_3125 f_0_0 f_0_75 f_0_6875 f_1_5 f_1_0;
   mkAabb f_0_3125 f_0_0 f_0_0 f_0_6875 f_1_5 f_1_0;
   mkAabb f_0_0 f_0_0 f_0_3125 f_0_6875 f_1_5 f_0_6875;
   mkAabb f_0_3125 f_0_0 f_0_0 f_0_6875 f_1_5 f_0_3125;
   mkAabb f_0_3125 f_0_0 f_0_6875 f_0_6875 f_1_5 f_1_0;
   mkAabb f_0_0 f_0_0 f_0_3125 f_0_6875 f_1_5 f_0_6875;
   mkAabb f_0_3125 f_0_0 f_0_0 f_0_6875 f_1_5 f_0_3125;
   mkAabb f_0_3125 f_0_0 f_0_6875 f_0_6875 f_1_5 f_1_0;
   mkAabb f_0_25 f_0_0 f_0_25 f_0_75 f_1_5 f_0_75;
   mkAabb f_0_3125 f_0_0 f_0_0 f_0_6875 f_1_5 f_0_25;
   mkAabb f_0_3125 f_0_0 f_0_75 f_0_6875 f_1_5 f_1_0;
   mkAabb f_0_0 f_0_0 f_0_3125 f_0_75 f_1_5 f_0_6875;
   mkAabb f_0_25 f_0_0 f_0_25 f_0_75 f_1_5 f_0_3125;
   mkAabb f_0_25 f_0_0 f_0_6875 f_0_75 f_1_5 f_0_75;
   mkAabb f_0_3125 f_0_0 f_0_0 f_0_6875 f_1_5 f_0_25;
   mkAabb f_0_3125 f_0_0 f_0_75 f_0_6875 f_1_5 f_1_0;
   mkAabb f_0_0 f_0_0 f_0_3125 f_0_75 f_1_5 f_0_6875;
   mkAabb f_0_25 f_0_0 f_0_25 f_0_75 f_1_5 f_0_3125;
   mkAabb f_0_25 f_0_0 f_0_6875 f_0_75 f_1_5 f_0_75;
   mkAabb f_0_3125 f_0_0 f_0_0 f_0_6875 f_1_5 f_0_25;
   mkAabb f_0_3125 f_0_0 f_0_75 f_0_6875 f_1_5 f_1_0;
   mkAabb f_0_3125 f_0_0 f_0_0 f_0_6875 f_1_5 f_1_0;
   mkAabb f_0_0 f_0_0 f_0_3125 f_0_6875 f_1_5 f_0_6875;
   mkAabb f_0_3125 f_0_0 f_0_0 f_0_6875 f_1_5 f_0_3125;
   mkAabb f_0_3125 f_0_0 f_0_6875 f_0_6875 f_1_5 f_1_0;
   mkAabb f_0_0 f_0_0 f_0_3125 f_0_6875 f_1_5 f_0_6875;
   mkAabb f_0_3125 f_0_0 f_0_0 f_0_6875 f_1_5 f_0_3125;
   mkAabb f_0_3125 f_0_0 f_0_6875 f_0_6875 f_1_5 f_1_0;
   mkAabb f_0_25 f_0_0 f_0_25 f_0_75 f_1_5 f_0_75;
   mkAabb f_0_3125 f_0_0 f_0_0 f_0_6875 f_1_5 f_0_25;
   mkAabb f_0_0 f_0_0 f_0_3125 f_0_75 f_1_5 f_0_6875;
   mkAabb f_0_25 f_0_0 f_0_25 f_0_75 f_1_5 f_0_3125;
   mkAabb f_0_25 f_0_0 f_0_6875 f_0_75 f_1_5 f_0_75;
   mkAabb f_0_3125 f_0_0 f_0_0 f_0_6875 f_1_5 f_0_25;
   mkAabb f_0_0 f_0_0 f_0_3125 f_0_75 f_1_5 f_0_6875;
   mkAabb f_0_25 f_0_0 f_0_25 f_0_75 f_1_5 f_0_3125;
   mkAabb f_0_25 f_0_0 f_0_6875 f_0_75 f_1_5 f_0_75;
   mkAabb f_0_3125 f_0_0 f_0_0 f_0_6875 f_1_5 f_0_25;
   mkAabb f_0_3125 f_0_0 f_0_0 f_0_6875 f_1_5 f_0_6875;
   mkAabb f_0_0 f_0_0 f_0_3125 f_0_6875 f_1_5 f_0_6875;
   mkAabb f_0_3125 f_0_0 f_0_0 f_0_6875 f_1_5 f_0_3125;
   mkAabb f_0_0 f_0_0 f_0_3125 f_0_6875 f_1_5 f_0_6875;
   mkAabb f_0_3125 f_0_0 f_0_0 f_0_6875 f_1_5 f_0_3125;
   mkAabb f_0_25 f_0_0 f_0_25 f_0_75 f_1_5 f_0_75;
   mkAabb f_0_3125 f_0_0 f_0_0 f_0_6875 f_1_5 f_0_25;
   mkAabb f_0_3125 f_0_0 f_0_75 f_0_6875 f_1_5 f_1_0;
   mkAabb f_0_0 f_0_0 f_0_3125 f_0_75 f_1_5 f_0_6875;
   mkAabb f_0_25 f_0_0 f_0_25 f_0_75 f_1_5 f_0_3125;
   mkAabb f_0_25 f_0_0 f_0_6875 f_0_75 f_1_5 f_0_75;
   mkAabb f_0_3125 f_0_0 f_0_0 f_0_6875 f_1_5 f_0_25;
   mkAabb f_0_3125 f_0_0 f_0_75 f_0_6875 f_1_5 f_1_0;
   mkAabb f_0_0 f_0_0 f_0_3125 f_0_75 f_1_5 f_0_6875;
   mkAabb f_0_25 f_0_0 f_0_25 f_0_75 f_1_5 f_0_3125;
   mkAabb f_0_25 f_0_0 f_0_6875 f_0_75 f_1_5 f_0_75].
Definition SHAPE_BOXES_51 : list Aabb :=
  [mkAabb f_0_3125 f_0_0 f_0_0 f_0_6875 f_1_5 f_0_25;
   mkAabb f_0_3125 f_0_0 f_0_75 f_0_6875 f_1_5 f_1_0;
   mkAabb f_0_3125 f_0_0 f_0_0 f_0_6875 f_1_5 f_1_0;
   mkAabb f_0_0 f_0_0 f_0_3125 f_0_6875 f_1_5 f_0_6875;
   mkAabb f_0_3125 f_0_0 f_0_0 f_0_6875 f_1_5 f_0_3125;
   mkAabb f_0_3125 f_0_0 f_0_6875 f_0_6875 f_1_5 f_1_0;
   mkAabb f_0_0 f_0_0 f_0_3125 f_0_6875 f_1_5 f_0_6875;
   mkAabb f_0_3125 f_0_0 f_0_0 f_0_6875 f_1_5 f_0_3125;
   mkAabb f_0_3125 f_0_0 f_0_6875 f_0_6875 f_1_5 f_1_0;
   mkAabb f_0_25 f_0_0 f_0_25 f_0_75 f_1_5 f_0_75;
   mkAabb f_0_3125 f_0_0 f_0_0 f_0_6875 f_1_5 f_0_25;
   mkAabb f_0_3125 f_0_0 f_0_75 f_0_6875 f_1_5 f_1_0;
   mkAabb f_0_0 f_0_0 f_0_3125 f_0_75 f_1_5 f_0_6875;
   mkAabb f_0_25 f_0_0 f_0_25 f_0_75 f_1_5 f_0_3125;
   mkAabb f_0_25 f_0_0 f_0_6875 f_0_75 f_1_5 f_0_75;
   mkAabb f_0_3125 f_0_0 f_0_0 f_0_6875 f_1_5 f_0_25;
   mkAabb f_0_3125 f_0_0 f_0_75 f_0_6875 f_1_5 f_1_0;
   mkAabb f_0_0 f_0_0 f_0_3125 f_0_75 f_1_5 f_0_6875;
   mkAabb f_0_25 f_0_0 f_0_25 f_0_75 f_1_5 f_0_3125;
   mkAabb f_0_25 f_0_0 f_0_6875 f_0_75 f_1_5 f_0_75;
   mkAabb f_0_3125 f_0_0 f_0_0 f_0_6875 f_1_5 f_0_25;
   mkAabb f_0_3125 f_0_0 f_0_75 f_0_6875 f_1_5 f_1_0;
   mkAabb f_0_3125 f_0_0 f_0_0 f_0_6875 f_1_5 f_1_0;
   mkAabb f_0_0 f_0_0 f_0_3125 f_0_6875 f_1_5 f_0_6875;
   mkAabb f_0_3125 f_0_0 f_0_0 f_0_6875 f_1_5 f_0_3125;
   mkAabb f_0_3125 f_0_0 f_0_6875 f_0_6875 f_1_5 f_1_0;
   mkAabb f_0_0 f_0_0 f_0_3125 f_0_6875 f_1_5 f_0_6875;
   mkAabb f_0_3125 f_0_0 f_0_0 f_0_6875 f_1_5 f_0_3125;
   mkAabb f_0_3125 f_0_0 f_0_6875 f_0_6875 f_1_5 f_1_0;
   mkAabb f_0_25 f_0_0 f_0_25 f_0_75 f_1_5 f_0_75;
   mkAabb f_0_75 f_0_0 f_0_3125 f_1_0 f_1_5 f_0_6875;
   mkAabb f_0_0 f_0_0 f_0_3125 f_1_0 f_1_5 f_0_6875;
   mkAabb f_0_25 f_0_0 f_0_25 f_0_75 f_1_5 f_0_3125;
   mkAabb f_0_25 f_0_0 f_0_6875 f_0_75 f_1_5 f_0_75;
   mkAabb f_0_0 f_0_0 f_0_3125 f_1_0 f_1_5 f_0_6875;
   mkAabb f_0_25 f_0_0 f_0_25 f_0_75 f_1_5 f_0_3125;
   mkAabb f_0_25 f_0_0 f_0_6875 f_0_75 f_1_5 f_0_75;
   mkAabb f_0_3125 f_0_0 f_0_3125 f_1_0 f_1_5 f_0_6875;
   mkAabb f_0_0 f_0_0 f_0_3125 f_1_0 f_1_5 f_0_6875;
   mkAabb f_0_0 f_0_0 f_0_3125 f_1_0 f_1_5 f_0_6875;
   mkAabb f_0_25 f_0_0 f_0_25 f_0_75 f_1_5 f_0_75;
   mkAabb f_0_3125 f_0_0 f_0_75 f_0_6875 f_1_5 f_1_0;
   mkAabb f_0_75 f_0_0 f_0_3125 f_1_0 f_1_5 f_0_6875;
   mkAabb f_0_0 f_0_0 f_0_3125 f_1_0 f_1_5 f_0_6875;
   mkAabb f_0_25 f_0_0 f_0_25 f_0_75 f_1_5 f_0_3125;
   mkAabb f_0_25 f_0_0 f_0_6875 f_0_75 f_1_5 f_0_75;
   mkAabb f_0_3125 f_0_0 f_0_75 f_0_6875 f_1_5 f_1_0;
   mkAabb f_0_0 f_0_0 f_0_3125 f_1_0 f_1_5 f_0_6875;
   mkAabb f_0_25 f_0_0 f_0_25 f_0_75 f_1_5 f_0_3125;
   mkAabb f_0_25 f_0_0 f_0_6875 f_0_75 f_1_5 f_0_75;
   mkAabb f_0_3125 f_0_0 f_0_75 f_0_6875 f_1_5 f_1_0;
   mkAabb f_0_3125 f_0_0 f_0_3125 f_0_6875 f_1_5 f_1_0;
   mkAabb f_0_6875 f_0_0 f_0_3125 f_1_0 f_1_5 f_0_6875;
   mkAabb f_0_0 f_0_0 f_0_3125 f_1_0 f_1_5 f_0_6875;
   mkAabb f_0_3125 f_0_0 f_0_6875 f_0_6875 f_1_5 f_1_0;
   mkAabb f_0_0 f_0_0 f_0_3125 f_1_0 f_1_5 f_0_6875;
   mkAabb f_0_3125 f_0_0 f_0_6875 f_0_6875 f_1_5 f_1_0;
   mkAabb f_0_25 f_0_0 f_0_25 f_0_75 f_1_5 f_0_75;
   mkAabb f_0_3125 f_0_0 f_0_75 f_0_6875 f_1_5 f_1_0;
   mkAabb f_0_75 f_0_0 f_0_3125 f_1_0 f_1_5 f_0_6875;
   mkAabb f_0_0 f_0_0 f_0_3125 f_1_0 f_1_5 f_0_6875;
   mkAabb f_0_25 f_0_0 f_0_25 f_0_75 f_1_5 f_0_3125;
   mkAabb f_0_25 f_0_0 f_0_6875 f_0_75 f_1_5 f_0_75;
   mkAabb f_0_3125 f_0_0 f_0_75 f_0_6875 f_1_5 f_1_0;
   mkAabb f_0_0 f_0_0 f_0_3125 f_1_0 f_1_5 f_0_6875;
   mkAabb f_0_25 f_0_0 f_0_25 f_0_75 f_1_5 f_0_3125;
   mkAabb f_0_25 f_0_0 f_0_6875 f_0_75 f_1_5 f_0_75;
   mkAabb f_0_3125 f_0_0 f_0_75 f_0_6875 f_1_5 f_1_0;
   mkAabb f_0_3125 f_0_0 f_0_3125 f_0_6875 f_1_5 f_1_0;
   mkAabb f_0_6875 f_0_0 f_0_3125 f_1_0 f_1_5 f_0_6875;
   mkAabb f_0_0 f_0_0 f_0_3125 f_1_0 f_1_5 f_0_6875;
   mkAabb f_0_3125 f_0_0 f_0_6875 f_0_6875 f_1_5 f_1_0;
   mkAabb f_0_0 f_0_0 f_0_3125 f_1_0 f_1_5 f_0_6875;
   mkAabb f_0_3125 f_0_0 f_0_6875 f_0_6875 f_1_5 f_1_0;
   mkAabb f_0_25 f_0_0 f_0_25 f_0_75 f_1_5 f_0_75;
   mkAabb f_0_3125 f_0_0 f_0_0 f_0_6875 f_1_5 f_0_25;
   mkAabb f_0_75 f_0_0 f_0_3125 f_1_0 f_1_5 f_0_6875;
   mkAabb f_0_0 f_0_0 f_0_3125 f_1_0 f_1_5 f_0_6875;
   mkAabb f_0_25 f_0_0 f_0_25 f_0_75 f_1_5 f_0_3125;
   mkAabb f_0_25 f_0_0 f_0_6875 f_0_75 f_1_5 f_0_75;
   mkAabb f_0_3125 f_0_0 f_0_0 f_0_6875 f_1_5 f_0_25;
   mkAabb f_0_0 f_0_0 f_0_3125 f_1_0 f_1_5 f_0_6875;
   mkAabb f_0_25 f_0_0 f_0_25 f_0_75 f_1_5 f_0_3125;
   mkAabb f_0_25 f_0_0 f_0_6875 f_0_75 f_1_5 f_0_75;
   mkAabb f_0_3125 f_0_0 f_0_0 f_0_6875 f_1_5 f_0_25;
   mkAabb f_0_3125 f_0_0 f_0_0 f_0_6875 f_1_5 f_0_6875;
   mkAabb f_0_6875 f_0_0 f_0_3125 f_1_0 f_1_5 f_0_6875;
   mkAabb f_0_0 f_0_0 f_0_3125 f_1_0 f_1_5 f_0_6875;
   mkAabb f_0_3125 f_0_0 f_0_0 f_0_6875 f_1_5 f_0_3125;
   mkAabb f_0_0 f_0_0 f_0_3125 f_1_0 f_1_5 f_0_6875;
   mkAabb f_0_3125 f_0_0 f_0_0 f_0_6875 f_1_5 f_0_3125;
   mkAabb f_0_25 f_0_0 f_0_25 f_0_75 f_1_5 f_0_75;
   mkAabb f_0_3125 f_0_0 f_0_0 f_0_6875 f_1_5 f_0_25;
   mkAabb f_0_3125 f_0_0 f_0_75 f_0_6875 f_1_5 f_1_0;
   mkAabb f_0_75 f_0_0 f_0_3125 f_1_0 f_1_5 f_0_6875;
   mkAabb f_0_0 f_0_0 f_0_3125 f_1_0 f_1_5 f_0_6875;
   mkAabb f_0_25 f_0_0 f_0_25 f_0_75 f_1_5 f_0_3125;
   mkAabb f_0_25 f_0_0 f_0_6875 f_0_75 f_1_5 f_0_75;
   mkAabb f_0_3125 f_0_0 f_0_0 f_0_6875 f_1_5 f_0_25;
   mkAabb f_0_3125 f_0_0 f_0_75 f_0_6875 f_1_5 f_1_0;
   mkAabb f_0_0 f_0_0 f_0_3125 f_1_0 f_1_5 f_0_6875;
   mkAabb f_0_25 f_0_0 f_0_25 f_0_75 f_1_5 f_0_3125;
   mkAabb f_0_25 f_0_0 f_0_6875 f_0_75 f_1_5 f_0_75;
   mkAabb f_0_3125 f_0_0 f_0_0 f_0_6875 f_1_5 f_0_25;
   mkAabb f_0_3125 f_0_0 f_0_75 f_0_6875 f_1_5 f_1_0;
   mkAabb f_0_3125 f_0_0 f_0_0 f_0_6875 f_1_5 f_1_0;
   mkAabb f_0_6875 f_0_0 f_0_3125 f_1_0 f_1_5 f_0_6875;
   mkAabb f_0_0 f_0_0 f_0_3125 f_1_0 f_1_5 f_0_6875;
   mkAabb f_0_3125 f_0_0 f_0_0 f_0_6875 f_1_5 f_0_3125;
   mkAabb f_0_3125 f_0_0 f_0_6875 f_0_6875 f_1_5 f_1_0;
   mkAabb f_0_0 f_0_0 f_0_3125 f_1_0 f_1_5 f_0_6875;
   mkAabb f_0_3125 f_0_0 f_0_0 f_0_6875 f_1_5 f_0_3125;
   mkAabb f_0_3125 f_0_0 f_0_6875 f_0_6875 f_1_5 f_1_0;
   mkAabb f_0_25 f_0_0 f_0_25 f_0_75 f_1_5 f_0_75;
   mkAabb f_0_3125 f_0_0 f_0_0 f_0_6875 f_1_5 f_0_25;
   mkAabb f_0_3125 f_0_0 f_0_75 f_0_6875 f_1_5 f_1_0;
   mkAabb f_0_75 f_0_0 f_0_3125 f_1_0 f_1_5 f_0_6875;
   mkAabb f_0_0 f_0_0 f_0_3125 f_1_0 f_1_5 f_0_6875;
   mkAabb f_0_25 f_0_0 f_0_25 f_0_75 f_1_5 f_0_3125;
   mkAabb f_0_25 f_0_0 f_0_6875 f_0_75 f_1_5 f_0_75;
   mkAabb f_0_3125 f_0_0 f_0_0 f_0_6875 f_1_5 f_0_25;
   mkAabb f_0_3125 f_0_0 f_0_75 f_0_6875 f_1_5 f_1_0;
   mkAabb f_0_0 f_0_0 f_0_3125 f_1_0 f_1_5 f_0_6875;
   mkAabb f_0_25 f_0_0 f_0_25 f_0_75 f_1_5 f_0_3125;
   mkAabb f_0_25 f_0_0 f_0_6875 f_0_75 f_1_5 f_0_75;
   mkAabb f_0_3125 f_0_0 f_0_0 f_0_6875 f_1_5 f_0_25;
   mkAabb f_0_3125 f_0_0 f_0_75 f_0_6875 f_1_5 f_1_0;
   mkAabb f_0_3125 f_0_0 f_0_0 f_0_6875 f_1_5 f_1_0;
   mkAabb f_0_6875 f_0_0 f_0_3125 f_1_0 f_1_5 f_0_6875;
   mkAabb f_0_0 f_0_0 f_0_3125 f_1_0 f_1_5 f_0_6875;
   mkAabb f_0_3125 f_0_0 f_0_0 f_0_6875 f_1_5 f_0_3125;
   mkAabb f_0_3125 f_0_0 f_0_6875 f_0_6875 f_1_5 f_1_0;
   mkAabb f_0_0 f_0_0 f_0_3125 f_1_0 f_1_5 f_0_6875;
   mkAabb f_0_3125 f_0_0 f_0_0 f_0_6875 f_1_5 f_0_3125;
   mkAabb f_0_3125 f_0_0 f_0_6875 f_0_6875 f_1_5 f_1_0;
   mkAabb f_0_25 f_0_0 f_0_25 f_0_75 f_1_5 f_0_75;
   mkAabb f_0_3125 f_0_0 f_0_0 f_0_6875 f_1_5 f_0_25;
   mkAabb f_0_75 f_0_0 f_0_3125 f_1_0 f_1_5 f_0_6875;
   mkAabb f_0_0 f_0_0 f_0_3125 f_1_0 f_1_5 f_0_6875;
   mkAabb f_0_25 f_0_0 f_0_25 f_0_75 f_1_5 f_0_3125;
   mkAabb f_0_25 f_0_0 f_0_6875 f_0_75 f_1_5 f_0_75;
   mkAabb f_0_3125 f_0_0 f_0_0 f_0_6875 f_1_5 f_0_25;
   mkAabb f_0_0 f_0_0 f_0_3125 f_1_0 f_1_5 f_0_6875;
   mkAabb f_0_25 f_0_0 f_0_25 f_0_75 f_1_5 f_0_3125;
   mkAabb f_0_25 f_0_0 f_0_6875 f_0_75 f_1_5 f_0_75;
   mkAabb f_0_3125 f_0_0 f_0_0 f_0_6875 f_1_5 f_0_25;
   mkAabb f_0_3125 f_0_0 f_0_0 f_0_6875 f_1_5 f_0_6875;
   mkAabb f_0_6875 f_0_0 f_0_3125 f_1_0 f_1_5 f_0_6875;
   mkAabb f_0_0 f_0_0 f_0_3125 f_1_0 f_1_5 f_0_6875;
   mkAabb f_0_3125 f_0_0 f_0_0 f_0_6875 f_1_5 f_0_3125].
Definition SHAPE_BOXES_52 : list Aabb :=
  [mkAabb f_0_0 f_0_0 f_0_3125 f_1_0 f_1_5 f_0_6875;
   mkAabb f_0_3125 f_0_0 f_0_0 f_0_6875 f_1_5 f_0_3125;
   mkAabb f_0_25 f_0_0 f_0_25 f_0_75 f_1_5 f_0_75;
   mkAabb f_0_3125 f_0_0 f_0_0 f_0_6875 f_1_5 f_0_25;
   mkAabb f_0_3125 f_0_0 f_0_75 f_0_6875 f_1_5 f_1_0;
   mkAabb f_0_75 f_0_0 f_0_3125 f_1_0 f_1_5 f_0_6875;
   mkAabb f_0_0 f_0_0 f_0_3125 f_1_0 f_1_5 f_0_6875;
   mkAabb f_0_25 f_0_0 f_0_25 f_0_75 f_1_5 f_0_3125;
   mkAabb f_0_25 f_0_0 f_0_6875 f_0_75 f_1_5 f_0_75;
   mkAabb f_0_3125 f_0_0 f_0_0 f_0_6875 f_1_5 f_0_25;
   mkAabb f_0_3125 f_0_0 f_0_75 f_0_6875 f_1_5 f_1_0;
   mkAabb f_0_0 f_0_0 f_0_3125 f_1_0 f_1_5 f_0_6875;
   mkAabb f_0_25 f_0_0 f_0_25 f_0_75 f_1_5 f_0_3125;
   mkAabb f_0_25 f_0_0 f_0_6875 f_0_75 f_1_5 f_0_75;
   mkAabb f_0_3125 f_0_0 f_0_0 f_0_6875 f_1_5 f_0_25;
   mkAabb f_0_3125 f_0_0 f_0_75 f_0_6875 f_1_5 f_1_0;
   mkAabb f_0_3125 f_0_0 f_0_0 f_0_6875 f_1_5 f_1_0;
   mkAabb f_0_6875 f_0_0 f_0_3125 f_1_0 f_1_5 f_0_6875;
   mkAabb f_0_0 f_0_0 f_0_3125 f_1_0 f_1_5 f_0_6875;
   mkAabb f_0_3125 f_0_0 f_0_0 f_0_6875 f_1_5 f_0_3125;
   mkAabb f_0_3125 f_0_0 f_0_6875 f_0_6875 f_1_5 f_1_0;
   mkAabb f_0_0 f_0_0 f_0_3125 f_1_0 f_1_5 f_0_6875;
   mkAabb f_0_3125 f_0_0 f_0_0 f_0_6875 f_1_5 f_0_3125;
   mkAabb f_0_3125 f_0_0 f_0_6875 f_0_6875 f_1_5 f_1_0;
   mkAabb f_0_25 f_0_0 f_0_25 f_0_75 f_1_5 f_0_75;
   mkAabb f_0_3125 f_0_0 f_0_0 f_0_6875 f_1_5 f_0_25;
   mkAabb f_0_3125 f_0_0 f_0_75 f_0_6875 f_1_5 f_1_0;
   mkAabb f_0_75 f_0_0 f_0_3125 f_1_0 f_1_5 f_0_6875;
   mkAabb f_0_0 f_0_0 f_0_3125 f_1_0 f_1_5 f_0_6875;
   mkAabb f_0_25 f_0_0 f_0_25 f_0_75 f_1_5 f_0_3125;
   mkAabb f_0_25 f_0_0 f_0_6875 f_0_75 f_1_5 f_0_75;
   mkAabb f_0_3125 f_0_0 f_0_0 f_0_6875 f_1_5 f_0_25;
   mkAabb f_0_3125 f_0_0 f_0_75 f_0_6875 f_1_5 f_1_0;
   mkAabb f_0_0 f_0_0 f_0_3125 f_1_0 f_1_5 f_0_6875;
   mkAabb f_0_25 f_0_0 f_0_25 f_0_75 f_1_5 f_0_3125;
   mkAabb f_0_25 f_0_0 f_0_6875 f_0_75 f_1_5 f_0_75;
   mkAabb f_0_3125 f_0_0 f_0_0 f_0_6875 f_1_5 f_0_25;
   mkAabb f_0_3125 f_0_0 f_0_75 f_0_6875 f_1_5 f_1_0;
   mkAabb f_0_3125 f_0_0 f_0_0 f_0_6875 f_1_5 f_1_0;
   mkAabb f_0_6875 f_0_0 f_0_3125 f_1_0 f_1_5 f_0_6875;
   mkAabb f_0_0 f_0_0 f_0_3125 f_1_0 f_1_5 f_0_6875;
   mkAabb f_0_3125 f_0_0 f_0_0 f_0_6875 f_1_5 f_0_3125;
   mkAabb f_0_3125 f_0_0 f_0_6875 f_0_6875 f_1_5 f_1_0;
   mkAabb f_0_0 f_0_0 f_0_3125 f_1_0 f_1_5 f_0_6875;
   mkAabb f_0_3125 f_0_0 f_0_0 f_0_6875 f_1_5 f_0_3125;
   mkAabb f_0_3125 f_0_0 f_0_6875 f_0_6875 f_1_5 f_1_0;
   mkAabb f_0_25 f_0_0 f_0_25 f_0_75 f_1_5 f_0_75;
   mkAabb f_0_75 f_0_0 f_0_3125 f_1_0 f_1_5 f_0_6875;
   mkAabb f_0_0 f_0_0 f_0_3125 f_1_0 f_1_5 f_0_6875;
   mkAabb f_0_25 f_0_0 f_0_25 f_0_75 f_1_5 f_0_3125;
   mkAabb f_0_25 f_0_0 f_0_6875 f_0_75 f_1_5 f_0_75;
   mkAabb f_0_0 f_0_0 f_0_3125 f_1_0 f_1_5 f_0_6875;
   mkAabb f_0_25 f_0_0 f_0_25 f_0_75 f_1_5 f_0_3125;
   mkAabb f_0_25 f_0_0 f_0_6875 f_0_75 f_1_5 f_0_75;
   mkAabb f_0_3125 f_0_0 f_0_3125 f_1_0 f_1_5 f_0_6875;
   mkAabb f_0_0 f_0_0 f_0_3125 f_1_0 f_1_5 f_0_6875;
   mkAabb f_0_0 f_0_0 f_0_3125 f_1_0 f_1_5 f_0_6875;
   mkAabb f_0_25 f_0_0 f_0_25 f_0_75 f_1_5 f_0_75;
   mkAabb f_0_3125 f_0_0 f_0_75 f_0_6875 f_1_5 f_1_0;
   mkAabb f_0_75 f_0_0 f_0_3125 f_1_0 f_1_5 f_0_6875;
   mkAabb f_0_0 f_0_0 f_0_3125 f_1_0 f_1_5 f_0_6875;
   mkAabb f_0_25 f_0_0 f_0_25 f_0_75 f_1_5 f_0_3125;
   mkAabb f_0_25 f_0_0 f_0_6875 f_0_75 f_1_5 f_0_75;
   mkAabb f_0_3125 f_0_0 f_0_75 f_0_6875 f_1_5 f_1_0;
   mkAabb f_0_0 f_0_0 f_0_3125 f_1_0 f_1_5 f_0_6875;
   mkAabb f_0_25 f_0_0 f_0_25 f_0_75 f_1_5 f_0_3125;
   mkAabb f_0_25 f_0_0 f_0_6875 f_0_75 f_1_5 f_0_75;
   mkAabb f_0_3125 f_0_0 f_0_75 f_0_6875 f_1_5 f_1_0;
   mkAabb f_0_3125 f_0_0 f_0_3125 f_0_6875 f_1_5 f_1_0;
   mkAabb f_0_6875 f_0_0 f_0_3125 f_1_0 f_1_5 f_0_6875;
   mkAabb f_0_0 f_0_0 f_0_3125 f_1_0 f_1_5 f_0_6875;
   mkAabb f_0_3125 f_0_0 f_0_6875 f_0_6875 f_1_5 f_1_0;
   mkAabb f_0_0 f_0_0 f_0_3125 f_1_0 f_1_5 f_0_6875;
   mkAabb f_0_3125 f_0_0 f_0_6875 f_0_6875 f_1_5 f_1_0;
   mkAabb f_0_25 f_0_0 f_0_25 f_0_75 f_1_5 f_0_75;
   mkAabb f_0_3125 f_0_0 f_0_75 f_0_6875 f_1_5 f_1_0;
   mkAabb f_0_75 f_0_0 f_0_3125 f_1_0 f_1_5 f_0_6875;
   mkAabb f_0_0 f_0_0 f_0_3125 f_1_0 f_1_5 f_0_6875;
   mkAabb f_0_25 f_0_0 f_0_25 f_0_75 f_1_5 f_0_3125;
   mkAabb f_0_25 f_0_0 f_0_6875 f_0_75 f_1_5 f_0_75;
   mkAabb f_0_3125 f_0_0 f_0_75 f_0_6875 f_1_5 f_1_0;
   mkAabb f_0_0 f_0_0 f_0_3125 f_1_0 f_1_5 f_0_6875;
   mkAabb f_0_25 f_0_0 f_0_25 f_0_75 f_1_5 f_0_3125;
   mkAabb f_0_25 f_0_0 f_0_6875 f_0_75 f_1_5 f_0_75;
   mkAabb f_0_3125 f_0_0 f_0_75 f_0_6875 f_1_5 f_1_0;
   mkAabb f_0_3125 f_0_0 f_0_3125 f_0_6875 f_1_5 f_1_0;
   mkAabb f_0_6875 f_0_0 f_0_3125 f_1_0 f_1_5 f_0_6875;
   mkAabb f_0_0 f_0_0 f_0_3125 f_1_0 f_1_5 f_0_6875;
   mkAabb f_0_3125 f_0_0 f_0_6875 f_0_6875 f_1_5 f_1_0;
   mkAabb f_0_0 f_0_0 f_0_3125 f_1_0 f_1_5 f_0_6875;
   mkAabb f_0_3125 f_0_0 f_0_6875 f_0_6875 f_1_5 f_1_0;
   mkAabb f_0_25 f_0_0 f_0_25 f_0_75 f_1_5 f_0_75;
   mkAabb f_0_3125 f_0_0 f_0_0 f_0_6875 f_1_5 f_0_25;
   mkAabb f_0_75 f_0_0 f_0_3125 f_1_0 f_1_5 f_0_6875;
   mkAabb f_0_0 f_0_0 f_0_3125 f_1_0 f_1_5 f_0_6875;
   mkAabb f_0_25 f_0_0 f_0_25 f_0_75 f_1_5 f_0_3125;
   mkAabb f_0_25 f_0_0 f_0_6875 f_0_75 f_1_5 f_0_75;
   mkAabb f_0_3125 f_0_0 f_0_0 f_0_6875 f_1_5 f_0_25;
   mkAabb f_0_0 f_0_0 f_0_3125 f_1_0 f_1_5 f_0_6875;
   mkAabb f_0_25 f_0_0 f_0_25 f_0_75 f_1_5 f_0_3125;
   mkAabb f_0_25 f_0_0 f_0_6875 f_0_75 f_1_5 f_0_75;
   mkAabb f_0_3125 f_0_0 f_0_0 f_0_6875 f_1_5 f_0_25;
   mkAabb f_0_3125 f_0_0 f_0_0 f_0_6875 f_1_5 f_0_6875;
   mkAabb f_0_6875 f_0_0 f_0_3125 f_1_0 f_1_5 f_0_6875;
   mkAabb f_0_0 f_0_0 f_0_3125 f_1_0 f_1_5 f_0_6875;
   mkAabb f_0_3125 f_0_0 f_0_0 f_0_6875 f_1_5 f_0_3125;
   mkAabb f_0_0 f_0_0 f_0_3125 f_1_0 f_1_5 f_0_6875;
   mkAabb f_0_3125 f_0_0 f_0_0 f_0_6875 f_1_5 f_0_3125;
   mkAabb f_0_25 f_0_0 f_0_25 f_0_75 f_1_5 f_0_75;
   mkAabb f_0_3125 f_0_0 f_0_0 f_0_6875 f_1_5 f_0_25;
   mkAabb f_0_3125 f_0_0 f_0_75 f_0_6875 f_1_5 f_1_0;
   mkAabb f_0_75 f_0_0 f_0_3125 f_1_0 f_1_5 f_0_6875;
   mkAabb f_0_0 f_0_0 f_0_3125 f_1_0 f_1_5 f_0_6875;
   mkAabb f_0_25 f_0_0 f_0_25 f_0_75 f_1_5 f_0_3125;
   mkAabb f_0_25 f_0_0 f_0_6875 f_0_75 f_1_5 f_0_75;
   mkAabb f_0_3125 f_0_0 f_0_0 f_0_6875 f_1_5 f_0_25;
   mkAabb f_0_3125 f_0_0 f_0_75 f_0_6875 f_1_5 f_1_0;
   mkAabb f_0_0 f_0_0 f_0_3125 f_1_0 f_1_5 f_0_6875;
   mkAabb f_0_25 f_0_0 f_0_25 f_0_75 f_1_5 f_0_3125;
   mkAabb f_0_25 f_0_0 f_0_6875 f_0_75 f_1_5 f_0_75;
   mkAabb f_0_3125 f_0_0 f_0_0 f_0_6875 f_1_5 f_0_25;
   mkAabb f_0_3125 f_0_0 f_0_75 f_0_6875 f_1_5 f_1_0;
   mkAabb f_0_3125 f_0_0 f_0_0 f_0_6875 f_1_5 f_1_0;
   mkAabb f_0_6875 f_0_0 f_0_3125 f_1_0 f_1_5 f_0_6875;
   mkAabb f_0_0 f_0_0 f_0_3125 f_1_0 f_1_5 f_0_6875;
   mkAabb f_0_3125 f_0_0 f_0_0 f_0_6875 f_1_5 f_0_3125;
   mkAabb f_0_3125 f_0_0 f_0_6875 f_0_6875 f_1_5 f_1_0;
   mkAabb f_0_0 f_0_0 f_0_3125 f_1_0 f_1_5 f_0_6875;
   mkAabb f_0_3125 f_0_0 f_0_0 f_0_6875 f_1_5 f_0_3125;
   mkAabb f_0_3125 f_0_0 f_0_6875 f_0_6875 f_1_5 f_1_0;
   mkAabb f_0_25 f_0_0 f_0_25 f_0_75 f_1_5 f_0_75;
   mkAabb f_0_3125 f_0_0 f_0_0 f_0_6875 f_1_5 f_0_25;
   mkAabb f_0_3125 f_0_0 f_0_75 f_0_6875 f_1_5 f_1_0;
   mkAabb f_0_75 f_0_0 f_0_3125 f_1_0 f_1_5 f_0_6875;
   mkAabb f_0_0 f_0_0 f_0_3125 f_1_0 f_1_5 f_0_6875;
   mkAabb f_0_25 f_0_0 f_0_25 f_0_75 f_1_5 f_0_3125;
   mkAabb f_0_25 f_0_0 f_0_6875 f_0_75 f_1_5 f_0_75;
   mkAabb f_0_3125 f_0_0 f_0_0 f_0_6875 f_1_5 f_0_25;
   mkAabb f_0_3125 f_0_0 f_0_75 f_0_6875 f_1_5 f_1_0;
   mkAabb f_0_0 f_0_0 f_0_3125 f_1_0 f_1_5 f_0_6875;
   mkAabb f_0_25 f_0_0 f_0_25 f_0_75 f_1_5 f_0_3125;
   mkAabb f_0_25 f_0_0 f_0_6875 f_0_75 f_1_5 f_0_75;
   mkAabb f_0_3125 f_0_0 f_0_0 f_0_6875 f_1_5 f_0_25;
   mkAabb f_0_3125 f_0_0 f_0_75 f_0_6875 f_1_5 f_1_0;
   mkAabb f_0_3125 f_0_0 f_0_0 f_0_6875 f_1_5 f_1_0;
   mkAabb f_0_6875 f_0_0 f_0_3125 f_1_0 f_1_5 f_0_6875;
   mkAabb f_0_0 f_0_0 f_0_3125 f_1_0 f_1_5 f_0_6875;
   mkAabb f_0_3125 f_0_0 f_0_0 f_0_6875 f_1_5 f_0_3125;
   mkAabb f_0_3125 f_0_0 f_0_6875 f_0_6875 f_1_5 f_1_0;
   mkAabb f_0_0 f_0_0 f_0_3125 f_1_0 f_1_5 f_0_6875].
Definition SHAPE_BOXES_53 : list Aabb :=
  [mkAabb f_0_3125 f_0_0 f_0_0 f_0_6875 f_1_5 f_0_3125;
   mkAabb f_0_3125 f_0_0 f_0_6875 f_0_6875 f_1_5 f_1_0;
   mkAabb f_0_25 f_0_0 f_0_25 f_0_75 f_1_5 f_0_75;
   mkAabb f_0_3125 f_0_0 f_0_0 f_0_6875 f_1_5 f_0_25;
   mkAabb f_0_75 f_0_0 f_0_3125 f_1_0 f_1_5 f_0_6875;
   mkAabb f_0_0 f_0_0 f_0_3125 f_1_0 f_1_5 f_0_6875;
   mkAabb f_0_25 f_0_0 f_0_25 f_0_75 f_1_5 f_0_3125;
   mkAabb f_0_25 f_0_0 f_0_6875 f_0_75 f_1_5 f_0_75;
   mkAabb f_0_3125 f_0_0 f_0_0 f_0_6875 f_1_5 f_0_25;
   mkAabb f_0_0 f_0_0 f_0_3125 f_1_0 f_1_5 f_0_6875;
   mkAabb f_0_25 f_0_0 f_0_25 f_0_75 f_1_5 f_0_3125;
   mkAabb f_0_25 f_0_0 f_0_6875 f_0_75 f_1_5 f_0_75;
   mkAabb f_0_3125 f_0_0 f_0_0 f_0_6875 f_1_5 f_0_25;
   mkAabb f_0_3125 f_0_0 f_0_0 f_0_6875 f_1_5 f_0_6875;
   mkAabb f_0_6875 f_0_0 f_0_3125 f_1_0 f_1_5 f_0_6875;
   mkAabb f_0_0 f_0_0 f_0_3125 f_1_0 f_1_5 f_0_6875;
   mkAabb f_0_3125 f_0_0 f_0_0 f_0_6875 f_1_5 f_0_3125;
   mkAabb f_0_0 f_0_0 f_0_3125 f_1_0 f_1_5 f_0_6875;
   mkAabb f_0_3125 f_0_0 f_0_0 f_0_6875 f_1_5 f_0_3125;
   mkAabb f_0_25 f_0_0 f_0_25 f_0_75 f_1_5 f_0_75;
   mkAabb f_0_3125 f_0_0 f_0_0 f_0_6875 f_1_5 f_0_25;
   mkAabb f_0_3125 f_0_0 f_0_75 f_0_6875 f_1_5 f_1_0;
   mkAabb f_0_75 f_0_0 f_0_3125 f_1_0 f_1_5 f_0_6875;
   mkAabb f_0_0 f_0_0 f_0_3125 f_1_0 f_1_5 f_0_6875;
   mkAabb f_0_25 f_0_0 f_0_25 f_0_75 f_1_5 f_0_3125;
   mkAabb f_0_25 f_0_0 f_0_6875 f_0_75 f_1_5 f_0_75;
   mkAabb f_0_3125 f_0_0 f_0_0 f_0_6875 f_1_5 f_0_25;
   mkAabb f_0_3125 f_0_0 f_0_75 f_0_6875 f_1_5 f_1_0;
   mkAabb f_0_0 f_0_0 f_0_3125 f_1_0 f_1_5 f_0_6875;
   mkAabb f_0_25 f_0_0 f_0_25 f_0_75 f_1_5 f_0_3125;
   mkAabb f_0_25 f_0_0 f_0_6875 f_0_75 f_1_5 f_0_75;
   mkAabb f_0_3125 f_0_0 f_0_0 f_0_6875 f_1_5 f_0_25;
   mkAabb f_0_3125 f_0_0 f_0_75 f_0_6875 f_1_5 f_1_0;
   mkAabb f_0_3125 f_0_0 f_0_0 f_0_6875 f_1_5 f_1_0;
   mkAabb f_0_6875 f_0_0 f_0_3125 f_1_0 f_1_5 f_0_6875;
   mkAabb f_0_0 f_0_0 f_0_3125 f_1_0 f_1_5 f_0_6875;
   mkAabb f_0_3125 f_0_0 f_0_0 f_0_6875 f_1_5 f_0_3125;
   mkAabb f_0_3125 f_0_0 f_0_6875 f_0_6875 f_1_5 f_1_0;
   mkAabb f_0_0 f_0_0 f_0_3125 f_1_0 f_1_5 f_0_6875;
   mkAabb f_0_3125 f_0_0 f_0_0 f_0_6875 f_1_5 f_0_3125;
   mkAabb f_0_3125 f_0_0 f_0_6875 f_0_6875 f_1_5 f_1_0;
   mkAabb f_0_25 f_0_0 f_0_25 f_0_75 f_1_5 f_0_75;
   mkAabb f_0_3125 f_0_0 f_0_0 f_0_6875 f_1_5 f_0_25;
   mkAabb f_0_3125 f_0_0 f_0_75 f_0_6875 f_1_5 f_1_0;
   mkAabb f_0_75 f_0_0 f_0_3125 f_1_0 f_1_5 f_0_6875;
   mkAabb f_0_0 f_0_0 f_0_3125 f_1_0 f_1_5 f_0_6875;
   mkAabb f_0_25 f_0_0 f_0_25 f_0_75 f_1_5 f_0_3125;
   mkAabb f_0_25 f_0_0 f_0_6875 f_0_75 f_1_5 f_0_75;
   mkAabb f_0_3125 f_0_0 f_0_0 f_0_6875 f_1_5 f_0_25;
   mkAabb f_0_3125 f_0_0 f_0_75 f_0_6875 f_1_5 f_1_0;
   mkAabb f_0_0 f_0_0 f_0_3125 f_1_0 f_1_5 f_0_6875;
   mkAabb f_0_25 f_0_0 f_0_25 f_0_75 f_1_5 f_0_3125;
   mkAabb f_0_25 f_0_0 f_0_6875 f_0_75 f_1_5 f_0_75;
   mkAabb f_0_3125 f_0_0 f_0_0 f_0_6875 f_1_5 f_0_25;
   mkAabb f_0_3125 f_0_0 f_0_75 f_0_6875 f_1_5 f_1_0;
   mkAabb f_0_3125 f_0_0 f_0_0 f_0_6875 f_1_5 f_1_0;
   mkAabb f_0_6875 f_0_0 f_0_3125 f_1_0 f_1_5 f_0_6875;
   mkAabb f_0_0 f_0_0 f_0_3125 f_1_0 f_1_5 f_0_6875;
   mkAabb f_0_3125 f_0_0 f_0_0 f_0_6875 f_1_5 f_0_3125;
   mkAabb f_0_3125 f_0_0 f_0_6875 f_0_6875 f_1_5 f_1_0;
   mkAabb f_0_0 f_0_0 f_0_3125 f_1_0 f_1_5 f_0_6875;
   mkAabb f_0_3125 f_0_0 f_0_0 f_0_6875 f_1_5 f_0_3125;
   mkAabb f_0_3125 f_0_0 f_0_6875 f_0_6875 f_1_5 f_1_0;
   mkAabb f_0_25 f_0_0 f_0_25 f_0_75 f_1_5 f_0_75;
   mkAabb f_0_0 f_0_0 f_0_3125 f_0_75 f_1_5 f_0_6875;
   mkAabb f_0_25 f_0_0 f_0_25 f_0_75 f_1_5 f_0_3125;
   mkAabb f_0_25 f_0_0 f_0_6875 f_0_75 f_1_5 f_0_75;
   mkAabb f_0_0 f_0_0 f_0_3125 f_0_75 f_1_5 f_0_6875;
   mkAabb f_0_25 f_0_0 f_0_25 f_0_75 f_1_5 f_0_3125;
   mkAabb f_0_25 f_0_0 f_0_6875 f_0_75 f_1_5 f_0_75;
   mkAabb f_0_0 f_0_0 f_0_3125 f_0_6875 f_1_5 f_0_6875;
   mkAabb f_0_0 f_0_0 f_0_3125 f_0_6875 f_1_5 f_0_6875;
   mkAabb f_0_25 f_0_0 f_0_25 f_0_75 f_1_5 f_0_75;
   mkAabb f_0_3125 f_0_0 f_0_75 f_0_6875 f_1_5 f_1_0;
   mkAabb f_0_0 f_0_0 f_0_3125 f_0_75 f_1_5 f_0_6875;
   mkAabb f_0_25 f_0_0 f_0_25 f_0_75 f_1_5 f_0_3125;
   mkAabb f_0_25 f_0_0 f_0_6875 f_0_75 f_1_5 f_0_75;
   mkAabb f_0_3125 f_0_0 f_0_75 f_0_6875 f_1_5 f_1_0;
   mkAabb f_0_0 f_0_0 f_0_3125 f_0_75 f_1_5 f_0_6875;
   mkAabb f_0_25 f_0_0 f_0_25 f_0_75 f_1_5 f_0_3125;
   mkAabb f_0_25 f_0_0 f_0_6875 f_0_75 f_1_5 f_0_75;
   mkAabb f_0_3125 f_0_0 f_0_75 f_0_6875 f_1_5 f_1_0;
   mkAabb f_0_3125 f_0_0 f_0_3125 f_0_6875 f_1_5 f_1_0;
   mkAabb f_0_0 f_0_0 f_0_3125 f_0_6875 f_1_5 f_0_6875;
   mkAabb f_0_3125 f_0_0 f_0_6875 f_0_6875 f_1_5 f_1_0;
   mkAabb f_0_0 f_0_0 f_0_3125 f_0_6875 f_1_5 f_0_6875;
   mkAabb f_0_3125 f_0_0 f_0_6875 f_0_6875 f_1_5 f_1_0;
   mkAabb f_0_25 f_0_0 f_0_25 f_0_75 f_1_5 f_0_75;
   mkAabb f_0_3125 f_0_0 f_0_75 f_0_6875 f_1_5 f_1_0;
   mkAabb f_0_0 f_0_0 f_0_3125 f_0_75 f_1_5 f_0_6875;
   mkAabb f_0_25 f_0_0 f_0_25 f_0_75 f_1_5 f_0_3125;
   mkAabb f_0_25 f_0_0 f_0_6875 f_0_75 f_1_5 f_0_75;
   mkAabb f_0_3125 f_0_0 f_0_75 f_0_6875 f_1_5 f_1_0;
   mkAabb f_0_0 f_0_0 f_0_3125 f_0_75 f_1_5 f_0_6875;
   mkAabb f_0_25 f_0_0 f_0_25 f_0_75 f_1_5 f_0_3125;
   mkAabb f_0_25 f_0_0 f_0_6875 f_0_75 f_1_5 f_0_75;
   mkAabb f_0_3125 f_0_0 f_0_75 f_0_6875 f_1_5 f_1_0;
   mkAabb f_0_3125 f_0_0 f_0_3125 f_0_6875 f_1_5 f_1_0;
   mkAabb f_0_0 f_0_0 f_0_3125 f_0_6875 f_1_5 f_0_6875;
   mkAabb f_0_3125 f_0_0 f_0_6875 f_0_6875 f_1_5 f_1_0;
   mkAabb f_0_0 f_0_0 f_0_3125 f_0_6875 f_1_5 f_0_6875;
   mkAabb f_0_3125 f_0_0 f_0_6875 f_0_6875 f_1_5 f_1_0;
   mkAabb f_0_25 f_0_0 f_0_25 f_0_75 f_1_5 f_0_75;
   mkAabb f_0_3125 f_0_0 f_0_0 f_0_6875 f_1_5 f_0_25;
   mkAabb f_0_0 f_0_0 f_0_3125 f_0_75 f_1_5 f_0_6875;
   mkAabb f_0_25 f_0_0 f_0_25 f_0_75 f_1_5 f_0_3125;
   mkAabb f_0_25 f_0_0 f_0_6875 f_0_75 f_1_5 f_0_75;
   mkAabb f_0_3125 f_0_0 f_0_0 f_0_6875 f_1_5 f_0_25;
   mkAabb f_0_0 f_0_0 f_0_3125 f_0_75 f_1_5 f_0_6875;
   mkAabb f_0_25 f_0_0 f_0_25 f_0_75 f_1_5 f_0_3125;
   mkAabb f_0_25 f_0_0 f_0_6875 f_0_75 f_1_5 f_0_75;
   mkAabb f_0_3125 f_0_0 f_0_0 f_0_6875 f_1_5 f_0_25;
   mkAabb f_0_3125 f_0_0 f_0_0 f_0_6875 f_1_5 f_0_6875;
   mkAabb f_0_0 f_0_0 f_0_3125 f_0_6875 f_1_5 f_0_6875;
   mkAabb f_0_3125 f_0_0 f_0_0 f_0_6875 f_1_5 f_0_3125;
   mkAabb f_0_0 f_0_0 f_0_3125 f_0_6875 f_1_5 f_0_6875;
   mkAabb f_0_3125 f_0_0 f_0_0 f_0_6875 f_1_5 f_0_3125;
   mkAabb f_0_25 f_0_0 f_0_25 f_0_75 f_1_5 f_0_75;
   mkAabb f_0_3125 f_0_0 f_0_0 f_0_6875 f_1_5 f_0_25;
   mkAabb f_0_3125 f_0_0 f_0_75 f_0_6875 f_1_5 f_1_0;
   mkAabb f_0_0 f_0_0 f_0_3125 f_0_75 f_1_5 f_0_6875;
   mkAabb f_0_25 f_0_0 f_0_25 f_0_75 f_1_5 f_0_3125;
   mkAabb f_0_25 f_0_0 f_0_6875 f_0_75 f_1_5 f_0_75;
   mkAabb f_0_3125 f_0_0 f_0_0 f_0_6875 f_1_5 f_0_25;
   mkAabb f_0_3125 f_0_0 f_0_75 f_0_6875 f_1_5 f_1_0;
   mkAabb f_0_0 f_0_0 f_0_3125 f_0_75 f_1_5 f_0_6875;
   mkAabb f_0_25 f_0_0 f_0_25 f_0_75 f_1_5 f_0_3125;
   mkAabb f_0_25 f_0_0 f_0_6875 f_0_75 f_1_5 f_0_75;
   mkAabb f_0_3125 f_0_0 f_0_0 f_0_6875 f_1_5 f_0_25;
   mkAabb f_0_3125 f_0_0 f_0_75 f_0_6875 f_1_5 f_1_0;
   mkAabb f_0_3125 f_0_0 f_0_0 f_0_6875 f_1_5 f_1_0;
   mkAabb f_0_0 f_0_0 f_0_3125 f_0_6875 f_1_5 f_0_6875;
   mkAabb f_0_3125 f_0_0 f_0_0 f_0_6875 f_1_5 f_0_3125;
   mkAabb f_0_3125 f_0_0 f_0_6875 f_0_6875 f_1_5 f_1_0;
   mkAabb f_0_0 f_0_0 f_0_3125 f_0_6875 f_1_5 f_0_6875;
   mkAabb f_0_3125 f_0_0 f_0_0 f_0_6875 f_1_5 f_0_3125;
   mkAabb f_0_3125 f_0_0 f_0_6875 f_0_6875 f_1_5 f_1_0;
   mkAabb f_0_25 f_0_0 f_0_25 f_0_75 f_1_5 f_0_75;
   mkAabb f_0_3125 f_0_0 f_0_0 f_0_6875 f_1_5 f_0_25;
   mkAabb f_0_3125 f_0_0 f_0_75 f_0_6875 f_1_5 f_1_0;
   mkAabb f_0_0 f_0_0 f_0_3125 f_0_75 f_1_5 f_0_6875;
   mkAabb f_0_25 f_0_0 f_0_25 f_0_75 f_1_5 f_0_3125;
   mkAabb f_0_25 f_0_0 f_0_6875 f_0_75 f_1_5 f_0_75;
   mkAabb f_0_3125 f_0_0 f_0_0 f_0_6875 f_1_5 f_0_25;
   mkAabb f_0_3125 f_0_0 f_0_75 f_0_6875 f_1_5 f_1_0;
   mkAabb f_0_0 f_0_0 f_0_3125 f_0_75 f_1_5 f_0_6875;
   mkAabb f_0_25 f_0_0 f_0_25 f_0_75 f_1_5 f_0_3125;
   mkAabb f_0_25 f_0_0 f_0_6875 f_0_75 f_1_5 f_0_75;
   mkAabb f_0_3125 f_0_0 f_0_0 f_0_6875 f_1_5 f_0_25;
   mkAabb f_0_3125 f_0_0 f_0_75 f_0_6875 f_1_5 f_1_0].
Definition SHAPE_BOXES_54 : list Aabb :=
  [mkAabb f_0_3125 f_0_0 f_0_0 f_0_6875 f_1_5 f_1_0;
   mkAabb f_0_0 f_0_0 f_0_3125 f_0_6875 f_1_5 f_0_6875;
   mkAabb f_0_3125 f_0_0 f_0_0 f_0_6875 f_1_5 f_0_3125;
   mkAabb f_0_3125 f_0_0 f_0_6875 f_0_6875 f_1_5 f_1_0;
   mkAabb f_0_0 f_0_0 f_0_3125 f_0_6875 f_1_5 f_0_6875;
   mkAabb f_0_3125 f_0_0 f_0_0 f_0_6875 f_1_5 f_0_3125;
   mkAabb f_0_3125 f_0_0 f_0_6875 f_0_6875 f_1_5 f_1_0;
   mkAabb f_0_25 f_0_0 f_0_25 f_0_75 f_1_5 f_0_75;
   mkAabb f_0_3125 f_0_0 f_0_0 f_0_6875 f_1_5 f_0_25;
   mkAabb f_0_0 f_0_0 f_0_3125 f_0_75 f_1_5 f_0_6875;
   mkAabb f_0_25 f_0_0 f_0_25 f_0_75 f_1_5 f_0_3125;
   mkAabb f_0_25 f_0_0 f_0_6875 f_0_75 f_1_5 f_0_75;
   mkAabb f_0_3125 f_0_0 f_0_0 f_0_6875 f_1_5 f_0_25;
   mkAabb f_0_0 f_0_0 f_0_3125 f_0_75 f_1_5 f_0_6875;
   mkAabb f_0_25 f_0_0 f_0_25 f_0_75 f_1_5 f_0_3125;
   mkAabb f_0_25 f_0_0 f_0_6875 f_0_75 f_1_5 f_0_75;
   mkAabb f_0_3125 f_0_0 f_0_0 f_0_6875 f_1_5 f_0_25;
   mkAabb f_0_3125 f_0_0 f_0_0 f_0_6875 f_1_5 f_0_6875;
   mkAabb f_0_0 f_0_0 f_0_3125 f_0_6875 f_1_5 f_0_6875;
   mkAabb f_0_3125 f_0_0 f_0_0 f_0_6875 f_1_5 f_0_3125;
   mkAabb f_0_0 f_0_0 f_0_3125 f_0_6875 f_1_5 f_0_6875;
   mkAabb f_0_3125 f_0_0 f_0_0 f_0_6875 f_1_5 f_0_3125;
   mkAabb f_0_25 f_0_0 f_0_25 f_0_75 f_1_5 f_0_75;
   mkAabb f_0_3125 f_0_0 f_0_0 f_0_6875 f_1_5 f_0_25;
   mkAabb f_0_3125 f_0_0 f_0_75 f_0_6875 f_1_5 f_1_0;
   mkAabb f_0_0 f_0_0 f_0_3125 f_0_75 f_1_5 f_0_6875;
   mkAabb f_0_25 f_0_0 f_0_25 f_0_75 f_1_5 f_0_3125;
   mkAabb f_0_25 f_0_0 f_0_6875 f_0_75 f_1_5 f_0_75;
   mkAabb f_0_3125 f_0_0 f_0_0 f_0_6875 f_1_5 f_0_25;
   mkAabb f_0_3125 f_0_0 f_0_75 f_0_6875 f_1_5 f_1_0;
   mkAabb f_0_0 f_0_0 f_0_3125 f_0_75 f_1_5 f_0_6875;
   mkAabb f_0_25 f_0_0 f_0_25 f_0_75 f_1_5 f_0_3125;
   mkAabb f_0_25 f_0_0 f_0_6875 f_0_75 f_1_5 f_0_75;
   mkAabb f_0_3125 f_0_0 f_0_0 f_0_6875 f_1_5 f_0_25;
   mkAabb f_0_3125 f_0_0 f_0_75 f_0_6875 f_1_5 f_1_0;
   mkAabb f_0_3125 f_0_0 f_0_0 f_0_6875 f_1_5 f_1_0;
   mkAabb f_0_0 f_0_0 f_0_3125 f_0_6875 f_1_5 f_0_6875;
   mkAabb f_0_3125 f_0_0 f_0_0 f_0_6875 f_1_5 f_0_3125;
   mkAabb f_0_3125 f_0_0 f_0_6875 f_0_6875 f_1_5 f_1_0;
   mkAabb f_0_0 f_0_0 f_0_3125 f_0_6875 f_1_5 f_0_6875;
   mkAabb f_0_3125 f_0_0 f_0_0 f_0_6875 f_1_5 f_0_3125;
   mkAabb f_0_3125 f_0_0 f_0_6875 f_0_6875 f_1_5 f_1_0;
   mkAabb f_0_25 f_0_0 f_0_25 f_0_75 f_1_5 f_0_75;
   mkAabb f_0_3125 f_0_0 f_0_0 f_0_6875 f_1_5 f_0_25;
   mkAabb f_0_3125 f_0_0 f_0_75 f_0_6875 f_1_5 f_1_0;
   mkAabb f_0_0 f_0_0 f_0_3125 f_0_75 f_1_5 f_0_6875;
   mkAabb f_0_25 f_0_0 f_0_25 f_0_75 f_1_5 f_0_3125;
   mkAabb f_0_25 f_0_0 f_0_6875 f_0_75 f_1_5 f_0_75;
   mkAabb f_0_3125 f_0_0 f_0_0 f_0_6875 f_1_5 f_0_25;
   mkAabb f_0_3125 f_0_0 f_0_75 f_0_6875 f_1_5 f_1_0;
   mkAabb f_0_0 f_0_0 f_0_3125 f_0_75 f_1_5 f_0_6875;
   mkAabb f_0_25 f_0_0 f_0_25 f_0_75 f_1_5 f_0_3125;
   mkAabb f_0_25 f_0_0 f_0_6875 f_0_75 f_1_5 f_0_75;
   mkAabb f_0_3125 f_0_0 f_0_0 f_0_6875 f_1_5 f_0_25;
   mkAabb f_0_3125 f_0_0 f_0_75 f_0_6875 f_1_5 f_1_0;
   mkAabb f_0_3125 f_0_0 f_0_0 f_0_6875 f_1_5 f_1_0;
   mkAabb f_0_0 f_0_0 f_0_3125 f_0_6875 f_1_5 f_0_6875;
   mkAabb f_0_3125 f_0_0 f_0_0 f_0_6875 f_1_5 f_0_3125;
   mkAabb f_0_3125 f_0_0 f_0_6875 f_0_6875 f_1_5 f_1_0;
   mkAabb f_0_0 f_0_0 f_0_3125 f_0_6875 f_1_5 f_0_6875;
   mkAabb f_0_3125 f_0_0 f_0_0 f_0_6875 f_1_5 f_0_3125;
   mkAabb f_0_3125 f_0_0 f_0_6875 f_0_6875 f_1_5 f_1_0;
   mkAabb f_0_25 f_0_0 f_0_25 f_0_75 f_1_5 f_0_75;
   mkAabb f_0_75 f_0_0 f_0_3125 f_1_0 f_1_5 f_0_6875;
   mkAabb f_0_0 f_0_0 f_0_3125 f_1_0 f_1_5 f_0_6875;
   mkAabb f_0_25 f_0_0 f_0_25 f_0_75 f_1_5 f_0_3125;
   mkAabb f_0_25 f_0_0 f_0_6875 f_0_75 f_1_5 f_0_75;
   mkAabb f_0_0 f_0_0 f_0_3125 f_1_0 f_1_5 f_0_6875;
   mkAabb f_0_25 f_0_0 f_0_25 f_0_75 f_1_5 f_0_3125;
   mkAabb f_0_25 f_0_0 f_0_6875 f_0_75 f_1_5 f_0_75;
   mkAabb f_0_3125 f_0_0 f_0_3125 f_1_0 f_1_5 f_0_6875;
   mkAabb f_0_0 f_0_0 f_0_3125 f_1_0 f_1_5 f_0_6875;
   mkAabb f_0_0 f_0_0 f_0_3125 f_1_0 f_1_5 f_0_6875;
   mkAabb f_0_25 f_0_0 f_0_25 f_0_75 f_1_5 f_0_75;
   mkAabb f_0_3125 f_0_0 f_0_75 f_0_6875 f_1_5 f_1_0;
   mkAabb f_0_75 f_0_0 f_0_3125 f_1_0 f_1_5 f_0_6875;
   mkAabb f_0_0 f_0_0 f_0_3125 f_1_0 f_1_5 f_0_6875;
   mkAabb f_0_25 f_0_0 f_0_25 f_0_75 f_1_5 f_0_3125;
   mkAabb f_0_25 f_0_0 f_0_6875 f_0_75 f_1_5 f_0_75;
   mkAabb f_0_3125 f_0_0 f_0_75 f_0_6875 f_1_5 f_1_0;
   mkAabb f_0_0 f_0_0 f_0_3125 f_1_0 f_1_5 f_0_6875;
   mkAabb f_0_25 f_0_0 f_0_25 f_0_75 f_1_5 f_0_3125;
   mkAabb f_0_25 f_0_0 f_0_6875 f_0_75 f_1_5 f_0_75;
   mkAabb f_0_3125 f_0_0 f_0_75 f_0_6875 f_1_5 f_1_0;
   mkAabb f_0_3125 f_0_0 f_0_3125 f_0_6875 f_1_5 f_1_0;
   mkAabb f_0_6875 f_0_0 f_0_3125 f_1_0 f_1_5 f_0_6875;
   mkAabb f_0_0 f_0_0 f_0_3125 f_1_0 f_1_5 f_0_6875;
   mkAabb f_0_3125 f_0_0 f_0_6875 f_0_6875 f_1_5 f_1_0;
   mkAabb f_0_0 f_0_0 f_0_3125 f_1_0 f_1_5 f_0_6875;
   mkAabb f_0_3125 f_0_0 f_0_6875 f_0_6875 f_1_5 f_1_0;
   mkAabb f_0_25 f_0_0 f_0_25 f_0_75 f_1_5 f_0_75;
   mkAabb f_0_3125 f_0_0 f_0_75 f_0_6875 f_1_5 f_1_0;
   mkAabb f_0_75 f_0_0 f_0_3125 f_1_0 f_1_5 f_0_6875;
   mkAabb f_0_0 f_0_0 f_0_3125 f_1_0 f_1_5 f_0_6875;
   mkAabb f_0_25 f_0_0 f_0_25 f_0_75 f_1_5 f_0_3125;
   mkAabb f_0_25 f_0_0 f_0_6875 f_0_75 f_1_5 f_0_75;
   mkAabb f_0_3125 f_0_0 f_0_75 f_0_6875 f_1_5 f_1_0;
   mkAabb f_0_0 f_0_0 f_0_3125 f_1_0 f_1_5 f_0_6875;
   mkAabb f_0_25 f_0_0 f_0_25 f_0_75 f_1_5 f_0_3125;
   mkAabb f_0_25 f_0_0 f_0_6875 f_0_75 f_1_5 f_0_75;
   mkAabb f_0_3125 f_0_0 f_0_75 f_0_6875 f_1_5 f_1_0;
   mkAabb f_0_3125 f_0_0 f_0_3125 f_0_6875 f_1_5 f_1_0;
   mkAabb f_0_6875 f_0_0 f_0_3125 f_1_0 f_1_5 f_0_6875;
   mkAabb f_0_0 f_0_0 f_0_3125 f_1_0 f_1_5 f_0_6875;
   mkAabb f_0_3125 f_0_0 f_0_6875 f_0_6875 f_1_5 f_1_0;
   mkAabb f_0_0 f_0_0 f_0_3125 f_1_0 f_1_5 f_0_6875;
   mkAabb f_0_3125 f_0_0 f_0_6875 f_0_6875 f_1_5 f_1_0;
   mkAabb f_0_25 f_0_0 f_0_25 f_0_75 f_1_5 f_0_75;
   mkAabb f_0_3125 f_0_0 f_0_0 f_0_6875 f_1_5 f_0_25;
   mkAabb f_0_75 f_0_0 f_0_3125 f_1_0 f_1_5 f_0_6875;
   mkAabb f_0_0 f_0_0 f_0_3125 f_1_0 f_1_5 f_0_6875;
   mkAabb f_0_25 f_0_0 f_0_25 f_0_75 f_1_5 f_0_3125;
   mkAabb f_0_25 f_0_0 f_0_6875 f_0_75 f_1_5 f_0_75;
   mkAabb f_0_3125 f_0_0 f_0_0 f_0_6875 f_1_5 f_0_25;
   mkAabb f_0_0 f_0_0 f_0_3125 f_1_0 f_1_5 f_0_6875;
   mkAabb f_0_25 f_0_0 f_0_25 f_0_75 f_1_5 f_0_3125;
   mkAabb f_0_25 f_0_0 f_0_6875 f_0_75 f_1_5 f_0_75;
   mkAabb f_0_3125 f_0_0 f_0_0 f_0_6875 f_1_5 f_0_25;
   mkAabb f_0_3125 f_0_0 f_0_0 f_0_6875 f_1_5 f_0_6875;
   mkAabb f_0_6875 f_0_0 f_0_3125 f_1_0 f_1_5 f_0_6875;
   mkAabb f_0_0 f_0_0 f_0_3125 f_1_0 f_1_5 f_0_6875;
   mkAabb f_0_3125 f_0_0 f_0_0 f_0_6875 f_1_5 f_0_3125;
   mkAabb f_0_0 f_0_0 f_0_3125 f_1_0 f_1_5 f_0_6875;
   mkAabb f_0_3125 f_0_0 f_0_0 f_0_6875 f_1_5 f_0_3125;
   mkAabb f_0_25 f_0_0 f_0_25 f_0_75 f_1_5 f_0_75;
   mkAabb f_0_3125 f_0_0 f_0_0 f_0_6875 f_1_5 f_0_25;
   mkAabb f_0_3125 f_0_0 f_0_75 f_0_6875 f_1_5 f_1_0;
   mkAabb f_0_75 f_0_0 f_0_3125 f_1_0 f_1_5 f_0_6875;
   mkAabb f_0_0 f_0_0 f_0_3125 f_1_0 f_1_5 f_0_6875;
   mkAabb f_0_25 f_0_0 f_0_25 f_0_75 f_1_5 f_0_3125;
   mkAabb f_0_25 f_0_0 f_0_6875 f_0_75 f_1_5 f_0_75;
   mkAabb f_0_3125 f_0_0 f_0_0 f_0_6875 f_1_5 f_0_25;
   mkAabb f_0_3125 f_0_0 f_0_75 f_0_6875 f_1_5 f_1_0;
   mkAabb f_0_0 f_0_0 f_0_3125 f_1_0 f_1_5 f_0_6875;
   mkAabb f_0_25 f_0_0 f_0_25 f_0_75 f_1_5 f_0_3125;
   mkAabb f_0_25 f_0_0 f_0_6875 f_0_75 f_1_5 f_0_75;
   mkAabb f_0_3125 f_0_0 f_0_0 f_0_6875 f_1_5 f_0_25;
   mkAabb f_0_3125 f_0_0 f_0_75 f_0_6875 f_1_5 f_1_0;
   mkAabb f_0_3125 f_0_0 f_0_0 f_0_6875 f_1_5 f_1_0;
   mkAabb f_0_6875 f_0_0 f_0_3125 f_1_0 f_1_5 f_0_6875;
   mkAabb f_0_0 f_0_0 f_0_3125 f_1_0 f_1_5 f_0_6875;
   mkAabb f_0_3125 f_0_0 f_0_0 f_0_6875 f_1_5 f_0_3125;
   mkAabb f_0_3125 f_0_0 f_0_6875 f_0_6875 f_1_5 f_1_0;
   mkAabb f_0_0 f_0_0 f_0_3125 f_1_0 f_1_5 f_0_6875;
   mkAabb f_0_3125 f_0_0 f_0_0 f_0_6875 f_1_5 f_0_3125;
   mkAabb f_0_3125 f_0_0 f_0_6875 f_0_6875 f_1_5 f_1_0;
   mkAabb f_0_25 f_0_0 f_0_25 f_0_75 f_1_5 f_0_75;
   mkAabb f_0_3125 f_0_0 f_0_0 f_0_6875 f_1_5 f_0_25;
   mkAabb f_0_3125 f_0_0 f_0_75 f_0_6875 f_1_5 f_1_0;
   mkAabb f_0_75 f_0_0 f_0_3125 f_1_0 f_1_5 f_0_6875].
Definition SHAPE_BOXES_55 : list Aabb :=
  [mkAabb f_0_0 f_0_0 f_0_3125 f_1_0 f_1_5 f_0_6875;
   mkAabb f_0_25 f_0_0 f_0_25 f_0_75 f_1_5 f_0_3125;
   mkAabb f_0_25 f_0_0 f_0_6875 f_0_75 f_1_5 f_0_75;
   mkAabb f_0_3125 f_0_0 f_0_0 f_0_6875 f_1_5 f_0_25;
   mkAabb f_0_3125 f_0_0 f_0_75 f_0_6875 f_1_5 f_1_0;
   mkAabb f_0_0 f_0_0 f_0_3125 f_1_0 f_1_5 f_0_6875;
   mkAabb f_0_25 f_0_0 f_0_25 f_0_75 f_1_5 f_0_3125;
   mkAabb f_0_25 f_0_0 f_0_6875 f_0_75 f_1_5 f_0_75;
   mkAabb f_0_3125 f_0_0 f_0_0 f_0_6875 f_1_5 f_0_25;
   mkAabb f_0_3125 f_0_0 f_0_75 f_0_6875 f_1_5 f_1_0;
   mkAabb f_0_3125 f_0_0 f_0_0 f_0_6875 f_1_5 f_1_0;
   mkAabb f_0_6875 f_0_0 f_0_3125 f_1_0 f_1_5 f_0_6875;
   mkAabb f_0_0 f_0_0 f_0_3125 f_1_0 f_1_5 f_0_6875;
   mkAabb f_0_3125 f_0_0 f_0_0 f_0_6875 f_1_5 f_0_3125;
   mkAabb f_0_3125 f_0_0 f_0_6875 f_0_6875 f_1_5 f_1_0;
   mkAabb f_0_0 f_0_0 f_0_3125 f_1_0 f_1_5 f_0_6875;
   mkAabb f_0_3125 f_0_0 f_0_0 f_0_6875 f_1_5 f_0_3125;
   mkAabb f_0_3125 f_0_0 f_0_6875 f_0_6875 f_1_5 f_1_0;
   mkAabb f_0_25 f_0_0 f_0_25 f_0_75 f_1_5 f_0_75;
   mkAabb f_0_3125 f_0_0 f_0_0 f_0_6875 f_1_5 f_0_25;
   mkAabb f_0_75 f_0_0 f_0_3125 f_1_0 f_1_5 f_0_6875;
   mkAabb f_0_0 f_0_0 f_0_3125 f_1_0 f_1_5 f_0_6875;
   mkAabb f_0_25 f_0_0 f_0_25 f_0_75 f_1_5 f_0_3125;
   mkAabb f_0_25 f_0_0 f_0_6875 f_0_75 f_1_5 f_0_75;
   mkAabb f_0_3125 f_0_0 f_0_0 f_0_6875 f_1_5 f_0_25;
   mkAabb f_0_0 f_0_0 f_0_3125 f_1_0 f_1_5 f_0_6875;
   mkAabb f_0_25 f_0_0 f_0_25 f_0_75 f_1_5 f_0_3125;
   mkAabb f_0_25 f_0_0 f_0_6875 f_0_75 f_1_5 f_0_75;
   mkAabb f_0_3125 f_0_0 f_0_0 f_0_6875 f_1_5 f_0_25;
   mkAabb f_0_3125 f_0_0 f_0_0 f_0_6875 f_1_5 f_0_6875;
   mkAabb f_0_6875 f_0_0 f_0_3125 f_1_0 f_1_5 f_0_6875;
   mkAabb f_0_0 f_0_0 f_0_3125 f_1_0 f_1_5 f_0_6875;
   mkAabb f_0_3125 f_0_0 f_0_0 f_0_6875 f_1_5 f_0_3125;
   mkAabb f_0_0 f_0_0 f_0_3125 f_1_0 f_1_5 f_0_6875;
   mkAabb f_0_3125 f_0_0 f_0_0 f_0_6875 f_1_5 f_0_3125;
   mkAabb f_0_25 f_0_0 f_0_25 f_0_75 f_1_5 f_0_75;
   mkAabb f_0_3125 f_0_0 f_0_0 f_0_6875 f_1_5 f_0_25;
   mkAabb f_0_3125 f_0_0 f_0_75 f_0_6875 f_1_5 f_1_0;
   mkAabb f_0_75 f_0_0 f_0_3125 f_1_0 f_1_5 f_0_6875;
   mkAabb f_0_0 f_0_0 f_0_3125 f_1_0 f_1_5 f_0_6875;
   mkAabb f_0_25 f_0_0 f_0_25 f_0_75 f_1_5 f_0_3125;
   mkAabb f_0_25 f_0_0 f_0_6875 f_0_75 f_1_5 f_0_75;
   mkAabb f_0_3125 f_0_0 f_0_0 f_0_6875 f_1_5 f_0_25;
   mkAabb f_0_3125 f_0_0 f_0_75 f_0_6875 f_1_5 f_1_0;
   mkAabb f_0_0 f_0_0 f_0_3125 f_1_0 f_1_5 f_0_6875;
   mkAabb f_0_25 f_0_0 f_0_25 f_0_75 f_1_5 f_0_3125;
   mkAabb f_0_25 f_0_0 f_0_6875 f_0_75 f_1_5 f_0_75;
   mkAabb f_0_3125 f_0_0 f_0_0 f_0_6875 f_1_5 f_0_25;
   mkAabb f_0_3125 f_0_0 f_0_75 f_0_6875 f_1_5 f_1_0;
   mkAabb f_0_3125 f_0_0 f_0_0 f_0_6875 f_1_5 f_1_0;
   mkAabb f_0_6875 f_0_0 f_0_3125 f_1_0 f_1_5 f_0_6875;
   mkAabb f_0_0 f_0_0 f_0_3125 f_1_0 f_1_5 f_0_6875;
   mkAabb f_0_3125 f_0_0 f_0_0 f_0_6875 f_1_5 f_0_3125;
   mkAabb f_0_3125 f_0_0 f_0_6875 f_0_6875 f_1_5 f_1_0;
   mkAabb f_0_0 f_0_0 f_0_3125 f_1_0 f_1_5 f_0_6875;
   mkAabb f_0_3125 f_0_0 f_0_0 f_0_6875 f_1_5 f_0_3125;
   mkAabb f_0_3125 f_0_0 f_0_6875 f_0_6875 f_1_5 f_1_0;
   mkAabb f_0_25 f_0_0 f_0_25 f_0_75 f_1_5 f_0_75;
   mkAabb f_0_3125 f_0_0 f_0_0 f_0_6875 f_1_5 f_0_25;
   mkAabb f_0_3125 f_0_0 f_0_75 f_0_6875 f_1_5 f_1_0;
   mkAabb f_0_75 f_0_0 f_0_3125 f_1_0 f_1_5 f_0_6875;
   mkAabb f_0_0 f_0_0 f_0_3125 f_1_0 f_1_5 f_0_6875;
   mkAabb f_0_25 f_0_0 f_0_25 f_0_75 f_1_5 f_0_3125;
   mkAabb f_0_25 f_0_0 f_0_6875 f_0_75 f_1_5 f_0_75;
   mkAabb f_0_3125 f_0_0 f_0_0 f_0_6875 f_1_5 f_0_25;
   mkAabb f_0_3125 f_0_0 f_0_75 f_0_6875 f_1_5 f_1_0;
   mkAabb f_0_0 f_0_0 f_0_3125 f_1_0 f_1_5 f_0_6875;
   mkAabb f_0_25 f_0_0 f_0_25 f_0_75 f_1_5 f_0_3125;
   mkAabb f_0_25 f_0_0 f_0_6875 f_0_75 f_1_5 f_0_75;
   mkAabb f_0_3125 f_0_0 f_0_0 f_0_6875 f_1_5 f_0_25;
   mkAabb f_0_3125 f_0_0 f_0_75 f_0_6875 f_1_5 f_1_0;
   mkAabb f_0_3125 f_0_0 f_0_0 f_0_6875 f_1_5 f_1_0;
   mkAabb f_0_6875 f_0_0 f_0_3125 f_1_0 f_1_5 f_0_6875;
   mkAabb f_0_0 f_0_0 f_0_3125 f_1_0 f_1_5 f_0_6875;
   mkAabb f_0_3125 f_0_0 f_0_0 f_0_6875 f_1_5 f_0_3125;
   mkAabb f_0_3125 f_0_0 f_0_6875 f_0_6875 f_1_5 f_1_0;
   mkAabb f_0_0 f_0_0 f_0_3125 f_1_0 f_1_5 f_0_6875;
   mkAabb f_0_3125 f_0_0 f_0_0 f_0_6875 f_1_5 f_0_3125;
   mkAabb f_0_3125 f_0_0 f_0_6875 f_0_6875 f_1_5 f_1_0;
   mkAabb f_0_25 f_0_0 f_0_25 f_0_75 f_1_5 f_0_75;
   mkAabb f_0_75 f_0_0 f_0_3125 f_1_0 f_1_5 f_0_6875;
   mkAabb f_0_0 f_0_0 f_0_3125 f_1_0 f_1_5 f_0_6875;
   mkAabb f_0_25 f_0_0 f_0_25 f_0_75 f_1_5 f_0_3125;
   mkAabb f_0_25 f_0_0 f_0_6875 f_0_75 f_1_5 f_0_75;
   mkAabb f_0_0 f_0_0 f_0_3125 f_1_0 f_1_5 f_0_6875;
   mkAabb f_0_25 f_0_0 f_0_25 f_0_75 f_1_5 f_0_3125;
   mkAabb f_0_25 f_0_0 f_0_6875 f_0_75 f_1_5 f_0_75;
   mkAabb f_0_3125 f_0_0 f_0_3125 f_1_0 f_1_5 f_0_6875;
   mkAabb f_0_0 f_0_0 f_0_3125 f_1_0 f_1_5 f_0_6875;
   mkAabb f_0_0 f_0_0 f_0_3125 f_1_0 f_1_5 f_0_6875;
   mkAabb f_0_25 f_0_0 f_0_25 f_0_75 f_1_5 f_0_75;
   mkAabb f_0_3125 f_0_0 f_0_75 f_0_6875 f_1_5 f_1_0;
   mkAabb f_0_75 f_0_0 f_0_3125 f_1_0 f_1_5 f_0_6875;
   mkAabb f_0_0 f_0_0 f_0_3125 f_1_0 f_1_5 f_0_6875;
   mkAabb f_0_25 f_0_0 f_0_25 f_0_75 f_1_5 f_0_3125;
   mkAabb f_0_25 f_0_0 f_0_6875 f_0_75 f_1_5 f_0_75;
   mkAabb f_0_3125 f_0_0 f_0_75 f_0_6875 f_1_5 f_1_0;
   mkAabb f_0_0 f_0_0 f_0_3125 f_1_0 f_1_5 f_0_6875;
   mkAabb f_0_25 f_0_0 f_0_25 f_0_75 f_1_5 f_0_3125;
   mkAabb f_0_25 f_0_0 f_0_6875 f_0_75 f_1_5 f_0_75;
   mkAabb f_0_3125 f_0_0 f_0_75 f_0_6875 f_1_5 f_1_0;
   mkAabb f_0_3125 f_0_0 f_0_3125 f_0_6875 f_1_5 f_1_0;
   mkAabb f_0_6875 f_0_0 f_0_3125 f_1_0 f_1_5 f_0_6875;
   mkAabb f_0_0 f_0_0 f_0_3125 f_1_0 f_1_5 f_0_6875;
   mkAabb f_0_3125 f_0_0 f_0_6875 f_0_6875 f_1_5 f_1_0;
   mkAabb f_0_0 f_0_0 f_0_3125 f_1_0 f_1_5 f_0_6875;
   mkAabb f_0_3125 f_0_0 f_0_6875 f_0_6875 f_1_5 f_1_0;
   mkAabb f_0_25 f_0_0 f_0_25 f_0_75 f_1_5 f_0_75;
   mkAabb f_0_3125 f_0_0 f_0_75 f_0_6875 f_1_5 f_1_0;
   mkAabb f_0_75 f_0_0 f_0_3125 f_1_0 f_1_5 f_0_6875;
   mkAabb f_0_0 f_0_0 f_0_3125 f_1_0 f_1_5 f_0_6875;
   mkAabb f_0_25 f_0_0 f_0_25 f_0_75 f_1_5 f_0_3125;
   mkAabb f_0_25 f_0_0 f_0_6875 f_0_75 f_1_5 f_0_75;
   mkAabb f_0_3125 f_0_0 f_0_75 f_0_6875 f_1_5 f_1_0;
   mkAabb f_0_0 f_0_0 f_0_3125 f_1_0 f_1_5 f_0_6875;
   mkAabb f_0_25 f_0_0 f_0_25 f_0_75 f_1_5 f_0_3125;
   mkAabb f_0_25 f_0_0 f_0_6875 f_0_75 f_1_5 f_0_75;
   mkAabb f_0_3125 f_0_0 f_0_75 f_0_6875 f_1_5 f_1_0;
   mkAabb f_0_3125 f_0_0 f_0_3125 f_0_6875 f_1_5 f_1_0;
   mkAabb f_0_6875 f_0_0 f_0_3125 f_1_0 f_1_5 f_0_6875;
   mkAabb f_0_0 f_0_0 f_0_3125 f_1_0 f_1_5 f_0_6875;
   mkAabb f_0_3125 f_0_0 f_0_6875 f_0_6875 f_1_5 f_1_0;
   mkAabb f_0_0 f_0_0 f_0_3125 f_1_0 f_1_5 f_0_6875;
   mkAabb f_0_3125 f_0_0 f_0_6875 f_0_6875 f_1_5 f_1_0;
   mkAabb f_0_25 f_0_0 f_0_25 f_0_75 f_1_5 f_0_75;
   mkAabb f_0_3125 f_0_0 f_0_0 f_0_6875 f_1_5 f_0_25;
   mkAabb f_0_75 f_0_0 f_0_3125 f_1_0 f_1_5 f_0_6875;
   mkAabb f_0_0 f_0_0 f_0_3125 f_1_0 f_1_5 f_0_6875;
   mkAabb f_0_25 f_0_0 f_0_25 f_0_75 f_1_5 f_0_3125;
   mkAabb f_0_25 f_0_0 f_0_6875 f_0_75 f_1_5 f_0_75;
   mkAabb f_0_3125 f_0_0 f_0_0 f_0_6875 f_1_5 f_0_25;
   mkAabb f_0_0 f_0_0 f_0_3125 f_1_0 f_1_5 f_0_6875;
   mkAabb f_0_25 f_0_0 f_0_25 f_0_75 f_1_5 f_0_3125;
   mkAabb f_0_25 f_0_0 f_0_6875 f_0_75 f_1_5 f_0_75;
   mkAabb f_0_3125 f_0_0 f_0_0 f_0_6875 f_1_5 f_0_25;
   mkAabb f_0_3125 f_0_0 f_0_0 f_0_6875 f_1_5 f_0_6875;
   mkAabb f_0_6875 f_0_0 f_0_3125 f_1_0 f_1_5 f_0_6875;
   mkAabb f_0_0 f_0_0 f_0_3125 f_1_0 f_1_5 f_0_6875;
   mkAabb f_0_3125 f_0_0 f_0_0 f_0_6875 f_1_5 f_0_3125;
   mkAabb f_0_0 f_0_0 f_0_3125 f_1_0 f_1_5 f_0_6875;
   mkAabb f_0_3125 f_0_0 f_0_0 f_0_6875 f_1_5 f_0_3125;
   mkAabb f_0_25 f_0_0 f_0_25 f_0_75 f_1_5 f_0_75;
   mkAabb f_0_3125 f_0_0 f_0_0 f_0_6875 f_1_5 f_0_25;
   mkAabb f_0_3125 f_0_0 f_0_75 f_0_6875 f_1_5 f_1_0;
   mkAabb f_0_75 f_0_0 f_0_3125 f_1_0 f_1_5 f_0_6875;
   mkAabb f_0_0 f_0_0 f_0_3125 f_1_0 f_1_5 f_0_6875;
   mkAabb f_0_25 f_0_0 f_0_25 f_0_75 f_1_5 f_0_3125;
   mkAabb f_0_25 f_0_0 f_0_6875 f_0_75 f_1_5 f_0_75;
   mkAabb f_0_3125 f_0_0 f_0_0 f_0_6875 f_1_5 f_0_25;
   mkAabb f_0_3125 f_0_0 f_0_75 f_0_6875 f_1_5 f_1_0].
Definition SHAPE_BOXES_56 : list Aabb :=
  [mkAabb f_0_0 f_0_0 f_0_3125 f_1_0 f_1_5 f_0_6875;
   mkAabb f_0_25 f_0_0 f_0_25 f_0_75 f_1_5 f_0_3125;
   mkAabb f_0_25 f_0_0 f_0_6875 f_0_75 f_1_5 f_0_75;
   mkAabb f_0_3125 f_0_0 f_0_0 f_0_6875 f_1_5 f_0_25;
   mkAabb f_0_3125 f_0_0 f_0_75 f_0_6875 f_1_5 f_1_0;
   mkAabb f_0_3125 f_0_0 f_0_0 f_0_6875 f_1_5 f_1_0;
   mkAabb f_0_6875 f_0_0 f_0_3125 f_1_0 f_1_5 f_0_6875;
   mkAabb f_0_0 f_0_0 f_0_3125 f_1_0 f_1_5 f_0_6875;
   mkAabb f_0_3125 f_0_0 f_0_0 f_0_6875 f_1_5 f_0_3125;
   mkAabb f_0_3125 f_0_0 f_0_6875 f_0_6875 f_1_5 f_1_0;
   mkAabb f_0_0 f_0_0 f_0_3125 f_1_0 f_1_5 f_0_6875;
   mkAabb f_0_3125 f_0_0 f_0_0 f_0_6875 f_1_5 f_0_3125;
   mkAabb f_0_3125 f_0_0 f_0_6875 f_0_6875 f_1_5 f_1_0;
   mkAabb f_0_25 f_0_0 f_0_25 f_0_75 f_1_5 f_0_75;
   mkAabb f_0_3125 f_0_0 f_0_0 f_0_6875 f_1_5 f_0_25;
   mkAabb f_0_3125 f_0_0 f_0_75 f_0_6875 f_1_5 f_1_0;
   mkAabb f_0_75 f_0_0 f_0_3125 f_1_0 f_1_5 f_0_6875;
   mkAabb f_0_0 f_0_0 f_0_3125 f_1_0 f_1_5 f_0_6875;
   mkAabb f_0_25 f_0_0 f_0_25 f_0_75 f_1_5 f_0_3125;
   mkAabb f_0_25 f_0_0 f_0_6875 f_0_75 f_1_5 f_0_75;
   mkAabb f_0_3125 f_0_0 f_0_0 f_0_6875 f_1_5 f_0_25;
   mkAabb f_0_3125 f_0_0 f_0_75 f_0_6875 f_1_5 f_1_0;
   mkAabb f_0_0 f_0_0 f_0_3125 f_1_0 f_1_5 f_0_6875;
   mkAabb f_0_25 f_0_0 f_0_25 f_0_75 f_1_5 f_0_3125;
   mkAabb f_0_25 f_0_0 f_0_6875 f_0_75 f_1_5 f_0_75;
   mkAabb f_0_3125 f_0_0 f_0_0 f_0_6875 f_1_5 f_0_25;
   mkAabb f_0_3125 f_0_0 f_0_75 f_0_6875 f_1_5 f_1_0;
   mkAabb f_0_3125 f_0_0 f_0_0 f_0_6875 f_1_5 f_1_0;
   mkAabb f_0_6875 f_0_0 f_0_3125 f_1_0 f_1_5 f_0_6875;
   mkAabb f_0_0 f_0_0 f_0_3125 f_1_0 f_1_5 f_0_6875;
   mkAabb f_0_3125 f_0_0 f_0_0 f_0_6875 f_1_5 f_0_3125;
   mkAabb f_0_3125 f_0_0 f_0_6875 f_0_6875 f_1_5 f_1_0;
   mkAabb f_0_0 f_0_0 f_0_3125 f_1_0 f_1_5 f_0_6875;
   mkAabb f_0_3125 f_0_0 f_0_0 f_0_6875 f_1_5 f_0_3125;
   mkAabb f_0_3125 f_0_0 f_0_6875 f_0_6875 f_1_5 f_1_0;
   mkAabb f_0_25 f_0_0 f_0_25 f_0_75 f_1_5 f_0_75;
   mkAabb f_0_3125 f_0_0 f_0_0 f_0_6875 f_1_5 f_0_25;
   mkAabb f_0_75 f_0_0 f_0_3125 f_1_0 f_1_5 f_0_6875;
   mkAabb f_0_0 f_0_0 f_0_3125 f_1_0 f_1_5 f_0_6875;
   mkAabb f_0_25 f_0_0 f_0_25 f_0_75 f_1_5 f_0_3125;
   mkAabb f_0_25 f_0_0 f_0_6875 f_0_75 f_1_5 f_0_75;
   mkAabb f_0_3125 f_0_0 f_0_0 f_0_6875 f_1_5 f_0_25;
   mkAabb f_0_0 f_0_0 f_0_3125 f_1_0 f_1_5 f_0_6875;
   mkAabb f_0_25 f_0_0 f_0_25 f_0_75 f_1_5 f_0_3125;
   mkAabb f_0_25 f_0_0 f_0_6875 f_0_75 f_1_5 f_0_75;
   mkAabb f_0_3125 f_0_0 f_0_0 f_0_6875 f_1_5 f_0_25;
   mkAabb f_0_3125 f_0_0 f_0_0 f_0_6875 f_1_5 f_0_6875;
   mkAabb f_0_6875 f_0_0 f_0_3125 f_1_0 f_1_5 f_0_6875;
   mkAabb f_0_0 f_0_0 f_0_3125 f_1_0 f_1_5 f_0_6875;
   mkAabb f_0_3125 f_0_0 f_0_0 f_0_6875 f_1_5 f_0_3125;
   mkAabb f_0_0 f_0_0 f_0_3125 f_1_0 f_1_5 f_0_6875;
   mkAabb f_0_3125 f_0_0 f_0_0 f_0_6875 f_1_5 f_0_3125;
   mkAabb f_0_25 f_0_0 f_0_25 f_0_75 f_1_5 f_0_75;
   mkAabb f_0_3125 f_0_0 f_0_0 f_0_6875 f_1_5 f_0_25;
   mkAabb f_0_3125 f_0_0 f_0_75 f_0_6875 f_1_5 f_1_0;
   mkAabb f_0_75 f_0_0 f_0_3125 f_1_0 f_1_5 f_0_6875;
   mkAabb f_0_0 f_0_0 f_0_3125 f_1_0 f_1_5 f_0_6875;
   mkAabb f_0_25 f_0_0 f_0_25 f_0_75 f_1_5 f_0_3125;
   mkAabb f_0_25 f_0_0 f_0_6875 f_0_75 f_1_5 f_0_75;
   mkAabb f_0_3125 f_0_0 f_0_0 f_0_6875 f_1_5 f_0_25;
   mkAabb f_0_3125 f_0_0 f_0_75 f_0_6875 f_1_5 f_1_0;
   mkAabb f_0_0 f_0_0 f_0_3125 f_1_0 f_1_5 f_0_6875;
   mkAabb f_0_25 f_0_0 f_0_25 f_0_75 f_1_5 f_0_3125;
   mkAabb f_0_25 f_0_0 f_0_6875 f_0_75 f_1_5 f_0_75;
   mkAabb f_0_3125 f_0_0 f_0_0 f_0_6875 f_1_5 f_0_25;
   mkAabb f_0_3125 f_0_0 f_0_75 f_0_6875 f_1_5 f_1_0;
   mkAabb f_0_3125 f_0_0 f_0_0 f_0_6875 f_1_5 f_1_0;
   mkAabb f_0_6875 f_0_0 f_0_3125 f_1_0 f_1_5 f_0_6875;
   mkAabb f_0_0 f_0_0 f_0_3125 f_1_0 f_1_5 f_0_6875;
   mkAabb f_0_3125 f_0_0 f_0_0 f_0_6875 f_1_5 f_0_3125;
   mkAabb f_0_3125 f_0_0 f_0_6875 f_0_6875 f_1_5 f_1_0;
   mkAabb f_0_0 f_0_0 f_0_3125 f_1_0 f_1_5 f_0_6875;
   mkAabb f_0_3125 f_0_0 f_0_0 f_0_6875 f_1_5 f_0_3125;
   mkAabb f_0_3125 f_0_0 f_0_6875 f_0_6875 f_1_5 f_1_0;
   mkAabb f_0_25 f_0_0 f_0_25 f_0_75 f_1_5 f_0_75;
   mkAabb f_0_3125 f_0_0 f_0_0 f_0_6875 f_1_5 f_0_25;
   mkAabb f_0_3125 f_0_0 f_0_75 f_0_6875 f_1_5 f_1_0;
   mkAabb f_0_75 f_0_0 f_0_3125 f_1_0 f_1_5 f_0_6875;
   mkAabb f_0_0 f_0_0 f_0_3125 f_1_0 f_1_5 f_0_6875;
   mkAabb f_0_25 f_0_0 f_0_25 f_0_75 f_1_5 f_0_3125;
   mkAabb f_0_25 f_0_0 f_0_6875 f_0_75 f_1_5 f_0_75;
   mkAabb f_0_3125 f_0_0 f_0_0 f_0_6875 f_1_5 f_0_25;
   mkAabb f_0_3125 f_0_0 f_0_75 f_0_6875 f_1_5 f_1_0;
   mkAabb f_0_0 f_0_0 f_0_3125 f_1_0 f_1_5 f_0_6875;
   mkAabb f_0_25 f_0_0 f_0_25 f_0_75 f_1_5 f_0_3125;
   mkAabb f_0_25 f_0_0 f_0_6875 f_0_75 f_1_5 f_0_75;
   mkAabb f_0_3125 f_0_0 f_0_0 f_0_6875 f_1_5 f_0_25;
   mkAabb f_0_3125 f_0_0 f_0_75 f_0_6875 f_1_5 f_1_0;
   mkAabb f_0_3125 f_0_0 f_0_0 f_0_6875 f_1_5 f_1_0;
   mkAabb f_0_6875 f_0_0 f_0_3125 f_1_0 f_1_5 f_0_6875;
   mkAabb f_0_0 f_0_0 f_0_3125 f_1_0 f_1_5 f_0_6875;
   mkAabb f_0_3125 f_0_0 f_0_0 f_0_6875 f_1_5 f_0_3125;
   mkAabb f_0_3125 f_0_0 f_0_6875 f_0_6875 f_1_5 f_1_0;
   mkAabb f_0_0 f_0_0 f_0_3125 f_1_0 f_1_5 f_0_6875;
   mkAabb f_0_3125 f_0_0 f_0_0 f_0_6875 f_1_5 f_0_3125;
   mkAabb f_0_3125 f_0_0 f_0_6875 f_0_6875 f_1_5 f_1_0;
   mkAabb f_0_25 f_0_0 f_0_25 f_0_75 f_1_5 f_0_75;
   mkAabb f_0_0 f_0_0 f_0_3125 f_0_75 f_1_5 f_0_6875;
   mkAabb f_0_25 f_0_0 f_0_25 f_0_75 f_1_5 f_0_3125;
   mkAabb f_0_25 f_0_0 f_0_6875 f_0_75 f_1_5 f_0_75;
   mkAabb f_0_0 f_0_0 f_0_3125 f_0_75 f_1_5 f_0_6875;
   mkAabb f_0_25 f_0_0 f_0_25 f_0_75 f_1_5 f_0_3125;
   mkAabb f_0_25 f_0_0 f_0_6875 f_0_75 f_1_5 f_0_75;
   mkAabb f_0_0 f_0_0 f_0_3125 f_0_6875 f_1_5 f_0_6875;
   mkAabb f_0_0 f_0_0 f_0_3125 f_0_6875 f_1_5 f_0_6875;
   mkAabb f_0_25 f_0_0 f_0_25 f_0_75 f_1_5 f_0_75;
   mkAabb f_0_3125 f_0_0 f_0_75 f_0_6875 f_1_5 f_1_0;
   mkAabb f_0_0 f_0_0 f_0_3125 f_0_75 f_1_5 f_0_6875;
   mkAabb f_0_25 f_0_0 f_0_25 f_0_75 f_1_5 f_0_3125;
   mkAabb f_0_25 f_0_0 f_0_6875 f_0_75 f_1_5 f_0_75;
   mkAabb f_0_3125 f_0_0 f_0_75 f_0_6875 f_1_5 f_1_0;
   mkAabb f_0_0 f_0_0 f_0_3125 f_0_75 f_1_5 f_0_6875;
   mkAabb f_0_25 f_0_0 f_0_25 f_0_75 f_1_5 f_0_3125;
   mkAabb f_0_25 f_0_0 f_0_6875 f_0_75 f_1_5 f_0_75;
   mkAabb f_0_3125 f_0_0 f_0_75 f_0_6875 f_1_5 f_1_0;
   mkAabb f_0_3125 f_0_0 f_0_3125 f_0_6875 f_1_5 f_1_0;
   mkAabb f_0_0 f_0_0 f_0_3125 f_0_6875 f_1_5 f_0_6875;
   mkAabb f_0_3125 f_0_0 f_0_6875 f_0_6875 f_1_5 f_1_0;
   mkAabb f_0_0 f_0_0 f_0_3125 f_0_6875 f_1_5 f_0_6875;
   mkAabb f_0_3125 f_0_0 f_0_6875 f_0_6875 f_1_5 f_1_0;
   mkAabb f_0_25 f_0_0 f_0_25 f_0_75 f_1_5 f_0_75;
   mkAabb f_0_3125 f_0_0 f_0_75 f_0_6875 f_1_5 f_1_0;
   mkAabb f_0_0 f_0_0 f_0_3125 f_0_75 f_1_5 f_0_6875;
   mkAabb f_0_25 f_0_0 f_0_25 f_0_75 f_1_5 f_0_3125;
   mkAabb f_0_25 f_0_0 f_0_6875 f_0_75 f_1_5 f_0_75;
   mkAabb f_0_3125 f_0_0 f_0_75 f_0_6875 f_1_5 f_1_0;
   mkAabb f_0_0 f_0_0 f_0_3125 f_0_75 f_1_5 f_0_6875;
   mkAabb f_0_25 f_0_0 f_0_25 f_0_75 f_1_5 f_0_3125;
   mkAabb f_0_25 f_0_0 f_0_6875 f_0_75 f_1_5 f_0_75;
   mkAabb f_0_3125 f_0_0 f_0_75 f_0_6875 f_1_5 f_1_0;
   mkAabb f_0_3125 f_0_0 f_0_3125 f_0_6875 f_1_5 f_1_0;
   mkAabb f_0_0 f_0_0 f_0_3125 f_0_6875 f_1_5 f_0_6875;
   mkAabb f_0_3125 f_0_0 f_0_6875 f_0_6875 f_1_5 f_1_0;
   mkAabb f_0_0 f_0_0 f_0_3125 f_0_6875 f_1_5 f_0_6875;
   mkAabb f_0_3125 f_0_0 f_0_6875 f_0_6875 f_1_5 f_1_0;
   mkAabb f_0_25 f_0_0 f_0_25 f_0_75 f_1_5 f_0_75;
   mkAabb f_0_3125 f_0_0 f_0_0 f_0_6875 f_1_5 f_0_25;
   mkAabb f_0_0 f_0_0 f_0_3125 f_0_75 f_1_5 f_0_6875;
   mkAabb f_0_25 f_0_0 f_0_25 f_0_75 f_1_5 f_0_3125;
   mkAabb f_0_25 f_0_0 f_0_6875 f_0_75 f_1_5 f_0_75;
   mkAabb f_0_3125 f_0_0 f_0_0 f_0_6875 f_1_5 f_0_25;
   mkAabb f_0_0 f_0_0 f_0_3125 f_0_75 f_1_5 f_0_6875;
   mkAabb f_0_25 f_0_0 f_0_25 f_0_75 f_1_5 f_0_3125;
   mkAabb f_0_25 f_0_0 f_0_6875 f_0_75 f_1_5 f_0_75;
   mkAabb f_0_3125 f_0_0 f_0_0 f_0_6875 f_1_5 f_0_25;
   mkAabb f_0_3125 f_0_0 f_0_0 f_0_6875 f_1_5 f_0_6875;
   mkAabb f_0_0 f_0_0 f_0_3125 f_0_6875 f_1_5 f_0_6875;
   mkAabb f_0_3125 f_0_0 f_0_0 f_0_6875 f_1_5 f_0_3125;
   mkAabb f_0_0 f_0_0 f_0_3125 f_0_6875 f_1_5 f_0_6875;
   mkAabb f_0_3125 f_0_0 f_0_0 f_0_6875 f_1_5 f_0_3125].
Definition SHAPE_BOXES_57 : list Aabb :=
  [mkAabb f_0_25 f_0_0 f_0_25 f_0_75 f_1_5 f_0_75;
   mkAabb f_0_3125 f_0_0 f_0_0 f_0_6875 f_1_5 f_0_25;
   mkAabb f_0_3125 f_0_0 f_0_75 f_0_6875 f_1_5 f_1_0;
   mkAabb f_0_0 f_0_0 f_0_3125 f_0_75 f_1_5 f_0_6875;
   mkAabb f_0_25 f_0_0 f_0_25 f_0_75 f_1_5 f_0_3125;
   mkAabb f_0_25 f_0_0 f_0_6875 f_0_75 f_1_5 f_0_75;
   mkAabb f_0_3125 f_0_0 f_0_0 f_0_6875 f_1_5 f_0_25;
   mkAabb f_0_3125 f_0_0 f_0_75 f_0_6875 f_1_5 f_1_0;
   mkAabb f_0_0 f_0_0 f_0_3125 f_0_75 f_1_5 f_0_6875;
   mkAabb f_0_25 f_0_0 f_0_25 f_0_75 f_1_5 f_0_3125;
   mkAabb f_0_25 f_0_0 f_0_6875 f_0_75 f_1_5 f_0_75;
   mkAabb f_0_3125 f_0_0 f_0_0 f_0_6875 f_1_5 f_0_25;
   mkAabb f_0_3125 f_0_0 f_0_75 f_0_6875 f_1_5 f_1_0;
   mkAabb f_0_3125 f_0_0 f_0_0 f_0_6875 f_1_5 f_1_0;
   mkAabb f_0_0 f_0_0 f_0_3125 f_0_6875 f_1_5 f_0_6875;
   mkAabb f_0_3125 f_0_0 f_0_0 f_0_6875 f_1_5 f_0_3125;
   mkAabb f_0_3125 f_0_0 f_0_6875 f_0_6875 f_1_5 f_1_0;
   mkAabb f_0_0 f_0_0 f_0_3125 f_0_6875 f_1_5 f_0_6875;
   mkAabb f_0_3125 f_0_0 f_0_0 f_0_6875 f_1_5 f_0_3125;
   mkAabb f_0_3125 f_0_0 f_0_6875 f_0_6875 f_1_5 f_1_0;
   mkAabb f_0_25 f_0_0 f_0_25 f_0_75 f_1_5 f_0_75;
   mkAabb f_0_3125 f_0_0 f_0_0 f_0_6875 f_1_5 f_0_25;
   mkAabb f_0_3125 f_0_0 f_0_75 f_0_6875 f_1_5 f_1_0;
   mkAabb f_0_0 f_0_0 f_0_3125 f_0_75 f_1_5 f_0_6875;
   mkAabb f_0_25 f_0_0 f_0_25 f_0_75 f_1_5 f_0_3125;
   mkAabb f_0_25 f_0_0 f_0_6875 f_0_75 f_1_5 f_0_75;
   mkAabb f_0_3125 f_0_0 f_0_0 f_0_6875 f_1_5 f_0_25;
   mkAabb f_0_3125 f_0_0 f_0_75 f_0_6875 f_1_5 f_1_0;
   mkAabb f_0_0 f_0_0 f_0_3125 f_0_75 f_1_5 f_0_6875;
   mkAabb f_0_25 f_0_0 f_0_25 f_0_75 f_1_5 f_0_3125;
   mkAabb f_0_25 f_0_0 f_0_6875 f_0_75 f_1_5 f_0_75;
   mkAabb f_0_3125 f_0_0 f_0_0 f_0_6875 f_1_5 f_0_25;
   mkAabb f_0_3125 f_0_0 f_0_75 f_0_6875 f_1_5 f_1_0;
   mkAabb f_0_3125 f_0_0 f_0_0 f_0_6875 f_1_5 f_1_0;
   mkAabb f_0_0 f_0_0 f_0_3125 f_0_6875 f_1_5 f_0_6875;
   mkAabb f_0_3125 f_0_0 f_0_0 f_0_6875 f_1_5 f_0_3125;
   mkAabb f_0_3125 f_0_0 f_0_6875 f_0_6875 f_1_5 f_1_0;
   mkAabb f_0_0 f_0_0 f_0_3125 f_0_6875 f_1_5 f_0_6875;
   mkAabb f_0_3125 f_0_0 f_0_0 f_0_6875 f_1_5 f_0_3125;
   mkAabb f_0_3125 f_0_0 f_0_6875 f_0_6875 f_1_5 f_1_0;
   mkAabb f_0_25 f_0_0 f_0_25 f_0_75 f_1_5 f_0_75;
   mkAabb f_0_3125 f_0_0 f_0_0 f_0_6875 f_1_5 f_0_25;
   mkAabb f_0_0 f_0_0 f_0_3125 f_0_75 f_1_5 f_0_6875;
   mkAabb f_0_25 f_0_0 f_0_25 f_0_75 f_1_5 f_0_3125;
   mkAabb f_0_25 f_0_0 f_0_6875 f_0_75 f_1_5 f_0_75;
   mkAabb f_0_3125 f_0_0 f_0_0 f_0_6875 f_1_5 f_0_25;
   mkAabb f_0_0 f_0_0 f_0_3125 f_0_75 f_1_5 f_0_6875;
   mkAabb f_0_25 f_0_0 f_0_25 f_0_75 f_1_5 f_0_3125;
   mkAabb f_0_25 f_0_0 f_0_6875 f_0_75 f_1_5 f_0_75;
   mkAabb f_0_3125 f_0_0 f_0_0 f_0_6875 f_1_5 f_0_25;
   mkAabb f_0_3125 f_0_0 f_0_0 f_0_6875 f_1_5 f_0_6875;
   mkAabb f_0_0 f_0_0 f_0_3125 f_0_6875 f_1_5 f_0_6875;
   mkAabb f_0_3125 f_0_0 f_0_0 f_0_6875 f_1_5 f_0_3125;
   mkAabb f_0_0 f_0_0 f_0_3125 f_0_6875 f_1_5 f_0_6875;
   mkAabb f_0_3125 f_0_0 f_0_0 f_0_6875 f_1_5 f_0_3125;
   mkAabb f_0_25 f_0_0 f_0_25 f_0_75 f_1_5 f_0_75;
   mkAabb f_0_3125 f_0_0 f_0_0 f_0_6875 f_1_5 f_0_25;
   mkAabb f_0_3125 f_0_0 f_0_75 f_0_6875 f_1_5 f_1_0;
   mkAabb f_0_0 f_0_0 f_0_3125 f_0_75 f_1_5 f_0_6875;
   mkAabb f_0_25 f_0_0 f_0_25 f_0_75 f_1_5 f_0_3125;
   mkAabb f_0_25 f_0_0 f_0_6875 f_0_75 f_1_5 f_0_75;
   mkAabb f_0_3125 f_0_0 f_0_0 f_0_6875 f_1_5 f_0_25;
   mkAabb f_0_3125 f_0_0 f_0_75 f_0_6875 f_1_5 f_1_0;
   mkAabb f_0_0 f_0_0 f_0_3125 f_0_75 f_1_5 f_0_6875;
   mkAabb f_0_25 f_0_0 f_0_25 f_0_75 f_1_5 f_0_3125;
   mkAabb f_0_25 f_0_0 f_0_6875 f_0_75 f_1_5 f_0_75;
   mkAabb f_0_3125 f_0_0 f_0_0 f_0_6875 f_1_5 f_0_25;
   mkAabb f_0_3125 f_0_0 f_0_75 f_0_6875 f_1_5 f_1_0;
   mkAabb f_0_3125 f_0_0 f_0_0 f_0_6875 f_1_5 f_1_0;
   mkAabb f_0_0 f_0_0 f_0_3125 f_0_6875 f_1_5 f_0_6875;
   mkAabb f_0_3125 f_0_0 f_0_0 f_0_6875 f_1_5 f_0_3125;
   mkAabb f_0_3125 f_0_0 f_0_6875 f_0_6875 f_1_5 f_1_0;
   mkAabb f_0_0 f_0_0 f_0_3125 f_0_6875 f_1_5 f_0_6875;
   mkAabb f_0_3125 f_0_0 f_0_0 f_0_6875 f_1_5 f_0_3125;
   mkAabb f_0_3125 f_0_0 f_0_6875 f_0_6875 f_1_5 f_1_0;
   mkAabb f_0_25 f_0_0 f_0_25 f_0_75 f_1_5 f_0_75;
   mkAabb f_0_3125 f_0_0 f_0_0 f_0_6875 f_1_5 f_0_25;
   mkAabb f_0_3125 f_0_0 f_0_75 f_0_6875 f_1_5 f_1_0;
   mkAabb f_0_0 f_0_0 f_0_3125 f_0_75 f_1_5 f_0_6875;
   mkAabb f_0_25 f_0_0 f_0_25 f_0_75 f_1_5 f_0_3125;
   mkAabb f_0_25 f_0_0 f_0_6875 f_0_75 f_1_5 f_0_75;
   mkAabb f_0_3125 f_0_0 f_0_0 f_0_6875 f_1_5 f_0_25;
   mkAabb f_0_3125 f_0_0 f_0_75 f_0_6875 f_1_5 f_1_0;
   mkAabb f_0_0 f_0_0 f_0_3125 f_0_75 f_1_5 f_0_6875;
   mkAabb f_0_25 f_0_0 f_0_25 f_0_75 f_1_5 f_0_3125;
   mkAabb f_0_25 f_0_0 f_0_6875 f_0_75 f_1_5 f_0_75;
   mkAabb f_0_3125 f_0_0 f_0_0 f_0_6875 f_1_5 f_0_25;
   mkAabb f_0_3125 f_0_0 f_0_75 f_0_6875 f_1_5 f_1_0;
   mkAabb f_0_3125 f_0_0 f_0_0 f_0_6875 f_1_5 f_1_0;
   mkAabb f_0_0 f_0_0 f_0_3125 f_0_6875 f_1_5 f_0_6875;
   mkAabb f_0_3125 f_0_0 f_0_0 f_0_6875 f_1_5 f_0_3125;
   mkAabb f_0_3125 f_0_0 f_0_6875 f_0_6875 f_1_5 f_1_0;
   mkAabb f_0_0 f_0_0 f_0_3125 f_0_6875 f_1_5 f_0_6875;
   mkAabb f_0_3125 f_0_0 f_0_0 f_0_6875 f_1_5 f_0_3125;
   mkAabb f_0_3125 f_0_0 f_0_6875 f_0_6875 f_1_5 f_1_0;
   mkAabb f_0_25 f_0_0 f_0_25 f_0_75 f_1_5 f_0_75;
   mkAabb f_0_75 f_0_0 f_0_3125 f_1_0 f_1_5 f_0_6875;
   mkAabb f_0_0 f_0_0 f_0_3125 f_1_0 f_1_5 f_0_6875;
   mkAabb f_0_25 f_0_0 f_0_25 f_0_75 f_1_5 f_0_3125;
   mkAabb f_0_25 f_0_0 f_0_6875 f_0_75 f_1_5 f_0_75;
   mkAabb f_0_0 f_0_0 f_0_3125 f_1_0 f_1_5 f_0_6875;
   mkAabb f_0_25 f_0_0 f_0_25 f_0_75 f_1_5 f_0_3125;
   mkAabb f_0_25 f_0_0 f_0_6875 f_0_75 f_1_5 f_0_75;
   mkAabb f_0_3125 f_0_0 f_0_3125 f_1_0 f_1_5 f_0_6875;
   mkAabb f_0_0 f_0_0 f_0_3125 f_1_0 f_1_5 f_0_6875;
   mkAabb f_0_0 f_0_0 f_0_3125 f_1_0 f_1_5 f_0_6875;
   mkAabb f_0_25 f_0_0 f_0_25 f_0_75 f_1_5 f_0_75;
   mkAabb f_0_3125 f_0_0 f_0_75 f_0_6875 f_1_5 f_1_0;
   mkAabb f_0_75 f_0_0 f_0_3125 f_1_0 f_1_5 f_0_6875;
   mkAabb f_0_0 f_0_0 f_0_3125 f_1_0 f_1_5 f_0_6875;
   mkAabb f_0_25 f_0_0 f_0_25 f_0_75 f_1_5 f_0_3125;
   mkAabb f_0_25 f_0_0 f_0_6875 f_0_75 f_1_5 f_0_75;
   mkAabb f_0_3125 f_0_0 f_0_75 f_0_6875 f_1_5 f_1_0;
   mkAabb f_0_0 f_0_0 f_0_3125 f_1_0 f_1_5 f_0_6875;
   mkAabb f_0_25 f_0_0 f_0_25 f_0_75 f_1_5 f_0_3125;
   mkAabb f_0_25 f_0_0 f_0_6875 f_0_75 f_1_5 f_0_75;
   mkAabb f_0_3125 f_0_0 f_0_75 f_0_6875 f_1_5 f_1_0;
   mkAabb f_0_3125 f_0_0 f_0_3125 f_0_6875 f_1_5 f_1_0;
   mkAabb f_0_6875 f_0_0 f_0_3125 f_1_0 f_1_5 f_0_6875;
   mkAabb f_0_0 f_0_0 f_0_3125 f_1_0 f_1_5 f_0_6875;
   mkAabb f_0_3125 f_0_0 f_0_6875 f_0_6875 f_1_5 f_1_0;
   mkAabb f_0_0 f_0_0 f_0_3125 f_1_0 f_1_5 f_0_6875;
   mkAabb f_0_3125 f_0_0 f_0_6875 f_0_6875 f_1_5 f_1_0;
   mkAabb f_0_25 f_0_0 f_0_25 f_0_75 f_1_5 f_0_75;
   mkAabb f_0_3125 f_0_0 f_0_75 f_0_6875 f_1_5 f_1_0;
   mkAabb f_0_75 f_0_0 f_0_3125 f_1_0 f_1_5 f_0_6875;
   mkAabb f_0_0 f_0_0 f_0_3125 f_1_0 f_1_5 f_0_6875;
   mkAabb f_0_25 f_0_0 f_0_25 f_0_75 f_1_5 f_0_3125;
   mkAabb f_0_25 f_0_0 f_0_6875 f_0_75 f_1_5 f_0_75;
   mkAabb f_0_3125 f_0_0 f_0_75 f_0_6875 f_1_5 f_1_0;
   mkAabb f_0_0 f_0_0 f_0_3125 f_1_0 f_1_5 f_0_6875;
   mkAabb f_0_25 f_0_0 f_0_25 f_0_75 f_1_5 f_0_3125;
   mkAabb f_0_25 f_0_0 f_0_6875 f_0_75 f_1_5 f_0_75;
   mkAabb f_0_3125 f_0_0 f_0_75 f_0_6875 f_1_5 f_1_0;
   mkAabb f_0_3125 f_0_0 f_0_3125 f_0_6875 f_1_5 f_1_0;
   mkAabb f_0_6875 f_0_0 f_0_3125 f_1_0 f_1_5 f_0_6875;
   mkAabb f_0_0 f_0_0 f_0_3125 f_1_0 f_1_5 f_0_6875;
   mkAabb f_0_3125 f_0_0 f_0_6875 f_0_6875 f_1_5 f_1_0;
   mkAabb f_0_0 f_0_0 f_0_3125 f_1_0 f_1_5 f_0_6875;
   mkAabb f_0_3125 f_0_0 f_0_6875 f_0_6875 f_1_5 f_1_0;
   mkAabb f_0_25 f_0_0 f_0_25 f_0_75 f_1_5 f_0_75;
   mkAabb f_0_3125 f_0_0 f_0_0 f_0_6875 f_1_5 f_0_25;
   mkAabb f_0_75 f_0_0 f_0_3125 f_1_0 f_1_5 f_0_6875;
   mkAabb f_0_0 f_0_0 f_0_3125 f_1_0 f_1_5 f_0_6875;
   mkAabb f_0_25 f_0_0 f_0_25 f_0_75 f_1_5 f_0_3125;
   mkAabb f_0_25 f_0_0 f_0_6875 f_0_75 f_1_5 f_0_75;
   mkAabb f_0_3125 f_0_0 f_0_0 f_0_6875 f_1_5 f_0_25;
   mkAabb f_0_0 f_0_0 f_0_3125 f_1_0 f_1_5 f_0_6875;
   mkAabb f_0_25 f_0_0 f_0_25 f_0_75 f_1_5 f_0_3125;
   mkAabb f_0_25 f_0_0 f_0_6875 f_0_75 f_1_5 f_0_75].
Definition SHAPE_BOXES_58 : list Aabb :=
  [mkAabb f_0_3125 f_0_0 f_0_0 f_0_6875 f_1_5 f_0_25;
   mkAabb f_0_3125 f_0_0 f_0_0 f_0_6875 f_1_5 f_0_6875;
   mkAabb f_0_6875 f_0_0 f_0_3125 f_1_0 f_1_5 f_0_6875;
   mkAabb f_0_0 f_0_0 f_0_3125 f_1_0 f_1_5 f_0_6875;
   mkAabb f_0_3125 f_0_0 f_0_0 f_0_6875 f_1_5 f_0_3125;
   mkAabb f_0_0 f_0_0 f_0_3125 f_1_0 f_1_5 f_0_6875;
   mkAabb f_0_3125 f_0_0 f_0_0 f_0_6875 f_1_5 f_0_3125;
   mkAabb f_0_25 f_0_0 f_0_25 f_0_75 f_1_5 f_0_75;
   mkAabb f_0_3125 f_0_0 f_0_0 f_0_6875 f_1_5 f_0_25;
   mkAabb f_0_3125 f_0_0 f_0_75 f_0_6875 f_1_5 f_1_0;
   mkAabb f_0_75 f_0_0 f_0_3125 f_1_0 f_1_5 f_0_6875;
   mkAabb f_0_0 f_0_0 f_0_3125 f_1_0 f_1_5 f_0_6875;
   mkAabb f_0_25 f_0_0 f_0_25 f_0_75 f_1_5 f_0_3125;
   mkAabb f_0_25 f_0_0 f_0_6875 f_0_75 f_1_5 f_0_75;
   mkAabb f_0_3125 f_0_0 f_0_0 f_0_6875 f_1_5 f_0_25;
   mkAabb f_0_3125 f_0_0 f_0_75 f_0_6875 f_1_5 f_1_0;
   mkAabb f_0_0 f_0_0 f_0_3125 f_1_0 f_1_5 f_0_6875;
   mkAabb f_0_25 f_0_0 f_0_25 f_0_75 f_1_5 f_0_3125;
   mkAabb f_0_25 f_0_0 f_0_6875 f_0_75 f_1_5 f_0_75;
   mkAabb f_0_3125 f_0_0 f_0_0 f_0_6875 f_1_5 f_0_25;
   mkAabb f_0_3125 f_0_0 f_0_75 f_0_6875 f_1_5 f_1_0;
   mkAabb f_0_3125 f_0_0 f_0_0 f_0_6875 f_1_5 f_1_0;
   mkAabb f_0_6875 f_0_0 f_0_3125 f_1_0 f_1_5 f_0_6875;
   mkAabb f_0_0 f_0_0 f_0_3125 f_1_0 f_1_5 f_0_6875;
   mkAabb f_0_3125 f_0_0 f_0_0 f_0_6875 f_1_5 f_0_3125;
   mkAabb f_0_3125 f_0_0 f_0_6875 f_0_6875 f_1_5 f_1_0;
   mkAabb f_0_0 f_0_0 f_0_3125 f_1_0 f_1_5 f_0_6875;
   mkAabb f_0_3125 f_0_0 f_0_0 f_0_6875 f_1_5 f_0_3125;
   mkAabb f_0_3125 f_0_0 f_0_6875 f_0_6875 f_1_5 f_1_0;
   mkAabb f_0_25 f_0_0 f_0_25 f_0_75 f_1_5 f_0_75;
   mkAabb f_0_3125 f_0_0 f_0_0 f_0_6875 f_1_5 f_0_25;
   mkAabb f_0_3125 f_0_0 f_0_75 f_0_6875 f_1_5 f_1_0;
   mkAabb f_0_75 f_0_0 f_0_3125 f_1_0 f_1_5 f_0_6875;
   mkAabb f_0_0 f_0_0 f_0_3125 f_1_0 f_1_5 f_0_6875;
   mkAabb f_0_25 f_0_0 f_0_25 f_0_75 f_1_5 f_0_3125;
   mkAabb f_0_25 f_0_0 f_0_6875 f_0_75 f_1_5 f_0_75;
   mkAabb f_0_3125 f_0_0 f_0_0 f_0_6875 f_1_5 f_0_25;
   mkAabb f_0_3125 f_0_0 f_0_75 f_0_6875 f_1_5 f_1_0;
   mkAabb f_0_0 f_0_0 f_0_3125 f_1_0 f_1_5 f_0_6875;
   mkAabb f_0_25 f_0_0 f_0_25 f_0_75 f_1_5 f_0_3125;
   mkAabb f_0_25 f_0_0 f_0_6875 f_0_75 f_1_5 f_0_75;
   mkAabb f_0_3125 f_0_0 f_0_0 f_0_6875 f_1_5 f_0_25;
   mkAabb f_0_3125 f_0_0 f_0_75 f_0_6875 f_1_5 f_1_0;
   mkAabb f_0_3125 f_0_0 f_0_0 f_0_6875 f_1_5 f_1_0;
   mkAabb f_0_6875 f_0_0 f_0_3125 f_1_0 f_1_5 f_0_6875;
   mkAabb f_0_0 f_0_0 f_0_3125 f_1_0 f_1_5 f_0_6875;
   mkAabb f_0_3125 f_0_0 f_0_0 f_0_6875 f_1_5 f_0_3125;
   mkAabb f_0_3125 f_0_0 f_0_6875 f_0_6875 f_1_5 f_1_0;
   mkAabb f_0_0 f_0_0 f_0_3125 f_1_0 f_1_5 f_0_6875;
   mkAabb f_0_3125 f_0_0 f_0_0 f_0_6875 f_1_5 f_0_3125;
   mkAabb f_0_3125 f_0_0 f_0_6875 f_0_6875 f_1_5 f_1_0;
   mkAabb f_0_25 f_0_0 f_0_25 f_0_75 f_1_5 f_0_75;
   mkAabb f_0_3125 f_0_0 f_0_0 f_0_6875 f_1_5 f_0_25;
   mkAabb f_0_75 f_0_0 f_0_3125 f_1_0 f_1_5 f_0_6875;
   mkAabb f_0_0 f_0_0 f_0_3125 f_1_0 f_1_5 f_0_6875;
   mkAabb f_0_25 f_0_0 f_0_25 f_0_75 f_1_5 f_0_3125;
   mkAabb f_0_25 f_0_0 f_0_6875 f_0_75 f_1_5 f_0_75;
   mkAabb f_0_3125 f_0_0 f_0_0 f_0_6875 f_1_5 f_0_25;
   mkAabb f_0_0 f_0_0 f_0_3125 f_1_0 f_1_5 f_0_6875;
   mkAabb f_0_25 f_0_0 f_0_25 f_0_75 f_1_5 f_0_3125;
   mkAabb f_0_25 f_0_0 f_0_6875 f_0_75 f_1_5 f_0_75;
   mkAabb f_0_3125 f_0_0 f_0_0 f_0_6875 f_1_5 f_0_25;
   mkAabb f_0_3125 f_0_0 f_0_0 f_0_6875 f_1_5 f_0_6875;
   mkAabb f_0_6875 f_0_0 f_0_3125 f_1_0 f_1_5 f_0_6875;
   mkAabb f_0_0 f_0_0 f_0_3125 f_1_0 f_1_5 f_0_6875;
   mkAabb f_0_3125 f_0_0 f_0_0 f_0_6875 f_1_5 f_0_3125;
   mkAabb f_0_0 f_0_0 f_0_3125 f_1_0 f_1_5 f_0_6875;
   mkAabb f_0_3125 f_0_0 f_0_0 f_0_6875 f_1_5 f_0_3125;
   mkAabb f_0_25 f_0_0 f_0_25 f_0_75 f_1_5 f_0_75;
   mkAabb f_0_3125 f_0_0 f_0_0 f_0_6875 f_1_5 f_0_25;
   mkAabb f_0_3125 f_0_0 f_0_75 f_0_6875 f_1_5 f_1_0;
   mkAabb f_0_75 f_0_0 f_0_3125 f_1_0 f_1_5 f_0_6875;
   mkAabb f_0_0 f_0_0 f_0_3125 f_1_0 f_1_5 f_0_6875;
   mkAabb f_0_25 f_0_0 f_0_25 f_0_75 f_1_5 f_0_3125;
   mkAabb f_0_25 f_0_0 f_0_6875 f_0_75 f_1_5 f_0_75;
   mkAabb f_0_3125 f_0_0 f_0_0 f_0_6875 f_1_5 f_0_25;
   mkAabb f_0_3125 f_0_0 f_0_75 f_0_6875 f_1_5 f_1_0;
   mkAabb f_0_0 f_0_0 f_0_3125 f_1_0 f_1_5 f_0_6875;
   mkAabb f_0_25 f_0_0 f_0_25 f_0_75 f_1_5 f_0_3125;
   mkAabb f_0_25 f_0_0 f_0_6875 f_0_75 f_1_5 f_0_75;
   mkAabb f_0_3125 f_0_0 f_0_0 f_0_6875 f_1_5 f_0_25;
   mkAabb f_0_3125 f_0_0 f_0_75 f_0_6875 f_1_5 f_1_0;
   mkAabb f_0_3125 f_0_0 f_0_0 f_0_6875 f_1_5 f_1_0;
   mkAabb f_0_6875 f_0_0 f_0_3125 f_1_0 f_1_5 f_0_6875;
   mkAabb f_0_0 f_0_0 f_0_3125 f_1_0 f_1_5 f_0_6875;
   mkAabb f_0_3125 f_0_0 f_0_0 f_0_6875 f_1_5 f_0_3125;
   mkAabb f_0_3125 f_0_0 f_0_6875 f_0_6875 f_1_5 f_1_0;
   mkAabb f_0_0 f_0_0 f_0_3125 f_1_0 f_1_5 f_0_6875;
   mkAabb f_0_3125 f_0_0 f_0_0 f_0_6875 f_1_5 f_0_3125;
   mkAabb f_0_3125 f_0_0 f_0_6875 f_0_6875 f_1_5 f_1_0;
   mkAabb f_0_25 f_0_0 f_0_25 f_0_75 f_1_5 f_0_75;
   mkAabb f_0_3125 f_0_0 f_0_0 f_0_6875 f_1_5 f_0_25;
   mkAabb f_0_3125 f_0_0 f_0_75 f_0_6875 f_1_5 f_1_0;
   mkAabb f_0_75 f_0_0 f_0_3125 f_1_0 f_1_5 f_0_6875;
   mkAabb f_0_0 f_0_0 f_0_3125 f_1_0 f_1_5 f_0_6875;
   mkAabb f_0_25 f_0_0 f_0_25 f_0_75 f_1_5 f_0_3125;
   mkAabb f_0_25 f_0_0 f_0_6875 f_0_75 f_1_5 f_0_75;
   mkAabb f_0_3125 f_0_0 f_0_0 f_0_6875 f_1_5 f_0_25;
   mkAabb f_0_3125 f_0_0 f_0_75 f_0_6875 f_1_5 f_1_0;
   mkAabb f_0_0 f_0_0 f_0_3125 f_1_0 f_1_5 f_0_6875;
   mkAabb f_0_25 f_0_0 f_0_25 f_0_75 f_1_5 f_0_3125;
   mkAabb f_0_25 f_0_0 f_0_6875 f_0_75 f_1_5 f_0_75;
   mkAabb f_0_3125 f_0_0 f_0_0 f_0_6875 f_1_5 f_0_25;
   mkAabb f_0_3125 f_0_0 f_0_75 f_0_6875 f_1_5 f_1_0;
   mkAabb f_0_3125 f_0_0 f_0_0 f_0_6875 f_1_5 f_1_0;
   mkAabb f_0_6875 f_0_0 f_0_3125 f_1_0 f_1_5 f_0_6875;
   mkAabb f_0_0 f_0_0 f_0_3125 f_1_0 f_1_5 f_0_6875;
   mkAabb f_0_3125 f_0_0 f_0_0 f_0_6875 f_1_5 f_0_3125;
   mkAabb f_0_3125 f_0_0 f_0_6875 f_0_6875 f_1_5 f_1_0;
   mkAabb f_0_0 f_0_0 f_0_3125 f_1_0 f_1_5 f_0_6875;
   mkAabb f_0_3125 f_0_0 f_0_0 f_0_6875 f_1_5 f_0_3125;
   mkAabb f_0_3125 f_0_0 f_0_6875 f_0_6875 f_1_5 f_1_0;
   mkAabb f_0_25 f_0_0 f_0_25 f_0_75 f_1_5 f_0_75;
   mkAabb f_0_75 f_0_0 f_0_3125 f_1_0 f_1_5 f_0_6875;
   mkAabb f_0_0 f_0_0 f_0_3125 f_1_0 f_1_5 f_0_6875;
   mkAabb f_0_25 f_0_0 f_0_25 f_0_75 f_1_5 f_0_3125;
   mkAabb f_0_25 f_0_0 f_0_6875 f_0_75 f_1_5 f_0_75;
   mkAabb f_0_0 f_0_0 f_0_3125 f_1_0 f_1_5 f_0_6875;
   mkAabb f_0_25 f_0_0 f_0_25 f_0_75 f_1_5 f_0_3125;
   mkAabb f_0_25 f_0_0 f_0_6875 f_0_75 f_1_5 f_0_75;
   mkAabb f_0_3125 f_0_0 f_0_3125 f_1_0 f_1_5 f_0_6875;
   mkAabb f_0_0 f_0_0 f_0_3125 f_1_0 f_1_5 f_0_6875;
   mkAabb f_0_0 f_0_0 f_0_3125 f_1_0 f_1_5 f_0_6875;
   mkAabb f_0_25 f_0_0 f_0_25 f_0_75 f_1_5 f_0_75;
   mkAabb f_0_3125 f_0_0 f_0_75 f_0_6875 f_1_5 f_1_0;
   mkAabb f_0_75 f_0_0 f_0_3125 f_1_0 f_1_5 f_0_6875;
   mkAabb f_0_0 f_0_0 f_0_3125 f_1_0 f_1_5 f_0_6875;
   mkAabb f_0_25 f_0_0 f_0_25 f_0_75 f_1_5 f_0_3125;
   mkAabb f_0_25 f_0_0 f_0_6875 f_0_75 f_1_5 f_0_75;
   mkAabb f_0_3125 f_0_0 f_0_75 f_0_6875 f_1_5 f_1_0;
   mkAabb f_0_0 f_0_0 f_0_3125 f_1_0 f_1_5 f_0_6875;
   mkAabb f_0_25 f_0_0 f_0_25 f_0_75 f_1_5 f_0_3125;
   mkAabb f_0_25 f_0_0 f_0_6875 f_0_75 f_1_5 f_0_75;
   mkAabb f_0_3125 f_0_0 f_0_75 f_0_6875 f_1_5 f_1_0;
   mkAabb f_0_3125 f_0_0 f_0_3125 f_0_6875 f_1_5 f_1_0;
   mkAabb f_0_6875 f_0_0 f_0_3125 f_1_0 f_1_5 f_0_6875;
   mkAabb f_0_0 f_0_0 f_0_3125 f_1_0 f_1_5 f_0_6875;
   mkAabb f_0_3125 f_0_0 f_0_6875 f_0_6875 f_1_5 f_1_0;
   mkAabb f_0_0 f_0_0 f_0_3125 f_1_0 f_1_5 f_0_6875;
   mkAabb f_0_3125 f_0_0 f_0_6875 f_0_6875 f_1_5 f_1_0;
   mkAabb f_0_25 f_0_0 f_0_25 f_0_75 f_1_5 f_0_75;
   mkAabb f_0_3125 f_0_0 f_0_75 f_0_6875 f_1_5 f_1_0;
   mkAabb f_0_75 f_0_0 f_0_3125 f_1_0 f_1_5 f_0_6875;
   mkAabb f_0_0 f_0_0 f_0_3125 f_1_0 f_1_5 f_0_6875;
   mkAabb f_0_25 f_0_0 f_0_25 f_0_75 f_1_5 f_0_3125;
   mkAabb f_0_25 f_0_0 f_0_6875 f_0_75 f_1_5 f_0_75;
   mkAabb f_0_3125 f_0_0 f_0_75 f_0_6875 f_1_5 f_1_0;
   mkAabb f_0_0 f_0_0 f_0_3125 f_1_0 f_1_5 f_0_6875;
   mkAabb f_0_25 f_0_0 f_0_25 f_0_75 f_1_5 f_0_3125;
   mkAabb f_0_25 f_0_0 f_0_6875 f_0_75 f_1_5 f_0_75].
Definition SHAPE_BOXES_59 : list Aabb :=
  [mkAabb f_0_3125 f_0_0 f_0_75 f_0_6875 f_1_5 f_1_0;
   mkAabb f_0_3125 f_0_0 f_0_3125 f_0_6875 f_1_5 f_1_0;
   mkAabb f_0_6875 f_0_0 f_0_3125 f_1_0 f_1_5 f_0_6875;
   mkAabb f_0_0 f_0_0 f_0_3125 f_1_0 f_1_5 f_0_6875;
   mkAabb f_0_3125 f_0_0 f_0_6875 f_0_6875 f_1_5 f_1_0;
   mkAabb f_0_0 f_0_0 f_0_3125 f_1_0 f_1_5 f_0_6875;
   mkAabb f_0_3125 f_0_0 f_0_6875 f_0_6875 f_1_5 f_1_0;
   mkAabb f_0_25 f_0_0 f_0_25 f_0_75 f_1_5 f_0_75;
   mkAabb f_0_3125 f_0_0 f_0_0 f_0_6875 f_1_5 f_0_25;
   mkAabb f_0_75 f_0_0 f_0_3125 f_1_0 f_1_5 f_0_6875;
   mkAabb f_0_0 f_0_0 f_0_3125 f_1_0 f_1_5 f_0_6875;
   mkAabb f_0_25 f_0_0 f_0_25 f_0_75 f_1_5 f_0_3125;
   mkAabb f_0_25 f_0_0 f_0_6875 f_0_75 f_1_5 f_0_75;
   mkAabb f_0_3125 f_0_0 f_0_0 f_0_6875 f_1_5 f_0_25;
   mkAabb f_0_0 f_0_0 f_0_3125 f_1_0 f_1_5 f_0_6875;
   mkAabb f_0_25 f_0_0 f_0_25 f_0_75 f_1_5 f_0_3125;
   mkAabb f_0_25 f_0_0 f_0_6875 f_0_75 f_1_5 f_0_75;
   mkAabb f_0_3125 f_0_0 f_0_0 f_0_6875 f_1_5 f_0_25;
   mkAabb f_0_3125 f_0_0 f_0_0 f_0_6875 f_1_5 f_0_6875;
   mkAabb f_0_6875 f_0_0 f_0_3125 f_1_0 f_1_5 f_0_6875;
   mkAabb f_0_0 f_0_0 f_0_3125 f_1_0 f_1_5 f_0_6875;
   mkAabb f_0_3125 f_0_0 f_0_0 f_0_6875 f_1_5 f_0_3125;
   mkAabb f_0_0 f_0_0 f_0_3125 f_1_0 f_1_5 f_0_6875;
   mkAabb f_0_3125 f_0_0 f_0_0 f_0_6875 f_1_5 f_0_3125;
   mkAabb f_0_25 f_0_0 f_0_25 f_0_75 f_1_5 f_0_75;
   mkAabb f_0_3125 f_0_0 f_0_0 f_0_6875 f_1_5 f_0_25;
   mkAabb f_0_3125 f_0_0 f_0_75 f_0_6875 f_1_5 f_1_0;
   mkAabb f_0_75 f_0_0 f_0_3125 f_1_0 f_1_5 f_0_6875;
   mkAabb f_0_0 f_0_0 f_0_3125 f_1_0 f_1_5 f_0_6875;
   mkAabb f_0_25 f_0_0 f_0_25 f_0_75 f_1_5 f_0_3125;
   mkAabb f_0_25 f_0_0 f_0_6875 f_0_75 f_1_5 f_0_75;
   mkAabb f_0_3125 f_0_0 f_0_0 f_0_6875 f_1_5 f_0_25;
   mkAabb f_0_3125 f_0_0 f_0_75 f_0_6875 f_1_5 f_1_0;
   mkAabb f_0_0 f_0_0 f_0_3125 f_1_0 f_1_5 f_0_6875;
   mkAabb f_0_25 f_0_0 f_0_25 f_0_75 f_1_5 f_0_3125;
   mkAabb f_0_25 f_0_0 f_0_6875 f_0_75 f_1_5 f_0_75;
   mkAabb f_0_3125 f_0_0 f_0_0 f_0_6875 f_1_5 f_0_25;
   mkAabb f_0_3125 f_0_0 f_0_75 f_0_6875 f_1_5 f_1_0;
   mkAabb f_0_3125 f_0_0 f_0_0 f_0_6875 f_1_5 f_1_0;
   mkAabb f_0_6875 f_0_0 f_0_3125 f_1_0 f_1_5 f_0_6875;
   mkAabb f_0_0 f_0_0 f_0_3125 f_1_0 f_1_5 f_0_6875;
   mkAabb f_0_3125 f_0_0 f_0_0 f_0_6875 f_1_5 f_0_3125;
   mkAabb f_0_3125 f_0_0 f_0_6875 f_0_6875 f_1_5 f_1_0;
   mkAabb f_0_0 f_0_0 f_0_3125 f_1_0 f_1_5 f_0_6875;
   mkAabb f_0_3125 f_0_0 f_0_0 f_0_6875 f_1_5 f_0_3125;
   mkAabb f_0_3125 f_0_0 f_0_6875 f_0_6875 f_1_5 f_1_0;
   mkAabb f_0_25 f_0_0 f_0_25 f_0_75 f_1_5 f_0_75;
   mkAabb f_0_3125 f_0_0 f_0_0 f_0_6875 f_1_5 f_0_25;
   mkAabb f_0_3125 f_0_0 f_0_75 f_0_6875 f_1_5 f_1_0;
   mkAabb f_0_75 f_0_0 f_0_3125 f_1_0 f_1_5 f_0_6875;
   mkAabb f_0_0 f_0_0 f_0_3125 f_1_0 f_1_5 f_0_6875;
   mkAabb f_0_25 f_0_0 f_0_25 f_0_75 f_1_5 f_0_3125;
   mkAabb f_0_25 f_0_0 f_0_6875 f_0_75 f_1_5 f_0_75;
   mkAabb f_0_3125 f_0_0 f_0_0 f_0_6875 f_1_5 f_0_25;
   mkAabb f_0_3125 f_0_0 f_0_75 f_0_6875 f_1_5 f_1_0;
   mkAabb f_0_0 f_0_0 f_0_3125 f_1_0 f_1_5 f_0_6875;
   mkAabb f_0_25 f_0_0 f_0_25 f_0_75 f_1_5 f_0_3125;
   mkAabb f_0_25 f_0_0 f_0_6875 f_0_75 f_1_5 f_0_75;
   mkAabb f_0_3125 f_0_0 f_0_0 f_0_6875 f_1_5 f_0_25;
   mkAabb f_0_3125 f_0_0 f_0_75 f_0_6875 f_1_5 f_1_0;
   mkAabb f_0_3125 f_0_0 f_0_0 f_0_6875 f_1_5 f_1_0;
   mkAabb f_0_6875 f_0_0 f_0_3125 f_1_0 f_1_5 f_0_6875;
   mkAabb f_0_0 f_0_0 f_0_3125 f_1_0 f_1_5 f_0_6875;
   mkAabb f_0_3125 f_0_0 f_0_0 f_0_6875 f_1_5 f_0_3125;
   mkAabb f_0_3125 f_0_0 f_0_6875 f_0_6875 f_1_5 f_1_0;
   mkAabb f_0_0 f_0_0 f_0_3125 f_1_0 f_1_5 f_0_6875;
   mkAabb f_0_3125 f_0_0 f_0_0 f_0_6875 f_1_5 f_0_3125;
   mkAabb f_0_3125 f_0_0 f_0_6875 f_0_6875 f_1_5 f_1_0;
   mkAabb f_0_25 f_0_0 f_0_25 f_0_75 f_1_5 f_0_75;
   mkAabb f_0_3125 f_0_0 f_0_0 f_0_6875 f_1_5 f_0_25;
   mkAabb f_0_75 f_0_0 f_0_3125 f_1_0 f_1_5 f_0_6875;
   mkAabb f_0_0 f_0_0 f_0_3125 f_1_0 f_1_5 f_0_6875;
   mkAabb f_0_25 f_0_0 f_0_25 f_0_75 f_1_5 f_0_3125;
   mkAabb f_0_25 f_0_0 f_0_6875 f_0_75 f_1_5 f_0_75;
   mkAabb f_0_3125 f_0_0 f_0_0 f_0_6875 f_1_5 f_0_25;
   mkAabb f_0_0 f_0_0 f_0_3125 f_1_0 f_1_5 f_0_6875;
   mkAabb f_0_25 f_0_0 f_0_25 f_0_75 f_1_5 f_0_3125;
   mkAabb f_0_25 f_0_0 f_0_6875 f_0_75 f_1_5 f_0_75;
   mkAabb f_0_3125 f_0_0 f_0_0 f_0_6875 f_1_5 f_0_25;
   mkAabb f_0_3125 f_0_0 f_0_0 f_0_6875 f_1_5 f_0_6875;
   mkAabb f_0_6875 f_0_0 f_0_3125 f_1_0 f_1_5 f_0_6875;
   mkAabb f_0_0 f_0_0 f_0_3125 f_1_0 f_1_5 f_0_6875;
   mkAabb f_0_3125 f_0_0 f_0_0 f_0_6875 f_1_5 f_0_3125;
   mkAabb f_0_0 f_0_0 f_0_3125 f_1_0 f_1_5 f_0_6875;
   mkAabb f_0_3125 f_0_0 f_0_0 f_0_6875 f_1_5 f_0_3125;
   mkAabb f_0_25 f_0_0 f_0_25 f_0_75 f_1_5 f_0_75;
   mkAabb f_0_3125 f_0_0 f_0_0 f_0_6875 f_1_5 f_0_25;
   mkAabb f_0_3125 f_0_0 f_0_75 f_0_6875 f_1_5 f_1_0;
   mkAabb f_0_75 f_0_0 f_0_3125 f_1_0 f_1_5 f_0_6875;
   mkAabb f_0_0 f_0_0 f_0_3125 f_1_0 f_1_5 f_0_6875;
   mkAabb f_0_25 f_0_0 f_0_25 f_0_75 f_1_5 f_0_3125;
   mkAabb f_0_25 f_0_0 f_0_6875 f_0_75 f_1_5 f_0_75;
   mkAabb f_0_3125 f_0_0 f_0_0 f_0_6875 f_1_5 f_0_25;
   mkAabb f_0_3125 f_0_0 f_0_75 f_0_6875 f_1_5 f_1_0;
   mkAabb f_0_0 f_0_0 f_0_3125 f_1_0 f_1_5 f_0_6875;
   mkAabb f_0_25 f_0_0 f_0_25 f_0_75 f_1_5 f_0_3125;
   mkAabb f_0_25 f_0_0 f_0_6875 f_0_75 f_1_5 f_0_75;
   mkAabb f_0_3125 f_0_0 f_0_0 f_0_6875 f_1_5 f_0_25;
   mkAabb f_0_3125 f_0_0 f_0_75 f_0_6875 f_1_5 f_1_0;
   mkAabb f_0_3125 f_0_0 f_0_0 f_0_6875 f_1_5 f_1_0;
   mkAabb f_0_6875 f_0_0 f_0_3125 f_1_0 f_1_5 f_0_6875;
   mkAabb f_0_0 f_0_0 f_0_3125 f_1_0 f_1_5 f_0_6875;
   mkAabb f_0_3125 f_0_0 f_0_0 f_0_6875 f_1_5 f_0_3125;
   mkAabb f_0_3125 f_0_0 f_0_6875 f_0_6875 f_1_5 f_1_0;
   mkAabb f_0_0 f_0_0 f_0_3125 f_1_0 f_1_5 f_0_6875;
   mkAabb f_0_3125 f_0_0 f_0_0 f_0_6875 f_1_5 f_0_3125;
   mkAabb f_0_3125 f_0_0 f_0_6875 f_0_6875 f_1_5 f_1_0;
   mkAabb f_0_25 f_0_0 f_0_25 f_0_75 f_1_5 f_0_75;
   mkAabb f_0_3125 f_0_0 f_0_0 f_0_6875 f_1_5 f_0_25;
   mkAabb f_0_3125 f_0_0 f_0_75 f_0_6875 f_1_5 f_1_0;
   mkAabb f_0_75 f_0_0 f_0_3125 f_1_0 f_1_5 f_0_6875;
   mkAabb f_0_0 f_0_0 f_0_3125 f_1_0 f_1_5 f_0_6875;
   mkAabb f_0_25 f_0_0 f_0_25 f_0_75 f_1_5 f_0_3125;
   mkAabb f_0_25 f_0_0 f_0_6875 f_0_75 f_1_5 f_0_75;
   mkAabb f_0_3125 f_0_0 f_0_0 f_0_6875 f_1_5 f_0_25;
   mkAabb f_0_3125 f_0_0 f_0_75 f_0_6875 f_1_5 f_1_0;
   mkAabb f_0_0 f_0_0 f_0_3125 f_1_0 f_1_5 f_0_6875;
   mkAabb f_0_25 f_0_0 f_0_25 f_0_75 f_1_5 f_0_3125;
   mkAabb f_0_25 f_0_0 f_0_6875 f_0_75 f_1_5 f_0_75;
   mkAabb f_0_3125 f_0_0 f_0_0 f_0_6875 f_1_5 f_0_25;
   mkAabb f_0_3125 f_0_0 f_0_75 f_0_6875 f_1_5 f_1_0;
   mkAabb f_0_3125 f_0_0 f_0_0 f_0_6875 f_1_5 f_1_0;
   mkAabb f_0_6875 f_0_0 f_0_3125 f_1_0 f_1_5 f_0_6875;
   mkAabb f_0_0 f_0_0 f_0_3125 f_1_0 f_1_5 f_0_6875;
   mkAabb f_0_3125 f_0_0 f_0_0 f_0_6875 f_1_5 f_0_3125;
   mkAabb f_0_3125 f_0_0 f_0_6875 f_0_6875 f_1_5 f_1_0;
   mkAabb f_0_0 f_0_0 f_0_3125 f_1_0 f_1_5 f_0_6875;
   mkAabb f_0_3125 f_0_0 f_0_0 f_0_6875 f_1_5 f_0_3125;
   mkAabb f_0_3125 f_0_0 f_0_6875 f_0_6875 f_1_5 f_1_0;
   mkAabb f_0_0 f_0_0 f_0_0 f_0_125 f_1_0 f_0_125;
   mkAabb f_0_0 f_0_0 f_0_875 f_0_125 f_1_0 f_1_0;
   mkAabb f_0_875 f_0_0 f_0_0 f_1_0 f_1_0 f_0_125;
   mkAabb f_0_875 f_0_0 f_0_875 f_1_0 f_1_0 f_1_0;
   mkAabb f_0_0 f_0_875 f_0_125 f_1_0 f_1_0 f_0_875;
   mkAabb f_0_125 f_0_875 f_0_0 f_0_875 f_1_0 f_0_125;
   mkAabb f_0_125 f_0_875 f_0_875 f_0_875 f_1_0 f_1_0;
   mkAabb f_0_125 f_0_0 f_0_375 f_0_25 f_0_8125 f_0_625;
   mkAabb f_0_75 f_0_0 f_0_375 f_0_875 f_0_8125 f_0_625;
   mkAabb f_0_25 f_0_25 f_0_125 f_0_75 f_1_0 f_0_875;
   mkAabb f_0_125 f_0_4375 f_0_3125 f_0_25 f_0_8125 f_0_375;
   mkAabb f_0_125 f_0_4375 f_0_625 f_0_25 f_0_8125 f_0_6875;
   mkAabb f_0_75 f_0_4375 f_0_3125 f_0_875 f_0_8125 f_0_375;
   mkAabb f_0_75 f_0_4375 f_0_625 f_0_875 f_0_8125 f_0_6875;
   mkAabb f_0_375 f_0_0 f_0_125 f_0_625 f_0_8125 f_0_25;
   mkAabb f_0_375 f_0_0 f_0_75 f_0_625 f_0_8125 f_0_875;
   mkAabb f_0_125 f_0_25 f_0_25 f_0_875 f_1_0 f_0_75;
   mkAabb f_0_3125 f_0_4375 f_0_125 f_0_375 f_0_8125 f_0_25;
   mkAabb f_0_3125 f_0_4375 f_0_75 f_0_375 f_0_8125 f_0_875;
   mkAabb f_0_625 f_0_4375 f_0_125 f_0_6875 f_0_8125 f_0_25;
   mkAabb f_0_625 f_0_4375 f_0_75 f_0_6875 f_0_8125 f_0_875].
Definition SHAPE_BOXES_60 : list Aabb :=
  [mkAabb f_0_25 f_0_125 f_0_0 f_0_75 f_0_875 f_0_75;
   mkAabb f_0_125 f_0_3125 f_0_1875 f_0_25 f_0_6875 f_0_5625;
   mkAabb f_0_75 f_0_3125 f_0_1875 f_0_875 f_0_6875 f_0_5625;
   mkAabb f_0_125 f_0_375 f_0_5625 f_0_25 f_0_625 f_1_0;
   mkAabb f_0_75 f_0_375 f_0_5625 f_0_875 f_0_625 f_1_0;
   mkAabb f_0_25 f_0_125 f_0_25 f_0_75 f_0_875 f_1_0;
   mkAabb f_0_125 f_0_3125 f_0_4375 f_0_25 f_0_6875 f_0_8125;
   mkAabb f_0_75 f_0_3125 f_0_4375 f_0_875 f_0_6875 f_0_8125;
   mkAabb f_0_125 f_0_375 f_0_0 f_0_25 f_0_625 f_0_4375;
   mkAabb f_0_75 f_0_375 f_0_0 f_0_875 f_0_625 f_0_4375;
   mkAabb f_0_0 f_0_125 f_0_25 f_0_75 f_0_875 f_0_75;
   mkAabb f_0_1875 f_0_3125 f_0_125 f_0_5625 f_0_6875 f_0_25;
   mkAabb f_0_1875 f_0_3125 f_0_75 f_0_5625 f_0_6875 f_0_875;
   mkAabb f_0_5625 f_0_375 f_0_125 f_1_0 f_0_625 f_0_25;
   mkAabb f_0_5625 f_0_375 f_0_75 f_1_0 f_0_625 f_0_875;
   mkAabb f_0_25 f_0_125 f_0_25 f_1_0 f_0_875 f_0_75;
   mkAabb f_0_4375 f_0_3125 f_0_125 f_0_8125 f_0_6875 f_0_25;
   mkAabb f_0_4375 f_0_3125 f_0_75 f_0_8125 f_0_6875 f_0_875;
   mkAabb f_0_0 f_0_375 f_0_125 f_0_4375 f_0_625 f_0_25;
   mkAabb f_0_0 f_0_375 f_0_75 f_0_4375 f_0_625 f_0_875;
   mkAabb f_0_25 f_0_0 f_0_125 f_0_75 f_0_75 f_0_875;
   mkAabb f_0_125 f_0_1875 f_0_3125 f_0_25 f_0_5625 f_0_6875;
   mkAabb f_0_75 f_0_1875 f_0_3125 f_0_875 f_0_5625 f_0_6875;
   mkAabb f_0_125 f_0_5625 f_0_375 f_0_25 f_1_0 f_0_625;
   mkAabb f_0_75 f_0_5625 f_0_375 f_0_875 f_1_0 f_0_625;
   mkAabb f_0_125 f_0_0 f_0_25 f_0_875 f_0_75 f_0_75;
   mkAabb f_0_3125 f_0_1875 f_0_125 f_0_6875 f_0_5625 f_0_25;
   mkAabb f_0_3125 f_0_1875 f_0_75 f_0_6875 f_0_5625 f_0_875;
   mkAabb f_0_375 f_0_5625 f_0_125 f_0_625 f_1_0 f_0_25;
   mkAabb f_0_375 f_0_5625 f_0_75 f_0_625 f_1_0 f_0_875;
   mkAabb f_0_0 f_0_0 f_0_0 f_1_0 f_0_125 f_1_0;
   mkAabb f_0_25 f_0_125 f_0_25 f_0_75 f_0_875 f_0_75;
   mkAabb f_0_0 f_0_0 f_0_0 f_1_0 f_0_5625 f_1_0;
   mkAabb f_0_0 f_0_0 f_0_25 f_1_0 f_1_0 f_0_75;
   mkAabb f_0_25 f_0_0 f_0_0 f_0_75 f_1_0 f_1_0;
   mkAabb f_0_25 f_0_25 f_0_25 f_0_75 f_0_375 f_0_75;
   mkAabb f_0_3125 f_0_375 f_0_3125 f_0_6875 f_0_8125 f_0_6875;
   mkAabb f_0_4375 f_0_8125 f_0_4375 f_0_5625 f_1_0 f_0_5625;
   mkAabb f_0_25 f_0_25 f_0_25 f_0_75 f_0_375 f_0_75;
   mkAabb f_0_3125 f_0_375 f_0_3125 f_0_6875 f_0_8125 f_0_6875;
   mkAabb f_0_4375 f_0_8125 f_0_0 f_0_5625 f_0_9375 f_0_8125;
   mkAabb f_0_25 f_0_25 f_0_25 f_0_75 f_0_375 f_0_75;
   mkAabb f_0_3125 f_0_375 f_0_3125 f_0_6875 f_0_8125 f_0_6875;
   mkAabb f_0_4375 f_0_8125 f_0_1875 f_0_5625 f_0_9375 f_1_0;
   mkAabb f_0_25 f_0_25 f_0_25 f_0_75 f_0_375 f_0_75;
   mkAabb f_0_3125 f_0_375 f_0_3125 f_0_6875 f_0_8125 f_0_6875;
   mkAabb f_0_0 f_0_8125 f_0_4375 f_0_8125 f_0_9375 f_0_5625;
   mkAabb f_0_25 f_0_25 f_0_25 f_0_75 f_0_375 f_0_75;
   mkAabb f_0_3125 f_0_375 f_0_3125 f_0_6875 f_0_8125 f_0_6875;
   mkAabb f_0_1875 f_0_8125 f_0_4375 f_1_0 f_0_9375 f_0_5625;
   mkAabb f_0_25 f_0_25 f_0_25 f_0_75 f_0_375 f_0_75;
   mkAabb f_0_3125 f_0_375 f_0_3125 f_0_6875 f_0_8125 f_0_6875;
   mkAabb f_0_4375 f_0_8125 f_0_0 f_0_5625 f_0_9375 f_1_0;
   mkAabb f_0_25 f_0_25 f_0_25 f_0_75 f_0_375 f_0_75;
   mkAabb f_0_3125 f_0_375 f_0_3125 f_0_6875 f_0_8125 f_0_6875;
   mkAabb f_0_0 f_0_8125 f_0_4375 f_1_0 f_0_9375 f_0_5625;
   mkAabb f_0_3125 f_0_0625 f_0_3125 f_0_6875 f_0_5 f_0_6875;
   mkAabb f_0_375 f_0_5 f_0_375 f_0_625 f_0_625 f_0_625;
   mkAabb f_0_3125 f_0_0 f_0_3125 f_0_6875 f_0_4375 f_0_6875;
   mkAabb f_0_375 f_0_4375 f_0_375 f_0_625 f_0_5625 f_0_625;
   mkAabb f_0_0 f_0_0 f_0_0 f_1_0 f_0_4375 f_1_0;
   mkAabb f_0_0 f_0_0 f_0_375 f_1_0 f_1_5 f_0_625;
   mkAabb f_0_375 f_0_0 f_0_0 f_0_625 f_1_5 f_0_375;
   mkAabb f_0_375 f_0_0 f_0_625 f_0_625 f_1_5 f_1_0;
   mkAabb f_0_375 f_0_0 f_0_0 f_0_625 f_1_5 f_1_0;
   mkAabb f_0_625 f_0_0 f_0_375 f_1_0 f_1_5 f_0_625;
   mkAabb f_0_0 f_0_0 f_0_375 f_1_0 f_1_5 f_0_625;
   mkAabb f_0_375 f_0_0 f_0_0 f_0_625 f_1_5 f_0_375;
   mkAabb f_0_375 f_0_0 f_0_0 f_0_625 f_1_5 f_0_625;
   mkAabb f_0_625 f_0_0 f_0_375 f_1_0 f_1_5 f_0_625;
   mkAabb f_0_0 f_0_0 f_0_375 f_1_0 f_1_5 f_0_625;
   mkAabb f_0_375 f_0_0 f_0_625 f_0_625 f_1_5 f_1_0;
   mkAabb f_0_375 f_0_0 f_0_375 f_0_625 f_1_5 f_1_0;
   mkAabb f_0_625 f_0_0 f_0_375 f_1_0 f_1_5 f_0_625;
   mkAabb f_0_0 f_0_0 f_0_375 f_1_0 f_1_5 f_0_625;
   mkAabb f_0_375 f_0_0 f_0_375 f_1_0 f_1_5 f_0_625;
   mkAabb f_0_0 f_0_0 f_0_375 f_0_625 f_1_5 f_0_625;
   mkAabb f_0_375 f_0_0 f_0_0 f_0_625 f_1_5 f_0_375;
   mkAabb f_0_375 f_0_0 f_0_625 f_0_625 f_1_5 f_1_0;
   mkAabb f_0_375 f_0_0 f_0_0 f_0_625 f_1_5 f_1_0;
   mkAabb f_0_0 f_0_0 f_0_375 f_0_625 f_1_5 f_0_625;
   mkAabb f_0_375 f_0_0 f_0_0 f_0_625 f_1_5 f_0_375;
   mkAabb f_0_375 f_0_0 f_0_0 f_0_625 f_1_5 f_0_625;
   mkAabb f_0_0 f_0_0 f_0_375 f_0_625 f_1_5 f_0_625;
   mkAabb f_0_375 f_0_0 f_0_625 f_0_625 f_1_5 f_1_0;
   mkAabb f_0_375 f_0_0 f_0_375 f_0_625 f_1_5 f_1_0;
   mkAabb f_0_0 f_0_0 f_0_375 f_0_625 f_1_5 f_0_625;
   mkAabb f_0_375 f_0_0 f_0_375 f_0_625 f_1_5 f_0_625;
   mkAabb f_0_0 f_0_0 f_0_375 f_1_0 f_1_5 f_0_625;
   mkAabb f_0_375 f_0_0 f_0_0 f_0_625 f_1_5 f_0_375;
   mkAabb f_0_375 f_0_0 f_0_625 f_0_625 f_1_5 f_1_0;
   mkAabb f_0_375 f_0_0 f_0_0 f_0_625 f_1_5 f_1_0;
   mkAabb f_0_625 f_0_0 f_0_375 f_1_0 f_1_5 f_0_625;
   mkAabb f_0_0 f_0_0 f_0_375 f_1_0 f_1_5 f_0_625;
   mkAabb f_0_375 f_0_0 f_0_0 f_0_625 f_1_5 f_0_375;
   mkAabb f_0_375 f_0_0 f_0_0 f_0_625 f_1_5 f_0_625;
   mkAabb f_0_625 f_0_0 f_0_375 f_1_0 f_1_5 f_0_625;
   mkAabb f_0_0 f_0_0 f_0_375 f_1_0 f_1_5 f_0_625;
   mkAabb f_0_375 f_0_0 f_0_625 f_0_625 f_1_5 f_1_0;
   mkAabb f_0_375 f_0_0 f_0_375 f_0_625 f_1_5 f_1_0;
   mkAabb f_0_625 f_0_0 f_0_375 f_1_0 f_1_5 f_0_625;
   mkAabb f_0_0 f_0_0 f_0_375 f_1_0 f_1_5 f_0_625;
   mkAabb f_0_375 f_0_0 f_0_375 f_1_0 f_1_5 f_0_625;
   mkAabb f_0_0 f_0_0 f_0_375 f_0_625 f_1_5 f_0_625;
   mkAabb f_0_375 f_0_0 f_0_0 f_0_625 f_1_5 f_0_375;
   mkAabb f_0_375 f_0_0 f_0_625 f_0_625 f_1_5 f_1_0;
   mkAabb f_0_375 f_0_0 f_0_0 f_0_625 f_1_5 f_1_0;
   mkAabb f_0_0 f_0_0 f_0_375 f_0_625 f_1_5 f_0_625;
   mkAabb f_0_375 f_0_0 f_0_0 f_0_625 f_1_5 f_0_375;
   mkAabb f_0_375 f_0_0 f_0_0 f_0_625 f_1_5 f_0_625;
   mkAabb f_0_0 f_0_0 f_0_375 f_0_625 f_1_5 f_0_625;
   mkAabb f_0_375 f_0_0 f_0_625 f_0_625 f_1_5 f_1_0;
   mkAabb f_0_375 f_0_0 f_0_375 f_0_625 f_1_5 f_1_0;
   mkAabb f_0_0 f_0_0 f_0_375 f_0_625 f_1_5 f_0_625;
   mkAabb f_0_375 f_0_0 f_0_375 f_0_625 f_1_5 f_0_625;
   mkAabb f_0_0 f_0_0 f_0_0 f_1_0 f_0_125 f_1_0;
   mkAabb f_0_0 f_0_125 f_0_0 f_0_125 f_1_0 f_1_0;
   mkAabb f_0_125 f_0_125 f_0_0 f_1_0 f_1_0 f_0_125;
   mkAabb f_0_125 f_0_125 f_0_875 f_1_0 f_1_0 f_1_0;
   mkAabb f_0_875 f_0_125 f_0_125 f_1_0 f_1_0 f_0_875;
   mkAabb f_0_0625 f_0_0 f_0_0625 f_0_9375 f_0_9375 f_0_9375;
   mkAabb f_0_25 f_0_0 f_0_25 f_0_75 f_1_5 f_0_75;
   mkAabb f_0_0 f_0_0 f_0_3125 f_0_75 f_1_5 f_0_6875;
   mkAabb f_0_25 f_0_0 f_0_25 f_0_75 f_1_5 f_0_3125;
   mkAabb f_0_25 f_0_0 f_0_6875 f_0_75 f_1_5 f_0_75;
   mkAabb f_0_0 f_0_0 f_0_3125 f_0_75 f_1_5 f_0_6875;
   mkAabb f_0_25 f_0_0 f_0_25 f_0_75 f_1_5 f_0_3125;
   mkAabb f_0_25 f_0_0 f_0_6875 f_0_75 f_1_5 f_0_75;
   mkAabb f_0_0 f_0_0 f_0_3125 f_0_6875 f_1_5 f_0_6875;
   mkAabb f_0_0 f_0_0 f_0_3125 f_0_6875 f_1_5 f_0_6875;
   mkAabb f_0_25 f_0_0 f_0_25 f_0_75 f_1_5 f_0_75;
   mkAabb f_0_3125 f_0_0 f_0_75 f_0_6875 f_1_5 f_1_0;
   mkAabb f_0_0 f_0_0 f_0_3125 f_0_75 f_1_5 f_0_6875;
   mkAabb f_0_25 f_0_0 f_0_25 f_0_75 f_1_5 f_0_3125;
   mkAabb f_0_25 f_0_0 f_0_6875 f_0_75 f_1_5 f_0_75;
   mkAabb f_0_3125 f_0_0 f_0_75 f_0_6875 f_1_5 f_1_0;
   mkAabb f_0_0 f_0_0 f_0_3125 f_0_75 f_1_5 f_0_6875;
   mkAabb f_0_25 f_0_0 f_0_25 f_0_75 f_1_5 f_0_3125;
   mkAabb f_0_25 f_0_0 f_0_6875 f_0_75 f_1_5 f_0_75;
   mkAabb f_0_3125 f_0_0 f_0_75 f_0_6875 f_1_5 f_1_0;
   mkAabb f_0_3125 f_0_0 f_0_3125 f_0_6875 f_1_5 f_1_0;
   mkAabb f_0_0 f_0_0 f_0_3125 f_0_6875 f_1_5 f_0_6875;
   mkAabb f_0_3125 f_0_0 f_0_6875 f_0_6875 f_1_5 f_1_0;
   mkAabb f_0_0 f_0_0 f_0_3125 f_0_6875 f_1_5 f_0_6875;
   mkAabb f_0_3125 f_0_0 f_0_6875 f_0_6875 f_1_5 f_1_0;
   mkAabb f_0_25 f_0_0 f_0_25 f_0_75 f_1_5 f_0_75;
   mkAabb f_0_3125 f_0_0 f_0_75 f_0_6875 f_1_5 f_1_0;
   mkAabb f_0_0 f_0_0 f_0_3125 f_0_75 f_1_5 f_0_6875;
   mkAabb f_0_25 f_0_0 f_0_25 f_0_75 f_1_5 f_0_3125;
   mkAabb f_0_25 f_0_0 f_0_6875 f_0_75 f_1_5 f_0_75].
Definition SHAPE_BOXES_61 : list Aabb :=
  [mkAabb f_0_3125 f_0_0 f_0_75 f_0_6875 f_1_5 f_1_0;
   mkAabb f_0_0 f_0_0 f_0_3125 f_0_75 f_1_5 f_0_6875;
   mkAabb f_0_25 f_0_0 f_0_25 f_0_75 f_1_5 f_0_3125;
   mkAabb f_0_25 f_0_0 f_0_6875 f_0_75 f_1_5 f_0_75;
   mkAabb f_0_3125 f_0_0 f_0_75 f_0_6875 f_1_5 f_1_0;
   mkAabb f_0_3125 f_0_0 f_0_3125 f_0_6875 f_1_5 f_1_0;
   mkAabb f_0_0 f_0_0 f_0_3125 f_0_6875 f_1_5 f_0_6875;
   mkAabb f_0_3125 f_0_0 f_0_6875 f_0_6875 f_1_5 f_1_0;
   mkAabb f_0_0 f_0_0 f_0_3125 f_0_6875 f_1_5 f_0_6875;
   mkAabb f_0_3125 f_0_0 f_0_6875 f_0_6875 f_1_5 f_1_0;
   mkAabb f_0_25 f_0_0 f_0_25 f_0_75 f_1_5 f_0_75;
   mkAabb f_0_3125 f_0_0 f_0_0 f_0_6875 f_1_5 f_0_25;
   mkAabb f_0_0 f_0_0 f_0_3125 f_0_75 f_1_5 f_0_6875;
   mkAabb f_0_25 f_0_0 f_0_25 f_0_75 f_1_5 f_0_3125;
   mkAabb f_0_25 f_0_0 f_0_6875 f_0_75 f_1_5 f_0_75;
   mkAabb f_0_3125 f_0_0 f_0_0 f_0_6875 f_1_5 f_0_25;
   mkAabb f_0_0 f_0_0 f_0_3125 f_0_75 f_1_5 f_0_6875;
   mkAabb f_0_25 f_0_0 f_0_25 f_0_75 f_1_5 f_0_3125;
   mkAabb f_0_25 f_0_0 f_0_6875 f_0_75 f_1_5 f_0_75;
   mkAabb f_0_3125 f_0_0 f_0_0 f_0_6875 f_1_5 f_0_25;
   mkAabb f_0_3125 f_0_0 f_0_0 f_0_6875 f_1_5 f_0_6875;
   mkAabb f_0_0 f_0_0 f_0_3125 f_0_6875 f_1_5 f_0_6875;
   mkAabb f_0_3125 f_0_0 f_0_0 f_0_6875 f_1_5 f_0_3125;
   mkAabb f_0_0 f_0_0 f_0_3125 f_0_6875 f_1_5 f_0_6875;
   mkAabb f_0_3125 f_0_0 f_0_0 f_0_6875 f_1_5 f_0_3125;
   mkAabb f_0_25 f_0_0 f_0_25 f_0_75 f_1_5 f_0_75;
   mkAabb f_0_3125 f_0_0 f_0_0 f_0_6875 f_1_5 f_0_25;
   mkAabb f_0_3125 f_0_0 f_0_75 f_0_6875 f_1_5 f_1_0;
   mkAabb f_0_0 f_0_0 f_0_3125 f_0_75 f_1_5 f_0_6875;
   mkAabb f_0_25 f_0_0 f_0_25 f_0_75 f_1_5 f_0_3125;
   mkAabb f_0_25 f_0_0 f_0_6875 f_0_75 f_1_5 f_0_75;
   mkAabb f_0_3125 f_0_0 f_0_0 f_0_6875 f_1_5 f_0_25;
   mkAabb f_0_3125 f_0_0 f_0_75 f_0_6875 f_1_5 f_1_0;
   mkAabb f_0_0 f_0_0 f_0_3125 f_0_75 f_1_5 f_0_6875;
   mkAabb f_0_25 f_0_0 f_0_25 f_0_75 f_1_5 f_0_3125;
   mkAabb f_0_25 f_0_0 f_0_6875 f_0_75 f_1_5 f_0_75;
   mkAabb f_0_3125 f_0_0 f_0_0 f_0_6875 f_1_5 f_0_25;
   mkAabb f_0_3125 f_0_0 f_0_75 f_0_6875 f_1_5 f_1_0;
   mkAabb f_0_3125 f_0_0 f_0_0 f_0_6875 f_1_5 f_1_0;
   mkAabb f_0_0 f_0_0 f_0_3125 f_0_6875 f_1_5 f_0_6875;
   mkAabb f_0_3125 f_0_0 f_0_0 f_0_6875 f_1_5 f_0_3125;
   mkAabb f_0_3125 f_0_0 f_0_6875 f_0_6875 f_1_5 f_1_0;
   mkAabb f_0_0 f_0_0 f_0_3125 f_0_6875 f_1_5 f_0_6875;
   mkAabb f_0_3125 f_0_0 f_0_0 f_0_6875 f_1_5 f_0_3125;
   mkAabb f_0_3125 f_0_0 f_0_6875 f_0_6875 f_1_5 f_1_0;
   mkAabb f_0_25 f_0_0 f_0_25 f_0_75 f_1_5 f_0_75;
   mkAabb f_0_3125 f_0_0 f_0_0 f_0_6875 f_1_5 f_0_25;
   mkAabb f_0_3125 f_0_0 f_0_75 f_0_6875 f_1_5 f_1_0;
   mkAabb f_0_0 f_0_0 f_0_3125 f_0_75 f_1_5 f_0_6875;
   mkAabb f_0_25 f_0_0 f_0_25 f_0_75 f_1_5 f_0_3125;
   mkAabb f_0_25 f_0_0 f_0_6875 f_0_75 f_1_5 f_0_75;
   mkAabb f_0_3125 f_0_0 f_0_0 f_0_6875 f_1_5 f_0_25;
   mkAabb f_0_3125 f_0_0 f_0_75 f_0_6875 f_1_5 f_1_0;
   mkAabb f_0_0 f_0_0 f_0_3125 f_0_75 f_1_5 f_0_6875;
   mkAabb f_0_25 f_0_0 f_0_25 f_0_75 f_1_5 f_0_3125;
   mkAabb f_0_25 f_0_0 f_0_6875 f_0_75 f_1_5 f_0_75;
   mkAabb f_0_3125 f_0_0 f_0_0 f_0_6875 f_1_5 f_0_25;
   mkAabb f_0_3125 f_0_0 f_0_75 f_0_6875 f_1_5 f_1_0;
   mkAabb f_0_3125 f_0_0 f_0_0 f_0_6875 f_1_5 f_1_0;
   mkAabb f_0_0 f_0_0 f_0_3125 f_0_6875 f_1_5 f_0_6875;
   mkAabb f_0_3125 f_0_0 f_0_0 f_0_6875 f_1_5 f_0_3125;
   mkAabb f_0_3125 f_0_0 f_0_6875 f_0_6875 f_1_5 f_1_0;
   mkAabb f_0_0 f_0_0 f_0_3125 f_0_6875 f_1_5 f_0_6875;
   mkAabb f_0_3125 f_0_0 f_0_0 f_0_6875 f_1_5 f_0_3125;
   mkAabb f_0_3125 f_0_0 f_0_6875 f_0_6875 f_1_5 f_1_0;
   mkAabb f_0_25 f_0_0 f_0_25 f_0_75 f_1_5 f_0_75;
   mkAabb f_0_3125 f_0_0 f_0_0 f_0_6875 f_1_5 f_0_25;
   mkAabb f_0_0 f_0_0 f_0_3125 f_0_75 f_1_5 f_0_6875;
   mkAabb f_0_25 f_0_0 f_0_25 f_0_75 f_1_5 f_0_3125;
   mkAabb f_0_25 f_0_0 f_0_6875 f_0_75 f_1_5 f_0_75;
   mkAabb f_0_3125 f_0_0 f_0_0 f_0_6875 f_1_5 f_0_25;
   mkAabb f_0_0 f_0_0 f_0_3125 f_0_75 f_1_5 f_0_6875;
   mkAabb f_0_25 f_0_0 f_0_25 f_0_75 f_1_5 f_0_3125;
   mkAabb f_0_25 f_0_0 f_0_6875 f_0_75 f_1_5 f_0_75;
   mkAabb f_0_3125 f_0_0 f_0_0 f_0_6875 f_1_5 f_0_25;
   mkAabb f_0_3125 f_0_0 f_0_0 f_0_6875 f_1_5 f_0_6875;
   mkAabb f_0_0 f_0_0 f_0_3125 f_0_6875 f_1_5 f_0_6875;
   mkAabb f_0_3125 f_0_0 f_0_0 f_0_6875 f_1_5 f_0_3125;
   mkAabb f_0_0 f_0_0 f_0_3125 f_0_6875 f_1_5 f_0_6875;
   mkAabb f_0_3125 f_0_0 f_0_0 f_0_6875 f_1_5 f_0_3125;
   mkAabb f_0_25 f_0_0 f_0_25 f_0_75 f_1_5 f_0_75;
   mkAabb f_0_3125 f_0_0 f_0_0 f_0_6875 f_1_5 f_0_25;
   mkAabb f_0_3125 f_0_0 f_0_75 f_0_6875 f_1_5 f_1_0;
   mkAabb f_0_0 f_0_0 f_0_3125 f_0_75 f_1_5 f_0_6875;
   mkAabb f_0_25 f_0_0 f_0_25 f_0_75 f_1_5 f_0_3125;
   mkAabb f_0_25 f_0_0 f_0_6875 f_0_75 f_1_5 f_0_75;
   mkAabb f_0_3125 f_0_0 f_0_0 f_0_6875 f_1_5 f_0_25;
   mkAabb f_0_3125 f_0_0 f_0_75 f_0_6875 f_1_5 f_1_0;
   mkAabb f_0_0 f_0_0 f_0_3125 f_0_75 f_1_5 f_0_6875;
   mkAabb f_0_25 f_0_0 f_0_25 f_0_75 f_1_5 f_0_3125;
   mkAabb f_0_25 f_0_0 f_0_6875 f_0_75 f_1_5 f_0_75;
   mkAabb f_0_3125 f_0_0 f_0_0 f_0_6875 f_1_5 f_0_25;
   mkAabb f_0_3125 f_0_0 f_0_75 f_0_6875 f_1_5 f_1_0;
   mkAabb f_0_3125 f_0_0 f_0_0 f_0_6875 f_1_5 f_1_0;
   mkAabb f_0_0 f_0_0 f_0_3125 f_0_6875 f_1_5 f_0_6875;
   mkAabb f_0_3125 f_0_0 f_0_0 f_0_6875 f_1_5 f_0_3125;
   mkAabb f_0_3125 f_0_0 f_0_6875 f_0_6875 f_1_5 f_1_0;
   mkAabb f_0_0 f_0_0 f_0_3125 f_0_6875 f_1_5 f_0_6875;
   mkAabb f_0_3125 f_0_0 f_0_0 f_0_6875 f_1_5 f_0_3125;
   mkAabb f_0_3125 f_0_0 f_0_6875 f_0_6875 f_1_5 f_1_0;
   mkAabb f_0_25 f_0_0 f_0_25 f_0_75 f_1_5 f_0_75;
   mkAabb f_0_3125 f_0_0 f_0_0 f_0_6875 f_1_5 f_0_25;
   mkAabb f_0_3125 f_0_0 f_0_75 f_0_6875 f_1_5 f_1_0;
   mkAabb f_0_0 f_0_0 f_0_3125 f_0_75 f_1_5 f_0_6875;
   mkAabb f_0_25 f_0_0 f_0_25 f_0_75 f_1_5 f_0_3125;
   mkAabb f_0_25 f_0_0 f_0_6875 f_0_75 f_1_5 f_0_75;
   mkAabb f_0_3125 f_0_0 f_0_0 f_0_6875 f_1_5 f_0_25;
   mkAabb f_0_3125 f_0_0 f_0_75 f_0_6875 f_1_5 f_1_0;
   mkAabb f_0_0 f_0_0 f_0_3125 f_0_75 f_1_5 f_0_6875;
   mkAabb f_0_25 f_0_0 f_0_25 f_0_75 f_1_5 f_0_3125;
   mkAabb f_0_25 f_0_0 f_0_6875 f_0_75 f_1_5 f_0_75;
   mkAabb f_0_3125 f_0_0 f_0_0 f_0_6875 f_1_5 f_0_25;
   mkAabb f_0_3125 f_0_0 f_0_75 f_0_6875 f_1_5 f_1_0;
   mkAabb f_0_3125 f_0_0 f_0_0 f_0_6875 f_1_5 f_1_0;
   mkAabb f_0_0 f_0_0 f_0_3125 f_0_6875 f_1_5 f_0_6875;
   mkAabb f_0_3125 f_0_0 f_0_0 f_0_6875 f_1_5 f_0_3125;
   mkAabb f_0_3125 f_0_0 f_0_6875 f_0_6875 f_1_5 f_1_0;
   mkAabb f_0_0 f_0_0 f_0_3125 f_0_6875 f_1_5 f_0_6875;
   mkAabb f_0_3125 f_0_0 f_0_0 f_0_6875 f_1_5 f_0_3125;
   mkAabb f_0_3125 f_0_0 f_0_6875 f_0_6875 f_1_5 f_1_0;
   mkAabb f_0_25 f_0_0 f_0_25 f_0_75 f_1_5 f_0_75;
   mkAabb f_0_75 f_0_0 f_0_3125 f_1_0 f_1_5 f_0_6875;
   mkAabb f_0_0 f_0_0 f_0_3125 f_1_0 f_1_5 f_0_6875;
   mkAabb f_0_25 f_0_0 f_0_25 f_0_75 f_1_5 f_0_3125;
   mkAabb f_0_25 f_0_0 f_0_6875 f_0_75 f_1_5 f_0_75;
   mkAabb f_0_0 f_0_0 f_0_3125 f_1_0 f_1_5 f_0_6875;
   mkAabb f_0_25 f_0_0 f_0_25 f_0_75 f_1_5 f_0_3125;
   mkAabb f_0_25 f_0_0 f_0_6875 f_0_75 f_1_5 f_0_75;
   mkAabb f_0_3125 f_0_0 f_0_3125 f_1_0 f_1_5 f_0_6875;
   mkAabb f_0_0 f_0_0 f_0_3125 f_1_0 f_1_5 f_0_6875;
   mkAabb f_0_0 f_0_0 f_0_3125 f_1_0 f_1_5 f_0_6875;
   mkAabb f_0_25 f_0_0 f_0_25 f_0_75 f_1_5 f_0_75;
   mkAabb f_0_3125 f_0_0 f_0_75 f_0_6875 f_1_5 f_1_0;
   mkAabb f_0_75 f_0_0 f_0_3125 f_1_0 f_1_5 f_0_6875;
   mkAabb f_0_0 f_0_0 f_0_3125 f_1_0 f_1_5 f_0_6875;
   mkAabb f_0_25 f_0_0 f_0_25 f_0_75 f_1_5 f_0_3125;
   mkAabb f_0_25 f_0_0 f_0_6875 f_0_75 f_1_5 f_0_75;
   mkAabb f_0_3125 f_0_0 f_0_75 f_0_6875 f_1_5 f_1_0;
   mkAabb f_0_0 f_0_0 f_0_3125 f_1_0 f_1_5 f_0_6875;
   mkAabb f_0_25 f_0_0 f_0_25 f_0_75 f_1_5 f_0_3125;
   mkAabb f_0_25 f_0_0 f_0_6875 f_0_75 f_1_5 f_0_75;
   mkAabb f_0_3125 f_0_0 f_0_75 f_0_6875 f_1_5 f_1_0;
   mkAabb f_0_3125 f_0_0 f_0_3125 f_0_6875 f_1_5 f_1_0;
   mkAabb f_0_6875 f_0_0 f_0_3125 f_1_0 f_1_5 f_0_6875;
   mkAabb f_0_0 f_0_0 f_0_3125 f_1_0 f_1_5 f_0_6875;
   mkAabb f_0_3125 f_0_0 f_0_6875 f_0_6875 f_1_5 f_1_0;
   mkAabb f_0_0 f_0_0 f_0_3125 f_1_0 f_1_5 f_0_6875;
   mkAabb f_0_3125 f_0_0 f_0_6875 f_0_6875 f_1_5 f_1_0;
   mkAabb f_0_25 f_0_0 f_0_25 f_0_75 f_1_5 f_0_75;
   mkAabb f_0_3125 f_0_0 f_0_75 f_0_6875 f_1_5 f_1_0].
Definition SHAPE_BOXES_62 : list Aabb :=
  [mkAabb f_0_75 f_0_0 f_0_3125 f_1_0 f_1_5 f_0_6875;
   mkAabb f_0_0 f_0_0 f_0_3125 f_1_0 f_1_5 f_0_6875;
   mkAabb f_0_25 f_0_0 f_0_25 f_0_75 f_1_5 f_0_3125;
   mkAabb f_0_25 f_0_0 f_0_6875 f_0_75 f_1_5 f_0_75;
   mkAabb f_0_3125 f_0_0 f_0_75 f_0_6875 f_1_5 f_1_0;
   mkAabb f_0_0 f_0_0 f_0_3125 f_1_0 f_1_5 f_0_6875;
   mkAabb f_0_25 f_0_0 f_0_25 f_0_75 f_1_5 f_0_3125;
   mkAabb f_0_25 f_0_0 f_0_6875 f_0_75 f_1_5 f_0_75;
   mkAabb f_0_3125 f_0_0 f_0_75 f_0_6875 f_1_5 f_1_0;
   mkAabb f_0_3125 f_0_0 f_0_3125 f_0_6875 f_1_5 f_1_0;
   mkAabb f_0_6875 f_0_0 f_0_3125 f_1_0 f_1_5 f_0_6875;
   mkAabb f_0_0 f_0_0 f_0_3125 f_1_0 f_1_5 f_0_6875;
   mkAabb f_0_3125 f_0_0 f_0_6875 f_0_6875 f_1_5 f_1_0;
   mkAabb f_0_0 f_0_0 f_0_3125 f_1_0 f_1_5 f_0_6875;
   mkAabb f_0_3125 f_0_0 f_0_6875 f_0_6875 f_1_5 f_1_0;
   mkAabb f_0_25 f_0_0 f_0_25 f_0_75 f_1_5 f_0_75;
   mkAabb f_0_3125 f_0_0 f_0_0 f_0_6875 f_1_5 f_0_25;
   mkAabb f_0_75 f_0_0 f_0_3125 f_1_0 f_1_5 f_0_6875;
   mkAabb f_0_0 f_0_0 f_0_3125 f_1_0 f_1_5 f_0_6875;
   mkAabb f_0_25 f_0_0 f_0_25 f_0_75 f_1_5 f_0_3125;
   mkAabb f_0_25 f_0_0 f_0_6875 f_0_75 f_1_5 f_0_75;
   mkAabb f_0_3125 f_0_0 f_0_0 f_0_6875 f_1_5 f_0_25;
   mkAabb f_0_0 f_0_0 f_0_3125 f_1_0 f_1_5 f_0_6875;
   mkAabb f_0_25 f_0_0 f_0_25 f_0_75 f_1_5 f_0_3125;
   mkAabb f_0_25 f_0_0 f_0_6875 f_0_75 f_1_5 f_0_75;
   mkAabb f_0_3125 f_0_0 f_0_0 f_0_6875 f_1_5 f_0_25;
   mkAabb f_0_3125 f_0_0 f_0_0 f_0_6875 f_1_5 f_0_6875;
   mkAabb f_0_6875 f_0_0 f_0_3125 f_1_0 f_1_5 f_0_6875;
   mkAabb f_0_0 f_0_0 f_0_3125 f_1_0 f_1_5 f_0_6875;
   mkAabb f_0_3125 f_0_0 f_0_0 f_0_6875 f_1_5 f_0_3125;
   mkAabb f_0_0 f_0_0 f_0_3125 f_1_0 f_1_5 f_0_6875;
   mkAabb f_0_3125 f_0_0 f_0_0 f_0_6875 f_1_5 f_0_3125;
   mkAabb f_0_25 f_0_0 f_0_25 f_0_75 f_1_5 f_0_75;
   mkAabb f_0_3125 f_0_0 f_0_0 f_0_6875 f_1_5 f_0_25;
   mkAabb f_0_3125 f_0_0 f_0_75 f_0_6875 f_1_5 f_1_0;
   mkAabb f_0_75 f_0_0 f_0_3125 f_1_0 f_1_5 f_0_6875;
   mkAabb f_0_0 f_0_0 f_0_3125 f_1_0 f_1_5 f_0_6875;
   mkAabb f_0_25 f_0_0 f_0_25 f_0_75 f_1_5 f_0_3125;
   mkAabb f_0_25 f_0_0 f_0_6875 f_0_75 f_1_5 f_0_75;
   mkAabb f_0_3125 f_0_0 f_0_0 f_0_6875 f_1_5 f_0_25;
   mkAabb f_0_3125 f_0_0 f_0_75 f_0_6875 f_1_5 f_1_0;
   mkAabb f_0_0 f_0_0 f_0_3125 f_1_0 f_1_5 f_0_6875;
   mkAabb f_0_25 f_0_0 f_0_25 f_0_75 f_1_5 f_0_3125;
   mkAabb f_0_25 f_0_0 f_0_6875 f_0_75 f_1_5 f_0_75;
   mkAabb f_0_3125 f_0_0 f_0_0 f_0_6875 f_1_5 f_0_25;
   mkAabb f_0_3125 f_0_0 f_0_75 f_0_6875 f_1_5 f_1_0;
   mkAabb f_0_3125 f_0_0 f_0_0 f_0_6875 f_1_5 f_1_0;
   mkAabb f_0_6875 f_0_0 f_0_3125 f_1_0 f_1_5 f_0_6875;
   mkAabb f_0_0 f_0_0 f_0_3125 f_1_0 f_1_5 f_0_6875;
   mkAabb f_0_3125 f_0_0 f_0_0 f_0_6875 f_1_5 f_0_3125;
   mkAabb f_0_3125 f_0_0 f_0_6875 f_0_6875 f_1_5 f_1_0;
   mkAabb f_0_0 f_0_0 f_0_3125 f_1_0 f_1_5 f_0_6875;
   mkAabb f_0_3125 f_0_0 f_0_0 f_0_6875 f_1_5 f_0_3125;
   mkAabb f_0_3125 f_0_0 f_0_6875 f_0_6875 f_1_5 f_1_0;
   mkAabb f_0_25 f_0_0 f_0_25 f_0_75 f_1_5 f_0_75;
   mkAabb f_0_3125 f_0_0 f_0_0 f_0_6875 f_1_5 f_0_25;
   mkAabb f_0_3125 f_0_0 f_0_75 f_0_6875 f_1_5 f_1_0;
   mkAabb f_0_75 f_0_0 f_0_3125 f_1_0 f_1_5 f_0_6875;
   mkAabb f_0_0 f_0_0 f_0_3125 f_1_0 f_1_5 f_0_6875;
   mkAabb f_0_25 f_0_0 f_0_25 f_0_75 f_1_5 f_0_3125;
   mkAabb f_0_25 f_0_0 f_0_6875 f_0_75 f_1_5 f_0_75;
   mkAabb f_0_3125 f_0_0 f_0_0 f_0_6875 f_1_5 f_0_25;
   mkAabb f_0_3125 f_0_0 f_0_75 f_0_6875 f_1_5 f_1_0;
   mkAabb f_0_0 f_0_0 f_0_3125 f_1_0 f_1_5 f_0_6875;
   mkAabb f_0_25 f_0_0 f_0_25 f_0_75 f_1_5 f_0_3125;
   mkAabb f_0_25 f_0_0 f_0_6875 f_0_75 f_1_5 f_0_75;
   mkAabb f_0_3125 f_0_0 f_0_0 f_0_6875 f_1_5 f_0_25;
   mkAabb f_0_3125 f_0_0 f_0_75 f_0_6875 f_1_5 f_1_0;
   mkAabb f_0_3125 f_0_0 f_0_0 f_0_6875 f_1_5 f_1_0;
   mkAabb f_0_6875 f_0_0 f_0_3125 f_1_0 f_1_5 f_0_6875;
   mkAabb f_0_0 f_0_0 f_0_3125 f_1_0 f_1_5 f_0_6875;
   mkAabb f_0_3125 f_0_0 f_0_0 f_0_6875 f_1_5 f_0_3125;
   mkAabb f_0_3125 f_0_0 f_0_6875 f_0_6875 f_1_5 f_1_0;
   mkAabb f_0_0 f_0_0 f_0_3125 f_1_0 f_1_5 f_0_6875;
   mkAabb f_0_3125 f_0_0 f_0_0 f_0_6875 f_1_5 f_0_3125;
   mkAabb f_0_3125 f_0_0 f_0_6875 f_0_6875 f_1_5 f_1_0;
   mkAabb f_0_25 f_0_0 f_0_25 f_0_75 f_1_5 f_0_75;
   mkAabb f_0_3125 f_0_0 f_0_0 f_0_6875 f_1_5 f_0_25;
   mkAabb f_0_75 f_0_0 f_0_3125 f_1_0 f_1_5 f_0_6875;
   mkAabb f_0_0 f_0_0 f_0_3125 f_1_0 f_1_5 f_0_6875;
   mkAabb f_0_25 f_0_0 f_0_25 f_0_75 f_1_5 f_0_3125;
   mkAabb f_0_25 f_0_0 f_0_6875 f_0_75 f_1_5 f_0_75;
   mkAabb f_0_3125 f_0_0 f_0_0 f_0_6875 f_1_5 f_0_25;
   mkAabb f_0_0 f_0_0 f_0_3125 f_1_0 f_1_5 f_0_6875;
   mkAabb f_0_25 f_0_0 f_0_25 f_0_75 f_1_5 f_0_3125;
   mkAabb f_0_25 f_0_0 f_0_6875 f_0_75 f_1_5 f_0_75;
   mkAabb f_0_3125 f_0_0 f_0_0 f_0_6875 f_1_5 f_0_25;
   mkAabb f_0_3125 f_0_0 f_0_0 f_0_6875 f_1_5 f_0_6875;
   mkAabb f_0_6875 f_0_0 f_0_3125 f_1_0 f_1_5 f_0_6875;
   mkAabb f_0_0 f_0_0 f_0_3125 f_1_0 f_1_5 f_0_6875;
   mkAabb f_0_3125 f_0_0 f_0_0 f_0_6875 f_1_5 f_0_3125;
   mkAabb f_0_0 f_0_0 f_0_3125 f_1_0 f_1_5 f_0_6875;
   mkAabb f_0_3125 f_0_0 f_0_0 f_0_6875 f_1_5 f_0_3125;
   mkAabb f_0_25 f_0_0 f_0_25 f_0_75 f_1_5 f_0_75;
   mkAabb f_0_3125 f_0_0 f_0_0 f_0_6875 f_1_5 f_0_25;
   mkAabb f_0_3125 f_0_0 f_0_75 f_0_6875 f_1_5 f_1_0;
   mkAabb f_0_75 f_0_0 f_0_3125 f_1_0 f_1_5 f_0_6875;
   mkAabb f_0_0 f_0_0 f_0_3125 f_1_0 f_1_5 f_0_6875;
   mkAabb f_0_25 f_0_0 f_0_25 f_0_75 f_1_5 f_0_3125;
   mkAabb f_0_25 f_0_0 f_0_6875 f_0_75 f_1_5 f_0_75;
   mkAabb f_0_3125 f_0_0 f_0_0 f_0_6875 f_1_5 f_0_25;
   mkAabb f_0_3125 f_0_0 f_0_75 f_0_6875 f_1_5 f_1_0;
   mkAabb f_0_0 f_0_0 f_0_3125 f_1_0 f_1_5 f_0_6875;
   mkAabb f_0_25 f_0_0 f_0_25 f_0_75 f_1_5 f_0_3125;
   mkAabb f_0_25 f_0_0 f_0_6875 f_0_75 f_1_5 f_0_75;
   mkAabb f_0_3125 f_0_0 f_0_0 f_0_6875 f_1_5 f_0_25;
   mkAabb f_0_3125 f_0_0 f_0_75 f_0_6875 f_1_5 f_1_0;
   mkAabb f_0_3125 f_0_0 f_0_0 f_0_6875 f_1_5 f_1_0;
   mkAabb f_0_6875 f_0_0 f_0_3125 f_1_0 f_1_5 f_0_6875;
   mkAabb f_0_0 f_0_0 f_0_3125 f_1_0 f_1_5 f_0_6875;
   mkAabb f_0_3125 f_0_0 f_0_0 f_0_6875 f_1_5 f_0_3125;
   mkAabb f_0_3125 f_0_0 f_0_6875 f_0_6875 f_1_5 f_1_0;
   mkAabb f_0_0 f_0_0 f_0_3125 f_1_0 f_1_5 f_0_6875;
   mkAabb f_0_3125 f_0_0 f_0_0 f_0_6875 f_1_5 f_0_3125;
   mkAabb f_0_3125 f_0_0 f_0_6875 f_0_6875 f_1_5 f_1_0;
   mkAabb f_0_25 f_0_0 f_0_25 f_0_75 f_1_5 f_0_75;
   mkAabb f_0_3125 f_0_0 f_0_0 f_0_6875 f_1_5 f_0_25;
   mkAabb f_0_3125 f_0_0 f_0_75 f_0_6875 f_1_5 f_1_0;
   mkAabb f_0_75 f_0_0 f_0_3125 f_1_0 f_1_5 f_0_6875;
   mkAabb f_0_0 f_0_0 f_0_3125 f_1_0 f_1_5 f_0_6875;
   mkAabb f_0_25 f_0_0 f_0_25 f_0_75 f_1_5 f_0_3125;
   mkAabb f_0_25 f_0_0 f_0_6875 f_0_75 f_1_5 f_0_75;
   mkAabb f_0_3125 f_0_0 f_0_0 f_0_6875 f_1_5 f_0_25;
   mkAabb f_0_3125 f_0_0 f_0_75 f_0_6875 f_1_5 f_1_0;
   mkAabb f_0_0 f_0_0 f_0_3125 f_1_0 f_1_5 f_0_6875;
   mkAabb f_0_25 f_0_0 f_0_25 f_0_75 f_1_5 f_0_3125;
   mkAabb f_0_25 f_0_0 f_0_6875 f_0_75 f_1_5 f_0_75;
   mkAabb f_0_3125 f_0_0 f_0_0 f_0_6875 f_1_5 f_0_25;
   mkAabb f_0_3125 f_0_0 f_0_75 f_0_6875 f_1_5 f_1_0;
   mkAabb f_0_3125 f_0_0 f_0_0 f_0_6875 f_1_5 f_1_0;
   mkAabb f_0_6875 f_0_0 f_0_3125 f_1_0 f_1_5 f_0_6875;
   mkAabb f_0_0 f_0_0 f_0_3125 f_1_0 f_1_5 f_0_6875;
   mkAabb f_0_3125 f_0_0 f_0_0 f_0_6875 f_1_5 f_0_3125;
   mkAabb f_0_3125 f_0_0 f_0_6875 f_0_6875 f_1_5 f_1_0;
   mkAabb f_0_0 f_0_0 f_0_3125 f_1_0 f_1_5 f_0_6875;
   mkAabb f_0_3125 f_0_0 f_0_0 f_0_6875 f_1_5 f_0_3125;
   mkAabb f_0_3125 f_0_0 f_0_6875 f_0_6875 f_1_5 f_1_0;
   mkAabb f_0_25 f_0_0 f_0_25 f_0_75 f_1_5 f_0_75;
   mkAabb f_0_75 f_0_0 f_0_3125 f_1_0 f_1_5 f_0_6875;
   mkAabb f_0_0 f_0_0 f_0_3125 f_1_0 f_1_5 f_0_6875;
   mkAabb f_0_25 f_0_0 f_0_25 f_0_75 f_1_5 f_0_3125;
   mkAabb f_0_25 f_0_0 f_0_6875 f_0_75 f_1_5 f_0_75;
   mkAabb f_0_0 f_0_0 f_0_3125 f_1_0 f_1_5 f_0_6875;
   mkAabb f_0_25 f_0_0 f_0_25 f_0_75 f_1_5 f_0_3125;
   mkAabb f_0_25 f_0_0 f_0_6875 f_0_75 f_1_5 f_0_75;
   mkAabb f_0_3125 f_0_0 f_0_3125 f_1_0 f_1_5 f_0_6875;
   mkAabb f_0_0 f_0_0 f_0_3125 f_1_0 f_1_5 f_0_6875;
   mkAabb f_0_0 f_0_0 f_0_3125 f_1_0 f_1_5 f_0_6875;
   mkAabb f_0_25 f_0_0 f_0_25 f_0_75 f_1_5 f_0_75;
   mkAabb f_0_3125 f_0_0 f_0_75 f_0_6875 f_1_5 f_1_0].
Definition SHAPE_BOXES_63 : list Aabb :=
  [mkAabb f_0_75 f_0_0 f_0_3125 f_1_0 f_1_5 f_0_6875;
   mkAabb f_0_0 f_0_0 f_0_3125 f_1_0 f_1_5 f_0_6875;
   mkAabb f_0_25 f_0_0 f_0_25 f_0_75 f_1_5 f_0_3125;
   mkAabb f_0_25 f_0_0 f_0_6875 f_0_75 f_1_5 f_0_75;
   mkAabb f_0_3125 f_0_0 f_0_75 f_0_6875 f_1_5 f_1_0;
   mkAabb f_0_0 f_0_0 f_0_3125 f_1_0 f_1_5 f_0_6875;
   mkAabb f_0_25 f_0_0 f_0_25 f_0_75 f_1_5 f_0_3125;
   mkAabb f_0_25 f_0_0 f_0_6875 f_0_75 f_1_5 f_0_75;
   mkAabb f_0_3125 f_0_0 f_0_75 f_0_6875 f_1_5 f_1_0;
   mkAabb f_0_3125 f_0_0 f_0_3125 f_0_6875 f_1_5 f_1_0;
   mkAabb f_0_6875 f_0_0 f_0_3125 f_1_0 f_1_5 f_0_6875;
   mkAabb f_0_0 f_0_0 f_0_3125 f_1_0 f_1_5 f_0_6875;
   mkAabb f_0_3125 f_0_0 f_0_6875 f_0_6875 f_1_5 f_1_0;
   mkAabb f_0_0 f_0_0 f_0_3125 f_1_0 f_1_5 f_0_6875;
   mkAabb f_0_3125 f_0_0 f_0_6875 f_0_6875 f_1_5 f_1_0;
   mkAabb f_0_25 f_0_0 f_0_25 f_0_75 f_1_5 f_0_75;
   mkAabb f_0_3125 f_0_0 f_0_75 f_0_6875 f_1_5 f_1_0;
   mkAabb f_0_75 f_0_0 f_0_3125 f_1_0 f_1_5 f_0_6875;
   mkAabb f_0_0 f_0_0 f_0_3125 f_1_0 f_1_5 f_0_6875;
   mkAabb f_0_25 f_0_0 f_0_25 f_0_75 f_1_5 f_0_3125;
   mkAabb f_0_25 f_0_0 f_0_6875 f_0_75 f_1_5 f_0_75;
   mkAabb f_0_3125 f_0_0 f_0_75 f_0_6875 f_1_5 f_1_0;
   mkAabb f_0_0 f_0_0 f_0_3125 f_1_0 f_1_5 f_0_6875;
   mkAabb f_0_25 f_0_0 f_0_25 f_0_75 f_1_5 f_0_3125;
   mkAabb f_0_25 f_0_0 f_0_6875 f_0_75 f_1_5 f_0_75;
   mkAabb f_0_3125 f_0_0 f_0_75 f_0_6875 f_1_5 f_1_0;
   mkAabb f_0_3125 f_0_0 f_0_3125 f_0_6875 f_1_5 f_1_0;
   mkAabb f_0_6875 f_0_0 f_0_3125 f_1_0 f_1_5 f_0_6875;
   mkAabb f_0_0 f_0_0 f_0_3125 f_1_0 f_1_5 f_0_6875;
   mkAabb f_0_3125 f_0_0 f_0_6875 f_0_6875 f_1_5 f_1_0;
   mkAabb f_0_0 f_0_0 f_0_3125 f_1_0 f_1_5 f_0_6875;
   mkAabb f_0_3125 f_0_0 f_0_6875 f_0_6875 f_1_5 f_1_0;
   mkAabb f_0_25 f_0_0 f_0_25 f_0_75 f_1_5 f_0_75;
   mkAabb f_0_3125 f_0_0 f_0_0 f_0_6875 f_1_5 f_0_25;
   mkAabb f_0_75 f_0_0 f_0_3125 f_1_0 f_1_5 f_0_6875;
   mkAabb f_0_0 f_0_0 f_0_3125 f_1_0 f_1_5 f_0_6875;
   mkAabb f_0_25 f_0_0 f_0_25 f_0_75 f_1_5 f_0_3125;
   mkAabb f_0_25 f_0_0 f_0_6875 f_0_75 f_1_5 f_0_75;
   mkAabb f_0_3125 f_0_0 f_0_0 f_0_6875 f_1_5 f_0_25;
   mkAabb f_0_0 f_0_0 f_0_3125 f_1_0 f_1_5 f_0_6875;
   mkAabb f_0_25 f_0_0 f_0_25 f_0_75 f_1_5 f_0_3125;
   mkAabb f_0_25 f_0_0 f_0_6875 f_0_75 f_1_5 f_0_75;
   mkAabb f_0_3125 f_0_0 f_0_0 f_0_6875 f_1_5 f_0_25;
   mkAabb f_0_3125 f_0_0 f_0_0 f_0_6875 f_1_5 f_0_6875;
   mkAabb f_0_6875 f_0_0 f_0_3125 f_1_0 f_1_5 f_0_6875;
   mkAabb f_0_0 f_0_0 f_0_3125 f_1_0 f_1_5 f_0_6875;
   mkAabb f_0_3125 f_0_0 f_0_0 f_0_6875 f_1_5 f_0_3125;
   mkAabb f_0_0 f_0_0 f_0_3125 f_1_0 f_1_5 f_0_6875;
   mkAabb f_0_3125 f_0_0 f_0_0 f_0_6875 f_1_5 f_0_3125;
   mkAabb f_0_25 f_0_0 f_0_25 f_0_75 f_1_5 f_0_75;
   mkAabb f_0_3125 f_0_0 f_0_0 f_0_6875 f_1_5 f_0_25;
   mkAabb f_0_3125 f_0_0 f_0_75 f_0_6875 f_1_5 f_1_0;
   mkAabb f_0_75 f_0_0 f_0_3125 f_1_0 f_1_5 f_0_6875;
   mkAabb f_0_0 f_0_0 f_0_3125 f_1_0 f_1_5 f_0_6875;
   mkAabb f_0_25 f_0_0 f_0_25 f_0_75 f_1_5 f_0_3125;
   mkAabb f_0_25 f_0_0 f_0_6875 f_0_75 f_1_5 f_0_75;
   mkAabb f_0_3125 f_0_0 f_0_0 f_0_6875 f_1_5 f_0_25;
   mkAabb f_0_3125 f_0_0 f_0_75 f_0_6875 f_1_5 f_1_0;
   mkAabb f_0_0 f_0_0 f_0_3125 f_1_0 f_1_5 f_0_6875;
   mkAabb f_0_25 f_0_0 f_0_25 f_0_75 f_1_5 f_0_3125;
   mkAabb f_0_25 f_0_0 f_0_6875 f_0_75 f_1_5 f_0_75;
   mkAabb f_0_3125 f_0_0 f_0_0 f_0_6875 f_1_5 f_0_25;
   mkAabb f_0_3125 f_0_0 f_0_75 f_0_6875 f_1_5 f_1_0;
   mkAabb f_0_3125 f_0_0 f_0_0 f_0_6875 f_1_5 f_1_0;
   mkAabb f_0_6875 f_0_0 f_0_3125 f_1_0 f_1_5 f_0_6875;
   mkAabb f_0_0 f_0_0 f_0_3125 f_1_0 f_1_5 f_0_6875;
   mkAabb f_0_3125 f_0_0 f_0_0 f_0_6875 f_1_5 f_0_3125;
   mkAabb f_0_3125 f_0_0 f_0_6875 f_0_6875 f_1_5 f_1_0;
   mkAabb f_0_0 f_0_0 f_0_3125 f_1_0 f_1_5 f_0_6875;
   mkAabb f_0_3125 f_0_0 f_0_0 f_0_6875 f_1_5 f_0_3125;
   mkAabb f_0_3125 f_0_0 f_0_6875 f_0_6875 f_1_5 f_1_0;
   mkAabb f_0_25 f_0_0 f_0_25 f_0_75 f_1_5 f_0_75;
   mkAabb f_0_3125 f_0_0 f_0_0 f_0_6875 f_1_5 f_0_25;
   mkAabb f_0_3125 f_0_0 f_0_75 f_0_6875 f_1_5 f_1_0;
   mkAabb f_0_75 f_0_0 f_0_3125 f_1_0 f_1_5 f_0_6875;
   mkAabb f_0_0 f_0_0 f_0_3125 f_1_0 f_1_5 f_0_6875;
   mkAabb f_0_25 f_0_0 f_0_25 f_0_75 f_1_5 f_0_3125;
   mkAabb f_0_25 f_0_0 f_0_6875 f_0_75 f_1_5 f_0_75;
   mkAabb f_0_3125 f_0_0 f_0_0 f_0_6875 f_1_5 f_0_25;
   mkAabb f_0_3125 f_0_0 f_0_75 f_0_6875 f_1_5 f_1_0;
   mkAabb f_0_0 f_0_0 f_0_3125 f_1_0 f_1_5 f_0_6875;
   mkAabb f_0_25 f_0_0 f_0_25 f_0_75 f_1_5 f_0_3125;
   mkAabb f_0_25 f_0_0 f_0_6875 f_0_75 f_1_5 f_0_75;
   mkAabb f_0_3125 f_0_0 f_0_0 f_0_6875 f_1_5 f_0_25;
   mkAabb f_0_3125 f_0_0 f_0_75 f_0_6875 f_1_5 f_1_0;
   mkAabb f_0_3125 f_0_0 f_0_0 f_0_6875 f_1_5 f_1_0;
   mkAabb f_0_6875 f_0_0 f_0_3125 f_1_0 f_1_5 f_0_6875;
   mkAabb f_0_0 f_0_0 f_0_3125 f_1_0 f_1_5 f_0_6875;
   mkAabb f_0_3125 f_0_0 f_0_0 f_0_6875 f_1_5 f_0_3125;
   mkAabb f_0_3125 f_0_0 f_0_6875 f_0_6875 f_1_5 f_1_0;
   mkAabb f_0_0 f_0_0 f_0_3125 f_1_0 f_1_5 f_0_6875;
   mkAabb f_0_3125 f_0_0 f_0_0 f_0_6875 f_1_5 f_0_3125;
   mkAabb f_0_3125 f_0_0 f_0_6875 f_0_6875 f_1_5 f_1_0;
   mkAabb f_0_25 f_0_0 f_0_25 f_0_75 f_1_5 f_0_75;
   mkAabb f_0_3125 f_0_0 f_0_0 f_0_6875 f_1_5 f_0_25;
   mkAabb f_0_75 f_0_0 f_0_3125 f_1_0 f_1_5 f_0_6875;
   mkAabb f_0_0 f_0_0 f_0_3125 f_1_0 f_1_5 f_0_6875;
   mkAabb f_0_25 f_0_0 f_0_25 f_0_75 f_1_5 f_0_3125;
   mkAabb f_0_25 f_0_0 f_0_6875 f_0_75 f_1_5 f_0_75;
   mkAabb f_0_3125 f_0_0 f_0_0 f_0_6875 f_1_5 f_0_25;
   mkAabb f_0_0 f_0_0 f_0_3125 f_1_0 f_1_5 f_0_6875;
   mkAabb f_0_25 f_0_0 f_0_25 f_0_75 f_1_5 f_0_3125;
   mkAabb f_0_25 f_0_0 f_0_6875 f_0_75 f_1_5 f_0_75;
   mkAabb f_0_3125 f_0_0 f_0_0 f_0_6875 f_1_5 f_0_25;
   mkAabb f_0_3125 f_0_0 f_0_0 f_0_6875 f_1_5 f_0_6875;
   mkAabb f_0_6875 f_0_0 f_0_3125 f_1_0 f_1_5 f_0_6875;
   mkAabb f_0_0 f_0_0 f_0_3125 f_1_0 f_1_5 f_0_6875;
   mkAabb f_0_3125 f_0_0 f_0_0 f_0_6875 f_1_5 f_0_3125;
   mkAabb f_0_0 f_0_0 f_0_3125 f_1_0 f_1_5 f_0_6875;
   mkAabb f_0_3125 f_0_0 f_0_0 f_0_6875 f_1_5 f_0_3125;
   mkAabb f_0_25 f_0_0 f_0_25 f_0_75 f_1_5 f_0_75;
   mkAabb f_0_3125 f_0_0 f_0_0 f_0_6875 f_1_5 f_0_25;
   mkAabb f_0_3125 f_0_0 f_0_75 f_0_6875 f_1_5 f_1_0;
   mkAabb f_0_75 f_0_0 f_0_3125 f_1_0 f_1_5 f_0_6875;
   mkAabb f_0_0 f_0_0 f_0_3125 f_1_0 f_1_5 f_0_6875;
   mkAabb f_0_25 f_0_0 f_0_25 f_0_75 f_1_5 f_0_3125;
   mkAabb f_0_25 f_0_0 f_0_6875 f_0_75 f_1_5 f_0_75;
   mkAabb f_0_3125 f_0_0 f_0_0 f_0_6875 f_1_5 f_0_25;
   mkAabb f_0_3125 f_0_0 f_0_75 f_0_6875 f_1_5 f_1_0;
   mkAabb f_0_0 f_0_0 f_0_3125 f_1_0 f_1_5 f_0_6875;
   mkAabb f_0_25 f_0_0 f_0_25 f_0_75 f_1_5 f_0_3125;
   mkAabb f_0_25 f_0_0 f_0_6875 f_0_75 f_1_5 f_0_75;
   mkAabb f_0_3125 f_0_0 f_0_0 f_0_6875 f_1_5 f_0_25;
   mkAabb f_0_3125 f_0_0 f_0_75 f_0_6875 f_1_5 f_1_0;
   mkAabb f_0_3125 f_0_0 f_0_0 f_0_6875 f_1_5 f_1_0;
   mkAabb f_0_6875 f_0_0 f_0_3125 f_1_0 f_1_5 f_0_6875;
   mkAabb f_0_0 f_0_0 f_0_3125 f_1_0 f_1_5 f_0_6875;
   mkAabb f_0_3125 f_0_0 f_0_0 f_0_6875 f_1_5 f_0_3125;
   mkAabb f_0_3125 f_0_0 f_0_6875 f_0_6875 f_1_5 f_1_0;
   mkAabb f_0_0 f_0_0 f_0_3125 f_1_0 f_1_5 f_0_6875;
   mkAabb f_0_3125 f_0_0 f_0_0 f_0_6875 f_1_5 f_0_3125;
   mkAabb f_0_3125 f_0_0 f_0_6875 f_0_6875 f_1_5 f_1_0;
   mkAabb f_0_25 f_0_0 f_0_25 f_0_75 f_1_5 f_0_75;
   mkAabb f_0_3125 f_0_0 f_0_0 f_0_6875 f_1_5 f_0_25;
   mkAabb f_0_3125 f_0_0 f_0_75 f_0_6875 f_1_5 f_1_0;
   mkAabb f_0_75 f_0_0 f_0_3125 f_1_0 f_1_5 f_0_6875;
   mkAabb f_0_0 f_0_0 f_0_3125 f_1_0 f_1_5 f_0_6875;
   mkAabb f_0_25 f_0_0 f_0_25 f_0_75 f_1_5 f_0_3125;
   mkAabb f_0_25 f_0_0 f_0_6875 f_0_75 f_1_5 f_0_75;
   mkAabb f_0_3125 f_0_0 f_0_0 f_0_6875 f_1_5 f_0_25;
   mkAabb f_0_3125 f_0_0 f_0_75 f_0_6875 f_1_5 f_1_0;
   mkAabb f_0_0 f_0_0 f_0_3125 f_1_0 f_1_5 f_0_6875;
   mkAabb f_0_25 f_0_0 f_0_25 f_0_75 f_1_5 f_0_3125;
   mkAabb f_0_25 f_0_0 f_0_6875 f_0_75 f_1_5 f_0_75;
   mkAabb f_0_3125 f_0_0 f_0_0 f_0_6875 f_1_5 f_0_25;
   mkAabb f_0_3125 f_0_0 f_0_75 f_0_6875 f_1_5 f_1_0;
   mkAabb f_0_3125 f_0_0 f_0_0 f_0_6875 f_1_5 f_1_0;
   mkAabb f_0_6875 f_0_0 f_0_3125 f_1_0 f_1_5 f_0_6875;
   mkAabb f_0_0 f_0_0 f_0_3125 f_1_0 f_1_5 f_0_6875;
   mkAabb f_0_3125 f_0_0 f_0_0 f_0_6875 f_1_5 f_0_3125].
Definition SHAPE_BOXES_64 : list Aabb :=
  [mkAabb f_0_3125 f_0_0 f_0_6875 f_0_6875 f_1_5 f_1_0;
   mkAabb f_0_0 f_0_0 f_0_3125 f_1_0 f_1_5 f_0_6875;
   mkAabb f_0_3125 f_0_0 f_0_0 f_0_6875 f_1_5 f_0_3125;
   mkAabb f_0_3125 f_0_0 f_0_6875 f_0_6875 f_1_5 f_1_0;
   mkAabb f_0_25 f_0_0 f_0_25 f_0_75 f_1_5 f_0_75;
   mkAabb f_0_0 f_0_0 f_0_3125 f_0_75 f_1_5 f_0_6875;
   mkAabb f_0_25 f_0_0 f_0_25 f_0_75 f_1_5 f_0_3125;
   mkAabb f_0_25 f_0_0 f_0_6875 f_0_75 f_1_5 f_0_75;
   mkAabb f_0_0 f_0_0 f_0_3125 f_0_75 f_1_5 f_0_6875;
   mkAabb f_0_25 f_0_0 f_0_25 f_0_75 f_1_5 f_0_3125;
   mkAabb f_0_25 f_0_0 f_0_6875 f_0_75 f_1_5 f_0_75;
   mkAabb f_0_0 f_0_0 f_0_3125 f_0_6875 f_1_5 f_0_6875;
   mkAabb f_0_0 f_0_0 f_0_3125 f_0_6875 f_1_5 f_0_6875;
   mkAabb f_0_25 f_0_0 f_0_25 f_0_75 f_1_5 f_0_75;
   mkAabb f_0_3125 f_0_0 f_0_75 f_0_6875 f_1_5 f_1_0;
   mkAabb f_0_0 f_0_0 f_0_3125 f_0_75 f_1_5 f_0_6875;
   mkAabb f_0_25 f_0_0 f_0_25 f_0_75 f_1_5 f_0_3125;
   mkAabb f_0_25 f_0_0 f_0_6875 f_0_75 f_1_5 f_0_75;
   mkAabb f_0_3125 f_0_0 f_0_75 f_0_6875 f_1_5 f_1_0;
   mkAabb f_0_0 f_0_0 f_0_3125 f_0_75 f_1_5 f_0_6875;
   mkAabb f_0_25 f_0_0 f_0_25 f_0_75 f_1_5 f_0_3125;
   mkAabb f_0_25 f_0_0 f_0_6875 f_0_75 f_1_5 f_0_75;
   mkAabb f_0_3125 f_0_0 f_0_75 f_0_6875 f_1_5 f_1_0;
   mkAabb f_0_3125 f_0_0 f_0_3125 f_0_6875 f_1_5 f_1_0;
   mkAabb f_0_0 f_0_0 f_0_3125 f_0_6875 f_1_5 f_0_6875;
   mkAabb f_0_3125 f_0_0 f_0_6875 f_0_6875 f_1_5 f_1_0;
   mkAabb f_0_0 f_0_0 f_0_3125 f_0_6875 f_1_5 f_0_6875;
   mkAabb f_0_3125 f_0_0 f_0_6875 f_0_6875 f_1_5 f_1_0;
   mkAabb f_0_25 f_0_0 f_0_25 f_0_75 f_1_5 f_0_75;
   mkAabb f_0_3125 f_0_0 f_0_75 f_0_6875 f_1_5 f_1_0;
   mkAabb f_0_0 f_0_0 f_0_3125 f_0_75 f_1_5 f_0_6875;
   mkAabb f_0_25 f_0_0 f_0_25 f_0_75 f_1_5 f_0_3125;
   mkAabb f_0_25 f_0_0 f_0_6875 f_0_75 f_1_5 f_0_75;
   mkAabb f_0_3125 f_0_0 f_0_75 f_0_6875 f_1_5 f_1_0;
   mkAabb f_0_0 f_0_0 f_0_3125 f_0_75 f_1_5 f_0_6875;
   mkAabb f_0_25 f_0_0 f_0_25 f_0_75 f_1_5 f_0_3125;
   mkAabb f_0_25 f_0_0 f_0_6875 f_0_75 f_1_5 f_0_75;
   mkAabb f_0_3125 f_0_0 f_0_75 f_0_6875 f_1_5 f_1_0;
   mkAabb f_0_3125 f_0_0 f_0_3125 f_0_6875 f_1_5 f_1_0;
   mkAabb f_0_0 f_0_0 f_0_3125 f_0_6875 f_1_5 f_0_6875;
   mkAabb f_0_3125 f_0_0 f_0_6875 f_0_6875 f_1_5 f_1_0;
   mkAabb f_0_0 f_0_0 f_0_3125 f_0_6875 f_1_5 f_0_6875;
   mkAabb f_0_3125 f_0_0 f_0_6875 f_0_6875 f_1_5 f_1_0;
   mkAabb f_0_25 f_0_0 f_0_25 f_0_75 f_1_5 f_0_75;
   mkAabb f_0_3125 f_0_0 f_0_0 f_0_6875 f_1_5 f_0_25;
   mkAabb f_0_0 f_0_0 f_0_3125 f_0_75 f_1_5 f_0_6875;
   mkAabb f_0_25 f_0_0 f_0_25 f_0_75 f_1_5 f_0_3125;
   mkAabb f_0_25 f_0_0 f_0_6875 f_0_75 f_1_5 f_0_75;
   mkAabb f_0_3125 f_0_0 f_0_0 f_0_6875 f_1_5 f_0_25;
   mkAabb f_0_0 f_0_0 f_0_3125 f_0_75 f_1_5 f_0_6875;
   mkAabb f_0_25 f_0_0 f_0_25 f_0_75 f_1_5 f_0_3125;
   mkAabb f_0_25 f_0_0 f_0_6875 f_0_75 f_1_5 f_0_75;
   mkAabb f_0_3125 f_0_0 f_0_0 f_0_6875 f_1_5 f_0_25;
   mkAabb f_0_3125 f_0_0 f_0_0 f_0_6875 f_1_5 f_0_6875;
   mkAabb f_0_0 f_0_0 f_0_3125 f_0_6875 f_1_5 f_0_6875;
   mkAabb f_0_3125 f_0_0 f_0_0 f_0_6875 f_1_5 f_0_3125;
   mkAabb f_0_0 f_0_0 f_0_3125 f_0_6875 f_1_5 f_0_6875;
   mkAabb f_0_3125 f_0_0 f_0_0 f_0_6875 f_1_5 f_0_3125;
   mkAabb f_0_25 f_0_0 f_0_25 f_0_75 f_1_5 f_0_75;
   mkAabb f_0_3125 f_0_0 f_0_0 f_0_6875 f_1_5 f_0_25;
   mkAabb f_0_3125 f_0_0 f_0_75 f_0_6875 f_1_5 f_1_0;
   mkAabb f_0_0 f_0_0 f_0_3125 f_0_75 f_1_5 f_0_6875;
   mkAabb f_0_25 f_0_0 f_0_25 f_0_75 f_1_5 f_0_3125;
   mkAabb f_0_25 f_0_0 f_0_6875 f_0_75 f_1_5 f_0_75;
   mkAabb f_0_3125 f_0_0 f_0_0 f_0_6875 f_1_5 f_0_25;
   mkAabb f_0_3125 f_0_0 f_0_75 f_0_6875 f_1_5 f_1_0;
   mkAabb f_0_0 f_0_0 f_0_3125 f_0_75 f_1_5 f_0_6875;
   mkAabb f_0_25 f_0_0 f_0_25 f_0_75 f_1_5 f_0_3125;
   mkAabb f_0_25 f_0_0 f_0_6875 f_0_75 f_1_5 f_0_75;
   mkAabb f_0_3125 f_0_0 f_0_0 f_0_6875 f_1_5 f_0_25;
   mkAabb f_0_3125 f_0_0 f_0_75 f_0_6875 f_1_5 f_1_0;
   mkAabb f_0_3125 f_0_0 f_0_0 f_0_6875 f_1_5 f_1_0;
   mkAabb f_0_0 f_0_0 f_0_3125 f_0_6875 f_1_5 f_0_6875;
   mkAabb f_0_3125 f_0_0 f_0_0 f_0_6875 f_1_5 f_0_3125;
   mkAabb f_0_3125 f_0_0 f_0_6875 f_0_6875 f_1_5 f_1_0;
   mkAabb f_0_0 f_0_0 f_0_3125 f_0_6875 f_1_5 f_0_6875;
   mkAabb f_0_3125 f_0_0 f_0_0 f_0_6875 f_1_5 f_0_3125;
   mkAabb f_0_3125 f_0_0 f_0_6875 f_0_6875 f_1_5 f_1_0;
   mkAabb f_0_25 f_0_0 f_0_25 f_0_75 f_1_5 f_0_75;
   mkAabb f_0_3125 f_0_0 f_0_0 f_0_6875 f_1_5 f_0_25;
   mkAabb f_0_3125 f_0_0 f_0_75 f_0_6875 f_1_5 f_1_0;
   mkAabb f_0_0 f_0_0 f_0_3125 f_0_75 f_1_5 f_0_6875;
   mkAabb f_0_25 f_0_0 f_0_25 f_0_75 f_1_5 f_0_3125;
   mkAabb f_0_25 f_0_0 f_0_6875 f_0_75 f_1_5 f_0_75;
   mkAabb f_0_3125 f_0_0 f_0_0 f_0_6875 f_1_5 f_0_25;
   mkAabb f_0_3125 f_0_0 f_0_75 f_0_6875 f_1_5 f_1_0;
   mkAabb f_0_0 f_0_0 f_0_3125 f_0_75 f_1_5 f_0_6875;
   mkAabb f_0_25 f_0_0 f_0_25 f_0_75 f_1_5 f_0_3125;
   mkAabb f_0_25 f_0_0 f_0_6875 f_0_75 f_1_5 f_0_75;
   mkAabb f_0_3125 f_0_0 f_0_0 f_0_6875 f_1_5 f_0_25;
   mkAabb f_0_3125 f_0_0 f_0_75 f_0_6875 f_1_5 f_1_0;
   mkAabb f_0_3125 f_0_0 f_0_0 f_0_6875 f_1_5 f_1_0;
   mkAabb f_0_0 f_0_0 f_0_3125 f_0_6875 f_1_5 f_0_6875;
   mkAabb f_0_3125 f_0_0 f_0_0 f_0_6875 f_1_5 f_0_3125;
   mkAabb f_0_3125 f_0_0 f_0_6875 f_0_6875 f_1_5 f_1_0;
   mkAabb f_0_0 f_0_0 f_0_3125 f_0_6875 f_1_5 f_0_6875;
   mkAabb f_0_3125 f_0_0 f_0_0 f_0_6875 f_1_5 f_0_3125;
   mkAabb f_0_3125 f_0_0 f_0_6875 f_0_6875 f_1_5 f_1_0;
   mkAabb f_0_25 f_0_0 f_0_25 f_0_75 f_1_5 f_0_75;
   mkAabb f_0_3125 f_0_0 f_0_0 f_0_6875 f_1_5 f_0_25;
   mkAabb f_0_0 f_0_0 f_0_3125 f_0_75 f_1_5 f_0_6875;
   mkAabb f_0_25 f_0_0 f_0_25 f_0_75 f_1_5 f_0_3125;
   mkAabb f_0_25 f_0_0 f_0_6875 f_0_75 f_1_5 f_0_75;
   mkAabb f_0_3125 f_0_0 f_0_0 f_0_6875 f_1_5 f_0_25;
   mkAabb f_0_0 f_0_0 f_0_3125 f_0_75 f_1_5 f_0_6875;
   mkAabb f_0_25 f_0_0 f_0_25 f_0_75 f_1_5 f_0_3125;
   mkAabb f_0_25 f_0_0 f_0_6875 f_0_75 f_1_5 f_0_75;
   mkAabb f_0_3125 f_0_0 f_0_0 f_0_6875 f_1_5 f_0_25;
   mkAabb f_0_3125 f_0_0 f_0_0 f_0_6875 f_1_5 f_0_6875;
   mkAabb f_0_0 f_0_0 f_0_3125 f_0_6875 f_1_5 f_0_6875;
   mkAabb f_0_3125 f_0_0 f_0_0 f_0_6875 f_1_5 f_0_3125;
   mkAabb f_0_0 f_0_0 f_0_3125 f_0_6875 f_1_5 f_0_6875;
   mkAabb f_0_3125 f_0_0 f_0_0 f_0_6875 f_1_5 f_0_3125;
   mkAabb f_0_25 f_0_0 f_0_25 f_0_75 f_1_5 f_0_75;
   mkAabb f_0_3125 f_0_0 f_0_0 f_0_6875 f_1_5 f_0_25;
   mkAabb f_0_3125 f_0_0 f_0_75 f_0_6875 f_1_5 f_1_0;
   mkAabb f_0_0 f_0_0 f_0_3125 f_0_75 f_1_5 f_0_6875;
   mkAabb f_0_25 f_0_0 f_0_25 f_0_75 f_1_5 f_0_3125;
   mkAabb f_0_25 f_0_0 f_0_6875 f_0_75 f_1_5 f_0_75;
   mkAabb f_0_3125 f_0_0 f_0_0 f_0_6875 f_1_5 f_0_25;
   mkAabb f_0_3125 f_0_0 f_0_75 f_0_6875 f_1_5 f_1_0;
   mkAabb f_0_0 f_0_0 f_0_3125 f_0_75 f_1_5 f_0_6875;
   mkAabb f_0_25 f_0_0 f_0_25 f_0_75 f_1_5 f_0_3125;
   mkAabb f_0_25 f_0_0 f_0_6875 f_0_75 f_1_5 f_0_75;
   mkAabb f_0_3125 f_0_0 f_0_0 f_0_6875 f_1_5 f_0_25;
   mkAabb f_0_3125 f_0_0 f_0_75 f_0_6875 f_1_5 f_1_0;
   mkAabb f_0_3125 f_0_0 f_0_0 f_0_6875 f_1_5 f_1_0;
   mkAabb f_0_0 f_0_0 f_0_3125 f_0_6875 f_1_5 f_0_6875;
   mkAabb f_0_3125 f_0_0 f_0_0 f_0_6875 f_1_5 f_0_3125;
   mkAabb f_0_3125 f_0_0 f_0_6875 f_0_6875 f_1_5 f_1_0;
   mkAabb f_0_0 f_0_0 f_0_3125 f_0_6875 f_1_5 f_0_6875;
   mkAabb f_0_3125 f_0_0 f_0_0 f_0_6875 f_1_5 f_0_3125;
   mkAabb f_0_3125 f_0_0 f_0_6875 f_0_6875 f_1_5 f_1_0;
   mkAabb f_0_25 f_0_0 f_0_25 f_0_75 f_1_5 f_0_75;
   mkAabb f_0_3125 f_0_0 f_0_0 f_0_6875 f_1_5 f_0_25;
   mkAabb f_0_3125 f_0_0 f_0_75 f_0_6875 f_1_5 f_1_0;
   mkAabb f_0_0 f_0_0 f_0_3125 f_0_75 f_1_5 f_0_6875;
   mkAabb f_0_25 f_0_0 f_0_25 f_0_75 f_1_5 f_0_3125;
   mkAabb f_0_25 f_0_0 f_0_6875 f_0_75 f_1_5 f_0_75;
   mkAabb f_0_3125 f_0_0 f_0_0 f_0_6875 f_1_5 f_0_25;
   mkAabb f_0_3125 f_0_0 f_0_75 f_0_6875 f_1_5 f_1_0;
   mkAabb f_0_0 f_0_0 f_0_3125 f_0_75 f_1_5 f_0_6875;
   mkAabb f_0_25 f_0_0 f_0_25 f_0_75 f_1_5 f_0_3125;
   mkAabb f_0_25 f_0_0 f_0_6875 f_0_75 f_1_5 f_0_75;
   mkAabb f_0_3125 f_0_0 f_0_0 f_0_6875 f_1_5 f_0_25;
   mkAabb f_0_3125 f_0_0 f_0_75 f_0_6875 f_1_5 f_1_0;
   mkAabb f_0_3125 f_0_0 f_0_0 f_0_6875 f_1_5 f_1_0;
   mkAabb f_0_0 f_0_0 f_0_3125 f_0_6875 f_1_5 f_0_6875;
   mkAabb f_0_3125 f_0_0 f_0_0 f_0_6875 f_1_5 f_0_3125;
   mkAabb f_0_3125 f_0_0 f_0_6875 f_0_6875 f_1_5 f_1_0].
Definition SHAPE_BOXES_65 : list Aabb :=
  [mkAabb f_0_0 f_0_0 f_0_3125 f_0_6875 f_1_5 f_0_6875;
   mkAabb f_0_3125 f_0_0 f_0_0 f_0_6875 f_1_5 f_0_3125;
   mkAabb f_0_3125 f_0_0 f_0_6875 f_0_6875 f_1_5 f_1_0;
   mkAabb f_0_25 f_0_0 f_0_25 f_0_75 f_1_5 f_0_75;
   mkAabb f_0_75 f_0_0 f_0_3125 f_1_0 f_1_5 f_0_6875;
   mkAabb f_0_0 f_0_0 f_0_3125 f_1_0 f_1_5 f_0_6875;
   mkAabb f_0_25 f_0_0 f_0_25 f_0_75 f_1_5 f_0_3125;
   mkAabb f_0_25 f_0_0 f_0_6875 f_0_75 f_1_5 f_0_75;
   mkAabb f_0_0 f_0_0 f_0_3125 f_1_0 f_1_5 f_0_6875;
   mkAabb f_0_25 f_0_0 f_0_25 f_0_75 f_1_5 f_0_3125;
   mkAabb f_0_25 f_0_0 f_0_6875 f_0_75 f_1_5 f_0_75;
   mkAabb f_0_3125 f_0_0 f_0_3125 f_1_0 f_1_5 f_0_6875;
   mkAabb f_0_0 f_0_0 f_0_3125 f_1_0 f_1_5 f_0_6875;
   mkAabb f_0_0 f_0_0 f_0_3125 f_1_0 f_1_5 f_0_6875;
   mkAabb f_0_25 f_0_0 f_0_25 f_0_75 f_1_5 f_0_75;
   mkAabb f_0_3125 f_0_0 f_0_75 f_0_6875 f_1_5 f_1_0;
   mkAabb f_0_75 f_0_0 f_0_3125 f_1_0 f_1_5 f_0_6875;
   mkAabb f_0_0 f_0_0 f_0_3125 f_1_0 f_1_5 f_0_6875;
   mkAabb f_0_25 f_0_0 f_0_25 f_0_75 f_1_5 f_0_3125;
   mkAabb f_0_25 f_0_0 f_0_6875 f_0_75 f_1_5 f_0_75;
   mkAabb f_0_3125 f_0_0 f_0_75 f_0_6875 f_1_5 f_1_0;
   mkAabb f_0_0 f_0_0 f_0_3125 f_1_0 f_1_5 f_0_6875;
   mkAabb f_0_25 f_0_0 f_0_25 f_0_75 f_1_5 f_0_3125;
   mkAabb f_0_25 f_0_0 f_0_6875 f_0_75 f_1_5 f_0_75;
   mkAabb f_0_3125 f_0_0 f_0_75 f_0_6875 f_1_5 f_1_0;
   mkAabb f_0_3125 f_0_0 f_0_3125 f_0_6875 f_1_5 f_1_0;
   mkAabb f_0_6875 f_0_0 f_0_3125 f_1_0 f_1_5 f_0_6875;
   mkAabb f_0_0 f_0_0 f_0_3125 f_1_0 f_1_5 f_0_6875;
   mkAabb f_0_3125 f_0_0 f_0_6875 f_0_6875 f_1_5 f_1_0;
   mkAabb f_0_0 f_0_0 f_0_3125 f_1_0 f_1_5 f_0_6875;
   mkAabb f_0_3125 f_0_0 f_0_6875 f_0_6875 f_1_5 f_1_0;
   mkAabb f_0_25 f_0_0 f_0_25 f_0_75 f_1_5 f_0_75;
   mkAabb f_0_3125 f_0_0 f_0_75 f_0_6875 f_1_5 f_1_0;
   mkAabb f_0_75 f_0_0 f_0_3125 f_1_0 f_1_5 f_0_6875;
   mkAabb f_0_0 f_0_0 f_0_3125 f_1_0 f_1_5 f_0_6875;
   mkAabb f_0_25 f_0_0 f_0_25 f_0_75 f_1_5 f_0_3125;
   mkAabb f_0_25 f_0_0 f_0_6875 f_0_75 f_1_5 f_0_75;
   mkAabb f_0_3125 f_0_0 f_0_75 f_0_6875 f_1_5 f_1_0;
   mkAabb f_0_0 f_0_0 f_0_3125 f_1_0 f_1_5 f_0_6875;
   mkAabb f_0_25 f_0_0 f_0_25 f_0_75 f_1_5 f_0_3125;
   mkAabb f_0_25 f_0_0 f_0_6875 f_0_75 f_1_5 f_0_75;
   mkAabb f_0_3125 f_0_0 f_0_75 f_0_6875 f_1_5 f_1_0;
   mkAabb f_0_3125 f_0_0 f_0_3125 f_0_6875 f_1_5 f_1_0;
   mkAabb f_0_6875 f_0_0 f_0_3125 f_1_0 f_1_5 f_0_6875;
   mkAabb f_0_0 f_0_0 f_0_3125 f_1_0 f_1_5 f_0_6875;
   mkAabb f_0_3125 f_0_0 f_0_6875 f_0_6875 f_1_5 f_1_0;
   mkAabb f_0_0 f_0_0 f_0_3125 f_1_0 f_1_5 f_0_6875;
   mkAabb f_0_3125 f_0_0 f_0_6875 f_0_6875 f_1_5 f_1_0;
   mkAabb f_0_25 f_0_0 f_0_25 f_0_75 f_1_5 f_0_75;
   mkAabb f_0_3125 f_0_0 f_0_0 f_0_6875 f_1_5 f_0_25;
   mkAabb f_0_75 f_0_0 f_0_3125 f_1_0 f_1_5 f_0_6875;
   mkAabb f_0_0 f_0_0 f_0_3125 f_1_0 f_1_5 f_0_6875;
   mkAabb f_0_25 f_0_0 f_0_25 f_0_75 f_1_5 f_0_3125;
   mkAabb f_0_25 f_0_0 f_0_6875 f_0_75 f_1_5 f_0_75;
   mkAabb f_0_3125 f_0_0 f_0_0 f_0_6875 f_1_5 f_0_25;
   mkAabb f_0_0 f_0_0 f_0_3125 f_1_0 f_1_5 f_0_6875;
   mkAabb f_0_25 f_0_0 f_0_25 f_0_75 f_1_5 f_0_3125;
   mkAabb f_0_25 f_0_0 f_0_6875 f_0_75 f_1_5 f_0_75;
   mkAabb f_0_3125 f_0_0 f_0_0 f_0_6875 f_1_5 f_0_25;
   mkAabb f_0_3125 f_0_0 f_0_0 f_0_6875 f_1_5 f_0_6875;
   mkAabb f_0_6875 f_0_0 f_0_3125 f_1_0 f_1_5 f_0_6875;
   mkAabb f_0_0 f_0_0 f_0_3125 f_1_0 f_1_5 f_0_6875;
   mkAabb f_0_3125 f_0_0 f_0_0 f_0_6875 f_1_5 f_0_3125;
   mkAabb f_0_0 f_0_0 f_0_3125 f_1_0 f_1_5 f_0_6875;
   mkAabb f_0_3125 f_0_0 f_0_0 f_0_6875 f_1_5 f_0_3125;
   mkAabb f_0_25 f_0_0 f_0_25 f_0_75 f_1_5 f_0_75;
   mkAabb f_0_3125 f_0_0 f_0_0 f_0_6875 f_1_5 f_0_25;
   mkAabb f_0_3125 f_0_0 f_0_75 f_0_6875 f_1_5 f_1_0;
   mkAabb f_0_75 f_0_0 f_0_3125 f_1_0 f_1_5 f_0_6875;
   mkAabb f_0_0 f_0_0 f_0_3125 f_1_0 f_1_5 f_0_6875;
   mkAabb f_0_25 f_0_0 f_0_25 f_0_75 f_1_5 f_0_3125;
   mkAabb f_0_25 f_0_0 f_0_6875 f_0_75 f_1_5 f_0_75;
   mkAabb f_0_3125 f_0_0 f_0_0 f_0_6875 f_1_5 f_0_25;
   mkAabb f_0_3125 f_0_0 f_0_75 f_0_6875 f_1_5 f_1_0;
   mkAabb f_0_0 f_0_0 f_0_3125 f_1_0 f_1_5 f_0_6875;
   mkAabb f_0_25 f_0_0 f_0_25 f_0_75 f_1_5 f_0_3125;
   mkAabb f_0_25 f_0_0 f_0_6875 f_0_75 f_1_5 f_0_75;
   mkAabb f_0_3125 f_0_0 f_0_0 f_0_6875 f_1_5 f_0_25;
   mkAabb f_0_3125 f_0_0 f_0_75 f_0_6875 f_1_5 f_1_0;
   mkAabb f_0_3125 f_0_0 f_0_0 f_0_6875 f_1_5 f_1_0;
   mkAabb f_0_6875 f_0_0 f_0_3125 f_1_0 f_1_5 f_0_6875;
   mkAabb f_0_0 f_0_0 f_0_3125 f_1_0 f_1_5 f_0_6875;
   mkAabb f_0_3125 f_0_0 f_0_0 f_0_6875 f_1_5 f_0_3125;
   mkAabb f_0_3125 f_0_0 f_0_6875 f_0_6875 f_1_5 f_1_0;
   mkAabb f_0_0 f_0_0 f_0_3125 f_1_0 f_1_5 f_0_6875;
   mkAabb f_0_3125 f_0_0 f_0_0 f_0_6875 f_1_5 f_0_3125;
   mkAabb f_0_3125 f_0_0 f_0_6875 f_0_6875 f_1_5 f_1_0;
   mkAabb f_0_25 f_0_0 f_0_25 f_0_75 f_1_5 f_0_75;
   mkAabb f_0_3125 f_0_0 f_0_0 f_0_6875 f_1_5 f_0_25;
   mkAabb f_0_3125 f_0_0 f_0_75 f_0_6875 f_1_5 f_1_0;
   mkAabb f_0_75 f_0_0 f_0_3125 f_1_0 f_1_5 f_0_6875;
   mkAabb f_0_0 f_0_0 f_0_3125 f_1_0 f_1_5 f_0_6875;
   mkAabb f_0_25 f_0_0 f_0_25 f_0_75 f_1_5 f_0_3125;
   mkAabb f_0_25 f_0_0 f_0_6875 f_0_75 f_1_5 f_0_75;
   mkAabb f_0_3125 f_0_0 f_0_0 f_0_6875 f_1_5 f_0_25;
   mkAabb f_0_3125 f_0_0 f_0_75 f_0_6875 f_1_5 f_1_0;
   mkAabb f_0_0 f_0_0 f_0_3125 f_1_0 f_1_5 f_0_6875;
   mkAabb f_0_25 f_0_0 f_0_25 f_0_75 f_1_5 f_0_3125;
   mkAabb f_0_25 f_0_0 f_0_6875 f_0_75 f_1_5 f_0_75;
   mkAabb f_0_3125 f_0_0 f_0_0 f_0_6875 f_1_5 f_0_25;
   mkAabb f_0_3125 f_0_0 f_0_75 f_0_6875 f_1_5 f_1_0;
   mkAabb f_0_3125 f_0_0 f_0_0 f_0_6875 f_1_5 f_1_0;
   mkAabb f_0_6875 f_0_0 f_0_3125 f_1_0 f_1_5 f_0_6875;
   mkAabb f_0_0 f_0_0 f_0_3125 f_1_0 f_1_5 f_0_6875;
   mkAabb f_0_3125 f_0_0 f_0_0 f_0_6875 f_1_5 f_0_3125;
   mkAabb f_0_3125 f_0_0 f_0_6875 f_0_6875 f_1_5 f_1_0;
   mkAabb f_0_0 f_0_0 f_0_3125 f_1_0 f_1_5 f_0_6875;
   mkAabb f_0_3125 f_0_0 f_0_0 f_0_6875 f_1_5 f_0_3125;
   mkAabb f_0_3125 f_0_0 f_0_6875 f_0_6875 f_1_5 f_1_0;
   mkAabb f_0_25 f_0_0 f_0_25 f_0_75 f_1_5 f_0_75;
   mkAabb f_0_3125 f_0_0 f_0_0 f_0_6875 f_1_5 f_0_25;
   mkAabb f_0_75 f_0_0 f_0_3125 f_1_0 f_1_5 f_0_6875;
   mkAabb f_0_0 f_0_0 f_0_3125 f_1_0 f_1_5 f_0_6875;
   mkAabb f_0_25 f_0_0 f_0_25 f_0_75 f_1_5 f_0_3125;
   mkAabb f_0_25 f_0_0 f_0_6875 f_0_75 f_1_5 f_0_75;
   mkAabb f_0_3125 f_0_0 f_0_0 f_0_6875 f_1_5 f_0_25;
   mkAabb f_0_0 f_0_0 f_0_3125 f_1_0 f_1_5 f_0_6875;
   mkAabb f_0_25 f_0_0 f_0_25 f_0_75 f_1_5 f_0_3125;
   mkAabb f_0_25 f_0_0 f_0_6875 f_0_75 f_1_5 f_0_75;
   mkAabb f_0_3125 f_0_0 f_0_0 f_0_6875 f_1_5 f_0_25;
   mkAabb f_0_3125 f_0_0 f_0_0 f_0_6875 f_1_5 f_0_6875;
   mkAabb f_0_6875 f_0_0 f_0_3125 f_1_0 f_1_5 f_0_6875;
   mkAabb f_0_0 f_0_0 f_0_3125 f_1_0 f_1_5 f_0_6875;
   mkAabb f_0_3125 f_0_0 f_0_0 f_0_6875 f_1_5 f_0_3125;
   mkAabb f_0_0 f_0_0 f_0_3125 f_1_0 f_1_5 f_0_6875;
   mkAabb f_0_3125 f_0_0 f_0_0 f_0_6875 f_1_5 f_0_3125;
   mkAabb f_0_25 f_0_0 f_0_25 f_0_75 f_1_5 f_0_75;
   mkAabb f_0_3125 f_0_0 f_0_0 f_0_6875 f_1_5 f_0_25;
   mkAabb f_0_3125 f_0_0 f_0_75 f_0_6875 f_1_5 f_1_0;
   mkAabb f_0_75 f_0_0 f_0_3125 f_1_0 f_1_5 f_0_6875;
   mkAabb f_0_0 f_0_0 f_0_3125 f_1_0 f_1_5 f_0_6875;
   mkAabb f_0_25 f_0_0 f_0_25 f_0_75 f_1_5 f_0_3125;
   mkAabb f_0_25 f_0_0 f_0_6875 f_0_75 f_1_5 f_0_75;
   mkAabb f_0_3125 f_0_0 f_0_0 f_0_6875 f_1_5 f_0_25;
   mkAabb f_0_3125 f_0_0 f_0_75 f_0_6875 f_1_5 f_1_0;
   mkAabb f_0_0 f_0_0 f_0_3125 f_1_0 f_1_5 f_0_6875;
   mkAabb f_0_25 f_0_0 f_0_25 f_0_75 f_1_5 f_0_3125;
   mkAabb f_0_25 f_0_0 f_0_6875 f_0_75 f_1_5 f_0_75;
   mkAabb f_0_3125 f_0_0 f_0_0 f_0_6875 f_1_5 f_0_25;
   mkAabb f_0_3125 f_0_0 f_0_75 f_0_6875 f_1_5 f_1_0;
   mkAabb f_0_3125 f_0_0 f_0_0 f_0_6875 f_1_5 f_1_0;
   mkAabb f_0_6875 f_0_0 f_0_3125 f_1_0 f_1_5 f_0_6875;
   mkAabb f_0_0 f_0_0 f_0_3125 f_1_0 f_1_5 f_0_6875;
   mkAabb f_0_3125 f_0_0 f_0_0 f_0_6875 f_1_5 f_0_3125;
   mkAabb f_0_3125 f_0_0 f_0_6875 f_0_6875 f_1_5 f_1_0;
   mkAabb f_0_0 f_0_0 f_0_3125 f_1_0 f_1_5 f_0_6875;
   mkAabb f_0_3125 f_0_0 f_0_0 f_0_6875 f_1_5 f_0_3125;
   mkAabb f_0_3125 f_0_0 f_0_6875 f_0_6875 f_1_5 f_1_0;
   mkAabb f_0_25 f_0_0 f_0_25 f_0_75 f_1_5 f_0_75;
   mkAabb f_0_3125 f_0_0 f_0_0 f_0_6875 f_1_5 f_0_25].
Definition SHAPE_BOXES_66 : list Aabb :=
  [mkAabb f_0_3125 f_0_0 f_0_75 f_0_6875 f_1_5 f_1_0;
   mkAabb f_0_75 f_0_0 f_0_3125 f_1_0 f_1_5 f_0_6875;
   mkAabb f_0_0 f_0_0 f_0_3125 f_1_0 f_1_5 f_0_6875;
   mkAabb f_0_25 f_0_0 f_0_25 f_0_75 f_1_5 f_0_3125;
   mkAabb f_0_25 f_0_0 f_0_6875 f_0_75 f_1_5 f_0_75;
   mkAabb f_0_3125 f_0_0 f_0_0 f_0_6875 f_1_5 f_0_25;
   mkAabb f_0_3125 f_0_0 f_0_75 f_0_6875 f_1_5 f_1_0;
   mkAabb f_0_0 f_0_0 f_0_3125 f_1_0 f_1_5 f_0_6875;
   mkAabb f_0_25 f_0_0 f_0_25 f_0_75 f_1_5 f_0_3125;
   mkAabb f_0_25 f_0_0 f_0_6875 f_0_75 f_1_5 f_0_75;
   mkAabb f_0_3125 f_0_0 f_0_0 f_0_6875 f_1_5 f_0_25;
   mkAabb f_0_3125 f_0_0 f_0_75 f_0_6875 f_1_5 f_1_0;
   mkAabb f_0_3125 f_0_0 f_0_0 f_0_6875 f_1_5 f_1_0;
   mkAabb f_0_6875 f_0_0 f_0_3125 f_1_0 f_1_5 f_0_6875;
   mkAabb f_0_0 f_0_0 f_0_3125 f_1_0 f_1_5 f_0_6875;
   mkAabb f_0_3125 f_0_0 f_0_0 f_0_6875 f_1_5 f_0_3125;
   mkAabb f_0_3125 f_0_0 f_0_6875 f_0_6875 f_1_5 f_1_0;
   mkAabb f_0_0 f_0_0 f_0_3125 f_1_0 f_1_5 f_0_6875;
   mkAabb f_0_3125 f_0_0 f_0_0 f_0_6875 f_1_5 f_0_3125;
   mkAabb f_0_3125 f_0_0 f_0_6875 f_0_6875 f_1_5 f_1_0;
   mkAabb f_0_25 f_0_0 f_0_25 f_0_75 f_1_5 f_0_75;
   mkAabb f_0_75 f_0_0 f_0_3125 f_1_0 f_1_5 f_0_6875;
   mkAabb f_0_0 f_0_0 f_0_3125 f_1_0 f_1_5 f_0_6875;
   mkAabb f_0_25 f_0_0 f_0_25 f_0_75 f_1_5 f_0_3125;
   mkAabb f_0_25 f_0_0 f_0_6875 f_0_75 f_1_5 f_0_75;
   mkAabb f_0_0 f_0_0 f_0_3125 f_1_0 f_1_5 f_0_6875;
   mkAabb f_0_25 f_0_0 f_0_25 f_0_75 f_1_5 f_0_3125;
   mkAabb f_0_25 f_0_0 f_0_6875 f_0_75 f_1_5 f_0_75;
   mkAabb f_0_3125 f_0_0 f_0_3125 f_1_0 f_1_5 f_0_6875;
   mkAabb f_0_0 f_0_0 f_0_3125 f_1_0 f_1_5 f_0_6875;
   mkAabb f_0_0 f_0_0 f_0_3125 f_1_0 f_1_5 f_0_6875;
   mkAabb f_0_25 f_0_0 f_0_25 f_0_75 f_1_5 f_0_75;
   mkAabb f_0_3125 f_0_0 f_0_75 f_0_6875 f_1_5 f_1_0;
   mkAabb f_0_75 f_0_0 f_0_3125 f_1_0 f_1_5 f_0_6875;
   mkAabb f_0_0 f_0_0 f_0_3125 f_1_0 f_1_5 f_0_6875;
   mkAabb f_0_25 f_0_0 f_0_25 f_0_75 f_1_5 f_0_3125;
   mkAabb f_0_25 f_0_0 f_0_6875 f_0_75 f_1_5 f_0_75;
   mkAabb f_0_3125 f_0_0 f_0_75 f_0_6875 f_1_5 f_1_0;
   mkAabb f_0_0 f_0_0 f_0_3125 f_1_0 f_1_5 f_0_6875;
   mkAabb f_0_25 f_0_0 f_0_25 f_0_75 f_1_5 f_0_3125;
   mkAabb f_0_25 f_0_0 f_0_6875 f_0_75 f_1_5 f_0_75;
   mkAabb f_0_3125 f_0_0 f_0_75 f_0_6875 f_1_5 f_1_0;
   mkAabb f_0_3125 f_0_0 f_0_3125 f_0_6875 f_1_5 f_1_0;
   mkAabb f_0_6875 f_0_0 f_0_3125 f_1_0 f_1_5 f_0_6875;
   mkAabb f_0_0 f_0_0 f_0_3125 f_1_0 f_1_5 f_0_6875;
   mkAabb f_0_3125 f_0_0 f_0_6875 f_0_6875 f_1_5 f_1_0;
   mkAabb f_0_0 f_0_0 f_0_3125 f_1_0 f_1_5 f_0_6875;
   mkAabb f_0_3125 f_0_0 f_0_6875 f_0_6875 f_1_5 f_1_0;
   mkAabb f_0_25 f_0_0 f_0_25 f_0_75 f_1_5 f_0_75;
   mkAabb f_0_3125 f_0_0 f_0_75 f_0_6875 f_1_5 f_1_0;
   mkAabb f_0_75 f_0_0 f_0_3125 f_1_0 f_1_5 f_0_6875;
   mkAabb f_0_0 f_0_0 f_0_3125 f_1_0 f_1_5 f_0_6875;
   mkAabb f_0_25 f_0_0 f_0_25 f_0_75 f_1_5 f_0_3125;
   mkAabb f_0_25 f_0_0 f_0_6875 f_0_75 f_1_5 f_0_75;
   mkAabb f_0_3125 f_0_0 f_0_75 f_0_6875 f_1_5 f_1_0;
   mkAabb f_0_0 f_0_0 f_0_3125 f_1_0 f_1_5 f_0_6875;
   mkAabb f_0_25 f_0_0 f_0_25 f_0_75 f_1_5 f_0_3125;
   mkAabb f_0_25 f_0_0 f_0_6875 f_0_75 f_1_5 f_0_75;
   mkAabb f_0_3125 f_0_0 f_0_75 f_0_6875 f_1_5 f_1_0;
   mkAabb f_0_3125 f_0_0 f_0_3125 f_0_6875 f_1_5 f_1_0;
   mkAabb f_0_6875 f_0_0 f_0_3125 f_1_0 f_1_5 f_0_6875;
   mkAabb f_0_0 f_0_0 f_0_3125 f_1_0 f_1_5 f_0_6875;
   mkAabb f_0_3125 f_0_0 f_0_6875 f_0_6875 f_1_5 f_1_0;
   mkAabb f_0_0 f_0_0 f_0_3125 f_1_0 f_1_5 f_0_6875;
   mkAabb f_0_3125 f_0_0 f_0_6875 f_0_6875 f_1_5 f_1_0;
   mkAabb f_0_25 f_0_0 f_0_25 f_0_75 f_1_5 f_0_75;
   mkAabb f_0_3125 f_0_0 f_0_0 f_0_6875 f_1_5 f_0_25;
   mkAabb f_0_75 f_0_0 f_0_3125 f_1_0 f_1_5 f_0_6875;
   mkAabb f_0_0 f_0_0 f_0_3125 f_1_0 f_1_5 f_0_6875;
   mkAabb f_0_25 f_0_0 f_0_25 f_0_75 f_1_5 f_0_3125;
   mkAabb f_0_25 f_0_0 f_0_6875 f_0_75 f_1_5 f_0_75;
   mkAabb f_0_3125 f_0_0 f_0_0 f_0_6875 f_1_5 f_0_25;
   mkAabb f_0_0 f_0_0 f_0_3125 f_1_0 f_1_5 f_0_6875;
   mkAabb f_0_25 f_0_0 f_0_25 f_0_75 f_1_5 f_0_3125;
   mkAabb f_0_25 f_0_0 f_0_6875 f_0_75 f_1_5 f_0_75;
   mkAabb f_0_3125 f_0_0 f_0_0 f_0_6875 f_1_5 f_0_25;
   mkAabb f_0_3125 f_0_0 f_0_0 f_0_6875 f_1_5 f_0_6875;
   mkAabb f_0_6875 f_0_0 f_0_3125 f_1_0 f_1_5 f_0_6875;
   mkAabb f_0_0 f_0_0 f_0_3125 f_1_0 f_1_5 f_0_6875;
   mkAabb f_0_3125 f_0_0 f_0_0 f_0_6875 f_1_5 f_0_3125;
   mkAabb f_0_0 f_0_0 f_0_3125 f_1_0 f_1_5 f_0_6875;
   mkAabb f_0_3125 f_0_0 f_0_0 f_0_6875 f_1_5 f_0_3125;
   mkAabb f_0_25 f_0_0 f_0_25 f_0_75 f_1_5 f_0_75;
   mkAabb f_0_3125 f_0_0 f_0_0 f_0_6875 f_1_5 f_0_25;
   mkAabb f_0_3125 f_0_0 f_0_75 f_0_6875 f_1_5 f_1_0;
   mkAabb f_0_75 f_0_0 f_0_3125 f_1_0 f_1_5 f_0_6875;
   mkAabb f_0_0 f_0_0 f_0_3125 f_1_0 f_1_5 f_0_6875;
   mkAabb f_0_25 f_0_0 f_0_25 f_0_75 f_1_5 f_0_3125;
   mkAabb f_0_25 f_0_0 f_0_6875 f_0_75 f_1_5 f_0_75;
   mkAabb f_0_3125 f_0_0 f_0_0 f_0_6875 f_1_5 f_0_25;
   mkAabb f_0_3125 f_0_0 f_0_75 f_0_6875 f_1_5 f_1_0;
   mkAabb f_0_0 f_0_0 f_0_3125 f_1_0 f_1_5 f_0_6875;
   mkAabb f_0_25 f_0_0 f_0_25 f_0_75 f_1_5 f_0_3125;
   mkAabb f_0_25 f_0_0 f_0_6875 f_0_75 f_1_5 f_0_75;
   mkAabb f_0_3125 f_0_0 f_0_0 f_0_6875 f_1_5 f_0_25;
   mkAabb f_0_3125 f_0_0 f_0_75 f_0_6875 f_1_5 f_1_0;
   mkAabb f_0_3125 f_0_0 f_0_0 f_0_6875 f_1_5 f_1_0;
   mkAabb f_0_6875 f_0_0 f_0_3125 f_1_0 f_1_5 f_0_6875;
   mkAabb f_0_0 f_0_0 f_0_3125 f_1_0 f_1_5 f_0_6875;
   mkAabb f_0_3125 f_0_0 f_0_0 f_0_6875 f_1_5 f_0_3125;
   mkAabb f_0_3125 f_0_0 f_0_6875 f_0_6875 f_1_5 f_1_0;
   mkAabb f_0_0 f_0_0 f_0_3125 f_1_0 f_1_5 f_0_6875;
   mkAabb f_0_3125 f_0_0 f_0_0 f_0_6875 f_1_5 f_0_3125;
   mkAabb f_0_3125 f_0_0 f_0_6875 f_0_6875 f_1_5 f_1_0;
   mkAabb f_0_25 f_0_0 f_0_25 f_0_75 f_1_5 f_0_75;
   mkAabb f_0_3125 f_0_0 f_0_0 f_0_6875 f_1_5 f_0_25;
   mkAabb f_0_3125 f_0_0 f_0_75 f_0_6875 f_1_5 f_1_0;
   mkAabb f_0_75 f_0_0 f_0_3125 f_1_0 f_1_5 f_0_6875;
   mkAabb f_0_0 f_0_0 f_0_3125 f_1_0 f_1_5 f_0_6875;
   mkAabb f_0_25 f_0_0 f_0_25 f_0_75 f_1_5 f_0_3125;
   mkAabb f_0_25 f_0_0 f_0_6875 f_0_75 f_1_5 f_0_75;
   mkAabb f_0_3125 f_0_0 f_0_0 f_0_6875 f_1_5 f_0_25;
   mkAabb f_0_3125 f_0_0 f_0_75 f_0_6875 f_1_5 f_1_0;
   mkAabb f_0_0 f_0_0 f_0_3125 f_1_0 f_1_5 f_0_6875;
   mkAabb f_0_25 f_0_0 f_0_25 f_0_75 f_1_5 f_0_3125;
   mkAabb f_0_25 f_0_0 f_0_6875 f_0_75 f_1_5 f_0_75;
   mkAabb f_0_3125 f_0_0 f_0_0 f_0_6875 f_1_5 f_0_25;
   mkAabb f_0_3125 f_0_0 f_0_75 f_0_6875 f_1_5 f_1_0;
   mkAabb f_0_3125 f_0_0 f_0_0 f_0_6875 f_1_5 f_1_0;
   mkAabb f_0_6875 f_0_0 f_0_3125 f_1_0 f_1_5 f_0_6875;
   mkAabb f_0_0 f_0_0 f_0_3125 f_1_0 f_1_5 f_0_6875;
   mkAabb f_0_3125 f_0_0 f_0_0 f_0_6875 f_1_5 f_0_3125;
   mkAabb f_0_3125 f_0_0 f_0_6875 f_0_6875 f_1_5 f_1_0;
   mkAabb f_0_0 f_0_0 f_0_3125 f_1_0 f_1_5 f_0_6875;
   mkAabb f_0_3125 f_0_0 f_0_0 f_0_6875 f_1_5 f_0_3125;
   mkAabb f_0_3125 f_0_0 f_0_6875 f_0_6875 f_1_5 f_1_0;
   mkAabb f_0_25 f_0_0 f_0_25 f_0_75 f_1_5 f_0_75;
   mkAabb f_0_3125 f_0_0 f_0_0 f_0_6875 f_1_5 f_0_25;
   mkAabb f_0_75 f_0_0 f_0_3125 f_1_0 f_1_5 f_0_6875;
   mkAabb f_0_0 f_0_0 f_0_3125 f_1_0 f_1_5 f_0_6875;
   mkAabb f_0_25 f_0_0 f_0_25 f_0_75 f_1_5 f_0_3125;
   mkAabb f_0_25 f_0_0 f_0_6875 f_0_75 f_1_5 f_0_75;
   mkAabb f_0_3125 f_0_0 f_0_0 f_0_6875 f_1_5 f_0_25;
   mkAabb f_0_0 f_0_0 f_0_3125 f_1_0 f_1_5 f_0_6875;
   mkAabb f_0_25 f_0_0 f_0_25 f_0_75 f_1_5 f_0_3125;
   mkAabb f_0_25 f_0_0 f_0_6875 f_0_75 f_1_5 f_0_75;
   mkAabb f_0_3125 f_0_0 f_0_0 f_0_6875 f_1_5 f_0_25;
   mkAabb f_0_3125 f_0_0 f_0_0 f_0_6875 f_1_5 f_0_6875;
   mkAabb f_0_6875 f_0_0 f_0_3125 f_1_0 f_1_5 f_0_6875;
   mkAabb f_0_0 f_0_0 f_0_3125 f_1_0 f_1_5 f_0_6875;
   mkAabb f_0_3125 f_0_0 f_0_0 f_0_6875 f_1_5 f_0_3125;
   mkAabb f_0_0 f_0_0 f_0_3125 f_1_0 f_1_5 f_0_6875;
   mkAabb f_0_3125 f_0_0 f_0_0 f_0_6875 f_1_5 f_0_3125;
   mkAabb f_0_25 f_0_0 f_0_25 f_0_75 f_1_5 f_0_75;
   mkAabb f_0_3125 f_0_0 f_0_0 f_0_6875 f_1_5 f_0_25;
   mkAabb f_0_3125 f_0_0 f_0_75 f_0_6875 f_1_5 f_1_0;
   mkAabb f_0_75 f_0_0 f_0_3125 f_1_0 f_1_5 f_0_6875;
   mkAabb f_0_0 f_0_0 f_0_3125 f_1_0 f_1_5 f_0_6875;
   mkAabb f_0_25 f_0_0 f_0_25 f_0_75 f_1_5 f_0_3125;
   mkAabb f_0_25 f_0_0 f_0_6875 f_0_75 f_1_5 f_0_75].
Definition SHAPE_BOXES_67 : list Aabb :=
  [mkAabb f_0_3125 f_0_0 f_0_0 f_0_6875 f_1_5 f_0_25;
   mkAabb f_0_3125 f_0_0 f_0_75 f_0_6875 f_1_5 f_1_0;
   mkAabb f_0_0 f_0_0 f_0_3125 f_1_0 f_1_5 f_0_6875;
   mkAabb f_0_25 f_0_0 f_0_25 f_0_75 f_1_5 f_0_3125;
   mkAabb f_0_25 f_0_0 f_0_6875 f_0_75 f_1_5 f_0_75;
   mkAabb f_0_3125 f_0_0 f_0_0 f_0_6875 f_1_5 f_0_25;
   mkAabb f_0_3125 f_0_0 f_0_75 f_0_6875 f_1_5 f_1_0;
   mkAabb f_0_3125 f_0_0 f_0_0 f_0_6875 f_1_5 f_1_0;
   mkAabb f_0_6875 f_0_0 f_0_3125 f_1_0 f_1_5 f_0_6875;
   mkAabb f_0_0 f_0_0 f_0_3125 f_1_0 f_1_5 f_0_6875;
   mkAabb f_0_3125 f_0_0 f_0_0 f_0_6875 f_1_5 f_0_3125;
   mkAabb f_0_3125 f_0_0 f_0_6875 f_0_6875 f_1_5 f_1_0;
   mkAabb f_0_0 f_0_0 f_0_3125 f_1_0 f_1_5 f_0_6875;
   mkAabb f_0_3125 f_0_0 f_0_0 f_0_6875 f_1_5 f_0_3125;
   mkAabb f_0_3125 f_0_0 f_0_6875 f_0_6875 f_1_5 f_1_0;
   mkAabb f_0_25 f_0_0 f_0_25 f_0_75 f_1_5 f_0_75;
   mkAabb f_0_3125 f_0_0 f_0_0 f_0_6875 f_1_5 f_0_25;
   mkAabb f_0_3125 f_0_0 f_0_75 f_0_6875 f_1_5 f_1_0;
   mkAabb f_0_75 f_0_0 f_0_3125 f_1_0 f_1_5 f_0_6875;
   mkAabb f_0_0 f_0_0 f_0_3125 f_1_0 f_1_5 f_0_6875;
   mkAabb f_0_25 f_0_0 f_0_25 f_0_75 f_1_5 f_0_3125;
   mkAabb f_0_25 f_0_0 f_0_6875 f_0_75 f_1_5 f_0_75;
   mkAabb f_0_3125 f_0_0 f_0_0 f_0_6875 f_1_5 f_0_25;
   mkAabb f_0_3125 f_0_0 f_0_75 f_0_6875 f_1_5 f_1_0;
   mkAabb f_0_0 f_0_0 f_0_3125 f_1_0 f_1_5 f_0_6875;
   mkAabb f_0_25 f_0_0 f_0_25 f_0_75 f_1_5 f_0_3125;
   mkAabb f_0_25 f_0_0 f_0_6875 f_0_75 f_1_5 f_0_75;
   mkAabb f_0_3125 f_0_0 f_0_0 f_0_6875 f_1_5 f_0_25;
   mkAabb f_0_3125 f_0_0 f_0_75 f_0_6875 f_1_5 f_1_0;
   mkAabb f_0_3125 f_0_0 f_0_0 f_0_6875 f_1_5 f_1_0;
   mkAabb f_0_6875 f_0_0 f_0_3125 f_1_0 f_1_5 f_0_6875;
   mkAabb f_0_0 f_0_0 f_0_3125 f_1_0 f_1_5 f_0_6875;
   mkAabb f_0_3125 f_0_0 f_0_0 f_0_6875 f_1_5 f_0_3125;
   mkAabb f_0_3125 f_0_0 f_0_6875 f_0_6875 f_1_5 f_1_0;
   mkAabb f_0_0 f_0_0 f_0_3125 f_1_0 f_1_5 f_0_6875;
   mkAabb f_0_3125 f_0_0 f_0_0 f_0_6875 f_1_5 f_0_3125;
   mkAabb f_0_3125 f_0_0 f_0_6875 f_0_6875 f_1_5 f_1_0;
   mkAabb f_0_25 f_0_0 f_0_25 f_0_75 f_1_5 f_0_75;
   mkAabb f_0_0 f_0_0 f_0_3125 f_0_75 f_1_5 f_0_6875;
   mkAabb f_0_25 f_0_0 f_0_25 f_0_75 f_1_5 f_0_3125;
   mkAabb f_0_25 f_0_0 f_0_6875 f_0_75 f_1_5 f_0_75;
   mkAabb f_0_0 f_0_0 f_0_3125 f_0_75 f_1_5 f_0_6875;
   mkAabb f_0_25 f_0_0 f_0_25 f_0_75 f_1_5 f_0_3125;
   mkAabb f_0_25 f_0_0 f_0_6875 f_0_75 f_1_5 f_0_75;
   mkAabb f_0_0 f_0_0 f_0_3125 f_0_6875 f_1_5 f_0_6875;
   mkAabb f_0_0 f_0_0 f_0_3125 f_0_6875 f_1_5 f_0_6875;
   mkAabb f_0_25 f_0_0 f_0_25 f_0_75 f_1_5 f_0_75;
   mkAabb f_0_3125 f_0_0 f_0_75 f_0_6875 f_1_5 f_1_0;
   mkAabb f_0_0 f_0_0 f_0_3125 f_0_75 f_1_5 f_0_6875;
   mkAabb f_0_25 f_0_0 f_0_25 f_0_75 f_1_5 f_0_3125;
   mkAabb f_0_25 f_0_0 f_0_6875 f_0_75 f_1_5 f_0_75;
   mkAabb f_0_3125 f_0_0 f_0_75 f_0_6875 f_1_5 f_1_0;
   mkAabb f_0_0 f_0_0 f_0_3125 f_0_75 f_1_5 f_0_6875;
   mkAabb f_0_25 f_0_0 f_0_25 f_0_75 f_1_5 f_0_3125;
   mkAabb f_0_25 f_0_0 f_0_6875 f_0_75 f_1_5 f_0_75;
   mkAabb f_0_3125 f_0_0 f_0_75 f_0_6875 f_1_5 f_1_0;
   mkAabb f_0_3125 f_0_0 f_0_3125 f_0_6875 f_1_5 f_1_0;
   mkAabb f_0_0 f_0_0 f_0_3125 f_0_6875 f_1_5 f_0_6875;
   mkAabb f_0_3125 f_0_0 f_0_6875 f_0_6875 f_1_5 f_1_0;
   mkAabb f_0_0 f_0_0 f_0_3125 f_0_6875 f_1_5 f_0_6875;
   mkAabb f_0_3125 f_0_0 f_0_6875 f_0_6875 f_1_5 f_1_0;
   mkAabb f_0_25 f_0_0 f_0_25 f_0_75 f_1_5 f_0_75;
   mkAabb f_0_3125 f_0_0 f_0_75 f_0_6875 f_1_5 f_1_0;
   mkAabb f_0_0 f_0_0 f_0_3125 f_0_75 f_1_5 f_0_6875;
   mkAabb f_0_25 f_0_0 f_0_25 f_0_75 f_1_5 f_0_3125;
   mkAabb f_0_25 f_0_0 f_0_6875 f_0_75 f_1_5 f_0_75;
   mkAabb f_0_3125 f_0_0 f_0_75 f_0_6875 f_1_5 f_1_0;
   mkAabb f_0_0 f_0_0 f_0_3125 f_0_75 f_1_5 f_0_6875;
   mkAabb f_0_25 f_0_0 f_0_25 f_0_75 f_1_5 f_0_3125;
   mkAabb f_0_25 f_0_0 f_0_6875 f_0_75 f_1_5 f_0_75;
   mkAabb f_0_3125 f_0_0 f_0_75 f_0_6875 f_1_5 f_1_0;
   mkAabb f_0_3125 f_0_0 f_0_3125 f_0_6875 f_1_5 f_1_0;
   mkAabb f_0_0 f_0_0 f_0_3125 f_0_6875 f_1_5 f_0_6875;
   mkAabb f_0_3125 f_0_0 f_0_6875 f_0_6875 f_1_5 f_1_0;
   mkAabb f_0_0 f_0_0 f_0_3125 f_0_6875 f_1_5 f_0_6875;
   mkAabb f_0_3125 f_0_0 f_0_6875 f_0_6875 f_1_5 f_1_0;
   mkAabb f_0_25 f_0_0 f_0_25 f_0_75 f_1_5 f_0_75;
   mkAabb f_0_3125 f_0_0 f_0_0 f_0_6875 f_1_5 f_0_25;
   mkAabb f_0_0 f_0_0 f_0_3125 f_0_75 f_1_5 f_0_6875;
   mkAabb f_0_25 f_0_0 f_0_25 f_0_75 f_1_5 f_0_3125;
   mkAabb f_0_25 f_0_0 f_0_6875 f_0_75 f_1_5 f_0_75;
   mkAabb f_0_3125 f_0_0 f_0_0 f_0_6875 f_1_5 f_0_25;
   mkAabb f_0_0 f_0_0 f_0_3125 f_0_75 f_1_5 f_0_6875;
   mkAabb f_0_25 f_0_0 f_0_25 f_0_75 f_1_5 f_0_3125;
   mkAabb f_0_25 f_0_0 f_0_6875 f_0_75 f_1_5 f_0_75;
   mkAabb f_0_3125 f_0_0 f_0_0 f_0_6875 f_1_5 f_0_25;
   mkAabb f_0_3125 f_0_0 f_0_0 f_0_6875 f_1_5 f_0_6875;
   mkAabb f_0_0 f_0_0 f_0_3125 f_0_6875 f_1_5 f_0_6875;
   mkAabb f_0_3125 f_0_0 f_0_0 f_0_6875 f_1_5 f_0_3125;
   mkAabb f_0_0 f_0_0 f_0_3125 f_0_6875 f_1_5 f_0_6875;
   mkAabb f_0_3125 f_0_0 f_0_0 f_0_6875 f_1_5 f_0_3125;
   mkAabb f_0_25 f_0_0 f_0_25 f_0_75 f_1_5 f_0_75;
   mkAabb f_0_3125 f_0_0 f_0_0 f_0_6875 f_1_5 f_0_25;
   mkAabb f_0_3125 f_0_0 f_0_75 f_0_6875 f_1_5 f_1_0;
   mkAabb f_0_0 f_0_0 f_0_3125 f_0_75 f_1_5 f_0_6875;
   mkAabb f_0_25 f_0_0 f_0_25 f_0_75 f_1_5 f_0_3125;
   mkAabb f_0_25 f_0_0 f_0_6875 f_0_75 f_1_5 f_0_75;
   mkAabb f_0_3125 f_0_0 f_0_0 f_0_6875 f_1_5 f_0_25;
   mkAabb f_0_3125 f_0_0 f_0_75 f_0_6875 f_1_5 f_1_0;
   mkAabb f_0_0 f_0_0 f_0_3125 f_0_75 f_1_5 f_0_6875;
   mkAabb f_0_25 f_0_0 f_0_25 f_0_75 f_1_5 f_0_3125;
   mkAabb f_0_25 f_0_0 f_0_6875 f_0_75 f_1_5 f_0_75;
   mkAabb f_0_3125 f_0_0 f_0_0 f_0_6875 f_1_5 f_0_25;
   mkAabb f_0_3125 f_0_0 f_0_75 f_0_6875 f_1_5 f_1_0;
   mkAabb f_0_3125 f_0_0 f_0_0 f_0_6875 f_1_5 f_1_0;
   mkAabb f_0_0 f_0_0 f_0_3125 f_0_6875 f_1_5 f_0_6875;
   mkAabb f_0_3125 f_0_0 f_0_0 f_0_6875 f_1_5 f_0_3125;
   mkAabb f_0_3125 f_0_0 f_0_6875 f_0_6875 f_1_5 f_1_0;
   mkAabb f_0_0 f_0_0 f_0_3125 f_0_6875 f_1_5 f_0_6875;
   mkAabb f_0_3125 f_0_0 f_0_0 f_0_6875 f_1_5 f_0_3125;
   mkAabb f_0_3125 f_0_0 f_0_6875 f_0_6875 f_1_5 f_1_0;
   mkAabb f_0_25 f_0_0 f_0_25 f_0_75 f_1_5 f_0_75;
   mkAabb f_0_3125 f_0_0 f_0_0 f_0_6875 f_1_5 f_0_25;
   mkAabb f_0_3125 f_0_0 f_0_75 f_0_6875 f_1_5 f_1_0;
   mkAabb f_0_0 f_0_0 f_0_3125 f_0_75 f_1_5 f_0_6875;
   mkAabb f_0_25 f_0_0 f_0_25 f_0_75 f_1_5 f_0_3125;
   mkAabb f_0_25 f_0_0 f_0_6875 f_0_75 f_1_5 f_0_75;
   mkAabb f_0_3125 f_0_0 f_0_0 f_0_6875 f_1_5 f_0_25;
   mkAabb f_0_3125 f_0_0 f_0_75 f_0_6875 f_1_5 f_1_0;
   mkAabb f_0_0 f_0_0 f_0_3125 f_0_75 f_1_5 f_0_6875;
   mkAabb f_0_25 f_0_0 f_0_25 f_0_75 f_1_5 f_0_3125;
   mkAabb f_0_25 f_0_0 f_0_6875 f_0_75 f_1_5 f_0_75;
   mkAabb f_0_3125 f_0_0 f_0_0 f_0_6875 f_1_5 f_0_25;
   mkAabb f_0_3125 f_0_0 f_0_75 f_0_6875 f_1_5 f_1_0;
   mkAabb f_0_3125 f_0_0 f_0_0 f_0_6875 f_1_5 f_1_0;
   mkAabb f_0_0 f_0_0 f_0_3125 f_0_6875 f_1_5 f_0_6875;
   mkAabb f_0_3125 f_0_0 f_0_0 f_0_6875 f_1_5 f_0_3125;
   mkAabb f_0_3125 f_0_0 f_0_6875 f_0_6875 f_1_5 f_1_0;
   mkAabb f_0_0 f_0_0 f_0_3125 f_0_6875 f_1_5 f_0_6875;
   mkAabb f_0_3125 f_0_0 f_0_0 f_0_6875 f_1_5 f_0_3125;
   mkAabb f_0_3125 f_0_0 f_0_6875 f_0_6875 f_1_5 f_1_0;
   mkAabb f_0_25 f_0_0 f_0_25 f_0_75 f_1_5 f_0_75;
   mkAabb f_0_3125 f_0_0 f_0_0 f_0_6875 f_1_5 f_0_25;
   mkAabb f_0_0 f_0_0 f_0_3125 f_0_75 f_1_5 f_0_6875;
   mkAabb f_0_25 f_0_0 f_0_25 f_0_75 f_1_5 f_0_3125;
   mkAabb f_0_25 f_0_0 f_0_6875 f_0_75 f_1_5 f_0_75;
   mkAabb f_0_3125 f_0_0 f_0_0 f_0_6875 f_1_5 f_0_25;
   mkAabb f_0_0 f_0_0 f_0_3125 f_0_75 f_1_5 f_0_6875;
   mkAabb f_0_25 f_0_0 f_0_25 f_0_75 f_1_5 f_0_3125;
   mkAabb f_0_25 f_0_0 f_0_6875 f_0_75 f_1_5 f_0_75;
   mkAabb f_0_3125 f_0_0 f_0_0 f_0_6875 f_1_5 f_0_25;
   mkAabb f_0_3125 f_0_0 f_0_0 f_0_6875 f_1_5 f_0_6875;
   mkAabb f_0_0 f_0_0 f_0_3125 f_0_6875 f_1_5 f_0_6875;
   mkAabb f_0_3125 f_0_0 f_0_0 f_0_6875 f_1_5 f_0_3125;
   mkAabb f_0_0 f_0_0 f_0_3125 f_0_6875 f_1_5 f_0_6875;
   mkAabb f_0_3125 f_0_0 f_0_0 f_0_6875 f_1_5 f_0_3125;
   mkAabb f_0_25 f_0_0 f_0_25 f_0_75 f_1_5 f_0_75;
   mkAabb f_0_3125 f_0_0 f_0_0 f_0_6875 f_1_5 f_0_25;
   mkAabb f_0_3125 f_0_0 f_0_75 f_0_6875 f_1_5 f_1_0;
   mkAabb f_0_0 f_0_0 f_0_3125 f_0_75 f_1_5 f_0_6875].
Definition SHAPE_BOXES_68 : list Aabb :=
  [mkAabb f_0_25 f_0_0 f_0_25 f_0_75 f_1_5 f_0_3125;
   mkAabb f_0_25 f_0_0 f_0_6875 f_0_75 f_1_5 f_0_75;
   mkAabb f_0_3125 f_0_0 f_0_0 f_0_6875 f_1_5 f_0_25;
   mkAabb f_0_3125 f_0_0 f_0_75 f_0_6875 f_1_5 f_1_0;
   mkAabb f_0_0 f_0_0 f_0_3125 f_0_75 f_1_5 f_0_6875;
   mkAabb f_0_25 f_0_0 f_0_25 f_0_75 f_1_5 f_0_3125;
   mkAabb f_0_25 f_0_0 f_0_6875 f_0_75 f_1_5 f_0_75;
   mkAabb f_0_3125 f_0_0 f_0_0 f_0_6875 f_1_5 f_0_25;
   mkAabb f_0_3125 f_0_0 f_0_75 f_0_6875 f_1_5 f_1_0;
   mkAabb f_0_3125 f_0_0 f_0_0 f_0_6875 f_1_5 f_1_0;
   mkAabb f_0_0 f_0_0 f_0_3125 f_0_6875 f_1_5 f_0_6875;
   mkAabb f_0_3125 f_0_0 f_0_0 f_0_6875 f_1_5 f_0_3125;
   mkAabb f_0_3125 f_0_0 f_0_6875 f_0_6875 f_1_5 f_1_0;
   mkAabb f_0_0 f_0_0 f_0_3125 f_0_6875 f_1_5 f_0_6875;
   mkAabb f_0_3125 f_0_0 f_0_0 f_0_6875 f_1_5 f_0_3125;
   mkAabb f_0_3125 f_0_0 f_0_6875 f_0_6875 f_1_5 f_1_0;
   mkAabb f_0_25 f_0_0 f_0_25 f_0_75 f_1_5 f_0_75;
   mkAabb f_0_3125 f_0_0 f_0_0 f_0_6875 f_1_5 f_0_25;
   mkAabb f_0_3125 f_0_0 f_0_75 f_0_6875 f_1_5 f_1_0;
   mkAabb f_0_0 f_0_0 f_0_3125 f_0_75 f_1_5 f_0_6875;
   mkAabb f_0_25 f_0_0 f_0_25 f_0_75 f_1_5 f_0_3125;
   mkAabb f_0_25 f_0_0 f_0_6875 f_0_75 f_1_5 f_0_75;
   mkAabb f_0_3125 f_0_0 f_0_0 f_0_6875 f_1_5 f_0_25;
   mkAabb f_0_3125 f_0_0 f_0_75 f_0_6875 f_1_5 f_1_0;
   mkAabb f_0_0 f_0_0 f_0_3125 f_0_75 f_1_5 f_0_6875;
   mkAabb f_0_25 f_0_0 f_0_25 f_0_75 f_1_5 f_0_3125;
   mkAabb f_0_25 f_0_0 f_0_6875 f_0_75 f_1_5 f_0_75;
   mkAabb f_0_3125 f_0_0 f_0_0 f_0_6875 f_1_5 f_0_25;
   mkAabb f_0_3125 f_0_0 f_0_75 f_0_6875 f_1_5 f_1_0;
   mkAabb f_0_3125 f_0_0 f_0_0 f_0_6875 f_1_5 f_1_0;
   mkAabb f_0_0 f_0_0 f_0_3125 f_0_6875 f_1_5 f_0_6875;
   mkAabb f_0_3125 f_0_0 f_0_0 f_0_6875 f_1_5 f_0_3125;
   mkAabb f_0_3125 f_0_0 f_0_6875 f_0_6875 f_1_5 f_1_0;
   mkAabb f_0_0 f_0_0 f_0_3125 f_0_6875 f_1_5 f_0_6875;
   mkAabb f_0_3125 f_0_0 f_0_0 f_0_6875 f_1_5 f_0_3125;
   mkAabb f_0_3125 f_0_0 f_0_6875 f_0_6875 f_1_5 f_1_0;
   mkAabb f_0_25 f_0_0 f_0_25 f_0_75 f_1_5 f_0_75;
   mkAabb f_0_75 f_0_0 f_0_3125 f_1_0 f_1_5 f_0_6875;
   mkAabb f_0_0 f_0_0 f_0_3125 f_1_0 f_1_5 f_0_6875;
   mkAabb f_0_25 f_0_0 f_0_25 f_0_75 f_1_5 f_0_3125;
   mkAabb f_0_25 f_0_0 f_0_6875 f_0_75 f_1_5 f_0_75;
   mkAabb f_0_0 f_0_0 f_0_3125 f_1_0 f_1_5 f_0_6875;
   mkAabb f_0_25 f_0_0 f_0_25 f_0_75 f_1_5 f_0_3125;
   mkAabb f_0_25 f_0_0 f_0_6875 f_0_75 f_1_5 f_0_75;
   mkAabb f_0_3125 f_0_0 f_0_3125 f_1_0 f_1_5 f_0_6875;
   mkAabb f_0_0 f_0_0 f_0_3125 f_1_0 f_1_5 f_0_6875;
   mkAabb f_0_0 f_0_0 f_0_3125 f_1_0 f_1_5 f_0_6875;
   mkAabb f_0_25 f_0_0 f_0_25 f_0_75 f_1_5 f_0_75;
   mkAabb f_0_3125 f_0_0 f_0_75 f_0_6875 f_1_5 f_1_0;
   mkAabb f_0_75 f_0_0 f_0_3125 f_1_0 f_1_5 f_0_6875;
   mkAabb f_0_0 f_0_0 f_0_3125 f_1_0 f_1_5 f_0_6875;
   mkAabb f_0_25 f_0_0 f_0_25 f_0_75 f_1_5 f_0_3125;
   mkAabb f_0_25 f_0_0 f_0_6875 f_0_75 f_1_5 f_0_75;
   mkAabb f_0_3125 f_0_0 f_0_75 f_0_6875 f_1_5 f_1_0;
   mkAabb f_0_0 f_0_0 f_0_3125 f_1_0 f_1_5 f_0_6875;
   mkAabb f_0_25 f_0_0 f_0_25 f_0_75 f_1_5 f_0_3125;
   mkAabb f_0_25 f_0_0 f_0_6875 f_0_75 f_1_5 f_0_75;
   mkAabb f_0_3125 f_0_0 f_0_75 f_0_6875 f_1_5 f_1_0;
   mkAabb f_0_3125 f_0_0 f_0_3125 f_0_6875 f_1_5 f_1_0;
   mkAabb f_0_6875 f_0_0 f_0_3125 f_1_0 f_1_5 f_0_6875;
   mkAabb f_0_0 f_0_0 f_0_3125 f_1_0 f_1_5 f_0_6875;
   mkAabb f_0_3125 f_0_0 f_0_6875 f_0_6875 f_1_5 f_1_0;
   mkAabb f_0_0 f_0_0 f_0_3125 f_1_0 f_1_5 f_0_6875;
   mkAabb f_0_3125 f_0_0 f_0_6875 f_0_6875 f_1_5 f_1_0;
   mkAabb f_0_25 f_0_0 f_0_25 f_0_75 f_1_5 f_0_75;
   mkAabb f_0_3125 f_0_0 f_0_75 f_0_6875 f_1_5 f_1_0;
   mkAabb f_0_75 f_0_0 f_0_3125 f_1_0 f_1_5 f_0_6875;
   mkAabb f_0_0 f_0_0 f_0_3125 f_1_0 f_1_5 f_0_6875;
   mkAabb f_0_25 f_0_0 f_0_25 f_0_75 f_1_5 f_0_3125;
   mkAabb f_0_25 f_0_0 f_0_6875 f_0_75 f_1_5 f_0_75;
   mkAabb f_0_3125 f_0_0 f_0_75 f_0_6875 f_1_5 f_1_0;
   mkAabb f_0_0 f_0_0 f_0_3125 f_1_0 f_1_5 f_0_6875;
   mkAabb f_0_25 f_0_0 f_0_25 f_0_75 f_1_5 f_0_3125;
   mkAabb f_0_25 f_0_0 f_0_6875 f_0_75 f_1_5 f_0_75;
   mkAabb f_0_3125 f_0_0 f_0_75 f_0_6875 f_1_5 f_1_0;
   mkAabb f_0_3125 f_0_0 f_0_3125 f_0_6875 f_1_5 f_1_0;
   mkAabb f_0_6875 f_0_0 f_0_3125 f_1_0 f_1_5 f_0_6875;
   mkAabb f_0_0 f_0_0 f_0_3125 f_1_0 f_1_5 f_0_6875;
   mkAabb f_0_3125 f_0_0 f_0_6875 f_0_6875 f_1_5 f_1_0;
   mkAabb f_0_0 f_0_0 f_0_3125 f_1_0 f_1_5 f_0_6875;
   mkAabb f_0_3125 f_0_0 f_0_6875 f_0_6875 f_1_5 f_1_0;
   mkAabb f_0_25 f_0_0 f_0_25 f_0_75 f_1_5 f_0_75;
   mkAabb f_0_3125 f_0_0 f_0_0 f_0_6875 f_1_5 f_0_25;
   mkAabb f_0_75 f_0_0 f_0_3125 f_1_0 f_1_5 f_0_6875;
   mkAabb f_0_0 f_0_0 f_0_3125 f_1_0 f_1_5 f_0_6875;
   mkAabb f_0_25 f_0_0 f_0_25 f_0_75 f_1_5 f_0_3125;
   mkAabb f_0_25 f_0_0 f_0_6875 f_0_75 f_1_5 f_0_75;
   mkAabb f_0_3125 f_0_0 f_0_0 f_0_6875 f_1_5 f_0_25;
   mkAabb f_0_0 f_0_0 f_0_3125 f_1_0 f_1_5 f_0_6875;
   mkAabb f_0_25 f_0_0 f_0_25 f_0_75 f_1_5 f_0_3125;
   mkAabb f_0_25 f_0_0 f_0_6875 f_0_75 f_1_5 f_0_75;
   mkAabb f_0_3125 f_0_0 f_0_0 f_0_6875 f_1_5 f_0_25;
   mkAabb f_0_3125 f_0_0 f_0_0 f_0_6875 f_1_5 f_0_6875;
   mkAabb f_0_6875 f_0_0 f_0_3125 f_1_0 f_1_5 f_0_6875;
   mkAabb f_0_0 f_0_0 f_0_3125 f_1_0 f_1_5 f_0_6875;
   mkAabb f_0_3125 f_0_0 f_0_0 f_0_6875 f_1_5 f_0_3125;
   mkAabb f_0_0 f_0_0 f_0_3125 f_1_0 f_1_5 f_0_6875;
   mkAabb f_0_3125 f_0_0 f_0_0 f_0_6875 f_1_5 f_0_3125;
   mkAabb f_0_25 f_0_0 f_0_25 f_0_75 f_1_5 f_0_75;
   mkAabb f_0_3125 f_0_0 f_0_0 f_0_6875 f_1_5 f_0_25;
   mkAabb f_0_3125 f_0_0 f_0_75 f_0_6875 f_1_5 f_1_0;
   mkAabb f_0_75 f_0_0 f_0_3125 f_1_0 f_1_5 f_0_6875;
   mkAabb f_0_0 f_0_0 f_0_3125 f_1_0 f_1_5 f_0_6875;
   mkAabb f_0_25 f_0_0 f_0_25 f_0_75 f_1_5 f_0_3125;
   mkAabb f_0_25 f_0_0 f_0_6875 f_0_75 f_1_5 f_0_75;
   mkAabb f_0_3125 f_0_0 f_0_0 f_0_6875 f_1_5 f_0_25;
   mkAabb f_0_3125 f_0_0 f_0_75 f_0_6875 f_1_5 f_1_0;
   mkAabb f_0_0 f_0_0 f_0_3125 f_1_0 f_1_5 f_0_6875;
   mkAabb f_0_25 f_0_0 f_0_25 f_0_75 f_1_5 f_0_3125;
   mkAabb f_0_25 f_0_0 f_0_6875 f_0_75 f_1_5 f_0_75;
   mkAabb f_0_3125 f_0_0 f_0_0 f_0_6875 f_1_5 f_0_25;
   mkAabb f_0_3125 f_0_0 f_0_75 f_0_6875 f_1_5 f_1_0;
   mkAabb f_0_3125 f_0_0 f_0_0 f_0_6875 f_1_5 f_1_0;
   mkAabb f_0_6875 f_0_0 f_0_3125 f_1_0 f_1_5 f_0_6875;
   mkAabb f_0_0 f_0_0 f_0_3125 f_1_0 f_1_5 f_0_6875;
   mkAabb f_0_3125 f_0_0 f_0_0 f_0_6875 f_1_5 f_0_3125;
   mkAabb f_0_3125 f_0_0 f_0_6875 f_0_6875 f_1_5 f_1_0;
   mkAabb f_0_0 f_0_0 f_0_3125 f_1_0 f_1_5 f_0_6875;
   mkAabb f_0_3125 f_0_0 f_0_0 f_0_6875 f_1_5 f_0_3125;
   mkAabb f_0_3125 f_0_0 f_0_6875 f_0_6875 f_1_5 f_1_0;
   mkAabb f_0_25 f_0_0 f_0_25 f_0_75 f_1_5 f_0_75;
   mkAabb f_0_3125 f_0_0 f_0_0 f_0_6875 f_1_5 f_0_25;
   mkAabb f_0_3125 f_0_0 f_0_75 f_0_6875 f_1_5 f_1_0;
   mkAabb f_0_75 f_0_0 f_0_3125 f_1_0 f_1_5 f_0_6875;
   mkAabb f_0_0 f_0_0 f_0_3125 f_1_0 f_1_5 f_0_6875;
   mkAabb f_0_25 f_0_0 f_0_25 f_0_75 f_1_5 f_0_3125;
   mkAabb f_0_25 f_0_0 f_0_6875 f_0_75 f_1_5 f_0_75;
   mkAabb f_0_3125 f_0_0 f_0_0 f_0_6875 f_1_5 f_0_25;
   mkAabb f_0_3125 f_0_0 f_0_75 f_0_6875 f_1_5 f_1_0;
   mkAabb f_0_0 f_0_0 f_0_3125 f_1_0 f_1_5 f_0_6875;
   mkAabb f_0_25 f_0_0 f_0_25 f_0_75 f_1_5 f_0_3125;
   mkAabb f_0_25 f_0_0 f_0_6875 f_0_75 f_1_5 f_0_75;
   mkAabb f_0_3125 f_0_0 f_0_0 f_0_6875 f_1_5 f_0_25;
   mkAabb f_0_3125 f_0_0 f_0_75 f_0_6875 f_1_5 f_1_0;
   mkAabb f_0_3125 f_0_0 f_0_0 f_0_6875 f_1_5 f_1_0;
   mkAabb f_0_6875 f_0_0 f_0_3125 f_1_0 f_1_5 f_0_6875;
   mkAabb f_0_0 f_0_0 f_0_3125 f_1_0 f_1_5 f_0_6875;
   mkAabb f_0_3125 f_0_0 f_0_0 f_0_6875 f_1_5 f_0_3125;
   mkAabb f_0_3125 f_0_0 f_0_6875 f_0_6875 f_1_5 f_1_0;
   mkAabb f_0_0 f_0_0 f_0_3125 f_1_0 f_1_5 f_0_6875;
   mkAabb f_0_3125 f_0_0 f_0_0 f_0_6875 f_1_5 f_0_3125;
   mkAabb f_0_3125 f_0_0 f_0_6875 f_0_6875 f_1_5 f_1_0;
   mkAabb f_0_25 f_0_0 f_0_25 f_0_75 f_1_5 f_0_75;
   mkAabb f_0_3125 f_0_0 f_0_0 f_0_6875 f_1_5 f_0_25;
   mkAabb f_0_75 f_0_0 f_0_3125 f_1_0 f_1_5 f_0_6875;
   mkAabb f_0_0 f_0_0 f_0_3125 f_1_0 f_1_5 f_0_6875;
   mkAabb f_0_25 f_0_0 f_0_25 f_0_75 f_1_5 f_0_3125;
   mkAabb f_0_25 f_0_0 f_0_6875 f_0_75 f_1_5 f_0_75;
   mkAabb f_0_3125 f_0_0 f_0_0 f_0_6875 f_1_5 f_0_25;
   mkAabb f_0_0 f_0_0 f_0_3125 f_1_0 f_1_5 f_0_6875].
Definition SHAPE_BOXES_69 : list Aabb :=
  [mkAabb f_0_25 f_0_0 f_0_25 f_0_75 f_1_5 f_0_3125;
   mkAabb f_0_25 f_0_0 f_0_6875 f_0_75 f_1_5 f_0_75;
   mkAabb f_0_3125 f_0_0 f_0_0 f_0_6875 f_1_5 f_0_25;
   mkAabb f_0_3125 f_0_0 f_0_0 f_0_6875 f_1_5 f_0_6875;
   mkAabb f_0_6875 f_0_0 f_0_3125 f_1_0 f_1_5 f_0_6875;
   mkAabb f_0_0 f_0_0 f_0_3125 f_1_0 f_1_5 f_0_6875;
   mkAabb f_0_3125 f_0_0 f_0_0 f_0_6875 f_1_5 f_0_3125;
   mkAabb f_0_0 f_0_0 f_0_3125 f_1_0 f_1_5 f_0_6875;
   mkAabb f_0_3125 f_0_0 f_0_0 f_0_6875 f_1_5 f_0_3125;
   mkAabb f_0_25 f_0_0 f_0_25 f_0_75 f_1_5 f_0_75;
   mkAabb f_0_3125 f_0_0 f_0_0 f_0_6875 f_1_5 f_0_25;
   mkAabb f_0_3125 f_0_0 f_0_75 f_0_6875 f_1_5 f_1_0;
   mkAabb f_0_75 f_0_0 f_0_3125 f_1_0 f_1_5 f_0_6875;
   mkAabb f_0_0 f_0_0 f_0_3125 f_1_0 f_1_5 f_0_6875;
   mkAabb f_0_25 f_0_0 f_0_25 f_0_75 f_1_5 f_0_3125;
   mkAabb f_0_25 f_0_0 f_0_6875 f_0_75 f_1_5 f_0_75;
   mkAabb f_0_3125 f_0_0 f_0_0 f_0_6875 f_1_5 f_0_25;
   mkAabb f_0_3125 f_0_0 f_0_75 f_0_6875 f_1_5 f_1_0;
   mkAabb f_0_0 f_0_0 f_0_3125 f_1_0 f_1_5 f_0_6875;
   mkAabb f_0_25 f_0_0 f_0_25 f_0_75 f_1_5 f_0_3125;
   mkAabb f_0_25 f_0_0 f_0_6875 f_0_75 f_1_5 f_0_75;
   mkAabb f_0_3125 f_0_0 f_0_0 f_0_6875 f_1_5 f_0_25;
   mkAabb f_0_3125 f_0_0 f_0_75 f_0_6875 f_1_5 f_1_0;
   mkAabb f_0_3125 f_0_0 f_0_0 f_0_6875 f_1_5 f_1_0;
   mkAabb f_0_6875 f_0_0 f_0_3125 f_1_0 f_1_5 f_0_6875;
   mkAabb f_0_0 f_0_0 f_0_3125 f_1_0 f_1_5 f_0_6875;
   mkAabb f_0_3125 f_0_0 f_0_0 f_0_6875 f_1_5 f_0_3125;
   mkAabb f_0_3125 f_0_0 f_0_6875 f_0_6875 f_1_5 f_1_0;
   mkAabb f_0_0 f_0_0 f_0_3125 f_1_0 f_1_5 f_0_6875;
   mkAabb f_0_3125 f_0_0 f_0_0 f_0_6875 f_1_5 f_0_3125;
   mkAabb f_0_3125 f_0_0 f_0_6875 f_0_6875 f_1_5 f_1_0;
   mkAabb f_0_25 f_0_0 f_0_25 f_0_75 f_1_5 f_0_75;
   mkAabb f_0_3125 f_0_0 f_0_0 f_0_6875 f_1_5 f_0_25;
   mkAabb f_0_3125 f_0_0 f_0_75 f_0_6875 f_1_5 f_1_0;
   mkAabb f_0_75 f_0_0 f_0_3125 f_1_0 f_1_5 f_0_6875;
   mkAabb f_0_0 f_0_0 f_0_3125 f_1_0 f_1_5 f_0_6875;
   mkAabb f_0_25 f_0_0 f_0_25 f_0_75 f_1_5 f_0_3125;
   mkAabb f_0_25 f_0_0 f_0_6875 f_0_75 f_1_5 f_0_75;
   mkAabb f_0_3125 f_0_0 f_0_0 f_0_6875 f_1_5 f_0_25;
   mkAabb f_0_3125 f_0_0 f_0_75 f_0_6875 f_1_5 f_1_0;
   mkAabb f_0_0 f_0_0 f_0_3125 f_1_0 f_1_5 f_0_6875;
   mkAabb f_0_25 f_0_0 f_0_25 f_0_75 f_1_5 f_0_3125;
   mkAabb f_0_25 f_0_0 f_0_6875 f_0_75 f_1_5 f_0_75;
   mkAabb f_0_3125 f_0_0 f_0_0 f_0_6875 f_1_5 f_0_25;
   mkAabb f_0_3125 f_0_0 f_0_75 f_0_6875 f_1_5 f_1_0;
   mkAabb f_0_3125 f_0_0 f_0_0 f_0_6875 f_1_5 f_1_0;
   mkAabb f_0_6875 f_0_0 f_0_3125 f_1_0 f_1_5 f_0_6875;
   mkAabb f_0_0 f_0_0 f_0_3125 f_1_0 f_1_5 f_0_6875;
   mkAabb f_0_3125 f_0_0 f_0_0 f_0_6875 f_1_5 f_0_3125;
   mkAabb f_0_3125 f_0_0 f_0_6875 f_0_6875 f_1_5 f_1_0;
   mkAabb f_0_0 f_0_0 f_0_3125 f_1_0 f_1_5 f_0_6875;
   mkAabb f_0_3125 f_0_0 f_0_0 f_0_6875 f_1_5 f_0_3125;
   mkAabb f_0_3125 f_0_0 f_0_6875 f_0_6875 f_1_5 f_1_0;
   mkAabb f_0_25 f_0_0 f_0_25 f_0_75 f_1_5 f_0_75;
   mkAabb f_0_75 f_0_0 f_0_3125 f_1_0 f_1_5 f_0_6875;
   mkAabb f_0_0 f_0_0 f_0_3125 f_1_0 f_1_5 f_0_6875;
   mkAabb f_0_25 f_0_0 f_0_25 f_0_75 f_1_5 f_0_3125;
   mkAabb f_0_25 f_0_0 f_0_6875 f_0_75 f_1_5 f_0_75;
   mkAabb f_0_0 f_0_0 f_0_3125 f_1_0 f_1_5 f_0_6875;
   mkAabb f_0_25 f_0_0 f_0_25 f_0_75 f_1_5 f_0_3125;
   mkAabb f_0_25 f_0_0 f_0_6875 f_0_75 f_1_5 f_0_75;
   mkAabb f_0_3125 f_0_0 f_0_3125 f_1_0 f_1_5 f_0_6875;
   mkAabb f_0_0 f_0_0 f_0_3125 f_1_0 f_1_5 f_0_6875;
   mkAabb f_0_0 f_0_0 f_0_3125 f_1_0 f_1_5 f_0_6875;
   mkAabb f_0_25 f_0_0 f_0_25 f_0_75 f_1_5 f_0_75;
   mkAabb f_0_3125 f_0_0 f_0_75 f_0_6875 f_1_5 f_1_0;
   mkAabb f_0_75 f_0_0 f_0_3125 f_1_0 f_1_5 f_0_6875;
   mkAabb f_0_0 f_0_0 f_0_3125 f_1_0 f_1_5 f_0_6875;
   mkAabb f_0_25 f_0_0 f_0_25 f_0_75 f_1_5 f_0_3125;
   mkAabb f_0_25 f_0_0 f_0_6875 f_0_75 f_1_5 f_0_75;
   mkAabb f_0_3125 f_0_0 f_0_75 f_0_6875 f_1_5 f_1_0;
   mkAabb f_0_0 f_0_0 f_0_3125 f_1_0 f_1_5 f_0_6875;
   mkAabb f_0_25 f_0_0 f_0_25 f_0_75 f_1_5 f_0_3125;
   mkAabb f_0_25 f_0_0 f_0_6875 f_0_75 f_1_5 f_0_75;
   mkAabb f_0_3125 f_0_0 f_0_75 f_0_6875 f_1_5 f_1_0;
   mkAabb f_0_3125 f_0_0 f_0_3125 f_0_6875 f_1_5 f_1_0;
   mkAabb f_0_6875 f_0_0 f_0_3125 f_1_0 f_1_5 f_0_6875;
   mkAabb f_0_0 f_0_0 f_0_3125 f_1_0 f_1_5 f_0_6875;
   mkAabb f_0_3125 f_0_0 f_0_6875 f_0_6875 f_1_5 f_1_0;
   mkAabb f_0_0 f_0_0 f_0_3125 f_1_0 f_1_5 f_0_6875;
   mkAabb f_0_3125 f_0_0 f_0_6875 f_0_6875 f_1_5 f_1_0;
   mkAabb f_0_25 f_0_0 f_0_25 f_0_75 f_1_5 f_0_75;
   mkAabb f_0_3125 f_0_0 f_0_75 f_0_6875 f_1_5 f_1_0;
   mkAabb f_0_75 f_0_0 f_0_3125 f_1_0 f_1_5 f_0_6875;
   mkAabb f_0_0 f_0_0 f_0_3125 f_1_0 f_1_5 f_0_6875;
   mkAabb f_0_25 f_0_0 f_0_25 f_0_75 f_1_5 f_0_3125;
   mkAabb f_0_25 f_0_0 f_0_6875 f_0_75 f_1_5 f_0_75;
   mkAabb f_0_3125 f_0_0 f_0_75 f_0_6875 f_1_5 f_1_0;
   mkAabb f_0_0 f_0_0 f_0_3125 f_1_0 f_1_5 f_0_6875;
   mkAabb f_0_25 f_0_0 f_0_25 f_0_75 f_1_5 f_0_3125;
   mkAabb f_0_25 f_0_0 f_0_6875 f_0_75 f_1_5 f_0_75;
   mkAabb f_0_3125 f_0_0 f_0_75 f_0_6875 f_1_5 f_1_0;
   mkAabb f_0_3125 f_0_0 f_0_3125 f_0_6875 f_1_5 f_1_0;
   mkAabb f_0_6875 f_0_0 f_0_3125 f_1_0 f_1_5 f_0_6875;
   mkAabb f_0_0 f_0_0 f_0_3125 f_1_0 f_1_5 f_0_6875;
   mkAabb f_0_3125 f_0_0 f_0_6875 f_0_6875 f_1_5 f_1_0;
   mkAabb f_0_0 f_0_0 f_0_3125 f_1_0 f_1_5 f_0_6875;
   mkAabb f_0_3125 f_0_0 f_0_6875 f_0_6875 f_1_5 f_1_0;
   mkAabb f_0_25 f_0_0 f_0_25 f_0_75 f_1_5 f_0_75;
   mkAabb f_0_3125 f_0_0 f_0_0 f_0_6875 f_1_5 f_0_25;
   mkAabb f_0_75 f_0_0 f_0_3125 f_1_0 f_1_5 f_0_6875;
   mkAabb f_0_0 f_0_0 f_0_3125 f_1_0 f_1_5 f_0_6875;
   mkAabb f_0_25 f_0_0 f_0_25 f_0_75 f_1_5 f_0_3125;
   mkAabb f_0_25 f_0_0 f_0_6875 f_0_75 f_1_5 f_0_75;
   mkAabb f_0_3125 f_0_0 f_0_0 f_0_6875 f_1_5 f_0_25;
   mkAabb f_0_0 f_0_0 f_0_3125 f_1_0 f_1_5 f_0_6875;
   mkAabb f_0_25 f_0_0 f_0_25 f_0_75 f_1_5 f_0_3125;
   mkAabb f_0_25 f_0_0 f_0_6875 f_0_75 f_1_5 f_0_75;
   mkAabb f_0_3125 f_0_0 f_0_0 f_0_6875 f_1_5 f_0_25;
   mkAabb f_0_3125 f_0_0 f_0_0 f_0_6875 f_1_5 f_0_6875;
   mkAabb f_0_6875 f_0_0 f_0_3125 f_1_0 f_1_5 f_0_6875;
   mkAabb f_0_0 f_0_0 f_0_3125 f_1_0 f_1_5 f_0_6875;
   mkAabb f_0_3125 f_0_0 f_0_0 f_0_6875 f_1_5 f_0_3125;
   mkAabb f_0_0 f_0_0 f_0_3125 f_1_0 f_1_5 f_0_6875;
   mkAabb f_0_3125 f_0_0 f_0_0 f_0_6875 f_1_5 f_0_3125;
   mkAabb f_0_25 f_0_0 f_0_25 f_0_75 f_1_5 f_0_75;
   mkAabb f_0_3125 f_0_0 f_0_0 f_0_6875 f_1_5 f_0_25;
   mkAabb f_0_3125 f_0_0 f_0_75 f_0_6875 f_1_5 f_1_0;
   mkAabb f_0_75 f_0_0 f_0_3125 f_1_0 f_1_5 f_0_6875;
   mkAabb f_0_0 f_0_0 f_0_3125 f_1_0 f_1_5 f_0_6875;
   mkAabb f_0_25 f_0_0 f_0_25 f_0_75 f_1_5 f_0_3125;
   mkAabb f_0_25 f_0_0 f_0_6875 f_0_75 f_1_5 f_0_75;
   mkAabb f_0_3125 f_0_0 f_0_0 f_0_6875 f_1_5 f_0_25;
   mkAabb f_0_3125 f_0_0 f_0_75 f_0_6875 f_1_5 f_1_0;
   mkAabb f_0_0 f_0_0 f_0_3125 f_1_0 f_1_5 f_0_6875;
   mkAabb f_0_25 f_0_0 f_0_25 f_0_75 f_1_5 f_0_3125;
   mkAabb f_0_25 f_0_0 f_0_6875 f_0_75 f_1_5 f_0_75;
   mkAabb f_0_3125 f_0_0 f_0_0 f_0_6875 f_1_5 f_0_25;
   mkAabb f_0_3125 f_0_0 f_0_75 f_0_6875 f_1_5 f_1_0;
   mkAabb f_0_3125 f_0_0 f_0_0 f_0_6875 f_1_5 f_1_0;
   mkAabb f_0_6875 f_0_0 f_0_3125 f_1_0 f_1_5 f_0_6875;
   mkAabb f_0_0 f_0_0 f_0_3125 f_1_0 f_1_5 f_0_6875;
   mkAabb f_0_3125 f_0_0 f_0_0 f_0_6875 f_1_5 f_0_3125;
   mkAabb f_0_3125 f_0_0 f_0_6875 f_0_6875 f_1_5 f_1_0;
   mkAabb f_0_0 f_0_0 f_0_3125 f_1_0 f_1_5 f_0_6875;
   mkAabb f_0_3125 f_0_0 f_0_0 f_0_6875 f_1_5 f_0_3125;
   mkAabb f_0_3125 f_0_0 f_0_6875 f_0_6875 f_1_5 f_1_0;
   mkAabb f_0_25 f_0_0 f_0_25 f_0_75 f_1_5 f_0_75;
   mkAabb f_0_3125 f_0_0 f_0_0 f_0_6875 f_1_5 f_0_25;
   mkAabb f_0_3125 f_0_0 f_0_75 f_0_6875 f_1_5 f_1_0;
   mkAabb f_0_75 f_0_0 f_0_3125 f_1_0 f_1_5 f_0_6875;
   mkAabb f_0_0 f_0_0 f_0_3125 f_1_0 f_1_5 f_0_6875;
   mkAabb f_0_25 f_0_0 f_0_25 f_0_75 f_1_5 f_0_3125;
   mkAabb f_0_25 f_0_0 f_0_6875 f_0_75 f_1_5 f_0_75;
   mkAabb f_0_3125 f_0_0 f_0_0 f_0_6875 f_1_5 f_0_25;
   mkAabb f_0_3125 f_0_0 f_0_75 f_0_6875 f_1_5 f_1_0;
   mkAabb f_0_0 f_0_0 f_0_3125 f_1_0 f_1_5 f_0_6875;
   mkAabb f_0_25 f_0_0 f_0_25 f_0_75 f_1_5 f_0_3125;
   mkAabb f_0_25 f_0_0 f_0_6875 f_0_75 f_1_5 f_0_75;
   mkAabb f_0_3125 f_0_0 f_0_0 f_0_6875 f_1_5 f_0_25].
Definition SHAPE_BOXES_70 : list Aabb :=
  [mkAabb f_0_3125 f_0_0 f_0_75 f_0_6875 f_1_5 f_1_0;
   mkAabb f_0_3125 f_0_0 f_0_0 f_0_6875 f_1_5 f_1_0;
   mkAabb f_0_6875 f_0_0 f_0_3125 f_1_0 f_1_5 f_0_6875;
   mkAabb f_0_0 f_0_0 f_0_3125 f_1_0 f_1_5 f_0_6875;
   mkAabb f_0_3125 f_0_0 f_0_0 f_0_6875 f_1_5 f_0_3125;
   mkAabb f_0_3125 f_0_0 f_0_6875 f_0_6875 f_1_5 f_1_0;
   mkAabb f_0_0 f_0_0 f_0_3125 f_1_0 f_1_5 f_0_6875;
   mkAabb f_0_3125 f_0_0 f_0_0 f_0_6875 f_1_5 f_0_3125;
   mkAabb f_0_3125 f_0_0 f_0_6875 f_0_6875 f_1_5 f_1_0;
   mkAabb f_0_25 f_0_0 f_0_25 f_0_75 f_1_5 f_0_75;
   mkAabb f_0_3125 f_0_0 f_0_0 f_0_6875 f_1_5 f_0_25;
   mkAabb f_0_75 f_0_0 f_0_3125 f_1_0 f_1_5 f_0_6875;
   mkAabb f_0_0 f_0_0 f_0_3125 f_1_0 f_1_5 f_0_6875;
   mkAabb f_0_25 f_0_0 f_0_25 f_0_75 f_1_5 f_0_3125;
   mkAabb f_0_25 f_0_0 f_0_6875 f_0_75 f_1_5 f_0_75;
   mkAabb f_0_3125 f_0_0 f_0_0 f_0_6875 f_1_5 f_0_25;
   mkAabb f_0_0 f_0_0 f_0_3125 f_1_0 f_1_5 f_0_6875;
   mkAabb f_0_25 f_0_0 f_0_25 f_0_75 f_1_5 f_0_3125;
   mkAabb f_0_25 f_0_0 f_0_6875 f_0_75 f_1_5 f_0_75;
   mkAabb f_0_3125 f_0_0 f_0_0 f_0_6875 f_1_5 f_0_25;
   mkAabb f_0_3125 f_0_0 f_0_0 f_0_6875 f_1_5 f_0_6875;
   mkAabb f_0_6875 f_0_0 f_0_3125 f_1_0 f_1_5 f_0_6875;
   mkAabb f_0_0 f_0_0 f_0_3125 f_1_0 f_1_5 f_0_6875;
   mkAabb f_0_3125 f_0_0 f_0_0 f_0_6875 f_1_5 f_0_3125;
   mkAabb f_0_0 f_0_0 f_0_3125 f_1_0 f_1_5 f_0_6875;
   mkAabb f_0_3125 f_0_0 f_0_0 f_0_6875 f_1_5 f_0_3125;
   mkAabb f_0_25 f_0_0 f_0_25 f_0_75 f_1_5 f_0_75;
   mkAabb f_0_3125 f_0_0 f_0_0 f_0_6875 f_1_5 f_0_25;
   mkAabb f_0_3125 f_0_0 f_0_75 f_0_6875 f_1_5 f_1_0;
   mkAabb f_0_75 f_0_0 f_0_3125 f_1_0 f_1_5 f_0_6875;
   mkAabb f_0_0 f_0_0 f_0_3125 f_1_0 f_1_5 f_0_6875;
   mkAabb f_0_25 f_0_0 f_0_25 f_0_75 f_1_5 f_0_3125;
   mkAabb f_0_25 f_0_0 f_0_6875 f_0_75 f_1_5 f_0_75;
   mkAabb f_0_3125 f_0_0 f_0_0 f_0_6875 f_1_5 f_0_25;
   mkAabb f_0_3125 f_0_0 f_0_75 f_0_6875 f_1_5 f_1_0;
   mkAabb f_0_0 f_0_0 f_0_3125 f_1_0 f_1_5 f_0_6875;
   mkAabb f_0_25 f_0_0 f_0_25 f_0_75 f_1_5 f_0_3125;
   mkAabb f_0_25 f_0_0 f_0_6875 f_0_75 f_1_5 f_0_75;
   mkAabb f_0_3125 f_0_0 f_0_0 f_0_6875 f_1_5 f_0_25;
   mkAabb f_0_3125 f_0_0 f_0_75 f_0_6875 f_1_5 f_1_0;
   mkAabb f_0_3125 f_0_0 f_0_0 f_0_6875 f_1_5 f_1_0;
   mkAabb f_0_6875 f_0_0 f_0_3125 f_1_0 f_1_5 f_0_6875;
   mkAabb f_0_0 f_0_0 f_0_3125 f_1_0 f_1_5 f_0_6875;
   mkAabb f_0_3125 f_0_0 f_0_0 f_0_6875 f_1_5 f_0_3125;
   mkAabb f_0_3125 f_0_0 f_0_6875 f_0_6875 f_1_5 f_1_0;
   mkAabb f_0_0 f_0_0 f_0_3125 f_1_0 f_1_5 f_0_6875;
   mkAabb f_0_3125 f_0_0 f_0_0 f_0_6875 f_1_5 f_0_3125;
   mkAabb f_0_3125 f_0_0 f_0_6875 f_0_6875 f_1_5 f_1_0;
   mkAabb f_0_25 f_0_0 f_0_25 f_0_75 f_1_5 f_0_75;
   mkAabb f_0_3125 f_0_0 f_0_0 f_0_6875 f_1_5 f_0_25;
   mkAabb f_0_3125 f_0_0 f_0_75 f_0_6875 f_1_5 f_1_0;
   mkAabb f_0_75 f_0_0 f_0_3125 f_1_0 f_1_5 f_0_6875;
   mkAabb f_0_0 f_0_0 f_0_3125 f_1_0 f_1_5 f_0_6875;
   mkAabb f_0_25 f_0_0 f_0_25 f_0_75 f_1_5 f_0_3125;
   mkAabb f_0_25 f_0_0 f_0_6875 f_0_75 f_1_5 f_0_75;
   mkAabb f_0_3125 f_0_0 f_0_0 f_0_6875 f_1_5 f_0_25;
   mkAabb f_0_3125 f_0_0 f_0_75 f_0_6875 f_1_5 f_1_0;
   mkAabb f_0_0 f_0_0 f_0_3125 f_1_0 f_1_5 f_0_6875;
   mkAabb f_0_25 f_0_0 f_0_25 f_0_75 f_1_5 f_0_3125;
   mkAabb f_0_25 f_0_0 f_0_6875 f_0_75 f_1_5 f_0_75;
   mkAabb f_0_3125 f_0_0 f_0_0 f_0_6875 f_1_5 f_0_25;
   mkAabb f_0_3125 f_0_0 f_0_75 f_0_6875 f_1_5 f_1_0;
   mkAabb f_0_3125 f_0_0 f_0_0 f_0_6875 f_1_5 f_1_0;
   mkAabb f_0_6875 f_0_0 f_0_3125 f_1_0 f_1_5 f_0_6875;
   mkAabb f_0_0 f_0_0 f_0_3125 f_1_0 f_1_5 f_0_6875;
   mkAabb f_0_3125 f_0_0 f_0_0 f_0_6875 f_1_5 f_0_3125;
   mkAabb f_0_3125 f_0_0 f_0_6875 f_0_6875 f_1_5 f_1_0;
   mkAabb f_0_0 f_0_0 f_0_3125 f_1_0 f_1_5 f_0_6875;
   mkAabb f_0_3125 f_0_0 f_0_0 f_0_6875 f_1_5 f_0_3125;
   mkAabb f_0_3125 f_0_0 f_0_6875 f_0_6875 f_1_5 f_1_0;
   mkAabb f_0_4375 f_0_0 f_0_4375 f_0_5625 f_0_375 f_0_5625;
   mkAabb f_0_3125 f_0_0 f_0_375 f_0_6875 f_0_375 f_0_5625;
   mkAabb f_0_3125 f_0_0 f_0_375 f_0_625 f_0_375 f_0_6875;
   mkAabb f_0_3125 f_0_0 f_0_3125 f_0_6875 f_0_375 f_0_625;
   mkAabb f_0_0625 f_0_0 f_0_0625 f_0_9375 f_0_5 f_0_9375;
   mkAabb f_0_4375 f_0_5 f_0_4375 f_0_5625 f_0_875 f_0_5625;
   mkAabb f_0_1875 f_0_1875 f_0_5625 f_0_8125 f_0_8125 f_1_0;
   mkAabb f_0_0 f_0_1875 f_0_1875 f_0_4375 f_0_8125 f_0_8125;
   mkAabb f_0_1875 f_0_1875 f_0_0 f_0_8125 f_0_8125 f_0_4375;
   mkAabb f_0_5625 f_0_1875 f_0_1875 f_1_0 f_0_8125 f_0_8125;
   mkAabb f_0_1875 f_0_0 f_0_1875 f_0_8125 f_0_4375 f_0_8125;
   mkAabb f_0_1875 f_0_5625 f_0_1875 f_0_8125 f_1_0 f_0_8125;
   mkAabb f_0_1875 f_0_1875 f_0_6875 f_0_8125 f_0_8125 f_1_0;
   mkAabb f_0_0 f_0_1875 f_0_1875 f_0_3125 f_0_8125 f_0_8125;
   mkAabb f_0_1875 f_0_1875 f_0_0 f_0_8125 f_0_8125 f_0_3125;
   mkAabb f_0_6875 f_0_1875 f_0_1875 f_1_0 f_0_8125 f_0_8125;
   mkAabb f_0_1875 f_0_0 f_0_1875 f_0_8125 f_0_3125 f_0_8125;
   mkAabb f_0_1875 f_0_6875 f_0_1875 f_0_8125 f_1_0 f_0_8125;
   mkAabb f_0_1875 f_0_1875 f_0_75 f_0_8125 f_0_8125 f_1_0;
   mkAabb f_0_0 f_0_1875 f_0_1875 f_0_25 f_0_8125 f_0_8125;
   mkAabb f_0_1875 f_0_1875 f_0_0 f_0_8125 f_0_8125 f_0_25;
   mkAabb f_0_75 f_0_1875 f_0_1875 f_1_0 f_0_8125 f_0_8125;
   mkAabb f_0_1875 f_0_0 f_0_1875 f_0_8125 f_0_25 f_0_8125;
   mkAabb f_0_1875 f_0_75 f_0_1875 f_0_8125 f_1_0 f_0_8125;
   mkAabb f_0_25 f_0_25 f_0_8125 f_0_75 f_0_75 f_1_0;
   mkAabb f_0_0 f_0_25 f_0_25 f_0_1875 f_0_75 f_0_75;
   mkAabb f_0_25 f_0_25 f_0_0 f_0_75 f_0_75 f_0_1875;
   mkAabb f_0_8125 f_0_25 f_0_25 f_1_0 f_0_75 f_0_75;
   mkAabb f_0_25 f_0_0 f_0_25 f_0_75 f_0_1875 f_0_75;
   mkAabb f_0_25 f_0_8125 f_0_25 f_0_75 f_1_0 f_0_75;
   mkAabb f_0_25 f_0_0 f_0_25 f_0_75 f_1_5 f_0_75;
   mkAabb f_0_0 f_0_0 f_0_3125 f_0_75 f_1_5 f_0_6875;
   mkAabb f_0_25 f_0_0 f_0_25 f_0_75 f_1_5 f_0_3125;
   mkAabb f_0_25 f_0_0 f_0_6875 f_0_75 f_1_5 f_0_75;
   mkAabb f_0_0 f_0_0 f_0_3125 f_0_75 f_1_5 f_0_6875;
   mkAabb f_0_25 f_0_0 f_0_25 f_0_75 f_1_5 f_0_3125;
   mkAabb f_0_25 f_0_0 f_0_6875 f_0_75 f_1_5 f_0_75;
   mkAabb f_0_0 f_0_0 f_0_3125 f_0_6875 f_1_5 f_0_6875;
   mkAabb f_0_0 f_0_0 f_0_3125 f_0_6875 f_1_5 f_0_6875;
   mkAabb f_0_25 f_0_0 f_0_25 f_0_75 f_1_5 f_0_75;
   mkAabb f_0_3125 f_0_0 f_0_75 f_0_6875 f_1_5 f_1_0;
   mkAabb f_0_0 f_0_0 f_0_3125 f_0_75 f_1_5 f_0_6875;
   mkAabb f_0_25 f_0_0 f_0_25 f_0_75 f_1_5 f_0_3125;
   mkAabb f_0_25 f_0_0 f_0_6875 f_0_75 f_1_5 f_0_75;
   mkAabb f_0_3125 f_0_0 f_0_75 f_0_6875 f_1_5 f_1_0;
   mkAabb f_0_0 f_0_0 f_0_3125 f_0_75 f_1_5 f_0_6875;
   mkAabb f_0_25 f_0_0 f_0_25 f_0_75 f_1_5 f_0_3125;
   mkAabb f_0_25 f_0_0 f_0_6875 f_0_75 f_1_5 f_0_75;
   mkAabb f_0_3125 f_0_0 f_0_75 f_0_6875 f_1_5 f_1_0;
   mkAabb f_0_3125 f_0_0 f_0_3125 f_0_6875 f_1_5 f_1_0;
   mkAabb f_0_0 f_0_0 f_0_3125 f_0_6875 f_1_5 f_0_6875;
   mkAabb f_0_3125 f_0_0 f_0_6875 f_0_6875 f_1_5 f_1_0;
   mkAabb f_0_0 f_0_0 f_0_3125 f_0_6875 f_1_5 f_0_6875;
   mkAabb f_0_3125 f_0_0 f_0_6875 f_0_6875 f_1_5 f_1_0;
   mkAabb f_0_25 f_0_0 f_0_25 f_0_75 f_1_5 f_0_75;
   mkAabb f_0_3125 f_0_0 f_0_75 f_0_6875 f_1_5 f_1_0;
   mkAabb f_0_0 f_0_0 f_0_3125 f_0_75 f_1_5 f_0_6875;
   mkAabb f_0_25 f_0_0 f_0_25 f_0_75 f_1_5 f_0_3125;
   mkAabb f_0_25 f_0_0 f_0_6875 f_0_75 f_1_5 f_0_75;
   mkAabb f_0_3125 f_0_0 f_0_75 f_0_6875 f_1_5 f_1_0;
   mkAabb f_0_0 f_0_0 f_0_3125 f_0_75 f_1_5 f_0_6875;
   mkAabb f_0_25 f_0_0 f_0_25 f_0_75 f_1_5 f_0_3125;
   mkAabb f_0_25 f_0_0 f_0_6875 f_0_75 f_1_5 f_0_75;
   mkAabb f_0_3125 f_0_0 f_0_75 f_0_6875 f_1_5 f_1_0;
   mkAabb f_0_3125 f_0_0 f_0_3125 f_0_6875 f_1_5 f_1_0;
   mkAabb f_0_0 f_0_0 f_0_3125 f_0_6875 f_1_5 f_0_6875;
   mkAabb f_0_3125 f_0_0 f_0_6875 f_0_6875 f_1_5 f_1_0;
   mkAabb f_0_0 f_0_0 f_0_3125 f_0_6875 f_1_5 f_0_6875;
   mkAabb f_0_3125 f_0_0 f_0_6875 f_0_6875 f_1_5 f_1_0;
   mkAabb f_0_25 f_0_0 f_0_25 f_0_75 f_1_5 f_0_75;
   mkAabb f_0_3125 f_0_0 f_0_0 f_0_6875 f_1_5 f_0_25;
   mkAabb f_0_0 f_0_0 f_0_3125 f_0_75 f_1_5 f_0_6875;
   mkAabb f_0_25 f_0_0 f_0_25 f_0_75 f_1_5 f_0_3125;
   mkAabb f_0_25 f_0_0 f_0_6875 f_0_75 f_1_5 f_0_75;
   mkAabb f_0_3125 f_0_0 f_0_0 f_0_6875 f_1_5 f_0_25;
   mkAabb f_0_0 f_0_0 f_0_3125 f_0_75 f_1_5 f_0_6875;
   mkAabb f_0_25 f_0_0 f_0_25 f_0_75 f_1_5 f_0_3125;
   mkAabb f_0_25 f_0_0 f_0_6875 f_0_75 f_1_5 f_0_75;
   mkAabb f_0_3125 f_0_0 f_0_0 f_0_6875 f_1_5 f_0_25;
   mkAabb f_0_3125 f_0_0 f_0_0 f_0_6875 f_1_5 f_0_6875].
Definition SHAPE_BOXES_71 : list Aabb :=
  [mkAabb f_0_0 f_0_0 f_0_3125 f_0_6875 f_1_5 f_0_6875;
   mkAabb f_0_3125 f_0_0 f_0_0 f_0_6875 f_1_5 f_0_3125;
   mkAabb f_0_0 f_0_0 f_0_3125 f_0_6875 f_1_5 f_0_6875;
   mkAabb f_0_3125 f_0_0 f_0_0 f_0_6875 f_1_5 f_0_3125;
   mkAabb f_0_25 f_0_0 f_0_25 f_0_75 f_1_5 f_0_75;
   mkAabb f_0_3125 f_0_0 f_0_0 f_0_6875 f_1_5 f_0_25;
   mkAabb f_0_3125 f_0_0 f_0_75 f_0_6875 f_1_5 f_1_0;
   mkAabb f_0_0 f_0_0 f_0_3125 f_0_75 f_1_5 f_0_6875;
   mkAabb f_0_25 f_0_0 f_0_25 f_0_75 f_1_5 f_0_3125;
   mkAabb f_0_25 f_0_0 f_0_6875 f_0_75 f_1_5 f_0_75;
   mkAabb f_0_3125 f_0_0 f_0_0 f_0_6875 f_1_5 f_0_25;
   mkAabb f_0_3125 f_0_0 f_0_75 f_0_6875 f_1_5 f_1_0;
   mkAabb f_0_0 f_0_0 f_0_3125 f_0_75 f_1_5 f_0_6875;
   mkAabb f_0_25 f_0_0 f_0_25 f_0_75 f_1_5 f_0_3125;
   mkAabb f_0_25 f_0_0 f_0_6875 f_0_75 f_1_5 f_0_75;
   mkAabb f_0_3125 f_0_0 f_0_0 f_0_6875 f_1_5 f_0_25;
   mkAabb f_0_3125 f_0_0 f_0_75 f_0_6875 f_1_5 f_1_0;
   mkAabb f_0_3125 f_0_0 f_0_0 f_0_6875 f_1_5 f_1_0;
   mkAabb f_0_0 f_0_0 f_0_3125 f_0_6875 f_1_5 f_0_6875;
   mkAabb f_0_3125 f_0_0 f_0_0 f_0_6875 f_1_5 f_0_3125;
   mkAabb f_0_3125 f_0_0 f_0_6875 f_0_6875 f_1_5 f_1_0;
   mkAabb f_0_0 f_0_0 f_0_3125 f_0_6875 f_1_5 f_0_6875;
   mkAabb f_0_3125 f_0_0 f_0_0 f_0_6875 f_1_5 f_0_3125;
   mkAabb f_0_3125 f_0_0 f_0_6875 f_0_6875 f_1_5 f_1_0;
   mkAabb f_0_25 f_0_0 f_0_25 f_0_75 f_1_5 f_0_75;
   mkAabb f_0_3125 f_0_0 f_0_0 f_0_6875 f_1_5 f_0_25;
   mkAabb f_0_3125 f_0_0 f_0_75 f_0_6875 f_1_5 f_1_0;
   mkAabb f_0_0 f_0_0 f_0_3125 f_0_75 f_1_5 f_0_6875;
   mkAabb f_0_25 f_0_0 f_0_25 f_0_75 f_1_5 f_0_3125;
   mkAabb f_0_25 f_0_0 f_0_6875 f_0_75 f_1_5 f_0_75;
   mkAabb f_0_3125 f_0_0 f_0_0 f_0_6875 f_1_5 f_0_25;
   mkAabb f_0_3125 f_0_0 f_0_75 f_0_6875 f_1_5 f_1_0;
   mkAabb f_0_0 f_0_0 f_0_3125 f_0_75 f_1_5 f_0_6875;
   mkAabb f_0_25 f_0_0 f_0_25 f_0_75 f_1_5 f_0_3125;
   mkAabb f_0_25 f_0_0 f_0_6875 f_0_75 f_1_5 f_0_75;
   mkAabb f_0_3125 f_0_0 f_0_0 f_0_6875 f_1_5 f_0_25;
   mkAabb f_0_3125 f_0_0 f_0_75 f_0_6875 f_1_5 f_1_0;
   mkAabb f_0_3125 f_0_0 f_0_0 f_0_6875 f_1_5 f_1_0;
   mkAabb f_0_0 f_0_0 f_0_3125 f_0_6875 f_1_5 f_0_6875;
   mkAabb f_0_3125 f_0_0 f_0_0 f_0_6875 f_1_5 f_0_3125;
   mkAabb f_0_3125 f_0_0 f_0_6875 f_0_6875 f_1_5 f_1_0;
   mkAabb f_0_0 f_0_0 f_0_3125 f_0_6875 f_1_5 f_0_6875;
   mkAabb f_0_3125 f_0_0 f_0_0 f_0_6875 f_1_5 f_0_3125;
   mkAabb f_0_3125 f_0_0 f_0_6875 f_0_6875 f_1_5 f_1_0;
   mkAabb f_0_25 f_0_0 f_0_25 f_0_75 f_1_5 f_0_75;
   mkAabb f_0_3125 f_0_0 f_0_0 f_0_6875 f_1_5 f_0_25;
   mkAabb f_0_0 f_0_0 f_0_3125 f_0_75 f_1_5 f_0_6875;
   mkAabb f_0_25 f_0_0 f_0_25 f_0_75 f_1_5 f_0_3125;
   mkAabb f_0_25 f_0_0 f_0_6875 f_0_75 f_1_5 f_0_75;
   mkAabb f_0_3125 f_0_0 f_0_0 f_0_6875 f_1_5 f_0_25;
   mkAabb f_0_0 f_0_0 f_0_3125 f_0_75 f_1_5 f_0_6875;
   mkAabb f_0_25 f_0_0 f_0_25 f_0_75 f_1_5 f_0_3125;
   mkAabb f_0_25 f_0_0 f_0_6875 f_0_75 f_1_5 f_0_75;
   mkAabb f_0_3125 f_0_0 f_0_0 f_0_6875 f_1_5 f_0_25;
   mkAabb f_0_3125 f_0_0 f_0_0 f_0_6875 f_1_5 f_0_6875;
   mkAabb f_0_0 f_0_0 f_0_3125 f_0_6875 f_1_5 f_0_6875;
   mkAabb f_0_3125 f_0_0 f_0_0 f_0_6875 f_1_5 f_0_3125;
   mkAabb f_0_0 f_0_0 f_0_3125 f_0_6875 f_1_5 f_0_6875;
   mkAabb f_0_3125 f_0_0 f_0_0 f_0_6875 f_1_5 f_0_3125;
   mkAabb f_0_25 f_0_0 f_0_25 f_0_75 f_1_5 f_0_75;
   mkAabb f_0_3125 f_0_0 f_0_0 f_0_6875 f_1_5 f_0_25;
   mkAabb f_0_3125 f_0_0 f_0_75 f_0_6875 f_1_5 f_1_0;
   mkAabb f_0_0 f_0_0 f_0_3125 f_0_75 f_1_5 f_0_6875;
   mkAabb f_0_25 f_0_0 f_0_25 f_0_75 f_1_5 f_0_3125;
   mkAabb f_0_25 f_0_0 f_0_6875 f_0_75 f_1_5 f_0_75;
   mkAabb f_0_3125 f_0_0 f_0_0 f_0_6875 f_1_5 f_0_25;
   mkAabb f_0_3125 f_0_0 f_0_75 f_0_6875 f_1_5 f_1_0;
   mkAabb f_0_0 f_0_0 f_0_3125 f_0_75 f_1_5 f_0_6875;
   mkAabb f_0_25 f_0_0 f_0_25 f_0_75 f_1_5 f_0_3125;
   mkAabb f_0_25 f_0_0 f_0_6875 f_0_75 f_1_5 f_0_75;
   mkAabb f_0_3125 f_0_0 f_0_0 f_0_6875 f_1_5 f_0_25;
   mkAabb f_0_3125 f_0_0 f_0_75 f_0_6875 f_1_5 f_1_0;
   mkAabb f_0_3125 f_0_0 f_0_0 f_0_6875 f_1_5 f_1_0;
   mkAabb f_0_0 f_0_0 f_0_3125 f_0_6875 f_1_5 f_0_6875;
   mkAabb f_0_3125 f_0_0 f_0_0 f_0_6875 f_1_5 f_0_3125;
   mkAabb f_0_3125 f_0_0 f_0_6875 f_0_6875 f_1_5 f_1_0;
   mkAabb f_0_0 f_0_0 f_0_3125 f_0_6875 f_1_5 f_0_6875;
   mkAabb f_0_3125 f_0_0 f_0_0 f_0_6875 f_1_5 f_0_3125;
   mkAabb f_0_3125 f_0_0 f_0_6875 f_0_6875 f_1_5 f_1_0;
   mkAabb f_0_25 f_0_0 f_0_25 f_0_75 f_1_5 f_0_75;
   mkAabb f_0_3125 f_0_0 f_0_0 f_0_6875 f_1_5 f_0_25;
   mkAabb f_0_3125 f_0_0 f_0_75 f_0_6875 f_1_5 f_1_0;
   mkAabb f_0_0 f_0_0 f_0_3125 f_0_75 f_1_5 f_0_6875;
   mkAabb f_0_25 f_0_0 f_0_25 f_0_75 f_1_5 f_0_3125;
   mkAabb f_0_25 f_0_0 f_0_6875 f_0_75 f_1_5 f_0_75;
   mkAabb f_0_3125 f_0_0 f_0_0 f_0_6875 f_1_5 f_0_25;
   mkAabb f_0_3125 f_0_0 f_0_75 f_0_6875 f_1_5 f_1_0;
   mkAabb f_0_0 f_0_0 f_0_3125 f_0_75 f_1_5 f_0_6875;
   mkAabb f_0_25 f_0_0 f_0_25 f_0_75 f_1_5 f_0_3125;
   mkAabb f_0_25 f_0_0 f_0_6875 f_0_75 f_1_5 f_0_75;
   mkAabb f_0_3125 f_0_0 f_0_0 f_0_6875 f_1_5 f_0_25;
   mkAabb f_0_3125 f_0_0 f_0_75 f_0_6875 f_1_5 f_1_0;
   mkAabb f_0_3125 f_0_0 f_0_0 f_0_6875 f_1_5 f_1_0;
   mkAabb f_0_0 f_0_0 f_0_3125 f_0_6875 f_1_5 f_0_6875;
   mkAabb f_0_3125 f_0_0 f_0_0 f_0_6875 f_1_5 f_0_3125;
   mkAabb f_0_3125 f_0_0 f_0_6875 f_0_6875 f_1_5 f_1_0;
   mkAabb f_0_0 f_0_0 f_0_3125 f_0_6875 f_1_5 f_0_6875;
   mkAabb f_0_3125 f_0_0 f_0_0 f_0_6875 f_1_5 f_0_3125;
   mkAabb f_0_3125 f_0_0 f_0_6875 f_0_6875 f_1_5 f_1_0;
   mkAabb f_0_25 f_0_0 f_0_25 f_0_75 f_1_5 f_0_75;
   mkAabb f_0_75 f_0_0 f_0_3125 f_1_0 f_1_5 f_0_6875;
   mkAabb f_0_0 f_0_0 f_0_3125 f_1_0 f_1_5 f_0_6875;
   mkAabb f_0_25 f_0_0 f_0_25 f_0_75 f_1_5 f_0_3125;
   mkAabb f_0_25 f_0_0 f_0_6875 f_0_75 f_1_5 f_0_75;
   mkAabb f_0_0 f_0_0 f_0_3125 f_1_0 f_1_5 f_0_6875;
   mkAabb f_0_25 f_0_0 f_0_25 f_0_75 f_1_5 f_0_3125;
   mkAabb f_0_25 f_0_0 f_0_6875 f_0_75 f_1_5 f_0_75;
   mkAabb f_0_3125 f_0_0 f_0_3125 f_1_0 f_1_5 f_0_6875;
   mkAabb f_0_0 f_0_0 f_0_3125 f_1_0 f_1_5 f_0_6875;
   mkAabb f_0_0 f_0_0 f_0_3125 f_1_0 f_1_5 f_0_6875;
   mkAabb f_0_25 f_0_0 f_0_25 f_0_75 f_1_5 f_0_75;
   mkAabb f_0_3125 f_0_0 f_0_75 f_0_6875 f_1_5 f_1_0;
   mkAabb f_0_75 f_0_0 f_0_3125 f_1_0 f_1_5 f_0_6875;
   mkAabb f_0_0 f_0_0 f_0_3125 f_1_0 f_1_5 f_0_6875;
   mkAabb f_0_25 f_0_0 f_0_25 f_0_75 f_1_5 f_0_3125;
   mkAabb f_0_25 f_0_0 f_0_6875 f_0_75 f_1_5 f_0_75;
   mkAabb f_0_3125 f_0_0 f_0_75 f_0_6875 f_1_5 f_1_0;
   mkAabb f_0_0 f_0_0 f_0_3125 f_1_0 f_1_5 f_0_6875;
   mkAabb f_0_25 f_0_0 f_0_25 f_0_75 f_1_5 f_0_3125;
   mkAabb f_0_25 f_0_0 f_0_6875 f_0_75 f_1_5 f_0_75;
   mkAabb f_0_3125 f_0_0 f_0_75 f_0_6875 f_1_5 f_1_0;
   mkAabb f_0_3125 f_0_0 f_0_3125 f_0_6875 f_1_5 f_1_0;
   mkAabb f_0_6875 f_0_0 f_0_3125 f_1_0 f_1_5 f_0_6875;
   mkAabb f_0_0 f_0_0 f_0_3125 f_1_0 f_1_5 f_0_6875;
   mkAabb f_0_3125 f_0_0 f_0_6875 f_0_6875 f_1_5 f_1_0;
   mkAabb f_0_0 f_0_0 f_0_3125 f_1_0 f_1_5 f_0_6875;
   mkAabb f_0_3125 f_0_0 f_0_6875 f_0_6875 f_1_5 f_1_0;
   mkAabb f_0_25 f_0_0 f_0_25 f_0_75 f_1_5 f_0_75;
   mkAabb f_0_3125 f_0_0 f_0_75 f_0_6875 f_1_5 f_1_0;
   mkAabb f_0_75 f_0_0 f_0_3125 f_1_0 f_1_5 f_0_6875;
   mkAabb f_0_0 f_0_0 f_0_3125 f_1_0 f_1_5 f_0_6875;
   mkAabb f_0_25 f_0_0 f_0_25 f_0_75 f_1_5 f_0_3125;
   mkAabb f_0_25 f_0_0 f_0_6875 f_0_75 f_1_5 f_0_75;
   mkAabb f_0_3125 f_0_0 f_0_75 f_0_6875 f_1_5 f_1_0;
   mkAabb f_0_0 f_0_0 f_0_3125 f_1_0 f_1_5 f_0_6875;
   mkAabb f_0_25 f_0_0 f_0_25 f_0_75 f_1_5 f_0_3125;
   mkAabb f_0_25 f_0_0 f_0_6875 f_0_75 f_1_5 f_0_75;
   mkAabb f_0_3125 f_0_0 f_0_75 f_0_6875 f_1_5 f_1_0;
   mkAabb f_0_3125 f_0_0 f_0_3125 f_0_6875 f_1_5 f_1_0;
   mkAabb f_0_6875 f_0_0 f_0_3125 f_1_0 f_1_5 f_0_6875;
   mkAabb f_0_0 f_0_0 f_0_3125 f_1_0 f_1_5 f_0_6875;
   mkAabb f_0_3125 f_0_0 f_0_6875 f_0_6875 f_1_5 f_1_0;
   mkAabb f_0_0 f_0_0 f_0_3125 f_1_0 f_1_5 f_0_6875;
   mkAabb f_0_3125 f_0_0 f_0_6875 f_0_6875 f_1_5 f_1_0;
   mkAabb f_0_25 f_0_0 f_0_25 f_0_75 f_1_5 f_0_75;
   mkAabb f_0_3125 f_0_0 f_0_0 f_0_6875 f_1_5 f_0_25;
   mkAabb f_0_75 f_0_0 f_0_3125 f_1_0 f_1_5 f_0_6875;
   mkAabb f_0_0 f_0_0 f_0_3125 f_1_0 f_1_5 f_0_6875;
   mkAabb f_0_25 f_0_0 f_0_25 f_0_75 f_1_5 f_0_3125;
   mkAabb f_0_25 f_0_0 f_0_6875 f_0_75 f_1_5 f_0_75].
Definition SHAPE_BOXES_72 : list Aabb :=
  [mkAabb f_0_3125 f_0_0 f_0_0 f_0_6875 f_1_5 f_0_25;
   mkAabb f_0_0 f_0_0 f_0_3125 f_1_0 f_1_5 f_0_6875;
   mkAabb f_0_25 f_0_0 f_0_25 f_0_75 f_1_5 f_0_3125;
   mkAabb f_0_25 f_0_0 f_0_6875 f_0_75 f_1_5 f_0_75;
   mkAabb f_0_3125 f_0_0 f_0_0 f_0_6875 f_1_5 f_0_25;
   mkAabb f_0_3125 f_0_0 f_0_0 f_0_6875 f_1_5 f_0_6875;
   mkAabb f_0_6875 f_0_0 f_0_3125 f_1_0 f_1_5 f_0_6875;
   mkAabb f_0_0 f_0_0 f_0_3125 f_1_0 f_1_5 f_0_6875;
   mkAabb f_0_3125 f_0_0 f_0_0 f_0_6875 f_1_5 f_0_3125;
   mkAabb f_0_0 f_0_0 f_0_3125 f_1_0 f_1_5 f_0_6875;
   mkAabb f_0_3125 f_0_0 f_0_0 f_0_6875 f_1_5 f_0_3125;
   mkAabb f_0_25 f_0_0 f_0_25 f_0_75 f_1_5 f_0_75;
   mkAabb f_0_3125 f_0_0 f_0_0 f_0_6875 f_1_5 f_0_25;
   mkAabb f_0_3125 f_0_0 f_0_75 f_0_6875 f_1_5 f_1_0;
   mkAabb f_0_75 f_0_0 f_0_3125 f_1_0 f_1_5 f_0_6875;
   mkAabb f_0_0 f_0_0 f_0_3125 f_1_0 f_1_5 f_0_6875;
   mkAabb f_0_25 f_0_0 f_0_25 f_0_75 f_1_5 f_0_3125;
   mkAabb f_0_25 f_0_0 f_0_6875 f_0_75 f_1_5 f_0_75;
   mkAabb f_0_3125 f_0_0 f_0_0 f_0_6875 f_1_5 f_0_25;
   mkAabb f_0_3125 f_0_0 f_0_75 f_0_6875 f_1_5 f_1_0;
   mkAabb f_0_0 f_0_0 f_0_3125 f_1_0 f_1_5 f_0_6875;
   mkAabb f_0_25 f_0_0 f_0_25 f_0_75 f_1_5 f_0_3125;
   mkAabb f_0_25 f_0_0 f_0_6875 f_0_75 f_1_5 f_0_75;
   mkAabb f_0_3125 f_0_0 f_0_0 f_0_6875 f_1_5 f_0_25;
   mkAabb f_0_3125 f_0_0 f_0_75 f_0_6875 f_1_5 f_1_0;
   mkAabb f_0_3125 f_0_0 f_0_0 f_0_6875 f_1_5 f_1_0;
   mkAabb f_0_6875 f_0_0 f_0_3125 f_1_0 f_1_5 f_0_6875;
   mkAabb f_0_0 f_0_0 f_0_3125 f_1_0 f_1_5 f_0_6875;
   mkAabb f_0_3125 f_0_0 f_0_0 f_0_6875 f_1_5 f_0_3125;
   mkAabb f_0_3125 f_0_0 f_0_6875 f_0_6875 f_1_5 f_1_0;
   mkAabb f_0_0 f_0_0 f_0_3125 f_1_0 f_1_5 f_0_6875;
   mkAabb f_0_3125 f_0_0 f_0_0 f_0_6875 f_1_5 f_0_3125;
   mkAabb f_0_3125 f_0_0 f_0_6875 f_0_6875 f_1_5 f_1_0;
   mkAabb f_0_25 f_0_0 f_0_25 f_0_75 f_1_5 f_0_75;
   mkAabb f_0_3125 f_0_0 f_0_0 f_0_6875 f_1_5 f_0_25;
   mkAabb f_0_3125 f_0_0 f_0_75 f_0_6875 f_1_5 f_1_0;
   mkAabb f_0_75 f_0_0 f_0_3125 f_1_0 f_1_5 f_0_6875;
   mkAabb f_0_0 f_0_0 f_0_3125 f_1_0 f_1_5 f_0_6875;
   mkAabb f_0_25 f_0_0 f_0_25 f_0_75 f_1_5 f_0_3125;
   mkAabb f_0_25 f_0_0 f_0_6875 f_0_75 f_1_5 f_0_75;
   mkAabb f_0_3125 f_0_0 f_0_0 f_0_6875 f_1_5 f_0_25;
   mkAabb f_0_3125 f_0_0 f_0_75 f_0_6875 f_1_5 f_1_0;
   mkAabb f_0_0 f_0_0 f_0_3125 f_1_0 f_1_5 f_0_6875;
   mkAabb f_0_25 f_0_0 f_0_25 f_0_75 f_1_5 f_0_3125;
   mkAabb f_0_25 f_0_0 f_0_6875 f_0_75 f_1_5 f_0_75;
   mkAabb f_0_3125 f_0_0 f_0_0 f_0_6875 f_1_5 f_0_25;
   mkAabb f_0_3125 f_0_0 f_0_75 f_0_6875 f_1_5 f_1_0;
   mkAabb f_0_3125 f_0_0 f_0_0 f_0_6875 f_1_5 f_1_0;
   mkAabb f_0_6875 f_0_0 f_0_3125 f_1_0 f_1_5 f_0_6875;
   mkAabb f_0_0 f_0_0 f_0_3125 f_1_0 f_1_5 f_0_6875;
   mkAabb f_0_3125 f_0_0 f_0_0 f_0_6875 f_1_5 f_0_3125;
   mkAabb f_0_3125 f_0_0 f_0_6875 f_0_6875 f_1_5 f_1_0;
   mkAabb f_0_0 f_0_0 f_0_3125 f_1_0 f_1_5 f_0_6875;
   mkAabb f_0_3125 f_0_0 f_0_0 f_0_6875 f_1_5 f_0_3125;
   mkAabb f_0_3125 f_0_0 f_0_6875 f_0_6875 f_1_5 f_1_0;
   mkAabb f_0_25 f_0_0 f_0_25 f_0_75 f_1_5 f_0_75;
   mkAabb f_0_3125 f_0_0 f_0_0 f_0_6875 f_1_5 f_0_25;
   mkAabb f_0_75 f_0_0 f_0_3125 f_1_0 f_1_5 f_0_6875;
   mkAabb f_0_0 f_0_0 f_0_3125 f_1_0 f_1_5 f_0_6875;
   mkAabb f_0_25 f_0_0 f_0_25 f_0_75 f_1_5 f_0_3125;
   mkAabb f_0_25 f_0_0 f_0_6875 f_0_75 f_1_5 f_0_75;
   mkAabb f_0_3125 f_0_0 f_0_0 f_0_6875 f_1_5 f_0_25;
   mkAabb f_0_0 f_0_0 f_0_3125 f_1_0 f_1_5 f_0_6875;
   mkAabb f_0_25 f_0_0 f_0_25 f_0_75 f_1_5 f_0_3125;
   mkAabb f_0_25 f_0_0 f_0_6875 f_0_75 f_1_5 f_0_75;
   mkAabb f_0_3125 f_0_0 f_0_0 f_0_6875 f_1_5 f_0_25;
   mkAabb f_0_3125 f_0_0 f_0_0 f_0_6875 f_1_5 f_0_6875;
   mkAabb f_0_6875 f_0_0 f_0_3125 f_1_0 f_1_5 f_0_6875;
   mkAabb f_0_0 f_0_0 f_0_3125 f_1_0 f_1_5 f_0_6875;
   mkAabb f_0_3125 f_0_0 f_0_0 f_0_6875 f_1_5 f_0_3125;
   mkAabb f_0_0 f_0_0 f_0_3125 f_1_0 f_1_5 f_0_6875;
   mkAabb f_0_3125 f_0_0 f_0_0 f_0_6875 f_1_5 f_0_3125;
   mkAabb f_0_25 f_0_0 f_0_25 f_0_75 f_1_5 f_0_75;
   mkAabb f_0_3125 f_0_0 f_0_0 f_0_6875 f_1_5 f_0_25;
   mkAabb f_0_3125 f_0_0 f_0_75 f_0_6875 f_1_5 f_1_0;
   mkAabb f_0_75 f_0_0 f_0_3125 f_1_0 f_1_5 f_0_6875;
   mkAabb f_0_0 f_0_0 f_0_3125 f_1_0 f_1_5 f_0_6875;
   mkAabb f_0_25 f_0_0 f_0_25 f_0_75 f_1_5 f_0_3125;
   mkAabb f_0_25 f_0_0 f_0_6875 f_0_75 f_1_5 f_0_75;
   mkAabb f_0_3125 f_0_0 f_0_0 f_0_6875 f_1_5 f_0_25;
   mkAabb f_0_3125 f_0_0 f_0_75 f_0_6875 f_1_5 f_1_0;
   mkAabb f_0_0 f_0_0 f_0_3125 f_1_0 f_1_5 f_0_6875;
   mkAabb f_0_25 f_0_0 f_0_25 f_0_75 f_1_5 f_0_3125;
   mkAabb f_0_25 f_0_0 f_0_6875 f_0_75 f_1_5 f_0_75;
   mkAabb f_0_3125 f_0_0 f_0_0 f_0_6875 f_1_5 f_0_25;
   mkAabb f_0_3125 f_0_0 f_0_75 f_0_6875 f_1_5 f_1_0;
   mkAabb f_0_3125 f_0_0 f_0_0 f_0_6875 f_1_5 f_1_0;
   mkAabb f_0_6875 f_0_0 f_0_3125 f_1_0 f_1_5 f_0_6875;
   mkAabb f_0_0 f_0_0 f_0_3125 f_1_0 f_1_5 f_0_6875;
   mkAabb f_0_3125 f_0_0 f_0_0 f_0_6875 f_1_5 f_0_3125;
   mkAabb f_0_3125 f_0_0 f_0_6875 f_0_6875 f_1_5 f_1_0;
   mkAabb f_0_0 f_0_0 f_0_3125 f_1_0 f_1_5 f_0_6875;
   mkAabb f_0_3125 f_0_0 f_0_0 f_0_6875 f_1_5 f_0_3125;
   mkAabb f_0_3125 f_0_0 f_0_6875 f_0_6875 f_1_5 f_1_0;
   mkAabb f_0_25 f_0_0 f_0_25 f_0_75 f_1_5 f_0_75;
   mkAabb f_0_3125 f_0_0 f_0_0 f_0_6875 f_1_5 f_0_25;
   mkAabb f_0_3125 f_0_0 f_0_75 f_0_6875 f_1_5 f_1_0;
   mkAabb f_0_75 f_0_0 f_0_3125 f_1_0 f_1_5 f_0_6875;
   mkAabb f_0_0 f_0_0 f_0_3125 f_1_0 f_1_5 f_0_6875;
   mkAabb f_0_25 f_0_0 f_0_25 f_0_75 f_1_5 f_0_3125;
   mkAabb f_0_25 f_0_0 f_0_6875 f_0_75 f_1_5 f_0_75;
   mkAabb f_0_3125 f_0_0 f_0_0 f_0_6875 f_1_5 f_0_25;
   mkAabb f_0_3125 f_0_0 f_0_75 f_0_6875 f_1_5 f_1_0;
   mkAabb f_0_0 f_0_0 f_0_3125 f_1_0 f_1_5 f_0_6875;
   mkAabb f_0_25 f_0_0 f_0_25 f_0_75 f_1_5 f_0_3125;
   mkAabb f_0_25 f_0_0 f_0_6875 f_0_75 f_1_5 f_0_75;
   mkAabb f_0_3125 f_0_0 f_0_0 f_0_6875 f_1_5 f_0_25;
   mkAabb f_0_3125 f_0_0 f_0_75 f_0_6875 f_1_5 f_1_0;
   mkAabb f_0_3125 f_0_0 f_0_0 f_0_6875 f_1_5 f_1_0;
   mkAabb f_0_6875 f_0_0 f_0_3125 f_1_0 f_1_5 f_0_6875;
   mkAabb f_0_0 f_0_0 f_0_3125 f_1_0 f_1_5 f_0_6875;
   mkAabb f_0_3125 f_0_0 f_0_0 f_0_6875 f_1_5 f_0_3125;
   mkAabb f_0_3125 f_0_0 f_0_6875 f_0_6875 f_1_5 f_1_0;
   mkAabb f_0_0 f_0_0 f_0_3125 f_1_0 f_1_5 f_0_6875;
   mkAabb f_0_3125 f_0_0 f_0_0 f_0_6875 f_1_5 f_0_3125;
   mkAabb f_0_3125 f_0_0 f_0_6875 f_0_6875 f_1_5 f_1_0;
   mkAabb f_0_25 f_0_0 f_0_25 f_0_75 f_1_5 f_0_75;
   mkAabb f_0_75 f_0_0 f_0_3125 f_1_0 f_1_5 f_0_6875;
   mkAabb f_0_0 f_0_0 f_0_3125 f_1_0 f_1_5 f_0_6875;
   mkAabb f_0_25 f_0_0 f_0_25 f_0_75 f_1_5 f_0_3125;
   mkAabb f_0_25 f_0_0 f_0_6875 f_0_75 f_1_5 f_0_75;
   mkAabb f_0_0 f_0_0 f_0_3125 f_1_0 f_1_5 f_0_6875;
   mkAabb f_0_25 f_0_0 f_0_25 f_0_75 f_1_5 f_0_3125;
   mkAabb f_0_25 f_0_0 f_0_6875 f_0_75 f_1_5 f_0_75;
   mkAabb f_0_3125 f_0_0 f_0_3125 f_1_0 f_1_5 f_0_6875;
   mkAabb f_0_0 f_0_0 f_0_3125 f_1_0 f_1_5 f_0_6875;
   mkAabb f_0_0 f_0_0 f_0_3125 f_1_0 f_1_5 f_0_6875;
   mkAabb f_0_25 f_0_0 f_0_25 f_0_75 f_1_5 f_0_75;
   mkAabb f_0_3125 f_0_0 f_0_75 f_0_6875 f_1_5 f_1_0;
   mkAabb f_0_75 f_0_0 f_0_3125 f_1_0 f_1_5 f_0_6875;
   mkAabb f_0_0 f_0_0 f_0_3125 f_1_0 f_1_5 f_0_6875;
   mkAabb f_0_25 f_0_0 f_0_25 f_0_75 f_1_5 f_0_3125;
   mkAabb f_0_25 f_0_0 f_0_6875 f_0_75 f_1_5 f_0_75;
   mkAabb f_0_3125 f_0_0 f_0_75 f_0_6875 f_1_5 f_1_0;
   mkAabb f_0_0 f_0_0 f_0_3125 f_1_0 f_1_5 f_0_6875;
   mkAabb f_0_25 f_0_0 f_0_25 f_0_75 f_1_5 f_0_3125;
   mkAabb f_0_25 f_0_0 f_0_6875 f_0_75 f_1_5 f_0_75;
   mkAabb f_0_3125 f_0_0 f_0_75 f_0_6875 f_1_5 f_1_0;
   mkAabb f_0_3125 f_0_0 f_0_3125 f_0_6875 f_1_5 f_1_0;
   mkAabb f_0_6875 f_0_0 f_0_3125 f_1_0 f_1_5 f_0_6875;
   mkAabb f_0_0 f_0_0 f_0_3125 f_1_0 f_1_5 f_0_6875;
   mkAabb f_0_3125 f_0_0 f_0_6875 f_0_6875 f_1_5 f_1_0;
   mkAabb f_0_0 f_0_0 f_0_3125 f_1_0 f_1_5 f_0_6875;
   mkAabb f_0_3125 f_0_0 f_0_6875 f_0_6875 f_1_5 f_1_0;
   mkAabb f_0_25 f_0_0 f_0_25 f_0_75 f_1_5 f_0_75;
   mkAabb f_0_3125 f_0_0 f_0_75 f_0_6875 f_1_5 f_1_0;
   mkAabb f_0_75 f_0_0 f_0_3125 f_1_0 f_1_5 f_0_6875;
   mkAabb f_0_0 f_0_0 f_0_3125 f_1_0 f_1_5 f_0_6875;
   mkAabb f_0_25 f_0_0 f_0_25 f_0_75 f_1_5 f_0_3125;
   mkAabb f_0_25 f_0_0 f_0_6875 f_0_75 f_1_5 f_0_75].
Definition SHAPE_BOXES_73 : list Aabb :=
  [mkAabb f_0_3125 f_0_0 f_0_75 f_0_6875 f_1_5 f_1_0;
   mkAabb f_0_0 f_0_0 f_0_3125 f_1_0 f_1_5 f_0_6875;
   mkAabb f_0_25 f_0_0 f_0_25 f_0_75 f_1_5 f_0_3125;
   mkAabb f_0_25 f_0_0 f_0_6875 f_0_75 f_1_5 f_0_75;
   mkAabb f_0_3125 f_0_0 f_0_75 f_0_6875 f_1_5 f_1_0;
   mkAabb f_0_3125 f_0_0 f_0_3125 f_0_6875 f_1_5 f_1_0;
   mkAabb f_0_6875 f_0_0 f_0_3125 f_1_0 f_1_5 f_0_6875;
   mkAabb f_0_0 f_0_0 f_0_3125 f_1_0 f_1_5 f_0_6875;
   mkAabb f_0_3125 f_0_0 f_0_6875 f_0_6875 f_1_5 f_1_0;
   mkAabb f_0_0 f_0_0 f_0_3125 f_1_0 f_1_5 f_0_6875;
   mkAabb f_0_3125 f_0_0 f_0_6875 f_0_6875 f_1_5 f_1_0;
   mkAabb f_0_25 f_0_0 f_0_25 f_0_75 f_1_5 f_0_75;
   mkAabb f_0_3125 f_0_0 f_0_0 f_0_6875 f_1_5 f_0_25;
   mkAabb f_0_75 f_0_0 f_0_3125 f_1_0 f_1_5 f_0_6875;
   mkAabb f_0_0 f_0_0 f_0_3125 f_1_0 f_1_5 f_0_6875;
   mkAabb f_0_25 f_0_0 f_0_25 f_0_75 f_1_5 f_0_3125;
   mkAabb f_0_25 f_0_0 f_0_6875 f_0_75 f_1_5 f_0_75;
   mkAabb f_0_3125 f_0_0 f_0_0 f_0_6875 f_1_5 f_0_25;
   mkAabb f_0_0 f_0_0 f_0_3125 f_1_0 f_1_5 f_0_6875;
   mkAabb f_0_25 f_0_0 f_0_25 f_0_75 f_1_5 f_0_3125;
   mkAabb f_0_25 f_0_0 f_0_6875 f_0_75 f_1_5 f_0_75;
   mkAabb f_0_3125 f_0_0 f_0_0 f_0_6875 f_1_5 f_0_25;
   mkAabb f_0_3125 f_0_0 f_0_0 f_0_6875 f_1_5 f_0_6875;
   mkAabb f_0_6875 f_0_0 f_0_3125 f_1_0 f_1_5 f_0_6875;
   mkAabb f_0_0 f_0_0 f_0_3125 f_1_0 f_1_5 f_0_6875;
   mkAabb f_0_3125 f_0_0 f_0_0 f_0_6875 f_1_5 f_0_3125;
   mkAabb f_0_0 f_0_0 f_0_3125 f_1_0 f_1_5 f_0_6875;
   mkAabb f_0_3125 f_0_0 f_0_0 f_0_6875 f_1_5 f_0_3125;
   mkAabb f_0_25 f_0_0 f_0_25 f_0_75 f_1_5 f_0_75;
   mkAabb f_0_3125 f_0_0 f_0_0 f_0_6875 f_1_5 f_0_25;
   mkAabb f_0_3125 f_0_0 f_0_75 f_0_6875 f_1_5 f_1_0;
   mkAabb f_0_75 f_0_0 f_0_3125 f_1_0 f_1_5 f_0_6875;
   mkAabb f_0_0 f_0_0 f_0_3125 f_1_0 f_1_5 f_0_6875;
   mkAabb f_0_25 f_0_0 f_0_25 f_0_75 f_1_5 f_0_3125;
   mkAabb f_0_25 f_0_0 f_0_6875 f_0_75 f_1_5 f_0_75;
   mkAabb f_0_3125 f_0_0 f_0_0 f_0_6875 f_1_5 f_0_25;
   mkAabb f_0_3125 f_0_0 f_0_75 f_0_6875 f_1_5 f_1_0;
   mkAabb f_0_0 f_0_0 f_0_3125 f_1_0 f_1_5 f_0_6875;
   mkAabb f_0_25 f_0_0 f_0_25 f_0_75 f_1_5 f_0_3125;
   mkAabb f_0_25 f_0_0 f_0_6875 f_0_75 f_1_5 f_0_75;
   mkAabb f_0_3125 f_0_0 f_0_0 f_0_6875 f_1_5 f_0_25;
   mkAabb f_0_3125 f_0_0 f_0_75 f_0_6875 f_1_5 f_1_0;
   mkAabb f_0_3125 f_0_0 f_0_0 f_0_6875 f_1_5 f_1_0;
   mkAabb f_0_6875 f_0_0 f_0_3125 f_1_0 f_1_5 f_0_6875;
   mkAabb f_0_0 f_0_0 f_0_3125 f_1_0 f_1_5 f_0_6875;
   mkAabb f_0_3125 f_0_0 f_0_0 f_0_6875 f_1_5 f_0_3125;
   mkAabb f_0_3125 f_0_0 f_0_6875 f_0_6875 f_1_5 f_1_0;
   mkAabb f_0_0 f_0_0 f_0_3125 f_1_0 f_1_5 f_0_6875;
   mkAabb f_0_3125 f_0_0 f_0_0 f_0_6875 f_1_5 f_0_3125;
   mkAabb f_0_3125 f_0_0 f_0_6875 f_0_6875 f_1_5 f_1_0;
   mkAabb f_0_25 f_0_0 f_0_25 f_0_75 f_1_5 f_0_75;
   mkAabb f_0_3125 f_0_0 f_0_0 f_0_6875 f_1_5 f_0_25;
   mkAabb f_0_3125 f_0_0 f_0_75 f_0_6875 f_1_5 f_1_0;
   mkAabb f_0_75 f_0_0 f_0_3125 f_1_0 f_1_5 f_0_6875;
   mkAabb f_0_0 f_0_0 f_0_3125 f_1_0 f_1_5 f_0_6875;
   mkAabb f_0_25 f_0_0 f_0_25 f_0_75 f_1_5 f_0_3125;
   mkAabb f_0_25 f_0_0 f_0_6875 f_0_75 f_1_5 f_0_75;
   mkAabb f_0_3125 f_0_0 f_0_0 f_0_6875 f_1_5 f_0_25;
   mkAabb f_0_3125 f_0_0 f_0_75 f_0_6875 f_1_5 f_1_0;
   mkAabb f_0_0 f_0_0 f_0_3125 f_1_0 f_1_5 f_0_6875;
   mkAabb f_0_25 f_0_0 f_0_25 f_0_75 f_1_5 f_0_3125;
   mkAabb f_0_25 f_0_0 f_0_6875 f_0_75 f_1_5 f_0_75;
   mkAabb f_0_3125 f_0_0 f_0_0 f_0_6875 f_1_5 f_0_25;
   mkAabb f_0_3125 f_0_0 f_0_75 f_0_6875 f_1_5 f_1_0;
   mkAabb f_0_3125 f_0_0 f_0_0 f_0_6875 f_1_5 f_1_0;
   mkAabb f_0_6875 f_0_0 f_0_3125 f_1_0 f_1_5 f_0_6875;
   mkAabb f_0_0 f_0_0 f_0_3125 f_1_0 f_1_5 f_0_6875;
   mkAabb f_0_3125 f_0_0 f_0_0 f_0_6875 f_1_5 f_0_3125;
   mkAabb f_0_3125 f_0_0 f_0_6875 f_0_6875 f_1_5 f_1_0;
   mkAabb f_0_0 f_0_0 f_0_3125 f_1_0 f_1_5 f_0_6875;
   mkAabb f_0_3125 f_0_0 f_0_0 f_0_6875 f_1_5 f_0_3125;
   mkAabb f_0_3125 f_0_0 f_0_6875 f_0_6875 f_1_5 f_1_0;
   mkAabb f_0_25 f_0_0 f_0_25 f_0_75 f_1_5 f_0_75;
   mkAabb f_0_3125 f_0_0 f_0_0 f_0_6875 f_1_5 f_0_25;
   mkAabb f_0_75 f_0_0 f_0_3125 f_1_0 f_1_5 f_0_6875;
   mkAabb f_0_0 f_0_0 f_0_3125 f_1_0 f_1_5 f_0_6875;
   mkAabb f_0_25 f_0_0 f_0_25 f_0_75 f_1_5 f_0_3125;
   mkAabb f_0_25 f_0_0 f_0_6875 f_0_75 f_1_5 f_0_75;
   mkAabb f_0_3125 f_0_0 f_0_0 f_0_6875 f_1_5 f_0_25;
   mkAabb f_0_0 f_0_0 f_0_3125 f_1_0 f_1_5 f_0_6875;
   mkAabb f_0_25 f_0_0 f_0_25 f_0_75 f_1_5 f_0_3125;
   mkAabb f_0_25 f_0_0 f_0_6875 f_0_75 f_1_5 f_0_75;
   mkAabb f_0_3125 f_0_0 f_0_0 f_0_6875 f_1_5 f_0_25;
   mkAabb f_0_3125 f_0_0 f_0_0 f_0_6875 f_1_5 f_0_6875;
   mkAabb f_0_6875 f_0_0 f_0_3125 f_1_0 f_1_5 f_0_6875;
   mkAabb f_0_0 f_0_0 f_0_3125 f_1_0 f_1_5 f_0_6875;
   mkAabb f_0_3125 f_0_0 f_0_0 f_0_6875 f_1_5 f_0_3125;
   mkAabb f_0_0 f_0_0 f_0_3125 f_1_0 f_1_5 f_0_6875;
   mkAabb f_0_3125 f_0_0 f_0_0 f_0_6875 f_1_5 f_0_3125;
   mkAabb f_0_25 f_0_0 f_0_25 f_0_75 f_1_5 f_0_75;
   mkAabb f_0_3125 f_0_0 f_0_0 f_0_6875 f_1_5 f_0_25;
   mkAabb f_0_3125 f_0_0 f_0_75 f_0_6875 f_1_5 f_1_0;
   mkAabb f_0_75 f_0_0 f_0_3125 f_1_0 f_1_5 f_0_6875;
   mkAabb f_0_0 f_0_0 f_0_3125 f_1_0 f_1_5 f_0_6875;
   mkAabb f_0_25 f_0_0 f_0_25 f_0_75 f_1_5 f_0_3125;
   mkAabb f_0_25 f_0_0 f_0_6875 f_0_75 f_1_5 f_0_75;
   mkAabb f_0_3125 f_0_0 f_0_0 f_0_6875 f_1_5 f_0_25;
   mkAabb f_0_3125 f_0_0 f_0_75 f_0_6875 f_1_5 f_1_0;
   mkAabb f_0_0 f_0_0 f_0_3125 f_1_0 f_1_5 f_0_6875;
   mkAabb f_0_25 f_0_0 f_0_25 f_0_75 f_1_5 f_0_3125;
   mkAabb f_0_25 f_0_0 f_0_6875 f_0_75 f_1_5 f_0_75;
   mkAabb f_0_3125 f_0_0 f_0_0 f_0_6875 f_1_5 f_0_25;
   mkAabb f_0_3125 f_0_0 f_0_75 f_0_6875 f_1_5 f_1_0;
   mkAabb f_0_3125 f_0_0 f_0_0 f_0_6875 f_1_5 f_1_0;
   mkAabb f_0_6875 f_0_0 f_0_3125 f_1_0 f_1_5 f_0_6875;
   mkAabb f_0_0 f_0_0 f_0_3125 f_1_0 f_1_5 f_0_6875;
   mkAabb f_0_3125 f_0_0 f_0_0 f_0_6875 f_1_5 f_0_3125;
   mkAabb f_0_3125 f_0_0 f_0_6875 f_0_6875 f_1_5 f_1_0;
   mkAabb f_0_0 f_0_0 f_0_3125 f_1_0 f_1_5 f_0_6875;
   mkAabb f_0_3125 f_0_0 f_0_0 f_0_6875 f_1_5 f_0_3125;
   mkAabb f_0_3125 f_0_0 f_0_6875 f_0_6875 f_1_5 f_1_0;
   mkAabb f_0_25 f_0_0 f_0_25 f_0_75 f_1_5 f_0_75;
   mkAabb f_0_3125 f_0_0 f_0_0 f_0_6875 f_1_5 f_0_25;
   mkAabb f_0_3125 f_0_0 f_0_75 f_0_6875 f_1_5 f_1_0;
   mkAabb f_0_75 f_0_0 f_0_3125 f_1_0 f_1_5 f_0_6875;
   mkAabb f_0_0 f_0_0 f_0_3125 f_1_0 f_1_5 f_0_6875;
   mkAabb f_0_25 f_0_0 f_0_25 f_0_75 f_1_5 f_0_3125;
   mkAabb f_0_25 f_0_0 f_0_6875 f_0_75 f_1_5 f_0_75;
   mkAabb f_0_3125 f_0_0 f_0_0 f_0_6875 f_1_5 f_0_25;
   mkAabb f_0_3125 f_0_0 f_0_75 f_0_6875 f_1_5 f_1_0;
   mkAabb f_0_0 f_0_0 f_0_3125 f_1_0 f_1_5 f_0_6875;
   mkAabb f_0_25 f_0_0 f_0_25 f_0_75 f_1_5 f_0_3125;
   mkAabb f_0_25 f_0_0 f_0_6875 f_0_75 f_1_5 f_0_75;
   mkAabb f_0_3125 f_0_0 f_0_0 f_0_6875 f_1_5 f_0_25;
   mkAabb f_0_3125 f_0_0 f_0_75 f_0_6875 f_1_5 f_1_0;
   mkAabb f_0_3125 f_0_0 f_0_0 f_0_6875 f_1_5 f_1_0;
   mkAabb f_0_6875 f_0_0 f_0_3125 f_1_0 f_1_5 f_0_6875;
   mkAabb f_0_0 f_0_0 f_0_3125 f_1_0 f_1_5 f_0_6875;
   mkAabb f_0_3125 f_0_0 f_0_0 f_0_6875 f_1_5 f_0_3125;
   mkAabb f_0_3125 f_0_0 f_0_6875 f_0_6875 f_1_5 f_1_0;
   mkAabb f_0_0 f_0_0 f_0_3125 f_1_0 f_1_5 f_0_6875;
   mkAabb f_0_3125 f_0_0 f_0_0 f_0_6875 f_1_5 f_0_3125;
   mkAabb f_0_3125 f_0_0 f_0_6875 f_0_6875 f_1_5 f_1_0;
   mkAabb f_0_25 f_0_0 f_0_25 f_0_75 f_1_5 f_0_75;
   mkAabb f_0_0 f_0_0 f_0_3125 f_0_75 f_1_5 f_0_6875;
   mkAabb f_0_25 f_0_0 f_0_25 f_0_75 f_1_5 f_0_3125;
   mkAabb f_0_25 f_0_0 f_0_6875 f_0_75 f_1_5 f_0_75;
   mkAabb f_0_0 f_0_0 f_0_3125 f_0_75 f_1_5 f_0_6875;
   mkAabb f_0_25 f_0_0 f_0_25 f_0_75 f_1_5 f_0_3125;
   mkAabb f_0_25 f_0_0 f_0_6875 f_0_75 f_1_5 f_0_75;
   mkAabb f_0_0 f_0_0 f_0_3125 f_0_6875 f_1_5 f_0_6875;
   mkAabb f_0_0 f_0_0 f_0_3125 f_0_6875 f_1_5 f_0_6875;
   mkAabb f_0_25 f_0_0 f_0_25 f_0_75 f_1_5 f_0_75;
   mkAabb f_0_3125 f_0_0 f_0_75 f_0_6875 f_1_5 f_1_0;
   mkAabb f_0_0 f_0_0 f_0_3125 f_0_75 f_1_5 f_0_6875;
   mkAabb f_0_25 f_0_0 f_0_25 f_0_75 f_1_5 f_0_3125;
   mkAabb f_0_25 f_0_0 f_0_6875 f_0_75 f_1_5 f_0_75;
   mkAabb f_0_3125 f_0_0 f_0_75 f_0_6875 f_1_5 f_1_0;
   mkAabb f_0_0 f_0_0 f_0_3125 f_0_75 f_1_5 f_0_6875;
   mkAabb f_0_25 f_0_0 f_0_25 f_0_75 f_1_5 f_0_3125].
Definition SHAPE_BOXES_74 : list Aabb :=
  [mkAabb f_0_25 f_0_0 f_0_6875 f_0_75 f_1_5 f_0_75;
   mkAabb f_0_3125 f_0_0 f_0_75 f_0_6875 f_1_5 f_1_0;
   mkAabb f_0_3125 f_0_0 f_0_3125 f_0_6875 f_1_5 f_1_0;
   mkAabb f_0_0 f_0_0 f_0_3125 f_0_6875 f_1_5 f_0_6875;
   mkAabb f_0_3125 f_0_0 f_0_6875 f_0_6875 f_1_5 f_1_0;
   mkAabb f_0_0 f_0_0 f_0_3125 f_0_6875 f_1_5 f_0_6875;
   mkAabb f_0_3125 f_0_0 f_0_6875 f_0_6875 f_1_5 f_1_0;
   mkAabb f_0_25 f_0_0 f_0_25 f_0_75 f_1_5 f_0_75;
   mkAabb f_0_3125 f_0_0 f_0_75 f_0_6875 f_1_5 f_1_0;
   mkAabb f_0_0 f_0_0 f_0_3125 f_0_75 f_1_5 f_0_6875;
   mkAabb f_0_25 f_0_0 f_0_25 f_0_75 f_1_5 f_0_3125;
   mkAabb f_0_25 f_0_0 f_0_6875 f_0_75 f_1_5 f_0_75;
   mkAabb f_0_3125 f_0_0 f_0_75 f_0_6875 f_1_5 f_1_0;
   mkAabb f_0_0 f_0_0 f_0_3125 f_0_75 f_1_5 f_0_6875;
   mkAabb f_0_25 f_0_0 f_0_25 f_0_75 f_1_5 f_0_3125;
   mkAabb f_0_25 f_0_0 f_0_6875 f_0_75 f_1_5 f_0_75;
   mkAabb f_0_3125 f_0_0 f_0_75 f_0_6875 f_1_5 f_1_0;
   mkAabb f_0_3125 f_0_0 f_0_3125 f_0_6875 f_1_5 f_1_0;
   mkAabb f_0_0 f_0_0 f_0_3125 f_0_6875 f_1_5 f_0_6875;
   mkAabb f_0_3125 f_0_0 f_0_6875 f_0_6875 f_1_5 f_1_0;
   mkAabb f_0_0 f_0_0 f_0_3125 f_0_6875 f_1_5 f_0_6875;
   mkAabb f_0_3125 f_0_0 f_0_6875 f_0_6875 f_1_5 f_1_0;
   mkAabb f_0_25 f_0_0 f_0_25 f_0_75 f_1_5 f_0_75;
   mkAabb f_0_3125 f_0_0 f_0_0 f_0_6875 f_1_5 f_0_25;
   mkAabb f_0_0 f_0_0 f_0_3125 f_0_75 f_1_5 f_0_6875;
   mkAabb f_0_25 f_0_0 f_0_25 f_0_75 f_1_5 f_0_3125;
   mkAabb f_0_25 f_0_0 f_0_6875 f_0_75 f_1_5 f_0_75;
   mkAabb f_0_3125 f_0_0 f_0_0 f_0_6875 f_1_5 f_0_25;
   mkAabb f_0_0 f_0_0 f_0_3125 f_0_75 f_1_5 f_0_6875;
   mkAabb f_0_25 f_0_0 f_0_25 f_0_75 f_1_5 f_0_3125;
   mkAabb f_0_25 f_0_0 f_0_6875 f_0_75 f_1_5 f_0_75;
   mkAabb f_0_3125 f_0_0 f_0_0 f_0_6875 f_1_5 f_0_25;
   mkAabb f_0_3125 f_0_0 f_0_0 f_0_6875 f_1_5 f_0_6875;
   mkAabb f_0_0 f_0_0 f_0_3125 f_0_6875 f_1_5 f_0_6875;
   mkAabb f_0_3125 f_0_0 f_0_0 f_0_6875 f_1_5 f_0_3125;
   mkAabb f_0_0 f_0_0 f_0_3125 f_0_6875 f_1_5 f_0_6875;
   mkAabb f_0_3125 f_0_0 f_0_0 f_0_6875 f_1_5 f_0_3125;
   mkAabb f_0_25 f_0_0 f_0_25 f_0_75 f_1_5 f_0_75;
   mkAabb f_0_3125 f_0_0 f_0_0 f_0_6875 f_1_5 f_0_25;
   mkAabb f_0_3125 f_0_0 f_0_75 f_0_6875 f_1_5 f_1_0;
   mkAabb f_0_0 f_0_0 f_0_3125 f_0_75 f_1_5 f_0_6875;
   mkAabb f_0_25 f_0_0 f_0_25 f_0_75 f_1_5 f_0_3125;
   mkAabb f_0_25 f_0_0 f_0_6875 f_0_75 f_1_5 f_0_75;
   mkAabb f_0_3125 f_0_0 f_0_0 f_0_6875 f_1_5 f_0_25;
   mkAabb f_0_3125 f_0_0 f_0_75 f_0_6875 f_1_5 f_1_0;
   mkAabb f_0_0 f_0_0 f_0_3125 f_0_75 f_1_5 f_0_6875;
   mkAabb f_0_25 f_0_0 f_0_25 f_0_75 f_1_5 f_0_3125;
   mkAabb f_0_25 f_0_0 f_0_6875 f_0_75 f_1_5 f_0_75;
   mkAabb f_0_3125 f_0_0 f_0_0 f_0_6875 f_1_5 f_0_25;
   mkAabb f_0_3125 f_0_0 f_0_75 f_0_6875 f_1_5 f_1_0;
   mkAabb f_0_3125 f_0_0 f_0_0 f_0_6875 f_1_5 f_1_0;
   mkAabb f_0_0 f_0_0 f_0_3125 f_0_6875 f_1_5 f_0_6875;
   mkAabb f_0_3125 f_0_0 f_0_0 f_0_6875 f_1_5 f_0_3125;
   mkAabb f_0_3125 f_0_0 f_0_6875 f_0_6875 f_1_5 f_1_0;
   mkAabb f_0_0 f_0_0 f_0_3125 f_0_6875 f_1_5 f_0_6875;
   mkAabb f_0_3125 f_0_0 f_0_0 f_0_6875 f_1_5 f_0_3125;
   mkAabb f_0_3125 f_0_0 f_0_6875 f_0_6875 f_1_5 f_1_0;
   mkAabb f_0_25 f_0_0 f_0_25 f_0_75 f_1_5 f_0_75;
   mkAabb f_0_3125 f_0_0 f_0_0 f_0_6875 f_1_5 f_0_25;
   mkAabb f_0_3125 f_0_0 f_0_75 f_0_6875 f_1_5 f_1_0;
   mkAabb f_0_0 f_0_0 f_0_3125 f_0_75 f_1_5 f_0_6875;
   mkAabb f_0_25 f_0_0 f_0_25 f_0_75 f_1_5 f_0_3125;
   mkAabb f_0_25 f_0_0 f_0_6875 f_0_75 f_1_5 f_0_75;
   mkAabb f_0_3125 f_0_0 f_0_0 f_0_6875 f_1_5 f_0_25;
   mkAabb f_0_3125 f_0_0 f_0_75 f_0_6875 f_1_5 f_1_0;
   mkAabb f_0_0 f_0_0 f_0_3125 f_0_75 f_1_5 f_0_6875;
   mkAabb f_0_25 f_0_0 f_0_25 f_0_75 f_1_5 f_0_3125;
   mkAabb f_0_25 f_0_0 f_0_6875 f_0_75 f_1_5 f_0_75;
   mkAabb f_0_3125 f_0_0 f_0_0 f_0_6875 f_1_5 f_0_25;
   mkAabb f_0_3125 f_0_0 f_0_75 f_0_6875 f_1_5 f_1_0;
   mkAabb f_0_3125 f_0_0 f_0_0 f_0_6875 f_1_5 f_1_0;
   mkAabb f_0_0 f_0_0 f_0_3125 f_0_6875 f_1_5 f_0_6875;
   mkAabb f_0_3125 f_0_0 f_0_0 f_0_6875 f_1_5 f_0_3125;
   mkAabb f_0_3125 f_0_0 f_0_6875 f_0_6875 f_1_5 f_1_0;
   mkAabb f_0_0 f_0_0 f_0_3125 f_0_6875 f_1_5 f_0_6875;
   mkAabb f_0_3125 f_0_0 f_0_0 f_0_6875 f_1_5 f_0_3125;
   mkAabb f_0_3125 f_0_0 f_0_6875 f_0_6875 f_1_5 f_1_0;
   mkAabb f_0_25 f_0_0 f_0_25 f_0_75 f_1_5 f_0_75;
   mkAabb f_0_3125 f_0_0 f_0_0 f_0_6875 f_1_5 f_0_25;
   mkAabb f_0_0 f_0_0 f_0_3125 f_0_75 f_1_5 f_0_6875;
   mkAabb f_0_25 f_0_0 f_0_25 f_0_75 f_1_5 f_0_3125;
   mkAabb f_0_25 f_0_0 f_0_6875 f_0_75 f_1_5 f_0_75;
   mkAabb f_0_3125 f_0_0 f_0_0 f_0_6875 f_1_5 f_0_25;
   mkAabb f_0_0 f_0_0 f_0_3125 f_0_75 f_1_5 f_0_6875;
   mkAabb f_0_25 f_0_0 f_0_25 f_0_75 f_1_5 f_0_3125;
   mkAabb f_0_25 f_0_0 f_0_6875 f_0_75 f_1_5 f_0_75;
   mkAabb f_0_3125 f_0_0 f_0_0 f_0_6875 f_1_5 f_0_25;
   mkAabb f_0_3125 f_0_0 f_0_0 f_0_6875 f_1_5 f_0_6875;
   mkAabb f_0_0 f_0_0 f_0_3125 f_0_6875 f_1_5 f_0_6875;
   mkAabb f_0_3125 f_0_0 f_0_0 f_0_6875 f_1_5 f_0_3125;
   mkAabb f_0_0 f_0_0 f_0_3125 f_0_6875 f_1_5 f_0_6875;
   mkAabb f_0_3125 f_0_0 f_0_0 f_0_6875 f_1_5 f_0_3125;
   mkAabb f_0_25 f_0_0 f_0_25 f_0_75 f_1_5 f_0_75;
   mkAabb f_0_3125 f_0_0 f_0_0 f_0_6875 f_1_5 f_0_25;
   mkAabb f_0_3125 f_0_0 f_0_75 f_0_6875 f_1_5 f_1_0;
   mkAabb f_0_0 f_0_0 f_0_3125 f_0_75 f_1_5 f_0_6875;
   mkAabb f_0_25 f_0_0 f_0_25 f_0_75 f_1_5 f_0_3125;
   mkAabb f_0_25 f_0_0 f_0_6875 f_0_75 f_1_5 f_0_75;
   mkAabb f_0_3125 f_0_0 f_0_0 f_0_6875 f_1_5 f_0_25;
   mkAabb f_0_3125 f_0_0 f_0_75 f_0_6875 f_1_5 f_1_0;
   mkAabb f_0_0 f_0_0 f_0_3125 f_0_75 f_1_5 f_0_6875;
   mkAabb f_0_25 f_0_0 f_0_25 f_0_75 f_1_5 f_0_3125;
   mkAabb f_0_25 f_0_0 f_0_6875 f_0_75 f_1_5 f_0_75;
   mkAabb f_0_3125 f_0_0 f_0_0 f_0_6875 f_1_5 f_0_25;
   mkAabb f_0_3125 f_0_0 f_0_75 f_0_6875 f_1_5 f_1_0;
   mkAabb f_0_3125 f_0_0 f_0_0 f_0_6875 f_1_5 f_1_0;
   mkAabb f_0_0 f_0_0 f_0_3125 f_0_6875 f_1_5 f_0_6875;
   mkAabb f_0_3125 f_0_0 f_0_0 f_0_6875 f_1_5 f_0_3125;
   mkAabb f_0_3125 f_0_0 f_0_6875 f_0_6875 f_1_5 f_1_0;
   mkAabb f_0_0 f_0_0 f_0_3125 f_0_6875 f_1_5 f_0_6875;
   mkAabb f_0_3125 f_0_0 f_0_0 f_0_6875 f_1_5 f_0_3125;
   mkAabb f_0_3125 f_0_0 f_0_6875 f_0_6875 f_1_5 f_1_0;
   mkAabb f_0_25 f_0_0 f_0_25 f_0_75 f_1_5 f_0_75;
   mkAabb f_0_3125 f_0_0 f_0_0 f_0_6875 f_1_5 f_0_25;
   mkAabb f_0_3125 f_0_0 f_0_75 f_0_6875 f_1_5 f_1_0;
   mkAabb f_0_0 f_0_0 f_0_3125 f_0_75 f_1_5 f_0_6875;
   mkAabb f_0_25 f_0_0 f_0_25 f_0_75 f_1_5 f_0_3125;
   mkAabb f_0_25 f_0_0 f_0_6875 f_0_75 f_1_5 f_0_75;
   mkAabb f_0_3125 f_0_0 f_0_0 f_0_6875 f_1_5 f_0_25;
   mkAabb f_0_3125 f_0_0 f_0_75 f_0_6875 f_1_5 f_1_0;
   mkAabb f_0_0 f_0_0 f_0_3125 f_0_75 f_1_5 f_0_6875;
   mkAabb f_0_25 f_0_0 f_0_25 f_0_75 f_1_5 f_0_3125;
   mkAabb f_0_25 f_0_0 f_0_6875 f_0_75 f_1_5 f_0_75;
   mkAabb f_0_3125 f_0_0 f_0_0 f_0_6875 f_1_5 f_0_25;
   mkAabb f_0_3125 f_0_0 f_0_75 f_0_6875 f_1_5 f_1_0;
   mkAabb f_0_3125 f_0_0 f_0_0 f_0_6875 f_1_5 f_1_0;
   mkAabb f_0_0 f_0_0 f_0_3125 f_0_6875 f_1_5 f_0_6875;
   mkAabb f_0_3125 f_0_0 f_0_0 f_0_6875 f_1_5 f_0_3125;
   mkAabb f_0_3125 f_0_0 f_0_6875 f_0_6875 f_1_5 f_1_0;
   mkAabb f_0_0 f_0_0 f_0_3125 f_0_6875 f_1_5 f_0_6875;
   mkAabb f_0_3125 f_0_0 f_0_0 f_0_6875 f_1_5 f_0_3125;
   mkAabb f_0_3125 f_0_0 f_0_6875 f_0_6875 f_1_5 f_1_0;
   mkAabb f_0_25 f_0_0 f_0_25 f_0_75 f_1_5 f_0_75;
   mkAabb f_0_75 f_0_0 f_0_3125 f_1_0 f_1_5 f_0_6875;
   mkAabb f_0_0 f_0_0 f_0_3125 f_1_0 f_1_5 f_0_6875;
   mkAabb f_0_25 f_0_0 f_0_25 f_0_75 f_1_5 f_0_3125;
   mkAabb f_0_25 f_0_0 f_0_6875 f_0_75 f_1_5 f_0_75;
   mkAabb f_0_0 f_0_0 f_0_3125 f_1_0 f_1_5 f_0_6875;
   mkAabb f_0_25 f_0_0 f_0_25 f_0_75 f_1_5 f_0_3125;
   mkAabb f_0_25 f_0_0 f_0_6875 f_0_75 f_1_5 f_0_75;
   mkAabb f_0_3125 f_0_0 f_0_3125 f_1_0 f_1_5 f_0_6875;
   mkAabb f_0_0 f_0_0 f_0_3125 f_1_0 f_1_5 f_0_6875;
   mkAabb f_0_0 f_0_0 f_0_3125 f_1_0 f_1_5 f_0_6875;
   mkAabb f_0_25 f_0_0 f_0_25 f_0_75 f_1_5 f_0_75;
   mkAabb f_0_3125 f_0_0 f_0_75 f_0_6875 f_1_5 f_1_0;
   mkAabb f_0_75 f_0_0 f_0_3125 f_1_0 f_1_5 f_0_6875;
   mkAabb f_0_0 f_0_0 f_0_3125 f_1_0 f_1_5 f_0_6875;
   mkAabb f_0_25 f_0_0 f_0_25 f_0_75 f_1_5 f_0_3125;
   mkAabb f_0_25 f_0_0 f_0_6875 f_0_75 f_1_5 f_0_75;
   mkAabb f_0_3125 f_0_0 f_0_75 f_0_6875 f_1_5 f_1_0].
Definition SHAPE_BOXES_75 : list Aabb :=
  [mkAabb f_0_0 f_0_0 f_0_3125 f_1_0 f_1_5 f_0_6875;
   mkAabb f_0_25 f_0_0 f_0_25 f_0_75 f_1_5 f_0_3125;
   mkAabb f_0_25 f_0_0 f_0_6875 f_0_75 f_1_5 f_0_75;
   mkAabb f_0_3125 f_0_0 f_0_75 f_0_6875 f_1_5 f_1_0;
   mkAabb f_0_3125 f_0_0 f_0_3125 f_0_6875 f_1_5 f_1_0;
   mkAabb f_0_6875 f_0_0 f_0_3125 f_1_0 f_1_5 f_0_6875;
   mkAabb f_0_0 f_0_0 f_0_3125 f_1_0 f_1_5 f_0_6875;
   mkAabb f_0_3125 f_0_0 f_0_6875 f_0_6875 f_1_5 f_1_0;
   mkAabb f_0_0 f_0_0 f_0_3125 f_1_0 f_1_5 f_0_6875;
   mkAabb f_0_3125 f_0_0 f_0_6875 f_0_6875 f_1_5 f_1_0;
   mkAabb f_0_25 f_0_0 f_0_25 f_0_75 f_1_5 f_0_75;
   mkAabb f_0_3125 f_0_0 f_0_75 f_0_6875 f_1_5 f_1_0;
   mkAabb f_0_75 f_0_0 f_0_3125 f_1_0 f_1_5 f_0_6875;
   mkAabb f_0_0 f_0_0 f_0_3125 f_1_0 f_1_5 f_0_6875;
   mkAabb f_0_25 f_0_0 f_0_25 f_0_75 f_1_5 f_0_3125;
   mkAabb f_0_25 f_0_0 f_0_6875 f_0_75 f_1_5 f_0_75;
   mkAabb f_0_3125 f_0_0 f_0_75 f_0_6875 f_1_5 f_1_0;
   mkAabb f_0_0 f_0_0 f_0_3125 f_1_0 f_1_5 f_0_6875;
   mkAabb f_0_25 f_0_0 f_0_25 f_0_75 f_1_5 f_0_3125;
   mkAabb f_0_25 f_0_0 f_0_6875 f_0_75 f_1_5 f_0_75;
   mkAabb f_0_3125 f_0_0 f_0_75 f_0_6875 f_1_5 f_1_0;
   mkAabb f_0_3125 f_0_0 f_0_3125 f_0_6875 f_1_5 f_1_0;
   mkAabb f_0_6875 f_0_0 f_0_3125 f_1_0 f_1_5 f_0_6875;
   mkAabb f_0_0 f_0_0 f_0_3125 f_1_0 f_1_5 f_0_6875;
   mkAabb f_0_3125 f_0_0 f_0_6875 f_0_6875 f_1_5 f_1_0;
   mkAabb f_0_0 f_0_0 f_0_3125 f_1_0 f_1_5 f_0_6875;
   mkAabb f_0_3125 f_0_0 f_0_6875 f_0_6875 f_1_5 f_1_0;
   mkAabb f_0_25 f_0_0 f_0_25 f_0_75 f_1_5 f_0_75;
   mkAabb f_0_3125 f_0_0 f_0_0 f_0_6875 f_1_5 f_0_25;
   mkAabb f_0_75 f_0_0 f_0_3125 f_1_0 f_1_5 f_0_6875;
   mkAabb f_0_0 f_0_0 f_0_3125 f_1_0 f_1_5 f_0_6875;
   mkAabb f_0_25 f_0_0 f_0_25 f_0_75 f_1_5 f_0_3125;
   mkAabb f_0_25 f_0_0 f_0_6875 f_0_75 f_1_5 f_0_75;
   mkAabb f_0_3125 f_0_0 f_0_0 f_0_6875 f_1_5 f_0_25;
   mkAabb f_0_0 f_0_0 f_0_3125 f_1_0 f_1_5 f_0_6875;
   mkAabb f_0_25 f_0_0 f_0_25 f_0_75 f_1_5 f_0_3125;
   mkAabb f_0_25 f_0_0 f_0_6875 f_0_75 f_1_5 f_0_75;
   mkAabb f_0_3125 f_0_0 f_0_0 f_0_6875 f_1_5 f_0_25;
   mkAabb f_0_3125 f_0_0 f_0_0 f_0_6875 f_1_5 f_0_6875;
   mkAabb f_0_6875 f_0_0 f_0_3125 f_1_0 f_1_5 f_0_6875;
   mkAabb f_0_0 f_0_0 f_0_3125 f_1_0 f_1_5 f_0_6875;
   mkAabb f_0_3125 f_0_0 f_0_0 f_0_6875 f_1_5 f_0_3125;
   mkAabb f_0_0 f_0_0 f_0_3125 f_1_0 f_1_5 f_0_6875;
   mkAabb f_0_3125 f_0_0 f_0_0 f_0_6875 f_1_5 f_0_3125;
   mkAabb f_0_25 f_0_0 f_0_25 f_0_75 f_1_5 f_0_75;
   mkAabb f_0_3125 f_0_0 f_0_0 f_0_6875 f_1_5 f_0_25;
   mkAabb f_0_3125 f_0_0 f_0_75 f_0_6875 f_1_5 f_1_0;
   mkAabb f_0_75 f_0_0 f_0_3125 f_1_0 f_1_5 f_0_6875;
   mkAabb f_0_0 f_0_0 f_0_3125 f_1_0 f_1_5 f_0_6875;
   mkAabb f_0_25 f_0_0 f_0_25 f_0_75 f_1_5 f_0_3125;
   mkAabb f_0_25 f_0_0 f_0_6875 f_0_75 f_1_5 f_0_75;
   mkAabb f_0_3125 f_0_0 f_0_0 f_0_6875 f_1_5 f_0_25;
   mkAabb f_0_3125 f_0_0 f_0_75 f_0_6875 f_1_5 f_1_0;
   mkAabb f_0_0 f_0_0 f_0_3125 f_1_0 f_1_5 f_0_6875;
   mkAabb f_0_25 f_0_0 f_0_25 f_0_75 f_1_5 f_0_3125;
   mkAabb f_0_25 f_0_0 f_0_6875 f_0_75 f_1_5 f_0_75;
   mkAabb f_0_3125 f_0_0 f_0_0 f_0_6875 f_1_5 f_0_25;
   mkAabb f_0_3125 f_0_0 f_0_75 f_0_6875 f_1_5 f_1_0;
   mkAabb f_0_3125 f_0_0 f_0_0 f_0_6875 f_1_5 f_1_0;
   mkAabb f_0_6875 f_0_0 f_0_3125 f_1_0 f_1_5 f_0_6875;
   mkAabb f_0_0 f_0_0 f_0_3125 f_1_0 f_1_5 f_0_6875;
   mkAabb f_0_3125 f_0_0 f_0_0 f_0_6875 f_1_5 f_0_3125;
   mkAabb f_0_3125 f_0_0 f_0_6875 f_0_6875 f_1_5 f_1_0;
   mkAabb f_0_0 f_0_0 f_0_3125 f_1_0 f_1_5 f_0_6875;
   mkAabb f_0_3125 f_0_0 f_0_0 f_0_6875 f_1_5 f_0_3125;
   mkAabb f_0_3125 f_0_0 f_0_6875 f_0_6875 f_1_5 f_1_0;
   mkAabb f_0_25 f_0_0 f_0_25 f_0_75 f_1_5 f_0_75;
   mkAabb f_0_3125 f_0_0 f_0_0 f_0_6875 f_1_5 f_0_25;
   mkAabb f_0_3125 f_0_0 f_0_75 f_0_6875 f_1_5 f_1_0;
   mkAabb f_0_75 f_0_0 f_0_3125 f_1_0 f_1_5 f_0_6875;
   mkAabb f_0_0 f_0_0 f_0_3125 f_1_0 f_1_5 f_0_6875;
   mkAabb f_0_25 f_0_0 f_0_25 f_0_75 f_1_5 f_0_3125;
   mkAabb f_0_25 f_0_0 f_0_6875 f_0_75 f_1_5 f_0_75;
   mkAabb f_0_3125 f_0_0 f_0_0 f_0_6875 f_1_5 f_0_25;
   mkAabb f_0_3125 f_0_0 f_0_75 f_0_6875 f_1_5 f_1_0;
   mkAabb f_0_0 f_0_0 f_0_3125 f_1_0 f_1_5 f_0_6875;
   mkAabb f_0_25 f_0_0 f_0_25 f_0_75 f_1_5 f_0_3125;
   mkAabb f_0_25 f_0_0 f_0_6875 f_0_75 f_1_5 f_0_75;
   mkAabb f_0_3125 f_0_0 f_0_0 f_0_6875 f_1_5 f_0_25;
   mkAabb f_0_3125 f_0_0 f_0_75 f_0_6875 f_1_5 f_1_0;
   mkAabb f_0_3125 f_0_0 f_0_0 f_0_6875 f_1_5 f_1_0;
   mkAabb f_0_6875 f_0_0 f_0_3125 f_1_0 f_1_5 f_0_6875;
   mkAabb f_0_0 f_0_0 f_0_3125 f_1_0 f_1_5 f_0_6875;
   mkAabb f_0_3125 f_0_0 f_0_0 f_0_6875 f_1_5 f_0_3125;
   mkAabb f_0_3125 f_0_0 f_0_6875 f_0_6875 f_1_5 f_1_0;
   mkAabb f_0_0 f_0_0 f_0_3125 f_1_0 f_1_5 f_0_6875;
   mkAabb f_0_3125 f_0_0 f_0_0 f_0_6875 f_1_5 f_0_3125;
   mkAabb f_0_3125 f_0_0 f_0_6875 f_0_6875 f_1_5 f_1_0;
   mkAabb f_0_25 f_0_0 f_0_25 f_0_75 f_1_5 f_0_75;
   mkAabb f_0_3125 f_0_0 f_0_0 f_0_6875 f_1_5 f_0_25;
   mkAabb f_0_75 f_0_0 f_0_3125 f_1_0 f_1_5 f_0_6875;
   mkAabb f_0_0 f_0_0 f_0_3125 f_1_0 f_1_5 f_0_6875;
   mkAabb f_0_25 f_0_0 f_0_25 f_0_75 f_1_5 f_0_3125;
   mkAabb f_0_25 f_0_0 f_0_6875 f_0_75 f_1_5 f_0_75;
   mkAabb f_0_3125 f_0_0 f_0_0 f_0_6875 f_1_5 f_0_25;
   mkAabb f_0_0 f_0_0 f_0_3125 f_1_0 f_1_5 f_0_6875;
   mkAabb f_0_25 f_0_0 f_0_25 f_0_75 f_1_5 f_0_3125;
   mkAabb f_0_25 f_0_0 f_0_6875 f_0_75 f_1_5 f_0_75;
   mkAabb f_0_3125 f_0_0 f_0_0 f_0_6875 f_1_5 f_0_25;
   mkAabb f_0_3125 f_0_0 f_0_0 f_0_6875 f_1_5 f_0_6875;
   mkAabb f_0_6875 f_0_0 f_0_3125 f_1_0 f_1_5 f_0_6875;
   mkAabb f_0_0 f_0_0 f_0_3125 f_1_0 f_1_5 f_0_6875;
   mkAabb f_0_3125 f_0_0 f_0_0 f_0_6875 f_1_5 f_0_3125;
   mkAabb f_0_0 f_0_0 f_0_3125 f_1_0 f_1_5 f_0_6875;
   mkAabb f_0_3125 f_0_0 f_0_0 f_0_6875 f_1_5 f_0_3125;
   mkAabb f_0_25 f_0_0 f_0_25 f_0_75 f_1_5 f_0_75;
   mkAabb f_0_3125 f_0_0 f_0_0 f_0_6875 f_1_5 f_0_25;
   mkAabb f_0_3125 f_0_0 f_0_75 f_0_6875 f_1_5 f_1_0;
   mkAabb f_0_75 f_0_0 f_0_3125 f_1_0 f_1_5 f_0_6875;
   mkAabb f_0_0 f_0_0 f_0_3125 f_1_0 f_1_5 f_0_6875;
   mkAabb f_0_25 f_0_0 f_0_25 f_0_75 f_1_5 f_0_3125;
   mkAabb f_0_25 f_0_0 f_0_6875 f_0_75 f_1_5 f_0_75;
   mkAabb f_0_3125 f_0_0 f_0_0 f_0_6875 f_1_5 f_0_25;
   mkAabb f_0_3125 f_0_0 f_0_75 f_0_6875 f_1_5 f_1_0;
   mkAabb f_0_0 f_0_0 f_0_3125 f_1_0 f_1_5 f_0_6875;
   mkAabb f_0_25 f_0_0 f_0_25 f_0_75 f_1_5 f_0_3125;
   mkAabb f_0_25 f_0_0 f_0_6875 f_0_75 f_1_5 f_0_75;
   mkAabb f_0_3125 f_0_0 f_0_0 f_0_6875 f_1_5 f_0_25;
   mkAabb f_0_3125 f_0_0 f_0_75 f_0_6875 f_1_5 f_1_0;
   mkAabb f_0_3125 f_0_0 f_0_0 f_0_6875 f_1_5 f_1_0;
   mkAabb f_0_6875 f_0_0 f_0_3125 f_1_0 f_1_5 f_0_6875;
   mkAabb f_0_0 f_0_0 f_0_3125 f_1_0 f_1_5 f_0_6875;
   mkAabb f_0_3125 f_0_0 f_0_0 f_0_6875 f_1_5 f_0_3125;
   mkAabb f_0_3125 f_0_0 f_0_6875 f_0_6875 f_1_5 f_1_0;
   mkAabb f_0_0 f_0_0 f_0_3125 f_1_0 f_1_5 f_0_6875;
   mkAabb f_0_3125 f_0_0 f_0_0 f_0_6875 f_1_5 f_0_3125;
   mkAabb f_0_3125 f_0_0 f_0_6875 f_0_6875 f_1_5 f_1_0;
   mkAabb f_0_25 f_0_0 f_0_25 f_0_75 f_1_5 f_0_75;
   mkAabb f_0_3125 f_0_0 f_0_0 f_0_6875 f_1_5 f_0_25;
   mkAabb f_0_3125 f_0_0 f_0_75 f_0_6875 f_1_5 f_1_0;
   mkAabb f_0_75 f_0_0 f_0_3125 f_1_0 f_1_5 f_0_6875;
   mkAabb f_0_0 f_0_0 f_0_3125 f_1_0 f_1_5 f_0_6875;
   mkAabb f_0_25 f_0_0 f_0_25 f_0_75 f_1_5 f_0_3125;
   mkAabb f_0_25 f_0_0 f_0_6875 f_0_75 f_1_5 f_0_75;
   mkAabb f_0_3125 f_0_0 f_0_0 f_0_6875 f_1_5 f_0_25;
   mkAabb f_0_3125 f_0_0 f_0_75 f_0_6875 f_1_5 f_1_0;
   mkAabb f_0_0 f_0_0 f_0_3125 f_1_0 f_1_5 f_0_6875;
   mkAabb f_0_25 f_0_0 f_0_25 f_0_75 f_1_5 f_0_3125;
   mkAabb f_0_25 f_0_0 f_0_6875 f_0_75 f_1_5 f_0_75;
   mkAabb f_0_3125 f_0_0 f_0_0 f_0_6875 f_1_5 f_0_25;
   mkAabb f_0_3125 f_0_0 f_0_75 f_0_6875 f_1_5 f_1_0;
   mkAabb f_0_3125 f_0_0 f_0_0 f_0_6875 f_1_5 f_1_0;
   mkAabb f_0_6875 f_0_0 f_0_3125 f_1_0 f_1_5 f_0_6875;
   mkAabb f_0_0 f_0_0 f_0_3125 f_1_0 f_1_5 f_0_6875;
   mkAabb f_0_3125 f_0_0 f_0_0 f_0_6875 f_1_5 f_0_3125;
   mkAabb f_0_3125 f_0_0 f_0_6875 f_0_6875 f_1_5 f_1_0;
   mkAabb f_0_0 f_0_0 f_0_3125 f_1_0 f_1_5 f_0_6875;
   mkAabb f_0_3125 f_0_0 f_0_0 f_0_6875 f_1_5 f_0_3125;
   mkAabb f_0_3125 f_0_0 f_0_6875 f_0_6875 f_1_5 f_1_0;
   mkAabb f_0_25 f_0_0 f_0_25 f_0_75 f_1_5 f_0_75].
Definition SHAPE_BOXES_76 : list Aabb :=
  [mkAabb f_0_75 f_0_0 f_0_3125 f_1_0 f_1_5 f_0_6875;
   mkAabb f_0_0 f_0_0 f_0_3125 f_1_0 f_1_5 f_0_6875;
   mkAabb f_0_25 f_0_0 f_0_25 f_0_75 f_1_5 f_0_3125;
   mkAabb f_0_25 f_0_0 f_0_6875 f_0_75 f_1_5 f_0_75;
   mkAabb f_0_0 f_0_0 f_0_3125 f_1_0 f_1_5 f_0_6875;
   mkAabb f_0_25 f_0_0 f_0_25 f_0_75 f_1_5 f_0_3125;
   mkAabb f_0_25 f_0_0 f_0_6875 f_0_75 f_1_5 f_0_75;
   mkAabb f_0_3125 f_0_0 f_0_3125 f_1_0 f_1_5 f_0_6875;
   mkAabb f_0_0 f_0_0 f_0_3125 f_1_0 f_1_5 f_0_6875;
   mkAabb f_0_0 f_0_0 f_0_3125 f_1_0 f_1_5 f_0_6875;
   mkAabb f_0_25 f_0_0 f_0_25 f_0_75 f_1_5 f_0_75;
   mkAabb f_0_3125 f_0_0 f_0_75 f_0_6875 f_1_5 f_1_0;
   mkAabb f_0_75 f_0_0 f_0_3125 f_1_0 f_1_5 f_0_6875;
   mkAabb f_0_0 f_0_0 f_0_3125 f_1_0 f_1_5 f_0_6875;
   mkAabb f_0_25 f_0_0 f_0_25 f_0_75 f_1_5 f_0_3125;
   mkAabb f_0_25 f_0_0 f_0_6875 f_0_75 f_1_5 f_0_75;
   mkAabb f_0_3125 f_0_0 f_0_75 f_0_6875 f_1_5 f_1_0;
   mkAabb f_0_0 f_0_0 f_0_3125 f_1_0 f_1_5 f_0_6875;
   mkAabb f_0_25 f_0_0 f_0_25 f_0_75 f_1_5 f_0_3125;
   mkAabb f_0_25 f_0_0 f_0_6875 f_0_75 f_1_5 f_0_75;
   mkAabb f_0_3125 f_0_0 f_0_75 f_0_6875 f_1_5 f_1_0;
   mkAabb f_0_3125 f_0_0 f_0_3125 f_0_6875 f_1_5 f_1_0;
   mkAabb f_0_6875 f_0_0 f_0_3125 f_1_0 f_1_5 f_0_6875;
   mkAabb f_0_0 f_0_0 f_0_3125 f_1_0 f_1_5 f_0_6875;
   mkAabb f_0_3125 f_0_0 f_0_6875 f_0_6875 f_1_5 f_1_0;
   mkAabb f_0_0 f_0_0 f_0_3125 f_1_0 f_1_5 f_0_6875;
   mkAabb f_0_3125 f_0_0 f_0_6875 f_0_6875 f_1_5 f_1_0;
   mkAabb f_0_25 f_0_0 f_0_25 f_0_75 f_1_5 f_0_75;
   mkAabb f_0_3125 f_0_0 f_0_75 f_0_6875 f_1_5 f_1_0;
   mkAabb f_0_75 f_0_0 f_0_3125 f_1_0 f_1_5 f_0_6875;
   mkAabb f_0_0 f_0_0 f_0_3125 f_1_0 f_1_5 f_0_6875;
   mkAabb f_0_25 f_0_0 f_0_25 f_0_75 f_1_5 f_0_3125;
   mkAabb f_0_25 f_0_0 f_0_6875 f_0_75 f_1_5 f_0_75;
   mkAabb f_0_3125 f_0_0 f_0_75 f_0_6875 f_1_5 f_1_0;
   mkAabb f_0_0 f_0_0 f_0_3125 f_1_0 f_1_5 f_0_6875;
   mkAabb f_0_25 f_0_0 f_0_25 f_0_75 f_1_5 f_0_3125;
   mkAabb f_0_25 f_0_0 f_0_6875 f_0_75 f_1_5 f_0_75;
   mkAabb f_0_3125 f_0_0 f_0_75 f_0_6875 f_1_5 f_1_0;
   mkAabb f_0_3125 f_0_0 f_0_3125 f_0_6875 f_1_5 f_1_0;
   mkAabb f_0_6875 f_0_0 f_0_3125 f_1_0 f_1_5 f_0_6875;
   mkAabb f_0_0 f_0_0 f_0_3125 f_1_0 f_1_5 f_0_6875;
   mkAabb f_0_3125 f_0_0 f_0_6875 f_0_6875 f_1_5 f_1_0;
   mkAabb f_0_0 f_0_0 f_0_3125 f_1_0 f_1_5 f_0_6875;
   mkAabb f_0_3125 f_0_0 f_0_6875 f_0_6875 f_1_5 f_1_0;
   mkAabb f_0_25 f_0_0 f_0_25 f_0_75 f_1_5 f_0_75;
   mkAabb f_0_3125 f_0_0 f_0_0 f_0_6875 f_1_5 f_0_25;
   mkAabb f_0_75 f_0_0 f_0_3125 f_1_0 f_1_5 f_0_6875;
   mkAabb f_0_0 f_0_0 f_0_3125 f_1_0 f_1_5 f_0_6875;
   mkAabb f_0_25 f_0_0 f_0_25 f_0_75 f_1_5 f_0_3125;
   mkAabb f_0_25 f_0_0 f_0_6875 f_0_75 f_1_5 f_0_75;
   mkAabb f_0_3125 f_0_0 f_0_0 f_0_6875 f_1_5 f_0_25;
   mkAabb f_0_0 f_0_0 f_0_3125 f_1_0 f_1_5 f_0_6875;
   mkAabb f_0_25 f_0_0 f_0_25 f_0_75 f_1_5 f_0_3125;
   mkAabb f_0_25 f_0_0 f_0_6875 f_0_75 f_1_5 f_0_75;
   mkAabb f_0_3125 f_0_0 f_0_0 f_0_6875 f_1_5 f_0_25;
   mkAabb f_0_3125 f_0_0 f_0_0 f_0_6875 f_1_5 f_0_6875;
   mkAabb f_0_6875 f_0_0 f_0_3125 f_1_0 f_1_5 f_0_6875;
   mkAabb f_0_0 f_0_0 f_0_3125 f_1_0 f_1_5 f_0_6875;
   mkAabb f_0_3125 f_0_0 f_0_0 f_0_6875 f_1_5 f_0_3125;
   mkAabb f_0_0 f_0_0 f_0_3125 f_1_0 f_1_5 f_0_6875;
   mkAabb f_0_3125 f_0_0 f_0_0 f_0_6875 f_1_5 f_0_3125;
   mkAabb f_0_25 f_0_0 f_0_25 f_0_75 f_1_5 f_0_75;
   mkAabb f_0_3125 f_0_0 f_0_0 f_0_6875 f_1_5 f_0_25;
   mkAabb f_0_3125 f_0_0 f_0_75 f_0_6875 f_1_5 f_1_0;
   mkAabb f_0_75 f_0_0 f_0_3125 f_1_0 f_1_5 f_0_6875;
   mkAabb f_0_0 f_0_0 f_0_3125 f_1_0 f_1_5 f_0_6875;
   mkAabb f_0_25 f_0_0 f_0_25 f_0_75 f_1_5 f_0_3125;
   mkAabb f_0_25 f_0_0 f_0_6875 f_0_75 f_1_5 f_0_75;
   mkAabb f_0_3125 f_0_0 f_0_0 f_0_6875 f_1_5 f_0_25;
   mkAabb f_0_3125 f_0_0 f_0_75 f_0_6875 f_1_5 f_1_0;
   mkAabb f_0_0 f_0_0 f_0_3125 f_1_0 f_1_5 f_0_6875;
   mkAabb f_0_25 f_0_0 f_0_25 f_0_75 f_1_5 f_0_3125;
   mkAabb f_0_25 f_0_0 f_0_6875 f_0_75 f_1_5 f_0_75;
   mkAabb f_0_3125 f_0_0 f_0_0 f_0_6875 f_1_5 f_0_25;
   mkAabb f_0_3125 f_0_0 f_0_75 f_0_6875 f_1_5 f_1_0;
   mkAabb f_0_3125 f_0_0 f_0_0 f_0_6875 f_1_5 f_1_0;
   mkAabb f_0_6875 f_0_0 f_0_3125 f_1_0 f_1_5 f_0_6875;
   mkAabb f_0_0 f_0_0 f_0_3125 f_1_0 f_1_5 f_0_6875;
   mkAabb f_0_3125 f_0_0 f_0_0 f_0_6875 f_1_5 f_0_3125;
   mkAabb f_0_3125 f_0_0 f_0_6875 f_0_6875 f_1_5 f_1_0;
   mkAabb f_0_0 f_0_0 f_0_3125 f_1_0 f_1_5 f_0_6875;
   mkAabb f_0_3125 f_0_0 f_0_0 f_0_6875 f_1_5 f_0_3125;
   mkAabb f_0_3125 f_0_0 f_0_6875 f_0_6875 f_1_5 f_1_0;
   mkAabb f_0_25 f_0_0 f_0_25 f_0_75 f_1_5 f_0_75;
   mkAabb f_0_3125 f_0_0 f_0_0 f_0_6875 f_1_5 f_0_25;
   mkAabb f_0_3125 f_0_0 f_0_75 f_0_6875 f_1_5 f_1_0;
   mkAabb f_0_75 f_0_0 f_0_3125 f_1_0 f_1_5 f_0_6875;
   mkAabb f_0_0 f_0_0 f_0_3125 f_1_0 f_1_5 f_0_6875;
   mkAabb f_0_25 f_0_0 f_0_25 f_0_75 f_1_5 f_0_3125;
   mkAabb f_0_25 f_0_0 f_0_6875 f_0_75 f_1_5 f_0_75;
   mkAabb f_0_3125 f_0_0 f_0_0 f_0_6875 f_1_5 f_0_25;
   mkAabb f_0_3125 f_0_0 f_0_75 f_0_6875 f_1_5 f_1_0;
   mkAabb f_0_0 f_0_0 f_0_3125 f_1_0 f_1_5 f_0_6875;
   mkAabb f_0_25 f_0_0 f_0_25 f_0_75 f_1_5 f_0_3125;
   mkAabb f_0_25 f_0_0 f_0_6875 f_0_75 f_1_5 f_0_75;
   mkAabb f_0_3125 f_0_0 f_0_0 f_0_6875 f_1_5 f_0_25;
   mkAabb f_0_3125 f_0_0 f_0_75 f_0_6875 f_1_5 f_1_0;
   mkAabb f_0_3125 f_0_0 f_0_0 f_0_6875 f_1_5 f_1_0;
   mkAabb f_0_6875 f_0_0 f_0_3125 f_1_0 f_1_5 f_0_6875;
   mkAabb f_0_0 f_0_0 f_0_3125 f_1_0 f_1_5 f_0_6875;
   mkAabb f_0_3125 f_0_0 f_0_0 f_0_6875 f_1_5 f_0_3125;
   mkAabb f_0_3125 f_0_0 f_0_6875 f_0_6875 f_1_5 f_1_0;
   mkAabb f_0_0 f_0_0 f_0_3125 f_1_0 f_1_5 f_0_6875;
   mkAabb f_0_3125 f_0_0 f_0_0 f_0_6875 f_1_5 f_0_3125;
   mkAabb f_0_3125 f_0_0 f_0_6875 f_0_6875 f_1_5 f_1_0;
   mkAabb f_0_25 f_0_0 f_0_25 f_0_75 f_1_5 f_0_75;
   mkAabb f_0_3125 f_0_0 f_0_0 f_0_6875 f_1_5 f_0_25;
   mkAabb f_0_75 f_0_0 f_0_3125 f_1_0 f_1_5 f_0_6875;
   mkAabb f_0_0 f_0_0 f_0_3125 f_1_0 f_1_5 f_0_6875;
   mkAabb f_0_25 f_0_0 f_0_25 f_0_75 f_1_5 f_0_3125;
   mkAabb f_0_25 f_0_0 f_0_6875 f_0_75 f_1_5 f_0_75;
   mkAabb f_0_3125 f_0_0 f_0_0 f_0_6875 f_1_5 f_0_25;
   mkAabb f_0_0 f_0_0 f_0_3125 f_1_0 f_1_5 f_0_6875;
   mkAabb f_0_25 f_0_0 f_0_25 f_0_75 f_1_5 f_0_3125;
   mkAabb f_0_25 f_0_0 f_0_6875 f_0_75 f_1_5 f_0_75;
   mkAabb f_0_3125 f_0_0 f_0_0 f_0_6875 f_1_5 f_0_25;
   mkAabb f_0_3125 f_0_0 f_0_0 f_0_6875 f_1_5 f_0_6875;
   mkAabb f_0_6875 f_0_0 f_0_3125 f_1_0 f_1_5 f_0_6875;
   mkAabb f_0_0 f_0_0 f_0_3125 f_1_0 f_1_5 f_0_6875;
   mkAabb f_0_3125 f_0_0 f_0_0 f_0_6875 f_1_5 f_0_3125;
   mkAabb f_0_0 f_0_0 f_0_3125 f_1_0 f_1_5 f_0_6875;
   mkAabb f_0_3125 f_0_0 f_0_0 f_0_6875 f_1_5 f_0_3125;
   mkAabb f_0_25 f_0_0 f_0_25 f_0_75 f_1_5 f_0_75;
   mkAabb f_0_3125 f_0_0 f_0_0 f_0_6875 f_1_5 f_0_25;
   mkAabb f_0_3125 f_0_0 f_0_75 f_0_6875 f_1_5 f_1_0;
   mkAabb f_0_75 f_0_0 f_0_3125 f_1_0 f_1_5 f_0_6875;
   mkAabb f_0_0 f_0_0 f_0_3125 f_1_0 f_1_5 f_0_6875;
   mkAabb f_0_25 f_0_0 f_0_25 f_0_75 f_1_5 f_0_3125;
   mkAabb f_0_25 f_0_0 f_0_6875 f_0_75 f_1_5 f_0_75;
   mkAabb f_0_3125 f_0_0 f_0_0 f_0_6875 f_1_5 f_0_25;
   mkAabb f_0_3125 f_0_0 f_0_75 f_0_6875 f_1_5 f_1_0;
   mkAabb f_0_0 f_0_0 f_0_3125 f_1_0 f_1_5 f_0_6875;
   mkAabb f_0_25 f_0_0 f_0_25 f_0_75 f_1_5 f_0_3125;
   mkAabb f_0_25 f_0_0 f_0_6875 f_0_75 f_1_5 f_0_75;
   mkAabb f_0_3125 f_0_0 f_0_0 f_0_6875 f_1_5 f_0_25;
   mkAabb f_0_3125 f_0_0 f_0_75 f_0_6875 f_1_5 f_1_0;
   mkAabb f_0_3125 f_0_0 f_0_0 f_0_6875 f_1_5 f_1_0;
   mkAabb f_0_6875 f_0_0 f_0_3125 f_1_0 f_1_5 f_0_6875;
   mkAabb f_0_0 f_0_0 f_0_3125 f_1_0 f_1_5 f_0_6875;
   mkAabb f_0_3125 f_0_0 f_0_0 f_0_6875 f_1_5 f_0_3125;
   mkAabb f_0_3125 f_0_0 f_0_6875 f_0_6875 f_1_5 f_1_0;
   mkAabb f_0_0 f_0_0 f_0_3125 f_1_0 f_1_5 f_0_6875;
   mkAabb f_0_3125 f_0_0 f_0_0 f_0_6875 f_1_5 f_0_3125;
   mkAabb f_0_3125 f_0_0 f_0_6875 f_0_6875 f_1_5 f_1_0;
   mkAabb f_0_25 f_0_0 f_0_25 f_0_75 f_1_5 f_0_75;
   mkAabb f_0_3125 f_0_0 f_0_0 f_0_6875 f_1_5 f_0_25;
   mkAabb f_0_3125 f_0_0 f_0_75 f_0_6875 f_1_5 f_1_0;
   mkAabb f_0_75 f_0_0 f_0_3125 f_1_0 f_1_5 f_0_6875;
   mkAabb f_0_0 f_0_0 f_0_3125 f_1_0 f_1_5 f_0_6875;
   mkAabb f_0_25 f_0_0 f_0_25 f_0_75 f_1_5 f_0_3125].
Definition SHAPE_BOXES_77 : list Aabb :=
  [mkAabb f_0_25 f_0_0 f_0_6875 f_0_75 f_1_5 f_0_75;
   mkAabb f_0_3125 f_0_0 f_0_0 f_0_6875 f_1_5 f_0_25;
   mkAabb f_0_3125 f_0_0 f_0_75 f_0_6875 f_1_5 f_1_0;
   mkAabb f_0_0 f_0_0 f_0_3125 f_1_0 f_1_5 f_0_6875;
   mkAabb f_0_25 f_0_0 f_0_25 f_0_75 f_1_5 f_0_3125;
   mkAabb f_0_25 f_0_0 f_0_6875 f_0_75 f_1_5 f_0_75;
   mkAabb f_0_3125 f_0_0 f_0_0 f_0_6875 f_1_5 f_0_25;
   mkAabb f_0_3125 f_0_0 f_0_75 f_0_6875 f_1_5 f_1_0;
   mkAabb f_0_3125 f_0_0 f_0_0 f_0_6875 f_1_5 f_1_0;
   mkAabb f_0_6875 f_0_0 f_0_3125 f_1_0 f_1_5 f_0_6875;
   mkAabb f_0_0 f_0_0 f_0_3125 f_1_0 f_1_5 f_0_6875;
   mkAabb f_0_3125 f_0_0 f_0_0 f_0_6875 f_1_5 f_0_3125;
   mkAabb f_0_3125 f_0_0 f_0_6875 f_0_6875 f_1_5 f_1_0;
   mkAabb f_0_0 f_0_0 f_0_3125 f_1_0 f_1_5 f_0_6875;
   mkAabb f_0_3125 f_0_0 f_0_0 f_0_6875 f_1_5 f_0_3125;
   mkAabb f_0_3125 f_0_0 f_0_6875 f_0_6875 f_1_5 f_1_0;
   mkAabb f_0_25 f_0_0 f_0_25 f_0_75 f_1_5 f_0_75;
   mkAabb f_0_0 f_0_0 f_0_3125 f_0_75 f_1_5 f_0_6875;
   mkAabb f_0_25 f_0_0 f_0_25 f_0_75 f_1_5 f_0_3125;
   mkAabb f_0_25 f_0_0 f_0_6875 f_0_75 f_1_5 f_0_75;
   mkAabb f_0_0 f_0_0 f_0_3125 f_0_75 f_1_5 f_0_6875;
   mkAabb f_0_25 f_0_0 f_0_25 f_0_75 f_1_5 f_0_3125;
   mkAabb f_0_25 f_0_0 f_0_6875 f_0_75 f_1_5 f_0_75;
   mkAabb f_0_0 f_0_0 f_0_3125 f_0_6875 f_1_5 f_0_6875;
   mkAabb f_0_0 f_0_0 f_0_3125 f_0_6875 f_1_5 f_0_6875;
   mkAabb f_0_25 f_0_0 f_0_25 f_0_75 f_1_5 f_0_75;
   mkAabb f_0_3125 f_0_0 f_0_75 f_0_6875 f_1_5 f_1_0;
   mkAabb f_0_0 f_0_0 f_0_3125 f_0_75 f_1_5 f_0_6875;
   mkAabb f_0_25 f_0_0 f_0_25 f_0_75 f_1_5 f_0_3125;
   mkAabb f_0_25 f_0_0 f_0_6875 f_0_75 f_1_5 f_0_75;
   mkAabb f_0_3125 f_0_0 f_0_75 f_0_6875 f_1_5 f_1_0;
   mkAabb f_0_0 f_0_0 f_0_3125 f_0_75 f_1_5 f_0_6875;
   mkAabb f_0_25 f_0_0 f_0_25 f_0_75 f_1_5 f_0_3125;
   mkAabb f_0_25 f_0_0 f_0_6875 f_0_75 f_1_5 f_0_75;
   mkAabb f_0_3125 f_0_0 f_0_75 f_0_6875 f_1_5 f_1_0;
   mkAabb f_0_3125 f_0_0 f_0_3125 f_0_6875 f_1_5 f_1_0;
   mkAabb f_0_0 f_0_0 f_0_3125 f_0_6875 f_1_5 f_0_6875;
   mkAabb f_0_3125 f_0_0 f_0_6875 f_0_6875 f_1_5 f_1_0;
   mkAabb f_0_0 f_0_0 f_0_3125 f_0_6875 f_1_5 f_0_6875;
   mkAabb f_0_3125 f_0_0 f_0_6875 f_0_6875 f_1_5 f_1_0;
   mkAabb f_0_25 f_0_0 f_0_25 f_0_75 f_1_5 f_0_75;
   mkAabb f_0_3125 f_0_0 f_0_75 f_0_6875 f_1_5 f_1_0;
   mkAabb f_0_0 f_0_0 f_0_3125 f_0_75 f_1_5 f_0_6875;
   mkAabb f_0_25 f_0_0 f_0_25 f_0_75 f_1_5 f_0_3125;
   mkAabb f_0_25 f_0_0 f_0_6875 f_0_75 f_1_5 f_0_75;
   mkAabb f_0_3125 f_0_0 f_0_75 f_0_6875 f_1_5 f_1_0;
   mkAabb f_0_0 f_0_0 f_0_3125 f_0_75 f_1_5 f_0_6875;
   mkAabb f_0_25 f_0_0 f_0_25 f_0_75 f_1_5 f_0_3125;
   mkAabb f_0_25 f_0_0 f_0_6875 f_0_75 f_1_5 f_0_75;
   mkAabb f_0_3125 f_0_0 f_0_75 f_0_6875 f_1_5 f_1_0;
   mkAabb f_0_3125 f_0_0 f_0_3125 f_0_6875 f_1_5 f_1_0;
   mkAabb f_0_0 f_0_0 f_0_3125 f_0_6875 f_1_5 f_0_6875;
   mkAabb f_0_3125 f_0_0 f_0_6875 f_0_6875 f_1_5 f_1_0;
   mkAabb f_0_0 f_0_0 f_0_3125 f_0_6875 f_1_5 f_0_6875;
   mkAabb f_0_3125 f_0_0 f_0_6875 f_0_6875 f_1_5 f_1_0;
   mkAabb f_0_25 f_0_0 f_0_25 f_0_75 f_1_5 f_0_75;
   mkAabb f_0_3125 f_0_0 f_0_0 f_0_6875 f_1_5 f_0_25;
   mkAabb f_0_0 f_0_0 f_0_3125 f_0_75 f_1_5 f_0_6875;
   mkAabb f_0_25 f_0_0 f_0_25 f_0_75 f_1_5 f_0_3125;
   mkAabb f_0_25 f_0_0 f_0_6875 f_0_75 f_1_5 f_0_75;
   mkAabb f_0_3125 f_0_0 f_0_0 f_0_6875 f_1_5 f_0_25;
   mkAabb f_0_0 f_0_0 f_0_3125 f_0_75 f_1_5 f_0_6875;
   mkAabb f_0_25 f_0_0 f_0_25 f_0_75 f_1_5 f_0_3125;
   mkAabb f_0_25 f_0_0 f_0_6875 f_0_75 f_1_5 f_0_75;
   mkAabb f_0_3125 f_0_0 f_0_0 f_0_6875 f_1_5 f_0_25;
   mkAabb f_0_3125 f_0_0 f_0_0 f_0_6875 f_1_5 f_0_6875;
   mkAabb f_0_0 f_0_0 f_0_3125 f_0_6875 f_1_5 f_0_6875;
   mkAabb f_0_3125 f_0_0 f_0_0 f_0_6875 f_1_5 f_0_3125;
   mkAabb f_0_0 f_0_0 f_0_3125 f_0_6875 f_1_5 f_0_6875;
   mkAabb f_0_3125 f_0_0 f_0_0 f_0_6875 f_1_5 f_0_3125;
   mkAabb f_0_25 f_0_0 f_0_25 f_0_75 f_1_5 f_0_75;
   mkAabb f_0_3125 f_0_0 f_0_0 f_0_6875 f_1_5 f_0_25;
   mkAabb f_0_3125 f_0_0 f_0_75 f_0_6875 f_1_5 f_1_0;
   mkAabb f_0_0 f_0_0 f_0_3125 f_0_75 f_1_5 f_0_6875;
   mkAabb f_0_25 f_0_0 f_0_25 f_0_75 f_1_5 f_0_3125;
   mkAabb f_0_25 f_0_0 f_0_6875 f_0_75 f_1_5 f_0_75;
   mkAabb f_0_3125 f_0_0 f_0_0 f_0_6875 f_1_5 f_0_25;
   mkAabb f_0_3125 f_0_0 f_0_75 f_0_6875 f_1_5 f_1_0;
   mkAabb f_0_0 f_0_0 f_0_3125 f_0_75 f_1_5 f_0_6875;
   mkAabb f_0_25 f_0_0 f_0_25 f_0_75 f_1_5 f_0_3125;
   mkAabb f_0_25 f_0_0 f_0_6875 f_0_75 f_1_5 f_0_75;
   mkAabb f_0_3125 f_0_0 f_0_0 f_0_6875 f_1_5 f_0_25;
   mkAabb f_0_3125 f_0_0 f_0_75 f_0_6875 f_1_5 f_1_0;
   mkAabb f_0_3125 f_0_0 f_0_0 f_0_6875 f_1_5 f_1_0;
   mkAabb f_0_0 f_0_0 f_0_3125 f_0_6875 f_1_5 f_0_6875;
   mkAabb f_0_3125 f_0_0 f_0_0 f_0_6875 f_1_5 f_0_3125;
   mkAabb f_0_3125 f_0_0 f_0_6875 f_0_6875 f_1_5 f_1_0;
   mkAabb f_0_0 f_0_0 f_0_3125 f_0_6875 f_1_5 f_0_6875;
   mkAabb f_0_3125 f_0_0 f_0_0 f_0_6875 f_1_5 f_0_3125;
   mkAabb f_0_3125 f_0_0 f_0_6875 f_0_6875 f_1_5 f_1_0;
   mkAabb f_0_25 f_0_0 f_0_25 f_0_75 f_1_5 f_0_75;
   mkAabb f_0_3125 f_0_0 f_0_0 f_0_6875 f_1_5 f_0_25;
   mkAabb f_0_3125 f_0_0 f_0_75 f_0_6875 f_1_5 f_1_0;
   mkAabb f_0_0 f_0_0 f_0_3125 f_0_75 f_1_5 f_0_6875;
   mkAabb f_0_25 f_0_0 f_0_25 f_0_75 f_1_5 f_0_3125;
   mkAabb f_0_25 f_0_0 f_0_6875 f_0_75 f_1_5 f_0_75;
   mkAabb f_0_3125 f_0_0 f_0_0 f_0_6875 f_1_5 f_0_25;
   mkAabb f_0_3125 f_0_0 f_0_75 f_0_6875 f_1_5 f_1_0;
   mkAabb f_0_0 f_0_0 f_0_3125 f_0_75 f_1_5 f_0_6875;
   mkAabb f_0_25 f_0_0 f_0_25 f_0_75 f_1_5 f_0_3125;
   mkAabb f_0_25 f_0_0 f_0_6875 f_0_75 f_1_5 f_0_75;
   mkAabb f_0_3125 f_0_0 f_0_0 f_0_6875 f_1_5 f_0_25;
   mkAabb f_0_3125 f_0_0 f_0_75 f_0_6875 f_1_5 f_1_0;
   mkAabb f_0_3125 f_0_0 f_0_0 f_0_6875 f_1_5 f_1_0;
   mkAabb f_0_0 f_0_0 f_0_3125 f_0_6875 f_1_5 f_0_6875;
   mkAabb f_0_3125 f_0_0 f_0_0 f_0_6875 f_1_5 f_0_3125;
   mkAabb f_0_3125 f_0_0 f_0_6875 f_0_6875 f_1_5 f_1_0;
   mkAabb f_0_0 f_0_0 f_0_3125 f_0_6875 f_1_5 f_0_6875;
   mkAabb f_0_3125 f_0_0 f_0_0 f_0_6875 f_1_5 f_0_3125;
   mkAabb f_0_3125 f_0_0 f_0_6875 f_0_6875 f_1_5 f_1_0;
   mkAabb f_0_25 f_0_0 f_0_25 f_0_75 f_1_5 f_0_75;
   mkAabb f_0_3125 f_0_0 f_0_0 f_0_6875 f_1_5 f_0_25;
   mkAabb f_0_0 f_0_0 f_0_3125 f_0_75 f_1_5 f_0_6875;
   mkAabb f_0_25 f_0_0 f_0_25 f_0_75 f_1_5 f_0_3125;
   mkAabb f_0_25 f_0_0 f_0_6875 f_0_75 f_1_5 f_0_75;
   mkAabb f_0_3125 f_0_0 f_0_0 f_0_6875 f_1_5 f_0_25;
   mkAabb f_0_0 f_0_0 f_0_3125 f_0_75 f_1_5 f_0_6875;
   mkAabb f_0_25 f_0_0 f_0_25 f_0_75 f_1_5 f_0_3125;
   mkAabb f_0_25 f_0_0 f_0_6875 f_0_75 f_1_5 f_0_75;
   mkAabb f_0_3125 f_0_0 f_0_0 f_0_6875 f_1_5 f_0_25;
   mkAabb f_0_3125 f_0_0 f_0_0 f_0_6875 f_1_5 f_0_6875;
   mkAabb f_0_0 f_0_0 f_0_3125 f_0_6875 f_1_5 f_0_6875;
   mkAabb f_0_3125 f_0_0 f_0_0 f_0_6875 f_1_5 f_0_3125;
   mkAabb f_0_0 f_0_0 f_0_3125 f_0_6875 f_1_5 f_0_6875;
   mkAabb f_0_3125 f_0_0 f_0_0 f_0_6875 f_1_5 f_0_3125;
   mkAabb f_0_25 f_0_0 f_0_25 f_0_75 f_1_5 f_0_75;
   mkAabb f_0_3125 f_0_0 f_0_0 f_0_6875 f_1_5 f_0_25;
   mkAabb f_0_3125 f_0_0 f_0_75 f_0_6875 f_1_5 f_1_0;
   mkAabb f_0_0 f_0_0 f_0_3125 f_0_75 f_1_5 f_0_6875;
   mkAabb f_0_25 f_0_0 f_0_25 f_0_75 f_1_5 f_0_3125;
   mkAabb f_0_25 f_0_0 f_0_6875 f_0_75 f_1_5 f_0_75;
   mkAabb f_0_3125 f_0_0 f_0_0 f_0_6875 f_1_5 f_0_25;
   mkAabb f_0_3125 f_0_0 f_0_75 f_0_6875 f_1_5 f_1_0;
   mkAabb f_0_0 f_0_0 f_0_3125 f_0_75 f_1_5 f_0_6875;
   mkAabb f_0_25 f_0_0 f_0_25 f_0_75 f_1_5 f_0_3125;
   mkAabb f_0_25 f_0_0 f_0_6875 f_0_75 f_1_5 f_0_75;
   mkAabb f_0_3125 f_0_0 f_0_0 f_0_6875 f_1_5 f_0_25;
   mkAabb f_0_3125 f_0_0 f_0_75 f_0_6875 f_1_5 f_1_0;
   mkAabb f_0_3125 f_0_0 f_0_0 f_0_6875 f_1_5 f_1_0;
   mkAabb f_0_0 f_0_0 f_0_3125 f_0_6875 f_1_5 f_0_6875;
   mkAabb f_0_3125 f_0_0 f_0_0 f_0_6875 f_1_5 f_0_3125;
   mkAabb f_0_3125 f_0_0 f_0_6875 f_0_6875 f_1_5 f_1_0;
   mkAabb f_0_0 f_0_0 f_0_3125 f_0_6875 f_1_5 f_0_6875;
   mkAabb f_0_3125 f_0_0 f_0_0 f_0_6875 f_1_5 f_0_3125;
   mkAabb f_0_3125 f_0_0 f_0_6875 f_0_6875 f_1_5 f_1_0;
   mkAabb f_0_25 f_0_0 f_0_25 f_0_75 f_1_5 f_0_75;
   mkAabb f_0_3125 f_0_0 f_0_0 f_0_6875 f_1_5 f_0_25;
   mkAabb f_0_3125 f_0_0 f_0_75 f_0_6875 f_1_5 f_1_0;
   mkAabb f_0_0 f_0_0 f_0_3125 f_0_75 f_1_5 f_0_6875;
   mkAabb f_0_25 f_0_0 f_0_25 f_0_75 f_1_5 f_0_3125].
Definition SHAPE_BOXES_78 : list Aabb :=
  [mkAabb f_0_25 f_0_0 f_0_6875 f_0_75 f_1_5 f_0_75;
   mkAabb f_0_3125 f_0_0 f_0_0 f_0_6875 f_1_5 f_0_25;
   mkAabb f_0_3125 f_0_0 f_0_75 f_0_6875 f_1_5 f_1_0;
   mkAabb f_0_0 f_0_0 f_0_3125 f_0_75 f_1_5 f_0_6875;
   mkAabb f_0_25 f_0_0 f_0_25 f_0_75 f_1_5 f_0_3125;
   mkAabb f_0_25 f_0_0 f_0_6875 f_0_75 f_1_5 f_0_75;
   mkAabb f_0_3125 f_0_0 f_0_0 f_0_6875 f_1_5 f_0_25;
   mkAabb f_0_3125 f_0_0 f_0_75 f_0_6875 f_1_5 f_1_0;
   mkAabb f_0_3125 f_0_0 f_0_0 f_0_6875 f_1_5 f_1_0;
   mkAabb f_0_0 f_0_0 f_0_3125 f_0_6875 f_1_5 f_0_6875;
   mkAabb f_0_3125 f_0_0 f_0_0 f_0_6875 f_1_5 f_0_3125;
   mkAabb f_0_3125 f_0_0 f_0_6875 f_0_6875 f_1_5 f_1_0;
   mkAabb f_0_0 f_0_0 f_0_3125 f_0_6875 f_1_5 f_0_6875;
   mkAabb f_0_3125 f_0_0 f_0_0 f_0_6875 f_1_5 f_0_3125;
   mkAabb f_0_3125 f_0_0 f_0_6875 f_0_6875 f_1_5 f_1_0;
   mkAabb f_0_25 f_0_0 f_0_25 f_0_75 f_1_5 f_0_75;
   mkAabb f_0_75 f_0_0 f_0_3125 f_1_0 f_1_5 f_0_6875;
   mkAabb f_0_0 f_0_0 f_0_3125 f_1_0 f_1_5 f_0_6875;
   mkAabb f_0_25 f_0_0 f_0_25 f_0_75 f_1_5 f_0_3125;
   mkAabb f_0_25 f_0_0 f_0_6875 f_0_75 f_1_5 f_0_75;
   mkAabb f_0_0 f_0_0 f_0_3125 f_1_0 f_1_5 f_0_6875;
   mkAabb f_0_25 f_0_0 f_0_25 f_0_75 f_1_5 f_0_3125;
   mkAabb f_0_25 f_0_0 f_0_6875 f_0_75 f_1_5 f_0_75;
   mkAabb f_0_3125 f_0_0 f_0_3125 f_1_0 f_1_5 f_0_6875;
   mkAabb f_0_0 f_0_0 f_0_3125 f_1_0 f_1_5 f_0_6875;
   mkAabb f_0_0 f_0_0 f_0_3125 f_1_0 f_1_5 f_0_6875;
   mkAabb f_0_25 f_0_0 f_0_25 f_0_75 f_1_5 f_0_75;
   mkAabb f_0_3125 f_0_0 f_0_75 f_0_6875 f_1_5 f_1_0;
   mkAabb f_0_75 f_0_0 f_0_3125 f_1_0 f_1_5 f_0_6875;
   mkAabb f_0_0 f_0_0 f_0_3125 f_1_0 f_1_5 f_0_6875;
   mkAabb f_0_25 f_0_0 f_0_25 f_0_75 f_1_5 f_0_3125;
   mkAabb f_0_25 f_0_0 f_0_6875 f_0_75 f_1_5 f_0_75;
   mkAabb f_0_3125 f_0_0 f_0_75 f_0_6875 f_1_5 f_1_0;
   mkAabb f_0_0 f_0_0 f_0_3125 f_1_0 f_1_5 f_0_6875;
   mkAabb f_0_25 f_0_0 f_0_25 f_0_75 f_1_5 f_0_3125;
   mkAabb f_0_25 f_0_0 f_0_6875 f_0_75 f_1_5 f_0_75;
   mkAabb f_0_3125 f_0_0 f_0_75 f_0_6875 f_1_5 f_1_0;
   mkAabb f_0_3125 f_0_0 f_0_3125 f_0_6875 f_1_5 f_1_0;
   mkAabb f_0_6875 f_0_0 f_0_3125 f_1_0 f_1_5 f_0_6875;
   mkAabb f_0_0 f_0_0 f_0_3125 f_1_0 f_1_5 f_0_6875;
   mkAabb f_0_3125 f_0_0 f_0_6875 f_0_6875 f_1_5 f_1_0;
   mkAabb f_0_0 f_0_0 f_0_3125 f_1_0 f_1_5 f_0_6875;
   mkAabb f_0_3125 f_0_0 f_0_6875 f_0_6875 f_1_5 f_1_0;
   mkAabb f_0_25 f_0_0 f_0_25 f_0_75 f_1_5 f_0_75;
   mkAabb f_0_3125 f_0_0 f_0_75 f_0_6875 f_1_5 f_1_0;
   mkAabb f_0_75 f_0_0 f_0_3125 f_1_0 f_1_5 f_0_6875;
   mkAabb f_0_0 f_0_0 f_0_3125 f_1_0 f_1_5 f_0_6875;
   mkAabb f_0_25 f_0_0 f_0_25 f_0_75 f_1_5 f_0_3125;
   mkAabb f_0_25 f_0_0 f_0_6875 f_0_75 f_1_5 f_0_75;
   mkAabb f_0_3125 f_0_0 f_0_75 f_0_6875 f_1_5 f_1_0;
   mkAabb f_0_0 f_0_0 f_0_3125 f_1_0 f_1_5 f_0_6875;
   mkAabb f_0_25 f_0_0 f_0_25 f_0_75 f_1_5 f_0_3125;
   mkAabb f_0_25 f_0_0 f_0_6875 f_0_75 f_1_5 f_0_75;
   mkAabb f_0_3125 f_0_0 f_0_75 f_0_6875 f_1_5 f_1_0;
   mkAabb f_0_3125 f_0_0 f_0_3125 f_0_6875 f_1_5 f_1_0;
   mkAabb f_0_6875 f_0_0 f_0_3125 f_1_0 f_1_5 f_0_6875;
   mkAabb f_0_0 f_0_0 f_0_3125 f_1_0 f_1_5 f_0_6875;
   mkAabb f_0_3125 f_0_0 f_0_6875 f_0_6875 f_1_5 f_1_0;
   mkAabb f_0_0 f_0_0 f_0_3125 f_1_0 f_1_5 f_0_6875;
   mkAabb f_0_3125 f_0_0 f_0_6875 f_0_6875 f_1_5 f_1_0;
   mkAabb f_0_25 f_0_0 f_0_25 f_0_75 f_1_5 f_0_75;
   mkAabb f_0_3125 f_0_0 f_0_0 f_0_6875 f_1_5 f_0_25;
   mkAabb f_0_75 f_0_0 f_0_3125 f_1_0 f_1_5 f_0_6875;
   mkAabb f_0_0 f_0_0 f_0_3125 f_1_0 f_1_5 f_0_6875;
   mkAabb f_0_25 f_0_0 f_0_25 f_0_75 f_1_5 f_0_3125;
   mkAabb f_0_25 f_0_0 f_0_6875 f_0_75 f_1_5 f_0_75;
   mkAabb f_0_3125 f_0_0 f_0_0 f_0_6875 f_1_5 f_0_25;
   mkAabb f_0_0 f_0_0 f_0_3125 f_1_0 f_1_5 f_0_6875;
   mkAabb f_0_25 f_0_0 f_0_25 f_0_75 f_1_5 f_0_3125;
   mkAabb f_0_25 f_0_0 f_0_6875 f_0_75 f_1_5 f_0_75;
   mkAabb f_0_3125 f_0_0 f_0_0 f_0_6875 f_1_5 f_0_25;
   mkAabb f_0_3125 f_0_0 f_0_0 f_0_6875 f_1_5 f_0_6875;
   mkAabb f_0_6875 f_0_0 f_0_3125 f_1_0 f_1_5 f_0_6875;
   mkAabb f_0_0 f_0_0 f_0_3125 f_1_0 f_1_5 f_0_6875;
   mkAabb f_0_3125 f_0_0 f_0_0 f_0_6875 f_1_5 f_0_3125;
   mkAabb f_0_0 f_0_0 f_0_3125 f_1_0 f_1_5 f_0_6875;
   mkAabb f_0_3125 f_0_0 f_0_0 f_0_6875 f_1_5 f_0_3125;
   mkAabb f_0_25 f_0_0 f_0_25 f_0_75 f_1_5 f_0_75;
   mkAabb f_0_3125 f_0_0 f_0_0 f_0_6875 f_1_5 f_0_25;
   mkAabb f_0_3125 f_0_0 f_0_75 f_0_6875 f_1_5 f_1_0;
   mkAabb f_0_75 f_0_0 f_0_3125 f_1_0 f_1_5 f_0_6875;
   mkAabb f_0_0 f_0_0 f_0_3125 f_1_0 f_1_5 f_0_6875;
   mkAabb f_0_25 f_0_0 f_0_25 f_0_75 f_1_5 f_0_3125;
   mkAabb f_0_25 f_0_0 f_0_6875 f_0_75 f_1_5 f_0_75;
   mkAabb f_0_3125 f_0_0 f_0_0 f_0_6875 f_1_5 f_0_25;
   mkAabb f_0_3125 f_0_0 f_0_75 f_0_6875 f_1_5 f_1_0;
   mkAabb f_0_0 f_0_0 f_0_3125 f_1_0 f_1_5 f_0_6875;
   mkAabb f_0_25 f_0_0 f_0_25 f_0_75 f_1_5 f_0_3125;
   mkAabb f_0_25 f_0_0 f_0_6875 f_0_75 f_1_5 f_0_75;
   mkAabb f_0_3125 f_0_0 f_0_0 f_0_6875 f_1_5 f_0_25;
   mkAabb f_0_3125 f_0_0 f_0_75 f_0_6875 f_1_5 f_1_0;
   mkAabb f_0_3125 f_0_0 f_0_0 f_0_6875 f_1_5 f_1_0;
   mkAabb f_0_6875 f_0_0 f_0_3125 f_1_0 f_1_5 f_0_6875;
   mkAabb f_0_0 f_0_0 f_0_3125 f_1_0 f_1_5 f_0_6875;
   mkAabb f_0_3125 f_0_0 f_0_0 f_0_6875 f_1_5 f_0_3125;
   mkAabb f_0_3125 f_0_0 f_0_6875 f_0_6875 f_1_5 f_1_0;
   mkAabb f_0_0 f_0_0 f_0_3125 f_1_0 f_1_5 f_0_6875;
   mkAabb f_0_3125 f_0_0 f_0_0 f_0_6875 f_1_5 f_0_3125;
   mkAabb f_0_3125 f_0_0 f_0_6875 f_0_6875 f_1_5 f_1_0;
   mkAabb f_0_25 f_0_0 f_0_25 f_0_75 f_1_5 f_0_75;
   mkAabb f_0_3125 f_0_0 f_0_0 f_0_6875 f_1_5 f_0_25;
   mkAabb f_0_3125 f_0_0 f_0_75 f_0_6875 f_1_5 f_1_0;
   mkAabb f_0_75 f_0_0 f_0_3125 f_1_0 f_1_5 f_0_6875;
   mkAabb f_0_0 f_0_0 f_0_3125 f_1_0 f_1_5 f_0_6875;
   mkAabb f_0_25 f_0_0 f_0_25 f_0_75 f_1_5 f_0_3125;
   mkAabb f_0_25 f_0_0 f_0_6875 f_0_75 f_1_5 f_0_75;
   mkAabb f_0_3125 f_0_0 f_0_0 f_0_6875 f_1_5 f_0_25;
   mkAabb f_0_3125 f_0_0 f_0_75 f_0_6875 f_1_5 f_1_0;
   mkAabb f_0_0 f_0_0 f_0_3125 f_1_0 f_1_5 f_0_6875;
   mkAabb f_0_25 f_0_0 f_0_25 f_0_75 f_1_5 f_0_3125;
   mkAabb f_0_25 f_0_0 f_0_6875 f_0_75 f_1_5 f_0_75;
   mkAabb f_0_3125 f_0_0 f_0_0 f_0_6875 f_1_5 f_0_25;
   mkAabb f_0_3125 f_0_0 f_0_75 f_0_6875 f_1_5 f_1_0;
   mkAabb f_0_3125 f_0_0 f_0_0 f_0_6875 f_1_5 f_1_0;
   mkAabb f_0_6875 f_0_0 f_0_3125 f_1_0 f_1_5 f_0_6875;
   mkAabb f_0_0 f_0_0 f_0_3125 f_1_0 f_1_5 f_0_6875;
   mkAabb f_0_3125 f_0_0 f_0_0 f_0_6875 f_1_5 f_0_3125;
   mkAabb f_0_3125 f_0_0 f_0_6875 f_0_6875 f_1_5 f_1_0;
   mkAabb f_0_0 f_0_0 f_0_3125 f_1_0 f_1_5 f_0_6875;
   mkAabb f_0_3125 f_0_0 f_0_0 f_0_6875 f_1_5 f_0_3125;
   mkAabb f_0_3125 f_0_0 f_0_6875 f_0_6875 f_1_5 f_1_0;
   mkAabb f_0_25 f_0_0 f_0_25 f_0_75 f_1_5 f_0_75;
   mkAabb f_0_3125 f_0_0 f_0_0 f_0_6875 f_1_5 f_0_25;
   mkAabb f_0_75 f_0_0 f_0_3125 f_1_0 f_1_5 f_0_6875;
   mkAabb f_0_0 f_0_0 f_0_3125 f_1_0 f_1_5 f_0_6875;
   mkAabb f_0_25 f_0_0 f_0_25 f_0_75 f_1_5 f_0_3125;
   mkAabb f_0_25 f_0_0 f_0_6875 f_0_75 f_1_5 f_0_75;
   mkAabb f_0_3125 f_0_0 f_0_0 f_0_6875 f_1_5 f_0_25;
   mkAabb f_0_0 f_0_0 f_0_3125 f_1_0 f_1_5 f_0_6875;
   mkAabb f_0_25 f_0_0 f_0_25 f_0_75 f_1_5 f_0_3125;
   mkAabb f_0_25 f_0_0 f_0_6875 f_0_75 f_1_5 f_0_75;
   mkAabb f_0_3125 f_0_0 f_0_0 f_0_6875 f_1_5 f_0_25;
   mkAabb f_0_3125 f_0_0 f_0_0 f_0_6875 f_1_5 f_0_6875;
   mkAabb f_0_6875 f_0_0 f_0_3125 f_1_0 f_1_5 f_0_6875;
   mkAabb f_0_0 f_0_0 f_0_3125 f_1_0 f_1_5 f_0_6875;
   mkAabb f_0_3125 f_0_0 f_0_0 f_0_6875 f_1_5 f_0_3125;
   mkAabb f_0_0 f_0_0 f_0_3125 f_1_0 f_1_5 f_0_6875;
   mkAabb f_0_3125 f_0_0 f_0_0 f_0_6875 f_1_5 f_0_3125;
   mkAabb f_0_25 f_0_0 f_0_25 f_0_75 f_1_5 f_0_75;
   mkAabb f_0_3125 f_0_0 f_0_0 f_0_6875 f_1_5 f_0_25;
   mkAabb f_0_3125 f_0_0 f_0_75 f_0_6875 f_1_5 f_1_0;
   mkAabb f_0_75 f_0_0 f_0_3125 f_1_0 f_1_5 f_0_6875;
   mkAabb f_0_0 f_0_0 f_0_3125 f_1_0 f_1_5 f_0_6875;
   mkAabb f_0_25 f_0_0 f_0_25 f_0_75 f_1_5 f_0_3125;
   mkAabb f_0_25 f_0_0 f_0_6875 f_0_75 f_1_5 f_0_75;
   mkAabb f_0_3125 f_0_0 f_0_0 f_0_6875 f_1_5 f_0_25;
   mkAabb f_0_3125 f_0_0 f_0_75 f_0_6875 f_1_5 f_1_0;
   mkAabb f_0_0 f_0_0 f_0_3125 f_1_0 f_1_5 f_0_6875;
   mkAabb f_0_25 f_0_0 f_0_25 f_0_75 f_1_5 f_0_3125;
   mkAabb f_0_25 f_0_0 f_0_6875 f_0_75 f_1_5 f_0_75].
Definition SHAPE_BOXES_79 : list Aabb :=
  [mkAabb f_0_3125 f_0_0 f_0_0 f_0_6875 f_1_5 f_0_25;
   mkAabb f_0_3125 f_0_0 f_0_75 f_0_6875 f_1_5 f_1_0;
   mkAabb f_0_3125 f_0_0 f_0_0 f_0_6875 f_1_5 f_1_0;
   mkAabb f_0_6875 f_0_0 f_0_3125 f_1_0 f_1_5 f_0_6875;
   mkAabb f_0_0 f_0_0 f_0_3125 f_1_0 f_1_5 f_0_6875;
   mkAabb f_0_3125 f_0_0 f_0_0 f_0_6875 f_1_5 f_0_3125;
   mkAabb f_0_3125 f_0_0 f_0_6875 f_0_6875 f_1_5 f_1_0;
   mkAabb f_0_0 f_0_0 f_0_3125 f_1_0 f_1_5 f_0_6875;
   mkAabb f_0_3125 f_0_0 f_0_0 f_0_6875 f_1_5 f_0_3125;
   mkAabb f_0_3125 f_0_0 f_0_6875 f_0_6875 f_1_5 f_1_0;
   mkAabb f_0_25 f_0_0 f_0_25 f_0_75 f_1_5 f_0_75;
   mkAabb f_0_3125 f_0_0 f_0_0 f_0_6875 f_1_5 f_0_25;
   mkAabb f_0_3125 f_0_0 f_0_75 f_0_6875 f_1_5 f_1_0;
   mkAabb f_0_75 f_0_0 f_0_3125 f_1_0 f_1_5 f_0_6875;
   mkAabb f_0_0 f_0_0 f_0_3125 f_1_0 f_1_5 f_0_6875;
   mkAabb f_0_25 f_0_0 f_0_25 f_0_75 f_1_5 f_0_3125;
   mkAabb f_0_25 f_0_0 f_0_6875 f_0_75 f_1_5 f_0_75;
   mkAabb f_0_3125 f_0_0 f_0_0 f_0_6875 f_1_5 f_0_25;
   mkAabb f_0_3125 f_0_0 f_0_75 f_0_6875 f_1_5 f_1_0;
   mkAabb f_0_0 f_0_0 f_0_3125 f_1_0 f_1_5 f_0_6875;
   mkAabb f_0_25 f_0_0 f_0_25 f_0_75 f_1_5 f_0_3125;
   mkAabb f_0_25 f_0_0 f_0_6875 f_0_75 f_1_5 f_0_75;
   mkAabb f_0_3125 f_0_0 f_0_0 f_0_6875 f_1_5 f_0_25;
   mkAabb f_0_3125 f_0_0 f_0_75 f_0_6875 f_1_5 f_1_0;
   mkAabb f_0_3125 f_0_0 f_0_0 f_0_6875 f_1_5 f_1_0;
   mkAabb f_0_6875 f_0_0 f_0_3125 f_1_0 f_1_5 f_0_6875;
   mkAabb f_0_0 f_0_0 f_0_3125 f_1_0 f_1_5 f_0_6875;
   mkAabb f_0_3125 f_0_0 f_0_0 f_0_6875 f_1_5 f_0_3125;
   mkAabb f_0_3125 f_0_0 f_0_6875 f_0_6875 f_1_5 f_1_0;
   mkAabb f_0_0 f_0_0 f_0_3125 f_1_0 f_1_5 f_0_6875;
   mkAabb f_0_3125 f_0_0 f_0_0 f_0_6875 f_1_5 f_0_3125;
   mkAabb f_0_3125 f_0_0 f_0_6875 f_0_6875 f_1_5 f_1_0;
   mkAabb f_0_25 f_0_0 f_0_25 f_0_75 f_1_5 f_0_75;
   mkAabb f_0_75 f_0_0 f_0_3125 f_1_0 f_1_5 f_0_6875;
   mkAabb f_0_0 f_0_0 f_0_3125 f_1_0 f_1_5 f_0_6875;
   mkAabb f_0_25 f_0_0 f_0_25 f_0_75 f_1_5 f_0_3125;
   mkAabb f_0_25 f_0_0 f_0_6875 f_0_75 f_1_5 f_0_75;
   mkAabb f_0_0 f_0_0 f_0_3125 f_1_0 f_1_5 f_0_6875;
   mkAabb f_0_25 f_0_0 f_0_25 f_0_75 f_1_5 f_0_3125;
   mkAabb f_0_25 f_0_0 f_0_6875 f_0_75 f_1_5 f_0_75;
   mkAabb f_0_3125 f_0_0 f_0_3125 f_1_0 f_1_5 f_0_6875;
   mkAabb f_0_0 f_0_0 f_0_3125 f_1_0 f_1_5 f_0_6875;
   mkAabb f_0_0 f_0_0 f_0_3125 f_1_0 f_1_5 f_0_6875;
   mkAabb f_0_25 f_0_0 f_0_25 f_0_75 f_1_5 f_0_75;
   mkAabb f_0_3125 f_0_0 f_0_75 f_0_6875 f_1_5 f_1_0;
   mkAabb f_0_75 f_0_0 f_0_3125 f_1_0 f_1_5 f_0_6875;
   mkAabb f_0_0 f_0_0 f_0_3125 f_1_0 f_1_5 f_0_6875;
   mkAabb f_0_25 f_0_0 f_0_25 f_0_75 f_1_5 f_0_3125;
   mkAabb f_0_25 f_0_0 f_0_6875 f_0_75 f_1_5 f_0_75;
   mkAabb f_0_3125 f_0_0 f_0_75 f_0_6875 f_1_5 f_1_0;
   mkAabb f_0_0 f_0_0 f_0_3125 f_1_0 f_1_5 f_0_6875;
   mkAabb f_0_25 f_0_0 f_0_25 f_0_75 f_1_5 f_0_3125;
   mkAabb f_0_25 f_0_0 f_0_6875 f_0_75 f_1_5 f_0_75;
   mkAabb f_0_3125 f_0_0 f_0_75 f_0_6875 f_1_5 f_1_0;
   mkAabb f_0_3125 f_0_0 f_0_3125 f_0_6875 f_1_5 f_1_0;
   mkAabb f_0_6875 f_0_0 f_0_3125 f_1_0 f_1_5 f_0_6875;
   mkAabb f_0_0 f_0_0 f_0_3125 f_1_0 f_1_5 f_0_6875;
   mkAabb f_0_3125 f_0_0 f_0_6875 f_0_6875 f_1_5 f_1_0;
   mkAabb f_0_0 f_0_0 f_0_3125 f_1_0 f_1_5 f_0_6875;
   mkAabb f_0_3125 f_0_0 f_0_6875 f_0_6875 f_1_5 f_1_0;
   mkAabb f_0_25 f_0_0 f_0_25 f_0_75 f_1_5 f_0_75;
   mkAabb f_0_3125 f_0_0 f_0_75 f_0_6875 f_1_5 f_1_0;
   mkAabb f_0_75 f_0_0 f_0_3125 f_1_0 f_1_5 f_0_6875;
   mkAabb f_0_0 f_0_0 f_0_3125 f_1_0 f_1_5 f_0_6875;
   mkAabb f_0_25 f_0_0 f_0_25 f_0_75 f_1_5 f_0_3125;
   mkAabb f_0_25 f_0_0 f_0_6875 f_0_75 f_1_5 f_0_75;
   mkAabb f_0_3125 f_0_0 f_0_75 f_0_6875 f_1_5 f_1_0;
   mkAabb f_0_0 f_0_0 f_0_3125 f_1_0 f_1_5 f_0_6875;
   mkAabb f_0_25 f_0_0 f_0_25 f_0_75 f_1_5 f_0_3125;
   mkAabb f_0_25 f_0_0 f_0_6875 f_0_75 f_1_5 f_0_75;
   mkAabb f_0_3125 f_0_0 f_0_75 f_0_6875 f_1_5 f_1_0;
   mkAabb f_0_3125 f_0_0 f_0_3125 f_0_6875 f_1_5 f_1_0;
   mkAabb f_0_6875 f_0_0 f_0_3125 f_1_0 f_1_5 f_0_6875;
   mkAabb f_0_0 f_0_0 f_0_3125 f_1_0 f_1_5 f_0_6875;
   mkAabb f_0_3125 f_0_0 f_0_6875 f_0_6875 f_1_5 f_1_0;
   mkAabb f_0_0 f_0_0 f_0_3125 f_1_0 f_1_5 f_0_6875;
   mkAabb f_0_3125 f_0_0 f_0_6875 f_0_6875 f_1_5 f_1_0;
   mkAabb f_0_25 f_0_0 f_0_25 f_0_75 f_1_5 f_0_75;
   mkAabb f_0_3125 f_0_0 f_0_0 f_0_6875 f_1_5 f_0_25;
   mkAabb f_0_75 f_0_0 f_0_3125 f_1_0 f_1_5 f_0_6875;
   mkAabb f_0_0 f_0_0 f_0_3125 f_1_0 f_1_5 f_0_6875;
   mkAabb f_0_25 f_0_0 f_0_25 f_0_75 f_1_5 f_0_3125;
   mkAabb f_0_25 f_0_0 f_0_6875 f_0_75 f_1_5 f_0_75;
   mkAabb f_0_3125 f_0_0 f_0_0 f_0_6875 f_1_5 f_0_25;
   mkAabb f_0_0 f_0_0 f_0_3125 f_1_0 f_1_5 f_0_6875;
   mkAabb f_0_25 f_0_0 f_0_25 f_0_75 f_1_5 f_0_3125;
   mkAabb f_0_25 f_0_0 f_0_6875 f_0_75 f_1_5 f_0_75;
   mkAabb f_0_3125 f_0_0 f_0_0 f_0_6875 f_1_5 f_0_25;
   mkAabb f_0_3125 f_0_0 f_0_0 f_0_6875 f_1_5 f_0_6875;
   mkAabb f_0_6875 f_0_0 f_0_3125 f_1_0 f_1_5 f_0_6875;
   mkAabb f_0_0 f_0_0 f_0_3125 f_1_0 f_1_5 f_0_6875;
   mkAabb f_0_3125 f_0_0 f_0_0 f_0_6875 f_1_5 f_0_3125;
   mkAabb f_0_0 f_0_0 f_0_3125 f_1_0 f_1_5 f_0_6875;
   mkAabb f_0_3125 f_0_0 f_0_0 f_0_6875 f_1_5 f_0_3125;
   mkAabb f_0_25 f_0_0 f_0_25 f_0_75 f_1_5 f_0_75;
   mkAabb f_0_3125 f_0_0 f_0_0 f_0_6875 f_1_5 f_0_25;
   mkAabb f_0_3125 f_0_0 f_0_75 f_0_6875 f_1_5 f_1_0;
   mkAabb f_0_75 f_0_0 f_0_3125 f_1_0 f_1_5 f_0_6875;
   mkAabb f_0_0 f_0_0 f_0_3125 f_1_0 f_1_5 f_0_6875;
   mkAabb f_0_25 f_0_0 f_0_25 f_0_75 f_1_5 f_0_3125;
   mkAabb f_0_25 f_0_0 f_0_6875 f_0_75 f_1_5 f_0_75;
   mkAabb f_0_3125 f_0_0 f_0_0 f_0_6875 f_1_5 f_0_25;
   mkAabb f_0_3125 f_0_0 f_0_75 f_0_6875 f_1_5 f_1_0;
   mkAabb f_0_0 f_0_0 f_0_3125 f_1_0 f_1_5 f_0_6875;
   mkAabb f_0_25 f_0_0 f_0_25 f_0_75 f_1_5 f_0_3125;
   mkAabb f_0_25 f_0_0 f_0_6875 f_0_75 f_1_5 f_0_75;
   mkAabb f_0_3125 f_0_0 f_0_0 f_0_6875 f_1_5 f_0_25;
   mkAabb f_0_3125 f_0_0 f_0_75 f_0_6875 f_1_5 f_1_0;
   mkAabb f_0_3125 f_0_0 f_0_0 f_0_6875 f_1_5 f_1_0;
   mkAabb f_0_6875 f_0_0 f_0_3125 f_1_0 f_1_5 f_0_6875;
   mkAabb f_0_0 f_0_0 f_0_3125 f_1_0 f_1_5 f_0_6875;
   mkAabb f_0_3125 f_0_0 f_0_0 f_0_6875 f_1_5 f_0_3125;
   mkAabb f_0_3125 f_0_0 f_0_6875 f_0_6875 f_1_5 f_1_0;
   mkAabb f_0_0 f_0_0 f_0_3125 f_1_0 f_1_5 f_0_6875;
   mkAabb f_0_3125 f_0_0 f_0_0 f_0_6875 f_1_5 f_0_3125;
   mkAabb f_0_3125 f_0_0 f_0_6875 f_0_6875 f_1_5 f_1_0;
   mkAabb f_0_25 f_0_0 f_0_25 f_0_75 f_1_5 f_0_75;
   mkAabb f_0_3125 f_0_0 f_0_0 f_0_6875 f_1_5 f_0_25;
   mkAabb f_0_3125 f_0_0 f_0_75 f_0_6875 f_1_5 f_1_0;
   mkAabb f_0_75 f_0_0 f_0_3125 f_1_0 f_1_5 f_0_6875;
   mkAabb f_0_0 f_0_0 f_0_3125 f_1_0 f_1_5 f_0_6875;
   mkAabb f_0_25 f_0_0 f_0_25 f_0_75 f_1_5 f_0_3125;
   mkAabb f_0_25 f_0_0 f_0_6875 f_0_75 f_1_5 f_0_75;
   mkAabb f_0_3125 f_0_0 f_0_0 f_0_6875 f_1_5 f_0_25;
   mkAabb f_0_3125 f_0_0 f_0_75 f_0_6875 f_1_5 f_1_0;
   mkAabb f_0_0 f_0_0 f_0_3125 f_1_0 f_1_5 f_0_6875;
   mkAabb f_0_25 f_0_0 f_0_25 f_0_75 f_1_5 f_0_3125;
   mkAabb f_0_25 f_0_0 f_0_6875 f_0_75 f_1_5 f_0_75;
   mkAabb f_0_3125 f_0_0 f_0_0 f_0_6875 f_1_5 f_0_25;
   mkAabb f_0_3125 f_0_0 f_0_75 f_0_6875 f_1_5 f_1_0;
   mkAabb f_0_3125 f_0_0 f_0_0 f_0_6875 f_1_5 f_1_0;
   mkAabb f_0_6875 f_0_0 f_0_3125 f_1_0 f_1_5 f_0_6875;
   mkAabb f_0_0 f_0_0 f_0_3125 f_1_0 f_1_5 f_0_6875;
   mkAabb f_0_3125 f_0_0 f_0_0 f_0_6875 f_1_5 f_0_3125;
   mkAabb f_0_3125 f_0_0 f_0_6875 f_0_6875 f_1_5 f_1_0;
   mkAabb f_0_0 f_0_0 f_0_3125 f_1_0 f_1_5 f_0_6875;
   mkAabb f_0_3125 f_0_0 f_0_0 f_0_6875 f_1_5 f_0_3125;
   mkAabb f_0_3125 f_0_0 f_0_6875 f_0_6875 f_1_5 f_1_0;
   mkAabb f_0_25 f_0_0 f_0_25 f_0_75 f_1_5 f_0_75;
   mkAabb f_0_3125 f_0_0 f_0_0 f_0_6875 f_1_5 f_0_25;
   mkAabb f_0_75 f_0_0 f_0_3125 f_1_0 f_1_5 f_0_6875;
   mkAabb f_0_0 f_0_0 f_0_3125 f_1_0 f_1_5 f_0_6875;
   mkAabb f_0_25 f_0_0 f_0_25 f_0_75 f_1_5 f_0_3125;
   mkAabb f_0_25 f_0_0 f_0_6875 f_0_75 f_1_5 f_0_75;
   mkAabb f_0_3125 f_0_0 f_0_0 f_0_6875 f_1_5 f_0_25;
   mkAabb f_0_0 f_0_0 f_0_3125 f_1_0 f_1_5 f_0_6875;
   mkAabb f_0_25 f_0_0 f_0_25 f_0_75 f_1_5 f_0_3125;
   mkAabb f_0_25 f_0_0 f_0_6875 f_0_75 f_1_5 f_0_75;
   mkAabb f_0_3125 f_0_0 f_0_0 f_0_6875 f_1_5 f_0_25;
   mkAabb f_0_3125 f_0_0 f_0_0 f_0_6875 f_1_5 f_0_6875].
Definition SHAPE_BOXES_80 : list Aabb :=
  [mkAabb f_0_6875 f_0_0 f_0_3125 f_1_0 f_1_5 f_0_6875;
   mkAabb f_0_0 f_0_0 f_0_3125 f_1_0 f_1_5 f_0_6875;
   mkAabb f_0_3125 f_0_0 f_0_0 f_0_6875 f_1_5 f_0_3125;
   mkAabb f_0_0 f_0_0 f_0_3125 f_1_0 f_1_5 f_0_6875;
   mkAabb f_0_3125 f_0_0 f_0_0 f_0_6875 f_1_5 f_0_3125;
   mkAabb f_0_25 f_0_0 f_0_25 f_0_75 f_1_5 f_0_75;
   mkAabb f_0_3125 f_0_0 f_0_0 f_0_6875 f_1_5 f_0_25;
   mkAabb f_0_3125 f_0_0 f_0_75 f_0_6875 f_1_5 f_1_0;
   mkAabb f_0_75 f_0_0 f_0_3125 f_1_0 f_1_5 f_0_6875;
   mkAabb f_0_0 f_0_0 f_0_3125 f_1_0 f_1_5 f_0_6875;
   mkAabb f_0_25 f_0_0 f_0_25 f_0_75 f_1_5 f_0_3125;
   mkAabb f_0_25 f_0_0 f_0_6875 f_0_75 f_1_5 f_0_75;
   mkAabb f_0_3125 f_0_0 f_0_0 f_0_6875 f_1_5 f_0_25;
   mkAabb f_0_3125 f_0_0 f_0_75 f_0_6875 f_1_5 f_1_0;
   mkAabb f_0_0 f_0_0 f_0_3125 f_1_0 f_1_5 f_0_6875;
   mkAabb f_0_25 f_0_0 f_0_25 f_0_75 f_1_5 f_0_3125;
   mkAabb f_0_25 f_0_0 f_0_6875 f_0_75 f_1_5 f_0_75;
   mkAabb f_0_3125 f_0_0 f_0_0 f_0_6875 f_1_5 f_0_25;
   mkAabb f_0_3125 f_0_0 f_0_75 f_0_6875 f_1_5 f_1_0;
   mkAabb f_0_3125 f_0_0 f_0_0 f_0_6875 f_1_5 f_1_0;
   mkAabb f_0_6875 f_0_0 f_0_3125 f_1_0 f_1_5 f_0_6875;
   mkAabb f_0_0 f_0_0 f_0_3125 f_1_0 f_1_5 f_0_6875;
   mkAabb f_0_3125 f_0_0 f_0_0 f_0_6875 f_1_5 f_0_3125;
   mkAabb f_0_3125 f_0_0 f_0_6875 f_0_6875 f_1_5 f_1_0;
   mkAabb f_0_0 f_0_0 f_0_3125 f_1_0 f_1_5 f_0_6875;
   mkAabb f_0_3125 f_0_0 f_0_0 f_0_6875 f_1_5 f_0_3125;
   mkAabb f_0_3125 f_0_0 f_0_6875 f_0_6875 f_1_5 f_1_0;
   mkAabb f_0_25 f_0_0 f_0_25 f_0_75 f_1_5 f_0_75;
   mkAabb f_0_3125 f_0_0 f_0_0 f_0_6875 f_1_5 f_0_25;
   mkAabb f_0_3125 f_0_0 f_0_75 f_0_6875 f_1_5 f_1_0;
   mkAabb f_0_75 f_0_0 f_0_3125 f_1_0 f_1_5 f_0_6875;
   mkAabb f_0_0 f_0_0 f_0_3125 f_1_0 f_1_5 f_0_6875;
   mkAabb f_0_25 f_0_0 f_0_25 f_0_75 f_1_5 f_0_3125;
   mkAabb f_0_25 f_0_0 f_0_6875 f_0_75 f_1_5 f_0_75;
   mkAabb f_0_3125 f_0_0 f_0_0 f_0_6875 f_1_5 f_0_25;
   mkAabb f_0_3125 f_0_0 f_0_75 f_0_6875 f_1_5 f_1_0;
   mkAabb f_0_0 f_0_0 f_0_3125 f_1_0 f_1_5 f_0_6875;
   mkAabb f_0_25 f_0_0 f_0_25 f_0_75 f_1_5 f_0_3125;
   mkAabb f_0_25 f_0_0 f_0_6875 f_0_75 f_1_5 f_0_75;
   mkAabb f_0_3125 f_0_0 f_0_0 f_0_6875 f_1_5 f_0_25;
   mkAabb f_0_3125 f_0_0 f_0_75 f_0_6875 f_1_5 f_1_0;
   mkAabb f_0_3125 f_0_0 f_0_0 f_0_6875 f_1_5 f_1_0;
   mkAabb f_0_6875 f_0_0 f_0_3125 f_1_0 f_1_5 f_0_6875;
   mkAabb f_0_0 f_0_0 f_0_3125 f_1_0 f_1_5 f_0_6875;
   mkAabb f_0_3125 f_0_0 f_0_0 f_0_6875 f_1_5 f_0_3125;
   mkAabb f_0_3125 f_0_0 f_0_6875 f_0_6875 f_1_5 f_1_0;
   mkAabb f_0_0 f_0_0 f_0_3125 f_1_0 f_1_5 f_0_6875;
   mkAabb f_0_3125 f_0_0 f_0_0 f_0_6875 f_1_5 f_0_3125;
   mkAabb f_0_3125 f_0_0 f_0_6875 f_0_6875 f_1_5 f_1_0;
   mkAabb f_0_0 f_0_0 f_0_0 f_1_0 f_0_5 f_1_0;
   mkAabb f_0_0 f_0_0 f_0_0 f_1_0 f_0_5 f_1_0;
   mkAabb f_0_1875 f_0_0 f_0_1875 f_0_5625 f_1_0 f_0_5625;
   mkAabb f_0_1875 f_0_0 f_0_1875 f_0_5625 f_1_0 f_0_5625;
   mkAabb f_0_1875 f_0_0 f_0_1875 f_0_5625 f_1_0 f_0_5625;
   mkAabb f_0_1875 f_0_0 f_0_1875 f_0_5625 f_1_0 f_0_5625;
   mkAabb f_0_1875 f_0_0 f_0_1875 f_0_5625 f_0_6875 f_0_5625;
   mkAabb f_0_1875 f_0_0 f_0_1875 f_0_5625 f_0_6875 f_0_5625;
   mkAabb f_0_1875 f_0_3125 f_0_1875 f_0_5625 f_1_0 f_0_5625;
   mkAabb f_0_1875 f_0_3125 f_0_1875 f_0_5625 f_1_0 f_0_5625;
   mkAabb f_0_125 f_0_0 f_0_125 f_0_625 f_1_0 f_0_625;
   mkAabb f_0_125 f_0_0 f_0_125 f_0_625 f_1_0 f_0_625;
   mkAabb f_0_125 f_0_0 f_0_125 f_0_625 f_1_0 f_0_625;
   mkAabb f_0_125 f_0_0 f_0_125 f_0_625 f_1_0 f_0_625;
   mkAabb f_0_0625 f_0_0 f_0_0625 f_0_6875 f_1_0 f_0_6875;
   mkAabb f_0_0625 f_0_0 f_0_0625 f_0_6875 f_1_0 f_0_6875;
   mkAabb f_0_0625 f_0_0 f_0_0625 f_0_6875 f_1_0 f_0_6875;
   mkAabb f_0_0625 f_0_0 f_0_0625 f_0_6875 f_1_0 f_0_6875;
   mkAabb f_0_0 f_0_0 f_0_0 f_0_75 f_1_0 f_0_75;
   mkAabb f_0_0 f_0_0 f_0_0 f_0_75 f_1_0 f_0_75;
   mkAabb f_0_0 f_0_0 f_0_0 f_0_75 f_1_0 f_0_75;
   mkAabb f_0_0 f_0_0 f_0_0 f_0_75 f_1_0 f_0_75;
   mkAabb f_0_375 f_0_0 f_0_375 f_0_625 f_1_0 f_0_625;
   mkAabb f_0_0 f_0_5 f_0_0 f_0_375 f_1_0 f_1_0;
   mkAabb f_0_375 f_0_5 f_0_0 f_1_0 f_1_0 f_0_375;
   mkAabb f_0_375 f_0_5 f_0_625 f_1_0 f_1_0 f_1_0;
   mkAabb f_0_625 f_0_5 f_0_375 f_1_0 f_1_0 f_0_625;
   mkAabb f_0_0 f_0_6875 f_0_0 f_1_0 f_0_9375 f_1_0;
   mkAabb f_0_0 f_0_6875 f_0_0 f_1_0 f_0_9375 f_1_0;
   mkAabb f_0_0 f_0_6875 f_0_0 f_1_0 f_0_8125 f_1_0;
   mkAabb f_0_0 f_0_0 f_0_0 f_1_0 f_0_875 f_1_0;
   mkAabb f_0_25 f_0_0 f_0_25 f_0_75 f_1_5 f_0_75;
   mkAabb f_0_0 f_0_0 f_0_3125 f_0_75 f_1_5 f_0_6875;
   mkAabb f_0_25 f_0_0 f_0_25 f_0_75 f_1_5 f_0_3125;
   mkAabb f_0_25 f_0_0 f_0_6875 f_0_75 f_1_5 f_0_75;
   mkAabb f_0_0 f_0_0 f_0_3125 f_0_75 f_1_5 f_0_6875;
   mkAabb f_0_25 f_0_0 f_0_25 f_0_75 f_1_5 f_0_3125;
   mkAabb f_0_25 f_0_0 f_0_6875 f_0_75 f_1_5 f_0_75;
   mkAabb f_0_0 f_0_0 f_0_3125 f_0_6875 f_1_5 f_0_6875;
   mkAabb f_0_0 f_0_0 f_0_3125 f_0_6875 f_1_5 f_0_6875;
   mkAabb f_0_25 f_0_0 f_0_25 f_0_75 f_1_5 f_0_75;
   mkAabb f_0_3125 f_0_0 f_0_75 f_0_6875 f_1_5 f_1_0;
   mkAabb f_0_0 f_0_0 f_0_3125 f_0_75 f_1_5 f_0_6875;
   mkAabb f_0_25 f_0_0 f_0_25 f_0_75 f_1_5 f_0_3125;
   mkAabb f_0_25 f_0_0 f_0_6875 f_0_75 f_1_5 f_0_75;
   mkAabb f_0_3125 f_0_0 f_0_75 f_0_6875 f_1_5 f_1_0;
   mkAabb f_0_0 f_0_0 f_0_3125 f_0_75 f_1_5 f_0_6875;
   mkAabb f_0_25 f_0_0 f_0_25 f_0_75 f_1_5 f_0_3125;
   mkAabb f_0_25 f_0_0 f_0_6875 f_0_75 f_1_5 f_0_75;
   mkAabb f_0_3125 f_0_0 f_0_75 f_0_6875 f_1_5 f_1_0;
   mkAabb f_0_3125 f_0_0 f_0_3125 f_0_6875 f_1_5 f_1_0;
   mkAabb f_0_0 f_0_0 f_0_3125 f_0_6875 f_1_5 f_0_6875;
   mkAabb f_0_3125 f_0_0 f_0_6875 f_0_6875 f_1_5 f_1_0;
   mkAabb f_0_0 f_0_0 f_0_3125 f_0_6875 f_1_5 f_0_6875;
   mkAabb f_0_3125 f_0_0 f_0_6875 f_0_6875 f_1_5 f_1_0;
   mkAabb f_0_25 f_0_0 f_0_25 f_0_75 f_1_5 f_0_75;
   mkAabb f_0_3125 f_0_0 f_0_75 f_0_6875 f_1_5 f_1_0;
   mkAabb f_0_0 f_0_0 f_0_3125 f_0_75 f_1_5 f_0_6875;
   mkAabb f_0_25 f_0_0 f_0_25 f_0_75 f_1_5 f_0_3125;
   mkAabb f_0_25 f_0_0 f_0_6875 f_0_75 f_1_5 f_0_75;
   mkAabb f_0_3125 f_0_0 f_0_75 f_0_6875 f_1_5 f_1_0;
   mkAabb f_0_0 f_0_0 f_0_3125 f_0_75 f_1_5 f_0_6875;
   mkAabb f_0_25 f_0_0 f_0_25 f_0_75 f_1_5 f_0_3125;
   mkAabb f_0_25 f_0_0 f_0_6875 f_0_75 f_1_5 f_0_75;
   mkAabb f_0_3125 f_0_0 f_0_75 f_0_6875 f_1_5 f_1_0;
   mkAabb f_0_3125 f_0_0 f_0_3125 f_0_6875 f_1_5 f_1_0;
   mkAabb f_0_0 f_0_0 f_0_3125 f_0_6875 f_1_5 f_0_6875;
   mkAabb f_0_3125 f_0_0 f_0_6875 f_0_6875 f_1_5 f_1_0;
   mkAabb f_0_0 f_0_0 f_0_3125 f_0_6875 f_1_5 f_0_6875;
   mkAabb f_0_3125 f_0_0 f_0_6875 f_0_6875 f_1_5 f_1_0;
   mkAabb f_0_25 f_0_0 f_0_25 f_0_75 f_1_5 f_0_75;
   mkAabb f_0_3125 f_0_0 f_0_0 f_0_6875 f_1_5 f_0_25;
   mkAabb f_0_0 f_0_0 f_0_3125 f_0_75 f_1_5 f_0_6875;
   mkAabb f_0_25 f_0_0 f_0_25 f_0_75 f_1_5 f_0_3125;
   mkAabb f_0_25 f_0_0 f_0_6875 f_0_75 f_1_5 f_0_75;
   mkAabb f_0_3125 f_0_0 f_0_0 f_0_6875 f_1_5 f_0_25;
   mkAabb f_0_0 f_0_0 f_0_3125 f_0_75 f_1_5 f_0_6875;
   mkAabb f_0_25 f_0_0 f_0_25 f_0_75 f_1_5 f_0_3125;
   mkAabb f_0_25 f_0_0 f_0_6875 f_0_75 f_1_5 f_0_75;
   mkAabb f_0_3125 f_0_0 f_0_0 f_0_6875 f_1_5 f_0_25;
   mkAabb f_0_3125 f_0_0 f_0_0 f_0_6875 f_1_5 f_0_6875;
   mkAabb f_0_0 f_0_0 f_0_3125 f_0_6875 f_1_5 f_0_6875;
   mkAabb f_0_3125 f_0_0 f_0_0 f_0_6875 f_1_5 f_0_3125;
   mkAabb f_0_0 f_0_0 f_0_3125 f_0_6875 f_1_5 f_0_6875;
   mkAabb f_0_3125 f_0_0 f_0_0 f_0_6875 f_1_5 f_0_3125;
   mkAabb f_0_25 f_0_0 f_0_25 f_0_75 f_1_5 f_0_75;
   mkAabb f_0_3125 f_0_0 f_0_0 f_0_6875 f_1_5 f_0_25;
   mkAabb f_0_3125 f_0_0 f_0_75 f_0_6875 f_1_5 f_1_0;
   mkAabb f_0_0 f_0_0 f_0_3125 f_0_75 f_1_5 f_0_6875;
   mkAabb f_0_25 f_0_0 f_0_25 f_0_75 f_1_5 f_0_3125;
   mkAabb f_0_25 f_0_0 f_0_6875 f_0_75 f_1_5 f_0_75;
   mkAabb f_0_3125 f_0_0 f_0_0 f_0_6875 f_1_5 f_0_25;
   mkAabb f_0_3125 f_0_0 f_0_75 f_0_6875 f_1_5 f_1_0;
   mkAabb f_0_0 f_0_0 f_0_3125 f_0_75 f_1_5 f_0_6875;
   mkAabb f_0_25 f_0_0 f_0_25 f_0_75 f_1_5 f_0_3125;
   mkAabb f_0_25 f_0_0 f_0_6875 f_0_75 f_1_5 f_0_75;
   mkAabb f_0_3125 f_0_0 f_0_0 f_0_6875 f_1_5 f_0_25;
   mkAabb f_0_3125 f_0_0 f_0_75 f_0_6875 f_1_5 f_1_0;
   mkAabb f_0_3125 f_0_0 f_0_0 f_0_6875 f_1_5 f_1_0;
   mkAabb f_0_0 f_0_0 f_0_3125 f_0_6875 f_1_5 f_0_6875;
   mkAabb f_0_3125 f_0_0 f_0_0 f_0_6875 f_1_5 f_0_3125].
Definition SHAPE_BOXES_81 : list Aabb :=
  [mkAabb f_0_3125 f_0_0 f_0_6875 f_0_6875 f_1_5 f_1_0;
   mkAabb f_0_0 f_0_0 f_0_3125 f_0_6875 f_1_5 f_0_6875;
   mkAabb f_0_3125 f_0_0 f_0_0 f_0_6875 f_1_5 f_0_3125;
   mkAabb f_0_3125 f_0_0 f_0_6875 f_0_6875 f_1_5 f_1_0;
   mkAabb f_0_25 f_0_0 f_0_25 f_0_75 f_1_5 f_0_75;
   mkAabb f_0_3125 f_0_0 f_0_0 f_0_6875 f_1_5 f_0_25;
   mkAabb f_0_3125 f_0_0 f_0_75 f_0_6875 f_1_5 f_1_0;
   mkAabb f_0_0 f_0_0 f_0_3125 f_0_75 f_1_5 f_0_6875;
   mkAabb f_0_25 f_0_0 f_0_25 f_0_75 f_1_5 f_0_3125;
   mkAabb f_0_25 f_0_0 f_0_6875 f_0_75 f_1_5 f_0_75;
   mkAabb f_0_3125 f_0_0 f_0_0 f_0_6875 f_1_5 f_0_25;
   mkAabb f_0_3125 f_0_0 f_0_75 f_0_6875 f_1_5 f_1_0;
   mkAabb f_0_0 f_0_0 f_0_3125 f_0_75 f_1_5 f_0_6875;
   mkAabb f_0_25 f_0_0 f_0_25 f_0_75 f_1_5 f_0_3125;
   mkAabb f_0_25 f_0_0 f_0_6875 f_0_75 f_1_5 f_0_75;
   mkAabb f_0_3125 f_0_0 f_0_0 f_0_6875 f_1_5 f_0_25;
   mkAabb f_0_3125 f_0_0 f_0_75 f_0_6875 f_1_5 f_1_0;
   mkAabb f_0_3125 f_0_0 f_0_0 f_0_6875 f_1_5 f_1_0;
   mkAabb f_0_0 f_0_0 f_0_3125 f_0_6875 f_1_5 f_0_6875;
   mkAabb f_0_3125 f_0_0 f_0_0 f_0_6875 f_1_5 f_0_3125;
   mkAabb f_0_3125 f_0_0 f_0_6875 f_0_6875 f_1_5 f_1_0;
   mkAabb f_0_0 f_0_0 f_0_3125 f_0_6875 f_1_5 f_0_6875;
   mkAabb f_0_3125 f_0_0 f_0_0 f_0_6875 f_1_5 f_0_3125;
   mkAabb f_0_3125 f_0_0 f_0_6875 f_0_6875 f_1_5 f_1_0;
   mkAabb f_0_25 f_0_0 f_0_25 f_0_75 f_1_5 f_0_75;
   mkAabb f_0_3125 f_0_0 f_0_0 f_0_6875 f_1_5 f_0_25;
   mkAabb f_0_0 f_0_0 f_0_3125 f_0_75 f_1_5 f_0_6875;
   mkAabb f_0_25 f_0_0 f_0_25 f_0_75 f_1_5 f_0_3125;
   mkAabb f_0_25 f_0_0 f_0_6875 f_0_75 f_1_5 f_0_75;
   mkAabb f_0_3125 f_0_0 f_0_0 f_0_6875 f_1_5 f_0_25;
   mkAabb f_0_0 f_0_0 f_0_3125 f_0_75 f_1_5 f_0_6875;
   mkAabb f_0_25 f_0_0 f_0_25 f_0_75 f_1_5 f_0_3125;
   mkAabb f_0_25 f_0_0 f_0_6875 f_0_75 f_1_5 f_0_75;
   mkAabb f_0_3125 f_0_0 f_0_0 f_0_6875 f_1_5 f_0_25;
   mkAabb f_0_3125 f_0_0 f_0_0 f_0_6875 f_1_5 f_0_6875;
   mkAabb f_0_0 f_0_0 f_0_3125 f_0_6875 f_1_5 f_0_6875;
   mkAabb f_0_3125 f_0_0 f_0_0 f_0_6875 f_1_5 f_0_3125;
   mkAabb f_0_0 f_0_0 f_0_3125 f_0_6875 f_1_5 f_0_6875;
   mkAabb f_0_3125 f_0_0 f_0_0 f_0_6875 f_1_5 f_0_3125;
   mkAabb f_0_25 f_0_0 f_0_25 f_0_75 f_1_5 f_0_75;
   mkAabb f_0_3125 f_0_0 f_0_0 f_0_6875 f_1_5 f_0_25;
   mkAabb f_0_3125 f_0_0 f_0_75 f_0_6875 f_1_5 f_1_0;
   mkAabb f_0_0 f_0_0 f_0_3125 f_0_75 f_1_5 f_0_6875;
   mkAabb f_0_25 f_0_0 f_0_25 f_0_75 f_1_5 f_0_3125;
   mkAabb f_0_25 f_0_0 f_0_6875 f_0_75 f_1_5 f_0_75;
   mkAabb f_0_3125 f_0_0 f_0_0 f_0_6875 f_1_5 f_0_25;
   mkAabb f_0_3125 f_0_0 f_0_75 f_0_6875 f_1_5 f_1_0;
   mkAabb f_0_0 f_0_0 f_0_3125 f_0_75 f_1_5 f_0_6875;
   mkAabb f_0_25 f_0_0 f_0_25 f_0_75 f_1_5 f_0_3125;
   mkAabb f_0_25 f_0_0 f_0_6875 f_0_75 f_1_5 f_0_75;
   mkAabb f_0_3125 f_0_0 f_0_0 f_0_6875 f_1_5 f_0_25;
   mkAabb f_0_3125 f_0_0 f_0_75 f_0_6875 f_1_5 f_1_0;
   mkAabb f_0_3125 f_0_0 f_0_0 f_0_6875 f_1_5 f_1_0;
   mkAabb f_0_0 f_0_0 f_0_3125 f_0_6875 f_1_5 f_0_6875;
   mkAabb f_0_3125 f_0_0 f_0_0 f_0_6875 f_1_5 f_0_3125;
   mkAabb f_0_3125 f_0_0 f_0_6875 f_0_6875 f_1_5 f_1_0;
   mkAabb f_0_0 f_0_0 f_0_3125 f_0_6875 f_1_5 f_0_6875;
   mkAabb f_0_3125 f_0_0 f_0_0 f_0_6875 f_1_5 f_0_3125;
   mkAabb f_0_3125 f_0_0 f_0_6875 f_0_6875 f_1_5 f_1_0;
   mkAabb f_0_25 f_0_0 f_0_25 f_0_75 f_1_5 f_0_75;
   mkAabb f_0_3125 f_0_0 f_0_0 f_0_6875 f_1_5 f_0_25;
   mkAabb f_0_3125 f_0_0 f_0_75 f_0_6875 f_1_5 f_1_0;
   mkAabb f_0_0 f_0_0 f_0_3125 f_0_75 f_1_5 f_0_6875;
   mkAabb f_0_25 f_0_0 f_0_25 f_0_75 f_1_5 f_0_3125;
   mkAabb f_0_25 f_0_0 f_0_6875 f_0_75 f_1_5 f_0_75;
   mkAabb f_0_3125 f_0_0 f_0_0 f_0_6875 f_1_5 f_0_25;
   mkAabb f_0_3125 f_0_0 f_0_75 f_0_6875 f_1_5 f_1_0;
   mkAabb f_0_0 f_0_0 f_0_3125 f_0_75 f_1_5 f_0_6875;
   mkAabb f_0_25 f_0_0 f_0_25 f_0_75 f_1_5 f_0_3125;
   mkAabb f_0_25 f_0_0 f_0_6875 f_0_75 f_1_5 f_0_75;
   mkAabb f_0_3125 f_0_0 f_0_0 f_0_6875 f_1_5 f_0_25;
   mkAabb f_0_3125 f_0_0 f_0_75 f_0_6875 f_1_5 f_1_0;
   mkAabb f_0_3125 f_0_0 f_0_0 f_0_6875 f_1_5 f_1_0;
   mkAabb f_0_0 f_0_0 f_0_3125 f_0_6875 f_1_5 f_0_6875;
   mkAabb f_0_3125 f_0_0 f_0_0 f_0_6875 f_1_5 f_0_3125;
   mkAabb f_0_3125 f_0_0 f_0_6875 f_0_6875 f_1_5 f_1_0;
   mkAabb f_0_0 f_0_0 f_0_3125 f_0_6875 f_1_5 f_0_6875;
   mkAabb f_0_3125 f_0_0 f_0_0 f_0_6875 f_1_5 f_0_3125;
   mkAabb f_0_3125 f_0_0 f_0_6875 f_0_6875 f_1_5 f_1_0;
   mkAabb f_0_25 f_0_0 f_0_25 f_0_75 f_1_5 f_0_75;
   mkAabb f_0_75 f_0_0 f_0_3125 f_1_0 f_1_5 f_0_6875;
   mkAabb f_0_0 f_0_0 f_0_3125 f_1_0 f_1_5 f_0_6875;
   mkAabb f_0_25 f_0_0 f_0_25 f_0_75 f_1_5 f_0_3125;
   mkAabb f_0_25 f_0_0 f_0_6875 f_0_75 f_1_5 f_0_75;
   mkAabb f_0_0 f_0_0 f_0_3125 f_1_0 f_1_5 f_0_6875;
   mkAabb f_0_25 f_0_0 f_0_25 f_0_75 f_1_5 f_0_3125;
   mkAabb f_0_25 f_0_0 f_0_6875 f_0_75 f_1_5 f_0_75;
   mkAabb f_0_3125 f_0_0 f_0_3125 f_1_0 f_1_5 f_0_6875;
   mkAabb f_0_0 f_0_0 f_0_3125 f_1_0 f_1_5 f_0_6875;
   mkAabb f_0_0 f_0_0 f_0_3125 f_1_0 f_1_5 f_0_6875;
   mkAabb f_0_25 f_0_0 f_0_25 f_0_75 f_1_5 f_0_75;
   mkAabb f_0_3125 f_0_0 f_0_75 f_0_6875 f_1_5 f_1_0;
   mkAabb f_0_75 f_0_0 f_0_3125 f_1_0 f_1_5 f_0_6875;
   mkAabb f_0_0 f_0_0 f_0_3125 f_1_0 f_1_5 f_0_6875;
   mkAabb f_0_25 f_0_0 f_0_25 f_0_75 f_1_5 f_0_3125;
   mkAabb f_0_25 f_0_0 f_0_6875 f_0_75 f_1_5 f_0_75;
   mkAabb f_0_3125 f_0_0 f_0_75 f_0_6875 f_1_5 f_1_0;
   mkAabb f_0_0 f_0_0 f_0_3125 f_1_0 f_1_5 f_0_6875;
   mkAabb f_0_25 f_0_0 f_0_25 f_0_75 f_1_5 f_0_3125;
   mkAabb f_0_25 f_0_0 f_0_6875 f_0_75 f_1_5 f_0_75;
   mkAabb f_0_3125 f_0_0 f_0_75 f_0_6875 f_1_5 f_1_0;
   mkAabb f_0_3125 f_0_0 f_0_3125 f_0_6875 f_1_5 f_1_0;
   mkAabb f_0_6875 f_0_0 f_0_3125 f_1_0 f_1_5 f_0_6875;
   mkAabb f_0_0 f_0_0 f_0_3125 f_1_0 f_1_5 f_0_6875;
   mkAabb f_0_3125 f_0_0 f_0_6875 f_0_6875 f_1_5 f_1_0;
   mkAabb f_0_0 f_0_0 f_0_3125 f_1_0 f_1_5 f_0_6875;
   mkAabb f_0_3125 f_0_0 f_0_6875 f_0_6875 f_1_5 f_1_0;
   mkAabb f_0_25 f_0_0 f_0_25 f_0_75 f_1_5 f_0_75;
   mkAabb f_0_3125 f_0_0 f_0_75 f_0_6875 f_1_5 f_1_0;
   mkAabb f_0_75 f_0_0 f_0_3125 f_1_0 f_1_5 f_0_6875;
   mkAabb f_0_0 f_0_0 f_0_3125 f_1_0 f_1_5 f_0_6875;
   mkAabb f_0_25 f_0_0 f_0_25 f_0_75 f_1_5 f_0_3125;
   mkAabb f_0_25 f_0_0 f_0_6875 f_0_75 f_1_5 f_0_75;
   mkAabb f_0_3125 f_0_0 f_0_75 f_0_6875 f_1_5 f_1_0;
   mkAabb f_0_0 f_0_0 f_0_3125 f_1_0 f_1_5 f_0_6875;
   mkAabb f_0_25 f_0_0 f_0_25 f_0_75 f_1_5 f_0_3125;
   mkAabb f_0_25 f_0_0 f_0_6875 f_0_75 f_1_5 f_0_75;
   mkAabb f_0_3125 f_0_0 f_0_75 f_0_6875 f_1_5 f_1_0;
   mkAabb f_0_3125 f_0_0 f_0_3125 f_0_6875 f_1_5 f_1_0;
   mkAabb f_0_6875 f_0_0 f_0_3125 f_1_0 f_1_5 f_0_6875;
   mkAabb f_0_0 f_0_0 f_0_3125 f_1_0 f_1_5 f_0_6875;
   mkAabb f_0_3125 f_0_0 f_0_6875 f_0_6875 f_1_5 f_1_0;
   mkAabb f_0_0 f_0_0 f_0_3125 f_1_0 f_1_5 f_0_6875;
   mkAabb f_0_3125 f_0_0 f_0_6875 f_0_6875 f_1_5 f_1_0;
   mkAabb f_0_25 f_0_0 f_0_25 f_0_75 f_1_5 f_0_75;
   mkAabb f_0_3125 f_0_0 f_0_0 f_0_6875 f_1_5 f_0_25;
   mkAabb f_0_75 f_0_0 f_0_3125 f_1_0 f_1_5 f_0_6875;
   mkAabb f_0_0 f_0_0 f_0_3125 f_1_0 f_1_5 f_0_6875;
   mkAabb f_0_25 f_0_0 f_0_25 f_0_75 f_1_5 f_0_3125;
   mkAabb f_0_25 f_0_0 f_0_6875 f_0_75 f_1_5 f_0_75;
   mkAabb f_0_3125 f_0_0 f_0_0 f_0_6875 f_1_5 f_0_25;
   mkAabb f_0_0 f_0_0 f_0_3125 f_1_0 f_1_5 f_0_6875;
   mkAabb f_0_25 f_0_0 f_0_25 f_0_75 f_1_5 f_0_3125;
   mkAabb f_0_25 f_0_0 f_0_6875 f_0_75 f_1_5 f_0_75;
   mkAabb f_0_3125 f_0_0 f_0_0 f_0_6875 f_1_5 f_0_25;
   mkAabb f_0_3125 f_0_0 f_0_0 f_0_6875 f_1_5 f_0_6875;
   mkAabb f_0_6875 f_0_0 f_0_3125 f_1_0 f_1_5 f_0_6875;
   mkAabb f_0_0 f_0_0 f_0_3125 f_1_0 f_1_5 f_0_6875;
   mkAabb f_0_3125 f_0_0 f_0_0 f_0_6875 f_1_5 f_0_3125;
   mkAabb f_0_0 f_0_0 f_0_3125 f_1_0 f_1_5 f_0_6875;
   mkAabb f_0_3125 f_0_0 f_0_0 f_0_6875 f_1_5 f_0_3125;
   mkAabb f_0_25 f_0_0 f_0_25 f_0_75 f_1_5 f_0_75;
   mkAabb f_0_3125 f_0_0 f_0_0 f_0_6875 f_1_5 f_0_25;
   mkAabb f_0_3125 f_0_0 f_0_75 f_0_6875 f_1_5 f_1_0;
   mkAabb f_0_75 f_0_0 f_0_3125 f_1_0 f_1_5 f_0_6875;
   mkAabb f_0_0 f_0_0 f_0_3125 f_1_0 f_1_5 f_0_6875;
   mkAabb f_0_25 f_0_0 f_0_25 f_0_75 f_1_5 f_0_3125;
   mkAabb f_0_25 f_0_0 f_0_6875 f_0_75 f_1_5 f_0_75;
   mkAabb f_0_3125 f_0_0 f_0_0 f_0_6875 f_1_5 f_0_25;
   mkAabb f_0_3125 f_0_0 f_0_75 f_0_6875 f_1_5 f_1_0].
Definition SHAPE_BOXES_82 : list Aabb :=
  [mkAabb f_0_0 f_0_0 f_0_3125 f_1_0 f_1_5 f_0_6875;
   mkAabb f_0_25 f_0_0 f_0_25 f_0_75 f_1_5 f_0_3125;
   mkAabb f_0_25 f_0_0 f_0_6875 f_0_75 f_1_5 f_0_75;
   mkAabb f_0_3125 f_0_0 f_0_0 f_0_6875 f_1_5 f_0_25;
   mkAabb f_0_3125 f_0_0 f_0_75 f_0_6875 f_1_5 f_1_0;
   mkAabb f_0_3125 f_0_0 f_0_0 f_0_6875 f_1_5 f_1_0;
   mkAabb f_0_6875 f_0_0 f_0_3125 f_1_0 f_1_5 f_0_6875;
   mkAabb f_0_0 f_0_0 f_0_3125 f_1_0 f_1_5 f_0_6875;
   mkAabb f_0_3125 f_0_0 f_0_0 f_0_6875 f_1_5 f_0_3125;
   mkAabb f_0_3125 f_0_0 f_0_6875 f_0_6875 f_1_5 f_1_0;
   mkAabb f_0_0 f_0_0 f_0_3125 f_1_0 f_1_5 f_0_6875;
   mkAabb f_0_3125 f_0_0 f_0_0 f_0_6875 f_1_5 f_0_3125;
   mkAabb f_0_3125 f_0_0 f_0_6875 f_0_6875 f_1_5 f_1_0;
   mkAabb f_0_25 f_0_0 f_0_25 f_0_75 f_1_5 f_0_75;
   mkAabb f_0_3125 f_0_0 f_0_0 f_0_6875 f_1_5 f_0_25;
   mkAabb f_0_3125 f_0_0 f_0_75 f_0_6875 f_1_5 f_1_0;
   mkAabb f_0_75 f_0_0 f_0_3125 f_1_0 f_1_5 f_0_6875;
   mkAabb f_0_0 f_0_0 f_0_3125 f_1_0 f_1_5 f_0_6875;
   mkAabb f_0_25 f_0_0 f_0_25 f_0_75 f_1_5 f_0_3125;
   mkAabb f_0_25 f_0_0 f_0_6875 f_0_75 f_1_5 f_0_75;
   mkAabb f_0_3125 f_0_0 f_0_0 f_0_6875 f_1_5 f_0_25;
   mkAabb f_0_3125 f_0_0 f_0_75 f_0_6875 f_1_5 f_1_0;
   mkAabb f_0_0 f_0_0 f_0_3125 f_1_0 f_1_5 f_0_6875;
   mkAabb f_0_25 f_0_0 f_0_25 f_0_75 f_1_5 f_0_3125;
   mkAabb f_0_25 f_0_0 f_0_6875 f_0_75 f_1_5 f_0_75;
   mkAabb f_0_3125 f_0_0 f_0_0 f_0_6875 f_1_5 f_0_25;
   mkAabb f_0_3125 f_0_0 f_0_75 f_0_6875 f_1_5 f_1_0;
   mkAabb f_0_3125 f_0_0 f_0_0 f_0_6875 f_1_5 f_1_0;
   mkAabb f_0_6875 f_0_0 f_0_3125 f_1_0 f_1_5 f_0_6875;
   mkAabb f_0_0 f_0_0 f_0_3125 f_1_0 f_1_5 f_0_6875;
   mkAabb f_0_3125 f_0_0 f_0_0 f_0_6875 f_1_5 f_0_3125;
   mkAabb f_0_3125 f_0_0 f_0_6875 f_0_6875 f_1_5 f_1_0;
   mkAabb f_0_0 f_0_0 f_0_3125 f_1_0 f_1_5 f_0_6875;
   mkAabb f_0_3125 f_0_0 f_0_0 f_0_6875 f_1_5 f_0_3125;
   mkAabb f_0_3125 f_0_0 f_0_6875 f_0_6875 f_1_5 f_1_0;
   mkAabb f_0_25 f_0_0 f_0_25 f_0_75 f_1_5 f_0_75;
   mkAabb f_0_3125 f_0_0 f_0_0 f_0_6875 f_1_5 f_0_25;
   mkAabb f_0_75 f_0_0 f_0_3125 f_1_0 f_1_5 f_0_6875;
   mkAabb f_0_0 f_0_0 f_0_3125 f_1_0 f_1_5 f_0_6875;
   mkAabb f_0_25 f_0_0 f_0_25 f_0_75 f_1_5 f_0_3125;
   mkAabb f_0_25 f_0_0 f_0_6875 f_0_75 f_1_5 f_0_75;
   mkAabb f_0_3125 f_0_0 f_0_0 f_0_6875 f_1_5 f_0_25;
   mkAabb f_0_0 f_0_0 f_0_3125 f_1_0 f_1_5 f_0_6875;
   mkAabb f_0_25 f_0_0 f_0_25 f_0_75 f_1_5 f_0_3125;
   mkAabb f_0_25 f_0_0 f_0_6875 f_0_75 f_1_5 f_0_75;
   mkAabb f_0_3125 f_0_0 f_0_0 f_0_6875 f_1_5 f_0_25;
   mkAabb f_0_3125 f_0_0 f_0_0 f_0_6875 f_1_5 f_0_6875;
   mkAabb f_0_6875 f_0_0 f_0_3125 f_1_0 f_1_5 f_0_6875;
   mkAabb f_0_0 f_0_0 f_0_3125 f_1_0 f_1_5 f_0_6875;
   mkAabb f_0_3125 f_0_0 f_0_0 f_0_6875 f_1_5 f_0_3125;
   mkAabb f_0_0 f_0_0 f_0_3125 f_1_0 f_1_5 f_0_6875;
   mkAabb f_0_3125 f_0_0 f_0_0 f_0_6875 f_1_5 f_0_3125;
   mkAabb f_0_25 f_0_0 f_0_25 f_0_75 f_1_5 f_0_75;
   mkAabb f_0_3125 f_0_0 f_0_0 f_0_6875 f_1_5 f_0_25;
   mkAabb f_0_3125 f_0_0 f_0_75 f_0_6875 f_1_5 f_1_0;
   mkAabb f_0_75 f_0_0 f_0_3125 f_1_0 f_1_5 f_0_6875;
   mkAabb f_0_0 f_0_0 f_0_3125 f_1_0 f_1_5 f_0_6875;
   mkAabb f_0_25 f_0_0 f_0_25 f_0_75 f_1_5 f_0_3125;
   mkAabb f_0_25 f_0_0 f_0_6875 f_0_75 f_1_5 f_0_75;
   mkAabb f_0_3125 f_0_0 f_0_0 f_0_6875 f_1_5 f_0_25;
   mkAabb f_0_3125 f_0_0 f_0_75 f_0_6875 f_1_5 f_1_0;
   mkAabb f_0_0 f_0_0 f_0_3125 f_1_0 f_1_5 f_0_6875;
   mkAabb f_0_25 f_0_0 f_0_25 f_0_75 f_1_5 f_0_3125;
   mkAabb f_0_25 f_0_0 f_0_6875 f_0_75 f_1_5 f_0_75;
   mkAabb f_0_3125 f_0_0 f_0_0 f_0_6875 f_1_5 f_0_25;
   mkAabb f_0_3125 f_0_0 f_0_75 f_0_6875 f_1_5 f_1_0;
   mkAabb f_0_3125 f_0_0 f_0_0 f_0_6875 f_1_5 f_1_0;
   mkAabb f_0_6875 f_0_0 f_0_3125 f_1_0 f_1_5 f_0_6875;
   mkAabb f_0_0 f_0_0 f_0_3125 f_1_0 f_1_5 f_0_6875;
   mkAabb f_0_3125 f_0_0 f_0_0 f_0_6875 f_1_5 f_0_3125;
   mkAabb f_0_3125 f_0_0 f_0_6875 f_0_6875 f_1_5 f_1_0;
   mkAabb f_0_0 f_0_0 f_0_3125 f_1_0 f_1_5 f_0_6875;
   mkAabb f_0_3125 f_0_0 f_0_0 f_0_6875 f_1_5 f_0_3125;
   mkAabb f_0_3125 f_0_0 f_0_6875 f_0_6875 f_1_5 f_1_0;
   mkAabb f_0_25 f_0_0 f_0_25 f_0_75 f_1_5 f_0_75;
   mkAabb f_0_3125 f_0_0 f_0_0 f_0_6875 f_1_5 f_0_25;
   mkAabb f_0_3125 f_0_0 f_0_75 f_0_6875 f_1_5 f_1_0;
   mkAabb f_0_75 f_0_0 f_0_3125 f_1_0 f_1_5 f_0_6875;
   mkAabb f_0_0 f_0_0 f_0_3125 f_1_0 f_1_5 f_0_6875;
   mkAabb f_0_25 f_0_0 f_0_25 f_0_75 f_1_5 f_0_3125;
   mkAabb f_0_25 f_0_0 f_0_6875 f_0_75 f_1_5 f_0_75;
   mkAabb f_0_3125 f_0_0 f_0_0 f_0_6875 f_1_5 f_0_25;
   mkAabb f_0_3125 f_0_0 f_0_75 f_0_6875 f_1_5 f_1_0;
   mkAabb f_0_0 f_0_0 f_0_3125 f_1_0 f_1_5 f_0_6875;
   mkAabb f_0_25 f_0_0 f_0_25 f_0_75 f_1_5 f_0_3125;
   mkAabb f_0_25 f_0_0 f_0_6875 f_0_75 f_1_5 f_0_75;
   mkAabb f_0_3125 f_0_0 f_0_0 f_0_6875 f_1_5 f_0_25;
   mkAabb f_0_3125 f_0_0 f_0_75 f_0_6875 f_1_5 f_1_0;
   mkAabb f_0_3125 f_0_0 f_0_0 f_0_6875 f_1_5 f_1_0;
   mkAabb f_0_6875 f_0_0 f_0_3125 f_1_0 f_1_5 f_0_6875;
   mkAabb f_0_0 f_0_0 f_0_3125 f_1_0 f_1_5 f_0_6875;
   mkAabb f_0_3125 f_0_0 f_0_0 f_0_6875 f_1_5 f_0_3125;
   mkAabb f_0_3125 f_0_0 f_0_6875 f_0_6875 f_1_5 f_1_0;
   mkAabb f_0_0 f_0_0 f_0_3125 f_1_0 f_1_5 f_0_6875;
   mkAabb f_0_3125 f_0_0 f_0_0 f_0_6875 f_1_5 f_0_3125;
   mkAabb f_0_3125 f_0_0 f_0_6875 f_0_6875 f_1_5 f_1_0;
   mkAabb f_0_25 f_0_0 f_0_25 f_0_75 f_1_5 f_0_75;
   mkAabb f_0_75 f_0_0 f_0_3125 f_1_0 f_1_5 f_0_6875;
   mkAabb f_0_0 f_0_0 f_0_3125 f_1_0 f_1_5 f_0_6875;
   mkAabb f_0_25 f_0_0 f_0_25 f_0_75 f_1_5 f_0_3125;
   mkAabb f_0_25 f_0_0 f_0_6875 f_0_75 f_1_5 f_0_75;
   mkAabb f_0_0 f_0_0 f_0_3125 f_1_0 f_1_5 f_0_6875;
   mkAabb f_0_25 f_0_0 f_0_25 f_0_75 f_1_5 f_0_3125;
   mkAabb f_0_25 f_0_0 f_0_6875 f_0_75 f_1_5 f_0_75;
   mkAabb f_0_3125 f_0_0 f_0_3125 f_1_0 f_1_5 f_0_6875;
   mkAabb f_0_0 f_0_0 f_0_3125 f_1_0 f_1_5 f_0_6875;
   mkAabb f_0_0 f_0_0 f_0_3125 f_1_0 f_1_5 f_0_6875;
   mkAabb f_0_25 f_0_0 f_0_25 f_0_75 f_1_5 f_0_75;
   mkAabb f_0_3125 f_0_0 f_0_75 f_0_6875 f_1_5 f_1_0;
   mkAabb f_0_75 f_0_0 f_0_3125 f_1_0 f_1_5 f_0_6875;
   mkAabb f_0_0 f_0_0 f_0_3125 f_1_0 f_1_5 f_0_6875;
   mkAabb f_0_25 f_0_0 f_0_25 f_0_75 f_1_5 f_0_3125;
   mkAabb f_0_25 f_0_0 f_0_6875 f_0_75 f_1_5 f_0_75;
   mkAabb f_0_3125 f_0_0 f_0_75 f_0_6875 f_1_5 f_1_0;
   mkAabb f_0_0 f_0_0 f_0_3125 f_1_0 f_1_5 f_0_6875;
   mkAabb f_0_25 f_0_0 f_0_25 f_0_75 f_1_5 f_0_3125;
   mkAabb f_0_25 f_0_0 f_0_6875 f_0_75 f_1_5 f_0_75;
   mkAabb f_0_3125 f_0_0 f_0_75 f_0_6875 f_1_5 f_1_0;
   mkAabb f_0_3125 f_0_0 f_0_3125 f_0_6875 f_1_5 f_1_0;
   mkAabb f_0_6875 f_0_0 f_0_3125 f_1_0 f_1_5 f_0_6875;
   mkAabb f_0_0 f_0_0 f_0_3125 f_1_0 f_1_5 f_0_6875;
   mkAabb f_0_3125 f_0_0 f_0_6875 f_0_6875 f_1_5 f_1_0;
   mkAabb f_0_0 f_0_0 f_0_3125 f_1_0 f_1_5 f_0_6875;
   mkAabb f_0_3125 f_0_0 f_0_6875 f_0_6875 f_1_5 f_1_0;
   mkAabb f_0_25 f_0_0 f_0_25 f_0_75 f_1_5 f_0_75;
   mkAabb f_0_3125 f_0_0 f_0_75 f_0_6875 f_1_5 f_1_0;
   mkAabb f_0_75 f_0_0 f_0_3125 f_1_0 f_1_5 f_0_6875;
   mkAabb f_0_0 f_0_0 f_0_3125 f_1_0 f_1_5 f_0_6875;
   mkAabb f_0_25 f_0_0 f_0_25 f_0_75 f_1_5 f_0_3125;
   mkAabb f_0_25 f_0_0 f_0_6875 f_0_75 f_1_5 f_0_75;
   mkAabb f_0_3125 f_0_0 f_0_75 f_0_6875 f_1_5 f_1_0;
   mkAabb f_0_0 f_0_0 f_0_3125 f_1_0 f_1_5 f_0_6875;
   mkAabb f_0_25 f_0_0 f_0_25 f_0_75 f_1_5 f_0_3125;
   mkAabb f_0_25 f_0_0 f_0_6875 f_0_75 f_1_5 f_0_75;
   mkAabb f_0_3125 f_0_0 f_0_75 f_0_6875 f_1_5 f_1_0;
   mkAabb f_0_3125 f_0_0 f_0_3125 f_0_6875 f_1_5 f_1_0;
   mkAabb f_0_6875 f_0_0 f_0_3125 f_1_0 f_1_5 f_0_6875;
   mkAabb f_0_0 f_0_0 f_0_3125 f_1_0 f_1_5 f_0_6875;
   mkAabb f_0_3125 f_0_0 f_0_6875 f_0_6875 f_1_5 f_1_0;
   mkAabb f_0_0 f_0_0 f_0_3125 f_1_0 f_1_5 f_0_6875;
   mkAabb f_0_3125 f_0_0 f_0_6875 f_0_6875 f_1_5 f_1_0;
   mkAabb f_0_25 f_0_0 f_0_25 f_0_75 f_1_5 f_0_75;
   mkAabb f_0_3125 f_0_0 f_0_0 f_0_6875 f_1_5 f_0_25;
   mkAabb f_0_75 f_0_0 f_0_3125 f_1_0 f_1_5 f_0_6875;
   mkAabb f_0_0 f_0_0 f_0_3125 f_1_0 f_1_5 f_0_6875;
   mkAabb f_0_25 f_0_0 f_0_25 f_0_75 f_1_5 f_0_3125;
   mkAabb f_0_25 f_0_0 f_0_6875 f_0_75 f_1_5 f_0_75;
   mkAabb f_0_3125 f_0_0 f_0_0 f_0_6875 f_1_5 f_0_25;
   mkAabb f_0_0 f_0_0 f_0_3125 f_1_0 f_1_5 f_0_6875;
   mkAabb f_0_25 f_0_0 f_0_25 f_0_75 f_1_5 f_0_3125].
Definition SHAPE_BOXES_83 : list Aabb :=
  [mkAabb f_0_25 f_0_0 f_0_6875 f_0_75 f_1_5 f_0_75;
   mkAabb f_0_3125 f_0_0 f_0_0 f_0_6875 f_1_5 f_0_25;
   mkAabb f_0_3125 f_0_0 f_0_0 f_0_6875 f_1_5 f_0_6875;
   mkAabb f_0_6875 f_0_0 f_0_3125 f_1_0 f_1_5 f_0_6875;
   mkAabb f_0_0 f_0_0 f_0_3125 f_1_0 f_1_5 f_0_6875;
   mkAabb f_0_3125 f_0_0 f_0_0 f_0_6875 f_1_5 f_0_3125;
   mkAabb f_0_0 f_0_0 f_0_3125 f_1_0 f_1_5 f_0_6875;
   mkAabb f_0_3125 f_0_0 f_0_0 f_0_6875 f_1_5 f_0_3125;
   mkAabb f_0_25 f_0_0 f_0_25 f_0_75 f_1_5 f_0_75;
   mkAabb f_0_3125 f_0_0 f_0_0 f_0_6875 f_1_5 f_0_25;
   mkAabb f_0_3125 f_0_0 f_0_75 f_0_6875 f_1_5 f_1_0;
   mkAabb f_0_75 f_0_0 f_0_3125 f_1_0 f_1_5 f_0_6875;
   mkAabb f_0_0 f_0_0 f_0_3125 f_1_0 f_1_5 f_0_6875;
   mkAabb f_0_25 f_0_0 f_0_25 f_0_75 f_1_5 f_0_3125;
   mkAabb f_0_25 f_0_0 f_0_6875 f_0_75 f_1_5 f_0_75;
   mkAabb f_0_3125 f_0_0 f_0_0 f_0_6875 f_1_5 f_0_25;
   mkAabb f_0_3125 f_0_0 f_0_75 f_0_6875 f_1_5 f_1_0;
   mkAabb f_0_0 f_0_0 f_0_3125 f_1_0 f_1_5 f_0_6875;
   mkAabb f_0_25 f_0_0 f_0_25 f_0_75 f_1_5 f_0_3125;
   mkAabb f_0_25 f_0_0 f_0_6875 f_0_75 f_1_5 f_0_75;
   mkAabb f_0_3125 f_0_0 f_0_0 f_0_6875 f_1_5 f_0_25;
   mkAabb f_0_3125 f_0_0 f_0_75 f_0_6875 f_1_5 f_1_0;
   mkAabb f_0_3125 f_0_0 f_0_0 f_0_6875 f_1_5 f_1_0;
   mkAabb f_0_6875 f_0_0 f_0_3125 f_1_0 f_1_5 f_0_6875;
   mkAabb f_0_0 f_0_0 f_0_3125 f_1_0 f_1_5 f_0_6875;
   mkAabb f_0_3125 f_0_0 f_0_0 f_0_6875 f_1_5 f_0_3125;
   mkAabb f_0_3125 f_0_0 f_0_6875 f_0_6875 f_1_5 f_1_0;
   mkAabb f_0_0 f_0_0 f_0_3125 f_1_0 f_1_5 f_0_6875;
   mkAabb f_0_3125 f_0_0 f_0_0 f_0_6875 f_1_5 f_0_3125;
   mkAabb f_0_3125 f_0_0 f_0_6875 f_0_6875 f_1_5 f_1_0;
   mkAabb f_0_25 f_0_0 f_0_25 f_0_75 f_1_5 f_0_75;
   mkAabb f_0_3125 f_0_0 f_0_0 f_0_6875 f_1_5 f_0_25;
   mkAabb f_0_3125 f_0_0 f_0_75 f_0_6875 f_1_5 f_1_0;
   mkAabb f_0_75 f_0_0 f_0_3125 f_1_0 f_1_5 f_0_6875;
   mkAabb f_0_0 f_0_0 f_0_3125 f_1_0 f_1_5 f_0_6875;
   mkAabb f_0_25 f_0_0 f_0_25 f_0_75 f_1_5 f_0_3125;
   mkAabb f_0_25 f_0_0 f_0_6875 f_0_75 f_1_5 f_0_75;
   mkAabb f_0_3125 f_0_0 f_0_0 f_0_6875 f_1_5 f_0_25;
   mkAabb f_0_3125 f_0_0 f_0_75 f_0_6875 f_1_5 f_1_0;
   mkAabb f_0_0 f_0_0 f_0_3125 f_1_0 f_1_5 f_0_6875;
   mkAabb f_0_25 f_0_0 f_0_25 f_0_75 f_1_5 f_0_3125;
   mkAabb f_0_25 f_0_0 f_0_6875 f_0_75 f_1_5 f_0_75;
   mkAabb f_0_3125 f_0_0 f_0_0 f_0_6875 f_1_5 f_0_25;
   mkAabb f_0_3125 f_0_0 f_0_75 f_0_6875 f_1_5 f_1_0;
   mkAabb f_0_3125 f_0_0 f_0_0 f_0_6875 f_1_5 f_1_0;
   mkAabb f_0_6875 f_0_0 f_0_3125 f_1_0 f_1_5 f_0_6875;
   mkAabb f_0_0 f_0_0 f_0_3125 f_1_0 f_1_5 f_0_6875;
   mkAabb f_0_3125 f_0_0 f_0_0 f_0_6875 f_1_5 f_0_3125;
   mkAabb f_0_3125 f_0_0 f_0_6875 f_0_6875 f_1_5 f_1_0;
   mkAabb f_0_0 f_0_0 f_0_3125 f_1_0 f_1_5 f_0_6875;
   mkAabb f_0_3125 f_0_0 f_0_0 f_0_6875 f_1_5 f_0_3125;
   mkAabb f_0_3125 f_0_0 f_0_6875 f_0_6875 f_1_5 f_1_0;
   mkAabb f_0_25 f_0_0 f_0_25 f_0_75 f_1_5 f_0_75;
   mkAabb f_0_3125 f_0_0 f_0_0 f_0_6875 f_1_5 f_0_25;
   mkAabb f_0_75 f_0_0 f_0_3125 f_1_0 f_1_5 f_0_6875;
   mkAabb f_0_0 f_0_0 f_0_3125 f_1_0 f_1_5 f_0_6875;
   mkAabb f_0_25 f_0_0 f_0_25 f_0_75 f_1_5 f_0_3125;
   mkAabb f_0_25 f_0_0 f_0_6875 f_0_75 f_1_5 f_0_75;
   mkAabb f_0_3125 f_0_0 f_0_0 f_0_6875 f_1_5 f_0_25;
   mkAabb f_0_0 f_0_0 f_0_3125 f_1_0 f_1_5 f_0_6875;
   mkAabb f_0_25 f_0_0 f_0_25 f_0_75 f_1_5 f_0_3125;
   mkAabb f_0_25 f_0_0 f_0_6875 f_0_75 f_1_5 f_0_75;
   mkAabb f_0_3125 f_0_0 f_0_0 f_0_6875 f_1_5 f_0_25;
   mkAabb f_0_3125 f_0_0 f_0_0 f_0_6875 f_1_5 f_0_6875;
   mkAabb f_0_6875 f_0_0 f_0_3125 f_1_0 f_1_5 f_0_6875;
   mkAabb f_0_0 f_0_0 f_0_3125 f_1_0 f_1_5 f_0_6875;
   mkAabb f_0_3125 f_0_0 f_0_0 f_0_6875 f_1_5 f_0_3125;
   mkAabb f_0_0 f_0_0 f_0_3125 f_1_0 f_1_5 f_0_6875;
   mkAabb f_0_3125 f_0_0 f_0_0 f_0_6875 f_1_5 f_0_3125;
   mkAabb f_0_25 f_0_0 f_0_25 f_0_75 f_1_5 f_0_75;
   mkAabb f_0_3125 f_0_0 f_0_0 f_0_6875 f_1_5 f_0_25;
   mkAabb f_0_3125 f_0_0 f_0_75 f_0_6875 f_1_5 f_1_0;
   mkAabb f_0_75 f_0_0 f_0_3125 f_1_0 f_1_5 f_0_6875;
   mkAabb f_0_0 f_0_0 f_0_3125 f_1_0 f_1_5 f_0_6875;
   mkAabb f_0_25 f_0_0 f_0_25 f_0_75 f_1_5 f_0_3125;
   mkAabb f_0_25 f_0_0 f_0_6875 f_0_75 f_1_5 f_0_75;
   mkAabb f_0_3125 f_0_0 f_0_0 f_0_6875 f_1_5 f_0_25;
   mkAabb f_0_3125 f_0_0 f_0_75 f_0_6875 f_1_5 f_1_0;
   mkAabb f_0_0 f_0_0 f_0_3125 f_1_0 f_1_5 f_0_6875;
   mkAabb f_0_25 f_0_0 f_0_25 f_0_75 f_1_5 f_0_3125;
   mkAabb f_0_25 f_0_0 f_0_6875 f_0_75 f_1_5 f_0_75;
   mkAabb f_0_3125 f_0_0 f_0_0 f_0_6875 f_1_5 f_0_25;
   mkAabb f_0_3125 f_0_0 f_0_75 f_0_6875 f_1_5 f_1_0;
   mkAabb f_0_3125 f_0_0 f_0_0 f_0_6875 f_1_5 f_1_0;
   mkAabb f_0_6875 f_0_0 f_0_3125 f_1_0 f_1_5 f_0_6875;
   mkAabb f_0_0 f_0_0 f_0_3125 f_1_0 f_1_5 f_0_6875;
   mkAabb f_0_3125 f_0_0 f_0_0 f_0_6875 f_1_5 f_0_3125;
   mkAabb f_0_3125 f_0_0 f_0_6875 f_0_6875 f_1_5 f_1_0;
   mkAabb f_0_0 f_0_0 f_0_3125 f_1_0 f_1_5 f_0_6875;
   mkAabb f_0_3125 f_0_0 f_0_0 f_0_6875 f_1_5 f_0_3125;
   mkAabb f_0_3125 f_0_0 f_0_6875 f_0_6875 f_1_5 f_1_0;
   mkAabb f_0_25 f_0_0 f_0_25 f_0_75 f_1_5 f_0_75;
   mkAabb f_0_3125 f_0_0 f_0_0 f_0_6875 f_1_5 f_0_25;
   mkAabb f_0_3125 f_0_0 f_0_75 f_0_6875 f_1_5 f_1_0;
   mkAabb f_0_75 f_0_0 f_0_3125 f_1_0 f_1_5 f_0_6875;
   mkAabb f_0_0 f_0_0 f_0_3125 f_1_0 f_1_5 f_0_6875;
   mkAabb f_0_25 f_0_0 f_0_25 f_0_75 f_1_5 f_0_3125;
   mkAabb f_0_25 f_0_0 f_0_6875 f_0_75 f_1_5 f_0_75;
   mkAabb f_0_3125 f_0_0 f_0_0 f_0_6875 f_1_5 f_0_25;
   mkAabb f_0_3125 f_0_0 f_0_75 f_0_6875 f_1_5 f_1_0;
   mkAabb f_0_0 f_0_0 f_0_3125 f_1_0 f_1_5 f_0_6875;
   mkAabb f_0_25 f_0_0 f_0_25 f_0_75 f_1_5 f_0_3125;
   mkAabb f_0_25 f_0_0 f_0_6875 f_0_75 f_1_5 f_0_75;
   mkAabb f_0_3125 f_0_0 f_0_0 f_0_6875 f_1_5 f_0_25;
   mkAabb f_0_3125 f_0_0 f_0_75 f_0_6875 f_1_5 f_1_0;
   mkAabb f_0_3125 f_0_0 f_0_0 f_0_6875 f_1_5 f_1_0;
   mkAabb f_0_6875 f_0_0 f_0_3125 f_1_0 f_1_5 f_0_6875;
   mkAabb f_0_0 f_0_0 f_0_3125 f_1_0 f_1_5 f_0_6875;
   mkAabb f_0_3125 f_0_0 f_0_0 f_0_6875 f_1_5 f_0_3125;
   mkAabb f_0_3125 f_0_0 f_0_6875 f_0_6875 f_1_5 f_1_0;
   mkAabb f_0_0 f_0_0 f_0_3125 f_1_0 f_1_5 f_0_6875;
   mkAabb f_0_3125 f_0_0 f_0_0 f_0_6875 f_1_5 f_0_3125;
   mkAabb f_0_3125 f_0_0 f_0_6875 f_0_6875 f_1_5 f_1_0;
   mkAabb f_0_25 f_0_0 f_0_25 f_0_75 f_1_5 f_0_75;
   mkAabb f_0_0 f_0_0 f_0_3125 f_0_75 f_1_5 f_0_6875;
   mkAabb f_0_25 f_0_0 f_0_25 f_0_75 f_1_5 f_0_3125;
   mkAabb f_0_25 f_0_0 f_0_6875 f_0_75 f_1_5 f_0_75;
   mkAabb f_0_0 f_0_0 f_0_3125 f_0_75 f_1_5 f_0_6875;
   mkAabb f_0_25 f_0_0 f_0_25 f_0_75 f_1_5 f_0_3125;
   mkAabb f_0_25 f_0_0 f_0_6875 f_0_75 f_1_5 f_0_75;
   mkAabb f_0_0 f_0_0 f_0_3125 f_0_6875 f_1_5 f_0_6875;
   mkAabb f_0_0 f_0_0 f_0_3125 f_0_6875 f_1_5 f_0_6875;
   mkAabb f_0_25 f_0_0 f_0_25 f_0_75 f_1_5 f_0_75;
   mkAabb f_0_3125 f_0_0 f_0_75 f_0_6875 f_1_5 f_1_0;
   mkAabb f_0_0 f_0_0 f_0_3125 f_0_75 f_1_5 f_0_6875;
   mkAabb f_0_25 f_0_0 f_0_25 f_0_75 f_1_5 f_0_3125;
   mkAabb f_0_25 f_0_0 f_0_6875 f_0_75 f_1_5 f_0_75;
   mkAabb f_0_3125 f_0_0 f_0_75 f_0_6875 f_1_5 f_1_0;
   mkAabb f_0_0 f_0_0 f_0_3125 f_0_75 f_1_5 f_0_6875;
   mkAabb f_0_25 f_0_0 f_0_25 f_0_75 f_1_5 f_0_3125;
   mkAabb f_0_25 f_0_0 f_0_6875 f_0_75 f_1_5 f_0_75;
   mkAabb f_0_3125 f_0_0 f_0_75 f_0_6875 f_1_5 f_1_0;
   mkAabb f_0_3125 f_0_0 f_0_3125 f_0_6875 f_1_5 f_1_0;
   mkAabb f_0_0 f_0_0 f_0_3125 f_0_6875 f_1_5 f_0_6875;
   mkAabb f_0_3125 f_0_0 f_0_6875 f_0_6875 f_1_5 f_1_0;
   mkAabb f_0_0 f_0_0 f_0_3125 f_0_6875 f_1_5 f_0_6875;
   mkAabb f_0_3125 f_0_0 f_0_6875 f_0_6875 f_1_5 f_1_0;
   mkAabb f_0_25 f_0_0 f_0_25 f_0_75 f_1_5 f_0_75;
   mkAabb f_0_3125 f_0_0 f_0_75 f_0_6875 f_1_5 f_1_0;
   mkAabb f_0_0 f_0_0 f_0_3125 f_0_75 f_1_5 f_0_6875;
   mkAabb f_0_25 f_0_0 f_0_25 f_0_75 f_1_5 f_0_3125;
   mkAabb f_0_25 f_0_0 f_0_6875 f_0_75 f_1_5 f_0_75;
   mkAabb f_0_3125 f_0_0 f_0_75 f_0_6875 f_1_5 f_1_0;
   mkAabb f_0_0 f_0_0 f_0_3125 f_0_75 f_1_5 f_0_6875;
   mkAabb f_0_25 f_0_0 f_0_25 f_0_75 f_1_5 f_0_3125;
   mkAabb f_0_25 f_0_0 f_0_6875 f_0_75 f_1_5 f_0_75;
   mkAabb f_0_3125 f_0_0 f_0_75 f_0_6875 f_1_5 f_1_0;
   mkAabb f_0_3125 f_0_0 f_0_3125 f_0_6875 f_1_5 f_1_0;
   mkAabb f_0_0 f_0_0 f_0_3125 f_0_6875 f_1_5 f_0_6875;
   mkAabb f_0_3125 f_0_0 f_0_6875 f_0_6875 f_1_5 f_1_0].
Definition SHAPE_BOXES_84 : list Aabb :=
  [mkAabb f_0_0 f_0_0 f_0_3125 f_0_6875 f_1_5 f_0_6875;
   mkAabb f_0_3125 f_0_0 f_0_6875 f_0_6875 f_1_5 f_1_0;
   mkAabb f_0_25 f_0_0 f_0_25 f_0_75 f_1_5 f_0_75;
   mkAabb f_0_3125 f_0_0 f_0_0 f_0_6875 f_1_5 f_0_25;
   mkAabb f_0_0 f_0_0 f_0_3125 f_0_75 f_1_5 f_0_6875;
   mkAabb f_0_25 f_0_0 f_0_25 f_0_75 f_1_5 f_0_3125;
   mkAabb f_0_25 f_0_0 f_0_6875 f_0_75 f_1_5 f_0_75;
   mkAabb f_0_3125 f_0_0 f_0_0 f_0_6875 f_1_5 f_0_25;
   mkAabb f_0_0 f_0_0 f_0_3125 f_0_75 f_1_5 f_0_6875;
   mkAabb f_0_25 f_0_0 f_0_25 f_0_75 f_1_5 f_0_3125;
   mkAabb f_0_25 f_0_0 f_0_6875 f_0_75 f_1_5 f_0_75;
   mkAabb f_0_3125 f_0_0 f_0_0 f_0_6875 f_1_5 f_0_25;
   mkAabb f_0_3125 f_0_0 f_0_0 f_0_6875 f_1_5 f_0_6875;
   mkAabb f_0_0 f_0_0 f_0_3125 f_0_6875 f_1_5 f_0_6875;
   mkAabb f_0_3125 f_0_0 f_0_0 f_0_6875 f_1_5 f_0_3125;
   mkAabb f_0_0 f_0_0 f_0_3125 f_0_6875 f_1_5 f_0_6875;
   mkAabb f_0_3125 f_0_0 f_0_0 f_0_6875 f_1_5 f_0_3125;
   mkAabb f_0_25 f_0_0 f_0_25 f_0_75 f_1_5 f_0_75;
   mkAabb f_0_3125 f_0_0 f_0_0 f_0_6875 f_1_5 f_0_25;
   mkAabb f_0_3125 f_0_0 f_0_75 f_0_6875 f_1_5 f_1_0;
   mkAabb f_0_0 f_0_0 f_0_3125 f_0_75 f_1_5 f_0_6875;
   mkAabb f_0_25 f_0_0 f_0_25 f_0_75 f_1_5 f_0_3125;
   mkAabb f_0_25 f_0_0 f_0_6875 f_0_75 f_1_5 f_0_75;
   mkAabb f_0_3125 f_0_0 f_0_0 f_0_6875 f_1_5 f_0_25;
   mkAabb f_0_3125 f_0_0 f_0_75 f_0_6875 f_1_5 f_1_0;
   mkAabb f_0_0 f_0_0 f_0_3125 f_0_75 f_1_5 f_0_6875;
   mkAabb f_0_25 f_0_0 f_0_25 f_0_75 f_1_5 f_0_3125;
   mkAabb f_0_25 f_0_0 f_0_6875 f_0_75 f_1_5 f_0_75;
   mkAabb f_0_3125 f_0_0 f_0_0 f_0_6875 f_1_5 f_0_25;
   mkAabb f_0_3125 f_0_0 f_0_75 f_0_6875 f_1_5 f_1_0;
   mkAabb f_0_3125 f_0_0 f_0_0 f_0_6875 f_1_5 f_1_0;
   mkAabb f_0_0 f_0_0 f_0_3125 f_0_6875 f_1_5 f_0_6875;
   mkAabb f_0_3125 f_0_0 f_0_0 f_0_6875 f_1_5 f_0_3125;
   mkAabb f_0_3125 f_0_0 f_0_6875 f_0_6875 f_1_5 f_1_0;
   mkAabb f_0_0 f_0_0 f_0_3125 f_0_6875 f_1_5 f_0_6875;
   mkAabb f_0_3125 f_0_0 f_0_0 f_0_6875 f_1_5 f_0_3125;
   mkAabb f_0_3125 f_0_0 f_0_6875 f_0_6875 f_1_5 f_1_0;
   mkAabb f_0_25 f_0_0 f_0_25 f_0_75 f_1_5 f_0_75;
   mkAabb f_0_3125 f_0_0 f_0_0 f_0_6875 f_1_5 f_0_25;
   mkAabb f_0_3125 f_0_0 f_0_75 f_0_6875 f_1_5 f_1_0;
   mkAabb f_0_0 f_0_0 f_0_3125 f_0_75 f_1_5 f_0_6875;
   mkAabb f_0_25 f_0_0 f_0_25 f_0_75 f_1_5 f_0_3125;
   mkAabb f_0_25 f_0_0 f_0_6875 f_0_75 f_1_5 f_0_75;
   mkAabb f_0_3125 f_0_0 f_0_0 f_0_6875 f_1_5 f_0_25;
   mkAabb f_0_3125 f_0_0 f_0_75 f_0_6875 f_1_5 f_1_0;
   mkAabb f_0_0 f_0_0 f_0_3125 f_0_75 f_1_5 f_0_6875;
   mkAabb f_0_25 f_0_0 f_0_25 f_0_75 f_1_5 f_0_3125;
   mkAabb f_0_25 f_0_0 f_0_6875 f_0_75 f_1_5 f_0_75;
   mkAabb f_0_3125 f_0_0 f_0_0 f_0_6875 f_1_5 f_0_25;
   mkAabb f_0_3125 f_0_0 f_0_75 f_0_6875 f_1_5 f_1_0;
   mkAabb f_0_3125 f_0_0 f_0_0 f_0_6875 f_1_5 f_1_0;
   mkAabb f_0_0 f_0_0 f_0_3125 f_0_6875 f_1_5 f_0_6875;
   mkAabb f_0_3125 f_0_0 f_0_0 f_0_6875 f_1_5 f_0_3125;
   mkAabb f_0_3125 f_0_0 f_0_6875 f_0_6875 f_1_5 f_1_0;
   mkAabb f_0_0 f_0_0 f_0_3125 f_0_6875 f_1_5 f_0_6875;
   mkAabb f_0_3125 f_0_0 f_0_0 f_0_6875 f_1_5 f_0_3125;
   mkAabb f_0_3125 f_0_0 f_0_6875 f_0_6875 f_1_5 f_1_0;
   mkAabb f_0_25 f_0_0 f_0_25 f_0_75 f_1_5 f_0_75;
   mkAabb f_0_3125 f_0_0 f_0_0 f_0_6875 f_1_5 f_0_25;
   mkAabb f_0_0 f_0_0 f_0_3125 f_0_75 f_1_5 f_0_6875;
   mkAabb f_0_25 f_0_0 f_0_25 f_0_75 f_1_5 f_0_3125;
   mkAabb f_0_25 f_0_0 f_0_6875 f_0_75 f_1_5 f_0_75;
   mkAabb f_0_3125 f_0_0 f_0_0 f_0_6875 f_1_5 f_0_25;
   mkAabb f_0_0 f_0_0 f_0_3125 f_0_75 f_1_5 f_0_6875;
   mkAabb f_0_25 f_0_0 f_0_25 f_0_75 f_1_5 f_0_3125;
   mkAabb f_0_25 f_0_0 f_0_6875 f_0_75 f_1_5 f_0_75;
   mkAabb f_0_3125 f_0_0 f_0_0 f_0_6875 f_1_5 f_0_25;
   mkAabb f_0_3125 f_0_0 f_0_0 f_0_6875 f_1_5 f_0_6875;
   mkAabb f_0_0 f_0_0 f_0_3125 f_0_6875 f_1_5 f_0_6875;
   mkAabb f_0_3125 f_0_0 f_0_0 f_0_6875 f_1_5 f_0_3125;
   mkAabb f_0_0 f_0_0 f_0_3125 f_0_6875 f_1_5 f_0_6875;
   mkAabb f_0_3125 f_0_0 f_0_0 f_0_6875 f_1_5 f_0_3125;
   mkAabb f_0_25 f_0_0 f_0_25 f_0_75 f_1_5 f_0_75;
   mkAabb f_0_3125 f_0_0 f_0_0 f_0_6875 f_1_5 f_0_25;
   mkAabb f_0_3125 f_0_0 f_0_75 f_0_6875 f_1_5 f_1_0;
   mkAabb f_0_0 f_0_0 f_0_3125 f_0_75 f_1_5 f_0_6875;
   mkAabb f_0_25 f_0_0 f_0_25 f_0_75 f_1_5 f_0_3125;
   mkAabb f_0_25 f_0_0 f_0_6875 f_0_75 f_1_5 f_0_75;
   mkAabb f_0_3125 f_0_0 f_0_0 f_0_6875 f_1_5 f_0_25;
   mkAabb f_0_3125 f_0_0 f_0_75 f_0_6875 f_1_5 f_1_0;
   mkAabb f_0_0 f_0_0 f_0_3125 f_0_75 f_1_5 f_0_6875;
   mkAabb f_0_25 f_0_0 f_0_25 f_0_75 f_1_5 f_0_3125;
   mkAabb f_0_25 f_0_0 f_0_6875 f_0_75 f_1_5 f_0_75;
   mkAabb f_0_3125 f_0_0 f_0_0 f_0_6875 f_1_5 f_0_25;
   mkAabb f_0_3125 f_0_0 f_0_75 f_0_6875 f_1_5 f_1_0;
   mkAabb f_0_3125 f_0_0 f_0_0 f_0_6875 f_1_5 f_1_0;
   mkAabb f_0_0 f_0_0 f_0_3125 f_0_6875 f_1_5 f_0_6875;
   mkAabb f_0_3125 f_0_0 f_0_0 f_0_6875 f_1_5 f_0_3125;
   mkAabb f_0_3125 f_0_0 f_0_6875 f_0_6875 f_1_5 f_1_0;
   mkAabb f_0_0 f_0_0 f_0_3125 f_0_6875 f_1_5 f_0_6875;
   mkAabb f_0_3125 f_0_0 f_0_0 f_0_6875 f_1_5 f_0_3125;
   mkAabb f_0_3125 f_0_0 f_0_6875 f_0_6875 f_1_5 f_1_0;
   mkAabb f_0_25 f_0_0 f_0_25 f_0_75 f_1_5 f_0_75;
   mkAabb f_0_3125 f_0_0 f_0_0 f_0_6875 f_1_5 f_0_25;
   mkAabb f_0_3125 f_0_0 f_0_75 f_0_6875 f_1_5 f_1_0;
   mkAabb f_0_0 f_0_0 f_0_3125 f_0_75 f_1_5 f_0_6875;
   mkAabb f_0_25 f_0_0 f_0_25 f_0_75 f_1_5 f_0_3125;
   mkAabb f_0_25 f_0_0 f_0_6875 f_0_75 f_1_5 f_0_75;
   mkAabb f_0_3125 f_0_0 f_0_0 f_0_6875 f_1_5 f_0_25;
   mkAabb f_0_3125 f_0_0 f_0_75 f_0_6875 f_1_5 f_1_0;
   mkAabb f_0_0 f_0_0 f_0_3125 f_0_75 f_1_5 f_0_6875;
   mkAabb f_0_25 f_0_0 f_0_25 f_0_75 f_1_5 f_0_3125;
   mkAabb f_0_25 f_0_0 f_0_6875 f_0_75 f_1_5 f_0_75;
   mkAabb f_0_3125 f_0_0 f_0_0 f_0_6875 f_1_5 f_0_25;
   mkAabb f_0_3125 f_0_0 f_0_75 f_0_6875 f_1_5 f_1_0;
   mkAabb f_0_3125 f_0_0 f_0_0 f_0_6875 f_1_5 f_1_0;
   mkAabb f_0_0 f_0_0 f_0_3125 f_0_6875 f_1_5 f_0_6875;
   mkAabb f_0_3125 f_0_0 f_0_0 f_0_6875 f_1_5 f_0_3125;
   mkAabb f_0_3125 f_0_0 f_0_6875 f_0_6875 f_1_5 f_1_0;
   mkAabb f_0_0 f_0_0 f_0_3125 f_0_6875 f_1_5 f_0_6875;
   mkAabb f_0_3125 f_0_0 f_0_0 f_0_6875 f_1_5 f_0_3125;
   mkAabb f_0_3125 f_0_0 f_0_6875 f_0_6875 f_1_5 f_1_0;
   mkAabb f_0_25 f_0_0 f_0_25 f_0_75 f_1_5 f_0_75;
   mkAabb f_0_75 f_0_0 f_0_3125 f_1_0 f_1_5 f_0_6875;
   mkAabb f_0_0 f_0_0 f_0_3125 f_1_0 f_1_5 f_0_6875;
   mkAabb f_0_25 f_0_0 f_0_25 f_0_75 f_1_5 f_0_3125;
   mkAabb f_0_25 f_0_0 f_0_6875 f_0_75 f_1_5 f_0_75;
   mkAabb f_0_0 f_0_0 f_0_3125 f_1_0 f_1_5 f_0_6875;
   mkAabb f_0_25 f_0_0 f_0_25 f_0_75 f_1_5 f_0_3125;
   mkAabb f_0_25 f_0_0 f_0_6875 f_0_75 f_1_5 f_0_75;
   mkAabb f_0_3125 f_0_0 f_0_3125 f_1_0 f_1_5 f_0_6875;
   mkAabb f_0_0 f_0_0 f_0_3125 f_1_0 f_1_5 f_0_6875;
   mkAabb f_0_0 f_0_0 f_0_3125 f_1_0 f_1_5 f_0_6875;
   mkAabb f_0_25 f_0_0 f_0_25 f_0_75 f_1_5 f_0_75;
   mkAabb f_0_3125 f_0_0 f_0_75 f_0_6875 f_1_5 f_1_0;
   mkAabb f_0_75 f_0_0 f_0_3125 f_1_0 f_1_5 f_0_6875;
   mkAabb f_0_0 f_0_0 f_0_3125 f_1_0 f_1_5 f_0_6875;
   mkAabb f_0_25 f_0_0 f_0_25 f_0_75 f_1_5 f_0_3125;
   mkAabb f_0_25 f_0_0 f_0_6875 f_0_75 f_1_5 f_0_75;
   mkAabb f_0_3125 f_0_0 f_0_75 f_0_6875 f_1_5 f_1_0;
   mkAabb f_0_0 f_0_0 f_0_3125 f_1_0 f_1_5 f_0_6875;
   mkAabb f_0_25 f_0_0 f_0_25 f_0_75 f_1_5 f_0_3125;
   mkAabb f_0_25 f_0_0 f_0_6875 f_0_75 f_1_5 f_0_75;
   mkAabb f_0_3125 f_0_0 f_0_75 f_0_6875 f_1_5 f_1_0;
   mkAabb f_0_3125 f_0_0 f_0_3125 f_0_6875 f_1_5 f_1_0;
   mkAabb f_0_6875 f_0_0 f_0_3125 f_1_0 f_1_5 f_0_6875;
   mkAabb f_0_0 f_0_0 f_0_3125 f_1_0 f_1_5 f_0_6875;
   mkAabb f_0_3125 f_0_0 f_0_6875 f_0_6875 f_1_5 f_1_0;
   mkAabb f_0_0 f_0_0 f_0_3125 f_1_0 f_1_5 f_0_6875;
   mkAabb f_0_3125 f_0_0 f_0_6875 f_0_6875 f_1_5 f_1_0;
   mkAabb f_0_25 f_0_0 f_0_25 f_0_75 f_1_5 f_0_75;
   mkAabb f_0_3125 f_0_0 f_0_75 f_0_6875 f_1_5 f_1_0;
   mkAabb f_0_75 f_0_0 f_0_3125 f_1_0 f_1_5 f_0_6875;
   mkAabb f_0_0 f_0_0 f_0_3125 f_1_0 f_1_5 f_0_6875;
   mkAabb f_0_25 f_0_0 f_0_25 f_0_75 f_1_5 f_0_3125;
   mkAabb f_0_25 f_0_0 f_0_6875 f_0_75 f_1_5 f_0_75;
   mkAabb f_0_3125 f_0_0 f_0_75 f_0_6875 f_1_5 f_1_0;
   mkAabb f_0_0 f_0_0 f_0_3125 f_1_0 f_1_5 f_0_6875;
   mkAabb f_0_25 f_0_0 f_0_25 f_0_75 f_1_5 f_0_3125;
   mkAabb f_0_25 f_0_0 f_0_6875 f_0_75 f_1_5 f_0_75].
Definition SHAPE_BOXES_85 : list Aabb :=
  [mkAabb f_0_3125 f_0_0 f_0_75 f_0_6875 f_1_5 f_1_0;
   mkAabb f_0_3125 f_0_0 f_0_3125 f_0_6875 f_1_5 f_1_0;
   mkAabb f_0_6875 f_0_0 f_0_3125 f_1_0 f_1_5 f_0_6875;
   mkAabb f_0_0 f_0_0 f_0_3125 f_1_0 f_1_5 f_0_6875;
   mkAabb f_0_3125 f_0_0 f_0_6875 f_0_6875 f_1_5 f_1_0;
   mkAabb f_0_0 f_0_0 f_0_3125 f_1_0 f_1_5 f_0_6875;
   mkAabb f_0_3125 f_0_0 f_0_6875 f_0_6875 f_1_5 f_1_0;
   mkAabb f_0_25 f_0_0 f_0_25 f_0_75 f_1_5 f_0_75;
   mkAabb f_0_3125 f_0_0 f_0_0 f_0_6875 f_1_5 f_0_25;
   mkAabb f_0_75 f_0_0 f_0_3125 f_1_0 f_1_5 f_0_6875;
   mkAabb f_0_0 f_0_0 f_0_3125 f_1_0 f_1_5 f_0_6875;
   mkAabb f_0_25 f_0_0 f_0_25 f_0_75 f_1_5 f_0_3125;
   mkAabb f_0_25 f_0_0 f_0_6875 f_0_75 f_1_5 f_0_75;
   mkAabb f_0_3125 f_0_0 f_0_0 f_0_6875 f_1_5 f_0_25;
   mkAabb f_0_0 f_0_0 f_0_3125 f_1_0 f_1_5 f_0_6875;
   mkAabb f_0_25 f_0_0 f_0_25 f_0_75 f_1_5 f_0_3125;
   mkAabb f_0_25 f_0_0 f_0_6875 f_0_75 f_1_5 f_0_75;
   mkAabb f_0_3125 f_0_0 f_0_0 f_0_6875 f_1_5 f_0_25;
   mkAabb f_0_3125 f_0_0 f_0_0 f_0_6875 f_1_5 f_0_6875;
   mkAabb f_0_6875 f_0_0 f_0_3125 f_1_0 f_1_5 f_0_6875;
   mkAabb f_0_0 f_0_0 f_0_3125 f_1_0 f_1_5 f_0_6875;
   mkAabb f_0_3125 f_0_0 f_0_0 f_0_6875 f_1_5 f_0_3125;
   mkAabb f_0_0 f_0_0 f_0_3125 f_1_0 f_1_5 f_0_6875;
   mkAabb f_0_3125 f_0_0 f_0_0 f_0_6875 f_1_5 f_0_3125;
   mkAabb f_0_25 f_0_0 f_0_25 f_0_75 f_1_5 f_0_75;
   mkAabb f_0_3125 f_0_0 f_0_0 f_0_6875 f_1_5 f_0_25;
   mkAabb f_0_3125 f_0_0 f_0_75 f_0_6875 f_1_5 f_1_0;
   mkAabb f_0_75 f_0_0 f_0_3125 f_1_0 f_1_5 f_0_6875;
   mkAabb f_0_0 f_0_0 f_0_3125 f_1_0 f_1_5 f_0_6875;
   mkAabb f_0_25 f_0_0 f_0_25 f_0_75 f_1_5 f_0_3125;
   mkAabb f_0_25 f_0_0 f_0_6875 f_0_75 f_1_5 f_0_75;
   mkAabb f_0_3125 f_0_0 f_0_0 f_0_6875 f_1_5 f_0_25;
   mkAabb f_0_3125 f_0_0 f_0_75 f_0_6875 f_1_5 f_1_0;
   mkAabb f_0_0 f_0_0 f_0_3125 f_1_0 f_1_5 f_0_6875;
   mkAabb f_0_25 f_0_0 f_0_25 f_0_75 f_1_5 f_0_3125;
   mkAabb f_0_25 f_0_0 f_0_6875 f_0_75 f_1_5 f_0_75;
   mkAabb f_0_3125 f_0_0 f_0_0 f_0_6875 f_1_5 f_0_25;
   mkAabb f_0_3125 f_0_0 f_0_75 f_0_6875 f_1_5 f_1_0;
   mkAabb f_0_3125 f_0_0 f_0_0 f_0_6875 f_1_5 f_1_0;
   mkAabb f_0_6875 f_0_0 f_0_3125 f_1_0 f_1_5 f_0_6875;
   mkAabb f_0_0 f_0_0 f_0_3125 f_1_0 f_1_5 f_0_6875;
   mkAabb f_0_3125 f_0_0 f_0_0 f_0_6875 f_1_5 f_0_3125;
   mkAabb f_0_3125 f_0_0 f_0_6875 f_0_6875 f_1_5 f_1_0;
   mkAabb f_0_0 f_0_0 f_0_3125 f_1_0 f_1_5 f_0_6875;
   mkAabb f_0_3125 f_0_0 f_0_0 f_0_6875 f_1_5 f_0_3125;
   mkAabb f_0_3125 f_0_0 f_0_6875 f_0_6875 f_1_5 f_1_0;
   mkAabb f_0_25 f_0_0 f_0_25 f_0_75 f_1_5 f_0_75;
   mkAabb f_0_3125 f_0_0 f_0_0 f_0_6875 f_1_5 f_0_25;
   mkAabb f_0_3125 f_0_0 f_0_75 f_0_6875 f_1_5 f_1_0;
   mkAabb f_0_75 f_0_0 f_0_3125 f_1_0 f_1_5 f_0_6875;
   mkAabb f_0_0 f_0_0 f_0_3125 f_1_0 f_1_5 f_0_6875;
   mkAabb f_0_25 f_0_0 f_0_25 f_0_75 f_1_5 f_0_3125;
   mkAabb f_0_25 f_0_0 f_0_6875 f_0_75 f_1_5 f_0_75;
   mkAabb f_0_3125 f_0_0 f_0_0 f_0_6875 f_1_5 f_0_25;
   mkAabb f_0_3125 f_0_0 f_0_75 f_0_6875 f_1_5 f_1_0;
   mkAabb f_0_0 f_0_0 f_0_3125 f_1_0 f_1_5 f_0_6875;
   mkAabb f_0_25 f_0_0 f_0_25 f_0_75 f_1_5 f_0_3125;
   mkAabb f_0_25 f_0_0 f_0_6875 f_0_75 f_1_5 f_0_75;
   mkAabb f_0_3125 f_0_0 f_0_0 f_0_6875 f_1_5 f_0_25;
   mkAabb f_0_3125 f_0_0 f_0_75 f_0_6875 f_1_5 f_1_0;
   mkAabb f_0_3125 f_0_0 f_0_0 f_0_6875 f_1_5 f_1_0;
   mkAabb f_0_6875 f_0_0 f_0_3125 f_1_0 f_1_5 f_0_6875;
   mkAabb f_0_0 f_0_0 f_0_3125 f_1_0 f_1_5 f_0_6875;
   mkAabb f_0_3125 f_0_0 f_0_0 f_0_6875 f_1_5 f_0_3125;
   mkAabb f_0_3125 f_0_0 f_0_6875 f_0_6875 f_1_5 f_1_0;
   mkAabb f_0_0 f_0_0 f_0_3125 f_1_0 f_1_5 f_0_6875;
   mkAabb f_0_3125 f_0_0 f_0_0 f_0_6875 f_1_5 f_0_3125;
   mkAabb f_0_3125 f_0_0 f_0_6875 f_0_6875 f_1_5 f_1_0;
   mkAabb f_0_25 f_0_0 f_0_25 f_0_75 f_1_5 f_0_75;
   mkAabb f_0_3125 f_0_0 f_0_0 f_0_6875 f_1_5 f_0_25;
   mkAabb f_0_75 f_0_0 f_0_3125 f_1_0 f_1_5 f_0_6875;
   mkAabb f_0_0 f_0_0 f_0_3125 f_1_0 f_1_5 f_0_6875;
   mkAabb f_0_25 f_0_0 f_0_25 f_0_75 f_1_5 f_0_3125;
   mkAabb f_0_25 f_0_0 f_0_6875 f_0_75 f_1_5 f_0_75;
   mkAabb f_0_3125 f_0_0 f_0_0 f_0_6875 f_1_5 f_0_25;
   mkAabb f_0_0 f_0_0 f_0_3125 f_1_0 f_1_5 f_0_6875;
   mkAabb f_0_25 f_0_0 f_0_25 f_0_75 f_1_5 f_0_3125;
   mkAabb f_0_25 f_0_0 f_0_6875 f_0_75 f_1_5 f_0_75;
   mkAabb f_0_3125 f_0_0 f_0_0 f_0_6875 f_1_5 f_0_25;
   mkAabb f_0_3125 f_0_0 f_0_0 f_0_6875 f_1_5 f_0_6875;
   mkAabb f_0_6875 f_0_0 f_0_3125 f_1_0 f_1_5 f_0_6875;
   mkAabb f_0_0 f_0_0 f_0_3125 f_1_0 f_1_5 f_0_6875;
   mkAabb f_0_3125 f_0_0 f_0_0 f_0_6875 f_1_5 f_0_3125;
   mkAabb f_0_0 f_0_0 f_0_3125 f_1_0 f_1_5 f_0_6875;
   mkAabb f_0_3125 f_0_0 f_0_0 f_0_6875 f_1_5 f_0_3125;
   mkAabb f_0_25 f_0_0 f_0_25 f_0_75 f_1_5 f_0_75;
   mkAabb f_0_3125 f_0_0 f_0_0 f_0_6875 f_1_5 f_0_25;
   mkAabb f_0_3125 f_0_0 f_0_75 f_0_6875 f_1_5 f_1_0;
   mkAabb f_0_75 f_0_0 f_0_3125 f_1_0 f_1_5 f_0_6875;
   mkAabb f_0_0 f_0_0 f_0_3125 f_1_0 f_1_5 f_0_6875;
   mkAabb f_0_25 f_0_0 f_0_25 f_0_75 f_1_5 f_0_3125;
   mkAabb f_0_25 f_0_0 f_0_6875 f_0_75 f_1_5 f_0_75;
   mkAabb f_0_3125 f_0_0 f_0_0 f_0_6875 f_1_5 f_0_25;
   mkAabb f_0_3125 f_0_0 f_0_75 f_0_6875 f_1_5 f_1_0;
   mkAabb f_0_0 f_0_0 f_0_3125 f_1_0 f_1_5 f_0_6875;
   mkAabb f_0_25 f_0_0 f_0_25 f_0_75 f_1_5 f_0_3125;
   mkAabb f_0_25 f_0_0 f_0_6875 f_0_75 f_1_5 f_0_75;
   mkAabb f_0_3125 f_0_0 f_0_0 f_0_6875 f_1_5 f_0_25;
   mkAabb f_0_3125 f_0_0 f_0_75 f_0_6875 f_1_5 f_1_0;
   mkAabb f_0_3125 f_0_0 f_0_0 f_0_6875 f_1_5 f_1_0;
   mkAabb f_0_6875 f_0_0 f_0_3125 f_1_0 f_1_5 f_0_6875;
   mkAabb f_0_0 f_0_0 f_0_3125 f_1_0 f_1_5 f_0_6875;
   mkAabb f_0_3125 f_0_0 f_0_0 f_0_6875 f_1_5 f_0_3125;
   mkAabb f_0_3125 f_0_0 f_0_6875 f_0_6875 f_1_5 f_1_0;
   mkAabb f_0_0 f_0_0 f_0_3125 f_1_0 f_1_5 f_0_6875;
   mkAabb f_0_3125 f_0_0 f_0_0 f_0_6875 f_1_5 f_0_3125;
   mkAabb f_0_3125 f_0_0 f_0_6875 f_0_6875 f_1_5 f_1_0;
   mkAabb f_0_25 f_0_0 f_0_25 f_0_75 f_1_5 f_0_75;
   mkAabb f_0_3125 f_0_0 f_0_0 f_0_6875 f_1_5 f_0_25;
   mkAabb f_0_3125 f_0_0 f_0_75 f_0_6875 f_1_5 f_1_0;
   mkAabb f_0_75 f_0_0 f_0_3125 f_1_0 f_1_5 f_0_6875;
   mkAabb f_0_0 f_0_0 f_0_3125 f_1_0 f_1_5 f_0_6875;
   mkAabb f_0_25 f_0_0 f_0_25 f_0_75 f_1_5 f_0_3125;
   mkAabb f_0_25 f_0_0 f_0_6875 f_0_75 f_1_5 f_0_75;
   mkAabb f_0_3125 f_0_0 f_0_0 f_0_6875 f_1_5 f_0_25;
   mkAabb f_0_3125 f_0_0 f_0_75 f_0_6875 f_1_5 f_1_0;
   mkAabb f_0_0 f_0_0 f_0_3125 f_1_0 f_1_5 f_0_6875;
   mkAabb f_0_25 f_0_0 f_0_25 f_0_75 f_1_5 f_0_3125;
   mkAabb f_0_25 f_0_0 f_0_6875 f_0_75 f_1_5 f_0_75;
   mkAabb f_0_3125 f_0_0 f_0_0 f_0_6875 f_1_5 f_0_25;
   mkAabb f_0_3125 f_0_0 f_0_75 f_0_6875 f_1_5 f_1_0;
   mkAabb f_0_3125 f_0_0 f_0_0 f_0_6875 f_1_5 f_1_0;
   mkAabb f_0_6875 f_0_0 f_0_3125 f_1_0 f_1_5 f_0_6875;
   mkAabb f_0_0 f_0_0 f_0_3125 f_1_0 f_1_5 f_0_6875;
   mkAabb f_0_3125 f_0_0 f_0_0 f_0_6875 f_1_5 f_0_3125;
   mkAabb f_0_3125 f_0_0 f_0_6875 f_0_6875 f_1_5 f_1_0;
   mkAabb f_0_0 f_0_0 f_0_3125 f_1_0 f_1_5 f_0_6875;
   mkAabb f_0_3125 f_0_0 f_0_0 f_0_6875 f_1_5 f_0_3125;
   mkAabb f_0_3125 f_0_0 f_0_6875 f_0_6875 f_1_5 f_1_0;
   mkAabb f_0_25 f_0_0 f_0_25 f_0_75 f_1_5 f_0_75;
   mkAabb f_0_75 f_0_0 f_0_3125 f_1_0 f_1_5 f_0_6875;
   mkAabb f_0_0 f_0_0 f_0_3125 f_1_0 f_1_5 f_0_6875;
   mkAabb f_0_25 f_0_0 f_0_25 f_0_75 f_1_5 f_0_3125;
   mkAabb f_0_25 f_0_0 f_0_6875 f_0_75 f_1_5 f_0_75;
   mkAabb f_0_0 f_0_0 f_0_3125 f_1_0 f_1_5 f_0_6875;
   mkAabb f_0_25 f_0_0 f_0_25 f_0_75 f_1_5 f_0_3125;
   mkAabb f_0_25 f_0_0 f_0_6875 f_0_75 f_1_5 f_0_75;
   mkAabb f_0_3125 f_0_0 f_0_3125 f_1_0 f_1_5 f_0_6875;
   mkAabb f_0_0 f_0_0 f_0_3125 f_1_0 f_1_5 f_0_6875;
   mkAabb f_0_0 f_0_0 f_0_3125 f_1_0 f_1_5 f_0_6875;
   mkAabb f_0_25 f_0_0 f_0_25 f_0_75 f_1_5 f_0_75;
   mkAabb f_0_3125 f_0_0 f_0_75 f_0_6875 f_1_5 f_1_0;
   mkAabb f_0_75 f_0_0 f_0_3125 f_1_0 f_1_5 f_0_6875;
   mkAabb f_0_0 f_0_0 f_0_3125 f_1_0 f_1_5 f_0_6875;
   mkAabb f_0_25 f_0_0 f_0_25 f_0_75 f_1_5 f_0_3125;
   mkAabb f_0_25 f_0_0 f_0_6875 f_0_75 f_1_5 f_0_75;
   mkAabb f_0_3125 f_0_0 f_0_75 f_0_6875 f_1_5 f_1_0;
   mkAabb f_0_0 f_0_0 f_0_3125 f_1_0 f_1_5 f_0_6875;
   mkAabb f_0_25 f_0_0 f_0_25 f_0_75 f_1_5 f_0_3125;
   mkAabb f_0_25 f_0_0 f_0_6875 f_0_75 f_1_5 f_0_75].
Definition SHAPE_BOXES_86 : list Aabb :=
  [mkAabb f_0_3125 f_0_0 f_0_75 f_0_6875 f_1_5 f_1_0;
   mkAabb f_0_3125 f_0_0 f_0_3125 f_0_6875 f_1_5 f_1_0;
   mkAabb f_0_6875 f_0_0 f_0_3125 f_1_0 f_1_5 f_0_6875;
   mkAabb f_0_0 f_0_0 f_0_3125 f_1_0 f_1_5 f_0_6875;
   mkAabb f_0_3125 f_0_0 f_0_6875 f_0_6875 f_1_5 f_1_0;
   mkAabb f_0_0 f_0_0 f_0_3125 f_1_0 f_1_5 f_0_6875;
   mkAabb f_0_3125 f_0_0 f_0_6875 f_0_6875 f_1_5 f_1_0;
   mkAabb f_0_25 f_0_0 f_0_25 f_0_75 f_1_5 f_0_75;
   mkAabb f_0_3125 f_0_0 f_0_75 f_0_6875 f_1_5 f_1_0;
   mkAabb f_0_75 f_0_0 f_0_3125 f_1_0 f_1_5 f_0_6875;
   mkAabb f_0_0 f_0_0 f_0_3125 f_1_0 f_1_5 f_0_6875;
   mkAabb f_0_25 f_0_0 f_0_25 f_0_75 f_1_5 f_0_3125;
   mkAabb f_0_25 f_0_0 f_0_6875 f_0_75 f_1_5 f_0_75;
   mkAabb f_0_3125 f_0_0 f_0_75 f_0_6875 f_1_5 f_1_0;
   mkAabb f_0_0 f_0_0 f_0_3125 f_1_0 f_1_5 f_0_6875;
   mkAabb f_0_25 f_0_0 f_0_25 f_0_75 f_1_5 f_0_3125;
   mkAabb f_0_25 f_0_0 f_0_6875 f_0_75 f_1_5 f_0_75;
   mkAabb f_0_3125 f_0_0 f_0_75 f_0_6875 f_1_5 f_1_0;
   mkAabb f_0_3125 f_0_0 f_0_3125 f_0_6875 f_1_5 f_1_0;
   mkAabb f_0_6875 f_0_0 f_0_3125 f_1_0 f_1_5 f_0_6875;
   mkAabb f_0_0 f_0_0 f_0_3125 f_1_0 f_1_5 f_0_6875;
   mkAabb f_0_3125 f_0_0 f_0_6875 f_0_6875 f_1_5 f_1_0;
   mkAabb f_0_0 f_0_0 f_0_3125 f_1_0 f_1_5 f_0_6875;
   mkAabb f_0_3125 f_0_0 f_0_6875 f_0_6875 f_1_5 f_1_0;
   mkAabb f_0_25 f_0_0 f_0_25 f_0_75 f_1_5 f_0_75;
   mkAabb f_0_3125 f_0_0 f_0_0 f_0_6875 f_1_5 f_0_25;
   mkAabb f_0_75 f_0_0 f_0_3125 f_1_0 f_1_5 f_0_6875;
   mkAabb f_0_0 f_0_0 f_0_3125 f_1_0 f_1_5 f_0_6875;
   mkAabb f_0_25 f_0_0 f_0_25 f_0_75 f_1_5 f_0_3125;
   mkAabb f_0_25 f_0_0 f_0_6875 f_0_75 f_1_5 f_0_75;
   mkAabb f_0_3125 f_0_0 f_0_0 f_0_6875 f_1_5 f_0_25;
   mkAabb f_0_0 f_0_0 f_0_3125 f_1_0 f_1_5 f_0_6875;
   mkAabb f_0_25 f_0_0 f_0_25 f_0_75 f_1_5 f_0_3125;
   mkAabb f_0_25 f_0_0 f_0_6875 f_0_75 f_1_5 f_0_75;
   mkAabb f_0_3125 f_0_0 f_0_0 f_0_6875 f_1_5 f_0_25;
   mkAabb f_0_3125 f_0_0 f_0_0 f_0_6875 f_1_5 f_0_6875;
   mkAabb f_0_6875 f_0_0 f_0_3125 f_1_0 f_1_5 f_0_6875;
   mkAabb f_0_0 f_0_0 f_0_3125 f_1_0 f_1_5 f_0_6875;
   mkAabb f_0_3125 f_0_0 f_0_0 f_0_6875 f_1_5 f_0_3125;
   mkAabb f_0_0 f_0_0 f_0_3125 f_1_0 f_1_5 f_0_6875;
   mkAabb f_0_3125 f_0_0 f_0_0 f_0_6875 f_1_5 f_0_3125;
   mkAabb f_0_25 f_0_0 f_0_25 f_0_75 f_1_5 f_0_75;
   mkAabb f_0_3125 f_0_0 f_0_0 f_0_6875 f_1_5 f_0_25;
   mkAabb f_0_3125 f_0_0 f_0_75 f_0_6875 f_1_5 f_1_0;
   mkAabb f_0_75 f_0_0 f_0_3125 f_1_0 f_1_5 f_0_6875;
   mkAabb f_0_0 f_0_0 f_0_3125 f_1_0 f_1_5 f_0_6875;
   mkAabb f_0_25 f_0_0 f_0_25 f_0_75 f_1_5 f_0_3125;
   mkAabb f_0_25 f_0_0 f_0_6875 f_0_75 f_1_5 f_0_75;
   mkAabb f_0_3125 f_0_0 f_0_0 f_0_6875 f_1_5 f_0_25;
   mkAabb f_0_3125 f_0_0 f_0_75 f_0_6875 f_1_5 f_1_0;
   mkAabb f_0_0 f_0_0 f_0_3125 f_1_0 f_1_5 f_0_6875;
   mkAabb f_0_25 f_0_0 f_0_25 f_0_75 f_1_5 f_0_3125;
   mkAabb f_0_25 f_0_0 f_0_6875 f_0_75 f_1_5 f_0_75;
   mkAabb f_0_3125 f_0_0 f_0_0 f_0_6875 f_1_5 f_0_25;
   mkAabb f_0_3125 f_0_0 f_0_75 f_0_6875 f_1_5 f_1_0;
   mkAabb f_0_3125 f_0_0 f_0_0 f_0_6875 f_1_5 f_1_0;
   mkAabb f_0_6875 f_0_0 f_0_3125 f_1_0 f_1_5 f_0_6875;
   mkAabb f_0_0 f_0_0 f_0_3125 f_1_0 f_1_5 f_0_6875;
   mkAabb f_0_3125 f_0_0 f_0_0 f_0_6875 f_1_5 f_0_3125;
   mkAabb f_0_3125 f_0_0 f_0_6875 f_0_6875 f_1_5 f_1_0;
   mkAabb f_0_0 f_0_0 f_0_3125 f_1_0 f_1_5 f_0_6875;
   mkAabb f_0_3125 f_0_0 f_0_0 f_0_6875 f_1_5 f_0_3125;
   mkAabb f_0_3125 f_0_0 f_0_6875 f_0_6875 f_1_5 f_1_0;
   mkAabb f_0_25 f_0_0 f_0_25 f_0_75 f_1_5 f_0_75;
   mkAabb f_0_3125 f_0_0 f_0_0 f_0_6875 f_1_5 f_0_25;
   mkAabb f_0_3125 f_0_0 f_0_75 f_0_6875 f_1_5 f_1_0;
   mkAabb f_0_75 f_0_0 f_0_3125 f_1_0 f_1_5 f_0_6875;
   mkAabb f_0_0 f_0_0 f_0_3125 f_1_0 f_1_5 f_0_6875;
   mkAabb f_0_25 f_0_0 f_0_25 f_0_75 f_1_5 f_0_3125;
   mkAabb f_0_25 f_0_0 f_0_6875 f_0_75 f_1_5 f_0_75;
   mkAabb f_0_3125 f_0_0 f_0_0 f_0_6875 f_1_5 f_0_25;
   mkAabb f_0_3125 f_0_0 f_0_75 f_0_6875 f_1_5 f_1_0;
   mkAabb f_0_0 f_0_0 f_0_3125 f_1_0 f_1_5 f_0_6875;
   mkAabb f_0_25 f_0_0 f_0_25 f_0_75 f_1_5 f_0_3125;
   mkAabb f_0_25 f_0_0 f_0_6875 f_0_75 f_1_5 f_0_75;
   mkAabb f_0_3125 f_0_0 f_0_0 f_0_6875 f_1_5 f_0_25;
   mkAabb f_0_3125 f_0_0 f_0_75 f_0_6875 f_1_5 f_1_0;
   mkAabb f_0_3125 f_0_0 f_0_0 f_0_6875 f_1_5 f_1_0;
   mkAabb f_0_6875 f_0_0 f_0_3125 f_1_0 f_1_5 f_0_6875;
   mkAabb f_0_0 f_0_0 f_0_3125 f_1_0 f_1_5 f_0_6875;
   mkAabb f_0_3125 f_0_0 f_0_0 f_0_6875 f_1_5 f_0_3125;
   mkAabb f_0_3125 f_0_0 f_0_6875 f_0_6875 f_1_5 f_1_0;
   mkAabb f_0_0 f_0_0 f_0_3125 f_1_0 f_1_5 f_0_6875;
   mkAabb f_0_3125 f_0_0 f_0_0 f_0_6875 f_1_5 f_0_3125;
   mkAabb f_0_3125 f_0_0 f_0_6875 f_0_6875 f_1_5 f_1_0;
   mkAabb f_0_25 f_0_0 f_0_25 f_0_75 f_1_5 f_0_75;
   mkAabb f_0_3125 f_0_0 f_0_0 f_0_6875 f_1_5 f_0_25;
   mkAabb f_0_75 f_0_0 f_0_3125 f_1_0 f_1_5 f_0_6875;
   mkAabb f_0_0 f_0_0 f_0_3125 f_1_0 f_1_5 f_0_6875;
   mkAabb f_0_25 f_0_0 f_0_25 f_0_75 f_1_5 f_0_3125;
   mkAabb f_0_25 f_0_0 f_0_6875 f_0_75 f_1_5 f_0_75;
   mkAabb f_0_3125 f_0_0 f_0_0 f_0_6875 f_1_5 f_0_25;
   mkAabb f_0_0 f_0_0 f_0_3125 f_1_0 f_1_5 f_0_6875;
   mkAabb f_0_25 f_0_0 f_0_25 f_0_75 f_1_5 f_0_3125;
   mkAabb f_0_25 f_0_0 f_0_6875 f_0_75 f_1_5 f_0_75;
   mkAabb f_0_3125 f_0_0 f_0_0 f_0_6875 f_1_5 f_0_25;
   mkAabb f_0_3125 f_0_0 f_0_0 f_0_6875 f_1_5 f_0_6875;
   mkAabb f_0_6875 f_0_0 f_0_3125 f_1_0 f_1_5 f_0_6875;
   mkAabb f_0_0 f_0_0 f_0_3125 f_1_0 f_1_5 f_0_6875;
   mkAabb f_0_3125 f_0_0 f_0_0 f_0_6875 f_1_5 f_0_3125;
   mkAabb f_0_0 f_0_0 f_0_3125 f_1_0 f_1_5 f_0_6875;
   mkAabb f_0_3125 f_0_0 f_0_0 f_0_6875 f_1_5 f_0_3125;
   mkAabb f_0_25 f_0_0 f_0_25 f_0_75 f_1_5 f_0_75;
   mkAabb f_0_3125 f_0_0 f_0_0 f_0_6875 f_1_5 f_0_25;
   mkAabb f_0_3125 f_0_0 f_0_75 f_0_6875 f_1_5 f_1_0;
   mkAabb f_0_75 f_0_0 f_0_3125 f_1_0 f_1_5 f_0_6875;
   mkAabb f_0_0 f_0_0 f_0_3125 f_1_0 f_1_5 f_0_6875;
   mkAabb f_0_25 f_0_0 f_0_25 f_0_75 f_1_5 f_0_3125;
   mkAabb f_0_25 f_0_0 f_0_6875 f_0_75 f_1_5 f_0_75;
   mkAabb f_0_3125 f_0_0 f_0_0 f_0_6875 f_1_5 f_0_25;
   mkAabb f_0_3125 f_0_0 f_0_75 f_0_6875 f_1_5 f_1_0;
   mkAabb f_0_0 f_0_0 f_0_3125 f_1_0 f_1_5 f_0_6875;
   mkAabb f_0_25 f_0_0 f_0_25 f_0_75 f_1_5 f_0_3125;
   mkAabb f_0_25 f_0_0 f_0_6875 f_0_75 f_1_5 f_0_75;
   mkAabb f_0_3125 f_0_0 f_0_0 f_0_6875 f_1_5 f_0_25;
   mkAabb f_0_3125 f_0_0 f_0_75 f_0_6875 f_1_5 f_1_0;
   mkAabb f_0_3125 f_0_0 f_0_0 f_0_6875 f_1_5 f_1_0;
   mkAabb f_0_6875 f_0_0 f_0_3125 f_1_0 f_1_5 f_0_6875;
   mkAabb f_0_0 f_0_0 f_0_3125 f_1_0 f_1_5 f_0_6875;
   mkAabb f_0_3125 f_0_0 f_0_0 f_0_6875 f_1_5 f_0_3125;
   mkAabb f_0_3125 f_0_0 f_0_6875 f_0_6875 f_1_5 f_1_0;
   mkAabb f_0_0 f_0_0 f_0_3125 f_1_0 f_1_5 f_0_6875;
   mkAabb f_0_3125 f_0_0 f_0_0 f_0_6875 f_1_5 f_0_3125;
   mkAabb f_0_3125 f_0_0 f_0_6875 f_0_6875 f_1_5 f_1_0;
   mkAabb f_0_25 f_0_0 f_0_25 f_0_75 f_1_5 f_0_75;
   mkAabb f_0_3125 f_0_0 f_0_0 f_0_6875 f_1_5 f_0_25;
   mkAabb f_0_3125 f_0_0 f_0_75 f_0_6875 f_1_5 f_1_0;
   mkAabb f_0_75 f_0_0 f_0_3125 f_1_0 f_1_5 f_0_6875;
   mkAabb f_0_0 f_0_0 f_0_3125 f_1_0 f_1_5 f_0_6875;
   mkAabb f_0_25 f_0_0 f_0_25 f_0_75 f_1_5 f_0_3125;
   mkAabb f_0_25 f_0_0 f_0_6875 f_0_75 f_1_5 f_0_75;
   mkAabb f_0_3125 f_0_0 f_0_0 f_0_6875 f_1_5 f_0_25;
   mkAabb f_0_3125 f_0_0 f_0_75 f_0_6875 f_1_5 f_1_0;
   mkAabb f_0_0 f_0_0 f_0_3125 f_1_0 f_1_5 f_0_6875;
   mkAabb f_0_25 f_0_0 f_0_25 f_0_75 f_1_5 f_0_3125;
   mkAabb f_0_25 f_0_0 f_0_6875 f_0_75 f_1_5 f_0_75;
   mkAabb f_0_3125 f_0_0 f_0_0 f_0_6875 f_1_5 f_0_25;
   mkAabb f_0_3125 f_0_0 f_0_75 f_0_6875 f_1_5 f_1_0;
   mkAabb f_0_3125 f_0_0 f_0_0 f_0_6875 f_1_5 f_1_0;
   mkAabb f_0_6875 f_0_0 f_0_3125 f_1_0 f_1_5 f_0_6875;
   mkAabb f_0_0 f_0_0 f_0_3125 f_1_0 f_1_5 f_0_6875;
   mkAabb f_0_3125 f_0_0 f_0_0 f_0_6875 f_1_5 f_0_3125;
   mkAabb f_0_3125 f_0_0 f_0_6875 f_0_6875 f_1_5 f_1_0;
   mkAabb f_0_0 f_0_0 f_0_3125 f_1_0 f_1_5 f_0_6875;
   mkAabb f_0_3125 f_0_0 f_0_0 f_0_6875 f_1_5 f_0_3125;
   mkAabb f_0_3125 f_0_0 f_0_6875 f_0_6875 f_1_5 f_1_0;
   mkAabb f_0_25 f_0_0 f_0_25 f_0_75 f_1_5 f_0_75;
   mkAabb f_0_0 f_0_0 f_0_3125 f_0_75 f_1_5 f_0_6875;
   mkAabb f_0_25 f_0_0 f_0_25 f_0_75 f_1_5 f_0_3125;
   mkAabb f_0_25 f_0_0 f_0_6875 f_0_75 f_1_5 f_0_75].
Definition SHAPE_BOXES_87 : list Aabb :=
  [mkAabb f_0_0 f_0_0 f_0_3125 f_0_75 f_1_5 f_0_6875;
   mkAabb f_0_25 f_0_0 f_0_25 f_0_75 f_1_5 f_0_3125;
   mkAabb f_0_25 f_0_0 f_0_6875 f_0_75 f_1_5 f_0_75;
   mkAabb f_0_0 f_0_0 f_0_3125 f_0_6875 f_1_5 f_0_6875;
   mkAabb f_0_0 f_0_0 f_0_3125 f_0_6875 f_1_5 f_0_6875;
   mkAabb f_0_25 f_0_0 f_0_25 f_0_75 f_1_5 f_0_75;
   mkAabb f_0_3125 f_0_0 f_0_75 f_0_6875 f_1_5 f_1_0;
   mkAabb f_0_0 f_0_0 f_0_3125 f_0_75 f_1_5 f_0_6875;
   mkAabb f_0_25 f_0_0 f_0_25 f_0_75 f_1_5 f_0_3125;
   mkAabb f_0_25 f_0_0 f_0_6875 f_0_75 f_1_5 f_0_75;
   mkAabb f_0_3125 f_0_0 f_0_75 f_0_6875 f_1_5 f_1_0;
   mkAabb f_0_0 f_0_0 f_0_3125 f_0_75 f_1_5 f_0_6875;
   mkAabb f_0_25 f_0_0 f_0_25 f_0_75 f_1_5 f_0_3125;
   mkAabb f_0_25 f_0_0 f_0_6875 f_0_75 f_1_5 f_0_75;
   mkAabb f_0_3125 f_0_0 f_0_75 f_0_6875 f_1_5 f_1_0;
   mkAabb f_0_3125 f_0_0 f_0_3125 f_0_6875 f_1_5 f_1_0;
   mkAabb f_0_0 f_0_0 f_0_3125 f_0_6875 f_1_5 f_0_6875;
   mkAabb f_0_3125 f_0_0 f_0_6875 f_0_6875 f_1_5 f_1_0;
   mkAabb f_0_0 f_0_0 f_0_3125 f_0_6875 f_1_5 f_0_6875;
   mkAabb f_0_3125 f_0_0 f_0_6875 f_0_6875 f_1_5 f_1_0;
   mkAabb f_0_25 f_0_0 f_0_25 f_0_75 f_1_5 f_0_75;
   mkAabb f_0_3125 f_0_0 f_0_75 f_0_6875 f_1_5 f_1_0;
   mkAabb f_0_0 f_0_0 f_0_3125 f_0_75 f_1_5 f_0_6875;
   mkAabb f_0_25 f_0_0 f_0_25 f_0_75 f_1_5 f_0_3125;
   mkAabb f_0_25 f_0_0 f_0_6875 f_0_75 f_1_5 f_0_75;
   mkAabb f_0_3125 f_0_0 f_0_75 f_0_6875 f_1_5 f_1_0;
   mkAabb f_0_0 f_0_0 f_0_3125 f_0_75 f_1_5 f_0_6875;
   mkAabb f_0_25 f_0_0 f_0_25 f_0_75 f_1_5 f_0_3125;
   mkAabb f_0_25 f_0_0 f_0_6875 f_0_75 f_1_5 f_0_75;
   mkAabb f_0_3125 f_0_0 f_0_75 f_0_6875 f_1_5 f_1_0;
   mkAabb f_0_3125 f_0_0 f_0_3125 f_0_6875 f_1_5 f_1_0;
   mkAabb f_0_0 f_0_0 f_0_3125 f_0_6875 f_1_5 f_0_6875;
   mkAabb f_0_3125 f_0_0 f_0_6875 f_0_6875 f_1_5 f_1_0;
   mkAabb f_0_0 f_0_0 f_0_3125 f_0_6875 f_1_5 f_0_6875;
   mkAabb f_0_3125 f_0_0 f_0_6875 f_0_6875 f_1_5 f_1_0;
   mkAabb f_0_25 f_0_0 f_0_25 f_0_75 f_1_5 f_0_75;
   mkAabb f_0_3125 f_0_0 f_0_0 f_0_6875 f_1_5 f_0_25;
   mkAabb f_0_0 f_0_0 f_0_3125 f_0_75 f_1_5 f_0_6875;
   mkAabb f_0_25 f_0_0 f_0_25 f_0_75 f_1_5 f_0_3125;
   mkAabb f_0_25 f_0_0 f_0_6875 f_0_75 f_1_5 f_0_75;
   mkAabb f_0_3125 f_0_0 f_0_0 f_0_6875 f_1_5 f_0_25;
   mkAabb f_0_0 f_0_0 f_0_3125 f_0_75 f_1_5 f_0_6875;
   mkAabb f_0_25 f_0_0 f_0_25 f_0_75 f_1_5 f_0_3125;
   mkAabb f_0_25 f_0_0 f_0_6875 f_0_75 f_1_5 f_0_75;
   mkAabb f_0_3125 f_0_0 f_0_0 f_0_6875 f_1_5 f_0_25;
   mkAabb f_0_3125 f_0_0 f_0_0 f_0_6875 f_1_5 f_0_6875;
   mkAabb f_0_0 f_0_0 f_0_3125 f_0_6875 f_1_5 f_0_6875;
   mkAabb f_0_3125 f_0_0 f_0_0 f_0_6875 f_1_5 f_0_3125;
   mkAabb f_0_0 f_0_0 f_0_3125 f_0_6875 f_1_5 f_0_6875;
   mkAabb f_0_3125 f_0_0 f_0_0 f_0_6875 f_1_5 f_0_3125;
   mkAabb f_0_25 f_0_0 f_0_25 f_0_75 f_1_5 f_0_75;
   mkAabb f_0_3125 f_0_0 f_0_0 f_0_6875 f_1_5 f_0_25;
   mkAabb f_0_3125 f_0_0 f_0_75 f_0_6875 f_1_5 f_1_0;
   mkAabb f_0_0 f_0_0 f_0_3125 f_0_75 f_1_5 f_0_6875;
   mkAabb f_0_25 f_0_0 f_0_25 f_0_75 f_1_5 f_0_3125;
   mkAabb f_0_25 f_0_0 f_0_6875 f_0_75 f_1_5 f_0_75;
   mkAabb f_0_3125 f_0_0 f_0_0 f_0_6875 f_1_5 f_0_25;
   mkAabb f_0_3125 f_0_0 f_0_75 f_0_6875 f_1_5 f_1_0;
   mkAabb f_0_0 f_0_0 f_0_3125 f_0_75 f_1_5 f_0_6875;
   mkAabb f_0_25 f_0_0 f_0_25 f_0_75 f_1_5 f_0_3125;
   mkAabb f_0_25 f_0_0 f_0_6875 f_0_75 f_1_5 f_0_75;
   mkAabb f_0_3125 f_0_0 f_0_0 f_0_6875 f_1_5 f_0_25;
   mkAabb f_0_3125 f_0_0 f_0_75 f_0_6875 f_1_5 f_1_0;
   mkAabb f_0_3125 f_0_0 f_0_0 f_0_6875 f_1_5 f_1_0;
   mkAabb f_0_0 f_0_0 f_0_3125 f_0_6875 f_1_5 f_0_6875;
   mkAabb f_0_3125 f_0_0 f_0_0 f_0_6875 f_1_5 f_0_3125;
   mkAabb f_0_3125 f_0_0 f_0_6875 f_0_6875 f_1_5 f_1_0;
   mkAabb f_0_0 f_0_0 f_0_3125 f_0_6875 f_1_5 f_0_6875;
   mkAabb f_0_3125 f_0_0 f_0_0 f_0_6875 f_1_5 f_0_3125;
   mkAabb f_0_3125 f_0_0 f_0_6875 f_0_6875 f_1_5 f_1_0;
   mkAabb f_0_25 f_0_0 f_0_25 f_0_75 f_1_5 f_0_75;
   mkAabb f_0_3125 f_0_0 f_0_0 f_0_6875 f_1_5 f_0_25;
   mkAabb f_0_3125 f_0_0 f_0_75 f_0_6875 f_1_5 f_1_0;
   mkAabb f_0_0 f_0_0 f_0_3125 f_0_75 f_1_5 f_0_6875;
   mkAabb f_0_25 f_0_0 f_0_25 f_0_75 f_1_5 f_0_3125;
   mkAabb f_0_25 f_0_0 f_0_6875 f_0_75 f_1_5 f_0_75;
   mkAabb f_0_3125 f_0_0 f_0_0 f_0_6875 f_1_5 f_0_25;
   mkAabb f_0_3125 f_0_0 f_0_75 f_0_6875 f_1_5 f_1_0;
   mkAabb f_0_0 f_0_0 f_0_3125 f_0_75 f_1_5 f_0_6875;
   mkAabb f_0_25 f_0_0 f_0_25 f_0_75 f_1_5 f_0_3125;
   mkAabb f_0_25 f_0_0 f_0_6875 f_0_75 f_1_5 f_0_75;
   mkAabb f_0_3125 f_0_0 f_0_0 f_0_6875 f_1_5 f_0_25;
   mkAabb f_0_3125 f_0_0 f_0_75 f_0_6875 f_1_5 f_1_0;
   mkAabb f_0_3125 f_0_0 f_0_0 f_0_6875 f_1_5 f_1_0;
   mkAabb f_0_0 f_0_0 f_0_3125 f_0_6875 f_1_5 f_0_6875;
   mkAabb f_0_3125 f_0_0 f_0_0 f_0_6875 f_1_5 f_0_3125;
   mkAabb f_0_3125 f_0_0 f_0_6875 f_0_6875 f_1_5 f_1_0;
   mkAabb f_0_0 f_0_0 f_0_3125 f_0_6875 f_1_5 f_0_6875;
   mkAabb f_0_3125 f_0_0 f_0_0 f_0_6875 f_1_5 f_0_3125;
   mkAabb f_0_3125 f_0_0 f_0_6875 f_0_6875 f_1_5 f_1_0;
   mkAabb f_0_25 f_0_0 f_0_25 f_0_75 f_1_5 f_0_75;
   mkAabb f_0_3125 f_0_0 f_0_0 f_0_6875 f_1_5 f_0_25;
   mkAabb f_0_0 f_0_0 f_0_3125 f_0_75 f_1_5 f_0_6875;
   mkAabb f_0_25 f_0_0 f_0_25 f_0_75 f_1_5 f_0_3125;
   mkAabb f_0_25 f_0_0 f_0_6875 f_0_75 f_1_5 f_0_75;
   mkAabb f_0_3125 f_0_0 f_0_0 f_0_6875 f_1_5 f_0_25;
   mkAabb f_0_0 f_0_0 f_0_3125 f_0_75 f_1_5 f_0_6875;
   mkAabb f_0_25 f_0_0 f_0_25 f_0_75 f_1_5 f_0_3125;
   mkAabb f_0_25 f_0_0 f_0_6875 f_0_75 f_1_5 f_0_75;
   mkAabb f_0_3125 f_0_0 f_0_0 f_0_6875 f_1_5 f_0_25;
   mkAabb f_0_3125 f_0_0 f_0_0 f_0_6875 f_1_5 f_0_6875;
   mkAabb f_0_0 f_0_0 f_0_3125 f_0_6875 f_1_5 f_0_6875;
   mkAabb f_0_3125 f_0_0 f_0_0 f_0_6875 f_1_5 f_0_3125;
   mkAabb f_0_0 f_0_0 f_0_3125 f_0_6875 f_1_5 f_0_6875;
   mkAabb f_0_3125 f_0_0 f_0_0 f_0_6875 f_1_5 f_0_3125;
   mkAabb f_0_25 f_0_0 f_0_25 f_0_75 f_1_5 f_0_75;
   mkAabb f_0_3125 f_0_0 f_0_0 f_0_6875 f_1_5 f_0_25;
   mkAabb f_0_3125 f_0_0 f_0_75 f_0_6875 f_1_5 f_1_0;
   mkAabb f_0_0 f_0_0 f_0_3125 f_0_75 f_1_5 f_0_6875;
   mkAabb f_0_25 f_0_0 f_0_25 f_0_75 f_1_5 f_0_3125;
   mkAabb f_0_25 f_0_0 f_0_6875 f_0_75 f_1_5 f_0_75;
   mkAabb f_0_3125 f_0_0 f_0_0 f_0_6875 f_1_5 f_0_25;
   mkAabb f_0_3125 f_0_0 f_0_75 f_0_6875 f_1_5 f_1_0;
   mkAabb f_0_0 f_0_0 f_0_3125 f_0_75 f_1_5 f_0_6875;
   mkAabb f_0_25 f_0_0 f_0_25 f_0_75 f_1_5 f_0_3125;
   mkAabb f_0_25 f_0_0 f_0_6875 f_0_75 f_1_5 f_0_75;
   mkAabb f_0_3125 f_0_0 f_0_0 f_0_6875 f_1_5 f_0_25;
   mkAabb f_0_3125 f_0_0 f_0_75 f_0_6875 f_1_5 f_1_0;
   mkAabb f_0_3125 f_0_0 f_0_0 f_0_6875 f_1_5 f_1_0;
   mkAabb f_0_0 f_0_0 f_0_3125 f_0_6875 f_1_5 f_0_6875;
   mkAabb f_0_3125 f_0_0 f_0_0 f_0_6875 f_1_5 f_0_3125;
   mkAabb f_0_3125 f_0_0 f_0_6875 f_0_6875 f_1_5 f_1_0;
   mkAabb f_0_0 f_0_0 f_0_3125 f_0_6875 f_1_5 f_0_6875;
   mkAabb f_0_3125 f_0_0 f_0_0 f_0_6875 f_1_5 f_0_3125;
   mkAabb f_0_3125 f_0_0 f_0_6875 f_0_6875 f_1_5 f_1_0;
   mkAabb f_0_25 f_0_0 f_0_25 f_0_75 f_1_5 f_0_75;
   mkAabb f_0_3125 f_0_0 f_0_0 f_0_6875 f_1_5 f_0_25;
   mkAabb f_0_3125 f_0_0 f_0_75 f_0_6875 f_1_5 f_1_0;
   mkAabb f_0_0 f_0_0 f_0_3125 f_0_75 f_1_5 f_0_6875;
   mkAabb f_0_25 f_0_0 f_0_25 f_0_75 f_1_5 f_0_3125;
   mkAabb f_0_25 f_0_0 f_0_6875 f_0_75 f_1_5 f_0_75;
   mkAabb f_0_3125 f_0_0 f_0_0 f_0_6875 f_1_5 f_0_25;
   mkAabb f_0_3125 f_0_0 f_0_75 f_0_6875 f_1_5 f_1_0;
   mkAabb f_0_0 f_0_0 f_0_3125 f_0_75 f_1_5 f_0_6875;
   mkAabb f_0_25 f_0_0 f_0_25 f_0_75 f_1_5 f_0_3125;
   mkAabb f_0_25 f_0_0 f_0_6875 f_0_75 f_1_5 f_0_75;
   mkAabb f_0_3125 f_0_0 f_0_0 f_0_6875 f_1_5 f_0_25;
   mkAabb f_0_3125 f_0_0 f_0_75 f_0_6875 f_1_5 f_1_0;
   mkAabb f_0_3125 f_0_0 f_0_0 f_0_6875 f_1_5 f_1_0;
   mkAabb f_0_0 f_0_0 f_0_3125 f_0_6875 f_1_5 f_0_6875;
   mkAabb f_0_3125 f_0_0 f_0_0 f_0_6875 f_1_5 f_0_3125;
   mkAabb f_0_3125 f_0_0 f_0_6875 f_0_6875 f_1_5 f_1_0;
   mkAabb f_0_0 f_0_0 f_0_3125 f_0_6875 f_1_5 f_0_6875;
   mkAabb f_0_3125 f_0_0 f_0_0 f_0_6875 f_1_5 f_0_3125;
   mkAabb f_0_3125 f_0_0 f_0_6875 f_0_6875 f_1_5 f_1_0;
   mkAabb f_0_25 f_0_0 f_0_25 f_0_75 f_1_5 f_0_75;
   mkAabb f_0_75 f_0_0 f_0_3125 f_1_0 f_1_5 f_0_6875;
   mkAabb f_0_0 f_0_0 f_0_3125 f_1_0 f_1_5 f_0_6875;
   mkAabb f_0_25 f_0_0 f_0_25 f_0_75 f_1_5 f_0_3125;
   mkAabb f_0_25 f_0_0 f_0_6875 f_0_75 f_1_5 f_0_75].
Definition SHAPE_BOXES_88 : list Aabb :=
  [mkAabb f_0_0 f_0_0 f_0_3125 f_1_0 f_1_5 f_0_6875;
   mkAabb f_0_25 f_0_0 f_0_25 f_0_75 f_1_5 f_0_3125;
   mkAabb f_0_25 f_0_0 f_0_6875 f_0_75 f_1_5 f_0_75;
   mkAabb f_0_3125 f_0_0 f_0_3125 f_1_0 f_1_5 f_0_6875;
   mkAabb f_0_0 f_0_0 f_0_3125 f_1_0 f_1_5 f_0_6875;
   mkAabb f_0_0 f_0_0 f_0_3125 f_1_0 f_1_5 f_0_6875;
   mkAabb f_0_25 f_0_0 f_0_25 f_0_75 f_1_5 f_0_75;
   mkAabb f_0_3125 f_0_0 f_0_75 f_0_6875 f_1_5 f_1_0;
   mkAabb f_0_75 f_0_0 f_0_3125 f_1_0 f_1_5 f_0_6875;
   mkAabb f_0_0 f_0_0 f_0_3125 f_1_0 f_1_5 f_0_6875;
   mkAabb f_0_25 f_0_0 f_0_25 f_0_75 f_1_5 f_0_3125;
   mkAabb f_0_25 f_0_0 f_0_6875 f_0_75 f_1_5 f_0_75;
   mkAabb f_0_3125 f_0_0 f_0_75 f_0_6875 f_1_5 f_1_0;
   mkAabb f_0_0 f_0_0 f_0_3125 f_1_0 f_1_5 f_0_6875;
   mkAabb f_0_25 f_0_0 f_0_25 f_0_75 f_1_5 f_0_3125;
   mkAabb f_0_25 f_0_0 f_0_6875 f_0_75 f_1_5 f_0_75;
   mkAabb f_0_3125 f_0_0 f_0_75 f_0_6875 f_1_5 f_1_0;
   mkAabb f_0_3125 f_0_0 f_0_3125 f_0_6875 f_1_5 f_1_0;
   mkAabb f_0_6875 f_0_0 f_0_3125 f_1_0 f_1_5 f_0_6875;
   mkAabb f_0_0 f_0_0 f_0_3125 f_1_0 f_1_5 f_0_6875;
   mkAabb f_0_3125 f_0_0 f_0_6875 f_0_6875 f_1_5 f_1_0;
   mkAabb f_0_0 f_0_0 f_0_3125 f_1_0 f_1_5 f_0_6875;
   mkAabb f_0_3125 f_0_0 f_0_6875 f_0_6875 f_1_5 f_1_0;
   mkAabb f_0_25 f_0_0 f_0_25 f_0_75 f_1_5 f_0_75;
   mkAabb f_0_3125 f_0_0 f_0_75 f_0_6875 f_1_5 f_1_0;
   mkAabb f_0_75 f_0_0 f_0_3125 f_1_0 f_1_5 f_0_6875;
   mkAabb f_0_0 f_0_0 f_0_3125 f_1_0 f_1_5 f_0_6875;
   mkAabb f_0_25 f_0_0 f_0_25 f_0_75 f_1_5 f_0_3125;
   mkAabb f_0_25 f_0_0 f_0_6875 f_0_75 f_1_5 f_0_75;
   mkAabb f_0_3125 f_0_0 f_0_75 f_0_6875 f_1_5 f_1_0;
   mkAabb f_0_0 f_0_0 f_0_3125 f_1_0 f_1_5 f_0_6875;
   mkAabb f_0_25 f_0_0 f_0_25 f_0_75 f_1_5 f_0_3125;
   mkAabb f_0_25 f_0_0 f_0_6875 f_0_75 f_1_5 f_0_75;
   mkAabb f_0_3125 f_0_0 f_0_75 f_0_6875 f_1_5 f_1_0;
   mkAabb f_0_3125 f_0_0 f_0_3125 f_0_6875 f_1_5 f_1_0;
   mkAabb f_0_6875 f_0_0 f_0_3125 f_1_0 f_1_5 f_0_6875;
   mkAabb f_0_0 f_0_0 f_0_3125 f_1_0 f_1_5 f_0_6875;
   mkAabb f_0_3125 f_0_0 f_0_6875 f_0_6875 f_1_5 f_1_0;
   mkAabb f_0_0 f_0_0 f_0_3125 f_1_0 f_1_5 f_0_6875;
   mkAabb f_0_3125 f_0_0 f_0_6875 f_0_6875 f_1_5 f_1_0;
   mkAabb f_0_25 f_0_0 f_0_25 f_0_75 f_1_5 f_0_75;
   mkAabb f_0_3125 f_0_0 f_0_0 f_0_6875 f_1_5 f_0_25;
   mkAabb f_0_75 f_0_0 f_0_3125 f_1_0 f_1_5 f_0_6875;
   mkAabb f_0_0 f_0_0 f_0_3125 f_1_0 f_1_5 f_0_6875;
   mkAabb f_0_25 f_0_0 f_0_25 f_0_75 f_1_5 f_0_3125;
   mkAabb f_0_25 f_0_0 f_0_6875 f_0_75 f_1_5 f_0_75;
   mkAabb f_0_3125 f_0_0 f_0_0 f_0_6875 f_1_5 f_0_25;
   mkAabb f_0_0 f_0_0 f_0_3125 f_1_0 f_1_5 f_0_6875;
   mkAabb f_0_25 f_0_0 f_0_25 f_0_75 f_1_5 f_0_3125;
   mkAabb f_0_25 f_0_0 f_0_6875 f_0_75 f_1_5 f_0_75;
   mkAabb f_0_3125 f_0_0 f_0_0 f_0_6875 f_1_5 f_0_25;
   mkAabb f_0_3125 f_0_0 f_0_0 f_0_6875 f_1_5 f_0_6875;
   mkAabb f_0_6875 f_0_0 f_0_3125 f_1_0 f_1_5 f_0_6875;
   mkAabb f_0_0 f_0_0 f_0_3125 f_1_0 f_1_5 f_0_6875;
   mkAabb f_0_3125 f_0_0 f_0_0 f_0_6875 f_1_5 f_0_3125;
   mkAabb f_0_0 f_0_0 f_0_3125 f_1_0 f_1_5 f_0_6875;
   mkAabb f_0_3125 f_0_0 f_0_0 f_0_6875 f_1_5 f_0_3125;
   mkAabb f_0_25 f_0_0 f_0_25 f_0_75 f_1_5 f_0_75;
   mkAabb f_0_3125 f_0_0 f_0_0 f_0_6875 f_1_5 f_0_25;
   mkAabb f_0_3125 f_0_0 f_0_75 f_0_6875 f_1_5 f_1_0;
   mkAabb f_0_75 f_0_0 f_0_3125 f_1_0 f_1_5 f_0_6875;
   mkAabb f_0_0 f_0_0 f_0_3125 f_1_0 f_1_5 f_0_6875;
   mkAabb f_0_25 f_0_0 f_0_25 f_0_75 f_1_5 f_0_3125;
   mkAabb f_0_25 f_0_0 f_0_6875 f_0_75 f_1_5 f_0_75;
   mkAabb f_0_3125 f_0_0 f_0_0 f_0_6875 f_1_5 f_0_25;
   mkAabb f_0_3125 f_0_0 f_0_75 f_0_6875 f_1_5 f_1_0;
   mkAabb f_0_0 f_0_0 f_0_3125 f_1_0 f_1_5 f_0_6875;
   mkAabb f_0_25 f_0_0 f_0_25 f_0_75 f_1_5 f_0_3125;
   mkAabb f_0_25 f_0_0 f_0_6875 f_0_75 f_1_5 f_0_75;
   mkAabb f_0_3125 f_0_0 f_0_0 f_0_6875 f_1_5 f_0_25;
   mkAabb f_0_3125 f_0_0 f_0_75 f_0_6875 f_1_5 f_1_0;
   mkAabb f_0_3125 f_0_0 f_0_0 f_0_6875 f_1_5 f_1_0;
   mkAabb f_0_6875 f_0_0 f_0_3125 f_1_0 f_1_5 f_0_6875;
   mkAabb f_0_0 f_0_0 f_0_3125 f_1_0 f_1_5 f_0_6875;
   mkAabb f_0_3125 f_0_0 f_0_0 f_0_6875 f_1_5 f_0_3125;
   mkAabb f_0_3125 f_0_0 f_0_6875 f_0_6875 f_1_5 f_1_0;
   mkAabb f_0_0 f_0_0 f_0_3125 f_1_0 f_1_5 f_0_6875;
   mkAabb f_0_3125 f_0_0 f_0_0 f_0_6875 f_1_5 f_0_3125;
   mkAabb f_0_3125 f_0_0 f_0_6875 f_0_6875 f_1_5 f_1_0;
   mkAabb f_0_25 f_0_0 f_0_25 f_0_75 f_1_5 f_0_75;
   mkAabb f_0_3125 f_0_0 f_0_0 f_0_6875 f_1_5 f_0_25;
   mkAabb f_0_3125 f_0_0 f_0_75 f_0_6875 f_1_5 f_1_0;
   mkAabb f_0_75 f_0_0 f_0_3125 f_1_0 f_1_5 f_0_6875;
   mkAabb f_0_0 f_0_0 f_0_3125 f_1_0 f_1_5 f_0_6875;
   mkAabb f_0_25 f_0_0 f_0_25 f_0_75 f_1_5 f_0_3125;
   mkAabb f_0_25 f_0_0 f_0_6875 f_0_75 f_1_5 f_0_75;
   mkAabb f_0_3125 f_0_0 f_0_0 f_0_6875 f_1_5 f_0_25;
   mkAabb f_0_3125 f_0_0 f_0_75 f_0_6875 f_1_5 f_1_0;
   mkAabb f_0_0 f_0_0 f_0_3125 f_1_0 f_1_5 f_0_6875;
   mkAabb f_0_25 f_0_0 f_0_25 f_0_75 f_1_5 f_0_3125;
   mkAabb f_0_25 f_0_0 f_0_6875 f_0_75 f_1_5 f_0_75;
   mkAabb f_0_3125 f_0_0 f_0_0 f_0_6875 f_1_5 f_0_25;
   mkAabb f_0_3125 f_0_0 f_0_75 f_0_6875 f_1_5 f_1_0;
   mkAabb f_0_3125 f_0_0 f_0_0 f_0_6875 f_1_5 f_1_0;
   mkAabb f_0_6875 f_0_0 f_0_3125 f_1_0 f_1_5 f_0_6875;
   mkAabb f_0_0 f_0_0 f_0_3125 f_1_0 f_1_5 f_0_6875;
   mkAabb f_0_3125 f_0_0 f_0_0 f_0_6875 f_1_5 f_0_3125;
   mkAabb f_0_3125 f_0_0 f_0_6875 f_0_6875 f_1_5 f_1_0;
   mkAabb f_0_0 f_0_0 f_0_3125 f_1_0 f_1_5 f_0_6875;
   mkAabb f_0_3125 f_0_0 f_0_0 f_0_6875 f_1_5 f_0_3125;
   mkAabb f_0_3125 f_0_0 f_0_6875 f_0_6875 f_1_5 f_1_0;
   mkAabb f_0_25 f_0_0 f_0_25 f_0_75 f_1_5 f_0_75;
   mkAabb f_0_3125 f_0_0 f_0_0 f_0_6875 f_1_5 f_0_25;
   mkAabb f_0_75 f_0_0 f_0_3125 f_1_0 f_1_5 f_0_6875;
   mkAabb f_0_0 f_0_0 f_0_3125 f_1_0 f_1_5 f_0_6875;
   mkAabb f_0_25 f_0_0 f_0_25 f_0_75 f_1_5 f_0_3125;
   mkAabb f_0_25 f_0_0 f_0_6875 f_0_75 f_1_5 f_0_75;
   mkAabb f_0_3125 f_0_0 f_0_0 f_0_6875 f_1_5 f_0_25;
   mkAabb f_0_0 f_0_0 f_0_3125 f_1_0 f_1_5 f_0_6875;
   mkAabb f_0_25 f_0_0 f_0_25 f_0_75 f_1_5 f_0_3125;
   mkAabb f_0_25 f_0_0 f_0_6875 f_0_75 f_1_5 f_0_75;
   mkAabb f_0_3125 f_0_0 f_0_0 f_0_6875 f_1_5 f_0_25;
   mkAabb f_0_3125 f_0_0 f_0_0 f_0_6875 f_1_5 f_0_6875;
   mkAabb f_0_6875 f_0_0 f_0_3125 f_1_0 f_1_5 f_0_6875;
   mkAabb f_0_0 f_0_0 f_0_3125 f_1_0 f_1_5 f_0_6875;
   mkAabb f_0_3125 f_0_0 f_0_0 f_0_6875 f_1_5 f_0_3125;
   mkAabb f_0_0 f_0_0 f_0_3125 f_1_0 f_1_5 f_0_6875;
   mkAabb f_0_3125 f_0_0 f_0_0 f_0_6875 f_1_5 f_0_3125;
   mkAabb f_0_25 f_0_0 f_0_25 f_0_75 f_1_5 f_0_75;
   mkAabb f_0_3125 f_0_0 f_0_0 f_0_6875 f_1_5 f_0_25;
   mkAabb f_0_3125 f_0_0 f_0_75 f_0_6875 f_1_5 f_1_0;
   mkAabb f_0_75 f_0_0 f_0_3125 f_1_0 f_1_5 f_0_6875;
   mkAabb f_0_0 f_0_0 f_0_3125 f_1_0 f_1_5 f_0_6875;
   mkAabb f_0_25 f_0_0 f_0_25 f_0_75 f_1_5 f_0_3125;
   mkAabb f_0_25 f_0_0 f_0_6875 f_0_75 f_1_5 f_0_75;
   mkAabb f_0_3125 f_0_0 f_0_0 f_0_6875 f_1_5 f_0_25;
   mkAabb f_0_3125 f_0_0 f_0_75 f_0_6875 f_1_5 f_1_0;
   mkAabb f_0_0 f_0_0 f_0_3125 f_1_0 f_1_5 f_0_6875;
   mkAabb f_0_25 f_0_0 f_0_25 f_0_75 f_1_5 f_0_3125;
   mkAabb f_0_25 f_0_0 f_0_6875 f_0_75 f_1_5 f_0_75;
   mkAabb f_0_3125 f_0_0 f_0_0 f_0_6875 f_1_5 f_0_25;
   mkAabb f_0_3125 f_0_0 f_0_75 f_0_6875 f_1_5 f_1_0;
   mkAabb f_0_3125 f_0_0 f_0_0 f_0_6875 f_1_5 f_1_0;
   mkAabb f_0_6875 f_0_0 f_0_3125 f_1_0 f_1_5 f_0_6875;
   mkAabb f_0_0 f_0_0 f_0_3125 f_1_0 f_1_5 f_0_6875;
   mkAabb f_0_3125 f_0_0 f_0_0 f_0_6875 f_1_5 f_0_3125;
   mkAabb f_0_3125 f_0_0 f_0_6875 f_0_6875 f_1_5 f_1_0;
   mkAabb f_0_0 f_0_0 f_0_3125 f_1_0 f_1_5 f_0_6875;
   mkAabb f_0_3125 f_0_0 f_0_0 f_0_6875 f_1_5 f_0_3125;
   mkAabb f_0_3125 f_0_0 f_0_6875 f_0_6875 f_1_5 f_1_0;
   mkAabb f_0_25 f_0_0 f_0_25 f_0_75 f_1_5 f_0_75;
   mkAabb f_0_3125 f_0_0 f_0_0 f_0_6875 f_1_5 f_0_25;
   mkAabb f_0_3125 f_0_0 f_0_75 f_0_6875 f_1_5 f_1_0;
   mkAabb f_0_75 f_0_0 f_0_3125 f_1_0 f_1_5 f_0_6875;
   mkAabb f_0_0 f_0_0 f_0_3125 f_1_0 f_1_5 f_0_6875;
   mkAabb f_0_25 f_0_0 f_0_25 f_0_75 f_1_5 f_0_3125;
   mkAabb f_0_25 f_0_0 f_0_6875 f_0_75 f_1_5 f_0_75;
   mkAabb f_0_3125 f_0_0 f_0_0 f_0_6875 f_1_5 f_0_25;
   mkAabb f_0_3125 f_0_0 f_0_75 f_0_6875 f_1_5 f_1_0;
   mkAabb f_0_0 f_0_0 f_0_3125 f_1_0 f_1_5 f_0_6875].
Definition SHAPE_BOXES_89 : list Aabb :=
  [mkAabb f_0_25 f_0_0 f_0_25 f_0_75 f_1_5 f_0_3125;
   mkAabb f_0_25 f_0_0 f_0_6875 f_0_75 f_1_5 f_0_75;
   mkAabb f_0_3125 f_0_0 f_0_0 f_0_6875 f_1_5 f_0_25;
   mkAabb f_0_3125 f_0_0 f_0_75 f_0_6875 f_1_5 f_1_0;
   mkAabb f_0_3125 f_0_0 f_0_0 f_0_6875 f_1_5 f_1_0;
   mkAabb f_0_6875 f_0_0 f_0_3125 f_1_0 f_1_5 f_0_6875;
   mkAabb f_0_0 f_0_0 f_0_3125 f_1_0 f_1_5 f_0_6875;
   mkAabb f_0_3125 f_0_0 f_0_0 f_0_6875 f_1_5 f_0_3125;
   mkAabb f_0_3125 f_0_0 f_0_6875 f_0_6875 f_1_5 f_1_0;
   mkAabb f_0_0 f_0_0 f_0_3125 f_1_0 f_1_5 f_0_6875;
   mkAabb f_0_3125 f_0_0 f_0_0 f_0_6875 f_1_5 f_0_3125;
   mkAabb f_0_3125 f_0_0 f_0_6875 f_0_6875 f_1_5 f_1_0;
   mkAabb f_0_25 f_0_0 f_0_25 f_0_75 f_1_5 f_0_75;
   mkAabb f_0_75 f_0_0 f_0_3125 f_1_0 f_1_5 f_0_6875;
   mkAabb f_0_0 f_0_0 f_0_3125 f_1_0 f_1_5 f_0_6875;
   mkAabb f_0_25 f_0_0 f_0_25 f_0_75 f_1_5 f_0_3125;
   mkAabb f_0_25 f_0_0 f_0_6875 f_0_75 f_1_5 f_0_75;
   mkAabb f_0_0 f_0_0 f_0_3125 f_1_0 f_1_5 f_0_6875;
   mkAabb f_0_25 f_0_0 f_0_25 f_0_75 f_1_5 f_0_3125;
   mkAabb f_0_25 f_0_0 f_0_6875 f_0_75 f_1_5 f_0_75;
   mkAabb f_0_3125 f_0_0 f_0_3125 f_1_0 f_1_5 f_0_6875;
   mkAabb f_0_0 f_0_0 f_0_3125 f_1_0 f_1_5 f_0_6875;
   mkAabb f_0_0 f_0_0 f_0_3125 f_1_0 f_1_5 f_0_6875;
   mkAabb f_0_25 f_0_0 f_0_25 f_0_75 f_1_5 f_0_75;
   mkAabb f_0_3125 f_0_0 f_0_75 f_0_6875 f_1_5 f_1_0;
   mkAabb f_0_75 f_0_0 f_0_3125 f_1_0 f_1_5 f_0_6875;
   mkAabb f_0_0 f_0_0 f_0_3125 f_1_0 f_1_5 f_0_6875;
   mkAabb f_0_25 f_0_0 f_0_25 f_0_75 f_1_5 f_0_3125;
   mkAabb f_0_25 f_0_0 f_0_6875 f_0_75 f_1_5 f_0_75;
   mkAabb f_0_3125 f_0_0 f_0_75 f_0_6875 f_1_5 f_1_0;
   mkAabb f_0_0 f_0_0 f_0_3125 f_1_0 f_1_5 f_0_6875;
   mkAabb f_0_25 f_0_0 f_0_25 f_0_75 f_1_5 f_0_3125;
   mkAabb f_0_25 f_0_0 f_0_6875 f_0_75 f_1_5 f_0_75;
   mkAabb f_0_3125 f_0_0 f_0_75 f_0_6875 f_1_5 f_1_0;
   mkAabb f_0_3125 f_0_0 f_0_3125 f_0_6875 f_1_5 f_1_0;
   mkAabb f_0_6875 f_0_0 f_0_3125 f_1_0 f_1_5 f_0_6875;
   mkAabb f_0_0 f_0_0 f_0_3125 f_1_0 f_1_5 f_0_6875;
   mkAabb f_0_3125 f_0_0 f_0_6875 f_0_6875 f_1_5 f_1_0;
   mkAabb f_0_0 f_0_0 f_0_3125 f_1_0 f_1_5 f_0_6875;
   mkAabb f_0_3125 f_0_0 f_0_6875 f_0_6875 f_1_5 f_1_0;
   mkAabb f_0_25 f_0_0 f_0_25 f_0_75 f_1_5 f_0_75;
   mkAabb f_0_3125 f_0_0 f_0_75 f_0_6875 f_1_5 f_1_0;
   mkAabb f_0_75 f_0_0 f_0_3125 f_1_0 f_1_5 f_0_6875;
   mkAabb f_0_0 f_0_0 f_0_3125 f_1_0 f_1_5 f_0_6875;
   mkAabb f_0_25 f_0_0 f_0_25 f_0_75 f_1_5 f_0_3125;
   mkAabb f_0_25 f_0_0 f_0_6875 f_0_75 f_1_5 f_0_75;
   mkAabb f_0_3125 f_0_0 f_0_75 f_0_6875 f_1_5 f_1_0;
   mkAabb f_0_0 f_0_0 f_0_3125 f_1_0 f_1_5 f_0_6875;
   mkAabb f_0_25 f_0_0 f_0_25 f_0_75 f_1_5 f_0_3125;
   mkAabb f_0_25 f_0_0 f_0_6875 f_0_75 f_1_5 f_0_75;
   mkAabb f_0_3125 f_0_0 f_0_75 f_0_6875 f_1_5 f_1_0;
   mkAabb f_0_3125 f_0_0 f_0_3125 f_0_6875 f_1_5 f_1_0;
   mkAabb f_0_6875 f_0_0 f_0_3125 f_1_0 f_1_5 f_0_6875;
   mkAabb f_0_0 f_0_0 f_0_3125 f_1_0 f_1_5 f_0_6875;
   mkAabb f_0_3125 f_0_0 f_0_6875 f_0_6875 f_1_5 f_1_0;
   mkAabb f_0_0 f_0_0 f_0_3125 f_1_0 f_1_5 f_0_6875;
   mkAabb f_0_3125 f_0_0 f_0_6875 f_0_6875 f_1_5 f_1_0;
   mkAabb f_0_25 f_0_0 f_0_25 f_0_75 f_1_5 f_0_75;
   mkAabb f_0_3125 f_0_0 f_0_0 f_0_6875 f_1_5 f_0_25;
   mkAabb f_0_75 f_0_0 f_0_3125 f_1_0 f_1_5 f_0_6875;
   mkAabb f_0_0 f_0_0 f_0_3125 f_1_0 f_1_5 f_0_6875;
   mkAabb f_0_25 f_0_0 f_0_25 f_0_75 f_1_5 f_0_3125;
   mkAabb f_0_25 f_0_0 f_0_6875 f_0_75 f_1_5 f_0_75;
   mkAabb f_0_3125 f_0_0 f_0_0 f_0_6875 f_1_5 f_0_25;
   mkAabb f_0_0 f_0_0 f_0_3125 f_1_0 f_1_5 f_0_6875;
   mkAabb f_0_25 f_0_0 f_0_25 f_0_75 f_1_5 f_0_3125;
   mkAabb f_0_25 f_0_0 f_0_6875 f_0_75 f_1_5 f_0_75;
   mkAabb f_0_3125 f_0_0 f_0_0 f_0_6875 f_1_5 f_0_25;
   mkAabb f_0_3125 f_0_0 f_0_0 f_0_6875 f_1_5 f_0_6875;
   mkAabb f_0_6875 f_0_0 f_0_3125 f_1_0 f_1_5 f_0_6875;
   mkAabb f_0_0 f_0_0 f_0_3125 f_1_0 f_1_5 f_0_6875;
   mkAabb f_0_3125 f_0_0 f_0_0 f_0_6875 f_1_5 f_0_3125;
   mkAabb f_0_0 f_0_0 f_0_3125 f_1_0 f_1_5 f_0_6875;
   mkAabb f_0_3125 f_0_0 f_0_0 f_0_6875 f_1_5 f_0_3125;
   mkAabb f_0_25 f_0_0 f_0_25 f_0_75 f_1_5 f_0_75;
   mkAabb f_0_3125 f_0_0 f_0_0 f_0_6875 f_1_5 f_0_25;
   mkAabb f_0_3125 f_0_0 f_0_75 f_0_6875 f_1_5 f_1_0;
   mkAabb f_0_75 f_0_0 f_0_3125 f_1_0 f_1_5 f_0_6875;
   mkAabb f_0_0 f_0_0 f_0_3125 f_1_0 f_1_5 f_0_6875;
   mkAabb f_0_25 f_0_0 f_0_25 f_0_75 f_1_5 f_0_3125;
   mkAabb f_0_25 f_0_0 f_0_6875 f_0_75 f_1_5 f_0_75;
   mkAabb f_0_3125 f_0_0 f_0_0 f_0_6875 f_1_5 f_0_25;
   mkAabb f_0_3125 f_0_0 f_0_75 f_0_6875 f_1_5 f_1_0;
   mkAabb f_0_0 f_0_0 f_0_3125 f_1_0 f_1_5 f_0_6875;
   mkAabb f_0_25 f_0_0 f_0_25 f_0_75 f_1_5 f_0_3125;
   mkAabb f_0_25 f_0_0 f_0_6875 f_0_75 f_1_5 f_0_75;
   mkAabb f_0_3125 f_0_0 f_0_0 f_0_6875 f_1_5 f_0_25;
   mkAabb f_0_3125 f_0_0 f_0_75 f_0_6875 f_1_5 f_1_0;
   mkAabb f_0_3125 f_0_0 f_0_0 f_0_6875 f_1_5 f_1_0;
   mkAabb f_0_6875 f_0_0 f_0_3125 f_1_0 f_1_5 f_0_6875;
   mkAabb f_0_0 f_0_0 f_0_3125 f_1_0 f_1_5 f_0_6875;
   mkAabb f_0_3125 f_0_0 f_0_0 f_0_6875 f_1_5 f_0_3125;
   mkAabb f_0_3125 f_0_0 f_0_6875 f_0_6875 f_1_5 f_1_0;
   mkAabb f_0_0 f_0_0 f_0_3125 f_1_0 f_1_5 f_0_6875;
   mkAabb f_0_3125 f_0_0 f_0_0 f_0_6875 f_1_5 f_0_3125;
   mkAabb f_0_3125 f_0_0 f_0_6875 f_0_6875 f_1_5 f_1_0;
   mkAabb f_0_25 f_0_0 f_0_25 f_0_75 f_1_5 f_0_75;
   mkAabb f_0_3125 f_0_0 f_0_0 f_0_6875 f_1_5 f_0_25;
   mkAabb f_0_3125 f_0_0 f_0_75 f_0_6875 f_1_5 f_1_0;
   mkAabb f_0_75 f_0_0 f_0_3125 f_1_0 f_1_5 f_0_6875;
   mkAabb f_0_0 f_0_0 f_0_3125 f_1_0 f_1_5 f_0_6875;
   mkAabb f_0_25 f_0_0 f_0_25 f_0_75 f_1_5 f_0_3125;
   mkAabb f_0_25 f_0_0 f_0_6875 f_0_75 f_1_5 f_0_75;
   mkAabb f_0_3125 f_0_0 f_0_0 f_0_6875 f_1_5 f_0_25;
   mkAabb f_0_3125 f_0_0 f_0_75 f_0_6875 f_1_5 f_1_0;
   mkAabb f_0_0 f_0_0 f_0_3125 f_1_0 f_1_5 f_0_6875;
   mkAabb f_0_25 f_0_0 f_0_25 f_0_75 f_1_5 f_0_3125;
   mkAabb f_0_25 f_0_0 f_0_6875 f_0_75 f_1_5 f_0_75;
   mkAabb f_0_3125 f_0_0 f_0_0 f_0_6875 f_1_5 f_0_25;
   mkAabb f_0_3125 f_0_0 f_0_75 f_0_6875 f_1_5 f_1_0;
   mkAabb f_0_3125 f_0_0 f_0_0 f_0_6875 f_1_5 f_1_0;
   mkAabb f_0_6875 f_0_0 f_0_3125 f_1_0 f_1_5 f_0_6875;
   mkAabb f_0_0 f_0_0 f_0_3125 f_1_0 f_1_5 f_0_6875;
   mkAabb f_0_3125 f_0_0 f_0_0 f_0_6875 f_1_5 f_0_3125;
   mkAabb f_0_3125 f_0_0 f_0_6875 f_0_6875 f_1_5 f_1_0;
   mkAabb f_0_0 f_0_0 f_0_3125 f_1_0 f_1_5 f_0_6875;
   mkAabb f_0_3125 f_0_0 f_0_0 f_0_6875 f_1_5 f_0_3125;
   mkAabb f_0_3125 f_0_0 f_0_6875 f_0_6875 f_1_5 f_1_0;
   mkAabb f_0_25 f_0_0 f_0_25 f_0_75 f_1_5 f_0_75;
   mkAabb f_0_3125 f_0_0 f_0_0 f_0_6875 f_1_5 f_0_25;
   mkAabb f_0_75 f_0_0 f_0_3125 f_1_0 f_1_5 f_0_6875;
   mkAabb f_0_0 f_0_0 f_0_3125 f_1_0 f_1_5 f_0_6875;
   mkAabb f_0_25 f_0_0 f_0_25 f_0_75 f_1_5 f_0_3125;
   mkAabb f_0_25 f_0_0 f_0_6875 f_0_75 f_1_5 f_0_75;
   mkAabb f_0_3125 f_0_0 f_0_0 f_0_6875 f_1_5 f_0_25;
   mkAabb f_0_0 f_0_0 f_0_3125 f_1_0 f_1_5 f_0_6875;
   mkAabb f_0_25 f_0_0 f_0_25 f_0_75 f_1_5 f_0_3125;
   mkAabb f_0_25 f_0_0 f_0_6875 f_0_75 f_1_5 f_0_75;
   mkAabb f_0_3125 f_0_0 f_0_0 f_0_6875 f_1_5 f_0_25;
   mkAabb f_0_3125 f_0_0 f_0_0 f_0_6875 f_1_5 f_0_6875;
   mkAabb f_0_6875 f_0_0 f_0_3125 f_1_0 f_1_5 f_0_6875;
   mkAabb f_0_0 f_0_0 f_0_3125 f_1_0 f_1_5 f_0_6875;
   mkAabb f_0_3125 f_0_0 f_0_0 f_0_6875 f_1_5 f_0_3125;
   mkAabb f_0_0 f_0_0 f_0_3125 f_1_0 f_1_5 f_0_6875;
   mkAabb f_0_3125 f_0_0 f_0_0 f_0_6875 f_1_5 f_0_3125;
   mkAabb f_0_25 f_0_0 f_0_25 f_0_75 f_1_5 f_0_75;
   mkAabb f_0_3125 f_0_0 f_0_0 f_0_6875 f_1_5 f_0_25;
   mkAabb f_0_3125 f_0_0 f_0_75 f_0_6875 f_1_5 f_1_0;
   mkAabb f_0_75 f_0_0 f_0_3125 f_1_0 f_1_5 f_0_6875;
   mkAabb f_0_0 f_0_0 f_0_3125 f_1_0 f_1_5 f_0_6875;
   mkAabb f_0_25 f_0_0 f_0_25 f_0_75 f_1_5 f_0_3125;
   mkAabb f_0_25 f_0_0 f_0_6875 f_0_75 f_1_5 f_0_75;
   mkAabb f_0_3125 f_0_0 f_0_0 f_0_6875 f_1_5 f_0_25;
   mkAabb f_0_3125 f_0_0 f_0_75 f_0_6875 f_1_5 f_1_0;
   mkAabb f_0_0 f_0_0 f_0_3125 f_1_0 f_1_5 f_0_6875;
   mkAabb f_0_25 f_0_0 f_0_25 f_0_75 f_1_5 f_0_3125;
   mkAabb f_0_25 f_0_0 f_0_6875 f_0_75 f_1_5 f_0_75;
   mkAabb f_0_3125 f_0_0 f_0_0 f_0_6875 f_1_5 f_0_25;
   mkAabb f_0_3125 f_0_0 f_0_75 f_0_6875 f_1_5 f_1_0;
   mkAabb f_0_3125 f_0_0 f_0_0 f_0_6875 f_1_5 f_1_0].
Definition SHAPE_BOXES_90 : list Aabb :=
  [mkAabb f_0_6875 f_0_0 f_0_3125 f_1_0 f_1_5 f_0_6875;
   mkAabb f_0_0 f_0_0 f_0_3125 f_1_0 f_1_5 f_0_6875;
   mkAabb f_0_3125 f_0_0 f_0_0 f_0_6875 f_1_5 f_0_3125;
   mkAabb f_0_3125 f_0_0 f_0_6875 f_0_6875 f_1_5 f_1_0;
   mkAabb f_0_0 f_0_0 f_0_3125 f_1_0 f_1_5 f_0_6875;
   mkAabb f_0_3125 f_0_0 f_0_0 f_0_6875 f_1_5 f_0_3125;
   mkAabb f_0_3125 f_0_0 f_0_6875 f_0_6875 f_1_5 f_1_0;
   mkAabb f_0_25 f_0_0 f_0_25 f_0_75 f_1_5 f_0_75;
   mkAabb f_0_3125 f_0_0 f_0_0 f_0_6875 f_1_5 f_0_25;
   mkAabb f_0_3125 f_0_0 f_0_75 f_0_6875 f_1_5 f_1_0;
   mkAabb f_0_75 f_0_0 f_0_3125 f_1_0 f_1_5 f_0_6875;
   mkAabb f_0_0 f_0_0 f_0_3125 f_1_0 f_1_5 f_0_6875;
   mkAabb f_0_25 f_0_0 f_0_25 f_0_75 f_1_5 f_0_3125;
   mkAabb f_0_25 f_0_0 f_0_6875 f_0_75 f_1_5 f_0_75;
   mkAabb f_0_3125 f_0_0 f_0_0 f_0_6875 f_1_5 f_0_25;
   mkAabb f_0_3125 f_0_0 f_0_75 f_0_6875 f_1_5 f_1_0;
   mkAabb f_0_0 f_0_0 f_0_3125 f_1_0 f_1_5 f_0_6875;
   mkAabb f_0_25 f_0_0 f_0_25 f_0_75 f_1_5 f_0_3125;
   mkAabb f_0_25 f_0_0 f_0_6875 f_0_75 f_1_5 f_0_75;
   mkAabb f_0_3125 f_0_0 f_0_0 f_0_6875 f_1_5 f_0_25;
   mkAabb f_0_3125 f_0_0 f_0_75 f_0_6875 f_1_5 f_1_0;
   mkAabb f_0_3125 f_0_0 f_0_0 f_0_6875 f_1_5 f_1_0;
   mkAabb f_0_6875 f_0_0 f_0_3125 f_1_0 f_1_5 f_0_6875;
   mkAabb f_0_0 f_0_0 f_0_3125 f_1_0 f_1_5 f_0_6875;
   mkAabb f_0_3125 f_0_0 f_0_0 f_0_6875 f_1_5 f_0_3125;
   mkAabb f_0_3125 f_0_0 f_0_6875 f_0_6875 f_1_5 f_1_0;
   mkAabb f_0_0 f_0_0 f_0_3125 f_1_0 f_1_5 f_0_6875;
   mkAabb f_0_3125 f_0_0 f_0_0 f_0_6875 f_1_5 f_0_3125;
   mkAabb f_0_3125 f_0_0 f_0_6875 f_0_6875 f_1_5 f_1_0;
   mkAabb f_0_25 f_0_0 f_0_25 f_0_75 f_1_5 f_0_75;
   mkAabb f_0_0 f_0_0 f_0_3125 f_0_75 f_1_5 f_0_6875;
   mkAabb f_0_25 f_0_0 f_0_25 f_0_75 f_1_5 f_0_3125;
   mkAabb f_0_25 f_0_0 f_0_6875 f_0_75 f_1_5 f_0_75;
   mkAabb f_0_0 f_0_0 f_0_3125 f_0_75 f_1_5 f_0_6875;
   mkAabb f_0_25 f_0_0 f_0_25 f_0_75 f_1_5 f_0_3125;
   mkAabb f_0_25 f_0_0 f_0_6875 f_0_75 f_1_5 f_0_75;
   mkAabb f_0_0 f_0_0 f_0_3125 f_0_6875 f_1_5 f_0_6875;
   mkAabb f_0_0 f_0_0 f_0_3125 f_0_6875 f_1_5 f_0_6875;
   mkAabb f_0_25 f_0_0 f_0_25 f_0_75 f_1_5 f_0_75;
   mkAabb f_0_3125 f_0_0 f_0_75 f_0_6875 f_1_5 f_1_0;
   mkAabb f_0_0 f_0_0 f_0_3125 f_0_75 f_1_5 f_0_6875;
   mkAabb f_0_25 f_0_0 f_0_25 f_0_75 f_1_5 f_0_3125;
   mkAabb f_0_25 f_0_0 f_0_6875 f_0_75 f_1_5 f_0_75;
   mkAabb f_0_3125 f_0_0 f_0_75 f_0_6875 f_1_5 f_1_0;
   mkAabb f_0_0 f_0_0 f_0_3125 f_0_75 f_1_5 f_0_6875;
   mkAabb f_0_25 f_0_0 f_0_25 f_0_75 f_1_5 f_0_3125;
   mkAabb f_0_25 f_0_0 f_0_6875 f_0_75 f_1_5 f_0_75;
   mkAabb f_0_3125 f_0_0 f_0_75 f_0_6875 f_1_5 f_1_0;
   mkAabb f_0_3125 f_0_0 f_0_3125 f_0_6875 f_1_5 f_1_0;
   mkAabb f_0_0 f_0_0 f_0_3125 f_0_6875 f_1_5 f_0_6875;
   mkAabb f_0_3125 f_0_0 f_0_6875 f_0_6875 f_1_5 f_1_0;
   mkAabb f_0_0 f_0_0 f_0_3125 f_0_6875 f_1_5 f_0_6875;
   mkAabb f_0_3125 f_0_0 f_0_6875 f_0_6875 f_1_5 f_1_0;
   mkAabb f_0_25 f_0_0 f_0_25 f_0_75 f_1_5 f_0_75;
   mkAabb f_0_3125 f_0_0 f_0_75 f_0_6875 f_1_5 f_1_0;
   mkAabb f_0_0 f_0_0 f_0_3125 f_0_75 f_1_5 f_0_6875;
   mkAabb f_0_25 f_0_0 f_0_25 f_0_75 f_1_5 f_0_3125;
   mkAabb f_0_25 f_0_0 f_0_6875 f_0_75 f_1_5 f_0_75;
   mkAabb f_0_3125 f_0_0 f_0_75 f_0_6875 f_1_5 f_1_0;
   mkAabb f_0_0 f_0_0 f_0_3125 f_0_75 f_1_5 f_0_6875;
   mkAabb f_0_25 f_0_0 f_0_25 f_0_75 f_1_5 f_0_3125;
   mkAabb f_0_25 f_0_0 f_0_6875 f_0_75 f_1_5 f_0_75;
   mkAabb f_0_3125 f_0_0 f_0_75 f_0_6875 f_1_5 f_1_0;
   mkAabb f_0_3125 f_0_0 f_0_3125 f_0_6875 f_1_5 f_1_0;
   mkAabb f_0_0 f_0_0 f_0_3125 f_0_6875 f_1_5 f_0_6875;
   mkAabb f_0_3125 f_0_0 f_0_6875 f_0_6875 f_1_5 f_1_0;
   mkAabb f_0_0 f_0_0 f_0_3125 f_0_6875 f_1_5 f_0_6875;
   mkAabb f_0_3125 f_0_0 f_0_6875 f_0_6875 f_1_5 f_1_0;
   mkAabb f_0_25 f_0_0 f_0_25 f_0_75 f_1_5 f_0_75;
   mkAabb f_0_3125 f_0_0 f_0_0 f_0_6875 f_1_5 f_0_25;
   mkAabb f_0_0 f_0_0 f_0_3125 f_0_75 f_1_5 f_0_6875;
   mkAabb f_0_25 f_0_0 f_0_25 f_0_75 f_1_5 f_0_3125;
   mkAabb f_0_25 f_0_0 f_0_6875 f_0_75 f_1_5 f_0_75;
   mkAabb f_0_3125 f_0_0 f_0_0 f_0_6875 f_1_5 f_0_25;
   mkAabb f_0_0 f_0_0 f_0_3125 f_0_75 f_1_5 f_0_6875;
   mkAabb f_0_25 f_0_0 f_0_25 f_0_75 f_1_5 f_0_3125;
   mkAabb f_0_25 f_0_0 f_0_6875 f_0_75 f_1_5 f_0_75;
   mkAabb f_0_3125 f_0_0 f_0_0 f_0_6875 f_1_5 f_0_25;
   mkAabb f_0_3125 f_0_0 f_0_0 f_0_6875 f_1_5 f_0_6875;
   mkAabb f_0_0 f_0_0 f_0_3125 f_0_6875 f_1_5 f_0_6875;
   mkAabb f_0_3125 f_0_0 f_0_0 f_0_6875 f_1_5 f_0_3125;
   mkAabb f_0_0 f_0_0 f_0_3125 f_0_6875 f_1_5 f_0_6875;
   mkAabb f_0_3125 f_0_0 f_0_0 f_0_6875 f_1_5 f_0_3125;
   mkAabb f_0_25 f_0_0 f_0_25 f_0_75 f_1_5 f_0_75;
   mkAabb f_0_3125 f_0_0 f_0_0 f_0_6875 f_1_5 f_0_25;
   mkAabb f_0_3125 f_0_0 f_0_75 f_0_6875 f_1_5 f_1_0;
   mkAabb f_0_0 f_0_0 f_0_3125 f_0_75 f_1_5 f_0_6875;
   mkAabb f_0_25 f_0_0 f_0_25 f_0_75 f_1_5 f_0_3125;
   mkAabb f_0_25 f_0_0 f_0_6875 f_0_75 f_1_5 f_0_75;
   mkAabb f_0_3125 f_0_0 f_0_0 f_0_6875 f_1_5 f_0_25;
   mkAabb f_0_3125 f_0_0 f_0_75 f_0_6875 f_1_5 f_1_0;
   mkAabb f_0_0 f_0_0 f_0_3125 f_0_75 f_1_5 f_0_6875;
   mkAabb f_0_25 f_0_0 f_0_25 f_0_75 f_1_5 f_0_3125;
   mkAabb f_0_25 f_0_0 f_0_6875 f_0_75 f_1_5 f_0_75;
   mkAabb f_0_3125 f_0_0 f_0_0 f_0_6875 f_1_5 f_0_25;
   mkAabb f_0_3125 f_0_0 f_0_75 f_0_6875 f_1_5 f_1_0;
   mkAabb f_0_3125 f_0_0 f_0_0 f_0_6875 f_1_5 f_1_0;
   mkAabb f_0_0 f_0_0 f_0_3125 f_0_6875 f_1_5 f_0_6875;
   mkAabb f_0_3125 f_0_0 f_0_0 f_0_6875 f_1_5 f_0_3125;
   mkAabb f_0_3125 f_0_0 f_0_6875 f_0_6875 f_1_5 f_1_0;
   mkAabb f_0_0 f_0_0 f_0_3125 f_0_6875 f_1_5 f_0_6875;
   mkAabb f_0_3125 f_0_0 f_0_0 f_0_6875 f_1_5 f_0_3125;
   mkAabb f_0_3125 f_0_0 f_0_6875 f_0_6875 f_1_5 f_1_0;
   mkAabb f_0_25 f_0_0 f_0_25 f_0_75 f_1_5 f_0_75;
   mkAabb f_0_3125 f_0_0 f_0_0 f_0_6875 f_1_5 f_0_25;
   mkAabb f_0_3125 f_0_0 f_0_75 f_0_6875 f_1_5 f_1_0;
   mkAabb f_0_0 f_0_0 f_0_3125 f_0_75 f_1_5 f_0_6875;
   mkAabb f_0_25 f_0_0 f_0_25 f_0_75 f_1_5 f_0_3125;
   mkAabb f_0_25 f_0_0 f_0_6875 f_0_75 f_1_5 f_0_75;
   mkAabb f_0_3125 f_0_0 f_0_0 f_0_6875 f_1_5 f_0_25;
   mkAabb f_0_3125 f_0_0 f_0_75 f_0_6875 f_1_5 f_1_0;
   mkAabb f_0_0 f_0_0 f_0_3125 f_0_75 f_1_5 f_0_6875;
   mkAabb f_0_25 f_0_0 f_0_25 f_0_75 f_1_5 f_0_3125;
   mkAabb f_0_25 f_0_0 f_0_6875 f_0_75 f_1_5 f_0_75;
   mkAabb f_0_3125 f_0_0 f_0_0 f_0_6875 f_1_5 f_0_25;
   mkAabb f_0_3125 f_0_0 f_0_75 f_0_6875 f_1_5 f_1_0;
   mkAabb f_0_3125 f_0_0 f_0_0 f_0_6875 f_1_5 f_1_0;
   mkAabb f_0_0 f_0_0 f_0_3125 f_0_6875 f_1_5 f_0_6875;
   mkAabb f_0_3125 f_0_0 f_0_0 f_0_6875 f_1_5 f_0_3125;
   mkAabb f_0_3125 f_0_0 f_0_6875 f_0_6875 f_1_5 f_1_0;
   mkAabb f_0_0 f_0_0 f_0_3125 f_0_6875 f_1_5 f_0_6875;
   mkAabb f_0_3125 f_0_0 f_0_0 f_0_6875 f_1_5 f_0_3125;
   mkAabb f_0_3125 f_0_0 f_0_6875 f_0_6875 f_1_5 f_1_0;
   mkAabb f_0_25 f_0_0 f_0_25 f_0_75 f_1_5 f_0_75;
   mkAabb f_0_3125 f_0_0 f_0_0 f_0_6875 f_1_5 f_0_25;
   mkAabb f_0_0 f_0_0 f_0_3125 f_0_75 f_1_5 f_0_6875;
   mkAabb f_0_25 f_0_0 f_0_25 f_0_75 f_1_5 f_0_3125;
   mkAabb f_0_25 f_0_0 f_0_6875 f_0_75 f_1_5 f_0_75;
   mkAabb f_0_3125 f_0_0 f_0_0 f_0_6875 f_1_5 f_0_25;
   mkAabb f_0_0 f_0_0 f_0_3125 f_0_75 f_1_5 f_0_6875;
   mkAabb f_0_25 f_0_0 f_0_25 f_0_75 f_1_5 f_0_3125;
   mkAabb f_0_25 f_0_0 f_0_6875 f_0_75 f_1_5 f_0_75;
   mkAabb f_0_3125 f_0_0 f_0_0 f_0_6875 f_1_5 f_0_25;
   mkAabb f_0_3125 f_0_0 f_0_0 f_0_6875 f_1_5 f_0_6875;
   mkAabb f_0_0 f_0_0 f_0_3125 f_0_6875 f_1_5 f_0_6875;
   mkAabb f_0_3125 f_0_0 f_0_0 f_0_6875 f_1_5 f_0_3125;
   mkAabb f_0_0 f_0_0 f_0_3125 f_0_6875 f_1_5 f_0_6875;
   mkAabb f_0_3125 f_0_0 f_0_0 f_0_6875 f_1_5 f_0_3125;
   mkAabb f_0_25 f_0_0 f_0_25 f_0_75 f_1_5 f_0_75;
   mkAabb f_0_3125 f_0_0 f_0_0 f_0_6875 f_1_5 f_0_25;
   mkAabb f_0_3125 f_0_0 f_0_75 f_0_6875 f_1_5 f_1_0;
   mkAabb f_0_0 f_0_0 f_0_3125 f_0_75 f_1_5 f_0_6875;
   mkAabb f_0_25 f_0_0 f_0_25 f_0_75 f_1_5 f_0_3125;
   mkAabb f_0_25 f_0_0 f_0_6875 f_0_75 f_1_5 f_0_75;
   mkAabb f_0_3125 f_0_0 f_0_0 f_0_6875 f_1_5 f_0_25;
   mkAabb f_0_3125 f_0_0 f_0_75 f_0_6875 f_1_5 f_1_0;
   mkAabb f_0_0 f_0_0 f_0_3125 f_0_75 f_1_5 f_0_6875;
   mkAabb f_0_25 f_0_0 f_0_25 f_0_75 f_1_5 f_0_3125;
   mkAabb f_0_25 f_0_0 f_0_6875 f_0_75 f_1_5 f_0_75;
   mkAabb f_0_3125 f_0_0 f_0_0 f_0_6875 f_1_5 f_0_25].
Definition SHAPE_BOXES_91 : list Aabb :=
  [mkAabb f_0_3125 f_0_0 f_0_75 f_0_6875 f_1_5 f_1_0;
   mkAabb f_0_3125 f_0_0 f_0_0 f_0_6875 f_1_5 f_1_0;
   mkAabb f_0_0 f_0_0 f_0_3125 f_0_6875 f_1_5 f_0_6875;
   mkAabb f_0_3125 f_0_0 f_0_0 f_0_6875 f_1_5 f_0_3125;
   mkAabb f_0_3125 f_0_0 f_0_6875 f_0_6875 f_1_5 f_1_0;
   mkAabb f_0_0 f_0_0 f_0_3125 f_0_6875 f_1_5 f_0_6875;
   mkAabb f_0_3125 f_0_0 f_0_0 f_0_6875 f_1_5 f_0_3125;
   mkAabb f_0_3125 f_0_0 f_0_6875 f_0_6875 f_1_5 f_1_0;
   mkAabb f_0_25 f_0_0 f_0_25 f_0_75 f_1_5 f_0_75;
   mkAabb f_0_3125 f_0_0 f_0_0 f_0_6875 f_1_5 f_0_25;
   mkAabb f_0_3125 f_0_0 f_0_75 f_0_6875 f_1_5 f_1_0;
   mkAabb f_0_0 f_0_0 f_0_3125 f_0_75 f_1_5 f_0_6875;
   mkAabb f_0_25 f_0_0 f_0_25 f_0_75 f_1_5 f_0_3125;
   mkAabb f_0_25 f_0_0 f_0_6875 f_0_75 f_1_5 f_0_75;
   mkAabb f_0_3125 f_0_0 f_0_0 f_0_6875 f_1_5 f_0_25;
   mkAabb f_0_3125 f_0_0 f_0_75 f_0_6875 f_1_5 f_1_0;
   mkAabb f_0_0 f_0_0 f_0_3125 f_0_75 f_1_5 f_0_6875;
   mkAabb f_0_25 f_0_0 f_0_25 f_0_75 f_1_5 f_0_3125;
   mkAabb f_0_25 f_0_0 f_0_6875 f_0_75 f_1_5 f_0_75;
   mkAabb f_0_3125 f_0_0 f_0_0 f_0_6875 f_1_5 f_0_25;
   mkAabb f_0_3125 f_0_0 f_0_75 f_0_6875 f_1_5 f_1_0;
   mkAabb f_0_3125 f_0_0 f_0_0 f_0_6875 f_1_5 f_1_0;
   mkAabb f_0_0 f_0_0 f_0_3125 f_0_6875 f_1_5 f_0_6875;
   mkAabb f_0_3125 f_0_0 f_0_0 f_0_6875 f_1_5 f_0_3125;
   mkAabb f_0_3125 f_0_0 f_0_6875 f_0_6875 f_1_5 f_1_0;
   mkAabb f_0_0 f_0_0 f_0_3125 f_0_6875 f_1_5 f_0_6875;
   mkAabb f_0_3125 f_0_0 f_0_0 f_0_6875 f_1_5 f_0_3125;
   mkAabb f_0_3125 f_0_0 f_0_6875 f_0_6875 f_1_5 f_1_0;
   mkAabb f_0_25 f_0_0 f_0_25 f_0_75 f_1_5 f_0_75;
   mkAabb f_0_75 f_0_0 f_0_3125 f_1_0 f_1_5 f_0_6875;
   mkAabb f_0_0 f_0_0 f_0_3125 f_1_0 f_1_5 f_0_6875;
   mkAabb f_0_25 f_0_0 f_0_25 f_0_75 f_1_5 f_0_3125;
   mkAabb f_0_25 f_0_0 f_0_6875 f_0_75 f_1_5 f_0_75;
   mkAabb f_0_0 f_0_0 f_0_3125 f_1_0 f_1_5 f_0_6875;
   mkAabb f_0_25 f_0_0 f_0_25 f_0_75 f_1_5 f_0_3125;
   mkAabb f_0_25 f_0_0 f_0_6875 f_0_75 f_1_5 f_0_75;
   mkAabb f_0_3125 f_0_0 f_0_3125 f_1_0 f_1_5 f_0_6875;
   mkAabb f_0_0 f_0_0 f_0_3125 f_1_0 f_1_5 f_0_6875;
   mkAabb f_0_0 f_0_0 f_0_3125 f_1_0 f_1_5 f_0_6875;
   mkAabb f_0_25 f_0_0 f_0_25 f_0_75 f_1_5 f_0_75;
   mkAabb f_0_3125 f_0_0 f_0_75 f_0_6875 f_1_5 f_1_0;
   mkAabb f_0_75 f_0_0 f_0_3125 f_1_0 f_1_5 f_0_6875;
   mkAabb f_0_0 f_0_0 f_0_3125 f_1_0 f_1_5 f_0_6875;
   mkAabb f_0_25 f_0_0 f_0_25 f_0_75 f_1_5 f_0_3125;
   mkAabb f_0_25 f_0_0 f_0_6875 f_0_75 f_1_5 f_0_75;
   mkAabb f_0_3125 f_0_0 f_0_75 f_0_6875 f_1_5 f_1_0;
   mkAabb f_0_0 f_0_0 f_0_3125 f_1_0 f_1_5 f_0_6875;
   mkAabb f_0_25 f_0_0 f_0_25 f_0_75 f_1_5 f_0_3125;
   mkAabb f_0_25 f_0_0 f_0_6875 f_0_75 f_1_5 f_0_75;
   mkAabb f_0_3125 f_0_0 f_0_75 f_0_6875 f_1_5 f_1_0;
   mkAabb f_0_3125 f_0_0 f_0_3125 f_0_6875 f_1_5 f_1_0;
   mkAabb f_0_6875 f_0_0 f_0_3125 f_1_0 f_1_5 f_0_6875;
   mkAabb f_0_0 f_0_0 f_0_3125 f_1_0 f_1_5 f_0_6875;
   mkAabb f_0_3125 f_0_0 f_0_6875 f_0_6875 f_1_5 f_1_0;
   mkAabb f_0_0 f_0_0 f_0_3125 f_1_0 f_1_5 f_0_6875;
   mkAabb f_0_3125 f_0_0 f_0_6875 f_0_6875 f_1_5 f_1_0;
   mkAabb f_0_25 f_0_0 f_0_25 f_0_75 f_1_5 f_0_75;
   mkAabb f_0_3125 f_0_0 f_0_75 f_0_6875 f_1_5 f_1_0;
   mkAabb f_0_75 f_0_0 f_0_3125 f_1_0 f_1_5 f_0_6875;
   mkAabb f_0_0 f_0_0 f_0_3125 f_1_0 f_1_5 f_0_6875;
   mkAabb f_0_25 f_0_0 f_0_25 f_0_75 f_1_5 f_0_3125;
   mkAabb f_0_25 f_0_0 f_0_6875 f_0_75 f_1_5 f_0_75;
   mkAabb f_0_3125 f_0_0 f_0_75 f_0_6875 f_1_5 f_1_0;
   mkAabb f_0_0 f_0_0 f_0_3125 f_1_0 f_1_5 f_0_6875;
   mkAabb f_0_25 f_0_0 f_0_25 f_0_75 f_1_5 f_0_3125;
   mkAabb f_0_25 f_0_0 f_0_6875 f_0_75 f_1_5 f_0_75;
   mkAabb f_0_3125 f_0_0 f_0_75 f_0_6875 f_1_5 f_1_0;
   mkAabb f_0_3125 f_0_0 f_0_3125 f_0_6875 f_1_5 f_1_0;
   mkAabb f_0_6875 f_0_0 f_0_3125 f_1_0 f_1_5 f_0_6875;
   mkAabb f_0_0 f_0_0 f_0_3125 f_1_0 f_1_5 f_0_6875;
   mkAabb f_0_3125 f_0_0 f_0_6875 f_0_6875 f_1_5 f_1_0;
   mkAabb f_0_0 f_0_0 f_0_3125 f_1_0 f_1_5 f_0_6875;
   mkAabb f_0_3125 f_0_0 f_0_6875 f_0_6875 f_1_5 f_1_0;
   mkAabb f_0_25 f_0_0 f_0_25 f_0_75 f_1_5 f_0_75;
   mkAabb f_0_3125 f_0_0 f_0_0 f_0_6875 f_1_5 f_0_25;
   mkAabb f_0_75 f_0_0 f_0_3125 f_1_0 f_1_5 f_0_6875;
   mkAabb f_0_0 f_0_0 f_0_3125 f_1_0 f_1_5 f_0_6875;
   mkAabb f_0_25 f_0_0 f_0_25 f_0_75 f_1_5 f_0_3125;
   mkAabb f_0_25 f_0_0 f_0_6875 f_0_75 f_1_5 f_0_75;
   mkAabb f_0_3125 f_0_0 f_0_0 f_0_6875 f_1_5 f_0_25;
   mkAabb f_0_0 f_0_0 f_0_3125 f_1_0 f_1_5 f_0_6875;
   mkAabb f_0_25 f_0_0 f_0_25 f_0_75 f_1_5 f_0_3125;
   mkAabb f_0_25 f_0_0 f_0_6875 f_0_75 f_1_5 f_0_75;
   mkAabb f_0_3125 f_0_0 f_0_0 f_0_6875 f_1_5 f_0_25;
   mkAabb f_0_3125 f_0_0 f_0_0 f_0_6875 f_1_5 f_0_6875;
   mkAabb f_0_6875 f_0_0 f_0_3125 f_1_0 f_1_5 f_0_6875;
   mkAabb f_0_0 f_0_0 f_0_3125 f_1_0 f_1_5 f_0_6875;
   mkAabb f_0_3125 f_0_0 f_0_0 f_0_6875 f_1_5 f_0_3125;
   mkAabb f_0_0 f_0_0 f_0_3125 f_1_0 f_1_5 f_0_6875;
   mkAabb f_0_3125 f_0_0 f_0_0 f_0_6875 f_1_5 f_0_3125;
   mkAabb f_0_25 f_0_0 f_0_25 f_0_75 f_1_5 f_0_75;
   mkAabb f_0_3125 f_0_0 f_0_0 f_0_6875 f_1_5 f_0_25;
   mkAabb f_0_3125 f_0_0 f_0_75 f_0_6875 f_1_5 f_1_0;
   mkAabb f_0_75 f_0_0 f_0_3125 f_1_0 f_1_5 f_0_6875;
   mkAabb f_0_0 f_0_0 f_0_3125 f_1_0 f_1_5 f_0_6875;
   mkAabb f_0_25 f_0_0 f_0_25 f_0_75 f_1_5 f_0_3125;
   mkAabb f_0_25 f_0_0 f_0_6875 f_0_75 f_1_5 f_0_75;
   mkAabb f_0_3125 f_0_0 f_0_0 f_0_6875 f_1_5 f_0_25;
   mkAabb f_0_3125 f_0_0 f_0_75 f_0_6875 f_1_5 f_1_0;
   mkAabb f_0_0 f_0_0 f_0_3125 f_1_0 f_1_5 f_0_6875;
   mkAabb f_0_25 f_0_0 f_0_25 f_0_75 f_1_5 f_0_3125;
   mkAabb f_0_25 f_0_0 f_0_6875 f_0_75 f_1_5 f_0_75;
   mkAabb f_0_3125 f_0_0 f_0_0 f_0_6875 f_1_5 f_0_25;
   mkAabb f_0_3125 f_0_0 f_0_75 f_0_6875 f_1_5 f_1_0;
   mkAabb f_0_3125 f_0_0 f_0_0 f_0_6875 f_1_5 f_1_0;
   mkAabb f_0_6875 f_0_0 f_0_3125 f_1_0 f_1_5 f_0_6875;
   mkAabb f_0_0 f_0_0 f_0_3125 f_1_0 f_1_5 f_0_6875;
   mkAabb f_0_3125 f_0_0 f_0_0 f_0_6875 f_1_5 f_0_3125;
   mkAabb f_0_3125 f_0_0 f_0_6875 f_0_6875 f_1_5 f_1_0;
   mkAabb f_0_0 f_0_0 f_0_3125 f_1_0 f_1_5 f_0_6875;
   mkAabb f_0_3125 f_0_0 f_0_0 f_0_6875 f_1_5 f_0_3125;
   mkAabb f_0_3125 f_0_0 f_0_6875 f_0_6875 f_1_5 f_1_0;
   mkAabb f_0_25 f_0_0 f_0_25 f_0_75 f_1_5 f_0_75;
   mkAabb f_0_3125 f_0_0 f_0_0 f_0_6875 f_1_5 f_0_25;
   mkAabb f_0_3125 f_0_0 f_0_75 f_0_6875 f_1_5 f_1_0;
   mkAabb f_0_75 f_0_0 f_0_3125 f_1_0 f_1_5 f_0_6875;
   mkAabb f_0_0 f_0_0 f_0_3125 f_1_0 f_1_5 f_0_6875;
   mkAabb f_0_25 f_0_0 f_0_25 f_0_75 f_1_5 f_0_3125;
   mkAabb f_0_25 f_0_0 f_0_6875 f_0_75 f_1_5 f_0_75;
   mkAabb f_0_3125 f_0_0 f_0_0 f_0_6875 f_1_5 f_0_25;
   mkAabb f_0_3125 f_0_0 f_0_75 f_0_6875 f_1_5 f_1_0;
   mkAabb f_0_0 f_0_0 f_0_3125 f_1_0 f_1_5 f_0_6875;
   mkAabb f_0_25 f_0_0 f_0_25 f_0_75 f_1_5 f_0_3125;
   mkAabb f_0_25 f_0_0 f_0_6875 f_0_75 f_1_5 f_0_75;
   mkAabb f_0_3125 f_0_0 f_0_0 f_0_6875 f_1_5 f_0_25;
   mkAabb f_0_3125 f_0_0 f_0_75 f_0_6875 f_1_5 f_1_0;
   mkAabb f_0_3125 f_0_0 f_0_0 f_0_6875 f_1_5 f_1_0;
   mkAabb f_0_6875 f_0_0 f_0_3125 f_1_0 f_1_5 f_0_6875;
   mkAabb f_0_0 f_0_0 f_0_3125 f_1_0 f_1_5 f_0_6875;
   mkAabb f_0_3125 f_0_0 f_0_0 f_0_6875 f_1_5 f_0_3125;
   mkAabb f_0_3125 f_0_0 f_0_6875 f_0_6875 f_1_5 f_1_0;
   mkAabb f_0_0 f_0_0 f_0_3125 f_1_0 f_1_5 f_0_6875;
   mkAabb f_0_3125 f_0_0 f_0_0 f_0_6875 f_1_5 f_0_3125;
   mkAabb f_0_3125 f_0_0 f_0_6875 f_0_6875 f_1_5 f_1_0;
   mkAabb f_0_25 f_0_0 f_0_25 f_0_75 f_1_5 f_0_75;
   mkAabb f_0_3125 f_0_0 f_0_0 f_0_6875 f_1_5 f_0_25;
   mkAabb f_0_75 f_0_0 f_0_3125 f_1_0 f_1_5 f_0_6875;
   mkAabb f_0_0 f_0_0 f_0_3125 f_1_0 f_1_5 f_0_6875;
   mkAabb f_0_25 f_0_0 f_0_25 f_0_75 f_1_5 f_0_3125;
   mkAabb f_0_25 f_0_0 f_0_6875 f_0_75 f_1_5 f_0_75;
   mkAabb f_0_3125 f_0_0 f_0_0 f_0_6875 f_1_5 f_0_25;
   mkAabb f_0_0 f_0_0 f_0_3125 f_1_0 f_1_5 f_0_6875;
   mkAabb f_0_25 f_0_0 f_0_25 f_0_75 f_1_5 f_0_3125;
   mkAabb f_0_25 f_0_0 f_0_6875 f_0_75 f_1_5 f_0_75;
   mkAabb f_0_3125 f_0_0 f_0_0 f_0_6875 f_1_5 f_0_25;
   mkAabb f_0_3125 f_0_0 f_0_0 f_0_6875 f_1_5 f_0_6875;
   mkAabb f_0_6875 f_0_0 f_0_3125 f_1_0 f_1_5 f_0_6875;
   mkAabb f_0_0 f_0_0 f_0_3125 f_1_0 f_1_5 f_0_6875;
   mkAabb f_0_3125 f_0_0 f_0_0 f_0_6875 f_1_5 f_0_3125;
   mkAabb f_0_0 f_0_0 f_0_3125 f_1_0 f_1_5 f_0_6875].
Definition SHAPE_BOXES_92 : list Aabb :=
  [mkAabb f_0_3125 f_0_0 f_0_0 f_0_6875 f_1_5 f_0_3125;
   mkAabb f_0_25 f_0_0 f_0_25 f_0_75 f_1_5 f_0_75;
   mkAabb f_0_3125 f_0_0 f_0_0 f_0_6875 f_1_5 f_0_25;
   mkAabb f_0_3125 f_0_0 f_0_75 f_0_6875 f_1_5 f_1_0;
   mkAabb f_0_75 f_0_0 f_0_3125 f_1_0 f_1_5 f_0_6875;
   mkAabb f_0_0 f_0_0 f_0_3125 f_1_0 f_1_5 f_0_6875;
   mkAabb f_0_25 f_0_0 f_0_25 f_0_75 f_1_5 f_0_3125;
   mkAabb f_0_25 f_0_0 f_0_6875 f_0_75 f_1_5 f_0_75;
   mkAabb f_0_3125 f_0_0 f_0_0 f_0_6875 f_1_5 f_0_25;
   mkAabb f_0_3125 f_0_0 f_0_75 f_0_6875 f_1_5 f_1_0;
   mkAabb f_0_0 f_0_0 f_0_3125 f_1_0 f_1_5 f_0_6875;
   mkAabb f_0_25 f_0_0 f_0_25 f_0_75 f_1_5 f_0_3125;
   mkAabb f_0_25 f_0_0 f_0_6875 f_0_75 f_1_5 f_0_75;
   mkAabb f_0_3125 f_0_0 f_0_0 f_0_6875 f_1_5 f_0_25;
   mkAabb f_0_3125 f_0_0 f_0_75 f_0_6875 f_1_5 f_1_0;
   mkAabb f_0_3125 f_0_0 f_0_0 f_0_6875 f_1_5 f_1_0;
   mkAabb f_0_6875 f_0_0 f_0_3125 f_1_0 f_1_5 f_0_6875;
   mkAabb f_0_0 f_0_0 f_0_3125 f_1_0 f_1_5 f_0_6875;
   mkAabb f_0_3125 f_0_0 f_0_0 f_0_6875 f_1_5 f_0_3125;
   mkAabb f_0_3125 f_0_0 f_0_6875 f_0_6875 f_1_5 f_1_0;
   mkAabb f_0_0 f_0_0 f_0_3125 f_1_0 f_1_5 f_0_6875;
   mkAabb f_0_3125 f_0_0 f_0_0 f_0_6875 f_1_5 f_0_3125;
   mkAabb f_0_3125 f_0_0 f_0_6875 f_0_6875 f_1_5 f_1_0;
   mkAabb f_0_25 f_0_0 f_0_25 f_0_75 f_1_5 f_0_75;
   mkAabb f_0_3125 f_0_0 f_0_0 f_0_6875 f_1_5 f_0_25;
   mkAabb f_0_3125 f_0_0 f_0_75 f_0_6875 f_1_5 f_1_0;
   mkAabb f_0_75 f_0_0 f_0_3125 f_1_0 f_1_5 f_0_6875;
   mkAabb f_0_0 f_0_0 f_0_3125 f_1_0 f_1_5 f_0_6875;
   mkAabb f_0_25 f_0_0 f_0_25 f_0_75 f_1_5 f_0_3125;
   mkAabb f_0_25 f_0_0 f_0_6875 f_0_75 f_1_5 f_0_75;
   mkAabb f_0_3125 f_0_0 f_0_0 f_0_6875 f_1_5 f_0_25;
   mkAabb f_0_3125 f_0_0 f_0_75 f_0_6875 f_1_5 f_1_0;
   mkAabb f_0_0 f_0_0 f_0_3125 f_1_0 f_1_5 f_0_6875;
   mkAabb f_0_25 f_0_0 f_0_25 f_0_75 f_1_5 f_0_3125;
   mkAabb f_0_25 f_0_0 f_0_6875 f_0_75 f_1_5 f_0_75;
   mkAabb f_0_3125 f_0_0 f_0_0 f_0_6875 f_1_5 f_0_25;
   mkAabb f_0_3125 f_0_0 f_0_75 f_0_6875 f_1_5 f_1_0;
   mkAabb f_0_3125 f_0_0 f_0_0 f_0_6875 f_1_5 f_1_0;
   mkAabb f_0_6875 f_0_0 f_0_3125 f_1_0 f_1_5 f_0_6875;
   mkAabb f_0_0 f_0_0 f_0_3125 f_1_0 f_1_5 f_0_6875;
   mkAabb f_0_3125 f_0_0 f_0_0 f_0_6875 f_1_5 f_0_3125;
   mkAabb f_0_3125 f_0_0 f_0_6875 f_0_6875 f_1_5 f_1_0;
   mkAabb f_0_0 f_0_0 f_0_3125 f_1_0 f_1_5 f_0_6875;
   mkAabb f_0_3125 f_0_0 f_0_0 f_0_6875 f_1_5 f_0_3125;
   mkAabb f_0_3125 f_0_0 f_0_6875 f_0_6875 f_1_5 f_1_0;
   mkAabb f_0_25 f_0_0 f_0_25 f_0_75 f_1_5 f_0_75;
   mkAabb f_0_75 f_0_0 f_0_3125 f_1_0 f_1_5 f_0_6875;
   mkAabb f_0_0 f_0_0 f_0_3125 f_1_0 f_1_5 f_0_6875;
   mkAabb f_0_25 f_0_0 f_0_25 f_0_75 f_1_5 f_0_3125;
   mkAabb f_0_25 f_0_0 f_0_6875 f_0_75 f_1_5 f_0_75;
   mkAabb f_0_0 f_0_0 f_0_3125 f_1_0 f_1_5 f_0_6875;
   mkAabb f_0_25 f_0_0 f_0_25 f_0_75 f_1_5 f_0_3125;
   mkAabb f_0_25 f_0_0 f_0_6875 f_0_75 f_1_5 f_0_75;
   mkAabb f_0_3125 f_0_0 f_0_3125 f_1_0 f_1_5 f_0_6875;
   mkAabb f_0_0 f_0_0 f_0_3125 f_1_0 f_1_5 f_0_6875;
   mkAabb f_0_0 f_0_0 f_0_3125 f_1_0 f_1_5 f_0_6875;
   mkAabb f_0_25 f_0_0 f_0_25 f_0_75 f_1_5 f_0_75;
   mkAabb f_0_3125 f_0_0 f_0_75 f_0_6875 f_1_5 f_1_0;
   mkAabb f_0_75 f_0_0 f_0_3125 f_1_0 f_1_5 f_0_6875;
   mkAabb f_0_0 f_0_0 f_0_3125 f_1_0 f_1_5 f_0_6875;
   mkAabb f_0_25 f_0_0 f_0_25 f_0_75 f_1_5 f_0_3125;
   mkAabb f_0_25 f_0_0 f_0_6875 f_0_75 f_1_5 f_0_75;
   mkAabb f_0_3125 f_0_0 f_0_75 f_0_6875 f_1_5 f_1_0;
   mkAabb f_0_0 f_0_0 f_0_3125 f_1_0 f_1_5 f_0_6875;
   mkAabb f_0_25 f_0_0 f_0_25 f_0_75 f_1_5 f_0_3125;
   mkAabb f_0_25 f_0_0 f_0_6875 f_0_75 f_1_5 f_0_75;
   mkAabb f_0_3125 f_0_0 f_0_75 f_0_6875 f_1_5 f_1_0;
   mkAabb f_0_3125 f_0_0 f_0_3125 f_0_6875 f_1_5 f_1_0;
   mkAabb f_0_6875 f_0_0 f_0_3125 f_1_0 f_1_5 f_0_6875;
   mkAabb f_0_0 f_0_0 f_0_3125 f_1_0 f_1_5 f_0_6875;
   mkAabb f_0_3125 f_0_0 f_0_6875 f_0_6875 f_1_5 f_1_0;
   mkAabb f_0_0 f_0_0 f_0_3125 f_1_0 f_1_5 f_0_6875;
   mkAabb f_0_3125 f_0_0 f_0_6875 f_0_6875 f_1_5 f_1_0;
   mkAabb f_0_25 f_0_0 f_0_25 f_0_75 f_1_5 f_0_75;
   mkAabb f_0_3125 f_0_0 f_0_75 f_0_6875 f_1_5 f_1_0;
   mkAabb f_0_75 f_0_0 f_0_3125 f_1_0 f_1_5 f_0_6875;
   mkAabb f_0_0 f_0_0 f_0_3125 f_1_0 f_1_5 f_0_6875;
   mkAabb f_0_25 f_0_0 f_0_25 f_0_75 f_1_5 f_0_3125;
   mkAabb f_0_25 f_0_0 f_0_6875 f_0_75 f_1_5 f_0_75;
   mkAabb f_0_3125 f_0_0 f_0_75 f_0_6875 f_1_5 f_1_0;
   mkAabb f_0_0 f_0_0 f_0_3125 f_1_0 f_1_5 f_0_6875;
   mkAabb f_0_25 f_0_0 f_0_25 f_0_75 f_1_5 f_0_3125;
   mkAabb f_0_25 f_0_0 f_0_6875 f_0_75 f_1_5 f_0_75;
   mkAabb f_0_3125 f_0_0 f_0_75 f_0_6875 f_1_5 f_1_0;
   mkAabb f_0_3125 f_0_0 f_0_3125 f_0_6875 f_1_5 f_1_0;
   mkAabb f_0_6875 f_0_0 f_0_3125 f_1_0 f_1_5 f_0_6875;
   mkAabb f_0_0 f_0_0 f_0_3125 f_1_0 f_1_5 f_0_6875;
   mkAabb f_0_3125 f_0_0 f_0_6875 f_0_6875 f_1_5 f_1_0;
   mkAabb f_0_0 f_0_0 f_0_3125 f_1_0 f_1_5 f_0_6875;
   mkAabb f_0_3125 f_0_0 f_0_6875 f_0_6875 f_1_5 f_1_0;
   mkAabb f_0_25 f_0_0 f_0_25 f_0_75 f_1_5 f_0_75;
   mkAabb f_0_3125 f_0_0 f_0_0 f_0_6875 f_1_5 f_0_25;
   mkAabb f_0_75 f_0_0 f_0_3125 f_1_0 f_1_5 f_0_6875;
   mkAabb f_0_0 f_0_0 f_0_3125 f_1_0 f_1_5 f_0_6875;
   mkAabb f_0_25 f_0_0 f_0_25 f_0_75 f_1_5 f_0_3125;
   mkAabb f_0_25 f_0_0 f_0_6875 f_0_75 f_1_5 f_0_75;
   mkAabb f_0_3125 f_0_0 f_0_0 f_0_6875 f_1_5 f_0_25;
   mkAabb f_0_0 f_0_0 f_0_3125 f_1_0 f_1_5 f_0_6875;
   mkAabb f_0_25 f_0_0 f_0_25 f_0_75 f_1_5 f_0_3125;
   mkAabb f_0_25 f_0_0 f_0_6875 f_0_75 f_1_5 f_0_75;
   mkAabb f_0_3125 f_0_0 f_0_0 f_0_6875 f_1_5 f_0_25;
   mkAabb f_0_3125 f_0_0 f_0_0 f_0_6875 f_1_5 f_0_6875;
   mkAabb f_0_6875 f_0_0 f_0_3125 f_1_0 f_1_5 f_0_6875;
   mkAabb f_0_0 f_0_0 f_0_3125 f_1_0 f_1_5 f_0_6875;
   mkAabb f_0_3125 f_0_0 f_0_0 f_0_6875 f_1_5 f_0_3125;
   mkAabb f_0_0 f_0_0 f_0_3125 f_1_0 f_1_5 f_0_6875;
   mkAabb f_0_3125 f_0_0 f_0_0 f_0_6875 f_1_5 f_0_3125;
   mkAabb f_0_25 f_0_0 f_0_25 f_0_75 f_1_5 f_0_75;
   mkAabb f_0_3125 f_0_0 f_0_0 f_0_6875 f_1_5 f_0_25;
   mkAabb f_0_3125 f_0_0 f_0_75 f_0_6875 f_1_5 f_1_0;
   mkAabb f_0_75 f_0_0 f_0_3125 f_1_0 f_1_5 f_0_6875;
   mkAabb f_0_0 f_0_0 f_0_3125 f_1_0 f_1_5 f_0_6875;
   mkAabb f_0_25 f_0_0 f_0_25 f_0_75 f_1_5 f_0_3125;
   mkAabb f_0_25 f_0_0 f_0_6875 f_0_75 f_1_5 f_0_75;
   mkAabb f_0_3125 f_0_0 f_0_0 f_0_6875 f_1_5 f_0_25;
   mkAabb f_0_3125 f_0_0 f_0_75 f_0_6875 f_1_5 f_1_0;
   mkAabb f_0_0 f_0_0 f_0_3125 f_1_0 f_1_5 f_0_6875;
   mkAabb f_0_25 f_0_0 f_0_25 f_0_75 f_1_5 f_0_3125;
   mkAabb f_0_25 f_0_0 f_0_6875 f_0_75 f_1_5 f_0_75;
   mkAabb f_0_3125 f_0_0 f_0_0 f_0_6875 f_1_5 f_0_25;
   mkAabb f_0_3125 f_0_0 f_0_75 f_0_6875 f_1_5 f_1_0;
   mkAabb f_0_3125 f_0_0 f_0_0 f_0_6875 f_1_5 f_1_0;
   mkAabb f_0_6875 f_0_0 f_0_3125 f_1_0 f_1_5 f_0_6875;
   mkAabb f_0_0 f_0_0 f_0_3125 f_1_0 f_1_5 f_0_6875;
   mkAabb f_0_3125 f_0_0 f_0_0 f_0_6875 f_1_5 f_0_3125;
   mkAabb f_0_3125 f_0_0 f_0_6875 f_0_6875 f_1_5 f_1_0;
   mkAabb f_0_0 f_0_0 f_0_3125 f_1_0 f_1_5 f_0_6875;
   mkAabb f_0_3125 f_0_0 f_0_0 f_0_6875 f_1_5 f_0_3125;
   mkAabb f_0_3125 f_0_0 f_0_6875 f_0_6875 f_1_5 f_1_0;
   mkAabb f_0_25 f_0_0 f_0_25 f_0_75 f_1_5 f_0_75;
   mkAabb f_0_3125 f_0_0 f_0_0 f_0_6875 f_1_5 f_0_25;
   mkAabb f_0_3125 f_0_0 f_0_75 f_0_6875 f_1_5 f_1_0;
   mkAabb f_0_75 f_0_0 f_0_3125 f_1_0 f_1_5 f_0_6875;
   mkAabb f_0_0 f_0_0 f_0_3125 f_1_0 f_1_5 f_0_6875;
   mkAabb f_0_25 f_0_0 f_0_25 f_0_75 f_1_5 f_0_3125;
   mkAabb f_0_25 f_0_0 f_0_6875 f_0_75 f_1_5 f_0_75;
   mkAabb f_0_3125 f_0_0 f_0_0 f_0_6875 f_1_5 f_0_25;
   mkAabb f_0_3125 f_0_0 f_0_75 f_0_6875 f_1_5 f_1_0;
   mkAabb f_0_0 f_0_0 f_0_3125 f_1_0 f_1_5 f_0_6875;
   mkAabb f_0_25 f_0_0 f_0_25 f_0_75 f_1_5 f_0_3125;
   mkAabb f_0_25 f_0_0 f_0_6875 f_0_75 f_1_5 f_0_75;
   mkAabb f_0_3125 f_0_0 f_0_0 f_0_6875 f_1_5 f_0_25;
   mkAabb f_0_3125 f_0_0 f_0_75 f_0_6875 f_1_5 f_1_0;
   mkAabb f_0_3125 f_0_0 f_0_0 f_0_6875 f_1_5 f_1_0;
   mkAabb f_0_6875 f_0_0 f_0_3125 f_1_0 f_1_5 f_0_6875;
   mkAabb f_0_0 f_0_0 f_0_3125 f_1_0 f_1_5 f_0_6875;
   mkAabb f_0_3125 f_0_0 f_0_0 f_0_6875 f_1_5 f_0_3125;
   mkAabb f_0_3125 f_0_0 f_0_6875 f_0_6875 f_1_5 f_1_0;
   mkAabb f_0_0 f_0_0 f_0_3125 f_1_0 f_1_5 f_0_6875;
   mkAabb f_0_3125 f_0_0 f_0_0 f_0_6875 f_1_5 f_0_3125].
Definition SHAPE_BOXES_93 : list Aabb :=
  [mkAabb f_0_3125 f_0_0 f_0_6875 f_0_6875 f_1_5 f_1_0;
   mkAabb f_0_25 f_0_0 f_0_25 f_0_75 f_1_5 f_0_75;
   mkAabb f_0_3125 f_0_0 f_0_0 f_0_6875 f_1_5 f_0_25;
   mkAabb f_0_75 f_0_0 f_0_3125 f_1_0 f_1_5 f_0_6875;
   mkAabb f_0_0 f_0_0 f_0_3125 f_1_0 f_1_5 f_0_6875;
   mkAabb f_0_25 f_0_0 f_0_25 f_0_75 f_1_5 f_0_3125;
   mkAabb f_0_25 f_0_0 f_0_6875 f_0_75 f_1_5 f_0_75;
   mkAabb f_0_3125 f_0_0 f_0_0 f_0_6875 f_1_5 f_0_25;
   mkAabb f_0_0 f_0_0 f_0_3125 f_1_0 f_1_5 f_0_6875;
   mkAabb f_0_25 f_0_0 f_0_25 f_0_75 f_1_5 f_0_3125;
   mkAabb f_0_25 f_0_0 f_0_6875 f_0_75 f_1_5 f_0_75;
   mkAabb f_0_3125 f_0_0 f_0_0 f_0_6875 f_1_5 f_0_25;
   mkAabb f_0_3125 f_0_0 f_0_0 f_0_6875 f_1_5 f_0_6875;
   mkAabb f_0_6875 f_0_0 f_0_3125 f_1_0 f_1_5 f_0_6875;
   mkAabb f_0_0 f_0_0 f_0_3125 f_1_0 f_1_5 f_0_6875;
   mkAabb f_0_3125 f_0_0 f_0_0 f_0_6875 f_1_5 f_0_3125;
   mkAabb f_0_0 f_0_0 f_0_3125 f_1_0 f_1_5 f_0_6875;
   mkAabb f_0_3125 f_0_0 f_0_0 f_0_6875 f_1_5 f_0_3125;
   mkAabb f_0_25 f_0_0 f_0_25 f_0_75 f_1_5 f_0_75;
   mkAabb f_0_3125 f_0_0 f_0_0 f_0_6875 f_1_5 f_0_25;
   mkAabb f_0_3125 f_0_0 f_0_75 f_0_6875 f_1_5 f_1_0;
   mkAabb f_0_75 f_0_0 f_0_3125 f_1_0 f_1_5 f_0_6875;
   mkAabb f_0_0 f_0_0 f_0_3125 f_1_0 f_1_5 f_0_6875;
   mkAabb f_0_25 f_0_0 f_0_25 f_0_75 f_1_5 f_0_3125;
   mkAabb f_0_25 f_0_0 f_0_6875 f_0_75 f_1_5 f_0_75;
   mkAabb f_0_3125 f_0_0 f_0_0 f_0_6875 f_1_5 f_0_25;
   mkAabb f_0_3125 f_0_0 f_0_75 f_0_6875 f_1_5 f_1_0;
   mkAabb f_0_0 f_0_0 f_0_3125 f_1_0 f_1_5 f_0_6875;
   mkAabb f_0_25 f_0_0 f_0_25 f_0_75 f_1_5 f_0_3125;
   mkAabb f_0_25 f_0_0 f_0_6875 f_0_75 f_1_5 f_0_75;
   mkAabb f_0_3125 f_0_0 f_0_0 f_0_6875 f_1_5 f_0_25;
   mkAabb f_0_3125 f_0_0 f_0_75 f_0_6875 f_1_5 f_1_0;
   mkAabb f_0_3125 f_0_0 f_0_0 f_0_6875 f_1_5 f_1_0;
   mkAabb f_0_6875 f_0_0 f_0_3125 f_1_0 f_1_5 f_0_6875;
   mkAabb f_0_0 f_0_0 f_0_3125 f_1_0 f_1_5 f_0_6875;
   mkAabb f_0_3125 f_0_0 f_0_0 f_0_6875 f_1_5 f_0_3125;
   mkAabb f_0_3125 f_0_0 f_0_6875 f_0_6875 f_1_5 f_1_0;
   mkAabb f_0_0 f_0_0 f_0_3125 f_1_0 f_1_5 f_0_6875;
   mkAabb f_0_3125 f_0_0 f_0_0 f_0_6875 f_1_5 f_0_3125;
   mkAabb f_0_3125 f_0_0 f_0_6875 f_0_6875 f_1_5 f_1_0;
   mkAabb f_0_25 f_0_0 f_0_25 f_0_75 f_1_5 f_0_75;
   mkAabb f_0_3125 f_0_0 f_0_0 f_0_6875 f_1_5 f_0_25;
   mkAabb f_0_3125 f_0_0 f_0_75 f_0_6875 f_1_5 f_1_0;
   mkAabb f_0_75 f_0_0 f_0_3125 f_1_0 f_1_5 f_0_6875;
   mkAabb f_0_0 f_0_0 f_0_3125 f_1_0 f_1_5 f_0_6875;
   mkAabb f_0_25 f_0_0 f_0_25 f_0_75 f_1_5 f_0_3125;
   mkAabb f_0_25 f_0_0 f_0_6875 f_0_75 f_1_5 f_0_75;
   mkAabb f_0_3125 f_0_0 f_0_0 f_0_6875 f_1_5 f_0_25;
   mkAabb f_0_3125 f_0_0 f_0_75 f_0_6875 f_1_5 f_1_0;
   mkAabb f_0_0 f_0_0 f_0_3125 f_1_0 f_1_5 f_0_6875;
   mkAabb f_0_25 f_0_0 f_0_25 f_0_75 f_1_5 f_0_3125;
   mkAabb f_0_25 f_0_0 f_0_6875 f_0_75 f_1_5 f_0_75;
   mkAabb f_0_3125 f_0_0 f_0_0 f_0_6875 f_1_5 f_0_25;
   mkAabb f_0_3125 f_0_0 f_0_75 f_0_6875 f_1_5 f_1_0;
   mkAabb f_0_3125 f_0_0 f_0_0 f_0_6875 f_1_5 f_1_0;
   mkAabb f_0_6875 f_0_0 f_0_3125 f_1_0 f_1_5 f_0_6875;
   mkAabb f_0_0 f_0_0 f_0_3125 f_1_0 f_1_5 f_0_6875;
   mkAabb f_0_3125 f_0_0 f_0_0 f_0_6875 f_1_5 f_0_3125;
   mkAabb f_0_3125 f_0_0 f_0_6875 f_0_6875 f_1_5 f_1_0;
   mkAabb f_0_0 f_0_0 f_0_3125 f_1_0 f_1_5 f_0_6875;
   mkAabb f_0_3125 f_0_0 f_0_0 f_0_6875 f_1_5 f_0_3125;
   mkAabb f_0_3125 f_0_0 f_0_6875 f_0_6875 f_1_5 f_1_0;
   mkAabb f_0_0625 f_0_0 f_0_0625 f_0_9375 f_1_0 f_0_9375;
   mkAabb f_0_25 f_0_0 f_0_25 f_0_75 f_0_5 f_0_75;
   mkAabb f_0_0 f_0_0 f_0_0 f_1_0 f_0_0625 f_1_0].
Definition SHAPE_BOXES_all : list Aabb :=
  SHAPE_BOXES_0 ++ SHAPE_BOXES_1 ++ SHAPE_BOXES_2 ++ SHAPE_BOXES_3 ++ SHAPE_BOXES_4 ++ SHAPE_BOXES_5
  ++ SHAPE_BOXES_6 ++ SHAPE_BOXES_7 ++ SHAPE_BOXES_8 ++ SHAPE_BOXES_9 ++ SHAPE_BOXES_10 ++ SHAPE_BOXES_11
  ++ SHAPE_BOXES_12 ++ SHAPE_BOXES_13 ++ SHAPE_BOXES_14 ++ SHAPE_BOXES_15 ++ SHAPE_BOXES_16 ++ SHAPE_BOXES_17
  ++ SHAPE_BOXES_18 ++ SHAPE_BOXES_19 ++ SHAPE_BOXES_20 ++ SHAPE_BOXES_21 ++ SHAPE_BOXES_22 ++ SHAPE_BOXES_23
  ++ SHAPE_BOXES_24 ++ SHAPE_BOXES_25 ++ SHAPE_BOXES_26 ++ SHAPE_BOXES_27 ++ SHAPE_BOXES_28 ++ SHAPE_BOXES_29
  ++ SHAPE_BOXES_30 ++ SHAPE_BOXES_31 ++ SHAPE_BOXES_32 ++ SHAPE_BOXES_33 ++ SHAPE_BOXES_34 ++ SHAPE_BOXES_35
  ++ SHAPE_BOXES_36 ++ SHAPE_BOXES_37 ++ SHAPE_BOXES_38 ++ SHAPE_BOXES_39 ++ SHAPE_BOXES_40 ++ SHAPE_BOXES_41
  ++ SHAPE_BOXES_42 ++ SHAPE_BOXES_43 ++ SHAPE_BOXES_44 ++ SHAPE_BOXES_45 ++ SHAPE_BOXES_46 ++ SHAPE_BOXES_47
  ++ SHAPE_BOXES_48 ++ SHAPE_BOXES_49 ++ SHAPE_BOXES_50 ++ SHAPE_BOXES_51 ++ SHAPE_BOXES_52 ++ SHAPE_BOXES_53
  ++ SHAPE_BOXES_54 ++ SHAPE_BOXES_55 ++ SHAPE_BOXES_56 ++ SHAPE_BOXES_57 ++ SHAPE_BOXES_58 ++ SHAPE_BOXES_59
  ++ SHAPE_BOXES_60 ++ SHAPE_BOXES_61 ++ SHAPE_BOXES_62 ++ SHAPE_BOXES_63 ++ SHAPE_BOXES_64 ++ SHAPE_BOXES_65
  ++ SHAPE_BOXES_66 ++ SHAPE_BOXES_67 ++ SHAPE_BOXES_68 ++ SHAPE_BOXES_69 ++ SHAPE_BOXES_70 ++ SHAPE_BOXES_71
  ++ SHAPE_BOXES_72 ++ SHAPE_BOXES_73 ++ SHAPE_BOXES_74 ++ SHAPE_BOXES_75 ++ SHAPE_BOXES_76 ++ SHAPE_BOXES_77
  ++ SHAPE_BOXES_78 ++ SHAPE_BOXES_79 ++ SHAPE_BOXES_80 ++ SHAPE_BOXES_81 ++ SHAPE_BOXES_82 ++ SHAPE_BOXES_83
  ++ SHAPE_BOXES_84 ++ SHAPE_BOXES_85 ++ SHAPE_BOXES_86 ++ SHAPE_BOXES_87 ++ SHAPE_BOXES_88 ++ SHAPE_BOXES_89
  ++ SHAPE_BOXES_90 ++ SHAPE_BOXES_91 ++ SHAPE_BOXES_92 ++ SHAPE_BOXES_93.

Definition SHAPE_RANGES_0 : list (Z * Z) :=
  [(0, 0);
   (0, 1);
   (1, 4);
   (5, 4);
   (9, 5);
   (14, 4);
   (18, 1);
   (19, 1);
   (20, 1);
   (21, 1);
   (22, 1);
   (23, 1);
   (24, 2);
   (26, 2);
   (28, 2);
   (30, 2);
   (32, 2);
   (34, 2);
   (36, 2);
   (38, 2);
   (40, 5);
   (45, 5);
   (50, 2);
   (52, 2);
   (54, 2);
   (56, 3);
   (59, 3);
   (62, 3);
   (65, 3);
   (68, 2);
   (70, 3);
   (73, 3);
   (76, 2);
   (78, 2);
   (80, 2);
   (82, 3);
   (85, 3);
   (88, 3);
   (91, 3);
   (94, 2);
   (96, 3);
   (99, 3);
   (102, 2);
   (104, 2);
   (106, 2);
   (108, 2);
   (110, 2);
   (112, 2);
   (114, 1);
   (115, 1);
   (116, 1);
   (117, 1);
   (118, 1);
   (119, 1);
   (120, 1);
   (121, 1);
   (122, 1);
   (123, 1);
   (124, 1);
   (125, 1);
   (126, 1);
   (127, 1);
   (128, 1);
   (129, 1);
   (130, 1);
   (131, 1);
   (132, 1);
   (133, 1);
   (134, 1);
   (135, 1);
   (136, 1);
   (137, 1);
   (138, 3);
   (141, 2);
   (143, 2);
   (145, 2);
   (147, 2);
   (149, 2);
   (151, 1);
   (152, 1);
   (153, 3);
   (156, 1);
   (157, 2);
   (159, 1);
   (160, 2);
   (162, 1);
   (163, 1);
   (164, 1);
   (165, 1);
   (166, 1);
   (167, 1);
   (168, 1);
   (169, 1);
   (170, 1);
   (171, 1);
   (172, 1);
   (173, 1);
   (174, 1);
   (175, 1);
   (176, 1);
   (177, 1);
   (178, 1);
   (179, 1);
   (180, 3);
   (183, 2);
   (185, 2);
   (187, 2);
   (189, 2);
   (191, 2);
   (193, 1);
   (194, 1);
   (195, 3);
   (198, 1);
   (199, 2);
   (201, 1);
   (202, 2);
   (204, 1);
   (205, 1);
   (206, 1);
   (207, 1);
   (208, 1);
   (209, 1);
   (210, 3);
   (213, 2);
   (215, 2);
   (217, 2);
   (219, 2);
   (221, 2);
   (223, 1);
   (224, 1);
   (225, 3);
   (228, 1);
   (229, 2);
   (231, 1);
   (232, 2);
   (234, 1);
   (235, 1);
   (236, 1);
   (237, 1);
   (238, 1);
   (239, 1);
   (240, 1);
   (241, 1);
   (242, 1);
   (243, 3);
   (246, 3);
   (249, 1);
   (250, 1);
   (251, 2);
   (253, 4)].
Definition SHAPE_RANGES_1 : list (Z * Z) :=
  [(257, 4);
   (261, 1);
   (262, 2);
   (264, 2);
   (266, 2);
   (268, 4);
   (272, 4);
   (276, 1);
   (277, 2);
   (279, 2);
   (281, 2);
   (283, 4);
   (287, 4);
   (291, 1);
   (292, 2);
   (294, 2);
   (296, 3);
   (299, 5);
   (304, 5);
   (309, 1);
   (310, 3);
   (313, 3);
   (316, 3);
   (319, 5);
   (324, 5);
   (329, 1);
   (330, 3);
   (333, 3);
   (336, 2);
   (338, 4);
   (342, 4);
   (346, 1);
   (347, 2);
   (349, 2);
   (351, 3);
   (354, 5);
   (359, 5);
   (364, 1);
   (365, 3);
   (368, 3);
   (371, 3);
   (374, 5);
   (379, 5);
   (384, 1);
   (385, 3);
   (388, 3);
   (391, 2);
   (393, 3);
   (396, 3);
   (399, 1);
   (400, 1);
   (401, 1);
   (402, 3);
   (405, 4);
   (409, 4);
   (413, 2);
   (415, 2);
   (417, 2);
   (419, 3);
   (422, 4);
   (426, 4);
   (430, 2);
   (432, 2);
   (434, 2);
   (436, 3);
   (439, 4);
   (443, 4);
   (447, 2);
   (449, 2);
   (451, 2);
   (453, 4);
   (457, 5);
   (462, 5);
   (467, 2);
   (469, 3);
   (472, 3);
   (475, 4);
   (479, 5);
   (484, 5);
   (489, 2);
   (491, 3);
   (494, 3);
   (497, 3);
   (500, 4);
   (504, 4);
   (508, 2);
   (510, 2);
   (512, 2);
   (514, 4);
   (518, 5);
   (523, 5);
   (528, 2);
   (530, 3);
   (533, 3);
   (536, 4);
   (540, 5);
   (545, 5);
   (550, 2);
   (552, 3);
   (555, 3);
   (558, 2);
   (560, 3);
   (563, 3);
   (566, 1);
   (567, 1);
   (568, 1);
   (569, 3);
   (572, 4);
   (576, 4);
   (580, 2);
   (582, 2);
   (584, 2);
   (586, 3);
   (589, 4);
   (593, 4);
   (597, 2);
   (599, 2);
   (601, 2);
   (603, 3);
   (606, 4);
   (610, 4);
   (614, 2);
   (616, 2);
   (618, 2);
   (620, 4);
   (624, 5);
   (629, 5);
   (634, 2);
   (636, 3);
   (639, 3);
   (642, 4);
   (646, 5);
   (651, 5);
   (656, 2);
   (658, 3);
   (661, 3);
   (664, 3);
   (667, 4);
   (671, 4);
   (675, 2);
   (677, 2);
   (679, 2);
   (681, 4);
   (685, 5);
   (690, 5);
   (695, 2);
   (697, 3);
   (700, 3);
   (703, 4);
   (707, 5)].
Definition SHAPE_RANGES_2 : list (Z * Z) :=
  [(712, 5);
   (717, 2);
   (719, 3);
   (722, 3);
   (725, 3);
   (728, 2);
   (730, 2);
   (732, 2);
   (734, 2);
   (736, 2);
   (738, 1);
   (739, 1);
   (740, 3);
   (743, 1);
   (744, 2);
   (746, 1);
   (747, 2);
   (749, 1);
   (750, 1);
   (751, 1);
   (752, 1);
   (753, 2);
   (755, 15);
   (770, 2);
   (772, 1);
   (773, 1);
   (774, 1);
   (775, 1);
   (776, 1);
   (777, 1);
   (778, 1);
   (779, 1);
   (780, 1);
   (781, 1);
   (782, 1);
   (783, 1);
   (784, 1);
   (785, 1);
   (786, 1);
   (787, 1);
   (788, 3);
   (791, 3);
   (794, 1);
   (795, 1);
   (796, 2);
   (798, 4);
   (802, 4);
   (806, 1);
   (807, 2);
   (809, 2);
   (811, 2);
   (813, 4);
   (817, 4);
   (821, 1);
   (822, 2);
   (824, 2);
   (826, 2);
   (828, 4);
   (832, 4);
   (836, 1);
   (837, 2);
   (839, 2);
   (841, 3);
   (844, 5);
   (849, 5);
   (854, 1);
   (855, 3);
   (858, 3);
   (861, 3);
   (864, 5);
   (869, 5);
   (874, 1);
   (875, 3);
   (878, 3);
   (881, 2);
   (883, 4);
   (887, 4);
   (891, 1);
   (892, 2);
   (894, 2);
   (896, 3);
   (899, 5);
   (904, 5);
   (909, 1);
   (910, 3);
   (913, 3);
   (916, 3);
   (919, 5);
   (924, 5);
   (929, 1);
   (930, 3);
   (933, 3);
   (936, 2);
   (938, 3);
   (941, 3);
   (944, 1);
   (945, 1);
   (946, 1);
   (947, 3);
   (950, 4);
   (954, 4);
   (958, 2);
   (960, 2);
   (962, 2);
   (964, 3);
   (967, 4);
   (971, 4);
   (975, 2);
   (977, 2);
   (979, 2);
   (981, 3);
   (984, 4);
   (988, 4);
   (992, 2);
   (994, 2);
   (996, 2);
   (998, 4);
   (1002, 5);
   (1007, 5);
   (1012, 2);
   (1014, 3);
   (1017, 3);
   (1020, 4);
   (1024, 5);
   (1029, 5);
   (1034, 2);
   (1036, 3);
   (1039, 3);
   (1042, 3);
   (1045, 4);
   (1049, 4);
   (1053, 2);
   (1055, 2);
   (1057, 2);
   (1059, 4);
   (1063, 5);
   (1068, 5);
   (1073, 2);
   (1075, 3);
   (1078, 3);
   (1081, 4);
   (1085, 5);
   (1090, 5);
   (1095, 2);
   (1097, 3);
   (1100, 3);
   (1103, 2);
   (1105, 3);
   (1108, 3);
   (1111, 1)].
Definition SHAPE_RANGES_3 : list (Z * Z) :=
  [(1112, 1);
   (1113, 1);
   (1114, 3);
   (1117, 4);
   (1121, 4);
   (1125, 2);
   (1127, 2);
   (1129, 2);
   (1131, 3);
   (1134, 4);
   (1138, 4);
   (1142, 2);
   (1144, 2);
   (1146, 2);
   (1148, 3);
   (1151, 4);
   (1155, 4);
   (1159, 2);
   (1161, 2);
   (1163, 2);
   (1165, 4);
   (1169, 5);
   (1174, 5);
   (1179, 2);
   (1181, 3);
   (1184, 3);
   (1187, 4);
   (1191, 5);
   (1196, 5);
   (1201, 2);
   (1203, 3);
   (1206, 3);
   (1209, 3);
   (1212, 4);
   (1216, 4);
   (1220, 2);
   (1222, 2);
   (1224, 2);
   (1226, 4);
   (1230, 5);
   (1235, 5);
   (1240, 2);
   (1242, 3);
   (1245, 3);
   (1248, 4);
   (1252, 5);
   (1257, 5);
   (1262, 2);
   (1264, 3);
   (1267, 3);
   (1270, 1);
   (1271, 3);
   (1274, 3);
   (1277, 1);
   (1278, 1);
   (1279, 2);
   (1281, 4);
   (1285, 4);
   (1289, 1);
   (1290, 2);
   (1292, 2);
   (1294, 2);
   (1296, 4);
   (1300, 4);
   (1304, 1);
   (1305, 2);
   (1307, 2);
   (1309, 2);
   (1311, 4);
   (1315, 4);
   (1319, 1);
   (1320, 2);
   (1322, 2);
   (1324, 3);
   (1327, 5);
   (1332, 5);
   (1337, 1);
   (1338, 3);
   (1341, 3);
   (1344, 3);
   (1347, 5);
   (1352, 5);
   (1357, 1);
   (1358, 3);
   (1361, 3);
   (1364, 2);
   (1366, 4);
   (1370, 4);
   (1374, 1);
   (1375, 2);
   (1377, 2);
   (1379, 3);
   (1382, 5);
   (1387, 5);
   (1392, 1);
   (1393, 3);
   (1396, 3);
   (1399, 3);
   (1402, 5);
   (1407, 5);
   (1412, 1);
   (1413, 3);
   (1416, 3);
   (1419, 2);
   (1421, 3);
   (1424, 3);
   (1427, 1);
   (1428, 1);
   (1429, 1);
   (1430, 3);
   (1433, 4);
   (1437, 4);
   (1441, 2);
   (1443, 2);
   (1445, 2);
   (1447, 3);
   (1450, 4);
   (1454, 4);
   (1458, 2);
   (1460, 2);
   (1462, 2);
   (1464, 3);
   (1467, 4);
   (1471, 4);
   (1475, 2);
   (1477, 2);
   (1479, 2);
   (1481, 4);
   (1485, 5);
   (1490, 5);
   (1495, 2);
   (1497, 3);
   (1500, 3);
   (1503, 4);
   (1507, 5);
   (1512, 5);
   (1517, 2);
   (1519, 3);
   (1522, 3);
   (1525, 3);
   (1528, 4);
   (1532, 4);
   (1536, 2);
   (1538, 2);
   (1540, 2);
   (1542, 4);
   (1546, 5);
   (1551, 5);
   (1556, 2);
   (1558, 3)].
Definition SHAPE_RANGES_4 : list (Z * Z) :=
  [(1561, 3);
   (1564, 4);
   (1568, 5);
   (1573, 5);
   (1578, 2);
   (1580, 3);
   (1583, 3);
   (1586, 2);
   (1588, 3);
   (1591, 3);
   (1594, 1);
   (1595, 1);
   (1596, 1);
   (1597, 3);
   (1600, 4);
   (1604, 4);
   (1608, 2);
   (1610, 2);
   (1612, 2);
   (1614, 3);
   (1617, 4);
   (1621, 4);
   (1625, 2);
   (1627, 2);
   (1629, 2);
   (1631, 3);
   (1634, 4);
   (1638, 4);
   (1642, 2);
   (1644, 2);
   (1646, 2);
   (1648, 4);
   (1652, 5);
   (1657, 5);
   (1662, 2);
   (1664, 3);
   (1667, 3);
   (1670, 4);
   (1674, 5);
   (1679, 5);
   (1684, 2);
   (1686, 3);
   (1689, 3);
   (1692, 3);
   (1695, 4);
   (1699, 4);
   (1703, 2);
   (1705, 2);
   (1707, 2);
   (1709, 4);
   (1713, 5);
   (1718, 5);
   (1723, 2);
   (1725, 3);
   (1728, 3);
   (1731, 4);
   (1735, 5);
   (1740, 5);
   (1745, 2);
   (1747, 3);
   (1750, 3);
   (1753, 1);
   (1754, 1);
   (1755, 1);
   (1756, 1);
   (1757, 1);
   (1758, 1);
   (1759, 1);
   (1760, 1);
   (1761, 1);
   (1762, 1);
   (1763, 1);
   (1764, 7);
   (1771, 7);
   (1778, 1);
   (1779, 13);
   (1792, 10);
   (1802, 10);
   (1812, 12);
   (1824, 10);
   (1834, 3);
   (1837, 2);
   (1839, 2);
   (1841, 2);
   (1843, 2);
   (1845, 2);
   (1847, 1);
   (1848, 1);
   (1849, 3);
   (1852, 1);
   (1853, 2);
   (1855, 1);
   (1856, 2);
   (1858, 1);
   (1859, 1);
   (1860, 1);
   (1861, 3);
   (1864, 2);
   (1866, 2);
   (1868, 2);
   (1870, 2);
   (1872, 2);
   (1874, 1);
   (1875, 1);
   (1876, 3);
   (1879, 1);
   (1880, 2);
   (1882, 1);
   (1883, 2);
   (1885, 1);
   (1886, 1);
   (1887, 1);
   (1888, 3);
   (1891, 2);
   (1893, 2);
   (1895, 2);
   (1897, 2);
   (1899, 2);
   (1901, 1);
   (1902, 1);
   (1903, 3);
   (1906, 1);
   (1907, 2);
   (1909, 1);
   (1910, 2);
   (1912, 1);
   (1913, 1);
   (1914, 1);
   (1915, 3);
   (1918, 2);
   (1920, 2);
   (1922, 2);
   (1924, 2);
   (1926, 2);
   (1928, 1);
   (1929, 1);
   (1930, 3);
   (1933, 1);
   (1934, 2);
   (1936, 1);
   (1937, 2);
   (1939, 1);
   (1940, 1);
   (1941, 1);
   (1942, 3);
   (1945, 2);
   (1947, 2);
   (1949, 2);
   (1951, 2);
   (1953, 2)].
Definition SHAPE_RANGES_5 : list (Z * Z) :=
  [(1955, 1);
   (1956, 1);
   (1957, 3);
   (1960, 1);
   (1961, 2);
   (1963, 1);
   (1964, 2);
   (1966, 1);
   (1967, 1);
   (1968, 1);
   (1969, 3);
   (1972, 2);
   (1974, 2);
   (1976, 2);
   (1978, 2);
   (1980, 2);
   (1982, 1);
   (1983, 1);
   (1984, 3);
   (1987, 1);
   (1988, 2);
   (1990, 1);
   (1991, 2);
   (1993, 1);
   (1994, 1);
   (1995, 1);
   (1996, 3);
   (1999, 2);
   (2001, 2);
   (2003, 2);
   (2005, 2);
   (2007, 2);
   (2009, 1);
   (2010, 1);
   (2011, 3);
   (2014, 1);
   (2015, 2);
   (2017, 1);
   (2018, 2);
   (2020, 1);
   (2021, 1);
   (2022, 1);
   (2023, 3);
   (2026, 2);
   (2028, 2);
   (2030, 2);
   (2032, 2);
   (2034, 2);
   (2036, 1);
   (2037, 1);
   (2038, 3);
   (2041, 1);
   (2042, 2);
   (2044, 1);
   (2045, 2);
   (2047, 1);
   (2048, 1);
   (2049, 1);
   (2050, 3);
   (2053, 2);
   (2055, 2);
   (2057, 2);
   (2059, 2);
   (2061, 2);
   (2063, 1);
   (2064, 1);
   (2065, 3);
   (2068, 1);
   (2069, 2);
   (2071, 1);
   (2072, 2);
   (2074, 1);
   (2075, 1);
   (2076, 1);
   (2077, 3);
   (2080, 2);
   (2082, 2);
   (2084, 2);
   (2086, 2);
   (2088, 2);
   (2090, 1);
   (2091, 1);
   (2092, 3);
   (2095, 1);
   (2096, 2);
   (2098, 1);
   (2099, 2);
   (2101, 1);
   (2102, 1);
   (2103, 1);
   (2104, 3);
   (2107, 2);
   (2109, 2);
   (2111, 2);
   (2113, 2);
   (2115, 2);
   (2117, 1);
   (2118, 1);
   (2119, 3);
   (2122, 1);
   (2123, 2);
   (2125, 1);
   (2126, 2);
   (2128, 1);
   (2129, 1);
   (2130, 1);
   (2131, 3);
   (2134, 2);
   (2136, 2);
   (2138, 2);
   (2140, 2);
   (2142, 2);
   (2144, 1);
   (2145, 1);
   (2146, 3);
   (2149, 1);
   (2150, 2);
   (2152, 1);
   (2153, 2);
   (2155, 1);
   (2156, 1);
   (2157, 1);
   (2158, 3);
   (2161, 2);
   (2163, 2);
   (2165, 2);
   (2167, 2);
   (2169, 2);
   (2171, 1);
   (2172, 1);
   (2173, 3);
   (2176, 1);
   (2177, 2);
   (2179, 1);
   (2180, 2);
   (2182, 1);
   (2183, 1);
   (2184, 1);
   (2185, 3);
   (2188, 2);
   (2190, 2);
   (2192, 2);
   (2194, 2);
   (2196, 2);
   (2198, 1);
   (2199, 1);
   (2200, 3);
   (2203, 1);
   (2204, 2);
   (2206, 1)].
Definition SHAPE_RANGES_6 : list (Z * Z) :=
  [(2207, 2);
   (2209, 1);
   (2210, 1);
   (2211, 1);
   (2212, 3);
   (2215, 2);
   (2217, 2);
   (2219, 2);
   (2221, 2);
   (2223, 2);
   (2225, 1);
   (2226, 1);
   (2227, 3);
   (2230, 1);
   (2231, 2);
   (2233, 1);
   (2234, 2);
   (2236, 1);
   (2237, 1);
   (2238, 1);
   (2239, 3);
   (2242, 2);
   (2244, 2);
   (2246, 2);
   (2248, 2);
   (2250, 2);
   (2252, 1);
   (2253, 1);
   (2254, 3);
   (2257, 1);
   (2258, 2);
   (2260, 1);
   (2261, 2);
   (2263, 1);
   (2264, 1);
   (2265, 1);
   (2266, 1);
   (2267, 3);
   (2270, 2);
   (2272, 2);
   (2274, 2);
   (2276, 2);
   (2278, 2);
   (2280, 1);
   (2281, 1);
   (2282, 3);
   (2285, 1);
   (2286, 2);
   (2288, 1);
   (2289, 2);
   (2291, 1);
   (2292, 1);
   (2293, 1);
   (2294, 3);
   (2297, 2);
   (2299, 2);
   (2301, 2);
   (2303, 2);
   (2305, 2);
   (2307, 1);
   (2308, 1);
   (2309, 3);
   (2312, 1);
   (2313, 2);
   (2315, 1);
   (2316, 2);
   (2318, 1);
   (2319, 1);
   (2320, 1);
   (2321, 3);
   (2324, 2);
   (2326, 2);
   (2328, 2);
   (2330, 2);
   (2332, 2);
   (2334, 1);
   (2335, 1);
   (2336, 3);
   (2339, 1);
   (2340, 2);
   (2342, 1);
   (2343, 2);
   (2345, 1);
   (2346, 1);
   (2347, 1);
   (2348, 3);
   (2351, 2);
   (2353, 2);
   (2355, 2);
   (2357, 2);
   (2359, 2);
   (2361, 1);
   (2362, 1);
   (2363, 3);
   (2366, 1);
   (2367, 2);
   (2369, 1);
   (2370, 2);
   (2372, 1);
   (2373, 1);
   (2374, 1);
   (2375, 3);
   (2378, 2);
   (2380, 2);
   (2382, 2);
   (2384, 2);
   (2386, 2);
   (2388, 1);
   (2389, 1);
   (2390, 3);
   (2393, 1);
   (2394, 2);
   (2396, 1);
   (2397, 2);
   (2399, 1);
   (2400, 1);
   (2401, 1);
   (2402, 3);
   (2405, 2);
   (2407, 2);
   (2409, 2);
   (2411, 2);
   (2413, 2);
   (2415, 1);
   (2416, 1);
   (2417, 3);
   (2420, 1);
   (2421, 2);
   (2423, 1);
   (2424, 2);
   (2426, 1);
   (2427, 1);
   (2428, 1);
   (2429, 3);
   (2432, 2);
   (2434, 2);
   (2436, 2);
   (2438, 2);
   (2440, 2);
   (2442, 1);
   (2443, 1);
   (2444, 3);
   (2447, 1);
   (2448, 2);
   (2450, 1);
   (2451, 2);
   (2453, 1);
   (2454, 1);
   (2455, 1);
   (2456, 3)].
Definition SHAPE_RANGES_7 : list (Z * Z) :=
  [(2459, 2);
   (2461, 2);
   (2463, 2);
   (2465, 2);
   (2467, 2);
   (2469, 1);
   (2470, 1);
   (2471, 3);
   (2474, 1);
   (2475, 2);
   (2477, 1);
   (2478, 2);
   (2480, 1);
   (2481, 1);
   (2482, 1);
   (2483, 3);
   (2486, 2);
   (2488, 2);
   (2490, 2);
   (2492, 2);
   (2494, 2);
   (2496, 1);
   (2497, 1);
   (2498, 3);
   (2501, 1);
   (2502, 2);
   (2504, 1);
   (2505, 2);
   (2507, 1);
   (2508, 1);
   (2509, 1);
   (2510, 1);
   (2511, 1);
   (2512, 1);
   (2513, 5);
   (2518, 4);
   (2522, 5);
   (2527, 4);
   (2531, 4);
   (2535, 3);
   (2538, 4);
   (2542, 3);
   (2545, 4);
   (2549, 3);
   (2552, 4);
   (2556, 3);
   (2559, 3);
   (2562, 2);
   (2564, 3);
   (2567, 2);
   (2569, 4);
   (2573, 3);
   (2576, 4);
   (2580, 3);
   (2583, 3);
   (2586, 2);
   (2588, 3);
   (2591, 2);
   (2593, 3);
   (2596, 2);
   (2598, 3);
   (2601, 2);
   (2603, 2);
   (2605, 1);
   (2606, 2);
   (2608, 1);
   (2609, 4);
   (2613, 3);
   (2616, 3);
   (2619, 2);
   (2621, 3);
   (2624, 3);
   (2627, 2);
   (2629, 2);
   (2631, 3);
   (2634, 3);
   (2637, 2);
   (2639, 2);
   (2641, 2);
   (2643, 2);
   (2645, 1);
   (2646, 1);
   (2647, 4);
   (2651, 2);
   (2653, 3);
   (2656, 1);
   (2657, 3);
   (2660, 2);
   (2662, 2);
   (2664, 1);
   (2665, 3);
   (2668, 2);
   (2670, 2);
   (2672, 1);
   (2673, 2);
   (2675, 1);
   (2676, 1);
   (2677, 1);
   (2678, 1);
   (2679, 1);
   (2680, 1);
   (2681, 1);
   (2682, 1);
   (2683, 1);
   (2684, 1);
   (2685, 1);
   (2686, 1);
   (2687, 1);
   (2688, 1);
   (2689, 1);
   (2690, 1);
   (2691, 1);
   (2692, 1);
   (2693, 1);
   (2694, 1);
   (2695, 1);
   (2696, 1);
   (2697, 1);
   (2698, 1);
   (2699, 1);
   (2700, 1);
   (2701, 3);
   (2704, 3);
   (2707, 1);
   (2708, 1);
   (2709, 2);
   (2711, 4);
   (2715, 4);
   (2719, 1);
   (2720, 2);
   (2722, 2);
   (2724, 2);
   (2726, 4);
   (2730, 4);
   (2734, 1);
   (2735, 2);
   (2737, 2);
   (2739, 2);
   (2741, 4);
   (2745, 4);
   (2749, 1);
   (2750, 2);
   (2752, 2);
   (2754, 3);
   (2757, 5);
   (2762, 5);
   (2767, 1);
   (2768, 3);
   (2771, 3);
   (2774, 3)].
Definition SHAPE_RANGES_8 : list (Z * Z) :=
  [(2777, 5);
   (2782, 5);
   (2787, 1);
   (2788, 3);
   (2791, 3);
   (2794, 2);
   (2796, 4);
   (2800, 4);
   (2804, 1);
   (2805, 2);
   (2807, 2);
   (2809, 3);
   (2812, 5);
   (2817, 5);
   (2822, 1);
   (2823, 3);
   (2826, 3);
   (2829, 3);
   (2832, 5);
   (2837, 5);
   (2842, 1);
   (2843, 3);
   (2846, 3);
   (2849, 2);
   (2851, 3);
   (2854, 3);
   (2857, 1);
   (2858, 1);
   (2859, 1);
   (2860, 3);
   (2863, 4);
   (2867, 4);
   (2871, 2);
   (2873, 2);
   (2875, 2);
   (2877, 3);
   (2880, 4);
   (2884, 4);
   (2888, 2);
   (2890, 2);
   (2892, 2);
   (2894, 3);
   (2897, 4);
   (2901, 4);
   (2905, 2);
   (2907, 2);
   (2909, 2);
   (2911, 4);
   (2915, 5);
   (2920, 5);
   (2925, 2);
   (2927, 3);
   (2930, 3);
   (2933, 4);
   (2937, 5);
   (2942, 5);
   (2947, 2);
   (2949, 3);
   (2952, 3);
   (2955, 3);
   (2958, 4);
   (2962, 4);
   (2966, 2);
   (2968, 2);
   (2970, 2);
   (2972, 4);
   (2976, 5);
   (2981, 5);
   (2986, 2);
   (2988, 3);
   (2991, 3);
   (2994, 4);
   (2998, 5);
   (3003, 5);
   (3008, 2);
   (3010, 3);
   (3013, 3);
   (3016, 2);
   (3018, 3);
   (3021, 3);
   (3024, 1);
   (3025, 1);
   (3026, 1);
   (3027, 3);
   (3030, 4);
   (3034, 4);
   (3038, 2);
   (3040, 2);
   (3042, 2);
   (3044, 3);
   (3047, 4);
   (3051, 4);
   (3055, 2);
   (3057, 2);
   (3059, 2);
   (3061, 3);
   (3064, 4);
   (3068, 4);
   (3072, 2);
   (3074, 2);
   (3076, 2);
   (3078, 4);
   (3082, 5);
   (3087, 5);
   (3092, 2);
   (3094, 3);
   (3097, 3);
   (3100, 4);
   (3104, 5);
   (3109, 5);
   (3114, 2);
   (3116, 3);
   (3119, 3);
   (3122, 3);
   (3125, 4);
   (3129, 4);
   (3133, 2);
   (3135, 2);
   (3137, 2);
   (3139, 4);
   (3143, 5);
   (3148, 5);
   (3153, 2);
   (3155, 3);
   (3158, 3);
   (3161, 4);
   (3165, 5);
   (3170, 5);
   (3175, 2);
   (3177, 3);
   (3180, 3);
   (3183, 1);
   (3184, 3);
   (3187, 3);
   (3190, 1);
   (3191, 1);
   (3192, 2);
   (3194, 4);
   (3198, 4);
   (3202, 1);
   (3203, 2);
   (3205, 2);
   (3207, 2);
   (3209, 4);
   (3213, 4);
   (3217, 1);
   (3218, 2);
   (3220, 2);
   (3222, 2);
   (3224, 4)].
Definition SHAPE_RANGES_9 : list (Z * Z) :=
  [(3228, 4);
   (3232, 1);
   (3233, 2);
   (3235, 2);
   (3237, 3);
   (3240, 5);
   (3245, 5);
   (3250, 1);
   (3251, 3);
   (3254, 3);
   (3257, 3);
   (3260, 5);
   (3265, 5);
   (3270, 1);
   (3271, 3);
   (3274, 3);
   (3277, 2);
   (3279, 4);
   (3283, 4);
   (3287, 1);
   (3288, 2);
   (3290, 2);
   (3292, 3);
   (3295, 5);
   (3300, 5);
   (3305, 1);
   (3306, 3);
   (3309, 3);
   (3312, 3);
   (3315, 5);
   (3320, 5);
   (3325, 1);
   (3326, 3);
   (3329, 3);
   (3332, 2);
   (3334, 3);
   (3337, 3);
   (3340, 1);
   (3341, 1);
   (3342, 1);
   (3343, 3);
   (3346, 4);
   (3350, 4);
   (3354, 2);
   (3356, 2);
   (3358, 2);
   (3360, 3);
   (3363, 4);
   (3367, 4);
   (3371, 2);
   (3373, 2);
   (3375, 2);
   (3377, 3);
   (3380, 4);
   (3384, 4);
   (3388, 2);
   (3390, 2);
   (3392, 2);
   (3394, 4);
   (3398, 5);
   (3403, 5);
   (3408, 2);
   (3410, 3);
   (3413, 3);
   (3416, 4);
   (3420, 5);
   (3425, 5);
   (3430, 2);
   (3432, 3);
   (3435, 3);
   (3438, 3);
   (3441, 4);
   (3445, 4);
   (3449, 2);
   (3451, 2);
   (3453, 2);
   (3455, 4);
   (3459, 5);
   (3464, 5);
   (3469, 2);
   (3471, 3);
   (3474, 3);
   (3477, 4);
   (3481, 5);
   (3486, 5);
   (3491, 2);
   (3493, 3);
   (3496, 3);
   (3499, 2);
   (3501, 3);
   (3504, 3);
   (3507, 1);
   (3508, 1);
   (3509, 1);
   (3510, 3);
   (3513, 4);
   (3517, 4);
   (3521, 2);
   (3523, 2);
   (3525, 2);
   (3527, 3);
   (3530, 4);
   (3534, 4);
   (3538, 2);
   (3540, 2);
   (3542, 2);
   (3544, 3);
   (3547, 4);
   (3551, 4);
   (3555, 2);
   (3557, 2);
   (3559, 2);
   (3561, 4);
   (3565, 5);
   (3570, 5);
   (3575, 2);
   (3577, 3);
   (3580, 3);
   (3583, 4);
   (3587, 5);
   (3592, 5);
   (3597, 2);
   (3599, 3);
   (3602, 3);
   (3605, 3);
   (3608, 4);
   (3612, 4);
   (3616, 2);
   (3618, 2);
   (3620, 2);
   (3622, 4);
   (3626, 5);
   (3631, 5);
   (3636, 2);
   (3638, 3);
   (3641, 3);
   (3644, 4);
   (3648, 5);
   (3653, 5);
   (3658, 2);
   (3660, 3);
   (3663, 3);
   (3666, 1);
   (3667, 3);
   (3670, 3);
   (3673, 1);
   (3674, 1);
   (3675, 2);
   (3677, 4);
   (3681, 4)].
Definition SHAPE_RANGES_10 : list (Z * Z) :=
  [(3685, 1);
   (3686, 2);
   (3688, 2);
   (3690, 2);
   (3692, 4);
   (3696, 4);
   (3700, 1);
   (3701, 2);
   (3703, 2);
   (3705, 2);
   (3707, 4);
   (3711, 4);
   (3715, 1);
   (3716, 2);
   (3718, 2);
   (3720, 3);
   (3723, 5);
   (3728, 5);
   (3733, 1);
   (3734, 3);
   (3737, 3);
   (3740, 3);
   (3743, 5);
   (3748, 5);
   (3753, 1);
   (3754, 3);
   (3757, 3);
   (3760, 2);
   (3762, 4);
   (3766, 4);
   (3770, 1);
   (3771, 2);
   (3773, 2);
   (3775, 3);
   (3778, 5);
   (3783, 5);
   (3788, 1);
   (3789, 3);
   (3792, 3);
   (3795, 3);
   (3798, 5);
   (3803, 5);
   (3808, 1);
   (3809, 3);
   (3812, 3);
   (3815, 2);
   (3817, 3);
   (3820, 3);
   (3823, 1);
   (3824, 1);
   (3825, 1);
   (3826, 3);
   (3829, 4);
   (3833, 4);
   (3837, 2);
   (3839, 2);
   (3841, 2);
   (3843, 3);
   (3846, 4);
   (3850, 4);
   (3854, 2);
   (3856, 2);
   (3858, 2);
   (3860, 3);
   (3863, 4);
   (3867, 4);
   (3871, 2);
   (3873, 2);
   (3875, 2);
   (3877, 4);
   (3881, 5);
   (3886, 5);
   (3891, 2);
   (3893, 3);
   (3896, 3);
   (3899, 4);
   (3903, 5);
   (3908, 5);
   (3913, 2);
   (3915, 3);
   (3918, 3);
   (3921, 3);
   (3924, 4);
   (3928, 4);
   (3932, 2);
   (3934, 2);
   (3936, 2);
   (3938, 4);
   (3942, 5);
   (3947, 5);
   (3952, 2);
   (3954, 3);
   (3957, 3);
   (3960, 4);
   (3964, 5);
   (3969, 5);
   (3974, 2);
   (3976, 3);
   (3979, 3);
   (3982, 2);
   (3984, 3);
   (3987, 3);
   (3990, 1);
   (3991, 1);
   (3992, 1);
   (3993, 3);
   (3996, 4);
   (4000, 4);
   (4004, 2);
   (4006, 2);
   (4008, 2);
   (4010, 3);
   (4013, 4);
   (4017, 4);
   (4021, 2);
   (4023, 2);
   (4025, 2);
   (4027, 3);
   (4030, 4);
   (4034, 4);
   (4038, 2);
   (4040, 2);
   (4042, 2);
   (4044, 4);
   (4048, 5);
   (4053, 5);
   (4058, 2);
   (4060, 3);
   (4063, 3);
   (4066, 4);
   (4070, 5);
   (4075, 5);
   (4080, 2);
   (4082, 3);
   (4085, 3);
   (4088, 3);
   (4091, 4);
   (4095, 4);
   (4099, 2);
   (4101, 2);
   (4103, 2);
   (4105, 4);
   (4109, 5);
   (4114, 5);
   (4119, 2);
   (4121, 3);
   (4124, 3);
   (4127, 4);
   (4131, 5);
   (4136, 5)].
Definition SHAPE_RANGES_11 : list (Z * Z) :=
  [(4141, 2);
   (4143, 3);
   (4146, 3);
   (4149, 1);
   (4150, 3);
   (4153, 3);
   (4156, 1);
   (4157, 1);
   (4158, 2);
   (4160, 4);
   (4164, 4);
   (4168, 1);
   (4169, 2);
   (4171, 2);
   (4173, 2);
   (4175, 4);
   (4179, 4);
   (4183, 1);
   (4184, 2);
   (4186, 2);
   (4188, 2);
   (4190, 4);
   (4194, 4);
   (4198, 1);
   (4199, 2);
   (4201, 2);
   (4203, 3);
   (4206, 5);
   (4211, 5);
   (4216, 1);
   (4217, 3);
   (4220, 3);
   (4223, 3);
   (4226, 5);
   (4231, 5);
   (4236, 1);
   (4237, 3);
   (4240, 3);
   (4243, 2);
   (4245, 4);
   (4249, 4);
   (4253, 1);
   (4254, 2);
   (4256, 2);
   (4258, 3);
   (4261, 5);
   (4266, 5);
   (4271, 1);
   (4272, 3);
   (4275, 3);
   (4278, 3);
   (4281, 5);
   (4286, 5);
   (4291, 1);
   (4292, 3);
   (4295, 3);
   (4298, 2);
   (4300, 3);
   (4303, 3);
   (4306, 1);
   (4307, 1);
   (4308, 1);
   (4309, 3);
   (4312, 4);
   (4316, 4);
   (4320, 2);
   (4322, 2);
   (4324, 2);
   (4326, 3);
   (4329, 4);
   (4333, 4);
   (4337, 2);
   (4339, 2);
   (4341, 2);
   (4343, 3);
   (4346, 4);
   (4350, 4);
   (4354, 2);
   (4356, 2);
   (4358, 2);
   (4360, 4);
   (4364, 5);
   (4369, 5);
   (4374, 2);
   (4376, 3);
   (4379, 3);
   (4382, 4);
   (4386, 5);
   (4391, 5);
   (4396, 2);
   (4398, 3);
   (4401, 3);
   (4404, 3);
   (4407, 4);
   (4411, 4);
   (4415, 2);
   (4417, 2);
   (4419, 2);
   (4421, 4);
   (4425, 5);
   (4430, 5);
   (4435, 2);
   (4437, 3);
   (4440, 3);
   (4443, 4);
   (4447, 5);
   (4452, 5);
   (4457, 2);
   (4459, 3);
   (4462, 3);
   (4465, 2);
   (4467, 3);
   (4470, 3);
   (4473, 1);
   (4474, 1);
   (4475, 1);
   (4476, 3);
   (4479, 4);
   (4483, 4);
   (4487, 2);
   (4489, 2);
   (4491, 2);
   (4493, 3);
   (4496, 4);
   (4500, 4);
   (4504, 2);
   (4506, 2);
   (4508, 2);
   (4510, 3);
   (4513, 4);
   (4517, 4);
   (4521, 2);
   (4523, 2);
   (4525, 2);
   (4527, 4);
   (4531, 5);
   (4536, 5);
   (4541, 2);
   (4543, 3);
   (4546, 3);
   (4549, 4);
   (4553, 5);
   (4558, 5);
   (4563, 2);
   (4565, 3);
   (4568, 3);
   (4571, 3);
   (4574, 4);
   (4578, 4);
   (4582, 2)].
Definition SHAPE_RANGES_12 : list (Z * Z) :=
  [(4584, 2);
   (4586, 2);
   (4588, 4);
   (4592, 5);
   (4597, 5);
   (4602, 2);
   (4604, 3);
   (4607, 3);
   (4610, 4);
   (4614, 5);
   (4619, 5);
   (4624, 2);
   (4626, 3);
   (4629, 3);
   (4632, 1);
   (4633, 3);
   (4636, 3);
   (4639, 1);
   (4640, 1);
   (4641, 2);
   (4643, 4);
   (4647, 4);
   (4651, 1);
   (4652, 2);
   (4654, 2);
   (4656, 2);
   (4658, 4);
   (4662, 4);
   (4666, 1);
   (4667, 2);
   (4669, 2);
   (4671, 2);
   (4673, 4);
   (4677, 4);
   (4681, 1);
   (4682, 2);
   (4684, 2);
   (4686, 3);
   (4689, 5);
   (4694, 5);
   (4699, 1);
   (4700, 3);
   (4703, 3);
   (4706, 3);
   (4709, 5);
   (4714, 5);
   (4719, 1);
   (4720, 3);
   (4723, 3);
   (4726, 2);
   (4728, 4);
   (4732, 4);
   (4736, 1);
   (4737, 2);
   (4739, 2);
   (4741, 3);
   (4744, 5);
   (4749, 5);
   (4754, 1);
   (4755, 3);
   (4758, 3);
   (4761, 3);
   (4764, 5);
   (4769, 5);
   (4774, 1);
   (4775, 3);
   (4778, 3);
   (4781, 2);
   (4783, 3);
   (4786, 3);
   (4789, 1);
   (4790, 1);
   (4791, 1);
   (4792, 3);
   (4795, 4);
   (4799, 4);
   (4803, 2);
   (4805, 2);
   (4807, 2);
   (4809, 3);
   (4812, 4);
   (4816, 4);
   (4820, 2);
   (4822, 2);
   (4824, 2);
   (4826, 3);
   (4829, 4);
   (4833, 4);
   (4837, 2);
   (4839, 2);
   (4841, 2);
   (4843, 4);
   (4847, 5);
   (4852, 5);
   (4857, 2);
   (4859, 3);
   (4862, 3);
   (4865, 4);
   (4869, 5);
   (4874, 5);
   (4879, 2);
   (4881, 3);
   (4884, 3);
   (4887, 3);
   (4890, 4);
   (4894, 4);
   (4898, 2);
   (4900, 2);
   (4902, 2);
   (4904, 4);
   (4908, 5);
   (4913, 5);
   (4918, 2);
   (4920, 3);
   (4923, 3);
   (4926, 4);
   (4930, 5);
   (4935, 5);
   (4940, 2);
   (4942, 3);
   (4945, 3);
   (4948, 2);
   (4950, 3);
   (4953, 3);
   (4956, 1);
   (4957, 1);
   (4958, 1);
   (4959, 3);
   (4962, 4);
   (4966, 4);
   (4970, 2);
   (4972, 2);
   (4974, 2);
   (4976, 3);
   (4979, 4);
   (4983, 4);
   (4987, 2);
   (4989, 2);
   (4991, 2);
   (4993, 3);
   (4996, 4);
   (5000, 4);
   (5004, 2);
   (5006, 2);
   (5008, 2);
   (5010, 4);
   (5014, 5);
   (5019, 5);
   (5024, 2);
   (5026, 3)].
Definition SHAPE_RANGES_13 : list (Z * Z) :=
  [(5029, 3);
   (5032, 4);
   (5036, 5);
   (5041, 5);
   (5046, 2);
   (5048, 3);
   (5051, 3);
   (5054, 3);
   (5057, 4);
   (5061, 4);
   (5065, 2);
   (5067, 2);
   (5069, 2);
   (5071, 4);
   (5075, 5);
   (5080, 5);
   (5085, 2);
   (5087, 3);
   (5090, 3);
   (5093, 4);
   (5097, 5);
   (5102, 5);
   (5107, 2);
   (5109, 3);
   (5112, 3);
   (5115, 1);
   (5116, 3);
   (5119, 3);
   (5122, 1);
   (5123, 1);
   (5124, 2);
   (5126, 4);
   (5130, 4);
   (5134, 1);
   (5135, 2);
   (5137, 2);
   (5139, 2);
   (5141, 4);
   (5145, 4);
   (5149, 1);
   (5150, 2);
   (5152, 2);
   (5154, 2);
   (5156, 4);
   (5160, 4);
   (5164, 1);
   (5165, 2);
   (5167, 2);
   (5169, 3);
   (5172, 5);
   (5177, 5);
   (5182, 1);
   (5183, 3);
   (5186, 3);
   (5189, 3);
   (5192, 5);
   (5197, 5);
   (5202, 1);
   (5203, 3);
   (5206, 3);
   (5209, 2);
   (5211, 4);
   (5215, 4);
   (5219, 1);
   (5220, 2);
   (5222, 2);
   (5224, 3);
   (5227, 5);
   (5232, 5);
   (5237, 1);
   (5238, 3);
   (5241, 3);
   (5244, 3);
   (5247, 5);
   (5252, 5);
   (5257, 1);
   (5258, 3);
   (5261, 3);
   (5264, 2);
   (5266, 3);
   (5269, 3);
   (5272, 1);
   (5273, 1);
   (5274, 1);
   (5275, 3);
   (5278, 4);
   (5282, 4);
   (5286, 2);
   (5288, 2);
   (5290, 2);
   (5292, 3);
   (5295, 4);
   (5299, 4);
   (5303, 2);
   (5305, 2);
   (5307, 2);
   (5309, 3);
   (5312, 4);
   (5316, 4);
   (5320, 2);
   (5322, 2);
   (5324, 2);
   (5326, 4);
   (5330, 5);
   (5335, 5);
   (5340, 2);
   (5342, 3);
   (5345, 3);
   (5348, 4);
   (5352, 5);
   (5357, 5);
   (5362, 2);
   (5364, 3);
   (5367, 3);
   (5370, 3);
   (5373, 4);
   (5377, 4);
   (5381, 2);
   (5383, 2);
   (5385, 2);
   (5387, 4);
   (5391, 5);
   (5396, 5);
   (5401, 2);
   (5403, 3);
   (5406, 3);
   (5409, 4);
   (5413, 5);
   (5418, 5);
   (5423, 2);
   (5425, 3);
   (5428, 3);
   (5431, 2);
   (5433, 3);
   (5436, 3);
   (5439, 1);
   (5440, 1);
   (5441, 1);
   (5442, 3);
   (5445, 4);
   (5449, 4);
   (5453, 2);
   (5455, 2);
   (5457, 2);
   (5459, 3);
   (5462, 4);
   (5466, 4);
   (5470, 2);
   (5472, 2);
   (5474, 2)].
Definition SHAPE_RANGES_14 : list (Z * Z) :=
  [(5476, 3);
   (5479, 4);
   (5483, 4);
   (5487, 2);
   (5489, 2);
   (5491, 2);
   (5493, 4);
   (5497, 5);
   (5502, 5);
   (5507, 2);
   (5509, 3);
   (5512, 3);
   (5515, 4);
   (5519, 5);
   (5524, 5);
   (5529, 2);
   (5531, 3);
   (5534, 3);
   (5537, 3);
   (5540, 4);
   (5544, 4);
   (5548, 2);
   (5550, 2);
   (5552, 2);
   (5554, 4);
   (5558, 5);
   (5563, 5);
   (5568, 2);
   (5570, 3);
   (5573, 3);
   (5576, 4);
   (5580, 5);
   (5585, 5);
   (5590, 2);
   (5592, 3);
   (5595, 3);
   (5598, 1);
   (5599, 3);
   (5602, 3);
   (5605, 1);
   (5606, 1);
   (5607, 2);
   (5609, 4);
   (5613, 4);
   (5617, 1);
   (5618, 2);
   (5620, 2);
   (5622, 2);
   (5624, 4);
   (5628, 4);
   (5632, 1);
   (5633, 2);
   (5635, 2);
   (5637, 2);
   (5639, 4);
   (5643, 4);
   (5647, 1);
   (5648, 2);
   (5650, 2);
   (5652, 3);
   (5655, 5);
   (5660, 5);
   (5665, 1);
   (5666, 3);
   (5669, 3);
   (5672, 3);
   (5675, 5);
   (5680, 5);
   (5685, 1);
   (5686, 3);
   (5689, 3);
   (5692, 2);
   (5694, 4);
   (5698, 4);
   (5702, 1);
   (5703, 2);
   (5705, 2);
   (5707, 3);
   (5710, 5);
   (5715, 5);
   (5720, 1);
   (5721, 3);
   (5724, 3);
   (5727, 3);
   (5730, 5);
   (5735, 5);
   (5740, 1);
   (5741, 3);
   (5744, 3);
   (5747, 2);
   (5749, 3);
   (5752, 3);
   (5755, 1);
   (5756, 1);
   (5757, 1);
   (5758, 3);
   (5761, 4);
   (5765, 4);
   (5769, 2);
   (5771, 2);
   (5773, 2);
   (5775, 3);
   (5778, 4);
   (5782, 4);
   (5786, 2);
   (5788, 2);
   (5790, 2);
   (5792, 3);
   (5795, 4);
   (5799, 4);
   (5803, 2);
   (5805, 2);
   (5807, 2);
   (5809, 4);
   (5813, 5);
   (5818, 5);
   (5823, 2);
   (5825, 3);
   (5828, 3);
   (5831, 4);
   (5835, 5);
   (5840, 5);
   (5845, 2);
   (5847, 3);
   (5850, 3);
   (5853, 3);
   (5856, 4);
   (5860, 4);
   (5864, 2);
   (5866, 2);
   (5868, 2);
   (5870, 4);
   (5874, 5);
   (5879, 5);
   (5884, 2);
   (5886, 3);
   (5889, 3);
   (5892, 4);
   (5896, 5);
   (5901, 5);
   (5906, 2);
   (5908, 3);
   (5911, 3);
   (5914, 2);
   (5916, 3);
   (5919, 3);
   (5922, 1);
   (5923, 1);
   (5924, 1);
   (5925, 3)].
Definition SHAPE_RANGES_15 : list (Z * Z) :=
  [(5928, 4);
   (5932, 4);
   (5936, 2);
   (5938, 2);
   (5940, 2);
   (5942, 3);
   (5945, 4);
   (5949, 4);
   (5953, 2);
   (5955, 2);
   (5957, 2);
   (5959, 3);
   (5962, 4);
   (5966, 4);
   (5970, 2);
   (5972, 2);
   (5974, 2);
   (5976, 4);
   (5980, 5);
   (5985, 5);
   (5990, 2);
   (5992, 3);
   (5995, 3);
   (5998, 4);
   (6002, 5);
   (6007, 5);
   (6012, 2);
   (6014, 3);
   (6017, 3);
   (6020, 3);
   (6023, 4);
   (6027, 4);
   (6031, 2);
   (6033, 2);
   (6035, 2);
   (6037, 4);
   (6041, 5);
   (6046, 5);
   (6051, 2);
   (6053, 3);
   (6056, 3);
   (6059, 4);
   (6063, 5);
   (6068, 5);
   (6073, 2);
   (6075, 3);
   (6078, 3);
   (6081, 1);
   (6082, 3);
   (6085, 3);
   (6088, 1);
   (6089, 1);
   (6090, 2);
   (6092, 4);
   (6096, 4);
   (6100, 1);
   (6101, 2);
   (6103, 2);
   (6105, 2);
   (6107, 4);
   (6111, 4);
   (6115, 1);
   (6116, 2);
   (6118, 2);
   (6120, 2);
   (6122, 4);
   (6126, 4);
   (6130, 1);
   (6131, 2);
   (6133, 2);
   (6135, 3);
   (6138, 5);
   (6143, 5);
   (6148, 1);
   (6149, 3);
   (6152, 3);
   (6155, 3);
   (6158, 5);
   (6163, 5);
   (6168, 1);
   (6169, 3);
   (6172, 3);
   (6175, 2);
   (6177, 4);
   (6181, 4);
   (6185, 1);
   (6186, 2);
   (6188, 2);
   (6190, 3);
   (6193, 5);
   (6198, 5);
   (6203, 1);
   (6204, 3);
   (6207, 3);
   (6210, 3);
   (6213, 5);
   (6218, 5);
   (6223, 1);
   (6224, 3);
   (6227, 3);
   (6230, 2);
   (6232, 3);
   (6235, 3);
   (6238, 1);
   (6239, 1);
   (6240, 1);
   (6241, 3);
   (6244, 4);
   (6248, 4);
   (6252, 2);
   (6254, 2);
   (6256, 2);
   (6258, 3);
   (6261, 4);
   (6265, 4);
   (6269, 2);
   (6271, 2);
   (6273, 2);
   (6275, 3);
   (6278, 4);
   (6282, 4);
   (6286, 2);
   (6288, 2);
   (6290, 2);
   (6292, 4);
   (6296, 5);
   (6301, 5);
   (6306, 2);
   (6308, 3);
   (6311, 3);
   (6314, 4);
   (6318, 5);
   (6323, 5);
   (6328, 2);
   (6330, 3);
   (6333, 3);
   (6336, 3);
   (6339, 4);
   (6343, 4);
   (6347, 2);
   (6349, 2);
   (6351, 2);
   (6353, 4);
   (6357, 5);
   (6362, 5);
   (6367, 2);
   (6369, 3);
   (6372, 3);
   (6375, 4);
   (6379, 5)].
Definition SHAPE_RANGES_16 : list (Z * Z) :=
  [(6384, 5);
   (6389, 2);
   (6391, 3);
   (6394, 3);
   (6397, 2);
   (6399, 3);
   (6402, 3);
   (6405, 1);
   (6406, 1);
   (6407, 1);
   (6408, 3);
   (6411, 4);
   (6415, 4);
   (6419, 2);
   (6421, 2);
   (6423, 2);
   (6425, 3);
   (6428, 4);
   (6432, 4);
   (6436, 2);
   (6438, 2);
   (6440, 2);
   (6442, 3);
   (6445, 4);
   (6449, 4);
   (6453, 2);
   (6455, 2);
   (6457, 2);
   (6459, 4);
   (6463, 5);
   (6468, 5);
   (6473, 2);
   (6475, 3);
   (6478, 3);
   (6481, 4);
   (6485, 5);
   (6490, 5);
   (6495, 2);
   (6497, 3);
   (6500, 3);
   (6503, 3);
   (6506, 4);
   (6510, 4);
   (6514, 2);
   (6516, 2);
   (6518, 2);
   (6520, 4);
   (6524, 5);
   (6529, 5);
   (6534, 2);
   (6536, 3);
   (6539, 3);
   (6542, 4);
   (6546, 5);
   (6551, 5);
   (6556, 2);
   (6558, 3);
   (6561, 3);
   (6564, 1);
   (6565, 3);
   (6568, 3);
   (6571, 1);
   (6572, 1);
   (6573, 2);
   (6575, 4);
   (6579, 4);
   (6583, 1);
   (6584, 2);
   (6586, 2);
   (6588, 2);
   (6590, 4);
   (6594, 4);
   (6598, 1);
   (6599, 2);
   (6601, 2);
   (6603, 2);
   (6605, 4);
   (6609, 4);
   (6613, 1);
   (6614, 2);
   (6616, 2);
   (6618, 3);
   (6621, 5);
   (6626, 5);
   (6631, 1);
   (6632, 3);
   (6635, 3);
   (6638, 3);
   (6641, 5);
   (6646, 5);
   (6651, 1);
   (6652, 3);
   (6655, 3);
   (6658, 2);
   (6660, 4);
   (6664, 4);
   (6668, 1);
   (6669, 2);
   (6671, 2);
   (6673, 3);
   (6676, 5);
   (6681, 5);
   (6686, 1);
   (6687, 3);
   (6690, 3);
   (6693, 3);
   (6696, 5);
   (6701, 5);
   (6706, 1);
   (6707, 3);
   (6710, 3);
   (6713, 2);
   (6715, 3);
   (6718, 3);
   (6721, 1);
   (6722, 1);
   (6723, 1);
   (6724, 3);
   (6727, 4);
   (6731, 4);
   (6735, 2);
   (6737, 2);
   (6739, 2);
   (6741, 3);
   (6744, 4);
   (6748, 4);
   (6752, 2);
   (6754, 2);
   (6756, 2);
   (6758, 3);
   (6761, 4);
   (6765, 4);
   (6769, 2);
   (6771, 2);
   (6773, 2);
   (6775, 4);
   (6779, 5);
   (6784, 5);
   (6789, 2);
   (6791, 3);
   (6794, 3);
   (6797, 4);
   (6801, 5);
   (6806, 5);
   (6811, 2);
   (6813, 3);
   (6816, 3);
   (6819, 3);
   (6822, 4);
   (6826, 4)].
Definition SHAPE_RANGES_17 : list (Z * Z) :=
  [(6830, 2);
   (6832, 2);
   (6834, 2);
   (6836, 4);
   (6840, 5);
   (6845, 5);
   (6850, 2);
   (6852, 3);
   (6855, 3);
   (6858, 4);
   (6862, 5);
   (6867, 5);
   (6872, 2);
   (6874, 3);
   (6877, 3);
   (6880, 2);
   (6882, 3);
   (6885, 3);
   (6888, 1);
   (6889, 1);
   (6890, 1);
   (6891, 3);
   (6894, 4);
   (6898, 4);
   (6902, 2);
   (6904, 2);
   (6906, 2);
   (6908, 3);
   (6911, 4);
   (6915, 4);
   (6919, 2);
   (6921, 2);
   (6923, 2);
   (6925, 3);
   (6928, 4);
   (6932, 4);
   (6936, 2);
   (6938, 2);
   (6940, 2);
   (6942, 4);
   (6946, 5);
   (6951, 5);
   (6956, 2);
   (6958, 3);
   (6961, 3);
   (6964, 4);
   (6968, 5);
   (6973, 5);
   (6978, 2);
   (6980, 3);
   (6983, 3);
   (6986, 3);
   (6989, 4);
   (6993, 4);
   (6997, 2);
   (6999, 2);
   (7001, 2);
   (7003, 4);
   (7007, 5);
   (7012, 5);
   (7017, 2);
   (7019, 3);
   (7022, 3);
   (7025, 4);
   (7029, 5);
   (7034, 5);
   (7039, 2);
   (7041, 3);
   (7044, 3);
   (7047, 1);
   (7048, 3);
   (7051, 3);
   (7054, 1);
   (7055, 1);
   (7056, 2);
   (7058, 4);
   (7062, 4);
   (7066, 1);
   (7067, 2);
   (7069, 2);
   (7071, 2);
   (7073, 4);
   (7077, 4);
   (7081, 1);
   (7082, 2);
   (7084, 2);
   (7086, 2);
   (7088, 4);
   (7092, 4);
   (7096, 1);
   (7097, 2);
   (7099, 2);
   (7101, 3);
   (7104, 5);
   (7109, 5);
   (7114, 1);
   (7115, 3);
   (7118, 3);
   (7121, 3);
   (7124, 5);
   (7129, 5);
   (7134, 1);
   (7135, 3);
   (7138, 3);
   (7141, 2);
   (7143, 4);
   (7147, 4);
   (7151, 1);
   (7152, 2);
   (7154, 2);
   (7156, 3);
   (7159, 5);
   (7164, 5);
   (7169, 1);
   (7170, 3);
   (7173, 3);
   (7176, 3);
   (7179, 5);
   (7184, 5);
   (7189, 1);
   (7190, 3);
   (7193, 3);
   (7196, 2);
   (7198, 3);
   (7201, 3);
   (7204, 1);
   (7205, 1);
   (7206, 1);
   (7207, 3);
   (7210, 4);
   (7214, 4);
   (7218, 2);
   (7220, 2);
   (7222, 2);
   (7224, 3);
   (7227, 4);
   (7231, 4);
   (7235, 2);
   (7237, 2);
   (7239, 2);
   (7241, 3);
   (7244, 4);
   (7248, 4);
   (7252, 2);
   (7254, 2);
   (7256, 2);
   (7258, 4);
   (7262, 5);
   (7267, 5);
   (7272, 2)].
Definition SHAPE_RANGES_18 : list (Z * Z) :=
  [(7274, 3);
   (7277, 3);
   (7280, 4);
   (7284, 5);
   (7289, 5);
   (7294, 2);
   (7296, 3);
   (7299, 3);
   (7302, 3);
   (7305, 4);
   (7309, 4);
   (7313, 2);
   (7315, 2);
   (7317, 2);
   (7319, 4);
   (7323, 5);
   (7328, 5);
   (7333, 2);
   (7335, 3);
   (7338, 3);
   (7341, 4);
   (7345, 5);
   (7350, 5);
   (7355, 2);
   (7357, 3);
   (7360, 3);
   (7363, 2);
   (7365, 3);
   (7368, 3);
   (7371, 1);
   (7372, 1);
   (7373, 1);
   (7374, 3);
   (7377, 4);
   (7381, 4);
   (7385, 2);
   (7387, 2);
   (7389, 2);
   (7391, 3);
   (7394, 4);
   (7398, 4);
   (7402, 2);
   (7404, 2);
   (7406, 2);
   (7408, 3);
   (7411, 4);
   (7415, 4);
   (7419, 2);
   (7421, 2);
   (7423, 2);
   (7425, 4);
   (7429, 5);
   (7434, 5);
   (7439, 2);
   (7441, 3);
   (7444, 3);
   (7447, 4);
   (7451, 5);
   (7456, 5);
   (7461, 2);
   (7463, 3);
   (7466, 3);
   (7469, 3);
   (7472, 4);
   (7476, 4);
   (7480, 2);
   (7482, 2);
   (7484, 2);
   (7486, 4);
   (7490, 5);
   (7495, 5);
   (7500, 2);
   (7502, 3);
   (7505, 3);
   (7508, 4);
   (7512, 5);
   (7517, 5);
   (7522, 2);
   (7524, 3);
   (7527, 3);
   (7530, 1);
   (7531, 3);
   (7534, 3);
   (7537, 1);
   (7538, 1);
   (7539, 2);
   (7541, 4);
   (7545, 4);
   (7549, 1);
   (7550, 2);
   (7552, 2);
   (7554, 2);
   (7556, 4);
   (7560, 4);
   (7564, 1);
   (7565, 2);
   (7567, 2);
   (7569, 2);
   (7571, 4);
   (7575, 4);
   (7579, 1);
   (7580, 2);
   (7582, 2);
   (7584, 3);
   (7587, 5);
   (7592, 5);
   (7597, 1);
   (7598, 3);
   (7601, 3);
   (7604, 3);
   (7607, 5);
   (7612, 5);
   (7617, 1);
   (7618, 3);
   (7621, 3);
   (7624, 2);
   (7626, 4);
   (7630, 4);
   (7634, 1);
   (7635, 2);
   (7637, 2);
   (7639, 3);
   (7642, 5);
   (7647, 5);
   (7652, 1);
   (7653, 3);
   (7656, 3);
   (7659, 3);
   (7662, 5);
   (7667, 5);
   (7672, 1);
   (7673, 3);
   (7676, 3);
   (7679, 2);
   (7681, 3);
   (7684, 3);
   (7687, 1);
   (7688, 1);
   (7689, 1);
   (7690, 3);
   (7693, 4);
   (7697, 4);
   (7701, 2);
   (7703, 2);
   (7705, 2);
   (7707, 3);
   (7710, 4);
   (7714, 4);
   (7718, 2);
   (7720, 2)].
Definition SHAPE_RANGES_19 : list (Z * Z) :=
  [(7722, 2);
   (7724, 3);
   (7727, 4);
   (7731, 4);
   (7735, 2);
   (7737, 2);
   (7739, 2);
   (7741, 4);
   (7745, 5);
   (7750, 5);
   (7755, 2);
   (7757, 3);
   (7760, 3);
   (7763, 4);
   (7767, 5);
   (7772, 5);
   (7777, 2);
   (7779, 3);
   (7782, 3);
   (7785, 3);
   (7788, 4);
   (7792, 4);
   (7796, 2);
   (7798, 2);
   (7800, 2);
   (7802, 4);
   (7806, 5);
   (7811, 5);
   (7816, 2);
   (7818, 3);
   (7821, 3);
   (7824, 4);
   (7828, 5);
   (7833, 5);
   (7838, 2);
   (7840, 3);
   (7843, 3);
   (7846, 2);
   (7848, 3);
   (7851, 3);
   (7854, 1);
   (7855, 1);
   (7856, 1);
   (7857, 3);
   (7860, 4);
   (7864, 4);
   (7868, 2);
   (7870, 2);
   (7872, 2);
   (7874, 3);
   (7877, 4);
   (7881, 4);
   (7885, 2);
   (7887, 2);
   (7889, 2);
   (7891, 3);
   (7894, 4);
   (7898, 4);
   (7902, 2);
   (7904, 2);
   (7906, 2);
   (7908, 4);
   (7912, 5);
   (7917, 5);
   (7922, 2);
   (7924, 3);
   (7927, 3);
   (7930, 4);
   (7934, 5);
   (7939, 5);
   (7944, 2);
   (7946, 3);
   (7949, 3);
   (7952, 3);
   (7955, 4);
   (7959, 4);
   (7963, 2);
   (7965, 2);
   (7967, 2);
   (7969, 4);
   (7973, 5);
   (7978, 5);
   (7983, 2);
   (7985, 3);
   (7988, 3);
   (7991, 4);
   (7995, 5);
   (8000, 5);
   (8005, 2);
   (8007, 3);
   (8010, 3);
   (8013, 1);
   (8014, 3);
   (8017, 3);
   (8020, 1);
   (8021, 1);
   (8022, 2);
   (8024, 4);
   (8028, 4);
   (8032, 1);
   (8033, 2);
   (8035, 2);
   (8037, 2);
   (8039, 4);
   (8043, 4);
   (8047, 1);
   (8048, 2);
   (8050, 2);
   (8052, 2);
   (8054, 4);
   (8058, 4);
   (8062, 1);
   (8063, 2);
   (8065, 2);
   (8067, 3);
   (8070, 5);
   (8075, 5);
   (8080, 1);
   (8081, 3);
   (8084, 3);
   (8087, 3);
   (8090, 5);
   (8095, 5);
   (8100, 1);
   (8101, 3);
   (8104, 3);
   (8107, 2);
   (8109, 4);
   (8113, 4);
   (8117, 1);
   (8118, 2);
   (8120, 2);
   (8122, 3);
   (8125, 5);
   (8130, 5);
   (8135, 1);
   (8136, 3);
   (8139, 3);
   (8142, 3);
   (8145, 5);
   (8150, 5);
   (8155, 1);
   (8156, 3);
   (8159, 3);
   (8162, 2);
   (8164, 3);
   (8167, 3);
   (8170, 1);
   (8171, 1);
   (8172, 1)].
Definition SHAPE_RANGES_20 : list (Z * Z) :=
  [(8173, 3);
   (8176, 4);
   (8180, 4);
   (8184, 2);
   (8186, 2);
   (8188, 2);
   (8190, 3);
   (8193, 4);
   (8197, 4);
   (8201, 2);
   (8203, 2);
   (8205, 2);
   (8207, 3);
   (8210, 4);
   (8214, 4);
   (8218, 2);
   (8220, 2);
   (8222, 2);
   (8224, 4);
   (8228, 5);
   (8233, 5);
   (8238, 2);
   (8240, 3);
   (8243, 3);
   (8246, 4);
   (8250, 5);
   (8255, 5);
   (8260, 2);
   (8262, 3);
   (8265, 3);
   (8268, 3);
   (8271, 4);
   (8275, 4);
   (8279, 2);
   (8281, 2);
   (8283, 2);
   (8285, 4);
   (8289, 5);
   (8294, 5);
   (8299, 2);
   (8301, 3);
   (8304, 3);
   (8307, 4);
   (8311, 5);
   (8316, 5);
   (8321, 2);
   (8323, 3);
   (8326, 3);
   (8329, 2);
   (8331, 3);
   (8334, 3);
   (8337, 1);
   (8338, 1);
   (8339, 1);
   (8340, 3);
   (8343, 4);
   (8347, 4);
   (8351, 2);
   (8353, 2);
   (8355, 2);
   (8357, 3);
   (8360, 4);
   (8364, 4);
   (8368, 2);
   (8370, 2);
   (8372, 2);
   (8374, 3);
   (8377, 4);
   (8381, 4);
   (8385, 2);
   (8387, 2);
   (8389, 2);
   (8391, 4);
   (8395, 5);
   (8400, 5);
   (8405, 2);
   (8407, 3);
   (8410, 3);
   (8413, 4);
   (8417, 5);
   (8422, 5);
   (8427, 2);
   (8429, 3);
   (8432, 3);
   (8435, 3);
   (8438, 4);
   (8442, 4);
   (8446, 2);
   (8448, 2);
   (8450, 2);
   (8452, 4);
   (8456, 5);
   (8461, 5);
   (8466, 2);
   (8468, 3);
   (8471, 3);
   (8474, 4);
   (8478, 5);
   (8483, 5);
   (8488, 2);
   (8490, 3);
   (8493, 3);
   (8496, 1);
   (8497, 3);
   (8500, 3);
   (8503, 1);
   (8504, 1);
   (8505, 2);
   (8507, 4);
   (8511, 4);
   (8515, 1);
   (8516, 2);
   (8518, 2);
   (8520, 2);
   (8522, 4);
   (8526, 4);
   (8530, 1);
   (8531, 2);
   (8533, 2);
   (8535, 2);
   (8537, 4);
   (8541, 4);
   (8545, 1);
   (8546, 2);
   (8548, 2);
   (8550, 3);
   (8553, 5);
   (8558, 5);
   (8563, 1);
   (8564, 3);
   (8567, 3);
   (8570, 3);
   (8573, 5);
   (8578, 5);
   (8583, 1);
   (8584, 3);
   (8587, 3);
   (8590, 2);
   (8592, 4);
   (8596, 4);
   (8600, 1);
   (8601, 2);
   (8603, 2);
   (8605, 3);
   (8608, 5);
   (8613, 5);
   (8618, 1);
   (8619, 3);
   (8622, 3);
   (8625, 3)].
Definition SHAPE_RANGES_21 : list (Z * Z) :=
  [(8628, 5);
   (8633, 5);
   (8638, 1);
   (8639, 3);
   (8642, 3);
   (8645, 2);
   (8647, 3);
   (8650, 3);
   (8653, 1);
   (8654, 1);
   (8655, 1);
   (8656, 3);
   (8659, 4);
   (8663, 4);
   (8667, 2);
   (8669, 2);
   (8671, 2);
   (8673, 3);
   (8676, 4);
   (8680, 4);
   (8684, 2);
   (8686, 2);
   (8688, 2);
   (8690, 3);
   (8693, 4);
   (8697, 4);
   (8701, 2);
   (8703, 2);
   (8705, 2);
   (8707, 4);
   (8711, 5);
   (8716, 5);
   (8721, 2);
   (8723, 3);
   (8726, 3);
   (8729, 4);
   (8733, 5);
   (8738, 5);
   (8743, 2);
   (8745, 3);
   (8748, 3);
   (8751, 3);
   (8754, 4);
   (8758, 4);
   (8762, 2);
   (8764, 2);
   (8766, 2);
   (8768, 4);
   (8772, 5);
   (8777, 5);
   (8782, 2);
   (8784, 3);
   (8787, 3);
   (8790, 4);
   (8794, 5);
   (8799, 5);
   (8804, 2);
   (8806, 3);
   (8809, 3);
   (8812, 2);
   (8814, 3);
   (8817, 3);
   (8820, 1);
   (8821, 1);
   (8822, 1);
   (8823, 3);
   (8826, 4);
   (8830, 4);
   (8834, 2);
   (8836, 2);
   (8838, 2);
   (8840, 3);
   (8843, 4);
   (8847, 4);
   (8851, 2);
   (8853, 2);
   (8855, 2);
   (8857, 3);
   (8860, 4);
   (8864, 4);
   (8868, 2);
   (8870, 2);
   (8872, 2);
   (8874, 4);
   (8878, 5);
   (8883, 5);
   (8888, 2);
   (8890, 3);
   (8893, 3);
   (8896, 4);
   (8900, 5);
   (8905, 5);
   (8910, 2);
   (8912, 3);
   (8915, 3);
   (8918, 3);
   (8921, 4);
   (8925, 4);
   (8929, 2);
   (8931, 2);
   (8933, 2);
   (8935, 4);
   (8939, 5);
   (8944, 5);
   (8949, 2);
   (8951, 3);
   (8954, 3);
   (8957, 4);
   (8961, 5);
   (8966, 5);
   (8971, 2);
   (8973, 3);
   (8976, 3);
   (8979, 7);
   (8986, 7);
   (8993, 7);
   (9000, 5);
   (9005, 5);
   (9010, 5);
   (9015, 5);
   (9020, 5);
   (9025, 5);
   (9030, 2);
   (9032, 1);
   (9033, 1);
   (9034, 1);
   (9035, 3);
   (9038, 3);
   (9041, 3);
   (9044, 3);
   (9047, 3);
   (9050, 3);
   (9053, 3);
   (9056, 2);
   (9058, 2);
   (9060, 1);
   (9061, 3);
   (9064, 2);
   (9066, 2);
   (9068, 2);
   (9070, 2);
   (9072, 2);
   (9074, 1);
   (9075, 1);
   (9076, 3);
   (9079, 1);
   (9080, 2);
   (9082, 1);
   (9083, 2);
   (9085, 1)].
Definition SHAPE_RANGES_22 : list (Z * Z) :=
  [(9086, 1);
   (9087, 1);
   (9088, 3);
   (9091, 2);
   (9093, 2);
   (9095, 2);
   (9097, 2);
   (9099, 2);
   (9101, 1);
   (9102, 1);
   (9103, 3);
   (9106, 1);
   (9107, 2);
   (9109, 1);
   (9110, 2);
   (9112, 1);
   (9113, 1);
   (9114, 1);
   (9115, 5);
   (9120, 1);
   (9121, 1);
   (9122, 3);
   (9125, 3);
   (9128, 1);
   (9129, 1);
   (9130, 2);
   (9132, 4);
   (9136, 4);
   (9140, 1);
   (9141, 2);
   (9143, 2);
   (9145, 2);
   (9147, 4);
   (9151, 4);
   (9155, 1);
   (9156, 2);
   (9158, 2);
   (9160, 2);
   (9162, 4);
   (9166, 4);
   (9170, 1);
   (9171, 2);
   (9173, 2);
   (9175, 3);
   (9178, 5);
   (9183, 5);
   (9188, 1);
   (9189, 3);
   (9192, 3);
   (9195, 3);
   (9198, 5);
   (9203, 5);
   (9208, 1);
   (9209, 3);
   (9212, 3);
   (9215, 2);
   (9217, 4);
   (9221, 4);
   (9225, 1);
   (9226, 2);
   (9228, 2);
   (9230, 3);
   (9233, 5);
   (9238, 5);
   (9243, 1);
   (9244, 3);
   (9247, 3);
   (9250, 3);
   (9253, 5);
   (9258, 5);
   (9263, 1);
   (9264, 3);
   (9267, 3);
   (9270, 2);
   (9272, 3);
   (9275, 3);
   (9278, 1);
   (9279, 1);
   (9280, 1);
   (9281, 3);
   (9284, 4);
   (9288, 4);
   (9292, 2);
   (9294, 2);
   (9296, 2);
   (9298, 3);
   (9301, 4);
   (9305, 4);
   (9309, 2);
   (9311, 2);
   (9313, 2);
   (9315, 3);
   (9318, 4);
   (9322, 4);
   (9326, 2);
   (9328, 2);
   (9330, 2);
   (9332, 4);
   (9336, 5);
   (9341, 5);
   (9346, 2);
   (9348, 3);
   (9351, 3);
   (9354, 4);
   (9358, 5);
   (9363, 5);
   (9368, 2);
   (9370, 3);
   (9373, 3);
   (9376, 3);
   (9379, 4);
   (9383, 4);
   (9387, 2);
   (9389, 2);
   (9391, 2);
   (9393, 4);
   (9397, 5);
   (9402, 5);
   (9407, 2);
   (9409, 3);
   (9412, 3);
   (9415, 4);
   (9419, 5);
   (9424, 5);
   (9429, 2);
   (9431, 3);
   (9434, 3);
   (9437, 2);
   (9439, 3);
   (9442, 3);
   (9445, 1);
   (9446, 1);
   (9447, 1);
   (9448, 3);
   (9451, 4);
   (9455, 4);
   (9459, 2);
   (9461, 2);
   (9463, 2);
   (9465, 3);
   (9468, 4);
   (9472, 4);
   (9476, 2);
   (9478, 2);
   (9480, 2);
   (9482, 3);
   (9485, 4);
   (9489, 4);
   (9493, 2);
   (9495, 2)].
Definition SHAPE_RANGES_23 : list (Z * Z) :=
  [(9497, 2);
   (9499, 4);
   (9503, 5);
   (9508, 5);
   (9513, 2);
   (9515, 3);
   (9518, 3);
   (9521, 4);
   (9525, 5);
   (9530, 5);
   (9535, 2);
   (9537, 3);
   (9540, 3);
   (9543, 3);
   (9546, 4);
   (9550, 4);
   (9554, 2);
   (9556, 2);
   (9558, 2);
   (9560, 4);
   (9564, 5);
   (9569, 5);
   (9574, 2);
   (9576, 3);
   (9579, 3);
   (9582, 4);
   (9586, 5);
   (9591, 5);
   (9596, 2);
   (9598, 3);
   (9601, 3);
   (9604, 1);
   (9605, 3);
   (9608, 3);
   (9611, 1);
   (9612, 1);
   (9613, 2);
   (9615, 4);
   (9619, 4);
   (9623, 1);
   (9624, 2);
   (9626, 2);
   (9628, 2);
   (9630, 4);
   (9634, 4);
   (9638, 1);
   (9639, 2);
   (9641, 2);
   (9643, 2);
   (9645, 4);
   (9649, 4);
   (9653, 1);
   (9654, 2);
   (9656, 2);
   (9658, 3);
   (9661, 5);
   (9666, 5);
   (9671, 1);
   (9672, 3);
   (9675, 3);
   (9678, 3);
   (9681, 5);
   (9686, 5);
   (9691, 1);
   (9692, 3);
   (9695, 3);
   (9698, 2);
   (9700, 4);
   (9704, 4);
   (9708, 1);
   (9709, 2);
   (9711, 2);
   (9713, 3);
   (9716, 5);
   (9721, 5);
   (9726, 1);
   (9727, 3);
   (9730, 3);
   (9733, 3);
   (9736, 5);
   (9741, 5);
   (9746, 1);
   (9747, 3);
   (9750, 3);
   (9753, 2);
   (9755, 3);
   (9758, 3);
   (9761, 1);
   (9762, 1);
   (9763, 1);
   (9764, 3);
   (9767, 4);
   (9771, 4);
   (9775, 2);
   (9777, 2);
   (9779, 2);
   (9781, 3);
   (9784, 4);
   (9788, 4);
   (9792, 2);
   (9794, 2);
   (9796, 2);
   (9798, 3);
   (9801, 4);
   (9805, 4);
   (9809, 2);
   (9811, 2);
   (9813, 2);
   (9815, 4);
   (9819, 5);
   (9824, 5);
   (9829, 2);
   (9831, 3);
   (9834, 3);
   (9837, 4);
   (9841, 5);
   (9846, 5);
   (9851, 2);
   (9853, 3);
   (9856, 3);
   (9859, 3);
   (9862, 4);
   (9866, 4);
   (9870, 2);
   (9872, 2);
   (9874, 2);
   (9876, 4);
   (9880, 5);
   (9885, 5);
   (9890, 2);
   (9892, 3);
   (9895, 3);
   (9898, 4);
   (9902, 5);
   (9907, 5);
   (9912, 2);
   (9914, 3);
   (9917, 3);
   (9920, 2);
   (9922, 3);
   (9925, 3);
   (9928, 1);
   (9929, 1);
   (9930, 1);
   (9931, 3);
   (9934, 4);
   (9938, 4);
   (9942, 2);
   (9944, 2);
   (9946, 2)].
Definition SHAPE_RANGES_24 : list (Z * Z) :=
  [(9948, 3);
   (9951, 4);
   (9955, 4);
   (9959, 2);
   (9961, 2);
   (9963, 2);
   (9965, 3);
   (9968, 4);
   (9972, 4);
   (9976, 2);
   (9978, 2);
   (9980, 2);
   (9982, 4);
   (9986, 5);
   (9991, 5);
   (9996, 2);
   (9998, 3);
   (10001, 3);
   (10004, 4);
   (10008, 5);
   (10013, 5);
   (10018, 2);
   (10020, 3);
   (10023, 3);
   (10026, 3);
   (10029, 4);
   (10033, 4);
   (10037, 2);
   (10039, 2);
   (10041, 2);
   (10043, 4);
   (10047, 5);
   (10052, 5);
   (10057, 2);
   (10059, 3);
   (10062, 3);
   (10065, 4);
   (10069, 5);
   (10074, 5);
   (10079, 2);
   (10081, 3);
   (10084, 3);
   (10087, 1);
   (10088, 3);
   (10091, 3);
   (10094, 1);
   (10095, 1);
   (10096, 2);
   (10098, 4);
   (10102, 4);
   (10106, 1);
   (10107, 2);
   (10109, 2);
   (10111, 2);
   (10113, 4);
   (10117, 4);
   (10121, 1);
   (10122, 2);
   (10124, 2);
   (10126, 2);
   (10128, 4);
   (10132, 4);
   (10136, 1);
   (10137, 2);
   (10139, 2);
   (10141, 3);
   (10144, 5);
   (10149, 5);
   (10154, 1);
   (10155, 3);
   (10158, 3);
   (10161, 3);
   (10164, 5);
   (10169, 5);
   (10174, 1);
   (10175, 3);
   (10178, 3);
   (10181, 2);
   (10183, 4);
   (10187, 4);
   (10191, 1);
   (10192, 2);
   (10194, 2);
   (10196, 3);
   (10199, 5);
   (10204, 5);
   (10209, 1);
   (10210, 3);
   (10213, 3);
   (10216, 3);
   (10219, 5);
   (10224, 5);
   (10229, 1);
   (10230, 3);
   (10233, 3);
   (10236, 2);
   (10238, 3);
   (10241, 3);
   (10244, 1);
   (10245, 1);
   (10246, 1);
   (10247, 3);
   (10250, 4);
   (10254, 4);
   (10258, 2);
   (10260, 2);
   (10262, 2);
   (10264, 3);
   (10267, 4);
   (10271, 4);
   (10275, 2);
   (10277, 2);
   (10279, 2);
   (10281, 3);
   (10284, 4);
   (10288, 4);
   (10292, 2);
   (10294, 2);
   (10296, 2);
   (10298, 4);
   (10302, 5);
   (10307, 5);
   (10312, 2);
   (10314, 3);
   (10317, 3);
   (10320, 4);
   (10324, 5);
   (10329, 5);
   (10334, 2);
   (10336, 3);
   (10339, 3);
   (10342, 3);
   (10345, 4);
   (10349, 4);
   (10353, 2);
   (10355, 2);
   (10357, 2);
   (10359, 4);
   (10363, 5);
   (10368, 5);
   (10373, 2);
   (10375, 3);
   (10378, 3);
   (10381, 4);
   (10385, 5);
   (10390, 5);
   (10395, 2);
   (10397, 3);
   (10400, 3);
   (10403, 2)].
Definition SHAPE_RANGES_25 : list (Z * Z) :=
  [(10405, 3);
   (10408, 3);
   (10411, 1);
   (10412, 1);
   (10413, 1);
   (10414, 3);
   (10417, 4);
   (10421, 4);
   (10425, 2);
   (10427, 2);
   (10429, 2);
   (10431, 3);
   (10434, 4);
   (10438, 4);
   (10442, 2);
   (10444, 2);
   (10446, 2);
   (10448, 3);
   (10451, 4);
   (10455, 4);
   (10459, 2);
   (10461, 2);
   (10463, 2);
   (10465, 4);
   (10469, 5);
   (10474, 5);
   (10479, 2);
   (10481, 3);
   (10484, 3);
   (10487, 4);
   (10491, 5);
   (10496, 5);
   (10501, 2);
   (10503, 3);
   (10506, 3);
   (10509, 3);
   (10512, 4);
   (10516, 4);
   (10520, 2);
   (10522, 2);
   (10524, 2);
   (10526, 4);
   (10530, 5);
   (10535, 5);
   (10540, 2);
   (10542, 3);
   (10545, 3);
   (10548, 4);
   (10552, 5);
   (10557, 5);
   (10562, 2);
   (10564, 3);
   (10567, 3);
   (10570, 1);
   (10571, 1);
   (10572, 1);
   (10573, 1);
   (10574, 2);
   (10576, 1);
   (10577, 1);
   (10578, 1);
   (10579, 1);
   (10580, 1);
   (10581, 1);
   (10582, 1);
   (10583, 1);
   (10584, 1);
   (10585, 1);
   (10586, 1);
   (10587, 1);
   (10588, 1);
   (10589, 1);
   (10590, 1);
   (10591, 1);
   (10592, 1);
   (10593, 1);
   (10594, 1);
   (10595, 1);
   (10596, 1);
   (10597, 1);
   (10598, 1);
   (10599, 1);
   (10600, 1);
   (10601, 3);
   (10604, 3);
   (10607, 1);
   (10608, 1);
   (10609, 2);
   (10611, 4);
   (10615, 4);
   (10619, 1);
   (10620, 2);
   (10622, 2);
   (10624, 2);
   (10626, 4);
   (10630, 4);
   (10634, 1);
   (10635, 2);
   (10637, 2);
   (10639, 2);
   (10641, 4);
   (10645, 4);
   (10649, 1);
   (10650, 2);
   (10652, 2);
   (10654, 3);
   (10657, 5);
   (10662, 5);
   (10667, 1);
   (10668, 3);
   (10671, 3);
   (10674, 3);
   (10677, 5);
   (10682, 5);
   (10687, 1);
   (10688, 3);
   (10691, 3);
   (10694, 2);
   (10696, 4);
   (10700, 4);
   (10704, 1);
   (10705, 2);
   (10707, 2);
   (10709, 3);
   (10712, 5);
   (10717, 5);
   (10722, 1);
   (10723, 3);
   (10726, 3);
   (10729, 3);
   (10732, 5);
   (10737, 5);
   (10742, 1);
   (10743, 3);
   (10746, 3);
   (10749, 2);
   (10751, 3);
   (10754, 3);
   (10757, 1);
   (10758, 1);
   (10759, 1);
   (10760, 3);
   (10763, 4);
   (10767, 4);
   (10771, 2);
   (10773, 2);
   (10775, 2);
   (10777, 3);
   (10780, 4);
   (10784, 4)].
Definition SHAPE_RANGES_26 : list (Z * Z) :=
  [(10788, 2);
   (10790, 2);
   (10792, 2);
   (10794, 3);
   (10797, 4);
   (10801, 4);
   (10805, 2);
   (10807, 2);
   (10809, 2);
   (10811, 4);
   (10815, 5);
   (10820, 5);
   (10825, 2);
   (10827, 3);
   (10830, 3);
   (10833, 4);
   (10837, 5);
   (10842, 5);
   (10847, 2);
   (10849, 3);
   (10852, 3);
   (10855, 3);
   (10858, 4);
   (10862, 4);
   (10866, 2);
   (10868, 2);
   (10870, 2);
   (10872, 4);
   (10876, 5);
   (10881, 5);
   (10886, 2);
   (10888, 3);
   (10891, 3);
   (10894, 4);
   (10898, 5);
   (10903, 5);
   (10908, 2);
   (10910, 3);
   (10913, 3);
   (10916, 2);
   (10918, 3);
   (10921, 3);
   (10924, 1);
   (10925, 1);
   (10926, 1);
   (10927, 3);
   (10930, 4);
   (10934, 4);
   (10938, 2);
   (10940, 2);
   (10942, 2);
   (10944, 3);
   (10947, 4);
   (10951, 4);
   (10955, 2);
   (10957, 2);
   (10959, 2);
   (10961, 3);
   (10964, 4);
   (10968, 4);
   (10972, 2);
   (10974, 2);
   (10976, 2);
   (10978, 4);
   (10982, 5);
   (10987, 5);
   (10992, 2);
   (10994, 3);
   (10997, 3);
   (11000, 4);
   (11004, 5);
   (11009, 5);
   (11014, 2);
   (11016, 3);
   (11019, 3);
   (11022, 3);
   (11025, 4);
   (11029, 4);
   (11033, 2);
   (11035, 2);
   (11037, 2);
   (11039, 4);
   (11043, 5);
   (11048, 5);
   (11053, 2);
   (11055, 3);
   (11058, 3);
   (11061, 4);
   (11065, 5);
   (11070, 5);
   (11075, 2);
   (11077, 3);
   (11080, 3);
   (11083, 1);
   (11084, 3);
   (11087, 3);
   (11090, 1);
   (11091, 1);
   (11092, 2);
   (11094, 4);
   (11098, 4);
   (11102, 1);
   (11103, 2);
   (11105, 2);
   (11107, 2);
   (11109, 4);
   (11113, 4);
   (11117, 1);
   (11118, 2);
   (11120, 2);
   (11122, 2);
   (11124, 4);
   (11128, 4);
   (11132, 1);
   (11133, 2);
   (11135, 2);
   (11137, 3);
   (11140, 5);
   (11145, 5);
   (11150, 1);
   (11151, 3);
   (11154, 3);
   (11157, 3);
   (11160, 5);
   (11165, 5);
   (11170, 1);
   (11171, 3);
   (11174, 3);
   (11177, 2);
   (11179, 4);
   (11183, 4);
   (11187, 1);
   (11188, 2);
   (11190, 2);
   (11192, 3);
   (11195, 5);
   (11200, 5);
   (11205, 1);
   (11206, 3);
   (11209, 3);
   (11212, 3);
   (11215, 5);
   (11220, 5);
   (11225, 1);
   (11226, 3);
   (11229, 3);
   (11232, 2);
   (11234, 3);
   (11237, 3);
   (11240, 1)].
Definition SHAPE_RANGES_27 : list (Z * Z) :=
  [(11241, 1);
   (11242, 1);
   (11243, 3);
   (11246, 4);
   (11250, 4);
   (11254, 2);
   (11256, 2);
   (11258, 2);
   (11260, 3);
   (11263, 4);
   (11267, 4);
   (11271, 2);
   (11273, 2);
   (11275, 2);
   (11277, 3);
   (11280, 4);
   (11284, 4);
   (11288, 2);
   (11290, 2);
   (11292, 2);
   (11294, 4);
   (11298, 5);
   (11303, 5);
   (11308, 2);
   (11310, 3);
   (11313, 3);
   (11316, 4);
   (11320, 5);
   (11325, 5);
   (11330, 2);
   (11332, 3);
   (11335, 3);
   (11338, 3);
   (11341, 4);
   (11345, 4);
   (11349, 2);
   (11351, 2);
   (11353, 2);
   (11355, 4);
   (11359, 5);
   (11364, 5);
   (11369, 2);
   (11371, 3);
   (11374, 3);
   (11377, 4);
   (11381, 5);
   (11386, 5);
   (11391, 2);
   (11393, 3);
   (11396, 3);
   (11399, 2);
   (11401, 3);
   (11404, 3);
   (11407, 1);
   (11408, 1);
   (11409, 1);
   (11410, 3);
   (11413, 4);
   (11417, 4);
   (11421, 2);
   (11423, 2);
   (11425, 2);
   (11427, 3);
   (11430, 4);
   (11434, 4);
   (11438, 2);
   (11440, 2);
   (11442, 2);
   (11444, 3);
   (11447, 4);
   (11451, 4);
   (11455, 2);
   (11457, 2);
   (11459, 2);
   (11461, 4);
   (11465, 5);
   (11470, 5);
   (11475, 2);
   (11477, 3);
   (11480, 3);
   (11483, 4);
   (11487, 5);
   (11492, 5);
   (11497, 2);
   (11499, 3);
   (11502, 3);
   (11505, 3);
   (11508, 4);
   (11512, 4);
   (11516, 2);
   (11518, 2);
   (11520, 2);
   (11522, 4);
   (11526, 5);
   (11531, 5);
   (11536, 2);
   (11538, 3);
   (11541, 3);
   (11544, 4);
   (11548, 5);
   (11553, 5);
   (11558, 2);
   (11560, 3);
   (11563, 3);
   (11566, 1);
   (11567, 3);
   (11570, 3);
   (11573, 1);
   (11574, 1);
   (11575, 2);
   (11577, 4);
   (11581, 4);
   (11585, 1);
   (11586, 2);
   (11588, 2);
   (11590, 2);
   (11592, 4);
   (11596, 4);
   (11600, 1);
   (11601, 2);
   (11603, 2);
   (11605, 2);
   (11607, 4);
   (11611, 4);
   (11615, 1);
   (11616, 2);
   (11618, 2);
   (11620, 3);
   (11623, 5);
   (11628, 5);
   (11633, 1);
   (11634, 3);
   (11637, 3);
   (11640, 3);
   (11643, 5);
   (11648, 5);
   (11653, 1);
   (11654, 3);
   (11657, 3);
   (11660, 2);
   (11662, 4);
   (11666, 4);
   (11670, 1);
   (11671, 2);
   (11673, 2);
   (11675, 3);
   (11678, 5);
   (11683, 5);
   (11688, 1);
   (11689, 3)].
Definition SHAPE_RANGES_28 : list (Z * Z) :=
  [(11692, 3);
   (11695, 3);
   (11698, 5);
   (11703, 5);
   (11708, 1);
   (11709, 3);
   (11712, 3);
   (11715, 2);
   (11717, 3);
   (11720, 3);
   (11723, 1);
   (11724, 1);
   (11725, 1);
   (11726, 3);
   (11729, 4);
   (11733, 4);
   (11737, 2);
   (11739, 2);
   (11741, 2);
   (11743, 3);
   (11746, 4);
   (11750, 4);
   (11754, 2);
   (11756, 2);
   (11758, 2);
   (11760, 3);
   (11763, 4);
   (11767, 4);
   (11771, 2);
   (11773, 2);
   (11775, 2);
   (11777, 4);
   (11781, 5);
   (11786, 5);
   (11791, 2);
   (11793, 3);
   (11796, 3);
   (11799, 4);
   (11803, 5);
   (11808, 5);
   (11813, 2);
   (11815, 3);
   (11818, 3);
   (11821, 3);
   (11824, 4);
   (11828, 4);
   (11832, 2);
   (11834, 2);
   (11836, 2);
   (11838, 4);
   (11842, 5);
   (11847, 5);
   (11852, 2);
   (11854, 3);
   (11857, 3);
   (11860, 4);
   (11864, 5);
   (11869, 5);
   (11874, 2);
   (11876, 3);
   (11879, 3);
   (11882, 2);
   (11884, 3);
   (11887, 3);
   (11890, 1);
   (11891, 1);
   (11892, 1);
   (11893, 3);
   (11896, 4);
   (11900, 4);
   (11904, 2);
   (11906, 2);
   (11908, 2);
   (11910, 3);
   (11913, 4);
   (11917, 4);
   (11921, 2);
   (11923, 2);
   (11925, 2);
   (11927, 3);
   (11930, 4);
   (11934, 4);
   (11938, 2);
   (11940, 2);
   (11942, 2);
   (11944, 4);
   (11948, 5);
   (11953, 5);
   (11958, 2);
   (11960, 3);
   (11963, 3);
   (11966, 4);
   (11970, 5);
   (11975, 5);
   (11980, 2);
   (11982, 3);
   (11985, 3);
   (11988, 3);
   (11991, 4);
   (11995, 4);
   (11999, 2);
   (12001, 2);
   (12003, 2);
   (12005, 4);
   (12009, 5);
   (12014, 5);
   (12019, 2);
   (12021, 3);
   (12024, 3);
   (12027, 4);
   (12031, 5);
   (12036, 5);
   (12041, 2);
   (12043, 3);
   (12046, 3);
   (12049, 1);
   (12050, 1);
   (12051, 1);
   (12052, 1);
   (12053, 1);
   (12054, 1);
   (12055, 1);
   (12056, 1);
   (12057, 1);
   (12058, 1);
   (12059, 1);
   (12060, 1);
   (12061, 1);
   (12062, 1);
   (12063, 1);
   (12064, 1);
   (12065, 1);
   (12066, 1);
   (12067, 1);
   (12068, 1);
   (12069, 1);
   (12070, 1);
   (12071, 5);
   (12076, 1);
   (12077, 1);
   (12078, 1);
   (12079, 1);
   (12080, 1);
   (12081, 3);
   (12084, 3);
   (12087, 1);
   (12088, 1);
   (12089, 2);
   (12091, 4);
   (12095, 4)].
Definition SHAPE_RANGES_29 : list (Z * Z) :=
  [(12099, 1);
   (12100, 2);
   (12102, 2);
   (12104, 2);
   (12106, 4);
   (12110, 4);
   (12114, 1);
   (12115, 2);
   (12117, 2);
   (12119, 2);
   (12121, 4);
   (12125, 4);
   (12129, 1);
   (12130, 2);
   (12132, 2);
   (12134, 3);
   (12137, 5);
   (12142, 5);
   (12147, 1);
   (12148, 3);
   (12151, 3);
   (12154, 3);
   (12157, 5);
   (12162, 5);
   (12167, 1);
   (12168, 3);
   (12171, 3);
   (12174, 2);
   (12176, 4);
   (12180, 4);
   (12184, 1);
   (12185, 2);
   (12187, 2);
   (12189, 3);
   (12192, 5);
   (12197, 5);
   (12202, 1);
   (12203, 3);
   (12206, 3);
   (12209, 3);
   (12212, 5);
   (12217, 5);
   (12222, 1);
   (12223, 3);
   (12226, 3);
   (12229, 2);
   (12231, 3);
   (12234, 3);
   (12237, 1);
   (12238, 1);
   (12239, 1);
   (12240, 3);
   (12243, 4);
   (12247, 4);
   (12251, 2);
   (12253, 2);
   (12255, 2);
   (12257, 3);
   (12260, 4);
   (12264, 4);
   (12268, 2);
   (12270, 2);
   (12272, 2);
   (12274, 3);
   (12277, 4);
   (12281, 4);
   (12285, 2);
   (12287, 2);
   (12289, 2);
   (12291, 4);
   (12295, 5);
   (12300, 5);
   (12305, 2);
   (12307, 3);
   (12310, 3);
   (12313, 4);
   (12317, 5);
   (12322, 5);
   (12327, 2);
   (12329, 3);
   (12332, 3);
   (12335, 3);
   (12338, 4);
   (12342, 4);
   (12346, 2);
   (12348, 2);
   (12350, 2);
   (12352, 4);
   (12356, 5);
   (12361, 5);
   (12366, 2);
   (12368, 3);
   (12371, 3);
   (12374, 4);
   (12378, 5);
   (12383, 5);
   (12388, 2);
   (12390, 3);
   (12393, 3);
   (12396, 2);
   (12398, 3);
   (12401, 3);
   (12404, 1);
   (12405, 1);
   (12406, 1);
   (12407, 3);
   (12410, 4);
   (12414, 4);
   (12418, 2);
   (12420, 2);
   (12422, 2);
   (12424, 3);
   (12427, 4);
   (12431, 4);
   (12435, 2);
   (12437, 2);
   (12439, 2);
   (12441, 3);
   (12444, 4);
   (12448, 4);
   (12452, 2);
   (12454, 2);
   (12456, 2);
   (12458, 4);
   (12462, 5);
   (12467, 5);
   (12472, 2);
   (12474, 3);
   (12477, 3);
   (12480, 4);
   (12484, 5);
   (12489, 5);
   (12494, 2);
   (12496, 3);
   (12499, 3);
   (12502, 3);
   (12505, 4);
   (12509, 4);
   (12513, 2);
   (12515, 2);
   (12517, 2);
   (12519, 4);
   (12523, 5);
   (12528, 5);
   (12533, 2);
   (12535, 3);
   (12538, 3);
   (12541, 4);
   (12545, 5);
   (12550, 5)].
Definition SHAPE_RANGES_30 : list (Z * Z) :=
  [(12555, 2);
   (12557, 3);
   (12560, 3);
   (12563, 1);
   (12564, 3);
   (12567, 3);
   (12570, 1);
   (12571, 1);
   (12572, 2);
   (12574, 4);
   (12578, 4);
   (12582, 1);
   (12583, 2);
   (12585, 2);
   (12587, 2);
   (12589, 4);
   (12593, 4);
   (12597, 1);
   (12598, 2);
   (12600, 2);
   (12602, 2);
   (12604, 4);
   (12608, 4);
   (12612, 1);
   (12613, 2);
   (12615, 2);
   (12617, 3);
   (12620, 5);
   (12625, 5);
   (12630, 1);
   (12631, 3);
   (12634, 3);
   (12637, 3);
   (12640, 5);
   (12645, 5);
   (12650, 1);
   (12651, 3);
   (12654, 3);
   (12657, 2);
   (12659, 4);
   (12663, 4);
   (12667, 1);
   (12668, 2);
   (12670, 2);
   (12672, 3);
   (12675, 5);
   (12680, 5);
   (12685, 1);
   (12686, 3);
   (12689, 3);
   (12692, 3);
   (12695, 5);
   (12700, 5);
   (12705, 1);
   (12706, 3);
   (12709, 3);
   (12712, 2);
   (12714, 3);
   (12717, 3);
   (12720, 1);
   (12721, 1);
   (12722, 1);
   (12723, 3);
   (12726, 4);
   (12730, 4);
   (12734, 2);
   (12736, 2);
   (12738, 2);
   (12740, 3);
   (12743, 4);
   (12747, 4);
   (12751, 2);
   (12753, 2);
   (12755, 2);
   (12757, 3);
   (12760, 4);
   (12764, 4);
   (12768, 2);
   (12770, 2);
   (12772, 2);
   (12774, 4);
   (12778, 5);
   (12783, 5);
   (12788, 2);
   (12790, 3);
   (12793, 3);
   (12796, 4);
   (12800, 5);
   (12805, 5);
   (12810, 2);
   (12812, 3);
   (12815, 3);
   (12818, 3);
   (12821, 4);
   (12825, 4);
   (12829, 2);
   (12831, 2);
   (12833, 2);
   (12835, 4);
   (12839, 5);
   (12844, 5);
   (12849, 2);
   (12851, 3);
   (12854, 3);
   (12857, 4);
   (12861, 5);
   (12866, 5);
   (12871, 2);
   (12873, 3);
   (12876, 3);
   (12879, 2);
   (12881, 3);
   (12884, 3);
   (12887, 1);
   (12888, 1);
   (12889, 1);
   (12890, 3);
   (12893, 4);
   (12897, 4);
   (12901, 2);
   (12903, 2);
   (12905, 2);
   (12907, 3);
   (12910, 4);
   (12914, 4);
   (12918, 2);
   (12920, 2);
   (12922, 2);
   (12924, 3);
   (12927, 4);
   (12931, 4);
   (12935, 2);
   (12937, 2);
   (12939, 2);
   (12941, 4);
   (12945, 5);
   (12950, 5);
   (12955, 2);
   (12957, 3);
   (12960, 3);
   (12963, 4);
   (12967, 5);
   (12972, 5);
   (12977, 2);
   (12979, 3);
   (12982, 3);
   (12985, 3);
   (12988, 4);
   (12992, 4);
   (12996, 2)].
Definition SHAPE_RANGES_31 : list (Z * Z) :=
  [(12998, 2);
   (13000, 2);
   (13002, 4);
   (13006, 5);
   (13011, 5);
   (13016, 2);
   (13018, 3);
   (13021, 3);
   (13024, 4);
   (13028, 5);
   (13033, 5);
   (13038, 2);
   (13040, 3);
   (13043, 3);
   (13046, 1);
   (13047, 3);
   (13050, 3);
   (13053, 1);
   (13054, 1);
   (13055, 2);
   (13057, 4);
   (13061, 4);
   (13065, 1);
   (13066, 2);
   (13068, 2);
   (13070, 2);
   (13072, 4);
   (13076, 4);
   (13080, 1);
   (13081, 2);
   (13083, 2);
   (13085, 2);
   (13087, 4);
   (13091, 4);
   (13095, 1);
   (13096, 2);
   (13098, 2);
   (13100, 3);
   (13103, 5);
   (13108, 5);
   (13113, 1);
   (13114, 3);
   (13117, 3);
   (13120, 3);
   (13123, 5);
   (13128, 5);
   (13133, 1);
   (13134, 3);
   (13137, 3);
   (13140, 2);
   (13142, 4);
   (13146, 4);
   (13150, 1);
   (13151, 2);
   (13153, 2);
   (13155, 3);
   (13158, 5);
   (13163, 5);
   (13168, 1);
   (13169, 3);
   (13172, 3);
   (13175, 3);
   (13178, 5);
   (13183, 5);
   (13188, 1);
   (13189, 3);
   (13192, 3);
   (13195, 2);
   (13197, 3);
   (13200, 3);
   (13203, 1);
   (13204, 1);
   (13205, 1);
   (13206, 3);
   (13209, 4);
   (13213, 4);
   (13217, 2);
   (13219, 2);
   (13221, 2);
   (13223, 3);
   (13226, 4);
   (13230, 4);
   (13234, 2);
   (13236, 2);
   (13238, 2);
   (13240, 3);
   (13243, 4);
   (13247, 4);
   (13251, 2);
   (13253, 2);
   (13255, 2);
   (13257, 4);
   (13261, 5);
   (13266, 5);
   (13271, 2);
   (13273, 3);
   (13276, 3);
   (13279, 4);
   (13283, 5);
   (13288, 5);
   (13293, 2);
   (13295, 3);
   (13298, 3);
   (13301, 3);
   (13304, 4);
   (13308, 4);
   (13312, 2);
   (13314, 2);
   (13316, 2);
   (13318, 4);
   (13322, 5);
   (13327, 5);
   (13332, 2);
   (13334, 3);
   (13337, 3);
   (13340, 4);
   (13344, 5);
   (13349, 5);
   (13354, 2);
   (13356, 3);
   (13359, 3);
   (13362, 2);
   (13364, 3);
   (13367, 3);
   (13370, 1);
   (13371, 1);
   (13372, 1);
   (13373, 3);
   (13376, 4);
   (13380, 4);
   (13384, 2);
   (13386, 2);
   (13388, 2);
   (13390, 3);
   (13393, 4);
   (13397, 4);
   (13401, 2);
   (13403, 2);
   (13405, 2);
   (13407, 3);
   (13410, 4);
   (13414, 4);
   (13418, 2);
   (13420, 2);
   (13422, 2);
   (13424, 4);
   (13428, 5);
   (13433, 5);
   (13438, 2);
   (13440, 3)].
Definition SHAPE_RANGES_32 : list (Z * Z) :=
  [(13443, 3);
   (13446, 4);
   (13450, 5);
   (13455, 5);
   (13460, 2);
   (13462, 3);
   (13465, 3);
   (13468, 3);
   (13471, 4);
   (13475, 4);
   (13479, 2);
   (13481, 2);
   (13483, 2);
   (13485, 4);
   (13489, 5);
   (13494, 5);
   (13499, 2);
   (13501, 3);
   (13504, 3);
   (13507, 4);
   (13511, 5);
   (13516, 5);
   (13521, 2);
   (13523, 3);
   (13526, 3);
   (13529, 1);
   (13530, 3);
   (13533, 3);
   (13536, 1);
   (13537, 1);
   (13538, 2);
   (13540, 4);
   (13544, 4);
   (13548, 1);
   (13549, 2);
   (13551, 2);
   (13553, 2);
   (13555, 4);
   (13559, 4);
   (13563, 1);
   (13564, 2);
   (13566, 2);
   (13568, 2);
   (13570, 4);
   (13574, 4);
   (13578, 1);
   (13579, 2);
   (13581, 2);
   (13583, 3);
   (13586, 5);
   (13591, 5);
   (13596, 1);
   (13597, 3);
   (13600, 3);
   (13603, 3);
   (13606, 5);
   (13611, 5);
   (13616, 1);
   (13617, 3);
   (13620, 3);
   (13623, 2);
   (13625, 4);
   (13629, 4);
   (13633, 1);
   (13634, 2);
   (13636, 2);
   (13638, 3);
   (13641, 5);
   (13646, 5);
   (13651, 1);
   (13652, 3);
   (13655, 3);
   (13658, 3);
   (13661, 5);
   (13666, 5);
   (13671, 1);
   (13672, 3);
   (13675, 3);
   (13678, 2);
   (13680, 3);
   (13683, 3);
   (13686, 1);
   (13687, 1);
   (13688, 1);
   (13689, 3);
   (13692, 4);
   (13696, 4);
   (13700, 2);
   (13702, 2);
   (13704, 2);
   (13706, 3);
   (13709, 4);
   (13713, 4);
   (13717, 2);
   (13719, 2);
   (13721, 2);
   (13723, 3);
   (13726, 4);
   (13730, 4);
   (13734, 2);
   (13736, 2);
   (13738, 2);
   (13740, 4);
   (13744, 5);
   (13749, 5);
   (13754, 2);
   (13756, 3);
   (13759, 3);
   (13762, 4);
   (13766, 5);
   (13771, 5);
   (13776, 2);
   (13778, 3);
   (13781, 3);
   (13784, 3);
   (13787, 4);
   (13791, 4);
   (13795, 2);
   (13797, 2);
   (13799, 2);
   (13801, 4);
   (13805, 5);
   (13810, 5);
   (13815, 2);
   (13817, 3);
   (13820, 3);
   (13823, 4);
   (13827, 5);
   (13832, 5);
   (13837, 2);
   (13839, 3);
   (13842, 3);
   (13845, 2);
   (13847, 3);
   (13850, 3);
   (13853, 1);
   (13854, 1);
   (13855, 1);
   (13856, 3);
   (13859, 4);
   (13863, 4);
   (13867, 2);
   (13869, 2);
   (13871, 2);
   (13873, 3);
   (13876, 4);
   (13880, 4);
   (13884, 2);
   (13886, 2);
   (13888, 2)].
Definition SHAPE_RANGES_33 : list (Z * Z) :=
  [(13890, 3);
   (13893, 4);
   (13897, 4);
   (13901, 2);
   (13903, 2);
   (13905, 2);
   (13907, 4);
   (13911, 5);
   (13916, 5);
   (13921, 2);
   (13923, 3);
   (13926, 3);
   (13929, 4);
   (13933, 5);
   (13938, 5);
   (13943, 2);
   (13945, 3);
   (13948, 3);
   (13951, 3);
   (13954, 4);
   (13958, 4);
   (13962, 2);
   (13964, 2);
   (13966, 2);
   (13968, 4);
   (13972, 5);
   (13977, 5);
   (13982, 2);
   (13984, 3);
   (13987, 3);
   (13990, 4);
   (13994, 5);
   (13999, 5);
   (14004, 2);
   (14006, 3);
   (14009, 3);
   (14012, 1);
   (14013, 1);
   (14014, 1)].
Definition SHAPE_RANGES_all : list (Z * Z) :=
  SHAPE_RANGES_0 ++ SHAPE_RANGES_1 ++ SHAPE_RANGES_2 ++ SHAPE_RANGES_3 ++ SHAPE_RANGES_4 ++ SHAPE_RANGES_5
  ++ SHAPE_RANGES_6 ++ SHAPE_RANGES_7 ++ SHAPE_RANGES_8 ++ SHAPE_RANGES_9 ++ SHAPE_RANGES_10 ++ SHAPE_RANGES_11
  ++ SHAPE_RANGES_12 ++ SHAPE_RANGES_13 ++ SHAPE_RANGES_14 ++ SHAPE_RANGES_15 ++ SHAPE_RANGES_16 ++ SHAPE_RANGES_17
  ++ SHAPE_RANGES_18 ++ SHAPE_RANGES_19 ++ SHAPE_RANGES_20 ++ SHAPE_RANGES_21 ++ SHAPE_RANGES_22 ++ SHAPE_RANGES_23
  ++ SHAPE_RANGES_24 ++ SHAPE_RANGES_25 ++ SHAPE_RANGES_26 ++ SHAPE_RANGES_27 ++ SHAPE_RANGES_28 ++ SHAPE_RANGES_29
  ++ SHAPE_RANGES_30 ++ SHAPE_RANGES_31 ++ SHAPE_RANGES_32 ++ SHAPE_RANGES_33.

Definition STATE_SHAPES_0 : list Z :=
  [0; 1; 1; 1; 1; 1; 1; 1; 1; 1; 1; 1; 1; 1; 1; 1; 1; 1; 1; 1; 1; 1; 1; 1;
   1; 1; 1; 1; 1; 0; 0; 0; 0; 0; 0; 0; 0; 0; 0; 0; 0; 0; 0; 0; 0; 0; 0; 0;
   0; 0; 0; 0; 0; 0; 0; 0; 0; 0; 0; 0; 0; 0; 0; 0; 0; 0; 0; 0; 0; 0; 0; 0;
   0; 0; 0; 0; 0; 0; 0; 0; 0; 0; 0; 0; 0; 1; 0; 0; 0; 0; 0; 0; 0; 0; 0; 0;
   0; 0; 0; 0; 0; 0; 0; 0; 0; 0; 0; 0; 0; 0; 0; 0; 0; 0; 0; 0; 0; 0; 1; 1;
   1; 1; 1; 1; 1; 1; 1; 1; 1; 1; 1; 1; 1; 1; 1; 1; 1; 1; 1; 1; 1; 1; 1; 1;
   1; 1; 1; 1; 1; 1; 1; 1; 1; 1; 1; 1; 1; 1; 1; 1; 1; 1; 1; 1; 1; 1; 1; 1;
   1; 1; 1; 1; 1; 1; 1; 1; 1; 1; 1; 1; 1; 1; 1; 1; 1; 1; 1; 1; 1; 1; 1; 1;
   1; 1; 1; 1; 1; 1; 1; 1; 1; 1; 1; 1; 1; 1; 1; 1; 1; 1; 1; 1; 1; 1; 1; 1;
   1; 1; 1; 1; 1; 1; 1; 1; 1; 1; 1; 1; 1; 1; 1; 1; 1; 1; 1; 1; 1; 1; 1; 1;
   1; 1; 1; 1; 1; 1; 1; 1; 1; 1; 1; 1; 1; 1; 1; 1; 1; 1; 1; 1; 1; 1; 1; 1;
   1; 1; 1; 1; 1; 1; 1; 1; 1; 1; 1; 1; 1; 1; 1; 1; 1; 1; 1; 1; 1; 1; 1; 1;
   1; 1; 1; 1; 1; 1; 1; 1; 1; 1; 1; 1; 1; 1; 1; 1; 1; 1; 1; 1; 1; 1; 1; 1;
   1; 1; 1; 1; 1; 1; 1; 1; 1; 1; 1; 1; 1; 1; 1; 1; 1; 1; 1; 1; 1; 1; 1; 1;
   1; 1; 1; 1; 1; 1; 1; 1; 1; 1; 1; 1; 1; 1; 1; 1; 1; 1; 1; 1; 1; 1; 1; 1;
   1; 1; 1; 1; 1; 1; 1; 1; 1; 1; 1; 1; 1; 1; 1; 1; 1; 1; 1; 1; 1; 1; 1; 1;
   1; 1; 1; 1; 1; 1; 1; 1; 1; 1; 1; 1; 1; 1; 1; 1; 1; 1; 1; 1; 1; 1; 1; 1;
   1; 1; 1; 1; 1; 1; 1; 1; 1; 1; 1; 1; 1; 1; 1; 1; 1; 1; 1; 1; 1; 1; 1; 1;
   1; 1; 1; 1; 1; 1; 1; 1; 1; 1; 1; 1; 1; 1; 1; 1; 1; 1; 1; 1; 1; 1; 1; 1;
   1; 1; 1; 1; 1; 1; 1; 1; 1; 1; 1; 1; 1; 1; 1; 1; 1; 1; 1; 1; 1; 1; 1; 1;
   1; 1; 1; 1; 1; 1; 1; 1; 1; 1; 1; 1; 1; 1; 1; 1; 1; 1; 1; 1; 1; 1; 1; 1;
   1; 1; 1; 1; 1; 1; 1; 1; 1; 1; 1; 1; 1; 1; 1; 1; 1; 1; 1; 1; 1; 1; 1; 1;
   1; 1; 1; 1; 1; 1; 1; 1; 1; 1; 1; 1; 1; 1; 1; 1; 1; 1; 1; 1; 1; 1; 1; 1;
   1; 1; 1; 1; 1; 1; 1; 1; 1; 1; 1; 1; 1; 1; 1; 1; 1; 1; 1; 1; 1; 1; 1; 1;
   1; 1; 1; 1; 1; 1; 1; 1; 1; 1; 1; 1; 1; 1; 1; 1; 1; 1; 1; 1; 1; 1; 1; 1;
   1; 1; 1; 1; 1; 1; 1; 1; 1; 1; 1; 1; 1; 1; 1; 1; 1; 1; 1; 1; 1; 1; 1; 1;
   1; 1; 1; 1; 1; 1; 1; 1; 1; 1; 1; 1; 1; 1; 1; 1; 1; 1; 1; 1; 1; 1; 1; 1;
   1; 1; 1; 1; 1; 1; 1; 1; 1; 1; 1; 1; 1; 1; 1; 1; 1; 1; 1; 1; 1; 1; 1; 1;
   1; 1; 1; 1; 1; 1; 1; 1; 1; 1; 1; 1; 1; 1; 1; 1; 1; 1; 1; 1; 1; 1; 1; 1;
   1; 1; 1; 1; 1; 1; 1; 1; 1; 1; 1; 1; 1; 1; 1; 1; 1; 1; 1; 1; 1; 1; 1; 1;
   1; 1; 1; 1; 1; 1; 1; 1; 1; 1; 1; 1; 1; 1; 1; 1; 1; 1; 1; 1; 1; 1; 1; 1;
   1; 1; 1; 1; 1; 1; 1; 1; 1; 1; 1; 1; 1; 1; 1; 1; 1; 1; 1; 1; 1; 1; 1; 1;
   1; 1; 1; 1; 1; 1; 1; 1; 1; 1; 1; 1; 1; 1; 1; 1; 1; 1; 1; 1; 1; 1; 1; 1;
   1; 1; 1; 1; 1; 1; 1; 1; 1; 1; 1; 1; 1; 1; 1; 1; 1; 1; 1; 1; 1; 1; 1; 1;
   1; 1; 1; 1; 1; 1; 1; 1; 1; 1; 1; 1; 1; 1; 1; 1; 1; 1; 1; 1; 1; 1; 1; 1;
   1; 1; 1; 1; 1; 1; 1; 1; 1; 1; 1; 1; 1; 1; 1; 1; 1; 1; 1; 1; 1; 1; 1; 1;
   1; 1; 1; 1; 1; 1; 1; 1; 1; 1; 1; 1; 1; 1; 1; 1; 1; 1; 1; 1; 1; 1; 1; 1;
   1; 1; 1; 1; 1; 1; 1; 1; 1; 1; 1; 1; 1; 1; 1; 1; 1; 1; 1; 1; 1; 1; 1; 1;
   1; 1; 1; 1; 1; 1; 1; 1; 1; 1; 1; 1; 1; 1; 1; 1; 1; 1; 1; 1; 1; 1; 1; 1;
   1; 1; 1; 1; 1; 1; 1; 1; 1; 1; 1; 1; 1; 1; 1; 1; 1; 1; 1; 1; 1; 1; 1; 1;
   1; 1; 1; 1; 1; 1; 1; 1; 1; 1; 1; 1; 1; 1; 1; 1; 1; 1; 1; 1; 1; 1; 1; 1;
   1; 1; 1; 1; 1; 1; 1; 1; 1; 1; 1; 1; 1; 1; 1; 1; 1; 1; 1; 1; 1; 1; 1; 1;
   1; 1; 1; 1; 1; 1; 1; 1; 1; 1; 1; 1; 1; 1; 1; 1; 1; 1; 1; 1; 1; 1; 1; 1;
   1; 1; 1; 1; 1; 1; 1; 1; 1; 1; 1; 1; 1; 1; 1; 1; 1; 1; 1; 1; 1; 1; 1; 1;
   1; 1; 1; 1; 1; 1; 1; 1; 1; 1; 1; 1; 1; 1; 1; 1; 1; 1; 1; 1; 1; 1; 1; 1;
   1; 1; 1; 1; 1; 1; 1; 1; 1; 1; 1; 1; 1; 1; 1; 1; 1; 1; 1; 1; 1; 1; 1; 1;
   1; 1; 1; 1; 1; 1; 1; 1; 1; 1; 1; 1; 1; 1; 1; 1; 1; 1; 1; 1; 1; 1; 1; 1;
   1; 1; 1; 1; 1; 1; 1; 1; 1; 1; 1; 1; 1; 1; 1; 1; 1; 1; 1; 1; 1; 1; 1; 1;
   1; 1; 1; 1; 1; 1; 1; 1; 1; 1; 1; 1; 1; 1; 1; 1; 1; 1; 1; 1; 1; 1; 1; 1;
   1; 1; 1; 1; 1; 1; 1; 1; 1; 1; 1; 1; 1; 1; 1; 1; 1; 1; 1; 1; 1; 1; 1; 1;
   1; 1; 1; 1; 1; 1; 1; 1; 1; 1; 1; 1; 1; 1; 1; 1; 1; 1; 1; 1; 1; 1; 1; 1;
   1; 1; 1; 1; 1; 1; 1; 1; 1; 1; 1; 1; 1; 1; 1; 1; 1; 1; 1; 1; 1; 1; 1; 1;
   1; 1; 1; 1; 1; 1; 1; 1; 1; 1; 1; 1; 1; 1; 1; 1; 1; 1; 1; 1; 1; 1; 1; 1;
   1; 1; 1; 1; 1; 1; 1; 1; 1; 1; 1; 1; 1; 1; 1; 1; 1; 1; 1; 1; 1; 1; 1; 1;
   1; 1; 1; 1; 1; 1; 1; 1; 1; 1; 1; 1; 1; 1; 1; 1; 1; 1; 1; 1; 1; 1; 1; 1;
   1; 1; 1; 1; 1; 1; 1; 1; 1; 1; 1; 1; 1; 1; 1; 1; 1; 1; 1; 1; 1; 1; 1; 1;
   1; 1; 1; 1; 1; 1; 1; 1; 1; 1; 1; 1; 1; 1; 1; 1; 1; 1; 1; 1; 1; 1; 1; 1;
   1; 1; 1; 1; 1; 1; 1; 1; 1; 1; 1; 1; 1; 1; 1; 1; 1; 1; 1; 1; 1; 1; 1; 1;
   1; 1; 1; 1; 1; 1; 1; 1; 1; 1; 1; 1; 1; 1; 1; 1; 1; 1; 1; 1; 1; 1; 1; 1;
   1; 1; 1; 1; 1; 1; 1; 1; 1; 1; 1; 1; 1; 1; 1; 1; 1; 1; 1; 1; 1; 1; 1; 1;
   1; 1; 1; 1; 1; 1; 1; 1; 1; 1; 1; 1; 1; 1; 1; 1; 1; 1; 1; 1; 1; 1; 1; 1;
   1; 1; 1; 1; 1; 1; 1; 1; 1; 1; 1; 1; 1; 1; 1; 1; 1; 1; 1; 1; 1; 1; 1; 1;
   1; 1; 1; 1; 1; 1; 1; 1; 1; 1; 1; 1; 1; 1; 1; 1; 1; 1; 1; 1; 1; 1; 1; 1;
   1; 1; 1; 1; 1; 1; 1; 1; 1; 1; 1; 1; 1; 1; 1; 1; 1; 1; 1; 1; 1; 1; 1; 1;
   1; 1; 1; 1; 1; 1; 1; 1; 1; 1; 1; 1; 1; 1; 1; 1; 1; 1; 1; 1; 1; 1; 1; 1;
   1; 1; 1; 1; 1; 1; 1; 1; 1; 1; 1; 1; 1; 1; 1; 1; 1; 1; 1; 1; 1; 1; 1; 1;
   1; 1; 1; 1; 1; 1; 1; 1; 1; 1; 1; 1; 1; 1; 1; 1; 1; 1; 1; 1; 1; 1; 1; 1;
   1; 1; 1; 1; 1; 1; 1; 1; 1; 1; 1; 1; 1; 1; 1; 1; 1; 1; 1; 1; 1; 1; 1; 1;
   1; 1; 1; 1; 1; 1; 1; 1; 1; 1; 1; 1; 1; 1; 1; 1; 1; 1; 1; 1; 1; 1; 1; 1;
   1; 1; 1; 1; 1; 1; 1; 1; 1; 1; 1; 1; 1; 1; 1; 1; 1; 1; 1; 1; 1; 1; 1; 1;
   1; 1; 1; 1; 1; 1; 1; 1; 1; 1; 1; 1; 1; 1; 1; 1; 1; 1; 1; 1; 1; 1; 1; 1;
   1; 1; 1; 1; 1; 1; 1; 1; 1; 1; 1; 1; 1; 1; 1; 1; 1; 1; 1; 1; 1; 1; 1; 1;
   1; 1; 1; 2; 3; 2; 3; 3; 2; 3; 2; 4; 5; 4; 5; 5; 4; 5; 4; 2; 3; 2; 3; 3;
   2; 3; 2; 4; 5; 4; 5; 5; 4; 5; 4; 2; 3; 2; 3; 3; 2; 3; 2; 4; 5; 4; 5; 5;
   4; 5; 4; 2; 3; 2; 3; 3; 2; 3; 2; 4; 5; 4; 5; 5; 4; 5; 4; 2; 3; 2; 3; 3].
Definition STATE_SHAPES_1 : list Z :=
  [2; 3; 2; 4; 5; 4; 5; 5; 4; 5; 4; 2; 3; 2; 3; 3; 2; 3; 2; 4; 5; 4; 5; 5;
   4; 5; 4; 2; 3; 2; 3; 3; 2; 3; 2; 4; 5; 4; 5; 5; 4; 5; 4; 2; 3; 2; 3; 3;
   2; 3; 2; 4; 5; 4; 5; 5; 4; 5; 4; 2; 3; 2; 3; 3; 2; 3; 2; 4; 5; 4; 5; 5;
   4; 5; 4; 2; 3; 2; 3; 3; 2; 3; 2; 4; 5; 4; 5; 5; 4; 5; 4; 2; 3; 2; 3; 3;
   2; 3; 2; 4; 5; 4; 5; 5; 4; 5; 4; 2; 3; 2; 3; 3; 2; 3; 2; 4; 5; 4; 5; 5;
   4; 5; 4; 2; 3; 2; 3; 3; 2; 3; 2; 4; 5; 4; 5; 5; 4; 5; 4; 2; 3; 2; 3; 3;
   2; 3; 2; 4; 5; 4; 5; 5; 4; 5; 4; 2; 3; 2; 3; 3; 2; 3; 2; 4; 5; 4; 5; 5;
   4; 5; 4; 2; 3; 2; 3; 3; 2; 3; 2; 4; 5; 4; 5; 5; 4; 5; 4; 0; 0; 0; 0; 0;
   0; 0; 0; 0; 0; 0; 0; 0; 0; 0; 0; 0; 0; 0; 0; 0; 0; 0; 0; 0; 0; 0; 0; 0;
   0; 0; 0; 0; 0; 0; 0; 0; 0; 0; 0; 0; 0; 0; 0; 0; 0; 0; 0; 6; 7; 8; 9; 10;
   11; 1; 1; 1; 1; 1; 1; 0; 0; 0; 0; 0; 0; 0; 6; 7; 8; 9; 10; 11; 1; 1; 1; 1;
   1; 1; 12; 12; 13; 13; 14; 14; 15; 15; 16; 16; 17; 17; 18; 18; 19; 19; 20; 20; 21; 21; 22; 22;
   23; 23; 1; 1; 1; 1; 1; 1; 1; 1; 1; 1; 1; 1; 1; 1; 1; 1; 0; 0; 0; 0; 0; 0;
   0; 0; 0; 0; 0; 0; 0; 0; 0; 0; 0; 0; 0; 0; 0; 0; 0; 0; 0; 0; 0; 0; 1; 1;
   1; 1; 1; 1; 1; 1; 1; 1; 1; 1; 1; 1; 1; 1; 1; 1; 1; 1; 1; 1; 1; 1; 1; 1;
   1; 1; 1; 1; 1; 1; 1; 1; 1; 1; 1; 1; 1; 1; 1; 1; 1; 1; 1; 1; 1; 1; 1; 1;
   1; 1; 1; 1; 1; 1; 1; 1; 1; 1; 1; 1; 1; 1; 1; 1; 1; 1; 1; 1; 1; 1; 1; 1;
   1; 1; 1; 1; 1; 1; 1; 1; 1; 1; 1; 1; 1; 1; 1; 1; 1; 1; 1; 1; 1; 1; 1; 1;
   1; 1; 1; 1; 1; 1; 1; 1; 1; 1; 1; 1; 1; 1; 1; 1; 1; 1; 1; 1; 1; 1; 1; 1;
   1; 1; 1; 1; 1; 1; 1; 1; 1; 1; 1; 1; 1; 1; 1; 1; 1; 1; 1; 1; 1; 1; 1; 1;
   1; 1; 1; 1; 1; 1; 1; 1; 1; 1; 1; 1; 1; 1; 1; 1; 1; 1; 1; 1; 1; 1; 1; 1;
   1; 1; 1; 1; 1; 1; 1; 1; 1; 1; 1; 1; 1; 1; 1; 1; 1; 1; 1; 1; 1; 1; 1; 1;
   1; 1; 1; 1; 1; 1; 1; 1; 1; 1; 1; 1; 1; 1; 1; 1; 1; 1; 1; 1; 1; 1; 1; 1;
   1; 1; 1; 1; 1; 1; 1; 1; 1; 1; 1; 1; 1; 1; 1; 1; 1; 1; 1; 1; 1; 1; 1; 1;
   1; 1; 1; 1; 1; 1; 1; 1; 1; 1; 1; 1; 1; 1; 1; 1; 1; 1; 1; 1; 1; 1; 0; 0;
   0; 0; 0; 0; 0; 0; 0; 0; 0; 0; 0; 0; 0; 0; 0; 0; 0; 0; 0; 0; 0; 0; 0; 0;
   0; 0; 0; 0; 0; 0; 0; 0; 0; 0; 0; 0; 0; 0; 0; 0; 0; 0; 0; 0; 0; 0; 0; 0;
   0; 0; 0; 0; 0; 0; 0; 0; 0; 0; 0; 0; 0; 0; 0; 0; 0; 0; 0; 0; 0; 0; 0; 0;
   0; 0; 0; 0; 0; 0; 0; 0; 0; 0; 0; 0; 0; 0; 0; 0; 0; 0; 0; 0; 0; 0; 0; 0;
   0; 0; 0; 0; 0; 0; 0; 0; 0; 0; 0; 0; 0; 0; 0; 0; 0; 0; 0; 0; 0; 0; 0; 0;
   0; 0; 0; 0; 0; 0; 0; 0; 0; 0; 0; 0; 0; 0; 0; 0; 0; 0; 0; 0; 0; 0; 0; 0;
   0; 0; 0; 0; 0; 0; 0; 0; 0; 0; 0; 0; 0; 0; 0; 0; 0; 0; 0; 0; 0; 0; 0; 0;
   0; 0; 0; 0; 0; 0; 0; 0; 0; 0; 0; 0; 0; 0; 0; 0; 0; 0; 0; 0; 0; 0; 0; 0;
   0; 0; 0; 0; 0; 0; 0; 0; 0; 0; 0; 0; 0; 0; 0; 0; 0; 0; 0; 0; 0; 0; 0; 0;
   0; 0; 0; 0; 0; 0; 0; 0; 0; 0; 0; 0; 0; 0; 0; 0; 0; 0; 0; 0; 0; 0; 0; 0;
   0; 0; 0; 0; 0; 0; 0; 0; 0; 0; 0; 0; 0; 0; 0; 0; 0; 0; 0; 0; 0; 0; 0; 0;
   0; 0; 0; 0; 0; 0; 0; 0; 0; 0; 0; 0; 0; 0; 0; 0; 0; 0; 0; 0; 0; 0; 0; 0;
   0; 0; 0; 0; 0; 0; 0; 0; 0; 0; 0; 0; 0; 0; 0; 0; 0; 0; 0; 0; 0; 0; 0; 0;
   0; 0; 0; 0; 0; 0; 0; 0; 0; 0; 0; 0; 0; 0; 0; 0; 0; 0; 0; 0; 0; 0; 0; 0;
   0; 0; 0; 0; 0; 0; 0; 0; 0; 0; 0; 0; 0; 0; 0; 0; 0; 0; 0; 0; 0; 0; 0; 0;
   0; 0; 0; 0; 0; 0; 0; 0; 0; 0; 0; 0; 0; 0; 0; 0; 0; 0; 0; 0; 0; 0; 0; 0;
   0; 0; 0; 0; 0; 0; 0; 0; 0; 0; 0; 0; 0; 0; 0; 0; 0; 0; 0; 0; 0; 0; 0; 0;
   0; 0; 0; 0; 0; 0; 0; 0; 0; 0; 0; 0; 0; 0; 0; 0; 0; 0; 0; 0; 0; 0; 0; 0;
   0; 0; 0; 0; 0; 0; 0; 0; 0; 0; 0; 0; 0; 0; 0; 0; 0; 0; 0; 0; 0; 0; 0; 0;
   0; 0; 0; 0; 0; 0; 0; 0; 0; 0; 0; 0; 0; 0; 0; 0; 0; 0; 0; 0; 0; 0; 0; 0;
   0; 0; 0; 0; 0; 0; 0; 0; 0; 0; 0; 0; 0; 0; 0; 0; 0; 0; 0; 0; 0; 0; 0; 0;
   0; 0; 0; 0; 0; 0; 0; 0; 0; 0; 0; 0; 1; 1; 1; 1; 1; 1; 1; 1; 1; 1; 1; 1;
   1; 24; 24; 25; 25; 26; 26; 27; 27; 28; 28; 29; 29; 30; 30; 31; 31; 32; 32; 33; 33; 34; 34; 35;
   35; 36; 36; 37; 37; 38; 38; 39; 39; 40; 40; 41; 41; 42; 42; 43; 43; 44; 44; 36; 36; 25; 25; 38;
   38; 27; 27; 45; 45; 41; 41; 30; 30; 43; 43; 32; 32; 46; 46; 26; 26; 35; 35; 28; 28; 37; 37; 47;
   47; 31; 31; 40; 40; 33; 33; 42; 42; 48; 48; 49; 49; 50; 50; 48; 48; 50; 50; 49; 49; 48; 48; 51;
   51; 52; 52; 48; 48; 52; 52; 51; 51; 0; 0; 0; 0; 0; 0; 0; 0; 0; 0; 0; 0; 0; 0; 0;
   0; 0; 0; 0; 0; 0; 0; 0; 0; 0; 0; 0; 0; 0; 0; 0; 0; 0; 0; 0; 0; 0; 0; 0;
   0; 0; 0; 0; 0; 0; 0; 0; 0; 0; 0; 0; 0; 0; 0; 0; 0; 0; 0; 0; 0; 0; 0; 0;
   0; 0; 0; 0; 0; 0; 0; 0; 0; 0; 0; 0; 0; 0; 0; 0; 0; 0; 0; 0; 0; 0; 0; 0;
   0; 0; 0; 0; 0; 0; 0; 0; 0; 0; 0; 0; 0; 0; 0; 0; 0; 0; 0; 0; 0; 0; 0; 0;
   0; 0; 0; 0; 0; 0; 0; 0; 0; 0; 0; 0; 0; 0; 0; 0; 0; 0; 0; 0; 0; 0; 0; 0;
   0; 0; 0; 0; 0; 0; 0; 0; 0; 0; 0; 0; 0; 0; 0; 0; 0; 0; 0; 0; 0; 0; 0; 0;
   0; 0; 0; 0; 0; 0; 0; 0; 0; 0; 0; 0; 0; 0; 0; 0; 0; 0; 0; 0; 0; 0; 0; 0;
   0; 0; 0; 0; 0; 0; 0; 0; 0; 0; 0; 0; 0; 0; 0; 0; 0; 0; 0; 0; 0; 0; 0; 0;
   0; 0; 0; 0; 0; 0; 0; 0; 0; 0; 0; 0; 0; 0; 0; 0; 0; 0; 0; 0; 0; 0; 0; 0;
   0; 0; 0; 0; 0; 0; 0; 0; 0; 0; 0; 0; 0; 0; 0; 0; 0; 0; 0; 0; 0; 0; 0; 0;
   0; 0; 0; 0; 0; 0; 0; 0; 0; 0; 0; 0; 0; 0; 0; 0; 0; 0; 0; 0; 0; 0; 0; 0;
   0; 0; 0; 0; 0; 0; 0; 0; 0; 0; 0; 0; 0; 0; 0; 0; 0; 0; 0; 0; 0; 0; 0; 0;
   0; 0; 0; 0; 0; 0; 0; 0; 0; 0; 0; 0; 0; 0; 0; 0; 0; 0; 0; 0; 0; 0; 0; 0;
   0; 0; 0; 0; 0; 0; 0; 0; 0; 0; 0; 0; 0; 0; 0; 0; 0; 0; 0; 0; 0; 0; 0; 0;
   0; 0; 0; 0; 0; 0; 0; 0; 0; 0; 0; 0; 0; 0; 0; 0; 0; 0; 0; 0; 0; 0; 0; 0;
   0; 0; 0; 0; 0; 0; 0; 0; 0; 0; 0; 0; 0; 0; 0; 0; 0; 0; 0; 0; 0; 0; 0; 0;
   0; 0; 0; 0; 0; 0; 0; 0; 0; 0; 0; 0; 0; 0; 0; 0; 0; 0; 0; 0; 0; 0; 0; 0;
   0; 0; 0; 0; 0; 0; 0; 0; 0; 0; 0; 0; 0; 0; 0; 0; 0; 0; 0; 0; 0; 0; 0; 0;
   0; 0; 0; 0; 0; 0; 0; 0; 0; 0; 0; 0; 0; 0; 0; 0; 0; 0; 0; 0; 0; 0; 0; 0;
   0; 0; 0; 0; 0; 0; 0; 0; 0; 0; 0; 0; 0; 0; 0; 0; 0; 0; 0; 0; 0; 0; 0; 0;
   0; 0; 0; 0; 0; 0; 0; 0; 0; 0; 0; 0; 0; 0; 0; 0; 0; 0; 0; 0; 0; 0; 0; 0;
   0; 0; 0; 0; 0; 0; 0; 0; 0; 0; 0; 0; 0; 0; 0; 0; 0; 0; 0; 0; 0; 0; 0; 0;
   0; 0; 0; 0; 0; 0; 0; 0; 0; 0; 0; 0; 0; 0; 0; 0; 0; 0; 0; 0; 0; 0; 0; 0].
Definition STATE_SHAPES_2 : list Z :=
  [0; 0; 0; 0; 0; 0; 0; 0; 0; 0; 0; 0; 0; 0; 0; 0; 0; 0; 0; 0; 0; 0; 0; 0;
   0; 0; 0; 0; 0; 0; 0; 0; 0; 0; 0; 0; 0; 0; 0; 0; 0; 0; 0; 0; 0; 0; 0; 0;
   0; 0; 0; 0; 0; 0; 0; 0; 0; 0; 0; 0; 0; 0; 0; 0; 0; 0; 0; 0; 0; 0; 0; 0;
   0; 0; 0; 0; 0; 0; 0; 0; 0; 0; 0; 0; 0; 0; 0; 0; 0; 0; 0; 0; 0; 0; 0; 0;
   0; 0; 0; 0; 0; 0; 0; 0; 0; 0; 0; 0; 0; 0; 0; 0; 0; 0; 0; 0; 0; 0; 0; 0;
   0; 0; 0; 0; 0; 0; 0; 0; 0; 0; 0; 0; 0; 0; 0; 0; 0; 0; 0; 0; 0; 0; 0; 0;
   0; 0; 0; 0; 0; 0; 0; 0; 0; 0; 0; 0; 0; 0; 0; 0; 0; 0; 0; 0; 0; 0; 0; 0;
   0; 0; 0; 0; 0; 0; 0; 0; 0; 0; 0; 0; 0; 0; 0; 0; 0; 0; 0; 0; 0; 0; 0; 0;
   0; 0; 0; 0; 0; 0; 0; 0; 0; 0; 0; 0; 0; 0; 0; 0; 0; 0; 0; 0; 0; 0; 0; 0;
   0; 0; 0; 0; 0; 0; 0; 0; 0; 0; 0; 0; 0; 0; 0; 0; 0; 0; 0; 0; 0; 0; 0; 0;
   0; 0; 0; 0; 0; 0; 0; 0; 0; 0; 0; 0; 0; 0; 0; 0; 0; 0; 0; 0; 0; 0; 0; 0;
   0; 0; 0; 0; 0; 0; 0; 0; 0; 0; 0; 0; 0; 0; 0; 0; 0; 0; 0; 0; 0; 0; 0; 0;
   0; 0; 0; 0; 0; 0; 0; 0; 0; 0; 0; 0; 0; 0; 0; 0; 0; 0; 0; 0; 0; 0; 0; 0;
   0; 0; 0; 0; 0; 0; 0; 0; 0; 0; 0; 0; 0; 0; 0; 0; 0; 0; 0; 0; 0; 0; 0; 0;
   0; 0; 0; 0; 0; 0; 0; 0; 0; 0; 0; 0; 0; 0; 0; 0; 0; 0; 0; 0; 0; 0; 0; 0;
   0; 0; 0; 0; 0; 0; 0; 0; 0; 0; 0; 0; 0; 0; 0; 0; 0; 0; 0; 0; 0; 0; 0; 0;
   0; 0; 0; 0; 0; 0; 0; 0; 0; 0; 0; 0; 0; 0; 0; 0; 0; 0; 0; 0; 0; 0; 0; 0;
   0; 0; 0; 0; 0; 0; 0; 0; 0; 0; 0; 0; 0; 0; 0; 0; 0; 0; 0; 0; 0; 0; 0; 0;
   0; 0; 0; 0; 0; 0; 0; 0; 0; 0; 0; 0; 0; 0; 0; 0; 0; 0; 0; 0; 0; 0; 0; 0;
   0; 0; 0; 0; 0; 0; 0; 0; 0; 0; 0; 0; 0; 0; 0; 0; 0; 0; 0; 0; 0; 0; 0; 0;
   0; 0; 0; 0; 0; 0; 0; 0; 0; 0; 0; 0; 0; 0; 0; 0; 0; 0; 0; 0; 0; 0; 0; 0;
   0; 0; 0; 0; 0; 0; 0; 0; 0; 0; 0; 0; 0; 0; 0; 0; 0; 0; 0; 0; 0; 0; 0; 0;
   0; 0; 0; 0; 0; 0; 0; 0; 0; 0; 0; 0; 0; 0; 0; 0; 0; 0; 0; 0; 0; 0; 0; 0;
   0; 0; 0; 0; 0; 0; 0; 0; 0; 0; 0; 0; 0; 0; 0; 0; 0; 0; 0; 0; 0; 0; 0; 0;
   0; 0; 0; 0; 0; 0; 0; 0; 0; 0; 0; 0; 0; 0; 0; 0; 0; 0; 0; 0; 0; 0; 0; 0;
   0; 0; 0; 0; 0; 0; 0; 0; 0; 0; 0; 0; 0; 0; 0; 0; 0; 0; 0; 0; 0; 0; 0; 0;
   0; 0; 0; 0; 0; 0; 0; 0; 0; 0; 0; 0; 0; 0; 0; 0; 0; 0; 0; 0; 0; 0; 0; 0;
   0; 0; 0; 0; 0; 0; 0; 0; 0; 0; 0; 0; 0; 0; 0; 0; 0; 0; 0; 0; 0; 0; 0; 0;
   0; 0; 0; 0; 0; 0; 0; 0; 0; 0; 0; 0; 0; 0; 0; 0; 0; 0; 0; 0; 0; 0; 0; 0;
   0; 0; 0; 0; 0; 0; 0; 0; 0; 0; 0; 0; 0; 0; 0; 0; 0; 0; 0; 0; 0; 0; 0; 0;
   0; 0; 0; 0; 0; 0; 0; 0; 0; 1; 1; 1; 1; 0; 0; 0; 0; 0; 0; 0; 0; 53; 53; 53;
   53; 53; 53; 53; 53; 1; 1; 1; 1; 1; 1; 1; 1; 0; 0; 0; 0; 0; 0; 0; 0; 0; 0; 0;
   0; 0; 0; 0; 0; 0; 0; 0; 0; 0; 0; 0; 0; 0; 0; 0; 0; 0; 0; 0; 0; 0; 0; 0;
   0; 0; 0; 0; 0; 0; 0; 0; 0; 0; 0; 0; 0; 0; 0; 0; 0; 0; 0; 0; 0; 0; 0; 0;
   0; 0; 0; 0; 0; 0; 0; 0; 0; 0; 0; 0; 0; 0; 0; 0; 0; 0; 0; 0; 0; 0; 0; 0;
   0; 0; 0; 0; 0; 0; 0; 0; 0; 0; 0; 0; 0; 0; 0; 0; 0; 0; 0; 0; 0; 0; 0; 0;
   0; 0; 0; 0; 0; 0; 0; 0; 0; 0; 0; 0; 0; 0; 0; 0; 0; 0; 0; 0; 0; 0; 0; 0;
   0; 0; 0; 0; 0; 0; 0; 0; 0; 0; 0; 0; 0; 0; 0; 0; 0; 0; 0; 0; 0; 0; 0; 0;
   0; 0; 0; 0; 0; 0; 0; 0; 0; 0; 0; 0; 0; 0; 0; 0; 0; 0; 0; 0; 0; 0; 0; 0;
   0; 0; 0; 0; 0; 0; 0; 0; 0; 0; 0; 0; 0; 0; 0; 0; 0; 0; 0; 0; 0; 0; 0; 0;
   0; 0; 0; 0; 0; 0; 0; 0; 0; 0; 0; 0; 0; 0; 0; 0; 0; 0; 0; 0; 0; 0; 0; 0;
   0; 0; 0; 0; 0; 0; 0; 0; 0; 0; 0; 0; 0; 0; 0; 0; 0; 0; 0; 0; 0; 0; 0; 0;
   0; 0; 0; 0; 0; 0; 0; 0; 0; 0; 0; 0; 0; 0; 0; 0; 0; 0; 0; 0; 0; 0; 0; 0;
   0; 0; 0; 0; 0; 0; 0; 0; 0; 0; 0; 0; 0; 0; 0; 0; 0; 0; 0; 0; 0; 0; 0; 0;
   0; 0; 0; 0; 0; 0; 0; 0; 0; 0; 0; 0; 0; 0; 0; 0; 0; 0; 0; 0; 0; 54; 54; 55;
   55; 56; 56; 55; 55; 54; 54; 55; 55; 56; 56; 55; 55; 56; 56; 57; 57; 54; 54; 57; 57; 56; 56; 57;
   57; 54; 54; 57; 57; 55; 55; 56; 56; 57; 57; 56; 56; 55; 55; 56; 56; 57; 57; 56; 56; 57; 57; 54;
   54; 55; 55; 54; 54; 57; 57; 54; 54; 55; 55; 54; 54; 58; 58; 59; 59; 60; 60; 61; 61; 0; 0; 0;
   0; 0; 0; 0; 0; 0; 0; 0; 0; 0; 0; 0; 0; 0; 0; 0; 0; 24; 24; 25; 25; 26; 26; 27;
   27; 28; 28; 29; 29; 30; 30; 31; 31; 32; 32; 33; 33; 34; 34; 35; 35; 36; 36; 37; 37; 38; 38; 39;
   39; 40; 40; 41; 41; 42; 42; 43; 43; 44; 44; 36; 36; 25; 25; 38; 38; 27; 27; 45; 45; 41; 41; 30;
   30; 43; 43; 32; 32; 46; 46; 26; 26; 35; 35; 28; 28; 37; 37; 47; 47; 31; 31; 40; 40; 33; 33; 42;
   42; 0; 0; 0; 0; 0; 0; 0; 0; 0; 0; 0; 0; 0; 0; 0; 0; 0; 0; 0; 0; 0; 0; 0;
   0; 0; 0; 0; 0; 0; 0; 0; 0; 0; 0; 0; 0; 0; 0; 0; 0; 0; 0; 0; 0; 0; 0; 0;
   0; 0; 0; 0; 0; 0; 0; 0; 0; 0; 0; 0; 0; 0; 0; 0; 0; 0; 0; 0; 0; 0; 0; 0;
   0; 0; 0; 0; 0; 0; 0; 0; 0; 0; 0; 0; 0; 0; 0; 0; 0; 0; 0; 0; 0; 0; 0; 0;
   0; 0; 0; 0; 0; 0; 0; 0; 0; 0; 0; 0; 0; 0; 0; 0; 0; 0; 0; 0; 0; 0; 0; 0;
   0; 0; 0; 0; 0; 0; 0; 0; 0; 0; 0; 0; 0; 0; 0; 0; 0; 0; 0; 0; 0; 0; 0; 0;
   0; 0; 0; 0; 0; 0; 0; 0; 0; 0; 0; 0; 0; 0; 0; 0; 0; 0; 0; 0; 0; 0; 0; 0;
   0; 0; 0; 0; 0; 0; 0; 0; 0; 0; 0; 0; 0; 0; 0; 0; 0; 0; 0; 0; 0; 0; 0; 0;
   0; 0; 0; 0; 0; 0; 0; 0; 0; 0; 0; 0; 0; 0; 0; 0; 0; 0; 0; 0; 0; 0; 0; 0;
   0; 0; 0; 0; 0; 0; 0; 0; 0; 0; 0; 0; 0; 0; 0; 0; 0; 0; 0; 0; 0; 0; 0; 0;
   0; 0; 0; 0; 0; 0; 0; 0; 0; 0; 0; 0; 0; 0; 0; 0; 0; 0; 0; 0; 0; 0; 0; 0;
   0; 0; 0; 0; 0; 0; 0; 0; 0; 0; 0; 0; 0; 0; 0; 0; 0; 0; 0; 0; 0; 0; 0; 0;
   0; 0; 0; 0; 0; 0; 0; 0; 0; 0; 0; 0; 0; 0; 0; 0; 0; 0; 0; 0; 0; 0; 0; 0;
   0; 0; 0; 0; 0; 0; 0; 0; 0; 0; 0; 0; 0; 0; 0; 0; 0; 0; 0; 0; 0; 0; 0; 0;
   0; 0; 0; 0; 0; 0; 0; 0; 0; 0; 0; 0; 0; 0; 0; 0; 0; 0; 0; 0; 0; 0; 0; 0;
   0; 0; 0; 0; 0; 0; 0; 0; 0; 0; 0; 0; 0; 0; 0; 0; 0; 0; 0; 0; 0; 0; 0; 0;
   0; 0; 0; 0; 0; 0; 0; 0; 0; 0; 0; 0; 0; 0; 0; 0; 0; 0; 0; 0; 0; 0; 0; 0;
   0; 0; 0; 0; 0; 0; 0; 0; 0; 0; 0; 0; 0; 0; 0; 0; 0; 0; 0; 0; 0; 0; 0; 0;
   0; 0; 0; 0; 0; 0; 0; 0; 0; 0; 0; 0; 0; 0; 0; 0; 0; 0; 0; 0; 0; 0; 0; 0;
   0; 0; 0; 0; 0; 0; 0; 0; 0; 0; 0; 0; 0; 0; 0; 0; 0; 0; 0; 0; 0; 0; 0; 0;
   0; 0; 0; 0; 0; 0; 0; 0; 0; 0; 0; 0; 0; 0; 0; 0; 0; 0; 0; 0; 0; 0; 0; 0;
   0; 0; 0; 0; 0; 0; 0; 0; 0; 0; 0; 0; 0; 0; 0; 0; 0; 0; 0; 0; 0; 0; 0; 0;
   0; 0; 0; 0; 0; 0; 0; 0; 0; 0; 0; 0; 0; 0; 0; 0; 0; 0; 0; 0; 0; 0; 0; 0].
Definition STATE_SHAPES_3 : list Z :=
  [0; 0; 0; 0; 0; 0; 0; 0; 0; 0; 0; 0; 0; 0; 0; 0; 0; 0; 0; 0; 0; 0; 0; 0;
   0; 0; 0; 0; 0; 0; 0; 0; 0; 0; 0; 0; 0; 0; 0; 0; 0; 0; 0; 0; 0; 0; 0; 0;
   0; 0; 0; 0; 0; 0; 0; 0; 0; 0; 0; 0; 0; 0; 0; 0; 0; 0; 0; 0; 0; 0; 0; 0;
   0; 0; 0; 0; 0; 0; 0; 0; 0; 0; 0; 0; 0; 0; 0; 0; 0; 0; 0; 0; 0; 0; 0; 0;
   0; 0; 0; 0; 0; 0; 0; 0; 0; 0; 0; 0; 0; 0; 0; 0; 0; 0; 0; 0; 0; 0; 0; 0;
   0; 0; 0; 0; 0; 0; 0; 0; 0; 0; 0; 0; 0; 0; 0; 0; 0; 0; 0; 0; 0; 0; 0; 0;
   0; 0; 0; 0; 0; 0; 0; 0; 0; 0; 0; 0; 0; 0; 0; 0; 0; 0; 0; 0; 0; 0; 0; 0;
   0; 0; 0; 0; 0; 0; 0; 0; 0; 0; 0; 0; 0; 0; 0; 0; 0; 0; 0; 0; 0; 0; 0; 0;
   0; 0; 0; 0; 0; 0; 0; 0; 0; 0; 0; 0; 0; 0; 0; 0; 0; 0; 0; 0; 0; 0; 0; 0;
   0; 0; 0; 0; 0; 0; 0; 0; 0; 0; 0; 0; 0; 0; 0; 0; 0; 0; 0; 0; 0; 0; 0; 0;
   0; 0; 0; 0; 0; 0; 0; 0; 0; 0; 0; 0; 0; 0; 0; 0; 0; 0; 0; 0; 0; 0; 0; 0;
   0; 0; 0; 0; 0; 0; 0; 0; 0; 0; 0; 0; 0; 0; 0; 0; 0; 0; 0; 0; 0; 0; 0; 0;
   0; 0; 0; 0; 0; 0; 0; 0; 0; 62; 62; 62; 62; 63; 63; 63; 63; 62; 62; 62; 62; 63; 63; 63;
   63; 62; 62; 62; 62; 63; 63; 63; 63; 62; 62; 62; 62; 63; 63; 63; 63; 62; 62; 62; 62; 63; 63; 63;
   63; 62; 62; 62; 62; 63; 63; 63; 63; 62; 62; 62; 62; 63; 63; 63; 63; 62; 62; 62; 62; 63; 63; 63;
   63; 62; 62; 62; 62; 63; 63; 63; 63; 62; 62; 62; 62; 63; 63; 63; 63; 62; 62; 62; 62; 63; 63; 63;
   63; 62; 62; 62; 62; 63; 63; 63; 63; 0; 0; 0; 0; 0; 0; 0; 0; 0; 0; 0; 0; 0; 0; 0;
   0; 0; 0; 0; 0; 0; 0; 0; 0; 0; 0; 54; 54; 55; 55; 56; 56; 55; 55; 54; 54; 55; 55; 56;
   56; 55; 55; 56; 56; 57; 57; 54; 54; 57; 57; 56; 56; 57; 57; 54; 54; 57; 57; 55; 55; 56; 56; 57;
   57; 56; 56; 55; 55; 56; 56; 57; 57; 56; 56; 57; 57; 54; 54; 55; 55; 54; 54; 57; 57; 54; 54; 55;
   55; 54; 54; 0; 0; 0; 0; 0; 0; 0; 0; 0; 0; 0; 0; 0; 0; 0; 0; 0; 0; 0; 0; 1;
   1; 1; 1; 0; 0; 0; 0; 0; 0; 0; 0; 0; 0; 0; 0; 0; 0; 0; 0; 0; 0; 0; 0; 0;
   0; 0; 0; 0; 0; 0; 0; 0; 0; 0; 0; 0; 0; 0; 64; 65; 66; 67; 68; 69; 70; 1; 1; 71;
   71; 71; 71; 71; 71; 71; 71; 71; 71; 71; 71; 71; 71; 71; 71; 1; 0; 0; 0; 0; 0; 0; 0; 0;
   0; 0; 0; 0; 0; 0; 0; 0; 1; 1; 72; 73; 72; 73; 74; 75; 74; 75; 76; 77; 76; 77; 78; 79;
   78; 79; 80; 81; 80; 81; 82; 83; 82; 83; 84; 85; 84; 85; 86; 87; 86; 87; 1; 88; 1; 1; 1; 1;
   1; 1; 1; 0; 0; 0; 0; 0; 1; 0; 0; 1; 1; 1; 1; 1; 1; 1; 1; 89; 90; 91; 92; 93;
   94; 95; 96; 96; 96; 96; 96; 96; 96; 96; 96; 96; 96; 96; 96; 96; 96; 96; 96; 96; 96; 96; 96; 96;
   96; 96; 96; 96; 96; 96; 96; 96; 96; 96; 96; 96; 96; 96; 96; 96; 96; 96; 96; 96; 96; 96; 96; 96;
   96; 96; 96; 96; 96; 96; 96; 96; 96; 96; 96; 96; 96; 96; 96; 96; 96; 96; 1; 1; 1; 1; 1; 1;
   1; 1; 1; 1; 1; 1; 1; 1; 1; 1; 97; 97; 97; 97; 98; 98; 98; 98; 97; 97; 97; 97; 99; 99;
   99; 99; 100; 100; 100; 100; 98; 98; 98; 98; 100; 100; 100; 100; 99; 99; 99; 99; 101; 101; 101; 101; 98; 98;
   98; 98; 101; 101; 101; 101; 99; 99; 99; 99; 102; 102; 102; 102; 98; 98; 98; 98; 102; 102; 102; 102; 99; 99;
   99; 99; 97; 97; 97; 97; 98; 98; 98; 98; 97; 97; 97; 97; 99; 99; 99; 99; 100; 100; 100; 100; 98; 98;
   98; 98; 100; 100; 100; 100; 99; 99; 99; 99; 101; 101; 101; 101; 98; 98; 98; 98; 101; 101; 101; 101; 99; 99;
   99; 99; 102; 102; 102; 102; 98; 98; 98; 98; 102; 102; 102; 102; 99; 99; 99; 99; 97; 97; 97; 97; 98; 98;
   98; 98; 97; 97; 97; 97; 99; 99; 99; 99; 100; 100; 100; 100; 98; 98; 98; 98; 100; 100; 100; 100; 99; 99;
   99; 99; 101; 101; 101; 101; 98; 98; 98; 98; 101; 101; 101; 101; 99; 99; 99; 99; 102; 102; 102; 102; 98; 98;
   98; 98; 102; 102; 102; 102; 99; 99; 99; 99; 97; 97; 97; 97; 98; 98; 98; 98; 97; 97; 97; 97; 99; 99;
   99; 99; 100; 100; 100; 100; 98; 98; 98; 98; 100; 100; 100; 100; 99; 99; 99; 99; 101; 101; 101; 101; 98; 98;
   98; 98; 101; 101; 101; 101; 99; 99; 99; 99; 102; 102; 102; 102; 98; 98; 98; 98; 102; 102; 102; 102; 99; 99;
   99; 99; 97; 97; 97; 97; 98; 98; 98; 98; 97; 97; 97; 97; 99; 99; 99; 99; 100; 100; 100; 100; 98; 98;
   98; 98; 100; 100; 100; 100; 99; 99; 99; 99; 101; 101; 101; 101; 98; 98; 98; 98; 101; 101; 101; 101; 99; 99;
   99; 99; 102; 102; 102; 102; 98; 98; 98; 98; 102; 102; 102; 102; 99; 99; 99; 99; 97; 97; 97; 97; 98; 98;
   98; 98; 97; 97; 97; 97; 99; 99; 99; 99; 100; 100; 100; 100; 98; 98; 98; 98; 100; 100; 100; 100; 99; 99;
   99; 99; 101; 101; 101; 101; 98; 98; 98; 98; 101; 101; 101; 101; 99; 99; 99; 99; 102; 102; 102; 102; 98; 98;
   98; 98; 102; 102; 102; 102; 99; 99; 99; 99; 97; 97; 97; 97; 98; 98; 98; 98; 97; 97; 97; 97; 99; 99;
   99; 99; 100; 100; 100; 100; 98; 98; 98; 98; 100; 100; 100; 100; 99; 99; 99; 99; 101; 101; 101; 101; 98; 98;
   98; 98; 101; 101; 101; 101; 99; 99; 99; 99; 102; 102; 102; 102; 98; 98; 98; 98; 102; 102; 102; 102; 99; 99;
   99; 99; 97; 97; 97; 97; 98; 98; 98; 98; 97; 97; 97; 97; 99; 99; 99; 99; 100; 100; 100; 100; 98; 98;
   98; 98; 100; 100; 100; 100; 99; 99; 99; 99; 101; 101; 101; 101; 98; 98; 98; 98; 101; 101; 101; 101; 99; 99;
   99; 99; 102; 102; 102; 102; 98; 98; 98; 98; 102; 102; 102; 102; 99; 99; 99; 99; 97; 97; 97; 97; 98; 98;
   98; 98; 97; 97; 97; 97; 99; 99; 99; 99; 100; 100; 100; 100; 98; 98; 98; 98; 100; 100; 100; 100; 99; 99;
   99; 99; 101; 101; 101; 101; 98; 98; 98; 98; 101; 101; 101; 101; 99; 99; 99; 99; 102; 102; 102; 102; 98; 98;
   98; 98; 102; 102; 102; 102; 99; 99; 99; 99; 97; 97; 97; 97; 98; 98; 98; 98; 97; 97; 97; 97; 99; 99;
   99; 99; 100; 100; 100; 100; 98; 98; 98; 98; 100; 100; 100; 100; 99; 99; 99; 99; 101; 101; 101; 101; 98; 98;
   98; 98; 101; 101; 101; 101; 99; 99; 99; 99; 102; 102; 102; 102; 98; 98; 98; 98; 102; 102; 102; 102; 99; 99;
   99; 99; 1; 1; 1; 1; 1; 1; 1; 1; 1; 1; 1; 1; 1; 1; 1; 1; 1; 1; 1; 1; 1; 1;
   1; 1; 1; 1; 1; 1; 1; 1; 1; 1; 1; 1; 1; 1; 1; 1; 1; 1; 1; 1; 1; 1; 1; 1;
   1; 1; 1; 1; 1; 1; 1; 1; 1; 1; 1; 1; 1; 1; 1; 1; 1; 1; 1; 1; 1; 1; 1; 1;
   1; 1; 1; 1; 1; 1; 1; 1; 1; 1; 1; 1; 1; 1; 1; 1; 1; 1; 1; 1; 1; 1; 1; 1;
   1; 1; 1; 1; 1; 1; 1; 1; 1; 1; 1; 1; 1; 1; 1; 1; 1; 1; 1; 1; 1; 1; 1; 1;
   1; 1; 1; 1; 1; 1; 1; 1; 1; 1; 1; 1; 1; 1; 1; 1; 1; 1; 1; 1; 1; 1; 1; 1;
   1; 1; 1; 1; 1; 1; 1; 1; 1; 1; 1; 1; 1; 1; 1; 1; 1; 1; 1; 1; 1; 1; 1; 1;
   1; 1; 1; 1; 1; 1; 1; 1; 1; 1; 1; 1; 1; 1; 1; 1; 1; 1; 1; 1; 1; 1; 1; 1;
   1; 1; 1; 1; 1; 1; 1; 1; 1; 1; 1; 1; 1; 1; 103; 104; 103; 104; 105; 106; 105; 106; 107; 108;
   107; 108; 109; 110; 109; 110; 111; 112; 111; 112; 113; 114; 113; 114; 115; 116; 115; 116; 117; 118; 117; 118; 119; 119;
   120; 120; 121; 121; 122; 123; 122; 123; 124; 125; 124; 125; 126; 127; 126; 127; 128; 129; 128; 129; 130; 131; 130; 131;
   132; 133; 132; 133; 134; 135; 134; 135; 136; 137; 136; 137; 1; 1; 0; 0; 0; 0; 0; 0; 0; 0; 0; 0;
   0; 0; 0; 0; 0; 0; 0; 0; 0; 0; 0; 0; 0; 0; 0; 0; 0; 0; 0; 0; 0; 0; 0; 0;
   0; 0; 0; 0; 0; 0; 0; 0; 0; 0; 0; 0; 0; 0; 0; 0; 0; 0; 0; 0; 0; 0; 0; 0;
   0; 0; 0; 0; 0; 0; 0; 0; 0; 0; 0; 0; 0; 0; 0; 0; 0; 0; 0; 0; 0; 0; 0; 0;
   0; 0; 0; 0; 0; 0; 0; 0; 0; 0; 0; 0; 0; 0; 0; 0; 0; 0; 0; 0; 0; 0; 0; 0;
   0; 0; 0; 0; 0; 0; 0; 0; 0; 0; 0; 0; 0; 0; 0; 0; 0; 0; 0; 0; 0; 0; 0; 0;
   0; 0; 0; 0; 0; 0; 0; 0; 0; 0; 0; 0; 0; 0; 0; 0; 0; 0; 0; 0; 0; 0; 0; 0].
Definition STATE_SHAPES_4 : list Z :=
  [0; 0; 0; 0; 0; 0; 0; 0; 0; 0; 0; 0; 0; 0; 0; 0; 0; 0; 0; 0; 0; 0; 0; 0;
   0; 0; 0; 0; 0; 0; 0; 0; 0; 0; 0; 0; 0; 0; 0; 0; 0; 0; 0; 0; 0; 0; 0; 0;
   0; 0; 0; 0; 0; 0; 0; 0; 0; 0; 0; 0; 0; 0; 0; 0; 0; 0; 0; 0; 0; 0; 0; 0;
   0; 0; 0; 0; 0; 0; 0; 0; 0; 0; 0; 0; 0; 0; 0; 0; 0; 0; 0; 0; 0; 0; 0; 0;
   0; 0; 0; 0; 0; 0; 0; 0; 0; 0; 0; 0; 0; 0; 0; 0; 0; 0; 0; 0; 0; 0; 0; 0;
   0; 0; 0; 0; 0; 0; 0; 0; 0; 0; 0; 0; 0; 0; 0; 0; 0; 0; 0; 0; 0; 0; 0; 0;
   0; 0; 0; 0; 0; 0; 0; 0; 0; 0; 0; 0; 0; 0; 0; 0; 138; 138; 0; 0; 138; 138; 0; 0;
   138; 138; 0; 0; 138; 138; 0; 0; 139; 139; 0; 0; 139; 139; 0; 0; 139; 139; 0; 0; 139; 139; 24; 24;
   25; 25; 26; 26; 27; 27; 28; 28; 29; 29; 30; 30; 31; 31; 32; 32; 33; 33; 34; 34; 35; 35; 36; 36;
   37; 37; 38; 38; 39; 39; 40; 40; 41; 41; 42; 42; 43; 43; 44; 44; 36; 36; 25; 25; 38; 38; 27; 27;
   45; 45; 41; 41; 30; 30; 43; 43; 32; 32; 46; 46; 26; 26; 35; 35; 28; 28; 37; 37; 47; 47; 31; 31;
   40; 40; 33; 33; 42; 42; 24; 24; 25; 25; 26; 26; 27; 27; 28; 28; 29; 29; 30; 30; 31; 31; 32; 32;
   33; 33; 34; 34; 35; 35; 36; 36; 37; 37; 38; 38; 39; 39; 40; 40; 41; 41; 42; 42; 43; 43; 44; 44;
   36; 36; 25; 25; 38; 38; 27; 27; 45; 45; 41; 41; 30; 30; 43; 43; 32; 32; 46; 46; 26; 26; 35; 35;
   28; 28; 37; 37; 47; 47; 31; 31; 40; 40; 33; 33; 42; 42; 24; 24; 25; 25; 26; 26; 27; 27; 28; 28;
   29; 29; 30; 30; 31; 31; 32; 32; 33; 33; 34; 34; 35; 35; 36; 36; 37; 37; 38; 38; 39; 39; 40; 40;
   41; 41; 42; 42; 43; 43; 44; 44; 36; 36; 25; 25; 38; 38; 27; 27; 45; 45; 41; 41; 30; 30; 43; 43;
   32; 32; 46; 46; 26; 26; 35; 35; 28; 28; 37; 37; 47; 47; 31; 31; 40; 40; 33; 33; 42; 42; 1; 1;
   140; 1; 1; 24; 24; 25; 25; 26; 26; 27; 27; 28; 28; 29; 29; 30; 30; 31; 31; 32; 32; 33; 33; 34;
   34; 35; 35; 36; 36; 37; 37; 38; 38; 39; 39; 40; 40; 41; 41; 42; 42; 43; 43; 44; 44; 36; 36; 25;
   25; 38; 38; 27; 27; 45; 45; 41; 41; 30; 30; 43; 43; 32; 32; 46; 46; 26; 26; 35; 35; 28; 28; 37;
   37; 47; 47; 31; 31; 40; 40; 33; 33; 42; 42; 141; 141; 142; 142; 1; 1; 143; 144; 145; 143; 144; 145; 0;
   146; 147; 0; 146; 147; 148; 149; 150; 148; 149; 150; 151; 152; 153; 151; 152; 153; 154; 155; 156; 154; 155; 156; 157;
   158; 159; 157; 158; 159; 160; 161; 162; 160; 161; 162; 163; 164; 165; 163; 164; 165; 166; 167; 168; 166; 167; 168; 169;
   170; 171; 169; 170; 171; 172; 173; 174; 172; 173; 174; 175; 176; 177; 175; 176; 177; 178; 179; 180; 178; 179; 180; 181;
   182; 183; 181; 182; 183; 184; 185; 186; 184; 185; 186; 187; 188; 189; 187; 188; 189; 190; 191; 192; 190; 191; 192; 193;
   194; 195; 193; 194; 195; 196; 197; 198; 196; 197; 198; 199; 200; 201; 199; 200; 201; 202; 203; 204; 202; 203; 204; 205;
   206; 207; 205; 206; 207; 208; 209; 210; 208; 209; 210; 211; 212; 213; 211; 212; 213; 214; 215; 216; 214; 215; 216; 217;
   218; 219; 217; 218; 219; 220; 221; 222; 220; 221; 222; 223; 224; 225; 223; 224; 225; 226; 227; 228; 226; 227; 228; 229;
   230; 231; 229; 230; 231; 232; 233; 234; 232; 233; 234; 235; 236; 237; 235; 236; 237; 238; 239; 240; 238; 239; 240; 241;
   242; 243; 241; 242; 243; 244; 245; 246; 244; 245; 246; 247; 248; 249; 247; 248; 249; 250; 251; 252; 250; 251; 252; 253;
   254; 255; 253; 254; 255; 256; 257; 258; 256; 257; 258; 259; 260; 261; 259; 260; 261; 262; 263; 264; 262; 263; 264; 265;
   266; 267; 265; 266; 267; 268; 269; 270; 268; 269; 270; 271; 272; 273; 271; 272; 273; 274; 275; 276; 274; 275; 276; 277;
   278; 279; 277; 278; 279; 280; 281; 282; 280; 281; 282; 283; 284; 285; 283; 284; 285; 286; 287; 288; 286; 287; 288; 289;
   290; 291; 289; 290; 291; 292; 293; 294; 292; 293; 294; 295; 296; 297; 295; 296; 297; 298; 299; 300; 298; 299; 300; 301;
   302; 303; 301; 302; 303; 1; 1; 304; 305; 304; 305; 306; 307; 306; 307; 308; 309; 308; 309; 310; 311; 310; 311; 312;
   313; 312; 313; 314; 315; 314; 315; 316; 317; 316; 317; 318; 319; 318; 319; 24; 24; 25; 25; 26; 26; 27; 27; 28;
   28; 29; 29; 30; 30; 31; 31; 32; 32; 33; 33; 34; 34; 35; 35; 36; 36; 37; 37; 38; 38; 39; 39; 40;
   40; 41; 41; 42; 42; 43; 43; 44; 44; 36; 36; 25; 25; 38; 38; 27; 27; 45; 45; 41; 41; 30; 30; 43;
   43; 32; 32; 46; 46; 26; 26; 35; 35; 28; 28; 37; 37; 47; 47; 31; 31; 40; 40; 33; 33; 42; 42; 0;
   0; 0; 0; 320; 321; 321; 321; 321; 321; 321; 321; 321; 322; 322; 322; 322; 322; 322; 322; 322; 0; 323; 323; 323;
   323; 324; 324; 324; 324; 1; 325; 1; 1; 326; 327; 328; 329; 330; 331; 332; 333; 334; 335; 336; 337; 24; 24; 25;
   25; 26; 26; 27; 27; 28; 28; 29; 29; 30; 30; 31; 31; 32; 32; 33; 33; 34; 34; 35; 35; 36; 36; 37;
   37; 38; 38; 39; 39; 40; 40; 41; 41; 42; 42; 43; 43; 44; 44; 36; 36; 25; 25; 38; 38; 27; 27; 45;
   45; 41; 41; 30; 30; 43; 43; 32; 32; 46; 46; 26; 26; 35; 35; 28; 28; 37; 37; 47; 47; 31; 31; 40;
   40; 33; 33; 42; 42; 1; 1; 338; 338; 338; 338; 338; 338; 338; 338; 0; 0; 0; 0; 0; 0; 0; 0; 0;
   0; 0; 0; 0; 0; 0; 0; 0; 0; 0; 0; 0; 0; 0; 0; 0; 0; 0; 0; 0; 0; 0; 0; 0;
   0; 0; 0; 0; 0; 0; 0; 0; 0; 0; 0; 0; 0; 0; 0; 0; 0; 0; 0; 0; 0; 0; 0; 0;
   0; 0; 0; 0; 0; 0; 0; 0; 0; 0; 0; 0; 0; 0; 0; 0; 0; 0; 0; 0; 0; 0; 0; 0;
   0; 0; 0; 0; 0; 0; 0; 0; 0; 0; 0; 0; 0; 0; 0; 0; 0; 0; 0; 0; 0; 0; 0; 0;
   0; 0; 0; 0; 0; 0; 0; 0; 0; 0; 0; 0; 0; 0; 0; 0; 0; 0; 0; 0; 0; 0; 0; 0;
   0; 0; 0; 0; 0; 0; 0; 0; 0; 0; 0; 0; 0; 0; 0; 1; 24; 24; 25; 25; 26; 26; 27; 27;
   28; 28; 29; 29; 30; 30; 31; 31; 32; 32; 33; 33; 34; 34; 35; 35; 36; 36; 37; 37; 38; 38; 39; 39;
   40; 40; 41; 41; 42; 42; 43; 43; 44; 44; 36; 36; 25; 25; 38; 38; 27; 27; 45; 45; 41; 41; 30; 30;
   43; 43; 32; 32; 46; 46; 26; 26; 35; 35; 28; 28; 37; 37; 47; 47; 31; 31; 40; 40; 33; 33; 42; 42;
   24; 24; 25; 25; 26; 26; 27; 27; 28; 28; 29; 29; 30; 30; 31; 31; 32; 32; 33; 33; 34; 34; 35; 35;
   36; 36; 37; 37; 38; 38; 39; 39; 40; 40; 41; 41; 42; 42; 43; 43; 44; 44; 36; 36; 25; 25; 38; 38;
   27; 27; 45; 45; 41; 41; 30; 30; 43; 43; 32; 32; 46; 46; 26; 26; 35; 35; 28; 28; 37; 37; 47; 47;
   31; 31; 40; 40; 33; 33; 42; 42; 24; 24; 25; 25; 26; 26; 27; 27; 28; 28; 29; 29; 30; 30; 31; 31;
   32; 32; 33; 33; 34; 34; 35; 35; 36; 36; 37; 37; 38; 38; 39; 39; 40; 40; 41; 41; 42; 42; 43; 43;
   44; 44; 36; 36; 25; 25; 38; 38; 27; 27; 45; 45; 41; 41; 30; 30; 43; 43; 32; 32; 46; 46; 26; 26;
   35; 35; 28; 28; 37; 37; 47; 47; 31; 31; 40; 40; 33; 33; 42; 42; 1; 1; 1; 1; 1; 1; 1; 1;
   1; 1; 1; 1; 1; 339; 340; 341; 339; 340; 341; 0; 342; 343; 0; 342; 343; 344; 345; 346; 344; 345; 346; 347;
   348; 349; 347; 348; 349; 350; 351; 352; 350; 351; 352; 353; 354; 355; 353; 354; 355; 356; 357; 358; 356; 357; 358; 359;
   360; 361; 359; 360; 361; 362; 363; 364; 362; 363; 364; 365; 366; 367; 365; 366; 367; 368; 369; 370; 368; 369; 370; 371;
   372; 373; 371; 372; 373; 374; 375; 376; 374; 375; 376; 377; 378; 379; 377; 378; 379; 380; 381; 382; 380; 381; 382; 383;
   384; 385; 383; 384; 385; 386; 387; 388; 386; 387; 388; 389; 390; 391; 389; 390; 391; 392; 393; 394; 392; 393; 394; 395;
   396; 397; 395; 396; 397; 398; 399; 400; 398; 399; 400; 401; 402; 403; 401; 402; 403; 404; 405; 406; 404; 405; 406; 407;
   408; 409; 407; 408; 409; 410; 411; 412; 410; 411; 412; 413; 414; 415; 413; 414; 415; 416; 417; 418; 416; 417; 418; 419;
   420; 421; 419; 420; 421; 422; 423; 424; 422; 423; 424; 425; 426; 427; 425; 426; 427; 428; 429; 430; 428; 429; 430; 431;
   432; 433; 431; 432; 433; 434; 435; 436; 434; 435; 436; 437; 438; 439; 437; 438; 439; 440; 441; 442; 440; 441; 442; 443;
   444; 445; 443; 444; 445; 446; 447; 448; 446; 447; 448; 449; 450; 451; 449; 450; 451; 452; 453; 454; 452; 453; 454; 455;
   456; 457; 455; 456; 457; 458; 459; 460; 458; 459; 460; 461; 462; 463; 461; 462; 463; 464; 465; 466; 464; 465; 466; 467;
   468; 469; 467; 468; 469; 470; 471; 472; 470; 471; 472; 473; 474; 475; 473; 474; 475; 476; 477; 478; 476; 477; 478; 479;
   480; 481; 479; 480; 481; 482; 483; 484; 482; 483; 484; 485; 486; 487; 485; 486; 487; 488; 489; 490; 488; 489; 490; 491].
Definition STATE_SHAPES_5 : list Z :=
  [492; 493; 491; 492; 493; 494; 495; 496; 494; 495; 496; 497; 498; 499; 497; 498; 499; 500; 501; 502; 500; 501; 502; 0;
   503; 504; 0; 503; 504; 505; 506; 507; 505; 506; 507; 508; 509; 510; 508; 509; 510; 511; 512; 513; 511; 512; 513; 514;
   515; 516; 514; 515; 516; 517; 518; 519; 517; 518; 519; 520; 521; 522; 520; 521; 522; 523; 524; 525; 523; 524; 525; 526;
   527; 528; 526; 527; 528; 529; 530; 531; 529; 530; 531; 532; 533; 534; 532; 533; 534; 535; 536; 537; 535; 536; 537; 538;
   539; 540; 538; 539; 540; 541; 542; 543; 541; 542; 543; 544; 545; 546; 544; 545; 546; 547; 548; 549; 547; 548; 549; 550;
   551; 552; 550; 551; 552; 553; 554; 555; 553; 554; 555; 556; 557; 558; 556; 557; 558; 559; 560; 561; 559; 560; 561; 562;
   563; 564; 562; 563; 564; 565; 566; 567; 565; 566; 567; 568; 569; 570; 568; 569; 570; 571; 572; 573; 571; 572; 573; 574;
   575; 576; 574; 575; 576; 577; 578; 579; 577; 578; 579; 580; 581; 582; 580; 581; 582; 583; 584; 585; 583; 584; 585; 586;
   587; 588; 586; 587; 588; 589; 590; 591; 589; 590; 591; 592; 593; 594; 592; 593; 594; 595; 596; 597; 595; 596; 597; 598;
   599; 600; 598; 599; 600; 601; 602; 603; 601; 602; 603; 604; 605; 606; 604; 605; 606; 607; 608; 609; 607; 608; 609; 610;
   611; 612; 610; 611; 612; 613; 614; 615; 613; 614; 615; 616; 617; 618; 616; 617; 618; 619; 620; 621; 619; 620; 621; 622;
   623; 624; 622; 623; 624; 625; 626; 627; 625; 626; 627; 628; 629; 630; 628; 629; 630; 631; 632; 633; 631; 632; 633; 634;
   635; 636; 634; 635; 636; 637; 638; 639; 637; 638; 639; 640; 641; 642; 640; 641; 642; 643; 644; 645; 643; 644; 645; 646;
   647; 648; 646; 647; 648; 649; 650; 651; 649; 650; 651; 652; 653; 654; 652; 653; 654; 655; 656; 657; 655; 656; 657; 658;
   659; 660; 658; 659; 660; 661; 661; 661; 661; 661; 661; 661; 661; 661; 661; 661; 661; 661; 661; 661; 661; 661; 661; 661;
   661; 661; 661; 661; 661; 661; 661; 661; 661; 661; 0; 0; 0; 0; 0; 0; 0; 0; 0; 0; 0; 0; 0; 0;
   0; 0; 0; 0; 0; 0; 0; 0; 0; 0; 0; 0; 0; 0; 0; 0; 0; 0; 0; 0; 0; 0; 0; 0;
   0; 0; 0; 0; 0; 0; 0; 0; 0; 0; 0; 0; 0; 0; 0; 0; 0; 0; 0; 0; 0; 0; 0; 0;
   0; 0; 0; 0; 0; 0; 0; 0; 0; 0; 0; 0; 0; 0; 0; 0; 0; 0; 0; 0; 0; 0; 0; 0;
   0; 0; 0; 0; 0; 0; 0; 0; 0; 0; 0; 0; 0; 0; 0; 0; 0; 0; 0; 0; 0; 0; 0; 0;
   0; 0; 0; 0; 0; 0; 0; 0; 0; 0; 0; 0; 0; 0; 0; 0; 0; 0; 0; 0; 0; 0; 0; 0;
   0; 0; 0; 0; 0; 0; 0; 0; 0; 0; 0; 0; 0; 0; 0; 0; 0; 0; 0; 0; 0; 0; 0; 0;
   0; 0; 0; 0; 0; 0; 0; 0; 0; 0; 0; 0; 0; 0; 0; 0; 0; 0; 0; 0; 0; 0; 0; 0;
   0; 0; 0; 0; 0; 0; 0; 0; 0; 0; 0; 0; 0; 0; 0; 0; 0; 0; 0; 0; 0; 0; 0; 0;
   0; 0; 0; 0; 0; 0; 0; 0; 0; 0; 0; 0; 0; 0; 0; 0; 0; 0; 0; 0; 0; 0; 0; 0;
   0; 0; 0; 0; 0; 0; 0; 0; 0; 0; 0; 0; 0; 0; 0; 0; 0; 0; 0; 0; 0; 0; 0; 0;
   0; 0; 662; 662; 662; 662; 662; 662; 662; 662; 662; 662; 662; 662; 662; 662; 662; 662; 662; 662; 662; 662; 662; 662;
   662; 662; 662; 662; 662; 662; 662; 662; 662; 662; 663; 663; 664; 664; 665; 665; 666; 666; 662; 662; 662; 662; 662; 662;
   662; 662; 662; 662; 662; 662; 662; 662; 662; 662; 662; 662; 662; 662; 662; 662; 662; 662; 662; 662; 662; 662; 662; 662;
   662; 662; 663; 663; 664; 664; 665; 665; 666; 666; 662; 662; 662; 662; 662; 662; 662; 662; 662; 662; 662; 662; 662; 662;
   662; 662; 662; 662; 662; 662; 662; 662; 662; 662; 662; 662; 662; 662; 662; 662; 662; 662; 663; 663; 664; 664; 665; 665;
   666; 666; 662; 662; 662; 662; 662; 662; 662; 662; 662; 662; 662; 662; 662; 662; 662; 662; 662; 662; 662; 662; 662; 662;
   662; 662; 662; 662; 662; 662; 662; 662; 662; 662; 663; 663; 664; 664; 665; 665; 666; 666; 662; 662; 662; 662; 662; 662;
   662; 662; 662; 662; 662; 662; 662; 662; 662; 662; 662; 662; 662; 662; 662; 662; 662; 662; 662; 662; 662; 662; 662; 662;
   662; 662; 663; 663; 664; 664; 665; 665; 666; 666; 662; 662; 662; 662; 662; 662; 662; 662; 662; 662; 662; 662; 662; 662;
   662; 662; 662; 662; 662; 662; 662; 662; 662; 662; 662; 662; 662; 662; 662; 662; 662; 662; 663; 663; 664; 664; 665; 665;
   666; 666; 667; 667; 667; 667; 667; 667; 667; 667; 667; 667; 667; 667; 667; 667; 667; 667; 667; 667; 667; 667; 667; 667;
   667; 667; 667; 667; 667; 667; 667; 667; 667; 667; 668; 668; 669; 669; 670; 670; 671; 671; 672; 672; 673; 673; 672; 672;
   673; 673; 672; 672; 673; 673; 48; 48; 49; 49; 50; 50; 48; 48; 50; 50; 49; 49; 48; 48; 51; 51; 52; 52;
   48; 48; 52; 52; 51; 51; 0; 0; 0; 0; 0; 0; 0; 0; 0; 0; 0; 0; 0; 0; 0; 0; 0; 0;
   0; 0; 0; 0; 0; 0; 0; 0; 0; 0; 0; 0; 0; 0; 96; 96; 96; 96; 96; 96; 96; 96; 96; 96;
   96; 96; 96; 96; 96; 96; 674; 674; 674; 674; 674; 674; 674; 674; 674; 674; 674; 674; 674; 674; 674; 674; 674; 674;
   674; 674; 674; 674; 674; 674; 674; 674; 674; 674; 674; 674; 674; 674; 1; 1; 675; 676; 677; 678; 679; 675; 676; 677;
   678; 679; 1; 1; 1; 1; 1; 24; 24; 25; 25; 26; 26; 27; 27; 28; 28; 29; 29; 30; 30; 31; 31; 32;
   32; 33; 33; 34; 34; 35; 35; 36; 36; 37; 37; 38; 38; 39; 39; 40; 40; 41; 41; 42; 42; 43; 43; 44;
   44; 36; 36; 25; 25; 38; 38; 27; 27; 45; 45; 41; 41; 30; 30; 43; 43; 32; 32; 46; 46; 26; 26; 35;
   35; 28; 28; 37; 37; 47; 47; 31; 31; 40; 40; 33; 33; 42; 42; 0; 0; 0; 0; 0; 0; 0; 0; 0;
   0; 0; 0; 0; 0; 0; 0; 0; 0; 0; 0; 0; 0; 0; 0; 1; 1; 1; 1; 1; 1; 1; 1; 1;
   1; 1; 1; 1; 1; 1; 1; 1; 1; 1; 1; 1; 1; 1; 1; 1; 1; 1; 1; 680; 681; 680; 681; 682;
   683; 682; 683; 684; 685; 684; 685; 686; 687; 686; 687; 688; 689; 688; 689; 690; 691; 690; 691; 692; 693; 692; 693; 694;
   695; 694; 695; 696; 697; 696; 697; 698; 699; 698; 699; 700; 701; 700; 701; 702; 703; 702; 703; 704; 705; 704; 705; 706;
   707; 706; 707; 708; 709; 708; 709; 710; 711; 710; 711; 712; 713; 712; 713; 714; 715; 714; 715; 716; 717; 716; 717; 718;
   719; 718; 719; 720; 721; 720; 721; 722; 723; 722; 723; 724; 725; 724; 725; 726; 727; 726; 727; 728; 729; 728; 729; 730;
   731; 730; 731; 732; 733; 732; 733; 734; 735; 734; 735; 736; 737; 736; 737; 738; 739; 738; 739; 740; 741; 740; 741; 742;
   743; 742; 743; 744; 745; 744; 745; 746; 747; 746; 747; 748; 749; 748; 749; 750; 751; 750; 751; 752; 753; 752; 753; 754;
   755; 754; 755; 756; 757; 756; 757; 758; 759; 758; 759; 760; 761; 760; 761; 762; 763; 762; 763; 764; 765; 764; 765; 766;
   767; 766; 767; 768; 769; 768; 769; 770; 771; 770; 771; 772; 773; 772; 773; 774; 775; 774; 775; 776; 777; 776; 777; 778;
   779; 778; 779; 780; 781; 780; 781; 782; 783; 782; 783; 784; 785; 784; 785; 786; 787; 786; 787; 788; 789; 788; 789; 790;
   791; 790; 791; 792; 793; 792; 793; 794; 795; 794; 795; 796; 797; 796; 797; 798; 799; 798; 799; 800; 801; 800; 801; 802;
   803; 802; 803; 804; 805; 804; 805; 806; 807; 806; 807; 808; 809; 808; 809; 810; 811; 810; 811; 812; 813; 812; 813; 814;
   815; 814; 815; 816; 817; 816; 817; 818; 819; 818; 819; 820; 821; 820; 821; 822; 823; 822; 823; 824; 825; 824; 825; 826;
   827; 826; 827; 828; 829; 828; 829; 830; 831; 830; 831; 832; 833; 832; 833; 834; 835; 834; 835; 836; 837; 836; 837; 838;
   839; 838; 839; 840; 841; 840; 841; 842; 843; 842; 843; 844; 845; 844; 845; 846; 847; 846; 847; 848; 849; 848; 849; 850;
   851; 850; 851; 852; 853; 852; 853; 854; 855; 854; 855; 856; 857; 856; 857; 858; 859; 858; 859; 860; 861; 860; 861; 862;
   863; 862; 863; 864; 865; 864; 865; 866; 867; 866; 867; 868; 869; 868; 869; 870; 871; 870; 871; 872; 873; 872; 873; 874;
   875; 874; 875; 876; 877; 876; 877; 878; 879; 878; 879; 880; 881; 880; 881; 882; 883; 882; 883; 884; 885; 884; 885; 886;
   887; 886; 887; 888; 889; 888; 889; 890; 891; 890; 891; 892; 893; 892; 893; 894; 895; 894; 895; 896; 897; 896; 897; 898;
   899; 898; 899; 900; 901; 900; 901; 902; 903; 902; 903; 904; 905; 904; 905; 906; 907; 906; 907; 908; 909; 908; 909; 910;
   911; 910; 911; 912; 913; 912; 913; 914; 915; 914; 915; 916; 917; 916; 917; 918; 919; 918; 919; 920; 921; 920; 921; 922;
   923; 922; 923; 924; 925; 924; 925; 926; 927; 926; 927; 928; 929; 928; 929; 930; 931; 930; 931; 932; 933; 932; 933; 934;
   935; 934; 935; 24; 24; 25; 25; 26; 26; 27; 27; 28; 28; 29; 29; 30; 30; 31; 31; 32; 32; 33; 33; 34;
   34; 35; 35; 36; 36; 37; 37; 38; 38; 39; 39; 40; 40; 41; 41; 42; 42; 43; 43; 44; 44; 36; 36; 25;
   25; 38; 38; 27; 27; 45; 45; 41; 41; 30; 30; 43; 43; 32; 32; 46; 46; 26; 26; 35; 35; 28; 28; 37;
   37; 47; 47; 31; 31; 40; 40; 33; 33; 42; 42; 24; 24; 25; 25; 26; 26; 27; 27; 28; 28; 29; 29; 30;
   30; 31; 31; 32; 32; 33; 33; 34; 34; 35; 35; 36; 36; 37; 37; 38; 38; 39; 39; 40; 40; 41; 41; 42].
Definition STATE_SHAPES_6 : list Z :=
  [42; 43; 43; 44; 44; 36; 36; 25; 25; 38; 38; 27; 27; 45; 45; 41; 41; 30; 30; 43; 43; 32; 32; 46;
   46; 26; 26; 35; 35; 28; 28; 37; 37; 47; 47; 31; 31; 40; 40; 33; 33; 42; 42; 24; 24; 25; 25; 26;
   26; 27; 27; 28; 28; 29; 29; 30; 30; 31; 31; 32; 32; 33; 33; 34; 34; 35; 35; 36; 36; 37; 37; 38;
   38; 39; 39; 40; 40; 41; 41; 42; 42; 43; 43; 44; 44; 36; 36; 25; 25; 38; 38; 27; 27; 45; 45; 41;
   41; 30; 30; 43; 43; 32; 32; 46; 46; 26; 26; 35; 35; 28; 28; 37; 37; 47; 47; 31; 31; 40; 40; 33;
   33; 42; 42; 24; 24; 25; 25; 26; 26; 27; 27; 28; 28; 29; 29; 30; 30; 31; 31; 32; 32; 33; 33; 34;
   34; 35; 35; 36; 36; 37; 37; 38; 38; 39; 39; 40; 40; 41; 41; 42; 42; 43; 43; 44; 44; 36; 36; 25;
   25; 38; 38; 27; 27; 45; 45; 41; 41; 30; 30; 43; 43; 32; 32; 46; 46; 26; 26; 35; 35; 28; 28; 37;
   37; 47; 47; 31; 31; 40; 40; 33; 33; 42; 42; 24; 24; 25; 25; 26; 26; 27; 27; 28; 28; 29; 29; 30;
   30; 31; 31; 32; 32; 33; 33; 34; 34; 35; 35; 36; 36; 37; 37; 38; 38; 39; 39; 40; 40; 41; 41; 42;
   42; 43; 43; 44; 44; 36; 36; 25; 25; 38; 38; 27; 27; 45; 45; 41; 41; 30; 30; 43; 43; 32; 32; 46;
   46; 26; 26; 35; 35; 28; 28; 37; 37; 47; 47; 31; 31; 40; 40; 33; 33; 42; 42; 24; 24; 25; 25; 26;
   26; 27; 27; 28; 28; 29; 29; 30; 30; 31; 31; 32; 32; 33; 33; 34; 34; 35; 35; 36; 36; 37; 37; 38;
   38; 39; 39; 40; 40; 41; 41; 42; 42; 43; 43; 44; 44; 36; 36; 25; 25; 38; 38; 27; 27; 45; 45; 41;
   41; 30; 30; 43; 43; 32; 32; 46; 46; 26; 26; 35; 35; 28; 28; 37; 37; 47; 47; 31; 31; 40; 40; 33;
   33; 42; 42; 24; 24; 25; 25; 26; 26; 27; 27; 28; 28; 29; 29; 30; 30; 31; 31; 32; 32; 33; 33; 34;
   34; 35; 35; 36; 36; 37; 37; 38; 38; 39; 39; 40; 40; 41; 41; 42; 42; 43; 43; 44; 44; 36; 36; 25;
   25; 38; 38; 27; 27; 45; 45; 41; 41; 30; 30; 43; 43; 32; 32; 46; 46; 26; 26; 35; 35; 28; 28; 37;
   37; 47; 47; 31; 31; 40; 40; 33; 33; 42; 42; 1; 1; 1; 0; 0; 0; 0; 0; 0; 0; 0; 0; 0;
   0; 0; 0; 0; 0; 0; 0; 0; 0; 0; 0; 0; 0; 0; 0; 0; 0; 0; 0; 0; 0; 0; 97; 97;
   97; 97; 98; 98; 98; 98; 97; 97; 97; 97; 99; 99; 99; 99; 100; 100; 100; 100; 98; 98; 98; 98; 100; 100;
   100; 100; 99; 99; 99; 99; 101; 101; 101; 101; 98; 98; 98; 98; 101; 101; 101; 101; 99; 99; 99; 99; 102; 102;
   102; 102; 98; 98; 98; 98; 102; 102; 102; 102; 99; 99; 99; 99; 1; 1; 1; 24; 24; 25; 25; 26; 26; 27;
   27; 28; 28; 29; 29; 30; 30; 31; 31; 32; 32; 33; 33; 34; 34; 35; 35; 36; 36; 37; 37; 38; 38; 39;
   39; 40; 40; 41; 41; 42; 42; 43; 43; 44; 44; 36; 36; 25; 25; 38; 38; 27; 27; 45; 45; 41; 41; 30;
   30; 43; 43; 32; 32; 46; 46; 26; 26; 35; 35; 28; 28; 37; 37; 47; 47; 31; 31; 40; 40; 33; 33; 42;
   42; 24; 24; 25; 25; 26; 26; 27; 27; 28; 28; 29; 29; 30; 30; 31; 31; 32; 32; 33; 33; 34; 34; 35;
   35; 36; 36; 37; 37; 38; 38; 39; 39; 40; 40; 41; 41; 42; 42; 43; 43; 44; 44; 36; 36; 25; 25; 38;
   38; 27; 27; 45; 45; 41; 41; 30; 30; 43; 43; 32; 32; 46; 46; 26; 26; 35; 35; 28; 28; 37; 37; 47;
   47; 31; 31; 40; 40; 33; 33; 42; 42; 24; 24; 25; 25; 26; 26; 27; 27; 28; 28; 29; 29; 30; 30; 31;
   31; 32; 32; 33; 33; 34; 34; 35; 35; 36; 36; 37; 37; 38; 38; 39; 39; 40; 40; 41; 41; 42; 42; 43;
   43; 44; 44; 36; 36; 25; 25; 38; 38; 27; 27; 45; 45; 41; 41; 30; 30; 43; 43; 32; 32; 46; 46; 26;
   26; 35; 35; 28; 28; 37; 37; 47; 47; 31; 31; 40; 40; 33; 33; 42; 42; 141; 141; 142; 142; 1; 1; 141;
   141; 142; 142; 1; 1; 141; 141; 142; 142; 1; 1; 1; 1; 1; 1; 936; 936; 936; 936; 936; 936; 936; 936; 936;
   936; 936; 936; 936; 936; 936; 936; 1; 1; 1; 0; 0; 0; 0; 0; 0; 0; 0; 0; 0; 0; 0; 0; 0;
   0; 0; 0; 0; 0; 0; 0; 0; 0; 0; 0; 0; 0; 0; 0; 0; 0; 0; 0; 0; 0; 0; 0; 0;
   0; 0; 0; 0; 0; 0; 0; 0; 0; 0; 0; 0; 0; 0; 0; 0; 0; 0; 0; 0; 0; 0; 0; 0;
   0; 0; 0; 0; 0; 0; 0; 0; 0; 0; 0; 0; 0; 0; 0; 0; 0; 0; 0; 0; 0; 0; 0; 0;
   0; 0; 0; 0; 0; 0; 0; 0; 0; 0; 0; 0; 0; 0; 0; 0; 0; 0; 0; 0; 0; 0; 0; 0;
   0; 0; 0; 0; 0; 0; 0; 0; 0; 0; 0; 0; 0; 0; 0; 0; 0; 0; 0; 0; 0; 0; 0; 0;
   0; 0; 0; 0; 0; 0; 0; 0; 0; 0; 0; 0; 0; 0; 0; 0; 0; 0; 0; 0; 0; 0; 0; 0;
   0; 0; 0; 0; 0; 0; 0; 0; 0; 0; 0; 0; 0; 0; 0; 0; 0; 0; 0; 0; 0; 0; 0; 0;
   0; 0; 0; 0; 0; 0; 0; 0; 0; 0; 0; 0; 0; 0; 0; 0; 0; 0; 0; 0; 0; 0; 0; 0;
   0; 0; 0; 0; 0; 0; 0; 0; 0; 0; 0; 0; 0; 0; 0; 0; 0; 0; 0; 0; 0; 0; 0; 0;
   0; 0; 0; 0; 0; 0; 0; 0; 0; 0; 0; 0; 0; 0; 0; 0; 0; 0; 0; 0; 0; 0; 0; 0;
   0; 0; 0; 0; 0; 0; 0; 0; 0; 0; 0; 0; 0; 0; 0; 0; 0; 0; 0; 0; 0; 0; 0; 0;
   0; 0; 0; 0; 0; 0; 0; 0; 0; 0; 0; 0; 0; 0; 0; 0; 0; 0; 0; 0; 0; 0; 0; 0;
   0; 0; 0; 0; 0; 0; 0; 0; 0; 0; 0; 0; 0; 0; 0; 0; 0; 0; 0; 0; 0; 0; 0; 0;
   0; 0; 0; 0; 0; 0; 1; 1; 1; 24; 24; 25; 25; 26; 26; 27; 27; 28; 28; 29; 29; 30; 30; 31;
   31; 32; 32; 33; 33; 34; 34; 35; 35; 36; 36; 37; 37; 38; 38; 39; 39; 40; 40; 41; 41; 42; 42; 43;
   43; 44; 44; 36; 36; 25; 25; 38; 38; 27; 27; 45; 45; 41; 41; 30; 30; 43; 43; 32; 32; 46; 46; 26;
   26; 35; 35; 28; 28; 37; 37; 47; 47; 31; 31; 40; 40; 33; 33; 42; 42; 141; 141; 142; 142; 1; 1; 141;
   141; 142; 142; 1; 1; 141; 141; 142; 142; 1; 1; 141; 141; 142; 142; 1; 1; 141; 141; 142; 142; 1; 1; 141;
   141; 142; 142; 1; 1; 141; 141; 142; 142; 1; 1; 141; 141; 142; 142; 1; 1; 141; 141; 142; 142; 1; 1; 141;
   141; 142; 142; 1; 1; 141; 141; 142; 142; 1; 1; 141; 141; 142; 142; 1; 1; 141; 141; 142; 142; 1; 1; 141;
   141; 142; 142; 1; 1; 141; 141; 142; 142; 1; 1; 141; 141; 142; 142; 1; 1; 141; 141; 142; 142; 1; 1; 141;
   141; 142; 142; 1; 1; 141; 141; 142; 142; 1; 1; 141; 141; 142; 142; 1; 1; 141; 141; 142; 142; 1; 1; 141;
   141; 142; 142; 1; 1; 141; 141; 142; 142; 1; 1; 141; 141; 142; 142; 1; 1; 141; 141; 142; 142; 1; 1; 1;
   1; 1; 1; 0; 0; 138; 138; 0; 0; 138; 138; 0; 0; 138; 138; 0; 0; 138; 138; 0; 0; 139; 139; 0;
   0; 139; 139; 0; 0; 139; 139; 0; 0; 139; 139; 0; 0; 138; 138; 0; 0; 138; 138; 0; 0; 138; 138; 0;
   0; 138; 138; 0; 0; 139; 139; 0; 0; 139; 139; 0; 0; 139; 139; 0; 0; 139; 139; 0; 0; 138; 138; 0;
   0; 138; 138; 0; 0; 138; 138; 0; 0; 138; 138; 0; 0; 139; 139; 0; 0; 139; 139; 0; 0; 139; 139; 0;
   0; 139; 139; 0; 0; 138; 138; 0; 0; 138; 138; 0; 0; 138; 138; 0; 0; 138; 138; 0; 0; 139; 139; 0;
   0; 139; 139; 0; 0; 139; 139; 0; 0; 139; 139; 0; 0; 138; 138; 0; 0; 138; 138; 0; 0; 138; 138; 0;
   0; 138; 138; 0; 0; 139; 139; 0; 0; 139; 139; 0; 0; 139; 139; 0; 0; 139; 139; 0; 0; 138; 138; 0;
   0; 138; 138; 0; 0; 138; 138; 0; 0; 138; 138; 0; 0; 139; 139; 0; 0; 139; 139; 0; 0; 139; 139; 0;
   0; 139; 139; 0; 0; 138; 138; 0; 0; 138; 138; 0; 0; 138; 138; 0; 0; 138; 138; 0; 0; 139; 139; 0;
   0; 139; 139; 0; 0; 139; 139; 0; 0; 139; 139; 0; 0; 138; 138; 0; 0; 138; 138; 0; 0; 138; 138; 0;
   0; 138; 138; 0; 0; 139; 139; 0; 0; 139; 139; 0; 0; 139; 139; 0; 0; 139; 139; 0; 0; 138; 138; 0;
   0; 138; 138; 0; 0; 138; 138; 0; 0; 138; 138; 0; 0; 139; 139; 0; 0; 139; 139; 0; 0; 139; 139; 0;
   0; 139; 139; 937; 938; 937; 938; 939; 940; 939; 940; 941; 942; 941; 942; 943; 944; 943; 944; 945; 946; 945; 946; 947;
   948; 947; 948; 949; 950; 949; 950; 951; 952; 951; 952; 953; 954; 953; 954; 955; 956; 955; 956; 957; 958; 957; 958; 959;
   960; 959; 960; 961; 962; 961; 962; 963; 964; 963; 964; 965; 966; 965; 966; 967; 968; 967; 968; 969; 970; 969; 970; 971;
   972; 971; 972; 973; 974; 973; 974; 975; 976; 975; 976; 977; 978; 977; 978; 979; 980; 979; 980; 981; 982; 981; 982; 983;
   984; 983; 984; 985; 986; 985; 986; 987; 988; 987; 988; 989; 990; 989; 990; 991; 992; 991; 992; 993; 994; 993; 994; 995].
Definition STATE_SHAPES_7 : list Z :=
  [996; 995; 996; 997; 998; 997; 998; 999; 1000; 999; 1000; 1001; 1002; 1001; 1002; 1003; 1004; 1003; 1004; 1005; 1006; 1005; 1006; 1007;
   1008; 1007; 1008; 1009; 1010; 1009; 1010; 1011; 1012; 1011; 1012; 1013; 1014; 1013; 1014; 1015; 1016; 1015; 1016; 1017; 1018; 1017; 1018; 1019;
   1020; 1019; 1020; 1021; 1022; 1021; 1022; 1023; 1024; 1023; 1024; 1025; 1026; 1025; 1026; 1027; 1028; 1027; 1028; 1029; 1030; 1029; 1030; 1031;
   1032; 1031; 1032; 1033; 1034; 1033; 1034; 1035; 1036; 1035; 1036; 1037; 1038; 1037; 1038; 1039; 1040; 1039; 1040; 1041; 1042; 1041; 1042; 1043;
   1044; 1043; 1044; 1045; 1046; 1045; 1046; 1047; 1048; 1047; 1048; 1049; 1050; 1049; 1050; 1051; 1052; 1051; 1052; 1053; 1054; 1053; 1054; 1055;
   1056; 1055; 1056; 1057; 1058; 1057; 1058; 1059; 1060; 1059; 1060; 1061; 1062; 1061; 1062; 1063; 1064; 1063; 1064; 1065; 1066; 1065; 1066; 1067;
   1068; 1067; 1068; 1069; 1070; 1069; 1070; 1071; 1072; 1071; 1072; 1073; 1074; 1073; 1074; 1075; 1076; 1075; 1076; 1077; 1078; 1077; 1078; 1079;
   1080; 1079; 1080; 54; 54; 55; 55; 56; 56; 55; 55; 54; 54; 55; 55; 56; 56; 55; 55; 56; 56; 57; 57; 54;
   54; 57; 57; 56; 56; 57; 57; 54; 54; 57; 57; 55; 55; 56; 56; 57; 57; 56; 56; 55; 55; 56; 56; 57;
   57; 56; 56; 57; 57; 54; 54; 55; 55; 54; 54; 57; 57; 54; 54; 55; 55; 54; 54; 54; 54; 55; 55; 56;
   56; 55; 55; 54; 54; 55; 55; 56; 56; 55; 55; 56; 56; 57; 57; 54; 54; 57; 57; 56; 56; 57; 57; 54;
   54; 57; 57; 55; 55; 56; 56; 57; 57; 56; 56; 55; 55; 56; 56; 57; 57; 56; 56; 57; 57; 54; 54; 55;
   55; 54; 54; 57; 57; 54; 54; 55; 55; 54; 54; 54; 54; 55; 55; 56; 56; 55; 55; 54; 54; 55; 55; 56;
   56; 55; 55; 56; 56; 57; 57; 54; 54; 57; 57; 56; 56; 57; 57; 54; 54; 57; 57; 55; 55; 56; 56; 57;
   57; 56; 56; 55; 55; 56; 56; 57; 57; 56; 56; 57; 57; 54; 54; 55; 55; 54; 54; 57; 57; 54; 54; 55;
   55; 54; 54; 54; 54; 55; 55; 56; 56; 55; 55; 54; 54; 55; 55; 56; 56; 55; 55; 56; 56; 57; 57; 54;
   54; 57; 57; 56; 56; 57; 57; 54; 54; 57; 57; 55; 55; 56; 56; 57; 57; 56; 56; 55; 55; 56; 56; 57;
   57; 56; 56; 57; 57; 54; 54; 55; 55; 54; 54; 57; 57; 54; 54; 55; 55; 54; 54; 54; 54; 55; 55; 56;
   56; 55; 55; 54; 54; 55; 55; 56; 56; 55; 55; 56; 56; 57; 57; 54; 54; 57; 57; 56; 56; 57; 57; 54;
   54; 57; 57; 55; 55; 56; 56; 57; 57; 56; 56; 55; 55; 56; 56; 57; 57; 56; 56; 57; 57; 54; 54; 55;
   55; 54; 54; 57; 57; 54; 54; 55; 55; 54; 54; 54; 54; 55; 55; 56; 56; 55; 55; 54; 54; 55; 55; 56;
   56; 55; 55; 56; 56; 57; 57; 54; 54; 57; 57; 56; 56; 57; 57; 54; 54; 57; 57; 55; 55; 56; 56; 57;
   57; 56; 56; 55; 55; 56; 56; 57; 57; 56; 56; 57; 57; 54; 54; 55; 55; 54; 54; 57; 57; 54; 54; 55;
   55; 54; 54; 54; 54; 55; 55; 56; 56; 55; 55; 54; 54; 55; 55; 56; 56; 55; 55; 56; 56; 57; 57; 54;
   54; 57; 57; 56; 56; 57; 57; 54; 54; 57; 57; 55; 55; 56; 56; 57; 57; 56; 56; 55; 55; 56; 56; 57;
   57; 56; 56; 57; 57; 54; 54; 55; 55; 54; 54; 57; 57; 54; 54; 55; 55; 54; 54; 54; 54; 55; 55; 56;
   56; 55; 55; 54; 54; 55; 55; 56; 56; 55; 55; 56; 56; 57; 57; 54; 54; 57; 57; 56; 56; 57; 57; 54;
   54; 57; 57; 55; 55; 56; 56; 57; 57; 56; 56; 55; 55; 56; 56; 57; 57; 56; 56; 57; 57; 54; 54; 55;
   55; 54; 54; 57; 57; 54; 54; 55; 55; 54; 54; 54; 54; 55; 55; 56; 56; 55; 55; 54; 54; 55; 55; 56;
   56; 55; 55; 56; 56; 57; 57; 54; 54; 57; 57; 56; 56; 57; 57; 54; 54; 57; 57; 55; 55; 56; 56; 57;
   57; 56; 56; 55; 55; 56; 56; 57; 57; 56; 56; 57; 57; 54; 54; 55; 55; 54; 54; 57; 57; 54; 54; 55;
   55; 54; 54; 1081; 1082; 1081; 1082; 1083; 1083; 1084; 1085; 1086; 1087; 1088; 1089; 1090; 1091; 1092; 1093; 1094; 1095; 1096; 1097; 1098;
   1099; 1100; 1101; 1102; 1103; 1104; 1105; 1106; 1107; 1108; 1109; 1110; 1111; 1112; 1113; 1114; 1115; 1116; 1117; 1118; 1119; 1120; 1121; 1122;
   1123; 1124; 1125; 1126; 1127; 1128; 1129; 1130; 1131; 1132; 1133; 1134; 1135; 1136; 1137; 1138; 1139; 1140; 1141; 1142; 1143; 1144; 1145; 1146;
   1147; 1; 1; 1; 1; 1; 1; 1; 1; 1; 1; 24; 24; 25; 25; 26; 26; 27; 27; 28; 28; 29; 29; 30;
   30; 31; 31; 32; 32; 33; 33; 34; 34; 35; 35; 36; 36; 37; 37; 38; 38; 39; 39; 40; 40; 41; 41; 42;
   42; 43; 43; 44; 44; 36; 36; 25; 25; 38; 38; 27; 27; 45; 45; 41; 41; 30; 30; 43; 43; 32; 32; 46;
   46; 26; 26; 35; 35; 28; 28; 37; 37; 47; 47; 31; 31; 40; 40; 33; 33; 42; 42; 1; 0; 0; 1148; 1148;
   0; 1149; 0; 1149; 0; 1149; 0; 1149; 0; 0; 0; 0; 0; 0; 53; 0; 1; 1; 1; 1; 1; 1; 1; 1;
   1; 1; 1; 1; 1; 1; 1; 1; 1; 1; 1; 1; 1; 1; 1; 1; 1; 1; 1; 1; 1; 1; 1; 1;
   1; 1; 0; 1; 1; 1; 1; 1; 1; 1; 1; 1; 1; 1; 1; 1; 1; 1; 1; 1; 1; 1; 1; 1;
   1; 1; 1; 1; 1; 1; 1; 1; 1; 1; 1; 1; 1; 1; 1; 1; 1; 1; 1; 1; 1; 1; 1; 1;
   1; 1; 1; 1; 1; 1; 1; 1; 1; 1; 1; 1; 1; 1; 1; 1; 1; 1; 1; 1; 1; 1; 1; 1;
   1; 1; 1; 1; 1; 1; 1; 1; 1; 1; 1; 1; 1; 1; 1; 1; 1; 1; 1; 1; 1; 1; 1; 1;
   1; 1; 1; 1; 1; 1; 1; 1; 1; 1; 1; 1; 1; 1; 1; 1; 1; 1; 1; 1; 1; 1; 1; 1;
   1; 1; 1; 1; 1; 1; 1; 1; 1; 1; 1; 1; 1; 1; 1; 1; 1; 1; 1; 1; 1; 1; 1; 1;
   1; 1; 1; 1; 1; 1; 1; 1; 1; 1; 1; 1; 1; 1; 1; 1; 1; 1; 1; 1; 1; 1; 1; 1;
   1; 1; 1; 1; 1; 1; 1; 1; 1; 1; 1; 1; 1; 1; 1; 1; 1; 1; 1; 1; 1; 1; 1; 1;
   1; 1; 1; 1; 1; 1; 1; 1; 1; 1; 1; 1; 1; 1; 1; 1; 1; 1; 1; 1; 1; 0; 0; 0;
   0; 0; 0; 0; 0; 0; 0; 0; 0; 0; 0; 0; 0; 0; 0; 0; 0; 0; 0; 0; 0; 0; 0; 0;
   1; 1150; 1150; 1150; 1151; 1151; 1151; 1151; 1151; 1151; 1151; 1151; 1151; 1152; 1152; 1152; 1; 1; 1; 1; 1; 1; 1; 1;
   1; 1; 0; 0; 0; 0; 0; 0; 0; 0; 0; 0; 0; 0; 0; 0; 0; 0; 0; 0; 0; 0; 0; 0;
   0; 0; 0; 0; 0; 0; 0; 0; 0; 0; 0; 0; 0; 0; 0; 0; 0; 0; 0; 0; 0; 0; 0; 0;
   0; 0; 0; 0; 0; 0; 0; 0; 0; 0; 0; 0; 0; 0; 0; 0; 0; 0; 0; 0; 0; 0; 0; 0;
   0; 0; 0; 0; 0; 0; 0; 0; 0; 0; 0; 0; 0; 0; 0; 0; 0; 0; 0; 0; 0; 0; 0; 0;
   0; 0; 0; 0; 0; 0; 0; 0; 0; 0; 0; 0; 0; 0; 0; 0; 0; 0; 0; 0; 0; 0; 0; 0;
   0; 0; 1153; 1153; 1154; 1154; 1155; 1155; 1156; 1156; 1; 1157; 1157; 0; 1158; 1159; 1160; 1161; 1162; 1163; 1164; 1165; 1166; 1167;
   1168; 1169; 661; 0; 0; 0; 0; 24; 24; 25; 25; 26; 26; 27; 27; 28; 28; 29; 29; 30; 30; 31; 31; 32;
   32; 33; 33; 34; 34; 35; 35; 36; 36; 37; 37; 38; 38; 39; 39; 40; 40; 41; 41; 42; 42; 43; 43; 44;
   44; 36; 36; 25; 25; 38; 38; 27; 27; 45; 45; 41; 41; 30; 30; 43; 43; 32; 32; 46; 46; 26; 26; 35;
   35; 28; 28; 37; 37; 47; 47; 31; 31; 40; 40; 33; 33; 42; 42; 24; 24; 25; 25; 26; 26; 27; 27; 28;
   28; 29; 29; 30; 30; 31; 31; 32; 32; 33; 33; 34; 34; 35; 35; 36; 36; 37; 37; 38; 38; 39; 39; 40;
   40; 41; 41; 42; 42; 43; 43; 44; 44; 36; 36; 25; 25; 38; 38; 27; 27; 45; 45; 41; 41; 30; 30; 43;
   43; 32; 32; 46; 46; 26; 26; 35; 35; 28; 28; 37; 37; 47; 47; 31; 31; 40; 40; 33; 33; 42; 42; 24;
   24; 25; 25; 26; 26; 27; 27; 28; 28; 29; 29; 30; 30; 31; 31; 32; 32; 33; 33; 34; 34; 35; 35; 36;
   36; 37; 37; 38; 38; 39; 39; 40; 40; 41; 41; 42; 42; 43; 43; 44; 44; 36; 36; 25; 25; 38; 38; 27;
   27; 45; 45; 41; 41; 30; 30; 43; 43; 32; 32; 46; 46; 26; 26; 35; 35; 28; 28; 37; 37; 47; 47; 31;
   31; 40; 40; 33; 33; 42; 42; 24; 24; 25; 25; 26; 26; 27; 27; 28; 28; 29; 29; 30; 30; 31; 31; 32;
   32; 33; 33; 34; 34; 35; 35; 36; 36; 37; 37; 38; 38; 39; 39; 40; 40; 41; 41; 42; 42; 43; 43; 44;
   44; 36; 36; 25; 25; 38; 38; 27; 27; 45; 45; 41; 41; 30; 30; 43; 43; 32; 32; 46; 46; 26; 26; 35;
   35; 28; 28; 37; 37; 47; 47; 31; 31; 40; 40; 33; 33; 42; 42; 24; 24; 25; 25; 26; 26; 27; 27; 28;
   28; 29; 29; 30; 30; 31; 31; 32; 32; 33; 33; 34; 34; 35; 35; 36; 36; 37; 37; 38; 38; 39; 39; 40;
   40; 41; 41; 42; 42; 43; 43; 44; 44; 36; 36; 25; 25; 38; 38; 27; 27; 45; 45; 41; 41; 30; 30; 43;
   43; 32; 32; 46; 46; 26; 26; 35; 35; 28; 28; 37; 37; 47; 47; 31; 31; 40; 40; 33; 33; 42; 42; 24;
   24; 25; 25; 26; 26; 27; 27; 28; 28; 29; 29; 30; 30; 31; 31; 32; 32; 33; 33; 34; 34; 35; 35; 36].
Definition STATE_SHAPES_8 : list Z :=
  [36; 37; 37; 38; 38; 39; 39; 40; 40; 41; 41; 42; 42; 43; 43; 44; 44; 36; 36; 25; 25; 38; 38; 27;
   27; 45; 45; 41; 41; 30; 30; 43; 43; 32; 32; 46; 46; 26; 26; 35; 35; 28; 28; 37; 37; 47; 47; 31;
   31; 40; 40; 33; 33; 42; 42; 24; 24; 25; 25; 26; 26; 27; 27; 28; 28; 29; 29; 30; 30; 31; 31; 32;
   32; 33; 33; 34; 34; 35; 35; 36; 36; 37; 37; 38; 38; 39; 39; 40; 40; 41; 41; 42; 42; 43; 43; 44;
   44; 36; 36; 25; 25; 38; 38; 27; 27; 45; 45; 41; 41; 30; 30; 43; 43; 32; 32; 46; 46; 26; 26; 35;
   35; 28; 28; 37; 37; 47; 47; 31; 31; 40; 40; 33; 33; 42; 42; 24; 24; 25; 25; 26; 26; 27; 27; 28;
   28; 29; 29; 30; 30; 31; 31; 32; 32; 33; 33; 34; 34; 35; 35; 36; 36; 37; 37; 38; 38; 39; 39; 40;
   40; 41; 41; 42; 42; 43; 43; 44; 44; 36; 36; 25; 25; 38; 38; 27; 27; 45; 45; 41; 41; 30; 30; 43;
   43; 32; 32; 46; 46; 26; 26; 35; 35; 28; 28; 37; 37; 47; 47; 31; 31; 40; 40; 33; 33; 42; 42; 24;
   24; 25; 25; 26; 26; 27; 27; 28; 28; 29; 29; 30; 30; 31; 31; 32; 32; 33; 33; 34; 34; 35; 35; 36;
   36; 37; 37; 38; 38; 39; 39; 40; 40; 41; 41; 42; 42; 43; 43; 44; 44; 36; 36; 25; 25; 38; 38; 27;
   27; 45; 45; 41; 41; 30; 30; 43; 43; 32; 32; 46; 46; 26; 26; 35; 35; 28; 28; 37; 37; 47; 47; 31;
   31; 40; 40; 33; 33; 42; 42; 24; 24; 25; 25; 26; 26; 27; 27; 28; 28; 29; 29; 30; 30; 31; 31; 32;
   32; 33; 33; 34; 34; 35; 35; 36; 36; 37; 37; 38; 38; 39; 39; 40; 40; 41; 41; 42; 42; 43; 43; 44;
   44; 36; 36; 25; 25; 38; 38; 27; 27; 45; 45; 41; 41; 30; 30; 43; 43; 32; 32; 46; 46; 26; 26; 35;
   35; 28; 28; 37; 37; 47; 47; 31; 31; 40; 40; 33; 33; 42; 42; 24; 24; 25; 25; 26; 26; 27; 27; 28;
   28; 29; 29; 30; 30; 31; 31; 32; 32; 33; 33; 34; 34; 35; 35; 36; 36; 37; 37; 38; 38; 39; 39; 40;
   40; 41; 41; 42; 42; 43; 43; 44; 44; 36; 36; 25; 25; 38; 38; 27; 27; 45; 45; 41; 41; 30; 30; 43;
   43; 32; 32; 46; 46; 26; 26; 35; 35; 28; 28; 37; 37; 47; 47; 31; 31; 40; 40; 33; 33; 42; 42; 24;
   24; 25; 25; 26; 26; 27; 27; 28; 28; 29; 29; 30; 30; 31; 31; 32; 32; 33; 33; 34; 34; 35; 35; 36;
   36; 37; 37; 38; 38; 39; 39; 40; 40; 41; 41; 42; 42; 43; 43; 44; 44; 36; 36; 25; 25; 38; 38; 27;
   27; 45; 45; 41; 41; 30; 30; 43; 43; 32; 32; 46; 46; 26; 26; 35; 35; 28; 28; 37; 37; 47; 47; 31;
   31; 40; 40; 33; 33; 42; 42; 24; 24; 25; 25; 26; 26; 27; 27; 28; 28; 29; 29; 30; 30; 31; 31; 32;
   32; 33; 33; 34; 34; 35; 35; 36; 36; 37; 37; 38; 38; 39; 39; 40; 40; 41; 41; 42; 42; 43; 43; 44;
   44; 36; 36; 25; 25; 38; 38; 27; 27; 45; 45; 41; 41; 30; 30; 43; 43; 32; 32; 46; 46; 26; 26; 35;
   35; 28; 28; 37; 37; 47; 47; 31; 31; 40; 40; 33; 33; 42; 42; 24; 24; 25; 25; 26; 26; 27; 27; 28;
   28; 29; 29; 30; 30; 31; 31; 32; 32; 33; 33; 34; 34; 35; 35; 36; 36; 37; 37; 38; 38; 39; 39; 40;
   40; 41; 41; 42; 42; 43; 43; 44; 44; 36; 36; 25; 25; 38; 38; 27; 27; 45; 45; 41; 41; 30; 30; 43;
   43; 32; 32; 46; 46; 26; 26; 35; 35; 28; 28; 37; 37; 47; 47; 31; 31; 40; 40; 33; 33; 42; 42; 141;
   141; 142; 142; 1; 1; 141; 141; 142; 142; 1; 1; 141; 141; 142; 142; 1; 1; 141; 141; 142; 142; 1; 1; 141;
   141; 142; 142; 1; 1; 141; 141; 142; 142; 1; 1; 141; 141; 142; 142; 1; 1; 141; 141; 142; 142; 1; 1; 141;
   141; 142; 142; 1; 1; 141; 141; 142; 142; 1; 1; 141; 141; 142; 142; 1; 1; 141; 141; 142; 142; 1; 1; 141;
   141; 142; 142; 1; 1; 1170; 1171; 1172; 1170; 1171; 1172; 0; 1173; 1174; 0; 1173; 1174; 1175; 1176; 1177; 1175; 1176; 1177; 1178;
   1179; 1180; 1178; 1179; 1180; 1181; 1182; 1183; 1181; 1182; 1183; 1184; 1185; 1186; 1184; 1185; 1186; 1187; 1188; 1189; 1187; 1188; 1189; 1190;
   1191; 1192; 1190; 1191; 1192; 1193; 1194; 1195; 1193; 1194; 1195; 1196; 1197; 1198; 1196; 1197; 1198; 1199; 1200; 1201; 1199; 1200; 1201; 1202;
   1203; 1204; 1202; 1203; 1204; 1205; 1206; 1207; 1205; 1206; 1207; 1208; 1209; 1210; 1208; 1209; 1210; 1211; 1212; 1213; 1211; 1212; 1213; 1214;
   1215; 1216; 1214; 1215; 1216; 1217; 1218; 1219; 1217; 1218; 1219; 1220; 1221; 1222; 1220; 1221; 1222; 1223; 1224; 1225; 1223; 1224; 1225; 1226;
   1227; 1228; 1226; 1227; 1228; 1229; 1230; 1231; 1229; 1230; 1231; 1232; 1233; 1234; 1232; 1233; 1234; 1235; 1236; 1237; 1235; 1236; 1237; 1238;
   1239; 1240; 1238; 1239; 1240; 1241; 1242; 1243; 1241; 1242; 1243; 1244; 1245; 1246; 1244; 1245; 1246; 1247; 1248; 1249; 1247; 1248; 1249; 1250;
   1251; 1252; 1250; 1251; 1252; 1253; 1254; 1255; 1253; 1254; 1255; 1256; 1257; 1258; 1256; 1257; 1258; 1259; 1260; 1261; 1259; 1260; 1261; 1262;
   1263; 1264; 1262; 1263; 1264; 1265; 1266; 1267; 1265; 1266; 1267; 1268; 1269; 1270; 1268; 1269; 1270; 1271; 1272; 1273; 1271; 1272; 1273; 1274;
   1275; 1276; 1274; 1275; 1276; 1277; 1278; 1279; 1277; 1278; 1279; 1280; 1281; 1282; 1280; 1281; 1282; 1283; 1284; 1285; 1283; 1284; 1285; 1286;
   1287; 1288; 1286; 1287; 1288; 1289; 1290; 1291; 1289; 1290; 1291; 1292; 1293; 1294; 1292; 1293; 1294; 1295; 1296; 1297; 1295; 1296; 1297; 1298;
   1299; 1300; 1298; 1299; 1300; 1301; 1302; 1303; 1301; 1302; 1303; 1304; 1305; 1306; 1304; 1305; 1306; 1307; 1308; 1309; 1307; 1308; 1309; 1310;
   1311; 1312; 1310; 1311; 1312; 1313; 1314; 1315; 1313; 1314; 1315; 1316; 1317; 1318; 1316; 1317; 1318; 1319; 1320; 1321; 1319; 1320; 1321; 1322;
   1323; 1324; 1322; 1323; 1324; 1325; 1326; 1327; 1325; 1326; 1327; 1328; 1329; 1330; 1328; 1329; 1330; 1331; 1332; 1333; 1331; 1332; 1333; 0;
   1334; 1335; 0; 1334; 1335; 1336; 1337; 1338; 1336; 1337; 1338; 1339; 1340; 1341; 1339; 1340; 1341; 1342; 1343; 1344; 1342; 1343; 1344; 1345;
   1346; 1347; 1345; 1346; 1347; 1348; 1349; 1350; 1348; 1349; 1350; 1351; 1352; 1353; 1351; 1352; 1353; 1354; 1355; 1356; 1354; 1355; 1356; 1357;
   1358; 1359; 1357; 1358; 1359; 1360; 1361; 1362; 1360; 1361; 1362; 1363; 1364; 1365; 1363; 1364; 1365; 1366; 1367; 1368; 1366; 1367; 1368; 1369;
   1370; 1371; 1369; 1370; 1371; 1372; 1373; 1374; 1372; 1373; 1374; 1375; 1376; 1377; 1375; 1376; 1377; 1378; 1379; 1380; 1378; 1379; 1380; 1381;
   1382; 1383; 1381; 1382; 1383; 1384; 1385; 1386; 1384; 1385; 1386; 1387; 1388; 1389; 1387; 1388; 1389; 1390; 1391; 1392; 1390; 1391; 1392; 1393;
   1394; 1395; 1393; 1394; 1395; 1396; 1397; 1398; 1396; 1397; 1398; 1399; 1400; 1401; 1399; 1400; 1401; 1402; 1403; 1404; 1402; 1403; 1404; 1405;
   1406; 1407; 1405; 1406; 1407; 1408; 1409; 1410; 1408; 1409; 1410; 1411; 1412; 1413; 1411; 1412; 1413; 1414; 1415; 1416; 1414; 1415; 1416; 1417;
   1418; 1419; 1417; 1418; 1419; 1420; 1421; 1422; 1420; 1421; 1422; 1423; 1424; 1425; 1423; 1424; 1425; 1426; 1427; 1428; 1426; 1427; 1428; 1429;
   1430; 1431; 1429; 1430; 1431; 1432; 1433; 1434; 1432; 1433; 1434; 1435; 1436; 1437; 1435; 1436; 1437; 1438; 1439; 1440; 1438; 1439; 1440; 1441;
   1442; 1443; 1441; 1442; 1443; 1444; 1445; 1446; 1444; 1445; 1446; 1447; 1448; 1449; 1447; 1448; 1449; 1450; 1451; 1452; 1450; 1451; 1452; 1453;
   1454; 1455; 1453; 1454; 1455; 1456; 1457; 1458; 1456; 1457; 1458; 1459; 1460; 1461; 1459; 1460; 1461; 1462; 1463; 1464; 1462; 1463; 1464; 1465;
   1466; 1467; 1465; 1466; 1467; 1468; 1469; 1470; 1468; 1469; 1470; 1471; 1472; 1473; 1471; 1472; 1473; 1474; 1475; 1476; 1474; 1475; 1476; 1477;
   1478; 1479; 1477; 1478; 1479; 1480; 1481; 1482; 1480; 1481; 1482; 1483; 1484; 1485; 1483; 1484; 1485; 1486; 1487; 1488; 1486; 1487; 1488; 1489;
   1490; 1491; 1489; 1490; 1491; 1492; 1493; 1494; 1492; 1493; 1494; 0; 1495; 1496; 0; 1495; 1496; 1497; 1498; 1499; 1497; 1498; 1499; 1500;
   1501; 1502; 1500; 1501; 1502; 1503; 1504; 1505; 1503; 1504; 1505; 1506; 1507; 1508; 1506; 1507; 1508; 1509; 1510; 1511; 1509; 1510; 1511; 1512;
   1513; 1514; 1512; 1513; 1514; 1515; 1516; 1517; 1515; 1516; 1517; 1518; 1519; 1520; 1518; 1519; 1520; 1521; 1522; 1523; 1521; 1522; 1523; 1524;
   1525; 1526; 1524; 1525; 1526; 1527; 1528; 1529; 1527; 1528; 1529; 1530; 1531; 1532; 1530; 1531; 1532; 1533; 1534; 1535; 1533; 1534; 1535; 1536;
   1537; 1538; 1536; 1537; 1538; 1539; 1540; 1541; 1539; 1540; 1541; 1542; 1543; 1544; 1542; 1543; 1544; 1545; 1546; 1547; 1545; 1546; 1547; 1548;
   1549; 1550; 1548; 1549; 1550; 1551; 1552; 1553; 1551; 1552; 1553; 1554; 1555; 1556; 1554; 1555; 1556; 1557; 1558; 1559; 1557; 1558; 1559; 1560;
   1561; 1562; 1560; 1561; 1562; 1563; 1564; 1565; 1563; 1564; 1565; 1566; 1567; 1568; 1566; 1567; 1568; 1569; 1570; 1571; 1569; 1570; 1571; 1572;
   1573; 1574; 1572; 1573; 1574; 1575; 1576; 1577; 1575; 1576; 1577; 1578; 1579; 1580; 1578; 1579; 1580; 1581; 1582; 1583; 1581; 1582; 1583; 1584;
   1585; 1586; 1584; 1585; 1586; 1587; 1588; 1589; 1587; 1588; 1589; 1590; 1591; 1592; 1590; 1591; 1592; 1593; 1594; 1595; 1593; 1594; 1595; 1596;
   1597; 1598; 1596; 1597; 1598; 1599; 1600; 1601; 1599; 1600; 1601; 1602; 1603; 1604; 1602; 1603; 1604; 1605; 1606; 1607; 1605; 1606; 1607; 1608;
   1609; 1610; 1608; 1609; 1610; 1611; 1612; 1613; 1611; 1612; 1613; 1614; 1615; 1616; 1614; 1615; 1616; 1617; 1618; 1619; 1617; 1618; 1619; 1620;
   1621; 1622; 1620; 1621; 1622; 1623; 1624; 1625; 1623; 1624; 1625; 1626; 1627; 1628; 1626; 1627; 1628; 1629; 1630; 1631; 1629; 1630; 1631; 1632;
   1633; 1634; 1632; 1633; 1634; 1635; 1636; 1637; 1635; 1636; 1637; 1638; 1639; 1640; 1638; 1639; 1640; 1641; 1642; 1643; 1641; 1642; 1643; 1644;
   1645; 1646; 1644; 1645; 1646; 1647; 1648; 1649; 1647; 1648; 1649; 1650; 1651; 1652; 1650; 1651; 1652; 1653; 1654; 1655; 1653; 1654; 1655; 0;
   1656; 1657; 0; 1656; 1657; 1658; 1659; 1660; 1658; 1659; 1660; 1661; 1662; 1663; 1661; 1662; 1663; 1664; 1665; 1666; 1664; 1665; 1666; 1667;
   1668; 1669; 1667; 1668; 1669; 1670; 1671; 1672; 1670; 1671; 1672; 1673; 1674; 1675; 1673; 1674; 1675; 1676; 1677; 1678; 1676; 1677; 1678; 1679].
Definition STATE_SHAPES_9 : list Z :=
  [1680; 1681; 1679; 1680; 1681; 1682; 1683; 1684; 1682; 1683; 1684; 1685; 1686; 1687; 1685; 1686; 1687; 1688; 1689; 1690; 1688; 1689; 1690; 1691;
   1692; 1693; 1691; 1692; 1693; 1694; 1695; 1696; 1694; 1695; 1696; 1697; 1698; 1699; 1697; 1698; 1699; 1700; 1701; 1702; 1700; 1701; 1702; 1703;
   1704; 1705; 1703; 1704; 1705; 1706; 1707; 1708; 1706; 1707; 1708; 1709; 1710; 1711; 1709; 1710; 1711; 1712; 1713; 1714; 1712; 1713; 1714; 1715;
   1716; 1717; 1715; 1716; 1717; 1718; 1719; 1720; 1718; 1719; 1720; 1721; 1722; 1723; 1721; 1722; 1723; 1724; 1725; 1726; 1724; 1725; 1726; 1727;
   1728; 1729; 1727; 1728; 1729; 1730; 1731; 1732; 1730; 1731; 1732; 1733; 1734; 1735; 1733; 1734; 1735; 1736; 1737; 1738; 1736; 1737; 1738; 1739;
   1740; 1741; 1739; 1740; 1741; 1742; 1743; 1744; 1742; 1743; 1744; 1745; 1746; 1747; 1745; 1746; 1747; 1748; 1749; 1750; 1748; 1749; 1750; 1751;
   1752; 1753; 1751; 1752; 1753; 1754; 1755; 1756; 1754; 1755; 1756; 1757; 1758; 1759; 1757; 1758; 1759; 1760; 1761; 1762; 1760; 1761; 1762; 1763;
   1764; 1765; 1763; 1764; 1765; 1766; 1767; 1768; 1766; 1767; 1768; 1769; 1770; 1771; 1769; 1770; 1771; 1772; 1773; 1774; 1772; 1773; 1774; 1775;
   1776; 1777; 1775; 1776; 1777; 1778; 1779; 1780; 1778; 1779; 1780; 1781; 1782; 1783; 1781; 1782; 1783; 1784; 1785; 1786; 1784; 1785; 1786; 1787;
   1788; 1789; 1787; 1788; 1789; 1790; 1791; 1792; 1790; 1791; 1792; 1793; 1794; 1795; 1793; 1794; 1795; 1796; 1797; 1798; 1796; 1797; 1798; 1799;
   1800; 1801; 1799; 1800; 1801; 1802; 1803; 1804; 1802; 1803; 1804; 1805; 1806; 1807; 1805; 1806; 1807; 1808; 1809; 1810; 1808; 1809; 1810; 1811;
   1812; 1813; 1811; 1812; 1813; 1814; 1815; 1816; 1814; 1815; 1816; 0; 1817; 1818; 0; 1817; 1818; 1819; 1820; 1821; 1819; 1820; 1821; 1822;
   1823; 1824; 1822; 1823; 1824; 1825; 1826; 1827; 1825; 1826; 1827; 1828; 1829; 1830; 1828; 1829; 1830; 1831; 1832; 1833; 1831; 1832; 1833; 1834;
   1835; 1836; 1834; 1835; 1836; 1837; 1838; 1839; 1837; 1838; 1839; 1840; 1841; 1842; 1840; 1841; 1842; 1843; 1844; 1845; 1843; 1844; 1845; 1846;
   1847; 1848; 1846; 1847; 1848; 1849; 1850; 1851; 1849; 1850; 1851; 1852; 1853; 1854; 1852; 1853; 1854; 1855; 1856; 1857; 1855; 1856; 1857; 1858;
   1859; 1860; 1858; 1859; 1860; 1861; 1862; 1863; 1861; 1862; 1863; 1864; 1865; 1866; 1864; 1865; 1866; 1867; 1868; 1869; 1867; 1868; 1869; 1870;
   1871; 1872; 1870; 1871; 1872; 1873; 1874; 1875; 1873; 1874; 1875; 1876; 1877; 1878; 1876; 1877; 1878; 1879; 1880; 1881; 1879; 1880; 1881; 1882;
   1883; 1884; 1882; 1883; 1884; 1885; 1886; 1887; 1885; 1886; 1887; 1888; 1889; 1890; 1888; 1889; 1890; 1891; 1892; 1893; 1891; 1892; 1893; 1894;
   1895; 1896; 1894; 1895; 1896; 1897; 1898; 1899; 1897; 1898; 1899; 1900; 1901; 1902; 1900; 1901; 1902; 1903; 1904; 1905; 1903; 1904; 1905; 1906;
   1907; 1908; 1906; 1907; 1908; 1909; 1910; 1911; 1909; 1910; 1911; 1912; 1913; 1914; 1912; 1913; 1914; 1915; 1916; 1917; 1915; 1916; 1917; 1918;
   1919; 1920; 1918; 1919; 1920; 1921; 1922; 1923; 1921; 1922; 1923; 1924; 1925; 1926; 1924; 1925; 1926; 1927; 1928; 1929; 1927; 1928; 1929; 1930;
   1931; 1932; 1930; 1931; 1932; 1933; 1934; 1935; 1933; 1934; 1935; 1936; 1937; 1938; 1936; 1937; 1938; 1939; 1940; 1941; 1939; 1940; 1941; 1942;
   1943; 1944; 1942; 1943; 1944; 1945; 1946; 1947; 1945; 1946; 1947; 1948; 1949; 1950; 1948; 1949; 1950; 1951; 1952; 1953; 1951; 1952; 1953; 1954;
   1955; 1956; 1954; 1955; 1956; 1957; 1958; 1959; 1957; 1958; 1959; 1960; 1961; 1962; 1960; 1961; 1962; 1963; 1964; 1965; 1963; 1964; 1965; 1966;
   1967; 1968; 1966; 1967; 1968; 1969; 1970; 1971; 1969; 1970; 1971; 1972; 1973; 1974; 1972; 1973; 1974; 1975; 1976; 1977; 1975; 1976; 1977; 0;
   1978; 1979; 0; 1978; 1979; 1980; 1981; 1982; 1980; 1981; 1982; 1983; 1984; 1985; 1983; 1984; 1985; 1986; 1987; 1988; 1986; 1987; 1988; 1989;
   1990; 1991; 1989; 1990; 1991; 1992; 1993; 1994; 1992; 1993; 1994; 1995; 1996; 1997; 1995; 1996; 1997; 1998; 1999; 2000; 1998; 1999; 2000; 2001;
   2002; 2003; 2001; 2002; 2003; 2004; 2005; 2006; 2004; 2005; 2006; 2007; 2008; 2009; 2007; 2008; 2009; 2010; 2011; 2012; 2010; 2011; 2012; 2013;
   2014; 2015; 2013; 2014; 2015; 2016; 2017; 2018; 2016; 2017; 2018; 2019; 2020; 2021; 2019; 2020; 2021; 2022; 2023; 2024; 2022; 2023; 2024; 2025;
   2026; 2027; 2025; 2026; 2027; 2028; 2029; 2030; 2028; 2029; 2030; 2031; 2032; 2033; 2031; 2032; 2033; 2034; 2035; 2036; 2034; 2035; 2036; 2037;
   2038; 2039; 2037; 2038; 2039; 2040; 2041; 2042; 2040; 2041; 2042; 2043; 2044; 2045; 2043; 2044; 2045; 2046; 2047; 2048; 2046; 2047; 2048; 2049;
   2050; 2051; 2049; 2050; 2051; 2052; 2053; 2054; 2052; 2053; 2054; 2055; 2056; 2057; 2055; 2056; 2057; 2058; 2059; 2060; 2058; 2059; 2060; 2061;
   2062; 2063; 2061; 2062; 2063; 2064; 2065; 2066; 2064; 2065; 2066; 2067; 2068; 2069; 2067; 2068; 2069; 2070; 2071; 2072; 2070; 2071; 2072; 2073;
   2074; 2075; 2073; 2074; 2075; 2076; 2077; 2078; 2076; 2077; 2078; 2079; 2080; 2081; 2079; 2080; 2081; 2082; 2083; 2084; 2082; 2083; 2084; 2085;
   2086; 2087; 2085; 2086; 2087; 2088; 2089; 2090; 2088; 2089; 2090; 2091; 2092; 2093; 2091; 2092; 2093; 2094; 2095; 2096; 2094; 2095; 2096; 2097;
   2098; 2099; 2097; 2098; 2099; 2100; 2101; 2102; 2100; 2101; 2102; 2103; 2104; 2105; 2103; 2104; 2105; 2106; 2107; 2108; 2106; 2107; 2108; 2109;
   2110; 2111; 2109; 2110; 2111; 2112; 2113; 2114; 2112; 2113; 2114; 2115; 2116; 2117; 2115; 2116; 2117; 2118; 2119; 2120; 2118; 2119; 2120; 2121;
   2122; 2123; 2121; 2122; 2123; 2124; 2125; 2126; 2124; 2125; 2126; 2127; 2128; 2129; 2127; 2128; 2129; 2130; 2131; 2132; 2130; 2131; 2132; 2133;
   2134; 2135; 2133; 2134; 2135; 2136; 2137; 2138; 2136; 2137; 2138; 0; 2139; 2140; 0; 2139; 2140; 2141; 2142; 2143; 2141; 2142; 2143; 2144;
   2145; 2146; 2144; 2145; 2146; 2147; 2148; 2149; 2147; 2148; 2149; 2150; 2151; 2152; 2150; 2151; 2152; 2153; 2154; 2155; 2153; 2154; 2155; 2156;
   2157; 2158; 2156; 2157; 2158; 2159; 2160; 2161; 2159; 2160; 2161; 2162; 2163; 2164; 2162; 2163; 2164; 2165; 2166; 2167; 2165; 2166; 2167; 2168;
   2169; 2170; 2168; 2169; 2170; 2171; 2172; 2173; 2171; 2172; 2173; 2174; 2175; 2176; 2174; 2175; 2176; 2177; 2178; 2179; 2177; 2178; 2179; 2180;
   2181; 2182; 2180; 2181; 2182; 2183; 2184; 2185; 2183; 2184; 2185; 2186; 2187; 2188; 2186; 2187; 2188; 2189; 2190; 2191; 2189; 2190; 2191; 2192;
   2193; 2194; 2192; 2193; 2194; 2195; 2196; 2197; 2195; 2196; 2197; 2198; 2199; 2200; 2198; 2199; 2200; 2201; 2202; 2203; 2201; 2202; 2203; 2204;
   2205; 2206; 2204; 2205; 2206; 2207; 2208; 2209; 2207; 2208; 2209; 2210; 2211; 2212; 2210; 2211; 2212; 2213; 2214; 2215; 2213; 2214; 2215; 2216;
   2217; 2218; 2216; 2217; 2218; 2219; 2220; 2221; 2219; 2220; 2221; 2222; 2223; 2224; 2222; 2223; 2224; 2225; 2226; 2227; 2225; 2226; 2227; 2228;
   2229; 2230; 2228; 2229; 2230; 2231; 2232; 2233; 2231; 2232; 2233; 2234; 2235; 2236; 2234; 2235; 2236; 2237; 2238; 2239; 2237; 2238; 2239; 2240;
   2241; 2242; 2240; 2241; 2242; 2243; 2244; 2245; 2243; 2244; 2245; 2246; 2247; 2248; 2246; 2247; 2248; 2249; 2250; 2251; 2249; 2250; 2251; 2252;
   2253; 2254; 2252; 2253; 2254; 2255; 2256; 2257; 2255; 2256; 2257; 2258; 2259; 2260; 2258; 2259; 2260; 2261; 2262; 2263; 2261; 2262; 2263; 2264;
   2265; 2266; 2264; 2265; 2266; 2267; 2268; 2269; 2267; 2268; 2269; 2270; 2271; 2272; 2270; 2271; 2272; 2273; 2274; 2275; 2273; 2274; 2275; 2276;
   2277; 2278; 2276; 2277; 2278; 2279; 2280; 2281; 2279; 2280; 2281; 2282; 2283; 2284; 2282; 2283; 2284; 2285; 2286; 2287; 2285; 2286; 2287; 2288;
   2289; 2290; 2288; 2289; 2290; 2291; 2292; 2293; 2291; 2292; 2293; 2294; 2295; 2296; 2294; 2295; 2296; 2297; 2298; 2299; 2297; 2298; 2299; 0;
   2300; 2301; 0; 2300; 2301; 2302; 2303; 2304; 2302; 2303; 2304; 2305; 2306; 2307; 2305; 2306; 2307; 2308; 2309; 2310; 2308; 2309; 2310; 2311;
   2312; 2313; 2311; 2312; 2313; 2314; 2315; 2316; 2314; 2315; 2316; 2317; 2318; 2319; 2317; 2318; 2319; 2320; 2321; 2322; 2320; 2321; 2322; 2323;
   2324; 2325; 2323; 2324; 2325; 2326; 2327; 2328; 2326; 2327; 2328; 2329; 2330; 2331; 2329; 2330; 2331; 2332; 2333; 2334; 2332; 2333; 2334; 2335;
   2336; 2337; 2335; 2336; 2337; 2338; 2339; 2340; 2338; 2339; 2340; 2341; 2342; 2343; 2341; 2342; 2343; 2344; 2345; 2346; 2344; 2345; 2346; 2347;
   2348; 2349; 2347; 2348; 2349; 2350; 2351; 2352; 2350; 2351; 2352; 2353; 2354; 2355; 2353; 2354; 2355; 2356; 2357; 2358; 2356; 2357; 2358; 2359;
   2360; 2361; 2359; 2360; 2361; 2362; 2363; 2364; 2362; 2363; 2364; 2365; 2366; 2367; 2365; 2366; 2367; 2368; 2369; 2370; 2368; 2369; 2370; 2371;
   2372; 2373; 2371; 2372; 2373; 2374; 2375; 2376; 2374; 2375; 2376; 2377; 2378; 2379; 2377; 2378; 2379; 2380; 2381; 2382; 2380; 2381; 2382; 2383;
   2384; 2385; 2383; 2384; 2385; 2386; 2387; 2388; 2386; 2387; 2388; 2389; 2390; 2391; 2389; 2390; 2391; 2392; 2393; 2394; 2392; 2393; 2394; 2395;
   2396; 2397; 2395; 2396; 2397; 2398; 2399; 2400; 2398; 2399; 2400; 2401; 2402; 2403; 2401; 2402; 2403; 2404; 2405; 2406; 2404; 2405; 2406; 2407;
   2408; 2409; 2407; 2408; 2409; 2410; 2411; 2412; 2410; 2411; 2412; 2413; 2414; 2415; 2413; 2414; 2415; 2416; 2417; 2418; 2416; 2417; 2418; 2419;
   2420; 2421; 2419; 2420; 2421; 2422; 2423; 2424; 2422; 2423; 2424; 2425; 2426; 2427; 2425; 2426; 2427; 2428; 2429; 2430; 2428; 2429; 2430; 2431;
   2432; 2433; 2431; 2432; 2433; 2434; 2435; 2436; 2434; 2435; 2436; 2437; 2438; 2439; 2437; 2438; 2439; 2440; 2441; 2442; 2440; 2441; 2442; 2443;
   2444; 2445; 2443; 2444; 2445; 2446; 2447; 2448; 2446; 2447; 2448; 2449; 2450; 2451; 2449; 2450; 2451; 2452; 2453; 2454; 2452; 2453; 2454; 2455;
   2456; 2457; 2455; 2456; 2457; 2458; 2459; 2460; 2458; 2459; 2460; 0; 2461; 2462; 0; 2461; 2462; 2463; 2464; 2465; 2463; 2464; 2465; 2466;
   2467; 2468; 2466; 2467; 2468; 2469; 2470; 2471; 2469; 2470; 2471; 2472; 2473; 2474; 2472; 2473; 2474; 2475; 2476; 2477; 2475; 2476; 2477; 2478;
   2479; 2480; 2478; 2479; 2480; 2481; 2482; 2483; 2481; 2482; 2483; 2484; 2485; 2486; 2484; 2485; 2486; 2487; 2488; 2489; 2487; 2488; 2489; 2490;
   2491; 2492; 2490; 2491; 2492; 2493; 2494; 2495; 2493; 2494; 2495; 2496; 2497; 2498; 2496; 2497; 2498; 2499; 2500; 2501; 2499; 2500; 2501; 2502;
   2503; 2504; 2502; 2503; 2504; 2505; 2506; 2507; 2505; 2506; 2507; 2508; 2509; 2510; 2508; 2509; 2510; 2511; 2512; 2513; 2511; 2512; 2513; 2514;
   2515; 2516; 2514; 2515; 2516; 2517; 2518; 2519; 2517; 2518; 2519; 2520; 2521; 2522; 2520; 2521; 2522; 2523; 2524; 2525; 2523; 2524; 2525; 2526;
   2527; 2528; 2526; 2527; 2528; 2529; 2530; 2531; 2529; 2530; 2531; 2532; 2533; 2534; 2532; 2533; 2534; 2535; 2536; 2537; 2535; 2536; 2537; 2538;
   2539; 2540; 2538; 2539; 2540; 2541; 2542; 2543; 2541; 2542; 2543; 2544; 2545; 2546; 2544; 2545; 2546; 2547; 2548; 2549; 2547; 2548; 2549; 2550;
   2551; 2552; 2550; 2551; 2552; 2553; 2554; 2555; 2553; 2554; 2555; 2556; 2557; 2558; 2556; 2557; 2558; 2559; 2560; 2561; 2559; 2560; 2561; 2562;
   2563; 2564; 2562; 2563; 2564; 2565; 2566; 2567; 2565; 2566; 2567; 2568; 2569; 2570; 2568; 2569; 2570; 2571; 2572; 2573; 2571; 2572; 2573; 2574].
Definition STATE_SHAPES_10 : list Z :=
  [2575; 2576; 2574; 2575; 2576; 2577; 2578; 2579; 2577; 2578; 2579; 2580; 2581; 2582; 2580; 2581; 2582; 2583; 2584; 2585; 2583; 2584; 2585; 2586;
   2587; 2588; 2586; 2587; 2588; 2589; 2590; 2591; 2589; 2590; 2591; 2592; 2593; 2594; 2592; 2593; 2594; 2595; 2596; 2597; 2595; 2596; 2597; 2598;
   2599; 2600; 2598; 2599; 2600; 2601; 2602; 2603; 2601; 2602; 2603; 2604; 2605; 2606; 2604; 2605; 2606; 2607; 2608; 2609; 2607; 2608; 2609; 2610;
   2611; 2612; 2610; 2611; 2612; 2613; 2614; 2615; 2613; 2614; 2615; 2616; 2617; 2618; 2616; 2617; 2618; 2619; 2620; 2621; 2619; 2620; 2621; 0;
   2622; 2623; 0; 2622; 2623; 2624; 2625; 2626; 2624; 2625; 2626; 2627; 2628; 2629; 2627; 2628; 2629; 2630; 2631; 2632; 2630; 2631; 2632; 2633;
   2634; 2635; 2633; 2634; 2635; 2636; 2637; 2638; 2636; 2637; 2638; 2639; 2640; 2641; 2639; 2640; 2641; 2642; 2643; 2644; 2642; 2643; 2644; 2645;
   2646; 2647; 2645; 2646; 2647; 2648; 2649; 2650; 2648; 2649; 2650; 2651; 2652; 2653; 2651; 2652; 2653; 2654; 2655; 2656; 2654; 2655; 2656; 2657;
   2658; 2659; 2657; 2658; 2659; 2660; 2661; 2662; 2660; 2661; 2662; 2663; 2664; 2665; 2663; 2664; 2665; 2666; 2667; 2668; 2666; 2667; 2668; 2669;
   2670; 2671; 2669; 2670; 2671; 2672; 2673; 2674; 2672; 2673; 2674; 2675; 2676; 2677; 2675; 2676; 2677; 2678; 2679; 2680; 2678; 2679; 2680; 2681;
   2682; 2683; 2681; 2682; 2683; 2684; 2685; 2686; 2684; 2685; 2686; 2687; 2688; 2689; 2687; 2688; 2689; 2690; 2691; 2692; 2690; 2691; 2692; 2693;
   2694; 2695; 2693; 2694; 2695; 2696; 2697; 2698; 2696; 2697; 2698; 2699; 2700; 2701; 2699; 2700; 2701; 2702; 2703; 2704; 2702; 2703; 2704; 2705;
   2706; 2707; 2705; 2706; 2707; 2708; 2709; 2710; 2708; 2709; 2710; 2711; 2712; 2713; 2711; 2712; 2713; 2714; 2715; 2716; 2714; 2715; 2716; 2717;
   2718; 2719; 2717; 2718; 2719; 2720; 2721; 2722; 2720; 2721; 2722; 2723; 2724; 2725; 2723; 2724; 2725; 2726; 2727; 2728; 2726; 2727; 2728; 2729;
   2730; 2731; 2729; 2730; 2731; 2732; 2733; 2734; 2732; 2733; 2734; 2735; 2736; 2737; 2735; 2736; 2737; 2738; 2739; 2740; 2738; 2739; 2740; 2741;
   2742; 2743; 2741; 2742; 2743; 2744; 2745; 2746; 2744; 2745; 2746; 2747; 2748; 2749; 2747; 2748; 2749; 2750; 2751; 2752; 2750; 2751; 2752; 2753;
   2754; 2755; 2753; 2754; 2755; 2756; 2757; 2758; 2756; 2757; 2758; 2759; 2760; 2761; 2759; 2760; 2761; 2762; 2763; 2764; 2762; 2763; 2764; 2765;
   2766; 2767; 2765; 2766; 2767; 2768; 2769; 2770; 2768; 2769; 2770; 2771; 2772; 2773; 2771; 2772; 2773; 2774; 2775; 2776; 2774; 2775; 2776; 2777;
   2778; 2779; 2777; 2778; 2779; 2780; 2781; 2782; 2780; 2781; 2782; 0; 2783; 2784; 0; 2783; 2784; 2785; 2786; 2787; 2785; 2786; 2787; 2788;
   2789; 2790; 2788; 2789; 2790; 2791; 2792; 2793; 2791; 2792; 2793; 2794; 2795; 2796; 2794; 2795; 2796; 2797; 2798; 2799; 2797; 2798; 2799; 2800;
   2801; 2802; 2800; 2801; 2802; 2803; 2804; 2805; 2803; 2804; 2805; 2806; 2807; 2808; 2806; 2807; 2808; 2809; 2810; 2811; 2809; 2810; 2811; 2812;
   2813; 2814; 2812; 2813; 2814; 2815; 2816; 2817; 2815; 2816; 2817; 2818; 2819; 2820; 2818; 2819; 2820; 2821; 2822; 2823; 2821; 2822; 2823; 2824;
   2825; 2826; 2824; 2825; 2826; 2827; 2828; 2829; 2827; 2828; 2829; 2830; 2831; 2832; 2830; 2831; 2832; 2833; 2834; 2835; 2833; 2834; 2835; 2836;
   2837; 2838; 2836; 2837; 2838; 2839; 2840; 2841; 2839; 2840; 2841; 2842; 2843; 2844; 2842; 2843; 2844; 2845; 2846; 2847; 2845; 2846; 2847; 2848;
   2849; 2850; 2848; 2849; 2850; 2851; 2852; 2853; 2851; 2852; 2853; 2854; 2855; 2856; 2854; 2855; 2856; 2857; 2858; 2859; 2857; 2858; 2859; 2860;
   2861; 2862; 2860; 2861; 2862; 2863; 2864; 2865; 2863; 2864; 2865; 2866; 2867; 2868; 2866; 2867; 2868; 2869; 2870; 2871; 2869; 2870; 2871; 2872;
   2873; 2874; 2872; 2873; 2874; 2875; 2876; 2877; 2875; 2876; 2877; 2878; 2879; 2880; 2878; 2879; 2880; 2881; 2882; 2883; 2881; 2882; 2883; 2884;
   2885; 2886; 2884; 2885; 2886; 2887; 2888; 2889; 2887; 2888; 2889; 2890; 2891; 2892; 2890; 2891; 2892; 2893; 2894; 2895; 2893; 2894; 2895; 2896;
   2897; 2898; 2896; 2897; 2898; 2899; 2900; 2901; 2899; 2900; 2901; 2902; 2903; 2904; 2902; 2903; 2904; 2905; 2906; 2907; 2905; 2906; 2907; 2908;
   2909; 2910; 2908; 2909; 2910; 2911; 2912; 2913; 2911; 2912; 2913; 2914; 2915; 2916; 2914; 2915; 2916; 2917; 2918; 2919; 2917; 2918; 2919; 2920;
   2921; 2922; 2920; 2921; 2922; 2923; 2924; 2925; 2923; 2924; 2925; 2926; 2927; 2928; 2926; 2927; 2928; 2929; 2930; 2931; 2929; 2930; 2931; 2932;
   2933; 2934; 2932; 2933; 2934; 2935; 2936; 2937; 2935; 2936; 2937; 2938; 2939; 2940; 2938; 2939; 2940; 2941; 2942; 2943; 2941; 2942; 2943; 0;
   2944; 2945; 0; 2944; 2945; 2946; 2947; 2948; 2946; 2947; 2948; 2949; 2950; 2951; 2949; 2950; 2951; 2952; 2953; 2954; 2952; 2953; 2954; 2955;
   2956; 2957; 2955; 2956; 2957; 2958; 2959; 2960; 2958; 2959; 2960; 2961; 2962; 2963; 2961; 2962; 2963; 2964; 2965; 2966; 2964; 2965; 2966; 2967;
   2968; 2969; 2967; 2968; 2969; 2970; 2971; 2972; 2970; 2971; 2972; 2973; 2974; 2975; 2973; 2974; 2975; 2976; 2977; 2978; 2976; 2977; 2978; 2979;
   2980; 2981; 2979; 2980; 2981; 2982; 2983; 2984; 2982; 2983; 2984; 2985; 2986; 2987; 2985; 2986; 2987; 2988; 2989; 2990; 2988; 2989; 2990; 2991;
   2992; 2993; 2991; 2992; 2993; 2994; 2995; 2996; 2994; 2995; 2996; 2997; 2998; 2999; 2997; 2998; 2999; 3000; 3001; 3002; 3000; 3001; 3002; 3003;
   3004; 3005; 3003; 3004; 3005; 3006; 3007; 3008; 3006; 3007; 3008; 3009; 3010; 3011; 3009; 3010; 3011; 3012; 3013; 3014; 3012; 3013; 3014; 3015;
   3016; 3017; 3015; 3016; 3017; 3018; 3019; 3020; 3018; 3019; 3020; 3021; 3022; 3023; 3021; 3022; 3023; 3024; 3025; 3026; 3024; 3025; 3026; 3027;
   3028; 3029; 3027; 3028; 3029; 3030; 3031; 3032; 3030; 3031; 3032; 3033; 3034; 3035; 3033; 3034; 3035; 3036; 3037; 3038; 3036; 3037; 3038; 3039;
   3040; 3041; 3039; 3040; 3041; 3042; 3043; 3044; 3042; 3043; 3044; 3045; 3046; 3047; 3045; 3046; 3047; 3048; 3049; 3050; 3048; 3049; 3050; 3051;
   3052; 3053; 3051; 3052; 3053; 3054; 3055; 3056; 3054; 3055; 3056; 3057; 3058; 3059; 3057; 3058; 3059; 3060; 3061; 3062; 3060; 3061; 3062; 3063;
   3064; 3065; 3063; 3064; 3065; 3066; 3067; 3068; 3066; 3067; 3068; 3069; 3070; 3071; 3069; 3070; 3071; 3072; 3073; 3074; 3072; 3073; 3074; 3075;
   3076; 3077; 3075; 3076; 3077; 3078; 3079; 3080; 3078; 3079; 3080; 3081; 3082; 3083; 3081; 3082; 3083; 3084; 3085; 3086; 3084; 3085; 3086; 3087;
   3088; 3089; 3087; 3088; 3089; 3090; 3091; 3092; 3090; 3091; 3092; 3093; 3094; 3095; 3093; 3094; 3095; 3096; 3097; 3098; 3096; 3097; 3098; 3099;
   3100; 3101; 3099; 3100; 3101; 3102; 3103; 3104; 3102; 3103; 3104; 0; 3105; 3106; 0; 3105; 3106; 3107; 3108; 3109; 3107; 3108; 3109; 3110;
   3111; 3112; 3110; 3111; 3112; 3113; 3114; 3115; 3113; 3114; 3115; 3116; 3117; 3118; 3116; 3117; 3118; 3119; 3120; 3121; 3119; 3120; 3121; 3122;
   3123; 3124; 3122; 3123; 3124; 3125; 3126; 3127; 3125; 3126; 3127; 3128; 3129; 3130; 3128; 3129; 3130; 3131; 3132; 3133; 3131; 3132; 3133; 3134;
   3135; 3136; 3134; 3135; 3136; 3137; 3138; 3139; 3137; 3138; 3139; 3140; 3141; 3142; 3140; 3141; 3142; 3143; 3144; 3145; 3143; 3144; 3145; 3146;
   3147; 3148; 3146; 3147; 3148; 3149; 3150; 3151; 3149; 3150; 3151; 3152; 3153; 3154; 3152; 3153; 3154; 3155; 3156; 3157; 3155; 3156; 3157; 3158;
   3159; 3160; 3158; 3159; 3160; 3161; 3162; 3163; 3161; 3162; 3163; 3164; 3165; 3166; 3164; 3165; 3166; 3167; 3168; 3169; 3167; 3168; 3169; 3170;
   3171; 3172; 3170; 3171; 3172; 3173; 3174; 3175; 3173; 3174; 3175; 3176; 3177; 3178; 3176; 3177; 3178; 3179; 3180; 3181; 3179; 3180; 3181; 3182;
   3183; 3184; 3182; 3183; 3184; 3185; 3186; 3187; 3185; 3186; 3187; 3188; 3189; 3190; 3188; 3189; 3190; 3191; 3192; 3193; 3191; 3192; 3193; 3194;
   3195; 3196; 3194; 3195; 3196; 3197; 3198; 3199; 3197; 3198; 3199; 3200; 3201; 3202; 3200; 3201; 3202; 3203; 3204; 3205; 3203; 3204; 3205; 3206;
   3207; 3208; 3206; 3207; 3208; 3209; 3210; 3211; 3209; 3210; 3211; 3212; 3213; 3214; 3212; 3213; 3214; 3215; 3216; 3217; 3215; 3216; 3217; 3218;
   3219; 3220; 3218; 3219; 3220; 3221; 3222; 3223; 3221; 3222; 3223; 3224; 3225; 3226; 3224; 3225; 3226; 3227; 3228; 3229; 3227; 3228; 3229; 3230;
   3231; 3232; 3230; 3231; 3232; 3233; 3234; 3235; 3233; 3234; 3235; 3236; 3237; 3238; 3236; 3237; 3238; 3239; 3240; 3241; 3239; 3240; 3241; 3242;
   3243; 3244; 3242; 3243; 3244; 3245; 3246; 3247; 3245; 3246; 3247; 3248; 3249; 3250; 3248; 3249; 3250; 3251; 3252; 3253; 3251; 3252; 3253; 3254;
   3255; 3256; 3254; 3255; 3256; 3257; 3258; 3259; 3257; 3258; 3259; 3260; 3261; 3262; 3260; 3261; 3262; 3263; 3263; 3263; 3263; 3263; 3263; 3263;
   3263; 3263; 3263; 3263; 3263; 3263; 3263; 3263; 3263; 3263; 3263; 3263; 3263; 3263; 3263; 3263; 3263; 3263; 3263; 3263; 3263; 3263; 3263; 3263;
   3263; 1; 1; 1; 1; 1; 1; 1; 1; 1; 1; 1; 1; 1; 1; 1; 1; 1; 1; 1; 1; 1; 1; 1;
   1; 1; 1; 1; 1; 1; 1; 1; 1; 1; 1; 3264; 3264; 3265; 3265; 3266; 3267; 3268; 3269; 3270; 3270; 3271; 3271; 3272;
   3272; 3272; 3272; 3272; 3272; 3272; 3272; 3272; 3272; 3272; 3272; 3272; 3272; 3272; 3272; 1; 3273; 3273; 3273; 3273; 3274; 3274; 3274; 3274;
   3275; 3275; 3275; 3275; 3276; 3276; 3276; 3276; 3276; 3276; 3276; 3276; 3277; 3277; 3278; 3278; 3279; 3279; 3280; 3280; 3281; 3281; 3281; 3281;
   3282; 3282; 3282; 3282; 3283; 3283; 3284; 3284; 3283; 3283; 3284; 3284; 3285; 3285; 3285; 3285; 3285; 3285; 3285; 3285; 3285; 3285; 3285; 3285;
   3285; 3285; 3285; 3285; 3285; 3285; 3285; 3285; 3285; 3285; 3285; 3285; 3285; 3285; 3285; 3285; 3285; 3285; 3285; 3285; 3285; 3285; 3285; 3285;
   3285; 3285; 3285; 3285; 3285; 3285; 3285; 3285; 3285; 3285; 3285; 3285; 3285; 3285; 3285; 3285; 3285; 3285; 3285; 3285; 3285; 3285; 3285; 3285;
   3285; 3285; 3285; 3285; 0; 0; 0; 0; 1; 1; 1; 1; 1; 1; 1; 1; 1; 1; 1; 1; 1; 0; 1; 0;
   0; 1; 1; 1; 1; 1; 1; 1; 1; 1; 1; 1; 1; 1; 0; 1; 0; 0; 0; 0; 0; 0; 0; 0;
   0; 0; 0; 0; 0; 0; 0; 0; 0; 0; 0; 0; 0; 0; 0; 0; 0; 0; 0; 0; 0; 0; 0; 0;
   0; 0; 0; 0; 0; 0; 0; 0; 0; 0; 0; 0; 0; 0; 0; 0; 0; 0; 0; 0; 0; 0; 0; 1;
   1; 141; 141; 142; 142; 1; 1; 141; 141; 142; 142; 1; 1; 0; 0; 0; 0; 3286; 3287; 3286; 3287; 3288; 3289; 3288;
   3289; 3290; 3291; 3290; 3291; 3292; 3293; 3292; 3293; 3294; 3295; 3294; 3295; 3296; 3297; 3296; 3297; 3298; 3299; 3298; 3299; 3300; 3301; 3300;
   3301; 3302; 3303; 3302; 3303; 3304; 3305; 3304; 3305; 3306; 3307; 3306; 3307; 3308; 3309; 3308; 3309; 3310; 3311; 3310; 3311; 3312; 3313; 3312;
   3313; 3314; 3315; 3314; 3315; 3316; 3317; 3316; 3317; 97; 97; 97; 97; 98; 98; 98; 98; 97; 97; 97; 97; 99; 99; 99;
   99; 100; 100; 100; 100; 98; 98; 98; 98; 100; 100; 100; 100; 99; 99; 99; 99; 101; 101; 101; 101; 98; 98; 98].
Definition STATE_SHAPES_11 : list Z :=
  [98; 101; 101; 101; 101; 99; 99; 99; 99; 102; 102; 102; 102; 98; 98; 98; 98; 102; 102; 102; 102; 99; 99; 99;
   99; 97; 97; 97; 97; 98; 98; 98; 98; 97; 97; 97; 97; 99; 99; 99; 99; 100; 100; 100; 100; 98; 98; 98;
   98; 100; 100; 100; 100; 99; 99; 99; 99; 101; 101; 101; 101; 98; 98; 98; 98; 101; 101; 101; 101; 99; 99; 99;
   99; 102; 102; 102; 102; 98; 98; 98; 98; 102; 102; 102; 102; 99; 99; 99; 99; 0; 0; 138; 138; 0; 0; 138;
   138; 0; 0; 138; 138; 0; 0; 138; 138; 0; 0; 139; 139; 0; 0; 139; 139; 0; 0; 139; 139; 0; 0; 139;
   139; 0; 0; 138; 138; 0; 0; 138; 138; 0; 0; 138; 138; 0; 0; 138; 138; 0; 0; 139; 139; 0; 0; 139;
   139; 0; 0; 139; 139; 0; 0; 139; 139; 24; 24; 25; 25; 26; 26; 27; 27; 28; 28; 29; 29; 30; 30; 31;
   31; 32; 32; 33; 33; 34; 34; 35; 35; 36; 36; 37; 37; 38; 38; 39; 39; 40; 40; 41; 41; 42; 42; 43;
   43; 44; 44; 36; 36; 25; 25; 38; 38; 27; 27; 45; 45; 41; 41; 30; 30; 43; 43; 32; 32; 46; 46; 26;
   26; 35; 35; 28; 28; 37; 37; 47; 47; 31; 31; 40; 40; 33; 33; 42; 42; 24; 24; 25; 25; 26; 26; 27;
   27; 28; 28; 29; 29; 30; 30; 31; 31; 32; 32; 33; 33; 34; 34; 35; 35; 36; 36; 37; 37; 38; 38; 39;
   39; 40; 40; 41; 41; 42; 42; 43; 43; 44; 44; 36; 36; 25; 25; 38; 38; 27; 27; 45; 45; 41; 41; 30;
   30; 43; 43; 32; 32; 46; 46; 26; 26; 35; 35; 28; 28; 37; 37; 47; 47; 31; 31; 40; 40; 33; 33; 42;
   42; 0; 0; 0; 0; 0; 0; 0; 0; 0; 0; 0; 0; 0; 0; 0; 0; 0; 0; 0; 0; 0; 0; 0;
   0; 0; 0; 0; 0; 0; 0; 0; 0; 0; 0; 0; 0; 0; 0; 0; 0; 0; 0; 0; 0; 0; 0; 0;
   0; 54; 54; 55; 55; 56; 56; 55; 55; 54; 54; 55; 55; 56; 56; 55; 55; 56; 56; 57; 57; 54; 54; 57;
   57; 56; 56; 57; 57; 54; 54; 57; 57; 55; 55; 56; 56; 57; 57; 56; 56; 55; 55; 56; 56; 57; 57; 56;
   56; 57; 57; 54; 54; 55; 55; 54; 54; 57; 57; 54; 54; 55; 55; 54; 54; 54; 54; 55; 55; 56; 56; 55;
   55; 54; 54; 55; 55; 56; 56; 55; 55; 56; 56; 57; 57; 54; 54; 57; 57; 56; 56; 57; 57; 54; 54; 57;
   57; 55; 55; 56; 56; 57; 57; 56; 56; 55; 55; 56; 56; 57; 57; 56; 56; 57; 57; 54; 54; 55; 55; 54;
   54; 57; 57; 54; 54; 55; 55; 54; 54; 0; 0; 0; 0; 0; 0; 0; 0; 0; 0; 0; 0; 0; 0; 0;
   0; 0; 0; 0; 0; 0; 0; 0; 0; 0; 0; 0; 0; 0; 0; 0; 0; 0; 0; 0; 0; 0; 0; 0;
   0; 0; 0; 0; 0; 0; 0; 0; 0; 0; 0; 0; 0; 0; 0; 0; 0; 0; 0; 0; 0; 0; 0; 0;
   0; 0; 0; 0; 0; 0; 0; 0; 0; 0; 0; 0; 0; 0; 0; 0; 0; 1; 1; 1; 1; 1; 1; 1;
   1; 1; 1; 1; 1; 1; 1; 1; 1; 3318; 3318; 3318; 3318; 3318; 3318; 3318; 3318; 3318; 1; 1; 1; 1; 1; 1;
   1; 1; 1; 1; 1; 1; 1; 1; 1; 1; 1; 1; 1; 1; 1; 1; 1; 1; 1; 1; 1; 1; 1; 1;
   1; 1; 1; 1; 1; 1; 1; 1; 1; 1; 1; 1; 1; 1; 1; 1; 1; 1; 1; 1; 1; 1; 1; 1;
   1; 1; 1; 1; 1; 1; 1; 1; 1; 1; 3319; 1; 1; 1; 1; 1; 1; 1; 1; 1; 661; 661; 661; 661;
   1; 1; 24; 24; 25; 25; 26; 26; 27; 27; 28; 28; 29; 29; 30; 30; 31; 31; 32; 32; 33; 33; 34; 34;
   35; 35; 36; 36; 37; 37; 38; 38; 39; 39; 40; 40; 41; 41; 42; 42; 43; 43; 44; 44; 36; 36; 25; 25;
   38; 38; 27; 27; 45; 45; 41; 41; 30; 30; 43; 43; 32; 32; 46; 46; 26; 26; 35; 35; 28; 28; 37; 37;
   47; 47; 31; 31; 40; 40; 33; 33; 42; 42; 3320; 3321; 3322; 3320; 3321; 3322; 0; 3323; 3324; 0; 3323; 3324; 3325; 3326;
   3327; 3325; 3326; 3327; 3328; 3329; 3330; 3328; 3329; 3330; 3331; 3332; 3333; 3331; 3332; 3333; 3334; 3335; 3336; 3334; 3335; 3336; 3337; 3338;
   3339; 3337; 3338; 3339; 3340; 3341; 3342; 3340; 3341; 3342; 3343; 3344; 3345; 3343; 3344; 3345; 3346; 3347; 3348; 3346; 3347; 3348; 3349; 3350;
   3351; 3349; 3350; 3351; 3352; 3353; 3354; 3352; 3353; 3354; 3355; 3356; 3357; 3355; 3356; 3357; 3358; 3359; 3360; 3358; 3359; 3360; 3361; 3362;
   3363; 3361; 3362; 3363; 3364; 3365; 3366; 3364; 3365; 3366; 3367; 3368; 3369; 3367; 3368; 3369; 3370; 3371; 3372; 3370; 3371; 3372; 3373; 3374;
   3375; 3373; 3374; 3375; 3376; 3377; 3378; 3376; 3377; 3378; 3379; 3380; 3381; 3379; 3380; 3381; 3382; 3383; 3384; 3382; 3383; 3384; 3385; 3386;
   3387; 3385; 3386; 3387; 3388; 3389; 3390; 3388; 3389; 3390; 3391; 3392; 3393; 3391; 3392; 3393; 3394; 3395; 3396; 3394; 3395; 3396; 3397; 3398;
   3399; 3397; 3398; 3399; 3400; 3401; 3402; 3400; 3401; 3402; 3403; 3404; 3405; 3403; 3404; 3405; 3406; 3407; 3408; 3406; 3407; 3408; 3409; 3410;
   3411; 3409; 3410; 3411; 3412; 3413; 3414; 3412; 3413; 3414; 3415; 3416; 3417; 3415; 3416; 3417; 3418; 3419; 3420; 3418; 3419; 3420; 3421; 3422;
   3423; 3421; 3422; 3423; 3424; 3425; 3426; 3424; 3425; 3426; 3427; 3428; 3429; 3427; 3428; 3429; 3430; 3431; 3432; 3430; 3431; 3432; 3433; 3434;
   3435; 3433; 3434; 3435; 3436; 3437; 3438; 3436; 3437; 3438; 3439; 3440; 3441; 3439; 3440; 3441; 3442; 3443; 3444; 3442; 3443; 3444; 3445; 3446;
   3447; 3445; 3446; 3447; 3448; 3449; 3450; 3448; 3449; 3450; 3451; 3452; 3453; 3451; 3452; 3453; 3454; 3455; 3456; 3454; 3455; 3456; 3457; 3458;
   3459; 3457; 3458; 3459; 3460; 3461; 3462; 3460; 3461; 3462; 3463; 3464; 3465; 3463; 3464; 3465; 3466; 3467; 3468; 3466; 3467; 3468; 3469; 3470;
   3471; 3469; 3470; 3471; 3472; 3473; 3474; 3472; 3473; 3474; 3475; 3476; 3477; 3475; 3476; 3477; 3478; 3479; 3480; 3478; 3479; 3480; 141; 141;
   142; 142; 1; 1; 1; 1; 1; 1; 141; 141; 142; 142; 1; 1; 24; 24; 25; 25; 26; 26; 27; 27; 28; 28;
   29; 29; 30; 30; 31; 31; 32; 32; 33; 33; 34; 34; 35; 35; 36; 36; 37; 37; 38; 38; 39; 39; 40; 40;
   41; 41; 42; 42; 43; 43; 44; 44; 36; 36; 25; 25; 38; 38; 27; 27; 45; 45; 41; 41; 30; 30; 43; 43;
   32; 32; 46; 46; 26; 26; 35; 35; 28; 28; 37; 37; 47; 47; 31; 31; 40; 40; 33; 33; 42; 42; 3481; 3482;
   3483; 3481; 3482; 3483; 0; 3484; 3485; 0; 3484; 3485; 3486; 3487; 3488; 3486; 3487; 3488; 3489; 3490; 3491; 3489; 3490; 3491; 3492; 3493;
   3494; 3492; 3493; 3494; 3495; 3496; 3497; 3495; 3496; 3497; 3498; 3499; 3500; 3498; 3499; 3500; 3501; 3502; 3503; 3501; 3502; 3503; 3504; 3505;
   3506; 3504; 3505; 3506; 3507; 3508; 3509; 3507; 3508; 3509; 3510; 3511; 3512; 3510; 3511; 3512; 3513; 3514; 3515; 3513; 3514; 3515; 3516; 3517;
   3518; 3516; 3517; 3518; 3519; 3520; 3521; 3519; 3520; 3521; 3522; 3523; 3524; 3522; 3523; 3524; 3525; 3526; 3527; 3525; 3526; 3527; 3528; 3529;
   3530; 3528; 3529; 3530; 3531; 3532; 3533; 3531; 3532; 3533; 3534; 3535; 3536; 3534; 3535; 3536; 3537; 3538; 3539; 3537; 3538; 3539; 3540; 3541;
   3542; 3540; 3541; 3542; 3543; 3544; 3545; 3543; 3544; 3545; 3546; 3547; 3548; 3546; 3547; 3548; 3549; 3550; 3551; 3549; 3550; 3551; 3552; 3553;
   3554; 3552; 3553; 3554; 3555; 3556; 3557; 3555; 3556; 3557; 3558; 3559; 3560; 3558; 3559; 3560; 3561; 3562; 3563; 3561; 3562; 3563; 3564; 3565;
   3566; 3564; 3565; 3566; 3567; 3568; 3569; 3567; 3568; 3569; 3570; 3571; 3572; 3570; 3571; 3572; 3573; 3574; 3575; 3573; 3574; 3575; 3576; 3577;
   3578; 3576; 3577; 3578; 3579; 3580; 3581; 3579; 3580; 3581; 3582; 3583; 3584; 3582; 3583; 3584; 3585; 3586; 3587; 3585; 3586; 3587; 3588; 3589;
   3590; 3588; 3589; 3590; 3591; 3592; 3593; 3591; 3592; 3593; 3594; 3595; 3596; 3594; 3595; 3596; 3597; 3598; 3599; 3597; 3598; 3599; 3600; 3601;
   3602; 3600; 3601; 3602; 3603; 3604; 3605; 3603; 3604; 3605; 3606; 3607; 3608; 3606; 3607; 3608; 3609; 3610; 3611; 3609; 3610; 3611; 3612; 3613;
   3614; 3612; 3613; 3614; 3615; 3616; 3617; 3615; 3616; 3617; 3618; 3619; 3620; 3618; 3619; 3620; 3621; 3622; 3623; 3621; 3622; 3623; 3624; 3625;
   3626; 3624; 3625; 3626; 3627; 3628; 3629; 3627; 3628; 3629; 3630; 3631; 3632; 3630; 3631; 3632; 3633; 3634; 3635; 3633; 3634; 3635; 3636; 3637;
   3638; 3636; 3637; 3638; 3639; 3640; 3641; 3639; 3640; 3641; 1; 24; 24; 25; 25; 26; 26; 27; 27; 28; 28; 29; 29; 30;
   30; 31; 31; 32; 32; 33; 33; 34; 34; 35; 35; 36; 36; 37; 37; 38; 38; 39; 39; 40; 40; 41; 41; 42;
   42; 43; 43; 44; 44; 36; 36; 25; 25; 38; 38; 27; 27; 45; 45; 41; 41; 30; 30; 43; 43; 32; 32; 46;
   46; 26; 26; 35; 35; 28; 28; 37; 37; 47; 47; 31; 31; 40; 40; 33; 33; 42; 42; 141; 141; 142; 142; 1;
   1; 0; 0; 0; 0; 0; 0; 0; 0; 0; 0; 0; 0; 0; 0; 0; 0; 0; 0; 0; 0; 0; 0; 0;
   0; 0; 0; 3642; 3643; 3644; 3642; 3643; 3644; 0; 3645; 3646; 0; 3645; 3646; 3647; 3648; 3649; 3647; 3648; 3649; 3650; 3651; 3652;
   3650; 3651; 3652; 3653; 3654; 3655; 3653; 3654; 3655; 3656; 3657; 3658; 3656; 3657; 3658; 3659; 3660; 3661; 3659; 3660; 3661; 3662; 3663; 3664;
   3662; 3663; 3664; 3665; 3666; 3667; 3665; 3666; 3667; 3668; 3669; 3670; 3668; 3669; 3670; 3671; 3672; 3673; 3671; 3672; 3673; 3674; 3675; 3676;
   3674; 3675; 3676; 3677; 3678; 3679; 3677; 3678; 3679; 3680; 3681; 3682; 3680; 3681; 3682; 3683; 3684; 3685; 3683; 3684; 3685; 3686; 3687; 3688;
   3686; 3687; 3688; 3689; 3690; 3691; 3689; 3690; 3691; 3692; 3693; 3694; 3692; 3693; 3694; 3695; 3696; 3697; 3695; 3696; 3697; 3698; 3699; 3700;
   3698; 3699; 3700; 3701; 3702; 3703; 3701; 3702; 3703; 3704; 3705; 3706; 3704; 3705; 3706; 3707; 3708; 3709; 3707; 3708; 3709; 3710; 3711; 3712;
   3710; 3711; 3712; 3713; 3714; 3715; 3713; 3714; 3715; 3716; 3717; 3718; 3716; 3717; 3718; 3719; 3720; 3721; 3719; 3720; 3721; 3722; 3723; 3724;
   3722; 3723; 3724; 3725; 3726; 3727; 3725; 3726; 3727; 3728; 3729; 3730; 3728; 3729; 3730; 3731; 3732; 3733; 3731; 3732; 3733; 3734; 3735; 3736].
Definition STATE_SHAPES_12 : list Z :=
  [3734; 3735; 3736; 3737; 3738; 3739; 3737; 3738; 3739; 3740; 3741; 3742; 3740; 3741; 3742; 3743; 3744; 3745; 3743; 3744; 3745; 3746; 3747; 3748;
   3746; 3747; 3748; 3749; 3750; 3751; 3749; 3750; 3751; 3752; 3753; 3754; 3752; 3753; 3754; 3755; 3756; 3757; 3755; 3756; 3757; 3758; 3759; 3760;
   3758; 3759; 3760; 3761; 3762; 3763; 3761; 3762; 3763; 3764; 3765; 3766; 3764; 3765; 3766; 3767; 3768; 3769; 3767; 3768; 3769; 3770; 3771; 3772;
   3770; 3771; 3772; 3773; 3774; 3775; 3773; 3774; 3775; 3776; 3777; 3778; 3776; 3777; 3778; 3779; 3780; 3781; 3779; 3780; 3781; 3782; 3783; 3784;
   3782; 3783; 3784; 3785; 3786; 3787; 3785; 3786; 3787; 3788; 3789; 3790; 3788; 3789; 3790; 3791; 3792; 3793; 3791; 3792; 3793; 3794; 3795; 3796;
   3794; 3795; 3796; 3797; 3798; 3799; 3797; 3798; 3799; 3800; 3801; 3802; 3800; 3801; 3802; 1; 1; 1; 3803; 3803; 3803; 3803; 3804; 3804;
   3804; 3804; 3805; 3805; 3805; 3805; 3806; 3806; 3806; 3806; 3803; 3803; 3803; 3803; 3804; 3804; 3804; 3804; 3805; 3805; 3805; 3805; 3806; 3806;
   3806; 3806; 3803; 3803; 3803; 3803; 3804; 3804; 3804; 3804; 3805; 3805; 3805; 3805; 3806; 3806; 3806; 3806; 3803; 3803; 3803; 3803; 3804; 3804;
   3804; 3804; 3805; 3805; 3805; 3805; 3806; 3806; 3806; 3806; 3803; 3803; 3803; 3803; 3804; 3804; 3804; 3804; 3805; 3805; 3805; 3805; 3806; 3806;
   3806; 3806; 3803; 3803; 3803; 3803; 3804; 3804; 3804; 3804; 3805; 3805; 3805; 3805; 3806; 3806; 3806; 3806; 3803; 3803; 3803; 3803; 3804; 3804;
   3804; 3804; 3805; 3805; 3805; 3805; 3806; 3806; 3806; 3806; 3803; 3803; 3803; 3803; 3804; 3804; 3804; 3804; 3805; 3805; 3805; 3805; 3806; 3806;
   3806; 3806; 3803; 3803; 3803; 3803; 3804; 3804; 3804; 3804; 3805; 3805; 3805; 3805; 3806; 3806; 3806; 3806; 3803; 3803; 3803; 3803; 3804; 3804;
   3804; 3804; 3805; 3805; 3805; 3805; 3806; 3806; 3806; 3806; 3803; 3803; 3803; 3803; 3804; 3804; 3804; 3804; 3805; 3805; 3805; 3805; 3806; 3806;
   3806; 3806; 3803; 3803; 3803; 3803; 3804; 3804; 3804; 3804; 3805; 3805; 3805; 3805; 3806; 3806; 3806; 3806; 3803; 3803; 3803; 3803; 3804; 3804;
   3804; 3804; 3805; 3805; 3805; 3805; 3806; 3806; 3806; 3806; 3803; 3803; 3803; 3803; 3804; 3804; 3804; 3804; 3805; 3805; 3805; 3805; 3806; 3806;
   3806; 3806; 3803; 3803; 3803; 3803; 3804; 3804; 3804; 3804; 3805; 3805; 3805; 3805; 3806; 3806; 3806; 3806; 3803; 3803; 3803; 3803; 3804; 3804;
   3804; 3804; 3805; 3805; 3805; 3805; 3806; 3806; 3806; 3806; 3803; 3803; 3803; 3803; 3804; 3804; 3804; 3804; 3805; 3805; 3805; 3805; 3806; 3806;
   3806; 3806; 3807; 3807; 3807; 3807; 3807; 3807; 3807; 3807; 3807; 3807; 3807; 3807; 3807; 3807; 3807; 3807; 3807; 3807; 3807; 3807; 3807; 3807;
   3807; 3807; 3807; 3807; 3807; 3807; 3807; 3807; 3807; 3807; 3807; 3807; 1; 1; 3808; 3808; 3809; 3809; 3810; 3810; 3811; 3811; 3812; 3812;
   3813; 3813; 3814; 3814; 3815; 3815; 3816; 3816; 3817; 3817; 3818; 3818; 3819; 3819; 3820; 3820; 3821; 3821; 3822; 3822; 3823; 3823; 3824; 3824;
   3825; 3825; 3826; 3826; 3827; 3827; 3828; 3828; 3829; 3829; 3830; 3830; 3831; 3831; 1; 141; 141; 142; 142; 1; 1; 24; 24; 25;
   25; 26; 26; 27; 27; 28; 28; 29; 29; 30; 30; 31; 31; 32; 32; 33; 33; 34; 34; 35; 35; 36; 36; 37;
   37; 38; 38; 39; 39; 40; 40; 41; 41; 42; 42; 43; 43; 44; 44; 36; 36; 25; 25; 38; 38; 27; 27; 45;
   45; 41; 41; 30; 30; 43; 43; 32; 32; 46; 46; 26; 26; 35; 35; 28; 28; 37; 37; 47; 47; 31; 31; 40;
   40; 33; 33; 42; 42; 3832; 3833; 3834; 3832; 3833; 3834; 0; 3835; 3836; 0; 3835; 3836; 3837; 3838; 3839; 3837; 3838; 3839; 3840;
   3841; 3842; 3840; 3841; 3842; 3843; 3844; 3845; 3843; 3844; 3845; 3846; 3847; 3848; 3846; 3847; 3848; 3849; 3850; 3851; 3849; 3850; 3851; 3852;
   3853; 3854; 3852; 3853; 3854; 3855; 3856; 3857; 3855; 3856; 3857; 3858; 3859; 3860; 3858; 3859; 3860; 3861; 3862; 3863; 3861; 3862; 3863; 3864;
   3865; 3866; 3864; 3865; 3866; 3867; 3868; 3869; 3867; 3868; 3869; 3870; 3871; 3872; 3870; 3871; 3872; 3873; 3874; 3875; 3873; 3874; 3875; 3876;
   3877; 3878; 3876; 3877; 3878; 3879; 3880; 3881; 3879; 3880; 3881; 3882; 3883; 3884; 3882; 3883; 3884; 3885; 3886; 3887; 3885; 3886; 3887; 3888;
   3889; 3890; 3888; 3889; 3890; 3891; 3892; 3893; 3891; 3892; 3893; 3894; 3895; 3896; 3894; 3895; 3896; 3897; 3898; 3899; 3897; 3898; 3899; 3900;
   3901; 3902; 3900; 3901; 3902; 3903; 3904; 3905; 3903; 3904; 3905; 3906; 3907; 3908; 3906; 3907; 3908; 3909; 3910; 3911; 3909; 3910; 3911; 3912;
   3913; 3914; 3912; 3913; 3914; 3915; 3916; 3917; 3915; 3916; 3917; 3918; 3919; 3920; 3918; 3919; 3920; 3921; 3922; 3923; 3921; 3922; 3923; 3924;
   3925; 3926; 3924; 3925; 3926; 3927; 3928; 3929; 3927; 3928; 3929; 3930; 3931; 3932; 3930; 3931; 3932; 3933; 3934; 3935; 3933; 3934; 3935; 3936;
   3937; 3938; 3936; 3937; 3938; 3939; 3940; 3941; 3939; 3940; 3941; 3942; 3943; 3944; 3942; 3943; 3944; 3945; 3946; 3947; 3945; 3946; 3947; 3948;
   3949; 3950; 3948; 3949; 3950; 3951; 3952; 3953; 3951; 3952; 3953; 3954; 3955; 3956; 3954; 3955; 3956; 3957; 3958; 3959; 3957; 3958; 3959; 3960;
   3961; 3962; 3960; 3961; 3962; 3963; 3964; 3965; 3963; 3964; 3965; 3966; 3967; 3968; 3966; 3967; 3968; 3969; 3970; 3971; 3969; 3970; 3971; 3972;
   3973; 3974; 3972; 3973; 3974; 3975; 3976; 3977; 3975; 3976; 3977; 3978; 3979; 3980; 3978; 3979; 3980; 3981; 3982; 3983; 3981; 3982; 3983; 3984;
   3985; 3986; 3984; 3985; 3986; 3987; 3988; 3989; 3987; 3988; 3989; 3990; 3991; 3992; 3990; 3991; 3992; 1; 141; 141; 142; 142; 1; 1;
   24; 24; 25; 25; 26; 26; 27; 27; 28; 28; 29; 29; 30; 30; 31; 31; 32; 32; 33; 33; 34; 34; 35; 35;
   36; 36; 37; 37; 38; 38; 39; 39; 40; 40; 41; 41; 42; 42; 43; 43; 44; 44; 36; 36; 25; 25; 38; 38;
   27; 27; 45; 45; 41; 41; 30; 30; 43; 43; 32; 32; 46; 46; 26; 26; 35; 35; 28; 28; 37; 37; 47; 47;
   31; 31; 40; 40; 33; 33; 42; 42; 3993; 3994; 3995; 3993; 3994; 3995; 0; 3996; 3997; 0; 3996; 3997; 3998; 3999; 4000; 3998;
   3999; 4000; 4001; 4002; 4003; 4001; 4002; 4003; 4004; 4005; 4006; 4004; 4005; 4006; 4007; 4008; 4009; 4007; 4008; 4009; 4010; 4011; 4012; 4010;
   4011; 4012; 4013; 4014; 4015; 4013; 4014; 4015; 4016; 4017; 4018; 4016; 4017; 4018; 4019; 4020; 4021; 4019; 4020; 4021; 4022; 4023; 4024; 4022;
   4023; 4024; 4025; 4026; 4027; 4025; 4026; 4027; 4028; 4029; 4030; 4028; 4029; 4030; 4031; 4032; 4033; 4031; 4032; 4033; 4034; 4035; 4036; 4034;
   4035; 4036; 4037; 4038; 4039; 4037; 4038; 4039; 4040; 4041; 4042; 4040; 4041; 4042; 4043; 4044; 4045; 4043; 4044; 4045; 4046; 4047; 4048; 4046;
   4047; 4048; 4049; 4050; 4051; 4049; 4050; 4051; 4052; 4053; 4054; 4052; 4053; 4054; 4055; 4056; 4057; 4055; 4056; 4057; 4058; 4059; 4060; 4058;
   4059; 4060; 4061; 4062; 4063; 4061; 4062; 4063; 4064; 4065; 4066; 4064; 4065; 4066; 4067; 4068; 4069; 4067; 4068; 4069; 4070; 4071; 4072; 4070;
   4071; 4072; 4073; 4074; 4075; 4073; 4074; 4075; 4076; 4077; 4078; 4076; 4077; 4078; 4079; 4080; 4081; 4079; 4080; 4081; 4082; 4083; 4084; 4082;
   4083; 4084; 4085; 4086; 4087; 4085; 4086; 4087; 4088; 4089; 4090; 4088; 4089; 4090; 4091; 4092; 4093; 4091; 4092; 4093; 4094; 4095; 4096; 4094;
   4095; 4096; 4097; 4098; 4099; 4097; 4098; 4099; 4100; 4101; 4102; 4100; 4101; 4102; 4103; 4104; 4105; 4103; 4104; 4105; 4106; 4107; 4108; 4106;
   4107; 4108; 4109; 4110; 4111; 4109; 4110; 4111; 4112; 4113; 4114; 4112; 4113; 4114; 4115; 4116; 4117; 4115; 4116; 4117; 4118; 4119; 4120; 4118;
   4119; 4120; 4121; 4122; 4123; 4121; 4122; 4123; 4124; 4125; 4126; 4124; 4125; 4126; 4127; 4128; 4129; 4127; 4128; 4129; 4130; 4131; 4132; 4130;
   4131; 4132; 4133; 4134; 4135; 4133; 4134; 4135; 4136; 4137; 4138; 4136; 4137; 4138; 4139; 4140; 4141; 4139; 4140; 4141; 4142; 4143; 4144; 4142;
   4143; 4144; 4145; 4146; 4147; 4145; 4146; 4147; 4148; 4149; 4150; 4148; 4149; 4150; 4151; 4152; 4153; 4151; 4152; 4153; 1; 1; 141; 141;
   142; 142; 1; 1; 24; 24; 25; 25; 26; 26; 27; 27; 28; 28; 29; 29; 30; 30; 31; 31; 32; 32; 33; 33;
   34; 34; 35; 35; 36; 36; 37; 37; 38; 38; 39; 39; 40; 40; 41; 41; 42; 42; 43; 43; 44; 44; 36; 36;
   25; 25; 38; 38; 27; 27; 45; 45; 41; 41; 30; 30; 43; 43; 32; 32; 46; 46; 26; 26; 35; 35; 28; 28;
   37; 37; 47; 47; 31; 31; 40; 40; 33; 33; 42; 42; 4154; 4155; 4156; 4154; 4155; 4156; 0; 4157; 4158; 0; 4157; 4158;
   4159; 4160; 4161; 4159; 4160; 4161; 4162; 4163; 4164; 4162; 4163; 4164; 4165; 4166; 4167; 4165; 4166; 4167; 4168; 4169; 4170; 4168; 4169; 4170;
   4171; 4172; 4173; 4171; 4172; 4173; 4174; 4175; 4176; 4174; 4175; 4176; 4177; 4178; 4179; 4177; 4178; 4179; 4180; 4181; 4182; 4180; 4181; 4182;
   4183; 4184; 4185; 4183; 4184; 4185; 4186; 4187; 4188; 4186; 4187; 4188; 4189; 4190; 4191; 4189; 4190; 4191; 4192; 4193; 4194; 4192; 4193; 4194;
   4195; 4196; 4197; 4195; 4196; 4197; 4198; 4199; 4200; 4198; 4199; 4200; 4201; 4202; 4203; 4201; 4202; 4203; 4204; 4205; 4206; 4204; 4205; 4206;
   4207; 4208; 4209; 4207; 4208; 4209; 4210; 4211; 4212; 4210; 4211; 4212; 4213; 4214; 4215; 4213; 4214; 4215; 4216; 4217; 4218; 4216; 4217; 4218;
   4219; 4220; 4221; 4219; 4220; 4221; 4222; 4223; 4224; 4222; 4223; 4224; 4225; 4226; 4227; 4225; 4226; 4227; 4228; 4229; 4230; 4228; 4229; 4230;
   4231; 4232; 4233; 4231; 4232; 4233; 4234; 4235; 4236; 4234; 4235; 4236; 4237; 4238; 4239; 4237; 4238; 4239; 4240; 4241; 4242; 4240; 4241; 4242;
   4243; 4244; 4245; 4243; 4244; 4245; 4246; 4247; 4248; 4246; 4247; 4248; 4249; 4250; 4251; 4249; 4250; 4251; 4252; 4253; 4254; 4252; 4253; 4254;
   4255; 4256; 4257; 4255; 4256; 4257; 4258; 4259; 4260; 4258; 4259; 4260; 4261; 4262; 4263; 4261; 4262; 4263; 4264; 4265; 4266; 4264; 4265; 4266;
   4267; 4268; 4269; 4267; 4268; 4269; 4270; 4271; 4272; 4270; 4271; 4272; 4273; 4274; 4275; 4273; 4274; 4275; 4276; 4277; 4278; 4276; 4277; 4278;
   4279; 4280; 4281; 4279; 4280; 4281; 4282; 4283; 4284; 4282; 4283; 4284; 4285; 4286; 4287; 4285; 4286; 4287; 4288; 4289; 4290; 4288; 4289; 4290;
   4291; 4292; 4293; 4291; 4292; 4293; 4294; 4295; 4296; 4294; 4295; 4296; 4297; 4298; 4299; 4297; 4298; 4299; 4300; 4301; 4302; 4300; 4301; 4302;
   4303; 4304; 4305; 4303; 4304; 4305; 4306; 4307; 4308; 4306; 4307; 4308; 4309; 4310; 4311; 4309; 4310; 4311; 4312; 4313; 4314; 4312; 4313; 4314;
   1; 1; 1; 0; 4315; 4315; 4315; 4315; 4315; 4315; 4315; 4315; 4315; 4315; 4315; 4315; 4315; 4315; 4315; 4315; 4315; 4315; 4315; 4315;
   4315; 4315; 4315; 4315; 4315; 4315; 4315; 4315; 4315; 4315; 4315; 4315; 4315; 4315; 4315; 4315; 4315; 4315; 4315; 4315; 4315; 4315; 4315; 4315;
   4315; 4315; 4315; 4315; 4315; 4315; 4315; 4315; 4315; 4315; 4315; 4315; 4315; 4315; 4315; 4315; 4315; 4315; 4315; 4315; 4315; 4315; 4315; 4315].
Definition STATE_SHAPES_13 : list Z :=
  [4315; 4315; 4315; 4315; 4315; 4315; 4315; 4315; 4315; 4315; 4315; 4315; 4315; 4315; 4315; 4315; 4315; 4315; 4315; 4315; 4315; 4315; 4315; 4315;
   4315; 4315; 4315; 4315; 4315; 4315; 4315; 4315; 4315; 4315; 4315; 4315; 4315; 4315; 4315; 4315; 4315; 4315; 4315; 4315; 4315; 4315; 4315; 4315;
   4315; 4315; 4315; 4315; 4315; 4315; 4315; 4315; 4315; 4315; 4315; 4315; 4315; 4315; 4315; 4315; 4315; 4315; 4315; 4315; 4315; 4315; 4315; 4315;
   4315; 4315; 4315; 4315; 4315; 4315; 4315; 4315; 4315; 4315; 4315; 4315; 4315; 4315; 4315; 4315; 4315; 4315; 4315; 4315; 4315; 4315; 4315; 4315;
   4315; 4315; 4315; 4315; 4315; 4315; 4315; 4315; 4315; 4315; 4315; 4315; 4315; 4315; 4315; 4315; 4315; 4315; 4315; 4315; 4315; 4315; 4315; 4315;
   4315; 4315; 4315; 4315; 4315; 4315; 4315; 4315; 4315; 4315; 4315; 4315; 4315; 4315; 4315; 4315; 4315; 4315; 4315; 4315; 4315; 4315; 4315; 4315;
   4315; 4315; 4315; 4315; 4315; 4315; 4315; 4315; 4315; 4315; 4315; 4315; 4315; 4315; 4315; 4315; 4315; 4315; 4315; 4315; 4315; 4315; 4315; 4315;
   4315; 4315; 4315; 4315; 4315; 4315; 4315; 4315; 4315; 4315; 4315; 4315; 4315; 4315; 4315; 4315; 4315; 4315; 4315; 4315; 4315; 4315; 4315; 4315;
   4315; 4315; 4315; 4315; 4315; 4315; 4315; 4315; 4315; 4315; 4315; 4315; 4315; 4315; 4315; 4315; 4315; 4315; 4315; 4315; 4315; 4315; 4315; 4315;
   4315; 4315; 4315; 4315; 4315; 4315; 4315; 4315; 4315; 4315; 4315; 4315; 4315; 4315; 4315; 4315; 4315; 4315; 4315; 4315; 4315; 4315; 4315; 4315;
   4315; 4315; 4315; 4315; 4315; 4315; 4315; 4315; 4315; 4315; 4315; 4315; 4315; 4315; 4315; 4315; 4315; 4315; 4315; 4315; 4315; 4315; 4315; 4315;
   4315; 4315; 4315; 4315; 4315; 4315; 4315; 4315; 4315; 4315; 4315; 4315; 4315; 4315; 4315; 4315; 4315; 4315; 4315; 4315; 4315; 4315; 4315; 4315;
   4315; 4315; 4315; 4315; 4315; 4315; 4315; 4315; 4315; 4315; 4315; 4315; 4315; 4315; 4315; 4315; 4315; 4315; 4315; 4315; 4315; 4315; 4315; 4315;
   4315; 4315; 4315; 4315; 4315; 4315; 4315; 4315; 4315; 4315; 4315; 4315; 4315; 4315; 4315; 4315; 4315; 4315; 4315; 4315; 4315; 4315; 4315; 4315;
   4315; 4315; 4315; 4315; 4315; 4315; 4315; 4315; 4315; 4315; 4315; 4315; 4315; 4315; 4315; 4315; 4315; 4315; 4315; 4315; 4315; 4315; 4315; 4315;
   4315; 4315; 4315; 4315; 4315; 4315; 4315; 4315; 4315; 4315; 4315; 4315; 4315; 4315; 4315; 4315; 4315; 4315; 4315; 4315; 4315; 4315; 4315; 4315;
   4315; 4315; 4315; 4315; 4315; 4315; 4315; 4315; 4315; 4315; 4315; 4315; 4315; 4315; 4315; 4315; 4315; 4315; 4315; 4315; 4315; 4315; 4315; 4315;
   4315; 4315; 4315; 4315; 1; 0; 0; 0; 0; 0; 0; 0; 0; 0; 0; 0; 0; 0; 0; 0; 0; 0; 0; 0;
   0; 0; 0; 0; 0; 0; 0; 0; 0; 0; 0; 0; 0; 0; 0; 0; 0; 0; 0; 0; 0; 0; 0; 0;
   0; 0; 0; 0; 0; 0; 0; 0; 0; 0; 0; 0; 0; 0; 0; 0; 0; 0; 0; 0; 0; 0; 0; 0;
   0; 0; 0; 0; 0; 0; 0; 0; 0; 0; 0; 0; 0; 0; 0; 0; 0; 0; 0; 0; 0; 0; 0; 0;
   0; 0; 0; 0; 0; 0; 0; 0; 0; 0; 0; 0; 0; 0; 0; 0; 0; 0; 0; 0; 0; 0; 0; 0;
   0; 0; 0; 0; 0; 0; 0; 0; 0; 0; 0; 0; 0; 1; 1; 4316; 4316; 4316; 4316; 4316; 4316; 4316; 4316; 1;
   1; 1; 1; 1; 1; 1; 1; 1; 1; 1; 1; 1; 1; 1; 1; 1; 1; 24; 24; 25; 25; 26; 26; 27;
   27; 28; 28; 29; 29; 30; 30; 31; 31; 32; 32; 33; 33; 34; 34; 35; 35; 36; 36; 37; 37; 38; 38; 39;
   39; 40; 40; 41; 41; 42; 42; 43; 43; 44; 44; 36; 36; 25; 25; 38; 38; 27; 27; 45; 45; 41; 41; 30;
   30; 43; 43; 32; 32; 46; 46; 26; 26; 35; 35; 28; 28; 37; 37; 47; 47; 31; 31; 40; 40; 33; 33; 42;
   42; 24; 24; 25; 25; 26; 26; 27; 27; 28; 28; 29; 29; 30; 30; 31; 31; 32; 32; 33; 33; 34; 34; 35;
   35; 36; 36; 37; 37; 38; 38; 39; 39; 40; 40; 41; 41; 42; 42; 43; 43; 44; 44; 36; 36; 25; 25; 38;
   38; 27; 27; 45; 45; 41; 41; 30; 30; 43; 43; 32; 32; 46; 46; 26; 26; 35; 35; 28; 28; 37; 37; 47;
   47; 31; 31; 40; 40; 33; 33; 42; 42; 24; 24; 25; 25; 26; 26; 27; 27; 28; 28; 29; 29; 30; 30; 31;
   31; 32; 32; 33; 33; 34; 34; 35; 35; 36; 36; 37; 37; 38; 38; 39; 39; 40; 40; 41; 41; 42; 42; 43;
   43; 44; 44; 36; 36; 25; 25; 38; 38; 27; 27; 45; 45; 41; 41; 30; 30; 43; 43; 32; 32; 46; 46; 26;
   26; 35; 35; 28; 28; 37; 37; 47; 47; 31; 31; 40; 40; 33; 33; 42; 42; 24; 24; 25; 25; 26; 26; 27;
   27; 28; 28; 29; 29; 30; 30; 31; 31; 32; 32; 33; 33; 34; 34; 35; 35; 36; 36; 37; 37; 38; 38; 39;
   39; 40; 40; 41; 41; 42; 42; 43; 43; 44; 44; 36; 36; 25; 25; 38; 38; 27; 27; 45; 45; 41; 41; 30;
   30; 43; 43; 32; 32; 46; 46; 26; 26; 35; 35; 28; 28; 37; 37; 47; 47; 31; 31; 40; 40; 33; 33; 42;
   42; 141; 141; 142; 142; 1; 1; 141; 141; 142; 142; 1; 1; 141; 141; 142; 142; 1; 1; 141; 141; 142; 142; 1;
   1; 1; 1; 1; 1; 1; 1; 1; 1; 24; 24; 25; 25; 26; 26; 27; 27; 28; 28; 29; 29; 30; 30; 31;
   31; 32; 32; 33; 33; 34; 34; 35; 35; 36; 36; 37; 37; 38; 38; 39; 39; 40; 40; 41; 41; 42; 42; 43;
   43; 44; 44; 36; 36; 25; 25; 38; 38; 27; 27; 45; 45; 41; 41; 30; 30; 43; 43; 32; 32; 46; 46; 26;
   26; 35; 35; 28; 28; 37; 37; 47; 47; 31; 31; 40; 40; 33; 33; 42; 42; 24; 24; 25; 25; 26; 26; 27;
   27; 28; 28; 29; 29; 30; 30; 31; 31; 32; 32; 33; 33; 34; 34; 35; 35; 36; 36; 37; 37; 38; 38; 39;
   39; 40; 40; 41; 41; 42; 42; 43; 43; 44; 44; 36; 36; 25; 25; 38; 38; 27; 27; 45; 45; 41; 41; 30;
   30; 43; 43; 32; 32; 46; 46; 26; 26; 35; 35; 28; 28; 37; 37; 47; 47; 31; 31; 40; 40; 33; 33; 42;
   42; 24; 24; 25; 25; 26; 26; 27; 27; 28; 28; 29; 29; 30; 30; 31; 31; 32; 32; 33; 33; 34; 34; 35;
   35; 36; 36; 37; 37; 38; 38; 39; 39; 40; 40; 41; 41; 42; 42; 43; 43; 44; 44; 36; 36; 25; 25; 38;
   38; 27; 27; 45; 45; 41; 41; 30; 30; 43; 43; 32; 32; 46; 46; 26; 26; 35; 35; 28; 28; 37; 37; 47;
   47; 31; 31; 40; 40; 33; 33; 42; 42; 24; 24; 25; 25; 26; 26; 27; 27; 28; 28; 29; 29; 30; 30; 31;
   31; 32; 32; 33; 33; 34; 34; 35; 35; 36; 36; 37; 37; 38; 38; 39; 39; 40; 40; 41; 41; 42; 42; 43;
   43; 44; 44; 36; 36; 25; 25; 38; 38; 27; 27; 45; 45; 41; 41; 30; 30; 43; 43; 32; 32; 46; 46; 26;
   26; 35; 35; 28; 28; 37; 37; 47; 47; 31; 31; 40; 40; 33; 33; 42; 42; 141; 141; 142; 142; 1; 1; 141;
   141; 142; 142; 1; 1; 141; 141; 142; 142; 1; 1; 141; 141; 142; 142; 1; 1; 54; 54; 55; 55; 56; 56; 55;
   55; 54; 54; 55; 55; 56; 56; 55; 55; 56; 56; 57; 57; 54; 54; 57; 57; 56; 56; 57; 57; 54; 54; 57;
   57; 55; 55; 56; 56; 57; 57; 56; 56; 55; 55; 56; 56; 57; 57; 56; 56; 57; 57; 54; 54; 55; 55; 54;
   54; 57; 57; 54; 54; 55; 55; 54; 54; 54; 54; 55; 55; 56; 56; 55; 55; 54; 54; 55; 55; 56; 56; 55;
   55; 56; 56; 57; 57; 54; 54; 57; 57; 56; 56; 57; 57; 54; 54; 57; 57; 55; 55; 56; 56; 57; 57; 56;
   56; 55; 55; 56; 56; 57; 57; 56; 56; 57; 57; 54; 54; 55; 55; 54; 54; 57; 57; 54; 54; 55; 55; 54;
   54; 54; 54; 55; 55; 56; 56; 55; 55; 54; 54; 55; 55; 56; 56; 55; 55; 56; 56; 57; 57; 54; 54; 57;
   57; 56; 56; 57; 57; 54; 54; 57; 57; 55; 55; 56; 56; 57; 57; 56; 56; 55; 55; 56; 56; 57; 57; 56;
   56; 57; 57; 54; 54; 55; 55; 54; 54; 57; 57; 54; 54; 55; 55; 54; 54; 54; 54; 55; 55; 56; 56; 55;
   55; 54; 54; 55; 55; 56; 56; 55; 55; 56; 56; 57; 57; 54; 54; 57; 57; 56; 56; 57; 57; 54; 54; 57;
   57; 55; 55; 56; 56; 57; 57; 56; 56; 55; 55; 56; 56; 57; 57; 56; 56; 57; 57; 54; 54; 55; 55; 54;
   54; 57; 57; 54; 54; 55; 55; 54; 54; 54; 54; 55; 55; 56; 56; 55; 55; 54; 54; 55; 55; 56; 56; 55;
   55; 56; 56; 57; 57; 54; 54; 57; 57; 56; 56; 57; 57; 54; 54; 57; 57; 55; 55; 56; 56; 57; 57; 56;
   56; 55; 55; 56; 56; 57; 57; 56; 56; 57; 57; 54; 54; 55; 55; 54; 54; 57; 57; 54; 54; 55; 55; 54;
   54; 54; 54; 55; 55; 56; 56; 55; 55; 54; 54; 55; 55; 56; 56; 55; 55; 56; 56; 57; 57; 54; 54; 57;
   57; 56; 56; 57; 57; 54; 54; 57; 57; 55; 55; 56; 56; 57; 57; 56; 56; 55; 55; 56; 56; 57; 57; 56;
   56; 57; 57; 54; 54; 55; 55; 54; 54; 57; 57; 54; 54; 55; 55; 54; 54; 54; 54; 55; 55; 56; 56; 55;
   55; 54; 54; 55; 55; 56; 56; 55; 55; 56; 56; 57; 57; 54; 54; 57; 57; 56; 56; 57; 57; 54; 54; 57;
   57; 55; 55; 56; 56; 57; 57; 56; 56; 55; 55; 56; 56; 57; 57; 56; 56; 57; 57; 54; 54; 55; 55; 54;
   54; 57; 57; 54; 54; 55; 55; 54; 54; 54; 54; 55; 55; 56; 56; 55; 55; 54; 54; 55; 55; 56; 56; 55;
   55; 56; 56; 57; 57; 54; 54; 57; 57; 56; 56; 57; 57; 54; 54; 57; 57; 55; 55; 56; 56; 57; 57; 56;
   56; 55; 55; 56; 56; 57; 57; 56; 56; 57; 57; 54; 54; 55; 55; 54; 54; 57; 57; 54; 54; 55; 55; 54;
   54; 97; 97; 97; 97; 98; 98; 98; 98; 97; 97; 97; 97; 99; 99; 99; 99; 100; 100; 100; 100; 98; 98; 98].
Definition STATE_SHAPES_14 : list Z :=
  [98; 100; 100; 100; 100; 99; 99; 99; 99; 101; 101; 101; 101; 98; 98; 98; 98; 101; 101; 101; 101; 99; 99; 99;
   99; 102; 102; 102; 102; 98; 98; 98; 98; 102; 102; 102; 102; 99; 99; 99; 99; 97; 97; 97; 97; 98; 98; 98;
   98; 97; 97; 97; 97; 99; 99; 99; 99; 100; 100; 100; 100; 98; 98; 98; 98; 100; 100; 100; 100; 99; 99; 99;
   99; 101; 101; 101; 101; 98; 98; 98; 98; 101; 101; 101; 101; 99; 99; 99; 99; 102; 102; 102; 102; 98; 98; 98;
   98; 102; 102; 102; 102; 99; 99; 99; 99; 97; 97; 97; 97; 98; 98; 98; 98; 97; 97; 97; 97; 99; 99; 99;
   99; 100; 100; 100; 100; 98; 98; 98; 98; 100; 100; 100; 100; 99; 99; 99; 99; 101; 101; 101; 101; 98; 98; 98;
   98; 101; 101; 101; 101; 99; 99; 99; 99; 102; 102; 102; 102; 98; 98; 98; 98; 102; 102; 102; 102; 99; 99; 99;
   99; 97; 97; 97; 97; 98; 98; 98; 98; 97; 97; 97; 97; 99; 99; 99; 99; 100; 100; 100; 100; 98; 98; 98;
   98; 100; 100; 100; 100; 99; 99; 99; 99; 101; 101; 101; 101; 98; 98; 98; 98; 101; 101; 101; 101; 99; 99; 99;
   99; 102; 102; 102; 102; 98; 98; 98; 98; 102; 102; 102; 102; 99; 99; 99; 99; 97; 97; 97; 97; 98; 98; 98;
   98; 97; 97; 97; 97; 99; 99; 99; 99; 100; 100; 100; 100; 98; 98; 98; 98; 100; 100; 100; 100; 99; 99; 99;
   99; 101; 101; 101; 101; 98; 98; 98; 98; 101; 101; 101; 101; 99; 99; 99; 99; 102; 102; 102; 102; 98; 98; 98;
   98; 102; 102; 102; 102; 99; 99; 99; 99; 97; 97; 97; 97; 98; 98; 98; 98; 97; 97; 97; 97; 99; 99; 99;
   99; 100; 100; 100; 100; 98; 98; 98; 98; 100; 100; 100; 100; 99; 99; 99; 99; 101; 101; 101; 101; 98; 98; 98;
   98; 101; 101; 101; 101; 99; 99; 99; 99; 102; 102; 102; 102; 98; 98; 98; 98; 102; 102; 102; 102; 99; 99; 99;
   99; 97; 97; 97; 97; 98; 98; 98; 98; 97; 97; 97; 97; 99; 99; 99; 99; 100; 100; 100; 100; 98; 98; 98;
   98; 100; 100; 100; 100; 99; 99; 99; 99; 101; 101; 101; 101; 98; 98; 98; 98; 101; 101; 101; 101; 99; 99; 99;
   99; 102; 102; 102; 102; 98; 98; 98; 98; 102; 102; 102; 102; 99; 99; 99; 99; 97; 97; 97; 97; 98; 98; 98;
   98; 97; 97; 97; 97; 99; 99; 99; 99; 100; 100; 100; 100; 98; 98; 98; 98; 100; 100; 100; 100; 99; 99; 99;
   99; 101; 101; 101; 101; 98; 98; 98; 98; 101; 101; 101; 101; 99; 99; 99; 99; 102; 102; 102; 102; 98; 98; 98;
   98; 102; 102; 102; 102; 99; 99; 99; 99; 1; 1; 1; 1; 1; 1; 1; 1; 1; 1; 1; 1; 1; 1; 1;
   1; 1; 1; 1; 1; 1; 1; 1; 1; 1; 1; 1; 1; 1; 1; 1; 1; 1; 1; 1; 1; 1; 1; 1;
   1; 1; 1; 1; 1; 1; 1; 1; 1; 1081; 1081; 1081; 1081; 1082; 1082; 1082; 1082; 1081; 1081; 1081; 1081; 1082; 1082; 1082;
   1082; 1083; 1083; 1083; 1083; 1083; 1083; 1083; 1083; 4317; 4318; 4319; 4320; 4321; 4322; 4323; 4324; 4325; 4326; 4327; 4328; 4329; 4330; 4331;
   4332; 4333; 4334; 4335; 4336; 1; 0; 0; 0; 0; 0; 0; 0; 0; 0; 0; 0; 0; 0; 0; 0; 0; 0; 0;
   0; 0; 0; 0; 0; 0; 0; 0; 0; 0; 0; 0; 0; 0; 0; 0; 0; 0; 0; 0; 0; 0; 0; 0;
   0; 0; 0; 0; 0; 0; 0; 0; 0; 0; 0; 0; 0; 4337; 4337; 936; 0; 0; 0; 0; 0; 0; 0; 0;
   0; 0; 0; 0; 0; 0; 0; 0; 1; 4338; 4338; 4339; 4339; 4340; 4340; 0; 0; 4338; 4338; 4339; 4339; 4340; 4340; 0;
   0; 4338; 4338; 4339; 4339; 4340; 4340; 0; 0; 4338; 4338; 4339; 4339; 4340; 4340; 0; 0; 0; 0; 0; 0; 0; 0; 0;
   0; 0; 0; 0; 0; 0; 0; 0; 0; 0; 0; 0; 0; 0; 0; 0; 0; 0; 0; 1; 4341; 1; 1; 1;
   1; 24; 24; 25; 25; 26; 26; 27; 27; 28; 28; 29; 29; 30; 30; 31; 31; 32; 32; 33; 33; 34; 34; 35;
   35; 36; 36; 37; 37; 38; 38; 39; 39; 40; 40; 41; 41; 42; 42; 43; 43; 44; 44; 36; 36; 25; 25; 38;
   38; 27; 27; 45; 45; 41; 41; 30; 30; 43; 43; 32; 32; 46; 46; 26; 26; 35; 35; 28; 28; 37; 37; 47;
   47; 31; 31; 40; 40; 33; 33; 42; 42; 141; 141; 142; 142; 1; 1; 4342; 4343; 4344; 4342; 4343; 4344; 0; 4345; 4346;
   0; 4345; 4346; 4347; 4348; 4349; 4347; 4348; 4349; 4350; 4351; 4352; 4350; 4351; 4352; 4353; 4354; 4355; 4353; 4354; 4355; 4356; 4357; 4358;
   4356; 4357; 4358; 4359; 4360; 4361; 4359; 4360; 4361; 4362; 4363; 4364; 4362; 4363; 4364; 4365; 4366; 4367; 4365; 4366; 4367; 4368; 4369; 4370;
   4368; 4369; 4370; 4371; 4372; 4373; 4371; 4372; 4373; 4374; 4375; 4376; 4374; 4375; 4376; 4377; 4378; 4379; 4377; 4378; 4379; 4380; 4381; 4382;
   4380; 4381; 4382; 4383; 4384; 4385; 4383; 4384; 4385; 4386; 4387; 4388; 4386; 4387; 4388; 4389; 4390; 4391; 4389; 4390; 4391; 4392; 4393; 4394;
   4392; 4393; 4394; 4395; 4396; 4397; 4395; 4396; 4397; 4398; 4399; 4400; 4398; 4399; 4400; 4401; 4402; 4403; 4401; 4402; 4403; 4404; 4405; 4406;
   4404; 4405; 4406; 4407; 4408; 4409; 4407; 4408; 4409; 4410; 4411; 4412; 4410; 4411; 4412; 4413; 4414; 4415; 4413; 4414; 4415; 4416; 4417; 4418;
   4416; 4417; 4418; 4419; 4420; 4421; 4419; 4420; 4421; 4422; 4423; 4424; 4422; 4423; 4424; 4425; 4426; 4427; 4425; 4426; 4427; 4428; 4429; 4430;
   4428; 4429; 4430; 4431; 4432; 4433; 4431; 4432; 4433; 4434; 4435; 4436; 4434; 4435; 4436; 4437; 4438; 4439; 4437; 4438; 4439; 4440; 4441; 4442;
   4440; 4441; 4442; 4443; 4444; 4445; 4443; 4444; 4445; 4446; 4447; 4448; 4446; 4447; 4448; 4449; 4450; 4451; 4449; 4450; 4451; 4452; 4453; 4454;
   4452; 4453; 4454; 4455; 4456; 4457; 4455; 4456; 4457; 4458; 4459; 4460; 4458; 4459; 4460; 4461; 4462; 4463; 4461; 4462; 4463; 4464; 4465; 4466;
   4464; 4465; 4466; 4467; 4468; 4469; 4467; 4468; 4469; 4470; 4471; 4472; 4470; 4471; 4472; 4473; 4474; 4475; 4473; 4474; 4475; 4476; 4477; 4478;
   4476; 4477; 4478; 4479; 4480; 4481; 4479; 4480; 4481; 4482; 4483; 4484; 4482; 4483; 4484; 4485; 4486; 4487; 4485; 4486; 4487; 4488; 4489; 4490;
   4488; 4489; 4490; 4491; 4492; 4493; 4491; 4492; 4493; 4494; 4495; 4496; 4494; 4495; 4496; 4497; 4498; 4499; 4497; 4498; 4499; 4500; 4501; 4502;
   4500; 4501; 4502; 1; 24; 24; 25; 25; 26; 26; 27; 27; 28; 28; 29; 29; 30; 30; 31; 31; 32; 32; 33; 33;
   34; 34; 35; 35; 36; 36; 37; 37; 38; 38; 39; 39; 40; 40; 41; 41; 42; 42; 43; 43; 44; 44; 36; 36;
   25; 25; 38; 38; 27; 27; 45; 45; 41; 41; 30; 30; 43; 43; 32; 32; 46; 46; 26; 26; 35; 35; 28; 28;
   37; 37; 47; 47; 31; 31; 40; 40; 33; 33; 42; 42; 141; 141; 142; 142; 1; 1; 4503; 4504; 4505; 4503; 4504; 4505;
   0; 4506; 4507; 0; 4506; 4507; 4508; 4509; 4510; 4508; 4509; 4510; 4511; 4512; 4513; 4511; 4512; 4513; 4514; 4515; 4516; 4514; 4515; 4516;
   4517; 4518; 4519; 4517; 4518; 4519; 4520; 4521; 4522; 4520; 4521; 4522; 4523; 4524; 4525; 4523; 4524; 4525; 4526; 4527; 4528; 4526; 4527; 4528;
   4529; 4530; 4531; 4529; 4530; 4531; 4532; 4533; 4534; 4532; 4533; 4534; 4535; 4536; 4537; 4535; 4536; 4537; 4538; 4539; 4540; 4538; 4539; 4540;
   4541; 4542; 4543; 4541; 4542; 4543; 4544; 4545; 4546; 4544; 4545; 4546; 4547; 4548; 4549; 4547; 4548; 4549; 4550; 4551; 4552; 4550; 4551; 4552;
   4553; 4554; 4555; 4553; 4554; 4555; 4556; 4557; 4558; 4556; 4557; 4558; 4559; 4560; 4561; 4559; 4560; 4561; 4562; 4563; 4564; 4562; 4563; 4564;
   4565; 4566; 4567; 4565; 4566; 4567; 4568; 4569; 4570; 4568; 4569; 4570; 4571; 4572; 4573; 4571; 4572; 4573; 4574; 4575; 4576; 4574; 4575; 4576;
   4577; 4578; 4579; 4577; 4578; 4579; 4580; 4581; 4582; 4580; 4581; 4582; 4583; 4584; 4585; 4583; 4584; 4585; 4586; 4587; 4588; 4586; 4587; 4588;
   4589; 4590; 4591; 4589; 4590; 4591; 4592; 4593; 4594; 4592; 4593; 4594; 4595; 4596; 4597; 4595; 4596; 4597; 4598; 4599; 4600; 4598; 4599; 4600;
   4601; 4602; 4603; 4601; 4602; 4603; 4604; 4605; 4606; 4604; 4605; 4606; 4607; 4608; 4609; 4607; 4608; 4609; 4610; 4611; 4612; 4610; 4611; 4612;
   4613; 4614; 4615; 4613; 4614; 4615; 4616; 4617; 4618; 4616; 4617; 4618; 4619; 4620; 4621; 4619; 4620; 4621; 4622; 4623; 4624; 4622; 4623; 4624;
   4625; 4626; 4627; 4625; 4626; 4627; 4628; 4629; 4630; 4628; 4629; 4630; 4631; 4632; 4633; 4631; 4632; 4633; 4634; 4635; 4636; 4634; 4635; 4636;
   4637; 4638; 4639; 4637; 4638; 4639; 4640; 4641; 4642; 4640; 4641; 4642; 4643; 4644; 4645; 4643; 4644; 4645; 4646; 4647; 4648; 4646; 4647; 4648;
   4649; 4650; 4651; 4649; 4650; 4651; 4652; 4653; 4654; 4652; 4653; 4654; 4655; 4656; 4657; 4655; 4656; 4657; 4658; 4659; 4660; 4658; 4659; 4660;
   4661; 4662; 4663; 4661; 4662; 4663; 1; 24; 24; 25; 25; 26; 26; 27; 27; 28; 28; 29; 29; 30; 30; 31; 31; 32;
   32; 33; 33; 34; 34; 35; 35; 36; 36; 37; 37; 38; 38; 39; 39; 40; 40; 41; 41; 42; 42; 43; 43; 44;
   44; 36; 36; 25; 25; 38; 38; 27; 27; 45; 45; 41; 41; 30; 30; 43; 43; 32; 32; 46; 46; 26; 26; 35;
   35; 28; 28; 37; 37; 47; 47; 31; 31; 40; 40; 33; 33; 42; 42; 141; 141; 142; 142; 1; 1; 4664; 4665; 4666;
   4664; 4665; 4666; 0; 4667; 4668; 0; 4667; 4668; 4669; 4670; 4671; 4669; 4670; 4671; 4672; 4673; 4674; 4672; 4673; 4674; 4675; 4676; 4677;
   4675; 4676; 4677; 4678; 4679; 4680; 4678; 4679; 4680; 4681; 4682; 4683; 4681; 4682; 4683; 4684; 4685; 4686; 4684; 4685; 4686; 4687; 4688; 4689;
   4687; 4688; 4689; 4690; 4691; 4692; 4690; 4691; 4692; 4693; 4694; 4695; 4693; 4694; 4695; 4696; 4697; 4698; 4696; 4697; 4698; 4699; 4700; 4701;
   4699; 4700; 4701; 4702; 4703; 4704; 4702; 4703; 4704; 4705; 4706; 4707; 4705; 4706; 4707; 4708; 4709; 4710; 4708; 4709; 4710; 4711; 4712; 4713;
   4711; 4712; 4713; 4714; 4715; 4716; 4714; 4715; 4716; 4717; 4718; 4719; 4717; 4718; 4719; 4720; 4721; 4722; 4720; 4721; 4722; 4723; 4724; 4725;
   4723; 4724; 4725; 4726; 4727; 4728; 4726; 4727; 4728; 4729; 4730; 4731; 4729; 4730; 4731; 4732; 4733; 4734; 4732; 4733; 4734; 4735; 4736; 4737;
   4735; 4736; 4737; 4738; 4739; 4740; 4738; 4739; 4740; 4741; 4742; 4743; 4741; 4742; 4743; 4744; 4745; 4746; 4744; 4745; 4746; 4747; 4748; 4749].
Definition STATE_SHAPES_15 : list Z :=
  [4747; 4748; 4749; 4750; 4751; 4752; 4750; 4751; 4752; 4753; 4754; 4755; 4753; 4754; 4755; 4756; 4757; 4758; 4756; 4757; 4758; 4759; 4760; 4761;
   4759; 4760; 4761; 4762; 4763; 4764; 4762; 4763; 4764; 4765; 4766; 4767; 4765; 4766; 4767; 4768; 4769; 4770; 4768; 4769; 4770; 4771; 4772; 4773;
   4771; 4772; 4773; 4774; 4775; 4776; 4774; 4775; 4776; 4777; 4778; 4779; 4777; 4778; 4779; 4780; 4781; 4782; 4780; 4781; 4782; 4783; 4784; 4785;
   4783; 4784; 4785; 4786; 4787; 4788; 4786; 4787; 4788; 4789; 4790; 4791; 4789; 4790; 4791; 4792; 4793; 4794; 4792; 4793; 4794; 4795; 4796; 4797;
   4795; 4796; 4797; 4798; 4799; 4800; 4798; 4799; 4800; 4801; 4802; 4803; 4801; 4802; 4803; 4804; 4805; 4806; 4804; 4805; 4806; 4807; 4808; 4809;
   4807; 4808; 4809; 4810; 4811; 4812; 4810; 4811; 4812; 4813; 4814; 4815; 4813; 4814; 4815; 4816; 4817; 4818; 4816; 4817; 4818; 4819; 4820; 4821;
   4819; 4820; 4821; 4822; 4823; 4824; 4822; 4823; 4824; 1; 24; 24; 25; 25; 26; 26; 27; 27; 28; 28; 29; 29; 30; 30;
   31; 31; 32; 32; 33; 33; 34; 34; 35; 35; 36; 36; 37; 37; 38; 38; 39; 39; 40; 40; 41; 41; 42; 42;
   43; 43; 44; 44; 36; 36; 25; 25; 38; 38; 27; 27; 45; 45; 41; 41; 30; 30; 43; 43; 32; 32; 46; 46;
   26; 26; 35; 35; 28; 28; 37; 37; 47; 47; 31; 31; 40; 40; 33; 33; 42; 42; 141; 141; 142; 142; 1; 1;
   4825; 4826; 4827; 4825; 4826; 4827; 0; 4828; 4829; 0; 4828; 4829; 4830; 4831; 4832; 4830; 4831; 4832; 4833; 4834; 4835; 4833; 4834; 4835;
   4836; 4837; 4838; 4836; 4837; 4838; 4839; 4840; 4841; 4839; 4840; 4841; 4842; 4843; 4844; 4842; 4843; 4844; 4845; 4846; 4847; 4845; 4846; 4847;
   4848; 4849; 4850; 4848; 4849; 4850; 4851; 4852; 4853; 4851; 4852; 4853; 4854; 4855; 4856; 4854; 4855; 4856; 4857; 4858; 4859; 4857; 4858; 4859;
   4860; 4861; 4862; 4860; 4861; 4862; 4863; 4864; 4865; 4863; 4864; 4865; 4866; 4867; 4868; 4866; 4867; 4868; 4869; 4870; 4871; 4869; 4870; 4871;
   4872; 4873; 4874; 4872; 4873; 4874; 4875; 4876; 4877; 4875; 4876; 4877; 4878; 4879; 4880; 4878; 4879; 4880; 4881; 4882; 4883; 4881; 4882; 4883;
   4884; 4885; 4886; 4884; 4885; 4886; 4887; 4888; 4889; 4887; 4888; 4889; 4890; 4891; 4892; 4890; 4891; 4892; 4893; 4894; 4895; 4893; 4894; 4895;
   4896; 4897; 4898; 4896; 4897; 4898; 4899; 4900; 4901; 4899; 4900; 4901; 4902; 4903; 4904; 4902; 4903; 4904; 4905; 4906; 4907; 4905; 4906; 4907;
   4908; 4909; 4910; 4908; 4909; 4910; 4911; 4912; 4913; 4911; 4912; 4913; 4914; 4915; 4916; 4914; 4915; 4916; 4917; 4918; 4919; 4917; 4918; 4919;
   4920; 4921; 4922; 4920; 4921; 4922; 4923; 4924; 4925; 4923; 4924; 4925; 4926; 4927; 4928; 4926; 4927; 4928; 4929; 4930; 4931; 4929; 4930; 4931;
   4932; 4933; 4934; 4932; 4933; 4934; 4935; 4936; 4937; 4935; 4936; 4937; 4938; 4939; 4940; 4938; 4939; 4940; 4941; 4942; 4943; 4941; 4942; 4943;
   4944; 4945; 4946; 4944; 4945; 4946; 4947; 4948; 4949; 4947; 4948; 4949; 4950; 4951; 4952; 4950; 4951; 4952; 4953; 4954; 4955; 4953; 4954; 4955;
   4956; 4957; 4958; 4956; 4957; 4958; 4959; 4960; 4961; 4959; 4960; 4961; 4962; 4963; 4964; 4962; 4963; 4964; 4965; 4966; 4967; 4965; 4966; 4967;
   4968; 4969; 4970; 4968; 4969; 4970; 4971; 4972; 4973; 4971; 4972; 4973; 4974; 4975; 4976; 4974; 4975; 4976; 4977; 4978; 4979; 4977; 4978; 4979;
   4980; 4981; 4982; 4980; 4981; 4982; 4983; 4984; 4985; 4983; 4984; 4985; 1; 1; 1; 1; 1; 1; 1; 1; 1; 1; 661; 661;
   1; 1; 1; 1; 1; 1; 1; 1; 1; 0; 1; 4986; 4986; 4986; 4986; 4986; 4986; 4986; 4986; 4986; 4986; 4986; 4986; 4986;
   4986; 4986; 4986; 1; 1; 1; 1; 1; 1; 1; 1; 1; 1; 1; 1; 1; 1; 1; 1; 1; 1; 1; 1; 1;
   1; 1; 1; 1; 1; 1; 1; 1; 1; 1; 1; 1; 1; 1; 1; 1; 1; 1; 1; 1; 1; 1; 1; 1;
   1; 1; 1; 1; 1; 1; 1; 1; 1; 1; 1; 1; 1; 1; 1; 1; 1; 1; 1; 1; 1; 1; 1; 1;
   1; 1; 1; 1; 1; 1; 1; 1; 1; 1; 1; 1; 1; 1; 1; 1; 1; 1; 1; 1; 1; 1; 1; 4987;
   4987; 1; 4988; 4988; 4988; 4988; 4988; 4988; 4988; 4988; 4988; 4988; 4988; 4988; 4988; 4988; 4988; 4988; 4988; 4988; 4988; 4988; 4988; 4988;
   4988; 4988; 4988; 4988; 4988; 4988; 4988; 4988; 4988; 4988; 4988; 4988; 4988; 4988; 4988; 4988; 4988; 4988; 4988; 4988; 4988; 4988; 4988; 4988;
   4988; 4988; 4988; 4988; 4988; 4988; 4988; 4988; 4988; 4988; 4988; 4988; 4988; 4988; 4988; 4988; 4988; 4988; 4988; 4988; 4988; 4988; 4988; 4988;
   4988; 4988; 4988; 4988; 4988; 4988; 4988; 4988; 4988; 4988; 4988; 0; 0; 0; 0; 0; 0; 0; 0; 0; 0; 0; 0; 0;
   0; 0; 0; 0; 0; 0; 0; 0; 0; 0; 0; 0; 0; 0; 0; 0; 0; 0; 0; 0; 0; 0; 0; 0;
   0; 0; 0; 0; 0; 0; 0; 0; 0; 0; 0; 0; 0; 0; 0; 0; 0; 0; 0; 0; 0; 0; 0; 0;
   0; 0; 0; 0; 0; 0; 0; 0; 0; 0; 0; 0; 0; 0; 0; 0; 0; 0; 0; 0; 0; 0; 0; 0;
   661; 661].
Definition STATE_SHAPES_all : list Z :=
  STATE_SHAPES_0 ++ STATE_SHAPES_1 ++ STATE_SHAPES_2 ++ STATE_SHAPES_3 ++ STATE_SHAPES_4 ++ STATE_SHAPES_5
  ++ STATE_SHAPES_6 ++ STATE_SHAPES_7 ++ STATE_SHAPES_8 ++ STATE_SHAPES_9 ++ STATE_SHAPES_10 ++ STATE_SHAPES_11
  ++ STATE_SHAPES_12 ++ STATE_SHAPES_13 ++ STATE_SHAPES_14 ++ STATE_SHAPES_15.

Definition FRICTION_OVERRIDES_0 : list (Z * Z * Z) :=
  [(5949, 5949, s_lit 98 2);
   (11243, 11243, s_lit 8 1);
   (11625, 11625, s_lit 98 2);
   (13552, 13555, s_lit 98 2);
   (13954, 13954, s_lit 989 3)].
Definition FRICTION_OVERRIDES_all : list (Z * Z * Z) :=
  FRICTION_OVERRIDES_0.

Definition tables : CollisionData :=
  mkCollisionData FRICTION_OVERRIDES_all STATE_SHAPES_all SHAPE_RANGES_all SHAPE_BOXES_all.
