(* ===== verification/Control.v ===== *)
(** * Bot commands and the controller

    [src/minecraft/control.rs]: the commands a caller can send, the check
    every command passes before it is queued, and the controller that folds
    them into held keys.  Steering and random looks act on the player and are
    in [Steering]; a float is its bits. *)

From S2P Require Import Prelude Machine Float Reader Utf8 Buffer Inventory.

Local Open Scope Z_scope.

(** ** Commands *)

Definition MAX_CHAT_UTF16_UNITS : Z := 256.

Inductive Hand : Type := HandMain | HandOff.

Definition hand_wire_value (h : Hand) : Z := match h with HandMain => 0 | HandOff => 1 end.

Inductive DigAction : Type := DigStart | DigCancel | DigFinish.

Record MovementInput : Type := mkInput {
  forward : Z;
  strafe : Z;
  jump : bool;
  sprint : bool;
  sneak : bool;
}.

Definition input_default : MovementInput := mkInput f32_zero f32_zero false false false.

Record BlockPlacement : Type := mkPlacement {
  bp_x : Z;
  bp_y : Z;
  bp_z : Z;
  bp_face : Z;
  bp_hand : Hand;
  cursor_x : Z;
  cursor_y : Z;
  cursor_z : Z;
  inside_block : bool;
}.

(** Durations are nanoseconds. *)
Record RandomLookConfig : Type := mkRandomLook {
  min_interval : Z;
  max_interval : Z;
  max_yaw_delta : Z;
  min_pitch : Z;
  max_pitch : Z;
  look_seed : option Z;
}.

Inductive ActionValidationError : Type :=
  | EmptyChat
  | EmptyCommand
  | ChatStartsWithSlash
  | CommandStartsWithSlash
  | ChatTooLong (actual max : Z)
  | CommandTooLong (actual max : Z)
  | RandomLookNonFinite
  | RandomLookIntervalOrder
  | RandomLookPitchOrder
  | RandomLookNegativeYawDelta
  | HotbarSlotOutOfRange (slot : Z)
  | BlockFaceOutOfRange (face : Z)
  | BlockCursorOutOfRange (value : Z).

Inductive BotCommand : Type :=
  | SetInput (input : MovementInput)
  | Look (yaw pitch : Z)
  | WalkTo (x z : Z)
  | Sprint (on : bool)
  | Sneak (on : bool)
  | Jump (on : bool)
  | Forward (on : bool)
  | Backward (on : bool)
  | StrafeLeft (on : bool)
  | StrafeRight (on : bool)
  | SetRandomLook (config : option RandomLookConfig)
  | Chat (message : string)
  | Command (command : string)
  | InventoryClickCommand (request : InventoryClickRequest)
  | UseItem (hand : Hand)
  | Swing (hand : Hand)
  | SelectHotbarSlot (slot : Z)
  | UseItemOnBlock (placement : BlockPlacement)
  | InteractEntity (entity_id : Z) (hand : Hand) (sneaking : bool)
  | AttackEntity (entity_id : Z) (sneaking : bool)
  | InteractAtEntity (entity_id : Z) (hand : Hand) (sneaking : bool) (x y z : Z)
  | ReleaseItem
  | DigBlock (x y z face : Z) (action : DigAction)
  | DropItem (whole_stack : bool)
  | SwapHands
  | CloseGui
  | Stop.

(** ** Validation *)

(** [encode_utf16().count()] from the UTF-8 bytes: a character of four bytes
    is two units, any other one; continuation bytes start none. *)
Definition utf16_units_of (b : byte) : Z := if is_cont b then 0 else if 240 <=? u8 b then 2 else 1.
Definition utf16_count (bs : list byte) : Z := foldr Z.add 0 (map utf16_units_of bs).

Definition starts_with_slash (s : string) : bool :=
  match bytes_of s with b :: _ => bool_decide (b = x2f) | [] => false end.

(** [validate_chat] and [validate_command], which differ in their errors. *)
Definition validate_text (empty slash : ActionValidationError) (long : Z → Z → ActionValidationError) (s : string) :
    result ActionValidationError unit :=
  if bool_decide (bytes_of s = []) then Err empty
  else if starts_with_slash s then Err slash
  else
    let actual := utf16_count (bytes_of s) in
    if MAX_CHAT_UTF16_UNITS <? actual then Err (long actual MAX_CHAT_UTF16_UNITS) else Ok tt.

Definition validate_chat : string → result ActionValidationError unit :=
  validate_text EmptyChat ChatStartsWithSlash ChatTooLong.
Definition validate_command : string → result ActionValidationError unit :=
  validate_text EmptyCommand CommandStartsWithSlash CommandTooLong.

Definition cursor_ok (value : Z) : bool :=
  f32_is_finite value && f32_le f32_zero value && f32_le value f32_one.

(** [for value in [...] { if bad { return Err } }]. *)
Fixpoint validate_cursors (values : list Z) : result ActionValidationError unit :=
  match values with
  | [] => Ok tt
  | v :: values => if cursor_ok v then validate_cursors values else Err (BlockCursorOutOfRange v)
  end.

Definition validate_placement (p : BlockPlacement) : result ActionValidationError unit :=
  if negb (within 0 5 (bp_face p)) then Err (BlockFaceOutOfRange (bp_face p))
  else validate_cursors [cursor_x p; cursor_y p; cursor_z p].

Definition validate_random_look (c : RandomLookConfig) : result ActionValidationError unit :=
  if negb (f32_is_finite (max_yaw_delta c)) || negb (f32_is_finite (min_pitch c)) || negb (f32_is_finite (max_pitch c))
  then Err RandomLookNonFinite
  else if max_interval c <? min_interval c then Err RandomLookIntervalOrder
  else if f32_lt (max_pitch c) (min_pitch c) then Err RandomLookPitchOrder
  else if f32_lt (max_yaw_delta c) f32_zero then Err RandomLookNegativeYawDelta
  else Ok tt.

Definition validate (c : BotCommand) : result ActionValidationError unit :=
  match c with
  | Chat message => validate_chat message
  | Command command => validate_command command
  | SetRandomLook (Some config) => validate_random_look config
  | SelectHotbarSlot slot => if within 0 8 slot then Ok tt else Err (HotbarSlotOutOfRange slot)
  | UseItemOnBlock placement => validate_placement placement
  | DigBlock _ _ _ face _ => if within 0 5 face then Ok tt else Err (BlockFaceOutOfRange face)
  | _ => Ok tt
  end.

(** ** The controller *)

(** The random generator is the [rand] crate's: a type, its two seedings and
    a draw from an inclusive range. *)
Section controller.
Context {Rng : Type} (seed_from_u64 : Z → Rng) (from_entropy : Rng) (gen_range : Z → Z → Rng → Z * Rng).

Record RandomLookRuntime : Type := mkLookRuntime {
  look_config : RandomLookConfig;
  look_rng : Rng;
  ticks_until_next : Z;
}.

Record Controller : Type := mkController {
  manual : MovementInput;
  goal : option (Z * Z);
  held_forward : bool;
  held_backward : bool;
  held_left : bool;
  held_right : bool;
  random_look : option RandomLookRuntime;
}.

Definition controller_default : Controller := mkController input_default None false false false false None.

Definition tick_ms : Z := 50.

Definition random_interval_ticks (c : RandomLookConfig) (rng : Rng) : Z * Rng :=
  let min_ms := Z.max (wrap 64 (min_interval c / 1000000)) tick_ms in
  let max_ms := Z.max (wrap 64 (max_interval c / 1000000)) min_ms in
  let '(interval_ms, rng) := if min_ms <? max_ms then gen_range min_ms max_ms rng else (min_ms, rng) in
  (wrap 32 (Z.max (interval_ms / tick_ms) 1), rng).

Definition set_random_look (config : option RandomLookConfig) (c : Controller) : Controller :=
  let runtime :=
    config ← config;
    let rng := match look_seed config with Some seed => seed_from_u64 seed | None => from_entropy end in
    let '(ticks, rng) := random_interval_ticks config rng in
    Some (mkLookRuntime config rng ticks) in
  mkController (manual c) (goal c) (held_forward c) (held_backward c) (held_left c) (held_right c) runtime.

(** The impulse of two opposite keys. *)
Definition impulse (positive negative : bool) : Z :=
  match positive, negative with
  | true, false => f32_one
  | false, true => f32_minus_one
  | _, _ => f32_zero
  end.

Definition set_manual (i : MovementInput) (c : Controller) : Controller :=
  mkController i (goal c) (held_forward c) (held_backward c) (held_left c) (held_right c) (random_look c).

Definition set_goal (g : option (Z * Z)) (c : Controller) : Controller :=
  mkController (manual c) g (held_forward c) (held_backward c) (held_left c) (held_right c) (random_look c).

Definition set_held (f b l r : bool) (c : Controller) : Controller :=
  mkController (manual c) (goal c) f b l r (random_look c).

Definition recompute_forward (c : Controller) : Controller :=
  let i := manual c in
  set_manual (mkInput (impulse (held_forward c) (held_backward c)) (strafe i) (jump i) (sprint i) (sneak i)) c.

Definition recompute_strafe (c : Controller) : Controller :=
  let i := manual c in
  set_manual (mkInput (forward i) (impulse (held_left c) (held_right c)) (jump i) (sprint i) (sneak i)) c.

Definition controller_apply (command : BotCommand) (c : Controller) : Controller :=
  let i := manual c in
  match command with
  | SetInput input =>
      set_held (f32_lt f32_zero (forward input)) (f32_lt (forward input) f32_zero)
        (f32_lt f32_zero (strafe input)) (f32_lt (strafe input) f32_zero) (set_manual input c)
  | Look _ _ => c
  | WalkTo x z => set_goal (Some (x, z)) c
  | Sprint on => set_manual (mkInput (forward i) (strafe i) (jump i) on (sneak i)) c
  | Sneak on => set_manual (mkInput (forward i) (strafe i) (jump i) (sprint i) on) c
  | Jump on => set_manual (mkInput (forward i) (strafe i) on (sprint i) (sneak i)) c
  | Forward on => recompute_forward (set_held on (held_backward c) (held_left c) (held_right c) c)
  | Backward on => recompute_forward (set_held (held_forward c) on (held_left c) (held_right c) c)
  | StrafeLeft on => recompute_strafe (set_held (held_forward c) (held_backward c) on (held_right c) c)
  | StrafeRight on => recompute_strafe (set_held (held_forward c) (held_backward c) (held_left c) on c)
  | SetRandomLook config => set_random_look config c
  | Chat _ | Command _ | InventoryClickCommand _ | UseItem _ | Swing _ | SelectHotbarSlot _ | UseItemOnBlock _
  | InteractEntity _ _ _ | AttackEntity _ _ | InteractAtEntity _ _ _ _ _ _ | ReleaseItem | DigBlock _ _ _ _ _
  | DropItem _ | SwapHands | CloseGui => c
  | Stop => set_held false false false false (set_manual input_default (set_goal None c))
  end.

Definition has_goal (c : Controller) : bool := bool_decide (is_Some (goal c)).

(** ** Held keys and impulses *)

(** The sign of an impulse is the one of the keys held. *)
Definition axis_ok (impulse : Z) (positive negative : bool) : Prop :=
  f32_lt f32_zero impulse = positive && negb negative ∧ f32_lt impulse f32_zero = negative && negb positive.

Definition keys_ok (c : Controller) : Prop :=
  axis_ok (forward (manual c)) (held_forward c) (held_backward c)
  ∧ axis_ok (strafe (manual c)) (held_left c) (held_right c).

Lemma axis_ok_impulse p n : axis_ok (impulse p n) p n.
Proof. by destruct p, n. Qed.

Lemma f32_lt_asym a b : f32_lt a b = true → f32_lt b a = false.
Proof.
  unfold f32_lt. rewrite !andb_true_iff, Z.ltb_lt. intros [[Ha Hb] Hr]. rewrite Ha, Hb. simpl. apply Z.ltb_ge. lia.
Qed.

Lemma axis_ok_resync i : axis_ok i (f32_lt f32_zero i) (f32_lt i f32_zero).
Proof.
  split; destruct (f32_lt f32_zero i) eqn:Hp, (f32_lt i f32_zero) eqn:Hn; try done;
    apply f32_lt_asym in Hp; congruence.
Qed.

Lemma controller_apply_keys command c : keys_ok c → keys_ok (controller_apply command c).
Proof.
  intros [Hf Hs]. destruct command; simpl; try done; split; simpl; auto using axis_ok_impulse, axis_ok_resync.
Qed.

(** Whatever commands arrive, the movement impulses agree with the keys
    held: forward is positive exactly when only the forward key is held,
    negative exactly when only the backward key is, and likewise for
    strafing; opposite keys cancel. *)
Theorem held_keys_agree commands :
  keys_ok (foldl (λ c command, controller_apply command c) controller_default commands).
Proof.
  assert (∀ c, keys_ok c → keys_ok (foldl (λ c command, controller_apply command c) c commands)) as Hgen; [|by apply Hgen].
  induction commands as [|command commands IH]; intros c Hc; [done|]. by apply IH, controller_apply_keys.
Qed.
End controller.
