(* ===== verification/Backoff.v ===== *)
(** * Reconnect policy and backoff

    The policy half of [src/core/supervisor.rs].  An [f64] is a
    [spec_float] with 53 bits of mantissa, whose operations round as the
    machine's do; a [Duration] is its number of nanoseconds.  The result of
    [powi] has no specified precision, so it is a parameter. *)

From Stdlib Require Import SpecFloat.
From S2P Require Import Prelude Machine Float Reader Errors.

Local Open Scope Z_scope.

(** ** Floats and durations *)

Abbreviation f64 := spec_float.
Definition f64_mul : f64 → f64 → f64 := SFmul 53 1024.
Definition f64_add : f64 → f64 → f64 := SFadd 53 1024.
Definition f64_div : f64 → f64 → f64 := SFdiv 53 1024.

(** [z as f64]. *)
Definition f64_of_Z (z : Z) : f64 := binary_normalize 53 1024 z 0 false.

(** [clamp(lo, hi)]: a NaN stays. *)
Definition f64_clamp (lo hi a : f64) : f64 :=
  if SFltb a lo then lo else if SFltb hi a then hi else a.

Definition f64_0 : f64 := S754_zero false.
Definition f64_1 : f64 := f64_of_Z 1.

Definition nanos_per_sec : Z := 1000000000.

Definition as_secs_f64 (d : Z) : f64 :=
  f64_add (f64_of_Z (d / nanos_per_sec)) (f64_div (f64_of_Z (d `mod` nanos_per_sec)) (f64_of_Z nanos_per_sec)).

(** [n / d] rounded to the nearest integer, ties to even. *)
Definition round_div (n d : Z) : Z :=
  let q := n / d in let r := 2 * (n `mod` d) in
  if (r <? d) || ((r =? d) && Z.even q) then q else q + 1.

(** [Duration::from_secs_f64]; [None] is its panic on a negative, infinite or
    NaN argument and on one of 2^64 seconds or more. *)
Definition from_secs_f64 (a : f64) : option Z :=
  match a with
  | S754_zero _ => Some 0
  | S754_finite false m e =>
      let nanos := if 0 <=? e then Z.pos m * 2 ^ e * nanos_per_sec
                   else round_div (Z.pos m * nanos_per_sec) (2 ^ (- e)) in
      if nanos <? 2 ^ 64 * nanos_per_sec then Some nanos else None
  | _ => None
  end.

(** ** Policy *)

Inductive RetryLimit : Type := Unlimited | Count (n : Z).
Inductive RetryDecision : Type := Retry | StopRetrying.
Inductive Jitter : Type := JitterNone | Deterministic (fraction : f64).

#[export] Instance RetryDecision_eq_dec : EqDecision RetryDecision.
Proof. solve_decision. Defined.

Record ReconnectPolicy : Type := mkPolicy {
  enabled : bool;
  max_retries : RetryLimit;
  initial_delay : Z;
  max_delay : Z;
  multiplier : f64;
  jitter : Jitter;
  stable_session_reset : Z;
  on_transient : RetryDecision;
  on_server_rejected : RetryDecision;
  on_auth_failure : RetryDecision;
  on_protocol_incompatible : RetryDecision;
}.

Definition policy_default : ReconnectPolicy := {|
  enabled := false;
  max_retries := Count 5;
  initial_delay := 1 * nanos_per_sec;
  max_delay := 60 * nanos_per_sec;
  multiplier := f64_of_Z 2;
  jitter := JitterNone;
  stable_session_reset := 60 * nanos_per_sec;
  on_transient := Retry;
  on_server_rejected := StopRetrying;
  on_auth_failure := StopRetrying;
  on_protocol_incompatible := StopRetrying;
|}.

(** [ReconnectPolicy::enabled]. *)
Definition policy_enabled : ReconnectPolicy := {|
  enabled := true;
  max_retries := max_retries policy_default;
  initial_delay := initial_delay policy_default;
  max_delay := max_delay policy_default;
  multiplier := multiplier policy_default;
  jitter := jitter policy_default;
  stable_session_reset := stable_session_reset policy_default;
  on_transient := on_transient policy_default;
  on_server_rejected := on_server_rejected policy_default;
  on_auth_failure := on_auth_failure policy_default;
  on_protocol_incompatible := on_protocol_incompatible policy_default;
|}.

Definition decision_for (class : RetryClass) (p : ReconnectPolicy) : RetryDecision :=
  if negb (enabled p) then StopRetrying
  else match class with
       | Transient => on_transient p
       | ServerRejected => on_server_rejected p
       | AuthFailure => on_auth_failure p
       | ProtocolIncompatible => on_protocol_incompatible p
       end.

Definition retries_exhausted (attempt : Z) (p : ReconnectPolicy) : bool :=
  match max_retries p with
  | Unlimited => false
  | Count limit => limit <=? attempt
  end.

(** ** Backoff *)

Section backoff.
Context (powi : f64 → Z → f64).

Definition backoff_base (p : ReconnectPolicy) (attempt : Z) : f64 :=
  let exponent := swrap 32 (saturating_sub attempt 1) in
  f64_mul (as_secs_f64 (initial_delay p)) (powi (float_max (multiplier p) f64_0) exponent).

Definition backoff_cap (p : ReconnectPolicy) : f64 := float_max (as_secs_f64 (max_delay p)) f64_0.

Definition backoff_secs (p : ReconnectPolicy) (attempt : Z) : f64 :=
  let capped := float_min (backoff_base p attempt) (backoff_cap p) in
  match jitter p with
  | JitterNone => capped
  | Deterministic fraction =>
      let cycle := f64_div (f64_of_Z (attempt `mod` 5)) (f64_of_Z 5) in
      f64_add capped (f64_mul (f64_mul capped (f64_clamp f64_0 f64_1 fraction)) cycle)
  end.

(** [None] when [Duration::from_secs_f64] panics. *)
Definition backoff_delay (p : ReconnectPolicy) (attempt : Z) : option Z :=
  from_secs_f64 (float_max (backoff_secs p attempt) f64_0).
End backoff.

(** A [powi] by repeated multiplication. *)
Definition powi_loop (x : f64) (n : Z) : f64 := Nat.iter (Z.to_nat n) (f64_mul x) f64_1.

(** The default progression: 1, 2, 4, ... seconds, then 60. *)
Example default_progression :
  map (backoff_delay powi_loop policy_enabled) [1; 2; 3; 4; 5; 6; 7; 8]
  = map (λ s, Some (s * nanos_per_sec)) [1; 2; 4; 8; 16; 32; 60; 60].
Proof. by vm_compute. Qed.

(** ** The cap *)

(** Without jitter the delay never exceeds the configured maximum,
    whatever the attempt, the multiplier (negative, infinite or NaN
    included) and the precision of [powi]. *)
Theorem backoff_capped powi p attempt :
  jitter p = JitterNone → SFleb (backoff_secs powi p attempt) (backoff_cap p) = true.
Proof. intros Hj. unfold backoff_secs. rewrite Hj. by apply float_min_le, float_max_not_nan. Qed.

Lemma backoff_capped_witness :
  jitter policy_enabled = JitterNone
  ∧ SFleb (backoff_secs powi_loop policy_enabled 4000000000) (backoff_cap policy_enabled) = true.
Proof. split; [reflexivity|by apply backoff_capped]. Defined.

(** With jitter it does: at the cap of 60 seconds the fourth retry waits
    108. *)
Definition jittery_policy : ReconnectPolicy := {|
  enabled := true;
  max_retries := Unlimited;
  initial_delay := 60 * nanos_per_sec;
  max_delay := 60 * nanos_per_sec;
  multiplier := f64_of_Z 2;
  jitter := Deterministic f64_1;
  stable_session_reset := 60 * nanos_per_sec;
  on_transient := Retry;
  on_server_rejected := StopRetrying;
  on_auth_failure := StopRetrying;
  on_protocol_incompatible := StopRetrying;
|}.

Example jitter_exceeds_max_delay : backoff_delay powi_loop jittery_policy 4 = Some (108 * nanos_per_sec).
Proof. by vm_compute. Qed.
