(* ===== verification/Supervisor.v ===== *)
(** * The client supervisor

    The lifecycle half of [src/core/supervisor.rs]: the loop of
    [ClientSupervisor::run] with [handle_failure] and [run_session], and
    [SupervisorHandle::send_command], which other tasks call while it runs.

    The supervisor is one task, every caller another.  A watch channel holds
    the latest value, so reading or writing one is an atomic action, and so
    are [try_send] and [try_recv] on the command channel; [exec] is the
    interleaving of those actions.  What the outside world does (a connect
    that succeeds, a session that ends, a sleep that is over) is the
    argument of the supervisor's action.  The [select!]s are [biased] with
    cancellation first: a poll that finds it takes no other branch. *)

From stdpp Require Import relations.
From S2P Require Import Prelude Machine Reader Errors Inventory Control Backoff.

Local Open Scope Z_scope.

Definition COMMAND_CHANNEL_CAPACITY : nat := 64.

Inductive SupervisorStatus : Type :=
  | StDisconnected
  | StConnecting
  | StConnected
  | StReconnectScheduled (attempt : Z)
  | StStopped.

Inductive SupervisorOutcome : Type :=
  | OutCancelled
  | OutRetriesExhausted (last_error : MineRiderError)
  | OutNotRetried (reason : MineRiderError)
  | OutPanicked.  (* not an outcome of the code: the task died in [backoff_delay] *)

Inductive ControlError : Type :=
  | CtlInvalidAction (e : ActionValidationError)
  | CtlQueueFull
  | CtlNotConnected
  | CtlSessionReplaced
  | CtlDisconnected
  | CtlSupervisorStopped.

(** The supervisor's own events of [BotEvent]. *)
Inductive LifecycleEvent : Type :=
  | EvConnecting
  | EvConnected
  | EvDisconnected (e : MineRiderError)
  | EvReconnectScheduled (attempt delay : Z)
  | EvRetryAttemptStarted (attempt : Z)
  | EvRetriesExhausted
  | EvStoppedByCancellation.

(** [respond] is the caller waiting for the answer. *)
Record QueuedCommand : Type := mkQueued {
  respond : nat;
  command : BotCommand;
  q_generation : Z;
}.

(** Where [run] is. *)
Inductive phase : Type :=
  | PTop
  | PRejectOffline                          (* reject_queued_commands(NotConnected) *)
  | PSetConnecting
  | PConnecting                             (* the select! around connect *)
  | PPublishGeneration
  | PSetConnected
  | PSession                                (* the select! of run_session *)
  | PSessionEnded (e : MineRiderError)
  | PRejectReplaced (e : MineRiderError)    (* reject_queued_commands(SessionReplaced) *)
  | PHandleFailure (e : MineRiderError)
  | PBackoff                                (* the select! around the sleep *)
  | PRejectStopped (o : SupervisorOutcome)  (* reject_queued_commands(SupervisorStopped) *)
  | PDropReceiver (o : SupervisorOutcome)
  | PReturned (o : SupervisorOutcome).

(** Where a call of [send_command] is. *)
Inductive caller : Type :=
  | CStatus (c : BotCommand)             (* validated, about to read the status *)
  | CGeneration (c : BotCommand)         (* it was Connected, about to read the generation *)
  | CSend (c : BotCommand) (g : Z)       (* about to try_send *)
  | CWait (c : BotCommand) (g : Z)       (* queued, awaiting the answer *)
  | CReturned (r : result ControlError unit).

(** A command handed to a session's control handle. *)
Record Delivery : Type := mkDelivery {
  d_session : Z;      (* generation of the session *)
  d_read : Z;         (* generation the caller read *)
  d_caller : nat;
  d_command : BotCommand;
}.

Record Sup : Type := mkSup {
  pc : phase;
  status : SupervisorStatus;
  generation : Z;
  published : Z;                      (* the value of generation_tx *)
  attempt : Z;
  queue : list QueuedCommand;
  closed : bool;                      (* the receiver is dropped *)
  cancelled : bool;
  callers : gmap nat caller;
  emitted : list LifecycleEvent;
  delivered : list Delivery;
  retried : list MineRiderError;      (* the errors a retry was scheduled for *)
  stable : nat;                       (* sessions that reset the attempt counter *)
}.

(** Field updates. *)
Definition set_pc x s := mkSup x (status s) (generation s) (published s) (attempt s) (queue s) (closed s) (cancelled s) (callers s) (emitted s) (delivered s) (retried s) (stable s).
Definition set_status x s := mkSup (pc s) x (generation s) (published s) (attempt s) (queue s) (closed s) (cancelled s) (callers s) (emitted s) (delivered s) (retried s) (stable s).
Definition set_generation x s := mkSup (pc s) (status s) x (published s) (attempt s) (queue s) (closed s) (cancelled s) (callers s) (emitted s) (delivered s) (retried s) (stable s).
Definition set_published x s := mkSup (pc s) (status s) (generation s) x (attempt s) (queue s) (closed s) (cancelled s) (callers s) (emitted s) (delivered s) (retried s) (stable s).
Definition set_attempt x s := mkSup (pc s) (status s) (generation s) (published s) x (queue s) (closed s) (cancelled s) (callers s) (emitted s) (delivered s) (retried s) (stable s).
Definition set_queue x s := mkSup (pc s) (status s) (generation s) (published s) (attempt s) x (closed s) (cancelled s) (callers s) (emitted s) (delivered s) (retried s) (stable s).
Definition set_closed x s := mkSup (pc s) (status s) (generation s) (published s) (attempt s) (queue s) x (cancelled s) (callers s) (emitted s) (delivered s) (retried s) (stable s).
Definition set_cancelled x s := mkSup (pc s) (status s) (generation s) (published s) (attempt s) (queue s) (closed s) x (callers s) (emitted s) (delivered s) (retried s) (stable s).
Definition set_callers x s := mkSup (pc s) (status s) (generation s) (published s) (attempt s) (queue s) (closed s) (cancelled s) x (emitted s) (delivered s) (retried s) (stable s).
Definition emit (e : LifecycleEvent) s :=
  mkSup (pc s) (status s) (generation s) (published s) (attempt s) (queue s) (closed s) (cancelled s) (callers s)
    (push (emitted s) e) (delivered s) (retried s) (stable s).
Definition deliver (d : Delivery) s :=
  mkSup (pc s) (status s) (generation s) (published s) (attempt s) (queue s) (closed s) (cancelled s) (callers s)
    (emitted s) (push (delivered s) d) (retried s) (stable s).
Definition note_retry (e : MineRiderError) s :=
  mkSup (pc s) (status s) (generation s) (published s) (attempt s) (queue s) (closed s) (cancelled s) (callers s)
    (emitted s) (delivered s) (push (retried s) e) (stable s).
Definition note_stable s :=
  mkSup (pc s) (status s) (generation s) (published s) 0 (queue s) (closed s) (cancelled s) (callers s)
    (emitted s) (delivered s) (retried s) (S (stable s)).

(** [ClientSupervisor::new]. *)
Definition supervisor_new : Sup := mkSup PTop StDisconnected 0 0 0 [] false false ∅ [] [] [] 0.

(** ** The supervisor's actions *)

(** What the outside world offers the poll. *)
Inductive input : Type :=
  | IStep                                               (* nothing needed *)
  | ICommand (sent : bool)                              (* a queued command; does the control handle take it *)
  | IConnect (r : result MineRiderError unit)           (* connect finished *)
  | IRunEnded (r : result MineRiderError unit) (elapsed : Z)  (* the session ended after so long *)
  | IRelay                                              (* a session event or state to pass on *)
  | ISlept.

(** [cmd.respond.send(r)]. *)
Definition answer (i : nat) (r : result ControlError unit) s := set_callers (<[i := CReturned r]> (callers s)) s.

(** One [try_recv] of [reject_queued_commands]; [next] once the queue is
    empty. *)
Definition reject_one (e : ControlError) (next : phase) s :=
  match queue s with
  | cmd :: rest => answer (respond cmd) (Err e) (set_queue rest s)
  | [] => set_pc next s
  end.

(** [recv] in a [select!] that only rejects. *)
Definition reject_received (e : ControlError) s : option Sup :=
  match queue s with
  | cmd :: rest => Some (answer (respond cmd) (Err e) (set_queue rest s))
  | [] => None
  end.

(** Cancellation in any of the three [select!]s or at the top of the loop. *)
Definition stop_cancelled s := set_pc (PRejectStopped OutCancelled) (emit EvStoppedByCancellation (set_status StStopped s)).

Section run.
Context (powi : f64 → Z → f64) (policy : ReconnectPolicy).

(** The synchronous part of [handle_failure]. *)
Definition handle_failure (e : MineRiderError) s : Sup :=
  if decide (decision_for (retry_class e) policy = StopRetrying) then
    set_pc (PRejectStopped (OutNotRetried e)) (set_status StStopped s)
  else if retries_exhausted (attempt s) policy then
    set_pc (PRejectStopped (OutRetriesExhausted e)) (set_status StStopped s)
  else
    let n := wrap 32 (attempt s + 1) in
    match backoff_delay powi policy n with
    | None => set_pc (PDropReceiver OutPanicked) (set_attempt n s)
    | Some delay =>
        set_pc PBackoff (emit (EvReconnectScheduled n delay)
          (set_status (StReconnectScheduled n) (note_retry e (set_attempt n s))))
    end.

(** [run_session]: a command for this session goes to its control handle. *)
Definition session_command (sent : bool) s : option Sup :=
  match queue s with
  | [] => None
  | cmd :: rest =>
      let s := set_queue rest s in
      Some (if negb (q_generation cmd =? generation s) then answer (respond cmd) (Err CtlSessionReplaced) s
            else if sent then
              answer (respond cmd) (Ok tt)
                (deliver (mkDelivery (generation s) (q_generation cmd) (respond cmd) (command cmd)) s)
            else answer (respond cmd) (Err CtlDisconnected) s)
  end.

(** [SessionEnd::Error]. *)
Definition session_ended (r : result MineRiderError unit) (elapsed : Z) s : Sup :=
  let e := match r with Err e => e | Ok _ => ConnectionClosed end in
  let s := if stable_session_reset policy <=? elapsed then note_stable s else s in
  set_pc (PSessionEnded e) s.

(** The next action of [run]; [None] when it has to wait for another input. *)
Definition sup_step (i : input) s : option Sup :=
  match pc s, i with
  | PTop, IStep => Some (if cancelled s then stop_cancelled s else set_pc PRejectOffline s)
  | PRejectOffline, IStep => Some (reject_one CtlNotConnected PSetConnecting s)
  | PSetConnecting, IStep => Some (set_pc PConnecting (emit EvConnecting (set_status StConnecting s)))
  | PConnecting, _ =>
      if cancelled s then Some (stop_cancelled s)
      else match i with
           | ICommand _ => reject_received CtlNotConnected s
           | IConnect (Ok _) => Some (set_pc PPublishGeneration (set_generation (wrap 64 (generation s + 1)) s))
           | IConnect (Err e) => Some (set_pc (PHandleFailure e) s)
           | _ => None
           end
  | PPublishGeneration, IStep => Some (set_pc PSetConnected (set_published (generation s) s))
  | PSetConnected, IStep => Some (set_pc PSession (emit EvConnected (set_status StConnected s)))
  | PSession, _ =>
      if cancelled s then Some (stop_cancelled s)
      else match i with
           | IRunEnded r elapsed => Some (session_ended r elapsed s)
           | ICommand sent => session_command sent s
           | IRelay => Some s
           | _ => None
           end
  | PSessionEnded e, IStep => Some (set_pc (PRejectReplaced e) (emit (EvDisconnected e) (set_status StDisconnected s)))
  | PRejectReplaced e, IStep => Some (reject_one CtlSessionReplaced (PHandleFailure e) s)
  | PHandleFailure e, IStep => Some (handle_failure e s)
  | PBackoff, _ =>
      if cancelled s then Some (stop_cancelled s)
      else match i with
           | ICommand _ => reject_received CtlNotConnected s
           | ISlept => Some (set_pc PTop (emit (EvRetryAttemptStarted (attempt s)) s))
           | _ => None
           end
  | PRejectStopped o, IStep => Some (reject_one CtlSupervisorStopped (PDropReceiver o) s)
  | PDropReceiver o, IStep =>
      (* the queued responders are dropped with the receiver *)
      Some (set_pc (PReturned o) (set_closed true (set_queue []
        (foldr (λ cmd, answer (respond cmd) (Err CtlSupervisorStopped)) s (queue s)))))
  | _, _ => None
  end.

(** ** The callers' actions *)

(** The part of [send_command] before its first read. *)
Definition call (i : nat) (c : BotCommand) s : option Sup :=
  match callers s !! i with
  | Some _ => None
  | None =>
      let start := match validate c with Ok _ => CStatus c | Err e => CReturned (Err (CtlInvalidAction e)) end in
      Some (set_callers (<[i := start]> (callers s)) s)
  end.

(** [if let BotCommand::InventoryClick(request) = &command { ... }]. *)
Definition stale_click (c : BotCommand) (g : Z) : bool :=
  match c with InventoryClickCommand request => negb (Inventory.generation request =? g) | _ => false end.

Definition caller_step (i : nat) s : option Sup :=
  match callers s !! i with
  | Some (CStatus c) =>
      Some (match status s with
            | StConnected => set_callers (<[i := CGeneration c]> (callers s)) s
            | StStopped => answer i (Err CtlSupervisorStopped) s
            | _ => answer i (Err CtlNotConnected) s
            end)
  | Some (CGeneration c) =>
      let g := published s in
      Some (if stale_click c g then answer i (Err CtlSessionReplaced) s
            else set_callers (<[i := CSend c g]> (callers s)) s)
  | Some (CSend c g) =>
      Some (if closed s then answer i (Err CtlSupervisorStopped) s
            else if decide (COMMAND_CHANNEL_CAPACITY ≤ length (queue s))%nat then answer i (Err CtlQueueFull) s
            else set_queue (push (queue s) (mkQueued i c g)) (set_callers (<[i := CWait c g]> (callers s)) s))
  | _ => None
  end.

(** ** The interleaving *)

Inductive action : Type :=
  | ASupervisor (i : input)
  | ACall (i : nat) (c : BotCommand)
  | ACaller (i : nat)
  | AStop.                          (* SupervisorHandle::stop *)

Definition exec (a : action) s : option Sup :=
  match a with
  | ASupervisor i => sup_step i s
  | ACall i c => call i c s
  | ACaller i => caller_step i s
  | AStop => Some (set_cancelled true s)
  end.

Definition step (s s' : Sup) : Prop := ∃ a, exec a s = Some s'.

Definition reachable (s : Sup) : Prop := rtc step supervisor_new s.

(** A schedule, as a function; actions that are not enabled are skipped. *)
Definition run_actions (s : Sup) (l : list action) : Sup :=
  foldl (λ s a, default s (exec a s)) s l.

Lemma run_actions_steps s l : rtc step s (run_actions s l).
Proof.
  revert s. induction l as [|a l IH]; intros s; [done|]. simpl. destruct (exec a s) as [s'|] eqn:Ha; [|apply IH].
  eapply rtc_l; [by exists a|apply IH].
Qed.
End run.

(** ** Commands: nothing lost, nothing twice *)

(** What relates the queue, the callers and the deliveries. *)
Record commands_ok (q : list QueuedCommand) (cs : gmap nat caller) (ds : list Delivery) : Prop := {
  queued_once : NoDup (map respond q);
  queued_waits cmd : cmd ∈ q → cs !! respond cmd = Some (CWait (command cmd) (q_generation cmd));
  waits_queued i c g : cs !! i = Some (CWait c g) → mkQueued i c g ∈ q;
  queue_bounded : (length q ≤ COMMAND_CHANNEL_CAPACITY)%nat;
  delivered_once : NoDup (map d_caller ds);
  delivered_session d : d ∈ ds → d_session d = d_read d;
  delivered_answered d : d ∈ ds → cs !! d_caller d = Some (CReturned (Ok tt));
  answered_delivered i : cs !! i = Some (CReturned (Ok tt)) → i ∈ map d_caller ds;
}.

Abbreviation sup_commands_ok s := (commands_ok (queue s) (callers s) (delivered s)).

Section commands.
Implicit Types (q : list QueuedCommand) (cs : gmap nat caller) (ds : list Delivery).

(** The head of the queue is answered with an error. *)
Lemma commands_reject cmd q cs ds e :
  commands_ok (cmd :: q) cs ds → commands_ok q (<[respond cmd := CReturned (Err e)]> cs) ds.
Proof.
  intros [Hnd Hqw Hwq Hb Hd1 Hd2 Hd3 Had]. simpl in Hnd. apply NoDup_cons in Hnd as [Hnot Hnd].
  assert (cs !! respond cmd = Some (CWait (command cmd) (q_generation cmd))) as Hcmd by (apply Hqw; left).
  split; try done.
  - intros c Hc. rewrite lookup_insert_ne; [apply Hqw; by right|]. intros Heq. apply Hnot. rewrite Heq. by apply list_elem_of_fmap_2.
  - intros i c g [[? ?]|[Hne Hi]]%lookup_insert_Some; [done|]. apply Hwq in Hi as [<-|Hi]%elem_of_cons; [by destruct Hne|done].
  - simpl in Hb. lia.
  - intros d Hd. pose proof (Hd3 d Hd). rewrite lookup_insert_ne; [done|]. intros Heq. rewrite Heq in Hcmd. congruence.
  - intros i [[? ?]|[_ Hi]]%lookup_insert_Some; [done|by apply Had].
Qed.

(** The head of the queue is delivered. *)
Lemma commands_deliver cmd q cs ds :
  commands_ok (cmd :: q) cs ds →
  commands_ok q (<[respond cmd := CReturned (Ok tt)]> cs)
    (push ds (mkDelivery (q_generation cmd) (q_generation cmd) (respond cmd) (command cmd))).
Proof.
  intros [Hnd Hqw Hwq Hb Hd1 Hd2 Hd3 Had]. simpl in Hnd. apply NoDup_cons in Hnd as [Hnot Hnd].
  assert (cs !! respond cmd = Some (CWait (command cmd) (q_generation cmd))) as Hcmd by (apply Hqw; left).
  assert (respond cmd ∉ map d_caller ds) as Hfresh.
  { intros (d & Heq & Hd)%list_elem_of_fmap. pose proof (Hd3 d Hd). rewrite <- Heq in *. congruence. }
  unfold push. split; try done.
  - intros c Hc. rewrite lookup_insert_ne; [apply Hqw; by right|]. intros Heq. apply Hnot. rewrite Heq. by apply list_elem_of_fmap_2.
  - intros i c g [[? ?]|[Hne Hi]]%lookup_insert_Some; [done|]. apply Hwq in Hi as [<-|Hi]%elem_of_cons; [by destruct Hne|done].
  - simpl in Hb. lia.
  - rewrite map_app. apply NoDup_app. split_and!; [done| |apply NoDup_singleton]. intros i Hi ->%list_elem_of_singleton. done.
  - intros d [Hd| ->%list_elem_of_singleton]%elem_of_app; [by apply Hd2|done].
  - intros d [Hd| ->%list_elem_of_singleton]%elem_of_app; [|by rewrite lookup_insert_eq].
    rewrite lookup_insert_ne; [by apply Hd3|]. intros Heq. apply Hfresh. rewrite Heq. by apply list_elem_of_fmap_2.
  - intros i. rewrite map_app, elem_of_app. intros [[<- _]|[_ Hi]]%lookup_insert_Some; [right; left|left; by apply Had].
Qed.

(** A caller that is neither queued nor answered moves on. *)
Definition moving (k : option caller) : Prop :=
  match k with Some (CWait _ _) | Some (CReturned _) => False | _ => True end.

Lemma commands_move i k q cs ds :
  commands_ok q cs ds → moving (cs !! i) →
  match k with CWait _ _ | CReturned (Ok _) => False | _ => True end →
  commands_ok q (<[i := k]> cs) ds.
Proof.
  intros [Hnd Hqw Hwq Hb Hd1 Hd2 Hd3 Had] Hm Hk. split; try done.
  - intros c Hc. rewrite lookup_insert_ne; [by apply Hqw|]. intros ->. by rewrite (Hqw c Hc) in Hm.
  - intros j c g [[<- ->]|[_ Hj]]%lookup_insert_Some; [done|by apply Hwq].
  - intros d Hd. rewrite lookup_insert_ne; [by apply Hd3|]. intros ->. by rewrite (Hd3 d Hd) in Hm.
  - intros j [[<- ->]|[_ Hj]]%lookup_insert_Some; [done|by apply Had].
Qed.

Lemma commands_enqueue i c g q cs ds :
  commands_ok q cs ds → moving (cs !! i) → (length q < COMMAND_CHANNEL_CAPACITY)%nat →
  commands_ok (push q (mkQueued i c g)) (<[i := CWait c g]> cs) ds.
Proof.
  intros [Hnd Hqw Hwq Hb Hd1 Hd2 Hd3 Had] Hm Hlen. unfold push.
  assert (∀ cmd, cmd ∈ q → respond cmd ≠ i) as Hfresh by (intros cmd Hc <-; by rewrite (Hqw cmd Hc) in Hm).
  split; try done.
  - rewrite map_app. apply NoDup_app. split_and!; [done| |apply NoDup_singleton]. intros j (cmd & -> & Hc)%list_elem_of_fmap Hj%list_elem_of_singleton.
    by apply (Hfresh cmd Hc).
  - intros cmd [Hc| ->%list_elem_of_singleton]%elem_of_app; [|apply lookup_insert_eq]. rewrite lookup_insert_ne; [by apply Hqw|].
    intros ->. by apply (Hfresh cmd Hc).
  - intros j c' g' [[<- [= <- <-]]|[_ Hj]]%lookup_insert_Some; apply elem_of_app; [right; left|left; by apply Hwq].
  - rewrite length_app. simpl. lia.
  - intros d Hd. rewrite lookup_insert_ne; [by apply Hd3|]. intros ->. by rewrite (Hd3 d Hd) in Hm.
  - intros j [[<- ?]|[_ Hj]]%lookup_insert_Some; [done|by apply Had].
Qed.

(** The whole queue is dropped. *)
Lemma commands_drop_all q cs ds :
  commands_ok q cs ds →
  commands_ok [] (foldr (λ cmd cs, <[respond cmd := CReturned (Err CtlSupervisorStopped)]> cs) cs q) ds.
Proof.
  revert cs. induction q as [|cmd q IH]; intros cs Hok; [done|]. simpl.
  assert (respond cmd ∉ map respond q) as Hnot by (destruct Hok as [Hnd]; by apply NoDup_cons in Hnd as [? _]).
  assert (foldr (λ cmd cs, <[respond cmd := CReturned (Err CtlSupervisorStopped)]> cs)
            (<[respond cmd := CReturned (Err CtlSupervisorStopped)]> cs) q
          = <[respond cmd := CReturned (Err CtlSupervisorStopped)]>
              (foldr (λ cmd cs, <[respond cmd := CReturned (Err CtlSupervisorStopped)]> cs) cs q)) as Hcomm.
  { clear IH Hok. induction q as [|c q IHq]; [done|]. simpl in *. apply not_elem_of_cons in Hnot as [? ?].
    rewrite IHq by done. by rewrite insert_insert_ne by done. }
  rewrite <- Hcomm. by apply IH, (commands_reject cmd).
Qed.
End commands.

Section invariants.
Context (powi : f64 → Z → f64) (policy : ReconnectPolicy).
Abbreviation step := (step powi policy).
Abbreviation reachable := (reachable powi policy).

Definition drop_all (q : list QueuedCommand) (s : Sup) : Sup :=
  foldr (λ cmd, answer (respond cmd) (Err CtlSupervisorStopped)) s q.

Lemma drop_all_eq q s :
  drop_all q s = set_callers (foldr (λ cmd cs, <[respond cmd := CReturned (Err CtlSupervisorStopped)]> cs) (callers s) q) s.
Proof. unfold drop_all. induction q as [|cmd q IH]; simpl; [by destruct s|]. by rewrite IH. Qed.

Lemma reject_one_commands e next s : sup_commands_ok s → sup_commands_ok (reject_one e next s).
Proof. intros Hok. unfold reject_one. destruct (queue s) as [|cmd q] eqn:Hq; simpl; rewrite ?Hq; [done|]. by apply (commands_reject cmd). Qed.

Lemma reject_received_commands e s s' : sup_commands_ok s → reject_received e s = Some s' → sup_commands_ok s'.
Proof. intros Hok. unfold reject_received. destruct (queue s) as [|cmd q] eqn:Hq; [done|]. intros [= <-]. by apply (commands_reject cmd). Qed.

Lemma session_command_commands sent s s' : sup_commands_ok s → session_command sent s = Some s' → sup_commands_ok s'.
Proof.
  intros Hok. unfold session_command. destruct (queue s) as [|cmd q] eqn:Hq; [done|]. intros [= <-]. simpl.
  destruct (Z.eqb_spec (q_generation cmd) (generation s)) as [<-|]; simpl; [destruct sent|]; simpl.
  - by apply commands_deliver.
  - by apply (commands_reject cmd).
  - by apply (commands_reject cmd).
Qed.

Lemma sup_step_commands i s s' : sup_commands_ok s → sup_step powi policy i s = Some s' → sup_commands_ok s'.
Proof.
  intros Hok Hs. unfold sup_step, session_ended, handle_failure, stop_cancelled in Hs.
  destruct (pc s) eqn:Hpc, i; try done; repeat case_match; simplify_eq; try done;
    eauto using reject_one_commands, reject_received_commands, session_command_commands.
  fold (drop_all (queue s) s). rewrite drop_all_eq. simpl. by apply commands_drop_all.
Qed.

Lemma caller_step_commands i s s' : sup_commands_ok s → caller_step i s = Some s' → sup_commands_ok s'.
Proof.
  intros Hok. unfold caller_step. destruct (callers s !! i) as [[c|c|c g|c g|r]|] eqn:Hi; try done; intros [= <-];
    assert (moving (callers s !! i)) as Hm by (by rewrite Hi).
  - destruct (status s); simpl; by apply commands_move.
  - case_match; simpl; by apply commands_move.
  - destruct (closed s); [by apply commands_move|].
    case_decide; [by apply commands_move|apply commands_enqueue; [done..|lia]].
Qed.

Lemma step_commands s s' : step s s' → sup_commands_ok s → sup_commands_ok s'.
Proof.
  intros [[i|i c|i|] Ha] Hok; simpl in Ha; [by eapply sup_step_commands| |by eapply caller_step_commands|by simplify_eq].
  unfold call in Ha. destruct (callers s !! i) eqn:Hi; [done|]. injection Ha as <-. simpl.
  apply commands_move; [done|by rewrite Hi|]. by destruct (validate c).
Qed.

(** The receiver is dropped exactly when [run] has returned, and nothing is
    queued after that. *)
Definition returned (p : phase) : bool := match p with PReturned _ => true | _ => false end.

Definition closed_ok (s : Sup) : Prop := closed s = returned (pc s) ∧ (closed s = true → queue s = []).

Lemma step_closed s s' : step s s' → closed_ok s → closed_ok s'.
Proof.
  intros [[i|i c|i|] Ha] [Hc Hq]; simpl in Ha.
  - unfold sup_step, reject_one, reject_received, session_command, session_ended, handle_failure, stop_cancelled in Ha.
    destruct (pc s) eqn:Hpc, i; simpl in *; try done; repeat case_match; simplify_eq; unfold closed_ok; simpl; rewrite ?Hpc, ?Hc; try done.
  - unfold call in Ha. destruct (callers s !! i); [done|]. by injection Ha as <-.
  - unfold caller_step in Ha. destruct (callers s !! i) as [[c|c|c g|c g|r]|]; try done; injection Ha as <-.
    + by destruct (status s).
    + by destruct (stale_click c (published s)).
    + destruct (closed s) eqn:Hcl; [by split; simpl; rewrite ?Hcl|]. case_match; split; simpl; rewrite ?Hcl; done.
  - by injection Ha as <-.
Qed.

Lemma reachable_ok s : reachable s → sup_commands_ok s ∧ closed_ok s.
Proof.
  intros Hr. unfold Supervisor.reachable in Hr. remember supervisor_new as s0 eqn:H0.
  assert (sup_commands_ok s0 ∧ closed_ok s0) as Hok.
  { subst s0. split; [|done]. split; simpl; try (by constructor); try (by intros ? ?%not_elem_of_nil); try lia; set_solver. }
  clear H0. induction Hr as [|s s1 s' Hs _ IH]; [done|]. destruct Hok. apply IH. eauto using step_commands, step_closed.
Qed.

(** C12. Under every interleaving of the supervisor, any number of callers and
    a stop request, a command is delivered to a session exactly when its
    caller is told so, at most once, and only to the session whose
    generation the caller read; every other call is still running, waiting
    in the bounded queue exactly once, or has returned an error; once the
    supervisor has returned no call is left waiting. *)
Theorem commands_answered_once s :
  reachable s →
  NoDup (map d_caller (delivered s))
  ∧ (∀ d, d ∈ delivered s → d_session d = d_read d)
  ∧ (∀ i, i ∈ map d_caller (delivered s) ↔ callers s !! i = Some (CReturned (Ok tt)))
  ∧ (∀ i c g, callers s !! i = Some (CWait c g) ↔ mkQueued i c g ∈ queue s)
  ∧ NoDup (map respond (queue s)) ∧ (length (queue s) ≤ COMMAND_CHANNEL_CAPACITY)%nat
  ∧ (returned (pc s) = true → ∀ i c g, callers s !! i ≠ Some (CWait c g)).
Proof.
  intros [[Hnd Hqw Hwq Hb Hd1 Hd2 Hd3 Had] [Hc Hq]]%reachable_ok. split_and!; try done.
  - intros i. split; [|apply Had]. intros (d & -> & Hd)%list_elem_of_fmap. by apply Hd3.
  - intros i c g. split; [apply Hwq|]. intros Hin. exact (Hqw _ Hin).
  - intros Hret i c g Hi%Hwq. rewrite Hc, Hret in Hq. rewrite Hq in Hi by done. by apply not_elem_of_nil in Hi.
Qed.
End invariants.

(** ** Retries *)

Definition is_scheduled (e : LifecycleEvent) : bool := match e with EvReconnectScheduled _ _ => true | _ => false end.
Definition is_connecting (e : LifecycleEvent) : bool := match e with EvConnecting => true | _ => false end.

(** Retries scheduled and connect attempts started. *)
Definition scheduled (s : Sup) : nat := length (List.filter is_scheduled (emitted s)).
Definition connects (s : Sup) : nat := length (List.filter is_connecting (emitted s)).

(** A connect attempt this phase leads to before anything else is decided. *)
Definition connect_due (p : phase) : nat :=
  match p with PTop | PRejectOffline | PSetConnecting | PBackoff => 1 | _ => 0 end.

Lemma filter_push {A} (f : A → bool) l x :
  length (List.filter f (push l x)) = (length (List.filter f l) + if f x then 1 else 0)%nat.
Proof. unfold push. rewrite List.filter_app, length_app. simpl. by destruct (f x). Qed.

Section retries.
Context (powi : f64 → Z → f64) (policy : ReconnectPolicy).
Abbreviation step := (step powi policy).

Record retries_ok (s : Sup) : Prop := {
  retries_allowed : Forall (λ e, decision_for (retry_class e) policy = Retry) (retried s);
  retries_counted : scheduled s = length (retried s);
  connects_counted : (connects s + connect_due (pc s) ≤ 1 + scheduled s)%nat;
  never_exhausted_event : EvRetriesExhausted ∉ emitted s;
  attempts_bounded n : max_retries policy = Count n → in_u 32 n →
    0 ≤ attempt s ≤ n ∧ Z.of_nat (scheduled s) ≤ n * Z.of_nat (stable s) + attempt s
    ∧ ∀ k d, EvReconnectScheduled k d ∈ emitted s → 1 ≤ k ≤ n;
}.

(** Steps that leave the log and the counters alone. *)
Lemma retries_quiet s s' :
  retries_ok s → emitted s' = emitted s → retried s' = retried s → attempt s' = attempt s → stable s' = stable s →
  (connect_due (pc s') ≤ connect_due (pc s))%nat → retries_ok s'.
Proof.
  intros [H1 H2 H3 H4 H5] He Hr Ha Hs Hp. unfold scheduled, connects in *.
  split; unfold scheduled, connects; rewrite ?He, ?Hr, ?Ha, ?Hs; try done. lia.
Qed.

(** An event that is neither a retry nor a connect attempt. *)
Lemma retries_emit e s :
  is_scheduled e = false → is_connecting e = false → e ≠ EvRetriesExhausted → retries_ok s → retries_ok (emit e s).
Proof.
  intros Hs Hc Hx [H1 H2 H3 H4 H5]. unfold scheduled, connects in *.
  split; unfold scheduled, connects; simpl; rewrite ?filter_push, ?Hs, ?Hc, ?Nat.add_0_r; try done.
  - unfold push. rewrite elem_of_app, list_elem_of_singleton. intros [?|?]; [done|congruence].
  - intros n Hn Hu. destruct (H5 n Hn Hu) as ([? ?] & ? & Hk). split_and!; [done..|]. intros k d.
    unfold push. rewrite elem_of_app, list_elem_of_singleton. intros [?|Heq]; [by eapply Hk|subst e; simpl in Hs; done].
Qed.

Lemma retries_connecting s : pc s = PSetConnecting → retries_ok s → retries_ok (set_pc PConnecting (emit EvConnecting (set_status StConnecting s))).
Proof.
  intros Hpc [H1 H2 H3 H4 H5]. unfold scheduled, connects in *. rewrite Hpc in H3. simpl in H3.
  split; unfold scheduled, connects; simpl; rewrite ?filter_push; simpl; rewrite ?Nat.add_0_r; try done.
  - unfold push. rewrite elem_of_app, list_elem_of_singleton. by intros [?|?].
  - intros n Hn Hu. destruct (H5 n Hn Hu) as ([? ?] & ? & Hk). split_and!; [done..|]. intros k d.
    unfold push. rewrite elem_of_app, list_elem_of_singleton. intros [?|?]; [by eapply Hk|done].
Qed.

Lemma retries_handle_failure e s : pc s = PHandleFailure e → retries_ok s → retries_ok (handle_failure powi policy e s).
Proof.
  intros Hpc Hok. unfold handle_failure. case_decide as Hd; [eapply retries_quiet; by rewrite ?Hpc|].
  destruct (retries_exhausted (attempt s) policy) eqn:Hx; [eapply retries_quiet; by rewrite ?Hpc|].
  assert (decision_for (retry_class e) policy = Retry) as Hretry by (by destruct (decision_for _ _)).
  assert (∀ n, max_retries policy = Count n → in_u 32 n → wrap 32 (attempt s + 1) = attempt s + 1 ∧ attempt s + 1 ≤ n) as Hn.
  { intros n Hn Hu. destruct Hok as [_ _ _ _ H5]. destruct (H5 n Hn Hu) as ([? ?] & _). unfold retries_exhausted in Hx.
    rewrite Hn in Hx. apply Z.leb_gt in Hx. rewrite wrap_small by (unfold in_u in *; lia). lia. }
  destruct Hok as [H1 H2 H3 H4 H5]. rewrite Hpc in H3. simpl in H3. unfold scheduled, connects in *.
  destruct (backoff_delay _ _ _) as [delay|]; split; unfold scheduled, connects; simpl; rewrite ?filter_push; simpl; rewrite ?Nat.add_0_r; try done.
  - unfold push. apply Forall_app. split; [done|by constructor].
  - unfold push. rewrite length_app. simpl. lia.
  - lia.
  - unfold push. rewrite elem_of_app, list_elem_of_singleton. by intros [?|?].
  - intros n Hc Hu. destruct (H5 n Hc Hu) as ([? ?] & ? & Hk). destruct (Hn n Hc Hu) as [-> ?]. split_and!; [lia..|].
    intros k d. unfold push. rewrite elem_of_app, list_elem_of_singleton. intros [?|[= -> ->]]; [by eapply Hk|lia].
  - lia.
  - intros n Hc Hu. destruct (H5 n Hc Hu) as ([? ?] & ? & Hk). destruct (Hn n Hc Hu) as [-> ?]. split_and!; [lia..|]. exact Hk.
Qed.

Lemma retries_stable s : retries_ok s → retries_ok (note_stable s).
Proof.
  intros [H1 H2 H3 H4 H5]. split; try done. intros n Hn Hu. destruct (H5 n Hn Hu) as ([? ?] & ? & ?).
  unfold scheduled in *. simpl. unfold in_u in Hu. split_and!; [lia|lia|nia|done].
Qed.

(** Emitting such an event on the way to a phase. *)
Lemma retries_emit_goto e st p s :
  is_scheduled e = false → is_connecting e = false → e ≠ EvRetriesExhausted →
  (connect_due p ≤ connect_due (pc s))%nat → retries_ok s → retries_ok (set_pc p (emit e (set_status st s))).
Proof.
  intros ? ? ? Hp Hok. eapply (retries_quiet (emit e s)); [by apply retries_emit|done..].
Qed.

Lemma retries_stop_cancelled s : retries_ok s → retries_ok (stop_cancelled s).
Proof. intros. apply retries_emit_goto; try done. simpl. lia. Qed.

Lemma retries_reject_one e next s :
  (connect_due next ≤ connect_due (pc s))%nat → retries_ok s → retries_ok (reject_one e next s).
Proof. intros ? Hok. unfold reject_one. destruct (queue s); (eapply retries_quiet; [exact Hok|done..]). Qed.

Lemma retries_reject_received e s s' : retries_ok s → reject_received e s = Some s' → retries_ok s'.
Proof. intros Hok. unfold reject_received. destruct (queue s); [done|]. intros [= <-]. by eapply retries_quiet. Qed.

Lemma retries_session_command sent s s' : retries_ok s → session_command sent s = Some s' → retries_ok s'.
Proof.
  intros Hok. unfold session_command. destruct (queue s); [done|]. intros [= <-]. simpl.
  destruct (negb _), sent; (eapply retries_quiet; [exact Hok|done..]).
Qed.

Lemma retries_session_ended r elapsed s : retries_ok s → retries_ok (session_ended policy r elapsed s).
Proof.
  intros Hok. unfold session_ended. destruct (_ <=? _).
  - eapply (retries_quiet (note_stable s)); [by apply retries_stable|try done..]. simpl. lia.
  - eapply retries_quiet; [exact Hok|try done..]. simpl. lia.
Qed.

Lemma retries_drop_all o s :
  pc s = PDropReceiver o → retries_ok s → retries_ok (set_pc (PReturned o) (set_closed true (set_queue [] (drop_all (queue s) s)))).
Proof. intros Hpc Hok. rewrite drop_all_eq. eapply retries_quiet; [exact Hok|done..|]. simpl. lia. Qed.

Lemma sup_step_retries i s s' : retries_ok s → sup_step powi policy i s = Some s' → retries_ok s'.
Proof.
  intros Hok Hs. unfold sup_step in Hs.
  destruct (pc s) as [| | | | | | |e|e|e| |o|o|o] eqn:Hpc; try (destruct i; done);
    try (destruct (cancelled s); [simplify_eq; by apply retries_stop_cancelled|]).
  - destruct i; simplify_eq. destruct (cancelled s); [by apply retries_stop_cancelled|by eapply retries_quiet; rewrite ?Hpc].
  - destruct i; simplify_eq. by apply retries_reject_one; rewrite ?Hpc.
  - destruct i; simplify_eq. by apply retries_connecting.
  - destruct i as [| |[]| | |]; simplify_eq; [by eapply retries_reject_received| |]; by eapply retries_quiet; rewrite ?Hpc.
  - destruct i; simplify_eq. by eapply retries_quiet; rewrite ?Hpc.
  - destruct i; simplify_eq. by apply retries_emit_goto; rewrite ?Hpc.
  - destruct i; simplify_eq; [by eapply retries_session_command|by apply retries_session_ended|done].
  - destruct i; simplify_eq. by apply retries_emit_goto; rewrite ?Hpc.
  - destruct i; simplify_eq. by apply retries_reject_one; rewrite ?Hpc.
  - destruct i; simplify_eq. by apply retries_handle_failure.
  - destruct i; simplify_eq; [by eapply retries_reject_received|].
    apply (retries_emit_goto _ (status s)); rewrite ?Hpc; done.
  - destruct i; simplify_eq. by apply retries_reject_one; rewrite ?Hpc.
  - destruct i; simplify_eq. by apply retries_drop_all.
Qed.

Lemma step_retries s s' : step s s' → retries_ok s → retries_ok s'.
Proof.
  intros [[i|i c|i|] Ha] Hok; simpl in Ha; [by eapply sup_step_retries|..].
  - unfold call in Ha. destruct (callers s !! i); [done|]. injection Ha as <-. by eapply retries_quiet.
  - unfold caller_step in Ha. destruct (callers s !! i) as [[c|c|c g|c g|r]|]; try done; injection Ha as <-.
    + destruct (status s); by eapply retries_quiet.
    + destruct (stale_click c (published s)); by eapply retries_quiet.
    + destruct (closed s), (decide (COMMAND_CHANNEL_CAPACITY ≤ length (queue s))%nat); by eapply retries_quiet.
  - injection Ha as <-. by eapply retries_quiet.
Qed.

Lemma reachable_retries s : reachable powi policy s → retries_ok s.
Proof.
  intros Hr. unfold reachable in Hr. remember supervisor_new as s0 eqn:H0. assert (retries_ok s0) as Hok.
  { subst s0. split; [by constructor|done|simpl; unfold connects, scheduled; simpl; lia|apply not_elem_of_nil|]. intros n _ Hu. unfold in_u in Hu. simpl.
    split_and!; [lia|lia|unfold scheduled; simpl; lia|by intros k d ?%not_elem_of_nil]. }
  clear H0. induction Hr as [|s s1 s' Hs _ IH]; [done|]. by eapply IH, step_retries.
Qed.

(** C13. The policy is obeyed in every run: a retry is scheduled only for an
    error whose class the policy retries; a disabled policy connects once
    and never again; with a limit of [n] retries no attempt number exceeds
    [n], and there are at most [n] retries per stable session plus [n]; each
    retry allows one connect attempt.  (The event that the documentation
    lists for an exhausted limit is never emitted.) *)
Theorem retry_policy_respected s :
  reachable powi policy s →
  Forall (λ e, decision_for (retry_class e) policy = Retry) (retried s)
  ∧ scheduled s = length (retried s)
  ∧ (connects s ≤ 1 + scheduled s)%nat
  ∧ (enabled policy = false → scheduled s = 0%nat)
  ∧ (∀ n, max_retries policy = Count n → in_u 32 n →
       attempt s ≤ n ∧ Z.of_nat (scheduled s) ≤ n * (Z.of_nat (stable s) + 1)
       ∧ ∀ k d, EvReconnectScheduled k d ∈ emitted s → 1 ≤ k ≤ n)
  ∧ EvRetriesExhausted ∉ emitted s.
Proof.
  intros [H1 H2 H3 H4 H5]%reachable_retries. split_and!; try done; [lia| |].
  - intros Hdis. rewrite H2. destruct (retried s) as [|e l]; [done|]. apply Forall_inv in H1. unfold decision_for in H1. by rewrite Hdis in H1.
  - intros n Hn Hu. destruct (H5 n Hn Hu) as ([? ?] & ? & ?). split_and!; [done|lia|done].
Qed.
End retries.

(** ** Stopping *)

(** How many actions of its own the supervisor is away from returning once
    it has been asked to stop. *)
Definition stop_measure (s : Sup) : nat :=
  match pc s with
  | PReturned _ => 0
  | PDropReceiver _ => 1
  | PRejectStopped _ => 2 + length (queue s)
  | PTop | PConnecting | PSession | PBackoff => 3 + length (queue s)
  | PSetConnecting | PSetConnected | PHandleFailure _ => 4 + length (queue s)
  | PRejectOffline | PPublishGeneration | PRejectReplaced _ => 5 + length (queue s)
  | PSessionEnded _ => 6 + length (queue s)
  end.

Definition is_supervisor (a : action) : bool := match a with ASupervisor _ => true | _ => false end.
Definition is_caller (a : action) : bool := match a with ACaller _ => true | _ => false end.
Definition count (f : action → bool) (l : list action) : nat := length (List.filter f l).

Section stopping.
Context (powi : f64 → Z → f64) (policy : ReconnectPolicy).

(** A run given by its actions, each of them enabled. *)
Inductive trace : Sup → list action → Sup → Prop :=
  | trace_nil s : trace s [] s
  | trace_cons s a s1 l s' : exec powi policy a s = Some s1 → trace s1 l s' → trace s (a :: l) s'.

Lemma stop_step_decreases i s s' :
  cancelled s = true → sup_step powi policy i s = Some s' → cancelled s' = true ∧ (stop_measure s' < stop_measure s)%nat.
Proof.
  intros Hc Hs. unfold sup_step in Hs. rewrite Hc in Hs. unfold stop_measure at 2.
  destruct (pc s) as [| | | | | | |e|e|e| |o|o|o] eqn:Hpc; try (destruct i; done).
  - destruct i; simplify_eq. split; [done|]. simpl. unfold stop_measure. simpl. lia.
  - destruct i; simplify_eq. unfold reject_one. destruct (queue s) eqn:Hq; simpl; rewrite ?Hpc; (split; [done|]);
      unfold stop_measure; simpl; rewrite ?Hpc, ?Hq; simpl; lia.
  - destruct i; simplify_eq. split; [done|]. unfold stop_measure. simpl. lia.
  - simplify_eq. split; [done|]. unfold stop_measure. simpl. lia.
  - destruct i; simplify_eq. split; [done|]. unfold stop_measure. simpl. lia.
  - destruct i; simplify_eq. split; [done|]. unfold stop_measure. simpl. lia.
  - simplify_eq. split; [done|]. unfold stop_measure. simpl. lia.
  - destruct i; simplify_eq. split; [done|]. unfold stop_measure. simpl. lia.
  - destruct i; simplify_eq. unfold reject_one. destruct (queue s) eqn:Hq; simpl; rewrite ?Hpc; (split; [done|]);
      unfold stop_measure; simpl; rewrite ?Hpc, ?Hq; simpl; lia.
  - destruct i; simplify_eq. unfold handle_failure.
    case_decide; [|destruct (retries_exhausted _ _); [|destruct (backoff_delay _ _ _)]]; (split; [done|]); unfold stop_measure; simpl; lia.
  - simplify_eq. split; [done|]. unfold stop_measure. simpl. lia.
  - destruct i; simplify_eq. unfold reject_one. destruct (queue s) eqn:Hq; simpl; rewrite ?Hpc; (split; [done|]);
      unfold stop_measure; simpl; rewrite ?Hpc, ?Hq; simpl; lia.
  - destruct i; simplify_eq. fold (drop_all (queue s) s). rewrite drop_all_eq. split; [done|]. unfold stop_measure. simpl. lia.
Qed.

(** A caller can add one command to what has to be rejected. *)
Lemma stop_caller_step i s s' :
  cancelled s = true → caller_step i s = Some s' → cancelled s' = true ∧ (stop_measure s' ≤ stop_measure s + 1)%nat.
Proof.
  intros Hc Hs. unfold caller_step in Hs. destruct (callers s !! i) as [[c|c|c g|c g|r]|]; try done; injection Hs as <-.
  - destruct (status s); (split; [done|]); unfold stop_measure; simpl; lia.
  - destruct (stale_click c (published s)); (split; [done|]); unfold stop_measure; simpl; lia.
  - destruct (closed s); [split; [done|]; unfold stop_measure; simpl; lia|].
    case_decide; (split; [done|]); unfold stop_measure, push; simpl; destruct (pc s); rewrite ?length_app; simpl; lia.
Qed.

Lemma stop_trace s l s' :
  trace s l s' → cancelled s = true →
  cancelled s' = true ∧ (count is_supervisor l + stop_measure s' ≤ stop_measure s + count is_caller l)%nat.
Proof.
  intros Ht. induction Ht as [s|s a s1 l s' Ha Ht IH]; intros Hc; [split; [done|]; unfold count; simpl; lia|].
  unfold count in *. destruct a as [i|i c|i|]; simpl in *.
  - destruct (stop_step_decreases i s s1 Hc Ha) as [Hc1 ?]. destruct (IH Hc1). split; [done|lia].
  - unfold call in Ha. destruct (callers s !! i); [done|]. injection Ha as <-. by apply IH.
  - destruct (stop_caller_step i s s1 Hc Ha) as [Hc1 ?]. destruct (IH Hc1). split; [done|lia].
  - injection Ha as <-. by apply IH.
Qed.

Lemma stop_progress s : cancelled s = true → returned (pc s) = false → is_Some (sup_step powi policy IStep s).
Proof. intros Hc Hr. unfold sup_step. rewrite Hc. destruct (pc s); try done; eexists; reflexivity. Qed.

Lemma stop_measure_bound s : reachable powi policy s → (stop_measure s ≤ 70)%nat.
Proof.
  intros [[_ _ _ Hb _ _ _ _] _]%reachable_ok. unfold COMMAND_CHANNEL_CAPACITY in Hb.
  unfold stop_measure. destruct (pc s); lia.
Qed.

(** C14. A stop request is honoured: from any reachable state in which it has
    been made the supervisor is never stuck, whatever the network does, and
    returns after at most 70 actions of its own, plus one for each action a
    caller takes meanwhile. *)
Theorem stop_returns s l s' :
  reachable powi policy s → cancelled s = true → trace s l s' →
  (returned (pc s') = false → is_Some (sup_step powi policy IStep s'))
  ∧ ((70 + count is_caller l ≤ count is_supervisor l)%nat → returned (pc s') = true).
Proof.
  intros Hr Hc Ht. destruct (stop_trace s l s' Ht Hc) as [Hc' Hm]. pose proof (stop_measure_bound s Hr).
  split; [by apply stop_progress|]. intros Hn. assert (stop_measure s' = 0)%nat as H0 by lia.
  unfold stop_measure in H0. by destruct (pc s').
Qed.
End stopping.

(** ** Runs *)

(** A session is up. *)
Definition connect_actions : list action :=
  [ASupervisor IStep; ASupervisor IStep; ASupervisor IStep; ASupervisor (IConnect (Ok tt)); ASupervisor IStep; ASupervisor IStep].

(** A session is lost, and the backoff is over. *)
Definition lose_actions : list action :=
  [ASupervisor (IRunEnded (Err Io) 0); ASupervisor IStep; ASupervisor IStep; ASupervisor IStep; ASupervisor ISlept].

Abbreviation demo s l := (run_actions powi_loop policy_enabled s l).

Lemma commands_answered_once_witness :
  let s := demo supervisor_new (connect_actions ++ [ACall 0 SwapHands; ACaller 0; ACaller 0; ACaller 0; ASupervisor (ICommand true)]) in
  map d_caller (delivered s) = [0%nat] ∧ callers s !! 0%nat = Some (CReturned (Ok tt)).
Proof.
  cbv zeta. set (s := run_actions _ _ _ _).
  destruct (commands_answered_once powi_loop policy_enabled s (run_actions_steps _ _ _ _)) as (_ & _ & Hd & _).
  assert (map d_caller (delivered s) = [0%nat]) as Hs by (by vm_compute). split; [exact Hs|]. apply Hd. rewrite Hs. left.
Defined.

Lemma retry_policy_respected_witness :
  let s := demo supervisor_new (connect_actions ++ lose_actions ++ connect_actions) in
  connects s = 2%nat ∧ scheduled s = 1%nat ∧ attempt s ≤ 5.
Proof.
  cbv zeta. set (s := run_actions _ _ _ _).
  destruct (retry_policy_respected powi_loop policy_enabled s (run_actions_steps _ _ _ _)) as (_ & _ & _ & _ & Hn & _).
  split_and!; [by vm_compute..|]. by apply (Hn 5).
Defined.

Lemma stop_returns_witness :
  let s := demo supervisor_new (connect_actions ++ [AStop]) in
  ∃ l, trace powi_loop policy_enabled s l (demo s l) ∧ returned (pc (demo s l)) = true.
Proof.
  cbv zeta. set (s := run_actions _ _ _ _). exists [ASupervisor IStep; ASupervisor IStep; ASupervisor IStep].
  assert (trace powi_loop policy_enabled s [ASupervisor IStep; ASupervisor IStep; ASupervisor IStep]
    (demo s [ASupervisor IStep; ASupervisor IStep; ASupervisor IStep])) as Ht.
  { do 3 (eapply trace_cons; [by vm_compute|]). constructor. }
  split; [exact Ht|].
  destruct (stop_returns powi_loop policy_enabled s _ _ (run_actions_steps _ _ _ _) ltac:(by vm_compute) Ht) as [Hp _].
  destruct (returned _) eqn:Hr; [done|]. destruct (Hp eq_refl) as [x Hx]. by vm_compute in Hx.
Defined.

(** A command can reach a session that replaced the one its call started
    under.  The call reads the status while session 1 is connected, the
    session is lost and session 2 connects before the call reads the
    generation, and the command is then delivered to session 2. *)
Theorem command_crosses_sessions :
  let s1 := demo supervisor_new (connect_actions ++ [ACall 0 SwapHands; ACaller 0]) in
  let s2 := demo s1 (lose_actions ++ connect_actions ++ [ACaller 0; ACaller 0; ASupervisor (ICommand true)]) in
  status s1 = StConnected ∧ published s1 = 1 ∧ callers s1 !! 0%nat = Some (CGeneration SwapHands)
  ∧ delivered s2 = [mkDelivery 2 2 0 SwapHands] ∧ callers s2 !! 0%nat = Some (CReturned (Ok tt)).
Proof. by vm_compute. Qed.
