(* ===== verification/InventoryCall.v ===== *)
(** * An inventory click and its outcome

    [inventory_click_in_generation] and [wait_for_inventory_outcome] of
    [src/core/supervisor.rs], and the clicks on an open window built on them.
    The handle reads three watch channels that the supervisor writes: the
    state of the session, its status and the generation.  Each read is of
    whatever the channel holds then, so one turn of the wait loop sees three
    values that need not belong together; a turn ends when a channel changes,
    when one is closed, or when the timeout strikes. *)

From S2P Require Import Prelude Machine Reader Nbt Errors Inventory Control Supervisor.

Local Open Scope Z_scope.

(** In milliseconds. *)
Definition DEFAULT_INVENTORY_TRANSACTION_TIMEOUT : Z := 5000.

Inductive InventoryActionError : Type :=
  | ActControl (e : ControlError)
  | ActInvalid (e : InventoryError)
  | ActTimedOut
  | ActDisconnected
  | ActStaleGeneration (expected current : Z).

Inductive GuiActionError : Type :=
  | NoGuiOpen
  | GuiInvalidSlot (slot : Z)
  | GuiAction (e : InventoryActionError).

(** ** The wait loop *)

Inductive select : Type := SelChanged | SelClosed | SelTimeout.

(** One turn: the three reads in order, then the [select!]. *)
Record Turn : Type := mkTurn {
  t_completed : gmap Z InventoryOutcome;
  t_generation : Z;
  t_status : SupervisorStatus;
  t_select : select;
}.

(** [None]: still waiting. *)
Fixpoint wait_for_inventory_outcome (transaction_id expected_generation : Z) (turns : list Turn) :
    option (result InventoryActionError InventoryOutcome) :=
  match turns with
  | [] => None
  | t :: turns =>
      match t_completed t !! transaction_id with
      | Some (Rejected error) => Some (Err (ActInvalid error))
      | Some other => Some (Ok other)
      | None =>
          if negb (t_generation t =? expected_generation) then Some (Err (ActStaleGeneration expected_generation (t_generation t)))
          else match t_status t with
               | StConnected =>
                   match t_select t with
                   | SelChanged => wait_for_inventory_outcome transaction_id expected_generation turns
                   | SelClosed => Some (Err ActDisconnected)
                   | SelTimeout => Some (Err ActTimedOut)
                   end
               | _ => Some (Err ActDisconnected)
               end
      end
  end.

(** ** The call *)

Section call.
Context {Slot : Type}.

(** What the call finds: the generation and the snapshot when it reads them,
    the answer of [send_command], and the turns of its wait. *)
Record Surroundings : Type := mkSurroundings {
  current_generation : Z;
  snapshot : InventoryState Slot;
  send_command : BotCommand → result ControlError unit;
  observed : list Turn;
}.

(** The outcome ([None] while it waits), the request if one was made, and the
    counter of transactions, an [AtomicU64] shared by all handles. *)
Definition inventory_click_in_generation (w : Surroundings) (expected_generation window_id : Z) (click : InventoryClick)
    (next_inventory_transaction : Z) :
    option (result InventoryActionError InventoryOutcome) * option InventoryClickRequest * Z :=
  let current := current_generation w in
  if negb (current =? expected_generation) then
    (Some (Err (ActStaleGeneration expected_generation current)), None, next_inventory_transaction)
  else
    match window window_id (snapshot w) with
    | None => (Some (Err (ActInvalid (UnknownWindow window_id))), None, next_inventory_transaction)
    | Some window =>
        let transaction_id := next_inventory_transaction in
        let request := mkRequest transaction_id expected_generation window_id (state_id window) click in
        let next := wrap 64 (next_inventory_transaction + 1) in
        match send_command w (InventoryClickCommand request) with
        | Err e => (Some (Err (ActControl e)), Some request, next)
        | Ok _ => (wait_for_inventory_outcome transaction_id expected_generation (observed w), Some request, next)
        end
    end.

(** [inventory_click]: in the generation of the moment, read once more. *)
Definition inventory_click (w : Surroundings) (generation : Z) := inventory_click_in_generation w generation.

(** [i16::try_from] of a [usize], [into_inventory_click]. *)
Definition click_slot (w : Surroundings) (generation window_id slot : Z) (click : GuiClick) (next : Z) :
    option (result GuiActionError InventoryOutcome) * option InventoryClickRequest * Z :=
  if 32767 <? slot then (Some (Err (GuiInvalidSlot slot)), None, next)
  else
    let '(r, request, next) := inventory_click w generation window_id (into_inventory_click click slot) next in
    ((λ r, match r with Ok o => Ok o | Err e => Err (GuiAction e) end) <$> r, request, next).

Definition click_open_gui_slot (w : Surroundings) (generation slot : Z) (click : GuiClick) (next : Z) :=
  match open_win (snapshot w) with
  | None => (Some (Err NoGuiOpen), None, next)
  | Some window => click_slot w generation (win_id window) slot click next
  end.

Definition click_inventory_slot (w : Surroundings) (generation slot : Z) (click : GuiClick) (next : Z) :=
  click_slot w generation PLAYER_INVENTORY_WINDOW_ID slot click next.
End call.

(** ** What the wait returns *)

(** Nothing to report yet, and the wait goes on. *)
Definition quiet (transaction_id generation : Z) (t : Turn) : Prop :=
  t_completed t !! transaction_id = None ∧ t_generation t = generation ∧ t_status t = StConnected ∧ t_select t = SelChanged.

(** The cause a turn gives for each result: an outcome counts before anything
    else, then the generation, the status, and how the turn ended. *)
Inductive decides (transaction_id generation : Z) (t : Turn) : result InventoryActionError InventoryOutcome → Prop :=
  | decides_outcome o : t_completed t !! transaction_id = Some o → (∀ e, o ≠ Rejected e) → decides transaction_id generation t (Ok o)
  | decides_rejected e : t_completed t !! transaction_id = Some (Rejected e) → decides transaction_id generation t (Err (ActInvalid e))
  | decides_stale : t_completed t !! transaction_id = None → t_generation t ≠ generation →
      decides transaction_id generation t (Err (ActStaleGeneration generation (t_generation t)))
  | decides_disconnected : t_completed t !! transaction_id = None → t_generation t = generation →
      t_status t ≠ StConnected ∨ t_select t = SelClosed → decides transaction_id generation t (Err ActDisconnected)
  | decides_timeout : t_completed t !! transaction_id = None → t_generation t = generation → t_status t = StConnected →
      t_select t = SelTimeout → decides transaction_id generation t (Err ActTimedOut).

Lemma turn_cases tid g t : quiet tid g t ∨ ∃ r, decides tid g t r.
Proof.
  destruct (t_completed t !! tid) as [o|] eqn:Ho.
  { right. destruct o as [| | | | |e]; eexists; first [by eapply decides_rejected|by apply decides_outcome]. }
  destruct (Z.eq_dec (t_generation t) g) as [Hg|Hg]; [|right; eexists; by apply decides_stale].
  assert (t_status t = StConnected ∨ t_status t ≠ StConnected) as [Hs|Hs] by (destruct (t_status t); auto).
  - destruct (t_select t) eqn:Hsel; [by left|right; eexists; apply decides_disconnected; auto|right; eexists; by apply decides_timeout].
  - right. eexists. apply decides_disconnected; auto.
Qed.

Lemma wait_quiet tid g t turns : quiet tid g t → wait_for_inventory_outcome tid g (t :: turns) = wait_for_inventory_outcome tid g turns.
Proof. intros (Hc & Hg & Hs & Hsel). simpl. by rewrite Hc, Hg, Z.eqb_refl, Hs, Hsel. Qed.

Lemma wait_decided tid g t r turns : decides tid g t r → wait_for_inventory_outcome tid g (t :: turns) = Some r.
Proof.
  destruct 1 as [o Ho Hr|e He|Hc Hg|Hc Hg Hd|Hc Hg Hs Hsel]; simpl.
  - rewrite Ho. destruct o as [| | | | |e]; try done. by destruct (Hr e).
  - by rewrite He.
  - rewrite Hc. by rewrite (proj2 (Z.eqb_neq _ _)).
  - rewrite Hc, Hg, Z.eqb_refl. simpl. destruct Hd as [Hs|Hsel]; [by destruct (t_status t)|rewrite Hsel; by destruct (t_status t)].
  - by rewrite Hc, Hg, Z.eqb_refl, Hs, Hsel.
Qed.

Lemma quiet_undecided tid g t r : quiet tid g t → ¬ decides tid g t r.
Proof. intros (Hc & Hg & Hs & Hsel) [| | |? ? [|]|]; congruence. Qed.

(** The first turn that is not quiet decides. *)
Lemma wait_first tid g turns :
  (wait_for_inventory_outcome tid g turns = None ↔ Forall (quiet tid g) turns)
  ∧ ∀ x, wait_for_inventory_outcome tid g turns = Some x ↔
    ∃ k t, turns !! k = Some t ∧ decides tid g t x ∧ ∀ j t', (j < k)%nat → turns !! j = Some t' → quiet tid g t'.
Proof.
  induction turns as [|t turns [IHn IHs]]; [split; [by split|]; intros x; split; [done|by intros (k & t & H & _)]|].
  destruct (turn_cases tid g t) as [Hq|[r Hd]].
  - rewrite wait_quiet by done. split; [rewrite IHn, Forall_cons; tauto|]. intros x. rewrite IHs. split.
    + intros (k & t' & Hk & Hd & Hj). exists (S k), t'. split_and!; [done|done|]. intros [|j] t'' Hlt Ht''; [by simplify_eq/=|].
      apply (Hj j); [lia|done].
    + intros ([|k] & t' & Hk & Hd & Hj); simpl in Hk; [simplify_eq; by destruct (quiet_undecided _ _ _ _ Hq Hd)|].
      exists k, t'. split_and!; [done|done|]. intros j t'' Hlt. apply (Hj (S j)). lia.
  - rewrite (wait_decided _ _ _ r) by done. split.
    + split; [done|]. intros [Hq _]%Forall_cons. by destruct (quiet_undecided _ _ _ _ Hq Hd).
    + intros x. split.
      * intros [= <-]. exists 0%nat, t. split_and!; [done|done|lia].
      * intros ([|k] & t' & Hk & Hd' & Hj); simpl in Hk.
        -- simplify_eq. by rewrite <- (wait_decided tid g t' r []), (wait_decided tid g t' x []).
        -- by destruct (quiet_undecided _ _ _ _ (Hj 0%nat t ltac:(lia) eq_refl) Hd).
Qed.

(** C36. A click reports what happened to that very click.  It fails at once
    for another generation or an unknown window, then with the error of
    [send_command]; otherwise it returns what the first turn decides that is
    not quiet, an outcome recorded under its own transaction id before any
    other cause, and it waits exactly while all turns are quiet.  A request
    carries a fresh id and the generation and state of the snapshot, and the
    counter moves on exactly when there is one. *)
Theorem inventory_call_exact {Slot : Type} (w : Surroundings) (expected window_id : Z) (click : InventoryClick) (next : Z) :
  let '(r, request, next') := inventory_click_in_generation (Slot := Slot) w expected window_id click next in
  (current_generation w ≠ expected →
    r = Some (Err (ActStaleGeneration expected (current_generation w))) ∧ request = None ∧ next' = next)
  ∧ (current_generation w = expected → window window_id (snapshot w) = None →
    r = Some (Err (ActInvalid (UnknownWindow window_id))) ∧ request = None ∧ next' = next)
  ∧ ∀ win, current_generation w = expected → window window_id (snapshot w) = Some win →
    let q := mkRequest next expected window_id (state_id win) click in
    request = Some q ∧ next' = wrap 64 (next + 1)
    ∧ (∀ e, send_command w (InventoryClickCommand q) = Err e → r = Some (Err (ActControl e)))
    ∧ (send_command w (InventoryClickCommand q) = Ok tt →
       (r = None ↔ Forall (quiet next expected) (observed w))
       ∧ ∀ x, r = Some x ↔ ∃ k t, observed w !! k = Some t ∧ decides next expected t x
           ∧ ∀ j t', (j < k)%nat → observed w !! j = Some t' → quiet next expected t').
Proof.
  unfold inventory_click_in_generation. destruct (Z.eqb_spec (current_generation w) expected) as [Hg|Hg]; cbn [negb]; [|by split_and!].
  destruct (window window_id (snapshot w)) as [win|] eqn:Hw; [|by split_and!].
  set (q := mkRequest next expected window_id (state_id win) click).
  destruct (send_command w (InventoryClickCommand q)) as [[]|e] eqn:Hs.
  2: { split; [done|]. split; [done|]. intros win' _ [= <-]. fold q. rewrite Hs. split_and!; [done|done|by intros e' [= ->]|done]. }
  split; [done|]. split; [done|]. intros win' _ [= <-]. fold q. rewrite Hs. split_and!; [done|done|done|]. intros _. apply wait_first.
Qed.

Definition sample_call : Surroundings (Slot := Z) :=
  mkSurroundings 7 (inventory_new 0) (λ _, Ok tt)
    [mkTurn ∅ 7 StConnected SelChanged; mkTurn {[3 := Confirmed 1]} 8 StDisconnected SelChanged].

Lemma inventory_call_exact_witness :
  current_generation sample_call = 7
  ∧ (inventory_click_in_generation sample_call 7 0 (Pickup (Some 4) MouseLeft) 3).1.1 = Some (Ok (Confirmed 1)).
Proof.
  split; [reflexivity|].
  pose proof (inventory_call_exact sample_call 7 0 (Pickup (Some 4) MouseLeft) 3) as H.
  destruct (inventory_click_in_generation sample_call 7 0 (Pickup (Some 4) MouseLeft) 3) as [[r q] n].
  destruct H as (_ & _ & H). destruct (H _ eq_refl eq_refl) as (_ & _ & _ & H1). destruct (H1 eq_refl) as [_ H2].
  apply H2. exists 1%nat, (mkTurn {[3 := Confirmed 1]} 8 StDisconnected SelChanged). split; [reflexivity|]. split.
  - apply decides_outcome; [reflexivity|discriminate].
  - intros [|j] t Hj; [intros [= <-]; split; [reflexivity|]; split; [reflexivity|]; split; reflexivity|lia].
Defined.
