(* ===== verification/Player.v ===== *)
(** * The local player

    [src/minecraft/player.rs]: position, vitals and velocity of the bot, one
    tick of physics, and the movement packets that tell the server where it
    is.  Coordinates and velocities are [f64] bits, rotations and vitals
    [f32] bits.  What a block is like to stand on or bump into and the sine
    of the standard library are parameters, as in [Physics]. *)

From Stdlib Require Import SpecFloat.
From S2P Require Import Prelude Machine Float Reader Nbt PacketTypes PlayPackets PlayPacketsOut Errors Palette Dimension Chunk ChunkStore World Physics Control.

Local Open Scope Z_scope.

(** ** Constants *)

Definition POSITION_REMINDER_INTERVAL : Z := 20.
Definition POSITION_EPSILON_SQUARED : Z := d_mul (d_lit 2 4) (d_lit 2 4).
Definition GRAVITY : Z := d_lit 8 2.
Definition VERTICAL_DRAG : Z := d_lit 98 2.
Definition BASE_DRAG : Z := d_lit 91 2.
Definition WALK_SPEED : Z := d_lit 1 1.
Definition SPRINT_SPEED : Z := d_lit 13000001 8.
Definition AIR_SPEED : Z := d_lit 2 2.
Definition AIR_SPEED_SPRINT : Z := d_lit 25999999 9.
Definition SNEAK_FACTOR : Z := d_lit 3 1.
Definition INPUT_SCALE : Z := d_lit 98 2.
Definition JUMP_POWER : Z := d_lit 42 2.
Definition SPRINT_JUMP_BOOST : Z := d_lit 2 1.
Definition JUMP_DELAY_TICKS : Z := 10.
Definition VELOCITY_EPSILON : Z := d_lit 3 3.
Definition STEP_HEIGHT : Z := d_lit 6 1.

(** ** State *)

Inductive MovementPacket : Type :=
  | MovePositionLook (p : PacketPositionLook)
  | MovePosition (p : PacketPositionServerbound)
  | MoveLook (p : PacketLook)
  | MoveStatusOnly (p : PacketFlying).

Record PlayerPosition : Type := mkPosition { p_x : Z; p_y : Z; p_z : Z; p_yaw : Z; p_pitch : Z }.
Definition ORIGIN : PlayerPosition := mkPosition d_0 d_0 d_0 f32_zero f32_zero.

Record LocalPlayer : Type := mkLocalPlayer {
  lp_entity_id : option Z;
  lp_position : PlayerPosition;
  lp_health : Z;
  lp_food : Z;
  lp_saturation : Z;
  xp_bar : Z;
  xp_level : Z;
  total_experience : Z;
  loaded : bool;
  on_ground : bool;
  horizontal_collision : bool;
  lp_velocity : Vec3;
  lp_input : MovementInput;
  jump_delay : Z;
  x_last : Z;
  y_last : Z;
  z_last : Z;
  yaw_last : Z;
  pitch_last : Z;
  last_on_ground : bool;
  last_horizontal_collision : bool;
  position_reminder : Z;
}.

Definition put_entity_id v p : LocalPlayer :=
  mkLocalPlayer v (lp_position p) (lp_health p) (lp_food p) (lp_saturation p) (xp_bar p) (xp_level p) (total_experience p)
    (loaded p) (on_ground p) (horizontal_collision p) (lp_velocity p) (lp_input p) (jump_delay p) (x_last p) (y_last p) (z_last p)
    (yaw_last p) (pitch_last p) (last_on_ground p) (last_horizontal_collision p) (position_reminder p).
Definition put_position v p : LocalPlayer :=
  mkLocalPlayer (lp_entity_id p) v (lp_health p) (lp_food p) (lp_saturation p) (xp_bar p) (xp_level p) (total_experience p)
    (loaded p) (on_ground p) (horizontal_collision p) (lp_velocity p) (lp_input p) (jump_delay p) (x_last p) (y_last p) (z_last p)
    (yaw_last p) (pitch_last p) (last_on_ground p) (last_horizontal_collision p) (position_reminder p).
Definition put_vitals v0 v1 v2 p : LocalPlayer :=
  mkLocalPlayer (lp_entity_id p) (lp_position p) v0 v1 v2 (xp_bar p) (xp_level p) (total_experience p) (loaded p) (on_ground p)
    (horizontal_collision p) (lp_velocity p) (lp_input p) (jump_delay p) (x_last p) (y_last p) (z_last p) (yaw_last p)
    (pitch_last p) (last_on_ground p) (last_horizontal_collision p) (position_reminder p).
Definition put_experience v0 v1 v2 p : LocalPlayer :=
  mkLocalPlayer (lp_entity_id p) (lp_position p) (lp_health p) (lp_food p) (lp_saturation p) v0 v1 v2 (loaded p) (on_ground p)
    (horizontal_collision p) (lp_velocity p) (lp_input p) (jump_delay p) (x_last p) (y_last p) (z_last p) (yaw_last p)
    (pitch_last p) (last_on_ground p) (last_horizontal_collision p) (position_reminder p).
Definition put_loaded v p : LocalPlayer :=
  mkLocalPlayer (lp_entity_id p) (lp_position p) (lp_health p) (lp_food p) (lp_saturation p) (xp_bar p) (xp_level p)
    (total_experience p) v (on_ground p) (horizontal_collision p) (lp_velocity p) (lp_input p) (jump_delay p) (x_last p)
    (y_last p) (z_last p) (yaw_last p) (pitch_last p) (last_on_ground p) (last_horizontal_collision p) (position_reminder p).
Definition put_ground v0 v1 p : LocalPlayer :=
  mkLocalPlayer (lp_entity_id p) (lp_position p) (lp_health p) (lp_food p) (lp_saturation p) (xp_bar p) (xp_level p)
    (total_experience p) (loaded p) v0 v1 (lp_velocity p) (lp_input p) (jump_delay p) (x_last p) (y_last p) (z_last p)
    (yaw_last p) (pitch_last p) (last_on_ground p) (last_horizontal_collision p) (position_reminder p).
Definition put_velocity v p : LocalPlayer :=
  mkLocalPlayer (lp_entity_id p) (lp_position p) (lp_health p) (lp_food p) (lp_saturation p) (xp_bar p) (xp_level p)
    (total_experience p) (loaded p) (on_ground p) (horizontal_collision p) v (lp_input p) (jump_delay p) (x_last p) (y_last p)
    (z_last p) (yaw_last p) (pitch_last p) (last_on_ground p) (last_horizontal_collision p) (position_reminder p).
Definition put_input v p : LocalPlayer :=
  mkLocalPlayer (lp_entity_id p) (lp_position p) (lp_health p) (lp_food p) (lp_saturation p) (xp_bar p) (xp_level p)
    (total_experience p) (loaded p) (on_ground p) (horizontal_collision p) (lp_velocity p) v (jump_delay p) (x_last p) (y_last p)
    (z_last p) (yaw_last p) (pitch_last p) (last_on_ground p) (last_horizontal_collision p) (position_reminder p).
Definition put_jump_delay v p : LocalPlayer :=
  mkLocalPlayer (lp_entity_id p) (lp_position p) (lp_health p) (lp_food p) (lp_saturation p) (xp_bar p) (xp_level p)
    (total_experience p) (loaded p) (on_ground p) (horizontal_collision p) (lp_velocity p) (lp_input p) v (x_last p) (y_last p)
    (z_last p) (yaw_last p) (pitch_last p) (last_on_ground p) (last_horizontal_collision p) (position_reminder p).
Definition put_last_position v0 v1 v2 p : LocalPlayer :=
  mkLocalPlayer (lp_entity_id p) (lp_position p) (lp_health p) (lp_food p) (lp_saturation p) (xp_bar p) (xp_level p)
    (total_experience p) (loaded p) (on_ground p) (horizontal_collision p) (lp_velocity p) (lp_input p) (jump_delay p) v0 v1 v2
    (yaw_last p) (pitch_last p) (last_on_ground p) (last_horizontal_collision p) (position_reminder p).
Definition put_last_rotation v0 v1 p : LocalPlayer :=
  mkLocalPlayer (lp_entity_id p) (lp_position p) (lp_health p) (lp_food p) (lp_saturation p) (xp_bar p) (xp_level p)
    (total_experience p) (loaded p) (on_ground p) (horizontal_collision p) (lp_velocity p) (lp_input p) (jump_delay p) (x_last p)
    (y_last p) (z_last p) v0 v1 (last_on_ground p) (last_horizontal_collision p) (position_reminder p).
Definition put_last_flags v0 v1 p : LocalPlayer :=
  mkLocalPlayer (lp_entity_id p) (lp_position p) (lp_health p) (lp_food p) (lp_saturation p) (xp_bar p) (xp_level p)
    (total_experience p) (loaded p) (on_ground p) (horizontal_collision p) (lp_velocity p) (lp_input p) (jump_delay p) (x_last p)
    (y_last p) (z_last p) (yaw_last p) (pitch_last p) v0 v1 (position_reminder p).
Definition put_reminder v p : LocalPlayer :=
  mkLocalPlayer (lp_entity_id p) (lp_position p) (lp_health p) (lp_food p) (lp_saturation p) (xp_bar p) (xp_level p)
    (total_experience p) (loaded p) (on_ground p) (horizontal_collision p) (lp_velocity p) (lp_input p) (jump_delay p) (x_last p)
    (y_last p) (z_last p) (yaw_last p) (pitch_last p) (last_on_ground p) (last_horizontal_collision p) v.

(** The vanilla spawn values 20.0 and 5.0 are [f32] bits. *)
Definition local_player_new : LocalPlayer :=
  mkLocalPlayer None ORIGIN 0x41a00000 20 0x40a00000 f32_zero 0 0 false false false vec3_default input_default 0
    d_0 d_0 d_0 f32_zero f32_zero false false 0.

(** ** Packets from the server *)

(** [PlayerPosition::apply]. *)
Definition apply_position (packet : PacketPosition) (pos : PlayerPosition) : PlayerPosition :=
  let has := PositionUpdateRelatives_contains (PacketPosition_flags packet) in
  mkPosition
    (if has PositionUpdateRelatives_X then d_add (p_x pos) (PacketPosition_x packet) else PacketPosition_x packet)
    (if has PositionUpdateRelatives_Y then d_add (p_y pos) (PacketPosition_y packet) else PacketPosition_y packet)
    (if has PositionUpdateRelatives_Z then d_add (p_z pos) (PacketPosition_z packet) else PacketPosition_z packet)
    (if has PositionUpdateRelatives_YAW then s_add (p_yaw pos) (PacketPosition_yaw packet) else PacketPosition_yaw packet)
    (if has PositionUpdateRelatives_PITCH then s_add (p_pitch pos) (PacketPosition_pitch packet) else PacketPosition_pitch packet).

Definition player_on_login (packet : PacketLogin) (p : LocalPlayer) : LocalPlayer :=
  put_loaded false (put_entity_id (Some (PacketLogin_entity_id packet)) p).

Definition player_on_respawn (p : LocalPlayer) : LocalPlayer :=
  put_ground false false (put_velocity vec3_default (put_loaded false p)).

Definition player_on_position (packet : PacketPosition) (p : LocalPlayer) : LocalPlayer :=
  let has := PositionUpdateRelatives_contains (PacketPosition_flags packet) in
  let v := lp_velocity p in
  put_velocity
    (mkVec3
       (if has PositionUpdateRelatives_DX then d_add (v_x v) (PacketPosition_dx packet) else PacketPosition_dx packet)
       (if has PositionUpdateRelatives_DY then d_add (v_y v) (PacketPosition_dy packet) else PacketPosition_dy packet)
       (if has PositionUpdateRelatives_DZ then d_add (v_z v) (PacketPosition_dz packet) else PacketPosition_dz packet))
    (put_position (apply_position packet (lp_position p)) p).

Definition apply_velocity (v : Vec3) (p : LocalPlayer) : LocalPlayer := put_velocity v p.

Definition player_on_health (packet : PacketUpdateHealth) (p : LocalPlayer) : LocalPlayer :=
  put_vitals (PacketUpdateHealth_health packet) (PacketUpdateHealth_food packet) (PacketUpdateHealth_food_saturation packet) p.

Definition player_on_experience (packet : PacketExperience) (p : LocalPlayer) : LocalPlayer :=
  put_experience (PacketExperience_experience_bar packet) (PacketExperience_level packet) (PacketExperience_total_experience packet) p.

Definition is_alive (p : LocalPlayer) : bool := f32_lt f32_zero (lp_health p).

(** ** Telling the server *)

Definition sync_movement_baseline (p : LocalPlayer) : LocalPlayer :=
  let pos := lp_position p in
  put_reminder 0 (put_last_flags (on_ground p) (horizontal_collision p)
    (put_last_rotation (p_yaw pos) (p_pitch pos) (put_last_position (p_x pos) (p_y pos) (p_z pos) p))).

Definition mark_loaded (p : LocalPlayer) : LocalPlayer := sync_movement_baseline (put_loaded true p).

Definition movement_flags (p : LocalPlayer) : MovementFlags :=
  Z.lor (Z.b2z (on_ground p) * MovementFlags_ON_GROUND)
    (Z.b2z (horizontal_collision p) * MovementFlags_HAS_HORIZONTAL_COLLISION).

Definition position_look (p : LocalPlayer) : PacketPositionLook :=
  let pos := lp_position p in
  mkPacketPositionLook (p_x pos) (p_y pos) (p_z pos) (p_yaw pos) (p_pitch pos) (movement_flags p).

Definition teleport_ack_movement (p : LocalPlayer) : PacketPositionLook * LocalPlayer :=
  (position_look p, sync_movement_baseline p).

Definition position_moved (p : LocalPlayer) : bool :=
  let pos := lp_position p in
  let dx := d_sub (p_x pos) (x_last p) in
  let dy := d_sub (p_y pos) (y_last p) in
  let dz := d_sub (p_z pos) (z_last p) in
  d_lt POSITION_EPSILON_SQUARED (d_add (d_add (d_mul dx dx) (d_mul dy dy)) (d_mul dz dz)).

Definition rotation_moved (p : LocalPlayer) : bool :=
  let pos := lp_position p in
  negb (s_eq (s_sub (p_yaw pos) (yaw_last p)) f32_zero) || negb (s_eq (s_sub (p_pitch pos) (pitch_last p)) f32_zero).

Definition movement_packet (p : LocalPlayer) : option MovementPacket * LocalPlayer :=
  if negb (loaded p) then (None, p)
  else
    let pos := lp_position p in
    let reminder := position_reminder p + 1 in
    let position_changed := position_moved p || (POSITION_REMINDER_INTERVAL <=? reminder) in
    let rotation_changed := rotation_moved p in
    let packet :=
      match position_changed, rotation_changed with
      | true, true => Some (MovePositionLook (position_look p))
      | true, false => Some (MovePosition (mkPacketPositionServerbound (p_x pos) (p_y pos) (p_z pos) (movement_flags p)))
      | false, true => Some (MoveLook (mkPacketLook (p_yaw pos) (p_pitch pos) (movement_flags p)))
      | false, false =>
          if negb (Bool.eqb (on_ground p) (last_on_ground p)) || negb (Bool.eqb (horizontal_collision p) (last_horizontal_collision p))
          then Some (MoveStatusOnly (mkPacketFlying (movement_flags p))) else None
      end in
    let p1 := if position_changed then put_reminder 0 (put_last_position (p_x pos) (p_y pos) (p_z pos) p)
              else put_reminder reminder p in
    let p2 := if rotation_changed then put_last_rotation (p_yaw pos) (p_pitch pos) p1 else p1 in
    (packet, put_last_flags (on_ground p) (horizontal_collision p) p2).

(** ** Physics *)

Section physics.
Context (sin64 : Z → Z) (data : CollisionData).

Definition clamp_epsilon (c : Z) : Z := if d_lt (d_abs c) VELOCITY_EPSILON then d_0 else c.

(** [yaw * (PI / 180.0)] in [f32]. *)
Definition radians (yaw : Z) : Z := s_mul yaw (s_div s_pi (s_of_Z 180)).

Definition input_acceleration (strafe forward speed yaw : Z) : Z * Z :=
  let length_squared := d_add (d_mul strafe strafe) (d_mul forward forward) in
  if d_lt length_squared (d_lit 1 7) then (d_0, d_0)
  else
    let '(sx, fz) :=
      if d_lt (d_of_Z 1) length_squared then
        let inv_length := d_div (d_of_Z 1) (d_sqrt length_squared) in
        (d_mul strafe inv_length, d_mul forward inv_length)
      else (strafe, forward) in
    let sx := d_mul sx speed in
    let fz := d_mul fz speed in
    let sin := d_of_s (mc_sin sin64 (radians yaw)) in
    let cos := d_of_s (mc_cos sin64 (radians yaw)) in
    (d_sub (d_mul sx cos) (d_mul fz sin), d_add (d_mul fz cos) (d_mul sx sin)).

Definition friction_below (w : World) (env : Env) (p : LocalPlayer) : Z :=
  let pos := lp_position p in
  match block_state w env (d_floor_i32 (p_x pos)) (d_floor_i32 (d_sub (p_y pos) (d_lit 2 1))) (d_floor_i32 (p_z pos)) with
  | Some state => block_friction data state
  | None => DEFAULT_FRICTION
  end.

Definition HALF_WIDTH : Z := d_lit 3 1.

Definition bounding_box (p : LocalPlayer) : Aabb :=
  let pos := lp_position p in
  mkAabb (d_sub (p_x pos) HALF_WIDTH) (p_y pos) (d_sub (p_z pos) HALF_WIDTH)
    (d_add (p_x pos) HALF_WIDTH) (d_add (p_y pos) (d_lit 18 1)) (d_add (p_z pos) HALF_WIDTH).

(** [aiStep]: small velocities are zeroed, then a ground jump. *)
Definition ai_step (p : LocalPlayer) : LocalPlayer :=
  let input := lp_input p in
  let v := lp_velocity p in
  let v := mkVec3 (clamp_epsilon (v_x v)) (clamp_epsilon (v_y v)) (clamp_epsilon (v_z v)) in
  let delay := if 0 <? jump_delay p then jump_delay p - 1 else jump_delay p in
  if jump input && on_ground p && (delay =? 0) then
    let v :=
      if sprint input then
        let yaw := radians (p_yaw (lp_position p)) in
        mkVec3 (d_sub (v_x v) (d_mul (d_of_s (mc_sin sin64 yaw)) SPRINT_JUMP_BOOST)) JUMP_POWER
          (d_add (v_z v) (d_mul (d_of_s (mc_cos sin64 yaw)) SPRINT_JUMP_BOOST))
      else mkVec3 (v_x v) JUMP_POWER (v_z v) in
    put_jump_delay JUMP_DELAY_TICKS (put_velocity v p)
  else put_jump_delay delay (put_velocity v p).

Definition travel_speed (grounded : bool) (friction : Z) (input : MovementInput) : Z :=
  if grounded then
    d_mul (if sprint input then SPRINT_SPEED else WALK_SPEED)
      (d_div (d_lit 21600002 8) (d_mul (d_mul friction friction) friction))
  else if sprint input then AIR_SPEED_SPRINT else AIR_SPEED.

(** [moveRelative]: the impulse of the keys, rotated into the world. *)
Definition accelerate (friction : Z) (p : LocalPlayer) : LocalPlayer :=
  let input := lp_input p in
  let sneak := if sneak input then SNEAK_FACTOR else d_of_Z 1 in
  let '(ax, az) :=
    input_acceleration (d_mul (d_mul (d_of_s (strafe input)) sneak) INPUT_SCALE)
      (d_mul (d_mul (d_of_s (forward input)) sneak) INPUT_SCALE)
      (travel_speed (on_ground p) friction input) (p_yaw (lp_position p)) in
  let v := lp_velocity p in
  put_velocity (mkVec3 (d_add (v_x v) ax) (v_y v) (d_add (v_z v) az)) p.

(** The blocks the move could touch, with room for a step up. *)
Definition swept_area (p : LocalPlayer) : Aabb :=
  let b := bounding_box p in
  let v := lp_velocity p in
  mkAabb (d_add (min_x b) (d_min (v_x v) d_0)) (d_add (box_min_y b) (d_min (v_y v) d_0)) (d_add (min_z b) (d_min (v_z v) d_0))
    (d_add (max_x b) (d_max (v_x v) d_0)) (d_add (d_add (max_y b) (d_max (v_y v) d_0)) STEP_HEIGHT)
    (d_add (max_z b) (d_max (v_z v) d_0)).

(** The move itself, the velocity of a clipped axis, gravity and drag. *)
Definition move_player (grounded : bool) (horizontal_drag : Z) (boxes : list Aabb) (p : LocalPlayer) : LocalPlayer :=
  let v := lp_velocity p in
  let result := collide_with_step (bounding_box p) v STEP_HEIGHT grounded boxes in
  let m := cr_movement result in
  let pos := lp_position p in
  let stop moved asked := if negb (d_eq moved asked) then d_0 else asked in
  put_velocity
    (mkVec3 (d_mul (stop (v_x m) (v_x v)) horizontal_drag)
       (d_mul (d_sub (stop (v_y m) (v_y v)) GRAVITY) VERTICAL_DRAG)
       (d_mul (stop (v_z m) (v_z v)) horizontal_drag))
    (put_ground (cr_on_ground result) (cr_horizontal_collision result)
       (put_position
          (mkPosition (d_add (p_x pos) (v_x m)) (d_add (p_y pos) (v_y m)) (d_add (p_z pos) (v_z m)) (p_yaw pos) (p_pitch pos)) p)).

(** Terrain that is not loaded ends the tick with the velocity already
    changed. *)
Definition tick_physics (w : World) (env : Env) : M LocalPlayer MineRiderError unit := λ p,
  if negb (loaded p) then (Ok tt, p)
  else
    let p := ai_step p in
    let grounded := on_ground p in
    let friction := friction_below w env p in
    let horizontal_drag := if grounded then d_mul friction BASE_DRAG else BASE_DRAG in
    let p := accelerate friction p in
    match world_collision_boxes data w env (swept_area p) with
    | Err e => (Err e, p)
    | Ok None => (Ok tt, p)
    | Ok (Some boxes) => (Ok tt, move_player grounded horizontal_drag boxes p)
    end.
End physics.

(** ** What the server knows *)

(** What the movement packets have told the server. *)
Record ServerView : Type := mkView {
  sv_x : Z; sv_y : Z; sv_z : Z; sv_yaw : Z; sv_pitch : Z; sv_flags : MovementFlags;
}.

Definition observe (m : MovementPacket) (v : ServerView) : ServerView :=
  match m with
  | MovePositionLook q =>
      mkView (PacketPositionLook_x q) (PacketPositionLook_y q) (PacketPositionLook_z q)
        (PacketPositionLook_yaw q) (PacketPositionLook_pitch q) (PacketPositionLook_flags q)
  | MovePosition q =>
      mkView (PacketPositionServerbound_x q) (PacketPositionServerbound_y q) (PacketPositionServerbound_z q)
        (sv_yaw v) (sv_pitch v) (PacketPositionServerbound_flags q)
  | MoveLook q => mkView (sv_x v) (sv_y v) (sv_z v) (PacketLook_yaw q) (PacketLook_pitch q) (PacketLook_flags q)
  | MoveStatusOnly q => mkView (sv_x v) (sv_y v) (sv_z v) (sv_yaw v) (sv_pitch v) (PacketFlying_flags q)
  end.

Definition carries_position (m : MovementPacket) : bool :=
  match m with MovePositionLook _ | MovePosition _ => true | _ => false end.

Definition reports_position (m : option MovementPacket) : bool := from_option carries_position false m.

Definition flag_bits (ground collision : bool) : MovementFlags :=
  Z.lor (Z.b2z ground * MovementFlags_ON_GROUND) (Z.b2z collision * MovementFlags_HAS_HORIZONTAL_COLLISION).

(** The last-sent fields, read as a view. *)
Definition baseline (p : LocalPlayer) : ServerView :=
  mkView (x_last p) (y_last p) (z_last p) (yaw_last p) (pitch_last p)
    (flag_bits (last_on_ground p) (last_horizontal_collision p)).

(** What can happen to a player between two reports, and the reports. *)
Inductive PlayerOp : Type :=
  | OpTick
  | OpTeleport (q : PacketPosition)
  | OpPhysics (w : World) (env : Env)
  | OpHealth (q : PacketUpdateHealth)
  | OpExperience (q : PacketExperience)
  | OpVelocity (v : Vec3)
  | OpInput (i : MovementInput)
  | OpFacing (yaw pitch : Z).

Section server_view.
Context (sin64 : Z → Z) (data : CollisionData).

Definition put_facing (yaw pitch : Z) (p : LocalPlayer) : LocalPlayer :=
  let pos := lp_position p in put_position (mkPosition (p_x pos) (p_y pos) (p_z pos) yaw pitch) p.

Definition player_op (op : PlayerOp) (p : LocalPlayer) : option MovementPacket * LocalPlayer :=
  match op with
  | OpTick => movement_packet p
  | OpTeleport q => let '(m, p) := teleport_ack_movement (player_on_position q p) in (Some (MovePositionLook m), p)
  | OpPhysics w env => (None, (tick_physics sin64 data w env p).2)
  | OpHealth q => (None, player_on_health q p)
  | OpExperience q => (None, player_on_experience q p)
  | OpVelocity v => (None, apply_velocity v p)
  | OpInput i => (None, put_input i p)
  | OpFacing yaw pitch => (None, put_facing yaw pitch p)
  end.

Fixpoint player_ops (ops : list PlayerOp) (p : LocalPlayer) : list MovementPacket * LocalPlayer :=
  match ops with
  | [] => ([], p)
  | op :: ops =>
      let '(m, p) := player_op op p in
      let '(ms, p) := player_ops ops p in (option_list m ++ ms, p)
  end.

(** Everything that only the reports change. *)
Definition reported (p : LocalPlayer) : bool * Z * ServerView := (loaded p, position_reminder p, baseline p).

Lemma ai_step_reported p : reported (ai_step sin64 p) = reported p.
Proof. unfold ai_step. destruct (jump (lp_input p) && on_ground p && _); done. Qed.

Lemma accelerate_reported friction p : reported (accelerate sin64 friction p) = reported p.
Proof. unfold accelerate. by destruct (input_acceleration _ _ _ _ _) as [ax az]. Qed.

Lemma tick_physics_reported w env p : reported (tick_physics sin64 data w env p).2 = reported p.
Proof.
  unfold tick_physics. destruct (negb (loaded p)); [done|]. cbv zeta.
  set (p1 := accelerate _ _ _). assert (reported p1 = reported p) as H1 by (unfold p1; by rewrite accelerate_reported, ai_step_reported).
  destruct (world_collision_boxes data w env _) as [[boxes|]|e]; exact H1.
Qed.

(** A view that has the player's flags, and its position and rotation where
    they had changed. *)
Definition up_to_date (p : LocalPlayer) (v : ServerView) : Prop :=
  let pos := lp_position p in
  sv_flags v = movement_flags p
  ∧ (position_moved p = true → (sv_x v, sv_y v, sv_z v) = (p_x pos, p_y pos, p_z pos))
  ∧ (rotation_moved p = true → (sv_yaw v, sv_pitch v) = (p_yaw pos, p_pitch pos)).

(** One report: the baseline follows the packet, and the reminder counts. *)
Lemma movement_packet_baseline p m p' :
  loaded p = true → 0 ≤ position_reminder p < POSITION_REMINDER_INTERVAL → movement_packet p = (m, p') →
  loaded p' = true ∧ baseline p' = from_option observe id m (baseline p)
  ∧ up_to_date p (baseline p')
  ∧ position_reminder p' = (if reports_position m then 0 else position_reminder p + 1)
  ∧ 0 ≤ position_reminder p' < POSITION_REMINDER_INTERVAL.
Proof.
  intros Hl Hr. unfold movement_packet, up_to_date. rewrite Hl. cbn [negb]. unfold POSITION_REMINDER_INTERVAL in *.
  generalize (position_moved p) (rotation_moved p). intros moved turned.
  destruct (Z.leb_spec 20 (position_reminder p + 1)), moved, turned; cbn [orb];
    try (intros (Hm & Hp')%pair_equal_spec; subst m p'; simpl; split_and!; try done; lia).
  destruct (negb (Bool.eqb (on_ground p) _) || _) eqn:Hf;
    intros (Hm & Hp')%pair_equal_spec; subst m p'; simpl; split_and!; try done; try lia.
  apply orb_false_iff in Hf as [H1%negb_false_iff%Bool.eqb_prop H2%negb_false_iff%Bool.eqb_prop].
  unfold baseline. simpl. by rewrite H1, H2.
Qed.

Definition is_tick (op : PlayerOp) : bool := match op with OpTick => true | _ => false end.
Definition ticks (ops : list PlayerOp) : Z := Z.of_nat (length (List.filter is_tick ops)).
Definition position_reports (ms : list MovementPacket) : Z := Z.of_nat (length (List.filter carries_position ms)).

(** One step of a loaded player, silent or not. *)
Lemma player_op_spec op p m p' :
  loaded p = true → 0 ≤ position_reminder p < POSITION_REMINDER_INTERVAL → player_op op p = (m, p') →
  loaded p' = true ∧ 0 ≤ position_reminder p' < POSITION_REMINDER_INTERVAL
  ∧ baseline p' = from_option observe id m (baseline p)
  ∧ position_reminder p' = (if reports_position m then 0 else position_reminder p + (if is_tick op then 1 else 0)).
Proof.
  intros Hl Hr. destruct op as [|q|w env|q|q|v|i|yaw pitch]; simpl; intros Hop.
  - destruct (movement_packet_baseline p m p' Hl Hr Hop) as (? & ? & ? & ? & ?). done.
  - injection Hop as <- <-. done.
  - injection Hop as <- <-. pose proof (tick_physics_reported w env p) as ((-> & ->)%pair_equal_spec & ->)%pair_equal_spec. simpl. rewrite Z.add_0_r. done.
  - injection Hop as <- <-. simpl. rewrite Z.add_0_r. done.
  - injection Hop as <- <-. simpl. rewrite Z.add_0_r. done.
  - injection Hop as <- <-. simpl. rewrite Z.add_0_r. done.
  - injection Hop as <- <-. simpl. rewrite Z.add_0_r. done.
  - injection Hop as <- <-. simpl. rewrite Z.add_0_r. done.
Qed.

(** C5. A loaded player and the server stay in step.  Whatever happens to it,
    the last-sent fields are exactly what its movement packets have told the
    server; after a tick the server has the player's ground and collision
    flags, its position if it had moved beyond the threshold and its rotation
    if it had turned; and however little it moves, among any 20 ticks one
    reports its position. *)
Theorem server_view_current ops p :
  loaded p = true → position_reminder p = 0 →
  let '(ms, p') := player_ops ops p in
  loaded p' = true
  ∧ baseline p' = foldl (flip observe) (baseline p) ms
  ∧ ticks ops < 20 * (position_reports ms + 1)
  ∧ up_to_date p' (baseline (movement_packet p').2).
Proof.
  intros Hl Hr0.
  assert (∀ ops p, loaded p = true → 0 ≤ position_reminder p < POSITION_REMINDER_INTERVAL →
    let '(ms, p') := player_ops ops p in
    loaded p' = true ∧ 0 ≤ position_reminder p' < POSITION_REMINDER_INTERVAL
    ∧ baseline p' = foldl (flip observe) (baseline p) ms
    ∧ position_reminder p + ticks ops ≤ 20 * position_reports ms + position_reminder p') as Hgen.
  { clear. intros ops. induction ops as [|op ops IH]; intros p Hl Hr; simpl; [split_and!; try done; unfold ticks, position_reports; simpl; lia|].
    destruct (player_op op p) as [m p1] eqn:Hop. destruct (player_op_spec op p m p1 Hl Hr Hop) as (Hl1 & Hr1 & Hb1 & Hc1).
    specialize (IH p1 Hl1 Hr1). destruct (player_ops ops p1) as [ms p2]. destruct IH as (Hl2 & Hr2 & Hb2 & Hc2).
    split_and!; [done|lia|lia| |].
    - rewrite Hb2, Hb1. by destruct m.
    - revert Hc2. unfold ticks, position_reports, POSITION_REMINDER_INTERVAL in *. simpl.
      destruct m as [m|]; simpl in *; [destruct (carries_position m) eqn:Hm|]; destruct (is_tick op); simpl in *; lia. }
  specialize (Hgen ops p Hl). destruct (player_ops ops p) as [ms p']. rewrite Hr0 in Hgen.
  destruct Hgen as (Hl' & Hr' & Hb & Hc); [done|]. unfold POSITION_REMINDER_INTERVAL in *.
  split_and!; [done|done|lia|].
  destruct (movement_packet p') as [m p2] eqn:Hm. by destruct (movement_packet_baseline p' m p2 Hl' ltac:(done) Hm) as (_ & _ & Hf & _).
Qed.
End server_view.

Definition no_collision : CollisionData := mkCollisionData [] [] [] [].
Definition no_env : Env := mkEnv (mkHeap ∅ 0) (with_limits 1 1 1).

(** A sine that is right at 0 and at a right angle. *)
Definition coarse_sin (x : Z) : Z := if x =? 0x3ff921fb54442d18 then 0x3ff0000000000000 else d_0.

(** A player on the ground that holds the forward key. *)
Definition walking_player : LocalPlayer :=
  put_input (mkInput f32_one f32_zero false false false) (mark_loaded (put_ground true false local_player_new)).

Definition test_ops : list PlayerOp := OpFacing f32_one f32_zero :: replicate 20 OpTick.

Lemma server_view_current_witness :
  let '(ms, p') := player_ops coarse_sin no_collision test_ops walking_player in
  loaded p' = true
  ∧ baseline p' = foldl (flip observe) (baseline walking_player) ms
  ∧ ticks test_ops < 20 * (position_reports ms + 1)
  ∧ up_to_date p' (baseline (movement_packet p').2).
Proof. apply (server_view_current coarse_sin no_collision test_ops walking_player); reflexivity. Defined.

(** A player that walks towards terrain the server has not sent: the tick is
    meant to be skipped until the chunk arrives, but each one adds to the
    velocity.  After ten seconds the player has not moved and its velocity is
    more than 19 blocks per tick, where walking reaches about 0.2. *)
Example skipped_ticks_accumulate :
  let p := Nat.iter 200 (λ p, (tick_physics coarse_sin no_collision (world_new test_dimension) no_env p).2) walking_player in
  lp_position p = lp_position walking_player ∧ d_lt (d_of_Z 19) (v_z (lp_velocity p)) = true.
Proof. vm_compute. done. Qed.

(** A look before the world is loaded is never reported: marking the player
    loaded takes its facing for known, and the server keeps the one of the
    teleport. *)
Example early_look_unreported :
  let p0 := (teleport_ack_movement local_player_new).2 in
  let p := mark_loaded (put_facing f32_one f32_zero p0) in
  p_yaw (lp_position p) = f32_one
  ∧ sv_yaw (foldl (flip observe) (baseline p0) (player_ops coarse_sin no_collision (replicate 40 OpTick) p).1) = f32_zero.
Proof. vm_compute. done. Qed.

(** A player over a loaded chunk of air, at height [y] in its middle. *)
Definition air_only : CollisionData := mkCollisionData [] [0] [(0, 0)] [].
Definition player_at (y : Z) : LocalPlayer :=
  mark_loaded (put_position (mkPosition (d_of_Z 8) (d_of_Z y) (d_of_Z 8) f32_zero f32_zero) local_player_new).
Definition fall (n : nat) (y : Z) : LocalPlayer :=
  Nat.iter n (λ p, (tick_physics coarse_sin air_only test_world test_state.2 p).2) (player_at y).

(** The build height is taken for terrain that has not arrived: inside the
    world (0 to 16 here) a player falls, but one that reaches above its top,
    though its chunk is loaded, hangs there for good. *)
Example above_the_world_frozen :
  d_lt (p_y (lp_position (fall 5 8))) (d_of_Z 8) = true
  ∧ lp_position (fall 100 15) = lp_position (player_at 15).
Proof. vm_compute. done. Qed.
