(* ===== verification/CollisionLaws.v ===== *)
(** * What collision queries find

    [World::collision_boxes] over the tables of [collision_data.rs].  The
    tables resolve every block state to well-formed boxes.  A query finds
    every box that stays within its own block, exactly as the floating-point
    comparisons of the clipping see it; a box that reaches out of its block,
    as that of a fence does, is missed when only the part outside is near. *)

From Stdlib Require Import SpecFloat.
From S2P Require Import Prelude Machine Float FloatOrder FloatExact Reader Nbt Errors Palette Dimension Chunk ChunkStore World Physics Player CollisionTables.

Local Open Scope Z_scope.

(** ** Coordinates on the grid of 1/32 *)

Definition grid : Z := 2 ^ 1069.

(** The coordinate in steps of 1/32, if it is a whole number of them. *)
Definition steps (a : Z) : option Z :=
  match f64_val a with
  | S754_zero _ => Some 0
  | S754_finite s m e =>
      if (e <=? -5) && (Zpos m `mod` 2 ^ (- 5 - e) =? 0) then Some (SpecFloat.cond_Zopp s (Zpos m / 2 ^ (- 5 - e))) else None
  | _ => None
  end.
Definition on_grid (lo hi a : Z) : bool :=
  match steps a with Some k => (lo <=? k) && (k <=? hi) | None => false end.

Lemma steps_units a k : steps a = Some k → is_finite (f64_val a) = true ∧ units (f64_val a) = k * grid.
Proof.
  unfold steps. pose proof (f64_val_canonical a) as Hc. destruct (f64_val a) as [s| | |s m e]; [by intros [= <-]|done|done|].
  destruct Hc as (_ & He & _). destruct (Z.leb_spec e (-5)); [|done]. destruct (Z.eqb_spec (Zpos m `mod` 2 ^ (- 5 - e)) 0) as [Hm|]; [|done].
  intros [= <-]. split; [done|]. cbn [units]. unfold grid.
  assert (0 < 2 ^ (- 5 - e)) by (apply Z.pow_pos_nonneg; lia).
  pose proof (Z.div_mod (Zpos m) (2 ^ (- 5 - e)) ltac:(lia)) as Hd. rewrite Hm, Z.add_0_r in Hd.
  replace (2 ^ 1069) with (2 ^ (- 5 - e) * 2 ^ (e + 1074)) by (rewrite <- Z.pow_add_r by lia; f_equal; lia).
  rewrite Hd at 1. destruct s; cbn [SpecFloat.cond_Zopp]; lia.
Qed.

Definition axis_on_grid (lo hi a b : Z) : bool := on_grid lo hi a && on_grid lo hi b && d_lt a b.

(** From a quarter of a block before its block to half a block past it. *)
Definition well_formed_box (b : Aabb) : bool :=
  axis_on_grid (-8) 48 (min_x b) (max_x b) && axis_on_grid (-8) 48 (box_min_y b) (max_y b)
  && axis_on_grid (-8) 48 (min_z b) (max_z b).

(** Within its block. *)
Definition unit_box (b : Aabb) : bool :=
  axis_on_grid 0 32 (min_x b) (max_x b) && axis_on_grid 0 32 (box_min_y b) (max_y b)
  && axis_on_grid 0 32 (min_z b) (max_z b).

Lemma grid_block z : z * one_unit = (32 * z) * grid.
Proof. rewrite one_unit_eq. unfold grid. change (2 ^ 1074) with (2 ^ (5 + 1069)). rewrite Z.pow_add_r by lia. lia. Qed.

(** A coordinate of a box in block [x] lies where exact arithmetic puts it. *)
Lemma moved_coord lo hi a x :
  on_grid lo hi a = true → -32 ≤ lo → hi ≤ 64 → i32_min ≤ x ≤ i32_max →
  is_finite (f64_val (d_add a (d_of_Z x))) = true
  ∧ x * one_unit + lo * grid ≤ units (f64_val (d_add a (d_of_Z x))) ≤ x * one_unit + hi * grid.
Proof.
  unfold on_grid, i32_min, i32_max. destruct (steps a) as [k|] eqn:Hk; [|done]. apply steps_units in Hk as [Hf Hu].
  rewrite !andb_true_iff, !Z.leb_le. intros [Hl Hh] Hlo Hhi Hx.
  destruct (d_of_Z_exact x ltac:(lia)) as [Hxf Hxu]. rewrite grid_block in Hxu.
  destruct (d_add_exact 1069 a (d_of_Z x) k (32 * x)) as [H1 H2];
    [lia|split_and!; [done|lia|done]|split_and!; [done|lia|done]|].
  split; [done|]. rewrite H2, grid_block. change (2 ^ 1069) with grid. assert (0 < grid) by (unfold grid; lia). nia.
Qed.

Lemma unit_axis area_min area_max a b x :
  axis_on_grid 0 32 a b = true → i32_min ≤ x < i32_max →
  d_lt (d_add a (d_of_Z x)) area_max = true → d_lt area_min (d_add b (d_of_Z x)) = true →
  d_floor_i32 area_min ≤ x < d_ceil_i32 area_max.
Proof.
  unfold axis_on_grid. rewrite !andb_true_iff. intros [[Ha Hb] _] Hx Hmax Hmin.
  destruct (moved_coord 0 32 a x Ha ltac:(lia) ltac:(lia) ltac:(lia)) as [Hfa Hua].
  destruct (moved_coord 0 32 b x Hb ltac:(lia) ltac:(lia) ltac:(lia)) as [Hfb Hub].
  split; [eapply d_floor_below; [exact Hmin|done| |lia]|eapply d_ceil_above; [exact Hmax|done| |lia]].
  - rewrite Z.mul_add_distr_r, Z.mul_1_l, (grid_block x) in *. replace one_unit with (32 * grid) by (rewrite (eq_sym (Z.mul_1_l one_unit)), grid_block; lia). lia.
  - lia.
Qed.

(** ** Queries *)

Definition overlaps (area b : Aabb) : bool := intersects_xz area b && intersects_yz area b.

Lemma range_spec lo hi x : x ∈ range lo hi ↔ lo ≤ x < hi.
Proof.
  unfold range. rewrite list_elem_of_fmap. split.
  - intros (i & -> & Hi%elem_of_seq). lia.
  - intros Hx. exists (Z.to_nat (x - lo)). rewrite elem_of_seq. lia.
Qed.

Lemma touched_spec area x y z :
  (x, y, z) ∈ touched area ↔
  d_floor_i32 (min_x area) ≤ x < d_ceil_i32 (max_x area) ∧ d_floor_i32 (box_min_y area) ≤ y < d_ceil_i32 (max_y area)
  ∧ d_floor_i32 (min_z area) ≤ z < d_ceil_i32 (max_z area).
Proof.
  unfold touched. split.
  - intros (y' & (z' & (x' & [= -> -> ->] & Hx)%list_elem_of_fmap & Hz)%list_elem_of_bind & Hy)%list_elem_of_bind.
    by rewrite !range_spec in *.
  - intros (Hx & Hy & Hz). apply list_elem_of_bind. exists y. split; [|by apply range_spec].
    apply list_elem_of_bind. exists z. split; [|by apply range_spec]. apply (list_elem_of_fmap_2 (λ x, (x, y, z))). by apply range_spec.
Qed.

Section query.
Context (data : CollisionData).

Abbreviation boxes_at shapes x y z := (map (λ s, moved s (d_of_Z x) (d_of_Z y) (d_of_Z z)) shapes).

Lemma gather_grows block ps out r : gather data block ps out = Ok (Some r) → ∀ b, b ∈ out → b ∈ r.
Proof.
  revert out. induction ps as [|[[x y] z] ps IH]; intros out; simpl; [by intros [= ->]|].
  destruct (block x y z) as [state|]; [|done]. destruct (collision_boxes data state) as [shapes|]; [|done].
  intros Hg b Hb. apply (IH _ Hg). set_solver.
Qed.

Lemma gather_finds block ps out r x y z state shapes :
  gather data block ps out = Ok (Some r) → (x, y, z) ∈ ps → block x y z = Some state →
  collision_boxes data state = Some shapes → ∀ b, b ∈ boxes_at shapes x y z → b ∈ r.
Proof.
  revert out. induction ps as [|[[x' y'] z'] ps IH]; intros out; simpl; [set_solver|].
  destruct (block x' y' z') as [state'|] eqn:Hb'; [|done]. destruct (collision_boxes data state') as [shapes'|] eqn:Hs'; [|done].
  intros Hg [[= -> -> ->]|Hin]%elem_of_cons Hb Hs b Hbin; [|by eapply IH].
  apply (gather_grows _ _ _ _ Hg). simplify_eq. set_solver.
Qed.

Lemma gather_sound block ps out r :
  gather data block ps out = Ok (Some r) →
  ∀ b, b ∈ r → b ∈ out ∨ ∃ x y z state shapes, (x, y, z) ∈ ps ∧ block x y z = Some state
    ∧ collision_boxes data state = Some shapes ∧ b ∈ boxes_at shapes x y z.
Proof.
  revert out. induction ps as [|[[x y] z] ps IH]; intros out; simpl; [intros [= ->]; auto|].
  destruct (block x y z) as [state|] eqn:Hb; [|done]. destruct (collision_boxes data state) as [shapes|] eqn:Hs; [|done].
  intros Hg b Hr. destruct (IH _ Hg b Hr) as [[Ho|Hn]%elem_of_app|(x' & y' & z' & st & sh & Hin & H)]; [by left|right..].
  - exists x, y, z, state, shapes. split_and!; [left|done..].
  - exists x', y', z', st, sh. by split; [right|].
Qed.

(** C11. A collision query is exact for boxes that stay within their block:
    when it completes, every such box that overlaps the area, as the
    comparisons of the clipping decide it, is among the boxes returned, and
    every box returned is a box of a block of the area. *)
Theorem collision_query_exact (w : World) (env : Env) (area : Aabb) (out : list Aabb) :
  world_collision_boxes data w env area = Ok (Some out) →
  (∀ x y z state shapes s,
    i32_min ≤ x < i32_max → i32_min ≤ y < i32_max → i32_min ≤ z < i32_max →
    block_state w env x y z = Some state → collision_boxes data state = Some shapes → s ∈ shapes → unit_box s = true →
    overlaps area (moved s (d_of_Z x) (d_of_Z y) (d_of_Z z)) = true →
    moved s (d_of_Z x) (d_of_Z y) (d_of_Z z) ∈ out)
  ∧ ∀ b, b ∈ out → ∃ x y z state shapes s, (x, y, z) ∈ touched area ∧ block_state w env x y z = Some state
    ∧ collision_boxes data state = Some shapes ∧ s ∈ shapes ∧ b = moved s (d_of_Z x) (d_of_Z y) (d_of_Z z).
Proof.
  intros Hq. split.
  - intros x y z state shapes s Hx Hy Hz Hb Hs Hin Hunit Hov.
    eapply gather_finds; [exact Hq| |exact Hb|exact Hs|by apply (list_elem_of_fmap_2 (λ s, moved s _ _ _))].
    unfold unit_box in Hunit. unfold overlaps, intersects_xz, intersects_yz in Hov. rewrite !andb_true_iff in *.
    destruct Hunit as [[Ux Uy] Uz], Hov as [[[[X1 X2] Z1] Z2] [[[Y1 Y2] _] _]].
    apply touched_spec. split; [exact (unit_axis _ _ _ _ _ Ux Hx X1 X2)|].
    split; [exact (unit_axis _ _ _ _ _ Uy Hy Y1 Y2)|exact (unit_axis _ _ _ _ _ Uz Hz Z1 Z2)].
  - intros b Hb. destruct (gather_sound _ _ _ _ Hq b Hb) as [H|(x & y & z & state & shapes & H1 & H2 & H3 & (s & -> & Hs)%list_elem_of_fmap)]; [set_solver|].
    by exists x, y, z, state, shapes, s.
Qed.
End query.

(** ** The tables *)

(** The coordinates that occur, most frequent first, with their steps. *)
Definition coordinates : list (Z * option Z) := Eval vm_compute in
  map (λ a, (a, steps a))
  [f_0_0; f_1_5; f_0_6875; f_0_3125; f_0_75; f_1_0; f_0_25; f_0_5625; f_0_4375; f_0_625; f_0_375;
   f_0_8125; f_0_1875; f_0_5; f_0_125; f_0_875; f_0_9375; f_0_0625; f_0_15625; f_0_34375; f_0_40625;
   f_0_59375; f_m0_25; f_1_25; f_m0_0625; f_0_09375].

Fixpoint known_steps (l : list (Z * option Z)) (a : Z) : option Z :=
  match l with [] => None | (x, k) :: l => if a =? x then k else known_steps l a end.
Definition ascending (a b : Z) : bool :=
  match known_steps coordinates a, known_steps coordinates b with
  | Some i, Some j => (-8 <=? i) && (i <? j) && (j <=? 48)
  | _, _ => false
  end.

Definition known_box (b : Aabb) : bool :=
  ascending (min_x b) (max_x b) && ascending (box_min_y b) (max_y b) && ascending (min_z b) (max_z b).

Definition shape_count : Z := Eval vm_compute in Z.of_nat (length (SHAPE_RANGES tables)).
Definition box_count : Z := Eval vm_compute in Z.of_nat (length (SHAPE_BOXES tables)).

Definition range_in_table (r : Z * Z) : bool := (0 <=? r.1) && (0 <=? r.2) && (r.1 + r.2 <=? box_count).
Definition shape_in_table (shape : Z) : bool := (0 <=? shape) && (shape <? shape_count).
Definition friction_ok (f : Z * Z * Z) : bool := d_lt DEFAULT_FRICTION (d_of_s f.2) && d_lt (d_of_s f.2) (d_of_Z 1).

Lemma coordinates_steps : map (λ '(a, _), (a, steps a)) coordinates = coordinates.
Proof. by vm_compute. Qed.
Lemma boxes_known : forallb known_box (SHAPE_BOXES tables) = true.
Proof. by vm_compute. Qed.
Lemma ranges_in_table : forallb range_in_table (SHAPE_RANGES tables) = true.
Proof. by vm_compute. Qed.
Lemma shapes_in_table : forallb shape_in_table (STATE_SHAPES tables) = true.
Proof. by vm_compute. Qed.
Lemma table_sizes :
  Z.of_nat (length (STATE_SHAPES tables)) = STATE_COUNT ∧ Z.of_nat (length (SHAPE_RANGES tables)) = shape_count
  ∧ Z.of_nat (length (SHAPE_BOXES tables)) = box_count.
Proof. by vm_compute. Qed.

Lemma known_steps_sound a k : known_steps coordinates a = Some k → steps a = Some k.
Proof.
  rewrite <- coordinates_steps. generalize coordinates. intros l. induction l as [|[x o] l IH]; simpl; [done|].
  by destruct (Z.eqb_spec a x) as [->|].
Qed.

Lemma ascending_on_grid a b : ascending a b = true → axis_on_grid (-8) 48 a b = true.
Proof.
  unfold ascending, axis_on_grid, on_grid. destruct (known_steps coordinates a) as [i|] eqn:Ha; [|done].
  destruct (known_steps coordinates b) as [j|] eqn:Hb; [|done]. apply known_steps_sound in Ha, Hb.
  destruct (steps_units a i Ha) as [Fa Ua], (steps_units b j Hb) as [Fb Ub]. rewrite Ha, Hb, d_lt_units by done.
  rewrite !andb_true_iff, !Z.leb_le, !Z.ltb_lt, Ua, Ub. assert (0 < grid) by (unfold grid; lia). nia.
Qed.

Lemma box_well_formed b : b ∈ SHAPE_BOXES tables → well_formed_box b = true.
Proof.
  intros Hb%list_elem_of_In. pose proof boxes_known as H. rewrite forallb_forall in H. specialize (H b Hb).
  unfold known_box, well_formed_box in *. rewrite !andb_true_iff in *. destruct H as [[H1 H2] H3].
  exact (conj (conj (ascending_on_grid _ _ H1) (ascending_on_grid _ _ H2)) (ascending_on_grid _ _ H3)).
Qed.

Lemma frictions_ok : forallb friction_ok (FRICTION_OVERRIDES tables) = true.
Proof. by vm_compute. Qed.

Lemma lookup_In {A} (P : A → bool) (l : list A) i :
  forallb P l = true → 0 ≤ i < Z.of_nat (length l) → ∃ x, l !! Z.to_nat i = Some x ∧ P x = true.
Proof.
  intros Hl Hi. destruct (lookup_lt_is_Some_2 l (Z.to_nat i) ltac:(lia)) as [x Hx]. exists x. split; [done|].
  rewrite forallb_forall in Hl. by apply Hl, list_elem_of_In, (list_elem_of_lookup_2 _ (Z.to_nat i)).
Qed.

(** C35. The generated tables are sound: every block state of the version has
    its boxes, each a non-empty box of finite coordinates on the grid of 1/32,
    no further than half a block out of its block; a state id beyond them has
    none; and a friction is the default one or lies between it and 1. *)
Theorem collision_tables_sound (state : Z) :
  (0 ≤ state < STATE_COUNT →
    ∃ shapes, collision_boxes tables state = Some shapes ∧ ∀ b, b ∈ shapes → well_formed_box b = true)
  ∧ (STATE_COUNT ≤ state → collision_boxes tables state = None)
  ∧ (block_friction tables state = DEFAULT_FRICTION
     ∨ d_lt DEFAULT_FRICTION (block_friction tables state) = true ∧ d_lt (block_friction tables state) (d_of_Z 1) = true).
Proof.
  destruct table_sizes as (Hs & Hr & Hb). split_and!.
  - intros Hstate. unfold collision_boxes.
    destruct (lookup_In _ _ state shapes_in_table) as (shape & -> & H1); [by rewrite Hs|].
    unfold shape_in_table in H1. apply andb_true_iff in H1 as [H1%Z.leb_le H2%Z.ltb_lt]. cbn [mbind option_bind].
    destruct (lookup_In _ _ shape ranges_in_table) as ([start count] & -> & H3); [by rewrite Hr|].
    unfold range_in_table in H3. cbn [fst snd mbind option_bind] in *. rewrite !andb_true_iff, !Z.leb_le in H3.
    unfold shape_boxes. rewrite Hb, !(proj2 (Z.leb_le _ _)) by lia. eexists. split; [reflexivity|].
    intros b Hbin. apply box_well_formed. apply elem_of_take in Hbin as (i & Hi & _). rewrite lookup_drop in Hi. by eapply list_elem_of_lookup_2.
  - intros Hstate. unfold collision_boxes. by rewrite lookup_ge_None_2 by lia.
  - unfold block_friction. destruct (List.find _ _) as [[[lo hi] f]|] eqn:Hf; [|by left]. right.
    apply List.find_some in Hf as [Hin _]. pose proof frictions_ok as H. rewrite forallb_forall in H.
    specialize (H _ Hin). unfold friction_ok in H. by apply andb_true_iff in H.
Qed.

Lemma collision_tables_sound_witness :
  0 ≤ 6017 < STATE_COUNT ∧ STATE_COUNT ≤ 27866
  ∧ is_Some (collision_boxes tables 6017) ∧ collision_boxes tables 27866 = None.
Proof.
  assert (0 ≤ 6017 < STATE_COUNT) as H1 by (split; [discriminate|reflexivity]).
  assert (STATE_COUNT ≤ 27866) as H2 by discriminate.
  destruct (proj1 (collision_tables_sound 6017) H1) as (shapes & Hs & _).
  split; [exact H1|]. split; [exact H2|]. split; [by exists shapes|].
  exact (proj1 (proj2 (collision_tables_sound 27866)) H2).
Defined.

(** ** Boxes that reach out of their block *)

(** A chunk whose lower half is full of one block, up to height 16, and a
    player that is dropped from a block above. *)
Definition ground_world : World := mkWorld (mkDimension "ground" 0 32 32 f64_one false false) {[(0, 0) := 0%nat]} None.
Definition ground_env (state : Z) : Env :=
  mkEnv (mkHeap {[0%nat := mkSnapshot 0 0 [mkSection 4096 (Single state) (Single 0); mkSection 0 (Single 0) (Single 0)]
    (NbtCompound []) [] (mkLight [] [] [] [] [] [])]} 1) (with_limits 1 1 1).
Definition dropped (state : Z) (n : nat) : LocalPlayer :=
  Nat.iter n (λ p, (tick_physics coarse_sin tables ground_world (ground_env state) p).2)
    (mark_loaded (put_position (mkPosition (d_lit 85 1) (d_of_Z 17) (d_lit 85 1) f32_zero f32_zero) local_player_new)).

(** The default states of stone and of an oak fence. *)
Definition stone : Z := 1.
Definition oak_fence : Z := 6017.

(** A fence is one and a half blocks high, but a query starts at the block its
    area reaches into: it misses the fence below, although their boxes
    overlap, and a player lands on stone but falls through fences. *)
Lemma fence_missed :
  let area := mkAabb (d_lit 82 1) (d_lit 163 1) (d_lit 82 1) (d_lit 88 1) (d_lit 182 1) (d_lit 88 1) in
  (∃ post, collision_boxes tables oak_fence = Some [post] ∧ well_formed_box post = true
   ∧ overlaps area (moved post (d_of_Z 8) (d_of_Z 15) (d_of_Z 8)) = true)
  ∧ world_collision_boxes tables ground_world (ground_env oak_fence) area = Ok (Some [])
  ∧ p_y (lp_position (dropped stone 10)) = d_of_Z 16
  ∧ d_lt (p_y (lp_position (dropped oak_fence 10))) (d_of_Z 16) = true.
Proof.
  split; [|by vm_compute]. eexists. split; [by vm_compute|]. by vm_compute.
Qed.

Lemma collision_query_exact_witness :
  let area := mkAabb (d_lit 82 1) (d_lit 153 1) (d_lit 82 1) (d_lit 88 1) (d_lit 172 1) (d_lit 88 1) in
  let s := mkAabb 0 0 0 (d_of_Z 1) (d_of_Z 1) (d_of_Z 1) in
  ∃ out, world_collision_boxes tables ground_world (ground_env stone) area = Ok (Some out)
  ∧ moved s (d_of_Z 8) (d_of_Z 15) (d_of_Z 8) ∈ out.
Proof.
  set (area := mkAabb _ _ _ _ _ _). set (s := mkAabb _ _ _ _ _ _). cbv zeta.
  assert (world_collision_boxes tables ground_world (ground_env stone) area = Ok (Some [moved s (d_of_Z 8) (d_of_Z 15) (d_of_Z 8)]))
    as Hq by (vm_compute; reflexivity).
  exists [moved s (d_of_Z 8) (d_of_Z 15) (d_of_Z 8)]. split; [exact Hq|].
  refine (proj1 (collision_query_exact tables ground_world (ground_env stone) area _ Hq) 8 15 8 stone [s] s _ _ _ _ _ _ _ _);
    [split; [discriminate|reflexivity]..|vm_compute; reflexivity|vm_compute; reflexivity|left|vm_compute; reflexivity|vm_compute; reflexivity].
Defined.
