(* ===== verification/Steering.v ===== *)
(** * Steering

    The half of [src/minecraft/control.rs] that moves the player: the walk
    goal, random looks and [Controller::drive], which folds them into the
    input and facing of one tick.  The random numbers and [atan2] are
    parameters. *)

From S2P Require Import Prelude Machine Float Physics Control Player.

Local Open Scope Z_scope.

Definition ARRIVAL_RADIUS : Z := d_lit 3 1.
Definition PITCH_MIN : Z := s_of_Z (-90).
Definition PITCH_MAX : Z := s_of_Z 90.

Section steering.
Context {Rng : Type} (gen_range : Z → Z → Rng → Z * Rng).
(** [gen_range] on [f32] and [f64::atan2]. *)
Context (gen_f32 : Z → Z → Rng → Z * Rng) (atan2 : Z → Z → Z).

(** [(-dx).atan2(dz).to_degrees() as f32] *)
Definition yaw_toward (dx dz : Z) : Z :=
  s_of_d (d_mul (atan2 (d_neg dx) dz) (d_div (d_of_Z 180) d_pi)).

Definition put_random_look (r : option (@RandomLookRuntime Rng)) (c : @Controller Rng) : @Controller Rng :=
  mkController (manual c) (goal c) (held_forward c) (held_backward c) (held_left c) (held_right c) r.

(** The orientation a random look chooses. *)
Definition choose_look (config : RandomLookConfig) (yaw : Z) (rng : Rng) : Z * Z * Rng :=
  let '(yaw_delta, rng) :=
    if s_lt f32_zero (max_yaw_delta config) then gen_f32 (s_neg (max_yaw_delta config)) (max_yaw_delta config) rng
    else (f32_zero, rng) in
  let wrapped_yaw := s_sub (s_rem_euclid (s_add (s_add yaw yaw_delta) (s_of_Z 180)) (s_of_Z 360)) (s_of_Z 180) in
  let min_pitch := s_clamp PITCH_MIN PITCH_MAX (min_pitch config) in
  let max_pitch := s_max (s_clamp PITCH_MIN PITCH_MAX (max_pitch config)) min_pitch in
  let '(pitch, rng) := if s_lt min_pitch max_pitch then gen_f32 min_pitch max_pitch rng else (min_pitch, rng) in
  (wrapped_yaw, pitch, rng).

Definition tick_random_look (c : @Controller Rng) (p : LocalPlayer) : @Controller Rng * LocalPlayer :=
  match random_look c with
  | None => (c, p)
  | Some state =>
      if 0 <? ticks_until_next state then
        (put_random_look (Some (mkLookRuntime (look_config state) (look_rng state) (ticks_until_next state - 1))) c, p)
      else
        let '(yaw, pitch, rng) := choose_look (look_config state) (p_yaw (lp_position p)) (look_rng state) in
        let '(ticks, rng) := random_interval_ticks gen_range (look_config state) rng in
        (put_random_look (Some (mkLookRuntime (look_config state) rng ticks)) c, put_facing yaw pitch p)
  end.

Definition apply_look (yaw pitch : Z) (p : LocalPlayer) : LocalPlayer := put_facing yaw pitch p.

(** The manual input with the impulses of a walk. *)
Definition walking_input (forward : Z) (i : MovementInput) : MovementInput :=
  mkInput forward f32_zero (jump i) (sprint i) (sneak i).

Definition drive (c : @Controller Rng) (p : LocalPlayer) : @Controller Rng * LocalPlayer :=
  match goal c with
  | None => tick_random_look c (put_input (manual c) p)
  | Some (tx, tz) =>
      let dx := d_sub tx (p_x (lp_position p)) in
      let dz := d_sub tz (p_z (lp_position p)) in
      if d_le (d_add (d_mul dx dx) (d_mul dz dz)) (d_mul ARRIVAL_RADIUS ARRIVAL_RADIUS) then
        tick_random_look (set_goal None c) (put_input (walking_input f32_zero (manual c)) p)
      else
        tick_random_look c
          (put_input (walking_input f32_one (manual c)) (put_facing (yaw_toward dx dz) (p_pitch (lp_position p)) p))
  end.

(** Steering turns the player and sets its input, and nothing else. *)
Lemma tick_random_look_facing c p :
  ∃ yaw pitch, (tick_random_look c p).2 = put_facing yaw pitch p ∨ (tick_random_look c p).2 = p.
Proof.
  unfold tick_random_look. destruct (random_look c) as [state|]; [|exists 0, 0; by right].
  destruct (0 <? ticks_until_next state); [exists 0, 0; by right|].
  destruct (choose_look _ _ _) as [[yaw pitch] rng]. destruct (random_interval_ticks _ _ _) as [ticks rng']. exists yaw, pitch. by left.
Qed.
End steering.
