(* ===== verification/PlayWire.v ===== *)
(** * Packets of the play loop

    The packet ids [src/minecraft/play.rs] dispatches on, and the generated
    codecs ([generated/v1_21_4]) it uses whose fields are discriminated,
    packed or hold item slots.  The codec of a slot is a parameter. *)

From S2P Require Import Prelude Machine Reader Varint Utf8 Buffer Wire Nbt PacketTypes Palette Chunk ChunkStore Dimension World Inventory ScoreboardWire Join.

Local Open Scope Z_scope.

Definition CLIENTBOUND_SPAWN_ENTITY_ID : Z := 1.
Definition CLIENTBOUND_TILE_ENTITY_DATA_ID : Z := 7.
Definition CLIENTBOUND_BLOCK_CHANGE_ID : Z := 9.
Definition CLIENTBOUND_CHUNK_BATCH_FINISHED_ID : Z := 12.
Definition CLIENTBOUND_CHUNK_BATCH_START_ID : Z := 13.
Definition CLIENTBOUND_CLOSE_WINDOW_ID : Z := 18.
Definition CLIENTBOUND_WINDOW_ITEMS_ID : Z := 19.
Definition CLIENTBOUND_CRAFT_PROGRESS_BAR_ID : Z := 20.
Definition CLIENTBOUND_SET_SLOT_ID : Z := 21.
Definition CLIENTBOUND_CUSTOM_PAYLOAD_ID : Z := 25.
Definition CLIENTBOUND_SYNC_ENTITY_POSITION_ID : Z := 32.
Definition CLIENTBOUND_UNLOAD_CHUNK_ID : Z := 34.
Definition CLIENTBOUND_GAME_STATE_CHANGE_ID : Z := 35.
Definition CLIENTBOUND_KEEP_ALIVE_ID : Z := 39.
Definition CLIENTBOUND_MAP_CHUNK_ID : Z := 40.
Definition CLIENTBOUND_UPDATE_LIGHT_ID : Z := 43.
Definition CLIENTBOUND_LOGIN_ID : Z := 44.
Definition CLIENTBOUND_REL_ENTITY_MOVE_ID : Z := 47.
Definition CLIENTBOUND_ENTITY_MOVE_LOOK_ID : Z := 48.
Definition CLIENTBOUND_ENTITY_LOOK_ID : Z := 50.
Definition CLIENTBOUND_OPEN_WINDOW_ID : Z := 53.
Definition CLIENTBOUND_PING_ID : Z := 55.
Definition CLIENTBOUND_PLAYER_REMOVE_ID : Z := 63.
Definition CLIENTBOUND_PLAYER_INFO_ID : Z := 64.
Definition CLIENTBOUND_POSITION_ID : Z := 66.
Definition CLIENTBOUND_ENTITY_DESTROY_ID : Z := 71.
Definition CLIENTBOUND_REMOVE_RESOURCE_PACK_ID : Z := 74.
Definition CLIENTBOUND_ADD_RESOURCE_PACK_ID : Z := 75.
Definition CLIENTBOUND_RESPAWN_ID : Z := 76.
Definition CLIENTBOUND_ENTITY_HEAD_ROTATION_ID : Z := 77.
Definition CLIENTBOUND_MULTI_BLOCK_CHANGE_ID : Z := 78.
Definition CLIENTBOUND_SET_CURSOR_ITEM_ID : Z := 90.
Definition CLIENTBOUND_ENTITY_VELOCITY_ID : Z := 95.
Definition CLIENTBOUND_EXPERIENCE_ID : Z := 97.
Definition CLIENTBOUND_UPDATE_HEALTH_ID : Z := 98.
Definition CLIENTBOUND_HELD_ITEM_SLOT_ID : Z := 99.
Definition CLIENTBOUND_SET_PLAYER_INVENTORY_ID : Z := 102.
Definition CLIENTBOUND_UPDATE_TIME_ID : Z := 107.
Definition CLIENTBOUND_START_CONFIGURATION_ID : Z := 112.
Definition CLIENTBOUND_ENTITY_TELEPORT_ID : Z := 119.
Definition SERVERBOUND_TELEPORT_CONFIRM_ID : Z := 0.
Definition SERVERBOUND_CHAT_COMMAND_ID : Z := 5.
Definition SERVERBOUND_CHAT_MESSAGE_ID : Z := 7.
Definition SERVERBOUND_CHUNK_BATCH_RECEIVED_ID : Z := 9.
Definition SERVERBOUND_CLIENT_COMMAND_ID : Z := 10.
Definition SERVERBOUND_TICK_END_ID : Z := 11.
Definition SERVERBOUND_CONFIGURATION_ACKNOWLEDGED_ID : Z := 14.
Definition SERVERBOUND_WINDOW_CLICK_ID : Z := 16.
Definition SERVERBOUND_CLOSE_WINDOW_ID : Z := 17.
Definition SERVERBOUND_USE_ENTITY_ID : Z := 24.
Definition SERVERBOUND_KEEP_ALIVE_ID : Z := 26.
Definition SERVERBOUND_POSITION_ID : Z := 28.
Definition SERVERBOUND_POSITION_LOOK_ID : Z := 29.
Definition SERVERBOUND_LOOK_ID : Z := 30.
Definition SERVERBOUND_FLYING_ID : Z := 31.
Definition SERVERBOUND_BLOCK_DIG_ID : Z := 39.
Definition SERVERBOUND_PLAYER_INPUT_ID : Z := 41.
Definition SERVERBOUND_PLAYER_LOADED_ID : Z := 42.
Definition SERVERBOUND_PONG_ID : Z := 43.
Definition SERVERBOUND_RESOURCE_PACK_RECEIVE_ID : Z := 47.
Definition SERVERBOUND_HELD_ITEM_SLOT_ID : Z := 51.
Definition SERVERBOUND_ARM_ANIMATION_ID : Z := 58.
Definition SERVERBOUND_BLOCK_PLACE_ID : Z := 60.
Definition SERVERBOUND_USE_ITEM_ID : Z := 61.

(** ** From the server *)

Record PacketCustomPayload : Type := mkCustomPayload { cp_channel : string; cp_data : list byte }.

Definition decode_custom_payload : Read PacketCustomPayload :=
  let* channel := decode wire_String in
  let* data := read_rest in
  ret (mkCustomPayload channel data).

(** The two nibbles of [ChunkBlockEntityValue], then the entity. *)
Definition decode_chunk_block_entity : Read ChunkBlockEntity :=
  let* raw := get_u8 in
  let* y := decode wire_i16 in
  let* kind := read_varint in
  let* nbt_data := read_optional in
  ret (mkChunkBlockEntity (Z.land (Z.shiftr raw 4) 0xf) (Z.land raw 0xf) y kind nbt_data).

(** [Vec<u8>]: each byte through the codec of [u8]. *)
Definition decode_bytes : Read (list byte) :=
  let* l := decode (wire_Vec wire_u8) in ret (map byte_of_Z l).

Definition decode_map_chunk : Read PacketMapChunk :=
  let* x := get_i32 in
  let* z := get_i32 in
  let* heightmaps := nbt_decode in
  let* chunk_data := decode_bytes in
  let* block_entities := read_array decode_chunk_block_entity in
  let* sky_light_mask := read_array get_i64 in
  let* block_light_mask := read_array get_i64 in
  let* empty_sky_light_mask := read_array get_i64 in
  let* empty_block_light_mask := read_array get_i64 in
  let* sky_light := read_array decode_bytes in
  let* block_light := read_array decode_bytes in
  ret (mkMapChunk x z heightmaps chunk_data block_entities sky_light_mask block_light_mask
         empty_sky_light_mask empty_block_light_mask sky_light block_light).

(** [(bits as i64) << (64 - n) >> (64 - n)]: the sign of an [n]-bit field. *)
Definition sign_extend (n : Z) (bits : Z) : Z := swrap n bits.

Definition decode_chunk_coordinates : Read (Z * Z * Z) :=
  let* raw := get_u64 in
  ret (sign_extend 22 (Z.land (Z.shiftr raw 42) 0x3fffff), sign_extend 22 (Z.land (Z.shiftr raw 20) 0x3fffff),
       sign_extend 20 (Z.land raw 0xfffff)).

Definition decode_multi_block_change : Read PacketMultiBlockChange :=
  let* c := decode_chunk_coordinates in
  let* records := read_array read_varint in
  let '(x, z, y) := c in ret (mkMultiBlockChange x z y records).

Definition decode_tile_entity_data : Read PacketTileEntityData :=
  let* location := decode wire_Position in
  let* action := read_varint in
  let* nbt_data := read_optional in
  ret (mkTileEntityData location action nbt_data).

(** ** Item slots *)

Section slots.
Context {Slot : Type} (wire_Slot : Codec Slot).

Record PacketWindowItems : Type := mkWindowItems { wi_window_id : Z; wi_state_id : Z; wi_items : list Slot; wi_carried_item : Slot }.

Definition decode_window_items : Read PacketWindowItems :=
  let* window_id := read_varint in
  let* state_id := read_varint in
  let* items := decode (wire_Vec wire_Slot) in
  let* carried_item := decode wire_Slot in
  ret (mkWindowItems window_id state_id items carried_item).

Record PacketSetSlot : Type := mkSetSlot { ss_window_id : Z; ss_state_id : Z; ss_slot : Z; ss_item : Slot }.

Definition decode_set_slot : Read PacketSetSlot :=
  let* window_id := read_varint in
  let* state_id := read_varint in
  let* slot := decode wire_i16 in
  let* item := decode wire_Slot in
  ret (mkSetSlot window_id state_id slot item).

(** [PacketSetCursorItem] has the slot as its only field. *)
Definition decode_set_cursor_item : Read Slot := decode wire_Slot.

Record PacketSetPlayerInventory : Type := mkSetPlayerInventory { pi_slot_id : Z; pi_contents : Slot }.

Definition decode_set_player_inventory : Read PacketSetPlayerInventory :=
  let* slot_id := read_varint in
  let* contents := decode wire_Slot in
  ret (mkSetPlayerInventory slot_id contents).

Definition wire_changed_slot : Codec (Z * Slot) := {|
  encode p := encode wire_i16 p.1 ;;; encode wire_Slot p.2;
  decode := let* location := decode wire_i16 in let* item := decode wire_Slot in ret (location, item);
|}.

Definition encode_window_click (p : PacketWindowClick Slot) : Write :=
  modify (write_varint (pk_window p)) ;;;
  modify (write_varint (pk_state p)) ;;;
  encode wire_i16 (pk_slot p) ;;;
  encode wire_i8 (pk_button p) ;;;
  modify (write_varint (pk_mode p)) ;;;
  encode (wire_Vec wire_changed_slot) (pk_changed p) ;;;
  encode wire_Slot (pk_cursor p).
End slots.

(** ** To the server *)

Record PacketUseEntity : Type := mkUseEntity {
  ue_target : Z;
  ue_mouse : Z;
  ue_x : switch Z;
  ue_y : switch Z;
  ue_z : switch Z;
  ue_hand : switch Z;
  ue_sneaking : bool;
}.

(** A field that is there exactly for the [cases] of the discriminant; a
    mismatch is an error of the encoder. *)
Definition encode_switch {A} (cases : list Z) (discriminant : Z) (put : A → Write) (v : switch A) : Write :=
  match v with
  | V case value => if (case =? discriminant) && bool_decide (case ∈ cases) then put value else raise InvalidData
  | Default => if bool_decide (discriminant ∈ cases) then raise InvalidData else ret tt
  end.

Definition encode_use_entity (p : PacketUseEntity) : Write :=
  modify (write_varint (ue_target p)) ;;;
  modify (write_varint (ue_mouse p)) ;;;
  encode_switch [2] (ue_mouse p) (encode wire_f32) (ue_x p) ;;;
  encode_switch [2] (ue_mouse p) (encode wire_f32) (ue_y p) ;;;
  encode_switch [2] (ue_mouse p) (encode wire_f32) (ue_z p) ;;;
  encode_switch [0; 2] (ue_mouse p) (λ v, modify (write_varint v)) (ue_hand p) ;;;
  encode wire_bool (ue_sneaking p).

Record PacketChatMessage : Type := mkChatMessage {
  cm_message : string;
  cm_timestamp : Z;
  cm_salt : Z;
  cm_signature : option (list byte);
  cm_offset : Z;
  cm_acknowledged : list byte;
}.

(** A byte field of a fixed length. *)
Definition put_exact (n : nat) (bs : list byte) : Write :=
  if bool_decide (length bs = n) then modify (put_bytes bs) else raise InvalidData.

Definition encode_chat_message (p : PacketChatMessage) : Write :=
  encode wire_String (cm_message p) ;;;
  modify (put_i64 (cm_timestamp p)) ;;;
  modify (put_i64 (cm_salt p)) ;;;
  modify (put_bool (bool_decide (is_Some (cm_signature p)))) ;;;
  (match cm_signature p with Some v => put_exact 256 v | None => ret tt end) ;;;
  modify (write_varint (cm_offset p)) ;;;
  put_exact 3 (cm_acknowledged p).
