(* ===== verification/Play.v ===== *)
(** * The play session

    [src/minecraft/play.rs]: everything a bot does once it has joined.  One
    [PlayState] holds the components of the other files; a packet from the
    server, a command from the bot's owner or a tick of the clock runs its
    handler, which answers through the [Link], changes the state and
    broadcasts events.  Log lines are not kept.  The random numbers, the
    mathematical functions and the codec of an item slot are parameters; what
    one input draws from outside (the time, the payload of a download, the
    chunk payloads other clients have dropped) comes with it as a [Moment]. *)

From S2P Require Import Prelude Machine Float Reader Varint Utf8 Buffer Wire Nbt PacketTypes PlayPackets PlayPacketsOut Text Entity Players ChunkBatch Codec Errors Connection Link ResourcePack Inventory Scoreboard ScoreboardWire Hud HudWire Presentation PresentationWire Event Dimension Join Palette Chunk ChunkStore World Physics Control Player Steering PlayWire.

Local Open Scope Z_scope.

Definition RESPAWN_ACTION_ID : Z := 0.
Definition GAME_STATE_BEGIN_RAINING : Z := 1.
Definition GAME_STATE_END_RAINING : Z := 2.
Definition BLOCK_DIG_START_DESTROY : Z := 0.
Definition BLOCK_DIG_ABORT_DESTROY : Z := 1.
Definition BLOCK_DIG_STOP_DESTROY : Z := 2.
Definition BLOCK_DIG_DROP_ALL_ITEMS : Z := 3.
Definition BLOCK_DIG_DROP_ITEM : Z := 4.
Definition BLOCK_DIG_RELEASE_USE_ITEM : Z := 5.
Definition BLOCK_DIG_SWAP_ITEM_WITH_OFFHAND : Z := 6.
Definition USE_ENTITY_INTERACT : Z := 0.
Definition USE_ENTITY_ATTACK : Z := 1.
Definition USE_ENTITY_INTERACT_AT : Z := 2.

(** How a session ends: with an error, or with a panic of the standard
    library ([f64::clamp] on an empty range). *)
Inductive PlayError : Type := Fails (e : MineRiderError) | Panics.

(** What a session uses of the libraries. *)
Record Library (Rng : Type) : Type := mkLibrary {
  lib_sin : Z → Z;
  lib_atan2 : Z → Z → Z;
  lib_seed : Z → Rng;
  lib_range : Z → Z → Rng → Z * Rng;
  lib_range_f32 : Z → Z → Rng → Z * Rng;
  lib_collision : CollisionData;
  lib_url : string → option Url;
  lib_sha1 : list byte → list byte;
}.
Arguments lib_sin {Rng} _. Arguments lib_atan2 {Rng} _. Arguments lib_seed {Rng} _. Arguments lib_range {Rng} _.
Arguments lib_range_f32 {Rng} _. Arguments lib_collision {Rng} _. Arguments lib_url {Rng} _. Arguments lib_sha1 {Rng} _.

(** What one input draws from outside: the monotonic clock in nanoseconds,
    the dropped payloads, the downloads, the wall clock in milliseconds, a
    random salt and fresh entropy. *)
Record Moment (Rng : Type) : Type := mkMoment {
  at_now : Z;
  at_lost : gset nat;
  at_fetch : nat → Fetch;
  at_unix_millis : Z;
  at_salt : Z;
  at_entropy : Rng;
}.
Arguments at_now {Rng} _. Arguments at_lost {Rng} _. Arguments at_fetch {Rng} _.
Arguments at_unix_millis {Rng} _. Arguments at_salt {Rng} _. Arguments at_entropy {Rng} _.

Section play.
Context {J Slot Rng : Type} (empty_slot : Slot) (wire_Slot : Codec Slot) (L : Library Rng).

(** ** State *)

Record PlayState : Type := mkPlayState {
  ps_player : LocalPlayer;
  ps_entities : EntityStore;
  ps_inventory : InventoryState Slot;
  ps_players : gmap Z (@PlayerEntry J);
  ps_presentation : @PresentationState J;
  ps_scoreboard : ScoreboardState (TextComponent J);
  ps_hud : @HudState J Slot;
  ps_world_time : Z;
  ps_raining : bool;
  ps_controller : @Controller Rng;
  ps_clock : Z;
  ps_events : list (BotEvent J Slot);  (* what was broadcast, oldest first *)
  ps_received_position : bool;
  ps_dimension : option DimensionType;
  ps_world : option World;
  ps_world_sharing : option ServerIdentity;
  ps_respawn_pending : bool;
  ps_was_alive : bool;
  ps_next_action_sequence : Z;
  ps_last_player_input : Z;
  ps_chunk_batch : ChunkBatchSizeCalculator;
  ps_chunk_batch_started_at : option Z;
  ps_server_brand : option string;
}.
Implicit Types s : PlayState.

Definition with_player v s : PlayState :=
  mkPlayState v (ps_entities s) (ps_inventory s) (ps_players s) (ps_presentation s) (ps_scoreboard s) (ps_hud s) (ps_world_time s)
    (ps_raining s) (ps_controller s) (ps_clock s) (ps_events s) (ps_received_position s) (ps_dimension s) (ps_world s)
    (ps_world_sharing s) (ps_respawn_pending s) (ps_was_alive s) (ps_next_action_sequence s) (ps_last_player_input s)
    (ps_chunk_batch s) (ps_chunk_batch_started_at s) (ps_server_brand s).
Definition with_entities v s : PlayState :=
  mkPlayState (ps_player s) v (ps_inventory s) (ps_players s) (ps_presentation s) (ps_scoreboard s) (ps_hud s) (ps_world_time s)
    (ps_raining s) (ps_controller s) (ps_clock s) (ps_events s) (ps_received_position s) (ps_dimension s) (ps_world s)
    (ps_world_sharing s) (ps_respawn_pending s) (ps_was_alive s) (ps_next_action_sequence s) (ps_last_player_input s)
    (ps_chunk_batch s) (ps_chunk_batch_started_at s) (ps_server_brand s).
Definition with_inventory v s : PlayState :=
  mkPlayState (ps_player s) (ps_entities s) v (ps_players s) (ps_presentation s) (ps_scoreboard s) (ps_hud s) (ps_world_time s)
    (ps_raining s) (ps_controller s) (ps_clock s) (ps_events s) (ps_received_position s) (ps_dimension s) (ps_world s)
    (ps_world_sharing s) (ps_respawn_pending s) (ps_was_alive s) (ps_next_action_sequence s) (ps_last_player_input s)
    (ps_chunk_batch s) (ps_chunk_batch_started_at s) (ps_server_brand s).
Definition with_players v s : PlayState :=
  mkPlayState (ps_player s) (ps_entities s) (ps_inventory s) v (ps_presentation s) (ps_scoreboard s) (ps_hud s) (ps_world_time s)
    (ps_raining s) (ps_controller s) (ps_clock s) (ps_events s) (ps_received_position s) (ps_dimension s) (ps_world s)
    (ps_world_sharing s) (ps_respawn_pending s) (ps_was_alive s) (ps_next_action_sequence s) (ps_last_player_input s)
    (ps_chunk_batch s) (ps_chunk_batch_started_at s) (ps_server_brand s).
Definition with_presentation v s : PlayState :=
  mkPlayState (ps_player s) (ps_entities s) (ps_inventory s) (ps_players s) v (ps_scoreboard s) (ps_hud s) (ps_world_time s)
    (ps_raining s) (ps_controller s) (ps_clock s) (ps_events s) (ps_received_position s) (ps_dimension s) (ps_world s)
    (ps_world_sharing s) (ps_respawn_pending s) (ps_was_alive s) (ps_next_action_sequence s) (ps_last_player_input s)
    (ps_chunk_batch s) (ps_chunk_batch_started_at s) (ps_server_brand s).
Definition with_scoreboard v s : PlayState :=
  mkPlayState (ps_player s) (ps_entities s) (ps_inventory s) (ps_players s) (ps_presentation s) v (ps_hud s) (ps_world_time s)
    (ps_raining s) (ps_controller s) (ps_clock s) (ps_events s) (ps_received_position s) (ps_dimension s) (ps_world s)
    (ps_world_sharing s) (ps_respawn_pending s) (ps_was_alive s) (ps_next_action_sequence s) (ps_last_player_input s)
    (ps_chunk_batch s) (ps_chunk_batch_started_at s) (ps_server_brand s).
Definition with_hud v s : PlayState :=
  mkPlayState (ps_player s) (ps_entities s) (ps_inventory s) (ps_players s) (ps_presentation s) (ps_scoreboard s) v
    (ps_world_time s) (ps_raining s) (ps_controller s) (ps_clock s) (ps_events s) (ps_received_position s) (ps_dimension s)
    (ps_world s) (ps_world_sharing s) (ps_respawn_pending s) (ps_was_alive s) (ps_next_action_sequence s) (ps_last_player_input s)
    (ps_chunk_batch s) (ps_chunk_batch_started_at s) (ps_server_brand s).
Definition with_world_time v s : PlayState :=
  mkPlayState (ps_player s) (ps_entities s) (ps_inventory s) (ps_players s) (ps_presentation s) (ps_scoreboard s) (ps_hud s) v
    (ps_raining s) (ps_controller s) (ps_clock s) (ps_events s) (ps_received_position s) (ps_dimension s) (ps_world s)
    (ps_world_sharing s) (ps_respawn_pending s) (ps_was_alive s) (ps_next_action_sequence s) (ps_last_player_input s)
    (ps_chunk_batch s) (ps_chunk_batch_started_at s) (ps_server_brand s).
Definition with_raining v s : PlayState :=
  mkPlayState (ps_player s) (ps_entities s) (ps_inventory s) (ps_players s) (ps_presentation s) (ps_scoreboard s) (ps_hud s)
    (ps_world_time s) v (ps_controller s) (ps_clock s) (ps_events s) (ps_received_position s) (ps_dimension s) (ps_world s)
    (ps_world_sharing s) (ps_respawn_pending s) (ps_was_alive s) (ps_next_action_sequence s) (ps_last_player_input s)
    (ps_chunk_batch s) (ps_chunk_batch_started_at s) (ps_server_brand s).
Definition with_controller v s : PlayState :=
  mkPlayState (ps_player s) (ps_entities s) (ps_inventory s) (ps_players s) (ps_presentation s) (ps_scoreboard s) (ps_hud s)
    (ps_world_time s) (ps_raining s) v (ps_clock s) (ps_events s) (ps_received_position s) (ps_dimension s) (ps_world s)
    (ps_world_sharing s) (ps_respawn_pending s) (ps_was_alive s) (ps_next_action_sequence s) (ps_last_player_input s)
    (ps_chunk_batch s) (ps_chunk_batch_started_at s) (ps_server_brand s).
Definition with_clock v s : PlayState :=
  mkPlayState (ps_player s) (ps_entities s) (ps_inventory s) (ps_players s) (ps_presentation s) (ps_scoreboard s) (ps_hud s)
    (ps_world_time s) (ps_raining s) (ps_controller s) v (ps_events s) (ps_received_position s) (ps_dimension s) (ps_world s)
    (ps_world_sharing s) (ps_respawn_pending s) (ps_was_alive s) (ps_next_action_sequence s) (ps_last_player_input s)
    (ps_chunk_batch s) (ps_chunk_batch_started_at s) (ps_server_brand s).
Definition with_events v s : PlayState :=
  mkPlayState (ps_player s) (ps_entities s) (ps_inventory s) (ps_players s) (ps_presentation s) (ps_scoreboard s) (ps_hud s)
    (ps_world_time s) (ps_raining s) (ps_controller s) (ps_clock s) v (ps_received_position s) (ps_dimension s) (ps_world s)
    (ps_world_sharing s) (ps_respawn_pending s) (ps_was_alive s) (ps_next_action_sequence s) (ps_last_player_input s)
    (ps_chunk_batch s) (ps_chunk_batch_started_at s) (ps_server_brand s).
Definition with_received_position v s : PlayState :=
  mkPlayState (ps_player s) (ps_entities s) (ps_inventory s) (ps_players s) (ps_presentation s) (ps_scoreboard s) (ps_hud s)
    (ps_world_time s) (ps_raining s) (ps_controller s) (ps_clock s) (ps_events s) v (ps_dimension s) (ps_world s)
    (ps_world_sharing s) (ps_respawn_pending s) (ps_was_alive s) (ps_next_action_sequence s) (ps_last_player_input s)
    (ps_chunk_batch s) (ps_chunk_batch_started_at s) (ps_server_brand s).
Definition with_dimension v s : PlayState :=
  mkPlayState (ps_player s) (ps_entities s) (ps_inventory s) (ps_players s) (ps_presentation s) (ps_scoreboard s) (ps_hud s)
    (ps_world_time s) (ps_raining s) (ps_controller s) (ps_clock s) (ps_events s) (ps_received_position s) v (ps_world s)
    (ps_world_sharing s) (ps_respawn_pending s) (ps_was_alive s) (ps_next_action_sequence s) (ps_last_player_input s)
    (ps_chunk_batch s) (ps_chunk_batch_started_at s) (ps_server_brand s).
Definition with_world v s : PlayState :=
  mkPlayState (ps_player s) (ps_entities s) (ps_inventory s) (ps_players s) (ps_presentation s) (ps_scoreboard s) (ps_hud s)
    (ps_world_time s) (ps_raining s) (ps_controller s) (ps_clock s) (ps_events s) (ps_received_position s) (ps_dimension s) v
    (ps_world_sharing s) (ps_respawn_pending s) (ps_was_alive s) (ps_next_action_sequence s) (ps_last_player_input s)
    (ps_chunk_batch s) (ps_chunk_batch_started_at s) (ps_server_brand s).
Definition with_respawn_pending v s : PlayState :=
  mkPlayState (ps_player s) (ps_entities s) (ps_inventory s) (ps_players s) (ps_presentation s) (ps_scoreboard s) (ps_hud s)
    (ps_world_time s) (ps_raining s) (ps_controller s) (ps_clock s) (ps_events s) (ps_received_position s) (ps_dimension s)
    (ps_world s) (ps_world_sharing s) v (ps_was_alive s) (ps_next_action_sequence s) (ps_last_player_input s) (ps_chunk_batch s)
    (ps_chunk_batch_started_at s) (ps_server_brand s).
Definition with_was_alive v s : PlayState :=
  mkPlayState (ps_player s) (ps_entities s) (ps_inventory s) (ps_players s) (ps_presentation s) (ps_scoreboard s) (ps_hud s)
    (ps_world_time s) (ps_raining s) (ps_controller s) (ps_clock s) (ps_events s) (ps_received_position s) (ps_dimension s)
    (ps_world s) (ps_world_sharing s) (ps_respawn_pending s) v (ps_next_action_sequence s) (ps_last_player_input s)
    (ps_chunk_batch s) (ps_chunk_batch_started_at s) (ps_server_brand s).
Definition with_next_action_sequence v s : PlayState :=
  mkPlayState (ps_player s) (ps_entities s) (ps_inventory s) (ps_players s) (ps_presentation s) (ps_scoreboard s) (ps_hud s)
    (ps_world_time s) (ps_raining s) (ps_controller s) (ps_clock s) (ps_events s) (ps_received_position s) (ps_dimension s)
    (ps_world s) (ps_world_sharing s) (ps_respawn_pending s) (ps_was_alive s) v (ps_last_player_input s) (ps_chunk_batch s)
    (ps_chunk_batch_started_at s) (ps_server_brand s).
Definition with_last_player_input v s : PlayState :=
  mkPlayState (ps_player s) (ps_entities s) (ps_inventory s) (ps_players s) (ps_presentation s) (ps_scoreboard s) (ps_hud s)
    (ps_world_time s) (ps_raining s) (ps_controller s) (ps_clock s) (ps_events s) (ps_received_position s) (ps_dimension s)
    (ps_world s) (ps_world_sharing s) (ps_respawn_pending s) (ps_was_alive s) (ps_next_action_sequence s) v (ps_chunk_batch s)
    (ps_chunk_batch_started_at s) (ps_server_brand s).
Definition with_chunk_batch v s : PlayState :=
  mkPlayState (ps_player s) (ps_entities s) (ps_inventory s) (ps_players s) (ps_presentation s) (ps_scoreboard s) (ps_hud s)
    (ps_world_time s) (ps_raining s) (ps_controller s) (ps_clock s) (ps_events s) (ps_received_position s) (ps_dimension s)
    (ps_world s) (ps_world_sharing s) (ps_respawn_pending s) (ps_was_alive s) (ps_next_action_sequence s) (ps_last_player_input s)
    v (ps_chunk_batch_started_at s) (ps_server_brand s).
Definition with_chunk_batch_started_at v s : PlayState :=
  mkPlayState (ps_player s) (ps_entities s) (ps_inventory s) (ps_players s) (ps_presentation s) (ps_scoreboard s) (ps_hud s)
    (ps_world_time s) (ps_raining s) (ps_controller s) (ps_clock s) (ps_events s) (ps_received_position s) (ps_dimension s)
    (ps_world s) (ps_world_sharing s) (ps_respawn_pending s) (ps_was_alive s) (ps_next_action_sequence s) (ps_last_player_input s)
    (ps_chunk_batch s) v (ps_server_brand s).
Definition with_server_brand v s : PlayState :=
  mkPlayState (ps_player s) (ps_entities s) (ps_inventory s) (ps_players s) (ps_presentation s) (ps_scoreboard s) (ps_hud s)
    (ps_world_time s) (ps_raining s) (ps_controller s) (ps_clock s) (ps_events s) (ps_received_position s) (ps_dimension s)
    (ps_world s) (ps_world_sharing s) (ps_respawn_pending s) (ps_was_alive s) (ps_next_action_sequence s) (ps_last_player_input s)
    (ps_chunk_batch s) (ps_chunk_batch_started_at s) v.

Definition play_state_new (world_sharing : option ServerIdentity) : PlayState :=
  mkPlayState local_player_new entity_store_new (inventory_new empty_slot) ∅ presentation_default scoreboard_default
    (hud_default empty_slot) 0 false controller_default 0 [] false None None world_sharing false true 0 0
    calculator_default None None.

(** [wrapping_add] of [i32]. *)
Definition next_action_sequence s : Z * PlayState :=
  let n := swrap 32 (ps_next_action_sequence s + 1) in (n, with_next_action_sequence n s).

Definition emit (e : BotEvent J Slot) s : PlayState := with_events (push (ps_events s) e) s.
Definition emit_all (es : list (BotEvent J Slot)) s : PlayState := with_events (ps_events s ++ es) s.

(** What a chat event says of its sender. *)
Definition chat_sender_name (m : @ChatMessage J) : string :=
  match plain_text <$> chat_sender m with
  | Some name => if bool_decide (name = "") then default "" ((λ d, pretty (sender_uuid d)) <$> chat_signed m) else name
  | None => default "" ((λ d, pretty (sender_uuid d)) <$> chat_signed m)
  end%string.

Definition apply_presentation (u : @PresentationUpdate J) s : PlayState :=
  let '(event, presentation) := presentation_apply u (ps_presentation s) in
  let s := emit (Presentation event) (with_presentation presentation s) in
  match event with
  | PresChat m =>
      match Presentation.kind m with
      | KindPlayer | KindDisguised => emit (Event.Chat (chat_sender_name m) (plain_text (chat_content m))) s
      | KindSystem => emit (SystemChat (plain_text (chat_content m))) s
      end
  | PresDisconnected reason => emit (Kicked (plain_text reason)) s
  | _ => s
  end.

Definition apply_scoreboard (u : ScoreboardUpdate (TextComponent J)) s : PlayState :=
  let '(event, scoreboard) := scoreboard_apply u (ps_scoreboard s) in
  emit (ScoreboardEv event) (with_scoreboard scoreboard s).

Definition emit_hud (e : @HudEvent J Slot) s : PlayState := emit (Event.Hud e) s.

Definition apply_hud (u : @HudUpdate J) s : PlayState :=
  let '(event, hud) := hud_apply u (ps_hud s) in
  let s := with_hud hud s in
  match event with Some e => emit_hud e s | None => s end.

Definition emit_inventory (es : list InventoryEvent) s : PlayState := emit_all (map InventoryEv es) s.

(** An inventory operation and the events it returns. *)
Definition on_inventory (f : InventoryState Slot → list InventoryEvent * InventoryState Slot) s : PlayState :=
  let '(es, inventory) := f (ps_inventory s) in emit_inventory es (with_inventory inventory s).

(** A HUD operation and its event. *)
Definition on_hud (f : @HudState J Slot → @HudEvent J Slot * @HudState J Slot) s : @HudEvent J Slot * PlayState :=
  let '(e, hud) := f (ps_hud s) in (e, with_hud hud s).

Record StateSnapshot : Type := mkStateSnapshot {
  sn_tick : Z;
  sn_player : LocalPlayer;
  sn_entities : EntityStore;
  sn_inventory : InventoryState Slot;
  sn_players : gmap Z (@PlayerEntry J);
  sn_presentation : @PresentationState J;
  sn_scoreboard : ScoreboardState (TextComponent J);
  sn_hud : @HudState J Slot;
  sn_world_time : Z;
  sn_raining : bool;
  sn_dimension : option DimensionType;
  sn_server_brand : option string;
}.

Definition snapshot s : StateSnapshot :=
  mkStateSnapshot (ps_clock s) (ps_player s) (ps_entities s) (ps_inventory s) (ps_players s) (ps_presentation s)
    (ps_scoreboard s) (ps_hud s) (ps_world_time s) (ps_raining s) (ps_dimension s) (ps_server_brand s).

(** ** Packets that only change the state *)

Abbreviation PlayM := (M PlayState PlayError).

Definition dec {S A} (d : Read A) (payload : list byte) : M S PlayError A := lift (map_err Fails (decode_payload d payload)).

(** [let p = PacketX::decode(&mut r)?; ...; Ok(true)] *)
Definition fold_packet {A} (d : Read A) (payload : list byte) (f : A → PlayState → PlayState) : PlayM bool :=
  let* p := dec d payload in modify (f p) ;;; ret true.

(** [Vec::get(dimension as usize)] *)
Definition dimension_at (configuration : list DimensionType) (dimension : Z) : option DimensionType :=
  configuration !! Z.to_nat (wrap 64 dimension).

Definition world_for (sharing : option ServerIdentity) (d : DimensionType) (spawn : SpawnInfo) : World :=
  match sharing with
  | Some server => with_shared_store d (scope_new server (SpawnInfo_name spawn) (SpawnInfo_hashed_seed spawn) d)
  | None => world_new d
  end.

(** The dimension of a login or respawn packet, and a new world in it. *)
Definition enter_world (configuration : list DimensionType) (spawn : SpawnInfo) : PlayM unit := λ s,
  match dimension_at configuration (SpawnInfo_dimension spawn) with
  | None => (Err (Fails Protocol), s)
  | Some d => (Ok tt, with_world (Some (world_for (ps_world_sharing s) d spawn)) (with_dimension (Some d) s))
  end.

Definition on_login_packet (configuration : list DimensionType) (p : PacketLogin) : PlayM unit :=
  modify (λ s, with_hud (on_login p (ps_hud s)) (with_player (player_on_login p (ps_player s)) s)) ;;;
  enter_world configuration (PacketLogin_world_state p) ;;;
  modify (emit (LoggedIn (PacketLogin_entity_id p))).

Definition on_respawn_packet (configuration : list DimensionType) (p : PacketRespawn) : PlayM unit :=
  modify (λ s,
    let s := with_player (player_on_respawn (ps_player s)) (with_respawn_pending false s) in
    let '(e, s) := on_hud (on_respawn p) s in
    with_received_position false (emit_hud e s)) ;;;
  enter_world configuration (PacketRespawn_world_state p).

Definition on_health_packet (p : PacketUpdateHealth) s : PlayState :=
  let s := with_player (player_on_health p (ps_player s)) s in
  let '(e, s) := on_hud (on_health p) s in
  let s := emit (Health (PacketUpdateHealth_health p) (PacketUpdateHealth_food p) (PacketUpdateHealth_food_saturation p)) s in
  let alive := is_alive (ps_player s) in
  let s := if ps_was_alive s && negb alive then emit Death s else s in
  emit_hud e (with_was_alive alive s).

Definition on_experience_packet (p : PacketExperience) s : PlayState :=
  let s := with_player (player_on_experience p (ps_player s)) s in
  let '(e, s) :=
    on_hud (on_experience (PacketExperience_experience_bar p) (PacketExperience_level p) (PacketExperience_total_experience p)) s in
  emit_hud e s.

Definition on_velocity_packet (p : PacketEntityVelocity) s : PlayState :=
  if bool_decide (lp_entity_id (ps_player s) = Some (PacketEntityVelocity_entity_id p)) then
    let v := PacketEntityVelocity_velocity p in
    with_player
      (apply_velocity (mkVec3 (velocity_blocks (Vec3i16_x v)) (velocity_blocks (Vec3i16_y v)) (velocity_blocks (Vec3i16_z v)))
         (ps_player s)) s
  else with_entities (velocity p (ps_entities s)) s.

Definition on_entities (f : EntityStore → EntityStore) s : PlayState := with_entities (f (ps_entities s)) s.

Definition on_spawn_packet (p : PacketSpawnEntity) s : PlayState :=
  emit (EntitySpawned (PacketSpawnEntity_entity_id p) (PacketSpawnEntity_object_uuid p) (PacketSpawnEntity_type p))
    (on_entities (spawn p) s).

Definition on_destroy_packet (p : PacketEntityDestroy) s : PlayState :=
  emit_all (map EntityRemoved (PacketEntityDestroy_entity_ids p)) (on_entities (destroy (PacketEntityDestroy_entity_ids p)) s).

Definition on_held_slot_packet (p : PacketHeldItemSlot) s : PlayState :=
  let s := on_inventory (held_item_slot (PacketHeldItemSlot_slot p)) s in
  let '(e, s) := on_hud (on_selected_hotbar empty_slot (PacketHeldItemSlot_slot p)) s in emit_hud e s.

Definition on_player_inventory_packet (p : PacketSetPlayerInventory) s : PlayState :=
  let s := on_inventory (set_player_inventory empty_slot (pi_slot_id p) (pi_contents p)) s in
  let '(e, s) := on_hud (on_player_inventory (pi_slot_id p) (pi_contents p)) s in emit_hud e s.

Definition on_info_packet (p : PacketPlayerInfo) s : PlayState :=
  let '(changes, players) := apply_info p (ps_players s) in
  let s := emit_all (map (λ '(uuid, name), PlayerJoined uuid name) (joined changes)) (with_players players s) in
  emit_hud (PlayerListChanged (updated changes) [] (rejected changes)) s.

Definition on_remove_packet (p : PacketPlayerRemove) s : PlayState :=
  let '(removed, players) := apply_remove p (ps_players s) in
  let s := emit_all (map PlayerLeft removed) (with_players players s) in
  emit_hud (PlayerListChanged [] removed 0) s.

Definition on_time_packet (p : PacketUpdateTime) s : PlayState :=
  let time_of_day := PacketUpdateTime_time p `mod` 24000 in
  let '(e, s) := on_hud (on_time p) (with_world_time time_of_day s) in
  emit_hud e (emit (Time time_of_day) s).

Definition on_game_state_packet (p : PacketGameStateChange) s : PlayState :=
  let '(e, hud) := on_game_state p (ps_hud s) in
  let s := with_hud hud s in
  let s :=
    if PacketGameStateChange_reason p =? GAME_STATE_BEGIN_RAINING then emit (Weather true) (with_raining true s)
    else if PacketGameStateChange_reason p =? GAME_STATE_END_RAINING then emit (Weather false) (with_raining false s)
    else s in
  match e with Some e => emit_hud e s | None => s end.

(** The packets with a fixed meaning for the state, in the order of the
    program; [Ok false] for an id that is none of them. *)
Definition apply_tracked_packet (configuration : list DimensionType) (id : Z) (payload : list byte) : PlayM bool :=
  let fold {A} (d : Read A) f := fold_packet d payload f in
  if id =? CLIENTBOUND_LOGIN_ID then
    let* p := dec (decode wire_PacketLogin) payload in on_login_packet configuration p ;;; ret true
  else if id =? CLIENTBOUND_RESPAWN_ID then
    let* p := dec (decode wire_PacketRespawn) payload in on_respawn_packet configuration p ;;; ret true
  else if id =? CLIENTBOUND_UPDATE_HEALTH_ID then fold (decode wire_PacketUpdateHealth) on_health_packet
  else if id =? CLIENTBOUND_EXPERIENCE_ID then fold (decode wire_PacketExperience) on_experience_packet
  else if id =? CLIENTBOUND_SPAWN_ENTITY_ID then fold (decode wire_PacketSpawnEntity) on_spawn_packet
  else if id =? CLIENTBOUND_ENTITY_DESTROY_ID then fold (decode wire_PacketEntityDestroy) on_destroy_packet
  else if id =? CLIENTBOUND_REL_ENTITY_MOVE_ID then fold (decode wire_PacketRelEntityMove) (λ p, on_entities (rel_move p))
  else if id =? CLIENTBOUND_ENTITY_MOVE_LOOK_ID then fold (decode wire_PacketEntityMoveLook) (λ p, on_entities (move_look p))
  else if id =? CLIENTBOUND_ENTITY_LOOK_ID then fold (decode wire_PacketEntityLook) (λ p, on_entities (look p))
  else if id =? CLIENTBOUND_ENTITY_TELEPORT_ID then fold (decode wire_PacketEntityTeleport) (λ p, on_entities (teleport p))
  else if id =? CLIENTBOUND_SYNC_ENTITY_POSITION_ID then
    fold (decode wire_PacketSyncEntityPosition) (λ p, on_entities (sync_position p))
  else if id =? CLIENTBOUND_ENTITY_VELOCITY_ID then fold (decode wire_PacketEntityVelocity) on_velocity_packet
  else if id =? CLIENTBOUND_ENTITY_HEAD_ROTATION_ID then
    fold (decode wire_PacketEntityHeadRotation) (λ p, on_entities (head_rotation p))
  else if id =? CLIENTBOUND_OPEN_WINDOW_ID then
    fold (decode wire_PacketOpenWindow)
      (λ p, on_inventory (open_window (PacketOpenWindow_window_id p) (PacketOpenWindow_inventory_type p) (PacketOpenWindow_window_title p)))
  else if id =? CLIENTBOUND_CLOSE_WINDOW_ID then
    fold (decode wire_PacketCloseWindow) (λ p, on_inventory (close_window (PacketCloseWindow_window_id p)))
  else if id =? CLIENTBOUND_WINDOW_ITEMS_ID then
    fold (decode_window_items wire_Slot)
      (λ p, on_inventory (window_items (wi_window_id p) (wi_state_id p) (wi_items p) (wi_carried_item p)))
  else if id =? CLIENTBOUND_SET_SLOT_ID then
    fold (decode_set_slot wire_Slot) (λ p, on_inventory (set_slot empty_slot (ss_window_id p) (ss_state_id p) (ss_slot p) (ss_item p)))
  else if id =? CLIENTBOUND_SET_CURSOR_ITEM_ID then
    fold (decode_set_cursor_item wire_Slot) (λ item, on_inventory (set_cursor_item item))
  else if id =? CLIENTBOUND_CRAFT_PROGRESS_BAR_ID then
    fold (decode wire_PacketCraftProgressBar)
      (λ p, on_inventory (craft_progress_bar (PacketCraftProgressBar_window_id p) (PacketCraftProgressBar_property p) (PacketCraftProgressBar_value p)))
  else if id =? CLIENTBOUND_HELD_ITEM_SLOT_ID then fold (decode wire_PacketHeldItemSlot) on_held_slot_packet
  else if id =? CLIENTBOUND_SET_PLAYER_INVENTORY_ID then fold (decode_set_player_inventory wire_Slot) on_player_inventory_packet
  else if id =? CLIENTBOUND_PLAYER_INFO_ID then fold decode_player_info on_info_packet
  else if id =? CLIENTBOUND_PLAYER_REMOVE_ID then fold (decode wire_PacketPlayerRemove) on_remove_packet
  else if id =? CLIENTBOUND_UPDATE_TIME_ID then fold (decode wire_PacketUpdateTime) on_time_packet
  else if id =? CLIENTBOUND_GAME_STATE_CHANGE_ID then fold (decode wire_PacketGameStateChange) on_game_state_packet
  else ret false.

(** A cosmetic packet: [decode_update(id, payload)] of a component, whose
    error is logged and the packet taken for handled. *)
Definition try_optional {U} (decoded : result ProtocolError (option U)) (apply : U → PlayState → PlayState)
    (otherwise : PlayM bool) : PlayM bool :=
  match decoded with
  | Ok (Some update) => modify (apply update) ;;; ret true
  | Ok None => otherwise
  | Err _ => ret true
  end.

Definition run_reader {A} (m : Read A) (payload : list byte) : result ProtocolError A := (m (new_reader payload)).1.

Definition apply_state_packet (configuration : list DimensionType) (id : Z) (payload : list byte) : PlayM bool :=
  try_optional (run_reader (presentation_decode_update id) payload) apply_presentation
    (try_optional (decode_update from_nbt id payload) apply_scoreboard
       (try_optional (run_reader (hud_decode_update id) payload) apply_hud
          (apply_tracked_packet configuration id payload))).

(** ** The session: a link, the chunk payloads and the state *)

Context {C : Type} `{!Link C}.

Record Session : Type := mkSession {
  se_conn : C;
  se_env : Env;
  se_play : PlayState;
  se_configuration : list DimensionType;
  se_control_open : bool;
  se_published : option StateSnapshot;  (* the value of the watch channel *)
}.

Abbreviation SessionM := (M Session PlayError).

Definition put_conn c (x : Session) : Session :=
  mkSession c (se_env x) (se_play x) (se_configuration x) (se_control_open x) (se_published x).
Definition put_play s (x : Session) : Session :=
  mkSession (se_conn x) (se_env x) s (se_configuration x) (se_control_open x) (se_published x).
Definition put_world (w : World) (env : Env) (x : Session) : Session :=
  mkSession (se_conn x) env (with_world (Some w) (se_play x)) (se_configuration x) (se_control_open x) (se_published x).

Definition on_link {A} (m : M C MineRiderError A) : SessionM A := λ x,
  let '(r, c) := m (se_conn x) in (map_err Fails r, put_conn c x).
Definition on_state {A} (m : PlayM A) : SessionM A := λ x,
  let '(r, s) := m (se_play x) in (r, put_play s x).
Definition update (f : PlayState → PlayState) : SessionM unit := on_state (modify f).
Definition send (id : Z) (w : Write) : SessionM unit := on_link (send_encoded id w).
Definition send_empty (id : Z) : SessionM unit := on_link (link_send id []).

(** [if let Some(world) = state.world.as_mut() { .. }?] *)
Definition on_world (m : WorldM unit) : SessionM unit := λ x,
  match ps_world (se_play x) with
  | None => (Ok tt, x)
  | Some w => let '(r, (w, env)) := m (w, se_env x) in (map_err Fails r, put_world w env x)
  end.

(** [let _ = state_tx.send(state.snapshot(..))] *)
Definition publish : SessionM unit :=
  modify (λ x, mkSession (se_conn x) (se_env x) (se_play x) (se_configuration x) (se_control_open x) (Some (snapshot (se_play x)))).

Definition draw_sequence : SessionM Z := λ x,
  let '(n, s) := next_action_sequence (se_play x) in (Ok n, put_play s x).

(** ** Packets from the server *)

Definition on_position_packet (p : PacketPosition) : SessionM unit :=
  update (λ s, with_received_position true (with_player (player_on_position p (ps_player s)) s)) ;;;
  send SERVERBOUND_TELEPORT_CONFIRM_ID (encode wire_PacketTeleportConfirm (mkPacketTeleportConfirm (PacketPosition_teleport_id p))) ;;;
  let* s := gets se_play in
  let '(ack, player) := teleport_ack_movement (ps_player s) in
  update (with_player player) ;;;
  send SERVERBOUND_POSITION_LOOK_ID (encode wire_PacketPositionLook ack).

(** [Instant::elapsed] does not go below zero; [batch_size.max(0) as u32]. *)
Definition on_batch_finished (now : Z) (p : PacketChunkBatchFinished) : SessionM unit :=
  let* s := gets se_play in
  let elapsed := default 0 ((λ start, Z.max 0 (now - start)) <$> ps_chunk_batch_started_at s) in
  update (with_chunk_batch_started_at None) ;;;
  match record_batch elapsed (Z.max (PacketChunkBatchFinished_batch_size p) 0) (ps_chunk_batch s) with
  | None => raise Panics
  | Some calculator =>
      update (with_chunk_batch calculator) ;;;
      send SERVERBOUND_CHUNK_BATCH_RECEIVED_ID
        (encode wire_PacketChunkBatchReceived (mkPacketChunkBatchReceived (desired_chunks_per_tick calculator)))
  end.

Definition on_custom_payload (p : PacketCustomPayload) s : PlayState :=
  if bool_decide (cp_channel p = BRAND_CHANNEL) then
    match run_reader read_string (cp_data p) with
    | Ok brand => with_server_brand (Some brand) s
    | Err _ => s
    end
  else s.

Definition on_kick (payload : list byte) : SessionM unit :=
  match run_reader (presentation_decode_update (J := J) CLIENTBOUND_KICK_DISCONNECT_ID) payload with
  | Err e => raise (Fails (Wire e))
  | Ok None => raise (Fails Protocol)
  | Ok (Some u) =>
      update (apply_presentation u) ;;;
      let* s := gets se_play in
      raise (Fails (Disconnected (default ""%string (plain_text <$> disconnect_reason (ps_presentation s)))))
  end.

Definition handle_clientbound (m : Moment Rng) (accept_resource_packs : bool) (packet : RawPacket) : SessionM unit :=
  let id := pkt_id packet in
  let payload := pkt_payload packet in
  if id =? CLIENTBOUND_KEEP_ALIVE_ID then
    let* p := dec (decode wire_PacketKeepAlive) payload in send SERVERBOUND_KEEP_ALIVE_ID (encode wire_PacketKeepAlive p)
  else if id =? CLIENTBOUND_CUSTOM_PAYLOAD_ID then
    let* p := dec decode_custom_payload payload in update (on_custom_payload p)
  else if id =? CLIENTBOUND_PING_ID then
    let* p := dec (decode wire_PacketPing) payload in
    send SERVERBOUND_PONG_ID (encode wire_PacketPong (mkPacketPong (PacketPing_id p)))
  else if id =? CLIENTBOUND_POSITION_ID then let* p := dec (decode wire_PacketPosition) payload in on_position_packet p
  else if id =? CLIENTBOUND_CHUNK_BATCH_START_ID then update (with_chunk_batch_started_at (Some (at_now m)))
  else if id =? CLIENTBOUND_CHUNK_BATCH_FINISHED_ID then
    let* p := dec (decode wire_PacketChunkBatchFinished) payload in on_batch_finished (at_now m) p
  else if id =? CLIENTBOUND_MAP_CHUNK_ID then
    let* p := dec decode_map_chunk payload in
    let* s := gets se_play in
    (match ps_world s with None => raise (Fails Protocol) | Some _ => on_world (insert_chunk (at_lost m) p) end)
  else if id =? CLIENTBOUND_UNLOAD_CHUNK_ID then
    let* p := dec (decode wire_PacketUnloadChunk) payload in
    on_world (unload_chunk (PacketUnloadChunk_chunk_x p) (PacketUnloadChunk_chunk_z p))
  else if id =? CLIENTBOUND_BLOCK_CHANGE_ID then
    let* p := dec (decode wire_PacketBlockChange) payload in on_world (apply_block_change (at_lost m) p)
  else if id =? CLIENTBOUND_TILE_ENTITY_DATA_ID then
    let* p := dec decode_tile_entity_data payload in on_world (apply_block_entity_update (at_lost m) p)
  else if id =? CLIENTBOUND_UPDATE_LIGHT_ID then
    let* p := dec (decode wire_PacketUpdateLight) payload in on_world (apply_light_update (at_lost m) p)
  else if id =? CLIENTBOUND_ADD_RESOURCE_PACK_ID then
    let* p := dec (decode wire_PacketCommonAddResourcePack) payload in
    on_link (handle_offer (lib_url L) (lib_sha1 L) SERVERBOUND_RESOURCE_PACK_RECEIVE_ID p accept_resource_packs (at_fetch m 0%nat))
  else if id =? CLIENTBOUND_REMOVE_RESOURCE_PACK_ID then ret tt
  else if id =? CLIENTBOUND_MULTI_BLOCK_CHANGE_ID then
    let* p := dec decode_multi_block_change payload in on_world (apply_multi_block_change (at_lost m) p)
  else if id =? CLIENTBOUND_KICK_DISCONNECT_ID then on_kick payload
  else
    let* configuration := gets se_configuration in
    let* handled := on_state (apply_state_packet configuration id payload) in
    ret tt.

(** [with_clientbound_context]: a decoding error becomes a protocol error. *)
Definition with_clientbound_context (e : PlayError) : PlayError :=
  match e with Fails (Wire _) => Fails Protocol | e => e end.

(** ** Commands *)

Definition encode_outbound_chat_action (action : BotCommand) (timestamp salt : Z) : result MineRiderError (Z * Write) :=
  match validate action with
  | Err _ => Err Protocol
  | Ok _ =>
      match action with
      | Control.Chat message =>
          Ok (SERVERBOUND_CHAT_MESSAGE_ID,
              encode_chat_message (mkChatMessage message timestamp salt None 0 (replicate 3 (byte_of_Z 0))))
      | Command command => Ok (SERVERBOUND_CHAT_COMMAND_ID, encode wire_PacketChatCommand (mkPacketChatCommand command))
      | _ => Err Protocol
      end
  end.

Definition send_outbound_chat_action (m : Moment Rng) (action : BotCommand) : SessionM unit :=
  let* p := lift (map_err Fails (encode_outbound_chat_action action (at_unix_millis m) (at_salt m))) in send p.1 p.2.

Definition send_inventory_click (request : InventoryClickRequest) : SessionM unit :=
  let* s := gets se_play in
  let creative := match game_mode (ps_hud s) with Creative => true | _ => false end in
  match prepare_click request (ps_clock s) creative (ps_inventory s) with
  | (Err error, inventory) =>
      let '(e, inventory) := reject_transaction (transaction_id request) error inventory in
      update (λ s, emit_inventory [e] (with_inventory inventory s))
  | (Ok (packet, e), inventory) =>
      update (λ s, emit_inventory [e] (with_inventory inventory s)) ;;;
      send SERVERBOUND_WINDOW_CLICK_ID (encode_window_click wire_Slot packet) ;;;
      update (on_inventory (mark_sent (transaction_id request)))
  end.

Definition send_use_item (hand : Hand) : SessionM unit :=
  let* sequence := draw_sequence in
  let* s := gets se_play in
  let pos := lp_position (ps_player s) in
  send SERVERBOUND_USE_ITEM_ID
    (encode wire_PacketUseItem (mkPacketUseItem (hand_wire_value hand) sequence (mkVec2f (p_yaw pos) (p_pitch pos)))).

Definition send_swing (hand : Hand) : SessionM unit :=
  send SERVERBOUND_ARM_ANIMATION_ID (encode wire_PacketArmAnimation (mkPacketArmAnimation (hand_wire_value hand))).

Definition send_select_hotbar_slot (slot : Z) : SessionM unit :=
  send SERVERBOUND_HELD_ITEM_SLOT_ID (encode wire_PacketHeldItemSlotServerbound (mkPacketHeldItemSlotServerbound slot)) ;;;
  update (on_inventory (select_hotbar_slot slot)).

(** [Position { x, y: y as i16, z }] *)
Definition block_location (x y z : Z) : Position := {| pos_x := x; pos_z := z; pos_y := swrap 16 y |}.

Definition send_use_item_on_block (p : BlockPlacement) : SessionM unit :=
  let* sequence := draw_sequence in
  send SERVERBOUND_BLOCK_PLACE_ID
    (encode wire_PacketBlockPlace
       (mkPacketBlockPlace (hand_wire_value (bp_hand p)) (block_location (Control.bp_x p) (Control.bp_y p) (Control.bp_z p)) (bp_face p)
          (cursor_x p) (cursor_y p) (cursor_z p) (inside_block p) false sequence)).

Definition send_interact_entity (entity_id : Z) (hand : Hand) (sneaking : bool) : SessionM unit :=
  send SERVERBOUND_USE_ENTITY_ID
    (encode_use_entity (mkUseEntity entity_id USE_ENTITY_INTERACT Default Default Default (V 0 (hand_wire_value hand)) sneaking)).

Definition send_attack_entity (entity_id : Z) (sneaking : bool) : SessionM unit :=
  send SERVERBOUND_USE_ENTITY_ID
    (encode_use_entity (mkUseEntity entity_id USE_ENTITY_ATTACK Default Default Default Default sneaking)).

Definition send_interact_at_entity (entity_id : Z) (hand : Hand) (sneaking : bool) (x y z : Z) : SessionM unit :=
  send SERVERBOUND_USE_ENTITY_ID
    (encode_use_entity (mkUseEntity entity_id USE_ENTITY_INTERACT_AT (V 2 x) (V 2 y) (V 2 z) (V 2 (hand_wire_value hand)) sneaking)).

(** [block_dig] with this session's next sequence number. *)
Definition send_block_dig (status x y z face : Z) : SessionM unit :=
  let* sequence := draw_sequence in
  send SERVERBOUND_BLOCK_DIG_ID
    (encode wire_PacketBlockDig (mkPacketBlockDig status (block_location x y z) (swrap 8 face) sequence)).

Definition send_release_item : SessionM unit := send_block_dig BLOCK_DIG_RELEASE_USE_ITEM 0 0 0 0.

Definition send_dig_block (x y z face : Z) (action : DigAction) : SessionM unit :=
  let status := match action with
                | DigStart => BLOCK_DIG_START_DESTROY
                | DigCancel => BLOCK_DIG_ABORT_DESTROY
                | DigFinish => BLOCK_DIG_STOP_DESTROY
                end in
  send_block_dig status x y z face.

Definition send_drop_item (whole_stack : bool) : SessionM unit :=
  send_block_dig (if whole_stack then BLOCK_DIG_DROP_ALL_ITEMS else BLOCK_DIG_DROP_ITEM) 0 0 0 0.

Definition send_swap_hands : SessionM unit := send_block_dig BLOCK_DIG_SWAP_ITEM_WITH_OFFHAND 0 0 0 0.

Definition send_close_gui : SessionM unit :=
  let* s := gets se_play in
  match open_win (ps_inventory s) with
  | None => ret tt
  | Some w =>
      send SERVERBOUND_CLOSE_WINDOW_ID (encode wire_PacketCloseWindow (mkPacketCloseWindow (win_id w))) ;;;
      update (on_inventory (close_window (win_id w)))
  end.

Definition apply_command (m : Moment Rng) (command : BotCommand) s : PlayState :=
  match command with
  | Look yaw pitch => with_player (apply_look yaw pitch (ps_player s)) s
  | command => with_controller (controller_apply (lib_seed L) (at_entropy m) (lib_range L) command (ps_controller s)) s
  end.

(** The [command] branch of the loop. *)
Definition handle_command (m : Moment Rng) (command : BotCommand) : SessionM unit :=
  match command with
  | Control.Chat _ | Command _ => send_outbound_chat_action m command
  | InventoryClickCommand request => send_inventory_click request
  | UseItem hand => send_use_item hand
  | Swing hand => send_swing hand
  | SelectHotbarSlot slot => send_select_hotbar_slot slot
  | UseItemOnBlock placement => send_use_item_on_block placement
  | InteractEntity entity_id hand sneaking => send_interact_entity entity_id hand sneaking
  | AttackEntity entity_id sneaking => send_attack_entity entity_id sneaking
  | InteractAtEntity entity_id hand sneaking x y z => send_interact_at_entity entity_id hand sneaking x y z
  | ReleaseItem => send_release_item
  | DigBlock x y z face action => send_dig_block x y z face action
  | DropItem whole_stack => send_drop_item whole_stack
  | SwapHands => send_swap_hands
  | CloseGui => send_close_gui
  | command => update (apply_command m command)
  end.

(** ** Ticks *)

Definition player_input_flags (i : MovementInput) : Z :=
  let axis v positive negative := if f32_lt f32_zero v then positive else if f32_lt v f32_zero then negative else 0 in
  let key (b : bool) flag := if b then flag else 0 in
  Z.lor (axis (forward i) PacketPlayerInputInputs_FORWARD PacketPlayerInputInputs_BACKWARD)
    (Z.lor (axis (strafe i) PacketPlayerInputInputs_LEFT PacketPlayerInputInputs_RIGHT)
       (Z.lor (key (jump i) PacketPlayerInputInputs_JUMP)
          (Z.lor (key (sneak i) PacketPlayerInputInputs_SHIFT) (key (sprint i) PacketPlayerInputInputs_SPRINT)))).

Definition send_player_input_if_changed : SessionM unit :=
  let* s := gets se_play in
  if negb (loaded (ps_player s)) then ret tt
  else
    let flags := player_input_flags (lp_input (ps_player s)) in
    if flags =? ps_last_player_input s then ret tt
    else
      update (with_last_player_input flags) ;;;
      send SERVERBOUND_PLAYER_INPUT_ID (encode wire_PacketPlayerInput (mkPacketPlayerInput flags)).

Definition movement_write (p : MovementPacket) : Z * Write :=
  match p with
  | MovePositionLook p => (SERVERBOUND_POSITION_LOOK_ID, encode wire_PacketPositionLook p)
  | MovePosition p => (SERVERBOUND_POSITION_ID, encode wire_PacketPositionServerbound p)
  | MoveLook p => (SERVERBOUND_LOOK_ID, encode wire_PacketLook p)
  | MoveStatusOnly p => (SERVERBOUND_FLYING_ID, encode wire_PacketFlying p)
  end.

(** [player.loaded] is false, a position has arrived and its chunk too. *)
Definition ready_to_load s : bool :=
  let pos := lp_position (ps_player s) in
  negb (loaded (ps_player s)) && ps_received_position s
  && match ps_world s with Some w => has_chunk (d_floor_i32 (p_x pos) / 16) (d_floor_i32 (p_z pos) / 16) w | None => false end.

(** The controller's input and facing, then one step of physics. *)
Definition step_player : SessionM unit := λ x,
  let s := se_play x in
  match ps_world s with
  | None => (Ok tt, x)
  | Some w =>
      let '(controller, player) := drive (lib_range L) (lib_range_f32 L) (lib_atan2 L) (ps_controller s) (ps_player s) in
      let '(r, player) := tick_physics (lib_sin L) (lib_collision L) w (se_env x) player in
      (map_err Fails r, put_play (with_player player (with_controller controller s)) x)
  end.

Definition send_movement : SessionM unit :=
  let* s := gets se_play in
  let '(packet, player) := movement_packet (ps_player s) in
  update (with_player player) ;;;
  match packet with None => ret tt | Some p => send (movement_write p).1 (movement_write p).2 end.

Definition handle_tick : SessionM unit :=
  update (λ s, on_inventory (expire_transactions (ps_clock s)) s) ;;;
  let* s := gets se_play in
  if negb (is_alive (ps_player s)) then
    if ps_respawn_pending s then ret tt
    else
      send SERVERBOUND_CLIENT_COMMAND_ID (encode wire_PacketClientCommand (mkPacketClientCommand RESPAWN_ACTION_ID)) ;;;
      update (with_respawn_pending true)
  else if ready_to_load s then
    send_empty SERVERBOUND_PLAYER_LOADED_ID ;;;
    update (λ s, emit Spawned (with_player (mark_loaded (ps_player s)) s))
  else
    step_player ;;;
    send_player_input_if_changed ;;;
    send_movement ;;;
    let* s := gets se_play in
    if loaded (ps_player s) then send_empty SERVERBOUND_TICK_END_ID else ret tt.

(** ** The loop *)

(** Which branch of the [select!] is taken. *)
Inductive Input : Type :=
  | ReadPacket
  | Controlled (command : option BotCommand)  (* [None]: every handle was dropped *)
  | Ticked.

Record PlayClientSettings : Type := mkSettings { view_distance : Z; accept_resource_packs : bool }.

(** [start_configuration]: acknowledge, run the configuration again and start
    a fresh play session on it; the channel of events stays. *)
Definition reconfigure (m : Moment Rng) (settings : PlayClientSettings) : SessionM unit :=
  send_empty SERVERBOUND_CONFIGURATION_ACKNOWLEDGED_ID ;;;
  on_link (modify (link_set_state Configuration)) ;;;
  publish ;;;
  let* dims := on_link (run_configuration (J := J) (lib_url L) (lib_sha1 L) (at_fetch m) (view_distance settings) (accept_resource_packs settings)) in
  modify (λ x, mkSession (se_conn x) (se_env x) (with_events (ps_events (se_play x)) (play_state_new (ps_world_sharing (se_play x)))) dims (se_control_open x) (se_published x)).

(** [result.map_err(..)?] after the snapshot was published. *)
Definition then_publish (m : SessionM unit) : SessionM unit := λ x,
  let '(r, x) := m x in (map_err with_clientbound_context r, (publish x).2).

Definition play_step (settings : PlayClientSettings) (m : Moment Rng) (input : Input) : SessionM unit :=
  match input with
  | ReadPacket =>
      let* packet := on_link link_read in
      if pkt_id packet =? CLIENTBOUND_START_CONFIGURATION_ID then reconfigure m settings
      else then_publish (handle_clientbound m (accept_resource_packs settings) packet)
  | Controlled command =>
      let* open := gets se_control_open in
      if negb open then ret tt
      else
        (match command with
         | Some command => handle_command m command
         | None => modify (λ x, mkSession (se_conn x) (se_env x) (se_play x) (se_configuration x) false (se_published x))
         end) ;;;
        publish
  | Ticked =>
      update (λ s, with_clock (wrap 64 (ps_clock s + 1)) s) ;;;
      handle_tick ;;;
      publish
  end.

Definition session_new (c : C) (env : Env) (configuration : list DimensionType) (sharing : option ServerIdentity) : Session :=
  mkSession c env (play_state_new sharing) configuration true None.

(** The loop over the inputs as they come, until one of them ends it. *)
Definition run_play (settings : PlayClientSettings) (inputs : list (Moment Rng * Input)) : SessionM unit :=
  iter_m (λ i, play_step settings i.1 i.2) inputs.
End play.
