(* ===== verification/PlayProtocol.v ===== *)
(** * The protocol a session follows

    An abstract view of the play protocol: a monitor that sees what passes
    through the link and, for every input, the time and where the player was
    when it came; it knows what the client owes the server, to the byte, and
    which packets it may send when.  The theorem says that [Play] never does
    anything the monitor forbids, whatever the server sends, the owner
    commands and the clock does. *)

From S2P Require Import Prelude Machine Float Reader Varint Utf8 Buffer Wire Nbt PacketTypes PlayPackets PlayPacketsOut Text Entity Players ChunkBatch Codec Errors Connection Link ResourcePack Inventory Scoreboard ScoreboardWire Hud HudWire Presentation PresentationWire Event Dimension Join Palette Chunk ChunkStore World Physics Control Player Steering PlayWire Play.

Local Open Scope Z_scope.

(** ** The monitor *)

(** What is known besides the link when an input comes. *)
Record Observed : Type := mkObserved {
  ob_now : Z;
  ob_pose : PlayerPosition;
  ob_contact : MovementFlags;  (* on the ground, against a wall *)
}.

(** An answer that has to be the next thing sent: its id and its bytes. *)
Abbreviation Owed := (Z * list byte)%type.

(** The mean time of a chunk in nanoseconds, and the number of samples in it. *)
Abbreviation Pace := (Z * Z)%type.
Definition initial_pace : Pace := (d_of_Z 2000000, 1).

Record Monitor : Type := mkMonitor {
  mo_playing : bool;  (* not in a configuration phase *)
  mo_loaded : bool;
  mo_alive : bool;
  mo_respawning : bool;  (* a respawn was requested and not yet granted *)
  mo_input : list byte;  (* the keys last reported *)
  mo_batch : option Z;  (* when the chunk batch under way began *)
  mo_pace : Pace;
  mo_owed : list Owed;
}.

Definition monitor_new : Monitor := mkMonitor true false true false [x00] None initial_pace [].

Definition owe (l : list Owed) (m : Monitor) : Monitor :=
  mkMonitor (mo_playing m) (mo_loaded m) (mo_alive m) (mo_respawning m) (mo_input m) (mo_batch m) (mo_pace m) l.

(** The running mean after a batch of [size] chunks that took [elapsed]: a
    sample counts as at most three times the mean or a third of it, and the
    mean as at most 49 samples. An empty batch tells nothing. *)
Definition pace_after (elapsed size : Z) (pace : Pace) : Pace :=
  if size <=? 0 then pace
  else
    let '(mean, samples) := pace in
    let sample := d_div (d_of_Z elapsed) (d_of_Z size) in
    let low := d_div mean (d_of_Z 3) in
    let high := d_mul mean (d_of_Z 3) in
    let bounded := if d_lt sample low then low else if d_lt high sample then high else sample in
    (d_div (d_add (d_mul mean (d_of_Z samples)) bounded) (d_add (d_of_Z samples) (d_of_Z 1)), Z.min (samples + 1) 49).

(** The pace once the batch under way is finished. *)
Definition paced (o : Observed) (m : Monitor) (size : Z) : Pace :=
  pace_after (match mo_batch m with Some start => Z.max 0 (ob_now o - start) | None => 0 end) size (mo_pace m).

(** As many chunks as fit in seven milliseconds. *)
Definition chunks_per_tick (pace : Pace) : Z := s_of_d (d_div (d_of_Z 7000000) pace.1).

(** Where a teleport puts the player: bit [n] of the flags makes the
    coordinate one relative to where it was. *)
Definition teleported (o : Observed) (p : PacketPosition) : PacketPositionLook :=
  let relative n add was given := if Z.testbit (PacketPosition_flags p) n then add was given else given in
  mkPacketPositionLook
    (relative 0 d_add (p_x (ob_pose o)) (PacketPosition_x p))
    (relative 1 d_add (p_y (ob_pose o)) (PacketPosition_y p))
    (relative 2 d_add (p_z (ob_pose o)) (PacketPosition_z p))
    (relative 3 s_add (p_yaw (ob_pose o)) (PacketPosition_yaw p))
    (relative 4 s_add (p_pitch (ob_pose o)) (PacketPosition_pitch p))
    (ob_contact o).

Definition exactly (id : Z) (w : Write) : list Owed := match encoded w with Ok bytes => [(id, bytes)] | Err _ => [] end.

(** The answers a packet asks for. *)
Definition answers_owed (o : Observed) (m : Monitor) (p : RawPacket) : list Owed :=
  let id := pkt_id p in
  let when_read {A} (d : Read A) (f : A → list Owed) := match decode_payload d (pkt_payload p) with Err _ => [] | Ok a => f a end in
  if id =? CLIENTBOUND_KEEP_ALIVE_ID then
    when_read (decode wire_PacketKeepAlive) (λ a, exactly SERVERBOUND_KEEP_ALIVE_ID (encode wire_PacketKeepAlive a))
  else if id =? CLIENTBOUND_PING_ID then
    when_read (decode wire_PacketPing) (λ a, exactly SERVERBOUND_PONG_ID (encode wire_PacketPong (mkPacketPong (PacketPing_id a))))
  else if id =? CLIENTBOUND_POSITION_ID then
    when_read (decode wire_PacketPosition) (λ a,
      exactly SERVERBOUND_TELEPORT_CONFIRM_ID (encode wire_PacketTeleportConfirm (mkPacketTeleportConfirm (PacketPosition_teleport_id a)))
      ++ exactly SERVERBOUND_POSITION_LOOK_ID (encode wire_PacketPositionLook (teleported o a)))
  else if id =? CLIENTBOUND_CHUNK_BATCH_FINISHED_ID then
    when_read (decode wire_PacketChunkBatchFinished) (λ a,
      exactly SERVERBOUND_CHUNK_BATCH_RECEIVED_ID
        (encode wire_PacketChunkBatchReceived (mkPacketChunkBatchReceived (chunks_per_tick (paced o m (PacketChunkBatchFinished_batch_size a))))))
  else if id =? CLIENTBOUND_START_CONFIGURATION_ID then [(SERVERBOUND_CONFIGURATION_ACKNOWLEDGED_ID, [])]
  else [].

(** A packet read while playing: nothing may be owed any more. *)
Definition hear (o : Observed) (p : RawPacket) (m : Monitor) : Monitor :=
  let id := pkt_id p in
  let is_ok {A} (d : Read A) := match decode_payload d (pkt_payload p) with Ok _ => true | Err _ => false end in
  let loaded :=
    if ((id =? CLIENTBOUND_LOGIN_ID) && is_ok (decode wire_PacketLogin))
       || ((id =? CLIENTBOUND_RESPAWN_ID) && is_ok (decode wire_PacketRespawn)) then false
    else mo_loaded m in
  let alive :=
    if id =? CLIENTBOUND_UPDATE_HEALTH_ID then
      match decode_payload (decode wire_PacketUpdateHealth) (pkt_payload p) with
      | Ok h => f32_lt f32_zero (PacketUpdateHealth_health h)
      | Err _ => mo_alive m
      end
    else mo_alive m in
  let respawning := if (id =? CLIENTBOUND_RESPAWN_ID) && is_ok (decode wire_PacketRespawn) then false else mo_respawning m in
  let '(batch, pace) :=
    if id =? CLIENTBOUND_CHUNK_BATCH_START_ID then (Some (ob_now o), mo_pace m)
    else if id =? CLIENTBOUND_CHUNK_BATCH_FINISHED_ID then
      match decode_payload (decode wire_PacketChunkBatchFinished) (pkt_payload p) with
      | Ok b => (None, paced o m (PacketChunkBatchFinished_batch_size b))
      | Err _ => (mo_batch m, mo_pace m)
      end
    else (mo_batch m, mo_pace m) in
  mkMonitor true loaded alive respawning (mo_input m) batch pace (answers_owed o m p).

(** The answers that may only be sent when owed, and the reports of a player
    that is in the world. *)
Definition only_owed : list Z :=
  [SERVERBOUND_KEEP_ALIVE_ID; SERVERBOUND_PONG_ID; SERVERBOUND_TELEPORT_CONFIRM_ID; SERVERBOUND_CHUNK_BATCH_RECEIVED_ID;
   SERVERBOUND_CONFIGURATION_ACKNOWLEDGED_ID].
Definition in_world_only : list Z :=
  [SERVERBOUND_POSITION_ID; SERVERBOUND_POSITION_LOOK_ID; SERVERBOUND_LOOK_ID; SERVERBOUND_FLYING_ID; SERVERBOUND_TICK_END_ID].

(** A packet sent while playing and nothing is owed. *)
Definition say (id : Z) (payload : list byte) (m : Monitor) : option Monitor :=
  if bool_decide (id ∈ only_owed) then None
  else if bool_decide (id ∈ in_world_only) then if mo_alive m && mo_loaded m then Some m else None
  else if id =? SERVERBOUND_PLAYER_LOADED_ID then
    if mo_alive m && negb (mo_loaded m)
    then Some (mkMonitor true true true (mo_respawning m) (mo_input m) (mo_batch m) (mo_pace m) []) else None
  else if id =? SERVERBOUND_PLAYER_INPUT_ID then
    if mo_alive m && mo_loaded m && bool_decide (payload ≠ mo_input m)
    then Some (mkMonitor true true true (mo_respawning m) payload (mo_batch m) (mo_pace m) []) else None
  else if id =? SERVERBOUND_CLIENT_COMMAND_ID then
    if negb (mo_alive m) && negb (mo_respawning m)
    then Some (mkMonitor true (mo_loaded m) false true (mo_input m) (mo_batch m) (mo_pace m) []) else None
  else Some m.

(** A configuration phase: the monitor waits for its end. *)
Definition configuring : Monitor := mkMonitor false false true false [x00] None initial_pace [].

Definition monitor_step (o : Observed) (m : Monitor) (e : LinkEvent) : option Monitor :=
  if mo_playing m then
    match e with
    | Received p => match mo_owed m with [] => Some (hear o p m) | _ :: _ => None end
    | Link.Sent id payload =>
        match mo_owed m with
        | [] => say id payload m
        | owed :: rest => if bool_decide ((id, payload) = owed) then Some (owe rest m) else None
        end
    | StateSet Configuration => match mo_owed m with [] => Some configuring | _ :: _ => None end
    | StateSet _ | CompressionSet _ | EncryptionEnabled _ => None
    end
  else match e with StateSet Play => Some monitor_new | StateSet _ => None | _ => Some m end.

(** The events of an input, [None] once the protocol was violated. *)
Fixpoint monitor_run (o : Observed) (m : Monitor) (l : list LinkEvent) : option Monitor :=
  match l with [] => Some m | e :: l => m ← monitor_step o m e; monitor_run o m l end.

(** The events of a session, input by input. *)
Fixpoint monitor_trace (m : Monitor) (t : list (Observed * list LinkEvent)) : option Monitor :=
  match t with [] => Some m | (o, l) :: t => m ← monitor_run o m l; monitor_trace m t end.

Lemma monitor_run_app o m l k : monitor_run o m (l ++ k) = (m ← monitor_run o m l; monitor_run o m k).
Proof. revert m. induction l as [|e l IH]; intros m; simpl; [done|]. destruct (monitor_step o m e); simpl; [apply IH|done]. Qed.

(** A run up to some point of an accepted log is accepted. *)
Lemma monitor_run_prefix o m l k : k `prefix_of` l → is_Some (monitor_run o m l) → is_Some (monitor_run o m k).
Proof. intros [k' ->] [x Hx]. rewrite monitor_run_app in Hx. destruct (monitor_run o m k); [by eexists|done]. Qed.

(** ** The session against the monitor *)

(** [a =? b] on concrete ids. *)
Ltac eval_ids :=
  repeat match goal with
  | |- context [Z.eqb ?a ?b] =>
      let v := eval vm_compute in (Z.eqb a b) in
      lazymatch v with true => idtac | false => idtac end;
      change (Z.eqb a b) with v; cbv beta iota; cbn [andb orb]
  end.

Section obeys.
Context {J Slot Rng C : Type} (empty_slot : Slot) (wire_Slot : Codec Slot) (L : Library Rng).
Context `{!Link C} `{!LinkLaws C} (o : Observed).
Abbreviation State := (@PlayState J Slot Rng).
Abbreviation Sess := (@Session J Slot Rng C).
Implicit Types (s : State) (x : Sess) (mon : Monitor).

(** What the monitor knows of the state. *)
Definition gate s : bool * bool * bool * Z * option Z * ChunkBatchSizeCalculator :=
  (loaded (ps_player s), is_alive (ps_player s), ps_respawn_pending s, ps_last_player_input s,
   ps_chunk_batch_started_at s, ps_chunk_batch s).

Definition pace_of (c : ChunkBatchSizeCalculator) : Pace := (aggregated_nanos_per_chunk c, old_samples_weight c).
Definition monitor_of s : Monitor :=
  mkMonitor true (loaded (ps_player s)) (is_alive (ps_player s)) (ps_respawn_pending s) (be_bytes 1 (ps_last_player_input s))
    (ps_chunk_batch_started_at s) (pace_of (ps_chunk_batch s)) [].

Lemma monitor_of_gate s s' : gate s' = gate s → monitor_of s' = monitor_of s.
Proof. unfold gate, monitor_of. by intros [= -> -> -> -> -> ->]. Qed.

(** What an observer sees of the session when an input comes. *)
Definition observe (m : Moment Rng) s : Observed := mkObserved (at_now m) (lp_position (ps_player s)) (movement_flags (ps_player s)).

(** [m], started where the monitor is at [mon], does only what the monitor
    allows, and when it succeeds leaves it as [post] says. *)
Definition obeys {A} (m : M Sess PlayError A) mon x (post : A → Monitor → Sess → Prop) : Prop :=
  match m x with
  | (Ok a, x') => ∃ k mon', link_log (se_conn x') = link_log (se_conn x) ++ k ∧ monitor_run o mon k = Some mon' ∧ post a mon' x'
  | (Err _, x') => ∃ k, link_log (se_conn x') = link_log (se_conn x) ++ k ∧ is_Some (monitor_run o mon k)
  end.

Lemma obeys_ret {A} (a : A) mon x post : post a mon x → obeys (ret a) mon x post.
Proof. intros H. exists [], mon. by rewrite app_nil_r. Qed.

Lemma obeys_raise {A} e mon x (post : A → Monitor → Sess → Prop) : obeys (raise e) mon x post.
Proof. exists []. rewrite app_nil_r. split; [done|by eexists]. Qed.

Lemma obeys_bind {A B} (m : M Sess PlayError A) (k : A → M Sess PlayError B) mon x post post' :
  obeys m mon x post → (∀ a mon' x', post a mon' x' → obeys (k a) mon' x' post') → obeys (bind m k) mon x post'.
Proof.
  unfold obeys, bind. intros Hm Hk. destruct (m x) as [[a|e] x1]; [|done].
  destruct Hm as (l & mon1 & Hl & Hrun & Hp). specialize (Hk a mon1 x1 Hp). destruct (k a x1) as [[b|e] x2].
  - destruct Hk as (l' & mon2 & Hl' & Hrun' & Hp'). exists (l ++ l'), mon2.
    by rewrite Hl', Hl, app_assoc, monitor_run_app, Hrun.
  - destruct Hk as (l' & Hl' & Hs). exists (l ++ l'). by rewrite Hl', Hl, app_assoc, monitor_run_app, Hrun.
Qed.

Lemma obeys_post {A} (m : M Sess PlayError A) mon x (post post' : A → Monitor → Sess → Prop) :
  obeys m mon x post → (∀ a mon' x', post a mon' x' → post' a mon' x') → obeys m mon x post'.
Proof. unfold obeys. destruct (m x) as [[a|e] x']; [|done]. intros (k & mon' & ? & ? & ?) Hp. exists k, mon'. auto. Qed.

Lemma obeys_gets {A B} (f : Sess → A) (k : A → M Sess PlayError B) mon x post :
  obeys (k (f x)) mon x post → obeys (let* a := gets f in k a) mon x post.
Proof. done. Qed.

Lemma obeys_dec {A B} (d : Read A) payload (k : A → M Sess PlayError B) mon x post :
  (∀ a, decode_payload d payload = Ok a → obeys (k a) mon x post) → obeys (let* a := dec d payload in k a) mon x post.
Proof.
  intros Hk. unfold dec. destruct (decode_payload d payload) as [a|e]; [by apply (Hk a)|exact (obeys_raise (Fails e) mon x post)].
Qed.

(** A change of the state alone. *)
Lemma obeys_on_state {A} (m : M State PlayError A) mon x (post : A → Monitor → Sess → Prop) :
  (∀ a s', m (se_play x) = (Ok a, s') → post a mon (put_play s' x)) → obeys (on_state m) mon x post.
Proof.
  intros Hp. unfold obeys, on_state. destruct (m (se_play x)) as [[a|e] s'].
  - exists [], mon. rewrite app_nil_r. by split_and!; [| |apply Hp].
  - exists []. rewrite app_nil_r. split; [done|by eexists].
Qed.

Lemma obeys_update f mon x (post : unit → Monitor → Sess → Prop) :
  post tt mon (put_play (f (se_play x)) x) → obeys (update f) mon x post.
Proof. intros Hp. apply obeys_on_state. by intros [] s' [= <-]. Qed.

(** A conversation whose log is known in advance. *)
Lemma obeys_on_link {A} (m : M C MineRiderError A) evs mon mon' x (post : A → Monitor → Sess → Prop) :
  answers m evs → monitor_run o mon evs = Some mon' → (∀ a c, post a mon' (put_conn c x)) → obeys (on_link m) mon x post.
Proof.
  intros Hm Hrun Hp. specialize (Hm (se_conn x)). unfold obeys, on_link.
  destruct (m (se_conn x)) as [[a|e] c]; simpl; unfold log_of, link_has_log in Hm.
  - exists evs, mon'. by split_and!; [| |apply Hp].
  - destruct Hm as (k & Hk & Hlog). exists k. split; [done|]. eapply monitor_run_prefix; [exact Hk|by eexists].
Qed.

Lemma obeys_send id w mon x (post : unit → Monitor → Sess → Prop) :
  (∀ bytes, encoded w = Ok bytes → ∃ mon', monitor_step o mon (Link.Sent id bytes) = Some mon' ∧ ∀ c, post tt mon' (put_conn c x)) →
  obeys (send id w) mon x post.
Proof.
  intros Hs. unfold send, send_encoded. destruct (encoded w) as [bytes|e] eqn:He.
  - destruct (Hs bytes eq_refl) as (mon' & Hstep & Hp). eapply (obeys_on_link _ [Link.Sent id bytes]).
    + simpl. apply answers_link_send.
    + simpl. by rewrite Hstep.
    + by intros [] c.
  - simpl. exists []. rewrite app_nil_r. split; [done|by eexists].
Qed.

Lemma obeys_send_empty id mon mon' x (post : unit → Monitor → Sess → Prop) :
  monitor_step o mon (Link.Sent id []) = Some mon' → (∀ c, post tt mon' (put_conn c x)) → obeys (send_empty id) mon x post.
Proof.
  intros Hstep Hp. eapply (obeys_on_link _ [Link.Sent id []]); [apply answers_link_send|simpl; by rewrite Hstep|by intros [] c].
Qed.

(** The same, before the rest of a handler. *)
Lemma obeys_update_bind {B} f (k : unit → M Sess PlayError B) mon x post :
  obeys (k tt) mon (put_play (f (se_play x)) x) post → obeys (bind (update f) k) mon x post.
Proof. done. Qed.

Lemma obeys_send_bind {B} id w (k : unit → M Sess PlayError B) mon x post :
  (∀ bytes, encoded w = Ok bytes → ∃ mon', monitor_step o mon (Link.Sent id bytes) = Some mon' ∧ ∀ c, obeys (k tt) mon' (put_conn c x) post) →
  obeys (bind (send id w) k) mon x post.
Proof.
  intros H. eapply (obeys_bind _ _ _ _ (λ _ mon' x', obeys (k tt) mon' x' post)); [by apply obeys_send|by intros [] mon' x'].
Qed.

(** Between two inputs: the monitor is at the state and nothing is owed. *)
Definition settled {A} (_ : A) mon x : Prop := mon = monitor_of (se_play x) ∧ in_u 8 (ps_last_player_input (se_play x)).

Lemma settled_gate {A} (a : A) mon x s : settled a mon x → gate s = gate (se_play x) → settled a mon (put_play s x).
Proof.
  intros [-> Hi] Hg. split; [symmetry; by apply monitor_of_gate|]. simpl. by injection Hg as _ _ _ -> _ _.
Qed.

(** *** Packets that only change the state *)

Lemma gate_emit e s : gate (emit e s) = gate s.
Proof. done. Qed.
Lemma gate_on_inventory f s : gate (on_inventory f s) = gate s.
Proof. unfold on_inventory. by destruct (f (ps_inventory s)). Qed.
Lemma gate_on_hud f s : gate (on_hud f s).2 = gate s.
Proof. unfold on_hud. by destruct (f (ps_hud s)). Qed.
Lemma gate_presentation u s : gate (apply_presentation u s) = gate s.
Proof.
  unfold apply_presentation. destruct (presentation_apply u (ps_presentation s)) as [e p].
  destruct e as [m| | | | | | | |reason]; try done. by destruct (Presentation.kind m).
Qed.
Lemma gate_scoreboard u s : gate (apply_scoreboard u s) = gate s.
Proof. unfold apply_scoreboard. by destruct (scoreboard_apply u (ps_scoreboard s)). Qed.
Lemma gate_hud u s : gate (apply_hud u s) = gate s.
Proof. unfold apply_hud. by destruct (hud_apply u (ps_hud s)) as [[e|] h]. Qed.

Lemma fold_packet_gate {A} (d : Read A) payload f s r s' :
  (∀ p s, gate (f p s) = gate s) → fold_packet d payload f s = (Ok r, s') → gate s' = gate s.
Proof.
  intros Hf. unfold fold_packet, dec, lift, bind. destruct (decode_payload d payload) as [p|e]; simpl; [|done].
  intros [= _ <-]. apply Hf.
Qed.

(** The three packets the monitor watches apart, no other tracked packet
    moves what it sees. *)
Lemma tracked_gate configuration id payload s r s' :
  id ≠ CLIENTBOUND_LOGIN_ID → id ≠ CLIENTBOUND_RESPAWN_ID → id ≠ CLIENTBOUND_UPDATE_HEALTH_ID →
  apply_tracked_packet empty_slot wire_Slot configuration id payload s = (Ok r, s') → gate s' = gate s.
Proof.
  intros H1%Z.eqb_neq H2%Z.eqb_neq H3%Z.eqb_neq. unfold apply_tracked_packet. rewrite H1, H2, H3. clear.
  repeat match goal with
  | |- (if _ then fold_packet _ _ _ else _) _ = _ → _ =>
      case_match; [apply fold_packet_gate; intros p s0|clear; try (intros [= _ <-]; done)]
  end;
  try apply gate_on_inventory; try done.
  all: unfold on_experience_packet, on_velocity_packet, on_held_slot_packet, on_player_inventory_packet, on_info_packet,
    on_remove_packet, on_time_packet, on_game_state_packet.
  - by case_bool_decide.
  - set (s1 := on_inventory _ _).
    rewrite <- (gate_on_inventory (set_player_inventory empty_slot (pi_slot_id p) (pi_contents p)) s0). fold s1.
    rewrite <- (gate_on_hud (on_player_inventory (pi_slot_id p) (pi_contents p)) s1). by destruct (on_hud _ s1).
  - by destruct (apply_info p (ps_players s0)).
  - by destruct (apply_remove p (ps_players s0)).
  - destruct (on_game_state p (ps_hud s0)) as [[e|] h]; repeat case_match; done.
Qed.

(** *** Packets from the server *)

Lemma hear_other p mon :
  Forall (λ id, pkt_id p ≠ id)
    [CLIENTBOUND_LOGIN_ID; CLIENTBOUND_RESPAWN_ID; CLIENTBOUND_UPDATE_HEALTH_ID; CLIENTBOUND_CHUNK_BATCH_START_ID;
     CLIENTBOUND_CHUNK_BATCH_FINISHED_ID] →
  mo_playing mon = true → hear o p mon = owe (answers_owed o mon p) mon.
Proof.
  rewrite !Forall_cons. intros (H1%Z.eqb_neq & H2%Z.eqb_neq & H3%Z.eqb_neq & H4%Z.eqb_neq & H5%Z.eqb_neq & _) Hp.
  unfold hear. rewrite H1, H2, H3, H4, H5. simpl. unfold owe. by rewrite Hp.
Qed.

Lemma owed_nothing mon p :
  pkt_id p ≠ CLIENTBOUND_KEEP_ALIVE_ID → pkt_id p ≠ CLIENTBOUND_PING_ID → pkt_id p ≠ CLIENTBOUND_POSITION_ID →
  pkt_id p ≠ CLIENTBOUND_CHUNK_BATCH_FINISHED_ID → pkt_id p ≠ CLIENTBOUND_START_CONFIGURATION_ID → answers_owed o mon p = [].
Proof.
  intros H1%Z.eqb_neq H2%Z.eqb_neq H3%Z.eqb_neq H4%Z.eqb_neq H5%Z.eqb_neq. unfold answers_owed. by rewrite H1, H2, H3, H4, H5.
Qed.

(** A packet with nothing to answer and nothing the monitor watches. *)
Lemma hear_quiet p s :
  Forall (λ id, pkt_id p ≠ id)
    [CLIENTBOUND_LOGIN_ID; CLIENTBOUND_RESPAWN_ID; CLIENTBOUND_UPDATE_HEALTH_ID; CLIENTBOUND_KEEP_ALIVE_ID; CLIENTBOUND_PING_ID;
     CLIENTBOUND_POSITION_ID; CLIENTBOUND_CHUNK_BATCH_START_ID; CLIENTBOUND_CHUNK_BATCH_FINISHED_ID; CLIENTBOUND_START_CONFIGURATION_ID] →
  hear o p (monitor_of s) = monitor_of s.
Proof.
  rewrite !Forall_cons. intros (? & ? & ? & ? & ? & ? & ? & ? & ? & _). rewrite hear_other, owed_nothing by (by repeat constructor). done.
Qed.

Lemma obeys_on_world (m : WorldM unit) mon x : settled tt mon x → obeys (on_world m) mon x settled.
Proof.
  intros Hs. unfold obeys, on_world. destruct (ps_world (se_play x)) as [w|].
  2: { exists [], mon. by rewrite app_nil_r. }
  destruct (m (w, se_env x)) as [[u|e] [w' env']]; simpl.
  - exists [], mon. rewrite app_nil_r. destruct Hs. done.
  - exists []. rewrite app_nil_r. split; [done|by eexists].
Qed.

(** Packets the monitor lets pass at any time. *)
Lemma monitor_run_free mon id payloads :
  mo_playing mon = true → mo_owed mon = [] → say id [] mon = Some mon → (∀ bs, say id bs mon = say id [] mon) →
  monitor_run o mon (map (Link.Sent id) payloads) = Some mon.
Proof.
  intros Hp Ho Hs Hany. induction payloads as [|bs l IH]; [done|].
  cbn [map monitor_run]. unfold monitor_step at 1. rewrite Hp, Ho, Hany, Hs. exact IH.
Qed.

(** Sending what is owed. *)
Lemma monitor_pays id bytes rest mon :
  mo_playing mon = true → monitor_step o (owe ((id, bytes) :: rest) mon) (Link.Sent id bytes) = Some (owe rest mon).
Proof. intros Hp. unfold monitor_step. simpl. by rewrite Hp, bool_decide_true. Qed.

Lemma owe_nothing s : owe [] (monitor_of s) = monitor_of s.
Proof. done. Qed.

(** The debts of one packet, paid in order. *)
Lemma obeys_pay {B} id w rest (k : unit → M Sess PlayError B) mon x post :
  mo_playing mon = true → (∀ c, obeys (k tt) (owe rest mon) (put_conn c x) post) →
  obeys (bind (send id w) k) (owe (exactly id w ++ rest) mon) x post.
Proof.
  intros Hp Hk. apply obeys_send_bind. intros bytes He. unfold exactly. rewrite He. exists (owe rest mon). split; [|exact Hk].
  by apply monitor_pays.
Qed.
Lemma obeys_pay_last id w x s :
  (∀ c, settled tt (monitor_of s) (put_conn c x)) → obeys (send id w) (owe (exactly id w) (monitor_of s)) x settled.
Proof.
  intros Hs. apply obeys_send. intros bytes He. unfold exactly. rewrite He. exists (owe [] (monitor_of s)).
  split; [by apply monitor_pays|]. intros c. rewrite owe_nothing. apply Hs.
Qed.

Ltac owes Hid := rewrite hear_other by (by repeat constructor; rewrite ?Hid); unfold answers_owed; rewrite Hid; eval_ids.

Lemma keep_alive_obeys p x :
  pkt_id p = CLIENTBOUND_KEEP_ALIVE_ID → in_u 8 (ps_last_player_input (se_play x)) →
  obeys (let* a := dec (decode wire_PacketKeepAlive) (pkt_payload p) in send SERVERBOUND_KEEP_ALIVE_ID (encode wire_PacketKeepAlive a))
    (hear o p (monitor_of (se_play x))) x settled.
Proof. intros Hid Hi. owes Hid. apply obeys_dec. intros a ->. by apply obeys_pay_last. Qed.

Lemma ping_obeys p x :
  pkt_id p = CLIENTBOUND_PING_ID → in_u 8 (ps_last_player_input (se_play x)) →
  obeys (let* a := dec (decode wire_PacketPing) (pkt_payload p) in
         send SERVERBOUND_PONG_ID (encode wire_PacketPong (mkPacketPong (PacketPing_id a))))
    (hear o p (monitor_of (se_play x))) x settled.
Proof. intros Hid Hi. owes Hid. apply obeys_dec. intros a ->. by apply obeys_pay_last. Qed.

(** The position acknowledged is the one the packet asks for. *)
Lemma teleported_eq m s a : o = observe m s → position_look (player_on_position a (ps_player s)) = teleported o a.
Proof.
  intros ->. unfold position_look, player_on_position, apply_position, teleported, PositionUpdateRelatives_contains. cbv zeta.
  change PositionUpdateRelatives_X with (2 ^ 0). change PositionUpdateRelatives_Y with (2 ^ 1). change PositionUpdateRelatives_Z with (2 ^ 2).
  change PositionUpdateRelatives_YAW with (2 ^ 3). change PositionUpdateRelatives_PITCH with (2 ^ 4).
  cbn [lp_position put_velocity put_position p_x p_y p_z p_yaw p_pitch]. by rewrite !flag_bit by lia.
Qed.

Lemma position_obeys m p x :
  o = observe m (se_play x) → pkt_id p = CLIENTBOUND_POSITION_ID → in_u 8 (ps_last_player_input (se_play x)) →
  obeys (let* a := dec (decode wire_PacketPosition) (pkt_payload p) in on_position_packet a)
    (hear o p (monitor_of (se_play x))) x settled.
Proof.
  intros Ho Hid Hi. owes Hid. apply obeys_dec. intros a ->. unfold on_position_packet.
  apply obeys_update_bind, obeys_pay; [done|]. intros c. apply obeys_gets. unfold teleport_ack_movement.
  rewrite <- (teleported_eq _ _ a Ho). apply obeys_update_bind, obeys_pay_last. intros c'. by split.
Qed.

(** The estimate of the session is that of the monitor. *)
Lemma record_batch_pace elapsed size c c' :
  record_batch elapsed (Z.max size 0) c = Some c' → pace_of c' = pace_after elapsed size (pace_of c).
Proof.
  unfold record_batch, pace_after, pace_of, d_clamp. destruct (Z.leb_spec size 0) as [Hs|Hs].
  - rewrite Z.max_r, Z.eqb_refl by done. by intros [= <-].
  - rewrite Z.max_l, (proj2 (Z.eqb_neq size 0)) by lia. destruct (d_le _ _); [|done]. by intros [= <-].
Qed.

Lemma batch_obeys m p x :
  o = observe m (se_play x) → pkt_id p = CLIENTBOUND_CHUNK_BATCH_FINISHED_ID → in_u 8 (ps_last_player_input (se_play x)) →
  obeys (let* a := dec (decode wire_PacketChunkBatchFinished) (pkt_payload p) in on_batch_finished (at_now m) a)
    (hear o p (monitor_of (se_play x))) x settled.
Proof.
  intros Ho Hid Hi. apply obeys_dec. intros a Ha. unfold hear, answers_owed. rewrite Hid. eval_ids. rewrite Ha.
  unfold on_batch_finished. apply obeys_gets, obeys_update_bind.
  destruct (record_batch _ _ _) as [calculator|] eqn:Hc; [|apply obeys_raise]. apply record_batch_pace in Hc.
  apply obeys_update_bind.
  assert (paced o (monitor_of (se_play x)) (PacketChunkBatchFinished_batch_size a) = pace_of calculator) as ->.
  { rewrite Hc. unfold paced. rewrite Ho. simpl. by destruct (ps_chunk_batch_started_at (se_play x)). }
  set (x' := put_play _ _). change (mkMonitor _ _ _ _ _ _ _ ?l) with (owe l (monitor_of (se_play x'))).
  apply obeys_pay_last. intros c. by split.
Qed.

Lemma enter_world_gate configuration spawn s u s' : enter_world configuration spawn s = (Ok u, s') → gate s' = gate s.
Proof. unfold enter_world. destruct (dimension_at _ _); [|done]. by intros [= _ <-]. Qed.

(** An id no cosmetic decoder claims. *)
Lemma state_packet_tracked configuration id payload :
  (∀ r : PacketReader, presentation_decode_update (J := J) id r = (Ok None, r)) →
  decode_update (from_nbt (J := J)) id payload = Ok None →
  (∀ r : PacketReader, hud_decode_update (J := J) id r = (Ok None, r)) →
  apply_state_packet (J := J) (Rng := Rng) empty_slot wire_Slot configuration id payload = apply_tracked_packet empty_slot wire_Slot configuration id payload.
Proof. intros H1 H2 H3. unfold apply_state_packet, run_reader. by rewrite H1, H2, H3. Qed.

Lemma dec_bind_inv {S A B} (d : Read A) payload (k : A → M S PlayError B) (t : S) b t' :
  bind (dec d payload) k t = (Ok b, t') → ∃ a, decode_payload d payload = Ok a ∧ k a t = (Ok b, t').
Proof. unfold bind, dec, lift. destruct (decode_payload d payload) as [a|e]; simpl; [eauto|done]. Qed.

Lemma login_settled configuration p x b s' :
  pkt_id p = CLIENTBOUND_LOGIN_ID → in_u 8 (ps_last_player_input (se_play x)) →
  apply_state_packet empty_slot wire_Slot configuration (pkt_id p) (pkt_payload p) (se_play x) = (Ok b, s') →
  settled b (hear o p (monitor_of (se_play x))) (put_play s' x).
Proof.
  intros Hid Hi. rewrite Hid, state_packet_tracked by done. unfold apply_tracked_packet. eval_ids.
  intros (a & Ha & H)%dec_bind_inv. apply bind_Ok_inv in H as ([] & s1 & H & [= _ <-]).
  unfold on_login_packet in H. apply bind_Ok_inv in H as (u & s2 & [= _ <-] & H).
  apply bind_Ok_inv in H as ([] & s3 & H%enter_world_gate & [= <-]).
  unfold hear, answers_owed. rewrite Hid. eval_ids. rewrite Ha. simpl. unfold gate in H. simpl in H. injection H as H1 H2 H3 H4 H5 H6.
  split; [|simpl; by rewrite H4]. unfold monitor_of. simpl. by rewrite H1, H2, H3, H4, H5, H6.
Qed.

Lemma respawn_settled configuration p x b s' :
  pkt_id p = CLIENTBOUND_RESPAWN_ID → in_u 8 (ps_last_player_input (se_play x)) →
  apply_state_packet empty_slot wire_Slot configuration (pkt_id p) (pkt_payload p) (se_play x) = (Ok b, s') →
  settled b (hear o p (monitor_of (se_play x))) (put_play s' x).
Proof.
  intros Hid Hi. rewrite Hid, state_packet_tracked by done. unfold apply_tracked_packet. eval_ids.
  intros (a & Ha & H)%dec_bind_inv. apply bind_Ok_inv in H as ([] & s1 & H & [= _ <-]).
  unfold on_respawn_packet in H. apply bind_Ok_inv in H as (u & s2 & Hm & H%enter_world_gate).
  unfold hear, answers_owed. rewrite Hid. eval_ids. rewrite Ha. simpl.
  unfold modify in Hm. apply pair_equal_spec in Hm as [_ <-]. unfold gate in H. simpl in H. injection H as H1 H2 H3 H4 H5 H6.
  split; [|simpl; by rewrite H4]. unfold monitor_of. simpl. by rewrite H1, H2, H3, H4, H5, H6.
Qed.

Lemma health_settled configuration p x b s' :
  pkt_id p = CLIENTBOUND_UPDATE_HEALTH_ID → in_u 8 (ps_last_player_input (se_play x)) →
  apply_state_packet empty_slot wire_Slot configuration (pkt_id p) (pkt_payload p) (se_play x) = (Ok b, s') →
  settled b (hear o p (monitor_of (se_play x))) (put_play s' x).
Proof.
  intros Hid Hi. rewrite Hid, state_packet_tracked by done. unfold apply_tracked_packet. eval_ids.
  intros (a & Ha & H)%dec_bind_inv. apply bind_Ok_inv in H as ([] & s1 & Hm & [= _ <-]).
  unfold modify in Hm. apply pair_equal_spec in Hm as [_ <-].
  unfold hear, answers_owed. rewrite Hid. eval_ids. rewrite Ha. unfold on_health_packet, settled, monitor_of. simpl.
  by destruct (ps_was_alive _ && negb _).
Qed.

(** A state packet: the three the monitor watches, and all others. *)
Lemma state_packet_obeys configuration p x :
  pkt_id p ∉ [CLIENTBOUND_KEEP_ALIVE_ID; CLIENTBOUND_PING_ID; CLIENTBOUND_POSITION_ID; CLIENTBOUND_CHUNK_BATCH_START_ID;
              CLIENTBOUND_CHUNK_BATCH_FINISHED_ID; CLIENTBOUND_START_CONFIGURATION_ID] →
  in_u 8 (ps_last_player_input (se_play x)) →
  obeys (let* handled := on_state (apply_state_packet empty_slot wire_Slot configuration (pkt_id p) (pkt_payload p)) in ret tt)
    (hear o p (monitor_of (se_play x))) x settled.
Proof.
  intros Hid Hi. eapply (obeys_bind _ _ _ _ settled); [|intros b mon' x' Hs; by apply obeys_ret].
  apply obeys_on_state. intros b s' Hs.
  destruct (decide (pkt_id p = CLIENTBOUND_LOGIN_ID)) as [H1|H1]; [by eapply login_settled|].
  destruct (decide (pkt_id p = CLIENTBOUND_RESPAWN_ID)) as [H2|H2]; [by eapply respawn_settled|].
  destruct (decide (pkt_id p = CLIENTBOUND_UPDATE_HEALTH_ID)) as [H3|H3]; [by eapply health_settled|].
  rewrite !not_elem_of_cons in Hid. destruct Hid as (H4 & H5 & H6 & H7 & H8 & H9 & _).
  rewrite hear_quiet by (repeat constructor; done). apply settled_gate; [done|].
  revert Hs. unfold apply_state_packet, try_optional.
  destruct (run_reader (presentation_decode_update (pkt_id p)) _) as [[u|]|e]; [intros [= _ <-]; apply gate_presentation| |by intros [= _ <-]].
  destruct (decode_update from_nbt _ _) as [[u|]|e]; [intros [= _ <-]; apply gate_scoreboard| |by intros [= _ <-]].
  destruct (run_reader (hud_decode_update (pkt_id p)) _) as [[u|]|e]; [intros [= _ <-]; apply gate_hud| |by intros [= _ <-]].
  by apply tracked_gate.
Qed.

Lemma handle_clientbound_obeys m accept p x :
  o = observe m (se_play x) → pkt_id p ≠ CLIENTBOUND_START_CONFIGURATION_ID → in_u 8 (ps_last_player_input (se_play x)) →
  obeys (handle_clientbound empty_slot wire_Slot L m accept p) (hear o p (monitor_of (se_play x))) x settled.
Proof.
  intros Ho Hcfg Hi. unfold handle_clientbound. cbv zeta.
  assert (∀ id, pkt_id p = id → id ∈ [CLIENTBOUND_CUSTOM_PAYLOAD_ID; CLIENTBOUND_MAP_CHUNK_ID;
      CLIENTBOUND_UNLOAD_CHUNK_ID; CLIENTBOUND_BLOCK_CHANGE_ID; CLIENTBOUND_TILE_ENTITY_DATA_ID; CLIENTBOUND_UPDATE_LIGHT_ID;
      CLIENTBOUND_ADD_RESOURCE_PACK_ID; CLIENTBOUND_REMOVE_RESOURCE_PACK_ID; CLIENTBOUND_MULTI_BLOCK_CHANGE_ID;
      CLIENTBOUND_KICK_DISCONNECT_ID] → settled tt (hear o p (monitor_of (se_play x))) x) as Hq.
  { intros id Hid Hin. rewrite hear_quiet; [done|]. rewrite Hid. clear -Hin. revert id Hin. apply Forall_forall. repeat constructor; done. }
  destruct (Z.eqb_spec (pkt_id p) CLIENTBOUND_KEEP_ALIVE_ID) as [Hid|Hka]; [by apply keep_alive_obeys|].
  destruct (Z.eqb_spec (pkt_id p) CLIENTBOUND_CUSTOM_PAYLOAD_ID) as [Hid|_].
  { apply obeys_dec. intros a _. apply obeys_update, settled_gate; [apply (Hq _ Hid); set_solver|].
    unfold on_custom_payload. case_bool_decide; [|done]. by destruct (run_reader _ _). }
  destruct (Z.eqb_spec (pkt_id p) CLIENTBOUND_PING_ID) as [Hid|Hping]; [by apply ping_obeys|].
  destruct (Z.eqb_spec (pkt_id p) CLIENTBOUND_POSITION_ID) as [Hid|Hpos]; [by eapply position_obeys|].
  destruct (Z.eqb_spec (pkt_id p) CLIENTBOUND_CHUNK_BATCH_START_ID) as [Hid|Hstart].
  { apply obeys_update. unfold hear, answers_owed. rewrite Hid. eval_ids. rewrite Ho. by split. }
  destruct (Z.eqb_spec (pkt_id p) CLIENTBOUND_CHUNK_BATCH_FINISHED_ID) as [Hid|Hbatch]; [by apply batch_obeys|].
  destruct (Z.eqb_spec (pkt_id p) CLIENTBOUND_MAP_CHUNK_ID) as [Hid|_].
  { apply obeys_dec. intros a _. apply obeys_gets. destruct (ps_world (se_play x)); [|apply obeys_raise].
    apply obeys_on_world, (Hq _ Hid). set_solver. }
  destruct (Z.eqb_spec (pkt_id p) CLIENTBOUND_UNLOAD_CHUNK_ID) as [Hid|_].
  { apply obeys_dec. intros a _. apply obeys_on_world, (Hq _ Hid). set_solver. }
  destruct (Z.eqb_spec (pkt_id p) CLIENTBOUND_BLOCK_CHANGE_ID) as [Hid|_].
  { apply obeys_dec. intros a _. apply obeys_on_world, (Hq _ Hid). set_solver. }
  destruct (Z.eqb_spec (pkt_id p) CLIENTBOUND_TILE_ENTITY_DATA_ID) as [Hid|_].
  { apply obeys_dec. intros a _. apply obeys_on_world, (Hq _ Hid). set_solver. }
  destruct (Z.eqb_spec (pkt_id p) CLIENTBOUND_UPDATE_LIGHT_ID) as [Hid|_].
  { apply obeys_dec. intros a _. apply obeys_on_world, (Hq _ Hid). set_solver. }
  destruct (Z.eqb_spec (pkt_id p) CLIENTBOUND_ADD_RESOURCE_PACK_ID) as [Hid|_].
  { apply obeys_dec. intros a _. destruct (Hq _ Hid ltac:(set_solver)) as [-> _].
    eapply obeys_on_link; [apply answers_handle_offer, _| |].
    - unfold offer_answers. rewrite <- (map_map (status_payload _) (Link.Sent _)). by apply monitor_run_free.
    - intros [] c. by split. }
  destruct (Z.eqb_spec (pkt_id p) CLIENTBOUND_REMOVE_RESOURCE_PACK_ID) as [Hid|_].
  { apply obeys_ret, (Hq _ Hid). set_solver. }
  destruct (Z.eqb_spec (pkt_id p) CLIENTBOUND_MULTI_BLOCK_CHANGE_ID) as [Hid|_].
  { apply obeys_dec. intros a _. apply obeys_on_world, (Hq _ Hid). set_solver. }
  destruct (Z.eqb_spec (pkt_id p) CLIENTBOUND_KICK_DISCONNECT_ID) as [Hid|_].
  { unfold on_kick. destruct (run_reader _ _) as [[u|]|e]; [|apply obeys_raise|apply obeys_raise].
    apply obeys_update_bind, obeys_gets, obeys_raise. }
  apply obeys_gets, state_packet_obeys; [|done]. rewrite !not_elem_of_cons. by split_and!; try apply not_elem_of_nil.
Qed.

(** *** Commands *)

(** A packet the monitor lets pass at any time. *)
Definition free_id (id : Z) : bool :=
  negb (bool_decide (id ∈ only_owed) || bool_decide (id ∈ in_world_only)
        || (id =? SERVERBOUND_PLAYER_LOADED_ID) || (id =? SERVERBOUND_PLAYER_INPUT_ID) || (id =? SERVERBOUND_CLIENT_COMMAND_ID)).

Lemma say_free id bytes mon : free_id id = true → say id bytes mon = Some mon.
Proof.
  unfold free_id, say. intros H%negb_true_iff. apply orb_false_iff in H as [[[[-> ->]%orb_false_iff ->]%orb_false_iff ->]%orb_false_iff ->]. done.
Qed.

Lemma obeys_send_free id w x :
  free_id id = true → in_u 8 (ps_last_player_input (se_play x)) → obeys (send id w) (monitor_of (se_play x)) x settled.
Proof.
  intros Hf Hi. apply obeys_send. intros bytes _. exists (monitor_of (se_play x)). split; [|intros c; by split].
  unfold monitor_step. simpl. by apply say_free.
Qed.

Lemma obeys_send_free_bind {B} id w (k : unit → M Sess PlayError B) x post :
  free_id id = true → (∀ c, obeys (k tt) (monitor_of (se_play x)) (put_conn c x) post) →
  obeys (bind (send id w) k) (monitor_of (se_play x)) x post.
Proof.
  intros Hf Hk. apply obeys_send_bind. intros bytes _. exists (monitor_of (se_play x)). split; [|exact Hk].
  unfold monitor_step. simpl. by apply say_free.
Qed.

Lemma obeys_draw_bind {B} (k : Z → M Sess PlayError B) x post :
  (∀ n s, gate s = gate (se_play x) → obeys (k n) (monitor_of s) (put_play s x) post) →
  obeys (bind draw_sequence k) (monitor_of (se_play x)) x post.
Proof. intros Hk. exact (Hk _ (next_action_sequence (se_play x)).2 eq_refl). Qed.

(** A change of the state that the monitor does not see. *)
Lemma obeys_quiet f x :
  (∀ s, gate (f s) = gate s) → in_u 8 (ps_last_player_input (se_play x)) →
  obeys (update f) (monitor_of (se_play x)) x settled.
Proof. intros Hf Hi. apply obeys_update, settled_gate; [done|apply Hf]. Qed.

Lemma gate_input s s' : gate s' = gate s → in_u 8 (ps_last_player_input s) → in_u 8 (ps_last_player_input s').
Proof. by intros [= _ _ _ -> _ _]. Qed.

Lemma block_dig_obeys status bx y z face x :
  in_u 8 (ps_last_player_input (se_play x)) → obeys (send_block_dig status bx y z face) (monitor_of (se_play x)) x settled.
Proof.
  intros Hi. apply obeys_draw_bind. intros n s Hg. apply (obeys_send_free _ _ (put_play s x)); [done|by eapply gate_input].
Qed.

Lemma chat_obeys m action x :
  in_u 8 (ps_last_player_input (se_play x)) → obeys (send_outbound_chat_action m action) (monitor_of (se_play x)) x settled.
Proof.
  intros Hi. unfold send_outbound_chat_action.
  destruct (encode_outbound_chat_action _ _ _) as [[id w]|e] eqn:He; [|exact (obeys_raise (Fails e) _ _ _)].
  apply (obeys_send_free id w); [|done]. unfold encode_outbound_chat_action in He. destruct (validate _); [|done].
  destruct action; try discriminate He; by injection He as <- _.
Qed.

Lemma handle_command_obeys m command x :
  in_u 8 (ps_last_player_input (se_play x)) →
  obeys (handle_command wire_Slot L m command) (monitor_of (se_play x)) x settled.
Proof.
  intros Hi. destruct command; cbn [handle_command];
    lazymatch goal with
    | |- obeys (update _) _ _ _ => apply obeys_quiet; [reflexivity|exact Hi]
    | |- obeys send_release_item _ _ _ => by apply block_dig_obeys
    | |- obeys (send_dig_block _ _ _ _ _) _ _ _ => by apply block_dig_obeys
    | |- obeys (send_drop_item _) _ _ _ => by apply block_dig_obeys
    | |- obeys send_swap_hands _ _ _ => by apply block_dig_obeys
    | |- obeys (send_outbound_chat_action _ _) _ _ _ => by apply chat_obeys
    | |- _ => idtac
    end.
  - unfold send_inventory_click. apply obeys_gets. destruct (prepare_click _ _ _ _) as [[[packet e]|error] inventory].
    + apply obeys_update_bind. set (s := emit_inventory _ _). change (monitor_of (se_play x)) with (monitor_of (se_play (put_play s x))).
      apply obeys_send_free_bind; [done|]. intros c. apply (obeys_quiet _ (put_conn c (put_play s x))); [apply gate_on_inventory|done].
    + destruct (reject_transaction _ _ _) as [e inventory']. by apply obeys_quiet.
  - unfold send_use_item. apply obeys_draw_bind. intros n s Hg. apply obeys_gets.
    apply (obeys_send_free _ _ (put_play s x)); [done|by eapply gate_input].
  - by apply obeys_send_free.
  - apply obeys_send_free_bind; [done|]. intros c. apply (obeys_quiet _ (put_conn c x)); [apply gate_on_inventory|done].
  - unfold send_use_item_on_block. apply obeys_draw_bind. intros n s Hg.
    apply (obeys_send_free _ _ (put_play s x)); [done|by eapply gate_input].
  - by apply obeys_send_free.
  - by apply obeys_send_free.
  - by apply obeys_send_free.
  - unfold send_close_gui. apply obeys_gets. destruct (open_win _) as [w|]; [|by apply obeys_ret].
    apply obeys_send_free_bind; [done|]. intros c. apply (obeys_quiet _ (put_conn c x)); [apply gate_on_inventory|done].
Qed.

(** *** Ticks *)

(** What neither physics, steering nor reporting changes. *)
Definition vital (p : LocalPlayer) : bool * Vitals * option Z * Experience :=
  (loaded p, mkVitals (lp_health p) (lp_food p) (lp_saturation p), lp_entity_id p, mkExperience (xp_bar p) (xp_level p) (total_experience p)).

Lemma tick_physics_vital w env p : vital (tick_physics (lib_sin L) (lib_collision L) w env p).2 = vital p.
Proof.
  unfold tick_physics. destruct (negb (loaded p)); [done|]. cbv zeta. set (p1 := accelerate _ _ _).
  assert (vital p1 = vital p) as H1.
  { unfold p1, accelerate. destruct (input_acceleration _ _ _ _ _) as [ax az]. unfold ai_step.
    by destruct (jump (lp_input p) && on_ground p && _). }
  destruct (world_collision_boxes _ w env _) as [[boxes|]|e]; exact H1.
Qed.

Lemma drive_vital (c : @Controller Rng) p : vital (drive (lib_range L) (lib_range_f32 L) (lib_atan2 L) c p).2 = vital p.
Proof.
  assert (∀ c p, vital (tick_random_look (lib_range L) (lib_range_f32 L) c p).2 = vital p) as Hlook.
  { intros c' p'. by destruct (tick_random_look_facing (lib_range L) (lib_range_f32 L) c' p') as (yaw & pitch & [->| ->]). }
  unfold drive. destruct (goal c) as [[tx tz]|]; [|by rewrite Hlook]. by destruct (d_le _ _); rewrite Hlook.
Qed.

Lemma movement_packet_vital p : vital (movement_packet p).2 = vital p.
Proof.
  unfold movement_packet. destruct (negb (loaded p)); [done|]. cbn [snd].
  by destruct (position_moved p || _), (rotation_moved p).
Qed.

Lemma movement_packet_loaded p m p' : movement_packet p = (Some m, p') → loaded p = true.
Proof. unfold movement_packet. by destruct (loaded p). Qed.

Lemma gate_vital p s : vital p = vital (ps_player s) → gate (with_player p s) = gate s.
Proof. unfold gate, is_alive, vital. intros [= Hl Hh]. simpl. by rewrite Hl, Hh. Qed.

(** In the world, alive: what every report needs. *)
Definition living {A} (a : A) mon x : Prop := settled a mon x ∧ is_alive (ps_player (se_play x)) = true.

Lemma living_gate {A} (a : A) mon x s : living a mon x → gate s = gate (se_play x) → living a mon (put_play s x).
Proof. intros [Hs Ha] Hg. split; [by apply settled_gate|]. simpl. injection Hg as _ -> _ _ _ _. exact Ha. Qed.

Lemma step_player_obeys mon x : living tt mon x → obeys (step_player L) mon x living.
Proof.
  intros Hl. unfold obeys, step_player. destruct (ps_world (se_play x)) as [w|].
  2: { exists [], mon. by rewrite app_nil_r. }
  pose proof (drive_vital (ps_controller (se_play x)) (ps_player (se_play x))) as Hd.
  destruct (drive _ _ _ _ _) as [controller p1]. pose proof (tick_physics_vital w (se_env x) p1) as Ht.
  destruct (tick_physics _ _ w (se_env x) p1) as [r p2]. simpl in Hd, Ht.
  destruct r as [[]|e]; simpl.
  - exists [], mon. rewrite app_nil_r. split_and!; [done|done|]. apply living_gate; [done|]. apply (gate_vital p2 (with_controller controller (se_play x))).
    simpl. congruence.
  - exists []. rewrite app_nil_r. split; [done|by eexists].
Qed.

Lemma player_input_flags_range i : in_u 8 (player_input_flags i).
Proof.
  unfold player_input_flags.
  destruct (f32_lt f32_zero (forward i)), (f32_lt (forward i) f32_zero), (f32_lt f32_zero (strafe i)), (f32_lt (strafe i) f32_zero),
    (jump i), (sneak i), (sprint i); vm_compute; done.
Qed.

Lemma be_bytes_1_inj a b : in_u 8 a → in_u 8 b → be_bytes 1 a = be_bytes 1 b → a = b.
Proof.
  intros Ha Hb H%(f_equal be_value). rewrite !be_value_bytes in H. unfold in_u in *. rewrite !Z.mod_small in H; [done|done|done].
Qed.

Lemma player_input_obeys mon x : living tt mon x → obeys send_player_input_if_changed mon x living.
Proof.
  intros [[-> Hi] Ha]. unfold send_player_input_if_changed. apply obeys_gets.
  destruct (loaded (ps_player (se_play x))) eqn:Hl; simpl; [|by apply obeys_ret].
  set (flags := player_input_flags _). pose proof (player_input_flags_range (lp_input (ps_player (se_play x)))) as Hf. fold flags in Hf.
  destruct (Z.eqb_spec flags (ps_last_player_input (se_play x))) as [_|Hne]; [by apply obeys_ret|].
  apply obeys_update_bind, obeys_send. intros bytes [= <-]. eexists. split.
  - unfold monitor_step, say. simpl. rewrite Ha, Hl. simpl. rewrite bool_decide_true; [reflexivity|].
    intros Heq. apply Hne, be_bytes_1_inj; [done|done|]. exact Heq.
  - intros c. split; [split|]; [|done|done]. unfold monitor_of. simpl. by rewrite Hl, Ha.
Qed.

Lemma movement_obeys mon x : living tt mon x → obeys send_movement mon x living.
Proof.
  intros Hl. unfold send_movement. apply obeys_gets. pose proof (movement_packet_vital (ps_player (se_play x))) as Hv.
  destruct (movement_packet (ps_player (se_play x))) as [packet player] eqn:Hm. simpl in Hv.
  apply obeys_update_bind. assert (living tt mon (put_play (with_player player (se_play x)) x)) as Hl' by (apply living_gate; [done|by apply gate_vital]).
  destruct packet as [m|]; [|by apply obeys_ret]. apply movement_packet_loaded in Hm. apply obeys_send. intros bytes _. exists mon.
  split; [|intros c; exact Hl']. destruct Hl as [[-> _] Ha].
  assert (bool_decide ((movement_write m).1 ∈ in_world_only) = true ∧ bool_decide ((movement_write m).1 ∈ only_owed) = false) as [H1 H2].
  { destruct m; split; vm_compute; done. }
  unfold monitor_step, say. simpl. by rewrite H1, H2, Ha, Hm.
Qed.

Lemma handle_tick_obeys x :
  in_u 8 (ps_last_player_input (se_play x)) → obeys (handle_tick L) (monitor_of (se_play x)) x settled.
Proof.
  intros Hi. unfold handle_tick. apply obeys_update_bind. apply obeys_gets.
  set (s := on_inventory _ (se_play x)). assert (gate s = gate (se_play x)) as Hg by apply gate_on_inventory.
  rewrite <- (monitor_of_gate _ _ Hg). pose proof (gate_input _ _ Hg Hi) as Hi'. change (se_play (put_play s x)) with s.
  destruct (is_alive (ps_player s)) eqn:Ha; cbn [negb].
  2: { destruct (ps_respawn_pending s) eqn:Hp; [by apply obeys_ret|].
       apply obeys_send_bind. intros bytes _. eexists. split; [unfold monitor_step, say; simpl; rewrite Ha, Hp; reflexivity|].
       intros c. apply obeys_update. split; [|done]. unfold monitor_of. simpl. by rewrite Ha. }
  destruct (ready_to_load s) eqn:Hr.
  - unfold ready_to_load in Hr. apply andb_true_iff in Hr as [[Hl%negb_true_iff _]%andb_true_iff _].
    eapply (obeys_bind _ _ _ _ (λ _ mon x', mon = mkMonitor true true true (ps_respawn_pending s) (be_bytes 1 (ps_last_player_input s))
      (ps_chunk_batch_started_at s) (pace_of (ps_chunk_batch s)) [] ∧ se_play x' = s)).
    + eapply obeys_send_empty; [unfold monitor_step, say; simpl; rewrite Ha, Hl; reflexivity|done].
    + intros [] mon x1 [-> Hs1]. apply obeys_update. rewrite Hs1. split; [|done]. unfold monitor_of. simpl. unfold is_alive in *. by rewrite <- Ha.
  - eapply (obeys_bind _ _ _ _ living); [by apply step_player_obeys|]. intros [] mon1 x1 H1.
    eapply (obeys_bind _ _ _ _ living); [by apply player_input_obeys|]. intros [] mon2 x2 H2.
    eapply (obeys_bind _ _ _ _ living); [by apply movement_obeys|]. intros [] mon3 x3 [H3 Ha3]. apply obeys_gets.
    destruct (loaded (ps_player (se_play x3))) eqn:Hl; [|by apply obeys_ret].
    eapply obeys_send_empty; [|intros c; exact H3]. destruct H3 as [-> _]. unfold monitor_step, say. simpl. by rewrite Hl, Ha3.
Qed.

(** *** Reconfiguration *)

Definition no_state_set (e : LinkEvent) : Prop := match e with StateSet _ => False | _ => True end.

Lemma monitor_run_configuring l : Forall no_state_set l → monitor_run o configuring l = Some configuring.
Proof. induction 1 as [|e l He Hl IH]; [done|]. by destruct e. Qed.

Lemma config_answers_no_state out accept i q :
  pkt_id q ≠ CONFIG_CLIENTBOUND_FINISH_CONFIGURATION_ID → Forall no_state_set (config_answers out accept i q).
Proof.
  intros H%Z.eqb_neq. unfold config_answers. rewrite H.
  assert (∀ id w, Forall no_state_set (sends id w)) as Hs by (intros id w; unfold sends; destruct (encoded w); repeat constructor).
  repeat case_match; try apply Hs; try (repeat constructor). unfold offer_answers. apply Forall_map. by apply Forall_true.
Qed.

Lemma config_hello_no_state vd : Forall no_state_set (config_hello vd).
Proof.
  assert (∀ id w, Forall no_state_set (sends id w)) as Hs by (intros id w; unfold sends; destruct (encoded w); repeat constructor).
  unfold config_hello. apply Forall_app; split; [destruct brand_payload; [apply Hs|done]|apply Hs].
Qed.

Lemma conversation_no_state out accept i qs :
  Forall (λ q, pkt_id q ≠ CONFIG_CLIENTBOUND_FINISH_CONFIGURATION_ID) qs → Forall no_state_set (conversation (config_answers out accept) i qs).
Proof.
  intros H. revert i. induction H as [|q qs Hq Hqs IH]; intros i; [done|]. rewrite conversation_cons.
  constructor; [done|]. apply Forall_app. split; [by apply config_answers_no_state|apply IH].
Qed.

(** The last packet of a configuration ends the phase or leaves it open. *)
Lemma monitor_run_conversation out accept vd qs final :
  Forall (λ q, pkt_id q ≠ CONFIG_CLIENTBOUND_FINISH_CONFIGURATION_ID) qs →
  monitor_run o configuring (config_hello vd ++ conversation (config_answers out accept) 0 (qs ++ option_list final))
  = Some (if bool_decide (pkt_id <$> final = Some CONFIG_CLIENTBOUND_FINISH_CONFIGURATION_ID) then monitor_new else configuring).
Proof.
  intros Hqs. rewrite monitor_run_app, monitor_run_configuring by apply config_hello_no_state. simpl.
  destruct final as [q|]; simpl; [|rewrite app_nil_r; by apply monitor_run_configuring, conversation_no_state].
  assert (∀ i, monitor_run o configuring (conversation (config_answers out accept) i (qs ++ [q]))
    = Some (if bool_decide (Some (pkt_id q) = Some CONFIG_CLIENTBOUND_FINISH_CONFIGURATION_ID) then monitor_new else configuring)) as H; [|apply H].
  induction Hqs as [|p qs Hp Hqs IH]; intros i; cbn [app]; rewrite conversation_cons.
  - unfold conversation. simpl. rewrite app_nil_r. case_bool_decide as Hid.
    + injection Hid as Hid. unfold config_answers. rewrite Hid. done.
    + apply monitor_run_configuring, config_answers_no_state. congruence.
  - cbn [monitor_run]. cbn. rewrite monitor_run_app, monitor_run_configuring by (by apply config_answers_no_state). apply IH.
Qed.

Lemma obeys_configuration (m : Moment Rng) vd accept x (post : list DimensionType → Monitor → Sess → Prop) :
  (∀ dims c, post dims monitor_new (put_conn c x)) →
  obeys (on_link (run_configuration (J := J) (lib_url L) (lib_sha1 L) (at_fetch m) vd accept)) configuring x post.
Proof.
  intros Hp. set (out := mkOutside (λ _ bs, Ok bs) (λ _ _ _ _, Ok tt) (λ _, []) (lib_url L) (lib_sha1 L) (at_fetch m)).
  pose proof (configuration_spec (J := J) out vd accept (se_conn x)) as Hc. unfold obeys, on_link.
  change (out_url out) with (lib_url L) in Hc. change (out_sha1 out) with (lib_sha1 L) in Hc. change (out_fetch out) with (at_fetch m) in Hc.
  destruct (run_configuration _ _ _ vd accept (se_conn x)) as [[dims|e] c]; simpl.
  - destruct Hc as (qs & _ & (before & final & -> & Hb & Hf) & _ & Hlog). eexists _, monitor_new. split_and!; [exact Hlog| |apply Hp].
    change [final] with (option_list (Some final)). rewrite monitor_run_conversation by done. rewrite bool_decide_true; [done|]. simpl. by rewrite Hf.
  - destruct Hc as (qs & final & k & _ & Hqs & Hlog & Hk). exists k. split; [exact Hlog|]. eapply monitor_run_prefix; [exact Hk|].
    rewrite monitor_run_conversation by done. by eexists.
Qed.

Lemma reconfigure_obeys m settings p x :
  pkt_id p = CLIENTBOUND_START_CONFIGURATION_ID →
  obeys (reconfigure empty_slot L m settings) (hear o p (monitor_of (se_play x))) x settled.
Proof.
  intros Hid. owes Hid. unfold reconfigure.
  eapply (obeys_bind _ _ _ _ (λ _ mon _, mon = monitor_of (se_play x))); [by eapply obeys_send_empty; [by apply monitor_pays|]|].
  intros [] mon x1 ->. eapply (obeys_bind _ _ _ _ (λ _ mon _, mon = configuring)).
  { eapply (obeys_on_link _ [StateSet Configuration]); [|reflexivity|done]. apply answers_modify_link. intros c. apply link_set_state_log. }
  intros [] mon x2 ->. eapply (obeys_bind _ _ _ _ (λ _ mon _, mon = configuring)).
  { unfold obeys, publish, modify. exists [], configuring. by rewrite app_nil_r. }
  intros [] mon x3 ->. eapply (obeys_bind _ _ _ _ (λ _ mon _, mon = monitor_new)); [by apply obeys_configuration|].
  intros dims mon x4 ->. unfold obeys, modify. exists [], monitor_new. by rewrite app_nil_r.
Qed.

(** *** Every input *)

Lemma play_step_obeys settings m input x :
  o = observe m (se_play x) → in_u 8 (ps_last_player_input (se_play x)) →
  obeys (play_step empty_slot wire_Slot L settings m input) (monitor_of (se_play x)) x settled.
Proof.
  intros Ho Hi.
  assert (∀ x mon, settled tt mon x → obeys publish mon x settled) as Hpub.
  { intros x' mon Hs. unfold obeys, publish, modify. exists [], mon. by rewrite app_nil_r. }
  destruct input as [|command|]; unfold play_step.
  - eapply (obeys_bind _ _ _ _ (λ p mon x', mon = hear o p (monitor_of (se_play x)) ∧ se_play x' = se_play x)).
    { unfold obeys, on_link. pose proof (link_read_log (se_conn x)) as Hr. destruct (link_read (se_conn x)) as [[p|e] c]; simpl in *.
      - eexists _, _. split_and!; [exact Hr|reflexivity|done|done].
      - exists []. split; [done|by eexists]. }
    intros p mon x1 [-> Hx]. rewrite <- Hx. destruct (Z.eqb_spec (pkt_id p) CLIENTBOUND_START_CONFIGURATION_ID) as [Hid|Hid];
      [by apply reconfigure_obeys|].
    pose proof (handle_clientbound_obeys m (accept_resource_packs settings) p x1 ltac:(by rewrite Hx) Hid ltac:(by rewrite Hx)) as Hh.
    unfold obeys, then_publish in *. destruct (handle_clientbound _ _ _ _ _ _ x1) as [[u|e] x2]; exact Hh.
  - apply obeys_gets. destruct (se_control_open x); simpl; [|by apply obeys_ret].
    eapply (obeys_bind _ _ _ _ settled); [|intros [] mon x1 Hs; by apply Hpub].
    destruct command as [command|]; [by apply handle_command_obeys|]. unfold obeys, modify. exists [], (monitor_of (se_play x)). by rewrite app_nil_r.
  - apply obeys_update_bind. eapply (obeys_bind _ _ _ _ settled); [|intros [] mon x1 Hs; by apply Hpub].
    set (s := with_clock _ (se_play x)). assert (gate s = gate (se_play x)) as Hg by reflexivity.
    rewrite <- (monitor_of_gate _ _ Hg). change s with (se_play (put_play s x)) at 1.
    apply handle_tick_obeys. exact (gate_input _ _ Hg Hi).
Qed.
End obeys.

(** ** A session, input by input *)

Section trace.
Context {J Slot Rng C : Type} (empty_slot : Slot) (wire_Slot : Codec Slot) (L : Library Rng).
Context `{!Link C} `{!LinkLaws C} (settings : PlayClientSettings).
Implicit Types x : @Session J Slot Rng C.

(** For every input that was taken up: when it came and where the player was,
    and what went over the link until the next. *)
Fixpoint play_trace (inputs : list (Moment Rng * Input)) x : list (Observed * list LinkEvent) :=
  match inputs with
  | [] => []
  | (m, i) :: inputs =>
      let '(r, x') := play_step empty_slot wire_Slot L settings m i x in
      (observe m (se_play x), drop (length (link_log (se_conn x))) (link_log (se_conn x')))
      :: match r with Ok _ => play_trace inputs x' | Err _ => [] end
  end.

Lemma trace_obeys inputs x :
  in_u 8 (ps_last_player_input (se_play x)) →
  let '(r, x') := run_play empty_slot wire_Slot L settings inputs x in
  link_log (se_conn x') = link_log (se_conn x) ++ concat (play_trace inputs x).*2
  ∧ is_Some (monitor_trace (monitor_of (se_play x)) (play_trace inputs x))
  ∧ (r = Ok tt → mo_owed <$> monitor_trace (monitor_of (se_play x)) (play_trace inputs x) = Some []).
Proof.
  revert x. induction inputs as [|[m i] inputs IH]; intros x Hi.
  { simpl. rewrite app_nil_r. split; [done|]. split; [by eexists|done]. }
  unfold run_play. cbn [iter_m play_trace fst snd]. unfold bind.
  pose proof (play_step_obeys empty_slot wire_Slot L (observe m (se_play x)) settings m i x eq_refl Hi) as Hs. unfold obeys in Hs.
  destruct (play_step _ _ _ _ m i x) as [[u|e] x1].
  - destruct Hs as (k & mon & Hk & Hrun & -> & Hi1). specialize (IH x1 Hi1). unfold run_play in IH.
    destruct (iter_m _ inputs x1) as [r x2]. destruct IH as (Hl & Hsome & Hok).
    rewrite Hk, drop_app_length. cbn [fmap list_fmap concat snd monitor_trace]. rewrite Hrun. simpl.
    split; [by rewrite Hl, Hk, <- (assoc_L app)|]. by split.
  - destruct Hs as (k & Hk & Hrun). rewrite Hk, drop_app_length. cbn [fmap list_fmap concat snd monitor_trace]. rewrite app_nil_r.
    split; [done|]. split; [|done]. destruct Hrun as [mon ->]. by eexists.
Qed.
End trace.


(** A session: a keep-alive, a teleport half relative, a batch of four chunks
    in ten milliseconds, a command and a tick. *)
Definition test_slot : Codec unit := mkCodec unit (λ _, ret tt) (ret tt).
Definition test_library : Library unit :=
  mkLibrary unit coarse_sin (λ _ _, 0) (λ _, tt) (λ lo _ r, (lo, r)) (λ lo _ r, (lo, r)) no_collision (λ _, None) (λ _, []).
Definition test_moment (now : Z) : Moment unit := mkMoment unit now ∅ (λ _, FetchTimedOut) 0 0 tt.
Definition test_packet {T} (id : Z) (c : Codec T) (v : T) : RawPacket :=
  mkPacket id (match encoded (encode c v) with Ok bs => bs | Err _ => [] end).
Definition test_packets : list RawPacket :=
  [test_packet CLIENTBOUND_KEEP_ALIVE_ID wire_PacketKeepAlive (mkPacketKeepAlive 42);
   test_packet CLIENTBOUND_POSITION_ID wire_PacketPosition
     (mkPacketPosition 7 (d_of_Z 8) (d_of_Z 64) (d_of_Z 8) d_0 d_0 d_0 f32_zero f32_zero 0);
   test_packet CLIENTBOUND_POSITION_ID wire_PacketPosition
     (mkPacketPosition 8 (d_of_Z 1) (d_of_Z 70) (d_of_Z 2) d_0 d_0 d_0 f32_zero f32_zero 0x5);
   mkPacket CLIENTBOUND_CHUNK_BATCH_START_ID [];
   test_packet CLIENTBOUND_CHUNK_BATCH_FINISHED_ID wire_PacketChunkBatchFinished (mkPacketChunkBatchFinished 4)].
Definition test_inputs : list (Moment unit * Input) :=
  [(test_moment 0, ReadPacket); (test_moment 0, ReadPacket); (test_moment 0, ReadPacket); (test_moment 0, ReadPacket);
   (test_moment 10000000, ReadPacket); (test_moment 10000000, Controlled None); (test_moment 10000000, Ticked)].
Definition test_session : Session (J := unit) (Slot := unit) (Rng := unit) (C := ScriptLink) :=
  session_new tt (mkScript test_packets []) no_env [test_dimension] None.

(** The second teleport is relative in x and z, and the rate is that of a mean
    of (2 + 2.5) / 2 milliseconds. *)
Definition test_sent : list (Z * list byte) :=
  let answer {T} id (c : Codec T) v := (id, pkt_payload (test_packet id c v)) in
  [answer SERVERBOUND_KEEP_ALIVE_ID wire_PacketKeepAlive (mkPacketKeepAlive 42);
   answer SERVERBOUND_TELEPORT_CONFIRM_ID wire_PacketTeleportConfirm (mkPacketTeleportConfirm 7);
   answer SERVERBOUND_POSITION_LOOK_ID wire_PacketPositionLook (mkPacketPositionLook (d_of_Z 8) (d_of_Z 64) (d_of_Z 8) f32_zero f32_zero 0);
   answer SERVERBOUND_TELEPORT_CONFIRM_ID wire_PacketTeleportConfirm (mkPacketTeleportConfirm 8);
   answer SERVERBOUND_POSITION_LOOK_ID wire_PacketPositionLook (mkPacketPositionLook (d_of_Z 9) (d_of_Z 70) (d_of_Z 10) f32_zero f32_zero 0);
   answer SERVERBOUND_CHUNK_BATCH_RECEIVED_ID wire_PacketChunkBatchReceived
     (mkPacketChunkBatchReceived (s_of_d (d_div (d_of_Z 7000000) (d_of_Z 2250000))))].
Definition sent_of (e : LinkEvent) : option (Z * list byte) := match e with Link.Sent id bytes => Some (id, bytes) | _ => None end.

