(* ===== verification/PlayInvariant.v ===== *)
(** * What a session keeps true

    The invariants of the components, composed over the play loop: whatever
    the server sends, the owner commands and the clock does, every component
    stays within its bounds and the components that keep the same fact (the
    player and the HUD, the world and the dimension) agree on it. *)

From S2P Require Import Prelude Machine Float Reader Varint Utf8 Buffer Wire Nbt PacketTypes PlayPackets PlayPacketsOut Text Entity Players ChunkBatch Codec Errors Connection Link ResourcePack Inventory Scoreboard ScoreboardWire Hud HudWire Presentation PresentationWire Event Dimension Join Palette Chunk ChunkStore World Physics Control Player Steering PlayWire Play PlayProtocol.

Local Open Scope Z_scope.

Section session.
Context {J Slot Rng C : Type} (empty_slot : Slot) (wire_Slot : Codec Slot) (L : Library Rng) `{!Link C}.

Abbreviation State := (@PlayState J Slot Rng).
Abbreviation Sess := (@Session J Slot Rng C).
Implicit Types (s : State) (x : Sess) (env : Env).

(** ** The invariant *)

(** The entity store keeps every entity under its id. *)
Definition entities_ok (es : EntityStore) : Prop := ∀ id e, es !! id = Some e → e_id e = id.

(** What the HUD and the play state both keep. *)
Record agreement s : Prop := {
  ag_entity : entity_id (ps_hud s) = lp_entity_id (ps_player s);
  ag_vitals : vitals (ps_hud s) = mkVitals (lp_health (ps_player s)) (lp_food (ps_player s)) (lp_saturation (ps_player s));
  ag_experience : experience (ps_hud s) = mkExperience (xp_bar (ps_player s)) (xp_level (ps_player s)) (total_experience (ps_player s));
  ag_time : day_time (time (ps_hud s)) = ps_world_time s;
  ag_rain : raining (weather (ps_hud s)) = ps_raining s;
  ag_alive : ps_was_alive s = is_alive (ps_player s);
  ag_dimension : ps_dimension s = dimension <$> ps_world s;
  ag_loaded : loaded (ps_player s) = true → ps_received_position s = true ∧ is_Some (ps_world s);
}.

Record bounded env s : Prop := {
  bo_inventory : inventory_ok (ps_inventory s);
  bo_scoreboard : scoreboard_ok (ps_scoreboard s);
  bo_hud : hud_ok empty_slot (ps_hud s);
  bo_presentation : presentation_ok (ps_presentation s);
  bo_players : players_ok (ps_players s);
  bo_entities : entities_ok (ps_entities s);
  bo_keys : keys_ok (ps_controller s);
  bo_world : ∀ w, ps_world s = Some w → world_ok w env;
  bo_clock : in_u 64 (ps_clock s);
  bo_sequence : in_i 32 (ps_next_action_sequence s);
}.

Definition play_ok env s : Prop := agreement s ∧ bounded env s.
Definition session_ok x : Prop := play_ok (se_env x) (se_play x) ∧ env_ok (se_env x).

Lemma play_state_new_ok env sharing : play_ok env (play_state_new empty_slot sharing).
Proof.
  split; split; cbn [play_state_new ps_inventory ps_scoreboard ps_hud ps_presentation ps_players ps_entities ps_controller ps_world
    ps_clock ps_next_action_sequence ps_player ps_world_time ps_raining ps_was_alive ps_dimension ps_received_position]; try done.
  - apply inventory_new_ok.
  - apply scoreboard_default_ok.
  - apply hud_default_ok.
  - split; [simpl; unfold MAX_CHAT_HISTORY; lia|done|done].
  - split; [apply Nat.le_0_l|done].
Qed.

(** ** Changes of one component *)

(** A component replaced by one that is as good. *)
Ltac one_component :=
  let Ha := fresh in let Hb := fresh in intros [Ha Hb]; split; [destruct Ha|destruct Hb]; split; simpl; try done.

Lemma ok_events v env s : play_ok env s → play_ok env (with_events v s).
Proof. by one_component. Qed.
Lemma ok_inventory v env s : play_ok env s → inventory_ok v → play_ok env (with_inventory v s).
Proof. intros H Hv. revert H. by one_component. Qed.
Lemma ok_scoreboard v env s : play_ok env s → scoreboard_ok v → play_ok env (with_scoreboard v s).
Proof. intros H Hv. revert H. by one_component. Qed.
Lemma ok_presentation v env s : play_ok env s → presentation_ok v → play_ok env (with_presentation v s).
Proof. intros H Hv. revert H. by one_component. Qed.
Lemma ok_players v env s : play_ok env s → players_ok v → play_ok env (with_players v s).
Proof. intros H Hv. revert H. by one_component. Qed.
Lemma ok_entities v env s : play_ok env s → entities_ok v → play_ok env (with_entities v s).
Proof. intros H Hv. revert H. by one_component. Qed.
Lemma ok_controller v env s : play_ok env s → keys_ok v → play_ok env (with_controller v s).
Proof. intros H Hv. revert H. by one_component. Qed.
Lemma ok_respawn_pending v env s : play_ok env s → play_ok env (with_respawn_pending v s).
Proof. by one_component. Qed.
Lemma ok_last_input v env s : play_ok env s → play_ok env (with_last_player_input v s).
Proof. by one_component. Qed.
Lemma ok_batch v env s : play_ok env s → play_ok env (with_chunk_batch v s).
Proof. by one_component. Qed.
Lemma ok_batch_started v env s : play_ok env s → play_ok env (with_chunk_batch_started_at v s).
Proof. by one_component. Qed.
Lemma ok_brand v env s : play_ok env s → play_ok env (with_server_brand v s).
Proof. by one_component. Qed.
Lemma ok_clock n env s : play_ok env s → play_ok env (with_clock (wrap 64 n) s).
Proof. one_component. apply wrap_range. lia. Qed.
Lemma ok_sequence n env s : play_ok env s → play_ok env (with_next_action_sequence (swrap 32 n) s).
Proof. one_component. apply swrap_range. lia. Qed.

(** The player, with its vitals untouched. *)
Lemma ok_player p env s : play_ok env s → vital p = vital (ps_player s) → play_ok env (with_player p s).
Proof.
  intros [Ha Hb] Hv. split; [|destruct Hb; by split]. unfold vital in Hv. injection Hv as H1 H2 H3 H4 H5 H6 H7 H8.
  destruct Ha as [Ha1 Ha2 Ha3 Ha4 Ha5 Ha6 Ha7 Ha8].
  split; cbn [with_player ps_player ps_hud ps_world_time ps_raining ps_was_alive ps_dimension ps_world ps_received_position]; try congruence.
  - unfold is_alive in *. congruence.
  - rewrite H1. exact Ha8.
Qed.

(** The HUD, with what the play state knows of it untouched. *)
Definition shared_part (h : @HudState J Slot) : option Z * Vitals * Experience * Z * bool :=
  (entity_id h, vitals h, experience h, day_time (time h), raining (weather h)).

Lemma ok_hud h env s :
  play_ok env s → hud_ok empty_slot h → shared_part h = shared_part (ps_hud s) → play_ok env (with_hud h s).
Proof.
  intros [Ha Hb] Hh Hp. unfold shared_part in Hp. injection Hp as H1 H2 H3 H4 H5. split; [|destruct Hb; by split].
  destruct Ha. split; simpl; congruence || done.
Qed.
(** ** Packets that only change the state *)

Lemma ok_emit e env s : play_ok env s → play_ok env (emit e s).
Proof. apply ok_events. Qed.
Lemma ok_emit_all es env s : play_ok env s → play_ok env (emit_all es s).
Proof. apply ok_events. Qed.
#[local] Hint Resolve ok_emit ok_emit_all : core.

Lemma ok_apply_presentation u env s : play_ok env s → play_ok env (apply_presentation u s).
Proof.
  intros Hs. unfold apply_presentation. pose proof (presentation_apply_ok u (ps_presentation s) (bo_presentation _ _ (proj2 Hs))) as Hp.
  destruct (presentation_apply u (ps_presentation s)) as [e p]. assert (play_ok env (emit (Presentation e) (with_presentation p s))) as H
    by (by apply ok_emit, ok_presentation). destruct e; auto. destruct (Presentation.kind _); auto.
Qed.

Lemma ok_apply_scoreboard u env s : play_ok env s → play_ok env (apply_scoreboard u s).
Proof.
  intros Hs. unfold apply_scoreboard. pose proof (scoreboard_apply_ok u (ps_scoreboard s) (bo_scoreboard _ _ (proj2 Hs))) as Hp.
  destruct (scoreboard_apply u _) as [e b]. by apply ok_emit, ok_scoreboard.
Qed.

Lemma for_self_shared entity (k : @HudState J Slot → @HudEvent J Slot * @HudState J Slot) h :
  (∀ h, shared_part (k h).2 = shared_part h) → shared_part (for_self entity k h).2 = shared_part h.
Proof. intros Hk. unfold for_self. case_bool_decide; [|done]. specialize (Hk h). by destruct (k h). Qed.

Lemma hud_apply_shared u (h : @HudState J Slot) : shared_part (hud_apply u h).2 = shared_part h.
Proof.
  destruct u; simpl; try done; try (apply for_self_shared; intros h'); try done.
  - unfold apply_cooldown. destruct (_ <=? _); [done|]. by destruct (has_room _ _ _).
  - unfold apply_effect. destruct (_ <? _); [done|]. by destruct (has_room _ _ _).
  - by rewrite apply_attributes_eq.
Qed.

Lemma ok_apply_hud u env s : play_ok env s → play_ok env (apply_hud u s).
Proof.
  intros Hs. unfold apply_hud. pose proof (hud_step_ok empty_slot (HUpdate u) (ps_hud s) (bo_hud _ _ (proj2 Hs))) as Hp.
  pose proof (hud_apply_shared u (ps_hud s)) as Hsh. simpl in Hp. destruct (hud_apply u (ps_hud s)) as [[e|] h];
    [apply ok_emit|]; by apply ok_hud.
Qed.

(** An inventory operation, given as one of the component. *)
Lemma ok_on_inventory op f env s :
  (∀ i, (f i).2 = run_op empty_slot op i) → play_ok env s → play_ok env (on_inventory f s).
Proof.
  intros Hf Hs. unfold on_inventory. pose proof (run_op_ok empty_slot op (ps_inventory s) (bo_inventory _ _ (proj2 Hs))) as Hp.
  rewrite <- Hf in Hp. destruct (f (ps_inventory s)) as [es i]. by apply ok_emit_all, ok_inventory.
Qed.

(** A HUD operation that leaves the shared part alone. *)
Lemma ok_on_hud op f env s :
  (∀ h, (f h).2 = (hud_step empty_slot op h).2) → (∀ h, shared_part (f h).2 = shared_part h) →
  play_ok env s → play_ok env (on_hud f s).2.
Proof.
  intros Hf Hsh Hs. unfold on_hud. pose proof (hud_step_ok empty_slot op (ps_hud s) (bo_hud _ _ (proj2 Hs))) as Hp.
  rewrite <- Hf in Hp. specialize (Hsh (ps_hud s)). destruct (f (ps_hud s)) as [e h]. by apply ok_hud.
Qed.

Lemma ok_health p env s : play_ok env s → play_ok env (on_health_packet p s).
Proof.
  intros [Ha Hb]. unfold on_health_packet, on_hud. simpl. apply ok_emit.
  assert (play_ok env (with_was_alive (is_alive (player_on_health p (ps_player s)))
    (with_hud (on_health p (ps_hud s)).2 (with_player (player_on_health p (ps_player s)) s)))) as H.
  { pose proof (hud_step_ok empty_slot (HHealth p) (ps_hud s) (bo_hud _ _ Hb)). destruct Ha, Hb. split; by split. }
  revert H. generalize (is_alive (player_on_health p (ps_player s))). intros alive H.
  destruct (ps_was_alive s && negb alive); destruct H as [[] []]; split; by split.
Qed.

Lemma ok_experience p env s : play_ok env s → play_ok env (on_experience_packet p s).
Proof.
  intros [Ha Hb]. unfold on_experience_packet, on_hud. simpl. apply ok_emit.
  pose proof (hud_step_ok empty_slot (HExperience (PacketExperience_experience_bar p) (PacketExperience_level p)
    (PacketExperience_total_experience p)) (ps_hud s) (bo_hud _ _ Hb)). destruct Ha, Hb. split; by split.
Qed.

Lemma ok_time p env s : play_ok env s → play_ok env (on_time_packet p s).
Proof.
  intros [Ha Hb]. unfold on_time_packet, on_hud. simpl. apply ok_emit, ok_emit.
  pose proof (hud_step_ok empty_slot (HTime p) (ps_hud s) (bo_hud _ _ Hb)). destruct Ha, Hb. split; by split.
Qed.

Lemma on_game_state_shared p (h : @HudState J Slot) :
  let h' := (on_game_state p h).2 in
  entity_id h' = entity_id h ∧ vitals h' = vitals h ∧ experience h' = experience h ∧ time h' = time h
  ∧ raining (weather h') = (if PacketGameStateChange_reason p =? GAME_STATE_BEGIN_RAINING then true
                            else if PacketGameStateChange_reason p =? GAME_STATE_END_RAINING then false else raining (weather h)).
Proof.
  unfold on_game_state. destruct (Z.eqb_spec (PacketGameStateChange_reason p) GAME_STATE_BEGIN_RAINING) as [->|H1]; [done|].
  destruct (Z.eqb_spec (PacketGameStateChange_reason p) GAME_STATE_END_RAINING) as [->|H2]; [done|].
  unfold GAME_STATE_BEGIN_RAINING, GAME_STATE_END_RAINING in *. repeat case_match; try done.
Qed.

Lemma ok_game_state p env s : play_ok env s → play_ok env (on_game_state_packet p s).
Proof.
  intros [Ha Hb]. unfold on_game_state_packet.
  pose proof (hud_step_ok empty_slot (HGameState p) (ps_hud s) (bo_hud _ _ Hb)) as Hh. pose proof (on_game_state_shared p (ps_hud s)) as Hs.
  simpl in Hh. destruct (on_game_state p (ps_hud s)) as [e h]. simpl in Hh, Hs. destruct Hs as (H1 & H2 & H3 & H4 & H5).
  assert (∀ s', play_ok env s' → play_ok env (match e with Some e => emit_hud e s' | None => s' end)) as He.
  { intros s' H. destruct e; [by apply ok_emit|done]. }
  apply He. destruct Ha as [Ha1 Ha2 Ha3 Ha4 Ha5 Ha6 Ha7 Ha8], Hb.
  destruct (_ =? GAME_STATE_BEGIN_RAINING); [apply ok_emit|destruct (_ =? GAME_STATE_END_RAINING); [apply ok_emit|]];
    (split; split; simpl; congruence || done).
Qed.

Lemma entity_op_ok op es : entities_ok es → entities_ok (entity_op op es).
Proof.
  intros Hes.
  assert (∀ id f, (∀ e, identity (f e) = identity e) → entities_ok (update_entity id f es)) as Hup.
  { intros id f Hf i e He. pose proof (update_entity_identity id f es i Hf) as H. rewrite He in H.
    destruct (es !! i) as [e0|] eqn:Hi; [|done]. simpl in H. injection H as H _ _. rewrite H. by apply Hes. }
  destruct op; simpl; try by apply Hup.
  - unfold spawn. intros i e. rewrite lookup_insert_Some. intros [[<- <-]|[_ ?]]; [done|by apply Hes].
  - intros i e. rewrite destroy_lookup. case_bool_decide; [done|apply Hes].
Qed.

Lemma ok_on_entities op f env s :
  (∀ es, f es = entity_op op es) → play_ok env s → play_ok env (on_entities f s).
Proof. intros Hf Hs. apply ok_entities; [done|]. rewrite Hf. apply entity_op_ok, Hs. Qed.

Lemma ok_velocity p env s : play_ok env s → play_ok env (on_velocity_packet p s).
Proof.
  intros Hs. unfold on_velocity_packet. case_bool_decide; [by apply ok_player|]. by apply (ok_on_entities (Entity.OpVelocity p)).
Qed.

Lemma ok_held_slot p env s : play_ok env s → play_ok env (on_held_slot_packet empty_slot p s).
Proof.
  intros Hs. unfold on_held_slot_packet. set (s1 := on_inventory _ s).
  assert (play_ok env s1) as H1 by (by apply (ok_on_inventory (OpHeldItemSlot (PacketHeldItemSlot_slot p)))).
  pose proof (ok_on_hud (HSelected (PacketHeldItemSlot_slot p)) (on_selected_hotbar empty_slot (PacketHeldItemSlot_slot p)) env s1
    ltac:(done) ltac:(intros h; simpl; by destruct (_ && _)) H1) as H. destruct (on_hud _ s1). by apply ok_emit.
Qed.

Lemma ok_player_inventory p env s : play_ok env s → play_ok env (on_player_inventory_packet empty_slot p s).
Proof.
  intros Hs. unfold on_player_inventory_packet. set (s1 := on_inventory _ s).
  assert (play_ok env s1) as H1 by (by apply (ok_on_inventory (OpSetPlayerInventory (pi_slot_id p) (pi_contents p)))).
  pose proof (ok_on_hud (HInventory (pi_slot_id p) (pi_contents p)) (on_player_inventory (pi_slot_id p) (pi_contents p)) env s1
    ltac:(intros h; simpl; by destruct (on_player_inventory _ _ h))
    ltac:(intros h; unfold on_player_inventory; destruct (_ && _); [|done]; cbv zeta; simpl; by destruct (_ =? _)) H1) as H.
  destruct (on_hud _ s1). by apply ok_emit.
Qed.

Lemma ok_info p env s : play_ok env s → play_ok env (on_info_packet p s).
Proof.
  intros Hs. unfold on_info_packet. pose proof (apply_info_ok p (ps_players s) (bo_players _ _ (proj2 Hs))) as H.
  destruct (apply_info p (ps_players s)). by apply ok_emit, ok_emit_all, ok_players.
Qed.

Lemma ok_remove p env s : play_ok env s → play_ok env (on_remove_packet p s).
Proof.
  intros Hs. unfold on_remove_packet. pose proof (apply_remove_ok p (ps_players s) (bo_players _ _ (proj2 Hs))) as H.
  destruct (apply_remove p (ps_players s)). by apply ok_emit, ok_emit_all, ok_players.
Qed.

(** *** Entering a world *)

Lemma ok_enter configuration spawn env s : play_ok env s → play_ok env (enter_world configuration spawn s).2.
Proof.
  intros [Ha Hb]. unfold enter_world. destruct (dimension_at _ _) as [d|]; [|by split].
  assert (dimension (world_for (ps_world_sharing s) d spawn) = d ∧ world_ok (world_for (ps_world_sharing s) d spawn) env) as [Hd Hw].
  { unfold world_for. by destruct (ps_world_sharing s). }
  destruct Ha, Hb. split; split; simpl; try done.
  - by rewrite Hd.
  - intros [? ?]%ag_loaded0. by eauto.
  - by intros w [= <-].
Qed.

Lemma ok_login configuration p env s : play_ok env s → play_ok env (on_login_packet configuration p s).2.
Proof.
  intros [Ha Hb]. unfold on_login_packet, bind at 1, modify at 1. set (s1 := with_hud _ _).
  assert (play_ok env s1) as H1.
  { pose proof (hud_step_ok empty_slot (HLogin p) (ps_hud s) (bo_hud _ _ Hb)). destruct Ha, Hb. split; by split. }
  apply (ok_enter configuration (PacketLogin_world_state p)) in H1. unfold bind, modify.
  destruct (enter_world _ _ s1) as [[u|e] s2]; [by apply ok_emit|done].
Qed.

Lemma ok_respawn configuration p env s : play_ok env s → play_ok env (on_respawn_packet configuration p s).2.
Proof.
  intros [Ha Hb]. unfold on_respawn_packet, bind, modify. apply ok_enter.
  pose proof (hud_step_ok empty_slot (HRespawn p) (ps_hud s) (bo_hud _ _ Hb)). destruct Ha, Hb. split; by split.
Qed.

(** *** Every packet *)

(** [m] keeps the state well formed. *)
Definition tidy {A} (m : M State PlayError A) : Prop := ∀ env s, play_ok env s → play_ok env (m s).2.

Lemma tidy_dec {A B} (d : Read A) payload (k : A → M State PlayError B) :
  (∀ a, tidy (k a)) → tidy (let* a := dec d payload in k a).
Proof. intros Hk env s Hs. unfold dec, bind, lift. destruct (decode_payload d payload); [by apply Hk|done]. Qed.

Lemma tidy_then_true {A} (m : M State PlayError A) : tidy m → tidy (m ;;; ret true).
Proof. intros Hm env s Hs. specialize (Hm env s Hs). unfold bind. by destruct (m s) as [[a|e] s']. Qed.

Lemma tidy_fold {A} (d : Read A) payload f : (∀ p env s, play_ok env s → play_ok env (f p s)) → tidy (fold_packet d payload f).
Proof. intros Hf. apply tidy_dec. intros p env s. apply Hf. Qed.

Lemma apply_tracked_tidy configuration id payload : tidy (apply_tracked_packet empty_slot wire_Slot configuration id payload).
Proof.
  unfold apply_tracked_packet. cbv zeta.
  repeat match goal with |- tidy (if ?b then _ else _) => destruct b end;
    try (apply tidy_fold; intros p env s Hs;
         eauto using ok_health, ok_experience, ok_velocity, ok_held_slot, ok_player_inventory, ok_info, ok_remove, ok_time, ok_game_state).
  - apply tidy_dec. intros p. apply tidy_then_true. intros env s. apply ok_login.
  - apply tidy_dec. intros p. apply tidy_then_true. intros env s. apply ok_respawn.
  - apply ok_emit. by apply (ok_on_entities (OpSpawn p)).
  - apply ok_emit_all. by apply (ok_on_entities (OpDestroy p)).
  - by apply (ok_on_entities (OpRelMove p)).
  - by apply (ok_on_entities (OpMoveLook p)).
  - by apply (ok_on_entities (OpLook p)).
  - by apply (ok_on_entities (Entity.OpTeleport p)).
  - by apply (ok_on_entities (OpSyncPosition p)).
  - by apply (ok_on_entities (OpHeadRotation p)).
  - by apply (ok_on_inventory (OpOpenWindow (PacketOpenWindow_window_id p) (PacketOpenWindow_inventory_type p) (PacketOpenWindow_window_title p))).
  - by apply (ok_on_inventory (OpCloseWindow (PacketCloseWindow_window_id p))).
  - by apply (ok_on_inventory (OpWindowItems (wi_window_id p) (wi_state_id p) (wi_items p) (wi_carried_item p))).
  - by apply (ok_on_inventory (OpSetSlot (ss_window_id p) (ss_state_id p) (ss_slot p) (ss_item p))).
  - by apply (ok_on_inventory (OpSetCursorItem p)).
  - by apply (ok_on_inventory (OpCraftProgressBar (PacketCraftProgressBar_window_id p) (PacketCraftProgressBar_property p) (PacketCraftProgressBar_value p))).
  - by intros env s Hs.
Qed.

Lemma try_optional_tidy {U} (decoded : result ProtocolError (option U)) f otherwise :
  (∀ u env s, play_ok env s → play_ok env (f u s)) → tidy otherwise → tidy (try_optional decoded f otherwise).
Proof. intros Hf Ho env s Hs. unfold try_optional. destruct decoded as [[u|]|e]; [by apply Hf|by apply Ho|done]. Qed.

Lemma apply_state_tidy configuration id payload : tidy (apply_state_packet empty_slot wire_Slot configuration id payload).
Proof.
  unfold apply_state_packet. repeat apply try_optional_tidy;
    eauto using ok_apply_presentation, ok_apply_scoreboard, ok_apply_hud, apply_tracked_tidy.
Qed.

(** ** The session *)

(** [m] keeps the invariant when run at [x]. *)
Definition holds {A} (m : M Sess PlayError A) x : Prop := session_ok x → session_ok (m x).2.

(** A computation that leaves what the invariant is about alone. *)
#[local] Hint Extern 0 (holds _ _) => (let H := fresh in intros H; exact H) : core.

Lemma holds_bind {A B} (m : M Sess PlayError A) (k : A → M Sess PlayError B) x :
  holds m x → (∀ a x', holds (k a) x') → holds (bind m k) x.
Proof. unfold holds, bind. intros Hm Hk Hx. specialize (Hm Hx). destruct (m x) as [[a|e] x']; [by apply Hk|done]. Qed.

Lemma holds_gets {A B} (f : Sess → A) (k : A → M Sess PlayError B) x : holds (k (f x)) x → holds (bind (gets f) k) x.
Proof. done. Qed.

Lemma holds_link {A} (m : M C MineRiderError A) x : holds (on_link m) x.
Proof. unfold holds, on_link. by destruct (m (se_conn x)). Qed.

Lemma holds_link_bind {A B} (m : M C MineRiderError A) (k : A → M Sess PlayError B) x :
  (∀ a c, holds (k a) (put_conn c x)) → holds (bind (on_link m) k) x.
Proof. unfold holds, bind, on_link. intros Hk Hx. destruct (m (se_conn x)) as [[a|e] c]; [by apply Hk|done]. Qed.

Lemma holds_update f x : (session_ok x → play_ok (se_env x) (f (se_play x))) → holds (update f) x.
Proof. intros Hf Hx. split; [by apply Hf|apply Hx]. Qed.

Lemma holds_update_bind {B} f (k : unit → M Sess PlayError B) x :
  (session_ok x → play_ok (se_env x) (f (se_play x))) → holds (k tt) (put_play (f (se_play x)) x) → holds (bind (update f) k) x.
Proof. intros Hf Hk Hx. apply Hk. split; [by apply Hf|apply Hx]. Qed.

Lemma holds_dec {A B} (d : Read A) payload (k : A → M Sess PlayError B) x :
  (∀ a, decode_payload d payload = Ok a → holds (k a) x) → holds (let* a := dec d payload in k a) x.
Proof. intros Hk Hx. unfold dec, bind, lift. destruct (decode_payload d payload); [by apply Hk|done]. Qed.

Lemma holds_world lost op x : op_fits op → holds (on_world (apply_op lost op)) x.
Proof.
  intros Hop [[Ha Hb] He]. unfold on_world. destruct (ps_world (se_play x)) as [w|] eqn:Hw; [|by split_and!].
  pose proof (apply_op_safe lost op Hop w (se_env x) He (bo_world _ _ Hb w Hw)) as Hs.
  destruct (apply_op lost op (w, se_env x)) as [r [w' env']]. destruct Hs as (He' & Hd & Hw').
  destruct Ha as [Ha1 Ha2 Ha3 Ha4 Ha5 Ha6 Ha7 Ha8], Hb. split; [|done]. split; split; simpl; try done.
  - rewrite Ha7, Hw. simpl. by rewrite Hd.
  - intros [? _]%Ha8. by eauto.
  - by intros w0 [= <-].
Qed.

(** *** Packets *)

Lemma decode_records payload p : decode_payload decode_multi_block_change payload = Ok p → op_fits (OpMultiBlockChange p).
Proof.
  unfold decode_payload. intros H. simpl.
  assert (yields decode_multi_block_change (λ p, Forall (in_i 32) (records p))) as Hy.
  { unfold decode_multi_block_change. eapply (yields_bind _ _ (λ _, True)); [by intros ? ? ? _|]. intros [[cx cz] cy] _.
    eapply yields_bind; [|intros l Hl; apply yields_ret; exact Hl].
    unfold read_array. eapply (yields_bind _ _ (λ _, True)); [by intros ? ? ? _|]. intros len _. destruct (len <? 0); [apply yields_raise|].
    eapply (yields_bind _ _ (λ _, True)); [by intros ? ? ? _|]. intros rem _. destruct (_ <? len); [apply yields_raise|].
    intros r l r' Hl. eapply yields_repeat_m; [|exact Hl]. intros r0 v r1. apply read_varint_range. }
  destruct (decode_multi_block_change (new_reader payload)) as [[p'|e] r] eqn:Hd; simplify_eq/=. by eapply Hy.
Qed.

Lemma position_holds p x : holds (on_position_packet p) x.
Proof.
  unfold on_position_packet. apply holds_update_bind.
  { intros [[Ha Hb] He]. destruct Ha, Hb. split; split; simpl; try done. intros H%ag_loaded0. by split; [|apply H]. }
  apply holds_link_bind. intros [] c. apply holds_gets. destruct (teleport_ack_movement _) as [ack player] eqn:Ht.
  apply holds_update_bind; [|apply holds_link]. intros [Hs _]. apply ok_player; [done|].
  unfold teleport_ack_movement in Ht. apply pair_equal_spec in Ht as [_ <-]. done.
Qed.

Lemma batch_finished_holds now p x : holds (on_batch_finished now p) x.
Proof.
  unfold on_batch_finished. apply holds_gets. apply holds_update_bind; [intros [Hs _]; by apply ok_batch_started|].
  destruct (record_batch _ _ _) as [calculator|]; [|done].
  apply holds_update_bind; [intros [Hs _]; by apply ok_batch|apply holds_link].
Qed.

Lemma kick_holds payload x : holds (on_kick payload) x.
Proof.
  unfold on_kick. destruct (run_reader _ _) as [[u|]|e]; [|done|done].
  apply holds_update_bind; [intros [Hs _]; by apply ok_apply_presentation|done].
Qed.

Lemma clientbound_holds m accept packet x : holds (handle_clientbound empty_slot wire_Slot L m accept packet) x.
Proof.
  unfold handle_clientbound. cbv zeta.
  repeat match goal with |- holds (if ?b then _ else _) _ => destruct b end; try (apply holds_dec; intros p Hp); try apply holds_link.
  - apply holds_update. intros [Hs _]. unfold on_custom_payload. case_bool_decide; [|done].
    destruct (run_reader _ _); [by apply ok_brand|done].
  - apply position_holds.
  - apply holds_update. intros [Hs _]. by apply ok_batch_started.
  - apply batch_finished_holds.
  - apply holds_gets. destruct (ps_world (se_play x)); [by apply (holds_world (at_lost m) (OpMapChunk p))|done].
  - by apply (holds_world (at_lost m) (OpUnloadChunk (PacketUnloadChunk_chunk_x p) (PacketUnloadChunk_chunk_z p))).
  - by apply (holds_world (at_lost m) (OpBlockChange p)).
  - by apply (holds_world (at_lost m) (OpTileEntityData p)).
  - by apply (holds_world (at_lost m) (OpUpdateLight p)).
  - done.
  - apply (holds_world (at_lost m) (OpMultiBlockChange p)). by eapply decode_records.
  - apply kick_holds.
  - apply holds_gets. apply holds_bind; [|done]. intros [Hs He]. unfold on_state.
    pose proof (apply_state_tidy (se_configuration x) (pkt_id packet) (pkt_payload packet) _ _ Hs) as H.
    destruct (apply_state_packet _ _ _ _ _ _) as [r s]. by split.
Qed.

(** *** Commands *)

Lemma draw_sequence_holds x : holds draw_sequence x.
Proof. intros [Hs He]. split; [|done]. by apply ok_sequence. Qed.

Lemma holds_inventory op f x : (∀ i, (f i).2 = run_op empty_slot op i) → holds (update (on_inventory f)) x.
Proof. intros Hf. apply holds_update. intros [Hs _]. by apply (ok_on_inventory op). Qed.

Lemma inventory_click_holds request x : holds (send_inventory_click wire_Slot request) x.
Proof.
  unfold send_inventory_click. apply holds_gets. cbv zeta.
  set (creative := match game_mode (ps_hud (se_play x)) with Creative => true | _ => false end).
  pose proof (run_op_ok empty_slot (OpPrepareClick request (ps_clock (se_play x)) creative) (ps_inventory (se_play x))) as Hp. simpl in Hp.
  destruct (prepare_click _ _ _ _) as [[[packet e]|error] inventory].
  - apply holds_update_bind; [intros [Hs _]; apply ok_emit_all, ok_inventory; [done|apply Hp, Hs]|].
    apply holds_link_bind. intros [] c. by apply (holds_inventory (OpMarkSent (transaction_id request))).
  - pose proof (run_op_ok empty_slot (OpReject (transaction_id request) error) inventory) as Hr. cbn [run_op] in Hr.
    destruct (reject_transaction _ _ _) as [e inventory']. apply holds_update. intros [Hs _]. apply ok_emit_all, ok_inventory; [done|].
    apply Hr, Hp, Hs.
Qed.

Lemma apply_command_ok m command env s : play_ok env s → play_ok env (apply_command L m command s).
Proof.
  intros Hs. assert (∀ c, play_ok env (with_controller (controller_apply (lib_seed L) (at_entropy m) (lib_range L) c (ps_controller s)) s)) as H.
  { intros c. apply ok_controller; [done|]. apply controller_apply_keys, Hs. }
  unfold apply_command. destruct command; try apply H. by apply ok_player.
Qed.

Lemma command_holds m command x : holds (handle_command wire_Slot L m command) x.
Proof.
  assert (∀ status bx y z face, holds (send_block_dig status bx y z face) x) as Hdig.
  { intros. unfold send_block_dig. apply holds_bind; [apply draw_sequence_holds|]. intros n x'. apply holds_link. }
  unfold handle_command. destruct command;
    lazymatch goal with
    | |- holds (update _) _ => apply holds_update; intros [Hs _]; by apply apply_command_ok
    | |- holds (send_outbound_chat_action _ _) _ =>
        unfold send_outbound_chat_action, lift, bind, holds; destruct (encode_outbound_chat_action _ _ _); [apply holds_link|done]
    | |- holds (send_swing _) _ => apply holds_link
    | |- holds (send_interact_entity _ _ _) _ => apply holds_link
    | |- holds (send_attack_entity _ _) _ => apply holds_link
    | |- holds (send_interact_at_entity _ _ _ _ _ _) _ => apply holds_link
    | |- holds send_release_item _ => apply Hdig
    | |- holds (send_dig_block _ _ _ _ _) _ => apply Hdig
    | |- holds (send_drop_item _) _ => apply Hdig
    | |- holds send_swap_hands _ => apply Hdig
    | _ => idtac
    end.
  - apply inventory_click_holds.
  - apply holds_bind; [apply draw_sequence_holds|]. intros n x'. apply holds_gets, holds_link.
  - apply holds_link_bind. intros [] c. by apply (holds_inventory (OpSelectHotbarSlot slot)).
  - apply holds_bind; [apply draw_sequence_holds|]. intros n x'. apply holds_link.
  - unfold send_close_gui. apply holds_gets. destruct (open_win _) as [w|]; [|done].
    apply holds_link_bind. intros [] c. by apply (holds_inventory (OpCloseWindow (win_id w))).
Qed.

(** *** Ticks *)

Lemma drive_keys c p : keys_ok c → keys_ok (drive (lib_range L) (lib_range_f32 L) (lib_atan2 L) c p).1.
Proof.
  assert (∀ c p, keys_ok c → keys_ok (tick_random_look (lib_range L) (lib_range_f32 L) c p).1) as Hlook.
  { intros c' p' Hc. unfold tick_random_look. destruct (random_look c') as [state|]; [|done]. destruct (0 <? _); [done|].
    destruct (choose_look _ _ _ _) as [[yaw pitch] rng]. by destruct (random_interval_ticks _ _ _). }
  intros Hc. unfold drive. destruct (goal c) as [[tx tz]|]; [|by apply Hlook]. destruct (d_le _ _); by apply Hlook.
Qed.

Lemma step_player_holds x : holds (step_player L) x.
Proof.
  intros [Hs He]. unfold step_player. destruct (ps_world (se_play x)) as [w|]; [|by split].
  pose proof (drive_vital L (ps_controller (se_play x)) (ps_player (se_play x))) as Hd.
  pose proof (drive_keys (ps_controller (se_play x)) (ps_player (se_play x)) (bo_keys _ _ (proj2 Hs))) as Hk.
  destruct (drive _ _ _ _ _) as [controller p1]. pose proof (tick_physics_vital L w (se_env x) p1) as Ht.
  destruct (tick_physics _ _ w (se_env x) p1) as [r p2]. cbn [fst snd] in *. split; [|done].
  cbn [se_play se_env put_play snd]. apply ok_player; [by apply ok_controller|]. by rewrite Ht.
Qed.

Lemma tick_holds x : holds (handle_tick L) x.
Proof.
  unfold handle_tick. apply holds_update_bind; [intros [Hs _]; by apply (ok_on_inventory (OpExpire (ps_clock (se_play x))))|].
  apply holds_gets. set (x1 := put_play _ x). destruct (is_alive _); cbn [negb].
  2: { destruct (ps_respawn_pending _); [done|]. apply holds_link_bind. intros [] c. apply holds_update. intros [Hs _].
       by apply ok_respawn_pending. }
  destruct (ready_to_load (se_play x1)) eqn:Hr.
  - apply holds_link_bind. intros [] c. apply holds_update. intros [[Ha Hb] _]. apply ok_emit.
    unfold ready_to_load in Hr. apply andb_true_iff in Hr as [[_ Hp]%andb_true_iff Hw].
    destruct Ha, Hb. split; split; try done. intros _. split; [exact Hp|]. cbn [put_conn se_play with_player ps_world].
    destruct (ps_world (se_play x1)); [by eauto|done].
  - apply holds_bind; [apply step_player_holds|]. intros [] x2. apply holds_bind.
    { unfold send_player_input_if_changed. apply holds_gets. destruct (negb _); [done|]. destruct (_ =? _); [done|].
      apply holds_update_bind; [intros [Hs _]; by apply ok_last_input|apply holds_link]. }
    intros [] x3. apply holds_bind.
    { unfold send_movement. apply holds_gets. pose proof (movement_packet_vital (ps_player (se_play x3))) as Hv.
      destruct (movement_packet _) as [packet player]. apply holds_update_bind; [intros [Hs _]; by apply ok_player|].
      destruct packet; [apply holds_link|done]. }
    intros [] x4. apply holds_gets. destruct (loaded _); [apply holds_link|done].
Qed.

(** *** Every input *)

Lemma step_holds settings m input x : holds (play_step empty_slot wire_Slot L settings m input) x.
Proof.
  destruct input as [|command|]; unfold play_step.
  - apply holds_link_bind. intros packet c. destruct (pkt_id packet =? _).
    + unfold reconfigure. apply holds_link_bind. intros [] c1. apply holds_link_bind. intros [] c2. apply holds_bind; [done|].
      intros [] x1. apply holds_link_bind. intros dims c3 [Hs He]. split; [|done]. apply ok_events, play_state_new_ok.
    + intros Hx. apply (clientbound_holds m (accept_resource_packs settings) packet) in Hx. unfold then_publish.
      by destruct (handle_clientbound _ _ _ _ _ _ _) as [r x1].
  - apply holds_gets. destruct (se_control_open x); [|done]. apply holds_bind; [|done].
    destruct command; [apply command_holds|done].
  - apply holds_update_bind; [intros [Hs _]; by apply ok_clock|]. apply holds_bind; [apply tick_holds|done].
Qed.

Lemma run_holds settings inputs x : holds (run_play empty_slot wire_Slot L settings inputs) x.
Proof.
  revert x. induction inputs as [|[m i] inputs IH]; intros x; [done|]. apply holds_bind; [apply step_holds|]. intros [] x'. apply IH.
Qed.
End session.

(** C4. Whatever the server sends, the owner commands and the clock does, and
    also after the input that ends the session: every component is within
    its bounds and well formed (inventory, scoreboard, HUD, presentation,
    player list, entities, held keys, the chunks of the world against its
    dimension), and what two components keep they agree on: the HUD and the
    player on entity id, vitals and experience, the HUD and the play state on
    the time of day and the rain, the world and the dimension, and a loaded
    player has a world and a position the server gave it. *)
Theorem session_consistent {J Slot Rng C} (empty_slot : Slot) (wire_Slot : Codec Slot) (L : Library Rng) `{!Link C}
    (settings : PlayClientSettings) (inputs : list (Moment Rng * Input))
    (c : C) (env : Env) (configuration : list DimensionType) (sharing : option ServerIdentity) :
  env_ok env →
  session_ok empty_slot
    (run_play (J := J) empty_slot wire_Slot L settings inputs (session_new empty_slot c env configuration sharing)).2.
Proof. intros He. apply run_holds. split; [apply play_state_new_ok|exact He]. Qed.

Lemma session_consistent_witness :
  session_ok tt (run_play tt test_slot test_library (mkSettings 12 false) test_inputs test_session).2
  ∧ sn_tick <$> se_published (run_play tt test_slot test_library (mkSettings 12 false) test_inputs test_session).2 = Some 1.
Proof.
  split; [|by vm_compute]. apply (session_consistent tt test_slot test_library (mkSettings 12 false) test_inputs). apply env_ok_new; lia.
Defined.
