(* ===== verification/PlayErrors.v ===== *)
(** * What ends a session and what does not

    Packets that only decorate the display can be malformed without ending
    the session, and sample sessions that show where the play loop does less
    than its comments say. *)

From S2P Require Import Prelude Machine Float Reader Varint Utf8 Buffer Wire Nbt PacketTypes PlayPackets PlayPacketsOut Text Entity Players ChunkBatch Codec Errors Connection Link ResourcePack Inventory Scoreboard ScoreboardWire Hud HudWire Presentation PresentationWire Event Dimension Join Palette Chunk ChunkStore World Physics Control Player Steering PlayWire Play PlayProtocol.

Local Open Scope Z_scope.

(** The packets of the presentation (a kick apart), the scoreboard and the
    HUD that only those components read. *)
Definition cosmetic_ids : list Z :=
  [CLIENTBOUND_BOSS_BAR_ID; CLIENTBOUND_CLEAR_TITLES_ID; CLIENTBOUND_PROFILELESS_CHAT_ID; CLIENTBOUND_PLAYER_CHAT_ID;
   CLIENTBOUND_ACTION_BAR_ID; CLIENTBOUND_SET_TITLE_SUBTITLE_ID; CLIENTBOUND_SET_TITLE_TEXT_ID; CLIENTBOUND_SET_TITLE_TIME_ID;
   CLIENTBOUND_SYSTEM_CHAT_ID; CLIENTBOUND_PLAYERLIST_HEADER_ID;
   CLIENTBOUND_RESET_SCORE_ID; CLIENTBOUND_SCOREBOARD_DISPLAY_OBJECTIVE_ID; CLIENTBOUND_SCOREBOARD_OBJECTIVE_ID;
   CLIENTBOUND_TEAMS_ID; CLIENTBOUND_SCOREBOARD_SCORE_ID;
   CLIENTBOUND_DIFFICULTY_ID; CLIENTBOUND_SET_COOLDOWN_ID; CLIENTBOUND_INITIALIZE_WORLD_BORDER_ID; CLIENTBOUND_ABILITIES_ID;
   CLIENTBOUND_DEATH_COMBAT_EVENT_ID; CLIENTBOUND_REMOVE_ENTITY_EFFECT_ID; CLIENTBOUND_WORLD_BORDER_CENTER_ID;
   CLIENTBOUND_WORLD_BORDER_LERP_SIZE_ID; CLIENTBOUND_WORLD_BORDER_SIZE_ID; CLIENTBOUND_WORLD_BORDER_WARNING_DELAY_ID;
   CLIENTBOUND_WORLD_BORDER_WARNING_REACH_ID; CLIENTBOUND_SPAWN_POSITION_ID; CLIENTBOUND_ENTITY_UPDATE_ATTRIBUTES_ID;
   CLIENTBOUND_ENTITY_EFFECT_ID].

Section outcomes.
Context {J Slot Rng C : Type} (empty_slot : Slot) (wire_Slot : Codec Slot) (L : Library Rng) `{!Link C}.
Abbreviation State := (@PlayState J Slot Rng).
Abbreviation Sess := (@Session J Slot Rng C).

(** The first component that takes the packet for its own cannot read it. *)
Definition malformed (id : Z) (payload : list byte) : bool :=
  match run_reader (presentation_decode_update (J := J) id) payload with
  | Err _ => true
  | Ok (Some _) => false
  | Ok None =>
      match decode_update (from_nbt (J := J)) id payload with
      | Err _ => true
      | Ok (Some _) => false
      | Ok None => match run_reader (hud_decode_update (J := J) id) payload with Err _ => true | Ok _ => false end
      end
  end.

Lemma cosmetic_untracked configuration id payload (s : State) :
  id ∈ cosmetic_ids → apply_tracked_packet empty_slot wire_Slot configuration id payload s = (Ok false, s).
Proof. intros H. repeat (apply elem_of_cons in H as [->|H]; [reflexivity|]). by apply elem_of_nil in H. Qed.

Lemma cosmetic_state configuration id payload (s : State) :
  id ∈ cosmetic_ids →
  ∃ handled s', apply_state_packet empty_slot wire_Slot configuration id payload s = (Ok handled, s')
  ∧ (malformed id payload = true → s' = s).
Proof.
  intros Hid. unfold apply_state_packet, malformed, try_optional, bind, modify.
  destruct (run_reader _ payload) as [[u|]|e]; [by eexists _, _| |by eexists _, _].
  destruct (decode_update _ id payload) as [[u|]|e]; [by eexists _, _| |by eexists _, _].
  destruct (run_reader _ payload) as [[u|]|e]; [by eexists _, _| |by eexists _, _].
  rewrite cosmetic_untracked by done. by eexists _, _.
Qed.

Lemma cosmetic_dispatch m accept p (x : Sess) :
  pkt_id p ∈ cosmetic_ids →
  handle_clientbound empty_slot wire_Slot L m accept p x
  = (let* handled := on_state (apply_state_packet empty_slot wire_Slot (se_configuration x) (pkt_id p) (pkt_payload p)) in ret tt) x.
Proof.
  destruct p as [id payload]. cbn [pkt_id pkt_payload]. intros H. unfold handle_clientbound. cbn [pkt_id pkt_payload].
  repeat (apply elem_of_cons in H as [->|H]; [by eval_ids|]). by apply elem_of_nil in H.
Qed.
End outcomes.

(** C39. A packet that only decorates the display (chat, titles, boss bars,
    scoreboards, effects, borders and the like) never ends a session, however
    malformed it is: handling it succeeds, sends nothing, keeps the chunk
    store, and when it cannot be read changes nothing at all. *)
Theorem cosmetic_never_fatal {J Slot Rng C} (empty_slot : Slot) (wire_Slot : Codec Slot) (L : Library Rng) `{!Link C}
    (m : Moment Rng) (accept : bool) (p : RawPacket) (x : Session (J := J) (Slot := Slot) (Rng := Rng) (C := C)) :
  pkt_id p ∈ cosmetic_ids →
  ∃ s, handle_clientbound empty_slot wire_Slot L m accept p x = (Ok tt, put_play s x)
  ∧ (malformed (J := J) (pkt_id p) (pkt_payload p) = true → s = se_play x).
Proof.
  intros Hid. rewrite cosmetic_dispatch by done. unfold bind, on_state.
  destruct (cosmetic_state empty_slot wire_Slot (se_configuration x) (pkt_id p) (pkt_payload p) (se_play x) Hid) as (h & s & -> & Hs).
  by exists s.
Qed.

(** A truncated title: nothing happens. *)
Definition truncated_title : RawPacket := mkPacket CLIENTBOUND_SET_TITLE_TEXT_ID [].

Lemma cosmetic_never_fatal_witness :
  ∃ s, handle_clientbound tt test_slot test_library (test_moment 0) false truncated_title test_session = (Ok tt, put_play s test_session)
  ∧ s = se_play test_session.
Proof.
  destruct (cosmetic_never_fatal tt test_slot test_library (test_moment 0) false truncated_title test_session) as (s & Hh & Hs).
  - unfold cosmetic_ids, truncated_title. simpl. do 6 right. left.
  - exists s. split; [exact Hh|]. apply Hs. by vm_compute.
Defined.

(** ** Sample sessions *)

Definition play_packets (packets : list RawPacket) (inputs : list Input) : list LinkEvent * Session (J := unit) (Slot := unit) (Rng := unit) (C := ScriptLink) :=
  let x := (run_play tt test_slot test_library (mkSettings 12 false) (map (pair (test_moment 0)) inputs)
    (session_new tt (mkScript packets []) no_env [test_dimension] None)).2 in
  (link_log (se_conn x), x).

Definition sent_ids (log : list LinkEvent) : list Z := omap (λ e, match e with Link.Sent id _ => Some id | _ => None end) log.

Definition death_packet : RawPacket := mkPacket CLIENTBOUND_UPDATE_HEALTH_ID [x00; x00; x00; x00; x14; x00; x00; x00; x00].
Definition respawn_packet : RawPacket :=
  mkPacket CLIENTBOUND_RESPAWN_ID
    (match encoded (encode wire_PacketRespawn
       (mkPacketRespawn (mkSpawnInfo 0 "world" 0 SpawnInfoGamemode_Survival 0 false false None 0 63) 0)) with Ok bytes => bytes | Err _ => [] end).

(** The respawn request is meant to be sent once per death, but the respawn
    packet clears the flag without making the player alive: a tick before the
    new health arrives asks again. *)
Example respawn_requested_twice :
  sent_ids (play_packets [death_packet; respawn_packet] [ReadPacket; Ticked; ReadPacket; Ticked]).1
  = [SERVERBOUND_CLIENT_COMMAND_ID; SERVERBOUND_CLIENT_COMMAND_ID].
Proof. by vm_compute. Qed.

(** Selecting a hotbar slot changes the inventory's selection and not the
    HUD's: the two published values disagree until the server sends one. *)
Example hotbar_selection_diverges :
  let s := se_play (play_packets [] [Controlled (Some (SelectHotbarSlot 3))]).2 in
  Inventory.selected_hotbar_slot (ps_inventory s) = 3 ∧ Hud.selected_hotbar_slot (ps_hud s) = 0.
Proof. by vm_compute. Qed.
